(* ===== verification/_CoqProject ===== *)
-Q . S2P
Prelude.v
Buf.v
Buffers.v
Compress.v
Types.v
Errors.v
MessageCodec.v
MessagesData.v
MessagesGroups.v
MessagesTxn.v
MessagesSecurity.v
MessagesShare.v
MessagesRaft.v
MessagesAdmin.v
MessagesBuild.v
ApiKeys.v
Encodability.v
RequestCodec.v
Capabilities.v
ErrorResponse.v
ErrorResponseCorrect.v
Router.v
Text.v
Config.v
ConfigCorrect.v
CodegenSpec.v
CodegenWriter.v
CodegenGenerate.v
CodegenLoop.v
CodegenCorrect.v
CodegenMessages.v
SchemaRegistry.v
SchemaRegistryCorrect.v
Records.v
Partition.v
PartitionCorrect.v
Producers.v
Frame.v
Topics.v
TopicsCorrect.v
Groups.v
GroupsCorrect.v
GroupsSystem.v
GroupsProperties.v
GroupsOrigin.v
Broker.v
Handlers.v
HandlersCorrect.v
Admin.v
AdminCorrect.v
Pagination.v
BrokerSystem.v
GroupHandlers.v
GroupHandlersCorrect.v
Dispatcher.v
AnswerSpec.v
AnswerData.v
AnswerGroups.v
AnswerAdmin.v
DispatcherCorrect.v
AnswersEncode.v
GroupAnswers.v
Connection.v
Server.v
ServerCorrect.v
