(* ===== verification/Prelude.v ===== *)
(** * MemKafka: a verification library of the broker

    MemKafka is a single-node, in-memory Kafka broker with a schema registry.
    This library models the program from the bytes of a connection to the broker
    state and back, and proves what makes it correct.

    ** The program and its model

    A connection ([src/src/kafka/connection.rs]) reads frames; a frame is decoded
    in stages ([codec.rs]), routed by API and version ([request_router.rs]), and
    dispatched ([dispatcher.rs]) to a handler, which reads and changes the shared
    [BrokerState] ([src/src/broker/]) and builds an answer, which is encoded and
    written back.  Handlers are asynchronous functions; each part of the state is
    behind its own lock.

    Bytes and messages:
    - [Prelude]: this file.  Results and panics, machine integers, big-endian
      bytes, and the lemmas the other files share.
    - [Buf], [Types]: [crates/kafka-protocol/src/protocol/buf.rs],
      [types.rs] and the traits of [mod.rs].  A codec marker of the source is a
      value of [Codec T] (encode, computed size, decode); [Lawful] is the
      interface the record and message codecs rely on.  [Buffers]: the traits
      [ByteBuf] and [ByteBufMut] for every buffer type of the source, and that
      they refine the operations on byte lists of [Buf].
    - [Compress]: [crates/kafka-protocol/src/compression/], the codecs around the
      compression libraries and the block format of Snappy.
    - [Errors]: [crates/kafka-protocol/src/error.rs], the whole table.
    - [MessageCodec]: how the generated codecs are put together: fields in
      version ranges, fields that must be unset, sections of tagged fields.
    - [MessagesData], [MessagesGroups], [MessagesTxn], [MessagesSecurity],
      [MessagesShare], [MessagesRaft], [MessagesAdmin]: the generated messages of
      [crates/kafka-protocol/src/messages/], each a record, its default and its
      codec, with the proof that the codec is sound.  [MessagesBuild]: the
      [with_*] setters the broker uses.  [ApiKeys]: [messages.rs], the keys, the
      version ranges, [RequestKind] and [ResponseKind].
    - [Encodability]: when an encoder succeeds, in particular on values that came
      out of a decoder.
    - [Records]: [crates/kafka-protocol/src/records.rs], version-2 record
      batches: the encoder that groups records, back-patches length and
      checksum; the decoder; the header scan the broker validates with.
    - [Frame]: [src/kafka/frame.rs], length-prefixed frames on a byte stream.

    Requests:
    - [RequestCodec]: [src/kafka/codec.rs].  [Capabilities]:
      [capabilities.rs], [api_versions.rs].  [ErrorResponse],
      [ErrorResponseCorrect]: [error_response.rs], the unsupported-version answer
      of every API.  [Router]: [request_router.rs].
    - [Handlers], [HandlersCorrect]: [src/kafka/produce.rs], [fetch.rs],
      [list_offsets.rs], [init_producer_id.rs].
    - [Admin], [AdminCorrect], [Pagination]: [src/kafka/create_topics.rs],
      [metadata.rs], [discovery.rs], [describe_topic_partitions.rs].
    - [GroupHandlers], [GroupHandlersCorrect]: the handlers of the group APIs,
      [find_coordinator.rs], [describe_cluster.rs], [describe_configs.rs].
    - [Dispatcher], [DispatcherCorrect]: [dispatcher.rs]; the handlers of
      [Handlers] and [Admin] get their fields from the whole request here, and
      their answers are put into whole responses.
    - [AnswerSpec]: which response messages are true answers to a request, for
      every API the broker serves, stated on the fields a client reads.
      [AnswerData], [AnswerGroups], [AnswerAdmin]: the handlers keep to it.
    - [AnswersEncode]: that the responses can be encoded.  [GroupAnswers]: the
      same for the responses that repeat the contents of a group.
    - [Connection]: [connection.rs], against the class [DispatcherSpec], which is
      what a connection relies on of the dispatcher, and [session], what a client
      is promised.  A shutdown cancels a request at any of its awaits ([cancel]).
      [Server]: any number of connections that share the broker, their steps
      interleaved in any order ([server.rs], [run_kafka_listener]).
      [ServerCorrect]: the dispatcher is an instance of the class.

    State:
    - [Partition], [PartitionCorrect]: [src/broker/partition.rs], validation of
      produced bytes, offset assignment, idempotent producers, fetches.
    - [Producers]: [src/broker/producers.rs], producer identifiers.
    - [Topics], [TopicsCorrect]: [src/broker/topics.rs], the catalog.
    - [Groups], [GroupsCorrect], [GroupsSystem], [GroupsProperties],
      [GroupsOrigin]: [src/broker/groups.rs], the consumer group coordinator: its
      critical sections, the group invariant, the step relation of concurrent
      calls, what a client is promised, and where the stored strings and bytes
      came from.
    - [Broker]: [src/broker/mod.rs] and the programs handlers are: [prog], a
      computation of atomic steps on the state, with a rely/guarantee [wp].
    - [BrokerSystem]: any number of data and administration requests in flight,
      their atomic steps interleaved in any order.

    Beside the broker:
    - [Text]: trimming, number parsing and splitting of strings.
    - [Config], [ConfigCorrect]: [src/config.rs], addresses and listeners.
    - [SchemaRegistry], [SchemaRegistryCorrect]: [src/schema_registry.rs], the
      store and the HTTP handlers.

    The generator of the messages
    ([crates/kafka-protocol/protocol_codegen/src/]):
    - [CodegenSpec]: [spec.rs], [parse.rs], the command line of [main.rs]: schemas
      and the algebra of version specifications.  [CodegenWriter]:
      [code_writer.rs], [expr.rs].
    - [CodegenGenerate]: [generate.rs], the preparation of a schema and the code
      written for a message.  [CodegenLoop]: that the preparation ends.
      [CodegenCorrect]: what that code comes to in each version.  Run on the schemas of the repository, the model writes the
      checked-in messages up to the layout of [rustfmt].
    - [CodegenMessages]: [generate_messages.rs], a run over all schemas and the
      module file.

    Definitions carry a comment with the file, the lines and the symbol they
    translate.

    ** Conventions

    - A Rust [Result] is [result]; a panic is [None]; [outcome] is both.  A
      theorem that gives a [Some] is a panic-freedom theorem.
    - Integers are [Z] with the width's wrap-around, saturation or checked
      result written out where the code can leave the range; the ranges of
      fields are explicit hypotheses ([in_signed], [in_unsigned]), or follow from
      the fields having been decoded.
    - Strings are byte lists in messages and [string]s in the state.
    - Hash maps are [gmap]s; where the code sorts or takes a minimum of what it
      iterates over, so does the model.
    - A lock's critical section is one function from state to state.  An object
      shared through [Arc] and never replaced in its map is the map's entry.
    - [Instant::now()] is a parameter (a clock), [Notify] a counter of
      notifications.
    - [encode], [compute_size] and [decode] of a generated message are one
      [Codec], built field by field with the version tests of the source.

    ** Code outside the repository

    The CRC-32C routine is the class [Crc32c], a function into 32 bits, with
    the bitwise algorithm of the standard as an instance for the witnesses; the
    compression libraries are classes ([Flate2], [Lz4Lib], [ZstdLib], [Snap]) of
    which it is assumed that decoding undoes encoding and that Snappy keeps to
    the bound it announces, with an instance that stores its input; the record
    codec is proved for any set of compiled-in codecs, the broker has none; the
    case conversions of the crate [inflector] are the class [Inflector], of which
    nothing is assumed; [Uuid::new_v4] is a sequence of identifiers that are not nil
    and do not repeat (class [UniqueUuids], instance [counting_uuids]).  The
    parser of Avro schemas and the extraction of JSON bodies are parameters of
    the registry's handlers; nothing is assumed of them.

    ** Fuel

    Loops without a structural measure run on fuel, and an exhausted loop is
    [None], so that the theorems that exclude [None] also show the fuel is
    enough.  Decoding and validation loops consume at least one byte per
    iteration and get the length of their input; [next_topic_id] draws at most
    two identifiers more than the catalog has topics; reading a frame gets the
    number of bytes it asks for; the binary search and trimming get the length of
    what they search; the loops over Snappy blocks recurse on the bytes left; the
    generator prepares a schema until its structs do not change, which takes at
    most one round more than the references between structs are deep (8 rounds are
    enough for the schemas of the repository); following the
    cursors of a description takes at most one
    page more than there are partitions.  The waiting loops of [join], [sync] and
    [fetch] and the loop of a connection have no bound in the code either: their
    models take a number of rounds, of which the theorems hold for all, and
    answer [None] for a call that still waits; a fetch does not wait beyond the
    round in which its deadline passes.

    ** The theorems

    - Server: serving a connection never panics and implements the sequential
      request-reply protocol, whatever other connections do and wherever a
      shutdown finds it, which may cut off the answer being written; the same
      holds of all connections of a server at once.  Every answer is one that
      [AnswerSpec] allows: its fields are those of the request, or were so of the
      broker while the request was handled, or are so from then on, and an error
      code comes with its cause.
    - Requests: decoding a frame is total and returns a request exactly for a
      header and a body of one API and version with nothing after them, and else
      the error of the first stage that fails; a request survives the way from
      client to broker; a version is served exactly when it is advertised;
      the answer to an unsupported version can always be encoded, and so can the
      answers of the handlers, when the stored batches, the catalog and the
      groups fit the length fields of the protocol.  The one exception is an
      answer that carries a generated member identifier that is too long.
    - Wire format: every message of every API in every version, every primitive
      type and every record set survives a round trip; the decoders return on
      every input; frames are read back whatever the segmentation of the stream,
      and a broken connection never yields a damaged one.
    - Partition log: from the empty log, any sequence of produced byte strings
      keeps consecutive offsets and valid stored batches and never panics;
      validation accepts exactly the concatenations of batches of one producer
      that are well-formed by the byte layout of the format; a retry within the window of five is answered as before and
      stores nothing; the expected sequence counts the records of the producer;
      a fetch returns whole batches, starts at the one that holds the offset,
      makes progress and otherwise keeps to the limit.
    - Catalog and producers: names and identifiers stay in bijection, lookups
      agree after a creation, listing is sorted and complete, producer
      identifiers are never repeated.
    - Groups: under every interleaving and every clock a group stays
      well-formed and no [expect] fails; a generation has one leader and one
      protocol; generations and epochs only advance; members get the
      assignments their leader sent, however many syncs and heartbeats come
      before; commits come from current members and are
      fetched back through the handlers; the background task wakes neither late
      nor in vain, and a rebalance whose deadline has passed ends with exactly the
      members that rejoined.
    - Broker: under every interleaving of requests the state stays well-formed
      and no handler panics, provided partition counts fit an [i32] index; what
      a produce acknowledges is returned by every later fetch at that offset;
      nothing stored is lost; metadata creates the topics it answers for;
      following the cursors of a description lists every partition exactly once.
    - Compression: what is written through a codec is read back through it, block
      by block for Snappy.
    - Generator: in every valid version the generated [encode], [compute_size] and
      [decode] of a struct agree field by field and tag by tag; the preparation of
      a schema ends unless it repeats a name or is circular; a run over the
      schemas ends without panic, and the enumerations and matches of its module
      file have an entry for exactly the APIs with both a request and a response.
    - Registry and configuration: texts and identifiers of schemas stay in
      bijection, versions are numbered without holes and never change, no request
      makes a handler panic; addresses print and parse back, and the fields of a
      listener may come in either order.

    Some of the theorems pin down behaviour that looks unintended: the record
    encoder never writes the timestamp-type bit; a default partition count above
    the [i32] range, which the configuration accepts, makes metadata answers
    panic; the identifier of a new group member can be too long for the answer
    that carries it; two structs of one name keep the generator running for ever;
    peeking through a cursor ignores its position; the negation of an
    expression of the generator keeps the precedence of what it negates.

    ** Not modelled

    Answers with more groups, members, offsets, topics or bytes than a length
    field can count are not shown to be encodable, nor is one with an overlong
    member identifier (its exact bound is shown); an answer that cannot be encoded
    closes the connection.  Of the generated messages the setters the broker does
    not use, the newtypes of identifiers and the conversions between a message and
    the enumeration of all messages are left out.  Sockets, binding of listeners,
    signals, the grace period of the shutdown, task spawning and logging are I/O;
    HTTP, JSON, Avro, the command-line parser of the broker and the compression
    libraries are third-party code.  Of the generator, reading JSON, listing and
    clearing directories and the call of [rustfmt] are left out. *)

From Stdlib Require Export ZArith Lia Strings.Byte.
From stdpp Require Export prelude gmap strings list_numbers numbers.
From stdpp Require Export sorting.
Open Scope Z_scope.

(** ** Errors and panics

    A Rust [Result<A, E>] is [result E A].  A panic of the code ([unwrap],
    [expect], [unreachable!], an index out of range) is [None] of the [option]
    monad: a function whose model returns [option] may panic, and the theorems
    that say it returns [Some] are panic-freedom theorems. *)

Inductive result (E A : Type) : Type :=
| Ok (a : A)
| Err (e : E).
Arguments Ok {E A} a.
Arguments Err {E A} e.

#[global] Instance result_eq_dec {E A : Type} `{EqDecision E, EqDecision A} :
  EqDecision (result E A).
Proof. solve_decision. Defined.

#[global] Instance result_ret {E : Type} : MRet (result E) := λ A a, Ok a.
#[global] Instance result_bind {E : Type} : MBind (result E) :=
  λ A B f r, match r with Ok a => f a | Err e => Err e end.
#[global] Instance result_fmap {E : Type} : FMap (result E) :=
  λ A B f r, match r with Ok a => Ok (f a) | Err e => Err e end.

Definition map_err {E F A : Type} (f : E → F) (r : result E A) : result F A :=
  match r with Ok a => Ok a | Err e => Err (f e) end.

Definition ok_or {E A : Type} (o : option A) (e : E) : result E A :=
  match o with Some a => Ok a | None => Err e end.

Definition is_ok {E A : Type} (r : result E A) : bool :=
  match r with Ok _ => true | Err _ => false end.

(** A computation that may panic, or return [Err], or return a value; [let?]
    is the [?] operator on it, [let!] binds a value whose absence is a panic,
    and [raise] is an early [return Err(..)]. *)
Definition outcome (E A : Type) : Type := option (result E A).

Definition raise {E A : Type} (e : E) : outcome E A := Some (Err e).
Definition value_of {E A : Type} (a : A) : outcome E A := Some (Ok a).

Definition outcome_bind {E A B : Type} (m : outcome E A) (k : A → outcome E B) : outcome E B :=
  match m with
  | None => None
  | Some (Err e) => Some (Err e)
  | Some (Ok a) => k a
  end.

Declare Scope kafka_scope.
Delimit Scope kafka_scope with kafka.
Definition panic_bind {A B : Type} (m : option A) (k : A → option B) : option B :=
  match m with Some a => k a | None => None end.
Notation "'let!' x ':=' m 'in' k" := (panic_bind m (λ x, k))
  (at level 10, x pattern, m at level 100, k at level 200) : kafka_scope.
Notation "'let?' x ':=' m 'in' k" := (outcome_bind m (λ x, k))
  (at level 10, x pattern, m at level 100, k at level 200) : kafka_scope.
Open Scope kafka_scope.

(** ** Machine integers

    A machine integer is a [Z]; the widths of the source appear as the bounds
    below, as wrap-around ([as] casts, [wrapping_*]), or as checked
    ([checked_add]) and saturating arithmetic. *)

Definition in_unsigned (w z : Z) : Prop := 0 ≤ z < 2 ^ w.
Definition in_signed (w z : Z) : Prop := - 2 ^ (w - 1) ≤ z < 2 ^ (w - 1).

Definition wrap_unsigned (w z : Z) : Z := z mod 2 ^ w.
Definition wrap_signed (w z : Z) : Z := (z + 2 ^ (w - 1)) mod 2 ^ w - 2 ^ (w - 1).

Definition i16_max : Z := 32767.
Definition i32_max : Z := 2147483647.
Definition i32_min : Z := -2147483648.
Definition u32_max : Z := 4294967295.
Definition i64_max : Z := 9223372036854775807.
Definition u64_max : Z := 18446744073709551615.
Definition usize_max : Z := 18446744073709551615.

Definition checked_add (limit a b : Z) : option Z :=
  if decide (a + b ≤ limit) then Some (a + b) else None.

Definition saturating_add (limit a b : Z) : Z := Z.min limit (a + b).

Definition saturating_sub (a b : Z) : Z := Z.max 0 (a - b).

(** [usize::try_from] and [u32::try_from] of a signed integer. *)
Definition try_unsigned (z : Z) : option Z :=
  if decide (0 ≤ z) then Some z else None.

(** [i32::try_from] of a [u32] or a [usize]. *)
Definition try_i32 (n : Z) : option Z := if decide (n ≤ i32_max) then Some n else None.

Definition len {A : Type} (l : list A) : Z := Z.of_nat (length l).

(** [&l[first..last]] for a range known to be in bounds. *)
Definition slice {A : Type} (first last : nat) (l : list A) : list A :=
  take (last - first) (drop first l).

(** ** Bytes *)

Definition u8 (b : byte) : Z := Z.of_N (Byte.to_N b).
Definition byte_of_Z (z : Z) : byte :=
  default Byte.x00 (Byte.of_N (Z.to_N (z mod 256))).

#[global] Instance byte_eq_dec : EqDecision byte := Byte.byte_eq_dec.

(** Big-endian bytes of [z mod 2^(8n)], and the unsigned value of bytes. *)
Fixpoint be_bytes (n : nat) (z : Z) : list byte :=
  match n with
  | O => []
  | S n => byte_of_Z (z / 2 ^ (8 * Z.of_nat n)) :: be_bytes n z
  end.

Fixpoint be_val (bs : list byte) : Z :=
  match bs with
  | [] => 0
  | b :: bs => u8 b * 2 ^ (8 * len bs) + be_val bs
  end.

(** ** Lemmas on results and options *)

Create HintDb kafka.
Create Rewrite HintDb kafka.

Lemma result_bind_Ok {E A B : Type} (r : result E A) (f : A → result E B) (b : B) :
  (r ≫= f) = Ok b ↔ ∃ a, r = Ok a ∧ f a = Ok b.
Proof.
  destruct r; unfold mbind, result_bind.
  - split; [eauto|]. by intros (? & [= ->] & ?).
  - split; [done|]. by intros (? & ? & ?).
Qed.

Lemma outcome_bind_inv {E A B : Type} (m : outcome E A) (k : A → outcome E B) b :
  outcome_bind m k = Some (Ok b) → ∃ a, m = Some (Ok a) ∧ k a = Some (Ok b).
Proof. destruct m as [[a|]|]; simpl; [eauto|done|done]. Qed.

(** ** Lemmas on integers *)

Lemma checked_add_Some (limit a b c : Z) :
  checked_add limit a b = Some c ↔ c = a + b ∧ a + b ≤ limit.
Proof. unfold checked_add. case_decide; naive_solver. Qed.

Lemma try_unsigned_Some (z n : Z) : try_unsigned z = Some n ↔ n = z ∧ 0 ≤ z.
Proof. unfold try_unsigned. case_decide; naive_solver. Qed.

Lemma len_nonneg {A : Type} (l : list A) : 0 ≤ len l.
Proof. unfold len. lia. Qed.

Lemma len_nil {A : Type} : len (@nil A) = 0.
Proof. done. Qed.

Lemma len_cons {A : Type} (x : A) (l : list A) : len (x :: l) = 1 + len l.
Proof. unfold len. simpl. lia. Qed.

Lemma len_app {A : Type} (l k : list A) : len (l ++ k) = len l + len k.
Proof. unfold len. rewrite length_app. lia. Qed.

#[export] Hint Rewrite @len_nil @len_cons @len_app : kafka.

Lemma wrap_signed_small (w z : Z) : in_signed w z → 0 < w → wrap_signed w z = z.
Proof.
  unfold in_signed, wrap_signed. intros Hz Hw.
  assert (2 ^ w = 2 * 2 ^ (w - 1)) as Hp.
  { rewrite <- Z.pow_succ_r by lia. f_equal. lia. }
  rewrite Z.mod_small by lia. lia.
Qed.

Lemma wrap_unsigned_small (w z : Z) : in_unsigned w z → wrap_unsigned w z = z.
Proof. unfold in_unsigned, wrap_unsigned. intros. by apply Z.mod_small. Qed.

Lemma wrap_signed_range (w z : Z) : 0 < w → in_signed w (wrap_signed w z).
Proof.
  unfold in_signed, wrap_signed. intros Hw.
  assert (2 ^ w = 2 * 2 ^ (w - 1)) as Hp.
  { rewrite <- Z.pow_succ_r by lia. f_equal. lia. }
  assert (0 < 2 ^ w) by (apply Z.pow_pos_nonneg; lia).
  pose proof (Z.mod_pos_bound (z + 2 ^ (w - 1)) (2 ^ w)). lia.
Qed.

(** A signed reading of the unsigned image of [z] is [z]. *)
Lemma wrap_signed_mod (w z : Z) :
  in_signed w z → 0 < w → wrap_signed w (z mod 2 ^ w) = z.
Proof.
  intros Hz Hw. rewrite <- (wrap_signed_small w z) at 2 by done.
  unfold wrap_signed. f_equal. apply Z.add_mod_idemp_l.
  assert (0 < 2 ^ w) by (apply Z.pow_pos_nonneg; lia). lia.
Qed.

(** [wrap_signed w z] is the only [w]-bit integer congruent to [z]. *)
Lemma wrap_signed_congr (w z : Z) : 0 < w → ∃ k, wrap_signed w z = z + k * 2 ^ w.
Proof.
  intros Hw. assert (0 < 2 ^ w) by (apply Z.pow_pos_nonneg; lia).
  unfold wrap_signed. rewrite Z.mod_eq by lia.
  exists (- ((z + 2 ^ (w - 1)) / 2 ^ w)). lia.
Qed.

Lemma wrap_signed_unique (w z k a : Z) :
  0 < w → in_signed w a → a = z + k * 2 ^ w → wrap_signed w z = a.
Proof.
  intros Hw Ha ->. rewrite <- (wrap_signed_small w _ Ha Hw). unfold wrap_signed.
  assert (0 < 2 ^ w) by (apply Z.pow_pos_nonneg; lia).
  f_equal. replace (z + k * 2 ^ w + 2 ^ (w - 1)) with (z + 2 ^ (w - 1) + k * 2 ^ w) by lia.
  by rewrite Z.mod_add by lia.
Qed.

(** ** Lemmas on bytes *)

Lemma u8_range (b : byte) : 0 ≤ u8 b < 256.
Proof. unfold u8. pose proof (Byte.to_N_bounded b). lia. Qed.

Lemma u8_byte_of_Z (z : Z) : u8 (byte_of_Z z) = z mod 256.
Proof.
  unfold u8, byte_of_Z. pose proof (Z.mod_pos_bound z 256 ltac:(lia)) as Hz.
  destruct (Byte.of_N (Z.to_N (z mod 256))) as [b|] eqn:Hb; simpl.
  - apply Byte.to_of_N in Hb. rewrite Hb. lia.
  - apply Byte.of_N_None_iff in Hb. lia.
Qed.

Lemma byte_of_Z_u8 (b : byte) : byte_of_Z (u8 b) = b.
Proof.
  unfold byte_of_Z. rewrite Z.mod_small by apply u8_range.
  unfold u8. by rewrite N2Z.id, Byte.of_to_N.
Qed.

Lemma byte_of_Z_mod (z : Z) : byte_of_Z (z mod 256) = byte_of_Z z.
Proof. unfold byte_of_Z. by rewrite Z.mod_mod by lia. Qed.

#[global] Instance u8_inj : Inj (=) (=) u8.
Proof. intros a b Hab. by rewrite <- (byte_of_Z_u8 a), Hab, byte_of_Z_u8. Qed.

Lemma length_be_bytes (n : nat) (z : Z) : length (be_bytes n z) = n.
Proof. induction n; simpl; congruence. Qed.

Lemma len_be_bytes (n : nat) (z : Z) : len (be_bytes n z) = Z.of_nat n.
Proof. unfold len. by rewrite length_be_bytes. Qed.

#[export] Hint Rewrite length_be_bytes len_be_bytes : kafka.

Lemma pow256_succ (n : nat) : 2 ^ (8 * Z.of_nat (S n)) = 256 * 2 ^ (8 * Z.of_nat n).
Proof.
  replace (8 * Z.of_nat (S n)) with (8 + 8 * Z.of_nat n) by lia.
  rewrite Z.pow_add_r by lia. done.
Qed.

Lemma be_val_be_bytes (n : nat) (z : Z) :
  be_val (be_bytes n z) = z mod 2 ^ (8 * Z.of_nat n).
Proof.
  induction n as [|n IH]; [by rewrite Z.mod_1_r|].
  cbn [be_bytes be_val]. rewrite len_be_bytes, IH, u8_byte_of_Z, pow256_succ.
  set (p := 2 ^ (8 * Z.of_nat n)).
  assert (0 < p) by (apply Z.pow_pos_nonneg; lia).
  rewrite (Z.mul_comm 256 p), Z.rem_mul_r by lia. lia.
Qed.

Lemma be_val_range (bs : list byte) : 0 ≤ be_val bs < 2 ^ (8 * len bs).
Proof.
  induction bs as [|b bs IH]; [done|].
  cbn [be_val]. unfold len at 3. cbn [length]. rewrite pow256_succ.
  fold (len bs). pose proof (u8_range b). nia.
Qed.

Lemma be_bytes_mod (n : nat) (z : Z) :
  be_bytes n (z mod 2 ^ (8 * Z.of_nat n)) = be_bytes n z.
Proof.
  assert (∀ m, (m ≤ n)%nat → be_bytes m (z mod 2 ^ (8 * Z.of_nat n)) = be_bytes m z)
    as Hm; [|by apply Hm].
  induction m as [|m IH]; intros Hmn; [done|].
  cbn [be_bytes]. rewrite IH by lia. f_equal.
  rewrite <- (byte_of_Z_mod (_ / _)), <- (byte_of_Z_mod (z / _)). f_equal.
  set (d := Z.of_nat n - Z.of_nat m - 1).
  replace (8 * Z.of_nat n) with (8 * Z.of_nat m + 8 + 8 * d) by lia.
  rewrite !Z.pow_add_r by lia. change (2 ^ 8) with 256.
  set (p := 2 ^ (8 * Z.of_nat m)). set (q := 2 ^ (8 * d)).
  assert (0 < p) by (apply Z.pow_pos_nonneg; lia).
  assert (0 < q) by (apply Z.pow_pos_nonneg; lia).
  rewrite <- Z.mul_assoc, (Z.rem_mul_r z p) by lia.
  rewrite (Z.mul_comm p (_ mod _)), Z.div_add by lia.
  rewrite (Z.div_small (z mod p)) by (apply Z.mod_pos_bound; lia).
  rewrite Z.add_0_l, Z.rem_mul_r by lia.
  rewrite (Z.mul_comm 256 (_ mod q)), Z.mod_add by lia.
  by rewrite Z.mod_mod by lia.
Qed.

Lemma be_bytes_be_val (bs : list byte) : be_bytes (length bs) (be_val bs) = bs.
Proof.
  induction bs as [|b bs IH]; [done|].
  cbn [length be_bytes be_val]. pose proof (be_val_range bs) as Hr.
  change (Z.of_nat (length bs)) with (len bs).
  rewrite Z.add_comm, Z.div_add by lia.
  rewrite Z.div_small, Z.add_0_l, byte_of_Z_u8 by lia. f_equal.
  rewrite <- (be_bytes_mod (length bs)).
  change (8 * Z.of_nat (length bs)) with (8 * len bs).
  rewrite Z.mod_add, Z.mod_small by lia. done.
Qed.
