(* ===== verification/Buf.v ===== *)
(** * Byte buffers of the protocol crate

    [src/crates/kafka-protocol/src/protocol/buf.rs]: reading from a [ByteBuf]
    and writing to a [ByteBufMut], gaps included.  A buffer that is read is the
    list of its remaining bytes; a buffer that is written is the list of the
    bytes written so far.  The big-endian accessors ([try_get_i32], [put_i32],
    ...) are those documented for the buffer type. *)

From S2P Require Import Prelude.

(** The errors of the codecs.  An [anyhow] error carries a message for the
    log only; [Bail] keeps its constant part. *)
Inductive anyhow : Type :=
| NotEnoughBytesError
| Utf8Error
| Bail (message : string).

#[global] Instance anyhow_eq_dec : EqDecision anyhow.
Proof. solve_decision. Defined.

(** A decoder consumes a prefix of the remaining bytes. *)
Definition decoder (A : Type) : Type := list byte → result anyhow (A * list byte).

#[global] Instance decoder_ret : MRet decoder := λ A a buf, Ok (a, buf).
#[global] Instance decoder_bind : MBind decoder := λ A B k d buf,
  match d buf with Ok (a, rest) => k a rest | Err e => Err e end.

(** [?] on a result inside a decoder. *)
Definition lift {A : Type} (r : result anyhow A) : decoder A := λ buf,
  match r with Ok a => Ok (a, buf) | Err e => Err e end.

Definition fail_decode {A : Type} (e : anyhow) : decoder A := λ _, Err e.

(** ** Reading *)

(* @ src/crates/kafka-protocol/src/protocol/buf.rs 27-50 ByteBuf::try_peek_bytes *)
Definition try_peek_bytes (first last : nat) (buf : list byte) :
    result anyhow (list byte) :=
  if decide (length buf < last)%nat then Err NotEnoughBytesError
  else Ok (slice first last buf).

(* @ src/crates/kafka-protocol/src/protocol/buf.rs 36-54 ByteBuf::try_get_bytes *)
Definition try_get_bytes (size : Z) : decoder (list byte) := λ buf,
  if decide (len buf < size) then Err NotEnoughBytesError
  else Ok (take (Z.to_nat size) buf, drop (Z.to_nat size) buf).

Definition try_get_uint (n : nat) : decoder Z := λ buf,
  if decide (length buf < n)%nat then Err NotEnoughBytesError
  else Ok (be_val (take n buf), drop n buf).

Definition try_get_int (n : nat) : decoder Z :=
  z ← try_get_uint n; mret (wrap_signed (8 * Z.of_nat n) z).

Definition try_get_u8 : decoder Z := try_get_uint 1.

(** ** Writing *)

Definition put_int (n : nat) (z : Z) (buf : list byte) : list byte :=
  buf ++ be_bytes n z.
Definition put_u8 (z : Z) (buf : list byte) : list byte := put_int 1 z buf.
Definition put_slice (bs : list byte) (buf : list byte) : list byte := buf ++ bs.

(* @ src/crates/kafka-protocol/src/protocol/buf.rs 102-107 Gap *)
Record Gap : Type := mkGap { gap_offset : nat; gap_len : nat }.

(* @ src/crates/kafka-protocol/src/protocol/buf.rs 184-205 ByteBufMut::put_typed_gap *)
Definition put_gap (size : nat) (buf : list byte) : Gap * list byte :=
  (mkGap (length buf) size, buf ++ replicate size Byte.x00).

(* @ src/crates/kafka-protocol/src/protocol/buf.rs 194-210 ByteBufMut::fill_typed_gap *)
Definition fill_gap (gap : Gap) (value : Z) (buf : list byte) : list byte :=
  take (gap_offset gap) buf ++ be_bytes (gap_len gap) value
    ++ drop (gap_offset gap + gap_len gap) buf.

(** ** Lemmas *)

Lemma decoder_bind_Ok {A B : Type} (d : decoder A) (k : A → decoder B) buf a rest :
  d buf = Ok (a, rest) → (d ≫= k) buf = k a rest.
Proof. unfold mbind, decoder_bind. by intros ->. Qed.

Lemma decoder_bind_inv {A B : Type} (d : decoder A) (k : A → decoder B) buf b rest :
  (d ≫= k) buf = Ok (b, rest) →
  ∃ a mid, d buf = Ok (a, mid) ∧ k a mid = Ok (b, rest).
Proof. unfold mbind, decoder_bind. destruct (d buf) as [[a mid]|]; naive_solver. Qed.

Lemma try_get_bytes_app (bs rest : list byte) :
  try_get_bytes (len bs) (bs ++ rest) = Ok (bs, rest).
Proof.
  unfold try_get_bytes, len. rewrite length_app, decide_False by lia.
  by rewrite Nat2Z.id, take_app_length, drop_app_length.
Qed.

Lemma try_get_bytes_inv (size : Z) buf bs rest :
  0 ≤ size → try_get_bytes size buf = Ok (bs, rest) →
  buf = bs ++ rest ∧ len bs = size.
Proof.
  unfold try_get_bytes, len. intros Hs. case_decide; intros [= <- <-].
  rewrite take_drop, length_take. split; [done|lia].
Qed.

Lemma try_get_uint_app (n : nat) (z : Z) (rest : list byte) :
  try_get_uint n (be_bytes n z ++ rest) = Ok (z mod 2 ^ (8 * Z.of_nat n), rest).
Proof.
  unfold try_get_uint.
  rewrite length_app, length_be_bytes, decide_False by lia.
  rewrite take_app_length', drop_app_length' by (by rewrite length_be_bytes).
  by rewrite be_val_be_bytes.
Qed.

Lemma try_get_int_app (n : nat) (z : Z) (rest : list byte) :
  n ≠ O → in_signed (8 * Z.of_nat n) z →
  try_get_int n (be_bytes n z ++ rest) = Ok (z, rest).
Proof.
  intros Hn Hz. unfold try_get_int.
  rewrite (decoder_bind_Ok _ _ _ _ _ (try_get_uint_app n z rest)).
  unfold mret, decoder_ret. rewrite wrap_signed_mod by (done || lia). done.
Qed.

Lemma try_get_uint_inv (n : nat) buf z rest :
  try_get_uint n buf = Ok (z, rest) →
  ∃ bs, buf = bs ++ rest ∧ length bs = n ∧ z = be_val bs.
Proof.
  unfold try_get_uint. case_decide; intros [= <- <-].
  exists (take n buf). rewrite take_drop, length_take. split_and!; [done|lia|done].
Qed.

Lemma try_get_int_inv (n : nat) buf z rest :
  try_get_int n buf = Ok (z, rest) →
  ∃ bs, buf = bs ++ rest ∧ length bs = n ∧ z = wrap_signed (8 * Z.of_nat n) (be_val bs).
Proof.
  intros (u & mid & Hu & [= <- <-])%decoder_bind_inv.
  apply try_get_uint_inv in Hu as (bs & ? & ? & ->). eauto.
Qed.

(** Filling a gap rewrites exactly the bytes the gap reserved. *)
Lemma fill_put_gap (size : nat) (value : Z) (buf body : list byte) :
  let '(gap, buf') := put_gap size buf in
  fill_gap gap value (buf' ++ body) = buf ++ be_bytes size value ++ body.
Proof.
  unfold put_gap, fill_gap. cbn [gap_offset gap_len].
  rewrite <- (app_assoc buf), take_app_length. f_equal. f_equal.
  rewrite <- drop_drop, drop_app_length.
  by rewrite drop_app_length' by (by rewrite length_replicate).
Qed.
