(* ===== verification/Buffers.v ===== *)
(** * The buffer types of the protocol crate

    [src/crates/kafka-protocol/src/protocol/buf.rs]: the traits [ByteBuf] and
    [ByteBufMut] as classes, with one instance per buffer type the source
    implements them for, the provided methods on top of the required ones, and
    the gap types of [define_gap_types!].

    The other files use the list functions of [Buf], in which a buffer is its
    remaining bytes or the bytes written so far.  [ByteBufSpec] and
    [ByteBufMutSpec] say when a buffer type behaves like that, and the theorems
    [try_get_bytes_refines], [try_peek_bytes_refines] and [typed_gap_refines]
    discharge the list functions for every such type.  [Cursor] is no instance
    as far as peeking goes: [cursor_peek_absolute].

    [&mut T] forwards every method to [T] and has no instance of its own.  The
    [None] of a required method is its panic. *)

From S2P Require Import Prelude Buf.

Module Buffers.

(** ** Reading *)

(* @ src/crates/kafka-protocol/src/protocol/buf.rs 21-26 ByteBuf *)
Class ByteBuf (B : Type) : Type := {
  remaining : B → nat;
  peek_bytes : nat → nat → B → option (list byte);
  get_bytes : nat → B → option (list byte * B)
}.

Section provided.
  Context {B : Type} `{ByteBuf B}.

(* @ src/crates/kafka-protocol/src/protocol/buf.rs 27-35 ByteBuf::try_peek_bytes *)
Definition buf_try_peek_bytes (first last : nat) (buf : B) : outcome anyhow (list byte) :=
  if decide (remaining buf < last)%nat then Some (Err NotEnoughBytesError)
  else Ok <$> peek_bytes first last buf.

(* @ src/crates/kafka-protocol/src/protocol/buf.rs 36-44 ByteBuf::try_get_bytes *)
Definition buf_try_get_bytes (size : nat) (buf : B) : outcome anyhow (list byte * B) :=
  if decide (remaining buf < size)%nat then Some (Err NotEnoughBytesError)
  else Ok <$> get_bytes size buf.
End provided.

(** [Index<Range<usize>>] of a slice: out of range panics. *)
Definition index_range (first last : nat) (bs : list byte) : option (list byte) :=
  if decide (first ≤ last ≤ length bs)%nat then Some (slice first last bs) else None.

(** [split_to] and [split_at]. *)
Definition split_to (size : nat) (bs : list byte) : option (list byte * list byte) :=
  if decide (size ≤ length bs)%nat then Some (take size bs, drop size bs) else None.

(** [Bytes], [BytesMut] and [&[u8]] are the bytes they have left. *)
Record Bytes : Type := mkBytes { bytes : list byte }.
Record BytesMut : Type := mkBytesMut { bytes_mut : list byte }.
Record Slice : Type := mkSlice { slice_bytes : list byte }.

(* @ src/crates/kafka-protocol/src/protocol/buf.rs 47-54 Bytes *)
#[export] Instance Bytes_ByteBuf : ByteBuf Bytes := {|
  remaining b := length (bytes b);
  peek_bytes first last b := index_range first last (bytes b);
  get_bytes size b := prod_map id mkBytes <$> split_to size (bytes b)
|}.

(* @ src/crates/kafka-protocol/src/protocol/buf.rs 56-63 BytesMut *)
#[export] Instance BytesMut_ByteBuf : ByteBuf BytesMut := {|
  remaining b := length (bytes_mut b);
  peek_bytes first last b := index_range first last (bytes_mut b);
  get_bytes size b := prod_map id mkBytesMut <$> split_to size (bytes_mut b)
|}.

(* @ src/crates/kafka-protocol/src/protocol/buf.rs 80-89 ByteBuf *)
#[export] Instance Slice_ByteBuf : ByteBuf Slice := {|
  remaining s := length (slice_bytes s);
  peek_bytes first last s := index_range first last (slice_bytes s);
  get_bytes size s :=
    p ← split_to size (slice_bytes s); let '(a, b) := p in Some (a, mkSlice b)
|}.

(** [std::io::Cursor]: the underlying bytes and a position in them. *)
Record Cursor : Type := mkCursor { get_ref : list byte; position : nat }.

(* @ src/crates/kafka-protocol/src/protocol/buf.rs 91-100 Cursor *)
#[export] Instance Cursor_ByteBuf : ByteBuf Cursor := {|
  remaining c := (length (get_ref c) - position c)%nat;
  peek_bytes first last c := index_range first last (get_ref c);
  get_bytes size c :=
    let pos := position c in
    let c := mkCursor (get_ref c) (pos + size) in
    bs ← index_range pos (pos + size) (get_ref c); Some (bs, c)
|}.

(** What the codecs rely on: reading consumes the front of the unread bytes.
    [valid] is the position of a cursor being within its bytes. *)
Class Reads (B : Type) `{ByteBuf B} : Type := {
  unread : B → list byte;
  valid : B → Prop;
  remaining_unread buf : remaining buf = length (unread buf);
  get_unread size buf : valid buf → (size ≤ length (unread buf))%nat →
    ∃ buf', get_bytes size buf = Some (take size (unread buf), buf') ∧ valid buf' ∧
      unread buf' = drop size (unread buf)
}.

(** Peeking looks at the unread bytes. *)
Class Peeks (B : Type) `{Reads B} : Prop :=
  peek_unread first last (buf : B) : valid buf → (first ≤ last ≤ length (unread buf))%nat →
    peek_bytes first last buf = Some (slice first last (unread buf)).

#[local] Ltac reads :=
  intros; cbn in *; unfold index_range, split_to; rewrite ?decide_True by lia;
  cbn; eauto.

#[export] Instance Bytes_Reads : Reads Bytes.
Proof. by exists bytes (λ _, True); reads. Defined.
#[export] Instance BytesMut_Reads : Reads BytesMut.
Proof. by exists bytes_mut (λ _, True); reads. Defined.
#[export] Instance Slice_Reads : Reads Slice.
Proof. by exists slice_bytes (λ _, True); reads. Defined.
#[export] Instance Cursor_Reads : Reads Cursor.
Proof.
  exists (λ c, drop (position c) (get_ref c)) (λ c, position c ≤ length (get_ref c))%nat;
    intros; cbn in *; rewrite ?length_drop in *; [done|].
  unfold index_range. rewrite decide_True by lia. cbn. eexists. split_and!.
  - unfold slice. by replace (position buf + size - position buf)%nat with size by lia.
  - cbn. lia.
  - cbn. by rewrite drop_drop.
Defined.

#[export] Instance Bytes_Peeks : Peeks Bytes.
Proof. unfold Peeks. reads. Qed.
#[export] Instance BytesMut_Peeks : Peeks BytesMut.
Proof. unfold Peeks. reads. Qed.
#[export] Instance Slice_Peeks : Peeks Slice.
Proof. unfold Peeks. reads. Qed.

(** ** Writing *)

(* @ src/crates/kafka-protocol/src/protocol/buf.rs 109-171 define_gap_types *)
Inductive GapType : Type :=
| U8 | I8 | U16 | U16Le | I16 | I16Le | U32 | U32Le | I32 | I32Le
| U64 | U64Le | I64 | I64Le | U128 | U128Le | I128 | I128Le | F32 | F32Le | F64 | F64Le.

(* @ src/crates/kafka-protocol/src/protocol/buf.rs 136-138 GapType::size *)
Definition gap_size (t : GapType) : nat :=
  match t with
  | U8 | I8 => 1
  | U16 | U16Le | I16 | I16Le => 2
  | U32 | U32Le | I32 | I32Le | F32 | F32Le => 4
  | U64 | U64Le | I64 | I64Le | F64 | F64Le => 8
  | U128 | U128Le | I128 | I128Le => 16
  end.

Definition little_endian (t : GapType) : bool :=
  match t with
  | U16Le | I16Le | U32Le | I32Le | U64Le | I64Le | U128Le | I128Le | F32Le | F64Le => true
  | _ => false
  end.

(** The bytes [put_i32] and the like write; a float is given by its bits. *)
Definition value_bytes (t : GapType) (value : Z) : list byte :=
  let bs := be_bytes (gap_size t) value in
  if little_endian t then reverse bs else bs.

(** The slice [buf] afterwards; a slice that is too short panics. *)
(* @ src/crates/kafka-protocol/src/protocol/buf.rs 139-141 GapType::put *)
Definition gap_put (t : GapType) (buf : list byte) (value : Z) : option (list byte) :=
  if decide (gap_size t ≤ length buf)%nat
  then Some (value_bytes t value ++ drop (gap_size t) buf) else None.

(** [range] returns a mutable slice: [update_range] is [range] with what is
    written through it. *)
(* @ src/crates/kafka-protocol/src/protocol/buf.rs 173-182 ByteBufMut *)
Class ByteBufMut (B : Type) : Type := {
  offset : B → nat;
  seek : nat → B → B;
  update_range : nat → nat → (list byte → option (list byte)) → B → option B
}.

Section provided_mut.
  Context {B : Type} `{ByteBufMut B}.

(* @ src/crates/kafka-protocol/src/protocol/buf.rs 184-192 ByteBufMut::put_gap *)
Definition buf_put_gap (n : nat) (buf : B) : Gap * B :=
  let res := {| gap_offset := offset buf; gap_len := n |} in
  (res, seek (gap_offset res + n) buf).

(* @ src/crates/kafka-protocol/src/protocol/buf.rs 194-197 ByteBufMut::gap_buf *)
Definition buf_update_gap (gap : Gap) (f : list byte → option (list byte)) (buf : B) : option B :=
  update_range (gap_offset gap) (gap_offset gap + gap_len gap) f buf.

(* @ src/crates/kafka-protocol/src/protocol/buf.rs 119-123 TypedGap *)
Record TypedGap : Type := mkTypedGap { gap : Gap; type_ : GapType }.

(* @ src/crates/kafka-protocol/src/protocol/buf.rs 199-205 ByteBufMut::put_typed_gap *)
Definition buf_put_typed_gap (t : GapType) (buf : B) : TypedGap * B :=
  let '(g, buf) := buf_put_gap (gap_size t) buf in (mkTypedGap g t, buf).

(* @ src/crates/kafka-protocol/src/protocol/buf.rs 207-210 ByteBufMut::fill_typed_gap *)
Definition buf_fill_typed_gap (g : TypedGap) (value : Z) (buf : B) : option B :=
  buf_update_gap (gap g) (λ bs, gap_put (type_ g) bs value) buf.
End provided_mut.

(** [Vec<u8>] and [BytesMut] grow and shrink by [resize]. *)
Record Vec : Type := mkVec { vec : list byte }.

(** What is written to the slice [first..last] of a byte vector. *)
Definition update_slice (first last : nat) (f : list byte → option (list byte))
    (bs : list byte) : option (list byte) :=
  old ← index_range first last bs;
  new ← f old;
  Some (take first bs ++ new ++ drop last bs).

(* @ src/crates/kafka-protocol/src/protocol/buf.rs 213-223 BytesMut *)
#[export] Instance BytesMut_ByteBufMut : ByteBufMut BytesMut := {|
  offset b := length (bytes_mut b);
  seek n b := mkBytesMut (resize n Byte.x00 (bytes_mut b));
  update_range first last f b := mkBytesMut <$> update_slice first last f (bytes_mut b)
|}.

(* @ src/crates/kafka-protocol/src/protocol/buf.rs 225-235 Vec *)
#[export] Instance Vec_ByteBufMut : ByteBufMut Vec := {|
  offset v := length (vec v);
  seek n v := mkVec (resize n Byte.x00 (vec v));
  update_range first last f v := mkVec <$> update_slice first last f (vec v)
|}.

(** What the encoders rely on: the offset is the number of bytes written,
    seeking resizes with zeros, a range can be overwritten in place. *)
Class Writes (B : Type) `{ByteBufMut B} : Type := {
  written : B → list byte;
  offset_written buf : offset buf = length (written buf);
  seek_written n buf : written (seek n buf) = resize n Byte.x00 (written buf);
  update_written first last f buf :
    written <$> update_range first last f buf = update_slice first last f (written buf)
}.

#[export] Instance BytesMut_Writes : Writes BytesMut.
Proof. exists bytes_mut; [done..|]. intros. cbn. by destruct (update_slice _ _ _ _). Defined.
#[export] Instance Vec_Writes : Writes Vec.
Proof. exists vec; [done..|]. intros. cbn. by destruct (update_slice _ _ _ _). Defined.

(** ** The list functions of [Buf] are refined *)

Section refinement.
  Context {B : Type} `{Reads B}.

(** [try_get_bytes] of a lawful buffer never panics and is [Buf.try_get_bytes]
    of its unread bytes. *)
Lemma try_get_bytes_refines (size : nat) (buf : B) :
  valid buf →
  match try_get_bytes (Z.of_nat size) (unread buf) with
  | Err e => buf_try_get_bytes size buf = Some (Err e)
  | Ok (bs, rest) => ∃ buf', buf_try_get_bytes size buf = Some (Ok (bs, buf')) ∧
      valid buf' ∧ unread buf' = rest
  end.
Proof.
  intros Hv. unfold try_get_bytes, buf_try_get_bytes, len. rewrite remaining_unread.
  do 2 case_decide; [done|lia|lia|]. rewrite Nat2Z.id.
  destruct (get_unread size buf) as (buf' & -> & ? & ?); [done|lia|]. eauto.
Qed.

Lemma try_peek_bytes_refines `{!Peeks B} (first last : nat) (buf : B) :
  valid buf → (first ≤ last)%nat →
  buf_try_peek_bytes first last buf = Some (try_peek_bytes first last (unread buf)).
Proof.
  intros Hv Hr. unfold try_peek_bytes, buf_try_peek_bytes. rewrite remaining_unread.
  case_decide; [done|]. by rewrite peek_unread by (done || lia).
Qed.
End refinement.

Section refinement_mut.
  Context {B : Type} `{Writes B}.

Lemma put_gap_refines (n : nat) (buf : B) :
  let '(g, buf') := buf_put_gap n buf in
  put_gap n (written buf) = (g, written buf').
Proof.
  unfold buf_put_gap, put_gap. cbn [gap_offset]. rewrite seek_written, offset_written.
  rewrite resize_ge by lia. repeat f_equal. lia.
Qed.

Lemma length_value_bytes t v : length (value_bytes t v) = gap_size t.
Proof. unfold value_bytes. case_match; by rewrite ?length_reverse, length_be_bytes. Qed.

(** A typed gap that lies within the bytes written is filled in place; for the
    big-endian types that is [Buf.fill_gap]. *)
Lemma fill_typed_gap_refines (g : TypedGap) (v : Z) (buf : B) :
  gap_len (gap g) = gap_size (type_ g) →
  (gap_offset (gap g) + gap_len (gap g) ≤ length (written buf))%nat →
  little_endian (type_ g) = false →
  ∃ buf', buf_fill_typed_gap g v buf = Some buf' ∧
    written buf' = fill_gap (gap g) v (written buf).
Proof.
  intros Hlen Hin Hbe. unfold buf_fill_typed_gap, buf_update_gap, fill_gap.
  set (f := λ bs, gap_put (type_ g) bs v).
  pose proof (update_written (gap_offset (gap g)) (gap_offset (gap g) + gap_len (gap g)) f buf) as Hu.
  unfold update_slice, index_range in Hu. rewrite decide_True in Hu by lia. cbn in Hu.
  unfold f at 2, gap_put, slice in Hu.
  rewrite decide_True in Hu by (rewrite length_take, length_drop; lia). cbn in Hu.
  rewrite drop_ge in Hu by (rewrite length_take, length_drop; lia).
  unfold value_bytes in Hu. rewrite Hbe, app_nil_r, <- Hlen in Hu.
  destruct (update_range _ _ f buf) as [buf'|]; [|done]. injection Hu as Hu. eauto.
Qed.
End refinement_mut.

(** ** A cursor peeks from the start of its bytes

    [Cursor] indexes the underlying bytes with the range itself, not from its
    position on: once something was read, peeking does not look ahead, and a
    peek within the remaining bytes returns bytes that were already consumed. *)
Lemma cursor_peek_absolute (first last : nat) (c : Cursor) :
  (first ≤ last ≤ length (get_ref c) - position c)%nat →
  buf_try_peek_bytes first last c = Some (Ok (slice first last (get_ref c))).
Proof.
  intros Hr. unfold buf_try_peek_bytes. cbn.
  rewrite decide_False by lia. unfold index_range. by rewrite decide_True by lia.
Qed.

Example cursor_peeks_consumed_bytes :
  let c := mkCursor [Byte.x01; Byte.x02; Byte.x03] 2 in
  buf_try_peek_bytes 0 1 c = Some (Ok [Byte.x01]) ∧ unread c = [Byte.x03] ∧ ~ Peeks Cursor.
Proof.
  split_and!; [done..|]. intros Hp.
  specialize (Hp 0%nat 1%nat (mkCursor [Byte.x01; Byte.x02; Byte.x03] 2)).
  cbn in Hp. specialize (Hp ltac:(lia) ltac:(lia)). discriminate.
Qed.
End Buffers.
