(* ===== verification/Compress.v ===== *)
(** * The compression codecs of the protocol crate

    [src/crates/kafka-protocol/src/compression.rs] and
    [compression/{none,gzip,lz4,zstd,snappy}.rs]: the traits [Compressor] and
    [Decompressor] and their five implementations.  The libraries that do the
    compression ([flate2], [lz4], [zstd], [snap]) are not part of the
    repository: each is a class with its functions, and a second class with
    what it documents, that decompressing what it compressed returns the input.

    [snappy.rs] has a format of its own around the library: a magic header and
    blocks of at most 32 KiB, each behind its length, written through gaps that
    are larger than the block and truncated afterwards.  [snappy_compress] and
    [snappy_decompress] are these loops.

    [Lossless] is what the record batches rely on; every codec is an instance. *)

From Equations Require Import Equations.
From S2P Require Import Prelude Buf.

Module Compress.

(** ** The traits *)

(** [F: FnOnce(&mut Self::BufMut) -> Result<R>], which writes to a buffer. *)
Definition writer (R : Type) : Type := list byte → result anyhow (R * list byte).

(** A type that implements both traits.  What [decompress] leaves of the buffer
    it is given is part of its result. *)
(* @ src/crates/kafka-protocol/src/compression.rs 29-47 Compressor *)
Record codec : Type := mkCodec {
  compress (R : Type) (buf : list byte) (f : writer R) : result anyhow (R * list byte);
  decompress (R : Type) (f : decoder R) : decoder R
}.
Arguments compress _ {R} _ _.
Arguments decompress _ {R} _ _.

(** A codec gives the reader what the writer wrote.  [P] is what is known of the
    bytes the closure appends, whatever buffer it is given. *)
Class Lossless (c : codec) : Prop :=
  lossless (R : Type) (P : list byte → Prop) (f : writer R) buf r buf' :
    (∀ b r b', f b = Ok (r, b') → ∃ bytes, b' = b ++ bytes ∧ P bytes) →
    compress c buf f = Ok (r, buf') →
    ∃ bytes out, P bytes ∧ buf' = buf ++ out ∧
      (len bytes ≤ usize_max →
       ∀ (S : Type) (g : decoder S), fst <$> decompress c g out = fst <$> g bytes).

(** ** No compression *)

(* @ src/crates/kafka-protocol/src/compression/none.rs 9-17 None::compress *)
Definition none_compress (R : Type) (buf : list byte) (f : writer R) :
    result anyhow (R * list byte) := f buf.
(* @ src/crates/kafka-protocol/src/compression/none.rs 19-27 None::decompress *)
Definition none_decompress (R : Type) (f : decoder R) : decoder R := f.

Definition none : codec := mkCodec none_compress none_decompress.

(** ** Gzip, LZ4, Zstandard

    Each library compresses a whole input to the bytes it appends to the target
    and decompresses a whole input; errors are those of the library. *)

Class Flate2 : Type := {
  gz_encode : list byte → result anyhow (list byte);
  gz_decode : list byte → result anyhow (list byte)
}.

Inductive BlockMode : Type := Linked | Independent.

Class Lz4Lib : Type := {
  lz4_encode (level : Z) (mode : BlockMode) : list byte → result anyhow (list byte);
  lz4_decode : list byte → result anyhow (list byte)
}.

Class ZstdLib : Type := {
  copy_encode (level : Z) : list byte → result anyhow (list byte);
  copy_decode : list byte → result anyhow (list byte)
}.

(** Documented of all three: the compression is lossless. *)
Class Flate2Spec `{Flate2} : Prop :=
  gz_lossless bs out : gz_encode bs = Ok out → gz_decode out = Ok bs.
Class Lz4Spec `{Lz4Lib} : Prop :=
  lz4_lossless level mode bs out : lz4_encode level mode bs = Ok out → lz4_decode out = Ok bs.
Class ZstdSpec `{ZstdLib} : Prop :=
  zstd_lossless level bs out : copy_encode level bs = Ok out → copy_decode out = Ok bs.

Section streams.
  Context `{Flate2} `{Lz4Lib} `{ZstdLib}.

(* @ src/crates/kafka-protocol/src/compression/gzip.rs 17-34 Gzip::compress *)
Definition gzip_compress (R : Type) (buf : list byte) (f : writer R) :
    result anyhow (R * list byte) :=
  written ← f [];
  let '(res, tmp) := written in
  out ← gz_encode tmp;
  Ok (res, buf ++ out).

(* @ src/crates/kafka-protocol/src/compression/gzip.rs 36-52 Gzip::decompress *)
Definition gzip_decompress (R : Type) (f : decoder R) : decoder R := λ buf,
  tmp ← gz_decode buf;
  match f tmp with Ok (r, _) => Ok (r, []) | Err e => Err e end.

(* @ src/crates/kafka-protocol/src/compression/lz4.rs 14-14 COMPRESSION_LEVEL *)
Definition LZ4_COMPRESSION_LEVEL : Z := 4.

(* @ src/crates/kafka-protocol/src/compression/lz4.rs 16-37 Lz4::compress *)
Definition lz4_compress (R : Type) (buf : list byte) (f : writer R) :
    result anyhow (R * list byte) :=
  written ← f [];
  let '(res, tmp) := written in
  out ← lz4_encode LZ4_COMPRESSION_LEVEL Independent tmp;
  Ok (res, buf ++ out).

(* @ src/crates/kafka-protocol/src/compression/lz4.rs 39-55 Lz4::decompress *)
Definition lz4_decompress (R : Type) (f : decoder R) : decoder R := λ buf,
  tmp ← lz4_decode buf;
  match f tmp with Ok (r, _) => Ok (r, []) | Err e => Err e end.

(* @ src/crates/kafka-protocol/src/compression/zstd.rs 11-11 COMPRESSION_LEVEL *)
Definition ZSTD_COMPRESSION_LEVEL : Z := 3.

(* @ src/crates/kafka-protocol/src/compression/zstd.rs 13-28 Zstd::compress *)
Definition zstd_compress (R : Type) (buf : list byte) (f : writer R) :
    result anyhow (R * list byte) :=
  written ← f [];
  let '(res, tmp) := written in
  out ← copy_encode ZSTD_COMPRESSION_LEVEL tmp;
  Ok (res, buf ++ out).

(* @ src/crates/kafka-protocol/src/compression/zstd.rs 30-45 Zstd::decompress *)
Definition zstd_decompress (R : Type) (f : decoder R) : decoder R := λ buf,
  tmp ← copy_decode buf;
  match f tmp with Ok (r, _) => Ok (r, []) | Err e => Err e end.

Definition gzip : codec := mkCodec gzip_compress gzip_decompress.
Definition lz4 : codec := mkCodec lz4_compress lz4_decompress.
Definition zstd : codec := mkCodec zstd_compress zstd_decompress.
End streams.

(** ** Snappy *)

(** [snap::raw]: [compress] and [decompress] write to the front of the slice
    they are given and return how many bytes they wrote. *)
Class Snap : Type := {
  max_compress_len : nat → nat;
  snap_compress : list byte → list byte → result anyhow (nat * list byte);
  decompress_len : list byte → result anyhow Z;
  snap_decompress : list byte → list byte → result anyhow (nat * list byte)
}.

(** The compressed form of [block], as the library understands it. *)
Definition encodes `{Snap} (enc block : list byte) : Prop :=
  decompress_len enc = Ok (len block) ∧
  ∀ buf, length buf = length block → ∃ n, snap_decompress enc buf = Ok (n, block).

(** Documented of [snap]: [max_compress_len] bytes are enough for an input, and
    fit 32 bits (it is zero for inputs that are too large); what [compress]
    writes decompresses to its input. *)
Class SnapSpec `{Snap} : Prop := {
  max_compress_len_u32 n : Z.of_nat (max_compress_len n) < 2 ^ 32;
  max_compress_len_pos n : Z.of_nat n ≤ 65536 → max_compress_len n ≠ O;
  snap_compress_ok input out :
    max_compress_len (length input) ≠ O → (max_compress_len (length input) ≤ length out)%nat →
    ∃ n out', snap_compress input out = Ok (n, out');
  snap_compress_sound input out n out' :
    snap_compress input out = Ok (n, out') →
    (n ≤ length out)%nat ∧ length out' = length out ∧ encodes (take n out') input
}.

(* @ src/crates/kafka-protocol/src/compression/snappy.rs 18-18 DEFAULT_BLOCK_SIZE *)
Definition DEFAULT_BLOCK_SIZE : nat := Z.to_nat (32 * 1024).
(* @ src/crates/kafka-protocol/src/compression/snappy.rs 20-20 LENGTH_FIELD_LENGTH *)
Definition LENGTH_FIELD_LENGTH : nat := 4.

(* @ src/crates/kafka-protocol/src/compression/snappy.rs 60-60 MAGIC_HEADER *)
Definition MAGIC_HEADER : list byte :=
  byte_of_Z <$> [0x82; 0x53; 0x4e; 0x41; 0x50; 0x50; 0x59; 0; 0; 0; 0; 1; 0; 0; 0; 1].

Lemma block_size_pos : DEFAULT_BLOCK_SIZE ≠ O.
Proof. unfold DEFAULT_BLOCK_SIZE. lia. Qed.

Lemma block_size_small : Z.of_nat DEFAULT_BLOCK_SIZE ≤ 65536.
Proof. unfold DEFAULT_BLOCK_SIZE. lia. Qed.
#[global] Opaque DEFAULT_BLOCK_SIZE.

(** A value with the equation a recursive call needs. *)
Definition inspect {A : Type} (a : A) : {b : A | a = b} := exist _ a eq_refl.

(** [compressed.gap_buf(gap)] and what is written through it. *)
Definition gap_slice (gap : Gap) (buf : list byte) : list byte :=
  slice (gap_offset gap) (gap_offset gap + gap_len gap) buf.
Definition write_gap (gap : Gap) (out buf : list byte) : list byte :=
  take (gap_offset gap) buf ++ out ++ drop (gap_offset gap + gap_len gap) buf.

Section snappy.
  Context `{Snap}.

(** The body of the loop: one block of [uncompressed]. *)
(* @ src/crates/kafka-protocol/src/compression/snappy.rs 33-53 Snappy::compress *)
Definition compress_block (size : nat) (block compressed : list byte) :
    result anyhow (list byte) :=
  let estimated_compressed_block_size := max_compress_len size in
  let '(length_gap, compressed) := put_gap LENGTH_FIELD_LENGTH compressed in
  let block_offset := length compressed in
  let '(compressed_block, compressed) := put_gap estimated_compressed_block_size compressed in
  written ← snap_compress block (gap_slice compressed_block compressed);
  let '(bytes_written, out) := written in
  let compressed := write_gap compressed_block out compressed in
  let compressed := resize (block_offset + bytes_written) Byte.x00 compressed in
  Ok (fill_gap length_gap (wrap_unsigned 32 (Z.of_nat bytes_written)) compressed).

(* @ src/crates/kafka-protocol/src/compression/snappy.rs 32-54 Snappy::compress *)
Equations? compress_blocks (uncompressed compressed : list byte) : result anyhow (list byte)
    by wf (length uncompressed) lt :=
  compress_blocks [] compressed := Ok compressed;
  compress_blocks (b :: bs) compressed
    with compress_block (min (length (b :: bs)) DEFAULT_BLOCK_SIZE)
           (take (min (length (b :: bs)) DEFAULT_BLOCK_SIZE) (b :: bs)) compressed := {
  | Err e => Err e
  | Ok compressed' =>
      compress_blocks (drop (min (length (b :: bs)) DEFAULT_BLOCK_SIZE) (b :: bs)) compressed' }.
Proof. pose proof block_size_pos. rewrite length_drop. cbn [length]. lia. Qed.

(* @ src/crates/kafka-protocol/src/compression/snappy.rs 22-57 Snappy::compress *)
Definition snappy_compress (R : Type) (buf : list byte) (f : writer R) :
    result anyhow (R * list byte) :=
  written ← f [];
  let '(res, uncompressed) := written in
  out ← compress_blocks uncompressed (buf ++ MAGIC_HEADER);
  Ok (res, out).

(** The body of the loop: one block of [compressed], decompressed to the end of
    [uncompressed]. *)
(* @ src/crates/kafka-protocol/src/compression/snappy.rs 99-119 Snappy::decompress *)
Definition decompress_block (uncompressed : list byte) : decoder (list byte) :=
  compressed_block_size ← try_get_uint 4;
  compressed_block ← try_get_bytes compressed_block_size;
  uncompressed_block_length ← lift (decompress_len compressed_block);
  let uncompressed_block_start := length uncompressed in
  let uncompressed :=
    resize (Z.to_nat (saturating_add usize_max (Z.of_nat uncompressed_block_start)
      uncompressed_block_length)) Byte.x00 uncompressed in
  written ← lift (snap_decompress compressed_block (drop uncompressed_block_start uncompressed));
  mret (take uncompressed_block_start uncompressed ++ written.2).

Lemma decompress_block_consumes u buf u' rest :
  decompress_block u buf = Ok (u', rest) → (length rest < length buf)%nat.
Proof.
  intros (n & b1 & Hn & (enc & b2 & Henc & Hrest)%decoder_bind_inv)%decoder_bind_inv.
  apply try_get_uint_inv in Hn as (bs & -> & Hbs & ->).
  apply try_get_bytes_inv in Henc as [-> _]; [|apply be_val_range].
  apply decoder_bind_inv in Hrest as (m & b3 & Hm & (out & b4 & Hout & Hret)%decoder_bind_inv).
  unfold lift in Hm, Hout. destruct (decompress_len enc); [|done]. injection Hm as <- <-.
  destruct (snap_decompress _ _); [|done]. injection Hout as <- <-. injection Hret as _ <-.
  rewrite !length_app. lia.
Qed.

(* @ src/crates/kafka-protocol/src/compression/snappy.rs 98-120 Snappy::decompress *)
Equations? decompress_blocks (compressed uncompressed : list byte) : result anyhow (list byte)
    by wf (length compressed) lt :=
  decompress_blocks [] uncompressed := Ok uncompressed;
  decompress_blocks (b :: bs) uncompressed with inspect (decompress_block uncompressed (b :: bs)) := {
  | exist _ (Err e) _ => Err e
  | exist _ (Ok (uncompressed', rest)) Hd => decompress_blocks rest uncompressed' }.
Proof. apply decompress_block_consumes in Hd. simpl in *. lia. Qed.

(** Plain Snappy, without the framing. *)
(* @ src/crates/kafka-protocol/src/compression/snappy.rs 84-91 Snappy::decompress *)
Definition decompress_raw (compressed : list byte) : result anyhow (list byte) :=
  actual_len ← decompress_len compressed;
  written ← snap_decompress compressed (replicate (Z.to_nat actual_len) Byte.x00);
  Ok written.2.

(* @ src/crates/kafka-protocol/src/compression/snappy.rs 62-124 Snappy::decompress *)
Definition snappy_decompress (R : Type) (f : decoder R) : decoder R := λ compressed,
  match compressed with
  | [] => Err (Bail "expected some bytes in snappy stream")
  | _ =>
      uncompressed ←
        (if decide (try_peek_bytes 0 (length MAGIC_HEADER) compressed = Ok MAGIC_HEADER)
         then decompress_blocks (drop (length MAGIC_HEADER) compressed) []
         else decompress_raw compressed);
      match f uncompressed with Ok (r, _) => Ok (r, []) | Err e => Err e end
  end.

Definition snappy : codec := mkCodec snappy_compress snappy_decompress.
End snappy.

(** ** The codecs are lossless *)

#[export] Instance none_lossless : Lossless none.
Proof.
  intros R P f buf r buf' Hf Hc. destruct (Hf _ _ _ Hc) as (bytes & -> & HP). by exists bytes, bytes.
Qed.

(** A codec that compresses what the closure wrote to an empty buffer. *)
Definition buffered (enc dec : list byte → result anyhow (list byte)) : codec :=
  mkCodec
    (λ R buf f, written ← f []; let '(res, tmp) := written in out ← enc tmp; Ok (res, buf ++ out))
    (λ R f buf, tmp ← dec buf; match f tmp with Ok (r, _) => Ok (r, []) | Err e => Err e end).

Lemma buffered_lossless enc dec :
  (∀ bs out, enc bs = Ok out → len bs ≤ usize_max → dec out = Ok bs) →
  Lossless (buffered enc dec).
Proof.
  intros Hcodec R P f buf r buf' Hf Hc. cbn in Hc.
  destruct (f []) as [[res tmp]|] eqn:Hfe; [|done]. cbn in Hc.
  destruct (enc tmp) as [out|] eqn:Henc; [|done]. injection Hc as -> <-.
  destruct (Hf _ _ _ Hfe) as (bytes & -> & HP). exists bytes, out. split_and!; [done..|].
  intros Hlen S g. cbn. rewrite (Hcodec _ _ Henc) by done. cbn. by destruct (g bytes) as [[]|].
Qed.

#[export] Instance gzip_is_lossless `{Flate2Spec} : Lossless gzip.
Proof. apply (buffered_lossless gz_encode gz_decode). intros. by apply gz_lossless. Qed.
#[export] Instance lz4_is_lossless `{Lz4Spec} : Lossless lz4.
Proof.
  apply (buffered_lossless (lz4_encode LZ4_COMPRESSION_LEVEL Independent) lz4_decode).
  intros. by eapply lz4_lossless.
Qed.
#[export] Instance zstd_is_lossless `{ZstdSpec} : Lossless zstd.
Proof.
  apply (buffered_lossless (copy_encode ZSTD_COMPRESSION_LEVEL) copy_decode).
  intros. by eapply zstd_lossless.
Qed.

(** *** The format around Snappy *)

(** [framed bs out]: [out] is the blocks of [bs], each as long as allowed, each
    compressed and behind its length. *)
Inductive framed `{Snap} : list byte → list byte → Prop :=
| framed_nil : framed [] []
| framed_block bs enc out :
    bs ≠ [] → encodes enc (take DEFAULT_BLOCK_SIZE bs) → len enc < 2 ^ 32 →
    framed (drop DEFAULT_BLOCK_SIZE bs) out →
    framed bs (be_bytes 4 (len enc) ++ enc ++ out).

Section snappy_correct.
  Context `{SnapSpec}.

(** A block is written in place: the length, the compressed bytes, and nothing
    of the space that was reserved for them. *)
Lemma compress_block_spec block compressed :
  len block ≤ 65536 →
  ∃ enc, compress_block (length block) block compressed
      = Ok (compressed ++ be_bytes 4 (len enc) ++ enc) ∧
    encodes enc block ∧ len enc < 2 ^ 32.
Proof.
  intros Hlen. unfold compress_block.
  pose proof (fill_put_gap LENGTH_FIELD_LENGTH) as Hgap. unfold put_gap in *. cbn beta iota in *.
  set (c1 := compressed ++ replicate LENGTH_FIELD_LENGTH Byte.x00) in *.
  set (est := max_compress_len (length block)).
  assert (gap_slice (mkGap (length c1) est) (c1 ++ replicate est Byte.x00)
    = replicate est Byte.x00) as ->.
  { unfold gap_slice, slice. cbn [gap_offset gap_len].
    rewrite drop_app_length. apply take_ge. rewrite length_replicate. lia. }
  destruct (snap_compress_ok block (replicate est Byte.x00)) as (n & out & Hc).
  { by apply max_compress_len_pos. }
  { by rewrite length_replicate. }
  rewrite Hc. apply snap_compress_sound in Hc as (Hn & Hout & Henc).
  rewrite length_replicate in Hn, Hout. cbn [mbind result_bind].
  unfold write_gap. cbn [gap_offset gap_len].
  rewrite take_app_length, (drop_ge (c1 ++ _)), app_nil_r
    by (rewrite length_app, length_replicate; lia).
  rewrite resize_le by (rewrite length_app; lia). rewrite take_app_add.
  exists (take n out). pose proof (max_compress_len_u32 (length block)) as Hmax. fold est in Hmax.
  assert (len (take n out) = Z.of_nat n) as Htn by (unfold len; rewrite length_take; lia).
  split_and!; [|done|lia]. unfold c1. rewrite Hgap.
  rewrite wrap_unsigned_small by (unfold in_unsigned; lia). by rewrite Htn.
Qed.

Lemma compress_blocks_framed bs compressed :
  ∃ out, compress_blocks bs compressed = Ok (compressed ++ out) ∧ framed bs out.
Proof.
  remember (length bs) as n eqn:Hn. revert bs compressed Hn.
  induction (lt_wf n) as [n _ IH]. intros [|b bs] compressed ->.
  { exists []. rewrite app_nil_r. by split; [simp compress_blocks|constructor]. }
  pose proof block_size_pos. pose proof block_size_small. simp compress_blocks.
  set (all := b :: bs) in *. set (size := min (length all) DEFAULT_BLOCK_SIZE).
  assert (take size all = take DEFAULT_BLOCK_SIZE all ∧ drop size all = drop DEFAULT_BLOCK_SIZE all)
    as [-> Hdrop].
  { unfold size. destruct (Nat.min_spec (length all) DEFAULT_BLOCK_SIZE) as [[? ->]|[? ->]]; [|done].
    rewrite !take_ge, !drop_ge by lia. done. }
  destruct (compress_block_spec (take DEFAULT_BLOCK_SIZE all) compressed) as (enc & Hc & Henc & Hlen).
  { unfold len. rewrite length_take. lia. }
  assert (length (take DEFAULT_BLOCK_SIZE all) = size) as Hs
    by (rewrite length_take; unfold size; lia).
  rewrite Hs in Hc. rewrite Hc. cbn [compress_blocks_unfold_clause_2]. fold all size. rewrite Hdrop.
  edestruct (IH (length (drop DEFAULT_BLOCK_SIZE all))) as (out & Hout & Hf); [|done|].
  { rewrite length_drop. unfold all. cbn [length]. lia. }
  rewrite Hout. exists (be_bytes 4 (len enc) ++ enc ++ out). split.
  - by rewrite <- !app_assoc.
  - by constructor.
Qed.

Lemma decompress_block_spec enc block u rest :
  encodes enc block → len enc < 2 ^ 32 → len u + len block ≤ usize_max →
  decompress_block u (be_bytes 4 (len enc) ++ enc ++ rest) = Ok (u ++ block, rest).
Proof.
  intros [Hlen Hdec] Henc Hmax. pose proof (len_nonneg enc). unfold decompress_block.
  rewrite (decoder_bind_Ok _ _ _ _ _ (try_get_uint_app 4 _ _)).
  rewrite Z.mod_small by (change (8 * Z.of_nat 4) with 32; lia).
  rewrite (decoder_bind_Ok _ _ _ _ _ (try_get_bytes_app enc rest)).
  unfold lift. rewrite Hlen. unfold mbind at 1, decoder_bind at 1.
  assert (Z.to_nat (saturating_add usize_max (Z.of_nat (length u)) (len block))
    = length u + length block)%nat as -> by (unfold saturating_add, len in *; lia).
  rewrite resize_ge, take_app_length, drop_app_length by lia.
  destruct (Hdec (replicate (length u + length block - length u) Byte.x00)) as [n Hn].
  { rewrite length_replicate. lia. }
  by rewrite Hn.
Qed.

Lemma decompress_blocks_framed bs out u :
  framed bs out → len u + len bs ≤ usize_max → decompress_blocks out u = Ok (u ++ bs).
Proof.
  intros Hf. revert u. induction Hf as [|bs enc out Hne Henc Hlen Hf IH]; intros u Hmax.
  { simp decompress_blocks. by rewrite app_nil_r. }
  assert (len bs = len (take DEFAULT_BLOCK_SIZE bs) + len (drop DEFAULT_BLOCK_SIZE bs)) as Hsplit.
  { by rewrite <- len_app, take_drop. }
  pose proof (len_nonneg (drop DEFAULT_BLOCK_SIZE bs)).
  pose proof (decompress_block_spec enc _ u out Henc Hlen ltac:(lia)) as Hblock.
  destruct (be_bytes 4 (len enc) ++ enc ++ out) as [|b bytes] eqn:Hb; [done|].
  simp decompress_blocks. generalize (inspect (decompress_block u (b :: bytes))).
  intros [[[u' rest]|e] Hr]; cbn [decompress_blocks_unfold_clause_2]; [|congruence].
  rewrite Hblock in Hr. injection Hr as <- <-.
  rewrite IH by (rewrite len_app; lia). by rewrite <- app_assoc, take_drop.
Qed.

Lemma snappy_decompress_framed (R : Type) (f : decoder R) bs out :
  framed bs out → len bs ≤ usize_max →
  snappy_decompress R f (MAGIC_HEADER ++ out)
  = match f bs with Ok (r, _) => Ok (r, []) | Err e => Err e end.
Proof.
  intros Hf Hlen. unfold snappy_decompress.
  rewrite decide_True; [|reflexivity].
  change (drop (length MAGIC_HEADER) (MAGIC_HEADER ++ out)) with out.
  by rewrite (decompress_blocks_framed bs out []).
Qed.

(** Compressing with Snappy appends the magic header and the framed blocks, and
    fails only when the closure does. *)
Lemma snappy_compress_spec (R : Type) buf (f : writer R) r bytes :
  f [] = Ok (r, bytes) →
  ∃ out, snappy_compress R buf f = Ok (r, buf ++ MAGIC_HEADER ++ out) ∧ framed bytes out.
Proof.
  intros Hf. unfold snappy_compress. rewrite Hf. cbn [mbind result_bind].
  destruct (compress_blocks_framed bytes (buf ++ MAGIC_HEADER)) as (out & -> & Hout).
  exists out. split; [|done]. by rewrite <- app_assoc.
Qed.

#[export] Instance snappy_is_lossless : Lossless snappy.
Proof.
  intros R P f buf r buf' Hf Hc. cbn in Hc.
  destruct (f []) as [[res bytes]|e] eqn:Hfe; [|by unfold snappy_compress in Hc; rewrite Hfe in Hc].
  destruct (Hf _ _ _ Hfe) as (bytes' & Hb & HP). cbn in Hb. subst bytes'.
  destruct (snappy_compress_spec R buf f res bytes Hfe) as (out & Hs & Hframed).
  rewrite Hs in Hc. injection Hc as -> <-. exists bytes, (MAGIC_HEADER ++ out).
  split_and!; [done..|]. intros Hlen S g. cbn [decompress snappy].
  rewrite (snappy_decompress_framed S g bytes) by done. by destruct (g bytes) as [[]|].
Qed.

(** Plain Snappy data is accepted too, unless it happens to start with the
    sixteen bytes of the magic header. *)
Lemma snappy_decompress_raw (R : Type) (f : decoder R) enc block :
  encodes enc block → enc ≠ [] → ~ (MAGIC_HEADER `prefix_of` enc) →
  snappy_decompress R f enc = match f block with Ok (r, _) => Ok (r, []) | Err e => Err e end.
Proof.
  intros [Hlen Hdec] Hne Hmagic. unfold snappy_decompress, decompress_raw. destruct enc as [|b bs]; [done|].
  rewrite decide_False.
  - rewrite Hlen. cbn [mbind result_bind].
    destruct (Hdec (replicate (Z.to_nat (len block)) Byte.x00)) as [n ->]; [|done].
    rewrite length_replicate. unfold len. lia.
  - unfold try_peek_bytes. case_decide; [done|]. intros Heq. apply Hmagic.
    assert (MAGIC_HEADER = slice 0 (length MAGIC_HEADER) (b :: bs)) as -> by congruence.
    unfold slice. rewrite drop_0, Nat.sub_0_r. apply prefix_take.
Qed.

(** C30: compressing with Snappy succeeds whenever the closure does; it appends
    the magic header and the blocks of what the closure wrote, all but the last
    32 KiB long, each compressed and behind its own length, with nothing left of
    the space reserved for them; and decompressing that gives the reader exactly
    the bytes written.  Plain Snappy data for the same bytes is read the same way,
    as long as it does not start with the magic header. *)
Theorem snappy_roundtrip (R : Type) (buf : list byte) (f : writer R) (r : R) (bytes : list byte) :
  f [] = Ok (r, bytes) → len bytes ≤ usize_max →
  ∃ out, snappy_compress R buf f = Ok (r, buf ++ MAGIC_HEADER ++ out) ∧ framed bytes out ∧
    ∀ (S : Type) (g : decoder S),
      let answer := match g bytes with Ok (s, _) => Ok (s, []) | Err e => Err e end in
      snappy_decompress S g (MAGIC_HEADER ++ out) = answer ∧
      ∀ enc, encodes enc bytes → enc ≠ [] → ~ (MAGIC_HEADER `prefix_of` enc) →
        snappy_decompress S g enc = answer.
Proof.
  intros Hf Hlen. destruct (snappy_compress_spec R buf f r bytes Hf) as (out & Hc & Hframed).
  exists out. split_and!; [done..|]. intros S g answer. split.
  - by apply snappy_decompress_framed.
  - intros. by apply snappy_decompress_raw.
Qed.
End snappy_correct.

(** ** A concrete library

    Snappy data that stores its input behind a four-byte length. *)

Definition stored_max (n : nat) : nat :=
  let bound := 32 + Z.of_nat n + Z.of_nat n / 6 in
  if decide (bound < 2 ^ 32) then Z.to_nat bound else O.

#[export] Instance stored_snap : Snap := {|
  max_compress_len := stored_max;
  snap_compress input out :=
    let enc := be_bytes 4 (len input) ++ input in
    if decide (stored_max (length input) = O ∨ (length out < stored_max (length input))%nat)
    then Err (Bail "snap: buffer too small")
    else Ok (length enc, enc ++ drop (length enc) out);
  decompress_len input := r ← try_get_uint 4 input; Ok r.1;
  snap_decompress input out :=
    r ← try_get_uint 4 input;
    if decide (len out < r.1) then Err (Bail "snap: buffer too small")
    else Ok (length r.2, r.2 ++ drop (length r.2) out)
|}.

Lemma stored_max_bounds n :
  stored_max n ≠ O → 32 + Z.of_nat n ≤ Z.of_nat (stored_max n) < 2 ^ 32.
Proof.
  unfold stored_max. case_decide; [|done]. intros _.
  pose proof (Z.div_pos (Z.of_nat n) 6 ltac:(lia) ltac:(lia)). lia.
Qed.

#[export] Instance stored_snap_spec : SnapSpec.
Proof.
  split.
  - intros n. cbn [max_compress_len stored_snap]. destruct (decide (stored_max n = O)) as [->|Hn]; [lia|].
    apply stored_max_bounds in Hn. lia.
  - intros n Hn. cbn [max_compress_len stored_snap]. unfold stored_max.
    pose proof (Z.div_pos (Z.of_nat n) 6 ltac:(lia) ltac:(lia)).
    pose proof (Z.div_le_upper_bound (Z.of_nat n) 6 65536 ltac:(lia) ltac:(lia)).
    rewrite decide_True by lia. lia.
  - intros input out. cbn [max_compress_len snap_compress stored_snap]. intros Hpos Hout.
    rewrite decide_False by lia. eauto.
  - intros input out n out'. cbn [max_compress_len snap_compress stored_snap].
    case_decide as Hd; [done|]. set (enc := be_bytes 4 (len input) ++ input).
    assert (length enc = 4 + length input)%nat as Henc
      by (unfold enc; by rewrite length_app, length_be_bytes).
    pose proof (stored_max_bounds (length input) ltac:(tauto)) as Hb.
    intros Hok. assert (n = length enc ∧ out' = enc ++ drop (length enc) out) as [-> ->]
      by (split; congruence).
    split_and!; [lia|rewrite length_app, length_drop; lia|].
    rewrite take_app_length. unfold encodes.
    cbn [decompress_len snap_decompress stored_snap]. unfold enc. rewrite try_get_uint_app.
    cbn [mbind result_bind fst snd]. change (8 * Z.of_nat 4) with 32.
    rewrite Z.mod_small by (unfold len; lia).
    split; [done|]. intros buf Hbuf. rewrite decide_False by (unfold len; lia).
    rewrite drop_ge, app_nil_r by lia. eauto.
Qed.

Lemma snappy_roundtrip_witness :
  ∃ out, snappy_compress unit [Byte.xff] (λ buf, Ok (tt, buf ++ [Byte.x61; Byte.x62])) =
      Ok (tt, [Byte.xff] ++ MAGIC_HEADER ++ out) ∧ framed [Byte.x61; Byte.x62] out ∧
    out = byte_of_Z <$> [0; 0; 0; 6; 0; 0; 0; 2; 0x61; 0x62].
Proof.
  destruct (snappy_roundtrip unit [Byte.xff] (λ buf, Ok (tt, buf ++ [Byte.x61; Byte.x62])) tt
    [Byte.x61; Byte.x62] eq_refl) as (out & Hc & Hf & _).
  { vm_compute. discriminate. }
  exists out. split; [exact Hc|]. split; [exact Hf|].
  assert (snappy_compress unit [Byte.xff] (λ buf, Ok (tt, buf ++ [Byte.x61; Byte.x62])) =
    Ok (tt, [Byte.xff] ++ MAGIC_HEADER ++ (byte_of_Z <$> [0; 0; 0; 6; 0; 0; 0; 2; 0x61; 0x62])))
    as Hrun by (vm_compute; reflexivity).
  rewrite Hc in Hrun. apply (f_equal (λ r, match r with Ok (_, o) => o | Err _ => [] end)) in Hrun.
  cbv beta iota in Hrun. by apply app_inv_head, app_inv_head in Hrun.
Defined.
End Compress.
