(* ===== verification/Types.v ===== *)
(** * Primitive codecs of the Kafka protocol

    [src/crates/kafka-protocol/src/protocol/types.rs] with the [Encoder] and
    [Decoder] traits of [protocol/mod.rs].  A codec marker of the source
    ([Int32], [CompactString], [Array<E>], ...) is a value of [Codec T]; the
    class [Lawful] is what a message codec relies on: the encoder appends, the
    announced size is the size written, and decoding gives the value back and
    leaves the rest of the buffer alone. *)

From S2P Require Import Prelude Buf.

(* @ src/crates/kafka-protocol/src/protocol/mod.rs 137-147 Encoder, Decoder *)
Record Codec (T : Type) : Type := mkCodec {
  encode : T → list byte → result anyhow (list byte);
  compute_size : T → result anyhow Z;
  fixed_size : option Z;
  decode : decoder T
}.
Arguments mkCodec {T}.
Arguments encode {T}.
Arguments compute_size {T}.
Arguments fixed_size {T}.
Arguments decode {T}.

(** ** Fixed-width codecs *)

(* @ src/crates/kafka-protocol/src/protocol/types.rs 29-52 Boolean *)
Definition Boolean : Codec bool := {|
  encode (value : bool) buf := Ok (put_u8 (if value then 1 else 0) buf);
  compute_size (_ : bool) := Ok 1;
  fixed_size := Some 1;
  decode := b ← try_get_u8; mret (negb (bool_decide (b = 0)))
|}.

(* @ src/crates/kafka-protocol/src/protocol/types.rs 54-82 define_simple_ints *)
Definition simple_int (n : nat) (get : decoder Z) : Codec Z := {|
  encode (value : Z) buf := Ok (put_int n value buf);
  compute_size (_ : Z) := Ok (Z.of_nat n);
  fixed_size := Some (Z.of_nat n);
  decode := get
|}.

(* @ src/crates/kafka-protocol/src/protocol/types.rs 84-85 Int8 *)
Definition Int8 : Codec Z := simple_int 1 (try_get_int 1).
(* @ src/crates/kafka-protocol/src/protocol/types.rs 86-86 Int16 *)
Definition Int16 : Codec Z := simple_int 2 (try_get_int 2).
(* @ src/crates/kafka-protocol/src/protocol/types.rs 87-87 UInt16 *)
Definition UInt16 : Codec Z := simple_int 2 (try_get_uint 2).
(* @ src/crates/kafka-protocol/src/protocol/types.rs 88-88 Int32 *)
Definition Int32 : Codec Z := simple_int 4 (try_get_int 4).
(* @ src/crates/kafka-protocol/src/protocol/types.rs 89-89 Int64 *)
Definition Int64 : Codec Z := simple_int 8 (try_get_int 8).
(* @ src/crates/kafka-protocol/src/protocol/types.rs 90-90 UInt32 *)
Definition UInt32 : Codec Z := simple_int 4 (try_get_uint 4).

(** A UUID is its 128-bit number; [nil] is 0. *)
(* @ src/crates/kafka-protocol/src/protocol/types.rs 235-260 Uuid *)
Definition Uuid : Codec Z := {|
  encode (value : Z) buf := Ok (put_slice (be_bytes 16 value) buf);
  compute_size (_ : Z) := Ok 16;
  fixed_size := Some 16;
  decode := try_get_uint 16
|}.

(** ** Variable-length integers

    The writing loop runs at most ten times on a 64-bit value, so ten units of
    fuel are enough ([put_varint_fuel] below); the reading loop is the [for]
    over five (ten) indices of the source. *)

(* @ src/crates/kafka-protocol/src/protocol/types.rs 99-107 UnsignedVarInt::encode *)
Fixpoint put_varint (fuel : nat) (value : Z) (buf : list byte) : option (list byte) :=
  match fuel with
  | O => None
  | S fuel =>
      if decide (128 ≤ value)
      then put_varint fuel (Z.shiftr value 7) (put_u8 (Z.lor (wrap_unsigned 8 value) 128) buf)
      else Some (put_u8 (wrap_unsigned 8 value) buf)
  end.

Definition varint_fuel : nat := 10.

Definition encode_varint (value : Z) (buf : list byte) : result anyhow (list byte) :=
  ok_or (put_varint varint_fuel value buf) (Bail "out of fuel").

(* @ src/crates/kafka-protocol/src/protocol/types.rs 121-131 UnsignedVarInt::decode *)
Fixpoint get_varint (w : Z) (iterations : nat) (i : Z) (value : Z) : decoder Z :=
  match iterations with
  | O => mret value
  | S iterations =>
      b ← try_get_u8;
      let value := Z.lor value (wrap_unsigned w (Z.shiftl (Z.land b 127) (i * 7))) in
      if decide (b < 128) then mret value
      else get_varint w iterations (i + 1) value
  end.

(* @ src/crates/kafka-protocol/src/protocol/types.rs 108-117 UnsignedVarInt::compute_size *)
Definition varint_size (value : Z) : Z :=
  if decide (value ≤ 0x7f) then 1
  else if decide (value ≤ 0x3fff) then 2
  else if decide (value ≤ 0x1fffff) then 3
  else if decide (value ≤ 0xfffffff) then 4
  else 5.

(* @ src/crates/kafka-protocol/src/protocol/types.rs 150-164 UnsignedVarLong::compute_size *)
Definition varlong_size (value : Z) : Z :=
  if decide (value ≤ 0x7f) then 1
  else if decide (value ≤ 0x3fff) then 2
  else if decide (value ≤ 0x1fffff) then 3
  else if decide (value ≤ 0xfffffff) then 4
  else if decide (value ≤ 0x7ffffffff) then 5
  else if decide (value ≤ 0x3ffffffffff) then 6
  else if decide (value ≤ 0x1ffffffffffff) then 7
  else if decide (value ≤ 0xffffffffffffff) then 8
  else if decide (value ≤ 0x7fffffffffffffff) then 9
  else 10.

(* @ src/crates/kafka-protocol/src/protocol/types.rs 94-134 UnsignedVarInt *)
Definition UnsignedVarInt : Codec Z := {|
  encode := encode_varint;
  compute_size (value : Z) := Ok (varint_size value);
  fixed_size := None;
  decode := get_varint 32 5 0 0
|}.

(* @ src/crates/kafka-protocol/src/protocol/types.rs 136-181 UnsignedVarLong *)
Definition UnsignedVarLong : Codec Z := {|
  encode := encode_varint;
  compute_size (value : Z) := Ok (varlong_size value);
  fixed_size := None;
  decode := get_varint 64 10 0 0
|}.

(** [((value << 1) ^ (value >> (w - 1))) as u32/u64]. *)
(* @ src/crates/kafka-protocol/src/protocol/types.rs 189-190 VarInt::encode *)
Definition zigzag (w value : Z) : Z :=
  wrap_unsigned w (Z.lxor (wrap_signed w (Z.shiftl value 1)) (Z.shiftr value (w - 1))).

(** [((zigzag >> 1) as i32/i64) ^ (-((zigzag & 1) as i32/i64))]. *)
(* @ src/crates/kafka-protocol/src/protocol/types.rs 202-203 VarInt::decode *)
Definition unzigzag (w z : Z) : Z :=
  Z.lxor (wrap_signed w (Z.shiftr z 1)) (- wrap_signed w (Z.land z 1)).

(* @ src/crates/kafka-protocol/src/protocol/types.rs 183-207 VarInt *)
Definition VarInt : Codec Z := {|
  encode (value : Z) := encode UnsignedVarInt (zigzag 32 value);
  compute_size (value : Z) := compute_size UnsignedVarInt (zigzag 32 value);
  fixed_size := None;
  decode := z ← decode UnsignedVarInt; mret (unzigzag 32 z)
|}.

(* @ src/crates/kafka-protocol/src/protocol/types.rs 209-233 VarLong *)
Definition VarLong : Codec Z := {|
  encode (value : Z) := encode UnsignedVarLong (zigzag 64 value);
  compute_size (value : Z) := compute_size UnsignedVarLong (zigzag 64 value);
  fixed_size := None;
  decode := z ← decode UnsignedVarLong; mret (unzigzag 64 z)
|}.

(** ** Strings and bytes

    A string of the protocol is its UTF-8 bytes; the decoders check that the
    bytes are UTF-8 the way [std::str::from_utf8] does. *)

Definition byte_in (lo hi : Z) (b : byte) : bool := bool_decide (lo ≤ u8 b ≤ hi).
Definition utf8_tail (b : byte) : bool := byte_in 0x80 0xbf b.

(** Well-formed UTF-8 byte sequences (Unicode, table 3-7). *)
Fixpoint utf8_valid (bs : list byte) : bool :=
  match bs with
  | [] => true
  | b0 :: bs1 =>
      if byte_in 0x00 0x7f b0 then utf8_valid bs1
      else if byte_in 0xc2 0xdf b0 then
        match bs1 with
        | b1 :: bs2 => utf8_tail b1 && utf8_valid bs2
        | _ => false
        end
      else if byte_in 0xe0 0xef b0 then
        match bs1 with
        | b1 :: b2 :: bs3 =>
            (if byte_in 0xe0 0xe0 b0 then byte_in 0xa0 0xbf b1
             else if byte_in 0xed 0xed b0 then byte_in 0x80 0x9f b1
             else utf8_tail b1)
            && utf8_tail b2 && utf8_valid bs3
        | _ => false
        end
      else if byte_in 0xf0 0xf4 b0 then
        match bs1 with
        | b1 :: b2 :: b3 :: bs4 =>
            (if byte_in 0xf0 0xf0 b0 then byte_in 0x90 0xbf b1
             else if byte_in 0xf4 0xf4 b0 then byte_in 0x80 0x8f b1
             else utf8_tail b1)
            && utf8_tail b2 && utf8_tail b3 && utf8_valid bs4
        | _ => false
        end
      else false
  end.

(* @ src/crates/kafka-protocol/src/protocol/mod.rs 36-41 StrBytes::from_utf8 *)
Definition from_utf8 (bs : list byte) : result anyhow (list byte) :=
  if utf8_valid bs then Ok bs else Err Utf8Error.

(** The value of a nullable codec where the caller rejects null. *)
Definition non_null {T : Type} (message : string) (d : decoder (option T)) : decoder T :=
  v ← d; match v with Some v => mret v | None => fail_decode (Bail message) end.

(* @ src/crates/kafka-protocol/src/protocol/types.rs 266-280 String::encode *)
Definition String_encode (value : option (list byte)) (buf : list byte) :
    result anyhow (list byte) :=
  match value with
  | Some s =>
      if decide (i16_max < len s) then Err (Bail "String is too long to encode")
      else buf ← encode Int16 (len s) buf; Ok (put_slice s buf)
  | None => encode Int16 (-1) buf
  end.

(* @ src/crates/kafka-protocol/src/protocol/types.rs 281-292 String::compute_size *)
Definition String_compute_size (value : option (list byte)) : result anyhow Z :=
  match value with
  | Some s =>
      if decide (i16_max < len s) then Err (Bail "String is too long to encode")
      else Ok (2 + len s)
  | None => Ok 2
  end.

(* @ src/crates/kafka-protocol/src/protocol/types.rs 357-386 String::decode *)
Definition String_decode : decoder (option (list byte)) :=
  n ← decode Int16;
  if decide (n = -1) then mret None
  else if decide (0 ≤ n) then
    s ← try_get_bytes n; s ← lift (from_utf8 s); mret (Some s)
  else fail_decode (Bail "String length is negative").

(** [Option<&str>] and the nullable wrappers over it (lines 294-328) encode
    through this codec unchanged. *)
(* @ src/crates/kafka-protocol/src/protocol/types.rs 294-328 String (nullable) *)
Definition NullableString : Codec (option (list byte)) := {|
  encode := String_encode;
  compute_size := String_compute_size;
  fixed_size := None;
  decode := String_decode
|}.

(* @ src/crates/kafka-protocol/src/protocol/types.rs 330-410 String *)
Definition KafkaString : Codec (list byte) := {|
  encode (value : list byte) := encode NullableString (Some value);
  compute_size (value : list byte) := compute_size NullableString (Some value);
  fixed_size := None;
  decode := non_null "String length is negative (-1)" String_decode
|}.

(** Compact strings and compact bytes write the length plus one as an
    unsigned varint, zero for null. *)
(* @ src/crates/kafka-protocol/src/protocol/types.rs 709-724 CompactBytes::encode *)
Definition compact_encode (message : string) (value : option (list byte)) (buf : list byte) :
    result anyhow (list byte) :=
  match value with
  | Some s =>
      if decide (u32_max ≤ len s) then Err (Bail message)
      else buf ← encode UnsignedVarInt (len s + 1) buf; Ok (put_slice s buf)
  | None => encode UnsignedVarInt 0 buf
  end.

(* @ src/crates/kafka-protocol/src/protocol/types.rs 725-737 CompactBytes::compute_size *)
Definition compact_compute_size (message : string) (value : option (list byte)) :
    result anyhow Z :=
  match value with
  | Some s =>
      if decide (u32_max ≤ len s) then Err (Bail message)
      else n ← compute_size UnsignedVarInt (len s + 1); Ok (n + len s)
  | None => Ok 1
  end.

(* @ src/crates/kafka-protocol/src/protocol/types.rs 509-532 CompactString::decode *)
Definition CompactString_decode : decoder (option (list byte)) :=
  n ← decode UnsignedVarInt;
  if decide (n = 0) then mret None
  else s ← try_get_bytes (n - 1); s ← lift (from_utf8 s); mret (Some s).

(* @ src/crates/kafka-protocol/src/protocol/types.rs 412-480 CompactString (nullable) *)
Definition NullableCompactString : Codec (option (list byte)) := {|
  encode := compact_encode "CompactString is too long to encode";
  compute_size := compact_compute_size "CompactString is too long to encode";
  fixed_size := None;
  decode := CompactString_decode
|}.

(* @ src/crates/kafka-protocol/src/protocol/types.rs 482-556 CompactString *)
Definition CompactString : Codec (list byte) := {|
  encode (value : list byte) := encode NullableCompactString (Some value);
  compute_size (value : list byte) := compute_size NullableCompactString (Some value);
  fixed_size := None;
  decode := non_null "CompactString length is negative (-1)" CompactString_decode
|}.

(* @ src/crates/kafka-protocol/src/protocol/types.rs 562-576 Bytes::encode *)
Definition Bytes_encode (value : option (list byte)) (buf : list byte) :
    result anyhow (list byte) :=
  match value with
  | Some s =>
      if decide (i32_max < len s) then Err (Bail "Data is too long to encode")
      else buf ← encode Int32 (len s) buf; Ok (put_slice s buf)
  | None => encode Int32 (-1) buf
  end.

(* @ src/crates/kafka-protocol/src/protocol/types.rs 577-588 Bytes::compute_size *)
Definition Bytes_compute_size (value : option (list byte)) : result anyhow Z :=
  match value with
  | Some s =>
      if decide (i32_max < len s) then Err (Bail "Data is too long to encode")
      else Ok (4 + len s)
  | None => Ok 4
  end.

(* @ src/crates/kafka-protocol/src/protocol/types.rs 653-679 Bytes::decode *)
Definition Bytes_decode : decoder (option (list byte)) :=
  n ← decode Int32;
  if decide (n = -1) then mret None
  else if decide (0 ≤ n) then s ← try_get_bytes n; mret (Some s)
  else fail_decode (Bail "Data length is negative").

(* @ src/crates/kafka-protocol/src/protocol/types.rs 590-624 Bytes (nullable) *)
Definition NullableBytes : Codec (option (list byte)) := {|
  encode := Bytes_encode;
  compute_size := Bytes_compute_size;
  fixed_size := None;
  decode := Bytes_decode
|}.

(* @ src/crates/kafka-protocol/src/protocol/types.rs 626-703 Bytes *)
Definition Bytes : Codec (list byte) := {|
  encode (value : list byte) := encode NullableBytes (Some value);
  compute_size (value : list byte) := compute_size NullableBytes (Some value);
  fixed_size := None;
  decode := non_null "Data length is negative (-1)" Bytes_decode
|}.

(* @ src/crates/kafka-protocol/src/protocol/types.rs 802-822 CompactBytes::decode *)
Definition CompactBytes_decode : decoder (option (list byte)) :=
  n ← decode UnsignedVarInt;
  if decide (n = 0) then mret None
  else s ← try_get_bytes (n - 1); mret (Some s).

(* @ src/crates/kafka-protocol/src/protocol/types.rs 705-773 CompactBytes (nullable) *)
Definition NullableCompactBytes : Codec (option (list byte)) := {|
  encode := compact_encode "CompactBytes is too long to encode";
  compute_size := compact_compute_size "CompactBytes is too long to encode";
  fixed_size := None;
  decode := CompactBytes_decode
|}.

(* @ src/crates/kafka-protocol/src/protocol/types.rs 775-846 CompactBytes *)
Definition CompactBytes : Codec (list byte) := {|
  encode (value : list byte) := encode NullableCompactBytes (Some value);
  compute_size (value : list byte) := compute_size NullableCompactBytes (Some value);
  fixed_size := None;
  decode := non_null "Data length is negative (-1)" CompactBytes_decode
|}.

(** ** Arrays and optional structures *)

(** The [for item in a { self.0.encode(buf, item)?; }] loop. *)
Fixpoint encode_items {T : Type} (E : Codec T) (a : list T) (buf : list byte) :
    result anyhow (list byte) :=
  match a with
  | [] => Ok buf
  | item :: a => buf ← encode E item buf; encode_items E a buf
  end.

Fixpoint size_items {T : Type} (E : Codec T) (a : list T) (total_size : Z) :
    result anyhow Z :=
  match a with
  | [] => Ok total_size
  | item :: a => n ← compute_size E item; size_items E a (total_size + n)
  end.

(** The [for _ in 0..n { result.push(self.0.decode(buf)?); }] loop. *)
Fixpoint decode_items {T : Type} (E : Codec T) (n : nat) : decoder (list T) :=
  match n with
  | O => mret []
  | S n => item ← decode E; items ← decode_items E n; mret (item :: items)
  end.

(** [4 + a.len() * fixed_size], or the sum of the items' sizes. *)
(* @ src/crates/kafka-protocol/src/protocol/types.rs 932-940 Array::compute_size *)
Definition array_size {T : Type} (E : Codec T) (prefix : Z) (a : list T) : result anyhow Z :=
  match fixed_size E with
  | Some n => Ok (prefix + len a * n)
  | None => size_items E a prefix
  end.

(* @ src/crates/kafka-protocol/src/protocol/types.rs 907-963 Array (nullable) *)
Definition NullableArray {T : Type} (E : Codec T) : Codec (option (list T)) := {|
  encode (value : option (list T)) buf :=
    match value with
    | Some a =>
        if decide (i32_max < len a) then Err (Bail "Array is too long to encode")
        else buf ← encode Int32 (len a) buf; encode_items E a buf
    | None => encode Int32 (-1) buf
    end;
  compute_size (value : option (list T)) :=
    match value with
    | Some a =>
        if decide (i32_max < len a) then Err (Bail "Array is too long to encode")
        else array_size E 4 a
    | None => Ok 4
    end;
  fixed_size := None;
  decode :=
    n ← decode Int32;
    if decide (n = -1) then mret None
    else if decide (0 ≤ n) then items ← decode_items E (Z.to_nat n); mret (Some items)
    else fail_decode (Bail "Array length is negative")
|}.

(* @ src/crates/kafka-protocol/src/protocol/types.rs 965-1012 Array *)
Definition Array {T : Type} (E : Codec T) : Codec (list T) := {|
  encode (value : list T) := encode (NullableArray E) (Some value);
  compute_size (value : list T) := compute_size (NullableArray E) (Some value);
  fixed_size := None;
  decode := non_null "Array length is negative (-1)" (decode (NullableArray E))
|}.

(* @ src/crates/kafka-protocol/src/protocol/types.rs 1014-1071 CompactArray (nullable) *)
Definition NullableCompactArray {T : Type} (E : Codec T) : Codec (option (list T)) := {|
  encode (value : option (list T)) buf :=
    match value with
    | Some a =>
        if decide (u32_max ≤ len a) then Err (Bail "CompactArray is too long to encode")
        else buf ← encode UnsignedVarInt (len a + 1) buf; encode_items E a buf
    | None => encode UnsignedVarInt 0 buf
    end;
  compute_size (value : option (list T)) :=
    match value with
    | Some a =>
        if decide (u32_max ≤ len a) then Err (Bail "CompactArray is too long to encode")
        else n ← compute_size UnsignedVarInt (len a + 1); array_size E n a
    | None => Ok 1
    end;
  fixed_size := None;
  decode :=
    n ← decode UnsignedVarInt;
    if decide (n = 0) then mret None
    else items ← decode_items E (Z.to_nat (n - 1)); mret (Some items)
|}.

(* @ src/crates/kafka-protocol/src/protocol/types.rs 1073-1116 CompactArray *)
Definition CompactArray {T : Type} (E : Codec T) : Codec (list T) := {|
  encode (value : list T) := encode (NullableCompactArray E) (Some value);
  compute_size (value : list T) := compute_size (NullableCompactArray E) (Some value);
  fixed_size := None;
  decode := non_null "CompactArray length is negative (-1)" (decode (NullableCompactArray E))
|}.

(** A message type with its versioned codec ([Encodable], [Decodable]). *)
(* @ src/crates/kafka-protocol/src/protocol/types.rs 848-868 Struct *)
Definition Struct {T : Type} (message : Z → Codec T) (version : Z) : Codec T := {|
  encode (value : T) := encode (message version) value;
  compute_size (value : T) := compute_size (message version) value;
  fixed_size := None;
  decode := decode (message version)
|}.

(* @ src/crates/kafka-protocol/src/protocol/types.rs 870-905 OptionStruct *)
Definition OptionStruct {T : Type} (message : Z → Codec T) (version : Z) :
    Codec (option T) := {|
  encode (value : option T) buf :=
    match value with
    | Some value => buf ← encode Int8 1 buf; encode (message version) value buf
    | None => encode Int8 (-1) buf
    end;
  compute_size (value : option T) :=
    match value with
    | Some value => n ← compute_size (message version) value; Ok (1 + n)
    | None => Ok 1
    end;
  fixed_size := None;
  decode :=
    present ← decode Int8;
    if decide (present = 1) then v ← decode (message version); mret (Some v)
    else mret None
|}.

(** ** The interface of a codec *)

Definition codec_spec {T : Type} (c : Codec T) (v : T) (bytes : list byte) : Prop :=
  (∀ buf, encode c v buf = Ok (buf ++ bytes)) ∧
  compute_size c v = Ok (len bytes) ∧
  (∀ rest, decode c (bytes ++ rest) = Ok (v, rest)).

Class Lawful {T : Type} (c : Codec T) (wf : T → Prop) : Prop := {
  lawful (v : T) : wf v → ∃ bytes, codec_spec c v bytes;
  lawful_fixed (n : Z) (v : T) : fixed_size c = Some n → compute_size c v = Ok n
}.

(** ** Variable-length integers: correctness *)

Lemma lor_shift_add (a b k : Z) :
  0 ≤ k → 0 ≤ a < 2 ^ k → Z.lor a (Z.shiftl b k) = a + b * 2 ^ k.
Proof.
  intros Hk Ha. rewrite <- Z.shiftl_mul_pow2 by done. symmetry.
  apply Z.add_nocarry_lor, Z.bits_inj'. intros n Hn.
  rewrite Z.land_spec, Z.bits_0. destruct (decide (n < k)).
  - by rewrite Z.shiftl_spec_low, andb_false_r by lia.
  - rewrite <- (Z.mod_small a (2 ^ k)), Z.mod_pow2_bits_high by lia. done.
Qed.

Lemma lor_128 (z : Z) : 0 ≤ z < 256 → Z.lor z 128 = z mod 128 + 128.
Proof.
  intros Hz.
  assert (Forall (λ z, Z.lor z 128 = z mod 128 + 128) (seqZ 0 256)) as Hall.
  { apply (bool_decide_unpack _). vm_compute. done. }
  rewrite Forall_forall in Hall. apply Hall, elem_of_seqZ. lia.
Qed.

Lemma land_127 (z : Z) : Z.land z 127 = z mod 128.
Proof. change 127 with (Z.ones 7). by rewrite Z.land_ones by lia. Qed.

(** The bytes the writing loop appends. *)
Fixpoint varint_bytes (fuel : nat) (value : Z) : list byte :=
  match fuel with
  | O => []
  | S fuel =>
      if decide (128 ≤ value) then byte_of_Z (value mod 128 + 128) :: varint_bytes fuel (value / 128)
      else [byte_of_Z value]
  end.

Lemma pow128_succ (n : nat) : 2 ^ (7 * Z.of_nat (S n)) = 128 * 2 ^ (7 * Z.of_nat n).
Proof.
  replace (7 * Z.of_nat (S n)) with (7 + 7 * Z.of_nat n) by lia.
  by rewrite Z.pow_add_r by lia.
Qed.

Lemma put_u8_app (z : Z) (buf : list byte) : put_u8 z buf = buf ++ [byte_of_Z z].
Proof. unfold put_u8, put_int. simpl. by rewrite Z.div_1_r. Qed.

Lemma put_varint_bytes (fuel : nat) (value : Z) (buf : list byte) :
  fuel ≠ O → 0 ≤ value < 2 ^ (7 * Z.of_nat fuel) →
  put_varint fuel value buf = Some (buf ++ varint_bytes fuel value).
Proof.
  revert value buf. induction fuel as [|fuel IH]; intros value buf Hf Hv; [done|].
  rewrite pow128_succ in Hv. cbn [put_varint varint_bytes].
  unfold wrap_unsigned. change (2 ^ 8) with 256.
  rewrite !put_u8_app. case_decide.
  - rewrite Z.shiftr_div_pow2 by lia. change (2 ^ 7) with 128. rewrite IH.
    + rewrite <- app_assoc. simpl. repeat f_equal.
      rewrite lor_128 by (apply Z.mod_pos_bound; lia).
      change 256 with (128 * 2). rewrite Z.rem_mul_r by lia.
      rewrite (Z.mul_comm 128), Z.mod_add, Z.mod_mod by lia. done.
    + intros ->. simpl in Hv. lia.
    + pose proof (Z.div_pos value 128). split; [lia|].
      apply Z.div_lt_upper_bound; lia.
  - by rewrite byte_of_Z_mod.
Qed.

Lemma varint_bytes_fuel (f f' : nat) (value : Z) :
  f ≠ O → (f ≤ f')%nat → 0 ≤ value < 2 ^ (7 * Z.of_nat f) →
  varint_bytes f' value = varint_bytes f value.
Proof.
  revert f' value. induction f as [|f IH]; intros [|f'] value Hf Hle Hv; [lia..|].
  rewrite pow128_succ in Hv. cbn [varint_bytes]. case_decide; [|done].
  f_equal. apply IH; [|lia|].
  - intros ->. simpl in Hv. lia.
  - pose proof (Z.div_pos value 128). split; [lia|]. apply Z.div_lt_upper_bound; lia.
Qed.

Lemma try_get_u8_cons (b : byte) (rest : list byte) :
  try_get_u8 (b :: rest) = Ok (u8 b, rest).
Proof.
  unfold try_get_u8, try_get_uint. rewrite decide_False by (simpl; lia).
  change (take 1 (b :: rest)) with [b]. change (drop 1 (b :: rest)) with rest.
  cbn [be_val]. rewrite (@len_nil byte). do 2 f_equal. lia.
Qed.

Lemma get_varint_bytes (w : Z) (fuel iterations : nat) (i value v : Z) (rest : list byte) :
  fuel ≠ O → (fuel ≤ iterations)%nat → 0 ≤ i →
  0 ≤ value < 2 ^ (7 * i) → 0 ≤ v < 2 ^ (7 * Z.of_nat fuel) → v * 2 ^ (7 * i) < 2 ^ w →
  get_varint w iterations i value (varint_bytes fuel v ++ rest)
    = Ok (value + v * 2 ^ (7 * i), rest).
Proof.
  revert iterations i value v. induction fuel as [|fuel IH];
    intros [|iterations] i value v Hf Hle Hi Hvalue Hv Hw; [lia..|].
  rewrite pow128_succ in Hv. cbn [varint_bytes get_varint].
  set (p := 2 ^ (7 * i)) in *.
  assert (0 < p) by (apply Z.pow_pos_nonneg; lia).
  assert (∀ d, 0 ≤ d ≤ v →
    Z.lor value (wrap_unsigned w (Z.shiftl d (i * 7))) = value + d * p) as Hlor.
  { intros d Hd. rewrite Z.mul_comm, wrap_unsigned_small.
    - by apply lor_shift_add; [lia|].
    - rewrite Z.shiftl_mul_pow2 by lia. fold p. split; nia. }
  case_decide as Hcase; cbn [app];
    rewrite (decoder_bind_Ok _ _ _ _ _ (try_get_u8_cons _ _)), u8_byte_of_Z, land_127.
  - pose proof (Z.mod_pos_bound v 128 ltac:(lia)).
    pose proof (Z.div_mod v 128 ltac:(lia)) as Hdm.
    rewrite (Z.mod_small (_ + 128)), decide_False by lia.
    rewrite <- Zplus_mod_idemp_r, Z_mod_same_full, Z.add_0_r, Z.mod_mod by lia.
    pose proof (Z.div_pos v 128).
    rewrite Hlor by lia.
    assert (2 ^ (7 * (i + 1)) = 128 * p) as Hp.
    { replace (7 * (i + 1)) with (7 + 7 * i) by lia. by rewrite Z.pow_add_r by lia. }
    rewrite IH; rewrite ?Hp; [|try (lia || nia)..].
    + do 2 f_equal. rewrite Hdm at 3. ring.
    + intros ->. simpl in Hv. lia.
  - rewrite (Z.mod_small v 256), decide_True by lia.
    rewrite (Z.mod_small v 128), Hlor by lia. done.
Qed.

Lemma varint_bytes_length (fuel : nat) (value : Z) :
  fuel ≠ O → 0 ≤ value < 2 ^ (7 * Z.of_nat fuel) →
  ∀ k : nat, k ≠ O → 2 ^ (7 * (Z.of_nat k - 1)) ≤ value ∨ k = 1%nat →
  value < 2 ^ (7 * Z.of_nat k) → length (varint_bytes fuel value) = k.
Proof.
  revert value. induction fuel as [|fuel IH]; intros value Hf Hv k Hk Hlo Hhi; [done|].
  rewrite pow128_succ in Hv. cbn [varint_bytes].
  destruct k as [|k]; [done|]. rewrite pow128_succ in Hhi.
  replace (Z.of_nat (S k) - 1) with (Z.of_nat k) in Hlo by lia.
  destruct k as [|k].
  - simpl in Hhi. rewrite decide_False by lia. done.
  - destruct Hlo as [Hlo|]; [|lia]. rewrite pow128_succ in Hlo.
    assert (1 ≤ 2 ^ (7 * Z.of_nat k)) by (apply (Z.pow_le_mono_r 2 0); lia).
    rewrite decide_True by lia. cbn [length]. f_equal. apply IH.
    + intros ->. simpl in Hv. lia.
    + pose proof (Z.div_pos value 128). split; [lia|]. apply Z.div_lt_upper_bound; lia.
    + done.
    + left. apply Z.div_le_lower_bound; [lia|].
      replace (Z.of_nat (S k) - 1) with (Z.of_nat k) by lia. lia.
    + apply Z.div_lt_upper_bound; lia.
Qed.

Lemma len_varint_bytes (k : nat) (value : Z) :
  k ≠ O → 0 ≤ value < 2 ^ 70 → 2 ^ (7 * (Z.of_nat k - 1)) ≤ value ∨ k = 1%nat →
  value < 2 ^ (7 * Z.of_nat k) → len (varint_bytes varint_fuel value) = Z.of_nat k.
Proof. intros. unfold len. by rewrite (varint_bytes_length varint_fuel value) with (k := k). Qed.

Ltac varint_case n := rewrite (len_varint_bytes n); simpl; lia.

Lemma varint_size_bytes (value : Z) :
  in_unsigned 32 value → varint_size value = len (varint_bytes varint_fuel value).
Proof.
  unfold in_unsigned, varint_size. intros Hv.
  repeat case_decide;
    [varint_case 1%nat|varint_case 2%nat|varint_case 3%nat|varint_case 4%nat|varint_case 5%nat].
Qed.

Lemma varlong_size_bytes (value : Z) :
  in_unsigned 64 value → varlong_size value = len (varint_bytes varint_fuel value).
Proof.
  unfold in_unsigned, varlong_size. intros Hv.
  repeat case_decide;
    [varint_case 1%nat|varint_case 2%nat|varint_case 3%nat|varint_case 4%nat|varint_case 5%nat
    |varint_case 6%nat|varint_case 7%nat|varint_case 8%nat|varint_case 9%nat|varint_case 10%nat].
Qed.

(** Ten iterations of the writing loop are enough for any 64-bit value. *)
Lemma encode_varint_bytes (value : Z) (buf : list byte) :
  in_unsigned 64 value → encode_varint value buf = Ok (buf ++ varint_bytes varint_fuel value).
Proof.
  unfold in_unsigned, encode_varint. intros Hv.
  rewrite put_varint_bytes; [done..|].
  change (7 * Z.of_nat varint_fuel) with 70. lia.
Qed.

Lemma in_unsigned_32_64 (v : Z) : in_unsigned 32 v → in_unsigned 64 v.
Proof. unfold in_unsigned. lia. Qed.

Lemma UnsignedVarInt_spec (v : Z) :
  in_unsigned 32 v → codec_spec UnsignedVarInt v (varint_bytes varint_fuel v).
Proof.
  intros Hv. split_and!.
  - intros buf. by apply encode_varint_bytes, in_unsigned_32_64.
  - cbn [compute_size UnsignedVarInt]. by rewrite varint_size_bytes.
  - intros rest. unfold in_unsigned in Hv. cbn [decode UnsignedVarInt].
    rewrite (varint_bytes_fuel 5 varint_fuel) by (cbv [varint_fuel]; simpl; lia).
    rewrite get_varint_bytes by (simpl; lia). do 2 f_equal. lia.
Qed.

Lemma UnsignedVarLong_spec (v : Z) :
  in_unsigned 64 v → codec_spec UnsignedVarLong v (varint_bytes varint_fuel v).
Proof.
  intros Hv. split_and!.
  - intros buf. by apply encode_varint_bytes.
  - cbn [compute_size UnsignedVarLong]. by rewrite varlong_size_bytes.
  - intros rest. unfold in_unsigned in Hv. cbn [decode UnsignedVarLong].
    unfold varint_fuel. rewrite get_varint_bytes by (simpl; lia). do 2 f_equal. lia.
Qed.

(** ** Zig-zag *)

Lemma wrap_unsigned_signed_neg (w z : Z) :
  0 < w → (- wrap_signed w z - 1) mod 2 ^ w = (- z - 1) mod 2 ^ w.
Proof.
  intros Hw. assert (0 < 2 ^ w) by (apply Z.pow_pos_nonneg; lia).
  unfold wrap_signed.
  rewrite (Z.mod_eq (z + _)) by lia.
  set (q := (z + 2 ^ (w - 1)) / 2 ^ w).
  replace (- (z + 2 ^ (w - 1) - 2 ^ w * q - 2 ^ (w - 1)) - 1)
    with (- z - 1 + q * 2 ^ w) by lia.
  by rewrite Z.mod_add by lia.
Qed.

Lemma wrap_unsigned_signed (w z : Z) :
  0 < w → wrap_signed w z mod 2 ^ w = z mod 2 ^ w.
Proof.
  intros Hw. assert (0 < 2 ^ w) by (apply Z.pow_pos_nonneg; lia).
  unfold wrap_signed. rewrite (Z.mod_eq (z + _)) by lia.
  set (q := (z + 2 ^ (w - 1)) / 2 ^ w).
  replace (z + 2 ^ (w - 1) - 2 ^ w * q - 2 ^ (w - 1)) with (z + (- q) * 2 ^ w) by lia.
  by rewrite Z.mod_add by lia.
Qed.

Lemma shiftr_sign (w v : Z) :
  0 < w → in_signed w v → Z.shiftr v (w - 1) = if decide (0 ≤ v) then 0 else -1.
Proof.
  intros Hw [Hlo Hhi]. rewrite Z.shiftr_div_pow2 by lia. case_decide.
  - by apply Z.div_small.
  - symmetry. apply (Z.div_unique _ _ _ (v + 2 ^ (w - 1))); [left|]; lia.
Qed.

Lemma zigzag_eq (w v : Z) :
  0 < w → in_signed w v → zigzag w v = if decide (0 ≤ v) then 2 * v else - 2 * v - 1.
Proof.
  intros Hw Hv. unfold zigzag, wrap_unsigned. rewrite shiftr_sign by done.
  assert (2 ^ w = 2 * 2 ^ (w - 1)) as Hp.
  { rewrite <- Z.pow_succ_r by lia. f_equal. lia. }
  rewrite Z.shiftl_mul_pow2 by lia. change (2 ^ 1) with 2.
  destruct Hv as [Hlo Hhi]. case_decide.
  - rewrite Z.lxor_0_r, wrap_unsigned_signed, Z.mod_small by lia. lia.
  - rewrite Z.lxor_m1_r. unfold Z.lnot. rewrite <- Z.sub_1_r.
    rewrite wrap_unsigned_signed_neg, Z.mod_small by lia. lia.
Qed.

Lemma land_1 (z : Z) : Z.land z 1 = z mod 2.
Proof. change 1 with (Z.ones 1) at 1. by rewrite Z.land_ones by lia. Qed.

Lemma unzigzag_zigzag (w v : Z) :
  2 < w → in_signed w v → unzigzag w (zigzag w v) = v.
Proof.
  intros Hw Hv. rewrite zigzag_eq by (done || lia). unfold unzigzag.
  rewrite land_1, Z.shiftr_div_pow2 by lia. change (2 ^ 1) with 2.
  assert (2 ≤ 2 ^ (w - 1)) by (change 2 with (2 ^ 1) at 1; apply Z.pow_le_mono_r; lia).
  destruct Hv as [Hlo Hhi]. case_decide.
  - replace (2 * v / 2) with v by (apply Z.div_unique_exact; lia).
    replace ((2 * v) mod 2) with 0 by (symmetry; apply Z.mod_divide; [lia|]; exists v; lia).
    rewrite !wrap_signed_small by (unfold in_signed; lia). apply Z.lxor_0_r.
  - replace ((- 2 * v - 1) / 2) with (- v - 1) by (apply (Z.div_unique _ _ _ 1); lia).
    replace ((- 2 * v - 1) mod 2) with 1 by (apply (Z.mod_unique _ _ (- v - 1)); lia).
    rewrite !wrap_signed_small by (unfold in_signed; lia).
    rewrite Z.lxor_m1_r. unfold Z.lnot. lia.
Qed.

Lemma zigzag_range (w v : Z) : 0 < w → in_signed w v → in_unsigned w (zigzag w v).
Proof.
  intros Hw Hv. rewrite zigzag_eq by done. destruct Hv. unfold in_unsigned.
  assert (2 ^ w = 2 * 2 ^ (w - 1)) as Hp.
  { rewrite <- Z.pow_succ_r by lia. f_equal. lia. }
  case_decide; lia.
Qed.

(** ** Every codec of the crate is lawful *)

Definition opt_all {T : Type} (P : T → Prop) (o : option T) : Prop :=
  match o with Some v => P v | None => True end.

Definition string_wf (s : list byte) : Prop := len s ≤ i16_max ∧ utf8_valid s = true.
Definition compact_string_wf (s : list byte) : Prop := len s < u32_max ∧ utf8_valid s = true.
Definition bytes_wf (s : list byte) : Prop := len s ≤ i32_max.
Definition compact_bytes_wf (s : list byte) : Prop := len s < u32_max.
Definition array_wf {T : Type} (wf : T → Prop) (a : list T) : Prop :=
  len a ≤ i32_max ∧ Forall wf a.
Definition compact_array_wf {T : Type} (wf : T → Prop) (a : list T) : Prop :=
  len a < u32_max ∧ Forall wf a.

Lemma simple_int_spec (n : nat) (get : decoder Z) (v : Z) :
  (∀ rest, get (be_bytes n v ++ rest) = Ok (v, rest)) →
  codec_spec (simple_int n get) v (be_bytes n v).
Proof.
  intros Hget. split_and!; [done| |done].
  cbn [compute_size simple_int]. by rewrite len_be_bytes.
Qed.

Lemma signed_int_lawful (n : nat) :
  n ≠ O → Lawful (simple_int n (try_get_int n)) (in_signed (8 * Z.of_nat n)).
Proof.
  intros Hn. split; [|by intros ? ? [= <-]].
  intros v Hv. exists (be_bytes n v). apply simple_int_spec.
  intros rest. by apply try_get_int_app.
Qed.

Lemma unsigned_int_lawful (n : nat) :
  Lawful (simple_int n (try_get_uint n)) (in_unsigned (8 * Z.of_nat n)).
Proof.
  split; [|by intros ? ? [= <-]].
  intros v Hv. exists (be_bytes n v). apply simple_int_spec.
  intros rest. rewrite (try_get_uint_app n v rest). by rewrite Z.mod_small.
Qed.

#[global] Instance Boolean_lawful : Lawful Boolean (λ _, True).
Proof.
  split; [|by intros ? ? [= <-]]. intros v _. exists [if v then Byte.x01 else Byte.x00].
  split_and!; [|done|].
  - intros buf. cbn [encode Boolean]. rewrite put_u8_app. by destruct v.
  - intros rest. cbn [decode Boolean app].
    rewrite (decoder_bind_Ok _ _ _ _ _ (try_get_u8_cons _ _)). by destruct v.
Qed.

#[global] Instance Int8_lawful : Lawful Int8 (in_signed 8).
Proof. by apply (signed_int_lawful 1). Qed.
#[global] Instance Int16_lawful : Lawful Int16 (in_signed 16).
Proof. by apply (signed_int_lawful 2). Qed.
#[global] Instance UInt16_lawful : Lawful UInt16 (in_unsigned 16).
Proof. by apply (unsigned_int_lawful 2). Qed.
#[global] Instance Int32_lawful : Lawful Int32 (in_signed 32).
Proof. by apply (signed_int_lawful 4). Qed.
#[global] Instance Int64_lawful : Lawful Int64 (in_signed 64).
Proof. by apply (signed_int_lawful 8). Qed.
#[global] Instance UInt32_lawful : Lawful UInt32 (in_unsigned 32).
Proof. by apply (unsigned_int_lawful 4). Qed.
#[global] Instance Uuid_lawful : Lawful Uuid (in_unsigned 128).
Proof.
  split; [|by intros ? ? [= <-]]. intros v Hv. exists (be_bytes 16 v).
  split_and!; [done|done|]. intros rest. cbn [decode Uuid].
  rewrite (try_get_uint_app 16 v rest). by rewrite Z.mod_small.
Qed.

#[global] Instance UnsignedVarInt_lawful : Lawful UnsignedVarInt (in_unsigned 32).
Proof. split; [|done]. eauto using UnsignedVarInt_spec. Qed.
#[global] Instance UnsignedVarLong_lawful : Lawful UnsignedVarLong (in_unsigned 64).
Proof. split; [|done]. eauto using UnsignedVarLong_spec. Qed.

(** The bytes of a signed varint. *)
Definition varint_signed (w v : Z) : list byte := varint_bytes varint_fuel (zigzag w v).

Lemma zigzag_codec (w : Z) (c cu : Codec Z) (v : Z) :
  2 < w → in_signed w v →
  encode c v = encode cu (zigzag w v) → compute_size c v = compute_size cu (zigzag w v) →
  decode c = (z ← decode cu; mret (unzigzag w z)) →
  codec_spec cu (zigzag w v) (varint_signed w v) → codec_spec c v (varint_signed w v).
Proof.
  intros Hw Hv He Hs Hd (He' & Hs' & Hd'). split_and!.
  - intros buf. by rewrite He.
  - by rewrite Hs.
  - intros rest. rewrite Hd, (decoder_bind_Ok _ _ _ _ _ (Hd' rest)).
    unfold mret, decoder_ret. by rewrite unzigzag_zigzag.
Qed.

Lemma VarInt_spec (v : Z) : in_signed 32 v → codec_spec VarInt v (varint_signed 32 v).
Proof.
  intros Hv. apply (zigzag_codec 32 _ UnsignedVarInt); [done..|].
  by apply UnsignedVarInt_spec, zigzag_range.
Qed.

Lemma VarLong_spec (v : Z) : in_signed 64 v → codec_spec VarLong v (varint_signed 64 v).
Proof.
  intros Hv. apply (zigzag_codec 64 _ UnsignedVarLong); [done..|].
  by apply UnsignedVarLong_spec, zigzag_range.
Qed.

#[global] Instance VarInt_lawful : Lawful VarInt (in_signed 32).
Proof. split; [|done]. eauto using VarInt_spec. Qed.
#[global] Instance VarLong_lawful : Lawful VarLong (in_signed 64).
Proof. split; [|done]. eauto using VarLong_spec. Qed.

(** A codec that rejects null is lawful when the nullable one is. *)
Lemma non_null_lawful {T : Type} (c : Codec T) (cn : Codec (option T)) (wf : T → Prop) message :
  (∀ v, encode c v = encode cn (Some v)) →
  (∀ v, compute_size c v = compute_size cn (Some v)) →
  fixed_size c = None → decode c = non_null message (decode cn) →
  Lawful cn (opt_all wf) → Lawful c wf.
Proof.
  intros He Hs Hf Hd Hcn. split; [|by rewrite Hf].
  intros v Hv. destruct (lawful (Some v) Hv) as (bytes & He' & Hs' & Hd').
  exists bytes. split_and!.
  - intros buf. by rewrite He.
  - by rewrite Hs.
  - intros rest. rewrite Hd. unfold non_null. by rewrite (decoder_bind_Ok _ _ _ _ _ (Hd' rest)).
Qed.

Lemma result_bind_eq {E A B : Type} (r : result E A) (a : A) (f : A → result E B) :
  r = Ok a → r ≫= f = f a.
Proof. by intros ->. Qed.

(** A length-prefixed payload: the prefix codec [p] writes [n], the payload
    follows. *)
Lemma Int_spec (n : nat) (v : Z) :
  n ≠ O → in_signed (8 * Z.of_nat n) v →
  codec_spec (simple_int n (try_get_int n)) v (be_bytes n v).
Proof. intros Hn Hv. apply simple_int_spec. intros rest. by apply try_get_int_app. Qed.

Lemma Int16_spec (v : Z) : in_signed 16 v → codec_spec Int16 v (be_bytes 2 v).
Proof. by apply (Int_spec 2). Qed.
Lemma Int32_spec (v : Z) : in_signed 32 v → codec_spec Int32 v (be_bytes 4 v).
Proof. by apply (Int_spec 4). Qed.
Lemma Int8_spec (v : Z) : in_signed 8 v → codec_spec Int8 v (be_bytes 1 v).
Proof. by apply (Int_spec 1). Qed.

Lemma utf8_from (s : list byte) : utf8_valid s = true → from_utf8 s = Ok s.
Proof. unfold from_utf8. by intros ->. Qed.

Ltac width := unfold in_signed, in_unsigned, i16_max, i32_max, u32_max in *;
  simpl in *; lia.

#[global] Instance NullableString_lawful : Lawful NullableString (opt_all string_wf).
Proof.
  split; [|done]. intros [s|] Hwf.
  - destruct Hwf as [Hlen Hutf]. pose proof (len_nonneg s).
    assert (in_signed 16 (len s)) as Hin by width.
    destruct (Int16_spec _ Hin) as (He & Hs & Hd).
    exists (be_bytes 2 (len s) ++ s). split_and!.
    + intros buf. cbn [encode NullableString String_encode].
      rewrite decide_False by lia. rewrite (result_bind_eq _ _ _ (He buf)).
      unfold put_slice. by rewrite app_assoc.
    + cbn [compute_size NullableString String_compute_size].
      rewrite decide_False by lia. by rewrite len_app, len_be_bytes.
    + intros rest. cbn [decode NullableString]. unfold String_decode.
      rewrite <- app_assoc, (decoder_bind_Ok _ _ _ _ _ (Hd _)).
      rewrite decide_False, decide_True by lia.
      rewrite (decoder_bind_Ok _ _ _ _ _ (try_get_bytes_app _ _)).
      by rewrite utf8_from.
  - assert (in_signed 16 (-1)) as Hin by width.
    destruct (Int16_spec _ Hin) as (He & Hs & Hd).
    exists (be_bytes 2 (-1)). split_and!; [done|done|].
    intros rest. cbn [decode NullableString]. unfold String_decode.
    by rewrite (decoder_bind_Ok _ _ _ _ _ (Hd _)).
Qed.

#[global] Instance KafkaString_lawful : Lawful KafkaString string_wf.
Proof. eapply (non_null_lawful _ NullableString); [done..|apply _]. Qed.

#[global] Instance NullableBytes_lawful : Lawful NullableBytes (opt_all bytes_wf).
Proof.
  split; [|done]. intros [s|] Hwf.
  - unfold opt_all, bytes_wf in Hwf. pose proof (len_nonneg s).
    assert (in_signed 32 (len s)) as Hin by width.
    destruct (Int32_spec _ Hin) as (He & Hs & Hd).
    exists (be_bytes 4 (len s) ++ s). split_and!.
    + intros buf. cbn [encode NullableBytes Bytes_encode].
      rewrite decide_False by lia. rewrite (result_bind_eq _ _ _ (He buf)).
      unfold put_slice. by rewrite app_assoc.
    + cbn [compute_size NullableBytes Bytes_compute_size].
      rewrite decide_False by lia. by rewrite len_app, len_be_bytes.
    + intros rest. cbn [decode NullableBytes]. unfold Bytes_decode.
      rewrite <- app_assoc, (decoder_bind_Ok _ _ _ _ _ (Hd _)).
      rewrite decide_False, decide_True by lia.
      by rewrite (decoder_bind_Ok _ _ _ _ _ (try_get_bytes_app _ _)).
  - assert (in_signed 32 (-1)) as Hin by width.
    destruct (Int32_spec _ Hin) as (He & Hs & Hd).
    exists (be_bytes 4 (-1)). split_and!; [done|done|].
    intros rest. cbn [decode NullableBytes]. unfold Bytes_decode.
    by rewrite (decoder_bind_Ok _ _ _ _ _ (Hd _)).
Qed.

#[global] Instance Bytes_lawful : Lawful Bytes bytes_wf.
Proof. eapply (non_null_lawful _ NullableBytes); [done..|apply _]. Qed.

(** The two compact codecs differ in what they do with the payload. *)
Lemma compact_spec (c : Codec (option (list byte))) (message : string)
    (finish : list byte → result anyhow (list byte)) (s : option (list byte)) :
  encode c = compact_encode message → compute_size c = compact_compute_size message →
  (∀ buf, decode c buf =
     (n ← decode UnsignedVarInt;
      if decide (n = 0) then mret None
      else s ← try_get_bytes (n - 1); s ← lift (finish s); mret (Some s)) buf) →
  opt_all (λ s, len s < u32_max ∧ finish s = Ok s) s →
  ∃ bytes, codec_spec c s bytes.
Proof.
  intros He Hs Hd Hwf. destruct s as [s|].
  - destruct Hwf as [Hlen Hfin]. pose proof (len_nonneg s).
    assert (in_unsigned 32 (len s + 1)) as Hin by width.
    destruct (UnsignedVarInt_spec _ Hin) as (He' & Hs' & Hd').
    eexists (_ ++ s). split_and!.
    + intros buf. rewrite He. cbn [compact_encode]. rewrite decide_False by lia.
      rewrite (result_bind_eq _ _ _ (He' buf)). unfold put_slice. by rewrite app_assoc.
    + rewrite Hs. cbn [compact_compute_size]. rewrite decide_False by lia.
      by rewrite (result_bind_eq _ _ _ Hs'), len_app.
    + intros rest. rewrite Hd, <- app_assoc, (decoder_bind_Ok _ _ _ _ _ (Hd' _)).
      rewrite decide_False by lia. replace (len s + 1 - 1) with (len s) by lia.
      rewrite (decoder_bind_Ok _ _ _ _ _ (try_get_bytes_app _ _)).
      by rewrite Hfin.
  - assert (in_unsigned 32 0) as Hin by width.
    destruct (UnsignedVarInt_spec _ Hin) as (He' & Hs' & Hd').
    eexists. split_and!.
    + intros buf. rewrite He. apply He'.
    + by rewrite Hs, <- Hs'.
    + intros rest. by rewrite Hd, (decoder_bind_Ok _ _ _ _ _ (Hd' _)).
Qed.

#[global] Instance NullableCompactString_lawful :
  Lawful NullableCompactString (opt_all compact_string_wf).
Proof.
  split; [|done]. intros s Hs. eapply (compact_spec _ _ from_utf8); [done..|].
  destruct s as [s|]; [|done]. destruct Hs. split; [done|]. by apply utf8_from.
Qed.

#[global] Instance CompactString_lawful : Lawful CompactString compact_string_wf.
Proof. eapply (non_null_lawful _ NullableCompactString); [done..|apply _]. Qed.

#[global] Instance NullableCompactBytes_lawful :
  Lawful NullableCompactBytes (opt_all compact_bytes_wf).
Proof. split; [|done]. intros s Hs. eapply (compact_spec _ _ Ok); [done..|]. by destruct s. Qed.

#[global] Instance CompactBytes_lawful : Lawful CompactBytes compact_bytes_wf.
Proof. eapply (non_null_lawful _ NullableCompactBytes); [done..|apply _]. Qed.

(** ** Arrays *)

Section arrays.
  Context {T : Type} (E : Codec T) (wf : T → Prop) `{HE : !Lawful E wf}.

(** The bytes of the items, and the three loops over them. *)
Lemma items_spec (a : list T) :
  Forall wf a →
  ∃ bytes, (∀ buf, encode_items E a buf = Ok (buf ++ bytes)) ∧
    (∀ total, size_items E a total = Ok (total + len bytes)) ∧
    (∀ rest, decode_items E (length a) (bytes ++ rest) = Ok (a, rest)).
Proof.
  induction 1 as [|x a Hx _ (bytes & He & Hs & Hd)].
  - exists []. split_and!; simpl.
    + intros buf. by rewrite app_nil_r.
    + intros total. f_equal. unfold len. simpl. lia.
    + done.
  - destruct (lawful x Hx) as (xb & Hxe & Hxs & Hxd).
    exists (xb ++ bytes). split_and!; simpl.
    + intros buf. by rewrite (result_bind_eq _ _ _ (Hxe buf)), He, app_assoc.
    + intros total. rewrite (result_bind_eq _ _ _ Hxs), Hs, len_app. f_equal. lia.
    + intros rest. rewrite <- app_assoc, (decoder_bind_Ok _ _ _ _ _ (Hxd _)).
      by rewrite (decoder_bind_Ok _ _ _ _ _ (Hd rest)).
Qed.

(** The shortcut for elements of a fixed size computes the same total. *)
Lemma array_size_items (prefix : Z) (a : list T) :
  array_size E prefix a = size_items E a prefix.
Proof.
  unfold array_size. destruct (fixed_size E) as [n|] eqn:Hn; [|done].
  revert prefix. induction a as [|x a IH]; intros prefix; simpl.
  - f_equal. unfold len. simpl. lia.
  - rewrite (result_bind_eq _ _ _ (lawful_fixed n x Hn)), <- IH, len_cons. f_equal. lia.
Qed.

#[global] Instance NullableArray_lawful : Lawful (NullableArray E) (opt_all (array_wf wf)).
Proof.
  split; [|done]. intros [a|] Hwf.
  - destruct Hwf as [Hlen Ha]. pose proof (len_nonneg a).
    assert (in_signed 32 (len a)) as Hin by width.
    destruct (Int32_spec _ Hin) as (He & Hs & Hd).
    destruct (items_spec a Ha) as (bytes & Hie & His & Hid).
    exists (be_bytes 4 (len a) ++ bytes). split_and!.
    + intros buf. cbn [encode NullableArray]. rewrite decide_False by lia.
      by rewrite (result_bind_eq _ _ _ (He buf)), Hie, app_assoc.
    + cbn [compute_size NullableArray]. rewrite decide_False by lia.
      by rewrite array_size_items, His, len_app, len_be_bytes.
    + intros rest. cbn [decode NullableArray].
      rewrite <- app_assoc, (decoder_bind_Ok _ _ _ _ _ (Hd _)).
      rewrite decide_False, decide_True by lia. unfold len. rewrite Nat2Z.id.
      by rewrite (decoder_bind_Ok _ _ _ _ _ (Hid rest)).
  - assert (in_signed 32 (-1)) as Hin by width.
    destruct (Int32_spec _ Hin) as (He & Hs & Hd).
    exists (be_bytes 4 (-1)). split_and!; [done|done|].
    intros rest. cbn [decode NullableArray]. by rewrite (decoder_bind_Ok _ _ _ _ _ (Hd _)).
Qed.

#[global] Instance Array_lawful : Lawful (Array E) (array_wf wf).
Proof. eapply (non_null_lawful _ (NullableArray E)); [done..|apply _]. Qed.

#[global] Instance NullableCompactArray_lawful :
  Lawful (NullableCompactArray E) (opt_all (compact_array_wf wf)).
Proof.
  split; [|done]. intros [a|] Hwf.
  - destruct Hwf as [Hlen Ha]. pose proof (len_nonneg a).
    assert (in_unsigned 32 (len a + 1)) as Hin by width.
    destruct (UnsignedVarInt_spec _ Hin) as (He & Hs & Hd).
    destruct (items_spec a Ha) as (bytes & Hie & His & Hid).
    eexists (_ ++ bytes). split_and!.
    + intros buf. cbn [encode NullableCompactArray]. rewrite decide_False by lia.
      by rewrite (result_bind_eq _ _ _ (He buf)), Hie, app_assoc.
    + cbn [compute_size NullableCompactArray]. rewrite decide_False by lia.
      by rewrite (result_bind_eq _ _ _ Hs), array_size_items, His, len_app.
    + intros rest. cbn [decode NullableCompactArray].
      rewrite <- app_assoc, (decoder_bind_Ok _ _ _ _ _ (Hd _)).
      rewrite decide_False by lia.
      replace (Z.to_nat (len a + 1 - 1)) with (length a) by (unfold len; lia).
      by rewrite (decoder_bind_Ok _ _ _ _ _ (Hid rest)).
  - assert (in_unsigned 32 0) as Hin by width.
    destruct (UnsignedVarInt_spec _ Hin) as (He & Hs & Hd).
    eexists. split_and!; [done|by rewrite <- Hs|].
    intros rest. cbn [decode NullableCompactArray]. by rewrite (decoder_bind_Ok _ _ _ _ _ (Hd _)).
Qed.

#[global] Instance CompactArray_lawful : Lawful (CompactArray E) (compact_array_wf wf).
Proof. eapply (non_null_lawful _ (NullableCompactArray E)); [done..|apply _]. Qed.

End arrays.

Section structs.
  Context {T : Type} (message : Z → Codec T) (version : Z) (wf : T → Prop).
  Context `{Hmessage : !Lawful (message version) wf}.

#[global] Instance Struct_lawful : Lawful (Struct message version) wf.
Proof. split; [|done]. intros v Hv. by apply (lawful (c := message version)). Qed.

#[global] Instance OptionStruct_lawful : Lawful (OptionStruct message version) (opt_all wf).
Proof.
  split; [|done]. intros [v|] Hv.
  - destruct (lawful (c := message version) v Hv) as (bytes & He & Hs & Hd).
    assert (in_signed 8 1) as Hin by width.
    destruct (Int8_spec _ Hin) as (He' & Hs' & Hd').
    exists (be_bytes 1 1 ++ bytes). split_and!.
    + intros buf. cbn [encode OptionStruct].
      by rewrite (result_bind_eq _ _ _ (He' buf)), He, app_assoc.
    + cbn [compute_size OptionStruct].
      by rewrite (result_bind_eq _ _ _ Hs), len_app, len_be_bytes.
    + intros rest. cbn [decode OptionStruct].
      rewrite <- app_assoc, (decoder_bind_Ok _ _ _ _ _ (Hd' _)), decide_True by done.
      by rewrite (decoder_bind_Ok _ _ _ _ _ (Hd rest)).
  - assert (in_signed 8 (-1)) as Hin by width.
    destruct (Int8_spec _ Hin) as (He' & Hs' & Hd').
    exists (be_bytes 1 (-1)). split_and!; [done|done|].
    intros rest. cbn [decode OptionStruct]. by rewrite (decoder_bind_Ok _ _ _ _ _ (Hd' _)).
Qed.
End structs.

(** ** The wire types *)

(** Every well-formed value is encoded by appending bytes of the computed size,
    and decodes from them, whatever follows. *)
Definition roundtrips {T : Type} (c : Codec T) (wf : T → Prop) : Prop :=
  ∀ v, wf v → ∃ bytes,
    (∀ buf, encode c v buf = Ok (buf ++ bytes)) ∧ compute_size c v = Ok (len bytes) ∧
    ∀ rest, decode c (bytes ++ rest) = Ok (v, rest).

(** The wire types round-trip.  Every scalar type over its full machine
    width, strings and byte arrays (plain, nullable, compact) up to the lengths
    their prefixes can hold, arrays and optional structures of any element type
    that round-trips: encoding never fails, takes exactly the size computed in
    advance, and decodes to the same value leaving the following bytes alone. *)
Theorem wire_types_roundtrip :
  (roundtrips Boolean (λ _, True) ∧ roundtrips Int8 (in_signed 8) ∧
   roundtrips Int16 (in_signed 16) ∧ roundtrips UInt16 (in_unsigned 16) ∧
   roundtrips Int32 (in_signed 32) ∧ roundtrips UInt32 (in_unsigned 32) ∧
   roundtrips Int64 (in_signed 64) ∧ roundtrips Uuid (in_unsigned 128)) ∧
  (roundtrips UnsignedVarInt (in_unsigned 32) ∧ roundtrips UnsignedVarLong (in_unsigned 64) ∧
   roundtrips VarInt (in_signed 32) ∧ roundtrips VarLong (in_signed 64)) ∧
  (roundtrips KafkaString string_wf ∧ roundtrips NullableString (opt_all string_wf) ∧
   roundtrips CompactString compact_string_wf ∧
   roundtrips NullableCompactString (opt_all compact_string_wf) ∧
   roundtrips Bytes bytes_wf ∧ roundtrips NullableBytes (opt_all bytes_wf) ∧
   roundtrips CompactBytes compact_bytes_wf ∧
   roundtrips NullableCompactBytes (opt_all compact_bytes_wf)) ∧
  (∀ (T : Type) (E : Codec T) (wf : T → Prop), Lawful E wf →
    roundtrips (Array E) (array_wf wf) ∧ roundtrips (NullableArray E) (opt_all (array_wf wf)) ∧
    roundtrips (CompactArray E) (compact_array_wf wf) ∧
    roundtrips (NullableCompactArray E) (opt_all (compact_array_wf wf)) ∧
    roundtrips (OptionStruct (λ _, E) 0) (opt_all wf)).
Proof.
  assert (∀ (T : Type) (c : Codec T) (wf : T → Prop), Lawful c wf → roundtrips c wf) as Hl.
  { intros T c wf Hc v Hv. by apply (lawful (c := c)). }
  split_and!; try (apply Hl; apply _).
  intros T E wf HE. split_and!; apply Hl; apply _.
Qed.
