(* ===== verification/Errors.v ===== *)
(** * Kafka error codes

    [src/crates/kafka-protocol/src/error.rs]: the [ResponseError] enumeration
    the [define_errors!] macro generates, its conversions to and from the wire
    codes, and the helpers on raw codes. *)

From stdpp Require Import pretty.
From S2P Require Import Prelude.

Module Errors.

(* @ src/crates/kafka-protocol/src/error.rs 107-117 ResponseError *)
Inductive ResponseError : Type :=
| Unknown (code : Z)
| UnknownServerError | OffsetOutOfRange | CorruptMessage | UnknownTopicOrPartition
| InvalidFetchSize | LeaderNotAvailable | NotLeaderOrFollower | RequestTimedOut
| BrokerNotAvailable | ReplicaNotAvailable | MessageTooLarge | StaleControllerEpoch
| OffsetMetadataTooLarge | NetworkException | CoordinatorLoadInProgress
| CoordinatorNotAvailable | NotCoordinator | InvalidTopicException | RecordListTooLarge
| NotEnoughReplicas | NotEnoughReplicasAfterAppend | InvalidRequiredAcks | IllegalGeneration
| InconsistentGroupProtocol | InvalidGroupId | UnknownMemberId | InvalidSessionTimeout
| RebalanceInProgress | InvalidCommitOffsetSize | TopicAuthorizationFailed
| GroupAuthorizationFailed | ClusterAuthorizationFailed | InvalidTimestamp
| UnsupportedSaslMechanism | IllegalSaslState | UnsupportedVersion | TopicAlreadyExists
| InvalidPartitions | InvalidReplicationFactor | InvalidReplicaAssignment | InvalidConfig
| NotController | InvalidRequest | UnsupportedForMessageFormat | PolicyViolation
| OutOfOrderSequenceNumber | DuplicateSequenceNumber | InvalidProducerEpoch | InvalidTxnState
| InvalidProducerIdMapping | InvalidTransactionTimeout | ConcurrentTransactions
| TransactionCoordinatorFenced | TransactionalIdAuthorizationFailed | SecurityDisabled
| OperationNotAttempted | KafkaStorageError | LogDirNotFound | SaslAuthenticationFailed
| UnknownProducerId | ReassignmentInProgress | DelegationTokenAuthDisabled
| DelegationTokenNotFound | DelegationTokenOwnerMismatch | DelegationTokenRequestNotAllowed
| DelegationTokenAuthorizationFailed | DelegationTokenExpired | InvalidPrincipalType
| NonEmptyGroup | GroupIdNotFound | FetchSessionIdNotFound | InvalidFetchSessionEpoch
| ListenerNotFound | TopicDeletionDisabled | FencedLeaderEpoch | UnknownLeaderEpoch
| UnsupportedCompressionType | StaleBrokerEpoch | OffsetNotAvailable | MemberIdRequired
| PreferredLeaderNotAvailable | GroupMaxSizeReached | FencedInstanceId
| EligibleLeadersNotAvailable | ElectionNotNeeded | NoReassignmentInProgress
| GroupSubscribedToTopic | InvalidRecord | UnstableOffsetCommit | ThrottlingQuotaExceeded
| ProducerFenced | ResourceNotFound | DuplicateResource | UnacceptableCredential
| InconsistentVoterSet | InvalidUpdateVersion | FeatureUpdateFailed
| PrincipalDeserializationFailure | SnapshotNotFound | PositionOutOfRange | UnknownTopicId
| DuplicateBrokerRegistration | BrokerIdNotRegistered | InconsistentTopicId
| InconsistentClusterId | TransactionalIdNotFound | FetchSessionTopicIdError
| IneligibleReplica | NewLeaderElected | OffsetMovedToTieredStorage | FencedMemberEpoch
| UnreleasedInstanceId | UnsupportedAssignor | StaleMemberEpoch | MismatchedEndpointType
| UnsupportedEndpointType | UnknownControllerId | UnknownSubscriptionId | TelemetryTooLarge
| InvalidRegistration | TransactionAbortable | InvalidRecordState | ShareSessionNotFound
| InvalidShareSessionEpoch | FencedStateEpoch | InvalidVoterKey | DuplicateVoter
| VoterNotFound | InvalidRegularExpression | RebootstrapRequired | StreamsInvalidTopology
| StreamsInvalidTopologyEpoch | StreamsTopologyFenced | ShareSessionLimitReached.

#[global] Instance ResponseError_eq_dec : EqDecision ResponseError.
Proof. solve_decision. Defined.

(* @ src/crates/kafka-protocol/src/error.rs 146-326 ResponseError::code *)
Definition code (e : ResponseError) : Z :=
  match e with
  | Unknown code => code
  | UnknownServerError => -1
  | OffsetOutOfRange => 1
  | CorruptMessage => 2
  | UnknownTopicOrPartition => 3
  | InvalidFetchSize => 4
  | LeaderNotAvailable => 5
  | NotLeaderOrFollower => 6
  | RequestTimedOut => 7
  | BrokerNotAvailable => 8
  | ReplicaNotAvailable => 9
  | MessageTooLarge => 10
  | StaleControllerEpoch => 11
  | OffsetMetadataTooLarge => 12
  | NetworkException => 13
  | CoordinatorLoadInProgress => 14
  | CoordinatorNotAvailable => 15
  | NotCoordinator => 16
  | InvalidTopicException => 17
  | RecordListTooLarge => 18
  | NotEnoughReplicas => 19
  | NotEnoughReplicasAfterAppend => 20
  | InvalidRequiredAcks => 21
  | IllegalGeneration => 22
  | InconsistentGroupProtocol => 23
  | InvalidGroupId => 24
  | UnknownMemberId => 25
  | InvalidSessionTimeout => 26
  | RebalanceInProgress => 27
  | InvalidCommitOffsetSize => 28
  | TopicAuthorizationFailed => 29
  | GroupAuthorizationFailed => 30
  | ClusterAuthorizationFailed => 31
  | InvalidTimestamp => 32
  | UnsupportedSaslMechanism => 33
  | IllegalSaslState => 34
  | UnsupportedVersion => 35
  | TopicAlreadyExists => 36
  | InvalidPartitions => 37
  | InvalidReplicationFactor => 38
  | InvalidReplicaAssignment => 39
  | InvalidConfig => 40
  | NotController => 41
  | InvalidRequest => 42
  | UnsupportedForMessageFormat => 43
  | PolicyViolation => 44
  | OutOfOrderSequenceNumber => 45
  | DuplicateSequenceNumber => 46
  | InvalidProducerEpoch => 47
  | InvalidTxnState => 48
  | InvalidProducerIdMapping => 49
  | InvalidTransactionTimeout => 50
  | ConcurrentTransactions => 51
  | TransactionCoordinatorFenced => 52
  | TransactionalIdAuthorizationFailed => 53
  | SecurityDisabled => 54
  | OperationNotAttempted => 55
  | KafkaStorageError => 56
  | LogDirNotFound => 57
  | SaslAuthenticationFailed => 58
  | UnknownProducerId => 59
  | ReassignmentInProgress => 60
  | DelegationTokenAuthDisabled => 61
  | DelegationTokenNotFound => 62
  | DelegationTokenOwnerMismatch => 63
  | DelegationTokenRequestNotAllowed => 64
  | DelegationTokenAuthorizationFailed => 65
  | DelegationTokenExpired => 66
  | InvalidPrincipalType => 67
  | NonEmptyGroup => 68
  | GroupIdNotFound => 69
  | FetchSessionIdNotFound => 70
  | InvalidFetchSessionEpoch => 71
  | ListenerNotFound => 72
  | TopicDeletionDisabled => 73
  | FencedLeaderEpoch => 74
  | UnknownLeaderEpoch => 75
  | UnsupportedCompressionType => 76
  | StaleBrokerEpoch => 77
  | OffsetNotAvailable => 78
  | MemberIdRequired => 79
  | PreferredLeaderNotAvailable => 80
  | GroupMaxSizeReached => 81
  | FencedInstanceId => 82
  | EligibleLeadersNotAvailable => 83
  | ElectionNotNeeded => 84
  | NoReassignmentInProgress => 85
  | GroupSubscribedToTopic => 86
  | InvalidRecord => 87
  | UnstableOffsetCommit => 88
  | ThrottlingQuotaExceeded => 89
  | ProducerFenced => 90
  | ResourceNotFound => 91
  | DuplicateResource => 92
  | UnacceptableCredential => 93
  | InconsistentVoterSet => 94
  | InvalidUpdateVersion => 95
  | FeatureUpdateFailed => 96
  | PrincipalDeserializationFailure => 97
  | SnapshotNotFound => 98
  | PositionOutOfRange => 99
  | UnknownTopicId => 100
  | DuplicateBrokerRegistration => 101
  | BrokerIdNotRegistered => 102
  | InconsistentTopicId => 103
  | InconsistentClusterId => 104
  | TransactionalIdNotFound => 105
  | FetchSessionTopicIdError => 106
  | IneligibleReplica => 107
  | NewLeaderElected => 108
  | OffsetMovedToTieredStorage => 109
  | FencedMemberEpoch => 110
  | UnreleasedInstanceId => 111
  | UnsupportedAssignor => 112
  | StaleMemberEpoch => 113
  | MismatchedEndpointType => 114
  | UnsupportedEndpointType => 115
  | UnknownControllerId => 116
  | UnknownSubscriptionId => 117
  | TelemetryTooLarge => 118
  | InvalidRegistration => 119
  | TransactionAbortable => 120
  | InvalidRecordState => 121
  | ShareSessionNotFound => 122
  | InvalidShareSessionEpoch => 123
  | FencedStateEpoch => 124
  | InvalidVoterKey => 125
  | DuplicateVoter => 126
  | VoterNotFound => 127
  | InvalidRegularExpression => 128
  | RebootstrapRequired => 129
  | StreamsInvalidTopology => 130
  | StreamsInvalidTopologyEpoch => 131
  | StreamsTopologyFenced => 132
  | ShareSessionLimitReached => 133
  end.

(* @ src/crates/kafka-protocol/src/error.rs 132-144 ResponseError::try_from_code *)
Definition try_from_code (c : Z) : option ResponseError :=
  match c with
  | 0 => None
  | -1 => Some UnknownServerError
  | 1 => Some OffsetOutOfRange
  | 2 => Some CorruptMessage
  | 3 => Some UnknownTopicOrPartition
  | 4 => Some InvalidFetchSize
  | 5 => Some LeaderNotAvailable
  | 6 => Some NotLeaderOrFollower
  | 7 => Some RequestTimedOut
  | 8 => Some BrokerNotAvailable
  | 9 => Some ReplicaNotAvailable
  | 10 => Some MessageTooLarge
  | 11 => Some StaleControllerEpoch
  | 12 => Some OffsetMetadataTooLarge
  | 13 => Some NetworkException
  | 14 => Some CoordinatorLoadInProgress
  | 15 => Some CoordinatorNotAvailable
  | 16 => Some NotCoordinator
  | 17 => Some InvalidTopicException
  | 18 => Some RecordListTooLarge
  | 19 => Some NotEnoughReplicas
  | 20 => Some NotEnoughReplicasAfterAppend
  | 21 => Some InvalidRequiredAcks
  | 22 => Some IllegalGeneration
  | 23 => Some InconsistentGroupProtocol
  | 24 => Some InvalidGroupId
  | 25 => Some UnknownMemberId
  | 26 => Some InvalidSessionTimeout
  | 27 => Some RebalanceInProgress
  | 28 => Some InvalidCommitOffsetSize
  | 29 => Some TopicAuthorizationFailed
  | 30 => Some GroupAuthorizationFailed
  | 31 => Some ClusterAuthorizationFailed
  | 32 => Some InvalidTimestamp
  | 33 => Some UnsupportedSaslMechanism
  | 34 => Some IllegalSaslState
  | 35 => Some UnsupportedVersion
  | 36 => Some TopicAlreadyExists
  | 37 => Some InvalidPartitions
  | 38 => Some InvalidReplicationFactor
  | 39 => Some InvalidReplicaAssignment
  | 40 => Some InvalidConfig
  | 41 => Some NotController
  | 42 => Some InvalidRequest
  | 43 => Some UnsupportedForMessageFormat
  | 44 => Some PolicyViolation
  | 45 => Some OutOfOrderSequenceNumber
  | 46 => Some DuplicateSequenceNumber
  | 47 => Some InvalidProducerEpoch
  | 48 => Some InvalidTxnState
  | 49 => Some InvalidProducerIdMapping
  | 50 => Some InvalidTransactionTimeout
  | 51 => Some ConcurrentTransactions
  | 52 => Some TransactionCoordinatorFenced
  | 53 => Some TransactionalIdAuthorizationFailed
  | 54 => Some SecurityDisabled
  | 55 => Some OperationNotAttempted
  | 56 => Some KafkaStorageError
  | 57 => Some LogDirNotFound
  | 58 => Some SaslAuthenticationFailed
  | 59 => Some UnknownProducerId
  | 60 => Some ReassignmentInProgress
  | 61 => Some DelegationTokenAuthDisabled
  | 62 => Some DelegationTokenNotFound
  | 63 => Some DelegationTokenOwnerMismatch
  | 64 => Some DelegationTokenRequestNotAllowed
  | 65 => Some DelegationTokenAuthorizationFailed
  | 66 => Some DelegationTokenExpired
  | 67 => Some InvalidPrincipalType
  | 68 => Some NonEmptyGroup
  | 69 => Some GroupIdNotFound
  | 70 => Some FetchSessionIdNotFound
  | 71 => Some InvalidFetchSessionEpoch
  | 72 => Some ListenerNotFound
  | 73 => Some TopicDeletionDisabled
  | 74 => Some FencedLeaderEpoch
  | 75 => Some UnknownLeaderEpoch
  | 76 => Some UnsupportedCompressionType
  | 77 => Some StaleBrokerEpoch
  | 78 => Some OffsetNotAvailable
  | 79 => Some MemberIdRequired
  | 80 => Some PreferredLeaderNotAvailable
  | 81 => Some GroupMaxSizeReached
  | 82 => Some FencedInstanceId
  | 83 => Some EligibleLeadersNotAvailable
  | 84 => Some ElectionNotNeeded
  | 85 => Some NoReassignmentInProgress
  | 86 => Some GroupSubscribedToTopic
  | 87 => Some InvalidRecord
  | 88 => Some UnstableOffsetCommit
  | 89 => Some ThrottlingQuotaExceeded
  | 90 => Some ProducerFenced
  | 91 => Some ResourceNotFound
  | 92 => Some DuplicateResource
  | 93 => Some UnacceptableCredential
  | 94 => Some InconsistentVoterSet
  | 95 => Some InvalidUpdateVersion
  | 96 => Some FeatureUpdateFailed
  | 97 => Some PrincipalDeserializationFailure
  | 98 => Some SnapshotNotFound
  | 99 => Some PositionOutOfRange
  | 100 => Some UnknownTopicId
  | 101 => Some DuplicateBrokerRegistration
  | 102 => Some BrokerIdNotRegistered
  | 103 => Some InconsistentTopicId
  | 104 => Some InconsistentClusterId
  | 105 => Some TransactionalIdNotFound
  | 106 => Some FetchSessionTopicIdError
  | 107 => Some IneligibleReplica
  | 108 => Some NewLeaderElected
  | 109 => Some OffsetMovedToTieredStorage
  | 110 => Some FencedMemberEpoch
  | 111 => Some UnreleasedInstanceId
  | 112 => Some UnsupportedAssignor
  | 113 => Some StaleMemberEpoch
  | 114 => Some MismatchedEndpointType
  | 115 => Some UnsupportedEndpointType
  | 116 => Some UnknownControllerId
  | 117 => Some UnknownSubscriptionId
  | 118 => Some TelemetryTooLarge
  | 119 => Some InvalidRegistration
  | 120 => Some TransactionAbortable
  | 121 => Some InvalidRecordState
  | 122 => Some ShareSessionNotFound
  | 123 => Some InvalidShareSessionEpoch
  | 124 => Some FencedStateEpoch
  | 125 => Some InvalidVoterKey
  | 126 => Some DuplicateVoter
  | 127 => Some VoterNotFound
  | 128 => Some InvalidRegularExpression
  | 129 => Some RebootstrapRequired
  | 130 => Some StreamsInvalidTopology
  | 131 => Some StreamsInvalidTopologyEpoch
  | 132 => Some StreamsTopologyFenced
  | 133 => Some ShareSessionLimitReached
  | _ => Some (Unknown c)
  end.

(* @ src/crates/kafka-protocol/src/error.rs 156-168 ResponseError::is_retriable *)
Definition is_retriable (e : ResponseError) : bool :=
  match e with
  | Unknown _ => false
  | CorruptMessage | UnknownTopicOrPartition | LeaderNotAvailable | NotLeaderOrFollower
  | RequestTimedOut | ReplicaNotAvailable | NetworkException | CoordinatorLoadInProgress
  | CoordinatorNotAvailable | NotCoordinator | NotEnoughReplicas
  | NotEnoughReplicasAfterAppend | NotController | KafkaStorageError | FetchSessionIdNotFound
  | InvalidFetchSessionEpoch | ListenerNotFound | FencedLeaderEpoch | UnknownLeaderEpoch
  | OffsetNotAvailable | PreferredLeaderNotAvailable | EligibleLeadersNotAvailable
  | ElectionNotNeeded | UnstableOffsetCommit | ThrottlingQuotaExceeded | UnknownTopicId
  | InconsistentTopicId | FetchSessionTopicIdError | ShareSessionNotFound
  | InvalidShareSessionEpoch | ShareSessionLimitReached => true
  | _ => false
  end.

(* @ src/crates/kafka-protocol/src/error.rs 71-77 ok *)
Definition ok (c : Z) : option () := if decide (c = 0) then Some () else None.

(* @ src/crates/kafka-protocol/src/error.rs 79-81 err *)
Definition err (c : Z) : option ResponseError := try_from_code c.

(* @ src/crates/kafka-protocol/src/error.rs 83-85 is_ok *)
Definition code_is_ok (c : Z) : bool := bool_decide (c = 0).

(* @ src/crates/kafka-protocol/src/error.rs 87-89 is_err *)
Definition code_is_err (c : Z) : bool := bool_decide (c ≠ 0).

(** The text of an error is the name of its variant. *)
(* @ src/crates/kafka-protocol/src/error.rs 170-177 ResponseError::try_as_str *)
Definition try_as_str (e : ResponseError) : result Z string :=
  match e with
  | Unknown code => Err code
  | UnknownServerError => Ok "UnknownServerError"
  | OffsetOutOfRange => Ok "OffsetOutOfRange"
  | CorruptMessage => Ok "CorruptMessage"
  | UnknownTopicOrPartition => Ok "UnknownTopicOrPartition"
  | InvalidFetchSize => Ok "InvalidFetchSize"
  | LeaderNotAvailable => Ok "LeaderNotAvailable"
  | NotLeaderOrFollower => Ok "NotLeaderOrFollower"
  | RequestTimedOut => Ok "RequestTimedOut"
  | BrokerNotAvailable => Ok "BrokerNotAvailable"
  | ReplicaNotAvailable => Ok "ReplicaNotAvailable"
  | MessageTooLarge => Ok "MessageTooLarge"
  | StaleControllerEpoch => Ok "StaleControllerEpoch"
  | OffsetMetadataTooLarge => Ok "OffsetMetadataTooLarge"
  | NetworkException => Ok "NetworkException"
  | CoordinatorLoadInProgress => Ok "CoordinatorLoadInProgress"
  | CoordinatorNotAvailable => Ok "CoordinatorNotAvailable"
  | NotCoordinator => Ok "NotCoordinator"
  | InvalidTopicException => Ok "InvalidTopicException"
  | RecordListTooLarge => Ok "RecordListTooLarge"
  | NotEnoughReplicas => Ok "NotEnoughReplicas"
  | NotEnoughReplicasAfterAppend => Ok "NotEnoughReplicasAfterAppend"
  | InvalidRequiredAcks => Ok "InvalidRequiredAcks"
  | IllegalGeneration => Ok "IllegalGeneration"
  | InconsistentGroupProtocol => Ok "InconsistentGroupProtocol"
  | InvalidGroupId => Ok "InvalidGroupId"
  | UnknownMemberId => Ok "UnknownMemberId"
  | InvalidSessionTimeout => Ok "InvalidSessionTimeout"
  | RebalanceInProgress => Ok "RebalanceInProgress"
  | InvalidCommitOffsetSize => Ok "InvalidCommitOffsetSize"
  | TopicAuthorizationFailed => Ok "TopicAuthorizationFailed"
  | GroupAuthorizationFailed => Ok "GroupAuthorizationFailed"
  | ClusterAuthorizationFailed => Ok "ClusterAuthorizationFailed"
  | InvalidTimestamp => Ok "InvalidTimestamp"
  | UnsupportedSaslMechanism => Ok "UnsupportedSaslMechanism"
  | IllegalSaslState => Ok "IllegalSaslState"
  | UnsupportedVersion => Ok "UnsupportedVersion"
  | TopicAlreadyExists => Ok "TopicAlreadyExists"
  | InvalidPartitions => Ok "InvalidPartitions"
  | InvalidReplicationFactor => Ok "InvalidReplicationFactor"
  | InvalidReplicaAssignment => Ok "InvalidReplicaAssignment"
  | InvalidConfig => Ok "InvalidConfig"
  | NotController => Ok "NotController"
  | InvalidRequest => Ok "InvalidRequest"
  | UnsupportedForMessageFormat => Ok "UnsupportedForMessageFormat"
  | PolicyViolation => Ok "PolicyViolation"
  | OutOfOrderSequenceNumber => Ok "OutOfOrderSequenceNumber"
  | DuplicateSequenceNumber => Ok "DuplicateSequenceNumber"
  | InvalidProducerEpoch => Ok "InvalidProducerEpoch"
  | InvalidTxnState => Ok "InvalidTxnState"
  | InvalidProducerIdMapping => Ok "InvalidProducerIdMapping"
  | InvalidTransactionTimeout => Ok "InvalidTransactionTimeout"
  | ConcurrentTransactions => Ok "ConcurrentTransactions"
  | TransactionCoordinatorFenced => Ok "TransactionCoordinatorFenced"
  | TransactionalIdAuthorizationFailed => Ok "TransactionalIdAuthorizationFailed"
  | SecurityDisabled => Ok "SecurityDisabled"
  | OperationNotAttempted => Ok "OperationNotAttempted"
  | KafkaStorageError => Ok "KafkaStorageError"
  | LogDirNotFound => Ok "LogDirNotFound"
  | SaslAuthenticationFailed => Ok "SaslAuthenticationFailed"
  | UnknownProducerId => Ok "UnknownProducerId"
  | ReassignmentInProgress => Ok "ReassignmentInProgress"
  | DelegationTokenAuthDisabled => Ok "DelegationTokenAuthDisabled"
  | DelegationTokenNotFound => Ok "DelegationTokenNotFound"
  | DelegationTokenOwnerMismatch => Ok "DelegationTokenOwnerMismatch"
  | DelegationTokenRequestNotAllowed => Ok "DelegationTokenRequestNotAllowed"
  | DelegationTokenAuthorizationFailed => Ok "DelegationTokenAuthorizationFailed"
  | DelegationTokenExpired => Ok "DelegationTokenExpired"
  | InvalidPrincipalType => Ok "InvalidPrincipalType"
  | NonEmptyGroup => Ok "NonEmptyGroup"
  | GroupIdNotFound => Ok "GroupIdNotFound"
  | FetchSessionIdNotFound => Ok "FetchSessionIdNotFound"
  | InvalidFetchSessionEpoch => Ok "InvalidFetchSessionEpoch"
  | ListenerNotFound => Ok "ListenerNotFound"
  | TopicDeletionDisabled => Ok "TopicDeletionDisabled"
  | FencedLeaderEpoch => Ok "FencedLeaderEpoch"
  | UnknownLeaderEpoch => Ok "UnknownLeaderEpoch"
  | UnsupportedCompressionType => Ok "UnsupportedCompressionType"
  | StaleBrokerEpoch => Ok "StaleBrokerEpoch"
  | OffsetNotAvailable => Ok "OffsetNotAvailable"
  | MemberIdRequired => Ok "MemberIdRequired"
  | PreferredLeaderNotAvailable => Ok "PreferredLeaderNotAvailable"
  | GroupMaxSizeReached => Ok "GroupMaxSizeReached"
  | FencedInstanceId => Ok "FencedInstanceId"
  | EligibleLeadersNotAvailable => Ok "EligibleLeadersNotAvailable"
  | ElectionNotNeeded => Ok "ElectionNotNeeded"
  | NoReassignmentInProgress => Ok "NoReassignmentInProgress"
  | GroupSubscribedToTopic => Ok "GroupSubscribedToTopic"
  | InvalidRecord => Ok "InvalidRecord"
  | UnstableOffsetCommit => Ok "UnstableOffsetCommit"
  | ThrottlingQuotaExceeded => Ok "ThrottlingQuotaExceeded"
  | ProducerFenced => Ok "ProducerFenced"
  | ResourceNotFound => Ok "ResourceNotFound"
  | DuplicateResource => Ok "DuplicateResource"
  | UnacceptableCredential => Ok "UnacceptableCredential"
  | InconsistentVoterSet => Ok "InconsistentVoterSet"
  | InvalidUpdateVersion => Ok "InvalidUpdateVersion"
  | FeatureUpdateFailed => Ok "FeatureUpdateFailed"
  | PrincipalDeserializationFailure => Ok "PrincipalDeserializationFailure"
  | SnapshotNotFound => Ok "SnapshotNotFound"
  | PositionOutOfRange => Ok "PositionOutOfRange"
  | UnknownTopicId => Ok "UnknownTopicId"
  | DuplicateBrokerRegistration => Ok "DuplicateBrokerRegistration"
  | BrokerIdNotRegistered => Ok "BrokerIdNotRegistered"
  | InconsistentTopicId => Ok "InconsistentTopicId"
  | InconsistentClusterId => Ok "InconsistentClusterId"
  | TransactionalIdNotFound => Ok "TransactionalIdNotFound"
  | FetchSessionTopicIdError => Ok "FetchSessionTopicIdError"
  | IneligibleReplica => Ok "IneligibleReplica"
  | NewLeaderElected => Ok "NewLeaderElected"
  | OffsetMovedToTieredStorage => Ok "OffsetMovedToTieredStorage"
  | FencedMemberEpoch => Ok "FencedMemberEpoch"
  | UnreleasedInstanceId => Ok "UnreleasedInstanceId"
  | UnsupportedAssignor => Ok "UnsupportedAssignor"
  | StaleMemberEpoch => Ok "StaleMemberEpoch"
  | MismatchedEndpointType => Ok "MismatchedEndpointType"
  | UnsupportedEndpointType => Ok "UnsupportedEndpointType"
  | UnknownControllerId => Ok "UnknownControllerId"
  | UnknownSubscriptionId => Ok "UnknownSubscriptionId"
  | TelemetryTooLarge => Ok "TelemetryTooLarge"
  | InvalidRegistration => Ok "InvalidRegistration"
  | TransactionAbortable => Ok "TransactionAbortable"
  | InvalidRecordState => Ok "InvalidRecordState"
  | ShareSessionNotFound => Ok "ShareSessionNotFound"
  | InvalidShareSessionEpoch => Ok "InvalidShareSessionEpoch"
  | FencedStateEpoch => Ok "FencedStateEpoch"
  | InvalidVoterKey => Ok "InvalidVoterKey"
  | DuplicateVoter => Ok "DuplicateVoter"
  | VoterNotFound => Ok "VoterNotFound"
  | InvalidRegularExpression => Ok "InvalidRegularExpression"
  | RebootstrapRequired => Ok "RebootstrapRequired"
  | StreamsInvalidTopology => Ok "StreamsInvalidTopology"
  | StreamsInvalidTopologyEpoch => Ok "StreamsInvalidTopologyEpoch"
  | StreamsTopologyFenced => Ok "StreamsTopologyFenced"
  | ShareSessionLimitReached => Ok "ShareSessionLimitReached"
  end.

(* @ src/crates/kafka-protocol/src/error.rs 121-128 ResponseError::fmt *)
Definition to_string (e : ResponseError) : string :=
  match try_as_str e with
  | Ok s => s
  | Err code => "Unknown error code: " +:+ pretty code
  end.

(** ** Properties *)

(** The variants the macro lists, that is, all but [Unknown]. *)
Definition listed (e : ResponseError) : bool :=
  match e with Unknown _ => false | _ => true end.

(** A listed error is never sent as code 0, which means success. *)
Lemma code_nonzero (e : ResponseError) : listed e = true → code e ≠ 0.
Proof. by destruct e. Qed.

Lemma try_from_code_code (e : ResponseError) : listed e = true → try_from_code (code e) = Some e.
Proof. by destruct e. Qed.

Lemma code_try_from_code (c : Z) :
  match try_from_code c with Some e => code e = c | None => c = 0 end.
Proof.
  unfold try_from_code. destruct c as [|p|p]; [done| |];
    repeat (reflexivity || (destruct p as [p|p|]; cbv beta iota)).
Qed.

(** Error codes are a lossless wire format.  Every listed error decodes
    from its own code, two listed errors never share a code, none is the
    success code 0, and any other code decodes to an error that keeps it. *)
Theorem error_codes_roundtrip :
  (∀ e, listed e = true → err (code e) = Some e ∧ code_is_err (code e) = true ∧ ok (code e) = None) ∧
  (∀ e e', listed e = true → listed e' = true → code e = code e' → e = e') ∧
  (∀ c, match err c with Some e => code e = c ∧ c ≠ 0 | None => c = 0 end).
Proof.
  split_and!.
  - intros e He. pose proof (code_nonzero e He). split_and!.
    + by apply try_from_code_code.
    + unfold code_is_err. by apply bool_decide_eq_true.
    + unfold ok. by rewrite decide_False.
  - intros e e' He He' Heq. apply try_from_code_code in He, He'. rewrite Heq in He. congruence.
  - intros c. pose proof (code_try_from_code c) as Hc. unfold err.
    destruct (try_from_code c) eqn:Ht; [|done]. split; [done|]. by intros ->.
Qed.

End Errors.
