(* ===== verification/MessageCodec.v ===== *)
(** * Building blocks of the message codecs

    The message types of [src/crates/kafka-protocol/src/messages/] all have the
    same shape: [encode], [compute_size] and [decode] walk the fields in the same
    order, choosing by the protocol version how a field is written or what
    happens to it when the version does not have it, and a flexible version ends
    with the tagged fields.  A [Field T A] is one such stretch of the three
    functions: what it writes for a message of type [T], what it adds to the
    size, and the value of type [A] it reads back.  Fields compose with [⊛], and
    [message] is the whole codec.

    [Sound] is what is proved of every message: whatever [encode] accepts has the
    announced size and decodes to the same message. *)

From S2P Require Import Prelude Buf Types.
Open Scope Z_scope.

(** ** Fields *)

Record Field (T A : Type) : Type := mkField {
  field_encode : T → list byte → result anyhow (list byte);
  field_size : T → result anyhow Z;
  field_decode : decoder A
}.
Arguments mkField {T A}.
Arguments field_encode {T A}.
Arguments field_size {T A}.
Arguments field_decode {T A}.

(** [types::C.encode(buf, &self.f)?], [total_size += types::C.compute_size(&self.f)?]
    and [types::C.decode(buf)?]. *)
Definition field {T A : Type} (get : T → A) (c : Codec A) : Field T A := {|
  field_encode x := encode c (get x);
  field_size x := compute_size c (get x);
  field_decode := decode c
|}.

(** A field the version does not have and that must not be set: [encode] and
    [compute_size] bail when it differs from its default. *)
Definition unset {T A : Type} (get : T → A) (is_default : A → bool) (default : A) : Field T A := {|
  field_encode x buf := if is_default (get x) then Ok buf
    else Err (Bail "A field is set that is not available on the selected protocol version");
  field_size x := if is_default (get x) then Ok 0
    else Err (Bail "A field is set that is not available on the selected protocol version");
  field_decode := mret default
|}.

(** A field the version does not have and that is left out whatever its value. *)
Definition ignored {T A : Type} (default : A) : Field T A := {|
  field_encode _ buf := Ok buf;
  field_size _ := Ok 0;
  field_decode := mret default
|}.

(** [Ok(Self { .. })] and the fields read before it. *)
Definition build {T A : Type} (make : A) : Field T A := {|
  field_encode _ buf := Ok buf;
  field_size _ := Ok 0;
  field_decode := mret make
|}.

Definition field_app {T A B : Type} (f : Field T (A → B)) (a : Field T A) : Field T B := {|
  field_encode x buf := buf ← field_encode f x buf; field_encode a x buf;
  field_size x := n ← field_size f x; m ← field_size a x; Ok (n + m);
  field_decode := g ← field_decode f; v ← field_decode a; mret (g v)
|}.
Notation "f ⊛ a" := (field_app f a) (at level 61, left associativity) : kafka_scope.

(** ** Tagged fields *)

(** [BTreeMap<i32, Bytes>]: the iteration order is that of the keys. *)
Abbreviation TaggedFields := (gmap Z (list byte)).

Definition tag_le (a b : Z * list byte) : Prop := a.1 ≤ b.1.
#[global] Instance tag_le_dec : RelDecision tag_le := λ a b, Z_le_dec a.1 b.1.

Definition entries (m : TaggedFields) : list (Z * list byte) := merge_sort tag_le (map_to_list m).

(* @ src/crates/kafka-protocol/src/protocol/mod.rs 241-255 write_unknown_tagged_fields *)
Fixpoint write_entries (l : list (Z * list byte)) (buf : list byte) : result anyhow (list byte) :=
  match l with
  | [] => Ok buf
  | (k, v) :: l =>
      if decide (u32_max < len v) then Err (Bail "Tagged field is too long to encode")
      else
        buf ← encode UnsignedVarInt (wrap_unsigned 32 k) buf;
        buf ← encode UnsignedVarInt (len v) buf;
        write_entries l (put_slice v buf)
  end.

(* @ src/crates/kafka-protocol/src/protocol/mod.rs 241-255 write_unknown_tagged_fields *)
Definition write_unknown_tagged_fields (first : Z) (m : TaggedFields) :
    list byte → result anyhow (list byte) :=
  write_entries (filter (λ e, first ≤ e.1) (entries m)).

(* @ src/crates/kafka-protocol/src/protocol/mod.rs 257-270 compute_unknown_tagged_fields_size *)
Fixpoint size_entries (l : list (Z * list byte)) (total_size : Z) : result anyhow Z :=
  match l with
  | [] => Ok total_size
  | (k, v) :: l =>
      if decide (u32_max < len v) then Err (Bail "Tagged field is too long to encode")
      else
        n ← compute_size UnsignedVarInt (wrap_unsigned 32 k);
        m ← compute_size UnsignedVarInt (len v);
        size_entries l (total_size + n + m + len v)
  end.

(* @ src/crates/kafka-protocol/src/protocol/mod.rs 257-270 compute_unknown_tagged_fields_size *)
Definition compute_unknown_tagged_fields_size (m : TaggedFields) : result anyhow Z :=
  size_entries (entries m) 0.

(** A tagged field the message knows.  [S] collects the values of the known
    tagged fields while the section is read. *)
Record Tagged (T S : Type) : Type := mkTagged {
  tag_number : Z;
  tag_valid : bool;
  tag_present : T → bool;
  tag_encode : T → list byte → result anyhow (list byte);
  tag_size : T → result anyhow Z;
  tag_decode : decoder (S → S)
}.
Arguments mkTagged {T S}.
Arguments tag_number {T S}.
Arguments tag_valid {T S}.
Arguments tag_present {T S}.
Arguments tag_encode {T S}.
Arguments tag_size {T S}.
Arguments tag_decode {T S}.

(** The field is written when the version has it and its value is not the
    default one. *)
Definition tagged {T S A : Type} (number : Z) (valid : bool) (get : T → A) (is_default : A → bool)
    (c : Codec A) (set : A → S → S) : Tagged T S := {|
  tag_number := number;
  tag_valid := valid;
  tag_present x := negb (is_default (get x));
  tag_encode x := encode c (get x);
  tag_size x := compute_size c (get x);
  tag_decode := v ← decode c; mret (set v)
|}.

Section tags.
  Context {T S : Type}.
  Implicit Types (known : list (Tagged T S)) (x : T).

Definition written (t : Tagged T S) (x : T) : bool := tag_valid t && tag_present t x.

Definition too_large : anyhow := Bail "Tagged field is too large to encode".

Fixpoint encode_known (known : list (Tagged T S)) (x : T) (buf : list byte) :
    result anyhow (list byte) :=
  match known with
  | [] => Ok buf
  | t :: known =>
      if written t x then
        computed_size ← tag_size t x;
        if decide (u32_max < computed_size) then Err too_large
        else
          buf ← encode UnsignedVarInt (tag_number t) buf;
          buf ← encode UnsignedVarInt computed_size buf;
          buf ← tag_encode t x buf;
          encode_known known x buf
      else encode_known known x buf
  end.

Fixpoint size_known (known : list (Tagged T S)) (x : T) (total_size : Z) : result anyhow Z :=
  match known with
  | [] => Ok total_size
  | t :: known =>
      if written t x then
        computed_size ← tag_size t x;
        if decide (u32_max < computed_size) then Err too_large
        else
          n ← compute_size UnsignedVarInt (tag_number t);
          m ← compute_size UnsignedVarInt computed_size;
          size_known known x (total_size + n + m + computed_size)
      else size_known known x total_size
  end.

(** One iteration of the loop over the tagged fields: [match tag { .. }]. *)
Definition decode_tag (known : list (Tagged T S)) (acc : S * TaggedFields) :
    decoder (S * TaggedFields) :=
  tag ← decode UnsignedVarInt;
  size ← decode UnsignedVarInt;
  match list_find (λ t, tag_number t = tag) known with
  | Some (_, t) =>
      if tag_valid t then update ← tag_decode t; mret (update acc.1, acc.2)
      else fail_decode (Bail "Tag is not valid for version")
  | None =>
      unknown_value ← try_get_bytes size;
      mret (acc.1, <[wrap_signed 32 tag := unknown_value]> acc.2)
  end.

Fixpoint decode_tags (known : list (Tagged T S)) (n : nat) (acc : S * TaggedFields) :
    decoder (S * TaggedFields) :=
  match n with
  | O => mret acc
  | Datatypes.S n => acc ← decode_tag known acc; decode_tags known n acc
  end.

Definition num_tagged_fields (known : list (Tagged T S)) (unknown : TaggedFields) (x : T) : Z :=
  Z.of_nat (size unknown) + Z.of_nat (length (filter (λ t, written t x = true) known)).

(** The section of the tagged fields; [enabled] is whether the version is
    flexible, [first] the first tag the message does not know. *)
Definition tag_section (enabled : bool) (init : S) (known : list (Tagged T S)) (first : Z)
    (unknown : T → TaggedFields) : Field T (S * TaggedFields) := {|
  field_encode x buf :=
    if enabled then
      let n := num_tagged_fields known (unknown x) x in
      if decide (u32_max < n) then Err (Bail "Too many tagged fields to encode")
      else
        buf ← encode UnsignedVarInt n buf;
        buf ← encode_known known x buf;
        write_unknown_tagged_fields first (unknown x) buf
    else Ok buf;
  field_size x :=
    if enabled then
      let n := num_tagged_fields known (unknown x) x in
      if decide (u32_max < n) then Err (Bail "Too many tagged fields to encode")
      else
        k ← compute_size UnsignedVarInt n;
        m ← size_known known x k;
        u ← compute_unknown_tagged_fields_size (unknown x); Ok (m + u)
    else Ok 0;
  field_decode :=
    if enabled then
      n ← decode UnsignedVarInt; decode_tags known (Z.to_nat n) (init, ∅)
    else mret (init, ∅)
|}.

End tags.

(** The section of a message without tagged fields of its own. *)
Definition unknown_tags {T : Type} (enabled : bool) (unknown : T → TaggedFields) : Field T TaggedFields :=
  build snd ⊛ tag_section (S := ()) enabled () [] 0 unknown.

(** ** Messages *)

(** [encode] and [decode] reject versions outside of the range; [compute_size]
    does not look at it. *)
Definition message {T : Type} (low high version : Z) (f : Field T T) : Codec T := {|
  encode x buf :=
    if (version <? low) || (high <? version)
    then Err (Bail "specified version not supported by this message type")
    else field_encode f x buf;
  compute_size x := field_size f x;
  fixed_size := None;
  decode :=
    if (version <? low) || (high <? version)
    then fail_decode (Bail "specified version not supported by this message type")
    else field_decode f
|}.

(** The tests on defaults that occur in the messages. *)
Definition is_empty {A : Type} (l : list A) : bool := match l with [] => true | _ => false end.
Definition is_none {A : Type} (o : option A) : bool := match o with None => true | _ => false end.
Definition is_some_empty {A : Type} (o : option (list A)) : bool :=
  match o with Some [] => true | _ => false end.

(** [Float64] ([protocol/types.rs]): a number is its 64 bits. *)
(* @ src/crates/kafka-protocol/src/protocol/types.rs 91-91 Float64 *)
Definition Float64 : Codec Z := simple_int 8 (try_get_uint 8).

(** ** Soundness of codecs *)

(** What [encode] accepts is appended to the buffer, has the computed size and
    is read back. *)
Definition reads_back {T A : Type} (enc : T → list byte → result anyhow (list byte))
    (size : T → result anyhow Z) (dec : decoder A) (x : T) (a : A) : Prop :=
  ∀ buf buf', enc x buf = Ok buf' →
    ∃ bytes, buf' = buf ++ bytes ∧ size x = Ok (len bytes) ∧
      ∀ rest, dec (bytes ++ rest) = Ok (a, rest).

Class Sound {T : Type} (c : Codec T) (valid : T → Prop) : Prop := {
  sound (x : T) : valid x → reads_back (encode c) (compute_size c) (decode c) x x;
  sound_fixed (n : Z) (x : T) : fixed_size c = Some n → compute_size c x = Ok n
}.

Definition utf8 (s : list byte) : Prop := utf8_valid s = true.
Definition any {T : Type} (_ : T) : Prop := True.

Lemma lawful_sound {T : Type} (c : Codec T) (wf valid : T → Prop) :
  Lawful c wf → (∀ x buf buf', valid x → encode c x buf = Ok buf' → wf x) → Sound c valid.
Proof.
  intros Hc Hwf. split; [|intros n x; apply (lawful_fixed (c := c))].
  intros x Hx buf buf' He. destruct (lawful (c := c) x) as (bytes & He' & Hs & Hd); [eauto|].
  exists bytes. rewrite He' in He. by injection He as <-.
Qed.

Lemma lawful_sound_all {T : Type} (c : Codec T) (wf : T → Prop) : Lawful c wf → Sound c wf.
Proof. intros Hc. by eapply lawful_sound. Qed.

#[global] Instance Boolean_sound : Sound Boolean any := lawful_sound_all _ _ _.
#[global] Instance Int8_sound : Sound Int8 (in_signed 8) := lawful_sound_all _ _ _.
#[global] Instance Int16_sound : Sound Int16 (in_signed 16) := lawful_sound_all _ _ _.
#[global] Instance UInt16_sound : Sound UInt16 (in_unsigned 16) := lawful_sound_all _ _ _.
#[global] Instance Int32_sound : Sound Int32 (in_signed 32) := lawful_sound_all _ _ _.
#[global] Instance UInt32_sound : Sound UInt32 (in_unsigned 32) := lawful_sound_all _ _ _.
#[global] Instance Int64_sound : Sound Int64 (in_signed 64) := lawful_sound_all _ _ _.
#[global] Instance Uuid_sound : Sound Uuid (in_unsigned 128) := lawful_sound_all _ _ _.
#[global] Instance Float64_sound : Sound Float64 (in_unsigned 64).
Proof. eapply lawful_sound_all, (unsigned_int_lawful 8). Qed.

#[global] Instance NullableString_sound : Sound NullableString (opt_all utf8).
Proof.
  eapply lawful_sound; [apply _|]. intros [s|] buf buf' Hs; [|done].
  cbn. case_decide; [done|]. intros _. split; [lia|done].
Qed.
#[global] Instance KafkaString_sound : Sound KafkaString utf8.
Proof.
  eapply lawful_sound; [apply _|]. intros s buf buf' Hs.
  cbn. case_decide; [done|]. intros _. split; [lia|done].
Qed.
#[global] Instance NullableCompactString_sound : Sound NullableCompactString (opt_all utf8).
Proof.
  eapply lawful_sound; [apply _|]. intros [s|] buf buf' Hs; [|done].
  cbn. case_decide; [done|]. intros _. split; [lia|done].
Qed.
#[global] Instance CompactString_sound : Sound CompactString utf8.
Proof.
  eapply lawful_sound; [apply _|]. intros s buf buf' Hs.
  cbn. case_decide; [done|]. intros _. split; [lia|done].
Qed.
#[global] Instance NullableBytes_sound : Sound NullableBytes any.
Proof.
  eapply lawful_sound; [apply _|]. intros [s|] buf buf' Hs; [|done].
  cbn. case_decide; [done|]. intros _. unfold bytes_wf. lia.
Qed.
#[global] Instance Bytes_sound : Sound Bytes any.
Proof.
  eapply lawful_sound; [apply _|]. intros s buf buf' Hs.
  cbn. case_decide; [done|]. intros _. unfold bytes_wf. lia.
Qed.
#[global] Instance NullableCompactBytes_sound : Sound NullableCompactBytes any.
Proof.
  eapply lawful_sound; [apply _|]. intros [s|] buf buf' Hs; [|done].
  cbn. case_decide; [done|]. intros _. unfold compact_bytes_wf. lia.
Qed.
#[global] Instance CompactBytes_sound : Sound CompactBytes any.
Proof.
  eapply lawful_sound; [apply _|]. intros s buf buf' Hs.
  cbn. case_decide; [done|]. intros _. unfold compact_bytes_wf. lia.
Qed.

(** A codec chosen by the version. *)
#[global] Instance if_sound {T : Type} (b : bool) (c1 c2 : Codec T) (valid : T → Prop) :
  Sound c1 valid → Sound c2 valid → Sound (if b then c1 else c2) valid.
Proof. by destruct b. Qed.

Lemma non_null_sound {T : Type} (c : Codec T) (cn : Codec (option T)) (valid : T → Prop) message :
  (∀ v, encode c v = encode cn (Some v)) →
  (∀ v, compute_size c v = compute_size cn (Some v)) →
  fixed_size c = None → decode c = non_null message (decode cn) →
  Sound cn (opt_all valid) → Sound c valid.
Proof.
  intros He Hs Hf Hd Hcn. split; [|by rewrite Hf].
  intros x Hx buf buf'. rewrite He. intros (bytes & -> & Hs' & Hd')%(sound (Some x)); [|done].
  exists bytes. rewrite Hs. split_and!; [done|done|].
  intros rest. rewrite Hd. unfold non_null. by rewrite (decoder_bind_Ok _ _ _ _ _ (Hd' rest)).
Qed.

Section sound_arrays.
  Context {T : Type} (E : Codec T) (valid : T → Prop) `{HE : !Sound E valid}.

Lemma items_sound (a : list T) buf buf' :
  Forall valid a → encode_items E a buf = Ok buf' →
  ∃ bytes, buf' = buf ++ bytes ∧ (∀ total, size_items E a total = Ok (total + len bytes)) ∧
    (∀ rest, decode_items E (length a) (bytes ++ rest) = Ok (a, rest)).
Proof.
  intros Ha. revert buf. induction Ha as [|x a Hx _ IH]; intros buf; cbn [encode_items].
  - intros [= <-]. exists []. rewrite app_nil_r. split_and!; [done| |done].
    intros total. cbn [size_items]. by rewrite len_nil, Z.add_0_r.
  - intros (mid & Hmid & He)%result_bind_Ok.
    destruct (sound x Hx _ _ Hmid) as (xb & -> & Hxs & Hxd).
    destruct (IH _ He) as (bytes & -> & Hs & Hd).
    exists (xb ++ bytes). rewrite app_assoc. split_and!; [done| |].
    + intros total. cbn. rewrite (result_bind_eq _ _ _ Hxs), Hs, len_app. f_equal. lia.
    + intros rest. cbn. rewrite <- app_assoc, (decoder_bind_Ok _ _ _ _ _ (Hxd _)).
      by rewrite (decoder_bind_Ok _ _ _ _ _ (Hd rest)).
Qed.

Lemma array_size_sound (prefix : Z) (a : list T) :
  array_size E prefix a = size_items E a prefix.
Proof.
  unfold array_size. destruct (fixed_size E) as [n|] eqn:Hn; [|done].
  revert prefix. induction a as [|x a IH]; intros prefix; simpl.
  - f_equal. unfold len. simpl. lia.
  - rewrite (result_bind_eq _ _ _ (sound_fixed n x Hn)), <- IH, len_cons. f_equal. lia.
Qed.

#[global] Instance NullableArray_sound : Sound (NullableArray E) (opt_all (Forall valid)).
Proof.
  split; [|done]. intros [a|] Ha buf buf'; cbn [encode NullableArray].
  - case_decide as Hlong; [done|]. pose proof (len_nonneg a). apply Z.nlt_ge in Hlong.
    intros (mid & Hmid & He)%result_bind_Ok.
    destruct (Int32_spec (len a)) as (He' & _ & Hd'); [width|]. rewrite He' in Hmid.
    injection Hmid as <-. destruct (items_sound a _ _ Ha He) as (bytes & -> & Hs & Hd).
    exists (be_bytes 4 (len a) ++ bytes). rewrite app_assoc. split_and!; [done| |].
    + cbn [compute_size NullableArray]. rewrite decide_False by lia.
      by rewrite array_size_sound, Hs, len_app, len_be_bytes.
    + intros rest. cbn [decode NullableArray].
      rewrite <- app_assoc, (decoder_bind_Ok _ _ _ _ _ (Hd' _)).
      rewrite decide_False, decide_True by lia. unfold len. rewrite Nat2Z.id.
      by rewrite (decoder_bind_Ok _ _ _ _ _ (Hd rest)).
  - destruct (Int32_spec (-1)) as (He & Hs & Hd); [width|]. rewrite He. intros [= <-].
    exists (be_bytes 4 (-1)). split_and!; [done|done|].
    intros rest. cbn [decode NullableArray]. by rewrite (decoder_bind_Ok _ _ _ _ _ (Hd _)).
Qed.

#[global] Instance Array_sound : Sound (Array E) (Forall valid).
Proof. eapply (non_null_sound _ (NullableArray E)); [done..|apply _]. Qed.

#[global] Instance NullableCompactArray_sound :
  Sound (NullableCompactArray E) (opt_all (Forall valid)).
Proof.
  split; [|done]. intros [a|] Ha buf buf'; cbn [encode NullableCompactArray].
  - case_decide as Hlong; [done|]. pose proof (len_nonneg a). apply Z.nle_gt in Hlong.
    intros (mid & Hmid & He)%result_bind_Ok.
    destruct (UnsignedVarInt_spec (len a + 1)) as (He' & Hs' & Hd'); [width|]. rewrite He' in Hmid.
    injection Hmid as <-. destruct (items_sound a _ _ Ha He) as (bytes & -> & Hs & Hd).
    eexists (_ ++ bytes). rewrite app_assoc. split_and!; [done| |].
    + cbn [compute_size NullableCompactArray]. rewrite decide_False by lia.
      by rewrite (result_bind_eq _ _ _ Hs'), array_size_sound, Hs, len_app.
    + intros rest. cbn [decode NullableCompactArray].
      rewrite <- app_assoc, (decoder_bind_Ok _ _ _ _ _ (Hd' _)), decide_False by lia.
      replace (Z.to_nat (len a + 1 - 1)) with (length a) by (unfold len; lia).
      by rewrite (decoder_bind_Ok _ _ _ _ _ (Hd rest)).
  - destruct (UnsignedVarInt_spec 0) as (He & Hs & Hd); [width|]. rewrite He. intros [= <-].
    exists (varint_bytes varint_fuel 0). split_and!; [done|done|].
    intros rest. cbn [decode NullableCompactArray]. by rewrite (decoder_bind_Ok _ _ _ _ _ (Hd _)).
Qed.

#[global] Instance CompactArray_sound : Sound (CompactArray E) (Forall valid).
Proof. eapply (non_null_sound _ (NullableCompactArray E)); [done..|apply _]. Qed.

End sound_arrays.

Section sound_structs.
  Context {T : Type} (m : Z → Codec T) (version : Z) (valid : T → Prop).
  Context `{Hm : !Sound (m version) valid}.

#[global] Instance Struct_sound : Sound (Struct m version) valid.
Proof. split; [|done]. intros x Hx. by apply (sound (c := m version)). Qed.

#[global] Instance OptionStruct_sound : Sound (OptionStruct m version) (opt_all valid).
Proof.
  split; [|done]. intros [x|] Hx buf buf'; cbn [encode OptionStruct].
  - intros (mid & Hmid & He)%result_bind_Ok.
    destruct (Int8_spec 1) as (He' & _ & Hd'); [width|]. rewrite He' in Hmid. injection Hmid as <-.
    destruct (sound (c := m version) x Hx _ _ He) as (bytes & -> & Hs & Hd).
    exists (be_bytes 1 1 ++ bytes). rewrite app_assoc. split_and!; [done| |].
    + cbn [compute_size OptionStruct]. by rewrite (result_bind_eq _ _ _ Hs), len_app, len_be_bytes.
    + intros rest. cbn [decode OptionStruct].
      rewrite <- app_assoc, (decoder_bind_Ok _ _ _ _ _ (Hd' _)), decide_True by done.
      by rewrite (decoder_bind_Ok _ _ _ _ _ (Hd rest)).
  - destruct (Int8_spec (-1)) as (He & Hs & Hd); [width|]. rewrite He. intros [= <-].
    exists (be_bytes 1 (-1)). split_and!; [done|done|].
    intros rest. cbn [decode OptionStruct]. by rewrite (decoder_bind_Ok _ _ _ _ _ (Hd _)).
Qed.
End sound_structs.

(** ** Soundness of fields *)

Definition frag {T A : Type} (f : Field T A) (x : T) (a : A) : Prop :=
  reads_back (field_encode f) (field_size f) (field_decode f) x a.

Lemma nothing_written {A : Type} (a : A) buf buf' :
  Ok (E := anyhow) buf = Ok buf' →
  ∃ bytes, buf' = buf ++ bytes ∧ Ok (E := anyhow) 0 = Ok (len bytes) ∧
    ∀ rest, mret (M := decoder) a (bytes ++ rest) = Ok (a, rest).
Proof. intros [= <-]. exists []. by rewrite app_nil_r. Qed.

Section fields.
  Context {T : Type} (x : T).

Lemma field_frag {A : Type} (get : T → A) (c : Codec A) (valid : A → Prop) :
  Sound c valid → valid (get x) → frag (field get c) x (get x).
Proof. intros Hc Hx. exact (sound (get x) Hx). Qed.

Lemma unset_frag {A : Type} (get : T → A) (is_default : A → bool) (d : A) :
  (is_default (get x) = true → get x = d) → frag (unset get is_default d) x (get x).
Proof.
  intros Hd buf buf'. cbn. destruct (is_default (get x)); [|done].
  rewrite Hd by done. by apply nothing_written.
Qed.

Lemma ignored_frag {A : Type} (v d : A) : v = d → frag (ignored d) x v.
Proof. intros -> buf buf'. by apply nothing_written. Qed.

Lemma build_frag {A : Type} (make : A) : frag (build make) x make.
Proof. intros buf buf'. by apply nothing_written. Qed.

Lemma app_frag {A B : Type} (f : Field T (A → B)) (a : Field T A) (g : A → B) (v : A) :
  frag f x g → frag a x v → frag (f ⊛ a) x (g v).
Proof.
  intros Hf Ha buf buf'. cbn [field_app field_encode].
  intros (mid & Hmid & He)%result_bind_Ok.
  destruct (Hf _ _ Hmid) as (b1 & -> & Hs1 & Hd1). destruct (Ha _ _ He) as (b2 & -> & Hs2 & Hd2).
  exists (b1 ++ b2). rewrite app_assoc. split_and!; [done| |].
  - cbn [field_app field_size]. by rewrite (result_bind_eq _ _ _ Hs1), (result_bind_eq _ _ _ Hs2), len_app.
  - intros rest. cbn [field_app field_decode]. rewrite <- app_assoc, (decoder_bind_Ok _ _ _ _ _ (Hd1 _)).
    by rewrite (decoder_bind_Ok _ _ _ _ _ (Hd2 rest)).
Qed.

Lemma if_frag {A : Type} (b : bool) (f g : Field T A) (v : A) :
  (b = true → frag f x v) → (b = false → frag g x v) → frag (if b then f else g) x v.
Proof. destruct b; auto. Qed.

End fields.

Lemma message_sound {T : Type} (low high version : Z) (f : Field T T) (valid : T → Prop) :
  (∀ x, valid x → frag f x x) → Sound (message low high version f) valid.
Proof.
  intros Hf. split; [|done]. intros x Hx buf buf'. cbn.
  destruct (_ || _); [done|]. by apply Hf.
Qed.

(** ** Soundness of the tagged fields *)

Definition unknown_valid (first : Z) (m : TaggedFields) : Prop :=
  map_Forall (λ k _, first ≤ k ≤ i32_max) m.

#[global] Instance tag_le_total : Total tag_le.
Proof. intros a b. unfold tag_le. lia. Qed.
#[global] Instance tag_le_trans : Transitive tag_le.
Proof. intros a b c. unfold tag_le. lia. Qed.

Lemma entries_perm (m : TaggedFields) : entries m ≡ₚ map_to_list m.
Proof. apply merge_sort_Permutation. Qed.

Lemma entries_valid first m : unknown_valid first m → Forall (λ e, first ≤ e.1 ≤ i32_max) (entries m).
Proof.
  intros Hm. rewrite entries_perm. apply Forall_forall. intros [k v] Hin.
  apply elem_of_map_to_list in Hin. exact (Hm _ _ Hin).
Qed.

Lemma filter_Forall_id {A : Type} (P : A → Prop) `{∀ x, Decision (P x)} (l : list A) :
  Forall P l → filter P l = l.
Proof. induction 1; [done|]. rewrite filter_cons_True by done. by f_equal. Qed.

Definition insert_entry (m : TaggedFields) (e : Z * list byte) : TaggedFields := <[e.1 := e.2]> m.

Lemma foldl_insert_perm (l l' : list (Z * list byte)) (m : TaggedFields) :
  NoDup l.*1 → l ≡ₚ l' → foldl insert_entry m l = foldl insert_entry m l'.
Proof.
  intros Hnd Hp. revert m. induction Hp as [| |[k v] [k' v'] l|l1 l2 l3 H12 IH12 H23 IH23]; intros m.
  - done.
  - inversion Hnd; subst. cbn. eauto.
  - cbn. f_equal. unfold insert_entry. cbn. apply insert_insert_ne.
    inversion_clear Hnd as [|? ? Hni _]. cbn in Hni. set_solver.
  - rewrite IH12 by done. apply IH23. by rewrite <- H12.
Qed.

Lemma foldl_insert_entries m : foldl insert_entry ∅ (entries m) = m.
Proof.
  rewrite (foldl_insert_perm _ (map_to_list m)); [|rewrite entries_perm; apply NoDup_fst_map_to_list|apply entries_perm].
  induction m as [|k v m' Hk IH] using map_ind.
  - by rewrite map_to_list_empty.
  - rewrite (foldl_insert_perm _ (map_to_list m' ++ [(k, v)])).
    + by rewrite foldl_app, IH.
    + apply NoDup_fst_map_to_list.
    + rewrite map_to_list_insert by done. apply Permutation_cons_append.
Qed.

(** The bytes of a varint, kept abstract. *)
Lemma varint_codes (v : Z) : 0 ≤ v ≤ u32_max → ∃ bytes, codec_spec UnsignedVarInt v bytes.
Proof. intros Hv. eexists. apply UnsignedVarInt_spec. unfold in_unsigned, u32_max in *. lia. Qed.

Section sound_tags.
  Context {T S : Type} (known : list (Tagged T S)) (first : Z).
  Hypothesis Hnodup : NoDup (tag_number <$> known).
  Hypothesis Htags : Forall (λ t, 0 ≤ tag_number t < first) known.
  Hypothesis Hfirst : first ≤ i32_max.

(** [u] is what reading the field does to the values collected. *)
Definition tag_frag (x : T) (t : Tagged T S) (u : S → S) : Prop :=
  tag_valid t = true → reads_back (tag_encode t) (tag_size t) (tag_decode t) x u.

Definition tag_updates (x : T) (ts : list (Tagged T S)) (us : list (S → S)) (s : S) : S :=
  foldl (λ s tu, if written tu.1 x then tu.2 s else s) s (zip ts us).

Lemma find_known t : t ∈ known → ∃ i, list_find (λ t', tag_number t' = tag_number t) known = Some (i, t).
Proof.
  intros Hin. clear Htags. induction known as [|t' ts IH]; [by apply not_elem_of_nil in Hin|].
  cbn [fmap list_fmap] in Hnodup. apply NoDup_cons in Hnodup as [Hni Hnd].
  apply elem_of_cons in Hin as [->|Hin].
  - exists 0%nat. cbn. by rewrite decide_True.
  - cbn. rewrite decide_False.
    + destruct (IH Hnd Hin) as [i ->]. by exists (Datatypes.S i).
    + intros Heq. apply Hni. rewrite Heq. by apply list_elem_of_fmap_2.
Qed.

Lemma find_unknown k : first ≤ k → list_find (λ t, tag_number t = k) known = None.
Proof.
  intros Hk. apply list_find_None. eapply Forall_impl; [exact Htags|]. cbn. intros t ? ?. lia.
Qed.

Lemma unknown_tags_sound l buf buf' :
  0 ≤ first → Forall (λ e, first ≤ e.1 ≤ i32_max) l → write_entries l buf = Ok buf' →
  ∃ bytes, buf' = buf ++ bytes ∧ (∀ total, size_entries l total = Ok (total + len bytes)) ∧
    ∀ acc rest, decode_tags known (length l) acc (bytes ++ rest)
      = Ok ((acc.1, foldl insert_entry acc.2 l), rest).
Proof.
  intros H0 Hl. revert buf. induction Hl as [|[k v] l Hk _ IH]; intros buf; cbn [write_entries].
  - intros [= <-]. exists []. rewrite app_nil_r. split_and!; [done| |].
    + intros total. cbn [size_entries]. by rewrite len_nil, Z.add_0_r.
    + by intros [] rest.
  - case_decide as Hv; [done|]. cbn [fst] in Hk. pose proof (len_nonneg v).
    rewrite wrap_unsigned_small by (unfold in_unsigned, i32_max in *; lia).
    destruct (varint_codes k) as (kb & Hke & Hks & Hkd);
      [unfold i32_max, u32_max in *; lia|].
    destruct (varint_codes (len v)) as (vb & Hve & Hvs & Hvd);
      [unfold i32_max, u32_max in *; lia|].
    rewrite (result_bind_eq _ _ _ (Hke _)), (result_bind_eq _ _ _ (Hve _)).
    intros (bytes & -> & Hs & Hd)%IH. unfold put_slice. rewrite <- !app_assoc.
    eexists. split_and!; [done| |].
    + intros total. cbn [size_entries]. rewrite decide_False by done.
      rewrite wrap_unsigned_small by (unfold in_unsigned, i32_max in *; lia).
      rewrite (result_bind_eq _ _ _ Hks), (result_bind_eq _ _ _ Hvs), Hs, !len_app. f_equal. lia.
    + intros acc rest. cbn [length decode_tags foldl]. unfold decode_tag at 1.
      rewrite <- !app_assoc. unfold mbind at 1, decoder_bind at 1.
      rewrite (decoder_bind_Ok _ _ _ _ _ (Hkd _)), (decoder_bind_Ok _ _ _ _ _ (Hvd _)).
      rewrite find_unknown by lia. rewrite (decoder_bind_Ok _ _ _ _ _ (try_get_bytes_app _ _)).
      cbn. rewrite wrap_signed_small by (unfold in_signed, i32_max in *; lia).
      apply Hd.
Qed.

Lemma known_tags_sound x ts us buf buf' :
  ts ⊆ known → Forall2 (tag_frag x) ts us → encode_known ts x buf = Ok buf' →
  ∃ bytes, buf' = buf ++ bytes ∧ (∀ total, size_known ts x total = Ok (total + len bytes)) ∧
    ∀ n acc rest,
      decode_tags known (length (filter (λ t, written t x = true) ts) + n) acc (bytes ++ rest)
      = decode_tags known n (tag_updates x ts us acc.1, acc.2) rest.
Proof.
  intros Hsub Hts. revert buf. induction Hts as [|t u ts us Ht _ IH]; intros buf; cbn [encode_known].
  - intros [= <-]. exists []. rewrite app_nil_r. split_and!; [done| |].
    + intros total. cbn [size_known]. by rewrite len_nil, Z.add_0_r.
    + by intros n [] rest.
  - assert (t ∈ known) as Hin by (apply Hsub; left).
    assert (ts ⊆ known) as Hsub' by (intros ? ?; apply Hsub; by right). specialize (IH Hsub').
    rewrite filter_cons. unfold tag_updates. cbn [zip zip_with foldl fst snd].
    destruct (written t x) eqn:Hw; cycle 1.
    { intros (bytes & -> & Hs & Hd)%IH. exists bytes. rewrite decide_False by done.
      split_and!; [done| |done]. intros total. cbn [size_known]. by rewrite Hw. }
    intros (n & Hn & Hrest)%result_bind_Ok. case_decide as Hsz; [done|].
    assert (0 ≤ tag_number t < first) as Htag by exact (proj1 (Forall_forall _ _) Htags t Hin).
    destruct (varint_codes (tag_number t)) as (kb & Hke & Hks & Hkd);
      [unfold i32_max, u32_max in *; lia|].
    rewrite (result_bind_eq _ _ _ (Hke _)) in Hrest.
    apply result_bind_Ok in Hrest as (mid & Hmid & Hrest).
    apply result_bind_Ok in Hrest as (mid' & Hmid' & Hrest).
    assert (tag_valid t = true) as Hval by (unfold written in Hw; by destruct (tag_valid t)).
    destruct (Ht Hval _ _ Hmid') as (tb & -> & Hts & Htd).
    rewrite Hn in Hts. injection Hts as ->. pose proof (len_nonneg tb).
    destruct (varint_codes (len tb)) as (vb & Hve & Hvs & Hvd);
      [unfold i32_max, u32_max in *; lia|].
    rewrite Hve in Hmid. injection Hmid as <-.
    destruct (IH _ Hrest) as (bytes & -> & Hs & Hd). rewrite <- !app_assoc.
    eexists. split_and!; [done| |].
    + intros total. cbn [size_known]. rewrite Hw, (result_bind_eq _ _ _ Hn), decide_False by done.
      rewrite (result_bind_eq _ _ _ Hks), (result_bind_eq _ _ _ Hvs), Hs, !len_app. f_equal. lia.
    + intros m acc rest. rewrite decide_True by done. cbn [length Nat.add decode_tags].
      unfold decode_tag at 1. rewrite <- !app_assoc. unfold mbind at 1, decoder_bind at 1.
      rewrite (decoder_bind_Ok _ _ _ _ _ (Hkd _)), (decoder_bind_Ok _ _ _ _ _ (Hvd _)).
      destruct (find_known t Hin) as [i ->]. rewrite Hval, (decoder_bind_Ok _ _ _ _ _ (Htd _)).
      exact (Hd m (u acc.1, acc.2) rest).
Qed.

Lemma tag_section_frag (enabled : bool) (init : S) (unknown : T → TaggedFields) (x : T) (us : list (S → S)) :
  0 ≤ first → (enabled = true → Forall2 (tag_frag x) known us) →
  (if enabled then unknown_valid first (unknown x) else unknown x = ∅) →
  frag (tag_section enabled init known first unknown) x
    (if enabled then tag_updates x known us init else init, unknown x).
Proof.
  intros H0 Hts Hu buf buf'. destruct enabled; cycle 1.
  { rewrite Hu. cbn. by apply nothing_written. }
  specialize (Hts eq_refl). pose proof (entries_valid _ _ Hu) as Hev. cbn [tag_section field_encode].
  unfold write_unknown_tagged_fields. rewrite filter_Forall_id
    by (eapply Forall_impl; [exact Hev|]; cbn; lia).
  case_decide as Hn; [done|]. set (n := num_tagged_fields _ _ _) in *.
  assert (0 ≤ n) by (unfold n, num_tagged_fields; lia).
  destruct (varint_codes n) as (nb & Hne & Hns & Hnd);
      [unfold i32_max, u32_max in *; lia|].
  rewrite (result_bind_eq _ _ _ (Hne _)). intros (mid & Hmid & He)%result_bind_Ok.
  destruct (known_tags_sound x known us _ _ ltac:(done) Hts Hmid) as (b1 & -> & Hs1 & Hd1).
  destruct (unknown_tags_sound _ _ _ H0 Hev He) as (b2 & -> & Hs2 & Hd2).
  rewrite <- !app_assoc. eexists. split_and!; [done| |].
  - cbn [tag_section field_size]. fold n. rewrite decide_False by done.
    rewrite (result_bind_eq _ _ _ Hns), (result_bind_eq _ _ _ (Hs1 _)).
    unfold compute_unknown_tagged_fields_size. rewrite (result_bind_eq _ _ _ (Hs2 _)), !len_app.
    f_equal. lia.
  - intros rest. cbn [tag_section field_decode].
    rewrite <- !app_assoc, (decoder_bind_Ok _ _ _ _ _ (Hnd _)).
    replace (Z.to_nat n) with (length (filter (λ t, written t x = true) known)
      + length (entries (unknown x)))%nat; [by rewrite Hd1, Hd2, foldl_insert_entries|].
    unfold n, num_tagged_fields. rewrite entries_perm, length_map_to_list. lia.
Qed.

End sound_tags.

Lemma unknown_tags_frag {T : Type} (enabled : bool) (unknown : T → TaggedFields) (x : T) :
  (if enabled then unknown_valid 0 (unknown x) else unknown x = ∅) →
  frag (unknown_tags enabled unknown) x (unknown x).
Proof.
  intros Hu. change (unknown x) with (@snd () _ ((), unknown x)).
  apply app_frag; [apply build_frag|].
  assert (0 ≤ i32_max) as H0 by (unfold i32_max; lia).
  pose proof (tag_section_frag (S := ()) [] 0 (NoDup_nil_2) (Forall_nil_2 _) H0 enabled () unknown x []
    ltac:(done) (λ _, Forall2_nil_2 _ _ _) Hu) as Hf.
  by destruct (if enabled then _ else _).
Qed.

(** A tagged field of the version. *)
Lemma tagged_frag {T S A : Type} number (valid : bool) (get : T → A) (is_default : A → bool) (c : Codec A)
    (set : A → S → S) (P : A → Prop) (x : T) :
  Sound c P → (valid = true → P (get x)) →
  tag_frag x (tagged number valid get is_default c set) (set (get x)).
Proof.
  intros Hc HP Hval buf buf' (bytes & -> & Hs & Hd)%(sound (get x) (HP Hval)).
  exists bytes. split_and!; [done|done|]. intros rest. cbn.
  by rewrite (decoder_bind_Ok _ _ _ _ _ (Hd rest)).
Qed.

(** ** Automation for the messages *)

Lemma is_empty_nil {A : Type} (l : list A) : is_empty l = true → l = [].
Proof. by destruct l. Qed.
Lemma is_none_None {A : Type} (o : option A) : is_none o = true → o = None.
Proof. by destruct o. Qed.
Lemma is_some_empty_Some {A : Type} (o : option (list A)) : is_some_empty o = true → o = Some [].
Proof. by destruct o as [[]|]. Qed.
Lemma eqb_default (d v : Z) : (d =? v) = true → v = d.
Proof. intros ?%Z.eqb_eq. done. Qed.
Lemma negb_default (b : bool) : negb b = true → b = false.
Proof. by destruct b. Qed.
Lemma id_default (b : bool) : id b = true → b = true.
Proof. done. Qed.
Lemma bool_decide_default {A : Type} `{EqDecision A} (v d : A) : bool_decide (v = d) = true → v = d.
Proof. by intros ?%bool_decide_eq_true. Qed.

(** A field that passes its default test is the default. *)
Ltac solve_default :=
  solve [ apply is_empty_nil; assumption | apply is_none_None; assumption
        | apply is_some_empty_Some; assumption | apply eqb_default; assumption
        | apply negb_default; assumption | apply id_default; assumption
        | apply bool_decide_default; assumption ].

Ltac split_valid :=
  repeat match goal with H : _ ∧ _ |- _ => destruct H end.

Ltac solve_field :=
  lazymatch goal with
  | |- frag (if _ then _ else _) _ _ =>
      apply if_frag; let E := fresh "E" in intros E; rewrite ?E in *; solve_field
  | |- frag (field _ _) _ _ => eapply field_frag; [apply _|first [exact I|assumption]]
  | |- frag (unset _ _ _) _ _ => apply unset_frag; intros; solve_default
  | |- frag (ignored _) _ _ => apply ignored_frag; eassumption
  | |- frag (unknown_tags _ _) _ _ => apply unknown_tags_frag; assumption
  | |- frag (build _) _ _ => apply build_frag
  | |- frag (tag_section _ _ _ _ _) _ _ =>
      eapply tag_section_frag;
        [ by apply (bool_decide_unpack _)
        | by apply (bool_decide_unpack _)
        | by apply (bool_decide_unpack _)
        | by apply (bool_decide_unpack _)
        | let E := fresh "E" in intros E; rewrite ?E in *;
          repeat (apply Forall2_cons_2; [eapply tagged_frag;
            [apply _|let F := fresh "F" in intros F; rewrite ?F in *; first [exact I|assumption]]|]);
          apply Forall2_nil_2
        | assumption ]
  end.

Ltac solve_fields :=
  lazymatch goal with
  | |- frag (_ ⊛ _) _ _ => eapply app_frag; [solve_fields|solve_field]
  | |- _ => solve_field
  end.

Lemma frag_cast {T A : Type} (f : Field T A) (x : T) (a b : A) : frag f x a → a = b → frag f x b.
Proof. by intros ? ->. Qed.

Ltac solve_message :=
  apply message_sound; let x := fresh "x" in let Hx := fresh "Hx" in
  intros x Hx; red in Hx; split_valid; eapply frag_cast; [solve_fields|by destruct x].

(** The values of the known tagged fields after the section has been read: a
    field that was not written has its default value. *)
Ltac to_default E :=
  first [ apply is_empty_nil in E | apply is_none_None in E | apply is_some_empty_Some in E
        | apply eqb_default in E | apply negb_default in E | apply bool_decide_default in E
        | apply id_default in E ].

Ltac tag_cases :=
  unfold tag_updates, written; cbn [zip zip_with foldl fst snd tagged tag_valid tag_present];
  repeat match goal with
  | |- context [if ?c && negb ?t then _ else _] =>
      let E := fresh "E" in destruct (c && negb t) eqn:E;
        [|apply andb_false_iff in E as [E|E];
          [rewrite ?E in *|apply negb_false_iff in E; to_default E]]
  end.

Ltac solve_tagged_message :=
  apply message_sound; let x := fresh "x" in let Hx := fresh "Hx" in
  intros x Hx; red in Hx; split_valid; eapply frag_cast; [solve_fields|];
  try lazymatch goal with
      | |- context [if ?en then tag_updates _ _ _ _ else _] => destruct en
      end;
  tag_cases; destruct x; cbn in *; subst; first [reflexivity|discriminate].
