(* ===== verification/MessagesData.v ===== *)
(** * The messages of the data path and of discovery

    [src/crates/kafka-protocol/src/messages/]: one block per structure of the
    generated modules listed below, in the order of their files.  A block is the
    structure, its [Default], its codec in the style of [MessageCodec] (the
    branches on [version] are those of [encode], [compute_size] and [decode]),
    what makes a value expressible in a version ([_valid]: the fields are values
    of their Rust types, a field the version silently drops has its default, and
    unknown tags are not those of known fields), and the proof that the codec is
    sound.  A structure whose name several modules share carries the name of its
    message.

    api_versions_request, api_versions_response, create_topics_request,
    create_topics_response, describe_cluster_request,
    describe_cluster_response, describe_configs_request,
    describe_configs_response, describe_topic_partitions_request,
    describe_topic_partitions_response, fetch_request, fetch_response,
    init_producer_id_request, init_producer_id_response,
    list_offsets_request, list_offsets_response, metadata_request,
    metadata_response, produce_request, produce_response, request_header,
    response_header. *)

From S2P Require Import Prelude Buf Types MessageCodec.
Open Scope Z_scope.

(** ** [api_versions_request] *)

(* @ src/crates/kafka-protocol/src/messages/api_versions_request.rs 20-36 ApiVersionsRequest *)
Record ApiVersionsRequest : Type := mkApiVersionsRequest {
  ApiVersionsRequest_client_software_name : list byte;
  ApiVersionsRequest_client_software_version : list byte;
  ApiVersionsRequest_unknown_tagged_fields : TaggedFields
}.

(* @ src/crates/kafka-protocol/src/messages/api_versions_request.rs 153-161 ApiVersionsRequest::default *)
Definition ApiVersionsRequest_default : ApiVersionsRequest := {|
  ApiVersionsRequest_client_software_name := [];
  ApiVersionsRequest_client_software_version := [];
  ApiVersionsRequest_unknown_tagged_fields := ∅
|}.

(* @ src/crates/kafka-protocol/src/messages/api_versions_request.rs 69-151 ApiVersionsRequest::encode, compute_size, decode *)
Definition ApiVersionsRequest_codec (version : Z) : Codec ApiVersionsRequest :=
  message 0 4 version (build mkApiVersionsRequest
    ⊛ (if 3 <=? version then field ApiVersionsRequest_client_software_name CompactString else ignored [])
    ⊛ (if 3 <=? version then field ApiVersionsRequest_client_software_version CompactString else ignored [])
    ⊛ unknown_tags (3 <=? version) ApiVersionsRequest_unknown_tagged_fields).

Definition ApiVersionsRequest_valid (version : Z) (x : ApiVersionsRequest) : Prop :=
  (if 3 <=? version then utf8 (ApiVersionsRequest_client_software_name x) else
      ApiVersionsRequest_client_software_name x = []) ∧
  (if 3 <=? version then utf8 (ApiVersionsRequest_client_software_version x) else
      ApiVersionsRequest_client_software_version x = []) ∧
  (if 3 <=? version then unknown_valid 0 (ApiVersionsRequest_unknown_tagged_fields x) else
      ApiVersionsRequest_unknown_tagged_fields x = ∅).

#[global] Instance ApiVersionsRequest_sound version : Sound (ApiVersionsRequest_codec version)
    (ApiVersionsRequest_valid version).
Proof. solve_message. Qed.

(* @ src/crates/kafka-protocol/src/messages/api_versions_request.rs 168-176 ApiVersionsRequest::header_version *)
Definition ApiVersionsRequest_header_version (version : Z) : Z := if 3 <=? version then 2 else 1.

(* @ src/crates/kafka-protocol/src/messages/api_versions_request.rs 163-166 ApiVersionsRequest::VERSIONS *)
Definition ApiVersionsRequest_VERSIONS : Z * Z := (0, 4).

(** ** [api_versions_response] *)

(* @ src/crates/kafka-protocol/src/messages/api_versions_response.rs 20-41 ApiVersion *)
Record ApiVersion : Type := mkApiVersion {
  ApiVersion_api_key : Z;
  ApiVersion_min_version : Z;
  ApiVersion_max_version : Z;
  ApiVersion_unknown_tagged_fields : TaggedFields
}.

(* @ src/crates/kafka-protocol/src/messages/api_versions_response.rs 155-164 ApiVersion::default *)
Definition ApiVersion_default : ApiVersion := {|
  ApiVersion_api_key := 0;
  ApiVersion_min_version := 0;
  ApiVersion_max_version := 0;
  ApiVersion_unknown_tagged_fields := ∅
|}.

(* @ src/crates/kafka-protocol/src/messages/api_versions_response.rs 83-153 ApiVersion::encode, compute_size, decode *)
Definition ApiVersion_codec (version : Z) : Codec ApiVersion :=
  message 0 4 version (build mkApiVersion
    ⊛ (field ApiVersion_api_key Int16)
    ⊛ (field ApiVersion_min_version Int16)
    ⊛ (field ApiVersion_max_version Int16)
    ⊛ unknown_tags (3 <=? version) ApiVersion_unknown_tagged_fields).

Definition ApiVersion_valid (version : Z) (x : ApiVersion) : Prop :=
  in_signed 16 (ApiVersion_api_key x) ∧
  in_signed 16 (ApiVersion_min_version x) ∧
  in_signed 16 (ApiVersion_max_version x) ∧
  (if 3 <=? version then unknown_valid 0 (ApiVersion_unknown_tagged_fields x) else
      ApiVersion_unknown_tagged_fields x = ∅).

#[global] Instance ApiVersion_sound version : Sound (ApiVersion_codec version) (ApiVersion_valid version).
Proof. solve_message. Qed.

(* @ src/crates/kafka-protocol/src/messages/api_versions_response.rs 754-775 SupportedFeatureKey *)
Record SupportedFeatureKey : Type := mkSupportedFeatureKey {
  SupportedFeatureKey_name : list byte;
  SupportedFeatureKey_min_version : Z;
  SupportedFeatureKey_max_version : Z;
  SupportedFeatureKey_unknown_tagged_fields : TaggedFields
}.

(* @ src/crates/kafka-protocol/src/messages/api_versions_response.rs 937-946 SupportedFeatureKey::default *)
Definition SupportedFeatureKey_default : SupportedFeatureKey := {|
  SupportedFeatureKey_name := [];
  SupportedFeatureKey_min_version := 0;
  SupportedFeatureKey_max_version := 0;
  SupportedFeatureKey_unknown_tagged_fields := ∅
|}.

(* @ src/crates/kafka-protocol/src/messages/api_versions_response.rs 817-935 SupportedFeatureKey::encode, compute_size, decode *)
Definition SupportedFeatureKey_codec (version : Z) : Codec SupportedFeatureKey :=
  message 0 4 version (build mkSupportedFeatureKey
    ⊛ (if 3 <=? version then field SupportedFeatureKey_name CompactString else unset
        SupportedFeatureKey_name is_empty [])
    ⊛ (if 3 <=? version then field SupportedFeatureKey_min_version Int16 else unset
        SupportedFeatureKey_min_version (Z.eqb 0) 0)
    ⊛ (if 3 <=? version then field SupportedFeatureKey_max_version Int16 else unset
        SupportedFeatureKey_max_version (Z.eqb 0) 0)
    ⊛ unknown_tags (3 <=? version) SupportedFeatureKey_unknown_tagged_fields).

Definition SupportedFeatureKey_valid (version : Z) (x : SupportedFeatureKey) : Prop :=
  utf8 (SupportedFeatureKey_name x) ∧
  in_signed 16 (SupportedFeatureKey_min_version x) ∧
  in_signed 16 (SupportedFeatureKey_max_version x) ∧
  (if 3 <=? version then unknown_valid 0 (SupportedFeatureKey_unknown_tagged_fields x) else
      SupportedFeatureKey_unknown_tagged_fields x = ∅).

#[global] Instance SupportedFeatureKey_sound version : Sound (SupportedFeatureKey_codec version)
    (SupportedFeatureKey_valid version).
Proof. solve_message. Qed.

(* @ src/crates/kafka-protocol/src/messages/api_versions_response.rs 555-576 FinalizedFeatureKey *)
Record FinalizedFeatureKey : Type := mkFinalizedFeatureKey {
  FinalizedFeatureKey_name : list byte;
  FinalizedFeatureKey_max_version_level : Z;
  FinalizedFeatureKey_min_version_level : Z;
  FinalizedFeatureKey_unknown_tagged_fields : TaggedFields
}.

(* @ src/crates/kafka-protocol/src/messages/api_versions_response.rs 738-747 FinalizedFeatureKey::default *)
Definition FinalizedFeatureKey_default : FinalizedFeatureKey := {|
  FinalizedFeatureKey_name := [];
  FinalizedFeatureKey_max_version_level := 0;
  FinalizedFeatureKey_min_version_level := 0;
  FinalizedFeatureKey_unknown_tagged_fields := ∅
|}.

(* @ src/crates/kafka-protocol/src/messages/api_versions_response.rs 618-736 FinalizedFeatureKey::encode, compute_size, decode *)
Definition FinalizedFeatureKey_codec (version : Z) : Codec FinalizedFeatureKey :=
  message 0 4 version (build mkFinalizedFeatureKey
    ⊛ (if 3 <=? version then field FinalizedFeatureKey_name CompactString else unset
        FinalizedFeatureKey_name is_empty [])
    ⊛ (if 3 <=? version then field FinalizedFeatureKey_max_version_level Int16 else unset
        FinalizedFeatureKey_max_version_level (Z.eqb 0) 0)
    ⊛ (if 3 <=? version then field FinalizedFeatureKey_min_version_level Int16 else unset
        FinalizedFeatureKey_min_version_level (Z.eqb 0) 0)
    ⊛ unknown_tags (3 <=? version) FinalizedFeatureKey_unknown_tagged_fields).

Definition FinalizedFeatureKey_valid (version : Z) (x : FinalizedFeatureKey) : Prop :=
  utf8 (FinalizedFeatureKey_name x) ∧
  in_signed 16 (FinalizedFeatureKey_max_version_level x) ∧
  in_signed 16 (FinalizedFeatureKey_min_version_level x) ∧
  (if 3 <=? version then unknown_valid 0 (FinalizedFeatureKey_unknown_tagged_fields x) else
      FinalizedFeatureKey_unknown_tagged_fields x = ∅).

#[global] Instance FinalizedFeatureKey_sound version : Sound (FinalizedFeatureKey_codec version)
    (FinalizedFeatureKey_valid version).
Proof. solve_message. Qed.

(* @ src/crates/kafka-protocol/src/messages/api_versions_response.rs 171-212 ApiVersionsResponse *)
Record ApiVersionsResponse : Type := mkApiVersionsResponse {
  ApiVersionsResponse_error_code : Z;
  ApiVersionsResponse_api_keys : list ApiVersion;
  ApiVersionsResponse_throttle_time_ms : Z;
  ApiVersionsResponse_supported_features : list SupportedFeatureKey;
  ApiVersionsResponse_finalized_features_epoch : Z;
  ApiVersionsResponse_finalized_features : list FinalizedFeatureKey;
  ApiVersionsResponse_zk_migration_ready : bool;
  ApiVersionsResponse_unknown_tagged_fields : TaggedFields
}.

(* @ src/crates/kafka-protocol/src/messages/api_versions_response.rs 535-548 ApiVersionsResponse::default *)
Definition ApiVersionsResponse_default : ApiVersionsResponse := {|
  ApiVersionsResponse_error_code := 0;
  ApiVersionsResponse_api_keys := [];
  ApiVersionsResponse_throttle_time_ms := 0;
  ApiVersionsResponse_supported_features := [];
  ApiVersionsResponse_finalized_features_epoch := -1;
  ApiVersionsResponse_finalized_features := [];
  ApiVersionsResponse_zk_migration_ready := false;
  ApiVersionsResponse_unknown_tagged_fields := ∅
|}.

(* @ src/crates/kafka-protocol/src/messages/api_versions_response.rs 290-533 ApiVersionsResponse::encode, compute_size, decode *)
Definition ApiVersionsResponse_codec (version : Z) : Codec ApiVersionsResponse :=
  message 0 4 version (build (λ error_code api_keys throttle_time_ms '((supported_features,
      finalized_features_epoch, finalized_features, zk_migration_ready), unknown_tagged_fields),
      mkApiVersionsResponse error_code api_keys throttle_time_ms supported_features
      finalized_features_epoch finalized_features zk_migration_ready unknown_tagged_fields)
    ⊛ (field ApiVersionsResponse_error_code Int16)
    ⊛ (field ApiVersionsResponse_api_keys (if 3 <=? version then CompactArray (Struct ApiVersion_codec
        version) else Array (Struct ApiVersion_codec version)))
    ⊛ (if 1 <=? version then field ApiVersionsResponse_throttle_time_ms Int32 else ignored 0)
    ⊛ tag_section (3 <=? version) ([], (-1), [], false) [
       tagged 0 true ApiVersionsResponse_supported_features is_empty (CompactArray (Struct
           SupportedFeatureKey_codec version)) (λ v '(_, finalized_features_epoch, finalized_features,
           zk_migration_ready), (v, finalized_features_epoch, finalized_features, zk_migration_ready));
       tagged 1 true ApiVersionsResponse_finalized_features_epoch (Z.eqb (-1)) Int64 (λ v
           '(supported_features, _, finalized_features, zk_migration_ready), (supported_features, v,
           finalized_features, zk_migration_ready));
       tagged 2 true ApiVersionsResponse_finalized_features is_empty (CompactArray (Struct
           FinalizedFeatureKey_codec version)) (λ v '(supported_features, finalized_features_epoch, _,
           zk_migration_ready), (supported_features, finalized_features_epoch, v, zk_migration_ready));
       tagged 3 true ApiVersionsResponse_zk_migration_ready negb Boolean (λ v '(supported_features,
           finalized_features_epoch, finalized_features, _), (supported_features, finalized_features_epoch,
           finalized_features, v))] 4 ApiVersionsResponse_unknown_tagged_fields).

Definition ApiVersionsResponse_valid (version : Z) (x : ApiVersionsResponse) : Prop :=
  in_signed 16 (ApiVersionsResponse_error_code x) ∧
  Forall (ApiVersion_valid version) (ApiVersionsResponse_api_keys x) ∧
  (if 1 <=? version then in_signed 32 (ApiVersionsResponse_throttle_time_ms x) else
      ApiVersionsResponse_throttle_time_ms x = 0) ∧
  (if 3 <=? version then Forall (SupportedFeatureKey_valid version) (ApiVersionsResponse_supported_features
      x) else ApiVersionsResponse_supported_features x = []) ∧
  (if 3 <=? version then in_signed 64 (ApiVersionsResponse_finalized_features_epoch x) else
      ApiVersionsResponse_finalized_features_epoch x = (-1)) ∧
  (if 3 <=? version then Forall (FinalizedFeatureKey_valid version) (ApiVersionsResponse_finalized_features
      x) else ApiVersionsResponse_finalized_features x = []) ∧
  (if 3 <=? version then True else ApiVersionsResponse_zk_migration_ready x = false) ∧
  (if 3 <=? version then unknown_valid 4 (ApiVersionsResponse_unknown_tagged_fields x) else
      ApiVersionsResponse_unknown_tagged_fields x = ∅).

#[global] Instance ApiVersionsResponse_sound version : Sound (ApiVersionsResponse_codec version)
    (ApiVersionsResponse_valid version).
Proof. solve_tagged_message. Qed.

(* @ src/crates/kafka-protocol/src/messages/api_versions_response.rs 953-957 ApiVersionsResponse::header_version *)
Definition ApiVersionsResponse_header_version (version : Z) : Z := 0.

(* @ src/crates/kafka-protocol/src/messages/api_versions_response.rs 550-553 ApiVersionsResponse::VERSIONS *)
Definition ApiVersionsResponse_VERSIONS : Z * Z := (0, 4).

(** ** [create_topics_request] *)

(* @ src/crates/kafka-protocol/src/messages/create_topics_request.rs 20-36 CreatableReplicaAssignment *)
Record CreatableReplicaAssignment : Type := mkCreatableReplicaAssignment {
  CreatableReplicaAssignment_partition_index : Z;
  CreatableReplicaAssignment_broker_ids : list Z;
  CreatableReplicaAssignment_unknown_tagged_fields : TaggedFields
}.

(* @ src/crates/kafka-protocol/src/messages/create_topics_request.rs 149-157 CreatableReplicaAssignment::default *)
Definition CreatableReplicaAssignment_default : CreatableReplicaAssignment := {|
  CreatableReplicaAssignment_partition_index := 0;
  CreatableReplicaAssignment_broker_ids := [];
  CreatableReplicaAssignment_unknown_tagged_fields := ∅
|}.

(* @ src/crates/kafka-protocol/src/messages/create_topics_request.rs 69-147 CreatableReplicaAssignment::encode, compute_size, decode *)
Definition CreatableReplicaAssignment_codec (version : Z) : Codec CreatableReplicaAssignment :=
  message 2 7 version (build mkCreatableReplicaAssignment
    ⊛ (field CreatableReplicaAssignment_partition_index Int32)
    ⊛ (field CreatableReplicaAssignment_broker_ids (if 5 <=? version then CompactArray Int32 else Array
        Int32))
    ⊛ unknown_tags (5 <=? version) CreatableReplicaAssignment_unknown_tagged_fields).

Definition CreatableReplicaAssignment_valid (version : Z) (x : CreatableReplicaAssignment) : Prop :=
  in_signed 32 (CreatableReplicaAssignment_partition_index x) ∧
  Forall (in_signed 32) (CreatableReplicaAssignment_broker_ids x) ∧
  (if 5 <=? version then unknown_valid 0 (CreatableReplicaAssignment_unknown_tagged_fields x) else
      CreatableReplicaAssignment_unknown_tagged_fields x = ∅).

#[global] Instance CreatableReplicaAssignment_sound version : Sound (CreatableReplicaAssignment_codec
    version) (CreatableReplicaAssignment_valid version).
Proof. solve_message. Qed.

(* @ src/crates/kafka-protocol/src/messages/create_topics_request.rs 392-408 CreatableTopicConfig *)
Record CreatableTopicConfig : Type := mkCreatableTopicConfig {
  CreatableTopicConfig_name : list byte;
  CreatableTopicConfig_value : option (list byte);
  CreatableTopicConfig_unknown_tagged_fields : TaggedFields
}.

(* @ src/crates/kafka-protocol/src/messages/create_topics_request.rs 533-541 CreatableTopicConfig::default *)
Definition CreatableTopicConfig_default : CreatableTopicConfig := {|
  CreatableTopicConfig_name := [];
  CreatableTopicConfig_value := Some [];
  CreatableTopicConfig_unknown_tagged_fields := ∅
|}.

(* @ src/crates/kafka-protocol/src/messages/create_topics_request.rs 441-531 CreatableTopicConfig::encode, compute_size, decode *)
Definition CreatableTopicConfig_codec (version : Z) : Codec CreatableTopicConfig :=
  message 2 7 version (build mkCreatableTopicConfig
    ⊛ (field CreatableTopicConfig_name (if 5 <=? version then CompactString else KafkaString))
    ⊛ (field CreatableTopicConfig_value (if 5 <=? version then NullableCompactString else NullableString))
    ⊛ unknown_tags (5 <=? version) CreatableTopicConfig_unknown_tagged_fields).

Definition CreatableTopicConfig_valid (version : Z) (x : CreatableTopicConfig) : Prop :=
  utf8 (CreatableTopicConfig_name x) ∧
  opt_all utf8 (CreatableTopicConfig_value x) ∧
  (if 5 <=? version then unknown_valid 0 (CreatableTopicConfig_unknown_tagged_fields x) else
      CreatableTopicConfig_unknown_tagged_fields x = ∅).

#[global] Instance CreatableTopicConfig_sound version : Sound (CreatableTopicConfig_codec version)
    (CreatableTopicConfig_valid version).
Proof. solve_message. Qed.

(* @ src/crates/kafka-protocol/src/messages/create_topics_request.rs 164-195 CreatableTopic *)
Record CreatableTopic : Type := mkCreatableTopic {
  CreatableTopic_name : list byte;
  CreatableTopic_num_partitions : Z;
  CreatableTopic_replication_factor : Z;
  CreatableTopic_assignments : list CreatableReplicaAssignment;
  CreatableTopic_configs : list CreatableTopicConfig;
  CreatableTopic_unknown_tagged_fields : TaggedFields
}.

(* @ src/crates/kafka-protocol/src/messages/create_topics_request.rs 374-385 CreatableTopic::default *)
Definition CreatableTopic_default : CreatableTopic := {|
  CreatableTopic_name := [];
  CreatableTopic_num_partitions := 0;
  CreatableTopic_replication_factor := 0;
  CreatableTopic_assignments := [];
  CreatableTopic_configs := [];
  CreatableTopic_unknown_tagged_fields := ∅
|}.

(* @ src/crates/kafka-protocol/src/messages/create_topics_request.rs 255-372 CreatableTopic::encode, compute_size, decode *)
Definition CreatableTopic_codec (version : Z) : Codec CreatableTopic :=
  message 2 7 version (build mkCreatableTopic
    ⊛ (field CreatableTopic_name (if 5 <=? version then CompactString else KafkaString))
    ⊛ (field CreatableTopic_num_partitions Int32)
    ⊛ (field CreatableTopic_replication_factor Int16)
    ⊛ (field CreatableTopic_assignments (if 5 <=? version then CompactArray (Struct
        CreatableReplicaAssignment_codec version) else Array (Struct CreatableReplicaAssignment_codec
        version)))
    ⊛ (field CreatableTopic_configs (if 5 <=? version then CompactArray (Struct CreatableTopicConfig_codec
        version) else Array (Struct CreatableTopicConfig_codec version)))
    ⊛ unknown_tags (5 <=? version) CreatableTopic_unknown_tagged_fields).

Definition CreatableTopic_valid (version : Z) (x : CreatableTopic) : Prop :=
  utf8 (CreatableTopic_name x) ∧
  in_signed 32 (CreatableTopic_num_partitions x) ∧
  in_signed 16 (CreatableTopic_replication_factor x) ∧
  Forall (CreatableReplicaAssignment_valid version) (CreatableTopic_assignments x) ∧
  Forall (CreatableTopicConfig_valid version) (CreatableTopic_configs x) ∧
  (if 5 <=? version then unknown_valid 0 (CreatableTopic_unknown_tagged_fields x) else
      CreatableTopic_unknown_tagged_fields x = ∅).

#[global] Instance CreatableTopic_sound version : Sound (CreatableTopic_codec version)
    (CreatableTopic_valid version).
Proof. solve_message. Qed.

(* @ src/crates/kafka-protocol/src/messages/create_topics_request.rs 548-569 CreateTopicsRequest *)
Record CreateTopicsRequest : Type := mkCreateTopicsRequest {
  CreateTopicsRequest_topics : list CreatableTopic;
  CreateTopicsRequest_timeout_ms : Z;
  CreateTopicsRequest_validate_only : bool;
  CreateTopicsRequest_unknown_tagged_fields : TaggedFields
}.

(* @ src/crates/kafka-protocol/src/messages/create_topics_request.rs 696-705 CreateTopicsRequest::default *)
Definition CreateTopicsRequest_default : CreateTopicsRequest := {|
  CreateTopicsRequest_topics := [];
  CreateTopicsRequest_timeout_ms := 60000;
  CreateTopicsRequest_validate_only := false;
  CreateTopicsRequest_unknown_tagged_fields := ∅
|}.

(* @ src/crates/kafka-protocol/src/messages/create_topics_request.rs 611-694 CreateTopicsRequest::encode, compute_size, decode *)
Definition CreateTopicsRequest_codec (version : Z) : Codec CreateTopicsRequest :=
  message 2 7 version (build mkCreateTopicsRequest
    ⊛ (field CreateTopicsRequest_topics (if 5 <=? version then CompactArray (Struct CreatableTopic_codec
        version) else Array (Struct CreatableTopic_codec version)))
    ⊛ (field CreateTopicsRequest_timeout_ms Int32)
    ⊛ (field CreateTopicsRequest_validate_only Boolean)
    ⊛ unknown_tags (5 <=? version) CreateTopicsRequest_unknown_tagged_fields).

Definition CreateTopicsRequest_valid (version : Z) (x : CreateTopicsRequest) : Prop :=
  Forall (CreatableTopic_valid version) (CreateTopicsRequest_topics x) ∧
  in_signed 32 (CreateTopicsRequest_timeout_ms x) ∧
  (if 5 <=? version then unknown_valid 0 (CreateTopicsRequest_unknown_tagged_fields x) else
      CreateTopicsRequest_unknown_tagged_fields x = ∅).

#[global] Instance CreateTopicsRequest_sound version : Sound (CreateTopicsRequest_codec version)
    (CreateTopicsRequest_valid version).
Proof. solve_message. Qed.

(* @ src/crates/kafka-protocol/src/messages/create_topics_request.rs 712-720 CreateTopicsRequest::header_version *)
Definition CreateTopicsRequest_header_version (version : Z) : Z := if 5 <=? version then 2 else 1.

(* @ src/crates/kafka-protocol/src/messages/create_topics_request.rs 707-710 CreateTopicsRequest::VERSIONS *)
Definition CreateTopicsRequest_VERSIONS : Z * Z := (2, 7).

(** ** [create_topics_response] *)

(* @ src/crates/kafka-protocol/src/messages/create_topics_response.rs 20-51 CreatableTopicConfigs *)
Record CreatableTopicConfigs : Type := mkCreatableTopicConfigs {
  CreatableTopicConfigs_name : list byte;
  CreatableTopicConfigs_value : option (list byte);
  CreatableTopicConfigs_read_only : bool;
  CreatableTopicConfigs_config_source : Z;
  CreatableTopicConfigs_is_sensitive : bool;
  CreatableTopicConfigs_unknown_tagged_fields : TaggedFields
}.

(* @ src/crates/kafka-protocol/src/messages/create_topics_response.rs 273-284 CreatableTopicConfigs::default *)
Definition CreatableTopicConfigs_default : CreatableTopicConfigs := {|
  CreatableTopicConfigs_name := [];
  CreatableTopicConfigs_value := Some [];
  CreatableTopicConfigs_read_only := false;
  CreatableTopicConfigs_config_source := -1;
  CreatableTopicConfigs_is_sensitive := false;
  CreatableTopicConfigs_unknown_tagged_fields := ∅
|}.

(* @ src/crates/kafka-protocol/src/messages/create_topics_response.rs 111-271 CreatableTopicConfigs::encode, compute_size, decode *)
Definition CreatableTopicConfigs_codec (version : Z) : Codec CreatableTopicConfigs :=
  message 2 7 version (build mkCreatableTopicConfigs
    ⊛ (if 5 <=? version then field CreatableTopicConfigs_name CompactString else unset
        CreatableTopicConfigs_name is_empty [])
    ⊛ (if 5 <=? version then field CreatableTopicConfigs_value NullableCompactString else unset
        CreatableTopicConfigs_value is_some_empty (Some []))
    ⊛ (if 5 <=? version then field CreatableTopicConfigs_read_only Boolean else unset
        CreatableTopicConfigs_read_only negb false)
    ⊛ (if 5 <=? version then field CreatableTopicConfigs_config_source Int8 else ignored (-1))
    ⊛ (if 5 <=? version then field CreatableTopicConfigs_is_sensitive Boolean else unset
        CreatableTopicConfigs_is_sensitive negb false)
    ⊛ unknown_tags (5 <=? version) CreatableTopicConfigs_unknown_tagged_fields).

Definition CreatableTopicConfigs_valid (version : Z) (x : CreatableTopicConfigs) : Prop :=
  utf8 (CreatableTopicConfigs_name x) ∧
  opt_all utf8 (CreatableTopicConfigs_value x) ∧
  (if 5 <=? version then in_signed 8 (CreatableTopicConfigs_config_source x) else
      CreatableTopicConfigs_config_source x = (-1)) ∧
  (if 5 <=? version then unknown_valid 0 (CreatableTopicConfigs_unknown_tagged_fields x) else
      CreatableTopicConfigs_unknown_tagged_fields x = ∅).

#[global] Instance CreatableTopicConfigs_sound version : Sound (CreatableTopicConfigs_codec version)
    (CreatableTopicConfigs_valid version).
Proof. solve_message. Qed.

(* @ src/crates/kafka-protocol/src/messages/create_topics_response.rs 291-337 CreatableTopicResult *)
Record CreatableTopicResult : Type := mkCreatableTopicResult {
  CreatableTopicResult_name : list byte;
  CreatableTopicResult_topic_id : Z;
  CreatableTopicResult_error_code : Z;
  CreatableTopicResult_error_message : option (list byte);
  CreatableTopicResult_topic_config_error_code : Z;
  CreatableTopicResult_num_partitions : Z;
  CreatableTopicResult_replication_factor : Z;
  CreatableTopicResult_configs : option (list CreatableTopicConfigs);
  CreatableTopicResult_unknown_tagged_fields : TaggedFields
}.

(* @ src/crates/kafka-protocol/src/messages/create_topics_response.rs 608-622 CreatableTopicResult::default *)
Definition CreatableTopicResult_default : CreatableTopicResult := {|
  CreatableTopicResult_name := [];
  CreatableTopicResult_topic_id := 0;
  CreatableTopicResult_error_code := 0;
  CreatableTopicResult_error_message := Some [];
  CreatableTopicResult_topic_config_error_code := 0;
  CreatableTopicResult_num_partitions := -1;
  CreatableTopicResult_replication_factor := -1;
  CreatableTopicResult_configs := Some [];
  CreatableTopicResult_unknown_tagged_fields := ∅
|}.

(* @ src/crates/kafka-protocol/src/messages/create_topics_response.rs 424-606 CreatableTopicResult::encode, compute_size, decode *)
Definition CreatableTopicResult_codec (version : Z) : Codec CreatableTopicResult :=
  message 2 7 version (build (λ name topic_id error_code error_message num_partitions replication_factor
      configs '(topic_config_error_code, unknown_tagged_fields), mkCreatableTopicResult name topic_id
      error_code error_message topic_config_error_code num_partitions replication_factor configs
      unknown_tagged_fields)
    ⊛ (field CreatableTopicResult_name (if 5 <=? version then CompactString else KafkaString))
    ⊛ (if 7 <=? version then field CreatableTopicResult_topic_id Uuid else ignored 0)
    ⊛ (field CreatableTopicResult_error_code Int16)
    ⊛ (field CreatableTopicResult_error_message (if 5 <=? version then NullableCompactString else
        NullableString))
    ⊛ (if 5 <=? version then field CreatableTopicResult_num_partitions Int32 else ignored (-1))
    ⊛ (if 5 <=? version then field CreatableTopicResult_replication_factor Int16 else ignored (-1))
    ⊛ (if 5 <=? version then field CreatableTopicResult_configs (NullableCompactArray (Struct
        CreatableTopicConfigs_codec version)) else ignored (Some []))
    ⊛ tag_section (5 <=? version) 0 [
       tagged 0 true CreatableTopicResult_topic_config_error_code (Z.eqb 0) Int16 (λ v _, v)] 1
           CreatableTopicResult_unknown_tagged_fields).

Definition CreatableTopicResult_valid (version : Z) (x : CreatableTopicResult) : Prop :=
  utf8 (CreatableTopicResult_name x) ∧
  (if 7 <=? version then in_unsigned 128 (CreatableTopicResult_topic_id x) else
      CreatableTopicResult_topic_id x = 0) ∧
  in_signed 16 (CreatableTopicResult_error_code x) ∧
  opt_all utf8 (CreatableTopicResult_error_message x) ∧
  (if 5 <=? version then in_signed 32 (CreatableTopicResult_num_partitions x) else
      CreatableTopicResult_num_partitions x = (-1)) ∧
  (if 5 <=? version then in_signed 16 (CreatableTopicResult_replication_factor x) else
      CreatableTopicResult_replication_factor x = (-1)) ∧
  (if 5 <=? version then opt_all (Forall (CreatableTopicConfigs_valid version))
      (CreatableTopicResult_configs x) else CreatableTopicResult_configs x = (Some [])) ∧
  (if 5 <=? version then in_signed 16 (CreatableTopicResult_topic_config_error_code x) else
      CreatableTopicResult_topic_config_error_code x = 0) ∧
  (if 5 <=? version then unknown_valid 1 (CreatableTopicResult_unknown_tagged_fields x) else
      CreatableTopicResult_unknown_tagged_fields x = ∅).

#[global] Instance CreatableTopicResult_sound version : Sound (CreatableTopicResult_codec version)
    (CreatableTopicResult_valid version).
Proof. solve_tagged_message. Qed.

(* @ src/crates/kafka-protocol/src/messages/create_topics_response.rs 629-645 CreateTopicsResponse *)
Record CreateTopicsResponse : Type := mkCreateTopicsResponse {
  CreateTopicsResponse_throttle_time_ms : Z;
  CreateTopicsResponse_topics : list CreatableTopicResult;
  CreateTopicsResponse_unknown_tagged_fields : TaggedFields
}.

(* @ src/crates/kafka-protocol/src/messages/create_topics_response.rs 759-767 CreateTopicsResponse::default *)
Definition CreateTopicsResponse_default : CreateTopicsResponse := {|
  CreateTopicsResponse_throttle_time_ms := 0;
  CreateTopicsResponse_topics := [];
  CreateTopicsResponse_unknown_tagged_fields := ∅
|}.

(* @ src/crates/kafka-protocol/src/messages/create_topics_response.rs 678-757 CreateTopicsResponse::encode, compute_size, decode *)
Definition CreateTopicsResponse_codec (version : Z) : Codec CreateTopicsResponse :=
  message 2 7 version (build mkCreateTopicsResponse
    ⊛ (field CreateTopicsResponse_throttle_time_ms Int32)
    ⊛ (field CreateTopicsResponse_topics (if 5 <=? version then CompactArray (Struct
        CreatableTopicResult_codec version) else Array (Struct CreatableTopicResult_codec version)))
    ⊛ unknown_tags (5 <=? version) CreateTopicsResponse_unknown_tagged_fields).

Definition CreateTopicsResponse_valid (version : Z) (x : CreateTopicsResponse) : Prop :=
  in_signed 32 (CreateTopicsResponse_throttle_time_ms x) ∧
  Forall (CreatableTopicResult_valid version) (CreateTopicsResponse_topics x) ∧
  (if 5 <=? version then unknown_valid 0 (CreateTopicsResponse_unknown_tagged_fields x) else
      CreateTopicsResponse_unknown_tagged_fields x = ∅).

#[global] Instance CreateTopicsResponse_sound version : Sound (CreateTopicsResponse_codec version)
    (CreateTopicsResponse_valid version).
Proof. solve_message. Qed.

(* @ src/crates/kafka-protocol/src/messages/create_topics_response.rs 774-782 CreateTopicsResponse::header_version *)
Definition CreateTopicsResponse_header_version (version : Z) : Z := if 5 <=? version then 1 else 0.

(* @ src/crates/kafka-protocol/src/messages/create_topics_response.rs 769-772 CreateTopicsResponse::VERSIONS *)
Definition CreateTopicsResponse_VERSIONS : Z * Z := (2, 7).

(** ** [describe_cluster_request] *)

(* @ src/crates/kafka-protocol/src/messages/describe_cluster_request.rs 20-41 DescribeClusterRequest *)
Record DescribeClusterRequest : Type := mkDescribeClusterRequest {
  DescribeClusterRequest_include_cluster_authorized_operations : bool;
  DescribeClusterRequest_endpoint_type : Z;
  DescribeClusterRequest_include_fenced_brokers : bool;
  DescribeClusterRequest_unknown_tagged_fields : TaggedFields
}.

(* @ src/crates/kafka-protocol/src/messages/describe_cluster_request.rs 181-190 DescribeClusterRequest::default *)
Definition DescribeClusterRequest_default : DescribeClusterRequest := {|
  DescribeClusterRequest_include_cluster_authorized_operations := false;
  DescribeClusterRequest_endpoint_type := 1;
  DescribeClusterRequest_include_fenced_brokers := false;
  DescribeClusterRequest_unknown_tagged_fields := ∅
|}.

(* @ src/crates/kafka-protocol/src/messages/describe_cluster_request.rs 83-179 DescribeClusterRequest::encode, compute_size, decode *)
Definition DescribeClusterRequest_codec (version : Z) : Codec DescribeClusterRequest :=
  message 0 2 version (build mkDescribeClusterRequest
    ⊛ (field DescribeClusterRequest_include_cluster_authorized_operations Boolean)
    ⊛ (if 1 <=? version then field DescribeClusterRequest_endpoint_type Int8 else unset
        DescribeClusterRequest_endpoint_type (Z.eqb 1) 1)
    ⊛ (if 2 <=? version then field DescribeClusterRequest_include_fenced_brokers Boolean else unset
        DescribeClusterRequest_include_fenced_brokers negb false)
    ⊛ unknown_tags true DescribeClusterRequest_unknown_tagged_fields).

Definition DescribeClusterRequest_valid (version : Z) (x : DescribeClusterRequest) : Prop :=
  in_signed 8 (DescribeClusterRequest_endpoint_type x) ∧
  unknown_valid 0 (DescribeClusterRequest_unknown_tagged_fields x).

#[global] Instance DescribeClusterRequest_sound version : Sound (DescribeClusterRequest_codec version)
    (DescribeClusterRequest_valid version).
Proof. solve_message. Qed.

(* @ src/crates/kafka-protocol/src/messages/describe_cluster_request.rs 197-201 DescribeClusterRequest::header_version *)
Definition DescribeClusterRequest_header_version (version : Z) : Z := 2.

(* @ src/crates/kafka-protocol/src/messages/describe_cluster_request.rs 192-195 DescribeClusterRequest::VERSIONS *)
Definition DescribeClusterRequest_VERSIONS : Z * Z := (0, 2).

(** ** [describe_cluster_response] *)

(* @ src/crates/kafka-protocol/src/messages/describe_cluster_response.rs 20-51 DescribeClusterBroker *)
Record DescribeClusterBroker : Type := mkDescribeClusterBroker {
  DescribeClusterBroker_broker_id : Z;
  DescribeClusterBroker_host : list byte;
  DescribeClusterBroker_port : Z;
  DescribeClusterBroker_rack : option (list byte);
  DescribeClusterBroker_is_fenced : bool;
  DescribeClusterBroker_unknown_tagged_fields : TaggedFields
}.

(* @ src/crates/kafka-protocol/src/messages/describe_cluster_response.rs 201-212 DescribeClusterBroker::default *)
Definition DescribeClusterBroker_default : DescribeClusterBroker := {|
  DescribeClusterBroker_broker_id := 0;
  DescribeClusterBroker_host := [];
  DescribeClusterBroker_port := 0;
  DescribeClusterBroker_rack := None;
  DescribeClusterBroker_is_fenced := false;
  DescribeClusterBroker_unknown_tagged_fields := ∅
|}.

(* @ src/crates/kafka-protocol/src/messages/describe_cluster_response.rs 111-199 DescribeClusterBroker::encode, compute_size, decode *)
Definition DescribeClusterBroker_codec (version : Z) : Codec DescribeClusterBroker :=
  message 0 2 version (build mkDescribeClusterBroker
    ⊛ (field DescribeClusterBroker_broker_id Int32)
    ⊛ (field DescribeClusterBroker_host CompactString)
    ⊛ (field DescribeClusterBroker_port Int32)
    ⊛ (field DescribeClusterBroker_rack NullableCompactString)
    ⊛ (if 2 <=? version then field DescribeClusterBroker_is_fenced Boolean else unset
        DescribeClusterBroker_is_fenced negb false)
    ⊛ unknown_tags true DescribeClusterBroker_unknown_tagged_fields).

Definition DescribeClusterBroker_valid (version : Z) (x : DescribeClusterBroker) : Prop :=
  in_signed 32 (DescribeClusterBroker_broker_id x) ∧
  utf8 (DescribeClusterBroker_host x) ∧
  in_signed 32 (DescribeClusterBroker_port x) ∧
  opt_all utf8 (DescribeClusterBroker_rack x) ∧
  unknown_valid 0 (DescribeClusterBroker_unknown_tagged_fields x).

#[global] Instance DescribeClusterBroker_sound version : Sound (DescribeClusterBroker_codec version)
    (DescribeClusterBroker_valid version).
Proof. solve_message. Qed.

(* @ src/crates/kafka-protocol/src/messages/describe_cluster_response.rs 219-265 DescribeClusterResponse *)
Record DescribeClusterResponse : Type := mkDescribeClusterResponse {
  DescribeClusterResponse_throttle_time_ms : Z;
  DescribeClusterResponse_error_code : Z;
  DescribeClusterResponse_error_message : option (list byte);
  DescribeClusterResponse_endpoint_type : Z;
  DescribeClusterResponse_cluster_id : list byte;
  DescribeClusterResponse_controller_id : Z;
  DescribeClusterResponse_brokers : list DescribeClusterBroker;
  DescribeClusterResponse_cluster_authorized_operations : Z;
  DescribeClusterResponse_unknown_tagged_fields : TaggedFields
}.

(* @ src/crates/kafka-protocol/src/messages/describe_cluster_response.rs 454-468 DescribeClusterResponse::default *)
Definition DescribeClusterResponse_default : DescribeClusterResponse := {|
  DescribeClusterResponse_throttle_time_ms := 0;
  DescribeClusterResponse_error_code := 0;
  DescribeClusterResponse_error_message := None;
  DescribeClusterResponse_endpoint_type := 1;
  DescribeClusterResponse_cluster_id := [];
  DescribeClusterResponse_controller_id := -1;
  DescribeClusterResponse_brokers := [];
  DescribeClusterResponse_cluster_authorized_operations := -2147483648;
  DescribeClusterResponse_unknown_tagged_fields := ∅
|}.

(* @ src/crates/kafka-protocol/src/messages/describe_cluster_response.rs 352-452 DescribeClusterResponse::encode, compute_size, decode *)
Definition DescribeClusterResponse_codec (version : Z) : Codec DescribeClusterResponse :=
  message 0 2 version (build mkDescribeClusterResponse
    ⊛ (field DescribeClusterResponse_throttle_time_ms Int32)
    ⊛ (field DescribeClusterResponse_error_code Int16)
    ⊛ (field DescribeClusterResponse_error_message NullableCompactString)
    ⊛ (if 1 <=? version then field DescribeClusterResponse_endpoint_type Int8 else unset
        DescribeClusterResponse_endpoint_type (Z.eqb 1) 1)
    ⊛ (field DescribeClusterResponse_cluster_id CompactString)
    ⊛ (field DescribeClusterResponse_controller_id Int32)
    ⊛ (field DescribeClusterResponse_brokers (CompactArray (Struct DescribeClusterBroker_codec version)))
    ⊛ (field DescribeClusterResponse_cluster_authorized_operations Int32)
    ⊛ unknown_tags true DescribeClusterResponse_unknown_tagged_fields).

Definition DescribeClusterResponse_valid (version : Z) (x : DescribeClusterResponse) : Prop :=
  in_signed 32 (DescribeClusterResponse_throttle_time_ms x) ∧
  in_signed 16 (DescribeClusterResponse_error_code x) ∧
  opt_all utf8 (DescribeClusterResponse_error_message x) ∧
  in_signed 8 (DescribeClusterResponse_endpoint_type x) ∧
  utf8 (DescribeClusterResponse_cluster_id x) ∧
  in_signed 32 (DescribeClusterResponse_controller_id x) ∧
  Forall (DescribeClusterBroker_valid version) (DescribeClusterResponse_brokers x) ∧
  in_signed 32 (DescribeClusterResponse_cluster_authorized_operations x) ∧
  unknown_valid 0 (DescribeClusterResponse_unknown_tagged_fields x).

#[global] Instance DescribeClusterResponse_sound version : Sound (DescribeClusterResponse_codec version)
    (DescribeClusterResponse_valid version).
Proof. solve_message. Qed.

(* @ src/crates/kafka-protocol/src/messages/describe_cluster_response.rs 475-479 DescribeClusterResponse::header_version *)
Definition DescribeClusterResponse_header_version (version : Z) : Z := 1.

(* @ src/crates/kafka-protocol/src/messages/describe_cluster_response.rs 470-473 DescribeClusterResponse::VERSIONS *)
Definition DescribeClusterResponse_VERSIONS : Z * Z := (0, 2).

(** ** [describe_configs_request] *)

(* @ src/crates/kafka-protocol/src/messages/describe_configs_request.rs 200-221 DescribeConfigsResource *)
Record DescribeConfigsResource : Type := mkDescribeConfigsResource {
  DescribeConfigsResource_resource_type : Z;
  DescribeConfigsResource_resource_name : list byte;
  DescribeConfigsResource_configuration_keys : option (list (list byte));
  DescribeConfigsResource_unknown_tagged_fields : TaggedFields
}.

(* @ src/crates/kafka-protocol/src/messages/describe_configs_request.rs 360-369 DescribeConfigsResource::default *)
Definition DescribeConfigsResource_default : DescribeConfigsResource := {|
  DescribeConfigsResource_resource_type := 0;
  DescribeConfigsResource_resource_name := [];
  DescribeConfigsResource_configuration_keys := Some [];
  DescribeConfigsResource_unknown_tagged_fields := ∅
|}.

(* @ src/crates/kafka-protocol/src/messages/describe_configs_request.rs 263-358 DescribeConfigsResource::encode, compute_size, decode *)
Definition DescribeConfigsResource_codec (version : Z) : Codec DescribeConfigsResource :=
  message 1 4 version (build mkDescribeConfigsResource
    ⊛ (field DescribeConfigsResource_resource_type Int8)
    ⊛ (field DescribeConfigsResource_resource_name (if 4 <=? version then CompactString else KafkaString))
    ⊛ (field DescribeConfigsResource_configuration_keys (if 4 <=? version then NullableCompactArray
        CompactString else NullableArray KafkaString))
    ⊛ unknown_tags (4 <=? version) DescribeConfigsResource_unknown_tagged_fields).

Definition DescribeConfigsResource_valid (version : Z) (x : DescribeConfigsResource) : Prop :=
  in_signed 8 (DescribeConfigsResource_resource_type x) ∧
  utf8 (DescribeConfigsResource_resource_name x) ∧
  opt_all (Forall utf8) (DescribeConfigsResource_configuration_keys x) ∧
  (if 4 <=? version then unknown_valid 0 (DescribeConfigsResource_unknown_tagged_fields x) else
      DescribeConfigsResource_unknown_tagged_fields x = ∅).

#[global] Instance DescribeConfigsResource_sound version : Sound (DescribeConfigsResource_codec version)
    (DescribeConfigsResource_valid version).
Proof. solve_message. Qed.

(* @ src/crates/kafka-protocol/src/messages/describe_configs_request.rs 20-41 DescribeConfigsRequest *)
Record DescribeConfigsRequest : Type := mkDescribeConfigsRequest {
  DescribeConfigsRequest_resources : list DescribeConfigsResource;
  DescribeConfigsRequest_include_synonyms : bool;
  DescribeConfigsRequest_include_documentation : bool;
  DescribeConfigsRequest_unknown_tagged_fields : TaggedFields
}.

(* @ src/crates/kafka-protocol/src/messages/describe_configs_request.rs 184-193 DescribeConfigsRequest::default *)
Definition DescribeConfigsRequest_default : DescribeConfigsRequest := {|
  DescribeConfigsRequest_resources := [];
  DescribeConfigsRequest_include_synonyms := false;
  DescribeConfigsRequest_include_documentation := false;
  DescribeConfigsRequest_unknown_tagged_fields := ∅
|}.

(* @ src/crates/kafka-protocol/src/messages/describe_configs_request.rs 83-182 DescribeConfigsRequest::encode, compute_size, decode *)
Definition DescribeConfigsRequest_codec (version : Z) : Codec DescribeConfigsRequest :=
  message 1 4 version (build mkDescribeConfigsRequest
    ⊛ (field DescribeConfigsRequest_resources (if 4 <=? version then CompactArray (Struct
        DescribeConfigsResource_codec version) else Array (Struct DescribeConfigsResource_codec version)))
    ⊛ (field DescribeConfigsRequest_include_synonyms Boolean)
    ⊛ (if 3 <=? version then field DescribeConfigsRequest_include_documentation Boolean else unset
        DescribeConfigsRequest_include_documentation negb false)
    ⊛ unknown_tags (4 <=? version) DescribeConfigsRequest_unknown_tagged_fields).

Definition DescribeConfigsRequest_valid (version : Z) (x : DescribeConfigsRequest) : Prop :=
  Forall (DescribeConfigsResource_valid version) (DescribeConfigsRequest_resources x) ∧
  (if 4 <=? version then unknown_valid 0 (DescribeConfigsRequest_unknown_tagged_fields x) else
      DescribeConfigsRequest_unknown_tagged_fields x = ∅).

#[global] Instance DescribeConfigsRequest_sound version : Sound (DescribeConfigsRequest_codec version)
    (DescribeConfigsRequest_valid version).
Proof. solve_message. Qed.

(* @ src/crates/kafka-protocol/src/messages/describe_configs_request.rs 376-384 DescribeConfigsRequest::header_version *)
Definition DescribeConfigsRequest_header_version (version : Z) : Z := if 4 <=? version then 2 else 1.

(* @ src/crates/kafka-protocol/src/messages/describe_configs_request.rs 195-198 DescribeConfigsRequest::VERSIONS *)
Definition DescribeConfigsRequest_VERSIONS : Z * Z := (1, 4).

(** ** [describe_configs_response] *)

(* @ src/crates/kafka-protocol/src/messages/describe_configs_response.rs 702-723 DescribeConfigsSynonym *)
Record DescribeConfigsSynonym : Type := mkDescribeConfigsSynonym {
  DescribeConfigsSynonym_name : list byte;
  DescribeConfigsSynonym_value : option (list byte);
  DescribeConfigsSynonym_source : Z;
  DescribeConfigsSynonym_unknown_tagged_fields : TaggedFields
}.

(* @ src/crates/kafka-protocol/src/messages/describe_configs_response.rs 861-870 DescribeConfigsSynonym::default *)
Definition DescribeConfigsSynonym_default : DescribeConfigsSynonym := {|
  DescribeConfigsSynonym_name := [];
  DescribeConfigsSynonym_value := Some [];
  DescribeConfigsSynonym_source := 0;
  DescribeConfigsSynonym_unknown_tagged_fields := ∅
|}.

(* @ src/crates/kafka-protocol/src/messages/describe_configs_response.rs 765-859 DescribeConfigsSynonym::encode, compute_size, decode *)
Definition DescribeConfigsSynonym_codec (version : Z) : Codec DescribeConfigsSynonym :=
  message 1 4 version (build mkDescribeConfigsSynonym
    ⊛ (field DescribeConfigsSynonym_name (if 4 <=? version then CompactString else KafkaString))
    ⊛ (field DescribeConfigsSynonym_value (if 4 <=? version then NullableCompactString else NullableString))
    ⊛ (field DescribeConfigsSynonym_source Int8)
    ⊛ unknown_tags (4 <=? version) DescribeConfigsSynonym_unknown_tagged_fields).

Definition DescribeConfigsSynonym_valid (version : Z) (x : DescribeConfigsSynonym) : Prop :=
  utf8 (DescribeConfigsSynonym_name x) ∧
  opt_all utf8 (DescribeConfigsSynonym_value x) ∧
  in_signed 8 (DescribeConfigsSynonym_source x) ∧
  (if 4 <=? version then unknown_valid 0 (DescribeConfigsSynonym_unknown_tagged_fields x) else
      DescribeConfigsSynonym_unknown_tagged_fields x = ∅).

#[global] Instance DescribeConfigsSynonym_sound version : Sound (DescribeConfigsSynonym_codec version)
    (DescribeConfigsSynonym_valid version).
Proof. solve_message. Qed.

(* @ src/crates/kafka-protocol/src/messages/describe_configs_response.rs 20-66 DescribeConfigsResourceResult *)
Record DescribeConfigsResourceResult : Type := mkDescribeConfigsResourceResult {
  DescribeConfigsResourceResult_name : list byte;
  DescribeConfigsResourceResult_value : option (list byte);
  DescribeConfigsResourceResult_read_only : bool;
  DescribeConfigsResourceResult_config_source : Z;
  DescribeConfigsResourceResult_is_sensitive : bool;
  DescribeConfigsResourceResult_synonyms : list DescribeConfigsSynonym;
  DescribeConfigsResourceResult_config_type : Z;
  DescribeConfigsResourceResult_documentation : option (list byte);
  DescribeConfigsResourceResult_unknown_tagged_fields : TaggedFields
}.

(* @ src/crates/kafka-protocol/src/messages/describe_configs_response.rs 310-324 DescribeConfigsResourceResult::default *)
Definition DescribeConfigsResourceResult_default : DescribeConfigsResourceResult := {|
  DescribeConfigsResourceResult_name := [];
  DescribeConfigsResourceResult_value := Some [];
  DescribeConfigsResourceResult_read_only := false;
  DescribeConfigsResourceResult_config_source := -1;
  DescribeConfigsResourceResult_is_sensitive := false;
  DescribeConfigsResourceResult_synonyms := [];
  DescribeConfigsResourceResult_config_type := 0;
  DescribeConfigsResourceResult_documentation := Some [];
  DescribeConfigsResourceResult_unknown_tagged_fields := ∅
|}.

(* @ src/crates/kafka-protocol/src/messages/describe_configs_response.rs 153-308 DescribeConfigsResourceResult::encode, compute_size, decode *)
Definition DescribeConfigsResourceResult_codec (version : Z) : Codec DescribeConfigsResourceResult :=
  message 1 4 version (build mkDescribeConfigsResourceResult
    ⊛ (field DescribeConfigsResourceResult_name (if 4 <=? version then CompactString else KafkaString))
    ⊛ (field DescribeConfigsResourceResult_value (if 4 <=? version then NullableCompactString else
        NullableString))
    ⊛ (field DescribeConfigsResourceResult_read_only Boolean)
    ⊛ (field DescribeConfigsResourceResult_config_source Int8)
    ⊛ (field DescribeConfigsResourceResult_is_sensitive Boolean)
    ⊛ (field DescribeConfigsResourceResult_synonyms (if 4 <=? version then CompactArray (Struct
        DescribeConfigsSynonym_codec version) else Array (Struct DescribeConfigsSynonym_codec version)))
    ⊛ (if 3 <=? version then field DescribeConfigsResourceResult_config_type Int8 else ignored 0)
    ⊛ (if 3 <=? version then field DescribeConfigsResourceResult_documentation (if 4 <=? version then
        NullableCompactString else NullableString) else ignored (Some []))
    ⊛ unknown_tags (4 <=? version) DescribeConfigsResourceResult_unknown_tagged_fields).

Definition DescribeConfigsResourceResult_valid (version : Z) (x : DescribeConfigsResourceResult) : Prop :=
  utf8 (DescribeConfigsResourceResult_name x) ∧
  opt_all utf8 (DescribeConfigsResourceResult_value x) ∧
  in_signed 8 (DescribeConfigsResourceResult_config_source x) ∧
  Forall (DescribeConfigsSynonym_valid version) (DescribeConfigsResourceResult_synonyms x) ∧
  (if 3 <=? version then in_signed 8 (DescribeConfigsResourceResult_config_type x) else
      DescribeConfigsResourceResult_config_type x = 0) ∧
  (if 3 <=? version then opt_all utf8 (DescribeConfigsResourceResult_documentation x) else
      DescribeConfigsResourceResult_documentation x = (Some [])) ∧
  (if 4 <=? version then unknown_valid 0 (DescribeConfigsResourceResult_unknown_tagged_fields x) else
      DescribeConfigsResourceResult_unknown_tagged_fields x = ∅).

#[global] Instance DescribeConfigsResourceResult_sound version : Sound (DescribeConfigsResourceResult_codec
    version) (DescribeConfigsResourceResult_valid version).
Proof. solve_message. Qed.

(* @ src/crates/kafka-protocol/src/messages/describe_configs_response.rs 476-507 DescribeConfigsResult *)
Record DescribeConfigsResult : Type := mkDescribeConfigsResult {
  DescribeConfigsResult_error_code : Z;
  DescribeConfigsResult_error_message : option (list byte);
  DescribeConfigsResult_resource_type : Z;
  DescribeConfigsResult_resource_name : list byte;
  DescribeConfigsResult_configs : list DescribeConfigsResourceResult;
  DescribeConfigsResult_unknown_tagged_fields : TaggedFields
}.

(* @ src/crates/kafka-protocol/src/messages/describe_configs_response.rs 684-695 DescribeConfigsResult::default *)
Definition DescribeConfigsResult_default : DescribeConfigsResult := {|
  DescribeConfigsResult_error_code := 0;
  DescribeConfigsResult_error_message := Some [];
  DescribeConfigsResult_resource_type := 0;
  DescribeConfigsResult_resource_name := [];
  DescribeConfigsResult_configs := [];
  DescribeConfigsResult_unknown_tagged_fields := ∅
|}.

(* @ src/crates/kafka-protocol/src/messages/describe_configs_response.rs 567-682 DescribeConfigsResult::encode, compute_size, decode *)
Definition DescribeConfigsResult_codec (version : Z) : Codec DescribeConfigsResult :=
  message 1 4 version (build mkDescribeConfigsResult
    ⊛ (field DescribeConfigsResult_error_code Int16)
    ⊛ (field DescribeConfigsResult_error_message (if 4 <=? version then NullableCompactString else
        NullableString))
    ⊛ (field DescribeConfigsResult_resource_type Int8)
    ⊛ (field DescribeConfigsResult_resource_name (if 4 <=? version then CompactString else KafkaString))
    ⊛ (field DescribeConfigsResult_configs (if 4 <=? version then CompactArray (Struct
        DescribeConfigsResourceResult_codec version) else Array (Struct DescribeConfigsResourceResult_codec
        version)))
    ⊛ unknown_tags (4 <=? version) DescribeConfigsResult_unknown_tagged_fields).

Definition DescribeConfigsResult_valid (version : Z) (x : DescribeConfigsResult) : Prop :=
  in_signed 16 (DescribeConfigsResult_error_code x) ∧
  opt_all utf8 (DescribeConfigsResult_error_message x) ∧
  in_signed 8 (DescribeConfigsResult_resource_type x) ∧
  utf8 (DescribeConfigsResult_resource_name x) ∧
  Forall (DescribeConfigsResourceResult_valid version) (DescribeConfigsResult_configs x) ∧
  (if 4 <=? version then unknown_valid 0 (DescribeConfigsResult_unknown_tagged_fields x) else
      DescribeConfigsResult_unknown_tagged_fields x = ∅).

#[global] Instance DescribeConfigsResult_sound version : Sound (DescribeConfigsResult_codec version)
    (DescribeConfigsResult_valid version).
Proof. solve_message. Qed.

(* @ src/crates/kafka-protocol/src/messages/describe_configs_response.rs 331-347 DescribeConfigsResponse *)
Record DescribeConfigsResponse : Type := mkDescribeConfigsResponse {
  DescribeConfigsResponse_throttle_time_ms : Z;
  DescribeConfigsResponse_results : list DescribeConfigsResult;
  DescribeConfigsResponse_unknown_tagged_fields : TaggedFields
}.

(* @ src/crates/kafka-protocol/src/messages/describe_configs_response.rs 461-469 DescribeConfigsResponse::default *)
Definition DescribeConfigsResponse_default : DescribeConfigsResponse := {|
  DescribeConfigsResponse_throttle_time_ms := 0;
  DescribeConfigsResponse_results := [];
  DescribeConfigsResponse_unknown_tagged_fields := ∅
|}.

(* @ src/crates/kafka-protocol/src/messages/describe_configs_response.rs 380-459 DescribeConfigsResponse::encode, compute_size, decode *)
Definition DescribeConfigsResponse_codec (version : Z) : Codec DescribeConfigsResponse :=
  message 1 4 version (build mkDescribeConfigsResponse
    ⊛ (field DescribeConfigsResponse_throttle_time_ms Int32)
    ⊛ (field DescribeConfigsResponse_results (if 4 <=? version then CompactArray (Struct
        DescribeConfigsResult_codec version) else Array (Struct DescribeConfigsResult_codec version)))
    ⊛ unknown_tags (4 <=? version) DescribeConfigsResponse_unknown_tagged_fields).

Definition DescribeConfigsResponse_valid (version : Z) (x : DescribeConfigsResponse) : Prop :=
  in_signed 32 (DescribeConfigsResponse_throttle_time_ms x) ∧
  Forall (DescribeConfigsResult_valid version) (DescribeConfigsResponse_results x) ∧
  (if 4 <=? version then unknown_valid 0 (DescribeConfigsResponse_unknown_tagged_fields x) else
      DescribeConfigsResponse_unknown_tagged_fields x = ∅).

#[global] Instance DescribeConfigsResponse_sound version : Sound (DescribeConfigsResponse_codec version)
    (DescribeConfigsResponse_valid version).
Proof. solve_message. Qed.

(* @ src/crates/kafka-protocol/src/messages/describe_configs_response.rs 877-885 DescribeConfigsResponse::header_version *)
Definition DescribeConfigsResponse_header_version (version : Z) : Z := if 4 <=? version then 1 else 0.

(* @ src/crates/kafka-protocol/src/messages/describe_configs_response.rs 471-474 DescribeConfigsResponse::VERSIONS *)
Definition DescribeConfigsResponse_VERSIONS : Z * Z := (1, 4).

(** ** [describe_topic_partitions_request] *)

(* @ src/crates/kafka-protocol/src/messages/describe_topic_partitions_request.rs 20-36 Cursor *)
Record DescribeTopicPartitionsRequest_Cursor : Type := mkDescribeTopicPartitionsRequest_Cursor {
  DescribeTopicPartitionsRequest_Cursor_topic_name : list byte;
  DescribeTopicPartitionsRequest_Cursor_partition_index : Z;
  DescribeTopicPartitionsRequest_Cursor_unknown_tagged_fields : TaggedFields
}.

(* @ src/crates/kafka-protocol/src/messages/describe_topic_partitions_request.rs 131-139 Cursor::default *)
Definition DescribeTopicPartitionsRequest_Cursor_default : DescribeTopicPartitionsRequest_Cursor := {|
  DescribeTopicPartitionsRequest_Cursor_topic_name := [];
  DescribeTopicPartitionsRequest_Cursor_partition_index := 0;
  DescribeTopicPartitionsRequest_Cursor_unknown_tagged_fields := ∅
|}.

(* @ src/crates/kafka-protocol/src/messages/describe_topic_partitions_request.rs 69-129 Cursor::encode, compute_size, decode *)
Definition DescribeTopicPartitionsRequest_Cursor_codec (version : Z) : Codec
    DescribeTopicPartitionsRequest_Cursor :=
  message 0 0 version (build mkDescribeTopicPartitionsRequest_Cursor
    ⊛ (field DescribeTopicPartitionsRequest_Cursor_topic_name CompactString)
    ⊛ (field DescribeTopicPartitionsRequest_Cursor_partition_index Int32)
    ⊛ unknown_tags true DescribeTopicPartitionsRequest_Cursor_unknown_tagged_fields).

Definition DescribeTopicPartitionsRequest_Cursor_valid (version : Z) (x :
    DescribeTopicPartitionsRequest_Cursor) : Prop :=
  utf8 (DescribeTopicPartitionsRequest_Cursor_topic_name x) ∧
  in_signed 32 (DescribeTopicPartitionsRequest_Cursor_partition_index x) ∧
  unknown_valid 0 (DescribeTopicPartitionsRequest_Cursor_unknown_tagged_fields x).

#[global] Instance DescribeTopicPartitionsRequest_Cursor_sound version : Sound
    (DescribeTopicPartitionsRequest_Cursor_codec version) (DescribeTopicPartitionsRequest_Cursor_valid
    version).
Proof. solve_message. Qed.

(* @ src/crates/kafka-protocol/src/messages/describe_topic_partitions_request.rs 291-302 TopicRequest *)
Record DescribeTopicPartitionsRequest_TopicRequest : Type := mkDescribeTopicPartitionsRequest_TopicRequest {
  DescribeTopicPartitionsRequest_TopicRequest_name : list byte;
  DescribeTopicPartitionsRequest_TopicRequest_unknown_tagged_fields : TaggedFields
}.

(* @ src/crates/kafka-protocol/src/messages/describe_topic_partitions_request.rs 384-391 TopicRequest::default *)
Definition DescribeTopicPartitionsRequest_TopicRequest_default :
    DescribeTopicPartitionsRequest_TopicRequest := {|
  DescribeTopicPartitionsRequest_TopicRequest_name := [];
  DescribeTopicPartitionsRequest_TopicRequest_unknown_tagged_fields := ∅
|}.

(* @ src/crates/kafka-protocol/src/messages/describe_topic_partitions_request.rs 326-382 TopicRequest::encode, compute_size, decode *)
Definition DescribeTopicPartitionsRequest_TopicRequest_codec (version : Z) : Codec
    DescribeTopicPartitionsRequest_TopicRequest :=
  message 0 0 version (build mkDescribeTopicPartitionsRequest_TopicRequest
    ⊛ (field DescribeTopicPartitionsRequest_TopicRequest_name CompactString)
    ⊛ unknown_tags true DescribeTopicPartitionsRequest_TopicRequest_unknown_tagged_fields).

Definition DescribeTopicPartitionsRequest_TopicRequest_valid (version : Z) (x :
    DescribeTopicPartitionsRequest_TopicRequest) : Prop :=
  utf8 (DescribeTopicPartitionsRequest_TopicRequest_name x) ∧
  unknown_valid 0 (DescribeTopicPartitionsRequest_TopicRequest_unknown_tagged_fields x).

#[global] Instance DescribeTopicPartitionsRequest_TopicRequest_sound version : Sound
    (DescribeTopicPartitionsRequest_TopicRequest_codec version)
    (DescribeTopicPartitionsRequest_TopicRequest_valid version).
Proof. solve_message. Qed.

(* @ src/crates/kafka-protocol/src/messages/describe_topic_partitions_request.rs 146-167 DescribeTopicPartitionsRequest *)
Record DescribeTopicPartitionsRequest : Type := mkDescribeTopicPartitionsRequest {
  DescribeTopicPartitionsRequest_topics : list DescribeTopicPartitionsRequest_TopicRequest;
  DescribeTopicPartitionsRequest_response_partition_limit : Z;
  DescribeTopicPartitionsRequest_cursor : option DescribeTopicPartitionsRequest_Cursor;
  DescribeTopicPartitionsRequest_unknown_tagged_fields : TaggedFields
}.

(* @ src/crates/kafka-protocol/src/messages/describe_topic_partitions_request.rs 275-284 DescribeTopicPartitionsRequest::default *)
Definition DescribeTopicPartitionsRequest_default : DescribeTopicPartitionsRequest := {|
  DescribeTopicPartitionsRequest_topics := [];
  DescribeTopicPartitionsRequest_response_partition_limit := 2000;
  DescribeTopicPartitionsRequest_cursor := None;
  DescribeTopicPartitionsRequest_unknown_tagged_fields := ∅
|}.

(* @ src/crates/kafka-protocol/src/messages/describe_topic_partitions_request.rs 209-273 DescribeTopicPartitionsRequest::encode, compute_size, decode *)
Definition DescribeTopicPartitionsRequest_codec (version : Z) : Codec DescribeTopicPartitionsRequest :=
  message 0 0 version (build mkDescribeTopicPartitionsRequest
    ⊛ (field DescribeTopicPartitionsRequest_topics (CompactArray (Struct
        DescribeTopicPartitionsRequest_TopicRequest_codec version)))
    ⊛ (field DescribeTopicPartitionsRequest_response_partition_limit Int32)
    ⊛ (field DescribeTopicPartitionsRequest_cursor (OptionStruct
        DescribeTopicPartitionsRequest_Cursor_codec version))
    ⊛ unknown_tags true DescribeTopicPartitionsRequest_unknown_tagged_fields).

Definition DescribeTopicPartitionsRequest_valid (version : Z) (x : DescribeTopicPartitionsRequest) : Prop :=
  Forall (DescribeTopicPartitionsRequest_TopicRequest_valid version) (DescribeTopicPartitionsRequest_topics
      x) ∧
  in_signed 32 (DescribeTopicPartitionsRequest_response_partition_limit x) ∧
  opt_all (DescribeTopicPartitionsRequest_Cursor_valid version) (DescribeTopicPartitionsRequest_cursor x) ∧
  unknown_valid 0 (DescribeTopicPartitionsRequest_unknown_tagged_fields x).

#[global] Instance DescribeTopicPartitionsRequest_sound version : Sound
    (DescribeTopicPartitionsRequest_codec version) (DescribeTopicPartitionsRequest_valid version).
Proof. solve_message. Qed.

(* @ src/crates/kafka-protocol/src/messages/describe_topic_partitions_request.rs 398-402 DescribeTopicPartitionsRequest::header_version *)
Definition DescribeTopicPartitionsRequest_header_version (version : Z) : Z := 2.

(* @ src/crates/kafka-protocol/src/messages/describe_topic_partitions_request.rs 286-289 DescribeTopicPartitionsRequest::VERSIONS *)
Definition DescribeTopicPartitionsRequest_VERSIONS : Z * Z := (0, 0).

(** ** [describe_topic_partitions_response] *)

(* @ src/crates/kafka-protocol/src/messages/describe_topic_partitions_response.rs 20-36 Cursor *)
Record DescribeTopicPartitionsResponse_Cursor : Type := mkDescribeTopicPartitionsResponse_Cursor {
  DescribeTopicPartitionsResponse_Cursor_topic_name : list byte;
  DescribeTopicPartitionsResponse_Cursor_partition_index : Z;
  DescribeTopicPartitionsResponse_Cursor_unknown_tagged_fields : TaggedFields
}.

(* @ src/crates/kafka-protocol/src/messages/describe_topic_partitions_response.rs 131-139 Cursor::default *)
Definition DescribeTopicPartitionsResponse_Cursor_default : DescribeTopicPartitionsResponse_Cursor := {|
  DescribeTopicPartitionsResponse_Cursor_topic_name := [];
  DescribeTopicPartitionsResponse_Cursor_partition_index := 0;
  DescribeTopicPartitionsResponse_Cursor_unknown_tagged_fields := ∅
|}.

(* @ src/crates/kafka-protocol/src/messages/describe_topic_partitions_response.rs 69-129 Cursor::encode, compute_size, decode *)
Definition DescribeTopicPartitionsResponse_Cursor_codec (version : Z) : Codec
    DescribeTopicPartitionsResponse_Cursor :=
  message 0 0 version (build mkDescribeTopicPartitionsResponse_Cursor
    ⊛ (field DescribeTopicPartitionsResponse_Cursor_topic_name CompactString)
    ⊛ (field DescribeTopicPartitionsResponse_Cursor_partition_index Int32)
    ⊛ unknown_tags true DescribeTopicPartitionsResponse_Cursor_unknown_tagged_fields).

Definition DescribeTopicPartitionsResponse_Cursor_valid (version : Z) (x :
    DescribeTopicPartitionsResponse_Cursor) : Prop :=
  utf8 (DescribeTopicPartitionsResponse_Cursor_topic_name x) ∧
  in_signed 32 (DescribeTopicPartitionsResponse_Cursor_partition_index x) ∧
  unknown_valid 0 (DescribeTopicPartitionsResponse_Cursor_unknown_tagged_fields x).

#[global] Instance DescribeTopicPartitionsResponse_Cursor_sound version : Sound
    (DescribeTopicPartitionsResponse_Cursor_codec version) (DescribeTopicPartitionsResponse_Cursor_valid
    version).
Proof. solve_message. Qed.

(* @ src/crates/kafka-protocol/src/messages/describe_topic_partitions_response.rs 291-342 DescribeTopicPartitionsResponsePartition *)
Record DescribeTopicPartitionsResponsePartition : Type := mkDescribeTopicPartitionsResponsePartition {
  DescribeTopicPartitionsResponsePartition_error_code : Z;
  DescribeTopicPartitionsResponsePartition_partition_index : Z;
  DescribeTopicPartitionsResponsePartition_leader_id : Z;
  DescribeTopicPartitionsResponsePartition_leader_epoch : Z;
  DescribeTopicPartitionsResponsePartition_replica_nodes : list Z;
  DescribeTopicPartitionsResponsePartition_isr_nodes : list Z;
  DescribeTopicPartitionsResponsePartition_eligible_leader_replicas : option (list Z);
  DescribeTopicPartitionsResponsePartition_last_known_elr : option (list Z);
  DescribeTopicPartitionsResponsePartition_offline_replicas : list Z;
  DescribeTopicPartitionsResponsePartition_unknown_tagged_fields : TaggedFields
}.

(* @ src/crates/kafka-protocol/src/messages/describe_topic_partitions_response.rs 529-544 DescribeTopicPartitionsResponsePartition::default *)
Definition DescribeTopicPartitionsResponsePartition_default : DescribeTopicPartitionsResponsePartition := {|
  DescribeTopicPartitionsResponsePartition_error_code := 0;
  DescribeTopicPartitionsResponsePartition_partition_index := 0;
  DescribeTopicPartitionsResponsePartition_leader_id := 0;
  DescribeTopicPartitionsResponsePartition_leader_epoch := -1;
  DescribeTopicPartitionsResponsePartition_replica_nodes := [];
  DescribeTopicPartitionsResponsePartition_isr_nodes := [];
  DescribeTopicPartitionsResponsePartition_eligible_leader_replicas := None;
  DescribeTopicPartitionsResponsePartition_last_known_elr := None;
  DescribeTopicPartitionsResponsePartition_offline_replicas := [];
  DescribeTopicPartitionsResponsePartition_unknown_tagged_fields := ∅
|}.

(* @ src/crates/kafka-protocol/src/messages/describe_topic_partitions_response.rs 438-527 DescribeTopicPartitionsResponsePartition::encode, compute_size, decode *)
Definition DescribeTopicPartitionsResponsePartition_codec (version : Z) : Codec
    DescribeTopicPartitionsResponsePartition :=
  message 0 0 version (build mkDescribeTopicPartitionsResponsePartition
    ⊛ (field DescribeTopicPartitionsResponsePartition_error_code Int16)
    ⊛ (field DescribeTopicPartitionsResponsePartition_partition_index Int32)
    ⊛ (field DescribeTopicPartitionsResponsePartition_leader_id Int32)
    ⊛ (field DescribeTopicPartitionsResponsePartition_leader_epoch Int32)
    ⊛ (field DescribeTopicPartitionsResponsePartition_replica_nodes (CompactArray Int32))
    ⊛ (field DescribeTopicPartitionsResponsePartition_isr_nodes (CompactArray Int32))
    ⊛ (field DescribeTopicPartitionsResponsePartition_eligible_leader_replicas (NullableCompactArray Int32))
    ⊛ (field DescribeTopicPartitionsResponsePartition_last_known_elr (NullableCompactArray Int32))
    ⊛ (field DescribeTopicPartitionsResponsePartition_offline_replicas (CompactArray Int32))
    ⊛ unknown_tags true DescribeTopicPartitionsResponsePartition_unknown_tagged_fields).

Definition DescribeTopicPartitionsResponsePartition_valid (version : Z) (x :
    DescribeTopicPartitionsResponsePartition) : Prop :=
  in_signed 16 (DescribeTopicPartitionsResponsePartition_error_code x) ∧
  in_signed 32 (DescribeTopicPartitionsResponsePartition_partition_index x) ∧
  in_signed 32 (DescribeTopicPartitionsResponsePartition_leader_id x) ∧
  in_signed 32 (DescribeTopicPartitionsResponsePartition_leader_epoch x) ∧
  Forall (in_signed 32) (DescribeTopicPartitionsResponsePartition_replica_nodes x) ∧
  Forall (in_signed 32) (DescribeTopicPartitionsResponsePartition_isr_nodes x) ∧
  opt_all (Forall (in_signed 32)) (DescribeTopicPartitionsResponsePartition_eligible_leader_replicas x) ∧
  opt_all (Forall (in_signed 32)) (DescribeTopicPartitionsResponsePartition_last_known_elr x) ∧
  Forall (in_signed 32) (DescribeTopicPartitionsResponsePartition_offline_replicas x) ∧
  unknown_valid 0 (DescribeTopicPartitionsResponsePartition_unknown_tagged_fields x).

#[global] Instance DescribeTopicPartitionsResponsePartition_sound version : Sound
    (DescribeTopicPartitionsResponsePartition_codec version)
    (DescribeTopicPartitionsResponsePartition_valid version).
Proof. solve_message. Qed.

(* @ src/crates/kafka-protocol/src/messages/describe_topic_partitions_response.rs 551-587 DescribeTopicPartitionsResponseTopic *)
Record DescribeTopicPartitionsResponseTopic : Type := mkDescribeTopicPartitionsResponseTopic {
  DescribeTopicPartitionsResponseTopic_error_code : Z;
  DescribeTopicPartitionsResponseTopic_name : option (list byte);
  DescribeTopicPartitionsResponseTopic_topic_id : Z;
  DescribeTopicPartitionsResponseTopic_is_internal : bool;
  DescribeTopicPartitionsResponseTopic_partitions : list DescribeTopicPartitionsResponsePartition;
  DescribeTopicPartitionsResponseTopic_topic_authorized_operations : Z;
  DescribeTopicPartitionsResponseTopic_unknown_tagged_fields : TaggedFields
}.

(* @ src/crates/kafka-protocol/src/messages/describe_topic_partitions_response.rs 735-747 DescribeTopicPartitionsResponseTopic::default *)
Definition DescribeTopicPartitionsResponseTopic_default : DescribeTopicPartitionsResponseTopic := {|
  DescribeTopicPartitionsResponseTopic_error_code := 0;
  DescribeTopicPartitionsResponseTopic_name := Some [];
  DescribeTopicPartitionsResponseTopic_topic_id := 0;
  DescribeTopicPartitionsResponseTopic_is_internal := false;
  DescribeTopicPartitionsResponseTopic_partitions := [];
  DescribeTopicPartitionsResponseTopic_topic_authorized_operations := -2147483648;
  DescribeTopicPartitionsResponseTopic_unknown_tagged_fields := ∅
|}.

(* @ src/crates/kafka-protocol/src/messages/describe_topic_partitions_response.rs 656-733 DescribeTopicPartitionsResponseTopic::encode, compute_size, decode *)
Definition DescribeTopicPartitionsResponseTopic_codec (version : Z) : Codec
    DescribeTopicPartitionsResponseTopic :=
  message 0 0 version (build mkDescribeTopicPartitionsResponseTopic
    ⊛ (field DescribeTopicPartitionsResponseTopic_error_code Int16)
    ⊛ (field DescribeTopicPartitionsResponseTopic_name NullableCompactString)
    ⊛ (field DescribeTopicPartitionsResponseTopic_topic_id Uuid)
    ⊛ (field DescribeTopicPartitionsResponseTopic_is_internal Boolean)
    ⊛ (field DescribeTopicPartitionsResponseTopic_partitions (CompactArray (Struct
        DescribeTopicPartitionsResponsePartition_codec version)))
    ⊛ (field DescribeTopicPartitionsResponseTopic_topic_authorized_operations Int32)
    ⊛ unknown_tags true DescribeTopicPartitionsResponseTopic_unknown_tagged_fields).

Definition DescribeTopicPartitionsResponseTopic_valid (version : Z) (x :
    DescribeTopicPartitionsResponseTopic) : Prop :=
  in_signed 16 (DescribeTopicPartitionsResponseTopic_error_code x) ∧
  opt_all utf8 (DescribeTopicPartitionsResponseTopic_name x) ∧
  in_unsigned 128 (DescribeTopicPartitionsResponseTopic_topic_id x) ∧
  Forall (DescribeTopicPartitionsResponsePartition_valid version)
      (DescribeTopicPartitionsResponseTopic_partitions x) ∧
  in_signed 32 (DescribeTopicPartitionsResponseTopic_topic_authorized_operations x) ∧
  unknown_valid 0 (DescribeTopicPartitionsResponseTopic_unknown_tagged_fields x).

#[global] Instance DescribeTopicPartitionsResponseTopic_sound version : Sound
    (DescribeTopicPartitionsResponseTopic_codec version) (DescribeTopicPartitionsResponseTopic_valid
    version).
Proof. solve_message. Qed.

(* @ src/crates/kafka-protocol/src/messages/describe_topic_partitions_response.rs 146-167 DescribeTopicPartitionsResponse *)
Record DescribeTopicPartitionsResponse : Type := mkDescribeTopicPartitionsResponse {
  DescribeTopicPartitionsResponse_throttle_time_ms : Z;
  DescribeTopicPartitionsResponse_topics : list DescribeTopicPartitionsResponseTopic;
  DescribeTopicPartitionsResponse_next_cursor : option DescribeTopicPartitionsResponse_Cursor;
  DescribeTopicPartitionsResponse_unknown_tagged_fields : TaggedFields
}.

(* @ src/crates/kafka-protocol/src/messages/describe_topic_partitions_response.rs 275-284 DescribeTopicPartitionsResponse::default *)
Definition DescribeTopicPartitionsResponse_default : DescribeTopicPartitionsResponse := {|
  DescribeTopicPartitionsResponse_throttle_time_ms := 0;
  DescribeTopicPartitionsResponse_topics := [];
  DescribeTopicPartitionsResponse_next_cursor := None;
  DescribeTopicPartitionsResponse_unknown_tagged_fields := ∅
|}.

(* @ src/crates/kafka-protocol/src/messages/describe_topic_partitions_response.rs 209-273 DescribeTopicPartitionsResponse::encode, compute_size, decode *)
Definition DescribeTopicPartitionsResponse_codec (version : Z) : Codec DescribeTopicPartitionsResponse :=
  message 0 0 version (build mkDescribeTopicPartitionsResponse
    ⊛ (field DescribeTopicPartitionsResponse_throttle_time_ms Int32)
    ⊛ (field DescribeTopicPartitionsResponse_topics (CompactArray (Struct
        DescribeTopicPartitionsResponseTopic_codec version)))
    ⊛ (field DescribeTopicPartitionsResponse_next_cursor (OptionStruct
        DescribeTopicPartitionsResponse_Cursor_codec version))
    ⊛ unknown_tags true DescribeTopicPartitionsResponse_unknown_tagged_fields).

Definition DescribeTopicPartitionsResponse_valid (version : Z) (x : DescribeTopicPartitionsResponse) : Prop
    :=
  in_signed 32 (DescribeTopicPartitionsResponse_throttle_time_ms x) ∧
  Forall (DescribeTopicPartitionsResponseTopic_valid version) (DescribeTopicPartitionsResponse_topics x) ∧
  opt_all (DescribeTopicPartitionsResponse_Cursor_valid version)
      (DescribeTopicPartitionsResponse_next_cursor x) ∧
  unknown_valid 0 (DescribeTopicPartitionsResponse_unknown_tagged_fields x).

#[global] Instance DescribeTopicPartitionsResponse_sound version : Sound
    (DescribeTopicPartitionsResponse_codec version) (DescribeTopicPartitionsResponse_valid version).
Proof. solve_message. Qed.

(* @ src/crates/kafka-protocol/src/messages/describe_topic_partitions_response.rs 754-758 DescribeTopicPartitionsResponse::header_version *)
Definition DescribeTopicPartitionsResponse_header_version (version : Z) : Z := 1.

(* @ src/crates/kafka-protocol/src/messages/describe_topic_partitions_response.rs 286-289 DescribeTopicPartitionsResponse::VERSIONS *)
Definition DescribeTopicPartitionsResponse_VERSIONS : Z * Z := (0, 0).

(** ** [fetch_request] *)

(* @ src/crates/kafka-protocol/src/messages/fetch_request.rs 20-66 FetchPartition *)
Record FetchRequest_FetchPartition : Type := mkFetchRequest_FetchPartition {
  FetchRequest_FetchPartition_partition : Z;
  FetchRequest_FetchPartition_current_leader_epoch : Z;
  FetchRequest_FetchPartition_fetch_offset : Z;
  FetchRequest_FetchPartition_last_fetched_epoch : Z;
  FetchRequest_FetchPartition_log_start_offset : Z;
  FetchRequest_FetchPartition_partition_max_bytes : Z;
  FetchRequest_FetchPartition_replica_directory_id : Z;
  FetchRequest_FetchPartition_high_watermark : Z;
  FetchRequest_FetchPartition_unknown_tagged_fields : TaggedFields
}.

(* @ src/crates/kafka-protocol/src/messages/fetch_request.rs 365-379 FetchPartition::default *)
Definition FetchRequest_FetchPartition_default : FetchRequest_FetchPartition := {|
  FetchRequest_FetchPartition_partition := 0;
  FetchRequest_FetchPartition_current_leader_epoch := -1;
  FetchRequest_FetchPartition_fetch_offset := 0;
  FetchRequest_FetchPartition_last_fetched_epoch := -1;
  FetchRequest_FetchPartition_log_start_offset := -1;
  FetchRequest_FetchPartition_partition_max_bytes := 0;
  FetchRequest_FetchPartition_replica_directory_id := 0;
  FetchRequest_FetchPartition_high_watermark := 9223372036854775807;
  FetchRequest_FetchPartition_unknown_tagged_fields := ∅
|}.

(* @ src/crates/kafka-protocol/src/messages/fetch_request.rs 153-363 FetchPartition::encode, compute_size, decode *)
Definition FetchRequest_FetchPartition_codec (version : Z) : Codec FetchRequest_FetchPartition :=
  message 4 18 version (build (λ partition current_leader_epoch fetch_offset last_fetched_epoch
      log_start_offset partition_max_bytes '((replica_directory_id, high_watermark),
      unknown_tagged_fields), mkFetchRequest_FetchPartition partition current_leader_epoch fetch_offset
      last_fetched_epoch log_start_offset partition_max_bytes replica_directory_id high_watermark
      unknown_tagged_fields)
    ⊛ (field FetchRequest_FetchPartition_partition Int32)
    ⊛ (if 9 <=? version then field FetchRequest_FetchPartition_current_leader_epoch Int32 else ignored (-1))
    ⊛ (field FetchRequest_FetchPartition_fetch_offset Int64)
    ⊛ (if 12 <=? version then field FetchRequest_FetchPartition_last_fetched_epoch Int32 else unset
        FetchRequest_FetchPartition_last_fetched_epoch (Z.eqb (-1)) (-1))
    ⊛ (if 5 <=? version then field FetchRequest_FetchPartition_log_start_offset Int64 else ignored (-1))
    ⊛ (field FetchRequest_FetchPartition_partition_max_bytes Int32)
    ⊛ tag_section (12 <=? version) (0, 9223372036854775807) [
       tagged 0 (17 <=? version) FetchRequest_FetchPartition_replica_directory_id (Z.eqb 0) Uuid (λ v '(_,
           high_watermark), (v, high_watermark));
       tagged 1 (18 <=? version) FetchRequest_FetchPartition_high_watermark (Z.eqb 9223372036854775807)
           Int64 (λ v '(replica_directory_id, _), (replica_directory_id, v))] 2
           FetchRequest_FetchPartition_unknown_tagged_fields).

Definition FetchRequest_FetchPartition_valid (version : Z) (x : FetchRequest_FetchPartition) : Prop :=
  in_signed 32 (FetchRequest_FetchPartition_partition x) ∧
  (if 9 <=? version then in_signed 32 (FetchRequest_FetchPartition_current_leader_epoch x) else
      FetchRequest_FetchPartition_current_leader_epoch x = (-1)) ∧
  in_signed 64 (FetchRequest_FetchPartition_fetch_offset x) ∧
  in_signed 32 (FetchRequest_FetchPartition_last_fetched_epoch x) ∧
  (if 5 <=? version then in_signed 64 (FetchRequest_FetchPartition_log_start_offset x) else
      FetchRequest_FetchPartition_log_start_offset x = (-1)) ∧
  in_signed 32 (FetchRequest_FetchPartition_partition_max_bytes x) ∧
  (if (12 <=? version) && (17 <=? version) then in_unsigned 128
      (FetchRequest_FetchPartition_replica_directory_id x) else
      FetchRequest_FetchPartition_replica_directory_id x = 0) ∧
  (if (12 <=? version) && (18 <=? version) then in_signed 64 (FetchRequest_FetchPartition_high_watermark x)
      else FetchRequest_FetchPartition_high_watermark x = 9223372036854775807) ∧
  (if 12 <=? version then unknown_valid 2 (FetchRequest_FetchPartition_unknown_tagged_fields x) else
      FetchRequest_FetchPartition_unknown_tagged_fields x = ∅).

#[global] Instance FetchRequest_FetchPartition_sound version : Sound (FetchRequest_FetchPartition_codec
    version) (FetchRequest_FetchPartition_valid version).
Proof. solve_tagged_message. Qed.

(* @ src/crates/kafka-protocol/src/messages/fetch_request.rs 1281-1297 ReplicaState *)
Record FetchRequest_ReplicaState : Type := mkFetchRequest_ReplicaState {
  FetchRequest_ReplicaState_replica_id : Z;
  FetchRequest_ReplicaState_replica_epoch : Z;
  FetchRequest_ReplicaState_unknown_tagged_fields : TaggedFields
}.

(* @ src/crates/kafka-protocol/src/messages/fetch_request.rs 1430-1438 ReplicaState::default *)
Definition FetchRequest_ReplicaState_default : FetchRequest_ReplicaState := {|
  FetchRequest_ReplicaState_replica_id := -1;
  FetchRequest_ReplicaState_replica_epoch := -1;
  FetchRequest_ReplicaState_unknown_tagged_fields := ∅
|}.

#[global] Instance FetchRequest_ReplicaState_eq_dec : EqDecision FetchRequest_ReplicaState.
Proof. solve_decision. Defined.

(* @ src/crates/kafka-protocol/src/messages/fetch_request.rs 1330-1428 ReplicaState::encode, compute_size, decode *)
Definition FetchRequest_ReplicaState_codec (version : Z) : Codec FetchRequest_ReplicaState :=
  message 4 18 version (build mkFetchRequest_ReplicaState
    ⊛ (if 15 <=? version then field FetchRequest_ReplicaState_replica_id Int32 else unset
        FetchRequest_ReplicaState_replica_id (Z.eqb (-1)) (-1))
    ⊛ (if 15 <=? version then field FetchRequest_ReplicaState_replica_epoch Int64 else unset
        FetchRequest_ReplicaState_replica_epoch (Z.eqb (-1)) (-1))
    ⊛ unknown_tags (12 <=? version) FetchRequest_ReplicaState_unknown_tagged_fields).

Definition FetchRequest_ReplicaState_valid (version : Z) (x : FetchRequest_ReplicaState) : Prop :=
  in_signed 32 (FetchRequest_ReplicaState_replica_id x) ∧
  in_signed 64 (FetchRequest_ReplicaState_replica_epoch x) ∧
  (if 12 <=? version then unknown_valid 0 (FetchRequest_ReplicaState_unknown_tagged_fields x) else
      FetchRequest_ReplicaState_unknown_tagged_fields x = ∅).

#[global] Instance FetchRequest_ReplicaState_sound version : Sound (FetchRequest_ReplicaState_codec
    version) (FetchRequest_ReplicaState_valid version).
Proof. solve_message. Qed.

(* @ src/crates/kafka-protocol/src/messages/fetch_request.rs 882-903 FetchTopic *)
Record FetchRequest_FetchTopic : Type := mkFetchRequest_FetchTopic {
  FetchRequest_FetchTopic_topic : list byte;
  FetchRequest_FetchTopic_topic_id : Z;
  FetchRequest_FetchTopic_partitions : list FetchRequest_FetchPartition;
  FetchRequest_FetchTopic_unknown_tagged_fields : TaggedFields
}.

(* @ src/crates/kafka-protocol/src/messages/fetch_request.rs 1058-1067 FetchTopic::default *)
Definition FetchRequest_FetchTopic_default : FetchRequest_FetchTopic := {|
  FetchRequest_FetchTopic_topic := [];
  FetchRequest_FetchTopic_topic_id := 0;
  FetchRequest_FetchTopic_partitions := [];
  FetchRequest_FetchTopic_unknown_tagged_fields := ∅
|}.

(* @ src/crates/kafka-protocol/src/messages/fetch_request.rs 945-1056 FetchTopic::encode, compute_size, decode *)
Definition FetchRequest_FetchTopic_codec (version : Z) : Codec FetchRequest_FetchTopic :=
  message 4 18 version (build mkFetchRequest_FetchTopic
    ⊛ (if version <=? 12 then field FetchRequest_FetchTopic_topic (if 12 <=? version then CompactString
        else KafkaString) else ignored [])
    ⊛ (if 13 <=? version then field FetchRequest_FetchTopic_topic_id Uuid else ignored 0)
    ⊛ (field FetchRequest_FetchTopic_partitions (if 12 <=? version then CompactArray (Struct
        FetchRequest_FetchPartition_codec version) else Array (Struct FetchRequest_FetchPartition_codec
        version)))
    ⊛ unknown_tags (12 <=? version) FetchRequest_FetchTopic_unknown_tagged_fields).

Definition FetchRequest_FetchTopic_valid (version : Z) (x : FetchRequest_FetchTopic) : Prop :=
  (if version <=? 12 then utf8 (FetchRequest_FetchTopic_topic x) else FetchRequest_FetchTopic_topic x = [])
      ∧
  (if 13 <=? version then in_unsigned 128 (FetchRequest_FetchTopic_topic_id x) else
      FetchRequest_FetchTopic_topic_id x = 0) ∧
  Forall (FetchRequest_FetchPartition_valid version) (FetchRequest_FetchTopic_partitions x) ∧
  (if 12 <=? version then unknown_valid 0 (FetchRequest_FetchTopic_unknown_tagged_fields x) else
      FetchRequest_FetchTopic_unknown_tagged_fields x = ∅).

#[global] Instance FetchRequest_FetchTopic_sound version : Sound (FetchRequest_FetchTopic_codec version)
    (FetchRequest_FetchTopic_valid version).
Proof. solve_message. Qed.

(* @ src/crates/kafka-protocol/src/messages/fetch_request.rs 1074-1095 ForgottenTopic *)
Record FetchRequest_ForgottenTopic : Type := mkFetchRequest_ForgottenTopic {
  FetchRequest_ForgottenTopic_topic : list byte;
  FetchRequest_ForgottenTopic_topic_id : Z;
  FetchRequest_ForgottenTopic_partitions : list Z;
  FetchRequest_ForgottenTopic_unknown_tagged_fields : TaggedFields
}.

(* @ src/crates/kafka-protocol/src/messages/fetch_request.rs 1265-1274 ForgottenTopic::default *)
Definition FetchRequest_ForgottenTopic_default : FetchRequest_ForgottenTopic := {|
  FetchRequest_ForgottenTopic_topic := [];
  FetchRequest_ForgottenTopic_topic_id := 0;
  FetchRequest_ForgottenTopic_partitions := [];
  FetchRequest_ForgottenTopic_unknown_tagged_fields := ∅
|}.

(* @ src/crates/kafka-protocol/src/messages/fetch_request.rs 1137-1263 ForgottenTopic::encode, compute_size, decode *)
Definition FetchRequest_ForgottenTopic_codec (version : Z) : Codec FetchRequest_ForgottenTopic :=
  message 4 18 version (build mkFetchRequest_ForgottenTopic
    ⊛ (if (7 <=? version) && (version <=? 12) then field FetchRequest_ForgottenTopic_topic (if 12 <=?
        version then CompactString else KafkaString) else ignored [])
    ⊛ (if 13 <=? version then field FetchRequest_ForgottenTopic_topic_id Uuid else ignored 0)
    ⊛ (if 7 <=? version then field FetchRequest_ForgottenTopic_partitions (if 12 <=? version then
        CompactArray Int32 else Array Int32) else unset FetchRequest_ForgottenTopic_partitions is_empty [])
    ⊛ unknown_tags (12 <=? version) FetchRequest_ForgottenTopic_unknown_tagged_fields).

Definition FetchRequest_ForgottenTopic_valid (version : Z) (x : FetchRequest_ForgottenTopic) : Prop :=
  (if (7 <=? version) && (version <=? 12) then utf8 (FetchRequest_ForgottenTopic_topic x) else
      FetchRequest_ForgottenTopic_topic x = []) ∧
  (if 13 <=? version then in_unsigned 128 (FetchRequest_ForgottenTopic_topic_id x) else
      FetchRequest_ForgottenTopic_topic_id x = 0) ∧
  Forall (in_signed 32) (FetchRequest_ForgottenTopic_partitions x) ∧
  (if 12 <=? version then unknown_valid 0 (FetchRequest_ForgottenTopic_unknown_tagged_fields x) else
      FetchRequest_ForgottenTopic_unknown_tagged_fields x = ∅).

#[global] Instance FetchRequest_ForgottenTopic_sound version : Sound (FetchRequest_ForgottenTopic_codec
    version) (FetchRequest_ForgottenTopic_valid version).
Proof. solve_message. Qed.

(* @ src/crates/kafka-protocol/src/messages/fetch_request.rs 386-452 FetchRequest *)
Record FetchRequest : Type := mkFetchRequest {
  FetchRequest_cluster_id : option (list byte);
  FetchRequest_replica_id : Z;
  FetchRequest_replica_state : FetchRequest_ReplicaState;
  FetchRequest_max_wait_ms : Z;
  FetchRequest_min_bytes : Z;
  FetchRequest_max_bytes : Z;
  FetchRequest_isolation_level : Z;
  FetchRequest_session_id : Z;
  FetchRequest_session_epoch : Z;
  FetchRequest_topics : list FetchRequest_FetchTopic;
  FetchRequest_forgotten_topics_data : list FetchRequest_ForgottenTopic;
  FetchRequest_rack_id : list byte;
  FetchRequest_unknown_tagged_fields : TaggedFields
}.

(* @ src/crates/kafka-protocol/src/messages/fetch_request.rs 857-875 FetchRequest::default *)
Definition FetchRequest_default : FetchRequest := {|
  FetchRequest_cluster_id := None;
  FetchRequest_replica_id := -1;
  FetchRequest_replica_state := FetchRequest_ReplicaState_default;
  FetchRequest_max_wait_ms := 0;
  FetchRequest_min_bytes := 0;
  FetchRequest_max_bytes := 0x7fffffff;
  FetchRequest_isolation_level := 0;
  FetchRequest_session_id := 0;
  FetchRequest_session_epoch := -1;
  FetchRequest_topics := [];
  FetchRequest_forgotten_topics_data := [];
  FetchRequest_rack_id := [];
  FetchRequest_unknown_tagged_fields := ∅
|}.

(* @ src/crates/kafka-protocol/src/messages/fetch_request.rs 575-855 FetchRequest::encode, compute_size, decode *)
Definition FetchRequest_codec (version : Z) : Codec FetchRequest :=
  message 4 18 version (build (λ replica_id max_wait_ms min_bytes max_bytes isolation_level session_id
      session_epoch topics forgotten_topics_data rack_id '((cluster_id, replica_state),
      unknown_tagged_fields), mkFetchRequest cluster_id replica_id replica_state max_wait_ms min_bytes
      max_bytes isolation_level session_id session_epoch topics forgotten_topics_data rack_id
      unknown_tagged_fields)
    ⊛ (if version <=? 14 then field FetchRequest_replica_id Int32 else unset FetchRequest_replica_id (Z.eqb
        (-1)) (-1))
    ⊛ (field FetchRequest_max_wait_ms Int32)
    ⊛ (field FetchRequest_min_bytes Int32)
    ⊛ (field FetchRequest_max_bytes Int32)
    ⊛ (field FetchRequest_isolation_level Int8)
    ⊛ (if 7 <=? version then field FetchRequest_session_id Int32 else ignored 0)
    ⊛ (if 7 <=? version then field FetchRequest_session_epoch Int32 else ignored (-1))
    ⊛ (field FetchRequest_topics (if 12 <=? version then CompactArray (Struct FetchRequest_FetchTopic_codec
        version) else Array (Struct FetchRequest_FetchTopic_codec version)))
    ⊛ (if 7 <=? version then field FetchRequest_forgotten_topics_data (if 12 <=? version then CompactArray
        (Struct FetchRequest_ForgottenTopic_codec version) else Array (Struct
        FetchRequest_ForgottenTopic_codec version)) else unset FetchRequest_forgotten_topics_data is_empty
        [])
    ⊛ (if 11 <=? version then field FetchRequest_rack_id (if 12 <=? version then CompactString else
        KafkaString) else ignored [])
    ⊛ tag_section (12 <=? version) (None, FetchRequest_ReplicaState_default) [
       tagged 0 true FetchRequest_cluster_id is_none NullableCompactString (λ v '(_, replica_state), (v,
           replica_state));
       tagged 1 (15 <=? version) FetchRequest_replica_state (λ v, bool_decide (v =
           FetchRequest_ReplicaState_default)) (Struct FetchRequest_ReplicaState_codec version) (λ v
           '(cluster_id, _), (cluster_id, v))] 2 FetchRequest_unknown_tagged_fields).

Definition FetchRequest_valid (version : Z) (x : FetchRequest) : Prop :=
  in_signed 32 (FetchRequest_replica_id x) ∧
  in_signed 32 (FetchRequest_max_wait_ms x) ∧
  in_signed 32 (FetchRequest_min_bytes x) ∧
  in_signed 32 (FetchRequest_max_bytes x) ∧
  in_signed 8 (FetchRequest_isolation_level x) ∧
  (if 7 <=? version then in_signed 32 (FetchRequest_session_id x) else FetchRequest_session_id x = 0) ∧
  (if 7 <=? version then in_signed 32 (FetchRequest_session_epoch x) else FetchRequest_session_epoch x =
      (-1)) ∧
  Forall (FetchRequest_FetchTopic_valid version) (FetchRequest_topics x) ∧
  Forall (FetchRequest_ForgottenTopic_valid version) (FetchRequest_forgotten_topics_data x) ∧
  (if 11 <=? version then utf8 (FetchRequest_rack_id x) else FetchRequest_rack_id x = []) ∧
  (if 12 <=? version then opt_all utf8 (FetchRequest_cluster_id x) else FetchRequest_cluster_id x = None) ∧
  (if (12 <=? version) && (15 <=? version) then FetchRequest_ReplicaState_valid version
      (FetchRequest_replica_state x) else FetchRequest_replica_state x = FetchRequest_ReplicaState_default)
      ∧
  (if 12 <=? version then unknown_valid 2 (FetchRequest_unknown_tagged_fields x) else
      FetchRequest_unknown_tagged_fields x = ∅).

#[global] Instance FetchRequest_sound version : Sound (FetchRequest_codec version) (FetchRequest_valid
    version).
Proof. solve_tagged_message. Qed.

(* @ src/crates/kafka-protocol/src/messages/fetch_request.rs 1445-1453 FetchRequest::header_version *)
Definition FetchRequest_header_version (version : Z) : Z := if 12 <=? version then 2 else 1.

(* @ src/crates/kafka-protocol/src/messages/fetch_request.rs 877-880 FetchRequest::VERSIONS *)
Definition FetchRequest_VERSIONS : Z * Z := (4, 18).

(** ** [fetch_response] *)

(* @ src/crates/kafka-protocol/src/messages/fetch_response.rs 20-36 AbortedTransaction *)
Record AbortedTransaction : Type := mkAbortedTransaction {
  AbortedTransaction_producer_id : Z;
  AbortedTransaction_first_offset : Z;
  AbortedTransaction_unknown_tagged_fields : TaggedFields
}.

(* @ src/crates/kafka-protocol/src/messages/fetch_response.rs 137-145 AbortedTransaction::default *)
Definition AbortedTransaction_default : AbortedTransaction := {|
  AbortedTransaction_producer_id := 0;
  AbortedTransaction_first_offset := 0;
  AbortedTransaction_unknown_tagged_fields := ∅
|}.

(* @ src/crates/kafka-protocol/src/messages/fetch_response.rs 69-135 AbortedTransaction::encode, compute_size, decode *)
Definition AbortedTransaction_codec (version : Z) : Codec AbortedTransaction :=
  message 4 18 version (build mkAbortedTransaction
    ⊛ (field AbortedTransaction_producer_id Int64)
    ⊛ (field AbortedTransaction_first_offset Int64)
    ⊛ unknown_tags (12 <=? version) AbortedTransaction_unknown_tagged_fields).

Definition AbortedTransaction_valid (version : Z) (x : AbortedTransaction) : Prop :=
  in_signed 64 (AbortedTransaction_producer_id x) ∧
  in_signed 64 (AbortedTransaction_first_offset x) ∧
  (if 12 <=? version then unknown_valid 0 (AbortedTransaction_unknown_tagged_fields x) else
      AbortedTransaction_unknown_tagged_fields x = ∅).

#[global] Instance AbortedTransaction_sound version : Sound (AbortedTransaction_codec version)
    (AbortedTransaction_valid version).
Proof. solve_message. Qed.

(* @ src/crates/kafka-protocol/src/messages/fetch_response.rs 152-168 EpochEndOffset *)
Record FetchResponse_EpochEndOffset : Type := mkFetchResponse_EpochEndOffset {
  FetchResponse_EpochEndOffset_epoch : Z;
  FetchResponse_EpochEndOffset_end_offset : Z;
  FetchResponse_EpochEndOffset_unknown_tagged_fields : TaggedFields
}.

(* @ src/crates/kafka-protocol/src/messages/fetch_response.rs 301-309 EpochEndOffset::default *)
Definition FetchResponse_EpochEndOffset_default : FetchResponse_EpochEndOffset := {|
  FetchResponse_EpochEndOffset_epoch := -1;
  FetchResponse_EpochEndOffset_end_offset := -1;
  FetchResponse_EpochEndOffset_unknown_tagged_fields := ∅
|}.

#[global] Instance FetchResponse_EpochEndOffset_eq_dec : EqDecision FetchResponse_EpochEndOffset.
Proof. solve_decision. Defined.

(* @ src/crates/kafka-protocol/src/messages/fetch_response.rs 201-299 EpochEndOffset::encode, compute_size, decode *)
Definition FetchResponse_EpochEndOffset_codec (version : Z) : Codec FetchResponse_EpochEndOffset :=
  message 4 18 version (build mkFetchResponse_EpochEndOffset
    ⊛ (if 12 <=? version then field FetchResponse_EpochEndOffset_epoch Int32 else unset
        FetchResponse_EpochEndOffset_epoch (Z.eqb (-1)) (-1))
    ⊛ (if 12 <=? version then field FetchResponse_EpochEndOffset_end_offset Int64 else unset
        FetchResponse_EpochEndOffset_end_offset (Z.eqb (-1)) (-1))
    ⊛ unknown_tags (12 <=? version) FetchResponse_EpochEndOffset_unknown_tagged_fields).

Definition FetchResponse_EpochEndOffset_valid (version : Z) (x : FetchResponse_EpochEndOffset) : Prop :=
  in_signed 32 (FetchResponse_EpochEndOffset_epoch x) ∧
  in_signed 64 (FetchResponse_EpochEndOffset_end_offset x) ∧
  (if 12 <=? version then unknown_valid 0 (FetchResponse_EpochEndOffset_unknown_tagged_fields x) else
      FetchResponse_EpochEndOffset_unknown_tagged_fields x = ∅).

#[global] Instance FetchResponse_EpochEndOffset_sound version : Sound (FetchResponse_EpochEndOffset_codec
    version) (FetchResponse_EpochEndOffset_valid version).
Proof. solve_message. Qed.

(* @ src/crates/kafka-protocol/src/messages/fetch_response.rs 783-799 LeaderIdAndEpoch *)
Record FetchResponse_LeaderIdAndEpoch : Type := mkFetchResponse_LeaderIdAndEpoch {
  FetchResponse_LeaderIdAndEpoch_leader_id : Z;
  FetchResponse_LeaderIdAndEpoch_leader_epoch : Z;
  FetchResponse_LeaderIdAndEpoch_unknown_tagged_fields : TaggedFields
}.

(* @ src/crates/kafka-protocol/src/messages/fetch_response.rs 932-940 LeaderIdAndEpoch::default *)
Definition FetchResponse_LeaderIdAndEpoch_default : FetchResponse_LeaderIdAndEpoch := {|
  FetchResponse_LeaderIdAndEpoch_leader_id := -1;
  FetchResponse_LeaderIdAndEpoch_leader_epoch := -1;
  FetchResponse_LeaderIdAndEpoch_unknown_tagged_fields := ∅
|}.

#[global] Instance FetchResponse_LeaderIdAndEpoch_eq_dec : EqDecision FetchResponse_LeaderIdAndEpoch.
Proof. solve_decision. Defined.

(* @ src/crates/kafka-protocol/src/messages/fetch_response.rs 832-930 LeaderIdAndEpoch::encode, compute_size, decode *)
Definition FetchResponse_LeaderIdAndEpoch_codec (version : Z) : Codec FetchResponse_LeaderIdAndEpoch :=
  message 4 18 version (build mkFetchResponse_LeaderIdAndEpoch
    ⊛ (if 12 <=? version then field FetchResponse_LeaderIdAndEpoch_leader_id Int32 else unset
        FetchResponse_LeaderIdAndEpoch_leader_id (Z.eqb (-1)) (-1))
    ⊛ (if 12 <=? version then field FetchResponse_LeaderIdAndEpoch_leader_epoch Int32 else unset
        FetchResponse_LeaderIdAndEpoch_leader_epoch (Z.eqb (-1)) (-1))
    ⊛ unknown_tags (12 <=? version) FetchResponse_LeaderIdAndEpoch_unknown_tagged_fields).

Definition FetchResponse_LeaderIdAndEpoch_valid (version : Z) (x : FetchResponse_LeaderIdAndEpoch) : Prop :=
  in_signed 32 (FetchResponse_LeaderIdAndEpoch_leader_id x) ∧
  in_signed 32 (FetchResponse_LeaderIdAndEpoch_leader_epoch x) ∧
  (if 12 <=? version then unknown_valid 0 (FetchResponse_LeaderIdAndEpoch_unknown_tagged_fields x) else
      FetchResponse_LeaderIdAndEpoch_unknown_tagged_fields x = ∅).

#[global] Instance FetchResponse_LeaderIdAndEpoch_sound version : Sound
    (FetchResponse_LeaderIdAndEpoch_codec version) (FetchResponse_LeaderIdAndEpoch_valid version).
Proof. solve_message. Qed.

(* @ src/crates/kafka-protocol/src/messages/fetch_response.rs 1634-1650 SnapshotId *)
Record FetchResponse_SnapshotId : Type := mkFetchResponse_SnapshotId {
  FetchResponse_SnapshotId_end_offset : Z;
  FetchResponse_SnapshotId_epoch : Z;
  FetchResponse_SnapshotId_unknown_tagged_fields : TaggedFields
}.

(* @ src/crates/kafka-protocol/src/messages/fetch_response.rs 1751-1759 SnapshotId::default *)
Definition FetchResponse_SnapshotId_default : FetchResponse_SnapshotId := {|
  FetchResponse_SnapshotId_end_offset := -1;
  FetchResponse_SnapshotId_epoch := -1;
  FetchResponse_SnapshotId_unknown_tagged_fields := ∅
|}.

#[global] Instance FetchResponse_SnapshotId_eq_dec : EqDecision FetchResponse_SnapshotId.
Proof. solve_decision. Defined.

(* @ src/crates/kafka-protocol/src/messages/fetch_response.rs 1683-1749 SnapshotId::encode, compute_size, decode *)
Definition FetchResponse_SnapshotId_codec (version : Z) : Codec FetchResponse_SnapshotId :=
  message 4 18 version (build mkFetchResponse_SnapshotId
    ⊛ (field FetchResponse_SnapshotId_end_offset Int64)
    ⊛ (field FetchResponse_SnapshotId_epoch Int32)
    ⊛ unknown_tags (12 <=? version) FetchResponse_SnapshotId_unknown_tagged_fields).

Definition FetchResponse_SnapshotId_valid (version : Z) (x : FetchResponse_SnapshotId) : Prop :=
  in_signed 64 (FetchResponse_SnapshotId_end_offset x) ∧
  in_signed 32 (FetchResponse_SnapshotId_epoch x) ∧
  (if 12 <=? version then unknown_valid 0 (FetchResponse_SnapshotId_unknown_tagged_fields x) else
      FetchResponse_SnapshotId_unknown_tagged_fields x = ∅).

#[global] Instance FetchResponse_SnapshotId_sound version : Sound (FetchResponse_SnapshotId_codec version)
    (FetchResponse_SnapshotId_valid version).
Proof. solve_message. Qed.

(* @ src/crates/kafka-protocol/src/messages/fetch_response.rs 1181-1242 PartitionData *)
Record FetchResponse_PartitionData : Type := mkFetchResponse_PartitionData {
  FetchResponse_PartitionData_partition_index : Z;
  FetchResponse_PartitionData_error_code : Z;
  FetchResponse_PartitionData_high_watermark : Z;
  FetchResponse_PartitionData_last_stable_offset : Z;
  FetchResponse_PartitionData_log_start_offset : Z;
  FetchResponse_PartitionData_diverging_epoch : FetchResponse_EpochEndOffset;
  FetchResponse_PartitionData_current_leader : FetchResponse_LeaderIdAndEpoch;
  FetchResponse_PartitionData_snapshot_id : FetchResponse_SnapshotId;
  FetchResponse_PartitionData_aborted_transactions : option (list AbortedTransaction);
  FetchResponse_PartitionData_preferred_read_replica : Z;
  FetchResponse_PartitionData_records : option (list byte);
  FetchResponse_PartitionData_unknown_tagged_fields : TaggedFields
}.

(* @ src/crates/kafka-protocol/src/messages/fetch_response.rs 1610-1627 PartitionData::default *)
Definition FetchResponse_PartitionData_default : FetchResponse_PartitionData := {|
  FetchResponse_PartitionData_partition_index := 0;
  FetchResponse_PartitionData_error_code := 0;
  FetchResponse_PartitionData_high_watermark := 0;
  FetchResponse_PartitionData_last_stable_offset := -1;
  FetchResponse_PartitionData_log_start_offset := -1;
  FetchResponse_PartitionData_diverging_epoch := FetchResponse_EpochEndOffset_default;
  FetchResponse_PartitionData_current_leader := FetchResponse_LeaderIdAndEpoch_default;
  FetchResponse_PartitionData_snapshot_id := FetchResponse_SnapshotId_default;
  FetchResponse_PartitionData_aborted_transactions := Some [];
  FetchResponse_PartitionData_preferred_read_replica := -1;
  FetchResponse_PartitionData_records := Some [];
  FetchResponse_PartitionData_unknown_tagged_fields := ∅
|}.

(* @ src/crates/kafka-protocol/src/messages/fetch_response.rs 1356-1608 PartitionData::encode, compute_size, decode *)
Definition FetchResponse_PartitionData_codec (version : Z) : Codec FetchResponse_PartitionData :=
  message 4 18 version (build (λ partition_index error_code high_watermark last_stable_offset
      log_start_offset aborted_transactions preferred_read_replica records '((diverging_epoch,
      current_leader, snapshot_id), unknown_tagged_fields), mkFetchResponse_PartitionData partition_index
      error_code high_watermark last_stable_offset log_start_offset diverging_epoch current_leader
      snapshot_id aborted_transactions preferred_read_replica records unknown_tagged_fields)
    ⊛ (field FetchResponse_PartitionData_partition_index Int32)
    ⊛ (field FetchResponse_PartitionData_error_code Int16)
    ⊛ (field FetchResponse_PartitionData_high_watermark Int64)
    ⊛ (field FetchResponse_PartitionData_last_stable_offset Int64)
    ⊛ (if 5 <=? version then field FetchResponse_PartitionData_log_start_offset Int64 else ignored (-1))
    ⊛ (field FetchResponse_PartitionData_aborted_transactions (if 12 <=? version then NullableCompactArray
        (Struct AbortedTransaction_codec version) else NullableArray (Struct AbortedTransaction_codec
        version)))
    ⊛ (if 11 <=? version then field FetchResponse_PartitionData_preferred_read_replica Int32 else unset
        FetchResponse_PartitionData_preferred_read_replica (Z.eqb (-1)) (-1))
    ⊛ (field FetchResponse_PartitionData_records (if 12 <=? version then NullableCompactBytes else
        NullableBytes))
    ⊛ tag_section (12 <=? version) (FetchResponse_EpochEndOffset_default,
        FetchResponse_LeaderIdAndEpoch_default, FetchResponse_SnapshotId_default) [
       tagged 0 true FetchResponse_PartitionData_diverging_epoch (λ v, bool_decide (v =
           FetchResponse_EpochEndOffset_default)) (Struct FetchResponse_EpochEndOffset_codec version) (λ v
           '(_, current_leader, snapshot_id), (v, current_leader, snapshot_id));
       tagged 1 true FetchResponse_PartitionData_current_leader (λ v, bool_decide (v =
           FetchResponse_LeaderIdAndEpoch_default)) (Struct FetchResponse_LeaderIdAndEpoch_codec version)
           (λ v '(diverging_epoch, _, snapshot_id), (diverging_epoch, v, snapshot_id));
       tagged 2 true FetchResponse_PartitionData_snapshot_id (λ v, bool_decide (v =
           FetchResponse_SnapshotId_default)) (Struct FetchResponse_SnapshotId_codec version) (λ v
           '(diverging_epoch, current_leader, _), (diverging_epoch, current_leader, v))] 3
           FetchResponse_PartitionData_unknown_tagged_fields).

Definition FetchResponse_PartitionData_valid (version : Z) (x : FetchResponse_PartitionData) : Prop :=
  in_signed 32 (FetchResponse_PartitionData_partition_index x) ∧
  in_signed 16 (FetchResponse_PartitionData_error_code x) ∧
  in_signed 64 (FetchResponse_PartitionData_high_watermark x) ∧
  in_signed 64 (FetchResponse_PartitionData_last_stable_offset x) ∧
  (if 5 <=? version then in_signed 64 (FetchResponse_PartitionData_log_start_offset x) else
      FetchResponse_PartitionData_log_start_offset x = (-1)) ∧
  opt_all (Forall (AbortedTransaction_valid version)) (FetchResponse_PartitionData_aborted_transactions x) ∧
  in_signed 32 (FetchResponse_PartitionData_preferred_read_replica x) ∧
  (if 12 <=? version then FetchResponse_EpochEndOffset_valid version
      (FetchResponse_PartitionData_diverging_epoch x) else FetchResponse_PartitionData_diverging_epoch x =
      FetchResponse_EpochEndOffset_default) ∧
  (if 12 <=? version then FetchResponse_LeaderIdAndEpoch_valid version
      (FetchResponse_PartitionData_current_leader x) else FetchResponse_PartitionData_current_leader x =
      FetchResponse_LeaderIdAndEpoch_default) ∧
  (if 12 <=? version then FetchResponse_SnapshotId_valid version (FetchResponse_PartitionData_snapshot_id
      x) else FetchResponse_PartitionData_snapshot_id x = FetchResponse_SnapshotId_default) ∧
  (if 12 <=? version then unknown_valid 3 (FetchResponse_PartitionData_unknown_tagged_fields x) else
      FetchResponse_PartitionData_unknown_tagged_fields x = ∅).

#[global] Instance FetchResponse_PartitionData_sound version : Sound (FetchResponse_PartitionData_codec
    version) (FetchResponse_PartitionData_valid version).
Proof. solve_tagged_message. Qed.

(* @ src/crates/kafka-protocol/src/messages/fetch_response.rs 591-612 FetchableTopicResponse *)
Record FetchableTopicResponse : Type := mkFetchableTopicResponse {
  FetchableTopicResponse_topic : list byte;
  FetchableTopicResponse_topic_id : Z;
  FetchableTopicResponse_partitions : list FetchResponse_PartitionData;
  FetchableTopicResponse_unknown_tagged_fields : TaggedFields
}.

(* @ src/crates/kafka-protocol/src/messages/fetch_response.rs 767-776 FetchableTopicResponse::default *)
Definition FetchableTopicResponse_default : FetchableTopicResponse := {|
  FetchableTopicResponse_topic := [];
  FetchableTopicResponse_topic_id := 0;
  FetchableTopicResponse_partitions := [];
  FetchableTopicResponse_unknown_tagged_fields := ∅
|}.

(* @ src/crates/kafka-protocol/src/messages/fetch_response.rs 654-765 FetchableTopicResponse::encode, compute_size, decode *)
Definition FetchableTopicResponse_codec (version : Z) : Codec FetchableTopicResponse :=
  message 4 18 version (build mkFetchableTopicResponse
    ⊛ (if version <=? 12 then field FetchableTopicResponse_topic (if 12 <=? version then CompactString else
        KafkaString) else ignored [])
    ⊛ (if 13 <=? version then field FetchableTopicResponse_topic_id Uuid else ignored 0)
    ⊛ (field FetchableTopicResponse_partitions (if 12 <=? version then CompactArray (Struct
        FetchResponse_PartitionData_codec version) else Array (Struct FetchResponse_PartitionData_codec
        version)))
    ⊛ unknown_tags (12 <=? version) FetchableTopicResponse_unknown_tagged_fields).

Definition FetchableTopicResponse_valid (version : Z) (x : FetchableTopicResponse) : Prop :=
  (if version <=? 12 then utf8 (FetchableTopicResponse_topic x) else FetchableTopicResponse_topic x = []) ∧
  (if 13 <=? version then in_unsigned 128 (FetchableTopicResponse_topic_id x) else
      FetchableTopicResponse_topic_id x = 0) ∧
  Forall (FetchResponse_PartitionData_valid version) (FetchableTopicResponse_partitions x) ∧
  (if 12 <=? version then unknown_valid 0 (FetchableTopicResponse_unknown_tagged_fields x) else
      FetchableTopicResponse_unknown_tagged_fields x = ∅).

#[global] Instance FetchableTopicResponse_sound version : Sound (FetchableTopicResponse_codec version)
    (FetchableTopicResponse_valid version).
Proof. solve_message. Qed.

(* @ src/crates/kafka-protocol/src/messages/fetch_response.rs 947-973 NodeEndpoint *)
Record FetchResponse_NodeEndpoint : Type := mkFetchResponse_NodeEndpoint {
  FetchResponse_NodeEndpoint_node_id : Z;
  FetchResponse_NodeEndpoint_host : list byte;
  FetchResponse_NodeEndpoint_port : Z;
  FetchResponse_NodeEndpoint_rack : option (list byte);
  FetchResponse_NodeEndpoint_unknown_tagged_fields : TaggedFields
}.

(* @ src/crates/kafka-protocol/src/messages/fetch_response.rs 1164-1174 NodeEndpoint::default *)
Definition FetchResponse_NodeEndpoint_default : FetchResponse_NodeEndpoint := {|
  FetchResponse_NodeEndpoint_node_id := 0;
  FetchResponse_NodeEndpoint_host := [];
  FetchResponse_NodeEndpoint_port := 0;
  FetchResponse_NodeEndpoint_rack := None;
  FetchResponse_NodeEndpoint_unknown_tagged_fields := ∅
|}.

(* @ src/crates/kafka-protocol/src/messages/fetch_response.rs 1024-1162 NodeEndpoint::encode, compute_size, decode *)
Definition FetchResponse_NodeEndpoint_codec (version : Z) : Codec FetchResponse_NodeEndpoint :=
  message 4 18 version (build mkFetchResponse_NodeEndpoint
    ⊛ (if 16 <=? version then field FetchResponse_NodeEndpoint_node_id Int32 else unset
        FetchResponse_NodeEndpoint_node_id (Z.eqb 0) 0)
    ⊛ (if 16 <=? version then field FetchResponse_NodeEndpoint_host CompactString else unset
        FetchResponse_NodeEndpoint_host is_empty [])
    ⊛ (if 16 <=? version then field FetchResponse_NodeEndpoint_port Int32 else unset
        FetchResponse_NodeEndpoint_port (Z.eqb 0) 0)
    ⊛ (if 16 <=? version then field FetchResponse_NodeEndpoint_rack NullableCompactString else unset
        FetchResponse_NodeEndpoint_rack is_none None)
    ⊛ unknown_tags (12 <=? version) FetchResponse_NodeEndpoint_unknown_tagged_fields).

Definition FetchResponse_NodeEndpoint_valid (version : Z) (x : FetchResponse_NodeEndpoint) : Prop :=
  in_signed 32 (FetchResponse_NodeEndpoint_node_id x) ∧
  utf8 (FetchResponse_NodeEndpoint_host x) ∧
  in_signed 32 (FetchResponse_NodeEndpoint_port x) ∧
  opt_all utf8 (FetchResponse_NodeEndpoint_rack x) ∧
  (if 12 <=? version then unknown_valid 0 (FetchResponse_NodeEndpoint_unknown_tagged_fields x) else
      FetchResponse_NodeEndpoint_unknown_tagged_fields x = ∅).

#[global] Instance FetchResponse_NodeEndpoint_sound version : Sound (FetchResponse_NodeEndpoint_codec
    version) (FetchResponse_NodeEndpoint_valid version).
Proof. solve_message. Qed.

(* @ src/crates/kafka-protocol/src/messages/fetch_response.rs 316-347 FetchResponse *)
Record FetchResponse : Type := mkFetchResponse {
  FetchResponse_throttle_time_ms : Z;
  FetchResponse_error_code : Z;
  FetchResponse_session_id : Z;
  FetchResponse_responses : list FetchableTopicResponse;
  FetchResponse_node_endpoints : list FetchResponse_NodeEndpoint;
  FetchResponse_unknown_tagged_fields : TaggedFields
}.

(* @ src/crates/kafka-protocol/src/messages/fetch_response.rs 573-584 FetchResponse::default *)
Definition FetchResponse_default : FetchResponse := {|
  FetchResponse_throttle_time_ms := 0;
  FetchResponse_error_code := 0;
  FetchResponse_session_id := 0;
  FetchResponse_responses := [];
  FetchResponse_node_endpoints := [];
  FetchResponse_unknown_tagged_fields := ∅
|}.

(* @ src/crates/kafka-protocol/src/messages/fetch_response.rs 407-571 FetchResponse::encode, compute_size, decode *)
Definition FetchResponse_codec (version : Z) : Codec FetchResponse :=
  message 4 18 version (build (λ throttle_time_ms error_code session_id responses '(node_endpoints,
      unknown_tagged_fields), mkFetchResponse throttle_time_ms error_code session_id responses
      node_endpoints unknown_tagged_fields)
    ⊛ (field FetchResponse_throttle_time_ms Int32)
    ⊛ (if 7 <=? version then field FetchResponse_error_code Int16 else ignored 0)
    ⊛ (if 7 <=? version then field FetchResponse_session_id Int32 else unset FetchResponse_session_id
        (Z.eqb 0) 0)
    ⊛ (field FetchResponse_responses (if 12 <=? version then CompactArray (Struct
        FetchableTopicResponse_codec version) else Array (Struct FetchableTopicResponse_codec version)))
    ⊛ tag_section (12 <=? version) [] [
       tagged 0 (16 <=? version) FetchResponse_node_endpoints is_empty (CompactArray (Struct
           FetchResponse_NodeEndpoint_codec version)) (λ v _, v)] 1 FetchResponse_unknown_tagged_fields).

Definition FetchResponse_valid (version : Z) (x : FetchResponse) : Prop :=
  in_signed 32 (FetchResponse_throttle_time_ms x) ∧
  (if 7 <=? version then in_signed 16 (FetchResponse_error_code x) else FetchResponse_error_code x = 0) ∧
  in_signed 32 (FetchResponse_session_id x) ∧
  Forall (FetchableTopicResponse_valid version) (FetchResponse_responses x) ∧
  (if (12 <=? version) && (16 <=? version) then Forall (FetchResponse_NodeEndpoint_valid version)
      (FetchResponse_node_endpoints x) else FetchResponse_node_endpoints x = []) ∧
  (if 12 <=? version then unknown_valid 1 (FetchResponse_unknown_tagged_fields x) else
      FetchResponse_unknown_tagged_fields x = ∅).

#[global] Instance FetchResponse_sound version : Sound (FetchResponse_codec version) (FetchResponse_valid
    version).
Proof. solve_tagged_message. Qed.

(* @ src/crates/kafka-protocol/src/messages/fetch_response.rs 1766-1774 FetchResponse::header_version *)
Definition FetchResponse_header_version (version : Z) : Z := if 12 <=? version then 1 else 0.

(* @ src/crates/kafka-protocol/src/messages/fetch_response.rs 586-589 FetchResponse::VERSIONS *)
Definition FetchResponse_VERSIONS : Z * Z := (4, 18).

(** ** [init_producer_id_request] *)

(* @ src/crates/kafka-protocol/src/messages/init_producer_id_request.rs 20-56 InitProducerIdRequest *)
Record InitProducerIdRequest : Type := mkInitProducerIdRequest {
  InitProducerIdRequest_transactional_id : option (list byte);
  InitProducerIdRequest_transaction_timeout_ms : Z;
  InitProducerIdRequest_producer_id : Z;
  InitProducerIdRequest_producer_epoch : Z;
  InitProducerIdRequest_enable_2_pc : bool;
  InitProducerIdRequest_keep_prepared_txn : bool;
  InitProducerIdRequest_unknown_tagged_fields : TaggedFields
}.

(* @ src/crates/kafka-protocol/src/messages/init_producer_id_request.rs 285-297 InitProducerIdRequest::default *)
Definition InitProducerIdRequest_default : InitProducerIdRequest := {|
  InitProducerIdRequest_transactional_id := Some [];
  InitProducerIdRequest_transaction_timeout_ms := 0;
  InitProducerIdRequest_producer_id := -1;
  InitProducerIdRequest_producer_epoch := -1;
  InitProducerIdRequest_enable_2_pc := false;
  InitProducerIdRequest_keep_prepared_txn := false;
  InitProducerIdRequest_unknown_tagged_fields := ∅
|}.

(* @ src/crates/kafka-protocol/src/messages/init_producer_id_request.rs 125-283 InitProducerIdRequest::encode, compute_size, decode *)
Definition InitProducerIdRequest_codec (version : Z) : Codec InitProducerIdRequest :=
  message 0 6 version (build mkInitProducerIdRequest
    ⊛ (field InitProducerIdRequest_transactional_id (if 2 <=? version then NullableCompactString else
        NullableString))
    ⊛ (field InitProducerIdRequest_transaction_timeout_ms Int32)
    ⊛ (if 3 <=? version then field InitProducerIdRequest_producer_id Int64 else unset
        InitProducerIdRequest_producer_id (Z.eqb (-1)) (-1))
    ⊛ (if 3 <=? version then field InitProducerIdRequest_producer_epoch Int16 else unset
        InitProducerIdRequest_producer_epoch (Z.eqb (-1)) (-1))
    ⊛ (if 6 <=? version then field InitProducerIdRequest_enable_2_pc Boolean else unset
        InitProducerIdRequest_enable_2_pc negb false)
    ⊛ (if 6 <=? version then field InitProducerIdRequest_keep_prepared_txn Boolean else unset
        InitProducerIdRequest_keep_prepared_txn negb false)
    ⊛ unknown_tags (2 <=? version) InitProducerIdRequest_unknown_tagged_fields).

Definition InitProducerIdRequest_valid (version : Z) (x : InitProducerIdRequest) : Prop :=
  opt_all utf8 (InitProducerIdRequest_transactional_id x) ∧
  in_signed 32 (InitProducerIdRequest_transaction_timeout_ms x) ∧
  in_signed 64 (InitProducerIdRequest_producer_id x) ∧
  in_signed 16 (InitProducerIdRequest_producer_epoch x) ∧
  (if 2 <=? version then unknown_valid 0 (InitProducerIdRequest_unknown_tagged_fields x) else
      InitProducerIdRequest_unknown_tagged_fields x = ∅).

#[global] Instance InitProducerIdRequest_sound version : Sound (InitProducerIdRequest_codec version)
    (InitProducerIdRequest_valid version).
Proof. solve_message. Qed.

(* @ src/crates/kafka-protocol/src/messages/init_producer_id_request.rs 304-312 InitProducerIdRequest::header_version *)
Definition InitProducerIdRequest_header_version (version : Z) : Z := if 2 <=? version then 2 else 1.

(* @ src/crates/kafka-protocol/src/messages/init_producer_id_request.rs 299-302 InitProducerIdRequest::VERSIONS *)
Definition InitProducerIdRequest_VERSIONS : Z * Z := (0, 6).

(** ** [init_producer_id_response] *)

(* @ src/crates/kafka-protocol/src/messages/init_producer_id_response.rs 20-56 InitProducerIdResponse *)
Record InitProducerIdResponse : Type := mkInitProducerIdResponse {
  InitProducerIdResponse_throttle_time_ms : Z;
  InitProducerIdResponse_error_code : Z;
  InitProducerIdResponse_producer_id : Z;
  InitProducerIdResponse_producer_epoch : Z;
  InitProducerIdResponse_ongoing_txn_producer_id : Z;
  InitProducerIdResponse_ongoing_txn_producer_epoch : Z;
  InitProducerIdResponse_unknown_tagged_fields : TaggedFields
}.

(* @ src/crates/kafka-protocol/src/messages/init_producer_id_response.rs 241-253 InitProducerIdResponse::default *)
Definition InitProducerIdResponse_default : InitProducerIdResponse := {|
  InitProducerIdResponse_throttle_time_ms := 0;
  InitProducerIdResponse_error_code := 0;
  InitProducerIdResponse_producer_id := -1;
  InitProducerIdResponse_producer_epoch := 0;
  InitProducerIdResponse_ongoing_txn_producer_id := -1;
  InitProducerIdResponse_ongoing_txn_producer_epoch := -1;
  InitProducerIdResponse_unknown_tagged_fields := ∅
|}.

(* @ src/crates/kafka-protocol/src/messages/init_producer_id_response.rs 125-239 InitProducerIdResponse::encode, compute_size, decode *)
Definition InitProducerIdResponse_codec (version : Z) : Codec InitProducerIdResponse :=
  message 0 6 version (build mkInitProducerIdResponse
    ⊛ (field InitProducerIdResponse_throttle_time_ms Int32)
    ⊛ (field InitProducerIdResponse_error_code Int16)
    ⊛ (field InitProducerIdResponse_producer_id Int64)
    ⊛ (field InitProducerIdResponse_producer_epoch Int16)
    ⊛ (if 6 <=? version then field InitProducerIdResponse_ongoing_txn_producer_id Int64 else unset
        InitProducerIdResponse_ongoing_txn_producer_id (Z.eqb (-1)) (-1))
    ⊛ (if 6 <=? version then field InitProducerIdResponse_ongoing_txn_producer_epoch Int16 else unset
        InitProducerIdResponse_ongoing_txn_producer_epoch (Z.eqb (-1)) (-1))
    ⊛ unknown_tags (2 <=? version) InitProducerIdResponse_unknown_tagged_fields).

Definition InitProducerIdResponse_valid (version : Z) (x : InitProducerIdResponse) : Prop :=
  in_signed 32 (InitProducerIdResponse_throttle_time_ms x) ∧
  in_signed 16 (InitProducerIdResponse_error_code x) ∧
  in_signed 64 (InitProducerIdResponse_producer_id x) ∧
  in_signed 16 (InitProducerIdResponse_producer_epoch x) ∧
  in_signed 64 (InitProducerIdResponse_ongoing_txn_producer_id x) ∧
  in_signed 16 (InitProducerIdResponse_ongoing_txn_producer_epoch x) ∧
  (if 2 <=? version then unknown_valid 0 (InitProducerIdResponse_unknown_tagged_fields x) else
      InitProducerIdResponse_unknown_tagged_fields x = ∅).

#[global] Instance InitProducerIdResponse_sound version : Sound (InitProducerIdResponse_codec version)
    (InitProducerIdResponse_valid version).
Proof. solve_message. Qed.

(* @ src/crates/kafka-protocol/src/messages/init_producer_id_response.rs 260-268 InitProducerIdResponse::header_version *)
Definition InitProducerIdResponse_header_version (version : Z) : Z := if 2 <=? version then 1 else 0.

(* @ src/crates/kafka-protocol/src/messages/init_producer_id_response.rs 255-258 InitProducerIdResponse::VERSIONS *)
Definition InitProducerIdResponse_VERSIONS : Z * Z := (0, 6).

(** ** [list_offsets_request] *)

(* @ src/crates/kafka-protocol/src/messages/list_offsets_request.rs 20-41 ListOffsetsPartition *)
Record ListOffsetsPartition : Type := mkListOffsetsPartition {
  ListOffsetsPartition_partition_index : Z;
  ListOffsetsPartition_current_leader_epoch : Z;
  ListOffsetsPartition_timestamp : Z;
  ListOffsetsPartition_unknown_tagged_fields : TaggedFields
}.

(* @ src/crates/kafka-protocol/src/messages/list_offsets_request.rs 163-172 ListOffsetsPartition::default *)
Definition ListOffsetsPartition_default : ListOffsetsPartition := {|
  ListOffsetsPartition_partition_index := 0;
  ListOffsetsPartition_current_leader_epoch := -1;
  ListOffsetsPartition_timestamp := 0;
  ListOffsetsPartition_unknown_tagged_fields := ∅
|}.

(* @ src/crates/kafka-protocol/src/messages/list_offsets_request.rs 83-161 ListOffsetsPartition::encode, compute_size, decode *)
Definition ListOffsetsPartition_codec (version : Z) : Codec ListOffsetsPartition :=
  message 1 11 version (build mkListOffsetsPartition
    ⊛ (field ListOffsetsPartition_partition_index Int32)
    ⊛ (if 4 <=? version then field ListOffsetsPartition_current_leader_epoch Int32 else ignored (-1))
    ⊛ (field ListOffsetsPartition_timestamp Int64)
    ⊛ unknown_tags (6 <=? version) ListOffsetsPartition_unknown_tagged_fields).

Definition ListOffsetsPartition_valid (version : Z) (x : ListOffsetsPartition) : Prop :=
  in_signed 32 (ListOffsetsPartition_partition_index x) ∧
  (if 4 <=? version then in_signed 32 (ListOffsetsPartition_current_leader_epoch x) else
      ListOffsetsPartition_current_leader_epoch x = (-1)) ∧
  in_signed 64 (ListOffsetsPartition_timestamp x) ∧
  (if 6 <=? version then unknown_valid 0 (ListOffsetsPartition_unknown_tagged_fields x) else
      ListOffsetsPartition_unknown_tagged_fields x = ∅).

#[global] Instance ListOffsetsPartition_sound version : Sound (ListOffsetsPartition_codec version)
    (ListOffsetsPartition_valid version).
Proof. solve_message. Qed.

(* @ src/crates/kafka-protocol/src/messages/list_offsets_request.rs 386-402 ListOffsetsTopic *)
Record ListOffsetsTopic : Type := mkListOffsetsTopic {
  ListOffsetsTopic_name : list byte;
  ListOffsetsTopic_partitions : list ListOffsetsPartition;
  ListOffsetsTopic_unknown_tagged_fields : TaggedFields
}.

(* @ src/crates/kafka-protocol/src/messages/list_offsets_request.rs 528-536 ListOffsetsTopic::default *)
Definition ListOffsetsTopic_default : ListOffsetsTopic := {|
  ListOffsetsTopic_name := [];
  ListOffsetsTopic_partitions := [];
  ListOffsetsTopic_unknown_tagged_fields := ∅
|}.

(* @ src/crates/kafka-protocol/src/messages/list_offsets_request.rs 435-526 ListOffsetsTopic::encode, compute_size, decode *)
Definition ListOffsetsTopic_codec (version : Z) : Codec ListOffsetsTopic :=
  message 1 11 version (build mkListOffsetsTopic
    ⊛ (field ListOffsetsTopic_name (if 6 <=? version then CompactString else KafkaString))
    ⊛ (field ListOffsetsTopic_partitions (if 6 <=? version then CompactArray (Struct
        ListOffsetsPartition_codec version) else Array (Struct ListOffsetsPartition_codec version)))
    ⊛ unknown_tags (6 <=? version) ListOffsetsTopic_unknown_tagged_fields).

Definition ListOffsetsTopic_valid (version : Z) (x : ListOffsetsTopic) : Prop :=
  utf8 (ListOffsetsTopic_name x) ∧
  Forall (ListOffsetsPartition_valid version) (ListOffsetsTopic_partitions x) ∧
  (if 6 <=? version then unknown_valid 0 (ListOffsetsTopic_unknown_tagged_fields x) else
      ListOffsetsTopic_unknown_tagged_fields x = ∅).

#[global] Instance ListOffsetsTopic_sound version : Sound (ListOffsetsTopic_codec version)
    (ListOffsetsTopic_valid version).
Proof. solve_message. Qed.

(* @ src/crates/kafka-protocol/src/messages/list_offsets_request.rs 179-205 ListOffsetsRequest *)
Record ListOffsetsRequest : Type := mkListOffsetsRequest {
  ListOffsetsRequest_replica_id : Z;
  ListOffsetsRequest_isolation_level : Z;
  ListOffsetsRequest_topics : list ListOffsetsTopic;
  ListOffsetsRequest_timeout_ms : Z;
  ListOffsetsRequest_unknown_tagged_fields : TaggedFields
}.

(* @ src/crates/kafka-protocol/src/messages/list_offsets_request.rs 369-379 ListOffsetsRequest::default *)
Definition ListOffsetsRequest_default : ListOffsetsRequest := {|
  ListOffsetsRequest_replica_id := 0;
  ListOffsetsRequest_isolation_level := 0;
  ListOffsetsRequest_topics := [];
  ListOffsetsRequest_timeout_ms := 0;
  ListOffsetsRequest_unknown_tagged_fields := ∅
|}.

(* @ src/crates/kafka-protocol/src/messages/list_offsets_request.rs 256-367 ListOffsetsRequest::encode, compute_size, decode *)
Definition ListOffsetsRequest_codec (version : Z) : Codec ListOffsetsRequest :=
  message 1 11 version (build mkListOffsetsRequest
    ⊛ (field ListOffsetsRequest_replica_id Int32)
    ⊛ (if 2 <=? version then field ListOffsetsRequest_isolation_level Int8 else unset
        ListOffsetsRequest_isolation_level (Z.eqb 0) 0)
    ⊛ (field ListOffsetsRequest_topics (if 6 <=? version then CompactArray (Struct ListOffsetsTopic_codec
        version) else Array (Struct ListOffsetsTopic_codec version)))
    ⊛ (if 10 <=? version then field ListOffsetsRequest_timeout_ms Int32 else ignored 0)
    ⊛ unknown_tags (6 <=? version) ListOffsetsRequest_unknown_tagged_fields).

Definition ListOffsetsRequest_valid (version : Z) (x : ListOffsetsRequest) : Prop :=
  in_signed 32 (ListOffsetsRequest_replica_id x) ∧
  in_signed 8 (ListOffsetsRequest_isolation_level x) ∧
  Forall (ListOffsetsTopic_valid version) (ListOffsetsRequest_topics x) ∧
  (if 10 <=? version then in_signed 32 (ListOffsetsRequest_timeout_ms x) else ListOffsetsRequest_timeout_ms
      x = 0) ∧
  (if 6 <=? version then unknown_valid 0 (ListOffsetsRequest_unknown_tagged_fields x) else
      ListOffsetsRequest_unknown_tagged_fields x = ∅).

#[global] Instance ListOffsetsRequest_sound version : Sound (ListOffsetsRequest_codec version)
    (ListOffsetsRequest_valid version).
Proof. solve_message. Qed.

(* @ src/crates/kafka-protocol/src/messages/list_offsets_request.rs 543-551 ListOffsetsRequest::header_version *)
Definition ListOffsetsRequest_header_version (version : Z) : Z := if 6 <=? version then 2 else 1.

(* @ src/crates/kafka-protocol/src/messages/list_offsets_request.rs 381-384 ListOffsetsRequest::VERSIONS *)
Definition ListOffsetsRequest_VERSIONS : Z * Z := (1, 11).

(** ** [list_offsets_response] *)

(* @ src/crates/kafka-protocol/src/messages/list_offsets_response.rs 20-51 ListOffsetsPartitionResponse *)
Record ListOffsetsPartitionResponse : Type := mkListOffsetsPartitionResponse {
  ListOffsetsPartitionResponse_partition_index : Z;
  ListOffsetsPartitionResponse_error_code : Z;
  ListOffsetsPartitionResponse_timestamp : Z;
  ListOffsetsPartitionResponse_offset : Z;
  ListOffsetsPartitionResponse_leader_epoch : Z;
  ListOffsetsPartitionResponse_unknown_tagged_fields : TaggedFields
}.

(* @ src/crates/kafka-protocol/src/messages/list_offsets_response.rs 207-218 ListOffsetsPartitionResponse::default *)
Definition ListOffsetsPartitionResponse_default : ListOffsetsPartitionResponse := {|
  ListOffsetsPartitionResponse_partition_index := 0;
  ListOffsetsPartitionResponse_error_code := 0;
  ListOffsetsPartitionResponse_timestamp := -1;
  ListOffsetsPartitionResponse_offset := -1;
  ListOffsetsPartitionResponse_leader_epoch := -1;
  ListOffsetsPartitionResponse_unknown_tagged_fields := ∅
|}.

(* @ src/crates/kafka-protocol/src/messages/list_offsets_response.rs 111-205 ListOffsetsPartitionResponse::encode, compute_size, decode *)
Definition ListOffsetsPartitionResponse_codec (version : Z) : Codec ListOffsetsPartitionResponse :=
  message 1 11 version (build mkListOffsetsPartitionResponse
    ⊛ (field ListOffsetsPartitionResponse_partition_index Int32)
    ⊛ (field ListOffsetsPartitionResponse_error_code Int16)
    ⊛ (field ListOffsetsPartitionResponse_timestamp Int64)
    ⊛ (field ListOffsetsPartitionResponse_offset Int64)
    ⊛ (if 4 <=? version then field ListOffsetsPartitionResponse_leader_epoch Int32 else unset
        ListOffsetsPartitionResponse_leader_epoch (Z.eqb (-1)) (-1))
    ⊛ unknown_tags (6 <=? version) ListOffsetsPartitionResponse_unknown_tagged_fields).

Definition ListOffsetsPartitionResponse_valid (version : Z) (x : ListOffsetsPartitionResponse) : Prop :=
  in_signed 32 (ListOffsetsPartitionResponse_partition_index x) ∧
  in_signed 16 (ListOffsetsPartitionResponse_error_code x) ∧
  in_signed 64 (ListOffsetsPartitionResponse_timestamp x) ∧
  in_signed 64 (ListOffsetsPartitionResponse_offset x) ∧
  in_signed 32 (ListOffsetsPartitionResponse_leader_epoch x) ∧
  (if 6 <=? version then unknown_valid 0 (ListOffsetsPartitionResponse_unknown_tagged_fields x) else
      ListOffsetsPartitionResponse_unknown_tagged_fields x = ∅).

#[global] Instance ListOffsetsPartitionResponse_sound version : Sound (ListOffsetsPartitionResponse_codec
    version) (ListOffsetsPartitionResponse_valid version).
Proof. solve_message. Qed.

(* @ src/crates/kafka-protocol/src/messages/list_offsets_response.rs 378-394 ListOffsetsTopicResponse *)
Record ListOffsetsTopicResponse : Type := mkListOffsetsTopicResponse {
  ListOffsetsTopicResponse_name : list byte;
  ListOffsetsTopicResponse_partitions : list ListOffsetsPartitionResponse;
  ListOffsetsTopicResponse_unknown_tagged_fields : TaggedFields
}.

(* @ src/crates/kafka-protocol/src/messages/list_offsets_response.rs 520-528 ListOffsetsTopicResponse::default *)
Definition ListOffsetsTopicResponse_default : ListOffsetsTopicResponse := {|
  ListOffsetsTopicResponse_name := [];
  ListOffsetsTopicResponse_partitions := [];
  ListOffsetsTopicResponse_unknown_tagged_fields := ∅
|}.

(* @ src/crates/kafka-protocol/src/messages/list_offsets_response.rs 427-518 ListOffsetsTopicResponse::encode, compute_size, decode *)
Definition ListOffsetsTopicResponse_codec (version : Z) : Codec ListOffsetsTopicResponse :=
  message 1 11 version (build mkListOffsetsTopicResponse
    ⊛ (field ListOffsetsTopicResponse_name (if 6 <=? version then CompactString else KafkaString))
    ⊛ (field ListOffsetsTopicResponse_partitions (if 6 <=? version then CompactArray (Struct
        ListOffsetsPartitionResponse_codec version) else Array (Struct ListOffsetsPartitionResponse_codec
        version)))
    ⊛ unknown_tags (6 <=? version) ListOffsetsTopicResponse_unknown_tagged_fields).

Definition ListOffsetsTopicResponse_valid (version : Z) (x : ListOffsetsTopicResponse) : Prop :=
  utf8 (ListOffsetsTopicResponse_name x) ∧
  Forall (ListOffsetsPartitionResponse_valid version) (ListOffsetsTopicResponse_partitions x) ∧
  (if 6 <=? version then unknown_valid 0 (ListOffsetsTopicResponse_unknown_tagged_fields x) else
      ListOffsetsTopicResponse_unknown_tagged_fields x = ∅).

#[global] Instance ListOffsetsTopicResponse_sound version : Sound (ListOffsetsTopicResponse_codec version)
    (ListOffsetsTopicResponse_valid version).
Proof. solve_message. Qed.

(* @ src/crates/kafka-protocol/src/messages/list_offsets_response.rs 225-241 ListOffsetsResponse *)
Record ListOffsetsResponse : Type := mkListOffsetsResponse {
  ListOffsetsResponse_throttle_time_ms : Z;
  ListOffsetsResponse_topics : list ListOffsetsTopicResponse;
  ListOffsetsResponse_unknown_tagged_fields : TaggedFields
}.

(* @ src/crates/kafka-protocol/src/messages/list_offsets_response.rs 363-371 ListOffsetsResponse::default *)
Definition ListOffsetsResponse_default : ListOffsetsResponse := {|
  ListOffsetsResponse_throttle_time_ms := 0;
  ListOffsetsResponse_topics := [];
  ListOffsetsResponse_unknown_tagged_fields := ∅
|}.

(* @ src/crates/kafka-protocol/src/messages/list_offsets_response.rs 274-361 ListOffsetsResponse::encode, compute_size, decode *)
Definition ListOffsetsResponse_codec (version : Z) : Codec ListOffsetsResponse :=
  message 1 11 version (build mkListOffsetsResponse
    ⊛ (if 2 <=? version then field ListOffsetsResponse_throttle_time_ms Int32 else ignored 0)
    ⊛ (field ListOffsetsResponse_topics (if 6 <=? version then CompactArray (Struct
        ListOffsetsTopicResponse_codec version) else Array (Struct ListOffsetsTopicResponse_codec version)))
    ⊛ unknown_tags (6 <=? version) ListOffsetsResponse_unknown_tagged_fields).

Definition ListOffsetsResponse_valid (version : Z) (x : ListOffsetsResponse) : Prop :=
  (if 2 <=? version then in_signed 32 (ListOffsetsResponse_throttle_time_ms x) else
      ListOffsetsResponse_throttle_time_ms x = 0) ∧
  Forall (ListOffsetsTopicResponse_valid version) (ListOffsetsResponse_topics x) ∧
  (if 6 <=? version then unknown_valid 0 (ListOffsetsResponse_unknown_tagged_fields x) else
      ListOffsetsResponse_unknown_tagged_fields x = ∅).

#[global] Instance ListOffsetsResponse_sound version : Sound (ListOffsetsResponse_codec version)
    (ListOffsetsResponse_valid version).
Proof. solve_message. Qed.

(* @ src/crates/kafka-protocol/src/messages/list_offsets_response.rs 535-543 ListOffsetsResponse::header_version *)
Definition ListOffsetsResponse_header_version (version : Z) : Z := if 6 <=? version then 1 else 0.

(* @ src/crates/kafka-protocol/src/messages/list_offsets_response.rs 373-376 ListOffsetsResponse::VERSIONS *)
Definition ListOffsetsResponse_VERSIONS : Z * Z := (1, 11).

(** ** [metadata_request] *)

(* @ src/crates/kafka-protocol/src/messages/metadata_request.rs 252-268 MetadataRequestTopic *)
Record MetadataRequestTopic : Type := mkMetadataRequestTopic {
  MetadataRequestTopic_topic_id : Z;
  MetadataRequestTopic_name : option (list byte);
  MetadataRequestTopic_unknown_tagged_fields : TaggedFields
}.

(* @ src/crates/kafka-protocol/src/messages/metadata_request.rs 389-397 MetadataRequestTopic::default *)
Definition MetadataRequestTopic_default : MetadataRequestTopic := {|
  MetadataRequestTopic_topic_id := 0;
  MetadataRequestTopic_name := Some [];
  MetadataRequestTopic_unknown_tagged_fields := ∅
|}.

(* @ src/crates/kafka-protocol/src/messages/metadata_request.rs 301-387 MetadataRequestTopic::encode, compute_size, decode *)
Definition MetadataRequestTopic_codec (version : Z) : Codec MetadataRequestTopic :=
  message 0 13 version (build mkMetadataRequestTopic
    ⊛ (if 10 <=? version then field MetadataRequestTopic_topic_id Uuid else ignored 0)
    ⊛ (field MetadataRequestTopic_name (if 9 <=? version then NullableCompactString else NullableString))
    ⊛ unknown_tags (9 <=? version) MetadataRequestTopic_unknown_tagged_fields).

Definition MetadataRequestTopic_valid (version : Z) (x : MetadataRequestTopic) : Prop :=
  (if 10 <=? version then in_unsigned 128 (MetadataRequestTopic_topic_id x) else
      MetadataRequestTopic_topic_id x = 0) ∧
  opt_all utf8 (MetadataRequestTopic_name x) ∧
  (if 9 <=? version then unknown_valid 0 (MetadataRequestTopic_unknown_tagged_fields x) else
      MetadataRequestTopic_unknown_tagged_fields x = ∅).

#[global] Instance MetadataRequestTopic_sound version : Sound (MetadataRequestTopic_codec version)
    (MetadataRequestTopic_valid version).
Proof. solve_message. Qed.

(* @ src/crates/kafka-protocol/src/messages/metadata_request.rs 20-46 MetadataRequest *)
Record MetadataRequest : Type := mkMetadataRequest {
  MetadataRequest_topics : option (list MetadataRequestTopic);
  MetadataRequest_allow_auto_topic_creation : bool;
  MetadataRequest_include_cluster_authorized_operations : bool;
  MetadataRequest_include_topic_authorized_operations : bool;
  MetadataRequest_unknown_tagged_fields : TaggedFields
}.

(* @ src/crates/kafka-protocol/src/messages/metadata_request.rs 235-245 MetadataRequest::default *)
Definition MetadataRequest_default : MetadataRequest := {|
  MetadataRequest_topics := Some [];
  MetadataRequest_allow_auto_topic_creation := true;
  MetadataRequest_include_cluster_authorized_operations := false;
  MetadataRequest_include_topic_authorized_operations := false;
  MetadataRequest_unknown_tagged_fields := ∅
|}.

(* @ src/crates/kafka-protocol/src/messages/metadata_request.rs 97-233 MetadataRequest::encode, compute_size, decode *)
Definition MetadataRequest_codec (version : Z) : Codec MetadataRequest :=
  message 0 13 version (build mkMetadataRequest
    ⊛ (field MetadataRequest_topics (if 9 <=? version then NullableCompactArray (Struct
        MetadataRequestTopic_codec version) else NullableArray (Struct MetadataRequestTopic_codec version)))
    ⊛ (if 4 <=? version then field MetadataRequest_allow_auto_topic_creation Boolean else unset
        MetadataRequest_allow_auto_topic_creation id true)
    ⊛ (if (8 <=? version) && (version <=? 10) then field
        MetadataRequest_include_cluster_authorized_operations Boolean else unset
        MetadataRequest_include_cluster_authorized_operations negb false)
    ⊛ (if 8 <=? version then field MetadataRequest_include_topic_authorized_operations Boolean else unset
        MetadataRequest_include_topic_authorized_operations negb false)
    ⊛ unknown_tags (9 <=? version) MetadataRequest_unknown_tagged_fields).

Definition MetadataRequest_valid (version : Z) (x : MetadataRequest) : Prop :=
  opt_all (Forall (MetadataRequestTopic_valid version)) (MetadataRequest_topics x) ∧
  (if 9 <=? version then unknown_valid 0 (MetadataRequest_unknown_tagged_fields x) else
      MetadataRequest_unknown_tagged_fields x = ∅).

#[global] Instance MetadataRequest_sound version : Sound (MetadataRequest_codec version)
    (MetadataRequest_valid version).
Proof. solve_message. Qed.

(* @ src/crates/kafka-protocol/src/messages/metadata_request.rs 404-412 MetadataRequest::header_version *)
Definition MetadataRequest_header_version (version : Z) : Z := if 9 <=? version then 2 else 1.

(* @ src/crates/kafka-protocol/src/messages/metadata_request.rs 247-250 MetadataRequest::VERSIONS *)
Definition MetadataRequest_VERSIONS : Z * Z := (0, 13).

(** ** [metadata_response] *)

(* @ src/crates/kafka-protocol/src/messages/metadata_response.rs 333-359 MetadataResponseBroker *)
Record MetadataResponseBroker : Type := mkMetadataResponseBroker {
  MetadataResponseBroker_node_id : Z;
  MetadataResponseBroker_host : list byte;
  MetadataResponseBroker_port : Z;
  MetadataResponseBroker_rack : option (list byte);
  MetadataResponseBroker_unknown_tagged_fields : TaggedFields
}.

(* @ src/crates/kafka-protocol/src/messages/metadata_response.rs 518-528 MetadataResponseBroker::default *)
Definition MetadataResponseBroker_default : MetadataResponseBroker := {|
  MetadataResponseBroker_node_id := 0;
  MetadataResponseBroker_host := [];
  MetadataResponseBroker_port := 0;
  MetadataResponseBroker_rack := None;
  MetadataResponseBroker_unknown_tagged_fields := ∅
|}.

(* @ src/crates/kafka-protocol/src/messages/metadata_response.rs 410-516 MetadataResponseBroker::encode, compute_size, decode *)
Definition MetadataResponseBroker_codec (version : Z) : Codec MetadataResponseBroker :=
  message 0 13 version (build mkMetadataResponseBroker
    ⊛ (field MetadataResponseBroker_node_id Int32)
    ⊛ (field MetadataResponseBroker_host (if 9 <=? version then CompactString else KafkaString))
    ⊛ (field MetadataResponseBroker_port Int32)
    ⊛ (if 1 <=? version then field MetadataResponseBroker_rack (if 9 <=? version then NullableCompactString
        else NullableString) else ignored None)
    ⊛ unknown_tags (9 <=? version) MetadataResponseBroker_unknown_tagged_fields).

Definition MetadataResponseBroker_valid (version : Z) (x : MetadataResponseBroker) : Prop :=
  in_signed 32 (MetadataResponseBroker_node_id x) ∧
  utf8 (MetadataResponseBroker_host x) ∧
  in_signed 32 (MetadataResponseBroker_port x) ∧
  (if 1 <=? version then opt_all utf8 (MetadataResponseBroker_rack x) else MetadataResponseBroker_rack x =
      None) ∧
  (if 9 <=? version then unknown_valid 0 (MetadataResponseBroker_unknown_tagged_fields x) else
      MetadataResponseBroker_unknown_tagged_fields x = ∅).

#[global] Instance MetadataResponseBroker_sound version : Sound (MetadataResponseBroker_codec version)
    (MetadataResponseBroker_valid version).
Proof. solve_message. Qed.

(* @ src/crates/kafka-protocol/src/messages/metadata_response.rs 535-576 MetadataResponsePartition *)
Record MetadataResponsePartition : Type := mkMetadataResponsePartition {
  MetadataResponsePartition_error_code : Z;
  MetadataResponsePartition_partition_index : Z;
  MetadataResponsePartition_leader_id : Z;
  MetadataResponsePartition_leader_epoch : Z;
  MetadataResponsePartition_replica_nodes : list Z;
  MetadataResponsePartition_isr_nodes : list Z;
  MetadataResponsePartition_offline_replicas : list Z;
  MetadataResponsePartition_unknown_tagged_fields : TaggedFields
}.

(* @ src/crates/kafka-protocol/src/messages/metadata_response.rs 795-808 MetadataResponsePartition::default *)
Definition MetadataResponsePartition_default : MetadataResponsePartition := {|
  MetadataResponsePartition_error_code := 0;
  MetadataResponsePartition_partition_index := 0;
  MetadataResponsePartition_leader_id := 0;
  MetadataResponsePartition_leader_epoch := -1;
  MetadataResponsePartition_replica_nodes := [];
  MetadataResponsePartition_isr_nodes := [];
  MetadataResponsePartition_offline_replicas := [];
  MetadataResponsePartition_unknown_tagged_fields := ∅
|}.

(* @ src/crates/kafka-protocol/src/messages/metadata_response.rs 654-793 MetadataResponsePartition::encode, compute_size, decode *)
Definition MetadataResponsePartition_codec (version : Z) : Codec MetadataResponsePartition :=
  message 0 13 version (build mkMetadataResponsePartition
    ⊛ (field MetadataResponsePartition_error_code Int16)
    ⊛ (field MetadataResponsePartition_partition_index Int32)
    ⊛ (field MetadataResponsePartition_leader_id Int32)
    ⊛ (if 7 <=? version then field MetadataResponsePartition_leader_epoch Int32 else ignored (-1))
    ⊛ (field MetadataResponsePartition_replica_nodes (if 9 <=? version then CompactArray Int32 else Array
        Int32))
    ⊛ (field MetadataResponsePartition_isr_nodes (if 9 <=? version then CompactArray Int32 else Array
        Int32))
    ⊛ (if 5 <=? version then field MetadataResponsePartition_offline_replicas (if 9 <=? version then
        CompactArray Int32 else Array Int32) else ignored [])
    ⊛ unknown_tags (9 <=? version) MetadataResponsePartition_unknown_tagged_fields).

Definition MetadataResponsePartition_valid (version : Z) (x : MetadataResponsePartition) : Prop :=
  in_signed 16 (MetadataResponsePartition_error_code x) ∧
  in_signed 32 (MetadataResponsePartition_partition_index x) ∧
  in_signed 32 (MetadataResponsePartition_leader_id x) ∧
  (if 7 <=? version then in_signed 32 (MetadataResponsePartition_leader_epoch x) else
      MetadataResponsePartition_leader_epoch x = (-1)) ∧
  Forall (in_signed 32) (MetadataResponsePartition_replica_nodes x) ∧
  Forall (in_signed 32) (MetadataResponsePartition_isr_nodes x) ∧
  (if 5 <=? version then Forall (in_signed 32) (MetadataResponsePartition_offline_replicas x) else
      MetadataResponsePartition_offline_replicas x = []) ∧
  (if 9 <=? version then unknown_valid 0 (MetadataResponsePartition_unknown_tagged_fields x) else
      MetadataResponsePartition_unknown_tagged_fields x = ∅).

#[global] Instance MetadataResponsePartition_sound version : Sound (MetadataResponsePartition_codec
    version) (MetadataResponsePartition_valid version).
Proof. solve_message. Qed.

(* @ src/crates/kafka-protocol/src/messages/metadata_response.rs 815-851 MetadataResponseTopic *)
Record MetadataResponseTopic : Type := mkMetadataResponseTopic {
  MetadataResponseTopic_error_code : Z;
  MetadataResponseTopic_name : option (list byte);
  MetadataResponseTopic_topic_id : Z;
  MetadataResponseTopic_is_internal : bool;
  MetadataResponseTopic_partitions : list MetadataResponsePartition;
  MetadataResponseTopic_topic_authorized_operations : Z;
  MetadataResponseTopic_unknown_tagged_fields : TaggedFields
}.

(* @ src/crates/kafka-protocol/src/messages/metadata_response.rs 1061-1073 MetadataResponseTopic::default *)
Definition MetadataResponseTopic_default : MetadataResponseTopic := {|
  MetadataResponseTopic_error_code := 0;
  MetadataResponseTopic_name := Some [];
  MetadataResponseTopic_topic_id := 0;
  MetadataResponseTopic_is_internal := false;
  MetadataResponseTopic_partitions := [];
  MetadataResponseTopic_topic_authorized_operations := -2147483648;
  MetadataResponseTopic_unknown_tagged_fields := ∅
|}.

(* @ src/crates/kafka-protocol/src/messages/metadata_response.rs 920-1059 MetadataResponseTopic::encode, compute_size, decode *)
Definition MetadataResponseTopic_codec (version : Z) : Codec MetadataResponseTopic :=
  message 0 13 version (build mkMetadataResponseTopic
    ⊛ (field MetadataResponseTopic_error_code Int16)
    ⊛ (field MetadataResponseTopic_name (if 9 <=? version then NullableCompactString else NullableString))
    ⊛ (if 10 <=? version then field MetadataResponseTopic_topic_id Uuid else ignored 0)
    ⊛ (if 1 <=? version then field MetadataResponseTopic_is_internal Boolean else ignored false)
    ⊛ (field MetadataResponseTopic_partitions (if 9 <=? version then CompactArray (Struct
        MetadataResponsePartition_codec version) else Array (Struct MetadataResponsePartition_codec
        version)))
    ⊛ (if 8 <=? version then field MetadataResponseTopic_topic_authorized_operations Int32 else unset
        MetadataResponseTopic_topic_authorized_operations (Z.eqb (-2147483648)) (-2147483648))
    ⊛ unknown_tags (9 <=? version) MetadataResponseTopic_unknown_tagged_fields).

Definition MetadataResponseTopic_valid (version : Z) (x : MetadataResponseTopic) : Prop :=
  in_signed 16 (MetadataResponseTopic_error_code x) ∧
  opt_all utf8 (MetadataResponseTopic_name x) ∧
  (if 10 <=? version then in_unsigned 128 (MetadataResponseTopic_topic_id x) else
      MetadataResponseTopic_topic_id x = 0) ∧
  (if 1 <=? version then True else MetadataResponseTopic_is_internal x = false) ∧
  Forall (MetadataResponsePartition_valid version) (MetadataResponseTopic_partitions x) ∧
  in_signed 32 (MetadataResponseTopic_topic_authorized_operations x) ∧
  (if 9 <=? version then unknown_valid 0 (MetadataResponseTopic_unknown_tagged_fields x) else
      MetadataResponseTopic_unknown_tagged_fields x = ∅).

#[global] Instance MetadataResponseTopic_sound version : Sound (MetadataResponseTopic_codec version)
    (MetadataResponseTopic_valid version).
Proof. solve_message. Qed.

(* @ src/crates/kafka-protocol/src/messages/metadata_response.rs 20-61 MetadataResponse *)
Record MetadataResponse : Type := mkMetadataResponse {
  MetadataResponse_throttle_time_ms : Z;
  MetadataResponse_brokers : list MetadataResponseBroker;
  MetadataResponse_cluster_id : option (list byte);
  MetadataResponse_controller_id : Z;
  MetadataResponse_topics : list MetadataResponseTopic;
  MetadataResponse_cluster_authorized_operations : Z;
  MetadataResponse_error_code : Z;
  MetadataResponse_unknown_tagged_fields : TaggedFields
}.

(* @ src/crates/kafka-protocol/src/messages/metadata_response.rs 313-326 MetadataResponse::default *)
Definition MetadataResponse_default : MetadataResponse := {|
  MetadataResponse_throttle_time_ms := 0;
  MetadataResponse_brokers := [];
  MetadataResponse_cluster_id := None;
  MetadataResponse_controller_id := -1;
  MetadataResponse_topics := [];
  MetadataResponse_cluster_authorized_operations := -2147483648;
  MetadataResponse_error_code := 0;
  MetadataResponse_unknown_tagged_fields := ∅
|}.

(* @ src/crates/kafka-protocol/src/messages/metadata_response.rs 139-311 MetadataResponse::encode, compute_size, decode *)
Definition MetadataResponse_codec (version : Z) : Codec MetadataResponse :=
  message 0 13 version (build mkMetadataResponse
    ⊛ (if 3 <=? version then field MetadataResponse_throttle_time_ms Int32 else ignored 0)
    ⊛ (field MetadataResponse_brokers (if 9 <=? version then CompactArray (Struct
        MetadataResponseBroker_codec version) else Array (Struct MetadataResponseBroker_codec version)))
    ⊛ (if 2 <=? version then field MetadataResponse_cluster_id (if 9 <=? version then NullableCompactString
        else NullableString) else ignored None)
    ⊛ (if 1 <=? version then field MetadataResponse_controller_id Int32 else ignored (-1))
    ⊛ (field MetadataResponse_topics (if 9 <=? version then CompactArray (Struct
        MetadataResponseTopic_codec version) else Array (Struct MetadataResponseTopic_codec version)))
    ⊛ (if (8 <=? version) && (version <=? 10) then field MetadataResponse_cluster_authorized_operations
        Int32 else unset MetadataResponse_cluster_authorized_operations (Z.eqb (-2147483648)) (-2147483648))
    ⊛ (if 13 <=? version then field MetadataResponse_error_code Int16 else ignored 0)
    ⊛ unknown_tags (9 <=? version) MetadataResponse_unknown_tagged_fields).

Definition MetadataResponse_valid (version : Z) (x : MetadataResponse) : Prop :=
  (if 3 <=? version then in_signed 32 (MetadataResponse_throttle_time_ms x) else
      MetadataResponse_throttle_time_ms x = 0) ∧
  Forall (MetadataResponseBroker_valid version) (MetadataResponse_brokers x) ∧
  (if 2 <=? version then opt_all utf8 (MetadataResponse_cluster_id x) else MetadataResponse_cluster_id x =
      None) ∧
  (if 1 <=? version then in_signed 32 (MetadataResponse_controller_id x) else
      MetadataResponse_controller_id x = (-1)) ∧
  Forall (MetadataResponseTopic_valid version) (MetadataResponse_topics x) ∧
  in_signed 32 (MetadataResponse_cluster_authorized_operations x) ∧
  (if 13 <=? version then in_signed 16 (MetadataResponse_error_code x) else MetadataResponse_error_code x =
      0) ∧
  (if 9 <=? version then unknown_valid 0 (MetadataResponse_unknown_tagged_fields x) else
      MetadataResponse_unknown_tagged_fields x = ∅).

#[global] Instance MetadataResponse_sound version : Sound (MetadataResponse_codec version)
    (MetadataResponse_valid version).
Proof. solve_message. Qed.

(* @ src/crates/kafka-protocol/src/messages/metadata_response.rs 1080-1088 MetadataResponse::header_version *)
Definition MetadataResponse_header_version (version : Z) : Z := if 9 <=? version then 1 else 0.

(* @ src/crates/kafka-protocol/src/messages/metadata_response.rs 328-331 MetadataResponse::VERSIONS *)
Definition MetadataResponse_VERSIONS : Z * Z := (0, 13).

(** ** [produce_request] *)

(* @ src/crates/kafka-protocol/src/messages/produce_request.rs 20-36 PartitionProduceData *)
Record PartitionProduceData : Type := mkPartitionProduceData {
  PartitionProduceData_index : Z;
  PartitionProduceData_records : option (list byte);
  PartitionProduceData_unknown_tagged_fields : TaggedFields
}.

(* @ src/crates/kafka-protocol/src/messages/produce_request.rs 149-157 PartitionProduceData::default *)
Definition PartitionProduceData_default : PartitionProduceData := {|
  PartitionProduceData_index := 0;
  PartitionProduceData_records := Some [];
  PartitionProduceData_unknown_tagged_fields := ∅
|}.

(* @ src/crates/kafka-protocol/src/messages/produce_request.rs 69-147 PartitionProduceData::encode, compute_size, decode *)
Definition PartitionProduceData_codec (version : Z) : Codec PartitionProduceData :=
  message 3 13 version (build mkPartitionProduceData
    ⊛ (field PartitionProduceData_index Int32)
    ⊛ (field PartitionProduceData_records (if 9 <=? version then NullableCompactBytes else NullableBytes))
    ⊛ unknown_tags (9 <=? version) PartitionProduceData_unknown_tagged_fields).

Definition PartitionProduceData_valid (version : Z) (x : PartitionProduceData) : Prop :=
  in_signed 32 (PartitionProduceData_index x) ∧
  (if 9 <=? version then unknown_valid 0 (PartitionProduceData_unknown_tagged_fields x) else
      PartitionProduceData_unknown_tagged_fields x = ∅).

#[global] Instance PartitionProduceData_sound version : Sound (PartitionProduceData_codec version)
    (PartitionProduceData_valid version).
Proof. solve_message. Qed.

(* @ src/crates/kafka-protocol/src/messages/produce_request.rs 359-380 TopicProduceData *)
Record TopicProduceData : Type := mkTopicProduceData {
  TopicProduceData_name : list byte;
  TopicProduceData_topic_id : Z;
  TopicProduceData_partition_data : list PartitionProduceData;
  TopicProduceData_unknown_tagged_fields : TaggedFields
}.

(* @ src/crates/kafka-protocol/src/messages/produce_request.rs 536-545 TopicProduceData::default *)
Definition TopicProduceData_default : TopicProduceData := {|
  TopicProduceData_name := [];
  TopicProduceData_topic_id := 0;
  TopicProduceData_partition_data := [];
  TopicProduceData_unknown_tagged_fields := ∅
|}.

(* @ src/crates/kafka-protocol/src/messages/produce_request.rs 422-534 TopicProduceData::encode, compute_size, decode *)
Definition TopicProduceData_codec (version : Z) : Codec TopicProduceData :=
  message 3 13 version (build mkTopicProduceData
    ⊛ (if version <=? 12 then field TopicProduceData_name (if 9 <=? version then CompactString else
        KafkaString) else ignored [])
    ⊛ (if 13 <=? version then field TopicProduceData_topic_id Uuid else ignored 0)
    ⊛ (field TopicProduceData_partition_data (if 9 <=? version then CompactArray (Struct
        PartitionProduceData_codec version) else Array (Struct PartitionProduceData_codec version)))
    ⊛ unknown_tags (9 <=? version) TopicProduceData_unknown_tagged_fields).

Definition TopicProduceData_valid (version : Z) (x : TopicProduceData) : Prop :=
  (if version <=? 12 then utf8 (TopicProduceData_name x) else TopicProduceData_name x = []) ∧
  (if 13 <=? version then in_unsigned 128 (TopicProduceData_topic_id x) else TopicProduceData_topic_id x =
      0) ∧
  Forall (PartitionProduceData_valid version) (TopicProduceData_partition_data x) ∧
  (if 9 <=? version then unknown_valid 0 (TopicProduceData_unknown_tagged_fields x) else
      TopicProduceData_unknown_tagged_fields x = ∅).

#[global] Instance TopicProduceData_sound version : Sound (TopicProduceData_codec version)
    (TopicProduceData_valid version).
Proof. solve_message. Qed.

(* @ src/crates/kafka-protocol/src/messages/produce_request.rs 164-190 ProduceRequest *)
Record ProduceRequest : Type := mkProduceRequest {
  ProduceRequest_transactional_id : option (list byte);
  ProduceRequest_acks : Z;
  ProduceRequest_timeout_ms : Z;
  ProduceRequest_topic_data : list TopicProduceData;
  ProduceRequest_unknown_tagged_fields : TaggedFields
}.

(* @ src/crates/kafka-protocol/src/messages/produce_request.rs 342-352 ProduceRequest::default *)
Definition ProduceRequest_default : ProduceRequest := {|
  ProduceRequest_transactional_id := None;
  ProduceRequest_acks := 0;
  ProduceRequest_timeout_ms := 0;
  ProduceRequest_topic_data := [];
  ProduceRequest_unknown_tagged_fields := ∅
|}.

(* @ src/crates/kafka-protocol/src/messages/produce_request.rs 241-340 ProduceRequest::encode, compute_size, decode *)
Definition ProduceRequest_codec (version : Z) : Codec ProduceRequest :=
  message 3 13 version (build mkProduceRequest
    ⊛ (field ProduceRequest_transactional_id (if 9 <=? version then NullableCompactString else
        NullableString))
    ⊛ (field ProduceRequest_acks Int16)
    ⊛ (field ProduceRequest_timeout_ms Int32)
    ⊛ (field ProduceRequest_topic_data (if 9 <=? version then CompactArray (Struct TopicProduceData_codec
        version) else Array (Struct TopicProduceData_codec version)))
    ⊛ unknown_tags (9 <=? version) ProduceRequest_unknown_tagged_fields).

Definition ProduceRequest_valid (version : Z) (x : ProduceRequest) : Prop :=
  opt_all utf8 (ProduceRequest_transactional_id x) ∧
  in_signed 16 (ProduceRequest_acks x) ∧
  in_signed 32 (ProduceRequest_timeout_ms x) ∧
  Forall (TopicProduceData_valid version) (ProduceRequest_topic_data x) ∧
  (if 9 <=? version then unknown_valid 0 (ProduceRequest_unknown_tagged_fields x) else
      ProduceRequest_unknown_tagged_fields x = ∅).

#[global] Instance ProduceRequest_sound version : Sound (ProduceRequest_codec version)
    (ProduceRequest_valid version).
Proof. solve_message. Qed.

(* @ src/crates/kafka-protocol/src/messages/produce_request.rs 552-560 ProduceRequest::header_version *)
Definition ProduceRequest_header_version (version : Z) : Z := if 9 <=? version then 2 else 1.

(* @ src/crates/kafka-protocol/src/messages/produce_request.rs 354-357 ProduceRequest::VERSIONS *)
Definition ProduceRequest_VERSIONS : Z * Z := (3, 13).

(** ** [produce_response] *)

(* @ src/crates/kafka-protocol/src/messages/produce_response.rs 20-36 BatchIndexAndErrorMessage *)
Record BatchIndexAndErrorMessage : Type := mkBatchIndexAndErrorMessage {
  BatchIndexAndErrorMessage_batch_index : Z;
  BatchIndexAndErrorMessage_batch_index_error_message : option (list byte);
  BatchIndexAndErrorMessage_unknown_tagged_fields : TaggedFields
}.

(* @ src/crates/kafka-protocol/src/messages/produce_response.rs 181-189 BatchIndexAndErrorMessage::default *)
Definition BatchIndexAndErrorMessage_default : BatchIndexAndErrorMessage := {|
  BatchIndexAndErrorMessage_batch_index := 0;
  BatchIndexAndErrorMessage_batch_index_error_message := None;
  BatchIndexAndErrorMessage_unknown_tagged_fields := ∅
|}.

(* @ src/crates/kafka-protocol/src/messages/produce_response.rs 69-179 BatchIndexAndErrorMessage::encode, compute_size, decode *)
Definition BatchIndexAndErrorMessage_codec (version : Z) : Codec BatchIndexAndErrorMessage :=
  message 3 13 version (build mkBatchIndexAndErrorMessage
    ⊛ (if 8 <=? version then field BatchIndexAndErrorMessage_batch_index Int32 else unset
        BatchIndexAndErrorMessage_batch_index (Z.eqb 0) 0)
    ⊛ (if 8 <=? version then field BatchIndexAndErrorMessage_batch_index_error_message (if 9 <=? version
        then NullableCompactString else NullableString) else unset
        BatchIndexAndErrorMessage_batch_index_error_message is_none None)
    ⊛ unknown_tags (9 <=? version) BatchIndexAndErrorMessage_unknown_tagged_fields).

Definition BatchIndexAndErrorMessage_valid (version : Z) (x : BatchIndexAndErrorMessage) : Prop :=
  in_signed 32 (BatchIndexAndErrorMessage_batch_index x) ∧
  opt_all utf8 (BatchIndexAndErrorMessage_batch_index_error_message x) ∧
  (if 9 <=? version then unknown_valid 0 (BatchIndexAndErrorMessage_unknown_tagged_fields x) else
      BatchIndexAndErrorMessage_unknown_tagged_fields x = ∅).

#[global] Instance BatchIndexAndErrorMessage_sound version : Sound (BatchIndexAndErrorMessage_codec
    version) (BatchIndexAndErrorMessage_valid version).
Proof. solve_message. Qed.

(* @ src/crates/kafka-protocol/src/messages/produce_response.rs 196-212 LeaderIdAndEpoch *)
Record ProduceResponse_LeaderIdAndEpoch : Type := mkProduceResponse_LeaderIdAndEpoch {
  ProduceResponse_LeaderIdAndEpoch_leader_id : Z;
  ProduceResponse_LeaderIdAndEpoch_leader_epoch : Z;
  ProduceResponse_LeaderIdAndEpoch_unknown_tagged_fields : TaggedFields
}.

(* @ src/crates/kafka-protocol/src/messages/produce_response.rs 345-353 LeaderIdAndEpoch::default *)
Definition ProduceResponse_LeaderIdAndEpoch_default : ProduceResponse_LeaderIdAndEpoch := {|
  ProduceResponse_LeaderIdAndEpoch_leader_id := -1;
  ProduceResponse_LeaderIdAndEpoch_leader_epoch := -1;
  ProduceResponse_LeaderIdAndEpoch_unknown_tagged_fields := ∅
|}.

#[global] Instance ProduceResponse_LeaderIdAndEpoch_eq_dec : EqDecision ProduceResponse_LeaderIdAndEpoch.
Proof. solve_decision. Defined.

(* @ src/crates/kafka-protocol/src/messages/produce_response.rs 245-343 LeaderIdAndEpoch::encode, compute_size, decode *)
Definition ProduceResponse_LeaderIdAndEpoch_codec (version : Z) : Codec ProduceResponse_LeaderIdAndEpoch :=
  message 3 13 version (build mkProduceResponse_LeaderIdAndEpoch
    ⊛ (if 10 <=? version then field ProduceResponse_LeaderIdAndEpoch_leader_id Int32 else unset
        ProduceResponse_LeaderIdAndEpoch_leader_id (Z.eqb (-1)) (-1))
    ⊛ (if 10 <=? version then field ProduceResponse_LeaderIdAndEpoch_leader_epoch Int32 else unset
        ProduceResponse_LeaderIdAndEpoch_leader_epoch (Z.eqb (-1)) (-1))
    ⊛ unknown_tags (9 <=? version) ProduceResponse_LeaderIdAndEpoch_unknown_tagged_fields).

Definition ProduceResponse_LeaderIdAndEpoch_valid (version : Z) (x : ProduceResponse_LeaderIdAndEpoch) :
    Prop :=
  in_signed 32 (ProduceResponse_LeaderIdAndEpoch_leader_id x) ∧
  in_signed 32 (ProduceResponse_LeaderIdAndEpoch_leader_epoch x) ∧
  (if 9 <=? version then unknown_valid 0 (ProduceResponse_LeaderIdAndEpoch_unknown_tagged_fields x) else
      ProduceResponse_LeaderIdAndEpoch_unknown_tagged_fields x = ∅).

#[global] Instance ProduceResponse_LeaderIdAndEpoch_sound version : Sound
    (ProduceResponse_LeaderIdAndEpoch_codec version) (ProduceResponse_LeaderIdAndEpoch_valid version).
Proof. solve_message. Qed.

(* @ src/crates/kafka-protocol/src/messages/produce_response.rs 360-386 NodeEndpoint *)
Record ProduceResponse_NodeEndpoint : Type := mkProduceResponse_NodeEndpoint {
  ProduceResponse_NodeEndpoint_node_id : Z;
  ProduceResponse_NodeEndpoint_host : list byte;
  ProduceResponse_NodeEndpoint_port : Z;
  ProduceResponse_NodeEndpoint_rack : option (list byte);
  ProduceResponse_NodeEndpoint_unknown_tagged_fields : TaggedFields
}.

(* @ src/crates/kafka-protocol/src/messages/produce_response.rs 577-587 NodeEndpoint::default *)
Definition ProduceResponse_NodeEndpoint_default : ProduceResponse_NodeEndpoint := {|
  ProduceResponse_NodeEndpoint_node_id := 0;
  ProduceResponse_NodeEndpoint_host := [];
  ProduceResponse_NodeEndpoint_port := 0;
  ProduceResponse_NodeEndpoint_rack := None;
  ProduceResponse_NodeEndpoint_unknown_tagged_fields := ∅
|}.

(* @ src/crates/kafka-protocol/src/messages/produce_response.rs 437-575 NodeEndpoint::encode, compute_size, decode *)
Definition ProduceResponse_NodeEndpoint_codec (version : Z) : Codec ProduceResponse_NodeEndpoint :=
  message 3 13 version (build mkProduceResponse_NodeEndpoint
    ⊛ (if 10 <=? version then field ProduceResponse_NodeEndpoint_node_id Int32 else unset
        ProduceResponse_NodeEndpoint_node_id (Z.eqb 0) 0)
    ⊛ (if 10 <=? version then field ProduceResponse_NodeEndpoint_host CompactString else unset
        ProduceResponse_NodeEndpoint_host is_empty [])
    ⊛ (if 10 <=? version then field ProduceResponse_NodeEndpoint_port Int32 else unset
        ProduceResponse_NodeEndpoint_port (Z.eqb 0) 0)
    ⊛ (if 10 <=? version then field ProduceResponse_NodeEndpoint_rack NullableCompactString else unset
        ProduceResponse_NodeEndpoint_rack is_none None)
    ⊛ unknown_tags (9 <=? version) ProduceResponse_NodeEndpoint_unknown_tagged_fields).

Definition ProduceResponse_NodeEndpoint_valid (version : Z) (x : ProduceResponse_NodeEndpoint) : Prop :=
  in_signed 32 (ProduceResponse_NodeEndpoint_node_id x) ∧
  utf8 (ProduceResponse_NodeEndpoint_host x) ∧
  in_signed 32 (ProduceResponse_NodeEndpoint_port x) ∧
  opt_all utf8 (ProduceResponse_NodeEndpoint_rack x) ∧
  (if 9 <=? version then unknown_valid 0 (ProduceResponse_NodeEndpoint_unknown_tagged_fields x) else
      ProduceResponse_NodeEndpoint_unknown_tagged_fields x = ∅).

#[global] Instance ProduceResponse_NodeEndpoint_sound version : Sound (ProduceResponse_NodeEndpoint_codec
    version) (ProduceResponse_NodeEndpoint_valid version).
Proof. solve_message. Qed.

(* @ src/crates/kafka-protocol/src/messages/produce_response.rs 594-640 PartitionProduceResponse *)
Record PartitionProduceResponse : Type := mkPartitionProduceResponse {
  PartitionProduceResponse_index : Z;
  PartitionProduceResponse_error_code : Z;
  PartitionProduceResponse_base_offset : Z;
  PartitionProduceResponse_log_append_time_ms : Z;
  PartitionProduceResponse_log_start_offset : Z;
  PartitionProduceResponse_record_errors : list BatchIndexAndErrorMessage;
  PartitionProduceResponse_error_message : option (list byte);
  PartitionProduceResponse_current_leader : ProduceResponse_LeaderIdAndEpoch;
  PartitionProduceResponse_unknown_tagged_fields : TaggedFields
}.

(* @ src/crates/kafka-protocol/src/messages/produce_response.rs 916-930 PartitionProduceResponse::default *)
Definition PartitionProduceResponse_default : PartitionProduceResponse := {|
  PartitionProduceResponse_index := 0;
  PartitionProduceResponse_error_code := 0;
  PartitionProduceResponse_base_offset := 0;
  PartitionProduceResponse_log_append_time_ms := -1;
  PartitionProduceResponse_log_start_offset := -1;
  PartitionProduceResponse_record_errors := [];
  PartitionProduceResponse_error_message := None;
  PartitionProduceResponse_current_leader := ProduceResponse_LeaderIdAndEpoch_default;
  PartitionProduceResponse_unknown_tagged_fields := ∅
|}.

(* @ src/crates/kafka-protocol/src/messages/produce_response.rs 727-914 PartitionProduceResponse::encode, compute_size, decode *)
Definition PartitionProduceResponse_codec (version : Z) : Codec PartitionProduceResponse :=
  message 3 13 version (build (λ index error_code base_offset log_append_time_ms log_start_offset
      record_errors error_message '(current_leader, unknown_tagged_fields), mkPartitionProduceResponse
      index error_code base_offset log_append_time_ms log_start_offset record_errors error_message
      current_leader unknown_tagged_fields)
    ⊛ (field PartitionProduceResponse_index Int32)
    ⊛ (field PartitionProduceResponse_error_code Int16)
    ⊛ (field PartitionProduceResponse_base_offset Int64)
    ⊛ (field PartitionProduceResponse_log_append_time_ms Int64)
    ⊛ (if 5 <=? version then field PartitionProduceResponse_log_start_offset Int64 else ignored (-1))
    ⊛ (if 8 <=? version then field PartitionProduceResponse_record_errors (if 9 <=? version then
        CompactArray (Struct BatchIndexAndErrorMessage_codec version) else Array (Struct
        BatchIndexAndErrorMessage_codec version)) else ignored [])
    ⊛ (if 8 <=? version then field PartitionProduceResponse_error_message (if 9 <=? version then
        NullableCompactString else NullableString) else ignored None)
    ⊛ tag_section (9 <=? version) ProduceResponse_LeaderIdAndEpoch_default [
       tagged 0 (10 <=? version) PartitionProduceResponse_current_leader (λ v, bool_decide (v =
           ProduceResponse_LeaderIdAndEpoch_default)) (Struct ProduceResponse_LeaderIdAndEpoch_codec
           version) (λ v _, v)] 1 PartitionProduceResponse_unknown_tagged_fields).

Definition PartitionProduceResponse_valid (version : Z) (x : PartitionProduceResponse) : Prop :=
  in_signed 32 (PartitionProduceResponse_index x) ∧
  in_signed 16 (PartitionProduceResponse_error_code x) ∧
  in_signed 64 (PartitionProduceResponse_base_offset x) ∧
  in_signed 64 (PartitionProduceResponse_log_append_time_ms x) ∧
  (if 5 <=? version then in_signed 64 (PartitionProduceResponse_log_start_offset x) else
      PartitionProduceResponse_log_start_offset x = (-1)) ∧
  (if 8 <=? version then Forall (BatchIndexAndErrorMessage_valid version)
      (PartitionProduceResponse_record_errors x) else PartitionProduceResponse_record_errors x = []) ∧
  (if 8 <=? version then opt_all utf8 (PartitionProduceResponse_error_message x) else
      PartitionProduceResponse_error_message x = None) ∧
  (if (9 <=? version) && (10 <=? version) then ProduceResponse_LeaderIdAndEpoch_valid version
      (PartitionProduceResponse_current_leader x) else PartitionProduceResponse_current_leader x =
      ProduceResponse_LeaderIdAndEpoch_default) ∧
  (if 9 <=? version then unknown_valid 1 (PartitionProduceResponse_unknown_tagged_fields x) else
      PartitionProduceResponse_unknown_tagged_fields x = ∅).

#[global] Instance PartitionProduceResponse_sound version : Sound (PartitionProduceResponse_codec version)
    (PartitionProduceResponse_valid version).
Proof. solve_tagged_message. Qed.

(* @ src/crates/kafka-protocol/src/messages/produce_response.rs 1150-1171 TopicProduceResponse *)
Record TopicProduceResponse : Type := mkTopicProduceResponse {
  TopicProduceResponse_name : list byte;
  TopicProduceResponse_topic_id : Z;
  TopicProduceResponse_partition_responses : list PartitionProduceResponse;
  TopicProduceResponse_unknown_tagged_fields : TaggedFields
}.

(* @ src/crates/kafka-protocol/src/messages/produce_response.rs 1328-1337 TopicProduceResponse::default *)
Definition TopicProduceResponse_default : TopicProduceResponse := {|
  TopicProduceResponse_name := [];
  TopicProduceResponse_topic_id := 0;
  TopicProduceResponse_partition_responses := [];
  TopicProduceResponse_unknown_tagged_fields := ∅
|}.

(* @ src/crates/kafka-protocol/src/messages/produce_response.rs 1213-1326 TopicProduceResponse::encode, compute_size, decode *)
Definition TopicProduceResponse_codec (version : Z) : Codec TopicProduceResponse :=
  message 3 13 version (build mkTopicProduceResponse
    ⊛ (if version <=? 12 then field TopicProduceResponse_name (if 9 <=? version then CompactString else
        KafkaString) else ignored [])
    ⊛ (if 13 <=? version then field TopicProduceResponse_topic_id Uuid else ignored 0)
    ⊛ (field TopicProduceResponse_partition_responses (if 9 <=? version then CompactArray (Struct
        PartitionProduceResponse_codec version) else Array (Struct PartitionProduceResponse_codec version)))
    ⊛ unknown_tags (9 <=? version) TopicProduceResponse_unknown_tagged_fields).

Definition TopicProduceResponse_valid (version : Z) (x : TopicProduceResponse) : Prop :=
  (if version <=? 12 then utf8 (TopicProduceResponse_name x) else TopicProduceResponse_name x = []) ∧
  (if 13 <=? version then in_unsigned 128 (TopicProduceResponse_topic_id x) else
      TopicProduceResponse_topic_id x = 0) ∧
  Forall (PartitionProduceResponse_valid version) (TopicProduceResponse_partition_responses x) ∧
  (if 9 <=? version then unknown_valid 0 (TopicProduceResponse_unknown_tagged_fields x) else
      TopicProduceResponse_unknown_tagged_fields x = ∅).

#[global] Instance TopicProduceResponse_sound version : Sound (TopicProduceResponse_codec version)
    (TopicProduceResponse_valid version).
Proof. solve_message. Qed.

(* @ src/crates/kafka-protocol/src/messages/produce_response.rs 937-958 ProduceResponse *)
Record ProduceResponse : Type := mkProduceResponse {
  ProduceResponse_responses : list TopicProduceResponse;
  ProduceResponse_throttle_time_ms : Z;
  ProduceResponse_node_endpoints : list ProduceResponse_NodeEndpoint;
  ProduceResponse_unknown_tagged_fields : TaggedFields
}.

(* @ src/crates/kafka-protocol/src/messages/produce_response.rs 1134-1143 ProduceResponse::default *)
Definition ProduceResponse_default : ProduceResponse := {|
  ProduceResponse_responses := [];
  ProduceResponse_throttle_time_ms := 0;
  ProduceResponse_node_endpoints := [];
  ProduceResponse_unknown_tagged_fields := ∅
|}.

(* @ src/crates/kafka-protocol/src/messages/produce_response.rs 1000-1132 ProduceResponse::encode, compute_size, decode *)
Definition ProduceResponse_codec (version : Z) : Codec ProduceResponse :=
  message 3 13 version (build (λ responses throttle_time_ms '(node_endpoints, unknown_tagged_fields),
      mkProduceResponse responses throttle_time_ms node_endpoints unknown_tagged_fields)
    ⊛ (field ProduceResponse_responses (if 9 <=? version then CompactArray (Struct
        TopicProduceResponse_codec version) else Array (Struct TopicProduceResponse_codec version)))
    ⊛ (field ProduceResponse_throttle_time_ms Int32)
    ⊛ tag_section (9 <=? version) [] [
       tagged 0 (10 <=? version) ProduceResponse_node_endpoints is_empty (CompactArray (Struct
           ProduceResponse_NodeEndpoint_codec version)) (λ v _, v)] 1
           ProduceResponse_unknown_tagged_fields).

Definition ProduceResponse_valid (version : Z) (x : ProduceResponse) : Prop :=
  Forall (TopicProduceResponse_valid version) (ProduceResponse_responses x) ∧
  in_signed 32 (ProduceResponse_throttle_time_ms x) ∧
  (if (9 <=? version) && (10 <=? version) then Forall (ProduceResponse_NodeEndpoint_valid version)
      (ProduceResponse_node_endpoints x) else ProduceResponse_node_endpoints x = []) ∧
  (if 9 <=? version then unknown_valid 1 (ProduceResponse_unknown_tagged_fields x) else
      ProduceResponse_unknown_tagged_fields x = ∅).

#[global] Instance ProduceResponse_sound version : Sound (ProduceResponse_codec version)
    (ProduceResponse_valid version).
Proof. solve_tagged_message. Qed.

(* @ src/crates/kafka-protocol/src/messages/produce_response.rs 1344-1352 ProduceResponse::header_version *)
Definition ProduceResponse_header_version (version : Z) : Z := if 9 <=? version then 1 else 0.

(* @ src/crates/kafka-protocol/src/messages/produce_response.rs 1145-1148 ProduceResponse::VERSIONS *)
Definition ProduceResponse_VERSIONS : Z * Z := (3, 13).

(** ** [request_header] *)

(* @ src/crates/kafka-protocol/src/messages/request_header.rs 20-46 RequestHeader *)
Record RequestHeader : Type := mkRequestHeader {
  RequestHeader_request_api_key : Z;
  RequestHeader_request_api_version : Z;
  RequestHeader_correlation_id : Z;
  RequestHeader_client_id : option (list byte);
  RequestHeader_unknown_tagged_fields : TaggedFields
}.

(* @ src/crates/kafka-protocol/src/messages/request_header.rs 171-181 RequestHeader::default *)
Definition RequestHeader_default : RequestHeader := {|
  RequestHeader_request_api_key := 0;
  RequestHeader_request_api_version := 0;
  RequestHeader_correlation_id := 0;
  RequestHeader_client_id := Some [];
  RequestHeader_unknown_tagged_fields := ∅
|}.

(* @ src/crates/kafka-protocol/src/messages/request_header.rs 97-169 RequestHeader::encode, compute_size, decode *)
Definition RequestHeader_codec (version : Z) : Codec RequestHeader :=
  message 1 2 version (build mkRequestHeader
    ⊛ (field RequestHeader_request_api_key Int16)
    ⊛ (field RequestHeader_request_api_version Int16)
    ⊛ (field RequestHeader_correlation_id Int32)
    ⊛ (field RequestHeader_client_id NullableString)
    ⊛ unknown_tags (2 <=? version) RequestHeader_unknown_tagged_fields).

Definition RequestHeader_valid (version : Z) (x : RequestHeader) : Prop :=
  in_signed 16 (RequestHeader_request_api_key x) ∧
  in_signed 16 (RequestHeader_request_api_version x) ∧
  in_signed 32 (RequestHeader_correlation_id x) ∧
  opt_all utf8 (RequestHeader_client_id x) ∧
  (if 2 <=? version then unknown_valid 0 (RequestHeader_unknown_tagged_fields x) else
      RequestHeader_unknown_tagged_fields x = ∅).

#[global] Instance RequestHeader_sound version : Sound (RequestHeader_codec version) (RequestHeader_valid
    version).
Proof. solve_message. Qed.

(** ** [response_header] *)

(* @ src/crates/kafka-protocol/src/messages/response_header.rs 20-31 ResponseHeader *)
Record ResponseHeader : Type := mkResponseHeader {
  ResponseHeader_correlation_id : Z;
  ResponseHeader_unknown_tagged_fields : TaggedFields
}.

(* @ src/crates/kafka-protocol/src/messages/response_header.rs 117-124 ResponseHeader::default *)
Definition ResponseHeader_default : ResponseHeader := {|
  ResponseHeader_correlation_id := 0;
  ResponseHeader_unknown_tagged_fields := ∅
|}.

(* @ src/crates/kafka-protocol/src/messages/response_header.rs 55-115 ResponseHeader::encode, compute_size, decode *)
Definition ResponseHeader_codec (version : Z) : Codec ResponseHeader :=
  message 0 1 version (build mkResponseHeader
    ⊛ (field ResponseHeader_correlation_id Int32)
    ⊛ unknown_tags (1 <=? version) ResponseHeader_unknown_tagged_fields).

Definition ResponseHeader_valid (version : Z) (x : ResponseHeader) : Prop :=
  in_signed 32 (ResponseHeader_correlation_id x) ∧
  (if 1 <=? version then unknown_valid 0 (ResponseHeader_unknown_tagged_fields x) else
      ResponseHeader_unknown_tagged_fields x = ∅).

#[global] Instance ResponseHeader_sound version : Sound (ResponseHeader_codec version)
    (ResponseHeader_valid version).
Proof. solve_message. Qed.
