(* ===== verification/MessagesGroups.v ===== *)
(** * The messages of consumer groups

    [src/crates/kafka-protocol/src/messages/]: one block per structure of the
    generated modules listed below, in the order of their files.  A block is the
    structure, its [Default], its codec in the style of [MessageCodec] (the
    branches on [version] are those of [encode], [compute_size] and [decode]),
    what makes a value expressible in a version ([_valid]: the fields are values
    of their Rust types, a field the version silently drops has its default, and
    unknown tags are not those of known fields), and the proof that the codec is
    sound.  A structure whose name several modules share carries the name of its
    message.

    consumer_group_describe_request, consumer_group_describe_response,
    consumer_group_heartbeat_request, consumer_group_heartbeat_response,
    consumer_protocol_assignment, consumer_protocol_subscription,
    delete_groups_request, delete_groups_response, describe_groups_request,
    describe_groups_response, find_coordinator_request,
    find_coordinator_response, heartbeat_request, heartbeat_response,
    join_group_request, join_group_response, leave_group_request,
    leave_group_response, list_groups_request, list_groups_response,
    offset_commit_request, offset_commit_response, offset_delete_request,
    offset_delete_response, offset_fetch_request, offset_fetch_response,
    sync_group_request, sync_group_response. *)

From S2P Require Import Prelude Buf Types MessageCodec.
Open Scope Z_scope.

(** ** [consumer_group_describe_request] *)

(* @ src/crates/kafka-protocol/src/messages/consumer_group_describe_request.rs 20-36 ConsumerGroupDescribeRequest *)
Record ConsumerGroupDescribeRequest : Type := mkConsumerGroupDescribeRequest {
  ConsumerGroupDescribeRequest_group_ids : list (list byte);
  ConsumerGroupDescribeRequest_include_authorized_operations : bool;
  ConsumerGroupDescribeRequest_unknown_tagged_fields : TaggedFields
}.

(* @ src/crates/kafka-protocol/src/messages/consumer_group_describe_request.rs 131-139 ConsumerGroupDescribeRequest::default *)
Definition ConsumerGroupDescribeRequest_default : ConsumerGroupDescribeRequest := {|
  ConsumerGroupDescribeRequest_group_ids := [];
  ConsumerGroupDescribeRequest_include_authorized_operations := false;
  ConsumerGroupDescribeRequest_unknown_tagged_fields := ∅
|}.

(* @ src/crates/kafka-protocol/src/messages/consumer_group_describe_request.rs 69-129 ConsumerGroupDescribeRequest::encode, compute_size, decode *)
Definition ConsumerGroupDescribeRequest_codec (version : Z) : Codec ConsumerGroupDescribeRequest :=
  message 0 1 version (build mkConsumerGroupDescribeRequest
    ⊛ (field ConsumerGroupDescribeRequest_group_ids (CompactArray CompactString))
    ⊛ (field ConsumerGroupDescribeRequest_include_authorized_operations Boolean)
    ⊛ unknown_tags true ConsumerGroupDescribeRequest_unknown_tagged_fields).

Definition ConsumerGroupDescribeRequest_valid (version : Z) (x : ConsumerGroupDescribeRequest) : Prop :=
  Forall utf8 (ConsumerGroupDescribeRequest_group_ids x) ∧
  unknown_valid 0 (ConsumerGroupDescribeRequest_unknown_tagged_fields x).

#[global] Instance ConsumerGroupDescribeRequest_sound version : Sound (ConsumerGroupDescribeRequest_codec
    version) (ConsumerGroupDescribeRequest_valid version).
Proof. solve_message. Qed.

(* @ src/crates/kafka-protocol/src/messages/consumer_group_describe_request.rs 146-150 ConsumerGroupDescribeRequest::header_version *)
Definition ConsumerGroupDescribeRequest_header_version (version : Z) : Z := 2.

(* @ src/crates/kafka-protocol/src/messages/consumer_group_describe_request.rs 141-144 ConsumerGroupDescribeRequest::VERSIONS *)
Definition ConsumerGroupDescribeRequest_VERSIONS : Z * Z := (0, 1).

(** ** [consumer_group_describe_response] *)

(* @ src/crates/kafka-protocol/src/messages/consumer_group_describe_response.rs 819-840 TopicPartitions *)
Record ConsumerGroupDescribeResponse_TopicPartitions : Type :=
    mkConsumerGroupDescribeResponse_TopicPartitions {
  ConsumerGroupDescribeResponse_TopicPartitions_topic_id : Z;
  ConsumerGroupDescribeResponse_TopicPartitions_topic_name : list byte;
  ConsumerGroupDescribeResponse_TopicPartitions_partitions : list Z;
  ConsumerGroupDescribeResponse_TopicPartitions_unknown_tagged_fields : TaggedFields
}.

(* @ src/crates/kafka-protocol/src/messages/consumer_group_describe_response.rs 948-957 TopicPartitions::default *)
Definition ConsumerGroupDescribeResponse_TopicPartitions_default :
    ConsumerGroupDescribeResponse_TopicPartitions := {|
  ConsumerGroupDescribeResponse_TopicPartitions_topic_id := 0;
  ConsumerGroupDescribeResponse_TopicPartitions_topic_name := [];
  ConsumerGroupDescribeResponse_TopicPartitions_partitions := [];
  ConsumerGroupDescribeResponse_TopicPartitions_unknown_tagged_fields := ∅
|}.

(* @ src/crates/kafka-protocol/src/messages/consumer_group_describe_response.rs 882-946 TopicPartitions::encode, compute_size, decode *)
Definition ConsumerGroupDescribeResponse_TopicPartitions_codec (version : Z) : Codec
    ConsumerGroupDescribeResponse_TopicPartitions :=
  message 0 1 version (build mkConsumerGroupDescribeResponse_TopicPartitions
    ⊛ (field ConsumerGroupDescribeResponse_TopicPartitions_topic_id Uuid)
    ⊛ (field ConsumerGroupDescribeResponse_TopicPartitions_topic_name CompactString)
    ⊛ (field ConsumerGroupDescribeResponse_TopicPartitions_partitions (CompactArray Int32))
    ⊛ unknown_tags true ConsumerGroupDescribeResponse_TopicPartitions_unknown_tagged_fields).

Definition ConsumerGroupDescribeResponse_TopicPartitions_valid (version : Z) (x :
    ConsumerGroupDescribeResponse_TopicPartitions) : Prop :=
  in_unsigned 128 (ConsumerGroupDescribeResponse_TopicPartitions_topic_id x) ∧
  utf8 (ConsumerGroupDescribeResponse_TopicPartitions_topic_name x) ∧
  Forall (in_signed 32) (ConsumerGroupDescribeResponse_TopicPartitions_partitions x) ∧
  unknown_valid 0 (ConsumerGroupDescribeResponse_TopicPartitions_unknown_tagged_fields x).

#[global] Instance ConsumerGroupDescribeResponse_TopicPartitions_sound version : Sound
    (ConsumerGroupDescribeResponse_TopicPartitions_codec version)
    (ConsumerGroupDescribeResponse_TopicPartitions_valid version).
Proof. solve_message. Qed.

(* @ src/crates/kafka-protocol/src/messages/consumer_group_describe_response.rs 20-31 Assignment *)
Record ConsumerGroupDescribeResponse_Assignment : Type := mkConsumerGroupDescribeResponse_Assignment {
  ConsumerGroupDescribeResponse_Assignment_topic_partitions : list
      ConsumerGroupDescribeResponse_TopicPartitions;
  ConsumerGroupDescribeResponse_Assignment_unknown_tagged_fields : TaggedFields
}.

(* @ src/crates/kafka-protocol/src/messages/consumer_group_describe_response.rs 114-121 Assignment::default *)
Definition ConsumerGroupDescribeResponse_Assignment_default : ConsumerGroupDescribeResponse_Assignment := {|
  ConsumerGroupDescribeResponse_Assignment_topic_partitions := [];
  ConsumerGroupDescribeResponse_Assignment_unknown_tagged_fields := ∅
|}.

(* @ src/crates/kafka-protocol/src/messages/consumer_group_describe_response.rs 55-112 Assignment::encode, compute_size, decode *)
Definition ConsumerGroupDescribeResponse_Assignment_codec (version : Z) : Codec
    ConsumerGroupDescribeResponse_Assignment :=
  message 0 1 version (build mkConsumerGroupDescribeResponse_Assignment
    ⊛ (field ConsumerGroupDescribeResponse_Assignment_topic_partitions (CompactArray (Struct
        ConsumerGroupDescribeResponse_TopicPartitions_codec version)))
    ⊛ unknown_tags true ConsumerGroupDescribeResponse_Assignment_unknown_tagged_fields).

Definition ConsumerGroupDescribeResponse_Assignment_valid (version : Z) (x :
    ConsumerGroupDescribeResponse_Assignment) : Prop :=
  Forall (ConsumerGroupDescribeResponse_TopicPartitions_valid version)
      (ConsumerGroupDescribeResponse_Assignment_topic_partitions x) ∧
  unknown_valid 0 (ConsumerGroupDescribeResponse_Assignment_unknown_tagged_fields x).

#[global] Instance ConsumerGroupDescribeResponse_Assignment_sound version : Sound
    (ConsumerGroupDescribeResponse_Assignment_codec version)
    (ConsumerGroupDescribeResponse_Assignment_valid version).
Proof. solve_message. Qed.

(* @ src/crates/kafka-protocol/src/messages/consumer_group_describe_response.rs 513-574 Member *)
Record ConsumerGroupDescribeResponse_Member : Type := mkConsumerGroupDescribeResponse_Member {
  ConsumerGroupDescribeResponse_Member_member_id : list byte;
  ConsumerGroupDescribeResponse_Member_instance_id : option (list byte);
  ConsumerGroupDescribeResponse_Member_rack_id : option (list byte);
  ConsumerGroupDescribeResponse_Member_member_epoch : Z;
  ConsumerGroupDescribeResponse_Member_client_id : list byte;
  ConsumerGroupDescribeResponse_Member_client_host : list byte;
  ConsumerGroupDescribeResponse_Member_subscribed_topic_names : list (list byte);
  ConsumerGroupDescribeResponse_Member_subscribed_topic_regex : option (list byte);
  ConsumerGroupDescribeResponse_Member_assignment : ConsumerGroupDescribeResponse_Assignment;
  ConsumerGroupDescribeResponse_Member_target_assignment : ConsumerGroupDescribeResponse_Assignment;
  ConsumerGroupDescribeResponse_Member_member_type : Z;
  ConsumerGroupDescribeResponse_Member_unknown_tagged_fields : TaggedFields
}.

(* @ src/crates/kafka-protocol/src/messages/consumer_group_describe_response.rs 795-812 Member::default *)
Definition ConsumerGroupDescribeResponse_Member_default : ConsumerGroupDescribeResponse_Member := {|
  ConsumerGroupDescribeResponse_Member_member_id := [];
  ConsumerGroupDescribeResponse_Member_instance_id := None;
  ConsumerGroupDescribeResponse_Member_rack_id := None;
  ConsumerGroupDescribeResponse_Member_member_epoch := 0;
  ConsumerGroupDescribeResponse_Member_client_id := [];
  ConsumerGroupDescribeResponse_Member_client_host := [];
  ConsumerGroupDescribeResponse_Member_subscribed_topic_names := [];
  ConsumerGroupDescribeResponse_Member_subscribed_topic_regex := None;
  ConsumerGroupDescribeResponse_Member_assignment := ConsumerGroupDescribeResponse_Assignment_default;
  ConsumerGroupDescribeResponse_Member_target_assignment :=
      ConsumerGroupDescribeResponse_Assignment_default;
  ConsumerGroupDescribeResponse_Member_member_type := -1;
  ConsumerGroupDescribeResponse_Member_unknown_tagged_fields := ∅
|}.

(* @ src/crates/kafka-protocol/src/messages/consumer_group_describe_response.rs 688-793 Member::encode, compute_size, decode *)
Definition ConsumerGroupDescribeResponse_Member_codec (version : Z) : Codec
    ConsumerGroupDescribeResponse_Member :=
  message 0 1 version (build mkConsumerGroupDescribeResponse_Member
    ⊛ (field ConsumerGroupDescribeResponse_Member_member_id CompactString)
    ⊛ (field ConsumerGroupDescribeResponse_Member_instance_id NullableCompactString)
    ⊛ (field ConsumerGroupDescribeResponse_Member_rack_id NullableCompactString)
    ⊛ (field ConsumerGroupDescribeResponse_Member_member_epoch Int32)
    ⊛ (field ConsumerGroupDescribeResponse_Member_client_id CompactString)
    ⊛ (field ConsumerGroupDescribeResponse_Member_client_host CompactString)
    ⊛ (field ConsumerGroupDescribeResponse_Member_subscribed_topic_names (CompactArray CompactString))
    ⊛ (field ConsumerGroupDescribeResponse_Member_subscribed_topic_regex NullableCompactString)
    ⊛ (field ConsumerGroupDescribeResponse_Member_assignment (Struct
        ConsumerGroupDescribeResponse_Assignment_codec version))
    ⊛ (field ConsumerGroupDescribeResponse_Member_target_assignment (Struct
        ConsumerGroupDescribeResponse_Assignment_codec version))
    ⊛ (if 1 <=? version then field ConsumerGroupDescribeResponse_Member_member_type Int8 else ignored (-1))
    ⊛ unknown_tags true ConsumerGroupDescribeResponse_Member_unknown_tagged_fields).

Definition ConsumerGroupDescribeResponse_Member_valid (version : Z) (x :
    ConsumerGroupDescribeResponse_Member) : Prop :=
  utf8 (ConsumerGroupDescribeResponse_Member_member_id x) ∧
  opt_all utf8 (ConsumerGroupDescribeResponse_Member_instance_id x) ∧
  opt_all utf8 (ConsumerGroupDescribeResponse_Member_rack_id x) ∧
  in_signed 32 (ConsumerGroupDescribeResponse_Member_member_epoch x) ∧
  utf8 (ConsumerGroupDescribeResponse_Member_client_id x) ∧
  utf8 (ConsumerGroupDescribeResponse_Member_client_host x) ∧
  Forall utf8 (ConsumerGroupDescribeResponse_Member_subscribed_topic_names x) ∧
  opt_all utf8 (ConsumerGroupDescribeResponse_Member_subscribed_topic_regex x) ∧
  ConsumerGroupDescribeResponse_Assignment_valid version (ConsumerGroupDescribeResponse_Member_assignment
      x) ∧
  ConsumerGroupDescribeResponse_Assignment_valid version
      (ConsumerGroupDescribeResponse_Member_target_assignment x) ∧
  (if 1 <=? version then in_signed 8 (ConsumerGroupDescribeResponse_Member_member_type x) else
      ConsumerGroupDescribeResponse_Member_member_type x = (-1)) ∧
  unknown_valid 0 (ConsumerGroupDescribeResponse_Member_unknown_tagged_fields x).

#[global] Instance ConsumerGroupDescribeResponse_Member_sound version : Sound
    (ConsumerGroupDescribeResponse_Member_codec version) (ConsumerGroupDescribeResponse_Member_valid
    version).
Proof. solve_message. Qed.

(* @ src/crates/kafka-protocol/src/messages/consumer_group_describe_response.rs 254-305 DescribedGroup *)
Record ConsumerGroupDescribeResponse_DescribedGroup : Type :=
    mkConsumerGroupDescribeResponse_DescribedGroup {
  ConsumerGroupDescribeResponse_DescribedGroup_error_code : Z;
  ConsumerGroupDescribeResponse_DescribedGroup_error_message : option (list byte);
  ConsumerGroupDescribeResponse_DescribedGroup_group_id : list byte;
  ConsumerGroupDescribeResponse_DescribedGroup_group_state : list byte;
  ConsumerGroupDescribeResponse_DescribedGroup_group_epoch : Z;
  ConsumerGroupDescribeResponse_DescribedGroup_assignment_epoch : Z;
  ConsumerGroupDescribeResponse_DescribedGroup_assignor_name : list byte;
  ConsumerGroupDescribeResponse_DescribedGroup_members : list ConsumerGroupDescribeResponse_Member;
  ConsumerGroupDescribeResponse_DescribedGroup_authorized_operations : Z;
  ConsumerGroupDescribeResponse_DescribedGroup_unknown_tagged_fields : TaggedFields
}.

(* @ src/crates/kafka-protocol/src/messages/consumer_group_describe_response.rs 491-506 DescribedGroup::default *)
Definition ConsumerGroupDescribeResponse_DescribedGroup_default :
    ConsumerGroupDescribeResponse_DescribedGroup := {|
  ConsumerGroupDescribeResponse_DescribedGroup_error_code := 0;
  ConsumerGroupDescribeResponse_DescribedGroup_error_message := None;
  ConsumerGroupDescribeResponse_DescribedGroup_group_id := [];
  ConsumerGroupDescribeResponse_DescribedGroup_group_state := [];
  ConsumerGroupDescribeResponse_DescribedGroup_group_epoch := 0;
  ConsumerGroupDescribeResponse_DescribedGroup_assignment_epoch := 0;
  ConsumerGroupDescribeResponse_DescribedGroup_assignor_name := [];
  ConsumerGroupDescribeResponse_DescribedGroup_members := [];
  ConsumerGroupDescribeResponse_DescribedGroup_authorized_operations := -2147483648;
  ConsumerGroupDescribeResponse_DescribedGroup_unknown_tagged_fields := ∅
|}.

(* @ src/crates/kafka-protocol/src/messages/consumer_group_describe_response.rs 401-489 DescribedGroup::encode, compute_size, decode *)
Definition ConsumerGroupDescribeResponse_DescribedGroup_codec (version : Z) : Codec
    ConsumerGroupDescribeResponse_DescribedGroup :=
  message 0 1 version (build mkConsumerGroupDescribeResponse_DescribedGroup
    ⊛ (field ConsumerGroupDescribeResponse_DescribedGroup_error_code Int16)
    ⊛ (field ConsumerGroupDescribeResponse_DescribedGroup_error_message NullableCompactString)
    ⊛ (field ConsumerGroupDescribeResponse_DescribedGroup_group_id CompactString)
    ⊛ (field ConsumerGroupDescribeResponse_DescribedGroup_group_state CompactString)
    ⊛ (field ConsumerGroupDescribeResponse_DescribedGroup_group_epoch Int32)
    ⊛ (field ConsumerGroupDescribeResponse_DescribedGroup_assignment_epoch Int32)
    ⊛ (field ConsumerGroupDescribeResponse_DescribedGroup_assignor_name CompactString)
    ⊛ (field ConsumerGroupDescribeResponse_DescribedGroup_members (CompactArray (Struct
        ConsumerGroupDescribeResponse_Member_codec version)))
    ⊛ (field ConsumerGroupDescribeResponse_DescribedGroup_authorized_operations Int32)
    ⊛ unknown_tags true ConsumerGroupDescribeResponse_DescribedGroup_unknown_tagged_fields).

Definition ConsumerGroupDescribeResponse_DescribedGroup_valid (version : Z) (x :
    ConsumerGroupDescribeResponse_DescribedGroup) : Prop :=
  in_signed 16 (ConsumerGroupDescribeResponse_DescribedGroup_error_code x) ∧
  opt_all utf8 (ConsumerGroupDescribeResponse_DescribedGroup_error_message x) ∧
  utf8 (ConsumerGroupDescribeResponse_DescribedGroup_group_id x) ∧
  utf8 (ConsumerGroupDescribeResponse_DescribedGroup_group_state x) ∧
  in_signed 32 (ConsumerGroupDescribeResponse_DescribedGroup_group_epoch x) ∧
  in_signed 32 (ConsumerGroupDescribeResponse_DescribedGroup_assignment_epoch x) ∧
  utf8 (ConsumerGroupDescribeResponse_DescribedGroup_assignor_name x) ∧
  Forall (ConsumerGroupDescribeResponse_Member_valid version)
      (ConsumerGroupDescribeResponse_DescribedGroup_members x) ∧
  in_signed 32 (ConsumerGroupDescribeResponse_DescribedGroup_authorized_operations x) ∧
  unknown_valid 0 (ConsumerGroupDescribeResponse_DescribedGroup_unknown_tagged_fields x).

#[global] Instance ConsumerGroupDescribeResponse_DescribedGroup_sound version : Sound
    (ConsumerGroupDescribeResponse_DescribedGroup_codec version)
    (ConsumerGroupDescribeResponse_DescribedGroup_valid version).
Proof. solve_message. Qed.

(* @ src/crates/kafka-protocol/src/messages/consumer_group_describe_response.rs 128-144 ConsumerGroupDescribeResponse *)
Record ConsumerGroupDescribeResponse : Type := mkConsumerGroupDescribeResponse {
  ConsumerGroupDescribeResponse_throttle_time_ms : Z;
  ConsumerGroupDescribeResponse_groups : list ConsumerGroupDescribeResponse_DescribedGroup;
  ConsumerGroupDescribeResponse_unknown_tagged_fields : TaggedFields
}.

(* @ src/crates/kafka-protocol/src/messages/consumer_group_describe_response.rs 239-247 ConsumerGroupDescribeResponse::default *)
Definition ConsumerGroupDescribeResponse_default : ConsumerGroupDescribeResponse := {|
  ConsumerGroupDescribeResponse_throttle_time_ms := 0;
  ConsumerGroupDescribeResponse_groups := [];
  ConsumerGroupDescribeResponse_unknown_tagged_fields := ∅
|}.

(* @ src/crates/kafka-protocol/src/messages/consumer_group_describe_response.rs 177-237 ConsumerGroupDescribeResponse::encode, compute_size, decode *)
Definition ConsumerGroupDescribeResponse_codec (version : Z) : Codec ConsumerGroupDescribeResponse :=
  message 0 1 version (build mkConsumerGroupDescribeResponse
    ⊛ (field ConsumerGroupDescribeResponse_throttle_time_ms Int32)
    ⊛ (field ConsumerGroupDescribeResponse_groups (CompactArray (Struct
        ConsumerGroupDescribeResponse_DescribedGroup_codec version)))
    ⊛ unknown_tags true ConsumerGroupDescribeResponse_unknown_tagged_fields).

Definition ConsumerGroupDescribeResponse_valid (version : Z) (x : ConsumerGroupDescribeResponse) : Prop :=
  in_signed 32 (ConsumerGroupDescribeResponse_throttle_time_ms x) ∧
  Forall (ConsumerGroupDescribeResponse_DescribedGroup_valid version) (ConsumerGroupDescribeResponse_groups
      x) ∧
  unknown_valid 0 (ConsumerGroupDescribeResponse_unknown_tagged_fields x).

#[global] Instance ConsumerGroupDescribeResponse_sound version : Sound (ConsumerGroupDescribeResponse_codec
    version) (ConsumerGroupDescribeResponse_valid version).
Proof. solve_message. Qed.

(* @ src/crates/kafka-protocol/src/messages/consumer_group_describe_response.rs 964-968 ConsumerGroupDescribeResponse::header_version *)
Definition ConsumerGroupDescribeResponse_header_version (version : Z) : Z := 1.

(* @ src/crates/kafka-protocol/src/messages/consumer_group_describe_response.rs 249-252 ConsumerGroupDescribeResponse::VERSIONS *)
Definition ConsumerGroupDescribeResponse_VERSIONS : Z * Z := (0, 1).

(** ** [consumer_group_heartbeat_request] *)

(* @ src/crates/kafka-protocol/src/messages/consumer_group_heartbeat_request.rs 316-332 TopicPartitions *)
Record ConsumerGroupHeartbeatRequest_TopicPartitions : Type :=
    mkConsumerGroupHeartbeatRequest_TopicPartitions {
  ConsumerGroupHeartbeatRequest_TopicPartitions_topic_id : Z;
  ConsumerGroupHeartbeatRequest_TopicPartitions_partitions : list Z;
  ConsumerGroupHeartbeatRequest_TopicPartitions_unknown_tagged_fields : TaggedFields
}.

(* @ src/crates/kafka-protocol/src/messages/consumer_group_heartbeat_request.rs 427-435 TopicPartitions::default *)
Definition ConsumerGroupHeartbeatRequest_TopicPartitions_default :
    ConsumerGroupHeartbeatRequest_TopicPartitions := {|
  ConsumerGroupHeartbeatRequest_TopicPartitions_topic_id := 0;
  ConsumerGroupHeartbeatRequest_TopicPartitions_partitions := [];
  ConsumerGroupHeartbeatRequest_TopicPartitions_unknown_tagged_fields := ∅
|}.

(* @ src/crates/kafka-protocol/src/messages/consumer_group_heartbeat_request.rs 365-425 TopicPartitions::encode, compute_size, decode *)
Definition ConsumerGroupHeartbeatRequest_TopicPartitions_codec (version : Z) : Codec
    ConsumerGroupHeartbeatRequest_TopicPartitions :=
  message 0 1 version (build mkConsumerGroupHeartbeatRequest_TopicPartitions
    ⊛ (field ConsumerGroupHeartbeatRequest_TopicPartitions_topic_id Uuid)
    ⊛ (field ConsumerGroupHeartbeatRequest_TopicPartitions_partitions (CompactArray Int32))
    ⊛ unknown_tags true ConsumerGroupHeartbeatRequest_TopicPartitions_unknown_tagged_fields).

Definition ConsumerGroupHeartbeatRequest_TopicPartitions_valid (version : Z) (x :
    ConsumerGroupHeartbeatRequest_TopicPartitions) : Prop :=
  in_unsigned 128 (ConsumerGroupHeartbeatRequest_TopicPartitions_topic_id x) ∧
  Forall (in_signed 32) (ConsumerGroupHeartbeatRequest_TopicPartitions_partitions x) ∧
  unknown_valid 0 (ConsumerGroupHeartbeatRequest_TopicPartitions_unknown_tagged_fields x).

#[global] Instance ConsumerGroupHeartbeatRequest_TopicPartitions_sound version : Sound
    (ConsumerGroupHeartbeatRequest_TopicPartitions_codec version)
    (ConsumerGroupHeartbeatRequest_TopicPartitions_valid version).
Proof. solve_message. Qed.

(* @ src/crates/kafka-protocol/src/messages/consumer_group_heartbeat_request.rs 20-76 ConsumerGroupHeartbeatRequest *)
Record ConsumerGroupHeartbeatRequest : Type := mkConsumerGroupHeartbeatRequest {
  ConsumerGroupHeartbeatRequest_group_id : list byte;
  ConsumerGroupHeartbeatRequest_member_id : list byte;
  ConsumerGroupHeartbeatRequest_member_epoch : Z;
  ConsumerGroupHeartbeatRequest_instance_id : option (list byte);
  ConsumerGroupHeartbeatRequest_rack_id : option (list byte);
  ConsumerGroupHeartbeatRequest_rebalance_timeout_ms : Z;
  ConsumerGroupHeartbeatRequest_subscribed_topic_names : option (list (list byte));
  ConsumerGroupHeartbeatRequest_subscribed_topic_regex : option (list byte);
  ConsumerGroupHeartbeatRequest_server_assignor : option (list byte);
  ConsumerGroupHeartbeatRequest_topic_partitions : option (list
      ConsumerGroupHeartbeatRequest_TopicPartitions);
  ConsumerGroupHeartbeatRequest_unknown_tagged_fields : TaggedFields
}.

(* @ src/crates/kafka-protocol/src/messages/consumer_group_heartbeat_request.rs 293-309 ConsumerGroupHeartbeatRequest::default *)
Definition ConsumerGroupHeartbeatRequest_default : ConsumerGroupHeartbeatRequest := {|
  ConsumerGroupHeartbeatRequest_group_id := [];
  ConsumerGroupHeartbeatRequest_member_id := [];
  ConsumerGroupHeartbeatRequest_member_epoch := 0;
  ConsumerGroupHeartbeatRequest_instance_id := None;
  ConsumerGroupHeartbeatRequest_rack_id := None;
  ConsumerGroupHeartbeatRequest_rebalance_timeout_ms := -1;
  ConsumerGroupHeartbeatRequest_subscribed_topic_names := None;
  ConsumerGroupHeartbeatRequest_subscribed_topic_regex := None;
  ConsumerGroupHeartbeatRequest_server_assignor := None;
  ConsumerGroupHeartbeatRequest_topic_partitions := None;
  ConsumerGroupHeartbeatRequest_unknown_tagged_fields := ∅
|}.

(* @ src/crates/kafka-protocol/src/messages/consumer_group_heartbeat_request.rs 181-291 ConsumerGroupHeartbeatRequest::encode, compute_size, decode *)
Definition ConsumerGroupHeartbeatRequest_codec (version : Z) : Codec ConsumerGroupHeartbeatRequest :=
  message 0 1 version (build mkConsumerGroupHeartbeatRequest
    ⊛ (field ConsumerGroupHeartbeatRequest_group_id CompactString)
    ⊛ (field ConsumerGroupHeartbeatRequest_member_id CompactString)
    ⊛ (field ConsumerGroupHeartbeatRequest_member_epoch Int32)
    ⊛ (field ConsumerGroupHeartbeatRequest_instance_id NullableCompactString)
    ⊛ (field ConsumerGroupHeartbeatRequest_rack_id NullableCompactString)
    ⊛ (field ConsumerGroupHeartbeatRequest_rebalance_timeout_ms Int32)
    ⊛ (field ConsumerGroupHeartbeatRequest_subscribed_topic_names (NullableCompactArray CompactString))
    ⊛ (if 1 <=? version then field ConsumerGroupHeartbeatRequest_subscribed_topic_regex
        NullableCompactString else unset ConsumerGroupHeartbeatRequest_subscribed_topic_regex is_none None)
    ⊛ (field ConsumerGroupHeartbeatRequest_server_assignor NullableCompactString)
    ⊛ (field ConsumerGroupHeartbeatRequest_topic_partitions (NullableCompactArray (Struct
        ConsumerGroupHeartbeatRequest_TopicPartitions_codec version)))
    ⊛ unknown_tags true ConsumerGroupHeartbeatRequest_unknown_tagged_fields).

Definition ConsumerGroupHeartbeatRequest_valid (version : Z) (x : ConsumerGroupHeartbeatRequest) : Prop :=
  utf8 (ConsumerGroupHeartbeatRequest_group_id x) ∧
  utf8 (ConsumerGroupHeartbeatRequest_member_id x) ∧
  in_signed 32 (ConsumerGroupHeartbeatRequest_member_epoch x) ∧
  opt_all utf8 (ConsumerGroupHeartbeatRequest_instance_id x) ∧
  opt_all utf8 (ConsumerGroupHeartbeatRequest_rack_id x) ∧
  in_signed 32 (ConsumerGroupHeartbeatRequest_rebalance_timeout_ms x) ∧
  opt_all (Forall utf8) (ConsumerGroupHeartbeatRequest_subscribed_topic_names x) ∧
  opt_all utf8 (ConsumerGroupHeartbeatRequest_subscribed_topic_regex x) ∧
  opt_all utf8 (ConsumerGroupHeartbeatRequest_server_assignor x) ∧
  opt_all (Forall (ConsumerGroupHeartbeatRequest_TopicPartitions_valid version))
      (ConsumerGroupHeartbeatRequest_topic_partitions x) ∧
  unknown_valid 0 (ConsumerGroupHeartbeatRequest_unknown_tagged_fields x).

#[global] Instance ConsumerGroupHeartbeatRequest_sound version : Sound (ConsumerGroupHeartbeatRequest_codec
    version) (ConsumerGroupHeartbeatRequest_valid version).
Proof. solve_message. Qed.

(* @ src/crates/kafka-protocol/src/messages/consumer_group_heartbeat_request.rs 442-446 ConsumerGroupHeartbeatRequest::header_version *)
Definition ConsumerGroupHeartbeatRequest_header_version (version : Z) : Z := 2.

(* @ src/crates/kafka-protocol/src/messages/consumer_group_heartbeat_request.rs 311-314 ConsumerGroupHeartbeatRequest::VERSIONS *)
Definition ConsumerGroupHeartbeatRequest_VERSIONS : Z * Z := (0, 1).

(** ** [consumer_group_heartbeat_response] *)

(* @ src/crates/kafka-protocol/src/messages/consumer_group_heartbeat_response.rs 349-365 TopicPartitions *)
Record ConsumerGroupHeartbeatResponse_TopicPartitions : Type :=
    mkConsumerGroupHeartbeatResponse_TopicPartitions {
  ConsumerGroupHeartbeatResponse_TopicPartitions_topic_id : Z;
  ConsumerGroupHeartbeatResponse_TopicPartitions_partitions : list Z;
  ConsumerGroupHeartbeatResponse_TopicPartitions_unknown_tagged_fields : TaggedFields
}.

(* @ src/crates/kafka-protocol/src/messages/consumer_group_heartbeat_response.rs 460-468 TopicPartitions::default *)
Definition ConsumerGroupHeartbeatResponse_TopicPartitions_default :
    ConsumerGroupHeartbeatResponse_TopicPartitions := {|
  ConsumerGroupHeartbeatResponse_TopicPartitions_topic_id := 0;
  ConsumerGroupHeartbeatResponse_TopicPartitions_partitions := [];
  ConsumerGroupHeartbeatResponse_TopicPartitions_unknown_tagged_fields := ∅
|}.

(* @ src/crates/kafka-protocol/src/messages/consumer_group_heartbeat_response.rs 398-458 TopicPartitions::encode, compute_size, decode *)
Definition ConsumerGroupHeartbeatResponse_TopicPartitions_codec (version : Z) : Codec
    ConsumerGroupHeartbeatResponse_TopicPartitions :=
  message 0 1 version (build mkConsumerGroupHeartbeatResponse_TopicPartitions
    ⊛ (field ConsumerGroupHeartbeatResponse_TopicPartitions_topic_id Uuid)
    ⊛ (field ConsumerGroupHeartbeatResponse_TopicPartitions_partitions (CompactArray Int32))
    ⊛ unknown_tags true ConsumerGroupHeartbeatResponse_TopicPartitions_unknown_tagged_fields).

Definition ConsumerGroupHeartbeatResponse_TopicPartitions_valid (version : Z) (x :
    ConsumerGroupHeartbeatResponse_TopicPartitions) : Prop :=
  in_unsigned 128 (ConsumerGroupHeartbeatResponse_TopicPartitions_topic_id x) ∧
  Forall (in_signed 32) (ConsumerGroupHeartbeatResponse_TopicPartitions_partitions x) ∧
  unknown_valid 0 (ConsumerGroupHeartbeatResponse_TopicPartitions_unknown_tagged_fields x).

#[global] Instance ConsumerGroupHeartbeatResponse_TopicPartitions_sound version : Sound
    (ConsumerGroupHeartbeatResponse_TopicPartitions_codec version)
    (ConsumerGroupHeartbeatResponse_TopicPartitions_valid version).
Proof. solve_message. Qed.

(* @ src/crates/kafka-protocol/src/messages/consumer_group_heartbeat_response.rs 20-31 Assignment *)
Record ConsumerGroupHeartbeatResponse_Assignment : Type := mkConsumerGroupHeartbeatResponse_Assignment {
  ConsumerGroupHeartbeatResponse_Assignment_topic_partitions : list
      ConsumerGroupHeartbeatResponse_TopicPartitions;
  ConsumerGroupHeartbeatResponse_Assignment_unknown_tagged_fields : TaggedFields
}.

(* @ src/crates/kafka-protocol/src/messages/consumer_group_heartbeat_response.rs 114-121 Assignment::default *)
Definition ConsumerGroupHeartbeatResponse_Assignment_default : ConsumerGroupHeartbeatResponse_Assignment :=
    {|
  ConsumerGroupHeartbeatResponse_Assignment_topic_partitions := [];
  ConsumerGroupHeartbeatResponse_Assignment_unknown_tagged_fields := ∅
|}.

(* @ src/crates/kafka-protocol/src/messages/consumer_group_heartbeat_response.rs 55-112 Assignment::encode, compute_size, decode *)
Definition ConsumerGroupHeartbeatResponse_Assignment_codec (version : Z) : Codec
    ConsumerGroupHeartbeatResponse_Assignment :=
  message 0 1 version (build mkConsumerGroupHeartbeatResponse_Assignment
    ⊛ (field ConsumerGroupHeartbeatResponse_Assignment_topic_partitions (CompactArray (Struct
        ConsumerGroupHeartbeatResponse_TopicPartitions_codec version)))
    ⊛ unknown_tags true ConsumerGroupHeartbeatResponse_Assignment_unknown_tagged_fields).

Definition ConsumerGroupHeartbeatResponse_Assignment_valid (version : Z) (x :
    ConsumerGroupHeartbeatResponse_Assignment) : Prop :=
  Forall (ConsumerGroupHeartbeatResponse_TopicPartitions_valid version)
      (ConsumerGroupHeartbeatResponse_Assignment_topic_partitions x) ∧
  unknown_valid 0 (ConsumerGroupHeartbeatResponse_Assignment_unknown_tagged_fields x).

#[global] Instance ConsumerGroupHeartbeatResponse_Assignment_sound version : Sound
    (ConsumerGroupHeartbeatResponse_Assignment_codec version)
    (ConsumerGroupHeartbeatResponse_Assignment_valid version).
Proof. solve_message. Qed.

(* @ src/crates/kafka-protocol/src/messages/consumer_group_heartbeat_response.rs 128-169 ConsumerGroupHeartbeatResponse *)
Record ConsumerGroupHeartbeatResponse : Type := mkConsumerGroupHeartbeatResponse {
  ConsumerGroupHeartbeatResponse_throttle_time_ms : Z;
  ConsumerGroupHeartbeatResponse_error_code : Z;
  ConsumerGroupHeartbeatResponse_error_message : option (list byte);
  ConsumerGroupHeartbeatResponse_member_id : option (list byte);
  ConsumerGroupHeartbeatResponse_member_epoch : Z;
  ConsumerGroupHeartbeatResponse_heartbeat_interval_ms : Z;
  ConsumerGroupHeartbeatResponse_assignment : option ConsumerGroupHeartbeatResponse_Assignment;
  ConsumerGroupHeartbeatResponse_unknown_tagged_fields : TaggedFields
}.

(* @ src/crates/kafka-protocol/src/messages/consumer_group_heartbeat_response.rs 329-342 ConsumerGroupHeartbeatResponse::default *)
Definition ConsumerGroupHeartbeatResponse_default : ConsumerGroupHeartbeatResponse := {|
  ConsumerGroupHeartbeatResponse_throttle_time_ms := 0;
  ConsumerGroupHeartbeatResponse_error_code := 0;
  ConsumerGroupHeartbeatResponse_error_message := None;
  ConsumerGroupHeartbeatResponse_member_id := None;
  ConsumerGroupHeartbeatResponse_member_epoch := 0;
  ConsumerGroupHeartbeatResponse_heartbeat_interval_ms := 0;
  ConsumerGroupHeartbeatResponse_assignment := None;
  ConsumerGroupHeartbeatResponse_unknown_tagged_fields := ∅
|}.

(* @ src/crates/kafka-protocol/src/messages/consumer_group_heartbeat_response.rs 247-327 ConsumerGroupHeartbeatResponse::encode, compute_size, decode *)
Definition ConsumerGroupHeartbeatResponse_codec (version : Z) : Codec ConsumerGroupHeartbeatResponse :=
  message 0 1 version (build mkConsumerGroupHeartbeatResponse
    ⊛ (field ConsumerGroupHeartbeatResponse_throttle_time_ms Int32)
    ⊛ (field ConsumerGroupHeartbeatResponse_error_code Int16)
    ⊛ (field ConsumerGroupHeartbeatResponse_error_message NullableCompactString)
    ⊛ (field ConsumerGroupHeartbeatResponse_member_id NullableCompactString)
    ⊛ (field ConsumerGroupHeartbeatResponse_member_epoch Int32)
    ⊛ (field ConsumerGroupHeartbeatResponse_heartbeat_interval_ms Int32)
    ⊛ (field ConsumerGroupHeartbeatResponse_assignment (OptionStruct
        ConsumerGroupHeartbeatResponse_Assignment_codec version))
    ⊛ unknown_tags true ConsumerGroupHeartbeatResponse_unknown_tagged_fields).

Definition ConsumerGroupHeartbeatResponse_valid (version : Z) (x : ConsumerGroupHeartbeatResponse) : Prop :=
  in_signed 32 (ConsumerGroupHeartbeatResponse_throttle_time_ms x) ∧
  in_signed 16 (ConsumerGroupHeartbeatResponse_error_code x) ∧
  opt_all utf8 (ConsumerGroupHeartbeatResponse_error_message x) ∧
  opt_all utf8 (ConsumerGroupHeartbeatResponse_member_id x) ∧
  in_signed 32 (ConsumerGroupHeartbeatResponse_member_epoch x) ∧
  in_signed 32 (ConsumerGroupHeartbeatResponse_heartbeat_interval_ms x) ∧
  opt_all (ConsumerGroupHeartbeatResponse_Assignment_valid version)
      (ConsumerGroupHeartbeatResponse_assignment x) ∧
  unknown_valid 0 (ConsumerGroupHeartbeatResponse_unknown_tagged_fields x).

#[global] Instance ConsumerGroupHeartbeatResponse_sound version : Sound
    (ConsumerGroupHeartbeatResponse_codec version) (ConsumerGroupHeartbeatResponse_valid version).
Proof. solve_message. Qed.

(* @ src/crates/kafka-protocol/src/messages/consumer_group_heartbeat_response.rs 475-479 ConsumerGroupHeartbeatResponse::header_version *)
Definition ConsumerGroupHeartbeatResponse_header_version (version : Z) : Z := 1.

(* @ src/crates/kafka-protocol/src/messages/consumer_group_heartbeat_response.rs 344-347 ConsumerGroupHeartbeatResponse::VERSIONS *)
Definition ConsumerGroupHeartbeatResponse_VERSIONS : Z * Z := (0, 1).

(** ** [consumer_protocol_assignment] *)

(* @ src/crates/kafka-protocol/src/messages/consumer_protocol_assignment.rs 104-117 TopicPartition *)
Record ConsumerProtocolAssignment_TopicPartition : Type := mkConsumerProtocolAssignment_TopicPartition {
  ConsumerProtocolAssignment_TopicPartition_topic : list byte;
  ConsumerProtocolAssignment_TopicPartition_partitions : list Z
}.

(* @ src/crates/kafka-protocol/src/messages/consumer_protocol_assignment.rs 170-177 TopicPartition::default *)
Definition ConsumerProtocolAssignment_TopicPartition_default : ConsumerProtocolAssignment_TopicPartition :=
    {|
  ConsumerProtocolAssignment_TopicPartition_topic := [];
  ConsumerProtocolAssignment_TopicPartition_partitions := []
|}.

(* @ src/crates/kafka-protocol/src/messages/consumer_protocol_assignment.rs 140-168 TopicPartition::encode, compute_size, decode *)
Definition ConsumerProtocolAssignment_TopicPartition_codec (version : Z) : Codec
    ConsumerProtocolAssignment_TopicPartition :=
  message 0 3 version (build mkConsumerProtocolAssignment_TopicPartition
    ⊛ (field ConsumerProtocolAssignment_TopicPartition_topic KafkaString)
    ⊛ (field ConsumerProtocolAssignment_TopicPartition_partitions (Array Int32))).

Definition ConsumerProtocolAssignment_TopicPartition_valid (version : Z) (x :
    ConsumerProtocolAssignment_TopicPartition) : Prop :=
  utf8 (ConsumerProtocolAssignment_TopicPartition_topic x) ∧
  Forall (in_signed 32) (ConsumerProtocolAssignment_TopicPartition_partitions x).

#[global] Instance ConsumerProtocolAssignment_TopicPartition_sound version : Sound
    (ConsumerProtocolAssignment_TopicPartition_codec version)
    (ConsumerProtocolAssignment_TopicPartition_valid version).
Proof. solve_message. Qed.

(* @ src/crates/kafka-protocol/src/messages/consumer_protocol_assignment.rs 20-33 ConsumerProtocolAssignment *)
Record ConsumerProtocolAssignment : Type := mkConsumerProtocolAssignment {
  ConsumerProtocolAssignment_assigned_partitions : list ConsumerProtocolAssignment_TopicPartition;
  ConsumerProtocolAssignment_user_data : option (list byte)
}.

(* @ src/crates/kafka-protocol/src/messages/consumer_protocol_assignment.rs 90-97 ConsumerProtocolAssignment::default *)
Definition ConsumerProtocolAssignment_default : ConsumerProtocolAssignment := {|
  ConsumerProtocolAssignment_assigned_partitions := [];
  ConsumerProtocolAssignment_user_data := None
|}.

(* @ src/crates/kafka-protocol/src/messages/consumer_protocol_assignment.rs 56-88 ConsumerProtocolAssignment::encode, compute_size, decode *)
Definition ConsumerProtocolAssignment_codec (version : Z) : Codec ConsumerProtocolAssignment :=
  message 0 3 version (build mkConsumerProtocolAssignment
    ⊛ (field ConsumerProtocolAssignment_assigned_partitions (Array (Struct
        ConsumerProtocolAssignment_TopicPartition_codec version)))
    ⊛ (field ConsumerProtocolAssignment_user_data NullableBytes)).

Definition ConsumerProtocolAssignment_valid (version : Z) (x : ConsumerProtocolAssignment) : Prop :=
  Forall (ConsumerProtocolAssignment_TopicPartition_valid version)
      (ConsumerProtocolAssignment_assigned_partitions x).

#[global] Instance ConsumerProtocolAssignment_sound version : Sound (ConsumerProtocolAssignment_codec
    version) (ConsumerProtocolAssignment_valid version).
Proof. solve_message. Qed.

(** ** [consumer_protocol_subscription] *)

(* @ src/crates/kafka-protocol/src/messages/consumer_protocol_subscription.rs 185-198 TopicPartition *)
Record ConsumerProtocolSubscription_TopicPartition : Type := mkConsumerProtocolSubscription_TopicPartition {
  ConsumerProtocolSubscription_TopicPartition_topic : list byte;
  ConsumerProtocolSubscription_TopicPartition_partitions : list Z
}.

(* @ src/crates/kafka-protocol/src/messages/consumer_protocol_subscription.rs 283-290 TopicPartition::default *)
Definition ConsumerProtocolSubscription_TopicPartition_default :
    ConsumerProtocolSubscription_TopicPartition := {|
  ConsumerProtocolSubscription_TopicPartition_topic := [];
  ConsumerProtocolSubscription_TopicPartition_partitions := []
|}.

(* @ src/crates/kafka-protocol/src/messages/consumer_protocol_subscription.rs 221-281 TopicPartition::encode, compute_size, decode *)
Definition ConsumerProtocolSubscription_TopicPartition_codec (version : Z) : Codec
    ConsumerProtocolSubscription_TopicPartition :=
  message 0 3 version (build mkConsumerProtocolSubscription_TopicPartition
    ⊛ (if 1 <=? version then field ConsumerProtocolSubscription_TopicPartition_topic KafkaString else unset
        ConsumerProtocolSubscription_TopicPartition_topic is_empty [])
    ⊛ (if 1 <=? version then field ConsumerProtocolSubscription_TopicPartition_partitions (Array Int32)
        else unset ConsumerProtocolSubscription_TopicPartition_partitions is_empty [])).

Definition ConsumerProtocolSubscription_TopicPartition_valid (version : Z) (x :
    ConsumerProtocolSubscription_TopicPartition) : Prop :=
  utf8 (ConsumerProtocolSubscription_TopicPartition_topic x) ∧
  Forall (in_signed 32) (ConsumerProtocolSubscription_TopicPartition_partitions x).

#[global] Instance ConsumerProtocolSubscription_TopicPartition_sound version : Sound
    (ConsumerProtocolSubscription_TopicPartition_codec version)
    (ConsumerProtocolSubscription_TopicPartition_valid version).
Proof. solve_message. Qed.

(* @ src/crates/kafka-protocol/src/messages/consumer_protocol_subscription.rs 20-48 ConsumerProtocolSubscription *)
Record ConsumerProtocolSubscription : Type := mkConsumerProtocolSubscription {
  ConsumerProtocolSubscription_topics : list (list byte);
  ConsumerProtocolSubscription_user_data : option (list byte);
  ConsumerProtocolSubscription_owned_partitions : list ConsumerProtocolSubscription_TopicPartition;
  ConsumerProtocolSubscription_generation_id : Z;
  ConsumerProtocolSubscription_rack_id : option (list byte)
}.

(* @ src/crates/kafka-protocol/src/messages/consumer_protocol_subscription.rs 168-178 ConsumerProtocolSubscription::default *)
Definition ConsumerProtocolSubscription_default : ConsumerProtocolSubscription := {|
  ConsumerProtocolSubscription_topics := [];
  ConsumerProtocolSubscription_user_data := None;
  ConsumerProtocolSubscription_owned_partitions := [];
  ConsumerProtocolSubscription_generation_id := -1;
  ConsumerProtocolSubscription_rack_id := None
|}.

(* @ src/crates/kafka-protocol/src/messages/consumer_protocol_subscription.rs 98-166 ConsumerProtocolSubscription::encode, compute_size, decode *)
Definition ConsumerProtocolSubscription_codec (version : Z) : Codec ConsumerProtocolSubscription :=
  message 0 3 version (build mkConsumerProtocolSubscription
    ⊛ (field ConsumerProtocolSubscription_topics (Array KafkaString))
    ⊛ (field ConsumerProtocolSubscription_user_data NullableBytes)
    ⊛ (if 1 <=? version then field ConsumerProtocolSubscription_owned_partitions (Array (Struct
        ConsumerProtocolSubscription_TopicPartition_codec version)) else ignored [])
    ⊛ (if 2 <=? version then field ConsumerProtocolSubscription_generation_id Int32 else ignored (-1))
    ⊛ (if 3 <=? version then field ConsumerProtocolSubscription_rack_id NullableString else ignored None)).

Definition ConsumerProtocolSubscription_valid (version : Z) (x : ConsumerProtocolSubscription) : Prop :=
  Forall utf8 (ConsumerProtocolSubscription_topics x) ∧
  (if 1 <=? version then Forall (ConsumerProtocolSubscription_TopicPartition_valid version)
      (ConsumerProtocolSubscription_owned_partitions x) else ConsumerProtocolSubscription_owned_partitions
      x = []) ∧
  (if 2 <=? version then in_signed 32 (ConsumerProtocolSubscription_generation_id x) else
      ConsumerProtocolSubscription_generation_id x = (-1)) ∧
  (if 3 <=? version then opt_all utf8 (ConsumerProtocolSubscription_rack_id x) else
      ConsumerProtocolSubscription_rack_id x = None).

#[global] Instance ConsumerProtocolSubscription_sound version : Sound (ConsumerProtocolSubscription_codec
    version) (ConsumerProtocolSubscription_valid version).
Proof. solve_message. Qed.

(** ** [delete_groups_request] *)

(* @ src/crates/kafka-protocol/src/messages/delete_groups_request.rs 20-31 DeleteGroupsRequest *)
Record DeleteGroupsRequest : Type := mkDeleteGroupsRequest {
  DeleteGroupsRequest_groups_names : list (list byte);
  DeleteGroupsRequest_unknown_tagged_fields : TaggedFields
}.

(* @ src/crates/kafka-protocol/src/messages/delete_groups_request.rs 132-139 DeleteGroupsRequest::default *)
Definition DeleteGroupsRequest_default : DeleteGroupsRequest := {|
  DeleteGroupsRequest_groups_names := [];
  DeleteGroupsRequest_unknown_tagged_fields := ∅
|}.

(* @ src/crates/kafka-protocol/src/messages/delete_groups_request.rs 55-130 DeleteGroupsRequest::encode, compute_size, decode *)
Definition DeleteGroupsRequest_codec (version : Z) : Codec DeleteGroupsRequest :=
  message 0 2 version (build mkDeleteGroupsRequest
    ⊛ (field DeleteGroupsRequest_groups_names (if 2 <=? version then CompactArray CompactString else Array
        KafkaString))
    ⊛ unknown_tags (2 <=? version) DeleteGroupsRequest_unknown_tagged_fields).

Definition DeleteGroupsRequest_valid (version : Z) (x : DeleteGroupsRequest) : Prop :=
  Forall utf8 (DeleteGroupsRequest_groups_names x) ∧
  (if 2 <=? version then unknown_valid 0 (DeleteGroupsRequest_unknown_tagged_fields x) else
      DeleteGroupsRequest_unknown_tagged_fields x = ∅).

#[global] Instance DeleteGroupsRequest_sound version : Sound (DeleteGroupsRequest_codec version)
    (DeleteGroupsRequest_valid version).
Proof. solve_message. Qed.

(* @ src/crates/kafka-protocol/src/messages/delete_groups_request.rs 146-154 DeleteGroupsRequest::header_version *)
Definition DeleteGroupsRequest_header_version (version : Z) : Z := if 2 <=? version then 2 else 1.

(* @ src/crates/kafka-protocol/src/messages/delete_groups_request.rs 141-144 DeleteGroupsRequest::VERSIONS *)
Definition DeleteGroupsRequest_VERSIONS : Z * Z := (0, 2).

(** ** [delete_groups_response] *)

(* @ src/crates/kafka-protocol/src/messages/delete_groups_response.rs 20-36 DeletableGroupResult *)
Record DeletableGroupResult : Type := mkDeletableGroupResult {
  DeletableGroupResult_group_id : list byte;
  DeletableGroupResult_error_code : Z;
  DeletableGroupResult_unknown_tagged_fields : TaggedFields
}.

(* @ src/crates/kafka-protocol/src/messages/delete_groups_response.rs 149-157 DeletableGroupResult::default *)
Definition DeletableGroupResult_default : DeletableGroupResult := {|
  DeletableGroupResult_group_id := [];
  DeletableGroupResult_error_code := 0;
  DeletableGroupResult_unknown_tagged_fields := ∅
|}.

(* @ src/crates/kafka-protocol/src/messages/delete_groups_response.rs 69-147 DeletableGroupResult::encode, compute_size, decode *)
Definition DeletableGroupResult_codec (version : Z) : Codec DeletableGroupResult :=
  message 0 2 version (build mkDeletableGroupResult
    ⊛ (field DeletableGroupResult_group_id (if 2 <=? version then CompactString else KafkaString))
    ⊛ (field DeletableGroupResult_error_code Int16)
    ⊛ unknown_tags (2 <=? version) DeletableGroupResult_unknown_tagged_fields).

Definition DeletableGroupResult_valid (version : Z) (x : DeletableGroupResult) : Prop :=
  utf8 (DeletableGroupResult_group_id x) ∧
  in_signed 16 (DeletableGroupResult_error_code x) ∧
  (if 2 <=? version then unknown_valid 0 (DeletableGroupResult_unknown_tagged_fields x) else
      DeletableGroupResult_unknown_tagged_fields x = ∅).

#[global] Instance DeletableGroupResult_sound version : Sound (DeletableGroupResult_codec version)
    (DeletableGroupResult_valid version).
Proof. solve_message. Qed.

(* @ src/crates/kafka-protocol/src/messages/delete_groups_response.rs 164-180 DeleteGroupsResponse *)
Record DeleteGroupsResponse : Type := mkDeleteGroupsResponse {
  DeleteGroupsResponse_throttle_time_ms : Z;
  DeleteGroupsResponse_results : list DeletableGroupResult;
  DeleteGroupsResponse_unknown_tagged_fields : TaggedFields
}.

(* @ src/crates/kafka-protocol/src/messages/delete_groups_response.rs 294-302 DeleteGroupsResponse::default *)
Definition DeleteGroupsResponse_default : DeleteGroupsResponse := {|
  DeleteGroupsResponse_throttle_time_ms := 0;
  DeleteGroupsResponse_results := [];
  DeleteGroupsResponse_unknown_tagged_fields := ∅
|}.

(* @ src/crates/kafka-protocol/src/messages/delete_groups_response.rs 213-292 DeleteGroupsResponse::encode, compute_size, decode *)
Definition DeleteGroupsResponse_codec (version : Z) : Codec DeleteGroupsResponse :=
  message 0 2 version (build mkDeleteGroupsResponse
    ⊛ (field DeleteGroupsResponse_throttle_time_ms Int32)
    ⊛ (field DeleteGroupsResponse_results (if 2 <=? version then CompactArray (Struct
        DeletableGroupResult_codec version) else Array (Struct DeletableGroupResult_codec version)))
    ⊛ unknown_tags (2 <=? version) DeleteGroupsResponse_unknown_tagged_fields).

Definition DeleteGroupsResponse_valid (version : Z) (x : DeleteGroupsResponse) : Prop :=
  in_signed 32 (DeleteGroupsResponse_throttle_time_ms x) ∧
  Forall (DeletableGroupResult_valid version) (DeleteGroupsResponse_results x) ∧
  (if 2 <=? version then unknown_valid 0 (DeleteGroupsResponse_unknown_tagged_fields x) else
      DeleteGroupsResponse_unknown_tagged_fields x = ∅).

#[global] Instance DeleteGroupsResponse_sound version : Sound (DeleteGroupsResponse_codec version)
    (DeleteGroupsResponse_valid version).
Proof. solve_message. Qed.

(* @ src/crates/kafka-protocol/src/messages/delete_groups_response.rs 309-317 DeleteGroupsResponse::header_version *)
Definition DeleteGroupsResponse_header_version (version : Z) : Z := if 2 <=? version then 1 else 0.

(* @ src/crates/kafka-protocol/src/messages/delete_groups_response.rs 304-307 DeleteGroupsResponse::VERSIONS *)
Definition DeleteGroupsResponse_VERSIONS : Z * Z := (0, 2).

(** ** [describe_groups_request] *)

(* @ src/crates/kafka-protocol/src/messages/describe_groups_request.rs 20-36 DescribeGroupsRequest *)
Record DescribeGroupsRequest : Type := mkDescribeGroupsRequest {
  DescribeGroupsRequest_groups : list (list byte);
  DescribeGroupsRequest_include_authorized_operations : bool;
  DescribeGroupsRequest_unknown_tagged_fields : TaggedFields
}.

(* @ src/crates/kafka-protocol/src/messages/describe_groups_request.rs 165-173 DescribeGroupsRequest::default *)
Definition DescribeGroupsRequest_default : DescribeGroupsRequest := {|
  DescribeGroupsRequest_groups := [];
  DescribeGroupsRequest_include_authorized_operations := false;
  DescribeGroupsRequest_unknown_tagged_fields := ∅
|}.

(* @ src/crates/kafka-protocol/src/messages/describe_groups_request.rs 69-163 DescribeGroupsRequest::encode, compute_size, decode *)
Definition DescribeGroupsRequest_codec (version : Z) : Codec DescribeGroupsRequest :=
  message 0 6 version (build mkDescribeGroupsRequest
    ⊛ (field DescribeGroupsRequest_groups (if 5 <=? version then CompactArray CompactString else Array
        KafkaString))
    ⊛ (if 3 <=? version then field DescribeGroupsRequest_include_authorized_operations Boolean else unset
        DescribeGroupsRequest_include_authorized_operations negb false)
    ⊛ unknown_tags (5 <=? version) DescribeGroupsRequest_unknown_tagged_fields).

Definition DescribeGroupsRequest_valid (version : Z) (x : DescribeGroupsRequest) : Prop :=
  Forall utf8 (DescribeGroupsRequest_groups x) ∧
  (if 5 <=? version then unknown_valid 0 (DescribeGroupsRequest_unknown_tagged_fields x) else
      DescribeGroupsRequest_unknown_tagged_fields x = ∅).

#[global] Instance DescribeGroupsRequest_sound version : Sound (DescribeGroupsRequest_codec version)
    (DescribeGroupsRequest_valid version).
Proof. solve_message. Qed.

(* @ src/crates/kafka-protocol/src/messages/describe_groups_request.rs 180-188 DescribeGroupsRequest::header_version *)
Definition DescribeGroupsRequest_header_version (version : Z) : Z := if 5 <=? version then 2 else 1.

(* @ src/crates/kafka-protocol/src/messages/describe_groups_request.rs 175-178 DescribeGroupsRequest::VERSIONS *)
Definition DescribeGroupsRequest_VERSIONS : Z * Z := (0, 6).

(** ** [describe_groups_response] *)

(* @ src/crates/kafka-protocol/src/messages/describe_groups_response.rs 512-548 DescribedGroupMember *)
Record DescribedGroupMember : Type := mkDescribedGroupMember {
  DescribedGroupMember_member_id : list byte;
  DescribedGroupMember_group_instance_id : option (list byte);
  DescribedGroupMember_client_id : list byte;
  DescribedGroupMember_client_host : list byte;
  DescribedGroupMember_member_metadata : list byte;
  DescribedGroupMember_member_assignment : list byte;
  DescribedGroupMember_unknown_tagged_fields : TaggedFields
}.

(* @ src/crates/kafka-protocol/src/messages/describe_groups_response.rs 781-793 DescribedGroupMember::default *)
Definition DescribedGroupMember_default : DescribedGroupMember := {|
  DescribedGroupMember_member_id := [];
  DescribedGroupMember_group_instance_id := None;
  DescribedGroupMember_client_id := [];
  DescribedGroupMember_client_host := [];
  DescribedGroupMember_member_metadata := [];
  DescribedGroupMember_member_assignment := [];
  DescribedGroupMember_unknown_tagged_fields := ∅
|}.

(* @ src/crates/kafka-protocol/src/messages/describe_groups_response.rs 617-779 DescribedGroupMember::encode, compute_size, decode *)
Definition DescribedGroupMember_codec (version : Z) : Codec DescribedGroupMember :=
  message 0 6 version (build mkDescribedGroupMember
    ⊛ (field DescribedGroupMember_member_id (if 5 <=? version then CompactString else KafkaString))
    ⊛ (if 4 <=? version then field DescribedGroupMember_group_instance_id (if 5 <=? version then
        NullableCompactString else NullableString) else ignored None)
    ⊛ (field DescribedGroupMember_client_id (if 5 <=? version then CompactString else KafkaString))
    ⊛ (field DescribedGroupMember_client_host (if 5 <=? version then CompactString else KafkaString))
    ⊛ (field DescribedGroupMember_member_metadata (if 5 <=? version then CompactBytes else Bytes))
    ⊛ (field DescribedGroupMember_member_assignment (if 5 <=? version then CompactBytes else Bytes))
    ⊛ unknown_tags (5 <=? version) DescribedGroupMember_unknown_tagged_fields).

Definition DescribedGroupMember_valid (version : Z) (x : DescribedGroupMember) : Prop :=
  utf8 (DescribedGroupMember_member_id x) ∧
  (if 4 <=? version then opt_all utf8 (DescribedGroupMember_group_instance_id x) else
      DescribedGroupMember_group_instance_id x = None) ∧
  utf8 (DescribedGroupMember_client_id x) ∧
  utf8 (DescribedGroupMember_client_host x) ∧
  (if 5 <=? version then unknown_valid 0 (DescribedGroupMember_unknown_tagged_fields x) else
      DescribedGroupMember_unknown_tagged_fields x = ∅).

#[global] Instance DescribedGroupMember_sound version : Sound (DescribedGroupMember_codec version)
    (DescribedGroupMember_valid version).
Proof. solve_message. Qed.

(* @ src/crates/kafka-protocol/src/messages/describe_groups_response.rs 173-219 DescribedGroup *)
Record DescribeGroupsResponse_DescribedGroup : Type := mkDescribeGroupsResponse_DescribedGroup {
  DescribeGroupsResponse_DescribedGroup_error_code : Z;
  DescribeGroupsResponse_DescribedGroup_error_message : option (list byte);
  DescribeGroupsResponse_DescribedGroup_group_id : list byte;
  DescribeGroupsResponse_DescribedGroup_group_state : list byte;
  DescribeGroupsResponse_DescribedGroup_protocol_type : list byte;
  DescribeGroupsResponse_DescribedGroup_protocol_data : list byte;
  DescribeGroupsResponse_DescribedGroup_members : list DescribedGroupMember;
  DescribeGroupsResponse_DescribedGroup_authorized_operations : Z;
  DescribeGroupsResponse_DescribedGroup_unknown_tagged_fields : TaggedFields
}.

(* @ src/crates/kafka-protocol/src/messages/describe_groups_response.rs 491-505 DescribedGroup::default *)
Definition DescribeGroupsResponse_DescribedGroup_default : DescribeGroupsResponse_DescribedGroup := {|
  DescribeGroupsResponse_DescribedGroup_error_code := 0;
  DescribeGroupsResponse_DescribedGroup_error_message := None;
  DescribeGroupsResponse_DescribedGroup_group_id := [];
  DescribeGroupsResponse_DescribedGroup_group_state := [];
  DescribeGroupsResponse_DescribedGroup_protocol_type := [];
  DescribeGroupsResponse_DescribedGroup_protocol_data := [];
  DescribeGroupsResponse_DescribedGroup_members := [];
  DescribeGroupsResponse_DescribedGroup_authorized_operations := -2147483648;
  DescribeGroupsResponse_DescribedGroup_unknown_tagged_fields := ∅
|}.

(* @ src/crates/kafka-protocol/src/messages/describe_groups_response.rs 306-489 DescribedGroup::encode, compute_size, decode *)
Definition DescribeGroupsResponse_DescribedGroup_codec (version : Z) : Codec
    DescribeGroupsResponse_DescribedGroup :=
  message 0 6 version (build mkDescribeGroupsResponse_DescribedGroup
    ⊛ (field DescribeGroupsResponse_DescribedGroup_error_code Int16)
    ⊛ (if 6 <=? version then field DescribeGroupsResponse_DescribedGroup_error_message
        NullableCompactString else unset DescribeGroupsResponse_DescribedGroup_error_message is_none None)
    ⊛ (field DescribeGroupsResponse_DescribedGroup_group_id (if 5 <=? version then CompactString else
        KafkaString))
    ⊛ (field DescribeGroupsResponse_DescribedGroup_group_state (if 5 <=? version then CompactString else
        KafkaString))
    ⊛ (field DescribeGroupsResponse_DescribedGroup_protocol_type (if 5 <=? version then CompactString else
        KafkaString))
    ⊛ (field DescribeGroupsResponse_DescribedGroup_protocol_data (if 5 <=? version then CompactString else
        KafkaString))
    ⊛ (field DescribeGroupsResponse_DescribedGroup_members (if 5 <=? version then CompactArray (Struct
        DescribedGroupMember_codec version) else Array (Struct DescribedGroupMember_codec version)))
    ⊛ (if 3 <=? version then field DescribeGroupsResponse_DescribedGroup_authorized_operations Int32 else
        unset DescribeGroupsResponse_DescribedGroup_authorized_operations (Z.eqb (-2147483648))
        (-2147483648))
    ⊛ unknown_tags (5 <=? version) DescribeGroupsResponse_DescribedGroup_unknown_tagged_fields).

Definition DescribeGroupsResponse_DescribedGroup_valid (version : Z) (x :
    DescribeGroupsResponse_DescribedGroup) : Prop :=
  in_signed 16 (DescribeGroupsResponse_DescribedGroup_error_code x) ∧
  opt_all utf8 (DescribeGroupsResponse_DescribedGroup_error_message x) ∧
  utf8 (DescribeGroupsResponse_DescribedGroup_group_id x) ∧
  utf8 (DescribeGroupsResponse_DescribedGroup_group_state x) ∧
  utf8 (DescribeGroupsResponse_DescribedGroup_protocol_type x) ∧
  utf8 (DescribeGroupsResponse_DescribedGroup_protocol_data x) ∧
  Forall (DescribedGroupMember_valid version) (DescribeGroupsResponse_DescribedGroup_members x) ∧
  in_signed 32 (DescribeGroupsResponse_DescribedGroup_authorized_operations x) ∧
  (if 5 <=? version then unknown_valid 0 (DescribeGroupsResponse_DescribedGroup_unknown_tagged_fields x)
      else DescribeGroupsResponse_DescribedGroup_unknown_tagged_fields x = ∅).

#[global] Instance DescribeGroupsResponse_DescribedGroup_sound version : Sound
    (DescribeGroupsResponse_DescribedGroup_codec version) (DescribeGroupsResponse_DescribedGroup_valid
    version).
Proof. solve_message. Qed.

(* @ src/crates/kafka-protocol/src/messages/describe_groups_response.rs 20-36 DescribeGroupsResponse *)
Record DescribeGroupsResponse : Type := mkDescribeGroupsResponse {
  DescribeGroupsResponse_throttle_time_ms : Z;
  DescribeGroupsResponse_groups : list DescribeGroupsResponse_DescribedGroup;
  DescribeGroupsResponse_unknown_tagged_fields : TaggedFields
}.

(* @ src/crates/kafka-protocol/src/messages/describe_groups_response.rs 158-166 DescribeGroupsResponse::default *)
Definition DescribeGroupsResponse_default : DescribeGroupsResponse := {|
  DescribeGroupsResponse_throttle_time_ms := 0;
  DescribeGroupsResponse_groups := [];
  DescribeGroupsResponse_unknown_tagged_fields := ∅
|}.

(* @ src/crates/kafka-protocol/src/messages/describe_groups_response.rs 69-156 DescribeGroupsResponse::encode, compute_size, decode *)
Definition DescribeGroupsResponse_codec (version : Z) : Codec DescribeGroupsResponse :=
  message 0 6 version (build mkDescribeGroupsResponse
    ⊛ (if 1 <=? version then field DescribeGroupsResponse_throttle_time_ms Int32 else ignored 0)
    ⊛ (field DescribeGroupsResponse_groups (if 5 <=? version then CompactArray (Struct
        DescribeGroupsResponse_DescribedGroup_codec version) else Array (Struct
        DescribeGroupsResponse_DescribedGroup_codec version)))
    ⊛ unknown_tags (5 <=? version) DescribeGroupsResponse_unknown_tagged_fields).

Definition DescribeGroupsResponse_valid (version : Z) (x : DescribeGroupsResponse) : Prop :=
  (if 1 <=? version then in_signed 32 (DescribeGroupsResponse_throttle_time_ms x) else
      DescribeGroupsResponse_throttle_time_ms x = 0) ∧
  Forall (DescribeGroupsResponse_DescribedGroup_valid version) (DescribeGroupsResponse_groups x) ∧
  (if 5 <=? version then unknown_valid 0 (DescribeGroupsResponse_unknown_tagged_fields x) else
      DescribeGroupsResponse_unknown_tagged_fields x = ∅).

#[global] Instance DescribeGroupsResponse_sound version : Sound (DescribeGroupsResponse_codec version)
    (DescribeGroupsResponse_valid version).
Proof. solve_message. Qed.

(* @ src/crates/kafka-protocol/src/messages/describe_groups_response.rs 800-808 DescribeGroupsResponse::header_version *)
Definition DescribeGroupsResponse_header_version (version : Z) : Z := if 5 <=? version then 1 else 0.

(* @ src/crates/kafka-protocol/src/messages/describe_groups_response.rs 168-171 DescribeGroupsResponse::VERSIONS *)
Definition DescribeGroupsResponse_VERSIONS : Z * Z := (0, 6).

(** ** [find_coordinator_request] *)

(* @ src/crates/kafka-protocol/src/messages/find_coordinator_request.rs 20-41 FindCoordinatorRequest *)
Record FindCoordinatorRequest : Type := mkFindCoordinatorRequest {
  FindCoordinatorRequest_key : list byte;
  FindCoordinatorRequest_key_type : Z;
  FindCoordinatorRequest_coordinator_keys : list (list byte);
  FindCoordinatorRequest_unknown_tagged_fields : TaggedFields
}.

(* @ src/crates/kafka-protocol/src/messages/find_coordinator_request.rs 216-225 FindCoordinatorRequest::default *)
Definition FindCoordinatorRequest_default : FindCoordinatorRequest := {|
  FindCoordinatorRequest_key := [];
  FindCoordinatorRequest_key_type := 0;
  FindCoordinatorRequest_coordinator_keys := [];
  FindCoordinatorRequest_unknown_tagged_fields := ∅
|}.

(* @ src/crates/kafka-protocol/src/messages/find_coordinator_request.rs 83-214 FindCoordinatorRequest::encode, compute_size, decode *)
Definition FindCoordinatorRequest_codec (version : Z) : Codec FindCoordinatorRequest :=
  message 0 6 version (build mkFindCoordinatorRequest
    ⊛ (if version <=? 3 then field FindCoordinatorRequest_key (if 3 <=? version then CompactString else
        KafkaString) else unset FindCoordinatorRequest_key is_empty [])
    ⊛ (if 1 <=? version then field FindCoordinatorRequest_key_type Int8 else unset
        FindCoordinatorRequest_key_type (Z.eqb 0) 0)
    ⊛ (if 4 <=? version then field FindCoordinatorRequest_coordinator_keys (CompactArray CompactString)
        else unset FindCoordinatorRequest_coordinator_keys is_empty [])
    ⊛ unknown_tags (3 <=? version) FindCoordinatorRequest_unknown_tagged_fields).

Definition FindCoordinatorRequest_valid (version : Z) (x : FindCoordinatorRequest) : Prop :=
  utf8 (FindCoordinatorRequest_key x) ∧
  in_signed 8 (FindCoordinatorRequest_key_type x) ∧
  Forall utf8 (FindCoordinatorRequest_coordinator_keys x) ∧
  (if 3 <=? version then unknown_valid 0 (FindCoordinatorRequest_unknown_tagged_fields x) else
      FindCoordinatorRequest_unknown_tagged_fields x = ∅).

#[global] Instance FindCoordinatorRequest_sound version : Sound (FindCoordinatorRequest_codec version)
    (FindCoordinatorRequest_valid version).
Proof. solve_message. Qed.

(* @ src/crates/kafka-protocol/src/messages/find_coordinator_request.rs 232-240 FindCoordinatorRequest::header_version *)
Definition FindCoordinatorRequest_header_version (version : Z) : Z := if 3 <=? version then 2 else 1.

(* @ src/crates/kafka-protocol/src/messages/find_coordinator_request.rs 227-230 FindCoordinatorRequest::VERSIONS *)
Definition FindCoordinatorRequest_VERSIONS : Z * Z := (0, 6).

(** ** [find_coordinator_response] *)

(* @ src/crates/kafka-protocol/src/messages/find_coordinator_response.rs 20-56 Coordinator *)
Record Coordinator : Type := mkCoordinator {
  Coordinator_key : list byte;
  Coordinator_node_id : Z;
  Coordinator_host : list byte;
  Coordinator_port : Z;
  Coordinator_error_code : Z;
  Coordinator_error_message : option (list byte);
  Coordinator_unknown_tagged_fields : TaggedFields
}.

(* @ src/crates/kafka-protocol/src/messages/find_coordinator_response.rs 297-309 Coordinator::default *)
Definition Coordinator_default : Coordinator := {|
  Coordinator_key := [];
  Coordinator_node_id := 0;
  Coordinator_host := [];
  Coordinator_port := 0;
  Coordinator_error_code := 0;
  Coordinator_error_message := Some [];
  Coordinator_unknown_tagged_fields := ∅
|}.

(* @ src/crates/kafka-protocol/src/messages/find_coordinator_response.rs 125-295 Coordinator::encode, compute_size, decode *)
Definition Coordinator_codec (version : Z) : Codec Coordinator :=
  message 0 6 version (build mkCoordinator
    ⊛ (if 4 <=? version then field Coordinator_key CompactString else unset Coordinator_key is_empty [])
    ⊛ (if 4 <=? version then field Coordinator_node_id Int32 else unset Coordinator_node_id (Z.eqb 0) 0)
    ⊛ (if 4 <=? version then field Coordinator_host CompactString else unset Coordinator_host is_empty [])
    ⊛ (if 4 <=? version then field Coordinator_port Int32 else unset Coordinator_port (Z.eqb 0) 0)
    ⊛ (if 4 <=? version then field Coordinator_error_code Int16 else unset Coordinator_error_code (Z.eqb 0)
        0)
    ⊛ (if 4 <=? version then field Coordinator_error_message NullableCompactString else ignored (Some []))
    ⊛ unknown_tags (3 <=? version) Coordinator_unknown_tagged_fields).

Definition Coordinator_valid (version : Z) (x : Coordinator) : Prop :=
  utf8 (Coordinator_key x) ∧
  in_signed 32 (Coordinator_node_id x) ∧
  utf8 (Coordinator_host x) ∧
  in_signed 32 (Coordinator_port x) ∧
  in_signed 16 (Coordinator_error_code x) ∧
  (if 4 <=? version then opt_all utf8 (Coordinator_error_message x) else Coordinator_error_message x =
      (Some [])) ∧
  (if 3 <=? version then unknown_valid 0 (Coordinator_unknown_tagged_fields x) else
      Coordinator_unknown_tagged_fields x = ∅).

#[global] Instance Coordinator_sound version : Sound (Coordinator_codec version) (Coordinator_valid
    version).
Proof. solve_message. Qed.

(* @ src/crates/kafka-protocol/src/messages/find_coordinator_response.rs 316-357 FindCoordinatorResponse *)
Record FindCoordinatorResponse : Type := mkFindCoordinatorResponse {
  FindCoordinatorResponse_throttle_time_ms : Z;
  FindCoordinatorResponse_error_code : Z;
  FindCoordinatorResponse_error_message : option (list byte);
  FindCoordinatorResponse_node_id : Z;
  FindCoordinatorResponse_host : list byte;
  FindCoordinatorResponse_port : Z;
  FindCoordinatorResponse_coordinators : list Coordinator;
  FindCoordinatorResponse_unknown_tagged_fields : TaggedFields
}.

(* @ src/crates/kafka-protocol/src/messages/find_coordinator_response.rs 644-657 FindCoordinatorResponse::default *)
Definition FindCoordinatorResponse_default : FindCoordinatorResponse := {|
  FindCoordinatorResponse_throttle_time_ms := 0;
  FindCoordinatorResponse_error_code := 0;
  FindCoordinatorResponse_error_message := Some [];
  FindCoordinatorResponse_node_id := 0;
  FindCoordinatorResponse_host := [];
  FindCoordinatorResponse_port := 0;
  FindCoordinatorResponse_coordinators := [];
  FindCoordinatorResponse_unknown_tagged_fields := ∅
|}.

(* @ src/crates/kafka-protocol/src/messages/find_coordinator_response.rs 435-642 FindCoordinatorResponse::encode, compute_size, decode *)
Definition FindCoordinatorResponse_codec (version : Z) : Codec FindCoordinatorResponse :=
  message 0 6 version (build mkFindCoordinatorResponse
    ⊛ (if 1 <=? version then field FindCoordinatorResponse_throttle_time_ms Int32 else ignored 0)
    ⊛ (if version <=? 3 then field FindCoordinatorResponse_error_code Int16 else unset
        FindCoordinatorResponse_error_code (Z.eqb 0) 0)
    ⊛ (if (1 <=? version) && (version <=? 3) then field FindCoordinatorResponse_error_message (if 3 <=?
        version then NullableCompactString else NullableString) else ignored (Some []))
    ⊛ (if version <=? 3 then field FindCoordinatorResponse_node_id Int32 else unset
        FindCoordinatorResponse_node_id (Z.eqb 0) 0)
    ⊛ (if version <=? 3 then field FindCoordinatorResponse_host (if 3 <=? version then CompactString else
        KafkaString) else unset FindCoordinatorResponse_host is_empty [])
    ⊛ (if version <=? 3 then field FindCoordinatorResponse_port Int32 else unset
        FindCoordinatorResponse_port (Z.eqb 0) 0)
    ⊛ (if 4 <=? version then field FindCoordinatorResponse_coordinators (CompactArray (Struct
        Coordinator_codec version)) else unset FindCoordinatorResponse_coordinators is_empty [])
    ⊛ unknown_tags (3 <=? version) FindCoordinatorResponse_unknown_tagged_fields).

Definition FindCoordinatorResponse_valid (version : Z) (x : FindCoordinatorResponse) : Prop :=
  (if 1 <=? version then in_signed 32 (FindCoordinatorResponse_throttle_time_ms x) else
      FindCoordinatorResponse_throttle_time_ms x = 0) ∧
  in_signed 16 (FindCoordinatorResponse_error_code x) ∧
  (if (1 <=? version) && (version <=? 3) then opt_all utf8 (FindCoordinatorResponse_error_message x) else
      FindCoordinatorResponse_error_message x = (Some [])) ∧
  in_signed 32 (FindCoordinatorResponse_node_id x) ∧
  utf8 (FindCoordinatorResponse_host x) ∧
  in_signed 32 (FindCoordinatorResponse_port x) ∧
  Forall (Coordinator_valid version) (FindCoordinatorResponse_coordinators x) ∧
  (if 3 <=? version then unknown_valid 0 (FindCoordinatorResponse_unknown_tagged_fields x) else
      FindCoordinatorResponse_unknown_tagged_fields x = ∅).

#[global] Instance FindCoordinatorResponse_sound version : Sound (FindCoordinatorResponse_codec version)
    (FindCoordinatorResponse_valid version).
Proof. solve_message. Qed.

(* @ src/crates/kafka-protocol/src/messages/find_coordinator_response.rs 664-672 FindCoordinatorResponse::header_version *)
Definition FindCoordinatorResponse_header_version (version : Z) : Z := if 3 <=? version then 1 else 0.

(* @ src/crates/kafka-protocol/src/messages/find_coordinator_response.rs 659-662 FindCoordinatorResponse::VERSIONS *)
Definition FindCoordinatorResponse_VERSIONS : Z * Z := (0, 6).

(** ** [heartbeat_request] *)

(* @ src/crates/kafka-protocol/src/messages/heartbeat_request.rs 20-46 HeartbeatRequest *)
Record HeartbeatRequest : Type := mkHeartbeatRequest {
  HeartbeatRequest_group_id : list byte;
  HeartbeatRequest_generation_id : Z;
  HeartbeatRequest_member_id : list byte;
  HeartbeatRequest_group_instance_id : option (list byte);
  HeartbeatRequest_unknown_tagged_fields : TaggedFields
}.

(* @ src/crates/kafka-protocol/src/messages/heartbeat_request.rs 225-235 HeartbeatRequest::default *)
Definition HeartbeatRequest_default : HeartbeatRequest := {|
  HeartbeatRequest_group_id := [];
  HeartbeatRequest_generation_id := 0;
  HeartbeatRequest_member_id := [];
  HeartbeatRequest_group_instance_id := None;
  HeartbeatRequest_unknown_tagged_fields := ∅
|}.

(* @ src/crates/kafka-protocol/src/messages/heartbeat_request.rs 97-223 HeartbeatRequest::encode, compute_size, decode *)
Definition HeartbeatRequest_codec (version : Z) : Codec HeartbeatRequest :=
  message 0 4 version (build mkHeartbeatRequest
    ⊛ (field HeartbeatRequest_group_id (if 4 <=? version then CompactString else KafkaString))
    ⊛ (field HeartbeatRequest_generation_id Int32)
    ⊛ (field HeartbeatRequest_member_id (if 4 <=? version then CompactString else KafkaString))
    ⊛ (if 3 <=? version then field HeartbeatRequest_group_instance_id (if 4 <=? version then
        NullableCompactString else NullableString) else unset HeartbeatRequest_group_instance_id is_none
        None)
    ⊛ unknown_tags (4 <=? version) HeartbeatRequest_unknown_tagged_fields).

Definition HeartbeatRequest_valid (version : Z) (x : HeartbeatRequest) : Prop :=
  utf8 (HeartbeatRequest_group_id x) ∧
  in_signed 32 (HeartbeatRequest_generation_id x) ∧
  utf8 (HeartbeatRequest_member_id x) ∧
  opt_all utf8 (HeartbeatRequest_group_instance_id x) ∧
  (if 4 <=? version then unknown_valid 0 (HeartbeatRequest_unknown_tagged_fields x) else
      HeartbeatRequest_unknown_tagged_fields x = ∅).

#[global] Instance HeartbeatRequest_sound version : Sound (HeartbeatRequest_codec version)
    (HeartbeatRequest_valid version).
Proof. solve_message. Qed.

(* @ src/crates/kafka-protocol/src/messages/heartbeat_request.rs 242-250 HeartbeatRequest::header_version *)
Definition HeartbeatRequest_header_version (version : Z) : Z := if 4 <=? version then 2 else 1.

(* @ src/crates/kafka-protocol/src/messages/heartbeat_request.rs 237-240 HeartbeatRequest::VERSIONS *)
Definition HeartbeatRequest_VERSIONS : Z * Z := (0, 4).

(** ** [heartbeat_response] *)

(* @ src/crates/kafka-protocol/src/messages/heartbeat_response.rs 20-36 HeartbeatResponse *)
Record HeartbeatResponse : Type := mkHeartbeatResponse {
  HeartbeatResponse_throttle_time_ms : Z;
  HeartbeatResponse_error_code : Z;
  HeartbeatResponse_unknown_tagged_fields : TaggedFields
}.

(* @ src/crates/kafka-protocol/src/messages/heartbeat_response.rs 145-153 HeartbeatResponse::default *)
Definition HeartbeatResponse_default : HeartbeatResponse := {|
  HeartbeatResponse_throttle_time_ms := 0;
  HeartbeatResponse_error_code := 0;
  HeartbeatResponse_unknown_tagged_fields := ∅
|}.

(* @ src/crates/kafka-protocol/src/messages/heartbeat_response.rs 69-143 HeartbeatResponse::encode, compute_size, decode *)
Definition HeartbeatResponse_codec (version : Z) : Codec HeartbeatResponse :=
  message 0 4 version (build mkHeartbeatResponse
    ⊛ (if 1 <=? version then field HeartbeatResponse_throttle_time_ms Int32 else ignored 0)
    ⊛ (field HeartbeatResponse_error_code Int16)
    ⊛ unknown_tags (4 <=? version) HeartbeatResponse_unknown_tagged_fields).

Definition HeartbeatResponse_valid (version : Z) (x : HeartbeatResponse) : Prop :=
  (if 1 <=? version then in_signed 32 (HeartbeatResponse_throttle_time_ms x) else
      HeartbeatResponse_throttle_time_ms x = 0) ∧
  in_signed 16 (HeartbeatResponse_error_code x) ∧
  (if 4 <=? version then unknown_valid 0 (HeartbeatResponse_unknown_tagged_fields x) else
      HeartbeatResponse_unknown_tagged_fields x = ∅).

#[global] Instance HeartbeatResponse_sound version : Sound (HeartbeatResponse_codec version)
    (HeartbeatResponse_valid version).
Proof. solve_message. Qed.

(* @ src/crates/kafka-protocol/src/messages/heartbeat_response.rs 160-168 HeartbeatResponse::header_version *)
Definition HeartbeatResponse_header_version (version : Z) : Z := if 4 <=? version then 1 else 0.

(* @ src/crates/kafka-protocol/src/messages/heartbeat_response.rs 155-158 HeartbeatResponse::VERSIONS *)
Definition HeartbeatResponse_VERSIONS : Z * Z := (0, 4).

(** ** [join_group_request] *)

(* @ src/crates/kafka-protocol/src/messages/join_group_request.rs 359-375 JoinGroupRequestProtocol *)
Record JoinGroupRequestProtocol : Type := mkJoinGroupRequestProtocol {
  JoinGroupRequestProtocol_name : list byte;
  JoinGroupRequestProtocol_metadata : list byte;
  JoinGroupRequestProtocol_unknown_tagged_fields : TaggedFields
}.

(* @ src/crates/kafka-protocol/src/messages/join_group_request.rs 500-508 JoinGroupRequestProtocol::default *)
Definition JoinGroupRequestProtocol_default : JoinGroupRequestProtocol := {|
  JoinGroupRequestProtocol_name := [];
  JoinGroupRequestProtocol_metadata := [];
  JoinGroupRequestProtocol_unknown_tagged_fields := ∅
|}.

(* @ src/crates/kafka-protocol/src/messages/join_group_request.rs 408-498 JoinGroupRequestProtocol::encode, compute_size, decode *)
Definition JoinGroupRequestProtocol_codec (version : Z) : Codec JoinGroupRequestProtocol :=
  message 0 9 version (build mkJoinGroupRequestProtocol
    ⊛ (field JoinGroupRequestProtocol_name (if 6 <=? version then CompactString else KafkaString))
    ⊛ (field JoinGroupRequestProtocol_metadata (if 6 <=? version then CompactBytes else Bytes))
    ⊛ unknown_tags (6 <=? version) JoinGroupRequestProtocol_unknown_tagged_fields).

Definition JoinGroupRequestProtocol_valid (version : Z) (x : JoinGroupRequestProtocol) : Prop :=
  utf8 (JoinGroupRequestProtocol_name x) ∧
  (if 6 <=? version then unknown_valid 0 (JoinGroupRequestProtocol_unknown_tagged_fields x) else
      JoinGroupRequestProtocol_unknown_tagged_fields x = ∅).

#[global] Instance JoinGroupRequestProtocol_sound version : Sound (JoinGroupRequestProtocol_codec version)
    (JoinGroupRequestProtocol_valid version).
Proof. solve_message. Qed.

(* @ src/crates/kafka-protocol/src/messages/join_group_request.rs 20-66 JoinGroupRequest *)
Record JoinGroupRequest : Type := mkJoinGroupRequest {
  JoinGroupRequest_group_id : list byte;
  JoinGroupRequest_session_timeout_ms : Z;
  JoinGroupRequest_rebalance_timeout_ms : Z;
  JoinGroupRequest_member_id : list byte;
  JoinGroupRequest_group_instance_id : option (list byte);
  JoinGroupRequest_protocol_type : list byte;
  JoinGroupRequest_protocols : list JoinGroupRequestProtocol;
  JoinGroupRequest_reason : option (list byte);
  JoinGroupRequest_unknown_tagged_fields : TaggedFields
}.

(* @ src/crates/kafka-protocol/src/messages/join_group_request.rs 338-352 JoinGroupRequest::default *)
Definition JoinGroupRequest_default : JoinGroupRequest := {|
  JoinGroupRequest_group_id := [];
  JoinGroupRequest_session_timeout_ms := 0;
  JoinGroupRequest_rebalance_timeout_ms := -1;
  JoinGroupRequest_member_id := [];
  JoinGroupRequest_group_instance_id := None;
  JoinGroupRequest_protocol_type := [];
  JoinGroupRequest_protocols := [];
  JoinGroupRequest_reason := None;
  JoinGroupRequest_unknown_tagged_fields := ∅
|}.

(* @ src/crates/kafka-protocol/src/messages/join_group_request.rs 153-336 JoinGroupRequest::encode, compute_size, decode *)
Definition JoinGroupRequest_codec (version : Z) : Codec JoinGroupRequest :=
  message 0 9 version (build mkJoinGroupRequest
    ⊛ (field JoinGroupRequest_group_id (if 6 <=? version then CompactString else KafkaString))
    ⊛ (field JoinGroupRequest_session_timeout_ms Int32)
    ⊛ (if 1 <=? version then field JoinGroupRequest_rebalance_timeout_ms Int32 else ignored (-1))
    ⊛ (field JoinGroupRequest_member_id (if 6 <=? version then CompactString else KafkaString))
    ⊛ (if 5 <=? version then field JoinGroupRequest_group_instance_id (if 6 <=? version then
        NullableCompactString else NullableString) else unset JoinGroupRequest_group_instance_id is_none
        None)
    ⊛ (field JoinGroupRequest_protocol_type (if 6 <=? version then CompactString else KafkaString))
    ⊛ (field JoinGroupRequest_protocols (if 6 <=? version then CompactArray (Struct
        JoinGroupRequestProtocol_codec version) else Array (Struct JoinGroupRequestProtocol_codec version)))
    ⊛ (if 8 <=? version then field JoinGroupRequest_reason NullableCompactString else ignored None)
    ⊛ unknown_tags (6 <=? version) JoinGroupRequest_unknown_tagged_fields).

Definition JoinGroupRequest_valid (version : Z) (x : JoinGroupRequest) : Prop :=
  utf8 (JoinGroupRequest_group_id x) ∧
  in_signed 32 (JoinGroupRequest_session_timeout_ms x) ∧
  (if 1 <=? version then in_signed 32 (JoinGroupRequest_rebalance_timeout_ms x) else
      JoinGroupRequest_rebalance_timeout_ms x = (-1)) ∧
  utf8 (JoinGroupRequest_member_id x) ∧
  opt_all utf8 (JoinGroupRequest_group_instance_id x) ∧
  utf8 (JoinGroupRequest_protocol_type x) ∧
  Forall (JoinGroupRequestProtocol_valid version) (JoinGroupRequest_protocols x) ∧
  (if 8 <=? version then opt_all utf8 (JoinGroupRequest_reason x) else JoinGroupRequest_reason x = None) ∧
  (if 6 <=? version then unknown_valid 0 (JoinGroupRequest_unknown_tagged_fields x) else
      JoinGroupRequest_unknown_tagged_fields x = ∅).

#[global] Instance JoinGroupRequest_sound version : Sound (JoinGroupRequest_codec version)
    (JoinGroupRequest_valid version).
Proof. solve_message. Qed.

(* @ src/crates/kafka-protocol/src/messages/join_group_request.rs 515-523 JoinGroupRequest::header_version *)
Definition JoinGroupRequest_header_version (version : Z) : Z := if 6 <=? version then 2 else 1.

(* @ src/crates/kafka-protocol/src/messages/join_group_request.rs 354-357 JoinGroupRequest::VERSIONS *)
Definition JoinGroupRequest_VERSIONS : Z * Z := (0, 9).

(** ** [join_group_response] *)

(* @ src/crates/kafka-protocol/src/messages/join_group_response.rs 366-387 JoinGroupResponseMember *)
Record JoinGroupResponseMember : Type := mkJoinGroupResponseMember {
  JoinGroupResponseMember_member_id : list byte;
  JoinGroupResponseMember_group_instance_id : option (list byte);
  JoinGroupResponseMember_metadata : list byte;
  JoinGroupResponseMember_unknown_tagged_fields : TaggedFields
}.

(* @ src/crates/kafka-protocol/src/messages/join_group_response.rs 545-554 JoinGroupResponseMember::default *)
Definition JoinGroupResponseMember_default : JoinGroupResponseMember := {|
  JoinGroupResponseMember_member_id := [];
  JoinGroupResponseMember_group_instance_id := None;
  JoinGroupResponseMember_metadata := [];
  JoinGroupResponseMember_unknown_tagged_fields := ∅
|}.

(* @ src/crates/kafka-protocol/src/messages/join_group_response.rs 429-543 JoinGroupResponseMember::encode, compute_size, decode *)
Definition JoinGroupResponseMember_codec (version : Z) : Codec JoinGroupResponseMember :=
  message 0 9 version (build mkJoinGroupResponseMember
    ⊛ (field JoinGroupResponseMember_member_id (if 6 <=? version then CompactString else KafkaString))
    ⊛ (if 5 <=? version then field JoinGroupResponseMember_group_instance_id (if 6 <=? version then
        NullableCompactString else NullableString) else ignored None)
    ⊛ (field JoinGroupResponseMember_metadata (if 6 <=? version then CompactBytes else Bytes))
    ⊛ unknown_tags (6 <=? version) JoinGroupResponseMember_unknown_tagged_fields).

Definition JoinGroupResponseMember_valid (version : Z) (x : JoinGroupResponseMember) : Prop :=
  utf8 (JoinGroupResponseMember_member_id x) ∧
  (if 5 <=? version then opt_all utf8 (JoinGroupResponseMember_group_instance_id x) else
      JoinGroupResponseMember_group_instance_id x = None) ∧
  (if 6 <=? version then unknown_valid 0 (JoinGroupResponseMember_unknown_tagged_fields x) else
      JoinGroupResponseMember_unknown_tagged_fields x = ∅).

#[global] Instance JoinGroupResponseMember_sound version : Sound (JoinGroupResponseMember_codec version)
    (JoinGroupResponseMember_valid version).
Proof. solve_message. Qed.

(* @ src/crates/kafka-protocol/src/messages/join_group_response.rs 20-71 JoinGroupResponse *)
Record JoinGroupResponse : Type := mkJoinGroupResponse {
  JoinGroupResponse_throttle_time_ms : Z;
  JoinGroupResponse_error_code : Z;
  JoinGroupResponse_generation_id : Z;
  JoinGroupResponse_protocol_type : option (list byte);
  JoinGroupResponse_protocol_name : option (list byte);
  JoinGroupResponse_leader : list byte;
  JoinGroupResponse_skip_assignment : bool;
  JoinGroupResponse_member_id : list byte;
  JoinGroupResponse_members : list JoinGroupResponseMember;
  JoinGroupResponse_unknown_tagged_fields : TaggedFields
}.

(* @ src/crates/kafka-protocol/src/messages/join_group_response.rs 344-359 JoinGroupResponse::default *)
Definition JoinGroupResponse_default : JoinGroupResponse := {|
  JoinGroupResponse_throttle_time_ms := 0;
  JoinGroupResponse_error_code := 0;
  JoinGroupResponse_generation_id := -1;
  JoinGroupResponse_protocol_type := None;
  JoinGroupResponse_protocol_name := Some [];
  JoinGroupResponse_leader := [];
  JoinGroupResponse_skip_assignment := false;
  JoinGroupResponse_member_id := [];
  JoinGroupResponse_members := [];
  JoinGroupResponse_unknown_tagged_fields := ∅
|}.

(* @ src/crates/kafka-protocol/src/messages/join_group_response.rs 167-342 JoinGroupResponse::encode, compute_size, decode *)
Definition JoinGroupResponse_codec (version : Z) : Codec JoinGroupResponse :=
  message 0 9 version (build mkJoinGroupResponse
    ⊛ (if 2 <=? version then field JoinGroupResponse_throttle_time_ms Int32 else ignored 0)
    ⊛ (field JoinGroupResponse_error_code Int16)
    ⊛ (field JoinGroupResponse_generation_id Int32)
    ⊛ (if 7 <=? version then field JoinGroupResponse_protocol_type NullableCompactString else ignored None)
    ⊛ (field JoinGroupResponse_protocol_name (if 6 <=? version then NullableCompactString else
        NullableString))
    ⊛ (field JoinGroupResponse_leader (if 6 <=? version then CompactString else KafkaString))
    ⊛ (if 9 <=? version then field JoinGroupResponse_skip_assignment Boolean else unset
        JoinGroupResponse_skip_assignment negb false)
    ⊛ (field JoinGroupResponse_member_id (if 6 <=? version then CompactString else KafkaString))
    ⊛ (field JoinGroupResponse_members (if 6 <=? version then CompactArray (Struct
        JoinGroupResponseMember_codec version) else Array (Struct JoinGroupResponseMember_codec version)))
    ⊛ unknown_tags (6 <=? version) JoinGroupResponse_unknown_tagged_fields).

Definition JoinGroupResponse_valid (version : Z) (x : JoinGroupResponse) : Prop :=
  (if 2 <=? version then in_signed 32 (JoinGroupResponse_throttle_time_ms x) else
      JoinGroupResponse_throttle_time_ms x = 0) ∧
  in_signed 16 (JoinGroupResponse_error_code x) ∧
  in_signed 32 (JoinGroupResponse_generation_id x) ∧
  (if 7 <=? version then opt_all utf8 (JoinGroupResponse_protocol_type x) else
      JoinGroupResponse_protocol_type x = None) ∧
  opt_all utf8 (JoinGroupResponse_protocol_name x) ∧
  utf8 (JoinGroupResponse_leader x) ∧
  utf8 (JoinGroupResponse_member_id x) ∧
  Forall (JoinGroupResponseMember_valid version) (JoinGroupResponse_members x) ∧
  (if 6 <=? version then unknown_valid 0 (JoinGroupResponse_unknown_tagged_fields x) else
      JoinGroupResponse_unknown_tagged_fields x = ∅).

#[global] Instance JoinGroupResponse_sound version : Sound (JoinGroupResponse_codec version)
    (JoinGroupResponse_valid version).
Proof. solve_message. Qed.

(* @ src/crates/kafka-protocol/src/messages/join_group_response.rs 561-569 JoinGroupResponse::header_version *)
Definition JoinGroupResponse_header_version (version : Z) : Z := if 6 <=? version then 1 else 0.

(* @ src/crates/kafka-protocol/src/messages/join_group_response.rs 361-364 JoinGroupResponse::VERSIONS *)
Definition JoinGroupResponse_VERSIONS : Z * Z := (0, 9).

(** ** [leave_group_request] *)

(* @ src/crates/kafka-protocol/src/messages/leave_group_request.rs 229-250 MemberIdentity *)
Record MemberIdentity : Type := mkMemberIdentity {
  MemberIdentity_member_id : list byte;
  MemberIdentity_group_instance_id : option (list byte);
  MemberIdentity_reason : option (list byte);
  MemberIdentity_unknown_tagged_fields : TaggedFields
}.

(* @ src/crates/kafka-protocol/src/messages/leave_group_request.rs 428-437 MemberIdentity::default *)
Definition MemberIdentity_default : MemberIdentity := {|
  MemberIdentity_member_id := [];
  MemberIdentity_group_instance_id := None;
  MemberIdentity_reason := None;
  MemberIdentity_unknown_tagged_fields := ∅
|}.

(* @ src/crates/kafka-protocol/src/messages/leave_group_request.rs 292-426 MemberIdentity::encode, compute_size, decode *)
Definition MemberIdentity_codec (version : Z) : Codec MemberIdentity :=
  message 0 5 version (build mkMemberIdentity
    ⊛ (if 3 <=? version then field MemberIdentity_member_id (if 4 <=? version then CompactString else
        KafkaString) else unset MemberIdentity_member_id is_empty [])
    ⊛ (if 3 <=? version then field MemberIdentity_group_instance_id (if 4 <=? version then
        NullableCompactString else NullableString) else unset MemberIdentity_group_instance_id is_none None)
    ⊛ (if 5 <=? version then field MemberIdentity_reason NullableCompactString else ignored None)
    ⊛ unknown_tags (4 <=? version) MemberIdentity_unknown_tagged_fields).

Definition MemberIdentity_valid (version : Z) (x : MemberIdentity) : Prop :=
  utf8 (MemberIdentity_member_id x) ∧
  opt_all utf8 (MemberIdentity_group_instance_id x) ∧
  (if 5 <=? version then opt_all utf8 (MemberIdentity_reason x) else MemberIdentity_reason x = None) ∧
  (if 4 <=? version then unknown_valid 0 (MemberIdentity_unknown_tagged_fields x) else
      MemberIdentity_unknown_tagged_fields x = ∅).

#[global] Instance MemberIdentity_sound version : Sound (MemberIdentity_codec version)
    (MemberIdentity_valid version).
Proof. solve_message. Qed.

(* @ src/crates/kafka-protocol/src/messages/leave_group_request.rs 20-41 LeaveGroupRequest *)
Record LeaveGroupRequest : Type := mkLeaveGroupRequest {
  LeaveGroupRequest_group_id : list byte;
  LeaveGroupRequest_member_id : list byte;
  LeaveGroupRequest_members : list MemberIdentity;
  LeaveGroupRequest_unknown_tagged_fields : TaggedFields
}.

(* @ src/crates/kafka-protocol/src/messages/leave_group_request.rs 213-222 LeaveGroupRequest::default *)
Definition LeaveGroupRequest_default : LeaveGroupRequest := {|
  LeaveGroupRequest_group_id := [];
  LeaveGroupRequest_member_id := [];
  LeaveGroupRequest_members := [];
  LeaveGroupRequest_unknown_tagged_fields := ∅
|}.

(* @ src/crates/kafka-protocol/src/messages/leave_group_request.rs 83-211 LeaveGroupRequest::encode, compute_size, decode *)
Definition LeaveGroupRequest_codec (version : Z) : Codec LeaveGroupRequest :=
  message 0 5 version (build mkLeaveGroupRequest
    ⊛ (field LeaveGroupRequest_group_id (if 4 <=? version then CompactString else KafkaString))
    ⊛ (if version <=? 2 then field LeaveGroupRequest_member_id KafkaString else unset
        LeaveGroupRequest_member_id is_empty [])
    ⊛ (if 3 <=? version then field LeaveGroupRequest_members (if 4 <=? version then CompactArray (Struct
        MemberIdentity_codec version) else Array (Struct MemberIdentity_codec version)) else unset
        LeaveGroupRequest_members is_empty [])
    ⊛ unknown_tags (4 <=? version) LeaveGroupRequest_unknown_tagged_fields).

Definition LeaveGroupRequest_valid (version : Z) (x : LeaveGroupRequest) : Prop :=
  utf8 (LeaveGroupRequest_group_id x) ∧
  utf8 (LeaveGroupRequest_member_id x) ∧
  Forall (MemberIdentity_valid version) (LeaveGroupRequest_members x) ∧
  (if 4 <=? version then unknown_valid 0 (LeaveGroupRequest_unknown_tagged_fields x) else
      LeaveGroupRequest_unknown_tagged_fields x = ∅).

#[global] Instance LeaveGroupRequest_sound version : Sound (LeaveGroupRequest_codec version)
    (LeaveGroupRequest_valid version).
Proof. solve_message. Qed.

(* @ src/crates/kafka-protocol/src/messages/leave_group_request.rs 444-452 LeaveGroupRequest::header_version *)
Definition LeaveGroupRequest_header_version (version : Z) : Z := if 4 <=? version then 2 else 1.

(* @ src/crates/kafka-protocol/src/messages/leave_group_request.rs 224-227 LeaveGroupRequest::VERSIONS *)
Definition LeaveGroupRequest_VERSIONS : Z * Z := (0, 5).

(** ** [leave_group_response] *)

(* @ src/crates/kafka-protocol/src/messages/leave_group_response.rs 209-230 MemberResponse *)
Record MemberResponse : Type := mkMemberResponse {
  MemberResponse_member_id : list byte;
  MemberResponse_group_instance_id : option (list byte);
  MemberResponse_error_code : Z;
  MemberResponse_unknown_tagged_fields : TaggedFields
}.

(* @ src/crates/kafka-protocol/src/messages/leave_group_response.rs 426-435 MemberResponse::default *)
Definition MemberResponse_default : MemberResponse := {|
  MemberResponse_member_id := [];
  MemberResponse_group_instance_id := Some [];
  MemberResponse_error_code := 0;
  MemberResponse_unknown_tagged_fields := ∅
|}.

(* @ src/crates/kafka-protocol/src/messages/leave_group_response.rs 272-424 MemberResponse::encode, compute_size, decode *)
Definition MemberResponse_codec (version : Z) : Codec MemberResponse :=
  message 0 5 version (build mkMemberResponse
    ⊛ (if 3 <=? version then field MemberResponse_member_id (if 4 <=? version then CompactString else
        KafkaString) else unset MemberResponse_member_id is_empty [])
    ⊛ (if 3 <=? version then field MemberResponse_group_instance_id (if 4 <=? version then
        NullableCompactString else NullableString) else unset MemberResponse_group_instance_id
        is_some_empty (Some []))
    ⊛ (if 3 <=? version then field MemberResponse_error_code Int16 else unset MemberResponse_error_code
        (Z.eqb 0) 0)
    ⊛ unknown_tags (4 <=? version) MemberResponse_unknown_tagged_fields).

Definition MemberResponse_valid (version : Z) (x : MemberResponse) : Prop :=
  utf8 (MemberResponse_member_id x) ∧
  opt_all utf8 (MemberResponse_group_instance_id x) ∧
  in_signed 16 (MemberResponse_error_code x) ∧
  (if 4 <=? version then unknown_valid 0 (MemberResponse_unknown_tagged_fields x) else
      MemberResponse_unknown_tagged_fields x = ∅).

#[global] Instance MemberResponse_sound version : Sound (MemberResponse_codec version)
    (MemberResponse_valid version).
Proof. solve_message. Qed.

(* @ src/crates/kafka-protocol/src/messages/leave_group_response.rs 20-41 LeaveGroupResponse *)
Record LeaveGroupResponse : Type := mkLeaveGroupResponse {
  LeaveGroupResponse_throttle_time_ms : Z;
  LeaveGroupResponse_error_code : Z;
  LeaveGroupResponse_members : list MemberResponse;
  LeaveGroupResponse_unknown_tagged_fields : TaggedFields
}.

(* @ src/crates/kafka-protocol/src/messages/leave_group_response.rs 193-202 LeaveGroupResponse::default *)
Definition LeaveGroupResponse_default : LeaveGroupResponse := {|
  LeaveGroupResponse_throttle_time_ms := 0;
  LeaveGroupResponse_error_code := 0;
  LeaveGroupResponse_members := [];
  LeaveGroupResponse_unknown_tagged_fields := ∅
|}.

(* @ src/crates/kafka-protocol/src/messages/leave_group_response.rs 83-191 LeaveGroupResponse::encode, compute_size, decode *)
Definition LeaveGroupResponse_codec (version : Z) : Codec LeaveGroupResponse :=
  message 0 5 version (build mkLeaveGroupResponse
    ⊛ (if 1 <=? version then field LeaveGroupResponse_throttle_time_ms Int32 else ignored 0)
    ⊛ (field LeaveGroupResponse_error_code Int16)
    ⊛ (if 3 <=? version then field LeaveGroupResponse_members (if 4 <=? version then CompactArray (Struct
        MemberResponse_codec version) else Array (Struct MemberResponse_codec version)) else unset
        LeaveGroupResponse_members is_empty [])
    ⊛ unknown_tags (4 <=? version) LeaveGroupResponse_unknown_tagged_fields).

Definition LeaveGroupResponse_valid (version : Z) (x : LeaveGroupResponse) : Prop :=
  (if 1 <=? version then in_signed 32 (LeaveGroupResponse_throttle_time_ms x) else
      LeaveGroupResponse_throttle_time_ms x = 0) ∧
  in_signed 16 (LeaveGroupResponse_error_code x) ∧
  Forall (MemberResponse_valid version) (LeaveGroupResponse_members x) ∧
  (if 4 <=? version then unknown_valid 0 (LeaveGroupResponse_unknown_tagged_fields x) else
      LeaveGroupResponse_unknown_tagged_fields x = ∅).

#[global] Instance LeaveGroupResponse_sound version : Sound (LeaveGroupResponse_codec version)
    (LeaveGroupResponse_valid version).
Proof. solve_message. Qed.

(* @ src/crates/kafka-protocol/src/messages/leave_group_response.rs 442-450 LeaveGroupResponse::header_version *)
Definition LeaveGroupResponse_header_version (version : Z) : Z := if 4 <=? version then 1 else 0.

(* @ src/crates/kafka-protocol/src/messages/leave_group_response.rs 204-207 LeaveGroupResponse::VERSIONS *)
Definition LeaveGroupResponse_VERSIONS : Z * Z := (0, 5).

(** ** [list_groups_request] *)

(* @ src/crates/kafka-protocol/src/messages/list_groups_request.rs 20-36 ListGroupsRequest *)
Record ListGroupsRequest : Type := mkListGroupsRequest {
  ListGroupsRequest_states_filter : list (list byte);
  ListGroupsRequest_types_filter : list (list byte);
  ListGroupsRequest_unknown_tagged_fields : TaggedFields
}.

(* @ src/crates/kafka-protocol/src/messages/list_groups_request.rs 171-179 ListGroupsRequest::default *)
Definition ListGroupsRequest_default : ListGroupsRequest := {|
  ListGroupsRequest_states_filter := [];
  ListGroupsRequest_types_filter := [];
  ListGroupsRequest_unknown_tagged_fields := ∅
|}.

(* @ src/crates/kafka-protocol/src/messages/list_groups_request.rs 69-169 ListGroupsRequest::encode, compute_size, decode *)
Definition ListGroupsRequest_codec (version : Z) : Codec ListGroupsRequest :=
  message 0 5 version (build mkListGroupsRequest
    ⊛ (if 4 <=? version then field ListGroupsRequest_states_filter (CompactArray CompactString) else unset
        ListGroupsRequest_states_filter is_empty [])
    ⊛ (if 5 <=? version then field ListGroupsRequest_types_filter (CompactArray CompactString) else unset
        ListGroupsRequest_types_filter is_empty [])
    ⊛ unknown_tags (3 <=? version) ListGroupsRequest_unknown_tagged_fields).

Definition ListGroupsRequest_valid (version : Z) (x : ListGroupsRequest) : Prop :=
  Forall utf8 (ListGroupsRequest_states_filter x) ∧
  Forall utf8 (ListGroupsRequest_types_filter x) ∧
  (if 3 <=? version then unknown_valid 0 (ListGroupsRequest_unknown_tagged_fields x) else
      ListGroupsRequest_unknown_tagged_fields x = ∅).

#[global] Instance ListGroupsRequest_sound version : Sound (ListGroupsRequest_codec version)
    (ListGroupsRequest_valid version).
Proof. solve_message. Qed.

(* @ src/crates/kafka-protocol/src/messages/list_groups_request.rs 186-194 ListGroupsRequest::header_version *)
Definition ListGroupsRequest_header_version (version : Z) : Z := if 3 <=? version then 2 else 1.

(* @ src/crates/kafka-protocol/src/messages/list_groups_request.rs 181-184 ListGroupsRequest::VERSIONS *)
Definition ListGroupsRequest_VERSIONS : Z * Z := (0, 5).

(** ** [list_groups_response] *)

(* @ src/crates/kafka-protocol/src/messages/list_groups_response.rs 192-218 ListedGroup *)
Record ListedGroup : Type := mkListedGroup {
  ListedGroup_group_id : list byte;
  ListedGroup_protocol_type : list byte;
  ListedGroup_group_state : list byte;
  ListedGroup_group_type : list byte;
  ListedGroup_unknown_tagged_fields : TaggedFields
}.

(* @ src/crates/kafka-protocol/src/messages/list_groups_response.rs 385-395 ListedGroup::default *)
Definition ListedGroup_default : ListedGroup := {|
  ListedGroup_group_id := [];
  ListedGroup_protocol_type := [];
  ListedGroup_group_state := [];
  ListedGroup_group_type := [];
  ListedGroup_unknown_tagged_fields := ∅
|}.

(* @ src/crates/kafka-protocol/src/messages/list_groups_response.rs 269-383 ListedGroup::encode, compute_size, decode *)
Definition ListedGroup_codec (version : Z) : Codec ListedGroup :=
  message 0 5 version (build mkListedGroup
    ⊛ (field ListedGroup_group_id (if 3 <=? version then CompactString else KafkaString))
    ⊛ (field ListedGroup_protocol_type (if 3 <=? version then CompactString else KafkaString))
    ⊛ (if 4 <=? version then field ListedGroup_group_state CompactString else ignored [])
    ⊛ (if 5 <=? version then field ListedGroup_group_type CompactString else ignored [])
    ⊛ unknown_tags (3 <=? version) ListedGroup_unknown_tagged_fields).

Definition ListedGroup_valid (version : Z) (x : ListedGroup) : Prop :=
  utf8 (ListedGroup_group_id x) ∧
  utf8 (ListedGroup_protocol_type x) ∧
  (if 4 <=? version then utf8 (ListedGroup_group_state x) else ListedGroup_group_state x = []) ∧
  (if 5 <=? version then utf8 (ListedGroup_group_type x) else ListedGroup_group_type x = []) ∧
  (if 3 <=? version then unknown_valid 0 (ListedGroup_unknown_tagged_fields x) else
      ListedGroup_unknown_tagged_fields x = ∅).

#[global] Instance ListedGroup_sound version : Sound (ListedGroup_codec version) (ListedGroup_valid
    version).
Proof. solve_message. Qed.

(* @ src/crates/kafka-protocol/src/messages/list_groups_response.rs 20-41 ListGroupsResponse *)
Record ListGroupsResponse : Type := mkListGroupsResponse {
  ListGroupsResponse_throttle_time_ms : Z;
  ListGroupsResponse_error_code : Z;
  ListGroupsResponse_groups : list ListedGroup;
  ListGroupsResponse_unknown_tagged_fields : TaggedFields
}.

(* @ src/crates/kafka-protocol/src/messages/list_groups_response.rs 176-185 ListGroupsResponse::default *)
Definition ListGroupsResponse_default : ListGroupsResponse := {|
  ListGroupsResponse_throttle_time_ms := 0;
  ListGroupsResponse_error_code := 0;
  ListGroupsResponse_groups := [];
  ListGroupsResponse_unknown_tagged_fields := ∅
|}.

(* @ src/crates/kafka-protocol/src/messages/list_groups_response.rs 83-174 ListGroupsResponse::encode, compute_size, decode *)
Definition ListGroupsResponse_codec (version : Z) : Codec ListGroupsResponse :=
  message 0 5 version (build mkListGroupsResponse
    ⊛ (if 1 <=? version then field ListGroupsResponse_throttle_time_ms Int32 else ignored 0)
    ⊛ (field ListGroupsResponse_error_code Int16)
    ⊛ (field ListGroupsResponse_groups (if 3 <=? version then CompactArray (Struct ListedGroup_codec
        version) else Array (Struct ListedGroup_codec version)))
    ⊛ unknown_tags (3 <=? version) ListGroupsResponse_unknown_tagged_fields).

Definition ListGroupsResponse_valid (version : Z) (x : ListGroupsResponse) : Prop :=
  (if 1 <=? version then in_signed 32 (ListGroupsResponse_throttle_time_ms x) else
      ListGroupsResponse_throttle_time_ms x = 0) ∧
  in_signed 16 (ListGroupsResponse_error_code x) ∧
  Forall (ListedGroup_valid version) (ListGroupsResponse_groups x) ∧
  (if 3 <=? version then unknown_valid 0 (ListGroupsResponse_unknown_tagged_fields x) else
      ListGroupsResponse_unknown_tagged_fields x = ∅).

#[global] Instance ListGroupsResponse_sound version : Sound (ListGroupsResponse_codec version)
    (ListGroupsResponse_valid version).
Proof. solve_message. Qed.

(* @ src/crates/kafka-protocol/src/messages/list_groups_response.rs 402-410 ListGroupsResponse::header_version *)
Definition ListGroupsResponse_header_version (version : Z) : Z := if 3 <=? version then 1 else 0.

(* @ src/crates/kafka-protocol/src/messages/list_groups_response.rs 187-190 ListGroupsResponse::VERSIONS *)
Definition ListGroupsResponse_VERSIONS : Z * Z := (0, 5).

(** ** [offset_commit_request] *)

(* @ src/crates/kafka-protocol/src/messages/offset_commit_request.rs 301-327 OffsetCommitRequestPartition *)
Record OffsetCommitRequestPartition : Type := mkOffsetCommitRequestPartition {
  OffsetCommitRequestPartition_partition_index : Z;
  OffsetCommitRequestPartition_committed_offset : Z;
  OffsetCommitRequestPartition_committed_leader_epoch : Z;
  OffsetCommitRequestPartition_committed_metadata : option (list byte);
  OffsetCommitRequestPartition_unknown_tagged_fields : TaggedFields
}.

(* @ src/crates/kafka-protocol/src/messages/offset_commit_request.rs 474-484 OffsetCommitRequestPartition::default *)
Definition OffsetCommitRequestPartition_default : OffsetCommitRequestPartition := {|
  OffsetCommitRequestPartition_partition_index := 0;
  OffsetCommitRequestPartition_committed_offset := 0;
  OffsetCommitRequestPartition_committed_leader_epoch := -1;
  OffsetCommitRequestPartition_committed_metadata := Some [];
  OffsetCommitRequestPartition_unknown_tagged_fields := ∅
|}.

(* @ src/crates/kafka-protocol/src/messages/offset_commit_request.rs 378-472 OffsetCommitRequestPartition::encode, compute_size, decode *)
Definition OffsetCommitRequestPartition_codec (version : Z) : Codec OffsetCommitRequestPartition :=
  message 2 10 version (build mkOffsetCommitRequestPartition
    ⊛ (field OffsetCommitRequestPartition_partition_index Int32)
    ⊛ (field OffsetCommitRequestPartition_committed_offset Int64)
    ⊛ (if 6 <=? version then field OffsetCommitRequestPartition_committed_leader_epoch Int32 else ignored
        (-1))
    ⊛ (field OffsetCommitRequestPartition_committed_metadata (if 8 <=? version then NullableCompactString
        else NullableString))
    ⊛ unknown_tags (8 <=? version) OffsetCommitRequestPartition_unknown_tagged_fields).

Definition OffsetCommitRequestPartition_valid (version : Z) (x : OffsetCommitRequestPartition) : Prop :=
  in_signed 32 (OffsetCommitRequestPartition_partition_index x) ∧
  in_signed 64 (OffsetCommitRequestPartition_committed_offset x) ∧
  (if 6 <=? version then in_signed 32 (OffsetCommitRequestPartition_committed_leader_epoch x) else
      OffsetCommitRequestPartition_committed_leader_epoch x = (-1)) ∧
  opt_all utf8 (OffsetCommitRequestPartition_committed_metadata x) ∧
  (if 8 <=? version then unknown_valid 0 (OffsetCommitRequestPartition_unknown_tagged_fields x) else
      OffsetCommitRequestPartition_unknown_tagged_fields x = ∅).

#[global] Instance OffsetCommitRequestPartition_sound version : Sound (OffsetCommitRequestPartition_codec
    version) (OffsetCommitRequestPartition_valid version).
Proof. solve_message. Qed.

(* @ src/crates/kafka-protocol/src/messages/offset_commit_request.rs 491-512 OffsetCommitRequestTopic *)
Record OffsetCommitRequestTopic : Type := mkOffsetCommitRequestTopic {
  OffsetCommitRequestTopic_name : list byte;
  OffsetCommitRequestTopic_topic_id : Z;
  OffsetCommitRequestTopic_partitions : list OffsetCommitRequestPartition;
  OffsetCommitRequestTopic_unknown_tagged_fields : TaggedFields
}.

(* @ src/crates/kafka-protocol/src/messages/offset_commit_request.rs 667-676 OffsetCommitRequestTopic::default *)
Definition OffsetCommitRequestTopic_default : OffsetCommitRequestTopic := {|
  OffsetCommitRequestTopic_name := [];
  OffsetCommitRequestTopic_topic_id := 0;
  OffsetCommitRequestTopic_partitions := [];
  OffsetCommitRequestTopic_unknown_tagged_fields := ∅
|}.

(* @ src/crates/kafka-protocol/src/messages/offset_commit_request.rs 554-665 OffsetCommitRequestTopic::encode, compute_size, decode *)
Definition OffsetCommitRequestTopic_codec (version : Z) : Codec OffsetCommitRequestTopic :=
  message 2 10 version (build mkOffsetCommitRequestTopic
    ⊛ (if version <=? 9 then field OffsetCommitRequestTopic_name (if 8 <=? version then CompactString else
        KafkaString) else ignored [])
    ⊛ (if 10 <=? version then field OffsetCommitRequestTopic_topic_id Uuid else ignored 0)
    ⊛ (field OffsetCommitRequestTopic_partitions (if 8 <=? version then CompactArray (Struct
        OffsetCommitRequestPartition_codec version) else Array (Struct OffsetCommitRequestPartition_codec
        version)))
    ⊛ unknown_tags (8 <=? version) OffsetCommitRequestTopic_unknown_tagged_fields).

Definition OffsetCommitRequestTopic_valid (version : Z) (x : OffsetCommitRequestTopic) : Prop :=
  (if version <=? 9 then utf8 (OffsetCommitRequestTopic_name x) else OffsetCommitRequestTopic_name x = []) ∧
  (if 10 <=? version then in_unsigned 128 (OffsetCommitRequestTopic_topic_id x) else
      OffsetCommitRequestTopic_topic_id x = 0) ∧
  Forall (OffsetCommitRequestPartition_valid version) (OffsetCommitRequestTopic_partitions x) ∧
  (if 8 <=? version then unknown_valid 0 (OffsetCommitRequestTopic_unknown_tagged_fields x) else
      OffsetCommitRequestTopic_unknown_tagged_fields x = ∅).

#[global] Instance OffsetCommitRequestTopic_sound version : Sound (OffsetCommitRequestTopic_codec version)
    (OffsetCommitRequestTopic_valid version).
Proof. solve_message. Qed.

(* @ src/crates/kafka-protocol/src/messages/offset_commit_request.rs 20-56 OffsetCommitRequest *)
Record OffsetCommitRequest : Type := mkOffsetCommitRequest {
  OffsetCommitRequest_group_id : list byte;
  OffsetCommitRequest_generation_id_or_member_epoch : Z;
  OffsetCommitRequest_member_id : list byte;
  OffsetCommitRequest_group_instance_id : option (list byte);
  OffsetCommitRequest_retention_time_ms : Z;
  OffsetCommitRequest_topics : list OffsetCommitRequestTopic;
  OffsetCommitRequest_unknown_tagged_fields : TaggedFields
}.

(* @ src/crates/kafka-protocol/src/messages/offset_commit_request.rs 282-294 OffsetCommitRequest::default *)
Definition OffsetCommitRequest_default : OffsetCommitRequest := {|
  OffsetCommitRequest_group_id := [];
  OffsetCommitRequest_generation_id_or_member_epoch := -1;
  OffsetCommitRequest_member_id := [];
  OffsetCommitRequest_group_instance_id := None;
  OffsetCommitRequest_retention_time_ms := -1;
  OffsetCommitRequest_topics := [];
  OffsetCommitRequest_unknown_tagged_fields := ∅
|}.

(* @ src/crates/kafka-protocol/src/messages/offset_commit_request.rs 125-280 OffsetCommitRequest::encode, compute_size, decode *)
Definition OffsetCommitRequest_codec (version : Z) : Codec OffsetCommitRequest :=
  message 2 10 version (build mkOffsetCommitRequest
    ⊛ (field OffsetCommitRequest_group_id (if 8 <=? version then CompactString else KafkaString))
    ⊛ (field OffsetCommitRequest_generation_id_or_member_epoch Int32)
    ⊛ (field OffsetCommitRequest_member_id (if 8 <=? version then CompactString else KafkaString))
    ⊛ (if 7 <=? version then field OffsetCommitRequest_group_instance_id (if 8 <=? version then
        NullableCompactString else NullableString) else unset OffsetCommitRequest_group_instance_id is_none
        None)
    ⊛ (if version <=? 4 then field OffsetCommitRequest_retention_time_ms Int64 else ignored (-1))
    ⊛ (field OffsetCommitRequest_topics (if 8 <=? version then CompactArray (Struct
        OffsetCommitRequestTopic_codec version) else Array (Struct OffsetCommitRequestTopic_codec version)))
    ⊛ unknown_tags (8 <=? version) OffsetCommitRequest_unknown_tagged_fields).

Definition OffsetCommitRequest_valid (version : Z) (x : OffsetCommitRequest) : Prop :=
  utf8 (OffsetCommitRequest_group_id x) ∧
  in_signed 32 (OffsetCommitRequest_generation_id_or_member_epoch x) ∧
  utf8 (OffsetCommitRequest_member_id x) ∧
  opt_all utf8 (OffsetCommitRequest_group_instance_id x) ∧
  (if version <=? 4 then in_signed 64 (OffsetCommitRequest_retention_time_ms x) else
      OffsetCommitRequest_retention_time_ms x = (-1)) ∧
  Forall (OffsetCommitRequestTopic_valid version) (OffsetCommitRequest_topics x) ∧
  (if 8 <=? version then unknown_valid 0 (OffsetCommitRequest_unknown_tagged_fields x) else
      OffsetCommitRequest_unknown_tagged_fields x = ∅).

#[global] Instance OffsetCommitRequest_sound version : Sound (OffsetCommitRequest_codec version)
    (OffsetCommitRequest_valid version).
Proof. solve_message. Qed.

(* @ src/crates/kafka-protocol/src/messages/offset_commit_request.rs 683-691 OffsetCommitRequest::header_version *)
Definition OffsetCommitRequest_header_version (version : Z) : Z := if 8 <=? version then 2 else 1.

(* @ src/crates/kafka-protocol/src/messages/offset_commit_request.rs 296-299 OffsetCommitRequest::VERSIONS *)
Definition OffsetCommitRequest_VERSIONS : Z * Z := (2, 10).

(** ** [offset_commit_response] *)

(* @ src/crates/kafka-protocol/src/messages/offset_commit_response.rs 173-189 OffsetCommitResponsePartition *)
Record OffsetCommitResponsePartition : Type := mkOffsetCommitResponsePartition {
  OffsetCommitResponsePartition_partition_index : Z;
  OffsetCommitResponsePartition_error_code : Z;
  OffsetCommitResponsePartition_unknown_tagged_fields : TaggedFields
}.

(* @ src/crates/kafka-protocol/src/messages/offset_commit_response.rs 290-298 OffsetCommitResponsePartition::default *)
Definition OffsetCommitResponsePartition_default : OffsetCommitResponsePartition := {|
  OffsetCommitResponsePartition_partition_index := 0;
  OffsetCommitResponsePartition_error_code := 0;
  OffsetCommitResponsePartition_unknown_tagged_fields := ∅
|}.

(* @ src/crates/kafka-protocol/src/messages/offset_commit_response.rs 222-288 OffsetCommitResponsePartition::encode, compute_size, decode *)
Definition OffsetCommitResponsePartition_codec (version : Z) : Codec OffsetCommitResponsePartition :=
  message 2 10 version (build mkOffsetCommitResponsePartition
    ⊛ (field OffsetCommitResponsePartition_partition_index Int32)
    ⊛ (field OffsetCommitResponsePartition_error_code Int16)
    ⊛ unknown_tags (8 <=? version) OffsetCommitResponsePartition_unknown_tagged_fields).

Definition OffsetCommitResponsePartition_valid (version : Z) (x : OffsetCommitResponsePartition) : Prop :=
  in_signed 32 (OffsetCommitResponsePartition_partition_index x) ∧
  in_signed 16 (OffsetCommitResponsePartition_error_code x) ∧
  (if 8 <=? version then unknown_valid 0 (OffsetCommitResponsePartition_unknown_tagged_fields x) else
      OffsetCommitResponsePartition_unknown_tagged_fields x = ∅).

#[global] Instance OffsetCommitResponsePartition_sound version : Sound (OffsetCommitResponsePartition_codec
    version) (OffsetCommitResponsePartition_valid version).
Proof. solve_message. Qed.

(* @ src/crates/kafka-protocol/src/messages/offset_commit_response.rs 305-326 OffsetCommitResponseTopic *)
Record OffsetCommitResponseTopic : Type := mkOffsetCommitResponseTopic {
  OffsetCommitResponseTopic_name : list byte;
  OffsetCommitResponseTopic_topic_id : Z;
  OffsetCommitResponseTopic_partitions : list OffsetCommitResponsePartition;
  OffsetCommitResponseTopic_unknown_tagged_fields : TaggedFields
}.

(* @ src/crates/kafka-protocol/src/messages/offset_commit_response.rs 481-490 OffsetCommitResponseTopic::default *)
Definition OffsetCommitResponseTopic_default : OffsetCommitResponseTopic := {|
  OffsetCommitResponseTopic_name := [];
  OffsetCommitResponseTopic_topic_id := 0;
  OffsetCommitResponseTopic_partitions := [];
  OffsetCommitResponseTopic_unknown_tagged_fields := ∅
|}.

(* @ src/crates/kafka-protocol/src/messages/offset_commit_response.rs 368-479 OffsetCommitResponseTopic::encode, compute_size, decode *)
Definition OffsetCommitResponseTopic_codec (version : Z) : Codec OffsetCommitResponseTopic :=
  message 2 10 version (build mkOffsetCommitResponseTopic
    ⊛ (if version <=? 9 then field OffsetCommitResponseTopic_name (if 8 <=? version then CompactString else
        KafkaString) else ignored [])
    ⊛ (if 10 <=? version then field OffsetCommitResponseTopic_topic_id Uuid else ignored 0)
    ⊛ (field OffsetCommitResponseTopic_partitions (if 8 <=? version then CompactArray (Struct
        OffsetCommitResponsePartition_codec version) else Array (Struct OffsetCommitResponsePartition_codec
        version)))
    ⊛ unknown_tags (8 <=? version) OffsetCommitResponseTopic_unknown_tagged_fields).

Definition OffsetCommitResponseTopic_valid (version : Z) (x : OffsetCommitResponseTopic) : Prop :=
  (if version <=? 9 then utf8 (OffsetCommitResponseTopic_name x) else OffsetCommitResponseTopic_name x =
      []) ∧
  (if 10 <=? version then in_unsigned 128 (OffsetCommitResponseTopic_topic_id x) else
      OffsetCommitResponseTopic_topic_id x = 0) ∧
  Forall (OffsetCommitResponsePartition_valid version) (OffsetCommitResponseTopic_partitions x) ∧
  (if 8 <=? version then unknown_valid 0 (OffsetCommitResponseTopic_unknown_tagged_fields x) else
      OffsetCommitResponseTopic_unknown_tagged_fields x = ∅).

#[global] Instance OffsetCommitResponseTopic_sound version : Sound (OffsetCommitResponseTopic_codec
    version) (OffsetCommitResponseTopic_valid version).
Proof. solve_message. Qed.

(* @ src/crates/kafka-protocol/src/messages/offset_commit_response.rs 20-36 OffsetCommitResponse *)
Record OffsetCommitResponse : Type := mkOffsetCommitResponse {
  OffsetCommitResponse_throttle_time_ms : Z;
  OffsetCommitResponse_topics : list OffsetCommitResponseTopic;
  OffsetCommitResponse_unknown_tagged_fields : TaggedFields
}.

(* @ src/crates/kafka-protocol/src/messages/offset_commit_response.rs 158-166 OffsetCommitResponse::default *)
Definition OffsetCommitResponse_default : OffsetCommitResponse := {|
  OffsetCommitResponse_throttle_time_ms := 0;
  OffsetCommitResponse_topics := [];
  OffsetCommitResponse_unknown_tagged_fields := ∅
|}.

(* @ src/crates/kafka-protocol/src/messages/offset_commit_response.rs 69-156 OffsetCommitResponse::encode, compute_size, decode *)
Definition OffsetCommitResponse_codec (version : Z) : Codec OffsetCommitResponse :=
  message 2 10 version (build mkOffsetCommitResponse
    ⊛ (if 3 <=? version then field OffsetCommitResponse_throttle_time_ms Int32 else ignored 0)
    ⊛ (field OffsetCommitResponse_topics (if 8 <=? version then CompactArray (Struct
        OffsetCommitResponseTopic_codec version) else Array (Struct OffsetCommitResponseTopic_codec
        version)))
    ⊛ unknown_tags (8 <=? version) OffsetCommitResponse_unknown_tagged_fields).

Definition OffsetCommitResponse_valid (version : Z) (x : OffsetCommitResponse) : Prop :=
  (if 3 <=? version then in_signed 32 (OffsetCommitResponse_throttle_time_ms x) else
      OffsetCommitResponse_throttle_time_ms x = 0) ∧
  Forall (OffsetCommitResponseTopic_valid version) (OffsetCommitResponse_topics x) ∧
  (if 8 <=? version then unknown_valid 0 (OffsetCommitResponse_unknown_tagged_fields x) else
      OffsetCommitResponse_unknown_tagged_fields x = ∅).

#[global] Instance OffsetCommitResponse_sound version : Sound (OffsetCommitResponse_codec version)
    (OffsetCommitResponse_valid version).
Proof. solve_message. Qed.

(* @ src/crates/kafka-protocol/src/messages/offset_commit_response.rs 497-505 OffsetCommitResponse::header_version *)
Definition OffsetCommitResponse_header_version (version : Z) : Z := if 8 <=? version then 1 else 0.

(* @ src/crates/kafka-protocol/src/messages/offset_commit_response.rs 168-171 OffsetCommitResponse::VERSIONS *)
Definition OffsetCommitResponse_VERSIONS : Z * Z := (2, 10).

(** ** [offset_delete_request] *)

(* @ src/crates/kafka-protocol/src/messages/offset_delete_request.rs 102-110 OffsetDeleteRequestPartition *)
Record OffsetDeleteRequestPartition : Type := mkOffsetDeleteRequestPartition {
  OffsetDeleteRequestPartition_partition_index : Z
}.

(* @ src/crates/kafka-protocol/src/messages/offset_delete_request.rs 153-157 OffsetDeleteRequestPartition::default *)
Definition OffsetDeleteRequestPartition_default : OffsetDeleteRequestPartition := {|
  OffsetDeleteRequestPartition_partition_index := 0
|}.

(* @ src/crates/kafka-protocol/src/messages/offset_delete_request.rs 124-151 OffsetDeleteRequestPartition::encode, compute_size, decode *)
Definition OffsetDeleteRequestPartition_codec (version : Z) : Codec OffsetDeleteRequestPartition :=
  message 0 0 version (build mkOffsetDeleteRequestPartition
    ⊛ (field OffsetDeleteRequestPartition_partition_index Int32)).

Definition OffsetDeleteRequestPartition_valid (version : Z) (x : OffsetDeleteRequestPartition) : Prop :=
  in_signed 32 (OffsetDeleteRequestPartition_partition_index x).

#[global] Instance OffsetDeleteRequestPartition_sound version : Sound (OffsetDeleteRequestPartition_codec
    version) (OffsetDeleteRequestPartition_valid version).
Proof. solve_message. Qed.

(* @ src/crates/kafka-protocol/src/messages/offset_delete_request.rs 164-177 OffsetDeleteRequestTopic *)
Record OffsetDeleteRequestTopic : Type := mkOffsetDeleteRequestTopic {
  OffsetDeleteRequestTopic_name : list byte;
  OffsetDeleteRequestTopic_partitions : list OffsetDeleteRequestPartition
}.

(* @ src/crates/kafka-protocol/src/messages/offset_delete_request.rs 232-239 OffsetDeleteRequestTopic::default *)
Definition OffsetDeleteRequestTopic_default : OffsetDeleteRequestTopic := {|
  OffsetDeleteRequestTopic_name := [];
  OffsetDeleteRequestTopic_partitions := []
|}.

(* @ src/crates/kafka-protocol/src/messages/offset_delete_request.rs 200-230 OffsetDeleteRequestTopic::encode, compute_size, decode *)
Definition OffsetDeleteRequestTopic_codec (version : Z) : Codec OffsetDeleteRequestTopic :=
  message 0 0 version (build mkOffsetDeleteRequestTopic
    ⊛ (field OffsetDeleteRequestTopic_name KafkaString)
    ⊛ (field OffsetDeleteRequestTopic_partitions (Array (Struct OffsetDeleteRequestPartition_codec
        version)))).

Definition OffsetDeleteRequestTopic_valid (version : Z) (x : OffsetDeleteRequestTopic) : Prop :=
  utf8 (OffsetDeleteRequestTopic_name x) ∧
  Forall (OffsetDeleteRequestPartition_valid version) (OffsetDeleteRequestTopic_partitions x).

#[global] Instance OffsetDeleteRequestTopic_sound version : Sound (OffsetDeleteRequestTopic_codec version)
    (OffsetDeleteRequestTopic_valid version).
Proof. solve_message. Qed.

(* @ src/crates/kafka-protocol/src/messages/offset_delete_request.rs 20-33 OffsetDeleteRequest *)
Record OffsetDeleteRequest : Type := mkOffsetDeleteRequest {
  OffsetDeleteRequest_group_id : list byte;
  OffsetDeleteRequest_topics : list OffsetDeleteRequestTopic
}.

(* @ src/crates/kafka-protocol/src/messages/offset_delete_request.rs 88-95 OffsetDeleteRequest::default *)
Definition OffsetDeleteRequest_default : OffsetDeleteRequest := {|
  OffsetDeleteRequest_group_id := [];
  OffsetDeleteRequest_topics := []
|}.

(* @ src/crates/kafka-protocol/src/messages/offset_delete_request.rs 56-86 OffsetDeleteRequest::encode, compute_size, decode *)
Definition OffsetDeleteRequest_codec (version : Z) : Codec OffsetDeleteRequest :=
  message 0 0 version (build mkOffsetDeleteRequest
    ⊛ (field OffsetDeleteRequest_group_id KafkaString)
    ⊛ (field OffsetDeleteRequest_topics (Array (Struct OffsetDeleteRequestTopic_codec version)))).

Definition OffsetDeleteRequest_valid (version : Z) (x : OffsetDeleteRequest) : Prop :=
  utf8 (OffsetDeleteRequest_group_id x) ∧
  Forall (OffsetDeleteRequestTopic_valid version) (OffsetDeleteRequest_topics x).

#[global] Instance OffsetDeleteRequest_sound version : Sound (OffsetDeleteRequest_codec version)
    (OffsetDeleteRequest_valid version).
Proof. solve_message. Qed.

(* @ src/crates/kafka-protocol/src/messages/offset_delete_request.rs 246-250 OffsetDeleteRequest::header_version *)
Definition OffsetDeleteRequest_header_version (version : Z) : Z := 1.

(* @ src/crates/kafka-protocol/src/messages/offset_delete_request.rs 97-100 OffsetDeleteRequest::VERSIONS *)
Definition OffsetDeleteRequest_VERSIONS : Z * Z := (0, 0).

(** ** [offset_delete_response] *)

(* @ src/crates/kafka-protocol/src/messages/offset_delete_response.rs 124-137 OffsetDeleteResponsePartition *)
Record OffsetDeleteResponsePartition : Type := mkOffsetDeleteResponsePartition {
  OffsetDeleteResponsePartition_partition_index : Z;
  OffsetDeleteResponsePartition_error_code : Z
}.

(* @ src/crates/kafka-protocol/src/messages/offset_delete_response.rs 195-202 OffsetDeleteResponsePartition::default *)
Definition OffsetDeleteResponsePartition_default : OffsetDeleteResponsePartition := {|
  OffsetDeleteResponsePartition_partition_index := 0;
  OffsetDeleteResponsePartition_error_code := 0
|}.

(* @ src/crates/kafka-protocol/src/messages/offset_delete_response.rs 160-193 OffsetDeleteResponsePartition::encode, compute_size, decode *)
Definition OffsetDeleteResponsePartition_codec (version : Z) : Codec OffsetDeleteResponsePartition :=
  message 0 0 version (build mkOffsetDeleteResponsePartition
    ⊛ (field OffsetDeleteResponsePartition_partition_index Int32)
    ⊛ (field OffsetDeleteResponsePartition_error_code Int16)).

Definition OffsetDeleteResponsePartition_valid (version : Z) (x : OffsetDeleteResponsePartition) : Prop :=
  in_signed 32 (OffsetDeleteResponsePartition_partition_index x) ∧
  in_signed 16 (OffsetDeleteResponsePartition_error_code x).

#[global] Instance OffsetDeleteResponsePartition_sound version : Sound (OffsetDeleteResponsePartition_codec
    version) (OffsetDeleteResponsePartition_valid version).
Proof. solve_message. Qed.

(* @ src/crates/kafka-protocol/src/messages/offset_delete_response.rs 209-222 OffsetDeleteResponseTopic *)
Record OffsetDeleteResponseTopic : Type := mkOffsetDeleteResponseTopic {
  OffsetDeleteResponseTopic_name : list byte;
  OffsetDeleteResponseTopic_partitions : list OffsetDeleteResponsePartition
}.

(* @ src/crates/kafka-protocol/src/messages/offset_delete_response.rs 277-284 OffsetDeleteResponseTopic::default *)
Definition OffsetDeleteResponseTopic_default : OffsetDeleteResponseTopic := {|
  OffsetDeleteResponseTopic_name := [];
  OffsetDeleteResponseTopic_partitions := []
|}.

(* @ src/crates/kafka-protocol/src/messages/offset_delete_response.rs 245-275 OffsetDeleteResponseTopic::encode, compute_size, decode *)
Definition OffsetDeleteResponseTopic_codec (version : Z) : Codec OffsetDeleteResponseTopic :=
  message 0 0 version (build mkOffsetDeleteResponseTopic
    ⊛ (field OffsetDeleteResponseTopic_name KafkaString)
    ⊛ (field OffsetDeleteResponseTopic_partitions (Array (Struct OffsetDeleteResponsePartition_codec
        version)))).

Definition OffsetDeleteResponseTopic_valid (version : Z) (x : OffsetDeleteResponseTopic) : Prop :=
  utf8 (OffsetDeleteResponseTopic_name x) ∧
  Forall (OffsetDeleteResponsePartition_valid version) (OffsetDeleteResponseTopic_partitions x).

#[global] Instance OffsetDeleteResponseTopic_sound version : Sound (OffsetDeleteResponseTopic_codec
    version) (OffsetDeleteResponseTopic_valid version).
Proof. solve_message. Qed.

(* @ src/crates/kafka-protocol/src/messages/offset_delete_response.rs 20-38 OffsetDeleteResponse *)
Record OffsetDeleteResponse : Type := mkOffsetDeleteResponse {
  OffsetDeleteResponse_error_code : Z;
  OffsetDeleteResponse_throttle_time_ms : Z;
  OffsetDeleteResponse_topics : list OffsetDeleteResponseTopic
}.

(* @ src/crates/kafka-protocol/src/messages/offset_delete_response.rs 109-117 OffsetDeleteResponse::default *)
Definition OffsetDeleteResponse_default : OffsetDeleteResponse := {|
  OffsetDeleteResponse_error_code := 0;
  OffsetDeleteResponse_throttle_time_ms := 0;
  OffsetDeleteResponse_topics := []
|}.

(* @ src/crates/kafka-protocol/src/messages/offset_delete_response.rs 70-107 OffsetDeleteResponse::encode, compute_size, decode *)
Definition OffsetDeleteResponse_codec (version : Z) : Codec OffsetDeleteResponse :=
  message 0 0 version (build mkOffsetDeleteResponse
    ⊛ (field OffsetDeleteResponse_error_code Int16)
    ⊛ (field OffsetDeleteResponse_throttle_time_ms Int32)
    ⊛ (field OffsetDeleteResponse_topics (Array (Struct OffsetDeleteResponseTopic_codec version)))).

Definition OffsetDeleteResponse_valid (version : Z) (x : OffsetDeleteResponse) : Prop :=
  in_signed 16 (OffsetDeleteResponse_error_code x) ∧
  in_signed 32 (OffsetDeleteResponse_throttle_time_ms x) ∧
  Forall (OffsetDeleteResponseTopic_valid version) (OffsetDeleteResponse_topics x).

#[global] Instance OffsetDeleteResponse_sound version : Sound (OffsetDeleteResponse_codec version)
    (OffsetDeleteResponse_valid version).
Proof. solve_message. Qed.

(* @ src/crates/kafka-protocol/src/messages/offset_delete_response.rs 291-295 OffsetDeleteResponse::header_version *)
Definition OffsetDeleteResponse_header_version (version : Z) : Z := 0.

(* @ src/crates/kafka-protocol/src/messages/offset_delete_response.rs 119-122 OffsetDeleteResponse::VERSIONS *)
Definition OffsetDeleteResponse_VERSIONS : Z * Z := (0, 0).

(** ** [offset_fetch_request] *)

(* @ src/crates/kafka-protocol/src/messages/offset_fetch_request.rs 519-535 OffsetFetchRequestTopic *)
Record OffsetFetchRequestTopic : Type := mkOffsetFetchRequestTopic {
  OffsetFetchRequestTopic_name : list byte;
  OffsetFetchRequestTopic_partition_indexes : list Z;
  OffsetFetchRequestTopic_unknown_tagged_fields : TaggedFields
}.

(* @ src/crates/kafka-protocol/src/messages/offset_fetch_request.rs 693-701 OffsetFetchRequestTopic::default *)
Definition OffsetFetchRequestTopic_default : OffsetFetchRequestTopic := {|
  OffsetFetchRequestTopic_name := [];
  OffsetFetchRequestTopic_partition_indexes := [];
  OffsetFetchRequestTopic_unknown_tagged_fields := ∅
|}.

(* @ src/crates/kafka-protocol/src/messages/offset_fetch_request.rs 568-691 OffsetFetchRequestTopic::encode, compute_size, decode *)
Definition OffsetFetchRequestTopic_codec (version : Z) : Codec OffsetFetchRequestTopic :=
  message 1 10 version (build mkOffsetFetchRequestTopic
    ⊛ (if version <=? 7 then field OffsetFetchRequestTopic_name (if 6 <=? version then CompactString else
        KafkaString) else unset OffsetFetchRequestTopic_name is_empty [])
    ⊛ (if version <=? 7 then field OffsetFetchRequestTopic_partition_indexes (if 6 <=? version then
        CompactArray Int32 else Array Int32) else unset OffsetFetchRequestTopic_partition_indexes is_empty
        [])
    ⊛ unknown_tags (6 <=? version) OffsetFetchRequestTopic_unknown_tagged_fields).

Definition OffsetFetchRequestTopic_valid (version : Z) (x : OffsetFetchRequestTopic) : Prop :=
  utf8 (OffsetFetchRequestTopic_name x) ∧
  Forall (in_signed 32) (OffsetFetchRequestTopic_partition_indexes x) ∧
  (if 6 <=? version then unknown_valid 0 (OffsetFetchRequestTopic_unknown_tagged_fields x) else
      OffsetFetchRequestTopic_unknown_tagged_fields x = ∅).

#[global] Instance OffsetFetchRequestTopic_sound version : Sound (OffsetFetchRequestTopic_codec version)
    (OffsetFetchRequestTopic_valid version).
Proof. solve_message. Qed.

(* @ src/crates/kafka-protocol/src/messages/offset_fetch_request.rs 708-729 OffsetFetchRequestTopics *)
Record OffsetFetchRequestTopics : Type := mkOffsetFetchRequestTopics {
  OffsetFetchRequestTopics_name : list byte;
  OffsetFetchRequestTopics_topic_id : Z;
  OffsetFetchRequestTopics_partition_indexes : list Z;
  OffsetFetchRequestTopics_unknown_tagged_fields : TaggedFields
}.

(* @ src/crates/kafka-protocol/src/messages/offset_fetch_request.rs 876-885 OffsetFetchRequestTopics::default *)
Definition OffsetFetchRequestTopics_default : OffsetFetchRequestTopics := {|
  OffsetFetchRequestTopics_name := [];
  OffsetFetchRequestTopics_topic_id := 0;
  OffsetFetchRequestTopics_partition_indexes := [];
  OffsetFetchRequestTopics_unknown_tagged_fields := ∅
|}.

(* @ src/crates/kafka-protocol/src/messages/offset_fetch_request.rs 771-874 OffsetFetchRequestTopics::encode, compute_size, decode *)
Definition OffsetFetchRequestTopics_codec (version : Z) : Codec OffsetFetchRequestTopics :=
  message 1 10 version (build mkOffsetFetchRequestTopics
    ⊛ (if (8 <=? version) && (version <=? 9) then field OffsetFetchRequestTopics_name CompactString else
        ignored [])
    ⊛ (if 10 <=? version then field OffsetFetchRequestTopics_topic_id Uuid else ignored 0)
    ⊛ (if 8 <=? version then field OffsetFetchRequestTopics_partition_indexes (CompactArray Int32) else
        unset OffsetFetchRequestTopics_partition_indexes is_empty [])
    ⊛ unknown_tags (6 <=? version) OffsetFetchRequestTopics_unknown_tagged_fields).

Definition OffsetFetchRequestTopics_valid (version : Z) (x : OffsetFetchRequestTopics) : Prop :=
  (if (8 <=? version) && (version <=? 9) then utf8 (OffsetFetchRequestTopics_name x) else
      OffsetFetchRequestTopics_name x = []) ∧
  (if 10 <=? version then in_unsigned 128 (OffsetFetchRequestTopics_topic_id x) else
      OffsetFetchRequestTopics_topic_id x = 0) ∧
  Forall (in_signed 32) (OffsetFetchRequestTopics_partition_indexes x) ∧
  (if 6 <=? version then unknown_valid 0 (OffsetFetchRequestTopics_unknown_tagged_fields x) else
      OffsetFetchRequestTopics_unknown_tagged_fields x = ∅).

#[global] Instance OffsetFetchRequestTopics_sound version : Sound (OffsetFetchRequestTopics_codec version)
    (OffsetFetchRequestTopics_valid version).
Proof. solve_message. Qed.

(* @ src/crates/kafka-protocol/src/messages/offset_fetch_request.rs 290-316 OffsetFetchRequestGroup *)
Record OffsetFetchRequestGroup : Type := mkOffsetFetchRequestGroup {
  OffsetFetchRequestGroup_group_id : list byte;
  OffsetFetchRequestGroup_member_id : option (list byte);
  OffsetFetchRequestGroup_member_epoch : Z;
  OffsetFetchRequestGroup_topics : option (list OffsetFetchRequestTopics);
  OffsetFetchRequestGroup_unknown_tagged_fields : TaggedFields
}.

(* @ src/crates/kafka-protocol/src/messages/offset_fetch_request.rs 502-512 OffsetFetchRequestGroup::default *)
Definition OffsetFetchRequestGroup_default : OffsetFetchRequestGroup := {|
  OffsetFetchRequestGroup_group_id := [];
  OffsetFetchRequestGroup_member_id := None;
  OffsetFetchRequestGroup_member_epoch := -1;
  OffsetFetchRequestGroup_topics := Some [];
  OffsetFetchRequestGroup_unknown_tagged_fields := ∅
|}.

(* @ src/crates/kafka-protocol/src/messages/offset_fetch_request.rs 367-500 OffsetFetchRequestGroup::encode, compute_size, decode *)
Definition OffsetFetchRequestGroup_codec (version : Z) : Codec OffsetFetchRequestGroup :=
  message 1 10 version (build mkOffsetFetchRequestGroup
    ⊛ (if 8 <=? version then field OffsetFetchRequestGroup_group_id CompactString else unset
        OffsetFetchRequestGroup_group_id is_empty [])
    ⊛ (if 9 <=? version then field OffsetFetchRequestGroup_member_id NullableCompactString else ignored
        None)
    ⊛ (if 9 <=? version then field OffsetFetchRequestGroup_member_epoch Int32 else ignored (-1))
    ⊛ (if 8 <=? version then field OffsetFetchRequestGroup_topics (NullableCompactArray (Struct
        OffsetFetchRequestTopics_codec version)) else unset OffsetFetchRequestGroup_topics is_some_empty
        (Some []))
    ⊛ unknown_tags (6 <=? version) OffsetFetchRequestGroup_unknown_tagged_fields).

Definition OffsetFetchRequestGroup_valid (version : Z) (x : OffsetFetchRequestGroup) : Prop :=
  utf8 (OffsetFetchRequestGroup_group_id x) ∧
  (if 9 <=? version then opt_all utf8 (OffsetFetchRequestGroup_member_id x) else
      OffsetFetchRequestGroup_member_id x = None) ∧
  (if 9 <=? version then in_signed 32 (OffsetFetchRequestGroup_member_epoch x) else
      OffsetFetchRequestGroup_member_epoch x = (-1)) ∧
  opt_all (Forall (OffsetFetchRequestTopics_valid version)) (OffsetFetchRequestGroup_topics x) ∧
  (if 6 <=? version then unknown_valid 0 (OffsetFetchRequestGroup_unknown_tagged_fields x) else
      OffsetFetchRequestGroup_unknown_tagged_fields x = ∅).

#[global] Instance OffsetFetchRequestGroup_sound version : Sound (OffsetFetchRequestGroup_codec version)
    (OffsetFetchRequestGroup_valid version).
Proof. solve_message. Qed.

(* @ src/crates/kafka-protocol/src/messages/offset_fetch_request.rs 20-46 OffsetFetchRequest *)
Record OffsetFetchRequest : Type := mkOffsetFetchRequest {
  OffsetFetchRequest_group_id : list byte;
  OffsetFetchRequest_topics : option (list OffsetFetchRequestTopic);
  OffsetFetchRequest_groups : list OffsetFetchRequestGroup;
  OffsetFetchRequest_require_stable : bool;
  OffsetFetchRequest_unknown_tagged_fields : TaggedFields
}.

(* @ src/crates/kafka-protocol/src/messages/offset_fetch_request.rs 273-283 OffsetFetchRequest::default *)
Definition OffsetFetchRequest_default : OffsetFetchRequest := {|
  OffsetFetchRequest_group_id := [];
  OffsetFetchRequest_topics := Some [];
  OffsetFetchRequest_groups := [];
  OffsetFetchRequest_require_stable := false;
  OffsetFetchRequest_unknown_tagged_fields := ∅
|}.

(* @ src/crates/kafka-protocol/src/messages/offset_fetch_request.rs 97-271 OffsetFetchRequest::encode, compute_size, decode *)
Definition OffsetFetchRequest_codec (version : Z) : Codec OffsetFetchRequest :=
  message 1 10 version (build mkOffsetFetchRequest
    ⊛ (if version <=? 7 then field OffsetFetchRequest_group_id (if 6 <=? version then CompactString else
        KafkaString) else unset OffsetFetchRequest_group_id is_empty [])
    ⊛ (if version <=? 7 then field OffsetFetchRequest_topics (if 6 <=? version then NullableCompactArray
        (Struct OffsetFetchRequestTopic_codec version) else NullableArray (Struct
        OffsetFetchRequestTopic_codec version)) else unset OffsetFetchRequest_topics is_some_empty (Some
        []))
    ⊛ (if 8 <=? version then field OffsetFetchRequest_groups (CompactArray (Struct
        OffsetFetchRequestGroup_codec version)) else unset OffsetFetchRequest_groups is_empty [])
    ⊛ (if 7 <=? version then field OffsetFetchRequest_require_stable Boolean else unset
        OffsetFetchRequest_require_stable negb false)
    ⊛ unknown_tags (6 <=? version) OffsetFetchRequest_unknown_tagged_fields).

Definition OffsetFetchRequest_valid (version : Z) (x : OffsetFetchRequest) : Prop :=
  utf8 (OffsetFetchRequest_group_id x) ∧
  opt_all (Forall (OffsetFetchRequestTopic_valid version)) (OffsetFetchRequest_topics x) ∧
  Forall (OffsetFetchRequestGroup_valid version) (OffsetFetchRequest_groups x) ∧
  (if 6 <=? version then unknown_valid 0 (OffsetFetchRequest_unknown_tagged_fields x) else
      OffsetFetchRequest_unknown_tagged_fields x = ∅).

#[global] Instance OffsetFetchRequest_sound version : Sound (OffsetFetchRequest_codec version)
    (OffsetFetchRequest_valid version).
Proof. solve_message. Qed.

(* @ src/crates/kafka-protocol/src/messages/offset_fetch_request.rs 892-900 OffsetFetchRequest::header_version *)
Definition OffsetFetchRequest_header_version (version : Z) : Z := if 6 <=? version then 2 else 1.

(* @ src/crates/kafka-protocol/src/messages/offset_fetch_request.rs 285-288 OffsetFetchRequest::VERSIONS *)
Definition OffsetFetchRequest_VERSIONS : Z * Z := (1, 10).

(** ** [offset_fetch_response] *)

(* @ src/crates/kafka-protocol/src/messages/offset_fetch_response.rs 452-483 OffsetFetchResponsePartition *)
Record OffsetFetchResponsePartition : Type := mkOffsetFetchResponsePartition {
  OffsetFetchResponsePartition_partition_index : Z;
  OffsetFetchResponsePartition_committed_offset : Z;
  OffsetFetchResponsePartition_committed_leader_epoch : Z;
  OffsetFetchResponsePartition_metadata : option (list byte);
  OffsetFetchResponsePartition_error_code : Z;
  OffsetFetchResponsePartition_unknown_tagged_fields : TaggedFields
}.

(* @ src/crates/kafka-protocol/src/messages/offset_fetch_response.rs 717-728 OffsetFetchResponsePartition::default *)
Definition OffsetFetchResponsePartition_default : OffsetFetchResponsePartition := {|
  OffsetFetchResponsePartition_partition_index := 0;
  OffsetFetchResponsePartition_committed_offset := 0;
  OffsetFetchResponsePartition_committed_leader_epoch := -1;
  OffsetFetchResponsePartition_metadata := Some [];
  OffsetFetchResponsePartition_error_code := 0;
  OffsetFetchResponsePartition_unknown_tagged_fields := ∅
|}.

(* @ src/crates/kafka-protocol/src/messages/offset_fetch_response.rs 543-715 OffsetFetchResponsePartition::encode, compute_size, decode *)
Definition OffsetFetchResponsePartition_codec (version : Z) : Codec OffsetFetchResponsePartition :=
  message 1 10 version (build mkOffsetFetchResponsePartition
    ⊛ (if version <=? 7 then field OffsetFetchResponsePartition_partition_index Int32 else unset
        OffsetFetchResponsePartition_partition_index (Z.eqb 0) 0)
    ⊛ (if version <=? 7 then field OffsetFetchResponsePartition_committed_offset Int64 else unset
        OffsetFetchResponsePartition_committed_offset (Z.eqb 0) 0)
    ⊛ (if (5 <=? version) && (version <=? 7) then field OffsetFetchResponsePartition_committed_leader_epoch
        Int32 else ignored (-1))
    ⊛ (if version <=? 7 then field OffsetFetchResponsePartition_metadata (if 6 <=? version then
        NullableCompactString else NullableString) else unset OffsetFetchResponsePartition_metadata
        is_some_empty (Some []))
    ⊛ (if version <=? 7 then field OffsetFetchResponsePartition_error_code Int16 else unset
        OffsetFetchResponsePartition_error_code (Z.eqb 0) 0)
    ⊛ unknown_tags (6 <=? version) OffsetFetchResponsePartition_unknown_tagged_fields).

Definition OffsetFetchResponsePartition_valid (version : Z) (x : OffsetFetchResponsePartition) : Prop :=
  in_signed 32 (OffsetFetchResponsePartition_partition_index x) ∧
  in_signed 64 (OffsetFetchResponsePartition_committed_offset x) ∧
  (if (5 <=? version) && (version <=? 7) then in_signed 32
      (OffsetFetchResponsePartition_committed_leader_epoch x) else
      OffsetFetchResponsePartition_committed_leader_epoch x = (-1)) ∧
  opt_all utf8 (OffsetFetchResponsePartition_metadata x) ∧
  in_signed 16 (OffsetFetchResponsePartition_error_code x) ∧
  (if 6 <=? version then unknown_valid 0 (OffsetFetchResponsePartition_unknown_tagged_fields x) else
      OffsetFetchResponsePartition_unknown_tagged_fields x = ∅).

#[global] Instance OffsetFetchResponsePartition_sound version : Sound (OffsetFetchResponsePartition_codec
    version) (OffsetFetchResponsePartition_valid version).
Proof. solve_message. Qed.

(* @ src/crates/kafka-protocol/src/messages/offset_fetch_response.rs 1006-1022 OffsetFetchResponseTopic *)
Record OffsetFetchResponseTopic : Type := mkOffsetFetchResponseTopic {
  OffsetFetchResponseTopic_name : list byte;
  OffsetFetchResponseTopic_partitions : list OffsetFetchResponsePartition;
  OffsetFetchResponseTopic_unknown_tagged_fields : TaggedFields
}.

(* @ src/crates/kafka-protocol/src/messages/offset_fetch_response.rs 1181-1189 OffsetFetchResponseTopic::default *)
Definition OffsetFetchResponseTopic_default : OffsetFetchResponseTopic := {|
  OffsetFetchResponseTopic_name := [];
  OffsetFetchResponseTopic_partitions := [];
  OffsetFetchResponseTopic_unknown_tagged_fields := ∅
|}.

(* @ src/crates/kafka-protocol/src/messages/offset_fetch_response.rs 1055-1179 OffsetFetchResponseTopic::encode, compute_size, decode *)
Definition OffsetFetchResponseTopic_codec (version : Z) : Codec OffsetFetchResponseTopic :=
  message 1 10 version (build mkOffsetFetchResponseTopic
    ⊛ (if version <=? 7 then field OffsetFetchResponseTopic_name (if 6 <=? version then CompactString else
        KafkaString) else unset OffsetFetchResponseTopic_name is_empty [])
    ⊛ (if version <=? 7 then field OffsetFetchResponseTopic_partitions (if 6 <=? version then CompactArray
        (Struct OffsetFetchResponsePartition_codec version) else Array (Struct
        OffsetFetchResponsePartition_codec version)) else unset OffsetFetchResponseTopic_partitions
        is_empty [])
    ⊛ unknown_tags (6 <=? version) OffsetFetchResponseTopic_unknown_tagged_fields).

Definition OffsetFetchResponseTopic_valid (version : Z) (x : OffsetFetchResponseTopic) : Prop :=
  utf8 (OffsetFetchResponseTopic_name x) ∧
  Forall (OffsetFetchResponsePartition_valid version) (OffsetFetchResponseTopic_partitions x) ∧
  (if 6 <=? version then unknown_valid 0 (OffsetFetchResponseTopic_unknown_tagged_fields x) else
      OffsetFetchResponseTopic_unknown_tagged_fields x = ∅).

#[global] Instance OffsetFetchResponseTopic_sound version : Sound (OffsetFetchResponseTopic_codec version)
    (OffsetFetchResponseTopic_valid version).
Proof. solve_message. Qed.

(* @ src/crates/kafka-protocol/src/messages/offset_fetch_response.rs 735-766 OffsetFetchResponsePartitions *)
Record OffsetFetchResponsePartitions : Type := mkOffsetFetchResponsePartitions {
  OffsetFetchResponsePartitions_partition_index : Z;
  OffsetFetchResponsePartitions_committed_offset : Z;
  OffsetFetchResponsePartitions_committed_leader_epoch : Z;
  OffsetFetchResponsePartitions_metadata : option (list byte);
  OffsetFetchResponsePartitions_error_code : Z;
  OffsetFetchResponsePartitions_unknown_tagged_fields : TaggedFields
}.

(* @ src/crates/kafka-protocol/src/messages/offset_fetch_response.rs 988-999 OffsetFetchResponsePartitions::default *)
Definition OffsetFetchResponsePartitions_default : OffsetFetchResponsePartitions := {|
  OffsetFetchResponsePartitions_partition_index := 0;
  OffsetFetchResponsePartitions_committed_offset := 0;
  OffsetFetchResponsePartitions_committed_leader_epoch := -1;
  OffsetFetchResponsePartitions_metadata := Some [];
  OffsetFetchResponsePartitions_error_code := 0;
  OffsetFetchResponsePartitions_unknown_tagged_fields := ∅
|}.

(* @ src/crates/kafka-protocol/src/messages/offset_fetch_response.rs 826-986 OffsetFetchResponsePartitions::encode, compute_size, decode *)
Definition OffsetFetchResponsePartitions_codec (version : Z) : Codec OffsetFetchResponsePartitions :=
  message 1 10 version (build mkOffsetFetchResponsePartitions
    ⊛ (if 8 <=? version then field OffsetFetchResponsePartitions_partition_index Int32 else unset
        OffsetFetchResponsePartitions_partition_index (Z.eqb 0) 0)
    ⊛ (if 8 <=? version then field OffsetFetchResponsePartitions_committed_offset Int64 else unset
        OffsetFetchResponsePartitions_committed_offset (Z.eqb 0) 0)
    ⊛ (if 8 <=? version then field OffsetFetchResponsePartitions_committed_leader_epoch Int32 else ignored
        (-1))
    ⊛ (if 8 <=? version then field OffsetFetchResponsePartitions_metadata NullableCompactString else unset
        OffsetFetchResponsePartitions_metadata is_some_empty (Some []))
    ⊛ (if 8 <=? version then field OffsetFetchResponsePartitions_error_code Int16 else unset
        OffsetFetchResponsePartitions_error_code (Z.eqb 0) 0)
    ⊛ unknown_tags (6 <=? version) OffsetFetchResponsePartitions_unknown_tagged_fields).

Definition OffsetFetchResponsePartitions_valid (version : Z) (x : OffsetFetchResponsePartitions) : Prop :=
  in_signed 32 (OffsetFetchResponsePartitions_partition_index x) ∧
  in_signed 64 (OffsetFetchResponsePartitions_committed_offset x) ∧
  (if 8 <=? version then in_signed 32 (OffsetFetchResponsePartitions_committed_leader_epoch x) else
      OffsetFetchResponsePartitions_committed_leader_epoch x = (-1)) ∧
  opt_all utf8 (OffsetFetchResponsePartitions_metadata x) ∧
  in_signed 16 (OffsetFetchResponsePartitions_error_code x) ∧
  (if 6 <=? version then unknown_valid 0 (OffsetFetchResponsePartitions_unknown_tagged_fields x) else
      OffsetFetchResponsePartitions_unknown_tagged_fields x = ∅).

#[global] Instance OffsetFetchResponsePartitions_sound version : Sound (OffsetFetchResponsePartitions_codec
    version) (OffsetFetchResponsePartitions_valid version).
Proof. solve_message. Qed.

(* @ src/crates/kafka-protocol/src/messages/offset_fetch_response.rs 1196-1217 OffsetFetchResponseTopics *)
Record OffsetFetchResponseTopics : Type := mkOffsetFetchResponseTopics {
  OffsetFetchResponseTopics_name : list byte;
  OffsetFetchResponseTopics_topic_id : Z;
  OffsetFetchResponseTopics_partitions : list OffsetFetchResponsePartitions;
  OffsetFetchResponseTopics_unknown_tagged_fields : TaggedFields
}.

(* @ src/crates/kafka-protocol/src/messages/offset_fetch_response.rs 1364-1373 OffsetFetchResponseTopics::default *)
Definition OffsetFetchResponseTopics_default : OffsetFetchResponseTopics := {|
  OffsetFetchResponseTopics_name := [];
  OffsetFetchResponseTopics_topic_id := 0;
  OffsetFetchResponseTopics_partitions := [];
  OffsetFetchResponseTopics_unknown_tagged_fields := ∅
|}.

(* @ src/crates/kafka-protocol/src/messages/offset_fetch_response.rs 1259-1362 OffsetFetchResponseTopics::encode, compute_size, decode *)
Definition OffsetFetchResponseTopics_codec (version : Z) : Codec OffsetFetchResponseTopics :=
  message 1 10 version (build mkOffsetFetchResponseTopics
    ⊛ (if (8 <=? version) && (version <=? 9) then field OffsetFetchResponseTopics_name CompactString else
        ignored [])
    ⊛ (if 10 <=? version then field OffsetFetchResponseTopics_topic_id Uuid else ignored 0)
    ⊛ (if 8 <=? version then field OffsetFetchResponseTopics_partitions (CompactArray (Struct
        OffsetFetchResponsePartitions_codec version)) else unset OffsetFetchResponseTopics_partitions
        is_empty [])
    ⊛ unknown_tags (6 <=? version) OffsetFetchResponseTopics_unknown_tagged_fields).

Definition OffsetFetchResponseTopics_valid (version : Z) (x : OffsetFetchResponseTopics) : Prop :=
  (if (8 <=? version) && (version <=? 9) then utf8 (OffsetFetchResponseTopics_name x) else
      OffsetFetchResponseTopics_name x = []) ∧
  (if 10 <=? version then in_unsigned 128 (OffsetFetchResponseTopics_topic_id x) else
      OffsetFetchResponseTopics_topic_id x = 0) ∧
  Forall (OffsetFetchResponsePartitions_valid version) (OffsetFetchResponseTopics_partitions x) ∧
  (if 6 <=? version then unknown_valid 0 (OffsetFetchResponseTopics_unknown_tagged_fields x) else
      OffsetFetchResponseTopics_unknown_tagged_fields x = ∅).

#[global] Instance OffsetFetchResponseTopics_sound version : Sound (OffsetFetchResponseTopics_codec
    version) (OffsetFetchResponseTopics_valid version).
Proof. solve_message. Qed.

(* @ src/crates/kafka-protocol/src/messages/offset_fetch_response.rs 252-273 OffsetFetchResponseGroup *)
Record OffsetFetchResponseGroup : Type := mkOffsetFetchResponseGroup {
  OffsetFetchResponseGroup_group_id : list byte;
  OffsetFetchResponseGroup_topics : list OffsetFetchResponseTopics;
  OffsetFetchResponseGroup_error_code : Z;
  OffsetFetchResponseGroup_unknown_tagged_fields : TaggedFields
}.

(* @ src/crates/kafka-protocol/src/messages/offset_fetch_response.rs 436-445 OffsetFetchResponseGroup::default *)
Definition OffsetFetchResponseGroup_default : OffsetFetchResponseGroup := {|
  OffsetFetchResponseGroup_group_id := [];
  OffsetFetchResponseGroup_topics := [];
  OffsetFetchResponseGroup_error_code := 0;
  OffsetFetchResponseGroup_unknown_tagged_fields := ∅
|}.

(* @ src/crates/kafka-protocol/src/messages/offset_fetch_response.rs 315-434 OffsetFetchResponseGroup::encode, compute_size, decode *)
Definition OffsetFetchResponseGroup_codec (version : Z) : Codec OffsetFetchResponseGroup :=
  message 1 10 version (build mkOffsetFetchResponseGroup
    ⊛ (if 8 <=? version then field OffsetFetchResponseGroup_group_id CompactString else unset
        OffsetFetchResponseGroup_group_id is_empty [])
    ⊛ (if 8 <=? version then field OffsetFetchResponseGroup_topics (CompactArray (Struct
        OffsetFetchResponseTopics_codec version)) else unset OffsetFetchResponseGroup_topics is_empty [])
    ⊛ (if 8 <=? version then field OffsetFetchResponseGroup_error_code Int16 else unset
        OffsetFetchResponseGroup_error_code (Z.eqb 0) 0)
    ⊛ unknown_tags (6 <=? version) OffsetFetchResponseGroup_unknown_tagged_fields).

Definition OffsetFetchResponseGroup_valid (version : Z) (x : OffsetFetchResponseGroup) : Prop :=
  utf8 (OffsetFetchResponseGroup_group_id x) ∧
  Forall (OffsetFetchResponseTopics_valid version) (OffsetFetchResponseGroup_topics x) ∧
  in_signed 16 (OffsetFetchResponseGroup_error_code x) ∧
  (if 6 <=? version then unknown_valid 0 (OffsetFetchResponseGroup_unknown_tagged_fields x) else
      OffsetFetchResponseGroup_unknown_tagged_fields x = ∅).

#[global] Instance OffsetFetchResponseGroup_sound version : Sound (OffsetFetchResponseGroup_codec version)
    (OffsetFetchResponseGroup_valid version).
Proof. solve_message. Qed.

(* @ src/crates/kafka-protocol/src/messages/offset_fetch_response.rs 20-46 OffsetFetchResponse *)
Record OffsetFetchResponse : Type := mkOffsetFetchResponse {
  OffsetFetchResponse_throttle_time_ms : Z;
  OffsetFetchResponse_topics : list OffsetFetchResponseTopic;
  OffsetFetchResponse_error_code : Z;
  OffsetFetchResponse_groups : list OffsetFetchResponseGroup;
  OffsetFetchResponse_unknown_tagged_fields : TaggedFields
}.

(* @ src/crates/kafka-protocol/src/messages/offset_fetch_response.rs 235-245 OffsetFetchResponse::default *)
Definition OffsetFetchResponse_default : OffsetFetchResponse := {|
  OffsetFetchResponse_throttle_time_ms := 0;
  OffsetFetchResponse_topics := [];
  OffsetFetchResponse_error_code := 0;
  OffsetFetchResponse_groups := [];
  OffsetFetchResponse_unknown_tagged_fields := ∅
|}.

(* @ src/crates/kafka-protocol/src/messages/offset_fetch_response.rs 97-233 OffsetFetchResponse::encode, compute_size, decode *)
Definition OffsetFetchResponse_codec (version : Z) : Codec OffsetFetchResponse :=
  message 1 10 version (build mkOffsetFetchResponse
    ⊛ (if 3 <=? version then field OffsetFetchResponse_throttle_time_ms Int32 else ignored 0)
    ⊛ (if version <=? 7 then field OffsetFetchResponse_topics (if 6 <=? version then CompactArray (Struct
        OffsetFetchResponseTopic_codec version) else Array (Struct OffsetFetchResponseTopic_codec version))
        else unset OffsetFetchResponse_topics is_empty [])
    ⊛ (if (2 <=? version) && (version <=? 7) then field OffsetFetchResponse_error_code Int16 else ignored 0)
    ⊛ (if 8 <=? version then field OffsetFetchResponse_groups (CompactArray (Struct
        OffsetFetchResponseGroup_codec version)) else unset OffsetFetchResponse_groups is_empty [])
    ⊛ unknown_tags (6 <=? version) OffsetFetchResponse_unknown_tagged_fields).

Definition OffsetFetchResponse_valid (version : Z) (x : OffsetFetchResponse) : Prop :=
  (if 3 <=? version then in_signed 32 (OffsetFetchResponse_throttle_time_ms x) else
      OffsetFetchResponse_throttle_time_ms x = 0) ∧
  Forall (OffsetFetchResponseTopic_valid version) (OffsetFetchResponse_topics x) ∧
  (if (2 <=? version) && (version <=? 7) then in_signed 16 (OffsetFetchResponse_error_code x) else
      OffsetFetchResponse_error_code x = 0) ∧
  Forall (OffsetFetchResponseGroup_valid version) (OffsetFetchResponse_groups x) ∧
  (if 6 <=? version then unknown_valid 0 (OffsetFetchResponse_unknown_tagged_fields x) else
      OffsetFetchResponse_unknown_tagged_fields x = ∅).

#[global] Instance OffsetFetchResponse_sound version : Sound (OffsetFetchResponse_codec version)
    (OffsetFetchResponse_valid version).
Proof. solve_message. Qed.

(* @ src/crates/kafka-protocol/src/messages/offset_fetch_response.rs 1380-1388 OffsetFetchResponse::header_version *)
Definition OffsetFetchResponse_header_version (version : Z) : Z := if 6 <=? version then 1 else 0.

(* @ src/crates/kafka-protocol/src/messages/offset_fetch_response.rs 247-250 OffsetFetchResponse::VERSIONS *)
Definition OffsetFetchResponse_VERSIONS : Z * Z := (1, 10).

(** ** [sync_group_request] *)

(* @ src/crates/kafka-protocol/src/messages/sync_group_request.rs 329-345 SyncGroupRequestAssignment *)
Record SyncGroupRequestAssignment : Type := mkSyncGroupRequestAssignment {
  SyncGroupRequestAssignment_member_id : list byte;
  SyncGroupRequestAssignment_assignment : list byte;
  SyncGroupRequestAssignment_unknown_tagged_fields : TaggedFields
}.

(* @ src/crates/kafka-protocol/src/messages/sync_group_request.rs 470-478 SyncGroupRequestAssignment::default *)
Definition SyncGroupRequestAssignment_default : SyncGroupRequestAssignment := {|
  SyncGroupRequestAssignment_member_id := [];
  SyncGroupRequestAssignment_assignment := [];
  SyncGroupRequestAssignment_unknown_tagged_fields := ∅
|}.

(* @ src/crates/kafka-protocol/src/messages/sync_group_request.rs 378-468 SyncGroupRequestAssignment::encode, compute_size, decode *)
Definition SyncGroupRequestAssignment_codec (version : Z) : Codec SyncGroupRequestAssignment :=
  message 0 5 version (build mkSyncGroupRequestAssignment
    ⊛ (field SyncGroupRequestAssignment_member_id (if 4 <=? version then CompactString else KafkaString))
    ⊛ (field SyncGroupRequestAssignment_assignment (if 4 <=? version then CompactBytes else Bytes))
    ⊛ unknown_tags (4 <=? version) SyncGroupRequestAssignment_unknown_tagged_fields).

Definition SyncGroupRequestAssignment_valid (version : Z) (x : SyncGroupRequestAssignment) : Prop :=
  utf8 (SyncGroupRequestAssignment_member_id x) ∧
  (if 4 <=? version then unknown_valid 0 (SyncGroupRequestAssignment_unknown_tagged_fields x) else
      SyncGroupRequestAssignment_unknown_tagged_fields x = ∅).

#[global] Instance SyncGroupRequestAssignment_sound version : Sound (SyncGroupRequestAssignment_codec
    version) (SyncGroupRequestAssignment_valid version).
Proof. solve_message. Qed.

(* @ src/crates/kafka-protocol/src/messages/sync_group_request.rs 20-61 SyncGroupRequest *)
Record SyncGroupRequest : Type := mkSyncGroupRequest {
  SyncGroupRequest_group_id : list byte;
  SyncGroupRequest_generation_id : Z;
  SyncGroupRequest_member_id : list byte;
  SyncGroupRequest_group_instance_id : option (list byte);
  SyncGroupRequest_protocol_type : option (list byte);
  SyncGroupRequest_protocol_name : option (list byte);
  SyncGroupRequest_assignments : list SyncGroupRequestAssignment;
  SyncGroupRequest_unknown_tagged_fields : TaggedFields
}.

(* @ src/crates/kafka-protocol/src/messages/sync_group_request.rs 309-322 SyncGroupRequest::default *)
Definition SyncGroupRequest_default : SyncGroupRequest := {|
  SyncGroupRequest_group_id := [];
  SyncGroupRequest_generation_id := 0;
  SyncGroupRequest_member_id := [];
  SyncGroupRequest_group_instance_id := None;
  SyncGroupRequest_protocol_type := None;
  SyncGroupRequest_protocol_name := None;
  SyncGroupRequest_assignments := [];
  SyncGroupRequest_unknown_tagged_fields := ∅
|}.

(* @ src/crates/kafka-protocol/src/messages/sync_group_request.rs 139-307 SyncGroupRequest::encode, compute_size, decode *)
Definition SyncGroupRequest_codec (version : Z) : Codec SyncGroupRequest :=
  message 0 5 version (build mkSyncGroupRequest
    ⊛ (field SyncGroupRequest_group_id (if 4 <=? version then CompactString else KafkaString))
    ⊛ (field SyncGroupRequest_generation_id Int32)
    ⊛ (field SyncGroupRequest_member_id (if 4 <=? version then CompactString else KafkaString))
    ⊛ (if 3 <=? version then field SyncGroupRequest_group_instance_id (if 4 <=? version then
        NullableCompactString else NullableString) else unset SyncGroupRequest_group_instance_id is_none
        None)
    ⊛ (if 5 <=? version then field SyncGroupRequest_protocol_type NullableCompactString else ignored None)
    ⊛ (if 5 <=? version then field SyncGroupRequest_protocol_name NullableCompactString else ignored None)
    ⊛ (field SyncGroupRequest_assignments (if 4 <=? version then CompactArray (Struct
        SyncGroupRequestAssignment_codec version) else Array (Struct SyncGroupRequestAssignment_codec
        version)))
    ⊛ unknown_tags (4 <=? version) SyncGroupRequest_unknown_tagged_fields).

Definition SyncGroupRequest_valid (version : Z) (x : SyncGroupRequest) : Prop :=
  utf8 (SyncGroupRequest_group_id x) ∧
  in_signed 32 (SyncGroupRequest_generation_id x) ∧
  utf8 (SyncGroupRequest_member_id x) ∧
  opt_all utf8 (SyncGroupRequest_group_instance_id x) ∧
  (if 5 <=? version then opt_all utf8 (SyncGroupRequest_protocol_type x) else
      SyncGroupRequest_protocol_type x = None) ∧
  (if 5 <=? version then opt_all utf8 (SyncGroupRequest_protocol_name x) else
      SyncGroupRequest_protocol_name x = None) ∧
  Forall (SyncGroupRequestAssignment_valid version) (SyncGroupRequest_assignments x) ∧
  (if 4 <=? version then unknown_valid 0 (SyncGroupRequest_unknown_tagged_fields x) else
      SyncGroupRequest_unknown_tagged_fields x = ∅).

#[global] Instance SyncGroupRequest_sound version : Sound (SyncGroupRequest_codec version)
    (SyncGroupRequest_valid version).
Proof. solve_message. Qed.

(* @ src/crates/kafka-protocol/src/messages/sync_group_request.rs 485-493 SyncGroupRequest::header_version *)
Definition SyncGroupRequest_header_version (version : Z) : Z := if 4 <=? version then 2 else 1.

(* @ src/crates/kafka-protocol/src/messages/sync_group_request.rs 324-327 SyncGroupRequest::VERSIONS *)
Definition SyncGroupRequest_VERSIONS : Z * Z := (0, 5).

(** ** [sync_group_response] *)

(* @ src/crates/kafka-protocol/src/messages/sync_group_response.rs 20-51 SyncGroupResponse *)
Record SyncGroupResponse : Type := mkSyncGroupResponse {
  SyncGroupResponse_throttle_time_ms : Z;
  SyncGroupResponse_error_code : Z;
  SyncGroupResponse_protocol_type : option (list byte);
  SyncGroupResponse_protocol_name : option (list byte);
  SyncGroupResponse_assignment : list byte;
  SyncGroupResponse_unknown_tagged_fields : TaggedFields
}.

(* @ src/crates/kafka-protocol/src/messages/sync_group_response.rs 227-238 SyncGroupResponse::default *)
Definition SyncGroupResponse_default : SyncGroupResponse := {|
  SyncGroupResponse_throttle_time_ms := 0;
  SyncGroupResponse_error_code := 0;
  SyncGroupResponse_protocol_type := None;
  SyncGroupResponse_protocol_name := None;
  SyncGroupResponse_assignment := [];
  SyncGroupResponse_unknown_tagged_fields := ∅
|}.

(* @ src/crates/kafka-protocol/src/messages/sync_group_response.rs 111-225 SyncGroupResponse::encode, compute_size, decode *)
Definition SyncGroupResponse_codec (version : Z) : Codec SyncGroupResponse :=
  message 0 5 version (build mkSyncGroupResponse
    ⊛ (if 1 <=? version then field SyncGroupResponse_throttle_time_ms Int32 else ignored 0)
    ⊛ (field SyncGroupResponse_error_code Int16)
    ⊛ (if 5 <=? version then field SyncGroupResponse_protocol_type NullableCompactString else ignored None)
    ⊛ (if 5 <=? version then field SyncGroupResponse_protocol_name NullableCompactString else ignored None)
    ⊛ (field SyncGroupResponse_assignment (if 4 <=? version then CompactBytes else Bytes))
    ⊛ unknown_tags (4 <=? version) SyncGroupResponse_unknown_tagged_fields).

Definition SyncGroupResponse_valid (version : Z) (x : SyncGroupResponse) : Prop :=
  (if 1 <=? version then in_signed 32 (SyncGroupResponse_throttle_time_ms x) else
      SyncGroupResponse_throttle_time_ms x = 0) ∧
  in_signed 16 (SyncGroupResponse_error_code x) ∧
  (if 5 <=? version then opt_all utf8 (SyncGroupResponse_protocol_type x) else
      SyncGroupResponse_protocol_type x = None) ∧
  (if 5 <=? version then opt_all utf8 (SyncGroupResponse_protocol_name x) else
      SyncGroupResponse_protocol_name x = None) ∧
  (if 4 <=? version then unknown_valid 0 (SyncGroupResponse_unknown_tagged_fields x) else
      SyncGroupResponse_unknown_tagged_fields x = ∅).

#[global] Instance SyncGroupResponse_sound version : Sound (SyncGroupResponse_codec version)
    (SyncGroupResponse_valid version).
Proof. solve_message. Qed.

(* @ src/crates/kafka-protocol/src/messages/sync_group_response.rs 245-253 SyncGroupResponse::header_version *)
Definition SyncGroupResponse_header_version (version : Z) : Z := if 4 <=? version then 1 else 0.

(* @ src/crates/kafka-protocol/src/messages/sync_group_response.rs 240-243 SyncGroupResponse::VERSIONS *)
Definition SyncGroupResponse_VERSIONS : Z * Z := (0, 5).
