(* ===== verification/MessagesTxn.v ===== *)
(** * The messages of transactions and producers

    [src/crates/kafka-protocol/src/messages/]: one block per structure of the
    generated modules listed below, in the order of their files.  A block is the
    structure, its [Default], its codec in the style of [MessageCodec] (the
    branches on [version] are those of [encode], [compute_size] and [decode]),
    what makes a value expressible in a version ([_valid]: the fields are values
    of their Rust types, a field the version silently drops has its default, and
    unknown tags are not those of known fields), and the proof that the codec is
    sound.  A structure whose name several modules share carries the name of its
    message.

    add_offsets_to_txn_request, add_offsets_to_txn_response,
    add_partitions_to_txn_request, add_partitions_to_txn_response,
    allocate_producer_ids_request, allocate_producer_ids_response,
    describe_producers_request, describe_producers_response,
    describe_transactions_request, describe_transactions_response,
    end_txn_marker, end_txn_request, end_txn_response,
    list_transactions_request, list_transactions_response,
    offset_for_leader_epoch_request, offset_for_leader_epoch_response,
    txn_offset_commit_request, txn_offset_commit_response,
    write_txn_markers_request, write_txn_markers_response. *)

From S2P Require Import Prelude Buf Types MessageCodec.
Open Scope Z_scope.

(** ** [add_offsets_to_txn_request] *)

(* @ src/crates/kafka-protocol/src/messages/add_offsets_to_txn_request.rs 20-46 AddOffsetsToTxnRequest *)
Record AddOffsetsToTxnRequest : Type := mkAddOffsetsToTxnRequest {
  AddOffsetsToTxnRequest_transactional_id : list byte;
  AddOffsetsToTxnRequest_producer_id : Z;
  AddOffsetsToTxnRequest_producer_epoch : Z;
  AddOffsetsToTxnRequest_group_id : list byte;
  AddOffsetsToTxnRequest_unknown_tagged_fields : TaggedFields
}.

(* @ src/crates/kafka-protocol/src/messages/add_offsets_to_txn_request.rs 197-207 AddOffsetsToTxnRequest::default *)
Definition AddOffsetsToTxnRequest_default : AddOffsetsToTxnRequest := {|
  AddOffsetsToTxnRequest_transactional_id := [];
  AddOffsetsToTxnRequest_producer_id := 0;
  AddOffsetsToTxnRequest_producer_epoch := 0;
  AddOffsetsToTxnRequest_group_id := [];
  AddOffsetsToTxnRequest_unknown_tagged_fields := ∅
|}.

(* @ src/crates/kafka-protocol/src/messages/add_offsets_to_txn_request.rs 97-195 AddOffsetsToTxnRequest::encode, compute_size, decode *)
Definition AddOffsetsToTxnRequest_codec (version : Z) : Codec AddOffsetsToTxnRequest :=
  message 0 4 version (build mkAddOffsetsToTxnRequest
    ⊛ (field AddOffsetsToTxnRequest_transactional_id (if 3 <=? version then CompactString else KafkaString))
    ⊛ (field AddOffsetsToTxnRequest_producer_id Int64)
    ⊛ (field AddOffsetsToTxnRequest_producer_epoch Int16)
    ⊛ (field AddOffsetsToTxnRequest_group_id (if 3 <=? version then CompactString else KafkaString))
    ⊛ unknown_tags (3 <=? version) AddOffsetsToTxnRequest_unknown_tagged_fields).

Definition AddOffsetsToTxnRequest_valid (version : Z) (x : AddOffsetsToTxnRequest) : Prop :=
  utf8 (AddOffsetsToTxnRequest_transactional_id x) ∧
  in_signed 64 (AddOffsetsToTxnRequest_producer_id x) ∧
  in_signed 16 (AddOffsetsToTxnRequest_producer_epoch x) ∧
  utf8 (AddOffsetsToTxnRequest_group_id x) ∧
  (if 3 <=? version then unknown_valid 0 (AddOffsetsToTxnRequest_unknown_tagged_fields x) else
      AddOffsetsToTxnRequest_unknown_tagged_fields x = ∅).

#[global] Instance AddOffsetsToTxnRequest_sound version : Sound (AddOffsetsToTxnRequest_codec version)
    (AddOffsetsToTxnRequest_valid version).
Proof. solve_message. Qed.

(* @ src/crates/kafka-protocol/src/messages/add_offsets_to_txn_request.rs 214-222 AddOffsetsToTxnRequest::header_version *)
Definition AddOffsetsToTxnRequest_header_version (version : Z) : Z := if 3 <=? version then 2 else 1.

(* @ src/crates/kafka-protocol/src/messages/add_offsets_to_txn_request.rs 209-212 AddOffsetsToTxnRequest::VERSIONS *)
Definition AddOffsetsToTxnRequest_VERSIONS : Z * Z := (0, 4).

(** ** [add_offsets_to_txn_response] *)

(* @ src/crates/kafka-protocol/src/messages/add_offsets_to_txn_response.rs 20-36 AddOffsetsToTxnResponse *)
Record AddOffsetsToTxnResponse : Type := mkAddOffsetsToTxnResponse {
  AddOffsetsToTxnResponse_throttle_time_ms : Z;
  AddOffsetsToTxnResponse_error_code : Z;
  AddOffsetsToTxnResponse_unknown_tagged_fields : TaggedFields
}.

(* @ src/crates/kafka-protocol/src/messages/add_offsets_to_txn_response.rs 137-145 AddOffsetsToTxnResponse::default *)
Definition AddOffsetsToTxnResponse_default : AddOffsetsToTxnResponse := {|
  AddOffsetsToTxnResponse_throttle_time_ms := 0;
  AddOffsetsToTxnResponse_error_code := 0;
  AddOffsetsToTxnResponse_unknown_tagged_fields := ∅
|}.

(* @ src/crates/kafka-protocol/src/messages/add_offsets_to_txn_response.rs 69-135 AddOffsetsToTxnResponse::encode, compute_size, decode *)
Definition AddOffsetsToTxnResponse_codec (version : Z) : Codec AddOffsetsToTxnResponse :=
  message 0 4 version (build mkAddOffsetsToTxnResponse
    ⊛ (field AddOffsetsToTxnResponse_throttle_time_ms Int32)
    ⊛ (field AddOffsetsToTxnResponse_error_code Int16)
    ⊛ unknown_tags (3 <=? version) AddOffsetsToTxnResponse_unknown_tagged_fields).

Definition AddOffsetsToTxnResponse_valid (version : Z) (x : AddOffsetsToTxnResponse) : Prop :=
  in_signed 32 (AddOffsetsToTxnResponse_throttle_time_ms x) ∧
  in_signed 16 (AddOffsetsToTxnResponse_error_code x) ∧
  (if 3 <=? version then unknown_valid 0 (AddOffsetsToTxnResponse_unknown_tagged_fields x) else
      AddOffsetsToTxnResponse_unknown_tagged_fields x = ∅).

#[global] Instance AddOffsetsToTxnResponse_sound version : Sound (AddOffsetsToTxnResponse_codec version)
    (AddOffsetsToTxnResponse_valid version).
Proof. solve_message. Qed.

(* @ src/crates/kafka-protocol/src/messages/add_offsets_to_txn_response.rs 152-160 AddOffsetsToTxnResponse::header_version *)
Definition AddOffsetsToTxnResponse_header_version (version : Z) : Z := if 3 <=? version then 1 else 0.

(* @ src/crates/kafka-protocol/src/messages/add_offsets_to_txn_response.rs 147-150 AddOffsetsToTxnResponse::VERSIONS *)
Definition AddOffsetsToTxnResponse_VERSIONS : Z * Z := (0, 4).

(** ** [add_partitions_to_txn_request] *)

(* @ src/crates/kafka-protocol/src/messages/add_partitions_to_txn_request.rs 318-334 AddPartitionsToTxnTopic *)
Record AddPartitionsToTxnTopic : Type := mkAddPartitionsToTxnTopic {
  AddPartitionsToTxnTopic_name : list byte;
  AddPartitionsToTxnTopic_partitions : list Z;
  AddPartitionsToTxnTopic_unknown_tagged_fields : TaggedFields
}.

(* @ src/crates/kafka-protocol/src/messages/add_partitions_to_txn_request.rs 459-467 AddPartitionsToTxnTopic::default *)
Definition AddPartitionsToTxnTopic_default : AddPartitionsToTxnTopic := {|
  AddPartitionsToTxnTopic_name := [];
  AddPartitionsToTxnTopic_partitions := [];
  AddPartitionsToTxnTopic_unknown_tagged_fields := ∅
|}.

(* @ src/crates/kafka-protocol/src/messages/add_partitions_to_txn_request.rs 367-457 AddPartitionsToTxnTopic::encode, compute_size, decode *)
Definition AddPartitionsToTxnTopic_codec (version : Z) : Codec AddPartitionsToTxnTopic :=
  message 0 5 version (build mkAddPartitionsToTxnTopic
    ⊛ (field AddPartitionsToTxnTopic_name (if 3 <=? version then CompactString else KafkaString))
    ⊛ (field AddPartitionsToTxnTopic_partitions (if 3 <=? version then CompactArray Int32 else Array Int32))
    ⊛ unknown_tags (3 <=? version) AddPartitionsToTxnTopic_unknown_tagged_fields).

Definition AddPartitionsToTxnTopic_valid (version : Z) (x : AddPartitionsToTxnTopic) : Prop :=
  utf8 (AddPartitionsToTxnTopic_name x) ∧
  Forall (in_signed 32) (AddPartitionsToTxnTopic_partitions x) ∧
  (if 3 <=? version then unknown_valid 0 (AddPartitionsToTxnTopic_unknown_tagged_fields x) else
      AddPartitionsToTxnTopic_unknown_tagged_fields x = ∅).

#[global] Instance AddPartitionsToTxnTopic_sound version : Sound (AddPartitionsToTxnTopic_codec version)
    (AddPartitionsToTxnTopic_valid version).
Proof. solve_message. Qed.

(* @ src/crates/kafka-protocol/src/messages/add_partitions_to_txn_request.rs 474-505 AddPartitionsToTxnTransaction *)
Record AddPartitionsToTxnTransaction : Type := mkAddPartitionsToTxnTransaction {
  AddPartitionsToTxnTransaction_transactional_id : list byte;
  AddPartitionsToTxnTransaction_producer_id : Z;
  AddPartitionsToTxnTransaction_producer_epoch : Z;
  AddPartitionsToTxnTransaction_verify_only : bool;
  AddPartitionsToTxnTransaction_topics : list AddPartitionsToTxnTopic;
  AddPartitionsToTxnTransaction_unknown_tagged_fields : TaggedFields
}.

(* @ src/crates/kafka-protocol/src/messages/add_partitions_to_txn_request.rs 726-737 AddPartitionsToTxnTransaction::default *)
Definition AddPartitionsToTxnTransaction_default : AddPartitionsToTxnTransaction := {|
  AddPartitionsToTxnTransaction_transactional_id := [];
  AddPartitionsToTxnTransaction_producer_id := 0;
  AddPartitionsToTxnTransaction_producer_epoch := 0;
  AddPartitionsToTxnTransaction_verify_only := false;
  AddPartitionsToTxnTransaction_topics := [];
  AddPartitionsToTxnTransaction_unknown_tagged_fields := ∅
|}.

(* @ src/crates/kafka-protocol/src/messages/add_partitions_to_txn_request.rs 565-724 AddPartitionsToTxnTransaction::encode, compute_size, decode *)
Definition AddPartitionsToTxnTransaction_codec (version : Z) : Codec AddPartitionsToTxnTransaction :=
  message 0 5 version (build mkAddPartitionsToTxnTransaction
    ⊛ (if 4 <=? version then field AddPartitionsToTxnTransaction_transactional_id CompactString else unset
        AddPartitionsToTxnTransaction_transactional_id is_empty [])
    ⊛ (if 4 <=? version then field AddPartitionsToTxnTransaction_producer_id Int64 else unset
        AddPartitionsToTxnTransaction_producer_id (Z.eqb 0) 0)
    ⊛ (if 4 <=? version then field AddPartitionsToTxnTransaction_producer_epoch Int16 else unset
        AddPartitionsToTxnTransaction_producer_epoch (Z.eqb 0) 0)
    ⊛ (if 4 <=? version then field AddPartitionsToTxnTransaction_verify_only Boolean else unset
        AddPartitionsToTxnTransaction_verify_only negb false)
    ⊛ (if 4 <=? version then field AddPartitionsToTxnTransaction_topics (CompactArray (Struct
        AddPartitionsToTxnTopic_codec version)) else unset AddPartitionsToTxnTransaction_topics is_empty [])
    ⊛ unknown_tags (3 <=? version) AddPartitionsToTxnTransaction_unknown_tagged_fields).

Definition AddPartitionsToTxnTransaction_valid (version : Z) (x : AddPartitionsToTxnTransaction) : Prop :=
  utf8 (AddPartitionsToTxnTransaction_transactional_id x) ∧
  in_signed 64 (AddPartitionsToTxnTransaction_producer_id x) ∧
  in_signed 16 (AddPartitionsToTxnTransaction_producer_epoch x) ∧
  Forall (AddPartitionsToTxnTopic_valid version) (AddPartitionsToTxnTransaction_topics x) ∧
  (if 3 <=? version then unknown_valid 0 (AddPartitionsToTxnTransaction_unknown_tagged_fields x) else
      AddPartitionsToTxnTransaction_unknown_tagged_fields x = ∅).

#[global] Instance AddPartitionsToTxnTransaction_sound version : Sound (AddPartitionsToTxnTransaction_codec
    version) (AddPartitionsToTxnTransaction_valid version).
Proof. solve_message. Qed.

(* @ src/crates/kafka-protocol/src/messages/add_partitions_to_txn_request.rs 20-51 AddPartitionsToTxnRequest *)
Record AddPartitionsToTxnRequest : Type := mkAddPartitionsToTxnRequest {
  AddPartitionsToTxnRequest_transactions : list AddPartitionsToTxnTransaction;
  AddPartitionsToTxnRequest_v3_and_below_transactional_id : list byte;
  AddPartitionsToTxnRequest_v3_and_below_producer_id : Z;
  AddPartitionsToTxnRequest_v3_and_below_producer_epoch : Z;
  AddPartitionsToTxnRequest_v3_and_below_topics : list AddPartitionsToTxnTopic;
  AddPartitionsToTxnRequest_unknown_tagged_fields : TaggedFields
}.

(* @ src/crates/kafka-protocol/src/messages/add_partitions_to_txn_request.rs 300-311 AddPartitionsToTxnRequest::default *)
Definition AddPartitionsToTxnRequest_default : AddPartitionsToTxnRequest := {|
  AddPartitionsToTxnRequest_transactions := [];
  AddPartitionsToTxnRequest_v3_and_below_transactional_id := [];
  AddPartitionsToTxnRequest_v3_and_below_producer_id := 0;
  AddPartitionsToTxnRequest_v3_and_below_producer_epoch := 0;
  AddPartitionsToTxnRequest_v3_and_below_topics := [];
  AddPartitionsToTxnRequest_unknown_tagged_fields := ∅
|}.

(* @ src/crates/kafka-protocol/src/messages/add_partitions_to_txn_request.rs 111-298 AddPartitionsToTxnRequest::encode, compute_size, decode *)
Definition AddPartitionsToTxnRequest_codec (version : Z) : Codec AddPartitionsToTxnRequest :=
  message 0 5 version (build mkAddPartitionsToTxnRequest
    ⊛ (if 4 <=? version then field AddPartitionsToTxnRequest_transactions (CompactArray (Struct
        AddPartitionsToTxnTransaction_codec version)) else unset AddPartitionsToTxnRequest_transactions
        is_empty [])
    ⊛ (if version <=? 3 then field AddPartitionsToTxnRequest_v3_and_below_transactional_id (if 3 <=?
        version then CompactString else KafkaString) else unset
        AddPartitionsToTxnRequest_v3_and_below_transactional_id is_empty [])
    ⊛ (if version <=? 3 then field AddPartitionsToTxnRequest_v3_and_below_producer_id Int64 else unset
        AddPartitionsToTxnRequest_v3_and_below_producer_id (Z.eqb 0) 0)
    ⊛ (if version <=? 3 then field AddPartitionsToTxnRequest_v3_and_below_producer_epoch Int16 else unset
        AddPartitionsToTxnRequest_v3_and_below_producer_epoch (Z.eqb 0) 0)
    ⊛ (if version <=? 3 then field AddPartitionsToTxnRequest_v3_and_below_topics (if 3 <=? version then
        CompactArray (Struct AddPartitionsToTxnTopic_codec version) else Array (Struct
        AddPartitionsToTxnTopic_codec version)) else unset AddPartitionsToTxnRequest_v3_and_below_topics
        is_empty [])
    ⊛ unknown_tags (3 <=? version) AddPartitionsToTxnRequest_unknown_tagged_fields).

Definition AddPartitionsToTxnRequest_valid (version : Z) (x : AddPartitionsToTxnRequest) : Prop :=
  Forall (AddPartitionsToTxnTransaction_valid version) (AddPartitionsToTxnRequest_transactions x) ∧
  utf8 (AddPartitionsToTxnRequest_v3_and_below_transactional_id x) ∧
  in_signed 64 (AddPartitionsToTxnRequest_v3_and_below_producer_id x) ∧
  in_signed 16 (AddPartitionsToTxnRequest_v3_and_below_producer_epoch x) ∧
  Forall (AddPartitionsToTxnTopic_valid version) (AddPartitionsToTxnRequest_v3_and_below_topics x) ∧
  (if 3 <=? version then unknown_valid 0 (AddPartitionsToTxnRequest_unknown_tagged_fields x) else
      AddPartitionsToTxnRequest_unknown_tagged_fields x = ∅).

#[global] Instance AddPartitionsToTxnRequest_sound version : Sound (AddPartitionsToTxnRequest_codec
    version) (AddPartitionsToTxnRequest_valid version).
Proof. solve_message. Qed.

(* @ src/crates/kafka-protocol/src/messages/add_partitions_to_txn_request.rs 744-752 AddPartitionsToTxnRequest::header_version *)
Definition AddPartitionsToTxnRequest_header_version (version : Z) : Z := if 3 <=? version then 2 else 1.

(* @ src/crates/kafka-protocol/src/messages/add_partitions_to_txn_request.rs 313-316 AddPartitionsToTxnRequest::VERSIONS *)
Definition AddPartitionsToTxnRequest_VERSIONS : Z * Z := (0, 5).

(** ** [add_partitions_to_txn_response] *)

(* @ src/crates/kafka-protocol/src/messages/add_partitions_to_txn_response.rs 20-36 AddPartitionsToTxnPartitionResult *)
Record AddPartitionsToTxnPartitionResult : Type := mkAddPartitionsToTxnPartitionResult {
  AddPartitionsToTxnPartitionResult_partition_index : Z;
  AddPartitionsToTxnPartitionResult_partition_error_code : Z;
  AddPartitionsToTxnPartitionResult_unknown_tagged_fields : TaggedFields
}.

(* @ src/crates/kafka-protocol/src/messages/add_partitions_to_txn_response.rs 137-145 AddPartitionsToTxnPartitionResult::default *)
Definition AddPartitionsToTxnPartitionResult_default : AddPartitionsToTxnPartitionResult := {|
  AddPartitionsToTxnPartitionResult_partition_index := 0;
  AddPartitionsToTxnPartitionResult_partition_error_code := 0;
  AddPartitionsToTxnPartitionResult_unknown_tagged_fields := ∅
|}.

(* @ src/crates/kafka-protocol/src/messages/add_partitions_to_txn_response.rs 69-135 AddPartitionsToTxnPartitionResult::encode, compute_size, decode *)
Definition AddPartitionsToTxnPartitionResult_codec (version : Z) : Codec AddPartitionsToTxnPartitionResult
    :=
  message 0 5 version (build mkAddPartitionsToTxnPartitionResult
    ⊛ (field AddPartitionsToTxnPartitionResult_partition_index Int32)
    ⊛ (field AddPartitionsToTxnPartitionResult_partition_error_code Int16)
    ⊛ unknown_tags (3 <=? version) AddPartitionsToTxnPartitionResult_unknown_tagged_fields).

Definition AddPartitionsToTxnPartitionResult_valid (version : Z) (x : AddPartitionsToTxnPartitionResult) :
    Prop :=
  in_signed 32 (AddPartitionsToTxnPartitionResult_partition_index x) ∧
  in_signed 16 (AddPartitionsToTxnPartitionResult_partition_error_code x) ∧
  (if 3 <=? version then unknown_valid 0 (AddPartitionsToTxnPartitionResult_unknown_tagged_fields x) else
      AddPartitionsToTxnPartitionResult_unknown_tagged_fields x = ∅).

#[global] Instance AddPartitionsToTxnPartitionResult_sound version : Sound
    (AddPartitionsToTxnPartitionResult_codec version) (AddPartitionsToTxnPartitionResult_valid version).
Proof. solve_message. Qed.

(* @ src/crates/kafka-protocol/src/messages/add_partitions_to_txn_response.rs 548-564 AddPartitionsToTxnTopicResult *)
Record AddPartitionsToTxnTopicResult : Type := mkAddPartitionsToTxnTopicResult {
  AddPartitionsToTxnTopicResult_name : list byte;
  AddPartitionsToTxnTopicResult_results_by_partition : list AddPartitionsToTxnPartitionResult;
  AddPartitionsToTxnTopicResult_unknown_tagged_fields : TaggedFields
}.

(* @ src/crates/kafka-protocol/src/messages/add_partitions_to_txn_response.rs 695-703 AddPartitionsToTxnTopicResult::default *)
Definition AddPartitionsToTxnTopicResult_default : AddPartitionsToTxnTopicResult := {|
  AddPartitionsToTxnTopicResult_name := [];
  AddPartitionsToTxnTopicResult_results_by_partition := [];
  AddPartitionsToTxnTopicResult_unknown_tagged_fields := ∅
|}.

(* @ src/crates/kafka-protocol/src/messages/add_partitions_to_txn_response.rs 600-693 AddPartitionsToTxnTopicResult::encode, compute_size, decode *)
Definition AddPartitionsToTxnTopicResult_codec (version : Z) : Codec AddPartitionsToTxnTopicResult :=
  message 0 5 version (build mkAddPartitionsToTxnTopicResult
    ⊛ (field AddPartitionsToTxnTopicResult_name (if 3 <=? version then CompactString else KafkaString))
    ⊛ (field AddPartitionsToTxnTopicResult_results_by_partition (if 3 <=? version then CompactArray (Struct
        AddPartitionsToTxnPartitionResult_codec version) else Array (Struct
        AddPartitionsToTxnPartitionResult_codec version)))
    ⊛ unknown_tags (3 <=? version) AddPartitionsToTxnTopicResult_unknown_tagged_fields).

Definition AddPartitionsToTxnTopicResult_valid (version : Z) (x : AddPartitionsToTxnTopicResult) : Prop :=
  utf8 (AddPartitionsToTxnTopicResult_name x) ∧
  Forall (AddPartitionsToTxnPartitionResult_valid version)
      (AddPartitionsToTxnTopicResult_results_by_partition x) ∧
  (if 3 <=? version then unknown_valid 0 (AddPartitionsToTxnTopicResult_unknown_tagged_fields x) else
      AddPartitionsToTxnTopicResult_unknown_tagged_fields x = ∅).

#[global] Instance AddPartitionsToTxnTopicResult_sound version : Sound (AddPartitionsToTxnTopicResult_codec
    version) (AddPartitionsToTxnTopicResult_valid version).
Proof. solve_message. Qed.

(* @ src/crates/kafka-protocol/src/messages/add_partitions_to_txn_response.rs 383-399 AddPartitionsToTxnResult *)
Record AddPartitionsToTxnResult : Type := mkAddPartitionsToTxnResult {
  AddPartitionsToTxnResult_transactional_id : list byte;
  AddPartitionsToTxnResult_topic_results : list AddPartitionsToTxnTopicResult;
  AddPartitionsToTxnResult_unknown_tagged_fields : TaggedFields
}.

(* @ src/crates/kafka-protocol/src/messages/add_partitions_to_txn_response.rs 533-541 AddPartitionsToTxnResult::default *)
Definition AddPartitionsToTxnResult_default : AddPartitionsToTxnResult := {|
  AddPartitionsToTxnResult_transactional_id := [];
  AddPartitionsToTxnResult_topic_results := [];
  AddPartitionsToTxnResult_unknown_tagged_fields := ∅
|}.

(* @ src/crates/kafka-protocol/src/messages/add_partitions_to_txn_response.rs 432-531 AddPartitionsToTxnResult::encode, compute_size, decode *)
Definition AddPartitionsToTxnResult_codec (version : Z) : Codec AddPartitionsToTxnResult :=
  message 0 5 version (build mkAddPartitionsToTxnResult
    ⊛ (if 4 <=? version then field AddPartitionsToTxnResult_transactional_id CompactString else unset
        AddPartitionsToTxnResult_transactional_id is_empty [])
    ⊛ (if 4 <=? version then field AddPartitionsToTxnResult_topic_results (CompactArray (Struct
        AddPartitionsToTxnTopicResult_codec version)) else unset AddPartitionsToTxnResult_topic_results
        is_empty [])
    ⊛ unknown_tags (3 <=? version) AddPartitionsToTxnResult_unknown_tagged_fields).

Definition AddPartitionsToTxnResult_valid (version : Z) (x : AddPartitionsToTxnResult) : Prop :=
  utf8 (AddPartitionsToTxnResult_transactional_id x) ∧
  Forall (AddPartitionsToTxnTopicResult_valid version) (AddPartitionsToTxnResult_topic_results x) ∧
  (if 3 <=? version then unknown_valid 0 (AddPartitionsToTxnResult_unknown_tagged_fields x) else
      AddPartitionsToTxnResult_unknown_tagged_fields x = ∅).

#[global] Instance AddPartitionsToTxnResult_sound version : Sound (AddPartitionsToTxnResult_codec version)
    (AddPartitionsToTxnResult_valid version).
Proof. solve_message. Qed.

(* @ src/crates/kafka-protocol/src/messages/add_partitions_to_txn_response.rs 152-178 AddPartitionsToTxnResponse *)
Record AddPartitionsToTxnResponse : Type := mkAddPartitionsToTxnResponse {
  AddPartitionsToTxnResponse_throttle_time_ms : Z;
  AddPartitionsToTxnResponse_error_code : Z;
  AddPartitionsToTxnResponse_results_by_transaction : list AddPartitionsToTxnResult;
  AddPartitionsToTxnResponse_results_by_topic_v3_and_below : list AddPartitionsToTxnTopicResult;
  AddPartitionsToTxnResponse_unknown_tagged_fields : TaggedFields
}.

(* @ src/crates/kafka-protocol/src/messages/add_partitions_to_txn_response.rs 366-376 AddPartitionsToTxnResponse::default *)
Definition AddPartitionsToTxnResponse_default : AddPartitionsToTxnResponse := {|
  AddPartitionsToTxnResponse_throttle_time_ms := 0;
  AddPartitionsToTxnResponse_error_code := 0;
  AddPartitionsToTxnResponse_results_by_transaction := [];
  AddPartitionsToTxnResponse_results_by_topic_v3_and_below := [];
  AddPartitionsToTxnResponse_unknown_tagged_fields := ∅
|}.

(* @ src/crates/kafka-protocol/src/messages/add_partitions_to_txn_response.rs 232-364 AddPartitionsToTxnResponse::encode, compute_size, decode *)
Definition AddPartitionsToTxnResponse_codec (version : Z) : Codec AddPartitionsToTxnResponse :=
  message 0 5 version (build mkAddPartitionsToTxnResponse
    ⊛ (field AddPartitionsToTxnResponse_throttle_time_ms Int32)
    ⊛ (if 4 <=? version then field AddPartitionsToTxnResponse_error_code Int16 else ignored 0)
    ⊛ (if 4 <=? version then field AddPartitionsToTxnResponse_results_by_transaction (CompactArray (Struct
        AddPartitionsToTxnResult_codec version)) else unset
        AddPartitionsToTxnResponse_results_by_transaction is_empty [])
    ⊛ (if version <=? 3 then field AddPartitionsToTxnResponse_results_by_topic_v3_and_below (if 3 <=?
        version then CompactArray (Struct AddPartitionsToTxnTopicResult_codec version) else Array (Struct
        AddPartitionsToTxnTopicResult_codec version)) else unset
        AddPartitionsToTxnResponse_results_by_topic_v3_and_below is_empty [])
    ⊛ unknown_tags (3 <=? version) AddPartitionsToTxnResponse_unknown_tagged_fields).

Definition AddPartitionsToTxnResponse_valid (version : Z) (x : AddPartitionsToTxnResponse) : Prop :=
  in_signed 32 (AddPartitionsToTxnResponse_throttle_time_ms x) ∧
  (if 4 <=? version then in_signed 16 (AddPartitionsToTxnResponse_error_code x) else
      AddPartitionsToTxnResponse_error_code x = 0) ∧
  Forall (AddPartitionsToTxnResult_valid version) (AddPartitionsToTxnResponse_results_by_transaction x) ∧
  Forall (AddPartitionsToTxnTopicResult_valid version)
      (AddPartitionsToTxnResponse_results_by_topic_v3_and_below x) ∧
  (if 3 <=? version then unknown_valid 0 (AddPartitionsToTxnResponse_unknown_tagged_fields x) else
      AddPartitionsToTxnResponse_unknown_tagged_fields x = ∅).

#[global] Instance AddPartitionsToTxnResponse_sound version : Sound (AddPartitionsToTxnResponse_codec
    version) (AddPartitionsToTxnResponse_valid version).
Proof. solve_message. Qed.

(* @ src/crates/kafka-protocol/src/messages/add_partitions_to_txn_response.rs 710-718 AddPartitionsToTxnResponse::header_version *)
Definition AddPartitionsToTxnResponse_header_version (version : Z) : Z := if 3 <=? version then 1 else 0.

(* @ src/crates/kafka-protocol/src/messages/add_partitions_to_txn_response.rs 378-381 AddPartitionsToTxnResponse::VERSIONS *)
Definition AddPartitionsToTxnResponse_VERSIONS : Z * Z := (0, 5).

(** ** [allocate_producer_ids_request] *)

(* @ src/crates/kafka-protocol/src/messages/allocate_producer_ids_request.rs 20-36 AllocateProducerIdsRequest *)
Record AllocateProducerIdsRequest : Type := mkAllocateProducerIdsRequest {
  AllocateProducerIdsRequest_broker_id : Z;
  AllocateProducerIdsRequest_broker_epoch : Z;
  AllocateProducerIdsRequest_unknown_tagged_fields : TaggedFields
}.

(* @ src/crates/kafka-protocol/src/messages/allocate_producer_ids_request.rs 131-139 AllocateProducerIdsRequest::default *)
Definition AllocateProducerIdsRequest_default : AllocateProducerIdsRequest := {|
  AllocateProducerIdsRequest_broker_id := 0;
  AllocateProducerIdsRequest_broker_epoch := -1;
  AllocateProducerIdsRequest_unknown_tagged_fields := ∅
|}.

(* @ src/crates/kafka-protocol/src/messages/allocate_producer_ids_request.rs 69-129 AllocateProducerIdsRequest::encode, compute_size, decode *)
Definition AllocateProducerIdsRequest_codec (version : Z) : Codec AllocateProducerIdsRequest :=
  message 0 0 version (build mkAllocateProducerIdsRequest
    ⊛ (field AllocateProducerIdsRequest_broker_id Int32)
    ⊛ (field AllocateProducerIdsRequest_broker_epoch Int64)
    ⊛ unknown_tags true AllocateProducerIdsRequest_unknown_tagged_fields).

Definition AllocateProducerIdsRequest_valid (version : Z) (x : AllocateProducerIdsRequest) : Prop :=
  in_signed 32 (AllocateProducerIdsRequest_broker_id x) ∧
  in_signed 64 (AllocateProducerIdsRequest_broker_epoch x) ∧
  unknown_valid 0 (AllocateProducerIdsRequest_unknown_tagged_fields x).

#[global] Instance AllocateProducerIdsRequest_sound version : Sound (AllocateProducerIdsRequest_codec
    version) (AllocateProducerIdsRequest_valid version).
Proof. solve_message. Qed.

(* @ src/crates/kafka-protocol/src/messages/allocate_producer_ids_request.rs 146-150 AllocateProducerIdsRequest::header_version *)
Definition AllocateProducerIdsRequest_header_version (version : Z) : Z := 2.

(* @ src/crates/kafka-protocol/src/messages/allocate_producer_ids_request.rs 141-144 AllocateProducerIdsRequest::VERSIONS *)
Definition AllocateProducerIdsRequest_VERSIONS : Z * Z := (0, 0).

(** ** [allocate_producer_ids_response] *)

(* @ src/crates/kafka-protocol/src/messages/allocate_producer_ids_response.rs 20-46 AllocateProducerIdsResponse *)
Record AllocateProducerIdsResponse : Type := mkAllocateProducerIdsResponse {
  AllocateProducerIdsResponse_throttle_time_ms : Z;
  AllocateProducerIdsResponse_error_code : Z;
  AllocateProducerIdsResponse_producer_id_start : Z;
  AllocateProducerIdsResponse_producer_id_len : Z;
  AllocateProducerIdsResponse_unknown_tagged_fields : TaggedFields
}.

(* @ src/crates/kafka-protocol/src/messages/allocate_producer_ids_response.rs 167-177 AllocateProducerIdsResponse::default *)
Definition AllocateProducerIdsResponse_default : AllocateProducerIdsResponse := {|
  AllocateProducerIdsResponse_throttle_time_ms := 0;
  AllocateProducerIdsResponse_error_code := 0;
  AllocateProducerIdsResponse_producer_id_start := 0;
  AllocateProducerIdsResponse_producer_id_len := 0;
  AllocateProducerIdsResponse_unknown_tagged_fields := ∅
|}.

(* @ src/crates/kafka-protocol/src/messages/allocate_producer_ids_response.rs 97-165 AllocateProducerIdsResponse::encode, compute_size, decode *)
Definition AllocateProducerIdsResponse_codec (version : Z) : Codec AllocateProducerIdsResponse :=
  message 0 0 version (build mkAllocateProducerIdsResponse
    ⊛ (field AllocateProducerIdsResponse_throttle_time_ms Int32)
    ⊛ (field AllocateProducerIdsResponse_error_code Int16)
    ⊛ (field AllocateProducerIdsResponse_producer_id_start Int64)
    ⊛ (field AllocateProducerIdsResponse_producer_id_len Int32)
    ⊛ unknown_tags true AllocateProducerIdsResponse_unknown_tagged_fields).

Definition AllocateProducerIdsResponse_valid (version : Z) (x : AllocateProducerIdsResponse) : Prop :=
  in_signed 32 (AllocateProducerIdsResponse_throttle_time_ms x) ∧
  in_signed 16 (AllocateProducerIdsResponse_error_code x) ∧
  in_signed 64 (AllocateProducerIdsResponse_producer_id_start x) ∧
  in_signed 32 (AllocateProducerIdsResponse_producer_id_len x) ∧
  unknown_valid 0 (AllocateProducerIdsResponse_unknown_tagged_fields x).

#[global] Instance AllocateProducerIdsResponse_sound version : Sound (AllocateProducerIdsResponse_codec
    version) (AllocateProducerIdsResponse_valid version).
Proof. solve_message. Qed.

(* @ src/crates/kafka-protocol/src/messages/allocate_producer_ids_response.rs 184-188 AllocateProducerIdsResponse::header_version *)
Definition AllocateProducerIdsResponse_header_version (version : Z) : Z := 1.

(* @ src/crates/kafka-protocol/src/messages/allocate_producer_ids_response.rs 179-182 AllocateProducerIdsResponse::VERSIONS *)
Definition AllocateProducerIdsResponse_VERSIONS : Z * Z := (0, 0).

(** ** [describe_producers_request] *)

(* @ src/crates/kafka-protocol/src/messages/describe_producers_request.rs 127-143 TopicRequest *)
Record DescribeProducersRequest_TopicRequest : Type := mkDescribeProducersRequest_TopicRequest {
  DescribeProducersRequest_TopicRequest_name : list byte;
  DescribeProducersRequest_TopicRequest_partition_indexes : list Z;
  DescribeProducersRequest_TopicRequest_unknown_tagged_fields : TaggedFields
}.

(* @ src/crates/kafka-protocol/src/messages/describe_producers_request.rs 238-246 TopicRequest::default *)
Definition DescribeProducersRequest_TopicRequest_default : DescribeProducersRequest_TopicRequest := {|
  DescribeProducersRequest_TopicRequest_name := [];
  DescribeProducersRequest_TopicRequest_partition_indexes := [];
  DescribeProducersRequest_TopicRequest_unknown_tagged_fields := ∅
|}.

(* @ src/crates/kafka-protocol/src/messages/describe_producers_request.rs 176-236 TopicRequest::encode, compute_size, decode *)
Definition DescribeProducersRequest_TopicRequest_codec (version : Z) : Codec
    DescribeProducersRequest_TopicRequest :=
  message 0 0 version (build mkDescribeProducersRequest_TopicRequest
    ⊛ (field DescribeProducersRequest_TopicRequest_name CompactString)
    ⊛ (field DescribeProducersRequest_TopicRequest_partition_indexes (CompactArray Int32))
    ⊛ unknown_tags true DescribeProducersRequest_TopicRequest_unknown_tagged_fields).

Definition DescribeProducersRequest_TopicRequest_valid (version : Z) (x :
    DescribeProducersRequest_TopicRequest) : Prop :=
  utf8 (DescribeProducersRequest_TopicRequest_name x) ∧
  Forall (in_signed 32) (DescribeProducersRequest_TopicRequest_partition_indexes x) ∧
  unknown_valid 0 (DescribeProducersRequest_TopicRequest_unknown_tagged_fields x).

#[global] Instance DescribeProducersRequest_TopicRequest_sound version : Sound
    (DescribeProducersRequest_TopicRequest_codec version) (DescribeProducersRequest_TopicRequest_valid
    version).
Proof. solve_message. Qed.

(* @ src/crates/kafka-protocol/src/messages/describe_producers_request.rs 20-31 DescribeProducersRequest *)
Record DescribeProducersRequest : Type := mkDescribeProducersRequest {
  DescribeProducersRequest_topics : list DescribeProducersRequest_TopicRequest;
  DescribeProducersRequest_unknown_tagged_fields : TaggedFields
}.

(* @ src/crates/kafka-protocol/src/messages/describe_producers_request.rs 113-120 DescribeProducersRequest::default *)
Definition DescribeProducersRequest_default : DescribeProducersRequest := {|
  DescribeProducersRequest_topics := [];
  DescribeProducersRequest_unknown_tagged_fields := ∅
|}.

(* @ src/crates/kafka-protocol/src/messages/describe_producers_request.rs 55-111 DescribeProducersRequest::encode, compute_size, decode *)
Definition DescribeProducersRequest_codec (version : Z) : Codec DescribeProducersRequest :=
  message 0 0 version (build mkDescribeProducersRequest
    ⊛ (field DescribeProducersRequest_topics (CompactArray (Struct
        DescribeProducersRequest_TopicRequest_codec version)))
    ⊛ unknown_tags true DescribeProducersRequest_unknown_tagged_fields).

Definition DescribeProducersRequest_valid (version : Z) (x : DescribeProducersRequest) : Prop :=
  Forall (DescribeProducersRequest_TopicRequest_valid version) (DescribeProducersRequest_topics x) ∧
  unknown_valid 0 (DescribeProducersRequest_unknown_tagged_fields x).

#[global] Instance DescribeProducersRequest_sound version : Sound (DescribeProducersRequest_codec version)
    (DescribeProducersRequest_valid version).
Proof. solve_message. Qed.

(* @ src/crates/kafka-protocol/src/messages/describe_producers_request.rs 253-257 DescribeProducersRequest::header_version *)
Definition DescribeProducersRequest_header_version (version : Z) : Z := 2.

(* @ src/crates/kafka-protocol/src/messages/describe_producers_request.rs 122-125 DescribeProducersRequest::VERSIONS *)
Definition DescribeProducersRequest_VERSIONS : Z * Z := (0, 0).

(** ** [describe_producers_response] *)

(* @ src/crates/kafka-protocol/src/messages/describe_producers_response.rs 311-347 ProducerState *)
Record ProducerState : Type := mkProducerState {
  ProducerState_producer_id : Z;
  ProducerState_producer_epoch : Z;
  ProducerState_last_sequence : Z;
  ProducerState_last_timestamp : Z;
  ProducerState_coordinator_epoch : Z;
  ProducerState_current_txn_start_offset : Z;
  ProducerState_unknown_tagged_fields : TaggedFields
}.

(* @ src/crates/kafka-protocol/src/messages/describe_producers_response.rs 494-506 ProducerState::default *)
Definition ProducerState_default : ProducerState := {|
  ProducerState_producer_id := 0;
  ProducerState_producer_epoch := 0;
  ProducerState_last_sequence := -1;
  ProducerState_last_timestamp := -1;
  ProducerState_coordinator_epoch := 0;
  ProducerState_current_txn_start_offset := -1;
  ProducerState_unknown_tagged_fields := ∅
|}.

(* @ src/crates/kafka-protocol/src/messages/describe_producers_response.rs 416-492 ProducerState::encode, compute_size, decode *)
Definition ProducerState_codec (version : Z) : Codec ProducerState :=
  message 0 0 version (build mkProducerState
    ⊛ (field ProducerState_producer_id Int64)
    ⊛ (field ProducerState_producer_epoch Int32)
    ⊛ (field ProducerState_last_sequence Int32)
    ⊛ (field ProducerState_last_timestamp Int64)
    ⊛ (field ProducerState_coordinator_epoch Int32)
    ⊛ (field ProducerState_current_txn_start_offset Int64)
    ⊛ unknown_tags true ProducerState_unknown_tagged_fields).

Definition ProducerState_valid (version : Z) (x : ProducerState) : Prop :=
  in_signed 64 (ProducerState_producer_id x) ∧
  in_signed 32 (ProducerState_producer_epoch x) ∧
  in_signed 32 (ProducerState_last_sequence x) ∧
  in_signed 64 (ProducerState_last_timestamp x) ∧
  in_signed 32 (ProducerState_coordinator_epoch x) ∧
  in_signed 64 (ProducerState_current_txn_start_offset x) ∧
  unknown_valid 0 (ProducerState_unknown_tagged_fields x).

#[global] Instance ProducerState_sound version : Sound (ProducerState_codec version) (ProducerState_valid
    version).
Proof. solve_message. Qed.

(* @ src/crates/kafka-protocol/src/messages/describe_producers_response.rs 146-172 PartitionResponse *)
Record PartitionResponse : Type := mkPartitionResponse {
  PartitionResponse_partition_index : Z;
  PartitionResponse_error_code : Z;
  PartitionResponse_error_message : option (list byte);
  PartitionResponse_active_producers : list ProducerState;
  PartitionResponse_unknown_tagged_fields : TaggedFields
}.

(* @ src/crates/kafka-protocol/src/messages/describe_producers_response.rs 294-304 PartitionResponse::default *)
Definition PartitionResponse_default : PartitionResponse := {|
  PartitionResponse_partition_index := 0;
  PartitionResponse_error_code := 0;
  PartitionResponse_error_message := None;
  PartitionResponse_active_producers := [];
  PartitionResponse_unknown_tagged_fields := ∅
|}.

(* @ src/crates/kafka-protocol/src/messages/describe_producers_response.rs 223-292 PartitionResponse::encode, compute_size, decode *)
Definition PartitionResponse_codec (version : Z) : Codec PartitionResponse :=
  message 0 0 version (build mkPartitionResponse
    ⊛ (field PartitionResponse_partition_index Int32)
    ⊛ (field PartitionResponse_error_code Int16)
    ⊛ (field PartitionResponse_error_message NullableCompactString)
    ⊛ (field PartitionResponse_active_producers (CompactArray (Struct ProducerState_codec version)))
    ⊛ unknown_tags true PartitionResponse_unknown_tagged_fields).

Definition PartitionResponse_valid (version : Z) (x : PartitionResponse) : Prop :=
  in_signed 32 (PartitionResponse_partition_index x) ∧
  in_signed 16 (PartitionResponse_error_code x) ∧
  opt_all utf8 (PartitionResponse_error_message x) ∧
  Forall (ProducerState_valid version) (PartitionResponse_active_producers x) ∧
  unknown_valid 0 (PartitionResponse_unknown_tagged_fields x).

#[global] Instance PartitionResponse_sound version : Sound (PartitionResponse_codec version)
    (PartitionResponse_valid version).
Proof. solve_message. Qed.

(* @ src/crates/kafka-protocol/src/messages/describe_producers_response.rs 513-529 TopicResponse *)
Record TopicResponse : Type := mkTopicResponse {
  TopicResponse_name : list byte;
  TopicResponse_partitions : list PartitionResponse;
  TopicResponse_unknown_tagged_fields : TaggedFields
}.

(* @ src/crates/kafka-protocol/src/messages/describe_producers_response.rs 625-633 TopicResponse::default *)
Definition TopicResponse_default : TopicResponse := {|
  TopicResponse_name := [];
  TopicResponse_partitions := [];
  TopicResponse_unknown_tagged_fields := ∅
|}.

(* @ src/crates/kafka-protocol/src/messages/describe_producers_response.rs 562-623 TopicResponse::encode, compute_size, decode *)
Definition TopicResponse_codec (version : Z) : Codec TopicResponse :=
  message 0 0 version (build mkTopicResponse
    ⊛ (field TopicResponse_name CompactString)
    ⊛ (field TopicResponse_partitions (CompactArray (Struct PartitionResponse_codec version)))
    ⊛ unknown_tags true TopicResponse_unknown_tagged_fields).

Definition TopicResponse_valid (version : Z) (x : TopicResponse) : Prop :=
  utf8 (TopicResponse_name x) ∧
  Forall (PartitionResponse_valid version) (TopicResponse_partitions x) ∧
  unknown_valid 0 (TopicResponse_unknown_tagged_fields x).

#[global] Instance TopicResponse_sound version : Sound (TopicResponse_codec version) (TopicResponse_valid
    version).
Proof. solve_message. Qed.

(* @ src/crates/kafka-protocol/src/messages/describe_producers_response.rs 20-36 DescribeProducersResponse *)
Record DescribeProducersResponse : Type := mkDescribeProducersResponse {
  DescribeProducersResponse_throttle_time_ms : Z;
  DescribeProducersResponse_topics : list TopicResponse;
  DescribeProducersResponse_unknown_tagged_fields : TaggedFields
}.

(* @ src/crates/kafka-protocol/src/messages/describe_producers_response.rs 131-139 DescribeProducersResponse::default *)
Definition DescribeProducersResponse_default : DescribeProducersResponse := {|
  DescribeProducersResponse_throttle_time_ms := 0;
  DescribeProducersResponse_topics := [];
  DescribeProducersResponse_unknown_tagged_fields := ∅
|}.

(* @ src/crates/kafka-protocol/src/messages/describe_producers_response.rs 69-129 DescribeProducersResponse::encode, compute_size, decode *)
Definition DescribeProducersResponse_codec (version : Z) : Codec DescribeProducersResponse :=
  message 0 0 version (build mkDescribeProducersResponse
    ⊛ (field DescribeProducersResponse_throttle_time_ms Int32)
    ⊛ (field DescribeProducersResponse_topics (CompactArray (Struct TopicResponse_codec version)))
    ⊛ unknown_tags true DescribeProducersResponse_unknown_tagged_fields).

Definition DescribeProducersResponse_valid (version : Z) (x : DescribeProducersResponse) : Prop :=
  in_signed 32 (DescribeProducersResponse_throttle_time_ms x) ∧
  Forall (TopicResponse_valid version) (DescribeProducersResponse_topics x) ∧
  unknown_valid 0 (DescribeProducersResponse_unknown_tagged_fields x).

#[global] Instance DescribeProducersResponse_sound version : Sound (DescribeProducersResponse_codec
    version) (DescribeProducersResponse_valid version).
Proof. solve_message. Qed.

(* @ src/crates/kafka-protocol/src/messages/describe_producers_response.rs 640-644 DescribeProducersResponse::header_version *)
Definition DescribeProducersResponse_header_version (version : Z) : Z := 1.

(* @ src/crates/kafka-protocol/src/messages/describe_producers_response.rs 141-144 DescribeProducersResponse::VERSIONS *)
Definition DescribeProducersResponse_VERSIONS : Z * Z := (0, 0).

(** ** [describe_transactions_request] *)

(* @ src/crates/kafka-protocol/src/messages/describe_transactions_request.rs 20-31 DescribeTransactionsRequest *)
Record DescribeTransactionsRequest : Type := mkDescribeTransactionsRequest {
  DescribeTransactionsRequest_transactional_ids : list (list byte);
  DescribeTransactionsRequest_unknown_tagged_fields : TaggedFields
}.

(* @ src/crates/kafka-protocol/src/messages/describe_transactions_request.rs 114-121 DescribeTransactionsRequest::default *)
Definition DescribeTransactionsRequest_default : DescribeTransactionsRequest := {|
  DescribeTransactionsRequest_transactional_ids := [];
  DescribeTransactionsRequest_unknown_tagged_fields := ∅
|}.

(* @ src/crates/kafka-protocol/src/messages/describe_transactions_request.rs 55-112 DescribeTransactionsRequest::encode, compute_size, decode *)
Definition DescribeTransactionsRequest_codec (version : Z) : Codec DescribeTransactionsRequest :=
  message 0 0 version (build mkDescribeTransactionsRequest
    ⊛ (field DescribeTransactionsRequest_transactional_ids (CompactArray CompactString))
    ⊛ unknown_tags true DescribeTransactionsRequest_unknown_tagged_fields).

Definition DescribeTransactionsRequest_valid (version : Z) (x : DescribeTransactionsRequest) : Prop :=
  Forall utf8 (DescribeTransactionsRequest_transactional_ids x) ∧
  unknown_valid 0 (DescribeTransactionsRequest_unknown_tagged_fields x).

#[global] Instance DescribeTransactionsRequest_sound version : Sound (DescribeTransactionsRequest_codec
    version) (DescribeTransactionsRequest_valid version).
Proof. solve_message. Qed.

(* @ src/crates/kafka-protocol/src/messages/describe_transactions_request.rs 128-132 DescribeTransactionsRequest::header_version *)
Definition DescribeTransactionsRequest_header_version (version : Z) : Z := 2.

(* @ src/crates/kafka-protocol/src/messages/describe_transactions_request.rs 123-126 DescribeTransactionsRequest::VERSIONS *)
Definition DescribeTransactionsRequest_VERSIONS : Z * Z := (0, 0).

(** ** [describe_transactions_response] *)

(* @ src/crates/kafka-protocol/src/messages/describe_transactions_response.rs 147-163 TopicData *)
Record DescribeTransactionsResponse_TopicData : Type := mkDescribeTransactionsResponse_TopicData {
  DescribeTransactionsResponse_TopicData_topic : list byte;
  DescribeTransactionsResponse_TopicData_partitions : list Z;
  DescribeTransactionsResponse_TopicData_unknown_tagged_fields : TaggedFields
}.

(* @ src/crates/kafka-protocol/src/messages/describe_transactions_response.rs 258-266 TopicData::default *)
Definition DescribeTransactionsResponse_TopicData_default : DescribeTransactionsResponse_TopicData := {|
  DescribeTransactionsResponse_TopicData_topic := [];
  DescribeTransactionsResponse_TopicData_partitions := [];
  DescribeTransactionsResponse_TopicData_unknown_tagged_fields := ∅
|}.

(* @ src/crates/kafka-protocol/src/messages/describe_transactions_response.rs 196-256 TopicData::encode, compute_size, decode *)
Definition DescribeTransactionsResponse_TopicData_codec (version : Z) : Codec
    DescribeTransactionsResponse_TopicData :=
  message 0 0 version (build mkDescribeTransactionsResponse_TopicData
    ⊛ (field DescribeTransactionsResponse_TopicData_topic CompactString)
    ⊛ (field DescribeTransactionsResponse_TopicData_partitions (CompactArray Int32))
    ⊛ unknown_tags true DescribeTransactionsResponse_TopicData_unknown_tagged_fields).

Definition DescribeTransactionsResponse_TopicData_valid (version : Z) (x :
    DescribeTransactionsResponse_TopicData) : Prop :=
  utf8 (DescribeTransactionsResponse_TopicData_topic x) ∧
  Forall (in_signed 32) (DescribeTransactionsResponse_TopicData_partitions x) ∧
  unknown_valid 0 (DescribeTransactionsResponse_TopicData_unknown_tagged_fields x).

#[global] Instance DescribeTransactionsResponse_TopicData_sound version : Sound
    (DescribeTransactionsResponse_TopicData_codec version) (DescribeTransactionsResponse_TopicData_valid
    version).
Proof. solve_message. Qed.

(* @ src/crates/kafka-protocol/src/messages/describe_transactions_response.rs 273-319 TransactionState *)
Record DescribeTransactionsResponse_TransactionState : Type :=
    mkDescribeTransactionsResponse_TransactionState {
  DescribeTransactionsResponse_TransactionState_error_code : Z;
  DescribeTransactionsResponse_TransactionState_transactional_id : list byte;
  DescribeTransactionsResponse_TransactionState_transaction_state : list byte;
  DescribeTransactionsResponse_TransactionState_transaction_timeout_ms : Z;
  DescribeTransactionsResponse_TransactionState_transaction_start_time_ms : Z;
  DescribeTransactionsResponse_TransactionState_producer_id : Z;
  DescribeTransactionsResponse_TransactionState_producer_epoch : Z;
  DescribeTransactionsResponse_TransactionState_topics : list DescribeTransactionsResponse_TopicData;
  DescribeTransactionsResponse_TransactionState_unknown_tagged_fields : TaggedFields
}.

(* @ src/crates/kafka-protocol/src/messages/describe_transactions_response.rs 492-506 TransactionState::default *)
Definition DescribeTransactionsResponse_TransactionState_default :
    DescribeTransactionsResponse_TransactionState := {|
  DescribeTransactionsResponse_TransactionState_error_code := 0;
  DescribeTransactionsResponse_TransactionState_transactional_id := [];
  DescribeTransactionsResponse_TransactionState_transaction_state := [];
  DescribeTransactionsResponse_TransactionState_transaction_timeout_ms := 0;
  DescribeTransactionsResponse_TransactionState_transaction_start_time_ms := 0;
  DescribeTransactionsResponse_TransactionState_producer_id := 0;
  DescribeTransactionsResponse_TransactionState_producer_epoch := 0;
  DescribeTransactionsResponse_TransactionState_topics := [];
  DescribeTransactionsResponse_TransactionState_unknown_tagged_fields := ∅
|}.

(* @ src/crates/kafka-protocol/src/messages/describe_transactions_response.rs 406-490 TransactionState::encode, compute_size, decode *)
Definition DescribeTransactionsResponse_TransactionState_codec (version : Z) : Codec
    DescribeTransactionsResponse_TransactionState :=
  message 0 0 version (build mkDescribeTransactionsResponse_TransactionState
    ⊛ (field DescribeTransactionsResponse_TransactionState_error_code Int16)
    ⊛ (field DescribeTransactionsResponse_TransactionState_transactional_id CompactString)
    ⊛ (field DescribeTransactionsResponse_TransactionState_transaction_state CompactString)
    ⊛ (field DescribeTransactionsResponse_TransactionState_transaction_timeout_ms Int32)
    ⊛ (field DescribeTransactionsResponse_TransactionState_transaction_start_time_ms Int64)
    ⊛ (field DescribeTransactionsResponse_TransactionState_producer_id Int64)
    ⊛ (field DescribeTransactionsResponse_TransactionState_producer_epoch Int16)
    ⊛ (field DescribeTransactionsResponse_TransactionState_topics (CompactArray (Struct
        DescribeTransactionsResponse_TopicData_codec version)))
    ⊛ unknown_tags true DescribeTransactionsResponse_TransactionState_unknown_tagged_fields).

Definition DescribeTransactionsResponse_TransactionState_valid (version : Z) (x :
    DescribeTransactionsResponse_TransactionState) : Prop :=
  in_signed 16 (DescribeTransactionsResponse_TransactionState_error_code x) ∧
  utf8 (DescribeTransactionsResponse_TransactionState_transactional_id x) ∧
  utf8 (DescribeTransactionsResponse_TransactionState_transaction_state x) ∧
  in_signed 32 (DescribeTransactionsResponse_TransactionState_transaction_timeout_ms x) ∧
  in_signed 64 (DescribeTransactionsResponse_TransactionState_transaction_start_time_ms x) ∧
  in_signed 64 (DescribeTransactionsResponse_TransactionState_producer_id x) ∧
  in_signed 16 (DescribeTransactionsResponse_TransactionState_producer_epoch x) ∧
  Forall (DescribeTransactionsResponse_TopicData_valid version)
      (DescribeTransactionsResponse_TransactionState_topics x) ∧
  unknown_valid 0 (DescribeTransactionsResponse_TransactionState_unknown_tagged_fields x).

#[global] Instance DescribeTransactionsResponse_TransactionState_sound version : Sound
    (DescribeTransactionsResponse_TransactionState_codec version)
    (DescribeTransactionsResponse_TransactionState_valid version).
Proof. solve_message. Qed.

(* @ src/crates/kafka-protocol/src/messages/describe_transactions_response.rs 20-36 DescribeTransactionsResponse *)
Record DescribeTransactionsResponse : Type := mkDescribeTransactionsResponse {
  DescribeTransactionsResponse_throttle_time_ms : Z;
  DescribeTransactionsResponse_transaction_states : list DescribeTransactionsResponse_TransactionState;
  DescribeTransactionsResponse_unknown_tagged_fields : TaggedFields
}.

(* @ src/crates/kafka-protocol/src/messages/describe_transactions_response.rs 132-140 DescribeTransactionsResponse::default *)
Definition DescribeTransactionsResponse_default : DescribeTransactionsResponse := {|
  DescribeTransactionsResponse_throttle_time_ms := 0;
  DescribeTransactionsResponse_transaction_states := [];
  DescribeTransactionsResponse_unknown_tagged_fields := ∅
|}.

(* @ src/crates/kafka-protocol/src/messages/describe_transactions_response.rs 69-130 DescribeTransactionsResponse::encode, compute_size, decode *)
Definition DescribeTransactionsResponse_codec (version : Z) : Codec DescribeTransactionsResponse :=
  message 0 0 version (build mkDescribeTransactionsResponse
    ⊛ (field DescribeTransactionsResponse_throttle_time_ms Int32)
    ⊛ (field DescribeTransactionsResponse_transaction_states (CompactArray (Struct
        DescribeTransactionsResponse_TransactionState_codec version)))
    ⊛ unknown_tags true DescribeTransactionsResponse_unknown_tagged_fields).

Definition DescribeTransactionsResponse_valid (version : Z) (x : DescribeTransactionsResponse) : Prop :=
  in_signed 32 (DescribeTransactionsResponse_throttle_time_ms x) ∧
  Forall (DescribeTransactionsResponse_TransactionState_valid version)
      (DescribeTransactionsResponse_transaction_states x) ∧
  unknown_valid 0 (DescribeTransactionsResponse_unknown_tagged_fields x).

#[global] Instance DescribeTransactionsResponse_sound version : Sound (DescribeTransactionsResponse_codec
    version) (DescribeTransactionsResponse_valid version).
Proof. solve_message. Qed.

(* @ src/crates/kafka-protocol/src/messages/describe_transactions_response.rs 513-517 DescribeTransactionsResponse::header_version *)
Definition DescribeTransactionsResponse_header_version (version : Z) : Z := 1.

(* @ src/crates/kafka-protocol/src/messages/describe_transactions_response.rs 142-145 DescribeTransactionsResponse::VERSIONS *)
Definition DescribeTransactionsResponse_VERSIONS : Z * Z := (0, 0).

(** ** [end_txn_marker] *)

(* @ src/crates/kafka-protocol/src/messages/end_txn_marker.rs 20-28 EndTxnMarker *)
Record EndTxnMarker : Type := mkEndTxnMarker {
  EndTxnMarker_coordinator_epoch : Z
}.

(* @ src/crates/kafka-protocol/src/messages/end_txn_marker.rs 69-75 EndTxnMarker::default *)
Definition EndTxnMarker_default : EndTxnMarker := {|
  EndTxnMarker_coordinator_epoch := 0
|}.

(* @ src/crates/kafka-protocol/src/messages/end_txn_marker.rs 42-67 EndTxnMarker::encode, compute_size, decode *)
Definition EndTxnMarker_codec (version : Z) : Codec EndTxnMarker :=
  message 0 0 version (build mkEndTxnMarker
    ⊛ (field EndTxnMarker_coordinator_epoch Int32)).

Definition EndTxnMarker_valid (version : Z) (x : EndTxnMarker) : Prop :=
  in_signed 32 (EndTxnMarker_coordinator_epoch x).

#[global] Instance EndTxnMarker_sound version : Sound (EndTxnMarker_codec version) (EndTxnMarker_valid
    version).
Proof. solve_message. Qed.

(** ** [end_txn_request] *)

(* @ src/crates/kafka-protocol/src/messages/end_txn_request.rs 20-46 EndTxnRequest *)
Record EndTxnRequest : Type := mkEndTxnRequest {
  EndTxnRequest_transactional_id : list byte;
  EndTxnRequest_producer_id : Z;
  EndTxnRequest_producer_epoch : Z;
  EndTxnRequest_committed : bool;
  EndTxnRequest_unknown_tagged_fields : TaggedFields
}.

(* @ src/crates/kafka-protocol/src/messages/end_txn_request.rs 185-195 EndTxnRequest::default *)
Definition EndTxnRequest_default : EndTxnRequest := {|
  EndTxnRequest_transactional_id := [];
  EndTxnRequest_producer_id := 0;
  EndTxnRequest_producer_epoch := 0;
  EndTxnRequest_committed := false;
  EndTxnRequest_unknown_tagged_fields := ∅
|}.

(* @ src/crates/kafka-protocol/src/messages/end_txn_request.rs 97-183 EndTxnRequest::encode, compute_size, decode *)
Definition EndTxnRequest_codec (version : Z) : Codec EndTxnRequest :=
  message 0 5 version (build mkEndTxnRequest
    ⊛ (field EndTxnRequest_transactional_id (if 3 <=? version then CompactString else KafkaString))
    ⊛ (field EndTxnRequest_producer_id Int64)
    ⊛ (field EndTxnRequest_producer_epoch Int16)
    ⊛ (field EndTxnRequest_committed Boolean)
    ⊛ unknown_tags (3 <=? version) EndTxnRequest_unknown_tagged_fields).

Definition EndTxnRequest_valid (version : Z) (x : EndTxnRequest) : Prop :=
  utf8 (EndTxnRequest_transactional_id x) ∧
  in_signed 64 (EndTxnRequest_producer_id x) ∧
  in_signed 16 (EndTxnRequest_producer_epoch x) ∧
  (if 3 <=? version then unknown_valid 0 (EndTxnRequest_unknown_tagged_fields x) else
      EndTxnRequest_unknown_tagged_fields x = ∅).

#[global] Instance EndTxnRequest_sound version : Sound (EndTxnRequest_codec version) (EndTxnRequest_valid
    version).
Proof. solve_message. Qed.

(* @ src/crates/kafka-protocol/src/messages/end_txn_request.rs 202-210 EndTxnRequest::header_version *)
Definition EndTxnRequest_header_version (version : Z) : Z := if 3 <=? version then 2 else 1.

(* @ src/crates/kafka-protocol/src/messages/end_txn_request.rs 197-200 EndTxnRequest::VERSIONS *)
Definition EndTxnRequest_VERSIONS : Z * Z := (0, 5).

(** ** [end_txn_response] *)

(* @ src/crates/kafka-protocol/src/messages/end_txn_response.rs 20-46 EndTxnResponse *)
Record EndTxnResponse : Type := mkEndTxnResponse {
  EndTxnResponse_throttle_time_ms : Z;
  EndTxnResponse_error_code : Z;
  EndTxnResponse_producer_id : Z;
  EndTxnResponse_producer_epoch : Z;
  EndTxnResponse_unknown_tagged_fields : TaggedFields
}.

(* @ src/crates/kafka-protocol/src/messages/end_txn_response.rs 189-199 EndTxnResponse::default *)
Definition EndTxnResponse_default : EndTxnResponse := {|
  EndTxnResponse_throttle_time_ms := 0;
  EndTxnResponse_error_code := 0;
  EndTxnResponse_producer_id := -1;
  EndTxnResponse_producer_epoch := -1;
  EndTxnResponse_unknown_tagged_fields := ∅
|}.

(* @ src/crates/kafka-protocol/src/messages/end_txn_response.rs 97-187 EndTxnResponse::encode, compute_size, decode *)
Definition EndTxnResponse_codec (version : Z) : Codec EndTxnResponse :=
  message 0 5 version (build mkEndTxnResponse
    ⊛ (field EndTxnResponse_throttle_time_ms Int32)
    ⊛ (field EndTxnResponse_error_code Int16)
    ⊛ (if 5 <=? version then field EndTxnResponse_producer_id Int64 else ignored (-1))
    ⊛ (if 5 <=? version then field EndTxnResponse_producer_epoch Int16 else ignored (-1))
    ⊛ unknown_tags (3 <=? version) EndTxnResponse_unknown_tagged_fields).

Definition EndTxnResponse_valid (version : Z) (x : EndTxnResponse) : Prop :=
  in_signed 32 (EndTxnResponse_throttle_time_ms x) ∧
  in_signed 16 (EndTxnResponse_error_code x) ∧
  (if 5 <=? version then in_signed 64 (EndTxnResponse_producer_id x) else EndTxnResponse_producer_id x =
      (-1)) ∧
  (if 5 <=? version then in_signed 16 (EndTxnResponse_producer_epoch x) else EndTxnResponse_producer_epoch
      x = (-1)) ∧
  (if 3 <=? version then unknown_valid 0 (EndTxnResponse_unknown_tagged_fields x) else
      EndTxnResponse_unknown_tagged_fields x = ∅).

#[global] Instance EndTxnResponse_sound version : Sound (EndTxnResponse_codec version)
    (EndTxnResponse_valid version).
Proof. solve_message. Qed.

(* @ src/crates/kafka-protocol/src/messages/end_txn_response.rs 206-214 EndTxnResponse::header_version *)
Definition EndTxnResponse_header_version (version : Z) : Z := if 3 <=? version then 1 else 0.

(* @ src/crates/kafka-protocol/src/messages/end_txn_response.rs 201-204 EndTxnResponse::VERSIONS *)
Definition EndTxnResponse_VERSIONS : Z * Z := (0, 5).

(** ** [list_transactions_request] *)

(* @ src/crates/kafka-protocol/src/messages/list_transactions_request.rs 20-46 ListTransactionsRequest *)
Record ListTransactionsRequest : Type := mkListTransactionsRequest {
  ListTransactionsRequest_state_filters : list (list byte);
  ListTransactionsRequest_producer_id_filters : list Z;
  ListTransactionsRequest_duration_filter : Z;
  ListTransactionsRequest_transactional_id_pattern : option (list byte);
  ListTransactionsRequest_unknown_tagged_fields : TaggedFields
}.

(* @ src/crates/kafka-protocol/src/messages/list_transactions_request.rs 200-210 ListTransactionsRequest::default *)
Definition ListTransactionsRequest_default : ListTransactionsRequest := {|
  ListTransactionsRequest_state_filters := [];
  ListTransactionsRequest_producer_id_filters := [];
  ListTransactionsRequest_duration_filter := -1;
  ListTransactionsRequest_transactional_id_pattern := None;
  ListTransactionsRequest_unknown_tagged_fields := ∅
|}.

(* @ src/crates/kafka-protocol/src/messages/list_transactions_request.rs 97-198 ListTransactionsRequest::encode, compute_size, decode *)
Definition ListTransactionsRequest_codec (version : Z) : Codec ListTransactionsRequest :=
  message 0 2 version (build mkListTransactionsRequest
    ⊛ (field ListTransactionsRequest_state_filters (CompactArray CompactString))
    ⊛ (field ListTransactionsRequest_producer_id_filters (CompactArray Int64))
    ⊛ (if 1 <=? version then field ListTransactionsRequest_duration_filter Int64 else unset
        ListTransactionsRequest_duration_filter (Z.eqb (-1)) (-1))
    ⊛ (if 2 <=? version then field ListTransactionsRequest_transactional_id_pattern NullableCompactString
        else unset ListTransactionsRequest_transactional_id_pattern is_none None)
    ⊛ unknown_tags true ListTransactionsRequest_unknown_tagged_fields).

Definition ListTransactionsRequest_valid (version : Z) (x : ListTransactionsRequest) : Prop :=
  Forall utf8 (ListTransactionsRequest_state_filters x) ∧
  Forall (in_signed 64) (ListTransactionsRequest_producer_id_filters x) ∧
  in_signed 64 (ListTransactionsRequest_duration_filter x) ∧
  opt_all utf8 (ListTransactionsRequest_transactional_id_pattern x) ∧
  unknown_valid 0 (ListTransactionsRequest_unknown_tagged_fields x).

#[global] Instance ListTransactionsRequest_sound version : Sound (ListTransactionsRequest_codec version)
    (ListTransactionsRequest_valid version).
Proof. solve_message. Qed.

(* @ src/crates/kafka-protocol/src/messages/list_transactions_request.rs 217-221 ListTransactionsRequest::header_version *)
Definition ListTransactionsRequest_header_version (version : Z) : Z := 2.

(* @ src/crates/kafka-protocol/src/messages/list_transactions_request.rs 212-215 ListTransactionsRequest::VERSIONS *)
Definition ListTransactionsRequest_VERSIONS : Z * Z := (0, 2).

(** ** [list_transactions_response] *)

(* @ src/crates/kafka-protocol/src/messages/list_transactions_response.rs 186-207 TransactionState *)
Record ListTransactionsResponse_TransactionState : Type := mkListTransactionsResponse_TransactionState {
  ListTransactionsResponse_TransactionState_transactional_id : list byte;
  ListTransactionsResponse_TransactionState_producer_id : Z;
  ListTransactionsResponse_TransactionState_transaction_state : list byte;
  ListTransactionsResponse_TransactionState_unknown_tagged_fields : TaggedFields
}.

(* @ src/crates/kafka-protocol/src/messages/list_transactions_response.rs 315-324 TransactionState::default *)
Definition ListTransactionsResponse_TransactionState_default : ListTransactionsResponse_TransactionState :=
    {|
  ListTransactionsResponse_TransactionState_transactional_id := [];
  ListTransactionsResponse_TransactionState_producer_id := 0;
  ListTransactionsResponse_TransactionState_transaction_state := [];
  ListTransactionsResponse_TransactionState_unknown_tagged_fields := ∅
|}.

(* @ src/crates/kafka-protocol/src/messages/list_transactions_response.rs 249-313 TransactionState::encode, compute_size, decode *)
Definition ListTransactionsResponse_TransactionState_codec (version : Z) : Codec
    ListTransactionsResponse_TransactionState :=
  message 0 2 version (build mkListTransactionsResponse_TransactionState
    ⊛ (field ListTransactionsResponse_TransactionState_transactional_id CompactString)
    ⊛ (field ListTransactionsResponse_TransactionState_producer_id Int64)
    ⊛ (field ListTransactionsResponse_TransactionState_transaction_state CompactString)
    ⊛ unknown_tags true ListTransactionsResponse_TransactionState_unknown_tagged_fields).

Definition ListTransactionsResponse_TransactionState_valid (version : Z) (x :
    ListTransactionsResponse_TransactionState) : Prop :=
  utf8 (ListTransactionsResponse_TransactionState_transactional_id x) ∧
  in_signed 64 (ListTransactionsResponse_TransactionState_producer_id x) ∧
  utf8 (ListTransactionsResponse_TransactionState_transaction_state x) ∧
  unknown_valid 0 (ListTransactionsResponse_TransactionState_unknown_tagged_fields x).

#[global] Instance ListTransactionsResponse_TransactionState_sound version : Sound
    (ListTransactionsResponse_TransactionState_codec version)
    (ListTransactionsResponse_TransactionState_valid version).
Proof. solve_message. Qed.

(* @ src/crates/kafka-protocol/src/messages/list_transactions_response.rs 20-46 ListTransactionsResponse *)
Record ListTransactionsResponse : Type := mkListTransactionsResponse {
  ListTransactionsResponse_throttle_time_ms : Z;
  ListTransactionsResponse_error_code : Z;
  ListTransactionsResponse_unknown_state_filters : list (list byte);
  ListTransactionsResponse_transaction_states : list ListTransactionsResponse_TransactionState;
  ListTransactionsResponse_unknown_tagged_fields : TaggedFields
}.

(* @ src/crates/kafka-protocol/src/messages/list_transactions_response.rs 169-179 ListTransactionsResponse::default *)
Definition ListTransactionsResponse_default : ListTransactionsResponse := {|
  ListTransactionsResponse_throttle_time_ms := 0;
  ListTransactionsResponse_error_code := 0;
  ListTransactionsResponse_unknown_state_filters := [];
  ListTransactionsResponse_transaction_states := [];
  ListTransactionsResponse_unknown_tagged_fields := ∅
|}.

(* @ src/crates/kafka-protocol/src/messages/list_transactions_response.rs 97-167 ListTransactionsResponse::encode, compute_size, decode *)
Definition ListTransactionsResponse_codec (version : Z) : Codec ListTransactionsResponse :=
  message 0 2 version (build mkListTransactionsResponse
    ⊛ (field ListTransactionsResponse_throttle_time_ms Int32)
    ⊛ (field ListTransactionsResponse_error_code Int16)
    ⊛ (field ListTransactionsResponse_unknown_state_filters (CompactArray CompactString))
    ⊛ (field ListTransactionsResponse_transaction_states (CompactArray (Struct
        ListTransactionsResponse_TransactionState_codec version)))
    ⊛ unknown_tags true ListTransactionsResponse_unknown_tagged_fields).

Definition ListTransactionsResponse_valid (version : Z) (x : ListTransactionsResponse) : Prop :=
  in_signed 32 (ListTransactionsResponse_throttle_time_ms x) ∧
  in_signed 16 (ListTransactionsResponse_error_code x) ∧
  Forall utf8 (ListTransactionsResponse_unknown_state_filters x) ∧
  Forall (ListTransactionsResponse_TransactionState_valid version)
      (ListTransactionsResponse_transaction_states x) ∧
  unknown_valid 0 (ListTransactionsResponse_unknown_tagged_fields x).

#[global] Instance ListTransactionsResponse_sound version : Sound (ListTransactionsResponse_codec version)
    (ListTransactionsResponse_valid version).
Proof. solve_message. Qed.

(* @ src/crates/kafka-protocol/src/messages/list_transactions_response.rs 331-335 ListTransactionsResponse::header_version *)
Definition ListTransactionsResponse_header_version (version : Z) : Z := 1.

(* @ src/crates/kafka-protocol/src/messages/list_transactions_response.rs 181-184 ListTransactionsResponse::VERSIONS *)
Definition ListTransactionsResponse_VERSIONS : Z * Z := (0, 2).

(** ** [offset_for_leader_epoch_request] *)

(* @ src/crates/kafka-protocol/src/messages/offset_for_leader_epoch_request.rs 173-194 OffsetForLeaderPartition *)
Record OffsetForLeaderPartition : Type := mkOffsetForLeaderPartition {
  OffsetForLeaderPartition_partition : Z;
  OffsetForLeaderPartition_current_leader_epoch : Z;
  OffsetForLeaderPartition_leader_epoch : Z;
  OffsetForLeaderPartition_unknown_tagged_fields : TaggedFields
}.

(* @ src/crates/kafka-protocol/src/messages/offset_for_leader_epoch_request.rs 308-317 OffsetForLeaderPartition::default *)
Definition OffsetForLeaderPartition_default : OffsetForLeaderPartition := {|
  OffsetForLeaderPartition_partition := 0;
  OffsetForLeaderPartition_current_leader_epoch := -1;
  OffsetForLeaderPartition_leader_epoch := 0;
  OffsetForLeaderPartition_unknown_tagged_fields := ∅
|}.

(* @ src/crates/kafka-protocol/src/messages/offset_for_leader_epoch_request.rs 236-306 OffsetForLeaderPartition::encode, compute_size, decode *)
Definition OffsetForLeaderPartition_codec (version : Z) : Codec OffsetForLeaderPartition :=
  message 2 4 version (build mkOffsetForLeaderPartition
    ⊛ (field OffsetForLeaderPartition_partition Int32)
    ⊛ (field OffsetForLeaderPartition_current_leader_epoch Int32)
    ⊛ (field OffsetForLeaderPartition_leader_epoch Int32)
    ⊛ unknown_tags (4 <=? version) OffsetForLeaderPartition_unknown_tagged_fields).

Definition OffsetForLeaderPartition_valid (version : Z) (x : OffsetForLeaderPartition) : Prop :=
  in_signed 32 (OffsetForLeaderPartition_partition x) ∧
  in_signed 32 (OffsetForLeaderPartition_current_leader_epoch x) ∧
  in_signed 32 (OffsetForLeaderPartition_leader_epoch x) ∧
  (if 4 <=? version then unknown_valid 0 (OffsetForLeaderPartition_unknown_tagged_fields x) else
      OffsetForLeaderPartition_unknown_tagged_fields x = ∅).

#[global] Instance OffsetForLeaderPartition_sound version : Sound (OffsetForLeaderPartition_codec version)
    (OffsetForLeaderPartition_valid version).
Proof. solve_message. Qed.

(* @ src/crates/kafka-protocol/src/messages/offset_for_leader_epoch_request.rs 324-340 OffsetForLeaderTopic *)
Record OffsetForLeaderTopic : Type := mkOffsetForLeaderTopic {
  OffsetForLeaderTopic_topic : list byte;
  OffsetForLeaderTopic_partitions : list OffsetForLeaderPartition;
  OffsetForLeaderTopic_unknown_tagged_fields : TaggedFields
}.

(* @ src/crates/kafka-protocol/src/messages/offset_for_leader_epoch_request.rs 466-474 OffsetForLeaderTopic::default *)
Definition OffsetForLeaderTopic_default : OffsetForLeaderTopic := {|
  OffsetForLeaderTopic_topic := [];
  OffsetForLeaderTopic_partitions := [];
  OffsetForLeaderTopic_unknown_tagged_fields := ∅
|}.

(* @ src/crates/kafka-protocol/src/messages/offset_for_leader_epoch_request.rs 373-464 OffsetForLeaderTopic::encode, compute_size, decode *)
Definition OffsetForLeaderTopic_codec (version : Z) : Codec OffsetForLeaderTopic :=
  message 2 4 version (build mkOffsetForLeaderTopic
    ⊛ (field OffsetForLeaderTopic_topic (if 4 <=? version then CompactString else KafkaString))
    ⊛ (field OffsetForLeaderTopic_partitions (if 4 <=? version then CompactArray (Struct
        OffsetForLeaderPartition_codec version) else Array (Struct OffsetForLeaderPartition_codec version)))
    ⊛ unknown_tags (4 <=? version) OffsetForLeaderTopic_unknown_tagged_fields).

Definition OffsetForLeaderTopic_valid (version : Z) (x : OffsetForLeaderTopic) : Prop :=
  utf8 (OffsetForLeaderTopic_topic x) ∧
  Forall (OffsetForLeaderPartition_valid version) (OffsetForLeaderTopic_partitions x) ∧
  (if 4 <=? version then unknown_valid 0 (OffsetForLeaderTopic_unknown_tagged_fields x) else
      OffsetForLeaderTopic_unknown_tagged_fields x = ∅).

#[global] Instance OffsetForLeaderTopic_sound version : Sound (OffsetForLeaderTopic_codec version)
    (OffsetForLeaderTopic_valid version).
Proof. solve_message. Qed.

(* @ src/crates/kafka-protocol/src/messages/offset_for_leader_epoch_request.rs 20-36 OffsetForLeaderEpochRequest *)
Record OffsetForLeaderEpochRequest : Type := mkOffsetForLeaderEpochRequest {
  OffsetForLeaderEpochRequest_replica_id : Z;
  OffsetForLeaderEpochRequest_topics : list OffsetForLeaderTopic;
  OffsetForLeaderEpochRequest_unknown_tagged_fields : TaggedFields
}.

(* @ src/crates/kafka-protocol/src/messages/offset_for_leader_epoch_request.rs 158-166 OffsetForLeaderEpochRequest::default *)
Definition OffsetForLeaderEpochRequest_default : OffsetForLeaderEpochRequest := {|
  OffsetForLeaderEpochRequest_replica_id := -2;
  OffsetForLeaderEpochRequest_topics := [];
  OffsetForLeaderEpochRequest_unknown_tagged_fields := ∅
|}.

(* @ src/crates/kafka-protocol/src/messages/offset_for_leader_epoch_request.rs 69-156 OffsetForLeaderEpochRequest::encode, compute_size, decode *)
Definition OffsetForLeaderEpochRequest_codec (version : Z) : Codec OffsetForLeaderEpochRequest :=
  message 2 4 version (build mkOffsetForLeaderEpochRequest
    ⊛ (if 3 <=? version then field OffsetForLeaderEpochRequest_replica_id Int32 else ignored (-2))
    ⊛ (field OffsetForLeaderEpochRequest_topics (if 4 <=? version then CompactArray (Struct
        OffsetForLeaderTopic_codec version) else Array (Struct OffsetForLeaderTopic_codec version)))
    ⊛ unknown_tags (4 <=? version) OffsetForLeaderEpochRequest_unknown_tagged_fields).

Definition OffsetForLeaderEpochRequest_valid (version : Z) (x : OffsetForLeaderEpochRequest) : Prop :=
  (if 3 <=? version then in_signed 32 (OffsetForLeaderEpochRequest_replica_id x) else
      OffsetForLeaderEpochRequest_replica_id x = (-2)) ∧
  Forall (OffsetForLeaderTopic_valid version) (OffsetForLeaderEpochRequest_topics x) ∧
  (if 4 <=? version then unknown_valid 0 (OffsetForLeaderEpochRequest_unknown_tagged_fields x) else
      OffsetForLeaderEpochRequest_unknown_tagged_fields x = ∅).

#[global] Instance OffsetForLeaderEpochRequest_sound version : Sound (OffsetForLeaderEpochRequest_codec
    version) (OffsetForLeaderEpochRequest_valid version).
Proof. solve_message. Qed.

(* @ src/crates/kafka-protocol/src/messages/offset_for_leader_epoch_request.rs 481-489 OffsetForLeaderEpochRequest::header_version *)
Definition OffsetForLeaderEpochRequest_header_version (version : Z) : Z := if 4 <=? version then 2 else 1.

(* @ src/crates/kafka-protocol/src/messages/offset_for_leader_epoch_request.rs 168-171 OffsetForLeaderEpochRequest::VERSIONS *)
Definition OffsetForLeaderEpochRequest_VERSIONS : Z * Z := (2, 4).

(** ** [offset_for_leader_epoch_response] *)

(* @ src/crates/kafka-protocol/src/messages/offset_for_leader_epoch_response.rs 20-46 EpochEndOffset *)
Record OffsetForLeaderEpochResponse_EpochEndOffset : Type := mkOffsetForLeaderEpochResponse_EpochEndOffset {
  OffsetForLeaderEpochResponse_EpochEndOffset_error_code : Z;
  OffsetForLeaderEpochResponse_EpochEndOffset_partition : Z;
  OffsetForLeaderEpochResponse_EpochEndOffset_leader_epoch : Z;
  OffsetForLeaderEpochResponse_EpochEndOffset_end_offset : Z;
  OffsetForLeaderEpochResponse_EpochEndOffset_unknown_tagged_fields : TaggedFields
}.

(* @ src/crates/kafka-protocol/src/messages/offset_for_leader_epoch_response.rs 173-183 EpochEndOffset::default *)
Definition OffsetForLeaderEpochResponse_EpochEndOffset_default :
    OffsetForLeaderEpochResponse_EpochEndOffset := {|
  OffsetForLeaderEpochResponse_EpochEndOffset_error_code := 0;
  OffsetForLeaderEpochResponse_EpochEndOffset_partition := 0;
  OffsetForLeaderEpochResponse_EpochEndOffset_leader_epoch := -1;
  OffsetForLeaderEpochResponse_EpochEndOffset_end_offset := -1;
  OffsetForLeaderEpochResponse_EpochEndOffset_unknown_tagged_fields := ∅
|}.

(* @ src/crates/kafka-protocol/src/messages/offset_for_leader_epoch_response.rs 97-171 EpochEndOffset::encode, compute_size, decode *)
Definition OffsetForLeaderEpochResponse_EpochEndOffset_codec (version : Z) : Codec
    OffsetForLeaderEpochResponse_EpochEndOffset :=
  message 2 4 version (build mkOffsetForLeaderEpochResponse_EpochEndOffset
    ⊛ (field OffsetForLeaderEpochResponse_EpochEndOffset_error_code Int16)
    ⊛ (field OffsetForLeaderEpochResponse_EpochEndOffset_partition Int32)
    ⊛ (field OffsetForLeaderEpochResponse_EpochEndOffset_leader_epoch Int32)
    ⊛ (field OffsetForLeaderEpochResponse_EpochEndOffset_end_offset Int64)
    ⊛ unknown_tags (4 <=? version) OffsetForLeaderEpochResponse_EpochEndOffset_unknown_tagged_fields).

Definition OffsetForLeaderEpochResponse_EpochEndOffset_valid (version : Z) (x :
    OffsetForLeaderEpochResponse_EpochEndOffset) : Prop :=
  in_signed 16 (OffsetForLeaderEpochResponse_EpochEndOffset_error_code x) ∧
  in_signed 32 (OffsetForLeaderEpochResponse_EpochEndOffset_partition x) ∧
  in_signed 32 (OffsetForLeaderEpochResponse_EpochEndOffset_leader_epoch x) ∧
  in_signed 64 (OffsetForLeaderEpochResponse_EpochEndOffset_end_offset x) ∧
  (if 4 <=? version then unknown_valid 0 (OffsetForLeaderEpochResponse_EpochEndOffset_unknown_tagged_fields
      x) else OffsetForLeaderEpochResponse_EpochEndOffset_unknown_tagged_fields x = ∅).

#[global] Instance OffsetForLeaderEpochResponse_EpochEndOffset_sound version : Sound
    (OffsetForLeaderEpochResponse_EpochEndOffset_codec version)
    (OffsetForLeaderEpochResponse_EpochEndOffset_valid version).
Proof. solve_message. Qed.

(* @ src/crates/kafka-protocol/src/messages/offset_for_leader_epoch_response.rs 335-351 OffsetForLeaderTopicResult *)
Record OffsetForLeaderTopicResult : Type := mkOffsetForLeaderTopicResult {
  OffsetForLeaderTopicResult_topic : list byte;
  OffsetForLeaderTopicResult_partitions : list OffsetForLeaderEpochResponse_EpochEndOffset;
  OffsetForLeaderTopicResult_unknown_tagged_fields : TaggedFields
}.

(* @ src/crates/kafka-protocol/src/messages/offset_for_leader_epoch_response.rs 477-485 OffsetForLeaderTopicResult::default *)
Definition OffsetForLeaderTopicResult_default : OffsetForLeaderTopicResult := {|
  OffsetForLeaderTopicResult_topic := [];
  OffsetForLeaderTopicResult_partitions := [];
  OffsetForLeaderTopicResult_unknown_tagged_fields := ∅
|}.

(* @ src/crates/kafka-protocol/src/messages/offset_for_leader_epoch_response.rs 384-475 OffsetForLeaderTopicResult::encode, compute_size, decode *)
Definition OffsetForLeaderTopicResult_codec (version : Z) : Codec OffsetForLeaderTopicResult :=
  message 2 4 version (build mkOffsetForLeaderTopicResult
    ⊛ (field OffsetForLeaderTopicResult_topic (if 4 <=? version then CompactString else KafkaString))
    ⊛ (field OffsetForLeaderTopicResult_partitions (if 4 <=? version then CompactArray (Struct
        OffsetForLeaderEpochResponse_EpochEndOffset_codec version) else Array (Struct
        OffsetForLeaderEpochResponse_EpochEndOffset_codec version)))
    ⊛ unknown_tags (4 <=? version) OffsetForLeaderTopicResult_unknown_tagged_fields).

Definition OffsetForLeaderTopicResult_valid (version : Z) (x : OffsetForLeaderTopicResult) : Prop :=
  utf8 (OffsetForLeaderTopicResult_topic x) ∧
  Forall (OffsetForLeaderEpochResponse_EpochEndOffset_valid version) (OffsetForLeaderTopicResult_partitions
      x) ∧
  (if 4 <=? version then unknown_valid 0 (OffsetForLeaderTopicResult_unknown_tagged_fields x) else
      OffsetForLeaderTopicResult_unknown_tagged_fields x = ∅).

#[global] Instance OffsetForLeaderTopicResult_sound version : Sound (OffsetForLeaderTopicResult_codec
    version) (OffsetForLeaderTopicResult_valid version).
Proof. solve_message. Qed.

(* @ src/crates/kafka-protocol/src/messages/offset_for_leader_epoch_response.rs 190-206 OffsetForLeaderEpochResponse *)
Record OffsetForLeaderEpochResponse : Type := mkOffsetForLeaderEpochResponse {
  OffsetForLeaderEpochResponse_throttle_time_ms : Z;
  OffsetForLeaderEpochResponse_topics : list OffsetForLeaderTopicResult;
  OffsetForLeaderEpochResponse_unknown_tagged_fields : TaggedFields
}.

(* @ src/crates/kafka-protocol/src/messages/offset_for_leader_epoch_response.rs 320-328 OffsetForLeaderEpochResponse::default *)
Definition OffsetForLeaderEpochResponse_default : OffsetForLeaderEpochResponse := {|
  OffsetForLeaderEpochResponse_throttle_time_ms := 0;
  OffsetForLeaderEpochResponse_topics := [];
  OffsetForLeaderEpochResponse_unknown_tagged_fields := ∅
|}.

(* @ src/crates/kafka-protocol/src/messages/offset_for_leader_epoch_response.rs 239-318 OffsetForLeaderEpochResponse::encode, compute_size, decode *)
Definition OffsetForLeaderEpochResponse_codec (version : Z) : Codec OffsetForLeaderEpochResponse :=
  message 2 4 version (build mkOffsetForLeaderEpochResponse
    ⊛ (field OffsetForLeaderEpochResponse_throttle_time_ms Int32)
    ⊛ (field OffsetForLeaderEpochResponse_topics (if 4 <=? version then CompactArray (Struct
        OffsetForLeaderTopicResult_codec version) else Array (Struct OffsetForLeaderTopicResult_codec
        version)))
    ⊛ unknown_tags (4 <=? version) OffsetForLeaderEpochResponse_unknown_tagged_fields).

Definition OffsetForLeaderEpochResponse_valid (version : Z) (x : OffsetForLeaderEpochResponse) : Prop :=
  in_signed 32 (OffsetForLeaderEpochResponse_throttle_time_ms x) ∧
  Forall (OffsetForLeaderTopicResult_valid version) (OffsetForLeaderEpochResponse_topics x) ∧
  (if 4 <=? version then unknown_valid 0 (OffsetForLeaderEpochResponse_unknown_tagged_fields x) else
      OffsetForLeaderEpochResponse_unknown_tagged_fields x = ∅).

#[global] Instance OffsetForLeaderEpochResponse_sound version : Sound (OffsetForLeaderEpochResponse_codec
    version) (OffsetForLeaderEpochResponse_valid version).
Proof. solve_message. Qed.

(* @ src/crates/kafka-protocol/src/messages/offset_for_leader_epoch_response.rs 492-500 OffsetForLeaderEpochResponse::header_version *)
Definition OffsetForLeaderEpochResponse_header_version (version : Z) : Z := if 4 <=? version then 1 else 0.

(* @ src/crates/kafka-protocol/src/messages/offset_for_leader_epoch_response.rs 330-333 OffsetForLeaderEpochResponse::VERSIONS *)
Definition OffsetForLeaderEpochResponse_VERSIONS : Z * Z := (2, 4).

(** ** [txn_offset_commit_request] *)

(* @ src/crates/kafka-protocol/src/messages/txn_offset_commit_request.rs 351-377 TxnOffsetCommitRequestPartition *)
Record TxnOffsetCommitRequestPartition : Type := mkTxnOffsetCommitRequestPartition {
  TxnOffsetCommitRequestPartition_partition_index : Z;
  TxnOffsetCommitRequestPartition_committed_offset : Z;
  TxnOffsetCommitRequestPartition_committed_leader_epoch : Z;
  TxnOffsetCommitRequestPartition_committed_metadata : option (list byte);
  TxnOffsetCommitRequestPartition_unknown_tagged_fields : TaggedFields
}.

(* @ src/crates/kafka-protocol/src/messages/txn_offset_commit_request.rs 524-534 TxnOffsetCommitRequestPartition::default *)
Definition TxnOffsetCommitRequestPartition_default : TxnOffsetCommitRequestPartition := {|
  TxnOffsetCommitRequestPartition_partition_index := 0;
  TxnOffsetCommitRequestPartition_committed_offset := 0;
  TxnOffsetCommitRequestPartition_committed_leader_epoch := -1;
  TxnOffsetCommitRequestPartition_committed_metadata := Some [];
  TxnOffsetCommitRequestPartition_unknown_tagged_fields := ∅
|}.

(* @ src/crates/kafka-protocol/src/messages/txn_offset_commit_request.rs 428-522 TxnOffsetCommitRequestPartition::encode, compute_size, decode *)
Definition TxnOffsetCommitRequestPartition_codec (version : Z) : Codec TxnOffsetCommitRequestPartition :=
  message 0 5 version (build mkTxnOffsetCommitRequestPartition
    ⊛ (field TxnOffsetCommitRequestPartition_partition_index Int32)
    ⊛ (field TxnOffsetCommitRequestPartition_committed_offset Int64)
    ⊛ (if 2 <=? version then field TxnOffsetCommitRequestPartition_committed_leader_epoch Int32 else
        ignored (-1))
    ⊛ (field TxnOffsetCommitRequestPartition_committed_metadata (if 3 <=? version then
        NullableCompactString else NullableString))
    ⊛ unknown_tags (3 <=? version) TxnOffsetCommitRequestPartition_unknown_tagged_fields).

Definition TxnOffsetCommitRequestPartition_valid (version : Z) (x : TxnOffsetCommitRequestPartition) : Prop
    :=
  in_signed 32 (TxnOffsetCommitRequestPartition_partition_index x) ∧
  in_signed 64 (TxnOffsetCommitRequestPartition_committed_offset x) ∧
  (if 2 <=? version then in_signed 32 (TxnOffsetCommitRequestPartition_committed_leader_epoch x) else
      TxnOffsetCommitRequestPartition_committed_leader_epoch x = (-1)) ∧
  opt_all utf8 (TxnOffsetCommitRequestPartition_committed_metadata x) ∧
  (if 3 <=? version then unknown_valid 0 (TxnOffsetCommitRequestPartition_unknown_tagged_fields x) else
      TxnOffsetCommitRequestPartition_unknown_tagged_fields x = ∅).

#[global] Instance TxnOffsetCommitRequestPartition_sound version : Sound
    (TxnOffsetCommitRequestPartition_codec version) (TxnOffsetCommitRequestPartition_valid version).
Proof. solve_message. Qed.

(* @ src/crates/kafka-protocol/src/messages/txn_offset_commit_request.rs 541-557 TxnOffsetCommitRequestTopic *)
Record TxnOffsetCommitRequestTopic : Type := mkTxnOffsetCommitRequestTopic {
  TxnOffsetCommitRequestTopic_name : list byte;
  TxnOffsetCommitRequestTopic_partitions : list TxnOffsetCommitRequestPartition;
  TxnOffsetCommitRequestTopic_unknown_tagged_fields : TaggedFields
}.

(* @ src/crates/kafka-protocol/src/messages/txn_offset_commit_request.rs 683-691 TxnOffsetCommitRequestTopic::default *)
Definition TxnOffsetCommitRequestTopic_default : TxnOffsetCommitRequestTopic := {|
  TxnOffsetCommitRequestTopic_name := [];
  TxnOffsetCommitRequestTopic_partitions := [];
  TxnOffsetCommitRequestTopic_unknown_tagged_fields := ∅
|}.

(* @ src/crates/kafka-protocol/src/messages/txn_offset_commit_request.rs 590-681 TxnOffsetCommitRequestTopic::encode, compute_size, decode *)
Definition TxnOffsetCommitRequestTopic_codec (version : Z) : Codec TxnOffsetCommitRequestTopic :=
  message 0 5 version (build mkTxnOffsetCommitRequestTopic
    ⊛ (field TxnOffsetCommitRequestTopic_name (if 3 <=? version then CompactString else KafkaString))
    ⊛ (field TxnOffsetCommitRequestTopic_partitions (if 3 <=? version then CompactArray (Struct
        TxnOffsetCommitRequestPartition_codec version) else Array (Struct
        TxnOffsetCommitRequestPartition_codec version)))
    ⊛ unknown_tags (3 <=? version) TxnOffsetCommitRequestTopic_unknown_tagged_fields).

Definition TxnOffsetCommitRequestTopic_valid (version : Z) (x : TxnOffsetCommitRequestTopic) : Prop :=
  utf8 (TxnOffsetCommitRequestTopic_name x) ∧
  Forall (TxnOffsetCommitRequestPartition_valid version) (TxnOffsetCommitRequestTopic_partitions x) ∧
  (if 3 <=? version then unknown_valid 0 (TxnOffsetCommitRequestTopic_unknown_tagged_fields x) else
      TxnOffsetCommitRequestTopic_unknown_tagged_fields x = ∅).

#[global] Instance TxnOffsetCommitRequestTopic_sound version : Sound (TxnOffsetCommitRequestTopic_codec
    version) (TxnOffsetCommitRequestTopic_valid version).
Proof. solve_message. Qed.

(* @ src/crates/kafka-protocol/src/messages/txn_offset_commit_request.rs 20-66 TxnOffsetCommitRequest *)
Record TxnOffsetCommitRequest : Type := mkTxnOffsetCommitRequest {
  TxnOffsetCommitRequest_transactional_id : list byte;
  TxnOffsetCommitRequest_group_id : list byte;
  TxnOffsetCommitRequest_producer_id : Z;
  TxnOffsetCommitRequest_producer_epoch : Z;
  TxnOffsetCommitRequest_generation_id : Z;
  TxnOffsetCommitRequest_member_id : list byte;
  TxnOffsetCommitRequest_group_instance_id : option (list byte);
  TxnOffsetCommitRequest_topics : list TxnOffsetCommitRequestTopic;
  TxnOffsetCommitRequest_unknown_tagged_fields : TaggedFields
}.

(* @ src/crates/kafka-protocol/src/messages/txn_offset_commit_request.rs 330-344 TxnOffsetCommitRequest::default *)
Definition TxnOffsetCommitRequest_default : TxnOffsetCommitRequest := {|
  TxnOffsetCommitRequest_transactional_id := [];
  TxnOffsetCommitRequest_group_id := [];
  TxnOffsetCommitRequest_producer_id := 0;
  TxnOffsetCommitRequest_producer_epoch := 0;
  TxnOffsetCommitRequest_generation_id := -1;
  TxnOffsetCommitRequest_member_id := [];
  TxnOffsetCommitRequest_group_instance_id := None;
  TxnOffsetCommitRequest_topics := [];
  TxnOffsetCommitRequest_unknown_tagged_fields := ∅
|}.

(* @ src/crates/kafka-protocol/src/messages/txn_offset_commit_request.rs 153-328 TxnOffsetCommitRequest::encode, compute_size, decode *)
Definition TxnOffsetCommitRequest_codec (version : Z) : Codec TxnOffsetCommitRequest :=
  message 0 5 version (build mkTxnOffsetCommitRequest
    ⊛ (field TxnOffsetCommitRequest_transactional_id (if 3 <=? version then CompactString else KafkaString))
    ⊛ (field TxnOffsetCommitRequest_group_id (if 3 <=? version then CompactString else KafkaString))
    ⊛ (field TxnOffsetCommitRequest_producer_id Int64)
    ⊛ (field TxnOffsetCommitRequest_producer_epoch Int16)
    ⊛ (if 3 <=? version then field TxnOffsetCommitRequest_generation_id Int32 else unset
        TxnOffsetCommitRequest_generation_id (Z.eqb (-1)) (-1))
    ⊛ (if 3 <=? version then field TxnOffsetCommitRequest_member_id CompactString else unset
        TxnOffsetCommitRequest_member_id is_empty [])
    ⊛ (if 3 <=? version then field TxnOffsetCommitRequest_group_instance_id NullableCompactString else
        unset TxnOffsetCommitRequest_group_instance_id is_none None)
    ⊛ (field TxnOffsetCommitRequest_topics (if 3 <=? version then CompactArray (Struct
        TxnOffsetCommitRequestTopic_codec version) else Array (Struct TxnOffsetCommitRequestTopic_codec
        version)))
    ⊛ unknown_tags (3 <=? version) TxnOffsetCommitRequest_unknown_tagged_fields).

Definition TxnOffsetCommitRequest_valid (version : Z) (x : TxnOffsetCommitRequest) : Prop :=
  utf8 (TxnOffsetCommitRequest_transactional_id x) ∧
  utf8 (TxnOffsetCommitRequest_group_id x) ∧
  in_signed 64 (TxnOffsetCommitRequest_producer_id x) ∧
  in_signed 16 (TxnOffsetCommitRequest_producer_epoch x) ∧
  in_signed 32 (TxnOffsetCommitRequest_generation_id x) ∧
  utf8 (TxnOffsetCommitRequest_member_id x) ∧
  opt_all utf8 (TxnOffsetCommitRequest_group_instance_id x) ∧
  Forall (TxnOffsetCommitRequestTopic_valid version) (TxnOffsetCommitRequest_topics x) ∧
  (if 3 <=? version then unknown_valid 0 (TxnOffsetCommitRequest_unknown_tagged_fields x) else
      TxnOffsetCommitRequest_unknown_tagged_fields x = ∅).

#[global] Instance TxnOffsetCommitRequest_sound version : Sound (TxnOffsetCommitRequest_codec version)
    (TxnOffsetCommitRequest_valid version).
Proof. solve_message. Qed.

(* @ src/crates/kafka-protocol/src/messages/txn_offset_commit_request.rs 698-706 TxnOffsetCommitRequest::header_version *)
Definition TxnOffsetCommitRequest_header_version (version : Z) : Z := if 3 <=? version then 2 else 1.

(* @ src/crates/kafka-protocol/src/messages/txn_offset_commit_request.rs 346-349 TxnOffsetCommitRequest::VERSIONS *)
Definition TxnOffsetCommitRequest_VERSIONS : Z * Z := (0, 5).

(** ** [txn_offset_commit_response] *)

(* @ src/crates/kafka-protocol/src/messages/txn_offset_commit_response.rs 165-181 TxnOffsetCommitResponsePartition *)
Record TxnOffsetCommitResponsePartition : Type := mkTxnOffsetCommitResponsePartition {
  TxnOffsetCommitResponsePartition_partition_index : Z;
  TxnOffsetCommitResponsePartition_error_code : Z;
  TxnOffsetCommitResponsePartition_unknown_tagged_fields : TaggedFields
}.

(* @ src/crates/kafka-protocol/src/messages/txn_offset_commit_response.rs 282-290 TxnOffsetCommitResponsePartition::default *)
Definition TxnOffsetCommitResponsePartition_default : TxnOffsetCommitResponsePartition := {|
  TxnOffsetCommitResponsePartition_partition_index := 0;
  TxnOffsetCommitResponsePartition_error_code := 0;
  TxnOffsetCommitResponsePartition_unknown_tagged_fields := ∅
|}.

(* @ src/crates/kafka-protocol/src/messages/txn_offset_commit_response.rs 214-280 TxnOffsetCommitResponsePartition::encode, compute_size, decode *)
Definition TxnOffsetCommitResponsePartition_codec (version : Z) : Codec TxnOffsetCommitResponsePartition :=
  message 0 5 version (build mkTxnOffsetCommitResponsePartition
    ⊛ (field TxnOffsetCommitResponsePartition_partition_index Int32)
    ⊛ (field TxnOffsetCommitResponsePartition_error_code Int16)
    ⊛ unknown_tags (3 <=? version) TxnOffsetCommitResponsePartition_unknown_tagged_fields).

Definition TxnOffsetCommitResponsePartition_valid (version : Z) (x : TxnOffsetCommitResponsePartition) :
    Prop :=
  in_signed 32 (TxnOffsetCommitResponsePartition_partition_index x) ∧
  in_signed 16 (TxnOffsetCommitResponsePartition_error_code x) ∧
  (if 3 <=? version then unknown_valid 0 (TxnOffsetCommitResponsePartition_unknown_tagged_fields x) else
      TxnOffsetCommitResponsePartition_unknown_tagged_fields x = ∅).

#[global] Instance TxnOffsetCommitResponsePartition_sound version : Sound
    (TxnOffsetCommitResponsePartition_codec version) (TxnOffsetCommitResponsePartition_valid version).
Proof. solve_message. Qed.

(* @ src/crates/kafka-protocol/src/messages/txn_offset_commit_response.rs 297-313 TxnOffsetCommitResponseTopic *)
Record TxnOffsetCommitResponseTopic : Type := mkTxnOffsetCommitResponseTopic {
  TxnOffsetCommitResponseTopic_name : list byte;
  TxnOffsetCommitResponseTopic_partitions : list TxnOffsetCommitResponsePartition;
  TxnOffsetCommitResponseTopic_unknown_tagged_fields : TaggedFields
}.

(* @ src/crates/kafka-protocol/src/messages/txn_offset_commit_response.rs 439-447 TxnOffsetCommitResponseTopic::default *)
Definition TxnOffsetCommitResponseTopic_default : TxnOffsetCommitResponseTopic := {|
  TxnOffsetCommitResponseTopic_name := [];
  TxnOffsetCommitResponseTopic_partitions := [];
  TxnOffsetCommitResponseTopic_unknown_tagged_fields := ∅
|}.

(* @ src/crates/kafka-protocol/src/messages/txn_offset_commit_response.rs 346-437 TxnOffsetCommitResponseTopic::encode, compute_size, decode *)
Definition TxnOffsetCommitResponseTopic_codec (version : Z) : Codec TxnOffsetCommitResponseTopic :=
  message 0 5 version (build mkTxnOffsetCommitResponseTopic
    ⊛ (field TxnOffsetCommitResponseTopic_name (if 3 <=? version then CompactString else KafkaString))
    ⊛ (field TxnOffsetCommitResponseTopic_partitions (if 3 <=? version then CompactArray (Struct
        TxnOffsetCommitResponsePartition_codec version) else Array (Struct
        TxnOffsetCommitResponsePartition_codec version)))
    ⊛ unknown_tags (3 <=? version) TxnOffsetCommitResponseTopic_unknown_tagged_fields).

Definition TxnOffsetCommitResponseTopic_valid (version : Z) (x : TxnOffsetCommitResponseTopic) : Prop :=
  utf8 (TxnOffsetCommitResponseTopic_name x) ∧
  Forall (TxnOffsetCommitResponsePartition_valid version) (TxnOffsetCommitResponseTopic_partitions x) ∧
  (if 3 <=? version then unknown_valid 0 (TxnOffsetCommitResponseTopic_unknown_tagged_fields x) else
      TxnOffsetCommitResponseTopic_unknown_tagged_fields x = ∅).

#[global] Instance TxnOffsetCommitResponseTopic_sound version : Sound (TxnOffsetCommitResponseTopic_codec
    version) (TxnOffsetCommitResponseTopic_valid version).
Proof. solve_message. Qed.

(* @ src/crates/kafka-protocol/src/messages/txn_offset_commit_response.rs 20-36 TxnOffsetCommitResponse *)
Record TxnOffsetCommitResponse : Type := mkTxnOffsetCommitResponse {
  TxnOffsetCommitResponse_throttle_time_ms : Z;
  TxnOffsetCommitResponse_topics : list TxnOffsetCommitResponseTopic;
  TxnOffsetCommitResponse_unknown_tagged_fields : TaggedFields
}.

(* @ src/crates/kafka-protocol/src/messages/txn_offset_commit_response.rs 150-158 TxnOffsetCommitResponse::default *)
Definition TxnOffsetCommitResponse_default : TxnOffsetCommitResponse := {|
  TxnOffsetCommitResponse_throttle_time_ms := 0;
  TxnOffsetCommitResponse_topics := [];
  TxnOffsetCommitResponse_unknown_tagged_fields := ∅
|}.

(* @ src/crates/kafka-protocol/src/messages/txn_offset_commit_response.rs 69-148 TxnOffsetCommitResponse::encode, compute_size, decode *)
Definition TxnOffsetCommitResponse_codec (version : Z) : Codec TxnOffsetCommitResponse :=
  message 0 5 version (build mkTxnOffsetCommitResponse
    ⊛ (field TxnOffsetCommitResponse_throttle_time_ms Int32)
    ⊛ (field TxnOffsetCommitResponse_topics (if 3 <=? version then CompactArray (Struct
        TxnOffsetCommitResponseTopic_codec version) else Array (Struct TxnOffsetCommitResponseTopic_codec
        version)))
    ⊛ unknown_tags (3 <=? version) TxnOffsetCommitResponse_unknown_tagged_fields).

Definition TxnOffsetCommitResponse_valid (version : Z) (x : TxnOffsetCommitResponse) : Prop :=
  in_signed 32 (TxnOffsetCommitResponse_throttle_time_ms x) ∧
  Forall (TxnOffsetCommitResponseTopic_valid version) (TxnOffsetCommitResponse_topics x) ∧
  (if 3 <=? version then unknown_valid 0 (TxnOffsetCommitResponse_unknown_tagged_fields x) else
      TxnOffsetCommitResponse_unknown_tagged_fields x = ∅).

#[global] Instance TxnOffsetCommitResponse_sound version : Sound (TxnOffsetCommitResponse_codec version)
    (TxnOffsetCommitResponse_valid version).
Proof. solve_message. Qed.

(* @ src/crates/kafka-protocol/src/messages/txn_offset_commit_response.rs 454-462 TxnOffsetCommitResponse::header_version *)
Definition TxnOffsetCommitResponse_header_version (version : Z) : Z := if 3 <=? version then 1 else 0.

(* @ src/crates/kafka-protocol/src/messages/txn_offset_commit_response.rs 160-163 TxnOffsetCommitResponse::VERSIONS *)
Definition TxnOffsetCommitResponse_VERSIONS : Z * Z := (0, 5).

(** ** [write_txn_markers_request] *)

(* @ src/crates/kafka-protocol/src/messages/write_txn_markers_request.rs 230-246 WritableTxnMarkerTopic *)
Record WritableTxnMarkerTopic : Type := mkWritableTxnMarkerTopic {
  WritableTxnMarkerTopic_name : list byte;
  WritableTxnMarkerTopic_partition_indexes : list Z;
  WritableTxnMarkerTopic_unknown_tagged_fields : TaggedFields
}.

(* @ src/crates/kafka-protocol/src/messages/write_txn_markers_request.rs 341-349 WritableTxnMarkerTopic::default *)
Definition WritableTxnMarkerTopic_default : WritableTxnMarkerTopic := {|
  WritableTxnMarkerTopic_name := [];
  WritableTxnMarkerTopic_partition_indexes := [];
  WritableTxnMarkerTopic_unknown_tagged_fields := ∅
|}.

(* @ src/crates/kafka-protocol/src/messages/write_txn_markers_request.rs 279-339 WritableTxnMarkerTopic::encode, compute_size, decode *)
Definition WritableTxnMarkerTopic_codec (version : Z) : Codec WritableTxnMarkerTopic :=
  message 1 2 version (build mkWritableTxnMarkerTopic
    ⊛ (field WritableTxnMarkerTopic_name CompactString)
    ⊛ (field WritableTxnMarkerTopic_partition_indexes (CompactArray Int32))
    ⊛ unknown_tags true WritableTxnMarkerTopic_unknown_tagged_fields).

Definition WritableTxnMarkerTopic_valid (version : Z) (x : WritableTxnMarkerTopic) : Prop :=
  utf8 (WritableTxnMarkerTopic_name x) ∧
  Forall (in_signed 32) (WritableTxnMarkerTopic_partition_indexes x) ∧
  unknown_valid 0 (WritableTxnMarkerTopic_unknown_tagged_fields x).

#[global] Instance WritableTxnMarkerTopic_sound version : Sound (WritableTxnMarkerTopic_codec version)
    (WritableTxnMarkerTopic_valid version).
Proof. solve_message. Qed.

(* @ src/crates/kafka-protocol/src/messages/write_txn_markers_request.rs 20-56 WritableTxnMarker *)
Record WritableTxnMarker : Type := mkWritableTxnMarker {
  WritableTxnMarker_producer_id : Z;
  WritableTxnMarker_producer_epoch : Z;
  WritableTxnMarker_transaction_result : bool;
  WritableTxnMarker_topics : list WritableTxnMarkerTopic;
  WritableTxnMarker_coordinator_epoch : Z;
  WritableTxnMarker_transaction_version : Z;
  WritableTxnMarker_unknown_tagged_fields : TaggedFields
}.

(* @ src/crates/kafka-protocol/src/messages/write_txn_markers_request.rs 211-223 WritableTxnMarker::default *)
Definition WritableTxnMarker_default : WritableTxnMarker := {|
  WritableTxnMarker_producer_id := 0;
  WritableTxnMarker_producer_epoch := 0;
  WritableTxnMarker_transaction_result := false;
  WritableTxnMarker_topics := [];
  WritableTxnMarker_coordinator_epoch := 0;
  WritableTxnMarker_transaction_version := 0;
  WritableTxnMarker_unknown_tagged_fields := ∅
|}.

(* @ src/crates/kafka-protocol/src/messages/write_txn_markers_request.rs 125-209 WritableTxnMarker::encode, compute_size, decode *)
Definition WritableTxnMarker_codec (version : Z) : Codec WritableTxnMarker :=
  message 1 2 version (build mkWritableTxnMarker
    ⊛ (field WritableTxnMarker_producer_id Int64)
    ⊛ (field WritableTxnMarker_producer_epoch Int16)
    ⊛ (field WritableTxnMarker_transaction_result Boolean)
    ⊛ (field WritableTxnMarker_topics (CompactArray (Struct WritableTxnMarkerTopic_codec version)))
    ⊛ (field WritableTxnMarker_coordinator_epoch Int32)
    ⊛ (if 2 <=? version then field WritableTxnMarker_transaction_version Int8 else ignored 0)
    ⊛ unknown_tags true WritableTxnMarker_unknown_tagged_fields).

Definition WritableTxnMarker_valid (version : Z) (x : WritableTxnMarker) : Prop :=
  in_signed 64 (WritableTxnMarker_producer_id x) ∧
  in_signed 16 (WritableTxnMarker_producer_epoch x) ∧
  Forall (WritableTxnMarkerTopic_valid version) (WritableTxnMarker_topics x) ∧
  in_signed 32 (WritableTxnMarker_coordinator_epoch x) ∧
  (if 2 <=? version then in_signed 8 (WritableTxnMarker_transaction_version x) else
      WritableTxnMarker_transaction_version x = 0) ∧
  unknown_valid 0 (WritableTxnMarker_unknown_tagged_fields x).

#[global] Instance WritableTxnMarker_sound version : Sound (WritableTxnMarker_codec version)
    (WritableTxnMarker_valid version).
Proof. solve_message. Qed.

(* @ src/crates/kafka-protocol/src/messages/write_txn_markers_request.rs 356-367 WriteTxnMarkersRequest *)
Record WriteTxnMarkersRequest : Type := mkWriteTxnMarkersRequest {
  WriteTxnMarkersRequest_markers : list WritableTxnMarker;
  WriteTxnMarkersRequest_unknown_tagged_fields : TaggedFields
}.

(* @ src/crates/kafka-protocol/src/messages/write_txn_markers_request.rs 449-456 WriteTxnMarkersRequest::default *)
Definition WriteTxnMarkersRequest_default : WriteTxnMarkersRequest := {|
  WriteTxnMarkersRequest_markers := [];
  WriteTxnMarkersRequest_unknown_tagged_fields := ∅
|}.

(* @ src/crates/kafka-protocol/src/messages/write_txn_markers_request.rs 391-447 WriteTxnMarkersRequest::encode, compute_size, decode *)
Definition WriteTxnMarkersRequest_codec (version : Z) : Codec WriteTxnMarkersRequest :=
  message 1 2 version (build mkWriteTxnMarkersRequest
    ⊛ (field WriteTxnMarkersRequest_markers (CompactArray (Struct WritableTxnMarker_codec version)))
    ⊛ unknown_tags true WriteTxnMarkersRequest_unknown_tagged_fields).

Definition WriteTxnMarkersRequest_valid (version : Z) (x : WriteTxnMarkersRequest) : Prop :=
  Forall (WritableTxnMarker_valid version) (WriteTxnMarkersRequest_markers x) ∧
  unknown_valid 0 (WriteTxnMarkersRequest_unknown_tagged_fields x).

#[global] Instance WriteTxnMarkersRequest_sound version : Sound (WriteTxnMarkersRequest_codec version)
    (WriteTxnMarkersRequest_valid version).
Proof. solve_message. Qed.

(* @ src/crates/kafka-protocol/src/messages/write_txn_markers_request.rs 463-467 WriteTxnMarkersRequest::header_version *)
Definition WriteTxnMarkersRequest_header_version (version : Z) : Z := 2.

(* @ src/crates/kafka-protocol/src/messages/write_txn_markers_request.rs 458-461 WriteTxnMarkersRequest::VERSIONS *)
Definition WriteTxnMarkersRequest_VERSIONS : Z * Z := (1, 2).

(** ** [write_txn_markers_response] *)

(* @ src/crates/kafka-protocol/src/messages/write_txn_markers_response.rs 20-36 WritableTxnMarkerPartitionResult *)
Record WritableTxnMarkerPartitionResult : Type := mkWritableTxnMarkerPartitionResult {
  WritableTxnMarkerPartitionResult_partition_index : Z;
  WritableTxnMarkerPartitionResult_error_code : Z;
  WritableTxnMarkerPartitionResult_unknown_tagged_fields : TaggedFields
}.

(* @ src/crates/kafka-protocol/src/messages/write_txn_markers_response.rs 131-139 WritableTxnMarkerPartitionResult::default *)
Definition WritableTxnMarkerPartitionResult_default : WritableTxnMarkerPartitionResult := {|
  WritableTxnMarkerPartitionResult_partition_index := 0;
  WritableTxnMarkerPartitionResult_error_code := 0;
  WritableTxnMarkerPartitionResult_unknown_tagged_fields := ∅
|}.

(* @ src/crates/kafka-protocol/src/messages/write_txn_markers_response.rs 69-129 WritableTxnMarkerPartitionResult::encode, compute_size, decode *)
Definition WritableTxnMarkerPartitionResult_codec (version : Z) : Codec WritableTxnMarkerPartitionResult :=
  message 1 2 version (build mkWritableTxnMarkerPartitionResult
    ⊛ (field WritableTxnMarkerPartitionResult_partition_index Int32)
    ⊛ (field WritableTxnMarkerPartitionResult_error_code Int16)
    ⊛ unknown_tags true WritableTxnMarkerPartitionResult_unknown_tagged_fields).

Definition WritableTxnMarkerPartitionResult_valid (version : Z) (x : WritableTxnMarkerPartitionResult) :
    Prop :=
  in_signed 32 (WritableTxnMarkerPartitionResult_partition_index x) ∧
  in_signed 16 (WritableTxnMarkerPartitionResult_error_code x) ∧
  unknown_valid 0 (WritableTxnMarkerPartitionResult_unknown_tagged_fields x).

#[global] Instance WritableTxnMarkerPartitionResult_sound version : Sound
    (WritableTxnMarkerPartitionResult_codec version) (WritableTxnMarkerPartitionResult_valid version).
Proof. solve_message. Qed.

(* @ src/crates/kafka-protocol/src/messages/write_txn_markers_response.rs 272-288 WritableTxnMarkerTopicResult *)
Record WritableTxnMarkerTopicResult : Type := mkWritableTxnMarkerTopicResult {
  WritableTxnMarkerTopicResult_name : list byte;
  WritableTxnMarkerTopicResult_partitions : list WritableTxnMarkerPartitionResult;
  WritableTxnMarkerTopicResult_unknown_tagged_fields : TaggedFields
}.

(* @ src/crates/kafka-protocol/src/messages/write_txn_markers_response.rs 384-392 WritableTxnMarkerTopicResult::default *)
Definition WritableTxnMarkerTopicResult_default : WritableTxnMarkerTopicResult := {|
  WritableTxnMarkerTopicResult_name := [];
  WritableTxnMarkerTopicResult_partitions := [];
  WritableTxnMarkerTopicResult_unknown_tagged_fields := ∅
|}.

(* @ src/crates/kafka-protocol/src/messages/write_txn_markers_response.rs 321-382 WritableTxnMarkerTopicResult::encode, compute_size, decode *)
Definition WritableTxnMarkerTopicResult_codec (version : Z) : Codec WritableTxnMarkerTopicResult :=
  message 1 2 version (build mkWritableTxnMarkerTopicResult
    ⊛ (field WritableTxnMarkerTopicResult_name CompactString)
    ⊛ (field WritableTxnMarkerTopicResult_partitions (CompactArray (Struct
        WritableTxnMarkerPartitionResult_codec version)))
    ⊛ unknown_tags true WritableTxnMarkerTopicResult_unknown_tagged_fields).

Definition WritableTxnMarkerTopicResult_valid (version : Z) (x : WritableTxnMarkerTopicResult) : Prop :=
  utf8 (WritableTxnMarkerTopicResult_name x) ∧
  Forall (WritableTxnMarkerPartitionResult_valid version) (WritableTxnMarkerTopicResult_partitions x) ∧
  unknown_valid 0 (WritableTxnMarkerTopicResult_unknown_tagged_fields x).

#[global] Instance WritableTxnMarkerTopicResult_sound version : Sound (WritableTxnMarkerTopicResult_codec
    version) (WritableTxnMarkerTopicResult_valid version).
Proof. solve_message. Qed.

(* @ src/crates/kafka-protocol/src/messages/write_txn_markers_response.rs 146-162 WritableTxnMarkerResult *)
Record WritableTxnMarkerResult : Type := mkWritableTxnMarkerResult {
  WritableTxnMarkerResult_producer_id : Z;
  WritableTxnMarkerResult_topics : list WritableTxnMarkerTopicResult;
  WritableTxnMarkerResult_unknown_tagged_fields : TaggedFields
}.

(* @ src/crates/kafka-protocol/src/messages/write_txn_markers_response.rs 257-265 WritableTxnMarkerResult::default *)
Definition WritableTxnMarkerResult_default : WritableTxnMarkerResult := {|
  WritableTxnMarkerResult_producer_id := 0;
  WritableTxnMarkerResult_topics := [];
  WritableTxnMarkerResult_unknown_tagged_fields := ∅
|}.

(* @ src/crates/kafka-protocol/src/messages/write_txn_markers_response.rs 195-255 WritableTxnMarkerResult::encode, compute_size, decode *)
Definition WritableTxnMarkerResult_codec (version : Z) : Codec WritableTxnMarkerResult :=
  message 1 2 version (build mkWritableTxnMarkerResult
    ⊛ (field WritableTxnMarkerResult_producer_id Int64)
    ⊛ (field WritableTxnMarkerResult_topics (CompactArray (Struct WritableTxnMarkerTopicResult_codec
        version)))
    ⊛ unknown_tags true WritableTxnMarkerResult_unknown_tagged_fields).

Definition WritableTxnMarkerResult_valid (version : Z) (x : WritableTxnMarkerResult) : Prop :=
  in_signed 64 (WritableTxnMarkerResult_producer_id x) ∧
  Forall (WritableTxnMarkerTopicResult_valid version) (WritableTxnMarkerResult_topics x) ∧
  unknown_valid 0 (WritableTxnMarkerResult_unknown_tagged_fields x).

#[global] Instance WritableTxnMarkerResult_sound version : Sound (WritableTxnMarkerResult_codec version)
    (WritableTxnMarkerResult_valid version).
Proof. solve_message. Qed.

(* @ src/crates/kafka-protocol/src/messages/write_txn_markers_response.rs 399-410 WriteTxnMarkersResponse *)
Record WriteTxnMarkersResponse : Type := mkWriteTxnMarkersResponse {
  WriteTxnMarkersResponse_markers : list WritableTxnMarkerResult;
  WriteTxnMarkersResponse_unknown_tagged_fields : TaggedFields
}.

(* @ src/crates/kafka-protocol/src/messages/write_txn_markers_response.rs 492-499 WriteTxnMarkersResponse::default *)
Definition WriteTxnMarkersResponse_default : WriteTxnMarkersResponse := {|
  WriteTxnMarkersResponse_markers := [];
  WriteTxnMarkersResponse_unknown_tagged_fields := ∅
|}.

(* @ src/crates/kafka-protocol/src/messages/write_txn_markers_response.rs 434-490 WriteTxnMarkersResponse::encode, compute_size, decode *)
Definition WriteTxnMarkersResponse_codec (version : Z) : Codec WriteTxnMarkersResponse :=
  message 1 2 version (build mkWriteTxnMarkersResponse
    ⊛ (field WriteTxnMarkersResponse_markers (CompactArray (Struct WritableTxnMarkerResult_codec version)))
    ⊛ unknown_tags true WriteTxnMarkersResponse_unknown_tagged_fields).

Definition WriteTxnMarkersResponse_valid (version : Z) (x : WriteTxnMarkersResponse) : Prop :=
  Forall (WritableTxnMarkerResult_valid version) (WriteTxnMarkersResponse_markers x) ∧
  unknown_valid 0 (WriteTxnMarkersResponse_unknown_tagged_fields x).

#[global] Instance WriteTxnMarkersResponse_sound version : Sound (WriteTxnMarkersResponse_codec version)
    (WriteTxnMarkersResponse_valid version).
Proof. solve_message. Qed.

(* @ src/crates/kafka-protocol/src/messages/write_txn_markers_response.rs 506-510 WriteTxnMarkersResponse::header_version *)
Definition WriteTxnMarkersResponse_header_version (version : Z) : Z := 1.

(* @ src/crates/kafka-protocol/src/messages/write_txn_markers_response.rs 501-504 WriteTxnMarkersResponse::VERSIONS *)
Definition WriteTxnMarkersResponse_VERSIONS : Z * Z := (1, 2).
