(* ===== verification/MessagesSecurity.v ===== *)
(** * The messages of authentication and authorization

    [src/crates/kafka-protocol/src/messages/]: one block per structure of the
    generated modules listed below, in the order of their files.  A block is the
    structure, its [Default], its codec in the style of [MessageCodec] (the
    branches on [version] are those of [encode], [compute_size] and [decode]),
    what makes a value expressible in a version ([_valid]: the fields are values
    of their Rust types, a field the version silently drops has its default, and
    unknown tags are not those of known fields), and the proof that the codec is
    sound.  A structure whose name several modules share carries the name of its
    message.

    alter_user_scram_credentials_request,
    alter_user_scram_credentials_response, create_acls_request,
    create_acls_response, create_delegation_token_request,
    create_delegation_token_response, default_principal_data,
    delete_acls_request, delete_acls_response, describe_acls_request,
    describe_acls_response, describe_delegation_token_request,
    describe_delegation_token_response,
    describe_user_scram_credentials_request,
    describe_user_scram_credentials_response,
    expire_delegation_token_request, expire_delegation_token_response,
    renew_delegation_token_request, renew_delegation_token_response,
    sasl_authenticate_request, sasl_authenticate_response,
    sasl_handshake_request, sasl_handshake_response. *)

From S2P Require Import Prelude Buf Types MessageCodec.
Open Scope Z_scope.

(** ** [alter_user_scram_credentials_request] *)

(* @ src/crates/kafka-protocol/src/messages/alter_user_scram_credentials_request.rs 148-164 ScramCredentialDeletion *)
Record ScramCredentialDeletion : Type := mkScramCredentialDeletion {
  ScramCredentialDeletion_name : list byte;
  ScramCredentialDeletion_mechanism : Z;
  ScramCredentialDeletion_unknown_tagged_fields : TaggedFields
}.

(* @ src/crates/kafka-protocol/src/messages/alter_user_scram_credentials_request.rs 259-267 ScramCredentialDeletion::default *)
Definition ScramCredentialDeletion_default : ScramCredentialDeletion := {|
  ScramCredentialDeletion_name := [];
  ScramCredentialDeletion_mechanism := 0;
  ScramCredentialDeletion_unknown_tagged_fields := ∅
|}.

(* @ src/crates/kafka-protocol/src/messages/alter_user_scram_credentials_request.rs 197-257 ScramCredentialDeletion::encode, compute_size, decode *)
Definition ScramCredentialDeletion_codec (version : Z) : Codec ScramCredentialDeletion :=
  message 0 0 version (build mkScramCredentialDeletion
    ⊛ (field ScramCredentialDeletion_name CompactString)
    ⊛ (field ScramCredentialDeletion_mechanism Int8)
    ⊛ unknown_tags true ScramCredentialDeletion_unknown_tagged_fields).

Definition ScramCredentialDeletion_valid (version : Z) (x : ScramCredentialDeletion) : Prop :=
  utf8 (ScramCredentialDeletion_name x) ∧
  in_signed 8 (ScramCredentialDeletion_mechanism x) ∧
  unknown_valid 0 (ScramCredentialDeletion_unknown_tagged_fields x).

#[global] Instance ScramCredentialDeletion_sound version : Sound (ScramCredentialDeletion_codec version)
    (ScramCredentialDeletion_valid version).
Proof. solve_message. Qed.

(* @ src/crates/kafka-protocol/src/messages/alter_user_scram_credentials_request.rs 274-305 ScramCredentialUpsertion *)
Record ScramCredentialUpsertion : Type := mkScramCredentialUpsertion {
  ScramCredentialUpsertion_name : list byte;
  ScramCredentialUpsertion_mechanism : Z;
  ScramCredentialUpsertion_iterations : Z;
  ScramCredentialUpsertion_salt : list byte;
  ScramCredentialUpsertion_salted_password : list byte;
  ScramCredentialUpsertion_unknown_tagged_fields : TaggedFields
}.

(* @ src/crates/kafka-protocol/src/messages/alter_user_scram_credentials_request.rs 439-450 ScramCredentialUpsertion::default *)
Definition ScramCredentialUpsertion_default : ScramCredentialUpsertion := {|
  ScramCredentialUpsertion_name := [];
  ScramCredentialUpsertion_mechanism := 0;
  ScramCredentialUpsertion_iterations := 0;
  ScramCredentialUpsertion_salt := [];
  ScramCredentialUpsertion_salted_password := [];
  ScramCredentialUpsertion_unknown_tagged_fields := ∅
|}.

(* @ src/crates/kafka-protocol/src/messages/alter_user_scram_credentials_request.rs 365-437 ScramCredentialUpsertion::encode, compute_size, decode *)
Definition ScramCredentialUpsertion_codec (version : Z) : Codec ScramCredentialUpsertion :=
  message 0 0 version (build mkScramCredentialUpsertion
    ⊛ (field ScramCredentialUpsertion_name CompactString)
    ⊛ (field ScramCredentialUpsertion_mechanism Int8)
    ⊛ (field ScramCredentialUpsertion_iterations Int32)
    ⊛ (field ScramCredentialUpsertion_salt CompactBytes)
    ⊛ (field ScramCredentialUpsertion_salted_password CompactBytes)
    ⊛ unknown_tags true ScramCredentialUpsertion_unknown_tagged_fields).

Definition ScramCredentialUpsertion_valid (version : Z) (x : ScramCredentialUpsertion) : Prop :=
  utf8 (ScramCredentialUpsertion_name x) ∧
  in_signed 8 (ScramCredentialUpsertion_mechanism x) ∧
  in_signed 32 (ScramCredentialUpsertion_iterations x) ∧
  unknown_valid 0 (ScramCredentialUpsertion_unknown_tagged_fields x).

#[global] Instance ScramCredentialUpsertion_sound version : Sound (ScramCredentialUpsertion_codec version)
    (ScramCredentialUpsertion_valid version).
Proof. solve_message. Qed.

(* @ src/crates/kafka-protocol/src/messages/alter_user_scram_credentials_request.rs 20-36 AlterUserScramCredentialsRequest *)
Record AlterUserScramCredentialsRequest : Type := mkAlterUserScramCredentialsRequest {
  AlterUserScramCredentialsRequest_deletions : list ScramCredentialDeletion;
  AlterUserScramCredentialsRequest_upsertions : list ScramCredentialUpsertion;
  AlterUserScramCredentialsRequest_unknown_tagged_fields : TaggedFields
}.

(* @ src/crates/kafka-protocol/src/messages/alter_user_scram_credentials_request.rs 133-141 AlterUserScramCredentialsRequest::default *)
Definition AlterUserScramCredentialsRequest_default : AlterUserScramCredentialsRequest := {|
  AlterUserScramCredentialsRequest_deletions := [];
  AlterUserScramCredentialsRequest_upsertions := [];
  AlterUserScramCredentialsRequest_unknown_tagged_fields := ∅
|}.

(* @ src/crates/kafka-protocol/src/messages/alter_user_scram_credentials_request.rs 69-131 AlterUserScramCredentialsRequest::encode, compute_size, decode *)
Definition AlterUserScramCredentialsRequest_codec (version : Z) : Codec AlterUserScramCredentialsRequest :=
  message 0 0 version (build mkAlterUserScramCredentialsRequest
    ⊛ (field AlterUserScramCredentialsRequest_deletions (CompactArray (Struct ScramCredentialDeletion_codec
        version)))
    ⊛ (field AlterUserScramCredentialsRequest_upsertions (CompactArray (Struct
        ScramCredentialUpsertion_codec version)))
    ⊛ unknown_tags true AlterUserScramCredentialsRequest_unknown_tagged_fields).

Definition AlterUserScramCredentialsRequest_valid (version : Z) (x : AlterUserScramCredentialsRequest) :
    Prop :=
  Forall (ScramCredentialDeletion_valid version) (AlterUserScramCredentialsRequest_deletions x) ∧
  Forall (ScramCredentialUpsertion_valid version) (AlterUserScramCredentialsRequest_upsertions x) ∧
  unknown_valid 0 (AlterUserScramCredentialsRequest_unknown_tagged_fields x).

#[global] Instance AlterUserScramCredentialsRequest_sound version : Sound
    (AlterUserScramCredentialsRequest_codec version) (AlterUserScramCredentialsRequest_valid version).
Proof. solve_message. Qed.

(* @ src/crates/kafka-protocol/src/messages/alter_user_scram_credentials_request.rs 457-461 AlterUserScramCredentialsRequest::header_version *)
Definition AlterUserScramCredentialsRequest_header_version (version : Z) : Z := 2.

(* @ src/crates/kafka-protocol/src/messages/alter_user_scram_credentials_request.rs 143-146 AlterUserScramCredentialsRequest::VERSIONS *)
Definition AlterUserScramCredentialsRequest_VERSIONS : Z * Z := (0, 0).

(** ** [alter_user_scram_credentials_response] *)

(* @ src/crates/kafka-protocol/src/messages/alter_user_scram_credentials_response.rs 146-167 AlterUserScramCredentialsResult *)
Record AlterUserScramCredentialsResult : Type := mkAlterUserScramCredentialsResult {
  AlterUserScramCredentialsResult_user : list byte;
  AlterUserScramCredentialsResult_error_code : Z;
  AlterUserScramCredentialsResult_error_message : option (list byte);
  AlterUserScramCredentialsResult_unknown_tagged_fields : TaggedFields
}.

(* @ src/crates/kafka-protocol/src/messages/alter_user_scram_credentials_response.rs 275-284 AlterUserScramCredentialsResult::default *)
Definition AlterUserScramCredentialsResult_default : AlterUserScramCredentialsResult := {|
  AlterUserScramCredentialsResult_user := [];
  AlterUserScramCredentialsResult_error_code := 0;
  AlterUserScramCredentialsResult_error_message := Some [];
  AlterUserScramCredentialsResult_unknown_tagged_fields := ∅
|}.

(* @ src/crates/kafka-protocol/src/messages/alter_user_scram_credentials_response.rs 209-273 AlterUserScramCredentialsResult::encode, compute_size, decode *)
Definition AlterUserScramCredentialsResult_codec (version : Z) : Codec AlterUserScramCredentialsResult :=
  message 0 0 version (build mkAlterUserScramCredentialsResult
    ⊛ (field AlterUserScramCredentialsResult_user CompactString)
    ⊛ (field AlterUserScramCredentialsResult_error_code Int16)
    ⊛ (field AlterUserScramCredentialsResult_error_message NullableCompactString)
    ⊛ unknown_tags true AlterUserScramCredentialsResult_unknown_tagged_fields).

Definition AlterUserScramCredentialsResult_valid (version : Z) (x : AlterUserScramCredentialsResult) : Prop
    :=
  utf8 (AlterUserScramCredentialsResult_user x) ∧
  in_signed 16 (AlterUserScramCredentialsResult_error_code x) ∧
  opt_all utf8 (AlterUserScramCredentialsResult_error_message x) ∧
  unknown_valid 0 (AlterUserScramCredentialsResult_unknown_tagged_fields x).

#[global] Instance AlterUserScramCredentialsResult_sound version : Sound
    (AlterUserScramCredentialsResult_codec version) (AlterUserScramCredentialsResult_valid version).
Proof. solve_message. Qed.

(* @ src/crates/kafka-protocol/src/messages/alter_user_scram_credentials_response.rs 20-36 AlterUserScramCredentialsResponse *)
Record AlterUserScramCredentialsResponse : Type := mkAlterUserScramCredentialsResponse {
  AlterUserScramCredentialsResponse_throttle_time_ms : Z;
  AlterUserScramCredentialsResponse_results : list AlterUserScramCredentialsResult;
  AlterUserScramCredentialsResponse_unknown_tagged_fields : TaggedFields
}.

(* @ src/crates/kafka-protocol/src/messages/alter_user_scram_credentials_response.rs 131-139 AlterUserScramCredentialsResponse::default *)
Definition AlterUserScramCredentialsResponse_default : AlterUserScramCredentialsResponse := {|
  AlterUserScramCredentialsResponse_throttle_time_ms := 0;
  AlterUserScramCredentialsResponse_results := [];
  AlterUserScramCredentialsResponse_unknown_tagged_fields := ∅
|}.

(* @ src/crates/kafka-protocol/src/messages/alter_user_scram_credentials_response.rs 69-129 AlterUserScramCredentialsResponse::encode, compute_size, decode *)
Definition AlterUserScramCredentialsResponse_codec (version : Z) : Codec AlterUserScramCredentialsResponse
    :=
  message 0 0 version (build mkAlterUserScramCredentialsResponse
    ⊛ (field AlterUserScramCredentialsResponse_throttle_time_ms Int32)
    ⊛ (field AlterUserScramCredentialsResponse_results (CompactArray (Struct
        AlterUserScramCredentialsResult_codec version)))
    ⊛ unknown_tags true AlterUserScramCredentialsResponse_unknown_tagged_fields).

Definition AlterUserScramCredentialsResponse_valid (version : Z) (x : AlterUserScramCredentialsResponse) :
    Prop :=
  in_signed 32 (AlterUserScramCredentialsResponse_throttle_time_ms x) ∧
  Forall (AlterUserScramCredentialsResult_valid version) (AlterUserScramCredentialsResponse_results x) ∧
  unknown_valid 0 (AlterUserScramCredentialsResponse_unknown_tagged_fields x).

#[global] Instance AlterUserScramCredentialsResponse_sound version : Sound
    (AlterUserScramCredentialsResponse_codec version) (AlterUserScramCredentialsResponse_valid version).
Proof. solve_message. Qed.

(* @ src/crates/kafka-protocol/src/messages/alter_user_scram_credentials_response.rs 291-295 AlterUserScramCredentialsResponse::header_version *)
Definition AlterUserScramCredentialsResponse_header_version (version : Z) : Z := 1.

(* @ src/crates/kafka-protocol/src/messages/alter_user_scram_credentials_response.rs 141-144 AlterUserScramCredentialsResponse::VERSIONS *)
Definition AlterUserScramCredentialsResponse_VERSIONS : Z * Z := (0, 0).

(** ** [create_acls_request] *)

(* @ src/crates/kafka-protocol/src/messages/create_acls_request.rs 20-61 AclCreation *)
Record AclCreation : Type := mkAclCreation {
  AclCreation_resource_type : Z;
  AclCreation_resource_name : list byte;
  AclCreation_resource_pattern_type : Z;
  AclCreation_principal : list byte;
  AclCreation_host : list byte;
  AclCreation_operation : Z;
  AclCreation_permission_type : Z;
  AclCreation_unknown_tagged_fields : TaggedFields
}.

(* @ src/crates/kafka-protocol/src/messages/create_acls_request.rs 263-276 AclCreation::default *)
Definition AclCreation_default : AclCreation := {|
  AclCreation_resource_type := 0;
  AclCreation_resource_name := [];
  AclCreation_resource_pattern_type := 3;
  AclCreation_principal := [];
  AclCreation_host := [];
  AclCreation_operation := 0;
  AclCreation_permission_type := 0;
  AclCreation_unknown_tagged_fields := ∅
|}.

(* @ src/crates/kafka-protocol/src/messages/create_acls_request.rs 139-261 AclCreation::encode, compute_size, decode *)
Definition AclCreation_codec (version : Z) : Codec AclCreation :=
  message 1 3 version (build mkAclCreation
    ⊛ (field AclCreation_resource_type Int8)
    ⊛ (field AclCreation_resource_name (if 2 <=? version then CompactString else KafkaString))
    ⊛ (field AclCreation_resource_pattern_type Int8)
    ⊛ (field AclCreation_principal (if 2 <=? version then CompactString else KafkaString))
    ⊛ (field AclCreation_host (if 2 <=? version then CompactString else KafkaString))
    ⊛ (field AclCreation_operation Int8)
    ⊛ (field AclCreation_permission_type Int8)
    ⊛ unknown_tags (2 <=? version) AclCreation_unknown_tagged_fields).

Definition AclCreation_valid (version : Z) (x : AclCreation) : Prop :=
  in_signed 8 (AclCreation_resource_type x) ∧
  utf8 (AclCreation_resource_name x) ∧
  in_signed 8 (AclCreation_resource_pattern_type x) ∧
  utf8 (AclCreation_principal x) ∧
  utf8 (AclCreation_host x) ∧
  in_signed 8 (AclCreation_operation x) ∧
  in_signed 8 (AclCreation_permission_type x) ∧
  (if 2 <=? version then unknown_valid 0 (AclCreation_unknown_tagged_fields x) else
      AclCreation_unknown_tagged_fields x = ∅).

#[global] Instance AclCreation_sound version : Sound (AclCreation_codec version) (AclCreation_valid
    version).
Proof. solve_message. Qed.

(* @ src/crates/kafka-protocol/src/messages/create_acls_request.rs 283-294 CreateAclsRequest *)
Record CreateAclsRequest : Type := mkCreateAclsRequest {
  CreateAclsRequest_creations : list AclCreation;
  CreateAclsRequest_unknown_tagged_fields : TaggedFields
}.

(* @ src/crates/kafka-protocol/src/messages/create_acls_request.rs 395-402 CreateAclsRequest::default *)
Definition CreateAclsRequest_default : CreateAclsRequest := {|
  CreateAclsRequest_creations := [];
  CreateAclsRequest_unknown_tagged_fields := ∅
|}.

(* @ src/crates/kafka-protocol/src/messages/create_acls_request.rs 318-393 CreateAclsRequest::encode, compute_size, decode *)
Definition CreateAclsRequest_codec (version : Z) : Codec CreateAclsRequest :=
  message 1 3 version (build mkCreateAclsRequest
    ⊛ (field CreateAclsRequest_creations (if 2 <=? version then CompactArray (Struct AclCreation_codec
        version) else Array (Struct AclCreation_codec version)))
    ⊛ unknown_tags (2 <=? version) CreateAclsRequest_unknown_tagged_fields).

Definition CreateAclsRequest_valid (version : Z) (x : CreateAclsRequest) : Prop :=
  Forall (AclCreation_valid version) (CreateAclsRequest_creations x) ∧
  (if 2 <=? version then unknown_valid 0 (CreateAclsRequest_unknown_tagged_fields x) else
      CreateAclsRequest_unknown_tagged_fields x = ∅).

#[global] Instance CreateAclsRequest_sound version : Sound (CreateAclsRequest_codec version)
    (CreateAclsRequest_valid version).
Proof. solve_message. Qed.

(* @ src/crates/kafka-protocol/src/messages/create_acls_request.rs 409-417 CreateAclsRequest::header_version *)
Definition CreateAclsRequest_header_version (version : Z) : Z := if 2 <=? version then 2 else 1.

(* @ src/crates/kafka-protocol/src/messages/create_acls_request.rs 404-407 CreateAclsRequest::VERSIONS *)
Definition CreateAclsRequest_VERSIONS : Z * Z := (1, 3).

(** ** [create_acls_response] *)

(* @ src/crates/kafka-protocol/src/messages/create_acls_response.rs 20-36 AclCreationResult *)
Record AclCreationResult : Type := mkAclCreationResult {
  AclCreationResult_error_code : Z;
  AclCreationResult_error_message : option (list byte);
  AclCreationResult_unknown_tagged_fields : TaggedFields
}.

(* @ src/crates/kafka-protocol/src/messages/create_acls_response.rs 149-157 AclCreationResult::default *)
Definition AclCreationResult_default : AclCreationResult := {|
  AclCreationResult_error_code := 0;
  AclCreationResult_error_message := Some [];
  AclCreationResult_unknown_tagged_fields := ∅
|}.

(* @ src/crates/kafka-protocol/src/messages/create_acls_response.rs 69-147 AclCreationResult::encode, compute_size, decode *)
Definition AclCreationResult_codec (version : Z) : Codec AclCreationResult :=
  message 1 3 version (build mkAclCreationResult
    ⊛ (field AclCreationResult_error_code Int16)
    ⊛ (field AclCreationResult_error_message (if 2 <=? version then NullableCompactString else
        NullableString))
    ⊛ unknown_tags (2 <=? version) AclCreationResult_unknown_tagged_fields).

Definition AclCreationResult_valid (version : Z) (x : AclCreationResult) : Prop :=
  in_signed 16 (AclCreationResult_error_code x) ∧
  opt_all utf8 (AclCreationResult_error_message x) ∧
  (if 2 <=? version then unknown_valid 0 (AclCreationResult_unknown_tagged_fields x) else
      AclCreationResult_unknown_tagged_fields x = ∅).

#[global] Instance AclCreationResult_sound version : Sound (AclCreationResult_codec version)
    (AclCreationResult_valid version).
Proof. solve_message. Qed.

(* @ src/crates/kafka-protocol/src/messages/create_acls_response.rs 164-180 CreateAclsResponse *)
Record CreateAclsResponse : Type := mkCreateAclsResponse {
  CreateAclsResponse_throttle_time_ms : Z;
  CreateAclsResponse_results : list AclCreationResult;
  CreateAclsResponse_unknown_tagged_fields : TaggedFields
}.

(* @ src/crates/kafka-protocol/src/messages/create_acls_response.rs 294-302 CreateAclsResponse::default *)
Definition CreateAclsResponse_default : CreateAclsResponse := {|
  CreateAclsResponse_throttle_time_ms := 0;
  CreateAclsResponse_results := [];
  CreateAclsResponse_unknown_tagged_fields := ∅
|}.

(* @ src/crates/kafka-protocol/src/messages/create_acls_response.rs 213-292 CreateAclsResponse::encode, compute_size, decode *)
Definition CreateAclsResponse_codec (version : Z) : Codec CreateAclsResponse :=
  message 1 3 version (build mkCreateAclsResponse
    ⊛ (field CreateAclsResponse_throttle_time_ms Int32)
    ⊛ (field CreateAclsResponse_results (if 2 <=? version then CompactArray (Struct AclCreationResult_codec
        version) else Array (Struct AclCreationResult_codec version)))
    ⊛ unknown_tags (2 <=? version) CreateAclsResponse_unknown_tagged_fields).

Definition CreateAclsResponse_valid (version : Z) (x : CreateAclsResponse) : Prop :=
  in_signed 32 (CreateAclsResponse_throttle_time_ms x) ∧
  Forall (AclCreationResult_valid version) (CreateAclsResponse_results x) ∧
  (if 2 <=? version then unknown_valid 0 (CreateAclsResponse_unknown_tagged_fields x) else
      CreateAclsResponse_unknown_tagged_fields x = ∅).

#[global] Instance CreateAclsResponse_sound version : Sound (CreateAclsResponse_codec version)
    (CreateAclsResponse_valid version).
Proof. solve_message. Qed.

(* @ src/crates/kafka-protocol/src/messages/create_acls_response.rs 309-317 CreateAclsResponse::header_version *)
Definition CreateAclsResponse_header_version (version : Z) : Z := if 2 <=? version then 1 else 0.

(* @ src/crates/kafka-protocol/src/messages/create_acls_response.rs 304-307 CreateAclsResponse::VERSIONS *)
Definition CreateAclsResponse_VERSIONS : Z * Z := (1, 3).

(** ** [create_delegation_token_request] *)

(* @ src/crates/kafka-protocol/src/messages/create_delegation_token_request.rs 20-36 CreatableRenewers *)
Record CreatableRenewers : Type := mkCreatableRenewers {
  CreatableRenewers_principal_type : list byte;
  CreatableRenewers_principal_name : list byte;
  CreatableRenewers_unknown_tagged_fields : TaggedFields
}.

(* @ src/crates/kafka-protocol/src/messages/create_delegation_token_request.rs 161-169 CreatableRenewers::default *)
Definition CreatableRenewers_default : CreatableRenewers := {|
  CreatableRenewers_principal_type := [];
  CreatableRenewers_principal_name := [];
  CreatableRenewers_unknown_tagged_fields := ∅
|}.

(* @ src/crates/kafka-protocol/src/messages/create_delegation_token_request.rs 69-159 CreatableRenewers::encode, compute_size, decode *)
Definition CreatableRenewers_codec (version : Z) : Codec CreatableRenewers :=
  message 1 3 version (build mkCreatableRenewers
    ⊛ (field CreatableRenewers_principal_type (if 2 <=? version then CompactString else KafkaString))
    ⊛ (field CreatableRenewers_principal_name (if 2 <=? version then CompactString else KafkaString))
    ⊛ unknown_tags (2 <=? version) CreatableRenewers_unknown_tagged_fields).

Definition CreatableRenewers_valid (version : Z) (x : CreatableRenewers) : Prop :=
  utf8 (CreatableRenewers_principal_type x) ∧
  utf8 (CreatableRenewers_principal_name x) ∧
  (if 2 <=? version then unknown_valid 0 (CreatableRenewers_unknown_tagged_fields x) else
      CreatableRenewers_unknown_tagged_fields x = ∅).

#[global] Instance CreatableRenewers_sound version : Sound (CreatableRenewers_codec version)
    (CreatableRenewers_valid version).
Proof. solve_message. Qed.

(* @ src/crates/kafka-protocol/src/messages/create_delegation_token_request.rs 176-202 CreateDelegationTokenRequest *)
Record CreateDelegationTokenRequest : Type := mkCreateDelegationTokenRequest {
  CreateDelegationTokenRequest_owner_principal_type : option (list byte);
  CreateDelegationTokenRequest_owner_principal_name : option (list byte);
  CreateDelegationTokenRequest_renewers : list CreatableRenewers;
  CreateDelegationTokenRequest_max_lifetime_ms : Z;
  CreateDelegationTokenRequest_unknown_tagged_fields : TaggedFields
}.

(* @ src/crates/kafka-protocol/src/messages/create_delegation_token_request.rs 394-404 CreateDelegationTokenRequest::default *)
Definition CreateDelegationTokenRequest_default : CreateDelegationTokenRequest := {|
  CreateDelegationTokenRequest_owner_principal_type := Some [];
  CreateDelegationTokenRequest_owner_principal_name := Some [];
  CreateDelegationTokenRequest_renewers := [];
  CreateDelegationTokenRequest_max_lifetime_ms := 0;
  CreateDelegationTokenRequest_unknown_tagged_fields := ∅
|}.

(* @ src/crates/kafka-protocol/src/messages/create_delegation_token_request.rs 253-392 CreateDelegationTokenRequest::encode, compute_size, decode *)
Definition CreateDelegationTokenRequest_codec (version : Z) : Codec CreateDelegationTokenRequest :=
  message 1 3 version (build mkCreateDelegationTokenRequest
    ⊛ (if 3 <=? version then field CreateDelegationTokenRequest_owner_principal_type NullableCompactString
        else unset CreateDelegationTokenRequest_owner_principal_type is_some_empty (Some []))
    ⊛ (if 3 <=? version then field CreateDelegationTokenRequest_owner_principal_name NullableCompactString
        else unset CreateDelegationTokenRequest_owner_principal_name is_some_empty (Some []))
    ⊛ (field CreateDelegationTokenRequest_renewers (if 2 <=? version then CompactArray (Struct
        CreatableRenewers_codec version) else Array (Struct CreatableRenewers_codec version)))
    ⊛ (field CreateDelegationTokenRequest_max_lifetime_ms Int64)
    ⊛ unknown_tags (2 <=? version) CreateDelegationTokenRequest_unknown_tagged_fields).

Definition CreateDelegationTokenRequest_valid (version : Z) (x : CreateDelegationTokenRequest) : Prop :=
  opt_all utf8 (CreateDelegationTokenRequest_owner_principal_type x) ∧
  opt_all utf8 (CreateDelegationTokenRequest_owner_principal_name x) ∧
  Forall (CreatableRenewers_valid version) (CreateDelegationTokenRequest_renewers x) ∧
  in_signed 64 (CreateDelegationTokenRequest_max_lifetime_ms x) ∧
  (if 2 <=? version then unknown_valid 0 (CreateDelegationTokenRequest_unknown_tagged_fields x) else
      CreateDelegationTokenRequest_unknown_tagged_fields x = ∅).

#[global] Instance CreateDelegationTokenRequest_sound version : Sound (CreateDelegationTokenRequest_codec
    version) (CreateDelegationTokenRequest_valid version).
Proof. solve_message. Qed.

(* @ src/crates/kafka-protocol/src/messages/create_delegation_token_request.rs 411-419 CreateDelegationTokenRequest::header_version *)
Definition CreateDelegationTokenRequest_header_version (version : Z) : Z := if 2 <=? version then 2 else 1.

(* @ src/crates/kafka-protocol/src/messages/create_delegation_token_request.rs 406-409 CreateDelegationTokenRequest::VERSIONS *)
Definition CreateDelegationTokenRequest_VERSIONS : Z * Z := (1, 3).

(** ** [create_delegation_token_response] *)

(* @ src/crates/kafka-protocol/src/messages/create_delegation_token_response.rs 20-81 CreateDelegationTokenResponse *)
Record CreateDelegationTokenResponse : Type := mkCreateDelegationTokenResponse {
  CreateDelegationTokenResponse_error_code : Z;
  CreateDelegationTokenResponse_principal_type : list byte;
  CreateDelegationTokenResponse_principal_name : list byte;
  CreateDelegationTokenResponse_token_requester_principal_type : list byte;
  CreateDelegationTokenResponse_token_requester_principal_name : list byte;
  CreateDelegationTokenResponse_issue_timestamp_ms : Z;
  CreateDelegationTokenResponse_expiry_timestamp_ms : Z;
  CreateDelegationTokenResponse_max_timestamp_ms : Z;
  CreateDelegationTokenResponse_token_id : list byte;
  CreateDelegationTokenResponse_hmac : list byte;
  CreateDelegationTokenResponse_throttle_time_ms : Z;
  CreateDelegationTokenResponse_unknown_tagged_fields : TaggedFields
}.

(* @ src/crates/kafka-protocol/src/messages/create_delegation_token_response.rs 381-398 CreateDelegationTokenResponse::default *)
Definition CreateDelegationTokenResponse_default : CreateDelegationTokenResponse := {|
  CreateDelegationTokenResponse_error_code := 0;
  CreateDelegationTokenResponse_principal_type := [];
  CreateDelegationTokenResponse_principal_name := [];
  CreateDelegationTokenResponse_token_requester_principal_type := [];
  CreateDelegationTokenResponse_token_requester_principal_name := [];
  CreateDelegationTokenResponse_issue_timestamp_ms := 0;
  CreateDelegationTokenResponse_expiry_timestamp_ms := 0;
  CreateDelegationTokenResponse_max_timestamp_ms := 0;
  CreateDelegationTokenResponse_token_id := [];
  CreateDelegationTokenResponse_hmac := [];
  CreateDelegationTokenResponse_throttle_time_ms := 0;
  CreateDelegationTokenResponse_unknown_tagged_fields := ∅
|}.

(* @ src/crates/kafka-protocol/src/messages/create_delegation_token_response.rs 195-379 CreateDelegationTokenResponse::encode, compute_size, decode *)
Definition CreateDelegationTokenResponse_codec (version : Z) : Codec CreateDelegationTokenResponse :=
  message 1 3 version (build mkCreateDelegationTokenResponse
    ⊛ (field CreateDelegationTokenResponse_error_code Int16)
    ⊛ (field CreateDelegationTokenResponse_principal_type (if 2 <=? version then CompactString else
        KafkaString))
    ⊛ (field CreateDelegationTokenResponse_principal_name (if 2 <=? version then CompactString else
        KafkaString))
    ⊛ (if 3 <=? version then field CreateDelegationTokenResponse_token_requester_principal_type
        CompactString else unset CreateDelegationTokenResponse_token_requester_principal_type is_empty [])
    ⊛ (if 3 <=? version then field CreateDelegationTokenResponse_token_requester_principal_name
        CompactString else unset CreateDelegationTokenResponse_token_requester_principal_name is_empty [])
    ⊛ (field CreateDelegationTokenResponse_issue_timestamp_ms Int64)
    ⊛ (field CreateDelegationTokenResponse_expiry_timestamp_ms Int64)
    ⊛ (field CreateDelegationTokenResponse_max_timestamp_ms Int64)
    ⊛ (field CreateDelegationTokenResponse_token_id (if 2 <=? version then CompactString else KafkaString))
    ⊛ (field CreateDelegationTokenResponse_hmac (if 2 <=? version then CompactBytes else Bytes))
    ⊛ (field CreateDelegationTokenResponse_throttle_time_ms Int32)
    ⊛ unknown_tags (2 <=? version) CreateDelegationTokenResponse_unknown_tagged_fields).

Definition CreateDelegationTokenResponse_valid (version : Z) (x : CreateDelegationTokenResponse) : Prop :=
  in_signed 16 (CreateDelegationTokenResponse_error_code x) ∧
  utf8 (CreateDelegationTokenResponse_principal_type x) ∧
  utf8 (CreateDelegationTokenResponse_principal_name x) ∧
  utf8 (CreateDelegationTokenResponse_token_requester_principal_type x) ∧
  utf8 (CreateDelegationTokenResponse_token_requester_principal_name x) ∧
  in_signed 64 (CreateDelegationTokenResponse_issue_timestamp_ms x) ∧
  in_signed 64 (CreateDelegationTokenResponse_expiry_timestamp_ms x) ∧
  in_signed 64 (CreateDelegationTokenResponse_max_timestamp_ms x) ∧
  utf8 (CreateDelegationTokenResponse_token_id x) ∧
  in_signed 32 (CreateDelegationTokenResponse_throttle_time_ms x) ∧
  (if 2 <=? version then unknown_valid 0 (CreateDelegationTokenResponse_unknown_tagged_fields x) else
      CreateDelegationTokenResponse_unknown_tagged_fields x = ∅).

#[global] Instance CreateDelegationTokenResponse_sound version : Sound (CreateDelegationTokenResponse_codec
    version) (CreateDelegationTokenResponse_valid version).
Proof. solve_message. Qed.

(* @ src/crates/kafka-protocol/src/messages/create_delegation_token_response.rs 405-413 CreateDelegationTokenResponse::header_version *)
Definition CreateDelegationTokenResponse_header_version (version : Z) : Z := if 2 <=? version then 1 else 0.

(* @ src/crates/kafka-protocol/src/messages/create_delegation_token_response.rs 400-403 CreateDelegationTokenResponse::VERSIONS *)
Definition CreateDelegationTokenResponse_VERSIONS : Z * Z := (1, 3).

(** ** [default_principal_data] *)

(* @ src/crates/kafka-protocol/src/messages/default_principal_data.rs 20-41 DefaultPrincipalData *)
Record DefaultPrincipalData : Type := mkDefaultPrincipalData {
  DefaultPrincipalData__type : list byte;
  DefaultPrincipalData_name : list byte;
  DefaultPrincipalData_token_authenticated : bool;
  DefaultPrincipalData_unknown_tagged_fields : TaggedFields
}.

(* @ src/crates/kafka-protocol/src/messages/default_principal_data.rs 147-156 DefaultPrincipalData::default *)
Definition DefaultPrincipalData_default : DefaultPrincipalData := {|
  DefaultPrincipalData__type := [];
  DefaultPrincipalData_name := [];
  DefaultPrincipalData_token_authenticated := false;
  DefaultPrincipalData_unknown_tagged_fields := ∅
|}.

(* @ src/crates/kafka-protocol/src/messages/default_principal_data.rs 83-145 DefaultPrincipalData::encode, compute_size, decode *)
Definition DefaultPrincipalData_codec (version : Z) : Codec DefaultPrincipalData :=
  message 0 0 version (build mkDefaultPrincipalData
    ⊛ (field DefaultPrincipalData__type CompactString)
    ⊛ (field DefaultPrincipalData_name CompactString)
    ⊛ (field DefaultPrincipalData_token_authenticated Boolean)
    ⊛ unknown_tags true DefaultPrincipalData_unknown_tagged_fields).

Definition DefaultPrincipalData_valid (version : Z) (x : DefaultPrincipalData) : Prop :=
  utf8 (DefaultPrincipalData__type x) ∧
  utf8 (DefaultPrincipalData_name x) ∧
  unknown_valid 0 (DefaultPrincipalData_unknown_tagged_fields x).

#[global] Instance DefaultPrincipalData_sound version : Sound (DefaultPrincipalData_codec version)
    (DefaultPrincipalData_valid version).
Proof. solve_message. Qed.

(** ** [delete_acls_request] *)

(* @ src/crates/kafka-protocol/src/messages/delete_acls_request.rs 20-61 DeleteAclsFilter *)
Record DeleteAclsFilter : Type := mkDeleteAclsFilter {
  DeleteAclsFilter_resource_type_filter : Z;
  DeleteAclsFilter_resource_name_filter : option (list byte);
  DeleteAclsFilter_pattern_type_filter : Z;
  DeleteAclsFilter_principal_filter : option (list byte);
  DeleteAclsFilter_host_filter : option (list byte);
  DeleteAclsFilter_operation : Z;
  DeleteAclsFilter_permission_type : Z;
  DeleteAclsFilter_unknown_tagged_fields : TaggedFields
}.

(* @ src/crates/kafka-protocol/src/messages/delete_acls_request.rs 263-276 DeleteAclsFilter::default *)
Definition DeleteAclsFilter_default : DeleteAclsFilter := {|
  DeleteAclsFilter_resource_type_filter := 0;
  DeleteAclsFilter_resource_name_filter := Some [];
  DeleteAclsFilter_pattern_type_filter := 3;
  DeleteAclsFilter_principal_filter := Some [];
  DeleteAclsFilter_host_filter := Some [];
  DeleteAclsFilter_operation := 0;
  DeleteAclsFilter_permission_type := 0;
  DeleteAclsFilter_unknown_tagged_fields := ∅
|}.

(* @ src/crates/kafka-protocol/src/messages/delete_acls_request.rs 139-261 DeleteAclsFilter::encode, compute_size, decode *)
Definition DeleteAclsFilter_codec (version : Z) : Codec DeleteAclsFilter :=
  message 1 3 version (build mkDeleteAclsFilter
    ⊛ (field DeleteAclsFilter_resource_type_filter Int8)
    ⊛ (field DeleteAclsFilter_resource_name_filter (if 2 <=? version then NullableCompactString else
        NullableString))
    ⊛ (field DeleteAclsFilter_pattern_type_filter Int8)
    ⊛ (field DeleteAclsFilter_principal_filter (if 2 <=? version then NullableCompactString else
        NullableString))
    ⊛ (field DeleteAclsFilter_host_filter (if 2 <=? version then NullableCompactString else NullableString))
    ⊛ (field DeleteAclsFilter_operation Int8)
    ⊛ (field DeleteAclsFilter_permission_type Int8)
    ⊛ unknown_tags (2 <=? version) DeleteAclsFilter_unknown_tagged_fields).

Definition DeleteAclsFilter_valid (version : Z) (x : DeleteAclsFilter) : Prop :=
  in_signed 8 (DeleteAclsFilter_resource_type_filter x) ∧
  opt_all utf8 (DeleteAclsFilter_resource_name_filter x) ∧
  in_signed 8 (DeleteAclsFilter_pattern_type_filter x) ∧
  opt_all utf8 (DeleteAclsFilter_principal_filter x) ∧
  opt_all utf8 (DeleteAclsFilter_host_filter x) ∧
  in_signed 8 (DeleteAclsFilter_operation x) ∧
  in_signed 8 (DeleteAclsFilter_permission_type x) ∧
  (if 2 <=? version then unknown_valid 0 (DeleteAclsFilter_unknown_tagged_fields x) else
      DeleteAclsFilter_unknown_tagged_fields x = ∅).

#[global] Instance DeleteAclsFilter_sound version : Sound (DeleteAclsFilter_codec version)
    (DeleteAclsFilter_valid version).
Proof. solve_message. Qed.

(* @ src/crates/kafka-protocol/src/messages/delete_acls_request.rs 283-294 DeleteAclsRequest *)
Record DeleteAclsRequest : Type := mkDeleteAclsRequest {
  DeleteAclsRequest_filters : list DeleteAclsFilter;
  DeleteAclsRequest_unknown_tagged_fields : TaggedFields
}.

(* @ src/crates/kafka-protocol/src/messages/delete_acls_request.rs 395-402 DeleteAclsRequest::default *)
Definition DeleteAclsRequest_default : DeleteAclsRequest := {|
  DeleteAclsRequest_filters := [];
  DeleteAclsRequest_unknown_tagged_fields := ∅
|}.

(* @ src/crates/kafka-protocol/src/messages/delete_acls_request.rs 318-393 DeleteAclsRequest::encode, compute_size, decode *)
Definition DeleteAclsRequest_codec (version : Z) : Codec DeleteAclsRequest :=
  message 1 3 version (build mkDeleteAclsRequest
    ⊛ (field DeleteAclsRequest_filters (if 2 <=? version then CompactArray (Struct DeleteAclsFilter_codec
        version) else Array (Struct DeleteAclsFilter_codec version)))
    ⊛ unknown_tags (2 <=? version) DeleteAclsRequest_unknown_tagged_fields).

Definition DeleteAclsRequest_valid (version : Z) (x : DeleteAclsRequest) : Prop :=
  Forall (DeleteAclsFilter_valid version) (DeleteAclsRequest_filters x) ∧
  (if 2 <=? version then unknown_valid 0 (DeleteAclsRequest_unknown_tagged_fields x) else
      DeleteAclsRequest_unknown_tagged_fields x = ∅).

#[global] Instance DeleteAclsRequest_sound version : Sound (DeleteAclsRequest_codec version)
    (DeleteAclsRequest_valid version).
Proof. solve_message. Qed.

(* @ src/crates/kafka-protocol/src/messages/delete_acls_request.rs 409-417 DeleteAclsRequest::header_version *)
Definition DeleteAclsRequest_header_version (version : Z) : Z := if 2 <=? version then 2 else 1.

(* @ src/crates/kafka-protocol/src/messages/delete_acls_request.rs 404-407 DeleteAclsRequest::VERSIONS *)
Definition DeleteAclsRequest_VERSIONS : Z * Z := (1, 3).

(** ** [delete_acls_response] *)

(* @ src/crates/kafka-protocol/src/messages/delete_acls_response.rs 197-248 DeleteAclsMatchingAcl *)
Record DeleteAclsMatchingAcl : Type := mkDeleteAclsMatchingAcl {
  DeleteAclsMatchingAcl_error_code : Z;
  DeleteAclsMatchingAcl_error_message : option (list byte);
  DeleteAclsMatchingAcl_resource_type : Z;
  DeleteAclsMatchingAcl_resource_name : list byte;
  DeleteAclsMatchingAcl_pattern_type : Z;
  DeleteAclsMatchingAcl_principal : list byte;
  DeleteAclsMatchingAcl_host : list byte;
  DeleteAclsMatchingAcl_operation : Z;
  DeleteAclsMatchingAcl_permission_type : Z;
  DeleteAclsMatchingAcl_unknown_tagged_fields : TaggedFields
}.

(* @ src/crates/kafka-protocol/src/messages/delete_acls_response.rs 488-503 DeleteAclsMatchingAcl::default *)
Definition DeleteAclsMatchingAcl_default : DeleteAclsMatchingAcl := {|
  DeleteAclsMatchingAcl_error_code := 0;
  DeleteAclsMatchingAcl_error_message := Some [];
  DeleteAclsMatchingAcl_resource_type := 0;
  DeleteAclsMatchingAcl_resource_name := [];
  DeleteAclsMatchingAcl_pattern_type := 3;
  DeleteAclsMatchingAcl_principal := [];
  DeleteAclsMatchingAcl_host := [];
  DeleteAclsMatchingAcl_operation := 0;
  DeleteAclsMatchingAcl_permission_type := 0;
  DeleteAclsMatchingAcl_unknown_tagged_fields := ∅
|}.

(* @ src/crates/kafka-protocol/src/messages/delete_acls_response.rs 344-486 DeleteAclsMatchingAcl::encode, compute_size, decode *)
Definition DeleteAclsMatchingAcl_codec (version : Z) : Codec DeleteAclsMatchingAcl :=
  message 1 3 version (build mkDeleteAclsMatchingAcl
    ⊛ (field DeleteAclsMatchingAcl_error_code Int16)
    ⊛ (field DeleteAclsMatchingAcl_error_message (if 2 <=? version then NullableCompactString else
        NullableString))
    ⊛ (field DeleteAclsMatchingAcl_resource_type Int8)
    ⊛ (field DeleteAclsMatchingAcl_resource_name (if 2 <=? version then CompactString else KafkaString))
    ⊛ (field DeleteAclsMatchingAcl_pattern_type Int8)
    ⊛ (field DeleteAclsMatchingAcl_principal (if 2 <=? version then CompactString else KafkaString))
    ⊛ (field DeleteAclsMatchingAcl_host (if 2 <=? version then CompactString else KafkaString))
    ⊛ (field DeleteAclsMatchingAcl_operation Int8)
    ⊛ (field DeleteAclsMatchingAcl_permission_type Int8)
    ⊛ unknown_tags (2 <=? version) DeleteAclsMatchingAcl_unknown_tagged_fields).

Definition DeleteAclsMatchingAcl_valid (version : Z) (x : DeleteAclsMatchingAcl) : Prop :=
  in_signed 16 (DeleteAclsMatchingAcl_error_code x) ∧
  opt_all utf8 (DeleteAclsMatchingAcl_error_message x) ∧
  in_signed 8 (DeleteAclsMatchingAcl_resource_type x) ∧
  utf8 (DeleteAclsMatchingAcl_resource_name x) ∧
  in_signed 8 (DeleteAclsMatchingAcl_pattern_type x) ∧
  utf8 (DeleteAclsMatchingAcl_principal x) ∧
  utf8 (DeleteAclsMatchingAcl_host x) ∧
  in_signed 8 (DeleteAclsMatchingAcl_operation x) ∧
  in_signed 8 (DeleteAclsMatchingAcl_permission_type x) ∧
  (if 2 <=? version then unknown_valid 0 (DeleteAclsMatchingAcl_unknown_tagged_fields x) else
      DeleteAclsMatchingAcl_unknown_tagged_fields x = ∅).

#[global] Instance DeleteAclsMatchingAcl_sound version : Sound (DeleteAclsMatchingAcl_codec version)
    (DeleteAclsMatchingAcl_valid version).
Proof. solve_message. Qed.

(* @ src/crates/kafka-protocol/src/messages/delete_acls_response.rs 20-41 DeleteAclsFilterResult *)
Record DeleteAclsFilterResult : Type := mkDeleteAclsFilterResult {
  DeleteAclsFilterResult_error_code : Z;
  DeleteAclsFilterResult_error_message : option (list byte);
  DeleteAclsFilterResult_matching_acls : list DeleteAclsMatchingAcl;
  DeleteAclsFilterResult_unknown_tagged_fields : TaggedFields
}.

(* @ src/crates/kafka-protocol/src/messages/delete_acls_response.rs 181-190 DeleteAclsFilterResult::default *)
Definition DeleteAclsFilterResult_default : DeleteAclsFilterResult := {|
  DeleteAclsFilterResult_error_code := 0;
  DeleteAclsFilterResult_error_message := Some [];
  DeleteAclsFilterResult_matching_acls := [];
  DeleteAclsFilterResult_unknown_tagged_fields := ∅
|}.

(* @ src/crates/kafka-protocol/src/messages/delete_acls_response.rs 83-179 DeleteAclsFilterResult::encode, compute_size, decode *)
Definition DeleteAclsFilterResult_codec (version : Z) : Codec DeleteAclsFilterResult :=
  message 1 3 version (build mkDeleteAclsFilterResult
    ⊛ (field DeleteAclsFilterResult_error_code Int16)
    ⊛ (field DeleteAclsFilterResult_error_message (if 2 <=? version then NullableCompactString else
        NullableString))
    ⊛ (field DeleteAclsFilterResult_matching_acls (if 2 <=? version then CompactArray (Struct
        DeleteAclsMatchingAcl_codec version) else Array (Struct DeleteAclsMatchingAcl_codec version)))
    ⊛ unknown_tags (2 <=? version) DeleteAclsFilterResult_unknown_tagged_fields).

Definition DeleteAclsFilterResult_valid (version : Z) (x : DeleteAclsFilterResult) : Prop :=
  in_signed 16 (DeleteAclsFilterResult_error_code x) ∧
  opt_all utf8 (DeleteAclsFilterResult_error_message x) ∧
  Forall (DeleteAclsMatchingAcl_valid version) (DeleteAclsFilterResult_matching_acls x) ∧
  (if 2 <=? version then unknown_valid 0 (DeleteAclsFilterResult_unknown_tagged_fields x) else
      DeleteAclsFilterResult_unknown_tagged_fields x = ∅).

#[global] Instance DeleteAclsFilterResult_sound version : Sound (DeleteAclsFilterResult_codec version)
    (DeleteAclsFilterResult_valid version).
Proof. solve_message. Qed.

(* @ src/crates/kafka-protocol/src/messages/delete_acls_response.rs 510-526 DeleteAclsResponse *)
Record DeleteAclsResponse : Type := mkDeleteAclsResponse {
  DeleteAclsResponse_throttle_time_ms : Z;
  DeleteAclsResponse_filter_results : list DeleteAclsFilterResult;
  DeleteAclsResponse_unknown_tagged_fields : TaggedFields
}.

(* @ src/crates/kafka-protocol/src/messages/delete_acls_response.rs 641-649 DeleteAclsResponse::default *)
Definition DeleteAclsResponse_default : DeleteAclsResponse := {|
  DeleteAclsResponse_throttle_time_ms := 0;
  DeleteAclsResponse_filter_results := [];
  DeleteAclsResponse_unknown_tagged_fields := ∅
|}.

(* @ src/crates/kafka-protocol/src/messages/delete_acls_response.rs 559-639 DeleteAclsResponse::encode, compute_size, decode *)
Definition DeleteAclsResponse_codec (version : Z) : Codec DeleteAclsResponse :=
  message 1 3 version (build mkDeleteAclsResponse
    ⊛ (field DeleteAclsResponse_throttle_time_ms Int32)
    ⊛ (field DeleteAclsResponse_filter_results (if 2 <=? version then CompactArray (Struct
        DeleteAclsFilterResult_codec version) else Array (Struct DeleteAclsFilterResult_codec version)))
    ⊛ unknown_tags (2 <=? version) DeleteAclsResponse_unknown_tagged_fields).

Definition DeleteAclsResponse_valid (version : Z) (x : DeleteAclsResponse) : Prop :=
  in_signed 32 (DeleteAclsResponse_throttle_time_ms x) ∧
  Forall (DeleteAclsFilterResult_valid version) (DeleteAclsResponse_filter_results x) ∧
  (if 2 <=? version then unknown_valid 0 (DeleteAclsResponse_unknown_tagged_fields x) else
      DeleteAclsResponse_unknown_tagged_fields x = ∅).

#[global] Instance DeleteAclsResponse_sound version : Sound (DeleteAclsResponse_codec version)
    (DeleteAclsResponse_valid version).
Proof. solve_message. Qed.

(* @ src/crates/kafka-protocol/src/messages/delete_acls_response.rs 656-664 DeleteAclsResponse::header_version *)
Definition DeleteAclsResponse_header_version (version : Z) : Z := if 2 <=? version then 1 else 0.

(* @ src/crates/kafka-protocol/src/messages/delete_acls_response.rs 651-654 DeleteAclsResponse::VERSIONS *)
Definition DeleteAclsResponse_VERSIONS : Z * Z := (1, 3).

(** ** [describe_acls_request] *)

(* @ src/crates/kafka-protocol/src/messages/describe_acls_request.rs 20-61 DescribeAclsRequest *)
Record DescribeAclsRequest : Type := mkDescribeAclsRequest {
  DescribeAclsRequest_resource_type_filter : Z;
  DescribeAclsRequest_resource_name_filter : option (list byte);
  DescribeAclsRequest_pattern_type_filter : Z;
  DescribeAclsRequest_principal_filter : option (list byte);
  DescribeAclsRequest_host_filter : option (list byte);
  DescribeAclsRequest_operation : Z;
  DescribeAclsRequest_permission_type : Z;
  DescribeAclsRequest_unknown_tagged_fields : TaggedFields
}.

(* @ src/crates/kafka-protocol/src/messages/describe_acls_request.rs 263-276 DescribeAclsRequest::default *)
Definition DescribeAclsRequest_default : DescribeAclsRequest := {|
  DescribeAclsRequest_resource_type_filter := 0;
  DescribeAclsRequest_resource_name_filter := Some [];
  DescribeAclsRequest_pattern_type_filter := 3;
  DescribeAclsRequest_principal_filter := Some [];
  DescribeAclsRequest_host_filter := Some [];
  DescribeAclsRequest_operation := 0;
  DescribeAclsRequest_permission_type := 0;
  DescribeAclsRequest_unknown_tagged_fields := ∅
|}.

(* @ src/crates/kafka-protocol/src/messages/describe_acls_request.rs 139-261 DescribeAclsRequest::encode, compute_size, decode *)
Definition DescribeAclsRequest_codec (version : Z) : Codec DescribeAclsRequest :=
  message 1 3 version (build mkDescribeAclsRequest
    ⊛ (field DescribeAclsRequest_resource_type_filter Int8)
    ⊛ (field DescribeAclsRequest_resource_name_filter (if 2 <=? version then NullableCompactString else
        NullableString))
    ⊛ (field DescribeAclsRequest_pattern_type_filter Int8)
    ⊛ (field DescribeAclsRequest_principal_filter (if 2 <=? version then NullableCompactString else
        NullableString))
    ⊛ (field DescribeAclsRequest_host_filter (if 2 <=? version then NullableCompactString else
        NullableString))
    ⊛ (field DescribeAclsRequest_operation Int8)
    ⊛ (field DescribeAclsRequest_permission_type Int8)
    ⊛ unknown_tags (2 <=? version) DescribeAclsRequest_unknown_tagged_fields).

Definition DescribeAclsRequest_valid (version : Z) (x : DescribeAclsRequest) : Prop :=
  in_signed 8 (DescribeAclsRequest_resource_type_filter x) ∧
  opt_all utf8 (DescribeAclsRequest_resource_name_filter x) ∧
  in_signed 8 (DescribeAclsRequest_pattern_type_filter x) ∧
  opt_all utf8 (DescribeAclsRequest_principal_filter x) ∧
  opt_all utf8 (DescribeAclsRequest_host_filter x) ∧
  in_signed 8 (DescribeAclsRequest_operation x) ∧
  in_signed 8 (DescribeAclsRequest_permission_type x) ∧
  (if 2 <=? version then unknown_valid 0 (DescribeAclsRequest_unknown_tagged_fields x) else
      DescribeAclsRequest_unknown_tagged_fields x = ∅).

#[global] Instance DescribeAclsRequest_sound version : Sound (DescribeAclsRequest_codec version)
    (DescribeAclsRequest_valid version).
Proof. solve_message. Qed.

(* @ src/crates/kafka-protocol/src/messages/describe_acls_request.rs 283-291 DescribeAclsRequest::header_version *)
Definition DescribeAclsRequest_header_version (version : Z) : Z := if 2 <=? version then 2 else 1.

(* @ src/crates/kafka-protocol/src/messages/describe_acls_request.rs 278-281 DescribeAclsRequest::VERSIONS *)
Definition DescribeAclsRequest_VERSIONS : Z * Z := (1, 3).

(** ** [describe_acls_response] *)

(* @ src/crates/kafka-protocol/src/messages/describe_acls_response.rs 20-46 AclDescription *)
Record AclDescription : Type := mkAclDescription {
  AclDescription_principal : list byte;
  AclDescription_host : list byte;
  AclDescription_operation : Z;
  AclDescription_permission_type : Z;
  AclDescription_unknown_tagged_fields : TaggedFields
}.

(* @ src/crates/kafka-protocol/src/messages/describe_acls_response.rs 197-207 AclDescription::default *)
Definition AclDescription_default : AclDescription := {|
  AclDescription_principal := [];
  AclDescription_host := [];
  AclDescription_operation := 0;
  AclDescription_permission_type := 0;
  AclDescription_unknown_tagged_fields := ∅
|}.

(* @ src/crates/kafka-protocol/src/messages/describe_acls_response.rs 97-195 AclDescription::encode, compute_size, decode *)
Definition AclDescription_codec (version : Z) : Codec AclDescription :=
  message 1 3 version (build mkAclDescription
    ⊛ (field AclDescription_principal (if 2 <=? version then CompactString else KafkaString))
    ⊛ (field AclDescription_host (if 2 <=? version then CompactString else KafkaString))
    ⊛ (field AclDescription_operation Int8)
    ⊛ (field AclDescription_permission_type Int8)
    ⊛ unknown_tags (2 <=? version) AclDescription_unknown_tagged_fields).

Definition AclDescription_valid (version : Z) (x : AclDescription) : Prop :=
  utf8 (AclDescription_principal x) ∧
  utf8 (AclDescription_host x) ∧
  in_signed 8 (AclDescription_operation x) ∧
  in_signed 8 (AclDescription_permission_type x) ∧
  (if 2 <=? version then unknown_valid 0 (AclDescription_unknown_tagged_fields x) else
      AclDescription_unknown_tagged_fields x = ∅).

#[global] Instance AclDescription_sound version : Sound (AclDescription_codec version)
    (AclDescription_valid version).
Proof. solve_message. Qed.

(* @ src/crates/kafka-protocol/src/messages/describe_acls_response.rs 214-240 DescribeAclsResource *)
Record DescribeAclsResource : Type := mkDescribeAclsResource {
  DescribeAclsResource_resource_type : Z;
  DescribeAclsResource_resource_name : list byte;
  DescribeAclsResource_pattern_type : Z;
  DescribeAclsResource_acls : list AclDescription;
  DescribeAclsResource_unknown_tagged_fields : TaggedFields
}.

(* @ src/crates/kafka-protocol/src/messages/describe_acls_response.rs 392-402 DescribeAclsResource::default *)
Definition DescribeAclsResource_default : DescribeAclsResource := {|
  DescribeAclsResource_resource_type := 0;
  DescribeAclsResource_resource_name := [];
  DescribeAclsResource_pattern_type := 3;
  DescribeAclsResource_acls := [];
  DescribeAclsResource_unknown_tagged_fields := ∅
|}.

(* @ src/crates/kafka-protocol/src/messages/describe_acls_response.rs 291-390 DescribeAclsResource::encode, compute_size, decode *)
Definition DescribeAclsResource_codec (version : Z) : Codec DescribeAclsResource :=
  message 1 3 version (build mkDescribeAclsResource
    ⊛ (field DescribeAclsResource_resource_type Int8)
    ⊛ (field DescribeAclsResource_resource_name (if 2 <=? version then CompactString else KafkaString))
    ⊛ (field DescribeAclsResource_pattern_type Int8)
    ⊛ (field DescribeAclsResource_acls (if 2 <=? version then CompactArray (Struct AclDescription_codec
        version) else Array (Struct AclDescription_codec version)))
    ⊛ unknown_tags (2 <=? version) DescribeAclsResource_unknown_tagged_fields).

Definition DescribeAclsResource_valid (version : Z) (x : DescribeAclsResource) : Prop :=
  in_signed 8 (DescribeAclsResource_resource_type x) ∧
  utf8 (DescribeAclsResource_resource_name x) ∧
  in_signed 8 (DescribeAclsResource_pattern_type x) ∧
  Forall (AclDescription_valid version) (DescribeAclsResource_acls x) ∧
  (if 2 <=? version then unknown_valid 0 (DescribeAclsResource_unknown_tagged_fields x) else
      DescribeAclsResource_unknown_tagged_fields x = ∅).

#[global] Instance DescribeAclsResource_sound version : Sound (DescribeAclsResource_codec version)
    (DescribeAclsResource_valid version).
Proof. solve_message. Qed.

(* @ src/crates/kafka-protocol/src/messages/describe_acls_response.rs 409-435 DescribeAclsResponse *)
Record DescribeAclsResponse : Type := mkDescribeAclsResponse {
  DescribeAclsResponse_throttle_time_ms : Z;
  DescribeAclsResponse_error_code : Z;
  DescribeAclsResponse_error_message : option (list byte);
  DescribeAclsResponse_resources : list DescribeAclsResource;
  DescribeAclsResponse_unknown_tagged_fields : TaggedFields
}.

(* @ src/crates/kafka-protocol/src/messages/describe_acls_response.rs 587-597 DescribeAclsResponse::default *)
Definition DescribeAclsResponse_default : DescribeAclsResponse := {|
  DescribeAclsResponse_throttle_time_ms := 0;
  DescribeAclsResponse_error_code := 0;
  DescribeAclsResponse_error_message := Some [];
  DescribeAclsResponse_resources := [];
  DescribeAclsResponse_unknown_tagged_fields := ∅
|}.

(* @ src/crates/kafka-protocol/src/messages/describe_acls_response.rs 486-585 DescribeAclsResponse::encode, compute_size, decode *)
Definition DescribeAclsResponse_codec (version : Z) : Codec DescribeAclsResponse :=
  message 1 3 version (build mkDescribeAclsResponse
    ⊛ (field DescribeAclsResponse_throttle_time_ms Int32)
    ⊛ (field DescribeAclsResponse_error_code Int16)
    ⊛ (field DescribeAclsResponse_error_message (if 2 <=? version then NullableCompactString else
        NullableString))
    ⊛ (field DescribeAclsResponse_resources (if 2 <=? version then CompactArray (Struct
        DescribeAclsResource_codec version) else Array (Struct DescribeAclsResource_codec version)))
    ⊛ unknown_tags (2 <=? version) DescribeAclsResponse_unknown_tagged_fields).

Definition DescribeAclsResponse_valid (version : Z) (x : DescribeAclsResponse) : Prop :=
  in_signed 32 (DescribeAclsResponse_throttle_time_ms x) ∧
  in_signed 16 (DescribeAclsResponse_error_code x) ∧
  opt_all utf8 (DescribeAclsResponse_error_message x) ∧
  Forall (DescribeAclsResource_valid version) (DescribeAclsResponse_resources x) ∧
  (if 2 <=? version then unknown_valid 0 (DescribeAclsResponse_unknown_tagged_fields x) else
      DescribeAclsResponse_unknown_tagged_fields x = ∅).

#[global] Instance DescribeAclsResponse_sound version : Sound (DescribeAclsResponse_codec version)
    (DescribeAclsResponse_valid version).
Proof. solve_message. Qed.

(* @ src/crates/kafka-protocol/src/messages/describe_acls_response.rs 604-612 DescribeAclsResponse::header_version *)
Definition DescribeAclsResponse_header_version (version : Z) : Z := if 2 <=? version then 1 else 0.

(* @ src/crates/kafka-protocol/src/messages/describe_acls_response.rs 599-602 DescribeAclsResponse::VERSIONS *)
Definition DescribeAclsResponse_VERSIONS : Z * Z := (1, 3).

(** ** [describe_delegation_token_request] *)

(* @ src/crates/kafka-protocol/src/messages/describe_delegation_token_request.rs 20-36 DescribeDelegationTokenOwner *)
Record DescribeDelegationTokenOwner : Type := mkDescribeDelegationTokenOwner {
  DescribeDelegationTokenOwner_principal_type : list byte;
  DescribeDelegationTokenOwner_principal_name : list byte;
  DescribeDelegationTokenOwner_unknown_tagged_fields : TaggedFields
}.

(* @ src/crates/kafka-protocol/src/messages/describe_delegation_token_request.rs 161-169 DescribeDelegationTokenOwner::default *)
Definition DescribeDelegationTokenOwner_default : DescribeDelegationTokenOwner := {|
  DescribeDelegationTokenOwner_principal_type := [];
  DescribeDelegationTokenOwner_principal_name := [];
  DescribeDelegationTokenOwner_unknown_tagged_fields := ∅
|}.

(* @ src/crates/kafka-protocol/src/messages/describe_delegation_token_request.rs 69-159 DescribeDelegationTokenOwner::encode, compute_size, decode *)
Definition DescribeDelegationTokenOwner_codec (version : Z) : Codec DescribeDelegationTokenOwner :=
  message 1 3 version (build mkDescribeDelegationTokenOwner
    ⊛ (field DescribeDelegationTokenOwner_principal_type (if 2 <=? version then CompactString else
        KafkaString))
    ⊛ (field DescribeDelegationTokenOwner_principal_name (if 2 <=? version then CompactString else
        KafkaString))
    ⊛ unknown_tags (2 <=? version) DescribeDelegationTokenOwner_unknown_tagged_fields).

Definition DescribeDelegationTokenOwner_valid (version : Z) (x : DescribeDelegationTokenOwner) : Prop :=
  utf8 (DescribeDelegationTokenOwner_principal_type x) ∧
  utf8 (DescribeDelegationTokenOwner_principal_name x) ∧
  (if 2 <=? version then unknown_valid 0 (DescribeDelegationTokenOwner_unknown_tagged_fields x) else
      DescribeDelegationTokenOwner_unknown_tagged_fields x = ∅).

#[global] Instance DescribeDelegationTokenOwner_sound version : Sound (DescribeDelegationTokenOwner_codec
    version) (DescribeDelegationTokenOwner_valid version).
Proof. solve_message. Qed.

(* @ src/crates/kafka-protocol/src/messages/describe_delegation_token_request.rs 176-187 DescribeDelegationTokenRequest *)
Record DescribeDelegationTokenRequest : Type := mkDescribeDelegationTokenRequest {
  DescribeDelegationTokenRequest_owners : option (list DescribeDelegationTokenOwner);
  DescribeDelegationTokenRequest_unknown_tagged_fields : TaggedFields
}.

(* @ src/crates/kafka-protocol/src/messages/describe_delegation_token_request.rs 288-295 DescribeDelegationTokenRequest::default *)
Definition DescribeDelegationTokenRequest_default : DescribeDelegationTokenRequest := {|
  DescribeDelegationTokenRequest_owners := Some [];
  DescribeDelegationTokenRequest_unknown_tagged_fields := ∅
|}.

(* @ src/crates/kafka-protocol/src/messages/describe_delegation_token_request.rs 211-286 DescribeDelegationTokenRequest::encode, compute_size, decode *)
Definition DescribeDelegationTokenRequest_codec (version : Z) : Codec DescribeDelegationTokenRequest :=
  message 1 3 version (build mkDescribeDelegationTokenRequest
    ⊛ (field DescribeDelegationTokenRequest_owners (if 2 <=? version then NullableCompactArray (Struct
        DescribeDelegationTokenOwner_codec version) else NullableArray (Struct
        DescribeDelegationTokenOwner_codec version)))
    ⊛ unknown_tags (2 <=? version) DescribeDelegationTokenRequest_unknown_tagged_fields).

Definition DescribeDelegationTokenRequest_valid (version : Z) (x : DescribeDelegationTokenRequest) : Prop :=
  opt_all (Forall (DescribeDelegationTokenOwner_valid version)) (DescribeDelegationTokenRequest_owners x) ∧
  (if 2 <=? version then unknown_valid 0 (DescribeDelegationTokenRequest_unknown_tagged_fields x) else
      DescribeDelegationTokenRequest_unknown_tagged_fields x = ∅).

#[global] Instance DescribeDelegationTokenRequest_sound version : Sound
    (DescribeDelegationTokenRequest_codec version) (DescribeDelegationTokenRequest_valid version).
Proof. solve_message. Qed.

(* @ src/crates/kafka-protocol/src/messages/describe_delegation_token_request.rs 302-310 DescribeDelegationTokenRequest::header_version *)
Definition DescribeDelegationTokenRequest_header_version (version : Z) : Z := if 2 <=? version then 2 else
    1.

(* @ src/crates/kafka-protocol/src/messages/describe_delegation_token_request.rs 297-300 DescribeDelegationTokenRequest::VERSIONS *)
Definition DescribeDelegationTokenRequest_VERSIONS : Z * Z := (1, 3).

(** ** [describe_delegation_token_response] *)

(* @ src/crates/kafka-protocol/src/messages/describe_delegation_token_response.rs 563-579 DescribedDelegationTokenRenewer *)
Record DescribedDelegationTokenRenewer : Type := mkDescribedDelegationTokenRenewer {
  DescribedDelegationTokenRenewer_principal_type : list byte;
  DescribedDelegationTokenRenewer_principal_name : list byte;
  DescribedDelegationTokenRenewer_unknown_tagged_fields : TaggedFields
}.

(* @ src/crates/kafka-protocol/src/messages/describe_delegation_token_response.rs 704-712 DescribedDelegationTokenRenewer::default *)
Definition DescribedDelegationTokenRenewer_default : DescribedDelegationTokenRenewer := {|
  DescribedDelegationTokenRenewer_principal_type := [];
  DescribedDelegationTokenRenewer_principal_name := [];
  DescribedDelegationTokenRenewer_unknown_tagged_fields := ∅
|}.

(* @ src/crates/kafka-protocol/src/messages/describe_delegation_token_response.rs 612-702 DescribedDelegationTokenRenewer::encode, compute_size, decode *)
Definition DescribedDelegationTokenRenewer_codec (version : Z) : Codec DescribedDelegationTokenRenewer :=
  message 1 3 version (build mkDescribedDelegationTokenRenewer
    ⊛ (field DescribedDelegationTokenRenewer_principal_type (if 2 <=? version then CompactString else
        KafkaString))
    ⊛ (field DescribedDelegationTokenRenewer_principal_name (if 2 <=? version then CompactString else
        KafkaString))
    ⊛ unknown_tags (2 <=? version) DescribedDelegationTokenRenewer_unknown_tagged_fields).

Definition DescribedDelegationTokenRenewer_valid (version : Z) (x : DescribedDelegationTokenRenewer) : Prop
    :=
  utf8 (DescribedDelegationTokenRenewer_principal_type x) ∧
  utf8 (DescribedDelegationTokenRenewer_principal_name x) ∧
  (if 2 <=? version then unknown_valid 0 (DescribedDelegationTokenRenewer_unknown_tagged_fields x) else
      DescribedDelegationTokenRenewer_unknown_tagged_fields x = ∅).

#[global] Instance DescribedDelegationTokenRenewer_sound version : Sound
    (DescribedDelegationTokenRenewer_codec version) (DescribedDelegationTokenRenewer_valid version).
Proof. solve_message. Qed.

(* @ src/crates/kafka-protocol/src/messages/describe_delegation_token_response.rs 184-240 DescribedDelegationToken *)
Record DescribedDelegationToken : Type := mkDescribedDelegationToken {
  DescribedDelegationToken_principal_type : list byte;
  DescribedDelegationToken_principal_name : list byte;
  DescribedDelegationToken_token_requester_principal_type : list byte;
  DescribedDelegationToken_token_requester_principal_name : list byte;
  DescribedDelegationToken_issue_timestamp : Z;
  DescribedDelegationToken_expiry_timestamp : Z;
  DescribedDelegationToken_max_timestamp : Z;
  DescribedDelegationToken_token_id : list byte;
  DescribedDelegationToken_hmac : list byte;
  DescribedDelegationToken_renewers : list DescribedDelegationTokenRenewer;
  DescribedDelegationToken_unknown_tagged_fields : TaggedFields
}.

(* @ src/crates/kafka-protocol/src/messages/describe_delegation_token_response.rs 540-556 DescribedDelegationToken::default *)
Definition DescribedDelegationToken_default : DescribedDelegationToken := {|
  DescribedDelegationToken_principal_type := [];
  DescribedDelegationToken_principal_name := [];
  DescribedDelegationToken_token_requester_principal_type := [];
  DescribedDelegationToken_token_requester_principal_name := [];
  DescribedDelegationToken_issue_timestamp := 0;
  DescribedDelegationToken_expiry_timestamp := 0;
  DescribedDelegationToken_max_timestamp := 0;
  DescribedDelegationToken_token_id := [];
  DescribedDelegationToken_hmac := [];
  DescribedDelegationToken_renewers := [];
  DescribedDelegationToken_unknown_tagged_fields := ∅
|}.

(* @ src/crates/kafka-protocol/src/messages/describe_delegation_token_response.rs 345-538 DescribedDelegationToken::encode, compute_size, decode *)
Definition DescribedDelegationToken_codec (version : Z) : Codec DescribedDelegationToken :=
  message 1 3 version (build mkDescribedDelegationToken
    ⊛ (field DescribedDelegationToken_principal_type (if 2 <=? version then CompactString else KafkaString))
    ⊛ (field DescribedDelegationToken_principal_name (if 2 <=? version then CompactString else KafkaString))
    ⊛ (if 3 <=? version then field DescribedDelegationToken_token_requester_principal_type CompactString
        else unset DescribedDelegationToken_token_requester_principal_type is_empty [])
    ⊛ (if 3 <=? version then field DescribedDelegationToken_token_requester_principal_name CompactString
        else unset DescribedDelegationToken_token_requester_principal_name is_empty [])
    ⊛ (field DescribedDelegationToken_issue_timestamp Int64)
    ⊛ (field DescribedDelegationToken_expiry_timestamp Int64)
    ⊛ (field DescribedDelegationToken_max_timestamp Int64)
    ⊛ (field DescribedDelegationToken_token_id (if 2 <=? version then CompactString else KafkaString))
    ⊛ (field DescribedDelegationToken_hmac (if 2 <=? version then CompactBytes else Bytes))
    ⊛ (field DescribedDelegationToken_renewers (if 2 <=? version then CompactArray (Struct
        DescribedDelegationTokenRenewer_codec version) else Array (Struct
        DescribedDelegationTokenRenewer_codec version)))
    ⊛ unknown_tags (2 <=? version) DescribedDelegationToken_unknown_tagged_fields).

Definition DescribedDelegationToken_valid (version : Z) (x : DescribedDelegationToken) : Prop :=
  utf8 (DescribedDelegationToken_principal_type x) ∧
  utf8 (DescribedDelegationToken_principal_name x) ∧
  utf8 (DescribedDelegationToken_token_requester_principal_type x) ∧
  utf8 (DescribedDelegationToken_token_requester_principal_name x) ∧
  in_signed 64 (DescribedDelegationToken_issue_timestamp x) ∧
  in_signed 64 (DescribedDelegationToken_expiry_timestamp x) ∧
  in_signed 64 (DescribedDelegationToken_max_timestamp x) ∧
  utf8 (DescribedDelegationToken_token_id x) ∧
  Forall (DescribedDelegationTokenRenewer_valid version) (DescribedDelegationToken_renewers x) ∧
  (if 2 <=? version then unknown_valid 0 (DescribedDelegationToken_unknown_tagged_fields x) else
      DescribedDelegationToken_unknown_tagged_fields x = ∅).

#[global] Instance DescribedDelegationToken_sound version : Sound (DescribedDelegationToken_codec version)
    (DescribedDelegationToken_valid version).
Proof. solve_message. Qed.

(* @ src/crates/kafka-protocol/src/messages/describe_delegation_token_response.rs 20-41 DescribeDelegationTokenResponse *)
Record DescribeDelegationTokenResponse : Type := mkDescribeDelegationTokenResponse {
  DescribeDelegationTokenResponse_error_code : Z;
  DescribeDelegationTokenResponse_tokens : list DescribedDelegationToken;
  DescribeDelegationTokenResponse_throttle_time_ms : Z;
  DescribeDelegationTokenResponse_unknown_tagged_fields : TaggedFields
}.

(* @ src/crates/kafka-protocol/src/messages/describe_delegation_token_response.rs 168-177 DescribeDelegationTokenResponse::default *)
Definition DescribeDelegationTokenResponse_default : DescribeDelegationTokenResponse := {|
  DescribeDelegationTokenResponse_error_code := 0;
  DescribeDelegationTokenResponse_tokens := [];
  DescribeDelegationTokenResponse_throttle_time_ms := 0;
  DescribeDelegationTokenResponse_unknown_tagged_fields := ∅
|}.

(* @ src/crates/kafka-protocol/src/messages/describe_delegation_token_response.rs 83-166 DescribeDelegationTokenResponse::encode, compute_size, decode *)
Definition DescribeDelegationTokenResponse_codec (version : Z) : Codec DescribeDelegationTokenResponse :=
  message 1 3 version (build mkDescribeDelegationTokenResponse
    ⊛ (field DescribeDelegationTokenResponse_error_code Int16)
    ⊛ (field DescribeDelegationTokenResponse_tokens (if 2 <=? version then CompactArray (Struct
        DescribedDelegationToken_codec version) else Array (Struct DescribedDelegationToken_codec version)))
    ⊛ (field DescribeDelegationTokenResponse_throttle_time_ms Int32)
    ⊛ unknown_tags (2 <=? version) DescribeDelegationTokenResponse_unknown_tagged_fields).

Definition DescribeDelegationTokenResponse_valid (version : Z) (x : DescribeDelegationTokenResponse) : Prop
    :=
  in_signed 16 (DescribeDelegationTokenResponse_error_code x) ∧
  Forall (DescribedDelegationToken_valid version) (DescribeDelegationTokenResponse_tokens x) ∧
  in_signed 32 (DescribeDelegationTokenResponse_throttle_time_ms x) ∧
  (if 2 <=? version then unknown_valid 0 (DescribeDelegationTokenResponse_unknown_tagged_fields x) else
      DescribeDelegationTokenResponse_unknown_tagged_fields x = ∅).

#[global] Instance DescribeDelegationTokenResponse_sound version : Sound
    (DescribeDelegationTokenResponse_codec version) (DescribeDelegationTokenResponse_valid version).
Proof. solve_message. Qed.

(* @ src/crates/kafka-protocol/src/messages/describe_delegation_token_response.rs 719-727 DescribeDelegationTokenResponse::header_version *)
Definition DescribeDelegationTokenResponse_header_version (version : Z) : Z := if 2 <=? version then 1 else
    0.

(* @ src/crates/kafka-protocol/src/messages/describe_delegation_token_response.rs 179-182 DescribeDelegationTokenResponse::VERSIONS *)
Definition DescribeDelegationTokenResponse_VERSIONS : Z * Z := (1, 3).

(** ** [describe_user_scram_credentials_request] *)

(* @ src/crates/kafka-protocol/src/messages/describe_user_scram_credentials_request.rs 127-138 UserName *)
Record UserName : Type := mkUserName {
  UserName_name : list byte;
  UserName_unknown_tagged_fields : TaggedFields
}.

(* @ src/crates/kafka-protocol/src/messages/describe_user_scram_credentials_request.rs 220-227 UserName::default *)
Definition UserName_default : UserName := {|
  UserName_name := [];
  UserName_unknown_tagged_fields := ∅
|}.

(* @ src/crates/kafka-protocol/src/messages/describe_user_scram_credentials_request.rs 162-218 UserName::encode, compute_size, decode *)
Definition UserName_codec (version : Z) : Codec UserName :=
  message 0 0 version (build mkUserName
    ⊛ (field UserName_name CompactString)
    ⊛ unknown_tags true UserName_unknown_tagged_fields).

Definition UserName_valid (version : Z) (x : UserName) : Prop :=
  utf8 (UserName_name x) ∧
  unknown_valid 0 (UserName_unknown_tagged_fields x).

#[global] Instance UserName_sound version : Sound (UserName_codec version) (UserName_valid version).
Proof. solve_message. Qed.

(* @ src/crates/kafka-protocol/src/messages/describe_user_scram_credentials_request.rs 20-31 DescribeUserScramCredentialsRequest *)
Record DescribeUserScramCredentialsRequest : Type := mkDescribeUserScramCredentialsRequest {
  DescribeUserScramCredentialsRequest_users : option (list UserName);
  DescribeUserScramCredentialsRequest_unknown_tagged_fields : TaggedFields
}.

(* @ src/crates/kafka-protocol/src/messages/describe_user_scram_credentials_request.rs 113-120 DescribeUserScramCredentialsRequest::default *)
Definition DescribeUserScramCredentialsRequest_default : DescribeUserScramCredentialsRequest := {|
  DescribeUserScramCredentialsRequest_users := Some [];
  DescribeUserScramCredentialsRequest_unknown_tagged_fields := ∅
|}.

(* @ src/crates/kafka-protocol/src/messages/describe_user_scram_credentials_request.rs 55-111 DescribeUserScramCredentialsRequest::encode, compute_size, decode *)
Definition DescribeUserScramCredentialsRequest_codec (version : Z) : Codec
    DescribeUserScramCredentialsRequest :=
  message 0 0 version (build mkDescribeUserScramCredentialsRequest
    ⊛ (field DescribeUserScramCredentialsRequest_users (NullableCompactArray (Struct UserName_codec
        version)))
    ⊛ unknown_tags true DescribeUserScramCredentialsRequest_unknown_tagged_fields).

Definition DescribeUserScramCredentialsRequest_valid (version : Z) (x :
    DescribeUserScramCredentialsRequest) : Prop :=
  opt_all (Forall (UserName_valid version)) (DescribeUserScramCredentialsRequest_users x) ∧
  unknown_valid 0 (DescribeUserScramCredentialsRequest_unknown_tagged_fields x).

#[global] Instance DescribeUserScramCredentialsRequest_sound version : Sound
    (DescribeUserScramCredentialsRequest_codec version) (DescribeUserScramCredentialsRequest_valid version).
Proof. solve_message. Qed.

(* @ src/crates/kafka-protocol/src/messages/describe_user_scram_credentials_request.rs 234-238 DescribeUserScramCredentialsRequest::header_version *)
Definition DescribeUserScramCredentialsRequest_header_version (version : Z) : Z := 2.

(* @ src/crates/kafka-protocol/src/messages/describe_user_scram_credentials_request.rs 122-125 DescribeUserScramCredentialsRequest::VERSIONS *)
Definition DescribeUserScramCredentialsRequest_VERSIONS : Z * Z := (0, 0).

(** ** [describe_user_scram_credentials_response] *)

(* @ src/crates/kafka-protocol/src/messages/describe_user_scram_credentials_response.rs 20-36 CredentialInfo *)
Record CredentialInfo : Type := mkCredentialInfo {
  CredentialInfo_mechanism : Z;
  CredentialInfo_iterations : Z;
  CredentialInfo_unknown_tagged_fields : TaggedFields
}.

(* @ src/crates/kafka-protocol/src/messages/describe_user_scram_credentials_response.rs 131-139 CredentialInfo::default *)
Definition CredentialInfo_default : CredentialInfo := {|
  CredentialInfo_mechanism := 0;
  CredentialInfo_iterations := 0;
  CredentialInfo_unknown_tagged_fields := ∅
|}.

(* @ src/crates/kafka-protocol/src/messages/describe_user_scram_credentials_response.rs 69-129 CredentialInfo::encode, compute_size, decode *)
Definition CredentialInfo_codec (version : Z) : Codec CredentialInfo :=
  message 0 0 version (build mkCredentialInfo
    ⊛ (field CredentialInfo_mechanism Int8)
    ⊛ (field CredentialInfo_iterations Int32)
    ⊛ unknown_tags true CredentialInfo_unknown_tagged_fields).

Definition CredentialInfo_valid (version : Z) (x : CredentialInfo) : Prop :=
  in_signed 8 (CredentialInfo_mechanism x) ∧
  in_signed 32 (CredentialInfo_iterations x) ∧
  unknown_valid 0 (CredentialInfo_unknown_tagged_fields x).

#[global] Instance CredentialInfo_sound version : Sound (CredentialInfo_codec version)
    (CredentialInfo_valid version).
Proof. solve_message. Qed.

(* @ src/crates/kafka-protocol/src/messages/describe_user_scram_credentials_response.rs 310-336 DescribeUserScramCredentialsResult *)
Record DescribeUserScramCredentialsResult : Type := mkDescribeUserScramCredentialsResult {
  DescribeUserScramCredentialsResult_user : list byte;
  DescribeUserScramCredentialsResult_error_code : Z;
  DescribeUserScramCredentialsResult_error_message : option (list byte);
  DescribeUserScramCredentialsResult_credential_infos : list CredentialInfo;
  DescribeUserScramCredentialsResult_unknown_tagged_fields : TaggedFields
}.

(* @ src/crates/kafka-protocol/src/messages/describe_user_scram_credentials_response.rs 458-468 DescribeUserScramCredentialsResult::default *)
Definition DescribeUserScramCredentialsResult_default : DescribeUserScramCredentialsResult := {|
  DescribeUserScramCredentialsResult_user := [];
  DescribeUserScramCredentialsResult_error_code := 0;
  DescribeUserScramCredentialsResult_error_message := Some [];
  DescribeUserScramCredentialsResult_credential_infos := [];
  DescribeUserScramCredentialsResult_unknown_tagged_fields := ∅
|}.

(* @ src/crates/kafka-protocol/src/messages/describe_user_scram_credentials_response.rs 387-456 DescribeUserScramCredentialsResult::encode, compute_size, decode *)
Definition DescribeUserScramCredentialsResult_codec (version : Z) : Codec
    DescribeUserScramCredentialsResult :=
  message 0 0 version (build mkDescribeUserScramCredentialsResult
    ⊛ (field DescribeUserScramCredentialsResult_user CompactString)
    ⊛ (field DescribeUserScramCredentialsResult_error_code Int16)
    ⊛ (field DescribeUserScramCredentialsResult_error_message NullableCompactString)
    ⊛ (field DescribeUserScramCredentialsResult_credential_infos (CompactArray (Struct CredentialInfo_codec
        version)))
    ⊛ unknown_tags true DescribeUserScramCredentialsResult_unknown_tagged_fields).

Definition DescribeUserScramCredentialsResult_valid (version : Z) (x : DescribeUserScramCredentialsResult)
    : Prop :=
  utf8 (DescribeUserScramCredentialsResult_user x) ∧
  in_signed 16 (DescribeUserScramCredentialsResult_error_code x) ∧
  opt_all utf8 (DescribeUserScramCredentialsResult_error_message x) ∧
  Forall (CredentialInfo_valid version) (DescribeUserScramCredentialsResult_credential_infos x) ∧
  unknown_valid 0 (DescribeUserScramCredentialsResult_unknown_tagged_fields x).

#[global] Instance DescribeUserScramCredentialsResult_sound version : Sound
    (DescribeUserScramCredentialsResult_codec version) (DescribeUserScramCredentialsResult_valid version).
Proof. solve_message. Qed.

(* @ src/crates/kafka-protocol/src/messages/describe_user_scram_credentials_response.rs 146-172 DescribeUserScramCredentialsResponse *)
Record DescribeUserScramCredentialsResponse : Type := mkDescribeUserScramCredentialsResponse {
  DescribeUserScramCredentialsResponse_throttle_time_ms : Z;
  DescribeUserScramCredentialsResponse_error_code : Z;
  DescribeUserScramCredentialsResponse_error_message : option (list byte);
  DescribeUserScramCredentialsResponse_results : list DescribeUserScramCredentialsResult;
  DescribeUserScramCredentialsResponse_unknown_tagged_fields : TaggedFields
}.

(* @ src/crates/kafka-protocol/src/messages/describe_user_scram_credentials_response.rs 293-303 DescribeUserScramCredentialsResponse::default *)
Definition DescribeUserScramCredentialsResponse_default : DescribeUserScramCredentialsResponse := {|
  DescribeUserScramCredentialsResponse_throttle_time_ms := 0;
  DescribeUserScramCredentialsResponse_error_code := 0;
  DescribeUserScramCredentialsResponse_error_message := Some [];
  DescribeUserScramCredentialsResponse_results := [];
  DescribeUserScramCredentialsResponse_unknown_tagged_fields := ∅
|}.

(* @ src/crates/kafka-protocol/src/messages/describe_user_scram_credentials_response.rs 223-291 DescribeUserScramCredentialsResponse::encode, compute_size, decode *)
Definition DescribeUserScramCredentialsResponse_codec (version : Z) : Codec
    DescribeUserScramCredentialsResponse :=
  message 0 0 version (build mkDescribeUserScramCredentialsResponse
    ⊛ (field DescribeUserScramCredentialsResponse_throttle_time_ms Int32)
    ⊛ (field DescribeUserScramCredentialsResponse_error_code Int16)
    ⊛ (field DescribeUserScramCredentialsResponse_error_message NullableCompactString)
    ⊛ (field DescribeUserScramCredentialsResponse_results (CompactArray (Struct
        DescribeUserScramCredentialsResult_codec version)))
    ⊛ unknown_tags true DescribeUserScramCredentialsResponse_unknown_tagged_fields).

Definition DescribeUserScramCredentialsResponse_valid (version : Z) (x :
    DescribeUserScramCredentialsResponse) : Prop :=
  in_signed 32 (DescribeUserScramCredentialsResponse_throttle_time_ms x) ∧
  in_signed 16 (DescribeUserScramCredentialsResponse_error_code x) ∧
  opt_all utf8 (DescribeUserScramCredentialsResponse_error_message x) ∧
  Forall (DescribeUserScramCredentialsResult_valid version) (DescribeUserScramCredentialsResponse_results
      x) ∧
  unknown_valid 0 (DescribeUserScramCredentialsResponse_unknown_tagged_fields x).

#[global] Instance DescribeUserScramCredentialsResponse_sound version : Sound
    (DescribeUserScramCredentialsResponse_codec version) (DescribeUserScramCredentialsResponse_valid
    version).
Proof. solve_message. Qed.

(* @ src/crates/kafka-protocol/src/messages/describe_user_scram_credentials_response.rs 475-479 DescribeUserScramCredentialsResponse::header_version *)
Definition DescribeUserScramCredentialsResponse_header_version (version : Z) : Z := 1.

(* @ src/crates/kafka-protocol/src/messages/describe_user_scram_credentials_response.rs 305-308 DescribeUserScramCredentialsResponse::VERSIONS *)
Definition DescribeUserScramCredentialsResponse_VERSIONS : Z * Z := (0, 0).

(** ** [expire_delegation_token_request] *)

(* @ src/crates/kafka-protocol/src/messages/expire_delegation_token_request.rs 20-36 ExpireDelegationTokenRequest *)
Record ExpireDelegationTokenRequest : Type := mkExpireDelegationTokenRequest {
  ExpireDelegationTokenRequest_hmac : list byte;
  ExpireDelegationTokenRequest_expiry_time_period_ms : Z;
  ExpireDelegationTokenRequest_unknown_tagged_fields : TaggedFields
}.

(* @ src/crates/kafka-protocol/src/messages/expire_delegation_token_request.rs 149-157 ExpireDelegationTokenRequest::default *)
Definition ExpireDelegationTokenRequest_default : ExpireDelegationTokenRequest := {|
  ExpireDelegationTokenRequest_hmac := [];
  ExpireDelegationTokenRequest_expiry_time_period_ms := 0;
  ExpireDelegationTokenRequest_unknown_tagged_fields := ∅
|}.

(* @ src/crates/kafka-protocol/src/messages/expire_delegation_token_request.rs 69-147 ExpireDelegationTokenRequest::encode, compute_size, decode *)
Definition ExpireDelegationTokenRequest_codec (version : Z) : Codec ExpireDelegationTokenRequest :=
  message 1 2 version (build mkExpireDelegationTokenRequest
    ⊛ (field ExpireDelegationTokenRequest_hmac (if 2 <=? version then CompactBytes else Bytes))
    ⊛ (field ExpireDelegationTokenRequest_expiry_time_period_ms Int64)
    ⊛ unknown_tags (2 <=? version) ExpireDelegationTokenRequest_unknown_tagged_fields).

Definition ExpireDelegationTokenRequest_valid (version : Z) (x : ExpireDelegationTokenRequest) : Prop :=
  in_signed 64 (ExpireDelegationTokenRequest_expiry_time_period_ms x) ∧
  (if 2 <=? version then unknown_valid 0 (ExpireDelegationTokenRequest_unknown_tagged_fields x) else
      ExpireDelegationTokenRequest_unknown_tagged_fields x = ∅).

#[global] Instance ExpireDelegationTokenRequest_sound version : Sound (ExpireDelegationTokenRequest_codec
    version) (ExpireDelegationTokenRequest_valid version).
Proof. solve_message. Qed.

(* @ src/crates/kafka-protocol/src/messages/expire_delegation_token_request.rs 164-172 ExpireDelegationTokenRequest::header_version *)
Definition ExpireDelegationTokenRequest_header_version (version : Z) : Z := if 2 <=? version then 2 else 1.

(* @ src/crates/kafka-protocol/src/messages/expire_delegation_token_request.rs 159-162 ExpireDelegationTokenRequest::VERSIONS *)
Definition ExpireDelegationTokenRequest_VERSIONS : Z * Z := (1, 2).

(** ** [expire_delegation_token_response] *)

(* @ src/crates/kafka-protocol/src/messages/expire_delegation_token_response.rs 20-41 ExpireDelegationTokenResponse *)
Record ExpireDelegationTokenResponse : Type := mkExpireDelegationTokenResponse {
  ExpireDelegationTokenResponse_error_code : Z;
  ExpireDelegationTokenResponse_expiry_timestamp_ms : Z;
  ExpireDelegationTokenResponse_throttle_time_ms : Z;
  ExpireDelegationTokenResponse_unknown_tagged_fields : TaggedFields
}.

(* @ src/crates/kafka-protocol/src/messages/expire_delegation_token_response.rs 155-164 ExpireDelegationTokenResponse::default *)
Definition ExpireDelegationTokenResponse_default : ExpireDelegationTokenResponse := {|
  ExpireDelegationTokenResponse_error_code := 0;
  ExpireDelegationTokenResponse_expiry_timestamp_ms := 0;
  ExpireDelegationTokenResponse_throttle_time_ms := 0;
  ExpireDelegationTokenResponse_unknown_tagged_fields := ∅
|}.

(* @ src/crates/kafka-protocol/src/messages/expire_delegation_token_response.rs 83-153 ExpireDelegationTokenResponse::encode, compute_size, decode *)
Definition ExpireDelegationTokenResponse_codec (version : Z) : Codec ExpireDelegationTokenResponse :=
  message 1 2 version (build mkExpireDelegationTokenResponse
    ⊛ (field ExpireDelegationTokenResponse_error_code Int16)
    ⊛ (field ExpireDelegationTokenResponse_expiry_timestamp_ms Int64)
    ⊛ (field ExpireDelegationTokenResponse_throttle_time_ms Int32)
    ⊛ unknown_tags (2 <=? version) ExpireDelegationTokenResponse_unknown_tagged_fields).

Definition ExpireDelegationTokenResponse_valid (version : Z) (x : ExpireDelegationTokenResponse) : Prop :=
  in_signed 16 (ExpireDelegationTokenResponse_error_code x) ∧
  in_signed 64 (ExpireDelegationTokenResponse_expiry_timestamp_ms x) ∧
  in_signed 32 (ExpireDelegationTokenResponse_throttle_time_ms x) ∧
  (if 2 <=? version then unknown_valid 0 (ExpireDelegationTokenResponse_unknown_tagged_fields x) else
      ExpireDelegationTokenResponse_unknown_tagged_fields x = ∅).

#[global] Instance ExpireDelegationTokenResponse_sound version : Sound (ExpireDelegationTokenResponse_codec
    version) (ExpireDelegationTokenResponse_valid version).
Proof. solve_message. Qed.

(* @ src/crates/kafka-protocol/src/messages/expire_delegation_token_response.rs 171-179 ExpireDelegationTokenResponse::header_version *)
Definition ExpireDelegationTokenResponse_header_version (version : Z) : Z := if 2 <=? version then 1 else 0.

(* @ src/crates/kafka-protocol/src/messages/expire_delegation_token_response.rs 166-169 ExpireDelegationTokenResponse::VERSIONS *)
Definition ExpireDelegationTokenResponse_VERSIONS : Z * Z := (1, 2).

(** ** [renew_delegation_token_request] *)

(* @ src/crates/kafka-protocol/src/messages/renew_delegation_token_request.rs 20-36 RenewDelegationTokenRequest *)
Record RenewDelegationTokenRequest : Type := mkRenewDelegationTokenRequest {
  RenewDelegationTokenRequest_hmac : list byte;
  RenewDelegationTokenRequest_renew_period_ms : Z;
  RenewDelegationTokenRequest_unknown_tagged_fields : TaggedFields
}.

(* @ src/crates/kafka-protocol/src/messages/renew_delegation_token_request.rs 149-157 RenewDelegationTokenRequest::default *)
Definition RenewDelegationTokenRequest_default : RenewDelegationTokenRequest := {|
  RenewDelegationTokenRequest_hmac := [];
  RenewDelegationTokenRequest_renew_period_ms := 0;
  RenewDelegationTokenRequest_unknown_tagged_fields := ∅
|}.

(* @ src/crates/kafka-protocol/src/messages/renew_delegation_token_request.rs 69-147 RenewDelegationTokenRequest::encode, compute_size, decode *)
Definition RenewDelegationTokenRequest_codec (version : Z) : Codec RenewDelegationTokenRequest :=
  message 1 2 version (build mkRenewDelegationTokenRequest
    ⊛ (field RenewDelegationTokenRequest_hmac (if 2 <=? version then CompactBytes else Bytes))
    ⊛ (field RenewDelegationTokenRequest_renew_period_ms Int64)
    ⊛ unknown_tags (2 <=? version) RenewDelegationTokenRequest_unknown_tagged_fields).

Definition RenewDelegationTokenRequest_valid (version : Z) (x : RenewDelegationTokenRequest) : Prop :=
  in_signed 64 (RenewDelegationTokenRequest_renew_period_ms x) ∧
  (if 2 <=? version then unknown_valid 0 (RenewDelegationTokenRequest_unknown_tagged_fields x) else
      RenewDelegationTokenRequest_unknown_tagged_fields x = ∅).

#[global] Instance RenewDelegationTokenRequest_sound version : Sound (RenewDelegationTokenRequest_codec
    version) (RenewDelegationTokenRequest_valid version).
Proof. solve_message. Qed.

(* @ src/crates/kafka-protocol/src/messages/renew_delegation_token_request.rs 164-172 RenewDelegationTokenRequest::header_version *)
Definition RenewDelegationTokenRequest_header_version (version : Z) : Z := if 2 <=? version then 2 else 1.

(* @ src/crates/kafka-protocol/src/messages/renew_delegation_token_request.rs 159-162 RenewDelegationTokenRequest::VERSIONS *)
Definition RenewDelegationTokenRequest_VERSIONS : Z * Z := (1, 2).

(** ** [renew_delegation_token_response] *)

(* @ src/crates/kafka-protocol/src/messages/renew_delegation_token_response.rs 20-41 RenewDelegationTokenResponse *)
Record RenewDelegationTokenResponse : Type := mkRenewDelegationTokenResponse {
  RenewDelegationTokenResponse_error_code : Z;
  RenewDelegationTokenResponse_expiry_timestamp_ms : Z;
  RenewDelegationTokenResponse_throttle_time_ms : Z;
  RenewDelegationTokenResponse_unknown_tagged_fields : TaggedFields
}.

(* @ src/crates/kafka-protocol/src/messages/renew_delegation_token_response.rs 155-164 RenewDelegationTokenResponse::default *)
Definition RenewDelegationTokenResponse_default : RenewDelegationTokenResponse := {|
  RenewDelegationTokenResponse_error_code := 0;
  RenewDelegationTokenResponse_expiry_timestamp_ms := 0;
  RenewDelegationTokenResponse_throttle_time_ms := 0;
  RenewDelegationTokenResponse_unknown_tagged_fields := ∅
|}.

(* @ src/crates/kafka-protocol/src/messages/renew_delegation_token_response.rs 83-153 RenewDelegationTokenResponse::encode, compute_size, decode *)
Definition RenewDelegationTokenResponse_codec (version : Z) : Codec RenewDelegationTokenResponse :=
  message 1 2 version (build mkRenewDelegationTokenResponse
    ⊛ (field RenewDelegationTokenResponse_error_code Int16)
    ⊛ (field RenewDelegationTokenResponse_expiry_timestamp_ms Int64)
    ⊛ (field RenewDelegationTokenResponse_throttle_time_ms Int32)
    ⊛ unknown_tags (2 <=? version) RenewDelegationTokenResponse_unknown_tagged_fields).

Definition RenewDelegationTokenResponse_valid (version : Z) (x : RenewDelegationTokenResponse) : Prop :=
  in_signed 16 (RenewDelegationTokenResponse_error_code x) ∧
  in_signed 64 (RenewDelegationTokenResponse_expiry_timestamp_ms x) ∧
  in_signed 32 (RenewDelegationTokenResponse_throttle_time_ms x) ∧
  (if 2 <=? version then unknown_valid 0 (RenewDelegationTokenResponse_unknown_tagged_fields x) else
      RenewDelegationTokenResponse_unknown_tagged_fields x = ∅).

#[global] Instance RenewDelegationTokenResponse_sound version : Sound (RenewDelegationTokenResponse_codec
    version) (RenewDelegationTokenResponse_valid version).
Proof. solve_message. Qed.

(* @ src/crates/kafka-protocol/src/messages/renew_delegation_token_response.rs 171-179 RenewDelegationTokenResponse::header_version *)
Definition RenewDelegationTokenResponse_header_version (version : Z) : Z := if 2 <=? version then 1 else 0.

(* @ src/crates/kafka-protocol/src/messages/renew_delegation_token_response.rs 166-169 RenewDelegationTokenResponse::VERSIONS *)
Definition RenewDelegationTokenResponse_VERSIONS : Z * Z := (1, 2).

(** ** [sasl_authenticate_request] *)

(* @ src/crates/kafka-protocol/src/messages/sasl_authenticate_request.rs 20-31 SaslAuthenticateRequest *)
Record SaslAuthenticateRequest : Type := mkSaslAuthenticateRequest {
  SaslAuthenticateRequest_auth_bytes : list byte;
  SaslAuthenticateRequest_unknown_tagged_fields : TaggedFields
}.

(* @ src/crates/kafka-protocol/src/messages/sasl_authenticate_request.rs 131-138 SaslAuthenticateRequest::default *)
Definition SaslAuthenticateRequest_default : SaslAuthenticateRequest := {|
  SaslAuthenticateRequest_auth_bytes := [];
  SaslAuthenticateRequest_unknown_tagged_fields := ∅
|}.

(* @ src/crates/kafka-protocol/src/messages/sasl_authenticate_request.rs 55-129 SaslAuthenticateRequest::encode, compute_size, decode *)
Definition SaslAuthenticateRequest_codec (version : Z) : Codec SaslAuthenticateRequest :=
  message 0 2 version (build mkSaslAuthenticateRequest
    ⊛ (field SaslAuthenticateRequest_auth_bytes (if 2 <=? version then CompactBytes else Bytes))
    ⊛ unknown_tags (2 <=? version) SaslAuthenticateRequest_unknown_tagged_fields).

Definition SaslAuthenticateRequest_valid (version : Z) (x : SaslAuthenticateRequest) : Prop :=
  (if 2 <=? version then unknown_valid 0 (SaslAuthenticateRequest_unknown_tagged_fields x) else
      SaslAuthenticateRequest_unknown_tagged_fields x = ∅).

#[global] Instance SaslAuthenticateRequest_sound version : Sound (SaslAuthenticateRequest_codec version)
    (SaslAuthenticateRequest_valid version).
Proof. solve_message. Qed.

(* @ src/crates/kafka-protocol/src/messages/sasl_authenticate_request.rs 145-153 SaslAuthenticateRequest::header_version *)
Definition SaslAuthenticateRequest_header_version (version : Z) : Z := if 2 <=? version then 2 else 1.

(* @ src/crates/kafka-protocol/src/messages/sasl_authenticate_request.rs 140-143 SaslAuthenticateRequest::VERSIONS *)
Definition SaslAuthenticateRequest_VERSIONS : Z * Z := (0, 2).

(** ** [sasl_authenticate_response] *)

(* @ src/crates/kafka-protocol/src/messages/sasl_authenticate_response.rs 20-46 SaslAuthenticateResponse *)
Record SaslAuthenticateResponse : Type := mkSaslAuthenticateResponse {
  SaslAuthenticateResponse_error_code : Z;
  SaslAuthenticateResponse_error_message : option (list byte);
  SaslAuthenticateResponse_auth_bytes : list byte;
  SaslAuthenticateResponse_session_lifetime_ms : Z;
  SaslAuthenticateResponse_unknown_tagged_fields : TaggedFields
}.

(* @ src/crates/kafka-protocol/src/messages/sasl_authenticate_response.rs 205-215 SaslAuthenticateResponse::default *)
Definition SaslAuthenticateResponse_default : SaslAuthenticateResponse := {|
  SaslAuthenticateResponse_error_code := 0;
  SaslAuthenticateResponse_error_message := Some [];
  SaslAuthenticateResponse_auth_bytes := [];
  SaslAuthenticateResponse_session_lifetime_ms := 0;
  SaslAuthenticateResponse_unknown_tagged_fields := ∅
|}.

(* @ src/crates/kafka-protocol/src/messages/sasl_authenticate_response.rs 97-203 SaslAuthenticateResponse::encode, compute_size, decode *)
Definition SaslAuthenticateResponse_codec (version : Z) : Codec SaslAuthenticateResponse :=
  message 0 2 version (build mkSaslAuthenticateResponse
    ⊛ (field SaslAuthenticateResponse_error_code Int16)
    ⊛ (field SaslAuthenticateResponse_error_message (if 2 <=? version then NullableCompactString else
        NullableString))
    ⊛ (field SaslAuthenticateResponse_auth_bytes (if 2 <=? version then CompactBytes else Bytes))
    ⊛ (if 1 <=? version then field SaslAuthenticateResponse_session_lifetime_ms Int64 else ignored 0)
    ⊛ unknown_tags (2 <=? version) SaslAuthenticateResponse_unknown_tagged_fields).

Definition SaslAuthenticateResponse_valid (version : Z) (x : SaslAuthenticateResponse) : Prop :=
  in_signed 16 (SaslAuthenticateResponse_error_code x) ∧
  opt_all utf8 (SaslAuthenticateResponse_error_message x) ∧
  (if 1 <=? version then in_signed 64 (SaslAuthenticateResponse_session_lifetime_ms x) else
      SaslAuthenticateResponse_session_lifetime_ms x = 0) ∧
  (if 2 <=? version then unknown_valid 0 (SaslAuthenticateResponse_unknown_tagged_fields x) else
      SaslAuthenticateResponse_unknown_tagged_fields x = ∅).

#[global] Instance SaslAuthenticateResponse_sound version : Sound (SaslAuthenticateResponse_codec version)
    (SaslAuthenticateResponse_valid version).
Proof. solve_message. Qed.

(* @ src/crates/kafka-protocol/src/messages/sasl_authenticate_response.rs 222-230 SaslAuthenticateResponse::header_version *)
Definition SaslAuthenticateResponse_header_version (version : Z) : Z := if 2 <=? version then 1 else 0.

(* @ src/crates/kafka-protocol/src/messages/sasl_authenticate_response.rs 217-220 SaslAuthenticateResponse::VERSIONS *)
Definition SaslAuthenticateResponse_VERSIONS : Z * Z := (0, 2).

(** ** [sasl_handshake_request] *)

(* @ src/crates/kafka-protocol/src/messages/sasl_handshake_request.rs 20-28 SaslHandshakeRequest *)
Record SaslHandshakeRequest : Type := mkSaslHandshakeRequest {
  SaslHandshakeRequest_mechanism : list byte
}.

(* @ src/crates/kafka-protocol/src/messages/sasl_handshake_request.rs 71-77 SaslHandshakeRequest::default *)
Definition SaslHandshakeRequest_default : SaslHandshakeRequest := {|
  SaslHandshakeRequest_mechanism := []
|}.

(* @ src/crates/kafka-protocol/src/messages/sasl_handshake_request.rs 42-69 SaslHandshakeRequest::encode, compute_size, decode *)
Definition SaslHandshakeRequest_codec (version : Z) : Codec SaslHandshakeRequest :=
  message 0 1 version (build mkSaslHandshakeRequest
    ⊛ (field SaslHandshakeRequest_mechanism KafkaString)).

Definition SaslHandshakeRequest_valid (version : Z) (x : SaslHandshakeRequest) : Prop :=
  utf8 (SaslHandshakeRequest_mechanism x).

#[global] Instance SaslHandshakeRequest_sound version : Sound (SaslHandshakeRequest_codec version)
    (SaslHandshakeRequest_valid version).
Proof. solve_message. Qed.

(* @ src/crates/kafka-protocol/src/messages/sasl_handshake_request.rs 84-88 SaslHandshakeRequest::header_version *)
Definition SaslHandshakeRequest_header_version (version : Z) : Z := 1.

(* @ src/crates/kafka-protocol/src/messages/sasl_handshake_request.rs 79-82 SaslHandshakeRequest::VERSIONS *)
Definition SaslHandshakeRequest_VERSIONS : Z * Z := (0, 1).

(** ** [sasl_handshake_response] *)

(* @ src/crates/kafka-protocol/src/messages/sasl_handshake_response.rs 20-33 SaslHandshakeResponse *)
Record SaslHandshakeResponse : Type := mkSaslHandshakeResponse {
  SaslHandshakeResponse_error_code : Z;
  SaslHandshakeResponse_mechanisms : list (list byte)
}.

(* @ src/crates/kafka-protocol/src/messages/sasl_handshake_response.rs 91-98 SaslHandshakeResponse::default *)
Definition SaslHandshakeResponse_default : SaslHandshakeResponse := {|
  SaslHandshakeResponse_error_code := 0;
  SaslHandshakeResponse_mechanisms := []
|}.

(* @ src/crates/kafka-protocol/src/messages/sasl_handshake_response.rs 56-89 SaslHandshakeResponse::encode, compute_size, decode *)
Definition SaslHandshakeResponse_codec (version : Z) : Codec SaslHandshakeResponse :=
  message 0 1 version (build mkSaslHandshakeResponse
    ⊛ (field SaslHandshakeResponse_error_code Int16)
    ⊛ (field SaslHandshakeResponse_mechanisms (Array KafkaString))).

Definition SaslHandshakeResponse_valid (version : Z) (x : SaslHandshakeResponse) : Prop :=
  in_signed 16 (SaslHandshakeResponse_error_code x) ∧
  Forall utf8 (SaslHandshakeResponse_mechanisms x).

#[global] Instance SaslHandshakeResponse_sound version : Sound (SaslHandshakeResponse_codec version)
    (SaslHandshakeResponse_valid version).
Proof. solve_message. Qed.

(* @ src/crates/kafka-protocol/src/messages/sasl_handshake_response.rs 105-109 SaslHandshakeResponse::header_version *)
Definition SaslHandshakeResponse_header_version (version : Z) : Z := 0.

(* @ src/crates/kafka-protocol/src/messages/sasl_handshake_response.rs 100-103 SaslHandshakeResponse::VERSIONS *)
Definition SaslHandshakeResponse_VERSIONS : Z * Z := (0, 1).
