(* ===== verification/MessagesShare.v ===== *)
(** * The messages of share and streams groups

    [src/crates/kafka-protocol/src/messages/]: one block per structure of the
    generated modules listed below, in the order of their files.  A block is the
    structure, its [Default], its codec in the style of [MessageCodec] (the
    branches on [version] are those of [encode], [compute_size] and [decode]),
    what makes a value expressible in a version ([_valid]: the fields are values
    of their Rust types, a field the version silently drops has its default, and
    unknown tags are not those of known fields), and the proof that the codec is
    sound.  A structure whose name several modules share carries the name of its
    message.

    alter_share_group_offsets_request, alter_share_group_offsets_response,
    delete_share_group_offsets_request, delete_share_group_offsets_response,
    delete_share_group_state_request, delete_share_group_state_response,
    describe_share_group_offsets_request,
    describe_share_group_offsets_response,
    initialize_share_group_state_request,
    initialize_share_group_state_response, read_share_group_state_request,
    read_share_group_state_response, read_share_group_state_summary_request,
    read_share_group_state_summary_response, share_acknowledge_request,
    share_acknowledge_response, share_fetch_request, share_fetch_response,
    share_group_describe_request, share_group_describe_response,
    share_group_heartbeat_request, share_group_heartbeat_response,
    streams_group_describe_request, streams_group_describe_response,
    streams_group_heartbeat_request, streams_group_heartbeat_response,
    write_share_group_state_request, write_share_group_state_response. *)

From S2P Require Import Prelude Buf Types MessageCodec.
Open Scope Z_scope.

(** ** [alter_share_group_offsets_request] *)

(* @ src/crates/kafka-protocol/src/messages/alter_share_group_offsets_request.rs 146-162 AlterShareGroupOffsetsRequestPartition *)
Record AlterShareGroupOffsetsRequestPartition : Type := mkAlterShareGroupOffsetsRequestPartition {
  AlterShareGroupOffsetsRequestPartition_partition_index : Z;
  AlterShareGroupOffsetsRequestPartition_start_offset : Z;
  AlterShareGroupOffsetsRequestPartition_unknown_tagged_fields : TaggedFields
}.

(* @ src/crates/kafka-protocol/src/messages/alter_share_group_offsets_request.rs 257-265 AlterShareGroupOffsetsRequestPartition::default *)
Definition AlterShareGroupOffsetsRequestPartition_default : AlterShareGroupOffsetsRequestPartition := {|
  AlterShareGroupOffsetsRequestPartition_partition_index := 0;
  AlterShareGroupOffsetsRequestPartition_start_offset := 0;
  AlterShareGroupOffsetsRequestPartition_unknown_tagged_fields := ∅
|}.

(* @ src/crates/kafka-protocol/src/messages/alter_share_group_offsets_request.rs 195-255 AlterShareGroupOffsetsRequestPartition::encode, compute_size, decode *)
Definition AlterShareGroupOffsetsRequestPartition_codec (version : Z) : Codec
    AlterShareGroupOffsetsRequestPartition :=
  message 0 0 version (build mkAlterShareGroupOffsetsRequestPartition
    ⊛ (field AlterShareGroupOffsetsRequestPartition_partition_index Int32)
    ⊛ (field AlterShareGroupOffsetsRequestPartition_start_offset Int64)
    ⊛ unknown_tags true AlterShareGroupOffsetsRequestPartition_unknown_tagged_fields).

Definition AlterShareGroupOffsetsRequestPartition_valid (version : Z) (x :
    AlterShareGroupOffsetsRequestPartition) : Prop :=
  in_signed 32 (AlterShareGroupOffsetsRequestPartition_partition_index x) ∧
  in_signed 64 (AlterShareGroupOffsetsRequestPartition_start_offset x) ∧
  unknown_valid 0 (AlterShareGroupOffsetsRequestPartition_unknown_tagged_fields x).

#[global] Instance AlterShareGroupOffsetsRequestPartition_sound version : Sound
    (AlterShareGroupOffsetsRequestPartition_codec version) (AlterShareGroupOffsetsRequestPartition_valid
    version).
Proof. solve_message. Qed.

(* @ src/crates/kafka-protocol/src/messages/alter_share_group_offsets_request.rs 272-288 AlterShareGroupOffsetsRequestTopic *)
Record AlterShareGroupOffsetsRequestTopic : Type := mkAlterShareGroupOffsetsRequestTopic {
  AlterShareGroupOffsetsRequestTopic_topic_name : list byte;
  AlterShareGroupOffsetsRequestTopic_partitions : list AlterShareGroupOffsetsRequestPartition;
  AlterShareGroupOffsetsRequestTopic_unknown_tagged_fields : TaggedFields
}.

(* @ src/crates/kafka-protocol/src/messages/alter_share_group_offsets_request.rs 384-392 AlterShareGroupOffsetsRequestTopic::default *)
Definition AlterShareGroupOffsetsRequestTopic_default : AlterShareGroupOffsetsRequestTopic := {|
  AlterShareGroupOffsetsRequestTopic_topic_name := [];
  AlterShareGroupOffsetsRequestTopic_partitions := [];
  AlterShareGroupOffsetsRequestTopic_unknown_tagged_fields := ∅
|}.

(* @ src/crates/kafka-protocol/src/messages/alter_share_group_offsets_request.rs 321-382 AlterShareGroupOffsetsRequestTopic::encode, compute_size, decode *)
Definition AlterShareGroupOffsetsRequestTopic_codec (version : Z) : Codec
    AlterShareGroupOffsetsRequestTopic :=
  message 0 0 version (build mkAlterShareGroupOffsetsRequestTopic
    ⊛ (field AlterShareGroupOffsetsRequestTopic_topic_name CompactString)
    ⊛ (field AlterShareGroupOffsetsRequestTopic_partitions (CompactArray (Struct
        AlterShareGroupOffsetsRequestPartition_codec version)))
    ⊛ unknown_tags true AlterShareGroupOffsetsRequestTopic_unknown_tagged_fields).

Definition AlterShareGroupOffsetsRequestTopic_valid (version : Z) (x : AlterShareGroupOffsetsRequestTopic)
    : Prop :=
  utf8 (AlterShareGroupOffsetsRequestTopic_topic_name x) ∧
  Forall (AlterShareGroupOffsetsRequestPartition_valid version)
      (AlterShareGroupOffsetsRequestTopic_partitions x) ∧
  unknown_valid 0 (AlterShareGroupOffsetsRequestTopic_unknown_tagged_fields x).

#[global] Instance AlterShareGroupOffsetsRequestTopic_sound version : Sound
    (AlterShareGroupOffsetsRequestTopic_codec version) (AlterShareGroupOffsetsRequestTopic_valid version).
Proof. solve_message. Qed.

(* @ src/crates/kafka-protocol/src/messages/alter_share_group_offsets_request.rs 20-36 AlterShareGroupOffsetsRequest *)
Record AlterShareGroupOffsetsRequest : Type := mkAlterShareGroupOffsetsRequest {
  AlterShareGroupOffsetsRequest_group_id : list byte;
  AlterShareGroupOffsetsRequest_topics : list AlterShareGroupOffsetsRequestTopic;
  AlterShareGroupOffsetsRequest_unknown_tagged_fields : TaggedFields
}.

(* @ src/crates/kafka-protocol/src/messages/alter_share_group_offsets_request.rs 131-139 AlterShareGroupOffsetsRequest::default *)
Definition AlterShareGroupOffsetsRequest_default : AlterShareGroupOffsetsRequest := {|
  AlterShareGroupOffsetsRequest_group_id := [];
  AlterShareGroupOffsetsRequest_topics := [];
  AlterShareGroupOffsetsRequest_unknown_tagged_fields := ∅
|}.

(* @ src/crates/kafka-protocol/src/messages/alter_share_group_offsets_request.rs 69-129 AlterShareGroupOffsetsRequest::encode, compute_size, decode *)
Definition AlterShareGroupOffsetsRequest_codec (version : Z) : Codec AlterShareGroupOffsetsRequest :=
  message 0 0 version (build mkAlterShareGroupOffsetsRequest
    ⊛ (field AlterShareGroupOffsetsRequest_group_id CompactString)
    ⊛ (field AlterShareGroupOffsetsRequest_topics (CompactArray (Struct
        AlterShareGroupOffsetsRequestTopic_codec version)))
    ⊛ unknown_tags true AlterShareGroupOffsetsRequest_unknown_tagged_fields).

Definition AlterShareGroupOffsetsRequest_valid (version : Z) (x : AlterShareGroupOffsetsRequest) : Prop :=
  utf8 (AlterShareGroupOffsetsRequest_group_id x) ∧
  Forall (AlterShareGroupOffsetsRequestTopic_valid version) (AlterShareGroupOffsetsRequest_topics x) ∧
  unknown_valid 0 (AlterShareGroupOffsetsRequest_unknown_tagged_fields x).

#[global] Instance AlterShareGroupOffsetsRequest_sound version : Sound (AlterShareGroupOffsetsRequest_codec
    version) (AlterShareGroupOffsetsRequest_valid version).
Proof. solve_message. Qed.

(* @ src/crates/kafka-protocol/src/messages/alter_share_group_offsets_request.rs 399-403 AlterShareGroupOffsetsRequest::header_version *)
Definition AlterShareGroupOffsetsRequest_header_version (version : Z) : Z := 2.

(* @ src/crates/kafka-protocol/src/messages/alter_share_group_offsets_request.rs 141-144 AlterShareGroupOffsetsRequest::VERSIONS *)
Definition AlterShareGroupOffsetsRequest_VERSIONS : Z * Z := (0, 0).

(** ** [alter_share_group_offsets_response] *)

(* @ src/crates/kafka-protocol/src/messages/alter_share_group_offsets_response.rs 185-206 AlterShareGroupOffsetsResponsePartition *)
Record AlterShareGroupOffsetsResponsePartition : Type := mkAlterShareGroupOffsetsResponsePartition {
  AlterShareGroupOffsetsResponsePartition_partition_index : Z;
  AlterShareGroupOffsetsResponsePartition_error_code : Z;
  AlterShareGroupOffsetsResponsePartition_error_message : option (list byte);
  AlterShareGroupOffsetsResponsePartition_unknown_tagged_fields : TaggedFields
}.

(* @ src/crates/kafka-protocol/src/messages/alter_share_group_offsets_response.rs 314-323 AlterShareGroupOffsetsResponsePartition::default *)
Definition AlterShareGroupOffsetsResponsePartition_default : AlterShareGroupOffsetsResponsePartition := {|
  AlterShareGroupOffsetsResponsePartition_partition_index := 0;
  AlterShareGroupOffsetsResponsePartition_error_code := 0;
  AlterShareGroupOffsetsResponsePartition_error_message := None;
  AlterShareGroupOffsetsResponsePartition_unknown_tagged_fields := ∅
|}.

(* @ src/crates/kafka-protocol/src/messages/alter_share_group_offsets_response.rs 248-312 AlterShareGroupOffsetsResponsePartition::encode, compute_size, decode *)
Definition AlterShareGroupOffsetsResponsePartition_codec (version : Z) : Codec
    AlterShareGroupOffsetsResponsePartition :=
  message 0 0 version (build mkAlterShareGroupOffsetsResponsePartition
    ⊛ (field AlterShareGroupOffsetsResponsePartition_partition_index Int32)
    ⊛ (field AlterShareGroupOffsetsResponsePartition_error_code Int16)
    ⊛ (field AlterShareGroupOffsetsResponsePartition_error_message NullableCompactString)
    ⊛ unknown_tags true AlterShareGroupOffsetsResponsePartition_unknown_tagged_fields).

Definition AlterShareGroupOffsetsResponsePartition_valid (version : Z) (x :
    AlterShareGroupOffsetsResponsePartition) : Prop :=
  in_signed 32 (AlterShareGroupOffsetsResponsePartition_partition_index x) ∧
  in_signed 16 (AlterShareGroupOffsetsResponsePartition_error_code x) ∧
  opt_all utf8 (AlterShareGroupOffsetsResponsePartition_error_message x) ∧
  unknown_valid 0 (AlterShareGroupOffsetsResponsePartition_unknown_tagged_fields x).

#[global] Instance AlterShareGroupOffsetsResponsePartition_sound version : Sound
    (AlterShareGroupOffsetsResponsePartition_codec version) (AlterShareGroupOffsetsResponsePartition_valid
    version).
Proof. solve_message. Qed.

(* @ src/crates/kafka-protocol/src/messages/alter_share_group_offsets_response.rs 330-351 AlterShareGroupOffsetsResponseTopic *)
Record AlterShareGroupOffsetsResponseTopic : Type := mkAlterShareGroupOffsetsResponseTopic {
  AlterShareGroupOffsetsResponseTopic_topic_name : list byte;
  AlterShareGroupOffsetsResponseTopic_topic_id : Z;
  AlterShareGroupOffsetsResponseTopic_partitions : list AlterShareGroupOffsetsResponsePartition;
  AlterShareGroupOffsetsResponseTopic_unknown_tagged_fields : TaggedFields
}.

(* @ src/crates/kafka-protocol/src/messages/alter_share_group_offsets_response.rs 460-469 AlterShareGroupOffsetsResponseTopic::default *)
Definition AlterShareGroupOffsetsResponseTopic_default : AlterShareGroupOffsetsResponseTopic := {|
  AlterShareGroupOffsetsResponseTopic_topic_name := [];
  AlterShareGroupOffsetsResponseTopic_topic_id := 0;
  AlterShareGroupOffsetsResponseTopic_partitions := [];
  AlterShareGroupOffsetsResponseTopic_unknown_tagged_fields := ∅
|}.

(* @ src/crates/kafka-protocol/src/messages/alter_share_group_offsets_response.rs 393-458 AlterShareGroupOffsetsResponseTopic::encode, compute_size, decode *)
Definition AlterShareGroupOffsetsResponseTopic_codec (version : Z) : Codec
    AlterShareGroupOffsetsResponseTopic :=
  message 0 0 version (build mkAlterShareGroupOffsetsResponseTopic
    ⊛ (field AlterShareGroupOffsetsResponseTopic_topic_name CompactString)
    ⊛ (field AlterShareGroupOffsetsResponseTopic_topic_id Uuid)
    ⊛ (field AlterShareGroupOffsetsResponseTopic_partitions (CompactArray (Struct
        AlterShareGroupOffsetsResponsePartition_codec version)))
    ⊛ unknown_tags true AlterShareGroupOffsetsResponseTopic_unknown_tagged_fields).

Definition AlterShareGroupOffsetsResponseTopic_valid (version : Z) (x :
    AlterShareGroupOffsetsResponseTopic) : Prop :=
  utf8 (AlterShareGroupOffsetsResponseTopic_topic_name x) ∧
  in_unsigned 128 (AlterShareGroupOffsetsResponseTopic_topic_id x) ∧
  Forall (AlterShareGroupOffsetsResponsePartition_valid version)
      (AlterShareGroupOffsetsResponseTopic_partitions x) ∧
  unknown_valid 0 (AlterShareGroupOffsetsResponseTopic_unknown_tagged_fields x).

#[global] Instance AlterShareGroupOffsetsResponseTopic_sound version : Sound
    (AlterShareGroupOffsetsResponseTopic_codec version) (AlterShareGroupOffsetsResponseTopic_valid version).
Proof. solve_message. Qed.

(* @ src/crates/kafka-protocol/src/messages/alter_share_group_offsets_response.rs 20-46 AlterShareGroupOffsetsResponse *)
Record AlterShareGroupOffsetsResponse : Type := mkAlterShareGroupOffsetsResponse {
  AlterShareGroupOffsetsResponse_throttle_time_ms : Z;
  AlterShareGroupOffsetsResponse_error_code : Z;
  AlterShareGroupOffsetsResponse_error_message : option (list byte);
  AlterShareGroupOffsetsResponse_responses : list AlterShareGroupOffsetsResponseTopic;
  AlterShareGroupOffsetsResponse_unknown_tagged_fields : TaggedFields
}.

(* @ src/crates/kafka-protocol/src/messages/alter_share_group_offsets_response.rs 168-178 AlterShareGroupOffsetsResponse::default *)
Definition AlterShareGroupOffsetsResponse_default : AlterShareGroupOffsetsResponse := {|
  AlterShareGroupOffsetsResponse_throttle_time_ms := 0;
  AlterShareGroupOffsetsResponse_error_code := 0;
  AlterShareGroupOffsetsResponse_error_message := None;
  AlterShareGroupOffsetsResponse_responses := [];
  AlterShareGroupOffsetsResponse_unknown_tagged_fields := ∅
|}.

(* @ src/crates/kafka-protocol/src/messages/alter_share_group_offsets_response.rs 97-166 AlterShareGroupOffsetsResponse::encode, compute_size, decode *)
Definition AlterShareGroupOffsetsResponse_codec (version : Z) : Codec AlterShareGroupOffsetsResponse :=
  message 0 0 version (build mkAlterShareGroupOffsetsResponse
    ⊛ (field AlterShareGroupOffsetsResponse_throttle_time_ms Int32)
    ⊛ (field AlterShareGroupOffsetsResponse_error_code Int16)
    ⊛ (field AlterShareGroupOffsetsResponse_error_message NullableCompactString)
    ⊛ (field AlterShareGroupOffsetsResponse_responses (CompactArray (Struct
        AlterShareGroupOffsetsResponseTopic_codec version)))
    ⊛ unknown_tags true AlterShareGroupOffsetsResponse_unknown_tagged_fields).

Definition AlterShareGroupOffsetsResponse_valid (version : Z) (x : AlterShareGroupOffsetsResponse) : Prop :=
  in_signed 32 (AlterShareGroupOffsetsResponse_throttle_time_ms x) ∧
  in_signed 16 (AlterShareGroupOffsetsResponse_error_code x) ∧
  opt_all utf8 (AlterShareGroupOffsetsResponse_error_message x) ∧
  Forall (AlterShareGroupOffsetsResponseTopic_valid version) (AlterShareGroupOffsetsResponse_responses x) ∧
  unknown_valid 0 (AlterShareGroupOffsetsResponse_unknown_tagged_fields x).

#[global] Instance AlterShareGroupOffsetsResponse_sound version : Sound
    (AlterShareGroupOffsetsResponse_codec version) (AlterShareGroupOffsetsResponse_valid version).
Proof. solve_message. Qed.

(* @ src/crates/kafka-protocol/src/messages/alter_share_group_offsets_response.rs 476-480 AlterShareGroupOffsetsResponse::header_version *)
Definition AlterShareGroupOffsetsResponse_header_version (version : Z) : Z := 1.

(* @ src/crates/kafka-protocol/src/messages/alter_share_group_offsets_response.rs 180-183 AlterShareGroupOffsetsResponse::VERSIONS *)
Definition AlterShareGroupOffsetsResponse_VERSIONS : Z * Z := (0, 0).

(** ** [delete_share_group_offsets_request] *)

(* @ src/crates/kafka-protocol/src/messages/delete_share_group_offsets_request.rs 146-157 DeleteShareGroupOffsetsRequestTopic *)
Record DeleteShareGroupOffsetsRequestTopic : Type := mkDeleteShareGroupOffsetsRequestTopic {
  DeleteShareGroupOffsetsRequestTopic_topic_name : list byte;
  DeleteShareGroupOffsetsRequestTopic_unknown_tagged_fields : TaggedFields
}.

(* @ src/crates/kafka-protocol/src/messages/delete_share_group_offsets_request.rs 239-246 DeleteShareGroupOffsetsRequestTopic::default *)
Definition DeleteShareGroupOffsetsRequestTopic_default : DeleteShareGroupOffsetsRequestTopic := {|
  DeleteShareGroupOffsetsRequestTopic_topic_name := [];
  DeleteShareGroupOffsetsRequestTopic_unknown_tagged_fields := ∅
|}.

(* @ src/crates/kafka-protocol/src/messages/delete_share_group_offsets_request.rs 181-237 DeleteShareGroupOffsetsRequestTopic::encode, compute_size, decode *)
Definition DeleteShareGroupOffsetsRequestTopic_codec (version : Z) : Codec
    DeleteShareGroupOffsetsRequestTopic :=
  message 0 0 version (build mkDeleteShareGroupOffsetsRequestTopic
    ⊛ (field DeleteShareGroupOffsetsRequestTopic_topic_name CompactString)
    ⊛ unknown_tags true DeleteShareGroupOffsetsRequestTopic_unknown_tagged_fields).

Definition DeleteShareGroupOffsetsRequestTopic_valid (version : Z) (x :
    DeleteShareGroupOffsetsRequestTopic) : Prop :=
  utf8 (DeleteShareGroupOffsetsRequestTopic_topic_name x) ∧
  unknown_valid 0 (DeleteShareGroupOffsetsRequestTopic_unknown_tagged_fields x).

#[global] Instance DeleteShareGroupOffsetsRequestTopic_sound version : Sound
    (DeleteShareGroupOffsetsRequestTopic_codec version) (DeleteShareGroupOffsetsRequestTopic_valid version).
Proof. solve_message. Qed.

(* @ src/crates/kafka-protocol/src/messages/delete_share_group_offsets_request.rs 20-36 DeleteShareGroupOffsetsRequest *)
Record DeleteShareGroupOffsetsRequest : Type := mkDeleteShareGroupOffsetsRequest {
  DeleteShareGroupOffsetsRequest_group_id : list byte;
  DeleteShareGroupOffsetsRequest_topics : list DeleteShareGroupOffsetsRequestTopic;
  DeleteShareGroupOffsetsRequest_unknown_tagged_fields : TaggedFields
}.

(* @ src/crates/kafka-protocol/src/messages/delete_share_group_offsets_request.rs 131-139 DeleteShareGroupOffsetsRequest::default *)
Definition DeleteShareGroupOffsetsRequest_default : DeleteShareGroupOffsetsRequest := {|
  DeleteShareGroupOffsetsRequest_group_id := [];
  DeleteShareGroupOffsetsRequest_topics := [];
  DeleteShareGroupOffsetsRequest_unknown_tagged_fields := ∅
|}.

(* @ src/crates/kafka-protocol/src/messages/delete_share_group_offsets_request.rs 69-129 DeleteShareGroupOffsetsRequest::encode, compute_size, decode *)
Definition DeleteShareGroupOffsetsRequest_codec (version : Z) : Codec DeleteShareGroupOffsetsRequest :=
  message 0 0 version (build mkDeleteShareGroupOffsetsRequest
    ⊛ (field DeleteShareGroupOffsetsRequest_group_id CompactString)
    ⊛ (field DeleteShareGroupOffsetsRequest_topics (CompactArray (Struct
        DeleteShareGroupOffsetsRequestTopic_codec version)))
    ⊛ unknown_tags true DeleteShareGroupOffsetsRequest_unknown_tagged_fields).

Definition DeleteShareGroupOffsetsRequest_valid (version : Z) (x : DeleteShareGroupOffsetsRequest) : Prop :=
  utf8 (DeleteShareGroupOffsetsRequest_group_id x) ∧
  Forall (DeleteShareGroupOffsetsRequestTopic_valid version) (DeleteShareGroupOffsetsRequest_topics x) ∧
  unknown_valid 0 (DeleteShareGroupOffsetsRequest_unknown_tagged_fields x).

#[global] Instance DeleteShareGroupOffsetsRequest_sound version : Sound
    (DeleteShareGroupOffsetsRequest_codec version) (DeleteShareGroupOffsetsRequest_valid version).
Proof. solve_message. Qed.

(* @ src/crates/kafka-protocol/src/messages/delete_share_group_offsets_request.rs 253-257 DeleteShareGroupOffsetsRequest::header_version *)
Definition DeleteShareGroupOffsetsRequest_header_version (version : Z) : Z := 2.

(* @ src/crates/kafka-protocol/src/messages/delete_share_group_offsets_request.rs 141-144 DeleteShareGroupOffsetsRequest::VERSIONS *)
Definition DeleteShareGroupOffsetsRequest_VERSIONS : Z * Z := (0, 0).

(** ** [delete_share_group_offsets_response] *)

(* @ src/crates/kafka-protocol/src/messages/delete_share_group_offsets_response.rs 185-211 DeleteShareGroupOffsetsResponseTopic *)
Record DeleteShareGroupOffsetsResponseTopic : Type := mkDeleteShareGroupOffsetsResponseTopic {
  DeleteShareGroupOffsetsResponseTopic_topic_name : list byte;
  DeleteShareGroupOffsetsResponseTopic_topic_id : Z;
  DeleteShareGroupOffsetsResponseTopic_error_code : Z;
  DeleteShareGroupOffsetsResponseTopic_error_message : option (list byte);
  DeleteShareGroupOffsetsResponseTopic_unknown_tagged_fields : TaggedFields
}.

(* @ src/crates/kafka-protocol/src/messages/delete_share_group_offsets_response.rs 332-342 DeleteShareGroupOffsetsResponseTopic::default *)
Definition DeleteShareGroupOffsetsResponseTopic_default : DeleteShareGroupOffsetsResponseTopic := {|
  DeleteShareGroupOffsetsResponseTopic_topic_name := [];
  DeleteShareGroupOffsetsResponseTopic_topic_id := 0;
  DeleteShareGroupOffsetsResponseTopic_error_code := 0;
  DeleteShareGroupOffsetsResponseTopic_error_message := None;
  DeleteShareGroupOffsetsResponseTopic_unknown_tagged_fields := ∅
|}.

(* @ src/crates/kafka-protocol/src/messages/delete_share_group_offsets_response.rs 262-330 DeleteShareGroupOffsetsResponseTopic::encode, compute_size, decode *)
Definition DeleteShareGroupOffsetsResponseTopic_codec (version : Z) : Codec
    DeleteShareGroupOffsetsResponseTopic :=
  message 0 0 version (build mkDeleteShareGroupOffsetsResponseTopic
    ⊛ (field DeleteShareGroupOffsetsResponseTopic_topic_name CompactString)
    ⊛ (field DeleteShareGroupOffsetsResponseTopic_topic_id Uuid)
    ⊛ (field DeleteShareGroupOffsetsResponseTopic_error_code Int16)
    ⊛ (field DeleteShareGroupOffsetsResponseTopic_error_message NullableCompactString)
    ⊛ unknown_tags true DeleteShareGroupOffsetsResponseTopic_unknown_tagged_fields).

Definition DeleteShareGroupOffsetsResponseTopic_valid (version : Z) (x :
    DeleteShareGroupOffsetsResponseTopic) : Prop :=
  utf8 (DeleteShareGroupOffsetsResponseTopic_topic_name x) ∧
  in_unsigned 128 (DeleteShareGroupOffsetsResponseTopic_topic_id x) ∧
  in_signed 16 (DeleteShareGroupOffsetsResponseTopic_error_code x) ∧
  opt_all utf8 (DeleteShareGroupOffsetsResponseTopic_error_message x) ∧
  unknown_valid 0 (DeleteShareGroupOffsetsResponseTopic_unknown_tagged_fields x).

#[global] Instance DeleteShareGroupOffsetsResponseTopic_sound version : Sound
    (DeleteShareGroupOffsetsResponseTopic_codec version) (DeleteShareGroupOffsetsResponseTopic_valid
    version).
Proof. solve_message. Qed.

(* @ src/crates/kafka-protocol/src/messages/delete_share_group_offsets_response.rs 20-46 DeleteShareGroupOffsetsResponse *)
Record DeleteShareGroupOffsetsResponse : Type := mkDeleteShareGroupOffsetsResponse {
  DeleteShareGroupOffsetsResponse_throttle_time_ms : Z;
  DeleteShareGroupOffsetsResponse_error_code : Z;
  DeleteShareGroupOffsetsResponse_error_message : option (list byte);
  DeleteShareGroupOffsetsResponse_responses : list DeleteShareGroupOffsetsResponseTopic;
  DeleteShareGroupOffsetsResponse_unknown_tagged_fields : TaggedFields
}.

(* @ src/crates/kafka-protocol/src/messages/delete_share_group_offsets_response.rs 168-178 DeleteShareGroupOffsetsResponse::default *)
Definition DeleteShareGroupOffsetsResponse_default : DeleteShareGroupOffsetsResponse := {|
  DeleteShareGroupOffsetsResponse_throttle_time_ms := 0;
  DeleteShareGroupOffsetsResponse_error_code := 0;
  DeleteShareGroupOffsetsResponse_error_message := None;
  DeleteShareGroupOffsetsResponse_responses := [];
  DeleteShareGroupOffsetsResponse_unknown_tagged_fields := ∅
|}.

(* @ src/crates/kafka-protocol/src/messages/delete_share_group_offsets_response.rs 97-166 DeleteShareGroupOffsetsResponse::encode, compute_size, decode *)
Definition DeleteShareGroupOffsetsResponse_codec (version : Z) : Codec DeleteShareGroupOffsetsResponse :=
  message 0 0 version (build mkDeleteShareGroupOffsetsResponse
    ⊛ (field DeleteShareGroupOffsetsResponse_throttle_time_ms Int32)
    ⊛ (field DeleteShareGroupOffsetsResponse_error_code Int16)
    ⊛ (field DeleteShareGroupOffsetsResponse_error_message NullableCompactString)
    ⊛ (field DeleteShareGroupOffsetsResponse_responses (CompactArray (Struct
        DeleteShareGroupOffsetsResponseTopic_codec version)))
    ⊛ unknown_tags true DeleteShareGroupOffsetsResponse_unknown_tagged_fields).

Definition DeleteShareGroupOffsetsResponse_valid (version : Z) (x : DeleteShareGroupOffsetsResponse) : Prop
    :=
  in_signed 32 (DeleteShareGroupOffsetsResponse_throttle_time_ms x) ∧
  in_signed 16 (DeleteShareGroupOffsetsResponse_error_code x) ∧
  opt_all utf8 (DeleteShareGroupOffsetsResponse_error_message x) ∧
  Forall (DeleteShareGroupOffsetsResponseTopic_valid version) (DeleteShareGroupOffsetsResponse_responses x)
      ∧
  unknown_valid 0 (DeleteShareGroupOffsetsResponse_unknown_tagged_fields x).

#[global] Instance DeleteShareGroupOffsetsResponse_sound version : Sound
    (DeleteShareGroupOffsetsResponse_codec version) (DeleteShareGroupOffsetsResponse_valid version).
Proof. solve_message. Qed.

(* @ src/crates/kafka-protocol/src/messages/delete_share_group_offsets_response.rs 349-353 DeleteShareGroupOffsetsResponse::header_version *)
Definition DeleteShareGroupOffsetsResponse_header_version (version : Z) : Z := 1.

(* @ src/crates/kafka-protocol/src/messages/delete_share_group_offsets_response.rs 180-183 DeleteShareGroupOffsetsResponse::VERSIONS *)
Definition DeleteShareGroupOffsetsResponse_VERSIONS : Z * Z := (0, 0).

(** ** [delete_share_group_state_request] *)

(* @ src/crates/kafka-protocol/src/messages/delete_share_group_state_request.rs 273-284 PartitionData *)
Record DeleteShareGroupStateRequest_PartitionData : Type := mkDeleteShareGroupStateRequest_PartitionData {
  DeleteShareGroupStateRequest_PartitionData_partition : Z;
  DeleteShareGroupStateRequest_PartitionData_unknown_tagged_fields : TaggedFields
}.

(* @ src/crates/kafka-protocol/src/messages/delete_share_group_state_request.rs 366-373 PartitionData::default *)
Definition DeleteShareGroupStateRequest_PartitionData_default : DeleteShareGroupStateRequest_PartitionData
    := {|
  DeleteShareGroupStateRequest_PartitionData_partition := 0;
  DeleteShareGroupStateRequest_PartitionData_unknown_tagged_fields := ∅
|}.

(* @ src/crates/kafka-protocol/src/messages/delete_share_group_state_request.rs 308-364 PartitionData::encode, compute_size, decode *)
Definition DeleteShareGroupStateRequest_PartitionData_codec (version : Z) : Codec
    DeleteShareGroupStateRequest_PartitionData :=
  message 0 0 version (build mkDeleteShareGroupStateRequest_PartitionData
    ⊛ (field DeleteShareGroupStateRequest_PartitionData_partition Int32)
    ⊛ unknown_tags true DeleteShareGroupStateRequest_PartitionData_unknown_tagged_fields).

Definition DeleteShareGroupStateRequest_PartitionData_valid (version : Z) (x :
    DeleteShareGroupStateRequest_PartitionData) : Prop :=
  in_signed 32 (DeleteShareGroupStateRequest_PartitionData_partition x) ∧
  unknown_valid 0 (DeleteShareGroupStateRequest_PartitionData_unknown_tagged_fields x).

#[global] Instance DeleteShareGroupStateRequest_PartitionData_sound version : Sound
    (DeleteShareGroupStateRequest_PartitionData_codec version)
    (DeleteShareGroupStateRequest_PartitionData_valid version).
Proof. solve_message. Qed.

(* @ src/crates/kafka-protocol/src/messages/delete_share_group_state_request.rs 146-162 DeleteStateData *)
Record DeleteStateData : Type := mkDeleteStateData {
  DeleteStateData_topic_id : Z;
  DeleteStateData_partitions : list DeleteShareGroupStateRequest_PartitionData;
  DeleteStateData_unknown_tagged_fields : TaggedFields
}.

(* @ src/crates/kafka-protocol/src/messages/delete_share_group_state_request.rs 258-266 DeleteStateData::default *)
Definition DeleteStateData_default : DeleteStateData := {|
  DeleteStateData_topic_id := 0;
  DeleteStateData_partitions := [];
  DeleteStateData_unknown_tagged_fields := ∅
|}.

(* @ src/crates/kafka-protocol/src/messages/delete_share_group_state_request.rs 195-256 DeleteStateData::encode, compute_size, decode *)
Definition DeleteStateData_codec (version : Z) : Codec DeleteStateData :=
  message 0 0 version (build mkDeleteStateData
    ⊛ (field DeleteStateData_topic_id Uuid)
    ⊛ (field DeleteStateData_partitions (CompactArray (Struct
        DeleteShareGroupStateRequest_PartitionData_codec version)))
    ⊛ unknown_tags true DeleteStateData_unknown_tagged_fields).

Definition DeleteStateData_valid (version : Z) (x : DeleteStateData) : Prop :=
  in_unsigned 128 (DeleteStateData_topic_id x) ∧
  Forall (DeleteShareGroupStateRequest_PartitionData_valid version) (DeleteStateData_partitions x) ∧
  unknown_valid 0 (DeleteStateData_unknown_tagged_fields x).

#[global] Instance DeleteStateData_sound version : Sound (DeleteStateData_codec version)
    (DeleteStateData_valid version).
Proof. solve_message. Qed.

(* @ src/crates/kafka-protocol/src/messages/delete_share_group_state_request.rs 20-36 DeleteShareGroupStateRequest *)
Record DeleteShareGroupStateRequest : Type := mkDeleteShareGroupStateRequest {
  DeleteShareGroupStateRequest_group_id : list byte;
  DeleteShareGroupStateRequest_topics : list DeleteStateData;
  DeleteShareGroupStateRequest_unknown_tagged_fields : TaggedFields
}.

(* @ src/crates/kafka-protocol/src/messages/delete_share_group_state_request.rs 131-139 DeleteShareGroupStateRequest::default *)
Definition DeleteShareGroupStateRequest_default : DeleteShareGroupStateRequest := {|
  DeleteShareGroupStateRequest_group_id := [];
  DeleteShareGroupStateRequest_topics := [];
  DeleteShareGroupStateRequest_unknown_tagged_fields := ∅
|}.

(* @ src/crates/kafka-protocol/src/messages/delete_share_group_state_request.rs 69-129 DeleteShareGroupStateRequest::encode, compute_size, decode *)
Definition DeleteShareGroupStateRequest_codec (version : Z) : Codec DeleteShareGroupStateRequest :=
  message 0 0 version (build mkDeleteShareGroupStateRequest
    ⊛ (field DeleteShareGroupStateRequest_group_id CompactString)
    ⊛ (field DeleteShareGroupStateRequest_topics (CompactArray (Struct DeleteStateData_codec version)))
    ⊛ unknown_tags true DeleteShareGroupStateRequest_unknown_tagged_fields).

Definition DeleteShareGroupStateRequest_valid (version : Z) (x : DeleteShareGroupStateRequest) : Prop :=
  utf8 (DeleteShareGroupStateRequest_group_id x) ∧
  Forall (DeleteStateData_valid version) (DeleteShareGroupStateRequest_topics x) ∧
  unknown_valid 0 (DeleteShareGroupStateRequest_unknown_tagged_fields x).

#[global] Instance DeleteShareGroupStateRequest_sound version : Sound (DeleteShareGroupStateRequest_codec
    version) (DeleteShareGroupStateRequest_valid version).
Proof. solve_message. Qed.

(* @ src/crates/kafka-protocol/src/messages/delete_share_group_state_request.rs 380-384 DeleteShareGroupStateRequest::header_version *)
Definition DeleteShareGroupStateRequest_header_version (version : Z) : Z := 2.

(* @ src/crates/kafka-protocol/src/messages/delete_share_group_state_request.rs 141-144 DeleteShareGroupStateRequest::VERSIONS *)
Definition DeleteShareGroupStateRequest_VERSIONS : Z * Z := (0, 0).

(** ** [delete_share_group_state_response] *)

(* @ src/crates/kafka-protocol/src/messages/delete_share_group_state_response.rs 254-275 PartitionResult *)
Record DeleteShareGroupStateResponse_PartitionResult : Type :=
    mkDeleteShareGroupStateResponse_PartitionResult {
  DeleteShareGroupStateResponse_PartitionResult_partition : Z;
  DeleteShareGroupStateResponse_PartitionResult_error_code : Z;
  DeleteShareGroupStateResponse_PartitionResult_error_message : option (list byte);
  DeleteShareGroupStateResponse_PartitionResult_unknown_tagged_fields : TaggedFields
}.

(* @ src/crates/kafka-protocol/src/messages/delete_share_group_state_response.rs 383-392 PartitionResult::default *)
Definition DeleteShareGroupStateResponse_PartitionResult_default :
    DeleteShareGroupStateResponse_PartitionResult := {|
  DeleteShareGroupStateResponse_PartitionResult_partition := 0;
  DeleteShareGroupStateResponse_PartitionResult_error_code := 0;
  DeleteShareGroupStateResponse_PartitionResult_error_message := None;
  DeleteShareGroupStateResponse_PartitionResult_unknown_tagged_fields := ∅
|}.

(* @ src/crates/kafka-protocol/src/messages/delete_share_group_state_response.rs 317-381 PartitionResult::encode, compute_size, decode *)
Definition DeleteShareGroupStateResponse_PartitionResult_codec (version : Z) : Codec
    DeleteShareGroupStateResponse_PartitionResult :=
  message 0 0 version (build mkDeleteShareGroupStateResponse_PartitionResult
    ⊛ (field DeleteShareGroupStateResponse_PartitionResult_partition Int32)
    ⊛ (field DeleteShareGroupStateResponse_PartitionResult_error_code Int16)
    ⊛ (field DeleteShareGroupStateResponse_PartitionResult_error_message NullableCompactString)
    ⊛ unknown_tags true DeleteShareGroupStateResponse_PartitionResult_unknown_tagged_fields).

Definition DeleteShareGroupStateResponse_PartitionResult_valid (version : Z) (x :
    DeleteShareGroupStateResponse_PartitionResult) : Prop :=
  in_signed 32 (DeleteShareGroupStateResponse_PartitionResult_partition x) ∧
  in_signed 16 (DeleteShareGroupStateResponse_PartitionResult_error_code x) ∧
  opt_all utf8 (DeleteShareGroupStateResponse_PartitionResult_error_message x) ∧
  unknown_valid 0 (DeleteShareGroupStateResponse_PartitionResult_unknown_tagged_fields x).

#[global] Instance DeleteShareGroupStateResponse_PartitionResult_sound version : Sound
    (DeleteShareGroupStateResponse_PartitionResult_codec version)
    (DeleteShareGroupStateResponse_PartitionResult_valid version).
Proof. solve_message. Qed.

(* @ src/crates/kafka-protocol/src/messages/delete_share_group_state_response.rs 127-143 DeleteStateResult *)
Record DeleteStateResult : Type := mkDeleteStateResult {
  DeleteStateResult_topic_id : Z;
  DeleteStateResult_partitions : list DeleteShareGroupStateResponse_PartitionResult;
  DeleteStateResult_unknown_tagged_fields : TaggedFields
}.

(* @ src/crates/kafka-protocol/src/messages/delete_share_group_state_response.rs 239-247 DeleteStateResult::default *)
Definition DeleteStateResult_default : DeleteStateResult := {|
  DeleteStateResult_topic_id := 0;
  DeleteStateResult_partitions := [];
  DeleteStateResult_unknown_tagged_fields := ∅
|}.

(* @ src/crates/kafka-protocol/src/messages/delete_share_group_state_response.rs 176-237 DeleteStateResult::encode, compute_size, decode *)
Definition DeleteStateResult_codec (version : Z) : Codec DeleteStateResult :=
  message 0 0 version (build mkDeleteStateResult
    ⊛ (field DeleteStateResult_topic_id Uuid)
    ⊛ (field DeleteStateResult_partitions (CompactArray (Struct
        DeleteShareGroupStateResponse_PartitionResult_codec version)))
    ⊛ unknown_tags true DeleteStateResult_unknown_tagged_fields).

Definition DeleteStateResult_valid (version : Z) (x : DeleteStateResult) : Prop :=
  in_unsigned 128 (DeleteStateResult_topic_id x) ∧
  Forall (DeleteShareGroupStateResponse_PartitionResult_valid version) (DeleteStateResult_partitions x) ∧
  unknown_valid 0 (DeleteStateResult_unknown_tagged_fields x).

#[global] Instance DeleteStateResult_sound version : Sound (DeleteStateResult_codec version)
    (DeleteStateResult_valid version).
Proof. solve_message. Qed.

(* @ src/crates/kafka-protocol/src/messages/delete_share_group_state_response.rs 20-31 DeleteShareGroupStateResponse *)
Record DeleteShareGroupStateResponse : Type := mkDeleteShareGroupStateResponse {
  DeleteShareGroupStateResponse_results : list DeleteStateResult;
  DeleteShareGroupStateResponse_unknown_tagged_fields : TaggedFields
}.

(* @ src/crates/kafka-protocol/src/messages/delete_share_group_state_response.rs 113-120 DeleteShareGroupStateResponse::default *)
Definition DeleteShareGroupStateResponse_default : DeleteShareGroupStateResponse := {|
  DeleteShareGroupStateResponse_results := [];
  DeleteShareGroupStateResponse_unknown_tagged_fields := ∅
|}.

(* @ src/crates/kafka-protocol/src/messages/delete_share_group_state_response.rs 55-111 DeleteShareGroupStateResponse::encode, compute_size, decode *)
Definition DeleteShareGroupStateResponse_codec (version : Z) : Codec DeleteShareGroupStateResponse :=
  message 0 0 version (build mkDeleteShareGroupStateResponse
    ⊛ (field DeleteShareGroupStateResponse_results (CompactArray (Struct DeleteStateResult_codec version)))
    ⊛ unknown_tags true DeleteShareGroupStateResponse_unknown_tagged_fields).

Definition DeleteShareGroupStateResponse_valid (version : Z) (x : DeleteShareGroupStateResponse) : Prop :=
  Forall (DeleteStateResult_valid version) (DeleteShareGroupStateResponse_results x) ∧
  unknown_valid 0 (DeleteShareGroupStateResponse_unknown_tagged_fields x).

#[global] Instance DeleteShareGroupStateResponse_sound version : Sound (DeleteShareGroupStateResponse_codec
    version) (DeleteShareGroupStateResponse_valid version).
Proof. solve_message. Qed.

(* @ src/crates/kafka-protocol/src/messages/delete_share_group_state_response.rs 399-403 DeleteShareGroupStateResponse::header_version *)
Definition DeleteShareGroupStateResponse_header_version (version : Z) : Z := 1.

(* @ src/crates/kafka-protocol/src/messages/delete_share_group_state_response.rs 122-125 DeleteShareGroupStateResponse::VERSIONS *)
Definition DeleteShareGroupStateResponse_VERSIONS : Z * Z := (0, 0).

(** ** [describe_share_group_offsets_request] *)

(* @ src/crates/kafka-protocol/src/messages/describe_share_group_offsets_request.rs 256-272 DescribeShareGroupOffsetsRequestTopic *)
Record DescribeShareGroupOffsetsRequestTopic : Type := mkDescribeShareGroupOffsetsRequestTopic {
  DescribeShareGroupOffsetsRequestTopic_topic_name : list byte;
  DescribeShareGroupOffsetsRequestTopic_partitions : list Z;
  DescribeShareGroupOffsetsRequestTopic_unknown_tagged_fields : TaggedFields
}.

(* @ src/crates/kafka-protocol/src/messages/describe_share_group_offsets_request.rs 367-375 DescribeShareGroupOffsetsRequestTopic::default *)
Definition DescribeShareGroupOffsetsRequestTopic_default : DescribeShareGroupOffsetsRequestTopic := {|
  DescribeShareGroupOffsetsRequestTopic_topic_name := [];
  DescribeShareGroupOffsetsRequestTopic_partitions := [];
  DescribeShareGroupOffsetsRequestTopic_unknown_tagged_fields := ∅
|}.

(* @ src/crates/kafka-protocol/src/messages/describe_share_group_offsets_request.rs 305-365 DescribeShareGroupOffsetsRequestTopic::encode, compute_size, decode *)
Definition DescribeShareGroupOffsetsRequestTopic_codec (version : Z) : Codec
    DescribeShareGroupOffsetsRequestTopic :=
  message 0 1 version (build mkDescribeShareGroupOffsetsRequestTopic
    ⊛ (field DescribeShareGroupOffsetsRequestTopic_topic_name CompactString)
    ⊛ (field DescribeShareGroupOffsetsRequestTopic_partitions (CompactArray Int32))
    ⊛ unknown_tags true DescribeShareGroupOffsetsRequestTopic_unknown_tagged_fields).

Definition DescribeShareGroupOffsetsRequestTopic_valid (version : Z) (x :
    DescribeShareGroupOffsetsRequestTopic) : Prop :=
  utf8 (DescribeShareGroupOffsetsRequestTopic_topic_name x) ∧
  Forall (in_signed 32) (DescribeShareGroupOffsetsRequestTopic_partitions x) ∧
  unknown_valid 0 (DescribeShareGroupOffsetsRequestTopic_unknown_tagged_fields x).

#[global] Instance DescribeShareGroupOffsetsRequestTopic_sound version : Sound
    (DescribeShareGroupOffsetsRequestTopic_codec version) (DescribeShareGroupOffsetsRequestTopic_valid
    version).
Proof. solve_message. Qed.

(* @ src/crates/kafka-protocol/src/messages/describe_share_group_offsets_request.rs 127-143 DescribeShareGroupOffsetsRequestGroup *)
Record DescribeShareGroupOffsetsRequestGroup : Type := mkDescribeShareGroupOffsetsRequestGroup {
  DescribeShareGroupOffsetsRequestGroup_group_id : list byte;
  DescribeShareGroupOffsetsRequestGroup_topics : option (list DescribeShareGroupOffsetsRequestTopic);
  DescribeShareGroupOffsetsRequestGroup_unknown_tagged_fields : TaggedFields
}.

(* @ src/crates/kafka-protocol/src/messages/describe_share_group_offsets_request.rs 241-249 DescribeShareGroupOffsetsRequestGroup::default *)
Definition DescribeShareGroupOffsetsRequestGroup_default : DescribeShareGroupOffsetsRequestGroup := {|
  DescribeShareGroupOffsetsRequestGroup_group_id := [];
  DescribeShareGroupOffsetsRequestGroup_topics := Some [];
  DescribeShareGroupOffsetsRequestGroup_unknown_tagged_fields := ∅
|}.

(* @ src/crates/kafka-protocol/src/messages/describe_share_group_offsets_request.rs 179-239 DescribeShareGroupOffsetsRequestGroup::encode, compute_size, decode *)
Definition DescribeShareGroupOffsetsRequestGroup_codec (version : Z) : Codec
    DescribeShareGroupOffsetsRequestGroup :=
  message 0 1 version (build mkDescribeShareGroupOffsetsRequestGroup
    ⊛ (field DescribeShareGroupOffsetsRequestGroup_group_id CompactString)
    ⊛ (field DescribeShareGroupOffsetsRequestGroup_topics (NullableCompactArray (Struct
        DescribeShareGroupOffsetsRequestTopic_codec version)))
    ⊛ unknown_tags true DescribeShareGroupOffsetsRequestGroup_unknown_tagged_fields).

Definition DescribeShareGroupOffsetsRequestGroup_valid (version : Z) (x :
    DescribeShareGroupOffsetsRequestGroup) : Prop :=
  utf8 (DescribeShareGroupOffsetsRequestGroup_group_id x) ∧
  opt_all (Forall (DescribeShareGroupOffsetsRequestTopic_valid version))
      (DescribeShareGroupOffsetsRequestGroup_topics x) ∧
  unknown_valid 0 (DescribeShareGroupOffsetsRequestGroup_unknown_tagged_fields x).

#[global] Instance DescribeShareGroupOffsetsRequestGroup_sound version : Sound
    (DescribeShareGroupOffsetsRequestGroup_codec version) (DescribeShareGroupOffsetsRequestGroup_valid
    version).
Proof. solve_message. Qed.

(* @ src/crates/kafka-protocol/src/messages/describe_share_group_offsets_request.rs 20-31 DescribeShareGroupOffsetsRequest *)
Record DescribeShareGroupOffsetsRequest : Type := mkDescribeShareGroupOffsetsRequest {
  DescribeShareGroupOffsetsRequest_groups : list DescribeShareGroupOffsetsRequestGroup;
  DescribeShareGroupOffsetsRequest_unknown_tagged_fields : TaggedFields
}.

(* @ src/crates/kafka-protocol/src/messages/describe_share_group_offsets_request.rs 113-120 DescribeShareGroupOffsetsRequest::default *)
Definition DescribeShareGroupOffsetsRequest_default : DescribeShareGroupOffsetsRequest := {|
  DescribeShareGroupOffsetsRequest_groups := [];
  DescribeShareGroupOffsetsRequest_unknown_tagged_fields := ∅
|}.

(* @ src/crates/kafka-protocol/src/messages/describe_share_group_offsets_request.rs 55-111 DescribeShareGroupOffsetsRequest::encode, compute_size, decode *)
Definition DescribeShareGroupOffsetsRequest_codec (version : Z) : Codec DescribeShareGroupOffsetsRequest :=
  message 0 1 version (build mkDescribeShareGroupOffsetsRequest
    ⊛ (field DescribeShareGroupOffsetsRequest_groups (CompactArray (Struct
        DescribeShareGroupOffsetsRequestGroup_codec version)))
    ⊛ unknown_tags true DescribeShareGroupOffsetsRequest_unknown_tagged_fields).

Definition DescribeShareGroupOffsetsRequest_valid (version : Z) (x : DescribeShareGroupOffsetsRequest) :
    Prop :=
  Forall (DescribeShareGroupOffsetsRequestGroup_valid version) (DescribeShareGroupOffsetsRequest_groups x) ∧
  unknown_valid 0 (DescribeShareGroupOffsetsRequest_unknown_tagged_fields x).

#[global] Instance DescribeShareGroupOffsetsRequest_sound version : Sound
    (DescribeShareGroupOffsetsRequest_codec version) (DescribeShareGroupOffsetsRequest_valid version).
Proof. solve_message. Qed.

(* @ src/crates/kafka-protocol/src/messages/describe_share_group_offsets_request.rs 382-386 DescribeShareGroupOffsetsRequest::header_version *)
Definition DescribeShareGroupOffsetsRequest_header_version (version : Z) : Z := 2.

(* @ src/crates/kafka-protocol/src/messages/describe_share_group_offsets_request.rs 122-125 DescribeShareGroupOffsetsRequest::VERSIONS *)
Definition DescribeShareGroupOffsetsRequest_VERSIONS : Z * Z := (0, 1).

(** ** [describe_share_group_offsets_response] *)

(* @ src/crates/kafka-protocol/src/messages/describe_share_group_offsets_response.rs 310-346 DescribeShareGroupOffsetsResponsePartition *)
Record DescribeShareGroupOffsetsResponsePartition : Type := mkDescribeShareGroupOffsetsResponsePartition {
  DescribeShareGroupOffsetsResponsePartition_partition_index : Z;
  DescribeShareGroupOffsetsResponsePartition_start_offset : Z;
  DescribeShareGroupOffsetsResponsePartition_leader_epoch : Z;
  DescribeShareGroupOffsetsResponsePartition_lag : Z;
  DescribeShareGroupOffsetsResponsePartition_error_code : Z;
  DescribeShareGroupOffsetsResponsePartition_error_message : option (list byte);
  DescribeShareGroupOffsetsResponsePartition_unknown_tagged_fields : TaggedFields
}.

(* @ src/crates/kafka-protocol/src/messages/describe_share_group_offsets_response.rs 501-513 DescribeShareGroupOffsetsResponsePartition::default *)
Definition DescribeShareGroupOffsetsResponsePartition_default : DescribeShareGroupOffsetsResponsePartition
    := {|
  DescribeShareGroupOffsetsResponsePartition_partition_index := 0;
  DescribeShareGroupOffsetsResponsePartition_start_offset := 0;
  DescribeShareGroupOffsetsResponsePartition_leader_epoch := 0;
  DescribeShareGroupOffsetsResponsePartition_lag := -1;
  DescribeShareGroupOffsetsResponsePartition_error_code := 0;
  DescribeShareGroupOffsetsResponsePartition_error_message := None;
  DescribeShareGroupOffsetsResponsePartition_unknown_tagged_fields := ∅
|}.

(* @ src/crates/kafka-protocol/src/messages/describe_share_group_offsets_response.rs 415-499 DescribeShareGroupOffsetsResponsePartition::encode, compute_size, decode *)
Definition DescribeShareGroupOffsetsResponsePartition_codec (version : Z) : Codec
    DescribeShareGroupOffsetsResponsePartition :=
  message 0 1 version (build mkDescribeShareGroupOffsetsResponsePartition
    ⊛ (field DescribeShareGroupOffsetsResponsePartition_partition_index Int32)
    ⊛ (field DescribeShareGroupOffsetsResponsePartition_start_offset Int64)
    ⊛ (field DescribeShareGroupOffsetsResponsePartition_leader_epoch Int32)
    ⊛ (if 1 <=? version then field DescribeShareGroupOffsetsResponsePartition_lag Int64 else ignored (-1))
    ⊛ (field DescribeShareGroupOffsetsResponsePartition_error_code Int16)
    ⊛ (field DescribeShareGroupOffsetsResponsePartition_error_message NullableCompactString)
    ⊛ unknown_tags true DescribeShareGroupOffsetsResponsePartition_unknown_tagged_fields).

Definition DescribeShareGroupOffsetsResponsePartition_valid (version : Z) (x :
    DescribeShareGroupOffsetsResponsePartition) : Prop :=
  in_signed 32 (DescribeShareGroupOffsetsResponsePartition_partition_index x) ∧
  in_signed 64 (DescribeShareGroupOffsetsResponsePartition_start_offset x) ∧
  in_signed 32 (DescribeShareGroupOffsetsResponsePartition_leader_epoch x) ∧
  (if 1 <=? version then in_signed 64 (DescribeShareGroupOffsetsResponsePartition_lag x) else
      DescribeShareGroupOffsetsResponsePartition_lag x = (-1)) ∧
  in_signed 16 (DescribeShareGroupOffsetsResponsePartition_error_code x) ∧
  opt_all utf8 (DescribeShareGroupOffsetsResponsePartition_error_message x) ∧
  unknown_valid 0 (DescribeShareGroupOffsetsResponsePartition_unknown_tagged_fields x).

#[global] Instance DescribeShareGroupOffsetsResponsePartition_sound version : Sound
    (DescribeShareGroupOffsetsResponsePartition_codec version)
    (DescribeShareGroupOffsetsResponsePartition_valid version).
Proof. solve_message. Qed.

(* @ src/crates/kafka-protocol/src/messages/describe_share_group_offsets_response.rs 520-541 DescribeShareGroupOffsetsResponseTopic *)
Record DescribeShareGroupOffsetsResponseTopic : Type := mkDescribeShareGroupOffsetsResponseTopic {
  DescribeShareGroupOffsetsResponseTopic_topic_name : list byte;
  DescribeShareGroupOffsetsResponseTopic_topic_id : Z;
  DescribeShareGroupOffsetsResponseTopic_partitions : list DescribeShareGroupOffsetsResponsePartition;
  DescribeShareGroupOffsetsResponseTopic_unknown_tagged_fields : TaggedFields
}.

(* @ src/crates/kafka-protocol/src/messages/describe_share_group_offsets_response.rs 653-662 DescribeShareGroupOffsetsResponseTopic::default *)
Definition DescribeShareGroupOffsetsResponseTopic_default : DescribeShareGroupOffsetsResponseTopic := {|
  DescribeShareGroupOffsetsResponseTopic_topic_name := [];
  DescribeShareGroupOffsetsResponseTopic_topic_id := 0;
  DescribeShareGroupOffsetsResponseTopic_partitions := [];
  DescribeShareGroupOffsetsResponseTopic_unknown_tagged_fields := ∅
|}.

(* @ src/crates/kafka-protocol/src/messages/describe_share_group_offsets_response.rs 586-651 DescribeShareGroupOffsetsResponseTopic::encode, compute_size, decode *)
Definition DescribeShareGroupOffsetsResponseTopic_codec (version : Z) : Codec
    DescribeShareGroupOffsetsResponseTopic :=
  message 0 1 version (build mkDescribeShareGroupOffsetsResponseTopic
    ⊛ (field DescribeShareGroupOffsetsResponseTopic_topic_name CompactString)
    ⊛ (field DescribeShareGroupOffsetsResponseTopic_topic_id Uuid)
    ⊛ (field DescribeShareGroupOffsetsResponseTopic_partitions (CompactArray (Struct
        DescribeShareGroupOffsetsResponsePartition_codec version)))
    ⊛ unknown_tags true DescribeShareGroupOffsetsResponseTopic_unknown_tagged_fields).

Definition DescribeShareGroupOffsetsResponseTopic_valid (version : Z) (x :
    DescribeShareGroupOffsetsResponseTopic) : Prop :=
  utf8 (DescribeShareGroupOffsetsResponseTopic_topic_name x) ∧
  in_unsigned 128 (DescribeShareGroupOffsetsResponseTopic_topic_id x) ∧
  Forall (DescribeShareGroupOffsetsResponsePartition_valid version)
      (DescribeShareGroupOffsetsResponseTopic_partitions x) ∧
  unknown_valid 0 (DescribeShareGroupOffsetsResponseTopic_unknown_tagged_fields x).

#[global] Instance DescribeShareGroupOffsetsResponseTopic_sound version : Sound
    (DescribeShareGroupOffsetsResponseTopic_codec version) (DescribeShareGroupOffsetsResponseTopic_valid
    version).
Proof. solve_message. Qed.

(* @ src/crates/kafka-protocol/src/messages/describe_share_group_offsets_response.rs 146-172 DescribeShareGroupOffsetsResponseGroup *)
Record DescribeShareGroupOffsetsResponseGroup : Type := mkDescribeShareGroupOffsetsResponseGroup {
  DescribeShareGroupOffsetsResponseGroup_group_id : list byte;
  DescribeShareGroupOffsetsResponseGroup_topics : list DescribeShareGroupOffsetsResponseTopic;
  DescribeShareGroupOffsetsResponseGroup_error_code : Z;
  DescribeShareGroupOffsetsResponseGroup_error_message : option (list byte);
  DescribeShareGroupOffsetsResponseGroup_unknown_tagged_fields : TaggedFields
}.

(* @ src/crates/kafka-protocol/src/messages/describe_share_group_offsets_response.rs 293-303 DescribeShareGroupOffsetsResponseGroup::default *)
Definition DescribeShareGroupOffsetsResponseGroup_default : DescribeShareGroupOffsetsResponseGroup := {|
  DescribeShareGroupOffsetsResponseGroup_group_id := [];
  DescribeShareGroupOffsetsResponseGroup_topics := [];
  DescribeShareGroupOffsetsResponseGroup_error_code := 0;
  DescribeShareGroupOffsetsResponseGroup_error_message := None;
  DescribeShareGroupOffsetsResponseGroup_unknown_tagged_fields := ∅
|}.

(* @ src/crates/kafka-protocol/src/messages/describe_share_group_offsets_response.rs 223-291 DescribeShareGroupOffsetsResponseGroup::encode, compute_size, decode *)
Definition DescribeShareGroupOffsetsResponseGroup_codec (version : Z) : Codec
    DescribeShareGroupOffsetsResponseGroup :=
  message 0 1 version (build mkDescribeShareGroupOffsetsResponseGroup
    ⊛ (field DescribeShareGroupOffsetsResponseGroup_group_id CompactString)
    ⊛ (field DescribeShareGroupOffsetsResponseGroup_topics (CompactArray (Struct
        DescribeShareGroupOffsetsResponseTopic_codec version)))
    ⊛ (field DescribeShareGroupOffsetsResponseGroup_error_code Int16)
    ⊛ (field DescribeShareGroupOffsetsResponseGroup_error_message NullableCompactString)
    ⊛ unknown_tags true DescribeShareGroupOffsetsResponseGroup_unknown_tagged_fields).

Definition DescribeShareGroupOffsetsResponseGroup_valid (version : Z) (x :
    DescribeShareGroupOffsetsResponseGroup) : Prop :=
  utf8 (DescribeShareGroupOffsetsResponseGroup_group_id x) ∧
  Forall (DescribeShareGroupOffsetsResponseTopic_valid version)
      (DescribeShareGroupOffsetsResponseGroup_topics x) ∧
  in_signed 16 (DescribeShareGroupOffsetsResponseGroup_error_code x) ∧
  opt_all utf8 (DescribeShareGroupOffsetsResponseGroup_error_message x) ∧
  unknown_valid 0 (DescribeShareGroupOffsetsResponseGroup_unknown_tagged_fields x).

#[global] Instance DescribeShareGroupOffsetsResponseGroup_sound version : Sound
    (DescribeShareGroupOffsetsResponseGroup_codec version) (DescribeShareGroupOffsetsResponseGroup_valid
    version).
Proof. solve_message. Qed.

(* @ src/crates/kafka-protocol/src/messages/describe_share_group_offsets_response.rs 20-36 DescribeShareGroupOffsetsResponse *)
Record DescribeShareGroupOffsetsResponse : Type := mkDescribeShareGroupOffsetsResponse {
  DescribeShareGroupOffsetsResponse_throttle_time_ms : Z;
  DescribeShareGroupOffsetsResponse_groups : list DescribeShareGroupOffsetsResponseGroup;
  DescribeShareGroupOffsetsResponse_unknown_tagged_fields : TaggedFields
}.

(* @ src/crates/kafka-protocol/src/messages/describe_share_group_offsets_response.rs 131-139 DescribeShareGroupOffsetsResponse::default *)
Definition DescribeShareGroupOffsetsResponse_default : DescribeShareGroupOffsetsResponse := {|
  DescribeShareGroupOffsetsResponse_throttle_time_ms := 0;
  DescribeShareGroupOffsetsResponse_groups := [];
  DescribeShareGroupOffsetsResponse_unknown_tagged_fields := ∅
|}.

(* @ src/crates/kafka-protocol/src/messages/describe_share_group_offsets_response.rs 69-129 DescribeShareGroupOffsetsResponse::encode, compute_size, decode *)
Definition DescribeShareGroupOffsetsResponse_codec (version : Z) : Codec DescribeShareGroupOffsetsResponse
    :=
  message 0 1 version (build mkDescribeShareGroupOffsetsResponse
    ⊛ (field DescribeShareGroupOffsetsResponse_throttle_time_ms Int32)
    ⊛ (field DescribeShareGroupOffsetsResponse_groups (CompactArray (Struct
        DescribeShareGroupOffsetsResponseGroup_codec version)))
    ⊛ unknown_tags true DescribeShareGroupOffsetsResponse_unknown_tagged_fields).

Definition DescribeShareGroupOffsetsResponse_valid (version : Z) (x : DescribeShareGroupOffsetsResponse) :
    Prop :=
  in_signed 32 (DescribeShareGroupOffsetsResponse_throttle_time_ms x) ∧
  Forall (DescribeShareGroupOffsetsResponseGroup_valid version) (DescribeShareGroupOffsetsResponse_groups
      x) ∧
  unknown_valid 0 (DescribeShareGroupOffsetsResponse_unknown_tagged_fields x).

#[global] Instance DescribeShareGroupOffsetsResponse_sound version : Sound
    (DescribeShareGroupOffsetsResponse_codec version) (DescribeShareGroupOffsetsResponse_valid version).
Proof. solve_message. Qed.

(* @ src/crates/kafka-protocol/src/messages/describe_share_group_offsets_response.rs 669-673 DescribeShareGroupOffsetsResponse::header_version *)
Definition DescribeShareGroupOffsetsResponse_header_version (version : Z) : Z := 1.

(* @ src/crates/kafka-protocol/src/messages/describe_share_group_offsets_response.rs 141-144 DescribeShareGroupOffsetsResponse::VERSIONS *)
Definition DescribeShareGroupOffsetsResponse_VERSIONS : Z * Z := (0, 1).

(** ** [initialize_share_group_state_request] *)

(* @ src/crates/kafka-protocol/src/messages/initialize_share_group_state_request.rs 273-294 PartitionData *)
Record InitializeShareGroupStateRequest_PartitionData : Type :=
    mkInitializeShareGroupStateRequest_PartitionData {
  InitializeShareGroupStateRequest_PartitionData_partition : Z;
  InitializeShareGroupStateRequest_PartitionData_state_epoch : Z;
  InitializeShareGroupStateRequest_PartitionData_start_offset : Z;
  InitializeShareGroupStateRequest_PartitionData_unknown_tagged_fields : TaggedFields
}.

(* @ src/crates/kafka-protocol/src/messages/initialize_share_group_state_request.rs 402-411 PartitionData::default *)
Definition InitializeShareGroupStateRequest_PartitionData_default :
    InitializeShareGroupStateRequest_PartitionData := {|
  InitializeShareGroupStateRequest_PartitionData_partition := 0;
  InitializeShareGroupStateRequest_PartitionData_state_epoch := 0;
  InitializeShareGroupStateRequest_PartitionData_start_offset := 0;
  InitializeShareGroupStateRequest_PartitionData_unknown_tagged_fields := ∅
|}.

(* @ src/crates/kafka-protocol/src/messages/initialize_share_group_state_request.rs 336-400 PartitionData::encode, compute_size, decode *)
Definition InitializeShareGroupStateRequest_PartitionData_codec (version : Z) : Codec
    InitializeShareGroupStateRequest_PartitionData :=
  message 0 0 version (build mkInitializeShareGroupStateRequest_PartitionData
    ⊛ (field InitializeShareGroupStateRequest_PartitionData_partition Int32)
    ⊛ (field InitializeShareGroupStateRequest_PartitionData_state_epoch Int32)
    ⊛ (field InitializeShareGroupStateRequest_PartitionData_start_offset Int64)
    ⊛ unknown_tags true InitializeShareGroupStateRequest_PartitionData_unknown_tagged_fields).

Definition InitializeShareGroupStateRequest_PartitionData_valid (version : Z) (x :
    InitializeShareGroupStateRequest_PartitionData) : Prop :=
  in_signed 32 (InitializeShareGroupStateRequest_PartitionData_partition x) ∧
  in_signed 32 (InitializeShareGroupStateRequest_PartitionData_state_epoch x) ∧
  in_signed 64 (InitializeShareGroupStateRequest_PartitionData_start_offset x) ∧
  unknown_valid 0 (InitializeShareGroupStateRequest_PartitionData_unknown_tagged_fields x).

#[global] Instance InitializeShareGroupStateRequest_PartitionData_sound version : Sound
    (InitializeShareGroupStateRequest_PartitionData_codec version)
    (InitializeShareGroupStateRequest_PartitionData_valid version).
Proof. solve_message. Qed.

(* @ src/crates/kafka-protocol/src/messages/initialize_share_group_state_request.rs 146-162 InitializeStateData *)
Record InitializeStateData : Type := mkInitializeStateData {
  InitializeStateData_topic_id : Z;
  InitializeStateData_partitions : list InitializeShareGroupStateRequest_PartitionData;
  InitializeStateData_unknown_tagged_fields : TaggedFields
}.

(* @ src/crates/kafka-protocol/src/messages/initialize_share_group_state_request.rs 258-266 InitializeStateData::default *)
Definition InitializeStateData_default : InitializeStateData := {|
  InitializeStateData_topic_id := 0;
  InitializeStateData_partitions := [];
  InitializeStateData_unknown_tagged_fields := ∅
|}.

(* @ src/crates/kafka-protocol/src/messages/initialize_share_group_state_request.rs 195-256 InitializeStateData::encode, compute_size, decode *)
Definition InitializeStateData_codec (version : Z) : Codec InitializeStateData :=
  message 0 0 version (build mkInitializeStateData
    ⊛ (field InitializeStateData_topic_id Uuid)
    ⊛ (field InitializeStateData_partitions (CompactArray (Struct
        InitializeShareGroupStateRequest_PartitionData_codec version)))
    ⊛ unknown_tags true InitializeStateData_unknown_tagged_fields).

Definition InitializeStateData_valid (version : Z) (x : InitializeStateData) : Prop :=
  in_unsigned 128 (InitializeStateData_topic_id x) ∧
  Forall (InitializeShareGroupStateRequest_PartitionData_valid version) (InitializeStateData_partitions x) ∧
  unknown_valid 0 (InitializeStateData_unknown_tagged_fields x).

#[global] Instance InitializeStateData_sound version : Sound (InitializeStateData_codec version)
    (InitializeStateData_valid version).
Proof. solve_message. Qed.

(* @ src/crates/kafka-protocol/src/messages/initialize_share_group_state_request.rs 20-36 InitializeShareGroupStateRequest *)
Record InitializeShareGroupStateRequest : Type := mkInitializeShareGroupStateRequest {
  InitializeShareGroupStateRequest_group_id : list byte;
  InitializeShareGroupStateRequest_topics : list InitializeStateData;
  InitializeShareGroupStateRequest_unknown_tagged_fields : TaggedFields
}.

(* @ src/crates/kafka-protocol/src/messages/initialize_share_group_state_request.rs 131-139 InitializeShareGroupStateRequest::default *)
Definition InitializeShareGroupStateRequest_default : InitializeShareGroupStateRequest := {|
  InitializeShareGroupStateRequest_group_id := [];
  InitializeShareGroupStateRequest_topics := [];
  InitializeShareGroupStateRequest_unknown_tagged_fields := ∅
|}.

(* @ src/crates/kafka-protocol/src/messages/initialize_share_group_state_request.rs 69-129 InitializeShareGroupStateRequest::encode, compute_size, decode *)
Definition InitializeShareGroupStateRequest_codec (version : Z) : Codec InitializeShareGroupStateRequest :=
  message 0 0 version (build mkInitializeShareGroupStateRequest
    ⊛ (field InitializeShareGroupStateRequest_group_id CompactString)
    ⊛ (field InitializeShareGroupStateRequest_topics (CompactArray (Struct InitializeStateData_codec
        version)))
    ⊛ unknown_tags true InitializeShareGroupStateRequest_unknown_tagged_fields).

Definition InitializeShareGroupStateRequest_valid (version : Z) (x : InitializeShareGroupStateRequest) :
    Prop :=
  utf8 (InitializeShareGroupStateRequest_group_id x) ∧
  Forall (InitializeStateData_valid version) (InitializeShareGroupStateRequest_topics x) ∧
  unknown_valid 0 (InitializeShareGroupStateRequest_unknown_tagged_fields x).

#[global] Instance InitializeShareGroupStateRequest_sound version : Sound
    (InitializeShareGroupStateRequest_codec version) (InitializeShareGroupStateRequest_valid version).
Proof. solve_message. Qed.

(* @ src/crates/kafka-protocol/src/messages/initialize_share_group_state_request.rs 418-422 InitializeShareGroupStateRequest::header_version *)
Definition InitializeShareGroupStateRequest_header_version (version : Z) : Z := 2.

(* @ src/crates/kafka-protocol/src/messages/initialize_share_group_state_request.rs 141-144 InitializeShareGroupStateRequest::VERSIONS *)
Definition InitializeShareGroupStateRequest_VERSIONS : Z * Z := (0, 0).

(** ** [initialize_share_group_state_response] *)

(* @ src/crates/kafka-protocol/src/messages/initialize_share_group_state_response.rs 254-275 PartitionResult *)
Record InitializeShareGroupStateResponse_PartitionResult : Type :=
    mkInitializeShareGroupStateResponse_PartitionResult {
  InitializeShareGroupStateResponse_PartitionResult_partition : Z;
  InitializeShareGroupStateResponse_PartitionResult_error_code : Z;
  InitializeShareGroupStateResponse_PartitionResult_error_message : option (list byte);
  InitializeShareGroupStateResponse_PartitionResult_unknown_tagged_fields : TaggedFields
}.

(* @ src/crates/kafka-protocol/src/messages/initialize_share_group_state_response.rs 383-392 PartitionResult::default *)
Definition InitializeShareGroupStateResponse_PartitionResult_default :
    InitializeShareGroupStateResponse_PartitionResult := {|
  InitializeShareGroupStateResponse_PartitionResult_partition := 0;
  InitializeShareGroupStateResponse_PartitionResult_error_code := 0;
  InitializeShareGroupStateResponse_PartitionResult_error_message := None;
  InitializeShareGroupStateResponse_PartitionResult_unknown_tagged_fields := ∅
|}.

(* @ src/crates/kafka-protocol/src/messages/initialize_share_group_state_response.rs 317-381 PartitionResult::encode, compute_size, decode *)
Definition InitializeShareGroupStateResponse_PartitionResult_codec (version : Z) : Codec
    InitializeShareGroupStateResponse_PartitionResult :=
  message 0 0 version (build mkInitializeShareGroupStateResponse_PartitionResult
    ⊛ (field InitializeShareGroupStateResponse_PartitionResult_partition Int32)
    ⊛ (field InitializeShareGroupStateResponse_PartitionResult_error_code Int16)
    ⊛ (field InitializeShareGroupStateResponse_PartitionResult_error_message NullableCompactString)
    ⊛ unknown_tags true InitializeShareGroupStateResponse_PartitionResult_unknown_tagged_fields).

Definition InitializeShareGroupStateResponse_PartitionResult_valid (version : Z) (x :
    InitializeShareGroupStateResponse_PartitionResult) : Prop :=
  in_signed 32 (InitializeShareGroupStateResponse_PartitionResult_partition x) ∧
  in_signed 16 (InitializeShareGroupStateResponse_PartitionResult_error_code x) ∧
  opt_all utf8 (InitializeShareGroupStateResponse_PartitionResult_error_message x) ∧
  unknown_valid 0 (InitializeShareGroupStateResponse_PartitionResult_unknown_tagged_fields x).

#[global] Instance InitializeShareGroupStateResponse_PartitionResult_sound version : Sound
    (InitializeShareGroupStateResponse_PartitionResult_codec version)
    (InitializeShareGroupStateResponse_PartitionResult_valid version).
Proof. solve_message. Qed.

(* @ src/crates/kafka-protocol/src/messages/initialize_share_group_state_response.rs 127-143 InitializeStateResult *)
Record InitializeStateResult : Type := mkInitializeStateResult {
  InitializeStateResult_topic_id : Z;
  InitializeStateResult_partitions : list InitializeShareGroupStateResponse_PartitionResult;
  InitializeStateResult_unknown_tagged_fields : TaggedFields
}.

(* @ src/crates/kafka-protocol/src/messages/initialize_share_group_state_response.rs 239-247 InitializeStateResult::default *)
Definition InitializeStateResult_default : InitializeStateResult := {|
  InitializeStateResult_topic_id := 0;
  InitializeStateResult_partitions := [];
  InitializeStateResult_unknown_tagged_fields := ∅
|}.

(* @ src/crates/kafka-protocol/src/messages/initialize_share_group_state_response.rs 176-237 InitializeStateResult::encode, compute_size, decode *)
Definition InitializeStateResult_codec (version : Z) : Codec InitializeStateResult :=
  message 0 0 version (build mkInitializeStateResult
    ⊛ (field InitializeStateResult_topic_id Uuid)
    ⊛ (field InitializeStateResult_partitions (CompactArray (Struct
        InitializeShareGroupStateResponse_PartitionResult_codec version)))
    ⊛ unknown_tags true InitializeStateResult_unknown_tagged_fields).

Definition InitializeStateResult_valid (version : Z) (x : InitializeStateResult) : Prop :=
  in_unsigned 128 (InitializeStateResult_topic_id x) ∧
  Forall (InitializeShareGroupStateResponse_PartitionResult_valid version)
      (InitializeStateResult_partitions x) ∧
  unknown_valid 0 (InitializeStateResult_unknown_tagged_fields x).

#[global] Instance InitializeStateResult_sound version : Sound (InitializeStateResult_codec version)
    (InitializeStateResult_valid version).
Proof. solve_message. Qed.

(* @ src/crates/kafka-protocol/src/messages/initialize_share_group_state_response.rs 20-31 InitializeShareGroupStateResponse *)
Record InitializeShareGroupStateResponse : Type := mkInitializeShareGroupStateResponse {
  InitializeShareGroupStateResponse_results : list InitializeStateResult;
  InitializeShareGroupStateResponse_unknown_tagged_fields : TaggedFields
}.

(* @ src/crates/kafka-protocol/src/messages/initialize_share_group_state_response.rs 113-120 InitializeShareGroupStateResponse::default *)
Definition InitializeShareGroupStateResponse_default : InitializeShareGroupStateResponse := {|
  InitializeShareGroupStateResponse_results := [];
  InitializeShareGroupStateResponse_unknown_tagged_fields := ∅
|}.

(* @ src/crates/kafka-protocol/src/messages/initialize_share_group_state_response.rs 55-111 InitializeShareGroupStateResponse::encode, compute_size, decode *)
Definition InitializeShareGroupStateResponse_codec (version : Z) : Codec InitializeShareGroupStateResponse
    :=
  message 0 0 version (build mkInitializeShareGroupStateResponse
    ⊛ (field InitializeShareGroupStateResponse_results (CompactArray (Struct InitializeStateResult_codec
        version)))
    ⊛ unknown_tags true InitializeShareGroupStateResponse_unknown_tagged_fields).

Definition InitializeShareGroupStateResponse_valid (version : Z) (x : InitializeShareGroupStateResponse) :
    Prop :=
  Forall (InitializeStateResult_valid version) (InitializeShareGroupStateResponse_results x) ∧
  unknown_valid 0 (InitializeShareGroupStateResponse_unknown_tagged_fields x).

#[global] Instance InitializeShareGroupStateResponse_sound version : Sound
    (InitializeShareGroupStateResponse_codec version) (InitializeShareGroupStateResponse_valid version).
Proof. solve_message. Qed.

(* @ src/crates/kafka-protocol/src/messages/initialize_share_group_state_response.rs 399-403 InitializeShareGroupStateResponse::header_version *)
Definition InitializeShareGroupStateResponse_header_version (version : Z) : Z := 1.

(* @ src/crates/kafka-protocol/src/messages/initialize_share_group_state_response.rs 122-125 InitializeShareGroupStateResponse::VERSIONS *)
Definition InitializeShareGroupStateResponse_VERSIONS : Z * Z := (0, 0).

(** ** [read_share_group_state_request] *)

(* @ src/crates/kafka-protocol/src/messages/read_share_group_state_request.rs 20-36 PartitionData *)
Record ReadShareGroupStateRequest_PartitionData : Type := mkReadShareGroupStateRequest_PartitionData {
  ReadShareGroupStateRequest_PartitionData_partition : Z;
  ReadShareGroupStateRequest_PartitionData_leader_epoch : Z;
  ReadShareGroupStateRequest_PartitionData_unknown_tagged_fields : TaggedFields
}.

(* @ src/crates/kafka-protocol/src/messages/read_share_group_state_request.rs 131-139 PartitionData::default *)
Definition ReadShareGroupStateRequest_PartitionData_default : ReadShareGroupStateRequest_PartitionData := {|
  ReadShareGroupStateRequest_PartitionData_partition := 0;
  ReadShareGroupStateRequest_PartitionData_leader_epoch := 0;
  ReadShareGroupStateRequest_PartitionData_unknown_tagged_fields := ∅
|}.

(* @ src/crates/kafka-protocol/src/messages/read_share_group_state_request.rs 69-129 PartitionData::encode, compute_size, decode *)
Definition ReadShareGroupStateRequest_PartitionData_codec (version : Z) : Codec
    ReadShareGroupStateRequest_PartitionData :=
  message 0 0 version (build mkReadShareGroupStateRequest_PartitionData
    ⊛ (field ReadShareGroupStateRequest_PartitionData_partition Int32)
    ⊛ (field ReadShareGroupStateRequest_PartitionData_leader_epoch Int32)
    ⊛ unknown_tags true ReadShareGroupStateRequest_PartitionData_unknown_tagged_fields).

Definition ReadShareGroupStateRequest_PartitionData_valid (version : Z) (x :
    ReadShareGroupStateRequest_PartitionData) : Prop :=
  in_signed 32 (ReadShareGroupStateRequest_PartitionData_partition x) ∧
  in_signed 32 (ReadShareGroupStateRequest_PartitionData_leader_epoch x) ∧
  unknown_valid 0 (ReadShareGroupStateRequest_PartitionData_unknown_tagged_fields x).

#[global] Instance ReadShareGroupStateRequest_PartitionData_sound version : Sound
    (ReadShareGroupStateRequest_PartitionData_codec version)
    (ReadShareGroupStateRequest_PartitionData_valid version).
Proof. solve_message. Qed.

(* @ src/crates/kafka-protocol/src/messages/read_share_group_state_request.rs 272-288 ReadStateData *)
Record ReadStateData : Type := mkReadStateData {
  ReadStateData_topic_id : Z;
  ReadStateData_partitions : list ReadShareGroupStateRequest_PartitionData;
  ReadStateData_unknown_tagged_fields : TaggedFields
}.

(* @ src/crates/kafka-protocol/src/messages/read_share_group_state_request.rs 384-392 ReadStateData::default *)
Definition ReadStateData_default : ReadStateData := {|
  ReadStateData_topic_id := 0;
  ReadStateData_partitions := [];
  ReadStateData_unknown_tagged_fields := ∅
|}.

(* @ src/crates/kafka-protocol/src/messages/read_share_group_state_request.rs 321-382 ReadStateData::encode, compute_size, decode *)
Definition ReadStateData_codec (version : Z) : Codec ReadStateData :=
  message 0 0 version (build mkReadStateData
    ⊛ (field ReadStateData_topic_id Uuid)
    ⊛ (field ReadStateData_partitions (CompactArray (Struct ReadShareGroupStateRequest_PartitionData_codec
        version)))
    ⊛ unknown_tags true ReadStateData_unknown_tagged_fields).

Definition ReadStateData_valid (version : Z) (x : ReadStateData) : Prop :=
  in_unsigned 128 (ReadStateData_topic_id x) ∧
  Forall (ReadShareGroupStateRequest_PartitionData_valid version) (ReadStateData_partitions x) ∧
  unknown_valid 0 (ReadStateData_unknown_tagged_fields x).

#[global] Instance ReadStateData_sound version : Sound (ReadStateData_codec version) (ReadStateData_valid
    version).
Proof. solve_message. Qed.

(* @ src/crates/kafka-protocol/src/messages/read_share_group_state_request.rs 146-162 ReadShareGroupStateRequest *)
Record ReadShareGroupStateRequest : Type := mkReadShareGroupStateRequest {
  ReadShareGroupStateRequest_group_id : list byte;
  ReadShareGroupStateRequest_topics : list ReadStateData;
  ReadShareGroupStateRequest_unknown_tagged_fields : TaggedFields
}.

(* @ src/crates/kafka-protocol/src/messages/read_share_group_state_request.rs 257-265 ReadShareGroupStateRequest::default *)
Definition ReadShareGroupStateRequest_default : ReadShareGroupStateRequest := {|
  ReadShareGroupStateRequest_group_id := [];
  ReadShareGroupStateRequest_topics := [];
  ReadShareGroupStateRequest_unknown_tagged_fields := ∅
|}.

(* @ src/crates/kafka-protocol/src/messages/read_share_group_state_request.rs 195-255 ReadShareGroupStateRequest::encode, compute_size, decode *)
Definition ReadShareGroupStateRequest_codec (version : Z) : Codec ReadShareGroupStateRequest :=
  message 0 0 version (build mkReadShareGroupStateRequest
    ⊛ (field ReadShareGroupStateRequest_group_id CompactString)
    ⊛ (field ReadShareGroupStateRequest_topics (CompactArray (Struct ReadStateData_codec version)))
    ⊛ unknown_tags true ReadShareGroupStateRequest_unknown_tagged_fields).

Definition ReadShareGroupStateRequest_valid (version : Z) (x : ReadShareGroupStateRequest) : Prop :=
  utf8 (ReadShareGroupStateRequest_group_id x) ∧
  Forall (ReadStateData_valid version) (ReadShareGroupStateRequest_topics x) ∧
  unknown_valid 0 (ReadShareGroupStateRequest_unknown_tagged_fields x).

#[global] Instance ReadShareGroupStateRequest_sound version : Sound (ReadShareGroupStateRequest_codec
    version) (ReadShareGroupStateRequest_valid version).
Proof. solve_message. Qed.

(* @ src/crates/kafka-protocol/src/messages/read_share_group_state_request.rs 399-403 ReadShareGroupStateRequest::header_version *)
Definition ReadShareGroupStateRequest_header_version (version : Z) : Z := 2.

(* @ src/crates/kafka-protocol/src/messages/read_share_group_state_request.rs 267-270 ReadShareGroupStateRequest::VERSIONS *)
Definition ReadShareGroupStateRequest_VERSIONS : Z * Z := (0, 0).

(** ** [read_share_group_state_response] *)

(* @ src/crates/kafka-protocol/src/messages/read_share_group_state_response.rs 457-483 StateBatch *)
Record ReadShareGroupStateResponse_StateBatch : Type := mkReadShareGroupStateResponse_StateBatch {
  ReadShareGroupStateResponse_StateBatch_first_offset : Z;
  ReadShareGroupStateResponse_StateBatch_last_offset : Z;
  ReadShareGroupStateResponse_StateBatch_delivery_state : Z;
  ReadShareGroupStateResponse_StateBatch_delivery_count : Z;
  ReadShareGroupStateResponse_StateBatch_unknown_tagged_fields : TaggedFields
}.

(* @ src/crates/kafka-protocol/src/messages/read_share_group_state_response.rs 604-614 StateBatch::default *)
Definition ReadShareGroupStateResponse_StateBatch_default : ReadShareGroupStateResponse_StateBatch := {|
  ReadShareGroupStateResponse_StateBatch_first_offset := 0;
  ReadShareGroupStateResponse_StateBatch_last_offset := 0;
  ReadShareGroupStateResponse_StateBatch_delivery_state := 0;
  ReadShareGroupStateResponse_StateBatch_delivery_count := 0;
  ReadShareGroupStateResponse_StateBatch_unknown_tagged_fields := ∅
|}.

(* @ src/crates/kafka-protocol/src/messages/read_share_group_state_response.rs 534-602 StateBatch::encode, compute_size, decode *)
Definition ReadShareGroupStateResponse_StateBatch_codec (version : Z) : Codec
    ReadShareGroupStateResponse_StateBatch :=
  message 0 0 version (build mkReadShareGroupStateResponse_StateBatch
    ⊛ (field ReadShareGroupStateResponse_StateBatch_first_offset Int64)
    ⊛ (field ReadShareGroupStateResponse_StateBatch_last_offset Int64)
    ⊛ (field ReadShareGroupStateResponse_StateBatch_delivery_state Int8)
    ⊛ (field ReadShareGroupStateResponse_StateBatch_delivery_count Int16)
    ⊛ unknown_tags true ReadShareGroupStateResponse_StateBatch_unknown_tagged_fields).

Definition ReadShareGroupStateResponse_StateBatch_valid (version : Z) (x :
    ReadShareGroupStateResponse_StateBatch) : Prop :=
  in_signed 64 (ReadShareGroupStateResponse_StateBatch_first_offset x) ∧
  in_signed 64 (ReadShareGroupStateResponse_StateBatch_last_offset x) ∧
  in_signed 8 (ReadShareGroupStateResponse_StateBatch_delivery_state x) ∧
  in_signed 16 (ReadShareGroupStateResponse_StateBatch_delivery_count x) ∧
  unknown_valid 0 (ReadShareGroupStateResponse_StateBatch_unknown_tagged_fields x).

#[global] Instance ReadShareGroupStateResponse_StateBatch_sound version : Sound
    (ReadShareGroupStateResponse_StateBatch_codec version) (ReadShareGroupStateResponse_StateBatch_valid
    version).
Proof. solve_message. Qed.

(* @ src/crates/kafka-protocol/src/messages/read_share_group_state_response.rs 20-56 PartitionResult *)
Record ReadShareGroupStateResponse_PartitionResult : Type := mkReadShareGroupStateResponse_PartitionResult {
  ReadShareGroupStateResponse_PartitionResult_partition : Z;
  ReadShareGroupStateResponse_PartitionResult_error_code : Z;
  ReadShareGroupStateResponse_PartitionResult_error_message : option (list byte);
  ReadShareGroupStateResponse_PartitionResult_state_epoch : Z;
  ReadShareGroupStateResponse_PartitionResult_start_offset : Z;
  ReadShareGroupStateResponse_PartitionResult_state_batches : list ReadShareGroupStateResponse_StateBatch;
  ReadShareGroupStateResponse_PartitionResult_unknown_tagged_fields : TaggedFields
}.

(* @ src/crates/kafka-protocol/src/messages/read_share_group_state_response.rs 204-216 PartitionResult::default *)
Definition ReadShareGroupStateResponse_PartitionResult_default :
    ReadShareGroupStateResponse_PartitionResult := {|
  ReadShareGroupStateResponse_PartitionResult_partition := 0;
  ReadShareGroupStateResponse_PartitionResult_error_code := 0;
  ReadShareGroupStateResponse_PartitionResult_error_message := None;
  ReadShareGroupStateResponse_PartitionResult_state_epoch := 0;
  ReadShareGroupStateResponse_PartitionResult_start_offset := 0;
  ReadShareGroupStateResponse_PartitionResult_state_batches := [];
  ReadShareGroupStateResponse_PartitionResult_unknown_tagged_fields := ∅
|}.

(* @ src/crates/kafka-protocol/src/messages/read_share_group_state_response.rs 125-202 PartitionResult::encode, compute_size, decode *)
Definition ReadShareGroupStateResponse_PartitionResult_codec (version : Z) : Codec
    ReadShareGroupStateResponse_PartitionResult :=
  message 0 0 version (build mkReadShareGroupStateResponse_PartitionResult
    ⊛ (field ReadShareGroupStateResponse_PartitionResult_partition Int32)
    ⊛ (field ReadShareGroupStateResponse_PartitionResult_error_code Int16)
    ⊛ (field ReadShareGroupStateResponse_PartitionResult_error_message NullableCompactString)
    ⊛ (field ReadShareGroupStateResponse_PartitionResult_state_epoch Int32)
    ⊛ (field ReadShareGroupStateResponse_PartitionResult_start_offset Int64)
    ⊛ (field ReadShareGroupStateResponse_PartitionResult_state_batches (CompactArray (Struct
        ReadShareGroupStateResponse_StateBatch_codec version)))
    ⊛ unknown_tags true ReadShareGroupStateResponse_PartitionResult_unknown_tagged_fields).

Definition ReadShareGroupStateResponse_PartitionResult_valid (version : Z) (x :
    ReadShareGroupStateResponse_PartitionResult) : Prop :=
  in_signed 32 (ReadShareGroupStateResponse_PartitionResult_partition x) ∧
  in_signed 16 (ReadShareGroupStateResponse_PartitionResult_error_code x) ∧
  opt_all utf8 (ReadShareGroupStateResponse_PartitionResult_error_message x) ∧
  in_signed 32 (ReadShareGroupStateResponse_PartitionResult_state_epoch x) ∧
  in_signed 64 (ReadShareGroupStateResponse_PartitionResult_start_offset x) ∧
  Forall (ReadShareGroupStateResponse_StateBatch_valid version)
      (ReadShareGroupStateResponse_PartitionResult_state_batches x) ∧
  unknown_valid 0 (ReadShareGroupStateResponse_PartitionResult_unknown_tagged_fields x).

#[global] Instance ReadShareGroupStateResponse_PartitionResult_sound version : Sound
    (ReadShareGroupStateResponse_PartitionResult_codec version)
    (ReadShareGroupStateResponse_PartitionResult_valid version).
Proof. solve_message. Qed.

(* @ src/crates/kafka-protocol/src/messages/read_share_group_state_response.rs 330-346 ReadStateResult *)
Record ReadStateResult : Type := mkReadStateResult {
  ReadStateResult_topic_id : Z;
  ReadStateResult_partitions : list ReadShareGroupStateResponse_PartitionResult;
  ReadStateResult_unknown_tagged_fields : TaggedFields
}.

(* @ src/crates/kafka-protocol/src/messages/read_share_group_state_response.rs 442-450 ReadStateResult::default *)
Definition ReadStateResult_default : ReadStateResult := {|
  ReadStateResult_topic_id := 0;
  ReadStateResult_partitions := [];
  ReadStateResult_unknown_tagged_fields := ∅
|}.

(* @ src/crates/kafka-protocol/src/messages/read_share_group_state_response.rs 379-440 ReadStateResult::encode, compute_size, decode *)
Definition ReadStateResult_codec (version : Z) : Codec ReadStateResult :=
  message 0 0 version (build mkReadStateResult
    ⊛ (field ReadStateResult_topic_id Uuid)
    ⊛ (field ReadStateResult_partitions (CompactArray (Struct
        ReadShareGroupStateResponse_PartitionResult_codec version)))
    ⊛ unknown_tags true ReadStateResult_unknown_tagged_fields).

Definition ReadStateResult_valid (version : Z) (x : ReadStateResult) : Prop :=
  in_unsigned 128 (ReadStateResult_topic_id x) ∧
  Forall (ReadShareGroupStateResponse_PartitionResult_valid version) (ReadStateResult_partitions x) ∧
  unknown_valid 0 (ReadStateResult_unknown_tagged_fields x).

#[global] Instance ReadStateResult_sound version : Sound (ReadStateResult_codec version)
    (ReadStateResult_valid version).
Proof. solve_message. Qed.

(* @ src/crates/kafka-protocol/src/messages/read_share_group_state_response.rs 223-234 ReadShareGroupStateResponse *)
Record ReadShareGroupStateResponse : Type := mkReadShareGroupStateResponse {
  ReadShareGroupStateResponse_results : list ReadStateResult;
  ReadShareGroupStateResponse_unknown_tagged_fields : TaggedFields
}.

(* @ src/crates/kafka-protocol/src/messages/read_share_group_state_response.rs 316-323 ReadShareGroupStateResponse::default *)
Definition ReadShareGroupStateResponse_default : ReadShareGroupStateResponse := {|
  ReadShareGroupStateResponse_results := [];
  ReadShareGroupStateResponse_unknown_tagged_fields := ∅
|}.

(* @ src/crates/kafka-protocol/src/messages/read_share_group_state_response.rs 258-314 ReadShareGroupStateResponse::encode, compute_size, decode *)
Definition ReadShareGroupStateResponse_codec (version : Z) : Codec ReadShareGroupStateResponse :=
  message 0 0 version (build mkReadShareGroupStateResponse
    ⊛ (field ReadShareGroupStateResponse_results (CompactArray (Struct ReadStateResult_codec version)))
    ⊛ unknown_tags true ReadShareGroupStateResponse_unknown_tagged_fields).

Definition ReadShareGroupStateResponse_valid (version : Z) (x : ReadShareGroupStateResponse) : Prop :=
  Forall (ReadStateResult_valid version) (ReadShareGroupStateResponse_results x) ∧
  unknown_valid 0 (ReadShareGroupStateResponse_unknown_tagged_fields x).

#[global] Instance ReadShareGroupStateResponse_sound version : Sound (ReadShareGroupStateResponse_codec
    version) (ReadShareGroupStateResponse_valid version).
Proof. solve_message. Qed.

(* @ src/crates/kafka-protocol/src/messages/read_share_group_state_response.rs 621-625 ReadShareGroupStateResponse::header_version *)
Definition ReadShareGroupStateResponse_header_version (version : Z) : Z := 1.

(* @ src/crates/kafka-protocol/src/messages/read_share_group_state_response.rs 325-328 ReadShareGroupStateResponse::VERSIONS *)
Definition ReadShareGroupStateResponse_VERSIONS : Z * Z := (0, 0).

(** ** [read_share_group_state_summary_request] *)

(* @ src/crates/kafka-protocol/src/messages/read_share_group_state_summary_request.rs 20-36 PartitionData *)
Record ReadShareGroupStateSummaryRequest_PartitionData : Type :=
    mkReadShareGroupStateSummaryRequest_PartitionData {
  ReadShareGroupStateSummaryRequest_PartitionData_partition : Z;
  ReadShareGroupStateSummaryRequest_PartitionData_leader_epoch : Z;
  ReadShareGroupStateSummaryRequest_PartitionData_unknown_tagged_fields : TaggedFields
}.

(* @ src/crates/kafka-protocol/src/messages/read_share_group_state_summary_request.rs 131-139 PartitionData::default *)
Definition ReadShareGroupStateSummaryRequest_PartitionData_default :
    ReadShareGroupStateSummaryRequest_PartitionData := {|
  ReadShareGroupStateSummaryRequest_PartitionData_partition := 0;
  ReadShareGroupStateSummaryRequest_PartitionData_leader_epoch := 0;
  ReadShareGroupStateSummaryRequest_PartitionData_unknown_tagged_fields := ∅
|}.

(* @ src/crates/kafka-protocol/src/messages/read_share_group_state_summary_request.rs 69-129 PartitionData::encode, compute_size, decode *)
Definition ReadShareGroupStateSummaryRequest_PartitionData_codec (version : Z) : Codec
    ReadShareGroupStateSummaryRequest_PartitionData :=
  message 0 1 version (build mkReadShareGroupStateSummaryRequest_PartitionData
    ⊛ (field ReadShareGroupStateSummaryRequest_PartitionData_partition Int32)
    ⊛ (field ReadShareGroupStateSummaryRequest_PartitionData_leader_epoch Int32)
    ⊛ unknown_tags true ReadShareGroupStateSummaryRequest_PartitionData_unknown_tagged_fields).

Definition ReadShareGroupStateSummaryRequest_PartitionData_valid (version : Z) (x :
    ReadShareGroupStateSummaryRequest_PartitionData) : Prop :=
  in_signed 32 (ReadShareGroupStateSummaryRequest_PartitionData_partition x) ∧
  in_signed 32 (ReadShareGroupStateSummaryRequest_PartitionData_leader_epoch x) ∧
  unknown_valid 0 (ReadShareGroupStateSummaryRequest_PartitionData_unknown_tagged_fields x).

#[global] Instance ReadShareGroupStateSummaryRequest_PartitionData_sound version : Sound
    (ReadShareGroupStateSummaryRequest_PartitionData_codec version)
    (ReadShareGroupStateSummaryRequest_PartitionData_valid version).
Proof. solve_message. Qed.

(* @ src/crates/kafka-protocol/src/messages/read_share_group_state_summary_request.rs 272-288 ReadStateSummaryData *)
Record ReadStateSummaryData : Type := mkReadStateSummaryData {
  ReadStateSummaryData_topic_id : Z;
  ReadStateSummaryData_partitions : list ReadShareGroupStateSummaryRequest_PartitionData;
  ReadStateSummaryData_unknown_tagged_fields : TaggedFields
}.

(* @ src/crates/kafka-protocol/src/messages/read_share_group_state_summary_request.rs 384-392 ReadStateSummaryData::default *)
Definition ReadStateSummaryData_default : ReadStateSummaryData := {|
  ReadStateSummaryData_topic_id := 0;
  ReadStateSummaryData_partitions := [];
  ReadStateSummaryData_unknown_tagged_fields := ∅
|}.

(* @ src/crates/kafka-protocol/src/messages/read_share_group_state_summary_request.rs 321-382 ReadStateSummaryData::encode, compute_size, decode *)
Definition ReadStateSummaryData_codec (version : Z) : Codec ReadStateSummaryData :=
  message 0 1 version (build mkReadStateSummaryData
    ⊛ (field ReadStateSummaryData_topic_id Uuid)
    ⊛ (field ReadStateSummaryData_partitions (CompactArray (Struct
        ReadShareGroupStateSummaryRequest_PartitionData_codec version)))
    ⊛ unknown_tags true ReadStateSummaryData_unknown_tagged_fields).

Definition ReadStateSummaryData_valid (version : Z) (x : ReadStateSummaryData) : Prop :=
  in_unsigned 128 (ReadStateSummaryData_topic_id x) ∧
  Forall (ReadShareGroupStateSummaryRequest_PartitionData_valid version) (ReadStateSummaryData_partitions
      x) ∧
  unknown_valid 0 (ReadStateSummaryData_unknown_tagged_fields x).

#[global] Instance ReadStateSummaryData_sound version : Sound (ReadStateSummaryData_codec version)
    (ReadStateSummaryData_valid version).
Proof. solve_message. Qed.

(* @ src/crates/kafka-protocol/src/messages/read_share_group_state_summary_request.rs 146-162 ReadShareGroupStateSummaryRequest *)
Record ReadShareGroupStateSummaryRequest : Type := mkReadShareGroupStateSummaryRequest {
  ReadShareGroupStateSummaryRequest_group_id : list byte;
  ReadShareGroupStateSummaryRequest_topics : list ReadStateSummaryData;
  ReadShareGroupStateSummaryRequest_unknown_tagged_fields : TaggedFields
}.

(* @ src/crates/kafka-protocol/src/messages/read_share_group_state_summary_request.rs 257-265 ReadShareGroupStateSummaryRequest::default *)
Definition ReadShareGroupStateSummaryRequest_default : ReadShareGroupStateSummaryRequest := {|
  ReadShareGroupStateSummaryRequest_group_id := [];
  ReadShareGroupStateSummaryRequest_topics := [];
  ReadShareGroupStateSummaryRequest_unknown_tagged_fields := ∅
|}.

(* @ src/crates/kafka-protocol/src/messages/read_share_group_state_summary_request.rs 195-255 ReadShareGroupStateSummaryRequest::encode, compute_size, decode *)
Definition ReadShareGroupStateSummaryRequest_codec (version : Z) : Codec ReadShareGroupStateSummaryRequest
    :=
  message 0 1 version (build mkReadShareGroupStateSummaryRequest
    ⊛ (field ReadShareGroupStateSummaryRequest_group_id CompactString)
    ⊛ (field ReadShareGroupStateSummaryRequest_topics (CompactArray (Struct ReadStateSummaryData_codec
        version)))
    ⊛ unknown_tags true ReadShareGroupStateSummaryRequest_unknown_tagged_fields).

Definition ReadShareGroupStateSummaryRequest_valid (version : Z) (x : ReadShareGroupStateSummaryRequest) :
    Prop :=
  utf8 (ReadShareGroupStateSummaryRequest_group_id x) ∧
  Forall (ReadStateSummaryData_valid version) (ReadShareGroupStateSummaryRequest_topics x) ∧
  unknown_valid 0 (ReadShareGroupStateSummaryRequest_unknown_tagged_fields x).

#[global] Instance ReadShareGroupStateSummaryRequest_sound version : Sound
    (ReadShareGroupStateSummaryRequest_codec version) (ReadShareGroupStateSummaryRequest_valid version).
Proof. solve_message. Qed.

(* @ src/crates/kafka-protocol/src/messages/read_share_group_state_summary_request.rs 399-403 ReadShareGroupStateSummaryRequest::header_version *)
Definition ReadShareGroupStateSummaryRequest_header_version (version : Z) : Z := 2.

(* @ src/crates/kafka-protocol/src/messages/read_share_group_state_summary_request.rs 267-270 ReadShareGroupStateSummaryRequest::VERSIONS *)
Definition ReadShareGroupStateSummaryRequest_VERSIONS : Z * Z := (0, 1).

(** ** [read_share_group_state_summary_response] *)

(* @ src/crates/kafka-protocol/src/messages/read_share_group_state_summary_response.rs 20-61 PartitionResult *)
Record ReadShareGroupStateSummaryResponse_PartitionResult : Type :=
    mkReadShareGroupStateSummaryResponse_PartitionResult {
  ReadShareGroupStateSummaryResponse_PartitionResult_partition : Z;
  ReadShareGroupStateSummaryResponse_PartitionResult_error_code : Z;
  ReadShareGroupStateSummaryResponse_PartitionResult_error_message : option (list byte);
  ReadShareGroupStateSummaryResponse_PartitionResult_state_epoch : Z;
  ReadShareGroupStateSummaryResponse_PartitionResult_leader_epoch : Z;
  ReadShareGroupStateSummaryResponse_PartitionResult_start_offset : Z;
  ReadShareGroupStateSummaryResponse_PartitionResult_delivery_complete_count : Z;
  ReadShareGroupStateSummaryResponse_PartitionResult_unknown_tagged_fields : TaggedFields
}.

(* @ src/crates/kafka-protocol/src/messages/read_share_group_state_summary_response.rs 229-242 PartitionResult::default *)
Definition ReadShareGroupStateSummaryResponse_PartitionResult_default :
    ReadShareGroupStateSummaryResponse_PartitionResult := {|
  ReadShareGroupStateSummaryResponse_PartitionResult_partition := 0;
  ReadShareGroupStateSummaryResponse_PartitionResult_error_code := 0;
  ReadShareGroupStateSummaryResponse_PartitionResult_error_message := None;
  ReadShareGroupStateSummaryResponse_PartitionResult_state_epoch := 0;
  ReadShareGroupStateSummaryResponse_PartitionResult_leader_epoch := 0;
  ReadShareGroupStateSummaryResponse_PartitionResult_start_offset := 0;
  ReadShareGroupStateSummaryResponse_PartitionResult_delivery_complete_count := -1;
  ReadShareGroupStateSummaryResponse_PartitionResult_unknown_tagged_fields := ∅
|}.

(* @ src/crates/kafka-protocol/src/messages/read_share_group_state_summary_response.rs 139-227 PartitionResult::encode, compute_size, decode *)
Definition ReadShareGroupStateSummaryResponse_PartitionResult_codec (version : Z) : Codec
    ReadShareGroupStateSummaryResponse_PartitionResult :=
  message 0 1 version (build mkReadShareGroupStateSummaryResponse_PartitionResult
    ⊛ (field ReadShareGroupStateSummaryResponse_PartitionResult_partition Int32)
    ⊛ (field ReadShareGroupStateSummaryResponse_PartitionResult_error_code Int16)
    ⊛ (field ReadShareGroupStateSummaryResponse_PartitionResult_error_message NullableCompactString)
    ⊛ (field ReadShareGroupStateSummaryResponse_PartitionResult_state_epoch Int32)
    ⊛ (field ReadShareGroupStateSummaryResponse_PartitionResult_leader_epoch Int32)
    ⊛ (field ReadShareGroupStateSummaryResponse_PartitionResult_start_offset Int64)
    ⊛ (if 1 <=? version then field
        ReadShareGroupStateSummaryResponse_PartitionResult_delivery_complete_count Int32 else ignored (-1))
    ⊛ unknown_tags true ReadShareGroupStateSummaryResponse_PartitionResult_unknown_tagged_fields).

Definition ReadShareGroupStateSummaryResponse_PartitionResult_valid (version : Z) (x :
    ReadShareGroupStateSummaryResponse_PartitionResult) : Prop :=
  in_signed 32 (ReadShareGroupStateSummaryResponse_PartitionResult_partition x) ∧
  in_signed 16 (ReadShareGroupStateSummaryResponse_PartitionResult_error_code x) ∧
  opt_all utf8 (ReadShareGroupStateSummaryResponse_PartitionResult_error_message x) ∧
  in_signed 32 (ReadShareGroupStateSummaryResponse_PartitionResult_state_epoch x) ∧
  in_signed 32 (ReadShareGroupStateSummaryResponse_PartitionResult_leader_epoch x) ∧
  in_signed 64 (ReadShareGroupStateSummaryResponse_PartitionResult_start_offset x) ∧
  (if 1 <=? version then in_signed 32
      (ReadShareGroupStateSummaryResponse_PartitionResult_delivery_complete_count x) else
      ReadShareGroupStateSummaryResponse_PartitionResult_delivery_complete_count x = (-1)) ∧
  unknown_valid 0 (ReadShareGroupStateSummaryResponse_PartitionResult_unknown_tagged_fields x).

#[global] Instance ReadShareGroupStateSummaryResponse_PartitionResult_sound version : Sound
    (ReadShareGroupStateSummaryResponse_PartitionResult_codec version)
    (ReadShareGroupStateSummaryResponse_PartitionResult_valid version).
Proof. solve_message. Qed.

(* @ src/crates/kafka-protocol/src/messages/read_share_group_state_summary_response.rs 356-372 ReadStateSummaryResult *)
Record ReadStateSummaryResult : Type := mkReadStateSummaryResult {
  ReadStateSummaryResult_topic_id : Z;
  ReadStateSummaryResult_partitions : list ReadShareGroupStateSummaryResponse_PartitionResult;
  ReadStateSummaryResult_unknown_tagged_fields : TaggedFields
}.

(* @ src/crates/kafka-protocol/src/messages/read_share_group_state_summary_response.rs 468-476 ReadStateSummaryResult::default *)
Definition ReadStateSummaryResult_default : ReadStateSummaryResult := {|
  ReadStateSummaryResult_topic_id := 0;
  ReadStateSummaryResult_partitions := [];
  ReadStateSummaryResult_unknown_tagged_fields := ∅
|}.

(* @ src/crates/kafka-protocol/src/messages/read_share_group_state_summary_response.rs 405-466 ReadStateSummaryResult::encode, compute_size, decode *)
Definition ReadStateSummaryResult_codec (version : Z) : Codec ReadStateSummaryResult :=
  message 0 1 version (build mkReadStateSummaryResult
    ⊛ (field ReadStateSummaryResult_topic_id Uuid)
    ⊛ (field ReadStateSummaryResult_partitions (CompactArray (Struct
        ReadShareGroupStateSummaryResponse_PartitionResult_codec version)))
    ⊛ unknown_tags true ReadStateSummaryResult_unknown_tagged_fields).

Definition ReadStateSummaryResult_valid (version : Z) (x : ReadStateSummaryResult) : Prop :=
  in_unsigned 128 (ReadStateSummaryResult_topic_id x) ∧
  Forall (ReadShareGroupStateSummaryResponse_PartitionResult_valid version)
      (ReadStateSummaryResult_partitions x) ∧
  unknown_valid 0 (ReadStateSummaryResult_unknown_tagged_fields x).

#[global] Instance ReadStateSummaryResult_sound version : Sound (ReadStateSummaryResult_codec version)
    (ReadStateSummaryResult_valid version).
Proof. solve_message. Qed.

(* @ src/crates/kafka-protocol/src/messages/read_share_group_state_summary_response.rs 249-260 ReadShareGroupStateSummaryResponse *)
Record ReadShareGroupStateSummaryResponse : Type := mkReadShareGroupStateSummaryResponse {
  ReadShareGroupStateSummaryResponse_results : list ReadStateSummaryResult;
  ReadShareGroupStateSummaryResponse_unknown_tagged_fields : TaggedFields
}.

(* @ src/crates/kafka-protocol/src/messages/read_share_group_state_summary_response.rs 342-349 ReadShareGroupStateSummaryResponse::default *)
Definition ReadShareGroupStateSummaryResponse_default : ReadShareGroupStateSummaryResponse := {|
  ReadShareGroupStateSummaryResponse_results := [];
  ReadShareGroupStateSummaryResponse_unknown_tagged_fields := ∅
|}.

(* @ src/crates/kafka-protocol/src/messages/read_share_group_state_summary_response.rs 284-340 ReadShareGroupStateSummaryResponse::encode, compute_size, decode *)
Definition ReadShareGroupStateSummaryResponse_codec (version : Z) : Codec
    ReadShareGroupStateSummaryResponse :=
  message 0 1 version (build mkReadShareGroupStateSummaryResponse
    ⊛ (field ReadShareGroupStateSummaryResponse_results (CompactArray (Struct ReadStateSummaryResult_codec
        version)))
    ⊛ unknown_tags true ReadShareGroupStateSummaryResponse_unknown_tagged_fields).

Definition ReadShareGroupStateSummaryResponse_valid (version : Z) (x : ReadShareGroupStateSummaryResponse)
    : Prop :=
  Forall (ReadStateSummaryResult_valid version) (ReadShareGroupStateSummaryResponse_results x) ∧
  unknown_valid 0 (ReadShareGroupStateSummaryResponse_unknown_tagged_fields x).

#[global] Instance ReadShareGroupStateSummaryResponse_sound version : Sound
    (ReadShareGroupStateSummaryResponse_codec version) (ReadShareGroupStateSummaryResponse_valid version).
Proof. solve_message. Qed.

(* @ src/crates/kafka-protocol/src/messages/read_share_group_state_summary_response.rs 483-487 ReadShareGroupStateSummaryResponse::header_version *)
Definition ReadShareGroupStateSummaryResponse_header_version (version : Z) : Z := 1.

(* @ src/crates/kafka-protocol/src/messages/read_share_group_state_summary_response.rs 351-354 ReadShareGroupStateSummaryResponse::VERSIONS *)
Definition ReadShareGroupStateSummaryResponse_VERSIONS : Z * Z := (0, 1).

(** ** [share_acknowledge_request] *)

(* @ src/crates/kafka-protocol/src/messages/share_acknowledge_request.rs 275-296 AcknowledgementBatch *)
Record ShareAcknowledgeRequest_AcknowledgementBatch : Type :=
    mkShareAcknowledgeRequest_AcknowledgementBatch {
  ShareAcknowledgeRequest_AcknowledgementBatch_first_offset : Z;
  ShareAcknowledgeRequest_AcknowledgementBatch_last_offset : Z;
  ShareAcknowledgeRequest_AcknowledgementBatch_acknowledge_types : list Z;
  ShareAcknowledgeRequest_AcknowledgementBatch_unknown_tagged_fields : TaggedFields
}.

(* @ src/crates/kafka-protocol/src/messages/share_acknowledge_request.rs 404-413 AcknowledgementBatch::default *)
Definition ShareAcknowledgeRequest_AcknowledgementBatch_default :
    ShareAcknowledgeRequest_AcknowledgementBatch := {|
  ShareAcknowledgeRequest_AcknowledgementBatch_first_offset := 0;
  ShareAcknowledgeRequest_AcknowledgementBatch_last_offset := 0;
  ShareAcknowledgeRequest_AcknowledgementBatch_acknowledge_types := [];
  ShareAcknowledgeRequest_AcknowledgementBatch_unknown_tagged_fields := ∅
|}.

(* @ src/crates/kafka-protocol/src/messages/share_acknowledge_request.rs 338-402 AcknowledgementBatch::encode, compute_size, decode *)
Definition ShareAcknowledgeRequest_AcknowledgementBatch_codec (version : Z) : Codec
    ShareAcknowledgeRequest_AcknowledgementBatch :=
  message 1 2 version (build mkShareAcknowledgeRequest_AcknowledgementBatch
    ⊛ (field ShareAcknowledgeRequest_AcknowledgementBatch_first_offset Int64)
    ⊛ (field ShareAcknowledgeRequest_AcknowledgementBatch_last_offset Int64)
    ⊛ (field ShareAcknowledgeRequest_AcknowledgementBatch_acknowledge_types (CompactArray Int8))
    ⊛ unknown_tags true ShareAcknowledgeRequest_AcknowledgementBatch_unknown_tagged_fields).

Definition ShareAcknowledgeRequest_AcknowledgementBatch_valid (version : Z) (x :
    ShareAcknowledgeRequest_AcknowledgementBatch) : Prop :=
  in_signed 64 (ShareAcknowledgeRequest_AcknowledgementBatch_first_offset x) ∧
  in_signed 64 (ShareAcknowledgeRequest_AcknowledgementBatch_last_offset x) ∧
  Forall (in_signed 8) (ShareAcknowledgeRequest_AcknowledgementBatch_acknowledge_types x) ∧
  unknown_valid 0 (ShareAcknowledgeRequest_AcknowledgementBatch_unknown_tagged_fields x).

#[global] Instance ShareAcknowledgeRequest_AcknowledgementBatch_sound version : Sound
    (ShareAcknowledgeRequest_AcknowledgementBatch_codec version)
    (ShareAcknowledgeRequest_AcknowledgementBatch_valid version).
Proof. solve_message. Qed.

(* @ src/crates/kafka-protocol/src/messages/share_acknowledge_request.rs 20-36 AcknowledgePartition *)
Record AcknowledgePartition : Type := mkAcknowledgePartition {
  AcknowledgePartition_partition_index : Z;
  AcknowledgePartition_acknowledgement_batches : list ShareAcknowledgeRequest_AcknowledgementBatch;
  AcknowledgePartition_unknown_tagged_fields : TaggedFields
}.

(* @ src/crates/kafka-protocol/src/messages/share_acknowledge_request.rs 133-141 AcknowledgePartition::default *)
Definition AcknowledgePartition_default : AcknowledgePartition := {|
  AcknowledgePartition_partition_index := 0;
  AcknowledgePartition_acknowledgement_batches := [];
  AcknowledgePartition_unknown_tagged_fields := ∅
|}.

(* @ src/crates/kafka-protocol/src/messages/share_acknowledge_request.rs 69-131 AcknowledgePartition::encode, compute_size, decode *)
Definition AcknowledgePartition_codec (version : Z) : Codec AcknowledgePartition :=
  message 1 2 version (build mkAcknowledgePartition
    ⊛ (field AcknowledgePartition_partition_index Int32)
    ⊛ (field AcknowledgePartition_acknowledgement_batches (CompactArray (Struct
        ShareAcknowledgeRequest_AcknowledgementBatch_codec version)))
    ⊛ unknown_tags true AcknowledgePartition_unknown_tagged_fields).

Definition AcknowledgePartition_valid (version : Z) (x : AcknowledgePartition) : Prop :=
  in_signed 32 (AcknowledgePartition_partition_index x) ∧
  Forall (ShareAcknowledgeRequest_AcknowledgementBatch_valid version)
      (AcknowledgePartition_acknowledgement_batches x) ∧
  unknown_valid 0 (AcknowledgePartition_unknown_tagged_fields x).

#[global] Instance AcknowledgePartition_sound version : Sound (AcknowledgePartition_codec version)
    (AcknowledgePartition_valid version).
Proof. solve_message. Qed.

(* @ src/crates/kafka-protocol/src/messages/share_acknowledge_request.rs 148-164 AcknowledgeTopic *)
Record AcknowledgeTopic : Type := mkAcknowledgeTopic {
  AcknowledgeTopic_topic_id : Z;
  AcknowledgeTopic_partitions : list AcknowledgePartition;
  AcknowledgeTopic_unknown_tagged_fields : TaggedFields
}.

(* @ src/crates/kafka-protocol/src/messages/share_acknowledge_request.rs 260-268 AcknowledgeTopic::default *)
Definition AcknowledgeTopic_default : AcknowledgeTopic := {|
  AcknowledgeTopic_topic_id := 0;
  AcknowledgeTopic_partitions := [];
  AcknowledgeTopic_unknown_tagged_fields := ∅
|}.

(* @ src/crates/kafka-protocol/src/messages/share_acknowledge_request.rs 197-258 AcknowledgeTopic::encode, compute_size, decode *)
Definition AcknowledgeTopic_codec (version : Z) : Codec AcknowledgeTopic :=
  message 1 2 version (build mkAcknowledgeTopic
    ⊛ (field AcknowledgeTopic_topic_id Uuid)
    ⊛ (field AcknowledgeTopic_partitions (CompactArray (Struct AcknowledgePartition_codec version)))
    ⊛ unknown_tags true AcknowledgeTopic_unknown_tagged_fields).

Definition AcknowledgeTopic_valid (version : Z) (x : AcknowledgeTopic) : Prop :=
  in_unsigned 128 (AcknowledgeTopic_topic_id x) ∧
  Forall (AcknowledgePartition_valid version) (AcknowledgeTopic_partitions x) ∧
  unknown_valid 0 (AcknowledgeTopic_unknown_tagged_fields x).

#[global] Instance AcknowledgeTopic_sound version : Sound (AcknowledgeTopic_codec version)
    (AcknowledgeTopic_valid version).
Proof. solve_message. Qed.

(* @ src/crates/kafka-protocol/src/messages/share_acknowledge_request.rs 420-451 ShareAcknowledgeRequest *)
Record ShareAcknowledgeRequest : Type := mkShareAcknowledgeRequest {
  ShareAcknowledgeRequest_group_id : option (list byte);
  ShareAcknowledgeRequest_member_id : option (list byte);
  ShareAcknowledgeRequest_share_session_epoch : Z;
  ShareAcknowledgeRequest_is_renew_ack : bool;
  ShareAcknowledgeRequest_topics : list AcknowledgeTopic;
  ShareAcknowledgeRequest_unknown_tagged_fields : TaggedFields
}.

(* @ src/crates/kafka-protocol/src/messages/share_acknowledge_request.rs 601-612 ShareAcknowledgeRequest::default *)
Definition ShareAcknowledgeRequest_default : ShareAcknowledgeRequest := {|
  ShareAcknowledgeRequest_group_id := None;
  ShareAcknowledgeRequest_member_id := Some [];
  ShareAcknowledgeRequest_share_session_epoch := 0;
  ShareAcknowledgeRequest_is_renew_ack := false;
  ShareAcknowledgeRequest_topics := [];
  ShareAcknowledgeRequest_unknown_tagged_fields := ∅
|}.

(* @ src/crates/kafka-protocol/src/messages/share_acknowledge_request.rs 511-599 ShareAcknowledgeRequest::encode, compute_size, decode *)
Definition ShareAcknowledgeRequest_codec (version : Z) : Codec ShareAcknowledgeRequest :=
  message 1 2 version (build mkShareAcknowledgeRequest
    ⊛ (field ShareAcknowledgeRequest_group_id NullableCompactString)
    ⊛ (field ShareAcknowledgeRequest_member_id NullableCompactString)
    ⊛ (field ShareAcknowledgeRequest_share_session_epoch Int32)
    ⊛ (if 2 <=? version then field ShareAcknowledgeRequest_is_renew_ack Boolean else unset
        ShareAcknowledgeRequest_is_renew_ack negb false)
    ⊛ (field ShareAcknowledgeRequest_topics (CompactArray (Struct AcknowledgeTopic_codec version)))
    ⊛ unknown_tags true ShareAcknowledgeRequest_unknown_tagged_fields).

Definition ShareAcknowledgeRequest_valid (version : Z) (x : ShareAcknowledgeRequest) : Prop :=
  opt_all utf8 (ShareAcknowledgeRequest_group_id x) ∧
  opt_all utf8 (ShareAcknowledgeRequest_member_id x) ∧
  in_signed 32 (ShareAcknowledgeRequest_share_session_epoch x) ∧
  Forall (AcknowledgeTopic_valid version) (ShareAcknowledgeRequest_topics x) ∧
  unknown_valid 0 (ShareAcknowledgeRequest_unknown_tagged_fields x).

#[global] Instance ShareAcknowledgeRequest_sound version : Sound (ShareAcknowledgeRequest_codec version)
    (ShareAcknowledgeRequest_valid version).
Proof. solve_message. Qed.

(* @ src/crates/kafka-protocol/src/messages/share_acknowledge_request.rs 619-623 ShareAcknowledgeRequest::header_version *)
Definition ShareAcknowledgeRequest_header_version (version : Z) : Z := 2.

(* @ src/crates/kafka-protocol/src/messages/share_acknowledge_request.rs 614-617 ShareAcknowledgeRequest::VERSIONS *)
Definition ShareAcknowledgeRequest_VERSIONS : Z * Z := (1, 2).

(** ** [share_acknowledge_response] *)

(* @ src/crates/kafka-protocol/src/messages/share_acknowledge_response.rs 20-36 LeaderIdAndEpoch *)
Record ShareAcknowledgeResponse_LeaderIdAndEpoch : Type := mkShareAcknowledgeResponse_LeaderIdAndEpoch {
  ShareAcknowledgeResponse_LeaderIdAndEpoch_leader_id : Z;
  ShareAcknowledgeResponse_LeaderIdAndEpoch_leader_epoch : Z;
  ShareAcknowledgeResponse_LeaderIdAndEpoch_unknown_tagged_fields : TaggedFields
}.

(* @ src/crates/kafka-protocol/src/messages/share_acknowledge_response.rs 131-139 LeaderIdAndEpoch::default *)
Definition ShareAcknowledgeResponse_LeaderIdAndEpoch_default : ShareAcknowledgeResponse_LeaderIdAndEpoch :=
    {|
  ShareAcknowledgeResponse_LeaderIdAndEpoch_leader_id := 0;
  ShareAcknowledgeResponse_LeaderIdAndEpoch_leader_epoch := 0;
  ShareAcknowledgeResponse_LeaderIdAndEpoch_unknown_tagged_fields := ∅
|}.

(* @ src/crates/kafka-protocol/src/messages/share_acknowledge_response.rs 69-129 LeaderIdAndEpoch::encode, compute_size, decode *)
Definition ShareAcknowledgeResponse_LeaderIdAndEpoch_codec (version : Z) : Codec
    ShareAcknowledgeResponse_LeaderIdAndEpoch :=
  message 1 2 version (build mkShareAcknowledgeResponse_LeaderIdAndEpoch
    ⊛ (field ShareAcknowledgeResponse_LeaderIdAndEpoch_leader_id Int32)
    ⊛ (field ShareAcknowledgeResponse_LeaderIdAndEpoch_leader_epoch Int32)
    ⊛ unknown_tags true ShareAcknowledgeResponse_LeaderIdAndEpoch_unknown_tagged_fields).

Definition ShareAcknowledgeResponse_LeaderIdAndEpoch_valid (version : Z) (x :
    ShareAcknowledgeResponse_LeaderIdAndEpoch) : Prop :=
  in_signed 32 (ShareAcknowledgeResponse_LeaderIdAndEpoch_leader_id x) ∧
  in_signed 32 (ShareAcknowledgeResponse_LeaderIdAndEpoch_leader_epoch x) ∧
  unknown_valid 0 (ShareAcknowledgeResponse_LeaderIdAndEpoch_unknown_tagged_fields x).

#[global] Instance ShareAcknowledgeResponse_LeaderIdAndEpoch_sound version : Sound
    (ShareAcknowledgeResponse_LeaderIdAndEpoch_codec version)
    (ShareAcknowledgeResponse_LeaderIdAndEpoch_valid version).
Proof. solve_message. Qed.

(* @ src/crates/kafka-protocol/src/messages/share_acknowledge_response.rs 146-172 NodeEndpoint *)
Record ShareAcknowledgeResponse_NodeEndpoint : Type := mkShareAcknowledgeResponse_NodeEndpoint {
  ShareAcknowledgeResponse_NodeEndpoint_node_id : Z;
  ShareAcknowledgeResponse_NodeEndpoint_host : list byte;
  ShareAcknowledgeResponse_NodeEndpoint_port : Z;
  ShareAcknowledgeResponse_NodeEndpoint_rack : option (list byte);
  ShareAcknowledgeResponse_NodeEndpoint_unknown_tagged_fields : TaggedFields
}.

(* @ src/crates/kafka-protocol/src/messages/share_acknowledge_response.rs 293-303 NodeEndpoint::default *)
Definition ShareAcknowledgeResponse_NodeEndpoint_default : ShareAcknowledgeResponse_NodeEndpoint := {|
  ShareAcknowledgeResponse_NodeEndpoint_node_id := 0;
  ShareAcknowledgeResponse_NodeEndpoint_host := [];
  ShareAcknowledgeResponse_NodeEndpoint_port := 0;
  ShareAcknowledgeResponse_NodeEndpoint_rack := None;
  ShareAcknowledgeResponse_NodeEndpoint_unknown_tagged_fields := ∅
|}.

(* @ src/crates/kafka-protocol/src/messages/share_acknowledge_response.rs 223-291 NodeEndpoint::encode, compute_size, decode *)
Definition ShareAcknowledgeResponse_NodeEndpoint_codec (version : Z) : Codec
    ShareAcknowledgeResponse_NodeEndpoint :=
  message 1 2 version (build mkShareAcknowledgeResponse_NodeEndpoint
    ⊛ (field ShareAcknowledgeResponse_NodeEndpoint_node_id Int32)
    ⊛ (field ShareAcknowledgeResponse_NodeEndpoint_host CompactString)
    ⊛ (field ShareAcknowledgeResponse_NodeEndpoint_port Int32)
    ⊛ (field ShareAcknowledgeResponse_NodeEndpoint_rack NullableCompactString)
    ⊛ unknown_tags true ShareAcknowledgeResponse_NodeEndpoint_unknown_tagged_fields).

Definition ShareAcknowledgeResponse_NodeEndpoint_valid (version : Z) (x :
    ShareAcknowledgeResponse_NodeEndpoint) : Prop :=
  in_signed 32 (ShareAcknowledgeResponse_NodeEndpoint_node_id x) ∧
  utf8 (ShareAcknowledgeResponse_NodeEndpoint_host x) ∧
  in_signed 32 (ShareAcknowledgeResponse_NodeEndpoint_port x) ∧
  opt_all utf8 (ShareAcknowledgeResponse_NodeEndpoint_rack x) ∧
  unknown_valid 0 (ShareAcknowledgeResponse_NodeEndpoint_unknown_tagged_fields x).

#[global] Instance ShareAcknowledgeResponse_NodeEndpoint_sound version : Sound
    (ShareAcknowledgeResponse_NodeEndpoint_codec version) (ShareAcknowledgeResponse_NodeEndpoint_valid
    version).
Proof. solve_message. Qed.

(* @ src/crates/kafka-protocol/src/messages/share_acknowledge_response.rs 310-336 PartitionData *)
Record ShareAcknowledgeResponse_PartitionData : Type := mkShareAcknowledgeResponse_PartitionData {
  ShareAcknowledgeResponse_PartitionData_partition_index : Z;
  ShareAcknowledgeResponse_PartitionData_error_code : Z;
  ShareAcknowledgeResponse_PartitionData_error_message : option (list byte);
  ShareAcknowledgeResponse_PartitionData_current_leader : ShareAcknowledgeResponse_LeaderIdAndEpoch;
  ShareAcknowledgeResponse_PartitionData_unknown_tagged_fields : TaggedFields
}.

(* @ src/crates/kafka-protocol/src/messages/share_acknowledge_response.rs 457-467 PartitionData::default *)
Definition ShareAcknowledgeResponse_PartitionData_default : ShareAcknowledgeResponse_PartitionData := {|
  ShareAcknowledgeResponse_PartitionData_partition_index := 0;
  ShareAcknowledgeResponse_PartitionData_error_code := 0;
  ShareAcknowledgeResponse_PartitionData_error_message := None;
  ShareAcknowledgeResponse_PartitionData_current_leader :=
      ShareAcknowledgeResponse_LeaderIdAndEpoch_default;
  ShareAcknowledgeResponse_PartitionData_unknown_tagged_fields := ∅
|}.

(* @ src/crates/kafka-protocol/src/messages/share_acknowledge_response.rs 387-455 PartitionData::encode, compute_size, decode *)
Definition ShareAcknowledgeResponse_PartitionData_codec (version : Z) : Codec
    ShareAcknowledgeResponse_PartitionData :=
  message 1 2 version (build mkShareAcknowledgeResponse_PartitionData
    ⊛ (field ShareAcknowledgeResponse_PartitionData_partition_index Int32)
    ⊛ (field ShareAcknowledgeResponse_PartitionData_error_code Int16)
    ⊛ (field ShareAcknowledgeResponse_PartitionData_error_message NullableCompactString)
    ⊛ (field ShareAcknowledgeResponse_PartitionData_current_leader (Struct
        ShareAcknowledgeResponse_LeaderIdAndEpoch_codec version))
    ⊛ unknown_tags true ShareAcknowledgeResponse_PartitionData_unknown_tagged_fields).

Definition ShareAcknowledgeResponse_PartitionData_valid (version : Z) (x :
    ShareAcknowledgeResponse_PartitionData) : Prop :=
  in_signed 32 (ShareAcknowledgeResponse_PartitionData_partition_index x) ∧
  in_signed 16 (ShareAcknowledgeResponse_PartitionData_error_code x) ∧
  opt_all utf8 (ShareAcknowledgeResponse_PartitionData_error_message x) ∧
  ShareAcknowledgeResponse_LeaderIdAndEpoch_valid version
      (ShareAcknowledgeResponse_PartitionData_current_leader x) ∧
  unknown_valid 0 (ShareAcknowledgeResponse_PartitionData_unknown_tagged_fields x).

#[global] Instance ShareAcknowledgeResponse_PartitionData_sound version : Sound
    (ShareAcknowledgeResponse_PartitionData_codec version) (ShareAcknowledgeResponse_PartitionData_valid
    version).
Proof. solve_message. Qed.

(* @ src/crates/kafka-protocol/src/messages/share_acknowledge_response.rs 686-702 ShareAcknowledgeTopicResponse *)
Record ShareAcknowledgeTopicResponse : Type := mkShareAcknowledgeTopicResponse {
  ShareAcknowledgeTopicResponse_topic_id : Z;
  ShareAcknowledgeTopicResponse_partitions : list ShareAcknowledgeResponse_PartitionData;
  ShareAcknowledgeTopicResponse_unknown_tagged_fields : TaggedFields
}.

(* @ src/crates/kafka-protocol/src/messages/share_acknowledge_response.rs 798-806 ShareAcknowledgeTopicResponse::default *)
Definition ShareAcknowledgeTopicResponse_default : ShareAcknowledgeTopicResponse := {|
  ShareAcknowledgeTopicResponse_topic_id := 0;
  ShareAcknowledgeTopicResponse_partitions := [];
  ShareAcknowledgeTopicResponse_unknown_tagged_fields := ∅
|}.

(* @ src/crates/kafka-protocol/src/messages/share_acknowledge_response.rs 735-796 ShareAcknowledgeTopicResponse::encode, compute_size, decode *)
Definition ShareAcknowledgeTopicResponse_codec (version : Z) : Codec ShareAcknowledgeTopicResponse :=
  message 1 2 version (build mkShareAcknowledgeTopicResponse
    ⊛ (field ShareAcknowledgeTopicResponse_topic_id Uuid)
    ⊛ (field ShareAcknowledgeTopicResponse_partitions (CompactArray (Struct
        ShareAcknowledgeResponse_PartitionData_codec version)))
    ⊛ unknown_tags true ShareAcknowledgeTopicResponse_unknown_tagged_fields).

Definition ShareAcknowledgeTopicResponse_valid (version : Z) (x : ShareAcknowledgeTopicResponse) : Prop :=
  in_unsigned 128 (ShareAcknowledgeTopicResponse_topic_id x) ∧
  Forall (ShareAcknowledgeResponse_PartitionData_valid version) (ShareAcknowledgeTopicResponse_partitions
      x) ∧
  unknown_valid 0 (ShareAcknowledgeTopicResponse_unknown_tagged_fields x).

#[global] Instance ShareAcknowledgeTopicResponse_sound version : Sound (ShareAcknowledgeTopicResponse_codec
    version) (ShareAcknowledgeTopicResponse_valid version).
Proof. solve_message. Qed.

(* @ src/crates/kafka-protocol/src/messages/share_acknowledge_response.rs 474-510 ShareAcknowledgeResponse *)
Record ShareAcknowledgeResponse : Type := mkShareAcknowledgeResponse {
  ShareAcknowledgeResponse_throttle_time_ms : Z;
  ShareAcknowledgeResponse_error_code : Z;
  ShareAcknowledgeResponse_error_message : option (list byte);
  ShareAcknowledgeResponse_acquisition_lock_timeout_ms : Z;
  ShareAcknowledgeResponse_responses : list ShareAcknowledgeTopicResponse;
  ShareAcknowledgeResponse_node_endpoints : list ShareAcknowledgeResponse_NodeEndpoint;
  ShareAcknowledgeResponse_unknown_tagged_fields : TaggedFields
}.

(* @ src/crates/kafka-protocol/src/messages/share_acknowledge_response.rs 667-679 ShareAcknowledgeResponse::default *)
Definition ShareAcknowledgeResponse_default : ShareAcknowledgeResponse := {|
  ShareAcknowledgeResponse_throttle_time_ms := 0;
  ShareAcknowledgeResponse_error_code := 0;
  ShareAcknowledgeResponse_error_message := None;
  ShareAcknowledgeResponse_acquisition_lock_timeout_ms := 0;
  ShareAcknowledgeResponse_responses := [];
  ShareAcknowledgeResponse_node_endpoints := [];
  ShareAcknowledgeResponse_unknown_tagged_fields := ∅
|}.

(* @ src/crates/kafka-protocol/src/messages/share_acknowledge_response.rs 579-665 ShareAcknowledgeResponse::encode, compute_size, decode *)
Definition ShareAcknowledgeResponse_codec (version : Z) : Codec ShareAcknowledgeResponse :=
  message 1 2 version (build mkShareAcknowledgeResponse
    ⊛ (field ShareAcknowledgeResponse_throttle_time_ms Int32)
    ⊛ (field ShareAcknowledgeResponse_error_code Int16)
    ⊛ (field ShareAcknowledgeResponse_error_message NullableCompactString)
    ⊛ (if 2 <=? version then field ShareAcknowledgeResponse_acquisition_lock_timeout_ms Int32 else ignored
        0)
    ⊛ (field ShareAcknowledgeResponse_responses (CompactArray (Struct ShareAcknowledgeTopicResponse_codec
        version)))
    ⊛ (field ShareAcknowledgeResponse_node_endpoints (CompactArray (Struct
        ShareAcknowledgeResponse_NodeEndpoint_codec version)))
    ⊛ unknown_tags true ShareAcknowledgeResponse_unknown_tagged_fields).

Definition ShareAcknowledgeResponse_valid (version : Z) (x : ShareAcknowledgeResponse) : Prop :=
  in_signed 32 (ShareAcknowledgeResponse_throttle_time_ms x) ∧
  in_signed 16 (ShareAcknowledgeResponse_error_code x) ∧
  opt_all utf8 (ShareAcknowledgeResponse_error_message x) ∧
  (if 2 <=? version then in_signed 32 (ShareAcknowledgeResponse_acquisition_lock_timeout_ms x) else
      ShareAcknowledgeResponse_acquisition_lock_timeout_ms x = 0) ∧
  Forall (ShareAcknowledgeTopicResponse_valid version) (ShareAcknowledgeResponse_responses x) ∧
  Forall (ShareAcknowledgeResponse_NodeEndpoint_valid version) (ShareAcknowledgeResponse_node_endpoints x) ∧
  unknown_valid 0 (ShareAcknowledgeResponse_unknown_tagged_fields x).

#[global] Instance ShareAcknowledgeResponse_sound version : Sound (ShareAcknowledgeResponse_codec version)
    (ShareAcknowledgeResponse_valid version).
Proof. solve_message. Qed.

(* @ src/crates/kafka-protocol/src/messages/share_acknowledge_response.rs 813-817 ShareAcknowledgeResponse::header_version *)
Definition ShareAcknowledgeResponse_header_version (version : Z) : Z := 1.

(* @ src/crates/kafka-protocol/src/messages/share_acknowledge_response.rs 681-684 ShareAcknowledgeResponse::VERSIONS *)
Definition ShareAcknowledgeResponse_VERSIONS : Z * Z := (1, 2).

(** ** [share_fetch_request] *)

(* @ src/crates/kafka-protocol/src/messages/share_fetch_request.rs 20-41 AcknowledgementBatch *)
Record ShareFetchRequest_AcknowledgementBatch : Type := mkShareFetchRequest_AcknowledgementBatch {
  ShareFetchRequest_AcknowledgementBatch_first_offset : Z;
  ShareFetchRequest_AcknowledgementBatch_last_offset : Z;
  ShareFetchRequest_AcknowledgementBatch_acknowledge_types : list Z;
  ShareFetchRequest_AcknowledgementBatch_unknown_tagged_fields : TaggedFields
}.

(* @ src/crates/kafka-protocol/src/messages/share_fetch_request.rs 149-158 AcknowledgementBatch::default *)
Definition ShareFetchRequest_AcknowledgementBatch_default : ShareFetchRequest_AcknowledgementBatch := {|
  ShareFetchRequest_AcknowledgementBatch_first_offset := 0;
  ShareFetchRequest_AcknowledgementBatch_last_offset := 0;
  ShareFetchRequest_AcknowledgementBatch_acknowledge_types := [];
  ShareFetchRequest_AcknowledgementBatch_unknown_tagged_fields := ∅
|}.

(* @ src/crates/kafka-protocol/src/messages/share_fetch_request.rs 83-147 AcknowledgementBatch::encode, compute_size, decode *)
Definition ShareFetchRequest_AcknowledgementBatch_codec (version : Z) : Codec
    ShareFetchRequest_AcknowledgementBatch :=
  message 1 2 version (build mkShareFetchRequest_AcknowledgementBatch
    ⊛ (field ShareFetchRequest_AcknowledgementBatch_first_offset Int64)
    ⊛ (field ShareFetchRequest_AcknowledgementBatch_last_offset Int64)
    ⊛ (field ShareFetchRequest_AcknowledgementBatch_acknowledge_types (CompactArray Int8))
    ⊛ unknown_tags true ShareFetchRequest_AcknowledgementBatch_unknown_tagged_fields).

Definition ShareFetchRequest_AcknowledgementBatch_valid (version : Z) (x :
    ShareFetchRequest_AcknowledgementBatch) : Prop :=
  in_signed 64 (ShareFetchRequest_AcknowledgementBatch_first_offset x) ∧
  in_signed 64 (ShareFetchRequest_AcknowledgementBatch_last_offset x) ∧
  Forall (in_signed 8) (ShareFetchRequest_AcknowledgementBatch_acknowledge_types x) ∧
  unknown_valid 0 (ShareFetchRequest_AcknowledgementBatch_unknown_tagged_fields x).

#[global] Instance ShareFetchRequest_AcknowledgementBatch_sound version : Sound
    (ShareFetchRequest_AcknowledgementBatch_codec version) (ShareFetchRequest_AcknowledgementBatch_valid
    version).
Proof. solve_message. Qed.

(* @ src/crates/kafka-protocol/src/messages/share_fetch_request.rs 165-186 FetchPartition *)
Record ShareFetchRequest_FetchPartition : Type := mkShareFetchRequest_FetchPartition {
  ShareFetchRequest_FetchPartition_partition_index : Z;
  ShareFetchRequest_FetchPartition_partition_max_bytes : Z;
  ShareFetchRequest_FetchPartition_acknowledgement_batches : list ShareFetchRequest_AcknowledgementBatch;
  ShareFetchRequest_FetchPartition_unknown_tagged_fields : TaggedFields
}.

(* @ src/crates/kafka-protocol/src/messages/share_fetch_request.rs 294-303 FetchPartition::default *)
Definition ShareFetchRequest_FetchPartition_default : ShareFetchRequest_FetchPartition := {|
  ShareFetchRequest_FetchPartition_partition_index := 0;
  ShareFetchRequest_FetchPartition_partition_max_bytes := 0;
  ShareFetchRequest_FetchPartition_acknowledgement_batches := [];
  ShareFetchRequest_FetchPartition_unknown_tagged_fields := ∅
|}.

(* @ src/crates/kafka-protocol/src/messages/share_fetch_request.rs 228-292 FetchPartition::encode, compute_size, decode *)
Definition ShareFetchRequest_FetchPartition_codec (version : Z) : Codec ShareFetchRequest_FetchPartition :=
  message 1 2 version (build mkShareFetchRequest_FetchPartition
    ⊛ (field ShareFetchRequest_FetchPartition_partition_index Int32)
    ⊛ (ignored 0)
    ⊛ (field ShareFetchRequest_FetchPartition_acknowledgement_batches (CompactArray (Struct
        ShareFetchRequest_AcknowledgementBatch_codec version)))
    ⊛ unknown_tags true ShareFetchRequest_FetchPartition_unknown_tagged_fields).

Definition ShareFetchRequest_FetchPartition_valid (version : Z) (x : ShareFetchRequest_FetchPartition) :
    Prop :=
  in_signed 32 (ShareFetchRequest_FetchPartition_partition_index x) ∧
  ShareFetchRequest_FetchPartition_partition_max_bytes x = 0 ∧
  Forall (ShareFetchRequest_AcknowledgementBatch_valid version)
      (ShareFetchRequest_FetchPartition_acknowledgement_batches x) ∧
  unknown_valid 0 (ShareFetchRequest_FetchPartition_unknown_tagged_fields x).

#[global] Instance ShareFetchRequest_FetchPartition_sound version : Sound
    (ShareFetchRequest_FetchPartition_codec version) (ShareFetchRequest_FetchPartition_valid version).
Proof. solve_message. Qed.

(* @ src/crates/kafka-protocol/src/messages/share_fetch_request.rs 310-326 FetchTopic *)
Record ShareFetchRequest_FetchTopic : Type := mkShareFetchRequest_FetchTopic {
  ShareFetchRequest_FetchTopic_topic_id : Z;
  ShareFetchRequest_FetchTopic_partitions : list ShareFetchRequest_FetchPartition;
  ShareFetchRequest_FetchTopic_unknown_tagged_fields : TaggedFields
}.

(* @ src/crates/kafka-protocol/src/messages/share_fetch_request.rs 422-430 FetchTopic::default *)
Definition ShareFetchRequest_FetchTopic_default : ShareFetchRequest_FetchTopic := {|
  ShareFetchRequest_FetchTopic_topic_id := 0;
  ShareFetchRequest_FetchTopic_partitions := [];
  ShareFetchRequest_FetchTopic_unknown_tagged_fields := ∅
|}.

(* @ src/crates/kafka-protocol/src/messages/share_fetch_request.rs 359-420 FetchTopic::encode, compute_size, decode *)
Definition ShareFetchRequest_FetchTopic_codec (version : Z) : Codec ShareFetchRequest_FetchTopic :=
  message 1 2 version (build mkShareFetchRequest_FetchTopic
    ⊛ (field ShareFetchRequest_FetchTopic_topic_id Uuid)
    ⊛ (field ShareFetchRequest_FetchTopic_partitions (CompactArray (Struct
        ShareFetchRequest_FetchPartition_codec version)))
    ⊛ unknown_tags true ShareFetchRequest_FetchTopic_unknown_tagged_fields).

Definition ShareFetchRequest_FetchTopic_valid (version : Z) (x : ShareFetchRequest_FetchTopic) : Prop :=
  in_unsigned 128 (ShareFetchRequest_FetchTopic_topic_id x) ∧
  Forall (ShareFetchRequest_FetchPartition_valid version) (ShareFetchRequest_FetchTopic_partitions x) ∧
  unknown_valid 0 (ShareFetchRequest_FetchTopic_unknown_tagged_fields x).

#[global] Instance ShareFetchRequest_FetchTopic_sound version : Sound (ShareFetchRequest_FetchTopic_codec
    version) (ShareFetchRequest_FetchTopic_valid version).
Proof. solve_message. Qed.

(* @ src/crates/kafka-protocol/src/messages/share_fetch_request.rs 437-453 ForgottenTopic *)
Record ShareFetchRequest_ForgottenTopic : Type := mkShareFetchRequest_ForgottenTopic {
  ShareFetchRequest_ForgottenTopic_topic_id : Z;
  ShareFetchRequest_ForgottenTopic_partitions : list Z;
  ShareFetchRequest_ForgottenTopic_unknown_tagged_fields : TaggedFields
}.

(* @ src/crates/kafka-protocol/src/messages/share_fetch_request.rs 548-556 ForgottenTopic::default *)
Definition ShareFetchRequest_ForgottenTopic_default : ShareFetchRequest_ForgottenTopic := {|
  ShareFetchRequest_ForgottenTopic_topic_id := 0;
  ShareFetchRequest_ForgottenTopic_partitions := [];
  ShareFetchRequest_ForgottenTopic_unknown_tagged_fields := ∅
|}.

(* @ src/crates/kafka-protocol/src/messages/share_fetch_request.rs 486-546 ForgottenTopic::encode, compute_size, decode *)
Definition ShareFetchRequest_ForgottenTopic_codec (version : Z) : Codec ShareFetchRequest_ForgottenTopic :=
  message 1 2 version (build mkShareFetchRequest_ForgottenTopic
    ⊛ (field ShareFetchRequest_ForgottenTopic_topic_id Uuid)
    ⊛ (field ShareFetchRequest_ForgottenTopic_partitions (CompactArray Int32))
    ⊛ unknown_tags true ShareFetchRequest_ForgottenTopic_unknown_tagged_fields).

Definition ShareFetchRequest_ForgottenTopic_valid (version : Z) (x : ShareFetchRequest_ForgottenTopic) :
    Prop :=
  in_unsigned 128 (ShareFetchRequest_ForgottenTopic_topic_id x) ∧
  Forall (in_signed 32) (ShareFetchRequest_ForgottenTopic_partitions x) ∧
  unknown_valid 0 (ShareFetchRequest_ForgottenTopic_unknown_tagged_fields x).

#[global] Instance ShareFetchRequest_ForgottenTopic_sound version : Sound
    (ShareFetchRequest_ForgottenTopic_codec version) (ShareFetchRequest_ForgottenTopic_valid version).
Proof. solve_message. Qed.

(* @ src/crates/kafka-protocol/src/messages/share_fetch_request.rs 563-629 ShareFetchRequest *)
Record ShareFetchRequest : Type := mkShareFetchRequest {
  ShareFetchRequest_group_id : option (list byte);
  ShareFetchRequest_member_id : option (list byte);
  ShareFetchRequest_share_session_epoch : Z;
  ShareFetchRequest_max_wait_ms : Z;
  ShareFetchRequest_min_bytes : Z;
  ShareFetchRequest_max_bytes : Z;
  ShareFetchRequest_max_records : Z;
  ShareFetchRequest_batch_size : Z;
  ShareFetchRequest_share_acquire_mode : Z;
  ShareFetchRequest_is_renew_ack : bool;
  ShareFetchRequest_topics : list ShareFetchRequest_FetchTopic;
  ShareFetchRequest_forgotten_topics_data : list ShareFetchRequest_ForgottenTopic;
  ShareFetchRequest_unknown_tagged_fields : TaggedFields
}.

(* @ src/crates/kafka-protocol/src/messages/share_fetch_request.rs 879-897 ShareFetchRequest::default *)
Definition ShareFetchRequest_default : ShareFetchRequest := {|
  ShareFetchRequest_group_id := None;
  ShareFetchRequest_member_id := Some [];
  ShareFetchRequest_share_session_epoch := 0;
  ShareFetchRequest_max_wait_ms := 0;
  ShareFetchRequest_min_bytes := 0;
  ShareFetchRequest_max_bytes := 0x7fffffff;
  ShareFetchRequest_max_records := 0;
  ShareFetchRequest_batch_size := 0;
  ShareFetchRequest_share_acquire_mode := 0;
  ShareFetchRequest_is_renew_ack := false;
  ShareFetchRequest_topics := [];
  ShareFetchRequest_forgotten_topics_data := [];
  ShareFetchRequest_unknown_tagged_fields := ∅
|}.

(* @ src/crates/kafka-protocol/src/messages/share_fetch_request.rs 752-877 ShareFetchRequest::encode, compute_size, decode *)
Definition ShareFetchRequest_codec (version : Z) : Codec ShareFetchRequest :=
  message 1 2 version (build mkShareFetchRequest
    ⊛ (field ShareFetchRequest_group_id NullableCompactString)
    ⊛ (field ShareFetchRequest_member_id NullableCompactString)
    ⊛ (field ShareFetchRequest_share_session_epoch Int32)
    ⊛ (field ShareFetchRequest_max_wait_ms Int32)
    ⊛ (field ShareFetchRequest_min_bytes Int32)
    ⊛ (field ShareFetchRequest_max_bytes Int32)
    ⊛ (field ShareFetchRequest_max_records Int32)
    ⊛ (field ShareFetchRequest_batch_size Int32)
    ⊛ (if 2 <=? version then field ShareFetchRequest_share_acquire_mode Int8 else ignored 0)
    ⊛ (if 2 <=? version then field ShareFetchRequest_is_renew_ack Boolean else unset
        ShareFetchRequest_is_renew_ack negb false)
    ⊛ (field ShareFetchRequest_topics (CompactArray (Struct ShareFetchRequest_FetchTopic_codec version)))
    ⊛ (field ShareFetchRequest_forgotten_topics_data (CompactArray (Struct
        ShareFetchRequest_ForgottenTopic_codec version)))
    ⊛ unknown_tags true ShareFetchRequest_unknown_tagged_fields).

Definition ShareFetchRequest_valid (version : Z) (x : ShareFetchRequest) : Prop :=
  opt_all utf8 (ShareFetchRequest_group_id x) ∧
  opt_all utf8 (ShareFetchRequest_member_id x) ∧
  in_signed 32 (ShareFetchRequest_share_session_epoch x) ∧
  in_signed 32 (ShareFetchRequest_max_wait_ms x) ∧
  in_signed 32 (ShareFetchRequest_min_bytes x) ∧
  in_signed 32 (ShareFetchRequest_max_bytes x) ∧
  in_signed 32 (ShareFetchRequest_max_records x) ∧
  in_signed 32 (ShareFetchRequest_batch_size x) ∧
  (if 2 <=? version then in_signed 8 (ShareFetchRequest_share_acquire_mode x) else
      ShareFetchRequest_share_acquire_mode x = 0) ∧
  Forall (ShareFetchRequest_FetchTopic_valid version) (ShareFetchRequest_topics x) ∧
  Forall (ShareFetchRequest_ForgottenTopic_valid version) (ShareFetchRequest_forgotten_topics_data x) ∧
  unknown_valid 0 (ShareFetchRequest_unknown_tagged_fields x).

#[global] Instance ShareFetchRequest_sound version : Sound (ShareFetchRequest_codec version)
    (ShareFetchRequest_valid version).
Proof. solve_message. Qed.

(* @ src/crates/kafka-protocol/src/messages/share_fetch_request.rs 904-908 ShareFetchRequest::header_version *)
Definition ShareFetchRequest_header_version (version : Z) : Z := 2.

(* @ src/crates/kafka-protocol/src/messages/share_fetch_request.rs 899-902 ShareFetchRequest::VERSIONS *)
Definition ShareFetchRequest_VERSIONS : Z * Z := (1, 2).

(** ** [share_fetch_response] *)

(* @ src/crates/kafka-protocol/src/messages/share_fetch_response.rs 20-41 AcquiredRecords *)
Record AcquiredRecords : Type := mkAcquiredRecords {
  AcquiredRecords_first_offset : Z;
  AcquiredRecords_last_offset : Z;
  AcquiredRecords_delivery_count : Z;
  AcquiredRecords_unknown_tagged_fields : TaggedFields
}.

(* @ src/crates/kafka-protocol/src/messages/share_fetch_response.rs 149-158 AcquiredRecords::default *)
Definition AcquiredRecords_default : AcquiredRecords := {|
  AcquiredRecords_first_offset := 0;
  AcquiredRecords_last_offset := 0;
  AcquiredRecords_delivery_count := 0;
  AcquiredRecords_unknown_tagged_fields := ∅
|}.

(* @ src/crates/kafka-protocol/src/messages/share_fetch_response.rs 83-147 AcquiredRecords::encode, compute_size, decode *)
Definition AcquiredRecords_codec (version : Z) : Codec AcquiredRecords :=
  message 1 2 version (build mkAcquiredRecords
    ⊛ (field AcquiredRecords_first_offset Int64)
    ⊛ (field AcquiredRecords_last_offset Int64)
    ⊛ (field AcquiredRecords_delivery_count Int16)
    ⊛ unknown_tags true AcquiredRecords_unknown_tagged_fields).

Definition AcquiredRecords_valid (version : Z) (x : AcquiredRecords) : Prop :=
  in_signed 64 (AcquiredRecords_first_offset x) ∧
  in_signed 64 (AcquiredRecords_last_offset x) ∧
  in_signed 16 (AcquiredRecords_delivery_count x) ∧
  unknown_valid 0 (AcquiredRecords_unknown_tagged_fields x).

#[global] Instance AcquiredRecords_sound version : Sound (AcquiredRecords_codec version)
    (AcquiredRecords_valid version).
Proof. solve_message. Qed.

(* @ src/crates/kafka-protocol/src/messages/share_fetch_response.rs 165-181 LeaderIdAndEpoch *)
Record ShareFetchResponse_LeaderIdAndEpoch : Type := mkShareFetchResponse_LeaderIdAndEpoch {
  ShareFetchResponse_LeaderIdAndEpoch_leader_id : Z;
  ShareFetchResponse_LeaderIdAndEpoch_leader_epoch : Z;
  ShareFetchResponse_LeaderIdAndEpoch_unknown_tagged_fields : TaggedFields
}.

(* @ src/crates/kafka-protocol/src/messages/share_fetch_response.rs 276-284 LeaderIdAndEpoch::default *)
Definition ShareFetchResponse_LeaderIdAndEpoch_default : ShareFetchResponse_LeaderIdAndEpoch := {|
  ShareFetchResponse_LeaderIdAndEpoch_leader_id := 0;
  ShareFetchResponse_LeaderIdAndEpoch_leader_epoch := 0;
  ShareFetchResponse_LeaderIdAndEpoch_unknown_tagged_fields := ∅
|}.

(* @ src/crates/kafka-protocol/src/messages/share_fetch_response.rs 214-274 LeaderIdAndEpoch::encode, compute_size, decode *)
Definition ShareFetchResponse_LeaderIdAndEpoch_codec (version : Z) : Codec
    ShareFetchResponse_LeaderIdAndEpoch :=
  message 1 2 version (build mkShareFetchResponse_LeaderIdAndEpoch
    ⊛ (field ShareFetchResponse_LeaderIdAndEpoch_leader_id Int32)
    ⊛ (field ShareFetchResponse_LeaderIdAndEpoch_leader_epoch Int32)
    ⊛ unknown_tags true ShareFetchResponse_LeaderIdAndEpoch_unknown_tagged_fields).

Definition ShareFetchResponse_LeaderIdAndEpoch_valid (version : Z) (x :
    ShareFetchResponse_LeaderIdAndEpoch) : Prop :=
  in_signed 32 (ShareFetchResponse_LeaderIdAndEpoch_leader_id x) ∧
  in_signed 32 (ShareFetchResponse_LeaderIdAndEpoch_leader_epoch x) ∧
  unknown_valid 0 (ShareFetchResponse_LeaderIdAndEpoch_unknown_tagged_fields x).

#[global] Instance ShareFetchResponse_LeaderIdAndEpoch_sound version : Sound
    (ShareFetchResponse_LeaderIdAndEpoch_codec version) (ShareFetchResponse_LeaderIdAndEpoch_valid version).
Proof. solve_message. Qed.

(* @ src/crates/kafka-protocol/src/messages/share_fetch_response.rs 291-317 NodeEndpoint *)
Record ShareFetchResponse_NodeEndpoint : Type := mkShareFetchResponse_NodeEndpoint {
  ShareFetchResponse_NodeEndpoint_node_id : Z;
  ShareFetchResponse_NodeEndpoint_host : list byte;
  ShareFetchResponse_NodeEndpoint_port : Z;
  ShareFetchResponse_NodeEndpoint_rack : option (list byte);
  ShareFetchResponse_NodeEndpoint_unknown_tagged_fields : TaggedFields
}.

(* @ src/crates/kafka-protocol/src/messages/share_fetch_response.rs 438-448 NodeEndpoint::default *)
Definition ShareFetchResponse_NodeEndpoint_default : ShareFetchResponse_NodeEndpoint := {|
  ShareFetchResponse_NodeEndpoint_node_id := 0;
  ShareFetchResponse_NodeEndpoint_host := [];
  ShareFetchResponse_NodeEndpoint_port := 0;
  ShareFetchResponse_NodeEndpoint_rack := None;
  ShareFetchResponse_NodeEndpoint_unknown_tagged_fields := ∅
|}.

(* @ src/crates/kafka-protocol/src/messages/share_fetch_response.rs 368-436 NodeEndpoint::encode, compute_size, decode *)
Definition ShareFetchResponse_NodeEndpoint_codec (version : Z) : Codec ShareFetchResponse_NodeEndpoint :=
  message 1 2 version (build mkShareFetchResponse_NodeEndpoint
    ⊛ (field ShareFetchResponse_NodeEndpoint_node_id Int32)
    ⊛ (field ShareFetchResponse_NodeEndpoint_host CompactString)
    ⊛ (field ShareFetchResponse_NodeEndpoint_port Int32)
    ⊛ (field ShareFetchResponse_NodeEndpoint_rack NullableCompactString)
    ⊛ unknown_tags true ShareFetchResponse_NodeEndpoint_unknown_tagged_fields).

Definition ShareFetchResponse_NodeEndpoint_valid (version : Z) (x : ShareFetchResponse_NodeEndpoint) : Prop
    :=
  in_signed 32 (ShareFetchResponse_NodeEndpoint_node_id x) ∧
  utf8 (ShareFetchResponse_NodeEndpoint_host x) ∧
  in_signed 32 (ShareFetchResponse_NodeEndpoint_port x) ∧
  opt_all utf8 (ShareFetchResponse_NodeEndpoint_rack x) ∧
  unknown_valid 0 (ShareFetchResponse_NodeEndpoint_unknown_tagged_fields x).

#[global] Instance ShareFetchResponse_NodeEndpoint_sound version : Sound
    (ShareFetchResponse_NodeEndpoint_codec version) (ShareFetchResponse_NodeEndpoint_valid version).
Proof. solve_message. Qed.

(* @ src/crates/kafka-protocol/src/messages/share_fetch_response.rs 455-501 PartitionData *)
Record ShareFetchResponse_PartitionData : Type := mkShareFetchResponse_PartitionData {
  ShareFetchResponse_PartitionData_partition_index : Z;
  ShareFetchResponse_PartitionData_error_code : Z;
  ShareFetchResponse_PartitionData_error_message : option (list byte);
  ShareFetchResponse_PartitionData_acknowledge_error_code : Z;
  ShareFetchResponse_PartitionData_acknowledge_error_message : option (list byte);
  ShareFetchResponse_PartitionData_current_leader : ShareFetchResponse_LeaderIdAndEpoch;
  ShareFetchResponse_PartitionData_records : option (list byte);
  ShareFetchResponse_PartitionData_acquired_records : list AcquiredRecords;
  ShareFetchResponse_PartitionData_unknown_tagged_fields : TaggedFields
}.

(* @ src/crates/kafka-protocol/src/messages/share_fetch_response.rs 675-689 PartitionData::default *)
Definition ShareFetchResponse_PartitionData_default : ShareFetchResponse_PartitionData := {|
  ShareFetchResponse_PartitionData_partition_index := 0;
  ShareFetchResponse_PartitionData_error_code := 0;
  ShareFetchResponse_PartitionData_error_message := None;
  ShareFetchResponse_PartitionData_acknowledge_error_code := 0;
  ShareFetchResponse_PartitionData_acknowledge_error_message := None;
  ShareFetchResponse_PartitionData_current_leader := ShareFetchResponse_LeaderIdAndEpoch_default;
  ShareFetchResponse_PartitionData_records := Some [];
  ShareFetchResponse_PartitionData_acquired_records := [];
  ShareFetchResponse_PartitionData_unknown_tagged_fields := ∅
|}.

(* @ src/crates/kafka-protocol/src/messages/share_fetch_response.rs 588-673 PartitionData::encode, compute_size, decode *)
Definition ShareFetchResponse_PartitionData_codec (version : Z) : Codec ShareFetchResponse_PartitionData :=
  message 1 2 version (build mkShareFetchResponse_PartitionData
    ⊛ (field ShareFetchResponse_PartitionData_partition_index Int32)
    ⊛ (field ShareFetchResponse_PartitionData_error_code Int16)
    ⊛ (field ShareFetchResponse_PartitionData_error_message NullableCompactString)
    ⊛ (field ShareFetchResponse_PartitionData_acknowledge_error_code Int16)
    ⊛ (field ShareFetchResponse_PartitionData_acknowledge_error_message NullableCompactString)
    ⊛ (field ShareFetchResponse_PartitionData_current_leader (Struct
        ShareFetchResponse_LeaderIdAndEpoch_codec version))
    ⊛ (field ShareFetchResponse_PartitionData_records NullableCompactBytes)
    ⊛ (field ShareFetchResponse_PartitionData_acquired_records (CompactArray (Struct AcquiredRecords_codec
        version)))
    ⊛ unknown_tags true ShareFetchResponse_PartitionData_unknown_tagged_fields).

Definition ShareFetchResponse_PartitionData_valid (version : Z) (x : ShareFetchResponse_PartitionData) :
    Prop :=
  in_signed 32 (ShareFetchResponse_PartitionData_partition_index x) ∧
  in_signed 16 (ShareFetchResponse_PartitionData_error_code x) ∧
  opt_all utf8 (ShareFetchResponse_PartitionData_error_message x) ∧
  in_signed 16 (ShareFetchResponse_PartitionData_acknowledge_error_code x) ∧
  opt_all utf8 (ShareFetchResponse_PartitionData_acknowledge_error_message x) ∧
  ShareFetchResponse_LeaderIdAndEpoch_valid version (ShareFetchResponse_PartitionData_current_leader x) ∧
  Forall (AcquiredRecords_valid version) (ShareFetchResponse_PartitionData_acquired_records x) ∧
  unknown_valid 0 (ShareFetchResponse_PartitionData_unknown_tagged_fields x).

#[global] Instance ShareFetchResponse_PartitionData_sound version : Sound
    (ShareFetchResponse_PartitionData_codec version) (ShareFetchResponse_PartitionData_valid version).
Proof. solve_message. Qed.

(* @ src/crates/kafka-protocol/src/messages/share_fetch_response.rs 900-916 ShareFetchableTopicResponse *)
Record ShareFetchableTopicResponse : Type := mkShareFetchableTopicResponse {
  ShareFetchableTopicResponse_topic_id : Z;
  ShareFetchableTopicResponse_partitions : list ShareFetchResponse_PartitionData;
  ShareFetchableTopicResponse_unknown_tagged_fields : TaggedFields
}.

(* @ src/crates/kafka-protocol/src/messages/share_fetch_response.rs 1012-1020 ShareFetchableTopicResponse::default *)
Definition ShareFetchableTopicResponse_default : ShareFetchableTopicResponse := {|
  ShareFetchableTopicResponse_topic_id := 0;
  ShareFetchableTopicResponse_partitions := [];
  ShareFetchableTopicResponse_unknown_tagged_fields := ∅
|}.

(* @ src/crates/kafka-protocol/src/messages/share_fetch_response.rs 949-1010 ShareFetchableTopicResponse::encode, compute_size, decode *)
Definition ShareFetchableTopicResponse_codec (version : Z) : Codec ShareFetchableTopicResponse :=
  message 1 2 version (build mkShareFetchableTopicResponse
    ⊛ (field ShareFetchableTopicResponse_topic_id Uuid)
    ⊛ (field ShareFetchableTopicResponse_partitions (CompactArray (Struct
        ShareFetchResponse_PartitionData_codec version)))
    ⊛ unknown_tags true ShareFetchableTopicResponse_unknown_tagged_fields).

Definition ShareFetchableTopicResponse_valid (version : Z) (x : ShareFetchableTopicResponse) : Prop :=
  in_unsigned 128 (ShareFetchableTopicResponse_topic_id x) ∧
  Forall (ShareFetchResponse_PartitionData_valid version) (ShareFetchableTopicResponse_partitions x) ∧
  unknown_valid 0 (ShareFetchableTopicResponse_unknown_tagged_fields x).

#[global] Instance ShareFetchableTopicResponse_sound version : Sound (ShareFetchableTopicResponse_codec
    version) (ShareFetchableTopicResponse_valid version).
Proof. solve_message. Qed.

(* @ src/crates/kafka-protocol/src/messages/share_fetch_response.rs 696-732 ShareFetchResponse *)
Record ShareFetchResponse : Type := mkShareFetchResponse {
  ShareFetchResponse_throttle_time_ms : Z;
  ShareFetchResponse_error_code : Z;
  ShareFetchResponse_error_message : option (list byte);
  ShareFetchResponse_acquisition_lock_timeout_ms : Z;
  ShareFetchResponse_responses : list ShareFetchableTopicResponse;
  ShareFetchResponse_node_endpoints : list ShareFetchResponse_NodeEndpoint;
  ShareFetchResponse_unknown_tagged_fields : TaggedFields
}.

(* @ src/crates/kafka-protocol/src/messages/share_fetch_response.rs 881-893 ShareFetchResponse::default *)
Definition ShareFetchResponse_default : ShareFetchResponse := {|
  ShareFetchResponse_throttle_time_ms := 0;
  ShareFetchResponse_error_code := 0;
  ShareFetchResponse_error_message := None;
  ShareFetchResponse_acquisition_lock_timeout_ms := 0;
  ShareFetchResponse_responses := [];
  ShareFetchResponse_node_endpoints := [];
  ShareFetchResponse_unknown_tagged_fields := ∅
|}.

(* @ src/crates/kafka-protocol/src/messages/share_fetch_response.rs 801-879 ShareFetchResponse::encode, compute_size, decode *)
Definition ShareFetchResponse_codec (version : Z) : Codec ShareFetchResponse :=
  message 1 2 version (build mkShareFetchResponse
    ⊛ (field ShareFetchResponse_throttle_time_ms Int32)
    ⊛ (field ShareFetchResponse_error_code Int16)
    ⊛ (field ShareFetchResponse_error_message NullableCompactString)
    ⊛ (field ShareFetchResponse_acquisition_lock_timeout_ms Int32)
    ⊛ (field ShareFetchResponse_responses (CompactArray (Struct ShareFetchableTopicResponse_codec version)))
    ⊛ (field ShareFetchResponse_node_endpoints (CompactArray (Struct ShareFetchResponse_NodeEndpoint_codec
        version)))
    ⊛ unknown_tags true ShareFetchResponse_unknown_tagged_fields).

Definition ShareFetchResponse_valid (version : Z) (x : ShareFetchResponse) : Prop :=
  in_signed 32 (ShareFetchResponse_throttle_time_ms x) ∧
  in_signed 16 (ShareFetchResponse_error_code x) ∧
  opt_all utf8 (ShareFetchResponse_error_message x) ∧
  in_signed 32 (ShareFetchResponse_acquisition_lock_timeout_ms x) ∧
  Forall (ShareFetchableTopicResponse_valid version) (ShareFetchResponse_responses x) ∧
  Forall (ShareFetchResponse_NodeEndpoint_valid version) (ShareFetchResponse_node_endpoints x) ∧
  unknown_valid 0 (ShareFetchResponse_unknown_tagged_fields x).

#[global] Instance ShareFetchResponse_sound version : Sound (ShareFetchResponse_codec version)
    (ShareFetchResponse_valid version).
Proof. solve_message. Qed.

(* @ src/crates/kafka-protocol/src/messages/share_fetch_response.rs 1027-1031 ShareFetchResponse::header_version *)
Definition ShareFetchResponse_header_version (version : Z) : Z := 1.

(* @ src/crates/kafka-protocol/src/messages/share_fetch_response.rs 895-898 ShareFetchResponse::VERSIONS *)
Definition ShareFetchResponse_VERSIONS : Z * Z := (1, 2).

(** ** [share_group_describe_request] *)

(* @ src/crates/kafka-protocol/src/messages/share_group_describe_request.rs 20-36 ShareGroupDescribeRequest *)
Record ShareGroupDescribeRequest : Type := mkShareGroupDescribeRequest {
  ShareGroupDescribeRequest_group_ids : list (list byte);
  ShareGroupDescribeRequest_include_authorized_operations : bool;
  ShareGroupDescribeRequest_unknown_tagged_fields : TaggedFields
}.

(* @ src/crates/kafka-protocol/src/messages/share_group_describe_request.rs 131-139 ShareGroupDescribeRequest::default *)
Definition ShareGroupDescribeRequest_default : ShareGroupDescribeRequest := {|
  ShareGroupDescribeRequest_group_ids := [];
  ShareGroupDescribeRequest_include_authorized_operations := false;
  ShareGroupDescribeRequest_unknown_tagged_fields := ∅
|}.

(* @ src/crates/kafka-protocol/src/messages/share_group_describe_request.rs 69-129 ShareGroupDescribeRequest::encode, compute_size, decode *)
Definition ShareGroupDescribeRequest_codec (version : Z) : Codec ShareGroupDescribeRequest :=
  message 1 1 version (build mkShareGroupDescribeRequest
    ⊛ (field ShareGroupDescribeRequest_group_ids (CompactArray CompactString))
    ⊛ (field ShareGroupDescribeRequest_include_authorized_operations Boolean)
    ⊛ unknown_tags true ShareGroupDescribeRequest_unknown_tagged_fields).

Definition ShareGroupDescribeRequest_valid (version : Z) (x : ShareGroupDescribeRequest) : Prop :=
  Forall utf8 (ShareGroupDescribeRequest_group_ids x) ∧
  unknown_valid 0 (ShareGroupDescribeRequest_unknown_tagged_fields x).

#[global] Instance ShareGroupDescribeRequest_sound version : Sound (ShareGroupDescribeRequest_codec
    version) (ShareGroupDescribeRequest_valid version).
Proof. solve_message. Qed.

(* @ src/crates/kafka-protocol/src/messages/share_group_describe_request.rs 146-150 ShareGroupDescribeRequest::header_version *)
Definition ShareGroupDescribeRequest_header_version (version : Z) : Z := 2.

(* @ src/crates/kafka-protocol/src/messages/share_group_describe_request.rs 141-144 ShareGroupDescribeRequest::VERSIONS *)
Definition ShareGroupDescribeRequest_VERSIONS : Z * Z := (1, 1).

(** ** [share_group_describe_response] *)

(* @ src/crates/kafka-protocol/src/messages/share_group_describe_response.rs 735-756 TopicPartitions *)
Record ShareGroupDescribeResponse_TopicPartitions : Type := mkShareGroupDescribeResponse_TopicPartitions {
  ShareGroupDescribeResponse_TopicPartitions_topic_id : Z;
  ShareGroupDescribeResponse_TopicPartitions_topic_name : list byte;
  ShareGroupDescribeResponse_TopicPartitions_partitions : list Z;
  ShareGroupDescribeResponse_TopicPartitions_unknown_tagged_fields : TaggedFields
}.

(* @ src/crates/kafka-protocol/src/messages/share_group_describe_response.rs 864-873 TopicPartitions::default *)
Definition ShareGroupDescribeResponse_TopicPartitions_default : ShareGroupDescribeResponse_TopicPartitions
    := {|
  ShareGroupDescribeResponse_TopicPartitions_topic_id := 0;
  ShareGroupDescribeResponse_TopicPartitions_topic_name := [];
  ShareGroupDescribeResponse_TopicPartitions_partitions := [];
  ShareGroupDescribeResponse_TopicPartitions_unknown_tagged_fields := ∅
|}.

(* @ src/crates/kafka-protocol/src/messages/share_group_describe_response.rs 798-862 TopicPartitions::encode, compute_size, decode *)
Definition ShareGroupDescribeResponse_TopicPartitions_codec (version : Z) : Codec
    ShareGroupDescribeResponse_TopicPartitions :=
  message 1 1 version (build mkShareGroupDescribeResponse_TopicPartitions
    ⊛ (field ShareGroupDescribeResponse_TopicPartitions_topic_id Uuid)
    ⊛ (field ShareGroupDescribeResponse_TopicPartitions_topic_name CompactString)
    ⊛ (field ShareGroupDescribeResponse_TopicPartitions_partitions (CompactArray Int32))
    ⊛ unknown_tags true ShareGroupDescribeResponse_TopicPartitions_unknown_tagged_fields).

Definition ShareGroupDescribeResponse_TopicPartitions_valid (version : Z) (x :
    ShareGroupDescribeResponse_TopicPartitions) : Prop :=
  in_unsigned 128 (ShareGroupDescribeResponse_TopicPartitions_topic_id x) ∧
  utf8 (ShareGroupDescribeResponse_TopicPartitions_topic_name x) ∧
  Forall (in_signed 32) (ShareGroupDescribeResponse_TopicPartitions_partitions x) ∧
  unknown_valid 0 (ShareGroupDescribeResponse_TopicPartitions_unknown_tagged_fields x).

#[global] Instance ShareGroupDescribeResponse_TopicPartitions_sound version : Sound
    (ShareGroupDescribeResponse_TopicPartitions_codec version)
    (ShareGroupDescribeResponse_TopicPartitions_valid version).
Proof. solve_message. Qed.

(* @ src/crates/kafka-protocol/src/messages/share_group_describe_response.rs 20-31 Assignment *)
Record ShareGroupDescribeResponse_Assignment : Type := mkShareGroupDescribeResponse_Assignment {
  ShareGroupDescribeResponse_Assignment_topic_partitions : list ShareGroupDescribeResponse_TopicPartitions;
  ShareGroupDescribeResponse_Assignment_unknown_tagged_fields : TaggedFields
}.

(* @ src/crates/kafka-protocol/src/messages/share_group_describe_response.rs 114-121 Assignment::default *)
Definition ShareGroupDescribeResponse_Assignment_default : ShareGroupDescribeResponse_Assignment := {|
  ShareGroupDescribeResponse_Assignment_topic_partitions := [];
  ShareGroupDescribeResponse_Assignment_unknown_tagged_fields := ∅
|}.

(* @ src/crates/kafka-protocol/src/messages/share_group_describe_response.rs 55-112 Assignment::encode, compute_size, decode *)
Definition ShareGroupDescribeResponse_Assignment_codec (version : Z) : Codec
    ShareGroupDescribeResponse_Assignment :=
  message 1 1 version (build mkShareGroupDescribeResponse_Assignment
    ⊛ (field ShareGroupDescribeResponse_Assignment_topic_partitions (CompactArray (Struct
        ShareGroupDescribeResponse_TopicPartitions_codec version)))
    ⊛ unknown_tags true ShareGroupDescribeResponse_Assignment_unknown_tagged_fields).

Definition ShareGroupDescribeResponse_Assignment_valid (version : Z) (x :
    ShareGroupDescribeResponse_Assignment) : Prop :=
  Forall (ShareGroupDescribeResponse_TopicPartitions_valid version)
      (ShareGroupDescribeResponse_Assignment_topic_partitions x) ∧
  unknown_valid 0 (ShareGroupDescribeResponse_Assignment_unknown_tagged_fields x).

#[global] Instance ShareGroupDescribeResponse_Assignment_sound version : Sound
    (ShareGroupDescribeResponse_Assignment_codec version) (ShareGroupDescribeResponse_Assignment_valid
    version).
Proof. solve_message. Qed.

(* @ src/crates/kafka-protocol/src/messages/share_group_describe_response.rs 387-428 Member *)
Record ShareGroupDescribeResponse_Member : Type := mkShareGroupDescribeResponse_Member {
  ShareGroupDescribeResponse_Member_member_id : list byte;
  ShareGroupDescribeResponse_Member_rack_id : option (list byte);
  ShareGroupDescribeResponse_Member_member_epoch : Z;
  ShareGroupDescribeResponse_Member_client_id : list byte;
  ShareGroupDescribeResponse_Member_client_host : list byte;
  ShareGroupDescribeResponse_Member_subscribed_topic_names : list (list byte);
  ShareGroupDescribeResponse_Member_assignment : ShareGroupDescribeResponse_Assignment;
  ShareGroupDescribeResponse_Member_unknown_tagged_fields : TaggedFields
}.

(* @ src/crates/kafka-protocol/src/messages/share_group_describe_response.rs 589-602 Member::default *)
Definition ShareGroupDescribeResponse_Member_default : ShareGroupDescribeResponse_Member := {|
  ShareGroupDescribeResponse_Member_member_id := [];
  ShareGroupDescribeResponse_Member_rack_id := None;
  ShareGroupDescribeResponse_Member_member_epoch := 0;
  ShareGroupDescribeResponse_Member_client_id := [];
  ShareGroupDescribeResponse_Member_client_host := [];
  ShareGroupDescribeResponse_Member_subscribed_topic_names := [];
  ShareGroupDescribeResponse_Member_assignment := ShareGroupDescribeResponse_Assignment_default;
  ShareGroupDescribeResponse_Member_unknown_tagged_fields := ∅
|}.

(* @ src/crates/kafka-protocol/src/messages/share_group_describe_response.rs 506-587 Member::encode, compute_size, decode *)
Definition ShareGroupDescribeResponse_Member_codec (version : Z) : Codec ShareGroupDescribeResponse_Member
    :=
  message 1 1 version (build mkShareGroupDescribeResponse_Member
    ⊛ (field ShareGroupDescribeResponse_Member_member_id CompactString)
    ⊛ (field ShareGroupDescribeResponse_Member_rack_id NullableCompactString)
    ⊛ (field ShareGroupDescribeResponse_Member_member_epoch Int32)
    ⊛ (field ShareGroupDescribeResponse_Member_client_id CompactString)
    ⊛ (field ShareGroupDescribeResponse_Member_client_host CompactString)
    ⊛ (field ShareGroupDescribeResponse_Member_subscribed_topic_names (CompactArray CompactString))
    ⊛ (field ShareGroupDescribeResponse_Member_assignment (Struct
        ShareGroupDescribeResponse_Assignment_codec version))
    ⊛ unknown_tags true ShareGroupDescribeResponse_Member_unknown_tagged_fields).

Definition ShareGroupDescribeResponse_Member_valid (version : Z) (x : ShareGroupDescribeResponse_Member) :
    Prop :=
  utf8 (ShareGroupDescribeResponse_Member_member_id x) ∧
  opt_all utf8 (ShareGroupDescribeResponse_Member_rack_id x) ∧
  in_signed 32 (ShareGroupDescribeResponse_Member_member_epoch x) ∧
  utf8 (ShareGroupDescribeResponse_Member_client_id x) ∧
  utf8 (ShareGroupDescribeResponse_Member_client_host x) ∧
  Forall utf8 (ShareGroupDescribeResponse_Member_subscribed_topic_names x) ∧
  ShareGroupDescribeResponse_Assignment_valid version (ShareGroupDescribeResponse_Member_assignment x) ∧
  unknown_valid 0 (ShareGroupDescribeResponse_Member_unknown_tagged_fields x).

#[global] Instance ShareGroupDescribeResponse_Member_sound version : Sound
    (ShareGroupDescribeResponse_Member_codec version) (ShareGroupDescribeResponse_Member_valid version).
Proof. solve_message. Qed.

(* @ src/crates/kafka-protocol/src/messages/share_group_describe_response.rs 128-179 DescribedGroup *)
Record ShareGroupDescribeResponse_DescribedGroup : Type := mkShareGroupDescribeResponse_DescribedGroup {
  ShareGroupDescribeResponse_DescribedGroup_error_code : Z;
  ShareGroupDescribeResponse_DescribedGroup_error_message : option (list byte);
  ShareGroupDescribeResponse_DescribedGroup_group_id : list byte;
  ShareGroupDescribeResponse_DescribedGroup_group_state : list byte;
  ShareGroupDescribeResponse_DescribedGroup_group_epoch : Z;
  ShareGroupDescribeResponse_DescribedGroup_assignment_epoch : Z;
  ShareGroupDescribeResponse_DescribedGroup_assignor_name : list byte;
  ShareGroupDescribeResponse_DescribedGroup_members : list ShareGroupDescribeResponse_Member;
  ShareGroupDescribeResponse_DescribedGroup_authorized_operations : Z;
  ShareGroupDescribeResponse_DescribedGroup_unknown_tagged_fields : TaggedFields
}.

(* @ src/crates/kafka-protocol/src/messages/share_group_describe_response.rs 365-380 DescribedGroup::default *)
Definition ShareGroupDescribeResponse_DescribedGroup_default : ShareGroupDescribeResponse_DescribedGroup :=
    {|
  ShareGroupDescribeResponse_DescribedGroup_error_code := 0;
  ShareGroupDescribeResponse_DescribedGroup_error_message := None;
  ShareGroupDescribeResponse_DescribedGroup_group_id := [];
  ShareGroupDescribeResponse_DescribedGroup_group_state := [];
  ShareGroupDescribeResponse_DescribedGroup_group_epoch := 0;
  ShareGroupDescribeResponse_DescribedGroup_assignment_epoch := 0;
  ShareGroupDescribeResponse_DescribedGroup_assignor_name := [];
  ShareGroupDescribeResponse_DescribedGroup_members := [];
  ShareGroupDescribeResponse_DescribedGroup_authorized_operations := -2147483648;
  ShareGroupDescribeResponse_DescribedGroup_unknown_tagged_fields := ∅
|}.

(* @ src/crates/kafka-protocol/src/messages/share_group_describe_response.rs 275-363 DescribedGroup::encode, compute_size, decode *)
Definition ShareGroupDescribeResponse_DescribedGroup_codec (version : Z) : Codec
    ShareGroupDescribeResponse_DescribedGroup :=
  message 1 1 version (build mkShareGroupDescribeResponse_DescribedGroup
    ⊛ (field ShareGroupDescribeResponse_DescribedGroup_error_code Int16)
    ⊛ (field ShareGroupDescribeResponse_DescribedGroup_error_message NullableCompactString)
    ⊛ (field ShareGroupDescribeResponse_DescribedGroup_group_id CompactString)
    ⊛ (field ShareGroupDescribeResponse_DescribedGroup_group_state CompactString)
    ⊛ (field ShareGroupDescribeResponse_DescribedGroup_group_epoch Int32)
    ⊛ (field ShareGroupDescribeResponse_DescribedGroup_assignment_epoch Int32)
    ⊛ (field ShareGroupDescribeResponse_DescribedGroup_assignor_name CompactString)
    ⊛ (field ShareGroupDescribeResponse_DescribedGroup_members (CompactArray (Struct
        ShareGroupDescribeResponse_Member_codec version)))
    ⊛ (field ShareGroupDescribeResponse_DescribedGroup_authorized_operations Int32)
    ⊛ unknown_tags true ShareGroupDescribeResponse_DescribedGroup_unknown_tagged_fields).

Definition ShareGroupDescribeResponse_DescribedGroup_valid (version : Z) (x :
    ShareGroupDescribeResponse_DescribedGroup) : Prop :=
  in_signed 16 (ShareGroupDescribeResponse_DescribedGroup_error_code x) ∧
  opt_all utf8 (ShareGroupDescribeResponse_DescribedGroup_error_message x) ∧
  utf8 (ShareGroupDescribeResponse_DescribedGroup_group_id x) ∧
  utf8 (ShareGroupDescribeResponse_DescribedGroup_group_state x) ∧
  in_signed 32 (ShareGroupDescribeResponse_DescribedGroup_group_epoch x) ∧
  in_signed 32 (ShareGroupDescribeResponse_DescribedGroup_assignment_epoch x) ∧
  utf8 (ShareGroupDescribeResponse_DescribedGroup_assignor_name x) ∧
  Forall (ShareGroupDescribeResponse_Member_valid version)
      (ShareGroupDescribeResponse_DescribedGroup_members x) ∧
  in_signed 32 (ShareGroupDescribeResponse_DescribedGroup_authorized_operations x) ∧
  unknown_valid 0 (ShareGroupDescribeResponse_DescribedGroup_unknown_tagged_fields x).

#[global] Instance ShareGroupDescribeResponse_DescribedGroup_sound version : Sound
    (ShareGroupDescribeResponse_DescribedGroup_codec version)
    (ShareGroupDescribeResponse_DescribedGroup_valid version).
Proof. solve_message. Qed.

(* @ src/crates/kafka-protocol/src/messages/share_group_describe_response.rs 609-625 ShareGroupDescribeResponse *)
Record ShareGroupDescribeResponse : Type := mkShareGroupDescribeResponse {
  ShareGroupDescribeResponse_throttle_time_ms : Z;
  ShareGroupDescribeResponse_groups : list ShareGroupDescribeResponse_DescribedGroup;
  ShareGroupDescribeResponse_unknown_tagged_fields : TaggedFields
}.

(* @ src/crates/kafka-protocol/src/messages/share_group_describe_response.rs 720-728 ShareGroupDescribeResponse::default *)
Definition ShareGroupDescribeResponse_default : ShareGroupDescribeResponse := {|
  ShareGroupDescribeResponse_throttle_time_ms := 0;
  ShareGroupDescribeResponse_groups := [];
  ShareGroupDescribeResponse_unknown_tagged_fields := ∅
|}.

(* @ src/crates/kafka-protocol/src/messages/share_group_describe_response.rs 658-718 ShareGroupDescribeResponse::encode, compute_size, decode *)
Definition ShareGroupDescribeResponse_codec (version : Z) : Codec ShareGroupDescribeResponse :=
  message 1 1 version (build mkShareGroupDescribeResponse
    ⊛ (field ShareGroupDescribeResponse_throttle_time_ms Int32)
    ⊛ (field ShareGroupDescribeResponse_groups (CompactArray (Struct
        ShareGroupDescribeResponse_DescribedGroup_codec version)))
    ⊛ unknown_tags true ShareGroupDescribeResponse_unknown_tagged_fields).

Definition ShareGroupDescribeResponse_valid (version : Z) (x : ShareGroupDescribeResponse) : Prop :=
  in_signed 32 (ShareGroupDescribeResponse_throttle_time_ms x) ∧
  Forall (ShareGroupDescribeResponse_DescribedGroup_valid version) (ShareGroupDescribeResponse_groups x) ∧
  unknown_valid 0 (ShareGroupDescribeResponse_unknown_tagged_fields x).

#[global] Instance ShareGroupDescribeResponse_sound version : Sound (ShareGroupDescribeResponse_codec
    version) (ShareGroupDescribeResponse_valid version).
Proof. solve_message. Qed.

(* @ src/crates/kafka-protocol/src/messages/share_group_describe_response.rs 880-884 ShareGroupDescribeResponse::header_version *)
Definition ShareGroupDescribeResponse_header_version (version : Z) : Z := 1.

(* @ src/crates/kafka-protocol/src/messages/share_group_describe_response.rs 730-733 ShareGroupDescribeResponse::VERSIONS *)
Definition ShareGroupDescribeResponse_VERSIONS : Z * Z := (1, 1).

(** ** [share_group_heartbeat_request] *)

(* @ src/crates/kafka-protocol/src/messages/share_group_heartbeat_request.rs 20-51 ShareGroupHeartbeatRequest *)
Record ShareGroupHeartbeatRequest : Type := mkShareGroupHeartbeatRequest {
  ShareGroupHeartbeatRequest_group_id : list byte;
  ShareGroupHeartbeatRequest_member_id : list byte;
  ShareGroupHeartbeatRequest_member_epoch : Z;
  ShareGroupHeartbeatRequest_rack_id : option (list byte);
  ShareGroupHeartbeatRequest_subscribed_topic_names : option (list (list byte));
  ShareGroupHeartbeatRequest_unknown_tagged_fields : TaggedFields
}.

(* @ src/crates/kafka-protocol/src/messages/share_group_heartbeat_request.rs 186-197 ShareGroupHeartbeatRequest::default *)
Definition ShareGroupHeartbeatRequest_default : ShareGroupHeartbeatRequest := {|
  ShareGroupHeartbeatRequest_group_id := [];
  ShareGroupHeartbeatRequest_member_id := [];
  ShareGroupHeartbeatRequest_member_epoch := 0;
  ShareGroupHeartbeatRequest_rack_id := None;
  ShareGroupHeartbeatRequest_subscribed_topic_names := None;
  ShareGroupHeartbeatRequest_unknown_tagged_fields := ∅
|}.

(* @ src/crates/kafka-protocol/src/messages/share_group_heartbeat_request.rs 111-184 ShareGroupHeartbeatRequest::encode, compute_size, decode *)
Definition ShareGroupHeartbeatRequest_codec (version : Z) : Codec ShareGroupHeartbeatRequest :=
  message 1 1 version (build mkShareGroupHeartbeatRequest
    ⊛ (field ShareGroupHeartbeatRequest_group_id CompactString)
    ⊛ (field ShareGroupHeartbeatRequest_member_id CompactString)
    ⊛ (field ShareGroupHeartbeatRequest_member_epoch Int32)
    ⊛ (field ShareGroupHeartbeatRequest_rack_id NullableCompactString)
    ⊛ (field ShareGroupHeartbeatRequest_subscribed_topic_names (NullableCompactArray CompactString))
    ⊛ unknown_tags true ShareGroupHeartbeatRequest_unknown_tagged_fields).

Definition ShareGroupHeartbeatRequest_valid (version : Z) (x : ShareGroupHeartbeatRequest) : Prop :=
  utf8 (ShareGroupHeartbeatRequest_group_id x) ∧
  utf8 (ShareGroupHeartbeatRequest_member_id x) ∧
  in_signed 32 (ShareGroupHeartbeatRequest_member_epoch x) ∧
  opt_all utf8 (ShareGroupHeartbeatRequest_rack_id x) ∧
  opt_all (Forall utf8) (ShareGroupHeartbeatRequest_subscribed_topic_names x) ∧
  unknown_valid 0 (ShareGroupHeartbeatRequest_unknown_tagged_fields x).

#[global] Instance ShareGroupHeartbeatRequest_sound version : Sound (ShareGroupHeartbeatRequest_codec
    version) (ShareGroupHeartbeatRequest_valid version).
Proof. solve_message. Qed.

(* @ src/crates/kafka-protocol/src/messages/share_group_heartbeat_request.rs 204-208 ShareGroupHeartbeatRequest::header_version *)
Definition ShareGroupHeartbeatRequest_header_version (version : Z) : Z := 2.

(* @ src/crates/kafka-protocol/src/messages/share_group_heartbeat_request.rs 199-202 ShareGroupHeartbeatRequest::VERSIONS *)
Definition ShareGroupHeartbeatRequest_VERSIONS : Z * Z := (1, 1).

(** ** [share_group_heartbeat_response] *)

(* @ src/crates/kafka-protocol/src/messages/share_group_heartbeat_response.rs 349-365 TopicPartitions *)
Record ShareGroupHeartbeatResponse_TopicPartitions : Type := mkShareGroupHeartbeatResponse_TopicPartitions {
  ShareGroupHeartbeatResponse_TopicPartitions_topic_id : Z;
  ShareGroupHeartbeatResponse_TopicPartitions_partitions : list Z;
  ShareGroupHeartbeatResponse_TopicPartitions_unknown_tagged_fields : TaggedFields
}.

(* @ src/crates/kafka-protocol/src/messages/share_group_heartbeat_response.rs 460-468 TopicPartitions::default *)
Definition ShareGroupHeartbeatResponse_TopicPartitions_default :
    ShareGroupHeartbeatResponse_TopicPartitions := {|
  ShareGroupHeartbeatResponse_TopicPartitions_topic_id := 0;
  ShareGroupHeartbeatResponse_TopicPartitions_partitions := [];
  ShareGroupHeartbeatResponse_TopicPartitions_unknown_tagged_fields := ∅
|}.

(* @ src/crates/kafka-protocol/src/messages/share_group_heartbeat_response.rs 398-458 TopicPartitions::encode, compute_size, decode *)
Definition ShareGroupHeartbeatResponse_TopicPartitions_codec (version : Z) : Codec
    ShareGroupHeartbeatResponse_TopicPartitions :=
  message 1 1 version (build mkShareGroupHeartbeatResponse_TopicPartitions
    ⊛ (field ShareGroupHeartbeatResponse_TopicPartitions_topic_id Uuid)
    ⊛ (field ShareGroupHeartbeatResponse_TopicPartitions_partitions (CompactArray Int32))
    ⊛ unknown_tags true ShareGroupHeartbeatResponse_TopicPartitions_unknown_tagged_fields).

Definition ShareGroupHeartbeatResponse_TopicPartitions_valid (version : Z) (x :
    ShareGroupHeartbeatResponse_TopicPartitions) : Prop :=
  in_unsigned 128 (ShareGroupHeartbeatResponse_TopicPartitions_topic_id x) ∧
  Forall (in_signed 32) (ShareGroupHeartbeatResponse_TopicPartitions_partitions x) ∧
  unknown_valid 0 (ShareGroupHeartbeatResponse_TopicPartitions_unknown_tagged_fields x).

#[global] Instance ShareGroupHeartbeatResponse_TopicPartitions_sound version : Sound
    (ShareGroupHeartbeatResponse_TopicPartitions_codec version)
    (ShareGroupHeartbeatResponse_TopicPartitions_valid version).
Proof. solve_message. Qed.

(* @ src/crates/kafka-protocol/src/messages/share_group_heartbeat_response.rs 20-31 Assignment *)
Record ShareGroupHeartbeatResponse_Assignment : Type := mkShareGroupHeartbeatResponse_Assignment {
  ShareGroupHeartbeatResponse_Assignment_topic_partitions : list
      ShareGroupHeartbeatResponse_TopicPartitions;
  ShareGroupHeartbeatResponse_Assignment_unknown_tagged_fields : TaggedFields
}.

(* @ src/crates/kafka-protocol/src/messages/share_group_heartbeat_response.rs 114-121 Assignment::default *)
Definition ShareGroupHeartbeatResponse_Assignment_default : ShareGroupHeartbeatResponse_Assignment := {|
  ShareGroupHeartbeatResponse_Assignment_topic_partitions := [];
  ShareGroupHeartbeatResponse_Assignment_unknown_tagged_fields := ∅
|}.

(* @ src/crates/kafka-protocol/src/messages/share_group_heartbeat_response.rs 55-112 Assignment::encode, compute_size, decode *)
Definition ShareGroupHeartbeatResponse_Assignment_codec (version : Z) : Codec
    ShareGroupHeartbeatResponse_Assignment :=
  message 1 1 version (build mkShareGroupHeartbeatResponse_Assignment
    ⊛ (field ShareGroupHeartbeatResponse_Assignment_topic_partitions (CompactArray (Struct
        ShareGroupHeartbeatResponse_TopicPartitions_codec version)))
    ⊛ unknown_tags true ShareGroupHeartbeatResponse_Assignment_unknown_tagged_fields).

Definition ShareGroupHeartbeatResponse_Assignment_valid (version : Z) (x :
    ShareGroupHeartbeatResponse_Assignment) : Prop :=
  Forall (ShareGroupHeartbeatResponse_TopicPartitions_valid version)
      (ShareGroupHeartbeatResponse_Assignment_topic_partitions x) ∧
  unknown_valid 0 (ShareGroupHeartbeatResponse_Assignment_unknown_tagged_fields x).

#[global] Instance ShareGroupHeartbeatResponse_Assignment_sound version : Sound
    (ShareGroupHeartbeatResponse_Assignment_codec version) (ShareGroupHeartbeatResponse_Assignment_valid
    version).
Proof. solve_message. Qed.

(* @ src/crates/kafka-protocol/src/messages/share_group_heartbeat_response.rs 128-169 ShareGroupHeartbeatResponse *)
Record ShareGroupHeartbeatResponse : Type := mkShareGroupHeartbeatResponse {
  ShareGroupHeartbeatResponse_throttle_time_ms : Z;
  ShareGroupHeartbeatResponse_error_code : Z;
  ShareGroupHeartbeatResponse_error_message : option (list byte);
  ShareGroupHeartbeatResponse_member_id : option (list byte);
  ShareGroupHeartbeatResponse_member_epoch : Z;
  ShareGroupHeartbeatResponse_heartbeat_interval_ms : Z;
  ShareGroupHeartbeatResponse_assignment : option ShareGroupHeartbeatResponse_Assignment;
  ShareGroupHeartbeatResponse_unknown_tagged_fields : TaggedFields
}.

(* @ src/crates/kafka-protocol/src/messages/share_group_heartbeat_response.rs 329-342 ShareGroupHeartbeatResponse::default *)
Definition ShareGroupHeartbeatResponse_default : ShareGroupHeartbeatResponse := {|
  ShareGroupHeartbeatResponse_throttle_time_ms := 0;
  ShareGroupHeartbeatResponse_error_code := 0;
  ShareGroupHeartbeatResponse_error_message := None;
  ShareGroupHeartbeatResponse_member_id := None;
  ShareGroupHeartbeatResponse_member_epoch := 0;
  ShareGroupHeartbeatResponse_heartbeat_interval_ms := 0;
  ShareGroupHeartbeatResponse_assignment := None;
  ShareGroupHeartbeatResponse_unknown_tagged_fields := ∅
|}.

(* @ src/crates/kafka-protocol/src/messages/share_group_heartbeat_response.rs 247-327 ShareGroupHeartbeatResponse::encode, compute_size, decode *)
Definition ShareGroupHeartbeatResponse_codec (version : Z) : Codec ShareGroupHeartbeatResponse :=
  message 1 1 version (build mkShareGroupHeartbeatResponse
    ⊛ (field ShareGroupHeartbeatResponse_throttle_time_ms Int32)
    ⊛ (field ShareGroupHeartbeatResponse_error_code Int16)
    ⊛ (field ShareGroupHeartbeatResponse_error_message NullableCompactString)
    ⊛ (field ShareGroupHeartbeatResponse_member_id NullableCompactString)
    ⊛ (field ShareGroupHeartbeatResponse_member_epoch Int32)
    ⊛ (field ShareGroupHeartbeatResponse_heartbeat_interval_ms Int32)
    ⊛ (field ShareGroupHeartbeatResponse_assignment (OptionStruct
        ShareGroupHeartbeatResponse_Assignment_codec version))
    ⊛ unknown_tags true ShareGroupHeartbeatResponse_unknown_tagged_fields).

Definition ShareGroupHeartbeatResponse_valid (version : Z) (x : ShareGroupHeartbeatResponse) : Prop :=
  in_signed 32 (ShareGroupHeartbeatResponse_throttle_time_ms x) ∧
  in_signed 16 (ShareGroupHeartbeatResponse_error_code x) ∧
  opt_all utf8 (ShareGroupHeartbeatResponse_error_message x) ∧
  opt_all utf8 (ShareGroupHeartbeatResponse_member_id x) ∧
  in_signed 32 (ShareGroupHeartbeatResponse_member_epoch x) ∧
  in_signed 32 (ShareGroupHeartbeatResponse_heartbeat_interval_ms x) ∧
  opt_all (ShareGroupHeartbeatResponse_Assignment_valid version) (ShareGroupHeartbeatResponse_assignment x)
      ∧
  unknown_valid 0 (ShareGroupHeartbeatResponse_unknown_tagged_fields x).

#[global] Instance ShareGroupHeartbeatResponse_sound version : Sound (ShareGroupHeartbeatResponse_codec
    version) (ShareGroupHeartbeatResponse_valid version).
Proof. solve_message. Qed.

(* @ src/crates/kafka-protocol/src/messages/share_group_heartbeat_response.rs 475-479 ShareGroupHeartbeatResponse::header_version *)
Definition ShareGroupHeartbeatResponse_header_version (version : Z) : Z := 1.

(* @ src/crates/kafka-protocol/src/messages/share_group_heartbeat_response.rs 344-347 ShareGroupHeartbeatResponse::VERSIONS *)
Definition ShareGroupHeartbeatResponse_VERSIONS : Z * Z := (1, 1).

(** ** [streams_group_describe_request] *)

(* @ src/crates/kafka-protocol/src/messages/streams_group_describe_request.rs 20-36 StreamsGroupDescribeRequest *)
Record StreamsGroupDescribeRequest : Type := mkStreamsGroupDescribeRequest {
  StreamsGroupDescribeRequest_group_ids : list (list byte);
  StreamsGroupDescribeRequest_include_authorized_operations : bool;
  StreamsGroupDescribeRequest_unknown_tagged_fields : TaggedFields
}.

(* @ src/crates/kafka-protocol/src/messages/streams_group_describe_request.rs 131-139 StreamsGroupDescribeRequest::default *)
Definition StreamsGroupDescribeRequest_default : StreamsGroupDescribeRequest := {|
  StreamsGroupDescribeRequest_group_ids := [];
  StreamsGroupDescribeRequest_include_authorized_operations := false;
  StreamsGroupDescribeRequest_unknown_tagged_fields := ∅
|}.

(* @ src/crates/kafka-protocol/src/messages/streams_group_describe_request.rs 69-129 StreamsGroupDescribeRequest::encode, compute_size, decode *)
Definition StreamsGroupDescribeRequest_codec (version : Z) : Codec StreamsGroupDescribeRequest :=
  message 0 0 version (build mkStreamsGroupDescribeRequest
    ⊛ (field StreamsGroupDescribeRequest_group_ids (CompactArray CompactString))
    ⊛ (field StreamsGroupDescribeRequest_include_authorized_operations Boolean)
    ⊛ unknown_tags true StreamsGroupDescribeRequest_unknown_tagged_fields).

Definition StreamsGroupDescribeRequest_valid (version : Z) (x : StreamsGroupDescribeRequest) : Prop :=
  Forall utf8 (StreamsGroupDescribeRequest_group_ids x) ∧
  unknown_valid 0 (StreamsGroupDescribeRequest_unknown_tagged_fields x).

#[global] Instance StreamsGroupDescribeRequest_sound version : Sound (StreamsGroupDescribeRequest_codec
    version) (StreamsGroupDescribeRequest_valid version).
Proof. solve_message. Qed.

(* @ src/crates/kafka-protocol/src/messages/streams_group_describe_request.rs 146-150 StreamsGroupDescribeRequest::header_version *)
Definition StreamsGroupDescribeRequest_header_version (version : Z) : Z := 2.

(* @ src/crates/kafka-protocol/src/messages/streams_group_describe_request.rs 141-144 StreamsGroupDescribeRequest::VERSIONS *)
Definition StreamsGroupDescribeRequest_VERSIONS : Z * Z := (0, 0).

(** ** [streams_group_describe_response] *)

(* @ src/crates/kafka-protocol/src/messages/streams_group_describe_response.rs 1370-1386 TaskIds *)
Record StreamsGroupDescribeResponse_TaskIds : Type := mkStreamsGroupDescribeResponse_TaskIds {
  StreamsGroupDescribeResponse_TaskIds_subtopology_id : list byte;
  StreamsGroupDescribeResponse_TaskIds_partitions : list Z;
  StreamsGroupDescribeResponse_TaskIds_unknown_tagged_fields : TaggedFields
}.

(* @ src/crates/kafka-protocol/src/messages/streams_group_describe_response.rs 1481-1489 TaskIds::default *)
Definition StreamsGroupDescribeResponse_TaskIds_default : StreamsGroupDescribeResponse_TaskIds := {|
  StreamsGroupDescribeResponse_TaskIds_subtopology_id := [];
  StreamsGroupDescribeResponse_TaskIds_partitions := [];
  StreamsGroupDescribeResponse_TaskIds_unknown_tagged_fields := ∅
|}.

(* @ src/crates/kafka-protocol/src/messages/streams_group_describe_response.rs 1419-1479 TaskIds::encode, compute_size, decode *)
Definition StreamsGroupDescribeResponse_TaskIds_codec (version : Z) : Codec
    StreamsGroupDescribeResponse_TaskIds :=
  message 0 0 version (build mkStreamsGroupDescribeResponse_TaskIds
    ⊛ (field StreamsGroupDescribeResponse_TaskIds_subtopology_id CompactString)
    ⊛ (field StreamsGroupDescribeResponse_TaskIds_partitions (CompactArray Int32))
    ⊛ unknown_tags true StreamsGroupDescribeResponse_TaskIds_unknown_tagged_fields).

Definition StreamsGroupDescribeResponse_TaskIds_valid (version : Z) (x :
    StreamsGroupDescribeResponse_TaskIds) : Prop :=
  utf8 (StreamsGroupDescribeResponse_TaskIds_subtopology_id x) ∧
  Forall (in_signed 32) (StreamsGroupDescribeResponse_TaskIds_partitions x) ∧
  unknown_valid 0 (StreamsGroupDescribeResponse_TaskIds_unknown_tagged_fields x).

#[global] Instance StreamsGroupDescribeResponse_TaskIds_sound version : Sound
    (StreamsGroupDescribeResponse_TaskIds_codec version) (StreamsGroupDescribeResponse_TaskIds_valid
    version).
Proof. solve_message. Qed.

(* @ src/crates/kafka-protocol/src/messages/streams_group_describe_response.rs 20-41 Assignment *)
Record StreamsGroupDescribeResponse_Assignment : Type := mkStreamsGroupDescribeResponse_Assignment {
  StreamsGroupDescribeResponse_Assignment_active_tasks : list StreamsGroupDescribeResponse_TaskIds;
  StreamsGroupDescribeResponse_Assignment_standby_tasks : list StreamsGroupDescribeResponse_TaskIds;
  StreamsGroupDescribeResponse_Assignment_warmup_tasks : list StreamsGroupDescribeResponse_TaskIds;
  StreamsGroupDescribeResponse_Assignment_unknown_tagged_fields : TaggedFields
}.

(* @ src/crates/kafka-protocol/src/messages/streams_group_describe_response.rs 152-161 Assignment::default *)
Definition StreamsGroupDescribeResponse_Assignment_default : StreamsGroupDescribeResponse_Assignment := {|
  StreamsGroupDescribeResponse_Assignment_active_tasks := [];
  StreamsGroupDescribeResponse_Assignment_standby_tasks := [];
  StreamsGroupDescribeResponse_Assignment_warmup_tasks := [];
  StreamsGroupDescribeResponse_Assignment_unknown_tagged_fields := ∅
|}.

(* @ src/crates/kafka-protocol/src/messages/streams_group_describe_response.rs 83-150 Assignment::encode, compute_size, decode *)
Definition StreamsGroupDescribeResponse_Assignment_codec (version : Z) : Codec
    StreamsGroupDescribeResponse_Assignment :=
  message 0 0 version (build mkStreamsGroupDescribeResponse_Assignment
    ⊛ (field StreamsGroupDescribeResponse_Assignment_active_tasks (CompactArray (Struct
        StreamsGroupDescribeResponse_TaskIds_codec version)))
    ⊛ (field StreamsGroupDescribeResponse_Assignment_standby_tasks (CompactArray (Struct
        StreamsGroupDescribeResponse_TaskIds_codec version)))
    ⊛ (field StreamsGroupDescribeResponse_Assignment_warmup_tasks (CompactArray (Struct
        StreamsGroupDescribeResponse_TaskIds_codec version)))
    ⊛ unknown_tags true StreamsGroupDescribeResponse_Assignment_unknown_tagged_fields).

Definition StreamsGroupDescribeResponse_Assignment_valid (version : Z) (x :
    StreamsGroupDescribeResponse_Assignment) : Prop :=
  Forall (StreamsGroupDescribeResponse_TaskIds_valid version)
      (StreamsGroupDescribeResponse_Assignment_active_tasks x) ∧
  Forall (StreamsGroupDescribeResponse_TaskIds_valid version)
      (StreamsGroupDescribeResponse_Assignment_standby_tasks x) ∧
  Forall (StreamsGroupDescribeResponse_TaskIds_valid version)
      (StreamsGroupDescribeResponse_Assignment_warmup_tasks x) ∧
  unknown_valid 0 (StreamsGroupDescribeResponse_Assignment_unknown_tagged_fields x).

#[global] Instance StreamsGroupDescribeResponse_Assignment_sound version : Sound
    (StreamsGroupDescribeResponse_Assignment_codec version) (StreamsGroupDescribeResponse_Assignment_valid
    version).
Proof. solve_message. Qed.

(* @ src/crates/kafka-protocol/src/messages/streams_group_describe_response.rs 553-569 KeyValue *)
Record StreamsGroupDescribeResponse_KeyValue : Type := mkStreamsGroupDescribeResponse_KeyValue {
  StreamsGroupDescribeResponse_KeyValue_key : list byte;
  StreamsGroupDescribeResponse_KeyValue_value : list byte;
  StreamsGroupDescribeResponse_KeyValue_unknown_tagged_fields : TaggedFields
}.

(* @ src/crates/kafka-protocol/src/messages/streams_group_describe_response.rs 664-672 KeyValue::default *)
Definition StreamsGroupDescribeResponse_KeyValue_default : StreamsGroupDescribeResponse_KeyValue := {|
  StreamsGroupDescribeResponse_KeyValue_key := [];
  StreamsGroupDescribeResponse_KeyValue_value := [];
  StreamsGroupDescribeResponse_KeyValue_unknown_tagged_fields := ∅
|}.

(* @ src/crates/kafka-protocol/src/messages/streams_group_describe_response.rs 602-662 KeyValue::encode, compute_size, decode *)
Definition StreamsGroupDescribeResponse_KeyValue_codec (version : Z) : Codec
    StreamsGroupDescribeResponse_KeyValue :=
  message 0 0 version (build mkStreamsGroupDescribeResponse_KeyValue
    ⊛ (field StreamsGroupDescribeResponse_KeyValue_key CompactString)
    ⊛ (field StreamsGroupDescribeResponse_KeyValue_value CompactString)
    ⊛ unknown_tags true StreamsGroupDescribeResponse_KeyValue_unknown_tagged_fields).

Definition StreamsGroupDescribeResponse_KeyValue_valid (version : Z) (x :
    StreamsGroupDescribeResponse_KeyValue) : Prop :=
  utf8 (StreamsGroupDescribeResponse_KeyValue_key x) ∧
  utf8 (StreamsGroupDescribeResponse_KeyValue_value x) ∧
  unknown_valid 0 (StreamsGroupDescribeResponse_KeyValue_unknown_tagged_fields x).

#[global] Instance StreamsGroupDescribeResponse_KeyValue_sound version : Sound
    (StreamsGroupDescribeResponse_KeyValue_codec version) (StreamsGroupDescribeResponse_KeyValue_valid
    version).
Proof. solve_message. Qed.

(* @ src/crates/kafka-protocol/src/messages/streams_group_describe_response.rs 1641-1667 TopicInfo *)
Record StreamsGroupDescribeResponse_TopicInfo : Type := mkStreamsGroupDescribeResponse_TopicInfo {
  StreamsGroupDescribeResponse_TopicInfo_name : list byte;
  StreamsGroupDescribeResponse_TopicInfo_partitions : Z;
  StreamsGroupDescribeResponse_TopicInfo_replication_factor : Z;
  StreamsGroupDescribeResponse_TopicInfo_topic_configs : list StreamsGroupDescribeResponse_KeyValue;
  StreamsGroupDescribeResponse_TopicInfo_unknown_tagged_fields : TaggedFields
}.

(* @ src/crates/kafka-protocol/src/messages/streams_group_describe_response.rs 1789-1799 TopicInfo::default *)
Definition StreamsGroupDescribeResponse_TopicInfo_default : StreamsGroupDescribeResponse_TopicInfo := {|
  StreamsGroupDescribeResponse_TopicInfo_name := [];
  StreamsGroupDescribeResponse_TopicInfo_partitions := 0;
  StreamsGroupDescribeResponse_TopicInfo_replication_factor := 0;
  StreamsGroupDescribeResponse_TopicInfo_topic_configs := [];
  StreamsGroupDescribeResponse_TopicInfo_unknown_tagged_fields := ∅
|}.

(* @ src/crates/kafka-protocol/src/messages/streams_group_describe_response.rs 1718-1787 TopicInfo::encode, compute_size, decode *)
Definition StreamsGroupDescribeResponse_TopicInfo_codec (version : Z) : Codec
    StreamsGroupDescribeResponse_TopicInfo :=
  message 0 0 version (build mkStreamsGroupDescribeResponse_TopicInfo
    ⊛ (field StreamsGroupDescribeResponse_TopicInfo_name CompactString)
    ⊛ (field StreamsGroupDescribeResponse_TopicInfo_partitions Int32)
    ⊛ (field StreamsGroupDescribeResponse_TopicInfo_replication_factor Int16)
    ⊛ (field StreamsGroupDescribeResponse_TopicInfo_topic_configs (CompactArray (Struct
        StreamsGroupDescribeResponse_KeyValue_codec version)))
    ⊛ unknown_tags true StreamsGroupDescribeResponse_TopicInfo_unknown_tagged_fields).

Definition StreamsGroupDescribeResponse_TopicInfo_valid (version : Z) (x :
    StreamsGroupDescribeResponse_TopicInfo) : Prop :=
  utf8 (StreamsGroupDescribeResponse_TopicInfo_name x) ∧
  in_signed 32 (StreamsGroupDescribeResponse_TopicInfo_partitions x) ∧
  in_signed 16 (StreamsGroupDescribeResponse_TopicInfo_replication_factor x) ∧
  Forall (StreamsGroupDescribeResponse_KeyValue_valid version)
      (StreamsGroupDescribeResponse_TopicInfo_topic_configs x) ∧
  unknown_valid 0 (StreamsGroupDescribeResponse_TopicInfo_unknown_tagged_fields x).

#[global] Instance StreamsGroupDescribeResponse_TopicInfo_sound version : Sound
    (StreamsGroupDescribeResponse_TopicInfo_codec version) (StreamsGroupDescribeResponse_TopicInfo_valid
    version).
Proof. solve_message. Qed.

(* @ src/crates/kafka-protocol/src/messages/streams_group_describe_response.rs 1181-1212 Subtopology *)
Record StreamsGroupDescribeResponse_Subtopology : Type := mkStreamsGroupDescribeResponse_Subtopology {
  StreamsGroupDescribeResponse_Subtopology_subtopology_id : list byte;
  StreamsGroupDescribeResponse_Subtopology_source_topics : list (list byte);
  StreamsGroupDescribeResponse_Subtopology_repartition_sink_topics : list (list byte);
  StreamsGroupDescribeResponse_Subtopology_state_changelog_topics : list
      StreamsGroupDescribeResponse_TopicInfo;
  StreamsGroupDescribeResponse_Subtopology_repartition_source_topics : list
      StreamsGroupDescribeResponse_TopicInfo;
  StreamsGroupDescribeResponse_Subtopology_unknown_tagged_fields : TaggedFields
}.

(* @ src/crates/kafka-protocol/src/messages/streams_group_describe_response.rs 1352-1363 Subtopology::default *)
Definition StreamsGroupDescribeResponse_Subtopology_default : StreamsGroupDescribeResponse_Subtopology := {|
  StreamsGroupDescribeResponse_Subtopology_subtopology_id := [];
  StreamsGroupDescribeResponse_Subtopology_source_topics := [];
  StreamsGroupDescribeResponse_Subtopology_repartition_sink_topics := [];
  StreamsGroupDescribeResponse_Subtopology_state_changelog_topics := [];
  StreamsGroupDescribeResponse_Subtopology_repartition_source_topics := [];
  StreamsGroupDescribeResponse_Subtopology_unknown_tagged_fields := ∅
|}.

(* @ src/crates/kafka-protocol/src/messages/streams_group_describe_response.rs 1272-1350 Subtopology::encode, compute_size, decode *)
Definition StreamsGroupDescribeResponse_Subtopology_codec (version : Z) : Codec
    StreamsGroupDescribeResponse_Subtopology :=
  message 0 0 version (build mkStreamsGroupDescribeResponse_Subtopology
    ⊛ (field StreamsGroupDescribeResponse_Subtopology_subtopology_id CompactString)
    ⊛ (field StreamsGroupDescribeResponse_Subtopology_source_topics (CompactArray CompactString))
    ⊛ (field StreamsGroupDescribeResponse_Subtopology_repartition_sink_topics (CompactArray CompactString))
    ⊛ (field StreamsGroupDescribeResponse_Subtopology_state_changelog_topics (CompactArray (Struct
        StreamsGroupDescribeResponse_TopicInfo_codec version)))
    ⊛ (field StreamsGroupDescribeResponse_Subtopology_repartition_source_topics (CompactArray (Struct
        StreamsGroupDescribeResponse_TopicInfo_codec version)))
    ⊛ unknown_tags true StreamsGroupDescribeResponse_Subtopology_unknown_tagged_fields).

Definition StreamsGroupDescribeResponse_Subtopology_valid (version : Z) (x :
    StreamsGroupDescribeResponse_Subtopology) : Prop :=
  utf8 (StreamsGroupDescribeResponse_Subtopology_subtopology_id x) ∧
  Forall utf8 (StreamsGroupDescribeResponse_Subtopology_source_topics x) ∧
  Forall utf8 (StreamsGroupDescribeResponse_Subtopology_repartition_sink_topics x) ∧
  Forall (StreamsGroupDescribeResponse_TopicInfo_valid version)
      (StreamsGroupDescribeResponse_Subtopology_state_changelog_topics x) ∧
  Forall (StreamsGroupDescribeResponse_TopicInfo_valid version)
      (StreamsGroupDescribeResponse_Subtopology_repartition_source_topics x) ∧
  unknown_valid 0 (StreamsGroupDescribeResponse_Subtopology_unknown_tagged_fields x).

#[global] Instance StreamsGroupDescribeResponse_Subtopology_sound version : Sound
    (StreamsGroupDescribeResponse_Subtopology_codec version)
    (StreamsGroupDescribeResponse_Subtopology_valid version).
Proof. solve_message. Qed.

(* @ src/crates/kafka-protocol/src/messages/streams_group_describe_response.rs 1806-1822 Topology *)
Record StreamsGroupDescribeResponse_Topology : Type := mkStreamsGroupDescribeResponse_Topology {
  StreamsGroupDescribeResponse_Topology_epoch : Z;
  StreamsGroupDescribeResponse_Topology_subtopologies : option (list
      StreamsGroupDescribeResponse_Subtopology);
  StreamsGroupDescribeResponse_Topology_unknown_tagged_fields : TaggedFields
}.

(* @ src/crates/kafka-protocol/src/messages/streams_group_describe_response.rs 1918-1926 Topology::default *)
Definition StreamsGroupDescribeResponse_Topology_default : StreamsGroupDescribeResponse_Topology := {|
  StreamsGroupDescribeResponse_Topology_epoch := 0;
  StreamsGroupDescribeResponse_Topology_subtopologies := None;
  StreamsGroupDescribeResponse_Topology_unknown_tagged_fields := ∅
|}.

(* @ src/crates/kafka-protocol/src/messages/streams_group_describe_response.rs 1855-1916 Topology::encode, compute_size, decode *)
Definition StreamsGroupDescribeResponse_Topology_codec (version : Z) : Codec
    StreamsGroupDescribeResponse_Topology :=
  message 0 0 version (build mkStreamsGroupDescribeResponse_Topology
    ⊛ (field StreamsGroupDescribeResponse_Topology_epoch Int32)
    ⊛ (field StreamsGroupDescribeResponse_Topology_subtopologies (NullableCompactArray (Struct
        StreamsGroupDescribeResponse_Subtopology_codec version)))
    ⊛ unknown_tags true StreamsGroupDescribeResponse_Topology_unknown_tagged_fields).

Definition StreamsGroupDescribeResponse_Topology_valid (version : Z) (x :
    StreamsGroupDescribeResponse_Topology) : Prop :=
  in_signed 32 (StreamsGroupDescribeResponse_Topology_epoch x) ∧
  opt_all (Forall (StreamsGroupDescribeResponse_Subtopology_valid version))
      (StreamsGroupDescribeResponse_Topology_subtopologies x) ∧
  unknown_valid 0 (StreamsGroupDescribeResponse_Topology_unknown_tagged_fields x).

#[global] Instance StreamsGroupDescribeResponse_Topology_sound version : Sound
    (StreamsGroupDescribeResponse_Topology_codec version) (StreamsGroupDescribeResponse_Topology_valid
    version).
Proof. solve_message. Qed.

(* @ src/crates/kafka-protocol/src/messages/streams_group_describe_response.rs 427-443 Endpoint *)
Record StreamsGroupDescribeResponse_Endpoint : Type := mkStreamsGroupDescribeResponse_Endpoint {
  StreamsGroupDescribeResponse_Endpoint_host : list byte;
  StreamsGroupDescribeResponse_Endpoint_port : Z;
  StreamsGroupDescribeResponse_Endpoint_unknown_tagged_fields : TaggedFields
}.

(* @ src/crates/kafka-protocol/src/messages/streams_group_describe_response.rs 538-546 Endpoint::default *)
Definition StreamsGroupDescribeResponse_Endpoint_default : StreamsGroupDescribeResponse_Endpoint := {|
  StreamsGroupDescribeResponse_Endpoint_host := [];
  StreamsGroupDescribeResponse_Endpoint_port := 0;
  StreamsGroupDescribeResponse_Endpoint_unknown_tagged_fields := ∅
|}.

(* @ src/crates/kafka-protocol/src/messages/streams_group_describe_response.rs 476-536 Endpoint::encode, compute_size, decode *)
Definition StreamsGroupDescribeResponse_Endpoint_codec (version : Z) : Codec
    StreamsGroupDescribeResponse_Endpoint :=
  message 0 0 version (build mkStreamsGroupDescribeResponse_Endpoint
    ⊛ (field StreamsGroupDescribeResponse_Endpoint_host CompactString)
    ⊛ (field StreamsGroupDescribeResponse_Endpoint_port UInt16)
    ⊛ unknown_tags true StreamsGroupDescribeResponse_Endpoint_unknown_tagged_fields).

Definition StreamsGroupDescribeResponse_Endpoint_valid (version : Z) (x :
    StreamsGroupDescribeResponse_Endpoint) : Prop :=
  utf8 (StreamsGroupDescribeResponse_Endpoint_host x) ∧
  in_unsigned 16 (StreamsGroupDescribeResponse_Endpoint_port x) ∧
  unknown_valid 0 (StreamsGroupDescribeResponse_Endpoint_unknown_tagged_fields x).

#[global] Instance StreamsGroupDescribeResponse_Endpoint_sound version : Sound
    (StreamsGroupDescribeResponse_Endpoint_codec version) (StreamsGroupDescribeResponse_Endpoint_valid
    version).
Proof. solve_message. Qed.

(* @ src/crates/kafka-protocol/src/messages/streams_group_describe_response.rs 1496-1517 TaskOffset *)
Record StreamsGroupDescribeResponse_TaskOffset : Type := mkStreamsGroupDescribeResponse_TaskOffset {
  StreamsGroupDescribeResponse_TaskOffset_subtopology_id : list byte;
  StreamsGroupDescribeResponse_TaskOffset_partition : Z;
  StreamsGroupDescribeResponse_TaskOffset_offset : Z;
  StreamsGroupDescribeResponse_TaskOffset_unknown_tagged_fields : TaggedFields
}.

(* @ src/crates/kafka-protocol/src/messages/streams_group_describe_response.rs 1625-1634 TaskOffset::default *)
Definition StreamsGroupDescribeResponse_TaskOffset_default : StreamsGroupDescribeResponse_TaskOffset := {|
  StreamsGroupDescribeResponse_TaskOffset_subtopology_id := [];
  StreamsGroupDescribeResponse_TaskOffset_partition := 0;
  StreamsGroupDescribeResponse_TaskOffset_offset := 0;
  StreamsGroupDescribeResponse_TaskOffset_unknown_tagged_fields := ∅
|}.

(* @ src/crates/kafka-protocol/src/messages/streams_group_describe_response.rs 1559-1623 TaskOffset::encode, compute_size, decode *)
Definition StreamsGroupDescribeResponse_TaskOffset_codec (version : Z) : Codec
    StreamsGroupDescribeResponse_TaskOffset :=
  message 0 0 version (build mkStreamsGroupDescribeResponse_TaskOffset
    ⊛ (field StreamsGroupDescribeResponse_TaskOffset_subtopology_id CompactString)
    ⊛ (field StreamsGroupDescribeResponse_TaskOffset_partition Int32)
    ⊛ (field StreamsGroupDescribeResponse_TaskOffset_offset Int64)
    ⊛ unknown_tags true StreamsGroupDescribeResponse_TaskOffset_unknown_tagged_fields).

Definition StreamsGroupDescribeResponse_TaskOffset_valid (version : Z) (x :
    StreamsGroupDescribeResponse_TaskOffset) : Prop :=
  utf8 (StreamsGroupDescribeResponse_TaskOffset_subtopology_id x) ∧
  in_signed 32 (StreamsGroupDescribeResponse_TaskOffset_partition x) ∧
  in_signed 64 (StreamsGroupDescribeResponse_TaskOffset_offset x) ∧
  unknown_valid 0 (StreamsGroupDescribeResponse_TaskOffset_unknown_tagged_fields x).

#[global] Instance StreamsGroupDescribeResponse_TaskOffset_sound version : Sound
    (StreamsGroupDescribeResponse_TaskOffset_codec version) (StreamsGroupDescribeResponse_TaskOffset_valid
    version).
Proof. solve_message. Qed.

(* @ src/crates/kafka-protocol/src/messages/streams_group_describe_response.rs 679-760 Member *)
Record StreamsGroupDescribeResponse_Member : Type := mkStreamsGroupDescribeResponse_Member {
  StreamsGroupDescribeResponse_Member_member_id : list byte;
  StreamsGroupDescribeResponse_Member_member_epoch : Z;
  StreamsGroupDescribeResponse_Member_instance_id : option (list byte);
  StreamsGroupDescribeResponse_Member_rack_id : option (list byte);
  StreamsGroupDescribeResponse_Member_client_id : list byte;
  StreamsGroupDescribeResponse_Member_client_host : list byte;
  StreamsGroupDescribeResponse_Member_topology_epoch : Z;
  StreamsGroupDescribeResponse_Member_process_id : list byte;
  StreamsGroupDescribeResponse_Member_user_endpoint : option StreamsGroupDescribeResponse_Endpoint;
  StreamsGroupDescribeResponse_Member_client_tags : list StreamsGroupDescribeResponse_KeyValue;
  StreamsGroupDescribeResponse_Member_task_offsets : list StreamsGroupDescribeResponse_TaskOffset;
  StreamsGroupDescribeResponse_Member_task_end_offsets : list StreamsGroupDescribeResponse_TaskOffset;
  StreamsGroupDescribeResponse_Member_assignment : StreamsGroupDescribeResponse_Assignment;
  StreamsGroupDescribeResponse_Member_target_assignment : StreamsGroupDescribeResponse_Assignment;
  StreamsGroupDescribeResponse_Member_is_classic : bool;
  StreamsGroupDescribeResponse_Member_unknown_tagged_fields : TaggedFields
}.

(* @ src/crates/kafka-protocol/src/messages/streams_group_describe_response.rs 1027-1048 Member::default *)
Definition StreamsGroupDescribeResponse_Member_default : StreamsGroupDescribeResponse_Member := {|
  StreamsGroupDescribeResponse_Member_member_id := [];
  StreamsGroupDescribeResponse_Member_member_epoch := 0;
  StreamsGroupDescribeResponse_Member_instance_id := None;
  StreamsGroupDescribeResponse_Member_rack_id := None;
  StreamsGroupDescribeResponse_Member_client_id := [];
  StreamsGroupDescribeResponse_Member_client_host := [];
  StreamsGroupDescribeResponse_Member_topology_epoch := 0;
  StreamsGroupDescribeResponse_Member_process_id := [];
  StreamsGroupDescribeResponse_Member_user_endpoint := None;
  StreamsGroupDescribeResponse_Member_client_tags := [];
  StreamsGroupDescribeResponse_Member_task_offsets := [];
  StreamsGroupDescribeResponse_Member_task_end_offsets := [];
  StreamsGroupDescribeResponse_Member_assignment := StreamsGroupDescribeResponse_Assignment_default;
  StreamsGroupDescribeResponse_Member_target_assignment := StreamsGroupDescribeResponse_Assignment_default;
  StreamsGroupDescribeResponse_Member_is_classic := false;
  StreamsGroupDescribeResponse_Member_unknown_tagged_fields := ∅
|}.

(* @ src/crates/kafka-protocol/src/messages/streams_group_describe_response.rs 910-1025 Member::encode, compute_size, decode *)
Definition StreamsGroupDescribeResponse_Member_codec (version : Z) : Codec
    StreamsGroupDescribeResponse_Member :=
  message 0 0 version (build mkStreamsGroupDescribeResponse_Member
    ⊛ (field StreamsGroupDescribeResponse_Member_member_id CompactString)
    ⊛ (field StreamsGroupDescribeResponse_Member_member_epoch Int32)
    ⊛ (field StreamsGroupDescribeResponse_Member_instance_id NullableCompactString)
    ⊛ (field StreamsGroupDescribeResponse_Member_rack_id NullableCompactString)
    ⊛ (field StreamsGroupDescribeResponse_Member_client_id CompactString)
    ⊛ (field StreamsGroupDescribeResponse_Member_client_host CompactString)
    ⊛ (field StreamsGroupDescribeResponse_Member_topology_epoch Int32)
    ⊛ (field StreamsGroupDescribeResponse_Member_process_id CompactString)
    ⊛ (field StreamsGroupDescribeResponse_Member_user_endpoint (OptionStruct
        StreamsGroupDescribeResponse_Endpoint_codec version))
    ⊛ (field StreamsGroupDescribeResponse_Member_client_tags (CompactArray (Struct
        StreamsGroupDescribeResponse_KeyValue_codec version)))
    ⊛ (field StreamsGroupDescribeResponse_Member_task_offsets (CompactArray (Struct
        StreamsGroupDescribeResponse_TaskOffset_codec version)))
    ⊛ (field StreamsGroupDescribeResponse_Member_task_end_offsets (CompactArray (Struct
        StreamsGroupDescribeResponse_TaskOffset_codec version)))
    ⊛ (field StreamsGroupDescribeResponse_Member_assignment (Struct
        StreamsGroupDescribeResponse_Assignment_codec version))
    ⊛ (field StreamsGroupDescribeResponse_Member_target_assignment (Struct
        StreamsGroupDescribeResponse_Assignment_codec version))
    ⊛ (field StreamsGroupDescribeResponse_Member_is_classic Boolean)
    ⊛ unknown_tags true StreamsGroupDescribeResponse_Member_unknown_tagged_fields).

Definition StreamsGroupDescribeResponse_Member_valid (version : Z) (x :
    StreamsGroupDescribeResponse_Member) : Prop :=
  utf8 (StreamsGroupDescribeResponse_Member_member_id x) ∧
  in_signed 32 (StreamsGroupDescribeResponse_Member_member_epoch x) ∧
  opt_all utf8 (StreamsGroupDescribeResponse_Member_instance_id x) ∧
  opt_all utf8 (StreamsGroupDescribeResponse_Member_rack_id x) ∧
  utf8 (StreamsGroupDescribeResponse_Member_client_id x) ∧
  utf8 (StreamsGroupDescribeResponse_Member_client_host x) ∧
  in_signed 32 (StreamsGroupDescribeResponse_Member_topology_epoch x) ∧
  utf8 (StreamsGroupDescribeResponse_Member_process_id x) ∧
  opt_all (StreamsGroupDescribeResponse_Endpoint_valid version)
      (StreamsGroupDescribeResponse_Member_user_endpoint x) ∧
  Forall (StreamsGroupDescribeResponse_KeyValue_valid version)
      (StreamsGroupDescribeResponse_Member_client_tags x) ∧
  Forall (StreamsGroupDescribeResponse_TaskOffset_valid version)
      (StreamsGroupDescribeResponse_Member_task_offsets x) ∧
  Forall (StreamsGroupDescribeResponse_TaskOffset_valid version)
      (StreamsGroupDescribeResponse_Member_task_end_offsets x) ∧
  StreamsGroupDescribeResponse_Assignment_valid version (StreamsGroupDescribeResponse_Member_assignment x) ∧
  StreamsGroupDescribeResponse_Assignment_valid version
      (StreamsGroupDescribeResponse_Member_target_assignment x) ∧
  unknown_valid 0 (StreamsGroupDescribeResponse_Member_unknown_tagged_fields x).

#[global] Instance StreamsGroupDescribeResponse_Member_sound version : Sound
    (StreamsGroupDescribeResponse_Member_codec version) (StreamsGroupDescribeResponse_Member_valid version).
Proof. solve_message. Qed.

(* @ src/crates/kafka-protocol/src/messages/streams_group_describe_response.rs 168-219 DescribedGroup *)
Record StreamsGroupDescribeResponse_DescribedGroup : Type := mkStreamsGroupDescribeResponse_DescribedGroup {
  StreamsGroupDescribeResponse_DescribedGroup_error_code : Z;
  StreamsGroupDescribeResponse_DescribedGroup_error_message : option (list byte);
  StreamsGroupDescribeResponse_DescribedGroup_group_id : list byte;
  StreamsGroupDescribeResponse_DescribedGroup_group_state : list byte;
  StreamsGroupDescribeResponse_DescribedGroup_group_epoch : Z;
  StreamsGroupDescribeResponse_DescribedGroup_assignment_epoch : Z;
  StreamsGroupDescribeResponse_DescribedGroup_topology : option StreamsGroupDescribeResponse_Topology;
  StreamsGroupDescribeResponse_DescribedGroup_members : list StreamsGroupDescribeResponse_Member;
  StreamsGroupDescribeResponse_DescribedGroup_authorized_operations : Z;
  StreamsGroupDescribeResponse_DescribedGroup_unknown_tagged_fields : TaggedFields
}.

(* @ src/crates/kafka-protocol/src/messages/streams_group_describe_response.rs 405-420 DescribedGroup::default *)
Definition StreamsGroupDescribeResponse_DescribedGroup_default :
    StreamsGroupDescribeResponse_DescribedGroup := {|
  StreamsGroupDescribeResponse_DescribedGroup_error_code := 0;
  StreamsGroupDescribeResponse_DescribedGroup_error_message := None;
  StreamsGroupDescribeResponse_DescribedGroup_group_id := [];
  StreamsGroupDescribeResponse_DescribedGroup_group_state := [];
  StreamsGroupDescribeResponse_DescribedGroup_group_epoch := 0;
  StreamsGroupDescribeResponse_DescribedGroup_assignment_epoch := 0;
  StreamsGroupDescribeResponse_DescribedGroup_topology := None;
  StreamsGroupDescribeResponse_DescribedGroup_members := [];
  StreamsGroupDescribeResponse_DescribedGroup_authorized_operations := -2147483648;
  StreamsGroupDescribeResponse_DescribedGroup_unknown_tagged_fields := ∅
|}.

(* @ src/crates/kafka-protocol/src/messages/streams_group_describe_response.rs 315-403 DescribedGroup::encode, compute_size, decode *)
Definition StreamsGroupDescribeResponse_DescribedGroup_codec (version : Z) : Codec
    StreamsGroupDescribeResponse_DescribedGroup :=
  message 0 0 version (build mkStreamsGroupDescribeResponse_DescribedGroup
    ⊛ (field StreamsGroupDescribeResponse_DescribedGroup_error_code Int16)
    ⊛ (field StreamsGroupDescribeResponse_DescribedGroup_error_message NullableCompactString)
    ⊛ (field StreamsGroupDescribeResponse_DescribedGroup_group_id CompactString)
    ⊛ (field StreamsGroupDescribeResponse_DescribedGroup_group_state CompactString)
    ⊛ (field StreamsGroupDescribeResponse_DescribedGroup_group_epoch Int32)
    ⊛ (field StreamsGroupDescribeResponse_DescribedGroup_assignment_epoch Int32)
    ⊛ (field StreamsGroupDescribeResponse_DescribedGroup_topology (OptionStruct
        StreamsGroupDescribeResponse_Topology_codec version))
    ⊛ (field StreamsGroupDescribeResponse_DescribedGroup_members (CompactArray (Struct
        StreamsGroupDescribeResponse_Member_codec version)))
    ⊛ (field StreamsGroupDescribeResponse_DescribedGroup_authorized_operations Int32)
    ⊛ unknown_tags true StreamsGroupDescribeResponse_DescribedGroup_unknown_tagged_fields).

Definition StreamsGroupDescribeResponse_DescribedGroup_valid (version : Z) (x :
    StreamsGroupDescribeResponse_DescribedGroup) : Prop :=
  in_signed 16 (StreamsGroupDescribeResponse_DescribedGroup_error_code x) ∧
  opt_all utf8 (StreamsGroupDescribeResponse_DescribedGroup_error_message x) ∧
  utf8 (StreamsGroupDescribeResponse_DescribedGroup_group_id x) ∧
  utf8 (StreamsGroupDescribeResponse_DescribedGroup_group_state x) ∧
  in_signed 32 (StreamsGroupDescribeResponse_DescribedGroup_group_epoch x) ∧
  in_signed 32 (StreamsGroupDescribeResponse_DescribedGroup_assignment_epoch x) ∧
  opt_all (StreamsGroupDescribeResponse_Topology_valid version)
      (StreamsGroupDescribeResponse_DescribedGroup_topology x) ∧
  Forall (StreamsGroupDescribeResponse_Member_valid version)
      (StreamsGroupDescribeResponse_DescribedGroup_members x) ∧
  in_signed 32 (StreamsGroupDescribeResponse_DescribedGroup_authorized_operations x) ∧
  unknown_valid 0 (StreamsGroupDescribeResponse_DescribedGroup_unknown_tagged_fields x).

#[global] Instance StreamsGroupDescribeResponse_DescribedGroup_sound version : Sound
    (StreamsGroupDescribeResponse_DescribedGroup_codec version)
    (StreamsGroupDescribeResponse_DescribedGroup_valid version).
Proof. solve_message. Qed.

(* @ src/crates/kafka-protocol/src/messages/streams_group_describe_response.rs 1055-1071 StreamsGroupDescribeResponse *)
Record StreamsGroupDescribeResponse : Type := mkStreamsGroupDescribeResponse {
  StreamsGroupDescribeResponse_throttle_time_ms : Z;
  StreamsGroupDescribeResponse_groups : list StreamsGroupDescribeResponse_DescribedGroup;
  StreamsGroupDescribeResponse_unknown_tagged_fields : TaggedFields
}.

(* @ src/crates/kafka-protocol/src/messages/streams_group_describe_response.rs 1166-1174 StreamsGroupDescribeResponse::default *)
Definition StreamsGroupDescribeResponse_default : StreamsGroupDescribeResponse := {|
  StreamsGroupDescribeResponse_throttle_time_ms := 0;
  StreamsGroupDescribeResponse_groups := [];
  StreamsGroupDescribeResponse_unknown_tagged_fields := ∅
|}.

(* @ src/crates/kafka-protocol/src/messages/streams_group_describe_response.rs 1104-1164 StreamsGroupDescribeResponse::encode, compute_size, decode *)
Definition StreamsGroupDescribeResponse_codec (version : Z) : Codec StreamsGroupDescribeResponse :=
  message 0 0 version (build mkStreamsGroupDescribeResponse
    ⊛ (field StreamsGroupDescribeResponse_throttle_time_ms Int32)
    ⊛ (field StreamsGroupDescribeResponse_groups (CompactArray (Struct
        StreamsGroupDescribeResponse_DescribedGroup_codec version)))
    ⊛ unknown_tags true StreamsGroupDescribeResponse_unknown_tagged_fields).

Definition StreamsGroupDescribeResponse_valid (version : Z) (x : StreamsGroupDescribeResponse) : Prop :=
  in_signed 32 (StreamsGroupDescribeResponse_throttle_time_ms x) ∧
  Forall (StreamsGroupDescribeResponse_DescribedGroup_valid version) (StreamsGroupDescribeResponse_groups
      x) ∧
  unknown_valid 0 (StreamsGroupDescribeResponse_unknown_tagged_fields x).

#[global] Instance StreamsGroupDescribeResponse_sound version : Sound (StreamsGroupDescribeResponse_codec
    version) (StreamsGroupDescribeResponse_valid version).
Proof. solve_message. Qed.

(* @ src/crates/kafka-protocol/src/messages/streams_group_describe_response.rs 1933-1937 StreamsGroupDescribeResponse::header_version *)
Definition StreamsGroupDescribeResponse_header_version (version : Z) : Z := 1.

(* @ src/crates/kafka-protocol/src/messages/streams_group_describe_response.rs 1176-1179 StreamsGroupDescribeResponse::VERSIONS *)
Definition StreamsGroupDescribeResponse_VERSIONS : Z * Z := (0, 0).

(** ** [streams_group_heartbeat_request] *)

(* @ src/crates/kafka-protocol/src/messages/streams_group_heartbeat_request.rs 20-41 CopartitionGroup *)
Record CopartitionGroup : Type := mkCopartitionGroup {
  CopartitionGroup_source_topics : list Z;
  CopartitionGroup_source_topic_regex : list Z;
  CopartitionGroup_repartition_source_topics : list Z;
  CopartitionGroup_unknown_tagged_fields : TaggedFields
}.

(* @ src/crates/kafka-protocol/src/messages/streams_group_heartbeat_request.rs 150-159 CopartitionGroup::default *)
Definition CopartitionGroup_default : CopartitionGroup := {|
  CopartitionGroup_source_topics := [];
  CopartitionGroup_source_topic_regex := [];
  CopartitionGroup_repartition_source_topics := [];
  CopartitionGroup_unknown_tagged_fields := ∅
|}.

(* @ src/crates/kafka-protocol/src/messages/streams_group_heartbeat_request.rs 83-148 CopartitionGroup::encode, compute_size, decode *)
Definition CopartitionGroup_codec (version : Z) : Codec CopartitionGroup :=
  message 0 0 version (build mkCopartitionGroup
    ⊛ (field CopartitionGroup_source_topics (CompactArray Int16))
    ⊛ (field CopartitionGroup_source_topic_regex (CompactArray Int16))
    ⊛ (field CopartitionGroup_repartition_source_topics (CompactArray Int16))
    ⊛ unknown_tags true CopartitionGroup_unknown_tagged_fields).

Definition CopartitionGroup_valid (version : Z) (x : CopartitionGroup) : Prop :=
  Forall (in_signed 16) (CopartitionGroup_source_topics x) ∧
  Forall (in_signed 16) (CopartitionGroup_source_topic_regex x) ∧
  Forall (in_signed 16) (CopartitionGroup_repartition_source_topics x) ∧
  unknown_valid 0 (CopartitionGroup_unknown_tagged_fields x).

#[global] Instance CopartitionGroup_sound version : Sound (CopartitionGroup_codec version)
    (CopartitionGroup_valid version).
Proof. solve_message. Qed.

(* @ src/crates/kafka-protocol/src/messages/streams_group_heartbeat_request.rs 166-182 Endpoint *)
Record StreamsGroupHeartbeatRequest_Endpoint : Type := mkStreamsGroupHeartbeatRequest_Endpoint {
  StreamsGroupHeartbeatRequest_Endpoint_host : list byte;
  StreamsGroupHeartbeatRequest_Endpoint_port : Z;
  StreamsGroupHeartbeatRequest_Endpoint_unknown_tagged_fields : TaggedFields
}.

(* @ src/crates/kafka-protocol/src/messages/streams_group_heartbeat_request.rs 277-285 Endpoint::default *)
Definition StreamsGroupHeartbeatRequest_Endpoint_default : StreamsGroupHeartbeatRequest_Endpoint := {|
  StreamsGroupHeartbeatRequest_Endpoint_host := [];
  StreamsGroupHeartbeatRequest_Endpoint_port := 0;
  StreamsGroupHeartbeatRequest_Endpoint_unknown_tagged_fields := ∅
|}.

(* @ src/crates/kafka-protocol/src/messages/streams_group_heartbeat_request.rs 215-275 Endpoint::encode, compute_size, decode *)
Definition StreamsGroupHeartbeatRequest_Endpoint_codec (version : Z) : Codec
    StreamsGroupHeartbeatRequest_Endpoint :=
  message 0 0 version (build mkStreamsGroupHeartbeatRequest_Endpoint
    ⊛ (field StreamsGroupHeartbeatRequest_Endpoint_host CompactString)
    ⊛ (field StreamsGroupHeartbeatRequest_Endpoint_port UInt16)
    ⊛ unknown_tags true StreamsGroupHeartbeatRequest_Endpoint_unknown_tagged_fields).

Definition StreamsGroupHeartbeatRequest_Endpoint_valid (version : Z) (x :
    StreamsGroupHeartbeatRequest_Endpoint) : Prop :=
  utf8 (StreamsGroupHeartbeatRequest_Endpoint_host x) ∧
  in_unsigned 16 (StreamsGroupHeartbeatRequest_Endpoint_port x) ∧
  unknown_valid 0 (StreamsGroupHeartbeatRequest_Endpoint_unknown_tagged_fields x).

#[global] Instance StreamsGroupHeartbeatRequest_Endpoint_sound version : Sound
    (StreamsGroupHeartbeatRequest_Endpoint_codec version) (StreamsGroupHeartbeatRequest_Endpoint_valid
    version).
Proof. solve_message. Qed.

(* @ src/crates/kafka-protocol/src/messages/streams_group_heartbeat_request.rs 292-308 KeyValue *)
Record StreamsGroupHeartbeatRequest_KeyValue : Type := mkStreamsGroupHeartbeatRequest_KeyValue {
  StreamsGroupHeartbeatRequest_KeyValue_key : list byte;
  StreamsGroupHeartbeatRequest_KeyValue_value : list byte;
  StreamsGroupHeartbeatRequest_KeyValue_unknown_tagged_fields : TaggedFields
}.

(* @ src/crates/kafka-protocol/src/messages/streams_group_heartbeat_request.rs 403-411 KeyValue::default *)
Definition StreamsGroupHeartbeatRequest_KeyValue_default : StreamsGroupHeartbeatRequest_KeyValue := {|
  StreamsGroupHeartbeatRequest_KeyValue_key := [];
  StreamsGroupHeartbeatRequest_KeyValue_value := [];
  StreamsGroupHeartbeatRequest_KeyValue_unknown_tagged_fields := ∅
|}.

(* @ src/crates/kafka-protocol/src/messages/streams_group_heartbeat_request.rs 341-401 KeyValue::encode, compute_size, decode *)
Definition StreamsGroupHeartbeatRequest_KeyValue_codec (version : Z) : Codec
    StreamsGroupHeartbeatRequest_KeyValue :=
  message 0 0 version (build mkStreamsGroupHeartbeatRequest_KeyValue
    ⊛ (field StreamsGroupHeartbeatRequest_KeyValue_key CompactString)
    ⊛ (field StreamsGroupHeartbeatRequest_KeyValue_value CompactString)
    ⊛ unknown_tags true StreamsGroupHeartbeatRequest_KeyValue_unknown_tagged_fields).

Definition StreamsGroupHeartbeatRequest_KeyValue_valid (version : Z) (x :
    StreamsGroupHeartbeatRequest_KeyValue) : Prop :=
  utf8 (StreamsGroupHeartbeatRequest_KeyValue_key x) ∧
  utf8 (StreamsGroupHeartbeatRequest_KeyValue_value x) ∧
  unknown_valid 0 (StreamsGroupHeartbeatRequest_KeyValue_unknown_tagged_fields x).

#[global] Instance StreamsGroupHeartbeatRequest_KeyValue_sound version : Sound
    (StreamsGroupHeartbeatRequest_KeyValue_codec version) (StreamsGroupHeartbeatRequest_KeyValue_valid
    version).
Proof. solve_message. Qed.

(* @ src/crates/kafka-protocol/src/messages/streams_group_heartbeat_request.rs 1335-1361 TopicInfo *)
Record StreamsGroupHeartbeatRequest_TopicInfo : Type := mkStreamsGroupHeartbeatRequest_TopicInfo {
  StreamsGroupHeartbeatRequest_TopicInfo_name : list byte;
  StreamsGroupHeartbeatRequest_TopicInfo_partitions : Z;
  StreamsGroupHeartbeatRequest_TopicInfo_replication_factor : Z;
  StreamsGroupHeartbeatRequest_TopicInfo_topic_configs : list StreamsGroupHeartbeatRequest_KeyValue;
  StreamsGroupHeartbeatRequest_TopicInfo_unknown_tagged_fields : TaggedFields
}.

(* @ src/crates/kafka-protocol/src/messages/streams_group_heartbeat_request.rs 1483-1493 TopicInfo::default *)
Definition StreamsGroupHeartbeatRequest_TopicInfo_default : StreamsGroupHeartbeatRequest_TopicInfo := {|
  StreamsGroupHeartbeatRequest_TopicInfo_name := [];
  StreamsGroupHeartbeatRequest_TopicInfo_partitions := 0;
  StreamsGroupHeartbeatRequest_TopicInfo_replication_factor := 0;
  StreamsGroupHeartbeatRequest_TopicInfo_topic_configs := [];
  StreamsGroupHeartbeatRequest_TopicInfo_unknown_tagged_fields := ∅
|}.

(* @ src/crates/kafka-protocol/src/messages/streams_group_heartbeat_request.rs 1412-1481 TopicInfo::encode, compute_size, decode *)
Definition StreamsGroupHeartbeatRequest_TopicInfo_codec (version : Z) : Codec
    StreamsGroupHeartbeatRequest_TopicInfo :=
  message 0 0 version (build mkStreamsGroupHeartbeatRequest_TopicInfo
    ⊛ (field StreamsGroupHeartbeatRequest_TopicInfo_name CompactString)
    ⊛ (field StreamsGroupHeartbeatRequest_TopicInfo_partitions Int32)
    ⊛ (field StreamsGroupHeartbeatRequest_TopicInfo_replication_factor Int16)
    ⊛ (field StreamsGroupHeartbeatRequest_TopicInfo_topic_configs (CompactArray (Struct
        StreamsGroupHeartbeatRequest_KeyValue_codec version)))
    ⊛ unknown_tags true StreamsGroupHeartbeatRequest_TopicInfo_unknown_tagged_fields).

Definition StreamsGroupHeartbeatRequest_TopicInfo_valid (version : Z) (x :
    StreamsGroupHeartbeatRequest_TopicInfo) : Prop :=
  utf8 (StreamsGroupHeartbeatRequest_TopicInfo_name x) ∧
  in_signed 32 (StreamsGroupHeartbeatRequest_TopicInfo_partitions x) ∧
  in_signed 16 (StreamsGroupHeartbeatRequest_TopicInfo_replication_factor x) ∧
  Forall (StreamsGroupHeartbeatRequest_KeyValue_valid version)
      (StreamsGroupHeartbeatRequest_TopicInfo_topic_configs x) ∧
  unknown_valid 0 (StreamsGroupHeartbeatRequest_TopicInfo_unknown_tagged_fields x).

#[global] Instance StreamsGroupHeartbeatRequest_TopicInfo_sound version : Sound
    (StreamsGroupHeartbeatRequest_TopicInfo_codec version) (StreamsGroupHeartbeatRequest_TopicInfo_valid
    version).
Proof. solve_message. Qed.

(* @ src/crates/kafka-protocol/src/messages/streams_group_heartbeat_request.rs 835-876 Subtopology *)
Record StreamsGroupHeartbeatRequest_Subtopology : Type := mkStreamsGroupHeartbeatRequest_Subtopology {
  StreamsGroupHeartbeatRequest_Subtopology_subtopology_id : list byte;
  StreamsGroupHeartbeatRequest_Subtopology_source_topics : list (list byte);
  StreamsGroupHeartbeatRequest_Subtopology_source_topic_regex : list (list byte);
  StreamsGroupHeartbeatRequest_Subtopology_state_changelog_topics : list
      StreamsGroupHeartbeatRequest_TopicInfo;
  StreamsGroupHeartbeatRequest_Subtopology_repartition_sink_topics : list (list byte);
  StreamsGroupHeartbeatRequest_Subtopology_repartition_source_topics : list
      StreamsGroupHeartbeatRequest_TopicInfo;
  StreamsGroupHeartbeatRequest_Subtopology_copartition_groups : list CopartitionGroup;
  StreamsGroupHeartbeatRequest_Subtopology_unknown_tagged_fields : TaggedFields
}.

(* @ src/crates/kafka-protocol/src/messages/streams_group_heartbeat_request.rs 1044-1057 Subtopology::default *)
Definition StreamsGroupHeartbeatRequest_Subtopology_default : StreamsGroupHeartbeatRequest_Subtopology := {|
  StreamsGroupHeartbeatRequest_Subtopology_subtopology_id := [];
  StreamsGroupHeartbeatRequest_Subtopology_source_topics := [];
  StreamsGroupHeartbeatRequest_Subtopology_source_topic_regex := [];
  StreamsGroupHeartbeatRequest_Subtopology_state_changelog_topics := [];
  StreamsGroupHeartbeatRequest_Subtopology_repartition_sink_topics := [];
  StreamsGroupHeartbeatRequest_Subtopology_repartition_source_topics := [];
  StreamsGroupHeartbeatRequest_Subtopology_copartition_groups := [];
  StreamsGroupHeartbeatRequest_Subtopology_unknown_tagged_fields := ∅
|}.

(* @ src/crates/kafka-protocol/src/messages/streams_group_heartbeat_request.rs 954-1042 Subtopology::encode, compute_size, decode *)
Definition StreamsGroupHeartbeatRequest_Subtopology_codec (version : Z) : Codec
    StreamsGroupHeartbeatRequest_Subtopology :=
  message 0 0 version (build mkStreamsGroupHeartbeatRequest_Subtopology
    ⊛ (field StreamsGroupHeartbeatRequest_Subtopology_subtopology_id CompactString)
    ⊛ (field StreamsGroupHeartbeatRequest_Subtopology_source_topics (CompactArray CompactString))
    ⊛ (field StreamsGroupHeartbeatRequest_Subtopology_source_topic_regex (CompactArray CompactString))
    ⊛ (field StreamsGroupHeartbeatRequest_Subtopology_state_changelog_topics (CompactArray (Struct
        StreamsGroupHeartbeatRequest_TopicInfo_codec version)))
    ⊛ (field StreamsGroupHeartbeatRequest_Subtopology_repartition_sink_topics (CompactArray CompactString))
    ⊛ (field StreamsGroupHeartbeatRequest_Subtopology_repartition_source_topics (CompactArray (Struct
        StreamsGroupHeartbeatRequest_TopicInfo_codec version)))
    ⊛ (field StreamsGroupHeartbeatRequest_Subtopology_copartition_groups (CompactArray (Struct
        CopartitionGroup_codec version)))
    ⊛ unknown_tags true StreamsGroupHeartbeatRequest_Subtopology_unknown_tagged_fields).

Definition StreamsGroupHeartbeatRequest_Subtopology_valid (version : Z) (x :
    StreamsGroupHeartbeatRequest_Subtopology) : Prop :=
  utf8 (StreamsGroupHeartbeatRequest_Subtopology_subtopology_id x) ∧
  Forall utf8 (StreamsGroupHeartbeatRequest_Subtopology_source_topics x) ∧
  Forall utf8 (StreamsGroupHeartbeatRequest_Subtopology_source_topic_regex x) ∧
  Forall (StreamsGroupHeartbeatRequest_TopicInfo_valid version)
      (StreamsGroupHeartbeatRequest_Subtopology_state_changelog_topics x) ∧
  Forall utf8 (StreamsGroupHeartbeatRequest_Subtopology_repartition_sink_topics x) ∧
  Forall (StreamsGroupHeartbeatRequest_TopicInfo_valid version)
      (StreamsGroupHeartbeatRequest_Subtopology_repartition_source_topics x) ∧
  Forall (CopartitionGroup_valid version) (StreamsGroupHeartbeatRequest_Subtopology_copartition_groups x) ∧
  unknown_valid 0 (StreamsGroupHeartbeatRequest_Subtopology_unknown_tagged_fields x).

#[global] Instance StreamsGroupHeartbeatRequest_Subtopology_sound version : Sound
    (StreamsGroupHeartbeatRequest_Subtopology_codec version)
    (StreamsGroupHeartbeatRequest_Subtopology_valid version).
Proof. solve_message. Qed.

(* @ src/crates/kafka-protocol/src/messages/streams_group_heartbeat_request.rs 1500-1516 Topology *)
Record StreamsGroupHeartbeatRequest_Topology : Type := mkStreamsGroupHeartbeatRequest_Topology {
  StreamsGroupHeartbeatRequest_Topology_epoch : Z;
  StreamsGroupHeartbeatRequest_Topology_subtopologies : list StreamsGroupHeartbeatRequest_Subtopology;
  StreamsGroupHeartbeatRequest_Topology_unknown_tagged_fields : TaggedFields
}.

(* @ src/crates/kafka-protocol/src/messages/streams_group_heartbeat_request.rs 1612-1620 Topology::default *)
Definition StreamsGroupHeartbeatRequest_Topology_default : StreamsGroupHeartbeatRequest_Topology := {|
  StreamsGroupHeartbeatRequest_Topology_epoch := 0;
  StreamsGroupHeartbeatRequest_Topology_subtopologies := [];
  StreamsGroupHeartbeatRequest_Topology_unknown_tagged_fields := ∅
|}.

(* @ src/crates/kafka-protocol/src/messages/streams_group_heartbeat_request.rs 1549-1610 Topology::encode, compute_size, decode *)
Definition StreamsGroupHeartbeatRequest_Topology_codec (version : Z) : Codec
    StreamsGroupHeartbeatRequest_Topology :=
  message 0 0 version (build mkStreamsGroupHeartbeatRequest_Topology
    ⊛ (field StreamsGroupHeartbeatRequest_Topology_epoch Int32)
    ⊛ (field StreamsGroupHeartbeatRequest_Topology_subtopologies (CompactArray (Struct
        StreamsGroupHeartbeatRequest_Subtopology_codec version)))
    ⊛ unknown_tags true StreamsGroupHeartbeatRequest_Topology_unknown_tagged_fields).

Definition StreamsGroupHeartbeatRequest_Topology_valid (version : Z) (x :
    StreamsGroupHeartbeatRequest_Topology) : Prop :=
  in_signed 32 (StreamsGroupHeartbeatRequest_Topology_epoch x) ∧
  Forall (StreamsGroupHeartbeatRequest_Subtopology_valid version)
      (StreamsGroupHeartbeatRequest_Topology_subtopologies x) ∧
  unknown_valid 0 (StreamsGroupHeartbeatRequest_Topology_unknown_tagged_fields x).

#[global] Instance StreamsGroupHeartbeatRequest_Topology_sound version : Sound
    (StreamsGroupHeartbeatRequest_Topology_codec version) (StreamsGroupHeartbeatRequest_Topology_valid
    version).
Proof. solve_message. Qed.

(* @ src/crates/kafka-protocol/src/messages/streams_group_heartbeat_request.rs 1064-1080 TaskIds *)
Record StreamsGroupHeartbeatRequest_TaskIds : Type := mkStreamsGroupHeartbeatRequest_TaskIds {
  StreamsGroupHeartbeatRequest_TaskIds_subtopology_id : list byte;
  StreamsGroupHeartbeatRequest_TaskIds_partitions : list Z;
  StreamsGroupHeartbeatRequest_TaskIds_unknown_tagged_fields : TaggedFields
}.

(* @ src/crates/kafka-protocol/src/messages/streams_group_heartbeat_request.rs 1175-1183 TaskIds::default *)
Definition StreamsGroupHeartbeatRequest_TaskIds_default : StreamsGroupHeartbeatRequest_TaskIds := {|
  StreamsGroupHeartbeatRequest_TaskIds_subtopology_id := [];
  StreamsGroupHeartbeatRequest_TaskIds_partitions := [];
  StreamsGroupHeartbeatRequest_TaskIds_unknown_tagged_fields := ∅
|}.

(* @ src/crates/kafka-protocol/src/messages/streams_group_heartbeat_request.rs 1113-1173 TaskIds::encode, compute_size, decode *)
Definition StreamsGroupHeartbeatRequest_TaskIds_codec (version : Z) : Codec
    StreamsGroupHeartbeatRequest_TaskIds :=
  message 0 0 version (build mkStreamsGroupHeartbeatRequest_TaskIds
    ⊛ (field StreamsGroupHeartbeatRequest_TaskIds_subtopology_id CompactString)
    ⊛ (field StreamsGroupHeartbeatRequest_TaskIds_partitions (CompactArray Int32))
    ⊛ unknown_tags true StreamsGroupHeartbeatRequest_TaskIds_unknown_tagged_fields).

Definition StreamsGroupHeartbeatRequest_TaskIds_valid (version : Z) (x :
    StreamsGroupHeartbeatRequest_TaskIds) : Prop :=
  utf8 (StreamsGroupHeartbeatRequest_TaskIds_subtopology_id x) ∧
  Forall (in_signed 32) (StreamsGroupHeartbeatRequest_TaskIds_partitions x) ∧
  unknown_valid 0 (StreamsGroupHeartbeatRequest_TaskIds_unknown_tagged_fields x).

#[global] Instance StreamsGroupHeartbeatRequest_TaskIds_sound version : Sound
    (StreamsGroupHeartbeatRequest_TaskIds_codec version) (StreamsGroupHeartbeatRequest_TaskIds_valid
    version).
Proof. solve_message. Qed.

(* @ src/crates/kafka-protocol/src/messages/streams_group_heartbeat_request.rs 1190-1211 TaskOffset *)
Record StreamsGroupHeartbeatRequest_TaskOffset : Type := mkStreamsGroupHeartbeatRequest_TaskOffset {
  StreamsGroupHeartbeatRequest_TaskOffset_subtopology_id : list byte;
  StreamsGroupHeartbeatRequest_TaskOffset_partition : Z;
  StreamsGroupHeartbeatRequest_TaskOffset_offset : Z;
  StreamsGroupHeartbeatRequest_TaskOffset_unknown_tagged_fields : TaggedFields
}.

(* @ src/crates/kafka-protocol/src/messages/streams_group_heartbeat_request.rs 1319-1328 TaskOffset::default *)
Definition StreamsGroupHeartbeatRequest_TaskOffset_default : StreamsGroupHeartbeatRequest_TaskOffset := {|
  StreamsGroupHeartbeatRequest_TaskOffset_subtopology_id := [];
  StreamsGroupHeartbeatRequest_TaskOffset_partition := 0;
  StreamsGroupHeartbeatRequest_TaskOffset_offset := 0;
  StreamsGroupHeartbeatRequest_TaskOffset_unknown_tagged_fields := ∅
|}.

(* @ src/crates/kafka-protocol/src/messages/streams_group_heartbeat_request.rs 1253-1317 TaskOffset::encode, compute_size, decode *)
Definition StreamsGroupHeartbeatRequest_TaskOffset_codec (version : Z) : Codec
    StreamsGroupHeartbeatRequest_TaskOffset :=
  message 0 0 version (build mkStreamsGroupHeartbeatRequest_TaskOffset
    ⊛ (field StreamsGroupHeartbeatRequest_TaskOffset_subtopology_id CompactString)
    ⊛ (field StreamsGroupHeartbeatRequest_TaskOffset_partition Int32)
    ⊛ (field StreamsGroupHeartbeatRequest_TaskOffset_offset Int64)
    ⊛ unknown_tags true StreamsGroupHeartbeatRequest_TaskOffset_unknown_tagged_fields).

Definition StreamsGroupHeartbeatRequest_TaskOffset_valid (version : Z) (x :
    StreamsGroupHeartbeatRequest_TaskOffset) : Prop :=
  utf8 (StreamsGroupHeartbeatRequest_TaskOffset_subtopology_id x) ∧
  in_signed 32 (StreamsGroupHeartbeatRequest_TaskOffset_partition x) ∧
  in_signed 64 (StreamsGroupHeartbeatRequest_TaskOffset_offset x) ∧
  unknown_valid 0 (StreamsGroupHeartbeatRequest_TaskOffset_unknown_tagged_fields x).

#[global] Instance StreamsGroupHeartbeatRequest_TaskOffset_sound version : Sound
    (StreamsGroupHeartbeatRequest_TaskOffset_codec version) (StreamsGroupHeartbeatRequest_TaskOffset_valid
    version).
Proof. solve_message. Qed.

(* @ src/crates/kafka-protocol/src/messages/streams_group_heartbeat_request.rs 418-509 StreamsGroupHeartbeatRequest *)
Record StreamsGroupHeartbeatRequest : Type := mkStreamsGroupHeartbeatRequest {
  StreamsGroupHeartbeatRequest_group_id : list byte;
  StreamsGroupHeartbeatRequest_member_id : list byte;
  StreamsGroupHeartbeatRequest_member_epoch : Z;
  StreamsGroupHeartbeatRequest_endpoint_information_epoch : Z;
  StreamsGroupHeartbeatRequest_instance_id : option (list byte);
  StreamsGroupHeartbeatRequest_rack_id : option (list byte);
  StreamsGroupHeartbeatRequest_rebalance_timeout_ms : Z;
  StreamsGroupHeartbeatRequest_topology : option StreamsGroupHeartbeatRequest_Topology;
  StreamsGroupHeartbeatRequest_active_tasks : option (list StreamsGroupHeartbeatRequest_TaskIds);
  StreamsGroupHeartbeatRequest_standby_tasks : option (list StreamsGroupHeartbeatRequest_TaskIds);
  StreamsGroupHeartbeatRequest_warmup_tasks : option (list StreamsGroupHeartbeatRequest_TaskIds);
  StreamsGroupHeartbeatRequest_process_id : option (list byte);
  StreamsGroupHeartbeatRequest_user_endpoint : option StreamsGroupHeartbeatRequest_Endpoint;
  StreamsGroupHeartbeatRequest_client_tags : option (list StreamsGroupHeartbeatRequest_KeyValue);
  StreamsGroupHeartbeatRequest_task_offsets : option (list StreamsGroupHeartbeatRequest_TaskOffset);
  StreamsGroupHeartbeatRequest_task_end_offsets : option (list StreamsGroupHeartbeatRequest_TaskOffset);
  StreamsGroupHeartbeatRequest_shutdown_application : bool;
  StreamsGroupHeartbeatRequest_unknown_tagged_fields : TaggedFields
}.

(* @ src/crates/kafka-protocol/src/messages/streams_group_heartbeat_request.rs 805-828 StreamsGroupHeartbeatRequest::default *)
Definition StreamsGroupHeartbeatRequest_default : StreamsGroupHeartbeatRequest := {|
  StreamsGroupHeartbeatRequest_group_id := [];
  StreamsGroupHeartbeatRequest_member_id := [];
  StreamsGroupHeartbeatRequest_member_epoch := 0;
  StreamsGroupHeartbeatRequest_endpoint_information_epoch := 0;
  StreamsGroupHeartbeatRequest_instance_id := None;
  StreamsGroupHeartbeatRequest_rack_id := None;
  StreamsGroupHeartbeatRequest_rebalance_timeout_ms := -1;
  StreamsGroupHeartbeatRequest_topology := None;
  StreamsGroupHeartbeatRequest_active_tasks := None;
  StreamsGroupHeartbeatRequest_standby_tasks := None;
  StreamsGroupHeartbeatRequest_warmup_tasks := None;
  StreamsGroupHeartbeatRequest_process_id := None;
  StreamsGroupHeartbeatRequest_user_endpoint := None;
  StreamsGroupHeartbeatRequest_client_tags := None;
  StreamsGroupHeartbeatRequest_task_offsets := None;
  StreamsGroupHeartbeatRequest_task_end_offsets := None;
  StreamsGroupHeartbeatRequest_shutdown_application := false;
  StreamsGroupHeartbeatRequest_unknown_tagged_fields := ∅
|}.

(* @ src/crates/kafka-protocol/src/messages/streams_group_heartbeat_request.rs 677-803 StreamsGroupHeartbeatRequest::encode, compute_size, decode *)
Definition StreamsGroupHeartbeatRequest_codec (version : Z) : Codec StreamsGroupHeartbeatRequest :=
  message 0 0 version (build mkStreamsGroupHeartbeatRequest
    ⊛ (field StreamsGroupHeartbeatRequest_group_id CompactString)
    ⊛ (field StreamsGroupHeartbeatRequest_member_id CompactString)
    ⊛ (field StreamsGroupHeartbeatRequest_member_epoch Int32)
    ⊛ (field StreamsGroupHeartbeatRequest_endpoint_information_epoch Int32)
    ⊛ (field StreamsGroupHeartbeatRequest_instance_id NullableCompactString)
    ⊛ (field StreamsGroupHeartbeatRequest_rack_id NullableCompactString)
    ⊛ (field StreamsGroupHeartbeatRequest_rebalance_timeout_ms Int32)
    ⊛ (field StreamsGroupHeartbeatRequest_topology (OptionStruct
        StreamsGroupHeartbeatRequest_Topology_codec version))
    ⊛ (field StreamsGroupHeartbeatRequest_active_tasks (NullableCompactArray (Struct
        StreamsGroupHeartbeatRequest_TaskIds_codec version)))
    ⊛ (field StreamsGroupHeartbeatRequest_standby_tasks (NullableCompactArray (Struct
        StreamsGroupHeartbeatRequest_TaskIds_codec version)))
    ⊛ (field StreamsGroupHeartbeatRequest_warmup_tasks (NullableCompactArray (Struct
        StreamsGroupHeartbeatRequest_TaskIds_codec version)))
    ⊛ (field StreamsGroupHeartbeatRequest_process_id NullableCompactString)
    ⊛ (field StreamsGroupHeartbeatRequest_user_endpoint (OptionStruct
        StreamsGroupHeartbeatRequest_Endpoint_codec version))
    ⊛ (field StreamsGroupHeartbeatRequest_client_tags (NullableCompactArray (Struct
        StreamsGroupHeartbeatRequest_KeyValue_codec version)))
    ⊛ (field StreamsGroupHeartbeatRequest_task_offsets (NullableCompactArray (Struct
        StreamsGroupHeartbeatRequest_TaskOffset_codec version)))
    ⊛ (field StreamsGroupHeartbeatRequest_task_end_offsets (NullableCompactArray (Struct
        StreamsGroupHeartbeatRequest_TaskOffset_codec version)))
    ⊛ (field StreamsGroupHeartbeatRequest_shutdown_application Boolean)
    ⊛ unknown_tags true StreamsGroupHeartbeatRequest_unknown_tagged_fields).

Definition StreamsGroupHeartbeatRequest_valid (version : Z) (x : StreamsGroupHeartbeatRequest) : Prop :=
  utf8 (StreamsGroupHeartbeatRequest_group_id x) ∧
  utf8 (StreamsGroupHeartbeatRequest_member_id x) ∧
  in_signed 32 (StreamsGroupHeartbeatRequest_member_epoch x) ∧
  in_signed 32 (StreamsGroupHeartbeatRequest_endpoint_information_epoch x) ∧
  opt_all utf8 (StreamsGroupHeartbeatRequest_instance_id x) ∧
  opt_all utf8 (StreamsGroupHeartbeatRequest_rack_id x) ∧
  in_signed 32 (StreamsGroupHeartbeatRequest_rebalance_timeout_ms x) ∧
  opt_all (StreamsGroupHeartbeatRequest_Topology_valid version) (StreamsGroupHeartbeatRequest_topology x) ∧
  opt_all (Forall (StreamsGroupHeartbeatRequest_TaskIds_valid version))
      (StreamsGroupHeartbeatRequest_active_tasks x) ∧
  opt_all (Forall (StreamsGroupHeartbeatRequest_TaskIds_valid version))
      (StreamsGroupHeartbeatRequest_standby_tasks x) ∧
  opt_all (Forall (StreamsGroupHeartbeatRequest_TaskIds_valid version))
      (StreamsGroupHeartbeatRequest_warmup_tasks x) ∧
  opt_all utf8 (StreamsGroupHeartbeatRequest_process_id x) ∧
  opt_all (StreamsGroupHeartbeatRequest_Endpoint_valid version) (StreamsGroupHeartbeatRequest_user_endpoint
      x) ∧
  opt_all (Forall (StreamsGroupHeartbeatRequest_KeyValue_valid version))
      (StreamsGroupHeartbeatRequest_client_tags x) ∧
  opt_all (Forall (StreamsGroupHeartbeatRequest_TaskOffset_valid version))
      (StreamsGroupHeartbeatRequest_task_offsets x) ∧
  opt_all (Forall (StreamsGroupHeartbeatRequest_TaskOffset_valid version))
      (StreamsGroupHeartbeatRequest_task_end_offsets x) ∧
  unknown_valid 0 (StreamsGroupHeartbeatRequest_unknown_tagged_fields x).

#[global] Instance StreamsGroupHeartbeatRequest_sound version : Sound (StreamsGroupHeartbeatRequest_codec
    version) (StreamsGroupHeartbeatRequest_valid version).
Proof. solve_message. Qed.

(* @ src/crates/kafka-protocol/src/messages/streams_group_heartbeat_request.rs 1627-1631 StreamsGroupHeartbeatRequest::header_version *)
Definition StreamsGroupHeartbeatRequest_header_version (version : Z) : Z := 2.

(* @ src/crates/kafka-protocol/src/messages/streams_group_heartbeat_request.rs 830-833 StreamsGroupHeartbeatRequest::VERSIONS *)
Definition StreamsGroupHeartbeatRequest_VERSIONS : Z * Z := (0, 0).

(** ** [streams_group_heartbeat_response] *)

(* @ src/crates/kafka-protocol/src/messages/streams_group_heartbeat_response.rs 20-36 Endpoint *)
Record StreamsGroupHeartbeatResponse_Endpoint : Type := mkStreamsGroupHeartbeatResponse_Endpoint {
  StreamsGroupHeartbeatResponse_Endpoint_host : list byte;
  StreamsGroupHeartbeatResponse_Endpoint_port : Z;
  StreamsGroupHeartbeatResponse_Endpoint_unknown_tagged_fields : TaggedFields
}.

(* @ src/crates/kafka-protocol/src/messages/streams_group_heartbeat_response.rs 131-139 Endpoint::default *)
Definition StreamsGroupHeartbeatResponse_Endpoint_default : StreamsGroupHeartbeatResponse_Endpoint := {|
  StreamsGroupHeartbeatResponse_Endpoint_host := [];
  StreamsGroupHeartbeatResponse_Endpoint_port := 0;
  StreamsGroupHeartbeatResponse_Endpoint_unknown_tagged_fields := ∅
|}.

(* @ src/crates/kafka-protocol/src/messages/streams_group_heartbeat_response.rs 69-129 Endpoint::encode, compute_size, decode *)
Definition StreamsGroupHeartbeatResponse_Endpoint_codec (version : Z) : Codec
    StreamsGroupHeartbeatResponse_Endpoint :=
  message 0 0 version (build mkStreamsGroupHeartbeatResponse_Endpoint
    ⊛ (field StreamsGroupHeartbeatResponse_Endpoint_host CompactString)
    ⊛ (field StreamsGroupHeartbeatResponse_Endpoint_port UInt16)
    ⊛ unknown_tags true StreamsGroupHeartbeatResponse_Endpoint_unknown_tagged_fields).

Definition StreamsGroupHeartbeatResponse_Endpoint_valid (version : Z) (x :
    StreamsGroupHeartbeatResponse_Endpoint) : Prop :=
  utf8 (StreamsGroupHeartbeatResponse_Endpoint_host x) ∧
  in_unsigned 16 (StreamsGroupHeartbeatResponse_Endpoint_port x) ∧
  unknown_valid 0 (StreamsGroupHeartbeatResponse_Endpoint_unknown_tagged_fields x).

#[global] Instance StreamsGroupHeartbeatResponse_Endpoint_sound version : Sound
    (StreamsGroupHeartbeatResponse_Endpoint_codec version) (StreamsGroupHeartbeatResponse_Endpoint_valid
    version).
Proof. solve_message. Qed.

(* @ src/crates/kafka-protocol/src/messages/streams_group_heartbeat_response.rs 908-924 TopicPartition *)
Record StreamsGroupHeartbeatResponse_TopicPartition : Type :=
    mkStreamsGroupHeartbeatResponse_TopicPartition {
  StreamsGroupHeartbeatResponse_TopicPartition_topic : list byte;
  StreamsGroupHeartbeatResponse_TopicPartition_partitions : list Z;
  StreamsGroupHeartbeatResponse_TopicPartition_unknown_tagged_fields : TaggedFields
}.

(* @ src/crates/kafka-protocol/src/messages/streams_group_heartbeat_response.rs 1019-1027 TopicPartition::default *)
Definition StreamsGroupHeartbeatResponse_TopicPartition_default :
    StreamsGroupHeartbeatResponse_TopicPartition := {|
  StreamsGroupHeartbeatResponse_TopicPartition_topic := [];
  StreamsGroupHeartbeatResponse_TopicPartition_partitions := [];
  StreamsGroupHeartbeatResponse_TopicPartition_unknown_tagged_fields := ∅
|}.

(* @ src/crates/kafka-protocol/src/messages/streams_group_heartbeat_response.rs 957-1017 TopicPartition::encode, compute_size, decode *)
Definition StreamsGroupHeartbeatResponse_TopicPartition_codec (version : Z) : Codec
    StreamsGroupHeartbeatResponse_TopicPartition :=
  message 0 0 version (build mkStreamsGroupHeartbeatResponse_TopicPartition
    ⊛ (field StreamsGroupHeartbeatResponse_TopicPartition_topic CompactString)
    ⊛ (field StreamsGroupHeartbeatResponse_TopicPartition_partitions (CompactArray Int32))
    ⊛ unknown_tags true StreamsGroupHeartbeatResponse_TopicPartition_unknown_tagged_fields).

Definition StreamsGroupHeartbeatResponse_TopicPartition_valid (version : Z) (x :
    StreamsGroupHeartbeatResponse_TopicPartition) : Prop :=
  utf8 (StreamsGroupHeartbeatResponse_TopicPartition_topic x) ∧
  Forall (in_signed 32) (StreamsGroupHeartbeatResponse_TopicPartition_partitions x) ∧
  unknown_valid 0 (StreamsGroupHeartbeatResponse_TopicPartition_unknown_tagged_fields x).

#[global] Instance StreamsGroupHeartbeatResponse_TopicPartition_sound version : Sound
    (StreamsGroupHeartbeatResponse_TopicPartition_codec version)
    (StreamsGroupHeartbeatResponse_TopicPartition_valid version).
Proof. solve_message. Qed.

(* @ src/crates/kafka-protocol/src/messages/streams_group_heartbeat_response.rs 146-167 EndpointToPartitions *)
Record EndpointToPartitions : Type := mkEndpointToPartitions {
  EndpointToPartitions_user_endpoint : StreamsGroupHeartbeatResponse_Endpoint;
  EndpointToPartitions_active_partitions : list StreamsGroupHeartbeatResponse_TopicPartition;
  EndpointToPartitions_standby_partitions : list StreamsGroupHeartbeatResponse_TopicPartition;
  EndpointToPartitions_unknown_tagged_fields : TaggedFields
}.

(* @ src/crates/kafka-protocol/src/messages/streams_group_heartbeat_response.rs 277-286 EndpointToPartitions::default *)
Definition EndpointToPartitions_default : EndpointToPartitions := {|
  EndpointToPartitions_user_endpoint := StreamsGroupHeartbeatResponse_Endpoint_default;
  EndpointToPartitions_active_partitions := [];
  EndpointToPartitions_standby_partitions := [];
  EndpointToPartitions_unknown_tagged_fields := ∅
|}.

(* @ src/crates/kafka-protocol/src/messages/streams_group_heartbeat_response.rs 209-275 EndpointToPartitions::encode, compute_size, decode *)
Definition EndpointToPartitions_codec (version : Z) : Codec EndpointToPartitions :=
  message 0 0 version (build mkEndpointToPartitions
    ⊛ (field EndpointToPartitions_user_endpoint (Struct StreamsGroupHeartbeatResponse_Endpoint_codec
        version))
    ⊛ (field EndpointToPartitions_active_partitions (CompactArray (Struct
        StreamsGroupHeartbeatResponse_TopicPartition_codec version)))
    ⊛ (field EndpointToPartitions_standby_partitions (CompactArray (Struct
        StreamsGroupHeartbeatResponse_TopicPartition_codec version)))
    ⊛ unknown_tags true EndpointToPartitions_unknown_tagged_fields).

Definition EndpointToPartitions_valid (version : Z) (x : EndpointToPartitions) : Prop :=
  StreamsGroupHeartbeatResponse_Endpoint_valid version (EndpointToPartitions_user_endpoint x) ∧
  Forall (StreamsGroupHeartbeatResponse_TopicPartition_valid version)
      (EndpointToPartitions_active_partitions x) ∧
  Forall (StreamsGroupHeartbeatResponse_TopicPartition_valid version)
      (EndpointToPartitions_standby_partitions x) ∧
  unknown_valid 0 (EndpointToPartitions_unknown_tagged_fields x).

#[global] Instance EndpointToPartitions_sound version : Sound (EndpointToPartitions_codec version)
    (EndpointToPartitions_valid version).
Proof. solve_message. Qed.

(* @ src/crates/kafka-protocol/src/messages/streams_group_heartbeat_response.rs 293-309 Status *)
Record Status : Type := mkStatus {
  Status_status_code : Z;
  Status_status_detail : list byte;
  Status_unknown_tagged_fields : TaggedFields
}.

(* @ src/crates/kafka-protocol/src/messages/streams_group_heartbeat_response.rs 404-412 Status::default *)
Definition Status_default : Status := {|
  Status_status_code := 0;
  Status_status_detail := [];
  Status_unknown_tagged_fields := ∅
|}.

(* @ src/crates/kafka-protocol/src/messages/streams_group_heartbeat_response.rs 342-402 Status::encode, compute_size, decode *)
Definition Status_codec (version : Z) : Codec Status :=
  message 0 0 version (build mkStatus
    ⊛ (field Status_status_code Int8)
    ⊛ (field Status_status_detail CompactString)
    ⊛ unknown_tags true Status_unknown_tagged_fields).

Definition Status_valid (version : Z) (x : Status) : Prop :=
  in_signed 8 (Status_status_code x) ∧
  utf8 (Status_status_detail x) ∧
  unknown_valid 0 (Status_unknown_tagged_fields x).

#[global] Instance Status_sound version : Sound (Status_codec version) (Status_valid version).
Proof. solve_message. Qed.

(* @ src/crates/kafka-protocol/src/messages/streams_group_heartbeat_response.rs 782-798 TaskIds *)
Record StreamsGroupHeartbeatResponse_TaskIds : Type := mkStreamsGroupHeartbeatResponse_TaskIds {
  StreamsGroupHeartbeatResponse_TaskIds_subtopology_id : list byte;
  StreamsGroupHeartbeatResponse_TaskIds_partitions : list Z;
  StreamsGroupHeartbeatResponse_TaskIds_unknown_tagged_fields : TaggedFields
}.

(* @ src/crates/kafka-protocol/src/messages/streams_group_heartbeat_response.rs 893-901 TaskIds::default *)
Definition StreamsGroupHeartbeatResponse_TaskIds_default : StreamsGroupHeartbeatResponse_TaskIds := {|
  StreamsGroupHeartbeatResponse_TaskIds_subtopology_id := [];
  StreamsGroupHeartbeatResponse_TaskIds_partitions := [];
  StreamsGroupHeartbeatResponse_TaskIds_unknown_tagged_fields := ∅
|}.

(* @ src/crates/kafka-protocol/src/messages/streams_group_heartbeat_response.rs 831-891 TaskIds::encode, compute_size, decode *)
Definition StreamsGroupHeartbeatResponse_TaskIds_codec (version : Z) : Codec
    StreamsGroupHeartbeatResponse_TaskIds :=
  message 0 0 version (build mkStreamsGroupHeartbeatResponse_TaskIds
    ⊛ (field StreamsGroupHeartbeatResponse_TaskIds_subtopology_id CompactString)
    ⊛ (field StreamsGroupHeartbeatResponse_TaskIds_partitions (CompactArray Int32))
    ⊛ unknown_tags true StreamsGroupHeartbeatResponse_TaskIds_unknown_tagged_fields).

Definition StreamsGroupHeartbeatResponse_TaskIds_valid (version : Z) (x :
    StreamsGroupHeartbeatResponse_TaskIds) : Prop :=
  utf8 (StreamsGroupHeartbeatResponse_TaskIds_subtopology_id x) ∧
  Forall (in_signed 32) (StreamsGroupHeartbeatResponse_TaskIds_partitions x) ∧
  unknown_valid 0 (StreamsGroupHeartbeatResponse_TaskIds_unknown_tagged_fields x).

#[global] Instance StreamsGroupHeartbeatResponse_TaskIds_sound version : Sound
    (StreamsGroupHeartbeatResponse_TaskIds_codec version) (StreamsGroupHeartbeatResponse_TaskIds_valid
    version).
Proof. solve_message. Qed.

(* @ src/crates/kafka-protocol/src/messages/streams_group_heartbeat_response.rs 419-495 StreamsGroupHeartbeatResponse *)
Record StreamsGroupHeartbeatResponse : Type := mkStreamsGroupHeartbeatResponse {
  StreamsGroupHeartbeatResponse_throttle_time_ms : Z;
  StreamsGroupHeartbeatResponse_error_code : Z;
  StreamsGroupHeartbeatResponse_error_message : option (list byte);
  StreamsGroupHeartbeatResponse_member_id : list byte;
  StreamsGroupHeartbeatResponse_member_epoch : Z;
  StreamsGroupHeartbeatResponse_heartbeat_interval_ms : Z;
  StreamsGroupHeartbeatResponse_acceptable_recovery_lag : Z;
  StreamsGroupHeartbeatResponse_task_offset_interval_ms : Z;
  StreamsGroupHeartbeatResponse_status : option (list Status);
  StreamsGroupHeartbeatResponse_active_tasks : option (list StreamsGroupHeartbeatResponse_TaskIds);
  StreamsGroupHeartbeatResponse_standby_tasks : option (list StreamsGroupHeartbeatResponse_TaskIds);
  StreamsGroupHeartbeatResponse_warmup_tasks : option (list StreamsGroupHeartbeatResponse_TaskIds);
  StreamsGroupHeartbeatResponse_endpoint_information_epoch : Z;
  StreamsGroupHeartbeatResponse_partitions_by_user_endpoint : option (list EndpointToPartitions);
  StreamsGroupHeartbeatResponse_unknown_tagged_fields : TaggedFields
}.

(* @ src/crates/kafka-protocol/src/messages/streams_group_heartbeat_response.rs 755-775 StreamsGroupHeartbeatResponse::default *)
Definition StreamsGroupHeartbeatResponse_default : StreamsGroupHeartbeatResponse := {|
  StreamsGroupHeartbeatResponse_throttle_time_ms := 0;
  StreamsGroupHeartbeatResponse_error_code := 0;
  StreamsGroupHeartbeatResponse_error_message := None;
  StreamsGroupHeartbeatResponse_member_id := [];
  StreamsGroupHeartbeatResponse_member_epoch := 0;
  StreamsGroupHeartbeatResponse_heartbeat_interval_ms := 0;
  StreamsGroupHeartbeatResponse_acceptable_recovery_lag := 0;
  StreamsGroupHeartbeatResponse_task_offset_interval_ms := 0;
  StreamsGroupHeartbeatResponse_status := Some [];
  StreamsGroupHeartbeatResponse_active_tasks := None;
  StreamsGroupHeartbeatResponse_standby_tasks := None;
  StreamsGroupHeartbeatResponse_warmup_tasks := None;
  StreamsGroupHeartbeatResponse_endpoint_information_epoch := 0;
  StreamsGroupHeartbeatResponse_partitions_by_user_endpoint := None;
  StreamsGroupHeartbeatResponse_unknown_tagged_fields := ∅
|}.

(* @ src/crates/kafka-protocol/src/messages/streams_group_heartbeat_response.rs 639-753 StreamsGroupHeartbeatResponse::encode, compute_size, decode *)
Definition StreamsGroupHeartbeatResponse_codec (version : Z) : Codec StreamsGroupHeartbeatResponse :=
  message 0 0 version (build mkStreamsGroupHeartbeatResponse
    ⊛ (field StreamsGroupHeartbeatResponse_throttle_time_ms Int32)
    ⊛ (field StreamsGroupHeartbeatResponse_error_code Int16)
    ⊛ (field StreamsGroupHeartbeatResponse_error_message NullableCompactString)
    ⊛ (field StreamsGroupHeartbeatResponse_member_id CompactString)
    ⊛ (field StreamsGroupHeartbeatResponse_member_epoch Int32)
    ⊛ (field StreamsGroupHeartbeatResponse_heartbeat_interval_ms Int32)
    ⊛ (field StreamsGroupHeartbeatResponse_acceptable_recovery_lag Int32)
    ⊛ (field StreamsGroupHeartbeatResponse_task_offset_interval_ms Int32)
    ⊛ (field StreamsGroupHeartbeatResponse_status (NullableCompactArray (Struct Status_codec version)))
    ⊛ (field StreamsGroupHeartbeatResponse_active_tasks (NullableCompactArray (Struct
        StreamsGroupHeartbeatResponse_TaskIds_codec version)))
    ⊛ (field StreamsGroupHeartbeatResponse_standby_tasks (NullableCompactArray (Struct
        StreamsGroupHeartbeatResponse_TaskIds_codec version)))
    ⊛ (field StreamsGroupHeartbeatResponse_warmup_tasks (NullableCompactArray (Struct
        StreamsGroupHeartbeatResponse_TaskIds_codec version)))
    ⊛ (field StreamsGroupHeartbeatResponse_endpoint_information_epoch Int32)
    ⊛ (field StreamsGroupHeartbeatResponse_partitions_by_user_endpoint (NullableCompactArray (Struct
        EndpointToPartitions_codec version)))
    ⊛ unknown_tags true StreamsGroupHeartbeatResponse_unknown_tagged_fields).

Definition StreamsGroupHeartbeatResponse_valid (version : Z) (x : StreamsGroupHeartbeatResponse) : Prop :=
  in_signed 32 (StreamsGroupHeartbeatResponse_throttle_time_ms x) ∧
  in_signed 16 (StreamsGroupHeartbeatResponse_error_code x) ∧
  opt_all utf8 (StreamsGroupHeartbeatResponse_error_message x) ∧
  utf8 (StreamsGroupHeartbeatResponse_member_id x) ∧
  in_signed 32 (StreamsGroupHeartbeatResponse_member_epoch x) ∧
  in_signed 32 (StreamsGroupHeartbeatResponse_heartbeat_interval_ms x) ∧
  in_signed 32 (StreamsGroupHeartbeatResponse_acceptable_recovery_lag x) ∧
  in_signed 32 (StreamsGroupHeartbeatResponse_task_offset_interval_ms x) ∧
  opt_all (Forall (Status_valid version)) (StreamsGroupHeartbeatResponse_status x) ∧
  opt_all (Forall (StreamsGroupHeartbeatResponse_TaskIds_valid version))
      (StreamsGroupHeartbeatResponse_active_tasks x) ∧
  opt_all (Forall (StreamsGroupHeartbeatResponse_TaskIds_valid version))
      (StreamsGroupHeartbeatResponse_standby_tasks x) ∧
  opt_all (Forall (StreamsGroupHeartbeatResponse_TaskIds_valid version))
      (StreamsGroupHeartbeatResponse_warmup_tasks x) ∧
  in_signed 32 (StreamsGroupHeartbeatResponse_endpoint_information_epoch x) ∧
  opt_all (Forall (EndpointToPartitions_valid version))
      (StreamsGroupHeartbeatResponse_partitions_by_user_endpoint x) ∧
  unknown_valid 0 (StreamsGroupHeartbeatResponse_unknown_tagged_fields x).

#[global] Instance StreamsGroupHeartbeatResponse_sound version : Sound (StreamsGroupHeartbeatResponse_codec
    version) (StreamsGroupHeartbeatResponse_valid version).
Proof. solve_message. Qed.

(* @ src/crates/kafka-protocol/src/messages/streams_group_heartbeat_response.rs 1034-1038 StreamsGroupHeartbeatResponse::header_version *)
Definition StreamsGroupHeartbeatResponse_header_version (version : Z) : Z := 1.

(* @ src/crates/kafka-protocol/src/messages/streams_group_heartbeat_response.rs 777-780 StreamsGroupHeartbeatResponse::VERSIONS *)
Definition StreamsGroupHeartbeatResponse_VERSIONS : Z * Z := (0, 0).

(** ** [write_share_group_state_request] *)

(* @ src/crates/kafka-protocol/src/messages/write_share_group_state_request.rs 231-257 StateBatch *)
Record WriteShareGroupStateRequest_StateBatch : Type := mkWriteShareGroupStateRequest_StateBatch {
  WriteShareGroupStateRequest_StateBatch_first_offset : Z;
  WriteShareGroupStateRequest_StateBatch_last_offset : Z;
  WriteShareGroupStateRequest_StateBatch_delivery_state : Z;
  WriteShareGroupStateRequest_StateBatch_delivery_count : Z;
  WriteShareGroupStateRequest_StateBatch_unknown_tagged_fields : TaggedFields
}.

(* @ src/crates/kafka-protocol/src/messages/write_share_group_state_request.rs 378-388 StateBatch::default *)
Definition WriteShareGroupStateRequest_StateBatch_default : WriteShareGroupStateRequest_StateBatch := {|
  WriteShareGroupStateRequest_StateBatch_first_offset := 0;
  WriteShareGroupStateRequest_StateBatch_last_offset := 0;
  WriteShareGroupStateRequest_StateBatch_delivery_state := 0;
  WriteShareGroupStateRequest_StateBatch_delivery_count := 0;
  WriteShareGroupStateRequest_StateBatch_unknown_tagged_fields := ∅
|}.

(* @ src/crates/kafka-protocol/src/messages/write_share_group_state_request.rs 308-376 StateBatch::encode, compute_size, decode *)
Definition WriteShareGroupStateRequest_StateBatch_codec (version : Z) : Codec
    WriteShareGroupStateRequest_StateBatch :=
  message 0 1 version (build mkWriteShareGroupStateRequest_StateBatch
    ⊛ (field WriteShareGroupStateRequest_StateBatch_first_offset Int64)
    ⊛ (field WriteShareGroupStateRequest_StateBatch_last_offset Int64)
    ⊛ (field WriteShareGroupStateRequest_StateBatch_delivery_state Int8)
    ⊛ (field WriteShareGroupStateRequest_StateBatch_delivery_count Int16)
    ⊛ unknown_tags true WriteShareGroupStateRequest_StateBatch_unknown_tagged_fields).

Definition WriteShareGroupStateRequest_StateBatch_valid (version : Z) (x :
    WriteShareGroupStateRequest_StateBatch) : Prop :=
  in_signed 64 (WriteShareGroupStateRequest_StateBatch_first_offset x) ∧
  in_signed 64 (WriteShareGroupStateRequest_StateBatch_last_offset x) ∧
  in_signed 8 (WriteShareGroupStateRequest_StateBatch_delivery_state x) ∧
  in_signed 16 (WriteShareGroupStateRequest_StateBatch_delivery_count x) ∧
  unknown_valid 0 (WriteShareGroupStateRequest_StateBatch_unknown_tagged_fields x).

#[global] Instance WriteShareGroupStateRequest_StateBatch_sound version : Sound
    (WriteShareGroupStateRequest_StateBatch_codec version) (WriteShareGroupStateRequest_StateBatch_valid
    version).
Proof. solve_message. Qed.

(* @ src/crates/kafka-protocol/src/messages/write_share_group_state_request.rs 20-56 PartitionData *)
Record WriteShareGroupStateRequest_PartitionData : Type := mkWriteShareGroupStateRequest_PartitionData {
  WriteShareGroupStateRequest_PartitionData_partition : Z;
  WriteShareGroupStateRequest_PartitionData_state_epoch : Z;
  WriteShareGroupStateRequest_PartitionData_leader_epoch : Z;
  WriteShareGroupStateRequest_PartitionData_start_offset : Z;
  WriteShareGroupStateRequest_PartitionData_delivery_complete_count : Z;
  WriteShareGroupStateRequest_PartitionData_state_batches : list WriteShareGroupStateRequest_StateBatch;
  WriteShareGroupStateRequest_PartitionData_unknown_tagged_fields : TaggedFields
}.

(* @ src/crates/kafka-protocol/src/messages/write_share_group_state_request.rs 212-224 PartitionData::default *)
Definition WriteShareGroupStateRequest_PartitionData_default : WriteShareGroupStateRequest_PartitionData :=
    {|
  WriteShareGroupStateRequest_PartitionData_partition := 0;
  WriteShareGroupStateRequest_PartitionData_state_epoch := 0;
  WriteShareGroupStateRequest_PartitionData_leader_epoch := 0;
  WriteShareGroupStateRequest_PartitionData_start_offset := 0;
  WriteShareGroupStateRequest_PartitionData_delivery_complete_count := -1;
  WriteShareGroupStateRequest_PartitionData_state_batches := [];
  WriteShareGroupStateRequest_PartitionData_unknown_tagged_fields := ∅
|}.

(* @ src/crates/kafka-protocol/src/messages/write_share_group_state_request.rs 125-210 PartitionData::encode, compute_size, decode *)
Definition WriteShareGroupStateRequest_PartitionData_codec (version : Z) : Codec
    WriteShareGroupStateRequest_PartitionData :=
  message 0 1 version (build mkWriteShareGroupStateRequest_PartitionData
    ⊛ (field WriteShareGroupStateRequest_PartitionData_partition Int32)
    ⊛ (field WriteShareGroupStateRequest_PartitionData_state_epoch Int32)
    ⊛ (field WriteShareGroupStateRequest_PartitionData_leader_epoch Int32)
    ⊛ (field WriteShareGroupStateRequest_PartitionData_start_offset Int64)
    ⊛ (if 1 <=? version then field WriteShareGroupStateRequest_PartitionData_delivery_complete_count Int32
        else ignored (-1))
    ⊛ (field WriteShareGroupStateRequest_PartitionData_state_batches (CompactArray (Struct
        WriteShareGroupStateRequest_StateBatch_codec version)))
    ⊛ unknown_tags true WriteShareGroupStateRequest_PartitionData_unknown_tagged_fields).

Definition WriteShareGroupStateRequest_PartitionData_valid (version : Z) (x :
    WriteShareGroupStateRequest_PartitionData) : Prop :=
  in_signed 32 (WriteShareGroupStateRequest_PartitionData_partition x) ∧
  in_signed 32 (WriteShareGroupStateRequest_PartitionData_state_epoch x) ∧
  in_signed 32 (WriteShareGroupStateRequest_PartitionData_leader_epoch x) ∧
  in_signed 64 (WriteShareGroupStateRequest_PartitionData_start_offset x) ∧
  (if 1 <=? version then in_signed 32 (WriteShareGroupStateRequest_PartitionData_delivery_complete_count x)
      else WriteShareGroupStateRequest_PartitionData_delivery_complete_count x = (-1)) ∧
  Forall (WriteShareGroupStateRequest_StateBatch_valid version)
      (WriteShareGroupStateRequest_PartitionData_state_batches x) ∧
  unknown_valid 0 (WriteShareGroupStateRequest_PartitionData_unknown_tagged_fields x).

#[global] Instance WriteShareGroupStateRequest_PartitionData_sound version : Sound
    (WriteShareGroupStateRequest_PartitionData_codec version)
    (WriteShareGroupStateRequest_PartitionData_valid version).
Proof. solve_message. Qed.

(* @ src/crates/kafka-protocol/src/messages/write_share_group_state_request.rs 521-537 WriteStateData *)
Record WriteStateData : Type := mkWriteStateData {
  WriteStateData_topic_id : Z;
  WriteStateData_partitions : list WriteShareGroupStateRequest_PartitionData;
  WriteStateData_unknown_tagged_fields : TaggedFields
}.

(* @ src/crates/kafka-protocol/src/messages/write_share_group_state_request.rs 633-641 WriteStateData::default *)
Definition WriteStateData_default : WriteStateData := {|
  WriteStateData_topic_id := 0;
  WriteStateData_partitions := [];
  WriteStateData_unknown_tagged_fields := ∅
|}.

(* @ src/crates/kafka-protocol/src/messages/write_share_group_state_request.rs 570-631 WriteStateData::encode, compute_size, decode *)
Definition WriteStateData_codec (version : Z) : Codec WriteStateData :=
  message 0 1 version (build mkWriteStateData
    ⊛ (field WriteStateData_topic_id Uuid)
    ⊛ (field WriteStateData_partitions (CompactArray (Struct
        WriteShareGroupStateRequest_PartitionData_codec version)))
    ⊛ unknown_tags true WriteStateData_unknown_tagged_fields).

Definition WriteStateData_valid (version : Z) (x : WriteStateData) : Prop :=
  in_unsigned 128 (WriteStateData_topic_id x) ∧
  Forall (WriteShareGroupStateRequest_PartitionData_valid version) (WriteStateData_partitions x) ∧
  unknown_valid 0 (WriteStateData_unknown_tagged_fields x).

#[global] Instance WriteStateData_sound version : Sound (WriteStateData_codec version)
    (WriteStateData_valid version).
Proof. solve_message. Qed.

(* @ src/crates/kafka-protocol/src/messages/write_share_group_state_request.rs 395-411 WriteShareGroupStateRequest *)
Record WriteShareGroupStateRequest : Type := mkWriteShareGroupStateRequest {
  WriteShareGroupStateRequest_group_id : list byte;
  WriteShareGroupStateRequest_topics : list WriteStateData;
  WriteShareGroupStateRequest_unknown_tagged_fields : TaggedFields
}.

(* @ src/crates/kafka-protocol/src/messages/write_share_group_state_request.rs 506-514 WriteShareGroupStateRequest::default *)
Definition WriteShareGroupStateRequest_default : WriteShareGroupStateRequest := {|
  WriteShareGroupStateRequest_group_id := [];
  WriteShareGroupStateRequest_topics := [];
  WriteShareGroupStateRequest_unknown_tagged_fields := ∅
|}.

(* @ src/crates/kafka-protocol/src/messages/write_share_group_state_request.rs 444-504 WriteShareGroupStateRequest::encode, compute_size, decode *)
Definition WriteShareGroupStateRequest_codec (version : Z) : Codec WriteShareGroupStateRequest :=
  message 0 1 version (build mkWriteShareGroupStateRequest
    ⊛ (field WriteShareGroupStateRequest_group_id CompactString)
    ⊛ (field WriteShareGroupStateRequest_topics (CompactArray (Struct WriteStateData_codec version)))
    ⊛ unknown_tags true WriteShareGroupStateRequest_unknown_tagged_fields).

Definition WriteShareGroupStateRequest_valid (version : Z) (x : WriteShareGroupStateRequest) : Prop :=
  utf8 (WriteShareGroupStateRequest_group_id x) ∧
  Forall (WriteStateData_valid version) (WriteShareGroupStateRequest_topics x) ∧
  unknown_valid 0 (WriteShareGroupStateRequest_unknown_tagged_fields x).

#[global] Instance WriteShareGroupStateRequest_sound version : Sound (WriteShareGroupStateRequest_codec
    version) (WriteShareGroupStateRequest_valid version).
Proof. solve_message. Qed.

(* @ src/crates/kafka-protocol/src/messages/write_share_group_state_request.rs 648-652 WriteShareGroupStateRequest::header_version *)
Definition WriteShareGroupStateRequest_header_version (version : Z) : Z := 2.

(* @ src/crates/kafka-protocol/src/messages/write_share_group_state_request.rs 516-519 WriteShareGroupStateRequest::VERSIONS *)
Definition WriteShareGroupStateRequest_VERSIONS : Z * Z := (0, 1).

(** ** [write_share_group_state_response] *)

(* @ src/crates/kafka-protocol/src/messages/write_share_group_state_response.rs 20-41 PartitionResult *)
Record WriteShareGroupStateResponse_PartitionResult : Type :=
    mkWriteShareGroupStateResponse_PartitionResult {
  WriteShareGroupStateResponse_PartitionResult_partition : Z;
  WriteShareGroupStateResponse_PartitionResult_error_code : Z;
  WriteShareGroupStateResponse_PartitionResult_error_message : option (list byte);
  WriteShareGroupStateResponse_PartitionResult_unknown_tagged_fields : TaggedFields
}.

(* @ src/crates/kafka-protocol/src/messages/write_share_group_state_response.rs 149-158 PartitionResult::default *)
Definition WriteShareGroupStateResponse_PartitionResult_default :
    WriteShareGroupStateResponse_PartitionResult := {|
  WriteShareGroupStateResponse_PartitionResult_partition := 0;
  WriteShareGroupStateResponse_PartitionResult_error_code := 0;
  WriteShareGroupStateResponse_PartitionResult_error_message := None;
  WriteShareGroupStateResponse_PartitionResult_unknown_tagged_fields := ∅
|}.

(* @ src/crates/kafka-protocol/src/messages/write_share_group_state_response.rs 83-147 PartitionResult::encode, compute_size, decode *)
Definition WriteShareGroupStateResponse_PartitionResult_codec (version : Z) : Codec
    WriteShareGroupStateResponse_PartitionResult :=
  message 0 1 version (build mkWriteShareGroupStateResponse_PartitionResult
    ⊛ (field WriteShareGroupStateResponse_PartitionResult_partition Int32)
    ⊛ (field WriteShareGroupStateResponse_PartitionResult_error_code Int16)
    ⊛ (field WriteShareGroupStateResponse_PartitionResult_error_message NullableCompactString)
    ⊛ unknown_tags true WriteShareGroupStateResponse_PartitionResult_unknown_tagged_fields).

Definition WriteShareGroupStateResponse_PartitionResult_valid (version : Z) (x :
    WriteShareGroupStateResponse_PartitionResult) : Prop :=
  in_signed 32 (WriteShareGroupStateResponse_PartitionResult_partition x) ∧
  in_signed 16 (WriteShareGroupStateResponse_PartitionResult_error_code x) ∧
  opt_all utf8 (WriteShareGroupStateResponse_PartitionResult_error_message x) ∧
  unknown_valid 0 (WriteShareGroupStateResponse_PartitionResult_unknown_tagged_fields x).

#[global] Instance WriteShareGroupStateResponse_PartitionResult_sound version : Sound
    (WriteShareGroupStateResponse_PartitionResult_codec version)
    (WriteShareGroupStateResponse_PartitionResult_valid version).
Proof. solve_message. Qed.

(* @ src/crates/kafka-protocol/src/messages/write_share_group_state_response.rs 272-288 WriteStateResult *)
Record WriteStateResult : Type := mkWriteStateResult {
  WriteStateResult_topic_id : Z;
  WriteStateResult_partitions : list WriteShareGroupStateResponse_PartitionResult;
  WriteStateResult_unknown_tagged_fields : TaggedFields
}.

(* @ src/crates/kafka-protocol/src/messages/write_share_group_state_response.rs 384-392 WriteStateResult::default *)
Definition WriteStateResult_default : WriteStateResult := {|
  WriteStateResult_topic_id := 0;
  WriteStateResult_partitions := [];
  WriteStateResult_unknown_tagged_fields := ∅
|}.

(* @ src/crates/kafka-protocol/src/messages/write_share_group_state_response.rs 321-382 WriteStateResult::encode, compute_size, decode *)
Definition WriteStateResult_codec (version : Z) : Codec WriteStateResult :=
  message 0 1 version (build mkWriteStateResult
    ⊛ (field WriteStateResult_topic_id Uuid)
    ⊛ (field WriteStateResult_partitions (CompactArray (Struct
        WriteShareGroupStateResponse_PartitionResult_codec version)))
    ⊛ unknown_tags true WriteStateResult_unknown_tagged_fields).

Definition WriteStateResult_valid (version : Z) (x : WriteStateResult) : Prop :=
  in_unsigned 128 (WriteStateResult_topic_id x) ∧
  Forall (WriteShareGroupStateResponse_PartitionResult_valid version) (WriteStateResult_partitions x) ∧
  unknown_valid 0 (WriteStateResult_unknown_tagged_fields x).

#[global] Instance WriteStateResult_sound version : Sound (WriteStateResult_codec version)
    (WriteStateResult_valid version).
Proof. solve_message. Qed.

(* @ src/crates/kafka-protocol/src/messages/write_share_group_state_response.rs 165-176 WriteShareGroupStateResponse *)
Record WriteShareGroupStateResponse : Type := mkWriteShareGroupStateResponse {
  WriteShareGroupStateResponse_results : list WriteStateResult;
  WriteShareGroupStateResponse_unknown_tagged_fields : TaggedFields
}.

(* @ src/crates/kafka-protocol/src/messages/write_share_group_state_response.rs 258-265 WriteShareGroupStateResponse::default *)
Definition WriteShareGroupStateResponse_default : WriteShareGroupStateResponse := {|
  WriteShareGroupStateResponse_results := [];
  WriteShareGroupStateResponse_unknown_tagged_fields := ∅
|}.

(* @ src/crates/kafka-protocol/src/messages/write_share_group_state_response.rs 200-256 WriteShareGroupStateResponse::encode, compute_size, decode *)
Definition WriteShareGroupStateResponse_codec (version : Z) : Codec WriteShareGroupStateResponse :=
  message 0 1 version (build mkWriteShareGroupStateResponse
    ⊛ (field WriteShareGroupStateResponse_results (CompactArray (Struct WriteStateResult_codec version)))
    ⊛ unknown_tags true WriteShareGroupStateResponse_unknown_tagged_fields).

Definition WriteShareGroupStateResponse_valid (version : Z) (x : WriteShareGroupStateResponse) : Prop :=
  Forall (WriteStateResult_valid version) (WriteShareGroupStateResponse_results x) ∧
  unknown_valid 0 (WriteShareGroupStateResponse_unknown_tagged_fields x).

#[global] Instance WriteShareGroupStateResponse_sound version : Sound (WriteShareGroupStateResponse_codec
    version) (WriteShareGroupStateResponse_valid version).
Proof. solve_message. Qed.

(* @ src/crates/kafka-protocol/src/messages/write_share_group_state_response.rs 399-403 WriteShareGroupStateResponse::header_version *)
Definition WriteShareGroupStateResponse_header_version (version : Z) : Z := 1.

(* @ src/crates/kafka-protocol/src/messages/write_share_group_state_response.rs 267-270 WriteShareGroupStateResponse::VERSIONS *)
Definition WriteShareGroupStateResponse_VERSIONS : Z * Z := (0, 1).
