(* ===== verification/MessagesRaft.v ===== *)
(** * The messages and control records of the replication quorum

    [src/crates/kafka-protocol/src/messages/]: one block per structure of the
    generated modules listed below, in the order of their files.  A block is the
    structure, its [Default], its codec in the style of [MessageCodec] (the
    branches on [version] are those of [encode], [compute_size] and [decode]),
    what makes a value expressible in a version ([_valid]: the fields are values
    of their Rust types, a field the version silently drops has its default, and
    unknown tags are not those of known fields), and the proof that the codec is
    sound.  A structure whose name several modules share carries the name of its
    message.

    add_raft_voter_request, add_raft_voter_response,
    alter_partition_request, alter_partition_response,
    assign_replicas_to_dirs_request, assign_replicas_to_dirs_response,
    begin_quorum_epoch_request, begin_quorum_epoch_response,
    broker_heartbeat_request, broker_heartbeat_response,
    broker_registration_request, broker_registration_response,
    control_record_type_schema, controller_registration_request,
    controller_registration_response, describe_quorum_request,
    describe_quorum_response, end_quorum_epoch_request,
    end_quorum_epoch_response, envelope_request, envelope_response,
    fetch_snapshot_request, fetch_snapshot_response, k_raft_version_record,
    leader_change_message, remove_raft_voter_request,
    remove_raft_voter_response, snapshot_footer_record,
    snapshot_header_record, unregister_broker_request,
    unregister_broker_response, update_features_request,
    update_features_response, update_raft_voter_request,
    update_raft_voter_response, vote_request, vote_response, voters_record. *)

From S2P Require Import Prelude Buf Types MessageCodec.
Open Scope Z_scope.

(** ** [add_raft_voter_request] *)

(* @ src/crates/kafka-protocol/src/messages/add_raft_voter_request.rs 239-260 Listener *)
Record AddRaftVoterRequest_Listener : Type := mkAddRaftVoterRequest_Listener {
  AddRaftVoterRequest_Listener_name : list byte;
  AddRaftVoterRequest_Listener_host : list byte;
  AddRaftVoterRequest_Listener_port : Z;
  AddRaftVoterRequest_Listener_unknown_tagged_fields : TaggedFields
}.

(* @ src/crates/kafka-protocol/src/messages/add_raft_voter_request.rs 368-377 Listener::default *)
Definition AddRaftVoterRequest_Listener_default : AddRaftVoterRequest_Listener := {|
  AddRaftVoterRequest_Listener_name := [];
  AddRaftVoterRequest_Listener_host := [];
  AddRaftVoterRequest_Listener_port := 0;
  AddRaftVoterRequest_Listener_unknown_tagged_fields := ∅
|}.

(* @ src/crates/kafka-protocol/src/messages/add_raft_voter_request.rs 302-366 Listener::encode, compute_size, decode *)
Definition AddRaftVoterRequest_Listener_codec (version : Z) : Codec AddRaftVoterRequest_Listener :=
  message 0 1 version (build mkAddRaftVoterRequest_Listener
    ⊛ (field AddRaftVoterRequest_Listener_name CompactString)
    ⊛ (field AddRaftVoterRequest_Listener_host CompactString)
    ⊛ (field AddRaftVoterRequest_Listener_port UInt16)
    ⊛ unknown_tags true AddRaftVoterRequest_Listener_unknown_tagged_fields).

Definition AddRaftVoterRequest_Listener_valid (version : Z) (x : AddRaftVoterRequest_Listener) : Prop :=
  utf8 (AddRaftVoterRequest_Listener_name x) ∧
  utf8 (AddRaftVoterRequest_Listener_host x) ∧
  in_unsigned 16 (AddRaftVoterRequest_Listener_port x) ∧
  unknown_valid 0 (AddRaftVoterRequest_Listener_unknown_tagged_fields x).

#[global] Instance AddRaftVoterRequest_Listener_sound version : Sound (AddRaftVoterRequest_Listener_codec
    version) (AddRaftVoterRequest_Listener_valid version).
Proof. solve_message. Qed.

(* @ src/crates/kafka-protocol/src/messages/add_raft_voter_request.rs 20-56 AddRaftVoterRequest *)
Record AddRaftVoterRequest : Type := mkAddRaftVoterRequest {
  AddRaftVoterRequest_cluster_id : option (list byte);
  AddRaftVoterRequest_timeout_ms : Z;
  AddRaftVoterRequest_voter_id : Z;
  AddRaftVoterRequest_voter_directory_id : Z;
  AddRaftVoterRequest_listeners : list AddRaftVoterRequest_Listener;
  AddRaftVoterRequest_ack_when_committed : bool;
  AddRaftVoterRequest_unknown_tagged_fields : TaggedFields
}.

(* @ src/crates/kafka-protocol/src/messages/add_raft_voter_request.rs 220-232 AddRaftVoterRequest::default *)
Definition AddRaftVoterRequest_default : AddRaftVoterRequest := {|
  AddRaftVoterRequest_cluster_id := Some [];
  AddRaftVoterRequest_timeout_ms := 0;
  AddRaftVoterRequest_voter_id := 0;
  AddRaftVoterRequest_voter_directory_id := 0;
  AddRaftVoterRequest_listeners := [];
  AddRaftVoterRequest_ack_when_committed := true;
  AddRaftVoterRequest_unknown_tagged_fields := ∅
|}.

(* @ src/crates/kafka-protocol/src/messages/add_raft_voter_request.rs 125-218 AddRaftVoterRequest::encode, compute_size, decode *)
Definition AddRaftVoterRequest_codec (version : Z) : Codec AddRaftVoterRequest :=
  message 0 1 version (build mkAddRaftVoterRequest
    ⊛ (field AddRaftVoterRequest_cluster_id NullableCompactString)
    ⊛ (field AddRaftVoterRequest_timeout_ms Int32)
    ⊛ (field AddRaftVoterRequest_voter_id Int32)
    ⊛ (field AddRaftVoterRequest_voter_directory_id Uuid)
    ⊛ (field AddRaftVoterRequest_listeners (CompactArray (Struct AddRaftVoterRequest_Listener_codec
        version)))
    ⊛ (if 1 <=? version then field AddRaftVoterRequest_ack_when_committed Boolean else unset
        AddRaftVoterRequest_ack_when_committed id true)
    ⊛ unknown_tags true AddRaftVoterRequest_unknown_tagged_fields).

Definition AddRaftVoterRequest_valid (version : Z) (x : AddRaftVoterRequest) : Prop :=
  opt_all utf8 (AddRaftVoterRequest_cluster_id x) ∧
  in_signed 32 (AddRaftVoterRequest_timeout_ms x) ∧
  in_signed 32 (AddRaftVoterRequest_voter_id x) ∧
  in_unsigned 128 (AddRaftVoterRequest_voter_directory_id x) ∧
  Forall (AddRaftVoterRequest_Listener_valid version) (AddRaftVoterRequest_listeners x) ∧
  unknown_valid 0 (AddRaftVoterRequest_unknown_tagged_fields x).

#[global] Instance AddRaftVoterRequest_sound version : Sound (AddRaftVoterRequest_codec version)
    (AddRaftVoterRequest_valid version).
Proof. solve_message. Qed.

(* @ src/crates/kafka-protocol/src/messages/add_raft_voter_request.rs 384-388 AddRaftVoterRequest::header_version *)
Definition AddRaftVoterRequest_header_version (version : Z) : Z := 2.

(* @ src/crates/kafka-protocol/src/messages/add_raft_voter_request.rs 234-237 AddRaftVoterRequest::VERSIONS *)
Definition AddRaftVoterRequest_VERSIONS : Z * Z := (0, 1).

(** ** [add_raft_voter_response] *)

(* @ src/crates/kafka-protocol/src/messages/add_raft_voter_response.rs 20-41 AddRaftVoterResponse *)
Record AddRaftVoterResponse : Type := mkAddRaftVoterResponse {
  AddRaftVoterResponse_throttle_time_ms : Z;
  AddRaftVoterResponse_error_code : Z;
  AddRaftVoterResponse_error_message : option (list byte);
  AddRaftVoterResponse_unknown_tagged_fields : TaggedFields
}.

(* @ src/crates/kafka-protocol/src/messages/add_raft_voter_response.rs 149-158 AddRaftVoterResponse::default *)
Definition AddRaftVoterResponse_default : AddRaftVoterResponse := {|
  AddRaftVoterResponse_throttle_time_ms := 0;
  AddRaftVoterResponse_error_code := 0;
  AddRaftVoterResponse_error_message := Some [];
  AddRaftVoterResponse_unknown_tagged_fields := ∅
|}.

(* @ src/crates/kafka-protocol/src/messages/add_raft_voter_response.rs 83-147 AddRaftVoterResponse::encode, compute_size, decode *)
Definition AddRaftVoterResponse_codec (version : Z) : Codec AddRaftVoterResponse :=
  message 0 1 version (build mkAddRaftVoterResponse
    ⊛ (field AddRaftVoterResponse_throttle_time_ms Int32)
    ⊛ (field AddRaftVoterResponse_error_code Int16)
    ⊛ (field AddRaftVoterResponse_error_message NullableCompactString)
    ⊛ unknown_tags true AddRaftVoterResponse_unknown_tagged_fields).

Definition AddRaftVoterResponse_valid (version : Z) (x : AddRaftVoterResponse) : Prop :=
  in_signed 32 (AddRaftVoterResponse_throttle_time_ms x) ∧
  in_signed 16 (AddRaftVoterResponse_error_code x) ∧
  opt_all utf8 (AddRaftVoterResponse_error_message x) ∧
  unknown_valid 0 (AddRaftVoterResponse_unknown_tagged_fields x).

#[global] Instance AddRaftVoterResponse_sound version : Sound (AddRaftVoterResponse_codec version)
    (AddRaftVoterResponse_valid version).
Proof. solve_message. Qed.

(* @ src/crates/kafka-protocol/src/messages/add_raft_voter_response.rs 165-169 AddRaftVoterResponse::header_version *)
Definition AddRaftVoterResponse_header_version (version : Z) : Z := 1.

(* @ src/crates/kafka-protocol/src/messages/add_raft_voter_response.rs 160-163 AddRaftVoterResponse::VERSIONS *)
Definition AddRaftVoterResponse_VERSIONS : Z * Z := (0, 1).

(** ** [alter_partition_request] *)

(* @ src/crates/kafka-protocol/src/messages/alter_partition_request.rs 165-181 BrokerState *)
Record BrokerState : Type := mkBrokerState {
  BrokerState_broker_id : Z;
  BrokerState_broker_epoch : Z;
  BrokerState_unknown_tagged_fields : TaggedFields
}.

(* @ src/crates/kafka-protocol/src/messages/alter_partition_request.rs 308-316 BrokerState::default *)
Definition BrokerState_default : BrokerState := {|
  BrokerState_broker_id := 0;
  BrokerState_broker_epoch := -1;
  BrokerState_unknown_tagged_fields := ∅
|}.

(* @ src/crates/kafka-protocol/src/messages/alter_partition_request.rs 214-306 BrokerState::encode, compute_size, decode *)
Definition BrokerState_codec (version : Z) : Codec BrokerState :=
  message 2 3 version (build mkBrokerState
    ⊛ (if 3 <=? version then field BrokerState_broker_id Int32 else unset BrokerState_broker_id (Z.eqb 0) 0)
    ⊛ (if 3 <=? version then field BrokerState_broker_epoch Int64 else unset BrokerState_broker_epoch
        (Z.eqb (-1)) (-1))
    ⊛ unknown_tags true BrokerState_unknown_tagged_fields).

Definition BrokerState_valid (version : Z) (x : BrokerState) : Prop :=
  in_signed 32 (BrokerState_broker_id x) ∧
  in_signed 64 (BrokerState_broker_epoch x) ∧
  unknown_valid 0 (BrokerState_unknown_tagged_fields x).

#[global] Instance BrokerState_sound version : Sound (BrokerState_codec version) (BrokerState_valid
    version).
Proof. solve_message. Qed.

(* @ src/crates/kafka-protocol/src/messages/alter_partition_request.rs 323-359 PartitionData *)
Record AlterPartitionRequest_PartitionData : Type := mkAlterPartitionRequest_PartitionData {
  AlterPartitionRequest_PartitionData_partition_index : Z;
  AlterPartitionRequest_PartitionData_leader_epoch : Z;
  AlterPartitionRequest_PartitionData_new_isr : list Z;
  AlterPartitionRequest_PartitionData_new_isr_with_epochs : list BrokerState;
  AlterPartitionRequest_PartitionData_leader_recovery_state : Z;
  AlterPartitionRequest_PartitionData_partition_epoch : Z;
  AlterPartitionRequest_PartitionData_unknown_tagged_fields : TaggedFields
}.

(* @ src/crates/kafka-protocol/src/messages/alter_partition_request.rs 540-552 PartitionData::default *)
Definition AlterPartitionRequest_PartitionData_default : AlterPartitionRequest_PartitionData := {|
  AlterPartitionRequest_PartitionData_partition_index := 0;
  AlterPartitionRequest_PartitionData_leader_epoch := 0;
  AlterPartitionRequest_PartitionData_new_isr := [];
  AlterPartitionRequest_PartitionData_new_isr_with_epochs := [];
  AlterPartitionRequest_PartitionData_leader_recovery_state := 0;
  AlterPartitionRequest_PartitionData_partition_epoch := 0;
  AlterPartitionRequest_PartitionData_unknown_tagged_fields := ∅
|}.

(* @ src/crates/kafka-protocol/src/messages/alter_partition_request.rs 428-538 PartitionData::encode, compute_size, decode *)
Definition AlterPartitionRequest_PartitionData_codec (version : Z) : Codec
    AlterPartitionRequest_PartitionData :=
  message 2 3 version (build mkAlterPartitionRequest_PartitionData
    ⊛ (field AlterPartitionRequest_PartitionData_partition_index Int32)
    ⊛ (field AlterPartitionRequest_PartitionData_leader_epoch Int32)
    ⊛ (if version =? 2 then field AlterPartitionRequest_PartitionData_new_isr (CompactArray Int32) else
        unset AlterPartitionRequest_PartitionData_new_isr is_empty [])
    ⊛ (if 3 <=? version then field AlterPartitionRequest_PartitionData_new_isr_with_epochs (CompactArray
        (Struct BrokerState_codec version)) else unset
        AlterPartitionRequest_PartitionData_new_isr_with_epochs is_empty [])
    ⊛ (field AlterPartitionRequest_PartitionData_leader_recovery_state Int8)
    ⊛ (field AlterPartitionRequest_PartitionData_partition_epoch Int32)
    ⊛ unknown_tags true AlterPartitionRequest_PartitionData_unknown_tagged_fields).

Definition AlterPartitionRequest_PartitionData_valid (version : Z) (x :
    AlterPartitionRequest_PartitionData) : Prop :=
  in_signed 32 (AlterPartitionRequest_PartitionData_partition_index x) ∧
  in_signed 32 (AlterPartitionRequest_PartitionData_leader_epoch x) ∧
  Forall (in_signed 32) (AlterPartitionRequest_PartitionData_new_isr x) ∧
  Forall (BrokerState_valid version) (AlterPartitionRequest_PartitionData_new_isr_with_epochs x) ∧
  in_signed 8 (AlterPartitionRequest_PartitionData_leader_recovery_state x) ∧
  in_signed 32 (AlterPartitionRequest_PartitionData_partition_epoch x) ∧
  unknown_valid 0 (AlterPartitionRequest_PartitionData_unknown_tagged_fields x).

#[global] Instance AlterPartitionRequest_PartitionData_sound version : Sound
    (AlterPartitionRequest_PartitionData_codec version) (AlterPartitionRequest_PartitionData_valid version).
Proof. solve_message. Qed.

(* @ src/crates/kafka-protocol/src/messages/alter_partition_request.rs 559-575 TopicData *)
Record AlterPartitionRequest_TopicData : Type := mkAlterPartitionRequest_TopicData {
  AlterPartitionRequest_TopicData_topic_id : Z;
  AlterPartitionRequest_TopicData_partitions : list AlterPartitionRequest_PartitionData;
  AlterPartitionRequest_TopicData_unknown_tagged_fields : TaggedFields
}.

(* @ src/crates/kafka-protocol/src/messages/alter_partition_request.rs 671-679 TopicData::default *)
Definition AlterPartitionRequest_TopicData_default : AlterPartitionRequest_TopicData := {|
  AlterPartitionRequest_TopicData_topic_id := 0;
  AlterPartitionRequest_TopicData_partitions := [];
  AlterPartitionRequest_TopicData_unknown_tagged_fields := ∅
|}.

(* @ src/crates/kafka-protocol/src/messages/alter_partition_request.rs 608-669 TopicData::encode, compute_size, decode *)
Definition AlterPartitionRequest_TopicData_codec (version : Z) : Codec AlterPartitionRequest_TopicData :=
  message 2 3 version (build mkAlterPartitionRequest_TopicData
    ⊛ (field AlterPartitionRequest_TopicData_topic_id Uuid)
    ⊛ (field AlterPartitionRequest_TopicData_partitions (CompactArray (Struct
        AlterPartitionRequest_PartitionData_codec version)))
    ⊛ unknown_tags true AlterPartitionRequest_TopicData_unknown_tagged_fields).

Definition AlterPartitionRequest_TopicData_valid (version : Z) (x : AlterPartitionRequest_TopicData) : Prop
    :=
  in_unsigned 128 (AlterPartitionRequest_TopicData_topic_id x) ∧
  Forall (AlterPartitionRequest_PartitionData_valid version) (AlterPartitionRequest_TopicData_partitions x)
      ∧
  unknown_valid 0 (AlterPartitionRequest_TopicData_unknown_tagged_fields x).

#[global] Instance AlterPartitionRequest_TopicData_sound version : Sound
    (AlterPartitionRequest_TopicData_codec version) (AlterPartitionRequest_TopicData_valid version).
Proof. solve_message. Qed.

(* @ src/crates/kafka-protocol/src/messages/alter_partition_request.rs 20-41 AlterPartitionRequest *)
Record AlterPartitionRequest : Type := mkAlterPartitionRequest {
  AlterPartitionRequest_broker_id : Z;
  AlterPartitionRequest_broker_epoch : Z;
  AlterPartitionRequest_topics : list AlterPartitionRequest_TopicData;
  AlterPartitionRequest_unknown_tagged_fields : TaggedFields
}.

(* @ src/crates/kafka-protocol/src/messages/alter_partition_request.rs 149-158 AlterPartitionRequest::default *)
Definition AlterPartitionRequest_default : AlterPartitionRequest := {|
  AlterPartitionRequest_broker_id := 0;
  AlterPartitionRequest_broker_epoch := -1;
  AlterPartitionRequest_topics := [];
  AlterPartitionRequest_unknown_tagged_fields := ∅
|}.

(* @ src/crates/kafka-protocol/src/messages/alter_partition_request.rs 83-147 AlterPartitionRequest::encode, compute_size, decode *)
Definition AlterPartitionRequest_codec (version : Z) : Codec AlterPartitionRequest :=
  message 2 3 version (build mkAlterPartitionRequest
    ⊛ (field AlterPartitionRequest_broker_id Int32)
    ⊛ (field AlterPartitionRequest_broker_epoch Int64)
    ⊛ (field AlterPartitionRequest_topics (CompactArray (Struct AlterPartitionRequest_TopicData_codec
        version)))
    ⊛ unknown_tags true AlterPartitionRequest_unknown_tagged_fields).

Definition AlterPartitionRequest_valid (version : Z) (x : AlterPartitionRequest) : Prop :=
  in_signed 32 (AlterPartitionRequest_broker_id x) ∧
  in_signed 64 (AlterPartitionRequest_broker_epoch x) ∧
  Forall (AlterPartitionRequest_TopicData_valid version) (AlterPartitionRequest_topics x) ∧
  unknown_valid 0 (AlterPartitionRequest_unknown_tagged_fields x).

#[global] Instance AlterPartitionRequest_sound version : Sound (AlterPartitionRequest_codec version)
    (AlterPartitionRequest_valid version).
Proof. solve_message. Qed.

(* @ src/crates/kafka-protocol/src/messages/alter_partition_request.rs 686-690 AlterPartitionRequest::header_version *)
Definition AlterPartitionRequest_header_version (version : Z) : Z := 2.

(* @ src/crates/kafka-protocol/src/messages/alter_partition_request.rs 160-163 AlterPartitionRequest::VERSIONS *)
Definition AlterPartitionRequest_VERSIONS : Z * Z := (2, 3).

(** ** [alter_partition_response] *)

(* @ src/crates/kafka-protocol/src/messages/alter_partition_response.rs 165-206 PartitionData *)
Record AlterPartitionResponse_PartitionData : Type := mkAlterPartitionResponse_PartitionData {
  AlterPartitionResponse_PartitionData_partition_index : Z;
  AlterPartitionResponse_PartitionData_error_code : Z;
  AlterPartitionResponse_PartitionData_leader_id : Z;
  AlterPartitionResponse_PartitionData_leader_epoch : Z;
  AlterPartitionResponse_PartitionData_isr : list Z;
  AlterPartitionResponse_PartitionData_leader_recovery_state : Z;
  AlterPartitionResponse_PartitionData_partition_epoch : Z;
  AlterPartitionResponse_PartitionData_unknown_tagged_fields : TaggedFields
}.

(* @ src/crates/kafka-protocol/src/messages/alter_partition_response.rs 366-379 PartitionData::default *)
Definition AlterPartitionResponse_PartitionData_default : AlterPartitionResponse_PartitionData := {|
  AlterPartitionResponse_PartitionData_partition_index := 0;
  AlterPartitionResponse_PartitionData_error_code := 0;
  AlterPartitionResponse_PartitionData_leader_id := 0;
  AlterPartitionResponse_PartitionData_leader_epoch := 0;
  AlterPartitionResponse_PartitionData_isr := [];
  AlterPartitionResponse_PartitionData_leader_recovery_state := 0;
  AlterPartitionResponse_PartitionData_partition_epoch := 0;
  AlterPartitionResponse_PartitionData_unknown_tagged_fields := ∅
|}.

(* @ src/crates/kafka-protocol/src/messages/alter_partition_response.rs 284-364 PartitionData::encode, compute_size, decode *)
Definition AlterPartitionResponse_PartitionData_codec (version : Z) : Codec
    AlterPartitionResponse_PartitionData :=
  message 2 3 version (build mkAlterPartitionResponse_PartitionData
    ⊛ (field AlterPartitionResponse_PartitionData_partition_index Int32)
    ⊛ (field AlterPartitionResponse_PartitionData_error_code Int16)
    ⊛ (field AlterPartitionResponse_PartitionData_leader_id Int32)
    ⊛ (field AlterPartitionResponse_PartitionData_leader_epoch Int32)
    ⊛ (field AlterPartitionResponse_PartitionData_isr (CompactArray Int32))
    ⊛ (field AlterPartitionResponse_PartitionData_leader_recovery_state Int8)
    ⊛ (field AlterPartitionResponse_PartitionData_partition_epoch Int32)
    ⊛ unknown_tags true AlterPartitionResponse_PartitionData_unknown_tagged_fields).

Definition AlterPartitionResponse_PartitionData_valid (version : Z) (x :
    AlterPartitionResponse_PartitionData) : Prop :=
  in_signed 32 (AlterPartitionResponse_PartitionData_partition_index x) ∧
  in_signed 16 (AlterPartitionResponse_PartitionData_error_code x) ∧
  in_signed 32 (AlterPartitionResponse_PartitionData_leader_id x) ∧
  in_signed 32 (AlterPartitionResponse_PartitionData_leader_epoch x) ∧
  Forall (in_signed 32) (AlterPartitionResponse_PartitionData_isr x) ∧
  in_signed 8 (AlterPartitionResponse_PartitionData_leader_recovery_state x) ∧
  in_signed 32 (AlterPartitionResponse_PartitionData_partition_epoch x) ∧
  unknown_valid 0 (AlterPartitionResponse_PartitionData_unknown_tagged_fields x).

#[global] Instance AlterPartitionResponse_PartitionData_sound version : Sound
    (AlterPartitionResponse_PartitionData_codec version) (AlterPartitionResponse_PartitionData_valid
    version).
Proof. solve_message. Qed.

(* @ src/crates/kafka-protocol/src/messages/alter_partition_response.rs 386-402 TopicData *)
Record AlterPartitionResponse_TopicData : Type := mkAlterPartitionResponse_TopicData {
  AlterPartitionResponse_TopicData_topic_id : Z;
  AlterPartitionResponse_TopicData_partitions : list AlterPartitionResponse_PartitionData;
  AlterPartitionResponse_TopicData_unknown_tagged_fields : TaggedFields
}.

(* @ src/crates/kafka-protocol/src/messages/alter_partition_response.rs 498-506 TopicData::default *)
Definition AlterPartitionResponse_TopicData_default : AlterPartitionResponse_TopicData := {|
  AlterPartitionResponse_TopicData_topic_id := 0;
  AlterPartitionResponse_TopicData_partitions := [];
  AlterPartitionResponse_TopicData_unknown_tagged_fields := ∅
|}.

(* @ src/crates/kafka-protocol/src/messages/alter_partition_response.rs 435-496 TopicData::encode, compute_size, decode *)
Definition AlterPartitionResponse_TopicData_codec (version : Z) : Codec AlterPartitionResponse_TopicData :=
  message 2 3 version (build mkAlterPartitionResponse_TopicData
    ⊛ (field AlterPartitionResponse_TopicData_topic_id Uuid)
    ⊛ (field AlterPartitionResponse_TopicData_partitions (CompactArray (Struct
        AlterPartitionResponse_PartitionData_codec version)))
    ⊛ unknown_tags true AlterPartitionResponse_TopicData_unknown_tagged_fields).

Definition AlterPartitionResponse_TopicData_valid (version : Z) (x : AlterPartitionResponse_TopicData) :
    Prop :=
  in_unsigned 128 (AlterPartitionResponse_TopicData_topic_id x) ∧
  Forall (AlterPartitionResponse_PartitionData_valid version) (AlterPartitionResponse_TopicData_partitions
      x) ∧
  unknown_valid 0 (AlterPartitionResponse_TopicData_unknown_tagged_fields x).

#[global] Instance AlterPartitionResponse_TopicData_sound version : Sound
    (AlterPartitionResponse_TopicData_codec version) (AlterPartitionResponse_TopicData_valid version).
Proof. solve_message. Qed.

(* @ src/crates/kafka-protocol/src/messages/alter_partition_response.rs 20-41 AlterPartitionResponse *)
Record AlterPartitionResponse : Type := mkAlterPartitionResponse {
  AlterPartitionResponse_throttle_time_ms : Z;
  AlterPartitionResponse_error_code : Z;
  AlterPartitionResponse_topics : list AlterPartitionResponse_TopicData;
  AlterPartitionResponse_unknown_tagged_fields : TaggedFields
}.

(* @ src/crates/kafka-protocol/src/messages/alter_partition_response.rs 149-158 AlterPartitionResponse::default *)
Definition AlterPartitionResponse_default : AlterPartitionResponse := {|
  AlterPartitionResponse_throttle_time_ms := 0;
  AlterPartitionResponse_error_code := 0;
  AlterPartitionResponse_topics := [];
  AlterPartitionResponse_unknown_tagged_fields := ∅
|}.

(* @ src/crates/kafka-protocol/src/messages/alter_partition_response.rs 83-147 AlterPartitionResponse::encode, compute_size, decode *)
Definition AlterPartitionResponse_codec (version : Z) : Codec AlterPartitionResponse :=
  message 2 3 version (build mkAlterPartitionResponse
    ⊛ (field AlterPartitionResponse_throttle_time_ms Int32)
    ⊛ (field AlterPartitionResponse_error_code Int16)
    ⊛ (field AlterPartitionResponse_topics (CompactArray (Struct AlterPartitionResponse_TopicData_codec
        version)))
    ⊛ unknown_tags true AlterPartitionResponse_unknown_tagged_fields).

Definition AlterPartitionResponse_valid (version : Z) (x : AlterPartitionResponse) : Prop :=
  in_signed 32 (AlterPartitionResponse_throttle_time_ms x) ∧
  in_signed 16 (AlterPartitionResponse_error_code x) ∧
  Forall (AlterPartitionResponse_TopicData_valid version) (AlterPartitionResponse_topics x) ∧
  unknown_valid 0 (AlterPartitionResponse_unknown_tagged_fields x).

#[global] Instance AlterPartitionResponse_sound version : Sound (AlterPartitionResponse_codec version)
    (AlterPartitionResponse_valid version).
Proof. solve_message. Qed.

(* @ src/crates/kafka-protocol/src/messages/alter_partition_response.rs 513-517 AlterPartitionResponse::header_version *)
Definition AlterPartitionResponse_header_version (version : Z) : Z := 1.

(* @ src/crates/kafka-protocol/src/messages/alter_partition_response.rs 160-163 AlterPartitionResponse::VERSIONS *)
Definition AlterPartitionResponse_VERSIONS : Z * Z := (2, 3).

(** ** [assign_replicas_to_dirs_request] *)

(* @ src/crates/kafka-protocol/src/messages/assign_replicas_to_dirs_request.rs 292-303 PartitionData *)
Record AssignReplicasToDirsRequest_PartitionData : Type := mkAssignReplicasToDirsRequest_PartitionData {
  AssignReplicasToDirsRequest_PartitionData_partition_index : Z;
  AssignReplicasToDirsRequest_PartitionData_unknown_tagged_fields : TaggedFields
}.

(* @ src/crates/kafka-protocol/src/messages/assign_replicas_to_dirs_request.rs 385-392 PartitionData::default *)
Definition AssignReplicasToDirsRequest_PartitionData_default : AssignReplicasToDirsRequest_PartitionData :=
    {|
  AssignReplicasToDirsRequest_PartitionData_partition_index := 0;
  AssignReplicasToDirsRequest_PartitionData_unknown_tagged_fields := ∅
|}.

(* @ src/crates/kafka-protocol/src/messages/assign_replicas_to_dirs_request.rs 327-383 PartitionData::encode, compute_size, decode *)
Definition AssignReplicasToDirsRequest_PartitionData_codec (version : Z) : Codec
    AssignReplicasToDirsRequest_PartitionData :=
  message 0 0 version (build mkAssignReplicasToDirsRequest_PartitionData
    ⊛ (field AssignReplicasToDirsRequest_PartitionData_partition_index Int32)
    ⊛ unknown_tags true AssignReplicasToDirsRequest_PartitionData_unknown_tagged_fields).

Definition AssignReplicasToDirsRequest_PartitionData_valid (version : Z) (x :
    AssignReplicasToDirsRequest_PartitionData) : Prop :=
  in_signed 32 (AssignReplicasToDirsRequest_PartitionData_partition_index x) ∧
  unknown_valid 0 (AssignReplicasToDirsRequest_PartitionData_unknown_tagged_fields x).

#[global] Instance AssignReplicasToDirsRequest_PartitionData_sound version : Sound
    (AssignReplicasToDirsRequest_PartitionData_codec version)
    (AssignReplicasToDirsRequest_PartitionData_valid version).
Proof. solve_message. Qed.

(* @ src/crates/kafka-protocol/src/messages/assign_replicas_to_dirs_request.rs 399-415 TopicData *)
Record AssignReplicasToDirsRequest_TopicData : Type := mkAssignReplicasToDirsRequest_TopicData {
  AssignReplicasToDirsRequest_TopicData_topic_id : Z;
  AssignReplicasToDirsRequest_TopicData_partitions : list AssignReplicasToDirsRequest_PartitionData;
  AssignReplicasToDirsRequest_TopicData_unknown_tagged_fields : TaggedFields
}.

(* @ src/crates/kafka-protocol/src/messages/assign_replicas_to_dirs_request.rs 511-519 TopicData::default *)
Definition AssignReplicasToDirsRequest_TopicData_default : AssignReplicasToDirsRequest_TopicData := {|
  AssignReplicasToDirsRequest_TopicData_topic_id := 0;
  AssignReplicasToDirsRequest_TopicData_partitions := [];
  AssignReplicasToDirsRequest_TopicData_unknown_tagged_fields := ∅
|}.

(* @ src/crates/kafka-protocol/src/messages/assign_replicas_to_dirs_request.rs 448-509 TopicData::encode, compute_size, decode *)
Definition AssignReplicasToDirsRequest_TopicData_codec (version : Z) : Codec
    AssignReplicasToDirsRequest_TopicData :=
  message 0 0 version (build mkAssignReplicasToDirsRequest_TopicData
    ⊛ (field AssignReplicasToDirsRequest_TopicData_topic_id Uuid)
    ⊛ (field AssignReplicasToDirsRequest_TopicData_partitions (CompactArray (Struct
        AssignReplicasToDirsRequest_PartitionData_codec version)))
    ⊛ unknown_tags true AssignReplicasToDirsRequest_TopicData_unknown_tagged_fields).

Definition AssignReplicasToDirsRequest_TopicData_valid (version : Z) (x :
    AssignReplicasToDirsRequest_TopicData) : Prop :=
  in_unsigned 128 (AssignReplicasToDirsRequest_TopicData_topic_id x) ∧
  Forall (AssignReplicasToDirsRequest_PartitionData_valid version)
      (AssignReplicasToDirsRequest_TopicData_partitions x) ∧
  unknown_valid 0 (AssignReplicasToDirsRequest_TopicData_unknown_tagged_fields x).

#[global] Instance AssignReplicasToDirsRequest_TopicData_sound version : Sound
    (AssignReplicasToDirsRequest_TopicData_codec version) (AssignReplicasToDirsRequest_TopicData_valid
    version).
Proof. solve_message. Qed.

(* @ src/crates/kafka-protocol/src/messages/assign_replicas_to_dirs_request.rs 166-182 DirectoryData *)
Record AssignReplicasToDirsRequest_DirectoryData : Type := mkAssignReplicasToDirsRequest_DirectoryData {
  AssignReplicasToDirsRequest_DirectoryData_id : Z;
  AssignReplicasToDirsRequest_DirectoryData_topics : list AssignReplicasToDirsRequest_TopicData;
  AssignReplicasToDirsRequest_DirectoryData_unknown_tagged_fields : TaggedFields
}.

(* @ src/crates/kafka-protocol/src/messages/assign_replicas_to_dirs_request.rs 277-285 DirectoryData::default *)
Definition AssignReplicasToDirsRequest_DirectoryData_default : AssignReplicasToDirsRequest_DirectoryData :=
    {|
  AssignReplicasToDirsRequest_DirectoryData_id := 0;
  AssignReplicasToDirsRequest_DirectoryData_topics := [];
  AssignReplicasToDirsRequest_DirectoryData_unknown_tagged_fields := ∅
|}.

(* @ src/crates/kafka-protocol/src/messages/assign_replicas_to_dirs_request.rs 215-275 DirectoryData::encode, compute_size, decode *)
Definition AssignReplicasToDirsRequest_DirectoryData_codec (version : Z) : Codec
    AssignReplicasToDirsRequest_DirectoryData :=
  message 0 0 version (build mkAssignReplicasToDirsRequest_DirectoryData
    ⊛ (field AssignReplicasToDirsRequest_DirectoryData_id Uuid)
    ⊛ (field AssignReplicasToDirsRequest_DirectoryData_topics (CompactArray (Struct
        AssignReplicasToDirsRequest_TopicData_codec version)))
    ⊛ unknown_tags true AssignReplicasToDirsRequest_DirectoryData_unknown_tagged_fields).

Definition AssignReplicasToDirsRequest_DirectoryData_valid (version : Z) (x :
    AssignReplicasToDirsRequest_DirectoryData) : Prop :=
  in_unsigned 128 (AssignReplicasToDirsRequest_DirectoryData_id x) ∧
  Forall (AssignReplicasToDirsRequest_TopicData_valid version)
      (AssignReplicasToDirsRequest_DirectoryData_topics x) ∧
  unknown_valid 0 (AssignReplicasToDirsRequest_DirectoryData_unknown_tagged_fields x).

#[global] Instance AssignReplicasToDirsRequest_DirectoryData_sound version : Sound
    (AssignReplicasToDirsRequest_DirectoryData_codec version)
    (AssignReplicasToDirsRequest_DirectoryData_valid version).
Proof. solve_message. Qed.

(* @ src/crates/kafka-protocol/src/messages/assign_replicas_to_dirs_request.rs 20-41 AssignReplicasToDirsRequest *)
Record AssignReplicasToDirsRequest : Type := mkAssignReplicasToDirsRequest {
  AssignReplicasToDirsRequest_broker_id : Z;
  AssignReplicasToDirsRequest_broker_epoch : Z;
  AssignReplicasToDirsRequest_directories : list AssignReplicasToDirsRequest_DirectoryData;
  AssignReplicasToDirsRequest_unknown_tagged_fields : TaggedFields
}.

(* @ src/crates/kafka-protocol/src/messages/assign_replicas_to_dirs_request.rs 150-159 AssignReplicasToDirsRequest::default *)
Definition AssignReplicasToDirsRequest_default : AssignReplicasToDirsRequest := {|
  AssignReplicasToDirsRequest_broker_id := 0;
  AssignReplicasToDirsRequest_broker_epoch := -1;
  AssignReplicasToDirsRequest_directories := [];
  AssignReplicasToDirsRequest_unknown_tagged_fields := ∅
|}.

(* @ src/crates/kafka-protocol/src/messages/assign_replicas_to_dirs_request.rs 83-148 AssignReplicasToDirsRequest::encode, compute_size, decode *)
Definition AssignReplicasToDirsRequest_codec (version : Z) : Codec AssignReplicasToDirsRequest :=
  message 0 0 version (build mkAssignReplicasToDirsRequest
    ⊛ (field AssignReplicasToDirsRequest_broker_id Int32)
    ⊛ (field AssignReplicasToDirsRequest_broker_epoch Int64)
    ⊛ (field AssignReplicasToDirsRequest_directories (CompactArray (Struct
        AssignReplicasToDirsRequest_DirectoryData_codec version)))
    ⊛ unknown_tags true AssignReplicasToDirsRequest_unknown_tagged_fields).

Definition AssignReplicasToDirsRequest_valid (version : Z) (x : AssignReplicasToDirsRequest) : Prop :=
  in_signed 32 (AssignReplicasToDirsRequest_broker_id x) ∧
  in_signed 64 (AssignReplicasToDirsRequest_broker_epoch x) ∧
  Forall (AssignReplicasToDirsRequest_DirectoryData_valid version) (AssignReplicasToDirsRequest_directories
      x) ∧
  unknown_valid 0 (AssignReplicasToDirsRequest_unknown_tagged_fields x).

#[global] Instance AssignReplicasToDirsRequest_sound version : Sound (AssignReplicasToDirsRequest_codec
    version) (AssignReplicasToDirsRequest_valid version).
Proof. solve_message. Qed.

(* @ src/crates/kafka-protocol/src/messages/assign_replicas_to_dirs_request.rs 526-530 AssignReplicasToDirsRequest::header_version *)
Definition AssignReplicasToDirsRequest_header_version (version : Z) : Z := 2.

(* @ src/crates/kafka-protocol/src/messages/assign_replicas_to_dirs_request.rs 161-164 AssignReplicasToDirsRequest::VERSIONS *)
Definition AssignReplicasToDirsRequest_VERSIONS : Z * Z := (0, 0).

(** ** [assign_replicas_to_dirs_response] *)

(* @ src/crates/kafka-protocol/src/messages/assign_replicas_to_dirs_response.rs 292-308 PartitionData *)
Record AssignReplicasToDirsResponse_PartitionData : Type := mkAssignReplicasToDirsResponse_PartitionData {
  AssignReplicasToDirsResponse_PartitionData_partition_index : Z;
  AssignReplicasToDirsResponse_PartitionData_error_code : Z;
  AssignReplicasToDirsResponse_PartitionData_unknown_tagged_fields : TaggedFields
}.

(* @ src/crates/kafka-protocol/src/messages/assign_replicas_to_dirs_response.rs 403-411 PartitionData::default *)
Definition AssignReplicasToDirsResponse_PartitionData_default : AssignReplicasToDirsResponse_PartitionData
    := {|
  AssignReplicasToDirsResponse_PartitionData_partition_index := 0;
  AssignReplicasToDirsResponse_PartitionData_error_code := 0;
  AssignReplicasToDirsResponse_PartitionData_unknown_tagged_fields := ∅
|}.

(* @ src/crates/kafka-protocol/src/messages/assign_replicas_to_dirs_response.rs 341-401 PartitionData::encode, compute_size, decode *)
Definition AssignReplicasToDirsResponse_PartitionData_codec (version : Z) : Codec
    AssignReplicasToDirsResponse_PartitionData :=
  message 0 0 version (build mkAssignReplicasToDirsResponse_PartitionData
    ⊛ (field AssignReplicasToDirsResponse_PartitionData_partition_index Int32)
    ⊛ (field AssignReplicasToDirsResponse_PartitionData_error_code Int16)
    ⊛ unknown_tags true AssignReplicasToDirsResponse_PartitionData_unknown_tagged_fields).

Definition AssignReplicasToDirsResponse_PartitionData_valid (version : Z) (x :
    AssignReplicasToDirsResponse_PartitionData) : Prop :=
  in_signed 32 (AssignReplicasToDirsResponse_PartitionData_partition_index x) ∧
  in_signed 16 (AssignReplicasToDirsResponse_PartitionData_error_code x) ∧
  unknown_valid 0 (AssignReplicasToDirsResponse_PartitionData_unknown_tagged_fields x).

#[global] Instance AssignReplicasToDirsResponse_PartitionData_sound version : Sound
    (AssignReplicasToDirsResponse_PartitionData_codec version)
    (AssignReplicasToDirsResponse_PartitionData_valid version).
Proof. solve_message. Qed.

(* @ src/crates/kafka-protocol/src/messages/assign_replicas_to_dirs_response.rs 418-434 TopicData *)
Record AssignReplicasToDirsResponse_TopicData : Type := mkAssignReplicasToDirsResponse_TopicData {
  AssignReplicasToDirsResponse_TopicData_topic_id : Z;
  AssignReplicasToDirsResponse_TopicData_partitions : list AssignReplicasToDirsResponse_PartitionData;
  AssignReplicasToDirsResponse_TopicData_unknown_tagged_fields : TaggedFields
}.

(* @ src/crates/kafka-protocol/src/messages/assign_replicas_to_dirs_response.rs 530-538 TopicData::default *)
Definition AssignReplicasToDirsResponse_TopicData_default : AssignReplicasToDirsResponse_TopicData := {|
  AssignReplicasToDirsResponse_TopicData_topic_id := 0;
  AssignReplicasToDirsResponse_TopicData_partitions := [];
  AssignReplicasToDirsResponse_TopicData_unknown_tagged_fields := ∅
|}.

(* @ src/crates/kafka-protocol/src/messages/assign_replicas_to_dirs_response.rs 467-528 TopicData::encode, compute_size, decode *)
Definition AssignReplicasToDirsResponse_TopicData_codec (version : Z) : Codec
    AssignReplicasToDirsResponse_TopicData :=
  message 0 0 version (build mkAssignReplicasToDirsResponse_TopicData
    ⊛ (field AssignReplicasToDirsResponse_TopicData_topic_id Uuid)
    ⊛ (field AssignReplicasToDirsResponse_TopicData_partitions (CompactArray (Struct
        AssignReplicasToDirsResponse_PartitionData_codec version)))
    ⊛ unknown_tags true AssignReplicasToDirsResponse_TopicData_unknown_tagged_fields).

Definition AssignReplicasToDirsResponse_TopicData_valid (version : Z) (x :
    AssignReplicasToDirsResponse_TopicData) : Prop :=
  in_unsigned 128 (AssignReplicasToDirsResponse_TopicData_topic_id x) ∧
  Forall (AssignReplicasToDirsResponse_PartitionData_valid version)
      (AssignReplicasToDirsResponse_TopicData_partitions x) ∧
  unknown_valid 0 (AssignReplicasToDirsResponse_TopicData_unknown_tagged_fields x).

#[global] Instance AssignReplicasToDirsResponse_TopicData_sound version : Sound
    (AssignReplicasToDirsResponse_TopicData_codec version) (AssignReplicasToDirsResponse_TopicData_valid
    version).
Proof. solve_message. Qed.

(* @ src/crates/kafka-protocol/src/messages/assign_replicas_to_dirs_response.rs 166-182 DirectoryData *)
Record AssignReplicasToDirsResponse_DirectoryData : Type := mkAssignReplicasToDirsResponse_DirectoryData {
  AssignReplicasToDirsResponse_DirectoryData_id : Z;
  AssignReplicasToDirsResponse_DirectoryData_topics : list AssignReplicasToDirsResponse_TopicData;
  AssignReplicasToDirsResponse_DirectoryData_unknown_tagged_fields : TaggedFields
}.

(* @ src/crates/kafka-protocol/src/messages/assign_replicas_to_dirs_response.rs 277-285 DirectoryData::default *)
Definition AssignReplicasToDirsResponse_DirectoryData_default : AssignReplicasToDirsResponse_DirectoryData
    := {|
  AssignReplicasToDirsResponse_DirectoryData_id := 0;
  AssignReplicasToDirsResponse_DirectoryData_topics := [];
  AssignReplicasToDirsResponse_DirectoryData_unknown_tagged_fields := ∅
|}.

(* @ src/crates/kafka-protocol/src/messages/assign_replicas_to_dirs_response.rs 215-275 DirectoryData::encode, compute_size, decode *)
Definition AssignReplicasToDirsResponse_DirectoryData_codec (version : Z) : Codec
    AssignReplicasToDirsResponse_DirectoryData :=
  message 0 0 version (build mkAssignReplicasToDirsResponse_DirectoryData
    ⊛ (field AssignReplicasToDirsResponse_DirectoryData_id Uuid)
    ⊛ (field AssignReplicasToDirsResponse_DirectoryData_topics (CompactArray (Struct
        AssignReplicasToDirsResponse_TopicData_codec version)))
    ⊛ unknown_tags true AssignReplicasToDirsResponse_DirectoryData_unknown_tagged_fields).

Definition AssignReplicasToDirsResponse_DirectoryData_valid (version : Z) (x :
    AssignReplicasToDirsResponse_DirectoryData) : Prop :=
  in_unsigned 128 (AssignReplicasToDirsResponse_DirectoryData_id x) ∧
  Forall (AssignReplicasToDirsResponse_TopicData_valid version)
      (AssignReplicasToDirsResponse_DirectoryData_topics x) ∧
  unknown_valid 0 (AssignReplicasToDirsResponse_DirectoryData_unknown_tagged_fields x).

#[global] Instance AssignReplicasToDirsResponse_DirectoryData_sound version : Sound
    (AssignReplicasToDirsResponse_DirectoryData_codec version)
    (AssignReplicasToDirsResponse_DirectoryData_valid version).
Proof. solve_message. Qed.

(* @ src/crates/kafka-protocol/src/messages/assign_replicas_to_dirs_response.rs 20-41 AssignReplicasToDirsResponse *)
Record AssignReplicasToDirsResponse : Type := mkAssignReplicasToDirsResponse {
  AssignReplicasToDirsResponse_throttle_time_ms : Z;
  AssignReplicasToDirsResponse_error_code : Z;
  AssignReplicasToDirsResponse_directories : list AssignReplicasToDirsResponse_DirectoryData;
  AssignReplicasToDirsResponse_unknown_tagged_fields : TaggedFields
}.

(* @ src/crates/kafka-protocol/src/messages/assign_replicas_to_dirs_response.rs 150-159 AssignReplicasToDirsResponse::default *)
Definition AssignReplicasToDirsResponse_default : AssignReplicasToDirsResponse := {|
  AssignReplicasToDirsResponse_throttle_time_ms := 0;
  AssignReplicasToDirsResponse_error_code := 0;
  AssignReplicasToDirsResponse_directories := [];
  AssignReplicasToDirsResponse_unknown_tagged_fields := ∅
|}.

(* @ src/crates/kafka-protocol/src/messages/assign_replicas_to_dirs_response.rs 83-148 AssignReplicasToDirsResponse::encode, compute_size, decode *)
Definition AssignReplicasToDirsResponse_codec (version : Z) : Codec AssignReplicasToDirsResponse :=
  message 0 0 version (build mkAssignReplicasToDirsResponse
    ⊛ (field AssignReplicasToDirsResponse_throttle_time_ms Int32)
    ⊛ (field AssignReplicasToDirsResponse_error_code Int16)
    ⊛ (field AssignReplicasToDirsResponse_directories (CompactArray (Struct
        AssignReplicasToDirsResponse_DirectoryData_codec version)))
    ⊛ unknown_tags true AssignReplicasToDirsResponse_unknown_tagged_fields).

Definition AssignReplicasToDirsResponse_valid (version : Z) (x : AssignReplicasToDirsResponse) : Prop :=
  in_signed 32 (AssignReplicasToDirsResponse_throttle_time_ms x) ∧
  in_signed 16 (AssignReplicasToDirsResponse_error_code x) ∧
  Forall (AssignReplicasToDirsResponse_DirectoryData_valid version)
      (AssignReplicasToDirsResponse_directories x) ∧
  unknown_valid 0 (AssignReplicasToDirsResponse_unknown_tagged_fields x).

#[global] Instance AssignReplicasToDirsResponse_sound version : Sound (AssignReplicasToDirsResponse_codec
    version) (AssignReplicasToDirsResponse_valid version).
Proof. solve_message. Qed.

(* @ src/crates/kafka-protocol/src/messages/assign_replicas_to_dirs_response.rs 545-549 AssignReplicasToDirsResponse::header_version *)
Definition AssignReplicasToDirsResponse_header_version (version : Z) : Z := 1.

(* @ src/crates/kafka-protocol/src/messages/assign_replicas_to_dirs_response.rs 161-164 AssignReplicasToDirsResponse::VERSIONS *)
Definition AssignReplicasToDirsResponse_VERSIONS : Z * Z := (0, 0).

(** ** [begin_quorum_epoch_request] *)

(* @ src/crates/kafka-protocol/src/messages/begin_quorum_epoch_request.rs 431-457 PartitionData *)
Record BeginQuorumEpochRequest_PartitionData : Type := mkBeginQuorumEpochRequest_PartitionData {
  BeginQuorumEpochRequest_PartitionData_partition_index : Z;
  BeginQuorumEpochRequest_PartitionData_voter_directory_id : Z;
  BeginQuorumEpochRequest_PartitionData_leader_id : Z;
  BeginQuorumEpochRequest_PartitionData_leader_epoch : Z;
  BeginQuorumEpochRequest_PartitionData_unknown_tagged_fields : TaggedFields
}.

(* @ src/crates/kafka-protocol/src/messages/begin_quorum_epoch_request.rs 592-602 PartitionData::default *)
Definition BeginQuorumEpochRequest_PartitionData_default : BeginQuorumEpochRequest_PartitionData := {|
  BeginQuorumEpochRequest_PartitionData_partition_index := 0;
  BeginQuorumEpochRequest_PartitionData_voter_directory_id := 0;
  BeginQuorumEpochRequest_PartitionData_leader_id := 0;
  BeginQuorumEpochRequest_PartitionData_leader_epoch := 0;
  BeginQuorumEpochRequest_PartitionData_unknown_tagged_fields := ∅
|}.

(* @ src/crates/kafka-protocol/src/messages/begin_quorum_epoch_request.rs 508-590 PartitionData::encode, compute_size, decode *)
Definition BeginQuorumEpochRequest_PartitionData_codec (version : Z) : Codec
    BeginQuorumEpochRequest_PartitionData :=
  message 0 1 version (build mkBeginQuorumEpochRequest_PartitionData
    ⊛ (field BeginQuorumEpochRequest_PartitionData_partition_index Int32)
    ⊛ (if 1 <=? version then field BeginQuorumEpochRequest_PartitionData_voter_directory_id Uuid else
        ignored 0)
    ⊛ (field BeginQuorumEpochRequest_PartitionData_leader_id Int32)
    ⊛ (field BeginQuorumEpochRequest_PartitionData_leader_epoch Int32)
    ⊛ unknown_tags (1 <=? version) BeginQuorumEpochRequest_PartitionData_unknown_tagged_fields).

Definition BeginQuorumEpochRequest_PartitionData_valid (version : Z) (x :
    BeginQuorumEpochRequest_PartitionData) : Prop :=
  in_signed 32 (BeginQuorumEpochRequest_PartitionData_partition_index x) ∧
  (if 1 <=? version then in_unsigned 128 (BeginQuorumEpochRequest_PartitionData_voter_directory_id x) else
      BeginQuorumEpochRequest_PartitionData_voter_directory_id x = 0) ∧
  in_signed 32 (BeginQuorumEpochRequest_PartitionData_leader_id x) ∧
  in_signed 32 (BeginQuorumEpochRequest_PartitionData_leader_epoch x) ∧
  (if 1 <=? version then unknown_valid 0 (BeginQuorumEpochRequest_PartitionData_unknown_tagged_fields x)
      else BeginQuorumEpochRequest_PartitionData_unknown_tagged_fields x = ∅).

#[global] Instance BeginQuorumEpochRequest_PartitionData_sound version : Sound
    (BeginQuorumEpochRequest_PartitionData_codec version) (BeginQuorumEpochRequest_PartitionData_valid
    version).
Proof. solve_message. Qed.

(* @ src/crates/kafka-protocol/src/messages/begin_quorum_epoch_request.rs 609-625 TopicData *)
Record BeginQuorumEpochRequest_TopicData : Type := mkBeginQuorumEpochRequest_TopicData {
  BeginQuorumEpochRequest_TopicData_topic_name : list byte;
  BeginQuorumEpochRequest_TopicData_partitions : list BeginQuorumEpochRequest_PartitionData;
  BeginQuorumEpochRequest_TopicData_unknown_tagged_fields : TaggedFields
}.

(* @ src/crates/kafka-protocol/src/messages/begin_quorum_epoch_request.rs 751-759 TopicData::default *)
Definition BeginQuorumEpochRequest_TopicData_default : BeginQuorumEpochRequest_TopicData := {|
  BeginQuorumEpochRequest_TopicData_topic_name := [];
  BeginQuorumEpochRequest_TopicData_partitions := [];
  BeginQuorumEpochRequest_TopicData_unknown_tagged_fields := ∅
|}.

(* @ src/crates/kafka-protocol/src/messages/begin_quorum_epoch_request.rs 658-749 TopicData::encode, compute_size, decode *)
Definition BeginQuorumEpochRequest_TopicData_codec (version : Z) : Codec BeginQuorumEpochRequest_TopicData
    :=
  message 0 1 version (build mkBeginQuorumEpochRequest_TopicData
    ⊛ (field BeginQuorumEpochRequest_TopicData_topic_name (if 1 <=? version then CompactString else
        KafkaString))
    ⊛ (field BeginQuorumEpochRequest_TopicData_partitions (if 1 <=? version then CompactArray (Struct
        BeginQuorumEpochRequest_PartitionData_codec version) else Array (Struct
        BeginQuorumEpochRequest_PartitionData_codec version)))
    ⊛ unknown_tags (1 <=? version) BeginQuorumEpochRequest_TopicData_unknown_tagged_fields).

Definition BeginQuorumEpochRequest_TopicData_valid (version : Z) (x : BeginQuorumEpochRequest_TopicData) :
    Prop :=
  utf8 (BeginQuorumEpochRequest_TopicData_topic_name x) ∧
  Forall (BeginQuorumEpochRequest_PartitionData_valid version)
      (BeginQuorumEpochRequest_TopicData_partitions x) ∧
  (if 1 <=? version then unknown_valid 0 (BeginQuorumEpochRequest_TopicData_unknown_tagged_fields x) else
      BeginQuorumEpochRequest_TopicData_unknown_tagged_fields x = ∅).

#[global] Instance BeginQuorumEpochRequest_TopicData_sound version : Sound
    (BeginQuorumEpochRequest_TopicData_codec version) (BeginQuorumEpochRequest_TopicData_valid version).
Proof. solve_message. Qed.

(* @ src/crates/kafka-protocol/src/messages/begin_quorum_epoch_request.rs 232-253 LeaderEndpoint *)
Record BeginQuorumEpochRequest_LeaderEndpoint : Type := mkBeginQuorumEpochRequest_LeaderEndpoint {
  BeginQuorumEpochRequest_LeaderEndpoint_name : list byte;
  BeginQuorumEpochRequest_LeaderEndpoint_host : list byte;
  BeginQuorumEpochRequest_LeaderEndpoint_port : Z;
  BeginQuorumEpochRequest_LeaderEndpoint_unknown_tagged_fields : TaggedFields
}.

(* @ src/crates/kafka-protocol/src/messages/begin_quorum_epoch_request.rs 415-424 LeaderEndpoint::default *)
Definition BeginQuorumEpochRequest_LeaderEndpoint_default : BeginQuorumEpochRequest_LeaderEndpoint := {|
  BeginQuorumEpochRequest_LeaderEndpoint_name := [];
  BeginQuorumEpochRequest_LeaderEndpoint_host := [];
  BeginQuorumEpochRequest_LeaderEndpoint_port := 0;
  BeginQuorumEpochRequest_LeaderEndpoint_unknown_tagged_fields := ∅
|}.

(* @ src/crates/kafka-protocol/src/messages/begin_quorum_epoch_request.rs 295-413 LeaderEndpoint::encode, compute_size, decode *)
Definition BeginQuorumEpochRequest_LeaderEndpoint_codec (version : Z) : Codec
    BeginQuorumEpochRequest_LeaderEndpoint :=
  message 0 1 version (build mkBeginQuorumEpochRequest_LeaderEndpoint
    ⊛ (if 1 <=? version then field BeginQuorumEpochRequest_LeaderEndpoint_name CompactString else unset
        BeginQuorumEpochRequest_LeaderEndpoint_name is_empty [])
    ⊛ (if 1 <=? version then field BeginQuorumEpochRequest_LeaderEndpoint_host CompactString else unset
        BeginQuorumEpochRequest_LeaderEndpoint_host is_empty [])
    ⊛ (if 1 <=? version then field BeginQuorumEpochRequest_LeaderEndpoint_port UInt16 else unset
        BeginQuorumEpochRequest_LeaderEndpoint_port (Z.eqb 0) 0)
    ⊛ unknown_tags (1 <=? version) BeginQuorumEpochRequest_LeaderEndpoint_unknown_tagged_fields).

Definition BeginQuorumEpochRequest_LeaderEndpoint_valid (version : Z) (x :
    BeginQuorumEpochRequest_LeaderEndpoint) : Prop :=
  utf8 (BeginQuorumEpochRequest_LeaderEndpoint_name x) ∧
  utf8 (BeginQuorumEpochRequest_LeaderEndpoint_host x) ∧
  in_unsigned 16 (BeginQuorumEpochRequest_LeaderEndpoint_port x) ∧
  (if 1 <=? version then unknown_valid 0 (BeginQuorumEpochRequest_LeaderEndpoint_unknown_tagged_fields x)
      else BeginQuorumEpochRequest_LeaderEndpoint_unknown_tagged_fields x = ∅).

#[global] Instance BeginQuorumEpochRequest_LeaderEndpoint_sound version : Sound
    (BeginQuorumEpochRequest_LeaderEndpoint_codec version) (BeginQuorumEpochRequest_LeaderEndpoint_valid
    version).
Proof. solve_message. Qed.

(* @ src/crates/kafka-protocol/src/messages/begin_quorum_epoch_request.rs 20-46 BeginQuorumEpochRequest *)
Record BeginQuorumEpochRequest : Type := mkBeginQuorumEpochRequest {
  BeginQuorumEpochRequest_cluster_id : option (list byte);
  BeginQuorumEpochRequest_voter_id : Z;
  BeginQuorumEpochRequest_topics : list BeginQuorumEpochRequest_TopicData;
  BeginQuorumEpochRequest_leader_endpoints : list BeginQuorumEpochRequest_LeaderEndpoint;
  BeginQuorumEpochRequest_unknown_tagged_fields : TaggedFields
}.

(* @ src/crates/kafka-protocol/src/messages/begin_quorum_epoch_request.rs 215-225 BeginQuorumEpochRequest::default *)
Definition BeginQuorumEpochRequest_default : BeginQuorumEpochRequest := {|
  BeginQuorumEpochRequest_cluster_id := None;
  BeginQuorumEpochRequest_voter_id := -1;
  BeginQuorumEpochRequest_topics := [];
  BeginQuorumEpochRequest_leader_endpoints := [];
  BeginQuorumEpochRequest_unknown_tagged_fields := ∅
|}.

(* @ src/crates/kafka-protocol/src/messages/begin_quorum_epoch_request.rs 97-213 BeginQuorumEpochRequest::encode, compute_size, decode *)
Definition BeginQuorumEpochRequest_codec (version : Z) : Codec BeginQuorumEpochRequest :=
  message 0 1 version (build mkBeginQuorumEpochRequest
    ⊛ (field BeginQuorumEpochRequest_cluster_id (if 1 <=? version then NullableCompactString else
        NullableString))
    ⊛ (if 1 <=? version then field BeginQuorumEpochRequest_voter_id Int32 else ignored (-1))
    ⊛ (field BeginQuorumEpochRequest_topics (if 1 <=? version then CompactArray (Struct
        BeginQuorumEpochRequest_TopicData_codec version) else Array (Struct
        BeginQuorumEpochRequest_TopicData_codec version)))
    ⊛ (if 1 <=? version then field BeginQuorumEpochRequest_leader_endpoints (CompactArray (Struct
        BeginQuorumEpochRequest_LeaderEndpoint_codec version)) else ignored [])
    ⊛ unknown_tags (1 <=? version) BeginQuorumEpochRequest_unknown_tagged_fields).

Definition BeginQuorumEpochRequest_valid (version : Z) (x : BeginQuorumEpochRequest) : Prop :=
  opt_all utf8 (BeginQuorumEpochRequest_cluster_id x) ∧
  (if 1 <=? version then in_signed 32 (BeginQuorumEpochRequest_voter_id x) else
      BeginQuorumEpochRequest_voter_id x = (-1)) ∧
  Forall (BeginQuorumEpochRequest_TopicData_valid version) (BeginQuorumEpochRequest_topics x) ∧
  (if 1 <=? version then Forall (BeginQuorumEpochRequest_LeaderEndpoint_valid version)
      (BeginQuorumEpochRequest_leader_endpoints x) else BeginQuorumEpochRequest_leader_endpoints x = []) ∧
  (if 1 <=? version then unknown_valid 0 (BeginQuorumEpochRequest_unknown_tagged_fields x) else
      BeginQuorumEpochRequest_unknown_tagged_fields x = ∅).

#[global] Instance BeginQuorumEpochRequest_sound version : Sound (BeginQuorumEpochRequest_codec version)
    (BeginQuorumEpochRequest_valid version).
Proof. solve_message. Qed.

(* @ src/crates/kafka-protocol/src/messages/begin_quorum_epoch_request.rs 766-774 BeginQuorumEpochRequest::header_version *)
Definition BeginQuorumEpochRequest_header_version (version : Z) : Z := if 1 <=? version then 2 else 1.

(* @ src/crates/kafka-protocol/src/messages/begin_quorum_epoch_request.rs 227-230 BeginQuorumEpochRequest::VERSIONS *)
Definition BeginQuorumEpochRequest_VERSIONS : Z * Z := (0, 1).

(** ** [begin_quorum_epoch_response] *)

(* @ src/crates/kafka-protocol/src/messages/begin_quorum_epoch_response.rs 421-447 PartitionData *)
Record BeginQuorumEpochResponse_PartitionData : Type := mkBeginQuorumEpochResponse_PartitionData {
  BeginQuorumEpochResponse_PartitionData_partition_index : Z;
  BeginQuorumEpochResponse_PartitionData_error_code : Z;
  BeginQuorumEpochResponse_PartitionData_leader_id : Z;
  BeginQuorumEpochResponse_PartitionData_leader_epoch : Z;
  BeginQuorumEpochResponse_PartitionData_unknown_tagged_fields : TaggedFields
}.

(* @ src/crates/kafka-protocol/src/messages/begin_quorum_epoch_response.rs 574-584 PartitionData::default *)
Definition BeginQuorumEpochResponse_PartitionData_default : BeginQuorumEpochResponse_PartitionData := {|
  BeginQuorumEpochResponse_PartitionData_partition_index := 0;
  BeginQuorumEpochResponse_PartitionData_error_code := 0;
  BeginQuorumEpochResponse_PartitionData_leader_id := 0;
  BeginQuorumEpochResponse_PartitionData_leader_epoch := 0;
  BeginQuorumEpochResponse_PartitionData_unknown_tagged_fields := ∅
|}.

(* @ src/crates/kafka-protocol/src/messages/begin_quorum_epoch_response.rs 498-572 PartitionData::encode, compute_size, decode *)
Definition BeginQuorumEpochResponse_PartitionData_codec (version : Z) : Codec
    BeginQuorumEpochResponse_PartitionData :=
  message 0 1 version (build mkBeginQuorumEpochResponse_PartitionData
    ⊛ (field BeginQuorumEpochResponse_PartitionData_partition_index Int32)
    ⊛ (field BeginQuorumEpochResponse_PartitionData_error_code Int16)
    ⊛ (field BeginQuorumEpochResponse_PartitionData_leader_id Int32)
    ⊛ (field BeginQuorumEpochResponse_PartitionData_leader_epoch Int32)
    ⊛ unknown_tags (1 <=? version) BeginQuorumEpochResponse_PartitionData_unknown_tagged_fields).

Definition BeginQuorumEpochResponse_PartitionData_valid (version : Z) (x :
    BeginQuorumEpochResponse_PartitionData) : Prop :=
  in_signed 32 (BeginQuorumEpochResponse_PartitionData_partition_index x) ∧
  in_signed 16 (BeginQuorumEpochResponse_PartitionData_error_code x) ∧
  in_signed 32 (BeginQuorumEpochResponse_PartitionData_leader_id x) ∧
  in_signed 32 (BeginQuorumEpochResponse_PartitionData_leader_epoch x) ∧
  (if 1 <=? version then unknown_valid 0 (BeginQuorumEpochResponse_PartitionData_unknown_tagged_fields x)
      else BeginQuorumEpochResponse_PartitionData_unknown_tagged_fields x = ∅).

#[global] Instance BeginQuorumEpochResponse_PartitionData_sound version : Sound
    (BeginQuorumEpochResponse_PartitionData_codec version) (BeginQuorumEpochResponse_PartitionData_valid
    version).
Proof. solve_message. Qed.

(* @ src/crates/kafka-protocol/src/messages/begin_quorum_epoch_response.rs 591-607 TopicData *)
Record BeginQuorumEpochResponse_TopicData : Type := mkBeginQuorumEpochResponse_TopicData {
  BeginQuorumEpochResponse_TopicData_topic_name : list byte;
  BeginQuorumEpochResponse_TopicData_partitions : list BeginQuorumEpochResponse_PartitionData;
  BeginQuorumEpochResponse_TopicData_unknown_tagged_fields : TaggedFields
}.

(* @ src/crates/kafka-protocol/src/messages/begin_quorum_epoch_response.rs 733-741 TopicData::default *)
Definition BeginQuorumEpochResponse_TopicData_default : BeginQuorumEpochResponse_TopicData := {|
  BeginQuorumEpochResponse_TopicData_topic_name := [];
  BeginQuorumEpochResponse_TopicData_partitions := [];
  BeginQuorumEpochResponse_TopicData_unknown_tagged_fields := ∅
|}.

(* @ src/crates/kafka-protocol/src/messages/begin_quorum_epoch_response.rs 640-731 TopicData::encode, compute_size, decode *)
Definition BeginQuorumEpochResponse_TopicData_codec (version : Z) : Codec
    BeginQuorumEpochResponse_TopicData :=
  message 0 1 version (build mkBeginQuorumEpochResponse_TopicData
    ⊛ (field BeginQuorumEpochResponse_TopicData_topic_name (if 1 <=? version then CompactString else
        KafkaString))
    ⊛ (field BeginQuorumEpochResponse_TopicData_partitions (if 1 <=? version then CompactArray (Struct
        BeginQuorumEpochResponse_PartitionData_codec version) else Array (Struct
        BeginQuorumEpochResponse_PartitionData_codec version)))
    ⊛ unknown_tags (1 <=? version) BeginQuorumEpochResponse_TopicData_unknown_tagged_fields).

Definition BeginQuorumEpochResponse_TopicData_valid (version : Z) (x : BeginQuorumEpochResponse_TopicData)
    : Prop :=
  utf8 (BeginQuorumEpochResponse_TopicData_topic_name x) ∧
  Forall (BeginQuorumEpochResponse_PartitionData_valid version)
      (BeginQuorumEpochResponse_TopicData_partitions x) ∧
  (if 1 <=? version then unknown_valid 0 (BeginQuorumEpochResponse_TopicData_unknown_tagged_fields x) else
      BeginQuorumEpochResponse_TopicData_unknown_tagged_fields x = ∅).

#[global] Instance BeginQuorumEpochResponse_TopicData_sound version : Sound
    (BeginQuorumEpochResponse_TopicData_codec version) (BeginQuorumEpochResponse_TopicData_valid version).
Proof. solve_message. Qed.

(* @ src/crates/kafka-protocol/src/messages/begin_quorum_epoch_response.rs 222-243 NodeEndpoint *)
Record BeginQuorumEpochResponse_NodeEndpoint : Type := mkBeginQuorumEpochResponse_NodeEndpoint {
  BeginQuorumEpochResponse_NodeEndpoint_node_id : Z;
  BeginQuorumEpochResponse_NodeEndpoint_host : list byte;
  BeginQuorumEpochResponse_NodeEndpoint_port : Z;
  BeginQuorumEpochResponse_NodeEndpoint_unknown_tagged_fields : TaggedFields
}.

(* @ src/crates/kafka-protocol/src/messages/begin_quorum_epoch_response.rs 405-414 NodeEndpoint::default *)
Definition BeginQuorumEpochResponse_NodeEndpoint_default : BeginQuorumEpochResponse_NodeEndpoint := {|
  BeginQuorumEpochResponse_NodeEndpoint_node_id := 0;
  BeginQuorumEpochResponse_NodeEndpoint_host := [];
  BeginQuorumEpochResponse_NodeEndpoint_port := 0;
  BeginQuorumEpochResponse_NodeEndpoint_unknown_tagged_fields := ∅
|}.

(* @ src/crates/kafka-protocol/src/messages/begin_quorum_epoch_response.rs 285-403 NodeEndpoint::encode, compute_size, decode *)
Definition BeginQuorumEpochResponse_NodeEndpoint_codec (version : Z) : Codec
    BeginQuorumEpochResponse_NodeEndpoint :=
  message 0 1 version (build mkBeginQuorumEpochResponse_NodeEndpoint
    ⊛ (if 1 <=? version then field BeginQuorumEpochResponse_NodeEndpoint_node_id Int32 else unset
        BeginQuorumEpochResponse_NodeEndpoint_node_id (Z.eqb 0) 0)
    ⊛ (if 1 <=? version then field BeginQuorumEpochResponse_NodeEndpoint_host CompactString else unset
        BeginQuorumEpochResponse_NodeEndpoint_host is_empty [])
    ⊛ (if 1 <=? version then field BeginQuorumEpochResponse_NodeEndpoint_port UInt16 else unset
        BeginQuorumEpochResponse_NodeEndpoint_port (Z.eqb 0) 0)
    ⊛ unknown_tags (1 <=? version) BeginQuorumEpochResponse_NodeEndpoint_unknown_tagged_fields).

Definition BeginQuorumEpochResponse_NodeEndpoint_valid (version : Z) (x :
    BeginQuorumEpochResponse_NodeEndpoint) : Prop :=
  in_signed 32 (BeginQuorumEpochResponse_NodeEndpoint_node_id x) ∧
  utf8 (BeginQuorumEpochResponse_NodeEndpoint_host x) ∧
  in_unsigned 16 (BeginQuorumEpochResponse_NodeEndpoint_port x) ∧
  (if 1 <=? version then unknown_valid 0 (BeginQuorumEpochResponse_NodeEndpoint_unknown_tagged_fields x)
      else BeginQuorumEpochResponse_NodeEndpoint_unknown_tagged_fields x = ∅).

#[global] Instance BeginQuorumEpochResponse_NodeEndpoint_sound version : Sound
    (BeginQuorumEpochResponse_NodeEndpoint_codec version) (BeginQuorumEpochResponse_NodeEndpoint_valid
    version).
Proof. solve_message. Qed.

(* @ src/crates/kafka-protocol/src/messages/begin_quorum_epoch_response.rs 20-41 BeginQuorumEpochResponse *)
Record BeginQuorumEpochResponse : Type := mkBeginQuorumEpochResponse {
  BeginQuorumEpochResponse_error_code : Z;
  BeginQuorumEpochResponse_topics : list BeginQuorumEpochResponse_TopicData;
  BeginQuorumEpochResponse_node_endpoints : list BeginQuorumEpochResponse_NodeEndpoint;
  BeginQuorumEpochResponse_unknown_tagged_fields : TaggedFields
}.

(* @ src/crates/kafka-protocol/src/messages/begin_quorum_epoch_response.rs 206-215 BeginQuorumEpochResponse::default *)
Definition BeginQuorumEpochResponse_default : BeginQuorumEpochResponse := {|
  BeginQuorumEpochResponse_error_code := 0;
  BeginQuorumEpochResponse_topics := [];
  BeginQuorumEpochResponse_node_endpoints := [];
  BeginQuorumEpochResponse_unknown_tagged_fields := ∅
|}.

(* @ src/crates/kafka-protocol/src/messages/begin_quorum_epoch_response.rs 83-204 BeginQuorumEpochResponse::encode, compute_size, decode *)
Definition BeginQuorumEpochResponse_codec (version : Z) : Codec BeginQuorumEpochResponse :=
  message 0 1 version (build (λ error_code topics '(node_endpoints, unknown_tagged_fields),
      mkBeginQuorumEpochResponse error_code topics node_endpoints unknown_tagged_fields)
    ⊛ (field BeginQuorumEpochResponse_error_code Int16)
    ⊛ (field BeginQuorumEpochResponse_topics (if 1 <=? version then CompactArray (Struct
        BeginQuorumEpochResponse_TopicData_codec version) else Array (Struct
        BeginQuorumEpochResponse_TopicData_codec version)))
    ⊛ tag_section (1 <=? version) [] [
       tagged 0 true BeginQuorumEpochResponse_node_endpoints is_empty (CompactArray (Struct
           BeginQuorumEpochResponse_NodeEndpoint_codec version)) (λ v _, v)] 1
           BeginQuorumEpochResponse_unknown_tagged_fields).

Definition BeginQuorumEpochResponse_valid (version : Z) (x : BeginQuorumEpochResponse) : Prop :=
  in_signed 16 (BeginQuorumEpochResponse_error_code x) ∧
  Forall (BeginQuorumEpochResponse_TopicData_valid version) (BeginQuorumEpochResponse_topics x) ∧
  (if 1 <=? version then Forall (BeginQuorumEpochResponse_NodeEndpoint_valid version)
      (BeginQuorumEpochResponse_node_endpoints x) else BeginQuorumEpochResponse_node_endpoints x = []) ∧
  (if 1 <=? version then unknown_valid 1 (BeginQuorumEpochResponse_unknown_tagged_fields x) else
      BeginQuorumEpochResponse_unknown_tagged_fields x = ∅).

#[global] Instance BeginQuorumEpochResponse_sound version : Sound (BeginQuorumEpochResponse_codec version)
    (BeginQuorumEpochResponse_valid version).
Proof. solve_tagged_message. Qed.

(* @ src/crates/kafka-protocol/src/messages/begin_quorum_epoch_response.rs 748-756 BeginQuorumEpochResponse::header_version *)
Definition BeginQuorumEpochResponse_header_version (version : Z) : Z := if 1 <=? version then 1 else 0.

(* @ src/crates/kafka-protocol/src/messages/begin_quorum_epoch_response.rs 217-220 BeginQuorumEpochResponse::VERSIONS *)
Definition BeginQuorumEpochResponse_VERSIONS : Z * Z := (0, 1).

(** ** [broker_heartbeat_request] *)

(* @ src/crates/kafka-protocol/src/messages/broker_heartbeat_request.rs 20-61 BrokerHeartbeatRequest *)
Record BrokerHeartbeatRequest : Type := mkBrokerHeartbeatRequest {
  BrokerHeartbeatRequest_broker_id : Z;
  BrokerHeartbeatRequest_broker_epoch : Z;
  BrokerHeartbeatRequest_current_metadata_offset : Z;
  BrokerHeartbeatRequest_want_fence : bool;
  BrokerHeartbeatRequest_want_shut_down : bool;
  BrokerHeartbeatRequest_offline_log_dirs : list Z;
  BrokerHeartbeatRequest_cordoned_log_dirs : option (list Z);
  BrokerHeartbeatRequest_unknown_tagged_fields : TaggedFields
}.

(* @ src/crates/kafka-protocol/src/messages/broker_heartbeat_request.rs 313-326 BrokerHeartbeatRequest::default *)
Definition BrokerHeartbeatRequest_default : BrokerHeartbeatRequest := {|
  BrokerHeartbeatRequest_broker_id := 0;
  BrokerHeartbeatRequest_broker_epoch := -1;
  BrokerHeartbeatRequest_current_metadata_offset := 0;
  BrokerHeartbeatRequest_want_fence := false;
  BrokerHeartbeatRequest_want_shut_down := false;
  BrokerHeartbeatRequest_offline_log_dirs := [];
  BrokerHeartbeatRequest_cordoned_log_dirs := None;
  BrokerHeartbeatRequest_unknown_tagged_fields := ∅
|}.

(* @ src/crates/kafka-protocol/src/messages/broker_heartbeat_request.rs 139-311 BrokerHeartbeatRequest::encode, compute_size, decode *)
Definition BrokerHeartbeatRequest_codec (version : Z) : Codec BrokerHeartbeatRequest :=
  message 0 2 version (build (λ broker_id broker_epoch current_metadata_offset want_fence want_shut_down
      '((offline_log_dirs, cordoned_log_dirs), unknown_tagged_fields), mkBrokerHeartbeatRequest broker_id
      broker_epoch current_metadata_offset want_fence want_shut_down offline_log_dirs cordoned_log_dirs
      unknown_tagged_fields)
    ⊛ (field BrokerHeartbeatRequest_broker_id Int32)
    ⊛ (field BrokerHeartbeatRequest_broker_epoch Int64)
    ⊛ (field BrokerHeartbeatRequest_current_metadata_offset Int64)
    ⊛ (field BrokerHeartbeatRequest_want_fence Boolean)
    ⊛ (field BrokerHeartbeatRequest_want_shut_down Boolean)
    ⊛ tag_section true ([], None) [
       tagged 0 (1 <=? version) BrokerHeartbeatRequest_offline_log_dirs is_empty (CompactArray Uuid) (λ v
           '(_, cordoned_log_dirs), (v, cordoned_log_dirs));
       tagged 1 (2 <=? version) BrokerHeartbeatRequest_cordoned_log_dirs is_none (NullableCompactArray
           Uuid) (λ v '(offline_log_dirs, _), (offline_log_dirs, v))] 2
           BrokerHeartbeatRequest_unknown_tagged_fields).

Definition BrokerHeartbeatRequest_valid (version : Z) (x : BrokerHeartbeatRequest) : Prop :=
  in_signed 32 (BrokerHeartbeatRequest_broker_id x) ∧
  in_signed 64 (BrokerHeartbeatRequest_broker_epoch x) ∧
  in_signed 64 (BrokerHeartbeatRequest_current_metadata_offset x) ∧
  (if 1 <=? version then Forall (in_unsigned 128) (BrokerHeartbeatRequest_offline_log_dirs x) else
      BrokerHeartbeatRequest_offline_log_dirs x = []) ∧
  (if 2 <=? version then opt_all (Forall (in_unsigned 128)) (BrokerHeartbeatRequest_cordoned_log_dirs x)
      else BrokerHeartbeatRequest_cordoned_log_dirs x = None) ∧
  unknown_valid 2 (BrokerHeartbeatRequest_unknown_tagged_fields x).

#[global] Instance BrokerHeartbeatRequest_sound version : Sound (BrokerHeartbeatRequest_codec version)
    (BrokerHeartbeatRequest_valid version).
Proof. solve_tagged_message. Qed.

(* @ src/crates/kafka-protocol/src/messages/broker_heartbeat_request.rs 333-337 BrokerHeartbeatRequest::header_version *)
Definition BrokerHeartbeatRequest_header_version (version : Z) : Z := 2.

(* @ src/crates/kafka-protocol/src/messages/broker_heartbeat_request.rs 328-331 BrokerHeartbeatRequest::VERSIONS *)
Definition BrokerHeartbeatRequest_VERSIONS : Z * Z := (0, 2).

(** ** [broker_heartbeat_response] *)

(* @ src/crates/kafka-protocol/src/messages/broker_heartbeat_response.rs 20-51 BrokerHeartbeatResponse *)
Record BrokerHeartbeatResponse : Type := mkBrokerHeartbeatResponse {
  BrokerHeartbeatResponse_throttle_time_ms : Z;
  BrokerHeartbeatResponse_error_code : Z;
  BrokerHeartbeatResponse_is_caught_up : bool;
  BrokerHeartbeatResponse_is_fenced : bool;
  BrokerHeartbeatResponse_should_shut_down : bool;
  BrokerHeartbeatResponse_unknown_tagged_fields : TaggedFields
}.

(* @ src/crates/kafka-protocol/src/messages/broker_heartbeat_response.rs 185-196 BrokerHeartbeatResponse::default *)
Definition BrokerHeartbeatResponse_default : BrokerHeartbeatResponse := {|
  BrokerHeartbeatResponse_throttle_time_ms := 0;
  BrokerHeartbeatResponse_error_code := 0;
  BrokerHeartbeatResponse_is_caught_up := false;
  BrokerHeartbeatResponse_is_fenced := true;
  BrokerHeartbeatResponse_should_shut_down := false;
  BrokerHeartbeatResponse_unknown_tagged_fields := ∅
|}.

(* @ src/crates/kafka-protocol/src/messages/broker_heartbeat_response.rs 111-183 BrokerHeartbeatResponse::encode, compute_size, decode *)
Definition BrokerHeartbeatResponse_codec (version : Z) : Codec BrokerHeartbeatResponse :=
  message 0 2 version (build mkBrokerHeartbeatResponse
    ⊛ (field BrokerHeartbeatResponse_throttle_time_ms Int32)
    ⊛ (field BrokerHeartbeatResponse_error_code Int16)
    ⊛ (field BrokerHeartbeatResponse_is_caught_up Boolean)
    ⊛ (field BrokerHeartbeatResponse_is_fenced Boolean)
    ⊛ (field BrokerHeartbeatResponse_should_shut_down Boolean)
    ⊛ unknown_tags true BrokerHeartbeatResponse_unknown_tagged_fields).

Definition BrokerHeartbeatResponse_valid (version : Z) (x : BrokerHeartbeatResponse) : Prop :=
  in_signed 32 (BrokerHeartbeatResponse_throttle_time_ms x) ∧
  in_signed 16 (BrokerHeartbeatResponse_error_code x) ∧
  unknown_valid 0 (BrokerHeartbeatResponse_unknown_tagged_fields x).

#[global] Instance BrokerHeartbeatResponse_sound version : Sound (BrokerHeartbeatResponse_codec version)
    (BrokerHeartbeatResponse_valid version).
Proof. solve_message. Qed.

(* @ src/crates/kafka-protocol/src/messages/broker_heartbeat_response.rs 203-207 BrokerHeartbeatResponse::header_version *)
Definition BrokerHeartbeatResponse_header_version (version : Z) : Z := 1.

(* @ src/crates/kafka-protocol/src/messages/broker_heartbeat_response.rs 198-201 BrokerHeartbeatResponse::VERSIONS *)
Definition BrokerHeartbeatResponse_VERSIONS : Z * Z := (0, 2).

(** ** [broker_registration_request] *)

(* @ src/crates/kafka-protocol/src/messages/broker_registration_request.rs 458-484 Listener *)
Record BrokerRegistrationRequest_Listener : Type := mkBrokerRegistrationRequest_Listener {
  BrokerRegistrationRequest_Listener_name : list byte;
  BrokerRegistrationRequest_Listener_host : list byte;
  BrokerRegistrationRequest_Listener_port : Z;
  BrokerRegistrationRequest_Listener_security_protocol : Z;
  BrokerRegistrationRequest_Listener_unknown_tagged_fields : TaggedFields
}.

(* @ src/crates/kafka-protocol/src/messages/broker_registration_request.rs 605-615 Listener::default *)
Definition BrokerRegistrationRequest_Listener_default : BrokerRegistrationRequest_Listener := {|
  BrokerRegistrationRequest_Listener_name := [];
  BrokerRegistrationRequest_Listener_host := [];
  BrokerRegistrationRequest_Listener_port := 0;
  BrokerRegistrationRequest_Listener_security_protocol := 0;
  BrokerRegistrationRequest_Listener_unknown_tagged_fields := ∅
|}.

(* @ src/crates/kafka-protocol/src/messages/broker_registration_request.rs 535-603 Listener::encode, compute_size, decode *)
Definition BrokerRegistrationRequest_Listener_codec (version : Z) : Codec
    BrokerRegistrationRequest_Listener :=
  message 0 4 version (build mkBrokerRegistrationRequest_Listener
    ⊛ (field BrokerRegistrationRequest_Listener_name CompactString)
    ⊛ (field BrokerRegistrationRequest_Listener_host CompactString)
    ⊛ (field BrokerRegistrationRequest_Listener_port UInt16)
    ⊛ (field BrokerRegistrationRequest_Listener_security_protocol Int16)
    ⊛ unknown_tags true BrokerRegistrationRequest_Listener_unknown_tagged_fields).

Definition BrokerRegistrationRequest_Listener_valid (version : Z) (x : BrokerRegistrationRequest_Listener)
    : Prop :=
  utf8 (BrokerRegistrationRequest_Listener_name x) ∧
  utf8 (BrokerRegistrationRequest_Listener_host x) ∧
  in_unsigned 16 (BrokerRegistrationRequest_Listener_port x) ∧
  in_signed 16 (BrokerRegistrationRequest_Listener_security_protocol x) ∧
  unknown_valid 0 (BrokerRegistrationRequest_Listener_unknown_tagged_fields x).

#[global] Instance BrokerRegistrationRequest_Listener_sound version : Sound
    (BrokerRegistrationRequest_Listener_codec version) (BrokerRegistrationRequest_Listener_valid version).
Proof. solve_message. Qed.

(* @ src/crates/kafka-protocol/src/messages/broker_registration_request.rs 313-334 Feature *)
Record BrokerRegistrationRequest_Feature : Type := mkBrokerRegistrationRequest_Feature {
  BrokerRegistrationRequest_Feature_name : list byte;
  BrokerRegistrationRequest_Feature_min_supported_version : Z;
  BrokerRegistrationRequest_Feature_max_supported_version : Z;
  BrokerRegistrationRequest_Feature_unknown_tagged_fields : TaggedFields
}.

(* @ src/crates/kafka-protocol/src/messages/broker_registration_request.rs 442-451 Feature::default *)
Definition BrokerRegistrationRequest_Feature_default : BrokerRegistrationRequest_Feature := {|
  BrokerRegistrationRequest_Feature_name := [];
  BrokerRegistrationRequest_Feature_min_supported_version := 0;
  BrokerRegistrationRequest_Feature_max_supported_version := 0;
  BrokerRegistrationRequest_Feature_unknown_tagged_fields := ∅
|}.

(* @ src/crates/kafka-protocol/src/messages/broker_registration_request.rs 376-440 Feature::encode, compute_size, decode *)
Definition BrokerRegistrationRequest_Feature_codec (version : Z) : Codec BrokerRegistrationRequest_Feature
    :=
  message 0 4 version (build mkBrokerRegistrationRequest_Feature
    ⊛ (field BrokerRegistrationRequest_Feature_name CompactString)
    ⊛ (field BrokerRegistrationRequest_Feature_min_supported_version Int16)
    ⊛ (field BrokerRegistrationRequest_Feature_max_supported_version Int16)
    ⊛ unknown_tags true BrokerRegistrationRequest_Feature_unknown_tagged_fields).

Definition BrokerRegistrationRequest_Feature_valid (version : Z) (x : BrokerRegistrationRequest_Feature) :
    Prop :=
  utf8 (BrokerRegistrationRequest_Feature_name x) ∧
  in_signed 16 (BrokerRegistrationRequest_Feature_min_supported_version x) ∧
  in_signed 16 (BrokerRegistrationRequest_Feature_max_supported_version x) ∧
  unknown_valid 0 (BrokerRegistrationRequest_Feature_unknown_tagged_fields x).

#[global] Instance BrokerRegistrationRequest_Feature_sound version : Sound
    (BrokerRegistrationRequest_Feature_codec version) (BrokerRegistrationRequest_Feature_valid version).
Proof. solve_message. Qed.

(* @ src/crates/kafka-protocol/src/messages/broker_registration_request.rs 20-71 BrokerRegistrationRequest *)
Record BrokerRegistrationRequest : Type := mkBrokerRegistrationRequest {
  BrokerRegistrationRequest_broker_id : Z;
  BrokerRegistrationRequest_cluster_id : list byte;
  BrokerRegistrationRequest_incarnation_id : Z;
  BrokerRegistrationRequest_listeners : list BrokerRegistrationRequest_Listener;
  BrokerRegistrationRequest_features : list BrokerRegistrationRequest_Feature;
  BrokerRegistrationRequest_rack : option (list byte);
  BrokerRegistrationRequest_is_migrating_zk_broker : bool;
  BrokerRegistrationRequest_log_dirs : list Z;
  BrokerRegistrationRequest_previous_broker_epoch : Z;
  BrokerRegistrationRequest_unknown_tagged_fields : TaggedFields
}.

(* @ src/crates/kafka-protocol/src/messages/broker_registration_request.rs 291-306 BrokerRegistrationRequest::default *)
Definition BrokerRegistrationRequest_default : BrokerRegistrationRequest := {|
  BrokerRegistrationRequest_broker_id := 0;
  BrokerRegistrationRequest_cluster_id := [];
  BrokerRegistrationRequest_incarnation_id := 0;
  BrokerRegistrationRequest_listeners := [];
  BrokerRegistrationRequest_features := [];
  BrokerRegistrationRequest_rack := Some [];
  BrokerRegistrationRequest_is_migrating_zk_broker := false;
  BrokerRegistrationRequest_log_dirs := [];
  BrokerRegistrationRequest_previous_broker_epoch := -1;
  BrokerRegistrationRequest_unknown_tagged_fields := ∅
|}.

(* @ src/crates/kafka-protocol/src/messages/broker_registration_request.rs 167-289 BrokerRegistrationRequest::encode, compute_size, decode *)
Definition BrokerRegistrationRequest_codec (version : Z) : Codec BrokerRegistrationRequest :=
  message 0 4 version (build mkBrokerRegistrationRequest
    ⊛ (field BrokerRegistrationRequest_broker_id Int32)
    ⊛ (field BrokerRegistrationRequest_cluster_id CompactString)
    ⊛ (field BrokerRegistrationRequest_incarnation_id Uuid)
    ⊛ (field BrokerRegistrationRequest_listeners (CompactArray (Struct
        BrokerRegistrationRequest_Listener_codec version)))
    ⊛ (field BrokerRegistrationRequest_features (CompactArray (Struct
        BrokerRegistrationRequest_Feature_codec version)))
    ⊛ (field BrokerRegistrationRequest_rack NullableCompactString)
    ⊛ (if 1 <=? version then field BrokerRegistrationRequest_is_migrating_zk_broker Boolean else unset
        BrokerRegistrationRequest_is_migrating_zk_broker negb false)
    ⊛ (if 2 <=? version then field BrokerRegistrationRequest_log_dirs (CompactArray Uuid) else ignored [])
    ⊛ (if 3 <=? version then field BrokerRegistrationRequest_previous_broker_epoch Int64 else ignored (-1))
    ⊛ unknown_tags true BrokerRegistrationRequest_unknown_tagged_fields).

Definition BrokerRegistrationRequest_valid (version : Z) (x : BrokerRegistrationRequest) : Prop :=
  in_signed 32 (BrokerRegistrationRequest_broker_id x) ∧
  utf8 (BrokerRegistrationRequest_cluster_id x) ∧
  in_unsigned 128 (BrokerRegistrationRequest_incarnation_id x) ∧
  Forall (BrokerRegistrationRequest_Listener_valid version) (BrokerRegistrationRequest_listeners x) ∧
  Forall (BrokerRegistrationRequest_Feature_valid version) (BrokerRegistrationRequest_features x) ∧
  opt_all utf8 (BrokerRegistrationRequest_rack x) ∧
  (if 2 <=? version then Forall (in_unsigned 128) (BrokerRegistrationRequest_log_dirs x) else
      BrokerRegistrationRequest_log_dirs x = []) ∧
  (if 3 <=? version then in_signed 64 (BrokerRegistrationRequest_previous_broker_epoch x) else
      BrokerRegistrationRequest_previous_broker_epoch x = (-1)) ∧
  unknown_valid 0 (BrokerRegistrationRequest_unknown_tagged_fields x).

#[global] Instance BrokerRegistrationRequest_sound version : Sound (BrokerRegistrationRequest_codec
    version) (BrokerRegistrationRequest_valid version).
Proof. solve_message. Qed.

(* @ src/crates/kafka-protocol/src/messages/broker_registration_request.rs 622-626 BrokerRegistrationRequest::header_version *)
Definition BrokerRegistrationRequest_header_version (version : Z) : Z := 2.

(* @ src/crates/kafka-protocol/src/messages/broker_registration_request.rs 308-311 BrokerRegistrationRequest::VERSIONS *)
Definition BrokerRegistrationRequest_VERSIONS : Z * Z := (0, 4).

(** ** [broker_registration_response] *)

(* @ src/crates/kafka-protocol/src/messages/broker_registration_response.rs 20-41 BrokerRegistrationResponse *)
Record BrokerRegistrationResponse : Type := mkBrokerRegistrationResponse {
  BrokerRegistrationResponse_throttle_time_ms : Z;
  BrokerRegistrationResponse_error_code : Z;
  BrokerRegistrationResponse_broker_epoch : Z;
  BrokerRegistrationResponse_unknown_tagged_fields : TaggedFields
}.

(* @ src/crates/kafka-protocol/src/messages/broker_registration_response.rs 149-158 BrokerRegistrationResponse::default *)
Definition BrokerRegistrationResponse_default : BrokerRegistrationResponse := {|
  BrokerRegistrationResponse_throttle_time_ms := 0;
  BrokerRegistrationResponse_error_code := 0;
  BrokerRegistrationResponse_broker_epoch := -1;
  BrokerRegistrationResponse_unknown_tagged_fields := ∅
|}.

(* @ src/crates/kafka-protocol/src/messages/broker_registration_response.rs 83-147 BrokerRegistrationResponse::encode, compute_size, decode *)
Definition BrokerRegistrationResponse_codec (version : Z) : Codec BrokerRegistrationResponse :=
  message 0 4 version (build mkBrokerRegistrationResponse
    ⊛ (field BrokerRegistrationResponse_throttle_time_ms Int32)
    ⊛ (field BrokerRegistrationResponse_error_code Int16)
    ⊛ (field BrokerRegistrationResponse_broker_epoch Int64)
    ⊛ unknown_tags true BrokerRegistrationResponse_unknown_tagged_fields).

Definition BrokerRegistrationResponse_valid (version : Z) (x : BrokerRegistrationResponse) : Prop :=
  in_signed 32 (BrokerRegistrationResponse_throttle_time_ms x) ∧
  in_signed 16 (BrokerRegistrationResponse_error_code x) ∧
  in_signed 64 (BrokerRegistrationResponse_broker_epoch x) ∧
  unknown_valid 0 (BrokerRegistrationResponse_unknown_tagged_fields x).

#[global] Instance BrokerRegistrationResponse_sound version : Sound (BrokerRegistrationResponse_codec
    version) (BrokerRegistrationResponse_valid version).
Proof. solve_message. Qed.

(* @ src/crates/kafka-protocol/src/messages/broker_registration_response.rs 165-169 BrokerRegistrationResponse::header_version *)
Definition BrokerRegistrationResponse_header_version (version : Z) : Z := 1.

(* @ src/crates/kafka-protocol/src/messages/broker_registration_response.rs 160-163 BrokerRegistrationResponse::VERSIONS *)
Definition BrokerRegistrationResponse_VERSIONS : Z * Z := (0, 4).

(** ** [control_record_type_schema] *)

(* @ src/crates/kafka-protocol/src/messages/control_record_type_schema.rs 20-28 ControlRecordTypeSchema *)
Record ControlRecordTypeSchema : Type := mkControlRecordTypeSchema {
  ControlRecordTypeSchema__type : Z
}.

(* @ src/crates/kafka-protocol/src/messages/control_record_type_schema.rs 69-73 ControlRecordTypeSchema::default *)
Definition ControlRecordTypeSchema_default : ControlRecordTypeSchema := {|
  ControlRecordTypeSchema__type := 0
|}.

(* @ src/crates/kafka-protocol/src/messages/control_record_type_schema.rs 42-67 ControlRecordTypeSchema::encode, compute_size, decode *)
Definition ControlRecordTypeSchema_codec (version : Z) : Codec ControlRecordTypeSchema :=
  message 0 0 version (build mkControlRecordTypeSchema
    ⊛ (field ControlRecordTypeSchema__type Int16)).

Definition ControlRecordTypeSchema_valid (version : Z) (x : ControlRecordTypeSchema) : Prop :=
  in_signed 16 (ControlRecordTypeSchema__type x).

#[global] Instance ControlRecordTypeSchema_sound version : Sound (ControlRecordTypeSchema_codec version)
    (ControlRecordTypeSchema_valid version).
Proof. solve_message. Qed.

(** ** [controller_registration_request] *)

(* @ src/crates/kafka-protocol/src/messages/controller_registration_request.rs 350-376 Listener *)
Record ControllerRegistrationRequest_Listener : Type := mkControllerRegistrationRequest_Listener {
  ControllerRegistrationRequest_Listener_name : list byte;
  ControllerRegistrationRequest_Listener_host : list byte;
  ControllerRegistrationRequest_Listener_port : Z;
  ControllerRegistrationRequest_Listener_security_protocol : Z;
  ControllerRegistrationRequest_Listener_unknown_tagged_fields : TaggedFields
}.

(* @ src/crates/kafka-protocol/src/messages/controller_registration_request.rs 497-507 Listener::default *)
Definition ControllerRegistrationRequest_Listener_default : ControllerRegistrationRequest_Listener := {|
  ControllerRegistrationRequest_Listener_name := [];
  ControllerRegistrationRequest_Listener_host := [];
  ControllerRegistrationRequest_Listener_port := 0;
  ControllerRegistrationRequest_Listener_security_protocol := 0;
  ControllerRegistrationRequest_Listener_unknown_tagged_fields := ∅
|}.

(* @ src/crates/kafka-protocol/src/messages/controller_registration_request.rs 427-495 Listener::encode, compute_size, decode *)
Definition ControllerRegistrationRequest_Listener_codec (version : Z) : Codec
    ControllerRegistrationRequest_Listener :=
  message 0 0 version (build mkControllerRegistrationRequest_Listener
    ⊛ (field ControllerRegistrationRequest_Listener_name CompactString)
    ⊛ (field ControllerRegistrationRequest_Listener_host CompactString)
    ⊛ (field ControllerRegistrationRequest_Listener_port UInt16)
    ⊛ (field ControllerRegistrationRequest_Listener_security_protocol Int16)
    ⊛ unknown_tags true ControllerRegistrationRequest_Listener_unknown_tagged_fields).

Definition ControllerRegistrationRequest_Listener_valid (version : Z) (x :
    ControllerRegistrationRequest_Listener) : Prop :=
  utf8 (ControllerRegistrationRequest_Listener_name x) ∧
  utf8 (ControllerRegistrationRequest_Listener_host x) ∧
  in_unsigned 16 (ControllerRegistrationRequest_Listener_port x) ∧
  in_signed 16 (ControllerRegistrationRequest_Listener_security_protocol x) ∧
  unknown_valid 0 (ControllerRegistrationRequest_Listener_unknown_tagged_fields x).

#[global] Instance ControllerRegistrationRequest_Listener_sound version : Sound
    (ControllerRegistrationRequest_Listener_codec version) (ControllerRegistrationRequest_Listener_valid
    version).
Proof. solve_message. Qed.

(* @ src/crates/kafka-protocol/src/messages/controller_registration_request.rs 205-226 Feature *)
Record ControllerRegistrationRequest_Feature : Type := mkControllerRegistrationRequest_Feature {
  ControllerRegistrationRequest_Feature_name : list byte;
  ControllerRegistrationRequest_Feature_min_supported_version : Z;
  ControllerRegistrationRequest_Feature_max_supported_version : Z;
  ControllerRegistrationRequest_Feature_unknown_tagged_fields : TaggedFields
}.

(* @ src/crates/kafka-protocol/src/messages/controller_registration_request.rs 334-343 Feature::default *)
Definition ControllerRegistrationRequest_Feature_default : ControllerRegistrationRequest_Feature := {|
  ControllerRegistrationRequest_Feature_name := [];
  ControllerRegistrationRequest_Feature_min_supported_version := 0;
  ControllerRegistrationRequest_Feature_max_supported_version := 0;
  ControllerRegistrationRequest_Feature_unknown_tagged_fields := ∅
|}.

(* @ src/crates/kafka-protocol/src/messages/controller_registration_request.rs 268-332 Feature::encode, compute_size, decode *)
Definition ControllerRegistrationRequest_Feature_codec (version : Z) : Codec
    ControllerRegistrationRequest_Feature :=
  message 0 0 version (build mkControllerRegistrationRequest_Feature
    ⊛ (field ControllerRegistrationRequest_Feature_name CompactString)
    ⊛ (field ControllerRegistrationRequest_Feature_min_supported_version Int16)
    ⊛ (field ControllerRegistrationRequest_Feature_max_supported_version Int16)
    ⊛ unknown_tags true ControllerRegistrationRequest_Feature_unknown_tagged_fields).

Definition ControllerRegistrationRequest_Feature_valid (version : Z) (x :
    ControllerRegistrationRequest_Feature) : Prop :=
  utf8 (ControllerRegistrationRequest_Feature_name x) ∧
  in_signed 16 (ControllerRegistrationRequest_Feature_min_supported_version x) ∧
  in_signed 16 (ControllerRegistrationRequest_Feature_max_supported_version x) ∧
  unknown_valid 0 (ControllerRegistrationRequest_Feature_unknown_tagged_fields x).

#[global] Instance ControllerRegistrationRequest_Feature_sound version : Sound
    (ControllerRegistrationRequest_Feature_codec version) (ControllerRegistrationRequest_Feature_valid
    version).
Proof. solve_message. Qed.

(* @ src/crates/kafka-protocol/src/messages/controller_registration_request.rs 20-51 ControllerRegistrationRequest *)
Record ControllerRegistrationRequest : Type := mkControllerRegistrationRequest {
  ControllerRegistrationRequest_controller_id : Z;
  ControllerRegistrationRequest_incarnation_id : Z;
  ControllerRegistrationRequest_zk_migration_ready : bool;
  ControllerRegistrationRequest_listeners : list ControllerRegistrationRequest_Listener;
  ControllerRegistrationRequest_features : list ControllerRegistrationRequest_Feature;
  ControllerRegistrationRequest_unknown_tagged_fields : TaggedFields
}.

(* @ src/crates/kafka-protocol/src/messages/controller_registration_request.rs 187-198 ControllerRegistrationRequest::default *)
Definition ControllerRegistrationRequest_default : ControllerRegistrationRequest := {|
  ControllerRegistrationRequest_controller_id := 0;
  ControllerRegistrationRequest_incarnation_id := 0;
  ControllerRegistrationRequest_zk_migration_ready := false;
  ControllerRegistrationRequest_listeners := [];
  ControllerRegistrationRequest_features := [];
  ControllerRegistrationRequest_unknown_tagged_fields := ∅
|}.

(* @ src/crates/kafka-protocol/src/messages/controller_registration_request.rs 111-185 ControllerRegistrationRequest::encode, compute_size, decode *)
Definition ControllerRegistrationRequest_codec (version : Z) : Codec ControllerRegistrationRequest :=
  message 0 0 version (build mkControllerRegistrationRequest
    ⊛ (field ControllerRegistrationRequest_controller_id Int32)
    ⊛ (field ControllerRegistrationRequest_incarnation_id Uuid)
    ⊛ (field ControllerRegistrationRequest_zk_migration_ready Boolean)
    ⊛ (field ControllerRegistrationRequest_listeners (CompactArray (Struct
        ControllerRegistrationRequest_Listener_codec version)))
    ⊛ (field ControllerRegistrationRequest_features (CompactArray (Struct
        ControllerRegistrationRequest_Feature_codec version)))
    ⊛ unknown_tags true ControllerRegistrationRequest_unknown_tagged_fields).

Definition ControllerRegistrationRequest_valid (version : Z) (x : ControllerRegistrationRequest) : Prop :=
  in_signed 32 (ControllerRegistrationRequest_controller_id x) ∧
  in_unsigned 128 (ControllerRegistrationRequest_incarnation_id x) ∧
  Forall (ControllerRegistrationRequest_Listener_valid version) (ControllerRegistrationRequest_listeners x)
      ∧
  Forall (ControllerRegistrationRequest_Feature_valid version) (ControllerRegistrationRequest_features x) ∧
  unknown_valid 0 (ControllerRegistrationRequest_unknown_tagged_fields x).

#[global] Instance ControllerRegistrationRequest_sound version : Sound (ControllerRegistrationRequest_codec
    version) (ControllerRegistrationRequest_valid version).
Proof. solve_message. Qed.

(* @ src/crates/kafka-protocol/src/messages/controller_registration_request.rs 514-518 ControllerRegistrationRequest::header_version *)
Definition ControllerRegistrationRequest_header_version (version : Z) : Z := 2.

(* @ src/crates/kafka-protocol/src/messages/controller_registration_request.rs 200-203 ControllerRegistrationRequest::VERSIONS *)
Definition ControllerRegistrationRequest_VERSIONS : Z * Z := (0, 0).

(** ** [controller_registration_response] *)

(* @ src/crates/kafka-protocol/src/messages/controller_registration_response.rs 20-41 ControllerRegistrationResponse *)
Record ControllerRegistrationResponse : Type := mkControllerRegistrationResponse {
  ControllerRegistrationResponse_throttle_time_ms : Z;
  ControllerRegistrationResponse_error_code : Z;
  ControllerRegistrationResponse_error_message : option (list byte);
  ControllerRegistrationResponse_unknown_tagged_fields : TaggedFields
}.

(* @ src/crates/kafka-protocol/src/messages/controller_registration_response.rs 149-158 ControllerRegistrationResponse::default *)
Definition ControllerRegistrationResponse_default : ControllerRegistrationResponse := {|
  ControllerRegistrationResponse_throttle_time_ms := 0;
  ControllerRegistrationResponse_error_code := 0;
  ControllerRegistrationResponse_error_message := Some [];
  ControllerRegistrationResponse_unknown_tagged_fields := ∅
|}.

(* @ src/crates/kafka-protocol/src/messages/controller_registration_response.rs 83-147 ControllerRegistrationResponse::encode, compute_size, decode *)
Definition ControllerRegistrationResponse_codec (version : Z) : Codec ControllerRegistrationResponse :=
  message 0 0 version (build mkControllerRegistrationResponse
    ⊛ (field ControllerRegistrationResponse_throttle_time_ms Int32)
    ⊛ (field ControllerRegistrationResponse_error_code Int16)
    ⊛ (field ControllerRegistrationResponse_error_message NullableCompactString)
    ⊛ unknown_tags true ControllerRegistrationResponse_unknown_tagged_fields).

Definition ControllerRegistrationResponse_valid (version : Z) (x : ControllerRegistrationResponse) : Prop :=
  in_signed 32 (ControllerRegistrationResponse_throttle_time_ms x) ∧
  in_signed 16 (ControllerRegistrationResponse_error_code x) ∧
  opt_all utf8 (ControllerRegistrationResponse_error_message x) ∧
  unknown_valid 0 (ControllerRegistrationResponse_unknown_tagged_fields x).

#[global] Instance ControllerRegistrationResponse_sound version : Sound
    (ControllerRegistrationResponse_codec version) (ControllerRegistrationResponse_valid version).
Proof. solve_message. Qed.

(* @ src/crates/kafka-protocol/src/messages/controller_registration_response.rs 165-169 ControllerRegistrationResponse::header_version *)
Definition ControllerRegistrationResponse_header_version (version : Z) : Z := 1.

(* @ src/crates/kafka-protocol/src/messages/controller_registration_response.rs 160-163 ControllerRegistrationResponse::VERSIONS *)
Definition ControllerRegistrationResponse_VERSIONS : Z * Z := (0, 0).

(** ** [describe_quorum_request] *)

(* @ src/crates/kafka-protocol/src/messages/describe_quorum_request.rs 127-138 PartitionData *)
Record DescribeQuorumRequest_PartitionData : Type := mkDescribeQuorumRequest_PartitionData {
  DescribeQuorumRequest_PartitionData_partition_index : Z;
  DescribeQuorumRequest_PartitionData_unknown_tagged_fields : TaggedFields
}.

(* @ src/crates/kafka-protocol/src/messages/describe_quorum_request.rs 220-227 PartitionData::default *)
Definition DescribeQuorumRequest_PartitionData_default : DescribeQuorumRequest_PartitionData := {|
  DescribeQuorumRequest_PartitionData_partition_index := 0;
  DescribeQuorumRequest_PartitionData_unknown_tagged_fields := ∅
|}.

(* @ src/crates/kafka-protocol/src/messages/describe_quorum_request.rs 162-218 PartitionData::encode, compute_size, decode *)
Definition DescribeQuorumRequest_PartitionData_codec (version : Z) : Codec
    DescribeQuorumRequest_PartitionData :=
  message 0 2 version (build mkDescribeQuorumRequest_PartitionData
    ⊛ (field DescribeQuorumRequest_PartitionData_partition_index Int32)
    ⊛ unknown_tags true DescribeQuorumRequest_PartitionData_unknown_tagged_fields).

Definition DescribeQuorumRequest_PartitionData_valid (version : Z) (x :
    DescribeQuorumRequest_PartitionData) : Prop :=
  in_signed 32 (DescribeQuorumRequest_PartitionData_partition_index x) ∧
  unknown_valid 0 (DescribeQuorumRequest_PartitionData_unknown_tagged_fields x).

#[global] Instance DescribeQuorumRequest_PartitionData_sound version : Sound
    (DescribeQuorumRequest_PartitionData_codec version) (DescribeQuorumRequest_PartitionData_valid version).
Proof. solve_message. Qed.

(* @ src/crates/kafka-protocol/src/messages/describe_quorum_request.rs 234-250 TopicData *)
Record DescribeQuorumRequest_TopicData : Type := mkDescribeQuorumRequest_TopicData {
  DescribeQuorumRequest_TopicData_topic_name : list byte;
  DescribeQuorumRequest_TopicData_partitions : list DescribeQuorumRequest_PartitionData;
  DescribeQuorumRequest_TopicData_unknown_tagged_fields : TaggedFields
}.

(* @ src/crates/kafka-protocol/src/messages/describe_quorum_request.rs 346-354 TopicData::default *)
Definition DescribeQuorumRequest_TopicData_default : DescribeQuorumRequest_TopicData := {|
  DescribeQuorumRequest_TopicData_topic_name := [];
  DescribeQuorumRequest_TopicData_partitions := [];
  DescribeQuorumRequest_TopicData_unknown_tagged_fields := ∅
|}.

(* @ src/crates/kafka-protocol/src/messages/describe_quorum_request.rs 283-344 TopicData::encode, compute_size, decode *)
Definition DescribeQuorumRequest_TopicData_codec (version : Z) : Codec DescribeQuorumRequest_TopicData :=
  message 0 2 version (build mkDescribeQuorumRequest_TopicData
    ⊛ (field DescribeQuorumRequest_TopicData_topic_name CompactString)
    ⊛ (field DescribeQuorumRequest_TopicData_partitions (CompactArray (Struct
        DescribeQuorumRequest_PartitionData_codec version)))
    ⊛ unknown_tags true DescribeQuorumRequest_TopicData_unknown_tagged_fields).

Definition DescribeQuorumRequest_TopicData_valid (version : Z) (x : DescribeQuorumRequest_TopicData) : Prop
    :=
  utf8 (DescribeQuorumRequest_TopicData_topic_name x) ∧
  Forall (DescribeQuorumRequest_PartitionData_valid version) (DescribeQuorumRequest_TopicData_partitions x)
      ∧
  unknown_valid 0 (DescribeQuorumRequest_TopicData_unknown_tagged_fields x).

#[global] Instance DescribeQuorumRequest_TopicData_sound version : Sound
    (DescribeQuorumRequest_TopicData_codec version) (DescribeQuorumRequest_TopicData_valid version).
Proof. solve_message. Qed.

(* @ src/crates/kafka-protocol/src/messages/describe_quorum_request.rs 20-31 DescribeQuorumRequest *)
Record DescribeQuorumRequest : Type := mkDescribeQuorumRequest {
  DescribeQuorumRequest_topics : list DescribeQuorumRequest_TopicData;
  DescribeQuorumRequest_unknown_tagged_fields : TaggedFields
}.

(* @ src/crates/kafka-protocol/src/messages/describe_quorum_request.rs 113-120 DescribeQuorumRequest::default *)
Definition DescribeQuorumRequest_default : DescribeQuorumRequest := {|
  DescribeQuorumRequest_topics := [];
  DescribeQuorumRequest_unknown_tagged_fields := ∅
|}.

(* @ src/crates/kafka-protocol/src/messages/describe_quorum_request.rs 55-111 DescribeQuorumRequest::encode, compute_size, decode *)
Definition DescribeQuorumRequest_codec (version : Z) : Codec DescribeQuorumRequest :=
  message 0 2 version (build mkDescribeQuorumRequest
    ⊛ (field DescribeQuorumRequest_topics (CompactArray (Struct DescribeQuorumRequest_TopicData_codec
        version)))
    ⊛ unknown_tags true DescribeQuorumRequest_unknown_tagged_fields).

Definition DescribeQuorumRequest_valid (version : Z) (x : DescribeQuorumRequest) : Prop :=
  Forall (DescribeQuorumRequest_TopicData_valid version) (DescribeQuorumRequest_topics x) ∧
  unknown_valid 0 (DescribeQuorumRequest_unknown_tagged_fields x).

#[global] Instance DescribeQuorumRequest_sound version : Sound (DescribeQuorumRequest_codec version)
    (DescribeQuorumRequest_valid version).
Proof. solve_message. Qed.

(* @ src/crates/kafka-protocol/src/messages/describe_quorum_request.rs 361-365 DescribeQuorumRequest::header_version *)
Definition DescribeQuorumRequest_header_version (version : Z) : Z := 2.

(* @ src/crates/kafka-protocol/src/messages/describe_quorum_request.rs 122-125 DescribeQuorumRequest::VERSIONS *)
Definition DescribeQuorumRequest_VERSIONS : Z * Z := (0, 2).

(** ** [describe_quorum_response] *)

(* @ src/crates/kafka-protocol/src/messages/describe_quorum_response.rs 811-842 ReplicaState *)
Record DescribeQuorumResponse_ReplicaState : Type := mkDescribeQuorumResponse_ReplicaState {
  DescribeQuorumResponse_ReplicaState_replica_id : Z;
  DescribeQuorumResponse_ReplicaState_replica_directory_id : Z;
  DescribeQuorumResponse_ReplicaState_log_end_offset : Z;
  DescribeQuorumResponse_ReplicaState_last_fetch_timestamp : Z;
  DescribeQuorumResponse_ReplicaState_last_caught_up_timestamp : Z;
  DescribeQuorumResponse_ReplicaState_unknown_tagged_fields : TaggedFields
}.

(* @ src/crates/kafka-protocol/src/messages/describe_quorum_response.rs 1008-1019 ReplicaState::default *)
Definition DescribeQuorumResponse_ReplicaState_default : DescribeQuorumResponse_ReplicaState := {|
  DescribeQuorumResponse_ReplicaState_replica_id := 0;
  DescribeQuorumResponse_ReplicaState_replica_directory_id := 0;
  DescribeQuorumResponse_ReplicaState_log_end_offset := 0;
  DescribeQuorumResponse_ReplicaState_last_fetch_timestamp := -1;
  DescribeQuorumResponse_ReplicaState_last_caught_up_timestamp := -1;
  DescribeQuorumResponse_ReplicaState_unknown_tagged_fields := ∅
|}.

(* @ src/crates/kafka-protocol/src/messages/describe_quorum_response.rs 902-1006 ReplicaState::encode, compute_size, decode *)
Definition DescribeQuorumResponse_ReplicaState_codec (version : Z) : Codec
    DescribeQuorumResponse_ReplicaState :=
  message 0 2 version (build mkDescribeQuorumResponse_ReplicaState
    ⊛ (field DescribeQuorumResponse_ReplicaState_replica_id Int32)
    ⊛ (if 2 <=? version then field DescribeQuorumResponse_ReplicaState_replica_directory_id Uuid else unset
        DescribeQuorumResponse_ReplicaState_replica_directory_id (Z.eqb 0) 0)
    ⊛ (field DescribeQuorumResponse_ReplicaState_log_end_offset Int64)
    ⊛ (if 1 <=? version then field DescribeQuorumResponse_ReplicaState_last_fetch_timestamp Int64 else
        ignored (-1))
    ⊛ (if 1 <=? version then field DescribeQuorumResponse_ReplicaState_last_caught_up_timestamp Int64 else
        ignored (-1))
    ⊛ unknown_tags true DescribeQuorumResponse_ReplicaState_unknown_tagged_fields).

Definition DescribeQuorumResponse_ReplicaState_valid (version : Z) (x :
    DescribeQuorumResponse_ReplicaState) : Prop :=
  in_signed 32 (DescribeQuorumResponse_ReplicaState_replica_id x) ∧
  in_unsigned 128 (DescribeQuorumResponse_ReplicaState_replica_directory_id x) ∧
  in_signed 64 (DescribeQuorumResponse_ReplicaState_log_end_offset x) ∧
  (if 1 <=? version then in_signed 64 (DescribeQuorumResponse_ReplicaState_last_fetch_timestamp x) else
      DescribeQuorumResponse_ReplicaState_last_fetch_timestamp x = (-1)) ∧
  (if 1 <=? version then in_signed 64 (DescribeQuorumResponse_ReplicaState_last_caught_up_timestamp x) else
      DescribeQuorumResponse_ReplicaState_last_caught_up_timestamp x = (-1)) ∧
  unknown_valid 0 (DescribeQuorumResponse_ReplicaState_unknown_tagged_fields x).

#[global] Instance DescribeQuorumResponse_ReplicaState_sound version : Sound
    (DescribeQuorumResponse_ReplicaState_codec version) (DescribeQuorumResponse_ReplicaState_valid version).
Proof. solve_message. Qed.

(* @ src/crates/kafka-protocol/src/messages/describe_quorum_response.rs 561-607 PartitionData *)
Record DescribeQuorumResponse_PartitionData : Type := mkDescribeQuorumResponse_PartitionData {
  DescribeQuorumResponse_PartitionData_partition_index : Z;
  DescribeQuorumResponse_PartitionData_error_code : Z;
  DescribeQuorumResponse_PartitionData_error_message : option (list byte);
  DescribeQuorumResponse_PartitionData_leader_id : Z;
  DescribeQuorumResponse_PartitionData_leader_epoch : Z;
  DescribeQuorumResponse_PartitionData_high_watermark : Z;
  DescribeQuorumResponse_PartitionData_current_voters : list DescribeQuorumResponse_ReplicaState;
  DescribeQuorumResponse_PartitionData_observers : list DescribeQuorumResponse_ReplicaState;
  DescribeQuorumResponse_PartitionData_unknown_tagged_fields : TaggedFields
}.

(* @ src/crates/kafka-protocol/src/messages/describe_quorum_response.rs 790-804 PartitionData::default *)
Definition DescribeQuorumResponse_PartitionData_default : DescribeQuorumResponse_PartitionData := {|
  DescribeQuorumResponse_PartitionData_partition_index := 0;
  DescribeQuorumResponse_PartitionData_error_code := 0;
  DescribeQuorumResponse_PartitionData_error_message := Some [];
  DescribeQuorumResponse_PartitionData_leader_id := 0;
  DescribeQuorumResponse_PartitionData_leader_epoch := 0;
  DescribeQuorumResponse_PartitionData_high_watermark := 0;
  DescribeQuorumResponse_PartitionData_current_voters := [];
  DescribeQuorumResponse_PartitionData_observers := [];
  DescribeQuorumResponse_PartitionData_unknown_tagged_fields := ∅
|}.

(* @ src/crates/kafka-protocol/src/messages/describe_quorum_response.rs 694-788 PartitionData::encode, compute_size, decode *)
Definition DescribeQuorumResponse_PartitionData_codec (version : Z) : Codec
    DescribeQuorumResponse_PartitionData :=
  message 0 2 version (build mkDescribeQuorumResponse_PartitionData
    ⊛ (field DescribeQuorumResponse_PartitionData_partition_index Int32)
    ⊛ (field DescribeQuorumResponse_PartitionData_error_code Int16)
    ⊛ (if 2 <=? version then field DescribeQuorumResponse_PartitionData_error_message NullableCompactString
        else ignored (Some []))
    ⊛ (field DescribeQuorumResponse_PartitionData_leader_id Int32)
    ⊛ (field DescribeQuorumResponse_PartitionData_leader_epoch Int32)
    ⊛ (field DescribeQuorumResponse_PartitionData_high_watermark Int64)
    ⊛ (field DescribeQuorumResponse_PartitionData_current_voters (CompactArray (Struct
        DescribeQuorumResponse_ReplicaState_codec version)))
    ⊛ (field DescribeQuorumResponse_PartitionData_observers (CompactArray (Struct
        DescribeQuorumResponse_ReplicaState_codec version)))
    ⊛ unknown_tags true DescribeQuorumResponse_PartitionData_unknown_tagged_fields).

Definition DescribeQuorumResponse_PartitionData_valid (version : Z) (x :
    DescribeQuorumResponse_PartitionData) : Prop :=
  in_signed 32 (DescribeQuorumResponse_PartitionData_partition_index x) ∧
  in_signed 16 (DescribeQuorumResponse_PartitionData_error_code x) ∧
  (if 2 <=? version then opt_all utf8 (DescribeQuorumResponse_PartitionData_error_message x) else
      DescribeQuorumResponse_PartitionData_error_message x = (Some [])) ∧
  in_signed 32 (DescribeQuorumResponse_PartitionData_leader_id x) ∧
  in_signed 32 (DescribeQuorumResponse_PartitionData_leader_epoch x) ∧
  in_signed 64 (DescribeQuorumResponse_PartitionData_high_watermark x) ∧
  Forall (DescribeQuorumResponse_ReplicaState_valid version)
      (DescribeQuorumResponse_PartitionData_current_voters x) ∧
  Forall (DescribeQuorumResponse_ReplicaState_valid version)
      (DescribeQuorumResponse_PartitionData_observers x) ∧
  unknown_valid 0 (DescribeQuorumResponse_PartitionData_unknown_tagged_fields x).

#[global] Instance DescribeQuorumResponse_PartitionData_sound version : Sound
    (DescribeQuorumResponse_PartitionData_codec version) (DescribeQuorumResponse_PartitionData_valid
    version).
Proof. solve_message. Qed.

(* @ src/crates/kafka-protocol/src/messages/describe_quorum_response.rs 1026-1042 TopicData *)
Record DescribeQuorumResponse_TopicData : Type := mkDescribeQuorumResponse_TopicData {
  DescribeQuorumResponse_TopicData_topic_name : list byte;
  DescribeQuorumResponse_TopicData_partitions : list DescribeQuorumResponse_PartitionData;
  DescribeQuorumResponse_TopicData_unknown_tagged_fields : TaggedFields
}.

(* @ src/crates/kafka-protocol/src/messages/describe_quorum_response.rs 1138-1146 TopicData::default *)
Definition DescribeQuorumResponse_TopicData_default : DescribeQuorumResponse_TopicData := {|
  DescribeQuorumResponse_TopicData_topic_name := [];
  DescribeQuorumResponse_TopicData_partitions := [];
  DescribeQuorumResponse_TopicData_unknown_tagged_fields := ∅
|}.

(* @ src/crates/kafka-protocol/src/messages/describe_quorum_response.rs 1075-1136 TopicData::encode, compute_size, decode *)
Definition DescribeQuorumResponse_TopicData_codec (version : Z) : Codec DescribeQuorumResponse_TopicData :=
  message 0 2 version (build mkDescribeQuorumResponse_TopicData
    ⊛ (field DescribeQuorumResponse_TopicData_topic_name CompactString)
    ⊛ (field DescribeQuorumResponse_TopicData_partitions (CompactArray (Struct
        DescribeQuorumResponse_PartitionData_codec version)))
    ⊛ unknown_tags true DescribeQuorumResponse_TopicData_unknown_tagged_fields).

Definition DescribeQuorumResponse_TopicData_valid (version : Z) (x : DescribeQuorumResponse_TopicData) :
    Prop :=
  utf8 (DescribeQuorumResponse_TopicData_topic_name x) ∧
  Forall (DescribeQuorumResponse_PartitionData_valid version) (DescribeQuorumResponse_TopicData_partitions
      x) ∧
  unknown_valid 0 (DescribeQuorumResponse_TopicData_unknown_tagged_fields x).

#[global] Instance DescribeQuorumResponse_TopicData_sound version : Sound
    (DescribeQuorumResponse_TopicData_codec version) (DescribeQuorumResponse_TopicData_valid version).
Proof. solve_message. Qed.

(* @ src/crates/kafka-protocol/src/messages/describe_quorum_response.rs 209-230 Listener *)
Record DescribeQuorumResponse_Listener : Type := mkDescribeQuorumResponse_Listener {
  DescribeQuorumResponse_Listener_name : list byte;
  DescribeQuorumResponse_Listener_host : list byte;
  DescribeQuorumResponse_Listener_port : Z;
  DescribeQuorumResponse_Listener_unknown_tagged_fields : TaggedFields
}.

(* @ src/crates/kafka-protocol/src/messages/describe_quorum_response.rs 386-395 Listener::default *)
Definition DescribeQuorumResponse_Listener_default : DescribeQuorumResponse_Listener := {|
  DescribeQuorumResponse_Listener_name := [];
  DescribeQuorumResponse_Listener_host := [];
  DescribeQuorumResponse_Listener_port := 0;
  DescribeQuorumResponse_Listener_unknown_tagged_fields := ∅
|}.

(* @ src/crates/kafka-protocol/src/messages/describe_quorum_response.rs 272-384 Listener::encode, compute_size, decode *)
Definition DescribeQuorumResponse_Listener_codec (version : Z) : Codec DescribeQuorumResponse_Listener :=
  message 0 2 version (build mkDescribeQuorumResponse_Listener
    ⊛ (if 2 <=? version then field DescribeQuorumResponse_Listener_name CompactString else unset
        DescribeQuorumResponse_Listener_name is_empty [])
    ⊛ (if 2 <=? version then field DescribeQuorumResponse_Listener_host CompactString else unset
        DescribeQuorumResponse_Listener_host is_empty [])
    ⊛ (if 2 <=? version then field DescribeQuorumResponse_Listener_port UInt16 else unset
        DescribeQuorumResponse_Listener_port (Z.eqb 0) 0)
    ⊛ unknown_tags true DescribeQuorumResponse_Listener_unknown_tagged_fields).

Definition DescribeQuorumResponse_Listener_valid (version : Z) (x : DescribeQuorumResponse_Listener) : Prop
    :=
  utf8 (DescribeQuorumResponse_Listener_name x) ∧
  utf8 (DescribeQuorumResponse_Listener_host x) ∧
  in_unsigned 16 (DescribeQuorumResponse_Listener_port x) ∧
  unknown_valid 0 (DescribeQuorumResponse_Listener_unknown_tagged_fields x).

#[global] Instance DescribeQuorumResponse_Listener_sound version : Sound
    (DescribeQuorumResponse_Listener_codec version) (DescribeQuorumResponse_Listener_valid version).
Proof. solve_message. Qed.

(* @ src/crates/kafka-protocol/src/messages/describe_quorum_response.rs 402-418 Node *)
Record Node : Type := mkNode {
  Node_node_id : Z;
  Node_listeners : list DescribeQuorumResponse_Listener;
  Node_unknown_tagged_fields : TaggedFields
}.

(* @ src/crates/kafka-protocol/src/messages/describe_quorum_response.rs 546-554 Node::default *)
Definition Node_default : Node := {|
  Node_node_id := 0;
  Node_listeners := [];
  Node_unknown_tagged_fields := ∅
|}.

(* @ src/crates/kafka-protocol/src/messages/describe_quorum_response.rs 451-544 Node::encode, compute_size, decode *)
Definition Node_codec (version : Z) : Codec Node :=
  message 0 2 version (build mkNode
    ⊛ (if 2 <=? version then field Node_node_id Int32 else unset Node_node_id (Z.eqb 0) 0)
    ⊛ (if 2 <=? version then field Node_listeners (CompactArray (Struct
        DescribeQuorumResponse_Listener_codec version)) else unset Node_listeners is_empty [])
    ⊛ unknown_tags true Node_unknown_tagged_fields).

Definition Node_valid (version : Z) (x : Node) : Prop :=
  in_signed 32 (Node_node_id x) ∧
  Forall (DescribeQuorumResponse_Listener_valid version) (Node_listeners x) ∧
  unknown_valid 0 (Node_unknown_tagged_fields x).

#[global] Instance Node_sound version : Sound (Node_codec version) (Node_valid version).
Proof. solve_message. Qed.

(* @ src/crates/kafka-protocol/src/messages/describe_quorum_response.rs 20-46 DescribeQuorumResponse *)
Record DescribeQuorumResponse : Type := mkDescribeQuorumResponse {
  DescribeQuorumResponse_error_code : Z;
  DescribeQuorumResponse_error_message : option (list byte);
  DescribeQuorumResponse_topics : list DescribeQuorumResponse_TopicData;
  DescribeQuorumResponse_nodes : list Node;
  DescribeQuorumResponse_unknown_tagged_fields : TaggedFields
}.

(* @ src/crates/kafka-protocol/src/messages/describe_quorum_response.rs 192-202 DescribeQuorumResponse::default *)
Definition DescribeQuorumResponse_default : DescribeQuorumResponse := {|
  DescribeQuorumResponse_error_code := 0;
  DescribeQuorumResponse_error_message := Some [];
  DescribeQuorumResponse_topics := [];
  DescribeQuorumResponse_nodes := [];
  DescribeQuorumResponse_unknown_tagged_fields := ∅
|}.

(* @ src/crates/kafka-protocol/src/messages/describe_quorum_response.rs 97-190 DescribeQuorumResponse::encode, compute_size, decode *)
Definition DescribeQuorumResponse_codec (version : Z) : Codec DescribeQuorumResponse :=
  message 0 2 version (build mkDescribeQuorumResponse
    ⊛ (field DescribeQuorumResponse_error_code Int16)
    ⊛ (if 2 <=? version then field DescribeQuorumResponse_error_message NullableCompactString else ignored
        (Some []))
    ⊛ (field DescribeQuorumResponse_topics (CompactArray (Struct DescribeQuorumResponse_TopicData_codec
        version)))
    ⊛ (if 2 <=? version then field DescribeQuorumResponse_nodes (CompactArray (Struct Node_codec version))
        else unset DescribeQuorumResponse_nodes is_empty [])
    ⊛ unknown_tags true DescribeQuorumResponse_unknown_tagged_fields).

Definition DescribeQuorumResponse_valid (version : Z) (x : DescribeQuorumResponse) : Prop :=
  in_signed 16 (DescribeQuorumResponse_error_code x) ∧
  (if 2 <=? version then opt_all utf8 (DescribeQuorumResponse_error_message x) else
      DescribeQuorumResponse_error_message x = (Some [])) ∧
  Forall (DescribeQuorumResponse_TopicData_valid version) (DescribeQuorumResponse_topics x) ∧
  Forall (Node_valid version) (DescribeQuorumResponse_nodes x) ∧
  unknown_valid 0 (DescribeQuorumResponse_unknown_tagged_fields x).

#[global] Instance DescribeQuorumResponse_sound version : Sound (DescribeQuorumResponse_codec version)
    (DescribeQuorumResponse_valid version).
Proof. solve_message. Qed.

(* @ src/crates/kafka-protocol/src/messages/describe_quorum_response.rs 1153-1157 DescribeQuorumResponse::header_version *)
Definition DescribeQuorumResponse_header_version (version : Z) : Z := 1.

(* @ src/crates/kafka-protocol/src/messages/describe_quorum_response.rs 204-207 DescribeQuorumResponse::VERSIONS *)
Definition DescribeQuorumResponse_VERSIONS : Z * Z := (0, 2).

(** ** [end_quorum_epoch_request] *)

(* @ src/crates/kafka-protocol/src/messages/end_quorum_epoch_request.rs 611-627 ReplicaInfo *)
Record ReplicaInfo : Type := mkReplicaInfo {
  ReplicaInfo_candidate_id : Z;
  ReplicaInfo_candidate_directory_id : Z;
  ReplicaInfo_unknown_tagged_fields : TaggedFields
}.

(* @ src/crates/kafka-protocol/src/messages/end_quorum_epoch_request.rs 760-768 ReplicaInfo::default *)
Definition ReplicaInfo_default : ReplicaInfo := {|
  ReplicaInfo_candidate_id := 0;
  ReplicaInfo_candidate_directory_id := 0;
  ReplicaInfo_unknown_tagged_fields := ∅
|}.

(* @ src/crates/kafka-protocol/src/messages/end_quorum_epoch_request.rs 660-758 ReplicaInfo::encode, compute_size, decode *)
Definition ReplicaInfo_codec (version : Z) : Codec ReplicaInfo :=
  message 0 1 version (build mkReplicaInfo
    ⊛ (if 1 <=? version then field ReplicaInfo_candidate_id Int32 else unset ReplicaInfo_candidate_id
        (Z.eqb 0) 0)
    ⊛ (if 1 <=? version then field ReplicaInfo_candidate_directory_id Uuid else unset
        ReplicaInfo_candidate_directory_id (Z.eqb 0) 0)
    ⊛ unknown_tags (1 <=? version) ReplicaInfo_unknown_tagged_fields).

Definition ReplicaInfo_valid (version : Z) (x : ReplicaInfo) : Prop :=
  in_signed 32 (ReplicaInfo_candidate_id x) ∧
  in_unsigned 128 (ReplicaInfo_candidate_directory_id x) ∧
  (if 1 <=? version then unknown_valid 0 (ReplicaInfo_unknown_tagged_fields x) else
      ReplicaInfo_unknown_tagged_fields x = ∅).

#[global] Instance ReplicaInfo_sound version : Sound (ReplicaInfo_codec version) (ReplicaInfo_valid
    version).
Proof. solve_message. Qed.

(* @ src/crates/kafka-protocol/src/messages/end_quorum_epoch_request.rs 404-435 PartitionData *)
Record EndQuorumEpochRequest_PartitionData : Type := mkEndQuorumEpochRequest_PartitionData {
  EndQuorumEpochRequest_PartitionData_partition_index : Z;
  EndQuorumEpochRequest_PartitionData_leader_id : Z;
  EndQuorumEpochRequest_PartitionData_leader_epoch : Z;
  EndQuorumEpochRequest_PartitionData_preferred_successors : list Z;
  EndQuorumEpochRequest_PartitionData_preferred_candidates : list ReplicaInfo;
  EndQuorumEpochRequest_PartitionData_unknown_tagged_fields : TaggedFields
}.

(* @ src/crates/kafka-protocol/src/messages/end_quorum_epoch_request.rs 593-604 PartitionData::default *)
Definition EndQuorumEpochRequest_PartitionData_default : EndQuorumEpochRequest_PartitionData := {|
  EndQuorumEpochRequest_PartitionData_partition_index := 0;
  EndQuorumEpochRequest_PartitionData_leader_id := 0;
  EndQuorumEpochRequest_PartitionData_leader_epoch := 0;
  EndQuorumEpochRequest_PartitionData_preferred_successors := [];
  EndQuorumEpochRequest_PartitionData_preferred_candidates := [];
  EndQuorumEpochRequest_PartitionData_unknown_tagged_fields := ∅
|}.

(* @ src/crates/kafka-protocol/src/messages/end_quorum_epoch_request.rs 495-591 PartitionData::encode, compute_size, decode *)
Definition EndQuorumEpochRequest_PartitionData_codec (version : Z) : Codec
    EndQuorumEpochRequest_PartitionData :=
  message 0 1 version (build mkEndQuorumEpochRequest_PartitionData
    ⊛ (field EndQuorumEpochRequest_PartitionData_partition_index Int32)
    ⊛ (field EndQuorumEpochRequest_PartitionData_leader_id Int32)
    ⊛ (field EndQuorumEpochRequest_PartitionData_leader_epoch Int32)
    ⊛ (if version =? 0 then field EndQuorumEpochRequest_PartitionData_preferred_successors (Array Int32)
        else ignored [])
    ⊛ (if 1 <=? version then field EndQuorumEpochRequest_PartitionData_preferred_candidates (CompactArray
        (Struct ReplicaInfo_codec version)) else ignored [])
    ⊛ unknown_tags (1 <=? version) EndQuorumEpochRequest_PartitionData_unknown_tagged_fields).

Definition EndQuorumEpochRequest_PartitionData_valid (version : Z) (x :
    EndQuorumEpochRequest_PartitionData) : Prop :=
  in_signed 32 (EndQuorumEpochRequest_PartitionData_partition_index x) ∧
  in_signed 32 (EndQuorumEpochRequest_PartitionData_leader_id x) ∧
  in_signed 32 (EndQuorumEpochRequest_PartitionData_leader_epoch x) ∧
  (if version =? 0 then Forall (in_signed 32) (EndQuorumEpochRequest_PartitionData_preferred_successors x)
      else EndQuorumEpochRequest_PartitionData_preferred_successors x = []) ∧
  (if 1 <=? version then Forall (ReplicaInfo_valid version)
      (EndQuorumEpochRequest_PartitionData_preferred_candidates x) else
      EndQuorumEpochRequest_PartitionData_preferred_candidates x = []) ∧
  (if 1 <=? version then unknown_valid 0 (EndQuorumEpochRequest_PartitionData_unknown_tagged_fields x) else
      EndQuorumEpochRequest_PartitionData_unknown_tagged_fields x = ∅).

#[global] Instance EndQuorumEpochRequest_PartitionData_sound version : Sound
    (EndQuorumEpochRequest_PartitionData_codec version) (EndQuorumEpochRequest_PartitionData_valid version).
Proof. solve_message. Qed.

(* @ src/crates/kafka-protocol/src/messages/end_quorum_epoch_request.rs 775-791 TopicData *)
Record EndQuorumEpochRequest_TopicData : Type := mkEndQuorumEpochRequest_TopicData {
  EndQuorumEpochRequest_TopicData_topic_name : list byte;
  EndQuorumEpochRequest_TopicData_partitions : list EndQuorumEpochRequest_PartitionData;
  EndQuorumEpochRequest_TopicData_unknown_tagged_fields : TaggedFields
}.

(* @ src/crates/kafka-protocol/src/messages/end_quorum_epoch_request.rs 917-925 TopicData::default *)
Definition EndQuorumEpochRequest_TopicData_default : EndQuorumEpochRequest_TopicData := {|
  EndQuorumEpochRequest_TopicData_topic_name := [];
  EndQuorumEpochRequest_TopicData_partitions := [];
  EndQuorumEpochRequest_TopicData_unknown_tagged_fields := ∅
|}.

(* @ src/crates/kafka-protocol/src/messages/end_quorum_epoch_request.rs 824-915 TopicData::encode, compute_size, decode *)
Definition EndQuorumEpochRequest_TopicData_codec (version : Z) : Codec EndQuorumEpochRequest_TopicData :=
  message 0 1 version (build mkEndQuorumEpochRequest_TopicData
    ⊛ (field EndQuorumEpochRequest_TopicData_topic_name (if 1 <=? version then CompactString else
        KafkaString))
    ⊛ (field EndQuorumEpochRequest_TopicData_partitions (if 1 <=? version then CompactArray (Struct
        EndQuorumEpochRequest_PartitionData_codec version) else Array (Struct
        EndQuorumEpochRequest_PartitionData_codec version)))
    ⊛ unknown_tags (1 <=? version) EndQuorumEpochRequest_TopicData_unknown_tagged_fields).

Definition EndQuorumEpochRequest_TopicData_valid (version : Z) (x : EndQuorumEpochRequest_TopicData) : Prop
    :=
  utf8 (EndQuorumEpochRequest_TopicData_topic_name x) ∧
  Forall (EndQuorumEpochRequest_PartitionData_valid version) (EndQuorumEpochRequest_TopicData_partitions x)
      ∧
  (if 1 <=? version then unknown_valid 0 (EndQuorumEpochRequest_TopicData_unknown_tagged_fields x) else
      EndQuorumEpochRequest_TopicData_unknown_tagged_fields x = ∅).

#[global] Instance EndQuorumEpochRequest_TopicData_sound version : Sound
    (EndQuorumEpochRequest_TopicData_codec version) (EndQuorumEpochRequest_TopicData_valid version).
Proof. solve_message. Qed.

(* @ src/crates/kafka-protocol/src/messages/end_quorum_epoch_request.rs 205-226 LeaderEndpoint *)
Record EndQuorumEpochRequest_LeaderEndpoint : Type := mkEndQuorumEpochRequest_LeaderEndpoint {
  EndQuorumEpochRequest_LeaderEndpoint_name : list byte;
  EndQuorumEpochRequest_LeaderEndpoint_host : list byte;
  EndQuorumEpochRequest_LeaderEndpoint_port : Z;
  EndQuorumEpochRequest_LeaderEndpoint_unknown_tagged_fields : TaggedFields
}.

(* @ src/crates/kafka-protocol/src/messages/end_quorum_epoch_request.rs 388-397 LeaderEndpoint::default *)
Definition EndQuorumEpochRequest_LeaderEndpoint_default : EndQuorumEpochRequest_LeaderEndpoint := {|
  EndQuorumEpochRequest_LeaderEndpoint_name := [];
  EndQuorumEpochRequest_LeaderEndpoint_host := [];
  EndQuorumEpochRequest_LeaderEndpoint_port := 0;
  EndQuorumEpochRequest_LeaderEndpoint_unknown_tagged_fields := ∅
|}.

(* @ src/crates/kafka-protocol/src/messages/end_quorum_epoch_request.rs 268-386 LeaderEndpoint::encode, compute_size, decode *)
Definition EndQuorumEpochRequest_LeaderEndpoint_codec (version : Z) : Codec
    EndQuorumEpochRequest_LeaderEndpoint :=
  message 0 1 version (build mkEndQuorumEpochRequest_LeaderEndpoint
    ⊛ (if 1 <=? version then field EndQuorumEpochRequest_LeaderEndpoint_name CompactString else unset
        EndQuorumEpochRequest_LeaderEndpoint_name is_empty [])
    ⊛ (if 1 <=? version then field EndQuorumEpochRequest_LeaderEndpoint_host CompactString else unset
        EndQuorumEpochRequest_LeaderEndpoint_host is_empty [])
    ⊛ (if 1 <=? version then field EndQuorumEpochRequest_LeaderEndpoint_port UInt16 else unset
        EndQuorumEpochRequest_LeaderEndpoint_port (Z.eqb 0) 0)
    ⊛ unknown_tags (1 <=? version) EndQuorumEpochRequest_LeaderEndpoint_unknown_tagged_fields).

Definition EndQuorumEpochRequest_LeaderEndpoint_valid (version : Z) (x :
    EndQuorumEpochRequest_LeaderEndpoint) : Prop :=
  utf8 (EndQuorumEpochRequest_LeaderEndpoint_name x) ∧
  utf8 (EndQuorumEpochRequest_LeaderEndpoint_host x) ∧
  in_unsigned 16 (EndQuorumEpochRequest_LeaderEndpoint_port x) ∧
  (if 1 <=? version then unknown_valid 0 (EndQuorumEpochRequest_LeaderEndpoint_unknown_tagged_fields x)
      else EndQuorumEpochRequest_LeaderEndpoint_unknown_tagged_fields x = ∅).

#[global] Instance EndQuorumEpochRequest_LeaderEndpoint_sound version : Sound
    (EndQuorumEpochRequest_LeaderEndpoint_codec version) (EndQuorumEpochRequest_LeaderEndpoint_valid
    version).
Proof. solve_message. Qed.

(* @ src/crates/kafka-protocol/src/messages/end_quorum_epoch_request.rs 20-41 EndQuorumEpochRequest *)
Record EndQuorumEpochRequest : Type := mkEndQuorumEpochRequest {
  EndQuorumEpochRequest_cluster_id : option (list byte);
  EndQuorumEpochRequest_topics : list EndQuorumEpochRequest_TopicData;
  EndQuorumEpochRequest_leader_endpoints : list EndQuorumEpochRequest_LeaderEndpoint;
  EndQuorumEpochRequest_unknown_tagged_fields : TaggedFields
}.

(* @ src/crates/kafka-protocol/src/messages/end_quorum_epoch_request.rs 189-198 EndQuorumEpochRequest::default *)
Definition EndQuorumEpochRequest_default : EndQuorumEpochRequest := {|
  EndQuorumEpochRequest_cluster_id := None;
  EndQuorumEpochRequest_topics := [];
  EndQuorumEpochRequest_leader_endpoints := [];
  EndQuorumEpochRequest_unknown_tagged_fields := ∅
|}.

(* @ src/crates/kafka-protocol/src/messages/end_quorum_epoch_request.rs 83-187 EndQuorumEpochRequest::encode, compute_size, decode *)
Definition EndQuorumEpochRequest_codec (version : Z) : Codec EndQuorumEpochRequest :=
  message 0 1 version (build mkEndQuorumEpochRequest
    ⊛ (field EndQuorumEpochRequest_cluster_id (if 1 <=? version then NullableCompactString else
        NullableString))
    ⊛ (field EndQuorumEpochRequest_topics (if 1 <=? version then CompactArray (Struct
        EndQuorumEpochRequest_TopicData_codec version) else Array (Struct
        EndQuorumEpochRequest_TopicData_codec version)))
    ⊛ (if 1 <=? version then field EndQuorumEpochRequest_leader_endpoints (CompactArray (Struct
        EndQuorumEpochRequest_LeaderEndpoint_codec version)) else ignored [])
    ⊛ unknown_tags (1 <=? version) EndQuorumEpochRequest_unknown_tagged_fields).

Definition EndQuorumEpochRequest_valid (version : Z) (x : EndQuorumEpochRequest) : Prop :=
  opt_all utf8 (EndQuorumEpochRequest_cluster_id x) ∧
  Forall (EndQuorumEpochRequest_TopicData_valid version) (EndQuorumEpochRequest_topics x) ∧
  (if 1 <=? version then Forall (EndQuorumEpochRequest_LeaderEndpoint_valid version)
      (EndQuorumEpochRequest_leader_endpoints x) else EndQuorumEpochRequest_leader_endpoints x = []) ∧
  (if 1 <=? version then unknown_valid 0 (EndQuorumEpochRequest_unknown_tagged_fields x) else
      EndQuorumEpochRequest_unknown_tagged_fields x = ∅).

#[global] Instance EndQuorumEpochRequest_sound version : Sound (EndQuorumEpochRequest_codec version)
    (EndQuorumEpochRequest_valid version).
Proof. solve_message. Qed.

(* @ src/crates/kafka-protocol/src/messages/end_quorum_epoch_request.rs 932-940 EndQuorumEpochRequest::header_version *)
Definition EndQuorumEpochRequest_header_version (version : Z) : Z := if 1 <=? version then 2 else 1.

(* @ src/crates/kafka-protocol/src/messages/end_quorum_epoch_request.rs 200-203 EndQuorumEpochRequest::VERSIONS *)
Definition EndQuorumEpochRequest_VERSIONS : Z * Z := (0, 1).

(** ** [end_quorum_epoch_response] *)

(* @ src/crates/kafka-protocol/src/messages/end_quorum_epoch_response.rs 421-447 PartitionData *)
Record EndQuorumEpochResponse_PartitionData : Type := mkEndQuorumEpochResponse_PartitionData {
  EndQuorumEpochResponse_PartitionData_partition_index : Z;
  EndQuorumEpochResponse_PartitionData_error_code : Z;
  EndQuorumEpochResponse_PartitionData_leader_id : Z;
  EndQuorumEpochResponse_PartitionData_leader_epoch : Z;
  EndQuorumEpochResponse_PartitionData_unknown_tagged_fields : TaggedFields
}.

(* @ src/crates/kafka-protocol/src/messages/end_quorum_epoch_response.rs 574-584 PartitionData::default *)
Definition EndQuorumEpochResponse_PartitionData_default : EndQuorumEpochResponse_PartitionData := {|
  EndQuorumEpochResponse_PartitionData_partition_index := 0;
  EndQuorumEpochResponse_PartitionData_error_code := 0;
  EndQuorumEpochResponse_PartitionData_leader_id := 0;
  EndQuorumEpochResponse_PartitionData_leader_epoch := 0;
  EndQuorumEpochResponse_PartitionData_unknown_tagged_fields := ∅
|}.

(* @ src/crates/kafka-protocol/src/messages/end_quorum_epoch_response.rs 498-572 PartitionData::encode, compute_size, decode *)
Definition EndQuorumEpochResponse_PartitionData_codec (version : Z) : Codec
    EndQuorumEpochResponse_PartitionData :=
  message 0 1 version (build mkEndQuorumEpochResponse_PartitionData
    ⊛ (field EndQuorumEpochResponse_PartitionData_partition_index Int32)
    ⊛ (field EndQuorumEpochResponse_PartitionData_error_code Int16)
    ⊛ (field EndQuorumEpochResponse_PartitionData_leader_id Int32)
    ⊛ (field EndQuorumEpochResponse_PartitionData_leader_epoch Int32)
    ⊛ unknown_tags (1 <=? version) EndQuorumEpochResponse_PartitionData_unknown_tagged_fields).

Definition EndQuorumEpochResponse_PartitionData_valid (version : Z) (x :
    EndQuorumEpochResponse_PartitionData) : Prop :=
  in_signed 32 (EndQuorumEpochResponse_PartitionData_partition_index x) ∧
  in_signed 16 (EndQuorumEpochResponse_PartitionData_error_code x) ∧
  in_signed 32 (EndQuorumEpochResponse_PartitionData_leader_id x) ∧
  in_signed 32 (EndQuorumEpochResponse_PartitionData_leader_epoch x) ∧
  (if 1 <=? version then unknown_valid 0 (EndQuorumEpochResponse_PartitionData_unknown_tagged_fields x)
      else EndQuorumEpochResponse_PartitionData_unknown_tagged_fields x = ∅).

#[global] Instance EndQuorumEpochResponse_PartitionData_sound version : Sound
    (EndQuorumEpochResponse_PartitionData_codec version) (EndQuorumEpochResponse_PartitionData_valid
    version).
Proof. solve_message. Qed.

(* @ src/crates/kafka-protocol/src/messages/end_quorum_epoch_response.rs 591-607 TopicData *)
Record EndQuorumEpochResponse_TopicData : Type := mkEndQuorumEpochResponse_TopicData {
  EndQuorumEpochResponse_TopicData_topic_name : list byte;
  EndQuorumEpochResponse_TopicData_partitions : list EndQuorumEpochResponse_PartitionData;
  EndQuorumEpochResponse_TopicData_unknown_tagged_fields : TaggedFields
}.

(* @ src/crates/kafka-protocol/src/messages/end_quorum_epoch_response.rs 733-741 TopicData::default *)
Definition EndQuorumEpochResponse_TopicData_default : EndQuorumEpochResponse_TopicData := {|
  EndQuorumEpochResponse_TopicData_topic_name := [];
  EndQuorumEpochResponse_TopicData_partitions := [];
  EndQuorumEpochResponse_TopicData_unknown_tagged_fields := ∅
|}.

(* @ src/crates/kafka-protocol/src/messages/end_quorum_epoch_response.rs 640-731 TopicData::encode, compute_size, decode *)
Definition EndQuorumEpochResponse_TopicData_codec (version : Z) : Codec EndQuorumEpochResponse_TopicData :=
  message 0 1 version (build mkEndQuorumEpochResponse_TopicData
    ⊛ (field EndQuorumEpochResponse_TopicData_topic_name (if 1 <=? version then CompactString else
        KafkaString))
    ⊛ (field EndQuorumEpochResponse_TopicData_partitions (if 1 <=? version then CompactArray (Struct
        EndQuorumEpochResponse_PartitionData_codec version) else Array (Struct
        EndQuorumEpochResponse_PartitionData_codec version)))
    ⊛ unknown_tags (1 <=? version) EndQuorumEpochResponse_TopicData_unknown_tagged_fields).

Definition EndQuorumEpochResponse_TopicData_valid (version : Z) (x : EndQuorumEpochResponse_TopicData) :
    Prop :=
  utf8 (EndQuorumEpochResponse_TopicData_topic_name x) ∧
  Forall (EndQuorumEpochResponse_PartitionData_valid version) (EndQuorumEpochResponse_TopicData_partitions
      x) ∧
  (if 1 <=? version then unknown_valid 0 (EndQuorumEpochResponse_TopicData_unknown_tagged_fields x) else
      EndQuorumEpochResponse_TopicData_unknown_tagged_fields x = ∅).

#[global] Instance EndQuorumEpochResponse_TopicData_sound version : Sound
    (EndQuorumEpochResponse_TopicData_codec version) (EndQuorumEpochResponse_TopicData_valid version).
Proof. solve_message. Qed.

(* @ src/crates/kafka-protocol/src/messages/end_quorum_epoch_response.rs 222-243 NodeEndpoint *)
Record EndQuorumEpochResponse_NodeEndpoint : Type := mkEndQuorumEpochResponse_NodeEndpoint {
  EndQuorumEpochResponse_NodeEndpoint_node_id : Z;
  EndQuorumEpochResponse_NodeEndpoint_host : list byte;
  EndQuorumEpochResponse_NodeEndpoint_port : Z;
  EndQuorumEpochResponse_NodeEndpoint_unknown_tagged_fields : TaggedFields
}.

(* @ src/crates/kafka-protocol/src/messages/end_quorum_epoch_response.rs 405-414 NodeEndpoint::default *)
Definition EndQuorumEpochResponse_NodeEndpoint_default : EndQuorumEpochResponse_NodeEndpoint := {|
  EndQuorumEpochResponse_NodeEndpoint_node_id := 0;
  EndQuorumEpochResponse_NodeEndpoint_host := [];
  EndQuorumEpochResponse_NodeEndpoint_port := 0;
  EndQuorumEpochResponse_NodeEndpoint_unknown_tagged_fields := ∅
|}.

(* @ src/crates/kafka-protocol/src/messages/end_quorum_epoch_response.rs 285-403 NodeEndpoint::encode, compute_size, decode *)
Definition EndQuorumEpochResponse_NodeEndpoint_codec (version : Z) : Codec
    EndQuorumEpochResponse_NodeEndpoint :=
  message 0 1 version (build mkEndQuorumEpochResponse_NodeEndpoint
    ⊛ (if 1 <=? version then field EndQuorumEpochResponse_NodeEndpoint_node_id Int32 else unset
        EndQuorumEpochResponse_NodeEndpoint_node_id (Z.eqb 0) 0)
    ⊛ (if 1 <=? version then field EndQuorumEpochResponse_NodeEndpoint_host CompactString else unset
        EndQuorumEpochResponse_NodeEndpoint_host is_empty [])
    ⊛ (if 1 <=? version then field EndQuorumEpochResponse_NodeEndpoint_port UInt16 else unset
        EndQuorumEpochResponse_NodeEndpoint_port (Z.eqb 0) 0)
    ⊛ unknown_tags (1 <=? version) EndQuorumEpochResponse_NodeEndpoint_unknown_tagged_fields).

Definition EndQuorumEpochResponse_NodeEndpoint_valid (version : Z) (x :
    EndQuorumEpochResponse_NodeEndpoint) : Prop :=
  in_signed 32 (EndQuorumEpochResponse_NodeEndpoint_node_id x) ∧
  utf8 (EndQuorumEpochResponse_NodeEndpoint_host x) ∧
  in_unsigned 16 (EndQuorumEpochResponse_NodeEndpoint_port x) ∧
  (if 1 <=? version then unknown_valid 0 (EndQuorumEpochResponse_NodeEndpoint_unknown_tagged_fields x) else
      EndQuorumEpochResponse_NodeEndpoint_unknown_tagged_fields x = ∅).

#[global] Instance EndQuorumEpochResponse_NodeEndpoint_sound version : Sound
    (EndQuorumEpochResponse_NodeEndpoint_codec version) (EndQuorumEpochResponse_NodeEndpoint_valid version).
Proof. solve_message. Qed.

(* @ src/crates/kafka-protocol/src/messages/end_quorum_epoch_response.rs 20-41 EndQuorumEpochResponse *)
Record EndQuorumEpochResponse : Type := mkEndQuorumEpochResponse {
  EndQuorumEpochResponse_error_code : Z;
  EndQuorumEpochResponse_topics : list EndQuorumEpochResponse_TopicData;
  EndQuorumEpochResponse_node_endpoints : list EndQuorumEpochResponse_NodeEndpoint;
  EndQuorumEpochResponse_unknown_tagged_fields : TaggedFields
}.

(* @ src/crates/kafka-protocol/src/messages/end_quorum_epoch_response.rs 206-215 EndQuorumEpochResponse::default *)
Definition EndQuorumEpochResponse_default : EndQuorumEpochResponse := {|
  EndQuorumEpochResponse_error_code := 0;
  EndQuorumEpochResponse_topics := [];
  EndQuorumEpochResponse_node_endpoints := [];
  EndQuorumEpochResponse_unknown_tagged_fields := ∅
|}.

(* @ src/crates/kafka-protocol/src/messages/end_quorum_epoch_response.rs 83-204 EndQuorumEpochResponse::encode, compute_size, decode *)
Definition EndQuorumEpochResponse_codec (version : Z) : Codec EndQuorumEpochResponse :=
  message 0 1 version (build (λ error_code topics '(node_endpoints, unknown_tagged_fields),
      mkEndQuorumEpochResponse error_code topics node_endpoints unknown_tagged_fields)
    ⊛ (field EndQuorumEpochResponse_error_code Int16)
    ⊛ (field EndQuorumEpochResponse_topics (if 1 <=? version then CompactArray (Struct
        EndQuorumEpochResponse_TopicData_codec version) else Array (Struct
        EndQuorumEpochResponse_TopicData_codec version)))
    ⊛ tag_section (1 <=? version) [] [
       tagged 0 true EndQuorumEpochResponse_node_endpoints is_empty (CompactArray (Struct
           EndQuorumEpochResponse_NodeEndpoint_codec version)) (λ v _, v)] 1
           EndQuorumEpochResponse_unknown_tagged_fields).

Definition EndQuorumEpochResponse_valid (version : Z) (x : EndQuorumEpochResponse) : Prop :=
  in_signed 16 (EndQuorumEpochResponse_error_code x) ∧
  Forall (EndQuorumEpochResponse_TopicData_valid version) (EndQuorumEpochResponse_topics x) ∧
  (if 1 <=? version then Forall (EndQuorumEpochResponse_NodeEndpoint_valid version)
      (EndQuorumEpochResponse_node_endpoints x) else EndQuorumEpochResponse_node_endpoints x = []) ∧
  (if 1 <=? version then unknown_valid 1 (EndQuorumEpochResponse_unknown_tagged_fields x) else
      EndQuorumEpochResponse_unknown_tagged_fields x = ∅).

#[global] Instance EndQuorumEpochResponse_sound version : Sound (EndQuorumEpochResponse_codec version)
    (EndQuorumEpochResponse_valid version).
Proof. solve_tagged_message. Qed.

(* @ src/crates/kafka-protocol/src/messages/end_quorum_epoch_response.rs 748-756 EndQuorumEpochResponse::header_version *)
Definition EndQuorumEpochResponse_header_version (version : Z) : Z := if 1 <=? version then 1 else 0.

(* @ src/crates/kafka-protocol/src/messages/end_quorum_epoch_response.rs 217-220 EndQuorumEpochResponse::VERSIONS *)
Definition EndQuorumEpochResponse_VERSIONS : Z * Z := (0, 1).

(** ** [envelope_request] *)

(* @ src/crates/kafka-protocol/src/messages/envelope_request.rs 20-41 EnvelopeRequest *)
Record EnvelopeRequest : Type := mkEnvelopeRequest {
  EnvelopeRequest_request_data : list byte;
  EnvelopeRequest_request_principal : option (list byte);
  EnvelopeRequest_client_host_address : list byte;
  EnvelopeRequest_unknown_tagged_fields : TaggedFields
}.

(* @ src/crates/kafka-protocol/src/messages/envelope_request.rs 149-158 EnvelopeRequest::default *)
Definition EnvelopeRequest_default : EnvelopeRequest := {|
  EnvelopeRequest_request_data := [];
  EnvelopeRequest_request_principal := Some [];
  EnvelopeRequest_client_host_address := [];
  EnvelopeRequest_unknown_tagged_fields := ∅
|}.

(* @ src/crates/kafka-protocol/src/messages/envelope_request.rs 83-147 EnvelopeRequest::encode, compute_size, decode *)
Definition EnvelopeRequest_codec (version : Z) : Codec EnvelopeRequest :=
  message 0 0 version (build mkEnvelopeRequest
    ⊛ (field EnvelopeRequest_request_data CompactBytes)
    ⊛ (field EnvelopeRequest_request_principal NullableCompactBytes)
    ⊛ (field EnvelopeRequest_client_host_address CompactBytes)
    ⊛ unknown_tags true EnvelopeRequest_unknown_tagged_fields).

Definition EnvelopeRequest_valid (version : Z) (x : EnvelopeRequest) : Prop :=
  unknown_valid 0 (EnvelopeRequest_unknown_tagged_fields x).

#[global] Instance EnvelopeRequest_sound version : Sound (EnvelopeRequest_codec version)
    (EnvelopeRequest_valid version).
Proof. solve_message. Qed.

(* @ src/crates/kafka-protocol/src/messages/envelope_request.rs 165-169 EnvelopeRequest::header_version *)
Definition EnvelopeRequest_header_version (version : Z) : Z := 2.

(* @ src/crates/kafka-protocol/src/messages/envelope_request.rs 160-163 EnvelopeRequest::VERSIONS *)
Definition EnvelopeRequest_VERSIONS : Z * Z := (0, 0).

(** ** [envelope_response] *)

(* @ src/crates/kafka-protocol/src/messages/envelope_response.rs 20-36 EnvelopeResponse *)
Record EnvelopeResponse : Type := mkEnvelopeResponse {
  EnvelopeResponse_response_data : option (list byte);
  EnvelopeResponse_error_code : Z;
  EnvelopeResponse_unknown_tagged_fields : TaggedFields
}.

(* @ src/crates/kafka-protocol/src/messages/envelope_response.rs 131-139 EnvelopeResponse::default *)
Definition EnvelopeResponse_default : EnvelopeResponse := {|
  EnvelopeResponse_response_data := None;
  EnvelopeResponse_error_code := 0;
  EnvelopeResponse_unknown_tagged_fields := ∅
|}.

(* @ src/crates/kafka-protocol/src/messages/envelope_response.rs 69-129 EnvelopeResponse::encode, compute_size, decode *)
Definition EnvelopeResponse_codec (version : Z) : Codec EnvelopeResponse :=
  message 0 0 version (build mkEnvelopeResponse
    ⊛ (field EnvelopeResponse_response_data NullableCompactBytes)
    ⊛ (field EnvelopeResponse_error_code Int16)
    ⊛ unknown_tags true EnvelopeResponse_unknown_tagged_fields).

Definition EnvelopeResponse_valid (version : Z) (x : EnvelopeResponse) : Prop :=
  in_signed 16 (EnvelopeResponse_error_code x) ∧
  unknown_valid 0 (EnvelopeResponse_unknown_tagged_fields x).

#[global] Instance EnvelopeResponse_sound version : Sound (EnvelopeResponse_codec version)
    (EnvelopeResponse_valid version).
Proof. solve_message. Qed.

(* @ src/crates/kafka-protocol/src/messages/envelope_response.rs 146-150 EnvelopeResponse::header_version *)
Definition EnvelopeResponse_header_version (version : Z) : Z := 1.

(* @ src/crates/kafka-protocol/src/messages/envelope_response.rs 141-144 EnvelopeResponse::VERSIONS *)
Definition EnvelopeResponse_VERSIONS : Z * Z := (0, 0).

(** ** [fetch_snapshot_request] *)

(* @ src/crates/kafka-protocol/src/messages/fetch_snapshot_request.rs 447-463 SnapshotId *)
Record FetchSnapshotRequest_SnapshotId : Type := mkFetchSnapshotRequest_SnapshotId {
  FetchSnapshotRequest_SnapshotId_end_offset : Z;
  FetchSnapshotRequest_SnapshotId_epoch : Z;
  FetchSnapshotRequest_SnapshotId_unknown_tagged_fields : TaggedFields
}.

(* @ src/crates/kafka-protocol/src/messages/fetch_snapshot_request.rs 558-566 SnapshotId::default *)
Definition FetchSnapshotRequest_SnapshotId_default : FetchSnapshotRequest_SnapshotId := {|
  FetchSnapshotRequest_SnapshotId_end_offset := 0;
  FetchSnapshotRequest_SnapshotId_epoch := 0;
  FetchSnapshotRequest_SnapshotId_unknown_tagged_fields := ∅
|}.

(* @ src/crates/kafka-protocol/src/messages/fetch_snapshot_request.rs 496-556 SnapshotId::encode, compute_size, decode *)
Definition FetchSnapshotRequest_SnapshotId_codec (version : Z) : Codec FetchSnapshotRequest_SnapshotId :=
  message 0 1 version (build mkFetchSnapshotRequest_SnapshotId
    ⊛ (field FetchSnapshotRequest_SnapshotId_end_offset Int64)
    ⊛ (field FetchSnapshotRequest_SnapshotId_epoch Int32)
    ⊛ unknown_tags true FetchSnapshotRequest_SnapshotId_unknown_tagged_fields).

Definition FetchSnapshotRequest_SnapshotId_valid (version : Z) (x : FetchSnapshotRequest_SnapshotId) : Prop
    :=
  in_signed 64 (FetchSnapshotRequest_SnapshotId_end_offset x) ∧
  in_signed 32 (FetchSnapshotRequest_SnapshotId_epoch x) ∧
  unknown_valid 0 (FetchSnapshotRequest_SnapshotId_unknown_tagged_fields x).

#[global] Instance FetchSnapshotRequest_SnapshotId_sound version : Sound
    (FetchSnapshotRequest_SnapshotId_codec version) (FetchSnapshotRequest_SnapshotId_valid version).
Proof. solve_message. Qed.

(* @ src/crates/kafka-protocol/src/messages/fetch_snapshot_request.rs 219-250 PartitionSnapshot *)
Record FetchSnapshotRequest_PartitionSnapshot : Type := mkFetchSnapshotRequest_PartitionSnapshot {
  FetchSnapshotRequest_PartitionSnapshot_partition : Z;
  FetchSnapshotRequest_PartitionSnapshot_current_leader_epoch : Z;
  FetchSnapshotRequest_PartitionSnapshot_snapshot_id : FetchSnapshotRequest_SnapshotId;
  FetchSnapshotRequest_PartitionSnapshot_position : Z;
  FetchSnapshotRequest_PartitionSnapshot_replica_directory_id : Z;
  FetchSnapshotRequest_PartitionSnapshot_unknown_tagged_fields : TaggedFields
}.

(* @ src/crates/kafka-protocol/src/messages/fetch_snapshot_request.rs 429-440 PartitionSnapshot::default *)
Definition FetchSnapshotRequest_PartitionSnapshot_default : FetchSnapshotRequest_PartitionSnapshot := {|
  FetchSnapshotRequest_PartitionSnapshot_partition := 0;
  FetchSnapshotRequest_PartitionSnapshot_current_leader_epoch := 0;
  FetchSnapshotRequest_PartitionSnapshot_snapshot_id := FetchSnapshotRequest_SnapshotId_default;
  FetchSnapshotRequest_PartitionSnapshot_position := 0;
  FetchSnapshotRequest_PartitionSnapshot_replica_directory_id := 0;
  FetchSnapshotRequest_PartitionSnapshot_unknown_tagged_fields := ∅
|}.

(* @ src/crates/kafka-protocol/src/messages/fetch_snapshot_request.rs 310-427 PartitionSnapshot::encode, compute_size, decode *)
Definition FetchSnapshotRequest_PartitionSnapshot_codec (version : Z) : Codec
    FetchSnapshotRequest_PartitionSnapshot :=
  message 0 1 version (build (λ partition current_leader_epoch snapshot_id position '(replica_directory_id,
      unknown_tagged_fields), mkFetchSnapshotRequest_PartitionSnapshot partition current_leader_epoch
      snapshot_id position replica_directory_id unknown_tagged_fields)
    ⊛ (field FetchSnapshotRequest_PartitionSnapshot_partition Int32)
    ⊛ (field FetchSnapshotRequest_PartitionSnapshot_current_leader_epoch Int32)
    ⊛ (field FetchSnapshotRequest_PartitionSnapshot_snapshot_id (Struct
        FetchSnapshotRequest_SnapshotId_codec version))
    ⊛ (field FetchSnapshotRequest_PartitionSnapshot_position Int64)
    ⊛ tag_section true 0 [
       tagged 0 (1 <=? version) FetchSnapshotRequest_PartitionSnapshot_replica_directory_id (Z.eqb 0) Uuid
           (λ v _, v)] 1 FetchSnapshotRequest_PartitionSnapshot_unknown_tagged_fields).

Definition FetchSnapshotRequest_PartitionSnapshot_valid (version : Z) (x :
    FetchSnapshotRequest_PartitionSnapshot) : Prop :=
  in_signed 32 (FetchSnapshotRequest_PartitionSnapshot_partition x) ∧
  in_signed 32 (FetchSnapshotRequest_PartitionSnapshot_current_leader_epoch x) ∧
  FetchSnapshotRequest_SnapshotId_valid version (FetchSnapshotRequest_PartitionSnapshot_snapshot_id x) ∧
  in_signed 64 (FetchSnapshotRequest_PartitionSnapshot_position x) ∧
  (if 1 <=? version then in_unsigned 128 (FetchSnapshotRequest_PartitionSnapshot_replica_directory_id x)
      else FetchSnapshotRequest_PartitionSnapshot_replica_directory_id x = 0) ∧
  unknown_valid 1 (FetchSnapshotRequest_PartitionSnapshot_unknown_tagged_fields x).

#[global] Instance FetchSnapshotRequest_PartitionSnapshot_sound version : Sound
    (FetchSnapshotRequest_PartitionSnapshot_codec version) (FetchSnapshotRequest_PartitionSnapshot_valid
    version).
Proof. solve_tagged_message. Qed.

(* @ src/crates/kafka-protocol/src/messages/fetch_snapshot_request.rs 573-589 TopicSnapshot *)
Record FetchSnapshotRequest_TopicSnapshot : Type := mkFetchSnapshotRequest_TopicSnapshot {
  FetchSnapshotRequest_TopicSnapshot_name : list byte;
  FetchSnapshotRequest_TopicSnapshot_partitions : list FetchSnapshotRequest_PartitionSnapshot;
  FetchSnapshotRequest_TopicSnapshot_unknown_tagged_fields : TaggedFields
}.

(* @ src/crates/kafka-protocol/src/messages/fetch_snapshot_request.rs 685-693 TopicSnapshot::default *)
Definition FetchSnapshotRequest_TopicSnapshot_default : FetchSnapshotRequest_TopicSnapshot := {|
  FetchSnapshotRequest_TopicSnapshot_name := [];
  FetchSnapshotRequest_TopicSnapshot_partitions := [];
  FetchSnapshotRequest_TopicSnapshot_unknown_tagged_fields := ∅
|}.

(* @ src/crates/kafka-protocol/src/messages/fetch_snapshot_request.rs 622-683 TopicSnapshot::encode, compute_size, decode *)
Definition FetchSnapshotRequest_TopicSnapshot_codec (version : Z) : Codec
    FetchSnapshotRequest_TopicSnapshot :=
  message 0 1 version (build mkFetchSnapshotRequest_TopicSnapshot
    ⊛ (field FetchSnapshotRequest_TopicSnapshot_name CompactString)
    ⊛ (field FetchSnapshotRequest_TopicSnapshot_partitions (CompactArray (Struct
        FetchSnapshotRequest_PartitionSnapshot_codec version)))
    ⊛ unknown_tags true FetchSnapshotRequest_TopicSnapshot_unknown_tagged_fields).

Definition FetchSnapshotRequest_TopicSnapshot_valid (version : Z) (x : FetchSnapshotRequest_TopicSnapshot)
    : Prop :=
  utf8 (FetchSnapshotRequest_TopicSnapshot_name x) ∧
  Forall (FetchSnapshotRequest_PartitionSnapshot_valid version)
      (FetchSnapshotRequest_TopicSnapshot_partitions x) ∧
  unknown_valid 0 (FetchSnapshotRequest_TopicSnapshot_unknown_tagged_fields x).

#[global] Instance FetchSnapshotRequest_TopicSnapshot_sound version : Sound
    (FetchSnapshotRequest_TopicSnapshot_codec version) (FetchSnapshotRequest_TopicSnapshot_valid version).
Proof. solve_message. Qed.

(* @ src/crates/kafka-protocol/src/messages/fetch_snapshot_request.rs 20-46 FetchSnapshotRequest *)
Record FetchSnapshotRequest : Type := mkFetchSnapshotRequest {
  FetchSnapshotRequest_cluster_id : option (list byte);
  FetchSnapshotRequest_replica_id : Z;
  FetchSnapshotRequest_max_bytes : Z;
  FetchSnapshotRequest_topics : list FetchSnapshotRequest_TopicSnapshot;
  FetchSnapshotRequest_unknown_tagged_fields : TaggedFields
}.

(* @ src/crates/kafka-protocol/src/messages/fetch_snapshot_request.rs 202-212 FetchSnapshotRequest::default *)
Definition FetchSnapshotRequest_default : FetchSnapshotRequest := {|
  FetchSnapshotRequest_cluster_id := None;
  FetchSnapshotRequest_replica_id := -1;
  FetchSnapshotRequest_max_bytes := 0x7fffffff;
  FetchSnapshotRequest_topics := [];
  FetchSnapshotRequest_unknown_tagged_fields := ∅
|}.

(* @ src/crates/kafka-protocol/src/messages/fetch_snapshot_request.rs 97-200 FetchSnapshotRequest::encode, compute_size, decode *)
Definition FetchSnapshotRequest_codec (version : Z) : Codec FetchSnapshotRequest :=
  message 0 1 version (build (λ replica_id max_bytes topics '(cluster_id, unknown_tagged_fields),
      mkFetchSnapshotRequest cluster_id replica_id max_bytes topics unknown_tagged_fields)
    ⊛ (field FetchSnapshotRequest_replica_id Int32)
    ⊛ (field FetchSnapshotRequest_max_bytes Int32)
    ⊛ (field FetchSnapshotRequest_topics (CompactArray (Struct FetchSnapshotRequest_TopicSnapshot_codec
        version)))
    ⊛ tag_section true None [
       tagged 0 true FetchSnapshotRequest_cluster_id is_none NullableCompactString (λ v _, v)] 1
           FetchSnapshotRequest_unknown_tagged_fields).

Definition FetchSnapshotRequest_valid (version : Z) (x : FetchSnapshotRequest) : Prop :=
  in_signed 32 (FetchSnapshotRequest_replica_id x) ∧
  in_signed 32 (FetchSnapshotRequest_max_bytes x) ∧
  Forall (FetchSnapshotRequest_TopicSnapshot_valid version) (FetchSnapshotRequest_topics x) ∧
  opt_all utf8 (FetchSnapshotRequest_cluster_id x) ∧
  unknown_valid 1 (FetchSnapshotRequest_unknown_tagged_fields x).

#[global] Instance FetchSnapshotRequest_sound version : Sound (FetchSnapshotRequest_codec version)
    (FetchSnapshotRequest_valid version).
Proof. solve_tagged_message. Qed.

(* @ src/crates/kafka-protocol/src/messages/fetch_snapshot_request.rs 700-704 FetchSnapshotRequest::header_version *)
Definition FetchSnapshotRequest_header_version (version : Z) : Z := 2.

(* @ src/crates/kafka-protocol/src/messages/fetch_snapshot_request.rs 214-217 FetchSnapshotRequest::VERSIONS *)
Definition FetchSnapshotRequest_VERSIONS : Z * Z := (0, 1).

(** ** [fetch_snapshot_response] *)

(* @ src/crates/kafka-protocol/src/messages/fetch_snapshot_response.rs 807-823 SnapshotId *)
Record FetchSnapshotResponse_SnapshotId : Type := mkFetchSnapshotResponse_SnapshotId {
  FetchSnapshotResponse_SnapshotId_end_offset : Z;
  FetchSnapshotResponse_SnapshotId_epoch : Z;
  FetchSnapshotResponse_SnapshotId_unknown_tagged_fields : TaggedFields
}.

(* @ src/crates/kafka-protocol/src/messages/fetch_snapshot_response.rs 918-926 SnapshotId::default *)
Definition FetchSnapshotResponse_SnapshotId_default : FetchSnapshotResponse_SnapshotId := {|
  FetchSnapshotResponse_SnapshotId_end_offset := 0;
  FetchSnapshotResponse_SnapshotId_epoch := 0;
  FetchSnapshotResponse_SnapshotId_unknown_tagged_fields := ∅
|}.

(* @ src/crates/kafka-protocol/src/messages/fetch_snapshot_response.rs 856-916 SnapshotId::encode, compute_size, decode *)
Definition FetchSnapshotResponse_SnapshotId_codec (version : Z) : Codec FetchSnapshotResponse_SnapshotId :=
  message 0 1 version (build mkFetchSnapshotResponse_SnapshotId
    ⊛ (field FetchSnapshotResponse_SnapshotId_end_offset Int64)
    ⊛ (field FetchSnapshotResponse_SnapshotId_epoch Int32)
    ⊛ unknown_tags true FetchSnapshotResponse_SnapshotId_unknown_tagged_fields).

Definition FetchSnapshotResponse_SnapshotId_valid (version : Z) (x : FetchSnapshotResponse_SnapshotId) :
    Prop :=
  in_signed 64 (FetchSnapshotResponse_SnapshotId_end_offset x) ∧
  in_signed 32 (FetchSnapshotResponse_SnapshotId_epoch x) ∧
  unknown_valid 0 (FetchSnapshotResponse_SnapshotId_unknown_tagged_fields x).

#[global] Instance FetchSnapshotResponse_SnapshotId_sound version : Sound
    (FetchSnapshotResponse_SnapshotId_codec version) (FetchSnapshotResponse_SnapshotId_valid version).
Proof. solve_message. Qed.

(* @ src/crates/kafka-protocol/src/messages/fetch_snapshot_response.rs 232-248 LeaderIdAndEpoch *)
Record FetchSnapshotResponse_LeaderIdAndEpoch : Type := mkFetchSnapshotResponse_LeaderIdAndEpoch {
  FetchSnapshotResponse_LeaderIdAndEpoch_leader_id : Z;
  FetchSnapshotResponse_LeaderIdAndEpoch_leader_epoch : Z;
  FetchSnapshotResponse_LeaderIdAndEpoch_unknown_tagged_fields : TaggedFields
}.

(* @ src/crates/kafka-protocol/src/messages/fetch_snapshot_response.rs 343-351 LeaderIdAndEpoch::default *)
Definition FetchSnapshotResponse_LeaderIdAndEpoch_default : FetchSnapshotResponse_LeaderIdAndEpoch := {|
  FetchSnapshotResponse_LeaderIdAndEpoch_leader_id := 0;
  FetchSnapshotResponse_LeaderIdAndEpoch_leader_epoch := 0;
  FetchSnapshotResponse_LeaderIdAndEpoch_unknown_tagged_fields := ∅
|}.

#[global] Instance FetchSnapshotResponse_LeaderIdAndEpoch_eq_dec : EqDecision
    FetchSnapshotResponse_LeaderIdAndEpoch.
Proof. solve_decision. Defined.

(* @ src/crates/kafka-protocol/src/messages/fetch_snapshot_response.rs 281-341 LeaderIdAndEpoch::encode, compute_size, decode *)
Definition FetchSnapshotResponse_LeaderIdAndEpoch_codec (version : Z) : Codec
    FetchSnapshotResponse_LeaderIdAndEpoch :=
  message 0 1 version (build mkFetchSnapshotResponse_LeaderIdAndEpoch
    ⊛ (field FetchSnapshotResponse_LeaderIdAndEpoch_leader_id Int32)
    ⊛ (field FetchSnapshotResponse_LeaderIdAndEpoch_leader_epoch Int32)
    ⊛ unknown_tags true FetchSnapshotResponse_LeaderIdAndEpoch_unknown_tagged_fields).

Definition FetchSnapshotResponse_LeaderIdAndEpoch_valid (version : Z) (x :
    FetchSnapshotResponse_LeaderIdAndEpoch) : Prop :=
  in_signed 32 (FetchSnapshotResponse_LeaderIdAndEpoch_leader_id x) ∧
  in_signed 32 (FetchSnapshotResponse_LeaderIdAndEpoch_leader_epoch x) ∧
  unknown_valid 0 (FetchSnapshotResponse_LeaderIdAndEpoch_unknown_tagged_fields x).

#[global] Instance FetchSnapshotResponse_LeaderIdAndEpoch_sound version : Sound
    (FetchSnapshotResponse_LeaderIdAndEpoch_codec version) (FetchSnapshotResponse_LeaderIdAndEpoch_valid
    version).
Proof. solve_message. Qed.

(* @ src/crates/kafka-protocol/src/messages/fetch_snapshot_response.rs 551-592 PartitionSnapshot *)
Record FetchSnapshotResponse_PartitionSnapshot : Type := mkFetchSnapshotResponse_PartitionSnapshot {
  FetchSnapshotResponse_PartitionSnapshot_index : Z;
  FetchSnapshotResponse_PartitionSnapshot_error_code : Z;
  FetchSnapshotResponse_PartitionSnapshot_snapshot_id : FetchSnapshotResponse_SnapshotId;
  FetchSnapshotResponse_PartitionSnapshot_current_leader : FetchSnapshotResponse_LeaderIdAndEpoch;
  FetchSnapshotResponse_PartitionSnapshot_size : Z;
  FetchSnapshotResponse_PartitionSnapshot_position : Z;
  FetchSnapshotResponse_PartitionSnapshot_unaligned_records : list byte;
  FetchSnapshotResponse_PartitionSnapshot_unknown_tagged_fields : TaggedFields
}.

(* @ src/crates/kafka-protocol/src/messages/fetch_snapshot_response.rs 787-800 PartitionSnapshot::default *)
Definition FetchSnapshotResponse_PartitionSnapshot_default : FetchSnapshotResponse_PartitionSnapshot := {|
  FetchSnapshotResponse_PartitionSnapshot_index := 0;
  FetchSnapshotResponse_PartitionSnapshot_error_code := 0;
  FetchSnapshotResponse_PartitionSnapshot_snapshot_id := FetchSnapshotResponse_SnapshotId_default;
  FetchSnapshotResponse_PartitionSnapshot_current_leader := FetchSnapshotResponse_LeaderIdAndEpoch_default;
  FetchSnapshotResponse_PartitionSnapshot_size := 0;
  FetchSnapshotResponse_PartitionSnapshot_position := 0;
  FetchSnapshotResponse_PartitionSnapshot_unaligned_records := [];
  FetchSnapshotResponse_PartitionSnapshot_unknown_tagged_fields := ∅
|}.

(* @ src/crates/kafka-protocol/src/messages/fetch_snapshot_response.rs 670-785 PartitionSnapshot::encode, compute_size, decode *)
Definition FetchSnapshotResponse_PartitionSnapshot_codec (version : Z) : Codec
    FetchSnapshotResponse_PartitionSnapshot :=
  message 0 1 version (build (λ index error_code snapshot_id size position unaligned_records
      '(current_leader, unknown_tagged_fields), mkFetchSnapshotResponse_PartitionSnapshot index error_code
      snapshot_id current_leader size position unaligned_records unknown_tagged_fields)
    ⊛ (field FetchSnapshotResponse_PartitionSnapshot_index Int32)
    ⊛ (field FetchSnapshotResponse_PartitionSnapshot_error_code Int16)
    ⊛ (field FetchSnapshotResponse_PartitionSnapshot_snapshot_id (Struct
        FetchSnapshotResponse_SnapshotId_codec version))
    ⊛ (field FetchSnapshotResponse_PartitionSnapshot_size Int64)
    ⊛ (field FetchSnapshotResponse_PartitionSnapshot_position Int64)
    ⊛ (field FetchSnapshotResponse_PartitionSnapshot_unaligned_records CompactBytes)
    ⊛ tag_section true FetchSnapshotResponse_LeaderIdAndEpoch_default [
       tagged 0 true FetchSnapshotResponse_PartitionSnapshot_current_leader (λ v, bool_decide (v =
           FetchSnapshotResponse_LeaderIdAndEpoch_default)) (Struct
           FetchSnapshotResponse_LeaderIdAndEpoch_codec version) (λ v _, v)] 1
           FetchSnapshotResponse_PartitionSnapshot_unknown_tagged_fields).

Definition FetchSnapshotResponse_PartitionSnapshot_valid (version : Z) (x :
    FetchSnapshotResponse_PartitionSnapshot) : Prop :=
  in_signed 32 (FetchSnapshotResponse_PartitionSnapshot_index x) ∧
  in_signed 16 (FetchSnapshotResponse_PartitionSnapshot_error_code x) ∧
  FetchSnapshotResponse_SnapshotId_valid version (FetchSnapshotResponse_PartitionSnapshot_snapshot_id x) ∧
  in_signed 64 (FetchSnapshotResponse_PartitionSnapshot_size x) ∧
  in_signed 64 (FetchSnapshotResponse_PartitionSnapshot_position x) ∧
  FetchSnapshotResponse_LeaderIdAndEpoch_valid version
      (FetchSnapshotResponse_PartitionSnapshot_current_leader x) ∧
  unknown_valid 1 (FetchSnapshotResponse_PartitionSnapshot_unknown_tagged_fields x).

#[global] Instance FetchSnapshotResponse_PartitionSnapshot_sound version : Sound
    (FetchSnapshotResponse_PartitionSnapshot_codec version) (FetchSnapshotResponse_PartitionSnapshot_valid
    version).
Proof. solve_tagged_message. Qed.

(* @ src/crates/kafka-protocol/src/messages/fetch_snapshot_response.rs 933-949 TopicSnapshot *)
Record FetchSnapshotResponse_TopicSnapshot : Type := mkFetchSnapshotResponse_TopicSnapshot {
  FetchSnapshotResponse_TopicSnapshot_name : list byte;
  FetchSnapshotResponse_TopicSnapshot_partitions : list FetchSnapshotResponse_PartitionSnapshot;
  FetchSnapshotResponse_TopicSnapshot_unknown_tagged_fields : TaggedFields
}.

(* @ src/crates/kafka-protocol/src/messages/fetch_snapshot_response.rs 1045-1053 TopicSnapshot::default *)
Definition FetchSnapshotResponse_TopicSnapshot_default : FetchSnapshotResponse_TopicSnapshot := {|
  FetchSnapshotResponse_TopicSnapshot_name := [];
  FetchSnapshotResponse_TopicSnapshot_partitions := [];
  FetchSnapshotResponse_TopicSnapshot_unknown_tagged_fields := ∅
|}.

(* @ src/crates/kafka-protocol/src/messages/fetch_snapshot_response.rs 982-1043 TopicSnapshot::encode, compute_size, decode *)
Definition FetchSnapshotResponse_TopicSnapshot_codec (version : Z) : Codec
    FetchSnapshotResponse_TopicSnapshot :=
  message 0 1 version (build mkFetchSnapshotResponse_TopicSnapshot
    ⊛ (field FetchSnapshotResponse_TopicSnapshot_name CompactString)
    ⊛ (field FetchSnapshotResponse_TopicSnapshot_partitions (CompactArray (Struct
        FetchSnapshotResponse_PartitionSnapshot_codec version)))
    ⊛ unknown_tags true FetchSnapshotResponse_TopicSnapshot_unknown_tagged_fields).

Definition FetchSnapshotResponse_TopicSnapshot_valid (version : Z) (x :
    FetchSnapshotResponse_TopicSnapshot) : Prop :=
  utf8 (FetchSnapshotResponse_TopicSnapshot_name x) ∧
  Forall (FetchSnapshotResponse_PartitionSnapshot_valid version)
      (FetchSnapshotResponse_TopicSnapshot_partitions x) ∧
  unknown_valid 0 (FetchSnapshotResponse_TopicSnapshot_unknown_tagged_fields x).

#[global] Instance FetchSnapshotResponse_TopicSnapshot_sound version : Sound
    (FetchSnapshotResponse_TopicSnapshot_codec version) (FetchSnapshotResponse_TopicSnapshot_valid version).
Proof. solve_message. Qed.

(* @ src/crates/kafka-protocol/src/messages/fetch_snapshot_response.rs 358-379 NodeEndpoint *)
Record FetchSnapshotResponse_NodeEndpoint : Type := mkFetchSnapshotResponse_NodeEndpoint {
  FetchSnapshotResponse_NodeEndpoint_node_id : Z;
  FetchSnapshotResponse_NodeEndpoint_host : list byte;
  FetchSnapshotResponse_NodeEndpoint_port : Z;
  FetchSnapshotResponse_NodeEndpoint_unknown_tagged_fields : TaggedFields
}.

(* @ src/crates/kafka-protocol/src/messages/fetch_snapshot_response.rs 535-544 NodeEndpoint::default *)
Definition FetchSnapshotResponse_NodeEndpoint_default : FetchSnapshotResponse_NodeEndpoint := {|
  FetchSnapshotResponse_NodeEndpoint_node_id := 0;
  FetchSnapshotResponse_NodeEndpoint_host := [];
  FetchSnapshotResponse_NodeEndpoint_port := 0;
  FetchSnapshotResponse_NodeEndpoint_unknown_tagged_fields := ∅
|}.

(* @ src/crates/kafka-protocol/src/messages/fetch_snapshot_response.rs 421-533 NodeEndpoint::encode, compute_size, decode *)
Definition FetchSnapshotResponse_NodeEndpoint_codec (version : Z) : Codec
    FetchSnapshotResponse_NodeEndpoint :=
  message 0 1 version (build mkFetchSnapshotResponse_NodeEndpoint
    ⊛ (if 1 <=? version then field FetchSnapshotResponse_NodeEndpoint_node_id Int32 else unset
        FetchSnapshotResponse_NodeEndpoint_node_id (Z.eqb 0) 0)
    ⊛ (if 1 <=? version then field FetchSnapshotResponse_NodeEndpoint_host CompactString else unset
        FetchSnapshotResponse_NodeEndpoint_host is_empty [])
    ⊛ (if 1 <=? version then field FetchSnapshotResponse_NodeEndpoint_port UInt16 else unset
        FetchSnapshotResponse_NodeEndpoint_port (Z.eqb 0) 0)
    ⊛ unknown_tags true FetchSnapshotResponse_NodeEndpoint_unknown_tagged_fields).

Definition FetchSnapshotResponse_NodeEndpoint_valid (version : Z) (x : FetchSnapshotResponse_NodeEndpoint)
    : Prop :=
  in_signed 32 (FetchSnapshotResponse_NodeEndpoint_node_id x) ∧
  utf8 (FetchSnapshotResponse_NodeEndpoint_host x) ∧
  in_unsigned 16 (FetchSnapshotResponse_NodeEndpoint_port x) ∧
  unknown_valid 0 (FetchSnapshotResponse_NodeEndpoint_unknown_tagged_fields x).

#[global] Instance FetchSnapshotResponse_NodeEndpoint_sound version : Sound
    (FetchSnapshotResponse_NodeEndpoint_codec version) (FetchSnapshotResponse_NodeEndpoint_valid version).
Proof. solve_message. Qed.

(* @ src/crates/kafka-protocol/src/messages/fetch_snapshot_response.rs 20-46 FetchSnapshotResponse *)
Record FetchSnapshotResponse : Type := mkFetchSnapshotResponse {
  FetchSnapshotResponse_throttle_time_ms : Z;
  FetchSnapshotResponse_error_code : Z;
  FetchSnapshotResponse_topics : list FetchSnapshotResponse_TopicSnapshot;
  FetchSnapshotResponse_node_endpoints : list FetchSnapshotResponse_NodeEndpoint;
  FetchSnapshotResponse_unknown_tagged_fields : TaggedFields
}.

(* @ src/crates/kafka-protocol/src/messages/fetch_snapshot_response.rs 215-225 FetchSnapshotResponse::default *)
Definition FetchSnapshotResponse_default : FetchSnapshotResponse := {|
  FetchSnapshotResponse_throttle_time_ms := 0;
  FetchSnapshotResponse_error_code := 0;
  FetchSnapshotResponse_topics := [];
  FetchSnapshotResponse_node_endpoints := [];
  FetchSnapshotResponse_unknown_tagged_fields := ∅
|}.

(* @ src/crates/kafka-protocol/src/messages/fetch_snapshot_response.rs 97-213 FetchSnapshotResponse::encode, compute_size, decode *)
Definition FetchSnapshotResponse_codec (version : Z) : Codec FetchSnapshotResponse :=
  message 0 1 version (build (λ throttle_time_ms error_code topics '(node_endpoints,
      unknown_tagged_fields), mkFetchSnapshotResponse throttle_time_ms error_code topics node_endpoints
      unknown_tagged_fields)
    ⊛ (field FetchSnapshotResponse_throttle_time_ms Int32)
    ⊛ (field FetchSnapshotResponse_error_code Int16)
    ⊛ (field FetchSnapshotResponse_topics (CompactArray (Struct FetchSnapshotResponse_TopicSnapshot_codec
        version)))
    ⊛ tag_section true [] [
       tagged 0 (1 <=? version) FetchSnapshotResponse_node_endpoints is_empty (CompactArray (Struct
           FetchSnapshotResponse_NodeEndpoint_codec version)) (λ v _, v)] 1
           FetchSnapshotResponse_unknown_tagged_fields).

Definition FetchSnapshotResponse_valid (version : Z) (x : FetchSnapshotResponse) : Prop :=
  in_signed 32 (FetchSnapshotResponse_throttle_time_ms x) ∧
  in_signed 16 (FetchSnapshotResponse_error_code x) ∧
  Forall (FetchSnapshotResponse_TopicSnapshot_valid version) (FetchSnapshotResponse_topics x) ∧
  (if 1 <=? version then Forall (FetchSnapshotResponse_NodeEndpoint_valid version)
      (FetchSnapshotResponse_node_endpoints x) else FetchSnapshotResponse_node_endpoints x = []) ∧
  unknown_valid 1 (FetchSnapshotResponse_unknown_tagged_fields x).

#[global] Instance FetchSnapshotResponse_sound version : Sound (FetchSnapshotResponse_codec version)
    (FetchSnapshotResponse_valid version).
Proof. solve_tagged_message. Qed.

(* @ src/crates/kafka-protocol/src/messages/fetch_snapshot_response.rs 1060-1064 FetchSnapshotResponse::header_version *)
Definition FetchSnapshotResponse_header_version (version : Z) : Z := 1.

(* @ src/crates/kafka-protocol/src/messages/fetch_snapshot_response.rs 227-230 FetchSnapshotResponse::VERSIONS *)
Definition FetchSnapshotResponse_VERSIONS : Z * Z := (0, 1).

(** ** [k_raft_version_record] *)

(* @ src/crates/kafka-protocol/src/messages/k_raft_version_record.rs 20-36 KRaftVersionRecord *)
Record KRaftVersionRecord : Type := mkKRaftVersionRecord {
  KRaftVersionRecord_version : Z;
  KRaftVersionRecord_k_raft_version : Z;
  KRaftVersionRecord_unknown_tagged_fields : TaggedFields
}.

(* @ src/crates/kafka-protocol/src/messages/k_raft_version_record.rs 129-137 KRaftVersionRecord::default *)
Definition KRaftVersionRecord_default : KRaftVersionRecord := {|
  KRaftVersionRecord_version := 0;
  KRaftVersionRecord_k_raft_version := 0;
  KRaftVersionRecord_unknown_tagged_fields := ∅
|}.

(* @ src/crates/kafka-protocol/src/messages/k_raft_version_record.rs 69-127 KRaftVersionRecord::encode, compute_size, decode *)
Definition KRaftVersionRecord_codec (version : Z) : Codec KRaftVersionRecord :=
  message 0 0 version (build mkKRaftVersionRecord
    ⊛ (field KRaftVersionRecord_version Int16)
    ⊛ (field KRaftVersionRecord_k_raft_version Int16)
    ⊛ unknown_tags true KRaftVersionRecord_unknown_tagged_fields).

Definition KRaftVersionRecord_valid (version : Z) (x : KRaftVersionRecord) : Prop :=
  in_signed 16 (KRaftVersionRecord_version x) ∧
  in_signed 16 (KRaftVersionRecord_k_raft_version x) ∧
  unknown_valid 0 (KRaftVersionRecord_unknown_tagged_fields x).

#[global] Instance KRaftVersionRecord_sound version : Sound (KRaftVersionRecord_codec version)
    (KRaftVersionRecord_valid version).
Proof. solve_message. Qed.

(** ** [leader_change_message] *)

(* @ src/crates/kafka-protocol/src/messages/leader_change_message.rs 183-199 Voter *)
Record LeaderChangeMessage_Voter : Type := mkLeaderChangeMessage_Voter {
  LeaderChangeMessage_Voter_voter_id : Z;
  LeaderChangeMessage_Voter_voter_directory_id : Z;
  LeaderChangeMessage_Voter_unknown_tagged_fields : TaggedFields
}.

(* @ src/crates/kafka-protocol/src/messages/leader_change_message.rs 308-316 Voter::default *)
Definition LeaderChangeMessage_Voter_default : LeaderChangeMessage_Voter := {|
  LeaderChangeMessage_Voter_voter_id := 0;
  LeaderChangeMessage_Voter_voter_directory_id := 0;
  LeaderChangeMessage_Voter_unknown_tagged_fields := ∅
|}.

(* @ src/crates/kafka-protocol/src/messages/leader_change_message.rs 232-306 Voter::encode, compute_size, decode *)
Definition LeaderChangeMessage_Voter_codec (version : Z) : Codec LeaderChangeMessage_Voter :=
  message 0 1 version (build mkLeaderChangeMessage_Voter
    ⊛ (field LeaderChangeMessage_Voter_voter_id Int32)
    ⊛ (if 1 <=? version then field LeaderChangeMessage_Voter_voter_directory_id Uuid else unset
        LeaderChangeMessage_Voter_voter_directory_id (Z.eqb 0) 0)
    ⊛ unknown_tags true LeaderChangeMessage_Voter_unknown_tagged_fields).

Definition LeaderChangeMessage_Voter_valid (version : Z) (x : LeaderChangeMessage_Voter) : Prop :=
  in_signed 32 (LeaderChangeMessage_Voter_voter_id x) ∧
  in_unsigned 128 (LeaderChangeMessage_Voter_voter_directory_id x) ∧
  unknown_valid 0 (LeaderChangeMessage_Voter_unknown_tagged_fields x).

#[global] Instance LeaderChangeMessage_Voter_sound version : Sound (LeaderChangeMessage_Voter_codec
    version) (LeaderChangeMessage_Voter_valid version).
Proof. solve_message. Qed.

(* @ src/crates/kafka-protocol/src/messages/leader_change_message.rs 20-46 LeaderChangeMessage *)
Record LeaderChangeMessage : Type := mkLeaderChangeMessage {
  LeaderChangeMessage_version : Z;
  LeaderChangeMessage_leader_id : Z;
  LeaderChangeMessage_voters : list LeaderChangeMessage_Voter;
  LeaderChangeMessage_granting_voters : list LeaderChangeMessage_Voter;
  LeaderChangeMessage_unknown_tagged_fields : TaggedFields
}.

(* @ src/crates/kafka-protocol/src/messages/leader_change_message.rs 166-176 LeaderChangeMessage::default *)
Definition LeaderChangeMessage_default : LeaderChangeMessage := {|
  LeaderChangeMessage_version := 0;
  LeaderChangeMessage_leader_id := 0;
  LeaderChangeMessage_voters := [];
  LeaderChangeMessage_granting_voters := [];
  LeaderChangeMessage_unknown_tagged_fields := ∅
|}.

(* @ src/crates/kafka-protocol/src/messages/leader_change_message.rs 97-164 LeaderChangeMessage::encode, compute_size, decode *)
Definition LeaderChangeMessage_codec (version : Z) : Codec LeaderChangeMessage :=
  message 0 1 version (build mkLeaderChangeMessage
    ⊛ (field LeaderChangeMessage_version Int16)
    ⊛ (field LeaderChangeMessage_leader_id Int32)
    ⊛ (field LeaderChangeMessage_voters (CompactArray (Struct LeaderChangeMessage_Voter_codec version)))
    ⊛ (field LeaderChangeMessage_granting_voters (CompactArray (Struct LeaderChangeMessage_Voter_codec
        version)))
    ⊛ unknown_tags true LeaderChangeMessage_unknown_tagged_fields).

Definition LeaderChangeMessage_valid (version : Z) (x : LeaderChangeMessage) : Prop :=
  in_signed 16 (LeaderChangeMessage_version x) ∧
  in_signed 32 (LeaderChangeMessage_leader_id x) ∧
  Forall (LeaderChangeMessage_Voter_valid version) (LeaderChangeMessage_voters x) ∧
  Forall (LeaderChangeMessage_Voter_valid version) (LeaderChangeMessage_granting_voters x) ∧
  unknown_valid 0 (LeaderChangeMessage_unknown_tagged_fields x).

#[global] Instance LeaderChangeMessage_sound version : Sound (LeaderChangeMessage_codec version)
    (LeaderChangeMessage_valid version).
Proof. solve_message. Qed.

(** ** [remove_raft_voter_request] *)

(* @ src/crates/kafka-protocol/src/messages/remove_raft_voter_request.rs 20-41 RemoveRaftVoterRequest *)
Record RemoveRaftVoterRequest : Type := mkRemoveRaftVoterRequest {
  RemoveRaftVoterRequest_cluster_id : option (list byte);
  RemoveRaftVoterRequest_voter_id : Z;
  RemoveRaftVoterRequest_voter_directory_id : Z;
  RemoveRaftVoterRequest_unknown_tagged_fields : TaggedFields
}.

(* @ src/crates/kafka-protocol/src/messages/remove_raft_voter_request.rs 149-158 RemoveRaftVoterRequest::default *)
Definition RemoveRaftVoterRequest_default : RemoveRaftVoterRequest := {|
  RemoveRaftVoterRequest_cluster_id := Some [];
  RemoveRaftVoterRequest_voter_id := 0;
  RemoveRaftVoterRequest_voter_directory_id := 0;
  RemoveRaftVoterRequest_unknown_tagged_fields := ∅
|}.

(* @ src/crates/kafka-protocol/src/messages/remove_raft_voter_request.rs 83-147 RemoveRaftVoterRequest::encode, compute_size, decode *)
Definition RemoveRaftVoterRequest_codec (version : Z) : Codec RemoveRaftVoterRequest :=
  message 0 0 version (build mkRemoveRaftVoterRequest
    ⊛ (field RemoveRaftVoterRequest_cluster_id NullableCompactString)
    ⊛ (field RemoveRaftVoterRequest_voter_id Int32)
    ⊛ (field RemoveRaftVoterRequest_voter_directory_id Uuid)
    ⊛ unknown_tags true RemoveRaftVoterRequest_unknown_tagged_fields).

Definition RemoveRaftVoterRequest_valid (version : Z) (x : RemoveRaftVoterRequest) : Prop :=
  opt_all utf8 (RemoveRaftVoterRequest_cluster_id x) ∧
  in_signed 32 (RemoveRaftVoterRequest_voter_id x) ∧
  in_unsigned 128 (RemoveRaftVoterRequest_voter_directory_id x) ∧
  unknown_valid 0 (RemoveRaftVoterRequest_unknown_tagged_fields x).

#[global] Instance RemoveRaftVoterRequest_sound version : Sound (RemoveRaftVoterRequest_codec version)
    (RemoveRaftVoterRequest_valid version).
Proof. solve_message. Qed.

(* @ src/crates/kafka-protocol/src/messages/remove_raft_voter_request.rs 165-169 RemoveRaftVoterRequest::header_version *)
Definition RemoveRaftVoterRequest_header_version (version : Z) : Z := 2.

(* @ src/crates/kafka-protocol/src/messages/remove_raft_voter_request.rs 160-163 RemoveRaftVoterRequest::VERSIONS *)
Definition RemoveRaftVoterRequest_VERSIONS : Z * Z := (0, 0).

(** ** [remove_raft_voter_response] *)

(* @ src/crates/kafka-protocol/src/messages/remove_raft_voter_response.rs 20-41 RemoveRaftVoterResponse *)
Record RemoveRaftVoterResponse : Type := mkRemoveRaftVoterResponse {
  RemoveRaftVoterResponse_throttle_time_ms : Z;
  RemoveRaftVoterResponse_error_code : Z;
  RemoveRaftVoterResponse_error_message : option (list byte);
  RemoveRaftVoterResponse_unknown_tagged_fields : TaggedFields
}.

(* @ src/crates/kafka-protocol/src/messages/remove_raft_voter_response.rs 149-158 RemoveRaftVoterResponse::default *)
Definition RemoveRaftVoterResponse_default : RemoveRaftVoterResponse := {|
  RemoveRaftVoterResponse_throttle_time_ms := 0;
  RemoveRaftVoterResponse_error_code := 0;
  RemoveRaftVoterResponse_error_message := Some [];
  RemoveRaftVoterResponse_unknown_tagged_fields := ∅
|}.

(* @ src/crates/kafka-protocol/src/messages/remove_raft_voter_response.rs 83-147 RemoveRaftVoterResponse::encode, compute_size, decode *)
Definition RemoveRaftVoterResponse_codec (version : Z) : Codec RemoveRaftVoterResponse :=
  message 0 0 version (build mkRemoveRaftVoterResponse
    ⊛ (field RemoveRaftVoterResponse_throttle_time_ms Int32)
    ⊛ (field RemoveRaftVoterResponse_error_code Int16)
    ⊛ (field RemoveRaftVoterResponse_error_message NullableCompactString)
    ⊛ unknown_tags true RemoveRaftVoterResponse_unknown_tagged_fields).

Definition RemoveRaftVoterResponse_valid (version : Z) (x : RemoveRaftVoterResponse) : Prop :=
  in_signed 32 (RemoveRaftVoterResponse_throttle_time_ms x) ∧
  in_signed 16 (RemoveRaftVoterResponse_error_code x) ∧
  opt_all utf8 (RemoveRaftVoterResponse_error_message x) ∧
  unknown_valid 0 (RemoveRaftVoterResponse_unknown_tagged_fields x).

#[global] Instance RemoveRaftVoterResponse_sound version : Sound (RemoveRaftVoterResponse_codec version)
    (RemoveRaftVoterResponse_valid version).
Proof. solve_message. Qed.

(* @ src/crates/kafka-protocol/src/messages/remove_raft_voter_response.rs 165-169 RemoveRaftVoterResponse::header_version *)
Definition RemoveRaftVoterResponse_header_version (version : Z) : Z := 1.

(* @ src/crates/kafka-protocol/src/messages/remove_raft_voter_response.rs 160-163 RemoveRaftVoterResponse::VERSIONS *)
Definition RemoveRaftVoterResponse_VERSIONS : Z * Z := (0, 0).

(** ** [snapshot_footer_record] *)

(* @ src/crates/kafka-protocol/src/messages/snapshot_footer_record.rs 20-31 SnapshotFooterRecord *)
Record SnapshotFooterRecord : Type := mkSnapshotFooterRecord {
  SnapshotFooterRecord_version : Z;
  SnapshotFooterRecord_unknown_tagged_fields : TaggedFields
}.

(* @ src/crates/kafka-protocol/src/messages/snapshot_footer_record.rs 111-118 SnapshotFooterRecord::default *)
Definition SnapshotFooterRecord_default : SnapshotFooterRecord := {|
  SnapshotFooterRecord_version := 0;
  SnapshotFooterRecord_unknown_tagged_fields := ∅
|}.

(* @ src/crates/kafka-protocol/src/messages/snapshot_footer_record.rs 55-109 SnapshotFooterRecord::encode, compute_size, decode *)
Definition SnapshotFooterRecord_codec (version : Z) : Codec SnapshotFooterRecord :=
  message 0 0 version (build mkSnapshotFooterRecord
    ⊛ (field SnapshotFooterRecord_version Int16)
    ⊛ unknown_tags true SnapshotFooterRecord_unknown_tagged_fields).

Definition SnapshotFooterRecord_valid (version : Z) (x : SnapshotFooterRecord) : Prop :=
  in_signed 16 (SnapshotFooterRecord_version x) ∧
  unknown_valid 0 (SnapshotFooterRecord_unknown_tagged_fields x).

#[global] Instance SnapshotFooterRecord_sound version : Sound (SnapshotFooterRecord_codec version)
    (SnapshotFooterRecord_valid version).
Proof. solve_message. Qed.

(** ** [snapshot_header_record] *)

(* @ src/crates/kafka-protocol/src/messages/snapshot_header_record.rs 20-36 SnapshotHeaderRecord *)
Record SnapshotHeaderRecord : Type := mkSnapshotHeaderRecord {
  SnapshotHeaderRecord_version : Z;
  SnapshotHeaderRecord_last_contained_log_timestamp : Z;
  SnapshotHeaderRecord_unknown_tagged_fields : TaggedFields
}.

(* @ src/crates/kafka-protocol/src/messages/snapshot_header_record.rs 129-137 SnapshotHeaderRecord::default *)
Definition SnapshotHeaderRecord_default : SnapshotHeaderRecord := {|
  SnapshotHeaderRecord_version := 0;
  SnapshotHeaderRecord_last_contained_log_timestamp := 0;
  SnapshotHeaderRecord_unknown_tagged_fields := ∅
|}.

(* @ src/crates/kafka-protocol/src/messages/snapshot_header_record.rs 69-127 SnapshotHeaderRecord::encode, compute_size, decode *)
Definition SnapshotHeaderRecord_codec (version : Z) : Codec SnapshotHeaderRecord :=
  message 0 0 version (build mkSnapshotHeaderRecord
    ⊛ (field SnapshotHeaderRecord_version Int16)
    ⊛ (field SnapshotHeaderRecord_last_contained_log_timestamp Int64)
    ⊛ unknown_tags true SnapshotHeaderRecord_unknown_tagged_fields).

Definition SnapshotHeaderRecord_valid (version : Z) (x : SnapshotHeaderRecord) : Prop :=
  in_signed 16 (SnapshotHeaderRecord_version x) ∧
  in_signed 64 (SnapshotHeaderRecord_last_contained_log_timestamp x) ∧
  unknown_valid 0 (SnapshotHeaderRecord_unknown_tagged_fields x).

#[global] Instance SnapshotHeaderRecord_sound version : Sound (SnapshotHeaderRecord_codec version)
    (SnapshotHeaderRecord_valid version).
Proof. solve_message. Qed.

(** ** [unregister_broker_request] *)

(* @ src/crates/kafka-protocol/src/messages/unregister_broker_request.rs 20-31 UnregisterBrokerRequest *)
Record UnregisterBrokerRequest : Type := mkUnregisterBrokerRequest {
  UnregisterBrokerRequest_broker_id : Z;
  UnregisterBrokerRequest_unknown_tagged_fields : TaggedFields
}.

(* @ src/crates/kafka-protocol/src/messages/unregister_broker_request.rs 113-120 UnregisterBrokerRequest::default *)
Definition UnregisterBrokerRequest_default : UnregisterBrokerRequest := {|
  UnregisterBrokerRequest_broker_id := 0;
  UnregisterBrokerRequest_unknown_tagged_fields := ∅
|}.

(* @ src/crates/kafka-protocol/src/messages/unregister_broker_request.rs 55-111 UnregisterBrokerRequest::encode, compute_size, decode *)
Definition UnregisterBrokerRequest_codec (version : Z) : Codec UnregisterBrokerRequest :=
  message 0 0 version (build mkUnregisterBrokerRequest
    ⊛ (field UnregisterBrokerRequest_broker_id Int32)
    ⊛ unknown_tags true UnregisterBrokerRequest_unknown_tagged_fields).

Definition UnregisterBrokerRequest_valid (version : Z) (x : UnregisterBrokerRequest) : Prop :=
  in_signed 32 (UnregisterBrokerRequest_broker_id x) ∧
  unknown_valid 0 (UnregisterBrokerRequest_unknown_tagged_fields x).

#[global] Instance UnregisterBrokerRequest_sound version : Sound (UnregisterBrokerRequest_codec version)
    (UnregisterBrokerRequest_valid version).
Proof. solve_message. Qed.

(* @ src/crates/kafka-protocol/src/messages/unregister_broker_request.rs 127-131 UnregisterBrokerRequest::header_version *)
Definition UnregisterBrokerRequest_header_version (version : Z) : Z := 2.

(* @ src/crates/kafka-protocol/src/messages/unregister_broker_request.rs 122-125 UnregisterBrokerRequest::VERSIONS *)
Definition UnregisterBrokerRequest_VERSIONS : Z * Z := (0, 0).

(** ** [unregister_broker_response] *)

(* @ src/crates/kafka-protocol/src/messages/unregister_broker_response.rs 20-41 UnregisterBrokerResponse *)
Record UnregisterBrokerResponse : Type := mkUnregisterBrokerResponse {
  UnregisterBrokerResponse_throttle_time_ms : Z;
  UnregisterBrokerResponse_error_code : Z;
  UnregisterBrokerResponse_error_message : option (list byte);
  UnregisterBrokerResponse_unknown_tagged_fields : TaggedFields
}.

(* @ src/crates/kafka-protocol/src/messages/unregister_broker_response.rs 149-158 UnregisterBrokerResponse::default *)
Definition UnregisterBrokerResponse_default : UnregisterBrokerResponse := {|
  UnregisterBrokerResponse_throttle_time_ms := 0;
  UnregisterBrokerResponse_error_code := 0;
  UnregisterBrokerResponse_error_message := Some [];
  UnregisterBrokerResponse_unknown_tagged_fields := ∅
|}.

(* @ src/crates/kafka-protocol/src/messages/unregister_broker_response.rs 83-147 UnregisterBrokerResponse::encode, compute_size, decode *)
Definition UnregisterBrokerResponse_codec (version : Z) : Codec UnregisterBrokerResponse :=
  message 0 0 version (build mkUnregisterBrokerResponse
    ⊛ (field UnregisterBrokerResponse_throttle_time_ms Int32)
    ⊛ (field UnregisterBrokerResponse_error_code Int16)
    ⊛ (field UnregisterBrokerResponse_error_message NullableCompactString)
    ⊛ unknown_tags true UnregisterBrokerResponse_unknown_tagged_fields).

Definition UnregisterBrokerResponse_valid (version : Z) (x : UnregisterBrokerResponse) : Prop :=
  in_signed 32 (UnregisterBrokerResponse_throttle_time_ms x) ∧
  in_signed 16 (UnregisterBrokerResponse_error_code x) ∧
  opt_all utf8 (UnregisterBrokerResponse_error_message x) ∧
  unknown_valid 0 (UnregisterBrokerResponse_unknown_tagged_fields x).

#[global] Instance UnregisterBrokerResponse_sound version : Sound (UnregisterBrokerResponse_codec version)
    (UnregisterBrokerResponse_valid version).
Proof. solve_message. Qed.

(* @ src/crates/kafka-protocol/src/messages/unregister_broker_response.rs 165-169 UnregisterBrokerResponse::header_version *)
Definition UnregisterBrokerResponse_header_version (version : Z) : Z := 1.

(* @ src/crates/kafka-protocol/src/messages/unregister_broker_response.rs 160-163 UnregisterBrokerResponse::VERSIONS *)
Definition UnregisterBrokerResponse_VERSIONS : Z * Z := (0, 0).

(** ** [update_features_request] *)

(* @ src/crates/kafka-protocol/src/messages/update_features_request.rs 20-46 FeatureUpdateKey *)
Record FeatureUpdateKey : Type := mkFeatureUpdateKey {
  FeatureUpdateKey_feature : list byte;
  FeatureUpdateKey_max_version_level : Z;
  FeatureUpdateKey_allow_downgrade : bool;
  FeatureUpdateKey_upgrade_type : Z;
  FeatureUpdateKey_unknown_tagged_fields : TaggedFields
}.

(* @ src/crates/kafka-protocol/src/messages/update_features_request.rs 199-209 FeatureUpdateKey::default *)
Definition FeatureUpdateKey_default : FeatureUpdateKey := {|
  FeatureUpdateKey_feature := [];
  FeatureUpdateKey_max_version_level := 0;
  FeatureUpdateKey_allow_downgrade := false;
  FeatureUpdateKey_upgrade_type := 1;
  FeatureUpdateKey_unknown_tagged_fields := ∅
|}.

(* @ src/crates/kafka-protocol/src/messages/update_features_request.rs 97-197 FeatureUpdateKey::encode, compute_size, decode *)
Definition FeatureUpdateKey_codec (version : Z) : Codec FeatureUpdateKey :=
  message 0 2 version (build mkFeatureUpdateKey
    ⊛ (field FeatureUpdateKey_feature CompactString)
    ⊛ (field FeatureUpdateKey_max_version_level Int16)
    ⊛ (if version =? 0 then field FeatureUpdateKey_allow_downgrade Boolean else unset
        FeatureUpdateKey_allow_downgrade negb false)
    ⊛ (if 1 <=? version then field FeatureUpdateKey_upgrade_type Int8 else unset
        FeatureUpdateKey_upgrade_type (Z.eqb 1) 1)
    ⊛ unknown_tags true FeatureUpdateKey_unknown_tagged_fields).

Definition FeatureUpdateKey_valid (version : Z) (x : FeatureUpdateKey) : Prop :=
  utf8 (FeatureUpdateKey_feature x) ∧
  in_signed 16 (FeatureUpdateKey_max_version_level x) ∧
  in_signed 8 (FeatureUpdateKey_upgrade_type x) ∧
  unknown_valid 0 (FeatureUpdateKey_unknown_tagged_fields x).

#[global] Instance FeatureUpdateKey_sound version : Sound (FeatureUpdateKey_codec version)
    (FeatureUpdateKey_valid version).
Proof. solve_message. Qed.

(* @ src/crates/kafka-protocol/src/messages/update_features_request.rs 216-237 UpdateFeaturesRequest *)
Record UpdateFeaturesRequest : Type := mkUpdateFeaturesRequest {
  UpdateFeaturesRequest_timeout_ms : Z;
  UpdateFeaturesRequest_feature_updates : list FeatureUpdateKey;
  UpdateFeaturesRequest_validate_only : bool;
  UpdateFeaturesRequest_unknown_tagged_fields : TaggedFields
}.

(* @ src/crates/kafka-protocol/src/messages/update_features_request.rs 362-371 UpdateFeaturesRequest::default *)
Definition UpdateFeaturesRequest_default : UpdateFeaturesRequest := {|
  UpdateFeaturesRequest_timeout_ms := 60000;
  UpdateFeaturesRequest_feature_updates := [];
  UpdateFeaturesRequest_validate_only := false;
  UpdateFeaturesRequest_unknown_tagged_fields := ∅
|}.

(* @ src/crates/kafka-protocol/src/messages/update_features_request.rs 279-360 UpdateFeaturesRequest::encode, compute_size, decode *)
Definition UpdateFeaturesRequest_codec (version : Z) : Codec UpdateFeaturesRequest :=
  message 0 2 version (build mkUpdateFeaturesRequest
    ⊛ (field UpdateFeaturesRequest_timeout_ms Int32)
    ⊛ (field UpdateFeaturesRequest_feature_updates (CompactArray (Struct FeatureUpdateKey_codec version)))
    ⊛ (if 1 <=? version then field UpdateFeaturesRequest_validate_only Boolean else unset
        UpdateFeaturesRequest_validate_only negb false)
    ⊛ unknown_tags true UpdateFeaturesRequest_unknown_tagged_fields).

Definition UpdateFeaturesRequest_valid (version : Z) (x : UpdateFeaturesRequest) : Prop :=
  in_signed 32 (UpdateFeaturesRequest_timeout_ms x) ∧
  Forall (FeatureUpdateKey_valid version) (UpdateFeaturesRequest_feature_updates x) ∧
  unknown_valid 0 (UpdateFeaturesRequest_unknown_tagged_fields x).

#[global] Instance UpdateFeaturesRequest_sound version : Sound (UpdateFeaturesRequest_codec version)
    (UpdateFeaturesRequest_valid version).
Proof. solve_message. Qed.

(* @ src/crates/kafka-protocol/src/messages/update_features_request.rs 378-382 UpdateFeaturesRequest::header_version *)
Definition UpdateFeaturesRequest_header_version (version : Z) : Z := 2.

(* @ src/crates/kafka-protocol/src/messages/update_features_request.rs 373-376 UpdateFeaturesRequest::VERSIONS *)
Definition UpdateFeaturesRequest_VERSIONS : Z * Z := (0, 2).

(** ** [update_features_response] *)

(* @ src/crates/kafka-protocol/src/messages/update_features_response.rs 20-41 UpdatableFeatureResult *)
Record UpdatableFeatureResult : Type := mkUpdatableFeatureResult {
  UpdatableFeatureResult_feature : list byte;
  UpdatableFeatureResult_error_code : Z;
  UpdatableFeatureResult_error_message : option (list byte);
  UpdatableFeatureResult_unknown_tagged_fields : TaggedFields
}.

(* @ src/crates/kafka-protocol/src/messages/update_features_response.rs 149-158 UpdatableFeatureResult::default *)
Definition UpdatableFeatureResult_default : UpdatableFeatureResult := {|
  UpdatableFeatureResult_feature := [];
  UpdatableFeatureResult_error_code := 0;
  UpdatableFeatureResult_error_message := Some [];
  UpdatableFeatureResult_unknown_tagged_fields := ∅
|}.

(* @ src/crates/kafka-protocol/src/messages/update_features_response.rs 83-147 UpdatableFeatureResult::encode, compute_size, decode *)
Definition UpdatableFeatureResult_codec (version : Z) : Codec UpdatableFeatureResult :=
  message 0 2 version (build mkUpdatableFeatureResult
    ⊛ (field UpdatableFeatureResult_feature CompactString)
    ⊛ (field UpdatableFeatureResult_error_code Int16)
    ⊛ (field UpdatableFeatureResult_error_message NullableCompactString)
    ⊛ unknown_tags true UpdatableFeatureResult_unknown_tagged_fields).

Definition UpdatableFeatureResult_valid (version : Z) (x : UpdatableFeatureResult) : Prop :=
  utf8 (UpdatableFeatureResult_feature x) ∧
  in_signed 16 (UpdatableFeatureResult_error_code x) ∧
  opt_all utf8 (UpdatableFeatureResult_error_message x) ∧
  unknown_valid 0 (UpdatableFeatureResult_unknown_tagged_fields x).

#[global] Instance UpdatableFeatureResult_sound version : Sound (UpdatableFeatureResult_codec version)
    (UpdatableFeatureResult_valid version).
Proof. solve_message. Qed.

(* @ src/crates/kafka-protocol/src/messages/update_features_response.rs 165-191 UpdateFeaturesResponse *)
Record UpdateFeaturesResponse : Type := mkUpdateFeaturesResponse {
  UpdateFeaturesResponse_throttle_time_ms : Z;
  UpdateFeaturesResponse_error_code : Z;
  UpdateFeaturesResponse_error_message : option (list byte);
  UpdateFeaturesResponse_results : list UpdatableFeatureResult;
  UpdateFeaturesResponse_unknown_tagged_fields : TaggedFields
}.

(* @ src/crates/kafka-protocol/src/messages/update_features_response.rs 321-331 UpdateFeaturesResponse::default *)
Definition UpdateFeaturesResponse_default : UpdateFeaturesResponse := {|
  UpdateFeaturesResponse_throttle_time_ms := 0;
  UpdateFeaturesResponse_error_code := 0;
  UpdateFeaturesResponse_error_message := Some [];
  UpdateFeaturesResponse_results := [];
  UpdateFeaturesResponse_unknown_tagged_fields := ∅
|}.

(* @ src/crates/kafka-protocol/src/messages/update_features_response.rs 242-319 UpdateFeaturesResponse::encode, compute_size, decode *)
Definition UpdateFeaturesResponse_codec (version : Z) : Codec UpdateFeaturesResponse :=
  message 0 2 version (build mkUpdateFeaturesResponse
    ⊛ (field UpdateFeaturesResponse_throttle_time_ms Int32)
    ⊛ (field UpdateFeaturesResponse_error_code Int16)
    ⊛ (field UpdateFeaturesResponse_error_message NullableCompactString)
    ⊛ (if version <=? 1 then field UpdateFeaturesResponse_results (CompactArray (Struct
        UpdatableFeatureResult_codec version)) else ignored [])
    ⊛ unknown_tags true UpdateFeaturesResponse_unknown_tagged_fields).

Definition UpdateFeaturesResponse_valid (version : Z) (x : UpdateFeaturesResponse) : Prop :=
  in_signed 32 (UpdateFeaturesResponse_throttle_time_ms x) ∧
  in_signed 16 (UpdateFeaturesResponse_error_code x) ∧
  opt_all utf8 (UpdateFeaturesResponse_error_message x) ∧
  (if version <=? 1 then Forall (UpdatableFeatureResult_valid version) (UpdateFeaturesResponse_results x)
      else UpdateFeaturesResponse_results x = []) ∧
  unknown_valid 0 (UpdateFeaturesResponse_unknown_tagged_fields x).

#[global] Instance UpdateFeaturesResponse_sound version : Sound (UpdateFeaturesResponse_codec version)
    (UpdateFeaturesResponse_valid version).
Proof. solve_message. Qed.

(* @ src/crates/kafka-protocol/src/messages/update_features_response.rs 338-342 UpdateFeaturesResponse::header_version *)
Definition UpdateFeaturesResponse_header_version (version : Z) : Z := 1.

(* @ src/crates/kafka-protocol/src/messages/update_features_response.rs 333-336 UpdateFeaturesResponse::VERSIONS *)
Definition UpdateFeaturesResponse_VERSIONS : Z * Z := (0, 2).

(** ** [update_raft_voter_request] *)

(* @ src/crates/kafka-protocol/src/messages/update_raft_voter_request.rs 20-36 KRaftVersionFeature *)
Record UpdateRaftVoterRequest_KRaftVersionFeature : Type := mkUpdateRaftVoterRequest_KRaftVersionFeature {
  UpdateRaftVoterRequest_KRaftVersionFeature_min_supported_version : Z;
  UpdateRaftVoterRequest_KRaftVersionFeature_max_supported_version : Z;
  UpdateRaftVoterRequest_KRaftVersionFeature_unknown_tagged_fields : TaggedFields
}.

(* @ src/crates/kafka-protocol/src/messages/update_raft_voter_request.rs 131-139 KRaftVersionFeature::default *)
Definition UpdateRaftVoterRequest_KRaftVersionFeature_default : UpdateRaftVoterRequest_KRaftVersionFeature
    := {|
  UpdateRaftVoterRequest_KRaftVersionFeature_min_supported_version := 0;
  UpdateRaftVoterRequest_KRaftVersionFeature_max_supported_version := 0;
  UpdateRaftVoterRequest_KRaftVersionFeature_unknown_tagged_fields := ∅
|}.

(* @ src/crates/kafka-protocol/src/messages/update_raft_voter_request.rs 69-129 KRaftVersionFeature::encode, compute_size, decode *)
Definition UpdateRaftVoterRequest_KRaftVersionFeature_codec (version : Z) : Codec
    UpdateRaftVoterRequest_KRaftVersionFeature :=
  message 0 0 version (build mkUpdateRaftVoterRequest_KRaftVersionFeature
    ⊛ (field UpdateRaftVoterRequest_KRaftVersionFeature_min_supported_version Int16)
    ⊛ (field UpdateRaftVoterRequest_KRaftVersionFeature_max_supported_version Int16)
    ⊛ unknown_tags true UpdateRaftVoterRequest_KRaftVersionFeature_unknown_tagged_fields).

Definition UpdateRaftVoterRequest_KRaftVersionFeature_valid (version : Z) (x :
    UpdateRaftVoterRequest_KRaftVersionFeature) : Prop :=
  in_signed 16 (UpdateRaftVoterRequest_KRaftVersionFeature_min_supported_version x) ∧
  in_signed 16 (UpdateRaftVoterRequest_KRaftVersionFeature_max_supported_version x) ∧
  unknown_valid 0 (UpdateRaftVoterRequest_KRaftVersionFeature_unknown_tagged_fields x).

#[global] Instance UpdateRaftVoterRequest_KRaftVersionFeature_sound version : Sound
    (UpdateRaftVoterRequest_KRaftVersionFeature_codec version)
    (UpdateRaftVoterRequest_KRaftVersionFeature_valid version).
Proof. solve_message. Qed.

(* @ src/crates/kafka-protocol/src/messages/update_raft_voter_request.rs 146-167 Listener *)
Record UpdateRaftVoterRequest_Listener : Type := mkUpdateRaftVoterRequest_Listener {
  UpdateRaftVoterRequest_Listener_name : list byte;
  UpdateRaftVoterRequest_Listener_host : list byte;
  UpdateRaftVoterRequest_Listener_port : Z;
  UpdateRaftVoterRequest_Listener_unknown_tagged_fields : TaggedFields
}.

(* @ src/crates/kafka-protocol/src/messages/update_raft_voter_request.rs 275-284 Listener::default *)
Definition UpdateRaftVoterRequest_Listener_default : UpdateRaftVoterRequest_Listener := {|
  UpdateRaftVoterRequest_Listener_name := [];
  UpdateRaftVoterRequest_Listener_host := [];
  UpdateRaftVoterRequest_Listener_port := 0;
  UpdateRaftVoterRequest_Listener_unknown_tagged_fields := ∅
|}.

(* @ src/crates/kafka-protocol/src/messages/update_raft_voter_request.rs 209-273 Listener::encode, compute_size, decode *)
Definition UpdateRaftVoterRequest_Listener_codec (version : Z) : Codec UpdateRaftVoterRequest_Listener :=
  message 0 0 version (build mkUpdateRaftVoterRequest_Listener
    ⊛ (field UpdateRaftVoterRequest_Listener_name CompactString)
    ⊛ (field UpdateRaftVoterRequest_Listener_host CompactString)
    ⊛ (field UpdateRaftVoterRequest_Listener_port UInt16)
    ⊛ unknown_tags true UpdateRaftVoterRequest_Listener_unknown_tagged_fields).

Definition UpdateRaftVoterRequest_Listener_valid (version : Z) (x : UpdateRaftVoterRequest_Listener) : Prop
    :=
  utf8 (UpdateRaftVoterRequest_Listener_name x) ∧
  utf8 (UpdateRaftVoterRequest_Listener_host x) ∧
  in_unsigned 16 (UpdateRaftVoterRequest_Listener_port x) ∧
  unknown_valid 0 (UpdateRaftVoterRequest_Listener_unknown_tagged_fields x).

#[global] Instance UpdateRaftVoterRequest_Listener_sound version : Sound
    (UpdateRaftVoterRequest_Listener_codec version) (UpdateRaftVoterRequest_Listener_valid version).
Proof. solve_message. Qed.

(* @ src/crates/kafka-protocol/src/messages/update_raft_voter_request.rs 291-327 UpdateRaftVoterRequest *)
Record UpdateRaftVoterRequest : Type := mkUpdateRaftVoterRequest {
  UpdateRaftVoterRequest_cluster_id : option (list byte);
  UpdateRaftVoterRequest_current_leader_epoch : Z;
  UpdateRaftVoterRequest_voter_id : Z;
  UpdateRaftVoterRequest_voter_directory_id : Z;
  UpdateRaftVoterRequest_listeners : list UpdateRaftVoterRequest_Listener;
  UpdateRaftVoterRequest_k_raft_version_feature : UpdateRaftVoterRequest_KRaftVersionFeature;
  UpdateRaftVoterRequest_unknown_tagged_fields : TaggedFields
}.

(* @ src/crates/kafka-protocol/src/messages/update_raft_voter_request.rs 475-487 UpdateRaftVoterRequest::default *)
Definition UpdateRaftVoterRequest_default : UpdateRaftVoterRequest := {|
  UpdateRaftVoterRequest_cluster_id := Some [];
  UpdateRaftVoterRequest_current_leader_epoch := 0;
  UpdateRaftVoterRequest_voter_id := 0;
  UpdateRaftVoterRequest_voter_directory_id := 0;
  UpdateRaftVoterRequest_listeners := [];
  UpdateRaftVoterRequest_k_raft_version_feature := UpdateRaftVoterRequest_KRaftVersionFeature_default;
  UpdateRaftVoterRequest_unknown_tagged_fields := ∅
|}.

(* @ src/crates/kafka-protocol/src/messages/update_raft_voter_request.rs 396-473 UpdateRaftVoterRequest::encode, compute_size, decode *)
Definition UpdateRaftVoterRequest_codec (version : Z) : Codec UpdateRaftVoterRequest :=
  message 0 0 version (build mkUpdateRaftVoterRequest
    ⊛ (field UpdateRaftVoterRequest_cluster_id NullableCompactString)
    ⊛ (field UpdateRaftVoterRequest_current_leader_epoch Int32)
    ⊛ (field UpdateRaftVoterRequest_voter_id Int32)
    ⊛ (field UpdateRaftVoterRequest_voter_directory_id Uuid)
    ⊛ (field UpdateRaftVoterRequest_listeners (CompactArray (Struct UpdateRaftVoterRequest_Listener_codec
        version)))
    ⊛ (field UpdateRaftVoterRequest_k_raft_version_feature (Struct
        UpdateRaftVoterRequest_KRaftVersionFeature_codec version))
    ⊛ unknown_tags true UpdateRaftVoterRequest_unknown_tagged_fields).

Definition UpdateRaftVoterRequest_valid (version : Z) (x : UpdateRaftVoterRequest) : Prop :=
  opt_all utf8 (UpdateRaftVoterRequest_cluster_id x) ∧
  in_signed 32 (UpdateRaftVoterRequest_current_leader_epoch x) ∧
  in_signed 32 (UpdateRaftVoterRequest_voter_id x) ∧
  in_unsigned 128 (UpdateRaftVoterRequest_voter_directory_id x) ∧
  Forall (UpdateRaftVoterRequest_Listener_valid version) (UpdateRaftVoterRequest_listeners x) ∧
  UpdateRaftVoterRequest_KRaftVersionFeature_valid version (UpdateRaftVoterRequest_k_raft_version_feature
      x) ∧
  unknown_valid 0 (UpdateRaftVoterRequest_unknown_tagged_fields x).

#[global] Instance UpdateRaftVoterRequest_sound version : Sound (UpdateRaftVoterRequest_codec version)
    (UpdateRaftVoterRequest_valid version).
Proof. solve_message. Qed.

(* @ src/crates/kafka-protocol/src/messages/update_raft_voter_request.rs 494-498 UpdateRaftVoterRequest::header_version *)
Definition UpdateRaftVoterRequest_header_version (version : Z) : Z := 2.

(* @ src/crates/kafka-protocol/src/messages/update_raft_voter_request.rs 489-492 UpdateRaftVoterRequest::VERSIONS *)
Definition UpdateRaftVoterRequest_VERSIONS : Z * Z := (0, 0).

(** ** [update_raft_voter_response] *)

(* @ src/crates/kafka-protocol/src/messages/update_raft_voter_response.rs 20-46 CurrentLeader *)
Record CurrentLeader : Type := mkCurrentLeader {
  CurrentLeader_leader_id : Z;
  CurrentLeader_leader_epoch : Z;
  CurrentLeader_host : list byte;
  CurrentLeader_port : Z;
  CurrentLeader_unknown_tagged_fields : TaggedFields
}.

(* @ src/crates/kafka-protocol/src/messages/update_raft_voter_response.rs 167-177 CurrentLeader::default *)
Definition CurrentLeader_default : CurrentLeader := {|
  CurrentLeader_leader_id := -1;
  CurrentLeader_leader_epoch := -1;
  CurrentLeader_host := [];
  CurrentLeader_port := 0;
  CurrentLeader_unknown_tagged_fields := ∅
|}.

#[global] Instance CurrentLeader_eq_dec : EqDecision CurrentLeader.
Proof. solve_decision. Defined.

(* @ src/crates/kafka-protocol/src/messages/update_raft_voter_response.rs 97-165 CurrentLeader::encode, compute_size, decode *)
Definition CurrentLeader_codec (version : Z) : Codec CurrentLeader :=
  message 0 0 version (build mkCurrentLeader
    ⊛ (field CurrentLeader_leader_id Int32)
    ⊛ (field CurrentLeader_leader_epoch Int32)
    ⊛ (field CurrentLeader_host CompactString)
    ⊛ (field CurrentLeader_port Int32)
    ⊛ unknown_tags true CurrentLeader_unknown_tagged_fields).

Definition CurrentLeader_valid (version : Z) (x : CurrentLeader) : Prop :=
  in_signed 32 (CurrentLeader_leader_id x) ∧
  in_signed 32 (CurrentLeader_leader_epoch x) ∧
  utf8 (CurrentLeader_host x) ∧
  in_signed 32 (CurrentLeader_port x) ∧
  unknown_valid 0 (CurrentLeader_unknown_tagged_fields x).

#[global] Instance CurrentLeader_sound version : Sound (CurrentLeader_codec version) (CurrentLeader_valid
    version).
Proof. solve_message. Qed.

(* @ src/crates/kafka-protocol/src/messages/update_raft_voter_response.rs 184-205 UpdateRaftVoterResponse *)
Record UpdateRaftVoterResponse : Type := mkUpdateRaftVoterResponse {
  UpdateRaftVoterResponse_throttle_time_ms : Z;
  UpdateRaftVoterResponse_error_code : Z;
  UpdateRaftVoterResponse_current_leader : CurrentLeader;
  UpdateRaftVoterResponse_unknown_tagged_fields : TaggedFields
}.

(* @ src/crates/kafka-protocol/src/messages/update_raft_voter_response.rs 348-357 UpdateRaftVoterResponse::default *)
Definition UpdateRaftVoterResponse_default : UpdateRaftVoterResponse := {|
  UpdateRaftVoterResponse_throttle_time_ms := 0;
  UpdateRaftVoterResponse_error_code := 0;
  UpdateRaftVoterResponse_current_leader := CurrentLeader_default;
  UpdateRaftVoterResponse_unknown_tagged_fields := ∅
|}.

(* @ src/crates/kafka-protocol/src/messages/update_raft_voter_response.rs 247-346 UpdateRaftVoterResponse::encode, compute_size, decode *)
Definition UpdateRaftVoterResponse_codec (version : Z) : Codec UpdateRaftVoterResponse :=
  message 0 0 version (build (λ throttle_time_ms error_code '(current_leader, unknown_tagged_fields),
      mkUpdateRaftVoterResponse throttle_time_ms error_code current_leader unknown_tagged_fields)
    ⊛ (field UpdateRaftVoterResponse_throttle_time_ms Int32)
    ⊛ (field UpdateRaftVoterResponse_error_code Int16)
    ⊛ tag_section true CurrentLeader_default [
       tagged 0 true UpdateRaftVoterResponse_current_leader (λ v, bool_decide (v = CurrentLeader_default))
           (Struct CurrentLeader_codec version) (λ v _, v)] 1
           UpdateRaftVoterResponse_unknown_tagged_fields).

Definition UpdateRaftVoterResponse_valid (version : Z) (x : UpdateRaftVoterResponse) : Prop :=
  in_signed 32 (UpdateRaftVoterResponse_throttle_time_ms x) ∧
  in_signed 16 (UpdateRaftVoterResponse_error_code x) ∧
  CurrentLeader_valid version (UpdateRaftVoterResponse_current_leader x) ∧
  unknown_valid 1 (UpdateRaftVoterResponse_unknown_tagged_fields x).

#[global] Instance UpdateRaftVoterResponse_sound version : Sound (UpdateRaftVoterResponse_codec version)
    (UpdateRaftVoterResponse_valid version).
Proof. solve_tagged_message. Qed.

(* @ src/crates/kafka-protocol/src/messages/update_raft_voter_response.rs 364-368 UpdateRaftVoterResponse::header_version *)
Definition UpdateRaftVoterResponse_header_version (version : Z) : Z := 1.

(* @ src/crates/kafka-protocol/src/messages/update_raft_voter_response.rs 359-362 UpdateRaftVoterResponse::VERSIONS *)
Definition UpdateRaftVoterResponse_VERSIONS : Z * Z := (0, 0).

(** ** [vote_request] *)

(* @ src/crates/kafka-protocol/src/messages/vote_request.rs 20-66 PartitionData *)
Record VoteRequest_PartitionData : Type := mkVoteRequest_PartitionData {
  VoteRequest_PartitionData_partition_index : Z;
  VoteRequest_PartitionData_replica_epoch : Z;
  VoteRequest_PartitionData_replica_id : Z;
  VoteRequest_PartitionData_replica_directory_id : Z;
  VoteRequest_PartitionData_voter_directory_id : Z;
  VoteRequest_PartitionData_last_offset_epoch : Z;
  VoteRequest_PartitionData_last_offset : Z;
  VoteRequest_PartitionData_pre_vote : bool;
  VoteRequest_PartitionData_unknown_tagged_fields : TaggedFields
}.

(* @ src/crates/kafka-protocol/src/messages/vote_request.rs 271-285 PartitionData::default *)
Definition VoteRequest_PartitionData_default : VoteRequest_PartitionData := {|
  VoteRequest_PartitionData_partition_index := 0;
  VoteRequest_PartitionData_replica_epoch := 0;
  VoteRequest_PartitionData_replica_id := 0;
  VoteRequest_PartitionData_replica_directory_id := 0;
  VoteRequest_PartitionData_voter_directory_id := 0;
  VoteRequest_PartitionData_last_offset_epoch := 0;
  VoteRequest_PartitionData_last_offset := 0;
  VoteRequest_PartitionData_pre_vote := false;
  VoteRequest_PartitionData_unknown_tagged_fields := ∅
|}.

(* @ src/crates/kafka-protocol/src/messages/vote_request.rs 153-269 PartitionData::encode, compute_size, decode *)
Definition VoteRequest_PartitionData_codec (version : Z) : Codec VoteRequest_PartitionData :=
  message 0 2 version (build mkVoteRequest_PartitionData
    ⊛ (field VoteRequest_PartitionData_partition_index Int32)
    ⊛ (field VoteRequest_PartitionData_replica_epoch Int32)
    ⊛ (field VoteRequest_PartitionData_replica_id Int32)
    ⊛ (if 1 <=? version then field VoteRequest_PartitionData_replica_directory_id Uuid else ignored 0)
    ⊛ (if 1 <=? version then field VoteRequest_PartitionData_voter_directory_id Uuid else ignored 0)
    ⊛ (field VoteRequest_PartitionData_last_offset_epoch Int32)
    ⊛ (field VoteRequest_PartitionData_last_offset Int64)
    ⊛ (if 2 <=? version then field VoteRequest_PartitionData_pre_vote Boolean else unset
        VoteRequest_PartitionData_pre_vote negb false)
    ⊛ unknown_tags true VoteRequest_PartitionData_unknown_tagged_fields).

Definition VoteRequest_PartitionData_valid (version : Z) (x : VoteRequest_PartitionData) : Prop :=
  in_signed 32 (VoteRequest_PartitionData_partition_index x) ∧
  in_signed 32 (VoteRequest_PartitionData_replica_epoch x) ∧
  in_signed 32 (VoteRequest_PartitionData_replica_id x) ∧
  (if 1 <=? version then in_unsigned 128 (VoteRequest_PartitionData_replica_directory_id x) else
      VoteRequest_PartitionData_replica_directory_id x = 0) ∧
  (if 1 <=? version then in_unsigned 128 (VoteRequest_PartitionData_voter_directory_id x) else
      VoteRequest_PartitionData_voter_directory_id x = 0) ∧
  in_signed 32 (VoteRequest_PartitionData_last_offset_epoch x) ∧
  in_signed 64 (VoteRequest_PartitionData_last_offset x) ∧
  unknown_valid 0 (VoteRequest_PartitionData_unknown_tagged_fields x).

#[global] Instance VoteRequest_PartitionData_sound version : Sound (VoteRequest_PartitionData_codec
    version) (VoteRequest_PartitionData_valid version).
Proof. solve_message. Qed.

(* @ src/crates/kafka-protocol/src/messages/vote_request.rs 292-308 TopicData *)
Record VoteRequest_TopicData : Type := mkVoteRequest_TopicData {
  VoteRequest_TopicData_topic_name : list byte;
  VoteRequest_TopicData_partitions : list VoteRequest_PartitionData;
  VoteRequest_TopicData_unknown_tagged_fields : TaggedFields
}.

(* @ src/crates/kafka-protocol/src/messages/vote_request.rs 404-412 TopicData::default *)
Definition VoteRequest_TopicData_default : VoteRequest_TopicData := {|
  VoteRequest_TopicData_topic_name := [];
  VoteRequest_TopicData_partitions := [];
  VoteRequest_TopicData_unknown_tagged_fields := ∅
|}.

(* @ src/crates/kafka-protocol/src/messages/vote_request.rs 341-402 TopicData::encode, compute_size, decode *)
Definition VoteRequest_TopicData_codec (version : Z) : Codec VoteRequest_TopicData :=
  message 0 2 version (build mkVoteRequest_TopicData
    ⊛ (field VoteRequest_TopicData_topic_name CompactString)
    ⊛ (field VoteRequest_TopicData_partitions (CompactArray (Struct VoteRequest_PartitionData_codec
        version)))
    ⊛ unknown_tags true VoteRequest_TopicData_unknown_tagged_fields).

Definition VoteRequest_TopicData_valid (version : Z) (x : VoteRequest_TopicData) : Prop :=
  utf8 (VoteRequest_TopicData_topic_name x) ∧
  Forall (VoteRequest_PartitionData_valid version) (VoteRequest_TopicData_partitions x) ∧
  unknown_valid 0 (VoteRequest_TopicData_unknown_tagged_fields x).

#[global] Instance VoteRequest_TopicData_sound version : Sound (VoteRequest_TopicData_codec version)
    (VoteRequest_TopicData_valid version).
Proof. solve_message. Qed.

(* @ src/crates/kafka-protocol/src/messages/vote_request.rs 419-440 VoteRequest *)
Record VoteRequest : Type := mkVoteRequest {
  VoteRequest_cluster_id : option (list byte);
  VoteRequest_voter_id : Z;
  VoteRequest_topics : list VoteRequest_TopicData;
  VoteRequest_unknown_tagged_fields : TaggedFields
}.

(* @ src/crates/kafka-protocol/src/messages/vote_request.rs 556-565 VoteRequest::default *)
Definition VoteRequest_default : VoteRequest := {|
  VoteRequest_cluster_id := None;
  VoteRequest_voter_id := -1;
  VoteRequest_topics := [];
  VoteRequest_unknown_tagged_fields := ∅
|}.

(* @ src/crates/kafka-protocol/src/messages/vote_request.rs 482-554 VoteRequest::encode, compute_size, decode *)
Definition VoteRequest_codec (version : Z) : Codec VoteRequest :=
  message 0 2 version (build mkVoteRequest
    ⊛ (field VoteRequest_cluster_id NullableCompactString)
    ⊛ (if 1 <=? version then field VoteRequest_voter_id Int32 else ignored (-1))
    ⊛ (field VoteRequest_topics (CompactArray (Struct VoteRequest_TopicData_codec version)))
    ⊛ unknown_tags true VoteRequest_unknown_tagged_fields).

Definition VoteRequest_valid (version : Z) (x : VoteRequest) : Prop :=
  opt_all utf8 (VoteRequest_cluster_id x) ∧
  (if 1 <=? version then in_signed 32 (VoteRequest_voter_id x) else VoteRequest_voter_id x = (-1)) ∧
  Forall (VoteRequest_TopicData_valid version) (VoteRequest_topics x) ∧
  unknown_valid 0 (VoteRequest_unknown_tagged_fields x).

#[global] Instance VoteRequest_sound version : Sound (VoteRequest_codec version) (VoteRequest_valid
    version).
Proof. solve_message. Qed.

(* @ src/crates/kafka-protocol/src/messages/vote_request.rs 572-576 VoteRequest::header_version *)
Definition VoteRequest_header_version (version : Z) : Z := 2.

(* @ src/crates/kafka-protocol/src/messages/vote_request.rs 567-570 VoteRequest::VERSIONS *)
Definition VoteRequest_VERSIONS : Z * Z := (0, 2).

(** ** [vote_response] *)

(* @ src/crates/kafka-protocol/src/messages/vote_response.rs 20-41 NodeEndpoint *)
Record VoteResponse_NodeEndpoint : Type := mkVoteResponse_NodeEndpoint {
  VoteResponse_NodeEndpoint_node_id : Z;
  VoteResponse_NodeEndpoint_host : list byte;
  VoteResponse_NodeEndpoint_port : Z;
  VoteResponse_NodeEndpoint_unknown_tagged_fields : TaggedFields
}.

(* @ src/crates/kafka-protocol/src/messages/vote_response.rs 197-206 NodeEndpoint::default *)
Definition VoteResponse_NodeEndpoint_default : VoteResponse_NodeEndpoint := {|
  VoteResponse_NodeEndpoint_node_id := 0;
  VoteResponse_NodeEndpoint_host := [];
  VoteResponse_NodeEndpoint_port := 0;
  VoteResponse_NodeEndpoint_unknown_tagged_fields := ∅
|}.

(* @ src/crates/kafka-protocol/src/messages/vote_response.rs 83-195 NodeEndpoint::encode, compute_size, decode *)
Definition VoteResponse_NodeEndpoint_codec (version : Z) : Codec VoteResponse_NodeEndpoint :=
  message 0 2 version (build mkVoteResponse_NodeEndpoint
    ⊛ (if 1 <=? version then field VoteResponse_NodeEndpoint_node_id Int32 else unset
        VoteResponse_NodeEndpoint_node_id (Z.eqb 0) 0)
    ⊛ (if 1 <=? version then field VoteResponse_NodeEndpoint_host CompactString else unset
        VoteResponse_NodeEndpoint_host is_empty [])
    ⊛ (if 1 <=? version then field VoteResponse_NodeEndpoint_port UInt16 else unset
        VoteResponse_NodeEndpoint_port (Z.eqb 0) 0)
    ⊛ unknown_tags true VoteResponse_NodeEndpoint_unknown_tagged_fields).

Definition VoteResponse_NodeEndpoint_valid (version : Z) (x : VoteResponse_NodeEndpoint) : Prop :=
  in_signed 32 (VoteResponse_NodeEndpoint_node_id x) ∧
  utf8 (VoteResponse_NodeEndpoint_host x) ∧
  in_unsigned 16 (VoteResponse_NodeEndpoint_port x) ∧
  unknown_valid 0 (VoteResponse_NodeEndpoint_unknown_tagged_fields x).

#[global] Instance VoteResponse_NodeEndpoint_sound version : Sound (VoteResponse_NodeEndpoint_codec
    version) (VoteResponse_NodeEndpoint_valid version).
Proof. solve_message. Qed.

(* @ src/crates/kafka-protocol/src/messages/vote_response.rs 213-244 PartitionData *)
Record VoteResponse_PartitionData : Type := mkVoteResponse_PartitionData {
  VoteResponse_PartitionData_partition_index : Z;
  VoteResponse_PartitionData_error_code : Z;
  VoteResponse_PartitionData_leader_id : Z;
  VoteResponse_PartitionData_leader_epoch : Z;
  VoteResponse_PartitionData_vote_granted : bool;
  VoteResponse_PartitionData_unknown_tagged_fields : TaggedFields
}.

(* @ src/crates/kafka-protocol/src/messages/vote_response.rs 378-389 PartitionData::default *)
Definition VoteResponse_PartitionData_default : VoteResponse_PartitionData := {|
  VoteResponse_PartitionData_partition_index := 0;
  VoteResponse_PartitionData_error_code := 0;
  VoteResponse_PartitionData_leader_id := 0;
  VoteResponse_PartitionData_leader_epoch := 0;
  VoteResponse_PartitionData_vote_granted := false;
  VoteResponse_PartitionData_unknown_tagged_fields := ∅
|}.

(* @ src/crates/kafka-protocol/src/messages/vote_response.rs 304-376 PartitionData::encode, compute_size, decode *)
Definition VoteResponse_PartitionData_codec (version : Z) : Codec VoteResponse_PartitionData :=
  message 0 2 version (build mkVoteResponse_PartitionData
    ⊛ (field VoteResponse_PartitionData_partition_index Int32)
    ⊛ (field VoteResponse_PartitionData_error_code Int16)
    ⊛ (field VoteResponse_PartitionData_leader_id Int32)
    ⊛ (field VoteResponse_PartitionData_leader_epoch Int32)
    ⊛ (field VoteResponse_PartitionData_vote_granted Boolean)
    ⊛ unknown_tags true VoteResponse_PartitionData_unknown_tagged_fields).

Definition VoteResponse_PartitionData_valid (version : Z) (x : VoteResponse_PartitionData) : Prop :=
  in_signed 32 (VoteResponse_PartitionData_partition_index x) ∧
  in_signed 16 (VoteResponse_PartitionData_error_code x) ∧
  in_signed 32 (VoteResponse_PartitionData_leader_id x) ∧
  in_signed 32 (VoteResponse_PartitionData_leader_epoch x) ∧
  unknown_valid 0 (VoteResponse_PartitionData_unknown_tagged_fields x).

#[global] Instance VoteResponse_PartitionData_sound version : Sound (VoteResponse_PartitionData_codec
    version) (VoteResponse_PartitionData_valid version).
Proof. solve_message. Qed.

(* @ src/crates/kafka-protocol/src/messages/vote_response.rs 396-412 TopicData *)
Record VoteResponse_TopicData : Type := mkVoteResponse_TopicData {
  VoteResponse_TopicData_topic_name : list byte;
  VoteResponse_TopicData_partitions : list VoteResponse_PartitionData;
  VoteResponse_TopicData_unknown_tagged_fields : TaggedFields
}.

(* @ src/crates/kafka-protocol/src/messages/vote_response.rs 508-516 TopicData::default *)
Definition VoteResponse_TopicData_default : VoteResponse_TopicData := {|
  VoteResponse_TopicData_topic_name := [];
  VoteResponse_TopicData_partitions := [];
  VoteResponse_TopicData_unknown_tagged_fields := ∅
|}.

(* @ src/crates/kafka-protocol/src/messages/vote_response.rs 445-506 TopicData::encode, compute_size, decode *)
Definition VoteResponse_TopicData_codec (version : Z) : Codec VoteResponse_TopicData :=
  message 0 2 version (build mkVoteResponse_TopicData
    ⊛ (field VoteResponse_TopicData_topic_name CompactString)
    ⊛ (field VoteResponse_TopicData_partitions (CompactArray (Struct VoteResponse_PartitionData_codec
        version)))
    ⊛ unknown_tags true VoteResponse_TopicData_unknown_tagged_fields).

Definition VoteResponse_TopicData_valid (version : Z) (x : VoteResponse_TopicData) : Prop :=
  utf8 (VoteResponse_TopicData_topic_name x) ∧
  Forall (VoteResponse_PartitionData_valid version) (VoteResponse_TopicData_partitions x) ∧
  unknown_valid 0 (VoteResponse_TopicData_unknown_tagged_fields x).

#[global] Instance VoteResponse_TopicData_sound version : Sound (VoteResponse_TopicData_codec version)
    (VoteResponse_TopicData_valid version).
Proof. solve_message. Qed.

(* @ src/crates/kafka-protocol/src/messages/vote_response.rs 523-544 VoteResponse *)
Record VoteResponse : Type := mkVoteResponse {
  VoteResponse_error_code : Z;
  VoteResponse_topics : list VoteResponse_TopicData;
  VoteResponse_node_endpoints : list VoteResponse_NodeEndpoint;
  VoteResponse_unknown_tagged_fields : TaggedFields
}.

(* @ src/crates/kafka-protocol/src/messages/vote_response.rs 700-709 VoteResponse::default *)
Definition VoteResponse_default : VoteResponse := {|
  VoteResponse_error_code := 0;
  VoteResponse_topics := [];
  VoteResponse_node_endpoints := [];
  VoteResponse_unknown_tagged_fields := ∅
|}.

(* @ src/crates/kafka-protocol/src/messages/vote_response.rs 586-698 VoteResponse::encode, compute_size, decode *)
Definition VoteResponse_codec (version : Z) : Codec VoteResponse :=
  message 0 2 version (build (λ error_code topics '(node_endpoints, unknown_tagged_fields), mkVoteResponse
      error_code topics node_endpoints unknown_tagged_fields)
    ⊛ (field VoteResponse_error_code Int16)
    ⊛ (field VoteResponse_topics (CompactArray (Struct VoteResponse_TopicData_codec version)))
    ⊛ tag_section true [] [
       tagged 0 (1 <=? version) VoteResponse_node_endpoints is_empty (CompactArray (Struct
           VoteResponse_NodeEndpoint_codec version)) (λ v _, v)] 1 VoteResponse_unknown_tagged_fields).

Definition VoteResponse_valid (version : Z) (x : VoteResponse) : Prop :=
  in_signed 16 (VoteResponse_error_code x) ∧
  Forall (VoteResponse_TopicData_valid version) (VoteResponse_topics x) ∧
  (if 1 <=? version then Forall (VoteResponse_NodeEndpoint_valid version) (VoteResponse_node_endpoints x)
      else VoteResponse_node_endpoints x = []) ∧
  unknown_valid 1 (VoteResponse_unknown_tagged_fields x).

#[global] Instance VoteResponse_sound version : Sound (VoteResponse_codec version) (VoteResponse_valid
    version).
Proof. solve_tagged_message. Qed.

(* @ src/crates/kafka-protocol/src/messages/vote_response.rs 716-720 VoteResponse::header_version *)
Definition VoteResponse_header_version (version : Z) : Z := 1.

(* @ src/crates/kafka-protocol/src/messages/vote_response.rs 711-714 VoteResponse::VERSIONS *)
Definition VoteResponse_VERSIONS : Z * Z := (0, 2).

(** ** [voters_record] *)

(* @ src/crates/kafka-protocol/src/messages/voters_record.rs 20-41 Endpoint *)
Record VotersRecord_Endpoint : Type := mkVotersRecord_Endpoint {
  VotersRecord_Endpoint_name : list byte;
  VotersRecord_Endpoint_host : list byte;
  VotersRecord_Endpoint_port : Z;
  VotersRecord_Endpoint_unknown_tagged_fields : TaggedFields
}.

(* @ src/crates/kafka-protocol/src/messages/voters_record.rs 147-156 Endpoint::default *)
Definition VotersRecord_Endpoint_default : VotersRecord_Endpoint := {|
  VotersRecord_Endpoint_name := [];
  VotersRecord_Endpoint_host := [];
  VotersRecord_Endpoint_port := 0;
  VotersRecord_Endpoint_unknown_tagged_fields := ∅
|}.

(* @ src/crates/kafka-protocol/src/messages/voters_record.rs 83-145 Endpoint::encode, compute_size, decode *)
Definition VotersRecord_Endpoint_codec (version : Z) : Codec VotersRecord_Endpoint :=
  message 0 0 version (build mkVotersRecord_Endpoint
    ⊛ (field VotersRecord_Endpoint_name CompactString)
    ⊛ (field VotersRecord_Endpoint_host CompactString)
    ⊛ (field VotersRecord_Endpoint_port UInt16)
    ⊛ unknown_tags true VotersRecord_Endpoint_unknown_tagged_fields).

Definition VotersRecord_Endpoint_valid (version : Z) (x : VotersRecord_Endpoint) : Prop :=
  utf8 (VotersRecord_Endpoint_name x) ∧
  utf8 (VotersRecord_Endpoint_host x) ∧
  in_unsigned 16 (VotersRecord_Endpoint_port x) ∧
  unknown_valid 0 (VotersRecord_Endpoint_unknown_tagged_fields x).

#[global] Instance VotersRecord_Endpoint_sound version : Sound (VotersRecord_Endpoint_codec version)
    (VotersRecord_Endpoint_valid version).
Proof. solve_message. Qed.

(* @ src/crates/kafka-protocol/src/messages/voters_record.rs 163-179 KRaftVersionFeature *)
Record VotersRecord_KRaftVersionFeature : Type := mkVotersRecord_KRaftVersionFeature {
  VotersRecord_KRaftVersionFeature_min_supported_version : Z;
  VotersRecord_KRaftVersionFeature_max_supported_version : Z;
  VotersRecord_KRaftVersionFeature_unknown_tagged_fields : TaggedFields
}.

(* @ src/crates/kafka-protocol/src/messages/voters_record.rs 272-280 KRaftVersionFeature::default *)
Definition VotersRecord_KRaftVersionFeature_default : VotersRecord_KRaftVersionFeature := {|
  VotersRecord_KRaftVersionFeature_min_supported_version := 0;
  VotersRecord_KRaftVersionFeature_max_supported_version := 0;
  VotersRecord_KRaftVersionFeature_unknown_tagged_fields := ∅
|}.

(* @ src/crates/kafka-protocol/src/messages/voters_record.rs 212-270 KRaftVersionFeature::encode, compute_size, decode *)
Definition VotersRecord_KRaftVersionFeature_codec (version : Z) : Codec VotersRecord_KRaftVersionFeature :=
  message 0 0 version (build mkVotersRecord_KRaftVersionFeature
    ⊛ (field VotersRecord_KRaftVersionFeature_min_supported_version Int16)
    ⊛ (field VotersRecord_KRaftVersionFeature_max_supported_version Int16)
    ⊛ unknown_tags true VotersRecord_KRaftVersionFeature_unknown_tagged_fields).

Definition VotersRecord_KRaftVersionFeature_valid (version : Z) (x : VotersRecord_KRaftVersionFeature) :
    Prop :=
  in_signed 16 (VotersRecord_KRaftVersionFeature_min_supported_version x) ∧
  in_signed 16 (VotersRecord_KRaftVersionFeature_max_supported_version x) ∧
  unknown_valid 0 (VotersRecord_KRaftVersionFeature_unknown_tagged_fields x).

#[global] Instance VotersRecord_KRaftVersionFeature_sound version : Sound
    (VotersRecord_KRaftVersionFeature_codec version) (VotersRecord_KRaftVersionFeature_valid version).
Proof. solve_message. Qed.

(* @ src/crates/kafka-protocol/src/messages/voters_record.rs 287-313 Voter *)
Record VotersRecord_Voter : Type := mkVotersRecord_Voter {
  VotersRecord_Voter_voter_id : Z;
  VotersRecord_Voter_voter_directory_id : Z;
  VotersRecord_Voter_endpoints : list VotersRecord_Endpoint;
  VotersRecord_Voter_k_raft_version_feature : VotersRecord_KRaftVersionFeature;
  VotersRecord_Voter_unknown_tagged_fields : TaggedFields
}.

(* @ src/crates/kafka-protocol/src/messages/voters_record.rs 433-443 Voter::default *)
Definition VotersRecord_Voter_default : VotersRecord_Voter := {|
  VotersRecord_Voter_voter_id := 0;
  VotersRecord_Voter_voter_directory_id := 0;
  VotersRecord_Voter_endpoints := [];
  VotersRecord_Voter_k_raft_version_feature := VotersRecord_KRaftVersionFeature_default;
  VotersRecord_Voter_unknown_tagged_fields := ∅
|}.

(* @ src/crates/kafka-protocol/src/messages/voters_record.rs 364-431 Voter::encode, compute_size, decode *)
Definition VotersRecord_Voter_codec (version : Z) : Codec VotersRecord_Voter :=
  message 0 0 version (build mkVotersRecord_Voter
    ⊛ (field VotersRecord_Voter_voter_id Int32)
    ⊛ (field VotersRecord_Voter_voter_directory_id Uuid)
    ⊛ (field VotersRecord_Voter_endpoints (CompactArray (Struct VotersRecord_Endpoint_codec version)))
    ⊛ (field VotersRecord_Voter_k_raft_version_feature (Struct VotersRecord_KRaftVersionFeature_codec
        version))
    ⊛ unknown_tags true VotersRecord_Voter_unknown_tagged_fields).

Definition VotersRecord_Voter_valid (version : Z) (x : VotersRecord_Voter) : Prop :=
  in_signed 32 (VotersRecord_Voter_voter_id x) ∧
  in_unsigned 128 (VotersRecord_Voter_voter_directory_id x) ∧
  Forall (VotersRecord_Endpoint_valid version) (VotersRecord_Voter_endpoints x) ∧
  VotersRecord_KRaftVersionFeature_valid version (VotersRecord_Voter_k_raft_version_feature x) ∧
  unknown_valid 0 (VotersRecord_Voter_unknown_tagged_fields x).

#[global] Instance VotersRecord_Voter_sound version : Sound (VotersRecord_Voter_codec version)
    (VotersRecord_Voter_valid version).
Proof. solve_message. Qed.

(* @ src/crates/kafka-protocol/src/messages/voters_record.rs 450-466 VotersRecord *)
Record VotersRecord : Type := mkVotersRecord {
  VotersRecord_version : Z;
  VotersRecord_voters : list VotersRecord_Voter;
  VotersRecord_unknown_tagged_fields : TaggedFields
}.

(* @ src/crates/kafka-protocol/src/messages/voters_record.rs 559-567 VotersRecord::default *)
Definition VotersRecord_default : VotersRecord := {|
  VotersRecord_version := 0;
  VotersRecord_voters := [];
  VotersRecord_unknown_tagged_fields := ∅
|}.

(* @ src/crates/kafka-protocol/src/messages/voters_record.rs 499-557 VotersRecord::encode, compute_size, decode *)
Definition VotersRecord_codec (version : Z) : Codec VotersRecord :=
  message 0 0 version (build mkVotersRecord
    ⊛ (field VotersRecord_version Int16)
    ⊛ (field VotersRecord_voters (CompactArray (Struct VotersRecord_Voter_codec version)))
    ⊛ unknown_tags true VotersRecord_unknown_tagged_fields).

Definition VotersRecord_valid (version : Z) (x : VotersRecord) : Prop :=
  in_signed 16 (VotersRecord_version x) ∧
  Forall (VotersRecord_Voter_valid version) (VotersRecord_voters x) ∧
  unknown_valid 0 (VotersRecord_unknown_tagged_fields x).

#[global] Instance VotersRecord_sound version : Sound (VotersRecord_codec version) (VotersRecord_valid
    version).
Proof. solve_message. Qed.
