(* ===== verification/MessagesAdmin.v ===== *)
(** * The remaining messages of cluster administration

    [src/crates/kafka-protocol/src/messages/]: one block per structure of the
    generated modules listed below, in the order of their files.  A block is the
    structure, its [Default], its codec in the style of [MessageCodec] (the
    branches on [version] are those of [encode], [compute_size] and [decode]),
    what makes a value expressible in a version ([_valid]: the fields are values
    of their Rust types, a field the version silently drops has its default, and
    unknown tags are not those of known fields), and the proof that the codec is
    sound.  A structure whose name several modules share carries the name of its
    message.

    alter_client_quotas_request, alter_client_quotas_response,
    alter_configs_request, alter_configs_response,
    alter_partition_reassignments_request,
    alter_partition_reassignments_response, alter_replica_log_dirs_request,
    alter_replica_log_dirs_response, create_partitions_request,
    create_partitions_response, delete_records_request,
    delete_records_response, delete_topics_request, delete_topics_response,
    describe_client_quotas_request, describe_client_quotas_response,
    describe_log_dirs_request, describe_log_dirs_response,
    elect_leaders_request, elect_leaders_response,
    get_telemetry_subscriptions_request,
    get_telemetry_subscriptions_response, incremental_alter_configs_request,
    incremental_alter_configs_response, list_config_resources_request,
    list_config_resources_response, list_partition_reassignments_request,
    list_partition_reassignments_response, push_telemetry_request,
    push_telemetry_response. *)

From S2P Require Import Prelude Buf Types MessageCodec.
Open Scope Z_scope.

(** ** [alter_client_quotas_request] *)

(* @ src/crates/kafka-protocol/src/messages/alter_client_quotas_request.rs 165-181 EntityData *)
Record AlterClientQuotasRequest_EntityData : Type := mkAlterClientQuotasRequest_EntityData {
  AlterClientQuotasRequest_EntityData_entity_type : list byte;
  AlterClientQuotasRequest_EntityData_entity_name : option (list byte);
  AlterClientQuotasRequest_EntityData_unknown_tagged_fields : TaggedFields
}.

(* @ src/crates/kafka-protocol/src/messages/alter_client_quotas_request.rs 306-314 EntityData::default *)
Definition AlterClientQuotasRequest_EntityData_default : AlterClientQuotasRequest_EntityData := {|
  AlterClientQuotasRequest_EntityData_entity_type := [];
  AlterClientQuotasRequest_EntityData_entity_name := Some [];
  AlterClientQuotasRequest_EntityData_unknown_tagged_fields := ∅
|}.

(* @ src/crates/kafka-protocol/src/messages/alter_client_quotas_request.rs 214-304 EntityData::encode, compute_size, decode *)
Definition AlterClientQuotasRequest_EntityData_codec (version : Z) : Codec
    AlterClientQuotasRequest_EntityData :=
  message 0 1 version (build mkAlterClientQuotasRequest_EntityData
    ⊛ (field AlterClientQuotasRequest_EntityData_entity_type (if 1 <=? version then CompactString else
        KafkaString))
    ⊛ (field AlterClientQuotasRequest_EntityData_entity_name (if 1 <=? version then NullableCompactString
        else NullableString))
    ⊛ unknown_tags (1 <=? version) AlterClientQuotasRequest_EntityData_unknown_tagged_fields).

Definition AlterClientQuotasRequest_EntityData_valid (version : Z) (x :
    AlterClientQuotasRequest_EntityData) : Prop :=
  utf8 (AlterClientQuotasRequest_EntityData_entity_type x) ∧
  opt_all utf8 (AlterClientQuotasRequest_EntityData_entity_name x) ∧
  (if 1 <=? version then unknown_valid 0 (AlterClientQuotasRequest_EntityData_unknown_tagged_fields x) else
      AlterClientQuotasRequest_EntityData_unknown_tagged_fields x = ∅).

#[global] Instance AlterClientQuotasRequest_EntityData_sound version : Sound
    (AlterClientQuotasRequest_EntityData_codec version) (AlterClientQuotasRequest_EntityData_valid version).
Proof. solve_message. Qed.

(* @ src/crates/kafka-protocol/src/messages/alter_client_quotas_request.rs 478-499 OpData *)
Record OpData : Type := mkOpData {
  OpData_key : list byte;
  OpData_value : Z;
  OpData_remove : bool;
  OpData_unknown_tagged_fields : TaggedFields
}.

(* @ src/crates/kafka-protocol/src/messages/alter_client_quotas_request.rs 625-634 OpData::default *)
Definition OpData_default : OpData := {|
  OpData_key := [];
  OpData_value := 0;
  OpData_remove := false;
  OpData_unknown_tagged_fields := ∅
|}.

(* @ src/crates/kafka-protocol/src/messages/alter_client_quotas_request.rs 541-623 OpData::encode, compute_size, decode *)
Definition OpData_codec (version : Z) : Codec OpData :=
  message 0 1 version (build mkOpData
    ⊛ (field OpData_key (if 1 <=? version then CompactString else KafkaString))
    ⊛ (field OpData_value Float64)
    ⊛ (field OpData_remove Boolean)
    ⊛ unknown_tags (1 <=? version) OpData_unknown_tagged_fields).

Definition OpData_valid (version : Z) (x : OpData) : Prop :=
  utf8 (OpData_key x) ∧
  in_unsigned 64 (OpData_value x) ∧
  (if 1 <=? version then unknown_valid 0 (OpData_unknown_tagged_fields x) else OpData_unknown_tagged_fields
      x = ∅).

#[global] Instance OpData_sound version : Sound (OpData_codec version) (OpData_valid version).
Proof. solve_message. Qed.

(* @ src/crates/kafka-protocol/src/messages/alter_client_quotas_request.rs 321-337 EntryData *)
Record AlterClientQuotasRequest_EntryData : Type := mkAlterClientQuotasRequest_EntryData {
  AlterClientQuotasRequest_EntryData_entity : list AlterClientQuotasRequest_EntityData;
  AlterClientQuotasRequest_EntryData_ops : list OpData;
  AlterClientQuotasRequest_EntryData_unknown_tagged_fields : TaggedFields
}.

(* @ src/crates/kafka-protocol/src/messages/alter_client_quotas_request.rs 463-471 EntryData::default *)
Definition AlterClientQuotasRequest_EntryData_default : AlterClientQuotasRequest_EntryData := {|
  AlterClientQuotasRequest_EntryData_entity := [];
  AlterClientQuotasRequest_EntryData_ops := [];
  AlterClientQuotasRequest_EntryData_unknown_tagged_fields := ∅
|}.

(* @ src/crates/kafka-protocol/src/messages/alter_client_quotas_request.rs 370-461 EntryData::encode, compute_size, decode *)
Definition AlterClientQuotasRequest_EntryData_codec (version : Z) : Codec
    AlterClientQuotasRequest_EntryData :=
  message 0 1 version (build mkAlterClientQuotasRequest_EntryData
    ⊛ (field AlterClientQuotasRequest_EntryData_entity (if 1 <=? version then CompactArray (Struct
        AlterClientQuotasRequest_EntityData_codec version) else Array (Struct
        AlterClientQuotasRequest_EntityData_codec version)))
    ⊛ (field AlterClientQuotasRequest_EntryData_ops (if 1 <=? version then CompactArray (Struct
        OpData_codec version) else Array (Struct OpData_codec version)))
    ⊛ unknown_tags (1 <=? version) AlterClientQuotasRequest_EntryData_unknown_tagged_fields).

Definition AlterClientQuotasRequest_EntryData_valid (version : Z) (x : AlterClientQuotasRequest_EntryData)
    : Prop :=
  Forall (AlterClientQuotasRequest_EntityData_valid version) (AlterClientQuotasRequest_EntryData_entity x) ∧
  Forall (OpData_valid version) (AlterClientQuotasRequest_EntryData_ops x) ∧
  (if 1 <=? version then unknown_valid 0 (AlterClientQuotasRequest_EntryData_unknown_tagged_fields x) else
      AlterClientQuotasRequest_EntryData_unknown_tagged_fields x = ∅).

#[global] Instance AlterClientQuotasRequest_EntryData_sound version : Sound
    (AlterClientQuotasRequest_EntryData_codec version) (AlterClientQuotasRequest_EntryData_valid version).
Proof. solve_message. Qed.

(* @ src/crates/kafka-protocol/src/messages/alter_client_quotas_request.rs 20-36 AlterClientQuotasRequest *)
Record AlterClientQuotasRequest : Type := mkAlterClientQuotasRequest {
  AlterClientQuotasRequest_entries : list AlterClientQuotasRequest_EntryData;
  AlterClientQuotasRequest_validate_only : bool;
  AlterClientQuotasRequest_unknown_tagged_fields : TaggedFields
}.

(* @ src/crates/kafka-protocol/src/messages/alter_client_quotas_request.rs 150-158 AlterClientQuotasRequest::default *)
Definition AlterClientQuotasRequest_default : AlterClientQuotasRequest := {|
  AlterClientQuotasRequest_entries := [];
  AlterClientQuotasRequest_validate_only := false;
  AlterClientQuotasRequest_unknown_tagged_fields := ∅
|}.

(* @ src/crates/kafka-protocol/src/messages/alter_client_quotas_request.rs 69-148 AlterClientQuotasRequest::encode, compute_size, decode *)
Definition AlterClientQuotasRequest_codec (version : Z) : Codec AlterClientQuotasRequest :=
  message 0 1 version (build mkAlterClientQuotasRequest
    ⊛ (field AlterClientQuotasRequest_entries (if 1 <=? version then CompactArray (Struct
        AlterClientQuotasRequest_EntryData_codec version) else Array (Struct
        AlterClientQuotasRequest_EntryData_codec version)))
    ⊛ (field AlterClientQuotasRequest_validate_only Boolean)
    ⊛ unknown_tags (1 <=? version) AlterClientQuotasRequest_unknown_tagged_fields).

Definition AlterClientQuotasRequest_valid (version : Z) (x : AlterClientQuotasRequest) : Prop :=
  Forall (AlterClientQuotasRequest_EntryData_valid version) (AlterClientQuotasRequest_entries x) ∧
  (if 1 <=? version then unknown_valid 0 (AlterClientQuotasRequest_unknown_tagged_fields x) else
      AlterClientQuotasRequest_unknown_tagged_fields x = ∅).

#[global] Instance AlterClientQuotasRequest_sound version : Sound (AlterClientQuotasRequest_codec version)
    (AlterClientQuotasRequest_valid version).
Proof. solve_message. Qed.

(* @ src/crates/kafka-protocol/src/messages/alter_client_quotas_request.rs 641-649 AlterClientQuotasRequest::header_version *)
Definition AlterClientQuotasRequest_header_version (version : Z) : Z := if 1 <=? version then 2 else 1.

(* @ src/crates/kafka-protocol/src/messages/alter_client_quotas_request.rs 160-163 AlterClientQuotasRequest::VERSIONS *)
Definition AlterClientQuotasRequest_VERSIONS : Z * Z := (0, 1).

(** ** [alter_client_quotas_response] *)

(* @ src/crates/kafka-protocol/src/messages/alter_client_quotas_response.rs 165-181 EntityData *)
Record AlterClientQuotasResponse_EntityData : Type := mkAlterClientQuotasResponse_EntityData {
  AlterClientQuotasResponse_EntityData_entity_type : list byte;
  AlterClientQuotasResponse_EntityData_entity_name : option (list byte);
  AlterClientQuotasResponse_EntityData_unknown_tagged_fields : TaggedFields
}.

(* @ src/crates/kafka-protocol/src/messages/alter_client_quotas_response.rs 306-314 EntityData::default *)
Definition AlterClientQuotasResponse_EntityData_default : AlterClientQuotasResponse_EntityData := {|
  AlterClientQuotasResponse_EntityData_entity_type := [];
  AlterClientQuotasResponse_EntityData_entity_name := Some [];
  AlterClientQuotasResponse_EntityData_unknown_tagged_fields := ∅
|}.

(* @ src/crates/kafka-protocol/src/messages/alter_client_quotas_response.rs 214-304 EntityData::encode, compute_size, decode *)
Definition AlterClientQuotasResponse_EntityData_codec (version : Z) : Codec
    AlterClientQuotasResponse_EntityData :=
  message 0 1 version (build mkAlterClientQuotasResponse_EntityData
    ⊛ (field AlterClientQuotasResponse_EntityData_entity_type (if 1 <=? version then CompactString else
        KafkaString))
    ⊛ (field AlterClientQuotasResponse_EntityData_entity_name (if 1 <=? version then NullableCompactString
        else NullableString))
    ⊛ unknown_tags (1 <=? version) AlterClientQuotasResponse_EntityData_unknown_tagged_fields).

Definition AlterClientQuotasResponse_EntityData_valid (version : Z) (x :
    AlterClientQuotasResponse_EntityData) : Prop :=
  utf8 (AlterClientQuotasResponse_EntityData_entity_type x) ∧
  opt_all utf8 (AlterClientQuotasResponse_EntityData_entity_name x) ∧
  (if 1 <=? version then unknown_valid 0 (AlterClientQuotasResponse_EntityData_unknown_tagged_fields x)
      else AlterClientQuotasResponse_EntityData_unknown_tagged_fields x = ∅).

#[global] Instance AlterClientQuotasResponse_EntityData_sound version : Sound
    (AlterClientQuotasResponse_EntityData_codec version) (AlterClientQuotasResponse_EntityData_valid
    version).
Proof. solve_message. Qed.

(* @ src/crates/kafka-protocol/src/messages/alter_client_quotas_response.rs 321-342 EntryData *)
Record AlterClientQuotasResponse_EntryData : Type := mkAlterClientQuotasResponse_EntryData {
  AlterClientQuotasResponse_EntryData_error_code : Z;
  AlterClientQuotasResponse_EntryData_error_message : option (list byte);
  AlterClientQuotasResponse_EntryData_entity : list AlterClientQuotasResponse_EntityData;
  AlterClientQuotasResponse_EntryData_unknown_tagged_fields : TaggedFields
}.

(* @ src/crates/kafka-protocol/src/messages/alter_client_quotas_response.rs 481-490 EntryData::default *)
Definition AlterClientQuotasResponse_EntryData_default : AlterClientQuotasResponse_EntryData := {|
  AlterClientQuotasResponse_EntryData_error_code := 0;
  AlterClientQuotasResponse_EntryData_error_message := Some [];
  AlterClientQuotasResponse_EntryData_entity := [];
  AlterClientQuotasResponse_EntryData_unknown_tagged_fields := ∅
|}.

(* @ src/crates/kafka-protocol/src/messages/alter_client_quotas_response.rs 384-479 EntryData::encode, compute_size, decode *)
Definition AlterClientQuotasResponse_EntryData_codec (version : Z) : Codec
    AlterClientQuotasResponse_EntryData :=
  message 0 1 version (build mkAlterClientQuotasResponse_EntryData
    ⊛ (field AlterClientQuotasResponse_EntryData_error_code Int16)
    ⊛ (field AlterClientQuotasResponse_EntryData_error_message (if 1 <=? version then NullableCompactString
        else NullableString))
    ⊛ (field AlterClientQuotasResponse_EntryData_entity (if 1 <=? version then CompactArray (Struct
        AlterClientQuotasResponse_EntityData_codec version) else Array (Struct
        AlterClientQuotasResponse_EntityData_codec version)))
    ⊛ unknown_tags (1 <=? version) AlterClientQuotasResponse_EntryData_unknown_tagged_fields).

Definition AlterClientQuotasResponse_EntryData_valid (version : Z) (x :
    AlterClientQuotasResponse_EntryData) : Prop :=
  in_signed 16 (AlterClientQuotasResponse_EntryData_error_code x) ∧
  opt_all utf8 (AlterClientQuotasResponse_EntryData_error_message x) ∧
  Forall (AlterClientQuotasResponse_EntityData_valid version) (AlterClientQuotasResponse_EntryData_entity
      x) ∧
  (if 1 <=? version then unknown_valid 0 (AlterClientQuotasResponse_EntryData_unknown_tagged_fields x) else
      AlterClientQuotasResponse_EntryData_unknown_tagged_fields x = ∅).

#[global] Instance AlterClientQuotasResponse_EntryData_sound version : Sound
    (AlterClientQuotasResponse_EntryData_codec version) (AlterClientQuotasResponse_EntryData_valid version).
Proof. solve_message. Qed.

(* @ src/crates/kafka-protocol/src/messages/alter_client_quotas_response.rs 20-36 AlterClientQuotasResponse *)
Record AlterClientQuotasResponse : Type := mkAlterClientQuotasResponse {
  AlterClientQuotasResponse_throttle_time_ms : Z;
  AlterClientQuotasResponse_entries : list AlterClientQuotasResponse_EntryData;
  AlterClientQuotasResponse_unknown_tagged_fields : TaggedFields
}.

(* @ src/crates/kafka-protocol/src/messages/alter_client_quotas_response.rs 150-158 AlterClientQuotasResponse::default *)
Definition AlterClientQuotasResponse_default : AlterClientQuotasResponse := {|
  AlterClientQuotasResponse_throttle_time_ms := 0;
  AlterClientQuotasResponse_entries := [];
  AlterClientQuotasResponse_unknown_tagged_fields := ∅
|}.

(* @ src/crates/kafka-protocol/src/messages/alter_client_quotas_response.rs 69-148 AlterClientQuotasResponse::encode, compute_size, decode *)
Definition AlterClientQuotasResponse_codec (version : Z) : Codec AlterClientQuotasResponse :=
  message 0 1 version (build mkAlterClientQuotasResponse
    ⊛ (field AlterClientQuotasResponse_throttle_time_ms Int32)
    ⊛ (field AlterClientQuotasResponse_entries (if 1 <=? version then CompactArray (Struct
        AlterClientQuotasResponse_EntryData_codec version) else Array (Struct
        AlterClientQuotasResponse_EntryData_codec version)))
    ⊛ unknown_tags (1 <=? version) AlterClientQuotasResponse_unknown_tagged_fields).

Definition AlterClientQuotasResponse_valid (version : Z) (x : AlterClientQuotasResponse) : Prop :=
  in_signed 32 (AlterClientQuotasResponse_throttle_time_ms x) ∧
  Forall (AlterClientQuotasResponse_EntryData_valid version) (AlterClientQuotasResponse_entries x) ∧
  (if 1 <=? version then unknown_valid 0 (AlterClientQuotasResponse_unknown_tagged_fields x) else
      AlterClientQuotasResponse_unknown_tagged_fields x = ∅).

#[global] Instance AlterClientQuotasResponse_sound version : Sound (AlterClientQuotasResponse_codec
    version) (AlterClientQuotasResponse_valid version).
Proof. solve_message. Qed.

(* @ src/crates/kafka-protocol/src/messages/alter_client_quotas_response.rs 497-505 AlterClientQuotasResponse::header_version *)
Definition AlterClientQuotasResponse_header_version (version : Z) : Z := if 1 <=? version then 1 else 0.

(* @ src/crates/kafka-protocol/src/messages/alter_client_quotas_response.rs 160-163 AlterClientQuotasResponse::VERSIONS *)
Definition AlterClientQuotasResponse_VERSIONS : Z * Z := (0, 1).

(** ** [alter_configs_request] *)

(* @ src/crates/kafka-protocol/src/messages/alter_configs_request.rs 341-357 AlterableConfig *)
Record AlterConfigsRequest_AlterableConfig : Type := mkAlterConfigsRequest_AlterableConfig {
  AlterConfigsRequest_AlterableConfig_name : list byte;
  AlterConfigsRequest_AlterableConfig_value : option (list byte);
  AlterConfigsRequest_AlterableConfig_unknown_tagged_fields : TaggedFields
}.

(* @ src/crates/kafka-protocol/src/messages/alter_configs_request.rs 482-490 AlterableConfig::default *)
Definition AlterConfigsRequest_AlterableConfig_default : AlterConfigsRequest_AlterableConfig := {|
  AlterConfigsRequest_AlterableConfig_name := [];
  AlterConfigsRequest_AlterableConfig_value := Some [];
  AlterConfigsRequest_AlterableConfig_unknown_tagged_fields := ∅
|}.

(* @ src/crates/kafka-protocol/src/messages/alter_configs_request.rs 390-480 AlterableConfig::encode, compute_size, decode *)
Definition AlterConfigsRequest_AlterableConfig_codec (version : Z) : Codec
    AlterConfigsRequest_AlterableConfig :=
  message 0 2 version (build mkAlterConfigsRequest_AlterableConfig
    ⊛ (field AlterConfigsRequest_AlterableConfig_name (if 2 <=? version then CompactString else
        KafkaString))
    ⊛ (field AlterConfigsRequest_AlterableConfig_value (if 2 <=? version then NullableCompactString else
        NullableString))
    ⊛ unknown_tags (2 <=? version) AlterConfigsRequest_AlterableConfig_unknown_tagged_fields).

Definition AlterConfigsRequest_AlterableConfig_valid (version : Z) (x :
    AlterConfigsRequest_AlterableConfig) : Prop :=
  utf8 (AlterConfigsRequest_AlterableConfig_name x) ∧
  opt_all utf8 (AlterConfigsRequest_AlterableConfig_value x) ∧
  (if 2 <=? version then unknown_valid 0 (AlterConfigsRequest_AlterableConfig_unknown_tagged_fields x) else
      AlterConfigsRequest_AlterableConfig_unknown_tagged_fields x = ∅).

#[global] Instance AlterConfigsRequest_AlterableConfig_sound version : Sound
    (AlterConfigsRequest_AlterableConfig_codec version) (AlterConfigsRequest_AlterableConfig_valid version).
Proof. solve_message. Qed.

(* @ src/crates/kafka-protocol/src/messages/alter_configs_request.rs 165-186 AlterConfigsResource *)
Record AlterConfigsRequest_AlterConfigsResource : Type := mkAlterConfigsRequest_AlterConfigsResource {
  AlterConfigsRequest_AlterConfigsResource_resource_type : Z;
  AlterConfigsRequest_AlterConfigsResource_resource_name : list byte;
  AlterConfigsRequest_AlterConfigsResource_configs : list AlterConfigsRequest_AlterableConfig;
  AlterConfigsRequest_AlterConfigsResource_unknown_tagged_fields : TaggedFields
}.

(* @ src/crates/kafka-protocol/src/messages/alter_configs_request.rs 325-334 AlterConfigsResource::default *)
Definition AlterConfigsRequest_AlterConfigsResource_default : AlterConfigsRequest_AlterConfigsResource := {|
  AlterConfigsRequest_AlterConfigsResource_resource_type := 0;
  AlterConfigsRequest_AlterConfigsResource_resource_name := [];
  AlterConfigsRequest_AlterConfigsResource_configs := [];
  AlterConfigsRequest_AlterConfigsResource_unknown_tagged_fields := ∅
|}.

(* @ src/crates/kafka-protocol/src/messages/alter_configs_request.rs 228-323 AlterConfigsResource::encode, compute_size, decode *)
Definition AlterConfigsRequest_AlterConfigsResource_codec (version : Z) : Codec
    AlterConfigsRequest_AlterConfigsResource :=
  message 0 2 version (build mkAlterConfigsRequest_AlterConfigsResource
    ⊛ (field AlterConfigsRequest_AlterConfigsResource_resource_type Int8)
    ⊛ (field AlterConfigsRequest_AlterConfigsResource_resource_name (if 2 <=? version then CompactString
        else KafkaString))
    ⊛ (field AlterConfigsRequest_AlterConfigsResource_configs (if 2 <=? version then CompactArray (Struct
        AlterConfigsRequest_AlterableConfig_codec version) else Array (Struct
        AlterConfigsRequest_AlterableConfig_codec version)))
    ⊛ unknown_tags (2 <=? version) AlterConfigsRequest_AlterConfigsResource_unknown_tagged_fields).

Definition AlterConfigsRequest_AlterConfigsResource_valid (version : Z) (x :
    AlterConfigsRequest_AlterConfigsResource) : Prop :=
  in_signed 8 (AlterConfigsRequest_AlterConfigsResource_resource_type x) ∧
  utf8 (AlterConfigsRequest_AlterConfigsResource_resource_name x) ∧
  Forall (AlterConfigsRequest_AlterableConfig_valid version)
      (AlterConfigsRequest_AlterConfigsResource_configs x) ∧
  (if 2 <=? version then unknown_valid 0 (AlterConfigsRequest_AlterConfigsResource_unknown_tagged_fields x)
      else AlterConfigsRequest_AlterConfigsResource_unknown_tagged_fields x = ∅).

#[global] Instance AlterConfigsRequest_AlterConfigsResource_sound version : Sound
    (AlterConfigsRequest_AlterConfigsResource_codec version)
    (AlterConfigsRequest_AlterConfigsResource_valid version).
Proof. solve_message. Qed.

(* @ src/crates/kafka-protocol/src/messages/alter_configs_request.rs 20-36 AlterConfigsRequest *)
Record AlterConfigsRequest : Type := mkAlterConfigsRequest {
  AlterConfigsRequest_resources : list AlterConfigsRequest_AlterConfigsResource;
  AlterConfigsRequest_validate_only : bool;
  AlterConfigsRequest_unknown_tagged_fields : TaggedFields
}.

(* @ src/crates/kafka-protocol/src/messages/alter_configs_request.rs 150-158 AlterConfigsRequest::default *)
Definition AlterConfigsRequest_default : AlterConfigsRequest := {|
  AlterConfigsRequest_resources := [];
  AlterConfigsRequest_validate_only := false;
  AlterConfigsRequest_unknown_tagged_fields := ∅
|}.

(* @ src/crates/kafka-protocol/src/messages/alter_configs_request.rs 69-148 AlterConfigsRequest::encode, compute_size, decode *)
Definition AlterConfigsRequest_codec (version : Z) : Codec AlterConfigsRequest :=
  message 0 2 version (build mkAlterConfigsRequest
    ⊛ (field AlterConfigsRequest_resources (if 2 <=? version then CompactArray (Struct
        AlterConfigsRequest_AlterConfigsResource_codec version) else Array (Struct
        AlterConfigsRequest_AlterConfigsResource_codec version)))
    ⊛ (field AlterConfigsRequest_validate_only Boolean)
    ⊛ unknown_tags (2 <=? version) AlterConfigsRequest_unknown_tagged_fields).

Definition AlterConfigsRequest_valid (version : Z) (x : AlterConfigsRequest) : Prop :=
  Forall (AlterConfigsRequest_AlterConfigsResource_valid version) (AlterConfigsRequest_resources x) ∧
  (if 2 <=? version then unknown_valid 0 (AlterConfigsRequest_unknown_tagged_fields x) else
      AlterConfigsRequest_unknown_tagged_fields x = ∅).

#[global] Instance AlterConfigsRequest_sound version : Sound (AlterConfigsRequest_codec version)
    (AlterConfigsRequest_valid version).
Proof. solve_message. Qed.

(* @ src/crates/kafka-protocol/src/messages/alter_configs_request.rs 497-505 AlterConfigsRequest::header_version *)
Definition AlterConfigsRequest_header_version (version : Z) : Z := if 2 <=? version then 2 else 1.

(* @ src/crates/kafka-protocol/src/messages/alter_configs_request.rs 160-163 AlterConfigsRequest::VERSIONS *)
Definition AlterConfigsRequest_VERSIONS : Z * Z := (0, 2).

(** ** [alter_configs_response] *)

(* @ src/crates/kafka-protocol/src/messages/alter_configs_response.rs 20-46 AlterConfigsResourceResponse *)
Record AlterConfigsResponse_AlterConfigsResourceResponse : Type :=
    mkAlterConfigsResponse_AlterConfigsResourceResponse {
  AlterConfigsResponse_AlterConfigsResourceResponse_error_code : Z;
  AlterConfigsResponse_AlterConfigsResourceResponse_error_message : option (list byte);
  AlterConfigsResponse_AlterConfigsResourceResponse_resource_type : Z;
  AlterConfigsResponse_AlterConfigsResourceResponse_resource_name : list byte;
  AlterConfigsResponse_AlterConfigsResourceResponse_unknown_tagged_fields : TaggedFields
}.

(* @ src/crates/kafka-protocol/src/messages/alter_configs_response.rs 197-207 AlterConfigsResourceResponse::default *)
Definition AlterConfigsResponse_AlterConfigsResourceResponse_default :
    AlterConfigsResponse_AlterConfigsResourceResponse := {|
  AlterConfigsResponse_AlterConfigsResourceResponse_error_code := 0;
  AlterConfigsResponse_AlterConfigsResourceResponse_error_message := Some [];
  AlterConfigsResponse_AlterConfigsResourceResponse_resource_type := 0;
  AlterConfigsResponse_AlterConfigsResourceResponse_resource_name := [];
  AlterConfigsResponse_AlterConfigsResourceResponse_unknown_tagged_fields := ∅
|}.

(* @ src/crates/kafka-protocol/src/messages/alter_configs_response.rs 97-195 AlterConfigsResourceResponse::encode, compute_size, decode *)
Definition AlterConfigsResponse_AlterConfigsResourceResponse_codec (version : Z) : Codec
    AlterConfigsResponse_AlterConfigsResourceResponse :=
  message 0 2 version (build mkAlterConfigsResponse_AlterConfigsResourceResponse
    ⊛ (field AlterConfigsResponse_AlterConfigsResourceResponse_error_code Int16)
    ⊛ (field AlterConfigsResponse_AlterConfigsResourceResponse_error_message (if 2 <=? version then
        NullableCompactString else NullableString))
    ⊛ (field AlterConfigsResponse_AlterConfigsResourceResponse_resource_type Int8)
    ⊛ (field AlterConfigsResponse_AlterConfigsResourceResponse_resource_name (if 2 <=? version then
        CompactString else KafkaString))
    ⊛ unknown_tags (2 <=? version) AlterConfigsResponse_AlterConfigsResourceResponse_unknown_tagged_fields).

Definition AlterConfigsResponse_AlterConfigsResourceResponse_valid (version : Z) (x :
    AlterConfigsResponse_AlterConfigsResourceResponse) : Prop :=
  in_signed 16 (AlterConfigsResponse_AlterConfigsResourceResponse_error_code x) ∧
  opt_all utf8 (AlterConfigsResponse_AlterConfigsResourceResponse_error_message x) ∧
  in_signed 8 (AlterConfigsResponse_AlterConfigsResourceResponse_resource_type x) ∧
  utf8 (AlterConfigsResponse_AlterConfigsResourceResponse_resource_name x) ∧
  (if 2 <=? version then unknown_valid 0
      (AlterConfigsResponse_AlterConfigsResourceResponse_unknown_tagged_fields x) else
      AlterConfigsResponse_AlterConfigsResourceResponse_unknown_tagged_fields x = ∅).

#[global] Instance AlterConfigsResponse_AlterConfigsResourceResponse_sound version : Sound
    (AlterConfigsResponse_AlterConfigsResourceResponse_codec version)
    (AlterConfigsResponse_AlterConfigsResourceResponse_valid version).
Proof. solve_message. Qed.

(* @ src/crates/kafka-protocol/src/messages/alter_configs_response.rs 214-230 AlterConfigsResponse *)
Record AlterConfigsResponse : Type := mkAlterConfigsResponse {
  AlterConfigsResponse_throttle_time_ms : Z;
  AlterConfigsResponse_responses : list AlterConfigsResponse_AlterConfigsResourceResponse;
  AlterConfigsResponse_unknown_tagged_fields : TaggedFields
}.

(* @ src/crates/kafka-protocol/src/messages/alter_configs_response.rs 344-352 AlterConfigsResponse::default *)
Definition AlterConfigsResponse_default : AlterConfigsResponse := {|
  AlterConfigsResponse_throttle_time_ms := 0;
  AlterConfigsResponse_responses := [];
  AlterConfigsResponse_unknown_tagged_fields := ∅
|}.

(* @ src/crates/kafka-protocol/src/messages/alter_configs_response.rs 263-342 AlterConfigsResponse::encode, compute_size, decode *)
Definition AlterConfigsResponse_codec (version : Z) : Codec AlterConfigsResponse :=
  message 0 2 version (build mkAlterConfigsResponse
    ⊛ (field AlterConfigsResponse_throttle_time_ms Int32)
    ⊛ (field AlterConfigsResponse_responses (if 2 <=? version then CompactArray (Struct
        AlterConfigsResponse_AlterConfigsResourceResponse_codec version) else Array (Struct
        AlterConfigsResponse_AlterConfigsResourceResponse_codec version)))
    ⊛ unknown_tags (2 <=? version) AlterConfigsResponse_unknown_tagged_fields).

Definition AlterConfigsResponse_valid (version : Z) (x : AlterConfigsResponse) : Prop :=
  in_signed 32 (AlterConfigsResponse_throttle_time_ms x) ∧
  Forall (AlterConfigsResponse_AlterConfigsResourceResponse_valid version) (AlterConfigsResponse_responses
      x) ∧
  (if 2 <=? version then unknown_valid 0 (AlterConfigsResponse_unknown_tagged_fields x) else
      AlterConfigsResponse_unknown_tagged_fields x = ∅).

#[global] Instance AlterConfigsResponse_sound version : Sound (AlterConfigsResponse_codec version)
    (AlterConfigsResponse_valid version).
Proof. solve_message. Qed.

(* @ src/crates/kafka-protocol/src/messages/alter_configs_response.rs 359-367 AlterConfigsResponse::header_version *)
Definition AlterConfigsResponse_header_version (version : Z) : Z := if 2 <=? version then 1 else 0.

(* @ src/crates/kafka-protocol/src/messages/alter_configs_response.rs 354-357 AlterConfigsResponse::VERSIONS *)
Definition AlterConfigsResponse_VERSIONS : Z * Z := (0, 2).

(** ** [alter_partition_reassignments_request] *)

(* @ src/crates/kafka-protocol/src/messages/alter_partition_reassignments_request.rs 181-197 ReassignablePartition *)
Record ReassignablePartition : Type := mkReassignablePartition {
  ReassignablePartition_partition_index : Z;
  ReassignablePartition_replicas : option (list Z);
  ReassignablePartition_unknown_tagged_fields : TaggedFields
}.

(* @ src/crates/kafka-protocol/src/messages/alter_partition_reassignments_request.rs 292-300 ReassignablePartition::default *)
Definition ReassignablePartition_default : ReassignablePartition := {|
  ReassignablePartition_partition_index := 0;
  ReassignablePartition_replicas := None;
  ReassignablePartition_unknown_tagged_fields := ∅
|}.

(* @ src/crates/kafka-protocol/src/messages/alter_partition_reassignments_request.rs 230-290 ReassignablePartition::encode, compute_size, decode *)
Definition ReassignablePartition_codec (version : Z) : Codec ReassignablePartition :=
  message 0 1 version (build mkReassignablePartition
    ⊛ (field ReassignablePartition_partition_index Int32)
    ⊛ (field ReassignablePartition_replicas (NullableCompactArray Int32))
    ⊛ unknown_tags true ReassignablePartition_unknown_tagged_fields).

Definition ReassignablePartition_valid (version : Z) (x : ReassignablePartition) : Prop :=
  in_signed 32 (ReassignablePartition_partition_index x) ∧
  opt_all (Forall (in_signed 32)) (ReassignablePartition_replicas x) ∧
  unknown_valid 0 (ReassignablePartition_unknown_tagged_fields x).

#[global] Instance ReassignablePartition_sound version : Sound (ReassignablePartition_codec version)
    (ReassignablePartition_valid version).
Proof. solve_message. Qed.

(* @ src/crates/kafka-protocol/src/messages/alter_partition_reassignments_request.rs 307-323 ReassignableTopic *)
Record ReassignableTopic : Type := mkReassignableTopic {
  ReassignableTopic_name : list byte;
  ReassignableTopic_partitions : list ReassignablePartition;
  ReassignableTopic_unknown_tagged_fields : TaggedFields
}.

(* @ src/crates/kafka-protocol/src/messages/alter_partition_reassignments_request.rs 419-427 ReassignableTopic::default *)
Definition ReassignableTopic_default : ReassignableTopic := {|
  ReassignableTopic_name := [];
  ReassignableTopic_partitions := [];
  ReassignableTopic_unknown_tagged_fields := ∅
|}.

(* @ src/crates/kafka-protocol/src/messages/alter_partition_reassignments_request.rs 356-417 ReassignableTopic::encode, compute_size, decode *)
Definition ReassignableTopic_codec (version : Z) : Codec ReassignableTopic :=
  message 0 1 version (build mkReassignableTopic
    ⊛ (field ReassignableTopic_name CompactString)
    ⊛ (field ReassignableTopic_partitions (CompactArray (Struct ReassignablePartition_codec version)))
    ⊛ unknown_tags true ReassignableTopic_unknown_tagged_fields).

Definition ReassignableTopic_valid (version : Z) (x : ReassignableTopic) : Prop :=
  utf8 (ReassignableTopic_name x) ∧
  Forall (ReassignablePartition_valid version) (ReassignableTopic_partitions x) ∧
  unknown_valid 0 (ReassignableTopic_unknown_tagged_fields x).

#[global] Instance ReassignableTopic_sound version : Sound (ReassignableTopic_codec version)
    (ReassignableTopic_valid version).
Proof. solve_message. Qed.

(* @ src/crates/kafka-protocol/src/messages/alter_partition_reassignments_request.rs 20-41 AlterPartitionReassignmentsRequest *)
Record AlterPartitionReassignmentsRequest : Type := mkAlterPartitionReassignmentsRequest {
  AlterPartitionReassignmentsRequest_timeout_ms : Z;
  AlterPartitionReassignmentsRequest_allow_replication_factor_change : bool;
  AlterPartitionReassignmentsRequest_topics : list ReassignableTopic;
  AlterPartitionReassignmentsRequest_unknown_tagged_fields : TaggedFields
}.

(* @ src/crates/kafka-protocol/src/messages/alter_partition_reassignments_request.rs 165-174 AlterPartitionReassignmentsRequest::default *)
Definition AlterPartitionReassignmentsRequest_default : AlterPartitionReassignmentsRequest := {|
  AlterPartitionReassignmentsRequest_timeout_ms := 60000;
  AlterPartitionReassignmentsRequest_allow_replication_factor_change := true;
  AlterPartitionReassignmentsRequest_topics := [];
  AlterPartitionReassignmentsRequest_unknown_tagged_fields := ∅
|}.

(* @ src/crates/kafka-protocol/src/messages/alter_partition_reassignments_request.rs 83-163 AlterPartitionReassignmentsRequest::encode, compute_size, decode *)
Definition AlterPartitionReassignmentsRequest_codec (version : Z) : Codec
    AlterPartitionReassignmentsRequest :=
  message 0 1 version (build mkAlterPartitionReassignmentsRequest
    ⊛ (field AlterPartitionReassignmentsRequest_timeout_ms Int32)
    ⊛ (if 1 <=? version then field AlterPartitionReassignmentsRequest_allow_replication_factor_change
        Boolean else unset AlterPartitionReassignmentsRequest_allow_replication_factor_change id true)
    ⊛ (field AlterPartitionReassignmentsRequest_topics (CompactArray (Struct ReassignableTopic_codec
        version)))
    ⊛ unknown_tags true AlterPartitionReassignmentsRequest_unknown_tagged_fields).

Definition AlterPartitionReassignmentsRequest_valid (version : Z) (x : AlterPartitionReassignmentsRequest)
    : Prop :=
  in_signed 32 (AlterPartitionReassignmentsRequest_timeout_ms x) ∧
  Forall (ReassignableTopic_valid version) (AlterPartitionReassignmentsRequest_topics x) ∧
  unknown_valid 0 (AlterPartitionReassignmentsRequest_unknown_tagged_fields x).

#[global] Instance AlterPartitionReassignmentsRequest_sound version : Sound
    (AlterPartitionReassignmentsRequest_codec version) (AlterPartitionReassignmentsRequest_valid version).
Proof. solve_message. Qed.

(* @ src/crates/kafka-protocol/src/messages/alter_partition_reassignments_request.rs 434-438 AlterPartitionReassignmentsRequest::header_version *)
Definition AlterPartitionReassignmentsRequest_header_version (version : Z) : Z := 2.

(* @ src/crates/kafka-protocol/src/messages/alter_partition_reassignments_request.rs 176-179 AlterPartitionReassignmentsRequest::VERSIONS *)
Definition AlterPartitionReassignmentsRequest_VERSIONS : Z * Z := (0, 1).

(** ** [alter_partition_reassignments_response] *)

(* @ src/crates/kafka-protocol/src/messages/alter_partition_reassignments_response.rs 212-233 ReassignablePartitionResponse *)
Record ReassignablePartitionResponse : Type := mkReassignablePartitionResponse {
  ReassignablePartitionResponse_partition_index : Z;
  ReassignablePartitionResponse_error_code : Z;
  ReassignablePartitionResponse_error_message : option (list byte);
  ReassignablePartitionResponse_unknown_tagged_fields : TaggedFields
}.

(* @ src/crates/kafka-protocol/src/messages/alter_partition_reassignments_response.rs 341-350 ReassignablePartitionResponse::default *)
Definition ReassignablePartitionResponse_default : ReassignablePartitionResponse := {|
  ReassignablePartitionResponse_partition_index := 0;
  ReassignablePartitionResponse_error_code := 0;
  ReassignablePartitionResponse_error_message := Some [];
  ReassignablePartitionResponse_unknown_tagged_fields := ∅
|}.

(* @ src/crates/kafka-protocol/src/messages/alter_partition_reassignments_response.rs 275-339 ReassignablePartitionResponse::encode, compute_size, decode *)
Definition ReassignablePartitionResponse_codec (version : Z) : Codec ReassignablePartitionResponse :=
  message 0 1 version (build mkReassignablePartitionResponse
    ⊛ (field ReassignablePartitionResponse_partition_index Int32)
    ⊛ (field ReassignablePartitionResponse_error_code Int16)
    ⊛ (field ReassignablePartitionResponse_error_message NullableCompactString)
    ⊛ unknown_tags true ReassignablePartitionResponse_unknown_tagged_fields).

Definition ReassignablePartitionResponse_valid (version : Z) (x : ReassignablePartitionResponse) : Prop :=
  in_signed 32 (ReassignablePartitionResponse_partition_index x) ∧
  in_signed 16 (ReassignablePartitionResponse_error_code x) ∧
  opt_all utf8 (ReassignablePartitionResponse_error_message x) ∧
  unknown_valid 0 (ReassignablePartitionResponse_unknown_tagged_fields x).

#[global] Instance ReassignablePartitionResponse_sound version : Sound (ReassignablePartitionResponse_codec
    version) (ReassignablePartitionResponse_valid version).
Proof. solve_message. Qed.

(* @ src/crates/kafka-protocol/src/messages/alter_partition_reassignments_response.rs 357-373 ReassignableTopicResponse *)
Record ReassignableTopicResponse : Type := mkReassignableTopicResponse {
  ReassignableTopicResponse_name : list byte;
  ReassignableTopicResponse_partitions : list ReassignablePartitionResponse;
  ReassignableTopicResponse_unknown_tagged_fields : TaggedFields
}.

(* @ src/crates/kafka-protocol/src/messages/alter_partition_reassignments_response.rs 469-477 ReassignableTopicResponse::default *)
Definition ReassignableTopicResponse_default : ReassignableTopicResponse := {|
  ReassignableTopicResponse_name := [];
  ReassignableTopicResponse_partitions := [];
  ReassignableTopicResponse_unknown_tagged_fields := ∅
|}.

(* @ src/crates/kafka-protocol/src/messages/alter_partition_reassignments_response.rs 406-467 ReassignableTopicResponse::encode, compute_size, decode *)
Definition ReassignableTopicResponse_codec (version : Z) : Codec ReassignableTopicResponse :=
  message 0 1 version (build mkReassignableTopicResponse
    ⊛ (field ReassignableTopicResponse_name CompactString)
    ⊛ (field ReassignableTopicResponse_partitions (CompactArray (Struct ReassignablePartitionResponse_codec
        version)))
    ⊛ unknown_tags true ReassignableTopicResponse_unknown_tagged_fields).

Definition ReassignableTopicResponse_valid (version : Z) (x : ReassignableTopicResponse) : Prop :=
  utf8 (ReassignableTopicResponse_name x) ∧
  Forall (ReassignablePartitionResponse_valid version) (ReassignableTopicResponse_partitions x) ∧
  unknown_valid 0 (ReassignableTopicResponse_unknown_tagged_fields x).

#[global] Instance ReassignableTopicResponse_sound version : Sound (ReassignableTopicResponse_codec
    version) (ReassignableTopicResponse_valid version).
Proof. solve_message. Qed.

(* @ src/crates/kafka-protocol/src/messages/alter_partition_reassignments_response.rs 20-51 AlterPartitionReassignmentsResponse *)
Record AlterPartitionReassignmentsResponse : Type := mkAlterPartitionReassignmentsResponse {
  AlterPartitionReassignmentsResponse_throttle_time_ms : Z;
  AlterPartitionReassignmentsResponse_allow_replication_factor_change : bool;
  AlterPartitionReassignmentsResponse_error_code : Z;
  AlterPartitionReassignmentsResponse_error_message : option (list byte);
  AlterPartitionReassignmentsResponse_responses : list ReassignableTopicResponse;
  AlterPartitionReassignmentsResponse_unknown_tagged_fields : TaggedFields
}.

(* @ src/crates/kafka-protocol/src/messages/alter_partition_reassignments_response.rs 194-205 AlterPartitionReassignmentsResponse::default *)
Definition AlterPartitionReassignmentsResponse_default : AlterPartitionReassignmentsResponse := {|
  AlterPartitionReassignmentsResponse_throttle_time_ms := 0;
  AlterPartitionReassignmentsResponse_allow_replication_factor_change := true;
  AlterPartitionReassignmentsResponse_error_code := 0;
  AlterPartitionReassignmentsResponse_error_message := Some [];
  AlterPartitionReassignmentsResponse_responses := [];
  AlterPartitionReassignmentsResponse_unknown_tagged_fields := ∅
|}.

(* @ src/crates/kafka-protocol/src/messages/alter_partition_reassignments_response.rs 111-192 AlterPartitionReassignmentsResponse::encode, compute_size, decode *)
Definition AlterPartitionReassignmentsResponse_codec (version : Z) : Codec
    AlterPartitionReassignmentsResponse :=
  message 0 1 version (build mkAlterPartitionReassignmentsResponse
    ⊛ (field AlterPartitionReassignmentsResponse_throttle_time_ms Int32)
    ⊛ (if 1 <=? version then field AlterPartitionReassignmentsResponse_allow_replication_factor_change
        Boolean else ignored true)
    ⊛ (field AlterPartitionReassignmentsResponse_error_code Int16)
    ⊛ (field AlterPartitionReassignmentsResponse_error_message NullableCompactString)
    ⊛ (field AlterPartitionReassignmentsResponse_responses (CompactArray (Struct
        ReassignableTopicResponse_codec version)))
    ⊛ unknown_tags true AlterPartitionReassignmentsResponse_unknown_tagged_fields).

Definition AlterPartitionReassignmentsResponse_valid (version : Z) (x :
    AlterPartitionReassignmentsResponse) : Prop :=
  in_signed 32 (AlterPartitionReassignmentsResponse_throttle_time_ms x) ∧
  (if 1 <=? version then True else AlterPartitionReassignmentsResponse_allow_replication_factor_change x =
      true) ∧
  in_signed 16 (AlterPartitionReassignmentsResponse_error_code x) ∧
  opt_all utf8 (AlterPartitionReassignmentsResponse_error_message x) ∧
  Forall (ReassignableTopicResponse_valid version) (AlterPartitionReassignmentsResponse_responses x) ∧
  unknown_valid 0 (AlterPartitionReassignmentsResponse_unknown_tagged_fields x).

#[global] Instance AlterPartitionReassignmentsResponse_sound version : Sound
    (AlterPartitionReassignmentsResponse_codec version) (AlterPartitionReassignmentsResponse_valid version).
Proof. solve_message. Qed.

(* @ src/crates/kafka-protocol/src/messages/alter_partition_reassignments_response.rs 484-488 AlterPartitionReassignmentsResponse::header_version *)
Definition AlterPartitionReassignmentsResponse_header_version (version : Z) : Z := 1.

(* @ src/crates/kafka-protocol/src/messages/alter_partition_reassignments_response.rs 207-210 AlterPartitionReassignmentsResponse::VERSIONS *)
Definition AlterPartitionReassignmentsResponse_VERSIONS : Z * Z := (0, 1).

(** ** [alter_replica_log_dirs_request] *)

(* @ src/crates/kafka-protocol/src/messages/alter_replica_log_dirs_request.rs 177-193 AlterReplicaLogDirTopic *)
Record AlterReplicaLogDirTopic : Type := mkAlterReplicaLogDirTopic {
  AlterReplicaLogDirTopic_name : list byte;
  AlterReplicaLogDirTopic_partitions : list Z;
  AlterReplicaLogDirTopic_unknown_tagged_fields : TaggedFields
}.

(* @ src/crates/kafka-protocol/src/messages/alter_replica_log_dirs_request.rs 318-326 AlterReplicaLogDirTopic::default *)
Definition AlterReplicaLogDirTopic_default : AlterReplicaLogDirTopic := {|
  AlterReplicaLogDirTopic_name := [];
  AlterReplicaLogDirTopic_partitions := [];
  AlterReplicaLogDirTopic_unknown_tagged_fields := ∅
|}.

(* @ src/crates/kafka-protocol/src/messages/alter_replica_log_dirs_request.rs 226-316 AlterReplicaLogDirTopic::encode, compute_size, decode *)
Definition AlterReplicaLogDirTopic_codec (version : Z) : Codec AlterReplicaLogDirTopic :=
  message 1 2 version (build mkAlterReplicaLogDirTopic
    ⊛ (field AlterReplicaLogDirTopic_name (if 2 <=? version then CompactString else KafkaString))
    ⊛ (field AlterReplicaLogDirTopic_partitions (if 2 <=? version then CompactArray Int32 else Array Int32))
    ⊛ unknown_tags (2 <=? version) AlterReplicaLogDirTopic_unknown_tagged_fields).

Definition AlterReplicaLogDirTopic_valid (version : Z) (x : AlterReplicaLogDirTopic) : Prop :=
  utf8 (AlterReplicaLogDirTopic_name x) ∧
  Forall (in_signed 32) (AlterReplicaLogDirTopic_partitions x) ∧
  (if 2 <=? version then unknown_valid 0 (AlterReplicaLogDirTopic_unknown_tagged_fields x) else
      AlterReplicaLogDirTopic_unknown_tagged_fields x = ∅).

#[global] Instance AlterReplicaLogDirTopic_sound version : Sound (AlterReplicaLogDirTopic_codec version)
    (AlterReplicaLogDirTopic_valid version).
Proof. solve_message. Qed.

(* @ src/crates/kafka-protocol/src/messages/alter_replica_log_dirs_request.rs 20-36 AlterReplicaLogDir *)
Record AlterReplicaLogDir : Type := mkAlterReplicaLogDir {
  AlterReplicaLogDir_path : list byte;
  AlterReplicaLogDir_topics : list AlterReplicaLogDirTopic;
  AlterReplicaLogDir_unknown_tagged_fields : TaggedFields
}.

(* @ src/crates/kafka-protocol/src/messages/alter_replica_log_dirs_request.rs 162-170 AlterReplicaLogDir::default *)
Definition AlterReplicaLogDir_default : AlterReplicaLogDir := {|
  AlterReplicaLogDir_path := [];
  AlterReplicaLogDir_topics := [];
  AlterReplicaLogDir_unknown_tagged_fields := ∅
|}.

(* @ src/crates/kafka-protocol/src/messages/alter_replica_log_dirs_request.rs 69-160 AlterReplicaLogDir::encode, compute_size, decode *)
Definition AlterReplicaLogDir_codec (version : Z) : Codec AlterReplicaLogDir :=
  message 1 2 version (build mkAlterReplicaLogDir
    ⊛ (field AlterReplicaLogDir_path (if 2 <=? version then CompactString else KafkaString))
    ⊛ (field AlterReplicaLogDir_topics (if 2 <=? version then CompactArray (Struct
        AlterReplicaLogDirTopic_codec version) else Array (Struct AlterReplicaLogDirTopic_codec version)))
    ⊛ unknown_tags (2 <=? version) AlterReplicaLogDir_unknown_tagged_fields).

Definition AlterReplicaLogDir_valid (version : Z) (x : AlterReplicaLogDir) : Prop :=
  utf8 (AlterReplicaLogDir_path x) ∧
  Forall (AlterReplicaLogDirTopic_valid version) (AlterReplicaLogDir_topics x) ∧
  (if 2 <=? version then unknown_valid 0 (AlterReplicaLogDir_unknown_tagged_fields x) else
      AlterReplicaLogDir_unknown_tagged_fields x = ∅).

#[global] Instance AlterReplicaLogDir_sound version : Sound (AlterReplicaLogDir_codec version)
    (AlterReplicaLogDir_valid version).
Proof. solve_message. Qed.

(* @ src/crates/kafka-protocol/src/messages/alter_replica_log_dirs_request.rs 333-344 AlterReplicaLogDirsRequest *)
Record AlterReplicaLogDirsRequest : Type := mkAlterReplicaLogDirsRequest {
  AlterReplicaLogDirsRequest_dirs : list AlterReplicaLogDir;
  AlterReplicaLogDirsRequest_unknown_tagged_fields : TaggedFields
}.

(* @ src/crates/kafka-protocol/src/messages/alter_replica_log_dirs_request.rs 445-452 AlterReplicaLogDirsRequest::default *)
Definition AlterReplicaLogDirsRequest_default : AlterReplicaLogDirsRequest := {|
  AlterReplicaLogDirsRequest_dirs := [];
  AlterReplicaLogDirsRequest_unknown_tagged_fields := ∅
|}.

(* @ src/crates/kafka-protocol/src/messages/alter_replica_log_dirs_request.rs 368-443 AlterReplicaLogDirsRequest::encode, compute_size, decode *)
Definition AlterReplicaLogDirsRequest_codec (version : Z) : Codec AlterReplicaLogDirsRequest :=
  message 1 2 version (build mkAlterReplicaLogDirsRequest
    ⊛ (field AlterReplicaLogDirsRequest_dirs (if 2 <=? version then CompactArray (Struct
        AlterReplicaLogDir_codec version) else Array (Struct AlterReplicaLogDir_codec version)))
    ⊛ unknown_tags (2 <=? version) AlterReplicaLogDirsRequest_unknown_tagged_fields).

Definition AlterReplicaLogDirsRequest_valid (version : Z) (x : AlterReplicaLogDirsRequest) : Prop :=
  Forall (AlterReplicaLogDir_valid version) (AlterReplicaLogDirsRequest_dirs x) ∧
  (if 2 <=? version then unknown_valid 0 (AlterReplicaLogDirsRequest_unknown_tagged_fields x) else
      AlterReplicaLogDirsRequest_unknown_tagged_fields x = ∅).

#[global] Instance AlterReplicaLogDirsRequest_sound version : Sound (AlterReplicaLogDirsRequest_codec
    version) (AlterReplicaLogDirsRequest_valid version).
Proof. solve_message. Qed.

(* @ src/crates/kafka-protocol/src/messages/alter_replica_log_dirs_request.rs 459-467 AlterReplicaLogDirsRequest::header_version *)
Definition AlterReplicaLogDirsRequest_header_version (version : Z) : Z := if 2 <=? version then 2 else 1.

(* @ src/crates/kafka-protocol/src/messages/alter_replica_log_dirs_request.rs 454-457 AlterReplicaLogDirsRequest::VERSIONS *)
Definition AlterReplicaLogDirsRequest_VERSIONS : Z * Z := (1, 2).

(** ** [alter_replica_log_dirs_response] *)

(* @ src/crates/kafka-protocol/src/messages/alter_replica_log_dirs_response.rs 20-36 AlterReplicaLogDirPartitionResult *)
Record AlterReplicaLogDirPartitionResult : Type := mkAlterReplicaLogDirPartitionResult {
  AlterReplicaLogDirPartitionResult_partition_index : Z;
  AlterReplicaLogDirPartitionResult_error_code : Z;
  AlterReplicaLogDirPartitionResult_unknown_tagged_fields : TaggedFields
}.

(* @ src/crates/kafka-protocol/src/messages/alter_replica_log_dirs_response.rs 137-145 AlterReplicaLogDirPartitionResult::default *)
Definition AlterReplicaLogDirPartitionResult_default : AlterReplicaLogDirPartitionResult := {|
  AlterReplicaLogDirPartitionResult_partition_index := 0;
  AlterReplicaLogDirPartitionResult_error_code := 0;
  AlterReplicaLogDirPartitionResult_unknown_tagged_fields := ∅
|}.

(* @ src/crates/kafka-protocol/src/messages/alter_replica_log_dirs_response.rs 69-135 AlterReplicaLogDirPartitionResult::encode, compute_size, decode *)
Definition AlterReplicaLogDirPartitionResult_codec (version : Z) : Codec AlterReplicaLogDirPartitionResult
    :=
  message 1 2 version (build mkAlterReplicaLogDirPartitionResult
    ⊛ (field AlterReplicaLogDirPartitionResult_partition_index Int32)
    ⊛ (field AlterReplicaLogDirPartitionResult_error_code Int16)
    ⊛ unknown_tags (2 <=? version) AlterReplicaLogDirPartitionResult_unknown_tagged_fields).

Definition AlterReplicaLogDirPartitionResult_valid (version : Z) (x : AlterReplicaLogDirPartitionResult) :
    Prop :=
  in_signed 32 (AlterReplicaLogDirPartitionResult_partition_index x) ∧
  in_signed 16 (AlterReplicaLogDirPartitionResult_error_code x) ∧
  (if 2 <=? version then unknown_valid 0 (AlterReplicaLogDirPartitionResult_unknown_tagged_fields x) else
      AlterReplicaLogDirPartitionResult_unknown_tagged_fields x = ∅).

#[global] Instance AlterReplicaLogDirPartitionResult_sound version : Sound
    (AlterReplicaLogDirPartitionResult_codec version) (AlterReplicaLogDirPartitionResult_valid version).
Proof. solve_message. Qed.

(* @ src/crates/kafka-protocol/src/messages/alter_replica_log_dirs_response.rs 152-168 AlterReplicaLogDirTopicResult *)
Record AlterReplicaLogDirTopicResult : Type := mkAlterReplicaLogDirTopicResult {
  AlterReplicaLogDirTopicResult_topic_name : list byte;
  AlterReplicaLogDirTopicResult_partitions : list AlterReplicaLogDirPartitionResult;
  AlterReplicaLogDirTopicResult_unknown_tagged_fields : TaggedFields
}.

(* @ src/crates/kafka-protocol/src/messages/alter_replica_log_dirs_response.rs 294-302 AlterReplicaLogDirTopicResult::default *)
Definition AlterReplicaLogDirTopicResult_default : AlterReplicaLogDirTopicResult := {|
  AlterReplicaLogDirTopicResult_topic_name := [];
  AlterReplicaLogDirTopicResult_partitions := [];
  AlterReplicaLogDirTopicResult_unknown_tagged_fields := ∅
|}.

(* @ src/crates/kafka-protocol/src/messages/alter_replica_log_dirs_response.rs 201-292 AlterReplicaLogDirTopicResult::encode, compute_size, decode *)
Definition AlterReplicaLogDirTopicResult_codec (version : Z) : Codec AlterReplicaLogDirTopicResult :=
  message 1 2 version (build mkAlterReplicaLogDirTopicResult
    ⊛ (field AlterReplicaLogDirTopicResult_topic_name (if 2 <=? version then CompactString else
        KafkaString))
    ⊛ (field AlterReplicaLogDirTopicResult_partitions (if 2 <=? version then CompactArray (Struct
        AlterReplicaLogDirPartitionResult_codec version) else Array (Struct
        AlterReplicaLogDirPartitionResult_codec version)))
    ⊛ unknown_tags (2 <=? version) AlterReplicaLogDirTopicResult_unknown_tagged_fields).

Definition AlterReplicaLogDirTopicResult_valid (version : Z) (x : AlterReplicaLogDirTopicResult) : Prop :=
  utf8 (AlterReplicaLogDirTopicResult_topic_name x) ∧
  Forall (AlterReplicaLogDirPartitionResult_valid version) (AlterReplicaLogDirTopicResult_partitions x) ∧
  (if 2 <=? version then unknown_valid 0 (AlterReplicaLogDirTopicResult_unknown_tagged_fields x) else
      AlterReplicaLogDirTopicResult_unknown_tagged_fields x = ∅).

#[global] Instance AlterReplicaLogDirTopicResult_sound version : Sound (AlterReplicaLogDirTopicResult_codec
    version) (AlterReplicaLogDirTopicResult_valid version).
Proof. solve_message. Qed.

(* @ src/crates/kafka-protocol/src/messages/alter_replica_log_dirs_response.rs 309-325 AlterReplicaLogDirsResponse *)
Record AlterReplicaLogDirsResponse : Type := mkAlterReplicaLogDirsResponse {
  AlterReplicaLogDirsResponse_throttle_time_ms : Z;
  AlterReplicaLogDirsResponse_results : list AlterReplicaLogDirTopicResult;
  AlterReplicaLogDirsResponse_unknown_tagged_fields : TaggedFields
}.

(* @ src/crates/kafka-protocol/src/messages/alter_replica_log_dirs_response.rs 439-447 AlterReplicaLogDirsResponse::default *)
Definition AlterReplicaLogDirsResponse_default : AlterReplicaLogDirsResponse := {|
  AlterReplicaLogDirsResponse_throttle_time_ms := 0;
  AlterReplicaLogDirsResponse_results := [];
  AlterReplicaLogDirsResponse_unknown_tagged_fields := ∅
|}.

(* @ src/crates/kafka-protocol/src/messages/alter_replica_log_dirs_response.rs 358-437 AlterReplicaLogDirsResponse::encode, compute_size, decode *)
Definition AlterReplicaLogDirsResponse_codec (version : Z) : Codec AlterReplicaLogDirsResponse :=
  message 1 2 version (build mkAlterReplicaLogDirsResponse
    ⊛ (field AlterReplicaLogDirsResponse_throttle_time_ms Int32)
    ⊛ (field AlterReplicaLogDirsResponse_results (if 2 <=? version then CompactArray (Struct
        AlterReplicaLogDirTopicResult_codec version) else Array (Struct AlterReplicaLogDirTopicResult_codec
        version)))
    ⊛ unknown_tags (2 <=? version) AlterReplicaLogDirsResponse_unknown_tagged_fields).

Definition AlterReplicaLogDirsResponse_valid (version : Z) (x : AlterReplicaLogDirsResponse) : Prop :=
  in_signed 32 (AlterReplicaLogDirsResponse_throttle_time_ms x) ∧
  Forall (AlterReplicaLogDirTopicResult_valid version) (AlterReplicaLogDirsResponse_results x) ∧
  (if 2 <=? version then unknown_valid 0 (AlterReplicaLogDirsResponse_unknown_tagged_fields x) else
      AlterReplicaLogDirsResponse_unknown_tagged_fields x = ∅).

#[global] Instance AlterReplicaLogDirsResponse_sound version : Sound (AlterReplicaLogDirsResponse_codec
    version) (AlterReplicaLogDirsResponse_valid version).
Proof. solve_message. Qed.

(* @ src/crates/kafka-protocol/src/messages/alter_replica_log_dirs_response.rs 454-462 AlterReplicaLogDirsResponse::header_version *)
Definition AlterReplicaLogDirsResponse_header_version (version : Z) : Z := if 2 <=? version then 1 else 0.

(* @ src/crates/kafka-protocol/src/messages/alter_replica_log_dirs_response.rs 449-452 AlterReplicaLogDirsResponse::VERSIONS *)
Definition AlterReplicaLogDirsResponse_VERSIONS : Z * Z := (1, 2).

(** ** [create_partitions_request] *)

(* @ src/crates/kafka-protocol/src/messages/create_partitions_request.rs 20-31 CreatePartitionsAssignment *)
Record CreatePartitionsAssignment : Type := mkCreatePartitionsAssignment {
  CreatePartitionsAssignment_broker_ids : list Z;
  CreatePartitionsAssignment_unknown_tagged_fields : TaggedFields
}.

(* @ src/crates/kafka-protocol/src/messages/create_partitions_request.rs 131-138 CreatePartitionsAssignment::default *)
Definition CreatePartitionsAssignment_default : CreatePartitionsAssignment := {|
  CreatePartitionsAssignment_broker_ids := [];
  CreatePartitionsAssignment_unknown_tagged_fields := ∅
|}.

(* @ src/crates/kafka-protocol/src/messages/create_partitions_request.rs 55-129 CreatePartitionsAssignment::encode, compute_size, decode *)
Definition CreatePartitionsAssignment_codec (version : Z) : Codec CreatePartitionsAssignment :=
  message 0 3 version (build mkCreatePartitionsAssignment
    ⊛ (field CreatePartitionsAssignment_broker_ids (if 2 <=? version then CompactArray Int32 else Array
        Int32))
    ⊛ unknown_tags (2 <=? version) CreatePartitionsAssignment_unknown_tagged_fields).

Definition CreatePartitionsAssignment_valid (version : Z) (x : CreatePartitionsAssignment) : Prop :=
  Forall (in_signed 32) (CreatePartitionsAssignment_broker_ids x) ∧
  (if 2 <=? version then unknown_valid 0 (CreatePartitionsAssignment_unknown_tagged_fields x) else
      CreatePartitionsAssignment_unknown_tagged_fields x = ∅).

#[global] Instance CreatePartitionsAssignment_sound version : Sound (CreatePartitionsAssignment_codec
    version) (CreatePartitionsAssignment_valid version).
Proof. solve_message. Qed.

(* @ src/crates/kafka-protocol/src/messages/create_partitions_request.rs 309-330 CreatePartitionsTopic *)
Record CreatePartitionsTopic : Type := mkCreatePartitionsTopic {
  CreatePartitionsTopic_name : list byte;
  CreatePartitionsTopic_count : Z;
  CreatePartitionsTopic_assignments : option (list CreatePartitionsAssignment);
  CreatePartitionsTopic_unknown_tagged_fields : TaggedFields
}.

(* @ src/crates/kafka-protocol/src/messages/create_partitions_request.rs 470-479 CreatePartitionsTopic::default *)
Definition CreatePartitionsTopic_default : CreatePartitionsTopic := {|
  CreatePartitionsTopic_name := [];
  CreatePartitionsTopic_count := 0;
  CreatePartitionsTopic_assignments := Some [];
  CreatePartitionsTopic_unknown_tagged_fields := ∅
|}.

(* @ src/crates/kafka-protocol/src/messages/create_partitions_request.rs 372-468 CreatePartitionsTopic::encode, compute_size, decode *)
Definition CreatePartitionsTopic_codec (version : Z) : Codec CreatePartitionsTopic :=
  message 0 3 version (build mkCreatePartitionsTopic
    ⊛ (field CreatePartitionsTopic_name (if 2 <=? version then CompactString else KafkaString))
    ⊛ (field CreatePartitionsTopic_count Int32)
    ⊛ (field CreatePartitionsTopic_assignments (if 2 <=? version then NullableCompactArray (Struct
        CreatePartitionsAssignment_codec version) else NullableArray (Struct
        CreatePartitionsAssignment_codec version)))
    ⊛ unknown_tags (2 <=? version) CreatePartitionsTopic_unknown_tagged_fields).

Definition CreatePartitionsTopic_valid (version : Z) (x : CreatePartitionsTopic) : Prop :=
  utf8 (CreatePartitionsTopic_name x) ∧
  in_signed 32 (CreatePartitionsTopic_count x) ∧
  opt_all (Forall (CreatePartitionsAssignment_valid version)) (CreatePartitionsTopic_assignments x) ∧
  (if 2 <=? version then unknown_valid 0 (CreatePartitionsTopic_unknown_tagged_fields x) else
      CreatePartitionsTopic_unknown_tagged_fields x = ∅).

#[global] Instance CreatePartitionsTopic_sound version : Sound (CreatePartitionsTopic_codec version)
    (CreatePartitionsTopic_valid version).
Proof. solve_message. Qed.

(* @ src/crates/kafka-protocol/src/messages/create_partitions_request.rs 145-166 CreatePartitionsRequest *)
Record CreatePartitionsRequest : Type := mkCreatePartitionsRequest {
  CreatePartitionsRequest_topics : list CreatePartitionsTopic;
  CreatePartitionsRequest_timeout_ms : Z;
  CreatePartitionsRequest_validate_only : bool;
  CreatePartitionsRequest_unknown_tagged_fields : TaggedFields
}.

(* @ src/crates/kafka-protocol/src/messages/create_partitions_request.rs 293-302 CreatePartitionsRequest::default *)
Definition CreatePartitionsRequest_default : CreatePartitionsRequest := {|
  CreatePartitionsRequest_topics := [];
  CreatePartitionsRequest_timeout_ms := 0;
  CreatePartitionsRequest_validate_only := false;
  CreatePartitionsRequest_unknown_tagged_fields := ∅
|}.

(* @ src/crates/kafka-protocol/src/messages/create_partitions_request.rs 208-291 CreatePartitionsRequest::encode, compute_size, decode *)
Definition CreatePartitionsRequest_codec (version : Z) : Codec CreatePartitionsRequest :=
  message 0 3 version (build mkCreatePartitionsRequest
    ⊛ (field CreatePartitionsRequest_topics (if 2 <=? version then CompactArray (Struct
        CreatePartitionsTopic_codec version) else Array (Struct CreatePartitionsTopic_codec version)))
    ⊛ (field CreatePartitionsRequest_timeout_ms Int32)
    ⊛ (field CreatePartitionsRequest_validate_only Boolean)
    ⊛ unknown_tags (2 <=? version) CreatePartitionsRequest_unknown_tagged_fields).

Definition CreatePartitionsRequest_valid (version : Z) (x : CreatePartitionsRequest) : Prop :=
  Forall (CreatePartitionsTopic_valid version) (CreatePartitionsRequest_topics x) ∧
  in_signed 32 (CreatePartitionsRequest_timeout_ms x) ∧
  (if 2 <=? version then unknown_valid 0 (CreatePartitionsRequest_unknown_tagged_fields x) else
      CreatePartitionsRequest_unknown_tagged_fields x = ∅).

#[global] Instance CreatePartitionsRequest_sound version : Sound (CreatePartitionsRequest_codec version)
    (CreatePartitionsRequest_valid version).
Proof. solve_message. Qed.

(* @ src/crates/kafka-protocol/src/messages/create_partitions_request.rs 486-494 CreatePartitionsRequest::header_version *)
Definition CreatePartitionsRequest_header_version (version : Z) : Z := if 2 <=? version then 2 else 1.

(* @ src/crates/kafka-protocol/src/messages/create_partitions_request.rs 304-307 CreatePartitionsRequest::VERSIONS *)
Definition CreatePartitionsRequest_VERSIONS : Z * Z := (0, 3).

(** ** [create_partitions_response] *)

(* @ src/crates/kafka-protocol/src/messages/create_partitions_response.rs 165-186 CreatePartitionsTopicResult *)
Record CreatePartitionsTopicResult : Type := mkCreatePartitionsTopicResult {
  CreatePartitionsTopicResult_name : list byte;
  CreatePartitionsTopicResult_error_code : Z;
  CreatePartitionsTopicResult_error_message : option (list byte);
  CreatePartitionsTopicResult_unknown_tagged_fields : TaggedFields
}.

(* @ src/crates/kafka-protocol/src/messages/create_partitions_response.rs 324-333 CreatePartitionsTopicResult::default *)
Definition CreatePartitionsTopicResult_default : CreatePartitionsTopicResult := {|
  CreatePartitionsTopicResult_name := [];
  CreatePartitionsTopicResult_error_code := 0;
  CreatePartitionsTopicResult_error_message := None;
  CreatePartitionsTopicResult_unknown_tagged_fields := ∅
|}.

(* @ src/crates/kafka-protocol/src/messages/create_partitions_response.rs 228-322 CreatePartitionsTopicResult::encode, compute_size, decode *)
Definition CreatePartitionsTopicResult_codec (version : Z) : Codec CreatePartitionsTopicResult :=
  message 0 3 version (build mkCreatePartitionsTopicResult
    ⊛ (field CreatePartitionsTopicResult_name (if 2 <=? version then CompactString else KafkaString))
    ⊛ (field CreatePartitionsTopicResult_error_code Int16)
    ⊛ (field CreatePartitionsTopicResult_error_message (if 2 <=? version then NullableCompactString else
        NullableString))
    ⊛ unknown_tags (2 <=? version) CreatePartitionsTopicResult_unknown_tagged_fields).

Definition CreatePartitionsTopicResult_valid (version : Z) (x : CreatePartitionsTopicResult) : Prop :=
  utf8 (CreatePartitionsTopicResult_name x) ∧
  in_signed 16 (CreatePartitionsTopicResult_error_code x) ∧
  opt_all utf8 (CreatePartitionsTopicResult_error_message x) ∧
  (if 2 <=? version then unknown_valid 0 (CreatePartitionsTopicResult_unknown_tagged_fields x) else
      CreatePartitionsTopicResult_unknown_tagged_fields x = ∅).

#[global] Instance CreatePartitionsTopicResult_sound version : Sound (CreatePartitionsTopicResult_codec
    version) (CreatePartitionsTopicResult_valid version).
Proof. solve_message. Qed.

(* @ src/crates/kafka-protocol/src/messages/create_partitions_response.rs 20-36 CreatePartitionsResponse *)
Record CreatePartitionsResponse : Type := mkCreatePartitionsResponse {
  CreatePartitionsResponse_throttle_time_ms : Z;
  CreatePartitionsResponse_results : list CreatePartitionsTopicResult;
  CreatePartitionsResponse_unknown_tagged_fields : TaggedFields
}.

(* @ src/crates/kafka-protocol/src/messages/create_partitions_response.rs 150-158 CreatePartitionsResponse::default *)
Definition CreatePartitionsResponse_default : CreatePartitionsResponse := {|
  CreatePartitionsResponse_throttle_time_ms := 0;
  CreatePartitionsResponse_results := [];
  CreatePartitionsResponse_unknown_tagged_fields := ∅
|}.

(* @ src/crates/kafka-protocol/src/messages/create_partitions_response.rs 69-148 CreatePartitionsResponse::encode, compute_size, decode *)
Definition CreatePartitionsResponse_codec (version : Z) : Codec CreatePartitionsResponse :=
  message 0 3 version (build mkCreatePartitionsResponse
    ⊛ (field CreatePartitionsResponse_throttle_time_ms Int32)
    ⊛ (field CreatePartitionsResponse_results (if 2 <=? version then CompactArray (Struct
        CreatePartitionsTopicResult_codec version) else Array (Struct CreatePartitionsTopicResult_codec
        version)))
    ⊛ unknown_tags (2 <=? version) CreatePartitionsResponse_unknown_tagged_fields).

Definition CreatePartitionsResponse_valid (version : Z) (x : CreatePartitionsResponse) : Prop :=
  in_signed 32 (CreatePartitionsResponse_throttle_time_ms x) ∧
  Forall (CreatePartitionsTopicResult_valid version) (CreatePartitionsResponse_results x) ∧
  (if 2 <=? version then unknown_valid 0 (CreatePartitionsResponse_unknown_tagged_fields x) else
      CreatePartitionsResponse_unknown_tagged_fields x = ∅).

#[global] Instance CreatePartitionsResponse_sound version : Sound (CreatePartitionsResponse_codec version)
    (CreatePartitionsResponse_valid version).
Proof. solve_message. Qed.

(* @ src/crates/kafka-protocol/src/messages/create_partitions_response.rs 340-348 CreatePartitionsResponse::header_version *)
Definition CreatePartitionsResponse_header_version (version : Z) : Z := if 2 <=? version then 1 else 0.

(* @ src/crates/kafka-protocol/src/messages/create_partitions_response.rs 160-163 CreatePartitionsResponse::VERSIONS *)
Definition CreatePartitionsResponse_VERSIONS : Z * Z := (0, 3).

(** ** [delete_records_request] *)

(* @ src/crates/kafka-protocol/src/messages/delete_records_request.rs 20-36 DeleteRecordsPartition *)
Record DeleteRecordsPartition : Type := mkDeleteRecordsPartition {
  DeleteRecordsPartition_partition_index : Z;
  DeleteRecordsPartition_offset : Z;
  DeleteRecordsPartition_unknown_tagged_fields : TaggedFields
}.

(* @ src/crates/kafka-protocol/src/messages/delete_records_request.rs 137-145 DeleteRecordsPartition::default *)
Definition DeleteRecordsPartition_default : DeleteRecordsPartition := {|
  DeleteRecordsPartition_partition_index := 0;
  DeleteRecordsPartition_offset := 0;
  DeleteRecordsPartition_unknown_tagged_fields := ∅
|}.

(* @ src/crates/kafka-protocol/src/messages/delete_records_request.rs 69-135 DeleteRecordsPartition::encode, compute_size, decode *)
Definition DeleteRecordsPartition_codec (version : Z) : Codec DeleteRecordsPartition :=
  message 0 2 version (build mkDeleteRecordsPartition
    ⊛ (field DeleteRecordsPartition_partition_index Int32)
    ⊛ (field DeleteRecordsPartition_offset Int64)
    ⊛ unknown_tags (2 <=? version) DeleteRecordsPartition_unknown_tagged_fields).

Definition DeleteRecordsPartition_valid (version : Z) (x : DeleteRecordsPartition) : Prop :=
  in_signed 32 (DeleteRecordsPartition_partition_index x) ∧
  in_signed 64 (DeleteRecordsPartition_offset x) ∧
  (if 2 <=? version then unknown_valid 0 (DeleteRecordsPartition_unknown_tagged_fields x) else
      DeleteRecordsPartition_unknown_tagged_fields x = ∅).

#[global] Instance DeleteRecordsPartition_sound version : Sound (DeleteRecordsPartition_codec version)
    (DeleteRecordsPartition_valid version).
Proof. solve_message. Qed.

(* @ src/crates/kafka-protocol/src/messages/delete_records_request.rs 297-313 DeleteRecordsTopic *)
Record DeleteRecordsTopic : Type := mkDeleteRecordsTopic {
  DeleteRecordsTopic_name : list byte;
  DeleteRecordsTopic_partitions : list DeleteRecordsPartition;
  DeleteRecordsTopic_unknown_tagged_fields : TaggedFields
}.

(* @ src/crates/kafka-protocol/src/messages/delete_records_request.rs 439-447 DeleteRecordsTopic::default *)
Definition DeleteRecordsTopic_default : DeleteRecordsTopic := {|
  DeleteRecordsTopic_name := [];
  DeleteRecordsTopic_partitions := [];
  DeleteRecordsTopic_unknown_tagged_fields := ∅
|}.

(* @ src/crates/kafka-protocol/src/messages/delete_records_request.rs 346-437 DeleteRecordsTopic::encode, compute_size, decode *)
Definition DeleteRecordsTopic_codec (version : Z) : Codec DeleteRecordsTopic :=
  message 0 2 version (build mkDeleteRecordsTopic
    ⊛ (field DeleteRecordsTopic_name (if 2 <=? version then CompactString else KafkaString))
    ⊛ (field DeleteRecordsTopic_partitions (if 2 <=? version then CompactArray (Struct
        DeleteRecordsPartition_codec version) else Array (Struct DeleteRecordsPartition_codec version)))
    ⊛ unknown_tags (2 <=? version) DeleteRecordsTopic_unknown_tagged_fields).

Definition DeleteRecordsTopic_valid (version : Z) (x : DeleteRecordsTopic) : Prop :=
  utf8 (DeleteRecordsTopic_name x) ∧
  Forall (DeleteRecordsPartition_valid version) (DeleteRecordsTopic_partitions x) ∧
  (if 2 <=? version then unknown_valid 0 (DeleteRecordsTopic_unknown_tagged_fields x) else
      DeleteRecordsTopic_unknown_tagged_fields x = ∅).

#[global] Instance DeleteRecordsTopic_sound version : Sound (DeleteRecordsTopic_codec version)
    (DeleteRecordsTopic_valid version).
Proof. solve_message. Qed.

(* @ src/crates/kafka-protocol/src/messages/delete_records_request.rs 152-168 DeleteRecordsRequest *)
Record DeleteRecordsRequest : Type := mkDeleteRecordsRequest {
  DeleteRecordsRequest_topics : list DeleteRecordsTopic;
  DeleteRecordsRequest_timeout_ms : Z;
  DeleteRecordsRequest_unknown_tagged_fields : TaggedFields
}.

(* @ src/crates/kafka-protocol/src/messages/delete_records_request.rs 282-290 DeleteRecordsRequest::default *)
Definition DeleteRecordsRequest_default : DeleteRecordsRequest := {|
  DeleteRecordsRequest_topics := [];
  DeleteRecordsRequest_timeout_ms := 0;
  DeleteRecordsRequest_unknown_tagged_fields := ∅
|}.

(* @ src/crates/kafka-protocol/src/messages/delete_records_request.rs 201-280 DeleteRecordsRequest::encode, compute_size, decode *)
Definition DeleteRecordsRequest_codec (version : Z) : Codec DeleteRecordsRequest :=
  message 0 2 version (build mkDeleteRecordsRequest
    ⊛ (field DeleteRecordsRequest_topics (if 2 <=? version then CompactArray (Struct
        DeleteRecordsTopic_codec version) else Array (Struct DeleteRecordsTopic_codec version)))
    ⊛ (field DeleteRecordsRequest_timeout_ms Int32)
    ⊛ unknown_tags (2 <=? version) DeleteRecordsRequest_unknown_tagged_fields).

Definition DeleteRecordsRequest_valid (version : Z) (x : DeleteRecordsRequest) : Prop :=
  Forall (DeleteRecordsTopic_valid version) (DeleteRecordsRequest_topics x) ∧
  in_signed 32 (DeleteRecordsRequest_timeout_ms x) ∧
  (if 2 <=? version then unknown_valid 0 (DeleteRecordsRequest_unknown_tagged_fields x) else
      DeleteRecordsRequest_unknown_tagged_fields x = ∅).

#[global] Instance DeleteRecordsRequest_sound version : Sound (DeleteRecordsRequest_codec version)
    (DeleteRecordsRequest_valid version).
Proof. solve_message. Qed.

(* @ src/crates/kafka-protocol/src/messages/delete_records_request.rs 454-462 DeleteRecordsRequest::header_version *)
Definition DeleteRecordsRequest_header_version (version : Z) : Z := if 2 <=? version then 2 else 1.

(* @ src/crates/kafka-protocol/src/messages/delete_records_request.rs 292-295 DeleteRecordsRequest::VERSIONS *)
Definition DeleteRecordsRequest_VERSIONS : Z * Z := (0, 2).

(** ** [delete_records_response] *)

(* @ src/crates/kafka-protocol/src/messages/delete_records_response.rs 20-41 DeleteRecordsPartitionResult *)
Record DeleteRecordsPartitionResult : Type := mkDeleteRecordsPartitionResult {
  DeleteRecordsPartitionResult_partition_index : Z;
  DeleteRecordsPartitionResult_low_watermark : Z;
  DeleteRecordsPartitionResult_error_code : Z;
  DeleteRecordsPartitionResult_unknown_tagged_fields : TaggedFields
}.

(* @ src/crates/kafka-protocol/src/messages/delete_records_response.rs 155-164 DeleteRecordsPartitionResult::default *)
Definition DeleteRecordsPartitionResult_default : DeleteRecordsPartitionResult := {|
  DeleteRecordsPartitionResult_partition_index := 0;
  DeleteRecordsPartitionResult_low_watermark := 0;
  DeleteRecordsPartitionResult_error_code := 0;
  DeleteRecordsPartitionResult_unknown_tagged_fields := ∅
|}.

(* @ src/crates/kafka-protocol/src/messages/delete_records_response.rs 83-153 DeleteRecordsPartitionResult::encode, compute_size, decode *)
Definition DeleteRecordsPartitionResult_codec (version : Z) : Codec DeleteRecordsPartitionResult :=
  message 0 2 version (build mkDeleteRecordsPartitionResult
    ⊛ (field DeleteRecordsPartitionResult_partition_index Int32)
    ⊛ (field DeleteRecordsPartitionResult_low_watermark Int64)
    ⊛ (field DeleteRecordsPartitionResult_error_code Int16)
    ⊛ unknown_tags (2 <=? version) DeleteRecordsPartitionResult_unknown_tagged_fields).

Definition DeleteRecordsPartitionResult_valid (version : Z) (x : DeleteRecordsPartitionResult) : Prop :=
  in_signed 32 (DeleteRecordsPartitionResult_partition_index x) ∧
  in_signed 64 (DeleteRecordsPartitionResult_low_watermark x) ∧
  in_signed 16 (DeleteRecordsPartitionResult_error_code x) ∧
  (if 2 <=? version then unknown_valid 0 (DeleteRecordsPartitionResult_unknown_tagged_fields x) else
      DeleteRecordsPartitionResult_unknown_tagged_fields x = ∅).

#[global] Instance DeleteRecordsPartitionResult_sound version : Sound (DeleteRecordsPartitionResult_codec
    version) (DeleteRecordsPartitionResult_valid version).
Proof. solve_message. Qed.

(* @ src/crates/kafka-protocol/src/messages/delete_records_response.rs 316-332 DeleteRecordsTopicResult *)
Record DeleteRecordsTopicResult : Type := mkDeleteRecordsTopicResult {
  DeleteRecordsTopicResult_name : list byte;
  DeleteRecordsTopicResult_partitions : list DeleteRecordsPartitionResult;
  DeleteRecordsTopicResult_unknown_tagged_fields : TaggedFields
}.

(* @ src/crates/kafka-protocol/src/messages/delete_records_response.rs 458-466 DeleteRecordsTopicResult::default *)
Definition DeleteRecordsTopicResult_default : DeleteRecordsTopicResult := {|
  DeleteRecordsTopicResult_name := [];
  DeleteRecordsTopicResult_partitions := [];
  DeleteRecordsTopicResult_unknown_tagged_fields := ∅
|}.

(* @ src/crates/kafka-protocol/src/messages/delete_records_response.rs 365-456 DeleteRecordsTopicResult::encode, compute_size, decode *)
Definition DeleteRecordsTopicResult_codec (version : Z) : Codec DeleteRecordsTopicResult :=
  message 0 2 version (build mkDeleteRecordsTopicResult
    ⊛ (field DeleteRecordsTopicResult_name (if 2 <=? version then CompactString else KafkaString))
    ⊛ (field DeleteRecordsTopicResult_partitions (if 2 <=? version then CompactArray (Struct
        DeleteRecordsPartitionResult_codec version) else Array (Struct DeleteRecordsPartitionResult_codec
        version)))
    ⊛ unknown_tags (2 <=? version) DeleteRecordsTopicResult_unknown_tagged_fields).

Definition DeleteRecordsTopicResult_valid (version : Z) (x : DeleteRecordsTopicResult) : Prop :=
  utf8 (DeleteRecordsTopicResult_name x) ∧
  Forall (DeleteRecordsPartitionResult_valid version) (DeleteRecordsTopicResult_partitions x) ∧
  (if 2 <=? version then unknown_valid 0 (DeleteRecordsTopicResult_unknown_tagged_fields x) else
      DeleteRecordsTopicResult_unknown_tagged_fields x = ∅).

#[global] Instance DeleteRecordsTopicResult_sound version : Sound (DeleteRecordsTopicResult_codec version)
    (DeleteRecordsTopicResult_valid version).
Proof. solve_message. Qed.

(* @ src/crates/kafka-protocol/src/messages/delete_records_response.rs 171-187 DeleteRecordsResponse *)
Record DeleteRecordsResponse : Type := mkDeleteRecordsResponse {
  DeleteRecordsResponse_throttle_time_ms : Z;
  DeleteRecordsResponse_topics : list DeleteRecordsTopicResult;
  DeleteRecordsResponse_unknown_tagged_fields : TaggedFields
}.

(* @ src/crates/kafka-protocol/src/messages/delete_records_response.rs 301-309 DeleteRecordsResponse::default *)
Definition DeleteRecordsResponse_default : DeleteRecordsResponse := {|
  DeleteRecordsResponse_throttle_time_ms := 0;
  DeleteRecordsResponse_topics := [];
  DeleteRecordsResponse_unknown_tagged_fields := ∅
|}.

(* @ src/crates/kafka-protocol/src/messages/delete_records_response.rs 220-299 DeleteRecordsResponse::encode, compute_size, decode *)
Definition DeleteRecordsResponse_codec (version : Z) : Codec DeleteRecordsResponse :=
  message 0 2 version (build mkDeleteRecordsResponse
    ⊛ (field DeleteRecordsResponse_throttle_time_ms Int32)
    ⊛ (field DeleteRecordsResponse_topics (if 2 <=? version then CompactArray (Struct
        DeleteRecordsTopicResult_codec version) else Array (Struct DeleteRecordsTopicResult_codec version)))
    ⊛ unknown_tags (2 <=? version) DeleteRecordsResponse_unknown_tagged_fields).

Definition DeleteRecordsResponse_valid (version : Z) (x : DeleteRecordsResponse) : Prop :=
  in_signed 32 (DeleteRecordsResponse_throttle_time_ms x) ∧
  Forall (DeleteRecordsTopicResult_valid version) (DeleteRecordsResponse_topics x) ∧
  (if 2 <=? version then unknown_valid 0 (DeleteRecordsResponse_unknown_tagged_fields x) else
      DeleteRecordsResponse_unknown_tagged_fields x = ∅).

#[global] Instance DeleteRecordsResponse_sound version : Sound (DeleteRecordsResponse_codec version)
    (DeleteRecordsResponse_valid version).
Proof. solve_message. Qed.

(* @ src/crates/kafka-protocol/src/messages/delete_records_response.rs 473-481 DeleteRecordsResponse::header_version *)
Definition DeleteRecordsResponse_header_version (version : Z) : Z := if 2 <=? version then 1 else 0.

(* @ src/crates/kafka-protocol/src/messages/delete_records_response.rs 311-314 DeleteRecordsResponse::VERSIONS *)
Definition DeleteRecordsResponse_VERSIONS : Z * Z := (0, 2).

(** ** [delete_topics_request] *)

(* @ src/crates/kafka-protocol/src/messages/delete_topics_request.rs 20-36 DeleteTopicState *)
Record DeleteTopicState : Type := mkDeleteTopicState {
  DeleteTopicState_name : option (list byte);
  DeleteTopicState_topic_id : Z;
  DeleteTopicState_unknown_tagged_fields : TaggedFields
}.

(* @ src/crates/kafka-protocol/src/messages/delete_topics_request.rs 169-177 DeleteTopicState::default *)
Definition DeleteTopicState_default : DeleteTopicState := {|
  DeleteTopicState_name := None;
  DeleteTopicState_topic_id := 0;
  DeleteTopicState_unknown_tagged_fields := ∅
|}.

(* @ src/crates/kafka-protocol/src/messages/delete_topics_request.rs 69-167 DeleteTopicState::encode, compute_size, decode *)
Definition DeleteTopicState_codec (version : Z) : Codec DeleteTopicState :=
  message 1 6 version (build mkDeleteTopicState
    ⊛ (if 6 <=? version then field DeleteTopicState_name NullableCompactString else unset
        DeleteTopicState_name is_none None)
    ⊛ (if 6 <=? version then field DeleteTopicState_topic_id Uuid else unset DeleteTopicState_topic_id
        (Z.eqb 0) 0)
    ⊛ unknown_tags (4 <=? version) DeleteTopicState_unknown_tagged_fields).

Definition DeleteTopicState_valid (version : Z) (x : DeleteTopicState) : Prop :=
  opt_all utf8 (DeleteTopicState_name x) ∧
  in_unsigned 128 (DeleteTopicState_topic_id x) ∧
  (if 4 <=? version then unknown_valid 0 (DeleteTopicState_unknown_tagged_fields x) else
      DeleteTopicState_unknown_tagged_fields x = ∅).

#[global] Instance DeleteTopicState_sound version : Sound (DeleteTopicState_codec version)
    (DeleteTopicState_valid version).
Proof. solve_message. Qed.

(* @ src/crates/kafka-protocol/src/messages/delete_topics_request.rs 184-205 DeleteTopicsRequest *)
Record DeleteTopicsRequest : Type := mkDeleteTopicsRequest {
  DeleteTopicsRequest_topics : list DeleteTopicState;
  DeleteTopicsRequest_topic_names : list (list byte);
  DeleteTopicsRequest_timeout_ms : Z;
  DeleteTopicsRequest_unknown_tagged_fields : TaggedFields
}.

(* @ src/crates/kafka-protocol/src/messages/delete_topics_request.rs 357-366 DeleteTopicsRequest::default *)
Definition DeleteTopicsRequest_default : DeleteTopicsRequest := {|
  DeleteTopicsRequest_topics := [];
  DeleteTopicsRequest_topic_names := [];
  DeleteTopicsRequest_timeout_ms := 0;
  DeleteTopicsRequest_unknown_tagged_fields := ∅
|}.

(* @ src/crates/kafka-protocol/src/messages/delete_topics_request.rs 247-355 DeleteTopicsRequest::encode, compute_size, decode *)
Definition DeleteTopicsRequest_codec (version : Z) : Codec DeleteTopicsRequest :=
  message 1 6 version (build mkDeleteTopicsRequest
    ⊛ (if 6 <=? version then field DeleteTopicsRequest_topics (CompactArray (Struct DeleteTopicState_codec
        version)) else unset DeleteTopicsRequest_topics is_empty [])
    ⊛ (if version <=? 5 then field DeleteTopicsRequest_topic_names (if 4 <=? version then CompactArray
        CompactString else Array KafkaString) else ignored [])
    ⊛ (field DeleteTopicsRequest_timeout_ms Int32)
    ⊛ unknown_tags (4 <=? version) DeleteTopicsRequest_unknown_tagged_fields).

Definition DeleteTopicsRequest_valid (version : Z) (x : DeleteTopicsRequest) : Prop :=
  Forall (DeleteTopicState_valid version) (DeleteTopicsRequest_topics x) ∧
  (if version <=? 5 then Forall utf8 (DeleteTopicsRequest_topic_names x) else
      DeleteTopicsRequest_topic_names x = []) ∧
  in_signed 32 (DeleteTopicsRequest_timeout_ms x) ∧
  (if 4 <=? version then unknown_valid 0 (DeleteTopicsRequest_unknown_tagged_fields x) else
      DeleteTopicsRequest_unknown_tagged_fields x = ∅).

#[global] Instance DeleteTopicsRequest_sound version : Sound (DeleteTopicsRequest_codec version)
    (DeleteTopicsRequest_valid version).
Proof. solve_message. Qed.

(* @ src/crates/kafka-protocol/src/messages/delete_topics_request.rs 373-381 DeleteTopicsRequest::header_version *)
Definition DeleteTopicsRequest_header_version (version : Z) : Z := if 4 <=? version then 2 else 1.

(* @ src/crates/kafka-protocol/src/messages/delete_topics_request.rs 368-371 DeleteTopicsRequest::VERSIONS *)
Definition DeleteTopicsRequest_VERSIONS : Z * Z := (1, 6).

(** ** [delete_topics_response] *)

(* @ src/crates/kafka-protocol/src/messages/delete_topics_response.rs 20-46 DeletableTopicResult *)
Record DeletableTopicResult : Type := mkDeletableTopicResult {
  DeletableTopicResult_name : option (list byte);
  DeletableTopicResult_topic_id : Z;
  DeletableTopicResult_error_code : Z;
  DeletableTopicResult_error_message : option (list byte);
  DeletableTopicResult_unknown_tagged_fields : TaggedFields
}.

(* @ src/crates/kafka-protocol/src/messages/delete_topics_response.rs 201-211 DeletableTopicResult::default *)
Definition DeletableTopicResult_default : DeletableTopicResult := {|
  DeletableTopicResult_name := Some [];
  DeletableTopicResult_topic_id := 0;
  DeletableTopicResult_error_code := 0;
  DeletableTopicResult_error_message := None;
  DeletableTopicResult_unknown_tagged_fields := ∅
|}.

(* @ src/crates/kafka-protocol/src/messages/delete_topics_response.rs 97-199 DeletableTopicResult::encode, compute_size, decode *)
Definition DeletableTopicResult_codec (version : Z) : Codec DeletableTopicResult :=
  message 1 6 version (build mkDeletableTopicResult
    ⊛ (field DeletableTopicResult_name (if 4 <=? version then NullableCompactString else NullableString))
    ⊛ (if 6 <=? version then field DeletableTopicResult_topic_id Uuid else ignored 0)
    ⊛ (field DeletableTopicResult_error_code Int16)
    ⊛ (if 5 <=? version then field DeletableTopicResult_error_message NullableCompactString else ignored
        None)
    ⊛ unknown_tags (4 <=? version) DeletableTopicResult_unknown_tagged_fields).

Definition DeletableTopicResult_valid (version : Z) (x : DeletableTopicResult) : Prop :=
  opt_all utf8 (DeletableTopicResult_name x) ∧
  (if 6 <=? version then in_unsigned 128 (DeletableTopicResult_topic_id x) else
      DeletableTopicResult_topic_id x = 0) ∧
  in_signed 16 (DeletableTopicResult_error_code x) ∧
  (if 5 <=? version then opt_all utf8 (DeletableTopicResult_error_message x) else
      DeletableTopicResult_error_message x = None) ∧
  (if 4 <=? version then unknown_valid 0 (DeletableTopicResult_unknown_tagged_fields x) else
      DeletableTopicResult_unknown_tagged_fields x = ∅).

#[global] Instance DeletableTopicResult_sound version : Sound (DeletableTopicResult_codec version)
    (DeletableTopicResult_valid version).
Proof. solve_message. Qed.

(* @ src/crates/kafka-protocol/src/messages/delete_topics_response.rs 218-234 DeleteTopicsResponse *)
Record DeleteTopicsResponse : Type := mkDeleteTopicsResponse {
  DeleteTopicsResponse_throttle_time_ms : Z;
  DeleteTopicsResponse_responses : list DeletableTopicResult;
  DeleteTopicsResponse_unknown_tagged_fields : TaggedFields
}.

(* @ src/crates/kafka-protocol/src/messages/delete_topics_response.rs 348-356 DeleteTopicsResponse::default *)
Definition DeleteTopicsResponse_default : DeleteTopicsResponse := {|
  DeleteTopicsResponse_throttle_time_ms := 0;
  DeleteTopicsResponse_responses := [];
  DeleteTopicsResponse_unknown_tagged_fields := ∅
|}.

(* @ src/crates/kafka-protocol/src/messages/delete_topics_response.rs 267-346 DeleteTopicsResponse::encode, compute_size, decode *)
Definition DeleteTopicsResponse_codec (version : Z) : Codec DeleteTopicsResponse :=
  message 1 6 version (build mkDeleteTopicsResponse
    ⊛ (field DeleteTopicsResponse_throttle_time_ms Int32)
    ⊛ (field DeleteTopicsResponse_responses (if 4 <=? version then CompactArray (Struct
        DeletableTopicResult_codec version) else Array (Struct DeletableTopicResult_codec version)))
    ⊛ unknown_tags (4 <=? version) DeleteTopicsResponse_unknown_tagged_fields).

Definition DeleteTopicsResponse_valid (version : Z) (x : DeleteTopicsResponse) : Prop :=
  in_signed 32 (DeleteTopicsResponse_throttle_time_ms x) ∧
  Forall (DeletableTopicResult_valid version) (DeleteTopicsResponse_responses x) ∧
  (if 4 <=? version then unknown_valid 0 (DeleteTopicsResponse_unknown_tagged_fields x) else
      DeleteTopicsResponse_unknown_tagged_fields x = ∅).

#[global] Instance DeleteTopicsResponse_sound version : Sound (DeleteTopicsResponse_codec version)
    (DeleteTopicsResponse_valid version).
Proof. solve_message. Qed.

(* @ src/crates/kafka-protocol/src/messages/delete_topics_response.rs 363-371 DeleteTopicsResponse::header_version *)
Definition DeleteTopicsResponse_header_version (version : Z) : Z := if 4 <=? version then 1 else 0.

(* @ src/crates/kafka-protocol/src/messages/delete_topics_response.rs 358-361 DeleteTopicsResponse::VERSIONS *)
Definition DeleteTopicsResponse_VERSIONS : Z * Z := (1, 6).

(** ** [describe_client_quotas_request] *)

(* @ src/crates/kafka-protocol/src/messages/describe_client_quotas_request.rs 20-41 ComponentData *)
Record ComponentData : Type := mkComponentData {
  ComponentData_entity_type : list byte;
  ComponentData_match_type : Z;
  ComponentData__match : option (list byte);
  ComponentData_unknown_tagged_fields : TaggedFields
}.

(* @ src/crates/kafka-protocol/src/messages/describe_client_quotas_request.rs 179-188 ComponentData::default *)
Definition ComponentData_default : ComponentData := {|
  ComponentData_entity_type := [];
  ComponentData_match_type := 0;
  ComponentData__match := Some [];
  ComponentData_unknown_tagged_fields := ∅
|}.

(* @ src/crates/kafka-protocol/src/messages/describe_client_quotas_request.rs 83-177 ComponentData::encode, compute_size, decode *)
Definition ComponentData_codec (version : Z) : Codec ComponentData :=
  message 0 1 version (build mkComponentData
    ⊛ (field ComponentData_entity_type (if 1 <=? version then CompactString else KafkaString))
    ⊛ (field ComponentData_match_type Int8)
    ⊛ (field ComponentData__match (if 1 <=? version then NullableCompactString else NullableString))
    ⊛ unknown_tags (1 <=? version) ComponentData_unknown_tagged_fields).

Definition ComponentData_valid (version : Z) (x : ComponentData) : Prop :=
  utf8 (ComponentData_entity_type x) ∧
  in_signed 8 (ComponentData_match_type x) ∧
  opt_all utf8 (ComponentData__match x) ∧
  (if 1 <=? version then unknown_valid 0 (ComponentData_unknown_tagged_fields x) else
      ComponentData_unknown_tagged_fields x = ∅).

#[global] Instance ComponentData_sound version : Sound (ComponentData_codec version) (ComponentData_valid
    version).
Proof. solve_message. Qed.

(* @ src/crates/kafka-protocol/src/messages/describe_client_quotas_request.rs 195-211 DescribeClientQuotasRequest *)
Record DescribeClientQuotasRequest : Type := mkDescribeClientQuotasRequest {
  DescribeClientQuotasRequest_components : list ComponentData;
  DescribeClientQuotasRequest_strict : bool;
  DescribeClientQuotasRequest_unknown_tagged_fields : TaggedFields
}.

(* @ src/crates/kafka-protocol/src/messages/describe_client_quotas_request.rs 325-333 DescribeClientQuotasRequest::default *)
Definition DescribeClientQuotasRequest_default : DescribeClientQuotasRequest := {|
  DescribeClientQuotasRequest_components := [];
  DescribeClientQuotasRequest_strict := false;
  DescribeClientQuotasRequest_unknown_tagged_fields := ∅
|}.

(* @ src/crates/kafka-protocol/src/messages/describe_client_quotas_request.rs 244-323 DescribeClientQuotasRequest::encode, compute_size, decode *)
Definition DescribeClientQuotasRequest_codec (version : Z) : Codec DescribeClientQuotasRequest :=
  message 0 1 version (build mkDescribeClientQuotasRequest
    ⊛ (field DescribeClientQuotasRequest_components (if 1 <=? version then CompactArray (Struct
        ComponentData_codec version) else Array (Struct ComponentData_codec version)))
    ⊛ (field DescribeClientQuotasRequest_strict Boolean)
    ⊛ unknown_tags (1 <=? version) DescribeClientQuotasRequest_unknown_tagged_fields).

Definition DescribeClientQuotasRequest_valid (version : Z) (x : DescribeClientQuotasRequest) : Prop :=
  Forall (ComponentData_valid version) (DescribeClientQuotasRequest_components x) ∧
  (if 1 <=? version then unknown_valid 0 (DescribeClientQuotasRequest_unknown_tagged_fields x) else
      DescribeClientQuotasRequest_unknown_tagged_fields x = ∅).

#[global] Instance DescribeClientQuotasRequest_sound version : Sound (DescribeClientQuotasRequest_codec
    version) (DescribeClientQuotasRequest_valid version).
Proof. solve_message. Qed.

(* @ src/crates/kafka-protocol/src/messages/describe_client_quotas_request.rs 340-348 DescribeClientQuotasRequest::header_version *)
Definition DescribeClientQuotasRequest_header_version (version : Z) : Z := if 1 <=? version then 2 else 1.

(* @ src/crates/kafka-protocol/src/messages/describe_client_quotas_request.rs 335-338 DescribeClientQuotasRequest::VERSIONS *)
Definition DescribeClientQuotasRequest_VERSIONS : Z * Z := (0, 1).

(** ** [describe_client_quotas_response] *)

(* @ src/crates/kafka-protocol/src/messages/describe_client_quotas_response.rs 215-231 EntityData *)
Record DescribeClientQuotasResponse_EntityData : Type := mkDescribeClientQuotasResponse_EntityData {
  DescribeClientQuotasResponse_EntityData_entity_type : list byte;
  DescribeClientQuotasResponse_EntityData_entity_name : option (list byte);
  DescribeClientQuotasResponse_EntityData_unknown_tagged_fields : TaggedFields
}.

(* @ src/crates/kafka-protocol/src/messages/describe_client_quotas_response.rs 356-364 EntityData::default *)
Definition DescribeClientQuotasResponse_EntityData_default : DescribeClientQuotasResponse_EntityData := {|
  DescribeClientQuotasResponse_EntityData_entity_type := [];
  DescribeClientQuotasResponse_EntityData_entity_name := Some [];
  DescribeClientQuotasResponse_EntityData_unknown_tagged_fields := ∅
|}.

(* @ src/crates/kafka-protocol/src/messages/describe_client_quotas_response.rs 264-354 EntityData::encode, compute_size, decode *)
Definition DescribeClientQuotasResponse_EntityData_codec (version : Z) : Codec
    DescribeClientQuotasResponse_EntityData :=
  message 0 1 version (build mkDescribeClientQuotasResponse_EntityData
    ⊛ (field DescribeClientQuotasResponse_EntityData_entity_type (if 1 <=? version then CompactString else
        KafkaString))
    ⊛ (field DescribeClientQuotasResponse_EntityData_entity_name (if 1 <=? version then
        NullableCompactString else NullableString))
    ⊛ unknown_tags (1 <=? version) DescribeClientQuotasResponse_EntityData_unknown_tagged_fields).

Definition DescribeClientQuotasResponse_EntityData_valid (version : Z) (x :
    DescribeClientQuotasResponse_EntityData) : Prop :=
  utf8 (DescribeClientQuotasResponse_EntityData_entity_type x) ∧
  opt_all utf8 (DescribeClientQuotasResponse_EntityData_entity_name x) ∧
  (if 1 <=? version then unknown_valid 0 (DescribeClientQuotasResponse_EntityData_unknown_tagged_fields x)
      else DescribeClientQuotasResponse_EntityData_unknown_tagged_fields x = ∅).

#[global] Instance DescribeClientQuotasResponse_EntityData_sound version : Sound
    (DescribeClientQuotasResponse_EntityData_codec version) (DescribeClientQuotasResponse_EntityData_valid
    version).
Proof. solve_message. Qed.

(* @ src/crates/kafka-protocol/src/messages/describe_client_quotas_response.rs 529-545 ValueData *)
Record ValueData : Type := mkValueData {
  ValueData_key : list byte;
  ValueData_value : Z;
  ValueData_unknown_tagged_fields : TaggedFields
}.

(* @ src/crates/kafka-protocol/src/messages/describe_client_quotas_response.rs 658-666 ValueData::default *)
Definition ValueData_default : ValueData := {|
  ValueData_key := [];
  ValueData_value := 0;
  ValueData_unknown_tagged_fields := ∅
|}.

(* @ src/crates/kafka-protocol/src/messages/describe_client_quotas_response.rs 578-656 ValueData::encode, compute_size, decode *)
Definition ValueData_codec (version : Z) : Codec ValueData :=
  message 0 1 version (build mkValueData
    ⊛ (field ValueData_key (if 1 <=? version then CompactString else KafkaString))
    ⊛ (field ValueData_value Float64)
    ⊛ unknown_tags (1 <=? version) ValueData_unknown_tagged_fields).

Definition ValueData_valid (version : Z) (x : ValueData) : Prop :=
  utf8 (ValueData_key x) ∧
  in_unsigned 64 (ValueData_value x) ∧
  (if 1 <=? version then unknown_valid 0 (ValueData_unknown_tagged_fields x) else
      ValueData_unknown_tagged_fields x = ∅).

#[global] Instance ValueData_sound version : Sound (ValueData_codec version) (ValueData_valid version).
Proof. solve_message. Qed.

(* @ src/crates/kafka-protocol/src/messages/describe_client_quotas_response.rs 371-387 EntryData *)
Record DescribeClientQuotasResponse_EntryData : Type := mkDescribeClientQuotasResponse_EntryData {
  DescribeClientQuotasResponse_EntryData_entity : list DescribeClientQuotasResponse_EntityData;
  DescribeClientQuotasResponse_EntryData_values : list ValueData;
  DescribeClientQuotasResponse_EntryData_unknown_tagged_fields : TaggedFields
}.

(* @ src/crates/kafka-protocol/src/messages/describe_client_quotas_response.rs 514-522 EntryData::default *)
Definition DescribeClientQuotasResponse_EntryData_default : DescribeClientQuotasResponse_EntryData := {|
  DescribeClientQuotasResponse_EntryData_entity := [];
  DescribeClientQuotasResponse_EntryData_values := [];
  DescribeClientQuotasResponse_EntryData_unknown_tagged_fields := ∅
|}.

(* @ src/crates/kafka-protocol/src/messages/describe_client_quotas_response.rs 420-512 EntryData::encode, compute_size, decode *)
Definition DescribeClientQuotasResponse_EntryData_codec (version : Z) : Codec
    DescribeClientQuotasResponse_EntryData :=
  message 0 1 version (build mkDescribeClientQuotasResponse_EntryData
    ⊛ (field DescribeClientQuotasResponse_EntryData_entity (if 1 <=? version then CompactArray (Struct
        DescribeClientQuotasResponse_EntityData_codec version) else Array (Struct
        DescribeClientQuotasResponse_EntityData_codec version)))
    ⊛ (field DescribeClientQuotasResponse_EntryData_values (if 1 <=? version then CompactArray (Struct
        ValueData_codec version) else Array (Struct ValueData_codec version)))
    ⊛ unknown_tags (1 <=? version) DescribeClientQuotasResponse_EntryData_unknown_tagged_fields).

Definition DescribeClientQuotasResponse_EntryData_valid (version : Z) (x :
    DescribeClientQuotasResponse_EntryData) : Prop :=
  Forall (DescribeClientQuotasResponse_EntityData_valid version)
      (DescribeClientQuotasResponse_EntryData_entity x) ∧
  Forall (ValueData_valid version) (DescribeClientQuotasResponse_EntryData_values x) ∧
  (if 1 <=? version then unknown_valid 0 (DescribeClientQuotasResponse_EntryData_unknown_tagged_fields x)
      else DescribeClientQuotasResponse_EntryData_unknown_tagged_fields x = ∅).

#[global] Instance DescribeClientQuotasResponse_EntryData_sound version : Sound
    (DescribeClientQuotasResponse_EntryData_codec version) (DescribeClientQuotasResponse_EntryData_valid
    version).
Proof. solve_message. Qed.

(* @ src/crates/kafka-protocol/src/messages/describe_client_quotas_response.rs 20-46 DescribeClientQuotasResponse *)
Record DescribeClientQuotasResponse : Type := mkDescribeClientQuotasResponse {
  DescribeClientQuotasResponse_throttle_time_ms : Z;
  DescribeClientQuotasResponse_error_code : Z;
  DescribeClientQuotasResponse_error_message : option (list byte);
  DescribeClientQuotasResponse_entries : option (list DescribeClientQuotasResponse_EntryData);
  DescribeClientQuotasResponse_unknown_tagged_fields : TaggedFields
}.

(* @ src/crates/kafka-protocol/src/messages/describe_client_quotas_response.rs 198-208 DescribeClientQuotasResponse::default *)
Definition DescribeClientQuotasResponse_default : DescribeClientQuotasResponse := {|
  DescribeClientQuotasResponse_throttle_time_ms := 0;
  DescribeClientQuotasResponse_error_code := 0;
  DescribeClientQuotasResponse_error_message := Some [];
  DescribeClientQuotasResponse_entries := Some [];
  DescribeClientQuotasResponse_unknown_tagged_fields := ∅
|}.

(* @ src/crates/kafka-protocol/src/messages/describe_client_quotas_response.rs 97-196 DescribeClientQuotasResponse::encode, compute_size, decode *)
Definition DescribeClientQuotasResponse_codec (version : Z) : Codec DescribeClientQuotasResponse :=
  message 0 1 version (build mkDescribeClientQuotasResponse
    ⊛ (field DescribeClientQuotasResponse_throttle_time_ms Int32)
    ⊛ (field DescribeClientQuotasResponse_error_code Int16)
    ⊛ (field DescribeClientQuotasResponse_error_message (if 1 <=? version then NullableCompactString else
        NullableString))
    ⊛ (field DescribeClientQuotasResponse_entries (if 1 <=? version then NullableCompactArray (Struct
        DescribeClientQuotasResponse_EntryData_codec version) else NullableArray (Struct
        DescribeClientQuotasResponse_EntryData_codec version)))
    ⊛ unknown_tags (1 <=? version) DescribeClientQuotasResponse_unknown_tagged_fields).

Definition DescribeClientQuotasResponse_valid (version : Z) (x : DescribeClientQuotasResponse) : Prop :=
  in_signed 32 (DescribeClientQuotasResponse_throttle_time_ms x) ∧
  in_signed 16 (DescribeClientQuotasResponse_error_code x) ∧
  opt_all utf8 (DescribeClientQuotasResponse_error_message x) ∧
  opt_all (Forall (DescribeClientQuotasResponse_EntryData_valid version))
      (DescribeClientQuotasResponse_entries x) ∧
  (if 1 <=? version then unknown_valid 0 (DescribeClientQuotasResponse_unknown_tagged_fields x) else
      DescribeClientQuotasResponse_unknown_tagged_fields x = ∅).

#[global] Instance DescribeClientQuotasResponse_sound version : Sound (DescribeClientQuotasResponse_codec
    version) (DescribeClientQuotasResponse_valid version).
Proof. solve_message. Qed.

(* @ src/crates/kafka-protocol/src/messages/describe_client_quotas_response.rs 673-681 DescribeClientQuotasResponse::header_version *)
Definition DescribeClientQuotasResponse_header_version (version : Z) : Z := if 1 <=? version then 1 else 0.

(* @ src/crates/kafka-protocol/src/messages/describe_client_quotas_response.rs 210-213 DescribeClientQuotasResponse::VERSIONS *)
Definition DescribeClientQuotasResponse_VERSIONS : Z * Z := (0, 1).

(** ** [describe_log_dirs_request] *)

(* @ src/crates/kafka-protocol/src/messages/describe_log_dirs_request.rs 20-36 DescribableLogDirTopic *)
Record DescribableLogDirTopic : Type := mkDescribableLogDirTopic {
  DescribableLogDirTopic_topic : list byte;
  DescribableLogDirTopic_partitions : list Z;
  DescribableLogDirTopic_unknown_tagged_fields : TaggedFields
}.

(* @ src/crates/kafka-protocol/src/messages/describe_log_dirs_request.rs 161-169 DescribableLogDirTopic::default *)
Definition DescribableLogDirTopic_default : DescribableLogDirTopic := {|
  DescribableLogDirTopic_topic := [];
  DescribableLogDirTopic_partitions := [];
  DescribableLogDirTopic_unknown_tagged_fields := ∅
|}.

(* @ src/crates/kafka-protocol/src/messages/describe_log_dirs_request.rs 69-159 DescribableLogDirTopic::encode, compute_size, decode *)
Definition DescribableLogDirTopic_codec (version : Z) : Codec DescribableLogDirTopic :=
  message 1 5 version (build mkDescribableLogDirTopic
    ⊛ (field DescribableLogDirTopic_topic (if 2 <=? version then CompactString else KafkaString))
    ⊛ (field DescribableLogDirTopic_partitions (if 2 <=? version then CompactArray Int32 else Array Int32))
    ⊛ unknown_tags (2 <=? version) DescribableLogDirTopic_unknown_tagged_fields).

Definition DescribableLogDirTopic_valid (version : Z) (x : DescribableLogDirTopic) : Prop :=
  utf8 (DescribableLogDirTopic_topic x) ∧
  Forall (in_signed 32) (DescribableLogDirTopic_partitions x) ∧
  (if 2 <=? version then unknown_valid 0 (DescribableLogDirTopic_unknown_tagged_fields x) else
      DescribableLogDirTopic_unknown_tagged_fields x = ∅).

#[global] Instance DescribableLogDirTopic_sound version : Sound (DescribableLogDirTopic_codec version)
    (DescribableLogDirTopic_valid version).
Proof. solve_message. Qed.

(* @ src/crates/kafka-protocol/src/messages/describe_log_dirs_request.rs 176-187 DescribeLogDirsRequest *)
Record DescribeLogDirsRequest : Type := mkDescribeLogDirsRequest {
  DescribeLogDirsRequest_topics : option (list DescribableLogDirTopic);
  DescribeLogDirsRequest_unknown_tagged_fields : TaggedFields
}.

(* @ src/crates/kafka-protocol/src/messages/describe_log_dirs_request.rs 288-295 DescribeLogDirsRequest::default *)
Definition DescribeLogDirsRequest_default : DescribeLogDirsRequest := {|
  DescribeLogDirsRequest_topics := Some [];
  DescribeLogDirsRequest_unknown_tagged_fields := ∅
|}.

(* @ src/crates/kafka-protocol/src/messages/describe_log_dirs_request.rs 211-286 DescribeLogDirsRequest::encode, compute_size, decode *)
Definition DescribeLogDirsRequest_codec (version : Z) : Codec DescribeLogDirsRequest :=
  message 1 5 version (build mkDescribeLogDirsRequest
    ⊛ (field DescribeLogDirsRequest_topics (if 2 <=? version then NullableCompactArray (Struct
        DescribableLogDirTopic_codec version) else NullableArray (Struct DescribableLogDirTopic_codec
        version)))
    ⊛ unknown_tags (2 <=? version) DescribeLogDirsRequest_unknown_tagged_fields).

Definition DescribeLogDirsRequest_valid (version : Z) (x : DescribeLogDirsRequest) : Prop :=
  opt_all (Forall (DescribableLogDirTopic_valid version)) (DescribeLogDirsRequest_topics x) ∧
  (if 2 <=? version then unknown_valid 0 (DescribeLogDirsRequest_unknown_tagged_fields x) else
      DescribeLogDirsRequest_unknown_tagged_fields x = ∅).

#[global] Instance DescribeLogDirsRequest_sound version : Sound (DescribeLogDirsRequest_codec version)
    (DescribeLogDirsRequest_valid version).
Proof. solve_message. Qed.

(* @ src/crates/kafka-protocol/src/messages/describe_log_dirs_request.rs 302-310 DescribeLogDirsRequest::header_version *)
Definition DescribeLogDirsRequest_header_version (version : Z) : Z := if 2 <=? version then 2 else 1.

(* @ src/crates/kafka-protocol/src/messages/describe_log_dirs_request.rs 297-300 DescribeLogDirsRequest::VERSIONS *)
Definition DescribeLogDirsRequest_VERSIONS : Z * Z := (1, 5).

(** ** [describe_log_dirs_response] *)

(* @ src/crates/kafka-protocol/src/messages/describe_log_dirs_response.rs 20-46 DescribeLogDirsPartition *)
Record DescribeLogDirsPartition : Type := mkDescribeLogDirsPartition {
  DescribeLogDirsPartition_partition_index : Z;
  DescribeLogDirsPartition_partition_size : Z;
  DescribeLogDirsPartition_offset_lag : Z;
  DescribeLogDirsPartition_is_future_key : bool;
  DescribeLogDirsPartition_unknown_tagged_fields : TaggedFields
}.

(* @ src/crates/kafka-protocol/src/messages/describe_log_dirs_response.rs 173-183 DescribeLogDirsPartition::default *)
Definition DescribeLogDirsPartition_default : DescribeLogDirsPartition := {|
  DescribeLogDirsPartition_partition_index := 0;
  DescribeLogDirsPartition_partition_size := 0;
  DescribeLogDirsPartition_offset_lag := 0;
  DescribeLogDirsPartition_is_future_key := false;
  DescribeLogDirsPartition_unknown_tagged_fields := ∅
|}.

(* @ src/crates/kafka-protocol/src/messages/describe_log_dirs_response.rs 97-171 DescribeLogDirsPartition::encode, compute_size, decode *)
Definition DescribeLogDirsPartition_codec (version : Z) : Codec DescribeLogDirsPartition :=
  message 1 5 version (build mkDescribeLogDirsPartition
    ⊛ (field DescribeLogDirsPartition_partition_index Int32)
    ⊛ (field DescribeLogDirsPartition_partition_size Int64)
    ⊛ (field DescribeLogDirsPartition_offset_lag Int64)
    ⊛ (field DescribeLogDirsPartition_is_future_key Boolean)
    ⊛ unknown_tags (2 <=? version) DescribeLogDirsPartition_unknown_tagged_fields).

Definition DescribeLogDirsPartition_valid (version : Z) (x : DescribeLogDirsPartition) : Prop :=
  in_signed 32 (DescribeLogDirsPartition_partition_index x) ∧
  in_signed 64 (DescribeLogDirsPartition_partition_size x) ∧
  in_signed 64 (DescribeLogDirsPartition_offset_lag x) ∧
  (if 2 <=? version then unknown_valid 0 (DescribeLogDirsPartition_unknown_tagged_fields x) else
      DescribeLogDirsPartition_unknown_tagged_fields x = ∅).

#[global] Instance DescribeLogDirsPartition_sound version : Sound (DescribeLogDirsPartition_codec version)
    (DescribeLogDirsPartition_valid version).
Proof. solve_message. Qed.

(* @ src/crates/kafka-protocol/src/messages/describe_log_dirs_response.rs 619-635 DescribeLogDirsTopic *)
Record DescribeLogDirsTopic : Type := mkDescribeLogDirsTopic {
  DescribeLogDirsTopic_name : list byte;
  DescribeLogDirsTopic_partitions : list DescribeLogDirsPartition;
  DescribeLogDirsTopic_unknown_tagged_fields : TaggedFields
}.

(* @ src/crates/kafka-protocol/src/messages/describe_log_dirs_response.rs 761-769 DescribeLogDirsTopic::default *)
Definition DescribeLogDirsTopic_default : DescribeLogDirsTopic := {|
  DescribeLogDirsTopic_name := [];
  DescribeLogDirsTopic_partitions := [];
  DescribeLogDirsTopic_unknown_tagged_fields := ∅
|}.

(* @ src/crates/kafka-protocol/src/messages/describe_log_dirs_response.rs 668-759 DescribeLogDirsTopic::encode, compute_size, decode *)
Definition DescribeLogDirsTopic_codec (version : Z) : Codec DescribeLogDirsTopic :=
  message 1 5 version (build mkDescribeLogDirsTopic
    ⊛ (field DescribeLogDirsTopic_name (if 2 <=? version then CompactString else KafkaString))
    ⊛ (field DescribeLogDirsTopic_partitions (if 2 <=? version then CompactArray (Struct
        DescribeLogDirsPartition_codec version) else Array (Struct DescribeLogDirsPartition_codec version)))
    ⊛ unknown_tags (2 <=? version) DescribeLogDirsTopic_unknown_tagged_fields).

Definition DescribeLogDirsTopic_valid (version : Z) (x : DescribeLogDirsTopic) : Prop :=
  utf8 (DescribeLogDirsTopic_name x) ∧
  Forall (DescribeLogDirsPartition_valid version) (DescribeLogDirsTopic_partitions x) ∧
  (if 2 <=? version then unknown_valid 0 (DescribeLogDirsTopic_unknown_tagged_fields x) else
      DescribeLogDirsTopic_unknown_tagged_fields x = ∅).

#[global] Instance DescribeLogDirsTopic_sound version : Sound (DescribeLogDirsTopic_codec version)
    (DescribeLogDirsTopic_valid version).
Proof. solve_message. Qed.

(* @ src/crates/kafka-protocol/src/messages/describe_log_dirs_response.rs 362-398 DescribeLogDirsResult *)
Record DescribeLogDirsResult : Type := mkDescribeLogDirsResult {
  DescribeLogDirsResult_error_code : Z;
  DescribeLogDirsResult_log_dir : list byte;
  DescribeLogDirsResult_topics : list DescribeLogDirsTopic;
  DescribeLogDirsResult_total_bytes : Z;
  DescribeLogDirsResult_usable_bytes : Z;
  DescribeLogDirsResult_is_cordoned : bool;
  DescribeLogDirsResult_unknown_tagged_fields : TaggedFields
}.

(* @ src/crates/kafka-protocol/src/messages/describe_log_dirs_response.rs 600-612 DescribeLogDirsResult::default *)
Definition DescribeLogDirsResult_default : DescribeLogDirsResult := {|
  DescribeLogDirsResult_error_code := 0;
  DescribeLogDirsResult_log_dir := [];
  DescribeLogDirsResult_topics := [];
  DescribeLogDirsResult_total_bytes := -1;
  DescribeLogDirsResult_usable_bytes := -1;
  DescribeLogDirsResult_is_cordoned := false;
  DescribeLogDirsResult_unknown_tagged_fields := ∅
|}.

(* @ src/crates/kafka-protocol/src/messages/describe_log_dirs_response.rs 467-598 DescribeLogDirsResult::encode, compute_size, decode *)
Definition DescribeLogDirsResult_codec (version : Z) : Codec DescribeLogDirsResult :=
  message 1 5 version (build mkDescribeLogDirsResult
    ⊛ (field DescribeLogDirsResult_error_code Int16)
    ⊛ (field DescribeLogDirsResult_log_dir (if 2 <=? version then CompactString else KafkaString))
    ⊛ (field DescribeLogDirsResult_topics (if 2 <=? version then CompactArray (Struct
        DescribeLogDirsTopic_codec version) else Array (Struct DescribeLogDirsTopic_codec version)))
    ⊛ (if 4 <=? version then field DescribeLogDirsResult_total_bytes Int64 else ignored (-1))
    ⊛ (if 4 <=? version then field DescribeLogDirsResult_usable_bytes Int64 else ignored (-1))
    ⊛ (if 5 <=? version then field DescribeLogDirsResult_is_cordoned Boolean else ignored false)
    ⊛ unknown_tags (2 <=? version) DescribeLogDirsResult_unknown_tagged_fields).

Definition DescribeLogDirsResult_valid (version : Z) (x : DescribeLogDirsResult) : Prop :=
  in_signed 16 (DescribeLogDirsResult_error_code x) ∧
  utf8 (DescribeLogDirsResult_log_dir x) ∧
  Forall (DescribeLogDirsTopic_valid version) (DescribeLogDirsResult_topics x) ∧
  (if 4 <=? version then in_signed 64 (DescribeLogDirsResult_total_bytes x) else
      DescribeLogDirsResult_total_bytes x = (-1)) ∧
  (if 4 <=? version then in_signed 64 (DescribeLogDirsResult_usable_bytes x) else
      DescribeLogDirsResult_usable_bytes x = (-1)) ∧
  (if 5 <=? version then True else DescribeLogDirsResult_is_cordoned x = false) ∧
  (if 2 <=? version then unknown_valid 0 (DescribeLogDirsResult_unknown_tagged_fields x) else
      DescribeLogDirsResult_unknown_tagged_fields x = ∅).

#[global] Instance DescribeLogDirsResult_sound version : Sound (DescribeLogDirsResult_codec version)
    (DescribeLogDirsResult_valid version).
Proof. solve_message. Qed.

(* @ src/crates/kafka-protocol/src/messages/describe_log_dirs_response.rs 190-211 DescribeLogDirsResponse *)
Record DescribeLogDirsResponse : Type := mkDescribeLogDirsResponse {
  DescribeLogDirsResponse_throttle_time_ms : Z;
  DescribeLogDirsResponse_error_code : Z;
  DescribeLogDirsResponse_results : list DescribeLogDirsResult;
  DescribeLogDirsResponse_unknown_tagged_fields : TaggedFields
}.

(* @ src/crates/kafka-protocol/src/messages/describe_log_dirs_response.rs 346-355 DescribeLogDirsResponse::default *)
Definition DescribeLogDirsResponse_default : DescribeLogDirsResponse := {|
  DescribeLogDirsResponse_throttle_time_ms := 0;
  DescribeLogDirsResponse_error_code := 0;
  DescribeLogDirsResponse_results := [];
  DescribeLogDirsResponse_unknown_tagged_fields := ∅
|}.

(* @ src/crates/kafka-protocol/src/messages/describe_log_dirs_response.rs 253-344 DescribeLogDirsResponse::encode, compute_size, decode *)
Definition DescribeLogDirsResponse_codec (version : Z) : Codec DescribeLogDirsResponse :=
  message 1 5 version (build mkDescribeLogDirsResponse
    ⊛ (field DescribeLogDirsResponse_throttle_time_ms Int32)
    ⊛ (if 3 <=? version then field DescribeLogDirsResponse_error_code Int16 else ignored 0)
    ⊛ (field DescribeLogDirsResponse_results (if 2 <=? version then CompactArray (Struct
        DescribeLogDirsResult_codec version) else Array (Struct DescribeLogDirsResult_codec version)))
    ⊛ unknown_tags (2 <=? version) DescribeLogDirsResponse_unknown_tagged_fields).

Definition DescribeLogDirsResponse_valid (version : Z) (x : DescribeLogDirsResponse) : Prop :=
  in_signed 32 (DescribeLogDirsResponse_throttle_time_ms x) ∧
  (if 3 <=? version then in_signed 16 (DescribeLogDirsResponse_error_code x) else
      DescribeLogDirsResponse_error_code x = 0) ∧
  Forall (DescribeLogDirsResult_valid version) (DescribeLogDirsResponse_results x) ∧
  (if 2 <=? version then unknown_valid 0 (DescribeLogDirsResponse_unknown_tagged_fields x) else
      DescribeLogDirsResponse_unknown_tagged_fields x = ∅).

#[global] Instance DescribeLogDirsResponse_sound version : Sound (DescribeLogDirsResponse_codec version)
    (DescribeLogDirsResponse_valid version).
Proof. solve_message. Qed.

(* @ src/crates/kafka-protocol/src/messages/describe_log_dirs_response.rs 776-784 DescribeLogDirsResponse::header_version *)
Definition DescribeLogDirsResponse_header_version (version : Z) : Z := if 2 <=? version then 1 else 0.

(* @ src/crates/kafka-protocol/src/messages/describe_log_dirs_response.rs 357-360 DescribeLogDirsResponse::VERSIONS *)
Definition DescribeLogDirsResponse_VERSIONS : Z * Z := (1, 5).

(** ** [elect_leaders_request] *)

(* @ src/crates/kafka-protocol/src/messages/elect_leaders_request.rs 201-217 TopicPartitions *)
Record ElectLeadersRequest_TopicPartitions : Type := mkElectLeadersRequest_TopicPartitions {
  ElectLeadersRequest_TopicPartitions_topic : list byte;
  ElectLeadersRequest_TopicPartitions_partitions : list Z;
  ElectLeadersRequest_TopicPartitions_unknown_tagged_fields : TaggedFields
}.

(* @ src/crates/kafka-protocol/src/messages/elect_leaders_request.rs 342-350 TopicPartitions::default *)
Definition ElectLeadersRequest_TopicPartitions_default : ElectLeadersRequest_TopicPartitions := {|
  ElectLeadersRequest_TopicPartitions_topic := [];
  ElectLeadersRequest_TopicPartitions_partitions := [];
  ElectLeadersRequest_TopicPartitions_unknown_tagged_fields := ∅
|}.

(* @ src/crates/kafka-protocol/src/messages/elect_leaders_request.rs 250-340 TopicPartitions::encode, compute_size, decode *)
Definition ElectLeadersRequest_TopicPartitions_codec (version : Z) : Codec
    ElectLeadersRequest_TopicPartitions :=
  message 0 2 version (build mkElectLeadersRequest_TopicPartitions
    ⊛ (field ElectLeadersRequest_TopicPartitions_topic (if 2 <=? version then CompactString else
        KafkaString))
    ⊛ (field ElectLeadersRequest_TopicPartitions_partitions (if 2 <=? version then CompactArray Int32 else
        Array Int32))
    ⊛ unknown_tags (2 <=? version) ElectLeadersRequest_TopicPartitions_unknown_tagged_fields).

Definition ElectLeadersRequest_TopicPartitions_valid (version : Z) (x :
    ElectLeadersRequest_TopicPartitions) : Prop :=
  utf8 (ElectLeadersRequest_TopicPartitions_topic x) ∧
  Forall (in_signed 32) (ElectLeadersRequest_TopicPartitions_partitions x) ∧
  (if 2 <=? version then unknown_valid 0 (ElectLeadersRequest_TopicPartitions_unknown_tagged_fields x) else
      ElectLeadersRequest_TopicPartitions_unknown_tagged_fields x = ∅).

#[global] Instance ElectLeadersRequest_TopicPartitions_sound version : Sound
    (ElectLeadersRequest_TopicPartitions_codec version) (ElectLeadersRequest_TopicPartitions_valid version).
Proof. solve_message. Qed.

(* @ src/crates/kafka-protocol/src/messages/elect_leaders_request.rs 20-41 ElectLeadersRequest *)
Record ElectLeadersRequest : Type := mkElectLeadersRequest {
  ElectLeadersRequest_election_type : Z;
  ElectLeadersRequest_topic_partitions : option (list ElectLeadersRequest_TopicPartitions);
  ElectLeadersRequest_timeout_ms : Z;
  ElectLeadersRequest_unknown_tagged_fields : TaggedFields
}.

(* @ src/crates/kafka-protocol/src/messages/elect_leaders_request.rs 185-194 ElectLeadersRequest::default *)
Definition ElectLeadersRequest_default : ElectLeadersRequest := {|
  ElectLeadersRequest_election_type := 0;
  ElectLeadersRequest_topic_partitions := Some [];
  ElectLeadersRequest_timeout_ms := 60000;
  ElectLeadersRequest_unknown_tagged_fields := ∅
|}.

(* @ src/crates/kafka-protocol/src/messages/elect_leaders_request.rs 83-183 ElectLeadersRequest::encode, compute_size, decode *)
Definition ElectLeadersRequest_codec (version : Z) : Codec ElectLeadersRequest :=
  message 0 2 version (build mkElectLeadersRequest
    ⊛ (if 1 <=? version then field ElectLeadersRequest_election_type Int8 else unset
        ElectLeadersRequest_election_type (Z.eqb 0) 0)
    ⊛ (field ElectLeadersRequest_topic_partitions (if 2 <=? version then NullableCompactArray (Struct
        ElectLeadersRequest_TopicPartitions_codec version) else NullableArray (Struct
        ElectLeadersRequest_TopicPartitions_codec version)))
    ⊛ (field ElectLeadersRequest_timeout_ms Int32)
    ⊛ unknown_tags (2 <=? version) ElectLeadersRequest_unknown_tagged_fields).

Definition ElectLeadersRequest_valid (version : Z) (x : ElectLeadersRequest) : Prop :=
  in_signed 8 (ElectLeadersRequest_election_type x) ∧
  opt_all (Forall (ElectLeadersRequest_TopicPartitions_valid version))
      (ElectLeadersRequest_topic_partitions x) ∧
  in_signed 32 (ElectLeadersRequest_timeout_ms x) ∧
  (if 2 <=? version then unknown_valid 0 (ElectLeadersRequest_unknown_tagged_fields x) else
      ElectLeadersRequest_unknown_tagged_fields x = ∅).

#[global] Instance ElectLeadersRequest_sound version : Sound (ElectLeadersRequest_codec version)
    (ElectLeadersRequest_valid version).
Proof. solve_message. Qed.

(* @ src/crates/kafka-protocol/src/messages/elect_leaders_request.rs 357-365 ElectLeadersRequest::header_version *)
Definition ElectLeadersRequest_header_version (version : Z) : Z := if 2 <=? version then 2 else 1.

(* @ src/crates/kafka-protocol/src/messages/elect_leaders_request.rs 196-199 ElectLeadersRequest::VERSIONS *)
Definition ElectLeadersRequest_VERSIONS : Z * Z := (0, 2).

(** ** [elect_leaders_response] *)

(* @ src/crates/kafka-protocol/src/messages/elect_leaders_response.rs 202-223 PartitionResult *)
Record ElectLeadersResponse_PartitionResult : Type := mkElectLeadersResponse_PartitionResult {
  ElectLeadersResponse_PartitionResult_partition_id : Z;
  ElectLeadersResponse_PartitionResult_error_code : Z;
  ElectLeadersResponse_PartitionResult_error_message : option (list byte);
  ElectLeadersResponse_PartitionResult_unknown_tagged_fields : TaggedFields
}.

(* @ src/crates/kafka-protocol/src/messages/elect_leaders_response.rs 349-358 PartitionResult::default *)
Definition ElectLeadersResponse_PartitionResult_default : ElectLeadersResponse_PartitionResult := {|
  ElectLeadersResponse_PartitionResult_partition_id := 0;
  ElectLeadersResponse_PartitionResult_error_code := 0;
  ElectLeadersResponse_PartitionResult_error_message := Some [];
  ElectLeadersResponse_PartitionResult_unknown_tagged_fields := ∅
|}.

(* @ src/crates/kafka-protocol/src/messages/elect_leaders_response.rs 265-347 PartitionResult::encode, compute_size, decode *)
Definition ElectLeadersResponse_PartitionResult_codec (version : Z) : Codec
    ElectLeadersResponse_PartitionResult :=
  message 0 2 version (build mkElectLeadersResponse_PartitionResult
    ⊛ (field ElectLeadersResponse_PartitionResult_partition_id Int32)
    ⊛ (field ElectLeadersResponse_PartitionResult_error_code Int16)
    ⊛ (field ElectLeadersResponse_PartitionResult_error_message (if 2 <=? version then
        NullableCompactString else NullableString))
    ⊛ unknown_tags (2 <=? version) ElectLeadersResponse_PartitionResult_unknown_tagged_fields).

Definition ElectLeadersResponse_PartitionResult_valid (version : Z) (x :
    ElectLeadersResponse_PartitionResult) : Prop :=
  in_signed 32 (ElectLeadersResponse_PartitionResult_partition_id x) ∧
  in_signed 16 (ElectLeadersResponse_PartitionResult_error_code x) ∧
  opt_all utf8 (ElectLeadersResponse_PartitionResult_error_message x) ∧
  (if 2 <=? version then unknown_valid 0 (ElectLeadersResponse_PartitionResult_unknown_tagged_fields x)
      else ElectLeadersResponse_PartitionResult_unknown_tagged_fields x = ∅).

#[global] Instance ElectLeadersResponse_PartitionResult_sound version : Sound
    (ElectLeadersResponse_PartitionResult_codec version) (ElectLeadersResponse_PartitionResult_valid
    version).
Proof. solve_message. Qed.

(* @ src/crates/kafka-protocol/src/messages/elect_leaders_response.rs 365-381 ReplicaElectionResult *)
Record ReplicaElectionResult : Type := mkReplicaElectionResult {
  ReplicaElectionResult_topic : list byte;
  ReplicaElectionResult_partition_result : list ElectLeadersResponse_PartitionResult;
  ReplicaElectionResult_unknown_tagged_fields : TaggedFields
}.

(* @ src/crates/kafka-protocol/src/messages/elect_leaders_response.rs 508-516 ReplicaElectionResult::default *)
Definition ReplicaElectionResult_default : ReplicaElectionResult := {|
  ReplicaElectionResult_topic := [];
  ReplicaElectionResult_partition_result := [];
  ReplicaElectionResult_unknown_tagged_fields := ∅
|}.

(* @ src/crates/kafka-protocol/src/messages/elect_leaders_response.rs 414-506 ReplicaElectionResult::encode, compute_size, decode *)
Definition ReplicaElectionResult_codec (version : Z) : Codec ReplicaElectionResult :=
  message 0 2 version (build mkReplicaElectionResult
    ⊛ (field ReplicaElectionResult_topic (if 2 <=? version then CompactString else KafkaString))
    ⊛ (field ReplicaElectionResult_partition_result (if 2 <=? version then CompactArray (Struct
        ElectLeadersResponse_PartitionResult_codec version) else Array (Struct
        ElectLeadersResponse_PartitionResult_codec version)))
    ⊛ unknown_tags (2 <=? version) ReplicaElectionResult_unknown_tagged_fields).

Definition ReplicaElectionResult_valid (version : Z) (x : ReplicaElectionResult) : Prop :=
  utf8 (ReplicaElectionResult_topic x) ∧
  Forall (ElectLeadersResponse_PartitionResult_valid version) (ReplicaElectionResult_partition_result x) ∧
  (if 2 <=? version then unknown_valid 0 (ReplicaElectionResult_unknown_tagged_fields x) else
      ReplicaElectionResult_unknown_tagged_fields x = ∅).

#[global] Instance ReplicaElectionResult_sound version : Sound (ReplicaElectionResult_codec version)
    (ReplicaElectionResult_valid version).
Proof. solve_message. Qed.

(* @ src/crates/kafka-protocol/src/messages/elect_leaders_response.rs 20-41 ElectLeadersResponse *)
Record ElectLeadersResponse : Type := mkElectLeadersResponse {
  ElectLeadersResponse_throttle_time_ms : Z;
  ElectLeadersResponse_error_code : Z;
  ElectLeadersResponse_replica_election_results : list ReplicaElectionResult;
  ElectLeadersResponse_unknown_tagged_fields : TaggedFields
}.

(* @ src/crates/kafka-protocol/src/messages/elect_leaders_response.rs 186-195 ElectLeadersResponse::default *)
Definition ElectLeadersResponse_default : ElectLeadersResponse := {|
  ElectLeadersResponse_throttle_time_ms := 0;
  ElectLeadersResponse_error_code := 0;
  ElectLeadersResponse_replica_election_results := [];
  ElectLeadersResponse_unknown_tagged_fields := ∅
|}.

(* @ src/crates/kafka-protocol/src/messages/elect_leaders_response.rs 83-184 ElectLeadersResponse::encode, compute_size, decode *)
Definition ElectLeadersResponse_codec (version : Z) : Codec ElectLeadersResponse :=
  message 0 2 version (build mkElectLeadersResponse
    ⊛ (field ElectLeadersResponse_throttle_time_ms Int32)
    ⊛ (if 1 <=? version then field ElectLeadersResponse_error_code Int16 else unset
        ElectLeadersResponse_error_code (Z.eqb 0) 0)
    ⊛ (field ElectLeadersResponse_replica_election_results (if 2 <=? version then CompactArray (Struct
        ReplicaElectionResult_codec version) else Array (Struct ReplicaElectionResult_codec version)))
    ⊛ unknown_tags (2 <=? version) ElectLeadersResponse_unknown_tagged_fields).

Definition ElectLeadersResponse_valid (version : Z) (x : ElectLeadersResponse) : Prop :=
  in_signed 32 (ElectLeadersResponse_throttle_time_ms x) ∧
  in_signed 16 (ElectLeadersResponse_error_code x) ∧
  Forall (ReplicaElectionResult_valid version) (ElectLeadersResponse_replica_election_results x) ∧
  (if 2 <=? version then unknown_valid 0 (ElectLeadersResponse_unknown_tagged_fields x) else
      ElectLeadersResponse_unknown_tagged_fields x = ∅).

#[global] Instance ElectLeadersResponse_sound version : Sound (ElectLeadersResponse_codec version)
    (ElectLeadersResponse_valid version).
Proof. solve_message. Qed.

(* @ src/crates/kafka-protocol/src/messages/elect_leaders_response.rs 523-531 ElectLeadersResponse::header_version *)
Definition ElectLeadersResponse_header_version (version : Z) : Z := if 2 <=? version then 1 else 0.

(* @ src/crates/kafka-protocol/src/messages/elect_leaders_response.rs 197-200 ElectLeadersResponse::VERSIONS *)
Definition ElectLeadersResponse_VERSIONS : Z * Z := (0, 2).

(** ** [get_telemetry_subscriptions_request] *)

(* @ src/crates/kafka-protocol/src/messages/get_telemetry_subscriptions_request.rs 20-31 GetTelemetrySubscriptionsRequest *)
Record GetTelemetrySubscriptionsRequest : Type := mkGetTelemetrySubscriptionsRequest {
  GetTelemetrySubscriptionsRequest_client_instance_id : Z;
  GetTelemetrySubscriptionsRequest_unknown_tagged_fields : TaggedFields
}.

(* @ src/crates/kafka-protocol/src/messages/get_telemetry_subscriptions_request.rs 113-120 GetTelemetrySubscriptionsRequest::default *)
Definition GetTelemetrySubscriptionsRequest_default : GetTelemetrySubscriptionsRequest := {|
  GetTelemetrySubscriptionsRequest_client_instance_id := 0;
  GetTelemetrySubscriptionsRequest_unknown_tagged_fields := ∅
|}.

(* @ src/crates/kafka-protocol/src/messages/get_telemetry_subscriptions_request.rs 55-111 GetTelemetrySubscriptionsRequest::encode, compute_size, decode *)
Definition GetTelemetrySubscriptionsRequest_codec (version : Z) : Codec GetTelemetrySubscriptionsRequest :=
  message 0 0 version (build mkGetTelemetrySubscriptionsRequest
    ⊛ (field GetTelemetrySubscriptionsRequest_client_instance_id Uuid)
    ⊛ unknown_tags true GetTelemetrySubscriptionsRequest_unknown_tagged_fields).

Definition GetTelemetrySubscriptionsRequest_valid (version : Z) (x : GetTelemetrySubscriptionsRequest) :
    Prop :=
  in_unsigned 128 (GetTelemetrySubscriptionsRequest_client_instance_id x) ∧
  unknown_valid 0 (GetTelemetrySubscriptionsRequest_unknown_tagged_fields x).

#[global] Instance GetTelemetrySubscriptionsRequest_sound version : Sound
    (GetTelemetrySubscriptionsRequest_codec version) (GetTelemetrySubscriptionsRequest_valid version).
Proof. solve_message. Qed.

(* @ src/crates/kafka-protocol/src/messages/get_telemetry_subscriptions_request.rs 127-131 GetTelemetrySubscriptionsRequest::header_version *)
Definition GetTelemetrySubscriptionsRequest_header_version (version : Z) : Z := 2.

(* @ src/crates/kafka-protocol/src/messages/get_telemetry_subscriptions_request.rs 122-125 GetTelemetrySubscriptionsRequest::VERSIONS *)
Definition GetTelemetrySubscriptionsRequest_VERSIONS : Z * Z := (0, 0).

(** ** [get_telemetry_subscriptions_response] *)

(* @ src/crates/kafka-protocol/src/messages/get_telemetry_subscriptions_response.rs 20-71 GetTelemetrySubscriptionsResponse *)
Record GetTelemetrySubscriptionsResponse : Type := mkGetTelemetrySubscriptionsResponse {
  GetTelemetrySubscriptionsResponse_throttle_time_ms : Z;
  GetTelemetrySubscriptionsResponse_error_code : Z;
  GetTelemetrySubscriptionsResponse_client_instance_id : Z;
  GetTelemetrySubscriptionsResponse_subscription_id : Z;
  GetTelemetrySubscriptionsResponse_accepted_compression_types : list Z;
  GetTelemetrySubscriptionsResponse_push_interval_ms : Z;
  GetTelemetrySubscriptionsResponse_telemetry_max_bytes : Z;
  GetTelemetrySubscriptionsResponse_delta_temporality : bool;
  GetTelemetrySubscriptionsResponse_requested_metrics : list (list byte);
  GetTelemetrySubscriptionsResponse_unknown_tagged_fields : TaggedFields
}.

(* @ src/crates/kafka-protocol/src/messages/get_telemetry_subscriptions_response.rs 259-274 GetTelemetrySubscriptionsResponse::default *)
Definition GetTelemetrySubscriptionsResponse_default : GetTelemetrySubscriptionsResponse := {|
  GetTelemetrySubscriptionsResponse_throttle_time_ms := 0;
  GetTelemetrySubscriptionsResponse_error_code := 0;
  GetTelemetrySubscriptionsResponse_client_instance_id := 0;
  GetTelemetrySubscriptionsResponse_subscription_id := 0;
  GetTelemetrySubscriptionsResponse_accepted_compression_types := [];
  GetTelemetrySubscriptionsResponse_push_interval_ms := 0;
  GetTelemetrySubscriptionsResponse_telemetry_max_bytes := 0;
  GetTelemetrySubscriptionsResponse_delta_temporality := false;
  GetTelemetrySubscriptionsResponse_requested_metrics := [];
  GetTelemetrySubscriptionsResponse_unknown_tagged_fields := ∅
|}.

(* @ src/crates/kafka-protocol/src/messages/get_telemetry_subscriptions_response.rs 167-257 GetTelemetrySubscriptionsResponse::encode, compute_size, decode *)
Definition GetTelemetrySubscriptionsResponse_codec (version : Z) : Codec GetTelemetrySubscriptionsResponse
    :=
  message 0 0 version (build mkGetTelemetrySubscriptionsResponse
    ⊛ (field GetTelemetrySubscriptionsResponse_throttle_time_ms Int32)
    ⊛ (field GetTelemetrySubscriptionsResponse_error_code Int16)
    ⊛ (field GetTelemetrySubscriptionsResponse_client_instance_id Uuid)
    ⊛ (field GetTelemetrySubscriptionsResponse_subscription_id Int32)
    ⊛ (field GetTelemetrySubscriptionsResponse_accepted_compression_types (CompactArray Int8))
    ⊛ (field GetTelemetrySubscriptionsResponse_push_interval_ms Int32)
    ⊛ (field GetTelemetrySubscriptionsResponse_telemetry_max_bytes Int32)
    ⊛ (field GetTelemetrySubscriptionsResponse_delta_temporality Boolean)
    ⊛ (field GetTelemetrySubscriptionsResponse_requested_metrics (CompactArray CompactString))
    ⊛ unknown_tags true GetTelemetrySubscriptionsResponse_unknown_tagged_fields).

Definition GetTelemetrySubscriptionsResponse_valid (version : Z) (x : GetTelemetrySubscriptionsResponse) :
    Prop :=
  in_signed 32 (GetTelemetrySubscriptionsResponse_throttle_time_ms x) ∧
  in_signed 16 (GetTelemetrySubscriptionsResponse_error_code x) ∧
  in_unsigned 128 (GetTelemetrySubscriptionsResponse_client_instance_id x) ∧
  in_signed 32 (GetTelemetrySubscriptionsResponse_subscription_id x) ∧
  Forall (in_signed 8) (GetTelemetrySubscriptionsResponse_accepted_compression_types x) ∧
  in_signed 32 (GetTelemetrySubscriptionsResponse_push_interval_ms x) ∧
  in_signed 32 (GetTelemetrySubscriptionsResponse_telemetry_max_bytes x) ∧
  Forall utf8 (GetTelemetrySubscriptionsResponse_requested_metrics x) ∧
  unknown_valid 0 (GetTelemetrySubscriptionsResponse_unknown_tagged_fields x).

#[global] Instance GetTelemetrySubscriptionsResponse_sound version : Sound
    (GetTelemetrySubscriptionsResponse_codec version) (GetTelemetrySubscriptionsResponse_valid version).
Proof. solve_message. Qed.

(* @ src/crates/kafka-protocol/src/messages/get_telemetry_subscriptions_response.rs 281-285 GetTelemetrySubscriptionsResponse::header_version *)
Definition GetTelemetrySubscriptionsResponse_header_version (version : Z) : Z := 1.

(* @ src/crates/kafka-protocol/src/messages/get_telemetry_subscriptions_response.rs 276-279 GetTelemetrySubscriptionsResponse::VERSIONS *)
Definition GetTelemetrySubscriptionsResponse_VERSIONS : Z * Z := (0, 0).

(** ** [incremental_alter_configs_request] *)

(* @ src/crates/kafka-protocol/src/messages/incremental_alter_configs_request.rs 196-217 AlterableConfig *)
Record IncrementalAlterConfigsRequest_AlterableConfig : Type :=
    mkIncrementalAlterConfigsRequest_AlterableConfig {
  IncrementalAlterConfigsRequest_AlterableConfig_name : list byte;
  IncrementalAlterConfigsRequest_AlterableConfig_config_operation : Z;
  IncrementalAlterConfigsRequest_AlterableConfig_value : option (list byte);
  IncrementalAlterConfigsRequest_AlterableConfig_unknown_tagged_fields : TaggedFields
}.

(* @ src/crates/kafka-protocol/src/messages/incremental_alter_configs_request.rs 355-364 AlterableConfig::default *)
Definition IncrementalAlterConfigsRequest_AlterableConfig_default :
    IncrementalAlterConfigsRequest_AlterableConfig := {|
  IncrementalAlterConfigsRequest_AlterableConfig_name := [];
  IncrementalAlterConfigsRequest_AlterableConfig_config_operation := 0;
  IncrementalAlterConfigsRequest_AlterableConfig_value := Some [];
  IncrementalAlterConfigsRequest_AlterableConfig_unknown_tagged_fields := ∅
|}.

(* @ src/crates/kafka-protocol/src/messages/incremental_alter_configs_request.rs 259-353 AlterableConfig::encode, compute_size, decode *)
Definition IncrementalAlterConfigsRequest_AlterableConfig_codec (version : Z) : Codec
    IncrementalAlterConfigsRequest_AlterableConfig :=
  message 0 1 version (build mkIncrementalAlterConfigsRequest_AlterableConfig
    ⊛ (field IncrementalAlterConfigsRequest_AlterableConfig_name (if 1 <=? version then CompactString else
        KafkaString))
    ⊛ (field IncrementalAlterConfigsRequest_AlterableConfig_config_operation Int8)
    ⊛ (field IncrementalAlterConfigsRequest_AlterableConfig_value (if 1 <=? version then
        NullableCompactString else NullableString))
    ⊛ unknown_tags (1 <=? version) IncrementalAlterConfigsRequest_AlterableConfig_unknown_tagged_fields).

Definition IncrementalAlterConfigsRequest_AlterableConfig_valid (version : Z) (x :
    IncrementalAlterConfigsRequest_AlterableConfig) : Prop :=
  utf8 (IncrementalAlterConfigsRequest_AlterableConfig_name x) ∧
  in_signed 8 (IncrementalAlterConfigsRequest_AlterableConfig_config_operation x) ∧
  opt_all utf8 (IncrementalAlterConfigsRequest_AlterableConfig_value x) ∧
  (if 1 <=? version then unknown_valid 0
      (IncrementalAlterConfigsRequest_AlterableConfig_unknown_tagged_fields x) else
      IncrementalAlterConfigsRequest_AlterableConfig_unknown_tagged_fields x = ∅).

#[global] Instance IncrementalAlterConfigsRequest_AlterableConfig_sound version : Sound
    (IncrementalAlterConfigsRequest_AlterableConfig_codec version)
    (IncrementalAlterConfigsRequest_AlterableConfig_valid version).
Proof. solve_message. Qed.

(* @ src/crates/kafka-protocol/src/messages/incremental_alter_configs_request.rs 20-41 AlterConfigsResource *)
Record IncrementalAlterConfigsRequest_AlterConfigsResource : Type :=
    mkIncrementalAlterConfigsRequest_AlterConfigsResource {
  IncrementalAlterConfigsRequest_AlterConfigsResource_resource_type : Z;
  IncrementalAlterConfigsRequest_AlterConfigsResource_resource_name : list byte;
  IncrementalAlterConfigsRequest_AlterConfigsResource_configs : list
      IncrementalAlterConfigsRequest_AlterableConfig;
  IncrementalAlterConfigsRequest_AlterConfigsResource_unknown_tagged_fields : TaggedFields
}.

(* @ src/crates/kafka-protocol/src/messages/incremental_alter_configs_request.rs 180-189 AlterConfigsResource::default *)
Definition IncrementalAlterConfigsRequest_AlterConfigsResource_default :
    IncrementalAlterConfigsRequest_AlterConfigsResource := {|
  IncrementalAlterConfigsRequest_AlterConfigsResource_resource_type := 0;
  IncrementalAlterConfigsRequest_AlterConfigsResource_resource_name := [];
  IncrementalAlterConfigsRequest_AlterConfigsResource_configs := [];
  IncrementalAlterConfigsRequest_AlterConfigsResource_unknown_tagged_fields := ∅
|}.

(* @ src/crates/kafka-protocol/src/messages/incremental_alter_configs_request.rs 83-178 AlterConfigsResource::encode, compute_size, decode *)
Definition IncrementalAlterConfigsRequest_AlterConfigsResource_codec (version : Z) : Codec
    IncrementalAlterConfigsRequest_AlterConfigsResource :=
  message 0 1 version (build mkIncrementalAlterConfigsRequest_AlterConfigsResource
    ⊛ (field IncrementalAlterConfigsRequest_AlterConfigsResource_resource_type Int8)
    ⊛ (field IncrementalAlterConfigsRequest_AlterConfigsResource_resource_name (if 1 <=? version then
        CompactString else KafkaString))
    ⊛ (field IncrementalAlterConfigsRequest_AlterConfigsResource_configs (if 1 <=? version then
        CompactArray (Struct IncrementalAlterConfigsRequest_AlterableConfig_codec version) else Array
        (Struct IncrementalAlterConfigsRequest_AlterableConfig_codec version)))
    ⊛ unknown_tags (1 <=? version)
        IncrementalAlterConfigsRequest_AlterConfigsResource_unknown_tagged_fields).

Definition IncrementalAlterConfigsRequest_AlterConfigsResource_valid (version : Z) (x :
    IncrementalAlterConfigsRequest_AlterConfigsResource) : Prop :=
  in_signed 8 (IncrementalAlterConfigsRequest_AlterConfigsResource_resource_type x) ∧
  utf8 (IncrementalAlterConfigsRequest_AlterConfigsResource_resource_name x) ∧
  Forall (IncrementalAlterConfigsRequest_AlterableConfig_valid version)
      (IncrementalAlterConfigsRequest_AlterConfigsResource_configs x) ∧
  (if 1 <=? version then unknown_valid 0
      (IncrementalAlterConfigsRequest_AlterConfigsResource_unknown_tagged_fields x) else
      IncrementalAlterConfigsRequest_AlterConfigsResource_unknown_tagged_fields x = ∅).

#[global] Instance IncrementalAlterConfigsRequest_AlterConfigsResource_sound version : Sound
    (IncrementalAlterConfigsRequest_AlterConfigsResource_codec version)
    (IncrementalAlterConfigsRequest_AlterConfigsResource_valid version).
Proof. solve_message. Qed.

(* @ src/crates/kafka-protocol/src/messages/incremental_alter_configs_request.rs 371-387 IncrementalAlterConfigsRequest *)
Record IncrementalAlterConfigsRequest : Type := mkIncrementalAlterConfigsRequest {
  IncrementalAlterConfigsRequest_resources : list IncrementalAlterConfigsRequest_AlterConfigsResource;
  IncrementalAlterConfigsRequest_validate_only : bool;
  IncrementalAlterConfigsRequest_unknown_tagged_fields : TaggedFields
}.

(* @ src/crates/kafka-protocol/src/messages/incremental_alter_configs_request.rs 501-509 IncrementalAlterConfigsRequest::default *)
Definition IncrementalAlterConfigsRequest_default : IncrementalAlterConfigsRequest := {|
  IncrementalAlterConfigsRequest_resources := [];
  IncrementalAlterConfigsRequest_validate_only := false;
  IncrementalAlterConfigsRequest_unknown_tagged_fields := ∅
|}.

(* @ src/crates/kafka-protocol/src/messages/incremental_alter_configs_request.rs 420-499 IncrementalAlterConfigsRequest::encode, compute_size, decode *)
Definition IncrementalAlterConfigsRequest_codec (version : Z) : Codec IncrementalAlterConfigsRequest :=
  message 0 1 version (build mkIncrementalAlterConfigsRequest
    ⊛ (field IncrementalAlterConfigsRequest_resources (if 1 <=? version then CompactArray (Struct
        IncrementalAlterConfigsRequest_AlterConfigsResource_codec version) else Array (Struct
        IncrementalAlterConfigsRequest_AlterConfigsResource_codec version)))
    ⊛ (field IncrementalAlterConfigsRequest_validate_only Boolean)
    ⊛ unknown_tags (1 <=? version) IncrementalAlterConfigsRequest_unknown_tagged_fields).

Definition IncrementalAlterConfigsRequest_valid (version : Z) (x : IncrementalAlterConfigsRequest) : Prop :=
  Forall (IncrementalAlterConfigsRequest_AlterConfigsResource_valid version)
      (IncrementalAlterConfigsRequest_resources x) ∧
  (if 1 <=? version then unknown_valid 0 (IncrementalAlterConfigsRequest_unknown_tagged_fields x) else
      IncrementalAlterConfigsRequest_unknown_tagged_fields x = ∅).

#[global] Instance IncrementalAlterConfigsRequest_sound version : Sound
    (IncrementalAlterConfigsRequest_codec version) (IncrementalAlterConfigsRequest_valid version).
Proof. solve_message. Qed.

(* @ src/crates/kafka-protocol/src/messages/incremental_alter_configs_request.rs 516-524 IncrementalAlterConfigsRequest::header_version *)
Definition IncrementalAlterConfigsRequest_header_version (version : Z) : Z := if 1 <=? version then 2 else
    1.

(* @ src/crates/kafka-protocol/src/messages/incremental_alter_configs_request.rs 511-514 IncrementalAlterConfigsRequest::VERSIONS *)
Definition IncrementalAlterConfigsRequest_VERSIONS : Z * Z := (0, 1).

(** ** [incremental_alter_configs_response] *)

(* @ src/crates/kafka-protocol/src/messages/incremental_alter_configs_response.rs 20-46 AlterConfigsResourceResponse *)
Record IncrementalAlterConfigsResponse_AlterConfigsResourceResponse : Type :=
    mkIncrementalAlterConfigsResponse_AlterConfigsResourceResponse {
  IncrementalAlterConfigsResponse_AlterConfigsResourceResponse_error_code : Z;
  IncrementalAlterConfigsResponse_AlterConfigsResourceResponse_error_message : option (list byte);
  IncrementalAlterConfigsResponse_AlterConfigsResourceResponse_resource_type : Z;
  IncrementalAlterConfigsResponse_AlterConfigsResourceResponse_resource_name : list byte;
  IncrementalAlterConfigsResponse_AlterConfigsResourceResponse_unknown_tagged_fields : TaggedFields
}.

(* @ src/crates/kafka-protocol/src/messages/incremental_alter_configs_response.rs 197-207 AlterConfigsResourceResponse::default *)
Definition IncrementalAlterConfigsResponse_AlterConfigsResourceResponse_default :
    IncrementalAlterConfigsResponse_AlterConfigsResourceResponse := {|
  IncrementalAlterConfigsResponse_AlterConfigsResourceResponse_error_code := 0;
  IncrementalAlterConfigsResponse_AlterConfigsResourceResponse_error_message := Some [];
  IncrementalAlterConfigsResponse_AlterConfigsResourceResponse_resource_type := 0;
  IncrementalAlterConfigsResponse_AlterConfigsResourceResponse_resource_name := [];
  IncrementalAlterConfigsResponse_AlterConfigsResourceResponse_unknown_tagged_fields := ∅
|}.

(* @ src/crates/kafka-protocol/src/messages/incremental_alter_configs_response.rs 97-195 AlterConfigsResourceResponse::encode, compute_size, decode *)
Definition IncrementalAlterConfigsResponse_AlterConfigsResourceResponse_codec (version : Z) : Codec
    IncrementalAlterConfigsResponse_AlterConfigsResourceResponse :=
  message 0 1 version (build mkIncrementalAlterConfigsResponse_AlterConfigsResourceResponse
    ⊛ (field IncrementalAlterConfigsResponse_AlterConfigsResourceResponse_error_code Int16)
    ⊛ (field IncrementalAlterConfigsResponse_AlterConfigsResourceResponse_error_message (if 1 <=? version
        then NullableCompactString else NullableString))
    ⊛ (field IncrementalAlterConfigsResponse_AlterConfigsResourceResponse_resource_type Int8)
    ⊛ (field IncrementalAlterConfigsResponse_AlterConfigsResourceResponse_resource_name (if 1 <=? version
        then CompactString else KafkaString))
    ⊛ unknown_tags (1 <=? version)
        IncrementalAlterConfigsResponse_AlterConfigsResourceResponse_unknown_tagged_fields).

Definition IncrementalAlterConfigsResponse_AlterConfigsResourceResponse_valid (version : Z) (x :
    IncrementalAlterConfigsResponse_AlterConfigsResourceResponse) : Prop :=
  in_signed 16 (IncrementalAlterConfigsResponse_AlterConfigsResourceResponse_error_code x) ∧
  opt_all utf8 (IncrementalAlterConfigsResponse_AlterConfigsResourceResponse_error_message x) ∧
  in_signed 8 (IncrementalAlterConfigsResponse_AlterConfigsResourceResponse_resource_type x) ∧
  utf8 (IncrementalAlterConfigsResponse_AlterConfigsResourceResponse_resource_name x) ∧
  (if 1 <=? version then unknown_valid 0
      (IncrementalAlterConfigsResponse_AlterConfigsResourceResponse_unknown_tagged_fields x) else
      IncrementalAlterConfigsResponse_AlterConfigsResourceResponse_unknown_tagged_fields x = ∅).

#[global] Instance IncrementalAlterConfigsResponse_AlterConfigsResourceResponse_sound version : Sound
    (IncrementalAlterConfigsResponse_AlterConfigsResourceResponse_codec version)
    (IncrementalAlterConfigsResponse_AlterConfigsResourceResponse_valid version).
Proof. solve_message. Qed.

(* @ src/crates/kafka-protocol/src/messages/incremental_alter_configs_response.rs 214-230 IncrementalAlterConfigsResponse *)
Record IncrementalAlterConfigsResponse : Type := mkIncrementalAlterConfigsResponse {
  IncrementalAlterConfigsResponse_throttle_time_ms : Z;
  IncrementalAlterConfigsResponse_responses : list
      IncrementalAlterConfigsResponse_AlterConfigsResourceResponse;
  IncrementalAlterConfigsResponse_unknown_tagged_fields : TaggedFields
}.

(* @ src/crates/kafka-protocol/src/messages/incremental_alter_configs_response.rs 344-352 IncrementalAlterConfigsResponse::default *)
Definition IncrementalAlterConfigsResponse_default : IncrementalAlterConfigsResponse := {|
  IncrementalAlterConfigsResponse_throttle_time_ms := 0;
  IncrementalAlterConfigsResponse_responses := [];
  IncrementalAlterConfigsResponse_unknown_tagged_fields := ∅
|}.

(* @ src/crates/kafka-protocol/src/messages/incremental_alter_configs_response.rs 263-342 IncrementalAlterConfigsResponse::encode, compute_size, decode *)
Definition IncrementalAlterConfigsResponse_codec (version : Z) : Codec IncrementalAlterConfigsResponse :=
  message 0 1 version (build mkIncrementalAlterConfigsResponse
    ⊛ (field IncrementalAlterConfigsResponse_throttle_time_ms Int32)
    ⊛ (field IncrementalAlterConfigsResponse_responses (if 1 <=? version then CompactArray (Struct
        IncrementalAlterConfigsResponse_AlterConfigsResourceResponse_codec version) else Array (Struct
        IncrementalAlterConfigsResponse_AlterConfigsResourceResponse_codec version)))
    ⊛ unknown_tags (1 <=? version) IncrementalAlterConfigsResponse_unknown_tagged_fields).

Definition IncrementalAlterConfigsResponse_valid (version : Z) (x : IncrementalAlterConfigsResponse) : Prop
    :=
  in_signed 32 (IncrementalAlterConfigsResponse_throttle_time_ms x) ∧
  Forall (IncrementalAlterConfigsResponse_AlterConfigsResourceResponse_valid version)
      (IncrementalAlterConfigsResponse_responses x) ∧
  (if 1 <=? version then unknown_valid 0 (IncrementalAlterConfigsResponse_unknown_tagged_fields x) else
      IncrementalAlterConfigsResponse_unknown_tagged_fields x = ∅).

#[global] Instance IncrementalAlterConfigsResponse_sound version : Sound
    (IncrementalAlterConfigsResponse_codec version) (IncrementalAlterConfigsResponse_valid version).
Proof. solve_message. Qed.

(* @ src/crates/kafka-protocol/src/messages/incremental_alter_configs_response.rs 359-367 IncrementalAlterConfigsResponse::header_version *)
Definition IncrementalAlterConfigsResponse_header_version (version : Z) : Z := if 1 <=? version then 1 else
    0.

(* @ src/crates/kafka-protocol/src/messages/incremental_alter_configs_response.rs 354-357 IncrementalAlterConfigsResponse::VERSIONS *)
Definition IncrementalAlterConfigsResponse_VERSIONS : Z * Z := (0, 1).

(** ** [list_config_resources_request] *)

(* @ src/crates/kafka-protocol/src/messages/list_config_resources_request.rs 20-31 ListConfigResourcesRequest *)
Record ListConfigResourcesRequest : Type := mkListConfigResourcesRequest {
  ListConfigResourcesRequest_resource_types : list Z;
  ListConfigResourcesRequest_unknown_tagged_fields : TaggedFields
}.

(* @ src/crates/kafka-protocol/src/messages/list_config_resources_request.rs 129-136 ListConfigResourcesRequest::default *)
Definition ListConfigResourcesRequest_default : ListConfigResourcesRequest := {|
  ListConfigResourcesRequest_resource_types := [];
  ListConfigResourcesRequest_unknown_tagged_fields := ∅
|}.

(* @ src/crates/kafka-protocol/src/messages/list_config_resources_request.rs 55-127 ListConfigResourcesRequest::encode, compute_size, decode *)
Definition ListConfigResourcesRequest_codec (version : Z) : Codec ListConfigResourcesRequest :=
  message 0 1 version (build mkListConfigResourcesRequest
    ⊛ (if 1 <=? version then field ListConfigResourcesRequest_resource_types (CompactArray Int8) else unset
        ListConfigResourcesRequest_resource_types is_empty [])
    ⊛ unknown_tags true ListConfigResourcesRequest_unknown_tagged_fields).

Definition ListConfigResourcesRequest_valid (version : Z) (x : ListConfigResourcesRequest) : Prop :=
  Forall (in_signed 8) (ListConfigResourcesRequest_resource_types x) ∧
  unknown_valid 0 (ListConfigResourcesRequest_unknown_tagged_fields x).

#[global] Instance ListConfigResourcesRequest_sound version : Sound (ListConfigResourcesRequest_codec
    version) (ListConfigResourcesRequest_valid version).
Proof. solve_message. Qed.

(* @ src/crates/kafka-protocol/src/messages/list_config_resources_request.rs 143-147 ListConfigResourcesRequest::header_version *)
Definition ListConfigResourcesRequest_header_version (version : Z) : Z := 2.

(* @ src/crates/kafka-protocol/src/messages/list_config_resources_request.rs 138-141 ListConfigResourcesRequest::VERSIONS *)
Definition ListConfigResourcesRequest_VERSIONS : Z * Z := (0, 1).

(** ** [list_config_resources_response] *)

(* @ src/crates/kafka-protocol/src/messages/list_config_resources_response.rs 20-36 ConfigResource *)
Record ConfigResource : Type := mkConfigResource {
  ConfigResource_resource_name : list byte;
  ConfigResource_resource_type : Z;
  ConfigResource_unknown_tagged_fields : TaggedFields
}.

(* @ src/crates/kafka-protocol/src/messages/list_config_resources_response.rs 139-147 ConfigResource::default *)
Definition ConfigResource_default : ConfigResource := {|
  ConfigResource_resource_name := [];
  ConfigResource_resource_type := 16;
  ConfigResource_unknown_tagged_fields := ∅
|}.

(* @ src/crates/kafka-protocol/src/messages/list_config_resources_response.rs 69-137 ConfigResource::encode, compute_size, decode *)
Definition ConfigResource_codec (version : Z) : Codec ConfigResource :=
  message 0 1 version (build mkConfigResource
    ⊛ (field ConfigResource_resource_name CompactString)
    ⊛ (if 1 <=? version then field ConfigResource_resource_type Int8 else ignored 16)
    ⊛ unknown_tags true ConfigResource_unknown_tagged_fields).

Definition ConfigResource_valid (version : Z) (x : ConfigResource) : Prop :=
  utf8 (ConfigResource_resource_name x) ∧
  (if 1 <=? version then in_signed 8 (ConfigResource_resource_type x) else ConfigResource_resource_type x =
      16) ∧
  unknown_valid 0 (ConfigResource_unknown_tagged_fields x).

#[global] Instance ConfigResource_sound version : Sound (ConfigResource_codec version)
    (ConfigResource_valid version).
Proof. solve_message. Qed.

(* @ src/crates/kafka-protocol/src/messages/list_config_resources_response.rs 154-175 ListConfigResourcesResponse *)
Record ListConfigResourcesResponse : Type := mkListConfigResourcesResponse {
  ListConfigResourcesResponse_throttle_time_ms : Z;
  ListConfigResourcesResponse_error_code : Z;
  ListConfigResourcesResponse_config_resources : list ConfigResource;
  ListConfigResourcesResponse_unknown_tagged_fields : TaggedFields
}.

(* @ src/crates/kafka-protocol/src/messages/list_config_resources_response.rs 284-293 ListConfigResourcesResponse::default *)
Definition ListConfigResourcesResponse_default : ListConfigResourcesResponse := {|
  ListConfigResourcesResponse_throttle_time_ms := 0;
  ListConfigResourcesResponse_error_code := 0;
  ListConfigResourcesResponse_config_resources := [];
  ListConfigResourcesResponse_unknown_tagged_fields := ∅
|}.

(* @ src/crates/kafka-protocol/src/messages/list_config_resources_response.rs 217-282 ListConfigResourcesResponse::encode, compute_size, decode *)
Definition ListConfigResourcesResponse_codec (version : Z) : Codec ListConfigResourcesResponse :=
  message 0 1 version (build mkListConfigResourcesResponse
    ⊛ (field ListConfigResourcesResponse_throttle_time_ms Int32)
    ⊛ (field ListConfigResourcesResponse_error_code Int16)
    ⊛ (field ListConfigResourcesResponse_config_resources (CompactArray (Struct ConfigResource_codec
        version)))
    ⊛ unknown_tags true ListConfigResourcesResponse_unknown_tagged_fields).

Definition ListConfigResourcesResponse_valid (version : Z) (x : ListConfigResourcesResponse) : Prop :=
  in_signed 32 (ListConfigResourcesResponse_throttle_time_ms x) ∧
  in_signed 16 (ListConfigResourcesResponse_error_code x) ∧
  Forall (ConfigResource_valid version) (ListConfigResourcesResponse_config_resources x) ∧
  unknown_valid 0 (ListConfigResourcesResponse_unknown_tagged_fields x).

#[global] Instance ListConfigResourcesResponse_sound version : Sound (ListConfigResourcesResponse_codec
    version) (ListConfigResourcesResponse_valid version).
Proof. solve_message. Qed.

(* @ src/crates/kafka-protocol/src/messages/list_config_resources_response.rs 300-304 ListConfigResourcesResponse::header_version *)
Definition ListConfigResourcesResponse_header_version (version : Z) : Z := 1.

(* @ src/crates/kafka-protocol/src/messages/list_config_resources_response.rs 295-298 ListConfigResourcesResponse::VERSIONS *)
Definition ListConfigResourcesResponse_VERSIONS : Z * Z := (0, 1).

(** ** [list_partition_reassignments_request] *)

(* @ src/crates/kafka-protocol/src/messages/list_partition_reassignments_request.rs 146-162 ListPartitionReassignmentsTopics *)
Record ListPartitionReassignmentsTopics : Type := mkListPartitionReassignmentsTopics {
  ListPartitionReassignmentsTopics_name : list byte;
  ListPartitionReassignmentsTopics_partition_indexes : list Z;
  ListPartitionReassignmentsTopics_unknown_tagged_fields : TaggedFields
}.

(* @ src/crates/kafka-protocol/src/messages/list_partition_reassignments_request.rs 257-265 ListPartitionReassignmentsTopics::default *)
Definition ListPartitionReassignmentsTopics_default : ListPartitionReassignmentsTopics := {|
  ListPartitionReassignmentsTopics_name := [];
  ListPartitionReassignmentsTopics_partition_indexes := [];
  ListPartitionReassignmentsTopics_unknown_tagged_fields := ∅
|}.

(* @ src/crates/kafka-protocol/src/messages/list_partition_reassignments_request.rs 195-255 ListPartitionReassignmentsTopics::encode, compute_size, decode *)
Definition ListPartitionReassignmentsTopics_codec (version : Z) : Codec ListPartitionReassignmentsTopics :=
  message 0 0 version (build mkListPartitionReassignmentsTopics
    ⊛ (field ListPartitionReassignmentsTopics_name CompactString)
    ⊛ (field ListPartitionReassignmentsTopics_partition_indexes (CompactArray Int32))
    ⊛ unknown_tags true ListPartitionReassignmentsTopics_unknown_tagged_fields).

Definition ListPartitionReassignmentsTopics_valid (version : Z) (x : ListPartitionReassignmentsTopics) :
    Prop :=
  utf8 (ListPartitionReassignmentsTopics_name x) ∧
  Forall (in_signed 32) (ListPartitionReassignmentsTopics_partition_indexes x) ∧
  unknown_valid 0 (ListPartitionReassignmentsTopics_unknown_tagged_fields x).

#[global] Instance ListPartitionReassignmentsTopics_sound version : Sound
    (ListPartitionReassignmentsTopics_codec version) (ListPartitionReassignmentsTopics_valid version).
Proof. solve_message. Qed.

(* @ src/crates/kafka-protocol/src/messages/list_partition_reassignments_request.rs 20-36 ListPartitionReassignmentsRequest *)
Record ListPartitionReassignmentsRequest : Type := mkListPartitionReassignmentsRequest {
  ListPartitionReassignmentsRequest_timeout_ms : Z;
  ListPartitionReassignmentsRequest_topics : option (list ListPartitionReassignmentsTopics);
  ListPartitionReassignmentsRequest_unknown_tagged_fields : TaggedFields
}.

(* @ src/crates/kafka-protocol/src/messages/list_partition_reassignments_request.rs 131-139 ListPartitionReassignmentsRequest::default *)
Definition ListPartitionReassignmentsRequest_default : ListPartitionReassignmentsRequest := {|
  ListPartitionReassignmentsRequest_timeout_ms := 60000;
  ListPartitionReassignmentsRequest_topics := None;
  ListPartitionReassignmentsRequest_unknown_tagged_fields := ∅
|}.

(* @ src/crates/kafka-protocol/src/messages/list_partition_reassignments_request.rs 69-129 ListPartitionReassignmentsRequest::encode, compute_size, decode *)
Definition ListPartitionReassignmentsRequest_codec (version : Z) : Codec ListPartitionReassignmentsRequest
    :=
  message 0 0 version (build mkListPartitionReassignmentsRequest
    ⊛ (field ListPartitionReassignmentsRequest_timeout_ms Int32)
    ⊛ (field ListPartitionReassignmentsRequest_topics (NullableCompactArray (Struct
        ListPartitionReassignmentsTopics_codec version)))
    ⊛ unknown_tags true ListPartitionReassignmentsRequest_unknown_tagged_fields).

Definition ListPartitionReassignmentsRequest_valid (version : Z) (x : ListPartitionReassignmentsRequest) :
    Prop :=
  in_signed 32 (ListPartitionReassignmentsRequest_timeout_ms x) ∧
  opt_all (Forall (ListPartitionReassignmentsTopics_valid version))
      (ListPartitionReassignmentsRequest_topics x) ∧
  unknown_valid 0 (ListPartitionReassignmentsRequest_unknown_tagged_fields x).

#[global] Instance ListPartitionReassignmentsRequest_sound version : Sound
    (ListPartitionReassignmentsRequest_codec version) (ListPartitionReassignmentsRequest_valid version).
Proof. solve_message. Qed.

(* @ src/crates/kafka-protocol/src/messages/list_partition_reassignments_request.rs 272-276 ListPartitionReassignmentsRequest::header_version *)
Definition ListPartitionReassignmentsRequest_header_version (version : Z) : Z := 2.

(* @ src/crates/kafka-protocol/src/messages/list_partition_reassignments_request.rs 141-144 ListPartitionReassignmentsRequest::VERSIONS *)
Definition ListPartitionReassignmentsRequest_VERSIONS : Z * Z := (0, 0).

(** ** [list_partition_reassignments_response] *)

(* @ src/crates/kafka-protocol/src/messages/list_partition_reassignments_response.rs 184-210 OngoingPartitionReassignment *)
Record OngoingPartitionReassignment : Type := mkOngoingPartitionReassignment {
  OngoingPartitionReassignment_partition_index : Z;
  OngoingPartitionReassignment_replicas : list Z;
  OngoingPartitionReassignment_adding_replicas : list Z;
  OngoingPartitionReassignment_removing_replicas : list Z;
  OngoingPartitionReassignment_unknown_tagged_fields : TaggedFields
}.

(* @ src/crates/kafka-protocol/src/messages/list_partition_reassignments_response.rs 331-341 OngoingPartitionReassignment::default *)
Definition OngoingPartitionReassignment_default : OngoingPartitionReassignment := {|
  OngoingPartitionReassignment_partition_index := 0;
  OngoingPartitionReassignment_replicas := [];
  OngoingPartitionReassignment_adding_replicas := [];
  OngoingPartitionReassignment_removing_replicas := [];
  OngoingPartitionReassignment_unknown_tagged_fields := ∅
|}.

(* @ src/crates/kafka-protocol/src/messages/list_partition_reassignments_response.rs 261-329 OngoingPartitionReassignment::encode, compute_size, decode *)
Definition OngoingPartitionReassignment_codec (version : Z) : Codec OngoingPartitionReassignment :=
  message 0 0 version (build mkOngoingPartitionReassignment
    ⊛ (field OngoingPartitionReassignment_partition_index Int32)
    ⊛ (field OngoingPartitionReassignment_replicas (CompactArray Int32))
    ⊛ (field OngoingPartitionReassignment_adding_replicas (CompactArray Int32))
    ⊛ (field OngoingPartitionReassignment_removing_replicas (CompactArray Int32))
    ⊛ unknown_tags true OngoingPartitionReassignment_unknown_tagged_fields).

Definition OngoingPartitionReassignment_valid (version : Z) (x : OngoingPartitionReassignment) : Prop :=
  in_signed 32 (OngoingPartitionReassignment_partition_index x) ∧
  Forall (in_signed 32) (OngoingPartitionReassignment_replicas x) ∧
  Forall (in_signed 32) (OngoingPartitionReassignment_adding_replicas x) ∧
  Forall (in_signed 32) (OngoingPartitionReassignment_removing_replicas x) ∧
  unknown_valid 0 (OngoingPartitionReassignment_unknown_tagged_fields x).

#[global] Instance OngoingPartitionReassignment_sound version : Sound (OngoingPartitionReassignment_codec
    version) (OngoingPartitionReassignment_valid version).
Proof. solve_message. Qed.

(* @ src/crates/kafka-protocol/src/messages/list_partition_reassignments_response.rs 348-364 OngoingTopicReassignment *)
Record OngoingTopicReassignment : Type := mkOngoingTopicReassignment {
  OngoingTopicReassignment_name : list byte;
  OngoingTopicReassignment_partitions : list OngoingPartitionReassignment;
  OngoingTopicReassignment_unknown_tagged_fields : TaggedFields
}.

(* @ src/crates/kafka-protocol/src/messages/list_partition_reassignments_response.rs 460-468 OngoingTopicReassignment::default *)
Definition OngoingTopicReassignment_default : OngoingTopicReassignment := {|
  OngoingTopicReassignment_name := [];
  OngoingTopicReassignment_partitions := [];
  OngoingTopicReassignment_unknown_tagged_fields := ∅
|}.

(* @ src/crates/kafka-protocol/src/messages/list_partition_reassignments_response.rs 397-458 OngoingTopicReassignment::encode, compute_size, decode *)
Definition OngoingTopicReassignment_codec (version : Z) : Codec OngoingTopicReassignment :=
  message 0 0 version (build mkOngoingTopicReassignment
    ⊛ (field OngoingTopicReassignment_name CompactString)
    ⊛ (field OngoingTopicReassignment_partitions (CompactArray (Struct OngoingPartitionReassignment_codec
        version)))
    ⊛ unknown_tags true OngoingTopicReassignment_unknown_tagged_fields).

Definition OngoingTopicReassignment_valid (version : Z) (x : OngoingTopicReassignment) : Prop :=
  utf8 (OngoingTopicReassignment_name x) ∧
  Forall (OngoingPartitionReassignment_valid version) (OngoingTopicReassignment_partitions x) ∧
  unknown_valid 0 (OngoingTopicReassignment_unknown_tagged_fields x).

#[global] Instance OngoingTopicReassignment_sound version : Sound (OngoingTopicReassignment_codec version)
    (OngoingTopicReassignment_valid version).
Proof. solve_message. Qed.

(* @ src/crates/kafka-protocol/src/messages/list_partition_reassignments_response.rs 20-46 ListPartitionReassignmentsResponse *)
Record ListPartitionReassignmentsResponse : Type := mkListPartitionReassignmentsResponse {
  ListPartitionReassignmentsResponse_throttle_time_ms : Z;
  ListPartitionReassignmentsResponse_error_code : Z;
  ListPartitionReassignmentsResponse_error_message : option (list byte);
  ListPartitionReassignmentsResponse_topics : list OngoingTopicReassignment;
  ListPartitionReassignmentsResponse_unknown_tagged_fields : TaggedFields
}.

(* @ src/crates/kafka-protocol/src/messages/list_partition_reassignments_response.rs 167-177 ListPartitionReassignmentsResponse::default *)
Definition ListPartitionReassignmentsResponse_default : ListPartitionReassignmentsResponse := {|
  ListPartitionReassignmentsResponse_throttle_time_ms := 0;
  ListPartitionReassignmentsResponse_error_code := 0;
  ListPartitionReassignmentsResponse_error_message := Some [];
  ListPartitionReassignmentsResponse_topics := [];
  ListPartitionReassignmentsResponse_unknown_tagged_fields := ∅
|}.

(* @ src/crates/kafka-protocol/src/messages/list_partition_reassignments_response.rs 97-165 ListPartitionReassignmentsResponse::encode, compute_size, decode *)
Definition ListPartitionReassignmentsResponse_codec (version : Z) : Codec
    ListPartitionReassignmentsResponse :=
  message 0 0 version (build mkListPartitionReassignmentsResponse
    ⊛ (field ListPartitionReassignmentsResponse_throttle_time_ms Int32)
    ⊛ (field ListPartitionReassignmentsResponse_error_code Int16)
    ⊛ (field ListPartitionReassignmentsResponse_error_message NullableCompactString)
    ⊛ (field ListPartitionReassignmentsResponse_topics (CompactArray (Struct OngoingTopicReassignment_codec
        version)))
    ⊛ unknown_tags true ListPartitionReassignmentsResponse_unknown_tagged_fields).

Definition ListPartitionReassignmentsResponse_valid (version : Z) (x : ListPartitionReassignmentsResponse)
    : Prop :=
  in_signed 32 (ListPartitionReassignmentsResponse_throttle_time_ms x) ∧
  in_signed 16 (ListPartitionReassignmentsResponse_error_code x) ∧
  opt_all utf8 (ListPartitionReassignmentsResponse_error_message x) ∧
  Forall (OngoingTopicReassignment_valid version) (ListPartitionReassignmentsResponse_topics x) ∧
  unknown_valid 0 (ListPartitionReassignmentsResponse_unknown_tagged_fields x).

#[global] Instance ListPartitionReassignmentsResponse_sound version : Sound
    (ListPartitionReassignmentsResponse_codec version) (ListPartitionReassignmentsResponse_valid version).
Proof. solve_message. Qed.

(* @ src/crates/kafka-protocol/src/messages/list_partition_reassignments_response.rs 475-479 ListPartitionReassignmentsResponse::header_version *)
Definition ListPartitionReassignmentsResponse_header_version (version : Z) : Z := 1.

(* @ src/crates/kafka-protocol/src/messages/list_partition_reassignments_response.rs 179-182 ListPartitionReassignmentsResponse::VERSIONS *)
Definition ListPartitionReassignmentsResponse_VERSIONS : Z * Z := (0, 0).

(** ** [push_telemetry_request] *)

(* @ src/crates/kafka-protocol/src/messages/push_telemetry_request.rs 20-51 PushTelemetryRequest *)
Record PushTelemetryRequest : Type := mkPushTelemetryRequest {
  PushTelemetryRequest_client_instance_id : Z;
  PushTelemetryRequest_subscription_id : Z;
  PushTelemetryRequest_terminating : bool;
  PushTelemetryRequest_compression_type : Z;
  PushTelemetryRequest_metrics : list byte;
  PushTelemetryRequest_unknown_tagged_fields : TaggedFields
}.

(* @ src/crates/kafka-protocol/src/messages/push_telemetry_request.rs 185-196 PushTelemetryRequest::default *)
Definition PushTelemetryRequest_default : PushTelemetryRequest := {|
  PushTelemetryRequest_client_instance_id := 0;
  PushTelemetryRequest_subscription_id := 0;
  PushTelemetryRequest_terminating := false;
  PushTelemetryRequest_compression_type := 0;
  PushTelemetryRequest_metrics := [];
  PushTelemetryRequest_unknown_tagged_fields := ∅
|}.

(* @ src/crates/kafka-protocol/src/messages/push_telemetry_request.rs 111-183 PushTelemetryRequest::encode, compute_size, decode *)
Definition PushTelemetryRequest_codec (version : Z) : Codec PushTelemetryRequest :=
  message 0 0 version (build mkPushTelemetryRequest
    ⊛ (field PushTelemetryRequest_client_instance_id Uuid)
    ⊛ (field PushTelemetryRequest_subscription_id Int32)
    ⊛ (field PushTelemetryRequest_terminating Boolean)
    ⊛ (field PushTelemetryRequest_compression_type Int8)
    ⊛ (field PushTelemetryRequest_metrics CompactBytes)
    ⊛ unknown_tags true PushTelemetryRequest_unknown_tagged_fields).

Definition PushTelemetryRequest_valid (version : Z) (x : PushTelemetryRequest) : Prop :=
  in_unsigned 128 (PushTelemetryRequest_client_instance_id x) ∧
  in_signed 32 (PushTelemetryRequest_subscription_id x) ∧
  in_signed 8 (PushTelemetryRequest_compression_type x) ∧
  unknown_valid 0 (PushTelemetryRequest_unknown_tagged_fields x).

#[global] Instance PushTelemetryRequest_sound version : Sound (PushTelemetryRequest_codec version)
    (PushTelemetryRequest_valid version).
Proof. solve_message. Qed.

(* @ src/crates/kafka-protocol/src/messages/push_telemetry_request.rs 203-207 PushTelemetryRequest::header_version *)
Definition PushTelemetryRequest_header_version (version : Z) : Z := 2.

(* @ src/crates/kafka-protocol/src/messages/push_telemetry_request.rs 198-201 PushTelemetryRequest::VERSIONS *)
Definition PushTelemetryRequest_VERSIONS : Z * Z := (0, 0).

(** ** [push_telemetry_response] *)

(* @ src/crates/kafka-protocol/src/messages/push_telemetry_response.rs 20-36 PushTelemetryResponse *)
Record PushTelemetryResponse : Type := mkPushTelemetryResponse {
  PushTelemetryResponse_throttle_time_ms : Z;
  PushTelemetryResponse_error_code : Z;
  PushTelemetryResponse_unknown_tagged_fields : TaggedFields
}.

(* @ src/crates/kafka-protocol/src/messages/push_telemetry_response.rs 131-139 PushTelemetryResponse::default *)
Definition PushTelemetryResponse_default : PushTelemetryResponse := {|
  PushTelemetryResponse_throttle_time_ms := 0;
  PushTelemetryResponse_error_code := 0;
  PushTelemetryResponse_unknown_tagged_fields := ∅
|}.

(* @ src/crates/kafka-protocol/src/messages/push_telemetry_response.rs 69-129 PushTelemetryResponse::encode, compute_size, decode *)
Definition PushTelemetryResponse_codec (version : Z) : Codec PushTelemetryResponse :=
  message 0 0 version (build mkPushTelemetryResponse
    ⊛ (field PushTelemetryResponse_throttle_time_ms Int32)
    ⊛ (field PushTelemetryResponse_error_code Int16)
    ⊛ unknown_tags true PushTelemetryResponse_unknown_tagged_fields).

Definition PushTelemetryResponse_valid (version : Z) (x : PushTelemetryResponse) : Prop :=
  in_signed 32 (PushTelemetryResponse_throttle_time_ms x) ∧
  in_signed 16 (PushTelemetryResponse_error_code x) ∧
  unknown_valid 0 (PushTelemetryResponse_unknown_tagged_fields x).

#[global] Instance PushTelemetryResponse_sound version : Sound (PushTelemetryResponse_codec version)
    (PushTelemetryResponse_valid version).
Proof. solve_message. Qed.

(* @ src/crates/kafka-protocol/src/messages/push_telemetry_response.rs 146-150 PushTelemetryResponse::header_version *)
Definition PushTelemetryResponse_header_version (version : Z) : Z := 1.

(* @ src/crates/kafka-protocol/src/messages/push_telemetry_response.rs 141-144 PushTelemetryResponse::VERSIONS *)
Definition PushTelemetryResponse_VERSIONS : Z * Z := (0, 0).
