(* ===== verification/MessagesBuild.v ===== *)
(** * Builders of the responses

    The [with_*] methods of the response structures of the served APIs
    ([src/crates/kafka-protocol/src/messages/*_response.rs]): each returns its
    message with one field replaced.  [x ▷ f] is the method call [x.f()]. *)

From S2P Require Import Prelude Buf Types MessageCodec MessagesData MessagesGroups.
Open Scope Z_scope.

Notation "x ▷ f" := (f x) (at level 62, left associativity, only parsing) : kafka_scope.

(** ** [response_header] *)

(* @ src/crates/kafka-protocol/src/messages/response_header.rs 34-42 ResponseHeader::with_correlation_id *)
Definition ResponseHeader_with_correlation_id (value : Z) (self : ResponseHeader) : ResponseHeader :=
  mkResponseHeader value (ResponseHeader_unknown_tagged_fields self).

(** ** [produce_response] *)

(* @ src/crates/kafka-protocol/src/messages/produce_response.rs 39-47 BatchIndexAndErrorMessage::with_batch_index *)
Definition BatchIndexAndErrorMessage_with_batch_index (value : Z) (self : BatchIndexAndErrorMessage) :
    BatchIndexAndErrorMessage :=
  mkBatchIndexAndErrorMessage value (BatchIndexAndErrorMessage_batch_index_error_message self)
      (BatchIndexAndErrorMessage_unknown_tagged_fields self).

(* @ src/crates/kafka-protocol/src/messages/produce_response.rs 48-56 BatchIndexAndErrorMessage::with_batch_index_error_message *)
Definition BatchIndexAndErrorMessage_with_batch_index_error_message (value : option (list byte)) (self :
    BatchIndexAndErrorMessage) : BatchIndexAndErrorMessage :=
  mkBatchIndexAndErrorMessage (BatchIndexAndErrorMessage_batch_index self) value
      (BatchIndexAndErrorMessage_unknown_tagged_fields self).

(* @ src/crates/kafka-protocol/src/messages/produce_response.rs 215-223 LeaderIdAndEpoch::with_leader_id *)
Definition ProduceResponse_LeaderIdAndEpoch_with_leader_id (value : Z) (self :
    ProduceResponse_LeaderIdAndEpoch) : ProduceResponse_LeaderIdAndEpoch :=
  mkProduceResponse_LeaderIdAndEpoch value (ProduceResponse_LeaderIdAndEpoch_leader_epoch self)
      (ProduceResponse_LeaderIdAndEpoch_unknown_tagged_fields self).

(* @ src/crates/kafka-protocol/src/messages/produce_response.rs 224-232 LeaderIdAndEpoch::with_leader_epoch *)
Definition ProduceResponse_LeaderIdAndEpoch_with_leader_epoch (value : Z) (self :
    ProduceResponse_LeaderIdAndEpoch) : ProduceResponse_LeaderIdAndEpoch :=
  mkProduceResponse_LeaderIdAndEpoch (ProduceResponse_LeaderIdAndEpoch_leader_id self) value
      (ProduceResponse_LeaderIdAndEpoch_unknown_tagged_fields self).

(* @ src/crates/kafka-protocol/src/messages/produce_response.rs 389-397 NodeEndpoint::with_node_id *)
Definition ProduceResponse_NodeEndpoint_with_node_id (value : Z) (self : ProduceResponse_NodeEndpoint) :
    ProduceResponse_NodeEndpoint :=
  mkProduceResponse_NodeEndpoint value (ProduceResponse_NodeEndpoint_host self)
      (ProduceResponse_NodeEndpoint_port self) (ProduceResponse_NodeEndpoint_rack self)
      (ProduceResponse_NodeEndpoint_unknown_tagged_fields self).

(* @ src/crates/kafka-protocol/src/messages/produce_response.rs 398-406 NodeEndpoint::with_host *)
Definition ProduceResponse_NodeEndpoint_with_host (value : list byte) (self : ProduceResponse_NodeEndpoint)
    : ProduceResponse_NodeEndpoint :=
  mkProduceResponse_NodeEndpoint (ProduceResponse_NodeEndpoint_node_id self) value
      (ProduceResponse_NodeEndpoint_port self) (ProduceResponse_NodeEndpoint_rack self)
      (ProduceResponse_NodeEndpoint_unknown_tagged_fields self).

(* @ src/crates/kafka-protocol/src/messages/produce_response.rs 407-415 NodeEndpoint::with_port *)
Definition ProduceResponse_NodeEndpoint_with_port (value : Z) (self : ProduceResponse_NodeEndpoint) :
    ProduceResponse_NodeEndpoint :=
  mkProduceResponse_NodeEndpoint (ProduceResponse_NodeEndpoint_node_id self)
      (ProduceResponse_NodeEndpoint_host self) value (ProduceResponse_NodeEndpoint_rack self)
      (ProduceResponse_NodeEndpoint_unknown_tagged_fields self).

(* @ src/crates/kafka-protocol/src/messages/produce_response.rs 416-424 NodeEndpoint::with_rack *)
Definition ProduceResponse_NodeEndpoint_with_rack (value : option (list byte)) (self :
    ProduceResponse_NodeEndpoint) : ProduceResponse_NodeEndpoint :=
  mkProduceResponse_NodeEndpoint (ProduceResponse_NodeEndpoint_node_id self)
      (ProduceResponse_NodeEndpoint_host self) (ProduceResponse_NodeEndpoint_port self) value
      (ProduceResponse_NodeEndpoint_unknown_tagged_fields self).

(* @ src/crates/kafka-protocol/src/messages/produce_response.rs 643-651 PartitionProduceResponse::with_index *)
Definition PartitionProduceResponse_with_index (value : Z) (self : PartitionProduceResponse) :
    PartitionProduceResponse :=
  mkPartitionProduceResponse value (PartitionProduceResponse_error_code self)
      (PartitionProduceResponse_base_offset self) (PartitionProduceResponse_log_append_time_ms self)
      (PartitionProduceResponse_log_start_offset self) (PartitionProduceResponse_record_errors self)
      (PartitionProduceResponse_error_message self) (PartitionProduceResponse_current_leader self)
      (PartitionProduceResponse_unknown_tagged_fields self).

(* @ src/crates/kafka-protocol/src/messages/produce_response.rs 652-660 PartitionProduceResponse::with_error_code *)
Definition PartitionProduceResponse_with_error_code (value : Z) (self : PartitionProduceResponse) :
    PartitionProduceResponse :=
  mkPartitionProduceResponse (PartitionProduceResponse_index self) value
      (PartitionProduceResponse_base_offset self) (PartitionProduceResponse_log_append_time_ms self)
      (PartitionProduceResponse_log_start_offset self) (PartitionProduceResponse_record_errors self)
      (PartitionProduceResponse_error_message self) (PartitionProduceResponse_current_leader self)
      (PartitionProduceResponse_unknown_tagged_fields self).

(* @ src/crates/kafka-protocol/src/messages/produce_response.rs 661-669 PartitionProduceResponse::with_base_offset *)
Definition PartitionProduceResponse_with_base_offset (value : Z) (self : PartitionProduceResponse) :
    PartitionProduceResponse :=
  mkPartitionProduceResponse (PartitionProduceResponse_index self) (PartitionProduceResponse_error_code
      self) value (PartitionProduceResponse_log_append_time_ms self)
      (PartitionProduceResponse_log_start_offset self) (PartitionProduceResponse_record_errors self)
      (PartitionProduceResponse_error_message self) (PartitionProduceResponse_current_leader self)
      (PartitionProduceResponse_unknown_tagged_fields self).

(* @ src/crates/kafka-protocol/src/messages/produce_response.rs 670-678 PartitionProduceResponse::with_log_append_time_ms *)
Definition PartitionProduceResponse_with_log_append_time_ms (value : Z) (self : PartitionProduceResponse) :
    PartitionProduceResponse :=
  mkPartitionProduceResponse (PartitionProduceResponse_index self) (PartitionProduceResponse_error_code
      self) (PartitionProduceResponse_base_offset self) value (PartitionProduceResponse_log_start_offset
      self) (PartitionProduceResponse_record_errors self) (PartitionProduceResponse_error_message self)
      (PartitionProduceResponse_current_leader self) (PartitionProduceResponse_unknown_tagged_fields self).

(* @ src/crates/kafka-protocol/src/messages/produce_response.rs 679-687 PartitionProduceResponse::with_log_start_offset *)
Definition PartitionProduceResponse_with_log_start_offset (value : Z) (self : PartitionProduceResponse) :
    PartitionProduceResponse :=
  mkPartitionProduceResponse (PartitionProduceResponse_index self) (PartitionProduceResponse_error_code
      self) (PartitionProduceResponse_base_offset self) (PartitionProduceResponse_log_append_time_ms self)
      value (PartitionProduceResponse_record_errors self) (PartitionProduceResponse_error_message self)
      (PartitionProduceResponse_current_leader self) (PartitionProduceResponse_unknown_tagged_fields self).

(* @ src/crates/kafka-protocol/src/messages/produce_response.rs 688-696 PartitionProduceResponse::with_record_errors *)
Definition PartitionProduceResponse_with_record_errors (value : list BatchIndexAndErrorMessage) (self :
    PartitionProduceResponse) : PartitionProduceResponse :=
  mkPartitionProduceResponse (PartitionProduceResponse_index self) (PartitionProduceResponse_error_code
      self) (PartitionProduceResponse_base_offset self) (PartitionProduceResponse_log_append_time_ms self)
      (PartitionProduceResponse_log_start_offset self) value (PartitionProduceResponse_error_message self)
      (PartitionProduceResponse_current_leader self) (PartitionProduceResponse_unknown_tagged_fields self).

(* @ src/crates/kafka-protocol/src/messages/produce_response.rs 697-705 PartitionProduceResponse::with_error_message *)
Definition PartitionProduceResponse_with_error_message (value : option (list byte)) (self :
    PartitionProduceResponse) : PartitionProduceResponse :=
  mkPartitionProduceResponse (PartitionProduceResponse_index self) (PartitionProduceResponse_error_code
      self) (PartitionProduceResponse_base_offset self) (PartitionProduceResponse_log_append_time_ms self)
      (PartitionProduceResponse_log_start_offset self) (PartitionProduceResponse_record_errors self) value
      (PartitionProduceResponse_current_leader self) (PartitionProduceResponse_unknown_tagged_fields self).

(* @ src/crates/kafka-protocol/src/messages/produce_response.rs 706-714 PartitionProduceResponse::with_current_leader *)
Definition PartitionProduceResponse_with_current_leader (value : ProduceResponse_LeaderIdAndEpoch) (self :
    PartitionProduceResponse) : PartitionProduceResponse :=
  mkPartitionProduceResponse (PartitionProduceResponse_index self) (PartitionProduceResponse_error_code
      self) (PartitionProduceResponse_base_offset self) (PartitionProduceResponse_log_append_time_ms self)
      (PartitionProduceResponse_log_start_offset self) (PartitionProduceResponse_record_errors self)
      (PartitionProduceResponse_error_message self) value (PartitionProduceResponse_unknown_tagged_fields
      self).

(* @ src/crates/kafka-protocol/src/messages/produce_response.rs 1174-1182 TopicProduceResponse::with_name *)
Definition TopicProduceResponse_with_name (value : list byte) (self : TopicProduceResponse) :
    TopicProduceResponse :=
  mkTopicProduceResponse value (TopicProduceResponse_topic_id self)
      (TopicProduceResponse_partition_responses self) (TopicProduceResponse_unknown_tagged_fields self).

(* @ src/crates/kafka-protocol/src/messages/produce_response.rs 1183-1191 TopicProduceResponse::with_topic_id *)
Definition TopicProduceResponse_with_topic_id (value : Z) (self : TopicProduceResponse) :
    TopicProduceResponse :=
  mkTopicProduceResponse (TopicProduceResponse_name self) value (TopicProduceResponse_partition_responses
      self) (TopicProduceResponse_unknown_tagged_fields self).

(* @ src/crates/kafka-protocol/src/messages/produce_response.rs 1192-1200 TopicProduceResponse::with_partition_responses *)
Definition TopicProduceResponse_with_partition_responses (value : list PartitionProduceResponse) (self :
    TopicProduceResponse) : TopicProduceResponse :=
  mkTopicProduceResponse (TopicProduceResponse_name self) (TopicProduceResponse_topic_id self) value
      (TopicProduceResponse_unknown_tagged_fields self).

(* @ src/crates/kafka-protocol/src/messages/produce_response.rs 961-969 ProduceResponse::with_responses *)
Definition ProduceResponse_with_responses (value : list TopicProduceResponse) (self : ProduceResponse) :
    ProduceResponse :=
  mkProduceResponse value (ProduceResponse_throttle_time_ms self) (ProduceResponse_node_endpoints self)
      (ProduceResponse_unknown_tagged_fields self).

(* @ src/crates/kafka-protocol/src/messages/produce_response.rs 970-978 ProduceResponse::with_throttle_time_ms *)
Definition ProduceResponse_with_throttle_time_ms (value : Z) (self : ProduceResponse) : ProduceResponse :=
  mkProduceResponse (ProduceResponse_responses self) value (ProduceResponse_node_endpoints self)
      (ProduceResponse_unknown_tagged_fields self).

(* @ src/crates/kafka-protocol/src/messages/produce_response.rs 979-987 ProduceResponse::with_node_endpoints *)
Definition ProduceResponse_with_node_endpoints (value : list ProduceResponse_NodeEndpoint) (self :
    ProduceResponse) : ProduceResponse :=
  mkProduceResponse (ProduceResponse_responses self) (ProduceResponse_throttle_time_ms self) value
      (ProduceResponse_unknown_tagged_fields self).

(** ** [fetch_response] *)

(* @ src/crates/kafka-protocol/src/messages/fetch_response.rs 39-47 AbortedTransaction::with_producer_id *)
Definition AbortedTransaction_with_producer_id (value : Z) (self : AbortedTransaction) : AbortedTransaction
    :=
  mkAbortedTransaction value (AbortedTransaction_first_offset self)
      (AbortedTransaction_unknown_tagged_fields self).

(* @ src/crates/kafka-protocol/src/messages/fetch_response.rs 48-56 AbortedTransaction::with_first_offset *)
Definition AbortedTransaction_with_first_offset (value : Z) (self : AbortedTransaction) :
    AbortedTransaction :=
  mkAbortedTransaction (AbortedTransaction_producer_id self) value
      (AbortedTransaction_unknown_tagged_fields self).

(* @ src/crates/kafka-protocol/src/messages/fetch_response.rs 171-179 EpochEndOffset::with_epoch *)
Definition FetchResponse_EpochEndOffset_with_epoch (value : Z) (self : FetchResponse_EpochEndOffset) :
    FetchResponse_EpochEndOffset :=
  mkFetchResponse_EpochEndOffset value (FetchResponse_EpochEndOffset_end_offset self)
      (FetchResponse_EpochEndOffset_unknown_tagged_fields self).

(* @ src/crates/kafka-protocol/src/messages/fetch_response.rs 180-188 EpochEndOffset::with_end_offset *)
Definition FetchResponse_EpochEndOffset_with_end_offset (value : Z) (self : FetchResponse_EpochEndOffset) :
    FetchResponse_EpochEndOffset :=
  mkFetchResponse_EpochEndOffset (FetchResponse_EpochEndOffset_epoch self) value
      (FetchResponse_EpochEndOffset_unknown_tagged_fields self).

(* @ src/crates/kafka-protocol/src/messages/fetch_response.rs 802-810 LeaderIdAndEpoch::with_leader_id *)
Definition FetchResponse_LeaderIdAndEpoch_with_leader_id (value : Z) (self :
    FetchResponse_LeaderIdAndEpoch) : FetchResponse_LeaderIdAndEpoch :=
  mkFetchResponse_LeaderIdAndEpoch value (FetchResponse_LeaderIdAndEpoch_leader_epoch self)
      (FetchResponse_LeaderIdAndEpoch_unknown_tagged_fields self).

(* @ src/crates/kafka-protocol/src/messages/fetch_response.rs 811-819 LeaderIdAndEpoch::with_leader_epoch *)
Definition FetchResponse_LeaderIdAndEpoch_with_leader_epoch (value : Z) (self :
    FetchResponse_LeaderIdAndEpoch) : FetchResponse_LeaderIdAndEpoch :=
  mkFetchResponse_LeaderIdAndEpoch (FetchResponse_LeaderIdAndEpoch_leader_id self) value
      (FetchResponse_LeaderIdAndEpoch_unknown_tagged_fields self).

(* @ src/crates/kafka-protocol/src/messages/fetch_response.rs 1653-1661 SnapshotId::with_end_offset *)
Definition FetchResponse_SnapshotId_with_end_offset (value : Z) (self : FetchResponse_SnapshotId) :
    FetchResponse_SnapshotId :=
  mkFetchResponse_SnapshotId value (FetchResponse_SnapshotId_epoch self)
      (FetchResponse_SnapshotId_unknown_tagged_fields self).

(* @ src/crates/kafka-protocol/src/messages/fetch_response.rs 1662-1670 SnapshotId::with_epoch *)
Definition FetchResponse_SnapshotId_with_epoch (value : Z) (self : FetchResponse_SnapshotId) :
    FetchResponse_SnapshotId :=
  mkFetchResponse_SnapshotId (FetchResponse_SnapshotId_end_offset self) value
      (FetchResponse_SnapshotId_unknown_tagged_fields self).

(* @ src/crates/kafka-protocol/src/messages/fetch_response.rs 1245-1253 PartitionData::with_partition_index *)
Definition FetchResponse_PartitionData_with_partition_index (value : Z) (self :
    FetchResponse_PartitionData) : FetchResponse_PartitionData :=
  mkFetchResponse_PartitionData value (FetchResponse_PartitionData_error_code self)
      (FetchResponse_PartitionData_high_watermark self) (FetchResponse_PartitionData_last_stable_offset
      self) (FetchResponse_PartitionData_log_start_offset self)
      (FetchResponse_PartitionData_diverging_epoch self) (FetchResponse_PartitionData_current_leader self)
      (FetchResponse_PartitionData_snapshot_id self) (FetchResponse_PartitionData_aborted_transactions
      self) (FetchResponse_PartitionData_preferred_read_replica self) (FetchResponse_PartitionData_records
      self) (FetchResponse_PartitionData_unknown_tagged_fields self).

(* @ src/crates/kafka-protocol/src/messages/fetch_response.rs 1254-1262 PartitionData::with_error_code *)
Definition FetchResponse_PartitionData_with_error_code (value : Z) (self : FetchResponse_PartitionData) :
    FetchResponse_PartitionData :=
  mkFetchResponse_PartitionData (FetchResponse_PartitionData_partition_index self) value
      (FetchResponse_PartitionData_high_watermark self) (FetchResponse_PartitionData_last_stable_offset
      self) (FetchResponse_PartitionData_log_start_offset self)
      (FetchResponse_PartitionData_diverging_epoch self) (FetchResponse_PartitionData_current_leader self)
      (FetchResponse_PartitionData_snapshot_id self) (FetchResponse_PartitionData_aborted_transactions
      self) (FetchResponse_PartitionData_preferred_read_replica self) (FetchResponse_PartitionData_records
      self) (FetchResponse_PartitionData_unknown_tagged_fields self).

(* @ src/crates/kafka-protocol/src/messages/fetch_response.rs 1263-1271 PartitionData::with_high_watermark *)
Definition FetchResponse_PartitionData_with_high_watermark (value : Z) (self : FetchResponse_PartitionData)
    : FetchResponse_PartitionData :=
  mkFetchResponse_PartitionData (FetchResponse_PartitionData_partition_index self)
      (FetchResponse_PartitionData_error_code self) value (FetchResponse_PartitionData_last_stable_offset
      self) (FetchResponse_PartitionData_log_start_offset self)
      (FetchResponse_PartitionData_diverging_epoch self) (FetchResponse_PartitionData_current_leader self)
      (FetchResponse_PartitionData_snapshot_id self) (FetchResponse_PartitionData_aborted_transactions
      self) (FetchResponse_PartitionData_preferred_read_replica self) (FetchResponse_PartitionData_records
      self) (FetchResponse_PartitionData_unknown_tagged_fields self).

(* @ src/crates/kafka-protocol/src/messages/fetch_response.rs 1272-1280 PartitionData::with_last_stable_offset *)
Definition FetchResponse_PartitionData_with_last_stable_offset (value : Z) (self :
    FetchResponse_PartitionData) : FetchResponse_PartitionData :=
  mkFetchResponse_PartitionData (FetchResponse_PartitionData_partition_index self)
      (FetchResponse_PartitionData_error_code self) (FetchResponse_PartitionData_high_watermark self) value
      (FetchResponse_PartitionData_log_start_offset self) (FetchResponse_PartitionData_diverging_epoch
      self) (FetchResponse_PartitionData_current_leader self) (FetchResponse_PartitionData_snapshot_id
      self) (FetchResponse_PartitionData_aborted_transactions self)
      (FetchResponse_PartitionData_preferred_read_replica self) (FetchResponse_PartitionData_records self)
      (FetchResponse_PartitionData_unknown_tagged_fields self).

(* @ src/crates/kafka-protocol/src/messages/fetch_response.rs 1281-1289 PartitionData::with_log_start_offset *)
Definition FetchResponse_PartitionData_with_log_start_offset (value : Z) (self :
    FetchResponse_PartitionData) : FetchResponse_PartitionData :=
  mkFetchResponse_PartitionData (FetchResponse_PartitionData_partition_index self)
      (FetchResponse_PartitionData_error_code self) (FetchResponse_PartitionData_high_watermark self)
      (FetchResponse_PartitionData_last_stable_offset self) value
      (FetchResponse_PartitionData_diverging_epoch self) (FetchResponse_PartitionData_current_leader self)
      (FetchResponse_PartitionData_snapshot_id self) (FetchResponse_PartitionData_aborted_transactions
      self) (FetchResponse_PartitionData_preferred_read_replica self) (FetchResponse_PartitionData_records
      self) (FetchResponse_PartitionData_unknown_tagged_fields self).

(* @ src/crates/kafka-protocol/src/messages/fetch_response.rs 1290-1298 PartitionData::with_diverging_epoch *)
Definition FetchResponse_PartitionData_with_diverging_epoch (value : FetchResponse_EpochEndOffset) (self :
    FetchResponse_PartitionData) : FetchResponse_PartitionData :=
  mkFetchResponse_PartitionData (FetchResponse_PartitionData_partition_index self)
      (FetchResponse_PartitionData_error_code self) (FetchResponse_PartitionData_high_watermark self)
      (FetchResponse_PartitionData_last_stable_offset self) (FetchResponse_PartitionData_log_start_offset
      self) value (FetchResponse_PartitionData_current_leader self)
      (FetchResponse_PartitionData_snapshot_id self) (FetchResponse_PartitionData_aborted_transactions
      self) (FetchResponse_PartitionData_preferred_read_replica self) (FetchResponse_PartitionData_records
      self) (FetchResponse_PartitionData_unknown_tagged_fields self).

(* @ src/crates/kafka-protocol/src/messages/fetch_response.rs 1299-1307 PartitionData::with_current_leader *)
Definition FetchResponse_PartitionData_with_current_leader (value : FetchResponse_LeaderIdAndEpoch) (self :
    FetchResponse_PartitionData) : FetchResponse_PartitionData :=
  mkFetchResponse_PartitionData (FetchResponse_PartitionData_partition_index self)
      (FetchResponse_PartitionData_error_code self) (FetchResponse_PartitionData_high_watermark self)
      (FetchResponse_PartitionData_last_stable_offset self) (FetchResponse_PartitionData_log_start_offset
      self) (FetchResponse_PartitionData_diverging_epoch self) value
      (FetchResponse_PartitionData_snapshot_id self) (FetchResponse_PartitionData_aborted_transactions
      self) (FetchResponse_PartitionData_preferred_read_replica self) (FetchResponse_PartitionData_records
      self) (FetchResponse_PartitionData_unknown_tagged_fields self).

(* @ src/crates/kafka-protocol/src/messages/fetch_response.rs 1308-1316 PartitionData::with_snapshot_id *)
Definition FetchResponse_PartitionData_with_snapshot_id (value : FetchResponse_SnapshotId) (self :
    FetchResponse_PartitionData) : FetchResponse_PartitionData :=
  mkFetchResponse_PartitionData (FetchResponse_PartitionData_partition_index self)
      (FetchResponse_PartitionData_error_code self) (FetchResponse_PartitionData_high_watermark self)
      (FetchResponse_PartitionData_last_stable_offset self) (FetchResponse_PartitionData_log_start_offset
      self) (FetchResponse_PartitionData_diverging_epoch self) (FetchResponse_PartitionData_current_leader
      self) value (FetchResponse_PartitionData_aborted_transactions self)
      (FetchResponse_PartitionData_preferred_read_replica self) (FetchResponse_PartitionData_records self)
      (FetchResponse_PartitionData_unknown_tagged_fields self).

(* @ src/crates/kafka-protocol/src/messages/fetch_response.rs 1317-1325 PartitionData::with_aborted_transactions *)
Definition FetchResponse_PartitionData_with_aborted_transactions (value : option (list AbortedTransaction))
    (self : FetchResponse_PartitionData) : FetchResponse_PartitionData :=
  mkFetchResponse_PartitionData (FetchResponse_PartitionData_partition_index self)
      (FetchResponse_PartitionData_error_code self) (FetchResponse_PartitionData_high_watermark self)
      (FetchResponse_PartitionData_last_stable_offset self) (FetchResponse_PartitionData_log_start_offset
      self) (FetchResponse_PartitionData_diverging_epoch self) (FetchResponse_PartitionData_current_leader
      self) (FetchResponse_PartitionData_snapshot_id self) value
      (FetchResponse_PartitionData_preferred_read_replica self) (FetchResponse_PartitionData_records self)
      (FetchResponse_PartitionData_unknown_tagged_fields self).

(* @ src/crates/kafka-protocol/src/messages/fetch_response.rs 1326-1334 PartitionData::with_preferred_read_replica *)
Definition FetchResponse_PartitionData_with_preferred_read_replica (value : Z) (self :
    FetchResponse_PartitionData) : FetchResponse_PartitionData :=
  mkFetchResponse_PartitionData (FetchResponse_PartitionData_partition_index self)
      (FetchResponse_PartitionData_error_code self) (FetchResponse_PartitionData_high_watermark self)
      (FetchResponse_PartitionData_last_stable_offset self) (FetchResponse_PartitionData_log_start_offset
      self) (FetchResponse_PartitionData_diverging_epoch self) (FetchResponse_PartitionData_current_leader
      self) (FetchResponse_PartitionData_snapshot_id self)
      (FetchResponse_PartitionData_aborted_transactions self) value (FetchResponse_PartitionData_records
      self) (FetchResponse_PartitionData_unknown_tagged_fields self).

(* @ src/crates/kafka-protocol/src/messages/fetch_response.rs 1335-1343 PartitionData::with_records *)
Definition FetchResponse_PartitionData_with_records (value : option (list byte)) (self :
    FetchResponse_PartitionData) : FetchResponse_PartitionData :=
  mkFetchResponse_PartitionData (FetchResponse_PartitionData_partition_index self)
      (FetchResponse_PartitionData_error_code self) (FetchResponse_PartitionData_high_watermark self)
      (FetchResponse_PartitionData_last_stable_offset self) (FetchResponse_PartitionData_log_start_offset
      self) (FetchResponse_PartitionData_diverging_epoch self) (FetchResponse_PartitionData_current_leader
      self) (FetchResponse_PartitionData_snapshot_id self)
      (FetchResponse_PartitionData_aborted_transactions self)
      (FetchResponse_PartitionData_preferred_read_replica self) value
      (FetchResponse_PartitionData_unknown_tagged_fields self).

(* @ src/crates/kafka-protocol/src/messages/fetch_response.rs 615-623 FetchableTopicResponse::with_topic *)
Definition FetchableTopicResponse_with_topic (value : list byte) (self : FetchableTopicResponse) :
    FetchableTopicResponse :=
  mkFetchableTopicResponse value (FetchableTopicResponse_topic_id self) (FetchableTopicResponse_partitions
      self) (FetchableTopicResponse_unknown_tagged_fields self).

(* @ src/crates/kafka-protocol/src/messages/fetch_response.rs 624-632 FetchableTopicResponse::with_topic_id *)
Definition FetchableTopicResponse_with_topic_id (value : Z) (self : FetchableTopicResponse) :
    FetchableTopicResponse :=
  mkFetchableTopicResponse (FetchableTopicResponse_topic self) value (FetchableTopicResponse_partitions
      self) (FetchableTopicResponse_unknown_tagged_fields self).

(* @ src/crates/kafka-protocol/src/messages/fetch_response.rs 633-641 FetchableTopicResponse::with_partitions *)
Definition FetchableTopicResponse_with_partitions (value : list FetchResponse_PartitionData) (self :
    FetchableTopicResponse) : FetchableTopicResponse :=
  mkFetchableTopicResponse (FetchableTopicResponse_topic self) (FetchableTopicResponse_topic_id self) value
      (FetchableTopicResponse_unknown_tagged_fields self).

(* @ src/crates/kafka-protocol/src/messages/fetch_response.rs 976-984 NodeEndpoint::with_node_id *)
Definition FetchResponse_NodeEndpoint_with_node_id (value : Z) (self : FetchResponse_NodeEndpoint) :
    FetchResponse_NodeEndpoint :=
  mkFetchResponse_NodeEndpoint value (FetchResponse_NodeEndpoint_host self)
      (FetchResponse_NodeEndpoint_port self) (FetchResponse_NodeEndpoint_rack self)
      (FetchResponse_NodeEndpoint_unknown_tagged_fields self).

(* @ src/crates/kafka-protocol/src/messages/fetch_response.rs 985-993 NodeEndpoint::with_host *)
Definition FetchResponse_NodeEndpoint_with_host (value : list byte) (self : FetchResponse_NodeEndpoint) :
    FetchResponse_NodeEndpoint :=
  mkFetchResponse_NodeEndpoint (FetchResponse_NodeEndpoint_node_id self) value
      (FetchResponse_NodeEndpoint_port self) (FetchResponse_NodeEndpoint_rack self)
      (FetchResponse_NodeEndpoint_unknown_tagged_fields self).

(* @ src/crates/kafka-protocol/src/messages/fetch_response.rs 994-1002 NodeEndpoint::with_port *)
Definition FetchResponse_NodeEndpoint_with_port (value : Z) (self : FetchResponse_NodeEndpoint) :
    FetchResponse_NodeEndpoint :=
  mkFetchResponse_NodeEndpoint (FetchResponse_NodeEndpoint_node_id self) (FetchResponse_NodeEndpoint_host
      self) value (FetchResponse_NodeEndpoint_rack self) (FetchResponse_NodeEndpoint_unknown_tagged_fields
      self).

(* @ src/crates/kafka-protocol/src/messages/fetch_response.rs 1003-1011 NodeEndpoint::with_rack *)
Definition FetchResponse_NodeEndpoint_with_rack (value : option (list byte)) (self :
    FetchResponse_NodeEndpoint) : FetchResponse_NodeEndpoint :=
  mkFetchResponse_NodeEndpoint (FetchResponse_NodeEndpoint_node_id self) (FetchResponse_NodeEndpoint_host
      self) (FetchResponse_NodeEndpoint_port self) value (FetchResponse_NodeEndpoint_unknown_tagged_fields
      self).

(* @ src/crates/kafka-protocol/src/messages/fetch_response.rs 350-358 FetchResponse::with_throttle_time_ms *)
Definition FetchResponse_with_throttle_time_ms (value : Z) (self : FetchResponse) : FetchResponse :=
  mkFetchResponse value (FetchResponse_error_code self) (FetchResponse_session_id self)
      (FetchResponse_responses self) (FetchResponse_node_endpoints self)
      (FetchResponse_unknown_tagged_fields self).

(* @ src/crates/kafka-protocol/src/messages/fetch_response.rs 359-367 FetchResponse::with_error_code *)
Definition FetchResponse_with_error_code (value : Z) (self : FetchResponse) : FetchResponse :=
  mkFetchResponse (FetchResponse_throttle_time_ms self) value (FetchResponse_session_id self)
      (FetchResponse_responses self) (FetchResponse_node_endpoints self)
      (FetchResponse_unknown_tagged_fields self).

(* @ src/crates/kafka-protocol/src/messages/fetch_response.rs 368-376 FetchResponse::with_session_id *)
Definition FetchResponse_with_session_id (value : Z) (self : FetchResponse) : FetchResponse :=
  mkFetchResponse (FetchResponse_throttle_time_ms self) (FetchResponse_error_code self) value
      (FetchResponse_responses self) (FetchResponse_node_endpoints self)
      (FetchResponse_unknown_tagged_fields self).

(* @ src/crates/kafka-protocol/src/messages/fetch_response.rs 377-385 FetchResponse::with_responses *)
Definition FetchResponse_with_responses (value : list FetchableTopicResponse) (self : FetchResponse) :
    FetchResponse :=
  mkFetchResponse (FetchResponse_throttle_time_ms self) (FetchResponse_error_code self)
      (FetchResponse_session_id self) value (FetchResponse_node_endpoints self)
      (FetchResponse_unknown_tagged_fields self).

(* @ src/crates/kafka-protocol/src/messages/fetch_response.rs 386-394 FetchResponse::with_node_endpoints *)
Definition FetchResponse_with_node_endpoints (value : list FetchResponse_NodeEndpoint) (self :
    FetchResponse) : FetchResponse :=
  mkFetchResponse (FetchResponse_throttle_time_ms self) (FetchResponse_error_code self)
      (FetchResponse_session_id self) (FetchResponse_responses self) value
      (FetchResponse_unknown_tagged_fields self).

(** ** [list_offsets_response] *)

(* @ src/crates/kafka-protocol/src/messages/list_offsets_response.rs 54-62 ListOffsetsPartitionResponse::with_partition_index *)
Definition ListOffsetsPartitionResponse_with_partition_index (value : Z) (self :
    ListOffsetsPartitionResponse) : ListOffsetsPartitionResponse :=
  mkListOffsetsPartitionResponse value (ListOffsetsPartitionResponse_error_code self)
      (ListOffsetsPartitionResponse_timestamp self) (ListOffsetsPartitionResponse_offset self)
      (ListOffsetsPartitionResponse_leader_epoch self) (ListOffsetsPartitionResponse_unknown_tagged_fields
      self).

(* @ src/crates/kafka-protocol/src/messages/list_offsets_response.rs 63-71 ListOffsetsPartitionResponse::with_error_code *)
Definition ListOffsetsPartitionResponse_with_error_code (value : Z) (self : ListOffsetsPartitionResponse) :
    ListOffsetsPartitionResponse :=
  mkListOffsetsPartitionResponse (ListOffsetsPartitionResponse_partition_index self) value
      (ListOffsetsPartitionResponse_timestamp self) (ListOffsetsPartitionResponse_offset self)
      (ListOffsetsPartitionResponse_leader_epoch self) (ListOffsetsPartitionResponse_unknown_tagged_fields
      self).

(* @ src/crates/kafka-protocol/src/messages/list_offsets_response.rs 72-80 ListOffsetsPartitionResponse::with_timestamp *)
Definition ListOffsetsPartitionResponse_with_timestamp (value : Z) (self : ListOffsetsPartitionResponse) :
    ListOffsetsPartitionResponse :=
  mkListOffsetsPartitionResponse (ListOffsetsPartitionResponse_partition_index self)
      (ListOffsetsPartitionResponse_error_code self) value (ListOffsetsPartitionResponse_offset self)
      (ListOffsetsPartitionResponse_leader_epoch self) (ListOffsetsPartitionResponse_unknown_tagged_fields
      self).

(* @ src/crates/kafka-protocol/src/messages/list_offsets_response.rs 81-89 ListOffsetsPartitionResponse::with_offset *)
Definition ListOffsetsPartitionResponse_with_offset (value : Z) (self : ListOffsetsPartitionResponse) :
    ListOffsetsPartitionResponse :=
  mkListOffsetsPartitionResponse (ListOffsetsPartitionResponse_partition_index self)
      (ListOffsetsPartitionResponse_error_code self) (ListOffsetsPartitionResponse_timestamp self) value
      (ListOffsetsPartitionResponse_leader_epoch self) (ListOffsetsPartitionResponse_unknown_tagged_fields
      self).

(* @ src/crates/kafka-protocol/src/messages/list_offsets_response.rs 90-98 ListOffsetsPartitionResponse::with_leader_epoch *)
Definition ListOffsetsPartitionResponse_with_leader_epoch (value : Z) (self : ListOffsetsPartitionResponse)
    : ListOffsetsPartitionResponse :=
  mkListOffsetsPartitionResponse (ListOffsetsPartitionResponse_partition_index self)
      (ListOffsetsPartitionResponse_error_code self) (ListOffsetsPartitionResponse_timestamp self)
      (ListOffsetsPartitionResponse_offset self) value (ListOffsetsPartitionResponse_unknown_tagged_fields
      self).

(* @ src/crates/kafka-protocol/src/messages/list_offsets_response.rs 397-405 ListOffsetsTopicResponse::with_name *)
Definition ListOffsetsTopicResponse_with_name (value : list byte) (self : ListOffsetsTopicResponse) :
    ListOffsetsTopicResponse :=
  mkListOffsetsTopicResponse value (ListOffsetsTopicResponse_partitions self)
      (ListOffsetsTopicResponse_unknown_tagged_fields self).

(* @ src/crates/kafka-protocol/src/messages/list_offsets_response.rs 406-414 ListOffsetsTopicResponse::with_partitions *)
Definition ListOffsetsTopicResponse_with_partitions (value : list ListOffsetsPartitionResponse) (self :
    ListOffsetsTopicResponse) : ListOffsetsTopicResponse :=
  mkListOffsetsTopicResponse (ListOffsetsTopicResponse_name self) value
      (ListOffsetsTopicResponse_unknown_tagged_fields self).

(* @ src/crates/kafka-protocol/src/messages/list_offsets_response.rs 244-252 ListOffsetsResponse::with_throttle_time_ms *)
Definition ListOffsetsResponse_with_throttle_time_ms (value : Z) (self : ListOffsetsResponse) :
    ListOffsetsResponse :=
  mkListOffsetsResponse value (ListOffsetsResponse_topics self) (ListOffsetsResponse_unknown_tagged_fields
      self).

(* @ src/crates/kafka-protocol/src/messages/list_offsets_response.rs 253-261 ListOffsetsResponse::with_topics *)
Definition ListOffsetsResponse_with_topics (value : list ListOffsetsTopicResponse) (self :
    ListOffsetsResponse) : ListOffsetsResponse :=
  mkListOffsetsResponse (ListOffsetsResponse_throttle_time_ms self) value
      (ListOffsetsResponse_unknown_tagged_fields self).

(** ** [metadata_response] *)

(* @ src/crates/kafka-protocol/src/messages/metadata_response.rs 362-370 MetadataResponseBroker::with_node_id *)
Definition MetadataResponseBroker_with_node_id (value : Z) (self : MetadataResponseBroker) :
    MetadataResponseBroker :=
  mkMetadataResponseBroker value (MetadataResponseBroker_host self) (MetadataResponseBroker_port self)
      (MetadataResponseBroker_rack self) (MetadataResponseBroker_unknown_tagged_fields self).

(* @ src/crates/kafka-protocol/src/messages/metadata_response.rs 371-379 MetadataResponseBroker::with_host *)
Definition MetadataResponseBroker_with_host (value : list byte) (self : MetadataResponseBroker) :
    MetadataResponseBroker :=
  mkMetadataResponseBroker (MetadataResponseBroker_node_id self) value (MetadataResponseBroker_port self)
      (MetadataResponseBroker_rack self) (MetadataResponseBroker_unknown_tagged_fields self).

(* @ src/crates/kafka-protocol/src/messages/metadata_response.rs 380-388 MetadataResponseBroker::with_port *)
Definition MetadataResponseBroker_with_port (value : Z) (self : MetadataResponseBroker) :
    MetadataResponseBroker :=
  mkMetadataResponseBroker (MetadataResponseBroker_node_id self) (MetadataResponseBroker_host self) value
      (MetadataResponseBroker_rack self) (MetadataResponseBroker_unknown_tagged_fields self).

(* @ src/crates/kafka-protocol/src/messages/metadata_response.rs 389-397 MetadataResponseBroker::with_rack *)
Definition MetadataResponseBroker_with_rack (value : option (list byte)) (self : MetadataResponseBroker) :
    MetadataResponseBroker :=
  mkMetadataResponseBroker (MetadataResponseBroker_node_id self) (MetadataResponseBroker_host self)
      (MetadataResponseBroker_port self) value (MetadataResponseBroker_unknown_tagged_fields self).

(* @ src/crates/kafka-protocol/src/messages/metadata_response.rs 579-587 MetadataResponsePartition::with_error_code *)
Definition MetadataResponsePartition_with_error_code (value : Z) (self : MetadataResponsePartition) :
    MetadataResponsePartition :=
  mkMetadataResponsePartition value (MetadataResponsePartition_partition_index self)
      (MetadataResponsePartition_leader_id self) (MetadataResponsePartition_leader_epoch self)
      (MetadataResponsePartition_replica_nodes self) (MetadataResponsePartition_isr_nodes self)
      (MetadataResponsePartition_offline_replicas self) (MetadataResponsePartition_unknown_tagged_fields
      self).

(* @ src/crates/kafka-protocol/src/messages/metadata_response.rs 588-596 MetadataResponsePartition::with_partition_index *)
Definition MetadataResponsePartition_with_partition_index (value : Z) (self : MetadataResponsePartition) :
    MetadataResponsePartition :=
  mkMetadataResponsePartition (MetadataResponsePartition_error_code self) value
      (MetadataResponsePartition_leader_id self) (MetadataResponsePartition_leader_epoch self)
      (MetadataResponsePartition_replica_nodes self) (MetadataResponsePartition_isr_nodes self)
      (MetadataResponsePartition_offline_replicas self) (MetadataResponsePartition_unknown_tagged_fields
      self).

(* @ src/crates/kafka-protocol/src/messages/metadata_response.rs 597-605 MetadataResponsePartition::with_leader_id *)
Definition MetadataResponsePartition_with_leader_id (value : Z) (self : MetadataResponsePartition) :
    MetadataResponsePartition :=
  mkMetadataResponsePartition (MetadataResponsePartition_error_code self)
      (MetadataResponsePartition_partition_index self) value (MetadataResponsePartition_leader_epoch self)
      (MetadataResponsePartition_replica_nodes self) (MetadataResponsePartition_isr_nodes self)
      (MetadataResponsePartition_offline_replicas self) (MetadataResponsePartition_unknown_tagged_fields
      self).

(* @ src/crates/kafka-protocol/src/messages/metadata_response.rs 606-614 MetadataResponsePartition::with_leader_epoch *)
Definition MetadataResponsePartition_with_leader_epoch (value : Z) (self : MetadataResponsePartition) :
    MetadataResponsePartition :=
  mkMetadataResponsePartition (MetadataResponsePartition_error_code self)
      (MetadataResponsePartition_partition_index self) (MetadataResponsePartition_leader_id self) value
      (MetadataResponsePartition_replica_nodes self) (MetadataResponsePartition_isr_nodes self)
      (MetadataResponsePartition_offline_replicas self) (MetadataResponsePartition_unknown_tagged_fields
      self).

(* @ src/crates/kafka-protocol/src/messages/metadata_response.rs 615-623 MetadataResponsePartition::with_replica_nodes *)
Definition MetadataResponsePartition_with_replica_nodes (value : list Z) (self : MetadataResponsePartition)
    : MetadataResponsePartition :=
  mkMetadataResponsePartition (MetadataResponsePartition_error_code self)
      (MetadataResponsePartition_partition_index self) (MetadataResponsePartition_leader_id self)
      (MetadataResponsePartition_leader_epoch self) value (MetadataResponsePartition_isr_nodes self)
      (MetadataResponsePartition_offline_replicas self) (MetadataResponsePartition_unknown_tagged_fields
      self).

(* @ src/crates/kafka-protocol/src/messages/metadata_response.rs 624-632 MetadataResponsePartition::with_isr_nodes *)
Definition MetadataResponsePartition_with_isr_nodes (value : list Z) (self : MetadataResponsePartition) :
    MetadataResponsePartition :=
  mkMetadataResponsePartition (MetadataResponsePartition_error_code self)
      (MetadataResponsePartition_partition_index self) (MetadataResponsePartition_leader_id self)
      (MetadataResponsePartition_leader_epoch self) (MetadataResponsePartition_replica_nodes self) value
      (MetadataResponsePartition_offline_replicas self) (MetadataResponsePartition_unknown_tagged_fields
      self).

(* @ src/crates/kafka-protocol/src/messages/metadata_response.rs 633-641 MetadataResponsePartition::with_offline_replicas *)
Definition MetadataResponsePartition_with_offline_replicas (value : list Z) (self :
    MetadataResponsePartition) : MetadataResponsePartition :=
  mkMetadataResponsePartition (MetadataResponsePartition_error_code self)
      (MetadataResponsePartition_partition_index self) (MetadataResponsePartition_leader_id self)
      (MetadataResponsePartition_leader_epoch self) (MetadataResponsePartition_replica_nodes self)
      (MetadataResponsePartition_isr_nodes self) value (MetadataResponsePartition_unknown_tagged_fields
      self).

(* @ src/crates/kafka-protocol/src/messages/metadata_response.rs 854-862 MetadataResponseTopic::with_error_code *)
Definition MetadataResponseTopic_with_error_code (value : Z) (self : MetadataResponseTopic) :
    MetadataResponseTopic :=
  mkMetadataResponseTopic value (MetadataResponseTopic_name self) (MetadataResponseTopic_topic_id self)
      (MetadataResponseTopic_is_internal self) (MetadataResponseTopic_partitions self)
      (MetadataResponseTopic_topic_authorized_operations self) (MetadataResponseTopic_unknown_tagged_fields
      self).

(* @ src/crates/kafka-protocol/src/messages/metadata_response.rs 863-871 MetadataResponseTopic::with_name *)
Definition MetadataResponseTopic_with_name (value : option (list byte)) (self : MetadataResponseTopic) :
    MetadataResponseTopic :=
  mkMetadataResponseTopic (MetadataResponseTopic_error_code self) value (MetadataResponseTopic_topic_id
      self) (MetadataResponseTopic_is_internal self) (MetadataResponseTopic_partitions self)
      (MetadataResponseTopic_topic_authorized_operations self) (MetadataResponseTopic_unknown_tagged_fields
      self).

(* @ src/crates/kafka-protocol/src/messages/metadata_response.rs 872-880 MetadataResponseTopic::with_topic_id *)
Definition MetadataResponseTopic_with_topic_id (value : Z) (self : MetadataResponseTopic) :
    MetadataResponseTopic :=
  mkMetadataResponseTopic (MetadataResponseTopic_error_code self) (MetadataResponseTopic_name self) value
      (MetadataResponseTopic_is_internal self) (MetadataResponseTopic_partitions self)
      (MetadataResponseTopic_topic_authorized_operations self) (MetadataResponseTopic_unknown_tagged_fields
      self).

(* @ src/crates/kafka-protocol/src/messages/metadata_response.rs 881-889 MetadataResponseTopic::with_is_internal *)
Definition MetadataResponseTopic_with_is_internal (value : bool) (self : MetadataResponseTopic) :
    MetadataResponseTopic :=
  mkMetadataResponseTopic (MetadataResponseTopic_error_code self) (MetadataResponseTopic_name self)
      (MetadataResponseTopic_topic_id self) value (MetadataResponseTopic_partitions self)
      (MetadataResponseTopic_topic_authorized_operations self) (MetadataResponseTopic_unknown_tagged_fields
      self).

(* @ src/crates/kafka-protocol/src/messages/metadata_response.rs 890-898 MetadataResponseTopic::with_partitions *)
Definition MetadataResponseTopic_with_partitions (value : list MetadataResponsePartition) (self :
    MetadataResponseTopic) : MetadataResponseTopic :=
  mkMetadataResponseTopic (MetadataResponseTopic_error_code self) (MetadataResponseTopic_name self)
      (MetadataResponseTopic_topic_id self) (MetadataResponseTopic_is_internal self) value
      (MetadataResponseTopic_topic_authorized_operations self) (MetadataResponseTopic_unknown_tagged_fields
      self).

(* @ src/crates/kafka-protocol/src/messages/metadata_response.rs 899-907 MetadataResponseTopic::with_topic_authorized_operations *)
Definition MetadataResponseTopic_with_topic_authorized_operations (value : Z) (self :
    MetadataResponseTopic) : MetadataResponseTopic :=
  mkMetadataResponseTopic (MetadataResponseTopic_error_code self) (MetadataResponseTopic_name self)
      (MetadataResponseTopic_topic_id self) (MetadataResponseTopic_is_internal self)
      (MetadataResponseTopic_partitions self) value (MetadataResponseTopic_unknown_tagged_fields self).

(* @ src/crates/kafka-protocol/src/messages/metadata_response.rs 64-72 MetadataResponse::with_throttle_time_ms *)
Definition MetadataResponse_with_throttle_time_ms (value : Z) (self : MetadataResponse) : MetadataResponse
    :=
  mkMetadataResponse value (MetadataResponse_brokers self) (MetadataResponse_cluster_id self)
      (MetadataResponse_controller_id self) (MetadataResponse_topics self)
      (MetadataResponse_cluster_authorized_operations self) (MetadataResponse_error_code self)
      (MetadataResponse_unknown_tagged_fields self).

(* @ src/crates/kafka-protocol/src/messages/metadata_response.rs 73-81 MetadataResponse::with_brokers *)
Definition MetadataResponse_with_brokers (value : list MetadataResponseBroker) (self : MetadataResponse) :
    MetadataResponse :=
  mkMetadataResponse (MetadataResponse_throttle_time_ms self) value (MetadataResponse_cluster_id self)
      (MetadataResponse_controller_id self) (MetadataResponse_topics self)
      (MetadataResponse_cluster_authorized_operations self) (MetadataResponse_error_code self)
      (MetadataResponse_unknown_tagged_fields self).

(* @ src/crates/kafka-protocol/src/messages/metadata_response.rs 82-90 MetadataResponse::with_cluster_id *)
Definition MetadataResponse_with_cluster_id (value : option (list byte)) (self : MetadataResponse) :
    MetadataResponse :=
  mkMetadataResponse (MetadataResponse_throttle_time_ms self) (MetadataResponse_brokers self) value
      (MetadataResponse_controller_id self) (MetadataResponse_topics self)
      (MetadataResponse_cluster_authorized_operations self) (MetadataResponse_error_code self)
      (MetadataResponse_unknown_tagged_fields self).

(* @ src/crates/kafka-protocol/src/messages/metadata_response.rs 91-99 MetadataResponse::with_controller_id *)
Definition MetadataResponse_with_controller_id (value : Z) (self : MetadataResponse) : MetadataResponse :=
  mkMetadataResponse (MetadataResponse_throttle_time_ms self) (MetadataResponse_brokers self)
      (MetadataResponse_cluster_id self) value (MetadataResponse_topics self)
      (MetadataResponse_cluster_authorized_operations self) (MetadataResponse_error_code self)
      (MetadataResponse_unknown_tagged_fields self).

(* @ src/crates/kafka-protocol/src/messages/metadata_response.rs 100-108 MetadataResponse::with_topics *)
Definition MetadataResponse_with_topics (value : list MetadataResponseTopic) (self : MetadataResponse) :
    MetadataResponse :=
  mkMetadataResponse (MetadataResponse_throttle_time_ms self) (MetadataResponse_brokers self)
      (MetadataResponse_cluster_id self) (MetadataResponse_controller_id self) value
      (MetadataResponse_cluster_authorized_operations self) (MetadataResponse_error_code self)
      (MetadataResponse_unknown_tagged_fields self).

(* @ src/crates/kafka-protocol/src/messages/metadata_response.rs 109-117 MetadataResponse::with_cluster_authorized_operations *)
Definition MetadataResponse_with_cluster_authorized_operations (value : Z) (self : MetadataResponse) :
    MetadataResponse :=
  mkMetadataResponse (MetadataResponse_throttle_time_ms self) (MetadataResponse_brokers self)
      (MetadataResponse_cluster_id self) (MetadataResponse_controller_id self) (MetadataResponse_topics
      self) value (MetadataResponse_error_code self) (MetadataResponse_unknown_tagged_fields self).

(* @ src/crates/kafka-protocol/src/messages/metadata_response.rs 118-126 MetadataResponse::with_error_code *)
Definition MetadataResponse_with_error_code (value : Z) (self : MetadataResponse) : MetadataResponse :=
  mkMetadataResponse (MetadataResponse_throttle_time_ms self) (MetadataResponse_brokers self)
      (MetadataResponse_cluster_id self) (MetadataResponse_controller_id self) (MetadataResponse_topics
      self) (MetadataResponse_cluster_authorized_operations self) value
      (MetadataResponse_unknown_tagged_fields self).

(** ** [offset_commit_response] *)

(* @ src/crates/kafka-protocol/src/messages/offset_commit_response.rs 192-200 OffsetCommitResponsePartition::with_partition_index *)
Definition OffsetCommitResponsePartition_with_partition_index (value : Z) (self :
    OffsetCommitResponsePartition) : OffsetCommitResponsePartition :=
  mkOffsetCommitResponsePartition value (OffsetCommitResponsePartition_error_code self)
      (OffsetCommitResponsePartition_unknown_tagged_fields self).

(* @ src/crates/kafka-protocol/src/messages/offset_commit_response.rs 201-209 OffsetCommitResponsePartition::with_error_code *)
Definition OffsetCommitResponsePartition_with_error_code (value : Z) (self : OffsetCommitResponsePartition)
    : OffsetCommitResponsePartition :=
  mkOffsetCommitResponsePartition (OffsetCommitResponsePartition_partition_index self) value
      (OffsetCommitResponsePartition_unknown_tagged_fields self).

(* @ src/crates/kafka-protocol/src/messages/offset_commit_response.rs 329-337 OffsetCommitResponseTopic::with_name *)
Definition OffsetCommitResponseTopic_with_name (value : list byte) (self : OffsetCommitResponseTopic) :
    OffsetCommitResponseTopic :=
  mkOffsetCommitResponseTopic value (OffsetCommitResponseTopic_topic_id self)
      (OffsetCommitResponseTopic_partitions self) (OffsetCommitResponseTopic_unknown_tagged_fields self).

(* @ src/crates/kafka-protocol/src/messages/offset_commit_response.rs 338-346 OffsetCommitResponseTopic::with_topic_id *)
Definition OffsetCommitResponseTopic_with_topic_id (value : Z) (self : OffsetCommitResponseTopic) :
    OffsetCommitResponseTopic :=
  mkOffsetCommitResponseTopic (OffsetCommitResponseTopic_name self) value
      (OffsetCommitResponseTopic_partitions self) (OffsetCommitResponseTopic_unknown_tagged_fields self).

(* @ src/crates/kafka-protocol/src/messages/offset_commit_response.rs 347-355 OffsetCommitResponseTopic::with_partitions *)
Definition OffsetCommitResponseTopic_with_partitions (value : list OffsetCommitResponsePartition) (self :
    OffsetCommitResponseTopic) : OffsetCommitResponseTopic :=
  mkOffsetCommitResponseTopic (OffsetCommitResponseTopic_name self) (OffsetCommitResponseTopic_topic_id
      self) value (OffsetCommitResponseTopic_unknown_tagged_fields self).

(* @ src/crates/kafka-protocol/src/messages/offset_commit_response.rs 39-47 OffsetCommitResponse::with_throttle_time_ms *)
Definition OffsetCommitResponse_with_throttle_time_ms (value : Z) (self : OffsetCommitResponse) :
    OffsetCommitResponse :=
  mkOffsetCommitResponse value (OffsetCommitResponse_topics self)
      (OffsetCommitResponse_unknown_tagged_fields self).

(* @ src/crates/kafka-protocol/src/messages/offset_commit_response.rs 48-56 OffsetCommitResponse::with_topics *)
Definition OffsetCommitResponse_with_topics (value : list OffsetCommitResponseTopic) (self :
    OffsetCommitResponse) : OffsetCommitResponse :=
  mkOffsetCommitResponse (OffsetCommitResponse_throttle_time_ms self) value
      (OffsetCommitResponse_unknown_tagged_fields self).

(** ** [offset_fetch_response] *)

(* @ src/crates/kafka-protocol/src/messages/offset_fetch_response.rs 486-494 OffsetFetchResponsePartition::with_partition_index *)
Definition OffsetFetchResponsePartition_with_partition_index (value : Z) (self :
    OffsetFetchResponsePartition) : OffsetFetchResponsePartition :=
  mkOffsetFetchResponsePartition value (OffsetFetchResponsePartition_committed_offset self)
      (OffsetFetchResponsePartition_committed_leader_epoch self) (OffsetFetchResponsePartition_metadata
      self) (OffsetFetchResponsePartition_error_code self)
      (OffsetFetchResponsePartition_unknown_tagged_fields self).

(* @ src/crates/kafka-protocol/src/messages/offset_fetch_response.rs 495-503 OffsetFetchResponsePartition::with_committed_offset *)
Definition OffsetFetchResponsePartition_with_committed_offset (value : Z) (self :
    OffsetFetchResponsePartition) : OffsetFetchResponsePartition :=
  mkOffsetFetchResponsePartition (OffsetFetchResponsePartition_partition_index self) value
      (OffsetFetchResponsePartition_committed_leader_epoch self) (OffsetFetchResponsePartition_metadata
      self) (OffsetFetchResponsePartition_error_code self)
      (OffsetFetchResponsePartition_unknown_tagged_fields self).

(* @ src/crates/kafka-protocol/src/messages/offset_fetch_response.rs 504-512 OffsetFetchResponsePartition::with_committed_leader_epoch *)
Definition OffsetFetchResponsePartition_with_committed_leader_epoch (value : Z) (self :
    OffsetFetchResponsePartition) : OffsetFetchResponsePartition :=
  mkOffsetFetchResponsePartition (OffsetFetchResponsePartition_partition_index self)
      (OffsetFetchResponsePartition_committed_offset self) value (OffsetFetchResponsePartition_metadata
      self) (OffsetFetchResponsePartition_error_code self)
      (OffsetFetchResponsePartition_unknown_tagged_fields self).

(* @ src/crates/kafka-protocol/src/messages/offset_fetch_response.rs 513-521 OffsetFetchResponsePartition::with_metadata *)
Definition OffsetFetchResponsePartition_with_metadata (value : option (list byte)) (self :
    OffsetFetchResponsePartition) : OffsetFetchResponsePartition :=
  mkOffsetFetchResponsePartition (OffsetFetchResponsePartition_partition_index self)
      (OffsetFetchResponsePartition_committed_offset self)
      (OffsetFetchResponsePartition_committed_leader_epoch self) value
      (OffsetFetchResponsePartition_error_code self) (OffsetFetchResponsePartition_unknown_tagged_fields
      self).

(* @ src/crates/kafka-protocol/src/messages/offset_fetch_response.rs 522-530 OffsetFetchResponsePartition::with_error_code *)
Definition OffsetFetchResponsePartition_with_error_code (value : Z) (self : OffsetFetchResponsePartition) :
    OffsetFetchResponsePartition :=
  mkOffsetFetchResponsePartition (OffsetFetchResponsePartition_partition_index self)
      (OffsetFetchResponsePartition_committed_offset self)
      (OffsetFetchResponsePartition_committed_leader_epoch self) (OffsetFetchResponsePartition_metadata
      self) value (OffsetFetchResponsePartition_unknown_tagged_fields self).

(* @ src/crates/kafka-protocol/src/messages/offset_fetch_response.rs 1025-1033 OffsetFetchResponseTopic::with_name *)
Definition OffsetFetchResponseTopic_with_name (value : list byte) (self : OffsetFetchResponseTopic) :
    OffsetFetchResponseTopic :=
  mkOffsetFetchResponseTopic value (OffsetFetchResponseTopic_partitions self)
      (OffsetFetchResponseTopic_unknown_tagged_fields self).

(* @ src/crates/kafka-protocol/src/messages/offset_fetch_response.rs 1034-1042 OffsetFetchResponseTopic::with_partitions *)
Definition OffsetFetchResponseTopic_with_partitions (value : list OffsetFetchResponsePartition) (self :
    OffsetFetchResponseTopic) : OffsetFetchResponseTopic :=
  mkOffsetFetchResponseTopic (OffsetFetchResponseTopic_name self) value
      (OffsetFetchResponseTopic_unknown_tagged_fields self).

(* @ src/crates/kafka-protocol/src/messages/offset_fetch_response.rs 769-777 OffsetFetchResponsePartitions::with_partition_index *)
Definition OffsetFetchResponsePartitions_with_partition_index (value : Z) (self :
    OffsetFetchResponsePartitions) : OffsetFetchResponsePartitions :=
  mkOffsetFetchResponsePartitions value (OffsetFetchResponsePartitions_committed_offset self)
      (OffsetFetchResponsePartitions_committed_leader_epoch self) (OffsetFetchResponsePartitions_metadata
      self) (OffsetFetchResponsePartitions_error_code self)
      (OffsetFetchResponsePartitions_unknown_tagged_fields self).

(* @ src/crates/kafka-protocol/src/messages/offset_fetch_response.rs 778-786 OffsetFetchResponsePartitions::with_committed_offset *)
Definition OffsetFetchResponsePartitions_with_committed_offset (value : Z) (self :
    OffsetFetchResponsePartitions) : OffsetFetchResponsePartitions :=
  mkOffsetFetchResponsePartitions (OffsetFetchResponsePartitions_partition_index self) value
      (OffsetFetchResponsePartitions_committed_leader_epoch self) (OffsetFetchResponsePartitions_metadata
      self) (OffsetFetchResponsePartitions_error_code self)
      (OffsetFetchResponsePartitions_unknown_tagged_fields self).

(* @ src/crates/kafka-protocol/src/messages/offset_fetch_response.rs 787-795 OffsetFetchResponsePartitions::with_committed_leader_epoch *)
Definition OffsetFetchResponsePartitions_with_committed_leader_epoch (value : Z) (self :
    OffsetFetchResponsePartitions) : OffsetFetchResponsePartitions :=
  mkOffsetFetchResponsePartitions (OffsetFetchResponsePartitions_partition_index self)
      (OffsetFetchResponsePartitions_committed_offset self) value (OffsetFetchResponsePartitions_metadata
      self) (OffsetFetchResponsePartitions_error_code self)
      (OffsetFetchResponsePartitions_unknown_tagged_fields self).

(* @ src/crates/kafka-protocol/src/messages/offset_fetch_response.rs 796-804 OffsetFetchResponsePartitions::with_metadata *)
Definition OffsetFetchResponsePartitions_with_metadata (value : option (list byte)) (self :
    OffsetFetchResponsePartitions) : OffsetFetchResponsePartitions :=
  mkOffsetFetchResponsePartitions (OffsetFetchResponsePartitions_partition_index self)
      (OffsetFetchResponsePartitions_committed_offset self)
      (OffsetFetchResponsePartitions_committed_leader_epoch self) value
      (OffsetFetchResponsePartitions_error_code self) (OffsetFetchResponsePartitions_unknown_tagged_fields
      self).

(* @ src/crates/kafka-protocol/src/messages/offset_fetch_response.rs 805-813 OffsetFetchResponsePartitions::with_error_code *)
Definition OffsetFetchResponsePartitions_with_error_code (value : Z) (self : OffsetFetchResponsePartitions)
    : OffsetFetchResponsePartitions :=
  mkOffsetFetchResponsePartitions (OffsetFetchResponsePartitions_partition_index self)
      (OffsetFetchResponsePartitions_committed_offset self)
      (OffsetFetchResponsePartitions_committed_leader_epoch self) (OffsetFetchResponsePartitions_metadata
      self) value (OffsetFetchResponsePartitions_unknown_tagged_fields self).

(* @ src/crates/kafka-protocol/src/messages/offset_fetch_response.rs 1220-1228 OffsetFetchResponseTopics::with_name *)
Definition OffsetFetchResponseTopics_with_name (value : list byte) (self : OffsetFetchResponseTopics) :
    OffsetFetchResponseTopics :=
  mkOffsetFetchResponseTopics value (OffsetFetchResponseTopics_topic_id self)
      (OffsetFetchResponseTopics_partitions self) (OffsetFetchResponseTopics_unknown_tagged_fields self).

(* @ src/crates/kafka-protocol/src/messages/offset_fetch_response.rs 1229-1237 OffsetFetchResponseTopics::with_topic_id *)
Definition OffsetFetchResponseTopics_with_topic_id (value : Z) (self : OffsetFetchResponseTopics) :
    OffsetFetchResponseTopics :=
  mkOffsetFetchResponseTopics (OffsetFetchResponseTopics_name self) value
      (OffsetFetchResponseTopics_partitions self) (OffsetFetchResponseTopics_unknown_tagged_fields self).

(* @ src/crates/kafka-protocol/src/messages/offset_fetch_response.rs 1238-1246 OffsetFetchResponseTopics::with_partitions *)
Definition OffsetFetchResponseTopics_with_partitions (value : list OffsetFetchResponsePartitions) (self :
    OffsetFetchResponseTopics) : OffsetFetchResponseTopics :=
  mkOffsetFetchResponseTopics (OffsetFetchResponseTopics_name self) (OffsetFetchResponseTopics_topic_id
      self) value (OffsetFetchResponseTopics_unknown_tagged_fields self).

(* @ src/crates/kafka-protocol/src/messages/offset_fetch_response.rs 276-284 OffsetFetchResponseGroup::with_group_id *)
Definition OffsetFetchResponseGroup_with_group_id (value : list byte) (self : OffsetFetchResponseGroup) :
    OffsetFetchResponseGroup :=
  mkOffsetFetchResponseGroup value (OffsetFetchResponseGroup_topics self)
      (OffsetFetchResponseGroup_error_code self) (OffsetFetchResponseGroup_unknown_tagged_fields self).

(* @ src/crates/kafka-protocol/src/messages/offset_fetch_response.rs 285-293 OffsetFetchResponseGroup::with_topics *)
Definition OffsetFetchResponseGroup_with_topics (value : list OffsetFetchResponseTopics) (self :
    OffsetFetchResponseGroup) : OffsetFetchResponseGroup :=
  mkOffsetFetchResponseGroup (OffsetFetchResponseGroup_group_id self) value
      (OffsetFetchResponseGroup_error_code self) (OffsetFetchResponseGroup_unknown_tagged_fields self).

(* @ src/crates/kafka-protocol/src/messages/offset_fetch_response.rs 294-302 OffsetFetchResponseGroup::with_error_code *)
Definition OffsetFetchResponseGroup_with_error_code (value : Z) (self : OffsetFetchResponseGroup) :
    OffsetFetchResponseGroup :=
  mkOffsetFetchResponseGroup (OffsetFetchResponseGroup_group_id self) (OffsetFetchResponseGroup_topics
      self) value (OffsetFetchResponseGroup_unknown_tagged_fields self).

(* @ src/crates/kafka-protocol/src/messages/offset_fetch_response.rs 49-57 OffsetFetchResponse::with_throttle_time_ms *)
Definition OffsetFetchResponse_with_throttle_time_ms (value : Z) (self : OffsetFetchResponse) :
    OffsetFetchResponse :=
  mkOffsetFetchResponse value (OffsetFetchResponse_topics self) (OffsetFetchResponse_error_code self)
      (OffsetFetchResponse_groups self) (OffsetFetchResponse_unknown_tagged_fields self).

(* @ src/crates/kafka-protocol/src/messages/offset_fetch_response.rs 58-66 OffsetFetchResponse::with_topics *)
Definition OffsetFetchResponse_with_topics (value : list OffsetFetchResponseTopic) (self :
    OffsetFetchResponse) : OffsetFetchResponse :=
  mkOffsetFetchResponse (OffsetFetchResponse_throttle_time_ms self) value (OffsetFetchResponse_error_code
      self) (OffsetFetchResponse_groups self) (OffsetFetchResponse_unknown_tagged_fields self).

(* @ src/crates/kafka-protocol/src/messages/offset_fetch_response.rs 67-75 OffsetFetchResponse::with_error_code *)
Definition OffsetFetchResponse_with_error_code (value : Z) (self : OffsetFetchResponse) :
    OffsetFetchResponse :=
  mkOffsetFetchResponse (OffsetFetchResponse_throttle_time_ms self) (OffsetFetchResponse_topics self) value
      (OffsetFetchResponse_groups self) (OffsetFetchResponse_unknown_tagged_fields self).

(* @ src/crates/kafka-protocol/src/messages/offset_fetch_response.rs 76-84 OffsetFetchResponse::with_groups *)
Definition OffsetFetchResponse_with_groups (value : list OffsetFetchResponseGroup) (self :
    OffsetFetchResponse) : OffsetFetchResponse :=
  mkOffsetFetchResponse (OffsetFetchResponse_throttle_time_ms self) (OffsetFetchResponse_topics self)
      (OffsetFetchResponse_error_code self) value (OffsetFetchResponse_unknown_tagged_fields self).

(** ** [find_coordinator_response] *)

(* @ src/crates/kafka-protocol/src/messages/find_coordinator_response.rs 59-67 Coordinator::with_key *)
Definition Coordinator_with_key (value : list byte) (self : Coordinator) : Coordinator :=
  mkCoordinator value (Coordinator_node_id self) (Coordinator_host self) (Coordinator_port self)
      (Coordinator_error_code self) (Coordinator_error_message self) (Coordinator_unknown_tagged_fields
      self).

(* @ src/crates/kafka-protocol/src/messages/find_coordinator_response.rs 68-76 Coordinator::with_node_id *)
Definition Coordinator_with_node_id (value : Z) (self : Coordinator) : Coordinator :=
  mkCoordinator (Coordinator_key self) value (Coordinator_host self) (Coordinator_port self)
      (Coordinator_error_code self) (Coordinator_error_message self) (Coordinator_unknown_tagged_fields
      self).

(* @ src/crates/kafka-protocol/src/messages/find_coordinator_response.rs 77-85 Coordinator::with_host *)
Definition Coordinator_with_host (value : list byte) (self : Coordinator) : Coordinator :=
  mkCoordinator (Coordinator_key self) (Coordinator_node_id self) value (Coordinator_port self)
      (Coordinator_error_code self) (Coordinator_error_message self) (Coordinator_unknown_tagged_fields
      self).

(* @ src/crates/kafka-protocol/src/messages/find_coordinator_response.rs 86-94 Coordinator::with_port *)
Definition Coordinator_with_port (value : Z) (self : Coordinator) : Coordinator :=
  mkCoordinator (Coordinator_key self) (Coordinator_node_id self) (Coordinator_host self) value
      (Coordinator_error_code self) (Coordinator_error_message self) (Coordinator_unknown_tagged_fields
      self).

(* @ src/crates/kafka-protocol/src/messages/find_coordinator_response.rs 95-103 Coordinator::with_error_code *)
Definition Coordinator_with_error_code (value : Z) (self : Coordinator) : Coordinator :=
  mkCoordinator (Coordinator_key self) (Coordinator_node_id self) (Coordinator_host self) (Coordinator_port
      self) value (Coordinator_error_message self) (Coordinator_unknown_tagged_fields self).

(* @ src/crates/kafka-protocol/src/messages/find_coordinator_response.rs 104-112 Coordinator::with_error_message *)
Definition Coordinator_with_error_message (value : option (list byte)) (self : Coordinator) : Coordinator :=
  mkCoordinator (Coordinator_key self) (Coordinator_node_id self) (Coordinator_host self) (Coordinator_port
      self) (Coordinator_error_code self) value (Coordinator_unknown_tagged_fields self).

(* @ src/crates/kafka-protocol/src/messages/find_coordinator_response.rs 360-368 FindCoordinatorResponse::with_throttle_time_ms *)
Definition FindCoordinatorResponse_with_throttle_time_ms (value : Z) (self : FindCoordinatorResponse) :
    FindCoordinatorResponse :=
  mkFindCoordinatorResponse value (FindCoordinatorResponse_error_code self)
      (FindCoordinatorResponse_error_message self) (FindCoordinatorResponse_node_id self)
      (FindCoordinatorResponse_host self) (FindCoordinatorResponse_port self)
      (FindCoordinatorResponse_coordinators self) (FindCoordinatorResponse_unknown_tagged_fields self).

(* @ src/crates/kafka-protocol/src/messages/find_coordinator_response.rs 369-377 FindCoordinatorResponse::with_error_code *)
Definition FindCoordinatorResponse_with_error_code (value : Z) (self : FindCoordinatorResponse) :
    FindCoordinatorResponse :=
  mkFindCoordinatorResponse (FindCoordinatorResponse_throttle_time_ms self) value
      (FindCoordinatorResponse_error_message self) (FindCoordinatorResponse_node_id self)
      (FindCoordinatorResponse_host self) (FindCoordinatorResponse_port self)
      (FindCoordinatorResponse_coordinators self) (FindCoordinatorResponse_unknown_tagged_fields self).

(* @ src/crates/kafka-protocol/src/messages/find_coordinator_response.rs 378-386 FindCoordinatorResponse::with_error_message *)
Definition FindCoordinatorResponse_with_error_message (value : option (list byte)) (self :
    FindCoordinatorResponse) : FindCoordinatorResponse :=
  mkFindCoordinatorResponse (FindCoordinatorResponse_throttle_time_ms self)
      (FindCoordinatorResponse_error_code self) value (FindCoordinatorResponse_node_id self)
      (FindCoordinatorResponse_host self) (FindCoordinatorResponse_port self)
      (FindCoordinatorResponse_coordinators self) (FindCoordinatorResponse_unknown_tagged_fields self).

(* @ src/crates/kafka-protocol/src/messages/find_coordinator_response.rs 387-395 FindCoordinatorResponse::with_node_id *)
Definition FindCoordinatorResponse_with_node_id (value : Z) (self : FindCoordinatorResponse) :
    FindCoordinatorResponse :=
  mkFindCoordinatorResponse (FindCoordinatorResponse_throttle_time_ms self)
      (FindCoordinatorResponse_error_code self) (FindCoordinatorResponse_error_message self) value
      (FindCoordinatorResponse_host self) (FindCoordinatorResponse_port self)
      (FindCoordinatorResponse_coordinators self) (FindCoordinatorResponse_unknown_tagged_fields self).

(* @ src/crates/kafka-protocol/src/messages/find_coordinator_response.rs 396-404 FindCoordinatorResponse::with_host *)
Definition FindCoordinatorResponse_with_host (value : list byte) (self : FindCoordinatorResponse) :
    FindCoordinatorResponse :=
  mkFindCoordinatorResponse (FindCoordinatorResponse_throttle_time_ms self)
      (FindCoordinatorResponse_error_code self) (FindCoordinatorResponse_error_message self)
      (FindCoordinatorResponse_node_id self) value (FindCoordinatorResponse_port self)
      (FindCoordinatorResponse_coordinators self) (FindCoordinatorResponse_unknown_tagged_fields self).

(* @ src/crates/kafka-protocol/src/messages/find_coordinator_response.rs 405-413 FindCoordinatorResponse::with_port *)
Definition FindCoordinatorResponse_with_port (value : Z) (self : FindCoordinatorResponse) :
    FindCoordinatorResponse :=
  mkFindCoordinatorResponse (FindCoordinatorResponse_throttle_time_ms self)
      (FindCoordinatorResponse_error_code self) (FindCoordinatorResponse_error_message self)
      (FindCoordinatorResponse_node_id self) (FindCoordinatorResponse_host self) value
      (FindCoordinatorResponse_coordinators self) (FindCoordinatorResponse_unknown_tagged_fields self).

(* @ src/crates/kafka-protocol/src/messages/find_coordinator_response.rs 414-422 FindCoordinatorResponse::with_coordinators *)
Definition FindCoordinatorResponse_with_coordinators (value : list Coordinator) (self :
    FindCoordinatorResponse) : FindCoordinatorResponse :=
  mkFindCoordinatorResponse (FindCoordinatorResponse_throttle_time_ms self)
      (FindCoordinatorResponse_error_code self) (FindCoordinatorResponse_error_message self)
      (FindCoordinatorResponse_node_id self) (FindCoordinatorResponse_host self)
      (FindCoordinatorResponse_port self) value (FindCoordinatorResponse_unknown_tagged_fields self).

(** ** [join_group_response] *)

(* @ src/crates/kafka-protocol/src/messages/join_group_response.rs 390-398 JoinGroupResponseMember::with_member_id *)
Definition JoinGroupResponseMember_with_member_id (value : list byte) (self : JoinGroupResponseMember) :
    JoinGroupResponseMember :=
  mkJoinGroupResponseMember value (JoinGroupResponseMember_group_instance_id self)
      (JoinGroupResponseMember_metadata self) (JoinGroupResponseMember_unknown_tagged_fields self).

(* @ src/crates/kafka-protocol/src/messages/join_group_response.rs 399-407 JoinGroupResponseMember::with_group_instance_id *)
Definition JoinGroupResponseMember_with_group_instance_id (value : option (list byte)) (self :
    JoinGroupResponseMember) : JoinGroupResponseMember :=
  mkJoinGroupResponseMember (JoinGroupResponseMember_member_id self) value
      (JoinGroupResponseMember_metadata self) (JoinGroupResponseMember_unknown_tagged_fields self).

(* @ src/crates/kafka-protocol/src/messages/join_group_response.rs 408-416 JoinGroupResponseMember::with_metadata *)
Definition JoinGroupResponseMember_with_metadata (value : list byte) (self : JoinGroupResponseMember) :
    JoinGroupResponseMember :=
  mkJoinGroupResponseMember (JoinGroupResponseMember_member_id self)
      (JoinGroupResponseMember_group_instance_id self) value (JoinGroupResponseMember_unknown_tagged_fields
      self).

(* @ src/crates/kafka-protocol/src/messages/join_group_response.rs 74-82 JoinGroupResponse::with_throttle_time_ms *)
Definition JoinGroupResponse_with_throttle_time_ms (value : Z) (self : JoinGroupResponse) :
    JoinGroupResponse :=
  mkJoinGroupResponse value (JoinGroupResponse_error_code self) (JoinGroupResponse_generation_id self)
      (JoinGroupResponse_protocol_type self) (JoinGroupResponse_protocol_name self)
      (JoinGroupResponse_leader self) (JoinGroupResponse_skip_assignment self) (JoinGroupResponse_member_id
      self) (JoinGroupResponse_members self) (JoinGroupResponse_unknown_tagged_fields self).

(* @ src/crates/kafka-protocol/src/messages/join_group_response.rs 83-91 JoinGroupResponse::with_error_code *)
Definition JoinGroupResponse_with_error_code (value : Z) (self : JoinGroupResponse) : JoinGroupResponse :=
  mkJoinGroupResponse (JoinGroupResponse_throttle_time_ms self) value (JoinGroupResponse_generation_id
      self) (JoinGroupResponse_protocol_type self) (JoinGroupResponse_protocol_name self)
      (JoinGroupResponse_leader self) (JoinGroupResponse_skip_assignment self) (JoinGroupResponse_member_id
      self) (JoinGroupResponse_members self) (JoinGroupResponse_unknown_tagged_fields self).

(* @ src/crates/kafka-protocol/src/messages/join_group_response.rs 92-100 JoinGroupResponse::with_generation_id *)
Definition JoinGroupResponse_with_generation_id (value : Z) (self : JoinGroupResponse) : JoinGroupResponse
    :=
  mkJoinGroupResponse (JoinGroupResponse_throttle_time_ms self) (JoinGroupResponse_error_code self) value
      (JoinGroupResponse_protocol_type self) (JoinGroupResponse_protocol_name self)
      (JoinGroupResponse_leader self) (JoinGroupResponse_skip_assignment self) (JoinGroupResponse_member_id
      self) (JoinGroupResponse_members self) (JoinGroupResponse_unknown_tagged_fields self).

(* @ src/crates/kafka-protocol/src/messages/join_group_response.rs 101-109 JoinGroupResponse::with_protocol_type *)
Definition JoinGroupResponse_with_protocol_type (value : option (list byte)) (self : JoinGroupResponse) :
    JoinGroupResponse :=
  mkJoinGroupResponse (JoinGroupResponse_throttle_time_ms self) (JoinGroupResponse_error_code self)
      (JoinGroupResponse_generation_id self) value (JoinGroupResponse_protocol_name self)
      (JoinGroupResponse_leader self) (JoinGroupResponse_skip_assignment self) (JoinGroupResponse_member_id
      self) (JoinGroupResponse_members self) (JoinGroupResponse_unknown_tagged_fields self).

(* @ src/crates/kafka-protocol/src/messages/join_group_response.rs 110-118 JoinGroupResponse::with_protocol_name *)
Definition JoinGroupResponse_with_protocol_name (value : option (list byte)) (self : JoinGroupResponse) :
    JoinGroupResponse :=
  mkJoinGroupResponse (JoinGroupResponse_throttle_time_ms self) (JoinGroupResponse_error_code self)
      (JoinGroupResponse_generation_id self) (JoinGroupResponse_protocol_type self) value
      (JoinGroupResponse_leader self) (JoinGroupResponse_skip_assignment self) (JoinGroupResponse_member_id
      self) (JoinGroupResponse_members self) (JoinGroupResponse_unknown_tagged_fields self).

(* @ src/crates/kafka-protocol/src/messages/join_group_response.rs 119-127 JoinGroupResponse::with_leader *)
Definition JoinGroupResponse_with_leader (value : list byte) (self : JoinGroupResponse) : JoinGroupResponse
    :=
  mkJoinGroupResponse (JoinGroupResponse_throttle_time_ms self) (JoinGroupResponse_error_code self)
      (JoinGroupResponse_generation_id self) (JoinGroupResponse_protocol_type self)
      (JoinGroupResponse_protocol_name self) value (JoinGroupResponse_skip_assignment self)
      (JoinGroupResponse_member_id self) (JoinGroupResponse_members self)
      (JoinGroupResponse_unknown_tagged_fields self).

(* @ src/crates/kafka-protocol/src/messages/join_group_response.rs 128-136 JoinGroupResponse::with_skip_assignment *)
Definition JoinGroupResponse_with_skip_assignment (value : bool) (self : JoinGroupResponse) :
    JoinGroupResponse :=
  mkJoinGroupResponse (JoinGroupResponse_throttle_time_ms self) (JoinGroupResponse_error_code self)
      (JoinGroupResponse_generation_id self) (JoinGroupResponse_protocol_type self)
      (JoinGroupResponse_protocol_name self) (JoinGroupResponse_leader self) value
      (JoinGroupResponse_member_id self) (JoinGroupResponse_members self)
      (JoinGroupResponse_unknown_tagged_fields self).

(* @ src/crates/kafka-protocol/src/messages/join_group_response.rs 137-145 JoinGroupResponse::with_member_id *)
Definition JoinGroupResponse_with_member_id (value : list byte) (self : JoinGroupResponse) :
    JoinGroupResponse :=
  mkJoinGroupResponse (JoinGroupResponse_throttle_time_ms self) (JoinGroupResponse_error_code self)
      (JoinGroupResponse_generation_id self) (JoinGroupResponse_protocol_type self)
      (JoinGroupResponse_protocol_name self) (JoinGroupResponse_leader self)
      (JoinGroupResponse_skip_assignment self) value (JoinGroupResponse_members self)
      (JoinGroupResponse_unknown_tagged_fields self).

(* @ src/crates/kafka-protocol/src/messages/join_group_response.rs 146-154 JoinGroupResponse::with_members *)
Definition JoinGroupResponse_with_members (value : list JoinGroupResponseMember) (self : JoinGroupResponse)
    : JoinGroupResponse :=
  mkJoinGroupResponse (JoinGroupResponse_throttle_time_ms self) (JoinGroupResponse_error_code self)
      (JoinGroupResponse_generation_id self) (JoinGroupResponse_protocol_type self)
      (JoinGroupResponse_protocol_name self) (JoinGroupResponse_leader self)
      (JoinGroupResponse_skip_assignment self) (JoinGroupResponse_member_id self) value
      (JoinGroupResponse_unknown_tagged_fields self).

(** ** [heartbeat_response] *)

(* @ src/crates/kafka-protocol/src/messages/heartbeat_response.rs 39-47 HeartbeatResponse::with_throttle_time_ms *)
Definition HeartbeatResponse_with_throttle_time_ms (value : Z) (self : HeartbeatResponse) :
    HeartbeatResponse :=
  mkHeartbeatResponse value (HeartbeatResponse_error_code self) (HeartbeatResponse_unknown_tagged_fields
      self).

(* @ src/crates/kafka-protocol/src/messages/heartbeat_response.rs 48-56 HeartbeatResponse::with_error_code *)
Definition HeartbeatResponse_with_error_code (value : Z) (self : HeartbeatResponse) : HeartbeatResponse :=
  mkHeartbeatResponse (HeartbeatResponse_throttle_time_ms self) value
      (HeartbeatResponse_unknown_tagged_fields self).

(** ** [leave_group_response] *)

(* @ src/crates/kafka-protocol/src/messages/leave_group_response.rs 233-241 MemberResponse::with_member_id *)
Definition MemberResponse_with_member_id (value : list byte) (self : MemberResponse) : MemberResponse :=
  mkMemberResponse value (MemberResponse_group_instance_id self) (MemberResponse_error_code self)
      (MemberResponse_unknown_tagged_fields self).

(* @ src/crates/kafka-protocol/src/messages/leave_group_response.rs 242-250 MemberResponse::with_group_instance_id *)
Definition MemberResponse_with_group_instance_id (value : option (list byte)) (self : MemberResponse) :
    MemberResponse :=
  mkMemberResponse (MemberResponse_member_id self) value (MemberResponse_error_code self)
      (MemberResponse_unknown_tagged_fields self).

(* @ src/crates/kafka-protocol/src/messages/leave_group_response.rs 251-259 MemberResponse::with_error_code *)
Definition MemberResponse_with_error_code (value : Z) (self : MemberResponse) : MemberResponse :=
  mkMemberResponse (MemberResponse_member_id self) (MemberResponse_group_instance_id self) value
      (MemberResponse_unknown_tagged_fields self).

(* @ src/crates/kafka-protocol/src/messages/leave_group_response.rs 44-52 LeaveGroupResponse::with_throttle_time_ms *)
Definition LeaveGroupResponse_with_throttle_time_ms (value : Z) (self : LeaveGroupResponse) :
    LeaveGroupResponse :=
  mkLeaveGroupResponse value (LeaveGroupResponse_error_code self) (LeaveGroupResponse_members self)
      (LeaveGroupResponse_unknown_tagged_fields self).

(* @ src/crates/kafka-protocol/src/messages/leave_group_response.rs 53-61 LeaveGroupResponse::with_error_code *)
Definition LeaveGroupResponse_with_error_code (value : Z) (self : LeaveGroupResponse) : LeaveGroupResponse
    :=
  mkLeaveGroupResponse (LeaveGroupResponse_throttle_time_ms self) value (LeaveGroupResponse_members self)
      (LeaveGroupResponse_unknown_tagged_fields self).

(* @ src/crates/kafka-protocol/src/messages/leave_group_response.rs 62-70 LeaveGroupResponse::with_members *)
Definition LeaveGroupResponse_with_members (value : list MemberResponse) (self : LeaveGroupResponse) :
    LeaveGroupResponse :=
  mkLeaveGroupResponse (LeaveGroupResponse_throttle_time_ms self) (LeaveGroupResponse_error_code self)
      value (LeaveGroupResponse_unknown_tagged_fields self).

(** ** [sync_group_response] *)

(* @ src/crates/kafka-protocol/src/messages/sync_group_response.rs 54-62 SyncGroupResponse::with_throttle_time_ms *)
Definition SyncGroupResponse_with_throttle_time_ms (value : Z) (self : SyncGroupResponse) :
    SyncGroupResponse :=
  mkSyncGroupResponse value (SyncGroupResponse_error_code self) (SyncGroupResponse_protocol_type self)
      (SyncGroupResponse_protocol_name self) (SyncGroupResponse_assignment self)
      (SyncGroupResponse_unknown_tagged_fields self).

(* @ src/crates/kafka-protocol/src/messages/sync_group_response.rs 63-71 SyncGroupResponse::with_error_code *)
Definition SyncGroupResponse_with_error_code (value : Z) (self : SyncGroupResponse) : SyncGroupResponse :=
  mkSyncGroupResponse (SyncGroupResponse_throttle_time_ms self) value (SyncGroupResponse_protocol_type
      self) (SyncGroupResponse_protocol_name self) (SyncGroupResponse_assignment self)
      (SyncGroupResponse_unknown_tagged_fields self).

(* @ src/crates/kafka-protocol/src/messages/sync_group_response.rs 72-80 SyncGroupResponse::with_protocol_type *)
Definition SyncGroupResponse_with_protocol_type (value : option (list byte)) (self : SyncGroupResponse) :
    SyncGroupResponse :=
  mkSyncGroupResponse (SyncGroupResponse_throttle_time_ms self) (SyncGroupResponse_error_code self) value
      (SyncGroupResponse_protocol_name self) (SyncGroupResponse_assignment self)
      (SyncGroupResponse_unknown_tagged_fields self).

(* @ src/crates/kafka-protocol/src/messages/sync_group_response.rs 81-89 SyncGroupResponse::with_protocol_name *)
Definition SyncGroupResponse_with_protocol_name (value : option (list byte)) (self : SyncGroupResponse) :
    SyncGroupResponse :=
  mkSyncGroupResponse (SyncGroupResponse_throttle_time_ms self) (SyncGroupResponse_error_code self)
      (SyncGroupResponse_protocol_type self) value (SyncGroupResponse_assignment self)
      (SyncGroupResponse_unknown_tagged_fields self).

(* @ src/crates/kafka-protocol/src/messages/sync_group_response.rs 90-98 SyncGroupResponse::with_assignment *)
Definition SyncGroupResponse_with_assignment (value : list byte) (self : SyncGroupResponse) :
    SyncGroupResponse :=
  mkSyncGroupResponse (SyncGroupResponse_throttle_time_ms self) (SyncGroupResponse_error_code self)
      (SyncGroupResponse_protocol_type self) (SyncGroupResponse_protocol_name self) value
      (SyncGroupResponse_unknown_tagged_fields self).

(** ** [describe_groups_response] *)

(* @ src/crates/kafka-protocol/src/messages/describe_groups_response.rs 551-559 DescribedGroupMember::with_member_id *)
Definition DescribedGroupMember_with_member_id (value : list byte) (self : DescribedGroupMember) :
    DescribedGroupMember :=
  mkDescribedGroupMember value (DescribedGroupMember_group_instance_id self)
      (DescribedGroupMember_client_id self) (DescribedGroupMember_client_host self)
      (DescribedGroupMember_member_metadata self) (DescribedGroupMember_member_assignment self)
      (DescribedGroupMember_unknown_tagged_fields self).

(* @ src/crates/kafka-protocol/src/messages/describe_groups_response.rs 560-568 DescribedGroupMember::with_group_instance_id *)
Definition DescribedGroupMember_with_group_instance_id (value : option (list byte)) (self :
    DescribedGroupMember) : DescribedGroupMember :=
  mkDescribedGroupMember (DescribedGroupMember_member_id self) value (DescribedGroupMember_client_id self)
      (DescribedGroupMember_client_host self) (DescribedGroupMember_member_metadata self)
      (DescribedGroupMember_member_assignment self) (DescribedGroupMember_unknown_tagged_fields self).

(* @ src/crates/kafka-protocol/src/messages/describe_groups_response.rs 569-577 DescribedGroupMember::with_client_id *)
Definition DescribedGroupMember_with_client_id (value : list byte) (self : DescribedGroupMember) :
    DescribedGroupMember :=
  mkDescribedGroupMember (DescribedGroupMember_member_id self) (DescribedGroupMember_group_instance_id
      self) value (DescribedGroupMember_client_host self) (DescribedGroupMember_member_metadata self)
      (DescribedGroupMember_member_assignment self) (DescribedGroupMember_unknown_tagged_fields self).

(* @ src/crates/kafka-protocol/src/messages/describe_groups_response.rs 578-586 DescribedGroupMember::with_client_host *)
Definition DescribedGroupMember_with_client_host (value : list byte) (self : DescribedGroupMember) :
    DescribedGroupMember :=
  mkDescribedGroupMember (DescribedGroupMember_member_id self) (DescribedGroupMember_group_instance_id
      self) (DescribedGroupMember_client_id self) value (DescribedGroupMember_member_metadata self)
      (DescribedGroupMember_member_assignment self) (DescribedGroupMember_unknown_tagged_fields self).

(* @ src/crates/kafka-protocol/src/messages/describe_groups_response.rs 587-595 DescribedGroupMember::with_member_metadata *)
Definition DescribedGroupMember_with_member_metadata (value : list byte) (self : DescribedGroupMember) :
    DescribedGroupMember :=
  mkDescribedGroupMember (DescribedGroupMember_member_id self) (DescribedGroupMember_group_instance_id
      self) (DescribedGroupMember_client_id self) (DescribedGroupMember_client_host self) value
      (DescribedGroupMember_member_assignment self) (DescribedGroupMember_unknown_tagged_fields self).

(* @ src/crates/kafka-protocol/src/messages/describe_groups_response.rs 596-604 DescribedGroupMember::with_member_assignment *)
Definition DescribedGroupMember_with_member_assignment (value : list byte) (self : DescribedGroupMember) :
    DescribedGroupMember :=
  mkDescribedGroupMember (DescribedGroupMember_member_id self) (DescribedGroupMember_group_instance_id
      self) (DescribedGroupMember_client_id self) (DescribedGroupMember_client_host self)
      (DescribedGroupMember_member_metadata self) value (DescribedGroupMember_unknown_tagged_fields self).

(* @ src/crates/kafka-protocol/src/messages/describe_groups_response.rs 222-230 DescribedGroup::with_error_code *)
Definition DescribeGroupsResponse_DescribedGroup_with_error_code (value : Z) (self :
    DescribeGroupsResponse_DescribedGroup) : DescribeGroupsResponse_DescribedGroup :=
  mkDescribeGroupsResponse_DescribedGroup value (DescribeGroupsResponse_DescribedGroup_error_message self)
      (DescribeGroupsResponse_DescribedGroup_group_id self)
      (DescribeGroupsResponse_DescribedGroup_group_state self)
      (DescribeGroupsResponse_DescribedGroup_protocol_type self)
      (DescribeGroupsResponse_DescribedGroup_protocol_data self)
      (DescribeGroupsResponse_DescribedGroup_members self)
      (DescribeGroupsResponse_DescribedGroup_authorized_operations self)
      (DescribeGroupsResponse_DescribedGroup_unknown_tagged_fields self).

(* @ src/crates/kafka-protocol/src/messages/describe_groups_response.rs 231-239 DescribedGroup::with_error_message *)
Definition DescribeGroupsResponse_DescribedGroup_with_error_message (value : option (list byte)) (self :
    DescribeGroupsResponse_DescribedGroup) : DescribeGroupsResponse_DescribedGroup :=
  mkDescribeGroupsResponse_DescribedGroup (DescribeGroupsResponse_DescribedGroup_error_code self) value
      (DescribeGroupsResponse_DescribedGroup_group_id self)
      (DescribeGroupsResponse_DescribedGroup_group_state self)
      (DescribeGroupsResponse_DescribedGroup_protocol_type self)
      (DescribeGroupsResponse_DescribedGroup_protocol_data self)
      (DescribeGroupsResponse_DescribedGroup_members self)
      (DescribeGroupsResponse_DescribedGroup_authorized_operations self)
      (DescribeGroupsResponse_DescribedGroup_unknown_tagged_fields self).

(* @ src/crates/kafka-protocol/src/messages/describe_groups_response.rs 240-248 DescribedGroup::with_group_id *)
Definition DescribeGroupsResponse_DescribedGroup_with_group_id (value : list byte) (self :
    DescribeGroupsResponse_DescribedGroup) : DescribeGroupsResponse_DescribedGroup :=
  mkDescribeGroupsResponse_DescribedGroup (DescribeGroupsResponse_DescribedGroup_error_code self)
      (DescribeGroupsResponse_DescribedGroup_error_message self) value
      (DescribeGroupsResponse_DescribedGroup_group_state self)
      (DescribeGroupsResponse_DescribedGroup_protocol_type self)
      (DescribeGroupsResponse_DescribedGroup_protocol_data self)
      (DescribeGroupsResponse_DescribedGroup_members self)
      (DescribeGroupsResponse_DescribedGroup_authorized_operations self)
      (DescribeGroupsResponse_DescribedGroup_unknown_tagged_fields self).

(* @ src/crates/kafka-protocol/src/messages/describe_groups_response.rs 249-257 DescribedGroup::with_group_state *)
Definition DescribeGroupsResponse_DescribedGroup_with_group_state (value : list byte) (self :
    DescribeGroupsResponse_DescribedGroup) : DescribeGroupsResponse_DescribedGroup :=
  mkDescribeGroupsResponse_DescribedGroup (DescribeGroupsResponse_DescribedGroup_error_code self)
      (DescribeGroupsResponse_DescribedGroup_error_message self)
      (DescribeGroupsResponse_DescribedGroup_group_id self) value
      (DescribeGroupsResponse_DescribedGroup_protocol_type self)
      (DescribeGroupsResponse_DescribedGroup_protocol_data self)
      (DescribeGroupsResponse_DescribedGroup_members self)
      (DescribeGroupsResponse_DescribedGroup_authorized_operations self)
      (DescribeGroupsResponse_DescribedGroup_unknown_tagged_fields self).

(* @ src/crates/kafka-protocol/src/messages/describe_groups_response.rs 258-266 DescribedGroup::with_protocol_type *)
Definition DescribeGroupsResponse_DescribedGroup_with_protocol_type (value : list byte) (self :
    DescribeGroupsResponse_DescribedGroup) : DescribeGroupsResponse_DescribedGroup :=
  mkDescribeGroupsResponse_DescribedGroup (DescribeGroupsResponse_DescribedGroup_error_code self)
      (DescribeGroupsResponse_DescribedGroup_error_message self)
      (DescribeGroupsResponse_DescribedGroup_group_id self)
      (DescribeGroupsResponse_DescribedGroup_group_state self) value
      (DescribeGroupsResponse_DescribedGroup_protocol_data self)
      (DescribeGroupsResponse_DescribedGroup_members self)
      (DescribeGroupsResponse_DescribedGroup_authorized_operations self)
      (DescribeGroupsResponse_DescribedGroup_unknown_tagged_fields self).

(* @ src/crates/kafka-protocol/src/messages/describe_groups_response.rs 267-275 DescribedGroup::with_protocol_data *)
Definition DescribeGroupsResponse_DescribedGroup_with_protocol_data (value : list byte) (self :
    DescribeGroupsResponse_DescribedGroup) : DescribeGroupsResponse_DescribedGroup :=
  mkDescribeGroupsResponse_DescribedGroup (DescribeGroupsResponse_DescribedGroup_error_code self)
      (DescribeGroupsResponse_DescribedGroup_error_message self)
      (DescribeGroupsResponse_DescribedGroup_group_id self)
      (DescribeGroupsResponse_DescribedGroup_group_state self)
      (DescribeGroupsResponse_DescribedGroup_protocol_type self) value
      (DescribeGroupsResponse_DescribedGroup_members self)
      (DescribeGroupsResponse_DescribedGroup_authorized_operations self)
      (DescribeGroupsResponse_DescribedGroup_unknown_tagged_fields self).

(* @ src/crates/kafka-protocol/src/messages/describe_groups_response.rs 276-284 DescribedGroup::with_members *)
Definition DescribeGroupsResponse_DescribedGroup_with_members (value : list DescribedGroupMember) (self :
    DescribeGroupsResponse_DescribedGroup) : DescribeGroupsResponse_DescribedGroup :=
  mkDescribeGroupsResponse_DescribedGroup (DescribeGroupsResponse_DescribedGroup_error_code self)
      (DescribeGroupsResponse_DescribedGroup_error_message self)
      (DescribeGroupsResponse_DescribedGroup_group_id self)
      (DescribeGroupsResponse_DescribedGroup_group_state self)
      (DescribeGroupsResponse_DescribedGroup_protocol_type self)
      (DescribeGroupsResponse_DescribedGroup_protocol_data self) value
      (DescribeGroupsResponse_DescribedGroup_authorized_operations self)
      (DescribeGroupsResponse_DescribedGroup_unknown_tagged_fields self).

(* @ src/crates/kafka-protocol/src/messages/describe_groups_response.rs 285-293 DescribedGroup::with_authorized_operations *)
Definition DescribeGroupsResponse_DescribedGroup_with_authorized_operations (value : Z) (self :
    DescribeGroupsResponse_DescribedGroup) : DescribeGroupsResponse_DescribedGroup :=
  mkDescribeGroupsResponse_DescribedGroup (DescribeGroupsResponse_DescribedGroup_error_code self)
      (DescribeGroupsResponse_DescribedGroup_error_message self)
      (DescribeGroupsResponse_DescribedGroup_group_id self)
      (DescribeGroupsResponse_DescribedGroup_group_state self)
      (DescribeGroupsResponse_DescribedGroup_protocol_type self)
      (DescribeGroupsResponse_DescribedGroup_protocol_data self)
      (DescribeGroupsResponse_DescribedGroup_members self) value
      (DescribeGroupsResponse_DescribedGroup_unknown_tagged_fields self).

(* @ src/crates/kafka-protocol/src/messages/describe_groups_response.rs 39-47 DescribeGroupsResponse::with_throttle_time_ms *)
Definition DescribeGroupsResponse_with_throttle_time_ms (value : Z) (self : DescribeGroupsResponse) :
    DescribeGroupsResponse :=
  mkDescribeGroupsResponse value (DescribeGroupsResponse_groups self)
      (DescribeGroupsResponse_unknown_tagged_fields self).

(* @ src/crates/kafka-protocol/src/messages/describe_groups_response.rs 48-56 DescribeGroupsResponse::with_groups *)
Definition DescribeGroupsResponse_with_groups (value : list DescribeGroupsResponse_DescribedGroup) (self :
    DescribeGroupsResponse) : DescribeGroupsResponse :=
  mkDescribeGroupsResponse (DescribeGroupsResponse_throttle_time_ms self) value
      (DescribeGroupsResponse_unknown_tagged_fields self).

(** ** [list_groups_response] *)

(* @ src/crates/kafka-protocol/src/messages/list_groups_response.rs 221-229 ListedGroup::with_group_id *)
Definition ListedGroup_with_group_id (value : list byte) (self : ListedGroup) : ListedGroup :=
  mkListedGroup value (ListedGroup_protocol_type self) (ListedGroup_group_state self)
      (ListedGroup_group_type self) (ListedGroup_unknown_tagged_fields self).

(* @ src/crates/kafka-protocol/src/messages/list_groups_response.rs 230-238 ListedGroup::with_protocol_type *)
Definition ListedGroup_with_protocol_type (value : list byte) (self : ListedGroup) : ListedGroup :=
  mkListedGroup (ListedGroup_group_id self) value (ListedGroup_group_state self) (ListedGroup_group_type
      self) (ListedGroup_unknown_tagged_fields self).

(* @ src/crates/kafka-protocol/src/messages/list_groups_response.rs 239-247 ListedGroup::with_group_state *)
Definition ListedGroup_with_group_state (value : list byte) (self : ListedGroup) : ListedGroup :=
  mkListedGroup (ListedGroup_group_id self) (ListedGroup_protocol_type self) value (ListedGroup_group_type
      self) (ListedGroup_unknown_tagged_fields self).

(* @ src/crates/kafka-protocol/src/messages/list_groups_response.rs 248-256 ListedGroup::with_group_type *)
Definition ListedGroup_with_group_type (value : list byte) (self : ListedGroup) : ListedGroup :=
  mkListedGroup (ListedGroup_group_id self) (ListedGroup_protocol_type self) (ListedGroup_group_state self)
      value (ListedGroup_unknown_tagged_fields self).

(* @ src/crates/kafka-protocol/src/messages/list_groups_response.rs 44-52 ListGroupsResponse::with_throttle_time_ms *)
Definition ListGroupsResponse_with_throttle_time_ms (value : Z) (self : ListGroupsResponse) :
    ListGroupsResponse :=
  mkListGroupsResponse value (ListGroupsResponse_error_code self) (ListGroupsResponse_groups self)
      (ListGroupsResponse_unknown_tagged_fields self).

(* @ src/crates/kafka-protocol/src/messages/list_groups_response.rs 53-61 ListGroupsResponse::with_error_code *)
Definition ListGroupsResponse_with_error_code (value : Z) (self : ListGroupsResponse) : ListGroupsResponse
    :=
  mkListGroupsResponse (ListGroupsResponse_throttle_time_ms self) value (ListGroupsResponse_groups self)
      (ListGroupsResponse_unknown_tagged_fields self).

(* @ src/crates/kafka-protocol/src/messages/list_groups_response.rs 62-70 ListGroupsResponse::with_groups *)
Definition ListGroupsResponse_with_groups (value : list ListedGroup) (self : ListGroupsResponse) :
    ListGroupsResponse :=
  mkListGroupsResponse (ListGroupsResponse_throttle_time_ms self) (ListGroupsResponse_error_code self)
      value (ListGroupsResponse_unknown_tagged_fields self).

(** ** [api_versions_response] *)

(* @ src/crates/kafka-protocol/src/messages/api_versions_response.rs 44-52 ApiVersion::with_api_key *)
Definition ApiVersion_with_api_key (value : Z) (self : ApiVersion) : ApiVersion :=
  mkApiVersion value (ApiVersion_min_version self) (ApiVersion_max_version self)
      (ApiVersion_unknown_tagged_fields self).

(* @ src/crates/kafka-protocol/src/messages/api_versions_response.rs 53-61 ApiVersion::with_min_version *)
Definition ApiVersion_with_min_version (value : Z) (self : ApiVersion) : ApiVersion :=
  mkApiVersion (ApiVersion_api_key self) value (ApiVersion_max_version self)
      (ApiVersion_unknown_tagged_fields self).

(* @ src/crates/kafka-protocol/src/messages/api_versions_response.rs 62-70 ApiVersion::with_max_version *)
Definition ApiVersion_with_max_version (value : Z) (self : ApiVersion) : ApiVersion :=
  mkApiVersion (ApiVersion_api_key self) (ApiVersion_min_version self) value
      (ApiVersion_unknown_tagged_fields self).

(* @ src/crates/kafka-protocol/src/messages/api_versions_response.rs 778-786 SupportedFeatureKey::with_name *)
Definition SupportedFeatureKey_with_name (value : list byte) (self : SupportedFeatureKey) :
    SupportedFeatureKey :=
  mkSupportedFeatureKey value (SupportedFeatureKey_min_version self) (SupportedFeatureKey_max_version self)
      (SupportedFeatureKey_unknown_tagged_fields self).

(* @ src/crates/kafka-protocol/src/messages/api_versions_response.rs 787-795 SupportedFeatureKey::with_min_version *)
Definition SupportedFeatureKey_with_min_version (value : Z) (self : SupportedFeatureKey) :
    SupportedFeatureKey :=
  mkSupportedFeatureKey (SupportedFeatureKey_name self) value (SupportedFeatureKey_max_version self)
      (SupportedFeatureKey_unknown_tagged_fields self).

(* @ src/crates/kafka-protocol/src/messages/api_versions_response.rs 796-804 SupportedFeatureKey::with_max_version *)
Definition SupportedFeatureKey_with_max_version (value : Z) (self : SupportedFeatureKey) :
    SupportedFeatureKey :=
  mkSupportedFeatureKey (SupportedFeatureKey_name self) (SupportedFeatureKey_min_version self) value
      (SupportedFeatureKey_unknown_tagged_fields self).

(* @ src/crates/kafka-protocol/src/messages/api_versions_response.rs 579-587 FinalizedFeatureKey::with_name *)
Definition FinalizedFeatureKey_with_name (value : list byte) (self : FinalizedFeatureKey) :
    FinalizedFeatureKey :=
  mkFinalizedFeatureKey value (FinalizedFeatureKey_max_version_level self)
      (FinalizedFeatureKey_min_version_level self) (FinalizedFeatureKey_unknown_tagged_fields self).

(* @ src/crates/kafka-protocol/src/messages/api_versions_response.rs 588-596 FinalizedFeatureKey::with_max_version_level *)
Definition FinalizedFeatureKey_with_max_version_level (value : Z) (self : FinalizedFeatureKey) :
    FinalizedFeatureKey :=
  mkFinalizedFeatureKey (FinalizedFeatureKey_name self) value (FinalizedFeatureKey_min_version_level self)
      (FinalizedFeatureKey_unknown_tagged_fields self).

(* @ src/crates/kafka-protocol/src/messages/api_versions_response.rs 597-605 FinalizedFeatureKey::with_min_version_level *)
Definition FinalizedFeatureKey_with_min_version_level (value : Z) (self : FinalizedFeatureKey) :
    FinalizedFeatureKey :=
  mkFinalizedFeatureKey (FinalizedFeatureKey_name self) (FinalizedFeatureKey_max_version_level self) value
      (FinalizedFeatureKey_unknown_tagged_fields self).

(* @ src/crates/kafka-protocol/src/messages/api_versions_response.rs 215-223 ApiVersionsResponse::with_error_code *)
Definition ApiVersionsResponse_with_error_code (value : Z) (self : ApiVersionsResponse) :
    ApiVersionsResponse :=
  mkApiVersionsResponse value (ApiVersionsResponse_api_keys self) (ApiVersionsResponse_throttle_time_ms
      self) (ApiVersionsResponse_supported_features self) (ApiVersionsResponse_finalized_features_epoch
      self) (ApiVersionsResponse_finalized_features self) (ApiVersionsResponse_zk_migration_ready self)
      (ApiVersionsResponse_unknown_tagged_fields self).

(* @ src/crates/kafka-protocol/src/messages/api_versions_response.rs 224-232 ApiVersionsResponse::with_api_keys *)
Definition ApiVersionsResponse_with_api_keys (value : list ApiVersion) (self : ApiVersionsResponse) :
    ApiVersionsResponse :=
  mkApiVersionsResponse (ApiVersionsResponse_error_code self) value (ApiVersionsResponse_throttle_time_ms
      self) (ApiVersionsResponse_supported_features self) (ApiVersionsResponse_finalized_features_epoch
      self) (ApiVersionsResponse_finalized_features self) (ApiVersionsResponse_zk_migration_ready self)
      (ApiVersionsResponse_unknown_tagged_fields self).

(* @ src/crates/kafka-protocol/src/messages/api_versions_response.rs 233-241 ApiVersionsResponse::with_throttle_time_ms *)
Definition ApiVersionsResponse_with_throttle_time_ms (value : Z) (self : ApiVersionsResponse) :
    ApiVersionsResponse :=
  mkApiVersionsResponse (ApiVersionsResponse_error_code self) (ApiVersionsResponse_api_keys self) value
      (ApiVersionsResponse_supported_features self) (ApiVersionsResponse_finalized_features_epoch self)
      (ApiVersionsResponse_finalized_features self) (ApiVersionsResponse_zk_migration_ready self)
      (ApiVersionsResponse_unknown_tagged_fields self).

(* @ src/crates/kafka-protocol/src/messages/api_versions_response.rs 242-250 ApiVersionsResponse::with_supported_features *)
Definition ApiVersionsResponse_with_supported_features (value : list SupportedFeatureKey) (self :
    ApiVersionsResponse) : ApiVersionsResponse :=
  mkApiVersionsResponse (ApiVersionsResponse_error_code self) (ApiVersionsResponse_api_keys self)
      (ApiVersionsResponse_throttle_time_ms self) value (ApiVersionsResponse_finalized_features_epoch self)
      (ApiVersionsResponse_finalized_features self) (ApiVersionsResponse_zk_migration_ready self)
      (ApiVersionsResponse_unknown_tagged_fields self).

(* @ src/crates/kafka-protocol/src/messages/api_versions_response.rs 251-259 ApiVersionsResponse::with_finalized_features_epoch *)
Definition ApiVersionsResponse_with_finalized_features_epoch (value : Z) (self : ApiVersionsResponse) :
    ApiVersionsResponse :=
  mkApiVersionsResponse (ApiVersionsResponse_error_code self) (ApiVersionsResponse_api_keys self)
      (ApiVersionsResponse_throttle_time_ms self) (ApiVersionsResponse_supported_features self) value
      (ApiVersionsResponse_finalized_features self) (ApiVersionsResponse_zk_migration_ready self)
      (ApiVersionsResponse_unknown_tagged_fields self).

(* @ src/crates/kafka-protocol/src/messages/api_versions_response.rs 260-268 ApiVersionsResponse::with_finalized_features *)
Definition ApiVersionsResponse_with_finalized_features (value : list FinalizedFeatureKey) (self :
    ApiVersionsResponse) : ApiVersionsResponse :=
  mkApiVersionsResponse (ApiVersionsResponse_error_code self) (ApiVersionsResponse_api_keys self)
      (ApiVersionsResponse_throttle_time_ms self) (ApiVersionsResponse_supported_features self)
      (ApiVersionsResponse_finalized_features_epoch self) value (ApiVersionsResponse_zk_migration_ready
      self) (ApiVersionsResponse_unknown_tagged_fields self).

(* @ src/crates/kafka-protocol/src/messages/api_versions_response.rs 269-277 ApiVersionsResponse::with_zk_migration_ready *)
Definition ApiVersionsResponse_with_zk_migration_ready (value : bool) (self : ApiVersionsResponse) :
    ApiVersionsResponse :=
  mkApiVersionsResponse (ApiVersionsResponse_error_code self) (ApiVersionsResponse_api_keys self)
      (ApiVersionsResponse_throttle_time_ms self) (ApiVersionsResponse_supported_features self)
      (ApiVersionsResponse_finalized_features_epoch self) (ApiVersionsResponse_finalized_features self)
      value (ApiVersionsResponse_unknown_tagged_fields self).

(** ** [create_topics_response] *)

(* @ src/crates/kafka-protocol/src/messages/create_topics_response.rs 54-62 CreatableTopicConfigs::with_name *)
Definition CreatableTopicConfigs_with_name (value : list byte) (self : CreatableTopicConfigs) :
    CreatableTopicConfigs :=
  mkCreatableTopicConfigs value (CreatableTopicConfigs_value self) (CreatableTopicConfigs_read_only self)
      (CreatableTopicConfigs_config_source self) (CreatableTopicConfigs_is_sensitive self)
      (CreatableTopicConfigs_unknown_tagged_fields self).

(* @ src/crates/kafka-protocol/src/messages/create_topics_response.rs 63-71 CreatableTopicConfigs::with_value *)
Definition CreatableTopicConfigs_with_value (value : option (list byte)) (self : CreatableTopicConfigs) :
    CreatableTopicConfigs :=
  mkCreatableTopicConfigs (CreatableTopicConfigs_name self) value (CreatableTopicConfigs_read_only self)
      (CreatableTopicConfigs_config_source self) (CreatableTopicConfigs_is_sensitive self)
      (CreatableTopicConfigs_unknown_tagged_fields self).

(* @ src/crates/kafka-protocol/src/messages/create_topics_response.rs 72-80 CreatableTopicConfigs::with_read_only *)
Definition CreatableTopicConfigs_with_read_only (value : bool) (self : CreatableTopicConfigs) :
    CreatableTopicConfigs :=
  mkCreatableTopicConfigs (CreatableTopicConfigs_name self) (CreatableTopicConfigs_value self) value
      (CreatableTopicConfigs_config_source self) (CreatableTopicConfigs_is_sensitive self)
      (CreatableTopicConfigs_unknown_tagged_fields self).

(* @ src/crates/kafka-protocol/src/messages/create_topics_response.rs 81-89 CreatableTopicConfigs::with_config_source *)
Definition CreatableTopicConfigs_with_config_source (value : Z) (self : CreatableTopicConfigs) :
    CreatableTopicConfigs :=
  mkCreatableTopicConfigs (CreatableTopicConfigs_name self) (CreatableTopicConfigs_value self)
      (CreatableTopicConfigs_read_only self) value (CreatableTopicConfigs_is_sensitive self)
      (CreatableTopicConfigs_unknown_tagged_fields self).

(* @ src/crates/kafka-protocol/src/messages/create_topics_response.rs 90-98 CreatableTopicConfigs::with_is_sensitive *)
Definition CreatableTopicConfigs_with_is_sensitive (value : bool) (self : CreatableTopicConfigs) :
    CreatableTopicConfigs :=
  mkCreatableTopicConfigs (CreatableTopicConfigs_name self) (CreatableTopicConfigs_value self)
      (CreatableTopicConfigs_read_only self) (CreatableTopicConfigs_config_source self) value
      (CreatableTopicConfigs_unknown_tagged_fields self).

(* @ src/crates/kafka-protocol/src/messages/create_topics_response.rs 340-348 CreatableTopicResult::with_name *)
Definition CreatableTopicResult_with_name (value : list byte) (self : CreatableTopicResult) :
    CreatableTopicResult :=
  mkCreatableTopicResult value (CreatableTopicResult_topic_id self) (CreatableTopicResult_error_code self)
      (CreatableTopicResult_error_message self) (CreatableTopicResult_topic_config_error_code self)
      (CreatableTopicResult_num_partitions self) (CreatableTopicResult_replication_factor self)
      (CreatableTopicResult_configs self) (CreatableTopicResult_unknown_tagged_fields self).

(* @ src/crates/kafka-protocol/src/messages/create_topics_response.rs 349-357 CreatableTopicResult::with_topic_id *)
Definition CreatableTopicResult_with_topic_id (value : Z) (self : CreatableTopicResult) :
    CreatableTopicResult :=
  mkCreatableTopicResult (CreatableTopicResult_name self) value (CreatableTopicResult_error_code self)
      (CreatableTopicResult_error_message self) (CreatableTopicResult_topic_config_error_code self)
      (CreatableTopicResult_num_partitions self) (CreatableTopicResult_replication_factor self)
      (CreatableTopicResult_configs self) (CreatableTopicResult_unknown_tagged_fields self).

(* @ src/crates/kafka-protocol/src/messages/create_topics_response.rs 358-366 CreatableTopicResult::with_error_code *)
Definition CreatableTopicResult_with_error_code (value : Z) (self : CreatableTopicResult) :
    CreatableTopicResult :=
  mkCreatableTopicResult (CreatableTopicResult_name self) (CreatableTopicResult_topic_id self) value
      (CreatableTopicResult_error_message self) (CreatableTopicResult_topic_config_error_code self)
      (CreatableTopicResult_num_partitions self) (CreatableTopicResult_replication_factor self)
      (CreatableTopicResult_configs self) (CreatableTopicResult_unknown_tagged_fields self).

(* @ src/crates/kafka-protocol/src/messages/create_topics_response.rs 367-375 CreatableTopicResult::with_error_message *)
Definition CreatableTopicResult_with_error_message (value : option (list byte)) (self :
    CreatableTopicResult) : CreatableTopicResult :=
  mkCreatableTopicResult (CreatableTopicResult_name self) (CreatableTopicResult_topic_id self)
      (CreatableTopicResult_error_code self) value (CreatableTopicResult_topic_config_error_code self)
      (CreatableTopicResult_num_partitions self) (CreatableTopicResult_replication_factor self)
      (CreatableTopicResult_configs self) (CreatableTopicResult_unknown_tagged_fields self).

(* @ src/crates/kafka-protocol/src/messages/create_topics_response.rs 376-384 CreatableTopicResult::with_topic_config_error_code *)
Definition CreatableTopicResult_with_topic_config_error_code (value : Z) (self : CreatableTopicResult) :
    CreatableTopicResult :=
  mkCreatableTopicResult (CreatableTopicResult_name self) (CreatableTopicResult_topic_id self)
      (CreatableTopicResult_error_code self) (CreatableTopicResult_error_message self) value
      (CreatableTopicResult_num_partitions self) (CreatableTopicResult_replication_factor self)
      (CreatableTopicResult_configs self) (CreatableTopicResult_unknown_tagged_fields self).

(* @ src/crates/kafka-protocol/src/messages/create_topics_response.rs 385-393 CreatableTopicResult::with_num_partitions *)
Definition CreatableTopicResult_with_num_partitions (value : Z) (self : CreatableTopicResult) :
    CreatableTopicResult :=
  mkCreatableTopicResult (CreatableTopicResult_name self) (CreatableTopicResult_topic_id self)
      (CreatableTopicResult_error_code self) (CreatableTopicResult_error_message self)
      (CreatableTopicResult_topic_config_error_code self) value (CreatableTopicResult_replication_factor
      self) (CreatableTopicResult_configs self) (CreatableTopicResult_unknown_tagged_fields self).

(* @ src/crates/kafka-protocol/src/messages/create_topics_response.rs 394-402 CreatableTopicResult::with_replication_factor *)
Definition CreatableTopicResult_with_replication_factor (value : Z) (self : CreatableTopicResult) :
    CreatableTopicResult :=
  mkCreatableTopicResult (CreatableTopicResult_name self) (CreatableTopicResult_topic_id self)
      (CreatableTopicResult_error_code self) (CreatableTopicResult_error_message self)
      (CreatableTopicResult_topic_config_error_code self) (CreatableTopicResult_num_partitions self) value
      (CreatableTopicResult_configs self) (CreatableTopicResult_unknown_tagged_fields self).

(* @ src/crates/kafka-protocol/src/messages/create_topics_response.rs 403-411 CreatableTopicResult::with_configs *)
Definition CreatableTopicResult_with_configs (value : option (list CreatableTopicConfigs)) (self :
    CreatableTopicResult) : CreatableTopicResult :=
  mkCreatableTopicResult (CreatableTopicResult_name self) (CreatableTopicResult_topic_id self)
      (CreatableTopicResult_error_code self) (CreatableTopicResult_error_message self)
      (CreatableTopicResult_topic_config_error_code self) (CreatableTopicResult_num_partitions self)
      (CreatableTopicResult_replication_factor self) value (CreatableTopicResult_unknown_tagged_fields
      self).

(* @ src/crates/kafka-protocol/src/messages/create_topics_response.rs 648-656 CreateTopicsResponse::with_throttle_time_ms *)
Definition CreateTopicsResponse_with_throttle_time_ms (value : Z) (self : CreateTopicsResponse) :
    CreateTopicsResponse :=
  mkCreateTopicsResponse value (CreateTopicsResponse_topics self)
      (CreateTopicsResponse_unknown_tagged_fields self).

(* @ src/crates/kafka-protocol/src/messages/create_topics_response.rs 657-665 CreateTopicsResponse::with_topics *)
Definition CreateTopicsResponse_with_topics (value : list CreatableTopicResult) (self :
    CreateTopicsResponse) : CreateTopicsResponse :=
  mkCreateTopicsResponse (CreateTopicsResponse_throttle_time_ms self) value
      (CreateTopicsResponse_unknown_tagged_fields self).

(** ** [init_producer_id_response] *)

(* @ src/crates/kafka-protocol/src/messages/init_producer_id_response.rs 59-67 InitProducerIdResponse::with_throttle_time_ms *)
Definition InitProducerIdResponse_with_throttle_time_ms (value : Z) (self : InitProducerIdResponse) :
    InitProducerIdResponse :=
  mkInitProducerIdResponse value (InitProducerIdResponse_error_code self)
      (InitProducerIdResponse_producer_id self) (InitProducerIdResponse_producer_epoch self)
      (InitProducerIdResponse_ongoing_txn_producer_id self)
      (InitProducerIdResponse_ongoing_txn_producer_epoch self)
      (InitProducerIdResponse_unknown_tagged_fields self).

(* @ src/crates/kafka-protocol/src/messages/init_producer_id_response.rs 68-76 InitProducerIdResponse::with_error_code *)
Definition InitProducerIdResponse_with_error_code (value : Z) (self : InitProducerIdResponse) :
    InitProducerIdResponse :=
  mkInitProducerIdResponse (InitProducerIdResponse_throttle_time_ms self) value
      (InitProducerIdResponse_producer_id self) (InitProducerIdResponse_producer_epoch self)
      (InitProducerIdResponse_ongoing_txn_producer_id self)
      (InitProducerIdResponse_ongoing_txn_producer_epoch self)
      (InitProducerIdResponse_unknown_tagged_fields self).

(* @ src/crates/kafka-protocol/src/messages/init_producer_id_response.rs 77-85 InitProducerIdResponse::with_producer_id *)
Definition InitProducerIdResponse_with_producer_id (value : Z) (self : InitProducerIdResponse) :
    InitProducerIdResponse :=
  mkInitProducerIdResponse (InitProducerIdResponse_throttle_time_ms self)
      (InitProducerIdResponse_error_code self) value (InitProducerIdResponse_producer_epoch self)
      (InitProducerIdResponse_ongoing_txn_producer_id self)
      (InitProducerIdResponse_ongoing_txn_producer_epoch self)
      (InitProducerIdResponse_unknown_tagged_fields self).

(* @ src/crates/kafka-protocol/src/messages/init_producer_id_response.rs 86-94 InitProducerIdResponse::with_producer_epoch *)
Definition InitProducerIdResponse_with_producer_epoch (value : Z) (self : InitProducerIdResponse) :
    InitProducerIdResponse :=
  mkInitProducerIdResponse (InitProducerIdResponse_throttle_time_ms self)
      (InitProducerIdResponse_error_code self) (InitProducerIdResponse_producer_id self) value
      (InitProducerIdResponse_ongoing_txn_producer_id self)
      (InitProducerIdResponse_ongoing_txn_producer_epoch self)
      (InitProducerIdResponse_unknown_tagged_fields self).

(* @ src/crates/kafka-protocol/src/messages/init_producer_id_response.rs 95-103 InitProducerIdResponse::with_ongoing_txn_producer_id *)
Definition InitProducerIdResponse_with_ongoing_txn_producer_id (value : Z) (self : InitProducerIdResponse)
    : InitProducerIdResponse :=
  mkInitProducerIdResponse (InitProducerIdResponse_throttle_time_ms self)
      (InitProducerIdResponse_error_code self) (InitProducerIdResponse_producer_id self)
      (InitProducerIdResponse_producer_epoch self) value (InitProducerIdResponse_ongoing_txn_producer_epoch
      self) (InitProducerIdResponse_unknown_tagged_fields self).

(* @ src/crates/kafka-protocol/src/messages/init_producer_id_response.rs 104-112 InitProducerIdResponse::with_ongoing_txn_producer_epoch *)
Definition InitProducerIdResponse_with_ongoing_txn_producer_epoch (value : Z) (self :
    InitProducerIdResponse) : InitProducerIdResponse :=
  mkInitProducerIdResponse (InitProducerIdResponse_throttle_time_ms self)
      (InitProducerIdResponse_error_code self) (InitProducerIdResponse_producer_id self)
      (InitProducerIdResponse_producer_epoch self) (InitProducerIdResponse_ongoing_txn_producer_id self)
      value (InitProducerIdResponse_unknown_tagged_fields self).

(** ** [describe_configs_response] *)

(* @ src/crates/kafka-protocol/src/messages/describe_configs_response.rs 726-734 DescribeConfigsSynonym::with_name *)
Definition DescribeConfigsSynonym_with_name (value : list byte) (self : DescribeConfigsSynonym) :
    DescribeConfigsSynonym :=
  mkDescribeConfigsSynonym value (DescribeConfigsSynonym_value self) (DescribeConfigsSynonym_source self)
      (DescribeConfigsSynonym_unknown_tagged_fields self).

(* @ src/crates/kafka-protocol/src/messages/describe_configs_response.rs 735-743 DescribeConfigsSynonym::with_value *)
Definition DescribeConfigsSynonym_with_value (value : option (list byte)) (self : DescribeConfigsSynonym) :
    DescribeConfigsSynonym :=
  mkDescribeConfigsSynonym (DescribeConfigsSynonym_name self) value (DescribeConfigsSynonym_source self)
      (DescribeConfigsSynonym_unknown_tagged_fields self).

(* @ src/crates/kafka-protocol/src/messages/describe_configs_response.rs 744-752 DescribeConfigsSynonym::with_source *)
Definition DescribeConfigsSynonym_with_source (value : Z) (self : DescribeConfigsSynonym) :
    DescribeConfigsSynonym :=
  mkDescribeConfigsSynonym (DescribeConfigsSynonym_name self) (DescribeConfigsSynonym_value self) value
      (DescribeConfigsSynonym_unknown_tagged_fields self).

(* @ src/crates/kafka-protocol/src/messages/describe_configs_response.rs 69-77 DescribeConfigsResourceResult::with_name *)
Definition DescribeConfigsResourceResult_with_name (value : list byte) (self :
    DescribeConfigsResourceResult) : DescribeConfigsResourceResult :=
  mkDescribeConfigsResourceResult value (DescribeConfigsResourceResult_value self)
      (DescribeConfigsResourceResult_read_only self) (DescribeConfigsResourceResult_config_source self)
      (DescribeConfigsResourceResult_is_sensitive self) (DescribeConfigsResourceResult_synonyms self)
      (DescribeConfigsResourceResult_config_type self) (DescribeConfigsResourceResult_documentation self)
      (DescribeConfigsResourceResult_unknown_tagged_fields self).

(* @ src/crates/kafka-protocol/src/messages/describe_configs_response.rs 78-86 DescribeConfigsResourceResult::with_value *)
Definition DescribeConfigsResourceResult_with_value (value : option (list byte)) (self :
    DescribeConfigsResourceResult) : DescribeConfigsResourceResult :=
  mkDescribeConfigsResourceResult (DescribeConfigsResourceResult_name self) value
      (DescribeConfigsResourceResult_read_only self) (DescribeConfigsResourceResult_config_source self)
      (DescribeConfigsResourceResult_is_sensitive self) (DescribeConfigsResourceResult_synonyms self)
      (DescribeConfigsResourceResult_config_type self) (DescribeConfigsResourceResult_documentation self)
      (DescribeConfigsResourceResult_unknown_tagged_fields self).

(* @ src/crates/kafka-protocol/src/messages/describe_configs_response.rs 87-95 DescribeConfigsResourceResult::with_read_only *)
Definition DescribeConfigsResourceResult_with_read_only (value : bool) (self :
    DescribeConfigsResourceResult) : DescribeConfigsResourceResult :=
  mkDescribeConfigsResourceResult (DescribeConfigsResourceResult_name self)
      (DescribeConfigsResourceResult_value self) value (DescribeConfigsResourceResult_config_source self)
      (DescribeConfigsResourceResult_is_sensitive self) (DescribeConfigsResourceResult_synonyms self)
      (DescribeConfigsResourceResult_config_type self) (DescribeConfigsResourceResult_documentation self)
      (DescribeConfigsResourceResult_unknown_tagged_fields self).

(* @ src/crates/kafka-protocol/src/messages/describe_configs_response.rs 96-104 DescribeConfigsResourceResult::with_config_source *)
Definition DescribeConfigsResourceResult_with_config_source (value : Z) (self :
    DescribeConfigsResourceResult) : DescribeConfigsResourceResult :=
  mkDescribeConfigsResourceResult (DescribeConfigsResourceResult_name self)
      (DescribeConfigsResourceResult_value self) (DescribeConfigsResourceResult_read_only self) value
      (DescribeConfigsResourceResult_is_sensitive self) (DescribeConfigsResourceResult_synonyms self)
      (DescribeConfigsResourceResult_config_type self) (DescribeConfigsResourceResult_documentation self)
      (DescribeConfigsResourceResult_unknown_tagged_fields self).

(* @ src/crates/kafka-protocol/src/messages/describe_configs_response.rs 105-113 DescribeConfigsResourceResult::with_is_sensitive *)
Definition DescribeConfigsResourceResult_with_is_sensitive (value : bool) (self :
    DescribeConfigsResourceResult) : DescribeConfigsResourceResult :=
  mkDescribeConfigsResourceResult (DescribeConfigsResourceResult_name self)
      (DescribeConfigsResourceResult_value self) (DescribeConfigsResourceResult_read_only self)
      (DescribeConfigsResourceResult_config_source self) value (DescribeConfigsResourceResult_synonyms
      self) (DescribeConfigsResourceResult_config_type self) (DescribeConfigsResourceResult_documentation
      self) (DescribeConfigsResourceResult_unknown_tagged_fields self).

(* @ src/crates/kafka-protocol/src/messages/describe_configs_response.rs 114-122 DescribeConfigsResourceResult::with_synonyms *)
Definition DescribeConfigsResourceResult_with_synonyms (value : list DescribeConfigsSynonym) (self :
    DescribeConfigsResourceResult) : DescribeConfigsResourceResult :=
  mkDescribeConfigsResourceResult (DescribeConfigsResourceResult_name self)
      (DescribeConfigsResourceResult_value self) (DescribeConfigsResourceResult_read_only self)
      (DescribeConfigsResourceResult_config_source self) (DescribeConfigsResourceResult_is_sensitive self)
      value (DescribeConfigsResourceResult_config_type self) (DescribeConfigsResourceResult_documentation
      self) (DescribeConfigsResourceResult_unknown_tagged_fields self).

(* @ src/crates/kafka-protocol/src/messages/describe_configs_response.rs 123-131 DescribeConfigsResourceResult::with_config_type *)
Definition DescribeConfigsResourceResult_with_config_type (value : Z) (self :
    DescribeConfigsResourceResult) : DescribeConfigsResourceResult :=
  mkDescribeConfigsResourceResult (DescribeConfigsResourceResult_name self)
      (DescribeConfigsResourceResult_value self) (DescribeConfigsResourceResult_read_only self)
      (DescribeConfigsResourceResult_config_source self) (DescribeConfigsResourceResult_is_sensitive self)
      (DescribeConfigsResourceResult_synonyms self) value (DescribeConfigsResourceResult_documentation
      self) (DescribeConfigsResourceResult_unknown_tagged_fields self).

(* @ src/crates/kafka-protocol/src/messages/describe_configs_response.rs 132-140 DescribeConfigsResourceResult::with_documentation *)
Definition DescribeConfigsResourceResult_with_documentation (value : option (list byte)) (self :
    DescribeConfigsResourceResult) : DescribeConfigsResourceResult :=
  mkDescribeConfigsResourceResult (DescribeConfigsResourceResult_name self)
      (DescribeConfigsResourceResult_value self) (DescribeConfigsResourceResult_read_only self)
      (DescribeConfigsResourceResult_config_source self) (DescribeConfigsResourceResult_is_sensitive self)
      (DescribeConfigsResourceResult_synonyms self) (DescribeConfigsResourceResult_config_type self) value
      (DescribeConfigsResourceResult_unknown_tagged_fields self).

(* @ src/crates/kafka-protocol/src/messages/describe_configs_response.rs 510-518 DescribeConfigsResult::with_error_code *)
Definition DescribeConfigsResult_with_error_code (value : Z) (self : DescribeConfigsResult) :
    DescribeConfigsResult :=
  mkDescribeConfigsResult value (DescribeConfigsResult_error_message self)
      (DescribeConfigsResult_resource_type self) (DescribeConfigsResult_resource_name self)
      (DescribeConfigsResult_configs self) (DescribeConfigsResult_unknown_tagged_fields self).

(* @ src/crates/kafka-protocol/src/messages/describe_configs_response.rs 519-527 DescribeConfigsResult::with_error_message *)
Definition DescribeConfigsResult_with_error_message (value : option (list byte)) (self :
    DescribeConfigsResult) : DescribeConfigsResult :=
  mkDescribeConfigsResult (DescribeConfigsResult_error_code self) value
      (DescribeConfigsResult_resource_type self) (DescribeConfigsResult_resource_name self)
      (DescribeConfigsResult_configs self) (DescribeConfigsResult_unknown_tagged_fields self).

(* @ src/crates/kafka-protocol/src/messages/describe_configs_response.rs 528-536 DescribeConfigsResult::with_resource_type *)
Definition DescribeConfigsResult_with_resource_type (value : Z) (self : DescribeConfigsResult) :
    DescribeConfigsResult :=
  mkDescribeConfigsResult (DescribeConfigsResult_error_code self) (DescribeConfigsResult_error_message
      self) value (DescribeConfigsResult_resource_name self) (DescribeConfigsResult_configs self)
      (DescribeConfigsResult_unknown_tagged_fields self).

(* @ src/crates/kafka-protocol/src/messages/describe_configs_response.rs 537-545 DescribeConfigsResult::with_resource_name *)
Definition DescribeConfigsResult_with_resource_name (value : list byte) (self : DescribeConfigsResult) :
    DescribeConfigsResult :=
  mkDescribeConfigsResult (DescribeConfigsResult_error_code self) (DescribeConfigsResult_error_message
      self) (DescribeConfigsResult_resource_type self) value (DescribeConfigsResult_configs self)
      (DescribeConfigsResult_unknown_tagged_fields self).

(* @ src/crates/kafka-protocol/src/messages/describe_configs_response.rs 546-554 DescribeConfigsResult::with_configs *)
Definition DescribeConfigsResult_with_configs (value : list DescribeConfigsResourceResult) (self :
    DescribeConfigsResult) : DescribeConfigsResult :=
  mkDescribeConfigsResult (DescribeConfigsResult_error_code self) (DescribeConfigsResult_error_message
      self) (DescribeConfigsResult_resource_type self) (DescribeConfigsResult_resource_name self) value
      (DescribeConfigsResult_unknown_tagged_fields self).

(* @ src/crates/kafka-protocol/src/messages/describe_configs_response.rs 350-358 DescribeConfigsResponse::with_throttle_time_ms *)
Definition DescribeConfigsResponse_with_throttle_time_ms (value : Z) (self : DescribeConfigsResponse) :
    DescribeConfigsResponse :=
  mkDescribeConfigsResponse value (DescribeConfigsResponse_results self)
      (DescribeConfigsResponse_unknown_tagged_fields self).

(* @ src/crates/kafka-protocol/src/messages/describe_configs_response.rs 359-367 DescribeConfigsResponse::with_results *)
Definition DescribeConfigsResponse_with_results (value : list DescribeConfigsResult) (self :
    DescribeConfigsResponse) : DescribeConfigsResponse :=
  mkDescribeConfigsResponse (DescribeConfigsResponse_throttle_time_ms self) value
      (DescribeConfigsResponse_unknown_tagged_fields self).

(** ** [describe_cluster_response] *)

(* @ src/crates/kafka-protocol/src/messages/describe_cluster_response.rs 54-62 DescribeClusterBroker::with_broker_id *)
Definition DescribeClusterBroker_with_broker_id (value : Z) (self : DescribeClusterBroker) :
    DescribeClusterBroker :=
  mkDescribeClusterBroker value (DescribeClusterBroker_host self) (DescribeClusterBroker_port self)
      (DescribeClusterBroker_rack self) (DescribeClusterBroker_is_fenced self)
      (DescribeClusterBroker_unknown_tagged_fields self).

(* @ src/crates/kafka-protocol/src/messages/describe_cluster_response.rs 63-71 DescribeClusterBroker::with_host *)
Definition DescribeClusterBroker_with_host (value : list byte) (self : DescribeClusterBroker) :
    DescribeClusterBroker :=
  mkDescribeClusterBroker (DescribeClusterBroker_broker_id self) value (DescribeClusterBroker_port self)
      (DescribeClusterBroker_rack self) (DescribeClusterBroker_is_fenced self)
      (DescribeClusterBroker_unknown_tagged_fields self).

(* @ src/crates/kafka-protocol/src/messages/describe_cluster_response.rs 72-80 DescribeClusterBroker::with_port *)
Definition DescribeClusterBroker_with_port (value : Z) (self : DescribeClusterBroker) :
    DescribeClusterBroker :=
  mkDescribeClusterBroker (DescribeClusterBroker_broker_id self) (DescribeClusterBroker_host self) value
      (DescribeClusterBroker_rack self) (DescribeClusterBroker_is_fenced self)
      (DescribeClusterBroker_unknown_tagged_fields self).

(* @ src/crates/kafka-protocol/src/messages/describe_cluster_response.rs 81-89 DescribeClusterBroker::with_rack *)
Definition DescribeClusterBroker_with_rack (value : option (list byte)) (self : DescribeClusterBroker) :
    DescribeClusterBroker :=
  mkDescribeClusterBroker (DescribeClusterBroker_broker_id self) (DescribeClusterBroker_host self)
      (DescribeClusterBroker_port self) value (DescribeClusterBroker_is_fenced self)
      (DescribeClusterBroker_unknown_tagged_fields self).

(* @ src/crates/kafka-protocol/src/messages/describe_cluster_response.rs 90-98 DescribeClusterBroker::with_is_fenced *)
Definition DescribeClusterBroker_with_is_fenced (value : bool) (self : DescribeClusterBroker) :
    DescribeClusterBroker :=
  mkDescribeClusterBroker (DescribeClusterBroker_broker_id self) (DescribeClusterBroker_host self)
      (DescribeClusterBroker_port self) (DescribeClusterBroker_rack self) value
      (DescribeClusterBroker_unknown_tagged_fields self).

(* @ src/crates/kafka-protocol/src/messages/describe_cluster_response.rs 268-276 DescribeClusterResponse::with_throttle_time_ms *)
Definition DescribeClusterResponse_with_throttle_time_ms (value : Z) (self : DescribeClusterResponse) :
    DescribeClusterResponse :=
  mkDescribeClusterResponse value (DescribeClusterResponse_error_code self)
      (DescribeClusterResponse_error_message self) (DescribeClusterResponse_endpoint_type self)
      (DescribeClusterResponse_cluster_id self) (DescribeClusterResponse_controller_id self)
      (DescribeClusterResponse_brokers self) (DescribeClusterResponse_cluster_authorized_operations self)
      (DescribeClusterResponse_unknown_tagged_fields self).

(* @ src/crates/kafka-protocol/src/messages/describe_cluster_response.rs 277-285 DescribeClusterResponse::with_error_code *)
Definition DescribeClusterResponse_with_error_code (value : Z) (self : DescribeClusterResponse) :
    DescribeClusterResponse :=
  mkDescribeClusterResponse (DescribeClusterResponse_throttle_time_ms self) value
      (DescribeClusterResponse_error_message self) (DescribeClusterResponse_endpoint_type self)
      (DescribeClusterResponse_cluster_id self) (DescribeClusterResponse_controller_id self)
      (DescribeClusterResponse_brokers self) (DescribeClusterResponse_cluster_authorized_operations self)
      (DescribeClusterResponse_unknown_tagged_fields self).

(* @ src/crates/kafka-protocol/src/messages/describe_cluster_response.rs 286-294 DescribeClusterResponse::with_error_message *)
Definition DescribeClusterResponse_with_error_message (value : option (list byte)) (self :
    DescribeClusterResponse) : DescribeClusterResponse :=
  mkDescribeClusterResponse (DescribeClusterResponse_throttle_time_ms self)
      (DescribeClusterResponse_error_code self) value (DescribeClusterResponse_endpoint_type self)
      (DescribeClusterResponse_cluster_id self) (DescribeClusterResponse_controller_id self)
      (DescribeClusterResponse_brokers self) (DescribeClusterResponse_cluster_authorized_operations self)
      (DescribeClusterResponse_unknown_tagged_fields self).

(* @ src/crates/kafka-protocol/src/messages/describe_cluster_response.rs 295-303 DescribeClusterResponse::with_endpoint_type *)
Definition DescribeClusterResponse_with_endpoint_type (value : Z) (self : DescribeClusterResponse) :
    DescribeClusterResponse :=
  mkDescribeClusterResponse (DescribeClusterResponse_throttle_time_ms self)
      (DescribeClusterResponse_error_code self) (DescribeClusterResponse_error_message self) value
      (DescribeClusterResponse_cluster_id self) (DescribeClusterResponse_controller_id self)
      (DescribeClusterResponse_brokers self) (DescribeClusterResponse_cluster_authorized_operations self)
      (DescribeClusterResponse_unknown_tagged_fields self).

(* @ src/crates/kafka-protocol/src/messages/describe_cluster_response.rs 304-312 DescribeClusterResponse::with_cluster_id *)
Definition DescribeClusterResponse_with_cluster_id (value : list byte) (self : DescribeClusterResponse) :
    DescribeClusterResponse :=
  mkDescribeClusterResponse (DescribeClusterResponse_throttle_time_ms self)
      (DescribeClusterResponse_error_code self) (DescribeClusterResponse_error_message self)
      (DescribeClusterResponse_endpoint_type self) value (DescribeClusterResponse_controller_id self)
      (DescribeClusterResponse_brokers self) (DescribeClusterResponse_cluster_authorized_operations self)
      (DescribeClusterResponse_unknown_tagged_fields self).

(* @ src/crates/kafka-protocol/src/messages/describe_cluster_response.rs 313-321 DescribeClusterResponse::with_controller_id *)
Definition DescribeClusterResponse_with_controller_id (value : Z) (self : DescribeClusterResponse) :
    DescribeClusterResponse :=
  mkDescribeClusterResponse (DescribeClusterResponse_throttle_time_ms self)
      (DescribeClusterResponse_error_code self) (DescribeClusterResponse_error_message self)
      (DescribeClusterResponse_endpoint_type self) (DescribeClusterResponse_cluster_id self) value
      (DescribeClusterResponse_brokers self) (DescribeClusterResponse_cluster_authorized_operations self)
      (DescribeClusterResponse_unknown_tagged_fields self).

(* @ src/crates/kafka-protocol/src/messages/describe_cluster_response.rs 322-330 DescribeClusterResponse::with_brokers *)
Definition DescribeClusterResponse_with_brokers (value : list DescribeClusterBroker) (self :
    DescribeClusterResponse) : DescribeClusterResponse :=
  mkDescribeClusterResponse (DescribeClusterResponse_throttle_time_ms self)
      (DescribeClusterResponse_error_code self) (DescribeClusterResponse_error_message self)
      (DescribeClusterResponse_endpoint_type self) (DescribeClusterResponse_cluster_id self)
      (DescribeClusterResponse_controller_id self) value
      (DescribeClusterResponse_cluster_authorized_operations self)
      (DescribeClusterResponse_unknown_tagged_fields self).

(* @ src/crates/kafka-protocol/src/messages/describe_cluster_response.rs 331-339 DescribeClusterResponse::with_cluster_authorized_operations *)
Definition DescribeClusterResponse_with_cluster_authorized_operations (value : Z) (self :
    DescribeClusterResponse) : DescribeClusterResponse :=
  mkDescribeClusterResponse (DescribeClusterResponse_throttle_time_ms self)
      (DescribeClusterResponse_error_code self) (DescribeClusterResponse_error_message self)
      (DescribeClusterResponse_endpoint_type self) (DescribeClusterResponse_cluster_id self)
      (DescribeClusterResponse_controller_id self) (DescribeClusterResponse_brokers self) value
      (DescribeClusterResponse_unknown_tagged_fields self).

(** ** [describe_topic_partitions_response] *)

(* @ src/crates/kafka-protocol/src/messages/describe_topic_partitions_response.rs 39-47 Cursor::with_topic_name *)
Definition DescribeTopicPartitionsResponse_Cursor_with_topic_name (value : list byte) (self :
    DescribeTopicPartitionsResponse_Cursor) : DescribeTopicPartitionsResponse_Cursor :=
  mkDescribeTopicPartitionsResponse_Cursor value (DescribeTopicPartitionsResponse_Cursor_partition_index
      self) (DescribeTopicPartitionsResponse_Cursor_unknown_tagged_fields self).

(* @ src/crates/kafka-protocol/src/messages/describe_topic_partitions_response.rs 48-56 Cursor::with_partition_index *)
Definition DescribeTopicPartitionsResponse_Cursor_with_partition_index (value : Z) (self :
    DescribeTopicPartitionsResponse_Cursor) : DescribeTopicPartitionsResponse_Cursor :=
  mkDescribeTopicPartitionsResponse_Cursor (DescribeTopicPartitionsResponse_Cursor_topic_name self) value
      (DescribeTopicPartitionsResponse_Cursor_unknown_tagged_fields self).

(* @ src/crates/kafka-protocol/src/messages/describe_topic_partitions_response.rs 345-353 DescribeTopicPartitionsResponsePartition::with_error_code *)
Definition DescribeTopicPartitionsResponsePartition_with_error_code (value : Z) (self :
    DescribeTopicPartitionsResponsePartition) : DescribeTopicPartitionsResponsePartition :=
  mkDescribeTopicPartitionsResponsePartition value
      (DescribeTopicPartitionsResponsePartition_partition_index self)
      (DescribeTopicPartitionsResponsePartition_leader_id self)
      (DescribeTopicPartitionsResponsePartition_leader_epoch self)
      (DescribeTopicPartitionsResponsePartition_replica_nodes self)
      (DescribeTopicPartitionsResponsePartition_isr_nodes self)
      (DescribeTopicPartitionsResponsePartition_eligible_leader_replicas self)
      (DescribeTopicPartitionsResponsePartition_last_known_elr self)
      (DescribeTopicPartitionsResponsePartition_offline_replicas self)
      (DescribeTopicPartitionsResponsePartition_unknown_tagged_fields self).

(* @ src/crates/kafka-protocol/src/messages/describe_topic_partitions_response.rs 354-362 DescribeTopicPartitionsResponsePartition::with_partition_index *)
Definition DescribeTopicPartitionsResponsePartition_with_partition_index (value : Z) (self :
    DescribeTopicPartitionsResponsePartition) : DescribeTopicPartitionsResponsePartition :=
  mkDescribeTopicPartitionsResponsePartition (DescribeTopicPartitionsResponsePartition_error_code self)
      value (DescribeTopicPartitionsResponsePartition_leader_id self)
      (DescribeTopicPartitionsResponsePartition_leader_epoch self)
      (DescribeTopicPartitionsResponsePartition_replica_nodes self)
      (DescribeTopicPartitionsResponsePartition_isr_nodes self)
      (DescribeTopicPartitionsResponsePartition_eligible_leader_replicas self)
      (DescribeTopicPartitionsResponsePartition_last_known_elr self)
      (DescribeTopicPartitionsResponsePartition_offline_replicas self)
      (DescribeTopicPartitionsResponsePartition_unknown_tagged_fields self).

(* @ src/crates/kafka-protocol/src/messages/describe_topic_partitions_response.rs 363-371 DescribeTopicPartitionsResponsePartition::with_leader_id *)
Definition DescribeTopicPartitionsResponsePartition_with_leader_id (value : Z) (self :
    DescribeTopicPartitionsResponsePartition) : DescribeTopicPartitionsResponsePartition :=
  mkDescribeTopicPartitionsResponsePartition (DescribeTopicPartitionsResponsePartition_error_code self)
      (DescribeTopicPartitionsResponsePartition_partition_index self) value
      (DescribeTopicPartitionsResponsePartition_leader_epoch self)
      (DescribeTopicPartitionsResponsePartition_replica_nodes self)
      (DescribeTopicPartitionsResponsePartition_isr_nodes self)
      (DescribeTopicPartitionsResponsePartition_eligible_leader_replicas self)
      (DescribeTopicPartitionsResponsePartition_last_known_elr self)
      (DescribeTopicPartitionsResponsePartition_offline_replicas self)
      (DescribeTopicPartitionsResponsePartition_unknown_tagged_fields self).

(* @ src/crates/kafka-protocol/src/messages/describe_topic_partitions_response.rs 372-380 DescribeTopicPartitionsResponsePartition::with_leader_epoch *)
Definition DescribeTopicPartitionsResponsePartition_with_leader_epoch (value : Z) (self :
    DescribeTopicPartitionsResponsePartition) : DescribeTopicPartitionsResponsePartition :=
  mkDescribeTopicPartitionsResponsePartition (DescribeTopicPartitionsResponsePartition_error_code self)
      (DescribeTopicPartitionsResponsePartition_partition_index self)
      (DescribeTopicPartitionsResponsePartition_leader_id self) value
      (DescribeTopicPartitionsResponsePartition_replica_nodes self)
      (DescribeTopicPartitionsResponsePartition_isr_nodes self)
      (DescribeTopicPartitionsResponsePartition_eligible_leader_replicas self)
      (DescribeTopicPartitionsResponsePartition_last_known_elr self)
      (DescribeTopicPartitionsResponsePartition_offline_replicas self)
      (DescribeTopicPartitionsResponsePartition_unknown_tagged_fields self).

(* @ src/crates/kafka-protocol/src/messages/describe_topic_partitions_response.rs 381-389 DescribeTopicPartitionsResponsePartition::with_replica_nodes *)
Definition DescribeTopicPartitionsResponsePartition_with_replica_nodes (value : list Z) (self :
    DescribeTopicPartitionsResponsePartition) : DescribeTopicPartitionsResponsePartition :=
  mkDescribeTopicPartitionsResponsePartition (DescribeTopicPartitionsResponsePartition_error_code self)
      (DescribeTopicPartitionsResponsePartition_partition_index self)
      (DescribeTopicPartitionsResponsePartition_leader_id self)
      (DescribeTopicPartitionsResponsePartition_leader_epoch self) value
      (DescribeTopicPartitionsResponsePartition_isr_nodes self)
      (DescribeTopicPartitionsResponsePartition_eligible_leader_replicas self)
      (DescribeTopicPartitionsResponsePartition_last_known_elr self)
      (DescribeTopicPartitionsResponsePartition_offline_replicas self)
      (DescribeTopicPartitionsResponsePartition_unknown_tagged_fields self).

(* @ src/crates/kafka-protocol/src/messages/describe_topic_partitions_response.rs 390-398 DescribeTopicPartitionsResponsePartition::with_isr_nodes *)
Definition DescribeTopicPartitionsResponsePartition_with_isr_nodes (value : list Z) (self :
    DescribeTopicPartitionsResponsePartition) : DescribeTopicPartitionsResponsePartition :=
  mkDescribeTopicPartitionsResponsePartition (DescribeTopicPartitionsResponsePartition_error_code self)
      (DescribeTopicPartitionsResponsePartition_partition_index self)
      (DescribeTopicPartitionsResponsePartition_leader_id self)
      (DescribeTopicPartitionsResponsePartition_leader_epoch self)
      (DescribeTopicPartitionsResponsePartition_replica_nodes self) value
      (DescribeTopicPartitionsResponsePartition_eligible_leader_replicas self)
      (DescribeTopicPartitionsResponsePartition_last_known_elr self)
      (DescribeTopicPartitionsResponsePartition_offline_replicas self)
      (DescribeTopicPartitionsResponsePartition_unknown_tagged_fields self).

(* @ src/crates/kafka-protocol/src/messages/describe_topic_partitions_response.rs 399-407 DescribeTopicPartitionsResponsePartition::with_eligible_leader_replicas *)
Definition DescribeTopicPartitionsResponsePartition_with_eligible_leader_replicas (value : option (list Z))
    (self : DescribeTopicPartitionsResponsePartition) : DescribeTopicPartitionsResponsePartition :=
  mkDescribeTopicPartitionsResponsePartition (DescribeTopicPartitionsResponsePartition_error_code self)
      (DescribeTopicPartitionsResponsePartition_partition_index self)
      (DescribeTopicPartitionsResponsePartition_leader_id self)
      (DescribeTopicPartitionsResponsePartition_leader_epoch self)
      (DescribeTopicPartitionsResponsePartition_replica_nodes self)
      (DescribeTopicPartitionsResponsePartition_isr_nodes self) value
      (DescribeTopicPartitionsResponsePartition_last_known_elr self)
      (DescribeTopicPartitionsResponsePartition_offline_replicas self)
      (DescribeTopicPartitionsResponsePartition_unknown_tagged_fields self).

(* @ src/crates/kafka-protocol/src/messages/describe_topic_partitions_response.rs 408-416 DescribeTopicPartitionsResponsePartition::with_last_known_elr *)
Definition DescribeTopicPartitionsResponsePartition_with_last_known_elr (value : option (list Z)) (self :
    DescribeTopicPartitionsResponsePartition) : DescribeTopicPartitionsResponsePartition :=
  mkDescribeTopicPartitionsResponsePartition (DescribeTopicPartitionsResponsePartition_error_code self)
      (DescribeTopicPartitionsResponsePartition_partition_index self)
      (DescribeTopicPartitionsResponsePartition_leader_id self)
      (DescribeTopicPartitionsResponsePartition_leader_epoch self)
      (DescribeTopicPartitionsResponsePartition_replica_nodes self)
      (DescribeTopicPartitionsResponsePartition_isr_nodes self)
      (DescribeTopicPartitionsResponsePartition_eligible_leader_replicas self) value
      (DescribeTopicPartitionsResponsePartition_offline_replicas self)
      (DescribeTopicPartitionsResponsePartition_unknown_tagged_fields self).

(* @ src/crates/kafka-protocol/src/messages/describe_topic_partitions_response.rs 417-425 DescribeTopicPartitionsResponsePartition::with_offline_replicas *)
Definition DescribeTopicPartitionsResponsePartition_with_offline_replicas (value : list Z) (self :
    DescribeTopicPartitionsResponsePartition) : DescribeTopicPartitionsResponsePartition :=
  mkDescribeTopicPartitionsResponsePartition (DescribeTopicPartitionsResponsePartition_error_code self)
      (DescribeTopicPartitionsResponsePartition_partition_index self)
      (DescribeTopicPartitionsResponsePartition_leader_id self)
      (DescribeTopicPartitionsResponsePartition_leader_epoch self)
      (DescribeTopicPartitionsResponsePartition_replica_nodes self)
      (DescribeTopicPartitionsResponsePartition_isr_nodes self)
      (DescribeTopicPartitionsResponsePartition_eligible_leader_replicas self)
      (DescribeTopicPartitionsResponsePartition_last_known_elr self) value
      (DescribeTopicPartitionsResponsePartition_unknown_tagged_fields self).

(* @ src/crates/kafka-protocol/src/messages/describe_topic_partitions_response.rs 590-598 DescribeTopicPartitionsResponseTopic::with_error_code *)
Definition DescribeTopicPartitionsResponseTopic_with_error_code (value : Z) (self :
    DescribeTopicPartitionsResponseTopic) : DescribeTopicPartitionsResponseTopic :=
  mkDescribeTopicPartitionsResponseTopic value (DescribeTopicPartitionsResponseTopic_name self)
      (DescribeTopicPartitionsResponseTopic_topic_id self)
      (DescribeTopicPartitionsResponseTopic_is_internal self)
      (DescribeTopicPartitionsResponseTopic_partitions self)
      (DescribeTopicPartitionsResponseTopic_topic_authorized_operations self)
      (DescribeTopicPartitionsResponseTopic_unknown_tagged_fields self).

(* @ src/crates/kafka-protocol/src/messages/describe_topic_partitions_response.rs 599-607 DescribeTopicPartitionsResponseTopic::with_name *)
Definition DescribeTopicPartitionsResponseTopic_with_name (value : option (list byte)) (self :
    DescribeTopicPartitionsResponseTopic) : DescribeTopicPartitionsResponseTopic :=
  mkDescribeTopicPartitionsResponseTopic (DescribeTopicPartitionsResponseTopic_error_code self) value
      (DescribeTopicPartitionsResponseTopic_topic_id self)
      (DescribeTopicPartitionsResponseTopic_is_internal self)
      (DescribeTopicPartitionsResponseTopic_partitions self)
      (DescribeTopicPartitionsResponseTopic_topic_authorized_operations self)
      (DescribeTopicPartitionsResponseTopic_unknown_tagged_fields self).

(* @ src/crates/kafka-protocol/src/messages/describe_topic_partitions_response.rs 608-616 DescribeTopicPartitionsResponseTopic::with_topic_id *)
Definition DescribeTopicPartitionsResponseTopic_with_topic_id (value : Z) (self :
    DescribeTopicPartitionsResponseTopic) : DescribeTopicPartitionsResponseTopic :=
  mkDescribeTopicPartitionsResponseTopic (DescribeTopicPartitionsResponseTopic_error_code self)
      (DescribeTopicPartitionsResponseTopic_name self) value
      (DescribeTopicPartitionsResponseTopic_is_internal self)
      (DescribeTopicPartitionsResponseTopic_partitions self)
      (DescribeTopicPartitionsResponseTopic_topic_authorized_operations self)
      (DescribeTopicPartitionsResponseTopic_unknown_tagged_fields self).

(* @ src/crates/kafka-protocol/src/messages/describe_topic_partitions_response.rs 617-625 DescribeTopicPartitionsResponseTopic::with_is_internal *)
Definition DescribeTopicPartitionsResponseTopic_with_is_internal (value : bool) (self :
    DescribeTopicPartitionsResponseTopic) : DescribeTopicPartitionsResponseTopic :=
  mkDescribeTopicPartitionsResponseTopic (DescribeTopicPartitionsResponseTopic_error_code self)
      (DescribeTopicPartitionsResponseTopic_name self) (DescribeTopicPartitionsResponseTopic_topic_id self)
      value (DescribeTopicPartitionsResponseTopic_partitions self)
      (DescribeTopicPartitionsResponseTopic_topic_authorized_operations self)
      (DescribeTopicPartitionsResponseTopic_unknown_tagged_fields self).

(* @ src/crates/kafka-protocol/src/messages/describe_topic_partitions_response.rs 626-634 DescribeTopicPartitionsResponseTopic::with_partitions *)
Definition DescribeTopicPartitionsResponseTopic_with_partitions (value : list
    DescribeTopicPartitionsResponsePartition) (self : DescribeTopicPartitionsResponseTopic) :
    DescribeTopicPartitionsResponseTopic :=
  mkDescribeTopicPartitionsResponseTopic (DescribeTopicPartitionsResponseTopic_error_code self)
      (DescribeTopicPartitionsResponseTopic_name self) (DescribeTopicPartitionsResponseTopic_topic_id self)
      (DescribeTopicPartitionsResponseTopic_is_internal self) value
      (DescribeTopicPartitionsResponseTopic_topic_authorized_operations self)
      (DescribeTopicPartitionsResponseTopic_unknown_tagged_fields self).

(* @ src/crates/kafka-protocol/src/messages/describe_topic_partitions_response.rs 635-643 DescribeTopicPartitionsResponseTopic::with_topic_authorized_operations *)
Definition DescribeTopicPartitionsResponseTopic_with_topic_authorized_operations (value : Z) (self :
    DescribeTopicPartitionsResponseTopic) : DescribeTopicPartitionsResponseTopic :=
  mkDescribeTopicPartitionsResponseTopic (DescribeTopicPartitionsResponseTopic_error_code self)
      (DescribeTopicPartitionsResponseTopic_name self) (DescribeTopicPartitionsResponseTopic_topic_id self)
      (DescribeTopicPartitionsResponseTopic_is_internal self)
      (DescribeTopicPartitionsResponseTopic_partitions self) value
      (DescribeTopicPartitionsResponseTopic_unknown_tagged_fields self).

(* @ src/crates/kafka-protocol/src/messages/describe_topic_partitions_response.rs 170-178 DescribeTopicPartitionsResponse::with_throttle_time_ms *)
Definition DescribeTopicPartitionsResponse_with_throttle_time_ms (value : Z) (self :
    DescribeTopicPartitionsResponse) : DescribeTopicPartitionsResponse :=
  mkDescribeTopicPartitionsResponse value (DescribeTopicPartitionsResponse_topics self)
      (DescribeTopicPartitionsResponse_next_cursor self)
      (DescribeTopicPartitionsResponse_unknown_tagged_fields self).

(* @ src/crates/kafka-protocol/src/messages/describe_topic_partitions_response.rs 179-187 DescribeTopicPartitionsResponse::with_topics *)
Definition DescribeTopicPartitionsResponse_with_topics (value : list DescribeTopicPartitionsResponseTopic)
    (self : DescribeTopicPartitionsResponse) : DescribeTopicPartitionsResponse :=
  mkDescribeTopicPartitionsResponse (DescribeTopicPartitionsResponse_throttle_time_ms self) value
      (DescribeTopicPartitionsResponse_next_cursor self)
      (DescribeTopicPartitionsResponse_unknown_tagged_fields self).

(* @ src/crates/kafka-protocol/src/messages/describe_topic_partitions_response.rs 188-196 DescribeTopicPartitionsResponse::with_next_cursor *)
Definition DescribeTopicPartitionsResponse_with_next_cursor (value : option
    DescribeTopicPartitionsResponse_Cursor) (self : DescribeTopicPartitionsResponse) :
    DescribeTopicPartitionsResponse :=
  mkDescribeTopicPartitionsResponse (DescribeTopicPartitionsResponse_throttle_time_ms self)
      (DescribeTopicPartitionsResponse_topics self) value
      (DescribeTopicPartitionsResponse_unknown_tagged_fields self).
