(* ===== verification/ApiKeys.v ===== *)
(** * API keys, requests and responses

    [src/crates/kafka-protocol/src/messages.rs]: the [ApiKey] enumeration with the
    header and message versions of each key, and the [RequestKind] and
    [ResponseKind] enumerations that decode and encode a message by its key.
    The theorem of the file: every request and every response that is encoded is
    decoded by the other side as what it was. *)

From S2P Require Import Prelude Buf Types MessageCodec MessagesData MessagesGroups MessagesTxn.
From S2P Require Import MessagesSecurity MessagesShare MessagesRaft MessagesAdmin.
Open Scope Z_scope.

Module ApiKeys.

(** ** API keys *)

(* @ src/crates/kafka-protocol/src/messages.rs 1128-1307 ApiKey *)
Inductive ApiKey : Type :=
| ApiKey_Produce
| ApiKey_Fetch
| ApiKey_ListOffsets
| ApiKey_Metadata
| ApiKey_OffsetCommit
| ApiKey_OffsetFetch
| ApiKey_FindCoordinator
| ApiKey_JoinGroup
| ApiKey_Heartbeat
| ApiKey_LeaveGroup
| ApiKey_SyncGroup
| ApiKey_DescribeGroups
| ApiKey_ListGroups
| ApiKey_SaslHandshake
| ApiKey_ApiVersions
| ApiKey_CreateTopics
| ApiKey_DeleteTopics
| ApiKey_DeleteRecords
| ApiKey_InitProducerId
| ApiKey_OffsetForLeaderEpoch
| ApiKey_AddPartitionsToTxn
| ApiKey_AddOffsetsToTxn
| ApiKey_EndTxn
| ApiKey_WriteTxnMarkers
| ApiKey_TxnOffsetCommit
| ApiKey_DescribeAcls
| ApiKey_CreateAcls
| ApiKey_DeleteAcls
| ApiKey_DescribeConfigs
| ApiKey_AlterConfigs
| ApiKey_AlterReplicaLogDirs
| ApiKey_DescribeLogDirs
| ApiKey_SaslAuthenticate
| ApiKey_CreatePartitions
| ApiKey_CreateDelegationToken
| ApiKey_RenewDelegationToken
| ApiKey_ExpireDelegationToken
| ApiKey_DescribeDelegationToken
| ApiKey_DeleteGroups
| ApiKey_ElectLeaders
| ApiKey_IncrementalAlterConfigs
| ApiKey_AlterPartitionReassignments
| ApiKey_ListPartitionReassignments
| ApiKey_OffsetDelete
| ApiKey_DescribeClientQuotas
| ApiKey_AlterClientQuotas
| ApiKey_DescribeUserScramCredentials
| ApiKey_AlterUserScramCredentials
| ApiKey_Vote
| ApiKey_BeginQuorumEpoch
| ApiKey_EndQuorumEpoch
| ApiKey_DescribeQuorum
| ApiKey_AlterPartition
| ApiKey_UpdateFeatures
| ApiKey_Envelope
| ApiKey_FetchSnapshot
| ApiKey_DescribeCluster
| ApiKey_DescribeProducers
| ApiKey_BrokerRegistration
| ApiKey_BrokerHeartbeat
| ApiKey_UnregisterBroker
| ApiKey_DescribeTransactions
| ApiKey_ListTransactions
| ApiKey_AllocateProducerIds
| ApiKey_ConsumerGroupHeartbeat
| ApiKey_ConsumerGroupDescribe
| ApiKey_ControllerRegistration
| ApiKey_GetTelemetrySubscriptions
| ApiKey_PushTelemetry
| ApiKey_AssignReplicasToDirs
| ApiKey_ListConfigResources
| ApiKey_DescribeTopicPartitions
| ApiKey_ShareGroupHeartbeat
| ApiKey_ShareGroupDescribe
| ApiKey_ShareFetch
| ApiKey_ShareAcknowledge
| ApiKey_AddRaftVoter
| ApiKey_RemoveRaftVoter
| ApiKey_UpdateRaftVoter
| ApiKey_InitializeShareGroupState
| ApiKey_ReadShareGroupState
| ApiKey_WriteShareGroupState
| ApiKey_DeleteShareGroupState
| ApiKey_ReadShareGroupStateSummary
| ApiKey_StreamsGroupHeartbeat
| ApiKey_StreamsGroupDescribe
| ApiKey_DescribeShareGroupOffsets
| ApiKey_AlterShareGroupOffsets
| ApiKey_DeleteShareGroupOffsets.

#[global] Instance ApiKey_eq_dec : EqDecision ApiKey.
Proof. solve_decision. Defined.

(** [api_key as i16]. *)
(* @ src/crates/kafka-protocol/src/messages.rs 1128-1307 ApiKey *)
Definition ApiKey_code (k : ApiKey) : Z :=
  match k with
  | ApiKey_Produce => 0
  | ApiKey_Fetch => 1
  | ApiKey_ListOffsets => 2
  | ApiKey_Metadata => 3
  | ApiKey_OffsetCommit => 8
  | ApiKey_OffsetFetch => 9
  | ApiKey_FindCoordinator => 10
  | ApiKey_JoinGroup => 11
  | ApiKey_Heartbeat => 12
  | ApiKey_LeaveGroup => 13
  | ApiKey_SyncGroup => 14
  | ApiKey_DescribeGroups => 15
  | ApiKey_ListGroups => 16
  | ApiKey_SaslHandshake => 17
  | ApiKey_ApiVersions => 18
  | ApiKey_CreateTopics => 19
  | ApiKey_DeleteTopics => 20
  | ApiKey_DeleteRecords => 21
  | ApiKey_InitProducerId => 22
  | ApiKey_OffsetForLeaderEpoch => 23
  | ApiKey_AddPartitionsToTxn => 24
  | ApiKey_AddOffsetsToTxn => 25
  | ApiKey_EndTxn => 26
  | ApiKey_WriteTxnMarkers => 27
  | ApiKey_TxnOffsetCommit => 28
  | ApiKey_DescribeAcls => 29
  | ApiKey_CreateAcls => 30
  | ApiKey_DeleteAcls => 31
  | ApiKey_DescribeConfigs => 32
  | ApiKey_AlterConfigs => 33
  | ApiKey_AlterReplicaLogDirs => 34
  | ApiKey_DescribeLogDirs => 35
  | ApiKey_SaslAuthenticate => 36
  | ApiKey_CreatePartitions => 37
  | ApiKey_CreateDelegationToken => 38
  | ApiKey_RenewDelegationToken => 39
  | ApiKey_ExpireDelegationToken => 40
  | ApiKey_DescribeDelegationToken => 41
  | ApiKey_DeleteGroups => 42
  | ApiKey_ElectLeaders => 43
  | ApiKey_IncrementalAlterConfigs => 44
  | ApiKey_AlterPartitionReassignments => 45
  | ApiKey_ListPartitionReassignments => 46
  | ApiKey_OffsetDelete => 47
  | ApiKey_DescribeClientQuotas => 48
  | ApiKey_AlterClientQuotas => 49
  | ApiKey_DescribeUserScramCredentials => 50
  | ApiKey_AlterUserScramCredentials => 51
  | ApiKey_Vote => 52
  | ApiKey_BeginQuorumEpoch => 53
  | ApiKey_EndQuorumEpoch => 54
  | ApiKey_DescribeQuorum => 55
  | ApiKey_AlterPartition => 56
  | ApiKey_UpdateFeatures => 57
  | ApiKey_Envelope => 58
  | ApiKey_FetchSnapshot => 59
  | ApiKey_DescribeCluster => 60
  | ApiKey_DescribeProducers => 61
  | ApiKey_BrokerRegistration => 62
  | ApiKey_BrokerHeartbeat => 63
  | ApiKey_UnregisterBroker => 64
  | ApiKey_DescribeTransactions => 65
  | ApiKey_ListTransactions => 66
  | ApiKey_AllocateProducerIds => 67
  | ApiKey_ConsumerGroupHeartbeat => 68
  | ApiKey_ConsumerGroupDescribe => 69
  | ApiKey_ControllerRegistration => 70
  | ApiKey_GetTelemetrySubscriptions => 71
  | ApiKey_PushTelemetry => 72
  | ApiKey_AssignReplicasToDirs => 73
  | ApiKey_ListConfigResources => 74
  | ApiKey_DescribeTopicPartitions => 75
  | ApiKey_ShareGroupHeartbeat => 76
  | ApiKey_ShareGroupDescribe => 77
  | ApiKey_ShareFetch => 78
  | ApiKey_ShareAcknowledge => 79
  | ApiKey_AddRaftVoter => 80
  | ApiKey_RemoveRaftVoter => 81
  | ApiKey_UpdateRaftVoter => 82
  | ApiKey_InitializeShareGroupState => 83
  | ApiKey_ReadShareGroupState => 84
  | ApiKey_WriteShareGroupState => 85
  | ApiKey_DeleteShareGroupState => 86
  | ApiKey_ReadShareGroupStateSummary => 87
  | ApiKey_StreamsGroupHeartbeat => 88
  | ApiKey_StreamsGroupDescribe => 89
  | ApiKey_DescribeShareGroupOffsets => 90
  | ApiKey_AlterShareGroupOffsets => 91
  | ApiKey_DeleteShareGroupOffsets => 92
  end.

(** The keys in the order of the enumeration. *)
Definition all_api_keys : list ApiKey := [
  ApiKey_Produce;
  ApiKey_Fetch;
  ApiKey_ListOffsets;
  ApiKey_Metadata;
  ApiKey_OffsetCommit;
  ApiKey_OffsetFetch;
  ApiKey_FindCoordinator;
  ApiKey_JoinGroup;
  ApiKey_Heartbeat;
  ApiKey_LeaveGroup;
  ApiKey_SyncGroup;
  ApiKey_DescribeGroups;
  ApiKey_ListGroups;
  ApiKey_SaslHandshake;
  ApiKey_ApiVersions;
  ApiKey_CreateTopics;
  ApiKey_DeleteTopics;
  ApiKey_DeleteRecords;
  ApiKey_InitProducerId;
  ApiKey_OffsetForLeaderEpoch;
  ApiKey_AddPartitionsToTxn;
  ApiKey_AddOffsetsToTxn;
  ApiKey_EndTxn;
  ApiKey_WriteTxnMarkers;
  ApiKey_TxnOffsetCommit;
  ApiKey_DescribeAcls;
  ApiKey_CreateAcls;
  ApiKey_DeleteAcls;
  ApiKey_DescribeConfigs;
  ApiKey_AlterConfigs;
  ApiKey_AlterReplicaLogDirs;
  ApiKey_DescribeLogDirs;
  ApiKey_SaslAuthenticate;
  ApiKey_CreatePartitions;
  ApiKey_CreateDelegationToken;
  ApiKey_RenewDelegationToken;
  ApiKey_ExpireDelegationToken;
  ApiKey_DescribeDelegationToken;
  ApiKey_DeleteGroups;
  ApiKey_ElectLeaders;
  ApiKey_IncrementalAlterConfigs;
  ApiKey_AlterPartitionReassignments;
  ApiKey_ListPartitionReassignments;
  ApiKey_OffsetDelete;
  ApiKey_DescribeClientQuotas;
  ApiKey_AlterClientQuotas;
  ApiKey_DescribeUserScramCredentials;
  ApiKey_AlterUserScramCredentials;
  ApiKey_Vote;
  ApiKey_BeginQuorumEpoch;
  ApiKey_EndQuorumEpoch;
  ApiKey_DescribeQuorum;
  ApiKey_AlterPartition;
  ApiKey_UpdateFeatures;
  ApiKey_Envelope;
  ApiKey_FetchSnapshot;
  ApiKey_DescribeCluster;
  ApiKey_DescribeProducers;
  ApiKey_BrokerRegistration;
  ApiKey_BrokerHeartbeat;
  ApiKey_UnregisterBroker;
  ApiKey_DescribeTransactions;
  ApiKey_ListTransactions;
  ApiKey_AllocateProducerIds;
  ApiKey_ConsumerGroupHeartbeat;
  ApiKey_ConsumerGroupDescribe;
  ApiKey_ControllerRegistration;
  ApiKey_GetTelemetrySubscriptions;
  ApiKey_PushTelemetry;
  ApiKey_AssignReplicasToDirs;
  ApiKey_ListConfigResources;
  ApiKey_DescribeTopicPartitions;
  ApiKey_ShareGroupHeartbeat;
  ApiKey_ShareGroupDescribe;
  ApiKey_ShareFetch;
  ApiKey_ShareAcknowledge;
  ApiKey_AddRaftVoter;
  ApiKey_RemoveRaftVoter;
  ApiKey_UpdateRaftVoter;
  ApiKey_InitializeShareGroupState;
  ApiKey_ReadShareGroupState;
  ApiKey_WriteShareGroupState;
  ApiKey_DeleteShareGroupState;
  ApiKey_ReadShareGroupStateSummary;
  ApiKey_StreamsGroupHeartbeat;
  ApiKey_StreamsGroupDescribe;
  ApiKey_DescribeShareGroupOffsets;
  ApiKey_AlterShareGroupOffsets;
  ApiKey_DeleteShareGroupOffsets].

(** The arms of the match test the keys one after the other. *)
(* @ src/crates/kafka-protocol/src/messages.rs 1661-1770 ApiKey::try_from *)
Definition ApiKey_try_from (v : Z) : result () ApiKey :=
  match list_find (λ k, ApiKey_code k = v) all_api_keys with
  | Some (_, k) => Ok k
  | None => Err ()
  end.

(* @ src/crates/kafka-protocol/src/messages.rs 1311-1433 ApiKey::request_header_version *)
Definition request_header_version (k : ApiKey) (version : Z) : Z :=
  match k with
  | ApiKey_Produce => ProduceRequest_header_version version
  | ApiKey_Fetch => FetchRequest_header_version version
  | ApiKey_ListOffsets => ListOffsetsRequest_header_version version
  | ApiKey_Metadata => MetadataRequest_header_version version
  | ApiKey_OffsetCommit => OffsetCommitRequest_header_version version
  | ApiKey_OffsetFetch => OffsetFetchRequest_header_version version
  | ApiKey_FindCoordinator => FindCoordinatorRequest_header_version version
  | ApiKey_JoinGroup => JoinGroupRequest_header_version version
  | ApiKey_Heartbeat => HeartbeatRequest_header_version version
  | ApiKey_LeaveGroup => LeaveGroupRequest_header_version version
  | ApiKey_SyncGroup => SyncGroupRequest_header_version version
  | ApiKey_DescribeGroups => DescribeGroupsRequest_header_version version
  | ApiKey_ListGroups => ListGroupsRequest_header_version version
  | ApiKey_SaslHandshake => SaslHandshakeRequest_header_version version
  | ApiKey_ApiVersions => ApiVersionsRequest_header_version version
  | ApiKey_CreateTopics => CreateTopicsRequest_header_version version
  | ApiKey_DeleteTopics => DeleteTopicsRequest_header_version version
  | ApiKey_DeleteRecords => DeleteRecordsRequest_header_version version
  | ApiKey_InitProducerId => InitProducerIdRequest_header_version version
  | ApiKey_OffsetForLeaderEpoch => OffsetForLeaderEpochRequest_header_version version
  | ApiKey_AddPartitionsToTxn => AddPartitionsToTxnRequest_header_version version
  | ApiKey_AddOffsetsToTxn => AddOffsetsToTxnRequest_header_version version
  | ApiKey_EndTxn => EndTxnRequest_header_version version
  | ApiKey_WriteTxnMarkers => WriteTxnMarkersRequest_header_version version
  | ApiKey_TxnOffsetCommit => TxnOffsetCommitRequest_header_version version
  | ApiKey_DescribeAcls => DescribeAclsRequest_header_version version
  | ApiKey_CreateAcls => CreateAclsRequest_header_version version
  | ApiKey_DeleteAcls => DeleteAclsRequest_header_version version
  | ApiKey_DescribeConfigs => DescribeConfigsRequest_header_version version
  | ApiKey_AlterConfigs => AlterConfigsRequest_header_version version
  | ApiKey_AlterReplicaLogDirs => AlterReplicaLogDirsRequest_header_version version
  | ApiKey_DescribeLogDirs => DescribeLogDirsRequest_header_version version
  | ApiKey_SaslAuthenticate => SaslAuthenticateRequest_header_version version
  | ApiKey_CreatePartitions => CreatePartitionsRequest_header_version version
  | ApiKey_CreateDelegationToken => CreateDelegationTokenRequest_header_version version
  | ApiKey_RenewDelegationToken => RenewDelegationTokenRequest_header_version version
  | ApiKey_ExpireDelegationToken => ExpireDelegationTokenRequest_header_version version
  | ApiKey_DescribeDelegationToken => DescribeDelegationTokenRequest_header_version version
  | ApiKey_DeleteGroups => DeleteGroupsRequest_header_version version
  | ApiKey_ElectLeaders => ElectLeadersRequest_header_version version
  | ApiKey_IncrementalAlterConfigs => IncrementalAlterConfigsRequest_header_version version
  | ApiKey_AlterPartitionReassignments => AlterPartitionReassignmentsRequest_header_version version
  | ApiKey_ListPartitionReassignments => ListPartitionReassignmentsRequest_header_version version
  | ApiKey_OffsetDelete => OffsetDeleteRequest_header_version version
  | ApiKey_DescribeClientQuotas => DescribeClientQuotasRequest_header_version version
  | ApiKey_AlterClientQuotas => AlterClientQuotasRequest_header_version version
  | ApiKey_DescribeUserScramCredentials => DescribeUserScramCredentialsRequest_header_version version
  | ApiKey_AlterUserScramCredentials => AlterUserScramCredentialsRequest_header_version version
  | ApiKey_Vote => VoteRequest_header_version version
  | ApiKey_BeginQuorumEpoch => BeginQuorumEpochRequest_header_version version
  | ApiKey_EndQuorumEpoch => EndQuorumEpochRequest_header_version version
  | ApiKey_DescribeQuorum => DescribeQuorumRequest_header_version version
  | ApiKey_AlterPartition => AlterPartitionRequest_header_version version
  | ApiKey_UpdateFeatures => UpdateFeaturesRequest_header_version version
  | ApiKey_Envelope => EnvelopeRequest_header_version version
  | ApiKey_FetchSnapshot => FetchSnapshotRequest_header_version version
  | ApiKey_DescribeCluster => DescribeClusterRequest_header_version version
  | ApiKey_DescribeProducers => DescribeProducersRequest_header_version version
  | ApiKey_BrokerRegistration => BrokerRegistrationRequest_header_version version
  | ApiKey_BrokerHeartbeat => BrokerHeartbeatRequest_header_version version
  | ApiKey_UnregisterBroker => UnregisterBrokerRequest_header_version version
  | ApiKey_DescribeTransactions => DescribeTransactionsRequest_header_version version
  | ApiKey_ListTransactions => ListTransactionsRequest_header_version version
  | ApiKey_AllocateProducerIds => AllocateProducerIdsRequest_header_version version
  | ApiKey_ConsumerGroupHeartbeat => ConsumerGroupHeartbeatRequest_header_version version
  | ApiKey_ConsumerGroupDescribe => ConsumerGroupDescribeRequest_header_version version
  | ApiKey_ControllerRegistration => ControllerRegistrationRequest_header_version version
  | ApiKey_GetTelemetrySubscriptions => GetTelemetrySubscriptionsRequest_header_version version
  | ApiKey_PushTelemetry => PushTelemetryRequest_header_version version
  | ApiKey_AssignReplicasToDirs => AssignReplicasToDirsRequest_header_version version
  | ApiKey_ListConfigResources => ListConfigResourcesRequest_header_version version
  | ApiKey_DescribeTopicPartitions => DescribeTopicPartitionsRequest_header_version version
  | ApiKey_ShareGroupHeartbeat => ShareGroupHeartbeatRequest_header_version version
  | ApiKey_ShareGroupDescribe => ShareGroupDescribeRequest_header_version version
  | ApiKey_ShareFetch => ShareFetchRequest_header_version version
  | ApiKey_ShareAcknowledge => ShareAcknowledgeRequest_header_version version
  | ApiKey_AddRaftVoter => AddRaftVoterRequest_header_version version
  | ApiKey_RemoveRaftVoter => RemoveRaftVoterRequest_header_version version
  | ApiKey_UpdateRaftVoter => UpdateRaftVoterRequest_header_version version
  | ApiKey_InitializeShareGroupState => InitializeShareGroupStateRequest_header_version version
  | ApiKey_ReadShareGroupState => ReadShareGroupStateRequest_header_version version
  | ApiKey_WriteShareGroupState => WriteShareGroupStateRequest_header_version version
  | ApiKey_DeleteShareGroupState => DeleteShareGroupStateRequest_header_version version
  | ApiKey_ReadShareGroupStateSummary => ReadShareGroupStateSummaryRequest_header_version version
  | ApiKey_StreamsGroupHeartbeat => StreamsGroupHeartbeatRequest_header_version version
  | ApiKey_StreamsGroupDescribe => StreamsGroupDescribeRequest_header_version version
  | ApiKey_DescribeShareGroupOffsets => DescribeShareGroupOffsetsRequest_header_version version
  | ApiKey_AlterShareGroupOffsets => AlterShareGroupOffsetsRequest_header_version version
  | ApiKey_DeleteShareGroupOffsets => DeleteShareGroupOffsetsRequest_header_version version
  end.

(* @ src/crates/kafka-protocol/src/messages.rs 1435-1557 ApiKey::response_header_version *)
Definition response_header_version (k : ApiKey) (version : Z) : Z :=
  match k with
  | ApiKey_Produce => ProduceResponse_header_version version
  | ApiKey_Fetch => FetchResponse_header_version version
  | ApiKey_ListOffsets => ListOffsetsResponse_header_version version
  | ApiKey_Metadata => MetadataResponse_header_version version
  | ApiKey_OffsetCommit => OffsetCommitResponse_header_version version
  | ApiKey_OffsetFetch => OffsetFetchResponse_header_version version
  | ApiKey_FindCoordinator => FindCoordinatorResponse_header_version version
  | ApiKey_JoinGroup => JoinGroupResponse_header_version version
  | ApiKey_Heartbeat => HeartbeatResponse_header_version version
  | ApiKey_LeaveGroup => LeaveGroupResponse_header_version version
  | ApiKey_SyncGroup => SyncGroupResponse_header_version version
  | ApiKey_DescribeGroups => DescribeGroupsResponse_header_version version
  | ApiKey_ListGroups => ListGroupsResponse_header_version version
  | ApiKey_SaslHandshake => SaslHandshakeResponse_header_version version
  | ApiKey_ApiVersions => ApiVersionsResponse_header_version version
  | ApiKey_CreateTopics => CreateTopicsResponse_header_version version
  | ApiKey_DeleteTopics => DeleteTopicsResponse_header_version version
  | ApiKey_DeleteRecords => DeleteRecordsResponse_header_version version
  | ApiKey_InitProducerId => InitProducerIdResponse_header_version version
  | ApiKey_OffsetForLeaderEpoch => OffsetForLeaderEpochResponse_header_version version
  | ApiKey_AddPartitionsToTxn => AddPartitionsToTxnResponse_header_version version
  | ApiKey_AddOffsetsToTxn => AddOffsetsToTxnResponse_header_version version
  | ApiKey_EndTxn => EndTxnResponse_header_version version
  | ApiKey_WriteTxnMarkers => WriteTxnMarkersResponse_header_version version
  | ApiKey_TxnOffsetCommit => TxnOffsetCommitResponse_header_version version
  | ApiKey_DescribeAcls => DescribeAclsResponse_header_version version
  | ApiKey_CreateAcls => CreateAclsResponse_header_version version
  | ApiKey_DeleteAcls => DeleteAclsResponse_header_version version
  | ApiKey_DescribeConfigs => DescribeConfigsResponse_header_version version
  | ApiKey_AlterConfigs => AlterConfigsResponse_header_version version
  | ApiKey_AlterReplicaLogDirs => AlterReplicaLogDirsResponse_header_version version
  | ApiKey_DescribeLogDirs => DescribeLogDirsResponse_header_version version
  | ApiKey_SaslAuthenticate => SaslAuthenticateResponse_header_version version
  | ApiKey_CreatePartitions => CreatePartitionsResponse_header_version version
  | ApiKey_CreateDelegationToken => CreateDelegationTokenResponse_header_version version
  | ApiKey_RenewDelegationToken => RenewDelegationTokenResponse_header_version version
  | ApiKey_ExpireDelegationToken => ExpireDelegationTokenResponse_header_version version
  | ApiKey_DescribeDelegationToken => DescribeDelegationTokenResponse_header_version version
  | ApiKey_DeleteGroups => DeleteGroupsResponse_header_version version
  | ApiKey_ElectLeaders => ElectLeadersResponse_header_version version
  | ApiKey_IncrementalAlterConfigs => IncrementalAlterConfigsResponse_header_version version
  | ApiKey_AlterPartitionReassignments => AlterPartitionReassignmentsResponse_header_version version
  | ApiKey_ListPartitionReassignments => ListPartitionReassignmentsResponse_header_version version
  | ApiKey_OffsetDelete => OffsetDeleteResponse_header_version version
  | ApiKey_DescribeClientQuotas => DescribeClientQuotasResponse_header_version version
  | ApiKey_AlterClientQuotas => AlterClientQuotasResponse_header_version version
  | ApiKey_DescribeUserScramCredentials => DescribeUserScramCredentialsResponse_header_version version
  | ApiKey_AlterUserScramCredentials => AlterUserScramCredentialsResponse_header_version version
  | ApiKey_Vote => VoteResponse_header_version version
  | ApiKey_BeginQuorumEpoch => BeginQuorumEpochResponse_header_version version
  | ApiKey_EndQuorumEpoch => EndQuorumEpochResponse_header_version version
  | ApiKey_DescribeQuorum => DescribeQuorumResponse_header_version version
  | ApiKey_AlterPartition => AlterPartitionResponse_header_version version
  | ApiKey_UpdateFeatures => UpdateFeaturesResponse_header_version version
  | ApiKey_Envelope => EnvelopeResponse_header_version version
  | ApiKey_FetchSnapshot => FetchSnapshotResponse_header_version version
  | ApiKey_DescribeCluster => DescribeClusterResponse_header_version version
  | ApiKey_DescribeProducers => DescribeProducersResponse_header_version version
  | ApiKey_BrokerRegistration => BrokerRegistrationResponse_header_version version
  | ApiKey_BrokerHeartbeat => BrokerHeartbeatResponse_header_version version
  | ApiKey_UnregisterBroker => UnregisterBrokerResponse_header_version version
  | ApiKey_DescribeTransactions => DescribeTransactionsResponse_header_version version
  | ApiKey_ListTransactions => ListTransactionsResponse_header_version version
  | ApiKey_AllocateProducerIds => AllocateProducerIdsResponse_header_version version
  | ApiKey_ConsumerGroupHeartbeat => ConsumerGroupHeartbeatResponse_header_version version
  | ApiKey_ConsumerGroupDescribe => ConsumerGroupDescribeResponse_header_version version
  | ApiKey_ControllerRegistration => ControllerRegistrationResponse_header_version version
  | ApiKey_GetTelemetrySubscriptions => GetTelemetrySubscriptionsResponse_header_version version
  | ApiKey_PushTelemetry => PushTelemetryResponse_header_version version
  | ApiKey_AssignReplicasToDirs => AssignReplicasToDirsResponse_header_version version
  | ApiKey_ListConfigResources => ListConfigResourcesResponse_header_version version
  | ApiKey_DescribeTopicPartitions => DescribeTopicPartitionsResponse_header_version version
  | ApiKey_ShareGroupHeartbeat => ShareGroupHeartbeatResponse_header_version version
  | ApiKey_ShareGroupDescribe => ShareGroupDescribeResponse_header_version version
  | ApiKey_ShareFetch => ShareFetchResponse_header_version version
  | ApiKey_ShareAcknowledge => ShareAcknowledgeResponse_header_version version
  | ApiKey_AddRaftVoter => AddRaftVoterResponse_header_version version
  | ApiKey_RemoveRaftVoter => RemoveRaftVoterResponse_header_version version
  | ApiKey_UpdateRaftVoter => UpdateRaftVoterResponse_header_version version
  | ApiKey_InitializeShareGroupState => InitializeShareGroupStateResponse_header_version version
  | ApiKey_ReadShareGroupState => ReadShareGroupStateResponse_header_version version
  | ApiKey_WriteShareGroupState => WriteShareGroupStateResponse_header_version version
  | ApiKey_DeleteShareGroupState => DeleteShareGroupStateResponse_header_version version
  | ApiKey_ReadShareGroupStateSummary => ReadShareGroupStateSummaryResponse_header_version version
  | ApiKey_StreamsGroupHeartbeat => StreamsGroupHeartbeatResponse_header_version version
  | ApiKey_StreamsGroupDescribe => StreamsGroupDescribeResponse_header_version version
  | ApiKey_DescribeShareGroupOffsets => DescribeShareGroupOffsetsResponse_header_version version
  | ApiKey_AlterShareGroupOffsets => AlterShareGroupOffsetsResponse_header_version version
  | ApiKey_DeleteShareGroupOffsets => DeleteShareGroupOffsetsResponse_header_version version
  end.

(* @ src/crates/kafka-protocol/src/messages.rs 1559-1651 ApiKey::valid_versions *)
Definition valid_versions (k : ApiKey) : Z * Z :=
  match k with
  | ApiKey_Produce => (3, 13)
  | ApiKey_Fetch => (4, 18)
  | ApiKey_ListOffsets => (1, 11)
  | ApiKey_Metadata => (0, 13)
  | ApiKey_OffsetCommit => (2, 10)
  | ApiKey_OffsetFetch => (1, 10)
  | ApiKey_FindCoordinator => (0, 6)
  | ApiKey_JoinGroup => (0, 9)
  | ApiKey_Heartbeat => (0, 4)
  | ApiKey_LeaveGroup => (0, 5)
  | ApiKey_SyncGroup => (0, 5)
  | ApiKey_DescribeGroups => (0, 6)
  | ApiKey_ListGroups => (0, 5)
  | ApiKey_SaslHandshake => (0, 1)
  | ApiKey_ApiVersions => (0, 4)
  | ApiKey_CreateTopics => (2, 7)
  | ApiKey_DeleteTopics => (1, 6)
  | ApiKey_DeleteRecords => (0, 2)
  | ApiKey_InitProducerId => (0, 6)
  | ApiKey_OffsetForLeaderEpoch => (2, 4)
  | ApiKey_AddPartitionsToTxn => (0, 5)
  | ApiKey_AddOffsetsToTxn => (0, 4)
  | ApiKey_EndTxn => (0, 5)
  | ApiKey_WriteTxnMarkers => (1, 2)
  | ApiKey_TxnOffsetCommit => (0, 5)
  | ApiKey_DescribeAcls => (1, 3)
  | ApiKey_CreateAcls => (1, 3)
  | ApiKey_DeleteAcls => (1, 3)
  | ApiKey_DescribeConfigs => (1, 4)
  | ApiKey_AlterConfigs => (0, 2)
  | ApiKey_AlterReplicaLogDirs => (1, 2)
  | ApiKey_DescribeLogDirs => (1, 5)
  | ApiKey_SaslAuthenticate => (0, 2)
  | ApiKey_CreatePartitions => (0, 3)
  | ApiKey_CreateDelegationToken => (1, 3)
  | ApiKey_RenewDelegationToken => (1, 2)
  | ApiKey_ExpireDelegationToken => (1, 2)
  | ApiKey_DescribeDelegationToken => (1, 3)
  | ApiKey_DeleteGroups => (0, 2)
  | ApiKey_ElectLeaders => (0, 2)
  | ApiKey_IncrementalAlterConfigs => (0, 1)
  | ApiKey_AlterPartitionReassignments => (0, 1)
  | ApiKey_ListPartitionReassignments => (0, 0)
  | ApiKey_OffsetDelete => (0, 0)
  | ApiKey_DescribeClientQuotas => (0, 1)
  | ApiKey_AlterClientQuotas => (0, 1)
  | ApiKey_DescribeUserScramCredentials => (0, 0)
  | ApiKey_AlterUserScramCredentials => (0, 0)
  | ApiKey_Vote => (0, 2)
  | ApiKey_BeginQuorumEpoch => (0, 1)
  | ApiKey_EndQuorumEpoch => (0, 1)
  | ApiKey_DescribeQuorum => (0, 2)
  | ApiKey_AlterPartition => (2, 3)
  | ApiKey_UpdateFeatures => (0, 2)
  | ApiKey_Envelope => (0, 0)
  | ApiKey_FetchSnapshot => (0, 1)
  | ApiKey_DescribeCluster => (0, 2)
  | ApiKey_DescribeProducers => (0, 0)
  | ApiKey_BrokerRegistration => (0, 4)
  | ApiKey_BrokerHeartbeat => (0, 2)
  | ApiKey_UnregisterBroker => (0, 0)
  | ApiKey_DescribeTransactions => (0, 0)
  | ApiKey_ListTransactions => (0, 2)
  | ApiKey_AllocateProducerIds => (0, 0)
  | ApiKey_ConsumerGroupHeartbeat => (0, 1)
  | ApiKey_ConsumerGroupDescribe => (0, 1)
  | ApiKey_ControllerRegistration => (0, 0)
  | ApiKey_GetTelemetrySubscriptions => (0, 0)
  | ApiKey_PushTelemetry => (0, 0)
  | ApiKey_AssignReplicasToDirs => (0, 0)
  | ApiKey_ListConfigResources => (0, 1)
  | ApiKey_DescribeTopicPartitions => (0, 0)
  | ApiKey_ShareGroupHeartbeat => (1, 1)
  | ApiKey_ShareGroupDescribe => (1, 1)
  | ApiKey_ShareFetch => (1, 2)
  | ApiKey_ShareAcknowledge => (1, 2)
  | ApiKey_AddRaftVoter => (0, 1)
  | ApiKey_RemoveRaftVoter => (0, 0)
  | ApiKey_UpdateRaftVoter => (0, 0)
  | ApiKey_InitializeShareGroupState => (0, 0)
  | ApiKey_ReadShareGroupState => (0, 0)
  | ApiKey_WriteShareGroupState => (0, 1)
  | ApiKey_DeleteShareGroupState => (0, 0)
  | ApiKey_ReadShareGroupStateSummary => (0, 1)
  | ApiKey_StreamsGroupHeartbeat => (0, 0)
  | ApiKey_StreamsGroupDescribe => (0, 0)
  | ApiKey_DescribeShareGroupOffsets => (0, 1)
  | ApiKey_AlterShareGroupOffsets => (0, 0)
  | ApiKey_DeleteShareGroupOffsets => (0, 0)
  end.

(** ** Requests and responses *)

(* @ src/crates/kafka-protocol/src/messages.rs 1777-1956 RequestKind *)
Inductive RequestKind : Type :=
| RequestKind_Produce (x : ProduceRequest)
| RequestKind_Fetch (x : FetchRequest)
| RequestKind_ListOffsets (x : ListOffsetsRequest)
| RequestKind_Metadata (x : MetadataRequest)
| RequestKind_OffsetCommit (x : OffsetCommitRequest)
| RequestKind_OffsetFetch (x : OffsetFetchRequest)
| RequestKind_FindCoordinator (x : FindCoordinatorRequest)
| RequestKind_JoinGroup (x : JoinGroupRequest)
| RequestKind_Heartbeat (x : HeartbeatRequest)
| RequestKind_LeaveGroup (x : LeaveGroupRequest)
| RequestKind_SyncGroup (x : SyncGroupRequest)
| RequestKind_DescribeGroups (x : DescribeGroupsRequest)
| RequestKind_ListGroups (x : ListGroupsRequest)
| RequestKind_SaslHandshake (x : SaslHandshakeRequest)
| RequestKind_ApiVersions (x : ApiVersionsRequest)
| RequestKind_CreateTopics (x : CreateTopicsRequest)
| RequestKind_DeleteTopics (x : DeleteTopicsRequest)
| RequestKind_DeleteRecords (x : DeleteRecordsRequest)
| RequestKind_InitProducerId (x : InitProducerIdRequest)
| RequestKind_OffsetForLeaderEpoch (x : OffsetForLeaderEpochRequest)
| RequestKind_AddPartitionsToTxn (x : AddPartitionsToTxnRequest)
| RequestKind_AddOffsetsToTxn (x : AddOffsetsToTxnRequest)
| RequestKind_EndTxn (x : EndTxnRequest)
| RequestKind_WriteTxnMarkers (x : WriteTxnMarkersRequest)
| RequestKind_TxnOffsetCommit (x : TxnOffsetCommitRequest)
| RequestKind_DescribeAcls (x : DescribeAclsRequest)
| RequestKind_CreateAcls (x : CreateAclsRequest)
| RequestKind_DeleteAcls (x : DeleteAclsRequest)
| RequestKind_DescribeConfigs (x : DescribeConfigsRequest)
| RequestKind_AlterConfigs (x : AlterConfigsRequest)
| RequestKind_AlterReplicaLogDirs (x : AlterReplicaLogDirsRequest)
| RequestKind_DescribeLogDirs (x : DescribeLogDirsRequest)
| RequestKind_SaslAuthenticate (x : SaslAuthenticateRequest)
| RequestKind_CreatePartitions (x : CreatePartitionsRequest)
| RequestKind_CreateDelegationToken (x : CreateDelegationTokenRequest)
| RequestKind_RenewDelegationToken (x : RenewDelegationTokenRequest)
| RequestKind_ExpireDelegationToken (x : ExpireDelegationTokenRequest)
| RequestKind_DescribeDelegationToken (x : DescribeDelegationTokenRequest)
| RequestKind_DeleteGroups (x : DeleteGroupsRequest)
| RequestKind_ElectLeaders (x : ElectLeadersRequest)
| RequestKind_IncrementalAlterConfigs (x : IncrementalAlterConfigsRequest)
| RequestKind_AlterPartitionReassignments (x : AlterPartitionReassignmentsRequest)
| RequestKind_ListPartitionReassignments (x : ListPartitionReassignmentsRequest)
| RequestKind_OffsetDelete (x : OffsetDeleteRequest)
| RequestKind_DescribeClientQuotas (x : DescribeClientQuotasRequest)
| RequestKind_AlterClientQuotas (x : AlterClientQuotasRequest)
| RequestKind_DescribeUserScramCredentials (x : DescribeUserScramCredentialsRequest)
| RequestKind_AlterUserScramCredentials (x : AlterUserScramCredentialsRequest)
| RequestKind_Vote (x : VoteRequest)
| RequestKind_BeginQuorumEpoch (x : BeginQuorumEpochRequest)
| RequestKind_EndQuorumEpoch (x : EndQuorumEpochRequest)
| RequestKind_DescribeQuorum (x : DescribeQuorumRequest)
| RequestKind_AlterPartition (x : AlterPartitionRequest)
| RequestKind_UpdateFeatures (x : UpdateFeaturesRequest)
| RequestKind_Envelope (x : EnvelopeRequest)
| RequestKind_FetchSnapshot (x : FetchSnapshotRequest)
| RequestKind_DescribeCluster (x : DescribeClusterRequest)
| RequestKind_DescribeProducers (x : DescribeProducersRequest)
| RequestKind_BrokerRegistration (x : BrokerRegistrationRequest)
| RequestKind_BrokerHeartbeat (x : BrokerHeartbeatRequest)
| RequestKind_UnregisterBroker (x : UnregisterBrokerRequest)
| RequestKind_DescribeTransactions (x : DescribeTransactionsRequest)
| RequestKind_ListTransactions (x : ListTransactionsRequest)
| RequestKind_AllocateProducerIds (x : AllocateProducerIdsRequest)
| RequestKind_ConsumerGroupHeartbeat (x : ConsumerGroupHeartbeatRequest)
| RequestKind_ConsumerGroupDescribe (x : ConsumerGroupDescribeRequest)
| RequestKind_ControllerRegistration (x : ControllerRegistrationRequest)
| RequestKind_GetTelemetrySubscriptions (x : GetTelemetrySubscriptionsRequest)
| RequestKind_PushTelemetry (x : PushTelemetryRequest)
| RequestKind_AssignReplicasToDirs (x : AssignReplicasToDirsRequest)
| RequestKind_ListConfigResources (x : ListConfigResourcesRequest)
| RequestKind_DescribeTopicPartitions (x : DescribeTopicPartitionsRequest)
| RequestKind_ShareGroupHeartbeat (x : ShareGroupHeartbeatRequest)
| RequestKind_ShareGroupDescribe (x : ShareGroupDescribeRequest)
| RequestKind_ShareFetch (x : ShareFetchRequest)
| RequestKind_ShareAcknowledge (x : ShareAcknowledgeRequest)
| RequestKind_AddRaftVoter (x : AddRaftVoterRequest)
| RequestKind_RemoveRaftVoter (x : RemoveRaftVoterRequest)
| RequestKind_UpdateRaftVoter (x : UpdateRaftVoterRequest)
| RequestKind_InitializeShareGroupState (x : InitializeShareGroupStateRequest)
| RequestKind_ReadShareGroupState (x : ReadShareGroupStateRequest)
| RequestKind_WriteShareGroupState (x : WriteShareGroupStateRequest)
| RequestKind_DeleteShareGroupState (x : DeleteShareGroupStateRequest)
| RequestKind_ReadShareGroupStateSummary (x : ReadShareGroupStateSummaryRequest)
| RequestKind_StreamsGroupHeartbeat (x : StreamsGroupHeartbeatRequest)
| RequestKind_StreamsGroupDescribe (x : StreamsGroupDescribeRequest)
| RequestKind_DescribeShareGroupOffsets (x : DescribeShareGroupOffsetsRequest)
| RequestKind_AlterShareGroupOffsets (x : AlterShareGroupOffsetsRequest)
| RequestKind_DeleteShareGroupOffsets (x : DeleteShareGroupOffsetsRequest).

(* @ src/crates/kafka-protocol/src/messages.rs 1962-2054 RequestKind::encode *)
Definition RequestKind_encode (r : RequestKind) (version : Z) (buf : list byte) : result anyhow (list byte) :=
  match r with
  | RequestKind_Produce x => encode (ProduceRequest_codec version) x buf
  | RequestKind_Fetch x => encode (FetchRequest_codec version) x buf
  | RequestKind_ListOffsets x => encode (ListOffsetsRequest_codec version) x buf
  | RequestKind_Metadata x => encode (MetadataRequest_codec version) x buf
  | RequestKind_OffsetCommit x => encode (OffsetCommitRequest_codec version) x buf
  | RequestKind_OffsetFetch x => encode (OffsetFetchRequest_codec version) x buf
  | RequestKind_FindCoordinator x => encode (FindCoordinatorRequest_codec version) x buf
  | RequestKind_JoinGroup x => encode (JoinGroupRequest_codec version) x buf
  | RequestKind_Heartbeat x => encode (HeartbeatRequest_codec version) x buf
  | RequestKind_LeaveGroup x => encode (LeaveGroupRequest_codec version) x buf
  | RequestKind_SyncGroup x => encode (SyncGroupRequest_codec version) x buf
  | RequestKind_DescribeGroups x => encode (DescribeGroupsRequest_codec version) x buf
  | RequestKind_ListGroups x => encode (ListGroupsRequest_codec version) x buf
  | RequestKind_SaslHandshake x => encode (SaslHandshakeRequest_codec version) x buf
  | RequestKind_ApiVersions x => encode (ApiVersionsRequest_codec version) x buf
  | RequestKind_CreateTopics x => encode (CreateTopicsRequest_codec version) x buf
  | RequestKind_DeleteTopics x => encode (DeleteTopicsRequest_codec version) x buf
  | RequestKind_DeleteRecords x => encode (DeleteRecordsRequest_codec version) x buf
  | RequestKind_InitProducerId x => encode (InitProducerIdRequest_codec version) x buf
  | RequestKind_OffsetForLeaderEpoch x => encode (OffsetForLeaderEpochRequest_codec version) x buf
  | RequestKind_AddPartitionsToTxn x => encode (AddPartitionsToTxnRequest_codec version) x buf
  | RequestKind_AddOffsetsToTxn x => encode (AddOffsetsToTxnRequest_codec version) x buf
  | RequestKind_EndTxn x => encode (EndTxnRequest_codec version) x buf
  | RequestKind_WriteTxnMarkers x => encode (WriteTxnMarkersRequest_codec version) x buf
  | RequestKind_TxnOffsetCommit x => encode (TxnOffsetCommitRequest_codec version) x buf
  | RequestKind_DescribeAcls x => encode (DescribeAclsRequest_codec version) x buf
  | RequestKind_CreateAcls x => encode (CreateAclsRequest_codec version) x buf
  | RequestKind_DeleteAcls x => encode (DeleteAclsRequest_codec version) x buf
  | RequestKind_DescribeConfigs x => encode (DescribeConfigsRequest_codec version) x buf
  | RequestKind_AlterConfigs x => encode (AlterConfigsRequest_codec version) x buf
  | RequestKind_AlterReplicaLogDirs x => encode (AlterReplicaLogDirsRequest_codec version) x buf
  | RequestKind_DescribeLogDirs x => encode (DescribeLogDirsRequest_codec version) x buf
  | RequestKind_SaslAuthenticate x => encode (SaslAuthenticateRequest_codec version) x buf
  | RequestKind_CreatePartitions x => encode (CreatePartitionsRequest_codec version) x buf
  | RequestKind_CreateDelegationToken x => encode (CreateDelegationTokenRequest_codec version) x buf
  | RequestKind_RenewDelegationToken x => encode (RenewDelegationTokenRequest_codec version) x buf
  | RequestKind_ExpireDelegationToken x => encode (ExpireDelegationTokenRequest_codec version) x buf
  | RequestKind_DescribeDelegationToken x => encode (DescribeDelegationTokenRequest_codec version) x buf
  | RequestKind_DeleteGroups x => encode (DeleteGroupsRequest_codec version) x buf
  | RequestKind_ElectLeaders x => encode (ElectLeadersRequest_codec version) x buf
  | RequestKind_IncrementalAlterConfigs x => encode (IncrementalAlterConfigsRequest_codec version) x buf
  | RequestKind_AlterPartitionReassignments x => encode (AlterPartitionReassignmentsRequest_codec version) x buf
  | RequestKind_ListPartitionReassignments x => encode (ListPartitionReassignmentsRequest_codec version) x buf
  | RequestKind_OffsetDelete x => encode (OffsetDeleteRequest_codec version) x buf
  | RequestKind_DescribeClientQuotas x => encode (DescribeClientQuotasRequest_codec version) x buf
  | RequestKind_AlterClientQuotas x => encode (AlterClientQuotasRequest_codec version) x buf
  | RequestKind_DescribeUserScramCredentials x => encode (DescribeUserScramCredentialsRequest_codec version) x buf
  | RequestKind_AlterUserScramCredentials x => encode (AlterUserScramCredentialsRequest_codec version) x buf
  | RequestKind_Vote x => encode (VoteRequest_codec version) x buf
  | RequestKind_BeginQuorumEpoch x => encode (BeginQuorumEpochRequest_codec version) x buf
  | RequestKind_EndQuorumEpoch x => encode (EndQuorumEpochRequest_codec version) x buf
  | RequestKind_DescribeQuorum x => encode (DescribeQuorumRequest_codec version) x buf
  | RequestKind_AlterPartition x => encode (AlterPartitionRequest_codec version) x buf
  | RequestKind_UpdateFeatures x => encode (UpdateFeaturesRequest_codec version) x buf
  | RequestKind_Envelope x => encode (EnvelopeRequest_codec version) x buf
  | RequestKind_FetchSnapshot x => encode (FetchSnapshotRequest_codec version) x buf
  | RequestKind_DescribeCluster x => encode (DescribeClusterRequest_codec version) x buf
  | RequestKind_DescribeProducers x => encode (DescribeProducersRequest_codec version) x buf
  | RequestKind_BrokerRegistration x => encode (BrokerRegistrationRequest_codec version) x buf
  | RequestKind_BrokerHeartbeat x => encode (BrokerHeartbeatRequest_codec version) x buf
  | RequestKind_UnregisterBroker x => encode (UnregisterBrokerRequest_codec version) x buf
  | RequestKind_DescribeTransactions x => encode (DescribeTransactionsRequest_codec version) x buf
  | RequestKind_ListTransactions x => encode (ListTransactionsRequest_codec version) x buf
  | RequestKind_AllocateProducerIds x => encode (AllocateProducerIdsRequest_codec version) x buf
  | RequestKind_ConsumerGroupHeartbeat x => encode (ConsumerGroupHeartbeatRequest_codec version) x buf
  | RequestKind_ConsumerGroupDescribe x => encode (ConsumerGroupDescribeRequest_codec version) x buf
  | RequestKind_ControllerRegistration x => encode (ControllerRegistrationRequest_codec version) x buf
  | RequestKind_GetTelemetrySubscriptions x => encode (GetTelemetrySubscriptionsRequest_codec version) x buf
  | RequestKind_PushTelemetry x => encode (PushTelemetryRequest_codec version) x buf
  | RequestKind_AssignReplicasToDirs x => encode (AssignReplicasToDirsRequest_codec version) x buf
  | RequestKind_ListConfigResources x => encode (ListConfigResourcesRequest_codec version) x buf
  | RequestKind_DescribeTopicPartitions x => encode (DescribeTopicPartitionsRequest_codec version) x buf
  | RequestKind_ShareGroupHeartbeat x => encode (ShareGroupHeartbeatRequest_codec version) x buf
  | RequestKind_ShareGroupDescribe x => encode (ShareGroupDescribeRequest_codec version) x buf
  | RequestKind_ShareFetch x => encode (ShareFetchRequest_codec version) x buf
  | RequestKind_ShareAcknowledge x => encode (ShareAcknowledgeRequest_codec version) x buf
  | RequestKind_AddRaftVoter x => encode (AddRaftVoterRequest_codec version) x buf
  | RequestKind_RemoveRaftVoter x => encode (RemoveRaftVoterRequest_codec version) x buf
  | RequestKind_UpdateRaftVoter x => encode (UpdateRaftVoterRequest_codec version) x buf
  | RequestKind_InitializeShareGroupState x => encode (InitializeShareGroupStateRequest_codec version) x buf
  | RequestKind_ReadShareGroupState x => encode (ReadShareGroupStateRequest_codec version) x buf
  | RequestKind_WriteShareGroupState x => encode (WriteShareGroupStateRequest_codec version) x buf
  | RequestKind_DeleteShareGroupState x => encode (DeleteShareGroupStateRequest_codec version) x buf
  | RequestKind_ReadShareGroupStateSummary x => encode (ReadShareGroupStateSummaryRequest_codec version) x buf
  | RequestKind_StreamsGroupHeartbeat x => encode (StreamsGroupHeartbeatRequest_codec version) x buf
  | RequestKind_StreamsGroupDescribe x => encode (StreamsGroupDescribeRequest_codec version) x buf
  | RequestKind_DescribeShareGroupOffsets x => encode (DescribeShareGroupOffsetsRequest_codec version) x buf
  | RequestKind_AlterShareGroupOffsets x => encode (AlterShareGroupOffsetsRequest_codec version) x buf
  | RequestKind_DeleteShareGroupOffsets x => encode (DeleteShareGroupOffsetsRequest_codec version) x buf
  end.

(* @ src/crates/kafka-protocol/src/messages.rs 2057-2227 RequestKind::decode *)
Definition RequestKind_decode (k : ApiKey) (version : Z) : decoder RequestKind :=
  match k with
  | ApiKey_Produce => x ← decode (ProduceRequest_codec version); mret (RequestKind_Produce x)
  | ApiKey_Fetch => x ← decode (FetchRequest_codec version); mret (RequestKind_Fetch x)
  | ApiKey_ListOffsets => x ← decode (ListOffsetsRequest_codec version); mret (RequestKind_ListOffsets x)
  | ApiKey_Metadata => x ← decode (MetadataRequest_codec version); mret (RequestKind_Metadata x)
  | ApiKey_OffsetCommit => x ← decode (OffsetCommitRequest_codec version); mret (RequestKind_OffsetCommit x)
  | ApiKey_OffsetFetch => x ← decode (OffsetFetchRequest_codec version); mret (RequestKind_OffsetFetch x)
  | ApiKey_FindCoordinator => x ← decode (FindCoordinatorRequest_codec version); mret (RequestKind_FindCoordinator x)
  | ApiKey_JoinGroup => x ← decode (JoinGroupRequest_codec version); mret (RequestKind_JoinGroup x)
  | ApiKey_Heartbeat => x ← decode (HeartbeatRequest_codec version); mret (RequestKind_Heartbeat x)
  | ApiKey_LeaveGroup => x ← decode (LeaveGroupRequest_codec version); mret (RequestKind_LeaveGroup x)
  | ApiKey_SyncGroup => x ← decode (SyncGroupRequest_codec version); mret (RequestKind_SyncGroup x)
  | ApiKey_DescribeGroups => x ← decode (DescribeGroupsRequest_codec version); mret (RequestKind_DescribeGroups x)
  | ApiKey_ListGroups => x ← decode (ListGroupsRequest_codec version); mret (RequestKind_ListGroups x)
  | ApiKey_SaslHandshake => x ← decode (SaslHandshakeRequest_codec version); mret (RequestKind_SaslHandshake x)
  | ApiKey_ApiVersions => x ← decode (ApiVersionsRequest_codec version); mret (RequestKind_ApiVersions x)
  | ApiKey_CreateTopics => x ← decode (CreateTopicsRequest_codec version); mret (RequestKind_CreateTopics x)
  | ApiKey_DeleteTopics => x ← decode (DeleteTopicsRequest_codec version); mret (RequestKind_DeleteTopics x)
  | ApiKey_DeleteRecords => x ← decode (DeleteRecordsRequest_codec version); mret (RequestKind_DeleteRecords x)
  | ApiKey_InitProducerId => x ← decode (InitProducerIdRequest_codec version); mret (RequestKind_InitProducerId x)
  | ApiKey_OffsetForLeaderEpoch => x ← decode (OffsetForLeaderEpochRequest_codec version); mret (RequestKind_OffsetForLeaderEpoch x)
  | ApiKey_AddPartitionsToTxn => x ← decode (AddPartitionsToTxnRequest_codec version); mret (RequestKind_AddPartitionsToTxn x)
  | ApiKey_AddOffsetsToTxn => x ← decode (AddOffsetsToTxnRequest_codec version); mret (RequestKind_AddOffsetsToTxn x)
  | ApiKey_EndTxn => x ← decode (EndTxnRequest_codec version); mret (RequestKind_EndTxn x)
  | ApiKey_WriteTxnMarkers => x ← decode (WriteTxnMarkersRequest_codec version); mret (RequestKind_WriteTxnMarkers x)
  | ApiKey_TxnOffsetCommit => x ← decode (TxnOffsetCommitRequest_codec version); mret (RequestKind_TxnOffsetCommit x)
  | ApiKey_DescribeAcls => x ← decode (DescribeAclsRequest_codec version); mret (RequestKind_DescribeAcls x)
  | ApiKey_CreateAcls => x ← decode (CreateAclsRequest_codec version); mret (RequestKind_CreateAcls x)
  | ApiKey_DeleteAcls => x ← decode (DeleteAclsRequest_codec version); mret (RequestKind_DeleteAcls x)
  | ApiKey_DescribeConfigs => x ← decode (DescribeConfigsRequest_codec version); mret (RequestKind_DescribeConfigs x)
  | ApiKey_AlterConfigs => x ← decode (AlterConfigsRequest_codec version); mret (RequestKind_AlterConfigs x)
  | ApiKey_AlterReplicaLogDirs => x ← decode (AlterReplicaLogDirsRequest_codec version); mret (RequestKind_AlterReplicaLogDirs x)
  | ApiKey_DescribeLogDirs => x ← decode (DescribeLogDirsRequest_codec version); mret (RequestKind_DescribeLogDirs x)
  | ApiKey_SaslAuthenticate => x ← decode (SaslAuthenticateRequest_codec version); mret (RequestKind_SaslAuthenticate x)
  | ApiKey_CreatePartitions => x ← decode (CreatePartitionsRequest_codec version); mret (RequestKind_CreatePartitions x)
  | ApiKey_CreateDelegationToken => x ← decode (CreateDelegationTokenRequest_codec version); mret (RequestKind_CreateDelegationToken x)
  | ApiKey_RenewDelegationToken => x ← decode (RenewDelegationTokenRequest_codec version); mret (RequestKind_RenewDelegationToken x)
  | ApiKey_ExpireDelegationToken => x ← decode (ExpireDelegationTokenRequest_codec version); mret (RequestKind_ExpireDelegationToken x)
  | ApiKey_DescribeDelegationToken => x ← decode (DescribeDelegationTokenRequest_codec version); mret (RequestKind_DescribeDelegationToken x)
  | ApiKey_DeleteGroups => x ← decode (DeleteGroupsRequest_codec version); mret (RequestKind_DeleteGroups x)
  | ApiKey_ElectLeaders => x ← decode (ElectLeadersRequest_codec version); mret (RequestKind_ElectLeaders x)
  | ApiKey_IncrementalAlterConfigs => x ← decode (IncrementalAlterConfigsRequest_codec version); mret (RequestKind_IncrementalAlterConfigs x)
  | ApiKey_AlterPartitionReassignments => x ← decode (AlterPartitionReassignmentsRequest_codec version); mret (RequestKind_AlterPartitionReassignments x)
  | ApiKey_ListPartitionReassignments => x ← decode (ListPartitionReassignmentsRequest_codec version); mret (RequestKind_ListPartitionReassignments x)
  | ApiKey_OffsetDelete => x ← decode (OffsetDeleteRequest_codec version); mret (RequestKind_OffsetDelete x)
  | ApiKey_DescribeClientQuotas => x ← decode (DescribeClientQuotasRequest_codec version); mret (RequestKind_DescribeClientQuotas x)
  | ApiKey_AlterClientQuotas => x ← decode (AlterClientQuotasRequest_codec version); mret (RequestKind_AlterClientQuotas x)
  | ApiKey_DescribeUserScramCredentials => x ← decode (DescribeUserScramCredentialsRequest_codec version); mret (RequestKind_DescribeUserScramCredentials x)
  | ApiKey_AlterUserScramCredentials => x ← decode (AlterUserScramCredentialsRequest_codec version); mret (RequestKind_AlterUserScramCredentials x)
  | ApiKey_Vote => x ← decode (VoteRequest_codec version); mret (RequestKind_Vote x)
  | ApiKey_BeginQuorumEpoch => x ← decode (BeginQuorumEpochRequest_codec version); mret (RequestKind_BeginQuorumEpoch x)
  | ApiKey_EndQuorumEpoch => x ← decode (EndQuorumEpochRequest_codec version); mret (RequestKind_EndQuorumEpoch x)
  | ApiKey_DescribeQuorum => x ← decode (DescribeQuorumRequest_codec version); mret (RequestKind_DescribeQuorum x)
  | ApiKey_AlterPartition => x ← decode (AlterPartitionRequest_codec version); mret (RequestKind_AlterPartition x)
  | ApiKey_UpdateFeatures => x ← decode (UpdateFeaturesRequest_codec version); mret (RequestKind_UpdateFeatures x)
  | ApiKey_Envelope => x ← decode (EnvelopeRequest_codec version); mret (RequestKind_Envelope x)
  | ApiKey_FetchSnapshot => x ← decode (FetchSnapshotRequest_codec version); mret (RequestKind_FetchSnapshot x)
  | ApiKey_DescribeCluster => x ← decode (DescribeClusterRequest_codec version); mret (RequestKind_DescribeCluster x)
  | ApiKey_DescribeProducers => x ← decode (DescribeProducersRequest_codec version); mret (RequestKind_DescribeProducers x)
  | ApiKey_BrokerRegistration => x ← decode (BrokerRegistrationRequest_codec version); mret (RequestKind_BrokerRegistration x)
  | ApiKey_BrokerHeartbeat => x ← decode (BrokerHeartbeatRequest_codec version); mret (RequestKind_BrokerHeartbeat x)
  | ApiKey_UnregisterBroker => x ← decode (UnregisterBrokerRequest_codec version); mret (RequestKind_UnregisterBroker x)
  | ApiKey_DescribeTransactions => x ← decode (DescribeTransactionsRequest_codec version); mret (RequestKind_DescribeTransactions x)
  | ApiKey_ListTransactions => x ← decode (ListTransactionsRequest_codec version); mret (RequestKind_ListTransactions x)
  | ApiKey_AllocateProducerIds => x ← decode (AllocateProducerIdsRequest_codec version); mret (RequestKind_AllocateProducerIds x)
  | ApiKey_ConsumerGroupHeartbeat => x ← decode (ConsumerGroupHeartbeatRequest_codec version); mret (RequestKind_ConsumerGroupHeartbeat x)
  | ApiKey_ConsumerGroupDescribe => x ← decode (ConsumerGroupDescribeRequest_codec version); mret (RequestKind_ConsumerGroupDescribe x)
  | ApiKey_ControllerRegistration => x ← decode (ControllerRegistrationRequest_codec version); mret (RequestKind_ControllerRegistration x)
  | ApiKey_GetTelemetrySubscriptions => x ← decode (GetTelemetrySubscriptionsRequest_codec version); mret (RequestKind_GetTelemetrySubscriptions x)
  | ApiKey_PushTelemetry => x ← decode (PushTelemetryRequest_codec version); mret (RequestKind_PushTelemetry x)
  | ApiKey_AssignReplicasToDirs => x ← decode (AssignReplicasToDirsRequest_codec version); mret (RequestKind_AssignReplicasToDirs x)
  | ApiKey_ListConfigResources => x ← decode (ListConfigResourcesRequest_codec version); mret (RequestKind_ListConfigResources x)
  | ApiKey_DescribeTopicPartitions => x ← decode (DescribeTopicPartitionsRequest_codec version); mret (RequestKind_DescribeTopicPartitions x)
  | ApiKey_ShareGroupHeartbeat => x ← decode (ShareGroupHeartbeatRequest_codec version); mret (RequestKind_ShareGroupHeartbeat x)
  | ApiKey_ShareGroupDescribe => x ← decode (ShareGroupDescribeRequest_codec version); mret (RequestKind_ShareGroupDescribe x)
  | ApiKey_ShareFetch => x ← decode (ShareFetchRequest_codec version); mret (RequestKind_ShareFetch x)
  | ApiKey_ShareAcknowledge => x ← decode (ShareAcknowledgeRequest_codec version); mret (RequestKind_ShareAcknowledge x)
  | ApiKey_AddRaftVoter => x ← decode (AddRaftVoterRequest_codec version); mret (RequestKind_AddRaftVoter x)
  | ApiKey_RemoveRaftVoter => x ← decode (RemoveRaftVoterRequest_codec version); mret (RequestKind_RemoveRaftVoter x)
  | ApiKey_UpdateRaftVoter => x ← decode (UpdateRaftVoterRequest_codec version); mret (RequestKind_UpdateRaftVoter x)
  | ApiKey_InitializeShareGroupState => x ← decode (InitializeShareGroupStateRequest_codec version); mret (RequestKind_InitializeShareGroupState x)
  | ApiKey_ReadShareGroupState => x ← decode (ReadShareGroupStateRequest_codec version); mret (RequestKind_ReadShareGroupState x)
  | ApiKey_WriteShareGroupState => x ← decode (WriteShareGroupStateRequest_codec version); mret (RequestKind_WriteShareGroupState x)
  | ApiKey_DeleteShareGroupState => x ← decode (DeleteShareGroupStateRequest_codec version); mret (RequestKind_DeleteShareGroupState x)
  | ApiKey_ReadShareGroupStateSummary => x ← decode (ReadShareGroupStateSummaryRequest_codec version); mret (RequestKind_ReadShareGroupStateSummary x)
  | ApiKey_StreamsGroupHeartbeat => x ← decode (StreamsGroupHeartbeatRequest_codec version); mret (RequestKind_StreamsGroupHeartbeat x)
  | ApiKey_StreamsGroupDescribe => x ← decode (StreamsGroupDescribeRequest_codec version); mret (RequestKind_StreamsGroupDescribe x)
  | ApiKey_DescribeShareGroupOffsets => x ← decode (DescribeShareGroupOffsetsRequest_codec version); mret (RequestKind_DescribeShareGroupOffsets x)
  | ApiKey_AlterShareGroupOffsets => x ← decode (AlterShareGroupOffsetsRequest_codec version); mret (RequestKind_AlterShareGroupOffsets x)
  | ApiKey_DeleteShareGroupOffsets => x ← decode (DeleteShareGroupOffsetsRequest_codec version); mret (RequestKind_DeleteShareGroupOffsets x)
  end.

(** The key of the constructor. *)
Definition RequestKind_key (r : RequestKind) : ApiKey :=
  match r with
  | RequestKind_Produce _ => ApiKey_Produce
  | RequestKind_Fetch _ => ApiKey_Fetch
  | RequestKind_ListOffsets _ => ApiKey_ListOffsets
  | RequestKind_Metadata _ => ApiKey_Metadata
  | RequestKind_OffsetCommit _ => ApiKey_OffsetCommit
  | RequestKind_OffsetFetch _ => ApiKey_OffsetFetch
  | RequestKind_FindCoordinator _ => ApiKey_FindCoordinator
  | RequestKind_JoinGroup _ => ApiKey_JoinGroup
  | RequestKind_Heartbeat _ => ApiKey_Heartbeat
  | RequestKind_LeaveGroup _ => ApiKey_LeaveGroup
  | RequestKind_SyncGroup _ => ApiKey_SyncGroup
  | RequestKind_DescribeGroups _ => ApiKey_DescribeGroups
  | RequestKind_ListGroups _ => ApiKey_ListGroups
  | RequestKind_SaslHandshake _ => ApiKey_SaslHandshake
  | RequestKind_ApiVersions _ => ApiKey_ApiVersions
  | RequestKind_CreateTopics _ => ApiKey_CreateTopics
  | RequestKind_DeleteTopics _ => ApiKey_DeleteTopics
  | RequestKind_DeleteRecords _ => ApiKey_DeleteRecords
  | RequestKind_InitProducerId _ => ApiKey_InitProducerId
  | RequestKind_OffsetForLeaderEpoch _ => ApiKey_OffsetForLeaderEpoch
  | RequestKind_AddPartitionsToTxn _ => ApiKey_AddPartitionsToTxn
  | RequestKind_AddOffsetsToTxn _ => ApiKey_AddOffsetsToTxn
  | RequestKind_EndTxn _ => ApiKey_EndTxn
  | RequestKind_WriteTxnMarkers _ => ApiKey_WriteTxnMarkers
  | RequestKind_TxnOffsetCommit _ => ApiKey_TxnOffsetCommit
  | RequestKind_DescribeAcls _ => ApiKey_DescribeAcls
  | RequestKind_CreateAcls _ => ApiKey_CreateAcls
  | RequestKind_DeleteAcls _ => ApiKey_DeleteAcls
  | RequestKind_DescribeConfigs _ => ApiKey_DescribeConfigs
  | RequestKind_AlterConfigs _ => ApiKey_AlterConfigs
  | RequestKind_AlterReplicaLogDirs _ => ApiKey_AlterReplicaLogDirs
  | RequestKind_DescribeLogDirs _ => ApiKey_DescribeLogDirs
  | RequestKind_SaslAuthenticate _ => ApiKey_SaslAuthenticate
  | RequestKind_CreatePartitions _ => ApiKey_CreatePartitions
  | RequestKind_CreateDelegationToken _ => ApiKey_CreateDelegationToken
  | RequestKind_RenewDelegationToken _ => ApiKey_RenewDelegationToken
  | RequestKind_ExpireDelegationToken _ => ApiKey_ExpireDelegationToken
  | RequestKind_DescribeDelegationToken _ => ApiKey_DescribeDelegationToken
  | RequestKind_DeleteGroups _ => ApiKey_DeleteGroups
  | RequestKind_ElectLeaders _ => ApiKey_ElectLeaders
  | RequestKind_IncrementalAlterConfigs _ => ApiKey_IncrementalAlterConfigs
  | RequestKind_AlterPartitionReassignments _ => ApiKey_AlterPartitionReassignments
  | RequestKind_ListPartitionReassignments _ => ApiKey_ListPartitionReassignments
  | RequestKind_OffsetDelete _ => ApiKey_OffsetDelete
  | RequestKind_DescribeClientQuotas _ => ApiKey_DescribeClientQuotas
  | RequestKind_AlterClientQuotas _ => ApiKey_AlterClientQuotas
  | RequestKind_DescribeUserScramCredentials _ => ApiKey_DescribeUserScramCredentials
  | RequestKind_AlterUserScramCredentials _ => ApiKey_AlterUserScramCredentials
  | RequestKind_Vote _ => ApiKey_Vote
  | RequestKind_BeginQuorumEpoch _ => ApiKey_BeginQuorumEpoch
  | RequestKind_EndQuorumEpoch _ => ApiKey_EndQuorumEpoch
  | RequestKind_DescribeQuorum _ => ApiKey_DescribeQuorum
  | RequestKind_AlterPartition _ => ApiKey_AlterPartition
  | RequestKind_UpdateFeatures _ => ApiKey_UpdateFeatures
  | RequestKind_Envelope _ => ApiKey_Envelope
  | RequestKind_FetchSnapshot _ => ApiKey_FetchSnapshot
  | RequestKind_DescribeCluster _ => ApiKey_DescribeCluster
  | RequestKind_DescribeProducers _ => ApiKey_DescribeProducers
  | RequestKind_BrokerRegistration _ => ApiKey_BrokerRegistration
  | RequestKind_BrokerHeartbeat _ => ApiKey_BrokerHeartbeat
  | RequestKind_UnregisterBroker _ => ApiKey_UnregisterBroker
  | RequestKind_DescribeTransactions _ => ApiKey_DescribeTransactions
  | RequestKind_ListTransactions _ => ApiKey_ListTransactions
  | RequestKind_AllocateProducerIds _ => ApiKey_AllocateProducerIds
  | RequestKind_ConsumerGroupHeartbeat _ => ApiKey_ConsumerGroupHeartbeat
  | RequestKind_ConsumerGroupDescribe _ => ApiKey_ConsumerGroupDescribe
  | RequestKind_ControllerRegistration _ => ApiKey_ControllerRegistration
  | RequestKind_GetTelemetrySubscriptions _ => ApiKey_GetTelemetrySubscriptions
  | RequestKind_PushTelemetry _ => ApiKey_PushTelemetry
  | RequestKind_AssignReplicasToDirs _ => ApiKey_AssignReplicasToDirs
  | RequestKind_ListConfigResources _ => ApiKey_ListConfigResources
  | RequestKind_DescribeTopicPartitions _ => ApiKey_DescribeTopicPartitions
  | RequestKind_ShareGroupHeartbeat _ => ApiKey_ShareGroupHeartbeat
  | RequestKind_ShareGroupDescribe _ => ApiKey_ShareGroupDescribe
  | RequestKind_ShareFetch _ => ApiKey_ShareFetch
  | RequestKind_ShareAcknowledge _ => ApiKey_ShareAcknowledge
  | RequestKind_AddRaftVoter _ => ApiKey_AddRaftVoter
  | RequestKind_RemoveRaftVoter _ => ApiKey_RemoveRaftVoter
  | RequestKind_UpdateRaftVoter _ => ApiKey_UpdateRaftVoter
  | RequestKind_InitializeShareGroupState _ => ApiKey_InitializeShareGroupState
  | RequestKind_ReadShareGroupState _ => ApiKey_ReadShareGroupState
  | RequestKind_WriteShareGroupState _ => ApiKey_WriteShareGroupState
  | RequestKind_DeleteShareGroupState _ => ApiKey_DeleteShareGroupState
  | RequestKind_ReadShareGroupStateSummary _ => ApiKey_ReadShareGroupStateSummary
  | RequestKind_StreamsGroupHeartbeat _ => ApiKey_StreamsGroupHeartbeat
  | RequestKind_StreamsGroupDescribe _ => ApiKey_StreamsGroupDescribe
  | RequestKind_DescribeShareGroupOffsets _ => ApiKey_DescribeShareGroupOffsets
  | RequestKind_AlterShareGroupOffsets _ => ApiKey_AlterShareGroupOffsets
  | RequestKind_DeleteShareGroupOffsets _ => ApiKey_DeleteShareGroupOffsets
  end.

Definition RequestKind_valid (version : Z) (r : RequestKind) : Prop :=
  match r with
  | RequestKind_Produce x => ProduceRequest_valid version x
  | RequestKind_Fetch x => FetchRequest_valid version x
  | RequestKind_ListOffsets x => ListOffsetsRequest_valid version x
  | RequestKind_Metadata x => MetadataRequest_valid version x
  | RequestKind_OffsetCommit x => OffsetCommitRequest_valid version x
  | RequestKind_OffsetFetch x => OffsetFetchRequest_valid version x
  | RequestKind_FindCoordinator x => FindCoordinatorRequest_valid version x
  | RequestKind_JoinGroup x => JoinGroupRequest_valid version x
  | RequestKind_Heartbeat x => HeartbeatRequest_valid version x
  | RequestKind_LeaveGroup x => LeaveGroupRequest_valid version x
  | RequestKind_SyncGroup x => SyncGroupRequest_valid version x
  | RequestKind_DescribeGroups x => DescribeGroupsRequest_valid version x
  | RequestKind_ListGroups x => ListGroupsRequest_valid version x
  | RequestKind_SaslHandshake x => SaslHandshakeRequest_valid version x
  | RequestKind_ApiVersions x => ApiVersionsRequest_valid version x
  | RequestKind_CreateTopics x => CreateTopicsRequest_valid version x
  | RequestKind_DeleteTopics x => DeleteTopicsRequest_valid version x
  | RequestKind_DeleteRecords x => DeleteRecordsRequest_valid version x
  | RequestKind_InitProducerId x => InitProducerIdRequest_valid version x
  | RequestKind_OffsetForLeaderEpoch x => OffsetForLeaderEpochRequest_valid version x
  | RequestKind_AddPartitionsToTxn x => AddPartitionsToTxnRequest_valid version x
  | RequestKind_AddOffsetsToTxn x => AddOffsetsToTxnRequest_valid version x
  | RequestKind_EndTxn x => EndTxnRequest_valid version x
  | RequestKind_WriteTxnMarkers x => WriteTxnMarkersRequest_valid version x
  | RequestKind_TxnOffsetCommit x => TxnOffsetCommitRequest_valid version x
  | RequestKind_DescribeAcls x => DescribeAclsRequest_valid version x
  | RequestKind_CreateAcls x => CreateAclsRequest_valid version x
  | RequestKind_DeleteAcls x => DeleteAclsRequest_valid version x
  | RequestKind_DescribeConfigs x => DescribeConfigsRequest_valid version x
  | RequestKind_AlterConfigs x => AlterConfigsRequest_valid version x
  | RequestKind_AlterReplicaLogDirs x => AlterReplicaLogDirsRequest_valid version x
  | RequestKind_DescribeLogDirs x => DescribeLogDirsRequest_valid version x
  | RequestKind_SaslAuthenticate x => SaslAuthenticateRequest_valid version x
  | RequestKind_CreatePartitions x => CreatePartitionsRequest_valid version x
  | RequestKind_CreateDelegationToken x => CreateDelegationTokenRequest_valid version x
  | RequestKind_RenewDelegationToken x => RenewDelegationTokenRequest_valid version x
  | RequestKind_ExpireDelegationToken x => ExpireDelegationTokenRequest_valid version x
  | RequestKind_DescribeDelegationToken x => DescribeDelegationTokenRequest_valid version x
  | RequestKind_DeleteGroups x => DeleteGroupsRequest_valid version x
  | RequestKind_ElectLeaders x => ElectLeadersRequest_valid version x
  | RequestKind_IncrementalAlterConfigs x => IncrementalAlterConfigsRequest_valid version x
  | RequestKind_AlterPartitionReassignments x => AlterPartitionReassignmentsRequest_valid version x
  | RequestKind_ListPartitionReassignments x => ListPartitionReassignmentsRequest_valid version x
  | RequestKind_OffsetDelete x => OffsetDeleteRequest_valid version x
  | RequestKind_DescribeClientQuotas x => DescribeClientQuotasRequest_valid version x
  | RequestKind_AlterClientQuotas x => AlterClientQuotasRequest_valid version x
  | RequestKind_DescribeUserScramCredentials x => DescribeUserScramCredentialsRequest_valid version x
  | RequestKind_AlterUserScramCredentials x => AlterUserScramCredentialsRequest_valid version x
  | RequestKind_Vote x => VoteRequest_valid version x
  | RequestKind_BeginQuorumEpoch x => BeginQuorumEpochRequest_valid version x
  | RequestKind_EndQuorumEpoch x => EndQuorumEpochRequest_valid version x
  | RequestKind_DescribeQuorum x => DescribeQuorumRequest_valid version x
  | RequestKind_AlterPartition x => AlterPartitionRequest_valid version x
  | RequestKind_UpdateFeatures x => UpdateFeaturesRequest_valid version x
  | RequestKind_Envelope x => EnvelopeRequest_valid version x
  | RequestKind_FetchSnapshot x => FetchSnapshotRequest_valid version x
  | RequestKind_DescribeCluster x => DescribeClusterRequest_valid version x
  | RequestKind_DescribeProducers x => DescribeProducersRequest_valid version x
  | RequestKind_BrokerRegistration x => BrokerRegistrationRequest_valid version x
  | RequestKind_BrokerHeartbeat x => BrokerHeartbeatRequest_valid version x
  | RequestKind_UnregisterBroker x => UnregisterBrokerRequest_valid version x
  | RequestKind_DescribeTransactions x => DescribeTransactionsRequest_valid version x
  | RequestKind_ListTransactions x => ListTransactionsRequest_valid version x
  | RequestKind_AllocateProducerIds x => AllocateProducerIdsRequest_valid version x
  | RequestKind_ConsumerGroupHeartbeat x => ConsumerGroupHeartbeatRequest_valid version x
  | RequestKind_ConsumerGroupDescribe x => ConsumerGroupDescribeRequest_valid version x
  | RequestKind_ControllerRegistration x => ControllerRegistrationRequest_valid version x
  | RequestKind_GetTelemetrySubscriptions x => GetTelemetrySubscriptionsRequest_valid version x
  | RequestKind_PushTelemetry x => PushTelemetryRequest_valid version x
  | RequestKind_AssignReplicasToDirs x => AssignReplicasToDirsRequest_valid version x
  | RequestKind_ListConfigResources x => ListConfigResourcesRequest_valid version x
  | RequestKind_DescribeTopicPartitions x => DescribeTopicPartitionsRequest_valid version x
  | RequestKind_ShareGroupHeartbeat x => ShareGroupHeartbeatRequest_valid version x
  | RequestKind_ShareGroupDescribe x => ShareGroupDescribeRequest_valid version x
  | RequestKind_ShareFetch x => ShareFetchRequest_valid version x
  | RequestKind_ShareAcknowledge x => ShareAcknowledgeRequest_valid version x
  | RequestKind_AddRaftVoter x => AddRaftVoterRequest_valid version x
  | RequestKind_RemoveRaftVoter x => RemoveRaftVoterRequest_valid version x
  | RequestKind_UpdateRaftVoter x => UpdateRaftVoterRequest_valid version x
  | RequestKind_InitializeShareGroupState x => InitializeShareGroupStateRequest_valid version x
  | RequestKind_ReadShareGroupState x => ReadShareGroupStateRequest_valid version x
  | RequestKind_WriteShareGroupState x => WriteShareGroupStateRequest_valid version x
  | RequestKind_DeleteShareGroupState x => DeleteShareGroupStateRequest_valid version x
  | RequestKind_ReadShareGroupStateSummary x => ReadShareGroupStateSummaryRequest_valid version x
  | RequestKind_StreamsGroupHeartbeat x => StreamsGroupHeartbeatRequest_valid version x
  | RequestKind_StreamsGroupDescribe x => StreamsGroupDescribeRequest_valid version x
  | RequestKind_DescribeShareGroupOffsets x => DescribeShareGroupOffsetsRequest_valid version x
  | RequestKind_AlterShareGroupOffsets x => AlterShareGroupOffsetsRequest_valid version x
  | RequestKind_DeleteShareGroupOffsets x => DeleteShareGroupOffsetsRequest_valid version x
  end.

(* @ src/crates/kafka-protocol/src/messages.rs 2880-3059 ResponseKind *)
Inductive ResponseKind : Type :=
| ResponseKind_Produce (x : ProduceResponse)
| ResponseKind_Fetch (x : FetchResponse)
| ResponseKind_ListOffsets (x : ListOffsetsResponse)
| ResponseKind_Metadata (x : MetadataResponse)
| ResponseKind_OffsetCommit (x : OffsetCommitResponse)
| ResponseKind_OffsetFetch (x : OffsetFetchResponse)
| ResponseKind_FindCoordinator (x : FindCoordinatorResponse)
| ResponseKind_JoinGroup (x : JoinGroupResponse)
| ResponseKind_Heartbeat (x : HeartbeatResponse)
| ResponseKind_LeaveGroup (x : LeaveGroupResponse)
| ResponseKind_SyncGroup (x : SyncGroupResponse)
| ResponseKind_DescribeGroups (x : DescribeGroupsResponse)
| ResponseKind_ListGroups (x : ListGroupsResponse)
| ResponseKind_SaslHandshake (x : SaslHandshakeResponse)
| ResponseKind_ApiVersions (x : ApiVersionsResponse)
| ResponseKind_CreateTopics (x : CreateTopicsResponse)
| ResponseKind_DeleteTopics (x : DeleteTopicsResponse)
| ResponseKind_DeleteRecords (x : DeleteRecordsResponse)
| ResponseKind_InitProducerId (x : InitProducerIdResponse)
| ResponseKind_OffsetForLeaderEpoch (x : OffsetForLeaderEpochResponse)
| ResponseKind_AddPartitionsToTxn (x : AddPartitionsToTxnResponse)
| ResponseKind_AddOffsetsToTxn (x : AddOffsetsToTxnResponse)
| ResponseKind_EndTxn (x : EndTxnResponse)
| ResponseKind_WriteTxnMarkers (x : WriteTxnMarkersResponse)
| ResponseKind_TxnOffsetCommit (x : TxnOffsetCommitResponse)
| ResponseKind_DescribeAcls (x : DescribeAclsResponse)
| ResponseKind_CreateAcls (x : CreateAclsResponse)
| ResponseKind_DeleteAcls (x : DeleteAclsResponse)
| ResponseKind_DescribeConfigs (x : DescribeConfigsResponse)
| ResponseKind_AlterConfigs (x : AlterConfigsResponse)
| ResponseKind_AlterReplicaLogDirs (x : AlterReplicaLogDirsResponse)
| ResponseKind_DescribeLogDirs (x : DescribeLogDirsResponse)
| ResponseKind_SaslAuthenticate (x : SaslAuthenticateResponse)
| ResponseKind_CreatePartitions (x : CreatePartitionsResponse)
| ResponseKind_CreateDelegationToken (x : CreateDelegationTokenResponse)
| ResponseKind_RenewDelegationToken (x : RenewDelegationTokenResponse)
| ResponseKind_ExpireDelegationToken (x : ExpireDelegationTokenResponse)
| ResponseKind_DescribeDelegationToken (x : DescribeDelegationTokenResponse)
| ResponseKind_DeleteGroups (x : DeleteGroupsResponse)
| ResponseKind_ElectLeaders (x : ElectLeadersResponse)
| ResponseKind_IncrementalAlterConfigs (x : IncrementalAlterConfigsResponse)
| ResponseKind_AlterPartitionReassignments (x : AlterPartitionReassignmentsResponse)
| ResponseKind_ListPartitionReassignments (x : ListPartitionReassignmentsResponse)
| ResponseKind_OffsetDelete (x : OffsetDeleteResponse)
| ResponseKind_DescribeClientQuotas (x : DescribeClientQuotasResponse)
| ResponseKind_AlterClientQuotas (x : AlterClientQuotasResponse)
| ResponseKind_DescribeUserScramCredentials (x : DescribeUserScramCredentialsResponse)
| ResponseKind_AlterUserScramCredentials (x : AlterUserScramCredentialsResponse)
| ResponseKind_Vote (x : VoteResponse)
| ResponseKind_BeginQuorumEpoch (x : BeginQuorumEpochResponse)
| ResponseKind_EndQuorumEpoch (x : EndQuorumEpochResponse)
| ResponseKind_DescribeQuorum (x : DescribeQuorumResponse)
| ResponseKind_AlterPartition (x : AlterPartitionResponse)
| ResponseKind_UpdateFeatures (x : UpdateFeaturesResponse)
| ResponseKind_Envelope (x : EnvelopeResponse)
| ResponseKind_FetchSnapshot (x : FetchSnapshotResponse)
| ResponseKind_DescribeCluster (x : DescribeClusterResponse)
| ResponseKind_DescribeProducers (x : DescribeProducersResponse)
| ResponseKind_BrokerRegistration (x : BrokerRegistrationResponse)
| ResponseKind_BrokerHeartbeat (x : BrokerHeartbeatResponse)
| ResponseKind_UnregisterBroker (x : UnregisterBrokerResponse)
| ResponseKind_DescribeTransactions (x : DescribeTransactionsResponse)
| ResponseKind_ListTransactions (x : ListTransactionsResponse)
| ResponseKind_AllocateProducerIds (x : AllocateProducerIdsResponse)
| ResponseKind_ConsumerGroupHeartbeat (x : ConsumerGroupHeartbeatResponse)
| ResponseKind_ConsumerGroupDescribe (x : ConsumerGroupDescribeResponse)
| ResponseKind_ControllerRegistration (x : ControllerRegistrationResponse)
| ResponseKind_GetTelemetrySubscriptions (x : GetTelemetrySubscriptionsResponse)
| ResponseKind_PushTelemetry (x : PushTelemetryResponse)
| ResponseKind_AssignReplicasToDirs (x : AssignReplicasToDirsResponse)
| ResponseKind_ListConfigResources (x : ListConfigResourcesResponse)
| ResponseKind_DescribeTopicPartitions (x : DescribeTopicPartitionsResponse)
| ResponseKind_ShareGroupHeartbeat (x : ShareGroupHeartbeatResponse)
| ResponseKind_ShareGroupDescribe (x : ShareGroupDescribeResponse)
| ResponseKind_ShareFetch (x : ShareFetchResponse)
| ResponseKind_ShareAcknowledge (x : ShareAcknowledgeResponse)
| ResponseKind_AddRaftVoter (x : AddRaftVoterResponse)
| ResponseKind_RemoveRaftVoter (x : RemoveRaftVoterResponse)
| ResponseKind_UpdateRaftVoter (x : UpdateRaftVoterResponse)
| ResponseKind_InitializeShareGroupState (x : InitializeShareGroupStateResponse)
| ResponseKind_ReadShareGroupState (x : ReadShareGroupStateResponse)
| ResponseKind_WriteShareGroupState (x : WriteShareGroupStateResponse)
| ResponseKind_DeleteShareGroupState (x : DeleteShareGroupStateResponse)
| ResponseKind_ReadShareGroupStateSummary (x : ReadShareGroupStateSummaryResponse)
| ResponseKind_StreamsGroupHeartbeat (x : StreamsGroupHeartbeatResponse)
| ResponseKind_StreamsGroupDescribe (x : StreamsGroupDescribeResponse)
| ResponseKind_DescribeShareGroupOffsets (x : DescribeShareGroupOffsetsResponse)
| ResponseKind_AlterShareGroupOffsets (x : AlterShareGroupOffsetsResponse)
| ResponseKind_DeleteShareGroupOffsets (x : DeleteShareGroupOffsetsResponse).

(* @ src/crates/kafka-protocol/src/messages.rs 3065-3157 ResponseKind::encode *)
Definition ResponseKind_encode (r : ResponseKind) (version : Z) (buf : list byte) : result anyhow (list byte) :=
  match r with
  | ResponseKind_Produce x => encode (ProduceResponse_codec version) x buf
  | ResponseKind_Fetch x => encode (FetchResponse_codec version) x buf
  | ResponseKind_ListOffsets x => encode (ListOffsetsResponse_codec version) x buf
  | ResponseKind_Metadata x => encode (MetadataResponse_codec version) x buf
  | ResponseKind_OffsetCommit x => encode (OffsetCommitResponse_codec version) x buf
  | ResponseKind_OffsetFetch x => encode (OffsetFetchResponse_codec version) x buf
  | ResponseKind_FindCoordinator x => encode (FindCoordinatorResponse_codec version) x buf
  | ResponseKind_JoinGroup x => encode (JoinGroupResponse_codec version) x buf
  | ResponseKind_Heartbeat x => encode (HeartbeatResponse_codec version) x buf
  | ResponseKind_LeaveGroup x => encode (LeaveGroupResponse_codec version) x buf
  | ResponseKind_SyncGroup x => encode (SyncGroupResponse_codec version) x buf
  | ResponseKind_DescribeGroups x => encode (DescribeGroupsResponse_codec version) x buf
  | ResponseKind_ListGroups x => encode (ListGroupsResponse_codec version) x buf
  | ResponseKind_SaslHandshake x => encode (SaslHandshakeResponse_codec version) x buf
  | ResponseKind_ApiVersions x => encode (ApiVersionsResponse_codec version) x buf
  | ResponseKind_CreateTopics x => encode (CreateTopicsResponse_codec version) x buf
  | ResponseKind_DeleteTopics x => encode (DeleteTopicsResponse_codec version) x buf
  | ResponseKind_DeleteRecords x => encode (DeleteRecordsResponse_codec version) x buf
  | ResponseKind_InitProducerId x => encode (InitProducerIdResponse_codec version) x buf
  | ResponseKind_OffsetForLeaderEpoch x => encode (OffsetForLeaderEpochResponse_codec version) x buf
  | ResponseKind_AddPartitionsToTxn x => encode (AddPartitionsToTxnResponse_codec version) x buf
  | ResponseKind_AddOffsetsToTxn x => encode (AddOffsetsToTxnResponse_codec version) x buf
  | ResponseKind_EndTxn x => encode (EndTxnResponse_codec version) x buf
  | ResponseKind_WriteTxnMarkers x => encode (WriteTxnMarkersResponse_codec version) x buf
  | ResponseKind_TxnOffsetCommit x => encode (TxnOffsetCommitResponse_codec version) x buf
  | ResponseKind_DescribeAcls x => encode (DescribeAclsResponse_codec version) x buf
  | ResponseKind_CreateAcls x => encode (CreateAclsResponse_codec version) x buf
  | ResponseKind_DeleteAcls x => encode (DeleteAclsResponse_codec version) x buf
  | ResponseKind_DescribeConfigs x => encode (DescribeConfigsResponse_codec version) x buf
  | ResponseKind_AlterConfigs x => encode (AlterConfigsResponse_codec version) x buf
  | ResponseKind_AlterReplicaLogDirs x => encode (AlterReplicaLogDirsResponse_codec version) x buf
  | ResponseKind_DescribeLogDirs x => encode (DescribeLogDirsResponse_codec version) x buf
  | ResponseKind_SaslAuthenticate x => encode (SaslAuthenticateResponse_codec version) x buf
  | ResponseKind_CreatePartitions x => encode (CreatePartitionsResponse_codec version) x buf
  | ResponseKind_CreateDelegationToken x => encode (CreateDelegationTokenResponse_codec version) x buf
  | ResponseKind_RenewDelegationToken x => encode (RenewDelegationTokenResponse_codec version) x buf
  | ResponseKind_ExpireDelegationToken x => encode (ExpireDelegationTokenResponse_codec version) x buf
  | ResponseKind_DescribeDelegationToken x => encode (DescribeDelegationTokenResponse_codec version) x buf
  | ResponseKind_DeleteGroups x => encode (DeleteGroupsResponse_codec version) x buf
  | ResponseKind_ElectLeaders x => encode (ElectLeadersResponse_codec version) x buf
  | ResponseKind_IncrementalAlterConfigs x => encode (IncrementalAlterConfigsResponse_codec version) x buf
  | ResponseKind_AlterPartitionReassignments x => encode (AlterPartitionReassignmentsResponse_codec version) x buf
  | ResponseKind_ListPartitionReassignments x => encode (ListPartitionReassignmentsResponse_codec version) x buf
  | ResponseKind_OffsetDelete x => encode (OffsetDeleteResponse_codec version) x buf
  | ResponseKind_DescribeClientQuotas x => encode (DescribeClientQuotasResponse_codec version) x buf
  | ResponseKind_AlterClientQuotas x => encode (AlterClientQuotasResponse_codec version) x buf
  | ResponseKind_DescribeUserScramCredentials x => encode (DescribeUserScramCredentialsResponse_codec version) x buf
  | ResponseKind_AlterUserScramCredentials x => encode (AlterUserScramCredentialsResponse_codec version) x buf
  | ResponseKind_Vote x => encode (VoteResponse_codec version) x buf
  | ResponseKind_BeginQuorumEpoch x => encode (BeginQuorumEpochResponse_codec version) x buf
  | ResponseKind_EndQuorumEpoch x => encode (EndQuorumEpochResponse_codec version) x buf
  | ResponseKind_DescribeQuorum x => encode (DescribeQuorumResponse_codec version) x buf
  | ResponseKind_AlterPartition x => encode (AlterPartitionResponse_codec version) x buf
  | ResponseKind_UpdateFeatures x => encode (UpdateFeaturesResponse_codec version) x buf
  | ResponseKind_Envelope x => encode (EnvelopeResponse_codec version) x buf
  | ResponseKind_FetchSnapshot x => encode (FetchSnapshotResponse_codec version) x buf
  | ResponseKind_DescribeCluster x => encode (DescribeClusterResponse_codec version) x buf
  | ResponseKind_DescribeProducers x => encode (DescribeProducersResponse_codec version) x buf
  | ResponseKind_BrokerRegistration x => encode (BrokerRegistrationResponse_codec version) x buf
  | ResponseKind_BrokerHeartbeat x => encode (BrokerHeartbeatResponse_codec version) x buf
  | ResponseKind_UnregisterBroker x => encode (UnregisterBrokerResponse_codec version) x buf
  | ResponseKind_DescribeTransactions x => encode (DescribeTransactionsResponse_codec version) x buf
  | ResponseKind_ListTransactions x => encode (ListTransactionsResponse_codec version) x buf
  | ResponseKind_AllocateProducerIds x => encode (AllocateProducerIdsResponse_codec version) x buf
  | ResponseKind_ConsumerGroupHeartbeat x => encode (ConsumerGroupHeartbeatResponse_codec version) x buf
  | ResponseKind_ConsumerGroupDescribe x => encode (ConsumerGroupDescribeResponse_codec version) x buf
  | ResponseKind_ControllerRegistration x => encode (ControllerRegistrationResponse_codec version) x buf
  | ResponseKind_GetTelemetrySubscriptions x => encode (GetTelemetrySubscriptionsResponse_codec version) x buf
  | ResponseKind_PushTelemetry x => encode (PushTelemetryResponse_codec version) x buf
  | ResponseKind_AssignReplicasToDirs x => encode (AssignReplicasToDirsResponse_codec version) x buf
  | ResponseKind_ListConfigResources x => encode (ListConfigResourcesResponse_codec version) x buf
  | ResponseKind_DescribeTopicPartitions x => encode (DescribeTopicPartitionsResponse_codec version) x buf
  | ResponseKind_ShareGroupHeartbeat x => encode (ShareGroupHeartbeatResponse_codec version) x buf
  | ResponseKind_ShareGroupDescribe x => encode (ShareGroupDescribeResponse_codec version) x buf
  | ResponseKind_ShareFetch x => encode (ShareFetchResponse_codec version) x buf
  | ResponseKind_ShareAcknowledge x => encode (ShareAcknowledgeResponse_codec version) x buf
  | ResponseKind_AddRaftVoter x => encode (AddRaftVoterResponse_codec version) x buf
  | ResponseKind_RemoveRaftVoter x => encode (RemoveRaftVoterResponse_codec version) x buf
  | ResponseKind_UpdateRaftVoter x => encode (UpdateRaftVoterResponse_codec version) x buf
  | ResponseKind_InitializeShareGroupState x => encode (InitializeShareGroupStateResponse_codec version) x buf
  | ResponseKind_ReadShareGroupState x => encode (ReadShareGroupStateResponse_codec version) x buf
  | ResponseKind_WriteShareGroupState x => encode (WriteShareGroupStateResponse_codec version) x buf
  | ResponseKind_DeleteShareGroupState x => encode (DeleteShareGroupStateResponse_codec version) x buf
  | ResponseKind_ReadShareGroupStateSummary x => encode (ReadShareGroupStateSummaryResponse_codec version) x buf
  | ResponseKind_StreamsGroupHeartbeat x => encode (StreamsGroupHeartbeatResponse_codec version) x buf
  | ResponseKind_StreamsGroupDescribe x => encode (StreamsGroupDescribeResponse_codec version) x buf
  | ResponseKind_DescribeShareGroupOffsets x => encode (DescribeShareGroupOffsetsResponse_codec version) x buf
  | ResponseKind_AlterShareGroupOffsets x => encode (AlterShareGroupOffsetsResponse_codec version) x buf
  | ResponseKind_DeleteShareGroupOffsets x => encode (DeleteShareGroupOffsetsResponse_codec version) x buf
  end.

(* @ src/crates/kafka-protocol/src/messages.rs 3160-3330 ResponseKind::decode *)
Definition ResponseKind_decode (k : ApiKey) (version : Z) : decoder ResponseKind :=
  match k with
  | ApiKey_Produce => x ← decode (ProduceResponse_codec version); mret (ResponseKind_Produce x)
  | ApiKey_Fetch => x ← decode (FetchResponse_codec version); mret (ResponseKind_Fetch x)
  | ApiKey_ListOffsets => x ← decode (ListOffsetsResponse_codec version); mret (ResponseKind_ListOffsets x)
  | ApiKey_Metadata => x ← decode (MetadataResponse_codec version); mret (ResponseKind_Metadata x)
  | ApiKey_OffsetCommit => x ← decode (OffsetCommitResponse_codec version); mret (ResponseKind_OffsetCommit x)
  | ApiKey_OffsetFetch => x ← decode (OffsetFetchResponse_codec version); mret (ResponseKind_OffsetFetch x)
  | ApiKey_FindCoordinator => x ← decode (FindCoordinatorResponse_codec version); mret (ResponseKind_FindCoordinator x)
  | ApiKey_JoinGroup => x ← decode (JoinGroupResponse_codec version); mret (ResponseKind_JoinGroup x)
  | ApiKey_Heartbeat => x ← decode (HeartbeatResponse_codec version); mret (ResponseKind_Heartbeat x)
  | ApiKey_LeaveGroup => x ← decode (LeaveGroupResponse_codec version); mret (ResponseKind_LeaveGroup x)
  | ApiKey_SyncGroup => x ← decode (SyncGroupResponse_codec version); mret (ResponseKind_SyncGroup x)
  | ApiKey_DescribeGroups => x ← decode (DescribeGroupsResponse_codec version); mret (ResponseKind_DescribeGroups x)
  | ApiKey_ListGroups => x ← decode (ListGroupsResponse_codec version); mret (ResponseKind_ListGroups x)
  | ApiKey_SaslHandshake => x ← decode (SaslHandshakeResponse_codec version); mret (ResponseKind_SaslHandshake x)
  | ApiKey_ApiVersions => x ← decode (ApiVersionsResponse_codec version); mret (ResponseKind_ApiVersions x)
  | ApiKey_CreateTopics => x ← decode (CreateTopicsResponse_codec version); mret (ResponseKind_CreateTopics x)
  | ApiKey_DeleteTopics => x ← decode (DeleteTopicsResponse_codec version); mret (ResponseKind_DeleteTopics x)
  | ApiKey_DeleteRecords => x ← decode (DeleteRecordsResponse_codec version); mret (ResponseKind_DeleteRecords x)
  | ApiKey_InitProducerId => x ← decode (InitProducerIdResponse_codec version); mret (ResponseKind_InitProducerId x)
  | ApiKey_OffsetForLeaderEpoch => x ← decode (OffsetForLeaderEpochResponse_codec version); mret (ResponseKind_OffsetForLeaderEpoch x)
  | ApiKey_AddPartitionsToTxn => x ← decode (AddPartitionsToTxnResponse_codec version); mret (ResponseKind_AddPartitionsToTxn x)
  | ApiKey_AddOffsetsToTxn => x ← decode (AddOffsetsToTxnResponse_codec version); mret (ResponseKind_AddOffsetsToTxn x)
  | ApiKey_EndTxn => x ← decode (EndTxnResponse_codec version); mret (ResponseKind_EndTxn x)
  | ApiKey_WriteTxnMarkers => x ← decode (WriteTxnMarkersResponse_codec version); mret (ResponseKind_WriteTxnMarkers x)
  | ApiKey_TxnOffsetCommit => x ← decode (TxnOffsetCommitResponse_codec version); mret (ResponseKind_TxnOffsetCommit x)
  | ApiKey_DescribeAcls => x ← decode (DescribeAclsResponse_codec version); mret (ResponseKind_DescribeAcls x)
  | ApiKey_CreateAcls => x ← decode (CreateAclsResponse_codec version); mret (ResponseKind_CreateAcls x)
  | ApiKey_DeleteAcls => x ← decode (DeleteAclsResponse_codec version); mret (ResponseKind_DeleteAcls x)
  | ApiKey_DescribeConfigs => x ← decode (DescribeConfigsResponse_codec version); mret (ResponseKind_DescribeConfigs x)
  | ApiKey_AlterConfigs => x ← decode (AlterConfigsResponse_codec version); mret (ResponseKind_AlterConfigs x)
  | ApiKey_AlterReplicaLogDirs => x ← decode (AlterReplicaLogDirsResponse_codec version); mret (ResponseKind_AlterReplicaLogDirs x)
  | ApiKey_DescribeLogDirs => x ← decode (DescribeLogDirsResponse_codec version); mret (ResponseKind_DescribeLogDirs x)
  | ApiKey_SaslAuthenticate => x ← decode (SaslAuthenticateResponse_codec version); mret (ResponseKind_SaslAuthenticate x)
  | ApiKey_CreatePartitions => x ← decode (CreatePartitionsResponse_codec version); mret (ResponseKind_CreatePartitions x)
  | ApiKey_CreateDelegationToken => x ← decode (CreateDelegationTokenResponse_codec version); mret (ResponseKind_CreateDelegationToken x)
  | ApiKey_RenewDelegationToken => x ← decode (RenewDelegationTokenResponse_codec version); mret (ResponseKind_RenewDelegationToken x)
  | ApiKey_ExpireDelegationToken => x ← decode (ExpireDelegationTokenResponse_codec version); mret (ResponseKind_ExpireDelegationToken x)
  | ApiKey_DescribeDelegationToken => x ← decode (DescribeDelegationTokenResponse_codec version); mret (ResponseKind_DescribeDelegationToken x)
  | ApiKey_DeleteGroups => x ← decode (DeleteGroupsResponse_codec version); mret (ResponseKind_DeleteGroups x)
  | ApiKey_ElectLeaders => x ← decode (ElectLeadersResponse_codec version); mret (ResponseKind_ElectLeaders x)
  | ApiKey_IncrementalAlterConfigs => x ← decode (IncrementalAlterConfigsResponse_codec version); mret (ResponseKind_IncrementalAlterConfigs x)
  | ApiKey_AlterPartitionReassignments => x ← decode (AlterPartitionReassignmentsResponse_codec version); mret (ResponseKind_AlterPartitionReassignments x)
  | ApiKey_ListPartitionReassignments => x ← decode (ListPartitionReassignmentsResponse_codec version); mret (ResponseKind_ListPartitionReassignments x)
  | ApiKey_OffsetDelete => x ← decode (OffsetDeleteResponse_codec version); mret (ResponseKind_OffsetDelete x)
  | ApiKey_DescribeClientQuotas => x ← decode (DescribeClientQuotasResponse_codec version); mret (ResponseKind_DescribeClientQuotas x)
  | ApiKey_AlterClientQuotas => x ← decode (AlterClientQuotasResponse_codec version); mret (ResponseKind_AlterClientQuotas x)
  | ApiKey_DescribeUserScramCredentials => x ← decode (DescribeUserScramCredentialsResponse_codec version); mret (ResponseKind_DescribeUserScramCredentials x)
  | ApiKey_AlterUserScramCredentials => x ← decode (AlterUserScramCredentialsResponse_codec version); mret (ResponseKind_AlterUserScramCredentials x)
  | ApiKey_Vote => x ← decode (VoteResponse_codec version); mret (ResponseKind_Vote x)
  | ApiKey_BeginQuorumEpoch => x ← decode (BeginQuorumEpochResponse_codec version); mret (ResponseKind_BeginQuorumEpoch x)
  | ApiKey_EndQuorumEpoch => x ← decode (EndQuorumEpochResponse_codec version); mret (ResponseKind_EndQuorumEpoch x)
  | ApiKey_DescribeQuorum => x ← decode (DescribeQuorumResponse_codec version); mret (ResponseKind_DescribeQuorum x)
  | ApiKey_AlterPartition => x ← decode (AlterPartitionResponse_codec version); mret (ResponseKind_AlterPartition x)
  | ApiKey_UpdateFeatures => x ← decode (UpdateFeaturesResponse_codec version); mret (ResponseKind_UpdateFeatures x)
  | ApiKey_Envelope => x ← decode (EnvelopeResponse_codec version); mret (ResponseKind_Envelope x)
  | ApiKey_FetchSnapshot => x ← decode (FetchSnapshotResponse_codec version); mret (ResponseKind_FetchSnapshot x)
  | ApiKey_DescribeCluster => x ← decode (DescribeClusterResponse_codec version); mret (ResponseKind_DescribeCluster x)
  | ApiKey_DescribeProducers => x ← decode (DescribeProducersResponse_codec version); mret (ResponseKind_DescribeProducers x)
  | ApiKey_BrokerRegistration => x ← decode (BrokerRegistrationResponse_codec version); mret (ResponseKind_BrokerRegistration x)
  | ApiKey_BrokerHeartbeat => x ← decode (BrokerHeartbeatResponse_codec version); mret (ResponseKind_BrokerHeartbeat x)
  | ApiKey_UnregisterBroker => x ← decode (UnregisterBrokerResponse_codec version); mret (ResponseKind_UnregisterBroker x)
  | ApiKey_DescribeTransactions => x ← decode (DescribeTransactionsResponse_codec version); mret (ResponseKind_DescribeTransactions x)
  | ApiKey_ListTransactions => x ← decode (ListTransactionsResponse_codec version); mret (ResponseKind_ListTransactions x)
  | ApiKey_AllocateProducerIds => x ← decode (AllocateProducerIdsResponse_codec version); mret (ResponseKind_AllocateProducerIds x)
  | ApiKey_ConsumerGroupHeartbeat => x ← decode (ConsumerGroupHeartbeatResponse_codec version); mret (ResponseKind_ConsumerGroupHeartbeat x)
  | ApiKey_ConsumerGroupDescribe => x ← decode (ConsumerGroupDescribeResponse_codec version); mret (ResponseKind_ConsumerGroupDescribe x)
  | ApiKey_ControllerRegistration => x ← decode (ControllerRegistrationResponse_codec version); mret (ResponseKind_ControllerRegistration x)
  | ApiKey_GetTelemetrySubscriptions => x ← decode (GetTelemetrySubscriptionsResponse_codec version); mret (ResponseKind_GetTelemetrySubscriptions x)
  | ApiKey_PushTelemetry => x ← decode (PushTelemetryResponse_codec version); mret (ResponseKind_PushTelemetry x)
  | ApiKey_AssignReplicasToDirs => x ← decode (AssignReplicasToDirsResponse_codec version); mret (ResponseKind_AssignReplicasToDirs x)
  | ApiKey_ListConfigResources => x ← decode (ListConfigResourcesResponse_codec version); mret (ResponseKind_ListConfigResources x)
  | ApiKey_DescribeTopicPartitions => x ← decode (DescribeTopicPartitionsResponse_codec version); mret (ResponseKind_DescribeTopicPartitions x)
  | ApiKey_ShareGroupHeartbeat => x ← decode (ShareGroupHeartbeatResponse_codec version); mret (ResponseKind_ShareGroupHeartbeat x)
  | ApiKey_ShareGroupDescribe => x ← decode (ShareGroupDescribeResponse_codec version); mret (ResponseKind_ShareGroupDescribe x)
  | ApiKey_ShareFetch => x ← decode (ShareFetchResponse_codec version); mret (ResponseKind_ShareFetch x)
  | ApiKey_ShareAcknowledge => x ← decode (ShareAcknowledgeResponse_codec version); mret (ResponseKind_ShareAcknowledge x)
  | ApiKey_AddRaftVoter => x ← decode (AddRaftVoterResponse_codec version); mret (ResponseKind_AddRaftVoter x)
  | ApiKey_RemoveRaftVoter => x ← decode (RemoveRaftVoterResponse_codec version); mret (ResponseKind_RemoveRaftVoter x)
  | ApiKey_UpdateRaftVoter => x ← decode (UpdateRaftVoterResponse_codec version); mret (ResponseKind_UpdateRaftVoter x)
  | ApiKey_InitializeShareGroupState => x ← decode (InitializeShareGroupStateResponse_codec version); mret (ResponseKind_InitializeShareGroupState x)
  | ApiKey_ReadShareGroupState => x ← decode (ReadShareGroupStateResponse_codec version); mret (ResponseKind_ReadShareGroupState x)
  | ApiKey_WriteShareGroupState => x ← decode (WriteShareGroupStateResponse_codec version); mret (ResponseKind_WriteShareGroupState x)
  | ApiKey_DeleteShareGroupState => x ← decode (DeleteShareGroupStateResponse_codec version); mret (ResponseKind_DeleteShareGroupState x)
  | ApiKey_ReadShareGroupStateSummary => x ← decode (ReadShareGroupStateSummaryResponse_codec version); mret (ResponseKind_ReadShareGroupStateSummary x)
  | ApiKey_StreamsGroupHeartbeat => x ← decode (StreamsGroupHeartbeatResponse_codec version); mret (ResponseKind_StreamsGroupHeartbeat x)
  | ApiKey_StreamsGroupDescribe => x ← decode (StreamsGroupDescribeResponse_codec version); mret (ResponseKind_StreamsGroupDescribe x)
  | ApiKey_DescribeShareGroupOffsets => x ← decode (DescribeShareGroupOffsetsResponse_codec version); mret (ResponseKind_DescribeShareGroupOffsets x)
  | ApiKey_AlterShareGroupOffsets => x ← decode (AlterShareGroupOffsetsResponse_codec version); mret (ResponseKind_AlterShareGroupOffsets x)
  | ApiKey_DeleteShareGroupOffsets => x ← decode (DeleteShareGroupOffsetsResponse_codec version); mret (ResponseKind_DeleteShareGroupOffsets x)
  end.

(** The key of the constructor. *)
Definition ResponseKind_key (r : ResponseKind) : ApiKey :=
  match r with
  | ResponseKind_Produce _ => ApiKey_Produce
  | ResponseKind_Fetch _ => ApiKey_Fetch
  | ResponseKind_ListOffsets _ => ApiKey_ListOffsets
  | ResponseKind_Metadata _ => ApiKey_Metadata
  | ResponseKind_OffsetCommit _ => ApiKey_OffsetCommit
  | ResponseKind_OffsetFetch _ => ApiKey_OffsetFetch
  | ResponseKind_FindCoordinator _ => ApiKey_FindCoordinator
  | ResponseKind_JoinGroup _ => ApiKey_JoinGroup
  | ResponseKind_Heartbeat _ => ApiKey_Heartbeat
  | ResponseKind_LeaveGroup _ => ApiKey_LeaveGroup
  | ResponseKind_SyncGroup _ => ApiKey_SyncGroup
  | ResponseKind_DescribeGroups _ => ApiKey_DescribeGroups
  | ResponseKind_ListGroups _ => ApiKey_ListGroups
  | ResponseKind_SaslHandshake _ => ApiKey_SaslHandshake
  | ResponseKind_ApiVersions _ => ApiKey_ApiVersions
  | ResponseKind_CreateTopics _ => ApiKey_CreateTopics
  | ResponseKind_DeleteTopics _ => ApiKey_DeleteTopics
  | ResponseKind_DeleteRecords _ => ApiKey_DeleteRecords
  | ResponseKind_InitProducerId _ => ApiKey_InitProducerId
  | ResponseKind_OffsetForLeaderEpoch _ => ApiKey_OffsetForLeaderEpoch
  | ResponseKind_AddPartitionsToTxn _ => ApiKey_AddPartitionsToTxn
  | ResponseKind_AddOffsetsToTxn _ => ApiKey_AddOffsetsToTxn
  | ResponseKind_EndTxn _ => ApiKey_EndTxn
  | ResponseKind_WriteTxnMarkers _ => ApiKey_WriteTxnMarkers
  | ResponseKind_TxnOffsetCommit _ => ApiKey_TxnOffsetCommit
  | ResponseKind_DescribeAcls _ => ApiKey_DescribeAcls
  | ResponseKind_CreateAcls _ => ApiKey_CreateAcls
  | ResponseKind_DeleteAcls _ => ApiKey_DeleteAcls
  | ResponseKind_DescribeConfigs _ => ApiKey_DescribeConfigs
  | ResponseKind_AlterConfigs _ => ApiKey_AlterConfigs
  | ResponseKind_AlterReplicaLogDirs _ => ApiKey_AlterReplicaLogDirs
  | ResponseKind_DescribeLogDirs _ => ApiKey_DescribeLogDirs
  | ResponseKind_SaslAuthenticate _ => ApiKey_SaslAuthenticate
  | ResponseKind_CreatePartitions _ => ApiKey_CreatePartitions
  | ResponseKind_CreateDelegationToken _ => ApiKey_CreateDelegationToken
  | ResponseKind_RenewDelegationToken _ => ApiKey_RenewDelegationToken
  | ResponseKind_ExpireDelegationToken _ => ApiKey_ExpireDelegationToken
  | ResponseKind_DescribeDelegationToken _ => ApiKey_DescribeDelegationToken
  | ResponseKind_DeleteGroups _ => ApiKey_DeleteGroups
  | ResponseKind_ElectLeaders _ => ApiKey_ElectLeaders
  | ResponseKind_IncrementalAlterConfigs _ => ApiKey_IncrementalAlterConfigs
  | ResponseKind_AlterPartitionReassignments _ => ApiKey_AlterPartitionReassignments
  | ResponseKind_ListPartitionReassignments _ => ApiKey_ListPartitionReassignments
  | ResponseKind_OffsetDelete _ => ApiKey_OffsetDelete
  | ResponseKind_DescribeClientQuotas _ => ApiKey_DescribeClientQuotas
  | ResponseKind_AlterClientQuotas _ => ApiKey_AlterClientQuotas
  | ResponseKind_DescribeUserScramCredentials _ => ApiKey_DescribeUserScramCredentials
  | ResponseKind_AlterUserScramCredentials _ => ApiKey_AlterUserScramCredentials
  | ResponseKind_Vote _ => ApiKey_Vote
  | ResponseKind_BeginQuorumEpoch _ => ApiKey_BeginQuorumEpoch
  | ResponseKind_EndQuorumEpoch _ => ApiKey_EndQuorumEpoch
  | ResponseKind_DescribeQuorum _ => ApiKey_DescribeQuorum
  | ResponseKind_AlterPartition _ => ApiKey_AlterPartition
  | ResponseKind_UpdateFeatures _ => ApiKey_UpdateFeatures
  | ResponseKind_Envelope _ => ApiKey_Envelope
  | ResponseKind_FetchSnapshot _ => ApiKey_FetchSnapshot
  | ResponseKind_DescribeCluster _ => ApiKey_DescribeCluster
  | ResponseKind_DescribeProducers _ => ApiKey_DescribeProducers
  | ResponseKind_BrokerRegistration _ => ApiKey_BrokerRegistration
  | ResponseKind_BrokerHeartbeat _ => ApiKey_BrokerHeartbeat
  | ResponseKind_UnregisterBroker _ => ApiKey_UnregisterBroker
  | ResponseKind_DescribeTransactions _ => ApiKey_DescribeTransactions
  | ResponseKind_ListTransactions _ => ApiKey_ListTransactions
  | ResponseKind_AllocateProducerIds _ => ApiKey_AllocateProducerIds
  | ResponseKind_ConsumerGroupHeartbeat _ => ApiKey_ConsumerGroupHeartbeat
  | ResponseKind_ConsumerGroupDescribe _ => ApiKey_ConsumerGroupDescribe
  | ResponseKind_ControllerRegistration _ => ApiKey_ControllerRegistration
  | ResponseKind_GetTelemetrySubscriptions _ => ApiKey_GetTelemetrySubscriptions
  | ResponseKind_PushTelemetry _ => ApiKey_PushTelemetry
  | ResponseKind_AssignReplicasToDirs _ => ApiKey_AssignReplicasToDirs
  | ResponseKind_ListConfigResources _ => ApiKey_ListConfigResources
  | ResponseKind_DescribeTopicPartitions _ => ApiKey_DescribeTopicPartitions
  | ResponseKind_ShareGroupHeartbeat _ => ApiKey_ShareGroupHeartbeat
  | ResponseKind_ShareGroupDescribe _ => ApiKey_ShareGroupDescribe
  | ResponseKind_ShareFetch _ => ApiKey_ShareFetch
  | ResponseKind_ShareAcknowledge _ => ApiKey_ShareAcknowledge
  | ResponseKind_AddRaftVoter _ => ApiKey_AddRaftVoter
  | ResponseKind_RemoveRaftVoter _ => ApiKey_RemoveRaftVoter
  | ResponseKind_UpdateRaftVoter _ => ApiKey_UpdateRaftVoter
  | ResponseKind_InitializeShareGroupState _ => ApiKey_InitializeShareGroupState
  | ResponseKind_ReadShareGroupState _ => ApiKey_ReadShareGroupState
  | ResponseKind_WriteShareGroupState _ => ApiKey_WriteShareGroupState
  | ResponseKind_DeleteShareGroupState _ => ApiKey_DeleteShareGroupState
  | ResponseKind_ReadShareGroupStateSummary _ => ApiKey_ReadShareGroupStateSummary
  | ResponseKind_StreamsGroupHeartbeat _ => ApiKey_StreamsGroupHeartbeat
  | ResponseKind_StreamsGroupDescribe _ => ApiKey_StreamsGroupDescribe
  | ResponseKind_DescribeShareGroupOffsets _ => ApiKey_DescribeShareGroupOffsets
  | ResponseKind_AlterShareGroupOffsets _ => ApiKey_AlterShareGroupOffsets
  | ResponseKind_DeleteShareGroupOffsets _ => ApiKey_DeleteShareGroupOffsets
  end.

Definition ResponseKind_valid (version : Z) (r : ResponseKind) : Prop :=
  match r with
  | ResponseKind_Produce x => ProduceResponse_valid version x
  | ResponseKind_Fetch x => FetchResponse_valid version x
  | ResponseKind_ListOffsets x => ListOffsetsResponse_valid version x
  | ResponseKind_Metadata x => MetadataResponse_valid version x
  | ResponseKind_OffsetCommit x => OffsetCommitResponse_valid version x
  | ResponseKind_OffsetFetch x => OffsetFetchResponse_valid version x
  | ResponseKind_FindCoordinator x => FindCoordinatorResponse_valid version x
  | ResponseKind_JoinGroup x => JoinGroupResponse_valid version x
  | ResponseKind_Heartbeat x => HeartbeatResponse_valid version x
  | ResponseKind_LeaveGroup x => LeaveGroupResponse_valid version x
  | ResponseKind_SyncGroup x => SyncGroupResponse_valid version x
  | ResponseKind_DescribeGroups x => DescribeGroupsResponse_valid version x
  | ResponseKind_ListGroups x => ListGroupsResponse_valid version x
  | ResponseKind_SaslHandshake x => SaslHandshakeResponse_valid version x
  | ResponseKind_ApiVersions x => ApiVersionsResponse_valid version x
  | ResponseKind_CreateTopics x => CreateTopicsResponse_valid version x
  | ResponseKind_DeleteTopics x => DeleteTopicsResponse_valid version x
  | ResponseKind_DeleteRecords x => DeleteRecordsResponse_valid version x
  | ResponseKind_InitProducerId x => InitProducerIdResponse_valid version x
  | ResponseKind_OffsetForLeaderEpoch x => OffsetForLeaderEpochResponse_valid version x
  | ResponseKind_AddPartitionsToTxn x => AddPartitionsToTxnResponse_valid version x
  | ResponseKind_AddOffsetsToTxn x => AddOffsetsToTxnResponse_valid version x
  | ResponseKind_EndTxn x => EndTxnResponse_valid version x
  | ResponseKind_WriteTxnMarkers x => WriteTxnMarkersResponse_valid version x
  | ResponseKind_TxnOffsetCommit x => TxnOffsetCommitResponse_valid version x
  | ResponseKind_DescribeAcls x => DescribeAclsResponse_valid version x
  | ResponseKind_CreateAcls x => CreateAclsResponse_valid version x
  | ResponseKind_DeleteAcls x => DeleteAclsResponse_valid version x
  | ResponseKind_DescribeConfigs x => DescribeConfigsResponse_valid version x
  | ResponseKind_AlterConfigs x => AlterConfigsResponse_valid version x
  | ResponseKind_AlterReplicaLogDirs x => AlterReplicaLogDirsResponse_valid version x
  | ResponseKind_DescribeLogDirs x => DescribeLogDirsResponse_valid version x
  | ResponseKind_SaslAuthenticate x => SaslAuthenticateResponse_valid version x
  | ResponseKind_CreatePartitions x => CreatePartitionsResponse_valid version x
  | ResponseKind_CreateDelegationToken x => CreateDelegationTokenResponse_valid version x
  | ResponseKind_RenewDelegationToken x => RenewDelegationTokenResponse_valid version x
  | ResponseKind_ExpireDelegationToken x => ExpireDelegationTokenResponse_valid version x
  | ResponseKind_DescribeDelegationToken x => DescribeDelegationTokenResponse_valid version x
  | ResponseKind_DeleteGroups x => DeleteGroupsResponse_valid version x
  | ResponseKind_ElectLeaders x => ElectLeadersResponse_valid version x
  | ResponseKind_IncrementalAlterConfigs x => IncrementalAlterConfigsResponse_valid version x
  | ResponseKind_AlterPartitionReassignments x => AlterPartitionReassignmentsResponse_valid version x
  | ResponseKind_ListPartitionReassignments x => ListPartitionReassignmentsResponse_valid version x
  | ResponseKind_OffsetDelete x => OffsetDeleteResponse_valid version x
  | ResponseKind_DescribeClientQuotas x => DescribeClientQuotasResponse_valid version x
  | ResponseKind_AlterClientQuotas x => AlterClientQuotasResponse_valid version x
  | ResponseKind_DescribeUserScramCredentials x => DescribeUserScramCredentialsResponse_valid version x
  | ResponseKind_AlterUserScramCredentials x => AlterUserScramCredentialsResponse_valid version x
  | ResponseKind_Vote x => VoteResponse_valid version x
  | ResponseKind_BeginQuorumEpoch x => BeginQuorumEpochResponse_valid version x
  | ResponseKind_EndQuorumEpoch x => EndQuorumEpochResponse_valid version x
  | ResponseKind_DescribeQuorum x => DescribeQuorumResponse_valid version x
  | ResponseKind_AlterPartition x => AlterPartitionResponse_valid version x
  | ResponseKind_UpdateFeatures x => UpdateFeaturesResponse_valid version x
  | ResponseKind_Envelope x => EnvelopeResponse_valid version x
  | ResponseKind_FetchSnapshot x => FetchSnapshotResponse_valid version x
  | ResponseKind_DescribeCluster x => DescribeClusterResponse_valid version x
  | ResponseKind_DescribeProducers x => DescribeProducersResponse_valid version x
  | ResponseKind_BrokerRegistration x => BrokerRegistrationResponse_valid version x
  | ResponseKind_BrokerHeartbeat x => BrokerHeartbeatResponse_valid version x
  | ResponseKind_UnregisterBroker x => UnregisterBrokerResponse_valid version x
  | ResponseKind_DescribeTransactions x => DescribeTransactionsResponse_valid version x
  | ResponseKind_ListTransactions x => ListTransactionsResponse_valid version x
  | ResponseKind_AllocateProducerIds x => AllocateProducerIdsResponse_valid version x
  | ResponseKind_ConsumerGroupHeartbeat x => ConsumerGroupHeartbeatResponse_valid version x
  | ResponseKind_ConsumerGroupDescribe x => ConsumerGroupDescribeResponse_valid version x
  | ResponseKind_ControllerRegistration x => ControllerRegistrationResponse_valid version x
  | ResponseKind_GetTelemetrySubscriptions x => GetTelemetrySubscriptionsResponse_valid version x
  | ResponseKind_PushTelemetry x => PushTelemetryResponse_valid version x
  | ResponseKind_AssignReplicasToDirs x => AssignReplicasToDirsResponse_valid version x
  | ResponseKind_ListConfigResources x => ListConfigResourcesResponse_valid version x
  | ResponseKind_DescribeTopicPartitions x => DescribeTopicPartitionsResponse_valid version x
  | ResponseKind_ShareGroupHeartbeat x => ShareGroupHeartbeatResponse_valid version x
  | ResponseKind_ShareGroupDescribe x => ShareGroupDescribeResponse_valid version x
  | ResponseKind_ShareFetch x => ShareFetchResponse_valid version x
  | ResponseKind_ShareAcknowledge x => ShareAcknowledgeResponse_valid version x
  | ResponseKind_AddRaftVoter x => AddRaftVoterResponse_valid version x
  | ResponseKind_RemoveRaftVoter x => RemoveRaftVoterResponse_valid version x
  | ResponseKind_UpdateRaftVoter x => UpdateRaftVoterResponse_valid version x
  | ResponseKind_InitializeShareGroupState x => InitializeShareGroupStateResponse_valid version x
  | ResponseKind_ReadShareGroupState x => ReadShareGroupStateResponse_valid version x
  | ResponseKind_WriteShareGroupState x => WriteShareGroupStateResponse_valid version x
  | ResponseKind_DeleteShareGroupState x => DeleteShareGroupStateResponse_valid version x
  | ResponseKind_ReadShareGroupStateSummary x => ReadShareGroupStateSummaryResponse_valid version x
  | ResponseKind_StreamsGroupHeartbeat x => StreamsGroupHeartbeatResponse_valid version x
  | ResponseKind_StreamsGroupDescribe x => StreamsGroupDescribeResponse_valid version x
  | ResponseKind_DescribeShareGroupOffsets x => DescribeShareGroupOffsetsResponse_valid version x
  | ResponseKind_AlterShareGroupOffsets x => AlterShareGroupOffsetsResponse_valid version x
  | ResponseKind_DeleteShareGroupOffsets x => DeleteShareGroupOffsetsResponse_valid version x
  end.

(* @ src/crates/kafka-protocol/src/messages.rs 3332-3498 ResponseKind::header_version *)
Definition ResponseKind_header_version (r : ResponseKind) (version : Z) : Z :=
  match r with
  | ResponseKind_Produce _ => ProduceResponse_header_version version
  | ResponseKind_Fetch _ => FetchResponse_header_version version
  | ResponseKind_ListOffsets _ => ListOffsetsResponse_header_version version
  | ResponseKind_Metadata _ => MetadataResponse_header_version version
  | ResponseKind_OffsetCommit _ => OffsetCommitResponse_header_version version
  | ResponseKind_OffsetFetch _ => OffsetFetchResponse_header_version version
  | ResponseKind_FindCoordinator _ => FindCoordinatorResponse_header_version version
  | ResponseKind_JoinGroup _ => JoinGroupResponse_header_version version
  | ResponseKind_Heartbeat _ => HeartbeatResponse_header_version version
  | ResponseKind_LeaveGroup _ => LeaveGroupResponse_header_version version
  | ResponseKind_SyncGroup _ => SyncGroupResponse_header_version version
  | ResponseKind_DescribeGroups _ => DescribeGroupsResponse_header_version version
  | ResponseKind_ListGroups _ => ListGroupsResponse_header_version version
  | ResponseKind_SaslHandshake _ => SaslHandshakeResponse_header_version version
  | ResponseKind_ApiVersions _ => ApiVersionsResponse_header_version version
  | ResponseKind_CreateTopics _ => CreateTopicsResponse_header_version version
  | ResponseKind_DeleteTopics _ => DeleteTopicsResponse_header_version version
  | ResponseKind_DeleteRecords _ => DeleteRecordsResponse_header_version version
  | ResponseKind_InitProducerId _ => InitProducerIdResponse_header_version version
  | ResponseKind_OffsetForLeaderEpoch _ => OffsetForLeaderEpochResponse_header_version version
  | ResponseKind_AddPartitionsToTxn _ => AddPartitionsToTxnResponse_header_version version
  | ResponseKind_AddOffsetsToTxn _ => AddOffsetsToTxnResponse_header_version version
  | ResponseKind_EndTxn _ => EndTxnResponse_header_version version
  | ResponseKind_WriteTxnMarkers _ => WriteTxnMarkersResponse_header_version version
  | ResponseKind_TxnOffsetCommit _ => TxnOffsetCommitResponse_header_version version
  | ResponseKind_DescribeAcls _ => DescribeAclsResponse_header_version version
  | ResponseKind_CreateAcls _ => CreateAclsResponse_header_version version
  | ResponseKind_DeleteAcls _ => DeleteAclsResponse_header_version version
  | ResponseKind_DescribeConfigs _ => DescribeConfigsResponse_header_version version
  | ResponseKind_AlterConfigs _ => AlterConfigsResponse_header_version version
  | ResponseKind_AlterReplicaLogDirs _ => AlterReplicaLogDirsResponse_header_version version
  | ResponseKind_DescribeLogDirs _ => DescribeLogDirsResponse_header_version version
  | ResponseKind_SaslAuthenticate _ => SaslAuthenticateResponse_header_version version
  | ResponseKind_CreatePartitions _ => CreatePartitionsResponse_header_version version
  | ResponseKind_CreateDelegationToken _ => CreateDelegationTokenResponse_header_version version
  | ResponseKind_RenewDelegationToken _ => RenewDelegationTokenResponse_header_version version
  | ResponseKind_ExpireDelegationToken _ => ExpireDelegationTokenResponse_header_version version
  | ResponseKind_DescribeDelegationToken _ => DescribeDelegationTokenResponse_header_version version
  | ResponseKind_DeleteGroups _ => DeleteGroupsResponse_header_version version
  | ResponseKind_ElectLeaders _ => ElectLeadersResponse_header_version version
  | ResponseKind_IncrementalAlterConfigs _ => IncrementalAlterConfigsResponse_header_version version
  | ResponseKind_AlterPartitionReassignments _ => AlterPartitionReassignmentsResponse_header_version version
  | ResponseKind_ListPartitionReassignments _ => ListPartitionReassignmentsResponse_header_version version
  | ResponseKind_OffsetDelete _ => OffsetDeleteResponse_header_version version
  | ResponseKind_DescribeClientQuotas _ => DescribeClientQuotasResponse_header_version version
  | ResponseKind_AlterClientQuotas _ => AlterClientQuotasResponse_header_version version
  | ResponseKind_DescribeUserScramCredentials _ => DescribeUserScramCredentialsResponse_header_version version
  | ResponseKind_AlterUserScramCredentials _ => AlterUserScramCredentialsResponse_header_version version
  | ResponseKind_Vote _ => VoteResponse_header_version version
  | ResponseKind_BeginQuorumEpoch _ => BeginQuorumEpochResponse_header_version version
  | ResponseKind_EndQuorumEpoch _ => EndQuorumEpochResponse_header_version version
  | ResponseKind_DescribeQuorum _ => DescribeQuorumResponse_header_version version
  | ResponseKind_AlterPartition _ => AlterPartitionResponse_header_version version
  | ResponseKind_UpdateFeatures _ => UpdateFeaturesResponse_header_version version
  | ResponseKind_Envelope _ => EnvelopeResponse_header_version version
  | ResponseKind_FetchSnapshot _ => FetchSnapshotResponse_header_version version
  | ResponseKind_DescribeCluster _ => DescribeClusterResponse_header_version version
  | ResponseKind_DescribeProducers _ => DescribeProducersResponse_header_version version
  | ResponseKind_BrokerRegistration _ => BrokerRegistrationResponse_header_version version
  | ResponseKind_BrokerHeartbeat _ => BrokerHeartbeatResponse_header_version version
  | ResponseKind_UnregisterBroker _ => UnregisterBrokerResponse_header_version version
  | ResponseKind_DescribeTransactions _ => DescribeTransactionsResponse_header_version version
  | ResponseKind_ListTransactions _ => ListTransactionsResponse_header_version version
  | ResponseKind_AllocateProducerIds _ => AllocateProducerIdsResponse_header_version version
  | ResponseKind_ConsumerGroupHeartbeat _ => ConsumerGroupHeartbeatResponse_header_version version
  | ResponseKind_ConsumerGroupDescribe _ => ConsumerGroupDescribeResponse_header_version version
  | ResponseKind_ControllerRegistration _ => ControllerRegistrationResponse_header_version version
  | ResponseKind_GetTelemetrySubscriptions _ => GetTelemetrySubscriptionsResponse_header_version version
  | ResponseKind_PushTelemetry _ => PushTelemetryResponse_header_version version
  | ResponseKind_AssignReplicasToDirs _ => AssignReplicasToDirsResponse_header_version version
  | ResponseKind_ListConfigResources _ => ListConfigResourcesResponse_header_version version
  | ResponseKind_DescribeTopicPartitions _ => DescribeTopicPartitionsResponse_header_version version
  | ResponseKind_ShareGroupHeartbeat _ => ShareGroupHeartbeatResponse_header_version version
  | ResponseKind_ShareGroupDescribe _ => ShareGroupDescribeResponse_header_version version
  | ResponseKind_ShareFetch _ => ShareFetchResponse_header_version version
  | ResponseKind_ShareAcknowledge _ => ShareAcknowledgeResponse_header_version version
  | ResponseKind_AddRaftVoter _ => AddRaftVoterResponse_header_version version
  | ResponseKind_RemoveRaftVoter _ => RemoveRaftVoterResponse_header_version version
  | ResponseKind_UpdateRaftVoter _ => UpdateRaftVoterResponse_header_version version
  | ResponseKind_InitializeShareGroupState _ => InitializeShareGroupStateResponse_header_version version
  | ResponseKind_ReadShareGroupState _ => ReadShareGroupStateResponse_header_version version
  | ResponseKind_WriteShareGroupState _ => WriteShareGroupStateResponse_header_version version
  | ResponseKind_DeleteShareGroupState _ => DeleteShareGroupStateResponse_header_version version
  | ResponseKind_ReadShareGroupStateSummary _ => ReadShareGroupStateSummaryResponse_header_version version
  | ResponseKind_StreamsGroupHeartbeat _ => StreamsGroupHeartbeatResponse_header_version version
  | ResponseKind_StreamsGroupDescribe _ => StreamsGroupDescribeResponse_header_version version
  | ResponseKind_DescribeShareGroupOffsets _ => DescribeShareGroupOffsetsResponse_header_version version
  | ResponseKind_AlterShareGroupOffsets _ => AlterShareGroupOffsetsResponse_header_version version
  | ResponseKind_DeleteShareGroupOffsets _ => DeleteShareGroupOffsetsResponse_header_version version
  end.

(** ** Keys *)

Lemma try_from_code k : ApiKey_try_from (ApiKey_code k) = Ok k.
Proof. by destruct k. Qed.

#[global] Instance ApiKey_code_inj : Inj (=) (=) ApiKey_code.
Proof.
  intros k k' Heq. assert (Ok (E := ()) k = Ok k') as [=]; [|done].
  by rewrite <- !try_from_code, Heq.
Qed.

Lemma try_from_Ok v k : ApiKey_try_from v = Ok k ↔ v = ApiKey_code k.
Proof.
  split; [|intros ->; apply try_from_code]. unfold ApiKey_try_from.
  destruct (list_find _ _) as [[i k']|] eqn:Hf; [|done]. intros [= ->].
  by apply list_find_Some in Hf as (_ & <- & _).
Qed.

(** ** Round trips *)

Lemma decode_map {A B : Type} (d : decoder A) (f : A → B) buf a rest :
  d buf = Ok (a, rest) → (x ← d; mret (f x)) buf = Ok (f a, rest).
Proof. intros Hd. by rewrite (decoder_bind_Ok _ _ _ _ _ Hd). Qed.

Ltac kind_sound Hx He :=
  let bytes := fresh "bytes" in let Hd := fresh "Hd" in
  destruct (sound _ Hx _ _ He) as (bytes & -> & _ & Hd);
  exists bytes; split; [reflexivity|intros rest; apply decode_map, Hd].

Lemma RequestKind_sound version r buf buf' :
  RequestKind_valid version r → RequestKind_encode r version buf = Ok buf' →
  ∃ bytes, buf' = buf ++ bytes ∧
    ∀ rest, RequestKind_decode (RequestKind_key r) version (bytes ++ rest) = Ok (r, rest).
Proof.
  intros Hx He. destruct r; cbn [RequestKind_valid RequestKind_encode] in Hx, He; kind_sound Hx He.
Qed.

Lemma ResponseKind_sound version r buf buf' :
  ResponseKind_valid version r → ResponseKind_encode r version buf = Ok buf' →
  ∃ bytes, buf' = buf ++ bytes ∧
    ∀ rest, ResponseKind_decode (ResponseKind_key r) version (bytes ++ rest) = Ok (r, rest).
Proof.
  intros Hx He. destruct r; cbn [ResponseKind_valid ResponseKind_encode] in Hx, He; kind_sound Hx He.
Qed.

(** C12: requests and responses round-trip.  For every API key and every version,
    a request or response that is expressible in that version and that
    [encode] accepts is written as bytes from which the other side, knowing the
    key and the version, decodes the same message and nothing more. *)
Theorem messages_roundtrip (version : Z) (request : RequestKind) (response : ResponseKind)
    (bytes bytes' rest : list byte) :
  RequestKind_valid version request → RequestKind_encode request version [] = Ok bytes →
  ResponseKind_valid version response → ResponseKind_encode response version [] = Ok bytes' →
  RequestKind_decode (RequestKind_key request) version (bytes ++ rest) = Ok (request, rest) ∧
  ResponseKind_decode (ResponseKind_key response) version (bytes' ++ rest) = Ok (response, rest).
Proof.
  intros Hq (? & -> & Hqd)%RequestKind_sound Hr (? & -> & Hrd)%ResponseKind_sound; [|done..].
  split; [apply Hqd|apply Hrd].
Qed.

(** A fetch of one partition and its answer, in version 12 with some of its
    tagged fields. *)
Definition sample_fetch : FetchRequest :=
  mkFetchRequest (Some [Byte.x63]) (-1) FetchRequest_ReplicaState_default 500 1 1024 0 0 (-1)
    [mkFetchRequest_FetchTopic [Byte.x74] 0 [FetchRequest_FetchPartition_default] ∅] [] [] ∅.
Definition sample_fetched : FetchResponse :=
  mkFetchResponse 0 0 0 [mkFetchableTopicResponse [Byte.x74] 0 [
    mkFetchResponse_PartitionData 0 0 9 9 0 (mkFetchResponse_EpochEndOffset 1 2 ∅)
      FetchResponse_LeaderIdAndEpoch_default FetchResponse_SnapshotId_default None (-1)
      (Some [Byte.x01; Byte.x02]) (<[7 := [Byte.x01]]> ∅)] ∅] [] ∅.
Definition sample_fetch_bytes : list byte := Eval vm_compute in
  match RequestKind_encode (RequestKind_Fetch sample_fetch) 12 [] with Ok bytes => bytes | Err _ => [] end.
Definition sample_fetched_bytes : list byte := Eval vm_compute in
  match ResponseKind_encode (ResponseKind_Fetch sample_fetched) 12 [] with Ok bytes => bytes | Err _ => [] end.

(** Closes the validity of a concrete message. *)
Ltac valid_now :=
  repeat match goal with
  | |- _ ∧ _ => split
  | |- Forall _ _ => constructor
  | |- if _ then _ else _ => cbn
  | |- in_signed _ _ => unfold in_signed; cbn; lia
  | |- in_unsigned _ _ => unfold in_unsigned; cbn; lia
  | |- unknown_valid _ _ => apply (bool_decide_unpack _); vm_compute; exact I
  | |- _ = _ => reflexivity
  | |- ?P => progress hnf
  end; try exact I.

Lemma messages_roundtrip_witness :
  RequestKind_decode ApiKey_Fetch 12 (sample_fetch_bytes ++ [Byte.xff])
    = Ok (RequestKind_Fetch sample_fetch, [Byte.xff]) ∧
  ResponseKind_decode ApiKey_Fetch 12 (sample_fetched_bytes ++ [Byte.xff])
    = Ok (ResponseKind_Fetch sample_fetched, [Byte.xff]).
Proof.
  apply (messages_roundtrip 12 (RequestKind_Fetch sample_fetch) (ResponseKind_Fetch sample_fetched)).
  - valid_now.
  - vm_compute. reflexivity.
  - valid_now.
  - vm_compute. reflexivity.
Defined.

End ApiKeys.
