(* ===== verification/Encodability.v ===== *)
(** * When encoding succeeds

    An encoder fails on a string or an array that is longer than its length field
    can say, and on a field that is set although the version does not have it.  A
    decoder never returns such values.  [Decoded d a] says that [a] came out of
    the decoder [d], [Encodes c x] that [x] can be written into every buffer; the
    lemmas carry the first over to the second, field by field, so that an answer
    built from a decoded request is known to be encodable. *)

From S2P Require Import Prelude Buf Types MessageCodec.
Open Scope Z_scope.

Definition Decoded {A : Type} (d : decoder A) (a : A) : Prop := ∃ buf rest, d buf = Ok (a, rest).

Definition Encodes {T : Type} (c : Codec T) (x : T) : Prop := ∀ buf, ∃ buf', encode c x buf = Ok buf'.

Definition Writes {T A : Type} (f : Field T A) (x : T) : Prop := ∀ buf, ∃ buf', field_encode f x buf = Ok buf'.

(** ** What decoders return *)

Lemma decoded_bind {A B : Type} (d : decoder A) (k : A → decoder B) b :
  Decoded (d ≫= k) b → ∃ a, Decoded d a ∧ Decoded (k a) b.
Proof. intros (buf & rest & (a & mid & Ha & Hb)%decoder_bind_inv). exists a. split; [by exists buf, mid|by exists mid, rest]. Qed.

Lemma decoded_ret {A : Type} (a b : A) : Decoded (mret a) b → a = b.
Proof. intros (? & ? & [= -> _]). done. Qed.

Lemma decoded_fail {A : Type} e (b : A) : Decoded (fail_decode e) b → False.
Proof. by intros (? & ? & ?). Qed.

Lemma decoded_int n z : n ≠ O → Decoded (try_get_int n) z → in_signed (8 * Z.of_nat n) z.
Proof.
  intros Hn (? & ? & (bs & _ & _ & ->)%try_get_int_inv). apply wrap_signed_range. lia.
Qed.

Lemma lor_below w a b : 0 ≤ w → 0 ≤ a < 2 ^ w → 0 ≤ b < 2 ^ w → 0 ≤ Z.lor a b < 2 ^ w.
Proof.
  intros Hw Ha Hb. split; [apply Z.lor_nonneg; lia|].
  destruct (decide (Z.lor a b = 0)) as [->|Hne]; [lia|].
  assert (0 ≤ Z.lor a b) by (apply Z.lor_nonneg; lia).
  apply Z.log2_lt_pow2; [lia|]. rewrite Z.log2_lor by lia.
  apply Z.max_lub_lt.
  - destruct (decide (a = 0)) as [->|]; [|apply Z.log2_lt_pow2; lia].
    cbn. destruct (decide (w = 0)) as [->|]; [|lia]. assert (b = 0) as -> by lia. by rewrite Z.lor_0_l in Hne.
  - destruct (decide (b = 0)) as [->|]; [|apply Z.log2_lt_pow2; lia].
    cbn. destruct (decide (w = 0)) as [->|]; [|lia]. assert (a = 0) as -> by lia. by rewrite Z.lor_0_l in Hne.
Qed.

Lemma decoded_varint n z : Decoded (get_varint 32 n 0 0) z → 0 ≤ z ≤ u32_max.
Proof.
  assert (∀ i v, 0 ≤ v < 2 ^ 32 → Decoded (get_varint 32 n i v) z → 0 ≤ z < 2 ^ 32) as H.
  { induction n as [|n IH]; intros i v Hv; [by intros <-%decoded_ret|].
    intros (b & _ & Hz)%decoded_bind. revert Hz.
    assert (0 ≤ Z.lor v (wrap_unsigned 32 (Z.shiftl (Z.land b 127) (i * 7))) < 2 ^ 32) as Hv'.
    { apply lor_below; [lia|done|]. unfold wrap_unsigned. apply Z.mod_pos_bound. lia. }
    case_decide; [by intros <-%decoded_ret|]. eauto. }
  intros Hz%H; unfold u32_max; lia.
Qed.

Lemma decoded_non_null {A : Type} message (d : decoder (option A)) a :
  Decoded (non_null message d) a → Decoded d (Some a).
Proof.
  intros ([b|] & Hb & H)%decoded_bind; [|by apply decoded_fail in H].
  apply decoded_ret in H as ->. done.
Qed.

Lemma decoded_try_get_bytes n s : 0 ≤ n → Decoded (try_get_bytes n) s → len s = n.
Proof.
  intros Hn (buf & rest & [Heq Hlen]%try_get_bytes_inv); [|done]. unfold len in *. lia.
Qed.

Lemma decoded_lift {A : Type} (r : result anyhow A) a : Decoded (lift r) a → r = Ok a.
Proof. intros (buf & rest & H). unfold lift in H. by destruct r; simplify_eq. Qed.

Lemma decoded_utf8 {A : Type} s (k : list byte → decoder A) a :
  Decoded (s' ← lift (from_utf8 s); k s') a → Decoded (k s) a.
Proof.
  intros (s' & Hs & Ha)%decoded_bind. apply decoded_lift in Hs. unfold from_utf8 in Hs.
  by destruct (utf8_valid s); simplify_eq.
Qed.

Section decoded_arrays.
  Context {T : Type} (E : Codec T).

Lemma decoded_items n (l : list T) :
  Decoded (decode_items E n) l → length l = n ∧ Forall (Decoded (decode E)) l.
Proof.
  revert l. induction n as [|n IH]; intros l; [by intros <-%decoded_ret|].
  intros (x & Hx & (xs & [Hlen Hxs]%IH & <-%decoded_ret)%decoded_bind)%decoded_bind.
  split; [cbn; lia|by constructor].
Qed.

Lemma decoded_NullableArray l :
  Decoded (decode (NullableArray E)) (Some l) → len l ≤ i32_max ∧ Forall (Decoded (decode E)) l.
Proof.
  intros (n & Hn%(decoded_int 4) & Hl)%decoded_bind; [|done]. revert Hl.
  case_decide; [by intros ?%decoded_ret|]. case_decide; [|by intros ?%decoded_fail].
  intros (xs & [Hlen Hxs]%decoded_items & [= <-]%decoded_ret)%decoded_bind.
  split; [|done]. unfold in_signed in Hn. unfold len, i32_max. lia.
Qed.

Lemma decoded_NullableCompactArray l :
  Decoded (decode (NullableCompactArray E)) (Some l) → len l < u32_max ∧ Forall (Decoded (decode E)) l.
Proof.
  intros (n & Hn%decoded_varint & Hl)%decoded_bind. revert Hl.
  case_decide; [by intros ?%decoded_ret|].
  intros (xs & [Hlen Hxs]%decoded_items & [= <-]%decoded_ret)%decoded_bind.
  split; [|done]. unfold len, u32_max in *. lia.
Qed.

End decoded_arrays.

(** ** What can be written *)

Lemma int_encodes n get z : Encodes (simple_int n get) z.
Proof. intros buf. by eexists. Qed.
Lemma Int8_encodes z : Encodes Int8 z.
Proof. apply int_encodes. Qed.
Lemma Int16_encodes z : Encodes Int16 z.
Proof. apply int_encodes. Qed.
Lemma Int32_encodes z : Encodes Int32 z.
Proof. apply int_encodes. Qed.
Lemma Int64_encodes z : Encodes Int64 z.
Proof. apply int_encodes. Qed.
Lemma Uuid_encodes z : Encodes Uuid z.
Proof. intros buf. by eexists. Qed.
Lemma Boolean_encodes b : Encodes Boolean b.
Proof. intros buf. by eexists. Qed.

Lemma varint_encodes z : 0 ≤ z ≤ u32_max → Encodes UnsignedVarInt z.
Proof. intros (bytes & He & _)%varint_codes buf. eauto. Qed.

Lemma encodes_bind {A : Type} (r : result anyhow A) (k : A → result anyhow (list byte)) :
  (∃ a, r = Ok a) → (∀ a, ∃ buf', k a = Ok buf') → ∃ buf', (a ← r; k a) = Ok buf'.
Proof. intros [a ->] Hk. apply Hk. Qed.

Lemma NullableString_encodes s : opt_all (λ s, len s ≤ i16_max) s → Encodes NullableString s.
Proof.
  intros Hs buf. destruct s as [s|]; [|apply Int16_encodes]. cbn. cbn in Hs.
  rewrite decide_False by lia. eauto.
Qed.

Lemma KafkaString_encodes s : len s ≤ i16_max → Encodes KafkaString s.
Proof. intros Hs. by apply (NullableString_encodes (Some s)). Qed.

Lemma compact_encodes message s : opt_all (λ s, len s < u32_max) s → ∀ buf, ∃ buf', compact_encode message s buf = Ok buf'.
Proof.
  intros Hs buf. destruct s as [s|]; [|by apply varint_encodes]. cbn [compact_encode]. cbn in Hs.
  rewrite decide_False by lia. pose proof (len_nonneg s).
  apply encodes_bind; [apply varint_encodes; lia|eauto].
Qed.

Lemma NullableCompactString_encodes s : opt_all (λ s, len s < u32_max) s → Encodes NullableCompactString s.
Proof. intros Hs. exact (compact_encodes _ s Hs). Qed.
Lemma CompactString_encodes s : len s < u32_max → Encodes CompactString s.
Proof. intros Hs. exact (compact_encodes _ (Some s) Hs). Qed.
Lemma NullableCompactBytes_encodes s : opt_all (λ s, len s < u32_max) s → Encodes NullableCompactBytes s.
Proof. intros Hs. exact (compact_encodes _ s Hs). Qed.
Lemma CompactBytes_encodes s : len s < u32_max → Encodes CompactBytes s.
Proof. intros Hs. exact (compact_encodes _ (Some s) Hs). Qed.

Lemma NullableBytes_encodes s : opt_all (λ s, len s ≤ i32_max) s → Encodes NullableBytes s.
Proof.
  intros Hs buf. destruct s as [s|]; [|apply Int32_encodes]. cbn. cbn in Hs.
  rewrite decide_False by lia. eauto.
Qed.
Lemma Bytes_encodes s : len s ≤ i32_max → Encodes Bytes s.
Proof. intros Hs. by apply (NullableBytes_encodes (Some s)). Qed.

Lemma items_encode {T : Type} (E : Codec T) l buf :
  Forall (Encodes E) l → ∃ buf', encode_items E l buf = Ok buf'.
Proof.
  intros Hl. revert buf. induction Hl as [|x l Hx _ IH]; intros buf; [by eexists|].
  apply encodes_bind; [apply Hx|apply IH].
Qed.

Lemma Array_encodes {T : Type} (E : Codec T) l :
  len l ≤ i32_max → Forall (Encodes E) l → Encodes (Array E) l.
Proof.
  intros Hlen Hl buf. cbn. rewrite decide_False by lia. by apply items_encode.
Qed.

Lemma CompactArray_encodes {T : Type} (E : Codec T) l :
  len l < u32_max → Forall (Encodes E) l → Encodes (CompactArray E) l.
Proof.
  intros Hlen Hl buf. pose proof (len_nonneg l). cbn [encode CompactArray NullableCompactArray].
  rewrite decide_False by lia.
  apply encodes_bind; [apply varint_encodes; lia|intros; by apply items_encode].
Qed.

Lemma NullableArray_encodes {T : Type} (E : Codec T) l :
  opt_all (λ l, len l ≤ i32_max ∧ Forall (Encodes E) l) l → Encodes (NullableArray E) l.
Proof.
  destruct l as [l|]; [intros [??]; by apply (Array_encodes E l)|intros _; apply Int32_encodes].
Qed.

Lemma NullableCompactArray_encodes {T : Type} (E : Codec T) l :
  opt_all (λ l, len l < u32_max ∧ Forall (Encodes E) l) l → Encodes (NullableCompactArray E) l.
Proof.
  destruct l as [l|]; [intros [??]; by apply (CompactArray_encodes E l)|intros _].
  by apply varint_encodes.
Qed.

(** ** From what was decoded to what is written *)

Lemma NullableString_decoded s : Decoded (decode NullableString) s → Encodes NullableString s.
Proof.
  intros (n & Hn%(decoded_int 2) & Hl)%decoded_bind; [|done]. revert Hl.
  case_decide; [by intros <-%decoded_ret; apply NullableString_encodes|].
  case_decide; [|by intros ?%decoded_fail].
  intros (s' & Hs%decoded_try_get_bytes & <-%decoded_utf8%decoded_ret)%decoded_bind; [|done].
  apply NullableString_encodes. cbn. unfold in_signed, i16_max in *. lia.
Qed.

Lemma KafkaString_decoded s : Decoded (decode KafkaString) s → Encodes KafkaString s.
Proof. intros H%decoded_non_null. by apply NullableString_decoded in H. Qed.

Lemma NullableCompactString_decoded s :
  Decoded (decode NullableCompactString) s → Encodes NullableCompactString s.
Proof.
  intros (n & Hn%decoded_varint & Hl)%decoded_bind. revert Hl.
  case_decide; [by intros <-%decoded_ret; apply NullableCompactString_encodes|].
  intros (s' & Hs%decoded_try_get_bytes & <-%decoded_utf8%decoded_ret)%decoded_bind; [|lia].
  apply NullableCompactString_encodes. cbn. unfold u32_max in *. lia.
Qed.

Lemma CompactString_decoded s : Decoded (decode CompactString) s → Encodes CompactString s.
Proof. intros H%decoded_non_null. by apply NullableCompactString_decoded in H. Qed.

Section maps.
  Context {T U : Type} (E : Codec T) (F : Codec U) (f : T → U).
  Hypothesis Hf : ∀ x, Decoded (decode E) x → Encodes F (f x).

Lemma map_encodes l : Forall (Decoded (decode E)) l → Forall (Encodes F) (map f l).
Proof. intros Hl. apply Forall_fmap. eapply Forall_impl; [exact Hl|]. exact Hf. Qed.

Lemma len_map_le (l : list T) : len (map f l) = len l.
Proof. unfold len. by rewrite length_map. Qed.

Lemma Array_map l : Decoded (decode (Array E)) l → Encodes (Array F) (map f l).
Proof.
  intros [Hlen Hl]%decoded_non_null%decoded_NullableArray.
  apply Array_encodes; [by rewrite len_map_le|by apply map_encodes].
Qed.

Lemma CompactArray_map l : Decoded (decode (CompactArray E)) l → Encodes (CompactArray F) (map f l).
Proof.
  intros [Hlen Hl]%decoded_non_null%decoded_NullableCompactArray.
  apply CompactArray_encodes; [by rewrite len_map_le|by apply map_encodes].
Qed.

Lemma NullableArray_map l : Decoded (decode (NullableArray E)) l → Encodes (Array F) (map f (default [] l)).
Proof.
  destruct l as [l|]; [intros [Hlen Hl]%decoded_NullableArray|intros _; by apply Array_encodes].
  apply Array_encodes; [by rewrite len_map_le|by apply map_encodes].
Qed.

Lemma NullableCompactArray_map l :
  Decoded (decode (NullableCompactArray E)) l → Encodes (CompactArray F) (map f (default [] l)).
Proof.
  destruct l as [l|]; [intros [Hlen Hl]%decoded_NullableCompactArray|intros _; by apply CompactArray_encodes].
  apply CompactArray_encodes; [by rewrite len_map_le|by apply map_encodes].
Qed.

End maps.

(** ** Fields and messages *)

Lemma decoded_app {T A B : Type} (f : Field T (A → B)) (a : Field T A) b :
  Decoded (field_decode (f ⊛ a)) b →
  ∃ g v, Decoded (field_decode f) g ∧ Decoded (field_decode a) v ∧ b = g v.
Proof.
  intros (g & Hg & (v & Hv & Hb%decoded_ret)%decoded_bind)%decoded_bind.
  exists g, v. split_and!; [assumption|assumption|by symmetry].
Qed.

Lemma decoded_message {T : Type} low high version (f : Field T T) x :
  Decoded (decode (message low high version f)) x → Decoded (field_decode f) x.
Proof. cbn. destruct (_ || _); [by intros ?%decoded_fail|done]. Qed.

Lemma message_encodes {T : Type} low high version (f : Field T T) x :
  (version <? low) || (high <? version) = false → Writes f x → Encodes (message low high version f) x.
Proof. intros Hv Hf buf. cbn. rewrite Hv. apply Hf. Qed.

Section writes.
  Context {T : Type} (x : T).

Lemma app_writes {A B : Type} (f : Field T (A → B)) (a : Field T A) :
  Writes f x → Writes a x → Writes (f ⊛ a) x.
Proof. intros Hf Ha buf. apply encodes_bind; [apply Hf|apply Ha]. Qed.

Lemma build_writes {A : Type} (make : A) : Writes (build make) x.
Proof. intros buf. by eexists. Qed.

Lemma field_writes {A : Type} (get : T → A) c : Encodes c (get x) → Writes (field get c) x.
Proof. done. Qed.

Lemma unset_writes {A : Type} (get : T → A) is_default d : is_default (get x) = true → Writes (unset get is_default d) x.
Proof. intros Hd buf. cbn. rewrite Hd. by eexists. Qed.

Lemma ignored_writes {A : Type} (d : A) : Writes (ignored d) x.
Proof. intros buf. by eexists. Qed.

(** A section none of whose tagged fields has a value. *)
Lemma tag_section_writes {S : Type} enabled (init : S) known first (unknown : T → TaggedFields) :
  forallb (λ t, negb (written t x)) known = true → unknown x = ∅ →
  Writes (tag_section enabled init known first unknown) x.
Proof.
  intros Hk Hu buf. destruct enabled; [|by eexists]. cbn [tag_section field_encode].
  assert (filter (λ t, written t x = true) known = []) as Hn.
  { clear -Hk. induction known as [|t ts IH]; [done|]. cbn in Hk. apply andb_true_iff in Hk as [Ht Hk].
    rewrite filter_cons_False; [by apply IH|]. by destruct (written t x). }
  assert (∀ buf, encode_known known x buf = Ok buf) as He.
  { clear -Hk. induction known as [|t ts IH]; [done|]. cbn in Hk |- *. apply andb_true_iff in Hk as [Ht Hk].
    destruct (written t x); [done|by apply IH]. }
  unfold num_tagged_fields. rewrite Hu, Hn, decide_False by done.
  apply encodes_bind; [by apply varint_encodes|]. intros buf'. rewrite He. by eexists.
Qed.

Lemma unknown_tags_writes enabled (unknown : T → TaggedFields) :
  unknown x = ∅ → Writes (unknown_tags enabled unknown) x.
Proof. intros Hu. apply app_writes; [apply build_writes|by apply tag_section_writes]. Qed.

End writes.
