(* ===== verification/RequestCodec.v ===== *)
(** * Requests and responses on the wire

    [src/src/kafka/codec.rs]: a frame is decoded in stages (the fixed prefix, the
    API key, the schema range of its versions, the header, the body, the end of
    the frame), each with its own error, and a response is its header followed
    by its body.  The header helpers of the protocol crate that a client uses
    ([protocol/mod.rs]) are here too, since they choose the header version in the
    same way.

    The theorems: what a client writes is what the broker decodes; what the
    broker decodes is well typed, and every other frame is rejected with the
    error of the first stage that fails; what the broker answers is what the
    client decodes. *)

From S2P Require Import Prelude Buf Types MessageCodec MessagesData MessagesGroups MessagesBuild.
From S2P Require Import ApiKeys Encodability.
Import ApiKeys.
Open Scope Z_scope.

Module RequestCodec.

(** ** Data *)

(* @ src/src/kafka/codec.rs 10-15 DecodedRequest *)
Record DecodedRequest : Type := mkDecodedRequest {
  dr_header : RequestHeader;
  dr_api_key : ApiKey;
  dr_body : RequestKind
}.

(* @ src/src/kafka/codec.rs 17-21 DecodedRequest::expects_response *)
Definition expects_response (self : DecodedRequest) : bool :=
  match dr_body self with
  | RequestKind_Produce request => negb (bool_decide (ProduceRequest_acks request = 0))
  | _ => true
  end.

(* @ src/src/kafka/codec.rs 23-28 RequestPrefix *)
Record RequestPrefix : Type := mkRequestPrefix {
  raw_api_key : Z;
  api_version : Z;
  correlation_id : Z
}.

(* @ src/src/kafka/codec.rs 30-38 DecodedFrame *)
Inductive DecodedFrame : Type :=
| Request (request : DecodedRequest)
| UnsupportedApiVersions (header : RequestHeader) (requested_version : Z).

(* @ src/src/kafka/codec.rs 40-45 DecodeStage *)
Inductive DecodeStage : Type := Header | Body | TrailingBytes.

(* @ src/src/kafka/codec.rs 57-73 RequestDecodeError *)
Inductive RequestDecodeError : Type :=
| TruncatedPrefix
| UnknownApiKey (prefix : RequestPrefix)
| VersionOutOfSchema (prefix : RequestPrefix) (api_key : ApiKey)
| Malformed (prefix : option RequestPrefix) (api_key : option ApiKey) (stage : DecodeStage)
    (source : anyhow).

#[global] Instance ApiKey_eq_dec : EqDecision ApiKey.
Proof. refine (λ k k', cast_if (decide (ApiKey_code k = ApiKey_code k'))); [by apply (inj _)|congruence]. Defined.

(** ** Decoding *)

(** [get_i16], [get_i16] and [get_i32] on the first eight bytes; each panics when
    the buffer is too short. *)
(* @ src/src/kafka/codec.rs 118-123 decode_frame *)
Definition read_prefix (fixed_prefix : list byte) : option RequestPrefix :=
  match (k ← try_get_int 2; v ← try_get_int 2; c ← try_get_int 4; mret (mkRequestPrefix k v c)) fixed_prefix with
  | Ok (prefix, _) => Some prefix
  | Err _ => None
  end.

(* @ src/src/kafka/codec.rs 128-131 decode_frame *)
Definition out_of_schema (api_key : ApiKey) (version : Z) : bool :=
  let '(min, max) := valid_versions api_key in (version <? min) || (max <? version).

(* @ src/src/kafka/codec.rs 113-188 decode_frame *)
Definition decode_frame (frame : list byte) : outcome RequestDecodeError DecodedFrame :=
  if decide (len frame < 8) then raise TruncatedPrefix
  else
    let! prefix := read_prefix (slice 0 8 frame) in
    let? api_key := Some (map_err (λ _, UnknownApiKey prefix) (ApiKey_try_from (raw_api_key prefix))) in
    let version := api_version prefix in
    let malformed := Malformed (Some prefix) (Some api_key) in
    if negb (bool_decide (api_key = ApiKey_ApiVersions)) && out_of_schema api_key version
    then raise (VersionOutOfSchema prefix api_key)
    else
      let? (header, frame) := Some (map_err (malformed Header)
        (decode (RequestHeader_codec (request_header_version api_key version)) frame)) in
      if bool_decide (api_key = ApiKey_ApiVersions) && out_of_schema api_key version
      then value_of (UnsupportedApiVersions header version)
      else
        let? (body, frame) := Some (map_err (malformed Body)
          (RequestKind_decode api_key version frame)) in
        if negb (bool_decide (frame = []))
        then raise (malformed TrailingBytes (Bail "Kafka request has trailing bytes"))
        else value_of (Request (mkDecodedRequest header api_key body)).

(** ** Encoding *)

(* @ src/src/kafka/codec.rs 190-209 encode_response *)
Definition encode_response (api_key : ApiKey) (encoding_version correlation_id : Z) (body : ResponseKind) :
    result anyhow (list byte) :=
  encoded ← encode (ResponseHeader_codec (response_header_version api_key encoding_version))
    (ResponseHeader_default ▷ ResponseHeader_with_correlation_id correlation_id) [];
  ResponseKind_encode body encoding_version encoded.

(** ** The header helpers of the protocol crate *)

(* @ src/crates/kafka-protocol/src/protocol/mod.rs 230-239 encode_request_header_into_buffer *)
Definition encode_request_header_into_buffer (buf : list byte) (header : RequestHeader) :
    result anyhow (list byte) :=
  api_key ← map_err (λ _, Bail "Unknown API key") (ApiKey_try_from (RequestHeader_request_api_key header));
  let version := request_header_version api_key (RequestHeader_request_api_version header) in
  encode (RequestHeader_codec version) header buf.

(** [peek_bytes] panics when the buffer is too short. *)
(* @ src/crates/kafka-protocol/src/protocol/mod.rs 221-228 decode_request_header_from_buffer *)
Definition decode_request_header_from_buffer (buf : list byte) :
    outcome anyhow (RequestHeader * list byte) :=
  let peek_i16 (first : nat) :=
    match try_get_int 2 (slice first (first + 2) buf) with Ok (z, _) => Some z | Err _ => None end in
  let! raw := peek_i16 0%nat in
  let? api_key := Some (map_err (λ _, Bail "Unknown API key") (ApiKey_try_from raw)) in
  let! version := peek_i16 2%nat in
  Some (decode (RequestHeader_codec (request_header_version api_key version)) buf).

(** ** The fixed prefix *)

Definition prefix_of (header : RequestHeader) : RequestPrefix := {|
  raw_api_key := RequestHeader_request_api_key header;
  api_version := RequestHeader_request_api_version header;
  correlation_id := RequestHeader_correlation_id header
|}.

(** The eight bytes a header starts with. *)
Lemma read_prefix_split frame :
  8 ≤ len frame →
  ∃ k v c rest, frame = k ++ v ++ c ++ rest ∧ length k = 2%nat ∧ length v = 2%nat ∧ length c = 4%nat ∧
    read_prefix (slice 0 8 frame) = Some (mkRequestPrefix (wrap_signed 16 (be_val k))
      (wrap_signed 16 (be_val v)) (wrap_signed 32 (be_val c))).
Proof.
  intros Hlen. unfold len in Hlen. do 8 (destruct frame as [|? frame]; [cbn in Hlen; lia|]).
  eexists [_; _], [_; _], [_; _; _; _], frame. split_and!; reflexivity.
Qed.

(** A header that is decoded agrees with the prefix that was read. *)
Lemma header_prefix version frame header rest :
  decode (RequestHeader_codec version) frame = Ok (header, rest) →
  8 ≤ len frame ∧ read_prefix (slice 0 8 frame) = Some (prefix_of header).
Proof.
  unfold RequestHeader_codec, message, decode at 1. destruct (_ || _); [done|].
  cbn [field_decode field_app build field decode Int16 Int32 simple_int].
  intros (g5 & b5 & H & Ht)%decoder_bind_inv. apply decoder_bind_inv in Ht as (tags & b6 & Ht & Hm6).
  apply decoder_bind_inv in H as (g4 & b4 & H & Hc). apply decoder_bind_inv in Hc as (client & ? & Hc & Hm5).
  apply decoder_bind_inv in H as (g3 & b3 & H & Hcorr). apply decoder_bind_inv in Hcorr as (corr & ? & Hcorr & Hm4).
  apply decoder_bind_inv in H as (g2 & b2 & H & Hv). apply decoder_bind_inv in Hv as (v & ? & Hv & Hm3).
  apply decoder_bind_inv in H as (g1 & b1 & H & Hk). apply decoder_bind_inv in Hk as (k & ? & Hk & Hm2).
  injection H as <- <-. injection Hm2 as <- <-. injection Hm3 as <- <-. injection Hm4 as <- <-.
  injection Hm5 as <- <-. injection Hm6 as <- <-.
  apply try_get_int_inv in Hk as (kb & -> & Hkl & ->).
  apply try_get_int_inv in Hv as (vb & -> & Hvl & ->).
  apply try_get_int_inv in Hcorr as (cb & -> & Hcl & ->).
  match goal with |- _ ≤ len ?f ∧ _ =>
    assert (8 ≤ len f) as Hlen by (unfold len; rewrite !length_app; lia) end.
  split; [done|]. destruct (read_prefix_split _ Hlen) as (k' & v' & c' & rest' & Heq & Hk' & Hv' & Hc' & ->).
  apply app_inj_1 in Heq as [-> Heq]; [|lia]. apply app_inj_1 in Heq as [-> Heq]; [|lia].
  apply app_inj_1 in Heq as [-> Heq]; [|lia]. done.
Qed.

(** A body that is decoded is of the kind its key names. *)
Lemma decode_map_inv {A B : Type} (d : decoder A) (f : A → B) buf b rest :
  (x ← d; mret (f x)) buf = Ok (b, rest) → ∃ a, b = f a.
Proof. intros (a & ? & _ & [= <- <-])%decoder_bind_inv. eauto. Qed.

Lemma body_key key version frame body rest :
  RequestKind_decode key version frame = Ok (body, rest) → RequestKind_key body = key.
Proof. destruct key; intros [? ->]%decode_map_inv; reflexivity. Qed.

Lemma try_from_Err v : ApiKey_try_from v = Err () ↔ ∀ key, ApiKey_code key ≠ v.
Proof.
  split.
  - intros Herr key <-. by rewrite try_from_code in Herr.
  - intros Hv. destruct (ApiKey_try_from v) as [key|[]] eqn:Hk; [|done].
    by apply try_from_Ok in Hk as ->; destruct (Hv key).
Qed.

(** ** What is decoded *)

(** The fields of the first eight bytes. *)
Definition prefix_at (frame : list byte) : RequestPrefix := {|
  raw_api_key := wrap_signed 16 (be_val (slice 0 2 frame));
  api_version := wrap_signed 16 (be_val (slice 2 4 frame));
  correlation_id := wrap_signed 32 (be_val (slice 4 8 frame))
|}.

Definition in_schema (key : ApiKey) (version : Z) : Prop :=
  (valid_versions key).1 ≤ version ≤ (valid_versions key).2.

Definition names_api (frame : list byte) (key : ApiKey) : Prop :=
  8 ≤ len frame ∧ raw_api_key (prefix_at frame) = ApiKey_code key.

(** What the decoder of the header makes of the frame. *)
Definition header_of (frame : list byte) (key : ApiKey) : result anyhow (RequestHeader * list byte) :=
  decode (RequestHeader_codec (request_header_version key (api_version (prefix_at frame)))) frame.

(** When a frame decodes to a request, and when to which error: the stages of a
    frame are its prefix, its key, its version, its header, its body and its end,
    and a frame is rejected for the first of them that is not in order. *)
Definition decoded_from (frame : list byte) (r : result RequestDecodeError DecodedFrame) : Prop :=
  let prefix := prefix_at frame in
  let version := api_version prefix in
  match r with
  | Ok (Request (mkDecodedRequest header key body)) =>
      names_api frame key ∧ in_schema key version ∧
      ∃ rest, header_of frame key = Ok (header, rest) ∧
        RequestKind_decode key version rest = Ok (body, [])
  | Ok (UnsupportedApiVersions header requested_version) =>
      names_api frame ApiKey_ApiVersions ∧ ¬ in_schema ApiKey_ApiVersions version ∧
      requested_version = version ∧ ∃ rest, header_of frame ApiKey_ApiVersions = Ok (header, rest)
  | Err TruncatedPrefix => len frame < 8
  | Err (UnknownApiKey p) => 8 ≤ len frame ∧ p = prefix ∧ ∀ key, raw_api_key prefix ≠ ApiKey_code key
  | Err (VersionOutOfSchema p key) =>
      names_api frame key ∧ p = prefix ∧ key ≠ ApiKey_ApiVersions ∧ ¬ in_schema key version
  | Err (Malformed p k stage source) => ∃ key,
      names_api frame key ∧ p = Some prefix ∧ k = Some key ∧
      match stage with
      | Header => (key = ApiKey_ApiVersions ∨ in_schema key version) ∧ header_of frame key = Err source
      | Body => in_schema key version ∧ ∃ header rest, header_of frame key = Ok (header, rest) ∧
          RequestKind_decode key version rest = Err source
      | TrailingBytes => in_schema key version ∧ ∃ header rest body extra,
          header_of frame key = Ok (header, rest) ∧
          RequestKind_decode key version rest = Ok (body, extra) ∧ extra ≠ [] ∧
          source = Bail "Kafka request has trailing bytes"
      end
  end.

Lemma read_prefix_at frame : 8 ≤ len frame → read_prefix (slice 0 8 frame) = Some (prefix_at frame).
Proof.
  intros Hlen. unfold len in Hlen. do 8 (destruct frame as [|? frame]; [cbn in Hlen; lia|]). reflexivity.
Qed.

Lemma out_of_schema_spec key version : out_of_schema key version = true ↔ ¬ in_schema key version.
Proof. unfold out_of_schema, in_schema. destruct (valid_versions key) as [min max]. cbn. lia. Qed.

Lemma in_schema_spec key version : out_of_schema key version = false ↔ in_schema key version.
Proof. unfold out_of_schema, in_schema. destruct (valid_versions key) as [min max]. cbn. lia. Qed.

(** The stages after the key, on a frame that names one. *)
Lemma decode_frame_named frame key :
  names_api frame key →
  let prefix := prefix_at frame in
  let version := api_version prefix in
  let malformed := Malformed (Some prefix) (Some key) in
  decode_frame frame =
    if negb (bool_decide (key = ApiKey_ApiVersions)) && out_of_schema key version
    then raise (VersionOutOfSchema prefix key)
    else match header_of frame key with
      | Err e => raise (malformed Header e)
      | Ok (header, rest) =>
          if bool_decide (key = ApiKey_ApiVersions) && out_of_schema key version
          then value_of (UnsupportedApiVersions header version)
          else match RequestKind_decode key version rest with
            | Err e => raise (malformed Body e)
            | Ok (body, extra) =>
                if negb (bool_decide (extra = []))
                then raise (malformed TrailingBytes (Bail "Kafka request has trailing bytes"))
                else value_of (Request (mkDecodedRequest header key body))
            end
      end.
Proof.
  intros [Hlen Hkey]. cbn zeta. unfold decode_frame. rewrite decide_False by lia.
  rewrite (read_prefix_at _ Hlen). cbn [panic_bind]. rewrite Hkey, try_from_code. cbn [map_err outcome_bind].
  destruct (negb _ && _); [done|]. unfold header_of.
  destruct (decode _ frame) as [[header rest]|e]; cbn [map_err outcome_bind]; [|done].
  destruct (bool_decide _ && _); [done|].
  by destruct (RequestKind_decode _ _ rest) as [[body extra]|e].
Qed.

Lemma names_api_dec frame :
  8 ≤ len frame → (∃ key, names_api frame key) ∨ ∀ key, raw_api_key (prefix_at frame) ≠ ApiKey_code key.
Proof.
  intros Hlen. destruct (ApiKey_try_from (raw_api_key (prefix_at frame))) as [key|[]] eqn:Hkey.
  - left. exists key. split; [done|]. by apply try_from_Ok in Hkey.
  - right. intros key Heq. by apply (proj1 (try_from_Err _) Hkey key).
Qed.

Lemma decode_frame_unnamed frame :
  8 ≤ len frame → (∀ key, raw_api_key (prefix_at frame) ≠ ApiKey_code key) →
  decode_frame frame = raise (UnknownApiKey (prefix_at frame)).
Proof.
  intros Hlen Hno. unfold decode_frame. rewrite decide_False, (read_prefix_at _ Hlen) by lia. cbn [panic_bind].
  rewrite (proj2 (try_from_Err _)); [done|]. intros key Heq. by apply (Hno key).
Qed.

Lemma decode_frame_cases (frame : list byte) :
  ∃ r, decode_frame frame = Some r ∧ decoded_from frame r.
Proof.
  destruct (decide (len frame < 8)) as [Hlen|Hlen%Z.nlt_ge].
  { exists (Err TruncatedPrefix). unfold decode_frame. by rewrite decide_True. }
  destruct (names_api_dec frame Hlen) as [[key Hkey]|Hno].
  2: { exists (Err (UnknownApiKey (prefix_at frame))). by rewrite decode_frame_unnamed. }
  rewrite (decode_frame_named _ _ Hkey). set (version := api_version _).
  destruct (negb _ && _) eqn:Hout.
  { apply andb_true_iff in Hout as [Hne%negb_true_iff%bool_decide_eq_false Hout%out_of_schema_spec].
    eexists. split; [done|]. by split_and!. }
  assert (key = ApiKey_ApiVersions ∨ in_schema key version) as Hin.
  { apply andb_false_iff in Hout as [?%negb_false_iff%bool_decide_eq_true|?%in_schema_spec]; auto. }
  destruct (header_of frame key) as [[header rest]|e] eqn:Hh; [|eexists; split; [done|]; by exists key].
  destruct (bool_decide _ && _) eqn:Hun.
  { apply andb_true_iff in Hun as [->%bool_decide_eq_true Hun%out_of_schema_spec].
    eexists. split; [done|]. split_and!; [done..|]. by exists rest. }
  assert (in_schema key version) as Hschema.
  { apply andb_false_iff in Hun as [?%bool_decide_eq_false|?%in_schema_spec]; [by destruct Hin|done]. }
  destruct (RequestKind_decode key version rest) as [[body extra]|e] eqn:Hb.
  2: { eexists. split; [done|]. exists key. split_and!; [done..|]. by exists header, rest. }
  destruct (bool_decide (extra = [])) eqn:Hend; [apply bool_decide_eq_true in Hend|apply bool_decide_eq_false in Hend];
    (eexists; split; [reflexivity|]).
  - rewrite Hend in Hb. split_and!; [done..|]. by exists rest.
  - exists key. split_and!; [done..|]. by exists header, rest, body, extra.
Qed.

Lemma names_api_inj frame key key' : names_api frame key → names_api frame key' → key = key'.
Proof. intros [_ H1] [_ H2]. apply (inj ApiKey_code). congruence. Qed.

(** The outcomes exclude each other. *)
Lemma decoded_from_unique frame r : decoded_from frame r → decode_frame frame = Some r.
Proof.
  destruct r as [[[header key body]|header version]|[|p|p key|p k stage source]]; cbn [decoded_from].
  - intros (Hkey & Hin & rest & Hh & Hb). rewrite (decode_frame_named _ _ Hkey).
    by rewrite (proj2 (in_schema_spec _ _) Hin), !andb_false_r, Hh, Hb.
  - intros (Hkey & Hout & -> & rest & Hh). rewrite (decode_frame_named _ _ Hkey).
    by rewrite (proj2 (out_of_schema_spec _ _) Hout), Hh.
  - intros Hlen. unfold decode_frame. by rewrite decide_True.
  - intros (Hlen & -> & Hno). by apply decode_frame_unnamed.
  - intros (Hkey & -> & Hne & Hout). rewrite (decode_frame_named _ _ Hkey).
    by rewrite bool_decide_false, (proj2 (out_of_schema_spec _ _) Hout).
  - intros (key & Hkey & -> & -> & Hstage). rewrite (decode_frame_named _ _ Hkey). destruct stage.
    + destruct Hstage as [[->|Hin] Hh]; [by rewrite Hh|].
      by rewrite (proj2 (in_schema_spec _ _) Hin), andb_false_r, Hh.
    + destruct Hstage as (Hin & header & rest & Hh & Hb).
      by rewrite (proj2 (in_schema_spec _ _) Hin), !andb_false_r, Hh, Hb.
    + destruct Hstage as (Hin & header & rest & body & extra & Hh & Hb & Hne & ->).
      rewrite (proj2 (in_schema_spec _ _) Hin), !andb_false_r, Hh, Hb. by destruct extra.
Qed.

(** A decoded header agrees with the prefix it starts with. *)
Lemma header_of_prefix frame key header rest :
  header_of frame key = Ok (header, rest) → prefix_of header = prefix_at frame.
Proof.
  intros (Hlen & Hp)%header_prefix. rewrite (read_prefix_at _ Hlen) in Hp. congruence.
Qed.

(** C13: decoding a request frame is total, exact and well typed.  [decode_frame]
    returns on every frame, and it returns a request exactly when the frame is a
    header followed by a body, to its last byte, both as the decoders of the API
    key and the version in the first eight bytes read them; only an [ApiVersions]
    request outside of its versions is returned for a version fallback.  Every
    other frame is rejected, with the error of the first stage that fails and the
    prefix and the key the frame has.  The header of a decoded request carries
    the fields of the first eight bytes, and its body is of the kind the key
    names. *)
Theorem decode_frame_typed (frame : list byte) :
  (∃ r, decode_frame frame = Some r) ∧
  (∀ r, decode_frame frame = Some r ↔ decoded_from frame r) ∧
  ∀ request, decode_frame frame = value_of (Request request) →
    prefix_of (dr_header request) = prefix_at frame ∧
    RequestHeader_request_api_key (dr_header request) = ApiKey_code (dr_api_key request) ∧
    RequestKind_key (dr_body request) = dr_api_key request.
Proof.
  destruct (decode_frame_cases frame) as (r & Hr & Hfrom). split_and!; [by eexists| |].
  - intros r'. split; [|apply decoded_from_unique]. intros Hr'. congruence.
  - intros [header key body] Hd. rewrite Hr in Hd. injection Hd as ->.
    destruct Hfrom as ([_ Hkey] & _ & rest & Hh & Hb). cbn [dr_header dr_api_key dr_body].
    pose proof (header_of_prefix _ _ _ _ Hh) as Hp. split_and!; [done| |by eapply body_key].
    by rewrite <- Hkey, <- Hp.
Qed.

(** ** Round trips *)

(** C14: what a client sends is what the broker decodes.  A request written with
    the header helper of the protocol crate and [RequestKind::encode], with the
    key of its body and a version of the key's schema, is decoded by
    [decode_frame] as the same header and the same body. *)
Theorem request_roundtrip (header : RequestHeader) (body : RequestKind) (bytes frame : list byte) :
  RequestHeader_request_api_key header = ApiKey_code (RequestKind_key body) →
  out_of_schema (RequestKind_key body) (RequestHeader_request_api_version header) = false →
  RequestHeader_valid (request_header_version (RequestKind_key body)
    (RequestHeader_request_api_version header)) header →
  RequestKind_valid (RequestHeader_request_api_version header) body →
  encode_request_header_into_buffer [] header = Ok bytes →
  RequestKind_encode body (RequestHeader_request_api_version header) bytes = Ok frame →
  decode_frame frame = value_of (Request (mkDecodedRequest header (RequestKind_key body) body)).
Proof.
  intros Hkey Hschema Hh Hb. unfold encode_request_header_into_buffer.
  rewrite Hkey, try_from_code. cbn [map_err mbind result_bind].
  intros (hb & -> & _ & Hhd)%(sound header Hh) (bb & -> & Hbd)%RequestKind_sound; [|done].
  cbn [app]. specialize (Hhd bb). destruct (header_prefix _ _ _ _ Hhd) as [Hlen Hp].
  unfold decode_frame. rewrite decide_False by lia. rewrite Hp. cbn [panic_bind raw_api_key prefix_of].
  rewrite Hkey, try_from_code. cbn [map_err outcome_bind api_version prefix_of].
  rewrite Hschema, !andb_false_r, Hhd. cbn [map_err outcome_bind].
  specialize (Hbd []). rewrite app_nil_r in Hbd. by rewrite Hbd.
Qed.

(** What the broker answers is what the client decodes.  The bytes of
    [encode_response] start with a response header of the version the key and
    the encoding version call for; it carries the correlation id of the request
    and is followed by exactly the response. *)
Theorem response_roundtrip (version correlation : Z) (body : ResponseKind) (bytes : list byte) :
  in_signed 32 correlation → ResponseKind_valid version body →
  encode_response (ResponseKind_key body) version correlation body = Ok bytes →
  ∃ rest,
    decode (ResponseHeader_codec (response_header_version (ResponseKind_key body) version)) bytes
      = Ok (mkResponseHeader correlation ∅, rest) ∧
    ResponseKind_decode (ResponseKind_key body) version rest = Ok (body, []).
Proof.
  intros Hc Hb. unfold encode_response. intros (mid & Hh & He)%result_bind_Ok.
  assert (ResponseHeader_valid (response_header_version (ResponseKind_key body) version)
    (mkResponseHeader correlation ∅)) as Hv.
  { split; [done|]. destruct (1 <=? _); [apply map_Forall_empty|done]. }
  destruct (sound _ Hv _ _ Hh) as (hb & -> & _ & Hhd).
  destruct (ResponseKind_sound _ _ _ _ Hb He) as (bb & -> & Hbd).
  exists bb. split; [apply Hhd|]. rewrite <- (app_nil_r bb). apply Hbd.
Qed.

(** ** Samples *)

Definition sample_header : RequestHeader := mkRequestHeader 1 12 77 (Some [Byte.x63]) (<[3 := [Byte.x01]]> ∅).
Definition sample_header_bytes : list byte := Eval vm_compute in
  match encode_request_header_into_buffer [] sample_header with Ok bytes => bytes | Err _ => [] end.

Lemma request_roundtrip_witness :
  decode_frame (sample_header_bytes ++ sample_fetch_bytes)
    = value_of (Request (mkDecodedRequest sample_header ApiKey_Fetch (RequestKind_Fetch sample_fetch))).
Proof.
  apply (request_roundtrip sample_header (RequestKind_Fetch sample_fetch) sample_header_bytes).
  - reflexivity.
  - reflexivity.
  - valid_now.
  - valid_now.
  - vm_compute. reflexivity.
  - vm_compute. reflexivity.
Defined.

End RequestCodec.
