(* ===== verification/Capabilities.v ===== *)
(** * The advertised APIs

    [src/src/kafka/capabilities.rs] and [src/src/kafka/api_versions.rs]: the table
    of the APIs the broker serves, the version window it serves of each, and the
    answer to [ApiVersions] that publishes the table. *)

From S2P Require Import Prelude Buf Types MessageCodec MessagesData MessagesGroups MessagesBuild.
From S2P Require Import ApiKeys.
Import ApiKeys.
Open Scope Z_scope.

Module Capabilities.

(* @ src/src/kafka/capabilities.rs 3-8 VersionWindow *)
Record VersionWindow : Type := mkVersionWindow { vw_min : Z; vw_max : Z }.

(* @ src/src/kafka/capabilities.rs 10-17 ApiCapability *)
Record ApiCapability : Type := mkApiCapability {
  api_key : ApiKey;
  name : string;
  supported : VersionWindow;
  kafka_4_3 : VersionWindow;
  proof_scenarios : list string
}.

(* @ src/src/kafka/capabilities.rs 19-23 ApiCapability::supports *)
Definition supports (self : ApiCapability) (version : Z) : bool :=
  (vw_min (supported self) <=? version) && (version <=? vw_max (supported self)).

Local Abbreviation window := mkVersionWindow.

(* @ src/src/kafka/capabilities.rs 25-210 CAPABILITIES *)
Definition CAPABILITIES : list ApiCapability := [
  mkApiCapability ApiKey_Produce "Produce" (window 7 7) (window 3 13)
    ["apache-kafka-java-4.3.1"; "confluent-kafka-2.15.0"; "confluent-kafka-flow-2.13.2";
     "franz-go-1.21.6"; "rskafka-0.6.0"];
  mkApiCapability ApiKey_Fetch "Fetch" (window 4 4) (window 4 18)
    ["apache-kafka-java-4.3.1"; "confluent-kafka-2.15.0"; "confluent-kafka-flow-2.13.2";
     "franz-go-1.21.6"; "kafbat-1.5.0"; "rskafka-0.6.0"];
  mkApiCapability ApiKey_ListOffsets "ListOffsets" (window 3 3) (window 1 11)
    ["apache-kafka-java-4.3.1"; "confluent-kafka-2.15.0"; "confluent-kafka-flow-2.13.2";
     "franz-go-1.21.6"; "kafbat-1.5.0"; "rskafka-0.6.0"];
  mkApiCapability ApiKey_Metadata "Metadata" (window 4 13) (window 0 13)
    ["apache-kafka-java-4.3.1"; "confluent-kafka-2.15.0"; "confluent-kafka-flow-2.13.2";
     "franz-go-1.21.6"; "kafbat-1.5.0"; "rskafka-0.6.0"];
  mkApiCapability ApiKey_OffsetCommit "OffsetCommit" (window 7 7) (window 2 10)
    ["confluent-kafka-2.15.0"];
  mkApiCapability ApiKey_OffsetFetch "OffsetFetch" (window 5 5) (window 1 10)
    ["confluent-kafka-2.15.0"; "confluent-kafka-flow-2.13.2"; "kafbat-1.5.0"];
  mkApiCapability ApiKey_FindCoordinator "FindCoordinator" (window 2 2) (window 0 6)
    ["confluent-kafka-2.15.0"; "confluent-kafka-flow-2.13.2"; "kafbat-1.5.0"];
  mkApiCapability ApiKey_JoinGroup "JoinGroup" (window 5 5) (window 0 9)
    ["confluent-kafka-2.15.0"; "confluent-kafka-flow-2.13.2"];
  mkApiCapability ApiKey_Heartbeat "Heartbeat" (window 3 3) (window 0 4)
    ["confluent-kafka-2.15.0"; "confluent-kafka-flow-2.13.2"];
  mkApiCapability ApiKey_LeaveGroup "LeaveGroup" (window 1 3) (window 0 5)
    ["confluent-kafka-2.15.0"; "confluent-kafka-flow-2.13.2"];
  mkApiCapability ApiKey_SyncGroup "SyncGroup" (window 3 3) (window 0 5)
    ["confluent-kafka-2.15.0"; "confluent-kafka-flow-2.13.2"];
  mkApiCapability ApiKey_DescribeGroups "DescribeGroups" (window 0 0) (window 0 6)
    ["kafbat-1.5.0"];
  mkApiCapability ApiKey_ListGroups "ListGroups" (window 0 0) (window 0 5)
    ["kafbat-1.5.0"];
  mkApiCapability ApiKey_ApiVersions "ApiVersions" (window 3 4) (window 0 4)
    ["apache-kafka-java-4.3.1"; "confluent-kafka-2.15.0"; "confluent-kafka-flow-2.13.2";
     "franz-go-1.21.6"; "kafbat-1.5.0"; "rskafka-0.6.0"];
  mkApiCapability ApiKey_CreateTopics "CreateTopics" (window 4 7) (window 2 7)
    ["apache-kafka-java-4.3.1"; "confluent-kafka-2.15.0"; "confluent-kafka-flow-2.13.2";
     "franz-go-1.21.6"; "rskafka-0.6.0"];
  mkApiCapability ApiKey_InitProducerId "InitProducerId" (window 0 0) (window 0 6)
    ["apache-kafka-java-4.3.1"; "confluent-kafka-2.15.0"; "confluent-kafka-flow-2.13.2"];
  mkApiCapability ApiKey_DescribeConfigs "DescribeConfigs" (window 1 1) (window 1 4)
    ["kafbat-1.5.0"];
  mkApiCapability ApiKey_DescribeCluster "DescribeCluster" (window 2 2) (window 0 2)
    ["apache-kafka-java-4.3.1"];
  mkApiCapability ApiKey_DescribeTopicPartitions "DescribeTopicPartitions" (window 0 0) (window 0 0)
    ["apache-kafka-java-4.3.1"]].

(** In a sorted list positions and elements are in the same order. *)
Lemma sorted_lookup {A : Type} (R : A → A → Prop) (l : list A) i j x y :
  StronglySorted R l → l !! i = Some x → l !! j = Some y → (i < j)%nat → R x y.
Proof.
  intros Hs. revert i j. induction Hs as [|z l _ IH Hz]; intros [|i] [|j] Hi Hj Hij; try (done || lia).
  - injection Hi as ->. cbn in Hj. exact (proj1 (Forall_forall _ _) Hz _ (list_elem_of_lookup_2 _ _ _ Hj)).
  - apply (IH i j); [done..|lia].
Qed.

(** The binary search of the standard library on a slice: [size] halves in
    every round, so the length of the slice is fuel enough. *)
Section search.
  Context {A : Type} (key : A → Z) (l : list A) (target : Z).

Fixpoint search_base (fuel base size : nat) : nat :=
  match fuel with
  | O => base
  | S fuel =>
      if decide (size ≤ 1)%nat then base
      else
        let half := (size / 2)%nat in
        let mid := (base + half)%nat in
        let base := match l !! mid with
                    | Some x => if decide (target < key x) then base else mid
                    | None => base
                    end in
        search_base fuel base (size - half)
  end.

Definition binary_search_by_key : option nat :=
  if decide (length l = 0)%nat then None
  else
    let base := search_base (length l) 0 (length l) in
    x ← l !! base; if decide (key x = target) then Some base else None.

(** ** The search *)

(** An element with the target key is not before [base] and is before
    [base + size], as long as it was so at the start. *)
Lemma search_base_sorted i x :
  StronglySorted (λ a b, key a < key b) l → l !! i = Some x → key x = target →
  ∀ fuel base size, (size ≤ fuel)%nat → (base ≤ i < base + size)%nat →
  (base + size ≤ length l)%nat → search_base fuel base size = i.
Proof.
  intros Hs Hi Hx fuel. induction fuel as [|fuel IH]; intros base size Hf Hb Hl; [lia|].
  cbn [search_base]. case_decide as H1; [lia|].
  set (half := (size / 2)%nat). assert (0 < half ∧ half * 2 ≤ size)%nat as [Hh0 Hh].
  { unfold half. split; [apply Nat.div_str_pos; lia|]. pose proof (Nat.Div0.mul_div_le size 2). lia. }
  destruct (lookup_lt_is_Some_2 l (base + half)) as [y Hy]; [lia|]. rewrite Hy.
  destruct (decide (i < base + half)%nat) as [Hlt|Hge].
  - rewrite decide_True; [apply IH; lia|]. rewrite <- Hx.
    by apply (sorted_lookup _ _ _ _ _ _ Hs Hi Hy).
  - rewrite decide_False; [apply IH; lia|]. rewrite <- Hx.
    destruct (decide (i = base + half)%nat) as [->|Hne]; [simplify_eq; lia|].
    enough (key y < key x) by lia.
    apply (sorted_lookup _ _ _ _ _ _ Hs Hy Hi). lia.
Qed.

Lemma binary_search_Some i :
  binary_search_by_key = Some i → ∃ x, l !! i = Some x ∧ key x = target.
Proof.
  unfold binary_search_by_key. case_decide; [done|].
  intros (x & Hx & Hi)%bind_Some. case_decide; simplify_eq. eauto.
Qed.

(** On a sorted slice the search finds the element, when there is one. *)
Lemma binary_search_found i x :
  StronglySorted (λ a b, key a < key b) l → l !! i = Some x → key x = target →
  binary_search_by_key = Some i.
Proof.
  intros Hs Hi Hx. pose proof (lookup_lt_Some _ _ _ Hi). unfold binary_search_by_key.
  rewrite decide_False, (search_base_sorted i x Hs Hi Hx) by lia. rewrite Hi. cbn. by rewrite decide_True.
Qed.

End search.

(* @ src/src/kafka/capabilities.rs 212-217 capability *)
Definition capability (key : ApiKey) : option ApiCapability :=
  i ← binary_search_by_key (λ c, ApiKey_code (api_key c)) CAPABILITIES (ApiKey_code key);
  CAPABILITIES !! i.

(* @ src/src/kafka/api_versions.rs 5-17 response *)
Definition response : ApiVersionsResponse :=
  ApiVersionsResponse_default ▷ ApiVersionsResponse_with_api_keys (map (λ c,
    ApiVersion_default
      ▷ ApiVersion_with_api_key (ApiKey_code (api_key c))
      ▷ ApiVersion_with_min_version (vw_min (supported c))
      ▷ ApiVersion_with_max_version (vw_max (supported c))) CAPABILITIES).

(** ** The table *)

Lemma CAPABILITIES_sorted :
  StronglySorted (λ a b, ApiKey_code (api_key a) < ApiKey_code (api_key b)) CAPABILITIES.
Proof. unfold CAPABILITIES. repeat constructor. Qed.

Lemma capability_Some key c : capability key = Some c ↔ c ∈ CAPABILITIES ∧ api_key c = key.
Proof.
  unfold capability. split.
  - intros (i & (x & Hx & Hkey)%binary_search_Some & Hc)%bind_Some. simplify_eq.
    split; [by eapply list_elem_of_lookup_2|by apply (inj ApiKey_code)].
  - intros [[i Hi]%list_elem_of_lookup <-].
    by rewrite (binary_search_found _ _ _ i c CAPABILITIES_sorted Hi).
Qed.

(** Windows are not empty, and inside those of Kafka 4.3 and of the messages. *)
Lemma windows_nested :
  Forall (λ c, vw_min (supported c) ≤ vw_max (supported c) ∧
    vw_min (kafka_4_3 c) ≤ vw_min (supported c) ∧ vw_max (supported c) ≤ vw_max (kafka_4_3 c) ∧
    (valid_versions (api_key c)).1 ≤ vw_min (supported c) ∧
    vw_max (supported c) ≤ (valid_versions (api_key c)).2) CAPABILITIES.
Proof. repeat (constructor; [cbn; lia|]). constructor. Qed.

Lemma supported_in_schema key c version :
  capability key = Some c → supports c version = true →
  (valid_versions key).1 ≤ version ≤ (valid_versions key).2.
Proof.
  intros [Hc <-]%capability_Some. unfold supports.
  intros [?%Z.leb_le ?%Z.leb_le]%andb_true_iff.
  destruct (proj1 (Forall_forall _ _) windows_nested c Hc) as (_ & _ & _ & ? & ?). lia.
Qed.

Lemma advertised_entry version_entry :
  version_entry ∈ ApiVersionsResponse_api_keys response ↔
  ∃ c, c ∈ CAPABILITIES ∧ version_entry = mkApiVersion (ApiKey_code (api_key c))
    (vw_min (supported c)) (vw_max (supported c)) ∅.
Proof.
  change (ApiVersionsResponse_api_keys response) with (map (λ c, mkApiVersion (ApiKey_code (api_key c))
    (vw_min (supported c)) (vw_max (supported c)) ∅) CAPABILITIES).
  rewrite list_elem_of_fmap. naive_solver.
Qed.

(** C40: what the broker advertises is what it serves.  For every API key and
    version, [capability] (a binary search in the table) finds a capability that
    supports the version exactly when the [ApiVersions] answer has an entry of
    that key whose window contains the version; such a version is one that the
    message schema of the key has, so that requests of it can be decoded. *)
Theorem advertised_iff_supported (key : ApiKey) (version : Z) :
  ((∃ c, capability key = Some c ∧ supports c version = true) ↔
   (∃ a, a ∈ ApiVersionsResponse_api_keys response ∧ ApiVersion_api_key a = ApiKey_code key ∧
     ApiVersion_min_version a ≤ version ≤ ApiVersion_max_version a)) ∧
  (∀ c, capability key = Some c → supports c version = true →
    (valid_versions key).1 ≤ version ≤ (valid_versions key).2).
Proof.
  split; [|intros c; apply supported_in_schema]. unfold supports. split.
  - intros (c & [Hc <-]%capability_Some & [?%Z.leb_le ?%Z.leb_le]%andb_true_iff).
    eexists. rewrite advertised_entry. split; [by exists c|done].
  - intros (a & (c & Hc & ->)%advertised_entry & Hkey%(inj ApiKey_code) & Hv).
    cbn in Hv. exists c. rewrite capability_Some, andb_true_iff, !Z.leb_le. done.
Qed.

End Capabilities.
