(* ===== verification/ErrorResponse.v ===== *)
(** * Answers to versions that are not served

    [src/src/kafka/error_response.rs]: a request of an API the broker advertises,
    in a version it does not serve, is answered in the client's version with the
    [UnsupportedVersion] code at the places where that version of the response
    has room for it. *)

From S2P Require Import Prelude Buf Types Errors MessageCodec MessagesData MessagesGroups MessagesTxn MessagesBuild.
From S2P Require Import ApiKeys RequestCodec.
Import ApiKeys RequestCodec.
Open Scope Z_scope.

Module ErrorResponse.

(* @ src/src/kafka/error_response.rs 35-55 ERROR_RESPONSE_API_KEYS *)
Definition ERROR_RESPONSE_API_KEYS : list ApiKey := [
  ApiKey_Produce;
  ApiKey_Fetch;
  ApiKey_ListOffsets;
  ApiKey_Metadata;
  ApiKey_OffsetCommit;
  ApiKey_OffsetFetch;
  ApiKey_FindCoordinator;
  ApiKey_JoinGroup;
  ApiKey_Heartbeat;
  ApiKey_LeaveGroup;
  ApiKey_SyncGroup;
  ApiKey_DescribeGroups;
  ApiKey_ListGroups;
  ApiKey_ApiVersions;
  ApiKey_CreateTopics;
  ApiKey_InitProducerId;
  ApiKey_DescribeConfigs;
  ApiKey_DescribeCluster;
  ApiKey_DescribeTopicPartitions].

(* @ src/src/kafka/error_response.rs 57-57 UNSUPPORTED_VERSION_MESSAGE *)
Definition UNSUPPORTED_VERSION_MESSAGE : list byte :=
  String.list_byte_of_string "The version of API is not supported.".

(* @ src/src/kafka/error_response.rs 126-129 ErrorResponseError *)
Inductive ErrorResponseError : Type := BodyMismatch (api_key : ApiKey).

(* @ src/src/kafka/error_response.rs 144-146 unsupported_code *)
Definition unsupported_code : Z := Errors.code Errors.UnsupportedVersion.

(* @ src/src/kafka/error_response.rs 148-152 unsupported_describe_cluster *)
Definition unsupported_describe_cluster : DescribeClusterResponse :=
  DescribeClusterResponse_default
    ▷ DescribeClusterResponse_with_error_code unsupported_code
    ▷ DescribeClusterResponse_with_error_message (Some UNSUPPORTED_VERSION_MESSAGE).

(* @ src/src/kafka/error_response.rs 154-171 unsupported_describe_topic_partitions *)
Definition unsupported_describe_topic_partitions (request : DescribeTopicPartitionsRequest) : DescribeTopicPartitionsResponse :=
  DescribeTopicPartitionsResponse_default
    ▷ DescribeTopicPartitionsResponse_with_topics (map (λ topic,
        DescribeTopicPartitionsResponseTopic_default
          ▷ DescribeTopicPartitionsResponseTopic_with_error_code unsupported_code
          ▷ DescribeTopicPartitionsResponseTopic_with_name (Some (DescribeTopicPartitionsRequest_TopicRequest_name topic))
          ▷ DescribeTopicPartitionsResponseTopic_with_topic_id 0
          ▷ DescribeTopicPartitionsResponseTopic_with_is_internal false
          ▷ DescribeTopicPartitionsResponseTopic_with_partitions [])
          (DescribeTopicPartitionsRequest_topics request)).

(* @ src/src/kafka/error_response.rs 173-209 unsupported_produce *)
Definition unsupported_produce (request : ProduceRequest) (version : Z) : ProduceResponse :=
  ProduceResponse_default
    ▷ ProduceResponse_with_responses (map (λ topic,
        TopicProduceResponse_default
          ▷ TopicProduceResponse_with_name (TopicProduceData_name topic)
          ▷ TopicProduceResponse_with_topic_id (TopicProduceData_topic_id topic)
          ▷ TopicProduceResponse_with_partition_responses (map (λ partition,
              PartitionProduceResponse_default
                ▷ PartitionProduceResponse_with_index (PartitionProduceData_index partition)
                ▷ PartitionProduceResponse_with_error_code unsupported_code
                ▷ PartitionProduceResponse_with_base_offset (-1)
                ▷ PartitionProduceResponse_with_log_append_time_ms (-1)
                ▷ PartitionProduceResponse_with_log_start_offset (-1)
                ▷ PartitionProduceResponse_with_record_errors []
                ▷ PartitionProduceResponse_with_error_message (if 8 <=? version then Some UNSUPPORTED_VERSION_MESSAGE else None))
                (TopicProduceData_partition_data topic)))
          (ProduceRequest_topic_data request))
    ▷ ProduceResponse_with_throttle_time_ms 0
    ▷ ProduceResponse_with_node_endpoints [].

(* @ src/src/kafka/error_response.rs 211-244 unsupported_fetch *)
Definition unsupported_fetch (request : FetchRequest) : FetchResponse :=
  FetchResponse_default
    ▷ FetchResponse_with_throttle_time_ms 0
    ▷ FetchResponse_with_error_code unsupported_code
    ▷ FetchResponse_with_session_id 0
    ▷ FetchResponse_with_responses (map (λ topic,
        FetchableTopicResponse_default
          ▷ FetchableTopicResponse_with_topic (FetchRequest_FetchTopic_topic topic)
          ▷ FetchableTopicResponse_with_topic_id (FetchRequest_FetchTopic_topic_id topic)
          ▷ FetchableTopicResponse_with_partitions (map (λ partition,
              FetchResponse_PartitionData_default
                ▷ FetchResponse_PartitionData_with_partition_index (FetchRequest_FetchPartition_partition partition)
                ▷ FetchResponse_PartitionData_with_error_code unsupported_code
                ▷ FetchResponse_PartitionData_with_high_watermark (-1)
                ▷ FetchResponse_PartitionData_with_last_stable_offset (-1)
                ▷ FetchResponse_PartitionData_with_log_start_offset (-1)
                ▷ FetchResponse_PartitionData_with_aborted_transactions (Some [])
                ▷ FetchResponse_PartitionData_with_records (Some []))
                (FetchRequest_FetchTopic_partitions topic)))
          (FetchRequest_topics request))
    ▷ FetchResponse_with_node_endpoints [].

(* @ src/src/kafka/error_response.rs 246-275 unsupported_list_offsets *)
Definition unsupported_list_offsets (request : ListOffsetsRequest) : ListOffsetsResponse :=
  ListOffsetsResponse_default
    ▷ ListOffsetsResponse_with_throttle_time_ms 0
    ▷ ListOffsetsResponse_with_topics (map (λ topic,
        ListOffsetsTopicResponse_default
          ▷ ListOffsetsTopicResponse_with_name (ListOffsetsTopic_name topic)
          ▷ ListOffsetsTopicResponse_with_partitions (map (λ partition,
              ListOffsetsPartitionResponse_default
                ▷ ListOffsetsPartitionResponse_with_partition_index (ListOffsetsPartition_partition_index partition)
                ▷ ListOffsetsPartitionResponse_with_error_code unsupported_code
                ▷ ListOffsetsPartitionResponse_with_timestamp (-1)
                ▷ ListOffsetsPartitionResponse_with_offset (-1)
                ▷ ListOffsetsPartitionResponse_with_leader_epoch (-1))
                (ListOffsetsTopic_partitions topic)))
          (ListOffsetsRequest_topics request)).

(* @ src/src/kafka/error_response.rs 277-300 unsupported_metadata *)
Definition unsupported_metadata (request : MetadataRequest) : MetadataResponse :=
  MetadataResponse_default
    ▷ MetadataResponse_with_throttle_time_ms 0
    ▷ MetadataResponse_with_brokers []
    ▷ MetadataResponse_with_cluster_id None
    ▷ MetadataResponse_with_controller_id (-1)
    ▷ MetadataResponse_with_topics (map (λ topic,
        MetadataResponseTopic_default
          ▷ MetadataResponseTopic_with_error_code unsupported_code
          ▷ MetadataResponseTopic_with_name (MetadataRequestTopic_name topic)
          ▷ MetadataResponseTopic_with_topic_id (MetadataRequestTopic_topic_id topic)
          ▷ MetadataResponseTopic_with_is_internal false
          ▷ MetadataResponseTopic_with_partitions [])
          (default [] (MetadataRequest_topics request)))
    ▷ MetadataResponse_with_error_code unsupported_code.

(* @ src/src/kafka/error_response.rs 302-329 unsupported_offset_commit *)
Definition unsupported_offset_commit (request : OffsetCommitRequest) : OffsetCommitResponse :=
  OffsetCommitResponse_default
    ▷ OffsetCommitResponse_with_throttle_time_ms 0
    ▷ OffsetCommitResponse_with_topics (map (λ topic,
        OffsetCommitResponseTopic_default
          ▷ OffsetCommitResponseTopic_with_name (OffsetCommitRequestTopic_name topic)
          ▷ OffsetCommitResponseTopic_with_topic_id (OffsetCommitRequestTopic_topic_id topic)
          ▷ OffsetCommitResponseTopic_with_partitions (map (λ partition,
              OffsetCommitResponsePartition_default
                ▷ OffsetCommitResponsePartition_with_partition_index (OffsetCommitRequestPartition_partition_index partition)
                ▷ OffsetCommitResponsePartition_with_error_code unsupported_code)
                (OffsetCommitRequestTopic_partitions topic)))
          (OffsetCommitRequest_topics request)).

(* @ src/src/kafka/error_response.rs 331-417 unsupported_offset_fetch *)
Definition unsupported_offset_fetch (request : OffsetFetchRequest) (version : Z) : OffsetFetchResponse :=
  if version <? 2 then
    OffsetFetchResponse_default
      ▷ OffsetFetchResponse_with_throttle_time_ms 0
      ▷ OffsetFetchResponse_with_topics (map (λ topic,
          OffsetFetchResponseTopic_default
            ▷ OffsetFetchResponseTopic_with_name (OffsetFetchRequestTopic_name topic)
            ▷ OffsetFetchResponseTopic_with_partitions (map (λ partition_index,
                OffsetFetchResponsePartition_default
                  ▷ OffsetFetchResponsePartition_with_partition_index partition_index
                  ▷ OffsetFetchResponsePartition_with_committed_offset (-1)
                  ▷ OffsetFetchResponsePartition_with_committed_leader_epoch (-1)
                  ▷ OffsetFetchResponsePartition_with_metadata None
                  ▷ OffsetFetchResponsePartition_with_error_code unsupported_code)
                  (OffsetFetchRequestTopic_partition_indexes topic)))
            (default [] (OffsetFetchRequest_topics request)))
      ▷ OffsetFetchResponse_with_error_code 0
      ▷ OffsetFetchResponse_with_groups []
  else if version <=? 7 then
    OffsetFetchResponse_default
      ▷ OffsetFetchResponse_with_throttle_time_ms 0
      ▷ OffsetFetchResponse_with_topics []
      ▷ OffsetFetchResponse_with_error_code unsupported_code
      ▷ OffsetFetchResponse_with_groups []
  else
    OffsetFetchResponse_default
      ▷ OffsetFetchResponse_with_throttle_time_ms 0
      ▷ OffsetFetchResponse_with_topics []
      ▷ OffsetFetchResponse_with_groups (map (λ group,
          OffsetFetchResponseGroup_default
            ▷ OffsetFetchResponseGroup_with_group_id (OffsetFetchRequestGroup_group_id group)
            ▷ OffsetFetchResponseGroup_with_topics (map (λ topic,
                OffsetFetchResponseTopics_default
                  ▷ OffsetFetchResponseTopics_with_name (OffsetFetchRequestTopics_name topic)
                  ▷ OffsetFetchResponseTopics_with_topic_id (OffsetFetchRequestTopics_topic_id topic)
                  ▷ OffsetFetchResponseTopics_with_partitions (map (λ partition_index,
                      OffsetFetchResponsePartitions_default
                        ▷ OffsetFetchResponsePartitions_with_partition_index partition_index
                        ▷ OffsetFetchResponsePartitions_with_committed_offset (-1)
                        ▷ OffsetFetchResponsePartitions_with_committed_leader_epoch (-1)
                        ▷ OffsetFetchResponsePartitions_with_metadata None
                        ▷ OffsetFetchResponsePartitions_with_error_code unsupported_code)
                        (OffsetFetchRequestTopics_partition_indexes topic)))
                  (default [] (OffsetFetchRequestGroup_topics group)))
            ▷ OffsetFetchResponseGroup_with_error_code unsupported_code)
            (OffsetFetchRequest_groups request)).

(* @ src/src/kafka/error_response.rs 419-457 unsupported_find_coordinator *)
Definition unsupported_find_coordinator (request : FindCoordinatorRequest) (version : Z) : FindCoordinatorResponse :=
  if version <=? 3 then
    FindCoordinatorResponse_default
      ▷ FindCoordinatorResponse_with_throttle_time_ms 0
      ▷ FindCoordinatorResponse_with_error_code unsupported_code
      ▷ FindCoordinatorResponse_with_error_message (Some (if version =? 0 then [] else UNSUPPORTED_VERSION_MESSAGE))
      ▷ FindCoordinatorResponse_with_node_id (-1)
      ▷ FindCoordinatorResponse_with_host []
      ▷ FindCoordinatorResponse_with_port (-1)
      ▷ FindCoordinatorResponse_with_coordinators []
  else
    FindCoordinatorResponse_default
      ▷ FindCoordinatorResponse_with_throttle_time_ms 0
      ▷ FindCoordinatorResponse_with_coordinators (map (λ key,
          Coordinator_default
            ▷ Coordinator_with_key key
            ▷ Coordinator_with_node_id (-1)
            ▷ Coordinator_with_host []
            ▷ Coordinator_with_port (-1)
            ▷ Coordinator_with_error_code unsupported_code
            ▷ Coordinator_with_error_message (Some UNSUPPORTED_VERSION_MESSAGE))
            (FindCoordinatorRequest_coordinator_keys request)).

(* @ src/src/kafka/error_response.rs 459-470 unsupported_join_group *)
Definition unsupported_join_group : JoinGroupResponse :=
  JoinGroupResponse_default
    ▷ JoinGroupResponse_with_throttle_time_ms 0
    ▷ JoinGroupResponse_with_error_code unsupported_code
    ▷ JoinGroupResponse_with_generation_id (-1)
    ▷ JoinGroupResponse_with_protocol_type None
    ▷ JoinGroupResponse_with_protocol_name (Some [])
    ▷ JoinGroupResponse_with_leader []
    ▷ JoinGroupResponse_with_skip_assignment false
    ▷ JoinGroupResponse_with_member_id []
    ▷ JoinGroupResponse_with_members [].

(* @ src/src/kafka/error_response.rs 472-476 unsupported_heartbeat *)
Definition unsupported_heartbeat : HeartbeatResponse :=
  HeartbeatResponse_default
    ▷ HeartbeatResponse_with_throttle_time_ms 0
    ▷ HeartbeatResponse_with_error_code unsupported_code.

(* @ src/src/kafka/error_response.rs 478-483 unsupported_leave_group *)
Definition unsupported_leave_group : LeaveGroupResponse :=
  LeaveGroupResponse_default
    ▷ LeaveGroupResponse_with_throttle_time_ms 0
    ▷ LeaveGroupResponse_with_error_code unsupported_code
    ▷ LeaveGroupResponse_with_members [].

(* @ src/src/kafka/error_response.rs 485-492 unsupported_sync_group *)
Definition unsupported_sync_group : SyncGroupResponse :=
  SyncGroupResponse_default
    ▷ SyncGroupResponse_with_throttle_time_ms 0
    ▷ SyncGroupResponse_with_error_code unsupported_code
    ▷ SyncGroupResponse_with_protocol_type None
    ▷ SyncGroupResponse_with_protocol_name None
    ▷ SyncGroupResponse_with_assignment [].

(* @ src/src/kafka/error_response.rs 494-515 unsupported_describe_groups *)
Definition unsupported_describe_groups (request : DescribeGroupsRequest) : DescribeGroupsResponse :=
  DescribeGroupsResponse_default
    ▷ DescribeGroupsResponse_with_throttle_time_ms 0
    ▷ DescribeGroupsResponse_with_groups (map (λ group_id,
        DescribeGroupsResponse_DescribedGroup_default
          ▷ DescribeGroupsResponse_DescribedGroup_with_error_code unsupported_code
          ▷ DescribeGroupsResponse_DescribedGroup_with_error_message None
          ▷ DescribeGroupsResponse_DescribedGroup_with_group_id group_id
          ▷ DescribeGroupsResponse_DescribedGroup_with_group_state []
          ▷ DescribeGroupsResponse_DescribedGroup_with_protocol_type []
          ▷ DescribeGroupsResponse_DescribedGroup_with_protocol_data []
          ▷ DescribeGroupsResponse_DescribedGroup_with_members [])
          (DescribeGroupsRequest_groups request)).

(* @ src/src/kafka/error_response.rs 517-522 unsupported_list_groups *)
Definition unsupported_list_groups : ListGroupsResponse :=
  ListGroupsResponse_default
    ▷ ListGroupsResponse_with_throttle_time_ms 0
    ▷ ListGroupsResponse_with_error_code unsupported_code
    ▷ ListGroupsResponse_with_groups [].

(* @ src/src/kafka/error_response.rs 524-547 unsupported_create_topics *)
Definition unsupported_create_topics (request : CreateTopicsRequest) : CreateTopicsResponse :=
  CreateTopicsResponse_default
    ▷ CreateTopicsResponse_with_throttle_time_ms 0
    ▷ CreateTopicsResponse_with_topics (map (λ topic,
        CreatableTopicResult_default
          ▷ CreatableTopicResult_with_name (CreatableTopic_name topic)
          ▷ CreatableTopicResult_with_error_code unsupported_code
          ▷ CreatableTopicResult_with_error_message (Some UNSUPPORTED_VERSION_MESSAGE)
          ▷ CreatableTopicResult_with_topic_config_error_code 0
          ▷ CreatableTopicResult_with_num_partitions (-1)
          ▷ CreatableTopicResult_with_replication_factor (-1)
          ▷ CreatableTopicResult_with_configs (Some []))
          (CreateTopicsRequest_topics request)).

(* @ src/src/kafka/error_response.rs 549-557 unsupported_init_producer_id *)
Definition unsupported_init_producer_id : InitProducerIdResponse :=
  InitProducerIdResponse_default
    ▷ InitProducerIdResponse_with_throttle_time_ms 0
    ▷ InitProducerIdResponse_with_error_code unsupported_code
    ▷ InitProducerIdResponse_with_producer_id (-1)
    ▷ InitProducerIdResponse_with_producer_epoch (-1)
    ▷ InitProducerIdResponse_with_ongoing_txn_producer_id (-1)
    ▷ InitProducerIdResponse_with_ongoing_txn_producer_epoch (-1).

(* @ src/src/kafka/error_response.rs 559-580 unsupported_describe_configs *)
Definition unsupported_describe_configs (request : DescribeConfigsRequest) : DescribeConfigsResponse :=
  DescribeConfigsResponse_default
    ▷ DescribeConfigsResponse_with_throttle_time_ms 0
    ▷ DescribeConfigsResponse_with_results (map (λ resource,
        DescribeConfigsResult_default
          ▷ DescribeConfigsResult_with_error_code unsupported_code
          ▷ DescribeConfigsResult_with_error_message (Some UNSUPPORTED_VERSION_MESSAGE)
          ▷ DescribeConfigsResult_with_resource_type (DescribeConfigsResource_resource_type resource)
          ▷ DescribeConfigsResult_with_resource_name (DescribeConfigsResource_resource_name resource)
          ▷ DescribeConfigsResult_with_configs [])
          (DescribeConfigsRequest_resources request)).

(* @ src/src/kafka/error_response.rs 109-124 unsupported_api_versions, before into() *)
Definition unsupported_api_versions_body : ApiVersionsResponse :=
  ApiVersionsResponse_default
    ▷ ApiVersionsResponse_with_error_code unsupported_code
    ▷ ApiVersionsResponse_with_api_keys [
        ApiVersion_default
          ▷ ApiVersion_with_api_key (ApiKey_code ApiKey_ApiVersions)
          ▷ ApiVersion_with_min_version 0
          ▷ ApiVersion_with_max_version 4]
    ▷ ApiVersionsResponse_with_throttle_time_ms 0
    ▷ ApiVersionsResponse_with_supported_features []
    ▷ ApiVersionsResponse_with_finalized_features_epoch (-1)
    ▷ ApiVersionsResponse_with_finalized_features []
    ▷ ApiVersionsResponse_with_zk_migration_ready false.

(* @ src/src/kafka/error_response.rs 109-124 unsupported_api_versions *)
Definition unsupported_api_versions : ResponseKind := ResponseKind_ApiVersions unsupported_api_versions_body.

(* @ src/src/kafka/error_response.rs 59-107 unsupported_version *)
Definition unsupported_version (request : DecodedRequest) : result ErrorResponseError ResponseKind :=
  let version := RequestHeader_request_api_version (dr_header request) in
  match dr_api_key request, dr_body request with
  | ApiKey_Produce, RequestKind_Produce body => Ok (ResponseKind_Produce (unsupported_produce body version))
  | ApiKey_Fetch, RequestKind_Fetch body => Ok (ResponseKind_Fetch (unsupported_fetch body))
  | ApiKey_ListOffsets, RequestKind_ListOffsets body => Ok (ResponseKind_ListOffsets (unsupported_list_offsets body))
  | ApiKey_Metadata, RequestKind_Metadata body => Ok (ResponseKind_Metadata (unsupported_metadata body))
  | ApiKey_OffsetCommit, RequestKind_OffsetCommit body => Ok (ResponseKind_OffsetCommit (unsupported_offset_commit body))
  | ApiKey_OffsetFetch, RequestKind_OffsetFetch body => Ok (ResponseKind_OffsetFetch (unsupported_offset_fetch body version))
  | ApiKey_FindCoordinator, RequestKind_FindCoordinator body => Ok (ResponseKind_FindCoordinator (unsupported_find_coordinator body version))
  | ApiKey_JoinGroup, RequestKind_JoinGroup _ => Ok (ResponseKind_JoinGroup unsupported_join_group)
  | ApiKey_Heartbeat, RequestKind_Heartbeat _ => Ok (ResponseKind_Heartbeat unsupported_heartbeat)
  | ApiKey_LeaveGroup, RequestKind_LeaveGroup _ => Ok (ResponseKind_LeaveGroup unsupported_leave_group)
  | ApiKey_SyncGroup, RequestKind_SyncGroup _ => Ok (ResponseKind_SyncGroup unsupported_sync_group)
  | ApiKey_DescribeGroups, RequestKind_DescribeGroups body => Ok (ResponseKind_DescribeGroups (unsupported_describe_groups body))
  | ApiKey_ListGroups, RequestKind_ListGroups _ => Ok (ResponseKind_ListGroups unsupported_list_groups)
  | ApiKey_ApiVersions, RequestKind_ApiVersions _ => Ok unsupported_api_versions
  | ApiKey_CreateTopics, RequestKind_CreateTopics body => Ok (ResponseKind_CreateTopics (unsupported_create_topics body))
  | ApiKey_InitProducerId, RequestKind_InitProducerId _ => Ok (ResponseKind_InitProducerId unsupported_init_producer_id)
  | ApiKey_DescribeConfigs, RequestKind_DescribeConfigs body => Ok (ResponseKind_DescribeConfigs (unsupported_describe_configs body))
  | ApiKey_DescribeCluster, RequestKind_DescribeCluster _ => Ok (ResponseKind_DescribeCluster unsupported_describe_cluster)
  | ApiKey_DescribeTopicPartitions, RequestKind_DescribeTopicPartitions body => Ok (ResponseKind_DescribeTopicPartitions (unsupported_describe_topic_partitions body))
  | _, _ => Err (BodyMismatch (dr_api_key request))
  end.

End ErrorResponse.
