(* ===== verification/ErrorResponseCorrect.v ===== *)
(** * The error answers can be sent

    For every API of [ErrorResponse], in every version of its schema: the answer
    to a decoded request can be encoded in the version of the request. *)

From S2P Require Import Prelude Buf Types Errors MessageCodec MessagesData MessagesGroups MessagesTxn MessagesBuild.
From S2P Require Import ApiKeys RequestCodec Encodability ErrorResponse.
Import ApiKeys RequestCodec ErrorResponse.
Open Scope Z_scope.

Module ErrorResponseCorrect.

(** ** Automation

    [decoded_fields H] takes a decoded message apart into its fields;
    [encodes_now] shows that a message can be written, field by field. *)

Ltac reduce_versions :=
  cbv beta iota delta [Z.leb Z.ltb Z.eqb Z.compare Pos.compare Pos.compare_cont Pos.eqb andb orb] in *.

Ltac decoded_fields H :=
  lazymatch type of H with
  | Decoded (field_decode (_ ⊛ _)) _ =>
      let g := fresh "g" in let v := fresh "v" in let Hv := fresh "Hv" in
      apply decoded_app in H as (g & v & H & Hv & ->); decoded_fields H
  | Decoded (field_decode (build _)) _ =>
      apply decoded_ret in H as <-
  end.

Ltac simplify_decoded :=
  repeat match goal with
  | H : Decoded (field_decode (field _ ?c)) ?v |- _ => change (Decoded (decode c) v) in H
  | H : Decoded (field_decode (unset _ _ _)) _ |- _ => apply decoded_ret in H as <-
  | H : Decoded (field_decode (ignored _)) _ |- _ => apply decoded_ret in H as <-
  | H : Decoded (field_decode (unknown_tags _ _)) _ |- _ => clear H
  | H : Decoded (field_decode (tag_section _ _ _ _ _)) _ |- _ => clear H
  | p : _ * _ |- _ => destruct p
  end.

(** The request of [H] is taken apart; the requests without fields of interest
    and the elements that are no structures are left alone. *)
Ltac take_apart H :=
  lazymatch type of H with
  | Decoded (decode (Struct ?c ?v)) ?x => change (Decoded (decode (c v)) x) in H; take_apart H
  | Decoded (decode (?c ?v)) _ =>
      unfold c in H; apply decoded_message in H; reduce_versions; decoded_fields H; simplify_decoded
  | _ => idtac
  end.

Ltac short := cbn; vm_compute; (discriminate || reflexivity || exact I).

(** What a client of the automation knows of a field. *)
Ltac known_field := fail.

Ltac encodes_value :=
  first [known_field | encodes_plain]
with encodes_plain :=
  lazymatch goal with
  | |- Encodes Int8 _ => apply Int8_encodes
  | |- Encodes Int16 _ => apply Int16_encodes
  | |- Encodes Int32 _ => apply Int32_encodes
  | |- Encodes Int64 _ => apply Int64_encodes
  | |- Encodes Uuid _ => apply Uuid_encodes
  | |- Encodes Boolean _ => apply Boolean_encodes
  | |- Encodes KafkaString _ => first [by apply KafkaString_decoded | apply KafkaString_encodes; short]
  | |- Encodes CompactString _ => first [by apply CompactString_decoded | apply CompactString_encodes; short]
  | |- Encodes NullableString _ =>
      first [ by apply NullableString_decoded | by apply KafkaString_decoded
            | apply NullableString_encodes; short ]
  | |- Encodes NullableCompactString _ =>
      first [ by apply NullableCompactString_decoded | by apply CompactString_decoded
            | apply NullableCompactString_encodes; short ]
  | |- Encodes Bytes _ => apply Bytes_encodes; short
  | |- Encodes CompactBytes _ => apply CompactBytes_encodes; short
  | |- Encodes NullableBytes _ => apply NullableBytes_encodes; short
  | |- Encodes NullableCompactBytes _ => apply NullableCompactBytes_encodes; short
  | |- Encodes (Array _) [] => apply Array_encodes; [short|constructor]
  | |- Encodes (CompactArray _) [] => apply CompactArray_encodes; [short|constructor]
  | |- Encodes (Array _) (_ :: _) => apply Array_encodes; [short|apply Forall_cons_2; [first [encodes_value|encodes_message]|apply Forall_nil_2]]
  | |- Encodes (CompactArray _) (_ :: _) => apply CompactArray_encodes; [short|apply Forall_cons_2; [first [encodes_value|encodes_message]|apply Forall_nil_2]]
  | |- Encodes (NullableArray _) (Some []) => apply NullableArray_encodes; split; [short|constructor]
  | |- Encodes (NullableCompactArray _) (Some []) =>
      apply NullableCompactArray_encodes; split; [short|constructor]
  | |- Encodes (OptionStruct _ _) None => apply Int8_encodes
  | H : Decoded (decode (Array _)) ?l |- Encodes (Array _) (map _ ?l) =>
      eapply Array_map; [|exact H]; encodes_each
  | H : Decoded (decode (CompactArray _)) ?l |- Encodes (CompactArray _) (map _ ?l) =>
      eapply CompactArray_map; [|exact H]; encodes_each
  | H : Decoded (decode (NullableArray _)) ?l |- Encodes (Array _) (map _ (default [] ?l)) =>
      eapply NullableArray_map; [|exact H]; encodes_each
  | H : Decoded (decode (NullableCompactArray _)) ?l |- Encodes (CompactArray _) (map _ (default [] ?l)) =>
      eapply NullableCompactArray_map; [|exact H]; encodes_each
  end
with encodes_each :=
  let x := fresh "x" in let H := fresh "H" in
  intros x H; cbv beta; take_apart H; encodes_message
with encodes_message :=
  lazymatch goal with
  | |- Encodes (Struct ?c ?v) ?x => change (Encodes (c v) x); encodes_message
  | |- Encodes (?c ?v) _ =>
      unfold c; apply message_encodes; [reflexivity|]; reduce_versions; encodes_field
  end
with encodes_field :=
  lazymatch goal with
  | |- Writes (_ ⊛ _) _ => apply app_writes; encodes_field
  | |- Writes (build _) _ => apply build_writes
  | |- Writes (field ?get ?c) ?x =>
      apply field_writes; let v := eval cbn in (get x) in change (Encodes c v); encodes_value
  | |- Writes (unset _ _ _) _ => apply unset_writes; reflexivity
  | |- Writes (ignored _) _ => apply ignored_writes
  | |- Writes (tag_section _ _ _ _ _) _ => apply tag_section_writes; reflexivity
  | |- Writes (unknown_tags _ _) _ => apply unknown_tags_writes; reflexivity
  end.

(** The versions of a range, one by one. *)
Lemma version_cases low high version :
  low ≤ version ≤ high → version ∈ seqZ low (high - low + 1).
Proof. intros Hv. apply elem_of_seqZ. lia. Qed.

Ltac every_version Hv :=
  apply version_cases in Hv; vm_compute in Hv;
  repeat (apply elem_of_cons in Hv as [->|Hv]; [|]); [..|by apply elem_of_nil in Hv].

Ltac answer Hv H := every_version Hv; (take_apart H; encodes_message).

Lemma produce_encodes version request :
  3 ≤ version ≤ 13 → Decoded (decode (ProduceRequest_codec version)) request →
  Encodes (ProduceResponse_codec version) (unsupported_produce request version).
Proof. intros Hv H. answer Hv H. Qed.

Lemma fetch_encodes version request :
  4 ≤ version ≤ 18 → Decoded (decode (FetchRequest_codec version)) request →
  Encodes (FetchResponse_codec version) (unsupported_fetch request).
Proof. intros Hv H. answer Hv H. Qed.

Lemma list_offsets_encodes version request :
  1 ≤ version ≤ 11 → Decoded (decode (ListOffsetsRequest_codec version)) request →
  Encodes (ListOffsetsResponse_codec version) (unsupported_list_offsets request).
Proof. intros Hv H. answer Hv H. Qed.

Lemma metadata_encodes version request :
  0 ≤ version ≤ 13 → Decoded (decode (MetadataRequest_codec version)) request →
  Encodes (MetadataResponse_codec version) (unsupported_metadata request).
Proof. intros Hv H. answer Hv H. Qed.

Lemma offset_commit_encodes version request :
  2 ≤ version ≤ 10 → Decoded (decode (OffsetCommitRequest_codec version)) request →
  Encodes (OffsetCommitResponse_codec version) (unsupported_offset_commit request).
Proof. intros Hv H. answer Hv H. Qed.

Lemma offset_fetch_encodes version request :
  1 ≤ version ≤ 10 → Decoded (decode (OffsetFetchRequest_codec version)) request →
  Encodes (OffsetFetchResponse_codec version) (unsupported_offset_fetch request version).
Proof. intros Hv H. answer Hv H. Qed.

Lemma find_coordinator_encodes version request :
  0 ≤ version ≤ 6 → Decoded (decode (FindCoordinatorRequest_codec version)) request →
  Encodes (FindCoordinatorResponse_codec version) (unsupported_find_coordinator request version).
Proof. intros Hv H. answer Hv H. Qed.

Lemma join_group_encodes version :
  0 ≤ version ≤ 9 → Encodes (JoinGroupResponse_codec version) unsupported_join_group.
Proof. intros Hv. every_version Hv; encodes_message. Qed.

Lemma heartbeat_encodes version :
  0 ≤ version ≤ 4 → Encodes (HeartbeatResponse_codec version) unsupported_heartbeat.
Proof. intros Hv. every_version Hv; encodes_message. Qed.

Lemma leave_group_encodes version :
  0 ≤ version ≤ 5 → Encodes (LeaveGroupResponse_codec version) unsupported_leave_group.
Proof. intros Hv. every_version Hv; encodes_message. Qed.

Lemma sync_group_encodes version :
  0 ≤ version ≤ 5 → Encodes (SyncGroupResponse_codec version) unsupported_sync_group.
Proof. intros Hv. every_version Hv; encodes_message. Qed.

Lemma describe_groups_encodes version request :
  0 ≤ version ≤ 6 → Decoded (decode (DescribeGroupsRequest_codec version)) request →
  Encodes (DescribeGroupsResponse_codec version) (unsupported_describe_groups request).
Proof. intros Hv H. answer Hv H. Qed.

Lemma list_groups_encodes version :
  0 ≤ version ≤ 5 → Encodes (ListGroupsResponse_codec version) unsupported_list_groups.
Proof. intros Hv. every_version Hv; encodes_message. Qed.

Lemma create_topics_encodes version request :
  2 ≤ version ≤ 7 → Decoded (decode (CreateTopicsRequest_codec version)) request →
  Encodes (CreateTopicsResponse_codec version) (unsupported_create_topics request).
Proof. intros Hv H. answer Hv H. Qed.

Lemma init_producer_id_encodes version :
  0 ≤ version ≤ 6 → Encodes (InitProducerIdResponse_codec version) unsupported_init_producer_id.
Proof. intros Hv. every_version Hv; encodes_message. Qed.

Lemma describe_configs_encodes version request :
  1 ≤ version ≤ 4 → Decoded (decode (DescribeConfigsRequest_codec version)) request →
  Encodes (DescribeConfigsResponse_codec version) (unsupported_describe_configs request).
Proof. intros Hv H. answer Hv H. Qed.

Lemma describe_cluster_encodes version :
  0 ≤ version ≤ 2 → Encodes (DescribeClusterResponse_codec version) unsupported_describe_cluster.
Proof. intros Hv. every_version Hv; encodes_message. Qed.

Lemma describe_topic_partitions_encodes version request :
  0 ≤ version ≤ 0 → Decoded (decode (DescribeTopicPartitionsRequest_codec version)) request →
  Encodes (DescribeTopicPartitionsResponse_codec version) (unsupported_describe_topic_partitions request).
Proof. intros Hv H. answer Hv H. Qed.

Lemma api_versions_encodes version :
  0 ≤ version ≤ 4 → Encodes (ApiVersionsResponse_codec version) unsupported_api_versions_body.
Proof. intros Hv. every_version Hv; encodes_message. Qed.

End ErrorResponseCorrect.
