(* ===== verification/Router.v ===== *)
(** * Routing

    [src/src/kafka/request_router.rs]: a decoded frame is dispatched when its
    version is served, answered on the spot when the API is advertised in other
    versions only, dropped when its client wants no answer, and an error
    otherwise. *)

From S2P Require Import Prelude Buf Types Errors MessageCodec MessagesData MessagesGroups MessagesTxn MessagesBuild.
From S2P Require Import ApiKeys RequestCodec Encodability Capabilities ErrorResponse ErrorResponseCorrect.
Import ApiKeys RequestCodec Capabilities ErrorResponse ErrorResponseCorrect.
Open Scope Z_scope.

Module Router.

(** [SupportedRequest] is a reference to a decoded request; its accessors are
    those of [DecodedRequest]. *)
(* @ src/src/kafka/request_router.rs 11-29 SupportedRequest *)
Definition SupportedRequest : Type := DecodedRequest.

(* @ src/src/kafka/request_router.rs 31-36 ResponseEnvelope *)
Record ResponseEnvelope : Type := mkResponseEnvelope {
  env_api_key : ApiKey;
  env_encoding_version : Z;
  env_correlation_id : Z;
  env_body : ResponseKind
}.

(* @ src/src/kafka/request_router.rs 38-43 Route *)
Inductive Route : Type :=
| Dispatch (request : SupportedRequest)
| Respond (envelope : ResponseEnvelope)
| NoResponse.

(* @ src/src/kafka/request_router.rs 45-53 RouteError *)
Inductive RouteError : Type :=
| UnsupportedApi (api_key : ApiKey) (version correlation_id : Z)
| RouteErrorResponse (error : ErrorResponseError).

(* @ src/src/kafka/request_router.rs 79-117 route *)
Definition route (frame : DecodedFrame) : result RouteError Route :=
  match frame with
  | Request request =>
      let version := RequestHeader_request_api_version (dr_header request) in
      let correlation_id := RequestHeader_correlation_id (dr_header request) in
      match capability (dr_api_key request) with
      | None => Err (UnsupportedApi (dr_api_key request) version correlation_id)
      | Some capability =>
          if supports capability version then Ok (Dispatch request)
          else if bool_decide (dr_api_key request = ApiKey_Produce) && negb (expects_response request)
          then Ok NoResponse
          else
            body ← map_err RouteErrorResponse (unsupported_version request);
            Ok (Respond {|
              env_api_key := dr_api_key request;
              env_encoding_version := version;
              env_correlation_id := correlation_id;
              env_body := body |})
      end
  | UnsupportedApiVersions header _ =>
      Ok (Respond {|
        env_api_key := ApiKey_ApiVersions;
        env_encoding_version := 0;
        env_correlation_id := RequestHeader_correlation_id header;
        env_body := unsupported_api_versions |})
  end.

(** ** What a decoded request says of its body *)

Definition typed_request (request : DecodedRequest) : Prop :=
  let version := RequestHeader_request_api_version (dr_header request) in
  let key := dr_api_key request in
  RequestHeader_request_api_key (dr_header request) = ApiKey_code key ∧
  RequestKind_key (dr_body request) = key ∧
  Decoded (RequestKind_decode key version) (dr_body request) ∧
  (valid_versions key).1 ≤ version ≤ (valid_versions key).2.

Lemma decode_frame_body frame request :
  decode_frame frame = value_of (Request request) → typed_request request.
Proof.
  intros Hd. destruct (decode_frame_cases frame) as (r & Hr & Ht).
  rewrite Hd in Hr. injection Hr as <-. destruct request as [header key body].
  destruct Ht as ([_ Hkey] & Hin & rest & Hh & Hb). pose proof (header_of_prefix _ _ _ _ Hh) as Hp.
  rewrite <- Hp in *. split_and!; [done|by eapply body_key|by eexists _, _|apply Hin..].
Qed.

(** A body decoded for a key is a message of that key, read by its codec. *)
Lemma decoded_kind {A : Type} (d : decoder A) (f : A → RequestKind) body :
  Decoded (x ← d; mret (f x)) body → ∃ x, body = f x ∧ Decoded d x.
Proof. intros (x & Hx & <-%decoded_ret)%decoded_bind. eauto. Qed.

Lemma error_response_api key : is_Some (capability key) ↔ key ∈ ERROR_RESPONSE_API_KEYS.
Proof.
  split.
  - intros [c [Hc <-]%capability_Some]. revert c Hc. apply Forall_forall.
    apply (bool_decide_unpack _). vm_compute. exact I.
  - intros Hkey. revert key Hkey. apply Forall_forall. apply (bool_decide_unpack _). vm_compute. exact I.
Qed.

(** The answer to a request of an advertised API is a response of that API and
    can be encoded in the version of the request. *)
Lemma unsupported_version_encodes request :
  typed_request request → dr_api_key request ∈ ERROR_RESPONSE_API_KEYS →
  ∃ response, unsupported_version request = Ok response ∧
    ResponseKind_key response = dr_api_key request ∧
    ∀ buf, ∃ buf', ResponseKind_encode response
      (RequestHeader_request_api_version (dr_header request)) buf = Ok buf'.
Proof.
  destruct request as [header key body]. unfold typed_request, unsupported_version.
  cbn [dr_header dr_api_key dr_body]. set (version := RequestHeader_request_api_version header).
  intros (_ & _ & Hbody & Hv) Hkey. unfold ERROR_RESPONSE_API_KEYS in Hkey.
  repeat (apply elem_of_cons in Hkey as [->|Hkey]); [..|by apply elem_of_nil in Hkey];
    apply decoded_kind in Hbody as (x & -> & Hx); eexists; (split; [reflexivity|split; [reflexivity|]]).
  - exact (produce_encodes _ _ Hv Hx).
  - exact (fetch_encodes _ _ Hv Hx).
  - exact (list_offsets_encodes _ _ Hv Hx).
  - exact (metadata_encodes _ _ Hv Hx).
  - exact (offset_commit_encodes _ _ Hv Hx).
  - exact (offset_fetch_encodes _ _ Hv Hx).
  - exact (find_coordinator_encodes _ _ Hv Hx).
  - exact (join_group_encodes _ Hv).
  - exact (heartbeat_encodes _ Hv).
  - exact (leave_group_encodes _ Hv).
  - exact (sync_group_encodes _ Hv).
  - exact (describe_groups_encodes _ _ Hv Hx).
  - exact (list_groups_encodes _ Hv).
  - exact (api_versions_encodes _ Hv).
  - exact (create_topics_encodes _ _ Hv Hx).
  - exact (init_producer_id_encodes _ Hv).
  - exact (describe_configs_encodes _ _ Hv Hx).
  - exact (describe_cluster_encodes _ Hv).
  - exact (describe_topic_partitions_encodes _ _ Hv Hx).
Qed.

(** Every response header version is one of the two the header has. *)
Lemma response_header_range key version : 0 ≤ response_header_version key version ≤ 1.
Proof.
  destruct key; cbn [response_header_version];
    match goal with |- 0 ≤ ?f version ≤ 1 => unfold f end; repeat case_match; lia.
Qed.

Lemma response_header_encodes key version correlation :
  Encodes (ResponseHeader_codec (response_header_version key version)) (mkResponseHeader correlation ∅).
Proof.
  pose proof (response_header_range key version). apply message_encodes.
  - apply orb_false_iff. split; apply Z.ltb_ge; lia.
  - apply app_writes; [|by apply unknown_tags_writes].
    apply app_writes; [apply build_writes|apply field_writes, Int32_encodes].
Qed.

Lemma encode_response_total key version correlation response :
  (∀ buf, ∃ buf', ResponseKind_encode response version buf = Ok buf') →
  ∃ bytes, encode_response key version correlation response = Ok bytes.
Proof.
  intros He. apply encodes_bind; [apply response_header_encodes|apply He].
Qed.

(** What routing a frame may come to. *)
Definition routed (frame : DecodedFrame) (r : result RouteError Route) : Prop :=
  match frame, r with
  | Request request, Ok (Dispatch request') =>
      request' = request ∧
      ∃ c, capability (dr_api_key request) = Some c ∧
        supports c (RequestHeader_request_api_version (dr_header request)) = true
  | Request request, Ok (Respond envelope) =>
      env_api_key envelope = dr_api_key request ∧
      env_encoding_version envelope = RequestHeader_request_api_version (dr_header request) ∧
      env_correlation_id envelope = RequestHeader_correlation_id (dr_header request) ∧
      ResponseKind_key (env_body envelope) = dr_api_key request ∧
      expects_response request = true ∧
      ∃ c, capability (dr_api_key request) = Some c ∧
        supports c (RequestHeader_request_api_version (dr_header request)) = false
  | Request request, Ok NoResponse =>
      expects_response request = false ∧
      ∃ c, capability (dr_api_key request) = Some c ∧
        supports c (RequestHeader_request_api_version (dr_header request)) = false
  | Request request, Err (UnsupportedApi key version correlation) =>
      capability key = None ∧ key = dr_api_key request ∧
      version = RequestHeader_request_api_version (dr_header request) ∧
      correlation = RequestHeader_correlation_id (dr_header request)
  | UnsupportedApiVersions header _, Ok (Respond envelope) =>
      envelope = mkResponseEnvelope ApiKey_ApiVersions 0 (RequestHeader_correlation_id header)
        unsupported_api_versions
  | _, _ => False
  end.

(** An envelope the router answers with can be encoded. *)
Definition sendable (envelope : ResponseEnvelope) : Prop :=
  ∃ bytes, encode_response (env_api_key envelope) (env_encoding_version envelope)
    (env_correlation_id envelope) (env_body envelope) = Ok bytes.

Lemma not_produce_expects request :
  typed_request request → dr_api_key request ≠ ApiKey_Produce → expects_response request = true.
Proof.
  intros (_ & Hkey & _) Hne. unfold expects_response. destruct (dr_body request); try done.
Qed.

Lemma route_cases frame d :
  decode_frame frame = value_of d →
  routed d (route d) ∧ ∀ envelope, route d = Ok (Respond envelope) → sendable envelope.
Proof.
  intros Hd. destruct d as [request|header v]; cbn [route].
  - apply decode_frame_body in Hd.
    destruct (capability (dr_api_key request)) as [c|] eqn:Hc; [|done].
    destruct (supports c _) eqn:Hs; [split; [split; [done|by exists c]|done]|].
    destruct (bool_decide _ && _) eqn:Hno.
    { apply andb_true_iff in Hno as [_ Hno%negb_true_iff].
      split; [split; [done|by exists c]|done]. }
    destruct (unsupported_version_encodes request Hd) as (response & Hr & Hkey & He).
    { apply error_response_api. by eexists. }
    rewrite Hr. cbn [map_err mbind result_bind]. split.
    + split_and!; [done..| |by exists c].
      destruct (decide (dr_api_key request = ApiKey_Produce)) as [Hp|Hp]; [|by apply not_produce_expects].
      rewrite bool_decide_true in Hno by done. cbn in Hno. by apply negb_false_iff in Hno.
    + intros envelope [= <-]. by apply encode_response_total.
  - split; [done|]. intros envelope [= <-]. apply encode_response_total.
    apply (api_versions_encodes 0). lia.
Qed.

(** C15: an error answer can always be sent.  Whatever bytes a client sends, when
    the frame decodes and the router answers it with an unsupported-version
    response, that response can be encoded: no field of it is set that the
    client's version does not have, and every name and list copied from the
    request fits its length field. *)
Theorem error_answers_encode (frame : list byte) (d : DecodedFrame) (envelope : ResponseEnvelope) :
  decode_frame frame = value_of d → route d = Ok (Respond envelope) →
  ∃ bytes, encode_response (env_api_key envelope) (env_encoding_version envelope)
    (env_correlation_id envelope) (env_body envelope) = Ok bytes.
Proof. intros Hd. by apply (route_cases frame). Qed.

(** ** Samples *)

(** The fetch of [RequestCodec], in version 12, which is not served. *)
Definition sample_frame : list byte := sample_header_bytes ++ sample_fetch_bytes.
Definition sample_request : DecodedFrame :=
  Request (mkDecodedRequest sample_header ApiKey_Fetch (RequestKind_Fetch sample_fetch)).
Definition sample_envelope : ResponseEnvelope :=
  mkResponseEnvelope ApiKey_Fetch 12 77 (ResponseKind_Fetch (unsupported_fetch sample_fetch)).

Lemma error_answers_encode_witness :
  ∃ bytes, encode_response ApiKey_Fetch 12 77 (ResponseKind_Fetch (unsupported_fetch sample_fetch)) = Ok bytes.
Proof.
  apply (error_answers_encode sample_frame sample_request sample_envelope).
  - vm_compute. reflexivity.
  - reflexivity.
Defined.

End Router.
