(* ===== verification/Text.v ===== *)
(** * Text

    What the configuration and the schema registry use of [str]: [trim],
    [parse] of integers, and the splitting methods, on the bytes of a string.

    A Rust string is UTF-8.  [trim] removes the characters of Unicode's
    White_Space property, here by their encodings; since an encoding starts with
    a byte that no other character contains, cutting encodings off either end of
    the bytes cuts characters off. *)

From S2P Require Import Prelude.
From stdpp Require Import pretty.
Open Scope Z_scope.

Module Text.

Abbreviation bytes_of := String.list_byte_of_string.
Abbreviation text_of := String.string_of_list_byte.

Lemma text_of_bytes s : text_of (bytes_of s) = s.
Proof. apply String.string_of_list_byte_of_string. Qed.
Lemma bytes_of_text bs : bytes_of (text_of bs) = bs.
Proof. apply String.list_byte_of_string_of_list_byte. Qed.
#[global] Instance bytes_of_inj : Inj (=) (=) bytes_of.
Proof. intros s s' H. by rewrite <- (text_of_bytes s), H, text_of_bytes. Qed.

(** ** White space *)

Definition white_space : list (list byte) :=
  ((λ z, [byte_of_Z z]) <$> [9; 10; 11; 12; 13; 32]) ++
  ((λ z, [Byte.xc2; byte_of_Z z]) <$> [133; 160]) ++
  [[Byte.xe1; Byte.x9a; Byte.x80]] ++
  ((λ z, [Byte.xe2; Byte.x80; byte_of_Z z]) <$>
    [128; 129; 130; 131; 132; 133; 134; 135; 136; 137; 138; 168; 169; 175]) ++
  [[Byte.xe2; Byte.x81; Byte.x9f]; [Byte.xe3; Byte.x80; Byte.x80]].

Fixpoint strip_prefix (prefix bs : list byte) : option (list byte) :=
  match prefix, bs with
  | [], _ => Some bs
  | p :: prefix, b :: bs => if bool_decide (p = b) then strip_prefix prefix bs else None
  | _, [] => None
  end.

(** The first of the encodings [cs] that [bs] starts with is removed. *)
Fixpoint strip_char (cs : list (list byte)) (bs : list byte) : option (list byte) :=
  match cs with
  | [] => None
  | c :: cs => match strip_prefix c bs with Some rest => Some rest | None => strip_char cs bs end
  end.

(** Every round removes at least a byte. *)
Fixpoint strip_all (cs : list (list byte)) (fuel : nat) (bs : list byte) : list byte :=
  match fuel with
  | O => bs
  | S fuel => match strip_char cs bs with Some rest => strip_all cs fuel rest | None => bs end
  end.

Definition trim_start (bs : list byte) : list byte := strip_all white_space (length bs) bs.
Definition trim_end (bs : list byte) : list byte :=
  reverse (strip_all (reverse <$> white_space) (length bs) (reverse bs)).
Definition trim (s : string) : string := text_of (trim_end (trim_start (bytes_of s))).

(** ** Integers *)

Definition digit (b : byte) : option Z :=
  let z := u8 b - 48 in if decide (0 ≤ z ≤ 9) then Some z else None.

Fixpoint parse_digits (bs : list byte) (value : Z) : option Z :=
  match bs with
  | [] => Some value
  | b :: bs => d ← digit b; parse_digits bs (value * 10 + d)
  end.

(** [from_str] of the integer types: an optional sign, then at least one digit; a
    value that does not fit is an error. *)
Definition parse_int (signed : bool) (min max : Z) (s : string) : option Z :=
  let bs := bytes_of s in
  let '(sign, digits) :=
    match bs with
    | Byte.x2b :: digits => (1, digits)
    | Byte.x2d :: digits => if signed then (-1, digits) else (1, bs)
    | _ => (1, bs)
    end in
  if bool_decide (digits = []) then None
  else z ← parse_digits digits 0; let z := sign * z in if decide (min ≤ z ≤ max) then Some z else None.

Definition parse_i32 : string → option Z := parse_int true i32_min i32_max.
Definition parse_u16 : string → option Z := parse_int false 0 65535.

(** ** Splitting *)

(** [rsplit_once(separator)]: at the last occurrence. *)
Fixpoint rsplit_once (separator bs : list byte) : option (list byte * list byte) :=
  match bs with
  | [] => if bool_decide (separator = []) then Some ([], []) else None
  | b :: rest =>
      match rsplit_once separator rest with
      | Some (before, after) => Some (b :: before, after)
      | None => after ← strip_prefix separator bs; Some ([], after)
      end
  end.

(** [split_once(separator)], for a one-byte separator: at the first occurrence. *)
Fixpoint split_once (separator : byte) (bs : list byte) : option (list byte * list byte) :=
  match bs with
  | [] => None
  | b :: rest =>
      if bool_decide (b = separator) then Some ([], rest)
      else '(before, after) ← split_once separator rest; Some (b :: before, after)
  end.

(** [split(separator)], for a one-byte separator. *)
Fixpoint split (separator : byte) (bs : list byte) : list (list byte) :=
  match bs with
  | [] => [[]]
  | b :: rest =>
      if bool_decide (b = separator) then [] :: split separator rest
      else match split separator rest with
           | field :: fields => (b :: field) :: fields
           | [] => [[b]]
           end
  end.

(** ** Lemmas: stripping *)

Lemma strip_prefix_Some prefix bs rest : strip_prefix prefix bs = Some rest ↔ bs = prefix ++ rest.
Proof.
  revert bs. induction prefix as [|p prefix IH]; intros [|b bs]; cbn; try naive_solver.
  case_bool_decide; [rewrite IH; naive_solver|naive_solver].
Qed.

Lemma strip_char_Some cs bs rest :
  strip_char cs bs = Some rest → ∃ c, c ∈ cs ∧ bs = c ++ rest.
Proof.
  induction cs as [|c cs IH]; [done|]. cbn. destruct (strip_prefix c bs) as [r|] eqn:Hc.
  - intros [= ->]. exists c. split; [left|by apply strip_prefix_Some].
  - intros (c' & ? & ?)%IH. exists c'. split; [by right|done].
Qed.

Lemma strip_char_None cs bs : strip_char cs bs = None ↔ ∀ c rest, c ∈ cs → bs ≠ c ++ rest.
Proof.
  induction cs as [|c cs IH]; cbn; [split; [by intros _ c' rest ?%elem_of_nil|done]|].
  destruct (strip_prefix c bs) as [r|] eqn:Hc.
  - apply strip_prefix_Some in Hc. split; [done|]. intros H. by destruct (H c r (list_elem_of_here _ _)).
  - rewrite IH. split.
    + intros H c' rest [->|Hin]%elem_of_cons; [|by apply H].
      intros Heq%strip_prefix_Some. by rewrite Heq in Hc.
    + intros H c' rest Hin. apply H. by right.
Qed.

Section strip.
  Context (cs : list (list byte)) (Hcs : Forall (λ c, c ≠ []) cs).

Lemma strip_all_suffix fuel bs : strip_all cs fuel bs `suffix_of` bs.
Proof using Hcs.
  revert bs. induction fuel as [|fuel IH]; intros bs; cbn; [done|].
  destruct (strip_char cs bs) as [rest|] eqn:Hs; [|done].
  apply strip_char_Some in Hs as (c & _ & ->). etrans; [apply IH|]. by exists c.
Qed.

(** Nothing is left to strip. *)
Lemma strip_all_done fuel bs : (length bs ≤ fuel)%nat → strip_char cs (strip_all cs fuel bs) = None.
Proof using Hcs.
  revert bs. induction fuel as [|fuel IH]; intros bs Hlen; cbn.
  - destruct bs; [|cbn in Hlen; lia]. apply strip_char_None. intros c rest Hc Heq.
    rewrite Forall_forall in Hcs. destruct (Hcs c Hc). by destruct c.
  - destruct (strip_char cs bs) as [rest|] eqn:Hs; [|done].
    apply strip_char_Some in Hs as (c & Hc & ->). apply IH.
    rewrite Forall_forall in Hcs. specialize (Hcs c Hc). rewrite length_app in Hlen.
    destruct c; [done|]. cbn in Hlen. lia.
Qed.

Lemma strip_all_none fuel bs : strip_char cs bs = None → strip_all cs fuel bs = bs.
Proof using Type. intros Hs. destruct fuel; cbn; by rewrite ?Hs. Qed.

Lemma strip_char_prefix bs more : strip_char cs (bs ++ more) = None → strip_char cs bs = None.
Proof using Type.
  rewrite !strip_char_None. intros H c rest Hc ->. apply (H c (rest ++ more) Hc). by rewrite (assoc_L (++)).
Qed.

End strip.

Lemma white_space_nonempty : Forall (λ c, c ≠ []) white_space.
Proof. apply (bool_decide_unpack _). vm_compute. exact I. Qed.
Lemma reversed_nonempty : Forall (λ c, c ≠ []) (reverse <$> white_space).
Proof. apply (bool_decide_unpack _). vm_compute. exact I. Qed.

Lemma trim_idempotent s : trim (trim s) = trim s.
Proof.
  unfold trim. rewrite bytes_of_text. f_equal. set (bs := bytes_of s).
  assert (strip_char white_space (trim_start bs) = None) as Hstart.
  { by apply strip_all_done; [apply white_space_nonempty|]. }
  destruct (strip_all_suffix _ reversed_nonempty (length (trim_start bs)) (reverse (trim_start bs))) as [cut Hcut].
  set (kept := strip_all (reverse <$> white_space) (length (trim_start bs)) (reverse (trim_start bs))) in *.
  assert (trim_start bs = reverse kept ++ reverse cut) as Hsplit.
  { by rewrite <- reverse_app, <- Hcut, reverse_involutive. }
  assert (trim_end (trim_start bs) = reverse kept) as -> by done.
  rewrite Hsplit in Hstart. apply strip_char_prefix in Hstart.
  assert (trim_start (reverse kept) = reverse kept) as -> by by apply strip_all_none.
  unfold trim_end. rewrite reverse_involutive. f_equal. apply strip_all_none.
  apply strip_all_done; [apply reversed_nonempty|]. by rewrite length_reverse.
Qed.

(** ** Lemmas: integers *)

Lemma pretty_char_digit n : (n < 10)%N →
  digit (Ascii.byte_of_ascii (pretty_N_char n)) = Some (Z.of_N n).
Proof.
  intros Hn. assert (n ∈ [0; 1; 2; 3; 4; 5; 6; 7; 8; 9]%N) as Hin.
  { rewrite !elem_of_cons. lia. }
  assert (Forall (λ n, digit (Ascii.byte_of_ascii (pretty_N_char n)) = Some (Z.of_N n))
    [0; 1; 2; 3; 4; 5; 6; 7; 8; 9]%N) as H by (repeat constructor).
  rewrite Forall_forall in H. by apply H.
Qed.

Lemma parse_pretty_go n s : (0 < n)%N →
  parse_digits (bytes_of (pretty_N_go n s)) 0 = parse_digits (bytes_of s) (Z.of_N n).
Proof.
  revert s. induction (N.lt_wf_0 n) as [n _ IH]; intros s Hn.
  rewrite pretty_N_go_step by done.
  assert (parse_digits (bytes_of (String (pretty_N_char (n `mod` 10)) s)) (Z.of_N (n `div` 10))
    = parse_digits (bytes_of s) (Z.of_N n)) as Hstep.
  { unfold String.list_byte_of_string. cbn [String.list_ascii_of_string map parse_digits].
    rewrite pretty_char_digit by (apply N.mod_lt; done). cbn. f_equal.
    rewrite N2Z.inj_div, N2Z.inj_mod. pose proof (Z.div_mod (Z.of_N n) 10). lia. }
  destruct (decide (n `div` 10 = 0)%N) as [Hz|Hz].
  - rewrite Hz, pretty_N_go_0. rewrite Hz in Hstep. exact Hstep.
  - rewrite IH; [exact Hstep|apply N.div_lt; lia|by apply N.neq_0_lt_0].
Qed.

Lemma parse_pretty n : parse_digits (bytes_of (pretty n)) 0 = Some (Z.of_N n).
Proof.
  unfold pretty, pretty_N. case_decide as Hn; [by subst|]. by rewrite parse_pretty_go by lia.
Qed.

Lemma digit_shape b z : digit b = Some z → b ≠ Byte.x2b ∧ b ≠ Byte.x2d.
Proof. by split; intros ->. Qed.

(** The decimal digits of a number are parsed as that number. *)
Lemma parse_int_pretty signed min max (n : N) :
  min ≤ Z.of_N n ≤ max → parse_int signed min max (pretty n) = Some (Z.of_N n).
Proof.
  intros Hn. pose proof (parse_pretty n) as Hp. unfold parse_int.
  destruct (bytes_of (pretty n)) as [|b bs] eqn:Hb.
  { exfalso. destruct (pretty n) as [|a s] eqn:Hs; [|done]. revert Hs. unfold pretty, pretty_N.
    case_decide; [done|]. rewrite pretty_N_go_step by lia. intros Hs.
    assert (∀ m s, s ≠ "" → pretty_N_go m s ≠ "") as Hgo.
    { intros m. induction (N.lt_wf_0 m) as [m _ IHm]. intros s Hne.
      destruct (decide (m = 0)%N) as [->|]; [by rewrite pretty_N_go_0|].
      rewrite pretty_N_go_step by lia. apply IHm; [apply N.div_lt; lia|done]. }
    by apply Hgo in Hs. }
  cbn [parse_digits] in Hp. destruct (digit b) as [d|] eqn:Hd; [|done].
  assert (match b :: bs with
    | Byte.x2b :: digits => (1, digits)
    | Byte.x2d :: digits => if signed then (-1, digits) else (1, b :: bs)
    | _ => (1, b :: bs)
    end = (1, b :: bs)) as ->.
  { destruct (digit_shape b d Hd). by destruct b. }
  rewrite bool_decide_false by done. cbn [parse_digits]. rewrite Hd. cbn in Hp |- *.
  rewrite Hp. cbn. rewrite decide_True by lia. f_equal. lia.
Qed.

(** ** Lemmas: splitting *)

Definition free (separator bs : list byte) : Prop := ∀ before after, bs ≠ before ++ separator ++ after.

Lemma rsplit_once_None separator bs : separator ≠ [] → free separator bs → rsplit_once separator bs = None.
Proof.
  intros Hs. induction bs as [|b bs IH]; intros Hfree; cbn.
  - by rewrite bool_decide_false.
  - rewrite IH.
    + destruct (strip_prefix separator (b :: bs)) as [rest|] eqn:Hp; [|done].
      apply strip_prefix_Some in Hp. by destruct (Hfree [] rest).
    + intros before after Heq. apply (Hfree (b :: before) after). cbn. by rewrite Heq.
Qed.

(** The last occurrence is the one behind which there is no other. *)
Lemma rsplit_once_last separator before after :
  separator ≠ [] → rsplit_once separator (drop 1 (separator ++ after)) = None →
  rsplit_once separator (before ++ separator ++ after) = Some (before, after).
Proof.
  intros Hs Hlast. induction before as [|b before IH]; cbn [app].
  - destruct separator as [|p separator]; [done|]. cbn [app rsplit_once drop] in *. rewrite drop_0 in Hlast.
    rewrite Hlast. assert (strip_prefix (p :: separator) (p :: separator ++ after) = Some after) as ->.
    { by apply strip_prefix_Some. }
    done.
  - cbn [rsplit_once]. by rewrite IH.
Qed.


Lemma split_none sep bs : sep ∉ bs → split sep bs = [bs].
Proof.
  induction bs as [|b bs IH]; intros Hn; [done|]. cbn. rewrite bool_decide_false by set_solver.
  rewrite IH by set_solver. done.
Qed.

Lemma split_app sep bs rest : sep ∉ bs → split sep (bs ++ sep :: rest) = bs :: split sep rest.
Proof.
  induction bs as [|b bs IH]; intros Hn; cbn; [by rewrite bool_decide_true|].
  rewrite bool_decide_false by set_solver. by rewrite IH by set_solver.
Qed.

Lemma split_once_app sep key raw : sep ∉ key → split_once sep (key ++ sep :: raw) = Some (key, raw).
Proof.
  induction key as [|k key IH]; intros Hn; cbn; [by rewrite bool_decide_true|].
  rewrite bool_decide_false by set_solver. by rewrite IH by set_solver.
Qed.

Lemma split_once_free sep a : sep ∉ a → split_once sep a = None.
Proof.
  induction a as [|c a IH]; cbn; [done|]. intros [? ?]%not_elem_of_cons.
  rewrite bool_decide_false by done. by rewrite IH.
Qed.

(** ** Lemmas: printed numbers *)

Lemma digits_free b bs v z : digit b = None → parse_digits bs v = Some z → b ∉ bs.
Proof.
  intros Hb. revert v. induction bs as [|c bs IH]; intros v; [set_solver|].
  cbn [parse_digits]. destruct (digit c) as [d|] eqn:Hc; [|done]. cbn. intros Hp%IH.
  apply not_elem_of_cons. split; [congruence|done].
Qed.

Lemma pretty_nonneg z : 0 ≤ z → pretty z = pretty (Z.to_N z).
Proof. by destruct z. Qed.

(** The bytes of a version number are digits that parse to it. *)
Lemma pretty_digits z : 0 ≤ z → parse_digits (bytes_of (pretty z)) 0 = Some z.
Proof. intros Hz. rewrite pretty_nonneg, parse_pretty by done. f_equal. lia. Qed.

Lemma pretty_free b z : 0 ≤ z → digit b = None → b ∉ bytes_of (pretty z).
Proof. intros Hz Hb. eapply digits_free; [done|by apply pretty_digits]. Qed.

Lemma string_bytes_app s t : bytes_of (s +:+ t) = bytes_of s ++ bytes_of t.
Proof.
  unfold String.list_byte_of_string. rewrite <- fmap_app. f_equal.
  induction s as [|c s IH]; [done|]. cbn. by rewrite <- IH.
Qed.

Lemma pretty_nonempty z : 0 ≤ z → bytes_of (pretty z) ≠ [].
Proof.
  intros Hz He. pose proof (parse_int_pretty false 0 z (Z.to_N z)) as Hp.
  rewrite <- pretty_nonneg in Hp by done. unfold parse_int in Hp. rewrite He in Hp.
  specialize (Hp ltac:(lia)). done.
Qed.

Lemma text_app_nil s : s +:+ "" = s.
Proof. apply (inj bytes_of). rewrite string_bytes_app. apply app_nil_r. Qed.

Lemma text_app_assoc s t u : (s +:+ t) +:+ u = s +:+ t +:+ u.
Proof. apply (inj bytes_of). by rewrite !string_bytes_app, app_assoc. Qed.

(** ** Texts that trimming leaves alone *)

(** No white space begins or ends with the byte. *)
Definition solid (b : byte) : Prop := Forall (λ c, head c ≠ Some b ∧ last c ≠ Some b) white_space.

#[export] Instance solid_dec b : Decision (solid b).
Proof. unfold solid. apply _. Defined.

Lemma trim_start_solid b bs : solid b → trim_start (b :: bs) = b :: bs.
Proof.
  intros Hb. apply strip_all_none, strip_char_None. intros c rest Hc Heq.
  unfold solid in Hb. rewrite Forall_forall in Hb. destruct (Hb c Hc) as [Hhead _].
  pose proof white_space_nonempty as Hne. rewrite Forall_forall in Hne. specialize (Hne c Hc).
  destruct c as [|x c]; [done|]. injection Heq as -> _. done.
Qed.

Lemma trim_end_solid b bs : solid b → trim_end (bs ++ [b]) = bs ++ [b].
Proof.
  intros Hb. unfold trim_end. rewrite <- (reverse_involutive (bs ++ [b])) at 3. f_equal.
  apply strip_all_none, strip_char_None. intros c rest Hc Heq.
  apply list_elem_of_fmap in Hc as (c' & -> & Hc). unfold solid in Hb. rewrite Forall_forall in Hb.
  destruct (Hb c' Hc) as [_ Hlast].
  pose proof white_space_nonempty as Hne. rewrite Forall_forall in Hne. specialize (Hne c' Hc).
  destruct (exists_last Hne) as (front & x & ->). rewrite reverse_app, reverse_snoc in Heq. cbn in Heq.
  injection Heq as -> _. by rewrite last_snoc in Hlast.
Qed.

Lemma trim_solid (s : string) b c front rest :
  bytes_of s = b :: rest → bytes_of s = front ++ [c] → solid b → solid c → trim s = s.
Proof.
  intros Hb Hc Hsb Hsc. unfold trim. rewrite Hb, trim_start_solid, <- Hb, Hc, trim_end_solid, <- Hc by done.
  apply text_of_bytes.
Qed.
End Text.
