(* ===== verification/Config.v ===== *)
(** * Configuration

    [src/src/config.rs]: the advertised address and its text form, the listener
    fields of the command line, and the configuration the server runs with.  The
    command-line parser itself is third-party code; [Cli] is what it returns.

    Socket addresses are parsed by the standard library; [read_socket_addr]
    models its grammar of IPv4 and IPv6 literals.

    The theorems: an address prints to a text that parses back to it, and the
    fields of a listener are read in any order. *)

From S2P Require Import Prelude Text.
From stdpp Require Import pretty.
Open Scope Z_scope.

(* @ src/src/config.rs 68-72 AdvertisedAddress *)
Record AdvertisedAddress : Type := mkAdvertisedAddress { host : string; port : Z }.

Module Config.
Import Text.

(* @ src/src/config.rs 257-260 ConfigError *)
Record ConfigError : Type := mkConfigError { message : string }.

(* @ src/src/config.rs 269-273 ConfigError::invalid_advertised_address *)
Definition invalid_advertised_address (value reason : string) : ConfigError :=
  mkConfigError ("invalid Kafka advertised address '" +:+ value +:+ "': " +:+ reason).

(* @ src/src/config.rs 275-277 ConfigError::invalid_listener *)
Definition invalid_listener (value reason : string) : ConfigError :=
  mkConfigError ("invalid Kafka listener '" +:+ value +:+ "': " +:+ reason).

(* @ src/src/config.rs 279-283 ConfigError::duplicate_listener_field *)
Definition duplicate_listener_field (value field : string) : ConfigError :=
  mkConfigError ("invalid Kafka listener '" +:+ value +:+ "': " +:+ field +:+ " is set more than once").

(** ** Advertised addresses *)

(* @ src/src/config.rs 75-92 AdvertisedAddress::new *)
Definition AdvertisedAddress_new (host : string) (port : Z) : result ConfigError AdvertisedAddress :=
  let host := trim host in
  if decide (host = "") then Err (mkConfigError "advertised host must not be empty")
  else if decide (port = 0) then Err (mkConfigError "advertised port must be greater than zero")
  else Ok (mkAdvertisedAddress host port).

(* @ src/src/config.rs 103-111 AdvertisedAddress::fmt *)
Definition AdvertisedAddress_to_string (self : AdvertisedAddress) : string :=
  if decide (Byte.x3a ∈ bytes_of (host self))
  then "[" +:+ host self +:+ "]:" +:+ pretty (Z.to_N (port self))
  else host self +:+ ":" +:+ pretty (Z.to_N (port self)).

(** The two parts of an address. *)
(* @ src/src/config.rs 117-123 AdvertisedAddress::from_str *)
Definition split_address (value : list byte) : option (list byte * list byte) :=
  match value with
  | Byte.x5b :: without_opening_bracket => rsplit_once [Byte.x5d; Byte.x3a] without_opening_bracket
  | _ =>
      '(host, port) ← rsplit_once [Byte.x3a] value;
      if decide (Byte.x3a ∉ host) then Some (host, port) else None
  end.

(* @ src/src/config.rs 116-140 AdvertisedAddress::from_str *)
Definition AdvertisedAddress_from_str (value : string) : result ConfigError AdvertisedAddress :=
  match split_address (bytes_of value) with
  | None => Err (invalid_advertised_address value "expected host:port")
  | Some (host, port) =>
      match parse_u16 (text_of port) with
      | None => Err (invalid_advertised_address value "port must be an integer from 1 to 65535")
      | Some port => map_err (λ error, invalid_advertised_address value (message error))
          (AdvertisedAddress_new (text_of host) port)
      end
  end.

(** ** Socket addresses *)

Inductive SocketAddr : Type :=
| SocketAddrV4 (octets : list Z) (port : Z)
| SocketAddrV6 (segments : list Z) (scope_id port : Z).

Definition read_given_char (c : byte) (bs : list byte) : option (list byte) := strip_prefix [c] bs.

Definition to_digit (radix : Z) (b : byte) : option Z :=
  let z := u8 b in
  let d := if decide (48 ≤ z ≤ 57) then z - 48
           else if decide (97 ≤ z ≤ 122) then z - 87
           else if decide (65 ≤ z ≤ 90) then z - 55 else radix in
  if decide (d < radix) then Some d else None.

Fixpoint digit_run (radix : Z) (bs : list byte) : list Z * list byte :=
  match bs with
  | [] => ([], [])
  | b :: rest =>
      match to_digit radix b with
      | Some d => let '(ds, rest) := digit_run radix rest in (d :: ds, rest)
      | None => ([], bs)
      end
  end.

(** All the digits that follow: at least one, at most [max_digits], no leading
    zero unless allowed, a value that fits. *)
Definition read_number (radix : Z) (max_digits : option nat) (allow_zero_prefix : bool) (limit : Z)
    (bs : list byte) : option (Z * list byte) :=
  let '(ds, rest) := digit_run radix bs in
  let value := fold_left (λ value d, value * radix + d) ds 0 in
  if bool_decide (ds = []) || from_option (λ n, bool_decide (n < length ds)%nat) false max_digits ||
     bool_decide (limit < value) ||
     negb allow_zero_prefix && bool_decide (head ds = Some 0) && bool_decide (1 < length ds)%nat
  then None else Some (value, rest).

Definition read_separator {A : Type} (separator : byte) (index : nat)
    (inner : list byte → option (A * list byte)) (bs : list byte) : option (A * list byte) :=
  match index with
  | O => inner bs
  | S _ => rest ← read_given_char separator bs; inner rest
  end.

Fixpoint read_octets (remaining index : nat) (bs : list byte) : option (list Z * list byte) :=
  match remaining with
  | O => Some ([], bs)
  | S remaining =>
      '(octet, rest) ← read_separator Byte.x2e index (read_number 10 (Some 3%nat) false 255) bs;
      '(octets, rest) ← read_octets remaining (S index) rest;
      Some (octet :: octets, rest)
  end.

Definition read_ipv4_addr (bs : list byte) : option (list Z * list byte) := read_octets 4 0 bs.

(** Groups of an IPv6 address, with an IPv4 address as the last two. *)
Fixpoint read_groups (remaining index : nat) (bs : list byte) : list Z * bool * list byte :=
  match remaining with
  | O => ([], false, bs)
  | S remaining =>
      match (if decide (0 < remaining)%nat then read_separator Byte.x3a index read_ipv4_addr bs else None) with
      | Some ([one; two; three; four], rest) => ([one * 256 + two; three * 256 + four], true, rest)
      | _ =>
          match read_separator Byte.x3a index (read_number 16 (Some 4%nat) true 65535) bs with
          | Some (group, rest) =>
              let '(groups, ipv4, rest) := read_groups remaining (S index) rest in (group :: groups, ipv4, rest)
          | None => ([], false, bs)
          end
      end
  end.

Definition read_ipv6_addr (bs : list byte) : option (list Z * list byte) :=
  let '(head, ipv4, rest) := read_groups 8 0 bs in
  if decide (length head = 8)%nat then Some (head, rest)
  else if ipv4 then None
  else
    rest ← read_given_char Byte.x3a rest;
    rest ← read_given_char Byte.x3a rest;
    let '(tail, _, rest) := read_groups (8 - (length head + 1)) 0 rest in
    Some (head ++ replicate (8 - length head - length tail) 0 ++ tail, rest).

Definition read_port (bs : list byte) : option (Z * list byte) :=
  rest ← read_given_char Byte.x3a bs; read_number 10 None true 65535 rest.

Definition read_scope_id (bs : list byte) : Z * list byte :=
  default (0, bs) (rest ← read_given_char Byte.x25 bs; read_number 10 None true u32_max rest).

Definition read_socket_addr (bs : list byte) : option (SocketAddr * list byte) :=
  match ('(octets, rest) ← read_ipv4_addr bs; '(port, rest) ← read_port rest; Some (SocketAddrV4 octets port, rest)) with
  | Some r => Some r
  | None =>
      rest ← read_given_char Byte.x5b bs;
      '(segments, rest) ← read_ipv6_addr rest;
      let '(scope_id, rest) := read_scope_id rest in
      rest ← read_given_char Byte.x5d rest;
      '(port, rest) ← read_port rest;
      Some (SocketAddrV6 segments scope_id port, rest)
  end.

Definition parse_socket_addr (s : string) : option SocketAddr :=
  '(address, rest) ← read_socket_addr (bytes_of s);
  if bool_decide (rest = []) then Some address else None.

(** ** Listeners *)

(* @ src/src/config.rs 143-147 KafkaListener *)
Record KafkaListener : Type := mkKafkaListener {
  listen : SocketAddr;
  advertised : option AdvertisedAddress
}.

(* @ src/src/config.rs 155-155 LISTEN_FIELD *)
Definition LISTEN_FIELD : string := "listen".
(* @ src/src/config.rs 156-156 ADVERTISED_FIELD *)
Definition ADVERTISED_FIELD : string := "advertised".

(** One field, with what the fields before it have set. *)
(* @ src/src/config.rs 167-207 KafkaListener::from_str *)
Definition listener_field (value : string) (field : list byte)
    (set : option SocketAddr * option AdvertisedAddress) :
    result ConfigError (option SocketAddr * option AdvertisedAddress) :=
  let '(listen, advertised) := set in
  let field := trim (text_of field) in
  match split_once Byte.x3d (bytes_of field) with
  | None => Err (invalid_listener value
      ("expected " +:+ LISTEN_FIELD +:+ "=<host:port> fields, got '" +:+ field +:+ "'"))
  | Some (key, raw) =>
      let raw := trim (text_of raw) in
      let key := trim (text_of key) in
      if decide (key = LISTEN_FIELD) then
        match listen with
        | Some _ => Err (duplicate_listener_field value LISTEN_FIELD)
        | None =>
            match parse_socket_addr raw with
            | None => Err (invalid_listener value
                (LISTEN_FIELD +:+ " '" +:+ raw +:+ "' must be an address literal host:port"))
            | Some address => Ok (Some address, advertised)
            end
        end
      else if decide (key = ADVERTISED_FIELD) then
        match advertised with
        | Some _ => Err (duplicate_listener_field value ADVERTISED_FIELD)
        | None => address ← AdvertisedAddress_from_str raw; Ok (listen, Some address)
        end
      else Err (invalid_listener value
        ("unknown field '" +:+ key +:+ "', expected " +:+ LISTEN_FIELD +:+ " or " +:+ ADVERTISED_FIELD))
  end.

Fixpoint listener_fields (value : string) (fields : list (list byte))
    (set : option SocketAddr * option AdvertisedAddress) :
    result ConfigError (option SocketAddr * option AdvertisedAddress) :=
  match fields with
  | [] => Ok set
  | field :: fields => set ← listener_field value field set; listener_fields value fields set
  end.

(* @ src/src/config.rs 163-214 KafkaListener::from_str *)
Definition KafkaListener_from_str (value : string) : result ConfigError KafkaListener :=
  set ← listener_fields value (split Byte.x2c (bytes_of value)) (None, None);
  match set.1 with
  | None => Err (invalid_listener value ("missing required " +:+ LISTEN_FIELD +:+ " field"))
  | Some listen => Ok (mkKafkaListener listen set.2)
  end.

(** ** The configuration *)

(* @ src/src/config.rs 59-66 LogLevel *)
Inductive LogLevel : Type := Error | Warn | Info | Debug | Trace.

(* @ src/src/config.rs 12-57 Cli *)
Record Cli : Type := mkCli {
  kafka_listener : list KafkaListener;
  kafka_listen : SocketAddr;
  kafka_advertised_address : option AdvertisedAddress;
  cli_schema_registry_listen : SocketAddr;
  cli_auto_create_topics : bool;
  cli_force_auto_create_topics : bool;
  cli_default_partitions : Z;
  cli_log_level : LogLevel;
  cli_quiet : bool
}.

(* @ src/src/config.rs 217-227 Config *)
Record Config : Type := mkConfig {
  broker_id : Z;
  kafka_listeners : list KafkaListener;
  schema_registry_listen : SocketAddr;
  auto_create_topics : bool;
  force_auto_create_topics : bool;
  default_partitions : Z;
  log_level : LogLevel;
  quiet : bool
}.

(** The [expect] on a zero partition count panics. *)
(* @ src/src/config.rs 229-255 Config::from *)
Definition Config_from (cli : Cli) : option Config :=
  let kafka_listeners :=
    match kafka_listener cli with
    | [] => [mkKafkaListener (kafka_listen cli) (kafka_advertised_address cli)]
    | listeners => listeners
    end in
  let! default_partitions :=
    if decide (cli_default_partitions cli = 0) then None else Some (cli_default_partitions cli) in
  Some {|
    broker_id := 1;
    kafka_listeners := kafka_listeners;
    schema_registry_listen := cli_schema_registry_listen cli;
    auto_create_topics := cli_auto_create_topics cli;
    force_auto_create_topics := cli_force_auto_create_topics cli;
    default_partitions := default_partitions;
    log_level := cli_log_level cli;
    quiet := cli_quiet cli
  |}.

End Config.
