(* ===== verification/ConfigCorrect.v ===== *)
(** * Correctness of the configuration's texts

    Addresses print and parse back, and the two fields of a listener may come in
    either order. *)

From S2P Require Import Prelude Text Config.
From stdpp Require Import pretty.
Open Scope Z_scope.

Module ConfigCorrect.
Import Text Config.

(** ** Digits *)

Lemma text_bytes_app s s' : bytes_of (s +:+ s') = bytes_of s ++ bytes_of s'.
Proof.
  unfold String.list_byte_of_string. induction s as [|a s IH]; [done|].
  exact (f_equal (cons (Ascii.byte_of_ascii a)) IH).
Qed.

Lemma parse_digits_Forall bs v z : parse_digits bs v = Some z → Forall (λ b, is_Some (digit b)) bs.
Proof.
  revert v. induction bs as [|b bs IH]; intros v; [by constructor|]. cbn.
  intros (d & Hd & Hz)%bind_Some. constructor; [by eexists|]. by eapply IH.
Qed.

Definition decimal_bytes : list byte := (λ z, byte_of_Z z) <$> seqZ 48 10.

Lemma digit_decimal b : is_Some (digit b) → b ∈ decimal_bytes.
Proof.
  intros [z Hz]. unfold digit in Hz. case_decide as Hr; [|done]. apply list_elem_of_fmap.
  exists (u8 b). split; [by rewrite byte_of_Z_u8|]. apply elem_of_seqZ. lia.
Qed.

Lemma decimal_solid : Forall (λ b, solid b ∧ b ≠ Byte.x2c ∧ b ≠ Byte.x3a ∧ b ≠ Byte.x5d) decimal_bytes.
Proof. apply (bool_decide_unpack _). vm_compute. exact I. Qed.

Lemma pretty_bytes (n : N) :
  Forall (λ b, solid b ∧ b ≠ Byte.x2c ∧ b ≠ Byte.x3a ∧ b ≠ Byte.x5d) (bytes_of (pretty n)) ∧
  bytes_of (pretty n) ≠ [].
Proof.
  split.
  - pose proof (parse_digits_Forall _ _ _ (parse_pretty n)) as H. eapply Forall_impl; [exact H|].
    intros b Hb%digit_decimal. pose proof decimal_solid as Hd. rewrite Forall_forall in Hd. by apply Hd.
  - intros Heq. pose proof (parse_int_pretty true (Z.of_N n) (Z.of_N n) n ltac:(lia)) as Hp.
    unfold parse_int in Hp. by rewrite Heq in Hp.
Qed.

(** ** Addresses *)

(** The hosts that print unambiguously: with a colon, inside of brackets, or
    starting with an ASCII character that is neither white space nor a bracket. *)
Definition printable (a : AdvertisedAddress) : Prop :=
  Byte.x3a ∈ bytes_of (host a) ∨
  match bytes_of (host a) with b :: _ => solid b ∧ b ≠ Byte.x5b | [] => False end.

Lemma new_Ok h p a : AdvertisedAddress_new h p = Ok a → port a = p ∧ p ≠ 0 ∧ trim (host a) = host a ∧ host a ≠ "".
Proof.
  unfold AdvertisedAddress_new. repeat case_decide; try done. intros [= <-]. cbn.
  split_and!; [done..|apply trim_idempotent|done].
Qed.

Lemma rsplit_colon (bs digits : list byte) :
  Forall (λ b, b ≠ Byte.x3a) digits →
  rsplit_once [Byte.x3a] (bs ++ [Byte.x3a] ++ digits) = Some (bs, digits).
Proof.
  intros Hd. apply rsplit_once_last; [done|]. cbn [app drop]. rewrite ?drop_0. apply rsplit_once_None; [done|].
  intros before after ->. apply Forall_app in Hd as [_ [? _]%Forall_cons]. done.
Qed.

Lemma rsplit_bracket (bs digits : list byte) :
  Forall (λ b, b ≠ Byte.x5d) digits →
  rsplit_once [Byte.x5d; Byte.x3a] (bs ++ [Byte.x5d; Byte.x3a] ++ digits) = Some (bs, digits).
Proof.
  intros Hd. apply rsplit_once_last; [done|]. cbn [app drop]. rewrite ?drop_0. apply rsplit_once_None; [done|].
  assert (Forall (λ b, b ≠ Byte.x5d) (Byte.x3a :: digits)) as Hall by (by constructor).
  intros before after Heq. rewrite Heq in Hall. apply Forall_app in Hall as [_ [? _]%Forall_cons]. done.
Qed.

Lemma split_printed a :
  printable a → split_address (bytes_of (AdvertisedAddress_to_string a)) =
    Some (bytes_of (host a), bytes_of (pretty (Z.to_N (port a)))).
Proof.
  intros Hp. destruct (pretty_bytes (Z.to_N (port a))) as [Hd _]. unfold AdvertisedAddress_to_string.
  case_decide as Hc; rewrite !text_bytes_app.
  - cbn. apply (rsplit_bracket (bytes_of (host a))). eapply Forall_impl; [exact Hd|]. by intros b (_ & _ & _ & ?).
  - destruct Hp as [?|Hb]; [done|]. unfold split_address.
    change (bytes_of ":") with [Byte.x3a]. rewrite rsplit_colon.
    2: { eapply Forall_impl; [exact Hd|]. by intros b (_ & _ & ? & _). }
    destruct (bytes_of (host a)) as [|b rest] eqn:Hh; [done|]. destruct Hb as [_ Hb]. cbn.
    rewrite decide_True by done. by destruct b.
Qed.

Lemma address_parses a h :
  AdvertisedAddress_new h (port a) = Ok a → 0 ≤ port a ≤ 65535 → printable a →
  AdvertisedAddress_from_str (AdvertisedAddress_to_string a) = Ok a.
Proof.
  intros Hnew Hport Hp. destruct (new_Ok _ _ _ Hnew) as (_ & Hz & Ht & Hne).
  unfold AdvertisedAddress_from_str. rewrite split_printed, !text_of_bytes by done.
  unfold parse_u16. rewrite parse_int_pretty by lia. unfold AdvertisedAddress_new.
  rewrite Ht, decide_False by done. rewrite Z2N.id, decide_False by lia. by destruct a.
Qed.

(** ** Socket addresses *)

(** The bytes of socket addresses: digits, and [.], [:], [%] and brackets. *)
Definition address_byte (b : byte) : Prop :=
  is_Some (to_digit 16 b) ∨ b ∈ [Byte.x2e; Byte.x3a; Byte.x25; Byte.x5b; Byte.x5d].

Definition address_bytes : list byte :=
  filter (λ b, is_Some (to_digit 16 b) ∨ b ∈ [Byte.x2e; Byte.x3a; Byte.x25; Byte.x5b; Byte.x5d])
    (byte_of_Z <$> seqZ 0 256).

Lemma address_byte_listed b : address_byte b → b ∈ address_bytes.
Proof.
  intros Hb. apply list_elem_of_filter. split; [exact Hb|]. apply list_elem_of_fmap. exists (u8 b).
  split; [by rewrite byte_of_Z_u8|]. apply elem_of_seqZ. pose proof (u8_range b). lia.
Qed.

Lemma address_bytes_solid : Forall (λ b, solid b ∧ b ≠ Byte.x2c) address_bytes.
Proof. apply (bool_decide_unpack _). vm_compute. exact I. Qed.

Lemma address_byte_solid b : address_byte b → solid b ∧ b ≠ Byte.x2c.
Proof. pose proof address_bytes_solid as H. rewrite Forall_forall in H. eauto using address_byte_listed. Qed.

(** A reader went from [bs] on to [rest]. *)
Definition consumes (bs rest : list byte) : Prop := ∃ c, bs = c ++ rest ∧ Forall address_byte c.

#[local] Instance consumes_preorder : PreOrder consumes.
Proof.
  split; [by intros bs; exists []|]. intros x y z (c & -> & Hc) (d & -> & Hd). exists (c ++ d).
  rewrite (assoc_L (++)). split; [done|]. by apply Forall_app.
Qed.

Lemma given_char_consumes c bs rest :
  c ∈ [Byte.x2e; Byte.x3a; Byte.x25; Byte.x5b; Byte.x5d] → read_given_char c bs = Some rest → consumes bs rest.
Proof. intros Hc ->%strip_prefix_Some. exists [c]. split; [done|]. constructor; [by right|done]. Qed.

Lemma digit_run_consumes radix bs ds rest :
  radix ≤ 16 → digit_run radix bs = (ds, rest) → consumes bs rest.
Proof.
  intros Hr. revert ds. induction bs as [|b bs IH]; cbn; intros ds; [by intros [= <- <-]|].
  destruct (to_digit radix b) as [d|] eqn:Hd; [|by intros [= <- <-]].
  destruct (digit_run radix bs) as [ds' rest'] eqn:Hrun. intros [= <- <-].
  destruct (IH ds' eq_refl) as (c & -> & Hc). exists (b :: c). split; [done|]. constructor; [|done].
  left. exists d. unfold to_digit in *. repeat case_decide; simplify_eq; try done; lia.
Qed.

Lemma number_consumes radix max zero limit bs n rest :
  radix ≤ 16 → read_number radix max zero limit bs = Some (n, rest) → consumes bs rest.
Proof.
  intros Hr. unfold read_number. destruct (digit_run radix bs) as [ds r] eqn:Hrun.
  destruct (_ || _); [done|]. intros [= _ <-]. by eapply digit_run_consumes.
Qed.

Lemma separator_consumes {A : Type} c index (inner : list byte → option (A * list byte)) bs a rest :
  c ∈ [Byte.x2e; Byte.x3a; Byte.x25; Byte.x5b; Byte.x5d] →
  (∀ bs a rest, inner bs = Some (a, rest) → consumes bs rest) →
  read_separator c index inner bs = Some (a, rest) → consumes bs rest.
Proof.
  intros Hc Hinner. destruct index as [|index]; cbn; [apply Hinner|].
  intros (mid & Hmid%given_char_consumes & Hr%Hinner)%bind_Some; [|done]. by etrans.
Qed.

Lemma octets_consumes remaining index bs octets rest :
  read_octets remaining index bs = Some (octets, rest) → consumes bs rest.
Proof.
  revert index bs octets. induction remaining as [|n IH]; intros index bs octets; cbn [read_octets].
  { by intros [= _ <-]. }
  intros ([o mid] & Ho & ([os r] & Hos & [= _ <-])%bind_Some)%bind_Some.
  apply separator_consumes in Ho; [|set_solver|intros ???; by apply number_consumes].
  apply IH in Hos. by etrans.
Qed.

Lemma groups_consumes remaining index bs groups v4 rest :
  read_groups remaining index bs = (groups, v4, rest) → consumes bs rest.
Proof.
  revert index bs groups v4. induction remaining as [|n IH]; intros index bs groups v4; cbn [read_groups].
  { by intros [= _ _ <-]. }
  assert (∀ octets mid, (if decide (0 < n)%nat then read_separator Byte.x3a index read_ipv4_addr bs else None)
    = Some (octets, mid) → consumes bs mid) as Hv4.
  { intros octets mid. case_decide; [|done]. apply separator_consumes; [set_solver|].
    intros ???. apply octets_consumes. }
  assert (match read_separator Byte.x3a index (read_number 16 (Some 4%nat) true 65535) bs with
    | Some (group, rest) =>
        let '(groups, ipv4, rest) := read_groups n (S index) rest in (group :: groups, ipv4, rest)
    | None => ([], false, bs)
    end = (groups, v4, rest) → consumes bs rest) as Hgroup.
  { destruct (read_separator Byte.x3a index (read_number 16 (Some 4%nat) true 65535) bs)
      as [[g mid]|] eqn:Hg; [|by intros [= _ _ <-]].
    apply separator_consumes in Hg; [|set_solver|intros ???; by apply number_consumes].
    destruct (read_groups n (S index) mid) as [[gs v] r] eqn:Hgs. intros [= _ _ <-].
    apply IH in Hgs. by etrans. }
  destruct (if decide _ then _ else _) as [[octets mid]|]; [|done].
  specialize (Hv4 octets mid eq_refl).
  do 4 (destruct octets as [|? octets]; [done|]). destruct octets; [|done]. by intros [= _ _ <-].
Qed.

Lemma ipv6_consumes bs segments rest : read_ipv6_addr bs = Some (segments, rest) → consumes bs rest.
Proof.
  unfold read_ipv6_addr. destruct (read_groups 8 0 bs) as [[head v4] mid] eqn:Hg.
  apply groups_consumes in Hg. case_decide; [by intros [= _ <-]|]. destruct v4; [done|].
  intros (r1 & Hr1%given_char_consumes & (r2 & Hr2%given_char_consumes & Ht)%bind_Some)%bind_Some; [|set_solver..].
  destruct (read_groups _ 0 r2) as [[tail v] r3] eqn:Hg3. injection Ht as _ <-.
  apply groups_consumes in Hg3. etrans; [done|]. etrans; [done|]. by etrans.
Qed.

Lemma port_consumes bs p rest : read_port bs = Some (p, rest) → consumes bs rest.
Proof.
  intros (mid & Hmid%given_char_consumes & Hn%number_consumes)%bind_Some; [by etrans|lia|set_solver].
Qed.

Lemma scope_consumes bs id rest : read_scope_id bs = (id, rest) → consumes bs rest.
Proof.
  unfold read_scope_id. destruct (_ ≫= _) as [[n r]|] eqn:Hr; cbn; intros [= <- <-]; [|done].
  apply bind_Some in Hr as (mid & Hmid%given_char_consumes & Hn%number_consumes); [by etrans|lia|set_solver].
Qed.

Lemma socket_addr_consumes bs a rest : read_socket_addr bs = Some (a, rest) → consumes bs rest.
Proof.
  unfold read_socket_addr.
  destruct ('(octets, r) ← read_ipv4_addr bs; _) as [[a' r]|] eqn:Hv4.
  - intros [= <- <-]. apply bind_Some in Hv4 as ([octets mid] & Ho%octets_consumes & Hp).
    apply bind_Some in Hp as ([p r'] & Hp%port_consumes & [= _ <-]). by etrans.
  - clear Hv4. intros (r1 & H1%given_char_consumes & ([segs r2] & H2%ipv6_consumes & H3)%bind_Some)%bind_Some;
      [|set_solver].
    destruct (read_scope_id r2) as [id r3] eqn:Hs. apply scope_consumes in Hs.
    apply bind_Some in H3 as (r4 & H4%given_char_consumes & ([p r5] & H5%port_consumes & [= _ <-])%bind_Some);
      [|set_solver]. etrans; [done|]. etrans; [done|]. etrans; [done|]. by etrans.
Qed.

Lemma parsed_socket_bytes l addr :
  parse_socket_addr l = Some addr → Forall address_byte (bytes_of l) ∧ bytes_of l ≠ [].
Proof.
  intros ([a rest] & Hr & Hd)%bind_Some. case_bool_decide as Hnil; [|done]. subst rest. split.
  - apply socket_addr_consumes in Hr as (c & -> & Hc). by rewrite app_nil_r.
  - intros Hn. by rewrite Hn in Hr.
Qed.

Lemma parsed_socket_trim l addr : parse_socket_addr l = Some addr → trim l = l.
Proof.
  intros [Hall Hne]%parsed_socket_bytes. destruct (exists_last Hne) as (front & c & Hc).
  destruct (bytes_of l) as [|b rest] eqn:Hb; [done|].
  assert (address_byte b) as Hsb by (by apply Forall_inv in Hall).
  rewrite Hc in Hall. apply Forall_app in Hall as [_ Hsc%Forall_inv].
  apply (trim_solid l b c front rest Hb); [congruence|by apply address_byte_solid..].
Qed.

(** ** Listeners *)

Lemma split_two sep eq k1 v1 k2 v2 :
  sep ∉ k1 ++ eq :: v1 → sep ∉ k2 ++ eq :: v2 →
  split sep ((k1 ++ [eq]) ++ v1 ++ (sep :: k2 ++ [eq]) ++ v2) = [k1 ++ eq :: v1; k2 ++ eq :: v2].
Proof.
  intros H1 H2. transitivity (split sep ((k1 ++ eq :: v1) ++ sep :: (k2 ++ eq :: v2))).
  - f_equal. cbn. rewrite <- !(assoc_L (++)). done.
  - by rewrite split_app, split_none.
Qed.

(** The last byte of a printed address is a digit, its first one no space. *)
Lemma printed_ends a :
  printable a → ∃ b rest front c, bytes_of (AdvertisedAddress_to_string a) = b :: rest ∧
    bytes_of (AdvertisedAddress_to_string a) = front ++ [c] ∧ solid b ∧ solid c.
Proof.
  intros Hp. destruct (pretty_bytes (Z.to_N (port a))) as [Hd Hne].
  destruct (exists_last Hne) as (front & c & Hc). rewrite Hc in Hd.
  apply Forall_app in Hd as [_ [Hsc _]%Forall_inv]. unfold AdvertisedAddress_to_string.
  case_decide as Hcolon; rewrite !text_bytes_app, Hc.
  - eexists Byte.x5b, _, ([Byte.x5b] ++ bytes_of (host a) ++ bytes_of "]:" ++ front), c.
    split; [done|]. rewrite <- !(assoc_L (++)). split_and!; [done| |done]. apply (bool_decide_unpack _). vm_compute. exact I.
  - destruct Hp as [?|Hb]; [done|]. destruct (bytes_of (host a)) as [|b rest]; [done|].
    eexists b, _, ((b :: rest) ++ bytes_of ":" ++ front), c.
    split; [done|]. rewrite <- !(assoc_L (++)). by destruct Hb.
Qed.

(** One field, its key and its value. *)
Lemma field_split key raw b c front rest :
  bytes_of raw = front ++ [c] → solid c → bytes_of key = b :: rest → solid b → Byte.x3d ∉ bytes_of key →
  trim (text_of (bytes_of key ++ Byte.x3d :: bytes_of raw)) = text_of (bytes_of key ++ Byte.x3d :: bytes_of raw) ∧
  split_once Byte.x3d (bytes_of (text_of (bytes_of key ++ Byte.x3d :: bytes_of raw))) =
    Some (bytes_of key, bytes_of raw).
Proof.
  intros Hraw Hc Hkey Hb Hn. split.
  - eapply (trim_solid _ b c (bytes_of key ++ Byte.x3d :: front)); rewrite ?bytes_of_text; [by rewrite Hkey| |done..].
    by rewrite Hraw, <- (assoc_L (++)).
  - rewrite bytes_of_text. by apply split_once_app.
Qed.

Lemma listen_field value l addr adv :
  parse_socket_addr l = Some addr →
  listener_field value (bytes_of "listen" ++ Byte.x3d :: bytes_of l) (None, adv) = Ok (Some addr, adv).
Proof.
  intros Hl. pose proof (parsed_socket_bytes _ _ Hl) as [Hall Hne].
  destruct (exists_last Hne) as (front & c & Hc). rewrite Hc in Hall.
  apply Forall_app in Hall as [_ Hsc%Forall_inv%address_byte_solid].
  destruct (field_split "listen" l Byte.x6c c front (bytes_of "isten")) as [Ht Hs];
    [done|apply Hsc|done|apply (bool_decide_unpack _); vm_compute; exact I|apply (bool_decide_unpack _); vm_compute; exact I|].
  unfold listener_field. rewrite Ht, Hs, !text_of_bytes.
  rewrite (parsed_socket_trim _ _ Hl). rewrite decide_True by (vm_compute; reflexivity). by rewrite Hl.
Qed.

Lemma advertised_field value a addr :
  AdvertisedAddress_from_str (AdvertisedAddress_to_string a) = Ok a → printable a →
  listener_field value (bytes_of "advertised" ++ Byte.x3d :: bytes_of (AdvertisedAddress_to_string a)) (addr, None)
    = Ok (addr, Some a).
Proof.
  intros Ha Hp. destruct (printed_ends a Hp) as (b & rest & front & c & Hb & Hc & Hsb & Hsc).
  destruct (field_split "advertised" (AdvertisedAddress_to_string a) Byte.x61 c front (bytes_of "dvertised"))
    as [Ht Hs]; [done..|apply (bool_decide_unpack _); vm_compute; exact I|apply (bool_decide_unpack _); vm_compute; exact I|].
  unfold listener_field. rewrite Ht, Hs, !text_of_bytes.
  rewrite (trim_solid _ _ _ _ _ Hb Hc Hsb Hsc).
  rewrite decide_False by (vm_compute; discriminate). rewrite decide_True by (vm_compute; reflexivity).
  by rewrite Ha.
Qed.

Lemma printed_no_comma a :
  Byte.x2c ∉ bytes_of (host a) → Byte.x2c ∉ bytes_of (AdvertisedAddress_to_string a).
Proof.
  intros Hh. destruct (pretty_bytes (Z.to_N (port a))) as [Hd _].
  assert (Byte.x2c ∉ bytes_of (pretty (Z.to_N (port a)))) as Hp.
  { rewrite Forall_forall in Hd. intros Hin. by destruct (Hd _ Hin) as (_ & ? & _). }
  unfold AdvertisedAddress_to_string. case_decide; rewrite !text_bytes_app, !not_elem_of_app; split_and!; try done;
    apply (bool_decide_unpack _); vm_compute; exact I.
Qed.

Lemma parsed_socket_no_comma l addr : parse_socket_addr l = Some addr → Byte.x2c ∉ bytes_of l.
Proof.
  intros [Hall _]%parsed_socket_bytes Hin. rewrite Forall_forall in Hall.
  by destruct (address_byte_solid _ (Hall _ Hin)).
Qed.

(** ** The configuration *)

(** The command line accepts only positive partition counts; the server then gets
    a configuration, and one with a listener. *)
Lemma Config_from_total cli :
  cli_default_partitions cli ≠ 0 →
  ∃ config, Config_from cli = Some config ∧ kafka_listeners config ≠ [] ∧
    default_partitions config = cli_default_partitions cli.
Proof.
  intros Hn. unfold Config_from. rewrite decide_False by done. eexists. split; [done|].
  cbn. by destruct (kafka_listener cli).
Qed.

(** The texts of the configuration.  An address made by [AdvertisedAddress::new]
    with a port of 16 bits prints to a text that parses back to it, provided that
    its host contains a colon or starts with an ASCII character that is neither
    white space nor an opening bracket.  A listener is read from its socket
    address alone, and from both fields in either order, with the same result,
    when its host has no comma. *)
Theorem listener_roundtrip (h l : string) (p : Z) (a : AdvertisedAddress) (addr : SocketAddr) :
  AdvertisedAddress_new h p = Ok a → 0 ≤ p ≤ 65535 → printable a →
  parse_socket_addr l = Some addr → Byte.x2c ∉ bytes_of (host a) →
  AdvertisedAddress_from_str (AdvertisedAddress_to_string a) = Ok a ∧
  KafkaListener_from_str ("listen=" +:+ l) = Ok (mkKafkaListener addr None) ∧
  KafkaListener_from_str ("listen=" +:+ l +:+ ",advertised=" +:+ AdvertisedAddress_to_string a) =
    Ok (mkKafkaListener addr (Some a)) ∧
  KafkaListener_from_str ("advertised=" +:+ AdvertisedAddress_to_string a +:+ ",listen=" +:+ l) =
    Ok (mkKafkaListener addr (Some a)).
Proof.
  intros Hnew Hp Hprint Hl Hcomma. destruct (new_Ok _ _ _ Hnew) as (<- & _).
  pose proof (address_parses a h Hnew Hp Hprint) as Ha. split; [done|].
  pose proof (printed_no_comma a Hcomma) as Hac. pose proof (parsed_socket_no_comma l addr Hl) as Hlc.
  assert (Byte.x2c ∉ bytes_of "listen" ++ Byte.x3d :: bytes_of l) as Hlf.
  { apply not_elem_of_app. split; [apply (bool_decide_unpack _); vm_compute; exact I|]. by apply not_elem_of_cons. }
  assert (Byte.x2c ∉ bytes_of "advertised" ++ Byte.x3d :: bytes_of (AdvertisedAddress_to_string a)) as Haf.
  { apply not_elem_of_app. split; [apply (bool_decide_unpack _); vm_compute; exact I|]. by apply not_elem_of_cons. }
  unfold KafkaListener_from_str. rewrite !text_bytes_app.
  change (bytes_of "listen=") with (bytes_of "listen" ++ [Byte.x3d]).
  change (bytes_of "advertised=") with (bytes_of "advertised" ++ [Byte.x3d]).
  change (bytes_of ",listen=") with (Byte.x2c :: bytes_of "listen" ++ [Byte.x3d]).
  change (bytes_of ",advertised=") with (Byte.x2c :: bytes_of "advertised" ++ [Byte.x3d]).
  split_and!.
  - rewrite <- (assoc_L (++)). cbn [app]. rewrite split_none by done. cbn [listener_fields].
    by rewrite (listen_field _ l addr None Hl).
  - rewrite split_two by done. cbn [listener_fields]. rewrite (listen_field _ l addr None Hl).
    cbn [mbind result_bind]. by rewrite (advertised_field _ a (Some addr) Ha Hprint).
  - rewrite split_two by done. cbn [listener_fields]. rewrite (advertised_field _ a None Ha Hprint).
    cbn [mbind result_bind]. by rewrite (listen_field _ l addr (Some a) Hl).
Qed.

Lemma listener_roundtrip_witness :
  KafkaListener_from_str "advertised=[::1]:9093,listen=127.0.0.1:9092" =
    Ok (mkKafkaListener (SocketAddrV4 [127; 0; 0; 1] 9092) (Some (mkAdvertisedAddress "::1" 9093))).
Proof.
  apply (listener_roundtrip " ::1 " "127.0.0.1:9092" 9093 (mkAdvertisedAddress "::1" 9093)
    (SocketAddrV4 [127; 0; 0; 1] 9092)).
  - vm_compute. reflexivity.
  - lia.
  - left. apply (bool_decide_unpack _). vm_compute. exact I.
  - vm_compute. reflexivity.
  - apply (bool_decide_unpack _). vm_compute. exact I.
Defined.

End ConfigCorrect.
