(* ===== verification/CodegenSpec.v ===== *)
(** * The message generator: schemas

    [src/crates/kafka-protocol/protocol_codegen/src/generate_messages/spec.rs]:
    the schema of a message as the generator reads it, the algebra of version
    specifications, the primitive types and their names in the generated code,
    and the textual forms of version and type specifications; the command line of
    [main.rs]; and the repair of tag fields of [parse.rs].

    The JSON reader belongs to other crates: a schema is given as a [Spec].

    The theorem of the file is [intersect_correct]: the version algebra, on which
    every generated condition depends, computes intersections and containment of
    sets of versions. *)

From S2P Require Import Prelude Text.
From stdpp Require Import pretty.
Import Text.
Open Scope Z_scope.

Module CodegenSpec.

(** ** Version specifications *)

(* @ src/crates/kafka-protocol/protocol_codegen/src/generate_messages/spec.rs 87-101 VersionSpec *)
Inductive VersionSpec : Type :=
| VNone
| Exact (v : Z)
| Since (v : Z)
| Range (first last : Z).

#[export] Instance VersionSpec_eq_dec : EqDecision VersionSpec.
Proof. solve_decision. Defined.

(* @ src/crates/kafka-protocol/protocol_codegen/src/generate_messages/spec.rs 105-120 VersionSpec::intersect *)
Definition intersect (self other : VersionSpec) : VersionSpec :=
  match self, other with
  | Exact a, Exact b => if decide (a = b) then Exact a else VNone
  | Exact a, Since b | Since b, Exact a => if decide (b ≤ a) then Exact a else VNone
  | Exact v, Range a b | Range a b, Exact v => if decide (a ≤ v ≤ b) then Exact v else VNone
  | Since a, Since b => Since (Z.max a b)
  | Since v, Range a b | Range a b, Since v =>
      if decide (b = v) then Exact v
      else if decide (v < b) then Range (Z.max a v) b
      else VNone
  | Range a b, Range c d =>
      if decide (c = b) then Exact b
      else if decide (a = d) then Exact a
      else if decide (c < b ∧ a < d) then Range (Z.max a c) (Z.min b d)
      else VNone
  | _, _ => VNone
  end.

(* @ src/crates/kafka-protocol/protocol_codegen/src/generate_messages/spec.rs 121-123 VersionSpec::contains *)
Definition contains (self other : VersionSpec) : bool :=
  bool_decide (intersect other self = other).

(* @ src/crates/kafka-protocol/protocol_codegen/src/generate_messages/spec.rs 124-131 VersionSpec::range *)
Definition range (self : VersionSpec) : option (Z * Z) :=
  match self with
  | VNone => None
  | Since _ => None
  | Exact v => Some (v, v)
  | Range a b => Some (a, b)
  end.

(* @ src/crates/kafka-protocol/protocol_codegen/src/generate_messages/spec.rs 237-241 VersionSpec::is_none *)
Definition is_none (self : VersionSpec) : bool :=
  match self with VNone => true | _ => false end.

(** The derived [Display]. *)
(* @ src/crates/kafka-protocol/protocol_codegen/src/generate_messages/spec.rs 86-101 VersionSpec *)
Definition display_versions (self : VersionSpec) : string :=
  match self with
  | VNone => "none"
  | Exact v => pretty v
  | Since v => pretty v +:+ "+"
  | Range a b => pretty a +:+ "-" +:+ pretty b
  end.

(** A match of [\d+], read as an [i16]. *)
Definition parse_version (digits : list byte) : option Z :=
  if bool_decide (digits = []) then None
  else z ← parse_digits digits 0; if decide (z ≤ i16_max) then Some z else None.

(** The derived [FromStr], from the regular expressions of the attributes. *)
(* @ src/crates/kafka-protocol/protocol_codegen/src/generate_messages/spec.rs 88-101 VersionSpec *)
Definition parse_versions (s : string) : option VersionSpec :=
  if decide (s = "none") then Some VNone
  else match split_once Byte.x2d (bytes_of s) with
  | Some (a, b) => a ← parse_version a; b ← parse_version b; Some (Range a b)
  | None =>
      match split_once Byte.x2b (bytes_of s) with
      | Some (a, []) => Since <$> parse_version a
      | Some _ => None
      | None => Exact <$> parse_version (bytes_of s)
      end
  end.

(** ** Types *)

(* @ src/crates/kafka-protocol/protocol_codegen/src/generate_messages/spec.rs 134-148 PrimitiveType *)
Inductive PrimitiveType : Type :=
| PBool | PInt8 | PInt16 | PUint16 | PInt32 | PInt64 | PFloat64
| PString | PBytes | PRecords | PUuid.

#[export] Instance PrimitiveType_eq_dec : EqDecision PrimitiveType.
Proof. solve_decision. Defined.

(** The derived [Display] and [FromStr] (camel case). *)
Definition display_primitive (p : PrimitiveType) : string :=
  match p with
  | PBool => "bool" | PInt8 => "int8" | PInt16 => "int16" | PUint16 => "uint16"
  | PInt32 => "int32" | PInt64 => "int64" | PFloat64 => "float64" | PString => "string"
  | PBytes => "bytes" | PRecords => "records" | PUuid => "uuid"
  end.

Definition primitives : list PrimitiveType :=
  [PBool; PInt8; PInt16; PUint16; PInt32; PInt64; PFloat64; PString; PBytes; PRecords; PUuid].

Definition parse_primitive (s : string) : option PrimitiveType :=
  snd <$> list_find (λ p, display_primitive p = s) primitives.

(* @ src/crates/kafka-protocol/protocol_codegen/src/generate_messages/spec.rs 153-167 PrimitiveType::rust_name *)
Definition primitive_rust_name (p : PrimitiveType) : string :=
  match p with
  | PBool => "bool"
  | PInt8 => "i8"
  | PInt16 => "i16"
  | PUint16 => "u16"
  | PInt32 => "i32"
  | PInt64 => "i64"
  | PFloat64 => "f64"
  | PString => "StrBytes"
  | PBytes | PRecords => "Bytes"
  | PUuid => "Uuid"
  end.

(* @ src/crates/kafka-protocol/protocol_codegen/src/generate_messages/spec.rs 168-193 PrimitiveType::name *)
Definition primitive_name (p : PrimitiveType) (flexible : bool) : string :=
  match p with
  | PBool => "types::Boolean"
  | PInt8 => "types::Int8"
  | PInt16 => "types::Int16"
  | PUint16 => "types::UInt16"
  | PInt32 => "types::Int32"
  | PInt64 => "types::Int64"
  | PFloat64 => "types::Float64"
  | PString => if flexible then "types::CompactString" else "types::String"
  | PBytes | PRecords => if flexible then "types::CompactBytes" else "types::Bytes"
  | PUuid => "types::Uuid"
  end.

(* @ src/crates/kafka-protocol/protocol_codegen/src/generate_messages/spec.rs 194-196 PrimitiveType::is_copy *)
Definition is_copy (p : PrimitiveType) : bool :=
  match p with PString | PBytes | PRecords => false | _ => true end.

(* @ src/crates/kafka-protocol/protocol_codegen/src/generate_messages/spec.rs 197-199 PrimitiveType::has_compact_form *)
Definition primitive_has_compact_form (p : PrimitiveType) : bool := negb (is_copy p).

(* @ src/crates/kafka-protocol/protocol_codegen/src/generate_messages/spec.rs 202-207 TypeSpec *)
Inductive TypeSpec : Type :=
| TPrimitive (p : PrimitiveType)
| TStruct (name : string)
| TArray (elem : TypeSpec).

(** Every level removes two bytes, so the length of the text is enough fuel. *)
(* @ src/crates/kafka-protocol/protocol_codegen/src/generate_messages/spec.rs 209-221 TypeSpec::from_str *)
Fixpoint parse_type_loop (fuel : nat) (s : string) : option TypeSpec :=
  match fuel with
  | O => None
  | S fuel =>
      let s := trim s in
      match strip_prefix [Byte.x5b; Byte.x5d] (bytes_of s) with
      | Some stripped => TArray <$> parse_type_loop fuel (text_of stripped)
      | None =>
          match parse_primitive s with
          | Some prim => Some (TPrimitive prim)
          | None => Some (TStruct s)
          end
      end
  end.

Definition parse_type (s : string) : option TypeSpec :=
  parse_type_loop (S (String.length s)) s.

(* @ src/crates/kafka-protocol/protocol_codegen/src/generate_messages/spec.rs 223-231 TypeSpec::fmt *)
Fixpoint display_type (t : TypeSpec) : string :=
  match t with
  | TPrimitive prim => display_primitive prim
  | TStruct name => name
  | TArray inner => "[]" +:+ display_type inner
  end.

(** ** Schemas *)

(* @ src/crates/kafka-protocol/protocol_codegen/src/generate_messages/spec.rs 77-84 SpecType *)
Inductive SpecType : Type := SHeader | SRequest | SResponse | SData.

#[export] Instance SpecType_eq_dec : EqDecision SpecType.
Proof. solve_decision. Defined.

(** A JSON value as a default: a string, or any other value with its text. *)
Inductive DefaultValue : Type :=
| DString (s : string)
| DOther (text : string).

(* @ src/crates/kafka-protocol/protocol_codegen/src/generate_messages/spec.rs 33-61 FieldSpec *)
Inductive FieldSpec : Type := mkFieldSpec {
  fs_name : string;
  fs_type : TypeSpec;
  fs_versions : VersionSpec;
  fs_tag : option Z;
  fs_tagged_versions : VersionSpec;
  fs_nullable_versions : VersionSpec;
  fs_default : option DefaultValue;
  fs_ignorable : bool;
  fs_entity_type : option string;
  fs_about : string;
  fs_fields : list FieldSpec;
  fs_flexible_versions : option VersionSpec
}.

(* @ src/crates/kafka-protocol/protocol_codegen/src/generate_messages/spec.rs 63-69 StructSpec *)
Record StructSpec : Type := mkStructSpec {
  ss_name : string;
  ss_versions : VersionSpec;
  ss_fields : list FieldSpec
}.

(** The fields the generator reads; the listeners and the flag for an unstable
    latest version are only passed on. *)
(* @ src/crates/kafka-protocol/protocol_codegen/src/generate_messages/spec.rs 10-31 Spec *)
Record Spec : Type := mkSpec {
  sp_api_key : option Z;
  sp_deprecated_versions : VersionSpec;
  sp_type : SpecType;
  sp_name : string;
  sp_valid_versions : VersionSpec;
  sp_flexible_versions : VersionSpec;
  sp_fields : list FieldSpec;
  sp_common_structs : list StructSpec
}.

(** ** Tags given as strings *)

Inductive Json : Type :=
| JNull
| JBool (b : bool)
| JNumber (z : Z)
| JString (s : string)
| JArray (l : list Json)
| JObject (members : list (string * Json)).

(** [if tag.is_string() { *tag = parse::<i32>() }]. *)
(* @ src/crates/kafka-protocol/protocol_codegen/src/generate_messages/parse.rs 34-38 convert_tag_to_number *)
Definition convert_tag (tag : Json) : option Json :=
  match tag with
  | JString s => JNumber <$> parse_i32 s
  | _ => Some tag
  end.

(** [in_fields] is whether the value is an element of a field list, whose own tag
    is repaired before its fields are. *)
(* @ src/crates/kafka-protocol/protocol_codegen/src/generate_messages/parse.rs 31-44 convert_tag_to_number *)
Fixpoint convert_tag_to_number (in_fields : bool) (object : Json) : option Json :=
  match object with
  | JObject members =>
      JObject <$> (fix go (members : list (string * Json)) : option (list (string * Json)) :=
        match members with
        | [] => Some []
        | (key, value) :: members =>
            value ←
              (if decide (key = "fields") then
                 match value with
                 | JArray fields =>
                     JArray <$> (fix each (fields : list Json) : option (list Json) :=
                       match fields with
                       | [] => Some []
                       | field :: fields =>
                           field ← convert_tag_to_number true field;
                           fields ← each fields; Some (field :: fields)
                       end) fields
                 | _ => None
                 end
               else if decide (in_fields = true ∧ key = "tag") then convert_tag value
               else Some value);
            members ← go members; Some ((key, value) :: members)
        end) members
  | _ => None
  end.

(** ** The command line *)

(* @ src/crates/kafka-protocol/protocol_codegen/src/main.rs 13-17 CliArgs *)
Record CliArgs : Type := mkCliArgs { schema_dir : string; output_dir : string }.

(** The message of an error; the usage line is printed after it. *)
(* @ src/crates/kafka-protocol/protocol_codegen/src/main.rs 39-58 parse_args *)
Fixpoint parse_args_loop (arguments : list string) (schema output : option string) :
    result string (option string * option string) :=
  match arguments with
  | [] => Ok (schema, output)
  | argument :: arguments =>
      let for_schema := bool_decide (argument = "--schema-dir") in
      if negb for_schema && negb (bool_decide (argument = "--output-dir")) then
        Err ("unknown argument: " +:+ argument)
      else
        let target := if for_schema then schema else output in
        if bool_decide (is_Some target) then Err ("duplicate argument: " +:+ argument)
        else
          match arguments with
          | [] => Err ("missing value for argument: " +:+ argument)
          | value :: arguments =>
              if String.prefix "--" value then Err ("missing value for argument: " +:+ argument)
              else if for_schema then parse_args_loop arguments (Some value) output
              else parse_args_loop arguments schema (Some value)
          end
  end.

(* @ src/crates/kafka-protocol/protocol_codegen/src/main.rs 34-66 parse_args *)
Definition parse_args (arguments : list string) : result string CliArgs :=
  dirs ← parse_args_loop arguments None None;
  schema ← ok_or dirs.1 "missing required argument: --schema-dir";
  output ← ok_or dirs.2 "missing required argument: --output-dir";
  Ok (mkCliArgs schema output).

(** ** Versions as sets *)

#[export] Instance version_elem_of : ElemOf Z VersionSpec := λ v s,
  match s with
  | VNone => False
  | Exact a => v = a
  | Since a => a ≤ v
  | Range a b => a ≤ v ≤ b
  end.

#[export] Instance version_elem_of_dec (v : Z) (s : VersionSpec) : Decision (v ∈ s).
Proof. destruct s; cbn; apply _. Defined.

(** A range has at least two versions; [Exact] is used for one. *)
Definition canonical (s : VersionSpec) : Prop :=
  match s with Range a b => a < b | _ => True end.

#[export] Instance canonical_dec s : Decision (canonical s).
Proof. destruct s; cbn; apply _. Defined.

Ltac versions :=
  unfold elem_of, version_elem_of in *; cbn [canonical] in *;
  repeat case_decide; cbn [canonical] in *; try lia.

Lemma canonical_intersect s t : canonical s → canonical t → canonical (intersect s t).
Proof. destruct s, t; cbn [intersect canonical]; intros; versions. Qed.

Lemma elem_of_intersect v s t :
  canonical s → canonical t → v ∈ intersect s t ↔ v ∈ s ∧ v ∈ t.
Proof. destruct s, t; cbn [intersect]; intros; versions. Qed.

(** A canonical specification is determined by its versions. *)
Lemma canonical_ext s t :
  canonical s → canonical t → (∀ v, v ∈ s ↔ v ∈ t) → s = t.
Proof.
  destruct s as [|a|a|a b], t as [|c|c|c d]; cbn; intros Hs Ht H; try done;
    unfold elem_of, version_elem_of in H.
  all: try (pose proof (H a)); try (pose proof (H c)); try (pose proof (H b));
    try (pose proof (H d)); try (pose proof (H (a + 1))); try (pose proof (H (c + 1)));
    try (pose proof (H (b + 1))); try (pose proof (H (d + 1))); try (exfalso; lia);
    f_equal; lia.
Qed.

Lemma contains_spec s t :
  canonical s → canonical t → contains s t = true ↔ ∀ v, v ∈ t → v ∈ s.
Proof.
  intros Hs Ht. unfold contains. rewrite bool_decide_eq_true. split.
  - intros Heq v Hv. rewrite <- Heq in Hv. by apply elem_of_intersect in Hv as [].
  - intros Hsub. apply canonical_ext; [by apply canonical_intersect|done|].
    intros v. rewrite elem_of_intersect by done. naive_solver.
Qed.
(** The version algebra of the generator.  On specifications in which a range
    has at least two versions, [intersect] is the intersection of the sets of
    versions, in the same form again; [contains] decides inclusion; [range] gives
    the bounds of a bounded set; and two specifications with the same versions
    are the same. *)
Theorem intersect_correct (s t : VersionSpec) :
  canonical s → canonical t →
  canonical (intersect s t) ∧
  (∀ v, v ∈ intersect s t ↔ v ∈ s ∧ v ∈ t) ∧
  (contains s t = true ↔ ∀ v, v ∈ t → v ∈ s) ∧
  (∀ a b, range s = Some (a, b) → ∀ v, v ∈ s ↔ a ≤ v ≤ b) ∧
  ((∀ v, v ∈ s ↔ v ∈ t) → s = t).
Proof.
  intros Hs Ht. split_and!.
  - by apply canonical_intersect.
  - intros v. by apply elem_of_intersect.
  - by apply contains_spec.
  - destruct s; cbn; intros a b [= <- <-] u; unfold elem_of, version_elem_of; lia.
  - by apply canonical_ext.
Qed.

Lemma intersect_correct_witness :
  intersect (Range 4 12) (Since 9) = Range 9 12 ∧
  (contains (Since 9) (Range 4 12) = true ↔ ∀ v, v ∈ Range 4 12 → v ∈ Since 9) ∧
  canonical (intersect (Range 4 12) (Range 12 15)).
Proof.
  split; [reflexivity|]. split.
  - apply (intersect_correct (Since 9) (Range 4 12)); vm_compute; auto.
  - apply (intersect_correct (Range 4 12) (Range 12 15)); vm_compute; auto.
Defined.


(** ** The textual forms *)

Definition version_number (v : Z) : Prop := 0 ≤ v ≤ i16_max.

(** The versions are [i16]s that the regular expressions can match. *)
Definition versions_printable (s : VersionSpec) : Prop :=
  match s with
  | VNone => True
  | Exact v | Since v => version_number v
  | Range a b => version_number a ∧ version_number b
  end.

Lemma parse_version_pretty v : version_number v → parse_version (bytes_of (pretty v)) = Some v.
Proof.
  intros [? ?]. unfold parse_version. rewrite bool_decide_false by (by apply pretty_nonempty).
  rewrite pretty_digits by done. cbn. by rewrite decide_True.
Qed.

Lemma display_not_none v s : version_number v → pretty v +:+ s ≠ "none".
Proof.
  intros [Hv _] Heq. apply (f_equal bytes_of) in Heq. rewrite string_bytes_app in Heq.
  pose proof (pretty_nonempty v Hv). pose proof (pretty_free Byte.x6e v Hv eq_refl) as Hn.
  destruct (bytes_of (pretty v)) as [|b bs]; [done|]. cbn in Heq. injection Heq as -> _. set_solver.
Qed.

Lemma parse_display_versions s : versions_printable s → parse_versions (display_versions s) = Some s.
Proof.
  destruct s as [|v|v|a b]; cbn [display_versions versions_printable]; [done|..]; intros Hv;
    unfold parse_versions.
  - rewrite decide_False by (rewrite <- (text_app_nil (pretty v)); by apply display_not_none).
    destruct Hv as [Hv ?].
    rewrite !split_once_free, parse_version_pretty by (done || by apply pretty_free). done.
  - rewrite decide_False by by apply display_not_none.
    rewrite string_bytes_app. destruct Hv as [Hv ?]. rewrite split_once_free.
    + change (bytes_of "+") with [Byte.x2b].
      rewrite split_once_app by by apply pretty_free. by rewrite parse_version_pretty.
    + apply not_elem_of_app. split; [by apply pretty_free|set_solver].
  - destruct Hv as [Ha Hb].
    rewrite decide_False by by apply display_not_none.
    rewrite !string_bytes_app. change (bytes_of "-") with [Byte.x2d]. cbn [app].
    rewrite split_once_app by (apply pretty_free; [apply Ha|done]).
    by rewrite !parse_version_pretty.
Qed.

(** A struct name the generator can tell from the other types. *)
Definition struct_name (name : string) : Prop :=
  (∃ b rest front c, bytes_of name = b :: rest ∧ bytes_of name = front ++ [c] ∧
    solid b ∧ solid c ∧ b ≠ Byte.x5b) ∧
  parse_primitive name = None.

Fixpoint type_printable (t : TypeSpec) : Prop :=
  match t with
  | TPrimitive _ => True
  | TStruct name => struct_name name
  | TArray inner => type_printable inner
  end.

Lemma display_type_ends t :
  type_printable t → ∃ b rest front c, bytes_of (display_type t) = b :: rest ∧
    bytes_of (display_type t) = front ++ [c] ∧ solid b ∧ solid c.
Proof.
  induction t as [p|name|t IH]; cbn [type_printable display_type].
  - intros _. destruct p; do 4 eexists;
      (split_and!; [reflexivity|by apply (app_removelast_last Byte.x00)| |]; by vm_compute; repeat constructor).
  - intros [(b & rest & front & c & ? & ? & ? & ? & _) _]. by exists b, rest, front, c.
  - intros (b & rest & front & c & Hb & Hc & ? & ?)%IH. rewrite string_bytes_app, Hc.
    exists Byte.x5b, (Byte.x5d :: front ++ [c]), (Byte.x5b :: Byte.x5d :: front), c.
    split_and!; [done..|by vm_compute; repeat constructor|done].
Qed.

Lemma parse_type_display_loop fuel t :
  type_printable t → (String.length (display_type t) < fuel)%nat →
  parse_type_loop fuel (display_type t) = Some t.
Proof.
  revert t. induction fuel as [|fuel IH]; intros t Ht Hf; [lia|]. cbn [parse_type_loop].
  destruct (display_type_ends t Ht) as (b & rest & front & c & Hb & Hc & Hsb & Hsc).
  rewrite (trim_solid _ _ _ _ _ Hb Hc Hsb Hsc).
  destruct t as [p|name|t]; cbn [type_printable display_type] in *.
  - by destruct p.
  - destruct Ht as [(b' & rest' & _ & _ & Hb' & _ & _ & _ & Hne) Hp]. rewrite Hb', Hp.
    cbn [strip_prefix]. by rewrite bool_decide_false by done.
  - rewrite string_bytes_app. change (bytes_of "[]" ++ ?l) with (Byte.x5b :: Byte.x5d :: l).
    cbn [strip_prefix]. rewrite !bool_decide_true, text_of_bytes by done.
    rewrite IH; [done..|]. change (String.length _) with (S (S (String.length (display_type t)))) in Hf. lia.
Qed.

(** The textual forms of the schemas.  What [Display] prints of a version
    specification or of a type [FromStr] reads back: the versions are those a
    schema can have, and the names of structs are neither primitive types nor
    arrays nor padded with white space. *)
Theorem spec_text_roundtrip (s : VersionSpec) (t : TypeSpec) :
  versions_printable s → type_printable t →
  parse_versions (display_versions s) = Some s ∧ parse_type (display_type t) = Some t.
Proof.
  intros Hs Ht. split; [by apply parse_display_versions|].
  apply parse_type_display_loop; [done|lia].
Qed.

(** A value that the command line accepts. *)
Definition plain_value (v : string) : Prop := String.prefix "--" v = false.

(** One option of the command line. *)
Lemma parse_args_step arguments s o r :
  parse_args_loop arguments s o = Ok r →
  (arguments = [] ∧ r = (s, o)) ∨
  ∃ v rest, plain_value v ∧
    ((arguments = "--schema-dir" :: v :: rest ∧ s = None ∧ parse_args_loop rest (Some v) o = Ok r) ∨
     (arguments = "--output-dir" :: v :: rest ∧ o = None ∧ parse_args_loop rest s (Some v) = Ok r)).
Proof.
  destruct arguments as [|a arguments]; cbn [parse_args_loop]; [naive_solver|].
  destruct (decide (a = "--schema-dir")) as [->|Hs].
  - rewrite bool_decide_true by done. cbn. destruct s; [done|]. cbn.
    destruct arguments as [|v rest]; [done|]. destruct (String.prefix "--" v) eqn:Hv; [done|].
    intros Hr. right. exists v, rest. eauto.
  - rewrite (bool_decide_false (a = _)) by done. cbn.
    destruct (decide (a = "--output-dir")) as [->|Ho]; [|by rewrite bool_decide_false].
    cbn. destruct o; [done|]. cbn.
    destruct arguments as [|v rest]; [done|]. destruct (String.prefix "--" v) eqn:Hv; [done|].
    intros Hr. right. exists v, rest. eauto.
Qed.

(** The command line is accepted exactly when it gives both directories, once
    each, in either order. *)
Lemma parse_args_correct arguments c :
  parse_args arguments = Ok c ↔
  plain_value (schema_dir c) ∧ plain_value (output_dir c) ∧
  (arguments = ["--schema-dir"; schema_dir c; "--output-dir"; output_dir c] ∨
   arguments = ["--output-dir"; output_dir c; "--schema-dir"; schema_dir c]).
Proof.
  unfold parse_args. split.
  - intros ([s o] & Hloop & (s' & Hs & (o' & Ho & [= <-])%result_bind_Ok)%result_bind_Ok)%result_bind_Ok.
    cbn in *. destruct s as [s|]; [|done]. destruct o as [o|]; [|done].
    injection Hs as ->. injection Ho as ->.
    repeat match goal with
    | H : parse_args_loop _ _ _ = Ok _ |- _ =>
        apply parse_args_step in H as [[-> ?]|(? & ? & ? & [(-> & ? & H)|(-> & ? & H)])];
        simplify_eq
    end; auto.
  - destruct c as [s o]; cbn. intros (Hs & Ho & [-> | ->]); cbn; by rewrite Hs, Ho.
Qed.
End CodegenSpec.
