(* ===== verification/CodegenWriter.v ===== *)
(** * The message generator: writing code

    [src/crates/kafka-protocol/protocol_codegen/src/generate_messages/]:
    [code_writer.rs], the writer that indents blocks, and [expr.rs], the
    expressions of the generated code with their precedence.

    The generator of [CodegenGenerate] is modelled by the calls it makes on its
    writer: a piece of text, or a block that contains calls ([out]); [run] carries
    them out on a [CodeWriter].  [write!] hands its arguments to the writer piece
    by piece; [write_app] is why one call with the whole text is the same, and
    [run_squash] that the writer adds nothing but white space and braces. *)

From S2P Require Import Prelude Text.
Open Scope Z_scope.

Module CodegenWriter.

(** ** [CodeWriter] *)

Definition newline : Ascii.ascii := Ascii.ascii_of_nat 10.
Definition nl : string := String newline "".

(* @ src/crates/kafka-protocol/protocol_codegen/src/generate_messages/code_writer.rs 5-9 CodeWriter *)
Record CodeWriter : Type := mkCodeWriter {
  inner : string;
  indent : nat;
  new_line : bool
}.

(* @ src/crates/kafka-protocol/protocol_codegen/src/generate_messages/code_writer.rs 12-18 CodeWriter::new *)
Definition new : CodeWriter := mkCodeWriter "" 0 true.

Fixpoint indentation (n : nat) : string :=
  match n with O => "" | S n => "    " +:+ indentation n end.

(** The loop over the bytes: [rest] is what is left of them and [pending] the
    slice from [start_byte] to the current one. *)
(* @ src/crates/kafka-protocol/protocol_codegen/src/generate_messages/code_writer.rs 41-61 CodeWriter::write *)
Fixpoint write_loop (rest pending : string) (w : CodeWriter) : CodeWriter :=
  match rest with
  | EmptyString =>
      if decide (pending = "") then w else mkCodeWriter (inner w +:+ pending) (indent w) (new_line w)
  | String b rest =>
      if decide (b = newline) then
        write_loop rest (pending +:+ String b "") (mkCodeWriter (inner w) (indent w) true)
      else if new_line w then
        write_loop rest (String b "")
          (mkCodeWriter ((inner w +:+ pending) +:+ indentation (indent w)) (indent w) false)
      else write_loop rest (pending +:+ String b "") w
  end.

(* @ src/crates/kafka-protocol/protocol_codegen/src/generate_messages/code_writer.rs 40-61 CodeWriter::write *)
Definition write (buf : string) (w : CodeWriter) : CodeWriter := write_loop buf "" w.

(* @ src/crates/kafka-protocol/protocol_codegen/src/generate_messages/code_writer.rs 19-24 CodeWriter::indent *)
Definition with_indent (f : CodeWriter → CodeWriter) (w : CodeWriter) : CodeWriter :=
  let w := f (mkCodeWriter (inner w) (S (indent w)) (new_line w)) in
  mkCodeWriter (inner w) (pred (indent w)) (new_line w).

(* @ src/crates/kafka-protocol/protocol_codegen/src/generate_messages/code_writer.rs 25-33 CodeWriter::block *)
Definition block (f : CodeWriter → CodeWriter) (w : CodeWriter) : CodeWriter :=
  let w := write ("{" +:+ nl) w in
  let w := with_indent f w in
  let w := if new_line w then w else write nl w in
  write "}" w.

(** The calls of a generator function on its writer. *)
Inductive out : Type :=
| Write (s : string)
| Block (body : list out).

Fixpoint run (o : out) (w : CodeWriter) : CodeWriter :=
  match o with
  | Write s => write s w
  | Block body => block (λ w, fold_left (λ w o, run o w) body w) w
  end.
Definition run_all (os : list out) (w : CodeWriter) : CodeWriter :=
  fold_left (λ w o, run o w) os w.

(** What a generator writes to a fresh writer. *)
Definition render (os : list out) : string := inner (run_all os new).

(** ** Expressions *)

(* @ src/crates/kafka-protocol/protocol_codegen/src/generate_messages/expr.rs 4-22 Precedence *)
Inductive Precedence : Type :=
| Assignment | PRange | LogicalOr | LogicalAnd | Comparison | BitwiseOr | BitwiseXor
| BitwiseAnd | Shift | AddSub | MulDivMod | Cast | Unary | Suffix | Term.

(** The derived order. *)
Definition rank (p : Precedence) : nat :=
  match p with
  | Assignment => 0 | PRange => 1 | LogicalOr => 2 | LogicalAnd => 3 | Comparison => 4
  | BitwiseOr => 5 | BitwiseXor => 6 | BitwiseAnd => 7 | Shift => 8 | AddSub => 9
  | MulDivMod => 10 | Cast => 11 | Unary => 12 | Suffix => 13 | Term => 14
  end.

(* @ src/crates/kafka-protocol/protocol_codegen/src/generate_messages/expr.rs 24-28 RefType *)
Inductive RefType : Type := Ref | Mut.

(* @ src/crates/kafka-protocol/protocol_codegen/src/generate_messages/expr.rs 30-38 CmpType *)
Inductive CmpType : Type := Eq | Ne | Lt | Ge | Le | Gt.

(* @ src/crates/kafka-protocol/protocol_codegen/src/generate_messages/expr.rs 41-51 CmpType::inverse *)
Definition inverse (op : CmpType) : CmpType :=
  match op with Eq => Ne | Ne => Eq | Lt => Ge | Ge => Lt | Le => Gt | Gt => Le end.

(* @ src/crates/kafka-protocol/protocol_codegen/src/generate_messages/expr.rs 54-66 CmpType::fmt *)
Definition display_cmp (op : CmpType) : string :=
  match op with Eq => "==" | Ne => "!=" | Lt => "<" | Ge => ">=" | Le => "<=" | Gt => ">" end.

(* @ src/crates/kafka-protocol/protocol_codegen/src/generate_messages/expr.rs 68-74 ExprValue *)
Inductive ExprValue : Type :=
| Flat (s : string)
| ByRef (t : RefType) (s : string)
| Compare (a : string) (op : CmpType) (b : string)
| Not (s : string).

(* @ src/crates/kafka-protocol/protocol_codegen/src/generate_messages/expr.rs 82-86 Expr *)
Record Expr : Type := mkExpr { precedence : Precedence; value : ExprValue }.

(** The double quote, and [{:?}] of a string of printable ASCII characters. *)
Definition quote : string := String (Ascii.ascii_of_nat 34) "".
Fixpoint escape_debug (s : string) : string :=
  match s with
  | EmptyString => ""
  | String c s =>
      (if decide (c = Ascii.ascii_of_nat 34 ∨ c = Ascii.ascii_of_nat 92)
       then String (Ascii.ascii_of_nat 92) (String c "") else String c "") +:+ escape_debug s
  end.
Definition debug_str (s : string) : string := quote +:+ escape_debug s +:+ quote.

(* @ src/crates/kafka-protocol/protocol_codegen/src/generate_messages/expr.rs 89-94 Expr::new_atom *)
Definition new_atom (s : string) : Expr := mkExpr Suffix (Flat s).
(* @ src/crates/kafka-protocol/protocol_codegen/src/generate_messages/expr.rs 95-100 Expr::new_unary *)
Definition new_unary (s : string) : Expr := mkExpr Unary (Flat s).
(* @ src/crates/kafka-protocol/protocol_codegen/src/generate_messages/expr.rs 101-106 Expr::new_str *)
Definition new_str (s : string) : Expr := mkExpr Term (Flat (debug_str s)).

Definition looser (p q : Precedence) : bool := Nat.ltb (rank p) (rank q).

(** A reference is tightened to a unary operand before its sign is put in front
    of it, by the arm of [brace] for references. *)
(* @ src/crates/kafka-protocol/protocol_codegen/src/generate_messages/expr.rs 130-146 Expr::flatten *)
Definition flatten (e : Expr) : Precedence * string :=
  match value e with
  | ByRef t v =>
      let v := if looser (precedence e) Unary then "(" +:+ v +:+ ")" else v in
      (Unary, (match t with Ref => "&" | Mut => "&mut " end) +:+ v)
  | Compare a op b => (Comparison, a +:+ " " +:+ display_cmp op +:+ " " +:+ b)
  | Not e => (Unary, "!" +:+ e)
  | Flat s => (precedence e, s)
  end.

(* @ src/crates/kafka-protocol/protocol_codegen/src/generate_messages/expr.rs 249-253 Expr::fmt *)
Definition display (e : Expr) : string := (flatten e).2.

(* @ src/crates/kafka-protocol/protocol_codegen/src/generate_messages/expr.rs 107-115 Expr::brace *)
Definition brace (e : Expr) : Expr :=
  mkExpr Term
    match value e with
    | ByRef t v => ByRef t ("(" +:+ v +:+ ")")
    | _ => Flat ("(" +:+ display e +:+ ")")
    end.

(* @ src/crates/kafka-protocol/protocol_codegen/src/generate_messages/expr.rs 116-122 Expr::tighten *)
Definition tighten (e : Expr) (p : Precedence) : Expr :=
  if looser (precedence e) p then brace e else e.

(* @ src/crates/kafka-protocol/protocol_codegen/src/generate_messages/expr.rs 123-129 Expr::tighten_above *)
Definition tighten_above (e : Expr) (p : Precedence) : Expr :=
  if looser p (precedence e) then e else brace e.

(* @ src/crates/kafka-protocol/protocol_codegen/src/generate_messages/expr.rs 147-153 Expr::by_ref *)
Definition by_ref (e : Expr) : Expr := let '(p, s) := flatten e in mkExpr p (ByRef Ref s).
(* @ src/crates/kafka-protocol/protocol_codegen/src/generate_messages/expr.rs 154-160 Expr::by_mut *)
Definition by_mut (e : Expr) : Expr := let '(p, s) := flatten e in mkExpr p (ByRef Mut s).

(* @ src/crates/kafka-protocol/protocol_codegen/src/generate_messages/expr.rs 161-170 Expr::auto_deref *)
Definition auto_deref (e : Expr) : Expr :=
  match value e with ByRef _ s => mkExpr (precedence e) (Flat s) | _ => e end.

(* @ src/crates/kafka-protocol/protocol_codegen/src/generate_messages/expr.rs 171-181 Expr::field *)
Definition field (e : Expr) (name : string) : Expr :=
  mkExpr Suffix (Flat (display (auto_deref (tighten e Suffix)) +:+ "." +:+ name)).

(* @ src/crates/kafka-protocol/protocol_codegen/src/generate_messages/expr.rs 182-193 Expr::method *)
Definition method (e : Expr) (name args : string) : Expr :=
  mkExpr Suffix (Flat (display (auto_deref (tighten e Suffix)) +:+ "." +:+ name
    +:+ "(" +:+ args +:+ ")")).

(* @ src/crates/kafka-protocol/protocol_codegen/src/generate_messages/expr.rs 194-199 Expr::try_ *)
Definition try_ (e : Expr) : Expr := mkExpr Suffix (Flat (display (tighten e Suffix) +:+ "?")).

(* @ src/crates/kafka-protocol/protocol_codegen/src/generate_messages/expr.rs 210-215 Expr::unary *)
Definition unary (e : Expr) (op : string) : Expr :=
  mkExpr Unary (Flat (op +:+ display (tighten e Unary))).

(* @ src/crates/kafka-protocol/protocol_codegen/src/generate_messages/expr.rs 200-209 Expr::deref *)
Definition deref (e : Expr) : Expr :=
  match value e with ByRef _ s => mkExpr (precedence e) (Flat s) | _ => unary e "*" end.

(* @ src/crates/kafka-protocol/protocol_codegen/src/generate_messages/expr.rs 216-231 Expr::not *)
Definition not (e : Expr) : Expr :=
  match value e with
  | Compare a op b => mkExpr (precedence e) (Compare a (inverse op) b)
  | Not s => mkExpr (precedence e) (Flat s)
  | _ => mkExpr (precedence e) (Not (display (tighten e Unary)))
  end.

(* @ src/crates/kafka-protocol/protocol_codegen/src/generate_messages/expr.rs 232-240 Expr::compare *)
Definition compare (e : Expr) (op : CmpType) (other : Expr) : Expr :=
  mkExpr Comparison (Compare (display (tighten_above e Comparison)) op
    (display (tighten_above other Comparison))).

(* @ src/crates/kafka-protocol/protocol_codegen/src/generate_messages/expr.rs 241-246 Expr::cast_as *)
Definition cast_as (e : Expr) (t : string) : Expr :=
  mkExpr Cast (Flat (display (tighten e Cast) +:+ " as " +:+ t)).

(** ** The writer only lays out *)

(** One byte: indentation is due before the first one of a line. *)
Definition write_byte (w : CodeWriter) (b : Ascii.ascii) : CodeWriter :=
  if decide (b = newline) then mkCodeWriter (inner w +:+ String b "") (indent w) true
  else
    let out := if new_line w then inner w +:+ indentation (indent w) else inner w in
    mkCodeWriter (out +:+ String b "") (indent w) false.

Fixpoint write_bytes (s : string) (w : CodeWriter) : CodeWriter :=
  match s with EmptyString => w | String b s => write_bytes s (write_byte w b) end.

Lemma write_loop_bytes rest pending w :
  write_loop rest pending w
  = write_bytes rest (mkCodeWriter (inner w +:+ pending) (indent w) (new_line w)).
Proof.
  revert pending w. induction rest as [|b rest IH]; intros pending [out n line];
    cbn [write_loop write_bytes inner indent new_line].
  - case_decide; [|done]. subst. by rewrite Text.text_app_nil.
  - unfold write_byte. cbn [inner indent new_line]. case_decide.
    + rewrite IH. cbn. by rewrite Text.text_app_assoc.
    + destruct line; rewrite IH; cbn; by rewrite ?Text.text_app_assoc.
Qed.

Lemma write_is_bytes s w : write s w = write_bytes s w.
Proof. unfold write. rewrite write_loop_bytes, Text.text_app_nil. by destruct w. Qed.

(** Writing a text at once or in pieces is the same. *)
Lemma write_app s t w : write (s +:+ t) w = write t (write s w).
Proof.
  rewrite !write_is_bytes. revert w. induction s as [|b s IH]; intros w; [done|]. apply IH.
Qed.

Lemma write_indent s w : indent (write s w) = indent w.
Proof.
  rewrite write_is_bytes. revert w. induction s as [|b s IH]; intros w; [done|].
  cbn. rewrite IH. unfold write_byte. by case_decide.
Qed.

Lemma run_all_indent os :
  Forall (λ o, ∀ w, indent (run o w) = indent w) os → ∀ w, indent (run_all os w) = indent w.
Proof.
  induction 1 as [|o os Ho _ IH]; intros w; [done|]. cbn. unfold run_all in IH. by rewrite IH, Ho.
Qed.

(** Induction on the calls, the contents of a block included. *)
Lemma out_ind' (P : out → Prop) :
  (∀ s, P (Write s)) → (∀ body, Forall P body → P (Block body)) → ∀ o, P o.
Proof.
  intros Hw Hb. fix IH 1. intros [s|body]; [apply Hw|]. apply Hb.
  induction body as [|o body IHb]; constructor; [apply IH|apply IHb].
Qed.

(** A block leaves the indentation as it was. *)
Lemma run_indent o w : indent (run o w) = indent w.
Proof.
  revert w. induction o as [s|body IH] using out_ind'; intros w; cbn [run].
  - apply write_indent.
  - unfold block, with_indent. rewrite write_indent. cbn [indent new_line].
    set (w0 := mkCodeWriter _ (S _) _). set (w' := fold_left _ body w0).
    assert (indent w' = S (indent w)) as Hi.
    { unfold w'. change (fold_left _ body w0) with (run_all body w0). rewrite run_all_indent by done. cbn. by rewrite write_indent. }
    destruct (new_line w'); rewrite ?write_indent; cbn; by rewrite Hi.
Qed.

(** *** Up to white space *)

Definition is_space (c : Ascii.ascii) : bool :=
  bool_decide (c = newline ∨ c = Ascii.ascii_of_nat 32).
Fixpoint squash (s : string) : string :=
  match s with
  | EmptyString => ""
  | String c s => if is_space c then squash s else String c (squash s)
  end.

(** The calls without the layout. *)
Fixpoint plain (o : out) : string :=
  match o with
  | Write s => s
  | Block body => "{" +:+ (fix go (l : list out) : string :=
      match l with [] => "" | o :: l => plain o +:+ go l end) body +:+ "}"
  end.
Fixpoint plain_all (os : list out) : string :=
  match os with [] => "" | o :: os => plain o +:+ plain_all os end.

Lemma squash_app s t : squash (s +:+ t) = squash s +:+ squash t.
Proof.
  induction s as [|c s IH]; [done|]. change (String c s +:+ t) with (String c (s +:+ t)).
  cbn [squash]. rewrite IH. by destruct (is_space c).
Qed.

Lemma squash_indentation n : squash (indentation n) = "".
Proof. induction n as [|n IH]; [done|]. cbn [indentation]. by rewrite squash_app, IH. Qed.

Lemma write_squash s w : squash (inner (write s w)) = squash (inner w) +:+ squash s.
Proof.
  rewrite write_is_bytes. revert w. induction s as [|b s IH]; intros w; cbn [write_bytes].
  { by rewrite Text.text_app_nil. }
  rewrite IH. unfold write_byte.
  assert (∀ u, squash (u +:+ String b "") +:+ squash s = squash u +:+ squash (String b s)) as Hb.
  { intros u. rewrite squash_app, Text.text_app_assoc. f_equal. cbn. by destruct (is_space b). }
  case_decide; cbn [inner]; rewrite Hb; [done|].
  destruct (new_line w); [|done]. by rewrite squash_app, squash_indentation, Text.text_app_nil.
Qed.

(** Up to white space the writer produces exactly what was written, blocks in
    braces. *)
Lemma run_squash o w : squash (inner (run o w)) = squash (inner w) +:+ squash (plain o).
Proof.
  revert w. induction o as [s|body IH] using out_ind'; intros w; cbn [run plain].
  { apply write_squash. }
  assert (∀ w, squash (inner (run_all body w)) = squash (inner w) +:+ squash (plain_all body)) as Hall.
  { clear w. induction IH as [|o os Ho _ IHos]; intros w; cbn.
    - by rewrite Text.text_app_nil.
    - unfold run_all in IHos. by rewrite IHos, Ho, squash_app, Text.text_app_assoc. }
  fold plain_all. unfold block, with_indent. rewrite write_squash. cbn [inner new_line].
  set (w0 := mkCodeWriter _ (S _) _). set (w' := fold_left _ body w0).
  assert (squash (inner w') = squash (inner w) +:+ "{" +:+ squash (plain_all body)) as Hw'.
  { unfold w'. change (fold_left _ body w0) with (run_all body w0). rewrite Hall. cbn [inner w0]. by rewrite write_squash, Text.text_app_assoc. }
  destruct (new_line w'); rewrite ?write_squash; cbn [inner]; rewrite Hw';
    rewrite !squash_app, ?Text.text_app_nil, !Text.text_app_assoc; done.
Qed.

(** ** Precedence *)

(** Negation keeps the precedence of its operand, so that a selection from a
    negation is printed as the negation of the selection. *)
Example not_loses_precedence :
  display (field (not (new_atom "x")) "f") = "!x.f" ∧
  display (field (unary (new_atom "x") "!") "f") = "(!x).f".
Proof. split; reflexivity. Qed.
End CodegenWriter.
