(* ===== verification/CodegenGenerate.v ===== *)
(** * The message generator: one message

    [src/crates/kafka-protocol/protocol_codegen/src/generate_messages/generate.rs],
    all of it: the preparation of a schema ([prepared_struct_def] and the loop of
    [generate] that repeats it until the structs no longer change), and the code
    written for a struct ([apply] and the functions it calls).

    A function that writes is a [code]: the calls it makes on its writer, or
    [None] when it panics ([assert!], [unreachable!], an unbounded version range).
    Preparation threads the set of entity types and the list of structs found so
    far ([M]).  [to_snake_case] and [to_pascal_case] belong to the crate
    [inflector] and are the class [Inflector].  Writing to memory does not fail. *)

From S2P Require Import Prelude Text CodegenSpec CodegenWriter.
From stdpp Require Import pretty.
Open Scope Z_scope.

Module CodegenGenerate.
Import CodegenSpec CodegenWriter.

(** ** Code that is written *)

Definition code : Type := option (list out).

Definition skip : code := Some [].
Definition emit (s : string) : code := Some [Write s].
Definition emitln (s : string) : code := Some [Write (s +:+ nl)].
Definition in_block (c : code) : code := body ← c; Some [Block body].
Definition then_write (a b : code) : code := x ← a; y ← b; Some (x ++ y).

Declare Scope codegen_scope.
Delimit Scope codegen_scope with codegen.
Infix "▷" := then_write (at level 60, right associativity) : codegen_scope.
Open Scope codegen_scope.

Definition for_each {A : Type} (f : A → code) (l : list A) : code :=
  foldr (λ x c, f x ▷ c) skip l.

(** A formatted expression; [None] is a panic in computing it. *)
Definition with_expr (e : option Expr) (k : string → code) : code := x ← e; k (display x).

(** [assert!]. *)
Definition assert_that {A : Type} (b : bool) (k : option A) : option A := if b then k else None.

(** [BTreeMap::insert] of a map kept as the sorted list of its entries: the
    previous value and the new map. *)
Fixpoint bt_insert {K V : Type} (cmp : K → K → comparison) (k : K) (v : V) (m : list (K * V)) :
    option V * list (K * V) :=
  match m with
  | [] => (None, [(k, v)])
  | (k', v') :: m' =>
      match cmp k k' with
      | Datatypes.Lt => (None, (k, v) :: m)
      | Datatypes.Eq => (Some v', (k, v) :: m')
      | Datatypes.Gt => let '(previous, m') := bt_insert cmp k v m' in (previous, (k', v') :: m')
      end
  end.

Fixpoint bt_get {K V : Type} (cmp : K → K → comparison) (k : K) (m : list (K * V)) : option V :=
  match m with
  | [] => None
  | (k', v) :: m => match cmp k k' with Datatypes.Eq => Some v | _ => bt_get cmp k m end
  end.

(** ** Prepared schemas *)

(* @ src/crates/kafka-protocol/protocol_codegen/src/generate_messages/generate.rs 24-49 EntityType *)
Record EntityType : Type := mkEntityType {
  ent_name : string;
  ent_doc : string;
  ent_inner : PrimitiveType
}.

(** [BTreeSet<EntityType>], ordered by name: [insert] keeps an equal element. *)
Definition entity_set : Type := list (string * EntityType).
Definition entity_insert (e : EntityType) (m : entity_set) : entity_set :=
  match bt_get String.compare (ent_name e) m with
  | Some _ => m
  | None => (bt_insert String.compare (ent_name e) e m).2
  end.

(* @ src/crates/kafka-protocol/protocol_codegen/src/generate_messages/generate.rs 137-146 PreparedDefault *)
Inductive PreparedDefault : Type :=
| PdNull
| PdEmpty
| PdBoolean (b : bool)
| PdNumeric (s : string)
| PdString (s : string)
| PdUuid
| PdEmptyStruct.

#[export] Instance PreparedDefault_eq_dec : EqDecision PreparedDefault.
Proof. solve_decision. Defined.

(* @ src/crates/kafka-protocol/protocol_codegen/src/generate_messages/generate.rs 79-85 PreparedType *)
Inductive PreparedType : Type :=
| PtPrimitive (p : PrimitiveType)
| PtEntity (e : EntityType)
| PtStruct (s : PreparedStruct)
| PtArray (inner : PreparedType)
(** [spec_type], [name], [prepared_fields], [valid_versions],
    [flexible_msg_versions], [deprecated_versions]. *)
with PreparedStruct : Type :=
| mkPreparedStruct (spec_type : SpecType) (name : string) (fields : list PreparedField)
    (valid flexible deprecated : VersionSpec)
(** [name], [optional], [type_], [versions], [tag], [tagged_versions],
    [nullable_versions], [default], [ignorable], [_entity_type], [about],
    [flexible_versions]. *)
with PreparedField : Type :=
| mkPreparedField (name : string) (optional : bool) (type_ : PreparedType)
    (versions : VersionSpec) (tag : option Z) (tagged nullable : VersionSpec)
    (default : PreparedDefault) (ignorable : bool) (entity_type : option string)
    (about : string) (flexible : VersionSpec).

(* @ src/crates/kafka-protocol/protocol_codegen/src/generate_messages/generate.rs 14-22 PreparedStruct *)
Definition ps_type (s : PreparedStruct) := let 'mkPreparedStruct t _ _ _ _ _ := s in t.
Definition ps_name (s : PreparedStruct) := let 'mkPreparedStruct _ n _ _ _ _ := s in n.
Definition ps_fields (s : PreparedStruct) := let 'mkPreparedStruct _ _ fs _ _ _ := s in fs.
Definition ps_valid (s : PreparedStruct) := let 'mkPreparedStruct _ _ _ v _ _ := s in v.
Definition ps_flexible (s : PreparedStruct) := let 'mkPreparedStruct _ _ _ _ v _ := s in v.
Definition ps_deprecated (s : PreparedStruct) := let 'mkPreparedStruct _ _ _ _ _ v := s in v.

(* @ src/crates/kafka-protocol/protocol_codegen/src/generate_messages/generate.rs 204-218 PreparedField *)
Definition pf_name (f : PreparedField) :=
  let 'mkPreparedField n _ _ _ _ _ _ _ _ _ _ _ := f in n.
Definition pf_optional (f : PreparedField) :=
  let 'mkPreparedField _ o _ _ _ _ _ _ _ _ _ _ := f in o.
Definition pf_type (f : PreparedField) :=
  let 'mkPreparedField _ _ t _ _ _ _ _ _ _ _ _ := f in t.
Definition pf_versions (f : PreparedField) :=
  let 'mkPreparedField _ _ _ v _ _ _ _ _ _ _ _ := f in v.
Definition pf_tag (f : PreparedField) :=
  let 'mkPreparedField _ _ _ _ t _ _ _ _ _ _ _ := f in t.
Definition pf_tagged (f : PreparedField) :=
  let 'mkPreparedField _ _ _ _ _ v _ _ _ _ _ _ := f in v.
Definition pf_nullable (f : PreparedField) :=
  let 'mkPreparedField _ _ _ _ _ _ v _ _ _ _ _ := f in v.
Definition pf_default (f : PreparedField) :=
  let 'mkPreparedField _ _ _ _ _ _ _ d _ _ _ _ := f in d.
Definition pf_ignorable (f : PreparedField) :=
  let 'mkPreparedField _ _ _ _ _ _ _ _ i _ _ _ := f in i.
Definition pf_about (f : PreparedField) :=
  let 'mkPreparedField _ _ _ _ _ _ _ _ _ _ a _ := f in a.
Definition pf_flexible (f : PreparedField) :=
  let 'mkPreparedField _ _ _ _ _ _ _ _ _ _ _ v := f in v.

(** The derived equality, in which entity types are equal when their names are. *)
(* @ src/crates/kafka-protocol/protocol_codegen/src/generate_messages/generate.rs 14-22 PreparedStruct *)
Fixpoint type_eqb (a b : PreparedType) {struct a} : bool :=
  match a, b with
  | PtPrimitive p, PtPrimitive q => bool_decide (p = q)
  | PtEntity e, PtEntity e' => bool_decide (ent_name e = ent_name e')
  | PtStruct s, PtStruct s' => struct_eqb s s'
  | PtArray a, PtArray b => type_eqb a b
  | _, _ => false
  end
with struct_eqb (a b : PreparedStruct) {struct a} : bool :=
  match a, b with
  | mkPreparedStruct t n fs v fl d, mkPreparedStruct t' n' fs' v' fl' d' =>
      bool_decide (t = t') && bool_decide (n = n') &&
      (fix go (l l' : list PreparedField) : bool :=
         match l, l' with
         | [], [] => true
         | x :: l, x' :: l' => field_eqb x x' && go l l'
         | _, _ => false
         end) fs fs' &&
      bool_decide (v = v') && bool_decide (fl = fl') && bool_decide (d = d')
  end
with field_eqb (a b : PreparedField) {struct a} : bool :=
  match a, b with
  | mkPreparedField n o t v tag tv nv d i e ab fl, mkPreparedField n' o' t' v' tag' tv' nv' d' i' e' ab' fl' =>
      bool_decide (n = n') && bool_decide (o = o') && type_eqb t t' && bool_decide (v = v') &&
      bool_decide (tag = tag') && bool_decide (tv = tv') && bool_decide (nv = nv') &&
      bool_decide (d = d') && bool_decide (i = i') && bool_decide (e = e') &&
      bool_decide (ab = ab') && bool_decide (fl = fl')
  end.

(* @ src/crates/kafka-protocol/protocol_codegen/src/generate_messages/generate.rs 51-60 primitive_default *)
Definition primitive_default (p : PrimitiveType) : PreparedDefault :=
  match p with
  | PBool => PdBoolean false
  | PInt8 | PInt16 | PUint16 | PInt32 | PInt64 => PdNumeric "0"
  | PFloat64 => PdNumeric "0.0"
  | PString | PBytes | PRecords => PdEmpty
  | PUuid => PdUuid
  end.

(* @ src/crates/kafka-protocol/protocol_codegen/src/generate_messages/generate.rs 62-77 parse_primitive_default *)
Definition parse_primitive_default (p : PrimitiveType) (default_str : string) :
    option PreparedDefault :=
  match p with
  | PInt8 | PInt16 | PInt32 | PInt64 | PFloat64 => Some (PdNumeric default_str)
  | PString => Some (PdString default_str)
  | _ => None
  end.

(* @ src/crates/kafka-protocol/protocol_codegen/src/generate_messages/generate.rs 88-95 PreparedType::rust_name *)
Fixpoint rust_name (t : PreparedType) : string :=
  match t with
  | PtPrimitive p => primitive_rust_name p
  | PtEntity e => "super::" +:+ ent_name e
  | PtStruct s => ps_name s
  | PtArray inner => "Vec<" +:+ rust_name inner +:+ ">"
  end.

(* @ src/crates/kafka-protocol/protocol_codegen/src/generate_messages/generate.rs 96-115 PreparedType::name *)
Fixpoint type_name (t : PreparedType) (flexible optional : bool) : string :=
  match t with
  | PtPrimitive p => primitive_name p flexible
  | PtEntity e => primitive_name (ent_inner e) flexible
  | PtStruct _ =>
      if optional then "types::OptionStruct { version }" else "types::Struct { version }"
  | PtArray inner =>
      if flexible then "types::CompactArray(" +:+ type_name inner flexible false +:+ ")"
      else "types::Array(" +:+ type_name inner flexible false +:+ ")"
  end.

(* @ src/crates/kafka-protocol/protocol_codegen/src/generate_messages/generate.rs 116-123 PreparedType::has_compact_form *)
Definition has_compact_form (t : PreparedType) : bool :=
  match t with
  | PtPrimitive p => primitive_has_compact_form p
  | PtEntity e => primitive_has_compact_form (ent_inner e)
  | PtStruct _ => false
  | PtArray _ => true
  end.

(* @ src/crates/kafka-protocol/protocol_codegen/src/generate_messages/generate.rs 124-131 PreparedType::default *)
Definition type_default (t : PreparedType) : PreparedDefault :=
  match t with
  | PtPrimitive p => primitive_default p
  | PtEntity e => primitive_default (ent_inner e)
  | PtStruct _ => PdEmptyStruct
  | PtArray _ => PdEmpty
  end.

(* @ src/crates/kafka-protocol/protocol_codegen/src/generate_messages/generate.rs 132-134 PreparedType::is_entity *)
Definition is_entity (t : PreparedType) : bool := match t with PtEntity _ => true | _ => false end.

(* @ src/crates/kafka-protocol/protocol_codegen/src/generate_messages/generate.rs 149-175 PreparedDefault::gen_is_default *)
Definition gen_is_default_plain (d : PreparedDefault) (expr : Expr) : option Expr :=
  match d with
  | PdNull => None
  | PdEmpty => Some (method expr "is_empty" "")
  | PdBoolean true => Some (deref expr)
  | PdBoolean false => Some (not (deref expr))
  | PdNumeric v => Some (compare (deref expr) Eq (new_atom v))
  | PdString s => Some (compare expr Eq (new_str s))
  | PdUuid => Some (compare expr Eq (new_atom "&Uuid::nil()"))
  | PdEmptyStruct => Some (compare expr Eq (new_atom "&Default::default()"))
  end.

(* @ src/crates/kafka-protocol/protocol_codegen/src/generate_messages/generate.rs 149-175 PreparedDefault::gen_is_default *)
Definition gen_is_default (d : PreparedDefault) (expr : Expr) (optional : bool) : option Expr :=
  if optional then
    match d with
    | PdNull => Some (method expr "is_none" "")
    | _ =>
        inner ← gen_is_default_plain d (new_atom "x");
        Some (method (method (method expr "as_ref" "") "map" ("|x| " +:+ display inner))
          "unwrap_or_default" "")
    end
  else gen_is_default_plain d expr.

(* @ src/crates/kafka-protocol/protocol_codegen/src/generate_messages/generate.rs 176-201 PreparedDefault::gen_default *)
Definition gen_default_plain (d : PreparedDefault) : option Expr :=
  match d with
  | PdNull => None
  | PdEmpty | PdEmptyStruct => Some (new_atom "Default::default()")
  | PdBoolean true => Some (new_atom "true")
  | PdBoolean false => Some (new_atom "false")
  | PdNumeric v => Some (new_unary v)
  | PdString s => Some (new_atom ("StrBytes::from_static_str(" +:+ debug_str s +:+ ")"))
  | PdUuid => Some (new_atom "Uuid::nil()")
  end.

(* @ src/crates/kafka-protocol/protocol_codegen/src/generate_messages/generate.rs 176-201 PreparedDefault::gen_default *)
Definition gen_default (d : PreparedDefault) (optional entity : bool) : option Expr :=
  let unwrapped :=
    if entity then
      match d with
      | PdEmpty => gen_default_plain d
      | _ => e ← gen_default_plain d; Some (method e "into" "")
      end
    else gen_default_plain d in
  if optional then
    match d with
    | PdNull => Some (new_atom "None")
    | _ => e ← unwrapped; Some (new_atom ("Some(" +:+ display e +:+ ")"))
    end
  else unwrapped.

(* @ src/crates/kafka-protocol/protocol_codegen/src/generate_messages/generate.rs 220-224 PreparedField::var_name *)
Definition var_name (f : PreparedField) : Expr := by_ref (field (new_atom "self") (pf_name f)).

(** ** Writing the codecs of a struct *)

(** The test that the version is not in [condition], given that it is between
    [min] and [max]. *)
(* @ src/crates/kafka-protocol/protocol_codegen/src/generate_messages/generate.rs 330-337 write_version_cond *)
Definition test_outside (min max : Z) (condition : VersionSpec) : string :=
  match condition with
  | VNone => ""
  | Exact version =>
      if decide (version = max) then "if version < " +:+ pretty version +:+ " "
      else "if version != " +:+ pretty version +:+ " "
  | Since version => "if version < " +:+ pretty version +:+ " "
  | Range a b =>
      if decide (a = min) then "if version > " +:+ pretty b +:+ " "
      else if decide (b = max) then "if version < " +:+ pretty a +:+ " "
      else "if version < " +:+ pretty a +:+ " || version > " +:+ pretty b +:+ " "
  end.

(** The test that it is. *)
(* @ src/crates/kafka-protocol/protocol_codegen/src/generate_messages/generate.rs 346-353 write_version_cond *)
Definition test_inside (min max : Z) (condition : VersionSpec) : string :=
  match condition with
  | VNone => ""
  | Exact version =>
      if decide (version = max) then "if version >= " +:+ pretty version +:+ " "
      else "if version == " +:+ pretty version +:+ " "
  | Since version => "if version >= " +:+ pretty version +:+ " "
  | Range a b =>
      if decide (a = min) then "if version <= " +:+ pretty b +:+ " "
      else if decide (b = max) then "if version >= " +:+ pretty a +:+ " "
      else "if version >= " +:+ pretty a +:+ " && version <= " +:+ pretty b +:+ " "
  end.

(* @ src/crates/kafka-protocol/protocol_codegen/src/generate_messages/generate.rs 304-362 write_version_cond *)
Definition write_version_cond (valid_versions condition : VersionSpec) (if_true if_false : code)
    (skip_true skip_false : bool) : code :=
  match range valid_versions with
  | None => match valid_versions with VNone => skip | _ => None end
  | Some (min, max) =>
      let condition := intersect condition valid_versions in
      let always_true := bool_decide (condition = valid_versions) in
      if skip_true then
        if always_true then skip
        else if is_none condition then if_false
        else emit (test_outside min max condition) ▷ in_block if_false
      else if always_true then if_true
      else if is_none condition then if_false
      else
        emit (test_inside min max condition)
        ▷ in_block if_true
        ▷ (if skip_false then skip else emit " else " ▷ in_block if_false)
  end.

(* @ src/crates/kafka-protocol/protocol_codegen/src/generate_messages/generate.rs 364-376 write_encode_or_compute *)
Definition write_encode_or_compute (type_ var : string) (compute_size : bool) : code :=
  if compute_size then emit ("total_size += " +:+ type_ +:+ ".compute_size(" +:+ var +:+ ")?;")
  else emit (type_ +:+ ".encode(buf, " +:+ var +:+ ")?;").

(* @ src/crates/kafka-protocol/protocol_codegen/src/generate_messages/generate.rs 416-458 write_encode_field_inner *)
Definition write_encode_field_inner (f : PreparedField) (valid_versions : VersionSpec)
    (compute_size : bool) : code :=
  let var := display (var_name f) in
  let optional := negb (is_none (pf_nullable f)) in
  let valid_versions := intersect valid_versions (pf_versions f) in
  if negb (has_compact_form (pf_type f)) then
    write_encode_or_compute (type_name (pf_type f) false optional) var compute_size
  else
    write_version_cond valid_versions (pf_flexible f)
      (write_encode_or_compute (type_name (pf_type f) true optional) var compute_size)
      (write_encode_or_compute (type_name (pf_type f) false optional) var compute_size)
      false false.

(* @ src/crates/kafka-protocol/protocol_codegen/src/generate_messages/generate.rs 460-478 write_fail_if_field_set *)
Definition write_fail_if_field_set (f : PreparedField) : code :=
  is_default ← gen_is_default (pf_default f) (var_name f) (pf_optional f);
  emit ("if " +:+ display (not is_default) +:+ " ")
  ▷ in_block (emit ("bail!(" +:+ quote
      +:+ "A field is set that is not available on the selected protocol version" +:+ quote +:+ ");")).

(* @ src/crates/kafka-protocol/protocol_codegen/src/generate_messages/generate.rs 378-414 write_encode_field *)
Definition write_encode_field (valid_versions : VersionSpec) (compute_size : bool)
    (f : PreparedField) : code :=
  if contains (pf_tagged f) (intersect (pf_versions f) valid_versions) then skip
  else
    write_version_cond valid_versions (pf_tagged f) skip
      (write_version_cond valid_versions (pf_versions f)
        (write_encode_field_inner f valid_versions compute_size)
        (write_fail_if_field_set f)
        false (pf_ignorable f))
      true false
    ▷ emitln "".

(* @ src/crates/kafka-protocol/protocol_codegen/src/generate_messages/generate.rs 480-490 write_size_check *)
Definition write_size_check (expr t msg : string) : code :=
  emitln ("if " +:+ expr +:+ " > std::" +:+ t +:+ "::MAX as usize {")
  ▷ emitln ("    bail!(" +:+ debug_str msg +:+ ", " +:+ expr +:+ ");")
  ▷ emitln "}".

(** [.filter_map(|field| Some((field.tag?, field))).collect()]. *)
(* @ src/crates/kafka-protocol/protocol_codegen/src/generate_messages/generate.rs 505-509 write_encode_tag_buffer *)
Definition sorted_tagged_fields (fields : list PreparedField) : list (Z * PreparedField) :=
  fold_left (λ m f, match pf_tag f with Some t => (bt_insert Z.compare t f m).2 | None => m end)
    fields [].

(** [if is_not_default { .. }]. *)
(* @ src/crates/kafka-protocol/protocol_codegen/src/generate_messages/generate.rs 646-650 write_encode_tag_buffer_inner *)
Definition write_if_set (f : PreparedField) (body : code) : code :=
  is_default ← gen_is_default (pf_default f) (var_name f) (pf_optional f);
  emit ("if " +:+ display (not is_default) +:+ " ") ▷ in_block body.

(* @ src/crates/kafka-protocol/protocol_codegen/src/generate_messages/generate.rs 636-730 write_encode_tag_buffer_inner *)
Definition write_encode_tag_buffer_inner (f : PreparedField) (k : Z)
    (valid_versions : VersionSpec) (compute_size : bool) : code :=
  let var := display (var_name f) in
  let valid_versions := intersect valid_versions (pf_versions f) in
  let size_of flexible := emit (type_name (pf_type f) flexible false +:+ ".compute_size(" +:+ var +:+ ")?") in
  let encode flexible :=
    write_encode_or_compute (type_name (pf_type f) flexible false) var compute_size in
  write_if_set f
    (emit "let computed_size = "
     ▷ (if negb (has_compact_form (pf_type f)) then size_of false
        else write_version_cond valid_versions (pf_flexible f) (size_of true) (size_of false)
          false false)
     ▷ emitln ";"
     ▷ write_size_check "computed_size" "u32" "Tagged field is too large to encode ({} bytes)"
     ▷ write_encode_or_compute "types::UnsignedVarInt" (pretty k) compute_size ▷ emitln ""
     ▷ write_encode_or_compute "types::UnsignedVarInt" "computed_size as u32" compute_size ▷ emitln ""
     ▷ (if compute_size then emitln "total_size += computed_size;"
        else if negb (has_compact_form (pf_type f)) then encode false
        else write_version_cond valid_versions (pf_flexible f) (encode true) (encode false)
          false false)).

(** Counting a tagged field. *)
(* @ src/crates/kafka-protocol/protocol_codegen/src/generate_messages/generate.rs 525-555 write_encode_tag_buffer *)
Definition write_count_tagged (valid_versions : VersionSpec) (f : PreparedField) : code :=
  write_version_cond valid_versions (pf_tagged f)
    (write_version_cond (intersect valid_versions (pf_tagged f)) (pf_versions f)
       (write_if_set f (emit "num_tagged_fields += 1;"))
       skip false true
     ▷ emitln "")
    skip false true.

(** The loop that writes the tagged fields, and the tag of the last one. *)
(* @ src/crates/kafka-protocol/protocol_codegen/src/generate_messages/generate.rs 572-611 write_encode_tag_buffer *)
Fixpoint write_tagged_fields (valid_versions : VersionSpec) (compute_size : bool)
    (current_tag : Z) (fields : list (Z * PreparedField)) : code * Z :=
  match fields with
  | [] => (skip, current_tag)
  | (k, f) :: fields =>
      let next_tag := current_tag + 1 in
      let unknown :=
        if decide (k ≠ next_tag ∧ compute_size = false) then
          emitln ("write_unknown_tagged_fields(buf, " +:+ pretty next_tag +:+ ".." +:+ pretty k
            +:+ ", &self.unknown_tagged_fields)?;")
        else skip in
      let '(rest, last_tag) := write_tagged_fields valid_versions compute_size k fields in
      (unknown
       ▷ write_version_cond valid_versions (pf_tagged f)
           (write_version_cond (intersect valid_versions (pf_tagged f)) (pf_versions f)
              (write_encode_tag_buffer_inner f k (intersect valid_versions (pf_tagged f)) compute_size)
              (write_fail_if_field_set f)
              false (pf_ignorable f)
            ▷ emitln "")
           skip false true
       ▷ rest, last_tag)
  end.

(* @ src/crates/kafka-protocol/protocol_codegen/src/generate_messages/generate.rs 492-634 write_encode_tag_buffer *)
Definition write_encode_tag_buffer (fields : list PreparedField)
    (valid_versions flexible_msg_versions : VersionSpec) (compute_size : bool) : code :=
  write_version_cond valid_versions flexible_msg_versions
    (let valid_versions := intersect valid_versions flexible_msg_versions in
     let sorted := sorted_tagged_fields fields in
     let '(tagged, current_tag) := write_tagged_fields valid_versions compute_size (-1) sorted in
     (match sorted with
      | [] => emitln "let num_tagged_fields = self.unknown_tagged_fields.len();"
      | _ => emitln "let mut num_tagged_fields = self.unknown_tagged_fields.len();"
      end)
     ▷ for_each (λ kf, write_count_tagged valid_versions kf.2) sorted
     ▷ write_size_check "num_tagged_fields" "u32" "Too many tagged fields to encode ({} fields)"
     ▷ write_encode_or_compute "types::UnsignedVarInt" "num_tagged_fields as u32" compute_size
     ▷ emitln ""
     ▷ tagged
     ▷ emitln ""
     ▷ (if compute_size then
          emit "total_size += compute_unknown_tagged_fields_size(&self.unknown_tagged_fields)?;"
        else
          emit ("write_unknown_tagged_fields(buf, " +:+ pretty (current_tag + 1)
            +:+ ".., &self.unknown_tagged_fields)?;")))
    skip false true
  ▷ emitln "".

(** [write!(w, {}, field.default.gen_default(..))]. *)
Definition write_default (f : PreparedField) : code :=
  with_expr (gen_default (pf_default f) (pf_optional f) (is_entity (pf_type f))) emit.

(* @ src/crates/kafka-protocol/protocol_codegen/src/generate_messages/generate.rs 732-822 write_decode_field *)
Definition write_decode_field (valid_versions : VersionSpec) (f : PreparedField) : code :=
  let optional := negb (is_none (pf_nullable f)) in
  let decode flexible := emit (type_name (pf_type f) flexible optional +:+ ".decode(buf)?") in
  (if is_none (pf_tagged f) then emit ("let " +:+ pf_name f +:+ " = ")
   else emit ("let mut " +:+ pf_name f +:+ " = "))
  ▷ (if contains (pf_tagged f) (intersect (pf_versions f) valid_versions) then
       with_expr (gen_default (pf_default f) (pf_optional f) (is_entity (pf_type f)))
         (λ s, emitln (s +:+ ";"))
     else
       write_version_cond valid_versions (pf_tagged f)
         (write_default f)
         (write_version_cond valid_versions (pf_versions f)
            (let valid_versions := intersect valid_versions (pf_versions f) in
             if negb (has_compact_form (pf_type f)) then decode false
             else write_version_cond valid_versions (pf_flexible f) (decode true) (decode false)
               false false)
            (write_default f)
            false false)
         false false
       ▷ emitln ";").

(** What is done with a tag that is not known. *)
(* @ src/crates/kafka-protocol/protocol_codegen/src/generate_messages/generate.rs 850-858 write_decode_tag_buffer *)
Definition write_unknown_value : code :=
  emitln "let unknown_value = buf.try_get_bytes(size as usize)?;"
  ▷ emit "unknown_tagged_fields.insert(tag as i32, unknown_value);".

(** The arm of a tagged field. *)
(* @ src/crates/kafka-protocol/protocol_codegen/src/generate_messages/generate.rs 862-921 write_decode_tag_buffer *)
Definition write_decode_tagged (valid_versions : VersionSpec) (k : Z) (f : PreparedField) : code :=
  let tagged_field_versions := intersect (pf_tagged f) (pf_versions f) in
  let decode flexible :=
    emit (pf_name f +:+ " = " +:+ type_name (pf_type f) flexible false +:+ ".decode(buf)?;") in
  emit (pretty k +:+ " => ")
  ▷ in_block
      (write_version_cond valid_versions tagged_field_versions
         (let valid_versions := intersect valid_versions tagged_field_versions in
          if negb (has_compact_form (pf_type f)) then decode false
          else write_version_cond valid_versions (pf_flexible f) (decode true) (decode false)
            false false)
         (emitln ("bail!(" +:+ debug_str "Tag {} is not valid for version {}" +:+ ", tag, version);"))
         false false)
  ▷ emitln ",".

(* @ src/crates/kafka-protocol/protocol_codegen/src/generate_messages/generate.rs 824-943 write_decode_tag_buffer *)
Definition write_decode_tag_buffer (fields : list PreparedField)
    (valid_versions flexible_msg_versions : VersionSpec) : code :=
  write_version_cond valid_versions flexible_msg_versions
    (let valid_versions := intersect valid_versions flexible_msg_versions in
     let sorted := sorted_tagged_fields fields in
     emitln "let num_tagged_fields = types::UnsignedVarInt.decode(buf)?;"
     ▷ emit "for _ in 0..num_tagged_fields "
     ▷ in_block
         (emitln "let tag: u32 = types::UnsignedVarInt.decode(buf)?;"
          ▷ emitln "let size: u32 = types::UnsignedVarInt.decode(buf)?;"
          ▷ match sorted with
            | [] => write_unknown_value
            | _ =>
                emit "match tag "
                ▷ in_block
                    (for_each (λ kf, write_decode_tagged valid_versions kf.1 kf.2) sorted
                     ▷ emit "_ => " ▷ in_block write_unknown_value)
            end))
    skip false true
  ▷ emitln "".

(** ** Writing a struct *)

(** [trim_start_matches('_')]. *)
Fixpoint trim_underscores (s : string) : string :=
  match s with
  | String c rest => if decide (c = Ascii.ascii_of_nat 95) then trim_underscores rest else s
  | EmptyString => ""
  end.

(** [Option<T>] for a field that can be null. *)
Definition field_type (f : PreparedField) : string :=
  if pf_optional f then "Option<" +:+ rust_name (pf_type f) +:+ ">" else rust_name (pf_type f).

(* @ src/crates/kafka-protocol/protocol_codegen/src/generate_messages/generate.rs 1306-1335 PreparedStruct::write_version_validation *)
Definition write_version_validation (s : PreparedStruct) : code :=
  let bail := emitln ("    bail!(" +:+ quote +:+ "specified version not supported by this message type"
    +:+ quote +:+ ");") in
  match ps_valid s with
  | VNone => skip
  | Exact exact => emitln ("if version != " +:+ pretty exact +:+ " {") ▷ bail ▷ emitln "}"
  | Since since => emitln ("if version >= " +:+ pretty since +:+ " {") ▷ bail ▷ emitln "}"
  | Range first last =>
      emitln ("if version < " +:+ pretty first +:+ " || version > " +:+ pretty last +:+ " {")
      ▷ bail ▷ emitln "}"
  end.

(** The struct with its fields. *)
(* @ src/crates/kafka-protocol/protocol_codegen/src/generate_messages/generate.rs 1054-1089 PreparedStruct::apply *)
Definition write_struct (s : PreparedStruct) : code :=
  emitln ("/// Valid versions: " +:+ display_versions (ps_valid s))
  ▷ emitln "#[non_exhaustive]"
  ▷ emitln "#[derive(Debug, Clone, PartialEq)]"
  ▷ emit ("pub struct " +:+ ps_name s +:+ " ")
  ▷ in_block
      (for_each (λ f,
         emitln ("/// " +:+ pf_about f)
         ▷ emitln "/// "
         ▷ emitln ("/// Supported API versions: " +:+ display_versions (pf_versions f))
         ▷ emitln ("pub " +:+ pf_name f +:+ ": " +:+ field_type f +:+ ",")
         ▷ emitln "") (ps_fields s)
       ▷ (if is_none (ps_flexible s) then skip
          else emitln "/// Other tagged fields"
               ▷ emitln "pub unknown_tagged_fields: BTreeMap<i32, Bytes>,"))
  ▷ emitln "" ▷ emitln "".

(** The setters. *)
(* @ src/crates/kafka-protocol/protocol_codegen/src/generate_messages/generate.rs 1091-1151 PreparedStruct::apply *)
Definition write_setters (s : PreparedStruct) : code :=
  emit ("impl " +:+ ps_name s +:+ " ")
  ▷ in_block
      (for_each (λ f,
         emitln ("/// Sets `" +:+ pf_name f +:+ "` to the passed value.")
         ▷ emitln "/// "
         ▷ emitln ("/// " +:+ pf_about f)
         ▷ emitln "/// "
         ▷ emitln ("/// Supported API versions: " +:+ display_versions (pf_versions f))
         ▷ emitln ("pub fn with_" +:+ trim_underscores (pf_name f) +:+ "(mut self, value: "
             +:+ field_type f +:+ ") -> Self")
         ▷ in_block (emitln ("self." +:+ pf_name f +:+ " = value;") ▷ emitln "self")) (ps_fields s)
       ▷ (if is_none (ps_flexible s) then skip
          else
            emitln "/// Sets unknown_tagged_fields to the passed value."
            ▷ emitln "pub fn with_unknown_tagged_fields(mut self, value: BTreeMap<i32, Bytes>) -> Self"
            ▷ in_block (emitln "self.unknown_tagged_fields = value;" ▷ emitln "self")
            ▷ emitln "/// Inserts an entry into unknown_tagged_fields."
            ▷ emitln "pub fn with_unknown_tagged_field(mut self, key: i32, value: Bytes) -> Self"
            ▷ in_block (emitln "self.unknown_tagged_fields.insert(key, value);" ▷ emitln "self")))
  ▷ emitln "" ▷ emitln "".

(** The feature of the side that uses an implementation. *)
Definition write_cfg (feature : option string) : code :=
  match feature with
  | Some f => emitln ("#[cfg(feature = " +:+ quote +:+ f +:+ quote +:+ ")]")
  | None => skip
  end.

(** The bodies of [encode], [compute_size] and [decode]. *)
(* @ src/crates/kafka-protocol/protocol_codegen/src/generate_messages/generate.rs 1165-1179 PreparedStruct::apply *)
Definition encode_body (s : PreparedStruct) : code :=
  write_version_validation s
  ▷ for_each (write_encode_field (ps_valid s) false) (ps_fields s)
  ▷ write_encode_tag_buffer (ps_fields s) (ps_valid s) (ps_flexible s) false
  ▷ emit "Ok(())".

(* @ src/crates/kafka-protocol/protocol_codegen/src/generate_messages/generate.rs 1183-1197 PreparedStruct::apply *)
Definition size_body (s : PreparedStruct) : code :=
  emitln "let mut total_size = 0;"
  ▷ for_each (write_encode_field (ps_valid s) true) (ps_fields s)
  ▷ write_encode_tag_buffer (ps_fields s) (ps_valid s) (ps_flexible s) true
  ▷ emit "Ok(total_size)".

(* @ src/crates/kafka-protocol/protocol_codegen/src/generate_messages/generate.rs 1214-1241 PreparedStruct::apply *)
Definition decode_body (s : PreparedStruct) : code :=
  write_version_validation s
  ▷ for_each (write_decode_field (ps_valid s)) (ps_fields s)
  ▷ (if is_none (ps_flexible s) then skip
     else emitln "let mut unknown_tagged_fields = BTreeMap::new();"
          ▷ write_decode_tag_buffer (ps_fields s) (ps_valid s) (ps_flexible s))
  ▷ emit "Ok(Self "
  ▷ in_block
      (for_each (λ f, emitln (pf_name f +:+ ",")) (ps_fields s)
       ▷ (if is_none (ps_flexible s) then skip else emitln "unknown_tagged_fields,"))
  ▷ emit ")".

(** [Encodable]. *)
(* @ src/crates/kafka-protocol/protocol_codegen/src/generate_messages/generate.rs 1153-1202 PreparedStruct::apply *)
Definition write_encodable (s : PreparedStruct) : code :=
  write_cfg (match ps_type s with
    | SRequest => Some "client" | SResponse => Some "broker" | _ => None end)
  ▷ emit ("impl Encodable for " +:+ ps_name s +:+ " ")
  ▷ in_block
      (emit "fn encode<B: ByteBufMut>(&self, buf: &mut B, version: i16) -> Result<()> "
       ▷ in_block (encode_body s)
       ▷ emitln ""
       ▷ emit "fn compute_size(&self, version: i16) -> Result<usize> "
       ▷ in_block (size_body s))
  ▷ emitln "" ▷ emitln "".

(** [Decodable]. *)
(* @ src/crates/kafka-protocol/protocol_codegen/src/generate_messages/generate.rs 1204-1246 PreparedStruct::apply *)
Definition write_decodable (s : PreparedStruct) : code :=
  write_cfg (match ps_type s with
    | SRequest => Some "broker" | SResponse => Some "client" | _ => None end)
  ▷ emit ("impl Decodable for " +:+ ps_name s +:+ " ")
  ▷ in_block
      (emit "fn decode<B: ByteBuf>(buf: &mut B, version: i16) -> Result<Self> "
       ▷ in_block (decode_body s))
  ▷ emitln "" ▷ emitln "".

(** [Default]. *)
(* @ src/crates/kafka-protocol/protocol_codegen/src/generate_messages/generate.rs 1248-1275 PreparedStruct::apply *)
Definition write_default_impl (s : PreparedStruct) : code :=
  emit ("impl Default for " +:+ ps_name s +:+ " ")
  ▷ in_block
      (emit "fn default() -> Self "
       ▷ in_block
           (emit "Self "
            ▷ in_block
                (for_each (λ f,
                   with_expr (gen_default (pf_default f) (pf_optional f) (is_entity (pf_type f)))
                     (λ d, emitln (pf_name f +:+ ": " +:+ d +:+ ","))) (ps_fields s)
                 ▷ (if is_none (ps_flexible s) then skip
                    else emitln "unknown_tagged_fields: BTreeMap::new(),"))))
  ▷ emitln "" ▷ emitln "".

(** [Message]. *)
(* @ src/crates/kafka-protocol/protocol_codegen/src/generate_messages/generate.rs 1277-1301 PreparedStruct::apply *)
Definition write_message_impl (s : PreparedStruct) : code :=
  emit ("impl Message for " +:+ ps_name s +:+ " ")
  ▷ in_block
      (valid ← range (ps_valid s);
       emitln ("const VERSIONS: VersionRange = VersionRange { min: " +:+ pretty valid.1
         +:+ ", max: " +:+ pretty valid.2 +:+ " };")
       ▷ match range (ps_deprecated s) with
         | Some (first, last) =>
             emitln ("const DEPRECATED_VERSIONS: Option<VersionRange> = Some(VersionRange { min: "
               +:+ pretty first +:+ ", max: " +:+ pretty last +:+ " });")
         | None => emitln "const DEPRECATED_VERSIONS: Option<VersionRange> = None;"
         end)
  ▷ emitln "" ▷ emitln "".

(* @ src/crates/kafka-protocol/protocol_codegen/src/generate_messages/generate.rs 1053-1053 PreparedStruct::apply *)
Definition apply_struct (s : PreparedStruct) : code :=
  write_struct s ▷ write_setters s ▷ write_encodable s ▷ write_decodable s
  ▷ write_default_impl s ▷ write_message_impl s.

(* @ src/crates/kafka-protocol/protocol_codegen/src/generate_messages/generate.rs 1338-1365 write_file_header *)
Definition write_file_header (name : string) : code :=
  emitln ("//! " +:+ name)
  ▷ emitln "//!"
  ▷ emitln ("//! See the schema for this message [here](https://github.com/apache/kafka/blob/trunk/clients/src/main/resources/common/message/"
      +:+ name +:+ ".json).")
  ▷ emitln "// WARNING: the items of this module are generated and should not be edited directly"
  ▷ emitln "#![allow(unused)]"
  ▷ emitln ""
  ▷ emitln "use std::borrow::Borrow;"
  ▷ emitln "use std::collections::BTreeMap;"
  ▷ emitln ""
  ▷ emitln "use bytes::Bytes;"
  ▷ emitln "use uuid::Uuid;"
  ▷ emitln "use anyhow::{bail, Result};"
  ▷ emitln ""
  ▷ emitln "use crate::protocol::{"
  ▷ emitln "    Encodable, Decodable, Encoder, Decoder, Message, HeaderVersion, VersionRange,"
  ▷ emitln "    types, write_unknown_tagged_fields, compute_unknown_tagged_fields_size, StrBytes, buf::{ByteBuf, ByteBufMut}"
  ▷ emitln "};"
  ▷ emitln ""
  ▷ emitln "".

(** ** Preparing a schema *)

(** The crate [inflector]. *)
Class Inflector : Type := {
  to_snake_case : string → string;
  to_pascal_case : string → string
}.

(** [entity_types] and [prepared_structs_output]. *)
Record PrepState : Type := mkPrepState {
  entity_types : entity_set;
  structs_output : list PreparedStruct
}.

(** A computation on them that may panic. *)
Definition M (A : Type) : Type := PrepState → option (A * PrepState).
#[export] Instance M_ret : MRet M := λ A a st, Some (a, st).
#[export] Instance M_bind : MBind M := λ A B k m st,
  match m st with Some (a, st) => k a st | None => None end.
Definition panic {A : Type} : M A := λ _, None.
Definition lift_option {A : Type} (o : option A) : M A := λ st, a ← o; Some (a, st).

Definition add_entity (e : EntityType) : M unit := λ st,
  Some (tt, mkPrepState (entity_insert e (entity_types st)) (structs_output st)).
Definition push_struct (s : PreparedStruct) : M unit := λ st,
  Some (tt, mkPrepState (entity_types st) (structs_output st ++ [s])).

Section prepare.
  Context `{Inflector}.
  Variables valid_versions flexible_msg_versions deprecated_versions : VersionSpec.
  Variable prepared_structs : list (string * PreparedStruct).
  Variable spec_type : SpecType.

(** The type of a field; [struct_def] prepares a struct the field declares. *)
(* @ src/crates/kafka-protocol/protocol_codegen/src/generate_messages/generate.rs 226-302 prepare_field_type *)
Fixpoint prepare_field_type (struct_def : string → M PreparedStruct) (f : FieldSpec)
    (t : TypeSpec) : M PreparedType :=
  match t with
  | TPrimitive prim =>
      match fs_entity_type f with
      | Some entity_type =>
          let e := {| ent_inner := prim; ent_name := to_pascal_case entity_type;
                      ent_doc := fs_about f |} in
          _ ← add_entity e; mret (PtEntity e)
      | None => mret (PtPrimitive prim)
      end
  | TStruct name =>
      s ← (if decide (length (fs_fields f) = O) then
             match bt_get String.compare name prepared_structs with
             | Some found => mret found
             | None => mret (mkPreparedStruct spec_type name [] valid_versions
                 flexible_msg_versions deprecated_versions)
             end
           else struct_def name);
      mret (PtStruct s)
  | TArray elem => t ← prepare_field_type struct_def f elem; mret (PtArray t)
  end.

(** Names that are keywords of Rust. *)
(* @ src/crates/kafka-protocol/protocol_codegen/src/generate_messages/generate.rs 974-980 prepared_struct_def *)
Definition prepared_name (f : FieldSpec) : string :=
  let name := to_snake_case (fs_name f) in
  if decide (name = "type") then "_type"
  else if decide (name = "match") then "_match"
  else name.

(* @ src/crates/kafka-protocol/protocol_codegen/src/generate_messages/generate.rs 991-1022 prepared_struct_def *)
Definition prepared_default (f : FieldSpec) (type_ : PreparedType) : option PreparedDefault :=
  match fs_default f with
  | Some default =>
      let default_str := match default with DString s => s | DOther text => text end in
      if decide (default_str = "null") then
        assert_that (contains (fs_nullable_versions f) (fs_versions f)) (Some PdNull)
      else if decide (default_str = "true" ∨ default_str = "false") then
        assert_that (type_eqb type_ (PtPrimitive PBool))
          (Some (PdBoolean (bool_decide (default_str = "true"))))
      else
        match type_ with
        | PtPrimitive prim => parse_primitive_default prim default_str
        | PtEntity e => parse_primitive_default (ent_inner e) default_str
        | _ => None
        end
  | None => Some (type_default type_)
  end.

(** One round of the loop over the fields, after the type is known. *)
(* @ src/crates/kafka-protocol/protocol_codegen/src/generate_messages/generate.rs 974-1037 prepared_struct_def *)
Definition prepared_field (f : FieldSpec) (type_ : PreparedType) : option PreparedField :=
  let flexible_versions := default flexible_msg_versions (fs_flexible_versions f) in
  assert_that (contains flexible_msg_versions flexible_versions)
    (assert_that (contains flexible_versions (fs_tagged_versions f))
      (d ← prepared_default f type_;
       Some (mkPreparedField (prepared_name f) (negb (is_none (fs_nullable_versions f))) type_
         (intersect (fs_versions f) valid_versions) (fs_tag f) (fs_tagged_versions f)
         (fs_nullable_versions f) d (fs_ignorable f) (fs_entity_type f) (fs_about f)
         flexible_versions))).

(** The struct of the prepared fields, recorded in the output. *)
(* @ src/crates/kafka-protocol/protocol_codegen/src/generate_messages/generate.rs 1040-1049 prepared_struct_def *)
Definition finish_struct (name : string) (fields : list PreparedField) : M PreparedStruct :=
  let s := mkPreparedStruct spec_type name fields valid_versions flexible_msg_versions
    deprecated_versions in
  _ ← push_struct s; mret s.

(** A field: its type, which prepares the structs it declares, then the rest.
    [prepared_struct_def] is the loop over a list of fields. *)
(* @ src/crates/kafka-protocol/protocol_codegen/src/generate_messages/generate.rs 960-1038 prepared_struct_def *)
Fixpoint prepare_field (f : FieldSpec) : M PreparedField :=
  type_ ← prepare_field_type
    (λ name,
       fields ← (fix go (fs : list FieldSpec) : M (list PreparedField) :=
         match fs with
         | [] => mret []
         | x :: fs => y ← prepare_field x; ys ← go fs; mret (y :: ys)
         end) (fs_fields f);
       finish_struct name fields) f (fs_type f);
  lift_option (prepared_field f type_).

(* @ src/crates/kafka-protocol/protocol_codegen/src/generate_messages/generate.rs 945-1050 prepared_struct_def *)
Definition prepared_struct_def (name : string) (fields : list FieldSpec) : M PreparedStruct :=
  fields ← (fix go (fs : list FieldSpec) : M (list PreparedField) :=
    match fs with
    | [] => mret []
    | x :: fs => y ← prepare_field x; ys ← go fs; mret (y :: ys)
    end) fields;
  finish_struct name fields.

(** One round over the whole schema. *)
(* @ src/crates/kafka-protocol/protocol_codegen/src/generate_messages/generate.rs 1446-1477 generate *)
Definition prepare_round (spec : Spec) : M unit :=
  _ ← (fix go (l : list StructSpec) : M unit :=
    match l with
    | [] => mret tt
    | c :: l => _ ← prepared_struct_def (ss_name c) (ss_fields c); go l
    end) (sp_common_structs spec);
  _ ← prepared_struct_def (sp_name spec) (sp_fields spec);
  mret tt.
End prepare.

(** Entering the structs of a round; whether any of them is new or changed. *)
(* @ src/crates/kafka-protocol/protocol_codegen/src/generate_messages/generate.rs 1479-1487 generate *)
Definition enter_structs (prepared_structs : list (string * PreparedStruct))
    (output : list PreparedStruct) : bool * list (string * PreparedStruct) :=
  fold_left (λ '(changed, m) s,
    let '(previous, m) := bt_insert String.compare (ps_name s) s m in
    (changed || match previous with Some p => negb (struct_eqb p s) | None => true end, m))
    output (false, prepared_structs).

(** The loop of [generate].  It has no bound in the code: [None] is also the
    answer for a schema whose structs still change after [fuel] rounds. *)
(* @ src/crates/kafka-protocol/protocol_codegen/src/generate_messages/generate.rs 1441-1491 generate *)
Fixpoint prepare_loop `{Inflector} (fuel : nat) (spec : Spec) (entities : entity_set)
    (prepared_structs : list (string * PreparedStruct)) :
    option (entity_set * list (string * PreparedStruct)) :=
  match fuel with
  | O => None
  | S fuel =>
      round ← prepare_round (sp_valid_versions spec) (sp_flexible_versions spec)
        (sp_deprecated_versions spec) prepared_structs (sp_type spec) spec (mkPrepState entities []);
      let '(_, st) := round in
      let '(changed, prepared_structs) := enter_structs prepared_structs (structs_output st) in
      if changed then prepare_loop fuel spec (entity_types st) prepared_structs
      else Some (entity_types st, prepared_structs)
  end.

(* @ src/crates/kafka-protocol/protocol_codegen/src/generate_messages/generate.rs 1496-1552 generate *)
Definition write_header_version (spec : Spec) : code :=
  match sp_api_key spec with
  | None => skip
  | Some api_key =>
      emit ("impl HeaderVersion for " +:+ sp_name spec +:+ " ")
      ▷ in_block
          (emit "fn header_version(version: i16) -> i16 "
           ▷ in_block
               (match sp_type spec with
                | SResponse =>
                    if decide (api_key = 18) then emit "0"
                    else write_version_cond (sp_valid_versions spec) (sp_flexible_versions spec)
                      (emit "1") (emit "0") false false
                | SRequest =>
                    write_version_cond (sp_valid_versions spec) (sp_flexible_versions spec)
                      (emit "2")
                      (if decide (api_key = 7) then emit "if version == 0 { 0 } else { 1 }"
                       else emit "1")
                      false false
                | _ => None
                end))
      ▷ emitln "" ▷ emitln ""
  end.

(* @ src/crates/kafka-protocol/protocol_codegen/src/generate_messages/generate.rs 1367-1390 GenerationOutput *)
Record GenerationOutput : Type := mkGenerationOutput {
  go_buffer : list out;
  go_file_name : string;
  go_module_name : string;
  go_struct_name : string;
  go_entity_types : entity_set
}.

(** The file of a message; [Some None] is a schema without valid versions. *)
(* @ src/crates/kafka-protocol/protocol_codegen/src/generate_messages/generate.rs 1421-1566 generate *)
Definition generate `{Inflector} (fuel : nat) (output_path : string) (spec : Spec) :
    option (option GenerationOutput) :=
  let struct_name := sp_name spec in
  let module_name := to_snake_case struct_name in
  if is_none (sp_valid_versions spec) then Some None
  else
    prepared ← prepare_loop fuel spec [] [];
    let '(entities, prepared_structs) := prepared in
    buffer ← write_file_header struct_name
      ▷ for_each (λ ns, apply_struct ns.2) prepared_structs
      ▷ write_header_version spec;
    Some (Some (mkGenerationOutput buffer (output_path +:+ "/" +:+ module_name +:+ ".rs")
      module_name struct_name entities)).

(** ** Insertion in a map *)

Lemma bt_insert_elem {K V : Type} (cmp : K → K → comparison) (k : K) (x : V) m kv :
  kv ∈ (bt_insert cmp k x m).2 → kv = (k, x) ∨ kv ∈ m.
Proof.
  induction m as [|[k' x'] m IH]; cbn; [set_solver|].
  destruct (cmp k k'); [set_solver..|].
  destruct (bt_insert cmp k x m) as [previous m']; cbn in *. set_solver.
Qed.

Lemma bt_insert_new {K V : Type} (cmp : K → K → comparison) (k : K) (x : V) m :
  (k, x) ∈ (bt_insert cmp k x m).2.
Proof.
  induction m as [|[k' x'] m IH]; cbn; [set_solver|].
  destruct (cmp k k'); [set_solver..|].
  destruct (bt_insert cmp k x m) as [previous m']; cbn in *. set_solver.
Qed.

Lemma bt_insert_old {K V : Type} (cmp : K → K → comparison) (k : K) (x : V) m kv :
  (∀ a b, cmp a b = Datatypes.Eq → a = b) → kv.1 ≠ k → kv ∈ m → kv ∈ (bt_insert cmp k x m).2.
Proof.
  intros Hcmp Hne. induction m as [|[k' x'] m IH]; cbn; [set_solver|].
  destruct (cmp k k') eqn:He; [apply Hcmp in He as <-; set_solver|set_solver|].
  destruct (bt_insert cmp k x m) as [previous m']; cbn in *. set_solver.
Qed.
End CodegenGenerate.
