(* ===== verification/CodegenLoop.v ===== *)
(** * The preparation of a schema ends

    The loop of [generate] prepares all structs of a schema again and again, with
    the structs of the round before for the references by name, until a round
    changes nothing; it has no bound in the code.  It ends for every schema in
    which no name is declared twice and references between structs are not
    circular, after at most one round more than the references are deep.  A
    schema that declares a name twice can keep it running for ever. *)

From S2P Require Import Prelude CodegenSpec CodegenWriter CodegenGenerate.
From stdpp Require Import strings.
Open Scope Z_scope.

Module CodegenLoop.
Import CodegenSpec CodegenWriter CodegenGenerate.

(** ** Sorted maps with string keys *)

Definition str_lt (a b : string) : Prop := String.compare a b = Datatypes.Lt.

Lemma compare_refl a : String.compare a a = Datatypes.Eq.
Proof. pose proof (String.compare_antisym a a) as H. by destruct (String.compare a a). Qed.

Lemma compare_gt a b : String.compare a b = Datatypes.Gt → str_lt b a.
Proof. unfold str_lt. rewrite String.compare_antisym. by destruct (String.compare b a). Qed.

Lemma str_lt_le a b : str_lt a b ↔ String.le a b ∧ a ≠ b.
Proof.
  unfold str_lt, String.le, String.leb. split.
  - intros Hlt. rewrite Hlt. split; [done|]. intros ->. by rewrite compare_refl in Hlt.
  - intros [Hle Hne]. destruct (String.compare a b) eqn:Hc; [|done|done].
    by apply String.compare_eq_iff in Hc.
Qed.

#[global] Instance str_lt_trans : Transitive str_lt.
Proof.
  intros a b c [Hab Hne]%str_lt_le [Hbc Hne']%str_lt_le. apply str_lt_le.
  split; [by etrans|]. intros <-. by destruct Hne; apply (anti_symm String.le).
Qed.

Section maps.
  Context {V : Type}.
  Implicit Type m : list (string * V).

Abbreviation get := (bt_get String.compare).
Abbreviation insert := (bt_insert String.compare).

Definition sorted m : Prop := StronglySorted str_lt m.*1.

Lemma get_insert k v m k' :
  get k' (insert k v m).2 = if decide (k' = k) then Some v else get k' m.
Proof.
  induction m as [|[k1 v1] m IH]; cbn.
  - case_decide as Hk; [by rewrite Hk, compare_refl|].
    destruct (String.compare k' k) eqn:Hc; [by apply String.compare_eq_iff in Hc|done..].
  - destruct (String.compare k k1) eqn:Hc; cbn.
    + apply String.compare_eq_iff in Hc as <-. case_decide as Hk; [by rewrite Hk, compare_refl|].
      destruct (String.compare k' k) eqn:Hc; [by apply String.compare_eq_iff in Hc|done..].
    + case_decide as Hk; [by rewrite Hk, compare_refl|].
      destruct (String.compare k' k) eqn:Hc'; [by apply String.compare_eq_iff in Hc'|done..].
    + destruct (insert k v m) as [previous m'] eqn:Hi. cbn in IH |- *. rewrite IH.
      destruct (String.compare k' k1) eqn:Hc'; [|done..].
      apply String.compare_eq_iff in Hc' as ->. rewrite decide_False; [done|].
      intros ->. by rewrite compare_refl in Hc.
Qed.

Lemma get_absent k m : k ∉ m.*1 → get k m = None.
Proof.
  induction m as [|[k1 v1] m IH]; cbn; [done|]. intros [Hne Hin]%not_elem_of_cons.
  destruct (String.compare k k1) eqn:Hc; [by apply String.compare_eq_iff in Hc|by apply IH..].
Qed.

Lemma insert_previous k v m : sorted m → (insert k v m).1 = get k m.
Proof.
  induction m as [|[k1 v1] m IH]; cbn; [done|]. intros [Hs Hall]%StronglySorted_inv.
  destruct (String.compare k k1) eqn:Hc; cbn; [done| |].
  - symmetry. apply get_absent. intros Hin. rewrite Forall_forall in Hall. specialize (Hall _ Hin).
    cbn in Hall. assert (str_lt k k) as Hk by (by etrans). unfold str_lt in Hk. by rewrite compare_refl in Hk.
  - specialize (IH Hs). by destruct (insert k v m).
Qed.

Lemma insert_keys k v m k' : k' ∈ (insert k v m).2.*1 ↔ k' = k ∨ k' ∈ m.*1.
Proof.
  induction m as [|[k1 v1] m IH]; cbn; [set_solver|].
  destruct (String.compare k k1) eqn:Hc; [apply String.compare_eq_iff in Hc as ->; set_solver|set_solver|].
  destruct (insert k v m) as [previous m']; cbn in *. set_solver.
Qed.

Lemma insert_sorted k v m : sorted m → sorted (insert k v m).2.
Proof.
  unfold sorted. induction m as [|[k1 v1] m IH]; cbn; intros Hm; [by repeat constructor|].
  pose proof Hm as [Hs Hall]%StronglySorted_inv. cbn in Hs, Hall.
  destruct (String.compare k k1) eqn:Hc; cbn.
  - by apply String.compare_eq_iff in Hc as ->.
  - constructor; [done|]. constructor; [done|]. eapply Forall_impl; [exact Hall|]. intros x Hx. by etrans.
  - pose proof (insert_keys k v m) as Hkeys.
    destruct (insert k v m) as [previous m']; cbn in *. constructor; [by apply IH|].
    apply Forall_forall. intros y [->|Hy]%Hkeys; [by apply compare_gt|].
    rewrite Forall_forall in Hall. by apply Hall.
Qed.
End maps.

Abbreviation get := (bt_get String.compare).

(** ** The structs of a schema *)

(** The struct a type is about, behind any number of arrays. *)
Fixpoint struct_of (t : TypeSpec) : option string :=
  match t with
  | TPrimitive _ => None
  | TStruct name => Some name
  | TArray elem => struct_of elem
  end.

(** The structs a field declares, in the order in which they are prepared. *)
Fixpoint field_structs (f : FieldSpec) : list string :=
  match struct_of (fs_type f) with
  | Some name =>
      if decide (length (fs_fields f) = O) then []
      else concat (map field_structs (fs_fields f)) ++ [name]
  | None => []
  end.

Definition structs_of (name : string) (fields : list FieldSpec) : list string :=
  concat (map field_structs fields) ++ [name].

Definition declared (spec : Spec) : list string :=
  concat (map (λ c, structs_of (ss_name c) (ss_fields c)) (sp_common_structs spec))
  ++ structs_of (sp_name spec) (sp_fields spec).

(** No struct is part of itself: what a struct declares or refers to has a
    smaller rank. *)
Section rank.
  Variable rank : string → nat.

Definition below (k : nat) (f : FieldSpec) : Prop :=
  match struct_of (fs_type f) with Some name => (rank name < k)%nat | None => True end.

Fixpoint ranked (f : FieldSpec) : Prop :=
  match struct_of (fs_type f) with
  | Some name =>
      (fix go (fs : list FieldSpec) : Prop :=
        match fs with [] => True | x :: fs => (below (rank name) x ∧ ranked x) ∧ go fs end) (fs_fields f)
  | None => True
  end.

Definition fields_ranked (name : string) (fields : list FieldSpec) : Prop :=
  Forall (λ f, below (rank name) f ∧ ranked f) fields.

Definition acyclic (spec : Spec) : Prop :=
  Forall (λ c, fields_ranked (ss_name c) (ss_fields c)) (sp_common_structs spec) ∧
  fields_ranked (sp_name spec) (sp_fields spec).

Lemma ranked_fields f name :
  struct_of (fs_type f) = Some name → ranked f → fields_ranked name (fs_fields f).
Proof.
  destruct f as [n t v tag tv nv d i e a fields fl]. cbn. intros -> Hr.
  induction fields as [|x fields IH]; [constructor|]. destruct Hr. constructor; [done|by apply IH].
Qed.
End rank.

(** ** Two rounds side by side *)

(** Types alike except for the contents of structs: they panic alike. *)
Fixpoint alike (a b : PreparedType) : Prop :=
  match a, b with
  | PtPrimitive p, PtPrimitive q => p = q
  | PtEntity e, PtEntity e' => e = e'
  | PtStruct _, PtStruct _ => True
  | PtArray a, PtArray b => alike a b
  | _, _ => False
  end.

Section rounds.
  Context `{Inflector}.
  Variables valid flexible deprecated : VersionSpec.
  Variable spec_type : SpecType.
  Variable rank : string → nat.

Lemma alike_default f a b :
  alike a b → prepared_default f a = prepared_default f b.
Proof.
  intros Hab. unfold prepared_default. destruct (fs_default f) as [d|].
  - set (text := match d with DString s => s | DOther text => text end).
    case_decide; [done|]. case_decide; destruct a, b; cbn in *; by simplify_eq.
  - destruct a, b; cbn in *; by simplify_eq.
Qed.

Lemma alike_field f a b :
  alike a b →
  (is_Some (prepared_field valid flexible f a) ↔ is_Some (prepared_field valid flexible f b)).
Proof.
  intros Hab. unfold prepared_field, assert_that. rewrite (alike_default f a b Hab).
  repeat case_match; [|done..]. destruct (prepared_default f b); cbn; [|done].
  split; by eexists.
Qed.

(** The outputs of two rounds: the same names, and the same structs up to a rank. *)
Definition same_upto (k : nat) (out1 out2 : list PreparedStruct) : Prop :=
  Forall2 (λ s1 s2, ps_name s1 = ps_name s2 ∧ ((rank (ps_name s1) ≤ k)%nat → s1 = s2)) out1 out2.

Definition together {A : Type} (k : nat) (c1 c2 : M A) (Q : A → A → Prop) : Prop :=
  ∀ st1 st2, same_upto k (structs_output st1) (structs_output st2) →
    match c1 st1, c2 st2 with
    | Some (a1, st1'), Some (a2, st2') =>
        Q a1 a2 ∧ same_upto k (structs_output st1') (structs_output st2')
    | None, None => True
    | _, _ => False
    end.

Lemma together_ret {A : Type} k (a1 a2 : A) (Q : A → A → Prop) :
  Q a1 a2 → together k (mret a1) (mret a2) Q.
Proof. by intros HQ st1 st2 Hst. Qed.

Lemma together_bind {A B : Type} k (c1 c2 : M A) (k1 k2 : A → M B) Q R :
  together k c1 c2 Q → (∀ a1 a2, Q a1 a2 → together k (k1 a1) (k2 a2) R) →
  together k (a ← c1; k1 a) (a ← c2; k2 a) R.
Proof.
  intros Hc Hk st1 st2 Hst. specialize (Hc st1 st2 Hst). unfold mbind, M_bind.
  destruct (c1 st1) as [[a1 st1']|], (c2 st2) as [[a2 st2']|]; [|done..].
  destruct Hc as [HQ Hst']. by apply Hk.
Qed.

Lemma together_weaken {A : Type} k (c1 c2 : M A) (Q R : A → A → Prop) :
  together k c1 c2 Q → (∀ a1 a2, Q a1 a2 → R a1 a2) → together k c1 c2 R.
Proof.
  intros Hc HQ st1 st2 Hst. specialize (Hc st1 st2 Hst).
  destruct (c1 st1) as [[a1 st1']|], (c2 st2) as [[a2 st2']|]; [|done..].
  destruct Hc. auto.
Qed.

Abbreviation field_of m := (prepare_field valid flexible deprecated m spec_type).

Definition fields_of (m : list (string * PreparedStruct)) : list FieldSpec → M (list PreparedField) :=
  fix go (fs : list FieldSpec) : M (list PreparedField) :=
    match fs with
    | [] => mret []
    | x :: fs => y ← field_of m x; ys ← go fs; mret (y :: ys)
    end.

Lemma field_of_unfold m f :
  field_of m f = (type_ ← prepare_field_type valid flexible deprecated m spec_type
      (λ name, fields ← fields_of m (fs_fields f); finish_struct valid flexible deprecated spec_type name fields)
      f (fs_type f);
    lift_option (prepared_field valid flexible f type_)).
Proof. by destruct f. Qed.

Section agree.
  Variables (k : nat) (m1 m2 : list (string * PreparedStruct)).
  Hypothesis Hagree : ∀ name, (rank name < k)%nat → get name m1 = get name m2.

Lemma finish_together name fs1 fs2 :
  ((rank name ≤ k)%nat → fs1 = fs2) →
  together k (finish_struct valid flexible deprecated spec_type name fs1)
    (finish_struct valid flexible deprecated spec_type name fs2)
    (λ s1 s2, (rank name ≤ k)%nat → s1 = s2).
Proof.
  intros Hfs st1 st2 Hst. split; [by intros ->%Hfs|]. cbn. apply Forall2_app; [done|].
  constructor; [|constructor]. cbn. split; [done|]. by intros ->%Hfs.
Qed.

Lemma type_together def1 def2 f t :
  (∀ name, struct_of t = Some name → length (fs_fields f) ≠ O →
    together k (def1 name) (def2 name) (λ s1 s2, (rank name ≤ k)%nat → s1 = s2)) →
  together k (prepare_field_type valid flexible deprecated m1 spec_type def1 f t)
    (prepare_field_type valid flexible deprecated m2 spec_type def2 f t)
    (λ a b, alike a b ∧ (match struct_of t with Some name => (rank name < k)%nat | None => True end → a = b)).
Proof.
  induction t as [p|name|t IH]; cbn; intros Hdef.
  - destruct (fs_entity_type f) as [e|]; [|by apply together_ret].
    by intros st1 st2 Hst.
  - eapply (together_bind k _ _ _ _ (λ s1 s2, (rank name < k)%nat → s1 = s2)).
    + case_decide as Hlen.
      * intros st1 st2 Hst. destruct (decide (rank name < k)%nat) as [Hr|Hr].
        -- rewrite Hagree by done. by destruct (get name m2).
        -- by destruct (get name m1), (get name m2).
      * eapply together_weaken; [by apply Hdef|]. intros s1 s2 Heq Hr. apply Heq. lia.
    + intros s1 s2 Heq. apply together_ret. split; [done|]. by intros ->%Heq.
  - eapply together_bind; [by apply IH|]. intros a b [Hab Heq]. apply together_ret. split; [done|].
    by intros ->%Heq.
Qed.

Lemma fields_together name fields :
  Forall (λ f, together k (field_of m1 f) (field_of m2 f) (λ a b, below rank k f → a = b)) fields →
  fields_ranked rank name fields →
  together k (fields_of m1 fields) (fields_of m2 fields) (λ l1 l2, (rank name ≤ k)%nat → l1 = l2).
Proof.
  induction 1 as [|f fields Hf _ IH]; cbn; intros Hr; [by apply together_ret|].
  apply Forall_cons in Hr as [[Hb _] Hr].
  eapply together_bind; [exact Hf|]. intros a b Hab. eapply together_bind; [by apply IH|].
  intros l1 l2 Hl. apply together_ret. intros Hk. f_equal; [|by apply Hl].
  apply Hab. unfold below in *. destruct (struct_of (fs_type f)); [lia|done].
Qed.

Lemma field_together f :
  ranked rank f → together k (field_of m1 f) (field_of m2 f) (λ a b, below rank k f → a = b).
Proof.
  revert f. fix IH 1. intros f Hr.
  assert (Forall (λ f, ranked rank f →
    together k (field_of m1 f) (field_of m2 f) (λ a b, below rank k f → a = b)) (fs_fields f)) as Hfields.
  { destruct f as [n t v tag tv nv d i e a fields fl]. cbn. clear -IH.
    induction fields as [|x fields IHf]; constructor; [apply IH|apply IHf]. }
  clear IH. rewrite !field_of_unfold. eapply together_bind; [apply type_together|].
  - intros name Hname _. pose proof (ranked_fields rank f name Hname Hr) as Hrf.
    eapply together_bind; [apply (fields_together name); [|done]|].
    + unfold fields_ranked in Hrf. rewrite Forall_forall in Hfields, Hrf |- *. intros x Hx.
      by apply Hfields; [|apply Hrf].
    + intros fs1 fs2 Hfs. by apply finish_together.
  - intros t1 t2 [Halike Heq] st1 st2 Hst. pose proof (alike_field f t1 t2 Halike) as Hsome.
    unfold lift_option. cbn [mbind option_bind].
    destruct (prepared_field valid flexible f t1) as [a1|] eqn:H1,
      (prepared_field valid flexible f t2) as [a2|] eqn:H2; cbn.
    + split; [|done]. intros ->%Heq. congruence.
    + destruct (proj1 Hsome ltac:(by eexists)) as [? [=]].
    + destruct (proj2 Hsome ltac:(by eexists)) as [? [=]].
    + done.
Qed.

Lemma struct_together name fields :
  fields_ranked rank name fields →
  together k (prepared_struct_def valid flexible deprecated m1 spec_type name fields)
    (prepared_struct_def valid flexible deprecated m2 spec_type name fields)
    (λ s1 s2, (rank name ≤ k)%nat → s1 = s2).
Proof.
  intros Hr. eapply together_bind; [apply (fields_together name); [|done]|].
  - eapply Forall_impl; [exact Hr|]. intros f [_ ?]. by apply field_together.
  - intros fs1 fs2 Hfs. by apply finish_together.
Qed.

Lemma round_together spec :
  acyclic rank spec →
  together k (prepare_round valid flexible deprecated m1 spec_type spec)
    (prepare_round valid flexible deprecated m2 spec_type spec) (λ _ _, True).
Proof.
  intros [Hcommon Hfields]. eapply (together_bind k _ _ _ _ (λ _ _, True)).
  - induction Hcommon as [|c l Hc _ IH]; [by apply together_ret|].
    eapply together_bind; [by apply struct_together|]. intros _ _ _. exact IH.
  - intros _ _ _. eapply together_bind; [by apply struct_together|]. intros s1 s2 _. by apply together_ret.
Qed.
End agree.

(** ** The names of a round *)

Section names.
  Variable m : list (string * PreparedStruct).

Definition emits {A : Type} (names : list string) (c : M A) : Prop :=
  ∀ st a st', c st = Some (a, st') →
    map ps_name (structs_output st') = map ps_name (structs_output st) ++ names.

Lemma emits_ret {A : Type} (a : A) : emits [] (mret a).
Proof. intros st a' st' [= _ <-]. by rewrite app_nil_r. Qed.

Lemma emits_bind {A B : Type} names names' (c : M A) (f : A → M B) :
  emits names c → (∀ a, emits names' (f a)) → emits (names ++ names') (a ← c; f a).
Proof.
  intros Hc Hf st b st'. unfold mbind, M_bind. destruct (c st) as [[a st1]|] eqn:Hst; [|done].
  intros Hb. by rewrite (Hf _ _ _ _ Hb), (Hc _ _ _ Hst), app_assoc.
Qed.

Lemma emits_then {A B : Type} names (c : M A) (f : A → M B) :
  emits names c → (∀ a, emits [] (f a)) → emits names (a ← c; f a).
Proof. intros Hc Hf. rewrite <- (app_nil_r names). by apply emits_bind. Qed.

Lemma finish_emits name fields : emits [name] (finish_struct valid flexible deprecated spec_type name fields).
Proof. intros st a st' [= _ <-]. cbn. by rewrite map_app. Qed.

Lemma type_emits def f t names :
  (∀ name, emits (names ++ [name]) (def name)) →
  emits (match struct_of t with
    | Some name => if decide (length (fs_fields f) = O) then [] else names ++ [name]
    | None => []
    end) (prepare_field_type valid flexible deprecated m spec_type def f t).
Proof.
  intros Hdef. induction t as [p|name|t IH]; cbn.
  - destruct (fs_entity_type f); [|apply emits_ret]. intros st a st' [= _ <-]. cbn. by rewrite app_nil_r.
  - apply emits_then; [|intros; apply emits_ret]. case_decide; [|apply Hdef].
    destruct (get name m); apply emits_ret.
  - apply emits_then; [exact IH|intros; apply emits_ret].
Qed.

Lemma fields_emit fields :
  Forall (λ f, emits (field_structs f) (field_of m f)) fields →
  emits (concat (map field_structs fields)) (fields_of m fields).
Proof.
  induction 1 as [|f fields Hf _ IH]; cbn; [apply emits_ret|].
  apply emits_bind; [exact Hf|]. intros y. apply emits_then; [exact IH|]. intros ys. apply emits_ret.
Qed.

Lemma field_emits f : emits (field_structs f) (field_of m f).
Proof.
  revert f. fix IH 1. intros f.
  assert (Forall (λ f, emits (field_structs f) (field_of m f)) (fs_fields f)) as Hfields%fields_emit.
  { destruct f as [n t v tag tv nv d i e a fields fl]. cbn. clear -IH.
    induction fields as [|x fields IHf]; constructor; [apply IH|apply IHf]. }
  clear IH. rewrite field_of_unfold. apply emits_then.
  - replace (field_structs f) with (match struct_of (fs_type f) with
      | Some name => if decide (length (fs_fields f) = O) then []
          else concat (map field_structs (fs_fields f)) ++ [name]
      | None => [] end) by (by destruct f).
    apply type_emits. intros name. apply emits_bind; [done|]. intros fields. apply finish_emits.
  - intros t st a st'. unfold lift_option. destruct (prepared_field _ _ f t); [|done]. intros [= _ <-].
    by rewrite app_nil_r.
Qed.

Lemma struct_emits name fields :
  emits (structs_of name fields) (prepared_struct_def valid flexible deprecated m spec_type name fields).
Proof.
  apply emits_bind; [apply fields_emit, Forall_true, field_emits|]. intros fs. apply finish_emits.
Qed.

Lemma round_emits spec :
  emits (declared spec) (prepare_round valid flexible deprecated m spec_type spec).
Proof.
  apply emits_bind.
  - induction (sp_common_structs spec) as [|c l IH]; cbn; [apply emits_ret|].
    apply emits_bind; [apply struct_emits|]. intros _. exact IH.
  - intros _. apply emits_then; [apply struct_emits|]. intros _. apply emits_ret.
Qed.
End names.
End rounds.

(** ** Entering the structs of a round *)

Fixpoint type_eqb_refl (t : PreparedType) : type_eqb t t = true
with struct_eqb_refl (s : PreparedStruct) : struct_eqb s s = true
with field_eqb_refl (f : PreparedField) : field_eqb f f = true.
Proof.
  - destruct t; cbn; [by rewrite bool_decide_true|by rewrite bool_decide_true|apply struct_eqb_refl|apply type_eqb_refl].
  - destruct s as [t n fs v fl d]; cbn. rewrite !bool_decide_true by done. cbn. rewrite !andb_true_r.
    induction fs as [|f fs IH]; [done|]. by rewrite field_eqb_refl, IH.
  - destruct f as [n o t v tag tv nv d i e a fl]; cbn. rewrite !bool_decide_true by done.
    by rewrite type_eqb_refl.
Qed.

Definition enter : bool * list (string * PreparedStruct) → PreparedStruct →
    bool * list (string * PreparedStruct) := λ '(changed, m) s,
  let '(previous, m) := bt_insert String.compare (ps_name s) s m in
  (changed || match previous with Some p => negb (struct_eqb p s) | None => true end, m).

(** The structs have different names: each is found under its name afterwards, and
    a change is reported unless all of them were there before. *)
Lemma enter_all out changed m :
  NoDup (map ps_name out) → sorted m →
  let r := fold_left enter out (changed, m) in
  sorted r.2 ∧ (∀ name, name ∈ r.2.*1 ↔ name ∈ map ps_name out ∨ name ∈ m.*1) ∧
  (∀ name, name ∉ map ps_name out → get name r.2 = get name m) ∧
  Forall (λ s, get (ps_name s) r.2 = Some s) out ∧
  (r.1 = false ↔ changed = false ∧
    Forall (λ s, ∃ p, get (ps_name s) m = Some p ∧ struct_eqb p s = true) out).
Proof.
  revert changed m. induction out as [|s out IH]; intros changed m Hnd Hs; cbn [fold_left map].
  { cbn. split_and!; [done|set_solver|done|done|]. by split; [|intros [? _]]. }
  apply NoDup_cons in Hnd as [Hnew Hnd].
  destruct (enter (changed, m) s) as [changed1 m1] eqn:He.
  assert (m1 = (bt_insert String.compare (ps_name s) s m).2 ∧
    changed1 = changed || match get (ps_name s) m with Some p => negb (struct_eqb p s) | None => true end)
    as [Hm1 Hc1].
  { rewrite <- (insert_previous (ps_name s) s m Hs). unfold enter in He.
    destruct (bt_insert String.compare (ps_name s) s m). by injection He as <- <-. }
  assert (sorted m1) as Hs1 by (rewrite Hm1; by apply insert_sorted).
  destruct (IH changed1 m1 Hnd Hs1) as (Hsr & Hkeys & Hother & Hall & Hch).
  split_and!; [done| | | |].
  - intros name. rewrite Hkeys, Hm1, insert_keys. set_solver.
  - intros name [Hne Hout]%not_elem_of_cons. rewrite Hother, Hm1, get_insert by done. by rewrite decide_False.
  - constructor; [|done]. rewrite Hother, Hm1, get_insert by done. by rewrite decide_True.
  - rewrite Hch, Hc1, orb_false_iff, Forall_cons.
    assert (Forall (λ s', ∃ p, get (ps_name s') m1 = Some p ∧ struct_eqb p s' = true) out ↔
      Forall (λ s', ∃ p, get (ps_name s') m = Some p ∧ struct_eqb p s' = true) out) as ->.
    { rewrite !Forall_forall. apply forall_proper. intros s'.
      split; intros Hs' Hin; specialize (Hs' Hin); rewrite Hm1, get_insert, decide_False in *; try done;
        intros Heq; apply Hnew; rewrite <- Heq; by apply list_elem_of_fmap_2. }
    destruct (get (ps_name s) m) as [p|].
    + destruct (struct_eqb p s) eqn:Hps; cbn; [|naive_solver]. naive_solver.
    + naive_solver.
Qed.

(** ** The loop *)

Section loop.
  Context `{Inflector}.
  Variables (spec : Spec) (rank : string → nat) (depth : nat).
  Hypothesis Hnames : NoDup (declared spec).
  Hypothesis Hacyclic : acyclic rank spec.
  Hypothesis Hdepth : Forall (λ name, rank name < depth)%nat (declared spec).

Definition round (m : list (string * PreparedStruct)) : M unit :=
  prepare_round (sp_valid_versions spec) (sp_flexible_versions spec) (sp_deprecated_versions spec) m
    (sp_type spec) spec.

(** After [i] rounds the structs of the ranks below [i] do not change any more. *)
Definition settled (i : nat) (m : list (string * PreparedStruct)) : Prop :=
  sorted m ∧ m.*1 ⊆ declared spec ∧
  ∀ entities, ∃ st, round m (mkPrepState entities []) = Some (tt, st) ∧
    Forall (λ s, (rank (ps_name s) < i)%nat → get (ps_name s) m = Some s) (structs_output st).

Lemma round_names m entities st :
  round m (mkPrepState entities []) = Some (tt, st) → map ps_name (structs_output st) = declared spec.
Proof. intros Hr. by apply round_emits in Hr. Qed.

Lemma settled_first st :
  round [] (mkPrepState [] []) = Some (tt, st) → settled 0 [].
Proof.
  intros Hr. split_and!; [constructor|set_solver|]. intros entities.
  pose proof (round_together (sp_valid_versions spec) (sp_flexible_versions spec) (sp_deprecated_versions spec)
    (sp_type spec) rank 0 [] [] ltac:(done) spec Hacyclic (mkPrepState [] []) (mkPrepState entities [])
    ltac:(constructor)) as Ht.
  fold (round []) in Ht. rewrite Hr in Ht. destruct (round [] (mkPrepState entities [])) as [[[] st']|]; [|done].
  exists st'. split; [done|]. apply Forall_true. intros s Hs. lia.
Qed.

Lemma settled_next i m entities st :
  settled i m → round m (mkPrepState entities []) = Some (tt, st) →
  settled (S i) (fold_left enter (structs_output st) (false, m)).2.
Proof.
  intros (Hs & Hdecl & Hround) Hr. pose proof (round_names _ _ _ Hr) as Hout.
  assert (NoDup (map ps_name (structs_output st))) as Hnd by (by rewrite Hout).
  destruct (enter_all (structs_output st) false m Hnd Hs) as (Hs' & Hkeys & Hother & Hall & _).
  set (m' := (fold_left enter (structs_output st) (false, m)).2) in *.
  assert (∀ name, (rank name < i)%nat → get name m = get name m') as Hagree.
  { intros name Hrank. destruct (decide (name ∈ map ps_name (structs_output st))) as [Hin|Hin];
      [|symmetry; by apply Hother].
    apply list_elem_of_fmap in Hin as (s & -> & Hin).
    destruct (Hround entities) as (st0 & Hr0 & Hset). rewrite Hr in Hr0. injection Hr0 as <-.
    rewrite Forall_forall in Hset, Hall. by rewrite (Hset s Hin Hrank), (Hall s Hin). }
  split_and!; [done| |].
  { intros name [Hin|Hin]%Hkeys; [by rewrite <- Hout|by apply Hdecl]. }
  intros entities'.
  pose proof (round_together (sp_valid_versions spec) (sp_flexible_versions spec) (sp_deprecated_versions spec)
    (sp_type spec) rank i m m' Hagree spec Hacyclic (mkPrepState entities []) (mkPrepState entities' [])
    ltac:(constructor)) as Ht.
  fold (round m) in Ht. fold (round m') in Ht. rewrite Hr in Ht.
  destruct (round m' (mkPrepState entities' [])) as [[[] st']|]; [|done]. exists st'. split; [done|].
  destruct Ht as [_ Hsame]. clearbody m'. clear -Hsame Hall. revert Hall.
  induction Hsame as [|s s' l l' [Hname Heq] _ IH]; intros Hall; [constructor|].
  apply Forall_cons in Hall as [Hone Hall]. constructor; [|by apply IH].
  intros Hrank. rewrite <- Hname in Hrank. assert (s = s') as <- by (apply Heq; lia). done.
Qed.

(** What the loop leaves: the structs of its last round, which were the structs it
    resolved references with. *)
Definition prepared (entities : entity_set) (structs : list (string * PreparedStruct)) : Prop :=
  sorted structs ∧ (∀ name, name ∈ structs.*1 ↔ name ∈ declared spec) ∧
  ∃ before entities' st, round before (mkPrepState entities' []) = Some (tt, st) ∧
    entities = entity_types st ∧ map ps_name (structs_output st) = declared spec ∧
    Forall (λ s, get (ps_name s) structs = Some s ∧
      ∃ p, get (ps_name s) before = Some p ∧ struct_eqb p s = true) (structs_output st).

Lemma round_ends i m entities :
  settled i m → ∃ st changed m', round m (mkPrepState entities []) = Some (tt, st) ∧
    enter_structs m (structs_output st) = (changed, m') ∧ settled (S i) m' ∧
    (changed = false → prepared (entity_types st) m') ∧ ((depth ≤ i)%nat → changed = false).
Proof.
  intros Hset. pose proof Hset as (Hs & Hdecl & Hround). destruct (Hround entities) as (st & Hr & Hsome).
  pose proof (round_names _ _ _ Hr) as Hout. pose proof (settled_next i m entities st Hset Hr) as Hnext.
  destruct (enter_all (structs_output st) false m ltac:(by rewrite Hout) Hs) as (Hs' & Hkeys & _ & Hall & Hch).
  exists st. change (enter_structs m (structs_output st)) with (fold_left enter (structs_output st) (false, m)).
  destruct (fold_left enter (structs_output st) (false, m)) as [changed m']. cbn in *.
  exists changed, m'. split_and!; [done..| |].
  - intros [_ Heq]%Hch. split_and!; [done| |].
    + intros name. rewrite Hkeys, Hout. split; [intros [?|?%Hdecl]; done|by left].
    + exists m, entities, st. split_and!; [done..|]. rewrite Forall_forall in Hall, Heq |- *. auto.
  - intros Hi. apply Hch. split; [done|]. rewrite Forall_forall in Hsome |- *. intros s Hin.
    exists s. split; [|apply struct_eqb_refl]. apply Hsome; [done|].
    eapply Nat.lt_le_trans; [|exact Hi]. apply (proj1 (Forall_forall _ _) Hdepth). rewrite <- Hout. by apply list_elem_of_fmap_2.
Qed.

Lemma loop_ends rest i m entities :
  settled i m → (depth ≤ i + rest)%nat →
  ∃ entities' structs, prepare_loop (S rest) spec entities m = Some (entities', structs) ∧
    prepared entities' structs.
Proof.
  revert i m entities. induction rest as [|rest IH]; intros i m entities Hset Hd;
    destruct (round_ends i m entities Hset) as (st & changed & m' & Hr & He & Hnext & Hdone & Hlast);
    unfold round in Hr; cbn [prepare_loop]; rewrite Hr; cbn [mbind option_bind]; rewrite He.
  - rewrite Hlast by lia. exists (entity_types st), m'. split; [done|]. apply Hdone, Hlast. lia.
  - destruct changed; [apply (IH (S i)); [done|lia]|]. eauto.
Qed.

(** C34: the generator ends.  When no struct name is declared twice in a schema,
    structs are not part of themselves (what a struct declares or refers to has a
    smaller rank), and the first round does not fail an assertion, the loop that
    prepares the structs ends, in at most one round more than the ranks, with
    exactly the declared structs in the order of their names.  These are the
    structs of the last round, and the round resolved every reference by name to
    a struct that is equal to the one that is generated. *)
Theorem prepare_loop_ends (fuel : nat) (st : PrepState) :
  round [] (mkPrepState [] []) = Some (tt, st) → (depth < fuel)%nat →
  ∃ entities structs, prepare_loop fuel spec [] [] = Some (entities, structs) ∧ prepared entities structs.
Proof.
  intros Hfirst%settled_first Hfuel. destruct fuel as [|rest]; [lia|].
  apply (loop_ends rest 0); [done|lia].
Qed.
End loop.

(** ** Examples *)

Definition no_inflector : Inflector := {| to_snake_case := id; to_pascal_case := id |}.

Definition simple_field (name : string) (t : TypeSpec) (fields : list FieldSpec) : FieldSpec :=
  mkFieldSpec name t (Since 0) None VNone VNone None false None "" fields None.

Definition simple_spec (common : list StructSpec) (fields : list FieldSpec) : Spec :=
  mkSpec (Some 1) VNone SRequest "FetchRequest" (Range 0 3) VNone fields common.

(** A struct declared in a field, which refers to a common struct. *)
Definition nested_spec : Spec :=
  simple_spec [mkStructSpec "Leader" (Since 0) [simple_field "epoch" (TPrimitive PInt32) []]]
    [simple_field "topics" (TArray (TStruct "FetchTopic"))
      [simple_field "leader" (TStruct "Leader") []]].

Definition nested_rank (name : string) : nat :=
  if decide (name = "Leader") then 0 else if decide (name = "FetchTopic") then 1 else 2.

Lemma prepare_loop_ends_witness :
  ∃ entities structs, @prepare_loop no_inflector 4 nested_spec [] [] = Some (entities, structs) ∧
    @prepared no_inflector nested_spec entities structs.
Proof.
  destruct (@round no_inflector nested_spec [] (mkPrepState [] [])) as [[[] st]|] eqn:Hr;
    [|vm_compute in Hr; discriminate Hr].
  apply (@prepare_loop_ends no_inflector nested_spec nested_rank 3) with (st := st).
  - apply (bool_decide_unpack _). vm_compute. exact I.
  - cbn. repeat split; repeat constructor.
  - repeat constructor; vm_compute; lia.
  - exact Hr.
  - lia.
Defined.

(** Two different structs of one name replace each other in every round. *)
Definition twice_declared : Spec :=
  simple_spec [mkStructSpec "Leader" (Since 0) [simple_field "epoch" (TPrimitive PInt32) []];
               mkStructSpec "Leader" (Since 0) [simple_field "id" (TPrimitive PInt32) []]] [].

Definition twice_entered : list (string * PreparedStruct) := Eval vm_compute in
  match @round no_inflector twice_declared [] (mkPrepState [] []) with
  | Some (_, st) => (enter_structs [] (structs_output st)).2
  | None => []
  end.

Lemma twice_declared_step fuel :
  @prepare_loop no_inflector (S fuel) twice_declared [] [] = @prepare_loop no_inflector fuel twice_declared [] twice_entered ∧
  @prepare_loop no_inflector (S fuel) twice_declared [] twice_entered
    = @prepare_loop no_inflector fuel twice_declared [] twice_entered.
Proof. split; vm_compute; reflexivity. Qed.

Lemma twice_declared_runs_on fuel : @prepare_loop no_inflector fuel twice_declared [] [] = None.
Proof.
  assert (@prepare_loop no_inflector fuel twice_declared [] twice_entered = None ∧
    @prepare_loop no_inflector fuel twice_declared [] [] = None) as [_ Hn]; [|exact Hn].
  induction fuel as [|fuel [IH _]]; [done|]. destruct (twice_declared_step fuel) as [H0 H1].
  split; [by etransitivity|by etransitivity].
Qed.
End CodegenLoop.
