(* ===== verification/CodegenCorrect.v ===== *)
(** * The message generator: what the generated code does in each version

    The code a message is generated from ([CodegenGenerate]) tests the version in
    many places, and the tests are simplified against the valid versions: a range
    that starts with them is tested on its upper end only, a version that is the
    last one with [>=], and so on.  This file gives the tests their meaning and
    proves that the simplifications are right.

    [condition_of] reads a test of the generated text; [at_version] takes the code
    apart at the tests and keeps, for one version, the branches that are taken.
    [version_cond_correct] is the lemma about [write_version_cond]; the theorems
    say what is left of the codecs of a struct in a valid version: every field of
    the version encoded, sized and decoded with the same wire type and in the same
    order, the others left at their default. *)

From S2P Require Import Prelude Text CodegenSpec CodegenWriter CodegenGenerate.
From stdpp Require Import pretty.
Open Scope Z_scope.

Module CodegenCorrect.
Import Text CodegenSpec CodegenWriter CodegenGenerate.

(** ** Reading the tests *)

Definition words (s : string) : list string := text_of <$> split Byte.x20 (bytes_of s).

Definition comparison_of (op : string) : option (Z → Z → bool) :=
  if decide (op = "<") then Some (λ a b, bool_decide (a < b))
  else if decide (op = ">") then Some (λ a b, bool_decide (b < a))
  else if decide (op = "<=") then Some (λ a b, bool_decide (a ≤ b))
  else if decide (op = ">=") then Some (λ a b, bool_decide (b ≤ a))
  else if decide (op = "==") then Some (λ a b, bool_decide (a = b))
  else if decide (op = "!=") then Some (λ a b, bool_decide (a ≠ b))
  else None.

Definition test_of (var op n : string) : option (Z → bool) :=
  if decide (var = "version") then
    c ← comparison_of op; n ← parse_version (bytes_of n); Some (λ v, c v n)
  else None.

(** The condition of an [if] on the version. *)
Definition condition_of (s : string) : option (Z → bool) :=
  match words s with
  | [kw; var; op; n; e] =>
      if decide (kw = "if" ∧ e = "") then test_of var op n else None
  | [kw; var; op; n; both; var'; op'; n'; e] =>
      if decide (kw = "if" ∧ e = "") then
        a ← test_of var op n; b ← test_of var' op' n';
        if decide (both = "&&") then Some (λ v, a v && b v)
        else if decide (both = "||") then Some (λ v, a v || b v)
        else None
      else None
  | _ => None
  end.

(** The contents of a block in version [v]: a conditional on the version is
    replaced by the branch that is taken. *)
Fixpoint body_at (v : Z) (o : out) : list out :=
  match o with
  | Write _ => []
  | Block body =>
      (fix go (l : list out) : list out :=
         match l with
         | [] => []
         | Write s :: l' =>
             match condition_of s, l' with
             | Some c, (Block _ as o1) :: rest =>
                 match rest with
                 | Write e :: (Block _ as o2) :: rest' =>
                     if decide (e = " else ") then
                       (if c v then body_at v o1 else body_at v o2) ++ go rest'
                     else (if c v then body_at v o1 else []) ++ go rest
                 | _ => (if c v then body_at v o1 else []) ++ go rest
                 end
             | _, _ => Write s :: go l'
             end
         | (Block _ as o1) :: l' => Block (body_at v o1) :: go l'
         end) body
  end.

Definition at_version (v : Z) (os : list out) : list out := body_at v (Block os).

(** Not the continuation of a conditional. *)
Definition starts_ok (os : list out) : Prop :=
  match os with
  | [] => True
  | Write e :: _ => e ≠ " else "
  | Block _ :: _ => False
  end.

Definition not_block (os : list out) : Prop :=
  match os with Block _ :: _ => False | _ => True end.

Lemma starts_ok_app a b : starts_ok a → starts_ok b → starts_ok (a ++ b).
Proof. by destruct a as [|[] a]. Qed.

Lemma starts_not_block l : starts_ok l → not_block l.
Proof. by destruct l as [|[]]. Qed.

Lemma at_write v s l :
  condition_of s = None ∨ not_block l → at_version v (Write s :: l) = Write s :: at_version v l.
Proof.
  intros H. unfold at_version. cbn [body_at].
  destruct (condition_of s) as [c|]; [|done]. destruct H as [|H]; [done|].
  destruct l as [|[e|b] l]; done.
Qed.

Lemma at_block v b l : at_version v (Block b :: l) = Block (at_version v b) :: at_version v l.
Proof. done. Qed.

(** A conditional without an alternative. *)
Lemma at_if v s c b l :
  condition_of s = Some c → (∀ b' l', l ≠ Write " else " :: Block b' :: l') →
  at_version v (Write s :: Block b :: l) = (if c v then at_version v b else []) ++ at_version v l.
Proof.
  intros Hc Hl. unfold at_version. cbn [body_at]. rewrite Hc.
  destruct l as [|[e|b'] [|[t|b''] l]]; try done. rewrite decide_False; [done|].
  intros ->. by eapply Hl.
Qed.

Lemma starts_not_else l : starts_ok l → ∀ b' l', l ≠ Write " else " :: Block b' :: l'.
Proof. by intros H b' l' ->. Qed.

Lemma at_if_else v s c b b' l :
  condition_of s = Some c →
  at_version v (Write s :: Block b :: Write " else " :: Block b' :: l)
  = (if c v then at_version v b else at_version v b') ++ at_version v l.
Proof. intros Hc. unfold at_version. cbn [body_at]. by rewrite Hc. Qed.

Lemma else_or_not l :
  (∃ b' l', l = Write " else " :: Block b' :: l') ∨ (∀ b' l', l ≠ Write " else " :: Block b' :: l').
Proof.
  destruct l as [|[e|b] [|[t|b'] l]]; try (right; intros ?? [=]; done).
  destruct (decide (e = " else ")) as [->|Hne]; [left; eauto|]. right. intros ?? [= ? _ _]. done.
Qed.

Lemma not_else_app a b :
  starts_ok b → (∀ b' l', a ≠ Write " else " :: Block b' :: l') →
  ∀ b' l', a ++ b ≠ Write " else " :: Block b' :: l'.
Proof.
  intros Hb Ha b' l'. destruct a as [|o [|o' a]]; cbn.
  - by intros ->.
  - intros [= -> ->]. done.
  - intros [= -> -> _]. by eapply Ha.
Qed.

Lemma at_app v a b :
  starts_ok b → at_version v (a ++ b) = at_version v a ++ at_version v b.
Proof.
  intros Hb. remember (length a) as n eqn:Hn. revert a Hn.
  induction (lt_wf n) as [n _ IH]. intros a ->.
  assert (∀ a', (length a' < length a)%nat →
    at_version v (a' ++ b) = at_version v a' ++ at_version v b) as IHa by (intros; by eapply IH).
  clear IH. destruct a as [|[s|body] a]; [done| |].
  2: { cbn [app]. rewrite !at_block, IHa by (cbn; lia). done. }
  cbn [app]. destruct (condition_of s) as [c|] eqn:Hc.
  2: { rewrite !at_write, IHa by (auto || cbn; lia). done. }
  destruct a as [|[t|b1] a].
  - rewrite !at_write by (right; by apply starts_not_block). done.
  - rewrite !at_write by (by right). rewrite IHa by (cbn; lia). done.
  - cbn [app]. destruct (else_or_not a) as [(b2 & a' & ->)|Hno].
    + cbn [app]. rewrite !(at_if_else v s c), IHa by (done || cbn; lia). by rewrite app_assoc.
    + rewrite !(at_if v s c), IHa by (done || (by apply not_else_app) || cbn; lia).
      by rewrite app_assoc.
Qed.

(** ** The tests that are written *)

Lemma words_cons w rest :
  Byte.x20 ∉ bytes_of w → words (w +:+ " " +:+ rest) = w :: words rest.
Proof.
  intros Hw. unfold words. rewrite !string_bytes_app. change (bytes_of " ") with [Byte.x20]. cbn [app].
  rewrite split_app by done. cbn [fmap list_fmap]. by rewrite text_of_bytes.
Qed.

Lemma pretty_word z rest : 0 ≤ z → words (pretty z +:+ " " +:+ rest) = pretty z :: words rest.
Proof. intros Hz. apply words_cons. by apply pretty_free. Qed.

Lemma test_of_spec op c n :
  comparison_of op = Some c → version_number n → test_of "version" op (pretty n) = Some (λ v, c v n).
Proof. intros Hc Hn. unfold test_of. rewrite decide_True, Hc by done. cbn. by rewrite parse_version_pretty. Qed.

Lemma condition_one op c n :
  comparison_of op = Some c → Byte.x20 ∉ bytes_of op → version_number n →
  condition_of ("if version " +:+ op +:+ " " +:+ pretty n +:+ " ") = Some (λ v, c v n).
Proof.
  intros Hc Hop Hn. unfold condition_of.
  change ("if version " +:+ op +:+ " " +:+ pretty n +:+ " ")
    with ("if" +:+ " " +:+ "version" +:+ " " +:+ op +:+ " " +:+ pretty n +:+ " " +:+ "").
  rewrite !words_cons, pretty_word by (apply Hn || done || (vm_compute; set_solver)).
  change (words "") with [""%string]. cbn beta iota.
  rewrite decide_True by done. by apply test_of_spec.
Qed.

Lemma condition_two op op' c c' both a b :
  comparison_of op = Some c → comparison_of op' = Some c' →
  Byte.x20 ∉ bytes_of op → Byte.x20 ∉ bytes_of op' → Byte.x20 ∉ bytes_of both →
  version_number a → version_number b →
  condition_of ("if version " +:+ op +:+ " " +:+ pretty a +:+ " " +:+ both +:+ " version "
      +:+ op' +:+ " " +:+ pretty b +:+ " ")
  = if decide (both = "&&") then Some (λ v, c v a && c' v b)
    else if decide (both = "||") then Some (λ v, c v a || c' v b) else None.
Proof.
  intros Hc Hc' Hop Hop' Hboth Ha Hb. unfold condition_of.
  change ("if version " +:+ op +:+ " " +:+ pretty a +:+ " " +:+ both +:+ " version "
      +:+ op' +:+ " " +:+ pretty b +:+ " ")
    with ("if" +:+ " " +:+ "version" +:+ " " +:+ op +:+ " " +:+ pretty a +:+ " " +:+ both +:+ " "
      +:+ "version" +:+ " " +:+ op' +:+ " " +:+ pretty b +:+ " " +:+ "").
  rewrite (words_cons "if"), (words_cons "version"), (words_cons op) by (done || (vm_compute; set_solver)).
  rewrite pretty_word by apply Ha.
  rewrite (words_cons both), (words_cons "version"), (words_cons op') by (done || (vm_compute; set_solver)).
  rewrite pretty_word by apply Hb.
  change (words "") with [""%string]. cbn beta iota. rewrite decide_True by done.
  rewrite (test_of_spec op c a), (test_of_spec op' c' b) by done. done.
Qed.

(** Versions as the schemas have them. *)
Definition versions_ok (s : VersionSpec) : Prop := canonical s ∧ versions_printable s.

Lemma versions_ok_intersect s t : versions_ok s → versions_ok t → versions_ok (intersect s t).
Proof.
  intros [Hs Hps] [Ht Hpt]. split; [by apply canonical_intersect|].
  destruct s, t; cbn [intersect versions_printable] in *; repeat case_decide;
    unfold version_number in *; cbn [versions_printable]; unfold version_number; (done || lia).
Qed.

Definition bounded (s : VersionSpec) : Prop := is_Some (range s).

(** A non-empty part of bounded versions is bounded. *)
Lemma bounded_intersect s t : bounded t → intersect s t ≠ VNone → bounded (intersect s t).
Proof.
  unfold bounded. destruct s, t; cbn [intersect range]; intros [? ?] Hne; try done;
    repeat case_decide; cbn; by eauto.
Qed.

#[local] Ltac no_space := vm_compute; set_solver.
#[local] Ltac one_test op := apply (condition_one op); [reflexivity|no_space|done].
#[local] Ltac two_tests op op' both a b :=
  etransitivity;
  [eapply (condition_two op op' _ _ both a b); [reflexivity|reflexivity|no_space|no_space|no_space|done|done]
  |reflexivity].

Section tests.
  Variables (min max : Z) (c : VersionSpec).
  Hypothesis (Hok : versions_ok c) (Hb : bounded c).
  Hypothesis (Hin : ∀ u, u ∈ c → min ≤ u ≤ max).

Lemma test_inside_spec v :
  min ≤ v ≤ max →
  ∃ f, condition_of (test_inside min max c) = Some f ∧ f v = bool_decide (v ∈ c).
Proof.
  intros Hv. destruct Hok as [Hc Hp], Hb as [[m m'] Hr].
  destruct c as [|n|n|a b]; cbn [range] in Hr; [done| |done|];
    cbn [canonical versions_printable] in Hc, Hp; cbn [test_inside].
  - pose proof (Hin n eq_refl). case_decide.
    + eexists. split; [one_test ">="|]. apply bool_decide_ext. cbn. lia.
    + eexists. split; [one_test "=="|]. by apply bool_decide_ext.
  - destruct Hp as [Ha Hbn].
    pose proof (Hin a ltac:(split; lia)). pose proof (Hin b ltac:(split; lia)).
    repeat case_decide.
    + eexists. split; [one_test "<="|]. apply bool_decide_ext. cbn. lia.
    + eexists. split; [one_test ">="|]. apply bool_decide_ext. cbn. lia.
    + eexists. split.
      { two_tests ">=" "<=" "&&" a b. }
      cbn beta. rewrite <- bool_decide_and. apply bool_decide_ext. cbn. lia.
Qed.

Lemma test_outside_spec v :
  min ≤ v ≤ max →
  ∃ f, condition_of (test_outside min max c) = Some f ∧ f v = negb (bool_decide (v ∈ c)).
Proof.
  intros Hv. destruct Hok as [Hc Hp], Hb as [[m m'] Hr].
  destruct c as [|n|n|a b]; cbn [range] in Hr; [done| |done|];
    cbn [canonical versions_printable] in Hc, Hp; cbn [test_outside]; rewrite <- bool_decide_not.
  - pose proof (Hin n eq_refl). case_decide.
    + eexists. split; [one_test "<"|]. apply bool_decide_ext. cbn. lia.
    + eexists. split; [one_test "!="|]. by apply bool_decide_ext.
  - destruct Hp as [Ha Hbn].
    pose proof (Hin a ltac:(split; lia)). pose proof (Hin b ltac:(split; lia)).
    repeat case_decide.
    + eexists. split; [one_test ">"|]. apply bool_decide_ext. cbn. lia.
    + eexists. split; [one_test "<"|]. apply bool_decide_ext. cbn. lia.
    + eexists. split.
      { two_tests "<" ">" "||" a b. }
      cbn beta. rewrite <- bool_decide_or. apply bool_decide_ext. cbn. lia.
Qed.
End tests.

Lemma elem_of_range s a b v : range s = Some (a, b) → v ∈ s ↔ a ≤ v ≤ b.
Proof. destruct s; cbn; intros [= <- <-]; unfold elem_of, version_elem_of; lia. Qed.

Lemma is_none_spec s : is_none s = true ↔ s = VNone.
Proof. by destruct s. Qed.

(** The version specifications a condition is written for. *)
Definition finite_versions (s : VersionSpec) : Prop := versions_ok s ∧ (s = VNone ∨ bounded s).

Lemma finite_intersect s t : finite_versions s → versions_ok t → finite_versions (intersect s t).
Proof.
  intros [Hs Hb] Ht. split; [by apply versions_ok_intersect|].
  destruct Hb as [->|[r Hr]]; [left; by destruct t|].
  destruct s, t; cbn in *; try done; repeat case_decide; (by left) || (right; eexists; done).
Qed.

Lemma finite_inhabited s : finite_versions s → s = VNone ∨ ∃ u, u ∈ s.
Proof.
  intros [[Hc _] [->|[[a b] Hr]]]; [by left|]. right. exists a.
  rewrite (elem_of_range _ _ _ _ Hr). destruct s; cbn in Hr, Hc; simplify_eq; lia.
Qed.

Lemma starts_ok_write s : s ≠ " else " → starts_ok [Write s].
Proof. done. Qed.

(** A test starts with [if]. *)
Lemma test_starts min max c l :
  starts_ok (Write (test_inside min max c) :: l) ∧ starts_ok (Write (test_outside min max c) :: l).
Proof. split; destruct c; cbn; repeat case_decide; cbn; done. Qed.

(** Writing a condition does not panic on bounded versions. *)
Lemma write_version_cond_some valid cond ct cf skip_true skip_false :
  finite_versions valid → starts_ok ct → starts_ok cf →
  ∃ c, write_version_cond valid cond (Some ct) (Some cf) skip_true skip_false = Some c ∧ starts_ok c.
Proof.
  intros [_ [->|[[min max] Hr]]] Ht Hf; unfold write_version_cond; [by eexists|]. rewrite Hr.
  pose proof (test_starts min max (intersect cond valid)) as Hs.
  destruct skip_true; repeat (case_bool_decide || case_match || cbn);
    eexists; (split; [reflexivity|]); (done || apply Hs).
Qed.

(** Whether the alternative of a condition is left out although it applies: only
    when the condition holds of some valid version. *)
Definition alternative_dropped (valid cond : VersionSpec) (skip_true skip_false : bool) : bool :=
  negb skip_true && skip_false && negb (is_none (intersect cond valid)).

(** What a condition comes to in a valid version. *)
Lemma version_cond_at valid cond ct cf skip_true skip_false c v :
  finite_versions valid → versions_ok cond → v ∈ valid →
  write_version_cond valid cond (Some ct) (Some cf) skip_true skip_false = Some c →
  at_version v c =
    if decide (v ∈ cond) then (if skip_true then [] else at_version v ct)
    else if alternative_dropped valid cond skip_true skip_false then [] else at_version v cf.
Proof.
  intros [Hvalid Hb] Hcond Hv. destruct Hb as [->|Hb]; [done|]. destruct Hb as [[min max] Hr].
  unfold write_version_cond, alternative_dropped. rewrite Hr.
  pose proof (versions_ok_intersect _ _ Hcond Hvalid) as Hok.
  assert (∀ u, u ∈ intersect cond valid ↔ u ∈ cond ∧ min ≤ u ≤ max) as Hin.
  { intros u. rewrite elem_of_intersect by (apply Hcond || apply Hvalid).
    by rewrite (elem_of_range valid min max u Hr). }
  rewrite (elem_of_range _ _ _ _ Hr) in Hv.
  assert (v ∈ intersect cond valid ↔ v ∈ cond) as Hd by (rewrite Hin; tauto).
  destruct (bool_decide_reflect (intersect cond valid = valid)) as [Heq|Hne].
  - assert (v ∈ cond).
    { apply (Hin v). rewrite Heq. by rewrite (elem_of_range _ _ _ _ Hr). }
    rewrite decide_True by done. destruct skip_true; by intros [= <-].
  - destruct (is_none (intersect cond valid)) eqn:Hnone.
    + apply is_none_spec in Hnone. assert (v ∉ cond).
      { intros Hvc. assert (v ∈ intersect cond valid) as Hbad by (by apply Hin). by rewrite Hnone in Hbad. }
      rewrite decide_False, andb_false_r by done. destruct skip_true; by intros [= <-].
    + assert (bounded (intersect cond valid)) as Hbc.
      { apply bounded_intersect; [by eexists|]. intros He. by rewrite He in Hnone. }
      assert (∀ u, u ∈ intersect cond valid → min ≤ u ≤ max) as Hsub by (intros u; rewrite Hin; tauto).
      unfold then_write, in_block, emit, skip.
      destruct skip_true; cbn [mbind option_bind app negb andb].
      * intros [= <-]. destruct (test_outside_spec min max _ Hok Hbc Hsub v Hv) as (f & Hf & Hfv).
        rewrite (at_if v _ f), app_nil_r, Hfv by done.
        destruct (decide (v ∈ cond)); [rewrite bool_decide_true|rewrite bool_decide_false]; tauto.
      * destruct (test_inside_spec min max _ Hok Hbc Hsub v Hv) as (f & Hf & Hfv).
        destruct skip_false; cbn [mbind option_bind app negb andb]; intros [= <-].
        -- rewrite (at_if v _ f), app_nil_r, Hfv by done.
           destruct (decide (v ∈ cond)); [rewrite bool_decide_true|rewrite bool_decide_false]; tauto.
        -- rewrite (at_if_else v _ f), app_nil_r, Hfv by done.
           destruct (decide (v ∈ cond)); [rewrite bool_decide_true|rewrite bool_decide_false]; tauto.
Qed.

(** ** Code in a version *)

(** The code is written without panic. *)
Definition Writes (c : code) : Prop := ∃ l, c = Some l ∧ starts_ok l.

(** In version [v] it comes to [r]. *)
Definition Leaves (v : Z) (c : code) (r : list out) : Prop :=
  ∃ l, c = Some l ∧ starts_ok l ∧ at_version v l = r.

Create HintDb codegen.

Lemma leaves_writes v c r : Leaves v c r → Writes c.
Proof. intros (l & ? & ? & _). by exists l. Qed.

Lemma leaves_skip v : Leaves v skip [].
Proof. by exists []. Qed.

Lemma leaves_emit v s : s ≠ " else " → Leaves v (emit s) [Write s].
Proof. intros Hs. by exists [Write s]; split_and!; [| |apply at_write; right]. Qed.

Lemma writes_emit s : s ≠ " else " → Writes (emit s).
Proof. intros Hs. by exists [Write s]. Qed.

Lemma writes_skip : Writes skip.
Proof. by exists []. Qed.

Lemma append_nl_not_else s : s +:+ nl ≠ " else ".
Proof.
  intros H. apply (f_equal bytes_of) in H. rewrite string_bytes_app in H.
  assert (Byte.x0a ∈ bytes_of " else ") as Hin by (rewrite <- H; apply elem_of_app; right; left).
  revert Hin. vm_compute. set_solver.
Qed.

Lemma leaves_emitln v s : Leaves v (emitln s) [Write (s +:+ nl)].
Proof. apply leaves_emit, append_nl_not_else. Qed.

Lemma writes_emitln s : Writes (emitln s).
Proof. apply writes_emit, append_nl_not_else. Qed.

Lemma leaves_seq v a b ra rb : Leaves v a ra → Leaves v b rb → Leaves v (a ▷ b) (ra ++ rb).
Proof.
  intros (l & -> & Hl & <-) (k & -> & Hk & <-). exists (l ++ k).
  split_and!; [done|by apply starts_ok_app|by apply at_app].
Qed.

Lemma writes_seq a b : Writes a → Writes b → Writes (a ▷ b).
Proof.
  intros (l & -> & Hl) (k & -> & Hk). exists (l ++ k). split; [done|by apply starts_ok_app].
Qed.

(** A block behind text that is not a condition on the version. *)
Lemma leaves_block v s c r :
  condition_of s = None → s ≠ " else " → Leaves v c r →
  Leaves v (emit s ▷ in_block c) [Write s; Block r].
Proof.
  intros Hc Hs (l & -> & Hl & <-). exists [Write s; Block l].
  split_and!; [done..|]. by rewrite at_write by auto.
Qed.

Lemma leaves_for_each {A : Type} (f : A → code) (r : A → list out) l v :
  Forall (λ x, Leaves v (f x) (r x)) l → Leaves v (for_each f l) (concat (r <$> l)).
Proof. induction 1; cbn; [apply leaves_skip|]. by apply leaves_seq. Qed.

Lemma writes_cond valid cond t f skip_true skip_false :
  finite_versions valid → Writes t → Writes f →
  Writes (write_version_cond valid cond t f skip_true skip_false).
Proof.
  intros Hv (lt & -> & Ht) (lf & -> & Hf).
  destruct (write_version_cond_some valid cond lt lf skip_true skip_false) as (c & ? & ?); [done..|].
  by exists c.
Qed.

Lemma leaves_cond v valid cond t f rt rf skip_true skip_false :
  finite_versions valid → versions_ok cond → v ∈ valid → Writes t → Writes f →
  (v ∈ cond → Leaves v t rt) → (v ∉ cond → Leaves v f rf) →
  Leaves v (write_version_cond valid cond t f skip_true skip_false)
    (if decide (v ∈ cond) then (if skip_true then [] else rt)
     else if alternative_dropped valid cond skip_true skip_false then [] else rf).
Proof.
  intros Hvalid Hcond Hv (lt & -> & Ht) (lf & -> & Hf) HT HF.
  destruct (write_version_cond_some valid cond lt lf skip_true skip_false) as (c & Hc & Hs); [done..|].
  exists c. split_and!; [done..|]. rewrite (version_cond_at _ _ _ _ _ _ _ _ Hvalid Hcond Hv Hc).
  case_decide as Hd.
  - by destruct (HT Hd) as (? & [= <-] & _ & <-).
  - by destruct (HF Hd) as (? & [= <-] & _ & <-).
Qed.

(** A choice between two pieces of code; [skip_false] leaves out the second. *)
Lemma leaves_choice v valid cond t f rt rf skip_false :
  finite_versions valid → versions_ok cond → v ∈ valid → Writes t → Writes f →
  (v ∈ cond → Leaves v t rt) → (v ∉ cond → Leaves v f rf) →
  Leaves v (write_version_cond valid cond t f false skip_false)
    (if decide (v ∈ cond) then rt
     else if skip_false && negb (is_none (intersect cond valid)) then [] else rf).
Proof. exact (leaves_cond v valid cond t f rt rf false skip_false). Qed.

(** A piece of code for the versions outside the condition. *)
Lemma leaves_unless v valid cond t f rf skip_false :
  finite_versions valid → versions_ok cond → v ∈ valid → Writes t → Writes f →
  (v ∉ cond → Leaves v f rf) →
  Leaves v (write_version_cond valid cond t f true skip_false)
    (if decide (v ∈ cond) then [] else rf).
Proof.
  intros Hvalid Hcond Hv (l & -> & Hl) Hf HF.
  apply (leaves_cond v valid cond (Some l) f (at_version v l) rf true skip_false); try done.
  - by exists l.
  - intros _. by exists l.
Qed.

(** Code for the versions of the condition only. *)
Lemma leaves_when v valid cond t rt :
  finite_versions valid → versions_ok cond → v ∈ valid → Writes t →
  (v ∈ cond → Leaves v t rt) →
  Leaves v (write_version_cond valid cond t skip false true) (if decide (v ∈ cond) then rt else []).
Proof.
  intros Hvalid Hcond Hv Ht HT.
  pose proof (leaves_choice v valid cond t skip rt [] true Hvalid Hcond Hv Ht
    (leaves_writes v _ _ (leaves_skip v)) HT (λ _, leaves_skip v)) as Hl.
  revert Hl. case_decide; [done|]. by case_match.
Qed.

#[export] Hint Resolve leaves_skip leaves_emit leaves_emitln leaves_seq writes_skip writes_emit
  writes_emitln writes_seq writes_cond : codegen.

(** ** Texts that are not conditions *)

Lemma words_head c s :
  ∃ w l, words (String c s) = w :: l ∧ (w = "" ∨ ∃ w', w = String c w').
Proof.
  unfold words. change (bytes_of (String c s)) with (Ascii.byte_of_ascii c :: bytes_of s).
  cbn [split]. case_bool_decide; [do 2 eexists; split; [reflexivity|by left]|].
  assert (∀ f, text_of (Ascii.byte_of_ascii c :: f) = String c (text_of f)) as Ht.
  { intros f. unfold String.string_of_list_byte. cbn. by rewrite Ascii.ascii_of_byte_of_ascii. }
  destruct (split Byte.x20 (bytes_of s)) as [|f fs]; do 2 eexists; (split; [reflexivity|]);
    right; rewrite Ht; eauto.
Qed.

(** The word after [if] is not the version when the expression starts otherwise. *)
Lemma condition_of_expr c s :
  c ≠ Ascii.ascii_of_nat 118 → condition_of ("if " +:+ String c s) = None.
Proof.
  intros Hc. unfold condition_of.
  change ("if " +:+ String c s) with ("if" +:+ " " +:+ String c s).
  rewrite words_cons by (vm_compute; set_solver).
  destruct (words_head c s) as (w & l & -> & Hw).
  assert (∀ op n, test_of w op n = None) as Hno.
  { intros op n. unfold test_of. rewrite decide_False; [done|]. intros ->.
    destruct Hw as [?|[w' Hw]]; [done|]. apply Hc. by injection Hw as <- _. }
  destruct l as [|op [|n [|e l]]]; [done..|]. destruct l as [|b l].
  { case_decide; [apply Hno|done]. }
  do 3 (destruct l as [|? l]; [done|]). destruct l; [|done].
  case_decide; [|done]. by rewrite Hno.
Qed.

(** ** One field *)

(** What the preparation of a schema guarantees of a field: versions a schema can
    have, and a default of null only for a field that can be null. *)
Definition field_ok (f : PreparedField) : Prop :=
  versions_ok (pf_versions f) ∧ versions_ok (pf_tagged f) ∧ versions_ok (pf_flexible f) ∧
  (pf_default f = PdNull → pf_optional f = true) ∧ pf_default f ≠ PdNumeric " else ".

(** [if] the field is not at its default. *)
Definition if_set (f : PreparedField) : string :=
  match gen_is_default (pf_default f) (var_name f) (pf_optional f) with
  | Some d => "if " +:+ display (not d) +:+ " "
  | None => ""
  end.

Lemma if_set_spec f :
  field_ok f → ∃ d c s, gen_is_default (pf_default f) (var_name f) (pf_optional f) = Some d ∧
    if_set f = "if " +:+ String c s ∧ c ≠ Ascii.ascii_of_nat 118.
Proof.
  intros (_ & _ & _ & Hnull & _). unfold if_set, gen_is_default.
  destruct (pf_optional f).
  - destruct (pf_default f) as [| |[]| | | |]; cbn [gen_is_default_plain mbind option_bind];
      do 3 eexists; (split_and!; [reflexivity|reflexivity|done]).
  - destruct (pf_default f) as [| |[]| | | |]; cbn [gen_is_default_plain mbind option_bind];
      [by specialize (Hnull eq_refl)|..];
      do 3 eexists; (split_and!; [reflexivity|reflexivity|done]).
Qed.

Lemma leaves_if_set v f c r :
  field_ok f → Leaves v c r → Leaves v (write_if_set f c) [Write (if_set f); Block r].
Proof.
  intros Hf Hc. destruct (if_set_spec f Hf) as (d & a & s & Hd & Hs & Ha).
  assert (condition_of (if_set f) = None) as Hcond by (rewrite Hs; by apply condition_of_expr).
  assert (if_set f ≠ " else ") as Hne by (by rewrite Hs).
  pose proof (leaves_block v (if_set f) c r Hcond Hne Hc) as Hb.
  unfold write_if_set, if_set in *. rewrite Hd in *. exact Hb.
Qed.

Definition fail_if_set (f : PreparedField) : list out :=
  [Write (if_set f); Block [Write ("bail!(" +:+ quote
    +:+ "A field is set that is not available on the selected protocol version" +:+ quote +:+ ");")]].

Lemma leaves_fail v f : field_ok f → Leaves v (write_fail_if_field_set f) (fail_if_set f).
Proof. intros Hf. by apply (leaves_if_set v f), leaves_emit. Qed.

(** The wire type of a field in a version. *)
Definition wire_type (f : PreparedField) (v : Z) (optional : bool) : string :=
  type_name (pf_type f) (has_compact_form (pf_type f) && bool_decide (v ∈ pf_flexible f)) optional.

Lemma type_name_starts t flexible optional : ∃ s, type_name t flexible optional = String (Ascii.ascii_of_nat 116) s.
Proof. destruct t as [[]|[? ? []]| |]; destruct flexible, optional; cbn; eauto. Qed.

(** A text for the compact or for the plain form of the type. *)
Lemma writes_form valid f (text : bool → string) :
  finite_versions valid → (∀ b, text b ≠ " else ") →
  Writes (if negb (has_compact_form (pf_type f)) then emit (text false)
    else write_version_cond valid (pf_flexible f) (emit (text true)) (emit (text false)) false false).
Proof.
  intros Hv Ht. destruct (has_compact_form (pf_type f)); cbn.
  - apply writes_cond; auto using writes_emit.
  - by apply writes_emit.
Qed.

Lemma leaves_form v valid f (text : bool → string) :
  finite_versions valid → field_ok f → v ∈ valid → (∀ b, text b ≠ " else ") →
  Leaves v (if negb (has_compact_form (pf_type f)) then emit (text false)
    else write_version_cond valid (pf_flexible f) (emit (text true)) (emit (text false)) false false)
    [Write (text (has_compact_form (pf_type f) && bool_decide (v ∈ pf_flexible f)))].
Proof.
  intros Hvalid (_ & _ & Hfl & _) Hv Ht. destruct (has_compact_form (pf_type f)); cbn.
  - pose proof (leaves_choice v valid (pf_flexible f) (emit (text true)) (emit (text false))
      [Write (text true)] [Write (text false)] false Hvalid Hfl Hv) as Hl.
    revert Hl. case_decide; [rewrite bool_decide_true|rewrite bool_decide_false]; try done;
      intros Hl; apply Hl; auto using writes_emit, leaves_emit.
  - by apply leaves_emit.
Qed.

Definition encode_text (compute_size : bool) (type_ var : string) : string :=
  if compute_size then "total_size += " +:+ type_ +:+ ".compute_size(" +:+ var +:+ ")?;"
  else type_ +:+ ".encode(buf, " +:+ var +:+ ")?;".

Lemma write_encode_or_compute_text type_ var compute_size :
  write_encode_or_compute type_ var compute_size = emit (encode_text compute_size type_ var).
Proof. by destruct compute_size. Qed.

Lemma encode_text_not_else compute_size t flexible optional var :
  encode_text compute_size (type_name t flexible optional) var ≠ " else ".
Proof. destruct (type_name_starts t flexible optional) as [s ->]. by destruct compute_size. Qed.

Section fields.
  Context (valid : VersionSpec) (Hvalid : finite_versions valid) (v : Z) (Hv : v ∈ valid).
  Context (f : PreparedField) (Hf : field_ok f).

  Local Abbreviation nullable := (negb (is_none (pf_nullable f))).
  Local Abbreviation var := (display (var_name f)).

Lemma inner_text compute_size valid' :
  write_encode_field_inner f valid' compute_size =
  (if negb (has_compact_form (pf_type f))
   then emit (encode_text compute_size (type_name (pf_type f) false nullable) var)
   else write_version_cond (intersect valid' (pf_versions f)) (pf_flexible f)
     (emit (encode_text compute_size (type_name (pf_type f) true nullable) var))
     (emit (encode_text compute_size (type_name (pf_type f) false nullable) var)) false false).
Proof. unfold write_encode_field_inner. by rewrite !write_encode_or_compute_text. Qed.

(** The encoding of a field in a version: nothing when it is tagged there, its
    wire type when it is part of the version, and otherwise a check that it is at
    its default, unless the schema allows to ignore it. *)
Definition encode_field_at (compute_size : bool) : list out :=
  if contains (pf_tagged f) (intersect (pf_versions f) valid) then []
  else
    (if decide (v ∈ pf_tagged f) then []
     else if decide (v ∈ pf_versions f) then
       [Write (encode_text compute_size (wire_type f v nullable) var)]
     else if pf_ignorable f && negb (is_none (intersect (pf_versions f) valid)) then []
     else fail_if_set f) ++ [Write nl].

Lemma encode_field_leaves compute_size :
  Leaves v (write_encode_field valid compute_size f) (encode_field_at compute_size).
Proof.
  unfold write_encode_field, encode_field_at. destruct (contains _ _); [apply leaves_skip|].
  apply leaves_seq; [|apply leaves_emitln].
  destruct Hf as (Hvs & Htg & Hfl & _).
  assert (finite_versions (intersect valid (pf_versions f))) as Hin by (by apply finite_intersect).
  set (inner := write_encode_field_inner f valid compute_size).
  assert (Writes inner) as Hw.
  { unfold inner. rewrite inner_text. apply (writes_form _ f
      (λ b, encode_text compute_size (type_name (pf_type f) b nullable) var)); [done|].
    intros b. apply encode_text_not_else. }
  assert (Writes (write_fail_if_field_set f)) as Hwf by (by eapply (leaves_writes v), leaves_fail).
  assert (Leaves v (write_version_cond valid (pf_versions f) inner (write_fail_if_field_set f)
      false (pf_ignorable f))
    (if decide (v ∈ pf_versions f) then
       [Write (encode_text compute_size (wire_type f v nullable) var)]
     else if pf_ignorable f && negb (is_none (intersect (pf_versions f) valid)) then []
     else fail_if_set f)) as Hcond.
  { apply leaves_choice; [done..| |intros _; by apply leaves_fail].
    intros Hin'. unfold inner. rewrite inner_text. apply (leaves_form v _ f
      (λ b, encode_text compute_size (type_name (pf_type f) b nullable) var)); [done|done| |].
    - apply elem_of_intersect; [apply Hvalid|apply Hvs|done].
    - intros b. apply encode_text_not_else. }
  apply leaves_unless; [done..|apply writes_skip|by eapply leaves_writes|done].
Qed.

(** The default of a field, as it is written. *)
Definition default_text : string :=
  match gen_default (pf_default f) (pf_optional f) (is_entity (pf_type f)) with
  | Some e => display e
  | None => ""
  end.

Lemma default_text_spec :
  ∃ e, gen_default (pf_default f) (pf_optional f) (is_entity (pf_type f)) = Some e ∧
    display e = default_text ∧ default_text ≠ " else ".
Proof.
  destruct Hf as (_ & _ & _ & Hnull & Hnum). unfold default_text, gen_default.
  destruct (pf_optional f), (is_entity (pf_type f)), (pf_default f) as [| |[]| | | |];
    cbn [gen_default_plain mbind option_bind]; try (by specialize (Hnull eq_refl));
    eexists; (split_and!; [reflexivity|reflexivity|try done]).
  cbn. congruence.
Qed.

Lemma leaves_default : Leaves v (write_default f) [Write default_text].
Proof.
  destruct default_text_spec as (e & He & Hd & Hne). unfold write_default, with_expr. rewrite He.
  cbn [mbind option_bind]. rewrite Hd. by apply leaves_emit.
Qed.

(** The decoding of a field in a version: its wire type when it is part of the
    version and not tagged, and its default otherwise. *)
Definition decode_field_at : list out :=
  Write ((if is_none (pf_tagged f) then "let " else "let mut ") +:+ pf_name f +:+ " = ") ::
  if contains (pf_tagged f) (intersect (pf_versions f) valid)
  then [Write ((default_text +:+ ";") +:+ nl)]
  else
    [Write (if decide (v ∈ pf_tagged f) then default_text
            else if decide (v ∈ pf_versions f) then wire_type f v nullable +:+ ".decode(buf)?"
            else default_text);
     Write (";" +:+ nl)].

Lemma decode_field_leaves : Leaves v (write_decode_field valid f) decode_field_at.
Proof.
  unfold write_decode_field, decode_field_at.
  set (text b := type_name (pf_type f) b nullable +:+ ".decode(buf)?").
  assert (∀ b, text b ≠ " else ") as Htext.
  { intros b. unfold text. by destruct (type_name_starts (pf_type f) b nullable) as [s ->]. }
  apply (leaves_seq v _ _ [_]).
  { by destruct (is_none (pf_tagged f)); apply leaves_emit. }
  destruct (contains _ _).
  { destruct default_text_spec as (e & He & Hd & _). unfold with_expr. rewrite He.
    cbn [mbind option_bind]. rewrite Hd. apply leaves_emitln. }
  apply (leaves_seq v _ _ [_]); [|apply leaves_emitln].
  destruct Hf as (Hvs & Htg & _).
  assert (finite_versions (intersect valid (pf_versions f))) as Hin by (by apply finite_intersect).
  pose proof (leaves_writes v _ _ leaves_default) as Hwd.
  set (decode := if negb (has_compact_form (pf_type f)) then emit (text false)
    else write_version_cond (intersect valid (pf_versions f)) (pf_flexible f) (emit (text true))
      (emit (text false)) false false).
  assert (Writes decode) as Hw by (by apply writes_form).
  assert (Leaves v (write_version_cond valid (pf_versions f) decode (write_default f) false false)
    (if decide (v ∈ pf_versions f) then [Write (wire_type f v nullable +:+ ".decode(buf)?")]
     else [Write default_text])) as Hcond.
  { apply (leaves_choice v valid (pf_versions f) decode (write_default f) _ [Write default_text]
      false); [done..| |intros _; apply leaves_default].
    intros Hin'. apply (leaves_form v _ f text); [done|done| |done].
    apply elem_of_intersect; [apply Hvalid|apply Hvs|done]. }
  pose proof (leaves_choice v valid (pf_tagged f) (write_default f) _ [Write default_text] _ false
    Hvalid Htg Hv Hwd (leaves_writes v _ _ Hcond) (λ _, leaves_default) (λ _, Hcond)) as Hl.
  revert Hl. do 2 case_decide; done.
Qed.

(** A field that belongs to a version and is not tagged there is encoded, sized and
    decoded with one wire type. *)
Lemma field_in_body :
  v ∈ pf_versions f → v ∉ pf_tagged f →
  contains (pf_tagged f) (intersect (pf_versions f) valid) = false.
Proof.
  intros Hin Hnt. apply not_true_is_false. intros Hc. apply Hnt.
  destruct Hf as (Hvs & Htg & _). revert Hc. rewrite contains_spec;
    [|apply Htg|apply canonical_intersect; [apply Hvs|apply Hvalid]].
  intros Hc. apply Hc, elem_of_intersect; [apply Hvs|apply Hvalid|done].
Qed.

(** The check of a field that is not part of the version. *)
Definition checked : bool :=
  negb (pf_ignorable f) && negb (bool_decide (v ∈ pf_tagged f)) &&
  negb (contains (pf_tagged f) (intersect (pf_versions f) valid)).

(** Without the empty lines. *)
Definition blank (o : out) : bool :=
  match o with Write s => bool_decide (s = nl) | Block _ => false end.
Definition statements (os : list out) : list out := filter (λ o, blank o = false) os.

Lemma encode_field_statements compute_size :
  statements (encode_field_at compute_size) =
  if decide (v ∈ pf_versions f ∧ v ∉ pf_tagged f) then
    [Write (encode_text compute_size (wire_type f v nullable) var)]
  else if checked then fail_if_set f else [].
Proof.
  unfold encode_field_at, checked.
  destruct (decide (v ∈ pf_versions f ∧ v ∉ pf_tagged f)) as [[Hin Hnt]|Hd].
  - rewrite field_in_body, !decide_False, decide_True by done.
    unfold statements. cbn [app]. rewrite filter_cons_True, filter_cons_False; [done|done|].
    apply bool_decide_false. destruct compute_size; [done|].
    unfold encode_text, wire_type. by destruct (type_name_starts (pf_type f)
      (has_compact_form (pf_type f) && bool_decide (v ∈ pf_flexible f)) nullable) as [? ->].
  - assert (is_none (intersect (pf_versions f) valid) = true →
      contains (pf_tagged f) (intersect (pf_versions f) valid) = true) as Hnone.
    { intros ->%is_none_spec. unfold contains. by destruct (pf_tagged f). }
    destruct (contains _ _); [by rewrite andb_false_r|].
    case_decide; [by rewrite bool_decide_true, andb_false_r by done|].
    rewrite bool_decide_false by done.
    destruct (decide (v ∈ pf_versions f)); [naive_solver|].
    destruct (is_none _); [by specialize (Hnone eq_refl)|].
    destruct (pf_ignorable f); [done|]. cbn [andb negb].
    unfold statements, fail_if_set. cbn [app].
    rewrite filter_cons_True; [by rewrite filter_cons_True, filter_cons_False|].
    apply bool_decide_false. intros He. destruct (if_set_spec f Hf) as (d & c & s & _ & Hs & _). by rewrite Hs in He.
Qed.

Lemma decode_field_text :
  plain_all decode_field_at =
  (if is_none (pf_tagged f) then "let " else "let mut ") +:+ pf_name f +:+ " = " +:+
  (if decide (v ∈ pf_versions f ∧ v ∉ pf_tagged f) then wire_type f v nullable +:+ ".decode(buf)?"
   else default_text) +:+ ";" +:+ nl.
Proof.
  unfold decode_field_at. cbn [plain_all plain]. rewrite !text_app_assoc. do 2 f_equal.
  destruct (decide (v ∈ pf_versions f ∧ v ∉ pf_tagged f)) as [[Hin Hnt]|Hd].
  - by rewrite field_in_body, decide_False, decide_True by done.
  - destruct (contains _ _); cbn [plain_all plain]; [by rewrite !text_app_assoc|].
    repeat case_decide; (done || naive_solver).
Qed.
End fields.

(** ** The section of tagged fields *)

Definition size_check (expr t msg : string) : list out := default [] (write_size_check expr t msg).

Lemma leaves_size_check v expr t msg : Leaves v (write_size_check expr t msg) (size_check expr t msg).
Proof.
  apply (leaves_seq v _ _ [_]), (leaves_seq v _ _ [_]); apply leaves_emitln.
Qed.

Section tagged.
  Context (valid : VersionSpec) (Hvalid : finite_versions valid) (v : Z) (Hv : v ∈ valid).

Section one_tag.
  Context (f : PreparedField) (Hf : field_ok f).

  Local Abbreviation var := (display (var_name f)).
  Local Abbreviation within := (intersect valid (pf_tagged f)).

(** A tagged field counts when it is part of the version and set. *)
Definition count_at : list out :=
  if decide (v ∈ pf_tagged f) then
    (if decide (v ∈ pf_versions f) then
       [Write (if_set f); Block [Write "num_tagged_fields += 1;"]]
     else []) ++ [Write nl]
  else [].

(** It is written as its tag, its size and its value. *)
Definition tag_entry_at (compute_size : bool) (k : Z) : list out :=
  if decide (v ∈ pf_tagged f) then
    (if decide (v ∈ pf_versions f) then
       [Write (if_set f);
        Block ([Write "let computed_size = ";
          Write (wire_type f v false +:+ ".compute_size(" +:+ var +:+ ")?"); Write (";" +:+ nl)]
          ++ size_check "computed_size" "u32" "Tagged field is too large to encode ({} bytes)"
          ++ [Write (encode_text compute_size "types::UnsignedVarInt" (pretty k)); Write nl;
              Write (encode_text compute_size "types::UnsignedVarInt" "computed_size as u32"); Write nl]
          ++ [Write (if compute_size then "total_size += computed_size;" +:+ nl
                     else encode_text false (wire_type f v false) var)])]
     else if pf_ignorable f && negb (is_none (intersect (pf_versions f) within)) then []
     else fail_if_set f) ++ [Write nl]
  else [].

Lemma within_finite : finite_versions within.
Proof. destruct Hf as (_ & Htg & _). by apply finite_intersect. Qed.

Lemma v_within : v ∈ pf_tagged f → v ∈ within.
Proof. intros Hin. destruct Hf as (_ & Htg & _). apply elem_of_intersect; [apply Hvalid|apply Htg|done]. Qed.

Lemma writes_if_set (u : Z) c r : Leaves u c r → Writes (write_if_set f c).
Proof. intros Hc. by eapply leaves_writes, leaves_if_set. Qed.

Lemma count_leaves : Leaves v (write_count_tagged valid f) count_at.
Proof.
  pose proof Hf as (Hvs & Htg & _). unfold write_count_tagged, count_at.
  assert (Leaves v (write_if_set f (emit "num_tagged_fields += 1;"))
    [Write (if_set f); Block [Write "num_tagged_fields += 1;"]]) as Hset
    by (by apply leaves_if_set, leaves_emit).
  pose proof (leaves_writes v _ _ Hset) as Hw.
  apply leaves_when; [done..| |].
  - apply writes_seq; [|apply writes_emitln]. apply writes_cond; [apply within_finite|done|apply writes_skip].
  - intros Hin. apply leaves_seq; [|apply leaves_emitln].
    apply leaves_when; [apply within_finite|done|by apply v_within|done|done].
Qed.

(** The body of a tagged field, in the versions [vs] it is written for. *)
Definition tag_body (compute_size : bool) (k : Z) (vs : VersionSpec) : code :=
  let size_of flexible :=
    emit (type_name (pf_type f) flexible false +:+ ".compute_size(" +:+ var +:+ ")?") in
  let encode flexible :=
    write_encode_or_compute (type_name (pf_type f) flexible false) var compute_size in
  emit "let computed_size = "
  ▷ (if negb (has_compact_form (pf_type f)) then size_of false
     else write_version_cond vs (pf_flexible f) (size_of true) (size_of false) false false)
  ▷ emitln ";"
  ▷ write_size_check "computed_size" "u32" "Tagged field is too large to encode ({} bytes)"
  ▷ write_encode_or_compute "types::UnsignedVarInt" (pretty k) compute_size ▷ emitln ""
  ▷ write_encode_or_compute "types::UnsignedVarInt" "computed_size as u32" compute_size ▷ emitln ""
  ▷ (if compute_size then emitln "total_size += computed_size;"
     else if negb (has_compact_form (pf_type f)) then encode false
     else write_version_cond vs (pf_flexible f) (encode true) (encode false) false false).

Lemma tag_inner_body compute_size k vs :
  write_encode_tag_buffer_inner f k vs compute_size
  = write_if_set f (tag_body compute_size k (intersect vs (pf_versions f))).
Proof. done. Qed.

Lemma size_text_not_else b :
  type_name (pf_type f) b false +:+ ".compute_size(" +:+ var +:+ ")?" ≠ " else ".
Proof. by destruct (type_name_starts (pf_type f) b false) as [s ->]. Qed.

Lemma varint_text_not_else compute_size s :
  encode_text compute_size "types::UnsignedVarInt" s ≠ " else ".
Proof. by destruct compute_size. Qed.

Lemma writes_tag_body compute_size k vs : finite_versions vs → Writes (tag_body compute_size k vs).
Proof.
  intros Hvs. unfold tag_body. rewrite !write_encode_or_compute_text.
  repeat apply writes_seq; try (by apply writes_emit); try apply writes_emitln.
  - apply (writes_form vs f (λ b, type_name (pf_type f) b false +:+ ".compute_size(" +:+ var +:+ ")?"));
      [done|]. intros b. apply size_text_not_else.
  - apply writes_emit, varint_text_not_else.
  - apply writes_emit, varint_text_not_else.
  - destruct compute_size; [apply writes_emitln|].
    apply (writes_form vs f (λ b, encode_text false (type_name (pf_type f) b false) var)); [done|].
    intros b. apply encode_text_not_else.
Qed.

Lemma leaves_tag_body compute_size k vs :
  finite_versions vs → v ∈ vs →
  Leaves v (tag_body compute_size k vs)
    ([Write "let computed_size = ";
      Write (wire_type f v false +:+ ".compute_size(" +:+ var +:+ ")?"); Write (";" +:+ nl)]
     ++ size_check "computed_size" "u32" "Tagged field is too large to encode ({} bytes)"
     ++ [Write (encode_text compute_size "types::UnsignedVarInt" (pretty k)); Write nl;
         Write (encode_text compute_size "types::UnsignedVarInt" "computed_size as u32"); Write nl]
     ++ [Write (if compute_size then "total_size += computed_size;" +:+ nl
                else encode_text false (wire_type f v false) var)]).
Proof.
  intros Hvs Hin. unfold tag_body. rewrite !write_encode_or_compute_text.
  apply (leaves_seq v _ _ [_]); [by apply leaves_emit|].
  apply (leaves_seq v _ _ [_]).
  { apply (leaves_form v vs f (λ b, type_name (pf_type f) b false +:+ ".compute_size(" +:+ var +:+ ")?"));
      [done..|]. intros b. apply size_text_not_else. }
  apply (leaves_seq v _ _ [_]); [apply leaves_emitln|].
  apply leaves_seq; [apply leaves_size_check|].
  apply (leaves_seq v _ _ [_]); [apply leaves_emit, varint_text_not_else|].
  apply (leaves_seq v _ _ [_]); [apply leaves_emitln|].
  apply (leaves_seq v _ _ [_]); [apply leaves_emit, varint_text_not_else|].
  apply (leaves_seq v _ _ [_]); [apply leaves_emitln|].
  destruct compute_size; [apply leaves_emitln|].
  apply (leaves_form v vs f (λ b, encode_text false (type_name (pf_type f) b false) var)); [done..|].
  intros b. apply encode_text_not_else.
Qed.

(** The code written for the field in the loop over the tags. *)
Definition tag_code (compute_size : bool) (k : Z) : code :=
  write_version_cond valid (pf_tagged f)
    (write_version_cond within (pf_versions f)
       (write_encode_tag_buffer_inner f k within compute_size)
       (write_fail_if_field_set f) false (pf_ignorable f)
     ▷ emitln "")
    skip false true.

Lemma tag_entry_leaves compute_size k : Leaves v (tag_code compute_size k) (tag_entry_at compute_size k).
Proof.
  pose proof Hf as (Hvs & Htg & _). unfold tag_code, tag_entry_at.
  assert (finite_versions (intersect within (pf_versions f))) as Hfin.
  { apply finite_intersect; [apply within_finite|done]. }
  assert (Writes (write_encode_tag_buffer_inner f k within compute_size)) as Hw.
  { rewrite tag_inner_body. destruct (writes_tag_body compute_size k _ Hfin) as (l & Hl & Hs).
    eapply (writes_if_set 0). by exists l. }
  pose proof (leaves_writes v _ _ (leaves_fail v f Hf)) as Hwf.
  apply leaves_when; [done..| |].
  - apply writes_seq; [|apply writes_emitln]. by apply writes_cond; [apply within_finite|..].
  - intros Hin. apply leaves_seq; [|apply leaves_emitln].
    apply leaves_choice; [apply within_finite|done|by apply v_within|done..| |intros _; by apply leaves_fail].
    intros Hin'. rewrite tag_inner_body. apply leaves_if_set; [done|].
    apply leaves_tag_body; [done|]. apply elem_of_intersect; [apply within_finite|apply Hvs|].
    split; [by apply v_within|done].
Qed.
End one_tag.

(** The loop over the tags: between two known tags the unknown ones of the gap are
    written, so that the tags are in order. *)
Fixpoint tags_at (compute_size : bool) (current_tag : Z) (fields : list (Z * PreparedField)) :
    list out :=
  match fields with
  | [] => []
  | (k, f) :: fields =>
      (if decide (k ≠ current_tag + 1 ∧ compute_size = false) then
         [Write (("write_unknown_tagged_fields(buf, " +:+ pretty (current_tag + 1) +:+ ".." +:+ pretty k
           +:+ ", &self.unknown_tagged_fields)?;") +:+ nl)]
       else [])
      ++ tag_entry_at f compute_size k ++ tags_at compute_size k fields
  end.

Definition last_tag (current_tag : Z) (fields : list (Z * PreparedField)) : Z :=
  default current_tag (fst <$> last fields).

Lemma last_tag_cons current_tag k f fields :
  last_tag current_tag ((k, f) :: fields) = last_tag k fields.
Proof. unfold last_tag. rewrite last_cons. by destruct (last fields). Qed.

Lemma tags_leaves compute_size fields current_tag :
  Forall (λ kf, field_ok kf.2) fields →
  Leaves v (write_tagged_fields valid compute_size current_tag fields).1
    (tags_at compute_size current_tag fields) ∧
  (write_tagged_fields valid compute_size current_tag fields).2 = last_tag current_tag fields.
Proof.
  intros Hok. revert current_tag. induction Hok as [|[k f] fields Hf _ IH]; intros current_tag.
  { split; [apply leaves_skip|done]. }
  cbn [write_tagged_fields tags_at]. rewrite last_tag_cons. destruct (IH k) as [Hl Hlast].
  destruct (write_tagged_fields valid compute_size k fields) as [rest last]; cbn in Hl, Hlast |- *.
  split; [|done]. apply leaves_seq; [case_decide; [apply leaves_emitln|apply leaves_skip]|].
  apply leaves_seq; [by apply (tag_entry_leaves f Hf)|done].
Qed.
End tagged.

(** Without versions nothing is written for the tags, and nothing panics. *)
Lemma count_none f : write_count_tagged VNone f = skip.
Proof. done. Qed.

Lemma writes_counts valid fields :
  finite_versions valid → Forall (λ kf : Z * PreparedField, field_ok kf.2) fields →
  Writes (for_each (λ kf : Z * PreparedField, write_count_tagged valid kf.2) fields).
Proof.
  intros Hfin Hok. destruct (finite_inhabited _ Hfin) as [->|[u Hu]].
  - eapply (leaves_writes 0), (leaves_for_each _ (λ _, [])).
    by apply Forall_true; intros kf; rewrite count_none; apply leaves_skip.
  - eapply (leaves_writes u), (leaves_for_each _ (λ kf, count_at u kf.2)).
    eapply Forall_impl; [exact Hok|]. intros kf Hf. by apply count_leaves.
Qed.

Lemma writes_tags valid compute_size fields current_tag :
  finite_versions valid → Forall (λ kf : Z * PreparedField, field_ok kf.2) fields →
  Writes (write_tagged_fields valid compute_size current_tag fields).1.
Proof.
  intros Hfin Hok. destruct (finite_inhabited _ Hfin) as [->|[u Hu]].
  2: { eapply (leaves_writes u). by apply tags_leaves. }
  clear Hok. revert current_tag. induction fields as [|[k f] fields IH]; intros current_tag.
  { apply writes_skip. }
  cbn [write_tagged_fields]. specialize (IH k).
  destruct (write_tagged_fields VNone compute_size k fields) as [rest last].
  repeat apply writes_seq; [case_decide; [apply writes_emitln|apply writes_skip]|apply writes_skip|done].
Qed.

(** *** Decoding a tag *)

Lemma then_write_assoc a b c : ((a ▷ b) ▷ c) = (a ▷ b ▷ c).
Proof.
  destruct a as [x|], b as [y|], c as [z|]; cbn; try done. by rewrite app_assoc.
Qed.

(** A block that is followed by more code. *)
Lemma leaves_block_then v s c k r rk :
  condition_of s = None → s ≠ " else " → Leaves v c r → Leaves v k rk →
  Leaves v (emit s ▷ in_block c ▷ k) (Write s :: Block r :: rk).
Proof.
  intros. rewrite <- then_write_assoc. by apply (leaves_seq v _ _ [_; _]); [apply leaves_block|].
Qed.

Lemma writes_block s c : s ≠ " else " → Writes c → Writes (emit s ▷ in_block c).
Proof. intros Hs (l & -> & _). by exists [Write s; Block l]. Qed.

Lemma arm_not_condition k : 0 ≤ k → condition_of (pretty k +:+ " => ") = None ∧ pretty k +:+ " => " ≠ " else ".
Proof.
  intros Hk. assert (words (pretty k +:+ " => ") = [pretty k; "=>"; ""]%string) as Hw.
  { change (pretty k +:+ " => ") with (pretty k +:+ " " +:+ "=> ").
    by rewrite pretty_word by done. }
  split.
  - unfold condition_of. by rewrite Hw.
  - intros He. by rewrite He in Hw.
Qed.

Lemma assignment_not_else x y : x +:+ " = " +:+ y ≠ " else ".
Proof.
  intros H. apply (f_equal bytes_of) in H. rewrite !string_bytes_app in H.
  assert (Byte.x3d ∈ bytes_of " else ") as Hin.
  { rewrite <- H. apply elem_of_app. right. apply elem_of_app. left. vm_compute. set_solver. }
  revert Hin. vm_compute. set_solver.
Qed.

Section decode_tag.
  Context (valid : VersionSpec) (Hvalid : finite_versions valid) (v : Z) (Hv : v ∈ valid).
  Context (k : Z) (Hk : 0 ≤ k) (f : PreparedField) (Hf : field_ok f).

(** The arm of a tag reads the value, when the tag belongs to the version. *)
Definition decode_arm_at : list out :=
  [Write (pretty k +:+ " => ");
   Block (if decide (v ∈ pf_tagged f ∧ v ∈ pf_versions f)
          then [Write (pf_name f +:+ " = " +:+ wire_type f v false +:+ ".decode(buf)?;")]
          else [Write (("bail!(" +:+ debug_str "Tag {} is not valid for version {}"
            +:+ ", tag, version);") +:+ nl)]);
   Write ("," +:+ nl)].

Definition decode_arm_value : code :=
  let decode flexible :=
    emit (pf_name f +:+ " = " +:+ type_name (pf_type f) flexible false +:+ ".decode(buf)?;") in
  if negb (has_compact_form (pf_type f)) then decode false
  else write_version_cond (intersect valid (intersect (pf_tagged f) (pf_versions f))) (pf_flexible f)
    (decode true) (decode false) false false.

Lemma writes_arm : Writes (write_decode_tagged valid k f).
Proof.
  pose proof Hf as (Hvs & Htg & _). destruct (arm_not_condition k Hk) as [_ Hne].
  unfold write_decode_tagged. rewrite <- then_write_assoc.
  apply writes_seq; [apply writes_block; [done|]|apply writes_emitln].
  apply writes_cond; [done| |apply writes_emitln].
  apply (writes_form _ f (λ b, pf_name f +:+ " = " +:+ type_name (pf_type f) b false +:+ ".decode(buf)?;")).
  - apply finite_intersect; [done|by apply versions_ok_intersect].
  - intros b. apply assignment_not_else.
Qed.

Lemma arm_leaves : Leaves v (write_decode_tagged valid k f) decode_arm_at.
Proof.
  pose proof Hf as (Hvs & Htg & _). destruct (arm_not_condition k Hk) as [Hc Hne].
  set (text b := pf_name f +:+ " = " +:+ type_name (pf_type f) b false +:+ ".decode(buf)?;").
  assert (∀ b, text b ≠ " else ") as Htext by (intros b; apply assignment_not_else).
  assert (versions_ok (intersect (pf_tagged f) (pf_versions f))) as Hok by (by apply versions_ok_intersect).
  assert (finite_versions (intersect valid (intersect (pf_tagged f) (pf_versions f)))) as Hfin
    by (by apply finite_intersect).
  assert (v ∈ intersect (pf_tagged f) (pf_versions f) ↔ v ∈ pf_tagged f ∧ v ∈ pf_versions f) as Hin
    by (apply elem_of_intersect; [apply Htg|apply Hvs]).
  apply leaves_block_then; [done..| |apply leaves_emitln]. fold decode_arm_value.
  pose proof (leaves_choice v valid (intersect (pf_tagged f) (pf_versions f)) decode_arm_value
    (emitln ("bail!(" +:+ debug_str "Tag {} is not valid for version {}" +:+ ", tag, version);"))
    [Write (pf_name f +:+ " = " +:+ wire_type f v false +:+ ".decode(buf)?;")]
    [Write (("bail!(" +:+ debug_str "Tag {} is not valid for version {}" +:+ ", tag, version);") +:+ nl)]
    false Hvalid Hok Hv (writes_form _ f text Hfin Htext) (writes_emitln _)) as Hl.
  rewrite <- (decide_ext _ _ _ _ Hin). apply Hl; [|intros _; apply leaves_emitln].
  intros Hvin. apply (leaves_form v _ f text); [done|done| |done].
  apply elem_of_intersect; [apply Hvalid|apply Hok|done].
Qed.
End decode_tag.

(** *** The map of the tagged fields *)

Lemma sorted_tagged_elem fields k f :
  (k, f) ∈ sorted_tagged_fields fields → f ∈ fields ∧ pf_tag f = Some k.
Proof.
  unfold sorted_tagged_fields.
  assert (∀ m, (k, f) ∈ fold_left (λ m f, match pf_tag f with
      | Some t => (bt_insert Z.compare t f m).2 | None => m end) fields m →
    (k, f) ∈ m ∨ f ∈ fields ∧ pf_tag f = Some k) as H.
  { induction fields as [|g fields IH]; cbn; intros m Hin; [by left|].
    apply IH in Hin as [Hin|[Hin Ht]]; [|right; split; [by right|done]].
    destruct (pf_tag g) as [t|] eqn:Ht; [|by left].
    apply bt_insert_elem in Hin as [[= -> ->]|Hin]; [right; split; [left|done]|by left]. }
  intros Hin. by destruct (H _ Hin) as [Hno|]; [set_solver|].
Qed.

(** With different tags no field is lost. *)
Lemma sorted_tagged_complete fields k f :
  NoDup (omap pf_tag fields) → f ∈ fields → pf_tag f = Some k → (k, f) ∈ sorted_tagged_fields fields.
Proof.
  intros Hnd Hin Hk. unfold sorted_tagged_fields.
  set (step m g := match pf_tag g with
    | Some t => (bt_insert Z.compare t g m).2 | None => m end).
  assert (∀ l m, k ∉ omap pf_tag l → (k, f) ∈ m → (k, f) ∈ fold_left step l m) as Hkeep.
  { induction l as [|g l IH]; cbn; intros m Hk' Hm; [done|]. unfold step at 2.
    destruct (pf_tag g) as [t|] eqn:Ht; cbn in Hk'; [|by apply IH].
    apply IH; [set_solver|]. apply bt_insert_old; [intros ??; apply Z.compare_eq|set_solver|done]. }
  generalize (@nil (Z * PreparedField)). induction fields as [|g fields IH]; intros m; [set_solver|].
  cbn [fold_left]. apply elem_of_cons in Hin as [<-|Hin].
  - cbn in Hnd. rewrite Hk in Hnd. apply NoDup_cons in Hnd as [Hnot _].
    apply Hkeep; [done|]. unfold step. rewrite Hk. apply bt_insert_new.
  - apply IH; [|done]. cbn in Hnd. destruct (pf_tag g); [by apply NoDup_cons in Hnd as []|done].
Qed.

(** What the schemas and the assertions of the preparation give for a struct: a
    field that is tagged in a version has a tag of its own, and the version is
    flexible. *)
Definition struct_ok (s : PreparedStruct) : Prop :=
  finite_versions (ps_valid s) ∧ versions_ok (ps_flexible s) ∧
  Forall (λ f, field_ok f ∧ ∀ t, pf_tag f = Some t → 0 ≤ t) (ps_fields s) ∧
  NoDup (omap pf_tag (ps_fields s)) ∧
  Forall (λ f, ∀ u, u ∈ pf_tagged f → u ∈ ps_flexible s ∧ is_Some (pf_tag f)) (ps_fields s).

Section structs.
  Context (s : PreparedStruct) (Hs : struct_ok s) (v : Z) (Hv : v ∈ ps_valid s).

  Local Abbreviation valid := (ps_valid s).
  Local Abbreviation fields := (ps_fields s).
  Local Abbreviation sorted := (sorted_tagged_fields (ps_fields s)).
  Local Abbreviation within := (intersect (ps_valid s) (ps_flexible s)).

Lemma struct_valid : finite_versions valid.
Proof. apply Hs. Qed.

Lemma struct_flexible : versions_ok (ps_flexible s).
Proof. apply Hs. Qed.

Lemma struct_field f : f ∈ fields → field_ok f.
Proof. destruct Hs as (_ & _ & Hf & _). intros Hin. by apply (proj1 (Forall_forall _ _) Hf). Qed.

Lemma struct_tagged : Forall (λ kf, field_ok kf.2 ∧ 0 ≤ kf.1) sorted.
Proof.
  apply Forall_forall. intros [k f] Hin. apply sorted_tagged_elem in Hin as [Hin Ht].
  destruct Hs as (_ & _ & Hf & _). destruct (proj1 (Forall_forall _ _) Hf f Hin) as [? Hpos]. eauto.
Qed.

Lemma struct_within : finite_versions within.
Proof. apply finite_intersect; [apply struct_valid|apply struct_flexible]. Qed.

Lemma flexible_within : v ∈ ps_flexible s → v ∈ within.
Proof. intros Hin. apply elem_of_intersect; [apply struct_valid|apply struct_flexible|done]. Qed.

(** The tagged fields at the end of the encoding, in the flexible versions. *)
Definition tag_section (compute_size : bool) : list out :=
  [Write ((match sorted with
           | [] => "let num_tagged_fields = self.unknown_tagged_fields.len();"
           | _ => "let mut num_tagged_fields = self.unknown_tagged_fields.len();"
           end) +:+ nl)]
  ++ concat ((λ kf, count_at v kf.2) <$> sorted)
  ++ size_check "num_tagged_fields" "u32" "Too many tagged fields to encode ({} fields)"
  ++ [Write (encode_text compute_size "types::UnsignedVarInt" "num_tagged_fields as u32"); Write nl]
  ++ tags_at within v compute_size (-1) sorted
  ++ [Write nl;
      Write (if compute_size then
               "total_size += compute_unknown_tagged_fields_size(&self.unknown_tagged_fields)?;"
             else "write_unknown_tagged_fields(buf, " +:+ pretty (last_tag (-1) sorted + 1)
               +:+ ".., &self.unknown_tagged_fields)?;")].

(** The code between the tests, as [write_encode_tag_buffer] composes it. *)
Definition tag_section_code (compute_size : bool) : code :=
  let '(tagged, current_tag) := write_tagged_fields within compute_size (-1) sorted in
  (match sorted with
   | [] => emitln "let num_tagged_fields = self.unknown_tagged_fields.len();"
   | _ => emitln "let mut num_tagged_fields = self.unknown_tagged_fields.len();"
   end)
  ▷ for_each (λ kf, write_count_tagged within kf.2) sorted
  ▷ write_size_check "num_tagged_fields" "u32" "Too many tagged fields to encode ({} fields)"
  ▷ write_encode_or_compute "types::UnsignedVarInt" "num_tagged_fields as u32" compute_size
  ▷ emitln ""
  ▷ tagged
  ▷ emitln ""
  ▷ (if compute_size then
       emit "total_size += compute_unknown_tagged_fields_size(&self.unknown_tagged_fields)?;"
     else
       emit ("write_unknown_tagged_fields(buf, " +:+ pretty (current_tag + 1)
         +:+ ".., &self.unknown_tagged_fields)?;")).

Lemma tagged_fields_ok : Forall (λ kf, field_ok kf.2) sorted.
Proof. eapply Forall_impl; [apply struct_tagged|]. by intros kf []. Qed.

Lemma writes_tag_section compute_size : Writes (tag_section_code compute_size).
Proof.
  unfold tag_section_code.
  pose proof (writes_tags within compute_size sorted (-1) struct_within tagged_fields_ok) as Htags.
  destruct (write_tagged_fields within compute_size (-1) sorted) as [tagged current_tag].
  rewrite write_encode_or_compute_text. repeat apply writes_seq; try apply writes_emitln.
  - destruct sorted; apply writes_emitln.
  - apply writes_counts; [apply struct_within|apply tagged_fields_ok].
  - apply writes_emit, varint_text_not_else.
  - done.
  - by destruct compute_size; apply writes_emit.
Qed.

Lemma tag_section_leaves compute_size :
  v ∈ ps_flexible s → Leaves v (tag_section_code compute_size) (tag_section compute_size).
Proof.
  intros Hin. unfold tag_section_code, tag_section.
  destruct (tags_leaves within struct_within v (flexible_within Hin) compute_size sorted (-1)
    tagged_fields_ok) as [Htags Hlast].
  destruct (write_tagged_fields within compute_size (-1) sorted) as [tagged current_tag].
  cbn [fst snd] in Htags, Hlast. subst current_tag. rewrite write_encode_or_compute_text.
  apply leaves_seq; [destruct sorted; apply leaves_emitln|].
  apply leaves_seq.
  { apply leaves_for_each. eapply Forall_impl; [apply tagged_fields_ok|]. intros kf Hf.
    apply count_leaves; [apply struct_within|by apply flexible_within|done]. }
  apply leaves_seq; [apply leaves_size_check|].
  apply (leaves_seq v _ _ [_]); [apply leaves_emit, varint_text_not_else|].
  apply (leaves_seq v _ _ [_]); [apply leaves_emitln|].
  apply leaves_seq; [done|].
  apply (leaves_seq v _ _ [_]); [apply leaves_emitln|].
  by destruct compute_size; apply leaves_emit.
Qed.

Lemma encode_tag_buffer_leaves compute_size :
  Leaves v (write_encode_tag_buffer fields valid (ps_flexible s) compute_size)
    ((if decide (v ∈ ps_flexible s) then tag_section compute_size else []) ++ [Write nl]).
Proof.
  apply leaves_seq; [|apply leaves_emitln]. fold (tag_section_code compute_size).
  apply leaves_when; [apply struct_valid|apply struct_flexible|done|apply writes_tag_section|].
  apply tag_section_leaves.
Qed.

(** *** Decoding the tagged fields *)

Definition unknown_value : list out := default [] write_unknown_value.

Lemma leaves_unknown_value : Leaves v write_unknown_value unknown_value.
Proof. apply (leaves_seq v _ _ [_]); [apply leaves_emitln|by apply leaves_emit]. Qed.

Definition decode_loop_at : list out :=
  [Write ("let tag: u32 = types::UnsignedVarInt.decode(buf)?;" +:+ nl);
   Write ("let size: u32 = types::UnsignedVarInt.decode(buf)?;" +:+ nl)]
  ++ match sorted with
     | [] => unknown_value
     | _ => [Write "match tag ";
             Block (concat ((λ kf, decode_arm_at v kf.1 kf.2) <$> sorted)
               ++ [Write "_ => "; Block unknown_value])]
     end.

Definition decode_loop_code : code :=
  emitln "let tag: u32 = types::UnsignedVarInt.decode(buf)?;"
  ▷ emitln "let size: u32 = types::UnsignedVarInt.decode(buf)?;"
  ▷ match sorted with
    | [] => write_unknown_value
    | _ =>
        emit "match tag "
        ▷ in_block
            (for_each (λ kf, write_decode_tagged within kf.1 kf.2) sorted
             ▷ emit "_ => " ▷ in_block write_unknown_value)
    end.

Definition decode_section : list out :=
  [Write ("let num_tagged_fields = types::UnsignedVarInt.decode(buf)?;" +:+ nl);
   Write "for _ in 0..num_tagged_fields "; Block decode_loop_at].

Lemma decode_loop_writes : Writes decode_loop_code.
Proof.
  apply writes_seq, writes_seq; [apply writes_emitln..|].
  pose proof (leaves_writes v _ _ leaves_unknown_value) as Hu.
  pose proof struct_tagged as Htags. destruct sorted; [done|]. apply writes_block; [done|].
  apply writes_seq; [|by apply writes_block].
  induction Htags as [|[k f] fs [Hf Hk] _ IH]; [apply writes_skip|].
  apply writes_seq; [|done]. apply writes_arm; [apply struct_within|done|done].
Qed.

Lemma decode_loop_leaves : v ∈ ps_flexible s → Leaves v decode_loop_code decode_loop_at.
Proof.
  intros Hin. apply (leaves_seq v _ _ [_]); [apply leaves_emitln|].
  apply (leaves_seq v _ _ [_]); [apply leaves_emitln|].
  pose proof struct_tagged as Htags. destruct sorted as [|kf fs]; [apply leaves_unknown_value|].
  apply leaves_block; [reflexivity|done|]. apply leaves_seq.
  - apply leaves_for_each. eapply Forall_impl; [exact Htags|]. intros [k f] [Hf Hk].
    apply arm_leaves; [apply struct_within|by apply flexible_within|done|done].
  - apply leaves_block; [reflexivity|done|apply leaves_unknown_value].
Qed.

Lemma decode_tag_buffer_leaves :
  Leaves v (write_decode_tag_buffer fields valid (ps_flexible s))
    ((if decide (v ∈ ps_flexible s) then decode_section else []) ++ [Write nl]).
Proof.
  apply leaves_seq; [|apply leaves_emitln]. fold decode_loop_code.
  apply leaves_when; [apply struct_valid|apply struct_flexible|done| |].
  - apply writes_seq; [apply writes_emitln|]. by apply writes_block; [|apply decode_loop_writes].
  - intros Hin. apply (leaves_seq v _ _ [_]); [apply leaves_emitln|].
    apply leaves_block; [reflexivity|done|by apply decode_loop_leaves].
Qed.

(** *** The three functions *)

Definition validation : list out := default [] (write_version_validation s).

Lemma leaves_validation : Leaves v (write_version_validation s) validation.
Proof.
  unfold validation, write_version_validation.
  destruct (ps_valid s); [apply leaves_skip|..];
    (apply (leaves_seq v _ _ [_]), (leaves_seq v _ _ [_]); apply leaves_emitln).
Qed.

(** The fields of the struct, in the order of the schema. *)
Definition encode_fields_at (compute_size : bool) : list out :=
  concat ((λ f, encode_field_at valid v f compute_size) <$> fields).

Definition encode_tags_at (compute_size : bool) : list out :=
  (if decide (v ∈ ps_flexible s) then tag_section compute_size else []) ++ [Write nl].

Definition decode_tags_at : list out :=
  if is_none (ps_flexible s) then []
  else Write ("let mut unknown_tagged_fields = BTreeMap::new();" +:+ nl)
    :: (if decide (v ∈ ps_flexible s) then decode_section else []) ++ [Write nl].

Definition construct : list out :=
  ((λ f, Write ((pf_name f +:+ ",") +:+ nl)) <$> fields)
  ++ (if is_none (ps_flexible s) then [] else [Write ("unknown_tagged_fields," +:+ nl)]).

Lemma fields_leaves compute_size :
  Leaves v (for_each (write_encode_field valid compute_size) fields) (encode_fields_at compute_size).
Proof.
  apply leaves_for_each, Forall_forall. intros f Hf.
  apply encode_field_leaves; [apply struct_valid|done|by apply struct_field].
Qed.

Lemma construct_leaves :
  Leaves v (for_each (λ f, emitln (pf_name f +:+ ",")) fields
    ▷ (if is_none (ps_flexible s) then skip else emitln "unknown_tagged_fields,")) construct.
Proof.
  apply leaves_seq; [|case_match; [apply leaves_skip|apply leaves_emitln]].
  induction fields as [|f fs IH]; [apply leaves_skip|]. by apply (leaves_seq v _ _ [_]); [apply leaves_emitln|].
Qed.

Lemma encode_body_leaves :
  Leaves v (encode_body s)
    (validation ++ encode_fields_at false ++ encode_tags_at false ++ [Write "Ok(())"]).
Proof.
  apply leaves_seq; [apply leaves_validation|]. apply leaves_seq; [apply fields_leaves|].
  apply leaves_seq; [apply encode_tag_buffer_leaves|by apply leaves_emit].
Qed.

Lemma size_body_leaves :
  Leaves v (size_body s)
    (Write ("let mut total_size = 0;" +:+ nl) ::
     encode_fields_at true ++ encode_tags_at true ++ [Write "Ok(total_size)"]).
Proof.
  apply (leaves_seq v _ _ [_]); [apply leaves_emitln|]. apply leaves_seq; [apply fields_leaves|].
  apply leaves_seq; [apply encode_tag_buffer_leaves|by apply leaves_emit].
Qed.

Lemma decode_body_leaves :
  Leaves v (decode_body s)
    (validation ++ concat (decode_field_at valid v <$> fields) ++ decode_tags_at
     ++ [Write "Ok(Self "; Block construct; Write ")"]).
Proof.
  apply leaves_seq; [apply leaves_validation|]. apply leaves_seq.
  { apply leaves_for_each, Forall_forall. intros f Hf.
    apply decode_field_leaves; [apply struct_valid|done|by apply struct_field]. }
  apply leaves_seq.
  { unfold decode_tags_at. case_match; [apply leaves_skip|].
    apply (leaves_seq v _ _ [_]); [apply leaves_emitln|apply decode_tag_buffer_leaves]. }
  apply leaves_block_then; [reflexivity|done|apply construct_leaves|by apply leaves_emit].
Qed.

Lemma encode_fields_statements compute_size :
  statements (encode_fields_at compute_size) =
  concat ((λ f,
    if decide (v ∈ pf_versions f ∧ v ∉ pf_tagged f) then
      [Write (encode_text compute_size (wire_type f v (negb (is_none (pf_nullable f))))
        (display (var_name f)))]
    else if checked valid v f then fail_if_set f else []) <$> fields).
Proof.
  unfold encode_fields_at. pose proof struct_field as Hok. revert Hok.
  induction fields as [|f fs IH]; intros Hok; [done|].
  cbn [fmap list_fmap concat]. unfold statements at 1. rewrite filter_app. fold statements.
  rewrite <- IH by (intros g Hg; apply Hok; by right). f_equal.
  apply encode_field_statements; [apply struct_valid|done|apply Hok; left].
Qed.

Lemma plain_all_app a b : plain_all (a ++ b) = plain_all a +:+ plain_all b.
Proof. induction a as [|o a IH]; [done|]. cbn. by rewrite IH, text_app_assoc. Qed.

Lemma decode_fields_text :
  plain_all (concat (decode_field_at valid v <$> fields)) =
  foldr (λ f text,
    ((if is_none (pf_tagged f) then "let " else "let mut ") +:+ pf_name f +:+ " = " +:+
     (if decide (v ∈ pf_versions f ∧ v ∉ pf_tagged f)
      then wire_type f v (negb (is_none (pf_nullable f))) +:+ ".decode(buf)?"
      else default_text f) +:+ ";" +:+ nl) +:+ text) "" fields.
Proof.
  pose proof struct_field as Hok. revert Hok. induction fields as [|f fs IH]; intros Hok; [done|].
  cbn [fmap list_fmap concat foldr]. rewrite plain_all_app, IH by (intros g Hg; apply Hok; by right).
  f_equal. apply decode_field_text; [apply struct_valid|done|apply Hok; left].
Qed.

(** C25: what the generated codecs of a struct do.  In every valid version, the code
    that is left of [encode], [compute_size] and [decode] when the version tests
    are decided is, in the order of the schema: for each field of the version that
    is not tagged there, its encoding, its size and its decoding with one wire
    type, compact exactly in the flexible versions; for the other fields a check
    that they are at their default, unless they may be ignored, in [encode] and
    [compute_size], and the default in [decode]; then the tagged fields, in the
    flexible versions only.  Every field that is tagged in the version is among
    these, is written under its tag with one wire type, and the arm of that tag
    reads that wire type. *)
Theorem generated_codecs_agree :
  let body f := v ∈ pf_versions f ∧ v ∉ pf_tagged f in
  let wire f := wire_type f v (negb (is_none (pf_nullable f))) in
  (∃ statements_of, Leaves v (encode_body s)
      (validation ++ statements_of ++ encode_tags_at false ++ [Write "Ok(())"]) ∧
    statements statements_of = concat ((λ f,
      if decide (body f) then [Write (wire f +:+ ".encode(buf, " +:+ display (var_name f) +:+ ")?;")]
      else if checked valid v f then fail_if_set f else []) <$> fields)) ∧
  (∃ statements_of, Leaves v (size_body s)
      (Write ("let mut total_size = 0;" +:+ nl) ::
       statements_of ++ encode_tags_at true ++ [Write "Ok(total_size)"]) ∧
    statements statements_of = concat ((λ f,
      if decide (body f) then
        [Write ("total_size += " +:+ wire f +:+ ".compute_size(" +:+ display (var_name f) +:+ ")?;")]
      else if checked valid v f then fail_if_set f else []) <$> fields)) ∧
  (∃ lets, Leaves v (decode_body s)
      (validation ++ lets ++ decode_tags_at ++ [Write "Ok(Self "; Block construct; Write ")"]) ∧
    plain_all lets = foldr (λ f text,
      ((if is_none (pf_tagged f) then "let " else "let mut ") +:+ pf_name f +:+ " = " +:+
       (if decide (body f) then wire f +:+ ".decode(buf)?" else default_text f) +:+ ";" +:+ nl)
      +:+ text) "" fields) ∧
  (∀ f, f ∈ fields → v ∈ pf_versions f → v ∈ pf_tagged f →
    v ∈ ps_flexible s ∧
    ∃ k before, (k, f) ∈ sorted ∧
      tag_entry_at within v f false k =
        [Write (if_set f); Block (before ++
          [Write (wire_type f v false +:+ ".encode(buf, " +:+ display (var_name f) +:+ ")?;")]);
         Write nl] ∧
      decode_arm_at v k f =
        [Write (pretty k +:+ " => ");
         Block [Write (pf_name f +:+ " = " +:+ wire_type f v false +:+ ".decode(buf)?;")];
         Write ("," +:+ nl)]).
Proof.
  intros body wire. split_and!.
  - exists (encode_fields_at false). split; [apply encode_body_leaves|apply encode_fields_statements].
  - exists (encode_fields_at true). split; [apply size_body_leaves|apply encode_fields_statements].
  - eexists. split; [apply decode_body_leaves|apply decode_fields_text].
  - intros f Hf Hin Htg. pose proof Hs as (_ & _ & _ & Hnd & Htags).
    destruct (proj1 (Forall_forall _ _) Htags f Hf v Htg) as [Hflex [k Hk]]. split; [done|].
    eexists k, _. split; [by apply sorted_tagged_complete|].
    unfold tag_entry_at, decode_arm_at. rewrite !(decide_True (P := v ∈ pf_tagged f)) by done.
    rewrite (decide_True (P := v ∈ pf_versions f)), (decide_True (P := v ∈ pf_tagged f ∧ _)) by done.
    split; [|done]. rewrite !app_assoc. reflexivity.
Qed.
End structs.

(** Part of the schema of [FetchRequest]. *)
Definition sample_struct : PreparedStruct :=
  let versions := Range 4 17 in
  mkPreparedStruct SRequest "FetchRequest"
    [mkPreparedField "cluster_id" true (PtPrimitive PString) (Range 12 17) (Some 0) (Since 12)
       (Since 12) PdNull true None "" (Since 12);
     mkPreparedField "replica_id" false (PtPrimitive PInt32) (Range 4 14) None VNone VNone
       (PdNumeric "-1") false None "" (Since 12);
     mkPreparedField "rack_id" false (PtPrimitive PString) (Range 11 17) None VNone VNone
       (PdString "") true None "" (Since 12)]
    versions (Since 12) VNone.

Lemma sample_struct_ok : struct_ok sample_struct.
Proof.
  split_and!.
  - split; [|right; by eexists]. vm_compute. intuition congruence.
  - vm_compute. intuition congruence.
  - repeat constructor; try (by vm_compute; intuition congruence).
    all: cbn; intros; simplify_eq; lia.
  - cbn. repeat constructor. set_solver.
  - repeat constructor; cbn in *; unfold elem_of, version_elem_of in *; (lia || by eauto).
Qed.

Lemma generated_codecs_agree_witness :
  struct_ok sample_struct ∧ 13 ∈ ps_valid sample_struct ∧
  (∃ statements_of, Leaves 13 (encode_body sample_struct)
      (validation sample_struct ++ statements_of ++ encode_tags_at sample_struct 13 false
       ++ [Write "Ok(())"]) ∧
    statements statements_of =
      [Write "types::Int32.encode(buf, &self.replica_id)?;";
       Write "types::CompactString.encode(buf, &self.rack_id)?;"]).
Proof.
  assert (13 ∈ ps_valid sample_struct) as Hv by (split; lia).
  split; [exact sample_struct_ok|]. split; [exact Hv|].
  destruct (generated_codecs_agree sample_struct sample_struct_ok 13 Hv) as [(l & Hl & Hst) _].
  exists l. split; [exact Hl|]. rewrite Hst. vm_compute. reflexivity.
Defined.
End CodegenCorrect.
