(* ===== verification/CodegenMessages.v ===== *)
(** * The message generator: a run over the schemas

    [src/crates/kafka-protocol/protocol_codegen/src/generate_messages.rs], all of
    it, and [GenerationOutput::apply] of [generate.rs]: the schemas are generated
    one by one, the requests and responses that have no counterpart are dropped,
    and the module file is written: [Request], [ApiKey], [RequestKind],
    [ResponseKind] and the entity types.

    A file is the list of its lines.  The schemas are given in the order of their
    sorted paths, [None] for one that cannot be read or parsed ([parse.rs] is the
    JSON reader of other crates): it ends the run with an error.  [Panicked] is a
    panic of the generator.  The property of the file is [run_complete]. *)

From S2P Require Import Prelude Text CodegenSpec CodegenWriter CodegenGenerate.
From stdpp Require Import pretty gmap.
From stdpp Require Import sorting.
Open Scope Z_scope.

Module CodegenMessages.
Import Text CodegenSpec CodegenWriter CodegenGenerate.

Definition lines : Type := list string.

Inductive outcome (A : Type) : Type :=
| Done (a : A)
| Failed
| Panicked.
Arguments Done {A} _.
Arguments Failed {A}.
Arguments Panicked {A}.

#[export] Instance outcome_ret : MRet outcome := λ A a, Done a.
#[export] Instance outcome_bind : MBind outcome := λ A B k m,
  match m with Done a => k a | Failed => Failed | Panicked => Panicked end.

(** [unwrap], [expect] and the panics of [generate]. *)
Definition unwrap {A : Type} (o : option A) : outcome A :=
  match o with Some a => Done a | None => Panicked end.

(** ** Names *)

(** [strip_prefix]. *)
Fixpoint strip_prefix (p s : string) : option string :=
  match p, s with
  | EmptyString, _ => Some s
  | String a p, String b s => if decide (a = b) then strip_prefix p s else None
  | String _ _, EmptyString => None
  end.

(** [s.replace(p, EMPTY)]: the occurrences of [p] from left to right; [skip] counts
    the characters left of the occurrence that is being dropped. *)
Fixpoint erase_from (skip : nat) (p s : string) : string :=
  match s with
  | EmptyString => ""
  | String c rest =>
      match skip with
      | S n => erase_from n p rest
      | O => match strip_prefix p s with
             | Some _ => erase_from (pred (String.length p)) p rest
             | None => String c (erase_from 0 p rest)
             end
      end
  end.
Definition erase (p s : string) : string := erase_from 0 p s.

(** [trim_end_matches(p)] for a [p] that is not empty: a suffix made of copies of
    [p] is dropped. *)
Fixpoint copies (fuel : nat) (p s : string) : bool :=
  match s, fuel with
  | EmptyString, _ => true
  | _, O => false
  | _, S fuel => match strip_prefix p s with Some rest => copies fuel p rest | None => false end
  end.
Fixpoint trim_end_matches (p s : string) : string :=
  if copies (String.length s) p s then ""
  else match s with EmptyString => "" | String c rest => String c (trim_end_matches p rest) end.

(** ** The run *)

(** The module file, the entity types, and the files of the messages. *)
Record RunState : Type := mkRunState {
  rs_module : lines;
  rs_entities : entity_set;
  rs_files : list (string * list out)
}.

(** [entity_types.replace(entity)] for every entity, with the check of the
    previous definition. *)
(* @ src/crates/kafka-protocol/protocol_codegen/src/generate_messages/generate.rs 1400-1409 GenerationOutput::apply *)
Fixpoint replace_entities (es : list (string * EntityType)) (m : entity_set) : outcome entity_set :=
  match es with
  | [] => Done m
  | (_, e) :: es =>
      let '(previous, m) := bt_insert String.compare (ent_name e) e m in
      match previous with
      | Some p => if decide (ent_inner p = ent_inner e) then replace_entities es m else Panicked
      | None => replace_entities es m
      end
  end.

(* @ src/crates/kafka-protocol/protocol_codegen/src/generate_messages/generate.rs 1392-1418 GenerationOutput::apply *)
Definition apply (o : GenerationOutput) (st : RunState) : outcome RunState :=
  entities ← replace_entities (go_entity_types o) (rs_entities st);
  Done (mkRunState
    (rs_module st ++ ["pub mod " +:+ go_module_name o +:+ ";";
       "pub use " +:+ go_module_name o +:+ "::" +:+ go_struct_name o +:+ ";"; ""])
    entities
    (rs_files st ++ [(go_file_name o, go_buffer o)])).

(** [BTreeMap<i16, GenerationOutput>]. *)
Definition output_map : Type := list (Z * GenerationOutput).

(* @ src/crates/kafka-protocol/protocol_codegen/src/generate_messages.rs 55-58 run *)
Record Collected : Type := mkCollected {
  co_requests : output_map;
  co_responses : output_map;
  co_versions : gmap Z VersionSpec
}.

(** One schema. *)
(* @ src/crates/kafka-protocol/protocol_codegen/src/generate_messages.rs 60-80 run *)
Definition collect `{Inflector} (fuel : nat) (dir : string) (schema : option Spec)
    (acc : Collected * RunState) : outcome (Collected * RunState) :=
  let '(c, st) := acc in
  match schema with
  | None => Failed
  | Some spec =>
      output ← unwrap (generate fuel dir spec);
      match output with
      | None => Done (c, st)
      | Some output =>
          match sp_type spec, sp_api_key spec with
          | SRequest, Some k =>
              Done (mkCollected (bt_insert Z.compare k output (co_requests c)).2 (co_responses c)
                (<[k := sp_valid_versions spec]> (co_versions c)), st)
          | SResponse, Some k =>
              Done (mkCollected (co_requests c) (bt_insert Z.compare k output (co_responses c)).2
                (co_versions c), st)
          | _, _ => st ← apply output st; Done (c, st)
          end
      end
  end.

Fixpoint collect_all `{Inflector} (fuel : nat) (dir : string) (schemas : list (option Spec))
    (acc : Collected * RunState) : outcome (Collected * RunState) :=
  match schemas with
  | [] => Done acc
  | s :: schemas => acc ← collect fuel dir s acc; collect_all fuel dir schemas acc
  end.

(** The keys on one side only are removed from both maps. *)
(* @ src/crates/kafka-protocol/protocol_codegen/src/generate_messages.rs 82-96 run *)
Definition pair_up (requests responses : list (Z * GenerationOutput)) :
    list (Z * GenerationOutput) * list (Z * GenerationOutput) :=
  let request_keys : gset Z := list_to_set requests.*1 in
  let response_keys : gset Z := list_to_set responses.*1 in
  let difference := (request_keys ∖ response_keys) ∪ (response_keys ∖ request_keys) in
  (filter (λ ko, ko.1 ∉ difference) requests, filter (λ ko, ko.1 ∉ difference) responses).

(* @ src/crates/kafka-protocol/protocol_codegen/src/generate_messages.rs 98-100 run *)
Fixpoint apply_all (outputs : output_map) (st : RunState) : outcome RunState :=
  match outputs with
  | [] => Done st
  | (_, o) :: outputs => st ← apply o st; apply_all outputs st
  end.

(** The keys with the names of the messages.  The maps are in the order of the keys,
    which are different, so that the sort of the list leaves it as it is. *)
(* @ src/crates/kafka-protocol/protocol_codegen/src/generate_messages.rs 102-119 run *)
Definition strip_outputs (outputs : output_map) : list (Z * string) :=
  (λ ko, (ko.1, go_struct_name ko.2)) <$> outputs.

(** ** The module file *)

Definition cfg (condition : string) : string := "#[cfg(" +:+ condition +:+ ")]".
Definition feature (name : string) : string := "feature = " +:+ quote +:+ name +:+ quote.
Definition cfg_both : string := cfg ("all(" +:+ feature "client" +:+ ", " +:+ feature "broker" +:+ ")").
Definition cfg_any : string := cfg ("any(" +:+ feature "client" +:+ ", " +:+ feature "broker" +:+ ")").
Definition cfg_enums : string := cfg (feature "messages_enums").

(* @ src/crates/kafka-protocol/protocol_codegen/src/generate_messages.rs 27-53 run *)
Definition module_header : lines :=
  ["//! Messages used by the Kafka protocol.";
   "//!";
   "//! These messages are generated programmatically. See the [Kafka's protocol documentation](https://kafka.apache.org/protocol.html) for more information about a given message type.";
   "// WARNING: the items of this module are generated and should not be edited directly.";
   "";
   "use crate::protocol::{NewType, StrBytes, HeaderVersion};";
   cfg_both;
   "use crate::protocol::Request;";
   "use crate::protocol::VersionRange;";
   "use std::convert::TryFrom;";
   cfg_enums; cfg_any;
   "use crate::protocol::Encodable;";
   cfg_enums; cfg_any;
   "use crate::protocol::Decodable;";
   "use anyhow::Result;";
   cfg_enums; cfg_any;
   "use anyhow::Context;";
   ""].

(** [for x in l { .. }]. *)
Definition each {A : Type} (f : A → lines) (l : list A) : lines := concat (f <$> l).

(* @ src/crates/kafka-protocol/protocol_codegen/src/generate_messages.rs 121-133 run *)
Fixpoint request_impls (requests responses : list (Z * string)) : outcome lines :=
  match requests with
  | [] => Done []
  | (api_key, request_type) :: requests =>
      found ← unwrap (list_find (λ kr, kr.1 = api_key) responses);
      rest ← request_impls requests responses;
      Done ([cfg_both;
        "impl Request for " +:+ request_type +:+ " {";
        "    const KEY: i16 = " +:+ pretty api_key +:+ ";";
        "    type Response = " +:+ found.2.2 +:+ ";";
        "}";
        ""] ++ rest)
  end.

(** The variant of [ApiKey] for a request, and for a response. *)
Definition request_key (request_type : string) : string := erase "Request" request_type.
Definition response_key (response_type : string) : string := erase "Response" response_type.

(* @ src/crates/kafka-protocol/protocol_codegen/src/generate_messages.rs 135-148 run *)
Definition api_key_enum (requests : list (Z * string)) : lines :=
  ["/// Valid API keys in the Kafka protocol.";
   "#[derive(Debug, Clone, Copy, PartialEq, Eq, Hash)]";
   "pub enum ApiKey {"]
  ++ each (λ kr, ["    /// API key for request " +:+ kr.2;
       "    " +:+ request_key kr.2 +:+ " = " +:+ pretty kr.1 +:+ ","]) requests
  ++ ["}"; ""].

(* @ src/crates/kafka-protocol/protocol_codegen/src/generate_messages.rs 150-169 run *)
Definition request_header_version (requests : list (Z * string)) : lines :=
  ["impl ApiKey {";
   "    /// Get the version of request header that needs to be prepended to this message";
   "    pub fn request_header_version(&self, version: i16) -> i16 {";
   "        match self {"]
  ++ each (λ kr, ["            ApiKey::" +:+ request_key kr.2 +:+ " => " +:+ kr.2
       +:+ "::header_version(version),"]) requests
  ++ ["        }"; "    }"].

(* @ src/crates/kafka-protocol/protocol_codegen/src/generate_messages.rs 171-189 run *)
Definition response_header_version (responses : list (Z * string)) : lines :=
  ["    /// Get the version of response header that needs to be prepended to this message";
   "    pub fn response_header_version(&self, version: i16) -> i16 {";
   "        match self {"]
  ++ each (λ kr, ["            ApiKey::" +:+ response_key kr.2 +:+ " => " +:+ kr.2
       +:+ "::header_version(version),"]) responses
  ++ ["        }"; "    }"].

(* @ src/crates/kafka-protocol/protocol_codegen/src/generate_messages.rs 197-210 run *)
Fixpoint valid_version_arms (versions : gmap Z VersionSpec) (requests : list (Z * string)) :
    outcome lines :=
  match requests with
  | [] => Done []
  | (api_key, request_type) :: requests =>
      valid ← unwrap (versions !! api_key);
      bounds ← unwrap (range valid);
      rest ← valid_version_arms versions requests;
      Done (("ApiKey::" +:+ request_key request_type +:+ " => VersionRange { min: "
        +:+ pretty bounds.1 +:+ ", max: " +:+ pretty bounds.2 +:+ " },") :: rest)
  end.

(* @ src/crates/kafka-protocol/protocol_codegen/src/generate_messages.rs 191-212 run *)
Definition api_key_valid_versions (versions : gmap Z VersionSpec) (requests : list (Z * string)) :
    outcome lines :=
  arms ← valid_version_arms versions requests;
  Done (["    /// Returns the valid versions that can be used with this ApiKey";
     "    pub fn valid_versions(&self) -> VersionRange {";
     "        match self {"]
    ++ arms ++ ["        }"; "    }"]).

(** [iter().max()]. *)
Definition max_key (requests : list (Z * string)) : option Z :=
  foldr (λ kr m, Some (match m with Some m => Z.max kr.1 m | None => kr.1 end)) None requests.

(* @ src/crates/kafka-protocol/protocol_codegen/src/generate_messages.rs 214-225 run *)
Definition api_key_iter (requests : list (Z * string)) : outcome lines :=
  max ← unwrap (max_key requests);
  Done ["";
    "  /// Iterate through every ApiKey variant in the order of the internal code.";
    "  pub fn iter() -> impl Iterator<Item = ApiKey> {";
    "    (0..=" +:+ pretty max +:+ ").filter_map(|i| ApiKey::try_from(i).ok())";
    "  }";
    "    ";
    "}"].

(* @ src/crates/kafka-protocol/protocol_codegen/src/generate_messages.rs 227-244 run *)
Definition api_key_try_from (requests : list (Z * string)) : lines :=
  ["impl TryFrom<i16> for ApiKey {";
   "    type Error = ();";
   "";
   "    fn try_from(v: i16) -> Result<Self, Self::Error> {";
   "        match v {"]
  ++ each (λ kr, let key := request_key kr.2 in
       ["            x if x == ApiKey::" +:+ key +:+ " as i16 => Ok(ApiKey::" +:+ key +:+ "),"]) requests
  ++ ["            _ => Err(()),";
      "        }"; "    }"; "}"; ""].

Definition request_variant (request_type : string) : string := trim_end_matches "Request" request_type.
Definition response_variant (response_type : string) : string :=
  trim_end_matches "Response" response_type.

(* @ src/crates/kafka-protocol/protocol_codegen/src/generate_messages.rs 246-264 run *)
Definition request_kind_enum (requests : list (Z * string)) : lines :=
  ["/// Wrapping enum for all requests in the Kafka protocol.";
   cfg_enums;
   "#[non_exhaustive]";
   "#[derive(Debug, Clone, PartialEq)]";
   "pub enum RequestKind {"]
  ++ each (λ kr, ["    /// " +:+ kr.2 +:+ ",";
       "    " +:+ request_variant kr.2 +:+ "(" +:+ kr.2 +:+ "),"]) requests
  ++ ["}"; ""].

(* @ src/crates/kafka-protocol/protocol_codegen/src/generate_messages.rs 266-302 run *)
Definition request_kind_impl (requests : list (Z * string)) : lines :=
  [cfg_enums;
   "impl RequestKind {";
   "/// Encode the message into the target buffer";
   cfg (feature "client");
   "pub fn encode(&self, bytes: &mut bytes::BytesMut, version: i16) -> anyhow::Result<()> {";
   "match self {"]
  ++ each (λ kr, ["RequestKind::" +:+ request_variant kr.2 +:+ "(x) => encode(x, bytes, version),"])
       requests
  ++ ["}"; "}";
   "/// Decode the message from the provided buffer and version";
   cfg (feature "broker");
   "pub fn decode(api_key: ApiKey, bytes: &mut bytes::Bytes, version: i16) -> anyhow::Result<RequestKind> {";
   "match api_key {"]
  ++ each (λ kr, let variant := request_variant kr.2 in
       ["ApiKey::" +:+ variant +:+ " => Ok(RequestKind::" +:+ variant +:+ "(decode(bytes, version)?)),"])
       requests
  ++ ["}"; "}"; "}"].

(** [From] of a message for the enum of its kind. *)
(* @ src/crates/kafka-protocol/protocol_codegen/src/generate_messages.rs 304-313 run *)
Definition request_from (request_type : string) : lines :=
  [cfg_enums;
   "impl From<" +:+ request_type +:+ "> for RequestKind {";
   "    fn from(value: " +:+ request_type +:+ ") -> RequestKind {";
   "        RequestKind::" +:+ request_variant request_type +:+ "(value)";
   "    }"; "}"; ""].

(* @ src/crates/kafka-protocol/protocol_codegen/src/generate_messages.rs 315-342 run *)
Definition codec_helpers : lines :=
  let helper signature call verb :=
    [cfg_enums; cfg_any; signature;
     call;
     "        format!(";
     "            " +:+ quote +:+ "Failed to " +:+ verb +:+ " {} v{} body" +:+ quote +:+ ",";
     "            std::any::type_name::<T>(),";
     "            version";
     "        )";
     "    })";
     "}"] in
  [""]
  ++ helper "fn decode<T: Decodable>(bytes: &mut bytes::Bytes, version: i16) -> Result<T> {"
       "    T::decode(bytes, version).with_context(|| {" "decode"
  ++ [""]
  ++ helper "fn encode<T: Encodable>(encodable: &T, bytes: &mut bytes::BytesMut, version: i16) -> Result<()> {"
       "    encodable.encode(bytes, version).with_context(|| {" "encode"
  ++ ["    "].

(* @ src/crates/kafka-protocol/protocol_codegen/src/generate_messages.rs 344-362 run *)
Definition response_kind_enum (responses : list (Z * string)) : lines :=
  ["/// Wrapping enum for all responses in the Kafka protocol.";
   "#[non_exhaustive]";
   "#[derive(Debug, Clone, PartialEq)]";
   cfg_enums;
   "pub enum ResponseKind {"]
  ++ each (λ kr, ["    /// " +:+ kr.2 +:+ ",";
       "    " +:+ response_variant kr.2 +:+ "(" +:+ kr.2 +:+ "),"]) responses
  ++ ["}"; ""].

(* @ src/crates/kafka-protocol/protocol_codegen/src/generate_messages.rs 364-419 run *)
Definition response_kind_impl (responses : list (Z * string)) : lines :=
  [cfg_enums;
   "impl ResponseKind {";
   "/// Encode the message into the target buffer";
   cfg (feature "broker");
   "pub fn encode(&self, bytes: &mut bytes::BytesMut, version: i16) -> anyhow::Result<()> {";
   "match self {"]
  ++ each (λ kr, ["ResponseKind::" +:+ response_variant kr.2 +:+ "(x) => encode(x, bytes, version),"])
       responses
  ++ ["}"; "}";
   "/// Decode the message from the provided buffer and version";
   cfg (feature "client");
   "pub fn decode(api_key: ApiKey, bytes: &mut bytes::Bytes, version: i16) -> anyhow::Result<ResponseKind> {";
   "match api_key {"]
  ++ each (λ kr, let variant := response_variant kr.2 in
       ["ApiKey::" +:+ variant +:+ " => Ok(ResponseKind::" +:+ variant +:+ "(decode(bytes, version)?)),"])
       responses
  ++ ["}"; "}";
   "/// Get the version of request header that needs to be prepended to this message";
   "pub fn header_version(&self, version: i16) -> i16 {";
   "match self {"]
  ++ each (λ kr, ["ResponseKind::" +:+ response_variant kr.2 +:+ "(_) => " +:+ kr.2
       +:+ "::header_version(version),"]) responses
  ++ ["}"; "}"; "}"; ""].

(* @ src/crates/kafka-protocol/protocol_codegen/src/generate_messages.rs 421-430 run *)
Definition response_from (response_type : string) : lines :=
  [cfg_enums;
   "impl From<" +:+ response_type +:+ "> for ResponseKind {";
   "    fn from(value: " +:+ response_type +:+ ") -> ResponseKind {";
   "        ResponseKind::" +:+ response_variant response_type +:+ "(value)";
   "    }"; "}"; ""].

(* @ src/crates/kafka-protocol/protocol_codegen/src/generate_messages.rs 432-512 run *)
Definition entity_lines (e : EntityType) : lines :=
  let derives := "Clone, Eq, PartialEq, Ord, PartialOrd, Hash, Default"
    +:+ (if is_copy (ent_inner e) then ", Copy" else "") in
  let rust_name := primitive_rust_name (ent_inner e) in
  let name := ent_name e in
  ["/// " +:+ ent_doc e;
   "#[derive(" +:+ derives +:+ ")]";
   "pub struct " +:+ name +:+ "(pub " +:+ rust_name +:+ ");";
   "";
   "impl From<" +:+ rust_name +:+ "> for " +:+ name +:+ " {";
   "    fn from(other: " +:+ rust_name +:+ ") -> Self { Self(other) }";
   "}";
   "impl From<" +:+ name +:+ "> for " +:+ rust_name +:+ " {";
   "    fn from(other: " +:+ name +:+ ") -> Self { other.0 }";
   "}";
   "impl std::borrow::Borrow<" +:+ rust_name +:+ "> for " +:+ name +:+ " {";
   "    fn borrow(&self) -> &" +:+ rust_name +:+ " { &self.0 }";
   "}";
   "impl std::ops::Deref for " +:+ name +:+ " {";
   "    type Target = " +:+ rust_name +:+ ";";
   "    fn deref(&self) -> &Self::Target { &self.0 }";
   "}";
   "impl std::cmp::PartialEq<" +:+ rust_name +:+ "> for " +:+ name +:+ " {";
   "    fn eq(&self, other: &" +:+ rust_name +:+ ") -> bool { &self.0 == other }";
   "}";
   "impl std::cmp::PartialEq<" +:+ name +:+ "> for " +:+ rust_name +:+ " {";
   "    fn eq(&self, other: &" +:+ name +:+ ") -> bool { self == &other.0 }";
   "}";
   "impl std::fmt::Debug for " +:+ name +:+ " {";
   "    fn fmt(&self, f: &mut std::fmt::Formatter<'_>) -> std::fmt::Result { self.0.fmt(f) }";
   "}";
   "impl NewType<" +:+ rust_name +:+ "> for " +:+ name +:+ " {}";
   ""].

(** The part of the module file behind the declarations of the modules. *)
(* @ src/crates/kafka-protocol/protocol_codegen/src/generate_messages.rs 121-430 run *)
Definition module_body (versions : gmap Z VersionSpec) (requests responses : list (Z * string)) :
    outcome lines :=
  impls ← request_impls requests responses;
  valid ← api_key_valid_versions versions requests;
  iter ← api_key_iter requests;
  Done (impls ++ api_key_enum requests ++ request_header_version requests
    ++ response_header_version responses ++ valid ++ iter ++ api_key_try_from requests
    ++ request_kind_enum requests ++ request_kind_impl requests
    ++ each (λ kr, request_from kr.2) requests
    ++ codec_helpers
    ++ response_kind_enum responses ++ response_kind_impl responses
    ++ each (λ kr, response_from kr.2) responses).

(** The whole run: the module file and the files of the messages. *)
(* @ src/crates/kafka-protocol/protocol_codegen/src/generate_messages.rs 16-515 run *)
Definition run `{Inflector} (fuel : nat) (dir : string) (schemas : list (option Spec)) :
    outcome (lines * list (string * list out)) :=
  collected ← collect_all fuel dir schemas (mkCollected [] [] ∅, mkRunState module_header [] []);
  let '(c, st) := collected in
  let '(requests, responses) := pair_up (co_requests c) (co_responses c) in
  st ← apply_all (requests ++ responses) st;
  body ← module_body (co_versions c) (strip_outputs requests) (strip_outputs responses);
  Done (rs_module st ++ body ++ each (λ ne, entity_lines ne.2) (rs_entities st), rs_files st).

(** ** Maps in the order of their keys *)

Local Abbreviation ascending := (StronglySorted Z.lt).

Lemma ascending_ext l k : ascending l → ascending k → (∀ x, x ∈ l ↔ x ∈ k) → l = k.
Proof.
  intros Hl. revert k. induction Hl as [|a l Hl IH Ha]; intros k Hk Hext.
  { destruct k as [|b k]; [done|]. exfalso. apply (not_elem_of_nil b), Hext. left. }
  destruct Hk as [|b k Hk Hb]; [exfalso; apply (not_elem_of_nil a), Hext; left|].
  rewrite Forall_forall in Ha, Hb.
  assert (a = b) as <-.
  { assert (a ∈ b :: k) as Hab by (apply Hext; left).
    assert (b ∈ a :: l) as Hba by (apply Hext; left).
    apply elem_of_cons in Hab as [?|Hab], Hba as [?|Hba]; try done.
    apply Hb in Hab. apply Ha in Hba. lia. }
  f_equal. apply IH; [done|]. intros x. split; intros Hx.
  - assert (x ∈ a :: k) as [->|?]%elem_of_cons by (apply Hext; by right); [|done].
    by apply Ha, Z.lt_irrefl in Hx.
  - assert (x ∈ a :: l) as [->|?]%elem_of_cons by (apply Hext; by right); [|done].
    by apply Hb, Z.lt_irrefl in Hx.
Qed.

Lemma ascending_NoDup l : ascending l → NoDup l.
Proof.
  induction 1 as [|a l _ IH Ha]; [constructor|]. constructor; [|done]. rewrite Forall_forall in Ha.
  intros Hin%Ha. lia.
Qed.

Lemma bt_insert_keys {V : Type} k (x : V) m k' :
  k' ∈ (bt_insert Z.compare k x m).2.*1 ↔ k' = k ∨ k' ∈ m.*1.
Proof.
  induction m as [|[k1 x1] m IH]; cbn; [set_solver|].
  destruct (Z.compare_spec k k1); [subst; set_solver|set_solver|].
  destruct (bt_insert Z.compare k x m) as [previous m']; cbn in *. set_solver.
Qed.

Lemma bt_insert_ascending {V : Type} k (x : V) m :
  ascending m.*1 → ascending (bt_insert Z.compare k x m).2.*1.
Proof.
  induction m as [|[k1 x1] m IH]; cbn; intros Hm.
  { by repeat constructor. }
  pose proof Hm as [Hs Hall]%StronglySorted_inv. rewrite Forall_forall in Hall.
  destruct (Z.compare_spec k k1) as [->| |]; cbn; [done| |].
  - constructor; [done|]. apply Forall_forall. intros y [->|Hy]%elem_of_cons; [done|].
    specialize (Hall y Hy). lia.
  - pose proof (bt_insert_keys k x m) as Hkeys.
    destruct (bt_insert Z.compare k x m) as [previous m']; cbn in *.
    constructor; [by apply IH|]. apply Forall_forall. intros y [->|Hy]%Hkeys; [done|by apply Hall].
Qed.

Lemma bt_insert_previous {K V : Type} (cmp : K → K → comparison) (k : K) (x : V) m p :
  (bt_insert cmp k x m).1 = Some p → ∃ k', (k', p) ∈ m ∧ cmp k k' = Datatypes.Eq.
Proof.
  induction m as [|[k1 x1] m IH]; cbn; [done|].
  destruct (cmp k k1) eqn:Hc; [intros [= <-]; exists k1; split; [left|done]|done|].
  destruct (bt_insert cmp k x m) as [previous m']; cbn in *. intros Hp. destruct (IH Hp) as (k' & ? & ?).
  exists k'. split; [by right|done].
Qed.

Lemma filter_keys (d : gset Z) (m : list (Z * GenerationOutput)) :
  (filter (λ ko, ko.1 ∉ d) m).*1 = filter (λ k, k ∉ d) m.*1.
Proof.
  induction m as [|[k o] m IH]; [done|]. rewrite fmap_cons. destruct (decide (k ∈ d)) as [Hk|Hk].
  - rewrite filter_cons_False, filter_cons_False by (cbn; tauto). exact IH.
  - rewrite filter_cons_True, filter_cons_True by done. cbn. f_equal. exact IH.
Qed.

Lemma ascending_filter (P : Z → Prop) `{∀ k, Decision (P k)} l : ascending l → ascending (filter P l).
Proof.
  induction 1 as [|a l Hl IH Ha]; [constructor|]. rewrite filter_cons. case_decide; [|done].
  constructor; [done|]. rewrite Forall_forall in Ha |- *. intros x [_ Hx]%list_elem_of_filter. by apply Ha.
Qed.

(** What is left on both sides are the keys both sides have. *)
Lemma pair_up_keys requests responses :
  ascending requests.*1 → ascending responses.*1 →
  let '(qs, rs) := pair_up requests responses in
  ascending qs.*1 ∧ qs.*1 = rs.*1 ∧ (∀ k, k ∈ qs.*1 ↔ k ∈ requests.*1 ∧ k ∈ responses.*1).
Proof.
  intros Hq Hr. unfold pair_up. cbv zeta. set (d := _ ∪ _). cbv iota beta.
  rewrite !filter_keys.
  assert (∀ k, k ∈ filter (λ k, k ∉ d) requests.*1 ↔ k ∈ requests.*1 ∧ k ∈ responses.*1) as Hkq.
  { intros k. rewrite list_elem_of_filter. unfold d. rewrite elem_of_union, !elem_of_difference,
      !elem_of_list_to_set. destruct (decide (k ∈ responses.*1)); tauto. }
  assert (∀ k, k ∈ filter (λ k, k ∉ d) responses.*1 ↔ k ∈ requests.*1 ∧ k ∈ responses.*1) as Hkr.
  { intros k. rewrite list_elem_of_filter. unfold d. rewrite elem_of_union, !elem_of_difference,
      !elem_of_list_to_set. destruct (decide (k ∈ requests.*1)); tauto. }
  split_and!; [by apply ascending_filter| |done].
  apply ascending_ext; [by apply ascending_filter..|]. intros k. by rewrite Hkq, Hkr.
Qed.

(** ** The names of the variants *)

Lemma strip_prefix_spec p s r : strip_prefix p s = Some r ↔ s = p +:+ r.
Proof.
  revert s. induction p as [|a p IH]; intros s; cbn.
  - split; [by intros [= ->]|by intros ->].
  - destruct s as [|b s]; [split; by intros|]. case_decide as Hab.
    + subst b. rewrite IH. split; [by intros ->|by intros [= ->]].
    + split; [done|intros [= -> ->]; done].
Qed.

(** [p] occurs in [s]. *)
Fixpoint occurs (p s : string) : bool :=
  match strip_prefix p s with
  | Some _ => true
  | None => match s with EmptyString => false | String _ s => occurs p s end
  end.

Lemma occurs_prefix p s r : strip_prefix p s = Some r → occurs p s = true.
Proof. destruct s; cbn [occurs]; by intros ->. Qed.

Fixpoint char_in (a : Ascii.ascii) (s : string) : bool :=
  match s with EmptyString => false | String b s => bool_decide (a = b) || char_in a s end.

(** A text whose first character does not come again overlaps with no copy of
    itself. *)
Lemma no_overlap a q y r :
  char_in a q = false → y +:+ String a q = q +:+ r → ∃ z, y = q +:+ z.
Proof.
  intros Hq. assert (∀ q' y, char_in a q' = false → y +:+ String a q = q' +:+ r → ∃ z, y = q' +:+ z) as H.
  { induction q' as [|c q' IH]; intros y' Hq' He; [by exists y'|].
    cbn in Hq'. apply orb_false_iff in Hq' as [Hc Hq']. apply bool_decide_eq_false in Hc.
    destruct y' as [|c' y']; [by injection He as ->|]. injection He as -> He.
    destruct (IH _ Hq' He) as [z ->]. by exists z. }
  by apply H.
Qed.

Section suffix.
  Variables (a : Ascii.ascii) (q : string).
  Hypothesis Hq : char_in a q = false.
  Local Abbreviation p := (String a q).

Lemma no_occurrence y :
  y ≠ "" → occurs p y = false → strip_prefix p (y +:+ p) = None.
Proof.
  intros Hne Ho. destruct (strip_prefix p (y +:+ p)) as [r|] eqn:He; [|done].
  apply strip_prefix_spec in He. destruct y as [|c y]; [done|]. injection He as -> He.
  destruct (no_overlap a q y r Hq He) as [z ->].
  assert (strip_prefix p (p +:+ z) = Some z) as Hp by (by apply strip_prefix_spec).
  change (occurs p (p +:+ z) = false) in Ho. by rewrite (occurs_prefix _ _ _ Hp) in Ho.
Qed.

Lemma occurs_tail c y : occurs p (String c y) = false → occurs p y = false.
Proof. cbn [occurs]. by destruct (strip_prefix p (String c y)). Qed.

Lemma erase_skip n s : String.length s = n → erase_from n p s = "".
Proof. revert n. induction s as [|c s IH]; intros [|n]; cbn; [done..|]. intros [= ?]. by apply IH. Qed.

(** The name without its suffix. *)
Lemma erase_suffix x : occurs p x = false → erase p (x +:+ p) = x.
Proof.
  unfold erase. induction x as [|c x IH]; intros Ho.
  - change ("" +:+ p) with p. cbn [erase_from].
    assert (strip_prefix p p = Some "") as -> by (apply strip_prefix_spec; by rewrite text_app_nil).
    by apply erase_skip.
  - pose proof (no_occurrence _ (λ H : String c x = "", ltac:(done)) Ho) as Hn.
    change (String c x +:+ p) with (String c (x +:+ p)) in *. cbn [erase_from]. rewrite Hn.
    f_equal. apply IH. by eapply occurs_tail.
Qed.

Lemma trim_suffix x : occurs p x = false → trim_end_matches p (x +:+ p) = x.
Proof.
  induction x as [|c x IH]; intros Ho.
  - change ("" +:+ p) with p. cbn [trim_end_matches String.length copies].
    assert (strip_prefix p p = Some "") as -> by (apply strip_prefix_spec; by rewrite text_app_nil).
    by destruct (String.length q).
  - pose proof (no_occurrence _ (λ H : String c x = "", ltac:(done)) Ho) as Hn.
    change (String c x +:+ p) with (String c (x +:+ p)) in *.
    cbn [trim_end_matches String.length copies]. rewrite Hn. f_equal. apply IH. by eapply occurs_tail.
Qed.
End suffix.

(** ** What is collected *)

Section collected.
  Context `{Inflector} (fuel : nat) (dir : string).

Lemma generate_spec spec o :
  generate fuel dir spec = Some (Some o) →
  go_struct_name o = sp_name spec ∧ sp_valid_versions spec ≠ VNone ∧
  (sp_type spec = SRequest → is_Some (sp_api_key spec) → is_Some (range (sp_valid_versions spec))).
Proof.
  unfold generate. destruct (is_none (sp_valid_versions spec)) eqn:Hn; [done|].
  destruct (prepare_loop fuel spec [] []) as [[entities structs]|]; cbn [mbind option_bind]; [|done].
  destruct (write_file_header (sp_name spec)) as [a|]; [|done].
  destruct (for_each (λ ns : string * PreparedStruct, apply_struct ns.2) structs) as [b|]; [|done].
  destruct (write_header_version spec) as [h|] eqn:Hh; [|done]. intros [= <-].
  split_and!; [done|by intros He; rewrite He in Hn|]. intros Ht [k Hk].
  unfold write_header_version in Hh. rewrite Hk, Ht in Hh.
  destruct (sp_valid_versions spec); [done|by eexists|done|by eexists].
Qed.

(** A schema of a kind, with a key and with versions. *)
Definition declares (spec : Spec) (t : SpecType) (k : Z) : Prop :=
  sp_type spec = t ∧ sp_api_key spec = Some k ∧ sp_valid_versions spec ≠ VNone.

Definition generates (spec : Spec) (o : GenerationOutput) : Prop :=
  generate fuel dir spec = Some (Some o).

(** The map has what the schemas generate, by key. *)
Definition map_ok (specs : list Spec) (t : SpecType) (m : output_map) : Prop :=
  ascending m.*1 ∧
  (∀ k, k ∈ m.*1 ↔ ∃ spec, spec ∈ specs ∧ declares spec t k) ∧
  (∀ k o, (k, o) ∈ m → ∃ spec, spec ∈ specs ∧ declares spec t k ∧ generates spec o).

Record collected_ok (specs : list Spec) (c : Collected) : Prop := {
  ok_requests : map_ok specs SRequest (co_requests c);
  ok_responses : map_ok specs SResponse (co_responses c);
  ok_versions : ∀ k, k ∈ (co_requests c).*1 → ∃ spec, spec ∈ specs ∧ declares spec SRequest k ∧
    co_versions c !! k = Some (sp_valid_versions spec) ∧ is_Some (range (sp_valid_versions spec))
}.

(** A message is entered. *)
Lemma map_ok_insert specs t m k o spec :
  map_ok specs t m → declares spec t k → generates spec o →
  map_ok (specs ++ [spec]) t (bt_insert Z.compare k o m).2.
Proof.
  intros (Hs & Hk & Hm) Hdecl Hgen. split_and!; [by apply bt_insert_ascending| |].
  - intros k'. rewrite bt_insert_keys, Hk. split.
    + intros [->|(spec' & ? & ?)]; [exists spec|exists spec']; set_solver.
    + intros (spec' & [Hin|Hin]%elem_of_app & Hdecl'); [right; eauto|]. left.
      apply list_elem_of_singleton in Hin as ->. unfold declares in *. naive_solver congruence.
  - intros k' o' [[= -> ->]|Hin]%bt_insert_elem; [exists spec; set_solver|].
    destruct (Hm k' o' Hin) as (spec' & ? & ?). exists spec'. set_solver.
Qed.

(** A schema that is not entered. *)
Lemma map_ok_other specs t m spec :
  (∀ k, ~ declares spec t k) → map_ok specs t m → map_ok (specs ++ [spec]) t m.
Proof.
  intros Hno (Hs & Hk & Hm). split_and!; [done| |].
  - intros k. rewrite Hk. split; [intros (spec' & ? & ?); exists spec'; set_solver|].
    intros (spec' & [Hin|Hin]%elem_of_app & Hdecl); [by eauto|].
    apply list_elem_of_singleton in Hin as ->. by apply Hno in Hdecl.
  - intros k o Hin. destruct (Hm k o Hin) as (spec' & ? & ?). exists spec'. set_solver.
Qed.

Lemma versions_snoc specs spec (P : Spec → Prop) :
  (∃ s, s ∈ specs ∧ P s) → ∃ s, s ∈ specs ++ [spec] ∧ P s.
Proof. intros (s & ? & ?). exists s. set_solver. Qed.

(** ** The entity types *)

(** An entity type one of the schemas brings. *)
Definition brings (specs : list Spec) (e : EntityType) : Prop :=
  ∃ spec o n, spec ∈ specs ∧ generates spec o ∧ (n, e) ∈ go_entity_types o.

(** No entity type is defined twice with different types. *)
Definition entities_agree (specs : list Spec) : Prop :=
  ∀ e e', brings specs e → brings specs e' → ent_name e = ent_name e' → ent_inner e = ent_inner e'.

Definition entities_from (specs : list Spec) (m : entity_set) : Prop :=
  ∀ n e, (n, e) ∈ m → n = ent_name e ∧ brings specs e.

Lemma replace_entities_total specs es m :
  entities_agree specs → (∀ n e, (n, e) ∈ es → brings specs e) → entities_from specs m →
  ∃ m', replace_entities es m = Done m' ∧ entities_from specs m'.
Proof.
  intros Hagree. revert m. induction es as [|[n e] es IH]; intros m Hes Hm; cbn [replace_entities]; [eauto|].
  assert (brings specs e) as He by (apply (Hes n); left).
  pose proof (bt_insert_previous String.compare (ent_name e) e m) as Hprev.
  assert (entities_from specs (bt_insert String.compare (ent_name e) e m).2) as Hm'.
  { intros n' e' [[= -> ->]|Hin]%bt_insert_elem; [done|by apply Hm]. }
  destruct (bt_insert _ _ _ _) as [[p|] m'] eqn:Hins; cbn [fst snd] in *.
  2: { apply IH; [|done]. intros n' e' ?. apply (Hes n'). by right. }
  destruct (Hprev p eq_refl) as (k & Hin & Hk%String.compare_eq_iff). apply Hm in Hin as [-> Hp].
  rewrite decide_True by (by apply Hagree). apply IH; [|done]. intros n' e' ?. apply (Hes n'). by right.
Qed.

(** What a run has written so far: [kept] are the outputs that were applied. *)
Definition written (st : RunState) (kept : list GenerationOutput) : Prop :=
  rs_module st = module_header ++ each (λ o, ["pub mod " +:+ go_module_name o +:+ ";";
    "pub use " +:+ go_module_name o +:+ "::" +:+ go_struct_name o +:+ ";"; ""]) kept ∧
  rs_files st = (λ o, (go_file_name o, go_buffer o)) <$> kept.

Lemma apply_total specs o st kept :
  entities_agree specs → (∃ spec, spec ∈ specs ∧ generates spec o) →
  entities_from specs (rs_entities st) → written st kept →
  ∃ st', apply o st = Done st' ∧ entities_from specs (rs_entities st') ∧ written st' (kept ++ [o]).
Proof.
  intros Hagree (spec & Hin & Hgen) He [Hmod Hfiles]. unfold apply.
  destruct (replace_entities_total specs (go_entity_types o) (rs_entities st) Hagree) as (m' & -> & Hm');
    [intros n e Hne; by exists spec, o, n|done|].
  eexists. split; [reflexivity|]. split; [done|]. split; cbn [rs_module rs_files].
  - rewrite Hmod. unfold each. by rewrite fmap_app, concat_app, <- app_assoc.
  - by rewrite Hfiles, fmap_app.
Qed.

Lemma apply_all_total specs outputs st kept :
  entities_agree specs → (∀ k o, (k, o) ∈ outputs → ∃ spec, spec ∈ specs ∧ generates spec o) →
  entities_from specs (rs_entities st) → written st kept →
  ∃ st', apply_all outputs st = Done st' ∧ written st' (kept ++ outputs.*2).
Proof.
  intros Hagree. revert st kept. induction outputs as [|[k o] outputs IH]; intros st kept Hout He Hw; cbn [apply_all].
  { exists st. by rewrite app_nil_r. }
  destruct (apply_total specs o st kept) as (st1 & -> & He1 & Hw1); [done|apply (Hout k); left|done..|].
  destruct (IH st1 (kept ++ [o])) as (st' & Hst' & Hw'); [intros; apply (Hout k0); by right|done..|].
  exists st'. split; [done|]. by rewrite <- app_assoc in Hw'.
Qed.

(** ** All schemas *)

(** A schema that is neither a request nor a response of an API. *)
Definition plain (spec : Spec) : Prop := ∀ k, ~ declares spec SRequest k ∧ ~ declares spec SResponse k.

(** The outputs of the plain schemas. *)
Definition plain_outputs (specs : list Spec) (kept : list GenerationOutput) : Prop :=
  ∀ o, o ∈ kept ↔ ∃ spec, spec ∈ specs ∧ plain spec ∧ generates spec o.

Record run_ok (all specs : list Spec) (c : Collected) (st : RunState) (kept : list GenerationOutput) : Prop := {
  run_collected : collected_ok specs c;
  run_entities : entities_from all (rs_entities st);
  run_written : written st kept;
  run_kept : plain_outputs specs kept
}.

Lemma generate_none spec : generate fuel dir spec = Some None → sp_valid_versions spec = VNone.
Proof.
  unfold generate. destruct (sp_valid_versions spec); cbn [is_none]; [done|..];
    intros Hg; repeat (destruct (prepare_loop fuel spec [] []) as [[]|]; cbn in Hg; [|done]);
    by destruct (then_write _ _).
Qed.

Lemma plain_outputs_skip specs spec kept :
  plain_outputs specs kept → (∀ o, plain spec → ~ generates spec o) → plain_outputs (specs ++ [spec]) kept.
Proof.
  intros Hk Hno o. rewrite (Hk o). split; [intros (s & ? & ?); exists s; set_solver|].
  intros (s & [Hin|Hin]%elem_of_app & Hp & Hg); [by exists s|].
  apply list_elem_of_singleton in Hin as ->. by apply Hno in Hg.
Qed.

Lemma collect_total all specs spec c st kept :
  entities_agree all → spec ∈ all → is_Some (generate fuel dir spec) → run_ok all specs c st kept →
  ∃ c' st' kept', collect fuel dir (Some spec) (c, st) = Done (c', st') ∧
    run_ok all (specs ++ [spec]) c' st' kept'.
Proof.
  intros Hagree Hall [[o|] Hg] [[Hq Hr Hv] He Hw Hk]; unfold collect; rewrite Hg; cbn [unwrap mbind outcome_bind].
  2: { pose proof (generate_none _ Hg) as Hn. exists c, st, kept. split; [done|].
       assert (∀ t k, ~ declares spec t k) as Hno by (intros t k (_ & _ & ?); done).
       split; [split| | |]; [by apply map_ok_other..| |done|done|].
       - intros k Hin. apply versions_snoc. by apply Hv.
       - apply plain_outputs_skip; [done|]. intros o _ Ho. unfold generates in Ho. congruence. }
  destruct (generate_spec spec o Hg) as (Hname & Hvalid & Hb).
  assert (∀ t m, sp_type spec ≠ t ∨ sp_api_key spec = None → map_ok specs t m → map_ok (specs ++ [spec]) t m) as Hskip.
  { intros t m Hor. apply map_ok_other. intros k (Ht & Hkey & _). naive_solver congruence. }
  assert (∀ k, sp_type spec = SRequest ∨ sp_type spec = SResponse → sp_api_key spec = Some k →
    plain_outputs (specs ++ [spec]) kept) as Hnot.
  { intros k Ht Hkey. apply plain_outputs_skip; [done|]. intros o' Hp _. destruct (Hp k) as [H1 H2].
    destruct Ht; [by apply H1|by apply H2]. }
  assert (plain spec → ∃ st', apply o st = Done st' ∧ run_ok all (specs ++ [spec]) c st' (kept ++ [o])) as Hplain.
  { intros Hp. destruct (apply_total all o st kept) as (st' & Ha & He' & Hw'); [done|by exists spec|done..|].
    exists st'. split; [done|]. split; [split| done|done|].
    - apply map_ok_other; [|done]. intros k. by apply Hp.
    - apply map_ok_other; [|done]. intros k. by apply Hp.
    - intros k Hin. apply versions_snoc. by apply Hv.
    - intros o'. rewrite elem_of_app, (Hk o'), list_elem_of_singleton. split.
      + intros [(s & ? & ?)| ->]; [exists s|exists spec]; set_solver.
      + intros (s & [Hin|Hin]%elem_of_app & Hp' & Hg'); [left; by exists s|right].
        apply list_elem_of_singleton in Hin as ->. unfold generates in Hg'. congruence. }
  destruct (sp_type spec) eqn:Ht, (sp_api_key spec) as [k|] eqn:Hkey; cbn [mbind outcome_bind];
    try (destruct Hplain as (st' & -> & Hok);
      [intros k'; split; intros (? & ? & _); congruence|cbn [mbind outcome_bind]; by eauto]).
  - eexists _, st, kept. split; [done|]. split; [split|done|done|by apply (Hnot k); auto]; cbn [co_requests co_responses co_versions].
    + by apply map_ok_insert.
    + apply Hskip; [left; congruence|done].
    + intros k'. rewrite bt_insert_keys. intros Hk'. destruct (decide (k' = k)) as [->|Hne].
      * rewrite lookup_insert_eq. exists spec. split_and!; [set_solver|done..|]. apply Hb; eauto.
      * rewrite lookup_insert_ne by done. destruct Hk'; [done|]. apply versions_snoc. by apply Hv.
  - eexists _, st, kept. split; [done|]. split; [split|done|done|by apply (Hnot k); auto]; cbn [co_requests co_responses co_versions].
    + apply Hskip; [left; congruence|done].
    + by apply map_ok_insert.
    + intros k' Hin. apply versions_snoc. by apply Hv.
Qed.

Lemma collect_all_total all specs seen c st kept :
  entities_agree all → specs ⊆ all → Forall (λ spec, is_Some (generate fuel dir spec)) specs →
  run_ok all seen c st kept →
  ∃ c' st' kept', collect_all fuel dir (Some <$> specs) (c, st) = Done (c', st') ∧
    run_ok all (seen ++ specs) c' st' kept'.
Proof.
  intros Hagree. revert seen c st kept. induction specs as [|spec specs IH]; intros seen c st kept Hsub Hgen Hok;
    cbn [collect_all fmap list_fmap].
  { exists c, st, kept. by rewrite app_nil_r. }
  apply Forall_cons in Hgen as [Hg Hgen].
  destruct (collect_total all seen spec c st kept) as (c1 & st1 & kept1 & -> & Hok1); [done|set_solver|done..|].
  cbn [mbind outcome_bind]. destruct (IH (seen ++ [spec]) c1 st1 kept1) as (c' & st' & kept' & Hc & Hok');
    [set_solver|done..|]. exists c', st', kept'. split; [done|]. by rewrite <- app_assoc in Hok'.
Qed.

Lemma run_ok_empty all : run_ok all [] (mkCollected [] [] ∅) (mkRunState module_header [] []) [].
Proof.
  assert (∀ t, map_ok [] t []) as Hm.
  { intros t. split_and!; [constructor| |set_solver]. intros k. set_solver. }
  split; [split; [apply Hm..|by intros k ?%elem_of_nil]|by intros n e ?%elem_of_nil| |].
  - split; [by rewrite app_nil_r|done].
  - intros o. set_solver.
Qed.

(** ** What the module file contains *)

(** An API: its key, its name and its versions. *)
Record Api : Type := mkApi { api_code : Z; api_name : string; api_min : Z; api_max : Z }.

Definition api_request (a : Api) : string := api_name a +:+ "Request".
Definition api_response (a : Api) : string := api_name a +:+ "Response".

(** The schemas have this API. *)
Definition has_api (specs : list Spec) (a : Api) : Prop :=
  ∃ q r, q ∈ specs ∧ declares q SRequest (api_code a) ∧ sp_name q = api_request a ∧
    range (sp_valid_versions q) = Some (api_min a, api_max a) ∧
    r ∈ specs ∧ declares r SResponse (api_code a) ∧ sp_name r = api_response a.

(** Requests and responses of one key are named after one API, with a plain name. *)
Definition named_alike (specs : list Spec) : Prop :=
  ∀ k q r, q ∈ specs → declares q SRequest k → r ∈ specs → declares r SResponse k →
    ∃ x, sp_name q = x +:+ "Request" ∧ sp_name r = x +:+ "Response" ∧
      occurs "Request" x = false ∧ occurs "Response" x = false.

Definition contains (file block : lines) : Prop := ∃ before after, file = before ++ block ++ after.

(** An arm of a match. *)
Definition arm (indent pattern result : string) : string := indent +:+ pattern +:+ " => " +:+ result +:+ ",".

(** The matches and declarations that have one entry per API. *)
Definition file_blocks (apis : list Api) : list lines :=
  let wide := "            " in
  let key a := "ApiKey::" +:+ api_name a in
  [ ["pub enum ApiKey {"]
      ++ each (λ a, ["    /// API key for request " +:+ api_request a;
           "    " +:+ api_name a +:+ " = " +:+ pretty (api_code a) +:+ ","]) apis
      ++ ["}"];
    ["    pub fn request_header_version(&self, version: i16) -> i16 {"; "        match self {"]
      ++ ((λ a, arm wide (key a) (api_request a +:+ "::header_version(version)")) <$> apis)
      ++ ["        }"; "    }"];
    ["    pub fn response_header_version(&self, version: i16) -> i16 {"; "        match self {"]
      ++ ((λ a, arm wide (key a) (api_response a +:+ "::header_version(version)")) <$> apis)
      ++ ["        }"; "    }"];
    ["    pub fn valid_versions(&self) -> VersionRange {"; "        match self {"]
      ++ ((λ a, arm "" (key a) ("VersionRange { min: " +:+ pretty (api_min a) +:+ ", max: "
           +:+ pretty (api_max a) +:+ " }")) <$> apis)
      ++ ["        }"; "    }"];
    ["    fn try_from(v: i16) -> Result<Self, Self::Error> {"; "        match v {"]
      ++ ((λ a, arm wide ("x if x == " +:+ key a +:+ " as i16") ("Ok(" +:+ key a +:+ ")")) <$> apis)
      ++ [arm wide "_" "Err(())"; "        }"; "    }"];
    ["pub enum RequestKind {"]
      ++ each (λ a, ["    /// " +:+ api_request a +:+ ",";
           "    " +:+ api_name a +:+ "(" +:+ api_request a +:+ "),"]) apis
      ++ ["}"];
    ["pub fn decode(api_key: ApiKey, bytes: &mut bytes::Bytes, version: i16) -> anyhow::Result<RequestKind> {";
     "match api_key {"]
      ++ ((λ a, arm "" (key a) ("Ok(RequestKind::" +:+ api_name a +:+ "(decode(bytes, version)?))")) <$> apis)
      ++ ["}"; "}"];
    ["pub enum ResponseKind {"]
      ++ each (λ a, ["    /// " +:+ api_response a +:+ ",";
           "    " +:+ api_name a +:+ "(" +:+ api_response a +:+ "),"]) apis
      ++ ["}"];
    ["pub fn encode(&self, bytes: &mut bytes::BytesMut, version: i16) -> anyhow::Result<()> {"; "match self {"]
      ++ ((λ a, arm "" ("ResponseKind::" +:+ api_name a +:+ "(x)") "encode(x, bytes, version)") <$> apis)
      ++ ["}"; "}"];
    ["pub fn decode(api_key: ApiKey, bytes: &mut bytes::Bytes, version: i16) -> anyhow::Result<ResponseKind> {";
     "match api_key {"]
      ++ ((λ a, arm "" (key a) ("Ok(ResponseKind::" +:+ api_name a +:+ "(decode(bytes, version)?))")) <$> apis)
      ++ ["}"; "}"] ].

(** The items of one API. *)
Definition api_items (a : Api) : list lines :=
  [ ["impl Request for " +:+ api_request a +:+ " {";
     "    const KEY: i16 = " +:+ pretty (api_code a) +:+ ";";
     "    type Response = " +:+ api_response a +:+ ";";
     "}"];
    ["impl From<" +:+ api_request a +:+ "> for RequestKind {";
     "    fn from(value: " +:+ api_request a +:+ ") -> RequestKind {";
     "        RequestKind::" +:+ api_name a +:+ "(value)";
     "    }"; "}"];
    ["impl From<" +:+ api_response a +:+ "> for ResponseKind {";
     "    fn from(value: " +:+ api_response a +:+ ") -> ResponseKind {";
     "        ResponseKind::" +:+ api_name a +:+ "(value)";
     "    }"; "}"] ].

Lemma contains_here block after : contains (block ++ after) block.
Proof. by exists [], after. Qed.
Lemma contains_refl block : contains block block.
Proof. exists [], []. by rewrite app_nil_r. Qed.
Lemma contains_app_l l k block : contains l block → contains (l ++ k) block.
Proof. intros (b & a & ->). exists b, (a ++ k). by rewrite <- !app_assoc. Qed.
Lemma contains_app_r l k block : contains k block → contains (l ++ k) block.
Proof. intros (b & a & ->). exists (l ++ b), a. by rewrite <- !app_assoc. Qed.
Lemma contains_cons x k block : contains k block → contains (x :: k) block.
Proof. apply (contains_app_r [x]). Qed.
Lemma contains_each {A : Type} (f : A → lines) l x block : x ∈ l → contains (f x) block → contains (each f l) block.
Proof.
  intros (l1 & l2 & ->)%list_elem_of_split Hc. unfold each. rewrite fmap_app, concat_app.
  by apply contains_app_r, contains_app_l.
Qed.

(** ** The lists the file is written from *)

Lemma each_singleton {A : Type} (f : A → string) l : each (λ x, [f x]) l = f <$> l.
Proof. unfold each. induction l as [|x l IH]; [done|]. cbn. by f_equal. Qed.

Lemma each_fmap {A B : Type} (f : B → lines) (g : A → B) l : each f (g <$> l) = each (λ x, f (g x)) l.
Proof. unfold each. by rewrite <- list_fmap_compose. Qed.

Lemma each_ext {A : Type} (f g : A → lines) l : Forall (λ x, f x = g x) l → each f l = each g l.
Proof. unfold each. induction 1 as [|x l Hx _ IH]; [done|]. cbn. by rewrite Hx, IH. Qed.

Definition capital_r : Ascii.ascii := Ascii.ascii_of_nat 82.

(** The names of the variants are the name of the API. *)
Definition named (a : Api) : Prop :=
  request_key (api_request a) = api_name a ∧ request_variant (api_request a) = api_name a ∧
  response_key (api_response a) = api_name a ∧ response_variant (api_response a) = api_name a.

Lemma plain_named a :
  occurs "Request" (api_name a) = false → occurs "Response" (api_name a) = false → named a.
Proof.
  intros H1 H2. split_and!; [by apply (erase_suffix capital_r "equest")|by apply (trim_suffix capital_r "equest")
    |by apply (erase_suffix capital_r "esponse")|by apply (trim_suffix capital_r "esponse")].
Qed.

Definition requests_of (apis : list Api) : list (Z * string) := (λ a, (api_code a, api_request a)) <$> apis.
Definition responses_of (apis : list Api) : list (Z * string) := (λ a, (api_code a, api_response a)) <$> apis.

Lemma valid_arms_written versions apis :
  Forall (λ a, ∃ vs, versions !! api_code a = Some vs ∧ range vs = Some (api_min a, api_max a)) apis →
  valid_version_arms versions (requests_of apis) = Done ((λ a, "ApiKey::" +:+ request_key (api_request a)
    +:+ " => VersionRange { min: " +:+ pretty (api_min a) +:+ ", max: " +:+ pretty (api_max a) +:+ " },") <$> apis).
Proof.
  induction 1 as [|a apis (vs & Hvs & Hr) _ IH]; [done|]. cbn [requests_of fmap list_fmap valid_version_arms].
  rewrite Hvs. cbn [unwrap mbind outcome_bind]. rewrite Hr. cbn [unwrap mbind outcome_bind].
  unfold requests_of in IH. by rewrite IH.
Qed.

Lemma request_impls_written apis apis' :
  NoDup (api_code <$> apis') → apis ⊆ apis' →
  request_impls (requests_of apis) (responses_of apis') = Done (each (λ a,
    [cfg_both; "impl Request for " +:+ api_request a +:+ " {"; "    const KEY: i16 = " +:+ pretty (api_code a) +:+ ";";
     "    type Response = " +:+ api_response a +:+ ";"; "}"; ""]) apis).
Proof.
  intros Hnd. induction apis as [|a apis IH]; intros Hsub; [done|].
  cbn [requests_of fmap list_fmap request_impls].
  assert (∃ i, list_find (λ kr, kr.1 = api_code a) (responses_of apis') = Some (i, (api_code a, api_response a))) as [i Hf].
  { assert (a ∈ apis') as Ha by (apply Hsub; left). clear -Hnd Ha. induction apis' as [|b apis' IH]; [by apply elem_of_nil in Ha|].
    cbn [fmap list_fmap] in Hnd. apply NoDup_cons in Hnd as [Hb Hnd]. cbn [responses_of fmap list_fmap list_find fst].
    case_decide as Heq.
    - apply elem_of_cons in Ha as [->|Ha]; [by exists 0%nat|]. destruct Hb. rewrite Heq. by apply list_elem_of_fmap_2.
    - apply elem_of_cons in Ha as [->|Ha]; [done|]. destruct (IH Hnd Ha) as [i Hi]. unfold responses_of in Hi.
      rewrite Hi. by exists (S i). }
  rewrite Hf. cbn [unwrap mbind outcome_bind fst snd]. unfold requests_of in IH.
  rewrite IH by (intros x ?; apply Hsub; by right). done.
Qed.

Lemma max_key_written apis : apis ≠ [] → is_Some (max_key (requests_of apis)).
Proof. destruct apis; [done|]. by eexists. Qed.

(** Texts that differ in the grouping of their parts, with the names of an API. *)
Ltac same_text :=
  match goal with H : Forall named ?apis |- Forall _ ?apis =>
    eapply Forall_impl; [exact H|]; let a := fresh "a" in intros a (Hsame1 & Hsame2 & Hsame3 & Hsame4); cbn [fst snd];
    rewrite ?Hsame1, ?Hsame2, ?Hsame3, ?Hsame4; unfold arm, api_request, api_response;
    rewrite ?text_app_assoc; reflexivity end.

(** A block of a longer text, the entries of which are those of the block. *)
Ltac block_here := exists []; eexists; cbn [app]; rewrite <- ?app_assoc; cbn [app]; reflexivity.
Ltac find_block := cbn [app]; first [block_here|apply contains_cons; find_block|apply contains_app_r; find_block].
Ltac written_block apis :=
  rewrite ?each_fmap; rewrite <- ?each_singleton;
  match goal with |- contains _ ?B => match B with context [each ?g apis] =>
    match goal with |- contains ?L _ => match L with context [each ?f apis] =>
      rewrite (each_ext f g apis) by same_text; find_block end end end end.

Lemma module_body_written versions apis :
  apis ≠ [] → NoDup (api_code <$> apis) → Forall named apis →
  Forall (λ a, ∃ vs, versions !! api_code a = Some vs ∧ range vs = Some (api_min a, api_max a)) apis →
  ∃ body, module_body versions (requests_of apis) (responses_of apis) = Done body ∧
    Forall (contains body) (file_blocks apis) ∧ Forall (λ a, Forall (contains body) (api_items a)) apis.
Proof.
  intros Hne Hnd Hnamed Hv. unfold module_body, api_key_valid_versions, api_key_iter.
  rewrite (request_impls_written apis apis Hnd) by done. cbn [mbind outcome_bind].
  rewrite (valid_arms_written versions apis Hv). cbn [mbind outcome_bind].
  destruct (max_key_written apis Hne) as [max ->]. cbn [unwrap mbind outcome_bind].
  eexists. split; [reflexivity|]. split.
  - unfold file_blocks. repeat (apply Forall_cons; split); [..|by apply Forall_nil].
    + apply contains_app_r, contains_app_l. unfold api_key_enum, requests_of. written_block apis.
    + do 2 apply contains_app_r. apply contains_app_l. unfold request_header_version, requests_of. written_block apis.
    + do 3 apply contains_app_r. apply contains_app_l. unfold response_header_version, responses_of. written_block apis.
    + do 4 apply contains_app_r. apply contains_app_l. written_block apis.
    + do 6 apply contains_app_r. apply contains_app_l. unfold api_key_try_from, requests_of. written_block apis.
    + do 7 apply contains_app_r. apply contains_app_l. unfold request_kind_enum, requests_of. written_block apis.
    + do 8 apply contains_app_r. apply contains_app_l. unfold request_kind_impl, requests_of. written_block apis.
    + do 11 apply contains_app_r. apply contains_app_l. unfold response_kind_enum, responses_of. written_block apis.
    + do 12 apply contains_app_r. apply contains_app_l. unfold response_kind_impl, responses_of. written_block apis.
    + do 12 apply contains_app_r. apply contains_app_l. unfold response_kind_impl, responses_of. written_block apis.
  - apply Forall_forall. intros a Ha. rewrite Forall_forall in Hnamed. destruct (Hnamed a Ha) as (_ & Hv1 & _ & Hv2).
    repeat (apply Forall_cons; split); [..|by apply Forall_nil].
    + apply contains_app_l. apply (contains_each _ _ a); [done|]. find_block.
    + do 9 apply contains_app_r. apply contains_app_l. unfold requests_of. rewrite each_fmap.
      apply (contains_each _ _ a); [done|]. unfold request_from. cbn [snd]. rewrite Hv1. find_block.
    + do 13 apply contains_app_r. unfold responses_of. rewrite each_fmap.
      apply (contains_each _ _ a); [done|]. unfold response_from. cbn [snd]. rewrite Hv2. find_block.
Qed.
Lemma text_app_inj_r (s : string) : Inj (=) (=) (λ x : string, x +:+ s).
Proof. intros x y Heq. apply (f_equal bytes_of) in Heq. rewrite !string_bytes_app in Heq. by apply app_inv_tail, (inj bytes_of) in Heq. Qed.

(** The APIs of a list of outputs with the same keys. *)
Lemma apis_of specs (versions : gmap Z VersionSpec) (qs rs : output_map) :
  named_alike specs → qs.*1 = rs.*1 →
  (∀ k o, (k, o) ∈ qs → ∃ spec, spec ∈ specs ∧ declares spec SRequest k ∧ generates spec o) →
  (∀ k o, (k, o) ∈ rs → ∃ spec, spec ∈ specs ∧ declares spec SResponse k ∧ generates spec o) →
  (∀ k, k ∈ qs.*1 → ∃ spec, spec ∈ specs ∧ declares spec SRequest k ∧
    versions !! k = Some (sp_valid_versions spec) ∧ is_Some (range (sp_valid_versions spec))) →
  ∃ apis, strip_outputs qs = requests_of apis ∧ strip_outputs rs = responses_of apis ∧
    Forall named apis ∧ Forall (has_api specs) apis ∧
    Forall (λ a, ∃ vs, versions !! api_code a = Some vs ∧ range vs = Some (api_min a, api_max a)) apis.
Proof.
  intros Hnamed. revert rs. induction qs as [|[k q] qs IH]; intros [|[k' r] rs] Heq Hq Hr Hv; try done.
  { by exists []. }
  injection Heq as <- Heq. destruct (IH rs Heq) as (apis & H1 & H2 & H3 & H4 & H5);
    [intros; apply Hq; by right|intros; apply Hr; by right|intros; apply Hv; by right|].
  destruct (Hq k q) as (specq & Hsq & Hdq & [Hnq _]%generate_spec); [left|].
  destruct (Hr k r) as (specr & Hsr & Hdr & [Hnr _]%generate_spec); [left|].
  destruct (Hv k) as (specv & Hsv & Hdv & Hvs & [[lo hi] Hrange]); [left|].
  destruct (Hnamed k specq specr) as (x & Hx & Hxr & Hp & Hp'); [done..|].
  destruct (Hnamed k specv specr) as (x' & Hx' & Hxr' & _); [done..|].
  assert (x' = x) as -> by (apply (text_app_inj_r "Response"); congruence).
  exists (mkApi k x lo hi :: apis). unfold strip_outputs, requests_of, responses_of in *.
  cbn [fmap list_fmap fst snd]. rewrite H1, H2, Hnq, Hnr, Hx, Hxr. split_and!; [done|done|..]; constructor; try done.
  - by apply plain_named.
  - by exists specv, specr.
  - by exists (sp_valid_versions specv).
Qed.

(** The file of a message of this name is written, and declared as a module. *)
Definition file_written (specs : list Spec) (file : lines) (files : list (string * list out)) (name : string) : Prop :=
  ∃ spec o, spec ∈ specs ∧ sp_name spec = name ∧ generates spec o ∧
    (go_file_name o, go_buffer o) ∈ files ∧
    contains file ["pub mod " +:+ go_module_name o +:+ ";"; "pub use " +:+ go_module_name o +:+ "::" +:+ name +:+ ";"].

Lemma kept_written specs st kept o spec rest :
  written st kept → o ∈ kept → spec ∈ specs → generates spec o →
  file_written specs (rs_module st ++ rest) (rs_files st) (sp_name spec).
Proof.
  intros [Hmod Hfiles] Ho Hs Hg. exists spec, o. split_and!; [done..| |].
  - rewrite Hfiles. by apply (list_elem_of_fmap_2 (λ o, (go_file_name o, go_buffer o))).
  - rewrite Hmod. apply contains_app_l, contains_app_r. apply (contains_each _ _ o); [done|].
    destruct (generate_spec spec o Hg) as [<- _]. find_block.
Qed.

(** The outputs behind the names. *)
Lemma named_outputs (f : Api → string) apis (outputs : output_map) :
  strip_outputs outputs = (λ a, (api_code a, f a)) <$> apis →
  (∀ a, a ∈ apis → ∃ k o, (k, o) ∈ outputs ∧ go_struct_name o = f a) ∧
  (∀ k o, (k, o) ∈ outputs → ∃ a, a ∈ apis ∧ go_struct_name o = f a).
Proof.
  intros Hstrip. split.
  - intros a Ha. apply (list_elem_of_fmap_2 (λ a, (api_code a, f a))) in Ha. rewrite <- Hstrip in Ha.
    apply list_elem_of_fmap in Ha as ([k o] & [= _ Hn] & Hin). by exists k, o.
  - intros k o Hin. apply (list_elem_of_fmap_2 (λ ko, (ko.1, go_struct_name ko.2))) in Hin.
    change (_ <$> outputs) with (strip_outputs outputs) in Hin. rewrite Hstrip in Hin.
    apply list_elem_of_fmap in Hin as (a & [= _ Hn] & Ha). by exists a.
Qed.

(** The stages of a run. *)
Lemma run_stages specs :
  Forall (λ spec, is_Some (generate fuel dir spec)) specs → entities_agree specs → named_alike specs →
  (∃ k q r, q ∈ specs ∧ declares q SRequest k ∧ r ∈ specs ∧ declares r SResponse k) →
  ∃ kept qs rs apis st body,
    run fuel dir (Some <$> specs) =
      Done (rs_module st ++ body ++ each (λ ne, entity_lines ne.2) (rs_entities st), rs_files st) ∧
    (written st (kept ++ (qs ++ rs).*2) ∧ plain_outputs specs kept ∧
     ∀ k o, (k, o) ∈ qs ++ rs → ∃ spec, spec ∈ specs ∧ generates spec o) ∧
    strip_outputs qs = requests_of apis ∧ strip_outputs rs = responses_of apis ∧
    StronglySorted Z.lt (api_code <$> apis) ∧
    (∀ k, k ∈ api_code <$> apis ↔
      (∃ q, q ∈ specs ∧ declares q SRequest k) ∧ ∃ r, r ∈ specs ∧ declares r SResponse k) ∧
    Forall (has_api specs) apis ∧
    Forall (contains body) (file_blocks apis) ∧ Forall (λ a, Forall (contains body) (api_items a)) apis.
Proof.
  intros Hgen Hagree Hnamed (k0 & q0 & r0 & Hq0 & Hdq0 & Hr0 & Hdr0).
  destruct (collect_all_total specs specs [] (mkCollected [] [] ∅) (mkRunState module_header [] []) [] Hagree)
    as (c & st & kept & Hc & [[Hq Hr Hv] He Hw Hk]); [done|done|apply run_ok_empty|]. cbn [app] in *.
  destruct Hq as (Hsq & Hkq & Hmq), Hr as (Hsr & Hkr & Hmr).
  pose proof (pair_up_keys _ _ Hsq Hsr) as Hpair.
  destruct (pair_up (co_requests c) (co_responses c)) as [qs rs] eqn:Hp. destruct Hpair as (Hs & Heq & Hkeys).
  assert (qs ⊆ co_requests c ∧ rs ⊆ co_responses c) as [Hsub Hsub'].
  { injection Hp as <- <-. split; intros x [_ Hx]%list_elem_of_filter; done. }
  destruct (apis_of specs (co_versions c) qs rs Hnamed Heq) as (apis & Haq & Har & Hplain & Hhas & Hvers);
    [intros; by apply Hmq, Hsub|intros; by apply Hmr, Hsub'|intros k Hkq'; apply Hv; by apply Hkeys|].
  assert (api_code <$> apis = qs.*1) as Hcodes.
  { trans (strip_outputs qs).*1; [rewrite Haq|]; unfold requests_of, strip_outputs; by rewrite <- list_fmap_compose. }
  assert (∀ k o, (k, o) ∈ qs ++ rs → ∃ spec, spec ∈ specs ∧ generates spec o) as Hgens.
  { intros k o [Hin|Hin]%elem_of_app; [destruct (Hmq k o (Hsub _ Hin)) as (s & ? & _ & ?)
      |destruct (Hmr k o (Hsub' _ Hin)) as (s & ? & _ & ?)]; by exists s. }
  destruct (apply_all_total specs (qs ++ rs) st kept) as (st' & Ha & Hw'); [done..|].
  destruct (module_body_written (co_versions c) apis) as (body & Hbody & Hblocks & Hitems); [|rewrite Hcodes|done..|].
  { intros ->. assert (k0 ∈ qs.*1) as Hk0 by (apply Hkeys; rewrite Hkq, Hkr; split; eauto).
    rewrite <- Hcodes in Hk0. by apply elem_of_nil in Hk0. }
  { by apply ascending_NoDup. }
  exists kept, qs, rs, apis, st', body. rewrite Hcodes. split_and!; try done.
  - unfold run. rewrite Hc. cbn [mbind outcome_bind]. rewrite Hp, Ha. cbn [mbind outcome_bind]. by rewrite Haq, Har, Hbody.
  - intros k. by rewrite Hkeys, Hkq, Hkr.
Qed.

End collected.

(** A request with its response, and a request that has none. *)
Definition plain_names : Inflector := {| to_snake_case := λ s, s; to_pascal_case := λ s, s |}.
Definition sample_field : FieldSpec :=
  mkFieldSpec "group" (TPrimitive PString) (Since 0) None VNone VNone None false (Some "GroupId") ""
    [] None.
Definition sample_specs : list Spec :=
  [mkSpec (Some 12) VNone SRequest "HeartbeatRequest" (Range 0 4) (Since 4) [sample_field] [];
   mkSpec (Some 12) VNone SResponse "HeartbeatResponse" (Range 0 4) (Since 4) [] [];
   mkSpec (Some 13) VNone SRequest "LeaveGroupRequest" (Range 0 5) (Since 4) [] []].

Lemma sample_brings e : brings (H := plain_names) 8 "out" sample_specs e → ent_name e = "GroupId" ∧ ent_inner e = PString.
Proof.
  intros (spec & o & n & Hs & Hg & Hin). unfold generates in Hg.
  repeat (apply elem_of_cons in Hs as [->|Hs]); [..|by apply elem_of_nil in Hs];
    vm_compute in Hg; injection Hg as <-; cbn [go_entity_types] in Hin; [|by apply elem_of_nil in Hin..].
  apply list_elem_of_singleton in Hin as [= -> ->]. done.
Qed.

Definition heartbeat_request : Spec :=
  mkSpec (Some 12) VNone SRequest "HeartbeatRequest" (Range 0 4) (Since 4) [sample_field] [].
Definition heartbeat_response : Spec :=
  mkSpec (Some 12) VNone SResponse "HeartbeatResponse" (Range 0 4) (Since 4) [] [].

End CodegenMessages.
