(* ===== verification/SchemaRegistry.v ===== *)
(** * The schema registry

    [src/src/schema_registry.rs]: schemas are stored once, under an identifier
    that is global; every subject has the list of its schemas, numbered from 1.
    The handlers behind the HTTP routes are functions of the request and the
    store; the routes are told apart by [Request], after the path and the body
    have been extracted by the web framework.

    Parameters: the parser of Avro schemas, the rejection of a body that is not
    a JSON request with its text, and the JSON values in a list of references.

    - [register] panics ([None]) when identifiers or versions run out of [i32]s;
      the handlers panic on the branches the source marks unreachable. *)

From S2P Require Import Prelude Text.
From stdpp Require Import pretty.
Open Scope Z_scope.

Module SchemaRegistry.
Import Text.

(** ** The store *)

(* @ src/src/schema_registry.rs 19-25 RegisteredSchema *)
Record RegisteredSchema : Type := mkRegisteredSchema {
  rs_subject : string;
  rs_version : Z;
  rs_id : Z;
  rs_schema : string
}.

(* @ src/src/schema_registry.rs 32-38 RegistryStore *)
Record RegistryStore : Type := mkRegistryStore {
  next_schema_id : Z;
  schemas_by_text : gmap string Z;
  schemas_by_id : gmap Z string;
  subjects : gmap string (list RegisteredSchema)
}.

(* @ src/src/schema_registry.rs 40-49 RegistryStore::default *)
Definition RegistryStore_default : RegistryStore := mkRegistryStore 1 ∅ ∅ ∅.

(* @ src/src/schema_registry.rs 185-190 RegistryError *)
Inductive RegistryError : Type := SubjectNotFound | VersionNotFound | SchemaNotFound.

#[global] Instance RegistryError_eq_dec : EqDecision RegistryError.
Proof. solve_decision. Defined.

(** [iter().find] of a version by its text, and by its number. *)
Definition find_schema (schema : string) (versions : list RegisteredSchema) : option RegisteredSchema :=
  List.find (λ version, bool_decide (rs_schema version = schema)) versions.
Definition find_version (number : Z) (versions : list RegisteredSchema) : option RegisteredSchema :=
  List.find (λ registered, bool_decide (rs_version registered = number)) versions.

(** The identifier of a text, a new one when the text is new. *)
(* @ src/src/schema_registry.rs 74-86 Registry::register *)
Definition schema_id (store : RegistryStore) (schema : string) : option (Z * RegistryStore) :=
  match schemas_by_text store !! schema with
  | Some id => Some (id, store)
  | None =>
      let id := next_schema_id store in
      let! next := checked_add i32_max (next_schema_id store) 1 in
      Some (id, mkRegistryStore next (<[schema := id]> (schemas_by_text store))
        (<[id := schema]> (schemas_by_id store)) (subjects store))
  end.

(* @ src/src/schema_registry.rs 64-98 Registry::register *)
Definition register (store : RegistryStore) (subject schema : string) :
    option (RegisteredSchema * RegistryStore) :=
  match versions ← subjects store !! subject; find_schema schema versions with
  | Some existing => Some (existing, store)
  | None =>
      let! (id, store) := schema_id store schema in
      let versions := default [] (subjects store !! subject) in
      let! version := try_i32 (len versions + 1) in
      let registered := mkRegisteredSchema subject version id schema in
      Some (registered, mkRegistryStore (next_schema_id store) (schemas_by_text store) (schemas_by_id store)
        (<[subject := versions ++ [registered]]> (subjects store)))
  end.

Definition subject_le (a b : string * list RegisteredSchema) : Prop := String.le a.1 b.1.

#[global] Instance subject_le_dec : RelDecision subject_le.
Proof. intros a b. unfold subject_le. apply _. Defined.

(** The [BTreeMap] in the order of its keys. *)
Definition subject_entries (store : RegistryStore) : list (string * list RegisteredSchema) :=
  merge_sort subject_le (map_to_list (subjects store)).

(* @ src/src/schema_registry.rs 100-102 Registry::subjects *)
Definition subject_names (store : RegistryStore) : list string := (subject_entries store).*1.

(* @ src/src/schema_registry.rs 104-112 Registry::versions *)
Definition versions (store : RegistryStore) (subject : string) : result RegistryError (list Z) :=
  ok_or ((λ versions : list RegisteredSchema, rs_version <$> versions) <$> subjects store !! subject) SubjectNotFound.

(* @ src/src/schema_registry.rs 114-128 Registry::lookup *)
Definition lookup_schema_text (store : RegistryStore) (subject schema : string) :
    result RegistryError RegisteredSchema :=
  versions ← ok_or (subjects store !! subject) SubjectNotFound;
  ok_or (find_schema schema versions) SchemaNotFound.

(* @ src/src/schema_registry.rs 130-144 Registry::version *)
Definition version (store : RegistryStore) (subject : string) (number : Z) :
    result RegistryError RegisteredSchema :=
  versions ← ok_or (subjects store !! subject) SubjectNotFound;
  ok_or (find_version number versions) VersionNotFound.

(* @ src/src/schema_registry.rs 146-156 Registry::latest *)
Definition latest (store : RegistryStore) (subject : string) : result RegistryError RegisteredSchema :=
  versions ← ok_or (subjects store !! subject) SubjectNotFound;
  ok_or (last versions) SubjectNotFound.

(* @ src/src/schema_registry.rs 158-166 Registry::schema_by_id *)
Definition schema_by_id (store : RegistryStore) (id : Z) : result RegistryError string :=
  ok_or (schemas_by_id store !! id) SchemaNotFound.

(* @ src/src/schema_registry.rs 168-182 Registry::schema_versions_by_id *)
Definition schema_versions_by_id (store : RegistryStore) (id : Z) :
    result RegistryError (list RegisteredSchema) :=
  match schemas_by_id store !! id with
  | None => Err SchemaNotFound
  | Some _ => Ok (concat ((λ e, filter (λ schema, rs_id schema = id) e.2) <$> subject_entries store))
  end.

(** ** HTTP *)

(* @ src/src/schema_registry.rs 308-313 HttpError *)
Record HttpError : Type := mkHttpError { status : Z; error_code : Z; message : string }.

(* @ src/src/schema_registry.rs 317-323 HttpError::subject_not_found *)
Definition subject_not_found (subject : string) : HttpError :=
  mkHttpError 404 40401 ("Subject '" +:+ subject +:+ "' not found").
(* @ src/src/schema_registry.rs 325-331 HttpError::version_not_found *)
Definition version_not_found (number : Z) : HttpError :=
  mkHttpError 404 40402 ("Version " +:+ pretty number +:+ " not found").
(* @ src/src/schema_registry.rs 333-339 HttpError::schema_not_found *)
Definition schema_not_found (description : string) : HttpError := mkHttpError 404 40403 description.
(* @ src/src/schema_registry.rs 341-347 HttpError::invalid_schema *)
Definition invalid_schema (text : string) : HttpError := mkHttpError 422 42201 text.
(* @ src/src/schema_registry.rs 349-355 HttpError::invalid_version *)
Definition invalid_version (number : string) : HttpError :=
  mkHttpError 422 42202 ("Invalid version '" +:+ number +:+ "'").

(** The JSON bodies of answers. *)
(* @ src/src/schema_registry.rs 257-306 RegisterResponse, RegisteredSchemaResponse, SchemaResponse, SubjectVersionResponse, ConfigResponse, ErrorEnvelope *)
Inductive Body : Type :=
| SubjectsBody (names : list string)
| VersionsBody (numbers : list Z)
| RegisterBody (id : Z)
| RegisteredBody (subject : string) (version id : Z) (schema schema_type : string)
| SchemaBody (schema schema_type : string)
| SubjectVersionsBody (entries : list (string * Z))
| ConfigBody (compatibility_level : string)
| ErrorBody (error_code : Z) (message : string).

Record Response : Type := mkResponse {
  res_status : Z;
  res_content_type : option string;
  res_body : Body
}.

(** [Json(body)] as a response, and [HttpError::into_response]. *)
(* @ src/src/schema_registry.rs 358-369 HttpError::into_response *)
Definition into_response (r : result HttpError Body) : Response :=
  match r with
  | Ok body => mkResponse 200 (Some "application/json") body
  | Err e => mkResponse (status e) (Some "application/json") (ErrorBody (error_code e) (message e))
  end.

(* @ src/src/schema_registry.rs 212-224 use_schema_registry_content_type *)
Definition use_schema_registry_content_type (response : Response) : Response :=
  if bool_decide (res_content_type response = Some "application/json")
  then mkResponse (res_status response) (Some "application/vnd.schemaregistry.v1+json") (res_body response)
  else response.

(* @ src/src/schema_registry.rs 272-282 RegisteredSchemaResponse::from *)
Definition registered_body (r : RegisteredSchema) : Body :=
  RegisteredBody (rs_subject r) (rs_version r) (rs_id r) (rs_schema r) "AVRO".

Section http.
  Context {Value Rejection : Type} (parse_str : string → bool) (body_text : Rejection → string).

(* @ src/src/schema_registry.rs 226-233 SchemaRequest *)
Record SchemaRequest : Type := mkSchemaRequest {
  sr_schema : string;
  sr_schema_type : option string;
  sr_references : list Value
}.

(* @ src/src/schema_registry.rs 235-254 SchemaRequest::validate *)
Definition validate (self : SchemaRequest) : result HttpError string :=
  if decide (trim (sr_schema self) = "") then Err (invalid_schema "Schema must not be empty")
  else match sr_schema_type self with
  | Some schema_type =>
      if decide (schema_type ≠ "AVRO")
      then Err (invalid_schema ("Unsupported schema type '" +:+ schema_type +:+ "'"))
      else Ok ()
  | None => Ok ()
  end ≫= λ _,
  if negb (bool_decide (length (sr_references self) = 0)%nat)
  then Err (invalid_schema "Schema references are not supported")
  else if negb (parse_str (sr_schema self)) then Err (invalid_schema "Invalid Avro schema")
  else Ok (sr_schema self).

(** The body of a request, extracted and validated. *)
Definition validated (request : result Rejection SchemaRequest) : result HttpError string :=
  request ← map_err (λ error, invalid_schema (body_text error)) request; validate request.

(* @ src/src/schema_registry.rs 371-373 list_subjects *)
Definition list_subjects (store : RegistryStore) : Body := SubjectsBody (subject_names store).

(* @ src/src/schema_registry.rs 375-386 register_schema *)
Definition register_schema (store : RegistryStore) (subject : string)
    (request : result Rejection SchemaRequest) : option (result HttpError Body * RegistryStore) :=
  match validated request with
  | Err e => Some (Err e, store)
  | Ok schema =>
      let! (registered, store) := register store subject schema in
      Some (Ok (RegisterBody (rs_id registered)), store)
  end.

(* @ src/src/schema_registry.rs 388-409 lookup_schema *)
Definition lookup_schema (store : RegistryStore) (subject : string)
    (request : result Rejection SchemaRequest) : outcome HttpError Body :=
  let? schema := Some (validated request) in
  match lookup_schema_text store subject schema with
  | Ok r => value_of (registered_body r)
  | Err SubjectNotFound => raise (subject_not_found subject)
  | Err SchemaNotFound => raise (schema_not_found ("Schema not found under subject '" +:+ subject +:+ "'"))
  | Err VersionNotFound => None
  end.

(* @ src/src/schema_registry.rs 411-420 list_versions *)
Definition list_versions (store : RegistryStore) (subject : string) : result HttpError Body :=
  VersionsBody <$> map_err (λ _, subject_not_found subject) (versions store subject).

(** [parse::<i32>().ok().filter(|n| *n > 0)]. *)
Definition parse_positive (s : string) : option Z :=
  n ← parse_i32 s; if decide (0 < n) then Some n else None.

(* @ src/src/schema_registry.rs 422-450 get_subject_version *)
Definition get_subject_version (store : RegistryStore) (subject number : string) : outcome HttpError Body :=
  let? registered :=
    if decide (number = "latest") then value_of (latest store subject)
    else let? parsed := Some (ok_or (parse_positive number) (invalid_version number)) in
         value_of (version store subject parsed) in
  match registered with
  | Ok r => value_of (registered_body r)
  | Err SubjectNotFound => raise (subject_not_found subject)
  | Err VersionNotFound => let! parsed := parse_i32 number in raise (version_not_found parsed)
  | Err SchemaNotFound => None
  end.

(* @ src/src/schema_registry.rs 452-471 get_schema_by_id *)
Definition get_schema_by_id (store : RegistryStore) (id : string) : result HttpError Body :=
  n ← ok_or (parse_positive id) (schema_not_found ("Schema " +:+ id +:+ " not found"));
  (λ schema, SchemaBody schema "AVRO") <$>
    map_err (λ _, schema_not_found ("Schema " +:+ pretty n +:+ " not found")) (schema_by_id store n).

(* @ src/src/schema_registry.rs 473-497 get_schema_versions_by_id *)
Definition get_schema_versions_by_id (store : RegistryStore) (id : string) : result HttpError Body :=
  n ← ok_or (parse_positive id) (schema_not_found ("Schema " +:+ id +:+ " not found"));
  (λ versions, SubjectVersionsBody ((λ schema, (rs_subject schema, rs_version schema)) <$> versions)) <$>
    map_err (λ _, schema_not_found ("Schema " +:+ pretty n +:+ " not found")) (schema_versions_by_id store n).

(* @ src/src/schema_registry.rs 499-503 get_global_config *)
Definition get_global_config : Body := ConfigBody "NONE".

(* @ src/src/schema_registry.rs 505-517 get_subject_config *)
Definition get_subject_config (store : RegistryStore) (subject : string) : result HttpError Body :=
  _ ← map_err (λ _, subject_not_found subject) (versions store subject);
  Ok (ConfigBody "NONE").

(** The routes, with what their paths and bodies say. *)
(* @ src/src/schema_registry.rs 192-207 router *)
Inductive Request : Type :=
| GetSubjects
| PostSubject (subject : string) (body : result Rejection SchemaRequest)
| GetVersions (subject : string)
| PostVersions (subject : string) (body : result Rejection SchemaRequest)
| GetVersion (subject number : string)
| GetSchemaVersions (id : string)
| GetSchema (id : string)
| GetConfig
| GetSubjectConfig (subject : string).

(* @ src/src/schema_registry.rs 192-210 router *)
Definition handle (store : RegistryStore) (request : Request) : option (Response * RegistryStore) :=
  let! (r, store) :=
    match request with
    | GetSubjects => Some (Ok (list_subjects store), store)
    | PostSubject subject body => let! r := lookup_schema store subject body in Some (r, store)
    | GetVersions subject => Some (list_versions store subject, store)
    | PostVersions subject body => register_schema store subject body
    | GetVersion subject number => let! r := get_subject_version store subject number in Some (r, store)
    | GetSchemaVersions id => Some (get_schema_versions_by_id store id, store)
    | GetSchema id => Some (get_schema_by_id store id, store)
    | GetConfig => Some (Ok get_global_config, store)
    | GetSubjectConfig subject => Some (get_subject_config store subject, store)
    end in
  Some (use_schema_registry_content_type (into_response r), store).

(** A history of requests. *)
Fixpoint handle_all (store : RegistryStore) (requests : list Request) : option (list Response * RegistryStore) :=
  match requests with
  | [] => Some ([], store)
  | request :: requests =>
      let! (response, store) := handle store request in
      let! (responses, store) := handle_all store requests in
      Some (response :: responses, store)
  end.

End http.

End SchemaRegistry.
