(* ===== verification/SchemaRegistryCorrect.v ===== *)
(** * Correctness of the schema registry

    The invariant ties the four parts of the store together: texts and
    identifiers are in bijection, identifiers are [1 .. next - 1], and the
    versions of a subject are numbered from 1 with distinct texts.  Histories of
    requests keep it, never panic and only ever add. *)

From S2P Require Import Prelude Text SchemaRegistry.
Open Scope Z_scope.

Module SchemaRegistryCorrect.
Import Text SchemaRegistry.

(** ** The invariant *)

Definition subject_wf (texts : gmap string Z) (subject : string) (vs : list RegisteredSchema) : Prop :=
  vs ≠ [] ∧ NoDup (rs_schema <$> vs) ∧
  ∀ i r, vs !! i = Some r →
    rs_subject r = subject ∧ rs_version r = Z.of_nat i + 1 ∧ texts !! rs_schema r = Some (rs_id r).

Definition store_wf (s : RegistryStore) : Prop :=
  1 ≤ next_schema_id s ≤ i32_max ∧
  (∀ text id, schemas_by_text s !! text = Some id ↔ schemas_by_id s !! id = Some text) ∧
  (∀ id, is_Some (schemas_by_id s !! id) ↔ 1 ≤ id < next_schema_id s) ∧
  map_Forall (subject_wf (schemas_by_text s)) (subjects s).

Lemma default_wf : store_wf RegistryStore_default.
Proof.
  split_and!; [cbn; unfold i32_max; lia|cbn; unfold i32_max; lia| | |].
  - intros text id. cbn. by rewrite !lookup_empty.
  - intros id. cbn. rewrite lookup_empty. split; [by intros [? ?]|lia].
  - apply map_Forall_empty.
Qed.

(** ** Finding versions *)

Lemma find_schema_Some schema vs r :
  find_schema schema vs = Some r → r ∈ vs ∧ rs_schema r = schema.
Proof.
  intros [Hin Hb]%List.find_some. split; [by apply list_elem_of_In|].
  by apply bool_decide_eq_true in Hb.
Qed.

Lemma find_schema_None schema vs : find_schema schema vs = None ↔ schema ∉ rs_schema <$> vs.
Proof.
  induction vs as [|v vs IH]; cbn; [split; [by intros _ ?%elem_of_nil|done]|].
  unfold find_schema in *. cbn. rewrite elem_of_cons. case_bool_decide; [naive_solver|].
  rewrite IH. naive_solver.
Qed.

Lemma find_schema_app_r schema vs vs' :
  schema ∉ rs_schema <$> vs → find_schema schema (vs ++ vs') = find_schema schema vs'.
Proof.
  intros Hn. unfold find_schema. induction vs as [|v vs IH]; [done|]. cbn.
  cbn in Hn. rewrite bool_decide_false by set_solver. apply IH. set_solver.
Qed.

Lemma find_version_lookup texts subject vs n i r :
  subject_wf texts subject vs → vs !! i = Some r → n = Z.of_nat i + 1 → find_version n vs = Some r.
Proof.
  intros (_ & _ & Hvs) Hi ->.
  assert (∀ k, (∀ j q, vs !! j = Some q → rs_version q = Z.of_nat (k + j) + 1) →
    find_version (Z.of_nat (k + i) + 1) vs = Some r) as Hfind.
  { clear Hvs. revert i Hi. induction vs as [|v vs IH]; intros i Hi k Hk; [done|].
    unfold find_version in *. cbn. pose proof (Hk 0%nat v eq_refl) as H0.
    destruct i as [|i]; cbn in Hi.
    - simplify_eq. rewrite bool_decide_true; [done|]. lia.
    - rewrite bool_decide_false by lia. replace (k + S i)%nat with (S k + i)%nat by lia.
      apply IH; [done|]. intros j q Hq. rewrite (Hk (S j) q Hq). lia. }
  apply (Hfind 0%nat). intros j q Hq. by apply Hvs.
Qed.

Lemma find_version_Some texts subject vs n r :
  subject_wf texts subject vs → find_version n vs = Some r → ∃ i, vs !! i = Some r ∧ n = Z.of_nat i + 1.
Proof.
  intros (_ & _ & Hvs) [Hin Hb]%List.find_some. apply bool_decide_eq_true in Hb.
  apply list_elem_of_In, list_elem_of_lookup in Hin as [i Hi]. exists i. split; [done|].
  destruct (Hvs i r Hi) as (_ & ? & _). congruence.
Qed.

(** ** Registration *)

Lemma schema_id_cases s schema :
  store_wf s →
  (∃ id, schemas_by_text s !! schema = Some id ∧ schema_id s schema = Some (id, s)) ∨
  (schemas_by_text s !! schema = None ∧ next_schema_id s = i32_max ∧ schema_id s schema = None) ∨
  (schemas_by_text s !! schema = None ∧ ∃ s',
    schema_id s schema = Some (next_schema_id s, s') ∧ store_wf s' ∧
    next_schema_id s' = next_schema_id s + 1 ∧ subjects s' = subjects s ∧
    schemas_by_text s' = <[schema := next_schema_id s]> (schemas_by_text s) ∧
    schemas_by_id s' = <[next_schema_id s := schema]> (schemas_by_id s)).
Proof.
  intros (Hn & Hbij & Hids & Hsub). unfold schema_id.
  destruct (schemas_by_text s !! schema) as [id|] eqn:Ht; [left; eauto|]. right.
  unfold checked_add. case_decide as Hle; cbn [panic_bind].
  2: { left. split_and!; [done|unfold in_signed, i32_max in *; lia|done]. }
  right. split; [done|]. eexists. split; [done|]. split_and!; try done.
  assert (schemas_by_id s !! next_schema_id s = None) as Hfresh.
  { apply eq_None_not_Some. rewrite Hids. lia. }
  split_and!; cbn; [lia|lia| | |].
  - intros text id. destruct (decide (text = schema)) as [->|Hne], (decide (id = next_schema_id s)) as [->|Hid].
    + rewrite !lookup_insert_eq. naive_solver.
    + rewrite lookup_insert_eq, lookup_insert_ne by done. split; [congruence|].
      intros Hi%Hbij. congruence.
    + rewrite lookup_insert_ne, lookup_insert_eq by done. split; [|congruence].
      intros Hi%Hbij. congruence.
    + rewrite !lookup_insert_ne by done. apply Hbij.
  - intros id. rewrite lookup_insert_is_Some. rewrite Hids. lia.
  - eapply map_Forall_impl; [exact Hsub|]. intros subject vs (? & ? & Hvs). split_and!; [done..|].
    intros i r Hi. destruct (Hvs i r Hi) as (? & ? & Htext). split_and!; [done..|].
    rewrite lookup_insert_ne by congruence. done.
Qed.

(** What a successful registration does. *)
Definition registered (s : RegistryStore) (subject schema : string) (r : RegisteredSchema) (s' : RegistryStore) : Prop :=
  rs_subject r = subject ∧ rs_schema r = schema ∧
  (s' = s ∧ find_schema schema (default [] (subjects s !! subject)) = Some r ∨
   find_schema schema (default [] (subjects s !! subject)) = None ∧
   subjects s' = <[subject := default [] (subjects s !! subject) ++ [r]]> (subjects s) ∧
   schemas_by_text s ⊆ schemas_by_text s' ∧ schemas_by_id s ⊆ schemas_by_id s' ∧
   next_schema_id s ≤ next_schema_id s' ≤ next_schema_id s + 1).

Lemma versions_wf s subject :
  store_wf s →
  default [] (subjects s !! subject) = [] ∨
  subject_wf (schemas_by_text s) subject (default [] (subjects s !! subject)).
Proof.
  intros (_ & _ & _ & Hsub). destruct (subjects s !! subject) as [vs|] eqn:Hs; [|by left].
  right. exact (Hsub _ _ Hs).
Qed.

Lemma push_version_wf texts subject vs schema id :
  vs = [] ∨ subject_wf texts subject vs → find_schema schema vs = None → texts !! schema = Some id →
  subject_wf texts subject (vs ++ [mkRegisteredSchema subject (len vs + 1) id schema]).
Proof.
  intros Hvs Hnew%find_schema_None Hid.
  assert (NoDup (rs_schema <$> vs) ∧ ∀ i r, vs !! i = Some r →
    rs_subject r = subject ∧ rs_version r = Z.of_nat i + 1 ∧ texts !! rs_schema r = Some (rs_id r)) as [Hnd Hall].
  { destruct Hvs as [->|(_ & ? & ?)]; [|done]. split; [constructor|done]. }
  split_and!; [by destruct vs| |].
  - rewrite fmap_app. apply NoDup_app. split_and!; [done|set_solver|]. apply NoDup_singleton.
  - intros i r [Hi|(Hge & Hi)]%lookup_app_Some; [by apply Hall|].
    apply list_lookup_singleton_Some in Hi as [Hz <-]. cbn. split_and!; [done| |done].
    unfold len. f_equal. f_equal. lia.
Qed.

Lemma insert_versions_wf s subject vs :
  store_wf s → subject_wf (schemas_by_text s) subject vs →
  store_wf (mkRegistryStore (next_schema_id s) (schemas_by_text s) (schemas_by_id s)
    (<[subject := vs]> (subjects s))).
Proof. intros (? & ? & ? & ?) Hvs. split_and!; cbn; [lia|lia|done..|]. by apply map_Forall_insert_2. Qed.

Lemma push_registered s s1 subject schema id :
  store_wf s1 → subjects s1 = subjects s → schemas_by_text s1 !! schema = Some id →
  find_schema schema (default [] (subjects s !! subject)) = None →
  schemas_by_text s ⊆ schemas_by_text s1 → schemas_by_id s ⊆ schemas_by_id s1 →
  next_schema_id s ≤ next_schema_id s1 ≤ next_schema_id s + 1 →
  let r := mkRegisteredSchema subject (len (default [] (subjects s1 !! subject)) + 1) id schema in
  let s' := mkRegistryStore (next_schema_id s1) (schemas_by_text s1) (schemas_by_id s1)
    (<[subject := default [] (subjects s1 !! subject) ++ [r]]> (subjects s1)) in
  store_wf s' ∧ registered s subject schema r s'.
Proof.
  intros Hwf1 Hsub Hid Hf Ht Hi Hnext. cbv zeta. split.
  - apply insert_versions_wf; [done|]. apply push_version_wf; [by apply versions_wf|by rewrite Hsub|done].
  - rewrite Hsub. split; [done|]. split; [done|]. right. split_and!; try done; cbn; lia.
Qed.

(** Registering panics only when identifiers or versions have run out. *)
Lemma register_cases s subject schema :
  store_wf s →
  match register s subject schema with
  | Some (r, s') => store_wf s' ∧ registered s subject schema r s'
  | None => next_schema_id s = i32_max ∨ i32_max ≤ len (default [] (subjects s !! subject))
  end.
Proof.
  intros Hwf. unfold register.
  assert ((versions ← subjects s !! subject; find_schema schema versions) =
    find_schema schema (default [] (subjects s !! subject))) as -> by by destruct (subjects s !! subject).
  destruct (find_schema schema (default [] (subjects s !! subject))) as [existing|] eqn:Hf.
  { split; [done|]. pose proof (find_schema_Some _ _ _ Hf) as [[i Hi]%list_elem_of_lookup Hs].
    destruct (versions_wf s subject Hwf) as [Hnil|(_ & _ & Hvs)]; [by rewrite Hnil in Hi|].
    destruct (Hvs i _ Hi) as (? & _). split_and!; [done..|by left]. }
  destruct (schema_id_cases s schema Hwf) as [(id & Hid & ->)|[(_ & ? & ->)|(Hnew & s1 & -> & Hwf1 & Hn1 & Hs1 & Ht1 & Hi1)]].
  - cbn [panic_bind]. unfold try_i32. case_decide; cbn [panic_bind]; [|right; lia].
    apply push_registered; try done. lia.
  - by left.
  - cbn [panic_bind]. unfold try_i32. case_decide; cbn [panic_bind]; [|right; rewrite Hs1 in *; lia].
    apply push_registered; try done; [by rewrite Ht1, lookup_insert_eq| | |lia].
    + rewrite Ht1. by apply insert_subseteq.
    + rewrite Hi1. apply insert_subseteq, eq_None_not_Some. destruct Hwf as (_ & _ & Hids & _).
      rewrite Hids. lia.
Qed.

(** ** Histories *)

Section http.
  Context {Value Rejection : Type} (parse_str : string → bool) (body_text : Rejection → string).
  Local Abbreviation handle := (handle (Value := Value) parse_str body_text).
  Local Abbreviation handle_all := (handle_all (Value := Value) parse_str body_text).

(** At most [n] registrations so far. *)
Definition bounded (n : Z) (s : RegistryStore) : Prop :=
  next_schema_id s ≤ n + 1 ∧ ∀ subject, len (default [] (subjects s !! subject)) ≤ n.

Lemma registered_bounded n s subject schema r s' :
  bounded n s → registered s subject schema r s' → bounded (n + 1) s'.
Proof.
  intros [Hn Hv] (_ & _ & [[-> _]|(_ & Hsub & _ & _ & Hnext)]).
  - split; [lia|]. intros other. specialize (Hv other). lia.
  - split; [lia|]. intros other. rewrite Hsub. destruct (decide (other = subject)) as [->|Hne].
    + rewrite lookup_insert_eq. cbn. rewrite len_app. specialize (Hv subject). unfold len at 2. cbn. lia.
    + rewrite lookup_insert_ne by done. specialize (Hv other). lia.
Qed.

Lemma bounded_mono n m s : bounded n s → n ≤ m → bounded m s.
Proof. intros [? Hv] ?. split; [lia|]. intros subject. specialize (Hv subject). lia. Qed.

(** The versions the handlers ask for are numbers, and registered subjects are
    not empty: no branch marked unreachable is taken. *)
Lemma get_subject_version_total s subject number :
  store_wf s → ∃ r, get_subject_version s subject number = Some r.
Proof.
  intros (_ & _ & _ & Hsub). unfold get_subject_version, latest, version, parse_positive.
  case_decide as Hl.
  - cbn [outcome_bind value_of]. destruct (subjects s !! subject) as [vs|] eqn:Hs; cbn; [|eauto].
    destruct (Hsub _ _ Hs) as (Hne & _). destruct (last vs) as [r|] eqn:Hlast; cbn; [eauto|].
    by apply last_None in Hlast.
  - destruct (parse_i32 number) as [n|]; cbn; [|eauto]. case_decide; cbn; [|eauto].
    destruct (subjects s !! subject) as [vs|]; cbn; [|eauto]. destruct (find_version n vs); cbn; eauto.
Qed.

Lemma lookup_schema_total s subject (body : result Rejection (SchemaRequest (Value := Value))) :
  ∃ r, lookup_schema parse_str body_text s subject body = Some r.
Proof.
  unfold lookup_schema, lookup_schema_text. destruct (validated parse_str body_text body) as [schema|e]; cbn; [|eauto].
  destruct (subjects s !! subject) as [vs|]; cbn; [|eauto]. destruct (find_schema schema vs); cbn; eauto.
Qed.

(** Nothing that was registered is ever changed or removed. *)
Definition kept (s s' : RegistryStore) : Prop :=
  schemas_by_text s ⊆ schemas_by_text s' ∧ schemas_by_id s ⊆ schemas_by_id s' ∧
  ∀ subject, default [] (subjects s !! subject) `prefix_of` default [] (subjects s' !! subject).

#[local] Instance kept_preorder : PreOrder kept.
Proof.
  split; [by intros s|]. intros s1 s2 s3 (Ht & Hi & Hs) (Ht' & Hi' & Hs'). split_and!.
  - exact (transitivity Ht Ht').
  - exact (transitivity Hi Hi').
  - intros subject. exact (transitivity (Hs subject) (Hs' subject)).
Qed.

Lemma registered_kept s subject schema r s' : registered s subject schema r s' → kept s s'.
Proof.
  intros (_ & _ & [[-> _]|(_ & Hsub & Ht & Hi & _)]); [done|]. split_and!; [done..|].
  intros other. rewrite Hsub. destruct (decide (other = subject)) as [->|Hne].
  - rewrite lookup_insert_eq. by apply prefix_app_r.
  - by rewrite lookup_insert_ne.
Qed.

Definition served (s : RegistryStore) (response : Response) (s' : RegistryStore) : Prop :=
  store_wf s' ∧ kept s s' ∧ (∀ n, bounded n s → bounded (n + 1) s') ∧
  res_content_type response = Some "application/vnd.schemaregistry.v1+json".

Lemma content_type r :
  res_content_type (use_schema_registry_content_type (into_response r)) =
    Some "application/vnd.schemaregistry.v1+json".
Proof. by destruct r. Qed.

Lemma served_same s r : store_wf s → served s (use_schema_registry_content_type (into_response r)) s.
Proof.
  intros Hwf. split_and!; [done|done| |apply content_type]. intros n Hb. eapply bounded_mono; [done|lia].
Qed.

Lemma handle_cases s request :
  store_wf s →
  match handle s request with
  | Some (response, s') => served s response s'
  | None => next_schema_id s = i32_max ∨ ∃ subject, i32_max ≤ len (default [] (subjects s !! subject))
  end.
Proof.
  intros Hwf. unfold SchemaRegistry.handle.
  destruct request as [|subject body|subject|subject body|subject number|id|id| |subject];
    cbn [panic_bind]; try by apply served_same.
  - destruct (lookup_schema_total s subject body) as [r ->]. by apply served_same.
  - unfold register_schema. destruct (validated parse_str body_text body) as [schema|e];
      cbn [panic_bind]; [|by apply (served_same s (Err e))].
    pose proof (register_cases s subject schema Hwf) as Hr.
    destruct (register s subject schema) as [[r s']|]; cbn [panic_bind]; [|naive_solver].
    destruct Hr as [Hwf' Hr]. split_and!; [done|by eapply registered_kept| |done].
    intros n Hb. by eapply registered_bounded.
  - destruct (get_subject_version_total s subject number Hwf) as [r ->]. by apply served_same.
Qed.

Lemma handle_all_cases s n requests :
  store_wf s → bounded n s → 0 ≤ n → n + len requests < i32_max →
  ∃ responses s', handle_all s requests = Some (responses, s') ∧ store_wf s' ∧ kept s s' ∧
    length responses = length requests ∧
    Forall (λ r, res_content_type r = Some "application/vnd.schemaregistry.v1+json") responses.
Proof.
  revert s n. induction requests as [|request requests IH]; intros s n Hwf Hb Hn Hlen;
    cbn [SchemaRegistry.handle_all]; [by eexists _, _|].
  unfold len in Hlen. cbn [length] in Hlen. pose proof (handle_cases s request Hwf) as Hc.
  destruct (handle s request) as [[response s1]|]; cbn [panic_bind].
  - destruct Hc as (Hwf1 & Hk1 & Hb1 & Ht).
    destruct (IH s1 (n + 1)) as (responses & s2 & -> & Hwf2 & Hk2 & Hl & Hall);
      [done|by apply Hb1|lia|unfold len; lia|].
    cbn [panic_bind]. eexists _, _. split_and!; [done|done|by etrans|cbn; lia|by constructor].
  - exfalso. destruct Hb as [Hnext Hv]. destruct Hc as [?|[subject ?]]; [lia|]. specialize (Hv subject). lia.
Qed.

Lemma handle_all_Some s requests responses s' :
  store_wf s → handle_all s requests = Some (responses, s') → store_wf s'.
Proof.
  revert s responses. induction requests as [|request requests IH]; intros s responses Hwf;
    cbn [SchemaRegistry.handle_all]; [by intros [= _ <-]|].
  pose proof (handle_cases s request Hwf) as Hc. destruct (handle s request) as [[response s1]|]; [|done].
  destruct Hc as (Hwf1 & _). cbn [panic_bind].
  destruct (handle_all s1 requests) as [[rs s2]|] eqn:Hall; [|done]. intros [= _ <-]. by eapply IH.
Qed.

(** C20: the schema registry serves every history of fewer than 2^31 - 1 requests,
    well-formed or not, without a panic: no branch its handlers call unreachable
    is taken.  Afterwards texts and identifiers are in bijection, identifiers are
    1, 2, ... without a hole, and every subject's versions are numbered 1, 2, ...
    with pairwise different texts; every answer carries the content type of the
    registry. *)
Theorem registry_invariant (requests : list (SchemaRegistry.Request (Value := Value) (Rejection := Rejection))) :
  len requests < i32_max →
  ∃ responses s, handle_all RegistryStore_default requests = Some (responses, s) ∧ store_wf s ∧
    length responses = length requests ∧
    Forall (λ r, res_content_type r = Some "application/vnd.schemaregistry.v1+json") responses.
Proof.
  intros Hlen. destruct (handle_all_cases RegistryStore_default 0 requests default_wf)
    as (responses & s & H & Hwf & _ & Hl & Ht); [|lia|lia|eauto 10].
  split; [cbn; lia|]. intros subject. cbn. rewrite lookup_empty. unfold len. cbn. lia.
Qed.

(** ** What a registration is good for *)

Lemma version_found s subject i r vs :
  store_wf s → subjects s !! subject = Some vs → vs !! i = Some r → version s subject (Z.of_nat i + 1) = Ok r.
Proof.
  intros (_ & _ & _ & Hsub) Hvs Hi. unfold version. rewrite Hvs. cbn [ok_or mbind result_bind].
  by rewrite (find_version_lookup _ _ _ _ i r (Hsub _ _ Hvs) Hi eq_refl).
Qed.

Lemma version_kept s s' subject n r :
  store_wf s → store_wf s' → kept s s' → version s subject n = Ok r → version s' subject n = Ok r.
Proof.
  intros Hwf Hwf' (_ & _ & Hk) Hv. unfold version in Hv.
  destruct (subjects s !! subject) as [vs|] eqn:Hvs; [|done]. cbn in Hv.
  destruct (find_version n vs) as [r'|] eqn:Hf; [|done]. cbn in Hv. injection Hv as ->.
  destruct Hwf as (_ & _ & _ & Hsub).
  destruct (find_version_Some _ _ _ _ _ (Hsub _ _ Hvs) Hf) as (i & Hi & ->).
  specialize (Hk subject). rewrite Hvs in Hk. cbn in Hk.
  destruct (subjects s' !! subject) as [vs'|] eqn:Hvs'; cbn in Hk.
  - apply (version_found s' subject i r vs'); [done..|]. by eapply prefix_lookup_Some.
  - apply prefix_nil_inv in Hk as ->. done.
Qed.

Lemma schema_kept s s' id text : kept s s' → schema_by_id s id = Ok text → schema_by_id s' id = Ok text.
Proof.
  intros (_ & Hi & _). unfold schema_by_id. destruct (schemas_by_id s !! id) as [t|] eqn:Ht; [|done].
  cbn. intros [= ->]. by rewrite (lookup_weaken _ _ _ _ Ht Hi).
Qed.

Lemma looked_up s subject text r :
  store_wf s → lookup_schema_text s subject text = Ok r →
  rs_subject r = subject ∧ rs_schema r = text ∧ schemas_by_text s !! text = Some (rs_id r) ∧
  version s subject (rs_version r) = Ok r.
Proof.
  intros Hwf Hl. unfold lookup_schema_text in Hl. destruct (subjects s !! subject) as [vs|] eqn:Hvs; [|done].
  cbn in Hl. destruct (find_schema text vs) as [r'|] eqn:Hf; [|done]. injection Hl as ->.
  destruct (find_schema_Some _ _ _ Hf) as [[i Hi]%list_elem_of_lookup <-].
  pose proof Hwf as (_ & _ & _ & Hsub). destruct (Hsub _ _ Hvs) as (_ & _ & Hall).
  destruct (Hall i r Hi) as (? & Hver & ?). split_and!; [done..|]. rewrite Hver. by eapply version_found.
Qed.

Lemma registered_found s subject schema r s' :
  registered s subject schema r s' → lookup_schema_text s' subject schema = Ok r.
Proof.
  intros (_ & Hs & [[-> Hf]|(Hf & Hsub & _)]); unfold lookup_schema_text.
  - destruct (subjects s !! subject) as [vs|]; [|done].
    cbn [ok_or mbind result_bind]. by change (find_schema schema vs = Some r) in Hf; rewrite Hf.
  - rewrite Hsub, lookup_insert_eq. cbn. apply find_schema_None in Hf.
    rewrite find_schema_app_r by done. unfold find_schema. cbn. by rewrite bool_decide_true.
Qed.

(** C19: a registered schema is found again, and nothing else changes.  After any
    history, registering a schema under a subject returns its subject, version
    and identifier; looking it up under the subject, reading that version and
    reading that identifier give it back; registering it again returns the same
    and changes nothing; two registered schemas have the same identifier exactly
    when their texts are equal, under whatever subjects; and every version and
    every identifier that was there before still reads the same. *)
Theorem registration_is_durable
    (requests : list (SchemaRegistry.Request (Value := Value) (Rejection := Rejection)))
    (responses : list Response) (s s' : RegistryStore) (subject schema : string) (r : RegisteredSchema) :
  handle_all RegistryStore_default requests = Some (responses, s) →
  register s subject schema = Some (r, s') →
  lookup_schema_text s' subject schema = Ok r ∧ version s' subject (rs_version r) = Ok r ∧
  schema_by_id s' (rs_id r) = Ok schema ∧ register s' subject schema = Some (r, s') ∧
  (∀ other text r', lookup_schema_text s' other text = Ok r' → rs_id r' = rs_id r ↔ text = schema) ∧
  (∀ other n r', version s other n = Ok r' → version s' other n = Ok r') ∧
  (∀ id text, schema_by_id s id = Ok text → schema_by_id s' id = Ok text).
Proof.
  intros Hall Hreg. pose proof (handle_all_Some _ _ _ _ default_wf Hall) as Hwf.
  pose proof (register_cases s subject schema Hwf) as Hc. rewrite Hreg in Hc. destruct Hc as [Hwf' Hr].
  pose proof (registered_found _ _ _ _ _ Hr) as Hl. pose proof (registered_kept _ _ _ _ _ Hr) as Hk.
  destruct (looked_up _ _ _ _ Hwf' Hl) as (_ & _ & Ht & Hv). pose proof Hwf' as (_ & Hbij & _).
  split_and!; [done|done| | | | |].
  - unfold schema_by_id. by rewrite (proj1 (Hbij _ _) Ht).
  - unfold register. unfold lookup_schema_text in Hl. destruct (subjects s' !! subject) as [vs|]; [|done].
    cbn in *. destruct (find_schema schema vs); [|done]. by injection Hl as ->.
  - intros other text r' (_ & _ & Ht' & _)%looked_up; [|done]. split; [|congruence].
    intros Hid. apply Hbij in Ht, Ht'. rewrite Hid in Ht'. congruence.
  - intros other n r'. by apply version_kept.
  - intros id text. by apply schema_kept.
Qed.

End http.

(** ** A short history *)

(** Two subjects share a schema; bad requests in between. *)
Definition sample_requests : list (SchemaRegistry.Request (Value := ()) (Rejection := ())) :=
  let body s t := Ok (mkSchemaRequest s t []) in
  [PostVersions "orders" (body "{int}" None); PostVersions "orders" (body "  " None);
   PostVersions "orders" (body "{long}" (Some "AVRO")); PostVersions "orders" (body "x" (Some "JSON"));
   PostVersions "payments" (body "{long}" None); GetVersion "orders" "latest"; GetVersion "orders" "3";
   GetVersion "orders" "-1"; PostSubject "payments" (Err ()); GetSchemaVersions "2"; GetConfig].

Local Abbreviation sample_handle_all := (handle_all (λ _, true) (λ _, "not JSON")).

Lemma registry_invariant_witness :
  ∃ responses s, sample_handle_all RegistryStore_default sample_requests = Some (responses, s) ∧
    store_wf s ∧ length responses = 11%nat ∧
    Forall (λ r, res_content_type r = Some "application/vnd.schemaregistry.v1+json") responses.
Proof. apply (registry_invariant (λ _, true) (λ _, "not JSON") sample_requests). vm_compute. reflexivity. Defined.

Definition sample_store : RegistryStore := Eval vm_compute in
  from_option snd RegistryStore_default (sample_handle_all RegistryStore_default sample_requests).

Lemma registration_is_durable_witness :
  ∃ r s', register sample_store "payments" "{int}" = Some (r, s') ∧ rs_id r = 1 ∧ rs_version r = 2 ∧
    version s' "payments" 2 = Ok r ∧ version s' "payments" 1 = version sample_store "payments" 1.
Proof.
  destruct (sample_handle_all RegistryStore_default sample_requests) as [[responses s]|] eqn:Hall;
    [|vm_compute in Hall; discriminate].
  assert (s = sample_store) as -> by (vm_compute in Hall; injection Hall as _ <-; reflexivity).
  destruct (register sample_store "payments" "{int}") as [[r s']|] eqn:Hreg; [|vm_compute in Hreg; discriminate].
  destruct (registration_is_durable _ _ _ _ _ _ _ _ _ Hall Hreg) as (_ & Hv & _ & _ & _ & Hkept & _).
  assert (rs_id r = 1 ∧ rs_version r = 2) as [Hid Hver].
  { vm_compute in Hreg. injection Hreg as <- _. split; reflexivity. }
  exists r, s'. rewrite Hver in Hv. split_and!; [done..|]. rewrite (Hkept "payments" 1 _ eq_refl). reflexivity.
Defined.

End SchemaRegistryCorrect.
