(* ===== verification/Records.v ===== *)
(** * Record batches (magic 2) of the protocol crate

    [src/crates/kafka-protocol/src/records.rs]: the batch encoder, which groups
    consecutive compatible records into batches and back-patches the length and
    the CRC, and the decoder, with the header-only [decode_batch_info] the
    broker validates produced bytes with.

    The codecs of [Compress] take part when the crate is built with their cargo
    features ([Features]); the broker builds it without any ([broker_features]),
    so that [Compression::None] is the only codec it accepts without a custom
    function.  The theorems hold of every build.  The CRC-32C routine belongs to another crate: it is the class
    [Crc32c], a function into [u32].  Unchecked [i64] and [i32] arithmetic wraps,
    as in a release build.

    The theorem of the file is the round trip [encode_decode_records]: whatever
    the encoder accepts, decoding returns, batch grouping included. *)

From S2P Require Import Prelude Buf Types Compress.
Import Compress.

(** [crc32c(&[u8]) -> u32] of the crate [crc32c]. *)
Class Crc32c : Type := {
  crc32c : list byte → Z;
  crc32c_u32 (bs : list byte) : in_unsigned 32 (crc32c bs)
}.

(* @ src/crates/kafka-protocol/src/records.rs 60-71 Compression *)
Inductive Compression : Type := CNone | Gzip | Snappy | Lz4 | Zstd.

#[global] Instance Compression_eq_dec : EqDecision Compression.
Proof. solve_decision. Defined.

(** [options.compression as i16]. *)
Definition compression_code (c : Compression) : Z :=
  match c with CNone => 0 | Gzip => 1 | Snappy => 2 | Lz4 => 3 | Zstd => 4 end.

(** The cargo features of the crate: the codecs that are compiled in. *)
Class Features : Type := {
  feature_snappy : option codec;
  feature_gzip : option codec;
  feature_lz4 : option codec;
  feature_zstd : option codec
}.

(** The codec [encode] and [decode] select for a compression type; [None] is the
    arm that reports a missing feature. *)
(* @ src/crates/kafka-protocol/src/records.rs 374-401 RecordBatchEncoder::encode_new_batch *)
Definition builtin `{Features} (c : Compression) : option codec :=
  match c with
  | CNone => Some Compress.none
  | Snappy => feature_snappy
  | Gzip => feature_gzip
  | Lz4 => feature_lz4
  | Zstd => feature_zstd
  end.

(** [default-features = false] in the broker's manifest. *)
#[export] Instance broker_features : Features := {|
  feature_snappy := None; feature_gzip := None; feature_lz4 := None; feature_zstd := None
|}.

(* @ src/crates/kafka-protocol/src/records.rs 75-80 TimestampType *)
Inductive TimestampType : Type := Creation | LogAppend.

(* @ src/crates/kafka-protocol/src/records.rs 84-90 RecordEncodeOptions *)
Record RecordEncodeOptions : Type := {
  opt_version : Z;
  opt_compression : Compression
}.

(* @ src/crates/kafka-protocol/src/records.rs 93-93 NO_PRODUCER_ID *)
Definition NO_PRODUCER_ID : Z := -1.
(* @ src/crates/kafka-protocol/src/records.rs 95-95 NO_PRODUCER_EPOCH *)
Definition NO_PRODUCER_EPOCH : Z := -1.
(* @ src/crates/kafka-protocol/src/records.rs 99-99 NO_SEQUENCE *)
Definition NO_SEQUENCE : Z := -1.

(* @ src/crates/kafka-protocol/src/records.rs 113-140 BatchDecodeInfo *)
Record BatchDecodeInfo : Type := mkBatchDecodeInfo {
  bi_record_count : Z;
  bi_timestamp_type : TimestampType;
  bi_min_offset : Z;
  bi_min_timestamp : Z;
  bi_base_sequence : Z;
  bi_transactional : bool;
  bi_control : bool;
  bi_delete_horizon : bool;
  bi_partition_leader_epoch : Z;
  bi_producer_id : Z;
  bi_producer_epoch : Z;
  bi_compression : Compression;
  bi_version : Z
}.

(** An [IndexMap] keeps its entries in insertion order. *)
Definition headers_map : Type := list (list byte * option (list byte)).

(* @ src/crates/kafka-protocol/src/records.rs 155-185 Record *)
Record KRecord : Type := mkKRecord {
  transactional : bool;
  control : bool;
  delete_horizon : bool;
  partition_leader_epoch : Z;
  producer_id : Z;
  producer_epoch : Z;
  timestamp_type : TimestampType;
  offset : Z;
  sequence : Z;
  timestamp : Z;
  key : option (list byte);
  value : option (list byte);
  headers : headers_map
}.

(* @ src/crates/kafka-protocol/src/records.rs 144-151 RecordSet *)
Record RecordSet : Type := mkRecordSet {
  rs_compression : Compression;
  rs_version : Z;
  rs_records : list KRecord
}.

(* @ src/crates/kafka-protocol/src/records.rs 187-187 MAGIC_BYTE_OFFSET *)
Definition MAGIC_BYTE_OFFSET : nat := 16.

(** [IndexMap::insert]: an existing key keeps its place and gets the value. *)
Fixpoint index_map_insert (k : list byte) (v : option (list byte)) (m : headers_map) :
    headers_map :=
  match m with
  | [] => [(k, v)]
  | (k', v') :: m =>
      if decide (k' = k) then (k', v) :: m else (k', v') :: index_map_insert k v m
  end.

(** ** One record *)

(** The [Key], [Value] and header value parts of [Record::encode_new] are the
    same code with another message. *)
(* @ src/crates/kafka-protocol/src/records.rs 703-712 Record::encode_new *)
Definition encode_nullable (message : string) (v : option (list byte)) (buf : list byte) :
    result anyhow (list byte) :=
  match v with
  | Some k =>
      if decide (i32_max < len k) then Err (Bail message)
      else buf ← encode VarInt (len k) buf; Ok (put_slice k buf)
  | None => encode VarInt (-1) buf
  end.

(* @ src/crates/kafka-protocol/src/records.rs 786-795 Record::compute_size_new *)
Definition size_nullable (message : string) (v : option (list byte)) (total_size : Z) :
    result anyhow Z :=
  match v with
  | Some k =>
      if decide (i32_max < len k) then Err (Bail message)
      else n ← compute_size VarInt (len k); Ok (total_size + n + len k)
  | None => n ← compute_size VarInt (-1); Ok (total_size + n)
  end.

(* @ src/crates/kafka-protocol/src/records.rs 730-756 Record::encode_new *)
Fixpoint encode_headers (hs : headers_map) (buf : list byte) : result anyhow (list byte) :=
  match hs with
  | [] => Ok buf
  | (k, v) :: hs =>
      if decide (i32_max < len k) then
        Err (Bail "Record header key was too large to encode")
      else
        buf ← encode VarInt (len k) buf;
        buf ← encode_nullable "Record header value was too large to encode" v (put_slice k buf);
        encode_headers hs buf
  end.

(* @ src/crates/kafka-protocol/src/records.rs 813-839 Record::compute_size_new *)
Fixpoint size_headers (hs : headers_map) (total_size : Z) : result anyhow Z :=
  match hs with
  | [] => Ok total_size
  | (k, v) :: hs =>
      if decide (i32_max < len k) then
        Err (Bail "Record header key was too large to encode")
      else
        n ← compute_size VarInt (len k);
        total_size ← size_nullable "Record header value was too large to encode" v
          (total_size + n + len k);
        size_headers hs total_size
  end.

(* @ src/crates/kafka-protocol/src/records.rs 760-842 Record::compute_size_new *)
Definition compute_size_new (r : KRecord) (min_offset min_timestamp : Z) : result anyhow Z :=
  attributes ← compute_size Int8 0;
  let timestamp_delta := wrap_signed 64 (timestamp r - min_timestamp) in
  ts ← compute_size VarLong timestamp_delta;
  let offset_delta := wrap_signed 64 (offset r - min_offset) in
  if decide (i32_max < offset_delta ∨ offset_delta < i32_min) then
    Err (Bail "Timestamps within batch are too far apart")
  else
    off ← compute_size VarInt offset_delta;
    total_size ← size_nullable "Record key was too large to encode" (key r)
      (attributes + ts + off);
    total_size ← size_nullable "Record value was too large to encode" (value r) total_size;
    if decide (i32_max < len (headers r)) then Err (Bail "Too many record headers encode")
    else
      n ← compute_size VarInt (len (headers r));
      size_headers (headers r) (total_size + n).

(* @ src/crates/kafka-protocol/src/records.rs 671-759 Record::encode_new *)
Definition record_encode_new (r : KRecord) (min_offset min_timestamp : Z) (buf : list byte) :
    result anyhow (list byte) :=
  size ← compute_size_new r min_offset min_timestamp;
  if decide (i32_max < size) then Err (Bail "Record was too large to encode")
  else
    buf ← encode VarInt size buf;
    buf ← encode Int8 0 buf;
    let timestamp_delta := wrap_signed 64 (timestamp r - min_timestamp) in
    buf ← encode VarLong timestamp_delta buf;
    let offset_delta := wrap_signed 64 (offset r - min_offset) in
    if decide (i32_max < offset_delta ∨ offset_delta < i32_min) then
      Err (Bail "Timestamps within batch are too far apart")
    else
      buf ← encode VarInt offset_delta buf;
      buf ← encode_nullable "Record key was too large to encode" (key r) buf;
      buf ← encode_nullable "Record value was too large to encode" (value r) buf;
      if decide (i32_max < len (headers r)) then Err (Bail "Too many record headers encode")
      else
        buf ← encode VarInt (len (headers r)) buf;
        encode_headers (headers r) buf.

(** [match len.cmp(&-1)] of the key, the value and a header value. *)
(* @ src/crates/kafka-protocol/src/records.rs 870-877 Record::decode_new *)
Definition decode_nullable (message : string) : decoder (option (list byte)) :=
  n ← decode VarInt;
  if decide (n < -1) then fail_decode (Bail message)
  else if decide (n = -1) then mret None
  else v ← try_get_bytes n; mret (Some v).

(* @ src/crates/kafka-protocol/src/records.rs 896-920 Record::decode_new *)
Fixpoint decode_headers (n : nat) (hs : headers_map) : decoder headers_map :=
  match n with
  | O => mret hs
  | S n =>
      key_len ← decode VarInt;
      if decide (key_len < 0) then
        fail_decode (Bail "Unexpected negative record header key length")
      else
        k ← try_get_bytes key_len;
        k ← lift (from_utf8 k);
        v ← decode_nullable "Unexpected negative record header value length";
        decode_headers n (index_map_insert k v hs)
  end.

(** The part of [Record::decode_new] that reads the sized slice. *)
(* @ src/crates/kafka-protocol/src/records.rs 857-937 Record::decode_new *)
Definition decode_new_body (info : BatchDecodeInfo) : decoder KRecord :=
  _attributes ← decode Int8;
  timestamp_delta ← decode VarLong;
  offset_delta ← decode VarInt;
  k ← decode_nullable "Unexpected negative record key length";
  v ← decode_nullable "Unexpected negative record value length";
  num_headers ← decode VarInt;
  if decide (num_headers < 0) then
    fail_decode (Bail "Unexpected negative record header count")
  else
    hs ← decode_headers (Z.to_nat num_headers) [];
    mret {|
      transactional := bi_transactional info;
      control := bi_control info;
      delete_horizon := bi_delete_horizon info;
      partition_leader_epoch := bi_partition_leader_epoch info;
      producer_id := bi_producer_id info;
      producer_epoch := bi_producer_epoch info;
      timestamp_type := bi_timestamp_type info;
      offset := wrap_signed 64 (bi_min_offset info + offset_delta);
      sequence := wrap_signed 32 (bi_base_sequence info + offset_delta);
      timestamp := wrap_signed 64 (bi_min_timestamp info + timestamp_delta);
      key := k;
      value := v;
      headers := hs
    |}.

(** Runs a decoder on a slice of its own, dropping what it leaves. *)
Definition on_slice {A : Type} (d : decoder A) (bs : list byte) : decoder A :=
  lift (match d bs with Ok (a, _) => Ok a | Err e => Err e end).

(* @ src/crates/kafka-protocol/src/records.rs 843-937 Record::decode_new *)
Definition decode_new (info : BatchDecodeInfo) : decoder KRecord :=
  size ← decode VarInt;
  if decide (size < 0) then fail_decode (Bail "Unexpected negative record size")
  else
    bs ← try_get_bytes size;
    on_slice (decode_new_body info) bs.

(* @ src/crates/kafka-protocol/src/records.rs 511-522 RecordBatchDecoder::decode_new_records *)
Fixpoint decode_new_records (n : nat) (info : BatchDecodeInfo) : decoder (list KRecord) :=
  match n with
  | O => mret []
  | S n => r ← decode_new info; rs ← decode_new_records n info; mret (r :: rs)
  end.

(** ** One batch: decoding *)

Section decoder.
  Context `{Crc32c} `{Features}.

(** [decompress_func : Option<&F>]. *)
Definition decompressor : Type := list byte → Compression → result anyhow (list byte).

(** The bytes left in the buffer, unread ([crc32c(buf)]). *)
Definition remaining_bytes : decoder (list byte) := λ buf, Ok (buf, buf).

Definition bit_set (attributes k : Z) : bool :=
  negb (bool_decide (Z.land attributes (Z.shiftl 1 k) = 0)).

Definition attributes_compression (attributes : Z) : option Compression :=
  match Z.land attributes 7 with
  | 0 => Some CNone
  | 1 => Some Gzip
  | 2 => Some Snappy
  | 3 => Some Lz4
  | 4 => Some Zstd
  | _ => None
  end.

(** The part of [decode_batch_header_inner] that reads the batch's own slice;
    what it leaves is the records' bytes. *)
(* @ src/crates/kafka-protocol/src/records.rs 539-619 RecordBatchDecoder::decode_batch_header_inner *)
Definition decode_batch_body (version min_offset : Z) : decoder BatchDecodeInfo :=
  leader_epoch ← decode Int32;
  magic ← decode Int8;
  if decide (magic ≠ version) then fail_decode (Bail "Version mismatch")
  else
    supplied_crc ← decode UInt32;
    content ← remaining_bytes;
    if decide (supplied_crc ≠ crc32c content) then
      fail_decode (Bail "Cyclic redundancy check failed")
    else
      attributes ← decode Int16;
      match attributes_compression attributes with
      | None => fail_decode (Bail "Unknown compression algorithm used")
      | Some compression =>
          _max_offset_delta ← decode Int32;
          min_timestamp ← decode Int64;
          _max_timestamp ← decode Int64;
          pid ← decode Int64;
          epoch ← decode Int16;
          base_sequence ← decode Int32;
          record_count ← decode Int32;
          if decide (record_count < 0) then
            fail_decode (Bail "Unexpected negative record count")
          else
            mret {|
              bi_record_count := record_count;
              bi_timestamp_type := if bit_set attributes 3 then LogAppend else Creation;
              bi_min_offset := min_offset;
              bi_min_timestamp := min_timestamp;
              bi_base_sequence := base_sequence;
              bi_transactional := bit_set attributes 4;
              bi_control := bit_set attributes 5;
              bi_delete_horizon := bit_set attributes 6;
              bi_partition_leader_epoch := leader_epoch;
              bi_producer_id := pid;
              bi_producer_epoch := epoch;
              bi_compression := compression;
              bi_version := version
            |}
      end.

(** Returns the header and the bytes of the records. *)
(* @ src/crates/kafka-protocol/src/records.rs 524-619 RecordBatchDecoder::decode_batch_header_inner *)
Definition decode_batch_header_inner (version : Z) : decoder (BatchDecodeInfo * list byte) :=
  min_offset ← decode Int64;
  batch_length ← decode Int32;
  if decide (batch_length < 0) then fail_decode (Bail "Unexpected negative batch size")
  else
    bs ← try_get_bytes batch_length;
    lift (decode_batch_body version min_offset bs).

(* @ src/crates/kafka-protocol/src/records.rs 621-667 RecordBatchDecoder::decode_new_batch *)
Definition decode_new_batch (version : Z) (decompress_func : option decompressor) :
    decoder (Compression * list KRecord) :=
  header ← decode_batch_header_inner version;
  let '(info, records_buf) := header in
  let compression := bi_compression info in
  let records := decode_new_records (Z.to_nat (bi_record_count info)) info in
  match decompress_func with
  | Some f =>
      decompressed_buf ← lift (f records_buf compression);
      rs ← on_slice records decompressed_buf; mret (compression, rs)
  | None =>
      match builtin compression with
      | Some codec => rs ← on_slice (decompress codec records) records_buf; mret (compression, rs)
      | None => fail_decode (Bail "Support for the codec is not enabled as a cargo feature")
      end
  end.

(** [buf.try_peek_bytes(16..17)?[0] as i8]. *)
Definition peek_version : decoder Z := λ buf,
  match try_peek_bytes MAGIC_BYTE_OFFSET (MAGIC_BYTE_OFFSET + 1) buf with
  | Ok bs => Ok (wrap_signed 8 (be_val bs), buf)
  | Err e => Err e
  end.

(* @ src/crates/kafka-protocol/src/records.rs 475-492 RecordBatchDecoder::decode_into_vec *)
Definition decode_into_vec (decompress_func : option decompressor) :
    decoder (Z * Compression * list KRecord) :=
  version ← peek_version;
  if decide (0 ≤ version ≤ 1) then fail_decode (Bail "message sets are unsupported")
  else if decide (version = 2) then
    batch ← decode_new_batch version decompress_func; mret (version, batch.1, batch.2)
  else fail_decode (Bail "Unknown record batch version").

(* @ src/crates/kafka-protocol/src/records.rs 441-456 RecordBatchDecoder::decode_with_custom_compression *)
Definition decode_with_custom_compression (f : option decompressor) : decoder RecordSet :=
  set ← decode_into_vec f;
  let '(version, compression, records) := set in
  mret {| rs_compression := compression; rs_version := version; rs_records := records |}.

(* @ src/crates/kafka-protocol/src/records.rs 468-473 RecordBatchDecoder::decode *)
Definition decode_record_set : decoder RecordSet := decode_with_custom_compression None.

(** [while buf.has_remaining()]: every iteration consumes at least the twelve
    bytes of an offset and a length, so the length of the buffer is enough
    fuel ([decode_all_fuel]). *)
(* @ src/crates/kafka-protocol/src/records.rs 459-465 RecordBatchDecoder::decode_all *)
Fixpoint decode_all_loop (fuel : nat) (batches : list RecordSet) (buf : list byte) :
    option (result anyhow (list RecordSet)) :=
  match buf, fuel with
  | [], _ => Some (Ok batches)
  | _, O => None
  | _, S fuel =>
      match decode_record_set buf with
      | Ok (batch, buf) => decode_all_loop fuel (batches ++ [batch]) buf
      | Err e => Some (Err e)
      end
  end.

(* @ src/crates/kafka-protocol/src/records.rs 459-465 RecordBatchDecoder::decode_all *)
Definition decode_all (buf : list byte) : option (result anyhow (list RecordSet)) :=
  decode_all_loop (length buf) [] buf.

(** Returns the headers and what is left of the buffer (the caller inspects
    both); an unsupported magic stops the loop without an error. *)
(* @ src/crates/kafka-protocol/src/records.rs 498-509 RecordBatchDecoder::decode_batch_info *)
Fixpoint decode_batch_info_loop (fuel : nat) (hs : list BatchDecodeInfo) (buf : list byte) :
    option (result anyhow (list BatchDecodeInfo * list byte)) :=
  match buf, fuel with
  | [], _ => Some (Ok (hs, []))
  | _, O => None
  | _, S fuel =>
      match peek_version buf with
      | Err e => Some (Err e)
      | Ok (version, _) =>
          if decide (version ≠ 2) then Some (Ok (hs, buf))
          else
            match decode_batch_header_inner version buf with
            | Err e => Some (Err e)
            | Ok ((header, _), buf) => decode_batch_info_loop fuel (hs ++ [header]) buf
            end
      end
  end.

(* @ src/crates/kafka-protocol/src/records.rs 498-509 RecordBatchDecoder::decode_batch_info *)
Definition decode_batch_info (buf : list byte) :
    option (result anyhow (list BatchDecodeInfo * list byte)) :=
  decode_batch_info_loop (length buf) [] buf.

(** ** One batch: encoding *)

(** [compressor : Option<CF>], called with the records' bytes and the buffer. *)
Definition compressor : Type :=
  list byte → list byte → Compression → result anyhow (list byte).

(* @ src/crates/kafka-protocol/src/records.rs 232-247 RecordBatchEncoder::encode_new_records *)
Fixpoint encode_new_records (rs : list KRecord) (min_offset min_timestamp : Z)
    (buf : list byte) : result anyhow (list byte) :=
  match rs with
  | [] => Ok buf
  | r :: rs =>
      buf ← record_encode_new r min_offset min_timestamp buf;
      encode_new_records rs min_offset min_timestamp buf
  end.

(** Whether a record may join the batch of [first]. *)
(* @ src/crates/kafka-protocol/src/records.rs 271-278 RecordBatchEncoder::encode_new_batch *)
Definition same_batch (first r : KRecord) : bool :=
  bool_decide (transactional r = transactional first) &&
  bool_decide (control r = control first) &&
  bool_decide (delete_horizon r = delete_horizon first) &&
  bool_decide (partition_leader_epoch r = partition_leader_epoch first) &&
  bool_decide (producer_id r = producer_id first) &&
  bool_decide (producer_epoch r = producer_epoch first) &&
  bool_decide (wrap_signed 32 (wrap_signed 32 (offset r) - sequence r) =
    wrap_signed 32 (wrap_signed 32 (offset first) - sequence first)).

Fixpoint take_while {A : Type} (p : A → bool) (l : list A) : list A :=
  match l with
  | [] => []
  | x :: l => if p x then x :: take_while p l else []
  end.

(** [Iterator::min] and [Iterator::max] of a non-empty iterator. *)
Definition min_of (x : Z) (l : list Z) : Z := fold_left Z.min l x.
Definition max_of (x : Z) (l : list Z) : Z := fold_left Z.max l x.

Definition flag (b : bool) (k : Z) : Z := if b then Z.shiftl 1 k else 0.

(* @ src/crates/kafka-protocol/src/records.rs 329-339 RecordBatchEncoder::encode_new_batch *)
Definition encode_attributes (options : RecordEncodeOptions) (first : KRecord) : Z :=
  Z.lor (Z.lor (Z.lor (compression_code (opt_compression options))
    (flag (transactional first) 4)) (flag (control first) 5)) (flag (delete_horizon first) 6).

(** The records of a batch, compressed. *)
(* @ src/crates/kafka-protocol/src/records.rs 369-401 RecordBatchEncoder::encode_new_batch *)
Definition encode_batch_records (compression : Compression) (comp : option compressor)
    (batch : list KRecord) (min_offset min_timestamp : Z) (buf : list byte) :
    result anyhow (list byte) :=
  match comp with
  | Some comp =>
      record_buf ← encode_new_records batch min_offset min_timestamp [];
      comp record_buf buf compression
  | None =>
      match builtin compression with
      | Some codec =>
          written ← compress codec buf (λ buf,
            buf ← encode_new_records batch min_offset min_timestamp buf; Ok (tt, buf));
          Ok written.2
      | None => Err (Bail "Support for the codec is not enabled as a cargo feature")
      end
  end.

(** Returns whether a batch was written, the records left in the iterator and
    the buffer. *)
(* @ src/crates/kafka-protocol/src/records.rs 249-417 RecordBatchEncoder::encode_new_batch *)
Definition encode_new_batch (records : list KRecord) (options : RecordEncodeOptions)
    (comp : option compressor) (buf : list byte) :
    result anyhow (bool * list KRecord * list byte) :=
  match records with
  | [] => Ok (false, [], buf)
  | first_record :: others =>
      let num_records := S (length (take_while (same_batch first_record) others)) in
      let batch := take num_records records in
      let offsets := offset <$> batch in
      let timestamps := timestamp <$> batch in
      let min_offset := min_of (offset first_record) offsets in
      let max_offset := max_of (offset first_record) offsets in
      let min_timestamp := min_of (timestamp first_record) timestamps in
      let max_timestamp := max_of (timestamp first_record) timestamps in
      let base_sequence :=
        wrap_signed 32 (sequence first_record
          - wrap_signed 32 (wrap_signed 64 (offset first_record - min_offset))) in
      buf ← encode Int64 min_offset buf;
      let '(size_gap, buf) := put_gap 4 buf in
      let batch_start := length buf in
      buf ← encode Int32 (partition_leader_epoch first_record) buf;
      buf ← encode Int8 (opt_version options) buf;
      let '(crc_gap, buf) := put_gap 4 buf in
      let content_start := length buf in
      buf ← encode Int16 (encode_attributes options first_record) buf;
      buf ← encode Int32 (wrap_signed 32 (wrap_signed 64 (max_offset - min_offset))) buf;
      buf ← encode Int64 min_timestamp buf;
      buf ← encode Int64 max_timestamp buf;
      buf ← encode Int64 (producer_id first_record) buf;
      buf ← encode Int16 (producer_epoch first_record) buf;
      buf ← encode Int32 base_sequence buf;
      if decide (i32_max < Z.of_nat num_records) then
        Err (Bail "Too many records to encode in one batch")
      else
        buf ← encode Int32 (Z.of_nat num_records) buf;
        buf ← encode_batch_records (opt_compression options) comp batch min_offset
                min_timestamp buf;
        let batch_end := length buf in
        let batch_size := Z.of_nat (batch_end - batch_start) in
        if decide (i32_max < batch_size) then
          Err (Bail "Record batch was too large to encode")
        else
          let buf := fill_gap size_gap batch_size buf in
          let crc := crc32c (slice content_start batch_end buf) in
          Ok (true, drop num_records records, fill_gap crc_gap crc buf)
  end.

(** [while encode_new_batch(..)? {}]: a batch takes at least one record. *)
(* @ src/crates/kafka-protocol/src/records.rs 430-430 RecordBatchEncoder::encode_new *)
Fixpoint encode_new_loop (fuel : nat) (records : list KRecord) (options : RecordEncodeOptions)
    (comp : option compressor) (buf : list byte) : option (result anyhow (list byte)) :=
  match fuel with
  | O => None
  | S fuel =>
      match encode_new_batch records options comp buf with
      | Err e => Some (Err e)
      | Ok (false, _, buf) => Some (Ok buf)
      | Ok (true, records, buf) => encode_new_loop fuel records options comp buf
      end
  end.

(* @ src/crates/kafka-protocol/src/records.rs 206-230 RecordBatchEncoder::encode_with_custom_compression *)
Definition encode_with_custom_compression (records : list KRecord)
    (options : RecordEncodeOptions) (comp : option compressor) (buf : list byte) :
    option (result anyhow (list byte)) :=
  if decide (0 ≤ opt_version options ≤ 1) then
    Some (Err (Bail "message sets are unsupported"))
  else if decide (opt_version options = 2) then
    encode_new_loop (S (length records)) records options comp buf
  else Some (Err (Bail "Unknown record batch version")).

(* @ src/crates/kafka-protocol/src/records.rs 190-204 RecordBatchEncoder::encode *)
Definition encode_record_set (records : list KRecord) (options : RecordEncodeOptions)
    (buf : list byte) : option (result anyhow (list byte)) :=
  encode_with_custom_compression records options None buf.

End decoder.

(** ** Round trip of one record *)

(** A code fragment that appends [bytes], adds their number to a running size
    and reads them back. *)
Definition fragment {A : Type} (enc : list byte → result anyhow (list byte))
    (size : Z → result anyhow Z) (dec : decoder A) (a : A) (bytes : list byte) : Prop :=
  (∀ buf, enc buf = Ok (buf ++ bytes)) ∧ (∀ t, size t = Ok (t + len bytes)) ∧
  (∀ rest, dec (bytes ++ rest) = Ok (a, rest)).

Definition header_ok (h : list byte * option (list byte)) : Prop :=
  bytes_wf h.1 ∧ utf8_valid h.1 = true ∧ opt_all bytes_wf h.2.

Lemma len_in_i32 {A : Type} (l : list A) : len l ≤ i32_max → in_signed 32 (len l).
Proof. pose proof (len_nonneg l). unfold in_signed, i32_max. simpl. lia. Qed.

Lemma nullable_fragment (message message' : string) (v : option (list byte)) :
  opt_all bytes_wf v →
  ∃ bytes, fragment (encode_nullable message v) (size_nullable message v)
    (decode_nullable message') v bytes.
Proof.
  destruct v as [s|]; intros Hwf.
  - unfold opt_all, bytes_wf in Hwf. pose proof (len_nonneg s).
    destruct (VarInt_spec _ (len_in_i32 s Hwf)) as (He & Hs & Hd).
    exists (varint_signed 32 (len s) ++ s). split_and!.
    + intros buf. cbn [encode_nullable]. rewrite decide_False by lia.
      rewrite (result_bind_eq _ _ _ (He buf)). unfold put_slice. by rewrite app_assoc.
    + intros t. cbn [size_nullable]. rewrite decide_False by lia.
      rewrite (result_bind_eq _ _ _ Hs), len_app. f_equal. lia.
    + intros rest. unfold decode_nullable.
      rewrite <- app_assoc, (decoder_bind_Ok _ _ _ _ _ (Hd _)).
      rewrite !decide_False by lia.
      by rewrite (decoder_bind_Ok _ _ _ _ _ (try_get_bytes_app _ _)).
  - assert (in_signed 32 (-1)) as Hin by width.
    destruct (VarInt_spec _ Hin) as (He & Hs & Hd).
    exists (varint_signed 32 (-1)). split_and!; [done|done|].
    intros rest. unfold decode_nullable. by rewrite (decoder_bind_Ok _ _ _ _ _ (Hd _)).
Qed.

Lemma index_map_insert_new k v (m : headers_map) :
  k ∉ m.*1 → index_map_insert k v m = m ++ [(k, v)].
Proof.
  induction m as [|[k' v'] m IH]; simpl; [done|].
  intros [Hk Hm]%not_elem_of_cons. rewrite decide_False by done. by rewrite IH.
Qed.

Lemma headers_fragment (hs acc : headers_map) :
  Forall header_ok hs → NoDup (acc.*1 ++ hs.*1) →
  ∃ bytes, fragment (encode_headers hs) (size_headers hs)
    (decode_headers (length hs) acc) (acc ++ hs) bytes.
Proof.
  revert acc. induction hs as [|[k v] hs IH]; intros acc Hok Hnd.
  - exists []. split_and!; simpl; intros.
    + by rewrite app_nil_r.
    + f_equal. unfold len. simpl. lia.
    + by rewrite app_nil_r.
  - apply Forall_cons in Hok as [(Hk & Hutf & Hv) Hok]. cbn [fst snd] in *.
    unfold bytes_wf in Hk. pose proof (len_nonneg k).
    destruct (VarInt_spec _ (len_in_i32 k Hk)) as (He & Hs & Hd).
    destruct (nullable_fragment "Record header value was too large to encode"
      "Unexpected negative record header value length" v Hv) as (vb & Hve & Hvs & Hvd).
    assert (k ∉ acc.*1) as Hnew.
    { intros Hin. apply NoDup_app in Hnd as (_ & Hdisj & _).
      apply (Hdisj k Hin). simpl. left. }
    destruct (IH (acc ++ [(k, v)]) Hok) as (bs & Hhe & Hhs & Hhd).
    { rewrite fmap_app, <- app_assoc. exact Hnd. }
    exists (varint_signed 32 (len k) ++ k ++ vb ++ bs). split_and!.
    + intros buf. cbn [encode_headers]. rewrite decide_False by lia.
      rewrite (result_bind_eq _ _ _ (He buf)), (result_bind_eq _ _ _ (Hve _)), Hhe.
      unfold put_slice. by rewrite !app_assoc.
    + intros t. cbn [size_headers]. rewrite decide_False by lia.
      rewrite (result_bind_eq _ _ _ Hs), (result_bind_eq _ _ _ (Hvs _)), Hhs.
      rewrite !len_app. f_equal. lia.
    + intros rest. cbn [length decode_headers].
      rewrite <- !app_assoc, (decoder_bind_Ok _ _ _ _ _ (Hd _)), decide_False by lia.
      rewrite (decoder_bind_Ok _ _ _ _ _ (try_get_bytes_app _ _)).
      rewrite utf8_from by done. unfold lift at 1.
      erewrite decoder_bind_Ok by done.
      rewrite (decoder_bind_Ok _ _ _ _ _ (Hvd _)), index_map_insert_new by done.
      by rewrite Hhd, <- app_assoc.
Qed.

(** What the types of the source guarantee of a record: machine-width fields,
    UTF-8 header names ([StrBytes]) without repetition ([IndexMap]). *)
Definition record_typed (r : KRecord) : Prop :=
  in_signed 32 (partition_leader_epoch r) ∧ in_signed 64 (producer_id r) ∧
  in_signed 16 (producer_epoch r) ∧ in_signed 64 (offset r) ∧ in_signed 32 (sequence r) ∧
  in_signed 64 (timestamp r) ∧ NoDup (headers r).*1 ∧
  Forall (λ h, utf8_valid h.1 = true) (headers r).

(** What the encoder checks of the record's own sizes. *)
Definition sizes_ok (r : KRecord) (min_offset : Z) : Prop :=
  in_signed 32 (wrap_signed 64 (offset r - min_offset)) ∧
  opt_all bytes_wf (key r) ∧ opt_all bytes_wf (value r) ∧ len (headers r) ≤ i32_max ∧
  Forall (λ h, bytes_wf h.1 ∧ opt_all bytes_wf h.2) (headers r).

Lemma size_nullable_inv message v t n :
  size_nullable message v t = Ok n → opt_all bytes_wf v.
Proof. destruct v as [s|]; simpl; [|done]. unfold bytes_wf. case_decide; [done|]. lia. Qed.

Lemma size_headers_inv hs t n :
  size_headers hs t = Ok n → Forall (λ h, bytes_wf h.1 ∧ opt_all bytes_wf h.2) hs.
Proof.
  revert t. induction hs as [|[k v] hs IH]; intros t; [constructor|].
  cbn [size_headers]. case_decide; [done|].
  intros (m & _ & (m' & Hv & Hhs)%result_bind_Ok)%result_bind_Ok.
  constructor; [|by eapply IH]. unfold bytes_wf. simpl.
  split; [lia|by eapply size_nullable_inv].
Qed.

(** A size is computed only for a record within the limits. *)
Lemma compute_size_new_inv r mo mt size :
  compute_size_new r mo mt = Ok size → sizes_ok r mo.
Proof.
  unfold compute_size_new, sizes_ok.
  intros (a & _ & (b & _ & Hsize)%result_bind_Ok)%result_bind_Ok.
  case_decide as Hdelta; [done|].
  apply result_bind_Ok in Hsize as (c & _ & (d & Hk & (e & Hv & Hh)%result_bind_Ok)%result_bind_Ok).
  case_decide; [done|]. apply result_bind_Ok in Hh as (f & _ & Hh).
  split_and!.
  - unfold in_signed, i32_max, i32_min in *. simpl. lia.
  - by eapply size_nullable_inv.
  - by eapply size_nullable_inv.
  - lia.
  - by eapply size_headers_inv.
Qed.

(** What decoding makes of an encoded record, for any batch header. *)
Definition decoded_record (info : BatchDecodeInfo) (r : KRecord) (mo mt : Z) : KRecord := {|
  transactional := bi_transactional info;
  control := bi_control info;
  delete_horizon := bi_delete_horizon info;
  partition_leader_epoch := bi_partition_leader_epoch info;
  producer_id := bi_producer_id info;
  producer_epoch := bi_producer_epoch info;
  timestamp_type := bi_timestamp_type info;
  offset := wrap_signed 64 (bi_min_offset info + wrap_signed 64 (offset r - mo));
  sequence := wrap_signed 32 (bi_base_sequence info + wrap_signed 64 (offset r - mo));
  timestamp := wrap_signed 64 (bi_min_timestamp info + wrap_signed 64 (timestamp r - mt));
  key := key r;
  value := value r;
  headers := headers r
|}.

Lemma record_headers_ok r mo :
  record_typed r → sizes_ok r mo → Forall header_ok (headers r).
Proof.
  intros (_ & _ & _ & _ & _ & _ & _ & Hutf) (_ & _ & _ & _ & Hsize).
  rewrite Forall_forall in Hutf, Hsize. apply Forall_forall. intros h Hh.
  destruct (Hsize h Hh). split_and!; auto.
Qed.

Lemma VarInt_size_bound v n : compute_size VarInt v = Ok n → 0 ≤ n ≤ 5.
Proof. simpl. unfold varint_size. intros [= <-]. repeat case_decide; lia. Qed.

Lemma VarLong_size_bound v n : compute_size VarLong v = Ok n → 0 ≤ n ≤ 10.
Proof. simpl. unfold varlong_size. intros [= <-]. repeat case_decide; lia. Qed.

(** The encoded record is its size followed by that many bytes, and decoding
    them rebuilds the record. *)
Lemma record_encode_spec r mo mt size :
  record_typed r → compute_size_new r mo mt = Ok size → size ≤ i32_max →
  ∃ bytes, (∀ buf, record_encode_new r mo mt buf = Ok (buf ++ bytes)) ∧ len bytes ≤ 5 + size ∧
    ∀ info rest, decode_new info (bytes ++ rest) = Ok (decoded_record info r mo mt, rest).
Proof.
  intros Ht Hsize Hle. pose proof (compute_size_new_inv _ _ _ _ Hsize) as Hok.
  pose proof (record_headers_ok _ _ Ht Hok) as Hhs.
  destruct Hok as (Hdelta & Hk & Hv & Hnh & _). pose proof (len_nonneg (headers r)).
  assert (NoDup (headers r).*1) as Hnd by apply Ht.
  set (td := wrap_signed 64 (timestamp r - mt)). set (od := wrap_signed 64 (offset r - mo)).
  assert (in_signed 8 0) as Hin0 by width.
  destruct (Int8_spec 0 Hin0) as (Hae & Has & Had).
  destruct (VarLong_spec td (wrap_signed_range 64 _ ltac:(lia))) as (Hte & Hts & Htd).
  destruct (VarInt_spec od Hdelta) as (Hoe & Hos & Hod).
  destruct (nullable_fragment "Record key was too large to encode"
    "Unexpected negative record key length" (key r) Hk) as (kb & Hke & Hks & Hkd).
  destruct (nullable_fragment "Record value was too large to encode"
    "Unexpected negative record value length" (value r) Hv) as (vb & Hve & Hvs & Hvd).
  destruct (VarInt_spec _ (len_in_i32 _ Hnh)) as (Hne & Hns & Hnd').
  destruct (headers_fragment (headers r) [] Hhs Hnd) as (hb & Hhe & Hhs' & Hhd).
  set (body := be_bytes 1 0 ++ varint_signed 64 td ++ varint_signed 32 od ++ kb ++ vb
    ++ varint_signed 32 (len (headers r)) ++ hb).
  assert (¬ (i32_max < od ∨ od < i32_min)) as Hno.
  { unfold in_signed in Hdelta. simpl in Hdelta. unfold i32_max, i32_min. fold od in Hdelta. lia. }
  assert (size = len body) as ->.
  { revert Hsize. unfold compute_size_new. fold td od.
    rewrite (result_bind_eq _ _ _ Has), (result_bind_eq _ _ _ Hts).
    rewrite decide_False, (result_bind_eq _ _ _ Hos), (result_bind_eq _ _ _ (Hks _)) by done.
    rewrite (result_bind_eq _ _ _ (Hvs _)), decide_False by lia.
    rewrite (result_bind_eq _ _ _ Hns), Hhs'. intros [= <-].
    unfold body. rewrite !len_app.
    rewrite len_be_bytes. unfold len at 1. cbn [length]. lia. }
  destruct (VarInt_spec _ (len_in_i32 body Hle)) as (Hze & Hzs & Hzd).
  exists (varint_signed 32 (len body) ++ body). split_and!.
  - intros buf. unfold record_encode_new. rewrite Hsize. fold td od.
    rewrite (result_bind_eq _ _ _ eq_refl), decide_False by lia.
    rewrite (result_bind_eq _ _ _ (Hze _)), (result_bind_eq _ _ _ (Hae _)).
    rewrite (result_bind_eq _ _ _ (Hte _)), decide_False by done.
    rewrite (result_bind_eq _ _ _ (Hoe _)), (result_bind_eq _ _ _ (Hke _)).
    rewrite (result_bind_eq _ _ _ (Hve _)), decide_False by lia.
    rewrite (result_bind_eq _ _ _ (Hne _)), Hhe. unfold body. by rewrite !app_assoc.
  - rewrite len_app. pose proof (VarInt_size_bound _ _ Hzs). lia.
  - intros info rest. unfold decode_new. pose proof (len_nonneg body).
    rewrite <- app_assoc, (decoder_bind_Ok _ _ _ _ _ (Hzd _)), decide_False by lia.
    rewrite (decoder_bind_Ok _ _ _ _ _ (try_get_bytes_app _ _)).
    unfold on_slice. unfold body at 1. unfold decode_new_body.
    rewrite (decoder_bind_Ok _ _ _ _ _ (Had _)), (decoder_bind_Ok _ _ _ _ _ (Htd _)).
    rewrite (decoder_bind_Ok _ _ _ _ _ (Hod _)), (decoder_bind_Ok _ _ _ _ _ (Hkd _)).
    rewrite (decoder_bind_Ok _ _ _ _ _ (Hvd _)), (decoder_bind_Ok _ _ _ _ _ (Hnd' _)).
    rewrite decide_False by lia. unfold len. rewrite Nat2Z.id.
    rewrite <- (app_nil_r hb), (decoder_bind_Ok _ _ _ _ _ (Hhd [])). done.
Qed.

Lemma record_encode_inv r mo mt buf buf' :
  record_encode_new r mo mt buf = Ok buf' →
  ∃ size, compute_size_new r mo mt = Ok size ∧ size ≤ i32_max.
Proof.
  unfold record_encode_new. intros (size & Hs & Hr)%result_bind_Ok. case_decide; [done|].
  exists size. split; [done|lia].
Qed.

Lemma records_encode_spec rs mo mt buf buf' :
  Forall record_typed rs → encode_new_records rs mo mt buf = Ok buf' →
  ∃ bytes, buf' = buf ++ bytes ∧ len bytes ≤ len rs * (5 + i32_max) ∧
    ∀ info rest, decode_new_records (length rs) info (bytes ++ rest)
      = Ok ((λ r, decoded_record info r mo mt) <$> rs, rest).
Proof.
  intros Hrs. revert buf. induction Hrs as [|r rs Hr _ IH]; intros buf; cbn [encode_new_records].
  - intros [= <-]. exists []. by rewrite app_nil_r.
  - intros (b1 & Hb1 & Hrest)%result_bind_Ok.
    destruct (record_encode_inv _ _ _ _ _ Hb1) as (size & Hs & Hle).
    destruct (record_encode_spec r mo mt size Hr Hs Hle) as (rb & He & Hl & Hd).
    rewrite He in Hb1. injection Hb1 as <-.
    destruct (IH _ Hrest) as (bs & -> & Hlen & Hds). exists (rb ++ bs). split_and!.
    + by rewrite app_assoc.
    + rewrite len_app, len_cons. lia.
    + intros info rest. cbn [length decode_new_records fmap list_fmap].
      rewrite <- app_assoc, (decoder_bind_Ok _ _ _ _ _ (Hd _ _)).
      by rewrite (decoder_bind_Ok _ _ _ _ _ (Hds info rest)).
Qed.

(** ** Round trip of one batch *)

Lemma get_i8 v rest : in_signed 8 v → decode Int8 (be_bytes 1 v ++ rest) = Ok (v, rest).
Proof. by apply (try_get_int_app 1). Qed.
Lemma get_i16 v rest : in_signed 16 v → decode Int16 (be_bytes 2 v ++ rest) = Ok (v, rest).
Proof. by apply (try_get_int_app 2). Qed.
Lemma get_i32 v rest : in_signed 32 v → decode Int32 (be_bytes 4 v ++ rest) = Ok (v, rest).
Proof. by apply (try_get_int_app 4). Qed.
Lemma get_i64 v rest : in_signed 64 v → decode Int64 (be_bytes 8 v ++ rest) = Ok (v, rest).
Proof. by apply (try_get_int_app 8). Qed.
Lemma get_u32 v rest : in_unsigned 32 v → decode UInt32 (be_bytes 4 v ++ rest) = Ok (v, rest).
Proof.
  intros Hv. cbn [decode UInt32 simple_int]. rewrite (try_get_uint_app 4 v rest).
  by rewrite Z.mod_small.
Qed.

(** [decode_step e] runs the next read of a decoder, whose result [e] gives. *)
Ltac decode_step e := rewrite (decoder_bind_Ok _ _ _ _ _ e).

Lemma fill_gap_at (p mid body : list byte) (n : nat) (v : Z) :
  length mid = n → fill_gap (mkGap (length p) n) v (p ++ mid ++ body) = p ++ be_bytes n v ++ body.
Proof.
  intros Hn. unfold fill_gap. cbn [gap_offset gap_len].
  rewrite take_app_length, <- drop_drop, drop_app_length.
  by rewrite drop_app_length'.
Qed.

Section batch_roundtrip.
  Context `{Crc32c} `{Features}.

(** The bytes of a batch after its length, from the attributes on. *)
Definition batch_content (attributes last_delta min_ts max_ts pid epoch base_seq count : Z)
    (records : list byte) : list byte :=
  be_bytes 2 attributes ++ be_bytes 4 last_delta ++ be_bytes 8 min_ts ++ be_bytes 8 max_ts ++
  be_bytes 8 pid ++ be_bytes 2 epoch ++ be_bytes 4 base_seq ++ be_bytes 4 count ++ records.

Definition batch_body (leader_epoch version : Z) (content : list byte) : list byte :=
  be_bytes 4 leader_epoch ++ be_bytes 1 version ++ be_bytes 4 (crc32c content) ++ content.

Definition batch_bytes (min_offset : Z) (body : list byte) : list byte :=
  be_bytes 8 min_offset ++ be_bytes 4 (len body) ++ body.

Lemma decode_batch_body_spec version mo le attrs ld mts xts pid ep bs n recs compression :
  in_signed 32 le → in_signed 8 version → in_signed 16 attrs → in_signed 32 ld →
  in_signed 64 mts → in_signed 64 xts → in_signed 64 pid → in_signed 16 ep →
  in_signed 32 bs → in_signed 32 n → 0 ≤ n →
  attributes_compression attrs = Some compression →
  decode_batch_body version mo
    (batch_body le version (batch_content attrs ld mts xts pid ep bs n recs)) =
  Ok (mkBatchDecodeInfo n (if bit_set attrs 3 then LogAppend else Creation) mo mts bs
        (bit_set attrs 4) (bit_set attrs 5) (bit_set attrs 6) le pid ep compression version,
      recs).
Proof.
  intros Hle Hver Hat Hld Hmt Hxt Hpid Hep Hbs Hn Hn0 Hcomp.
  unfold decode_batch_body, batch_body.
  set (content := batch_content _ _ _ _ _ _ _ _ _).
  decode_step (get_i32 _ (be_bytes 1 version ++ be_bytes 4 (crc32c content) ++ content) Hle).
  decode_step (get_i8 _ (be_bytes 4 (crc32c content) ++ content) Hver).
  rewrite decide_False by auto.
  decode_step (get_u32 _ content (crc32c_u32 content)).
  erewrite decoder_bind_Ok by done. rewrite decide_False by auto.
  unfold content, batch_content.
  erewrite decoder_bind_Ok by (by apply get_i16). rewrite Hcomp.
  erewrite decoder_bind_Ok by (by apply get_i32).
  do 3 erewrite decoder_bind_Ok by (by apply get_i64).
  erewrite decoder_bind_Ok by (by apply get_i16).
  do 2 erewrite decoder_bind_Ok by (by apply get_i32).
  by rewrite decide_False by lia.
Qed.

Lemma peek_version_batch mo body v rest content (le : Z) :
  body = batch_body le v content → in_signed 8 v →
  peek_version (batch_bytes mo body ++ rest) = Ok (v, batch_bytes mo body ++ rest).
Proof.
  intros -> Hv. unfold peek_version, try_peek_bytes, MAGIC_BYTE_OFFSET.
  set (tail := be_bytes 4 (crc32c content) ++ content ++ rest).
  assert (batch_bytes mo (batch_body le v content) ++ rest =
    (be_bytes 8 mo ++ be_bytes 4 (len (batch_body le v content)) ++ be_bytes 4 le)
      ++ be_bytes 1 v ++ tail) as Hsplit.
  { unfold batch_bytes. unfold batch_body at 2. unfold tail. by rewrite !app_assoc. }
  rewrite Hsplit. rewrite decide_False
    by (rewrite !length_app, !length_be_bytes; lia).
  unfold slice. rewrite drop_app_length' by (rewrite !length_app, !length_be_bytes; lia).
  rewrite take_app_length' by (rewrite !length_be_bytes; lia).
  rewrite be_val_be_bytes. change (8 * Z.of_nat 1) with 8.
  by rewrite wrap_signed_mod by (done || lia).
Qed.

Lemma decode_batch_header_spec mo body version rest info recs :
  in_signed 64 mo → len body ≤ i32_max →
  decode_batch_body version mo body = Ok (info, recs) →
  decode_batch_header_inner version (batch_bytes mo body ++ rest) = Ok ((info, recs), rest).
Proof.
  intros Hmo Hlen Hbody. unfold decode_batch_header_inner, batch_bytes.
  rewrite <- !app_assoc. decode_step (get_i64 _ (be_bytes 4 (len body) ++ body ++ rest) Hmo).
  decode_step (get_i32 _ (body ++ rest) (len_in_i32 _ Hlen)).
  pose proof (len_nonneg body). rewrite decide_False by lia.
  decode_step (try_get_bytes_app body rest). by rewrite Hbody.
Qed.

Lemma encode_attributes_range options r : in_signed 16 (encode_attributes options r).
Proof.
  unfold encode_attributes, in_signed.
  destruct (opt_compression options), (transactional r), (control r), (delete_horizon r);
    vm_compute; split; congruence.
Qed.

Lemma encode_attributes_decode options r :
  attributes_compression (encode_attributes options r) = Some (opt_compression options) ∧
  bit_set (encode_attributes options r) 3 = false ∧
  bit_set (encode_attributes options r) 4 = transactional r ∧
  bit_set (encode_attributes options r) 5 = control r ∧
  bit_set (encode_attributes options r) 6 = delete_horizon r.
Proof.
  unfold encode_attributes.
  destruct (opt_compression options), (transactional r), (control r), (delete_horizon r);
    vm_compute; auto.
Qed.

(** The header the decoder rebuilds for a batch of the encoder. *)
Definition encoded_info (options : RecordEncodeOptions) (first : KRecord) (mo mt bs n : Z) :
    BatchDecodeInfo := {|
  bi_record_count := n;
  bi_timestamp_type := Creation;
  bi_min_offset := mo;
  bi_min_timestamp := mt;
  bi_base_sequence := bs;
  bi_transactional := transactional first;
  bi_control := control first;
  bi_delete_horizon := delete_horizon first;
  bi_partition_leader_epoch := partition_leader_epoch first;
  bi_producer_id := producer_id first;
  bi_producer_epoch := producer_epoch first;
  bi_compression := opt_compression options;
  bi_version := opt_version options
|}.

Lemma same_batch_spec first r :
  same_batch first r = true →
  transactional r = transactional first ∧ control r = control first ∧
  delete_horizon r = delete_horizon first ∧
  partition_leader_epoch r = partition_leader_epoch first ∧
  producer_id r = producer_id first ∧ producer_epoch r = producer_epoch first ∧
  wrap_signed 32 (wrap_signed 32 (offset r) - sequence r) =
    wrap_signed 32 (wrap_signed 32 (offset first) - sequence first).
Proof. unfold same_batch. rewrite !andb_true_iff, !bool_decide_eq_true. tauto. Qed.

Lemma same_batch_refl first : same_batch first first = true.
Proof. unfold same_batch. by rewrite !bool_decide_true. Qed.

(** The sequence number follows from the offset. *)
Lemma decoded_sequence first r mo :
  in_signed 32 (sequence r) →
  wrap_signed 32 (wrap_signed 32 (offset r) - sequence r) =
    wrap_signed 32 (wrap_signed 32 (offset first) - sequence first) →
  wrap_signed 32
    (wrap_signed 32 (sequence first - wrap_signed 32 (wrap_signed 64 (offset first - mo)))
      + wrap_signed 64 (offset r - mo)) = sequence r.
Proof.
  intros Hr Heq.
  destruct (wrap_signed_congr 32 (offset r) ltac:(lia)) as [k1 E1].
  destruct (wrap_signed_congr 32 (offset first) ltac:(lia)) as [k2 E2].
  rewrite E1, E2 in Heq.
  destruct (wrap_signed_congr 32 (offset r + k1 * 2 ^ 32 - sequence r) ltac:(lia)) as [k3 E3].
  destruct (wrap_signed_congr 32 (offset first + k2 * 2 ^ 32 - sequence first) ltac:(lia))
    as [k4 E4].
  rewrite E3, E4 in Heq.
  destruct (wrap_signed_congr 64 (offset first - mo) ltac:(lia)) as [k5 E5].
  destruct (wrap_signed_congr 64 (offset r - mo) ltac:(lia)) as [k6 E6].
  rewrite E5, E6.
  destruct (wrap_signed_congr 32 (offset first - mo + k5 * 2 ^ 64) ltac:(lia)) as [k7 E7].
  rewrite E7.
  destruct (wrap_signed_congr 32
    (sequence first - (offset first - mo + k5 * 2 ^ 64 + k7 * 2 ^ 32)) ltac:(lia)) as [k8 E8].
  rewrite E8.
  apply (wrap_signed_unique 32 _ (k1 + k3 - k2 - k4 + k5 * 2 ^ 32 + k7 - k8 - k6 * 2 ^ 32));
    [lia|done|].
  change (2 ^ 64) with (2 ^ 32 * 2 ^ 32) in *. lia.
Qed.

Lemma decoded_delta (x m : Z) :
  in_signed 64 x → wrap_signed 64 (m + wrap_signed 64 (x - m)) = x.
Proof.
  intros Hx. destruct (wrap_signed_congr 64 (x - m) ltac:(lia)) as [k ->].
  apply (wrap_signed_unique 64 _ (- k)); [lia|done|lia].
Qed.

Lemma decoded_record_same options first r mo mt n :
  record_typed r → timestamp_type r = Creation → same_batch first r = true →
  decoded_record (encoded_info options first mo mt
    (wrap_signed 32 (sequence first - wrap_signed 32 (wrap_signed 64 (offset first - mo)))) n)
    r mo mt = r.
Proof.
  intros (_ & _ & _ & Ho & Hs & Ht & _) Htt (Htr & Hc & Hdh & Hle & Hpid & Hpe & Hseq)%same_batch_spec.
  unfold decoded_record, encoded_info. simpl.
  rewrite !decoded_delta, (decoded_sequence first r) by done. destruct r; simpl in *. by subst.
Qed.

Lemma min_of_range w x l : in_signed w x → Forall (in_signed w) l → in_signed w (min_of x l).
Proof.
  unfold min_of. intros Hx Hl. revert x Hx. induction Hl as [|y l Hy _ IH]; intros x Hx; [done|].
  simpl. apply IH. unfold in_signed in *. lia.
Qed.

Lemma max_of_range w x l : in_signed w x → Forall (in_signed w) l → in_signed w (max_of x l).
Proof.
  unfold max_of. intros Hx Hl. revert x Hx. induction Hl as [|y l Hy _ IH]; intros x Hx; [done|].
  simpl. apply IH. unfold in_signed in *. lia.
Qed.

Lemma take_while_prefix {A : Type} (p : A → bool) (l : list A) :
  take (length (take_while p l)) l = take_while p l.
Proof. induction l as [|x l IH]; [done|]. simpl. destruct (p x); [|done]. simpl. by rewrite IH. Qed.

Lemma take_while_all {A : Type} (p : A → bool) (l : list A) :
  Forall (λ x, p x = true) (take_while p l).
Proof. induction l as [|x l IH]; simpl; [done|]. destruct (p x) eqn:Hp; [by constructor|done]. Qed.

(** The records of the first batch of a list. *)
Definition first_batch (first : KRecord) (others : list KRecord) : list KRecord :=
  first :: take_while (same_batch first) others.

Lemma list_fmap_id' {A : Type} (f : A → A) (l : list A) :
  (∀ x, x ∈ l → f x = x) → f <$> l = l.
Proof.
  induction l as [|x l IH]; intros Hf; [done|]. cbn [fmap list_fmap].
  rewrite Hf by left. f_equal. apply IH. intros y Hy. apply Hf. by right.
Qed.

Lemma first_batch_take first others :
  take (S (length (take_while (same_batch first) others))) (first :: others)
  = first_batch first others.
Proof. unfold first_batch. cbn [take]. by rewrite take_while_prefix. Qed.

Lemma first_batch_same first others :
  Forall (λ r, same_batch first r = true) (first_batch first others).
Proof. constructor; [apply same_batch_refl|apply take_while_all]. Qed.

Definition records_typed (rs : list KRecord) : Prop :=
  Forall (λ r, record_typed r ∧ timestamp_type r = Creation) rs.

Lemma first_batch_typed first others :
  records_typed (first :: others) → records_typed (first_batch first others).
Proof.
  intros [Hf Ho]%Forall_cons. constructor; [done|].
  rewrite <- take_while_prefix. by apply Forall_take.
Qed.

Lemma records_typed_range (rs : list KRecord) :
  records_typed rs →
  Forall (in_signed 64) (offset <$> rs) ∧ Forall (in_signed 64) (timestamp <$> rs).
Proof.
  intros Hrs. split; apply Forall_fmap; (eapply Forall_impl; [exact Hrs|]);
    intros r [(_ & _ & _ & ? & _ & ? & _) _]; done.
Qed.

Lemma slice_suffix (first last : nat) (p s : list byte) :
  length p = first → last = (first + length s)%nat → slice first last (p ++ s) = s.
Proof.
  intros <- ->. unfold slice. rewrite drop_app_length. apply take_ge. lia.
Qed.

(** Back-patching the two gaps of a batch gives the layout [batch_bytes]. *)
Lemma fill_batch_gaps (buf pre content : list byte) (mo le ver : Z) (size : Z) :
  pre = buf ++ be_bytes 8 mo →
  let b1 := pre ++ replicate 4 Byte.x00 in
  let b2 := (b1 ++ be_bytes 4 le) ++ be_bytes 1 ver in
  let b3 := b2 ++ replicate 4 Byte.x00 in
  let out := b3 ++ content in
  size = Z.of_nat (length out - length b1) →
  let filled := fill_gap (mkGap (length pre) 4) size out in
  fill_gap (mkGap (length b2) 4) (crc32c (slice (length b3) (length out) filled)) filled
  = buf ++ batch_bytes mo (batch_body le ver content)
  ∧ size = len (batch_body le ver content).
Proof.
  intros Hpre b1 b2 b3 out Hsize filled.
  assert (size = len (batch_body le ver content)) as Hlen.
  { subst size. unfold out, b3, b2, batch_body, len.
    rewrite !length_app, !length_replicate, !length_be_bytes. lia. }
  split; [|done].
  set (c2 := pre ++ be_bytes 4 size ++ be_bytes 4 le ++ be_bytes 1 ver).
  assert (filled = c2 ++ replicate 4 Byte.x00 ++ content) as Hfilled.
  { unfold filled, out, b3, b2, b1, c2. rewrite <- !app_assoc.
    by rewrite fill_gap_at. }
  assert (length b2 = length c2) as Hb2.
  { unfold b2, b1, c2. rewrite !length_app, !length_be_bytes, !length_replicate. lia. }
  assert (slice (length b3) (length out) filled = content) as ->.
  { rewrite Hfilled, app_assoc. apply slice_suffix.
    - unfold b3. by rewrite !length_app, Hb2.
    - unfold out. by rewrite length_app. }
  rewrite Hb2, Hfilled, fill_gap_at by done.
  unfold c2, batch_bytes. rewrite Hlen. unfold batch_body at 3. rewrite Hpre.
  by rewrite <- !app_assoc.
Qed.

(** What a lossless codec appends decodes to the records. *)
Lemma encode_batch_records_spec compression codec batch mo mt buf buf' :
  Forall record_typed batch → len batch ≤ i32_max →
  builtin compression = Some codec → Lossless codec →
  encode_batch_records compression None batch mo mt buf = Ok buf' →
  ∃ recs, buf' = buf ++ recs ∧
    ∀ info, fst <$> decompress codec (decode_new_records (length batch) info) recs
      = Ok ((λ r, decoded_record info r mo mt) <$> batch).
Proof.
  intros Hb Hn Hcodec Hloss. unfold encode_batch_records. rewrite Hcodec.
  intros ([[] out] & Hc & [= <-])%result_bind_Ok.
  eapply (lossless _ (λ bytes, len bytes ≤ len batch * (5 + i32_max) ∧
    ∀ info rest, decode_new_records (length batch) info (bytes ++ rest)
      = Ok ((λ r, decoded_record info r mo mt) <$> batch, rest)))
    in Hc as (bytes & recs & [Hlen Hdec] & -> & Hdecompress).
  - exists recs. split; [done|]. intros info. rewrite Hdecompress.
    + rewrite <- (app_nil_r bytes), Hdec. done.
    + pose proof (len_nonneg batch). unfold i32_max, usize_max in *. nia.
  - intros b [] b' (out' & Hout & [= <-])%result_bind_Ok.
    apply records_encode_spec in Hout as (bytes & -> & ? & ?); [eauto|done].
Qed.

(** What [encode_new_batch] appends, and what it leaves in the iterator. *)
Lemma encode_batch_spec first others options codec buf more left_ buf' :
  let batch := first_batch first others in
  records_typed (first :: others) → builtin (opt_compression options) = Some codec →
  Lossless codec →
  encode_new_batch (first :: others) options None buf = Ok (more, left_, buf') →
  more = true ∧ left_ = drop (length batch) (first :: others) ∧ len batch ≤ i32_max ∧
  ∃ mo mt xt ld recs body,
    body = batch_body (partition_leader_epoch first) (opt_version options)
      (batch_content (encode_attributes options first) ld mt xt (producer_id first)
        (producer_epoch first) (wrap_signed 32
          (sequence first - wrap_signed 32 (wrap_signed 64 (offset first - mo))))
        (len batch) recs) ∧
    in_signed 64 mo ∧ in_signed 64 mt ∧ in_signed 64 xt ∧ in_signed 32 ld ∧
    buf' = buf ++ batch_bytes mo body ∧ len body ≤ i32_max ∧
    ∀ info, fst <$> decompress codec (decode_new_records (length batch) info) recs
      = Ok ((λ r, decoded_record info r mo mt) <$> batch).
Proof.
  intros batch Hrs Hc Hloss. pose proof (first_batch_typed _ _ Hrs) as Hb. fold batch in Hb.
  apply Forall_cons in Hrs as [[Hft _] _].
  destruct Hft as (_ & _ & _ & Hfo & _ & Hfts & _).
  destruct (records_typed_range _ Hb) as [Ho Ht].
  unfold encode_new_batch. rewrite first_batch_take. fold batch.
  change (S (length (take_while (same_batch first) others))) with (length batch).
  set (mo := min_of (offset first) (offset <$> batch)).
  set (xo := max_of (offset first) (offset <$> batch)).
  set (mt := min_of (timestamp first) (timestamp <$> batch)).
  set (xt := max_of (timestamp first) (timestamp <$> batch)).
  assert (in_signed 64 mo) by (by apply min_of_range).
  assert (in_signed 64 mt) by (by apply min_of_range).
  assert (in_signed 64 xt) by (by apply max_of_range).
  set (bs := wrap_signed 32 (sequence first - _)).
  set (ld := wrap_signed 32 (wrap_signed 64 (xo - mo))).
  assert (in_signed 32 ld) by (apply wrap_signed_range; lia).
  cbn [encode Int64 Int32 Int16 Int8 simple_int put_gap].
  unfold mbind at 1, result_bind at 1. cbn beta iota.
  unfold put_gap. cbn beta iota. unfold mbind, result_bind.
  change (Z.of_nat (length batch)) with (len batch). case_decide; [done|].
  destruct (encode_batch_records _ _ batch mo mt _) as [out|] eqn:Hout; [|done].
  eapply encode_batch_records_spec in Hout as (recs & -> & Hdec); [|..|exact Hc|done].
  2: { eapply Forall_impl; [exact Hb|]. by intros ? []. }
  2: lia.
  set (content := batch_content (encode_attributes options first) ld mt xt (producer_id first)
    (producer_epoch first) bs (len batch) recs).
  set (b1 := put_int 8 mo buf ++ replicate 4 Byte.x00).
  set (b2 := put_int 1 (opt_version options) (put_int 4 (partition_leader_epoch first) b1)).
  set (b3 := b2 ++ replicate 4 Byte.x00).
  set (out := put_int 4 _ _ ++ recs).
  assert (out = b3 ++ content) as ->.
  { unfold out, put_int at 1 2 3 4 5 6 7 8, content, batch_content. by rewrite <- !app_assoc. }
  set (size := Z.of_nat _).
  edestruct (fill_batch_gaps buf (buf ++ be_bytes 8 mo) content mo
    (partition_leader_epoch first) (opt_version options) size) as [Hfill Hsize]; [done..|].
  case_decide as Hbig; [done|]. intros Hok.
  assert (more = true ∧ left_ = drop (length batch) (first :: others) ∧
    buf' = buf ++ batch_bytes mo (batch_body (partition_leader_epoch first)
      (opt_version options) content)) as (-> & -> & ->).
  { rewrite <- Hfill. unfold put_int in Hok. by inversion Hok. }
  split_and!; [done..|lia|].
  exists mo, mt, xt, ld, recs, (batch_body (partition_leader_epoch first) (opt_version options) content).
  split_and!; [done..|lia|done].
Qed.

(** A batch of the encoder decodes to its records. *)
Lemma encode_batch_decode first others options codec buf more left_ buf' :
  records_typed (first :: others) → builtin (opt_compression options) = Some codec →
  Lossless codec → opt_version options = 2 →
  encode_new_batch (first :: others) options None buf = Ok (more, left_, buf') →
  more = true ∧ left_ = drop (length (first_batch first others)) (first :: others) ∧
  ∃ bytes, buf' = buf ++ bytes ∧ bytes ≠ [] ∧
    ∀ rest, decode_record_set (bytes ++ rest)
      = Ok (mkRecordSet (opt_compression options) 2 (first_batch first others), rest).
Proof.
  intros Hrs Hc Hloss Hv Henc.
  eapply encode_batch_spec in Henc
    as (-> & -> & Hn & mo & mt & xt & ld & recs & body & Hbody & Hmo & Hmt & Hxt & Hld & -> & Hlen & Hdec);
    [|done..].
  split_and!; [done..|]. exists (batch_bytes mo body). split_and!; [done| |].
  { unfold batch_bytes. by destruct (be_bytes 8 mo) eqn:He. }
  intros rest. pose proof (first_batch_typed _ _ Hrs) as Hb.
  apply Forall_cons in Hrs as [[(Hle & Hpid & Hpe & _) _] _].
  set (batch := first_batch first others) in *.
  set (bs := wrap_signed 32 (sequence first - _)) in *.
  pose proof (encode_attributes_decode options first) as (Hac & H3 & H4 & H5 & H6).
  pose proof (decode_batch_body_spec 2 mo (partition_leader_epoch first)
    (encode_attributes options first) ld mt xt (producer_id first) (producer_epoch first) bs
    (len batch) recs _ Hle ltac:(width) (encode_attributes_range _ _) Hld Hmt Hxt Hpid Hpe
    (wrap_signed_range 32 _ ltac:(lia)) (len_in_i32 _ Hn) (len_nonneg _) Hac) as Hinfo.
  rewrite Hv in Hbody. rewrite <- Hbody, H3, H4, H5, H6 in Hinfo.
  pose proof (decode_batch_header_spec _ _ _ rest _ _ Hmo Hlen Hinfo) as Hheader.
  assert (decode_new_batch 2 None (batch_bytes mo body ++ rest) = Ok ((opt_compression options, batch), rest))
    as Hnew.
  { unfold decode_new_batch. decode_step Hheader. cbn [bi_compression bi_record_count].
    rewrite Hc. unfold len. rewrite Nat2Z.id. unfold on_slice.
    set (info := mkBatchDecodeInfo _ _ _ _ _ _ _ _ _ _ _ _ _).
    specialize (Hdec info). destruct (decompress _ _ _) as [[rs' rest']|]; [|done].
    apply (f_equal (λ r, match r with Ok l => l | Err _ => [] end)) in Hdec.
    change (rs' = (λ r, decoded_record info r mo mt) <$> batch) in Hdec.
    rewrite Hdec. subst info.
    unfold lift, mbind, decoder_bind, mret, decoder_ret. repeat f_equal.
    apply list_fmap_id'. intros r Hr.
    destruct (proj1 (Forall_forall _ _) Hb r Hr).
    pose proof (proj1 (Forall_forall _ _) (first_batch_same first others) r Hr).
    rewrite <- (decoded_record_same options first r mo mt (len batch)) at 2;
      [|auto..]. by rewrite <- Hv. }
  assert (decode_into_vec None (batch_bytes mo body ++ rest)
      = Ok ((2, opt_compression options, batch), rest))
    as Hvec.
  { unfold decode_into_vec.
    decode_step (peek_version_batch mo body 2 rest _ _ Hbody ltac:(width)).
    rewrite decide_False, decide_True by lia. by decode_step Hnew. }
  unfold decode_record_set, decode_with_custom_compression. by decode_step Hvec.
Qed.
End batch_roundtrip.

(** ** The whole record set *)

Section record_sets.
  Context `{Crc32c} `{Features}.

(** Upper bounds of the encoded sizes. *)
Definition nullable_weight (v : option (list byte)) : Z :=
  5 + match v with Some s => len s | None => 0 end.
Definition header_weight (h : list byte * option (list byte)) : Z :=
  5 + len h.1 + nullable_weight h.2.
Definition sum_list_Z (l : list Z) : Z := foldr Z.add 0 l.
Definition record_weight (r : KRecord) : Z :=
  26 + nullable_weight (key r) + nullable_weight (value r)
  + sum_list_Z (header_weight <$> headers r).
Definition records_weight (rs : list KRecord) : Z := sum_list_Z (record_weight <$> rs).

Lemma nullable_weight_pos v : 5 ≤ nullable_weight v.
Proof. unfold nullable_weight. destruct v as [s|]; [pose proof (len_nonneg s)|]; lia. Qed.

Lemma headers_weight_len hs : len hs ≤ sum_list_Z (header_weight <$> hs) ∧
  Forall (λ h, header_weight h ≤ sum_list_Z (header_weight <$> hs)) hs.
Proof.
  induction hs as [|h hs [Hl Hf]]; [done|]. cbn [fmap list_fmap sum_list_Z foldr].
  fold (sum_list_Z (header_weight <$> hs)).
  pose proof (nullable_weight_pos h.2). pose proof (len_nonneg h.1). pose proof (len_nonneg hs).
  assert (10 ≤ header_weight h) by (unfold header_weight; lia).
  rewrite len_cons. split; [lia|]. constructor; [lia|].
  eapply Forall_impl; [exact Hf|]. simpl. intros. lia.
Qed.

Lemma record_weight_pos r : 36 ≤ record_weight r.
Proof.
  unfold record_weight. pose proof (nullable_weight_pos (key r)).
  pose proof (nullable_weight_pos (value r)).
  pose proof (len_nonneg (headers r)). pose proof (headers_weight_len (headers r)). lia.
Qed.

Lemma opt_weight_wf v : nullable_weight v ≤ i32_max → opt_all bytes_wf v.
Proof. unfold nullable_weight, opt_all, bytes_wf. destruct v; [lia|done]. Qed.

Lemma record_weight_sizes r mo :
  in_signed 32 (wrap_signed 64 (offset r - mo)) → record_weight r ≤ i32_max → sizes_ok r mo.
Proof.
  intros Ho Hw. unfold record_weight in Hw.
  pose proof (nullable_weight_pos (key r)). pose proof (nullable_weight_pos (value r)).
  destruct (headers_weight_len (headers r)) as [Hl Hf]. pose proof (len_nonneg (headers r)).
  split_and!; [done|apply opt_weight_wf; lia|apply opt_weight_wf; lia|lia|].
  eapply Forall_impl; [exact Hf|]. intros [k v] Hh.
  change (header_weight (k, v)) with (5 + len k + nullable_weight v) in Hh. cbn [fst snd].
  pose proof (nullable_weight_pos v). pose proof (len_nonneg k).
  split; [unfold bytes_wf; lia|apply opt_weight_wf; lia].
Qed.

Lemma size_nullable_weight message v t :
  opt_all bytes_wf v → ∃ n, size_nullable message v t = Ok n ∧ n ≤ t + nullable_weight v.
Proof.
  unfold nullable_weight. destruct v as [s|]; cbn [size_nullable opt_all].
  - unfold bytes_wf. intros Hs. rewrite decide_False by lia.
    pose proof (VarInt_size_bound (len s) _ eq_refl).
    eexists. split; [reflexivity|]. lia.
  - intros _. eexists. split; [reflexivity|].
    pose proof (VarInt_size_bound (-1) _ eq_refl). lia.
Qed.

Lemma size_headers_weight hs t :
  Forall (λ h, bytes_wf h.1 ∧ opt_all bytes_wf h.2) hs →
  ∃ n, size_headers hs t = Ok n ∧ n ≤ t + sum_list_Z (header_weight <$> hs).
Proof.
  intros Hhs. revert t. induction Hhs as [|[k v] hs [Hk Hv] _ IH]; intros t.
  - exists t. simpl. split; [done|lia].
  - cbn [size_headers fst snd] in *. unfold bytes_wf in Hk. rewrite decide_False by lia.
    set (size := compute_size VarInt (len k)).
    destruct size as [a|] eqn:Ha; [|done]. apply VarInt_size_bound in Ha.
    rewrite (result_bind_eq _ _ _ eq_refl).
    destruct (size_nullable_weight "Record header value was too large to encode" v
      (t + a + len k) Hv) as (n & Hn & Hle). rewrite (result_bind_eq _ _ _ Hn).
    destruct (IH n) as (m & -> & Hm). exists m. split; [done|].
    cbn [fmap list_fmap sum_list_Z foldr]. fold (sum_list_Z (header_weight <$> hs)).
    unfold header_weight at 1. cbn [fst snd]. lia.
Qed.

Lemma compute_size_weight r mo mt :
  sizes_ok r mo → ∃ size, compute_size_new r mo mt = Ok size ∧ size ≤ record_weight r - 5.
Proof.
  intros (Ho & Hk & Hv & Hn & Hh). unfold compute_size_new, record_weight.
  change (compute_size Int8 0) with (@Ok anyhow Z 1). rewrite (result_bind_eq _ _ _ eq_refl).
  set (ts := compute_size VarLong _). destruct ts as [a|] eqn:Ha; [|done].
  apply VarLong_size_bound in Ha. rewrite (result_bind_eq _ _ _ eq_refl).
  set (od := wrap_signed 64 _) in *.
  rewrite decide_False by (unfold in_signed in Ho; simpl in Ho; unfold i32_max, i32_min; lia).
  destruct (compute_size VarInt od) as [b|] eqn:Hb; [|done].
  apply VarInt_size_bound in Hb. rewrite (result_bind_eq _ _ _ eq_refl).
  destruct (size_nullable_weight "Record key was too large to encode" _ (1 + a + b) Hk)
    as (n1 & Hn1 & ?). rewrite (result_bind_eq _ _ _ Hn1).
  destruct (size_nullable_weight "Record value was too large to encode" _ n1 Hv)
    as (n2 & Hn2 & ?). rewrite (result_bind_eq _ _ _ Hn2).
  rewrite decide_False by lia.
  destruct (compute_size VarInt (len (headers r))) as [c|] eqn:Hc; [|done].
  apply VarInt_size_bound in Hc. rewrite (result_bind_eq _ _ _ eq_refl).
  destruct (size_headers_weight _ (n2 + c) Hh) as (n3 & -> & ?).
  exists n3. split; [done|lia].
Qed.

Lemma records_weight_cons r rs : records_weight (r :: rs) = record_weight r + records_weight rs.
Proof. done. Qed.

Lemma records_weight_len rs : len rs ≤ records_weight rs.
Proof.
  induction rs as [|r rs IH]; [done|]. rewrite records_weight_cons, len_cons.
  pose proof (record_weight_pos r). lia.
Qed.

Lemma records_weight_app rs rs' :
  records_weight (rs ++ rs') = records_weight rs + records_weight rs'.
Proof.
  induction rs as [|r rs IH]; [done|]. cbn [app]. rewrite !records_weight_cons. lia.
Qed.

Lemma encode_records_ok rs mo mt buf :
  Forall record_typed rs → Forall (λ r, in_signed 32 (wrap_signed 64 (offset r - mo))) rs →
  records_weight rs ≤ i32_max →
  ∃ out, encode_new_records rs mo mt buf = Ok out ∧ len out ≤ len buf + records_weight rs.
Proof.
  intros Hrs. revert buf. induction Hrs as [|r rs Hr _ IH]; intros buf Hd Hw.
  - exists buf. simpl. split; [done|]. unfold records_weight. simpl. lia.
  - apply Forall_cons in Hd as [Hdr Hd]. rewrite records_weight_cons in *.
    pose proof (records_weight_len rs). pose proof (len_nonneg rs). pose proof (record_weight_pos r).
    destruct (compute_size_weight r mo mt) as (size & Hs & Hle).
    { apply record_weight_sizes; [done|lia]. }
    destruct (record_encode_spec r mo mt size Hr Hs ltac:(lia)) as (rb & He & Hlen & _).
    destruct (IH (buf ++ rb) Hd ltac:(lia)) as (out & Hout & Hl).
    exists out. cbn [encode_new_records]. rewrite (result_bind_eq _ _ _ (He buf)).
    split; [done|]. rewrite len_app in Hl. lia.
Qed.

Lemma min_of_spec x l : min_of x l ≤ x ∧ Forall (λ y, min_of x l ≤ y) l ∧
  (min_of x l = x ∨ min_of x l ∈ l).
Proof.
  unfold min_of. revert x. induction l as [|y l IH]; intros x; simpl; [split_and!; auto; lia|].
  destruct (IH (Z.min x y)) as (Hle & Hall & Hin). split_and!; [lia| |].
  - constructor; [lia|done].
  - destruct Hin as [->|Hin]; [|right; by right].
    destruct (Z.min_spec x y) as [[_ ->]|[_ ->]]; [by left|right; left].
Qed.

(** Offsets within the reach of a 32-bit delta. *)
Definition offsets_close (rs : list KRecord) : Prop :=
  ∀ r r', r ∈ rs → r' ∈ rs → offset r - offset r' ≤ i32_max.

Lemma offsets_close_delta rs first r :
  offsets_close rs → first ∈ rs → r ∈ rs →
  in_signed 32 (wrap_signed 64 (offset r - min_of (offset first) (offset <$> rs))).
Proof.
  intros Hc Hf Hr. destruct (min_of_spec (offset first) (offset <$> rs)) as (_ & Hall & Hin).
  assert (min_of (offset first) (offset <$> rs) ≤ offset r) as Hmin.
  { rewrite Forall_fmap, Forall_forall in Hall. by apply (Hall r). }
  assert (∃ r', r' ∈ rs ∧ min_of (offset first) (offset <$> rs) = offset r')
    as (r' & Hr' & Heq).
  { destruct Hin as [->|(r' & -> & Hr')%list_elem_of_fmap]; eauto. }
  rewrite Heq in *. pose proof (Hc r r' Hr Hr').
  rewrite wrap_signed_small; unfold in_signed, i32_max in *; simpl; lia.
Qed.

Lemma first_batch_drop first others :
  first_batch first others ++ drop (length (first_batch first others)) (first :: others)
  = first :: others.
Proof.
  assert (first_batch first others = take (length (first_batch first others)) (first :: others))
    as Heq.
  { unfold first_batch at 2. cbn [length]. by rewrite first_batch_take. }
  rewrite Heq at 1. apply take_drop.
Qed.

Lemma encode_batch_ok first others options buf :
  records_typed (first :: others) → opt_compression options = CNone →
  offsets_close (first :: others) → 49 + records_weight (first :: others) ≤ i32_max →
  ∃ left_ buf', encode_new_batch (first :: others) options None buf = Ok (true, left_, buf').
Proof.
  intros Hrs Hc Hclose Hw.
  pose proof (first_batch_typed _ _ Hrs) as Hb.
  pose proof (first_batch_drop first others) as Hsplit.
  assert (records_weight (first_batch first others) ≤ records_weight (first :: others)) as Hwb.
  { rewrite <- Hsplit, records_weight_app.
    pose proof (records_weight_len (drop (length (first_batch first others)) (first :: others))).
    pose proof (len_nonneg (drop (length (first_batch first others)) (first :: others))). lia. }
  assert (offsets_close (first_batch first others)) as Hcb.
  { intros r r' Hr Hr'. apply Hclose; rewrite <- Hsplit; apply elem_of_app; auto. }
  unfold encode_new_batch. rewrite first_batch_take.
  change (S (length (take_while (same_batch first) others)))
    with (length (first_batch first others)).
  set (batch := first_batch first others) in *.
  pose proof (records_weight_len batch). cbn [encode Int64 Int32 Int16 Int8 simple_int].
  unfold encode_batch_records, mbind, result_bind, put_gap. cbn beta iota. rewrite Hc.
  cbn [builtin compress Compress.none]. unfold none_compress.
  rewrite decide_False by (unfold len in *; lia).
  set (buf1 := put_int 4 (Z.of_nat _) _). set (mo := min_of _ _). set (mt := min_of _ _).
  destruct (encode_records_ok batch mo mt buf1) as (out & -> & Hout).
  - eapply Forall_impl; [exact Hb|]. by intros ? [].
  - apply Forall_forall. intros r Hr. apply offsets_close_delta; [done|left|done].
  - lia.
  - cbn [snd]. rewrite decide_False; [by eauto|].
    unfold buf1, put_int, len in *. rewrite !length_app, !length_be_bytes, !length_replicate in *.
    lia.
Qed.

Lemma encode_new_loop_ok fuel rs options buf :
  (length rs < fuel)%nat → records_typed rs → opt_compression options = CNone →
  offsets_close rs → 49 + records_weight rs ≤ i32_max →
  ∃ buf', encode_new_loop fuel rs options None buf = Some (Ok buf').
Proof.
  revert rs buf. induction fuel as [|fuel IH]; intros rs buf Hf Hrs Hc Hclose Hw; [lia|].
  cbn [encode_new_loop]. destruct rs as [|first others]; [by eauto|].
  destruct (encode_batch_ok first others options buf) as (left_ & buf1 & Hb); [done..|].
  rewrite Hb. destruct (encode_batch_spec first others options Compress.none buf true left_ buf1 Hrs)
    as (_ & -> & _); [by rewrite Hc|apply _|done|].
  pose proof (first_batch_drop first others) as Hsplit.
  set (batch := first_batch first others) in *. apply IH; [| |done| |].
  - rewrite length_drop. unfold batch. cbn [length first_batch] in *. lia.
  - by apply Forall_drop.
  - intros r r' Hr Hr'. apply Hclose; rewrite <- Hsplit; apply elem_of_app; auto.
  - rewrite <- Hsplit, records_weight_app in Hw.
    pose proof (records_weight_len batch). pose proof (len_nonneg batch). lia.
Qed.

(** The loop of the encoder ends: every batch takes a record. *)
Lemma encode_new_loop_total fuel rs options comp buf :
  (length rs < fuel)%nat → ∃ r, encode_new_loop fuel rs options comp buf = Some r.
Proof.
  revert rs buf. induction fuel as [|fuel IH]; intros rs buf Hf; [lia|].
  cbn [encode_new_loop].
  destruct (encode_new_batch rs options comp buf) as [[[[|] left_] buf']|] eqn:Hb; [|by eauto..].
  apply IH. destruct rs as [|first others]; [done|].
  unfold encode_new_batch in Hb. revert Hb. unfold put_gap.
  cbn [encode Int64 Int32 Int16 Int8 simple_int]. unfold mbind, result_bind. cbn beta iota.
  case_decide; [done|]. case_match; [|done]. case_decide; [done|].
  intros Hb. assert (left_ = drop (S (length (take_while (same_batch first) others))) (first :: others))
    as -> by congruence.
  rewrite length_drop. cbn [length] in *. lia.
Qed.

Lemma encode_decode_loop fuel rs options codec buf buf' :
  records_typed rs → builtin (opt_compression options) = Some codec → Lossless codec →
  opt_version options = 2 →
  encode_new_loop fuel rs options None buf = Some (Ok buf') →
  ∃ bytes sets, buf' = buf ++ bytes ∧ concat (rs_records <$> sets) = rs ∧
    Forall (λ s, rs_compression s = opt_compression options ∧ rs_version s = 2) sets ∧
    ∀ fuel' acc, (length bytes ≤ fuel')%nat →
      decode_all_loop fuel' acc bytes = Some (Ok (acc ++ sets)).
Proof.
  revert rs buf. induction fuel as [|fuel IH]; intros rs buf Hrs Hc Hloss Hv; [done|].
  cbn [encode_new_loop]. destruct rs as [|first others].
  { intros [= <-]. exists [], []. rewrite app_nil_r. split_and!; [done..|].
    intros fuel' acc _. rewrite app_nil_r. by destruct fuel'. }
  destruct (encode_new_batch _ _ _ _) as [[[more left_] buf1]|] eqn:Hb; [|done].
  destruct (encode_batch_decode _ _ _ _ _ _ _ _ Hrs Hc Hloss Hv Hb)
    as (-> & -> & bytes & -> & Hne & Hdec). intros Hloop.
  destruct (IH _ _ (Forall_drop _ _ _ Hrs) Hc Hloss Hv Hloop)
    as (bs & sets & -> & Hcat & Hall & Hloop').
  exists (bytes ++ bs),
    (mkRecordSet (opt_compression options) 2 (first_batch first others) :: sets).
  split_and!.
  - by rewrite app_assoc.
  - cbn [fmap list_fmap concat rs_records]. by rewrite Hcat, first_batch_drop.
  - by constructor.
  - intros fuel' acc Hf. rewrite length_app in Hf.
    destruct bytes as [|b bytes]; [done|]. cbn [length] in Hf.
    destruct fuel' as [|fuel']; [lia|]. specialize (Hdec bs). cbn [app] in *.
    cbn [decode_all_loop]. rewrite Hdec, Hloop' by lia. by rewrite <- app_assoc.
Qed.

(** Without its feature a codec is refused. *)
Lemma unsupported_codec_refused fuel first others options buf r :
  builtin (opt_compression options) = None →
  encode_new_loop fuel (first :: others) options None buf = Some r → is_ok r = false.
Proof.
  intros Hc. destruct fuel as [|fuel]; [done|]. cbn [encode_new_loop].
  destruct (encode_new_batch _ _ _ _) as [[[more left_] buf']|] eqn:Hb; [|by intros [= <-]].
  exfalso. revert Hb. unfold encode_new_batch, encode_batch_records, put_gap. rewrite Hc.
  cbn [encode Int64 Int32 Int16 Int8 simple_int]. unfold mbind, result_bind. cbn beta iota.
  by case_decide.
Qed.

(** ** The loops of the decoder end *)

Lemma header_consumes version buf header rest :
  decode_batch_header_inner version buf = Ok (header, rest) → (length rest + 12 ≤ length buf)%nat.
Proof.
  intros (mo & b1 & Hmo & (n & b2 & Hn & Hrest)%decoder_bind_inv)%decoder_bind_inv.
  case_decide; [done|].
  apply decoder_bind_inv in Hrest as (bs & b3 & Hbs & Hlift).
  apply try_get_bytes_inv in Hbs as [-> _]; [|lia].
  apply (try_get_int_inv 8) in Hmo as (x & -> & Hx & _).
  apply (try_get_int_inv 4) in Hn as (y & -> & Hy & _).
  unfold lift in Hlift. destruct (decode_batch_body version mo bs); [|done].
  injection Hlift as _ <-. rewrite !length_app. lia.
Qed.

Lemma decode_record_set_consumes buf s rest :
  decode_record_set buf = Ok (s, rest) → (length rest < length buf)%nat.
Proof.
  unfold decode_record_set, decode_with_custom_compression, decode_into_vec.
  intros (v & b1 & Hv & Hret)%decoder_bind_inv. destruct v as [[version comp] rs].
  injection Hret as _ <-. apply decoder_bind_inv in Hv as (ver & b2 & Hpeek & Hv).
  assert (b2 = buf) as ->.
  { unfold peek_version in Hpeek. by destruct (try_peek_bytes _ _ _); simplify_eq. }
  case_decide; [done|]. case_decide; [|done].
  apply decoder_bind_inv in Hv as ([c rs'] & b3 & Hnew & Hret). injection Hret as _ _ _ ->.
  unfold decode_new_batch in Hnew.
  apply decoder_bind_inv in Hnew as ([info recs] & b4 & Hh & Hnew).
  apply header_consumes in Hh.
  destruct (builtin (bi_compression info)) as [codec|]; [|done].
  unfold on_slice, lift, mbind, decoder_bind in Hnew.
  destruct (decompress codec _ recs) as [[? ?]|]; [|done]. injection Hnew as _ _ <-. lia.
Qed.

Lemma decode_all_loop_total fuel acc buf :
  (length buf ≤ fuel)%nat → ∃ r, decode_all_loop fuel acc buf = Some r.
Proof.
  revert acc buf. induction fuel as [|fuel IH]; intros acc buf Hf.
  - destruct buf; [by eexists|simpl in Hf; lia].
  - destruct buf as [|b buf]; [by eexists|]. cbn [decode_all_loop].
    destruct (decode_record_set (b :: buf)) as [[s rest]|] eqn:Hd; [|by eexists].
    apply decode_record_set_consumes in Hd. apply IH. lia.
Qed.

Lemma decode_batch_info_loop_total fuel acc buf :
  (length buf ≤ fuel)%nat → ∃ r, decode_batch_info_loop fuel acc buf = Some r.
Proof.
  revert acc buf. induction fuel as [|fuel IH]; intros acc buf Hf.
  - destruct buf; [by eexists|simpl in Hf; lia].
  - destruct buf as [|b buf]; [by eexists|]. cbn [decode_batch_info_loop].
    destruct (peek_version (b :: buf)) as [[v rest]|]; [|by eexists].
    case_decide; [by eexists|].
    destruct (decode_batch_header_inner v (b :: buf)) as [[[h recs] rest']|] eqn:Hd; [|by eexists].
    apply header_consumes in Hd. apply IH. lia.
Qed.

Lemma decode_batch_info_total buf : ∃ r, decode_batch_info buf = Some r.
Proof. by apply decode_batch_info_loop_total. Qed.

(** ** Properties *)

(** C10: whatever record set the encoder is given, it terminates; and when it
    accepts the records (format version 2, any compression whose codec is
    compiled in and lossless), the bytes it appends decode, batch by batch, to
    exactly those records in their order: offsets, sequence numbers and
    timestamps included, for all 64-bit values.  A compression that is not
    compiled in is refused. *)
Theorem encode_decode_records (rs : list KRecord) (compression : Compression) (buf : list byte) :
  records_typed rs → (∀ codec, builtin compression = Some codec → Lossless codec) →
  ∃ r, encode_record_set rs {| opt_version := 2; opt_compression := compression |} buf = Some r ∧
    (builtin compression = None → rs ≠ [] → is_ok r = false) ∧
    ∀ buf', r = Ok buf' →
      ∃ bytes sets, buf' = buf ++ bytes ∧ decode_all bytes = Some (Ok sets) ∧
        concat (rs_records <$> sets) = rs ∧
        Forall (λ s, rs_compression s = compression ∧ rs_version s = 2) sets.
Proof.
  intros Hrs Hloss. unfold encode_record_set, encode_with_custom_compression.
  cbn [opt_version]. rewrite decide_False, decide_True by lia.
  set (options := {| opt_version := 2; opt_compression := compression |}).
  destruct (encode_new_loop_total (S (length rs)) rs options None buf) as [r Hr]; [lia|].
  exists r. split; [done|]. destruct (builtin compression) as [codec|] eqn:Hc.
  - split; [done|]. intros buf' ->.
    eapply encode_decode_loop in Hr as (bytes & sets & -> & Hcat & Hall & Hdec); [|eauto..].
    exists bytes, sets. split_and!; [done| |done..]. by apply (Hdec _ []).
  - destruct rs as [|first others].
    + split; [done|]. injection Hr as <-. intros buf' [= <-]. exists [], [].
      by rewrite app_nil_r.
    + assert (is_ok r = false) as Hno
        by exact (unsupported_codec_refused _ _ _ options _ _ Hc Hr).
      split; [done|]. by intros buf' ->.
Qed.

(** The encoder accepts every record set whose offsets lie within a 32-bit
    span and whose records weigh less than a 2 GiB batch; and the bytes it
    appends decode to the records. *)
Theorem encode_accepts (rs : list KRecord) (buf : list byte) :
  records_typed rs → offsets_close rs → 49 + records_weight rs ≤ i32_max →
  ∃ bytes sets,
    encode_record_set rs {| opt_version := 2; opt_compression := CNone |} buf
      = Some (Ok (buf ++ bytes)) ∧
    decode_all bytes = Some (Ok sets) ∧ concat (rs_records <$> sets) = rs.
Proof.
  intros Hrs Hclose Hw. unfold encode_record_set, encode_with_custom_compression.
  cbn [opt_version]. rewrite decide_False, decide_True by lia.
  set (options := {| opt_version := 2; opt_compression := CNone |}).
  destruct (encode_new_loop_ok (S (length rs)) rs options buf) as [buf' Hr]; [lia|done..|].
  pose proof Hr as Hr'.
  apply (encode_decode_loop _ _ _ Compress.none) in Hr'
    as (bytes & sets & -> & Hcat & _ & Hdec); [|done|done|apply _|done].
  exists bytes, sets. split_and!; [done| |done]. by apply (Hdec _ []).
Qed.

(** C39: on every byte string the decoding loops terminate: [decode_all] and the
    header scan [decode_batch_info] return a value or an error, because every
    batch they read consumes its twelve-byte prefix. *)
Theorem decoders_total (buf : list byte) :
  (∃ r, decode_all buf = Some r) ∧ (∃ r, decode_batch_info buf = Some r).
Proof. split; [by apply decode_all_loop_total|by apply decode_batch_info_loop_total]. Qed.
End record_sets.

(** ** A concrete CRC-32C and a record set for the witnesses *)

Definition crc32c_bit (crc : Z) : Z :=
  Z.lxor (Z.shiftr crc 1) (if Z.testbit crc 0 then 0x82F63B78 else 0).
Definition crc32c_byte (crc : Z) (b : byte) : Z :=
  Nat.iter 8 crc32c_bit (Z.lxor crc (u8 b)).
Definition crc32c_bitwise (bs : list byte) : Z :=
  wrap_unsigned 32 (Z.lnot (fold_left crc32c_byte bs u32_max)).

Lemma crc32c_bitwise_u32 bs : in_unsigned 32 (crc32c_bitwise bs).
Proof. unfold crc32c_bitwise, in_unsigned, wrap_unsigned. by apply Z.mod_pos_bound. Qed.

#[local] Instance crc32c_instance : Crc32c := {|
  crc32c := crc32c_bitwise; crc32c_u32 := crc32c_bitwise_u32
|}.

(** The check value of the algorithm: CRC-32C of the ASCII digits 1 to 9. *)
Example crc32c_check_value :
  crc32c (byte_of_Z <$> [0x31; 0x32; 0x33; 0x34; 0x35; 0x36; 0x37; 0x38; 0x39]) = 0xE3069283.
Proof. vm_compute. reflexivity. Qed.

Definition sample_record (off seq : Z) (tx : bool) : KRecord := {|
  transactional := tx; control := false; delete_horizon := false;
  partition_leader_epoch := -1; producer_id := 7; producer_epoch := 0;
  timestamp_type := Creation; offset := off; sequence := seq; timestamp := 1000 - off;
  key := None; value := Some [Byte.x61; Byte.x62]; headers := [([Byte.x6b], None)]
|}.

Definition sample_records : list KRecord :=
  [sample_record 5 2 false; sample_record 4 1 false; sample_record 6 3 true].

Lemma sample_records_typed : records_typed sample_records.
Proof.
  repeat constructor; cbn -[Z.pow]; try lia; set_solver.
Qed.

Lemma sample_records_close : offsets_close sample_records.
Proof.
  intros r r'. unfold sample_records. rewrite !elem_of_cons. unfold i32_max.
  intros [->|[->|[->|?%elem_of_nil]]] [->|[->|[->|?%elem_of_nil]]]; simpl; (lia || done).
Qed.

(** A build with the feature [snappy], over a library that stores its input. *)
Definition snappy_build : Features := {|
  feature_snappy := Some (@snappy stored_snap);
  feature_gzip := None; feature_lz4 := None; feature_zstd := None
|}.

Lemma encode_decode_records_witness :
  records_typed sample_records ∧
  ∃ r, @encode_record_set _ snappy_build sample_records
      {| opt_version := 2; opt_compression := Snappy |} [] = Some r ∧ is_ok r = true.
Proof.
  split; [exact sample_records_typed|].
  destruct (@encode_decode_records _ snappy_build sample_records Snappy [] sample_records_typed)
    as (r & Hr & _).
  { intros codec Hc. assert (codec = @snappy stored_snap) as -> by (cbn in Hc; congruence).
    apply snappy_is_lossless. }
  exists r. split; [exact Hr|].
  assert (is_ok <$> @encode_record_set _ snappy_build sample_records
    {| opt_version := 2; opt_compression := Snappy |} [] = Some true) as Hok
    by (vm_compute; reflexivity).
  rewrite Hr in Hok. simpl in Hok. congruence.
Defined.

Lemma encode_accepts_witness :
  ∃ bytes sets,
    encode_record_set sample_records {| opt_version := 2; opt_compression := CNone |} []
      = Some (Ok ([] ++ bytes)) ∧
    decode_all bytes = Some (Ok sets) ∧ concat (rs_records <$> sets) = sample_records.
Proof.
  apply (encode_accepts sample_records []).
  - exact sample_records_typed.
  - exact sample_records_close.
  - vm_compute. discriminate.
Defined.

(** The encoder never writes the timestamp-type bit: a record marked
    [LogAppend] comes back as [Creation], all its other fields unchanged. *)
Theorem encode_drops_log_append :
  let r := {|
    transactional := false; control := false; delete_horizon := false;
    partition_leader_epoch := -1; producer_id := -1; producer_epoch := -1;
    timestamp_type := LogAppend; offset := 0; sequence := 0; timestamp := 1000;
    key := None; value := Some [Byte.x61]; headers := [] |} in
  ∃ bytes r', encode_record_set [r] {| opt_version := 2; opt_compression := CNone |} []
      = Some (Ok bytes) ∧
    decode_all bytes = Some (Ok [mkRecordSet CNone 2 [r']]) ∧
    timestamp_type r' = Creation ∧ timestamp r' = timestamp r ∧ offset r' = offset r ∧
    value r' = value r.
Proof. do 2 eexists. split_and!; [vm_compute; reflexivity..|done|done|done|done]. Qed.
