(* ===== verification/Partition.v ===== *)
(** * The partition log

    [src/src/broker/partition.rs]: validation of produced record sets, the
    in-memory log with its offset assignment, the idempotent-producer state
    (expected sequence, the window of the five most recent appends) and
    size-bounded fetches.  [PartitionLogInner] is the state behind the mutex;
    every operation takes the lock once, so an interleaving of clients is a
    sequence of these operations.

    [None] is a panic (an index out of range, or the [debug_assert_eq!] of
    [fetch]) or an exhausted loop; the theorems show it never happens. *)

From S2P Require Import Prelude Buf Types Records.

Module Partition.

(* @ src/src/broker/partition.rs 11-11 FIXED_BATCH_SIZE *)
Definition FIXED_BATCH_SIZE : nat := 61.
(* @ src/src/broker/partition.rs 12-12 BATCH_LENGTH_OFFSET *)
Definition BATCH_LENGTH_OFFSET : nat := 8.
(* @ src/src/broker/partition.rs 13-13 MAGIC_OFFSET *)
Definition MAGIC_OFFSET : nat := 16.
(* @ src/src/broker/partition.rs 14-14 CRC_OFFSET *)
Definition CRC_OFFSET : nat := 17.
(* @ src/src/broker/partition.rs 15-15 LAST_OFFSET_DELTA_OFFSET *)
Definition LAST_OFFSET_DELTA_OFFSET : nat := 23.
(* @ src/src/broker/partition.rs 16-16 RECORD_COUNT_OFFSET *)
Definition RECORD_COUNT_OFFSET : nat := 57.
(* @ src/src/broker/partition.rs 17-17 RECENT_APPEND_LIMIT *)
Definition RECENT_APPEND_LIMIT : nat := 5.
(* @ src/src/broker/partition.rs 18-18 SEQUENCE_MODULUS *)
Definition SEQUENCE_MODULUS : Z := i32_max + 1.

(* @ src/src/broker/partition.rs 21-27 AppendError *)
Inductive AppendError : Type :=
| Malformed | UnsupportedBatch | OffsetOverflow | OutOfOrderSequence | DuplicateSequence.

(* @ src/src/broker/partition.rs 44-46 FetchError *)
Inductive FetchError : Type := OutOfRange.

(* @ src/src/broker/partition.rs 57-62 AppendResult *)
Record AppendResult : Type := mkAppendResult {
  ar_base_offset : Z;
  ar_last_offset : Z;
  ar_record_count : Z;
  ar_appended : bool
}.

(* @ src/src/broker/partition.rs 65-68 RecordSetProducer *)
Record RecordSetProducer : Type := mkRecordSetProducer {
  rsp_producer_id : Z;
  rsp_producer_epoch : Z
}.

(* @ src/src/broker/partition.rs 71-74 FetchSnapshot *)
Record FetchSnapshot : Type := mkFetchSnapshot {
  fs_records : list byte;
  fs_high_watermark : Z
}.

(* @ src/src/broker/partition.rs 104-108 RetryFingerprint *)
Record RetryFingerprint : Type := mkRetryFingerprint {
  rf_batch_length : Z;
  rf_record_count : Z;
  rf_crc : Z
}.

(* @ src/src/broker/partition.rs 96-101 RecentAppend *)
Record RecentAppend : Type := mkRecentAppend {
  ra_base_sequence : Z;
  ra_fingerprints : list RetryFingerprint;
  ra_encoded_batches : list (list byte);
  ra_result : AppendResult
}.

(* @ src/src/broker/partition.rs 89-93 ProducerPartitionState *)
Record ProducerPartitionState : Type := mkProducerPartitionState {
  ps_producer_epoch : Z;
  ps_next_sequence : Z;
  ps_recent : list RecentAppend
}.

(* @ src/src/broker/partition.rs 111-116 StoredBatch *)
Record StoredBatch : Type := mkStoredBatch {
  sb_base_offset : Z;
  sb_last_offset : Z;
  sb_record_count : Z;
  sb_bytes : list byte
}.

(* @ src/src/broker/partition.rs 119-127 ValidatedBatch *)
Record ValidatedBatch : Type := mkValidatedBatch {
  vb_batch_length : Z;
  vb_record_count : Z;
  vb_producer_id : Z;
  vb_producer_epoch : Z;
  vb_base_sequence : Z;
  vb_crc : Z;
  vb_bytes : list byte
}.

(* @ src/src/broker/partition.rs 82-86 PartitionLogInner *)
Record PartitionLogInner : Type := mkPartitionLogInner {
  next_offset : Z;
  batches : list StoredBatch;
  producer_states : gmap Z ProducerPartitionState
}.

(** [PartitionLog::default()]. *)
(* @ src/src/broker/partition.rs 76-86 PartitionLog *)
Definition empty_log : PartitionLogInner := mkPartitionLogInner 0 [] ∅.

#[global] Instance AppendError_eq_dec : EqDecision AppendError.
Proof. solve_decision. Defined.
#[global] Instance AppendResult_eq_dec : EqDecision AppendResult.
Proof. solve_decision. Defined.
#[global] Instance RetryFingerprint_eq_dec : EqDecision RetryFingerprint.
Proof. solve_decision. Defined.

(** ** Sequence numbers *)

(* @ src/src/broker/partition.rs 316-318 next_sequence *)
Definition next_sequence (base_sequence record_count : Z) : Z :=
  wrap_signed 32 (Z.rem (base_sequence + record_count) SEQUENCE_MODULUS).

(* @ src/src/broker/partition.rs 307-314 classify_sequence_mismatch *)
Definition classify_sequence_mismatch (received expected : Z) : AppendError :=
  let forward_distance := (received - expected) mod SEQUENCE_MODULUS in
  if decide (forward_distance < SEQUENCE_MODULUS / 2) then OutOfOrderSequence
  else DuplicateSequence.

(* @ src/src/broker/partition.rs 293-305 validate_sequences *)
Fixpoint validate_sequences (validated : list ValidatedBatch) (expected : Z) :
    result AppendError () :=
  match validated with
  | [] => Ok ()
  | batch :: validated =>
      if decide (vb_base_sequence batch ≠ expected) then
        Err (classify_sequence_mismatch (vb_base_sequence batch) expected)
      else validate_sequences validated (next_sequence expected (vb_record_count batch))
  end.

(** ** Validation of a record set *)

Section validation.
  Context `{Crc32c}.

Definition be_i32 (bs : list byte) : Z := wrap_signed 32 (be_val bs).

(** [matches!(info.base_sequence, NO_SEQUENCE | 0)] and the conditions around it. *)
(* @ src/src/broker/partition.rs 362-371 validate_record_set *)
Definition valid_producer_fields (info : BatchDecodeInfo) : bool :=
  let non_idempotent :=
    bool_decide (bi_producer_id info = NO_PRODUCER_ID) &&
    bool_decide (bi_producer_epoch info = NO_PRODUCER_EPOCH) &&
    (bool_decide (bi_base_sequence info = NO_SEQUENCE) ||
     bool_decide (bi_base_sequence info = 0)) in
  let idempotent :=
    bool_decide (bi_producer_id info ≠ NO_PRODUCER_ID) &&
    bool_decide (0 ≤ bi_producer_epoch info) && bool_decide (0 ≤ bi_base_sequence info) in
  non_idempotent || idempotent.

(** The checks of one batch, once its bytes are cut out of the record set. *)
(* @ src/src/broker/partition.rs 347-402 validate_record_set *)
Definition validate_batch (encoded_batch_length : Z) (batch : list byte) :
    outcome AppendError ValidatedBatch :=
  let! magic := batch !! MAGIC_OFFSET in
  if decide (u8 magic ≠ 2) then raise UnsupportedBatch
  else
    let! decoded := decode_batch_info batch in
    match decoded with
    | Err _ => raise Malformed
    | Ok (infos, decode_input) =>
        if decide (decode_input ≠ [] ∨ length infos ≠ 1%nat) then raise Malformed
        else
          let! info := infos !! 0%nat in
          if bi_transactional info || bi_control info then raise UnsupportedBatch
          else if negb (valid_producer_fields info) then raise Malformed
          else
            let last_offset_delta :=
              be_i32 (slice LAST_OFFSET_DELTA_OFFSET (LAST_OFFSET_DELTA_OFFSET + 4) batch) in
            let record_count :=
              be_i32 (slice RECORD_COUNT_OFFSET (RECORD_COUNT_OFFSET + 4) batch) in
            if decide (record_count ≤ 0 ∨ bi_record_count info ≠ record_count
                       ∨ last_offset_delta ≠ record_count - 1)
            then raise Malformed
            else value_of {|
              vb_batch_length := encoded_batch_length;
              vb_record_count := record_count;
              vb_producer_id := bi_producer_id info;
              vb_producer_epoch := bi_producer_epoch info;
              vb_base_sequence := bi_base_sequence info;
              vb_crc := be_val (slice CRC_OFFSET (CRC_OFFSET + 4) batch);
              vb_bytes := batch
            |}
    end.

(** [while position < records.len()]: an iteration advances by at least
    [FIXED_BATCH_SIZE], so the length of the record set is enough fuel. *)
(* @ src/src/broker/partition.rs 325-404 validate_record_set *)
Fixpoint validate_loop (fuel : nat) (records : list byte) (position : nat)
    (validated : list ValidatedBatch) : outcome AppendError (list ValidatedBatch) :=
  if decide (length records ≤ position)%nat then value_of validated
  else
    match fuel with
    | O => None
    | S fuel =>
        let remaining := drop position records in
        if decide (length remaining < FIXED_BATCH_SIZE)%nat then raise Malformed
        else
          let encoded_batch_length :=
            be_i32 (slice BATCH_LENGTH_OFFSET (BATCH_LENGTH_OFFSET + 4) remaining) in
          match try_unsigned encoded_batch_length with
          | None => raise Malformed
          | Some batch_length =>
              match checked_add usize_max 12 batch_length with
              | None => raise Malformed
              | Some total_length =>
                  let total_length := Z.to_nat total_length in
                  if decide (total_length < FIXED_BATCH_SIZE ∨ length remaining < total_length)%nat
                  then raise Malformed
                  else
                    let batch := slice position (position + total_length) records in
                    let? v := validate_batch encoded_batch_length batch in
                    validate_loop fuel records (position + total_length) (validated ++ [v])
              end
          end
    end.

(* @ src/src/broker/partition.rs 320-414 validate_record_set *)
Definition validate_record_set (records : list byte) :
    outcome AppendError (list ValidatedBatch) :=
  if decide (records = []) then raise Malformed
  else
    let? validated := validate_loop (length records) records 0 [] in
    let! first := head validated in
    if existsb (λ batch,
         bool_decide (vb_producer_id batch ≠ vb_producer_id first) ||
         bool_decide (vb_producer_epoch batch ≠ vb_producer_epoch first)) validated
    then raise Malformed
    else value_of validated.

Definition batch_producer (first : ValidatedBatch) : option RecordSetProducer :=
  if decide (vb_producer_id first ≠ NO_PRODUCER_ID) then
    Some (mkRecordSetProducer (vb_producer_id first) (vb_producer_epoch first))
  else None.

(* @ src/src/broker/partition.rs 280-291 record_set_producer *)
Definition record_set_producer (records : list byte) :
    outcome AppendError (option RecordSetProducer) :=
  let? validated := validate_record_set records in
  let! first := head validated in
  value_of (batch_producer first).

(** ** Append *)

(** [try_fold(0_i32, checked_add)]. *)
(* @ src/src/broker/partition.rs 132-136 PartitionLog::append *)
Fixpoint sum_record_counts (total : Z) (validated : list ValidatedBatch) :
    result AppendError Z :=
  match validated with
  | [] => Ok total
  | batch :: validated =>
      match checked_add i32_max total (vb_record_count batch) with
      | Some total => sum_record_counts total validated
      | None => Err OffsetOverflow
      end
  end.

(* @ src/src/broker/partition.rs 143-150 PartitionLog::append *)
Definition fingerprint (batch : ValidatedBatch) : RetryFingerprint :=
  mkRetryFingerprint (vb_batch_length batch) (vb_record_count batch) (vb_crc batch).

(** What the producer state says of an append: a retry answered from the
    window, or an append to go on with. *)
Inductive sequence_check : Type :=
| Replay (r : AppendResult)
| Proceed (next_sequence : option Z).

(* @ src/src/broker/partition.rs 165-169 PartitionLog::append *)
Definition is_retry (base_sequence : Z) (fingerprints : list RetryFingerprint)
    (encoded_batches : list (list byte)) (recent : RecentAppend) : bool :=
  bool_decide (ra_base_sequence recent = base_sequence) &&
  bool_decide (ra_fingerprints recent = fingerprints) &&
  bool_decide (ra_encoded_batches recent = encoded_batches).

(* @ src/src/broker/partition.rs 157-183 PartitionLog::append *)
Definition check_sequence (inner : PartitionLogInner) (producer : option RecordSetProducer)
    (base_sequence total_record_count : Z) (validated : list ValidatedBatch) :
    result AppendError sequence_check :=
  let fingerprints := fingerprint <$> validated in
  let encoded_batches := vb_bytes <$> validated in
  match producer with
  | None => Ok (Proceed None)
  | Some producer =>
      let go expected_sequence :=
        validate_sequences validated expected_sequence ≫= λ _,
        Ok (Proceed (Some (next_sequence base_sequence total_record_count))) in
      match producer_states inner !! rsp_producer_id producer with
      | Some state =>
          if decide (ps_producer_epoch state ≠ rsp_producer_epoch producer) then
            Err OutOfOrderSequence
          else
            match List.find (is_retry base_sequence fingerprints encoded_batches)
                    (ps_recent state) with
            | Some recent =>
                let r := ra_result recent in
                Ok (Replay (mkAppendResult (ar_base_offset r) (ar_last_offset r)
                  (ar_record_count r) false))
            | None => go (ps_next_sequence state)
            end
      | None =>
          if decide (base_sequence ≠ 0) then Err OutOfOrderSequence else go 0
      end
  end.

(** The loop that assigns offsets and patches them into the batches;
    [bytes[..8]] panics on a shorter batch. *)
(* @ src/src/broker/partition.rs 190-204 PartitionLog::append *)
Fixpoint store_batches (assigned_offset : Z) (validated : list ValidatedBatch) :
    option (list StoredBatch) :=
  match validated with
  | [] => Some []
  | batch :: validated =>
      let batch_last_offset := assigned_offset + vb_record_count batch - 1 in
      if decide (length (vb_bytes batch) < 8)%nat then None
      else
        let stored := mkStoredBatch assigned_offset batch_last_offset (vb_record_count batch)
          (be_bytes 8 assigned_offset ++ drop 8 (vb_bytes batch)) in
        let! rest := store_batches (batch_last_offset + 1) validated in
        Some (stored :: rest)
  end.

(** [while state.recent.len() >= RECENT_APPEND_LIMIT { pop_front }] leaves the
    last four entries; then the new one is pushed. *)
(* @ src/src/broker/partition.rs 225-233 PartitionLog::append *)
Definition push_recent (recent : list RecentAppend) (r : RecentAppend) : list RecentAppend :=
  drop (S (length recent) - RECENT_APPEND_LIMIT) recent ++ [r].

(* @ src/src/broker/partition.rs 215-234 PartitionLog::append *)
Definition record_producer (states : gmap Z ProducerPartitionState)
    (producer : RecordSetProducer) (next_seq : Z) (r : RecentAppend) :
    gmap Z ProducerPartitionState :=
  let state := default (mkProducerPartitionState (rsp_producer_epoch producer) next_seq [])
    (states !! rsp_producer_id producer) in
  <[rsp_producer_id producer :=
      mkProducerPartitionState (ps_producer_epoch state) next_seq
        (push_recent (ps_recent state) r)]> states.

(** The part of [append] that runs under the lock. *)
(* @ src/src/broker/partition.rs 156-237 PartitionLog::append *)
Definition append_locked (inner : PartitionLogInner) (validated : list ValidatedBatch)
    (first : ValidatedBatch) (total_record_count : Z) :
    option (result AppendError AppendResult * PartitionLogInner) :=
  let producer := batch_producer first in
  let base_sequence := vb_base_sequence first in
  match check_sequence inner producer base_sequence total_record_count validated with
  | Err e => Some (Err e, inner)
  | Ok (Replay r) => Some (Ok r, inner)
  | Ok (Proceed next_seq) =>
      let base_offset := next_offset inner in
      match checked_add i64_max base_offset total_record_count with
      | None => Some (Err OffsetOverflow, inner)
      | Some next =>
          let! stored := store_batches base_offset validated in
          let r := mkAppendResult base_offset (next - 1) total_record_count true in
          let states :=
            match producer, next_seq with
            | Some producer, Some next_seq =>
                record_producer (producer_states inner) producer next_seq
                  (mkRecentAppend base_sequence (fingerprint <$> validated)
                    (vb_bytes <$> validated) r)
            | _, _ => producer_states inner
            end in
          Some (Ok r, mkPartitionLogInner next (batches inner ++ stored) states)
      end
  end.

(* @ src/src/broker/partition.rs 130-237 PartitionLog::append *)
Definition append (inner : PartitionLogInner) (records : list byte) :
    option (result AppendError AppendResult * PartitionLogInner) :=
  match validate_record_set records with
  | None => None
  | Some (Err e) => Some (Err e, inner)
  | Some (Ok validated) =>
      match sum_record_counts 0 validated with
      | Err e => Some (Err e, inner)
      | Ok total => let! first := head validated in append_locked inner validated first total
      end
  end.
End validation.

(** ** Fetch *)

Fixpoint skip_while {A : Type} (p : A → bool) (l : list A) : list A :=
  match l with
  | [] => []
  | x :: l' => if p x then skip_while p l' else l
  end.

(** The loop over the batches; [None] is the failed [debug_assert_eq!]. *)
(* @ src/src/broker/partition.rs 249-267 PartitionLog::fetch *)
Fixpoint fetch_loop (partition_max_bytes : Z) (records : list byte) (bs : list StoredBatch) :
    option (list byte) :=
  match bs with
  | [] => Some records
  | batch :: bs =>
      if decide (sb_last_offset batch - sb_base_offset batch + 1 = sb_record_count batch) then
        let exceeds_limit :=
          match checked_add usize_max (len records) (len (sb_bytes batch)) with
          | None => true
          | Some size => bool_decide (partition_max_bytes < size)
          end in
        if negb (bool_decide (records = [])) && exceeds_limit then Some records
        else fetch_loop partition_max_bytes (records ++ sb_bytes batch) bs
      else None
  end.

(* @ src/src/broker/partition.rs 239-273 PartitionLog::fetch *)
Definition fetch (inner : PartitionLogInner) (fetch_offset partition_max_bytes : Z) :
    outcome FetchError FetchSnapshot :=
  if decide (fetch_offset < 0 ∨ next_offset inner < fetch_offset) then raise OutOfRange
  else
    let! records := fetch_loop partition_max_bytes []
      (skip_while (λ batch, bool_decide (sb_last_offset batch < fetch_offset)) (batches inner)) in
    value_of (mkFetchSnapshot records (next_offset inner)).

(* @ src/src/broker/partition.rs 275-277 PartitionLog::next_offset *)
Definition log_next_offset (inner : PartitionLogInner) : Z := next_offset inner.

End Partition.
