(* ===== verification/PartitionCorrect.v ===== *)
(** * Correctness of the partition log

    The theorems about [Partition.v]: validation accepts exactly
    concatenations of well-formed batches and terminates; the log stays a
    contiguous sequence of batches from offset 0; appends assign consecutive
    offsets and never panic; the idempotent-producer window replays retries and
    keeps sequence numbers contiguous; a fetch returns whole batches from the
    requested offset, within the byte limit but always with progress; what is
    fetched is what was produced, apart from the assigned base offset. *)

From S2P Require Import Prelude Buf Types Records Partition.
Import Partition.

Module PartitionCorrect.

(** ** Validation of one batch *)

Section validation.
  Context `{Crc32c}.

Lemma try_get_int_eq (n : nat) (buf : list byte) :
  (n ≤ length buf)%nat →
  try_get_int n buf = Ok (wrap_signed (8 * Z.of_nat n) (be_val (take n buf)), drop n buf).
Proof.
  intros Hn. unfold try_get_int, mbind, decoder_bind, try_get_uint.
  by rewrite decide_False by lia.
Qed.

(** A batch cut out of a record set by its own length field. *)
Definition exact_batch (batch : list byte) : Prop :=
  (FIXED_BATCH_SIZE ≤ length batch)%nat ∧
  be_i32 (slice BATCH_LENGTH_OFFSET (BATCH_LENGTH_OFFSET + 4) batch) = len batch - 12.

Definition set_min_offset (mo : Z) (i : BatchDecodeInfo) : BatchDecodeInfo :=
  mkBatchDecodeInfo (bi_record_count i) (bi_timestamp_type i) mo (bi_min_timestamp i)
    (bi_base_sequence i) (bi_transactional i) (bi_control i) (bi_delete_horizon i)
    (bi_partition_leader_epoch i) (bi_producer_id i) (bi_producer_epoch i)
    (bi_compression i) (bi_version i).

(** The body's decoder only copies the base offset. *)
Lemma decode_batch_body_offset version mo mo' body :
  decode_batch_body version mo' body =
    match decode_batch_body version mo body with
    | Ok (info, recs) => Ok (set_min_offset mo' info, recs)
    | Err e => Err e
    end.
Proof.
  unfold decode_batch_body, mbind, decoder_bind, mret, decoder_ret, fail_decode, remaining_bytes.
  repeat (case_match; try done).
Qed.

Lemma peek_version_eq (batch : list byte) (magic : byte) :
  batch !! MAGIC_OFFSET = Some magic → u8 magic = 2 → peek_version batch = Ok (2, batch).
Proof.
  intros Hm H2. unfold peek_version, try_peek_bytes, MAGIC_BYTE_OFFSET.
  pose proof (lookup_lt_Some _ _ _ Hm) as Hlt. unfold MAGIC_OFFSET in *.
  rewrite decide_False by lia. unfold slice.
  rewrite (drop_S batch magic 16 Hm). cbn [take Nat.sub Nat.add be_val].
  rewrite H2. done.
Qed.

(** On an exact batch the header scan reads one header and nothing is left. *)
Lemma decode_batch_info_exact (batch : list byte) (magic : byte) :
  exact_batch batch → batch !! MAGIC_OFFSET = Some magic → u8 magic = 2 →
  decode_batch_info batch =
    Some (match decode_batch_body 2 (wrap_signed 64 (be_val (take 8 batch))) (drop 12 batch) with
          | Ok (info, _) => Ok ([info], [])
          | Err e => Err e
          end).
Proof.
  intros [Hlen Hbl] Hm H2. unfold FIXED_BATCH_SIZE in Hlen.
  assert (decode_batch_header_inner 2 batch =
    match decode_batch_body 2 (wrap_signed 64 (be_val (take 8 batch))) (drop 12 batch) with
    | Ok (info, recs) => Ok ((info, recs), []) | Err e => Err e end) as Hheader.
  { unfold decode_batch_header_inner.
    decode_step (try_get_int_eq 8 batch ltac:(lia)). change (8 * Z.of_nat 8) with 64.
    decode_step (try_get_int_eq 4 (drop 8 batch) ltac:(rewrite length_drop; lia)).
    change (wrap_signed (8 * Z.of_nat 4) (be_val (take 4 (drop 8 batch))))
      with (be_i32 (slice BATCH_LENGTH_OFFSET (BATCH_LENGTH_OFFSET + 4) batch)).
    rewrite Hbl. unfold len in *. rewrite decide_False by lia. rewrite drop_drop.
    change (8 + 4)%nat with 12%nat.
    assert (try_get_bytes (len batch - 12) (drop 12 batch) = Ok (drop 12 batch, [])) as Hget.
    { unfold try_get_bytes, len. rewrite length_drop, decide_False by lia.
      assert (length (drop 12 batch) ≤ Z.to_nat (Z.of_nat (length batch) - 12))%nat
        by (rewrite length_drop; lia).
      by rewrite take_ge, (drop_ge (drop 12 batch)) by done. }
    unfold len in Hget. decode_step Hget. unfold lift.
    by destruct (decode_batch_body _ _ _) as [[? ?]|]. }
  unfold decode_batch_info. pose proof (peek_version_eq batch magic Hm H2) as Hpeek.
  destruct batch as [|b batch]; [done|]. set (full := b :: batch) in *.
  change (length full) with (S (length batch)). unfold full at 1.
  cbn [decode_batch_info_loop]. fold full. rewrite Hpeek, decide_False by auto.
  rewrite Hheader. destruct (decode_batch_body _ _ _) as [[info recs]|]; [|done].
  by destruct (length batch).
Qed.

(** Replacing the eight bytes of the base offset. *)
Definition patch_offset (o : Z) (bytes : list byte) : list byte := be_bytes 8 o ++ drop 8 bytes.

Lemma length_patch_offset o bytes :
  (8 ≤ length bytes)%nat → length (patch_offset o bytes) = length bytes.
Proof. intros. unfold patch_offset. rewrite length_app, length_be_bytes, length_drop. lia. Qed.

Lemma drop_patch_offset n o bytes :
  (8 ≤ n)%nat → drop n (patch_offset o bytes) = drop n bytes.
Proof.
  intros Hn. unfold patch_offset. replace n with (8 + (n - 8))%nat by lia.
  rewrite <- !drop_drop. rewrite drop_app_length' by (by rewrite length_be_bytes). done.
Qed.

Lemma slice_patch_offset first last o bytes :
  (8 ≤ first)%nat → slice first last (patch_offset o bytes) = slice first last bytes.
Proof. intros. unfold slice. by rewrite drop_patch_offset. Qed.

Lemma lookup_patch_offset n o bytes :
  (8 ≤ n)%nat → patch_offset o bytes !! n = bytes !! n.
Proof.
  intros Hn. replace n with (n + 0)%nat by lia.
  by rewrite <- !lookup_drop, drop_patch_offset.
Qed.

Lemma exact_patch o bytes : exact_batch bytes → exact_batch (patch_offset o bytes).
Proof.
  unfold exact_batch, FIXED_BATCH_SIZE, BATCH_LENGTH_OFFSET, len. intros [Hl Hb].
  rewrite length_patch_offset by lia. by rewrite slice_patch_offset by lia.
Qed.

Definition patch_validated (o : Z) (v : ValidatedBatch) : ValidatedBatch :=
  mkValidatedBatch (vb_batch_length v) (vb_record_count v) (vb_producer_id v)
    (vb_producer_epoch v) (vb_base_sequence v) (vb_crc v) (patch_offset o (vb_bytes v)).

(** What a validated batch satisfies: it is exact and passes the checks. *)
Definition validated_ok (v : ValidatedBatch) : Prop :=
  exact_batch (vb_bytes v) ∧ vb_batch_length v = len (vb_bytes v) - 12 ∧
  validate_batch (vb_batch_length v) (vb_bytes v) = Some (Ok v).

(** Rewriting the base offset of a valid batch keeps it valid, with the same
    counts, producer and checksum. *)
Lemma validated_patch o v : validated_ok v → validated_ok (patch_validated o v).
Proof.
  intros (Hex & Hlen & Hv). pose proof (exact_patch o _ Hex) as Hex'.
  assert (8 ≤ length (vb_bytes v))%nat by (destruct Hex; unfold FIXED_BATCH_SIZE in *; lia).
  split_and!; [done| |].
  { cbn [patch_validated vb_batch_length vb_bytes]. unfold len in *.
    by rewrite length_patch_offset. }
  cbn [patch_validated vb_batch_length vb_bytes].
  revert Hv. unfold validate_batch.
  rewrite lookup_patch_offset, !slice_patch_offset
    by (unfold MAGIC_OFFSET, LAST_OFFSET_DELTA_OFFSET, RECORD_COUNT_OFFSET, CRC_OFFSET; lia).
  destruct (vb_bytes v !! MAGIC_OFFSET) as [magic|] eqn:Hm; [|done]. cbn [panic_bind].
  case_decide as H2; [done|].
  rewrite (decode_batch_info_exact _ magic Hex Hm H2).
  rewrite (decode_batch_info_exact _ magic Hex')
    by (rewrite ?lookup_patch_offset by (unfold MAGIC_OFFSET; lia); done).
  rewrite (decode_batch_body_offset 2 (wrap_signed 64 (be_val (take 8 (vb_bytes v)))) _
    (drop 12 (patch_offset o _))), drop_patch_offset by lia.
  destruct (decode_batch_body 2 _ (drop 12 (vb_bytes v))) as [[info recs]|]; [|done].
  cbn [panic_bind]. case_decide; [done|]. cbn [lookup list_lookup panic_bind].
  unfold valid_producer_fields. cbn.
  repeat (case_match; try done). intros [= <-]. done.
Qed.

Lemma be_i32_range bs : in_signed 32 (be_i32 bs).
Proof. apply wrap_signed_range. lia. Qed.

Lemma get_int_range n buf z rest :
  n ≠ O → try_get_int n buf = Ok (z, rest) → in_signed (8 * Z.of_nat n) z.
Proof.
  intros Hn (bs & _ & _ & ->)%try_get_int_inv. apply wrap_signed_range. lia.
Qed.

(** The base sequence read from a batch is a 32-bit integer. *)
Lemma decode_batch_body_range version mo body info recs :
  decode_batch_body version mo body = Ok (info, recs) →
  in_signed 32 (bi_base_sequence info) ∧ in_signed 64 (bi_producer_id info) ∧
  in_signed 16 (bi_producer_epoch info).
Proof.
  unfold decode_batch_body.
  intros (le & b1 & _ & (magic & b2 & _ & Hb)%decoder_bind_inv)%decoder_bind_inv.
  case_decide; [done|].
  apply decoder_bind_inv in Hb as (crc & b3 & _ & (content & b4 & _ & Hb)%decoder_bind_inv).
  case_decide; [done|]. apply decoder_bind_inv in Hb as (attrs & b5 & _ & Hb).
  destruct (attributes_compression attrs); [|done].
  apply decoder_bind_inv in Hb as (ld & b6 & _ & (mt & b7 & _ & (xt & b8 & _ &
    (pid & b9 & Hpid & (ep & b10 & Hep & (bs & b11 & Hbs &
    (n & b12 & _ & Hb)%decoder_bind_inv)%decoder_bind_inv)%decoder_bind_inv
    )%decoder_bind_inv)%decoder_bind_inv)%decoder_bind_inv).
  case_decide; [done|]. injection Hb as <- _. cbn.
  split_and!; [by apply (get_int_range 4) in Hbs|by apply (get_int_range 8) in Hpid
    |by apply (get_int_range 2) in Hep].
Qed.

(** The producer fields validation lets through. *)
Definition producer_fields_ok (v : ValidatedBatch) : Prop :=
  (vb_producer_id v = NO_PRODUCER_ID ∧ vb_producer_epoch v = NO_PRODUCER_EPOCH ∧
   (vb_base_sequence v = NO_SEQUENCE ∨ vb_base_sequence v = 0)) ∨
  (vb_producer_id v ≠ NO_PRODUCER_ID ∧ 0 ≤ vb_producer_epoch v ∧
   0 ≤ vb_base_sequence v < SEQUENCE_MODULUS).

Lemma validated_inv v :
  validated_ok v → 0 < vb_record_count v ≤ i32_max ∧ producer_fields_ok v ∧
    (FIXED_BATCH_SIZE ≤ length (vb_bytes v))%nat.
Proof.
  intros (Hex & Hlen & Hv). revert Hv. unfold validate_batch.
  destruct (vb_bytes v !! MAGIC_OFFSET) as [magic|] eqn:Hm; [|done]. cbn [panic_bind].
  case_decide as H2; [done|].
  rewrite (decode_batch_info_exact _ magic Hex Hm H2).
  destruct (decode_batch_body 2 _ _) as [[info recs]|] eqn:Hbody; [|done].
  apply decode_batch_body_range in Hbody as (Hbs & _ & _). cbn [panic_bind].
  case_decide; [done|]. cbn [lookup list_lookup panic_bind].
  destruct (bi_transactional info || bi_control info); [done|].
  destruct (valid_producer_fields info) eqn:Hp; [|done]. cbn [negb].
  set (count := be_i32 (slice RECORD_COUNT_OFFSET _ _)).
  assert (in_signed 32 count) as Hcount by apply be_i32_range.
  case_decide; [done|]. intros [= <-]. cbn. split_and!.
  - lia.
  - unfold in_signed, i32_max in *. simpl in *. lia.
  - unfold valid_producer_fields in Hp. unfold producer_fields_ok. cbn.
    unfold SEQUENCE_MODULUS, in_signed, i32_max in *. simpl in *.
    rewrite orb_true_iff, !andb_true_iff, orb_true_iff, !bool_decide_eq_true in Hp.
    destruct Hp as [[[? ?] ?]|[[? ?] ?]]; [by left|right]. split_and!; auto; lia.
  - apply Hex.
Qed.

Lemma validate_batch_bytes ebl batch v :
  validate_batch ebl batch = Some (Ok v) → vb_bytes v = batch ∧ vb_batch_length v = ebl.
Proof.
  unfold validate_batch. destruct (batch !! _); [|done]. cbn [panic_bind].
  case_decide; [done|]. destruct (decode_batch_info batch) as [[[infos rest]|]|]; [|done..].
  cbn [panic_bind]. case_decide; [done|]. destruct (infos !! 0%nat); [|done].
  cbn [panic_bind]. repeat (case_match; try done). by intros [= <-].
Qed.

Lemma validate_batch_total ebl batch :
  exact_batch batch → ∃ r, validate_batch ebl batch = Some r.
Proof.
  intros [Hlen _]. unfold FIXED_BATCH_SIZE in Hlen. unfold validate_batch.
  destruct (lookup_lt_is_Some_2 batch MAGIC_OFFSET) as [magic Hm]; [unfold MAGIC_OFFSET; lia|].
  rewrite Hm. cbn [panic_bind]. case_decide; [by eexists|].
  destruct (decode_batch_info_total batch) as [r ->]. cbn [panic_bind].
  destruct r as [[infos rest]|]; [|by eexists]. case_decide as Hone; [by eexists|].
  destruct infos as [|info infos]; [simpl in Hone; destruct Hone; by right|].
  cbn [lookup list_lookup panic_bind]. repeat (case_match; try by eexists).
Qed.

(** ** The layout of a batch *)

(** The big-endian signed integer of [size] bytes at [first]. *)
Definition int_field (first size : nat) (batch : list byte) : Z :=
  wrap_signed (8 * Z.of_nat size) (be_val (slice first (first + size) batch)).

(** A batch the broker accepts, by the layout of the version-2 format: base offset
    (0), length of the rest (8), leader epoch (12), magic (16), checksum of all
    that follows it (17), attributes (21: compression in the low three bits,
    transactional 4, control 5), last offset delta (23), timestamps (27, 35),
    producer id (43), producer epoch (51), base sequence (53), number of records
    (57), records (61). *)
Definition well_formed_batch (batch : list byte) : Prop :=
  61 ≤ len batch ∧ int_field 8 4 batch = len batch - 12 ∧
  batch !! 16%nat = Some Byte.x02 ∧
  be_val (slice 17 21 batch) = crc32c (drop 21 batch) ∧
  int_field 21 2 batch mod 8 ≤ 4 ∧
  Z.testbit (int_field 21 2 batch) 4 = false ∧ Z.testbit (int_field 21 2 batch) 5 = false ∧
  0 < int_field 57 4 batch ∧ int_field 23 4 batch = int_field 57 4 batch - 1 ∧
  let id := int_field 43 8 batch in
  let epoch := int_field 51 2 batch in
  let sequence := int_field 53 4 batch in
  (id = -1 ∧ epoch = -1 ∧ (sequence = -1 ∨ sequence = 0) ∨ id ≠ -1 ∧ 0 ≤ epoch ∧ 0 ≤ sequence).

(** What validation reads from a batch. *)
Definition batch_fields (batch : list byte) : ValidatedBatch := {|
  vb_batch_length := int_field 8 4 batch;
  vb_record_count := int_field 57 4 batch;
  vb_producer_id := int_field 43 8 batch;
  vb_producer_epoch := int_field 51 2 batch;
  vb_base_sequence := int_field 53 4 batch;
  vb_crc := be_val (slice 17 21 batch);
  vb_bytes := batch
|}.

Lemma get_field n first batch :
  (first + n ≤ length batch)%nat →
  try_get_int n (drop first batch) = Ok (int_field first n batch, drop (first + n) batch).
Proof.
  intros Hl. rewrite try_get_int_eq by (rewrite length_drop; lia). rewrite drop_drop.
  unfold int_field, slice. by replace (first + n - first)%nat with n by lia.
Qed.

Lemma get_unsigned_field n first batch :
  (first + n ≤ length batch)%nat →
  try_get_uint n (drop first batch) = Ok (be_val (slice first (first + n) batch), drop (first + n) batch).
Proof.
  intros Hl. unfold try_get_uint. rewrite length_drop, decide_False by lia. rewrite drop_drop.
  unfold slice. by replace (first + n - first)%nat with n by lia.
Qed.

(** The decoder of the header, on the layout. *)
Lemma decode_batch_body_fields mo batch :
  (61 ≤ length batch)%nat →
  decode_batch_body 2 mo (drop 12 batch) =
    if decide (int_field 16 1 batch ≠ 2) then Err (Bail "Version mismatch")
    else if decide (be_val (slice 17 21 batch) ≠ crc32c (drop 21 batch)) then
      Err (Bail "Cyclic redundancy check failed")
    else match attributes_compression (int_field 21 2 batch) with
      | None => Err (Bail "Unknown compression algorithm used")
      | Some compression =>
          if decide (int_field 57 4 batch < 0) then Err (Bail "Unexpected negative record count")
          else Ok ({|
            bi_record_count := int_field 57 4 batch;
            bi_timestamp_type := if bit_set (int_field 21 2 batch) 3 then LogAppend else Creation;
            bi_min_offset := mo;
            bi_min_timestamp := int_field 27 8 batch;
            bi_base_sequence := int_field 53 4 batch;
            bi_transactional := bit_set (int_field 21 2 batch) 4;
            bi_control := bit_set (int_field 21 2 batch) 5;
            bi_delete_horizon := bit_set (int_field 21 2 batch) 6;
            bi_partition_leader_epoch := int_field 12 4 batch;
            bi_producer_id := int_field 43 8 batch;
            bi_producer_epoch := int_field 51 2 batch;
            bi_compression := compression;
            bi_version := 2 |}, drop 61 batch)
      end.
Proof.
  intros Hl. unfold decode_batch_body.
  decode_step (get_field 4 12 batch ltac:(lia)). decode_step (get_field 1 16 batch ltac:(lia)).
  case_decide; [done|]. decode_step (get_unsigned_field 4 17 batch ltac:(lia)).
  change (17 + 4)%nat with 21%nat.
  decode_step (eq_refl : remaining_bytes (drop 21 batch) = Ok (drop 21 batch, drop 21 batch)).
  case_decide; [done|]. decode_step (get_field 2 21 batch ltac:(lia)).
  destruct (attributes_compression _); [|done].
  decode_step (get_field 4 23 batch ltac:(lia)). decode_step (get_field 8 27 batch ltac:(lia)).
  decode_step (get_field 8 35 batch ltac:(lia)). decode_step (get_field 8 43 batch ltac:(lia)).
  decode_step (get_field 2 51 batch ltac:(lia)). decode_step (get_field 4 53 batch ltac:(lia)).
  decode_step (get_field 4 57 batch ltac:(lia)). by case_decide.
Qed.

Lemma bit_set_testbit a k : 0 ≤ k → bit_set a k = Z.testbit a k.
Proof.
  intros Hk. unfold bit_set. destruct (Z.testbit a k) eqn:Hb.
  - rewrite bool_decide_false; [done|]. intros Hz. apply (f_equal (λ z, Z.testbit z k)) in Hz.
    rewrite Z.land_spec, Hb, Z.shiftl_spec, Z.sub_diag, Z.bits_0 in Hz by lia. done.
  - rewrite bool_decide_true; [done|]. apply Z.bits_inj'. intros n Hn.
    rewrite Z.land_spec, Z.bits_0, Z.shiftl_spec by lia.
    destruct (decide (n = k)) as [->|Hne]; [by rewrite Hb|].
    destruct (decide (n < k)); [by rewrite (Z.testbit_neg_r 1), andb_false_r by lia|].
    rewrite (Z.bits_above_log2 1) by (cbn; lia). apply andb_false_r.
Qed.

Lemma compression_known a : is_Some (attributes_compression a) ↔ a mod 8 ≤ 4.
Proof.
  unfold attributes_compression. change 7 with (Z.ones 3). rewrite Z.land_ones by lia. change (2 ^ 3) with 8.
  pose proof (Z.mod_pos_bound a 8 ltac:(lia)).
  assert (∃ k, (k < 8)%nat ∧ a mod 8 = Z.of_nat k) as (k & Hk & ->) by (exists (Z.to_nat (a mod 8)); lia).
  do 8 (destruct k as [|k]; [cbn; split; [intros [c Hc]; first [discriminate|lia]|intros ?; first [eexists; reflexivity|lia]]|]). lia.
Qed.

Lemma u8_two b : u8 b = 2 ↔ b = Byte.x02.
Proof. split; [|by intros ->]. destruct b; by intros [=]. Qed.

Lemma magic_field batch magic :
  batch !! MAGIC_OFFSET = Some magic → int_field 16 1 batch = wrap_signed 8 (u8 magic).
Proof.
  intros Hm. unfold int_field, slice, MAGIC_OFFSET in *. rewrite (drop_S batch magic 16 Hm). cbn [take Nat.sub Nat.add be_val].
  rewrite take_0. change (8 * Z.of_nat 1) with 8. change (2 ^ (8 * len [])) with 1. cbn [be_val].
  by rewrite Z.mul_1_r, Z.add_0_r.
Qed.

Lemma producer_fields_legal info :
  valid_producer_fields info = true ↔
  bi_producer_id info = -1 ∧ bi_producer_epoch info = -1 ∧
    (bi_base_sequence info = -1 ∨ bi_base_sequence info = 0) ∨
  bi_producer_id info ≠ -1 ∧ 0 ≤ bi_producer_epoch info ∧ 0 ≤ bi_base_sequence info.
Proof.
  unfold valid_producer_fields. rewrite orb_true_iff, !andb_true_iff, orb_true_iff, !bool_decide_eq_true.
  unfold NO_PRODUCER_ID, NO_PRODUCER_EPOCH, NO_SEQUENCE. tauto.
Qed.

(** The checks of a batch that was cut out by its length field. *)
Lemma validate_batch_layout ebl batch v :
  exact_batch batch →
  validate_batch ebl batch = Some (Ok v) ↔
    well_formed_batch batch ∧ v = mkValidatedBatch ebl (int_field 57 4 batch) (int_field 43 8 batch)
      (int_field 51 2 batch) (int_field 53 4 batch) (be_val (slice 17 21 batch)) batch.
Proof.
  intros Hex. pose proof Hex as [Hl Hlen]. unfold FIXED_BATCH_SIZE in Hl.
  change (int_field 8 4 batch = len batch - 12) in Hlen. unfold validate_batch, well_formed_batch.
  change (be_i32 (slice LAST_OFFSET_DELTA_OFFSET (LAST_OFFSET_DELTA_OFFSET + 4) batch)) with (int_field 23 4 batch).
  change (be_i32 (slice RECORD_COUNT_OFFSET (RECORD_COUNT_OFFSET + 4) batch)) with (int_field 57 4 batch).
  change (batch !! 16%nat) with (batch !! MAGIC_OFFSET).
  destruct (lookup_lt_is_Some_2 batch MAGIC_OFFSET) as [magic Hm]; [unfold MAGIC_OFFSET; lia|].
  rewrite Hm. cbn [panic_bind]. case_decide as H2.
  { split; [done|]. intros [(_ & _ & [= ->] & _) _]. by destruct H2. }
  apply u8_two in H2 as ->. rewrite (decode_batch_info_exact _ _ Hex Hm) by done.
  rewrite decode_batch_body_fields, (magic_field _ _ Hm) by done. rewrite decide_False by (vm_compute; auto).
  case_decide as Hcrc; [cbn; split; [done|]; intros [(_ & _ & _ & ? & _) _]; by destruct Hcrc|].
  pose proof (compression_known (int_field 21 2 batch)) as Hknown.
  destruct (attributes_compression _) as [compression|].
  2: { cbn. split; [done|]. intros [(_ & _ & _ & _ & Hc & _) _]. by apply Hknown in Hc as [? ?]. }
  case_decide as Hneg; [cbn; split; [done|]; intros [Hwf _]; naive_solver lia|]. cbn [panic_bind].
  rewrite decide_False by (intros [?|?]; done). cbn [lookup list_lookup panic_bind bi_transactional bi_control bi_record_count].
  rewrite !bit_set_testbit by lia.
  destruct (Z.testbit _ 4) eqn:H4; [cbn; split; [done|]; intros [(_ & _ & _ & _ & _ & ? & _) _]; congruence|].
  destruct (Z.testbit _ 5) eqn:H5; [cbn; split; [done|]; intros [(_ & _ & _ & _ & _ & _ & ? & _) _]; congruence|].
  cbn [orb]. set (info := mkBatchDecodeInfo _ _ _ _ _ _ _ _ _ _ _ _ _).
  pose proof (producer_fields_legal info) as Hlegal. cbn [bi_producer_id bi_producer_epoch bi_base_sequence] in Hlegal.
  destruct (valid_producer_fields info); cbn [negb].
  2: { split; [done|]. intros [(_ & _ & _ & _ & _ & _ & _ & _ & _ & Hp) _]. by apply Hlegal in Hp. }
  case_decide as Hcount; [split; [done|]; intros [Hwf _]; naive_solver lia|].
  split.
  - intros [= <-]. split; [|done]. split_and!; [unfold len; lia|done..|by apply Hknown; eexists|done|done|lia|lia|].
    by apply Hlegal.
  - intros [_ ->]. done.
Qed.

Lemma validated_well_formed v :
  validated_ok v ↔ well_formed_batch (vb_bytes v) ∧ v = batch_fields (vb_bytes v).
Proof.
  unfold validated_ok. split.
  - intros (Hex & Hlen & Hv). apply validate_batch_layout in Hv as [Hwf Hv]; [|done]. split; [done|].
    rewrite Hv at 1. unfold batch_fields. f_equal. rewrite Hlen. symmetry. apply Hwf.
  - intros [Hwf Hv]. pose proof Hwf as (Hl & Hlen & _).
    assert (exact_batch (vb_bytes v)) as Hex by (split; [unfold FIXED_BATCH_SIZE, len in *; lia|done]).
    split_and!; [done|by rewrite Hv at 1|]. apply validate_batch_layout; [done|]. split; [done|].
    by rewrite Hv at 1 2.
Qed.

(** ** Validation of a record set *)

(** The batch cut at a position: its length field and its bytes agree. *)
Lemma cut_exact records position total :
  let remaining := drop position records in
  let bl := be_i32 (slice BATCH_LENGTH_OFFSET (BATCH_LENGTH_OFFSET + 4) remaining) in
  0 ≤ bl → total = Z.to_nat (12 + bl) → (FIXED_BATCH_SIZE ≤ total ≤ length remaining)%nat →
  let batch := slice position (position + total) records in
  exact_batch batch ∧ length batch = total ∧ batch = take total remaining ∧
  bl = len batch - 12.
Proof.
  intros remaining bl Hbl Htotal [Hmin Hmax] batch.
  assert (batch = take total remaining) as Hb.
  { unfold batch, slice. by replace (position + total - position)%nat with total by lia. }
  assert (length batch = total) as Hlb by (rewrite Hb, length_take; lia).
  assert (bl = len batch - 12) as Hlen by (unfold len; lia).
  split_and!; [|done..]. unfold exact_batch. rewrite <- Hlen. split; [lia|].
  unfold FIXED_BATCH_SIZE, BATCH_LENGTH_OFFSET in *.
  rewrite Hb. unfold bl, slice. rewrite skipn_firstn_comm, take_take.
  do 2 f_equal. lia.
Qed.

Lemma validate_loop_total fuel records position acc :
  (length records - position ≤ fuel)%nat → ∃ r, validate_loop fuel records position acc = Some r.
Proof.
  revert position acc. induction fuel as [|fuel IH]; intros position acc Hf;
    cbn [validate_loop]; (case_decide; [by eexists|]); [lia|].
  case_decide as Hshort; [by eexists|].
  destruct (try_unsigned _) as [bl|] eqn:Hbl; [|by eexists].
  apply try_unsigned_Some in Hbl as [-> Hbl].
  destruct (checked_add _ _ _) as [total|] eqn:Ht; [|by eexists].
  apply checked_add_Some in Ht as [-> _]. case_decide as Hbad; [by eexists|].
  unfold FIXED_BATCH_SIZE in *.
  edestruct (cut_exact records position) as (Hex & Hl & _ & _);
    [exact Hbl|reflexivity|unfold FIXED_BATCH_SIZE; lia|].
  destruct (validate_batch_total
    (be_i32 (slice BATCH_LENGTH_OFFSET (BATCH_LENGTH_OFFSET + 4) (drop position records)))
    _ Hex) as [[v|e] ->]; [|by eexists].
  cbn [outcome_bind]. apply IH. rewrite length_drop in *. lia.
Qed.

Lemma validate_loop_sound fuel records position acc vs :
  validate_loop fuel records position acc = Some (Ok vs) →
  ∃ vs', vs = acc ++ vs' ∧ concat (vb_bytes <$> vs') = drop position records ∧
    Forall validated_ok vs'.
Proof.
  revert position acc. induction fuel as [|fuel IH]; intros position acc; cbn [validate_loop];
    case_decide as Hpos.
  - intros [= <-]. exists []. rewrite app_nil_r, drop_ge by lia. done.
  - done.
  - intros [= <-]. exists []. rewrite app_nil_r, drop_ge by lia. done.
  - case_decide as Hshort; [done|].
    destruct (try_unsigned _) as [bl|] eqn:Hbl; [|done].
    apply try_unsigned_Some in Hbl as [-> Hbl].
    destruct (checked_add _ _ _) as [total|] eqn:Ht; [|done].
    apply checked_add_Some in Ht as [-> _]. case_decide as Hbad; [done|].
    edestruct (cut_exact records position) as (Hex & Hl & Htake & Hlen);
      [exact Hbl|reflexivity|unfold FIXED_BATCH_SIZE in *; lia|].
    intros (v & Hv & Hloop)%outcome_bind_inv.
    apply IH in Hloop as (vs' & -> & Hcat & Hall).
    destruct (validate_batch_bytes _ _ _ Hv) as [Hvb Hvl].
    exists (v :: vs'). split_and!.
    + by rewrite <- app_assoc.
    + cbn [fmap list_fmap concat]. rewrite Hcat, Hvb, Htake.
      by rewrite <- drop_drop, take_drop.
    + constructor; [|done]. unfold validated_ok. rewrite Hvb, Hvl. done.
Qed.

(** A batch in front of the rest is cut off and accepted. *)
Lemma validate_loop_step fuel pre v rest acc :
  validated_ok v →
  validate_loop (S fuel) (pre ++ vb_bytes v ++ rest) (length pre) acc =
  validate_loop fuel (pre ++ vb_bytes v ++ rest) (length pre + length (vb_bytes v)) (acc ++ [v]).
Proof.
  intros ([Hlen Hbl] & Hvl & Hv). unfold FIXED_BATCH_SIZE in Hlen. unfold len in *.
  remember (length pre + length (vb_bytes v))%nat as next eqn:Hnext.
  cbn [validate_loop]. rewrite !length_app.
  rewrite decide_False by lia. rewrite drop_app_length, !length_app.
  unfold FIXED_BATCH_SIZE. rewrite decide_False by lia.
  assert (slice BATCH_LENGTH_OFFSET (BATCH_LENGTH_OFFSET + 4) (vb_bytes v ++ rest)
    = slice BATCH_LENGTH_OFFSET (BATCH_LENGTH_OFFSET + 4) (vb_bytes v)) as ->.
  { unfold slice, BATCH_LENGTH_OFFSET. rewrite drop_app_le by lia.
    rewrite take_app_le by (rewrite length_drop; lia). done. }
  rewrite Hbl. set (bl := Z.of_nat (length (vb_bytes v)) - 12) in *.
  assert (try_unsigned bl = Some bl) as -> by (apply try_unsigned_Some; lia).
  assert (checked_add usize_max 12 bl = Some (12 + bl)) as ->.
  { apply checked_add_Some. split; [done|].
    pose proof (be_i32_range (slice BATCH_LENGTH_OFFSET (BATCH_LENGTH_OFFSET + 4) (vb_bytes v))).
    rewrite Hbl in *. unfold in_signed, usize_max in *. simpl in *. lia. }
  replace (Z.to_nat (12 + bl)) with (length (vb_bytes v)) by lia.
  rewrite decide_False by lia. rewrite <- Hnext.
  assert (slice (length pre) next (pre ++ vb_bytes v ++ rest) = vb_bytes v) as ->.
  { unfold slice. rewrite drop_app_length, Hnext.
    replace (length pre + length (vb_bytes v) - length pre)%nat with (length (vb_bytes v)) by lia.
    apply take_app_length. }
  rewrite Hvl in Hv. by rewrite Hv.
Qed.

Lemma validate_loop_complete fuel pre vs acc :
  Forall validated_ok vs → (length vs ≤ fuel)%nat →
  validate_loop fuel (pre ++ concat (vb_bytes <$> vs)) (length pre) acc = Some (Ok (acc ++ vs)).
Proof.
  intros Hvs. revert fuel pre acc. induction Hvs as [|v vs Hv _ IH]; intros fuel pre acc Hf.
  - simpl. rewrite !app_nil_r. destruct fuel; cbn [validate_loop]; by rewrite decide_True by lia.
  - cbn [length] in Hf. destruct fuel as [|fuel]; [lia|]. cbn [fmap list_fmap concat].
    rewrite validate_loop_step by done.
    specialize (IH fuel (pre ++ vb_bytes v) (acc ++ [v]) ltac:(lia)).
    rewrite length_app, <- !app_assoc in IH. by rewrite IH.
Qed.

Definition one_producer (vs : list ValidatedBatch) : Prop :=
  ∀ v v', v ∈ vs → v' ∈ vs →
    vb_producer_id v = vb_producer_id v' ∧ vb_producer_epoch v = vb_producer_epoch v'.

Lemma one_producer_head first vs :
  existsb (λ batch,
      bool_decide (vb_producer_id batch ≠ vb_producer_id first) ||
      bool_decide (vb_producer_epoch batch ≠ vb_producer_epoch first)) (first :: vs) = false ↔
  one_producer (first :: vs).
Proof.
  rewrite <- not_true_iff_false, existsb_exists. setoid_rewrite <- list_elem_of_In.
  setoid_rewrite orb_true_iff. setoid_rewrite bool_decide_eq_true. split.
  - intros Hno.
    assert (∀ v, v ∈ first :: vs → vb_producer_id v = vb_producer_id first
      ∧ vb_producer_epoch v = vb_producer_epoch first) as Hall.
    { intros v Hv. split; apply dec_stable; intros Hne; apply Hno; exists v; auto. }
    intros v v' Hv Hv'. destruct (Hall v Hv), (Hall v' Hv'). split; congruence.
  - intros Hone (v & Hv & Hne). destruct (Hone v first Hv) as [? ?]; [left|]. tauto.
Qed.

Lemma concat_bytes_length vs :
  Forall validated_ok vs → (length vs ≤ length (concat (vb_bytes <$> vs)))%nat.
Proof.
  induction 1 as [|v vs Hv _ IH]; [done|]. cbn [fmap list_fmap concat length].
  apply validated_inv in Hv as (_ & _ & Hlen). unfold FIXED_BATCH_SIZE in *.
  rewrite length_app. lia.
Qed.

(** Validation accepts a record set exactly when it is a non-empty
    concatenation of valid batches of one producer. *)
Lemma validate_record_set_spec records vs :
  validate_record_set records = Some (Ok vs) ↔
  vs ≠ [] ∧ Forall validated_ok vs ∧ one_producer vs ∧ records = concat (vb_bytes <$> vs).
Proof.
  unfold validate_record_set. split.
  - case_decide as Hne; [done|].
    intros (vs' & Hloop & Hv)%outcome_bind_inv.
    apply validate_loop_sound in Hloop as (vs'' & -> & Hcat & Hall). simpl in *.
    destruct vs'' as [|first vs'']; [done|]. cbn [head panic_bind] in Hv.
    destruct (existsb _ _) eqn:Hex; [done|]. injection Hv as <-.
    apply one_producer_head in Hex. split_and!; auto.
  - intros (Hne & Hall & Hone & ->).
    pose proof (concat_bytes_length vs Hall) as Hlen.
    rewrite decide_False; [|intros Hnil; rewrite Hnil in Hlen; destruct vs; simpl in Hlen; [done|lia]].
    pose proof (validate_loop_complete _ [] vs [] Hall Hlen) as Hloop.
    cbn [app length] in Hloop. rewrite Hloop.
    cbn [outcome_bind app]. destruct vs as [|first vs]; [done|]. cbn [head panic_bind].
    apply one_producer_head in Hone. by rewrite Hone.
Qed.

Lemma validate_record_set_total records : ∃ r, validate_record_set records = Some r.
Proof.
  unfold validate_record_set. case_decide; [by eexists|].
  destruct (validate_loop_total (length records) records 0 []) as [[vs|e] Hr]; [lia| |].
  - rewrite Hr. cbn [outcome_bind].
    apply validate_loop_sound in Hr as (vs' & -> & Hcat & _). simpl in *.
    destruct vs' as [|first vs']; [done|]. cbn [head panic_bind].
    case_match; by eexists.
  - rewrite Hr. by eexists.
Qed.
End validation.

(** ** Sequence arithmetic *)

Lemma next_sequence_mod base count :
  0 ≤ base → 0 ≤ count → next_sequence base count = (base + count) mod SEQUENCE_MODULUS.
Proof.
  intros Hb Hc. unfold next_sequence. rewrite Z.rem_mod_nonneg by (unfold SEQUENCE_MODULUS, i32_max; lia).
  apply wrap_signed_small; [|lia].
  pose proof (Z.mod_pos_bound (base + count) SEQUENCE_MODULUS).
  unfold SEQUENCE_MODULUS, i32_max, in_signed in *. simpl. lia.
Qed.

Lemma next_sequence_range base count :
  0 ≤ base → 0 ≤ count → 0 ≤ next_sequence base count < SEQUENCE_MODULUS.
Proof.
  intros. rewrite next_sequence_mod by done. apply Z.mod_pos_bound. done.
Qed.

(** The records of validated batches. *)
Definition record_total (vs : list ValidatedBatch) : Z := foldr Z.add 0 (vb_record_count <$> vs).

Lemma record_total_cons v vs : record_total (v :: vs) = vb_record_count v + record_total vs.
Proof. done. Qed.

Lemma record_total_nonneg vs : Forall (λ v, 0 < vb_record_count v) vs → 0 ≤ record_total vs.
Proof. induction 1; [done|]. rewrite record_total_cons. lia. Qed.

Lemma sum_record_counts_spec total vs r :
  sum_record_counts total vs = Ok r → r = total + record_total vs.
Proof.
  revert total. induction vs as [|v vs IH]; intros total; simpl.
  - intros [= <-]. unfold record_total. simpl. lia.
  - destruct (checked_add _ _ _) as [t|] eqn:Ht; [|done].
    apply checked_add_Some in Ht as [-> _]. intros ->%IH. rewrite record_total_cons. lia.
Qed.

Lemma sum_record_counts_le total vs r :
  sum_record_counts total vs = Ok r → vs ≠ [] → r ≤ i32_max.
Proof.
  revert total. induction vs as [|v vs IH]; intros total; [done|]. cbn [sum_record_counts].
  destruct (checked_add _ _ _) as [t|] eqn:Ht; [|done].
  apply checked_add_Some in Ht as [-> Hle]. intros Hr _.
  destruct vs as [|v' vs]; [injection Hr as <-; lia|by eapply IH].
Qed.

(** [sum_record_counts] fails exactly when the total exceeds an [i32]. *)
Lemma sum_record_counts_ok total vs :
  Forall (λ v, 0 < vb_record_count v) vs →
  total + record_total vs ≤ i32_max → sum_record_counts total vs = Ok (total + record_total vs).
Proof.
  intros Hvs. revert total. induction Hvs as [|v vs Hv Hvs IH]; intros total Ht.
  - unfold record_total. simpl. f_equal. lia.
  - rewrite record_total_cons in *. cbn [sum_record_counts].
    pose proof (record_total_nonneg vs Hvs).
    unfold checked_add. rewrite decide_True by lia. rewrite IH by lia. f_equal. lia.
Qed.

(** Batches whose base sequences follow one another from [expected]. *)
Fixpoint sequences_from (expected : Z) (vs : list ValidatedBatch) : Prop :=
  match vs with
  | [] => True
  | v :: vs => vb_base_sequence v = expected ∧
      sequences_from (next_sequence expected (vb_record_count v)) vs
  end.

Lemma validate_sequences_spec vs expected :
  validate_sequences vs expected = Ok () ↔ sequences_from expected vs.
Proof.
  revert expected. induction vs as [|v vs IH]; intros expected; simpl; [done|].
  case_decide as Heq; [split; [done|]; intros [? _]; done|].
  rewrite IH. tauto.
Qed.

(** ** Storing batches *)

(** Consecutive batches covering the offsets from [base] up to [next]. *)
Fixpoint chain (base : Z) (bs : list StoredBatch) (next : Z) : Prop :=
  match bs with
  | [] => base = next
  | b :: bs => sb_base_offset b = base ∧ 0 < sb_record_count b ∧
      sb_last_offset b = base + sb_record_count b - 1 ∧ chain (sb_last_offset b + 1) bs next
  end.

Lemma chain_app base bs mid bs' next :
  chain base bs mid → chain mid bs' next → chain base (bs ++ bs') next.
Proof.
  revert base. induction bs as [|b bs IH]; intros base; simpl; [by intros ->|].
  intros (? & ? & ? & ?) ?. split_and!; auto.
Qed.

Lemma chain_app_inv base bs bs' next :
  chain base (bs ++ bs') next → ∃ mid, chain base bs mid ∧ chain mid bs' next.
Proof.
  revert base. induction bs as [|b bs IH]; intros base; simpl; [eauto|].
  intros (? & ? & ? & (mid & ? & ?)%IH). eauto 10.
Qed.

Lemma chain_le base bs next : chain base bs next → base ≤ next.
Proof.
  revert base. induction bs as [|b bs IH]; intros base; simpl; [lia|].
  intros (? & ? & ? & ?%IH). lia.
Qed.

Section log.
  Context `{Crc32c}.

(** A stored batch is a valid batch that carries its own base offset. *)
Definition stored_ok (b : StoredBatch) : Prop :=
  ∃ v, validated_ok v ∧ vb_bytes v = sb_bytes b ∧ vb_record_count v = sb_record_count b ∧
    take 8 (sb_bytes b) = be_bytes 8 (sb_base_offset b).

(** The validated batches with the offsets written in, as [append] stores them. *)
Fixpoint place (base : Z) (vs : list ValidatedBatch) : list ValidatedBatch :=
  match vs with
  | [] => []
  | v :: vs => patch_validated base v :: place (base + vb_record_count v) vs
  end.

Lemma place_ok base vs : Forall validated_ok vs → Forall validated_ok (place base vs).
Proof.
  intros Hvs. revert base. induction Hvs as [|v vs Hv _ IH]; intros base; simpl; [done|].
  constructor; [by apply validated_patch|apply IH].
Qed.

Lemma validated_counts vs :
  Forall validated_ok vs → Forall (λ v, 0 < vb_record_count v) vs.
Proof. intros Hvs. eapply Forall_impl; [exact Hvs|]. by intros v ([? _] & _)%validated_inv. Qed.

Lemma store_batches_spec base vs :
  Forall validated_ok vs →
  ∃ stored, store_batches base vs = Some stored ∧
    chain base stored (base + record_total vs) ∧ Forall stored_ok stored ∧
    sb_bytes <$> stored = vb_bytes <$> place base vs ∧
    sb_record_count <$> stored = vb_record_count <$> vs.
Proof.
  intros Hvs. revert base. induction Hvs as [|v vs Hv Hvs IH]; intros base.
  - exists []. unfold record_total. simpl. split_and!; auto. lia.
  - cbn [store_batches]. destruct (validated_inv v Hv) as (Hc & _ & Hlen).
    unfold FIXED_BATCH_SIZE in Hlen. rewrite decide_False by lia.
    destruct (IH (base + vb_record_count v - 1 + 1)) as (stored & -> & Hchain & Hok & Hb & Hn).
    eexists. cbn [panic_bind]. split_and!; [reflexivity|..].
    + cbn [chain sb_base_offset sb_record_count sb_last_offset]. split_and!; [done|lia|done|].
      rewrite record_total_cons.
      by replace (base + (vb_record_count v + record_total vs))
        with (base + vb_record_count v - 1 + 1 + record_total vs) by lia.
    + constructor; [|done]. exists (patch_validated base v).
      split_and!; [by apply validated_patch|done|done|].
      cbn [sb_bytes sb_base_offset]. by rewrite take_app_length' by (by rewrite length_be_bytes).
    + cbn [fmap list_fmap place sb_bytes]. f_equal.
      rewrite Hb. by replace (base + vb_record_count v - 1 + 1) with (base + vb_record_count v) by lia.
    + cbn [fmap list_fmap sb_record_count]. by rewrite <- Hn.
Qed.

(** ** The outcomes of an append *)

Definition expected_sequence (inner : PartitionLogInner) (pid : Z) : Z :=
  from_option ps_next_sequence 0 (producer_states inner !! pid).

(** The state after the batches [vs] of [first] are stored. *)
Definition appended_log (inner : PartitionLogInner) (first : ValidatedBatch)
    (vs : list ValidatedBatch) (stored : list StoredBatch) : PartitionLogInner :=
  let total := record_total vs in
  let r := mkAppendResult (next_offset inner) (next_offset inner + total - 1) total true in
  mkPartitionLogInner (next_offset inner + total) (batches inner ++ stored)
    (match batch_producer first with
     | Some p => record_producer (producer_states inner) p
         (next_sequence (vb_base_sequence first) total)
         (mkRecentAppend (vb_base_sequence first) (fingerprint <$> vs) (vb_bytes <$> vs) r)
     | None => producer_states inner
     end).

(** Whether the producer of [first] may append [vs] now. *)
Definition may_append (inner : PartitionLogInner) (first : ValidatedBatch)
    (vs : list ValidatedBatch) : Prop :=
  match batch_producer first with
  | None => True
  | Some p =>
      sequences_from (expected_sequence inner (rsp_producer_id p)) vs ∧
      match producer_states inner !! rsp_producer_id p with
      | Some st => ps_producer_epoch st = rsp_producer_epoch p ∧
          List.find (is_retry (vb_base_sequence first) (fingerprint <$> vs) (vb_bytes <$> vs))
            (ps_recent st) = None
      | None => True
      end
  end.

(** The entry of the window that answers a retry of [vs]. *)
Definition window_hit (inner : PartitionLogInner) (first : ValidatedBatch)
    (vs : list ValidatedBatch) (recent : RecentAppend) : Prop :=
  ∃ p st, batch_producer first = Some p ∧ producer_states inner !! rsp_producer_id p = Some st ∧
    ps_producer_epoch st = rsp_producer_epoch p ∧
    List.find (is_retry (vb_base_sequence first) (fingerprint <$> vs) (vb_bytes <$> vs))
      (ps_recent st) = Some recent.

Definition replayed (r : AppendResult) : AppendResult :=
  mkAppendResult (ar_base_offset r) (ar_last_offset r) (ar_record_count r) false.

Lemma check_sequence_inv inner first vs total :
  match check_sequence inner (batch_producer first) (vb_base_sequence first) total vs with
  | Err _ => True
  | Ok (Replay r) => ∃ recent, window_hit inner first vs recent ∧ r = replayed (ra_result recent)
  | Ok (Proceed n) => may_append inner first vs ∧
      n = (match batch_producer first with
           | Some _ => Some (next_sequence (vb_base_sequence first) total)
           | None => None
           end)
  end.
Proof.
  unfold check_sequence, may_append, expected_sequence, window_hit.
  destruct (batch_producer first) as [p|] eqn:Hp; [|done].
  destruct (producer_states inner !! rsp_producer_id p) as [st|] eqn:Hst.
  - case_decide as He; [done|].
    destruct (List.find _ _) as [recent|] eqn:Hfind; [by eauto 10|].
    destruct (validate_sequences vs _) as [[]|] eqn:Hv; [|done].
    apply validate_sequences_spec in Hv. done.
  - case_decide as Hb; [done|].
    destruct (validate_sequences vs _) as [[]|] eqn:Hv; [|done].
    apply validate_sequences_spec in Hv. done.
Qed.

(** The three outcomes of [append]: an error or a replayed retry leaves the log
    as it was; otherwise the batches are stored at the end. *)
Lemma append_inv inner records :
  ∃ r inner', append inner records = Some (r, inner') ∧
  ((∃ e, r = Err e ∧ inner' = inner) ∨
   ∃ vs first, validate_record_set records = Some (Ok vs) ∧ head vs = Some first ∧
     record_total vs ≤ i32_max ∧
     ((∃ recent, window_hit inner first vs recent ∧ r = Ok (replayed (ra_result recent)) ∧
        inner' = inner) ∨
      (∃ stored, may_append inner first vs ∧ next_offset inner + record_total vs ≤ i64_max ∧
        store_batches (next_offset inner) vs = Some stored ∧
        inner' = appended_log inner first vs stored ∧
        r = Ok (mkAppendResult (next_offset inner) (next_offset inner + record_total vs - 1)
          (record_total vs) true)))).
Proof.
  unfold append. destruct (validate_record_set_total records) as [[vs|e] Hv]; rewrite Hv;
    [|by eauto 10].
  pose proof Hv as (Hne & Hall & _ & _)%validate_record_set_spec.
  destruct (sum_record_counts 0 vs) as [total|e] eqn:Hsum; [|by eauto 10].
  pose proof (sum_record_counts_le _ _ _ Hsum Hne). apply sum_record_counts_spec in Hsum as ->.
  destruct vs as [|first vs']; [done|]. set (vs := first :: vs') in *.
  change (head vs) with (Some first). cbn [panic_bind]. unfold append_locked.
  pose proof (check_sequence_inv inner first vs (0 + record_total vs)) as Hcheck.
  destruct (check_sequence _ _ _ _ _) as [[r|n]|e]; [| |by eauto 10].
  - destruct Hcheck as (recent & Hhit & ->). do 2 eexists. split; [reflexivity|]. right.
    exists vs, first. split_and!; [done..|lia|]. left. eauto.
  - destruct Hcheck as [Hmay ->]. rewrite Z.add_0_l in *.
    destruct (checked_add _ _ _) as [next|] eqn:Hnext; [|by eauto 10].
    apply checked_add_Some in Hnext as [-> Hle].
    destruct (store_batches_spec (next_offset inner) vs Hall) as (stored & Hst & _).
    rewrite Hst. cbn [panic_bind]. do 2 eexists. split; [reflexivity|]. right.
    exists vs, first. split_and!; [done..|lia|]. right. exists stored. split_and!; [done..| |done].
    unfold appended_log. by destruct (batch_producer first).
Qed.

(** ** The invariant of a log *)

(** Recent appends whose sequence numbers follow one another up to [next]. *)
Fixpoint recent_chain (rs : list RecentAppend) (next : Z) : Prop :=
  match rs with
  | [] => True
  | r :: rs' =>
      next_sequence (ra_base_sequence r) (ar_record_count (ra_result r)) =
        match rs' with [] => next | r' :: _ => ra_base_sequence r' end ∧
      recent_chain rs' next
  end.

(** A remembered append is in the log, at the offsets of its result. *)
Definition recent_ok (inner : PartitionLogInner) (r : RecentAppend) : Prop :=
  let res := ra_result r in
  0 ≤ ra_base_sequence r < SEQUENCE_MODULUS ∧ ar_appended res = true ∧
  0 < ar_record_count res ≤ i32_max ∧ 0 ≤ ar_base_offset res ∧
  ar_last_offset res = ar_base_offset res + ar_record_count res - 1 ∧
  ar_last_offset res < next_offset inner ∧
  ∃ vs pre stored post,
    ra_encoded_batches r = vb_bytes <$> vs ∧ ra_fingerprints r = fingerprint <$> vs ∧
    record_total vs = ar_record_count res ∧
    batches inner = pre ++ stored ++ post ∧
    store_batches (ar_base_offset res) vs = Some stored.

(** What identifies a remembered append to a retry. *)
Definition retry_key (r : RecentAppend) : Z * list RetryFingerprint * list (list byte) :=
  (ra_base_sequence r, ra_fingerprints r, ra_encoded_batches r).

Lemma is_retry_key base fps enc r : is_retry base fps enc r = true ↔ retry_key r = (base, fps, enc).
Proof.
  unfold is_retry, retry_key. rewrite !andb_true_iff, !bool_decide_eq_true.
  split; [by intros [[-> ->] ->]|by intros [= -> -> ->]].
Qed.

Lemma find_retry_None base fps enc rs :
  List.find (is_retry base fps enc) rs = None ↔ (base, fps, enc) ∉ retry_key <$> rs.
Proof.
  induction rs as [|r rs IH]; simpl; [set_solver|].
  rewrite not_elem_of_cons. pose proof (is_retry_key base fps enc r) as Hk.
  destruct (is_retry base fps enc r); [|rewrite IH].
  - split; [done|]. intros [Hne _]. destruct Hne. symmetry. by apply Hk.
  - split; [|tauto]. intros ?. split; [|done]. intros Heq. by symmetry in Heq; apply Hk in Heq.
Qed.

Lemma find_retry_Some base fps enc rs r :
  NoDup (retry_key <$> rs) → r ∈ rs → retry_key r = (base, fps, enc) →
  List.find (is_retry base fps enc) rs = Some r.
Proof.
  intros Hnd Hin Hkey. induction rs as [|x rs IH]; [by apply elem_of_nil in Hin|].
  cbn [fmap list_fmap] in Hnd. apply NoDup_cons in Hnd as [Hx Hnd]. simpl.
  destruct (is_retry base fps enc x) eqn:Hr.
  - apply is_retry_key in Hr. apply elem_of_cons in Hin as [->|Hin]; [done|].
    destruct Hx. rewrite Hr, <- Hkey. apply list_elem_of_fmap. eauto.
  - apply elem_of_cons in Hin as [->|Hin]; [|auto].
    apply is_retry_key in Hkey. congruence.
Qed.

Definition producer_ok (inner : PartitionLogInner) (pid : Z) (st : ProducerPartitionState) : Prop :=
  pid ≠ NO_PRODUCER_ID ∧ 0 ≤ ps_producer_epoch st ∧
  0 ≤ ps_next_sequence st < SEQUENCE_MODULUS ∧
  ps_recent st ≠ [] ∧ (length (ps_recent st) ≤ RECENT_APPEND_LIMIT)%nat ∧
  recent_chain (ps_recent st) (ps_next_sequence st) ∧ NoDup (retry_key <$> ps_recent st) ∧
  Forall (recent_ok inner) (ps_recent st).

Definition log_wf (inner : PartitionLogInner) : Prop :=
  0 ≤ next_offset inner ≤ i64_max ∧ chain 0 (batches inner) (next_offset inner) ∧
  Forall stored_ok (batches inner) ∧ map_Forall (producer_ok inner) (producer_states inner).

Lemma empty_log_wf : log_wf empty_log.
Proof. unfold log_wf, i64_max. simpl. split_and!; try (done || lia). Qed.

Lemma recent_chain_drop n rs next : recent_chain rs next → recent_chain (drop n rs) next.
Proof.
  revert rs. induction n as [|n IH]; intros rs Hc; [done|].
  destruct rs as [|r rs]; [done|]. apply IH. by destruct Hc.
Qed.

Lemma recent_chain_snoc rs mid r next :
  recent_chain rs mid → (rs = [] ∨ ra_base_sequence r = mid) →
  next_sequence (ra_base_sequence r) (ar_record_count (ra_result r)) = next →
  recent_chain (rs ++ [r]) next.
Proof.
  induction rs as [|x rs IH]; [simpl; tauto|]. intros [Hx Hc] [Hnil|Hmid] Hn; [done|].
  cbn [app recent_chain]. split; [|apply IH; auto].
  rewrite Hx. by destruct rs.
Qed.

Lemma push_recent_length recent r :
  (length recent ≤ RECENT_APPEND_LIMIT)%nat →
  (length (push_recent recent r) ≤ RECENT_APPEND_LIMIT)%nat.
Proof.
  unfold push_recent, RECENT_APPEND_LIMIT. rewrite length_app, length_drop. simpl. lia.
Qed.

(** A remembered append stays in the log when the log grows. *)
Lemma recent_ok_grow inner inner' r stored :
  batches inner' = batches inner ++ stored → next_offset inner ≤ next_offset inner' →
  recent_ok inner r → recent_ok inner' r.
Proof.
  intros Hb Hn (? & ? & ? & ? & ? & ? & vs & pre & st & post & ? & ? & ? & Hpre & ?).
  unfold recent_ok. split_and!; try (done || lia).
  exists vs, pre, st, (post ++ stored). split_and!; auto.
  by rewrite Hb, Hpre, <- !app_assoc.
Qed.

Lemma batch_producer_Some v p :
  batch_producer v = Some p →
  vb_producer_id v ≠ NO_PRODUCER_ID ∧ rsp_producer_id p = vb_producer_id v ∧
  rsp_producer_epoch p = vb_producer_epoch v.
Proof. unfold batch_producer. case_decide; [|done]. by intros [= <-]. Qed.

Lemma validated_producer v p :
  validated_ok v → batch_producer v = Some p →
  rsp_producer_id p ≠ NO_PRODUCER_ID ∧ 0 ≤ rsp_producer_epoch p ∧
  0 ≤ vb_base_sequence v < SEQUENCE_MODULUS.
Proof.
  intros (_ & Hp & _)%validated_inv (Hne & -> & ->)%batch_producer_Some.
  unfold producer_fields_ok in Hp. tauto.
Qed.

Lemma record_total_pos vs :
  vs ≠ [] → Forall validated_ok vs → 0 < record_total vs.
Proof.
  intros Hne Hall%validated_counts. destruct vs as [|v vs]; [done|].
  apply Forall_cons in Hall as [Hv Hvs]. rewrite record_total_cons.
  pose proof (record_total_nonneg vs Hvs). lia.
Qed.

Lemma push_recent_nodup recent r :
  NoDup (retry_key <$> recent) → retry_key r ∉ retry_key <$> recent →
  NoDup (retry_key <$> push_recent recent r).
Proof.
  intros Hnd Hr. unfold push_recent. rewrite fmap_app, fmap_drop.
  apply NoDup_app. split_and!.
  - rewrite <- (take_drop (S (length recent) - RECENT_APPEND_LIMIT) (retry_key <$> recent)) in Hnd.
    by apply NoDup_app in Hnd as (_ & _ & ?).
  - intros x Hx ->%list_elem_of_singleton. apply Hr. by apply (subseteq_drop (S (length recent) - RECENT_APPEND_LIMIT)).
  - apply NoDup_singleton.
Qed.

(** Recording an append at the end of the producer's window. *)
Lemma record_producer_ok inner' states p next r :
  map_Forall (producer_ok inner') states →
  rsp_producer_id p ≠ NO_PRODUCER_ID → 0 ≤ rsp_producer_epoch p →
  next = next_sequence (ra_base_sequence r) (ar_record_count (ra_result r)) →
  recent_ok inner' r →
  (∀ st, states !! rsp_producer_id p = Some st →
    ra_base_sequence r = ps_next_sequence st ∧ retry_key r ∉ retry_key <$> ps_recent st) →
  map_Forall (producer_ok inner') (record_producer states p next r).
Proof.
  intros Hold Hpid Hep -> Hr Hst. pose proof Hr as (Hbs & _ & Hcount & _).
  pose proof (next_sequence_range (ra_base_sequence r) (ar_record_count (ra_result r))) as Hnext.
  unfold record_producer. apply map_Forall_insert_2; [|done].
  destruct (states !! rsp_producer_id p) as [st|] eqn:Hlook; simpl.
  - destruct (Hold _ _ Hlook) as (_ & He & _ & _ & Hl & Hc & Hnd & Hf).
    destruct (Hst _ eq_refl) as [Hb Hkey].
    split_and!; cbn [ps_producer_epoch ps_next_sequence ps_recent]; try (done || lia).
    + unfold push_recent. by destruct (drop _ _).
    + by apply push_recent_length.
    + apply (recent_chain_snoc _ (ps_next_sequence st)); [by apply recent_chain_drop|by right|done].
    + by apply push_recent_nodup.
    + apply Forall_app. split; [by apply Forall_drop|by apply Forall_singleton].
  - split_and!; cbn [ps_producer_epoch ps_next_sequence ps_recent]; try (done || lia);
      [by unfold RECENT_APPEND_LIMIT; simpl; lia|apply NoDup_singleton|by apply Forall_singleton].
Qed.

(** Storing batches the producer may append keeps the invariant. *)
Lemma appended_log_wf inner first vs stored :
  log_wf inner → vs ≠ [] → head vs = Some first → Forall validated_ok vs →
  record_total vs ≤ i32_max → next_offset inner + record_total vs ≤ i64_max →
  may_append inner first vs → store_batches (next_offset inner) vs = Some stored →
  log_wf (appended_log inner first vs stored).
Proof.
  intros (Hn & Hchain & Hst & Hps) Hne Hfirst Hall Htot Hmax Hmay Hstore.
  pose proof (record_total_pos vs Hne Hall) as Hpos.
  destruct (store_batches_spec (next_offset inner) vs Hall)
    as (stored' & Hstore' & Hchain' & Hok & _ & _).
  rewrite Hstore in Hstore'. injection Hstore' as <-.
  set (inner' := appended_log inner first vs stored).
  assert (map_Forall (producer_ok inner') (producer_states inner)) as Hold.
  { eapply map_Forall_impl; [exact Hps|].
    intros pid st (? & ? & ? & ? & ? & ? & ? & Hrec). split_and!; auto; try lia.
    eapply Forall_impl; [exact Hrec|]. intros r.
    apply (recent_ok_grow inner inner' r stored); [done|]. simpl. lia. }
  split_and!; [simpl; lia|simpl; lia|by eapply chain_app|by apply Forall_app|].
  unfold may_append in Hmay. unfold inner' at 2, appended_log. cbn [producer_states].
  destruct (batch_producer first) as [p|] eqn:Hp; [|done].
  destruct vs as [|v vs]; [done|]. injection Hfirst as ->. set (vs' := first :: vs) in *.
  destruct (validated_producer first p) as (Hpid & Hep & Hbs);
    [by apply Forall_cons in Hall as [? _]|done|].
  destruct Hmay as [[Hexp _] Hwin].
  apply record_producer_ok; [done..| |].
  - unfold recent_ok. cbn. split_and!; try (done || lia).
    exists vs', (batches inner), stored, []. rewrite app_nil_r. split_and!; done.
  - intros st Hlook. unfold expected_sequence in Hexp. rewrite Hlook in *.
    destruct Hwin as [_ Hfind%find_retry_None]. done.
Qed.

(** Every append leaves a well-formed log. *)
Lemma append_wf inner records r inner' :
  log_wf inner → append inner records = Some (r, inner') → log_wf inner'.
Proof.
  intros Hwf Happ. destruct (append_inv inner records) as (r1 & i1 & Happ1 & Hcases).
  rewrite Happ1 in Happ. injection Happ as -> ->.
  destruct Hcases as [(e & -> & ->)|(vs & first & Hv & Hf & Htot & Hc)]; [done|].
  apply validate_record_set_spec in Hv as (Hne & Hall & _ & _).
  destruct Hc as [(recent & _ & _ & ->)|(stored & Hmay & Hmax & Hst & -> & _)]; [done|].
  by apply appended_log_wf.
Qed.

(** ** Fetching *)

Definition batch_shape (b : StoredBatch) : Prop :=
  sb_last_offset b - sb_base_offset b + 1 = sb_record_count b ∧ sb_bytes b ≠ [].

Lemma chain_shape base bs next :
  chain base bs next → Forall stored_ok bs → Forall batch_shape bs.
Proof.
  revert base. induction bs as [|b bs IH]; intros base; simpl; [done|].
  intros (? & ? & ? & Hc) [Hb Hbs]%Forall_cons. constructor; [|by eapply IH].
  split; [lia|]. destruct Hb as (v & Hv & <- & _). apply validated_inv in Hv as (_ & _ & Hl).
  unfold FIXED_BATCH_SIZE in Hl. destruct (vb_bytes v); [simpl in Hl; lia|done].
Qed.

Definition bytes_of (bs : list StoredBatch) : list byte := concat (sb_bytes <$> bs).

Lemma bytes_of_cons b bs : bytes_of (b :: bs) = sb_bytes b ++ bytes_of bs.
Proof. done. Qed.

(** Once something is collected, the loop stops at the first batch that does
    not fit. *)
Lemma fetch_loop_more max acc bs :
  max ≤ usize_max → acc ≠ [] → Forall batch_shape bs →
  ∃ got post, bs = got ++ post ∧ fetch_loop max acc bs = Some (acc ++ bytes_of got) ∧
    (got = [] ∨ len (acc ++ bytes_of got) ≤ max) ∧
    (∀ b post', post = b :: post' → max < len (acc ++ bytes_of got) + len (sb_bytes b)).
Proof.
  intros Hmax Hacc Hbs. revert acc Hacc. induction Hbs as [|b bs [Hc Hne] Hbs IH]; intros acc Hacc.
  - exists [], []. unfold bytes_of. simpl. rewrite app_nil_r. split_and!; auto. done.
  - cbn [fetch_loop]. rewrite decide_True, bool_decide_false by done. cbn [negb andb].
    set (size := len acc + len (sb_bytes b)).
    assert (∀ (x y : option (list byte)),
      (if match checked_add usize_max (len acc) (len (sb_bytes b)) with
          | Some size => bool_decide (max < size) | None => true end then x else y)
      = if bool_decide (max < size) then x else y) as Hif.
    { intros x y. unfold checked_add. fold size. case_decide; [done|].
      by rewrite bool_decide_true by lia. }
    rewrite Hif. case_bool_decide as Hsize.
    + exists [], (b :: bs). unfold bytes_of. simpl. rewrite app_nil_r. split_and!; auto.
      intros b' post' [= <- <-]. done.
    + destruct (IH (acc ++ sb_bytes b)) as (got & post & -> & Hloop & Hlim & Hstop).
      { by destruct acc. }
      exists (b :: got), post. rewrite bytes_of_cons, app_assoc. split_and!; auto.
      right. destruct Hlim as [->|?]; [|done]. unfold bytes_of. simpl.
      rewrite app_nil_r, len_app. lia.
Qed.

(** The loop from an empty buffer takes the first batch whatever its size. *)
Lemma fetch_loop_first max bs :
  max ≤ usize_max → Forall batch_shape bs →
  ∃ got post, bs = got ++ post ∧ fetch_loop max [] bs = Some (bytes_of got) ∧
    (bs ≠ [] → got ≠ []) ∧ ((length got ≤ 1)%nat ∨ len (bytes_of got) ≤ max) ∧
    (∀ b post', post = b :: post' → max < len (bytes_of got) + len (sb_bytes b)).
Proof.
  intros Hmax Hbs. destruct Hbs as [|b bs [Hc Hne] Hbs].
  - exists [], []. simpl. split_and!; auto. done.
  - cbn [fetch_loop]. rewrite decide_True, bool_decide_true by done. cbn [negb andb app].
    destruct (fetch_loop_more max (sb_bytes b) bs Hmax Hne Hbs)
      as (got & post & -> & Hloop & Hlim & Hstop).
    exists (b :: got), post. rewrite bytes_of_cons. split_and!; auto.
    destruct Hlim as [->|?]; [left; simpl; lia|by right].
Qed.

Lemma skip_while_spec (p : StoredBatch → bool) bs :
  ∃ pre, bs = pre ++ skip_while p bs ∧ Forall (λ b, p b = true) pre ∧
    (∀ b post, skip_while p bs = b :: post → p b = false).
Proof.
  induction bs as [|b bs (pre & Hbs & Hpre & Hhd)]; simpl; [by exists []|].
  destruct (p b) eqn:Hp.
  - exists (b :: pre). split_and!; [by rewrite Hbs at 1|by constructor|done].
  - exists []. split_and!; [done..|]. by intros ? ? [= <- <-].
Qed.

(** In a chain, the batch after those that end before [offset] starts at or
    before [offset]. *)
Lemma chain_cover base pre post next o :
  chain base (pre ++ post) next → base ≤ o → Forall (λ b, sb_last_offset b < o) pre →
  match post with [] => next ≤ o | b :: _ => sb_base_offset b ≤ o end.
Proof.
  revert base. induction pre as [|b pre IH]; intros base; simpl.
  - destruct post; simpl; [by intros ->|]. intros (-> & _). done.
  - intros (? & ? & ? & Hc) Hb [Hlt Hpre]%Forall_cons. eapply IH; [done|lia|done].
Qed.

Definition fetched (inner : PartitionLogInner) (o max : Z) (pre got post : list StoredBatch) : Prop :=
  batches inner = pre ++ got ++ post ∧
  Forall (λ b, sb_last_offset b < o) pre ∧
  match got with
  | [] => o = next_offset inner ∧ post = []
  | b :: _ => sb_base_offset b ≤ o ≤ sb_last_offset b
  end ∧
  ((length got ≤ 1)%nat ∨ len (bytes_of got) ≤ max) ∧
  (∀ b post', post = b :: post' → max < len (bytes_of got) + len (sb_bytes b)).

Lemma fetch_in_range inner o max :
  log_wf inner → 0 ≤ o ≤ next_offset inner → max ≤ usize_max →
  ∃ pre got post, fetched inner o max pre got post ∧
    fetch inner o max = Some (Ok (mkFetchSnapshot (bytes_of got) (next_offset inner))).
Proof.
  intros (Hn & Hchain & Hst & _) Ho Hmax. unfold fetch. rewrite decide_False by lia.
  set (p := λ batch, bool_decide (sb_last_offset batch < o)).
  destruct (skip_while_spec p (batches inner)) as (pre & Hb & Hpre & Hhd).
  pose proof (chain_shape _ _ _ Hchain Hst) as Hshape.
  rewrite Hb in Hshape. apply Forall_app in Hshape as [_ Hshape].
  destruct (fetch_loop_first max _ Hmax Hshape) as (got & post & Heq & -> & Hne & Hlim & Hstop).
  assert (Forall (λ b, sb_last_offset b < o) pre) as Hpre'.
  { eapply Forall_impl; [exact Hpre|]. intros b Hpb. by apply bool_decide_eq_true in Hpb. }
  rewrite Hb in Hchain. pose proof (chain_cover _ _ _ _ _ Hchain (proj1 Ho) Hpre') as Hcov.
  exists pre, got, post. split; [|done]. split_and!; auto; [by rewrite <- Heq|].
  destruct got as [|b got].
  - destruct (skip_while p (batches inner)) as [|b bs]; [|by destruct Hne].
    apply symmetry, app_nil in Heq as [_ ->]. split; [lia|done].
  - rewrite Heq in *. cbn [app] in *. split; [done|].
    specialize (Hhd b (got ++ post) eq_refl). apply bool_decide_eq_false in Hhd. lia.
Qed.

(** ** Sequences of appends

    Appends are serialised by the mutex: clients that share a partition make
    some sequence of record sets. *)

Fixpoint appends (inner : PartitionLogInner) (inputs : list (list byte)) :
    option (list (result AppendError AppendResult) * PartitionLogInner) :=
  match inputs with
  | [] => Some ([], inner)
  | records :: inputs =>
      let! step := append inner records in
      let! rest := appends step.2 inputs in
      Some (step.1 :: rest.1, rest.2)
  end.

Lemma appends_wf inner inputs :
  log_wf inner → ∃ rs inner', appends inner inputs = Some (rs, inner') ∧ log_wf inner'.
Proof.
  revert inner. induction inputs as [|records inputs IH]; intros inner Hwf; [by eexists _, _|].
  destruct (append_inv inner records) as (r & i1 & Happ & _). cbn [appends]. rewrite Happ.
  destruct (IH i1 (append_wf _ _ _ _ Hwf Happ)) as (rs & i2 & Hrun & Hwf2).
  cbn [panic_bind fst snd]. rewrite Hrun. eauto.
Qed.

(** The producer a record set is attributed to, and the records an append added
    for a given producer. *)
Definition producer_of (records : list byte) : option Z :=
  match record_set_producer records with
  | Some (Ok (Some p)) => Some (rsp_producer_id p)
  | _ => None
  end.

Definition appended_records (pid : Z) (records : list byte)
    (r : result AppendError AppendResult) : Z :=
  match r with
  | Ok res => if ar_appended res && bool_decide (producer_of records = Some pid)
              then ar_record_count res else 0
  | Err _ => 0
  end.

Fixpoint produced_total (pid : Z) (inputs : list (list byte))
    (rs : list (result AppendError AppendResult)) : Z :=
  match inputs, rs with
  | records :: inputs, r :: rs => appended_records pid records r + produced_total pid inputs rs
  | _, _ => 0
  end.

Lemma producer_of_validated records vs first :
  validate_record_set records = Some (Ok vs) → head vs = Some first →
  producer_of records = rsp_producer_id <$> batch_producer first.
Proof.
  intros Hv Hf. unfold producer_of, record_set_producer. rewrite Hv. cbn [outcome_bind].
  rewrite Hf. cbn [panic_bind value_of]. by destruct (batch_producer first).
Qed.

Lemma record_producer_lookup_ne states p next r pid :
  pid ≠ rsp_producer_id p → record_producer states p next r !! pid = states !! pid.
Proof. intros. unfold record_producer. by rewrite lookup_insert_ne. Qed.

(** One append moves the expected sequence of a producer by the records it
    added for it. *)
Lemma append_expected inner records r inner' pid :
  log_wf inner → append inner records = Some (r, inner') →
  expected_sequence inner' pid
    = (expected_sequence inner pid + appended_records pid records r) mod SEQUENCE_MODULUS ∧
  0 ≤ expected_sequence inner pid < SEQUENCE_MODULUS ∧ 0 ≤ appended_records pid records r.
Proof.
  intros Hwf Happ.
  assert (0 ≤ expected_sequence inner pid < SEQUENCE_MODULUS) as Hexp.
  { unfold expected_sequence. destruct (producer_states inner !! pid) as [st|] eqn:Hst; simpl.
    - destruct Hwf as (_ & _ & _ & Hps). by destruct (Hps _ _ Hst) as (_ & _ & ? & _).
    - unfold SEQUENCE_MODULUS, i32_max. lia. }
  destruct (append_inv inner records) as (r1 & i1 & Happ1 & Hcases).
  rewrite Happ1 in Happ. injection Happ as -> ->.
  assert (expected_sequence inner pid = (expected_sequence inner pid + 0) mod SEQUENCE_MODULUS)
    as Hsame by (rewrite Z.mod_small; lia).
  destruct Hcases as [(e & -> & ->)|(vs & first & Hv & Hf & Htot & Hc)]; [done|].
  pose proof (producer_of_validated _ _ _ Hv Hf) as Hprod.
  apply validate_record_set_spec in Hv as (Hne & Hall & _ & _).
  destruct Hc as [(recent & _ & -> & ->)|(stored & Hmay & Hmax & Hst & -> & ->)]; [done|].
  pose proof (record_total_pos vs Hne Hall).
  unfold appended_records. cbn [ar_appended ar_record_count andb]. rewrite Hprod.
  unfold may_append in Hmay. unfold expected_sequence at 1, appended_log.
  cbn [producer_states].
  destruct (batch_producer first) as [p|] eqn:Hp; cbn [fmap option_fmap option_map].
  2: { rewrite bool_decide_false by done. done. }
  case_bool_decide as Hpid.
  - injection Hpid as <-. unfold record_producer. rewrite lookup_insert_eq. simpl.
    destruct vs as [|v vs]; [done|]. injection Hf as ->. destruct Hmay as [[Hbs _] _].
    rewrite Hbs, next_sequence_mod by lia. split_and!; [done|lia..].
  - rewrite record_producer_lookup_ne by congruence. done.
Qed.

Lemma appends_expected inner inputs rs inner' pid :
  log_wf inner → appends inner inputs = Some (rs, inner') →
  expected_sequence inner' pid
    = (expected_sequence inner pid + produced_total pid inputs rs) mod SEQUENCE_MODULUS.
Proof.
  revert inner rs. induction inputs as [|records inputs IH]; intros inner rs Hwf; cbn [appends].
  - intros [= <- <-]. simpl. unfold expected_sequence.
    destruct (producer_states inner !! pid) as [st|] eqn:Hst; simpl; [|done].
    destruct Hwf as (_ & _ & _ & Hps). destruct (Hps _ _ Hst) as (_ & _ & ? & _).
    by rewrite Z.add_0_r, Z.mod_small.
  - destruct (append inner records) as [[r i1]|] eqn:Happ; [|done]. cbn [panic_bind fst snd].
    destruct (appends i1 inputs) as [[rs' i2]|] eqn:Hrun; [|done]. cbn [panic_bind fst snd].
    intros [= <- <-]. pose proof (append_wf _ _ _ _ Hwf Happ) as Hwf1.
    rewrite (IH _ _ Hwf1 Hrun). cbn [produced_total].
    destruct (append_expected _ _ _ _ pid Hwf Happ) as (-> & _ & _).
    rewrite Zplus_mod_idemp_l. f_equal. lia.
Qed.

(** ** Retries within the window *)

(** How many of the appends added a record set of the producer. *)
Fixpoint pushes (pid : Z) (inputs : list (list byte))
    (rs : list (result AppendError AppendResult)) : nat :=
  match inputs, rs with
  | records :: inputs, r :: rs =>
      (if bool_decide (0 < appended_records pid records r) then 1 else 0) + pushes pid inputs rs
  | _, _ => 0
  end.

(** The window of [pid] holds [e] with at least [k] newer places left. *)
Definition in_window (inner : PartitionLogInner) (pid epoch : Z) (e : RecentAppend) (k : nat) : Prop :=
  ∃ st pre post, producer_states inner !! pid = Some st ∧ ps_producer_epoch st = epoch ∧
    ps_recent st = pre ++ e :: post ∧ (length post + k < RECENT_APPEND_LIMIT)%nat.

Lemma push_recent_keep pre e post r :
  (length post + 1 < RECENT_APPEND_LIMIT)%nat →
  ∃ pre', push_recent (pre ++ e :: post) r = pre' ++ e :: (post ++ [r]).
Proof.
  intros Hk. unfold push_recent, RECENT_APPEND_LIMIT in *.
  exists (drop (S (length (pre ++ e :: post)) - 5) pre).
  rewrite drop_app_le by (rewrite length_app; cbn [length]; lia).
  by rewrite <- app_assoc.
Qed.

Lemma append_window inner records r inner' pid epoch e k :
  log_wf inner → append inner records = Some (r, inner') →
  let n := if bool_decide (0 < appended_records pid records r) then 1%nat else 0%nat in
  (n ≤ k)%nat → in_window inner pid epoch e k → in_window inner' pid epoch e (k - n).
Proof.
  intros Hwf Happ n Hn Hwin.
  destruct (append_inv inner records) as (r1 & i1 & Happ1 & Hcases).
  rewrite Happ1 in Happ. injection Happ as -> ->.
  assert (in_window inner pid epoch e (k - n)) as Hless.
  { destruct Hwin as (st & pre & post & ? & ? & ? & ?). exists st, pre, post. split_and!; auto. lia. }
  destruct Hcases as [(er & -> & ->)|(vs & first & Hv & Hf & Htot & Hc)]; [done|].
  pose proof (producer_of_validated _ _ _ Hv Hf) as Hprod.
  apply validate_record_set_spec in Hv as (Hne & Hall & _ & _).
  destruct Hc as [(recent & _ & -> & ->)|(stored & Hmay & Hmax & Hst & -> & ->)]; [done|].
  pose proof (record_total_pos vs Hne Hall).
  destruct Hless as (st & pre & post & Hlook & He & Hrec & Hlen).
  unfold in_window, appended_log. cbn [producer_states].
  destruct (batch_producer first) as [p|] eqn:Hp; [|by eauto 10].
  destruct (decide (rsp_producer_id p = pid)) as [<-|Hpid].
  - assert (n = 1%nat) as Hn1.
    { unfold n, appended_records. cbn [ar_appended ar_record_count andb].
      rewrite Hprod. cbn [fmap option_fmap option_map].
      by rewrite (bool_decide_true (Some _ = Some _)), bool_decide_true. }
    destruct Hwin as (st' & pre' & post' & Hlook' & He' & Hrec' & Hlen').
    rewrite Hn1 in Hn. unfold record_producer. rewrite lookup_insert_eq, Hlook'. simpl.
    set (r := mkRecentAppend _ _ _ _).
    destruct (push_recent_keep pre' e post' r) as [pre'' Hpush];
      [unfold RECENT_APPEND_LIMIT in *; lia|].
    eexists _, pre'', (post' ++ [r]). split; [reflexivity|]. cbn [ps_producer_epoch ps_recent].
    rewrite Hrec', Hpush. split_and!; [done..|].
    rewrite length_app, Hn1. cbn [length]. unfold RECENT_APPEND_LIMIT in *. lia.
  - rewrite record_producer_lookup_ne by done. eauto 10.
Qed.

Lemma appends_window inner inputs rs inner' pid epoch e k :
  log_wf inner → appends inner inputs = Some (rs, inner') → (pushes pid inputs rs ≤ k)%nat →
  in_window inner pid epoch e k → in_window inner' pid epoch e (k - pushes pid inputs rs).
Proof.
  revert inner rs k. induction inputs as [|records inputs IH]; intros inner rs k Hwf; cbn [appends].
  - intros [= <- <-] _ Hw. simpl. by rewrite Nat.sub_0_r.
  - destruct (append inner records) as [[r i1]|] eqn:Happ; [|done]. cbn [panic_bind fst snd].
    destruct (appends i1 inputs) as [[rs' i2]|] eqn:Hrun; [|done]. cbn [panic_bind fst snd].
    intros [= <- <-] Hk Hw. cbn [pushes] in *.
    pose proof (append_wf _ _ _ _ Hwf Happ) as Hwf1.
    set (n := if bool_decide (0 < appended_records pid records r) then 1%nat else 0%nat) in *.
    assert (n ≤ k)%nat as Hn by lia.
    pose proof (append_window _ _ _ _ _ _ _ _ Hwf Happ Hn Hw) as Hw1. fold n in Hw1.
    replace (k - (n + pushes pid inputs rs'))%nat with (k - n - pushes pid inputs rs')%nat by lia.
    eapply IH; [done..|lia|done].
Qed.

(** ** Properties *)

Lemma skip_while_split (p : StoredBatch → bool) l1 l2 :
  Forall (λ b, p b = true) l1 → (∀ b l, l2 = b :: l → p b = false) →
  skip_while p (l1 ++ l2) = l2.
Proof.
  intros Hl1 Hl2. induction Hl1 as [|b l1 Hb _ IH]; simpl.
  - destruct l2 as [|b l2]; [done|]. simpl. by rewrite (Hl2 b l2).
  - by rewrite Hb.
Qed.

Lemma chain_last_lt base bs next : chain base bs next → Forall (λ b, sb_last_offset b < next) bs.
Proof.
  revert base. induction bs as [|b bs IH]; intros base; simpl; [done|].
  intros (? & ? & ? & Hc). constructor; [|by eapply IH]. apply chain_le in Hc. lia.
Qed.

Lemma bytes_of_app bs bs' : bytes_of (bs ++ bs') = bytes_of bs ++ bytes_of bs'.
Proof. unfold bytes_of. by rewrite fmap_app, concat_app. Qed.

(** Batches that fit together are all fetched. *)
Lemma fetch_loop_all max bs :
  len (bytes_of bs) ≤ max → max ≤ usize_max → Forall batch_shape bs →
  fetch_loop max [] bs = Some (bytes_of bs).
Proof.
  intros Hlen Hmax Hbs.
  destruct (fetch_loop_first max bs Hmax Hbs) as (got & post & -> & -> & _ & _ & Hstop).
  destruct post as [|b post]; [by rewrite app_nil_r|].
  specialize (Hstop b post eq_refl). rewrite bytes_of_app, bytes_of_cons, !len_app in Hlen.
  pose proof (len_nonneg (bytes_of post)). lia.
Qed.

Lemma place_bytes_len base vs :
  Forall validated_ok vs →
  len (concat (vb_bytes <$> place base vs)) = len (concat (vb_bytes <$> vs)).
Proof.
  intros Hvs. revert base. induction Hvs as [|v vs Hv _ IH]; intros base; [done|].
  cbn [place fmap list_fmap concat]. rewrite !len_app. f_equal; [|apply IH].
  apply validated_inv in Hv as (_ & _ & Hl). unfold FIXED_BATCH_SIZE in Hl.
  unfold len. cbn [patch_validated vb_bytes]. rewrite length_patch_offset by lia. done.
Qed.

Lemma place_one_producer base vs : one_producer vs → one_producer (place base vs).
Proof.
  intros Hone.
  assert (∀ b v, v ∈ place b vs → ∃ v', v' ∈ vs ∧ vb_producer_id v = vb_producer_id v' ∧
    vb_producer_epoch v = vb_producer_epoch v') as Hin.
  { clear Hone. induction vs as [|x vs IH]; intros b v; simpl; [by intros ?%elem_of_nil|].
    intros [->|Hv]%elem_of_cons; [exists x; split_and!; [left|done|done]|].
    destruct (IH _ _ Hv) as (v' & ? & ? & ?). exists v'. split_and!; [by right|done|done]. }
  intros v v' (w & Hw & Hp & He)%Hin (w' & Hw' & Hp' & He')%Hin.
  destruct (Hone w w' Hw Hw'). split; congruence.
Qed.

(** C2: from an empty log, every sequence of produced byte strings, valid or
    not, runs without a panic and leaves a well-formed log: batches with
    consecutive offsets from 0 to the high watermark, each valid under its
    checksum and carrying its own base offset, and per producer a window of at
    most five remembered appends that are in the log, with contiguous sequence
    numbers. *)
Theorem partition_log_invariant (inputs : list (list byte)) :
  ∃ rs inner, appends empty_log inputs = Some (rs, inner) ∧ log_wf inner.
Proof. apply appends_wf, empty_log_wf. Qed.

(** C29: validation terminates on every byte string, and accepts it exactly when
    it is a non-empty concatenation of well-formed batches, read off the layout
    of the version-2 format, that all name the same producer; what it returns are
    the fields of these batches. *)
Theorem validate_record_set_correct (records : list byte) :
  (∃ r, validate_record_set records = Some r) ∧
  ∀ vs, validate_record_set records = Some (Ok vs) ↔
    ∃ batches, batches ≠ [] ∧ records = concat batches ∧ Forall well_formed_batch batches ∧
      (∀ b b', b ∈ batches → b' ∈ batches →
        int_field 43 8 b = int_field 43 8 b' ∧ int_field 51 2 b = int_field 51 2 b') ∧
      vs = batch_fields <$> batches.
Proof.
  split; [apply validate_record_set_total|]. intros vs. rewrite validate_record_set_spec. split.
  - intros (Hne & Hall & Hone & ->). exists (vb_bytes <$> vs).
    assert (vs = batch_fields <$> (vb_bytes <$> vs)) as Hvs.
    { rewrite <- list_fmap_compose. rewrite <- (list_fmap_id vs) at 1. apply list_fmap_ext.
      intros k v Hk. rewrite Forall_lookup in Hall. by apply validated_well_formed, (Hall k). }
    split_and!; [by destruct vs|done| | |done].
    + apply Forall_fmap. eapply Forall_impl; [exact Hall|]. intros v. by apply validated_well_formed.
    + intros b b' (v & -> & Hv)%list_elem_of_fmap (v' & -> & Hv')%list_elem_of_fmap.
      rewrite Forall_forall in Hall. destruct (Hone v v' Hv Hv') as [Hid Hep].
      destruct (proj1 (validated_well_formed v) (Hall v Hv)) as [_ Hf].
      destruct (proj1 (validated_well_formed v') (Hall v' Hv')) as [_ Hf'].
      rewrite Hf, Hf' in Hid, Hep. done.
  - intros (batches & Hne & -> & Hall & Hone & ->).
    assert (vb_bytes <$> (batch_fields <$> batches) = batches) as Hb.
    { rewrite <- list_fmap_compose. apply list_fmap_id. }
    split_and!; [by destruct batches| | |by rewrite Hb].
    + apply Forall_fmap. eapply Forall_impl; [exact Hall|]. intros b Hwf. by apply validated_well_formed.
    + intros v v' (b & -> & Hb1)%list_elem_of_fmap (b' & -> & Hb2)%list_elem_of_fmap. by apply Hone.
Qed.

(** C31: an append never panics; an error or a replayed retry leaves the log
    unchanged; an accepted append adds batches at the end only, and its result
    names exactly the offsets they take. *)
Theorem append_outcomes (inner : PartitionLogInner) (records : list byte) :
  ∃ r inner', append inner records = Some (r, inner') ∧
    match r with
    | Err _ => inner' = inner
    | Ok res =>
        if ar_appended res then
          ∃ stored, batches inner' = batches inner ++ stored ∧
            chain (next_offset inner) stored (next_offset inner') ∧
            ar_base_offset res = next_offset inner ∧
            ar_last_offset res = next_offset inner' - 1 ∧
            ar_record_count res = next_offset inner' - next_offset inner ∧
            next_offset inner < next_offset inner' ≤ i64_max
        else inner' = inner
    end.
Proof.
  destruct (append_inv inner records) as (r & inner' & Happ & Hcases).
  exists r, inner'. split; [done|].
  destruct Hcases as [(e & -> & ->)|(vs & first & Hv & Hf & Htot & Hc)]; [done|].
  apply validate_record_set_spec in Hv as (Hne & Hall & _ & _).
  pose proof (record_total_pos vs Hne Hall).
  destruct Hc as [(recent & _ & -> & ->)|(stored & _ & Hmax & Hst & -> & ->)]; [done|].
  destruct (store_batches_spec (next_offset inner) vs Hall) as (s' & Hst' & Hchain & _).
  rewrite Hst in Hst'. injection Hst' as <-. simpl. exists stored. split_and!; done || lia.
Qed.

(** C9: what is produced is what is fetched.  After an accepted append, a fetch
    at the assigned base offset with room for the record set returns bytes that
    validate to the produced batches with only their base offsets rewritten
    (same length, record counts, producer, sequences and checksums). *)
Theorem append_then_fetch (inner inner' : PartitionLogInner) (records : list byte)
    (r : AppendResult) (max : Z) :
  log_wf inner → append inner records = Some (Ok r, inner') → ar_appended r = true →
  len records ≤ max ≤ usize_max →
  ∃ vs bytes, validate_record_set records = Some (Ok vs) ∧
    fetch inner' (ar_base_offset r) max = Some (Ok (mkFetchSnapshot bytes (next_offset inner'))) ∧
    validate_record_set bytes = Some (Ok (place (ar_base_offset r) vs)) ∧
    len bytes = len records.
Proof.
  intros Hwf Happ Happended [Hlen Hmax].
  destruct (append_inv inner records) as (r1 & i1 & Happ1 & Hcases).
  rewrite Happ1 in Happ. injection Happ as -> ->.
  destruct Hcases as [(e & ? & _)|(vs & first & Hv & Hf & Htot & Hc)]; [done|].
  pose proof Hv as Hvalid. apply validate_record_set_spec in Hv as (Hne & Hall & Hone & ->).
  destruct Hc as [(recent & _ & [= ->] & _)|(stored & Hmay & Hmax' & Hst & -> & [= ->])];
    [done|].
  destruct Hwf as (Hn & Hchain & _).
  destruct (store_batches_spec (next_offset inner) vs Hall)
    as (stored' & Hst' & Hchain' & Hok & Hbytes & _).
  rewrite Hst in Hst'. injection Hst' as <-.
  assert (bytes_of stored = concat (vb_bytes <$> place (next_offset inner) vs)) as Hb
    by (unfold bytes_of; by rewrite Hbytes).
  assert (len (bytes_of stored) = len (concat (vb_bytes <$> vs))) as Hl
    by (rewrite Hb; by apply place_bytes_len).
  pose proof (record_total_pos vs Hne Hall).
  exists vs, (bytes_of stored). split_and!; [done| | |done].
  - unfold fetch. cbn [ar_base_offset appended_log next_offset batches].
    rewrite decide_False by lia. rewrite skip_while_split.
    + by rewrite fetch_loop_all by (lia || by eapply chain_shape).
    + eapply Forall_impl; [by eapply chain_last_lt|]. intros b Hlt. by apply bool_decide_true.
    + intros b l ->. destruct Hchain' as (? & ? & ? & _). apply bool_decide_false. lia.
  - rewrite Hb. apply validate_record_set_spec. split_and!; [|by apply place_ok
      |by apply place_one_producer|done]. by destruct vs.
Qed.

(** C5: idempotence.  Once a record set of an idempotent producer is accepted,
    sending the same bytes again, after any other traffic in which at most four
    further record sets of that producer were appended, returns the original
    offsets marked as not appended and leaves the log unchanged. *)
Theorem retry_is_replayed (inner inner1 inner2 : PartitionLogInner) (records : list byte)
    (r : AppendResult) (pid : Z) (others : list (list byte))
    (rs : list (result AppendError AppendResult)) :
  log_wf inner → append inner records = Some (Ok r, inner1) → ar_appended r = true →
  producer_of records = Some pid →
  appends inner1 others = Some (rs, inner2) → (pushes pid others rs ≤ 4)%nat →
  append inner2 records = Some (Ok (replayed r), inner2).
Proof.
  intros Hwf Happ Happended Hpid Hrun Hpush.
  pose proof (append_wf _ _ _ _ Hwf Happ) as Hwf1.
  destruct (appends_wf inner1 others Hwf1) as (rs' & i2 & Hrun' & Hwf2).
  rewrite Hrun in Hrun'. injection Hrun' as <- <-.
  destruct (append_inv inner records) as (r1 & i1 & Happ1 & Hcases).
  rewrite Happ1 in Happ. injection Happ as -> ->.
  destruct Hcases as [(e & ? & _)|(vs & first & Hv & Hf & Htot & Hc)]; [done|].
  rewrite (producer_of_validated _ _ _ Hv Hf) in Hpid.
  destruct (batch_producer first) as [p|] eqn:Hp; [|done]. injection Hpid as <-.
  destruct Hc as [(recent & _ & [= ->] & _)|(stored & Hmay & Hmax' & Hst & Heq1 & [= Hr])];
    [done|].
  set (e := mkRecentAppend (vb_base_sequence first) (fingerprint <$> vs) (vb_bytes <$> vs) r).
  assert (in_window inner1 (rsp_producer_id p) (rsp_producer_epoch p) e 4) as Hwin.
  { rewrite Heq1. unfold in_window, appended_log. cbn [producer_states]. rewrite Hp, <- Hr.
    unfold record_producer. rewrite lookup_insert_eq.
    eexists _, _, []. split; [reflexivity|]. cbn [ps_producer_epoch ps_recent length].
    split_and!; [|reflexivity|unfold RECENT_APPEND_LIMIT; lia].
    unfold may_append in Hmay. rewrite Hp in Hmay. destruct Hmay as [_ Hst2].
    destruct (producer_states inner !! rsp_producer_id p); [by destruct Hst2|done]. }
  destruct (appends_window _ _ _ _ _ _ _ _ Hwf1 Hrun Hpush Hwin)
    as (st & pre & post & Hlook & Hepoch & Hrec & _).
  destruct Hwf2 as (_ & _ & _ & Hps). destruct (Hps _ _ Hlook) as (_ & _ & _ & _ & _ & _ & Hnd & _).
  pose proof Hv as (Hne & Hall & _ & _)%validate_record_set_spec.
  unfold append. rewrite Hv, sum_record_counts_ok by (by apply validated_counts || lia).
  rewrite Hf. cbn [panic_bind]. unfold append_locked, check_sequence.
  rewrite Hp, Hlook, decide_False by auto.
  rewrite (find_retry_Some _ _ _ _ e Hnd); [done| |done].
  rewrite Hrec. set_solver.
Qed.

(** C22: exactly-once numbering.  After any sequence of appends on an empty log,
    the next sequence number expected from a producer is the number of its
    records in the log, modulo 2^31: no accepted batch is skipped, repeated or
    counted twice, across the wrap-around too. *)
Theorem sequence_counts_records (inputs : list (list byte))
    (rs : list (result AppendError AppendResult)) (inner : PartitionLogInner) (pid : Z) :
  appends empty_log inputs = Some (rs, inner) →
  expected_sequence inner pid = produced_total pid inputs rs mod SEQUENCE_MODULUS.
Proof.
  intros Hrun. rewrite (appends_expected _ _ _ _ pid empty_log_wf Hrun).
  unfold expected_sequence. cbn [empty_log producer_states]. by rewrite lookup_empty.
Qed.

(** C37: the error of an out-of-place record set of a known producer: another
    epoch is out of order; in the same epoch and outside the retry window, a
    base sequence up to 2^30 behind the expected one is a duplicate, any other
    is out of order.  The log is unchanged. *)
Theorem append_sequence_error (inner : PartitionLogInner) (records : list byte)
    (vs : list ValidatedBatch) (first : ValidatedBatch) (p : RecordSetProducer)
    (st : ProducerPartitionState) :
  log_wf inner → validate_record_set records = Some (Ok vs) → head vs = Some first →
  record_total vs ≤ i32_max → batch_producer first = Some p →
  producer_states inner !! rsp_producer_id p = Some st →
  (∀ recent, ¬ window_hit inner first vs recent) →
  vb_base_sequence first ≠ ps_next_sequence st ∨ ps_producer_epoch st ≠ rsp_producer_epoch p →
  append inner records =
    Some (Err (if decide (ps_producer_epoch st = rsp_producer_epoch p ∧
                 (ps_next_sequence st - vb_base_sequence first) mod SEQUENCE_MODULUS
                   ≤ SEQUENCE_MODULUS / 2)
               then DuplicateSequence else OutOfOrderSequence), inner).
Proof.
  intros (_ & _ & _ & Hps) Hv Hf Htot Hp Hlook Hno Hbad.
  pose proof Hv as (Hne & Hall & _ & _)%validate_record_set_spec.
  unfold append. rewrite Hv, sum_record_counts_ok by (by apply validated_counts || lia).
  rewrite Hf. cbn [panic_bind]. unfold append_locked, check_sequence. rewrite Hp, Hlook.
  destruct (decide (ps_producer_epoch st ≠ rsp_producer_epoch p)) as [He|He].
  { by rewrite decide_False by tauto. }
  apply dec_stable in He. destruct Hbad as [Hbad|?]; [|done].
  destruct (List.find _ _) as [recent|] eqn:Hfind.
  { destruct (Hno recent). exists p, st. auto. }
  destruct vs as [|v vs]; [done|]. injection Hf as ->. cbn [validate_sequences].
  rewrite decide_True by done. cbn [mbind result_bind]. do 3 f_equal.
  apply Forall_cons in Hall as [Hfirst _].
  destruct (validated_producer _ _ Hfirst Hp) as (_ & _ & Hbs).
  destruct (Hps _ _ Hlook) as (_ & _ & Hns & _).
  set (a := vb_base_sequence first) in *. set (b := ps_next_sequence st) in *.
  unfold classify_sequence_mismatch.
  assert ((a - b) mod SEQUENCE_MODULUS = SEQUENCE_MODULUS - (b - a) mod SEQUENCE_MODULUS) as ->.
  { replace (a - b) with (- (b - a)) by lia. rewrite Z.mod_opp_l_nz; [done|done|].
    intros Hz. apply Z.mod_divide in Hz as [k Hk]; [|done].
    unfold SEQUENCE_MODULUS, i32_max in *. nia. }
  set (d := (b - a) mod SEQUENCE_MODULUS).
  change SEQUENCE_MODULUS with 2147483648. change (2147483648 / 2) with 1073741824.
  destruct (decide (d ≤ 1073741824)).
  - rewrite decide_False, decide_True by (done || lia). done.
  - rewrite decide_True, decide_False by (lia || tauto). done.
Qed.

(** C11: a fetch outside the log is rejected; a fetch inside it returns whole
    consecutive batches starting with the one that holds the requested offset
    (none only at the high watermark), at least one whatever its size, otherwise
    within the byte limit, and stops only at the end of the log or before a
    batch that does not fit. *)
Theorem fetch_correct (inner : PartitionLogInner) (o max : Z) :
  log_wf inner → max ≤ usize_max →
  (¬ (0 ≤ o ≤ next_offset inner) → fetch inner o max = Some (Err OutOfRange)) ∧
  (0 ≤ o ≤ next_offset inner →
   ∃ pre got post, fetched inner o max pre got post ∧
     fetch inner o max = Some (Ok (mkFetchSnapshot (bytes_of got) (next_offset inner)))).
Proof.
  intros Hwf Hmax. split; [|intros Ho; by apply fetch_in_range].
  intros Ho. unfold fetch. by rewrite decide_True by lia.
Qed.
End log.

(** ** Witnesses: a producer with two record sets *)

#[local] Existing Instance crc32c_instance.

Definition sample_set (first_sequence count : Z) : list byte :=
  let records := (λ i, sample_record i (first_sequence + i) false) <$> seqZ 0 count in
  match encode_record_set records {| opt_version := 2; opt_compression := CNone |} [] with
  | Some (Ok bytes) => bytes
  | _ => []
  end.

Definition set_a : list byte := Eval vm_compute in sample_set 0 2.
Definition set_b : list byte := Eval vm_compute in sample_set 2 3.
Definition set_far : list byte := Eval vm_compute in sample_set 40 1.

Definition log_after (inner : PartitionLogInner) (records : list byte) : PartitionLogInner :=
  from_option snd inner (append inner records).
Definition log_a : PartitionLogInner := Eval vm_compute in log_after empty_log set_a.
Definition log_ab : PartitionLogInner := Eval vm_compute in log_after log_a set_b.

Definition result_a : AppendResult := mkAppendResult 0 1 2 true.
Definition result_b : AppendResult := mkAppendResult 2 4 3 true.

Lemma append_a : append empty_log set_a = Some (Ok result_a, log_a).
Proof. vm_compute. reflexivity. Qed.
Lemma append_b : append log_a set_b = Some (Ok result_b, log_ab).
Proof. vm_compute. reflexivity. Qed.
Lemma log_a_wf : log_wf log_a.
Proof. exact (append_wf _ _ _ _ empty_log_wf append_a). Qed.
Lemma log_ab_wf : log_wf log_ab.
Proof. exact (append_wf _ _ _ _ log_a_wf append_b). Qed.

Lemma append_then_fetch_witness :
  ∃ vs bytes, validate_record_set set_b = Some (Ok vs) ∧
    fetch log_ab 2 10000 = Some (Ok (mkFetchSnapshot bytes 5)) ∧
    validate_record_set bytes = Some (Ok (place 2 vs)) ∧ len bytes = len set_b.
Proof.
  apply (append_then_fetch log_a log_ab set_b result_b 10000).
  - exact log_a_wf.
  - exact append_b.
  - reflexivity.
  - vm_compute. split; discriminate.
Defined.

Lemma retry_is_replayed_witness :
  append log_ab set_a = Some (Ok (mkAppendResult 0 1 2 false), log_ab).
Proof.
  apply (retry_is_replayed empty_log log_a log_ab set_a result_a 7 [set_b] [Ok result_b]).
  - exact empty_log_wf.
  - exact append_a.
  - reflexivity.
  - vm_compute. reflexivity.
  - vm_compute. reflexivity.
  - vm_compute. repeat constructor.
Defined.

Lemma sequence_counts_records_witness : expected_sequence log_ab 7 = 5.
Proof.
  assert (appends empty_log [set_a; set_b] = Some ([Ok result_a; Ok result_b], log_ab)) as Hrun
    by (vm_compute; reflexivity).
  rewrite (sequence_counts_records _ _ _ 7 Hrun). vm_compute. reflexivity.
Defined.

Definition validated_far : list ValidatedBatch := Eval vm_compute in
  match validate_record_set set_far with Some (Ok vs) => vs | _ => [] end.

Lemma append_sequence_error_witness :
  append log_ab set_far = Some (Err OutOfOrderSequence, log_ab).
Proof.
  assert (∃ first, head validated_far = Some first) as [first Hf]
    by (eexists; vm_compute; reflexivity).
  assert (∃ st, producer_states log_ab !! 7 = Some st) as [st Hst]
    by (eexists; vm_compute; reflexivity).
  pose proof (append_sequence_error log_ab set_far validated_far first
    (mkRecordSetProducer 7 0) st) as Happ.
  vm_compute in Hf, Hst. injection Hf as <-. injection Hst as <-.
  rewrite Happ.
  - rewrite decide_False; [reflexivity|]. vm_compute. intros [_ Hle]. by apply Hle.
  - exact log_ab_wf.
  - vm_compute. reflexivity.
  - reflexivity.
  - vm_compute. discriminate.
  - vm_compute. reflexivity.
  - vm_compute. reflexivity.
  - intros recent (p & st & Hp & Hl & He & Hfind). vm_compute in Hp. injection Hp as <-.
    vm_compute in Hl. injection Hl as <-. vm_compute in Hfind. discriminate.
  - left. vm_compute. discriminate.
Defined.

Lemma fetch_correct_witness :
  ∃ pre got post, fetched log_ab 3 100 pre got post ∧
    fetch log_ab 3 100 = Some (Ok (mkFetchSnapshot (bytes_of got) 5)).
Proof.
  apply (fetch_correct log_ab 3 100).
  - exact log_ab_wf.
  - vm_compute. discriminate.
  - vm_compute. split; discriminate.
Defined.
End PartitionCorrect.
