(* ===== verification/Producers.v ===== *)
(** * The producer coordinator

    [src/src/broker/producers.rs]: identifiers for idempotent producers.
    [ProducerCoordinatorInner] is the state behind the mutex; each operation
    takes the lock once. *)

From S2P Require Import Prelude.

Module Producers.

(* @ src/src/broker/producers.rs 6-9 ProducerIdentity *)
Record ProducerIdentity : Type := mkProducerIdentity {
  pi_producer_id : Z;
  pi_producer_epoch : Z
}.

(* @ src/src/broker/producers.rs 12-16 ProducerError *)
Inductive ProducerError : Type := IdExhausted | UnknownProducerId | InvalidProducerEpoch.

(* @ src/src/broker/producers.rs 36-39 ProducerCoordinatorInner *)
Record ProducerCoordinatorInner : Type := mkProducerCoordinatorInner {
  next_id : Z;
  epochs : gmap Z Z
}.

(* @ src/src/broker/producers.rs 42-49 ProducerCoordinator::new *)
Definition new : ProducerCoordinatorInner := mkProducerCoordinatorInner 0 ∅.

(* @ src/src/broker/producers.rs 51-63 ProducerCoordinator::allocate *)
Definition allocate (inner : ProducerCoordinatorInner) :
    result ProducerError ProducerIdentity * ProducerCoordinatorInner :=
  match checked_add i64_max (next_id inner) 1 with
  | None => (Err IdExhausted, inner)
  | Some producer_id =>
      (Ok (mkProducerIdentity producer_id 0),
       mkProducerCoordinatorInner producer_id (<[producer_id := 0]> (epochs inner)))
  end.

(* @ src/src/broker/producers.rs 65-76 ProducerCoordinator::validate *)
Definition validate (inner : ProducerCoordinatorInner) (producer_id producer_epoch : Z) :
    result ProducerError () :=
  match epochs inner !! producer_id with
  | None => Err UnknownProducerId
  | Some expected_epoch =>
      if decide (expected_epoch = producer_epoch) then Ok () else Err InvalidProducerEpoch
  end.

(** ** Invariant *)

(** The identifiers handed out are exactly [1 .. next_id], all in epoch 0. *)
Definition producers_wf (inner : ProducerCoordinatorInner) : Prop :=
  0 ≤ next_id inner ≤ i64_max ∧
  ∀ id, epochs inner !! id = if decide (1 ≤ id ≤ next_id inner) then Some 0 else None.

Lemma new_wf : producers_wf new.
Proof.
  split; [unfold i64_max; simpl; lia|]. intros id. simpl. by rewrite lookup_empty, decide_False by lia.
Qed.

Lemma allocate_wf inner : producers_wf inner → producers_wf (allocate inner).2.
Proof.
  intros [Hn He]. unfold allocate. destruct (checked_add _ _ _) as [id|] eqn:Hid; [|done].
  apply checked_add_Some in Hid as [-> Hmax]. split; simpl; [lia|]. intros id.
  destruct (decide (id = next_id inner + 1)) as [->|Hne].
  - by rewrite lookup_insert_eq, decide_True by lia.
  - rewrite lookup_insert_ne, He by done. repeat case_decide; (done || lia).
Qed.

Lemma validate_spec inner id epoch :
  producers_wf inner →
  validate inner id epoch =
    if decide (1 ≤ id ≤ next_id inner) then
      if decide (epoch = 0) then Ok () else Err InvalidProducerEpoch
    else Err UnknownProducerId.
Proof.
  intros [_ He]. unfold validate. rewrite He. repeat case_decide; by try lia.
Qed.

Lemma allocate_next inner : next_id inner ≤ next_id (allocate inner).2.
Proof.
  unfold allocate. destruct (checked_add _ _ _) as [id|] eqn:Hid; [|done].
  apply checked_add_Some in Hid as [-> _]. simpl. lia.
Qed.

(** [n] calls of [allocate] in a row. *)
Fixpoint allocations (n : nat) (inner : ProducerCoordinatorInner) :
    list (result ProducerError ProducerIdentity) * ProducerCoordinatorInner :=
  match n with
  | O => ([], inner)
  | S n =>
      let '(r, inner) := allocate inner in
      let '(rs, inner) := allocations n inner in
      (r :: rs, inner)
  end.

Lemma allocations_spec n inner :
  producers_wf inner → next_id inner + Z.of_nat n ≤ i64_max →
  producers_wf (allocations n inner).2 ∧
  next_id (allocations n inner).2 = next_id inner + Z.of_nat n ∧
  (allocations n inner).1 =
    (λ i, Ok (mkProducerIdentity (next_id inner + 1 + Z.of_nat i) 0)) <$> seq 0 n.
Proof.
  revert inner. induction n as [|n IH]; intros inner Hwf Hn.
  - simpl. split_and!; [done|lia|done].
  - pose proof (allocate_wf inner Hwf) as Hwf1. cbn [allocations].
    assert (allocate inner = (Ok (mkProducerIdentity (next_id inner + 1) 0),
      mkProducerCoordinatorInner (next_id inner + 1) (<[next_id inner + 1 := 0]> (epochs inner))))
      as Ha.
    { unfold allocate, checked_add. by rewrite decide_True by lia. }
    rewrite Ha in *. cbn [snd] in Hwf1. specialize (IH _ Hwf1). cbn [next_id] in IH.
    destruct (allocations n _) as [rs inner2]. destruct IH as (H1 & H2 & H3); [lia|].
    cbn [fst snd] in *. split_and!; [done|lia|]. rewrite H3. cbn [seq fmap list_fmap].
    f_equal; [do 2 f_equal; lia|]. rewrite <- fmap_S_seq, <- list_fmap_compose.
    apply list_fmap_ext. intros i k _. simpl. do 2 f_equal. lia.
Qed.

(** Producer identifiers.  The first [n] allocations of a broker return
    [1, 2, .., n], each with epoch 0, so no identifier is handed out twice; and
    afterwards a (producer, epoch) pair validates exactly when it was handed
    out, an unknown identifier and a wrong epoch being told apart. *)
Theorem producer_ids_unique (n : nat) (id epoch : Z) :
  Z.of_nat n ≤ i64_max →
  (allocations n new).1 = (λ i, Ok (mkProducerIdentity (1 + Z.of_nat i) 0)) <$> seq 0 n ∧
  NoDup (allocations n new).1 ∧
  validate (allocations n new).2 id epoch =
    if decide (1 ≤ id ≤ Z.of_nat n) then
      if decide (epoch = 0) then Ok () else Err InvalidProducerEpoch
    else Err UnknownProducerId.
Proof.
  intros Hn. destruct (allocations_spec n new new_wf) as (Hwf & Hnext & Hrs); [done|].
  rewrite (validate_spec _ _ _ Hwf), Hnext, Hrs. split_and!; [done| |done].
  apply NoDup_fmap_2; [|apply NoDup_seq]. intros i j [= Heq]. lia.
Qed.

Lemma producer_ids_unique_witness :
  validate (allocations 3 new).2 3 0 = Ok () ∧
  validate (allocations 3 new).2 4 0 = Err UnknownProducerId.
Proof.
  split.
  - destruct (producer_ids_unique 3 3 0) as (_ & _ & ->); [unfold i64_max; lia|]. reflexivity.
  - destruct (producer_ids_unique 3 4 0) as (_ & _ & ->); [unfold i64_max; lia|]. reflexivity.
Defined.

(** The identifier space runs out with an error, never by reusing one. *)
Lemma allocate_exhausted inner :
  next_id inner = i64_max → allocate inner = (Err IdExhausted, inner).
Proof.
  intros H. unfold allocate, checked_add. rewrite decide_False by (rewrite H; lia). done.
Qed.

End Producers.
