(* ===== verification/Frame.v ===== *)
(** * Length-prefixed frames

    [src/src/kafka/frame.rs]: reading and writing Kafka frames on a byte
    stream.  A stream delivers its bytes in segments of any size, so one read
    may return fewer bytes than asked for; when the segments are exhausted the
    stream has ended, or fails with an I/O error.  The theorems say that how the
    bytes are cut into segments is irrelevant, and that written frames are read
    back. *)

From S2P Require Import Prelude.
Open Scope Z_scope.

Module Frame.

(* @ src/src/kafka/frame.rs 6-6 MAX_FRAME_SIZE *)
Definition MAX_FRAME_SIZE : Z := 100 * 1024 * 1024.

(** An [io::Error]: the kind the code itself raises, or one of the system. *)
Inductive io_error : Type := UnexpectedEof | OsError (code : Z).

(* @ src/src/kafka/frame.rs 8-13 FrameError *)
Inductive FrameError : Type :=
| Io (e : io_error)
| InvalidLength (length : Z)
| TooLarge (length : Z).

(** ** Streams

    The segments still to arrive and what comes after them: the end of the
    stream or an error. *)
Record Reader : Type := mkReader {
  segments : list (list byte);
  failure : option io_error
}.

(** [AsyncReadExt::read] into a buffer of [n] bytes, [n > 0]: some of the bytes
    that have arrived, at most [n]; none only at the end of the stream. *)
Fixpoint next_bytes (n : nat) (segs : list (list byte)) : list byte * list (list byte) :=
  match segs with
  | [] => ([], [])
  | [] :: segs => next_bytes n segs
  | seg :: segs => (take n seg, drop n seg :: segs)
  end.

Definition read (n : nat) (r : Reader) : result io_error (list byte) * Reader :=
  let '(bs, segs) := next_bytes n (segments r) in
  let r' := mkReader segs (failure r) in
  match bs, failure r with
  | [], Some e => (Err e, r')
  | _, _ => (Ok bs, r')
  end.

(** [AsyncReadExt::read_exact]: reads until [n] bytes have arrived; the end of
    the stream before that is [UnexpectedEof]. *)
Fixpoint read_exact (fuel n : nat) (body : list byte) (r : Reader) :
    option (result io_error (list byte) * Reader) :=
  match n, fuel with
  | O, _ => Some (Ok body, r)
  | _, O => None
  | _, S fuel =>
      match read n r with
      | (Err e, r) => Some (Err e, r)
      | (Ok [], r) => Some (Err UnexpectedEof, r)
      | (Ok bs, r) => read_exact fuel (n - length bs) (body ++ bs) r
      end
  end.

(** ** Reading a frame *)

(** The [while] loop on the prefix: [Ok None] is a clean end of the stream.
    Every iteration adds at least one byte. *)
(* @ src/src/kafka/frame.rs 49-61 read_frame *)
Fixpoint read_prefix (fuel : nat) (prefix : list byte) (r : Reader) :
    option (result FrameError (option (list byte)) * Reader) :=
  if decide (length prefix < 4)%nat then
    match fuel with
    | O => None
    | S fuel =>
        match read (4 - length prefix) r with
        | (Err e, r) => Some (Err (Io e), r)
        | (Ok [], r) =>
            if decide (length prefix = 0)%nat then Some (Ok None, r)
            else Some (Err (Io UnexpectedEof), r)
        | (Ok bs, r) => read_prefix fuel (prefix ++ bs) r
        end
    end
  else Some (Ok (Some prefix), r).

(* @ src/src/kafka/frame.rs 85-91 decode_frame_length *)
Definition decode_frame_length (length : Z) : result FrameError Z :=
  match try_unsigned length with
  | None => Err (InvalidLength length)
  | Some length => if decide (MAX_FRAME_SIZE < length) then Err (TooLarge length) else Ok length
  end.

(* @ src/src/kafka/frame.rs 45-68 read_frame *)
Definition read_frame (r : Reader) : option (result FrameError (option (list byte)) * Reader) :=
  let! (prefix, r) := read_prefix 4 [] r in
  match prefix with
  | Err e => Some (Err e, r)
  | Ok None => Some (Ok None, r)
  | Ok (Some prefix) =>
      match decode_frame_length (wrap_signed 32 (be_val prefix)) with
      | Err e => Some (Err e, r)
      | Ok length =>
          let! (body, r) := read_exact (Z.to_nat length) (Z.to_nat length) [] r in
          Some (Some <$> map_err Io body, r)
      end
  end.

(** ** Writing a frame

    A writer accepts bytes until its connection fails, if it does: [room] is
    the number of bytes it still takes.  Flushing a socket does nothing. *)
Record Writer : Type := mkWriter {
  written : list byte;
  room : option nat;
  broken : io_error
}.

Definition write_all (bs : list byte) (w : Writer) : result FrameError () * Writer :=
  match room w with
  | None => (Ok (), mkWriter (written w ++ bs) None (broken w))
  | Some k =>
      if decide (length bs ≤ k)%nat
      then (Ok (), mkWriter (written w ++ bs) (Some (k - length bs)%nat) (broken w))
      else (Err (Io (broken w)), mkWriter (written w ++ take k bs) (Some 0%nat) (broken w))
  end.

(* @ src/src/kafka/frame.rs 70-83 write_frame *)
Definition write_frame (body : list byte) (w : Writer) : option (result FrameError () * Writer) :=
  if decide (MAX_FRAME_SIZE < len body) then Some (Err (TooLarge (len body)), w)
  else if decide (i32_max < len body) then None
  else
    match write_all (be_bytes 4 (len body)) w with
    | (Err e, w) => Some (Err e, w)
    | (Ok _, w) => Some (write_all body w)
    end.

(** ** What a frame is, on the bytes of the whole stream *)

Definition content (r : Reader) : list byte := concat (segments r).

(** The first frame of [bs], or why there is none, and the bytes left; [e] is
    how the stream ends. *)
Definition first_frame (bs : list byte) (e : option io_error) :
    result FrameError (option (list byte)) * list byte :=
  if decide (length bs < 4)%nat then
    (match e, bs with
     | Some e, _ => Err (Io e)
     | None, [] => Ok None
     | None, _ => Err (Io UnexpectedEof)
     end, [])
  else
    match decode_frame_length (wrap_signed 32 (be_val (take 4 bs))) with
    | Err err => (Err err, drop 4 bs)
    | Ok n =>
        if decide (len (drop 4 bs) < n) then (Err (Io (default UnexpectedEof e)), [])
        else (Ok (Some (take (Z.to_nat n) (drop 4 bs))), drop (Z.to_nat n) (drop 4 bs))
    end.

(** The frames read until the stream ends, or until an error. *)
Fixpoint read_frames (fuel : nat) (r : Reader) : option (list (list byte) * option FrameError) :=
  match fuel with
  | O => None
  | S fuel =>
      let! (frame, r) := read_frame r in
      match frame with
      | Err e => Some ([], Some e)
      | Ok None => Some ([], None)
      | Ok (Some body) =>
          let! (rest, e) := read_frames fuel r in Some (body :: rest, e)
      end
  end.

Fixpoint write_frames (bodies : list (list byte)) (w : Writer) : option (result FrameError () * Writer) :=
  match bodies with
  | [] => Some (Ok (), w)
  | body :: bodies =>
      let! (done, w) := write_frame body w in
      match done with Err e => Some (Err e, w) | Ok _ => write_frames bodies w end
  end.

(** The bytes of a frame. *)
Definition frame_bytes (body : list byte) : list byte := be_bytes 4 (len body) ++ body.

(** ** Reading does not depend on the segments *)

Lemma next_bytes_spec n segs bs segs' :
  (0 < n)%nat → next_bytes n segs = (bs, segs') →
  concat segs = bs ++ concat segs' ∧ (length bs ≤ n)%nat ∧ (bs = [] → concat segs = []).
Proof.
  intros Hn. induction segs as [|[|b seg] segs IH]; cbn [next_bytes].
  - intros [= <- <-]. cbn. split_and!; [done|lia|done].
  - exact IH.
  - intros [= <- <-]. cbn [concat]. rewrite app_assoc, take_drop, length_take.
    split_and!; [done|lia|]. destruct n; [lia|done].
Qed.

Lemma read_cases n r :
  (0 < n)%nat →
  (content r = [] ∧ ∃ r', content r' = [] ∧ failure r' = failure r ∧
     read n r = (match failure r with Some e => Err e | None => Ok [] end, r')) ∨
  (∃ b bs r', (length (b :: bs) ≤ n)%nat ∧ content r = (b :: bs) ++ content r' ∧
     failure r' = failure r ∧ read n r = (Ok (b :: bs), r')).
Proof.
  intros Hn. unfold read. destruct (next_bytes n (segments r)) as [bs segs'] eqn:Hb.
  destruct (next_bytes_spec _ _ _ _ Hn Hb) as (Hc & Hl & He).
  destruct bs as [|b bs].
  - left. split; [by apply He|]. exists (mkReader segs' (failure r)).
    unfold content in *. rewrite He in Hc by done. cbn in *. split_and!; [done|done|].
    by destruct (failure r).
  - right. exists b, bs, (mkReader segs' (failure r)). split_and!; try done.
Qed.

Lemma read_exact_spec fuel n body r :
  (n ≤ fuel)%nat →
  ∃ r', failure r' = failure r ∧
    if decide (length (content r) < n)%nat
    then read_exact fuel n body r = Some (Err (default UnexpectedEof (failure r)), r') ∧ content r' = []
    else read_exact fuel n body r = Some (Ok (body ++ take n (content r)), r') ∧
      content r' = drop n (content r).
Proof.
  revert n body r. induction fuel as [|fuel IH]; intros [|n] body r Hn; try lia.
  1,2: exists r; rewrite decide_False by lia; cbn; by rewrite take_0, app_nil_r.
  cbn [read_exact].
  destruct (read_cases (S n) r) as [(Hc & r' & Hr' & Hf & ->)|(b & bs & r' & Hl & Hc & Hf & ->)]; [lia| |].
  - exists r'. split; [done|]. rewrite Hc, decide_True by (cbn; lia). by destruct (failure r).
  - destruct (IH (S n - length (b :: bs))%nat (body ++ b :: bs) r') as (r'' & Hf' & HIH);
      [cbn [length] in *; lia|].
    exists r''. split; [congruence|]. rewrite Hc, length_app. rewrite Hf in HIH. repeat case_decide; try lia.
    + done.
    + rewrite take_app_ge, drop_app_ge by done. by rewrite <- (assoc_L (++)) in HIH.
Qed.

Lemma read_prefix_spec fuel prefix r :
  (4 ≤ fuel + length prefix)%nat → (length prefix ≤ 4)%nat →
  ∃ r', failure r' = failure r ∧
    if decide (length (prefix ++ content r) < 4)%nat
    then content r' = [] ∧ read_prefix fuel prefix r = Some (
      match failure r, prefix ++ content r with
      | Some e, _ => Err (Io e)
      | None, [] => Ok None
      | None, _ => Err (Io UnexpectedEof)
      end, r')
    else read_prefix fuel prefix r = Some (Ok (Some (take 4 (prefix ++ content r))), r') ∧
      content r' = drop 4 (prefix ++ content r).
Proof.
  revert prefix r. induction fuel as [|fuel IH]; intros prefix r Hfuel Hlen; cbn [read_prefix].
  all: destruct (decide (length prefix < 4)%nat) as [Hp|Hp]; try lia.
  1,3: exists r; split; [done|]; rewrite decide_False by (rewrite length_app; lia);
    rewrite take_app_length', drop_app_length' by lia; done.
  destruct (read_cases (4 - length prefix) r)
    as [(Hc & r' & Hr' & Hf & ->)|(b & bs & r' & Hl & Hc & Hf & ->)]; [lia| |].
  - exists r'. split; [done|]. rewrite Hc, app_nil_r, decide_True by done. split; [done|].
    destruct (failure r), prefix; done.
  - destruct (IH (prefix ++ b :: bs) r') as (r'' & Hf' & HIH);
      [rewrite length_app; cbn [length] in *; lia..|].
    exists r''. split; [congruence|]. rewrite Hf, <- (assoc_L (++)), <- Hc in HIH. exact HIH.
Qed.

Lemma decode_frame_length_Ok z n :
  decode_frame_length z = Ok n ↔ n = z ∧ 0 ≤ z ≤ MAX_FRAME_SIZE.
Proof.
  unfold decode_frame_length, try_unsigned. repeat case_decide; split; try done.
  - intros [_ [_ ?]]. lia.
  - intros [= ->]. lia.
  - by intros [-> _].
  - intros [_ [? _]]. lia.
Qed.

Lemma read_frame_spec r :
  ∃ r', read_frame r = Some (fst (first_frame (content r) (failure r)), r') ∧
    content r' = snd (first_frame (content r) (failure r)) ∧ failure r' = failure r.
Proof.
  unfold read_frame, first_frame.
  destruct (read_prefix_spec 4 [] r) as (r' & Hf & Hr); [cbn; lia..|]. cbn [app] in Hr.
  destruct (decide (length (content r) < 4)%nat).
  - destruct Hr as [Hc ->]. exists r'. cbn.
    destruct (failure r), (content r); split_and!; done.
  - destruct Hr as [-> Hc]. cbn [panic_bind].
    destruct (decode_frame_length (wrap_signed 32 (be_val (take 4 (content r))))) as [size|e] eqn:Hn;
      [|by exists r'].
    apply decode_frame_length_Ok in Hn as [-> [Hz _]].
    set (z := wrap_signed 32 _) in *.
    destruct (read_exact_spec (Z.to_nat z) (Z.to_nat z) [] r' ltac:(lia)) as (r'' & Hf' & Hr).
    exists r''. rewrite <- Hc. unfold len.
    destruct (decide (length (content r') < Z.to_nat z)%nat); destruct Hr as [-> Hc'].
    + rewrite decide_True by lia. rewrite Hf. cbn. split_and!; congruence.
    + rewrite decide_False by lia. cbn. split_and!; congruence.
Qed.

(** ** Truncated and whole sequences of frames *)

Lemma frame_prefix (body : list byte) : len body ≤ MAX_FRAME_SIZE →
  decode_frame_length (wrap_signed 32 (be_val (be_bytes 4 (len body)))) = Ok (len body).
Proof.
  intros Hb. assert (0 ≤ len body) by apply len_nonneg. rewrite be_val_be_bytes.
  change (8 * Z.of_nat 4) with 32. rewrite wrap_signed_mod; [|unfold in_signed, MAX_FRAME_SIZE in *; lia..].
  by apply decode_frame_length_Ok.
Qed.

Lemma prefix_split {A : Type} (bs front rest : list A) :
  (length front ≤ length bs)%nat → bs `prefix_of` front ++ rest →
  ∃ tail, bs = front ++ tail ∧ tail `prefix_of` rest.
Proof.
  intros Hl [k Hk]. destruct (List.app_eq_app _ _ _ _ Hk) as (l & [[-> ->]|[-> ->]]).
  - rewrite length_app in Hl. assert (l = []) as -> by (destruct l; [done|cbn in Hl; lia]).
    exists []. rewrite !app_nil_r. split; [done|]. apply prefix_nil.
  - exists l. split; [done|]. by exists k.
Qed.

Lemma first_frame_prefix bs body rest :
  len body ≤ MAX_FRAME_SIZE → bs `prefix_of` frame_bytes body ++ rest →
  (∃ tail, bs = frame_bytes body ++ tail ∧ tail `prefix_of` rest ∧
    first_frame bs None = (Ok (Some body), tail)) ∨
  ((length bs < length (frame_bytes body))%nat ∧
    (first_frame bs None = (Ok None, []) ∨ first_frame bs None = (Err (Io UnexpectedEof), []))).
Proof.
  intros Hb Hpre. unfold frame_bytes in *.
  destruct (decide (length bs < length (be_bytes 4 (len body) ++ body))%nat) as [Hlt|Hge].
  - right. split; [done|]. rewrite length_app, length_be_bytes in Hlt. unfold first_frame.
    destruct (decide (length bs < 4)%nat); [destruct bs; auto|].
    destruct Hpre as [k Hk].
    assert (take 4 bs = be_bytes 4 (len body)) as ->.
    { rewrite <- (take_app_le bs k 4), <- Hk, <- (assoc_L (++)) by lia.
      by rewrite take_app_length' by (by rewrite length_be_bytes). }
    rewrite frame_prefix by done. rewrite decide_True by (unfold len; rewrite length_drop; lia). auto.
  - left. destruct (prefix_split bs (be_bytes 4 (len body) ++ body) rest) as (tail & -> & Htail);
      [lia|done|].
    exists tail. split_and!; [done|done|]. unfold first_frame.
    rewrite decide_False by (rewrite !length_app, length_be_bytes; lia).
    rewrite <- (assoc_L (++)), take_app_length', drop_app_length' by (by rewrite length_be_bytes).
    rewrite frame_prefix, len_app by done. pose proof (len_nonneg tail). rewrite decide_False by lia.
    unfold len. rewrite Nat2Z.id. by rewrite take_app_length, drop_app_length.
Qed.

Lemma read_frames_prefix bodies r :
  Forall (λ b, len b ≤ MAX_FRAME_SIZE) bodies → failure r = None →
  content r `prefix_of` concat (frame_bytes <$> bodies) →
  ∃ k e, read_frames (S (length bodies)) r = Some (take k bodies, e) ∧
    (e = None ∨ e = Some (Io UnexpectedEof)) ∧
    (content r = concat (frame_bytes <$> bodies) → take k bodies = bodies ∧ e = None).
Proof.
  intros Hb. revert r. induction Hb as [|body bodies Hbody _ IH]; intros r Hf Hpre;
    cbn [read_frames]; destruct (read_frame_spec r) as (r' & -> & Hc & Hf'); rewrite Hf in *.
  - apply prefix_nil_inv in Hpre. rewrite Hpre. exists 0%nat, None. cbn. auto.
  - cbn [fmap list_fmap concat] in *.
    destruct (first_frame_prefix _ _ _ Hbody Hpre) as [(tail & Heq & Ht & Hff)|[Hlt Hff]].
    + rewrite Hff in *. cbn [fst snd panic_bind] in *.
      destruct (IH r') as (k & e & Hk & He & Hfull); [done|by rewrite Hc|].
      cbn [length] in *. rewrite Hk. exists (S k), e. cbn [panic_bind take]. split_and!; [done|done|].
      rewrite Heq, <- Hc. intros Hall%app_inv_head. by destruct (Hfull Hall) as [-> ->].
    + exists 0%nat, (match fst (first_frame (content r) None) with Err e => Some e | Ok _ => None end).
      split_and!; [by destruct Hff as [-> | ->]|destruct Hff as [-> | ->]; cbn; auto|].
      intros Heq. rewrite Heq, length_app in Hlt. lia.
Qed.

Lemma write_all_spec bs w :
  ∃ sent w', written w' = written w ++ sent ∧ sent `prefix_of` bs ∧
    (write_all bs w = (Ok (), w') ∧ sent = bs ∨ write_all bs w = (Err (Io (broken w)), w')).
Proof.
  unfold write_all. destruct (room w) as [k|]; [case_decide|].
  - eexists bs, _. split_and!; [|done|left; done]. done.
  - eexists (take k bs), _. split_and!; [|apply prefix_take|right; done]. done.
  - eexists bs, _. split_and!; [|done|left; done]. done.
Qed.

Lemma write_frame_spec body w :
  len body ≤ MAX_FRAME_SIZE →
  ∃ res sent w', write_frame body w = Some (res, w') ∧ written w' = written w ++ sent ∧
    sent `prefix_of` frame_bytes body ∧ (res = Ok () → sent = frame_bytes body).
Proof.
  intros Hb. unfold write_frame, frame_bytes. rewrite decide_False by lia.
  rewrite decide_False by (unfold MAX_FRAME_SIZE, i32_max in *; lia).
  destruct (write_all_spec (be_bytes 4 (len body)) w) as (s1 & w1 & Hw1 & Hp1 & [[-> ->]| ->]).
  - destruct (write_all_spec body w1) as (s2 & w2 & Hw2 & Hp2 & Hres).
    exists (fst (write_all body w1)), (be_bytes 4 (len body) ++ s2), w2.
    rewrite Hw2, Hw1, (assoc_L (++)). destruct Hres as [[-> ->]| ->]; split_and!; try done.
    by apply prefix_app.
  - eexists _, s1, w1. split_and!; [done|done| |done]. by apply prefix_app_r.
Qed.

Lemma write_frames_spec bodies w :
  Forall (λ b, len b ≤ MAX_FRAME_SIZE) bodies →
  ∃ res sent w', write_frames bodies w = Some (res, w') ∧ written w' = written w ++ sent ∧
    sent `prefix_of` concat (frame_bytes <$> bodies) ∧
    (res = Ok () → sent = concat (frame_bytes <$> bodies)).
Proof.
  intros Hb. revert w. induction Hb as [|body bodies Hbody _ IH]; intros w; cbn [write_frames].
  - exists (Ok ()), [], w. by rewrite app_nil_r.
  - destruct (write_frame_spec body w Hbody) as (res & sent & w1 & -> & Hw1 & Hp & Hok).
    cbn [panic_bind fmap list_fmap concat]. destruct res as [[]|e].
    + rewrite (Hok eq_refl) in *. destruct (IH w1) as (res & rest & w2 & -> & Hw2 & Hp2 & Hok2).
      exists res, (frame_bytes body ++ rest), w2. rewrite Hw2, Hw1, (assoc_L (++)).
      split_and!; [done|done|by apply prefix_app|]. intros ->. by rewrite Hok2.
    + eexists _, sent, w1. split_and!; [done|done| |done]. by apply prefix_app_r.
Qed.

(** C24: frames survive the connection.  When bodies within the size limit are
    written one after the other, whoever reads the bytes that got through,
    in whatever segments they arrive, reads the bodies in order: all of them
    and then a clean end if every write succeeded, otherwise the first ones
    and then at most an unexpected end, never a damaged frame.  Neither side
    panics. *)
Theorem frames_roundtrip (bodies : list (list byte)) (w : Writer) :
  Forall (λ b, len b ≤ MAX_FRAME_SIZE) bodies → written w = [] →
  ∃ res w', write_frames bodies w = Some (res, w') ∧
    ∀ r, content r = written w' → failure r = None →
      ∃ k e, read_frames (S (length bodies)) r = Some (take k bodies, e) ∧
        (e = None ∨ e = Some (Io UnexpectedEof)) ∧
        (res = Ok () → take k bodies = bodies ∧ e = None).
Proof.
  intros Hb Hw. destruct (write_frames_spec bodies w Hb) as (res & sent & w' & Hwr & Hw' & Hp & Hok).
  rewrite Hw in Hw'. exists res, w'. split; [done|]. intros r Hr Hf. cbn in Hw'. subst sent.
  rewrite <- Hr in *. destruct (read_frames_prefix bodies r Hb Hf Hp) as (k & e & Hk & He & Hfull).
  exists k, e. split_and!; [done|done|]. intros Hres. by apply Hfull, Hok.
Qed.

(** Three bodies, the connection failing in the middle of the third, arriving
    in odd segments. *)
Definition sample_bodies : list (list byte) := [[Byte.x61]; []; [Byte.x62; Byte.x63]].
Definition sample_writer : Writer := mkWriter [] (Some 14%nat) (OsError 32).

Lemma frames_roundtrip_witness :
  ∃ w', write_frames sample_bodies sample_writer = Some (Err (Io (OsError 32)), w') ∧
    ∃ k e, read_frames 4 (mkReader [take 2 (written w'); drop 2 (written w')] None)
      = Some (take k sample_bodies, e).
Proof.
  destruct (frames_roundtrip sample_bodies sample_writer) as (res & w' & Hw & Hr).
  - repeat constructor; vm_compute; discriminate.
  - reflexivity.
  - assert (res = Err (Io (OsError 32))) as -> by (vm_compute in Hw; congruence).
    exists w'. split; [exact Hw|].
    destruct (Hr (mkReader [take 2 (written w'); drop 2 (written w')] None)) as (k & e & Hk & _).
    + unfold content. cbn. by rewrite app_nil_r, take_drop.
    + reflexivity.
    + exists k, e. exact Hk.
Defined.

End Frame.
