(* ===== verification/Topics.v ===== *)
(** * The topic catalog

    [src/src/broker/topics.rs].  [CatalogState] is the state behind the
    read-write lock; each definition that takes and returns a [TopicCatalog] is
    one stretch of code under that lock.  [get_or_auto_create] takes the lock
    twice, first for reading, then for writing, and is split accordingly.
    Entries are never removed from the catalog nor replaced in it, so the
    shared [Arc<PartitionLog>] of a partition is the entry's list element.

    [Uuid::new_v4] is the [uuid] crate's random generator: the parameter
    [new_v4] of the definitions is the sequence of the identifiers it returns,
    [uuid_draws] how many have been drawn.  An identifier is its 128-bit value,
    [Uuid::nil()] is 0.  [None] is a loop that has not ended. *)

From Stdlib Require Import Ascii.
From Stdlib Require Strings.String.
From S2P Require Import Prelude Partition.
Open Scope Z_scope.

Module Topics.
Import Partition.

(* @ src/src/broker/topics.rs 15-19 TopicMetadata *)
Record TopicMetadata : Type := mkTopicMetadata {
  tm_id : Z;
  tm_name : string;
  tm_partition_count : Z
}.

(* @ src/src/broker/topics.rs 22-27 TopicError *)
Inductive TopicError : Type :=
| AlreadyExists | InvalidName | InvalidPartitions | InvalidReplicationFactor.

(* @ src/src/broker/topics.rs 29-38 TopicError::fmt *)
Definition topic_error_message (e : TopicError) : string :=
  match e with
  | AlreadyExists => "topic already exists"
  | InvalidName => "invalid topic name"
  | InvalidPartitions => "partition count must be positive"
  | InvalidReplicationFactor => "replication factor must be 1"
  end.

(* @ src/src/broker/topics.rs 55-58 TopicEntry *)
Record TopicEntry : Type := mkTopicEntry {
  te_metadata : TopicMetadata;
  te_partitions : list PartitionLogInner
}.

(* @ src/src/broker/topics.rs 49-52 CatalogState *)
Record CatalogState : Type := mkCatalogState {
  topics_by_name : gmap string TopicEntry;
  names_by_id : gmap Z string
}.

(* @ src/src/broker/topics.rs 43-46 TopicCatalog *)
Record TopicCatalog : Type := mkTopicCatalog {
  default_partitions : Z;
  catalog_state : CatalogState;
  uuid_draws : nat
}.

(* @ src/src/broker/topics.rs 73-78 TopicCatalog::new *)
Definition TopicCatalog_new (default_partitions : Z) : TopicCatalog :=
  mkTopicCatalog default_partitions (mkCatalogState ∅ ∅) 0.

(* @ src/src/broker/topics.rs 61-69 TopicEntry::new *)
Definition TopicEntry_new (metadata : TopicMetadata) : TopicEntry :=
  mkTopicEntry metadata (replicate (Z.to_nat (tm_partition_count metadata)) empty_log).

(** ** Names and definitions *)

(** [byte.is_ascii_alphanumeric() || matches!(byte, b'.' | b'_' | b'-')]. *)
Definition name_byte (c : ascii) : bool :=
  let b := Z.of_N (N_of_ascii c) in
  (bool_decide (48 ≤ b ≤ 57) || bool_decide (65 ≤ b ≤ 90) || bool_decide (97 ≤ b ≤ 122)) ||
  (bool_decide (b = 46) || bool_decide (b = 95) || bool_decide (b = 45)).

(* @ src/src/broker/topics.rs 212-226 validate_name *)
Definition validate_name (name : string) : result TopicError () :=
  let valid :=
    negb (bool_decide (name = "")) && bool_decide (Z.of_nat (String.length name) ≤ 249) &&
    negb (bool_decide (name = ".")) && negb (bool_decide (name = "..")) &&
    forallb name_byte (Strings.String.list_ascii_of_string name) in
  if valid then Ok () else Err InvalidName.

(* @ src/src/broker/topics.rs 173-188 validate_explicit_definition *)
Definition validate_explicit_definition (name : string) (partitions replication_factor : Z) :
    result TopicError Z :=
  _ ← validate_name name;
  partition_count ← ok_or (try_unsigned partitions) InvalidPartitions;
  if decide (partition_count = 0) then Err InvalidPartitions
  else if decide (replication_factor ≠ 1) then Err InvalidReplicationFactor
  else Ok partition_count.

(** ** Operations *)

Section catalog.
  Context (new_v4 : nat → Z).

(** The loop draws until the identifier is new. *)
(* @ src/src/broker/topics.rs 203-210 next_topic_id *)
Fixpoint next_topic_id_loop (fuel : nat) (st : CatalogState) (draws : nat) : option (Z * nat) :=
  match fuel with
  | O => None
  | S fuel =>
      let candidate := new_v4 draws in
      if decide (candidate ≠ 0 ∧ names_by_id st !! candidate = None)
      then Some (candidate, S draws)
      else next_topic_id_loop fuel st (S draws)
  end.

(** Of [size + 2] different identifiers one is neither nil nor in use. *)
(* @ src/src/broker/topics.rs 203-210 next_topic_id *)
Definition next_topic_id (st : CatalogState) (draws : nat) : option (Z * nat) :=
  next_topic_id_loop (size (names_by_id st) + 2) st draws.

(* @ src/src/broker/topics.rs 190-201 insert_topic *)
Definition insert_topic (c : TopicCatalog) (name : string) (partition_count : Z) :
    option (TopicMetadata * TopicCatalog) :=
  let st := catalog_state c in
  let! drawn := next_topic_id st (uuid_draws c) in
  let metadata := mkTopicMetadata drawn.1 name partition_count in
  let st := mkCatalogState (<[name := TopicEntry_new metadata]> (topics_by_name st))
    (<[tm_id metadata := name]> (names_by_id st)) in
  Some (metadata, mkTopicCatalog (default_partitions c) st drawn.2).

Definition lookup_topic (c : TopicCatalog) (name : string) : option TopicMetadata :=
  te_metadata <$> topics_by_name (catalog_state c) !! name.

(* @ src/src/broker/topics.rs 80-92 TopicCatalog::create_explicit *)
Definition create_explicit (c : TopicCatalog) (name : string) (partitions replication_factor : Z) :
    option (result TopicError TopicMetadata * TopicCatalog) :=
  match validate_explicit_definition name partitions replication_factor with
  | Err e => Some (Err e, c)
  | Ok partition_count =>
      if decide (is_Some (topics_by_name (catalog_state c) !! name)) then
        Some (Err AlreadyExists, c)
      else
        let! r := insert_topic c name partition_count in
        Some (Ok r.1, r.2)
  end.

(* @ src/src/broker/topics.rs 94-106 TopicCatalog::validate_explicit *)
Definition validate_explicit (c : TopicCatalog) (name : string)
    (partitions replication_factor : Z) : result TopicError () :=
  _ ← validate_explicit_definition name partitions replication_factor;
  if decide (is_Some (topics_by_name (catalog_state c) !! name)) then Err AlreadyExists
  else Ok ().

(* @ src/src/broker/topics.rs 108-117 TopicCatalog::get *)
Definition get (c : TopicCatalog) (name : string) : result TopicError (option TopicMetadata) :=
  _ ← validate_name name;
  Ok (lookup_topic c name).

(* @ src/src/broker/topics.rs 119-126 TopicCatalog::get_by_id *)
Definition get_by_id (c : TopicCatalog) (id : Z) : option TopicMetadata :=
  name ← names_by_id (catalog_state c) !! id;
  lookup_topic c name.

(** The part up to the write lock: [None] where the call goes on to it. *)
(* @ src/src/broker/topics.rs 133-140 TopicCatalog::get_or_auto_create *)
Definition auto_create_read (c : TopicCatalog) (name : string) (allow_auto_create : bool) :
    option (result TopicError (option TopicMetadata)) :=
  match validate_name name with
  | Err e => Some (Err e)
  | Ok _ =>
      match lookup_topic c name with
      | Some metadata => Some (Ok (Some metadata))
      | None => if allow_auto_create then None else Some (Ok None)
      end
  end.

(** The part under the write lock: another call may have created the topic. *)
(* @ src/src/broker/topics.rs 142-147 TopicCatalog::get_or_auto_create *)
Definition auto_create_write (c : TopicCatalog) (name : string) :
    option (result TopicError (option TopicMetadata) * TopicCatalog) :=
  match lookup_topic c name with
  | Some metadata => Some (Ok (Some metadata), c)
  | None =>
      let! r := insert_topic c name (default_partitions c) in
      Some (Ok (Some r.1), r.2)
  end.

End catalog.

Definition entry_le (a b : string * TopicEntry) : Prop := String.le a.1 b.1.

#[global] Instance entry_le_dec : RelDecision entry_le.
Proof. intros a b. unfold entry_le. apply _. Defined.

(** The values of the [BTreeMap], in the order of the names. *)
(* @ src/src/broker/topics.rs 150-158 TopicCatalog::list *)
Definition list_topics (c : TopicCatalog) : list TopicMetadata :=
  (λ e, te_metadata e.2) <$>
    merge_sort entry_le (map_to_list (topics_by_name (catalog_state c))).

(* @ src/src/broker/topics.rs 160-170 TopicCatalog::partition *)
Definition partition (c : TopicCatalog) (topic : string) (index : Z) : option PartitionLogInner :=
  index ← try_unsigned index;
  entry ← topics_by_name (catalog_state c) !! topic;
  te_partitions entry !! Z.to_nat index.

(** What an operation on the log behind an [Arc] the catalog returned does to
    the catalog. *)
Definition with_partition (c : TopicCatalog) (topic : string) (index : Z)
    (log : PartitionLogInner) : TopicCatalog :=
  match topics_by_name (catalog_state c) !! topic with
  | None => c
  | Some entry =>
      let entry := mkTopicEntry (te_metadata entry)
        (<[Z.to_nat index := log]> (te_partitions entry)) in
      mkTopicCatalog (default_partitions c)
        (mkCatalogState (<[topic := entry]> (topics_by_name (catalog_state c)))
          (names_by_id (catalog_state c)))
        (uuid_draws c)
  end.

End Topics.
