(* ===== verification/TopicsCorrect.v ===== *)
(** * Correctness of the topic catalog

    The invariant of [Topics.TopicCatalog] (names and identifiers are in
    bijection, every topic has the partitions its metadata says), its
    preservation, the order in which catalogs grow, and what lookups return
    after a creation. *)

From S2P Require Import Prelude Partition PartitionCorrect Topics.
Open Scope Z_scope.

Module TopicsCorrect.
Import Partition Topics.

(** What the code relies on from [Uuid::new_v4]: it does not repeat itself. *)
Class UniqueUuids (new_v4 : nat → Z) : Prop := new_v4_inj : Inj (=) (=) new_v4.

(** The most partitions a topic can have: a 32-bit request, or the default. *)
Definition partition_limit (c : TopicCatalog) : Z := Z.max i32_max (default_partitions c).

Definition entry_wf (limit : Z) (name : string) (e : TopicEntry) : Prop :=
  let m := te_metadata e in
  tm_name m = name ∧ validate_name name = Ok () ∧ tm_id m ≠ 0 ∧
  1 ≤ tm_partition_count m ≤ limit ∧ len (te_partitions e) = tm_partition_count m.

Definition catalog_wf (c : TopicCatalog) : Prop :=
  let st := catalog_state c in
  1 ≤ default_partitions c ≤ u32_max ∧
  (∀ name e, topics_by_name st !! name = Some e →
    entry_wf (partition_limit c) name e ∧ names_by_id st !! tm_id (te_metadata e) = Some name) ∧
  (∀ id name, names_by_id st !! id = Some name →
    ∃ e, topics_by_name st !! name = Some e ∧ tm_id (te_metadata e) = id).

(** ** Names *)

Lemma validate_name_cases name : validate_name name = Ok () ∨ validate_name name = Err InvalidName.
Proof. unfold validate_name. case_match; auto. Qed.

Lemma validate_explicit_definition_Ok name partitions replication_factor n :
  validate_explicit_definition name partitions replication_factor = Ok n ↔
  validate_name name = Ok () ∧ n = partitions ∧ 0 < partitions ∧ replication_factor = 1.
Proof.
  unfold validate_explicit_definition, mbind, result_bind.
  destruct (validate_name name) as [[]|e]; [|split; [done|by intros [? _]]].
  unfold try_unsigned. destruct (decide (0 ≤ partitions)) as [Hp|Hp]; simpl;
    [|split; [done|intros (_ & _ & ? & _); lia]].
  repeat case_decide; (split; [|intros (_ & -> & ? & ?); (done || lia)]); try done.
  intros [= <-]. split_and!; try done; lia.
Qed.

(** ** Fresh identifiers *)

Lemma next_topic_id_loop_None new_v4 fuel st draws :
  next_topic_id_loop new_v4 fuel st draws = None →
  ∀ i, (i < fuel)%nat →
    new_v4 (draws + i)%nat ∈ ({[0]} ∪ dom (names_by_id st) : gset Z).
Proof.
  revert draws. induction fuel as [|fuel IH]; intros draws Hnone i Hi; [lia|].
  cbn [next_topic_id_loop] in Hnone. case_decide as Hc; [done|].
  destruct i as [|i].
  - rewrite Nat.add_0_r. apply elem_of_union.
    destruct (decide (new_v4 draws = 0)) as [->|Hne]; [left; set_solver|right].
    apply elem_of_dom. destruct (names_by_id st !! new_v4 draws) eqn:Hl; [by eexists|naive_solver].
  - replace (draws + S i)%nat with (S draws + i)%nat by lia. apply IH; [done|lia].
Qed.

Lemma next_topic_id_loop_Some new_v4 fuel st draws id draws' :
  next_topic_id_loop new_v4 fuel st draws = Some (id, draws') →
  id ≠ 0 ∧ names_by_id st !! id = None ∧ (draws < draws')%nat.
Proof.
  revert draws. induction fuel as [|fuel IH]; intros draws; cbn [next_topic_id_loop]; [done|].
  case_decide as Hc.
  - intros [= <- <-]. destruct Hc. split_and!; [done..|lia].
  - intros (? & ? & ?)%IH. split_and!; [done..|lia].
Qed.

Lemma next_topic_id_total new_v4 st draws :
  UniqueUuids new_v4 → ∃ id draws', next_topic_id new_v4 st draws = Some (id, draws').
Proof.
  intros Hinj. unfold next_topic_id.
  destruct (next_topic_id_loop new_v4 _ st draws) as [[id d]|] eqn:Hl; [by eauto|exfalso].
  pose proof (next_topic_id_loop_None _ _ _ _ Hl) as Hin. set (n := (_ + 2)%nat) in *.
  set (drawn := (λ i, new_v4 (draws + i)%nat) <$> seq 0 n).
  assert (NoDup drawn) as Hnd.
  { apply NoDup_fmap_2; [|apply NoDup_seq]. intros i j Hij. apply Hinj in Hij. lia. }
  assert (list_to_set drawn ⊆@{gset Z} {[0]} ∪ dom (names_by_id st)) as Hsub.
  { intros x. rewrite elem_of_list_to_set. unfold drawn.
    intros (i & -> & Hi%elem_of_seq)%list_elem_of_fmap. apply Hin. lia. }
  apply subseteq_size in Hsub. rewrite size_list_to_set in Hsub by done.
  unfold drawn in Hsub. rewrite length_fmap, length_seq in Hsub.
  pose proof (size_union_alt ({[0]} : gset Z) (dom (names_by_id st))) as Hu.
  pose proof (subseteq_size (dom (names_by_id st) ∖ {[0]}) (dom (names_by_id st))) as Hd.
  rewrite size_singleton in Hu. rewrite size_dom in Hd.
  assert (dom (names_by_id st) ∖ {[0]} ⊆ dom (names_by_id st)) as Hsub' by apply subseteq_difference_l, reflexivity.
  specialize (Hd Hsub').
  unfold n in Hsub. lia.
Qed.

(** ** Growth *)

Definition log_extends (l l' : PartitionLogInner) : Prop :=
  next_offset l ≤ next_offset l' ∧ batches l `prefix_of` batches l'.

#[global] Instance log_extends_preorder : PreOrder log_extends.
Proof.
  split.
  - intros l. by split.
  - intros l1 l2 l3 [Hn Hb] [Hn' Hb']. split; [lia|by etrans].
Qed.

(** Topics keep their identity and their partitions; logs only grow. *)
Definition catalog_extends (c c' : TopicCatalog) : Prop :=
  default_partitions c' = default_partitions c ∧
  ∀ name e, topics_by_name (catalog_state c) !! name = Some e →
    ∃ e', topics_by_name (catalog_state c') !! name = Some e' ∧
      te_metadata e' = te_metadata e ∧
      Forall2 log_extends (te_partitions e) (te_partitions e').

#[global] Instance catalog_extends_preorder : PreOrder catalog_extends.
Proof.
  split.
  - intros c. split; [done|]. intros name e He. exists e. split_and!; [done..|].
    apply Forall2_same_length_lookup_2; [done|]. intros i x y Hx Hy. by simplify_eq.
  - intros c1 c2 c3 [Hd H12] [Hd' H23]. split; [congruence|]. intros name e He.
    destruct (H12 _ _ He) as (e2 & He2 & Hm2 & Hl2). destruct (H23 _ _ He2) as (e3 & He3 & Hm3 & Hl3).
    exists e3. split_and!; [done|congruence|]. by etrans.
Qed.

Lemma catalog_extends_lookup c c' name m :
  catalog_extends c c' → lookup_topic c name = Some m → lookup_topic c' name = Some m.
Proof.
  unfold lookup_topic. intros [_ He] (e & Hl & ->)%fmap_Some.
  destruct (He _ _ Hl) as (e' & -> & <- & _). done.
Qed.

Lemma catalog_extends_partition c c' topic index log :
  catalog_extends c c' → partition c topic index = Some log →
  ∃ log', partition c' topic index = Some log' ∧ log_extends log log'.
Proof.
  intros [_ He]. unfold partition. destruct (try_unsigned index) as [i|]; [|done]. simpl.
  destruct (topics_by_name _ !! topic) as [e|] eqn:Hl; [|done]. simpl. intros Hlog.
  destruct (He _ _ Hl) as (e' & -> & _ & Hlogs). simpl.
  destruct (Forall2_lookup_l _ _ _ _ _ Hlogs Hlog) as (log' & -> & ?). eauto.
Qed.

(** ** Insertion *)

Definition with_new_topic (c : TopicCatalog) (m : TopicMetadata) (draws : nat) : TopicCatalog :=
  mkTopicCatalog (default_partitions c)
    (mkCatalogState (<[tm_name m := TopicEntry_new m]> (topics_by_name (catalog_state c)))
      (<[tm_id m := tm_name m]> (names_by_id (catalog_state c)))) draws.

Lemma insert_topic_spec new_v4 c name n :
  UniqueUuids new_v4 →
  ∃ m draws, insert_topic new_v4 c name n = Some (m, with_new_topic c m draws) ∧
    tm_name m = name ∧ tm_partition_count m = n ∧ tm_id m ≠ 0 ∧
    names_by_id (catalog_state c) !! tm_id m = None.
Proof.
  intros Hu. destruct (next_topic_id_total new_v4 (catalog_state c) (uuid_draws c) Hu)
    as (id & d & Hid). unfold insert_topic. rewrite Hid. cbn [panic_bind fst snd].
  apply next_topic_id_loop_Some in Hid as (? & ? & _). by eexists (mkTopicMetadata id name n), d.
Qed.

Lemma with_new_topic_wf c m draws :
  catalog_wf c → validate_name (tm_name m) = Ok () → tm_id m ≠ 0 →
  1 ≤ tm_partition_count m ≤ partition_limit c → lookup_topic c (tm_name m) = None →
  names_by_id (catalog_state c) !! tm_id m = None → catalog_wf (with_new_topic c m draws).
Proof.
  intros (Hd & Hn & Hi) Hv Hid Hpc Hl Hfresh. unfold lookup_topic in Hl.
  apply fmap_None in Hl. split; [done|split]; cbn.
  - intros name e. destruct (decide (name = tm_name m)) as [->|Hne].
    + rewrite lookup_insert_eq. intros [= <-]. cbn. rewrite lookup_insert_eq. split; [|done].
      unfold entry_wf, len, partition_limit in *. cbn. rewrite length_replicate.
      split_and!; try done; lia.
    + rewrite lookup_insert_ne by done. intros He. destruct (Hn _ _ He) as [Hwf Hname].
      split; [done|]. rewrite lookup_insert_ne; [done|]. intros Heq. congruence.
  - intros id name. destruct (decide (id = tm_id m)) as [->|Hne].
    + rewrite lookup_insert_eq. intros [= <-]. rewrite lookup_insert_eq. by eexists.
    + rewrite lookup_insert_ne by done. intros Hname. destruct (Hi _ _ Hname) as (e & He & <-).
      exists e. split; [|done]. rewrite lookup_insert_ne; [done|]. congruence.
Qed.

Lemma with_new_topic_extends c m draws :
  lookup_topic c (tm_name m) = None → catalog_extends c (with_new_topic c m draws).
Proof.
  unfold lookup_topic. intros Hl%fmap_None. split; [done|]. intros name e He. exists e. cbn.
  rewrite lookup_insert_ne by congruence. split_and!; [done..|].
  apply Forall2_same_length_lookup_2; [done|]. intros i x y Hx Hy. by simplify_eq.
Qed.

Lemma lookup_with_new_topic c m draws :
  lookup_topic (with_new_topic c m draws) (tm_name m) = Some m.
Proof. unfold lookup_topic. cbn. by rewrite lookup_insert_eq. Qed.

Lemma lookup_with_new_topic_ne c m draws name :
  name ≠ tm_name m → lookup_topic (with_new_topic c m draws) name = lookup_topic c name.
Proof. intros Hne. unfold lookup_topic. cbn. by rewrite lookup_insert_ne. Qed.

(** ** The operations *)

Lemma TopicCatalog_new_wf n : 1 ≤ n ≤ u32_max → catalog_wf (TopicCatalog_new n).
Proof. intros Hn. split; [done|split]; cbn; intros ? ?; by rewrite lookup_empty. Qed.

(** Every outcome of [create_explicit]. *)
Lemma create_explicit_spec new_v4 c name partitions rf :
  UniqueUuids new_v4 → catalog_wf c → in_signed 32 partitions →
  ∃ r c', create_explicit new_v4 c name partitions rf = Some (r, c') ∧
    match r with
    | Err e => c' = c ∧ validate_explicit c name partitions rf = Err e
    | Ok m => ∃ draws, c' = with_new_topic c m draws ∧ catalog_wf c' ∧ catalog_extends c c' ∧
        tm_name m = name ∧ tm_partition_count m = partitions ∧ tm_id m ≠ 0 ∧
        names_by_id (catalog_state c) !! tm_id m = None ∧ lookup_topic c name = None ∧
        validate_explicit c name partitions rf = Ok ()
    end.
Proof.
  intros Hu Hwf Hp. unfold create_explicit, validate_explicit, mbind, result_bind.
  destruct (validate_explicit_definition name partitions rf) as [n|e] eqn:Hv; [|by exists (Err e), c].
  apply validate_explicit_definition_Ok in Hv as (Hname & -> & Hpos & _).
  case_decide as Hex; [by exists (Err AlreadyExists), c|].
  assert (lookup_topic c name = None) as Hl.
  { unfold lookup_topic. apply eq_None_not_Some in Hex. by rewrite Hex. }
  destruct (insert_topic_spec new_v4 c name partitions Hu) as (m & d & -> & <- & <- & Hid & Hf).
  cbn [panic_bind fst snd]. do 2 eexists. split; [reflexivity|]. exists d.
  split_and!; try done.
  - apply with_new_topic_wf; try done. unfold in_signed, partition_limit, i32_max in *. simpl in Hp. lia.
  - by apply with_new_topic_extends.
Qed.

Lemma auto_create_write_spec new_v4 c name :
  UniqueUuids new_v4 → catalog_wf c → validate_name name = Ok () →
  ∃ m c', auto_create_write new_v4 c name = Some (Ok (Some m), c') ∧
    catalog_wf c' ∧ catalog_extends c c' ∧ lookup_topic c' name = Some m ∧
    (lookup_topic c name = Some m ∧ c' = c ∨
     lookup_topic c name = None ∧ tm_partition_count m = default_partitions c ∧
       ∃ draws, c' = with_new_topic c m draws ∧ tm_name m = name).
Proof.
  intros Hu Hwf Hname. unfold auto_create_write. destruct (lookup_topic c name) as [m|] eqn:Hl.
  { exists m, c. split_and!; auto. done. }
  destruct (insert_topic_spec new_v4 c name (default_partitions c) Hu)
    as (m & d & -> & <- & Hpc & Hid & Hf).
  cbn [panic_bind fst snd]. do 2 eexists. split; [reflexivity|]. split_and!; [| | |by eauto 10].
  - apply with_new_topic_wf; try done. rewrite Hpc. destruct Hwf as [? _]. unfold partition_limit. lia.
  - by apply with_new_topic_extends.
  - apply lookup_with_new_topic.
Qed.

Lemma auto_create_read_spec c name allow :
  match auto_create_read c name allow with
  | Some (Err e) => e = InvalidName ∧ validate_name name = Err InvalidName
  | Some (Ok (Some m)) => validate_name name = Ok () ∧ lookup_topic c name = Some m
  | Some (Ok None) => validate_name name = Ok () ∧ allow = false ∧ lookup_topic c name = None
  | None => validate_name name = Ok () ∧ allow = true ∧ lookup_topic c name = None
  end.
Proof.
  unfold auto_create_read. destruct (validate_name_cases name) as [->| ->]; [|done].
  destruct (lookup_topic c name); [done|]. by destruct allow.
Qed.

Lemma get_cases c name :
  get c name = Ok (lookup_topic c name) ∧ validate_name name = Ok () ∨
  get c name = Err InvalidName ∧ validate_name name = Err InvalidName.
Proof.
  unfold get, mbind, result_bind. destruct (validate_name_cases name) as [->| ->]; auto.
Qed.

Lemma get_by_id_lookup c id m :
  catalog_wf c → get_by_id c id = Some m ↔ tm_id m = id ∧ lookup_topic c (tm_name m) = Some m.
Proof.
  intros (_ & Hn & Hi). unfold get_by_id, lookup_topic. split.
  - intros (name & Hname & Hl)%bind_Some. destruct (Hi _ _ Hname) as (e & He & <-).
    rewrite He in Hl. injection Hl as <-. destruct (Hn _ _ He) as [(Hnm & _) _].
    rewrite Hnm, He. done.
  - intros [<- Hl]. pose proof Hl as (e & He & ->)%fmap_Some. destruct (Hn _ _ He) as [_ Hnm].
    rewrite Hnm. simpl. by rewrite Hl.
Qed.

(** ** Partitions *)

Lemma partition_Some c topic index log :
  partition c topic index = Some log ↔
  0 ≤ index ∧ ∃ e, topics_by_name (catalog_state c) !! topic = Some e ∧
    te_partitions e !! Z.to_nat index = Some log.
Proof.
  unfold partition, try_unsigned. case_decide; simpl; [|naive_solver lia].
  destruct (topics_by_name _ !! topic); naive_solver.
Qed.

Lemma with_partition_wf c topic index log :
  catalog_wf c → catalog_wf (with_partition c topic index log).
Proof.
  unfold with_partition. destruct (topics_by_name _ !! topic) as [e|] eqn:He; [|done].
  intros (Hd & Hn & Hi). split; [done|split]; cbn.
  - intros name e'. destruct (decide (name = topic)) as [->|]; [|rewrite lookup_insert_ne by done; auto].
    rewrite lookup_insert_eq. intros [= <-]. destruct (Hn _ _ He) as [Hwf Hname].
    split; [|done]. unfold entry_wf, len in *. cbn. by rewrite length_insert.
  - intros id name Hname. destruct (Hi _ _ Hname) as (e' & He' & <-).
    destruct (decide (name = topic)) as [->|].
    + rewrite lookup_insert_eq. simplify_eq. by eexists.
    + rewrite lookup_insert_ne by done. eauto.
Qed.

Lemma with_partition_extends c topic index log log' :
  partition c topic index = Some log → log_extends log log' →
  catalog_extends c (with_partition c topic index log').
Proof.
  intros (Hi & e & He & Hlog)%partition_Some Hext. unfold with_partition. rewrite He.
  split; [done|]. intros name e' He'. cbn. destruct (decide (name = topic)) as [->|].
  - rewrite lookup_insert_eq. simplify_eq. eexists. split_and!; [done..|]. cbn.
    apply Forall2_same_length_lookup_2; [by rewrite length_insert|]. intros i x y Hx Hy.
    apply list_lookup_insert_Some in Hy as [(<- & <- & _)|[_ Hy]]; by simplify_eq.
  - rewrite lookup_insert_ne by done. exists e'. split_and!; [done..|].
    apply Forall2_same_length_lookup_2; [done|]. intros i x y Hx Hy. by simplify_eq.
Qed.

Lemma partition_with_partition c topic index log log' :
  partition c topic index = Some log →
  partition (with_partition c topic index log') topic index = Some log'.
Proof.
  intros (Hi & e & He & Hlog)%partition_Some. apply partition_Some. split; [done|].
  unfold with_partition. rewrite He. cbn. rewrite lookup_insert_eq. eexists. split; [done|].
  cbn. apply list_lookup_insert_eq. by eapply lookup_lt_Some.
Qed.

Lemma partition_with_partition_ne c topic index topic' index' log' :
  0 ≤ index → (topic', index') ≠ (topic, index) →
  partition (with_partition c topic index log') topic' index' = partition c topic' index'.
Proof.
  intros Hi Hne. unfold partition. destruct (try_unsigned index') as [i|] eqn:Hi'; [|done]. simpl.
  apply try_unsigned_Some in Hi' as [-> Hi']. unfold with_partition.
  destruct (topics_by_name _ !! topic) as [e|] eqn:He; [|done]. cbn.
  destruct (decide (topic' = topic)) as [->|]; [|by rewrite lookup_insert_ne].
  rewrite lookup_insert_eq, He. simpl. rewrite list_lookup_insert_ne; [done|].
  intros Heq. apply Hne. f_equal. lia.
Qed.

(** ** Listing *)

#[global] Instance entry_le_trans : Transitive entry_le.
Proof. intros a b c. unfold entry_le. apply transitivity. Qed.

#[global] Instance entry_le_total : Total entry_le.
Proof. intros a b. unfold entry_le. apply total, _. Qed.

Lemma sorted_entries (l : list (string * TopicEntry)) :
  NoDup l.*1 → StronglySorted entry_le l → StronglySorted (strict String.le) l.*1.
Proof.
  induction l as [|[k e] l IH]; cbn; intros Hnd Hs; [constructor|].
  apply NoDup_cons in Hnd as [Hk Hnd]. apply StronglySorted_inv in Hs as [Hs Hall].
  constructor; [by apply IH|]. apply Forall_forall. intros k' Hk'.
  apply list_elem_of_fmap in Hk' as ([k2 e2] & -> & Hin). rewrite Forall_forall in Hall. specialize (Hall _ Hin).
  cbn in *. unfold entry_le in Hall. cbn in Hall.
  apply strict_spec_alt. split; [done|]. intros ->. apply Hk. apply list_elem_of_fmap.
  by eexists (k2, e2).
Qed.

Lemma list_topics_names c :
  catalog_wf c →
  tm_name <$> list_topics c =
    (merge_sort entry_le (map_to_list (topics_by_name (catalog_state c)))).*1.
Proof.
  intros (_ & Hn & _). unfold list_topics. rewrite <- list_fmap_compose.
  apply Forall_fmap_ext_1, Forall_forall. intros [k e].
  rewrite merge_sort_Permutation, elem_of_map_to_list. intros He.
  by destruct (Hn _ _ He) as [[? _] _].
Qed.

Lemma elem_of_list_topics c m :
  catalog_wf c → m ∈ list_topics c ↔ lookup_topic c (tm_name m) = Some m.
Proof.
  intros (_ & Hn & _). unfold list_topics, lookup_topic. rewrite list_elem_of_fmap. split.
  - intros ([k e] & -> & Hin). rewrite merge_sort_Permutation, elem_of_map_to_list in Hin.
    destruct (Hn _ _ Hin) as [[<- _] _]. cbn. by rewrite Hin.
  - intros (e & He & Hm)%fmap_Some. exists (tm_name m, e). split; [done|].
    by rewrite merge_sort_Permutation, elem_of_map_to_list.
Qed.

(** ** Properties *)

(** The topic list.  Listing a catalog returns every topic exactly once,
    in strictly increasing order of the names. *)
Theorem list_topics_correct (c : TopicCatalog) :
  catalog_wf c →
  StronglySorted (strict String.le) (tm_name <$> list_topics c) ∧ NoDup (list_topics c) ∧
  ∀ m, m ∈ list_topics c ↔ get c (tm_name m) = Ok (Some m).
Proof.
  intros Hwf. pose proof (list_topics_names c Hwf) as Hnames. split_and!.
  - rewrite Hnames. apply sorted_entries.
    + rewrite merge_sort_Permutation. apply NoDup_fst_map_to_list.
    + apply StronglySorted_merge_sort; apply _.
  - apply (NoDup_fmap_1 tm_name). rewrite Hnames, merge_sort_Permutation.
    apply NoDup_fst_map_to_list.
  - intros m. rewrite elem_of_list_topics by done. split.
    + intros Hl. destruct (get_cases c (tm_name m)) as [[-> _]|[_ Hbad]]; [by rewrite Hl|].
      unfold lookup_topic in Hl. apply fmap_Some in Hl as (e & He & _).
      destruct Hwf as (_ & Hn & _). destruct (Hn _ _ He) as [(_ & Hok & _) _]. congruence.
    + intros Hg. destruct (get_cases c (tm_name m)) as [[Hg' _]|[Hg' _]]; congruence.
Qed.

(** C32: explicit creation.  Creating a topic always returns; it succeeds exactly
    when the dry run [validate_explicit] does, with the same error otherwise,
    and then changes nothing.  On success the topic has a fresh non-nil
    identifier and is found by its name, by its identifier and in the list, has
    exactly the requested partitions, all empty, cannot be created again, and
    no other topic or partition changes. *)
Theorem create_topic_correct (new_v4 : nat → Z) (c : TopicCatalog) (name : string)
    (partitions replication_factor : Z) :
  UniqueUuids new_v4 → catalog_wf c → in_signed 32 partitions →
  ∃ r c', create_explicit new_v4 c name partitions replication_factor = Some (r, c') ∧
    validate_explicit c name partitions replication_factor = (const () <$> r) ∧
    match r with
    | Err e => c' = c
    | Ok m =>
        tm_name m = name ∧ tm_partition_count m = partitions ∧ tm_id m ≠ 0 ∧
        get_by_id c (tm_id m) = None ∧ catalog_wf c' ∧
        get c' name = Ok (Some m) ∧ get_by_id c' (tm_id m) = Some m ∧ m ∈ list_topics c' ∧
        (∀ i, partition c' name i = if decide (0 ≤ i < partitions) then Some empty_log else None) ∧
        validate_explicit c' name partitions replication_factor = Err AlreadyExists ∧
        (∀ other i, other ≠ name →
          get c' other = get c other ∧ partition c' other i = partition c other i)
    end.
Proof.
  intros Hu Hwf Hp. destruct (create_explicit_spec new_v4 c name partitions replication_factor Hu Hwf Hp)
    as (r & c' & Hcreate & Hr). exists r, c'. split; [done|]. destruct r as [m|e]; [|by destruct Hr as [-> ->]].
  destruct Hr as (d & -> & Hwf' & Hext & <- & <- & Hid & Hfresh & Hl & Hval).
  rewrite Hval. split; [done|].
  pose proof (lookup_with_new_topic c m d) as Hl'.
  assert (validate_name (tm_name m) = Ok ()) as Hname.
  { unfold validate_explicit, mbind, result_bind in Hval.
    destruct (validate_explicit_definition _ _ _) eqn:Hv; [|done].
    by apply validate_explicit_definition_Ok in Hv as [? _]. }
  split_and!; try done.
  - unfold get_by_id. by rewrite Hfresh.
  - unfold get. rewrite Hname. cbn. by rewrite Hl'.
  - by apply get_by_id_lookup.
  - by apply elem_of_list_topics.
  - intros i. unfold partition, try_unsigned. cbn. rewrite lookup_insert_eq.
    destruct (decide (0 ≤ i)); cbn; [|by rewrite decide_False by lia].
    case_decide; [apply lookup_replicate; split; [done|lia]|].
    apply lookup_replicate_None. lia.
  - unfold validate_explicit, mbind, result_bind in *.
    destruct (validate_explicit_definition _ _ _); [|done]. rewrite decide_True; [done|].
    cbn. rewrite lookup_insert_eq. by eexists.
  - intros other i Hne. split.
    + unfold get. by rewrite lookup_with_new_topic_ne.
    + unfold partition. cbn. by rewrite lookup_insert_ne.
Qed.

(** ** Witnesses *)

(** A generator that counts. *)
Definition counting_uuids (n : nat) : Z := Z.of_nat n + 1.

#[global] Instance counting_uuids_unique : UniqueUuids counting_uuids.
Proof. intros i j. unfold counting_uuids. lia. Qed.

Definition sample_catalog : TopicCatalog :=
  from_option snd (TopicCatalog_new 2) (create_explicit counting_uuids (TopicCatalog_new 2) "orders" 3 1).

Lemma sample_catalog_wf : catalog_wf sample_catalog.
Proof.
  assert (catalog_wf (TopicCatalog_new 2)) as Hwf by (apply TopicCatalog_new_wf; unfold u32_max; lia).
  destruct (create_explicit_spec counting_uuids (TopicCatalog_new 2) "orders" 3 1 _ Hwf)
    as (r & c' & Hc & Hr); [unfold in_signed; lia|].
  unfold sample_catalog. rewrite Hc. cbn. destruct r as [m|e]; [|by destruct Hr as [-> _]].
  by destruct Hr as (d & _ & ? & _).
Qed.

Lemma create_topic_correct_witness :
  ∃ r c', create_explicit counting_uuids sample_catalog "payments" 2 1 = Some (r, c') ∧
    r = Ok (mkTopicMetadata 2 "payments" 2) ∧ partition c' "payments" 1 = Some empty_log.
Proof.
  destruct (create_topic_correct counting_uuids sample_catalog "payments" 2 1 _ sample_catalog_wf)
    as (r & c' & Hc & _); [unfold in_signed; lia|].
  exists r, c'. split; [exact Hc|]. vm_compute in Hc. injection Hc as <- <-. split; reflexivity.
Defined.

End TopicsCorrect.
