(* ===== verification/Groups.v ===== *)
(** * The consumer group coordinator

    [src/src/broker/groups.rs].  A [Group] is the state behind one group's
    mutex; every function below that takes and returns a [Group] is a stretch of
    code that runs under that lock, from the lock to the [await] or the return.
    The waiting loops of [join] and [sync] are therefore split into the code
    before the loop and one iteration ([join_poll], [sync_poll]), which is
    either [Ready] with the call's result or [Pending] until a notification or
    a deadline.  Groups are never removed from the coordinator's map nor
    replaced in it, so the shared [Arc<Mutex<Group>>] is the map's entry.

    - An [Instant] is a number of nanoseconds; [Instant::now()] is read through
      [clock], whose [i]-th reading within one operation is [clock i].
    - [change : Arc<Notify>] is the number of [notify_waiters] calls so far: a
      waiter registered at count [n] wakes when the count passes [n].
    - A hash map is a [gmap]; where the code sorts what it iterates over, or
      takes a minimum, so does the model.
    - [None] is a panic of an [expect]. *)

From stdpp Require Import pretty.
From S2P Require Import Prelude.
Open Scope Z_scope.

Module Groups.

Definition clock : Type := nat → Z.

(* @ src/src/broker/groups.rs 28-33 GroupState *)
Inductive GroupState : Type := Empty | PreparingRebalance | CompletingRebalance | Stable.

(* @ src/src/broker/groups.rs 69-72 JoinProtocol *)
Record JoinProtocol : Type := mkJoinProtocol {
  jp_name : string;
  jp_metadata : list byte
}.

(* @ src/src/broker/groups.rs 102-105 JoinedMember *)
Record JoinedMember : Type := mkJoinedMember {
  jm_member_id : string;
  jm_metadata : list byte
}.

(* @ src/src/broker/groups.rs 92-99 JoinedGroup *)
Record JoinedGroup : Type := mkJoinedGroup {
  jg_generation_id : Z;
  jg_protocol_type : string;
  jg_protocol_name : string;
  jg_leader : string;
  jg_member_id : string;
  jg_members : list JoinedMember
}.

(* @ src/src/broker/groups.rs 63-66 CompletedJoin *)
Record CompletedJoin : Type := mkCompletedJoin {
  cj_rebalance_epoch : Z;
  cj_result : JoinedGroup
}.

(* @ src/src/broker/groups.rs 51-60 Member *)
Record Member : Type := mkMember {
  client_id : string;
  session_timeout_ms : Z;
  rebalance_timeout_ms : Z;
  last_heartbeat : Z;
  protocols : list JoinProtocol;
  joined_epoch : Z;
  synced_generation : Z;
  m_completed_join : option CompletedJoin
}.

(* @ src/src/broker/groups.rs 137-149 TopicPartition *)
Record TopicPartition : Type := mkTopicPartition {
  tp_topic : string;
  tp_partition : Z
}.

(* @ src/src/broker/groups.rs 168-171 StoredOffset *)
Record StoredOffset : Type := mkStoredOffset {
  so_offset : Z;
  so_metadata : option string
}.

#[global] Instance GroupState_eq_dec : EqDecision GroupState.
Proof. solve_decision. Defined.
#[global] Instance JoinProtocol_eq_dec : EqDecision JoinProtocol.
Proof. solve_decision. Defined.
#[global] Instance TopicPartition_eq_dec : EqDecision TopicPartition.
Proof. solve_decision. Defined.
#[global] Instance TopicPartition_countable : Countable TopicPartition.
Proof.
  refine (inj_countable' (λ tp, (tp_topic tp, tp_partition tp))
    (λ p, mkTopicPartition p.1 p.2) _).
  by intros [].
Defined.

(* @ src/src/broker/groups.rs 36-48 Group *)
Record Group : Type := mkGroup {
  state : GroupState;
  generation_id : Z;
  rebalance_epoch : Z;
  protocol_type : string;
  selected_protocol : string;
  leader_member_id : string;
  members : gmap string Member;
  assignments : gmap string (list byte);
  committed_offsets : gmap TopicPartition StoredOffset;
  rebalance_deadline : option Z;
  change : nat
}.

(* @ src/src/broker/groups.rs 75-83 JoinRequest *)
Record JoinRequest : Type := mkJoinRequest {
  jr_group_id : string;
  jr_member_id : string;
  jr_client_id : string;
  jr_session_timeout_ms : Z;
  jr_rebalance_timeout_ms : Z;
  jr_protocol_type : string;
  jr_protocols : list JoinProtocol
}.

(* @ src/src/broker/groups.rs 86-89 JoinResult *)
Inductive JoinResult : Type :=
| MemberIdRequired (member_id : string)
| Joined (g : JoinedGroup).

(* @ src/src/broker/groups.rs 131-134 SyncAssignment *)
Record SyncAssignment : Type := mkSyncAssignment {
  sa_member_id : string;
  sa_assignment : list byte
}.

(* @ src/src/broker/groups.rs 152-157 OffsetCommit *)
Record OffsetCommit : Type := mkOffsetCommit {
  oc_topic : string;
  oc_partition : Z;
  oc_offset : Z;
  oc_metadata : option string
}.

(* @ src/src/broker/groups.rs 160-165 FetchedOffset *)
Record FetchedOffset : Type := mkFetchedOffset {
  fo_topic : string;
  fo_partition : Z;
  fo_offset : option Z;
  fo_metadata : option string
}.

(* @ src/src/broker/groups.rs 108-111 GroupSummary *)
Record GroupSummary : Type := mkGroupSummary {
  gs_group_id : string;
  gs_protocol_type : string
}.

(* @ src/src/broker/groups.rs 123-128 GroupMemberDescription *)
Record GroupMemberDescription : Type := mkGroupMemberDescription {
  gm_member_id : string;
  gm_client_id : string;
  gm_metadata : list byte;
  gm_assignment : list byte
}.

(* @ src/src/broker/groups.rs 114-120 GroupDescription *)
Record GroupDescription : Type := mkGroupDescription {
  gd_group_id : string;
  gd_state : string;
  gd_protocol_type : string;
  gd_protocol_name : string;
  gd_members : list GroupMemberDescription
}.

(* @ src/src/broker/groups.rs 174-180 GroupError *)
Inductive GroupError : Type :=
| UnknownMemberId | IllegalGeneration | RebalanceInProgress
| InconsistentGroupProtocol | InvalidAssignment.

(* @ src/src/broker/groups.rs 759-775 Group::new *)
Definition Group_new : Group := {|
  state := Empty;
  generation_id := 0;
  rebalance_epoch := 0;
  protocol_type := "";
  selected_protocol := "";
  leader_member_id := "";
  members := ∅;
  assignments := ∅;
  committed_offsets := ∅;
  rebalance_deadline := None;
  change := 0
|}.

(** ** Field assignments *)

Definition with_members (g : Group) (ms : gmap string Member) : Group :=
  mkGroup (state g) (generation_id g) (rebalance_epoch g) (protocol_type g)
    (selected_protocol g) (leader_member_id g) ms (assignments g) (committed_offsets g)
    (rebalance_deadline g) (change g).

Definition with_member (g : Group) (id : string) (f : Member → Member) : option Group :=
  match members g !! id with
  | Some m => Some (with_members g (<[id := f m]> (members g)))
  | None => None
  end.

Definition with_assignments (g : Group) (a : gmap string (list byte)) : Group :=
  mkGroup (state g) (generation_id g) (rebalance_epoch g) (protocol_type g)
    (selected_protocol g) (leader_member_id g) (members g) a (committed_offsets g)
    (rebalance_deadline g) (change g).

Definition with_state (g : Group) (s : GroupState) : Group :=
  mkGroup s (generation_id g) (rebalance_epoch g) (protocol_type g)
    (selected_protocol g) (leader_member_id g) (members g) (assignments g)
    (committed_offsets g) (rebalance_deadline g) (change g).

Definition with_deadline (g : Group) (d : option Z) : Group :=
  mkGroup (state g) (generation_id g) (rebalance_epoch g) (protocol_type g)
    (selected_protocol g) (leader_member_id g) (members g) (assignments g)
    (committed_offsets g) d (change g).

Definition with_leader (g : Group) (l : string) : Group :=
  mkGroup (state g) (generation_id g) (rebalance_epoch g) (protocol_type g)
    (selected_protocol g) l (members g) (assignments g)
    (committed_offsets g) (rebalance_deadline g) (change g).

Definition with_protocol_type (g : Group) (t : string) : Group :=
  mkGroup (state g) (generation_id g) (rebalance_epoch g) t
    (selected_protocol g) (leader_member_id g) (members g) (assignments g)
    (committed_offsets g) (rebalance_deadline g) (change g).

Definition with_committed (g : Group) (c : gmap TopicPartition StoredOffset) : Group :=
  mkGroup (state g) (generation_id g) (rebalance_epoch g) (protocol_type g)
    (selected_protocol g) (leader_member_id g) (members g) (assignments g)
    c (rebalance_deadline g) (change g).

(** [group.change.notify_waiters()]. *)
Definition notify_waiters (g : Group) : Group :=
  mkGroup (state g) (generation_id g) (rebalance_epoch g) (protocol_type g)
    (selected_protocol g) (leader_member_id g) (members g) (assignments g)
    (committed_offsets g) (rebalance_deadline g) (S (change g)).

Definition set_heartbeat (now : Z) (m : Member) : Member :=
  mkMember (client_id m) (session_timeout_ms m) (rebalance_timeout_ms m) now (protocols m)
    (joined_epoch m) (synced_generation m) (m_completed_join m).

Definition set_synced (generation : Z) (m : Member) : Member :=
  mkMember (client_id m) (session_timeout_ms m) (rebalance_timeout_ms m) (last_heartbeat m)
    (protocols m) (joined_epoch m) generation (m_completed_join m).

Definition set_completed (c : CompletedJoin) (m : Member) : Member :=
  mkMember (client_id m) (session_timeout_ms m) (rebalance_timeout_ms m) (last_heartbeat m)
    (protocols m) (joined_epoch m) (synced_generation m) (Some c).

(** ** Time *)

(** [Duration::from_millis(u64::try_from(ms.max(0)))] in nanoseconds. *)
Definition from_millis (ms : Z) : Z := Z.max ms 0 * 1000000.

(* @ src/src/broker/groups.rs 961-969 group_rebalance_timeout *)
Definition group_rebalance_timeout (g : Group) : Z :=
  from_millis (match rebalance_timeout_ms <$> (map_to_list (members g)).*2 with
               | [] => 0
               | t :: ts => fold_left Z.max ts t
               end).

(* @ src/src/broker/groups.rs 1010-1013 member_deadline *)
Definition member_deadline (m : Member) : Z :=
  last_heartbeat m + from_millis (session_timeout_ms m).

(** ** Protocol selection *)

Definition supports (name : string) (m : Member) : bool :=
  existsb (λ p, bool_decide (jp_name p = name)) (protocols m).

(* @ src/src/broker/groups.rs 1020-1036 select_protocol *)
Definition common_protocols (ms : gmap string Member) : gset string :=
  let all := (map_to_list ms).*2 in
  list_to_set (filter (λ candidate, forallb (supports candidate) all)
    (jp_name <$> concat (protocols <$> all))).

(* @ src/src/broker/groups.rs 1039-1043 select_protocol *)
Definition preferred_protocol (common : gset string) (m : Member) : option JoinProtocol :=
  List.find (λ p, bool_decide (jp_name p ∈ common)) (protocols m).

(** The loop that counts the votes, with its early return. *)
(* @ src/src/broker/groups.rs 1037-1045 select_protocol *)
Fixpoint count_votes (common : gset string) (ms : list Member) (votes : gmap string Z) :
    result GroupError (gmap string Z) :=
  match ms with
  | [] => Ok votes
  | m :: ms =>
      match preferred_protocol common m with
      | None => Err InconsistentGroupProtocol
      | Some p =>
          count_votes common ms (<[jp_name p := default 0 (votes !! jp_name p) + 1]> votes)
      end
  end.

(** [left.votes.cmp(right.votes).then_with(|| right.name.cmp(left.name))] is
    not [Greater]: [right] wins, more votes first, then the smaller name. *)
(* @ src/src/broker/groups.rs 1049-1053 select_protocol *)
Definition vote_le (left_ right_ : string * Z) : bool :=
  bool_decide (left_.2 < right_.2) ||
  (bool_decide (left_.2 = right_.2) && bool_decide (String.le right_.1 left_.1)).

(** [Iterator::max_by] keeps the later of two elements unless the earlier is
    greater. *)
Fixpoint max_by {A : Type} (le : A → A → bool) (best : A) (l : list A) : A :=
  match l with
  | [] => best
  | x :: l => max_by le (if le best x then x else best) l
  end.

(* @ src/src/broker/groups.rs 1015-1056 select_protocol *)
Definition select_protocol (ms : gmap string Member) : result GroupError string :=
  if decide (ms = ∅) then Err InconsistentGroupProtocol
  else
    match count_votes (common_protocols ms) (map_to_list ms).*2 ∅ with
    | Err e => Err e
    | Ok votes =>
        match map_to_list votes with
        | [] => Err InconsistentGroupProtocol
        | v :: vs => Ok (max_by vote_le v vs).1
        end
    end.

(** ** Rebalances *)

(* @ src/src/broker/groups.rs 777-789 begin_rebalance *)
Definition begin_rebalance (now : Z) (g : Group) : Group :=
  let g := mkGroup PreparingRebalance (generation_id g)
    (saturating_add u64_max (rebalance_epoch g) 1) (protocol_type g) (selected_protocol g)
    (leader_member_id g) (members g) ∅ (committed_offsets g) (rebalance_deadline g) (change g) in
  notify_waiters (with_deadline g (Some (now + group_rebalance_timeout g))).

Definition joined_member_le (a b : JoinedMember) : Prop :=
  String.le (jm_member_id a) (jm_member_id b).

#[global] Instance joined_member_le_dec : RelDecision joined_member_le.
Proof. intros a b. unfold joined_member_le. apply _. Defined.

(* @ src/src/broker/groups.rs 1058-1075 members_for_leader *)
Definition members_for_leader (g : Group) : list JoinedMember :=
  merge_sort joined_member_le
    (omap (λ '(id, m),
       p ← List.find (λ p, bool_decide (jp_name p = selected_protocol g)) (protocols m);
       Some (mkJoinedMember id (jp_metadata p)))
     (map_to_list (members g))).

(** What [complete_rebalance_if_ready] stores for one member. *)
(* @ src/src/broker/groups.rs 817-836 complete_rebalance_if_ready *)
Definition completed_result (g : Group) (leader_members : list JoinedMember) (id : string) :
    CompletedJoin :=
  mkCompletedJoin (rebalance_epoch g)
    (mkJoinedGroup (generation_id g) (protocol_type g) (selected_protocol g)
      (leader_member_id g) id
      (if decide (id = leader_member_id g) then leader_members else [])).

(* @ src/src/broker/groups.rs 792-800 complete_rebalance_if_ready *)
Definition ready_to_complete (g : Group) : bool :=
  bool_decide (state g = PreparingRebalance) && negb (bool_decide (members g = ∅)) &&
  forallb (λ m, bool_decide (joined_epoch m = rebalance_epoch g)) (map_to_list (members g)).*2.

(* @ src/src/broker/groups.rs 791-857 complete_rebalance_if_ready *)
Definition complete_rebalance_if_ready (now : Z) (g : Group) :
    result GroupError bool * Group :=
  if negb (ready_to_complete g) then (Ok false, g)
  else
    match select_protocol (members g) with
    | Err e => (Err e, g)
    | Ok selected =>
        let g := mkGroup CompletingRebalance (saturating_add i32_max (generation_id g) 1)
          (rebalance_epoch g) (protocol_type g) selected (leader_member_id g) (members g) ∅
          (committed_offsets g) (rebalance_deadline g) (change g) in
        let g := with_deadline g (Some (now + group_rebalance_timeout g)) in
        let leader_members := members_for_leader g in
        let g := with_members g
          (map_imap (λ id m, Some (set_completed (completed_result g leader_members id) m))
            (members g)) in
        (Ok true, notify_waiters g)
    end.

(* @ src/src/broker/groups.rs 859-867 completed_join *)
Definition completed_join (g : Group) (id : string) (epoch : Z) : option JoinedGroup :=
  m ← members g !! id;
  c ← m_completed_join m;
  if decide (cj_rebalance_epoch c = epoch) then Some (cj_result c) else None.

(* @ src/src/broker/groups.rs 869-874 join_matches *)
Definition join_matches (m : Member) (request : JoinRequest) : bool :=
  bool_decide (client_id m = jr_client_id request) &&
  bool_decide (session_timeout_ms m = jr_session_timeout_ms request) &&
  bool_decide (rebalance_timeout_ms m = jr_rebalance_timeout_ms request) &&
  bool_decide (protocols m = jr_protocols request).

(** [members.keys().min()]. *)
Definition min_key (ms : gmap string Member) : option string :=
  match (map_to_list ms).*1 with
  | [] => None
  | k :: ks => Some (fold_left (λ a b, if decide (String.le a b) then a else b) ks k)
  end.

(* @ src/src/broker/groups.rs 927-949 transition_after_removal *)
Definition transition_after_removal (now : Z) (g : Group) : Group :=
  if decide (members g = ∅) then
    notify_waiters (mkGroup Empty (generation_id g) (rebalance_epoch g) "" "" "" (members g) ∅
      (committed_offsets g) None (change g))
  else
    let g :=
      if decide (is_Some (members g !! leader_member_id g)) then g
      else with_leader g (default "" (min_key (members g))) in
    if decide (state g ≠ PreparingRebalance) then begin_rebalance now g
    else notify_waiters (with_assignments g ∅).

(** [deadline <= now] of an optional deadline. *)
Definition deadline_passed (d : option Z) (now : Z) : bool :=
  match d with Some d => bool_decide (d ≤ now) | None => false end.

(* @ src/src/broker/groups.rs 888-906 expire_stale_members *)
Definition is_stale (g : Group) (now : Z) (active : option string) (id : string) (m : Member) :
    bool :=
  let rebalance_expired := deadline_passed (rebalance_deadline g) now in
  if decide (active = Some id) then false
  else
    match state g with
    | Empty => false
    | PreparingRebalance =>
        rebalance_expired && negb (bool_decide (joined_epoch m = rebalance_epoch g))
    | CompletingRebalance =>
        rebalance_expired && negb (bool_decide (synced_generation m = generation_id g))
    | Stable =>
        let pending_sync := negb (bool_decide (synced_generation m = generation_id g)) in
        (rebalance_expired && pending_sync) ||
        (negb pending_sync && bool_decide (member_deadline m ≤ now))
    end.

(** [now'] is the instant [begin_rebalance] reads. *)
(* @ src/src/broker/groups.rs 876-925 expire_stale_members *)
Definition expire_stale_members (now now' : Z) (active : option string) (g : Group) : Group :=
  let expired := filter (λ '(id, m), is_stale g now active id m = true) (members g) in
  if decide (expired = ∅) then g
  else
    let g := with_assignments (with_members g (members g ∖ expired))
      (filter (λ '(id, _), expired !! id = None) (assignments g)) in
    transition_after_removal now' g.

(* @ src/src/broker/groups.rs 951-959 extend_rebalance_deadline *)
Definition extend_rebalance_deadline (now : Z) (g : Group) : Group :=
  let candidate := now + group_rebalance_timeout g in
  match rebalance_deadline g with
  | Some d => if decide (d < candidate) then with_deadline g (Some candidate) else g
  | None => with_deadline g (Some candidate)
  end.

(* @ src/src/broker/groups.rs 971-979 clear_rebalance_deadline_if_all_synced *)
Definition clear_rebalance_deadline_if_all_synced (g : Group) : Group :=
  if forallb (λ m, bool_decide (synced_generation m = generation_id g)) (map_to_list (members g)).*2
  then with_deadline g None else g.

Definition min_option (l : list Z) : option Z :=
  match l with [] => None | x :: l => Some (fold_left Z.min l x) end.

(** Whether the group waits for this member before the rebalance deadline. *)
(* @ src/src/broker/groups.rs 983-992 next_expiry_deadline *)
Definition awaited (g : Group) (active : option string) (id : string) (m : Member) : bool :=
  negb (bool_decide (active = Some id)) &&
  match state g with
  | PreparingRebalance => negb (bool_decide (joined_epoch m = rebalance_epoch g))
  | CompletingRebalance | Stable => negb (bool_decide (synced_generation m = generation_id g))
  | Empty => false
  end.

(* @ src/src/broker/groups.rs 981-1008 next_expiry_deadline *)
Definition next_expiry_deadline (g : Group) (active : option string) : option Z :=
  let rebalance :=
    if existsb (λ '(id, m), awaited g active id m) (map_to_list (members g))
    then rebalance_deadline g else None in
  let session :=
    if decide (state g = Stable) then
      min_option (omap (λ '(id, m),
        if negb (bool_decide (active = Some id)) &&
           bool_decide (synced_generation m = generation_id g)
        then Some (member_deadline m) else None) (map_to_list (members g)))
    else None in
  min_option (option_list rebalance ++ option_list session).

(* @ src/src/broker/groups.rs 1077-1089 validate_member_and_generation *)
Definition validate_member_and_generation (g : Group) (generation : Z) (id : string) :
    result GroupError () :=
  if decide (members g !! id = None) then Err UnknownMemberId
  else if decide (generation_id g ≠ generation) then Err IllegalGeneration
  else Ok ().

(** ** Joining *)

(** A call that has returned, or one that goes on. *)
Inductive entered : Type :=
| JoinReturned (r : result GroupError JoinResult)
| JoinWaiting (target_epoch : Z).

(* @ src/src/broker/groups.rs 316-322 GroupCoordinator::join *)
Definition cached_join (g : Group) (id : string) (request : JoinRequest) : option JoinedGroup :=
  let can_reuse_completed_join :=
    bool_decide (state g = CompletingRebalance) ||
    (bool_decide (state g = Stable) && negb (bool_decide (leader_member_id g = id))) in
  m ← members g !! id;
  if join_matches m request then
    c ← m_completed_join m;
    if decide (cj_rebalance_epoch c = rebalance_epoch g) then
      if can_reuse_completed_join then Some (cj_result c) else None
    else None
  else None.

(* @ src/src/broker/groups.rs 337-355 GroupCoordinator::join *)
Definition joining_member (g : Group) (now target_epoch : Z) (request : JoinRequest) : Member :=
  let prior_member := members g !! jr_member_id request in
  mkMember (jr_client_id request) (jr_session_timeout_ms request)
    (jr_rebalance_timeout_ms request) now (jr_protocols request) target_epoch
    (from_option synced_generation (-1) prior_member)
    (prior_member ≫= m_completed_join).

(** The part after the checks: the member enters the group and the rebalance
    starts, is extended, or completes. *)
(* @ src/src/broker/groups.rs 332-387 GroupCoordinator::join *)
Definition join_member (clk : clock) (g : Group) (request : JoinRequest) (may_add_member : bool) :
    entered * Group :=
  let now := clk 0%nat in
  let member_id := jr_member_id request in
  let starts_rebalance := negb (bool_decide (state g = PreparingRebalance)) in
  let target_epoch :=
    if starts_rebalance then saturating_add u64_max (rebalance_epoch g) 1
    else rebalance_epoch g in
  let prospective_members :=
    <[member_id := joining_member g now target_epoch request]> (members g) in
  match select_protocol prospective_members with
  | Err e => (JoinReturned (Err e), g)
  | Ok _ =>
      let g := with_members g prospective_members in
      let g :=
        if starts_rebalance then begin_rebalance (clk 2%nat) g
        else if may_add_member then extend_rebalance_deadline now g else g in
      let g := with_protocol_type g (jr_protocol_type request) in
      let g := if decide (leader_member_id g = "") then with_leader g member_id else g in
      match complete_rebalance_if_ready (clk 3%nat) g with
      | (Err e, g) => (JoinReturned (Err e), g)
      | (Ok _, g) => (JoinWaiting target_epoch, g)
      end
  end.

(** The critical section of [join]. *)
(* @ src/src/broker/groups.rs 296-388 GroupCoordinator::join *)
Definition join_enter (clk : clock) (g : Group) (request : JoinRequest) (may_add_member : bool) :
    option (entered * Group) :=
  let now := clk 0%nat in
  let member_id := jr_member_id request in
  let g := expire_stale_members now (clk 1%nat) None g in
  if negb may_add_member && bool_decide (members g !! member_id = None) then
    Some (JoinReturned (Err UnknownMemberId), g)
  else if negb (bool_decide (members g = ∅)) &&
          negb (bool_decide (protocol_type g = jr_protocol_type request)) then
    Some (JoinReturned (Err InconsistentGroupProtocol), g)
  else
    match cached_join g member_id request with
    | Some joined =>
        let! g := with_member g member_id (set_heartbeat now) in
        Some (JoinReturned (Ok (Joined joined)), g)
    | None => Some (join_member clk g request may_add_member)
    end.

(** One pass of a waiting loop. *)
Inductive poll (A : Type) : Type :=
| Ready (r : result GroupError A)
| Pending (seen : nat) (deadline : option Z).
Arguments Ready {A} r.
Arguments Pending {A} seen deadline.

(* @ src/src/broker/groups.rs 396-428 GroupCoordinator::join *)
Definition join_poll (clk : clock) (g : Group) (member_id : string) (target_epoch : Z) :
    poll JoinedGroup * Group :=
  match completed_join g member_id target_epoch with
  | Some joined => (Ready (Ok joined), g)
  | None =>
      if decide (members g !! member_id = None) then (Ready (Err UnknownMemberId), g)
      else if decide (rebalance_epoch g ≠ target_epoch) then (Ready (Err RebalanceInProgress), g)
      else
        let g := expire_stale_members (clk 0%nat) (clk 1%nat) (Some member_id) g in
        match complete_rebalance_if_ready (clk 2%nat) g with
        | (Err e, g) => (Ready (Err e), g)
        | (Ok _, g) =>
            match completed_join g member_id target_epoch with
            | Some joined => (Ready (Ok joined), g)
            | None => (Pending (change g) (next_expiry_deadline g (Some member_id)), g)
            end
        end
  end.

(** ** Synchronising *)

(* @ src/src/broker/groups.rs 484-494 GroupCoordinator::sync *)
Definition assignment_covers (g : Group) (given : list SyncAssignment) : bool :=
  let assigned_members : gset string := list_to_set (sa_member_id <$> given) in
  bool_decide (size assigned_members = length given) &&
  bool_decide (size assigned_members = size (members g)) &&
  forallb (λ id, bool_decide (id ∈ assigned_members)) (map_to_list (members g)).*1.

(** [assignments.into_iter().collect::<HashMap<_, _>>()]: a later duplicate wins. *)
Definition collect_assignments (given : list SyncAssignment) : gmap string (list byte) :=
  fold_left (λ acc a, <[sa_member_id a := sa_assignment a]> acc) given ∅.

(** The leader's branch in [CompletingRebalance]. *)
(* @ src/src/broker/groups.rs 482-528 GroupCoordinator::sync *)
Definition sync_leader (now generation : Z) (g : Group) (member_id : string)
    (given : list SyncAssignment) : option (result GroupError (list byte) * Group) :=
  if negb (assignment_covers g given) then Some (Err InvalidAssignment, g)
  else
    let! g := with_member g member_id (set_synced generation) in
    let g := with_assignments g (collect_assignments given) in
    let g := with_members g
      ((λ m, if decide (synced_generation m = generation) then set_heartbeat now m else m)
        <$> members g) in
    let g := clear_rebalance_deadline_if_all_synced (with_state g Stable) in
    let g := notify_waiters g in
    Some (ok_or (assignments g !! member_id) RebalanceInProgress, g).

(** One pass of the loop of [sync]; [given] is what is left of the request's
    assignments ([Option::take]) and [refresh_member] whether this is the first
    pass. *)
(* @ src/src/broker/groups.rs 445-546 GroupCoordinator::sync *)
Definition sync_poll (clk : clock) (g : Group) (generation : Z) (member_id : string)
    (given : option (list SyncAssignment)) (refresh_member : bool) :
    option (poll (list byte) * Group) :=
  let now := clk 0%nat in
  let active := if refresh_member then None else Some member_id in
  let g := expire_stale_members now (clk 1%nat) active g in
  match validate_member_and_generation g generation member_id with
  | Err e => Some (Ready (Err e), g)
  | Ok _ =>
      let! g := if refresh_member then with_member g member_id (set_heartbeat now) else Some g in
      match state g with
      | Stable =>
          let! g := with_member g member_id (set_synced generation) in
          let g := notify_waiters (clear_rebalance_deadline_if_all_synced g) in
          Some (Ready (ok_or (assignments g !! member_id) RebalanceInProgress), g)
      | PreparingRebalance | Empty => Some (Ready (Err RebalanceInProgress), g)
      | CompletingRebalance =>
          if decide (member_id = leader_member_id g) then
            let! done_ := sync_leader now generation g member_id (default [] given) in
            Some (Ready done_.1, done_.2)
          else
            let! g := with_member g member_id (set_synced generation) in
            Some (Pending (change g) (next_expiry_deadline g (Some member_id)), g)
      end
  end.

(** ** The other operations of a group *)

(* @ src/src/broker/groups.rs 559-580 GroupCoordinator::heartbeat *)
Definition group_heartbeat (clk : clock) (g : Group) (generation : Z) (member_id : string) :
    result GroupError () * Group :=
  let now := clk 0%nat in
  let g := expire_stale_members now (clk 1%nat) None g in
  match validate_member_and_generation g generation member_id with
  | Err e => (Err e, g)
  | Ok _ =>
      match with_member g member_id (set_heartbeat now) with
      | None => (Err UnknownMemberId, g)
      | Some g =>
          match state g with
          | CompletingRebalance | Stable => (Ok (), g)
          | Empty | PreparingRebalance => (Err RebalanceInProgress, g)
          end
      end
  end.

(* @ src/src/broker/groups.rs 588-603 GroupCoordinator::leave *)
Definition group_leave (clk : clock) (g : Group) (member_id : string) :
    result GroupError () * Group :=
  let g := expire_stale_members (clk 0%nat) (clk 1%nat) None g in
  if decide (members g !! member_id = None) then (Err UnknownMemberId, g)
  else
    let g := with_members g (delete member_id (members g)) in
    let g := with_assignments g (delete member_id (assignments g)) in
    let g := transition_after_removal (clk 2%nat) g in
    match complete_rebalance_if_ready (clk 3%nat) g with
    | (Err e, g) => (Err e, g)
    | (Ok _, g) => (Ok (), g)
    end.

(* @ src/src/broker/groups.rs 623-631 GroupCoordinator::commit_offsets *)
Definition store_offsets (stored : gmap TopicPartition StoredOffset) (offsets : list OffsetCommit) :
    gmap TopicPartition StoredOffset :=
  fold_left (λ acc o,
    <[mkTopicPartition (oc_topic o) (oc_partition o) := mkStoredOffset (oc_offset o) (oc_metadata o)]>
      acc) offsets stored.

(* @ src/src/broker/groups.rs 617-632 GroupCoordinator::commit_offsets *)
Definition group_commit_offsets (clk : clock) (g : Group) (generation : Z) (member_id : string)
    (offsets : list OffsetCommit) : result GroupError () * Group :=
  let g := expire_stale_members (clk 0%nat) (clk 1%nat) None g in
  match validate_member_and_generation g generation member_id with
  | Err e => (Err e, g)
  | Ok _ =>
      if decide (state g ≠ Stable) then (Err RebalanceInProgress, g)
      else (Ok (), with_committed g (store_offsets (committed_offsets g) offsets))
  end.

Definition fetched_offset_le (a b : FetchedOffset) : Prop :=
  fo_topic a ≠ fo_topic b ∧ String.le (fo_topic a) (fo_topic b) ∨
  fo_topic a = fo_topic b ∧ fo_partition a ≤ fo_partition b.

#[global] Instance fetched_offset_le_dec : RelDecision fetched_offset_le.
Proof. intros a b. unfold fetched_offset_le. apply _. Defined.

Definition fetched_offset (tp : TopicPartition) (stored : option StoredOffset) : FetchedOffset :=
  mkFetchedOffset (tp_topic tp) (tp_partition tp) (so_offset <$> stored)
    (stored ≫= so_metadata).

(* @ src/src/broker/groups.rs 652-682 GroupCoordinator::fetch_offsets *)
Definition group_fetch_offsets (g : Group) (requested : option (list TopicPartition)) :
    list FetchedOffset :=
  merge_sort fetched_offset_le
    match requested with
    | Some requested =>
        (λ tp, fetched_offset tp (committed_offsets g !! tp)) <$> requested
    | None =>
        (λ '(tp, stored), fetched_offset tp (Some stored)) <$> map_to_list (committed_offsets g)
    end.

Definition description_le (a b : GroupMemberDescription) : Prop :=
  String.le (gm_member_id a) (gm_member_id b).

#[global] Instance description_le_dec : RelDecision description_le.
Proof. intros a b. unfold description_le. apply _. Defined.

Definition state_name (s : GroupState) : string :=
  match s with
  | Empty => "Empty"
  | PreparingRebalance => "PreparingRebalance"
  | CompletingRebalance => "CompletingRebalance"
  | Stable => "Stable"
  end.

(* @ src/src/broker/groups.rs 217-251 GroupCoordinator::describe *)
Definition group_describe (clk : clock) (g : Group) (group_id : string) :
    GroupDescription * Group :=
  let g := expire_stale_members (clk 0%nat) (clk 1%nat) None g in
  let ms := (λ '(id, m),
    mkGroupMemberDescription id (client_id m)
      (from_option jp_metadata []
        (List.find (λ p, bool_decide (jp_name p = selected_protocol g)) (protocols m)))
      (default [] (assignments g !! id))) <$> map_to_list (members g) in
  (mkGroupDescription group_id (state_name (state g)) (protocol_type g) (selected_protocol g)
     (merge_sort description_le ms), g).

(** One pass of the background task of a group. *)
(* @ src/src/broker/groups.rs 733-757 drive_group_deadlines *)
Definition drive_group_deadlines (clk : clock) (g : Group) :
    result GroupError bool * (nat * option Z) * Group :=
  let g := expire_stale_members (clk 0%nat) (clk 1%nat) None g in
  let '(r, g) := complete_rebalance_if_ready (clk 2%nat) g in
  (r, (change g, next_expiry_deadline g None), g).

(** ** The coordinator *)

(* @ src/src/broker/groups.rs 21-25 CoordinatorInner *)
Record Coordinator : Type := mkCoordinator {
  groups : gmap string Group;
  pending_member_ids : gset (string * string);
  next_member_id : Z
}.

(* @ src/src/broker/groups.rs 183-191 GroupCoordinator::new *)
Definition Coordinator_new : Coordinator := mkCoordinator ∅ ∅ 1.

Definition with_group (c : Coordinator) (id : string) (g : Group) : Coordinator :=
  mkCoordinator (<[id := g]> (groups c)) (pending_member_ids c) (next_member_id c).

Definition member_id_for (client : string) (sequence : Z) : string :=
  client +:+ "-" +:+ pretty (Z.to_N sequence).

(* @ src/src/broker/groups.rs 685-688 GroupCoordinator::allocate_member_id *)
Definition allocate_member_id (c : Coordinator) (client : string) : string * Coordinator :=
  (member_id_for client (next_member_id c),
   mkCoordinator (groups c) (pending_member_ids c) (wrap_unsigned 64 (next_member_id c + 1))).

(** A new group's background task starts with it: [drive_group_deadlines]
    may run on every group of the map. *)
(* @ src/src/broker/groups.rs 690-711 GroupCoordinator::group_or_insert *)
Definition group_or_insert (c : Coordinator) (group_id : string) : Group * Coordinator :=
  match groups c !! group_id with
  | Some g => (g, c)
  | None => (Group_new, with_group c group_id Group_new)
  end.

Inductive join_started : Type :=
| StartReturned (r : result GroupError JoinResult)
| StartProceed (request : JoinRequest) (may_add_member : bool).

Definition with_member_id (request : JoinRequest) (id : string) : JoinRequest :=
  mkJoinRequest (jr_group_id request) id (jr_client_id request) (jr_session_timeout_ms request)
    (jr_rebalance_timeout_ms request) (jr_protocol_type request) (jr_protocols request).

(** The checks of [join] before the group is locked; membership is checked
    again under the lock. *)
(* @ src/src/broker/groups.rs 254-292 GroupCoordinator::join *)
Definition join_start (c : Coordinator) (request : JoinRequest) (require_known_member_id : bool) :
    join_started * Coordinator :=
  if decide (jr_protocols request = [] ∨ jr_protocol_type request = "") then
    (StartReturned (Err InconsistentGroupProtocol), c)
  else if decide (jr_member_id request = "") then
    let '(id, c) := allocate_member_id c (jr_client_id request) in
    if require_known_member_id then
      (StartReturned (Ok (MemberIdRequired id)),
       mkCoordinator (groups c) ({[(jr_group_id request, id)]} ∪ pending_member_ids c)
         (next_member_id c))
    else (StartProceed (with_member_id request id) true, c)
  else if decide ((jr_group_id request, jr_member_id request) ∈ pending_member_ids c) then
    (StartProceed request true, c)
  else
    match groups c !! jr_group_id request with
    | None => (StartReturned (Err UnknownMemberId), c)
    | Some g =>
        if decide (members g !! jr_member_id request = None) then
          (StartReturned (Err UnknownMemberId), c)
        else (StartProceed request false, c)
    end.

(** [group_or_insert] and the critical section. *)
(* @ src/src/broker/groups.rs 294-388 GroupCoordinator::join *)
Definition join_locked (clk : clock) (c : Coordinator) (request : JoinRequest)
    (may_add_member : bool) : option (entered * Coordinator) :=
  let '(g, c) := group_or_insert c (jr_group_id request) in
  let! r := join_enter clk g request may_add_member in
  Some (r.1, with_group c (jr_group_id request) r.2).

(* @ src/src/broker/groups.rs 390-394 GroupCoordinator::join *)
Definition join_forget_pending (c : Coordinator) (group_id member_id : string) : Coordinator :=
  mkCoordinator (groups c) (pending_member_ids c ∖ {[(group_id, member_id)]}) (next_member_id c).

(** The operations that look the group up, answer [UnknownMemberId] without
    one, and run under its lock. *)
Definition on_group {A : Type} (c : Coordinator) (group_id : string)
    (op : Group → result GroupError A * Group) : result GroupError A * Coordinator :=
  match groups c !! group_id with
  | None => (Err UnknownMemberId, c)
  | Some g => let '(r, g) := op g in (r, with_group c group_id g)
  end.

(* @ src/src/broker/groups.rs 549-581 GroupCoordinator::heartbeat *)
Definition heartbeat (clk : clock) (c : Coordinator) (group_id : string) (generation : Z)
    (member_id : string) : result GroupError () * Coordinator :=
  on_group c group_id (λ g, group_heartbeat clk g generation member_id).

(* @ src/src/broker/groups.rs 583-604 GroupCoordinator::leave *)
Definition leave (clk : clock) (c : Coordinator) (group_id member_id : string) :
    result GroupError () * Coordinator :=
  on_group c group_id (λ g, group_leave clk g member_id).

(* @ src/src/broker/groups.rs 606-633 GroupCoordinator::commit_offsets *)
Definition commit_offsets (clk : clock) (c : Coordinator) (group_id : string) (generation : Z)
    (member_id : string) (offsets : list OffsetCommit) : result GroupError () * Coordinator :=
  on_group c group_id (λ g, group_commit_offsets clk g generation member_id offsets).

(* @ src/src/broker/groups.rs 635-683 GroupCoordinator::fetch_offsets *)
Definition fetch_offsets (c : Coordinator) (group_id : string)
    (requested : option (list TopicPartition)) : list FetchedOffset :=
  match groups c !! group_id with
  | None => (λ tp, fetched_offset tp None) <$> default [] requested
  | Some g => group_fetch_offsets g requested
  end.

(* @ src/src/broker/groups.rs 215-252 GroupCoordinator::describe *)
Definition describe (clk : clock) (c : Coordinator) (group_id : string) :
    option GroupDescription * Coordinator :=
  match groups c !! group_id with
  | None => (None, c)
  | Some g => let '(d, g) := group_describe clk g group_id in
      (Some d, with_group c group_id g)
  end.

Definition group_entry_le (a b : string * Group) : Prop := String.le a.1 b.1.

#[global] Instance group_entry_le_dec : RelDecision group_entry_le.
Proof. intros a b. unfold group_entry_le. apply _. Defined.

(* @ src/src/broker/groups.rs 193-213 GroupCoordinator::list *)
Definition list_groups (c : Coordinator) : list GroupSummary :=
  (λ '(id, g), mkGroupSummary id (protocol_type g)) <$>
    merge_sort group_entry_le (map_to_list (groups c)).

End Groups.
