(* ===== verification/GroupsCorrect.v ===== *)
(** * Correctness of the group coordinator

    Theorems about [Groups.v].  [group_wf] is the invariant of a group; every
    critical section preserves it, whatever the interleaving, so no [expect] of
    the code panics and the assignment protocol of a rebalance always exists.
    The remaining theorems say what each call promises: protocol selection,
    generations, fenced commits, assignments, and the deadlines that keep
    rebalances moving. *)

From S2P Require Import Prelude Groups.
Import Groups.
Open Scope Z_scope.

Module GroupsCorrect.

(** ** Protocol selection *)

Lemma supports_spec name m : supports name m = true ↔ ∃ p, p ∈ protocols m ∧ jp_name p = name.
Proof.
  unfold supports. rewrite existsb_exists. setoid_rewrite <- list_elem_of_In.
  setoid_rewrite bool_decide_eq_true. done.
Qed.

Lemma elem_of_values (ms : gmap string Member) m :
  m ∈ (map_to_list ms).*2 ↔ ∃ id, ms !! id = Some m.
Proof.
  rewrite list_elem_of_fmap. split.
  - intros ([id m'] & -> & Hin). apply elem_of_map_to_list in Hin. eauto.
  - intros (id & Hid). exists (id, m). split; [done|]. by apply elem_of_map_to_list.
Qed.

Lemma forallb_values (P : Member → bool) (ms : gmap string Member) :
  forallb P (map_to_list ms).*2 = true ↔ map_Forall (λ _ m, P m = true) ms.
Proof.
  rewrite forallb_forall. setoid_rewrite <- list_elem_of_In. setoid_rewrite elem_of_values.
  split; [intros H id m Hm; eauto|intros H m (id & Hm); by eapply H].
Qed.

Lemma common_protocols_spec ms name :
  name ∈ common_protocols ms ↔ ms ≠ ∅ ∧ map_Forall (λ _ m, supports name m = true) ms.
Proof.
  unfold common_protocols. rewrite elem_of_list_to_set, list_elem_of_filter, <- forallb_values.
  split.
  - intros [Hall Hin]. split; [|by apply Is_true_true]. intros ->.
    rewrite map_to_list_empty in Hin. by apply elem_of_nil in Hin.
  - intros [Hne Hall]. split; [by apply Is_true_true|].
    destruct (map_choose ms Hne) as (id & m & Hm).
    pose proof Hall as Hall'. rewrite forallb_values in Hall'.
    destruct (proj1 (supports_spec name m) (Hall' id m Hm)) as (p & Hp & <-).
    apply list_elem_of_fmap. exists p. split; [done|].
    apply list_elem_of_In, in_concat. exists (protocols m). split; [|by apply list_elem_of_In].
    apply list_elem_of_In, list_elem_of_fmap. exists m. split; [done|]. apply elem_of_values. eauto.
Qed.

(** The first common protocol in a member's order of preference. *)
Definition prefers (common : gset string) (name : string) (m : Member) : Prop :=
  jp_name <$> preferred_protocol common m = Some name.

#[global] Instance prefers_dec common name m : Decision (prefers common name m).
Proof. unfold prefers. apply _. Defined.

Definition votes_for (common : gset string) (ms : list Member) (name : string) : Z :=
  len (filter (prefers common name) ms).

Lemma votes_for_cons common m ms name :
  votes_for common (m :: ms) name =
    (if decide (prefers common name m) then 1 else 0) + votes_for common ms name.
Proof. unfold votes_for. rewrite filter_cons. case_decide; [by rewrite len_cons|done]. Qed.

Lemma count_votes_spec common ms acc votes :
  count_votes common ms acc = Ok votes →
  ∀ name, default 0 (votes !! name) = default 0 (acc !! name) + votes_for common ms name ∧
    (is_Some (votes !! name) → is_Some (acc !! name) ∨ 0 < votes_for common ms name).
Proof.
  revert acc. induction ms as [|m ms IH]; intros acc; cbn [count_votes].
  - intros [= <-] name. unfold votes_for, len. simpl. split; [lia|auto].
  - destruct (preferred_protocol common m) as [p|] eqn:Hp; [|done].
    intros Hv name. destruct (IH _ Hv name) as [Hval Hdom]. rewrite votes_for_cons.
    assert (0 ≤ votes_for common ms name) by apply len_nonneg.
    destruct (decide (jp_name p = name)) as [<-|Hne].
    + rewrite lookup_insert_eq in *. simpl in *.
      rewrite decide_True by (unfold prefers; by rewrite Hp). split; [lia|]. intros. right. lia.
    + rewrite lookup_insert_ne in * by done.
      rewrite decide_False by (unfold prefers; rewrite Hp; simpl; congruence). auto.
Qed.

Lemma count_votes_ok common ms acc :
  (∃ votes, count_votes common ms acc = Ok votes) ↔
  Forall (λ m, is_Some (preferred_protocol common m)) ms.
Proof.
  revert acc. induction ms as [|m ms IH]; intros acc; cbn [count_votes].
  - split; [done|eauto].
  - rewrite Forall_cons. destruct (preferred_protocol common m) as [p|].
    + rewrite IH. split; [intros; split; [by eexists|done]|by intros [_ ?]].
    + split; [by intros (? & ?)|by intros [[? ?] _]].
Qed.

Lemma preferred_is_Some common m :
  is_Some (preferred_protocol common m) ↔ ∃ name, name ∈ common ∧ supports name m = true.
Proof.
  unfold preferred_protocol. split.
  - intros [p Hp]. apply List.find_some in Hp as [Hin Hc].
    apply bool_decide_eq_true in Hc. exists (jp_name p). split; [done|].
    apply supports_spec. exists p. split; [by apply list_elem_of_In|done].
  - intros (name & Hc & (p & Hin & <-)%supports_spec).
    destruct (List.find _ _) as [q|] eqn:Hf; [by eexists|].
    pose proof (List.find_none _ _ Hf p) as Hnone. cbv beta in Hnone.
    rewrite bool_decide_true in Hnone by done. by apply list_elem_of_In, Hnone in Hin.
Qed.

Lemma preferred_common common name m : prefers common name m → name ∈ common.
Proof.
  unfold prefers, preferred_protocol. destruct (List.find _ _) as [p|] eqn:Hf; [|done].
  intros [= <-]. apply List.find_some in Hf as [_ Hc]. by apply bool_decide_eq_true in Hc.
Qed.

Lemma max_by_spec (x : string * Z) (l : list (string * Z)) :
  let best := max_by vote_le x l in
  best ∈ x :: l ∧ Forall (λ y, vote_le y best = true) (x :: l).
Proof.
  assert (∀ a b c, vote_le a b = true → vote_le b c = true → vote_le a c = true) as Htrans.
  { intros a b c. unfold vote_le.
    rewrite !orb_true_iff, !andb_true_iff, !bool_decide_eq_true.
    intros [?|[? ?]] [?|[? ?]]; [left; lia..|]. right. split; [lia|by etrans]. }
  assert (∀ a, vote_le a a = true) as Hrefl.
  { intros a. unfold vote_le. rewrite orb_true_iff, andb_true_iff, !bool_decide_eq_true. auto. }
  assert (∀ a b, vote_le a b = false → vote_le b a = true) as Htotal.
  { intros a b. unfold vote_le. rewrite orb_false_iff, andb_false_iff, !bool_decide_eq_false.
    rewrite orb_true_iff, andb_true_iff, !bool_decide_eq_true. intros [? [?|?]]; [left; lia|].
    destruct (decide (b.2 < a.2)); [by left|]. right. split; [lia|].
    destruct (total String.le a.1 b.1); done. }
  simpl. revert x. induction l as [|y l IH]; intros x; simpl.
  - split; [left|by constructor].
  - destruct (vote_le x y) eqn:Hxy.
    + destruct (IH y) as [Hin [Hy Hall]%Forall_cons]. split; [by right|].
      repeat constructor; [by eapply Htrans|done|done].
    + destruct (IH x) as [Hin [Hx Hall]%Forall_cons]. split.
      * apply elem_of_cons in Hin as [->|Hin]; [left|by do 2 right].
      * repeat constructor; [done| |done]. eapply Htrans; [by apply Htotal|done].
Qed.

(** A selection exists exactly when the members share a protocol. *)
Lemma select_protocol_ok ms :
  (∃ name, select_protocol ms = Ok name) ↔
  ms ≠ ∅ ∧ ∃ name, map_Forall (λ _ m, supports name m = true) ms.
Proof.
  unfold select_protocol. case_decide as He; [split; [by intros [? ?]|by intros [? _]]|].
  destruct (map_choose ms He) as (id0 & m0 & Hm0).
  assert (Forall (λ m, is_Some (preferred_protocol (common_protocols ms) m)) (map_to_list ms).*2 ↔
    ∃ name, map_Forall (λ _ m, supports name m = true) ms) as Hpref.
  { split.
    - intros Hall. rewrite Forall_forall in Hall.
      destruct (proj1 (preferred_is_Some _ _) (Hall m0 ltac:(apply elem_of_values; eauto)))
        as (name & [_ Hc]%common_protocols_spec & _). eauto.
    - intros [name Hc]. apply Forall_forall. intros m (id & Hm)%elem_of_values.
      apply preferred_is_Some. exists name. split; [by apply common_protocols_spec|by eapply Hc]. }
  rewrite <- Hpref, <- (count_votes_ok _ _ ∅). split.
  - destruct (count_votes _ _ _) as [votes|]; [eauto|by intros [? ?]].
  - intros [_ [votes Hv]]. rewrite Hv. destruct (map_to_list votes) as [|v vs] eqn:Hl; [|eauto].
    exfalso. apply map_to_list_empty_iff in Hl as ->.
    assert (∃ votes, count_votes (common_protocols ms) (map_to_list ms).*2 ∅ = Ok votes) as Hok by eauto.
    apply count_votes_ok in Hok. rewrite Forall_forall in Hok.
    destruct (Hok m0 ltac:(apply elem_of_values; eauto)) as [p Hp].
    destruct (count_votes_spec _ _ _ _ Hv (jp_name p)) as [Hval _].
    rewrite !lookup_empty in Hval. simpl in Hval.
    assert (m0 ∈ filter (prefers (common_protocols ms) (jp_name p)) (map_to_list ms).*2) as Hin.
    { apply list_elem_of_filter. split; [unfold prefers; by rewrite Hp|apply elem_of_values; eauto]. }
    unfold votes_for in Hval. destruct (filter _ _) as [|x xs]; [by apply elem_of_nil in Hin|].
    rewrite len_cons in Hval. pose proof (len_nonneg xs). lia.
Qed.

(** The winner: common to all, most first choices, smallest name among equals. *)
Lemma select_protocol_winner ms name :
  select_protocol ms = Ok name →
  let common := common_protocols ms in
  let votes := votes_for common (map_to_list ms).*2 in
  name ∈ common ∧ 0 < votes name ∧
  ∀ other, other ∈ common → votes other < votes name ∨
    votes other = votes name ∧ String.le name other.
Proof.
  unfold select_protocol. case_decide as He; [done|].
  destruct (count_votes _ _ _) as [votes|] eqn:Hv; [|done].
  pose proof (count_votes_spec _ _ _ _ Hv) as Hspec.
  destruct (map_to_list votes) as [|v vs] eqn:Hl; [done|]. intros [= <-].
  destruct (max_by_spec v vs) as [Hin Hmax]. set (best := max_by vote_le v vs) in *.
  rewrite <- Hl in Hin, Hmax. destruct best as [name n] eqn:Hbest.
  apply elem_of_map_to_list in Hin. cbn [fst].
  set (common := common_protocols ms) in *.
  destruct (Hspec name) as [Hval Hdom]. rewrite Hin, lookup_empty in *. simpl in Hval.
  destruct Hdom as [[? ?]|Hpos]; [by eexists|done|].
  assert (name ∈ common) as Hc.
  { unfold votes_for in Hpos.
    destruct (filter _ _) as [|m l] eqn:Hf; [unfold len in Hpos; simpl in Hpos; lia|].
    assert (m ∈ filter (prefers common name) (map_to_list ms).*2) as Hm by (rewrite Hf; left).
    apply list_elem_of_filter in Hm as [Hm _]. by eapply preferred_common. }
  split_and!; [done|done|]. intros other Ho. destruct (Hspec other) as [Hval' _].
  rewrite lookup_empty in Hval'. simpl in Hval'.
  destruct (votes !! other) as [k|] eqn:Hk; simpl in Hval'.
  - rewrite Forall_forall in Hmax. specialize (Hmax (other, k)).
    rewrite elem_of_map_to_list in Hmax. specialize (Hmax Hk). unfold vote_le in Hmax.
    rewrite orb_true_iff, andb_true_iff, !bool_decide_eq_true in Hmax. cbn [fst snd] in Hmax.
    destruct Hmax as [?|[? ?]]; [left; lia|right; split; [lia|done]].
  - left. lia.
Qed.

(** Fewer members still agree. *)
Lemma select_protocol_mono ms ms' :
  ms' ⊆ ms → ms' ≠ ∅ → (∃ name, select_protocol ms = Ok name) → ∃ name, select_protocol ms' = Ok name.
Proof.
  rewrite !select_protocol_ok. intros Hsub Hne [_ (name & Hall)]. split; [done|].
  exists name. intros id m Hm. eapply Hall, lookup_weaken; done.
Qed.

(** ** The invariant of a group *)

(** Bounds of what a member remembers: the epoch it joined, the epoch and the
    generation of its last completed join, the generation it synchronised. *)
Definition member_ok (joined completed generation : Z) (id : string) (m : Member) : Prop :=
  id ≠ "" ∧ joined_epoch m ≤ joined ∧ synced_generation m ≤ generation ∧
  ∀ c, m_completed_join m = Some c →
    cj_rebalance_epoch c ≤ completed ∧ jg_generation_id (cj_result c) ≤ generation ∧
    jg_member_id (cj_result c) = id.

Definition all_synced (g : Group) : Prop :=
  map_Forall (λ _ m, synced_generation m = generation_id g) (members g).

(** All members took part in the current rebalance and hold the same result. *)
Definition agreed (g : Group) : Prop :=
  map_Forall (λ id m, joined_epoch m = rebalance_epoch g ∧
    supports (selected_protocol g) m = true ∧
    m_completed_join m = Some (completed_result g (members_for_leader g) id)) (members g).

(** In a rebalance nobody holds a result of its epoch yet. *)
Definition none_completed (g : Group) : Prop :=
  rebalance_epoch g < u64_max →
  map_Forall (λ _ m, ∀ c, m_completed_join m = Some c → cj_rebalance_epoch c < rebalance_epoch g)
    (members g).

Definition state_ok (g : Group) : Prop :=
  match state g with
  | Empty => members g = ∅ ∧ leader_member_id g = "" ∧ assignments g = ∅ ∧
      rebalance_deadline g = None
  | PreparingRebalance => members g ≠ ∅ ∧ assignments g = ∅ ∧ is_Some (rebalance_deadline g) ∧
      none_completed g
  | CompletingRebalance => members g ≠ ∅ ∧ assignments g = ∅ ∧ is_Some (rebalance_deadline g) ∧
      agreed g
  | Stable => members g ≠ ∅ ∧ dom (assignments g) = dom (members g) ∧
      (rebalance_deadline g = None ↔ all_synced g) ∧ agreed g
  end.

Definition counters_ok (g : Group) : Prop :=
  0 ≤ generation_id g ≤ i32_max ∧ 0 ≤ rebalance_epoch g ≤ u64_max.

(** A non-empty group has a leader among its members and a protocol they share. *)
Definition led (g : Group) : Prop :=
  members g ≠ ∅ →
  is_Some (members g !! leader_member_id g) ∧ ∃ name, select_protocol (members g) = Ok name.

Definition group_wf (g : Group) : Prop :=
  counters_ok g ∧
  map_Forall (member_ok (rebalance_epoch g) (rebalance_epoch g) (generation_id g)) (members g) ∧
  led g ∧ state_ok g.

Lemma Group_new_wf : group_wf Group_new.
Proof.
  unfold group_wf, counters_ok, led, state_ok, i32_max, u64_max. cbn.
  split_and!; try (done || lia); by apply map_Forall_empty.
Qed.

Lemma group_wf_empty g : group_wf g → state g = Empty ↔ members g = ∅.
Proof.
  intros (_ & _ & _ & Hs). unfold state_ok in Hs. destruct (state g); intuition congruence.
Qed.

(** [members_for_leader] only looks at names and protocols. *)
Lemma members_for_leader_eq g g' :
  protocols <$> members g = protocols <$> members g' →
  selected_protocol g = selected_protocol g' →
  members_for_leader g = members_for_leader g'.
Proof.
  intros Hm Hs. unfold members_for_leader. f_equal. rewrite Hs.
  set (h := λ (id : string) (ps : list JoinProtocol),
    p ← List.find (λ p, bool_decide (jp_name p = selected_protocol g')) ps;
    Some (mkJoinedMember id (jp_metadata p))).
  assert (∀ ms : gmap string Member,
    omap (λ '(id, m), h id (protocols m)) (map_to_list ms) =
    omap (λ '(id, ps), h id ps) (map_to_list (protocols <$> ms))) as Heq.
  { intros ms. rewrite map_to_list_fmap. induction (map_to_list ms) as [|[id m] l IH]; [done|].
    cbn. destruct (h id (protocols m)); by rewrite IH. }
  change (omap (λ '(id, m), h id (protocols m)) (map_to_list (members g)) =
    omap (λ '(id, m), h id (protocols m)) (map_to_list (members g'))).
  by rewrite !Heq, Hm.
Qed.

(** ** Updates of members that keep their names, protocols and joins *)

(** [m'] differs from [m] in its heartbeat or synchronisation only. *)
Definition same_join (m m' : Member) : Prop :=
  protocols m' = protocols m ∧ joined_epoch m' = joined_epoch m ∧
  m_completed_join m' = m_completed_join m.

Definition members_touched (gen : Z) (ms ms' : gmap string Member) : Prop :=
  map_Forall2 (λ _ m m', same_join m m' ∧
    (synced_generation m' = synced_generation m ∨ synced_generation m' = gen)) ms ms'.

Lemma map_Forall2_alt {A : Type} (R : string → A → A → Prop) (ms ms' : gmap string A) :
  map_Forall2 R ms ms' ↔
  ∀ id, match ms !! id, ms' !! id with
        | Some m, Some m' => R id m m' | None, None => True | _, _ => False end.
Proof.
  split.
  - intros H id. specialize (H id). by inversion H.
  - intros H id. specialize (H id). destruct (ms !! id), (ms' !! id); done || by constructor.
Qed.

Lemma touched_lookup gen ms ms' id :
  members_touched gen ms ms' →
  match ms !! id, ms' !! id with
  | Some m, Some m' => same_join m m' ∧
      (synced_generation m' = synced_generation m ∨ synced_generation m' = gen)
  | None, None => True
  | _, _ => False
  end.
Proof. intros H. by apply map_Forall2_alt with (id := id) in H. Qed.

Lemma touched_protocols gen ms ms' :
  members_touched gen ms ms' → protocols <$> ms' = protocols <$> ms.
Proof.
  intros Ht. apply map_eq. intros id. rewrite !lookup_fmap.
  pose proof (touched_lookup _ _ _ id Ht) as H.
  destruct (ms !! id), (ms' !! id); simpl; try done. by destruct H as [(-> & _) _].
Qed.

Lemma touched_dom gen ms ms' : members_touched gen ms ms' → dom ms' = dom ms.
Proof.
  intros Ht. apply set_eq. intros id. rewrite !elem_of_dom.
  pose proof (touched_lookup _ _ _ id Ht) as H. unfold is_Some.
  destruct (ms !! id), (ms' !! id); try done; naive_solver.
Qed.

Lemma supports_protocols name m m' : protocols m' = protocols m → supports name m' = supports name m.
Proof. unfold supports. by intros ->. Qed.

Lemma touched_empty gen ms ms' : members_touched gen ms ms' → ms' = ∅ ↔ ms = ∅.
Proof. intros Ht%touched_dom. by rewrite <- !dom_empty_iff_L, Ht. Qed.

Lemma touched_select gen ms ms' :
  members_touched gen ms ms' →
  (∃ name, select_protocol ms = Ok name) → ∃ name, select_protocol ms' = Ok name.
Proof.
  intros Ht. rewrite !select_protocol_ok. intros [Hne (name & Hall)]. split.
  - by rewrite (touched_empty _ _ _ Ht).
  - exists name. intros id m' Hm'. pose proof (touched_lookup _ _ _ id Ht) as H.
    rewrite Hm' in H. destruct (ms !! id) as [m|] eqn:Hm; [|done]. destruct H as [(Hp & _) _].
    rewrite (supports_protocols _ _ _ Hp). by eapply Hall.
Qed.

Lemma touched_member_ok j c gen ms ms' :
  members_touched gen ms ms' → map_Forall (member_ok j c gen) ms → map_Forall (member_ok j c gen) ms'.
Proof.
  intros Ht Hall id m' Hm'. pose proof (touched_lookup _ _ _ id Ht) as H.
  rewrite Hm' in H. destruct (ms !! id) as [m|] eqn:Hm; [|done].
  destruct H as [(_ & Hj & Hc) Hsync]. destruct (Hall _ _ Hm) as (? & ? & ? & ?).
  unfold member_ok. rewrite Hj, Hc. split_and!; auto. destruct Hsync as [->| ->]; lia.
Qed.

Lemma touched_agreed g ms' :
  members_touched (generation_id g) (members g) ms' → agreed g → agreed (with_members g ms').
Proof.
  intros Ht Hag id m' Hm'. cbn [with_members members] in Hm'.
  pose proof (touched_lookup _ _ _ id Ht) as H. rewrite Hm' in H.
  destruct (members g !! id) as [m|] eqn:Hm; [|done]. destruct H as [(Hp & Hj & Hc) _].
  destruct (Hag _ _ Hm) as (? & ? & Hcj). cbn. rewrite Hj, (supports_protocols _ _ _ Hp), Hc, Hcj.
  split_and!; [done..|]. do 2 f_equal. apply members_for_leader_eq; [|done].
  cbn. symmetry. by eapply touched_protocols.
Qed.

Lemma wf_touch g ms' :
  group_wf g → members_touched (generation_id g) (members g) ms' →
  (state g = Stable → rebalance_deadline g = None ↔ all_synced (with_members g ms')) →
  group_wf (with_members g ms').
Proof.
  intros (Hc & Hm & Hl & Hs) Ht Hst. split_and!; [done|by eapply touched_member_ok| |].
  - intros Hne. cbn [with_members members leader_member_id] in *.
    rewrite (touched_empty _ _ _ Ht) in Hne. destruct (Hl Hne) as [Hlead Hsel].
    split; [|by eapply touched_select].
    rewrite <- elem_of_dom, (touched_dom _ _ _ Ht). by apply elem_of_dom.
  - pose proof (touched_empty _ _ _ Ht) as He. pose proof (touched_dom _ _ _ Ht) as Hd.
    unfold state_ok in *. cbn [with_members state members assignments rebalance_deadline
      leader_member_id].
    destruct (state g) eqn:Hstate.
    + rewrite He. done.
    + destruct Hs as (? & ? & ? & Hnone). rewrite He. split_and!; auto.
      intros Hlt id m' Hm'. pose proof (touched_lookup _ _ _ id Ht) as Hid.
      cbn in Hm'. rewrite Hm' in Hid. destruct (members g !! id) as [m|] eqn:Hmm; [|done].
      destruct Hid as [(_ & _ & ->) _]. by eapply Hnone.
    + destruct Hs as (? & ? & ? & ?). rewrite He. split_and!; auto. by apply touched_agreed.
    + destruct Hs as (? & ? & ? & ?). rewrite He, Hd. split_and!; auto; [by apply Hst..|].
      by apply touched_agreed.
Qed.

Lemma insert_touched gen (ms : gmap string Member) id m m' :
  ms !! id = Some m → same_join m m' →
  (synced_generation m' = synced_generation m ∨ synced_generation m' = gen) →
  members_touched gen ms (<[id := m']> ms).
Proof.
  intros Hm Hj Hs. apply map_Forall2_alt. intros k.
  destruct (decide (k = id)) as [->|Hne].
  - by rewrite Hm, lookup_insert_eq.
  - rewrite lookup_insert_ne by done. destruct (ms !! k); [|done]. split; [done|by left].
Qed.

(** Refreshing a heartbeat. *)
Lemma heartbeat_wf g id m now :
  group_wf g → members g !! id = Some m →
  group_wf (with_members g (<[id := set_heartbeat now m]> (members g))).
Proof.
  intros Hwf Hm. apply wf_touch; [done|eapply insert_touched; [done|done|by left]|].
  intros Hst. destruct Hwf as (_ & _ & _ & Hs). unfold state_ok in Hs. rewrite Hst in Hs.
  destruct Hs as (_ & _ & -> & _). unfold all_synced. cbn. split.
  - intros Hall. apply map_Forall_insert_2; [exact (Hall id m Hm)|done].
  - intros Hall k mk Hk. destruct (decide (k = id)) as [->|Hne].
    + rewrite Hm in Hk. injection Hk as <-.
      by apply (Hall id (set_heartbeat now m)), lookup_insert_eq.
    + apply (Hall k). by rewrite lookup_insert_ne.
Qed.

(** ** Rebalances *)

Lemma saturating_add_bounds limit z : 0 ≤ z ≤ limit →
  z ≤ saturating_add limit z 1 ≤ limit ∧
  (saturating_add limit z 1 < limit → saturating_add limit z 1 = z + 1).
Proof. unfold saturating_add. lia. Qed.

Lemma begin_rebalance_wf now g :
  counters_ok g → members g ≠ ∅ → led g →
  map_Forall (member_ok (saturating_add u64_max (rebalance_epoch g) 1) (rebalance_epoch g)
    (generation_id g)) (members g) →
  group_wf (begin_rebalance now g).
Proof.
  intros [Hg He] Hne Hl Hm. destruct (saturating_add_bounds u64_max _ He) as [Hb Hs].
  unfold group_wf, counters_ok, led, state_ok. cbn. split_and!; try (done || lia).
  - intros id m Hid. destruct (Hm _ _ Hid) as (? & ? & ? & Hc).
    unfold member_ok. cbn. split_and!; auto. intros c Hcj.
    destruct (Hc c Hcj) as (? & ? & ?). split_and!; auto. lia.
  - intros Hlt id m Hid c Hcj. cbn in *.
    destruct (Hm _ _ Hid) as (_ & _ & _ & Hc). destruct (Hc c Hcj) as (Hle & _). lia.
Qed.

Lemma ready_spec g :
  ready_to_complete g = true ↔
  state g = PreparingRebalance ∧ members g ≠ ∅ ∧
  map_Forall (λ _ m, joined_epoch m = rebalance_epoch g) (members g).
Proof.
  unfold ready_to_complete. rewrite !andb_true_iff, negb_true_iff, bool_decide_eq_true,
    bool_decide_eq_false, forallb_values.
  unfold map_Forall. setoid_rewrite bool_decide_eq_true. tauto.
Qed.

(** A complete rebalance leaves every member with the same result; a protocol
    is always found. *)
Lemma complete_rebalance_wf now g :
  group_wf g → group_wf (complete_rebalance_if_ready now g).2 ∧
    ∃ b, (complete_rebalance_if_ready now g).1 = Ok b.
Proof.
  intros Hwf. unfold complete_rebalance_if_ready.
  destruct (ready_to_complete g) eqn:Hr; cbn [negb]; [|split; [done|by eexists]].
  apply ready_spec in Hr as (Hst & Hne & Hj). destruct Hwf as ([Hgb Heb] & Hm & Hl & Hs).
  destruct (Hl Hne) as [Hlead [name Hsel]]. rewrite Hsel. cbn [fst snd].
  split; [|by eexists]. destruct (saturating_add_bounds i32_max _ Hgb) as [Hb _].
  set (g1 := with_deadline _ _). set (f := λ id m, Some (set_completed _ m)).
  assert (∀ id, map_imap f (members g) !! id
    = (λ m, set_completed (completed_result g1 (members_for_leader g1) id) m) <$> members g !! id)
    as Hlook.
  { intros id. rewrite map_lookup_imap. by destruct (members g !! id). }
  assert (protocols <$> map_imap f (members g) = protocols <$> members g) as Hprot.
  { apply map_eq. intros id. rewrite !lookup_fmap, Hlook. by destruct (members g !! id). }
  assert (∃ name, select_protocol (map_imap f (members g)) = Ok name) as Hsel'.
  { apply select_protocol_ok. destruct (proj1 (select_protocol_ok (members g))) as [_ (n & Hall)];
      [by eexists|]. split.
    - intros Hempty. destruct Hlead as [m Hlm]. specialize (Hlook (leader_member_id g)).
      rewrite Hempty, lookup_empty, Hlm in Hlook. done.
    - exists n. intros id m Hid. rewrite Hlook in Hid.
      destruct (members g !! id) as [m0|] eqn:Hm0; [|done]. injection Hid as <-.
      by apply (Hall _ _ Hm0). }
  assert (map_imap f (members g) ≠ ∅) as Hne'.
  { by apply select_protocol_ok in Hsel' as [? _]. }
  unfold group_wf, counters_ok, led, state_ok. cbn. split_and!; try (done || lia).
  - intros id m Hid. rewrite Hlook in Hid.
    destruct (members g !! id) as [m0|] eqn:Hm0; [|done]. injection Hid as <-.
    destruct (Hm _ _ Hm0) as (? & ? & ? & _). unfold member_ok. cbn. split_and!; auto; [lia|].
    intros c [= <-]. cbn. split_and!; [done|lia|done].
  - intros _. split; [|done]. rewrite Hlook. destruct Hlead as [m ->]. by eexists.
  - intros id m Hid. cbn in Hid. rewrite Hlook in Hid.
    destruct (members g !! id) as [m0|] eqn:Hm0; [|done]. injection Hid as <-.
    cbn. split_and!; [by apply (Hj _ _ Hm0)| |].
    + apply select_protocol_winner in Hsel as (Hc & _).
      apply common_protocols_spec in Hc as [_ Hc]. by apply (Hc _ _ Hm0).
    + do 2 f_equal. by apply members_for_leader_eq.
Qed.

(** ** Removing members *)

Lemma min_key_in ms : ms ≠ ∅ → ∃ k, min_key ms = Some k ∧ is_Some (ms !! k).
Proof.
  intros Hne. unfold min_key.
  assert (∀ k, k ∈ (map_to_list ms).*1 → is_Some (ms !! k)) as Hin.
  { intros k ([k' m] & -> & Hkm)%list_elem_of_fmap. apply elem_of_map_to_list in Hkm. by eexists. }
  destruct (map_to_list ms).*1 as [|k ks] eqn:Hl.
  { destruct (map_choose ms Hne) as (id & m & Hm).
    assert (id ∈ (map_to_list ms).*1) as Hk.
    { apply list_elem_of_fmap. exists (id, m). split; [done|]. by apply elem_of_map_to_list. }
    rewrite Hl in Hk. by apply elem_of_nil in Hk. }
  eexists. split; [done|]. apply Hin. clear. revert k.
  induction ks as [|x ks IH]; intros k; simpl; [left|].
  specialize (IH (if decide (String.le k x) then k else x)). case_decide; set_solver.
Qed.

(** What removing members leaves of a well-formed group. *)
Definition removal_ok (g : Group) : Prop :=
  counters_ok g ∧
  map_Forall (member_ok (rebalance_epoch g) (rebalance_epoch g) (generation_id g)) (members g) ∧
  (members g ≠ ∅ → ∃ name, select_protocol (members g) = Ok name) ∧
  (state g = PreparingRebalance → is_Some (rebalance_deadline g) ∧ none_completed g).

Lemma transition_wf now g : removal_ok g → group_wf (transition_after_removal now g).
Proof.
  intros ([Hg He] & Hm & Hsel & Hp). unfold transition_after_removal. case_decide as Hne.
  { unfold group_wf, counters_ok, led, state_ok. cbn. rewrite Hne.
    split_and!; try (done || lia); by apply map_Forall_empty. }
  set (g1 := if decide (is_Some _) then g else _).
  assert (members g1 = members g ∧ state g1 = state g ∧ rebalance_epoch g1 = rebalance_epoch g ∧
    generation_id g1 = generation_id g ∧ rebalance_deadline g1 = rebalance_deadline g)
    as (Hm1 & Hs1 & He1 & Hg1 & Hd1) by (unfold g1; case_decide; done).
  assert (led g1) as Hled.
  { intros _. rewrite Hm1. split; [|by apply Hsel]. unfold g1. case_decide; [done|].
    cbn. by destruct (min_key_in _ Hne) as (k & -> & ?). }
  case_decide as Hst.
  - apply begin_rebalance_wf; [unfold counters_ok; lia|by rewrite Hm1|done|].
    rewrite Hm1, He1, Hg1. intros id m Hid. destruct (Hm _ _ Hid) as (? & ? & ? & ?).
    unfold member_ok. split_and!; auto.
    destruct (saturating_add_bounds u64_max (rebalance_epoch g) He). lia.
  - rewrite Hs1 in Hst. destruct (Hp Hst) as [Hd Hnone].
    unfold group_wf, counters_ok, state_ok. cbn. rewrite Hm1, Hs1, He1, Hg1, Hd1, Hst.
    split_and!; try (done || lia). 
    unfold none_completed. cbn. by rewrite Hm1, He1.
Qed.

Lemma removal_ok_sub g ms a :
  group_wf g → ms ⊆ members g → removal_ok (with_assignments (with_members g ms) a).
Proof.
  intros (Hc & Hm & Hl & Hs) Hsub. split_and!; [done|..]; cbn.
  - intros id m Hid. eapply Hm, lookup_weaken; done.
  - intros Hne. eapply select_protocol_mono; [done..|].
    apply Hl. intros Heq. rewrite Heq in Hsub. apply Hne.
    apply map_empty. intros id. destruct (ms !! id) as [m|] eqn:Hid; [|done].
    by apply (lookup_weaken _ _ _ _ Hid) in Hsub; rewrite lookup_empty in Hsub.
  - intros Hst. unfold state_ok in Hs. rewrite Hst in Hs. destruct Hs as (_ & _ & Hd & Hnone).
    split; [done|]. intros Hlt id m Hid. eapply Hnone; [done|]. by eapply lookup_weaken.
Qed.

Lemma expire_wf now now' active g : group_wf g → group_wf (expire_stale_members now now' active g).
Proof.
  intros Hwf. unfold expire_stale_members. case_decide; [done|].
  apply transition_wf, removal_ok_sub; [done|]. by apply map_subseteq_difference_l.
Qed.

Lemma list_to_set_size_le (l : list string) : (size (list_to_set l : gset string) ≤ length l)%nat.
Proof.
  induction l as [|x l IH]; [done|]. rewrite list_to_set_cons. cbn [length].
  rewrite size_union_alt, size_singleton.
  assert (size (list_to_set l ∖ {[x]} : gset string) ≤ size (list_to_set l : gset string))%nat
    by (apply subseteq_size; set_solver). lia.
Qed.

(** ** Joining *)

(** What the protocol layer guarantees of a join request after the first checks. *)
Definition request_ok (request : JoinRequest) : Prop :=
  jr_member_id request ≠ "" ∧ jr_protocols request ≠ [] ∧ jr_protocol_type request ≠ "".

Lemma preparing_protocol_type_wf g t :
  state g = PreparingRebalance → group_wf g → group_wf (with_protocol_type g t).
Proof. unfold group_wf, state_ok, led, none_completed. cbn. by intros ->. Qed.

Lemma leader_named g :
  group_wf g → members g ≠ ∅ → leader_member_id g ≠ "".
Proof.
  intros (_ & Hm & Hl & _) Hne Heq. destruct (Hl Hne) as [[m Hlm] _]. rewrite Heq in Hlm.
  by destruct (Hm _ _ Hlm).
Qed.

Lemma joining_member_ok g now target request :
  group_wf g → request_ok request → rebalance_epoch g ≤ target →
  map_Forall (member_ok target (rebalance_epoch g) (generation_id g))
    (<[jr_member_id request := joining_member g now target request]> (members g)).
Proof.
  intros ((Hg & _) & Hm & _) (Hid & _) Ht. apply map_Forall_insert_2.
  - unfold member_ok, joining_member. cbn.
    destruct (members g !! jr_member_id request) as [m|] eqn:Hm0; cbn.
    + destruct (Hm _ _ Hm0) as (_ & _ & ? & ?). split_and!; auto. lia.
    + split_and!; auto; lia || done.
  - intros id m Hi. destruct (Hm _ _ Hi) as (? & ? & ? & ?). split_and!; auto. lia.
Qed.

Lemma insert_not_empty (ms : gmap string Member) id m : <[id := m]> ms ≠ ∅.
Proof. apply insert_non_empty. Qed.

Lemma select_protocol_err ms e : select_protocol ms = Err e → e = InconsistentGroupProtocol.
Proof.
  unfold select_protocol. case_decide; [by intros [= <-]|].
  destruct (count_votes _ _ _) as [votes|e'] eqn:Hv.
  - destruct (map_to_list votes); [by intros [= <-]|done].
  - intros [= <-]. revert Hv. generalize (∅ : gmap string Z).
    induction (map_to_list ms).*2 as [|m l IH]; intros acc; cbn; [done|].
    destruct (preferred_protocol _ m); [apply IH|by intros [= <-]].
Qed.

(** The group once the member is in: in a running rebalance. *)
Definition joined_running (g : Group) (d : Z) (now : Z) (request : JoinRequest) : Group :=
  with_protocol_type (with_deadline (with_members g
    (<[jr_member_id request := joining_member g now (rebalance_epoch g) request]> (members g)))
    (Some d)) (jr_protocol_type request).

Lemma joined_running_wf g d now request name :
  group_wf g → request_ok request → state g = PreparingRebalance →
  select_protocol (<[jr_member_id request := joining_member g now (rebalance_epoch g) request]>
    (members g)) = Ok name →
  group_wf (joined_running g d now request).
Proof.
  intros Hwf Hreq Hst Hsel. pose proof Hwf as (Hc & Hm & Hl & Hs).
  unfold state_ok in Hs. rewrite Hst in Hs. destruct Hs as (Hmne & Ha & _ & Hnone).
  unfold group_wf, led, state_ok. cbn. rewrite Hst. split_and!; try done.
  - by apply joining_member_ok.
  - intros _. split; [|by eexists]. destruct (Hl Hmne) as [Hlm _].
    rewrite <- elem_of_dom in *. rewrite dom_insert. set_solver.
  - apply insert_not_empty.
  - intros Hlt. cbn. apply map_Forall_insert_2; [|by apply Hnone].
    unfold joining_member. cbn. intros c.
    destruct (members g !! jr_member_id request) as [m|] eqn:Hm0; cbn; [|done].
    by apply (Hnone Hlt _ _ Hm0).
Qed.

(** ... or in the rebalance the join starts. *)
Definition joined_starting (g : Group) (now start : Z) (request : JoinRequest) : Group :=
  let target := saturating_add u64_max (rebalance_epoch g) 1 in
  with_protocol_type (begin_rebalance start (with_leader (with_members g
    (<[jr_member_id request := joining_member g now target request]> (members g)))
    (if decide (leader_member_id g = "") then jr_member_id request else leader_member_id g)))
    (jr_protocol_type request).

Lemma joined_starting_wf g now start request name :
  group_wf g → request_ok request → state g ≠ PreparingRebalance →
  select_protocol (<[jr_member_id request :=
    joining_member g now (saturating_add u64_max (rebalance_epoch g) 1) request]> (members g))
    = Ok name →
  group_wf (joined_starting g now start request).
Proof.
  intros Hwf Hreq Hst Hsel. pose proof Hwf as (Hc & Hm & Hl & Hs). pose proof Hc as [Hg He].
  destruct (saturating_add_bounds u64_max _ He) as [Hb _].
  apply preparing_protocol_type_wf; [done|].
  apply begin_rebalance_wf; cbn; [done|apply insert_not_empty| |].
  - intros _. cbn. split; [|by eexists]. case_decide as Hlead.
    { rewrite lookup_insert_eq. by eexists. }
    assert (members g ≠ ∅) as Hmne.
    { intros Hme. apply (group_wf_empty _ Hwf) in Hme. unfold state_ok in Hs.
      rewrite Hme in Hs. tauto. }
    destruct (Hl Hmne) as [Hlm _]. rewrite <- elem_of_dom in *. rewrite dom_insert. set_solver.
  - apply joining_member_ok; [done|done|lia].
Qed.

(** The outcomes of a join that passed the checks: no shared protocol, and the
    group is as before; or the member is in a rebalance, which completes if
    everybody has joined. *)
Lemma join_member_cases clk g request may_add :
  group_wf g → request_ok request →
  join_member clk g request may_add = (JoinReturned (Err InconsistentGroupProtocol), g) ∨
  ∃ g' m, group_wf g' ∧ state g' = PreparingRebalance ∧
    members g' !! jr_member_id request = Some m ∧ joined_epoch m = rebalance_epoch g' ∧
    rebalance_epoch g' = (if decide (state g = PreparingRebalance) then rebalance_epoch g
                          else saturating_add u64_max (rebalance_epoch g) 1) ∧
    generation_id g' = generation_id g ∧ committed_offsets g' = committed_offsets g ∧
    join_member clk g request may_add =
      (JoinWaiting (rebalance_epoch g'), (complete_rebalance_if_ready (clk 3%nat) g').2).
Proof.
  intros Hwf Hreq. unfold join_member.
  destruct (decide (state g = PreparingRebalance)) as [Hst|Hst].
  - rewrite bool_decide_true by done. cbn [negb].
    destruct (select_protocol _) as [name|e] eqn:Hsel;
      [|left; by rewrite (select_protocol_err _ _ Hsel)].
    right. pose proof Hwf as (_ & _ & _ & Hs). unfold state_ok in Hs. rewrite Hst in Hs.
    destruct Hs as (Hmne & _ & [d Hd] & _).
    set (ms := <[_ := _]> (members g)) in *.
    assert (∃ d', (if may_add then extend_rebalance_deadline (clk 0%nat) (with_members g ms)
      else with_members g ms) = with_deadline (with_members g ms) (Some d')) as [d' ->].
    { unfold extend_rebalance_deadline. cbn. rewrite Hd.
      destruct may_add; [case_decide|]; eexists; try reflexivity; by rewrite <- Hd. }
    change (leader_member_id (with_protocol_type _ _)) with (leader_member_id g).
    rewrite decide_False by (by apply leader_named).
    pose proof (joined_running_wf g d' (clk 0%nat) request name Hwf Hreq Hst Hsel) as Hwf'.
    fold ms. change (with_protocol_type _ _) with (joined_running g d' (clk 0%nat) request).
    destruct (complete_rebalance_wf (clk 3%nat) _ Hwf') as [_ [b Hb]].
    eexists _, _. split_and!; [exact Hwf'|done|apply lookup_insert_eq|done..|].
    destruct (complete_rebalance_if_ready _ _) as [r g'']. cbn in Hb. by subst r.
  - rewrite bool_decide_false by done. cbn [negb].
    destruct (select_protocol _) as [name|e] eqn:Hsel;
      [|left; by rewrite (select_protocol_err _ _ Hsel)].
    right. pose proof (joined_starting_wf g (clk 0%nat) (clk 2%nat) request name Hwf Hreq Hst Hsel)
      as Hwf'.
    set (ms := <[_ := _]> (members g)) in *.
    assert ((if decide (leader_member_id (with_protocol_type (begin_rebalance (clk 2%nat)
        (with_members g ms)) (jr_protocol_type request)) = "")
      then with_leader (with_protocol_type (begin_rebalance (clk 2%nat) (with_members g ms))
        (jr_protocol_type request)) (jr_member_id request)
      else with_protocol_type (begin_rebalance (clk 2%nat) (with_members g ms))
        (jr_protocol_type request)) = joined_starting g (clk 0%nat) (clk 2%nat) request) as ->.
    { unfold joined_starting. fold ms. cbn. case_decide; done. }
    destruct (complete_rebalance_wf (clk 3%nat) _ Hwf') as [_ [b Hb]].
    eexists _, _. split_and!; [exact Hwf'|done|apply lookup_insert_eq|done..|].
    destruct (complete_rebalance_if_ready _ _) as [r g'']. cbn in Hb. by subst r.
Qed.

Lemma complete_wf now g : group_wf g → group_wf (complete_rebalance_if_ready now g).2.
Proof. intros Hwf. by apply (complete_rebalance_wf now g). Qed.

Lemma complete_ok now g :
  group_wf g → ∃ b, complete_rebalance_if_ready now g =
    (Ok b, (complete_rebalance_if_ready now g).2).
Proof.
  intros Hwf. destruct (complete_rebalance_wf now g Hwf) as [_ [b Hb]]. exists b.
  destruct (complete_rebalance_if_ready now g). simpl in *. by subst.
Qed.

(** The critical section of a join neither panics nor breaks the group. *)
Lemma join_enter_wf clk g request may_add :
  group_wf g → request_ok request →
  ∃ r g', join_enter clk g request may_add = Some (r, g') ∧ group_wf g'.
Proof.
  intros Hwf Hreq. unfold join_enter.
  pose proof (expire_wf (clk 0%nat) (clk 1%nat) None g Hwf) as Hwf1.
  set (g1 := expire_stale_members _ _ _ _) in *.
  destruct (negb may_add && _); [by eauto|].
  destruct (negb (bool_decide (members g1 = ∅)) && _); [by eauto|].
  destruct (cached_join g1 _ request) as [joined|] eqn:Hcached.
  - unfold cached_join in Hcached. unfold with_member.
    destruct (members g1 !! jr_member_id request) as [m|] eqn:Hm; [|done].
    cbn [panic_bind]. eexists _, _. split; [reflexivity|]. by apply heartbeat_wf.
  - destruct (join_member_cases clk g1 request may_add Hwf1 Hreq)
      as [->|(g' & m & Hwf' & _ & _ & _ & _ & _ & _ & ->)]; eexists _, _; (split; [reflexivity|]);
      [done|by apply complete_wf].
Qed.

Lemma join_poll_wf clk g id target : group_wf g → group_wf (join_poll clk g id target).2.
Proof.
  intros Hwf. unfold join_poll. destruct (completed_join g id target); [done|].
  case_decide; [done|]. case_decide; [done|].
  pose proof (expire_wf (clk 0%nat) (clk 1%nat) (Some id) g Hwf) as Hwf1.
  set (g1 := expire_stale_members _ _ _ _) in *.
  destruct (complete_ok (clk 2%nat) g1 Hwf1) as [b ->].
  pose proof (complete_wf (clk 2%nat) g1 Hwf1). by destruct (completed_join _ _ _).
Qed.

(** ** Synchronising *)

Lemma all_synced_forallb g :
  forallb (λ m, bool_decide (synced_generation m = generation_id g)) (map_to_list (members g)).*2
    = true ↔ all_synced g.
Proof. rewrite forallb_values. unfold all_synced, map_Forall. by setoid_rewrite bool_decide_eq_true. Qed.

Lemma clear_deadline_spec g :
  clear_rebalance_deadline_if_all_synced g = with_deadline g None ∧ all_synced g ∨
  clear_rebalance_deadline_if_all_synced g = g ∧ ¬ all_synced g.
Proof.
  unfold clear_rebalance_deadline_if_all_synced. pose proof (all_synced_forallb g) as Hs.
  destruct (forallb _ _); [left|right]; split; try done; [by apply Hs|].
  intros Ha. by apply Hs in Ha.
Qed.

(** A well-formed group but for the deadline, which [clear_...] repairs. *)
Lemma clear_deadline_wf g :
  counters_ok g →
  map_Forall (member_ok (rebalance_epoch g) (rebalance_epoch g) (generation_id g)) (members g) →
  led g → state g = Stable → members g ≠ ∅ → dom (assignments g) = dom (members g) →
  agreed g → (is_Some (rebalance_deadline g) ∨ all_synced g) →
  group_wf (notify_waiters (clear_rebalance_deadline_if_all_synced g)).
Proof.
  intros Hc Hm Hl Hst Hne Hd Hag Hdead.
  destruct (clear_deadline_spec g) as [[-> Hs]|[-> Hs]].
  - unfold group_wf, led, state_ok. cbn. rewrite Hst. split_and!; done.
  - unfold group_wf, led, state_ok. cbn. rewrite Hst. split_and!; try done.
    destruct Hdead as [[d Hd']|?]; [|done]. rewrite Hd'. split; [done|]. by intros ?%Hs.
Qed.

Lemma set_synced_touched g id m gen :
  members g !! id = Some m → gen = generation_id g →
  members_touched (generation_id g) (members g) (<[id := set_synced gen m]> (members g)).
Proof. intros Hm ->. eapply insert_touched; [done|done|by right]. Qed.

(** A member synchronising in a stable group. *)
Lemma sync_stable_wf g id m :
  group_wf g → state g = Stable → members g !! id = Some m →
  group_wf (notify_waiters (clear_rebalance_deadline_if_all_synced
    (with_members g (<[id := set_synced (generation_id g) m]> (members g))))).
Proof.
  intros Hwf Hst Hm. pose proof (set_synced_touched g id m _ Hm eq_refl) as Ht.
  destruct Hwf as (Hc & Hok & Hl & Hs). unfold state_ok in Hs. rewrite Hst in Hs.
  destruct Hs as (Hne & Hd & Hdead & Hag).
  apply clear_deadline_wf; cbn; try done.
  - by eapply touched_member_ok.
  - intros _. destruct (Hl Hne) as [Hlm Hsel]. cbn. split; [|by eapply touched_select].
    rewrite <- elem_of_dom in *. by rewrite (touched_dom _ _ _ Ht).
  - by rewrite (touched_empty _ _ _ Ht).
  - by rewrite (touched_dom _ _ _ Ht).
  - by apply touched_agreed.
  - destruct (rebalance_deadline g) as [d|]; [left; by eexists|right].
    apply map_Forall_insert_2; [done|by apply Hdead].
Qed.

(** Which assignments the leader may give: one for each member. *)
Lemma assignment_covers_spec g given :
  assignment_covers g given = true ↔
  NoDup (sa_member_id <$> given) ∧ list_to_set (sa_member_id <$> given) = dom (members g).
Proof.
  unfold assignment_covers. set (ids := sa_member_id <$> given).
  rewrite !andb_true_iff, !bool_decide_eq_true, forallb_forall.
  setoid_rewrite bool_decide_eq_true. setoid_rewrite <- list_elem_of_In.
  assert (length ids = length given) as <- by (unfold ids; by rewrite length_fmap).
  assert (∀ id, id ∈ (map_to_list (members g)).*1 ↔ id ∈ dom (members g)) as Hkeys.
  { intros id. rewrite elem_of_dom, list_elem_of_fmap. split.
    - intros ([k m] & -> & Hin). apply elem_of_map_to_list in Hin. by eexists.
    - intros [m Hm]. exists (id, m). split; [done|]. by apply elem_of_map_to_list. }
  setoid_rewrite Hkeys. rewrite <- size_dom. split.
  - intros [[Hlen Hsize] Hsub].
    assert (list_to_set ids = dom (members g)) as Heq.
    { symmetry. apply set_subseteq_size_eq; [set_solver|lia]. }
    split; [|done]. clear -Hlen. induction ids as [|x ids IH]; [constructor|].
    rewrite list_to_set_cons in Hlen. cbn [length] in Hlen. destruct (decide (x ∈ ids)) as [Hx|Hx].
    + exfalso. rewrite subseteq_union_1_L in Hlen by set_solver.
      pose proof (list_to_set_size_le ids). lia.
    + apply NoDup_cons. split; [done|]. apply IH.
      rewrite size_union, size_singleton in Hlen by set_solver. lia.
  - intros [Hnd Heq]. split; [split|].
    + by apply size_list_to_set.
    + by rewrite Heq.
    + by rewrite Heq.
Qed.

Definition collect_into (given : list SyncAssignment) (acc : gmap string (list byte)) :
    gmap string (list byte) :=
  fold_left (λ acc a, <[sa_member_id a := sa_assignment a]> acc) given acc.

Lemma collect_dom given acc :
  dom (collect_into given acc) = dom acc ∪ list_to_set (sa_member_id <$> given).
Proof.
  revert acc. induction given as [|a given IH]; intros acc; [set_solver|].
  cbn [collect_into fold_left fmap list_fmap]. fold (collect_into given (<[sa_member_id a := sa_assignment a]> acc)).
  rewrite IH, dom_insert_L, list_to_set_cons. set_solver.
Qed.

Lemma collect_lookup given acc a :
  NoDup (sa_member_id <$> given) → a ∈ given →
  collect_into given acc !! sa_member_id a = Some (sa_assignment a).
Proof.
  revert acc. induction given as [|b given IH]; intros acc Hnd Hin; [by apply elem_of_nil in Hin|].
  cbn [fmap list_fmap] in Hnd. apply NoDup_cons in Hnd as [Hb Hnd].
  cbn [collect_into fold_left]. fold (collect_into given (<[sa_member_id b := sa_assignment b]> acc)).
  apply elem_of_cons in Hin as [->|Hin]; [|by apply IH].
  assert (∀ acc, collect_into given acc !! sa_member_id b = acc !! sa_member_id b) as ->.
  { clear -Hb. induction given as [|c given IH]; intros acc; [done|].
    cbn [fmap list_fmap] in Hb. apply not_elem_of_cons in Hb as [Hne Hb].
    cbn [collect_into fold_left]. fold (collect_into given (<[sa_member_id c := sa_assignment c]> acc)).
    rewrite IH by done. by rewrite lookup_insert_ne. }
  apply lookup_insert_eq.
Qed.

(** The leader's assignment makes the group stable. *)
Lemma sync_leader_spec now g id given :
  group_wf g → state g = CompletingRebalance → is_Some (members g !! id) →
  if assignment_covers g given then
    ∃ g', sync_leader now (generation_id g) g id given =
        Some (ok_or (collect_assignments given !! id) RebalanceInProgress, g') ∧
      group_wf g' ∧ state g' = Stable ∧ assignments g' = collect_assignments given ∧
      generation_id g' = generation_id g ∧ rebalance_epoch g' = rebalance_epoch g ∧
      committed_offsets g' = committed_offsets g ∧ (change g < change g')%nat
  else sync_leader now (generation_id g) g id given = Some (Err InvalidAssignment, g).
Proof.
  intros Hwf Hst [m Hm]. unfold sync_leader.
  destruct (assignment_covers g given) eqn:Hcov; cbn [negb]; [|done].
  apply assignment_covers_spec in Hcov as [Hnd Hcov].
  unfold with_member. rewrite Hm. cbn [panic_bind].
  set (ms := <[id := _]> (members g)).
  set (beat := λ m', if decide _ then _ else m').
  assert (members_touched (generation_id g) (members g) (beat <$> ms)) as Ht.
  { apply map_Forall2_alt. intros k. rewrite lookup_fmap. unfold ms, beat.
    destruct (decide (k = id)) as [->|Hne].
    - rewrite Hm, lookup_insert_eq. cbn. case_decide; (split; [done|by right]).
    - rewrite lookup_insert_ne by done. destruct (members g !! k); [|done]. cbn.
      case_decide; (split; [done|by left]). }
  destruct Hwf as (Hc & Hok & Hl & Hs). unfold state_ok in Hs. rewrite Hst in Hs.
  destruct Hs as (Hne & _ & Hd & Hag).
  set (g1 := with_state _ Stable).
  assert (group_wf (notify_waiters (clear_rebalance_deadline_if_all_synced g1))) as Hwf1.
  { apply clear_deadline_wf; cbn; try done.
    - by eapply touched_member_ok.
    - intros _. destruct (Hl Hne) as [Hlm Hsel]. cbn. split; [|by eapply touched_select].
      rewrite <- elem_of_dom in *. by rewrite (touched_dom _ _ _ Ht).
    - by rewrite (touched_empty _ _ _ Ht).
    - rewrite (touched_dom _ _ _ Ht), <- Hcov.
      change (collect_assignments given) with (collect_into given ∅).
      rewrite collect_dom. set_solver.
    - exact (touched_agreed g _ Ht Hag).
    - by left. }
  eexists. split; [|split; [exact Hwf1|]].
  - destruct (clear_deadline_spec g1) as [[-> _]|[-> _]]; done.
  - destruct (clear_deadline_spec g1) as [[-> _]|[-> _]]; cbn; split_and!; done || lia.
Qed.

Lemma validate_ok g generation id :
  validate_member_and_generation g generation id = Ok () ↔
  is_Some (members g !! id) ∧ generation_id g = generation.
Proof.
  unfold validate_member_and_generation.
  destruct (members g !! id) as [m|].
  - rewrite decide_False by done. case_decide as Hg.
    + split; [done|]. by intros [_ ?].
    + split; [intros _; split; [by eexists|done]|done].
  - rewrite decide_True by done. split; [done|]. by intros [[? ?] _].
Qed.

(** One pass of [sync] neither panics nor breaks the group. *)
Lemma sync_poll_wf clk g generation id given refresh :
  group_wf g →
  ∃ r g', sync_poll clk g generation id given refresh = Some (r, g') ∧ group_wf g'.
Proof.
  intros Hwf. unfold sync_poll. set (active := if refresh then None else Some id).
  pose proof (expire_wf (clk 0%nat) (clk 1%nat) active g Hwf) as Hwf1.
  set (g1 := expire_stale_members _ _ _ _) in *.
  destruct (validate_member_and_generation g1 generation id) as [[]|e] eqn:Hv; [|by eauto].
  apply validate_ok in Hv as [[m Hm] <-].
  assert (∃ g2, (if refresh then with_member g1 id (set_heartbeat (clk 0%nat)) else Some g1) = Some g2
    ∧ group_wf g2 ∧ (∃ m2, members g2 !! id = Some m2) ∧ generation_id g2 = generation_id g1)
    as (g2 & -> & Hwf2 & [m2 Hm2] & Hgen).
  { destruct refresh; [|by eauto 10]. unfold with_member. rewrite Hm. eexists.
    split; [reflexivity|]. split; [by apply heartbeat_wf|]. cbn. rewrite lookup_insert_eq. eauto. }
  cbn [panic_bind]. rewrite <- Hgen. destruct (state g2) eqn:Hst; [by eauto..| |].
  - case_decide.
    + pose proof (sync_leader_spec (clk 0%nat) g2 id (default [] given) Hwf2 Hst
        ltac:(by eexists)) as Hspec.
      destruct (assignment_covers _ _).
      * destruct Hspec as (g' & -> & Hwf' & _). cbn [panic_bind]. by eauto.
      * rewrite Hspec. cbn [panic_bind]. by eauto.
    + unfold with_member. rewrite Hm2. cbn [panic_bind]. eexists _, _. split; [reflexivity|].
      apply wf_touch; [done|by apply set_synced_touched|]. by rewrite Hst.
  - unfold with_member. rewrite Hm2. cbn [panic_bind]. eexists _, _. split; [reflexivity|].
    by apply sync_stable_wf.
Qed.

(** ** The other operations *)

Lemma group_heartbeat_wf clk g generation id :
  group_wf g → group_wf (group_heartbeat clk g generation id).2.
Proof.
  intros Hwf. unfold group_heartbeat.
  pose proof (expire_wf (clk 0%nat) (clk 1%nat) None g Hwf) as Hwf1.
  set (g1 := expire_stale_members _ _ _ _) in *.
  destruct (validate_member_and_generation g1 generation id) as [[]|e]; [|done].
  unfold with_member. destruct (members g1 !! id) as [m|] eqn:Hm; [|done].
  pose proof (heartbeat_wf g1 id m (clk 0%nat) Hwf1 Hm). by destruct (state _).
Qed.

Lemma group_leave_wf clk g id : group_wf g → group_wf (group_leave clk g id).2.
Proof.
  intros Hwf. unfold group_leave.
  pose proof (expire_wf (clk 0%nat) (clk 1%nat) None g Hwf) as Hwf1.
  set (g1 := expire_stale_members _ _ _ _) in *. case_decide; [done|].
  set (g2 := transition_after_removal _ _).
  assert (group_wf g2) as Hwf2.
  { apply transition_wf. apply (removal_ok_sub g1 (delete id (members g1))); [done|].
    apply delete_subseteq. }
  destruct (complete_ok (clk 3%nat) g2 Hwf2) as [b ->]. by apply complete_wf.
Qed.

Lemma with_committed_wf g c : group_wf g → group_wf (with_committed g c).
Proof. done. Qed.

Lemma group_commit_wf clk g generation id offsets :
  group_wf g → group_wf (group_commit_offsets clk g generation id offsets).2.
Proof.
  intros Hwf. unfold group_commit_offsets.
  pose proof (expire_wf (clk 0%nat) (clk 1%nat) None g Hwf) as Hwf1.
  set (g1 := expire_stale_members _ _ _ _) in *.
  destruct (validate_member_and_generation g1 generation id) as [[]|e]; [|done].
  case_decide; [done|]. by apply with_committed_wf.
Qed.

Lemma group_describe_wf clk g id : group_wf g → group_wf (group_describe clk g id).2.
Proof. intros. by apply expire_wf. Qed.

Lemma drive_wf clk g : group_wf g → group_wf (drive_group_deadlines clk g).2.
Proof.
  intros Hwf. unfold drive_group_deadlines.
  pose proof (expire_wf (clk 0%nat) (clk 1%nat) None g Hwf) as Hwf1.
  set (g1 := expire_stale_members _ _ _ _) in *.
  destruct (complete_ok (clk 2%nat) g1 Hwf1) as [b ->]. by apply complete_wf.
Qed.

(** ** How a group evolves

    Every critical section is a sequence of two kinds of abstract steps: one
    that forgets stored join results or keeps them, and the completion of a
    rebalance, which stores new ones for a new generation. *)

Definition stored_result (g : Group) (j : JoinedGroup) : Prop :=
  ∃ id m c, members g !! id = Some m ∧ m_completed_join m = Some c ∧ cj_result c = j.

(** The part of a join result that all members of a generation share. *)
Definition shared (j : JoinedGroup) : Z * string * string * string :=
  (jg_generation_id j, jg_protocol_type j, jg_protocol_name j, jg_leader j).

Inductive gstep : Group → Group → Prop :=
| gstep_keep g g' :
    generation_id g' = generation_id g → rebalance_epoch g ≤ rebalance_epoch g' →
    committed_offsets g' = committed_offsets g →
    (∀ j, stored_result g' j → stored_result g j) → gstep g g'
| gstep_complete g g' :
    generation_id g' = saturating_add i32_max (generation_id g) 1 →
    rebalance_epoch g' = rebalance_epoch g → committed_offsets g' = committed_offsets g →
    (∀ j, stored_result g' j → shared j =
      (generation_id g', protocol_type g', selected_protocol g', leader_member_id g')) →
    gstep g g'.

Definition gsteps : Group → Group → Prop := rtc gstep.

Lemma keep_members g g' :
  generation_id g' = generation_id g → rebalance_epoch g ≤ rebalance_epoch g' →
  committed_offsets g' = committed_offsets g →
  (∀ id m, members g' !! id = Some m → ∀ c, m_completed_join m = Some c →
    ∃ m0, members g !! id = Some m0 ∧ m_completed_join m0 = Some c) → gsteps g g'.
Proof.
  intros ? ? ? Hm. apply rtc_once, gstep_keep; try done.
  intros j (id & m & c & Hid & Hc & <-). destruct (Hm _ _ Hid _ Hc) as (m0 & ? & ?). by exists id, m0, c.
Qed.

Lemma touched_gsteps g ms' :
  members_touched (generation_id g) (members g) ms' → gsteps g (with_members g ms').
Proof.
  intros Ht. apply keep_members; [done|done|done|]. cbn. intros id m Hid c Hc.
  pose proof (touched_lookup _ _ _ id Ht) as Hl. rewrite Hid in Hl.
  destruct (members g !! id) as [m0|]; [|done]. destruct Hl as [(_ & _ & Heq) _].
  exists m0. split; [done|congruence].
Qed.

Lemma begin_rebalance_gsteps now g : counters_ok g → gsteps g (begin_rebalance now g).
Proof.
  intros [_ He]. apply keep_members; cbn; try done; [|by eauto].
  destruct (saturating_add_bounds u64_max _ He). lia.
Qed.

Lemma transition_gsteps now g : counters_ok g → gsteps g (transition_after_removal now g).
Proof.
  intros Hc. unfold transition_after_removal. case_decide as Hne; [by apply keep_members; cbn; eauto|].
  set (g1 := if decide (is_Some _) then g else _).
  assert (gsteps g g1 ∧ counters_ok g1) as [Hg1 Hc1].
  { unfold g1. case_decide; [split; [apply rtc_refl|done]|].
    split; [by apply keep_members; cbn; eauto|done]. }
  case_decide; (etrans; [exact Hg1|]); [by apply begin_rebalance_gsteps|].
  by apply keep_members; cbn; eauto.
Qed.

Lemma expire_gsteps now now' active g :
  counters_ok g → gsteps g (expire_stale_members now now' active g).
Proof.
  intros Hc. unfold expire_stale_members. case_decide; [apply rtc_refl|].
  etrans; [|by apply transition_gsteps]. apply keep_members; cbn; try done.
  intros id m (Hm & _)%lookup_difference_Some c Hcj. eauto.
Qed.

Lemma complete_gsteps now g : gsteps g (complete_rebalance_if_ready now g).2.
Proof.
  unfold complete_rebalance_if_ready. destruct (ready_to_complete g); cbn [negb]; [|apply rtc_refl].
  destruct (select_protocol (members g)) as [name|]; [|apply rtc_refl].
  apply rtc_once, gstep_complete; try done. cbn.
  intros j (id & m & c & Hid & Hc & <-). cbn in Hid. rewrite map_lookup_imap in Hid.
  destruct (members g !! id); [|done]. injection Hid as <-. injection Hc as <-. done.
Qed.

Lemma heartbeat_gsteps g id m now :
  members g !! id = Some m → gsteps g (with_members g (<[id := set_heartbeat now m]> (members g))).
Proof. intros Hm. apply touched_gsteps. eapply insert_touched; [done|done|by left]. Qed.

Lemma set_synced_gsteps g id m :
  members g !! id = Some m →
  gsteps g (with_members g (<[id := set_synced (generation_id g) m]> (members g))).
Proof. intros Hm. apply touched_gsteps. eapply insert_touched; [done|done|by right]. Qed.

Lemma clear_gsteps g : gsteps g (notify_waiters (clear_rebalance_deadline_if_all_synced g)).
Proof.
  destruct (clear_deadline_spec g) as [[-> _]|[-> _]]; by apply keep_members; cbn; eauto.
Qed.

Lemma join_member_gsteps clk g request may_add :
  counters_ok g → gsteps g (join_member clk g request may_add).2.
Proof.
  intros [Hg He]. unfold join_member. destruct (saturating_add_bounds u64_max _ He) as [Hb _].
  set (starts := negb _). set (target := if starts then _ else _).
  destruct (select_protocol _) as [name|]; [|apply rtc_refl].
  set (g1 := with_members g _).
  set (g2 := if starts then begin_rebalance _ g1 else _).
  set (g3 := if decide _ then _ else with_protocol_type g2 _).
  assert (gsteps g g3) as H3.
  { assert (members g3 = members g1 ∧ generation_id g3 = generation_id g ∧
      rebalance_epoch g ≤ rebalance_epoch g3 ∧ committed_offsets g3 = committed_offsets g)
      as (Hm3 & ? & ? & ?).
    { assert (members g2 = members g1 ∧ generation_id g2 = generation_id g ∧
        rebalance_epoch g ≤ rebalance_epoch g2 ∧ committed_offsets g2 = committed_offsets g)
        as (? & ? & ? & ?).
      { unfold g2. destruct starts; [cbn; split_and!; done || lia|].
        unfold extend_rebalance_deadline. destruct may_add; [|done].
        destruct (rebalance_deadline g1); [case_decide|]; done. }
      unfold g3. case_decide; done. }
    apply keep_members; try done. rewrite Hm3. unfold g1. cbn. intros id m Hid c Hc.
    destruct (decide (id = jr_member_id request)) as [->|Hne].
    - rewrite lookup_insert_eq in Hid. injection Hid as <-. cbn in Hc.
      destruct (members g !! jr_member_id request); [eauto|done].
    - rewrite lookup_insert_ne in Hid by done. eauto. }
  destruct (complete_rebalance_if_ready (clk 3%nat) g3) as [[b|e] g4] eqn:Hcomp;
    (etrans; [exact H3|]); pose proof (complete_gsteps (clk 3%nat) g3) as H4;
    by rewrite Hcomp in H4.
Qed.

Lemma join_enter_gsteps clk g request may_add r g' :
  group_wf g → join_enter clk g request may_add = Some (r, g') → gsteps g g'.
Proof.
  intros Hwf. unfold join_enter.
  pose proof (expire_gsteps (clk 0%nat) (clk 1%nat) None g (proj1 Hwf)) as Hg1.
  pose proof (expire_wf (clk 0%nat) (clk 1%nat) None g Hwf) as Hwf1.
  set (g1 := expire_stale_members _ _ _ _) in *.
  destruct (negb may_add && _); [by intros [= <- <-]|].
  destruct (negb (bool_decide (members g1 = ∅)) && _); [by intros [= <- <-]|].
  destruct (cached_join g1 _ request) as [joined|].
  - unfold with_member. destruct (members g1 !! _) as [m|] eqn:Hm; [|done]. cbn [panic_bind].
    intros [= <- <-]. etrans; [exact Hg1|]. by apply heartbeat_gsteps.
  - intros [= Hr]. etrans; [exact Hg1|].
    pose proof (join_member_gsteps clk g1 request may_add (proj1 Hwf1)) as Hj. by rewrite Hr in Hj.
Qed.

Lemma join_poll_gsteps clk g id target : group_wf g → gsteps g (join_poll clk g id target).2.
Proof.
  intros Hwf. unfold join_poll. destruct (completed_join g id target); [apply rtc_refl|].
  case_decide; [apply rtc_refl|]. case_decide; [apply rtc_refl|].
  pose proof (expire_gsteps (clk 0%nat) (clk 1%nat) (Some id) g (proj1 Hwf)) as Hg1.
  set (g1 := expire_stale_members _ _ _ _) in *.
  pose proof (complete_gsteps (clk 2%nat) g1) as Hg2.
  destruct (complete_rebalance_if_ready (clk 2%nat) g1) as [[b|e] g2]; [|by etrans].
  destruct (completed_join g2 id target); by etrans.
Qed.

Lemma sync_poll_gsteps clk g generation id given refresh r g' :
  group_wf g → sync_poll clk g generation id given refresh = Some (r, g') → gsteps g g'.
Proof.
  intros Hwf. unfold sync_poll. set (active := if refresh then None else Some id).
  pose proof (expire_gsteps (clk 0%nat) (clk 1%nat) active g (proj1 Hwf)) as Hg1.
  pose proof (expire_wf (clk 0%nat) (clk 1%nat) active g Hwf) as Hwf1.
  set (g1 := expire_stale_members _ _ _ _) in *.
  destruct (validate_member_and_generation g1 generation id) as [[]|e] eqn:Hv;
    [|by intros [= <- <-]].
  apply validate_ok in Hv as [[m Hm] <-].
  destruct (if refresh then with_member g1 id _ else Some g1) as [g2|] eqn:Hg2; [|done].
  assert (gsteps g1 g2 ∧ group_wf g2 ∧ generation_id g1 = generation_id g2)
    as (Hs2 & Hwf2 & Hgen).
  { destruct refresh; [|injection Hg2 as <-; split_and!; done || apply rtc_refl].
    unfold with_member in Hg2. rewrite Hm in Hg2. injection Hg2 as <-.
    split_and!; [by apply heartbeat_gsteps|by apply heartbeat_wf|done]. }
  cbn [panic_bind]. rewrite Hgen. destruct (state g2) eqn:Hst.
  1, 2: intros [= <- <-]; by etrans.
  - case_decide.
    + destruct (sync_leader _ _ _ _ _) as [[rr g3]|] eqn:Hl; [|done]. cbn [panic_bind fst snd].
      intros [= <- <-]. etrans; [exact Hg1|]. etrans; [exact Hs2|].
      unfold sync_leader in Hl. destruct (assignment_covers _ _); cbn [negb] in Hl;
        [|injection Hl as <- <-; apply rtc_refl].
      unfold with_member in Hl. destruct (members g2 !! id) as [m2|] eqn:Hm2; [|done].
      cbn [panic_bind] in Hl. injection Hl as _ <-. etrans; [|apply clear_gsteps].
      apply keep_members; try done. cbn. intros k mk Hk c Hc. rewrite lookup_fmap in Hk.
      destruct (decide (k = id)) as [->|Hne].
      * rewrite lookup_insert_eq in Hk. injection Hk as <-. exists m2. split; [done|].
        revert Hc. by case_decide.
      * rewrite lookup_insert_ne in Hk by done. destruct (members g2 !! k) as [m0|]; [|done].
        injection Hk as <-. exists m0. split; [done|]. revert Hc. by case_decide.
    + unfold with_member. destruct (members g2 !! id) as [m2|] eqn:Hm2; [|done]. cbn [panic_bind].
      intros [= <- <-]. etrans; [exact Hg1|]. etrans; [exact Hs2|]. by apply set_synced_gsteps.
  - unfold with_member. destruct (members g2 !! id) as [m2|] eqn:Hm2; [|done]. cbn [panic_bind].
    intros [= <- <-]. etrans; [exact Hg1|]. etrans; [exact Hs2|].
    etrans; [by apply set_synced_gsteps|]. apply clear_gsteps.
Qed.

Lemma group_heartbeat_gsteps clk g generation id :
  group_wf g → gsteps g (group_heartbeat clk g generation id).2.
Proof.
  intros Hwf. unfold group_heartbeat.
  pose proof (expire_gsteps (clk 0%nat) (clk 1%nat) None g (proj1 Hwf)) as Hg1.
  set (g1 := expire_stale_members _ _ _ _) in *.
  destruct (validate_member_and_generation g1 generation id) as [[]|e]; [|done].
  unfold with_member. destruct (members g1 !! id) as [m|] eqn:Hm; [|done].
  pose proof (heartbeat_gsteps g1 id m (clk 0%nat) Hm). destruct (state _); by etrans.
Qed.

Lemma group_leave_gsteps clk g id : group_wf g → gsteps g (group_leave clk g id).2.
Proof.
  intros Hwf. unfold group_leave.
  pose proof (expire_gsteps (clk 0%nat) (clk 1%nat) None g (proj1 Hwf)) as Hg1.
  pose proof (expire_wf (clk 0%nat) (clk 1%nat) None g Hwf) as Hwf1.
  set (g1 := expire_stale_members _ _ _ _) in *. case_decide; [done|].
  set (g2 := with_assignments _ _).
  assert (gsteps g1 g2) as Hg2.
  { apply keep_members; try done. cbn. intros k m Hk c Hc. apply lookup_delete_Some in Hk as [_ Hk].
    eauto. }
  pose proof (transition_gsteps (clk 2%nat) g2 (proj1 Hwf1)) as Hg3.
  set (g3 := transition_after_removal _ _) in *.
  pose proof (complete_gsteps (clk 3%nat) g3) as Hg4.
  destruct (complete_rebalance_if_ready (clk 3%nat) g3) as [[b|e] g4];
    (etrans; [exact Hg1|]; etrans; [exact Hg2|]; etrans; [exact Hg3|]; exact Hg4).
Qed.

Lemma drive_gsteps clk g : group_wf g → gsteps g (drive_group_deadlines clk g).2.
Proof.
  intros Hwf. unfold drive_group_deadlines.
  pose proof (expire_gsteps (clk 0%nat) (clk 1%nat) None g (proj1 Hwf)) as Hg1.
  set (g1 := expire_stale_members _ _ _ _) in *.
  pose proof (complete_gsteps (clk 2%nat) g1) as Hg2.
  destruct (complete_rebalance_if_ready (clk 2%nat) g1) as [r g2]. by etrans.
Qed.
End GroupsCorrect.
