(* ===== verification/GroupsSystem.v ===== *)
(** * The coordinator under concurrent calls

    Calls of [src/src/broker/groups.rs] run concurrently; what is atomic is a
    critical section.  [System] is the coordinator together with the join and
    sync calls in flight, each at the point between two of its critical
    sections, and [step] is any one of them, or any other call or background
    task, running its next section.  Wake-ups are left free: a waiting call may
    poll at any time, so the theorems hold under every schedule and clock. *)

From S2P Require Import Prelude Groups GroupsCorrect.
Import Groups GroupsCorrect.
Open Scope Z_scope.

Module GroupsSystem.

(** A call in flight, by what it does next. *)
Inductive Task : Type :=
| TEnter (request : JoinRequest) (may_add_member : bool)
| TForget (group_id member_id : string) (target_epoch : Z)
| TJoin (group_id member_id : string) (target_epoch : Z)
| TSync (group_id : string) (generation : Z) (member_id : string)
    (given : option (list SyncAssignment)) (refresh_member : bool).

(** [returned] lists the join results handed to clients, with their group. *)
Record System : Type := mkSystem {
  coord : Coordinator;
  running : list Task;
  returned : list (string * JoinedGroup)
}.

Definition System_new : System := mkSystem Coordinator_new [] [].

Definition join_answer (group_id : string) (r : result GroupError JoinResult) :
    list (string * JoinedGroup) :=
  match r with Ok (Joined j) => [(group_id, j)] | _ => [] end.

Definition poll_answer (group_id : string) (r : result GroupError JoinedGroup) :
    list (string * JoinedGroup) :=
  match r with Ok j => [(group_id, j)] | Err _ => [] end.

Inductive step : System → System → Prop :=
| step_start_returned c ts js request known r c' :
    join_start c request known = (StartReturned r, c') →
    step (mkSystem c ts js) (mkSystem c' ts js)
| step_start_proceed c ts js request known request' may_add c' :
    join_start c request known = (StartProceed request' may_add, c') →
    step (mkSystem c ts js) (mkSystem c' (TEnter request' may_add :: ts) js)
| step_enter_returned c l1 l2 js clk request may_add r c' :
    join_locked clk c request may_add = Some (JoinReturned r, c') →
    step (mkSystem c (l1 ++ TEnter request may_add :: l2) js)
      (mkSystem c' (l1 ++ l2) (join_answer (jr_group_id request) r ++ js))
| step_enter_waiting c l1 l2 js clk request may_add e c' :
    join_locked clk c request may_add = Some (JoinWaiting e, c') →
    step (mkSystem c (l1 ++ TEnter request may_add :: l2) js)
      (mkSystem c' (l1 ++ TForget (jr_group_id request) (jr_member_id request) e :: l2) js)
| step_forget c l1 l2 js gid id e :
    step (mkSystem c (l1 ++ TForget gid id e :: l2) js)
      (mkSystem (join_forget_pending c gid id) (l1 ++ TJoin gid id e :: l2) js)
| step_join_ready c l1 l2 js clk gid id e g r g' :
    groups c !! gid = Some g → join_poll clk g id e = (Ready r, g') →
    step (mkSystem c (l1 ++ TJoin gid id e :: l2) js)
      (mkSystem (with_group c gid g') (l1 ++ l2) (poll_answer gid r ++ js))
| step_join_pending c l1 l2 js clk gid id e g n d g' :
    groups c !! gid = Some g → join_poll clk g id e = (Pending n d, g') →
    step (mkSystem c (l1 ++ TJoin gid id e :: l2) js)
      (mkSystem (with_group c gid g') (l1 ++ TJoin gid id e :: l2) js)
| step_sync_start c ts js gid generation id given :
    is_Some (groups c !! gid) →
    step (mkSystem c ts js) (mkSystem c (TSync gid generation id (Some given) true :: ts) js)
| step_sync_ready c l1 l2 js clk gid generation id given refresh g r g' :
    groups c !! gid = Some g →
    sync_poll clk g generation id given refresh = Some (Ready r, g') →
    step (mkSystem c (l1 ++ TSync gid generation id given refresh :: l2) js)
      (mkSystem (with_group c gid g') (l1 ++ l2) js)
| step_sync_pending c l1 l2 js clk gid generation id given refresh g n d g' :
    groups c !! gid = Some g →
    sync_poll clk g generation id given refresh = Some (Pending n d, g') →
    step (mkSystem c (l1 ++ TSync gid generation id given refresh :: l2) js)
      (mkSystem (with_group c gid g') (l1 ++ TSync gid generation id given false :: l2) js)
| step_heartbeat c ts js clk gid generation id :
    step (mkSystem c ts js) (mkSystem (heartbeat clk c gid generation id).2 ts js)
| step_leave c ts js clk gid id :
    step (mkSystem c ts js) (mkSystem (leave clk c gid id).2 ts js)
| step_commit c ts js clk gid generation id offsets :
    step (mkSystem c ts js) (mkSystem (commit_offsets clk c gid generation id offsets).2 ts js)
| step_describe c ts js clk gid :
    step (mkSystem c ts js) (mkSystem (describe clk c gid).2 ts js)
| step_drive c ts js clk gid g :
    groups c !! gid = Some g →
    step (mkSystem c ts js) (mkSystem (with_group c gid (drive_group_deadlines clk g).2) ts js).

Definition reachable : System → Prop := rtc step System_new.

(** ** Agreement on the results of a generation *)

(** Results that were handed out ([H]) or are stored never contradict each
    other within a generation, unless the generation counter is exhausted. *)
Definition consistent (H : JoinedGroup → Prop) (g : Group) : Prop :=
  generation_id g ≤ i32_max ∧
  (∀ j, H j ∨ stored_result g j → jg_generation_id j ≤ generation_id g) ∧
  (generation_id g < i32_max →
   ∀ j1 j2, H j1 ∨ stored_result g j1 → H j2 ∨ stored_result g j2 →
     jg_generation_id j1 = jg_generation_id j2 → shared j1 = shared j2).

Lemma gstep_consistent H g g' : consistent H g → gstep g g' → consistent H g'.
Proof.
  intros Hc Hs. revert Hc.
  destruct Hs as [g g' Hgen _ _ Hst|g g' Hgen _ _ Hst]; intros (Hmax & Hle & Hcons); unfold consistent.
  - rewrite Hgen. split_and!; [done| |].
    + intros j [?|?%Hst]; apply Hle; auto.
    + intros Hlt j1 j2 H1 H2. apply Hcons; [done|destruct H1|destruct H2]; auto.
  - unfold saturating_add in Hgen. split_and!; [lia| |].
    + intros j [Hj|Hj%Hst]; [specialize (Hle j (or_introl Hj)); lia|].
      injection Hj as -> _ _ _. lia.
    + intros Hlt j1 j2 H1 H2 Heq.
      assert (generation_id g' = generation_id g + 1) as Hg' by lia.
      assert (∀ j, H j → jg_generation_id j < generation_id g') as Hold.
      { intros j Hj. specialize (Hle j (or_introl Hj)). lia. }
      assert (∀ j, stored_result g' j → jg_generation_id j = generation_id g') as Hnew.
      { intros j Hj%Hst. by injection Hj. }
      destruct H1 as [H1|H1], H2 as [H2|H2].
      * apply Hcons; auto. lia.
      * specialize (Hold _ H1). specialize (Hnew _ H2). lia.
      * specialize (Hold _ H2). specialize (Hnew _ H1). lia.
      * by rewrite (Hst _ H1), (Hst _ H2).
Qed.

Lemma gsteps_consistent H g g' : consistent H g → gsteps g g' → consistent H g'.
Proof. intros Hc Hs. induction Hs; [done|]. eauto using gstep_consistent. Qed.

Lemma consistent_add (H : JoinedGroup → Prop) g j :
  consistent H g → stored_result g j → consistent (λ j', j' = j ∨ H j') g.
Proof.
  intros (Hmax & Hle & Hcons) Hj.
  assert (∀ j', (j' = j ∨ H j') ∨ stored_result g j' → H j' ∨ stored_result g j') as Hin.
  { intros j' [[->|?]|?]; auto. }
  split_and!; [done|auto|]. intros. apply Hcons; auto.
Qed.

Lemma consistent_ext (H H' : JoinedGroup → Prop) g :
  (∀ j, H' j → H j) → consistent H g → consistent H' g.
Proof.
  intros Hsub (Hmax & Hle & Hcons). split_and!; [done| |].
  - intros j [?|?]; apply Hle; auto.
  - intros Hlt j1 j2 H1 H2. apply Hcons; [done|destruct H1|destruct H2]; auto.
Qed.

Lemma completed_stored g id e j : completed_join g id e = Some j → stored_result g j.
Proof.
  unfold completed_join. destruct (members g !! id) as [m|] eqn:Hm; [|done]. cbn.
  destruct (m_completed_join m) as [c|] eqn:Hc; [|done]. cbn. case_decide; [|done].
  intros [= <-]. by exists id, m, c.
Qed.

Lemma join_poll_stored clk g id e j g' :
  join_poll clk g id e = (Ready (Ok j), g') → stored_result g' j.
Proof.
  unfold join_poll. destruct (completed_join g id e) as [j0|] eqn:Hc.
  { intros [= <- <-]. by eapply completed_stored. }
  case_decide; [done|]. case_decide; [done|].
  destruct (complete_rebalance_if_ready _ _) as [[b|er] g2]; [|done].
  destruct (completed_join g2 id e) as [j0|] eqn:Hc2; [|done].
  intros [= <- <-]. by eapply completed_stored.
Qed.

Lemma join_enter_stored clk g request may_add j g' :
  join_enter clk g request may_add = Some (JoinReturned (Ok (Joined j)), g') → stored_result g' j.
Proof.
  unfold join_enter. set (g1 := expire_stale_members _ _ _ _).
  destruct (negb may_add && _); [done|].
  destruct (negb (bool_decide (members g1 = ∅)) && _); [done|].
  destruct (cached_join g1 _ request) as [joined|] eqn:Hcached.
  - unfold cached_join in Hcached. unfold with_member.
    destruct (members g1 !! jr_member_id request) as [m|] eqn:Hm; [|done]. cbn in Hcached.
    destruct (join_matches m request); [|done].
    destruct (m_completed_join m) as [c|] eqn:Hc; [|done]. cbn in Hcached.
    case_decide; [|done]. cbn [panic_bind]. intros [= <- <-].
    exists (jr_member_id request), (set_heartbeat (clk 0%nat) m), c. cbn.
    rewrite lookup_insert_eq. split_and!; [done|done|]. by case_match; simplify_eq.
  - unfold join_member. destruct (select_protocol _); [|done].
    destruct (complete_rebalance_if_ready _ _) as [[b|e] g2]; done.
Qed.

(** ** The invariant of the system *)

Definition task_ok (t : Task) : Prop :=
  match t with TEnter request _ => request_ok request | _ => True end.

Definition handed_out (s : System) (gid : string) (j : JoinedGroup) : Prop := (gid, j) ∈ returned s.

Definition system_ok (s : System) : Prop :=
  map_Forall (λ gid g, group_wf g ∧ consistent (handed_out s gid) g) (groups (coord s)) ∧
  Forall task_ok (running s) ∧
  ∀ gid j, (gid, j) ∈ returned s → is_Some (groups (coord s) !! gid).

Lemma System_new_ok : system_ok System_new.
Proof.
  split_and!; [by apply map_Forall_empty|constructor|]. intros gid j Hin. by apply elem_of_nil in Hin.
Qed.

(** Replacing one group by one that evolved from it. *)
Lemma system_ok_update c ts ts' js gid g g' :
  system_ok (mkSystem c ts js) → groups c !! gid = Some g → group_wf g' →
  (∀ H, consistent H g → consistent H g') →
  Forall task_ok ts' → system_ok (mkSystem (with_group c gid g') ts' js).
Proof.
  intros (Hg & _ & Hr) Hlook Hwf Hs Hts. split_and!; [|done|]; cbn in *.
  - apply map_Forall_insert_2; [|done]. destruct (Hg _ _ Hlook) as [_ Hc].
    split; [done|by apply Hs].
  - intros gid' j Hin. destruct (decide (gid' = gid)) as [->|Hne].
    + rewrite lookup_insert_eq. by eexists.
    + rewrite lookup_insert_ne by done. by eapply Hr.
Qed.

(** The same for an operation that is a sequence of group steps. *)
Lemma system_ok_gsteps c ts ts' js gid g g' :
  system_ok (mkSystem c ts js) → groups c !! gid = Some g →
  (group_wf g → group_wf g' ∧ gsteps g g') → Forall task_ok ts' →
  system_ok (mkSystem (with_group c gid g') ts' js).
Proof.
  intros Hok Hg Hop Hts. pose proof Hok as (Hgs & _). destruct (Hgs _ _ Hg) as [Hwf _].
  destruct (Hop Hwf) as [Hwf' Hs]. eapply system_ok_update; [done..| |done].
  intros H Hc. by eapply gsteps_consistent.
Qed.

(** Handing out a stored result. *)
Lemma system_ok_answer c ts js gid g j :
  system_ok (mkSystem c ts js) → groups c !! gid = Some g → stored_result g j →
  system_ok (mkSystem c ts ((gid, j) :: js)).
Proof.
  intros (Hg & Ht & Hr) Hlook Hj. split_and!; [|done|]; cbn in *.
  - intros gid' g' Hg'. destruct (Hg _ _ Hg') as [Hwf Hc]. split; [done|].
    destruct (decide (gid' = gid)) as [->|Hne].
    + rewrite Hlook in Hg'. injection Hg' as <-.
      eapply consistent_ext; [|exact (consistent_add _ _ _ Hc Hj)].
      unfold handed_out. cbn. intros j' [[= ->]|?]%elem_of_cons; auto.
    + eapply consistent_ext; [|exact Hc]. unfold handed_out. cbn.
      intros j' [[= ? ?]|?]%elem_of_cons; done.
  - intros gid' j' [[= -> ->]|Hin]%elem_of_cons; [by eexists|by eapply Hr].
Qed.

Lemma member_id_for_not_empty client n : member_id_for client n ≠ "".
Proof. unfold member_id_for. by destruct client. Qed.

Lemma join_start_frame c request known r c' :
  join_start c request known = (r, c') → groups c' = groups c ∧
    match r with StartProceed request' _ => request_ok request' | _ => True end.
Proof.
  unfold join_start, allocate_member_id. case_decide as Hbad; [by intros [= <- <-]|].
  case_decide as Hid.
  - destruct known; intros [= <- <-]; [done|]. split; [done|]. unfold request_ok. cbn.
    split_and!; [apply member_id_for_not_empty|tauto..].
  - assert (request_ok request) by (unfold request_ok; tauto).
    case_decide; [by intros [= <- <-]|].
    destruct (groups c !! jr_group_id request); [|by intros [= <- <-]].
    case_decide; by intros [= <- <-].
Qed.

Lemma group_or_insert_ok c ts js gid :
  system_ok (mkSystem c ts js) →
  let '(g, c') := group_or_insert c gid in
  system_ok (mkSystem c' ts js) ∧ groups c' !! gid = Some g.
Proof.
  intros Hok. unfold group_or_insert. destruct (groups c !! gid) as [g|] eqn:Hg; [done|].
  destruct Hok as (Hall & Ht & Hr). split; [|cbn; apply lookup_insert_eq].
  split_and!; [|done|]; cbn in *.
  - apply map_Forall_insert_2; [|done]. split; [apply Group_new_wf|].
    assert (∀ j, ¬ (handed_out (mkSystem c ts js) gid j ∨ stored_result Group_new j)) as Hnone.
    { intros j [Hin|(id & m & c0 & Hid & _)].
      - destruct (Hr _ _ Hin) as [? ?]. congruence.
      - cbn in Hid. by rewrite lookup_empty in Hid. }
    split_and!; [by unfold i32_max; cbn; lia|intros j Hj; by apply Hnone in Hj
      |intros _ j1 j2 Hj; by apply Hnone in Hj].
  - intros gid' j Hin. destruct (decide (gid' = gid)) as [->|Hne].
    + rewrite lookup_insert_eq. by eexists.
    + rewrite lookup_insert_ne by done. by eapply Hr.
Qed.

Lemma on_group_ok {A : Type} c ts js gid (op : Group → result GroupError A * Group) :
  system_ok (mkSystem c ts js) →
  (∀ g, group_wf g → group_wf (op g).2 ∧ ∀ H, consistent H g → consistent H (op g).2) →
  system_ok (mkSystem (on_group c gid op).2 ts js).
Proof.
  intros Hok Hop. unfold on_group. destruct (groups c !! gid) as [g|] eqn:Hg; [|done].
  destruct (op g) as [r g'] eqn:Hopg. cbn [snd].
  pose proof Hok as (Hall & Ht & _). destruct (Hall _ _ Hg) as [Hwf _].
  destruct (Hop g Hwf) as [Hwf' Hs]. rewrite Hopg in Hwf', Hs.
  by eapply system_ok_update.
Qed.

Lemma commit_consistent clk g generation id offsets H :
  group_wf g → consistent H g → consistent H (group_commit_offsets clk g generation id offsets).2.
Proof.
  intros Hwf Hc. unfold group_commit_offsets.
  pose proof (expire_gsteps (clk 0%nat) (clk 1%nat) None g (proj1 Hwf)) as Hg1.
  set (g1 := expire_stale_members _ _ _ _) in *.
  apply (gsteps_consistent _ _ _ Hc) in Hg1.
  destruct (validate_member_and_generation g1 generation id) as [[]|e]; [|done].
  case_decide; done.
Qed.

Lemma task_ok_remove l1 t l2 : Forall task_ok (l1 ++ t :: l2) → task_ok t ∧ Forall task_ok (l1 ++ l2).
Proof. rewrite Forall_app, Forall_cons, Forall_app. tauto. Qed.

Lemma task_ok_replace l1 t t' l2 :
  Forall task_ok (l1 ++ t :: l2) → task_ok t' → Forall task_ok (l1 ++ t' :: l2).
Proof. rewrite !Forall_app, !Forall_cons. tauto. Qed.

Lemma system_ok_tasks c ts ts' js :
  system_ok (mkSystem c ts js) → Forall task_ok ts' → system_ok (mkSystem c ts' js).
Proof. by intros (? & ? & ?) ?. Qed.

Lemma join_locked_ok clk c ts js request may_add :
  system_ok (mkSystem c ts js) → request_ok request →
  ∃ r c', join_locked clk c request may_add = Some (r, c') ∧ system_ok (mkSystem c' ts js) ∧
    match r with
    | JoinReturned r => system_ok (mkSystem c' ts (join_answer (jr_group_id request) r ++ js))
    | JoinWaiting _ => True
    end.
Proof.
  intros Hok Hreq. unfold join_locked.
  pose proof (group_or_insert_ok c ts js (jr_group_id request) Hok) as Hgi.
  destruct (group_or_insert c (jr_group_id request)) as [g c1]. destruct Hgi as [Hok1 Hg].
  pose proof Hok1 as (Hall & Ht & _). destruct (Hall _ _ Hg) as [Hwf _].
  destruct (join_enter_wf clk g request may_add Hwf Hreq) as (r & g' & He & Hwf').
  rewrite He. cbn [panic_bind fst snd]. eexists _, _. split; [reflexivity|].
  assert (system_ok (mkSystem (with_group c1 (jr_group_id request) g') ts js)) as Hok2.
  { eapply system_ok_update; [done|done|done| |done]. intros H Hc.
    eapply gsteps_consistent; [done|by eapply join_enter_gsteps]. }
  split; [done|]. destruct r as [[[id|j]|e]|e]; [done| |done|done]. cbn [join_answer app].
  apply (system_ok_answer _ _ _ _ g'); [done|apply lookup_insert_eq|by eapply join_enter_stored].
Qed.

Lemma join_poll_ok clk g id e p g' :
  join_poll clk g id e = (p, g') → group_wf g → group_wf g' ∧ gsteps g g'.
Proof.
  intros Hp Hwf. pose proof (join_poll_wf clk g id e Hwf) as Hwf'.
  pose proof (join_poll_gsteps clk g id e Hwf) as Hs. by rewrite Hp in Hwf', Hs.
Qed.

Lemma sync_poll_ok clk g generation id given refresh p g' :
  sync_poll clk g generation id given refresh = Some (p, g') → group_wf g → group_wf g' ∧ gsteps g g'.
Proof.
  intros Hp Hwf. destruct (sync_poll_wf clk g generation id given refresh Hwf) as (r & g'' & Hp' & Hwf').
  rewrite Hp in Hp'. injection Hp' as <- <-. split; [done|by eapply sync_poll_gsteps].
Qed.

Lemma step_ok s s' : system_ok s → step s s' → system_ok s'.
Proof.
  intros Hok Hstep. destruct Hstep.
  - destruct (join_start_frame _ _ _ _ _ H) as [Hg _].
    destruct Hok as (? & ? & ?). unfold system_ok. cbn in *. by rewrite Hg.
  - destruct (join_start_frame _ _ _ _ _ H) as [Hg Hreq].
    destruct Hok as (? & ? & ?). unfold system_ok. cbn in *. rewrite Hg. split_and!; [done| |done].
    by constructor.
  - pose proof Hok as (_ & [Hreq Hts]%task_ok_remove & _).
    destruct (join_locked_ok clk _ _ _ _ may_add (system_ok_tasks _ _ _ _ Hok Hts) Hreq)
      as (r' & c'' & Hl & _ & Hans). rewrite Hl in H. by simplify_eq.
  - pose proof Hok as (_ & Hall & _). pose proof (task_ok_remove _ _ _ Hall) as [Hreq Hts].
    destruct (join_locked_ok clk _ _ _ _ may_add
      (system_ok_tasks _ _ _ _ Hok (task_ok_replace _ _ (TForget (jr_group_id request)
        (jr_member_id request) e) _ Hall I)) Hreq)
      as (r' & c'' & Hl & Hok' & _). rewrite Hl in H. by simplify_eq.
  - pose proof Hok as (? & Hall & ?). split_and!; [done|by eapply task_ok_replace|done].
  - pose proof Hok as (_ & [_ Hts]%task_ok_remove & _).
    assert (system_ok (mkSystem (with_group c gid g') (l1 ++ l2) js)) as Hok'.
    { eapply system_ok_gsteps; [done|done| |done]. by eapply join_poll_ok. }
    destruct r as [j|er]; [|done]. cbn [poll_answer app].
    apply (system_ok_answer _ _ _ _ g'); [done|apply lookup_insert_eq|by eapply join_poll_stored].
  - pose proof Hok as (_ & Hts & _). eapply system_ok_gsteps; [done|done| |done]. by eapply join_poll_ok.
  - pose proof Hok as (? & ? & ?). split_and!; [done|by constructor|done].
  - pose proof Hok as (_ & [_ Hts]%task_ok_remove & _).
    eapply system_ok_gsteps; [done|done| |done]. by eapply sync_poll_ok.
  - pose proof Hok as (_ & Hts & _).
    eapply system_ok_gsteps; [done|done| |by eapply task_ok_replace]. by eapply sync_poll_ok.
  - apply on_group_ok; [done|]. intros g Hwf. split; [by apply group_heartbeat_wf|].
    intros. eapply gsteps_consistent; [done|by apply group_heartbeat_gsteps].
  - apply on_group_ok; [done|]. intros g Hwf. split; [by apply group_leave_wf|].
    intros. eapply gsteps_consistent; [done|by apply group_leave_gsteps].
  - apply on_group_ok; [done|]. intros g Hwf. split; [by apply group_commit_wf|].
    intros. by apply commit_consistent.
  - unfold describe. destruct (groups c !! gid) as [g|] eqn:Hg; [|done]. cbn.
    pose proof Hok as (_ & Hts & _). eapply system_ok_gsteps; [done|done| |done].
    intros Hwf. split; [by apply expire_wf|apply expire_gsteps, Hwf].
  - pose proof Hok as (_ & Hts & _). eapply system_ok_gsteps; [done|done| |done].
    intros Hwf. split; [by apply drive_wf|by apply drive_gsteps].
Qed.

Lemma steps_ok s s' : system_ok s → rtc step s s' → system_ok s'.
Proof. intros Hok Hs. induction Hs; [done|]. eauto using step_ok. Qed.

Lemma reachable_ok s : reachable s → system_ok s.
Proof. apply steps_ok, System_new_ok. Qed.

(** ** Monotonicity *)

(** What any step does to a group that exists: it stays, its generation and
    epoch do not go back, and its committed offsets are kept unless the step
    commits. *)
Definition group_advanced (g g' : Group) : Prop :=
  generation_id g ≤ generation_id g' ∧ rebalance_epoch g ≤ rebalance_epoch g'.

Lemma gsteps_advanced g g' :
  gsteps g g' → generation_id g ≤ i32_max →
  group_advanced g g' ∧ committed_offsets g' = committed_offsets g.
Proof.
  unfold group_advanced. intros Hs. induction Hs as [g|g g1 g' Hs _ IH]; intros Hmax; [done|].
  destruct Hs as [g g1 Hgen He Hc _|g g1 Hgen He Hc _].
  - destruct IH as [? ?]; [lia|]. split; [lia|congruence].
  - unfold saturating_add in Hgen. destruct IH as [? ?]; [lia|]. split; [lia|congruence].
Qed.

Definition moved (c c' : Coordinator) : Prop :=
  ∀ gid g, groups c !! gid = Some g → ∃ g', groups c' !! gid = Some g' ∧
    group_advanced g g' ∧ committed_offsets g' = committed_offsets g.

Lemma moved_refl c : moved c c.
Proof. intros gid g Hg. exists g. by unfold group_advanced. Qed.

Lemma moved_update c gid g g' :
  groups c !! gid = Some g → group_wf g → gsteps g g' → moved c (with_group c gid g').
Proof.
  intros Hg (([_ Hgen] & _) & _) Hs gid0 g0 Hg0. cbn.
  destruct (decide (gid0 = gid)) as [->|Hne].
  - rewrite Hg in Hg0. injection Hg0 as <-. rewrite lookup_insert_eq. exists g'. split; [done|].
    by apply gsteps_advanced.
  - rewrite lookup_insert_ne by done. exists g0. by unfold group_advanced.
Qed.

Lemma moved_trans c c1 c2 : moved c c1 → moved c1 c2 → moved c c2.
Proof.
  intros H1 H2 gid g Hg. destruct (H1 _ _ Hg) as (g1 & Hg1 & [? ?] & ?).
  destruct (H2 _ _ Hg1) as (g2 & Hg2 & [? ?] & ?). exists g2. unfold group_advanced.
  split_and!; [done|lia|lia|congruence].
Qed.

Lemma moved_join_locked clk c ts js request may_add r c' :
  system_ok (mkSystem c ts js) → request_ok request →
  join_locked clk c request may_add = Some (r, c') → moved c c'.
Proof.
  intros Hok Hreq. unfold join_locked.
  pose proof (group_or_insert_ok c ts js (jr_group_id request) Hok) as Hgi.
  assert (moved c (group_or_insert c (jr_group_id request)).2) as Hm1.
  { unfold group_or_insert. destruct (groups c !! jr_group_id request) as [g|] eqn:Hg;
      [apply moved_refl|]. intros gid g0 Hg0. exists g0. cbn. unfold group_advanced.
    rewrite lookup_insert_ne by congruence. done. }
  destruct (group_or_insert c (jr_group_id request)) as [g c1]. destruct Hgi as [(Hall & _) Hg].
  destruct (join_enter clk g request may_add) as [[r' g']|] eqn:He; [|done].
  intros [= <- <-]. eapply moved_trans; [exact Hm1|].
  destruct (Hall _ _ Hg) as [Hwf _]. eapply moved_update; [done|done|by eapply join_enter_gsteps].
Qed.

Lemma moved_on_group {A : Type} c ts js gid (op : Group → result GroupError A * Group) :
  system_ok (mkSystem c ts js) → (∀ g, group_wf g → gsteps g (op g).2) →
  moved c (on_group c gid op).2.
Proof.
  intros (Hall & _) Hop. unfold on_group. destruct (groups c !! gid) as [g|] eqn:Hg;
    [|apply moved_refl].
  destruct (Hall _ _ Hg) as [Hwf _]. specialize (Hop g Hwf). destruct (op g) as [r g'].
  by eapply moved_update.
Qed.

(** A step either moves the groups, or is a commit. *)
Lemma step_moved s s' :
  system_ok s → step s s' →
  moved (coord s) (coord s') ∨
  ∃ clk gid generation id offsets,
    coord s' = (commit_offsets clk (coord s) gid generation id offsets).2.
Proof.
  intros Hok Hstep. destruct Hstep; cbn [coord].
  - left. destruct (join_start_frame _ _ _ _ _ H) as [Hg _]. unfold moved. rewrite Hg. apply moved_refl.
  - left. destruct (join_start_frame _ _ _ _ _ H) as [Hg _]. unfold moved. rewrite Hg. apply moved_refl.
  - left. pose proof Hok as (_ & [Hreq _]%task_ok_remove & _). by eapply moved_join_locked.
  - left. pose proof Hok as (_ & [Hreq _]%task_ok_remove & _). by eapply moved_join_locked.
  - left. exact (moved_refl c).
  - left. pose proof Hok as (Hgs & _). destruct (Hgs _ _ H) as [Hwf _].
    pose proof (join_poll_gsteps clk g id e Hwf) as Hs. rewrite H0 in Hs. by eapply moved_update.
  - left. pose proof Hok as (Hgs & _). destruct (Hgs _ _ H) as [Hwf _].
    pose proof (join_poll_gsteps clk g id e Hwf) as Hs. rewrite H0 in Hs. by eapply moved_update.
  - left. apply moved_refl.
  - left. pose proof Hok as (Hgs & _). destruct (Hgs _ _ H) as [Hwf _].
    eapply moved_update; [done|done|by eapply sync_poll_gsteps].
  - left. pose proof Hok as (Hgs & _). destruct (Hgs _ _ H) as [Hwf _].
    eapply moved_update; [done|done|by eapply sync_poll_gsteps].
  - left. eapply moved_on_group; [done|]. intros. by apply group_heartbeat_gsteps.
  - left. eapply moved_on_group; [done|]. intros. by apply group_leave_gsteps.
  - right. eauto 10.
  - left. unfold describe. destruct (groups c !! gid) as [g|] eqn:Hg; [|apply moved_refl].
    pose proof Hok as (Hgs & _). destruct (Hgs _ _ Hg) as [Hwf _]. cbn.
    eapply moved_update; [done|done|]. apply expire_gsteps, Hwf.
  - left. pose proof Hok as (Hgs & _). destruct (Hgs _ _ H) as [Hwf _].
    eapply moved_update; [done|done|by apply drive_gsteps].
Qed.

(** ** Properties *)

Definition task_runs (clk : clock) (s : System) (t : Task) : Prop :=
  match t with
  | TEnter request may_add => is_Some (join_locked clk (coord s) request may_add)
  | TSync gid generation id given refresh =>
      ∀ g, groups (coord s) !! gid = Some g →
        is_Some (sync_poll clk g generation id given refresh)
  | _ => True
  end.

(** C4: under every interleaving of joins, syncs, heartbeats, leaves, commits,
    descriptions and background passes, every group stays well-formed (leader
    among the members, a protocol all members share, assignments exactly while
    stable and for exactly the members, a deadline whenever somebody is waited
    for, the same join result held by all members of a generation), and no
    [expect] of a join or sync in flight can panic. *)
Theorem coordinator_invariant (s : System) :
  reachable s →
  map_Forall (λ _ g, group_wf g) (groups (coord s)) ∧
  ∀ clk t, t ∈ running s → task_runs clk s t.
Proof.
  intros Hok%reachable_ok. destruct s as [c ts js]. pose proof Hok as (Hgs & Hts & _). split.
  - intros gid g Hg. by destruct (Hgs _ _ Hg).
  - intros clk t Ht. cbn in Ht. destruct t; cbn; try done.
    + rewrite Forall_forall in Hts.
      destruct (join_locked_ok clk c ts js request may_add_member Hok (Hts _ Ht))
        as (r & c' & -> & _). by eexists.
    + intros g Hg. destruct (Hgs _ _ Hg) as [Hwf _].
      destruct (sync_poll_wf clk g generation member_id given refresh_member Hwf)
        as (r & g' & -> & _). by eexists.
Qed.

(** C8: one leader per generation.  Under every interleaving, two join results
    handed to clients of a group for the same generation name the same leader,
    protocol type and protocol (as long as the generation counter has not
    reached [i32::MAX]). *)
Theorem one_leader_per_generation (s : System) (gid : string) (g : Group) (j1 j2 : JoinedGroup) :
  reachable s → groups (coord s) !! gid = Some g → generation_id g < i32_max →
  (gid, j1) ∈ returned s → (gid, j2) ∈ returned s →
  jg_generation_id j1 = jg_generation_id j2 →
  jg_leader j1 = jg_leader j2 ∧ jg_protocol_type j1 = jg_protocol_type j2 ∧
  jg_protocol_name j1 = jg_protocol_name j2.
Proof.
  intros (Hgs & _ & _)%reachable_ok Hg Hmax H1 H2 Hgen.
  destruct (Hgs _ _ Hg) as [_ (_ & _ & Hcons)].
  assert (shared j1 = shared j2) as [= _ ? ? ?] by (apply Hcons; auto). done.
Qed.

(** No step removes a group, lowers its generation or its rebalance epoch,
    or changes its committed offsets, except that a commit may add offsets. *)
Theorem groups_advance (s s' : System) (gid : string) (g : Group) :
  reachable s → step s s' → groups (coord s) !! gid = Some g →
  ∃ g', groups (coord s') !! gid = Some g' ∧ group_advanced g g' ∧
    (committed_offsets g' = committed_offsets g ∨
     ∃ clk generation id offsets,
       (commit_offsets clk (coord s) gid generation id offsets).1 = Ok () ∧
       committed_offsets g' = store_offsets (committed_offsets g) offsets).
Proof.
  intros Hok%reachable_ok Hstep Hg. pose proof Hok as (Hgs & _).
  destruct (step_moved s s' Hok Hstep) as [Hm|(clk & gid' & generation & id & offsets & ->)].
  { destruct (Hm _ _ Hg) as (g' & ? & ? & ?). eauto 10. }
  unfold commit_offsets, on_group.
  destruct (groups (coord s) !! gid') as [g1|] eqn:Hg1; cbn [snd].
  2: { exists g. split_and!; [done|by unfold group_advanced|by left]. }
  destruct (decide (gid = gid')) as [<-|Hne].
  2: { destruct (group_commit_offsets _ _ _ _ _) as [r g']. cbn.
       rewrite lookup_insert_ne by done. exists g. split_and!; [done|by unfold group_advanced|by left]. }
  rewrite Hg in Hg1. injection Hg1 as <-. destruct (Hgs _ _ Hg) as [Hwf _].
  destruct (gsteps_advanced _ _ (expire_gsteps (clk 0%nat) (clk 1%nat) None g (proj1 Hwf)))
    as [Hadv Hoff]; [apply Hwf|].
  assert (∀ r g', group_commit_offsets clk g generation id offsets = (r, g') →
    group_advanced g g' ∧ (committed_offsets g' = committed_offsets g ∨
      r = Ok () ∧ committed_offsets g' = store_offsets (committed_offsets g) offsets)) as Hcommit.
  { intros r g'. unfold group_commit_offsets.
    set (g1 := expire_stale_members _ _ _ _) in *.
    destruct (validate_member_and_generation g1 generation id) as [[]|e];
      [|intros [= <- <-]; auto].
    case_decide; intros [= <- <-]; [by auto|]. split; [done|]. right. cbn. by rewrite Hoff. }
  destruct (group_commit_offsets clk g generation id offsets) as [r g'] eqn:Hc. cbn.
  rewrite lookup_insert_eq. exists g'. destruct (Hcommit r g' eq_refl) as [? Hoffs].
  split_and!; [done|done|]. destruct Hoffs as [?|[-> ?]]; [by left|right].
  exists clk, generation, id, offsets. rewrite Hg, Hc. done.
Qed.

(** ** Witnesses: two consumers form a generation *)

Definition at_time (t : Z) : clock := λ _, t.

Definition sample_request (id client : string) : JoinRequest :=
  mkJoinRequest "g" id client 10000 60000 "consumer"
    [mkJoinProtocol "range" [Byte.x01]; mkJoinProtocol "roundrobin" []].

(** [a] joins and forms generation 1 alone; [b] joins; [a] rejoins; both poll. *)
Definition coord1 : Coordinator := (join_start Coordinator_new (sample_request "" "a") false).2.
Definition enter (c : Coordinator) (r : JoinRequest) (may_add : bool) : Coordinator :=
  from_option snd c (join_locked (at_time 5) c r may_add).
Definition coord2 : Coordinator := Eval vm_compute in enter coord1 (sample_request "a-1" "a") true.
Definition coord3 : Coordinator := Eval vm_compute in
  (join_start (join_forget_pending coord2 "g" "a-1") (sample_request "" "b") false).2.
Definition coord4 : Coordinator := Eval vm_compute in enter coord3 (sample_request "b-2" "b") true.
Definition coord5 : Coordinator := Eval vm_compute in enter coord4 (sample_request "a-1" "a") false.
Definition group5 : Group := Eval vm_compute in default Group_new (groups coord5 !! "g").

Definition joined_a : JoinedGroup :=
  mkJoinedGroup 2 "consumer" "range" "a-1" "a-1"
    [mkJoinedMember "a-1" [Byte.x01]; mkJoinedMember "b-2" [Byte.x01]].
Definition joined_b : JoinedGroup := mkJoinedGroup 2 "consumer" "range" "a-1" "b-2" [].

Definition sample_system : System :=
  mkSystem coord5 [TJoin "g" "a-1" 1] [("g", joined_b); ("g", joined_a)].

Ltac next_step c := eapply rtc_l; [c; vm_compute; reflexivity|].

Lemma sample_reachable : reachable sample_system.
Proof.
  unfold reachable, System_new, sample_system.
  next_step ltac:(apply (step_start_proceed _ _ _ (sample_request "" "a") false
    (sample_request "a-1" "a") true coord1)).
  next_step ltac:(apply (step_enter_waiting _ [] [] _ (at_time 5) _ _ 1 coord2)).
  eapply rtc_l; [apply (step_forget _ [] [])|].
  next_step ltac:(apply (step_start_proceed _ _ _ (sample_request "" "b") false
    (sample_request "b-2" "b") true coord3)).
  next_step ltac:(apply (step_enter_waiting _ [] [TJoin "g" "a-1" 1] _ (at_time 5) _ _ 2 coord4)).
  eapply rtc_l; [apply (step_forget _ [] [TJoin "g" "a-1" 1])|].
  change (join_forget_pending coord4 "g" "b-2") with coord4.
  next_step ltac:(apply (step_start_proceed _ _ _ (sample_request "a-1" "a") false
    (sample_request "a-1" "a") false coord4)).
  next_step ltac:(apply (step_enter_waiting _ [] [TJoin "g" "b-2" 2; TJoin "g" "a-1" 1] _
    (at_time 5) _ _ 2 coord5)).
  eapply rtc_l; [apply (step_forget _ [] [TJoin "g" "b-2" 2; TJoin "g" "a-1" 1])|].
  change (join_forget_pending coord5 "g" "a-1") with coord5.
  eapply rtc_l.
  { apply (step_join_ready _ [] [TJoin "g" "b-2" 2; TJoin "g" "a-1" 1] _ (at_time 6) "g" "a-1" 2
      group5 (Ok joined_a) group5); vm_compute; reflexivity. }
  change (with_group coord5 "g" group5) with coord5. cbn [app poll_answer].
  eapply rtc_l.
  { apply (step_join_ready _ [] [TJoin "g" "a-1" 1] _ (at_time 6) "g" "b-2" 2
      group5 (Ok joined_b) group5); vm_compute; reflexivity. }
  change (with_group coord5 "g" group5) with coord5. apply rtc_refl.
Qed.

Lemma coordinator_invariant_witness :
  map_Forall (λ _ g, group_wf g) (groups (coord sample_system)).
Proof. apply (coordinator_invariant sample_system sample_reachable). Defined.

Lemma one_leader_per_generation_witness :
  jg_leader joined_a = jg_leader joined_b ∧ jg_protocol_type joined_a = jg_protocol_type joined_b ∧
  jg_protocol_name joined_a = jg_protocol_name joined_b.
Proof.
  apply (one_leader_per_generation sample_system "g" group5 joined_a joined_b).
  - exact sample_reachable.
  - vm_compute. reflexivity.
  - vm_compute. reflexivity.
  - unfold sample_system. cbn. right. left.
  - unfold sample_system. cbn. left.
  - reflexivity.
Defined.

Lemma groups_advance_witness :
  ∃ g', groups (coord (mkSystem (heartbeat (at_time 7) coord5 "g" 2 "a-1").2
      (running sample_system) (returned sample_system))) !! "g" = Some g' ∧
    group_advanced group5 g' ∧
    (committed_offsets g' = committed_offsets group5 ∨
     ∃ clk generation id offsets,
       (commit_offsets clk (coord sample_system) "g" generation id offsets).1 = Ok () ∧
       committed_offsets g' = store_offsets (committed_offsets group5) offsets).
Proof.
  apply (groups_advance sample_system).
  - exact sample_reachable.
  - apply step_heartbeat.
  - vm_compute. reflexivity.
Defined.
End GroupsSystem.
