(* ===== verification/GroupsProperties.v ===== *)
(** * What the group coordinator promises to a client

    Consequences of the invariant of [GroupsCorrect.v] for the calls of
    [src/src/broker/groups.rs]: protocol selection, join results, assignments,
    offset commits, member identifiers, and the deadlines. *)

From Stdlib Require Import Ascii.
From stdpp Require Import pretty.
From S2P Require Import Prelude Groups GroupsCorrect.
Import Groups GroupsCorrect.
Open Scope Z_scope.

Module GroupsProperties.

(** ** Expiry and deadlines *)

Lemma expire_noop now now' active g :
  expire_stale_members now now' active g = g ↔
  map_Forall (λ id m, is_stale g now active id m = false) (members g).
Proof.
  unfold expire_stale_members. case_decide as He.
  - split; [|done]. intros _ id m Hm. apply not_true_iff_false. intros Hs.
    assert (filter (λ '(id, m), is_stale g now active id m = true) (members g) !! id = Some m) as Hf.
    { by apply map_lookup_filter_Some. }
    by rewrite He, lookup_empty in Hf.
  - destruct (map_choose _ He) as (id & m & [Hm Hs]%map_lookup_filter_Some). split.
    + intros Heq. exfalso. apply (f_equal members) in Heq.
      assert (members (transition_after_removal now' (with_assignments (with_members g
        (members g ∖ filter (λ '(id, m), is_stale g now active id m = true) (members g)))
        (filter (λ '(id0, _), filter (λ '(id, m), is_stale g now active id m = true) (members g)
          !! id0 = None) (assignments g)))) !! id = None) as Hnone.
      { unfold transition_after_removal. case_decide; cbn; [|repeat case_decide; cbn];
          apply lookup_difference_None; right; exists m; by apply map_lookup_filter_Some. }
      congruence.
    + intros Hall. by rewrite (Hall _ _ Hm) in Hs.
Qed.

Lemma fold_min_le l x y : fold_left Z.min l x ≤ y ↔ x ≤ y ∨ ∃ z, z ∈ l ∧ z ≤ y.
Proof.
  revert x. induction l as [|a l IH]; intros x; simpl.
  - split; [auto|]. intros [?|(z & Hz & _)]; [done|by apply elem_of_nil in Hz].
  - rewrite IH. setoid_rewrite elem_of_cons. split.
    + intros [?|(z & ? & ?)]; [|by eauto]. destruct (decide (x ≤ y)); [by left|right].
      exists a. split; [by left|lia].
    + intros [?|(z & [->|?] & ?)]; [left; lia|left; lia|by eauto].
Qed.

(** [now] has reached the minimum of a list iff it has reached an element. *)
Lemma min_option_reached l now :
  deadline_passed (min_option l) now = true ↔ ∃ d, d ∈ l ∧ d ≤ now.
Proof.
  destruct l as [|x l]; simpl.
  - split; [done|]. intros (d & Hd & _). by apply elem_of_nil in Hd.
  - rewrite bool_decide_eq_true, fold_min_le. setoid_rewrite elem_of_cons. split.
    + intros [?|(z & ? & ?)]; eauto.
    + intros (d & [->|?] & ?); eauto.
Qed.

Lemma next_deadline_reached g active now :
  deadline_passed (next_expiry_deadline g active) now = true ↔
  (deadline_passed (rebalance_deadline g) now = true ∧
   ∃ id m, members g !! id = Some m ∧ awaited g active id m = true) ∨
  (state g = Stable ∧ ∃ id m, members g !! id = Some m ∧ active ≠ Some id ∧
   synced_generation m = generation_id g ∧ member_deadline m ≤ now).
Proof.
  unfold next_expiry_deadline. rewrite min_option_reached.
  set (session := if decide (state g = Stable) then _ else None).
  assert (deadline_passed session now = true ↔
    state g = Stable ∧ ∃ id m, members g !! id = Some m ∧ active ≠ Some id ∧
      synced_generation m = generation_id g ∧ member_deadline m ≤ now) as Hsess.
  { unfold session. case_decide as Hst; [|split; [done|by intros [? _]]].
    rewrite min_option_reached. split.
    - intros (d & Hd & Hle). split; [done|]. apply list_elem_of_omap in Hd as ([id m] & Hin & Hf).
      apply elem_of_map_to_list in Hin. exists id, m.
      destruct (negb _ && _) eqn:Hb; [|done]. injection Hf as <-.
      apply andb_true_iff in Hb as [Ha Hs]. apply negb_true_iff, bool_decide_eq_false in Ha.
      by apply bool_decide_eq_true in Hs.
    - intros (_ & id & m & Hm & Ha & Hs & Hle). exists (member_deadline m). split; [|done].
      apply list_elem_of_omap. exists (id, m). split; [by apply elem_of_map_to_list|].
      by rewrite bool_decide_false, bool_decide_true. }
  set (waits := existsb _ _).
  assert (waits = true ↔ ∃ id m, members g !! id = Some m ∧ awaited g active id m = true) as Hw.
  { unfold waits. rewrite existsb_exists. split.
    - intros ([id m] & Hin%list_elem_of_In & Ha). apply elem_of_map_to_list in Hin. eauto.
    - intros (id & m & Hm & Ha). exists (id, m). split; [|done].
      by apply list_elem_of_In, elem_of_map_to_list. }
  rewrite <- Hsess, <- Hw. setoid_rewrite elem_of_app. unfold deadline_passed.
  destruct waits, (rebalance_deadline g) as [d1|], session as [d2|]; cbn; rewrite ?bool_decide_eq_true;
    setoid_rewrite list_elem_of_singleton || idtac; try setoid_rewrite elem_of_nil; naive_solver.
Qed.

(** Staleness is exactly having reached the announced deadline. *)
Lemma stale_iff_deadline g active now :
  (∃ id m, members g !! id = Some m ∧ is_stale g now active id m = true) ↔
  deadline_passed (next_expiry_deadline g active) now = true.
Proof.
  rewrite next_deadline_reached. unfold is_stale, awaited. destruct (state g) eqn:Hst.
  - split; [|intros [(_ & id & m & _ & Hb)|[? _]]; [by rewrite andb_false_r in Hb|done]].
    intros (id & m & _ & Hs). by case_decide.
  - split.
    + intros (id & m & Hm & Hs). case_decide; [done|]. apply andb_true_iff in Hs as [Hd Hj].
      left. split; [done|]. exists id, m. by rewrite bool_decide_false, Hj.
    + intros [(Hd & id & m & Hm & Hb)|[? _]]; [|done].
      apply andb_true_iff in Hb as [Ha Hj]. apply negb_true_iff, bool_decide_eq_false in Ha.
      exists id, m. by rewrite decide_False, Hd, Hj.
  - split.
    + intros (id & m & Hm & Hs). case_decide; [done|]. apply andb_true_iff in Hs as [Hd Hj].
      left. split; [done|]. exists id, m. by rewrite bool_decide_false, Hj.
    + intros [(Hd & id & m & Hm & Hb)|[? _]]; [|done].
      apply andb_true_iff in Hb as [Ha Hj]. apply negb_true_iff, bool_decide_eq_false in Ha.
      exists id, m. by rewrite decide_False, Hd, Hj.
  - split.
    + intros (id & m & Hm & Hs). case_decide; [done|]. apply orb_true_iff in Hs as [Hs|Hs].
      * apply andb_true_iff in Hs as [Hd Hj]. left. split; [done|]. exists id, m.
        by rewrite bool_decide_false, Hj.
      * apply andb_true_iff in Hs as [Hj Hd]. rewrite negb_involutive in Hj.
        apply bool_decide_eq_true in Hj, Hd. right. split; [done|]. by exists id, m.
    + intros [(Hd & id & m & Hm & Hb)|(_ & id & m & Hm & Ha & Hj & Hd)].
      * apply andb_true_iff in Hb as [Ha Hj]. apply negb_true_iff, bool_decide_eq_false in Ha.
        exists id, m. by rewrite decide_False, Hd, Hj.
      * exists id, m. rewrite decide_False by done.
        by rewrite (bool_decide_true (_ = _)), (bool_decide_true (_ ≤ _)), orb_true_r.
Qed.

Lemma expire_noop_before g active now now' :
  deadline_passed (next_expiry_deadline g active) now = false →
  expire_stale_members now now' active g = g.
Proof.
  intros Hd. apply expire_noop. intros id m Hm. apply not_true_iff_false. intros Hs.
  rewrite <- not_true_iff_false, <- stale_iff_deadline in Hd. eauto.
Qed.

(** ** Passing a rebalance deadline *)

(** The members that have joined the running rebalance. *)
Definition rejoined (g : Group) : gmap string Member :=
  filter (λ '(_, m), joined_epoch m = rebalance_epoch g) (members g).

(** Expiry at the deadline leaves exactly the members that have joined. *)
Lemma expire_preparing now now' g :
  group_wf g → state g = PreparingRebalance → deadline_passed (rebalance_deadline g) now = true →
  let g' := expire_stale_members now now' None g in
  members g' = rejoined g ∧ rebalance_epoch g' = rebalance_epoch g ∧
  (is_Some (rejoined g !! leader_member_id g) → leader_member_id g' = leader_member_id g) ∧
  state g' = if decide (rejoined g = ∅) then Empty else PreparingRebalance.
Proof.
  intros Hwf Hst Hd. cbn zeta.
  assert (∀ id m, is_stale g now None id m = true ↔ joined_epoch m ≠ rebalance_epoch g) as Hstale.
  { intros id m. unfold is_stale. rewrite Hst, Hd, decide_False by done. cbn.
    by rewrite negb_true_iff, bool_decide_eq_false. }
  assert (members g ∖ filter (λ '(id, m), is_stale g now None id m = true) (members g) = rejoined g) as Hkept.
  { rewrite map_difference_filter. unfold rejoined. apply map_filter_ext. intros id m Hm. cbn.
    rewrite map_lookup_filter_None. split.
    - intros [?|Hno]; [congruence|]. specialize (Hno m Hm). cbn in Hno. rewrite Hstale in Hno.
      by destruct (decide (joined_epoch m = rebalance_epoch g)).
    - intros Hj. right. intros m' Hm'. cbn. rewrite Hstale. simplify_eq. auto. }
  unfold expire_stale_members. case_decide as He.
  - rewrite He, map_difference_empty in Hkept. rewrite <- Hkept.
    pose proof Hwf as (_ & _ & _ & Hs). unfold state_ok in Hs. rewrite Hst in Hs.
    rewrite decide_False by tauto. by split_and!.
  - unfold transition_after_removal. cbn [with_assignments with_members members leader_member_id].
    rewrite Hkept. case_decide as Hnone; [split_and!; [done|done| |done]|].
    { rewrite Hnone, lookup_empty. by intros [? ?]. }
    set (g1 := if decide (is_Some _) then _ else _).
    assert (state g1 = PreparingRebalance ∧ members g1 = rejoined g ∧ rebalance_epoch g1 = rebalance_epoch g ∧
      (is_Some (rejoined g !! leader_member_id g) → leader_member_id g1 = leader_member_id g))
      as (Hs1 & Hm1 & He1 & Hl1) by (unfold g1; case_decide; done).
    rewrite decide_False by auto. by split_and!.
Qed.

Lemma complete_ready now g :
  group_wf g → state g = PreparingRebalance → members g ≠ ∅ →
  map_Forall (λ _ m, joined_epoch m = rebalance_epoch g) (members g) →
  let g' := (complete_rebalance_if_ready now g).2 in
  state g' = CompletingRebalance ∧ generation_id g' = saturating_add i32_max (generation_id g) 1 ∧
  leader_member_id g' = leader_member_id g ∧ rebalance_epoch g' = rebalance_epoch g ∧
  ∃ results, ∀ id, members g' !! id = (λ m, set_completed (results id) m) <$> members g !! id.
Proof.
  intros Hwf Hst Hne Hj. cbn zeta. unfold complete_rebalance_if_ready.
  rewrite (proj2 (ready_spec g)) by done. cbn [negb].
  destruct Hwf as (_ & _ & Hl & _). destruct (Hl Hne) as [_ [name ->]].
  set (g1 := with_deadline _ _). cbn [fst snd]. split_and!; [done..|].
  exists (completed_result g1 (members_for_leader g1)). intros id. cbn. rewrite map_lookup_imap.
  by destruct (members g !! id).
Qed.

(** ** Join results *)

Lemma members_for_leader_keys g :
  map_Forall (λ _ m, supports (selected_protocol g) m = true) (members g) →
  jm_member_id <$> members_for_leader g ≡ₚ (map_to_list (members g)).*1.
Proof.
  intros Hall. unfold members_for_leader. rewrite merge_sort_Permutation.
  assert (∀ id m, (id, m) ∈ map_to_list (members g) → supports (selected_protocol g) m = true) as Hl.
  { intros id m Hm. apply elem_of_map_to_list in Hm. by eapply Hall. }
  induction (map_to_list (members g)) as [|[id m] l IH]; [done|]. cbn.
  assert (is_Some (List.find (λ p, bool_decide (jp_name p = selected_protocol g)) (protocols m)))
    as [p ->].
  { destruct (List.find _ _) as [p|] eqn:Hf; [by eexists|]. exfalso.
    destruct (proj1 (supports_spec _ _) (Hl id m ltac:(left))) as (p & Hp & Hn).
    pose proof (List.find_none _ _ Hf p (proj1 (list_elem_of_In _ _) Hp)) as Hb. cbv beta in Hb.
    by rewrite bool_decide_true in Hb. }
  cbn. constructor. apply IH. intros id' m' Hin. apply (Hl id'). by right.
Qed.

(** ** Offsets *)

Definition commit_key (o : OffsetCommit) : TopicPartition :=
  mkTopicPartition (oc_topic o) (oc_partition o).

(** The last entry of a commit for a partition. *)
Fixpoint last_commit (offsets : list OffsetCommit) (tp : TopicPartition) : option OffsetCommit :=
  match offsets with
  | [] => None
  | o :: offsets =>
      match last_commit offsets tp with
      | Some o' => Some o'
      | None => if decide (commit_key o = tp) then Some o else None
      end
  end.

Lemma store_offsets_lookup stored offsets tp :
  store_offsets stored offsets !! tp =
    match last_commit offsets tp with
    | Some o => Some (mkStoredOffset (oc_offset o) (oc_metadata o))
    | None => stored !! tp
    end.
Proof.
  revert stored. induction offsets as [|o offsets IH]; intros stored; [done|].
  cbn [last_commit]. change (store_offsets stored (o :: offsets)) with (store_offsets
    (<[commit_key o := mkStoredOffset (oc_offset o) (oc_metadata o)]> stored) offsets).
  rewrite IH. destruct (last_commit offsets tp); [done|]. case_decide as Hk.
  - subst tp. by rewrite lookup_insert_eq.
  - by rewrite lookup_insert_ne.
Qed.

(** ** Member identifiers *)

Definition no_dash (s : string) : Prop := Forall (λ a, a ≠ "-"%char) (String.list_ascii_of_string s).

Lemma pretty_no_dash (n : N) : no_dash (pretty n).
Proof.
  unfold pretty, pretty_N. case_decide; [repeat constructor; done|].
  assert (∀ s, no_dash s → no_dash (pretty_N_go n s)) as Hgo; [|apply Hgo; constructor].
  clear. induction (N.lt_wf_0 n) as [n _ IH]. intros s Hs.
  destruct (decide (0 < n)%N) as [Hn|Hn].
  - rewrite pretty_N_go_step by done. apply IH; [by apply N.div_lt|].
    unfold no_dash. cbn. constructor; [|done].
    unfold pretty_N_char. repeat case_match; done.
  - replace n with 0%N by lia. by rewrite pretty_N_go_0.
Qed.

Lemma to_list_app (s t : string) :
  String.list_ascii_of_string (s +:+ t) = String.list_ascii_of_string s ++ String.list_ascii_of_string t.
Proof. induction s as [|a s IH]; [done|]. exact (f_equal (cons a) IH). Qed.

(** A list is split at its last separator in one way only. *)
Lemma last_separator_unique {A : Type} (x : A) (a b c d : list A) :
  Forall (λ y, y ≠ x) b → Forall (λ y, y ≠ x) d → a ++ x :: b = c ++ x :: d → b = d.
Proof.
  intros Hb Hd. revert c. induction a as [|y a IH]; intros c Heq.
  - destruct c as [|z c]; [by injection Heq|]. injection Heq as -> ->.
    apply Forall_app in Hb as [_ [Hx _]%Forall_cons]. done.
  - destruct c as [|z c]; [|injection Heq as -> Heq; by apply (IH c)].
    injection Heq as -> <-. apply Forall_app in Hd as [_ [Hx _]%Forall_cons]. done.
Qed.

Lemma member_id_for_inj client client' n n' :
  0 ≤ n → 0 ≤ n' → member_id_for client n = member_id_for client' n' → n = n'.
Proof.
  intros Hn Hn' Heq. apply (f_equal String.list_ascii_of_string) in Heq. unfold member_id_for in Heq.
  rewrite !to_list_app in Heq. cbn in Heq.
  apply last_separator_unique in Heq; [|apply pretty_no_dash..].
  apply (f_equal String.string_of_list_ascii) in Heq. rewrite !String.string_of_list_ascii_of_string in Heq.
  apply (inj pretty) in Heq. lia.
Qed.

Lemma expire_generation now now' active g :
  generation_id (expire_stale_members now now' active g) = generation_id g.
Proof.
  unfold expire_stale_members, transition_after_removal. case_decide; [done|].
  case_decide; [done|]. repeat case_decide; done.
Qed.

Lemma expire_committed now now' active g :
  committed_offsets (expire_stale_members now now' active g) = committed_offsets g.
Proof.
  unfold expire_stale_members, transition_after_removal. case_decide; [done|].
  case_decide; [done|]. repeat case_decide; done.
Qed.

Lemma complete_committed now g :
  committed_offsets (complete_rebalance_if_ready now g).2 = committed_offsets g.
Proof.
  unfold complete_rebalance_if_ready. destruct (negb _); [done|]. by destruct (select_protocol _).
Qed.

(** The beginning of a [sync] pass: before any expiry, a member of the current
    generation passes the checks; the pass goes on by the group's state. *)
Definition sync_decide (now generation : Z) (g : Group) (id : string)
    (given : option (list SyncAssignment)) : option (poll (list byte) * Group) :=
  match state g with
  | Stable =>
      let! g := with_member g id (set_synced generation) in
      let g := notify_waiters (clear_rebalance_deadline_if_all_synced g) in
      Some (Ready (ok_or (assignments g !! id) RebalanceInProgress), g)
  | PreparingRebalance | Empty => Some (Ready (Err RebalanceInProgress), g)
  | CompletingRebalance =>
      if decide (id = leader_member_id g) then
        let! done_ := sync_leader now generation g id (default [] given) in
        Some (Ready done_.1, done_.2)
      else
        let! g := with_member g id (set_synced generation) in
        Some (Pending (change g) (next_expiry_deadline g (Some id)), g)
  end.

Lemma sync_first_pass clk g id (refresh : bool) :
  group_wf g → is_Some (members g !! id) →
  deadline_passed (next_expiry_deadline g (if refresh then None else Some id)) (clk 0%nat) = false →
  ∃ g2, group_wf g2 ∧ dom (members g2) = dom (members g) ∧ state g2 = state g ∧
    leader_member_id g2 = leader_member_id g ∧ generation_id g2 = generation_id g ∧
    assignments g2 = assignments g ∧
    ∀ given, sync_poll clk g (generation_id g) id given refresh
      = sync_decide (clk 0%nat) (generation_id g) g2 id given.
Proof.
  intros Hwf [m Hm] Hd. unfold sync_poll. rewrite (expire_noop_before _ _ _ _ Hd).
  rewrite (proj2 (validate_ok g (generation_id g) id)) by (split; [by eexists|done]).
  destruct refresh.
  - unfold with_member. rewrite Hm. eexists. split; [by apply (heartbeat_wf g id m (clk 0%nat))|].
    split_and!; try done. cbn. rewrite dom_insert_L. apply elem_of_dom_2 in Hm. set_solver.
  - exists g. split_and!; done.
Qed.

(** ** Calls between two expiries *)

(** A sync or a heartbeat at a moment at which nobody expires. *)
Inductive member_call (g : Group) : Group → Prop :=
| call_sync clk generation id given (refresh : bool) r g' :
    deadline_passed (next_expiry_deadline g (if refresh then None else Some id)) (clk 0%nat) = false →
    sync_poll clk g generation id given refresh = Some (r, g') → member_call g g'
| call_heartbeat clk generation id r g' :
    deadline_passed (next_expiry_deadline g None) (clk 0%nat) = false →
    group_heartbeat clk g generation id = (r, g') → member_call g g'.

(** The group is stable in this generation, with these assignments. *)
Definition delivered (generation : Z) (given : gmap string (list byte)) (g : Group) : Prop :=
  group_wf g ∧ state g = Stable ∧ generation_id g = generation ∧ assignments g = given.

Lemma delivered_members generation given g :
  delivered generation given g → dom (members g) = dom given.
Proof.
  intros ((_ & _ & _ & Hs) & Hst & _ & <-). unfold state_ok in Hs. rewrite Hst in Hs. by destruct Hs as (_ & -> & _).
Qed.

Lemma delivered_call generation given g g' :
  delivered generation given g → member_call g g' → delivered generation given g'.
Proof.
  intros (Hwf & Hst & Hgen & Ha) Hcall.
  destruct Hcall as [clk gen id more refresh r g' Hd Hs|clk gen id r g' Hd Hh].
  - assert (group_wf g') as Hwf'.
    { destruct (sync_poll_wf clk g gen id more refresh Hwf) as (r' & g1 & Hs' & Hwf1). congruence. }
    unfold sync_poll in Hs. rewrite (expire_noop_before _ _ _ _ Hd) in Hs.
    destruct (validate_member_and_generation g gen id) as [[]|e]; [|by simplify_eq].
    assert (∀ f g1, with_member g id f = Some g1 → state g1 = Stable ∧ generation_id g1 = generation ∧
      assignments g1 = given) as Hkeep.
    { intros f g1. unfold with_member. destruct (members g !! id); [|done]. by intros [= <-]. }
    assert (∃ g1, (if refresh then with_member g id (set_heartbeat (clk 0%nat)) else Some g) = Some g1 ∧
      state g1 = Stable ∧ generation_id g1 = generation ∧ assignments g1 = given) as (g1 & Hg1 & Hs1 & Hgen1 & Ha1).
    { destruct refresh; [|by exists g]. destruct (with_member g id _) as [g1|] eqn:Hw; [|done]. eauto. }
    rewrite Hg1 in Hs. cbn [panic_bind] in Hs. rewrite Hs1 in Hs. unfold with_member in Hs.
    destruct (members g1 !! id); [|done]. cbn [panic_bind] in Hs. injection Hs as _ <-. revert Hwf'.
    set (g4 := with_members g1 _). intros Hwf'. split; [done|].
    by destruct (clear_deadline_spec g4) as [[-> _]|[-> _]].
  - assert (group_wf g') as Hwf'.
    { pose proof (group_heartbeat_wf clk g gen id Hwf) as Hwf'. by rewrite Hh in Hwf'. }
    unfold group_heartbeat in Hh. rewrite (expire_noop_before _ _ _ _ Hd) in Hh. split; [done|].
    destruct (validate_member_and_generation g gen id) as [[]|e]; [|by simplify_eq].
    unfold with_member in Hh. destruct (members g !! id); [|by simplify_eq].
    cbn [state with_members] in Hh. rewrite Hst in Hh. by injection Hh as _ <-.
Qed.

Lemma rtc_delivered generation given g g' :
  delivered generation given g → rtc member_call g g' → delivered generation given g'.
Proof. intros Hg. induction 1 as [|g g1 g2 Hcall _ IH]; [done|]. by eapply IH, delivered_call. Qed.

Lemma delivered_sync generation given g id bytes clk more (refresh : bool) :
  delivered generation given g → given !! id = Some bytes →
  deadline_passed (next_expiry_deadline g (if refresh then None else Some id)) (clk 0%nat) = false →
  ∃ g', sync_poll clk g generation id more refresh = Some (Ready (Ok bytes), g').
Proof.
  intros Hdel Hid Hd. pose proof (delivered_members _ _ _ Hdel) as Hdom. destruct Hdel as (Hwf & Hst & <- & Ha).
  assert (id ∈ dom (members g)) as Hin by (rewrite Hdom; by eapply elem_of_dom_2).
  destruct (sync_first_pass clk g id refresh Hwf) as (g2 & _ & Hdom2 & Hst2 & _ & _ & Ha2 & Hrun);
    [by apply elem_of_dom|done|].
  rewrite <- Hdom2 in Hin. apply elem_of_dom in Hin as [m Hm].
  rewrite Hrun. unfold sync_decide. rewrite Hst2, Hst. unfold with_member. rewrite Hm. cbn [panic_bind].
  eexists. do 2 f_equal. set (g4 := with_members g2 _).
  destruct (clear_deadline_spec g4) as [[-> _]|[-> _]]; cbn; by rewrite Ha2, Ha, Hid.
Qed.

(** ** Properties *)

(** C28: protocol selection succeeds exactly when there are members and some
    protocol is advertised by all of them; the winner is such a protocol, has
    the most first choices, and is the smallest name among those that do. *)
Theorem select_protocol_correct (ms : gmap string Member) :
  match select_protocol ms with
  | Ok name =>
      map_Forall (λ _ m, supports name m = true) ms ∧
      let votes := votes_for (common_protocols ms) (map_to_list ms).*2 in
      0 < votes name ∧
      ∀ other, map_Forall (λ _ m, supports other m = true) ms →
        votes other < votes name ∨ votes other = votes name ∧ String.le name other
  | Err e => e = InconsistentGroupProtocol ∧
      ¬ (ms ≠ ∅ ∧ ∃ name, map_Forall (λ _ m, supports name m = true) ms)
  end.
Proof.
  destruct (select_protocol ms) as [name|e] eqn:Hsel.
  - pose proof (proj1 (select_protocol_ok ms) (ex_intro _ name Hsel)) as [Hne _].
    destruct (select_protocol_winner _ _ Hsel) as ([_ Hc]%common_protocols_spec & Hpos & Hmax).
    cbn zeta. split_and!; [done|done|]. intros other Ho. by apply Hmax, common_protocols_spec.
  - split; [by eapply select_protocol_err|]. intros Hok%select_protocol_ok.
    destruct Hok as [name Hn]. congruence.
Qed.

(** The announced deadline is exact.  Expiring at [now] changes nothing if
    and only if [now] is before [next_expiry_deadline]: a waiting call sleeps
    neither past a pending expiry nor to an instant at which nothing expires. *)
Theorem next_expiry_deadline_exact (g : Group) (active : option string) (now now' : Z) :
  expire_stale_members now now' active g = g ↔
  match next_expiry_deadline g active with Some d => now < d | None => True end.
Proof.
  assert (match next_expiry_deadline g active with Some d => now < d | None => True end ↔
    ¬ (deadline_passed (next_expiry_deadline g active) now = true)) as ->.
  { unfold deadline_passed. destruct (next_expiry_deadline g active) as [d|]; [|done].
    rewrite bool_decide_eq_true. lia. }
  rewrite <- stale_iff_deadline, expire_noop. split.
  - intros Hall (id & m & Hm & Hs). by rewrite (Hall _ _ Hm) in Hs.
  - intros Hno id m Hm. apply not_true_iff_false. intros Hs. eauto.
Qed.

(** C27: a rebalance cannot hang.  Once its deadline has passed, one pass of the
    group's background task ends it.  The members that remain are exactly those
    that have rejoined, a leader among them stays the leader, and nothing else of
    them changes than the result of their join.  If there are none the group is
    empty; otherwise it starts the next generation, and the join of every one of
    them returns it. *)
Theorem deadline_ends_rebalance (clk : clock) (g : Group) (d : Z) :
  group_wf g → state g = PreparingRebalance → rebalance_deadline g = Some d → d ≤ clk 0%nat →
  let g' := (drive_group_deadlines clk g).2 in
  dom (members g') = dom (rejoined g) ∧ committed_offsets g' = committed_offsets g ∧
  if decide (rejoined g = ∅) then state g' = Empty ∧ generation_id g' = generation_id g
  else
    state g' = CompletingRebalance ∧ generation_id g' = saturating_add i32_max (generation_id g) 1 ∧
    (is_Some (rejoined g !! leader_member_id g) → leader_member_id g' = leader_member_id g) ∧
    is_Some (rejoined g !! leader_member_id g') ∧
    ∀ id m, rejoined g !! id = Some m →
      ∃ c, members g' !! id = Some (set_completed c m) ∧
        completed_join g' id (rebalance_epoch g) = Some (cj_result c) ∧
        jg_generation_id (cj_result c) = generation_id g' ∧
        jg_leader (cj_result c) = leader_member_id g'.
Proof.
  intros Hwf Hst Hd Hle. cbn zeta. unfold drive_group_deadlines.
  pose proof (expire_wf (clk 0%nat) (clk 1%nat) None g Hwf) as Hwf1.
  assert (deadline_passed (rebalance_deadline g) (clk 0%nat) = true) as Hp
    by (rewrite Hd; by apply bool_decide_true).
  pose proof (expire_preparing (clk 0%nat) (clk 1%nat) g Hwf Hst Hp) as (Hm1 & He1 & Hl1 & Hs1).
  rewrite <- (expire_generation (clk 0%nat) (clk 1%nat) None g), <- (expire_committed (clk 0%nat) (clk 1%nat) None g).
  set (g1 := expire_stale_members _ _ _ _) in *. rewrite <- Hm1, <- He1 in *.
  pose proof (complete_wf (clk 2%nat) g1 Hwf1) as Hwf2.
  pose proof (complete_committed (clk 2%nat) g1) as Hco. case_decide as Hne.
  - unfold complete_rebalance_if_ready, ready_to_complete. by rewrite Hs1.
  - assert (map_Forall (λ _ m, joined_epoch m = rebalance_epoch g1) (members g1)) as Hj.
    { intros id m Hm. rewrite Hm1 in Hm. apply map_lookup_filter_Some in Hm as [_ Hm]. cbn in Hm. congruence. }
    destruct (complete_ready (clk 2%nat) g1 Hwf1 Hs1 Hne Hj) as (Hs2 & Hg2 & Hl2 & He2 & results & Hr).
    destruct (complete_rebalance_if_ready (clk 2%nat) g1) as [r g2]. cbn [fst snd] in *.
    destruct Hwf2 as (_ & _ & _ & Hok). unfold state_ok in Hok. rewrite Hs2 in Hok.
    destruct Hok as (_ & _ & _ & Hag). split_and!; [|done|done|done|by rewrite Hl2| |].
    + apply set_eq. intros id. rewrite !elem_of_dom, Hr, fmap_is_Some. done.
    + destruct Hwf1 as (_ & _ & Hled & _). rewrite Hl2. by destruct (Hled Hne).
    + intros id m Hm. exists (results id). specialize (Hr id). rewrite Hm in Hr. cbn in Hr. split; [done|].
      destruct (Hag id _ Hr) as (_ & _ & [= Hc]). unfold completed_join. rewrite Hr. cbn. rewrite Hc. cbn.
      by rewrite decide_True.
Qed.

(** C35: join results.  In a group whose rebalance is complete, the pending join
    of every member returns at its next poll with the group's generation,
    protocol and leader; only the leader is given the list of members, which
    names every member exactly once. *)
Theorem join_result_correct (clk : clock) (g : Group) (id : string) (m : Member) :
  group_wf g → state g = CompletingRebalance ∨ state g = Stable → members g !! id = Some m →
  ∃ j, join_poll clk g id (rebalance_epoch g) = (Ready (Ok j), g) ∧
    jg_generation_id j = generation_id g ∧ jg_protocol_type j = protocol_type g ∧
    jg_protocol_name j = selected_protocol g ∧ jg_leader j = leader_member_id g ∧
    jg_member_id j = id ∧ supports (jg_protocol_name j) m = true ∧
    is_Some (members g !! jg_leader j) ∧
    (id ≠ jg_leader j → jg_members j = []) ∧
    (id = jg_leader j → jm_member_id <$> jg_members j ≡ₚ (map_to_list (members g)).*1).
Proof.
  intros (_ & _ & Hl & Hs) Hst Hm. unfold state_ok in Hs.
  assert (members g ≠ ∅ ∧ agreed g) as [Hne Hag] by (destruct Hst as [Hst|Hst]; rewrite Hst in Hs; tauto).
  destruct (Hag _ _ Hm) as (_ & Hsup & Hc). unfold join_poll, completed_join. rewrite Hm. cbn.
  rewrite Hc. cbn. rewrite decide_True by done. eexists. split; [reflexivity|]. cbn.
  split_and!; try done.
  - by apply Hl.
  - intros Hneq. by rewrite decide_False.
  - intros ->. rewrite decide_True by done. apply members_for_leader_keys.
    intros k mk Hk. by apply (Hag k mk).
Qed.

(** C26: assignments are delivered.  When the leader of a completed rebalance
    gives exactly one assignment to every member, its call returns its own and
    the group becomes stable.  From then on, after any number of further syncs
    and heartbeats in any order, by members or others, and until a member
    expires, the sync of every member returns the bytes the leader gave for it. *)
Theorem sync_delivers_assignments (clk : clock) (g : Group) (given : list SyncAssignment)
    (refresh : bool) :
  let id := leader_member_id g in
  group_wf g → state g = CompletingRebalance →
  NoDup (sa_member_id <$> given) → list_to_set (sa_member_id <$> given) = dom (members g) →
  deadline_passed (next_expiry_deadline g (if refresh then None else Some id)) (clk 0%nat) = false →
  ∃ mine g', sync_poll clk g (generation_id g) id (Some given) refresh
      = Some (Ready (Ok mine), g') ∧
    mkSyncAssignment id mine ∈ given ∧ state g' = Stable ∧ generation_id g' = generation_id g ∧
    dom (members g') = dom (members g) ∧
    ∀ g1 a clk' given' (refresh' : bool), rtc member_call g' g1 → a ∈ given →
      deadline_passed (next_expiry_deadline g1
        (if refresh' then None else Some (sa_member_id a))) (clk' 0%nat) = false →
      ∃ g2, sync_poll clk' g1 (generation_id g) (sa_member_id a) given' refresh'
        = Some (Ready (Ok (sa_assignment a)), g2) ∧ member_call g1 g2.
Proof.
  intros id Hwf Hst Hnd Hcov Hd.
  assert (∃ a, a ∈ given ∧ sa_member_id a = id) as (a0 & Ha0 & Hid).
  { pose proof Hwf as (_ & _ & Hl & Hs). unfold state_ok in Hs. rewrite Hst in Hs.
    destruct (Hl ltac:(tauto)) as [Hlead _]. apply elem_of_dom in Hlead. rewrite <- Hcov in Hlead.
    apply elem_of_list_to_set, list_elem_of_fmap in Hlead as (a & ? & ?). eauto. }
  assert (∀ a, a ∈ given → collect_assignments given !! sa_member_id a = Some (sa_assignment a))
    as Hcollect by (intros a Ha; by apply (collect_lookup given ∅)).
  destruct (sync_first_pass clk g id refresh Hwf) as (g2 & Hwf2 & Hdom & Hst2 & Hld & Hg2 & _ & Hrun);
    [apply elem_of_dom; rewrite <- Hcov, <- Hid; by apply elem_of_list_to_set, list_elem_of_fmap_2|done|].
  pose proof (sync_leader_spec (clk 0%nat) g2 id given Hwf2 ltac:(by rewrite Hst2)
    ltac:(apply elem_of_dom; rewrite Hdom, <- Hcov, <- Hid; by apply elem_of_list_to_set, list_elem_of_fmap_2)) as Hspec.
  rewrite (proj2 (assignment_covers_spec g2 given)) in Hspec by (by rewrite Hdom).
  rewrite Hg2 in Hspec. destruct Hspec as (g' & Hlead & Hwf' & Hst' & Ha' & Hgen' & _).
  assert (delivered (generation_id g) (collect_assignments given) g') as Hdel by (by split_and!).
  exists (sa_assignment a0), g'. split_and!; [|rewrite <- Hid; by destruct a0|done|done| |].
  - rewrite Hrun. unfold sync_decide. rewrite Hst2, Hst, decide_True by (by rewrite Hld).
    change (default [] (Some given)) with given. rewrite Hlead. cbn [panic_bind fst snd]. rewrite <- Hid, (Hcollect a0 Ha0). done.
  - rewrite (delivered_members _ _ _ Hdel), <- Hcov. change (collect_assignments given) with (collect_into given ∅).
    rewrite collect_dom. set_solver.
  - intros g1 a clk' given' refresh' Hcalls Ha Hd'.
    apply (rtc_delivered (generation_id g) (collect_assignments given)) in Hcalls; [|done].
    destruct (delivered_sync _ _ _ (sa_member_id a) (sa_assignment a) clk' given' refresh' Hcalls) as (g3 & Hs3);
      [by apply Hcollect|done|].
    exists g3. split; [done|]. by eapply call_sync.
Qed.

(** A commit that succeeds comes from a member of the current generation of a
    stable group, and afterwards each partition's fetched offset is the last one
    committed for it, or the previous one where the commit does not name it; a
    commit that fails changes no fetched offset. *)
Lemma commit_fetch_offsets (clk : clock) (c c' : Coordinator) (gid : string) (generation : Z)
    (id : string) (offsets : list OffsetCommit) (r : result GroupError ()) :
  commit_offsets clk c gid generation id offsets = (r, c') →
  match r with
  | Ok _ =>
      (∃ g', groups c' !! gid = Some g' ∧ state g' = Stable ∧ generation_id g' = generation ∧
        is_Some (members g' !! id)) ∧
      ∀ tp, fetch_offsets c' gid (Some [tp]) =
        match last_commit offsets tp with
        | Some o => [mkFetchedOffset (tp_topic tp) (tp_partition tp) (Some (oc_offset o))
            (oc_metadata o)]
        | None => fetch_offsets c gid (Some [tp])
        end
  | Err _ => ∀ requested, fetch_offsets c' gid requested = fetch_offsets c gid requested
  end.
Proof.
  unfold commit_offsets, on_group, fetch_offsets.
  destruct (groups c !! gid) as [g|] eqn:Hg; [|intros [= <- <-]; by rewrite Hg].
  unfold group_commit_offsets.
  pose proof (expire_committed (clk 0%nat) (clk 1%nat) None g) as Hoff.
  set (g1 := expire_stale_members _ _ _ _) in *.
  destruct (validate_member_and_generation g1 generation id) as [[]|e] eqn:Hv.
  2: { intros [= <- <-]. intros requested. cbn. rewrite lookup_insert_eq.
       unfold group_fetch_offsets. by rewrite Hoff. }
  case_decide as Hst; intros [= <- <-]; cbn; rewrite lookup_insert_eq.
  { intros requested. unfold group_fetch_offsets. by rewrite Hoff. }
  apply validate_ok in Hv as [Hm Hgen]. split; [by eexists|].
  intros tp. unfold group_fetch_offsets. cbn. rewrite store_offsets_lookup, Hoff.
  by destruct (last_commit offsets tp).
Qed.

Fixpoint allocate_all (c : Coordinator) (clients : list string) : list string * Coordinator :=
  match clients with
  | [] => ([], c)
  | client :: clients =>
      let '(id, c) := allocate_member_id c client in
      let '(ids, c) := allocate_all c clients in (id :: ids, c)
  end.

Lemma allocate_all_fresh c clients n client :
  0 ≤ n < next_member_id c → next_member_id c + len clients ≤ u64_max →
  member_id_for client n ∉ (allocate_all c clients).1.
Proof.
  revert c. induction clients as [|x clients IH]; intros c Hn Hmax; cbn; [by apply not_elem_of_nil|].
  rewrite len_cons in Hmax. pose proof (len_nonneg clients).
  assert (wrap_unsigned 64 (next_member_id c + 1) = next_member_id c + 1) as Hw.
  { apply wrap_unsigned_small. unfold in_unsigned, u64_max in *. lia. }
  set (c1 := mkCoordinator _ _ _). destruct (allocate_all c1 clients) as [ids c2] eqn:Ha. cbn.
  apply not_elem_of_cons. split.
  - intros Heq%member_id_for_inj; lia.
  - specialize (IH c1). rewrite Ha in IH. apply IH; unfold c1; cbn; lia.
Qed.

(** The coordinator never hands the same member identifier to two clients,
    whatever names they give themselves, until its 64-bit counter is used up. *)
Theorem member_ids_unique (c : Coordinator) (clients : list string) :
  0 ≤ next_member_id c → next_member_id c + len clients ≤ u64_max →
  NoDup (allocate_all c clients).1.
Proof.
  revert c. induction clients as [|x clients IH]; intros c Hn Hmax; cbn; [constructor|].
  rewrite len_cons in Hmax. pose proof (len_nonneg clients).
  assert (wrap_unsigned 64 (next_member_id c + 1) = next_member_id c + 1) as Hw.
  { apply wrap_unsigned_small. unfold in_unsigned, u64_max in *. lia. }
  set (c1 := mkCoordinator _ _ _).
  pose proof (allocate_all_fresh c1 clients (next_member_id c) x) as Hfresh.
  specialize (IH c1). destruct (allocate_all c1 clients) as [ids c2]. cbn in *.
  apply NoDup_cons. split; [apply Hfresh; unfold c1; cbn; lia|apply IH; unfold c1; cbn; lia].
Qed.

(** ** Witnesses *)

Definition at_time (t : Z) : clock := λ _, t.

Definition sample_join (id client : string) : JoinRequest :=
  mkJoinRequest "g" id client 10000 60000 "consumer"
    [mkJoinProtocol "range" [Byte.x01]; mkJoinProtocol "roundrobin" []].

Definition after_join (g : Group) (request : JoinRequest) : Group :=
  from_option snd g (join_enter (at_time 5) g request true).

(** A group of one member, its rebalance complete; then a second one joins. *)
Definition group_a : Group := Eval vm_compute in after_join Group_new (sample_join "a-1" "a").
Definition group_ab : Group := Eval vm_compute in after_join group_a (sample_join "b-2" "b").

Lemma after_join_wf g request r g' :
  group_wf g → request_ok request → join_enter (at_time 5) g request true = Some (r, g') →
  group_wf g'.
Proof.
  intros Hwf Hreq He. destruct (join_enter_wf (at_time 5) g request true Hwf Hreq)
    as (r1 & g1 & He1 & Hwf1). rewrite He in He1. by injection He1 as _ ->.
Qed.

Lemma group_a_wf : group_wf group_a.
Proof.
  apply (after_join_wf Group_new (sample_join "a-1" "a") (JoinWaiting 1));
    [apply Group_new_wf|done|vm_compute; reflexivity].
Qed.

Lemma group_ab_wf : group_wf group_ab.
Proof.
  apply (after_join_wf group_a (sample_join "b-2" "b") (JoinWaiting 2));
    [apply group_a_wf|done|vm_compute; reflexivity].
Qed.

(** The member that came first does not rejoin: the second one is left. *)
Lemma deadline_ends_rebalance_witness :
  let g' := (drive_group_deadlines (at_time 60000000005) group_ab).2 in
  dom (members group_ab) = {["a-1"; "b-2"]} ∧ dom (members g') = {["b-2"]} ∧
  state g' = CompletingRebalance ∧ generation_id g' = 2 ∧ leader_member_id g' = "b-2".
Proof.
  destruct (deadline_ends_rebalance (at_time 60000000005) group_ab 60000000005
    group_ab_wf eq_refl eq_refl ltac:(vm_compute; discriminate)) as (Hdom & _ & Hrest).
  split; [vm_compute; reflexivity|]. split; [rewrite Hdom; vm_compute; reflexivity|].
  rewrite decide_False in Hrest by (intros Heq; apply (f_equal size) in Heq; vm_compute in Heq; discriminate).
  destruct Hrest as (Hs & Hg & _). split; [exact Hs|]. split; [exact Hg|vm_compute; reflexivity].
Defined.

Lemma join_result_correct_witness :
  ∃ m j, members group_a !! "a-1" = Some m ∧
    join_poll (at_time 6) group_a "a-1" 1 = (Ready (Ok j), group_a) ∧
    jg_generation_id j = 1 ∧ jg_leader j = "a-1".
Proof.
  assert (∃ m, members group_a !! "a-1" = Some m) as [m Hm] by (eexists; vm_compute; reflexivity).
  exists m.
  destruct (join_result_correct (at_time 6) group_a "a-1" m group_a_wf (or_introl eq_refl) Hm)
    as (j & Hj & Hgen & _ & _ & Hl & _).
  exists j. split; [exact Hm|]. split; [exact Hj|]. split; [exact Hgen|exact Hl].
Defined.

Definition sample_given : list SyncAssignment := [mkSyncAssignment "a-1" [Byte.x07]].

(** The first member rejoins, which completes the rebalance of the two. *)
Definition group_both : Group := Eval vm_compute in after_join group_ab (sample_join "a-1" "a").

Lemma group_both_wf : group_wf group_both.
Proof.
  apply (after_join_wf group_ab (sample_join "a-1" "a") (JoinWaiting 2));
    [apply group_ab_wf|done|vm_compute; reflexivity].
Qed.

Definition both_given : list SyncAssignment :=
  [mkSyncAssignment "b-2" [Byte.x08]; mkSyncAssignment "a-1" [Byte.x07]].

Definition synced (g : Group) (id : string) (now : Z) (given : list SyncAssignment) : Group :=
  from_option snd g (sync_poll (at_time now) g 2 id (Some given) true).
Definition both_synced_1 : Group := Eval vm_compute in synced group_both "a-1" 6 both_given.
Definition both_synced_2 : Group := Eval vm_compute in synced both_synced_1 "b-2" 7 [].

(** The leader syncs, then its follower, twice. *)
Lemma sync_delivers_assignments_witness :
  ∃ g3, sync_poll (at_time 6) group_both 2 "a-1" (Some both_given) true = Some (Ready (Ok [Byte.x07]), both_synced_1) ∧
    sync_poll (at_time 7) both_synced_1 2 "b-2" (Some []) true = Some (Ready (Ok [Byte.x08]), both_synced_2) ∧
    sync_poll (at_time 8) both_synced_2 2 "b-2" (Some []) true = Some (Ready (Ok [Byte.x08]), g3).
Proof.
  assert (sync_poll (at_time 6) group_both 2 "a-1" (Some both_given) true
    = Some (Ready (Ok [Byte.x07]), both_synced_1)) as H1 by (vm_compute; reflexivity).
  assert (sync_poll (at_time 7) both_synced_1 2 "b-2" (Some []) true
    = Some (Ready (Ok [Byte.x08]), both_synced_2)) as H2 by (vm_compute; reflexivity).
  destruct (sync_delivers_assignments (at_time 6) group_both both_given true group_both_wf eq_refl) as
    (mine & g1 & Hp & _ & _ & _ & _ & Hnext).
  - apply (bool_decide_unpack _). vm_compute. exact I.
  - vm_compute. reflexivity.
  - vm_compute. reflexivity.
  - change (sync_poll (at_time 6) group_both 2 "a-1" (Some both_given) true = Some (Ready (Ok mine), g1)) in Hp.
    rewrite H1 in Hp. injection Hp as _ <-.
    assert (mkSyncAssignment "b-2" [Byte.x08] ∈ both_given) as Hb by left.
    assert (member_call both_synced_1 both_synced_2) as Hc2.
    { eapply call_sync; [|exact H2]. vm_compute. reflexivity. }
    destruct (Hnext both_synced_2 _ (at_time 8) (Some []) true (rtc_once _ _ Hc2) Hb) as (g3 & H3 & _);
      [vm_compute; reflexivity|].
    exists g3. split; [exact H1|]. split; [exact H2|exact H3].
Defined.

Definition stable_coordinator : Coordinator := Eval vm_compute in
  mkCoordinator {[ "g" := from_option snd group_a
    (sync_poll (at_time 6) group_a 1 "a-1" (Some sample_given) true) ]} ∅ 2.

End GroupsProperties.
