(* ===== verification/GroupsOrigin.v ===== *)
(** * Where the contents of a group come from

    The coordinator stores and hands out strings and bytes of earlier requests:
    identifiers, protocol names, metadata, assignments, committed offsets.  This
    file shows that it makes up none of its own.  For any property of strings and
    of byte strings that the empty ones have, if all requests have it, so have
    all contents of all groups, and all results of the operations.  The only
    strings the coordinator creates are the identifiers of new members.

    [limit] bounds the members of a group, and so the lists a leader is given. *)

From S2P Require Import Prelude Groups GroupsCorrect.
Import Groups GroupsCorrect.
Open Scope Z_scope.

Module GroupsOrigin.

Lemma map_Forall_sub {K A : Type} `{Countable K} (P : K → A → Prop) (m m' : gmap K A) :
  m' ⊆ m → map_Forall P m → map_Forall P m'.
Proof. intros Hsub Hm k x Hx. apply Hm. by eapply lookup_weaken. Qed.

Section origin.
  Context (good : string → Prop) (fine : list byte → Prop) (limit : nat).
  Context (good_empty : good "") (fine_empty : fine []).

Definition protocol_from (p : JoinProtocol) : Prop := good (jp_name p) ∧ fine (jp_metadata p).

Definition joined_from (j : JoinedGroup) : Prop :=
  good (jg_protocol_type j) ∧ good (jg_protocol_name j) ∧ good (jg_leader j) ∧ good (jg_member_id j) ∧
  Forall (λ m, good (jm_member_id m) ∧ fine (jm_metadata m)) (jg_members j) ∧
  (length (jg_members j) ≤ limit)%nat.

Definition opt_from {A : Type} (P : A → Prop) (o : option A) : Prop :=
  match o with Some a => P a | None => True end.

Definition member_from (id : string) (m : Member) : Prop :=
  good id ∧ good (client_id m) ∧ Forall protocol_from (protocols m) ∧
  opt_from (λ c, joined_from (cj_result c)) (m_completed_join m).

Definition offset_from (tp : TopicPartition) (o : StoredOffset) : Prop :=
  good (tp_topic tp) ∧ opt_from good (so_metadata o).

Record group_from (g : Group) : Prop := mkGroupFrom {
  from_type : good (protocol_type g);
  from_protocol : good (selected_protocol g);
  from_leader : good (leader_member_id g);
  from_members : map_Forall member_from (members g);
  from_assignments : map_Forall (λ _, fine) (assignments g);
  from_committed : map_Forall offset_from (committed_offsets g)
}.

Definition request_from (r : JoinRequest) : Prop :=
  good (jr_group_id r) ∧ good (jr_member_id r) ∧ good (jr_client_id r) ∧ good (jr_protocol_type r) ∧
  Forall protocol_from (jr_protocols r).

Definition commit_from (o : OffsetCommit) : Prop := good (oc_topic o) ∧ opt_from good (oc_metadata o).

(** A smaller group. *)
Definition within (n : nat) (g : Group) : Prop := group_from g ∧ (size (members g) ≤ n)%nat.

Lemma Group_new_from : group_from Group_new.
Proof. split; cbn; (done || apply map_Forall_empty). Qed.

(** ** Rebalances *)

Lemma begin_rebalance_within n now g : within n g → within n (begin_rebalance now g).
Proof. intros [[] Hsize]. split; [|exact Hsize]. split; cbn; (done || apply map_Forall_empty). Qed.

Lemma min_key_good ms : map_Forall member_from ms → good (default "" (min_key ms)).
Proof.
  intros Hms. destruct (decide (ms = ∅)) as [->|Hne].
  - unfold min_key. by rewrite map_to_list_empty.
  - destruct (min_key_in ms Hne) as (k & -> & m & Hm). by apply (Hms k m).
Qed.

Lemma transition_within n now g : within n g → within n (transition_after_removal now g).
Proof.
  intros [Hg Hsize]. unfold transition_after_removal. case_decide.
  { split; [|exact Hsize]. destruct Hg. split; cbn; (done || apply map_Forall_empty). }
  set (g' := if decide _ then g else _).
  assert (within n g') as Hg'.
  { unfold g'. case_decide; [done|]. split; [|exact Hsize]. destruct Hg. split; cbn; try done.
    by apply min_key_good. }
  clearbody g'. case_decide; [by apply begin_rebalance_within|]. destruct Hg' as [[] Hs].
  split; [|exact Hs]. split; cbn; (done || apply map_Forall_empty).
Qed.

Lemma remove_within n g ms a :
  within n g → ms ⊆ members g → a ⊆ assignments g → within n (with_assignments (with_members g ms) a).
Proof.
  intros [[] Hsize] Hms Ha. split.
  - split; cbn; try done; by eapply map_Forall_sub.
  - cbn. etrans; [by apply map_subseteq_size|done].
Qed.

Lemma expire_within n now now' active g : within n g → within n (expire_stale_members now now' active g).
Proof.
  intros Hg. unfold expire_stale_members. case_decide; [done|].
  apply transition_within, remove_within; [done|apply map_subseteq_difference_l; done|apply map_filter_subseteq].
Qed.

Lemma find_from (P : JoinProtocol → bool) l p :
  Forall protocol_from l → List.find P l = Some p → protocol_from p.
Proof. intros Hl [Hin _]%List.find_some. rewrite List.Forall_forall in Hl. by apply Hl. Qed.

Lemma selected_good ms name : map_Forall member_from ms → select_protocol ms = Ok name → good name.
Proof.
  intros Hms Hsel. assert (ms ≠ ∅) as Hne by (by intros ->).
  apply select_protocol_winner in Hsel as (Hcommon & _).
  apply common_protocols_spec in Hcommon as [_ Hall].
  destruct (map_choose ms Hne) as (id & m & Hm). destruct (Hms _ _ Hm) as (_ & _ & Hps & _).
  specialize (Hall _ _ Hm). apply supports_spec in Hall as (p & Hin & <-).
  rewrite Forall_forall in Hps. by apply Hps.
Qed.

Lemma members_for_leader_from g :
  group_from g → Forall (λ m, good (jm_member_id m) ∧ fine (jm_metadata m)) (members_for_leader g) ∧
    (length (members_for_leader g) ≤ size (members g))%nat.
Proof.
  intros [_ _ _ Hms _ _]. unfold members_for_leader. split.
  - apply Forall_forall. intros jm Hin. rewrite merge_sort_Permutation in Hin.
    apply list_elem_of_omap in Hin as ([id m] & Hin & Hjm). apply elem_of_map_to_list in Hin.
    destruct (Hms _ _ Hin) as (Hid & _ & Hps & _).
    destruct (List.find _ (protocols m)) as [p|] eqn:Hf; [|done]. injection Hjm as <-.
    apply (find_from _ _ _ Hps) in Hf as [_ ?]. done.
  - rewrite merge_sort_Permutation, <- length_map_to_list.
    generalize (map_to_list (members g)). intros l. induction l as [|[id m] l IH]; cbn; [done|].
    destruct (List.find _ _); cbn; lia.
Qed.

Lemma complete_within n now g :
  (n ≤ limit)%nat → within n g → within n (complete_rebalance_if_ready now g).2.
Proof.
  intros Hn [Hg Hsize]. unfold complete_rebalance_if_ready. case_match; [done|].
  destruct (select_protocol (members g)) as [selected|] eqn:Hsel; [|done]. cbn [snd].
  set (g1 := with_deadline _ _).
  assert (group_from g1) as Hg1.
  { destruct Hg. split; cbn; try (done || apply map_Forall_empty). by eapply selected_good. }
  destruct (members_for_leader_from g1 Hg1) as [Hlead Hlen].
  assert (members g1 = members g) as Hms by done. rewrite Hms in Hlen.
  set (leaders := members_for_leader g1) in *. clearbody leaders.
  split.
  - destruct Hg1. split; cbn [protocol_type selected_protocol leader_member_id members assignments
      committed_offsets notify_waiters with_members]; try done.
    intros id m. rewrite map_lookup_imap. destruct (members g1 !! id) as [m0|] eqn:Hm; [|done].
    cbn [mbind option_bind]. intros [= <-]. destruct (from_members0 _ _ Hm) as (Hid & Hcl & Hps & _).
    split_and!; [done..|]. cbn. split_and!; [done..| |]; case_decide; (done || cbn; lia).
  - cbn. etrans; [|exact Hsize]. apply Nat.eq_le_incl. rewrite <- !size_dom. f_equal. apply set_eq. intros id.
    rewrite !elem_of_dom, map_lookup_imap. destruct (members g !! id); cbn; naive_solver.
Qed.

Lemma completed_join_from g id epoch j :
  group_from g → completed_join g id epoch = Some j → joined_from j.
Proof.
  intros [_ _ _ Hms _ _]. unfold completed_join.
  destruct (members g !! id) as [m|] eqn:Hm; [|done]. cbn.
  destruct (m_completed_join m) as [c|] eqn:Hc; [|done]. cbn. case_decide; [|done]. intros [= <-].
  destruct (Hms _ _ Hm) as (_ & _ & _ & Hj). by rewrite Hc in Hj.
Qed.

(** ** Changes that do not touch the contents *)

Lemma same_within n g g' :
  protocol_type g' = protocol_type g → selected_protocol g' = selected_protocol g →
  leader_member_id g' = leader_member_id g → members g' = members g → assignments g' = assignments g →
  committed_offsets g' = committed_offsets g → within n g → within n g'.
Proof.
  intros Ht Hp Hl Hm Ha Hc [[] Hsize]. split; [split|]; by rewrite ?Ht, ?Hp, ?Hl, ?Hm, ?Ha, ?Hc.
Qed.

Lemma clear_deadline_within n g : within n g → within n (clear_rebalance_deadline_if_all_synced g).
Proof. intros Hg. unfold clear_rebalance_deadline_if_all_synced. case_match; [by apply (same_within n g)|done]. Qed.

Lemma extend_deadline_within n now g : within n g → within n (extend_rebalance_deadline now g).
Proof. intros Hg. unfold extend_rebalance_deadline. repeat case_match; first [done|by apply (same_within n g)]. Qed.

Lemma within_le n n' g : (n ≤ n')%nat → within n g → within n' g.
Proof. intros Hn [Hg Hsize]. split; [done|]. lia. Qed.

Lemma with_members_within n g ms :
  within n g → map_Forall member_from ms → (size ms ≤ n)%nat → within n (with_members g ms).
Proof. intros [[] _] Hms Hsize. by split; [split|]. Qed.

Lemma with_member_within n g id f g' :
  (∀ m, member_from id m → member_from id (f m)) → with_member g id f = Some g' → within n g → within n g'.
Proof.
  intros Hf Hw Hg. pose proof Hg as [[_ _ _ Hms _ _] Hsize]. unfold with_member in Hw.
  destruct (members g !! id) as [m|] eqn:Hm; [|done]. injection Hw as <-.
  apply with_members_within; [done| |].
  - apply map_Forall_insert_2; [by apply Hf, Hms|done].
  - by rewrite map_size_insert_Some by done.
Qed.

(** ** Joining *)

Lemma joining_member_from g now epoch request :
  group_from g → request_from request → member_from (jr_member_id request) (joining_member g now epoch request).
Proof.
  intros [_ _ _ Hms _ _] (_ & Hid & Hcl & _ & Hps). split_and!; [done..|]. cbn.
  destruct (members g !! jr_member_id request) as [m|] eqn:Hm; [|done]. by apply (Hms _ _ Hm).
Qed.

Lemma join_member_within n clk g request may_add :
  (S n ≤ limit)%nat → within n g → request_from request → within (S n) (join_member clk g request may_add).2.
Proof.
  intros Hn Hg Hr. pose proof Hr as (_ & Hid & _ & Htype & _). unfold join_member.
  set (epoch := if _ : bool then _ else _). set (ms := <[_ := _]> (members g)).
  destruct (select_protocol ms); [|cbn; eapply within_le; [|done]; lia].
  assert (within (S n) (with_members g ms)) as Hg1.
  { apply with_members_within; [eapply within_le; [|done]; lia| |].
    - apply map_Forall_insert_2; [apply joining_member_from; [apply Hg|done]|apply Hg].
    - unfold ms. rewrite map_size_insert. destruct Hg as [_ Hs]. destruct (members g !! _); cbn; lia. }
  set (g1 := with_members g ms) in *. clearbody g1.
  set (g2 := if _ : bool then _ else _).
  assert (within (S n) g2) as Hg2.
  { unfold g2. case_match; [by apply begin_rebalance_within|]. case_match; [by apply extend_deadline_within|done]. }
  clearbody g2. set (g3 := with_protocol_type g2 _).
  assert (within (S n) g3) as Hg3 by (destruct Hg2 as [[] ?]; by split; [split|]).
  clearbody g3. set (g4 := if decide _ then _ else _).
  assert (within (S n) g4) as Hg4.
  { unfold g4. case_decide; [|done]. destruct Hg3 as [[] ?]. by split; [split|]. }
  clearbody g4. pose proof (complete_within (S n) (clk 3%nat) g4 Hn Hg4) as Hg5.
  by destruct (complete_rebalance_if_ready (clk 3%nat) g4) as [[] g5].
Qed.

Lemma cached_join_from g id request j :
  group_from g → cached_join g id request = Some j → joined_from j.
Proof.
  intros [_ _ _ Hms _ _]. unfold cached_join. destruct (members g !! id) as [m|] eqn:Hm; [|done]. cbn.
  destruct (join_matches m request); [|done]. destruct (m_completed_join m) as [c|] eqn:Hc; [|done]. cbn.
  case_decide; [|done]. case_match; [|done]. intros [= <-].
  destruct (Hms _ _ Hm) as (_ & _ & _ & Hj). by rewrite Hc in Hj.
Qed.

Definition entered_from (e : entered) : Prop :=
  match e with
  | JoinReturned (Ok (Joined j)) => joined_from j
  | JoinReturned (Ok (MemberIdRequired _)) => False
  | _ => True
  end.

Lemma join_member_entered clk g request may_add : entered_from (join_member clk g request may_add).1.
Proof. unfold join_member. by repeat case_match. Qed.

Lemma join_enter_within n clk g request may_add e g' :
  (S n ≤ limit)%nat → within n g → request_from request →
  join_enter clk g request may_add = Some (e, g') → entered_from e ∧ within (S n) g'.
Proof.
  intros Hn Hg Hr. unfold join_enter.
  apply (expire_within n (clk 0%nat) (clk 1%nat) None) in Hg.
  set (g1 := expire_stale_members _ _ _ _) in *. clearbody g1.
  assert (within (S n) g1) as Hg1 by (eapply within_le; [|done]; lia).
  case_match; [by intros [= <- <-]|]. case_match; [by intros [= <- <-]|].
  destruct (cached_join g1 (jr_member_id request) request) as [j|] eqn:Hj.
  - apply cached_join_from in Hj; [|apply Hg].
    destruct (with_member g1 _ _) as [g2|] eqn:Hw; [|done]. cbn. intros [= <- <-]. split; [done|].
    eapply with_member_within; [|done|done]. done.
  - intros [= Heq]. pose proof (join_member_entered clk g1 request may_add) as He.
    pose proof (join_member_within n clk g1 request may_add Hn Hg Hr) as Hw. by rewrite Heq in He, Hw.
Qed.

Lemma join_poll_within n clk g id epoch :
  (n ≤ limit)%nat → within n g →
  match (join_poll clk g id epoch).1 with Ready (Ok j) => joined_from j | _ => True end ∧
  within n (join_poll clk g id epoch).2.
Proof.
  intros Hn Hg. unfold join_poll. destruct (completed_join g id epoch) as [j|] eqn:Hj.
  { apply completed_join_from in Hj; [done|apply Hg]. }
  case_decide; [done|]. case_decide; [done|].
  apply (expire_within n (clk 0%nat) (clk 1%nat) (Some id)) in Hg.
  set (g1 := expire_stale_members _ _ _ _) in *. clearbody g1.
  apply (complete_within n (clk 2%nat) _ Hn) in Hg.
  destruct (complete_rebalance_if_ready (clk 2%nat) g1) as [[] g2]; cbn in Hg; [|done].
  destruct (completed_join g2 id epoch) as [j|] eqn:Hj2; [|done].
  apply completed_join_from in Hj2; [done|apply Hg].
Qed.

(** ** Synchronising *)

Definition given_from (given : list SyncAssignment) : Prop := Forall (λ a, fine (sa_assignment a)) given.

Lemma collect_from given : given_from given → map_Forall (λ _, fine) (collect_assignments given).
Proof.
  unfold collect_assignments. assert (map_Forall (λ _, fine) (∅ : gmap string (list byte))) as Hacc
    by apply map_Forall_empty. revert Hacc. generalize (∅ : gmap string (list byte)).
  induction given as [|a given IH]; intros acc Hacc Hg; [done|]. apply Forall_cons in Hg as [Ha Hg].
  apply IH; [|done]. by apply map_Forall_insert_2.
Qed.

Lemma assigned_fine {E : Type} g id a (e : E) :
  map_Forall (λ _, fine) (assignments g) → ok_or (assignments g !! id) e = Ok a → fine a.
Proof. intros Hg. destruct (assignments g !! id) as [a'|] eqn:Ha; [|done]. intros [= <-]. by apply (Hg id). Qed.

Lemma sync_leader_within n now generation g id given r g' :
  within n g → given_from given → sync_leader now generation g id given = Some (r, g') →
  (∀ a, r = Ok a → fine a) ∧ within n g'.
Proof.
  intros Hg Hgiven. unfold sync_leader. case_match; [by intros [= <- <-]|].
  destruct (with_member g id (set_synced generation)) as [g1|] eqn:Hw; [|done]. cbn [panic_bind].
  apply (with_member_within n) in Hw; [|done|done].
  set (g2 := with_members (with_assignments g1 _) _).
  assert (within n g2) as Hg2.
  { apply with_members_within.
    - destruct Hw as [[] ?]. split; [split|]; cbn; try done. by apply collect_from.
    - cbn. apply map_Forall_fmap. destruct Hw as [[_ _ _ Hms _ _] _]. eapply map_Forall_impl; [exact Hms|].
      intros i m Hm. cbn. by case_decide.
    - cbn. rewrite map_size_fmap. apply Hw. }
  clearbody g2. set (g3 := clear_rebalance_deadline_if_all_synced _).
  assert (within n g3) as Hg3 by (apply clear_deadline_within; by apply (same_within n g2)).
  clearbody g3. intros [= <- <-]. split; [|by apply (same_within n g3)].
  intros a. apply assigned_fine, Hg3.
Qed.

Definition synced_from (p : poll (list byte)) : Prop :=
  match p with Ready (Ok a) => fine a | _ => True end.

Lemma sync_poll_within n clk g generation id given refresh p g' :
  within n g → given_from (default [] given) → sync_poll clk g generation id given refresh = Some (p, g') →
  synced_from p ∧ within n g'.
Proof.
  intros Hg Hgiven. unfold sync_poll. set (active := if refresh then _ else _).
  apply (expire_within n (clk 0%nat) (clk 1%nat) active) in Hg.
  set (g1 := expire_stale_members _ _ _ _) in *. clearbody g1.
  destruct (validate_member_and_generation g1 generation id); [|by intros [= <- <-]].
  destruct (if refresh then with_member _ _ _ else Some g1) as [g2|] eqn:Hr; [|done]. cbn [panic_bind].
  assert (within n g2) as Hg2.
  { destruct refresh; [|by injection Hr as <-]. by eapply with_member_within; [|exact Hr|done]. }
  clear Hr. destruct (state g2); [by intros [= <- <-]..| |].
  - case_decide.
    + destruct (sync_leader _ _ _ _ _) as [[r g3]|] eqn:Hl; [|done]. cbn. intros [= <- <-].
      apply (sync_leader_within n) in Hl as [Ha Hg3]; [|done|done]. split; [|done].
      destruct r; [by apply Ha|done].
    + destruct (with_member g2 _ _) as [g3|] eqn:Hw; [|done]. cbn. intros [= <- <-]. split; [done|].
      by eapply with_member_within; [|exact Hw|done].
  - destruct (with_member g2 _ _) as [g3|] eqn:Hw; [|done]. cbn [panic_bind].
    apply (with_member_within n) in Hw; [|done|done]. apply clear_deadline_within in Hw.
    set (g4 := clear_rebalance_deadline_if_all_synced g3) in *. clearbody g4.
    intros [= <- <-]. split; [|by apply (same_within n g4)]. unfold synced_from.
    destruct (ok_or _ _) eqn:Ha; [|done]. eapply assigned_fine; [|exact Ha]. apply Hw.
Qed.

(** ** The other operations *)

Lemma group_heartbeat_within n clk g generation id :
  within n g → within n (group_heartbeat clk g generation id).2.
Proof.
  intros Hg. unfold group_heartbeat. apply (expire_within n (clk 0%nat) (clk 1%nat) None) in Hg.
  case_match; [|done]. destruct (with_member _ _ _) as [g1|] eqn:Hw; [|done].
  apply (with_member_within n) in Hw; [|done|done]. by case_match.
Qed.

Lemma group_leave_within n clk g id :
  (n ≤ limit)%nat → within n g → within n (group_leave clk g id).2.
Proof.
  intros Hn Hg. unfold group_leave. apply (expire_within n (clk 0%nat) (clk 1%nat) None) in Hg.
  case_decide; [done|]. set (g1 := with_assignments _ _).
  assert (within n g1) as Hg1 by (apply remove_within; [done|apply delete_subseteq..]). clearbody g1.
  apply (transition_within n (clk 2%nat)), (complete_within n (clk 3%nat) _ Hn) in Hg1.
  by destruct (complete_rebalance_if_ready _ _) as [[] ?].
Qed.

Lemma store_offsets_from stored offsets :
  map_Forall offset_from stored → Forall commit_from offsets →
  map_Forall offset_from (store_offsets stored offsets).
Proof.
  intros Hs Ho. revert stored Hs. induction Ho as [|o offsets Ho _ IH]; intros stored Hs; [done|].
  apply IH. by apply map_Forall_insert_2.
Qed.

Lemma group_commit_within n clk g generation id offsets :
  within n g → Forall commit_from offsets → within n (group_commit_offsets clk g generation id offsets).2.
Proof.
  intros Hg Ho. unfold group_commit_offsets. apply (expire_within n (clk 0%nat) (clk 1%nat) None) in Hg.
  case_match; [|done]. case_decide; [done|]. destruct Hg as [[] ?].
  split; [split|]; cbn; try done. by apply store_offsets_from.
Qed.

Definition description_from (d : GroupDescription) : Prop :=
  good (gd_protocol_type d) ∧ good (gd_protocol_name d) ∧ (length (gd_members d) ≤ limit)%nat ∧
  Forall (λ m, good (gm_member_id m) ∧ good (gm_client_id m) ∧ fine (gm_metadata m) ∧ fine (gm_assignment m))
    (gd_members d).

Lemma group_describe_within n clk g id :
  (n ≤ limit)%nat → within n g →
  description_from (group_describe clk g id).1 ∧ within n (group_describe clk g id).2.
Proof.
  intros Hn Hg. unfold group_describe. apply (expire_within n (clk 0%nat) (clk 1%nat) None) in Hg.
  set (g1 := expire_stale_members _ _ _ _) in *. clearbody g1. cbn [fst snd]. split; [|done].
  destruct Hg as [[Ht Hp _ Hms Has _] Hsize]. split_and!; cbn [gd_protocol_type gd_protocol_name gd_members];
    [done|done| |].
  - rewrite merge_sort_Permutation, length_fmap, length_map_to_list. lia.
  - apply Forall_forall. intros d Hd. rewrite merge_sort_Permutation in Hd.
    apply list_elem_of_fmap in Hd as ([i m] & -> & Hin). apply elem_of_map_to_list in Hin.
    destruct (Hms _ _ Hin) as (Hi & Hcl & Hps & _). split_and!; cbn; [done|done| |].
    + destruct (List.find _ (protocols m)) as [p|] eqn:Hf; [|done]. by apply (find_from _ _ _ Hps) in Hf as [_ ?].
    + destruct (assignments g1 !! i) as [a|] eqn:Ha; [|done]. by apply (Has i).
Qed.

Lemma drive_within n clk g : (n ≤ limit)%nat → within n g → within n (drive_group_deadlines clk g).2.
Proof.
  intros Hn Hg. unfold drive_group_deadlines. apply (expire_within n (clk 0%nat) (clk 1%nat) None) in Hg.
  apply (complete_within n (clk 2%nat) _ Hn) in Hg. by destruct (complete_rebalance_if_ready _ _).
Qed.

Definition fetched_from (o : FetchedOffset) : Prop := good (fo_topic o) ∧ opt_from good (fo_metadata o).

Lemma group_fetch_from g requested :
  group_from g → Forall (λ tp, good (tp_topic tp)) (default [] requested) →
  Forall fetched_from (group_fetch_offsets g requested).
Proof.
  intros [_ _ _ _ _ Hc] Hr. unfold group_fetch_offsets. apply Forall_forall. intros o Ho.
  rewrite merge_sort_Permutation in Ho. destruct requested as [requested|].
  - apply list_elem_of_fmap in Ho as (tp & -> & Htp). rewrite Forall_forall in Hr. split; [by apply Hr|].
    cbn. destruct (committed_offsets g !! tp) as [so|] eqn:Hso; [|done]. apply (Hc _ _ Hso).
  - apply list_elem_of_fmap in Ho as ([tp so] & -> & Hin). apply elem_of_map_to_list in Hin.
    apply (Hc _ _ Hin).
Qed.
End origin.
End GroupsOrigin.
