(* ===== verification/Broker.v ===== *)
(** * The broker state and the programs that run on it

    [src/src/broker/mod.rs] and the shape of the request handlers under
    [src/src/kafka/].  A handler is an [async fn] over the shared
    [BrokerState]: it runs from one lock to the next and other handlers run in
    between.  [prog A] is such a computation: it returns a value, or it makes
    one atomic step on the state (the code under one lock) and goes on.
    [None] is a panic.

    [wp] is a rely/guarantee triple on programs: between two steps of the
    program the state may change in any way that keeps the invariant and is
    allowed by the rely relation, and every step of the program keeps the
    invariant and is itself allowed to others.  A triple therefore holds
    whatever runs concurrently. *)

From S2P Require Import Prelude Records Partition PartitionCorrect Producers Topics TopicsCorrect.
From S2P Require Import Groups GroupsCorrect.
Open Scope Z_scope.

Module Broker.

(* @ src/src/broker/mod.rs 15-23 BrokerState *)
Record BrokerState : Type := mkBrokerState {
  broker_id : Z;
  auto_create_topics : bool;
  force_auto_create_topics : bool;
  topics : Topics.TopicCatalog;
  groups : Groups.Coordinator;
  producers : Producers.ProducerCoordinatorInner;
  append_notification : nat
}.

(* @ src/src/broker/mod.rs 26-41 BrokerState::new *)
Definition BrokerState_new (broker_id : Z) (auto_create_topics force_auto_create_topics : bool)
    (default_partitions : Z) : BrokerState := {|
  broker_id := broker_id;
  auto_create_topics := auto_create_topics;
  force_auto_create_topics := force_auto_create_topics;
  topics := Topics.TopicCatalog_new default_partitions;
  groups := Groups.Coordinator_new;
  producers := Producers.new;
  append_notification := 0
|}.

Definition with_topics (s : BrokerState) (c : Topics.TopicCatalog) : BrokerState :=
  mkBrokerState (broker_id s) (auto_create_topics s) (force_auto_create_topics s) c (groups s)
    (producers s) (append_notification s).

Definition with_producers (s : BrokerState) (p : Producers.ProducerCoordinatorInner) : BrokerState :=
  mkBrokerState (broker_id s) (auto_create_topics s) (force_auto_create_topics s) (topics s)
    (groups s) p (append_notification s).

Definition with_groups (s : BrokerState) (c : Groups.Coordinator) : BrokerState :=
  mkBrokerState (broker_id s) (auto_create_topics s) (force_auto_create_topics s) (topics s)
    c (producers s) (append_notification s).

(** [append_notification] counts the [notify_waiters] calls. *)
(* @ src/src/broker/mod.rs 71-73 BrokerState::notify_append *)
Definition notify_append (s : BrokerState) : BrokerState :=
  mkBrokerState (broker_id s) (auto_create_topics s) (force_auto_create_topics s) (topics s)
    (groups s) (producers s) (S (append_notification s)).

(** ** Programs *)

Inductive prog (A : Type) : Type :=
| Ret (a : A)
| Step (f : BrokerState → option (BrokerState * prog A)).
Arguments Ret {A} a.
Arguments Step {A} f.

Fixpoint bind {A B : Type} (p : prog A) (k : A → prog B) : prog B :=
  match p with
  | Ret a => k a
  | Step f => Step (λ s, match f s with Some (s', p') => Some (s', bind p' k) | None => None end)
  end.

Notation "'do' x <- p ; k" := (bind p (λ x, k))
  (at level 10, x pattern, p at level 100, k at level 200,
   format "'[v' 'do'  x  <-  p ; '/' k ']'").

(** One atomic step that may change the state. *)
Definition atomically {A : Type} (f : BrokerState → option (A * BrokerState)) : prog A :=
  Step (λ s, match f s with Some (a, s') => Some (s', Ret a) | None => None end).

(** One atomic step that only reads. *)
Definition read {A : Type} (f : BrokerState → A) : prog A := Step (λ s, Some (s, Ret (f s))).

Definition panic {A : Type} : prog A := Step (λ _, None).

(** A pure computation that may panic. *)
Definition unwrap {A : Type} (o : option A) : prog A :=
  match o with Some a => Ret a | None => panic end.

(** [for x in l { results.push(body(x)) }]. *)
Fixpoint for_each {A B : Type} (body : A → prog B) (l : list A) : prog (list B) :=
  match l with
  | [] => Ret []
  | x :: l => do r <- body x; do rs <- for_each body l; Ret (r :: rs)
  end.

(** Running without interference. *)
Fixpoint run {A : Type} (p : prog A) (s : BrokerState) : option (A * BrokerState) :=
  match p with
  | Ret a => Some (a, s)
  | Step f => match f s with Some (s', p') => run p' s' | None => None end
  end.

(** ** The invariant and what may change *)

Section invariant.
  Context `{Records.Crc32c}.

(** A producer known to a partition was registered with the coordinator, whose
    epochs are all 0. *)
Definition registered (p : Producers.ProducerCoordinatorInner) (log : Partition.PartitionLogInner) :
    Prop :=
  map_Forall (λ id st, 1 ≤ id ≤ Producers.next_id p ∧ Partition.ps_producer_epoch st = 0)
    (Partition.producer_states log).

Definition groups_wf (c : Groups.Coordinator) : Prop :=
  map_Forall (λ _ g, GroupsCorrect.group_wf g) (Groups.groups c).

Definition broker_wf (s : BrokerState) : Prop :=
  TopicsCorrect.catalog_wf (topics s) ∧ Producers.producers_wf (producers s) ∧ groups_wf (groups s) ∧
  ∀ topic index log, Topics.partition (topics s) topic index = Some log →
    PartitionCorrect.log_wf log ∧ registered (producers s) log.

End invariant.

(** Groups are never removed. *)
Definition groups_kept (c c' : Groups.Coordinator) : Prop :=
  ∀ gid, is_Some (Groups.groups c !! gid) → is_Some (Groups.groups c' !! gid).

#[global] Instance groups_kept_preorder : PreOrder groups_kept.
Proof. split; [by intros c gid|]. intros c1 c2 c3 H1 H2 gid ?. by apply H2, H1. Qed.

(** What any handler may do to the state, and hence may have done between two
    steps of another. *)
Definition broker_extends (s s' : BrokerState) : Prop :=
  broker_id s' = broker_id s ∧ auto_create_topics s' = auto_create_topics s ∧
  force_auto_create_topics s' = force_auto_create_topics s ∧
  TopicsCorrect.catalog_extends (topics s) (topics s') ∧
  Producers.next_id (producers s) ≤ Producers.next_id (producers s') ∧
  (append_notification s ≤ append_notification s')%nat ∧
  groups_kept (groups s) (groups s').

#[global] Instance broker_extends_preorder : PreOrder broker_extends.
Proof.
  split.
  - intros s. split_and!; try done.
  - intros s1 s2 s3 (? & ? & ? & Hc & ? & ? & Hg) (? & ? & ? & Hc' & ? & ? & Hg').
    split_and!; try congruence; try lia; by etrans.
Qed.

Lemma registered_mono p p' log :
  Producers.next_id p ≤ Producers.next_id p' → registered p log → registered p' log.
Proof. intros Hle Hr id st Hst. destruct (Hr id st Hst). split; [lia|done]. Qed.

Lemma notify_append_extends s : broker_extends s (notify_append s).
Proof. split_and!; try done; cbn; lia. Qed.

(** ** Triples *)

Section wp.
  Context `{Records.Crc32c}.

Fixpoint wp {A : Type} (p : prog A) (Q : A → BrokerState → Prop) (s : BrokerState) : Prop :=
  match p with
  | Ret a => Q a s
  | Step f => ∀ s1, broker_wf s1 → broker_extends s s1 →
      match f s1 with
      | None => False
      | Some (s2, p') => broker_wf s2 ∧ broker_extends s1 s2 ∧ wp p' Q s2
      end
  end.

(** A postcondition others cannot invalidate. *)
Definition stable {A : Type} (Q : A → BrokerState → Prop) : Prop :=
  ∀ a s s', broker_extends s s' → Q a s → Q a s'.

Lemma wp_extends {A : Type} (p : prog A) Q s s' :
  stable Q → broker_extends s s' → wp p Q s → wp p Q s'.
Proof.
  intros HQ Hext. destruct p as [a|f]; cbn; [by apply HQ|].
  intros Hp s1 Hwf Hext'. apply Hp; [done|]. by etrans.
Qed.

Lemma wp_mono {A : Type} (p : prog A) (Q Q' : A → BrokerState → Prop) s :
  (∀ a s', broker_extends s s' → Q a s' → Q' a s') → wp p Q s → wp p Q' s.
Proof.
  revert p s. fix IH 1. intros p s HQ. destruct p as [a|f]; cbn; [by apply HQ|].
  intros Hp s1 Hwf Hext. specialize (Hp s1 Hwf Hext). destruct (f s1) as [[s2 p']|]; [|done].
  destruct Hp as (Hwf2 & Hext2 & Hp). split_and!; [done..|]. refine (IH p' s2 _ Hp).
  intros a s' Hs'. apply HQ. by do 2 (etrans; [done|]).
Qed.

(** Two triples of one program. *)
Lemma wp_conj {A : Type} (p : prog A) (Q Q' : A → BrokerState → Prop) s :
  wp p Q s → wp p Q' s → wp p (λ a s', Q a s' ∧ Q' a s') s.
Proof.
  revert p s. fix IH 1. intros p s. destruct p as [a|f]; cbn; [done|].
  intros Hp Hp' s1 Hwf Hext. specialize (Hp s1 Hwf Hext). specialize (Hp' s1 Hwf Hext).
  destruct (f s1) as [[s2 p']|]; [|done]. destruct Hp as (? & ? & Hp), Hp' as (_ & _ & Hp').
  split_and!; [done..|]. by apply IH.
Qed.

Lemma wp_bind {A B : Type} (p : prog A) (k : A → prog B) Q s :
  wp p (λ a, wp (k a) Q) s → wp (bind p k) Q s.
Proof.
  revert p s. fix IH 1. intros p s. destruct p as [a|f]; cbn; [done|].
  intros Hp s1 Hwf Hext. specialize (Hp s1 Hwf Hext). destruct (f s1) as [[s2 p']|]; [|done].
  destruct Hp as (Hwf2 & Hext2 & Hp). split_and!; [done..|]. by apply (IH p').
Qed.

Lemma wp_read {A : Type} (f : BrokerState → A) Q s :
  (∀ s1, broker_wf s1 → broker_extends s s1 → Q (f s1) s1) → wp (read f) Q s.
Proof. intros HQ s1 Hwf Hext. cbn. split_and!; [done..|]. by apply HQ. Qed.

Lemma wp_atomically {A : Type} (f : BrokerState → option (A * BrokerState)) Q s :
  (∀ s1, broker_wf s1 → broker_extends s s1 →
    ∃ a s2, f s1 = Some (a, s2) ∧ broker_wf s2 ∧ broker_extends s1 s2 ∧ Q a s2) →
  wp (atomically f) Q s.
Proof.
  intros HQ s1 Hwf Hext. cbn. destruct (HQ s1 Hwf Hext) as (a & s2 & -> & ? & ? & ?). done.
Qed.

(** A loop whose body establishes, for each element, something stable. *)
Lemma wp_for_each {A B : Type} (body : A → prog B) (l : list A) (Q : A → B → BrokerState → Prop) s :
  (∀ x, stable (Q x)) → (∀ x s', x ∈ l → broker_extends s s' → wp (body x) (Q x) s') →
  wp (for_each body l) (λ rs s', Forall2 (λ x r, Q x r s') l rs) s.
Proof.
  intros HQ. revert s. induction l as [|x l IH]; intros s Hbody; cbn; [by constructor|].
  apply wp_bind. eapply wp_mono; [|apply Hbody; [left|done]]. intros r s1 Hext Hr. cbn.
  apply wp_bind. eapply wp_mono; [|apply IH]; cbn.
  - intros rs s2 Hext2 Hrs. constructor; [|done]. by eapply HQ.
  - intros y s' Hy Hs'. apply Hbody; [by right|]. by etrans.
Qed.

(** A program that satisfies a triple runs to the end without interference. *)
Lemma wp_run {A : Type} (p : prog A) Q s :
  broker_wf s → wp p Q s →
  ∃ a s', run p s = Some (a, s') ∧ broker_wf s' ∧ broker_extends s s' ∧ Q a s'.
Proof.
  revert p s. fix IH 1. intros p s Hwf. destruct p as [a|f]; cbn.
  - intros HQ. exists a, s. by split_and!.
  - intros Hp. specialize (Hp s Hwf ltac:(done)). destruct (f s) as [[s2 p']|]; [|done].
    destruct Hp as (Hwf2 & Hext2 & Hp). destruct (IH p' s2 Hwf2 Hp) as (a & s' & -> & ? & ? & ?).
    exists a, s'. split_and!; [done..|by etrans|done].
Qed.

End wp.

Lemma BrokerState_new_wf `{Records.Crc32c} id auto force n :
  1 ≤ n ≤ u32_max → broker_wf (BrokerState_new id auto force n).
Proof.
  intros Hn. split_and!; cbn.
  - by apply TopicsCorrect.TopicCatalog_new_wf.
  - apply Producers.new_wf.
  - apply map_Forall_empty.
  - intros topic index log (_ & e & He & _)%TopicsCorrect.partition_Some. cbn in He.
    by rewrite lookup_empty in He.
Qed.

End Broker.
