(* ===== verification/Handlers.v ===== *)
(** * The data-path request handlers

    [src/src/kafka/produce.rs], [fetch.rs], [list_offsets.rs] and
    [init_producer_id.rs] as programs on the broker state.  A message is the
    record of the fields its handler reads or sets; the other fields of a
    response keep the defaults of the generated message types; [Dispatcher] gets
    the fields from the whole request and puts the answer into the whole
    response.  [None] inside a program is a panic: an [unreachable!] that is
    reached, or an [expect]. *)

From S2P Require Import Prelude Errors Records Partition Producers Topics Broker.
Open Scope Z_scope.

Module Handlers.
Import Broker.

Section handlers.
  Context `{Crc32c}.
  Context (new_v4 : nat → Z).

(** ** Topic lookup shared by the handlers *)

(** [TopicCatalog::get_or_auto_create]: the read lock, then the write lock. *)
(* @ src/src/broker/topics.rs 128-148 TopicCatalog::get_or_auto_create *)
Definition get_or_auto_create (name : string) (allow_auto_create : bool) :
    prog (result Topics.TopicError (option Topics.TopicMetadata)) :=
  do found <- read (λ s, Topics.auto_create_read (topics s) name allow_auto_create);
  match found with
  | Some r => Ret r
  | None =>
      atomically (λ s,
        let! r := Topics.auto_create_write new_v4 (topics s) name in
        Some (r.1, with_topics s r.2))
  end.

(** ** Produce *)

(* @ src/crates/kafka-protocol/src/messages/produce_request.rs 23-36 PartitionProduceData *)
Record PartitionProduceData : Type := mkPartitionProduceData {
  ppd_index : Z;
  ppd_records : option (list byte)
}.

(* @ src/crates/kafka-protocol/src/messages/produce_request.rs 362-380 TopicProduceData *)
Record TopicProduceData : Type := mkTopicProduceData {
  tpd_name : string;
  tpd_partition_data : list PartitionProduceData
}.

(* @ src/crates/kafka-protocol/src/messages/produce_request.rs 167-190 ProduceRequest *)
Record ProduceRequest : Type := mkProduceRequest {
  pr_transactional_id : option string;
  pr_acks : Z;
  pr_topic_data : list TopicProduceData
}.

(* @ src/crates/kafka-protocol/src/messages/produce_response.rs 597-640 PartitionProduceResponse *)
Record PartitionProduceResponse : Type := mkPartitionProduceResponse {
  ppr_index : Z;
  ppr_error_code : Z;
  ppr_base_offset : Z;
  ppr_log_append_time_ms : Z;
  ppr_log_start_offset : Z
}.

(* @ src/crates/kafka-protocol/src/messages/produce_response.rs 1153-1171 TopicProduceResponse *)
Record TopicProduceResponse : Type := mkTopicProduceResponse {
  tpr_name : string;
  tpr_partition_responses : list PartitionProduceResponse
}.

(* @ src/crates/kafka-protocol/src/messages/produce_response.rs 940-958 ProduceResponse *)
Record ProduceResponse : Type := mkProduceResponse {
  prs_responses : list TopicProduceResponse;
  prs_throttle_time_ms : Z
}.

(* @ src/src/kafka/produce.rs 140-147 error_partition *)
Definition produce_error (index : Z) (error : Errors.ResponseError) : PartitionProduceResponse :=
  mkPartitionProduceResponse index (Errors.code error) (-1) (-1) 0.

(** [log.append(records)] and what becomes of its result; the log behind the
    [Arc] is the catalog's. *)
(* @ src/src/kafka/produce.rs 114-137 produce_partition *)
Definition append_records (topic : string) (index : Z) (records : list byte) :
    prog PartitionProduceResponse :=
  do r <- atomically (λ s,
    let! log := Topics.partition (topics s) topic index in
    let! r := Partition.append log records in
    Some (r.1, with_topics s (Topics.with_partition (topics s) topic index r.2)));
  match r with
  | Ok result =>
      do _ <- (if Partition.ar_appended result
               then atomically (λ s, Some ((), notify_append s)) else Ret ());
      Ret (mkPartitionProduceResponse index 0 (Partition.ar_base_offset result) (-1) 0)
  | Err Partition.UnsupportedBatch => Ret (produce_error index Errors.UnsupportedForMessageFormat)
  | Err Partition.Malformed | Err Partition.OffsetOverflow =>
      Ret (produce_error index Errors.CorruptMessage)
  | Err Partition.OutOfOrderSequence => Ret (produce_error index Errors.OutOfOrderSequenceNumber)
  | Err Partition.DuplicateSequence => Ret (produce_error index Errors.DuplicateSequenceNumber)
  end.

(* @ src/src/kafka/produce.rs 71-138 produce_partition *)
Definition produce_partition (topic : string) (request : PartitionProduceData) :
    prog PartitionProduceResponse :=
  let index := ppd_index request in
  do log <- read (λ s, bool_decide (is_Some (Topics.partition (topics s) topic index)));
  if negb log then Ret (produce_error index Errors.UnknownTopicOrPartition)
  else
    match ppd_records request with
    | None => Ret (produce_error index Errors.CorruptMessage)
    | Some records =>
        do producer <- unwrap (Partition.record_set_producer records);
        match producer with
        | Err Partition.UnsupportedBatch =>
            Ret (produce_error index Errors.UnsupportedForMessageFormat)
        | Err Partition.Malformed | Err Partition.OffsetOverflow =>
            Ret (produce_error index Errors.CorruptMessage)
        | Err Partition.OutOfOrderSequence | Err Partition.DuplicateSequence => panic
        | Ok None => append_records topic index records
        | Ok (Some producer) =>
            do valid <- read (λ s, Producers.validate (producers s)
              (Partition.rsp_producer_id producer) (Partition.rsp_producer_epoch producer));
            match valid with
            | Ok _ => append_records topic index records
            | Err Producers.UnknownProducerId =>
                Ret (produce_error index Errors.UnknownProducerId)
            | Err Producers.InvalidProducerEpoch =>
                Ret (produce_error index Errors.InvalidProducerEpoch)
            | Err Producers.IdExhausted => Ret (produce_error index Errors.UnknownServerError)
            end
        end
    end.

(** The error all partitions of a topic get, if any. *)
(* @ src/src/kafka/produce.rs 41-54 produce_topic *)
Definition produce_topic_error (topic : TopicProduceData)
    (request_error : option Errors.ResponseError) : prog (option Errors.ResponseError) :=
  match request_error with
  | Some error => Ret (Some error)
  | None =>
      do auto_create <- read auto_create_topics;
      do found <- get_or_auto_create (tpd_name topic) auto_create;
      match found with
      | Ok (Some _) => Ret None
      | Ok None => Ret (Some Errors.UnknownTopicOrPartition)
      | Err Topics.InvalidName => Ret (Some Errors.InvalidTopicException)
      | Err _ => panic
      end
  end.

(* @ src/src/kafka/produce.rs 36-69 produce_topic *)
Definition produce_topic (topic : TopicProduceData) (request_error : option Errors.ResponseError) :
    prog TopicProduceResponse :=
  do topic_error <- produce_topic_error topic request_error;
  do partition_responses <- for_each (λ partition,
      match topic_error with
      | Some error => Ret (produce_error (ppd_index partition) error)
      | None => produce_partition (tpd_name topic) partition
      end) (tpd_partition_data topic);
  Ret (mkTopicProduceResponse (tpd_name topic) partition_responses).

(* @ src/src/kafka/produce.rs 18-24 response *)
Definition produce_request_error (request : ProduceRequest) : option Errors.ResponseError :=
  if negb (bool_decide (-1 ≤ pr_acks request ≤ 1)) then Some Errors.InvalidRequiredAcks
  else if bool_decide (is_Some (pr_transactional_id request)) then
    Some Errors.UnsupportedForMessageFormat
  else None.

(* @ src/src/kafka/produce.rs 17-34 response *)
Definition produce (request : ProduceRequest) : prog ProduceResponse :=
  do responses <- for_each (λ topic, produce_topic topic (produce_request_error request))
    (pr_topic_data request);
  Ret (mkProduceResponse responses 0).

(** ** Fetch *)

(* @ src/crates/kafka-protocol/src/messages/fetch_request.rs 23-66 FetchPartition *)
Record FetchPartition : Type := mkFetchPartition {
  fp_partition : Z;
  fp_fetch_offset : Z;
  fp_partition_max_bytes : Z
}.

(* @ src/crates/kafka-protocol/src/messages/fetch_request.rs 885-903 FetchTopic *)
Record FetchTopic : Type := mkFetchTopic {
  ft_topic : string;
  ft_partitions : list FetchPartition
}.

(* @ src/crates/kafka-protocol/src/messages/fetch_request.rs 389-452 FetchRequest *)
Record FetchRequest : Type := mkFetchRequest {
  fr_max_wait_ms : Z;
  fr_min_bytes : Z;
  fr_max_bytes : Z;
  fr_topics : list FetchTopic
}.

(* @ src/crates/kafka-protocol/src/messages/fetch_response.rs 1184-1242 PartitionData *)
Record PartitionData : Type := mkPartitionData {
  pd_partition_index : Z;
  pd_error_code : Z;
  pd_high_watermark : Z;
  pd_last_stable_offset : Z;
  pd_records : option (list byte)
}.

(* @ src/crates/kafka-protocol/src/messages/fetch_response.rs 594-612 FetchableTopicResponse *)
Record FetchableTopicResponse : Type := mkFetchableTopicResponse {
  ftr_topic : string;
  ftr_partitions : list PartitionData
}.

(* @ src/crates/kafka-protocol/src/messages/fetch_response.rs 319-347 FetchResponse *)
Record FetchResponse : Type := mkFetchResponse {
  frs_throttle_time_ms : Z;
  frs_responses : list FetchableTopicResponse
}.

(* @ src/src/kafka/fetch.rs 52-56 FetchSnapshot *)
Record FetchSnapshot : Type := mkFetchSnapshot {
  fsn_response : FetchResponse;
  fsn_record_bytes : Z;
  fsn_valid_partitions : Z
}.

(* @ src/src/kafka/fetch.rs 132-140 error_partition *)
Definition fetch_error (index : Z) (error : Errors.ResponseError) : PartitionData :=
  mkPartitionData index (Errors.code error) (-1) (-1) (Some []).

(* @ src/src/kafka/fetch.rs 109-130 partition_response *)
Definition fetch_partition_response (topic : string) (request : FetchPartition) (max_bytes : Z) :
    prog PartitionData :=
  let index := fp_partition request in
  do log <- read (λ s, bool_decide (is_Some (Topics.partition (topics s) topic index)));
  if negb log then Ret (fetch_error index Errors.UnknownTopicOrPartition)
  else
    atomically (λ s,
      let! log := Topics.partition (topics s) topic index in
      let! r := Partition.fetch log (fp_fetch_offset request) max_bytes in
      Some (match r with
            | Ok snapshot =>
                mkPartitionData index 0 (Partition.fs_high_watermark snapshot)
                  (Partition.fs_high_watermark snapshot) (Some (Partition.fs_records snapshot))
            | Err Partition.OutOfRange => fetch_error index Errors.OffsetOutOfRange
            end, s)).

(** [usize::try_from(n).unwrap_or(0)]. *)
Definition to_usize (n : Z) : Z := default 0 (try_unsigned n).

(** What one partition's answer does to the two counters, and to its records
    where the request's limit is exceeded. *)
(* @ src/src/kafka/fetch.rs 77-91 snapshot *)
Definition account_partition (max_bytes record_bytes valid_partitions : Z) (response : PartitionData) :
    PartitionData * Z * Z :=
  let valid_partitions :=
    if decide (pd_error_code response = 0) then valid_partitions + 1 else valid_partitions in
  match pd_records response with
  | None => (response, record_bytes, valid_partitions)
  | Some records =>
      let exceeds_request_limit :=
        bool_decide (0 < record_bytes) &&
        match checked_add usize_max record_bytes (len records) with
        | None => true
        | Some size => bool_decide (max_bytes < size)
        end in
      if exceeds_request_limit then
        (mkPartitionData (pd_partition_index response) (pd_error_code response)
           (pd_high_watermark response) (pd_last_stable_offset response) (Some []),
         record_bytes, valid_partitions)
      else (response, saturating_add usize_max record_bytes (len records), valid_partitions)
  end.

(* @ src/src/kafka/fetch.rs 66-92 snapshot *)
Fixpoint snapshot_partitions (topic : string) (max_bytes record_bytes valid_partitions : Z)
    (partitions : list FetchPartition) : prog (list PartitionData * Z * Z) :=
  match partitions with
  | [] => Ret ([], record_bytes, valid_partitions)
  | partition :: partitions =>
      let remaining := saturating_sub max_bytes record_bytes in
      let partition_max := to_usize (fp_partition_max_bytes partition) in
      do response <- fetch_partition_response topic partition (Z.min partition_max remaining);
      let '(response, record_bytes, valid_partitions) :=
        account_partition max_bytes record_bytes valid_partitions response in
      do rest <- snapshot_partitions topic max_bytes record_bytes valid_partitions partitions;
      let '(responses, record_bytes, valid_partitions) := rest in
      Ret (response :: responses, record_bytes, valid_partitions)
  end.

(* @ src/src/kafka/fetch.rs 64-98 snapshot *)
Fixpoint snapshot_topics (max_bytes record_bytes valid_partitions : Z) (requested : list FetchTopic) :
    prog (list FetchableTopicResponse * Z * Z) :=
  match requested with
  | [] => Ret ([], record_bytes, valid_partitions)
  | topic :: requested =>
      do part <- snapshot_partitions (ft_topic topic) max_bytes record_bytes valid_partitions
        (ft_partitions topic);
      let '(partitions, record_bytes, valid_partitions) := part in
      do rest <- snapshot_topics max_bytes record_bytes valid_partitions requested;
      let '(responses, record_bytes, valid_partitions) := rest in
      Ret (mkFetchableTopicResponse (ft_topic topic) partitions :: responses,
           record_bytes, valid_partitions)
  end.

(* @ src/src/kafka/fetch.rs 58-107 snapshot *)
Definition snapshot (request : FetchRequest) : prog FetchSnapshot :=
  do rest <- snapshot_topics (to_usize (fr_max_bytes request)) 0 0 (fr_topics request);
  let '(responses, record_bytes, valid_partitions) := rest in
  Ret (mkFetchSnapshot (mkFetchResponse 0 responses) record_bytes valid_partitions).

(** One pass of the loop of [response]: it returns, or waits for a
    notification after the [seen]-th or for the deadline, at which the
    response at hand is returned. *)
Inductive fetch_pass : Type :=
| FetchReturn (response : FetchResponse)
| FetchWait (seen : nat) (response : FetchResponse).

(** [deadline_passed] is the outcome of [Instant::now() >= deadline]. *)
(* @ src/src/kafka/fetch.rs 16-50 response *)
Definition fetch_once (request : FetchRequest) (deadline_passed : bool) : prog fetch_pass :=
  let max_wait := to_usize (fr_max_wait_ms request) in
  let min_bytes := to_usize (fr_min_bytes request) in
  do notified <- read append_notification;
  do snapshot <- snapshot request;
  if bool_decide (min_bytes ≤ fsn_record_bytes snapshot) || bool_decide (min_bytes = 0) ||
     bool_decide (max_wait = 0) || bool_decide (fsn_valid_partitions snapshot = 0) ||
     deadline_passed
  then Ret (FetchReturn (fsn_response snapshot))
  else Ret (FetchWait notified (fsn_response snapshot)).

(** ** ListOffsets *)

(* @ src/crates/kafka-protocol/src/messages/list_offsets_request.rs 23-41 ListOffsetsPartition *)
Record ListOffsetsPartition : Type := mkListOffsetsPartition {
  lop_partition_index : Z;
  lop_timestamp : Z
}.

(* @ src/crates/kafka-protocol/src/messages/list_offsets_request.rs 389-402 ListOffsetsTopic *)
Record ListOffsetsTopic : Type := mkListOffsetsTopic {
  lot_name : string;
  lot_partitions : list ListOffsetsPartition
}.

(* @ src/crates/kafka-protocol/src/messages/list_offsets_response.rs 23-51 ListOffsetsPartitionResponse *)
Record ListOffsetsPartitionResponse : Type := mkListOffsetsPartitionResponse {
  lor_partition_index : Z;
  lor_error_code : Z;
  lor_timestamp : Z;
  lor_offset : Z;
  lor_leader_epoch : Z
}.

(* @ src/crates/kafka-protocol/src/messages/list_offsets_response.rs 381-394 ListOffsetsTopicResponse *)
Record ListOffsetsTopicResponse : Type := mkListOffsetsTopicResponse {
  lotr_name : string;
  lotr_partitions : list ListOffsetsPartitionResponse
}.

(* @ src/src/kafka/list_offsets.rs 68-75 error_partition *)
Definition list_offsets_error (index : Z) (error : Errors.ResponseError) :
    ListOffsetsPartitionResponse :=
  mkListOffsetsPartitionResponse index (Errors.code error) (-1) (-1) (-1).

(* @ src/src/kafka/list_offsets.rs 34-66 partition_response *)
Definition list_offsets_partition (topic : string) (partition : ListOffsetsPartition) :
    prog ListOffsetsPartitionResponse :=
  let index := lop_partition_index partition in
  let answer offset := mkListOffsetsPartitionResponse index 0 (-1) offset (-1) in
  do log <- read (λ s, bool_decide (is_Some (Topics.partition (topics s) topic index)));
  if negb log then Ret (list_offsets_error index Errors.UnknownTopicOrPartition)
  else if decide (lop_timestamp partition = -2) then Ret (answer 0)
  else if decide (lop_timestamp partition = -1) then
    do offset <- atomically (λ s,
      let! log := Topics.partition (topics s) topic index in
      Some (Partition.log_next_offset log, s));
    Ret (answer offset)
  else Ret (list_offsets_error index Errors.UnsupportedForMessageFormat).

(* @ src/src/kafka/list_offsets.rs 12-32 response *)
Definition list_offsets (request : list ListOffsetsTopic) : prog (list ListOffsetsTopicResponse) :=
  for_each (λ topic,
    do partitions <- for_each (list_offsets_partition (lot_name topic)) (lot_partitions topic);
    Ret (mkListOffsetsTopicResponse (lot_name topic) partitions)) request.

(** ** InitProducerId *)

(* @ src/crates/kafka-protocol/src/messages/init_producer_id_response.rs 23-56 InitProducerIdResponse *)
Record InitProducerIdResponse : Type := mkInitProducerIdResponse {
  ipr_throttle_time_ms : Z;
  ipr_error_code : Z;
  ipr_producer_id : Z;
  ipr_producer_epoch : Z
}.

(* @ src/src/kafka/init_producer_id.rs 26-32 error_response *)
Definition init_producer_id_error (error : Errors.ResponseError) : InitProducerIdResponse :=
  mkInitProducerIdResponse 0 (Errors.code error) (-1) (-1).

(* @ src/src/kafka/init_producer_id.rs 8-24 response *)
Definition init_producer_id (transactional_id : option string) : prog InitProducerIdResponse :=
  if decide (is_Some transactional_id) then
    Ret (init_producer_id_error Errors.UnsupportedForMessageFormat)
  else
    do r <- atomically (λ s, let '(r, p) := Producers.allocate (producers s) in
                             Some (r, with_producers s p));
    match r with
    | Ok identity =>
        Ret (mkInitProducerIdResponse 0 0 (Producers.pi_producer_id identity)
          (Producers.pi_producer_epoch identity))
    | Err _ => Ret (init_producer_id_error Errors.UnknownServerError)
    end.

End handlers.

End Handlers.
