(* ===== verification/HandlersCorrect.v ===== *)
(** * Correctness of the data-path handlers

    Triples for the programs of [Handlers]: they hold whatever other handlers
    do in between.  What a produce acknowledges is in the log of its partition
    and stays there; what a fetch returns is a run of whole batches of the log. *)

From S2P Require Import Prelude Errors Records Partition PartitionCorrect Producers Topics.
From S2P Require Import TopicsCorrect Broker Handlers.
Open Scope Z_scope.

Module HandlersCorrect.
Import Partition PartitionCorrect Broker Handlers.

Section correct.
  Context `{Crc32c}.

(** ** Record sets in a log *)

(** The batches of [records] are in the log at offset [base]. *)
Definition stored_at (log : PartitionLogInner) (base : Z) (records : list byte) : Prop :=
  ∃ vs pre stored post, validate_record_set records = Some (Ok vs) ∧
    batches log = pre ++ stored ++ post ∧ store_batches base vs = Some stored.

Definition holds_records (s : BrokerState) (topic : string) (index base : Z) (records : list byte) :
    Prop :=
  ∃ log, Topics.partition (topics s) topic index = Some log ∧ stored_at log base records.

Lemma stored_at_extends log log' base records :
  TopicsCorrect.log_extends log log' → stored_at log base records → stored_at log' base records.
Proof.
  intros [_ [more Hb]] (vs & pre & stored & post & Hv & Hs & Hst).
  exists vs, pre, stored, (post ++ more). split_and!; [done| |done].
  by rewrite Hb, Hs, <- !app_assoc.
Qed.

Lemma holds_records_extends s s' topic index base records :
  broker_extends s s' → holds_records s topic index base records →
  holds_records s' topic index base records.
Proof.
  intros (_ & _ & _ & Hc & _) (log & Hl & Hst).
  destruct (TopicsCorrect.catalog_extends_partition _ _ _ _ _ Hc Hl) as (log' & ? & ?).
  exists log'. split; [done|]. by eapply stored_at_extends.
Qed.

Lemma partition_extends s s' topic index :
  broker_extends s s' → is_Some (Topics.partition (topics s) topic index) →
  is_Some (Topics.partition (topics s') topic index).
Proof.
  intros (_ & _ & _ & Hc & _) [log Hl].
  by destruct (TopicsCorrect.catalog_extends_partition _ _ _ _ _ Hc Hl) as (log' & -> & _).
Qed.

(** Storing only looks at the bytes and the record counts. *)
Lemma store_batches_same base vs vs' :
  fingerprint <$> vs = fingerprint <$> vs' → vb_bytes <$> vs = vb_bytes <$> vs' →
  store_batches base vs = store_batches base vs'.
Proof.
  revert base vs'. induction vs as [|v vs IH]; intros base [|v' vs'] Hf Hb; try done.
  cbn in Hf, Hb. injection Hf as Hl Hn Hc Hf. injection Hb as Hb1 Hb. cbn [store_batches].
  rewrite Hb1, Hn. case_decide; [done|]. by rewrite (IH _ vs').
Qed.

Lemma find_Some_In {A : Type} (p : A → bool) l x : List.find p l = Some x → x ∈ l ∧ p x = true.
Proof. intros Hf%find_some. by rewrite list_elem_of_In. Qed.

(** A successful append, new or replayed, leaves its records in the log at the
    offset it reports. *)
Lemma append_stored log records res log' :
  log_wf log → append log records = Some (Ok res, log') →
  stored_at log' (ar_base_offset res) records ∧ TopicsCorrect.log_extends log log'.
Proof.
  intros Hwf Happ. destruct (append_inv log records) as (r1 & l1 & Happ1 & Hcases).
  rewrite Happ1 in Happ. injection Happ as -> ->.
  destruct Hcases as [(e & [=] & _)|(vs & first & Hv & Hf & Htot & Hc)].
  destruct Hc as [(recent & (p & st & Hp & Hst & He & Hfind) & [= ->] & ->)
                 |(stored & Hmay & Hmax & Hst & -> & [= ->])].
  - split; [|done]. destruct Hwf as (_ & _ & _ & Hps).
    destruct (Hps _ _ Hst) as (_ & _ & _ & _ & _ & _ & _ & Hrec).
    apply find_Some_In in Hfind as [Hin Hkey]. rewrite Forall_forall in Hrec.
    destruct (Hrec _ Hin) as (_ & _ & _ & _ & _ & _ & vs' & pre & stored & post & Henc & Hfp & _ & Hb & Hs).
    apply is_retry_key in Hkey as [= _ Hfp' Henc'].
    exists vs, pre, stored, post. split_and!; [done..|]. cbn [replayed ar_base_offset].
    rewrite <- Hs. apply store_batches_same; congruence.
  - pose proof Hv as (Hne & Hall & _)%validate_record_set_spec.
    pose proof (record_total_pos vs Hne Hall). split.
    + exists vs, (batches log), stored, []. split_and!; [done| |done]. cbn. by rewrite app_nil_r.
    + split; cbn; [lia|]. by eexists.
Qed.

Lemma append_error log records e log' : append log records = Some (Err e, log') → log' = log.
Proof.
  intros Happ. destruct (append_inv log records) as (r1 & l1 & Happ1 & Hcases).
  rewrite Happ1 in Happ. injection Happ as -> ->.
  destruct Hcases as [(e' & _ & ->)|(vs & first & _ & _ & _ & Hc)]; [done|].
  by destruct Hc as [(? & _ & [=] & _)|(? & _ & _ & _ & _ & [=])].
Qed.

(** ** Registered producers *)

(** The producer a record set names, if any, has been registered. *)
Definition producer_registered (p : Producers.ProducerCoordinatorInner) (records : list byte) : Prop :=
  ∀ prod, record_set_producer records = Some (Ok (Some prod)) →
    1 ≤ rsp_producer_id prod ≤ Producers.next_id p ∧ rsp_producer_epoch prod = 0.

Lemma append_registered p log records r log' :
  registered p log → producer_registered p records →
  append log records = Some (r, log') → registered p log'.
Proof.
  intros Hreg Hprod Happ. destruct (append_inv log records) as (r1 & l1 & Happ1 & Hcases).
  rewrite Happ1 in Happ. injection Happ as -> ->.
  destruct Hcases as [(e & _ & ->)|(vs & first & Hv & Hf & Htot & Hc)]; [done|].
  destruct Hc as [(recent & _ & _ & ->)|(stored & _ & _ & _ & -> & _)]; [done|].
  unfold registered in *. cbn [appended_log producer_states].
  destruct (batch_producer first) as [prod|] eqn:Hp; [|done].
  destruct (Hprod prod) as [Hid Hep].
  { unfold record_set_producer. rewrite Hv. cbn [outcome_bind]. rewrite Hf. cbn. by rewrite Hp. }
  intros id st. unfold record_producer.
  destruct (decide (id = rsp_producer_id prod)) as [->|Hne].
  - rewrite lookup_insert_eq. intros [= <-]. split; [done|]. cbn.
    destruct (producer_states log !! rsp_producer_id prod) as [st|] eqn:Hst; cbn; [|done].
    by destruct (Hreg _ _ Hst).
  - rewrite lookup_insert_ne by done. apply Hreg.
Qed.

(** Inspecting a record set never meets a sequence number. *)
Lemma validate_record_set_errors records e :
  validate_record_set records = Some (Err e) → e = Malformed ∨ e = UnsupportedBatch.
Proof.
  assert (∀ ebl batch e, validate_batch ebl batch = Some (Err e) → e = Malformed ∨ e = UnsupportedBatch)
    as Hbatch.
  { intros ebl batch e'. unfold validate_batch, raise, value_of. destruct (batch !! _); [|done].
    cbn [panic_bind]. case_decide; [intros [= <-]; auto|].
    destruct (decode_batch_info batch) as [[[infos rest]|]|]; [|intros [= <-]; auto|done].
    cbn [panic_bind]. case_decide; [intros [= <-]; auto|]. destruct (infos !! 0%nat); [|done].
    cbn [panic_bind]. repeat (case_match; try (intros [= <-]; auto)). }
  assert (∀ fuel position acc e, validate_loop fuel records position acc = Some (Err e) →
    e = Malformed ∨ e = UnsupportedBatch) as Hloop.
  { induction fuel as [|fuel IH]; intros position acc e'; cbn [validate_loop]; case_decide; try done.
    unfold raise. repeat (case_match; try (intros [= <-]; by auto)).
    unfold outcome_bind. destruct (validate_batch _ _) as [[v|e2]|] eqn:Hv; [apply IH| |done].
    intros [= <-]. by eapply Hbatch. }
  unfold validate_record_set, raise, value_of. case_decide; [intros [= <-]; auto|].
  destruct (validate_loop _ _ _ _) as [[vs|e']|] eqn:Hl; cbn [outcome_bind]; [| |done].
  - destruct (head vs); [|done]. cbn [panic_bind]. case_match; intros [= <-]; auto.
  - intros [= <-]. by eapply Hloop.
Qed.

Lemma record_set_producer_cases records :
  ∃ r, record_set_producer records = Some r ∧
    match r with
    | Ok _ => ∃ vs, validate_record_set records = Some (Ok vs)
    | Err e => e = Malformed ∨ e = UnsupportedBatch
    end.
Proof.
  unfold record_set_producer.
  destruct (validate_record_set_total records) as [[vs|e] Hv]; rewrite Hv; cbn [outcome_bind].
  - pose proof Hv as (Hne & _)%validate_record_set_spec. destruct vs as [|v vs]; [done|]. cbn.
    eexists. split; [done|]. by eexists.
  - eexists. split; [done|]. by eapply validate_record_set_errors.
Qed.

(** ** One append *)

Lemma update_log_wf s topic index log log' :
  broker_wf s → Topics.partition (topics s) topic index = Some log →
  log_wf log' → registered (producers s) log' →
  broker_wf (with_topics s (Topics.with_partition (topics s) topic index log')).
Proof.
  intros (Hcat & Hp & Hgroups & Hlogs) Hl Hwf' Hreg'. split_and!; cbn; [|done|done|].
  - by apply TopicsCorrect.with_partition_wf.
  - pose proof Hl as (Hi & _)%TopicsCorrect.partition_Some. intros topic' index' log1.
    destruct (decide ((topic', index') = (topic, index))) as [[= -> ->]|Hne].
    + rewrite (TopicsCorrect.partition_with_partition _ _ _ log) by done. by intros [= <-].
    + rewrite TopicsCorrect.partition_with_partition_ne by done. apply Hlogs.
Qed.

Lemma with_topics_extends s c :
  TopicsCorrect.catalog_extends (topics s) c → broker_extends s (with_topics s c).
Proof. intros Hc. split_and!; try done; cbn; lia. Qed.

Lemma append_step s topic index log records :
  broker_wf s → Topics.partition (topics s) topic index = Some log →
  producer_registered (producers s) records →
  ∃ r log', append log records = Some (r, log') ∧
    let s' := with_topics s (Topics.with_partition (topics s) topic index log') in
    broker_wf s' ∧ broker_extends s s' ∧
    match r with
    | Ok res => holds_records s' topic index (ar_base_offset res) records
    | Err _ => True
    end.
Proof.
  intros Hwf Hl Hprod. pose proof Hwf as (_ & _ & _ & Hlogs). destruct (Hlogs _ _ _ Hl) as [Hlwf Hreg].
  destruct (append_inv log records) as (r & log' & Happ & _). exists r, log'. split; [done|].
  pose proof (append_wf _ _ _ _ Hlwf Happ) as Hwf'.
  pose proof (append_registered _ _ _ _ _ Hreg Hprod Happ) as Hreg'.
  assert (TopicsCorrect.log_extends log log') as Hext.
  { destruct r as [res|e]; [by apply (append_stored log records res)|].
    by rewrite (append_error _ _ _ _ Happ). }
  split_and!.
  - by eapply update_log_wf.
  - by eapply with_topics_extends, TopicsCorrect.with_partition_extends.
  - destruct r as [res|e]; [|done]. exists log'. split.
    + by eapply TopicsCorrect.partition_with_partition.
    + by destruct (append_stored log records res log' Hlwf Happ).
Qed.

Lemma notify_append_wf s : broker_wf s → broker_wf (notify_append s).
Proof. done. Qed.

Lemma producer_registered_extends s s' records :
  broker_extends s s' → producer_registered (producers s) records →
  producer_registered (producers s') records.
Proof.
  intros (_ & _ & _ & _ & Hn & _) Hp prod Hr. destruct (Hp prod Hr). split; [lia|done].
Qed.

(** ** Produce *)

(** What a partition's answer says of the log. *)
Definition partition_produced (topic : string) (request : PartitionProduceData)
    (response : PartitionProduceResponse) (s : BrokerState) : Prop :=
  ppr_index response = ppd_index request ∧
  (ppr_error_code response = 0 →
    ∃ records, ppd_records request = Some records ∧
      holds_records s topic (ppd_index request) (ppr_base_offset response) records) ∧
  (ppr_error_code response ≠ 0 → ppr_base_offset response = -1).

Lemma partition_produced_stable topic request : stable (partition_produced topic request).
Proof.
  intros resp s s' Hext (? & Hok & ?). split_and!; [done| |done]. intros Hc.
  destruct (Hok Hc) as (records & ? & ?). exists records. split; [done|].
  by eapply holds_records_extends.
Qed.

Lemma produce_error_produced topic request s e :
  Errors.listed e = true → partition_produced topic request (produce_error (ppd_index request) e) s.
Proof.
  intros He. split_and!; [done| |done]. cbn. intros Hc. by destruct (Errors.code_nonzero e).
Qed.

Lemma append_records_produced topic request records s :
  ppd_records request = Some records →
  is_Some (Topics.partition (topics s) topic (ppd_index request)) →
  producer_registered (producers s) records →
  wp (append_records topic (ppd_index request) records) (partition_produced topic request) s.
Proof.
  intros Hrec Hpart Hprod. unfold append_records. apply wp_bind, wp_atomically.
  intros s1 Hwf1 Hext1. destruct (partition_extends _ _ _ _ Hext1 Hpart) as [log Hl]. rewrite Hl. cbn [panic_bind].
  destruct (append_step s1 topic (ppd_index request) log records Hwf1 Hl)
    as (r & log' & -> & Hwf2 & Hext2 & Hr); [by eapply producer_registered_extends|].
  cbn [panic_bind fst snd]. do 2 eexists. split_and!; [done|exact Hwf2|exact Hext2|].
  destruct r as [res|[]]; try (by apply produce_error_produced). apply wp_bind.
  assert (∀ s3, broker_extends (with_topics s1
      (Topics.with_partition (topics s1) topic (ppd_index request) log')) s3 →
    partition_produced topic request
      (mkPartitionProduceResponse (ppd_index request) 0 (ar_base_offset res) (-1) 0) s3) as Hdone.
  { intros s3 Hext3. split_and!; [done| |done]. intros _. exists records. split; [done|].
    by eapply holds_records_extends. }
  destruct (ar_appended res); cbn; [|by apply Hdone].
  intros s3 Hwf3 Hext3. split_and!; [by apply notify_append_wf|apply notify_append_extends|].
  apply Hdone. etrans; [done|apply notify_append_extends].
Qed.

Lemma produce_partition_produced topic request s :
  wp (produce_partition topic request) (partition_produced topic request) s.
Proof.
  unfold produce_partition. apply wp_bind, wp_read. intros s1 Hwf1 Hext1.
  case_bool_decide as Hpart; cbn [negb]; [|by apply produce_error_produced].
  destruct (ppd_records request) as [records|] eqn:Hrec; [|by apply produce_error_produced].
  destruct (record_set_producer_cases records) as (r & Hr & Hcases). rewrite Hr. cbn [unwrap bind].
  destruct r as [[prod|]|e].
  - apply wp_bind, wp_read. intros s2 Hwf2 Hext2.
    pose proof Hwf2 as (_ & Hprod & _). rewrite (Producers.validate_spec _ _ _ Hprod).
    case_decide as Hid; [case_decide as Hep|]; try by apply produce_error_produced.
    apply append_records_produced; [done|by eapply partition_extends|].
    intros prod' Hprod'. rewrite Hr in Hprod'. injection Hprod' as <-. done.
  - apply append_records_produced; [done..|]. intros prod' Hprod'. congruence.
  - destruct Hcases as [->| ->]; by apply produce_error_produced.
Qed.

(** ** Creating topics *)

Lemma new_topic_wf s m draws :
  broker_wf s → TopicsCorrect.catalog_wf (TopicsCorrect.with_new_topic (topics s) m draws) →
  broker_wf (with_topics s (TopicsCorrect.with_new_topic (topics s) m draws)).
Proof.
  intros (_ & Hp & Hgroups & Hlogs) Hcat. split_and!; [done..|]. intros topic index log. cbn.
  intros (Hi & e & He & Hl)%TopicsCorrect.partition_Some. cbn in He.
  apply lookup_insert_Some in He as [[<- <-]|[Hne He]].
  - cbn in Hl. apply lookup_replicate in Hl as [-> _]. split; [apply empty_log_wf|].
    apply map_Forall_empty.
  - eapply Hlogs. apply TopicsCorrect.partition_Some. eauto.
Qed.

(** What [get_or_auto_create] says of the catalog. *)
Definition topic_looked_up (name : string) (allow : bool)
    (r : result Topics.TopicError (option Topics.TopicMetadata)) (s : BrokerState) : Prop :=
  match r with
  | Err e => e = Topics.InvalidName ∧ Topics.validate_name name = Err Topics.InvalidName
  | Ok (Some m) => Topics.validate_name name = Ok () ∧ Topics.lookup_topic (topics s) name = Some m
  | Ok None => Topics.validate_name name = Ok () ∧ allow = false
  end.

Lemma get_or_auto_create_spec new_v4 name allow s :
  TopicsCorrect.UniqueUuids new_v4 →
  wp (get_or_auto_create new_v4 name allow) (topic_looked_up name allow) s.
Proof.
  intros Hu. unfold get_or_auto_create. apply wp_bind, wp_read. intros s1 Hwf1 Hext1.
  pose proof (TopicsCorrect.auto_create_read_spec (topics s1) name allow) as Hread.
  destruct (Topics.auto_create_read (topics s1) name allow) as [r|].
  { destruct r as [[m|]|e]; cbn in *; naive_solver. }
  destruct Hread as (Hname & _ & _). apply wp_atomically. intros s2 Hwf2 Hext2.
  destruct (TopicsCorrect.auto_create_write_spec new_v4 (topics s2) name Hu (proj1 Hwf2) Hname)
    as (m & c' & -> & Hcwf & Hcext & Hl & Hcases). cbn [panic_bind fst snd].
  do 2 eexists. split_and!; [done| |by apply with_topics_extends|by split].
  destruct Hcases as [(_ & ->)|(_ & _ & d & -> & _)]; [|by apply new_topic_wf].
  by destruct s2.
Qed.

Definition error_listed (e : option Errors.ResponseError) : Prop :=
  match e with Some e => Errors.listed e = true | None => True end.

Lemma produce_topic_error_listed new_v4 topic request_error s :
  TopicsCorrect.UniqueUuids new_v4 → error_listed request_error →
  wp (produce_topic_error new_v4 topic request_error) (λ e _, error_listed e) s.
Proof.
  intros Hu He. destruct request_error as [e|]; cbn [produce_topic_error]; [done|].
  apply wp_bind, wp_read. intros s1 Hwf1 Hext1. apply wp_bind.
  eapply wp_mono; [|by apply get_or_auto_create_spec]. intros r s2 _. cbn.
  destruct r as [[m|]|e]; cbn; [done..|]. by intros [-> _].
Qed.

(** ** Whole produce requests *)

Definition topic_produced (topic : TopicProduceData) (response : TopicProduceResponse)
    (s : BrokerState) : Prop :=
  tpr_name response = tpd_name topic ∧
  Forall2 (λ request r, partition_produced (tpd_name topic) request r s)
    (tpd_partition_data topic) (tpr_partition_responses response).

Definition request_produced (request : ProduceRequest) (response : ProduceResponse)
    (s : BrokerState) : Prop :=
  Forall2 (λ topic r, topic_produced topic r s) (pr_topic_data request) (prs_responses response).

Lemma topic_produced_stable topic : stable (topic_produced topic).
Proof.
  intros r s s' Hext [? Hall]. split; [done|]. eapply Forall2_impl; [done|].
  intros x y. by apply partition_produced_stable.
Qed.

Lemma request_produced_stable request : stable (request_produced request).
Proof.
  intros r s s' Hext Hall. eapply Forall2_impl; [done|]. intros x y. by apply topic_produced_stable.
Qed.

Lemma produce_topic_produced new_v4 topic request_error s :
  TopicsCorrect.UniqueUuids new_v4 → error_listed request_error →
  wp (produce_topic new_v4 topic request_error) (topic_produced topic) s.
Proof.
  intros Hu He. unfold produce_topic. apply wp_bind.
  eapply wp_mono; [|by apply produce_topic_error_listed]. intros topic_error s1 _ Hte. apply wp_bind.
  eapply wp_mono; [|apply (wp_for_each _ _ (partition_produced (tpd_name topic)))].
  - intros rs s2 _ Hrs. by split.
  - intros request. apply partition_produced_stable.
  - intros request s2 _ _. destruct topic_error as [e|].
    + by apply produce_error_produced.
    + apply produce_partition_produced.
Qed.

Lemma produce_request_error_listed request : error_listed (produce_request_error request).
Proof. unfold produce_request_error. repeat case_match; done. Qed.

Lemma produce_produced new_v4 request s :
  TopicsCorrect.UniqueUuids new_v4 → wp (produce new_v4 request) (request_produced request) s.
Proof.
  intros Hu. unfold produce. apply wp_bind.
  eapply wp_mono; [|apply (wp_for_each _ _ topic_produced)].
  - by intros rs s1 _ Hrs.
  - intros topic. apply topic_produced_stable.
  - intros topic s1 _ _. apply produce_topic_produced; [done|]. apply produce_request_error_listed.
Qed.

(** ** InitProducerId *)

(** A producer identifier is registered once it is answered. *)
Definition producer_initialised (response : InitProducerIdResponse) (s : BrokerState) : Prop :=
  ipr_error_code response = 0 →
  1 ≤ ipr_producer_id response ≤ Producers.next_id (producers s) ∧ ipr_producer_epoch response = 0.

Lemma producer_initialised_stable : stable producer_initialised.
Proof. intros r s s' (_ & _ & _ & _ & Hn & _) Hr Hc. destruct (Hr Hc). split; [lia|done]. Qed.

Lemma allocate_broker_wf s :
  broker_wf s → broker_wf (with_producers s (Producers.allocate (producers s)).2).
Proof.
  intros (Hc & Hp & Hgroups & Hlogs). split_and!; cbn; [done|by apply Producers.allocate_wf|done|].
  intros topic index log Hl. destruct (Hlogs _ _ _ Hl). split; [done|].
  eapply registered_mono; [|done]. apply Producers.allocate_next.
Qed.

Lemma init_producer_id_initialised transactional_id s :
  wp (init_producer_id transactional_id) producer_initialised s.
Proof.
  unfold init_producer_id. case_decide; [done|]. apply wp_bind, wp_atomically.
  intros s1 Hwf1 Hext1. pose proof (allocate_broker_wf s1 Hwf1) as Hwf2.
  pose proof (Producers.allocate_next (producers s1)) as Hnext.
  destruct Hwf1 as (_ & [Hn _] & _).
  destruct (Producers.allocate (producers s1)) as [r p] eqn:Ha. cbn [snd] in *.
  do 2 eexists. split_and!; [done..| |].
  - split_and!; try done; cbn; lia.
  - unfold Producers.allocate in Ha. destruct (checked_add _ _ _) as [id|] eqn:Hid.
    + apply checked_add_Some in Hid as [-> _]. injection Ha as <- <-. cbn. intros _. cbn. split; [lia|done].
    + by injection Ha as <- <-.
Qed.

(** ** Fetch *)

(** What a partition's answer says of the log: its records are a run of whole
    batches, starting with the one that holds the requested offset, within the
    limit unless it is a single batch. *)
Definition partition_served (topic : string) (max_bytes : Z) (request : FetchPartition)
    (response : PartitionData) (s : BrokerState) : Prop :=
  pd_partition_index response = fp_partition request ∧
  ∃ records, pd_records response = Some records ∧
    (pd_error_code response ≠ 0 → records = []) ∧
    (pd_error_code response = 0 →
      ∃ log pre got post,
        Topics.partition (topics s) topic (fp_partition request) = Some log ∧
        batches log = pre ++ got ++ post ∧ records = bytes_of got ∧
        0 ≤ fp_fetch_offset request ≤ pd_high_watermark response ≤ next_offset log ∧
        (∀ b rest, got = b :: rest →
          sb_base_offset b ≤ fp_fetch_offset request ≤ sb_last_offset b) ∧
        ((length got ≤ 1)%nat ∨
         len records ≤ Z.min (to_usize (fp_partition_max_bytes request)) max_bytes)).

Lemma partition_served_stable topic max_bytes request :
  stable (partition_served topic max_bytes request).
Proof.
  intros resp s s' (_ & _ & _ & Hc & _) (? & records & ? & ? & Hok). split; [done|].
  exists records. split_and!; [done..|]. intros Hz.
  destruct (Hok Hz) as (log & pre & got & post & Hl & Hb & ? & ? & ? & ?).
  destruct (TopicsCorrect.catalog_extends_partition _ _ _ _ _ Hc Hl) as (log' & Hl' & Hn & more & Hb').
  exists log', pre, got, (post ++ more). split_and!; try done; try lia.
  by rewrite Hb', Hb, <- !app_assoc.
Qed.

Lemma fetch_error_served topic max_bytes request s e :
  Errors.listed e = true →
  partition_served topic max_bytes request (fetch_error (fp_partition request) e) s.
Proof.
  intros He. split; [done|]. exists []. split_and!; [done..|]. cbn. intros Hc.
  by destruct (Errors.code_nonzero e).
Qed.

(** A batch is at most a 32-bit length and its prefix. *)
Lemma stored_batch_len b : stored_ok b → len (sb_bytes b) ≤ i32_max + 12.
Proof.
  intros (v & ([_ Hl] & _) & <- & _).
  pose proof (be_i32_range (slice BATCH_LENGTH_OFFSET (BATCH_LENGTH_OFFSET + 4) (vb_bytes v))) as Hr.
  rewrite Hl in Hr. unfold in_signed, i32_max in *. simpl in Hr. lia.
Qed.

Definition response_bytes (response : PartitionData) : Z := len (default [] (pd_records response)).

Lemma to_usize_nonneg n : 0 ≤ to_usize n.
Proof.
  unfold to_usize. destruct (try_unsigned n) as [m|] eqn:Hm; cbn; [|lia].
  apply try_unsigned_Some in Hm. lia.
Qed.

Lemma to_usize_le n m : n ≤ m → 0 ≤ m → to_usize n ≤ m.
Proof. unfold to_usize, try_unsigned. case_decide; cbn; lia. Qed.

Lemma fetch_partition_response_served topic request limit max_bytes s :
  0 ≤ limit ≤ Z.min (to_usize (fp_partition_max_bytes request)) max_bytes → max_bytes ≤ usize_max →
  wp (fetch_partition_response topic request limit)
    (λ r s', partition_served topic max_bytes request r s' ∧ response_bytes r ≤ usize_max) s.
Proof.
  intros Hlimit Hmax. unfold fetch_partition_response. apply wp_bind, wp_read. intros s1 Hwf1 Hext1.
  case_bool_decide as Hpart; cbn [negb]; [|by split; [apply fetch_error_served|]].
  apply wp_atomically. intros s2 Hwf2 Hext2.
  destruct (partition_extends _ _ _ _ Hext2 Hpart) as [log Hl]. rewrite Hl. cbn [panic_bind].
  pose proof Hwf2 as (_ & _ & _ & Hlogs). destruct (Hlogs _ _ _ Hl) as [Hlwf _].
  destruct (decide (0 ≤ fp_fetch_offset request ≤ next_offset log)) as [Ho|Ho].
  - destruct (fetch_in_range log (fp_fetch_offset request) limit Hlwf Ho)
      as (pre & got & post & (Hb & _ & Hgot & Hsize & _) & ->); [lia|]. cbn [panic_bind].
    do 2 eexists. split_and!; [done..| |].
    + split; [done|]. eexists. split_and!; [done..|]. intros _. exists log, pre, got, post. cbn.
      split_and!; try done; try lia.
      by intros b rest ->.
    + unfold response_bytes. cbn. destruct Hsize as [Hone|Hlen]; [|lia].
      destruct Hlwf as (_ & _ & Hst & _). rewrite Hb in Hst.
      apply Forall_app in Hst as [_ [Hst _]%Forall_app].
      destruct Hst as [|b got Hok _]; [done|]. destruct got; [|cbn in Hone; lia].
      rewrite bytes_of_cons, len_app. apply stored_batch_len in Hok.
      unfold i32_max, usize_max in *. change (len (bytes_of [])) with 0. lia.
  - unfold fetch. rewrite decide_True by lia. cbn [panic_bind raise].
    do 2 eexists. split_and!; [done..| |done]. by apply fetch_error_served.
Qed.

(** *** The request's limit *)

Definition total_bytes (l : list PartitionData) : Z := foldr Z.add 0 (response_bytes <$> l).
Definition nonempty_responses (l : list PartitionData) : nat :=
  length (filter (λ r, 0 < response_bytes r) l).
Definition valid_responses (l : list PartitionData) : Z :=
  len (filter (λ r, pd_error_code r = 0) l).

(** Appending answers [l] to answers of [sofar] bytes respects the limit. *)
Definition fits (max_bytes sofar : Z) (l : list PartitionData) : Prop :=
  (sofar = 0 → total_bytes l ≤ max_bytes ∨ (nonempty_responses l ≤ 1)%nat) ∧
  (0 < sofar → total_bytes l = 0 ∨ sofar + total_bytes l ≤ max_bytes).

Lemma response_bytes_nonneg r : 0 ≤ response_bytes r.
Proof. apply len_nonneg. Qed.

Lemma total_bytes_app l k : total_bytes (l ++ k) = total_bytes l + total_bytes k.
Proof. unfold total_bytes. induction l as [|r l IH]; cbn; [lia|]. cbn in IH. lia. Qed.

Lemma total_bytes_nonneg l : 0 ≤ total_bytes l.
Proof.
  unfold total_bytes. induction l as [|r l IH]; cbn; [lia|]. pose proof (response_bytes_nonneg r). lia.
Qed.

Lemma total_bytes_zero l : total_bytes l = 0 → nonempty_responses l = 0%nat.
Proof.
  induction l as [|r l IH]; [done|]. unfold total_bytes, nonempty_responses in *. cbn. intros Ht.
  pose proof (response_bytes_nonneg r). pose proof (total_bytes_nonneg l) as Hl. unfold total_bytes in Hl.
  case_decide; [lia|]. apply IH. lia.
Qed.

Lemma nonempty_responses_app l k :
  nonempty_responses (l ++ k) = (nonempty_responses l + nonempty_responses k)%nat.
Proof. unfold nonempty_responses. by rewrite filter_app, length_app. Qed.

Lemma valid_responses_app l k : valid_responses (l ++ k) = valid_responses l + valid_responses k.
Proof. unfold valid_responses. by rewrite filter_app, len_app. Qed.

Lemma fits_app max_bytes sofar l k :
  0 ≤ sofar → fits max_bytes sofar l → fits max_bytes (sofar + total_bytes l) k →
  fits max_bytes sofar (l ++ k).
Proof.
  intros Hs [Hl0 Hl] [Hk0 Hk]. pose proof (total_bytes_nonneg l). pose proof (total_bytes_nonneg k).
  unfold fits. rewrite total_bytes_app, nonempty_responses_app. split; intros Hsofar.
  - destruct (decide (total_bytes l = 0)) as [Hz|Hnz].
    + rewrite (total_bytes_zero l Hz). destruct Hk0; [lia|left; lia|right; lia].
    + destruct (decide (total_bytes k = 0)) as [Hkz|Hknz].
      * rewrite (total_bytes_zero k Hkz). destruct (Hl0 Hsofar); [left; lia|right; lia].
      * destruct Hk; [lia..|left; lia].
  - destruct Hk; [lia| |right; lia]. destruct (Hl Hsofar); [left; lia|right; lia].
Qed.

Lemma fits_nil max_bytes sofar : fits max_bytes sofar [].
Proof. split; [right; cbn; lia|left; done]. Qed.

Lemma account_partition_spec topic max_bytes record_bytes valid request response s :
  0 ≤ record_bytes ≤ usize_max → 0 ≤ max_bytes ≤ usize_max →
  partition_served topic max_bytes request response s → response_bytes response ≤ usize_max →
  ∃ response', account_partition max_bytes record_bytes valid response =
      (response', record_bytes + total_bytes [response'], valid + valid_responses [response']) ∧
    partition_served topic max_bytes request response' s ∧
    fits max_bytes record_bytes [response'] ∧ record_bytes + total_bytes [response'] ≤ usize_max.
Proof.
  intros Hrb Hmax (Hidx & records & Hrec & Herr & Hok) Hlen. unfold account_partition.
  unfold response_bytes in Hlen. rewrite Hrec in *. cbn in Hlen.
  set (valid' := if decide (pd_error_code response = 0) then valid + 1 else valid).
  assert (∀ rs, valid' = valid + valid_responses [mkPartitionData (pd_partition_index response)
    (pd_error_code response) (pd_high_watermark response) (pd_last_stable_offset response) rs]) as Hv.
  { intros rs. unfold valid', valid_responses. rewrite filter_cons. cbn.
    destruct (decide (pd_error_code response = 0)); unfold len; cbn; lia. }
  destruct (_ && _) eqn:Hexceeds.
  - eexists. split; [rewrite <- Hv; f_equal; f_equal; unfold total_bytes, response_bytes, len; cbn; lia|].
    split.
    + split; [done|]. exists []. cbn. split_and!; [done..|]. intros Hz.
      destruct (Hok Hz) as (log & pre & got & post & ? & ? & ? & ? & ? & ?).
      exists log, pre, [], (got ++ post). split_and!; try done; try lia. left. cbn. lia.
    + unfold fits, total_bytes, nonempty_responses, response_bytes, len. cbn.
      split_and!; [right; apply Nat.le_0_l|by left|lia].
  - assert (response = mkPartitionData (pd_partition_index response) (pd_error_code response)
      (pd_high_watermark response) (pd_last_stable_offset response) (Some records)) as Hresp.
    { rewrite <- Hrec. by destruct response. }
    assert (total_bytes [response] = len records) as Ht.
    { unfold total_bytes, response_bytes. cbn. rewrite Hrec. cbn. lia. }
    pose proof (len_nonneg records).
    assert (fits max_bytes record_bytes [response]) as Hfits.
    { split.
      - intros _. right. apply length_filter.
      - intros Hpos. right. rewrite Ht. rewrite bool_decide_true in Hexceeds by done. cbn in Hexceeds.
        destruct (checked_add _ _ _) as [size|] eqn:Hsize; [|done].
        apply checked_add_Some in Hsize as [-> _]. apply bool_decide_eq_false in Hexceeds. lia. }
    assert (record_bytes + len records ≤ usize_max) as Hle.
    { destruct (decide (record_bytes = 0)); [lia|]. destruct Hfits as [_ Hf].
      destruct Hf; [lia| |]; rewrite Ht in *; lia. }
    exists response. split_and!; [| |done|lia].
    + specialize (Hv (Some records)). rewrite <- Hresp in Hv. rewrite Ht, <- Hv. f_equal. f_equal.
      unfold saturating_add. by rewrite Z.min_r.
    + split; [done|]. by exists records.
Qed.

(** The counters after answers [l]. *)
Definition counted (max_bytes record_bytes valid record_bytes' valid' : Z)
    (l : list PartitionData) : Prop :=
  record_bytes' = record_bytes + total_bytes l ∧ valid' = valid + valid_responses l ∧
  fits max_bytes record_bytes l ∧ record_bytes' ≤ usize_max.

Lemma counted_app max_bytes rb valid rb1 valid1 rb2 valid2 l k :
  0 ≤ rb → counted max_bytes rb valid rb1 valid1 l → counted max_bytes rb1 valid1 rb2 valid2 k →
  counted max_bytes rb valid rb2 valid2 (l ++ k).
Proof.
  intros Hrb (-> & -> & Hl & _) (-> & -> & Hk & ?). unfold counted.
  rewrite total_bytes_app, valid_responses_app. split_and!; [lia..| |lia]. by apply fits_app.
Qed.

Lemma counted_nil max_bytes rb valid : rb ≤ usize_max → counted max_bytes rb valid rb valid [].
Proof.
  intros Hrb. unfold counted, total_bytes, valid_responses, len. cbn.
  split_and!; [lia..|apply fits_nil|done].
Qed.

Lemma snapshot_partitions_served topic max_bytes rb valid partitions s :
  0 ≤ rb ≤ usize_max → 0 ≤ max_bytes ≤ usize_max →
  wp (snapshot_partitions topic max_bytes rb valid partitions)
    (λ '(responses, rb', valid') s',
      Forall2 (λ p r, partition_served topic max_bytes p r s') partitions responses ∧
      counted max_bytes rb valid rb' valid' responses) s.
Proof.
  intros Hrb Hmax. revert rb valid s Hrb. induction partitions as [|p partitions IH];
    intros rb valid s Hrb; cbn [snapshot_partitions].
  { split; [constructor|]. apply counted_nil. lia. }
  apply wp_bind. eapply wp_mono; [|apply (fetch_partition_response_served _ _ _ max_bytes)].
  2: { unfold saturating_sub. pose proof (to_usize_nonneg (fp_partition_max_bytes p)). lia. }
  2: lia.
  cbn. intros response s1 Hext1 [Hserved Hlen].
  destruct (account_partition_spec topic max_bytes rb valid p response s1 Hrb Hmax Hserved Hlen)
    as (response' & -> & Hserved' & Hfits & Hle).
  pose proof (total_bytes_nonneg [response']).
  apply wp_bind. eapply wp_mono; [|apply IH; lia].
  intros [[responses rb'] valid'] s2 Hext2 [Hall Hcount]. cbn. split.
  - constructor; [|done]. by eapply partition_served_stable.
  - apply (counted_app _ _ _ (rb + total_bytes [response']) (valid + valid_responses [response'])
      _ _ [response']); [lia| |done].
    by split_and!.
Qed.

Definition topic_served (max_bytes : Z) (topic : FetchTopic) (response : FetchableTopicResponse)
    (s : BrokerState) : Prop :=
  ftr_topic response = ft_topic topic ∧
  Forall2 (λ p r, partition_served (ft_topic topic) max_bytes p r s)
    (ft_partitions topic) (ftr_partitions response).

Lemma topic_served_stable max_bytes topic : stable (topic_served max_bytes topic).
Proof.
  intros r s s' Hext [? Hall]. split; [done|]. eapply Forall2_impl; [done|].
  intros x y. by apply partition_served_stable.
Qed.

Definition partition_answers (responses : list FetchableTopicResponse) : list PartitionData :=
  concat (ftr_partitions <$> responses).

Lemma snapshot_topics_served max_bytes rb valid requested s :
  0 ≤ rb ≤ usize_max → 0 ≤ max_bytes ≤ usize_max →
  wp (snapshot_topics max_bytes rb valid requested)
    (λ '(responses, rb', valid') s',
      Forall2 (λ t r, topic_served max_bytes t r s') requested responses ∧
      counted max_bytes rb valid rb' valid' (partition_answers responses)) s.
Proof.
  intros Hrb Hmax. revert rb valid s Hrb. induction requested as [|t requested IH];
    intros rb valid s Hrb; cbn [snapshot_topics].
  { split; [constructor|]. apply counted_nil. lia. }
  apply wp_bind. eapply wp_mono; [|by apply snapshot_partitions_served].
  intros [[partitions rb1] valid1] s1 Hext1 [Hall Hcount].
  pose proof (total_bytes_nonneg partitions). pose proof Hcount as (-> & -> & _ & Hle).
  apply wp_bind. eapply wp_mono; [|apply IH; lia].
  intros [[responses rb'] valid'] s2 Hext2 [Hall2 Hcount2]. cbn. split.
  - constructor; [|done]. eapply topic_served_stable; [done|]. by split.
  - eapply counted_app; [lia|done|done].
Qed.

(** What a fetch answer says: one answer per requested partition, in order. *)
Definition request_served (request : FetchRequest) (response : FetchResponse) (s : BrokerState) :
    Prop :=
  Forall2 (λ t r, topic_served (to_usize (fr_max_bytes request)) t r s)
    (fr_topics request) (frs_responses response).

Lemma request_served_stable request : stable (request_served request).
Proof.
  intros r s s' Hext Hall. eapply Forall2_impl; [done|]. intros x y. by apply topic_served_stable.
Qed.

Lemma snapshot_served request s :
  fr_max_bytes request ≤ usize_max →
  wp (snapshot request)
    (λ snap s', request_served request (fsn_response snap) s' ∧
      let answers := partition_answers (frs_responses (fsn_response snap)) in
      fsn_record_bytes snap = total_bytes answers ∧
      fsn_valid_partitions snap = valid_responses answers ∧
      (total_bytes answers ≤ to_usize (fr_max_bytes request) ∨
       (nonempty_responses answers ≤ 1)%nat)) s.
Proof.
  intros Hmax. unfold snapshot. apply wp_bind.
  eapply wp_mono; [|apply snapshot_topics_served].
  - intros [[responses rb'] valid'] s1 _ [Hall (Hrb & Hv & [Hfits _] & _)].
    split; [done|]. split_and!; [exact Hrb|exact Hv|by apply Hfits].
  - unfold usize_max. lia.
  - split; [apply to_usize_nonneg|]. apply to_usize_le; unfold usize_max in *; lia.
Qed.

(** ** ListOffsets *)

(** The latest offset was the end of the log at some point. *)
Definition offset_listed (topic : string) (request : ListOffsetsPartition)
    (response : ListOffsetsPartitionResponse) (s : BrokerState) : Prop :=
  (lor_partition_index response = lop_partition_index request ∧ lor_leader_epoch response = -1) ∧
  (lor_error_code response ≠ 0 → lor_offset response = -1) ∧
  (lor_error_code response = 0 →
    ∃ log, Topics.partition (topics s) topic (lop_partition_index request) = Some log ∧
      0 ≤ lor_offset response ≤ next_offset log ∧
      (lop_timestamp request = -2 → lor_offset response = 0)).

Lemma offset_listed_stable topic request : stable (offset_listed topic request).
Proof.
  intros r s s' (_ & _ & _ & Hc & _) ([? ?] & ? & Hok). split_and!; [done..|]. intros Hz.
  destruct (Hok Hz) as (log & Hl & ? & ?).
  destruct (TopicsCorrect.catalog_extends_partition _ _ _ _ _ Hc Hl) as (log' & ? & ? & _).
  exists log'. split_and!; try done; lia.
Qed.

Lemma list_offsets_partition_listed topic request s :
  wp (list_offsets_partition topic request) (offset_listed topic request) s.
Proof.
  unfold list_offsets_partition. apply wp_bind, wp_read. intros s1 Hwf1 Hext1.
  case_bool_decide as Hpart; cbn [negb]; [|done].
  destruct Hpart as [log Hl]. pose proof Hwf1 as (_ & _ & _ & Hlogs).
  destruct (Hlogs _ _ _ Hl) as [[Hn _] _].
  case_decide; [|case_decide as Ht; [|done]].
  - split_and!; [done..|]. intros _. exists log. split_and!; try done; cbn; lia.
  - apply wp_bind, wp_atomically. intros s2 Hwf2 Hext2.
    destruct (partition_extends _ _ _ _ Hext2 (mk_is_Some _ _ Hl)) as [log2 Hl2]. rewrite Hl2. cbn [panic_bind].
    do 2 eexists. split_and!; [done..|]. split_and!; [done..|]. intros _. exists log2.
    pose proof Hwf2 as (_ & _ & _ & Hlogs2). destruct (Hlogs2 _ _ _ Hl2) as [[Hn2 _] _].
    cbn. unfold log_next_offset. split_and!; try done; lia.
Qed.

Definition offsets_listed (request : list ListOffsetsTopic) (response : list ListOffsetsTopicResponse)
    (s : BrokerState) : Prop :=
  Forall2 (λ t r, lotr_name r = lot_name t ∧
    Forall2 (λ p q, offset_listed (lot_name t) p q s) (lot_partitions t) (lotr_partitions r))
    request response.

Lemma list_offsets_listed request s : wp (list_offsets request) (offsets_listed request) s.
Proof.
  unfold list_offsets.
  apply (wp_for_each _ _ (λ t r s, lotr_name r = lot_name t ∧
    Forall2 (λ p q, offset_listed (lot_name t) p q s) (lot_partitions t) (lotr_partitions r))).
  - intros t r s1 s2 Hext [? Hall]. split; [done|]. eapply Forall2_impl; [done|].
    intros x y. by apply offset_listed_stable.
  - intros t s1 _ _. apply wp_bind.
    eapply wp_mono; [|apply (wp_for_each _ _ (offset_listed (lot_name t)))].
    + intros rs s2 _ Hrs. by split.
    + intros p. apply offset_listed_stable.
    + intros p s2 _ _. apply list_offsets_partition_listed.
Qed.

(** ** Reading back *)

(** If batches that fit come first, they are all returned. *)
Lemma fetch_loop_prefix max bs post :
  len (bytes_of bs) ≤ max ≤ usize_max → Forall batch_shape (bs ++ post) →
  ∃ more, fetch_loop max [] (bs ++ post) = Some (bytes_of bs ++ more).
Proof.
  intros [Hlen Hmax] Hshape.
  destruct (fetch_loop_first max (bs ++ post) Hmax Hshape) as (got & rest & Hsplit & -> & _ & _ & Hstop).
  assert (∃ tail, got = bs ++ tail) as [tail ->].
  { destruct (decide (length bs ≤ length got)%nat) as [Hle|Hlt].
    - exists (drop (length bs) got). rewrite <- (take_drop (length bs) got) at 1. f_equal.
      transitivity (take (length bs) (got ++ rest)); [by rewrite take_app_le|].
      by rewrite <- Hsplit, take_app_length.
    - exfalso. destruct (lookup_lt_is_Some_2 bs (length got)) as [b Hb]; [lia|].
      assert (rest = b :: drop 1 rest) as Hrest.
      { assert ((bs ++ post) !! length got = Some b) as Hl by (by apply lookup_app_l_Some).
        rewrite Hsplit, lookup_app_r, Nat.sub_diag in Hl by lia.
        destruct rest; [done|]. cbn in *. by injection Hl as ->. }
      specialize (Hstop _ _ Hrest).
      assert (got ++ [b] = take (S (length got)) bs) as Hpre.
      { rewrite (take_S_r _ _ b) by done. f_equal.
        rewrite <- (take_app_le bs post) by lia. rewrite Hsplit. by rewrite take_app_length. }
      assert (len (bytes_of (got ++ [b])) ≤ len (bytes_of bs)) as Hle.
      { rewrite Hpre. rewrite <- (take_drop (S (length got)) bs) at 2.
        rewrite bytes_of_app, len_app. pose proof (len_nonneg (bytes_of (drop (S (length got)) bs))). lia. }
      rewrite bytes_of_app, len_app, bytes_of_cons, len_app in Hle.
      pose proof (len_nonneg (bytes_of [])). lia. }
  exists (bytes_of tail). by rewrite bytes_of_app.
Qed.

(** Records in the log are returned, first, by a fetch at their offset, with
    only their base offsets rewritten. *)
Lemma fetch_stored log base records max :
  log_wf log → stored_at log base records → len records ≤ max ≤ usize_max →
  ∃ vs more, validate_record_set records = Some (Ok vs) ∧
    fetch log base max = Some (Ok (Partition.mkFetchSnapshot
      (concat (vb_bytes <$> place base vs) ++ more) (next_offset log))) ∧
    validate_record_set (concat (vb_bytes <$> place base vs)) = Some (Ok (place base vs)).
Proof.
  intros (Hn & Hchain & Hok & _) (vs & pre & stored & post & Hv & Hb & Hst) Hmax.
  pose proof Hv as (Hne & Hall & Hone & ->)%validate_record_set_spec.
  destruct (store_batches_spec base vs Hall) as (stored' & Hst' & Hchain' & Hok' & Hbytes & Hcounts).
  rewrite Hst in Hst'. injection Hst' as <-.
  assert (bytes_of stored = concat (vb_bytes <$> place base vs)) as Hcat
    by (unfold bytes_of; by rewrite Hbytes).
  assert (stored ≠ []) as Hsne.
  { intros ->. destruct vs; [done|]. discriminate Hcounts. }
  pose proof (chain_shape _ _ _ Hchain Hok) as Hshape. rewrite Hb in Hchain, Hshape.
  destruct (chain_app_inv _ _ _ _ Hchain) as (mid & Hpre & Hpost).
  destruct stored as [|b stored]; [done|].
  assert (mid = base) as -> by (destruct Hpost as [<- _], Hchain' as [<- _]; done).
  pose proof (chain_le _ _ _ Hpre). pose proof (chain_le _ _ _ Hpost).
  apply Forall_app in Hshape as [_ Hshape].
  destruct (fetch_loop_prefix max (b :: stored) post) as (more & Hloop); [|done|].
  { rewrite Hcat, place_bytes_len by done. lia. }
  exists vs, more. split_and!; [done| |].
  - unfold fetch. rewrite decide_False by lia. rewrite Hb, skip_while_split.
    + rewrite Hloop, Hcat. done.
    + eapply Forall_impl; [by eapply chain_last_lt|]. intros x Hx. by apply bool_decide_true.
    + cbn. intros x l [= <- <-]. destruct Hchain' as (? & ? & ? & _). apply bool_decide_false. lia.
  - apply validate_record_set_spec. split_and!; [by destruct vs|by apply place_ok
      |by apply place_one_producer|done].
Qed.

End correct.

End HandlersCorrect.
