(* ===== verification/Admin.v ===== *)
(** * The topic administration and discovery handlers

    [src/src/kafka/create_topics.rs], [metadata.rs], [discovery.rs] and
    [describe_topic_partitions.rs] as programs on the broker state.  A message
    is the record of the fields its handler reads or sets (a request's
    assignments and configurations are only tested for emptiness); fields a
    handler leaves alone have the value [Default] gives them; [Dispatcher] puts
    these records into the whole messages.  The address the broker advertises is
    a parameter. *)

From S2P Require Import Prelude Errors Partition Topics Broker Handlers.
Open Scope Z_scope.

Module Admin.
Import Broker Handlers.

(** ** Discovery *)

(* @ src/src/kafka/discovery.rs 1-1 CLUSTER_ID *)
Definition CLUSTER_ID : string := "memkafka".

(* @ src/src/kafka/discovery.rs 2-2 TOPIC_AUTHORIZED_OPERATIONS *)
Definition TOPIC_AUTHORIZED_OPERATIONS : Z := 3576.

(* @ src/src/kafka/discovery.rs 3-3 CLUSTER_AUTHORIZED_OPERATIONS *)
Definition CLUSTER_AUTHORIZED_OPERATIONS : Z := 8096.

(* @ src/src/kafka/discovery.rs 5-7 optional_authorized_operations *)
Definition optional_authorized_operations (include : bool) (value : Z) : Z :=
  if include then value else i32_min.

(** ** CreateTopics *)

(* @ src/crates/kafka-protocol/src/messages/create_topics_request.rs 167-195 CreatableTopic *)
Record CreatableTopic : Type := mkCreatableTopic {
  ct_name : string;
  ct_num_partitions : Z;
  ct_replication_factor : Z;
  ct_assignments : list (Z * list Z);
  ct_configs : list (string * option string)
}.

(* @ src/crates/kafka-protocol/src/messages/create_topics_response.rs 294-337 CreatableTopicResult *)
Record CreatableTopicResult : Type := mkCreatableTopicResult {
  ctr_name : string;
  ctr_topic_id : Z;
  ctr_error_code : Z;
  ctr_error_message : option string;
  ctr_num_partitions : Z;
  ctr_replication_factor : Z
}.

(* @ src/src/kafka/create_topics.rs 110-115 error_result *)
Definition create_error (name : string) (error : Errors.ResponseError) (message : string) :
    CreatableTopicResult :=
  mkCreatableTopicResult name 0 (Errors.code error) (Some message) (-1) (-1).

(* @ src/src/kafka/create_topics.rs 100-108 topic_error_result *)
Definition topic_error_result (name : string) (error : Topics.TopicError) : CreatableTopicResult :=
  let response_error :=
    match error with
    | Topics.AlreadyExists => Errors.TopicAlreadyExists
    | Topics.InvalidName => Errors.InvalidTopicException
    | Topics.InvalidPartitions => Errors.InvalidPartitions
    | Topics.InvalidReplicationFactor => Errors.InvalidReplicationFactor
    end in
  create_error name response_error (Topics.topic_error_message error).

(* @ src/src/kafka/create_topics.rs 84-98 success_result_with_partition_count *)
Definition success_result_with_partition_count (name : string) (partition_count : Z) :
    CreatableTopicResult :=
  mkCreatableTopicResult name 0 0 None partition_count 1.

(* @ src/src/kafka/create_topics.rs 75-82 success_result *)
Definition success_result (name : string) (metadata : Topics.TopicMetadata) :
    option CreatableTopicResult :=
  let! partition_count := try_i32 (Topics.tm_partition_count metadata) in
  Some (mkCreatableTopicResult name (Topics.tm_id metadata) 0 None partition_count 1).

Section admin.
  Context (new_v4 : nat → Z).

(* @ src/src/kafka/create_topics.rs 26-73 create_one *)
Definition create_one (topic : CreatableTopic) (validate_only : bool) : prog CreatableTopicResult :=
  let name := ct_name topic in
  if negb (bool_decide (ct_assignments topic = [])) then
    Ret (create_error name Errors.InvalidReplicaAssignment
      "manual replica assignments are not supported")
  else if negb (bool_decide (ct_configs topic = [])) then
    Ret (create_error name Errors.InvalidConfig "custom topic configurations are not supported")
  else if validate_only then
    do r <- read (λ s, Topics.validate_explicit (topics s) name (ct_num_partitions topic)
      (ct_replication_factor topic));
    match r with
    | Ok _ => Ret (success_result_with_partition_count name (ct_num_partitions topic))
    | Err error => Ret (topic_error_result name error)
    end
  else
    do r <- atomically (λ s,
      let! r := Topics.create_explicit new_v4 (topics s) name (ct_num_partitions topic)
        (ct_replication_factor topic) in
      Some (r.1, with_topics s r.2));
    match r with
    | Ok metadata => unwrap (success_result name metadata)
    | Err error => Ret (topic_error_result name error)
    end.

(* @ src/src/kafka/create_topics.rs 15-24 response *)
Definition create_topics (request : list CreatableTopic) (validate_only : bool) :
    prog (list CreatableTopicResult) :=
  for_each (λ topic, create_one topic validate_only) request.

(** ** Metadata *)

(* @ src/crates/kafka-protocol/src/messages/metadata_request.rs 255-268 MetadataRequestTopic *)
Record MetadataRequestTopic : Type := mkMetadataRequestTopic {
  mrt_topic_id : Z;
  mrt_name : option string
}.

(* @ src/crates/kafka-protocol/src/messages/metadata_request.rs 23-46 MetadataRequest *)
Record MetadataRequest : Type := mkMetadataRequest {
  mr_topics : option (list MetadataRequestTopic);
  mr_allow_auto_topic_creation : bool;
  mr_include_cluster_authorized_operations : bool;
  mr_include_topic_authorized_operations : bool
}.

(* @ src/crates/kafka-protocol/src/messages/metadata_response.rs 538-576 MetadataResponsePartition *)
Record MetadataResponsePartition : Type := mkMetadataResponsePartition {
  mrp_partition_index : Z;
  mrp_leader_id : Z;
  mrp_leader_epoch : Z;
  mrp_replica_nodes : list Z;
  mrp_isr_nodes : list Z;
  mrp_offline_replicas : list Z
}.

(* @ src/crates/kafka-protocol/src/messages/metadata_response.rs 818-851 MetadataResponseTopic *)
Record MetadataResponseTopic : Type := mkMetadataResponseTopic {
  mt_error_code : Z;
  mt_name : option string;
  mt_topic_id : Z;
  mt_partitions : list MetadataResponsePartition;
  mt_topic_authorized_operations : Z
}.

(* @ src/crates/kafka-protocol/src/messages/metadata_response.rs 336-359 MetadataResponseBroker *)
Record MetadataResponseBroker : Type := mkMetadataResponseBroker {
  mb_node_id : Z;
  mb_host : string;
  mb_port : Z
}.

(* @ src/crates/kafka-protocol/src/messages/metadata_response.rs 23-61 MetadataResponse *)
Record MetadataResponse : Type := mkMetadataResponse {
  mrs_brokers : list MetadataResponseBroker;
  mrs_cluster_id : option string;
  mrs_controller_id : Z;
  mrs_topics : list MetadataResponseTopic;
  mrs_cluster_authorized_operations : Z;
  mrs_error_code : Z
}.

(* @ src/src/kafka/metadata.rs 236-246 error_topic *)
Definition error_topic (name : option string) (topic_id : Z) (error : Errors.ResponseError) :
    MetadataResponseTopic :=
  mkMetadataResponseTopic (Errors.code error) name topic_id [] i32_min.

(** [0..count] as machine integers. *)
Definition range (first count : Z) : list Z :=
  (λ i, first + Z.of_nat i) <$> seq 0 (Z.to_nat count).

(* @ src/src/kafka/metadata.rs 214-234 success_topic *)
Definition success_topic (topic : Topics.TopicMetadata) (broker_id : Z) :
    option MetadataResponseTopic :=
  let! partitions := mapM (λ partition_index,
    let! index := try_i32 partition_index in
    Some (mkMetadataResponsePartition index broker_id 0 [broker_id] [broker_id] []))
    (range 0 (Topics.tm_partition_count topic)) in
  Some (mkMetadataResponseTopic 0 (Some (Topics.tm_name topic)) (Topics.tm_id topic) partitions
    i32_min).

Definition has_non_zero_topic_id (requested : list MetadataRequestTopic) : bool :=
  existsb (λ topic, negb (bool_decide (mrt_topic_id topic = 0))) requested.

(* @ src/src/kafka/metadata.rs 113-125 request_error *)
Definition request_error (request : MetadataRequest) (version : Z) : option Errors.ResponseError :=
  match mr_topics request with
  | None => None
  | Some requested =>
      let has_null_topic_name := existsb (λ topic, bool_decide (mrt_name topic = None)) requested in
      if bool_decide (10 ≤ version ≤ 11) && (has_non_zero_topic_id requested || has_null_topic_name)
      then Some Errors.InvalidRequest
      else if bool_decide (12 ≤ version) && negb (has_non_zero_topic_id requested) &&
              has_null_topic_name
      then Some Errors.UnknownServerError
      else None
  end.

(* @ src/src/kafka/metadata.rs 127-150 request_error_response *)
Definition request_error_response (request : MetadataRequest) (version : Z)
    (error : Errors.ResponseError) : MetadataResponse :=
  let response_topics :=
    (λ topic, error_topic (Some (default "" (mrt_name topic))) (mrt_topic_id topic) error) <$>
      default [] (mr_topics request) in
  mkMetadataResponse [] None (-1) response_topics i32_min
    (if decide (13 ≤ version) then Errors.code error else 0).

(* @ src/src/kafka/metadata.rs 171-184 topics_by_name *)
Definition topic_by_name (name : string) : prog MetadataResponseTopic :=
  do found <- read (λ s, Topics.get (topics s) name);
  do broker_id <- read broker_id;
  match found with
  | Ok (Some metadata) => unwrap (success_topic metadata broker_id)
  | Ok None => Ret (error_topic (Some name) 0 Errors.UnknownTopicOrPartition)
  | Err Topics.InvalidName => Ret (error_topic (Some name) 0 Errors.InvalidTopicException)
  | Err _ => panic
  end.

(* @ src/src/kafka/metadata.rs 152-188 topics_by_name *)
Fixpoint topics_by_name (seen : gset (option string)) (requested : list MetadataRequestTopic) :
    prog (list MetadataResponseTopic) :=
  match requested with
  | [] => Ret []
  | topic :: requested =>
      if decide (mrt_name topic ∈ seen) then topics_by_name seen requested
      else
        let seen := {[mrt_name topic]} ∪ seen in
        do response <- match mrt_name topic with
          | None => Ret (error_topic None 0 Errors.InvalidTopicException)
          | Some name => topic_by_name name
          end;
        do rest <- topics_by_name seen requested;
        Ret (response :: rest)
  end.

(** The two vectors of the loop, joined at the end. *)
(* @ src/src/kafka/metadata.rs 190-212 topics_by_id *)
Fixpoint topics_by_id (seen : gset Z) (requested : list MetadataRequestTopic)
    (unknown_topics known_topics : list MetadataResponseTopic) :
    prog (list MetadataResponseTopic) :=
  match requested with
  | [] => Ret (unknown_topics ++ known_topics)
  | topic :: requested =>
      let id := mrt_topic_id topic in
      if decide (id = 0 ∨ id ∈ seen) then
        topics_by_id seen requested unknown_topics known_topics
      else
        let seen := {[id]} ∪ seen in
        do found <- read (λ s, Topics.get_by_id (topics s) id);
        match found with
        | Some metadata =>
            do broker_id <- read broker_id;
            do response <- unwrap (success_topic metadata broker_id);
            topics_by_id seen requested unknown_topics (known_topics ++ [response])
        | None =>
            topics_by_id seen requested
              (unknown_topics ++ [error_topic None id Errors.UnknownTopicId]) known_topics
        end
  end.

(* @ src/src/kafka/metadata.rs 91-107 topics_for_request *)
Definition auto_create_requested (requested : list MetadataRequestTopic) : prog (list ()) :=
  for_each (λ topic,
    match mrt_name topic with
    | None => Ret ()
    | Some name =>
        do created <- get_or_auto_create new_v4 name true;
        match created with
        | Ok _ | Err Topics.InvalidName => Ret ()
        | Err _ => panic
        end
    end) requested.

(* @ src/src/kafka/metadata.rs 65-111 topics_for_request *)
Definition topics_for_request (request : MetadataRequest) (version : Z) :
    prog (list MetadataResponseTopic) :=
  match mr_topics request with
  | None =>
      do listed <- read (λ s, Topics.list_topics (topics s));
      do broker_id <- read broker_id;
      for_each (λ topic, unwrap (success_topic topic broker_id)) listed
  | Some [] => Ret []
  | Some requested =>
      if bool_decide (12 ≤ version) && has_non_zero_topic_id requested then
        topics_by_id ∅ requested [] []
      else
        do allow_auto_create <- read (λ s, auto_create_topics s &&
          (mr_allow_auto_topic_creation request || force_auto_create_topics s));
        do _ <- (if allow_auto_create : bool then auto_create_requested requested else Ret []);
        topics_by_name ∅ requested
  end.

Definition with_operations (operations : Z) (topic : MetadataResponseTopic) : MetadataResponseTopic :=
  if decide (mt_error_code topic = Errors.code Errors.UnknownTopicId) then topic
  else mkMetadataResponseTopic (mt_error_code topic) (mt_name topic) (mt_topic_id topic)
    (mt_partitions topic) operations.

(* @ src/src/kafka/metadata.rs 28-63 response *)
Definition metadata (request : MetadataRequest) (version : Z) (host : string) (port : Z) :
    prog MetadataResponse :=
  match request_error request version with
  | Some error => Ret (request_error_response request version error)
  | None =>
      do response_topics <- topics_for_request request version;
      let operations := optional_authorized_operations
        (mr_include_topic_authorized_operations request) TOPIC_AUTHORIZED_OPERATIONS in
      do broker_id <- read broker_id;
      Ret (mkMetadataResponse [mkMetadataResponseBroker broker_id host port] (Some CLUSTER_ID)
        broker_id (with_operations operations <$> response_topics)
        (optional_authorized_operations (mr_include_cluster_authorized_operations request)
          CLUSTER_AUTHORIZED_OPERATIONS) 0)
  end.

End admin.

(** ** DescribeTopicPartitions *)

(* @ src/crates/kafka-protocol/src/messages/describe_topic_partitions_response.rs 23-36 Cursor *)
Record Cursor : Type := mkCursor {
  cur_topic_name : string;
  cur_partition_index : Z
}.

(* @ src/crates/kafka-protocol/src/messages/describe_topic_partitions_request.rs 149-167 DescribeTopicPartitionsRequest *)
Record DescribeTopicPartitionsRequest : Type := mkDescribeTopicPartitionsRequest {
  dr_topics : list string;
  dr_response_partition_limit : Z;
  dr_cursor : option Cursor
}.

(* @ src/crates/kafka-protocol/src/messages/describe_topic_partitions_response.rs 554-587 DescribeTopicPartitionsResponseTopic *)
Record DescribeTopicPartitionsResponseTopic : Type := mkDescribedTopic {
  dt_error_code : Z;
  dt_name : option string;
  dt_topic_id : Z;
  dt_partitions : list MetadataResponsePartition;
  dt_topic_authorized_operations : Z
}.

(* @ src/crates/kafka-protocol/src/messages/describe_topic_partitions_response.rs 149-167 DescribeTopicPartitionsResponse *)
Record DescribeTopicPartitionsResponse : Type := mkDescribeTopicPartitionsResponse {
  dp_topics : list DescribeTopicPartitionsResponseTopic;
  dp_next_cursor : option Cursor
}.

(** A [BTreeSet] of strings, read in order. *)
Definition sorted_names (names : list string) : list string :=
  merge_sort String.le (remove_dups names).

(** [cursor_name.is_none_or(|cursor| name >= cursor)]. *)
(* @ src/src/kafka/describe_topic_partitions.rs 58-64 selected_names *)
Definition from_cursor (request_cursor : option Cursor) (name : string) : bool :=
  match request_cursor with
  | Some cursor => bool_decide (String.le (cur_topic_name cursor) name)
  | None => true
  end.

(* @ src/src/kafka/describe_topic_partitions.rs 23-66 selected_names *)
Definition selected_names (request : DescribeTopicPartitionsRequest)
    (catalog_topics : list Topics.TopicMetadata) : result Errors.ResponseError (list string) :=
  let negative := match dr_cursor request with
    | Some cursor => bool_decide (cur_partition_index cursor < 0)
    | None => false
    end in
  if negative then Err Errors.InvalidRequest
  else
    let explicit := negb (bool_decide (dr_topics request = [])) in
    let names := sorted_names
      (if explicit then dr_topics request else Topics.tm_name <$> catalog_topics) in
    let absent := match dr_cursor request with
      | Some cursor => negb (bool_decide (cur_topic_name cursor ∈ names))
      | None => false
      end in
    if explicit && absent then Err Errors.InvalidRequest
    else
      Ok (filter (λ name, from_cursor (dr_cursor request) name = true) names).

(* @ src/src/kafka/describe_topic_partitions.rs 139-167 success_topic *)
Definition described_topic (metadata : Topics.TopicMetadata) (first count : Z) (broker_id : Z) :
    option DescribeTopicPartitionsResponseTopic :=
  let! partitions := mapM (λ partition_index,
    let! index := try_i32 partition_index in
    Some (mkMetadataResponsePartition index broker_id 0 [broker_id] [broker_id] []))
    (range first count) in
  Some (mkDescribedTopic 0 (Some (Topics.tm_name metadata)) (Topics.tm_id metadata) partitions
    TOPIC_AUTHORIZED_OPERATIONS).

(* @ src/src/kafka/describe_topic_partitions.rs 179-188 error_topic *)
Definition described_error (name : string) (error : Errors.ResponseError) :
    DescribeTopicPartitionsResponseTopic :=
  mkDescribedTopic (Errors.code error) (Some name) 0 [] i32_min.

(* @ src/src/kafka/describe_topic_partitions.rs 190-192 resource_error_topic *)
Definition resource_error_topic (name : string) (error : Errors.ResponseError) :
    DescribeTopicPartitionsResponseTopic :=
  mkDescribedTopic (Errors.code error) (Some name) 0 [] TOPIC_AUTHORIZED_OPERATIONS.

(* @ src/src/kafka/describe_topic_partitions.rs 194-201 cursor *)
Definition cursor (name : string) (partition_index : Z) : option Cursor :=
  let! index := try_i32 partition_index in
  Some (mkCursor name index).

(** Where the description of a topic starts: the cursor's partition in the
    cursor's topic. *)
(* @ src/src/kafka/describe_topic_partitions.rs 106-114 response *)
Definition start_of (request_cursor : option Cursor) (name : string) : option Z :=
  match request_cursor with
  | Some cursor =>
      if decide (cur_topic_name cursor = name) then try_unsigned (cur_partition_index cursor)
      else Some 0
  | None => Some 0
  end.

(** The loop over the names; what it returns are the topics still to push and
    the next cursor. *)
(* @ src/src/kafka/describe_topic_partitions.rs 86-132 response *)
Fixpoint describe_names (request_cursor : option Cursor) (remaining : Z) (names : list string) :
    prog (list DescribeTopicPartitionsResponseTopic * option Cursor) :=
  match names with
  | [] => Ret ([], None)
  | name :: names =>
      do found <- read (λ s, Topics.get (topics s) name);
      match found with
      | Ok None =>
          do rest <- describe_names request_cursor remaining names;
          Ret (resource_error_topic name Errors.UnknownTopicOrPartition :: rest.1, rest.2)
      | Err Topics.InvalidName =>
          do rest <- describe_names request_cursor remaining names;
          Ret (resource_error_topic name Errors.InvalidTopicException :: rest.1, rest.2)
      | Err _ => panic
      | Ok (Some metadata) =>
          do start <- unwrap (start_of request_cursor (Topics.tm_name metadata));
          let finish := Topics.tm_partition_count metadata in
          let take := Z.min (saturating_sub finish start) remaining in
          do broker_id <- read broker_id;
          do topic <- unwrap (described_topic metadata start take broker_id);
          let remaining := remaining - take in
          if decide (start + take < finish) then
            do next <- unwrap (cursor name (start + take));
            Ret ([topic], Some next)
          else
            match names with
            | next_name :: _ =>
                if decide (remaining = 0) then
                  do next <- unwrap (cursor next_name 0);
                  Ret ([topic], Some next)
                else
                  do rest <- describe_names request_cursor remaining names;
                  Ret (topic :: rest.1, rest.2)
            | [] => Ret ([topic], None)
            end
      end
  end.

(* @ src/src/kafka/describe_topic_partitions.rs 68-137 response *)
Definition describe_topic_partitions (request : DescribeTopicPartitionsRequest) :
    prog DescribeTopicPartitionsResponse :=
  do catalog_topics <- read (λ s, Topics.list_topics (topics s));
  match selected_names request catalog_topics with
  | Err error =>
      Ret (mkDescribeTopicPartitionsResponse
        ((λ name, described_error name error) <$> dr_topics request) None)
  | Ok names =>
      let remaining := Z.max (dr_response_partition_limit request) 1 in
      do described <- describe_names (dr_cursor request) remaining names;
      Ret (mkDescribeTopicPartitionsResponse described.1 described.2)
  end.

End Admin.
