(* ===== verification/AdminCorrect.v ===== *)
(** * Correctness of the administration handlers

    Creation and metadata requests keep the broker's invariant whatever runs
    concurrently, do not panic while partition counts fit 32-bit indexes, and
    answer with topics that exist as described. *)

From S2P Require Import Prelude Errors Records Partition PartitionCorrect Producers Topics.
From S2P Require Import TopicsCorrect Broker Handlers HandlersCorrect Admin.
Open Scope Z_scope.

Module AdminCorrect.
Import Broker Handlers HandlersCorrect Admin.

(** The largest number of partitions whose indexes are all [i32]s. *)
Definition max_partitions : Z := i32_max + 1.

Definition indexable (s : BrokerState) : Prop :=
  Topics.default_partitions (topics s) ≤ max_partitions.

Lemma indexable_extends s s' : broker_extends s s' → indexable s → indexable s'.
Proof. intros (_ & _ & _ & [Hd _] & _). unfold indexable. by rewrite Hd. Qed.

Lemma lookup_topic_indexable `{Crc32c} s name m :
  broker_wf s → indexable s → Topics.lookup_topic (topics s) name = Some m →
  1 ≤ Topics.tm_partition_count m ≤ max_partitions ∧ Topics.tm_name m = name.
Proof.
  intros ((Hd & Hn & _) & _) Hi (e & He & ->)%fmap_Some.
  destruct (Hn _ _ He) as [(Hname & _ & _ & Hc & _) _]. split; [|done].
  unfold TopicsCorrect.partition_limit, indexable, max_partitions, i32_max in *. lia.
Qed.

(** ** Partition indexes *)

Definition partition_entry (broker_id index : Z) : MetadataResponsePartition :=
  mkMetadataResponsePartition index broker_id 0 [broker_id] [broker_id] [].

Lemma range_elem first count i : i ∈ range first count ↔ first ≤ i < first + Z.max 0 count.
Proof.
  unfold range. rewrite list_elem_of_fmap. setoid_rewrite elem_of_seq. split.
  - intros (k & -> & Hk). lia.
  - intros Hi. exists (Z.to_nat (i - first)). lia.
Qed.

Lemma mapM_entries broker_id l :
  Forall (λ i, i ≤ i32_max) l →
  mapM (λ i, let! index := try_i32 i in Some (partition_entry broker_id index)) l
    = Some (partition_entry broker_id <$> l).
Proof.
  intros Hl. apply mapM_Some. apply Forall2_fmap_r, Forall2_same_length_lookup_2; [done|].
  intros k i i' Hi Hi'. simplify_eq. rewrite Forall_lookup in Hl. unfold try_i32.
  by rewrite decide_True by eauto.
Qed.

Lemma mapM_entries_None broker_id l :
  Exists (λ i, i32_max < i) l →
  mapM (λ i, let! index := try_i32 i in Some (partition_entry broker_id index)) l = None.
Proof.
  intros Hl. apply mapM_None. eapply Exists_impl; [exact Hl|]. intros i Hi. cbn beta in *. unfold try_i32.
  by rewrite decide_False by lia.
Qed.

Definition described (m : Topics.TopicMetadata) (broker_id : Z) : MetadataResponseTopic :=
  mkMetadataResponseTopic 0 (Some (Topics.tm_name m)) (Topics.tm_id m)
    (partition_entry broker_id <$> range 0 (Topics.tm_partition_count m)) i32_min.

Lemma success_topic_Some m broker_id :
  Topics.tm_partition_count m ≤ max_partitions →
  success_topic m broker_id = Some (described m broker_id).
Proof.
  intros Hc. unfold success_topic. rewrite (mapM_entries broker_id); [done|].
  apply Forall_forall. intros i Hi%range_elem. unfold max_partitions, i32_max in *. lia.
Qed.

Lemma described_topic_Some m first count broker_id :
  (0 < count → first + count ≤ max_partitions) →
  described_topic m first count broker_id =
    Some (mkDescribedTopic 0 (Some (Topics.tm_name m)) (Topics.tm_id m)
      (partition_entry broker_id <$> range first count) TOPIC_AUTHORIZED_OPERATIONS).
Proof.
  intros Hc. unfold described_topic. rewrite (mapM_entries broker_id); [done|].
  apply Forall_forall. intros i Hi%range_elem. unfold max_partitions, i32_max in *. lia.
Qed.

(** A partition count above 2^31 makes a metadata answer panic: the
    conversion of the partition index to 32 bits fails exactly then.  Explicit
    creation cannot make such a topic; the configured default can. *)
Theorem metadata_panics_beyond_i32 (m : Topics.TopicMetadata) (broker_id : Z) :
  success_topic m broker_id = None ↔ max_partitions < Topics.tm_partition_count m.
Proof.
  split.
  - intros Hnone. destruct (decide (Topics.tm_partition_count m ≤ max_partitions)); [|lia].
    by rewrite success_topic_Some in Hnone.
  - intros Hc. unfold success_topic. rewrite (mapM_entries_None broker_id); [done|].
    apply Exists_exists. exists (i32_max + 1). split; [|lia].
    apply range_elem. unfold max_partitions, i32_max in *. lia.
Qed.

Section admin.
  Context `{Crc32c}.
  Context (new_v4 : nat → Z) `{!TopicsCorrect.UniqueUuids new_v4}.

(** ** CreateTopics *)

(** The messages of the errors are short constants. *)
Definition short_message (message : option string) : bool :=
  (String.length (default "" message) <=? 100)%nat.

Definition topic_created (topic : CreatableTopic) (validate_only : bool)
    (result : CreatableTopicResult) (s : BrokerState) : Prop :=
  (ctr_name result = ct_name topic ∧ short_message (ctr_error_message result) = true) ∧
  (ctr_error_code result = 0 → ctr_num_partitions result = ct_num_partitions topic ∧
    (validate_only = false →
      Topics.lookup_topic (topics s) (ct_name topic) =
        Some (Topics.mkTopicMetadata (ctr_topic_id result) (ct_name topic) (ct_num_partitions topic)))).

Lemma topic_created_stable topic validate_only : stable (topic_created topic validate_only).
Proof.
  intros r s s' Hext [? Hok]. split; [done|]. intros Hz. destruct (Hok Hz) as [? Hl].
  split; [done|]. intros Hv. eapply TopicsCorrect.catalog_extends_lookup; [|by apply Hl]. apply Hext.
Qed.

Lemma topic_error_created topic validate_only e s :
  topic_created topic validate_only (topic_error_result (ct_name topic) e) s.
Proof. split; [split; [done|]|]; by destruct e. Qed.

Lemma create_one_created topic validate_only s :
  in_signed 32 (ct_num_partitions topic) →
  wp (create_one new_v4 topic validate_only) (topic_created topic validate_only) s.
Proof.
  intros Hp. unfold create_one. case_match; [done|]. case_match; [done|]. destruct validate_only.
  - apply wp_bind, wp_read. intros s1 Hwf1 _.
    destruct (Topics.validate_explicit _ _ _ _) as [[]|e]; [done|apply topic_error_created].
  - apply wp_bind, wp_atomically. intros s1 Hwf1 _.
    destruct (TopicsCorrect.create_explicit_spec new_v4 (topics s1) (ct_name topic)
      (ct_num_partitions topic) (ct_replication_factor topic) _ (proj1 Hwf1) Hp)
      as (r & c' & -> & Hr). cbn [panic_bind fst snd]. exists r, (with_topics s1 c').
    destruct r as [m|e].
    + destruct Hr as (d & -> & Hcwf & Hcext & Hname & Hcount & _).
      split_and!; [done|by apply new_topic_wf|by apply with_topics_extends|].
      unfold success_result, try_i32. rewrite Hcount, decide_True; [|unfold in_signed, i32_max in *; simpl in Hp; lia].
      cbn. split; [done|]. intros _. split; [done|]. intros _. cbn.
      rewrite <- Hname, TopicsCorrect.lookup_with_new_topic, <- Hcount. by destruct m.
    + destruct Hr as [-> _]. split_and!; [done|by destruct s1| |apply topic_error_created].
      by apply with_topics_extends.
Qed.

Lemma create_topics_created request validate_only s :
  Forall (λ t, in_signed 32 (ct_num_partitions t)) request →
  wp (create_topics new_v4 request validate_only)
    (λ results s', Forall2 (λ t r, topic_created t validate_only r s') request results) s.
Proof.
  intros Hp. unfold create_topics.
  apply (wp_for_each _ _ (λ t, topic_created t validate_only)).
  - intros t. apply topic_created_stable.
  - intros t s' Ht _. apply create_one_created. rewrite Forall_forall in Hp. by apply Hp.
Qed.

(** ** Metadata *)

(** What a metadata answer says of a topic. *)
Definition topic_answered (response : MetadataResponseTopic) (s : BrokerState) : Prop :=
  mt_error_code response = 0 →
  ∃ m, Topics.lookup_topic (topics s) (Topics.tm_name m) = Some m ∧
    mt_name response = Some (Topics.tm_name m) ∧ mt_topic_id response = Topics.tm_id m ∧
    mrp_partition_index <$> mt_partitions response = range 0 (Topics.tm_partition_count m).

Lemma topic_answered_stable : stable topic_answered.
Proof.
  intros r s s' Hext Hok Hz. destruct (Hok Hz) as (m & Hl & ?). exists m. split; [|done].
  eapply TopicsCorrect.catalog_extends_lookup; [|done]. apply Hext.
Qed.

Lemma entries_index broker_id (l : list Z) : mrp_partition_index <$> (partition_entry broker_id <$> l) = l.
Proof. rewrite <- list_fmap_compose. apply list_fmap_id. Qed.

Lemma described_answered m broker_id s :
  Topics.lookup_topic (topics s) (Topics.tm_name m) = Some m →
  topic_answered (described m broker_id) s.
Proof.
  intros Hl _. exists m. split_and!; [done..|]. cbn. apply entries_index.
Qed.

Lemma topic_by_name_answered name s :
  indexable s →
  wp (topic_by_name name)
    (λ r s', topic_answered r s' ∧ mt_name r = Some name ∧
      (Topics.validate_name name = Ok () → is_Some (Topics.lookup_topic (topics s) name) →
       mt_error_code r = 0)) s.
Proof.
  intros Hi. unfold topic_by_name. apply wp_bind, wp_read. intros s1 Hwf1 Hext1.
  apply wp_bind, wp_read. intros s2 Hwf2 Hext2.
  assert (∀ m, Topics.lookup_topic (topics s) name = Some m →
    Topics.lookup_topic (topics s1) name = Some m) as Hkeep.
  { intros m. apply TopicsCorrect.catalog_extends_lookup, Hext1. }
  destruct (TopicsCorrect.get_cases (topics s1) name) as [[-> Hname]|[-> Hname]].
  2: { split_and!; [done..|]. congruence. }
  destruct (Topics.lookup_topic (topics s1) name) as [m|] eqn:Hl.
  2: { split_and!; [done..|]. intros _ [m Hm]. apply Hkeep in Hm. congruence. }
  destruct (lookup_topic_indexable s1 name m Hwf1 (indexable_extends _ _ Hext1 Hi) Hl) as [Hc <-].
  rewrite success_topic_Some by lia. cbn. split_and!; [|done..].
  apply described_answered. eapply TopicsCorrect.catalog_extends_lookup; [|done]. apply Hext2.
Qed.

(** Every requested name not yet seen is answered; an existing one with success. *)
Definition name_answered (s : BrokerState) (rs : list MetadataResponseTopic)
    (t : MetadataRequestTopic) : Prop :=
  ∃ r, r ∈ rs ∧ mt_name r = mrt_name t ∧
    (∀ name, mrt_name t = Some name → Topics.validate_name name = Ok () →
      is_Some (Topics.lookup_topic (topics s) name) → mt_error_code r = 0).

Lemma topics_by_name_answered seen requested s :
  indexable s →
  wp (topics_by_name seen requested)
    (λ rs s', Forall (λ r, topic_answered r s') rs ∧
      ∀ t, t ∈ requested → mrt_name t ∉ seen → name_answered s rs t) s.
Proof.
  revert seen s. induction requested as [|t requested IH]; intros seen s Hi; cbn [topics_by_name].
  { split; [constructor|]. by intros t ?%elem_of_nil. }
  case_decide as Hseen.
  { eapply wp_mono; [|by apply IH]. intros rs s1 _ [Hrs Hall]. split; [done|].
    intros t' [->|Ht]%elem_of_cons Hns; [done|by apply Hall]. }
  apply wp_bind.
  eapply (wp_mono _ (λ r s1, topic_answered r s1 ∧ name_answered s [r] t)).
  - intros r s1 Hext1 [Hr (r' & ->%list_elem_of_singleton & Hname & Hfound)].
    apply wp_bind. eapply wp_mono; [|apply IH; by eapply indexable_extends].
    intros rs s2 Hext2 [Hrs Hall]. split.
    + constructor; [|done]. by eapply topic_answered_stable.
    + intros t' Ht Hns. destruct (decide (mrt_name t' = mrt_name t)) as [Heq|Hne].
      * exists r. rewrite Heq. split_and!; [left|done|done].
      * apply elem_of_cons in Ht as [->|Ht]; [done|].
        destruct (Hall t' Ht) as (r' & Hr' & Hn' & Hf'); [set_solver|].
        exists r'. split_and!; [by right|done|]. intros name Hnm Hv [m Hm].
        apply (Hf' name Hnm Hv). exists m. eapply TopicsCorrect.catalog_extends_lookup; [|done].
        apply Hext1.
  - destruct (mrt_name t) as [name|] eqn:Hn.
    + eapply wp_mono; [|by apply topic_by_name_answered]. intros r s1 _ (Hr & Hname & Hf).
      split; [done|]. exists r. rewrite Hn. split_and!; [left|done|]. intros name' [= <-]. exact Hf.
    + split; [done|]. eexists. rewrite Hn. split_and!; [left|done|done].
Qed.

Lemma topics_by_id_answered seen requested unknown known s :
  indexable s → Forall (λ r, topic_answered r s) unknown → Forall (λ r, topic_answered r s) known →
  wp (topics_by_id seen requested unknown known) (λ rs s', Forall (λ r, topic_answered r s') rs) s.
Proof.
  revert seen unknown known s. induction requested as [|t requested IH];
    intros seen unknown known s Hi Hu Hk; cbn [topics_by_id].
  { apply Forall_app. by split. }
  assert (∀ s' l, broker_extends s s' → Forall (λ r, topic_answered r s) l →
    Forall (λ r, topic_answered r s') l) as Hstable.
  { intros s' l Hext Hl. eapply Forall_impl; [exact Hl|]. intros r. by apply topic_answered_stable. }
  case_decide; [by apply IH|]. apply wp_bind, wp_read. intros s1 Hwf1 Hext1.
  pose proof (indexable_extends _ _ Hext1 Hi) as Hi1.
  destruct (Topics.get_by_id (topics s1) (mrt_topic_id t)) as [m|] eqn:Hg.
  - apply TopicsCorrect.get_by_id_lookup in Hg as [Hid Hl]; [|apply Hwf1].
    destruct (lookup_topic_indexable s1 _ m Hwf1 Hi1 Hl) as [Hc _].
    apply wp_bind, wp_read. intros s2 Hwf2 Hext2. rewrite success_topic_Some by lia. cbn.
    assert (broker_extends s s2) by (by etrans).
    apply IH; [by eapply indexable_extends|by apply Hstable|]. apply Forall_app.
    split; [by apply Hstable|]. constructor; [|done]. apply described_answered.
    eapply TopicsCorrect.catalog_extends_lookup; [|done]. apply Hext2.
  - apply IH; [done| |by apply Hstable]. apply Forall_app. split; [by apply Hstable|].
    constructor; [|done]. done.
Qed.

Lemma auto_create_requested_done requested s :
  wp (auto_create_requested new_v4 requested)
    (λ _ s', Forall (λ t, ∀ name, mrt_name t = Some name → Topics.validate_name name = Ok () →
      is_Some (Topics.lookup_topic (topics s') name)) requested) s.
Proof.
  unfold auto_create_requested.
  eapply wp_mono; [|apply (wp_for_each _ _ (λ t _ s', ∀ name, mrt_name t = Some name →
    Topics.validate_name name = Ok () → is_Some (Topics.lookup_topic (topics s') name)))].
  - intros rs s1 _ Hrs. by induction Hrs; constructor.
  - intros t [] s1 s2 Hext Ht name Hn Hv. destruct (Ht name Hn Hv) as [m Hm]. exists m.
    eapply TopicsCorrect.catalog_extends_lookup; [|done]. apply Hext.
  - intros t s1 _ _. destruct (mrt_name t) as [name|] eqn:Hn; [|done]. apply wp_bind.
    eapply wp_mono; [|by apply get_or_auto_create_spec]. intros r s2 _ Hr.
    destruct r as [[m|]|e]; cbn in Hr; [|by destruct Hr|].
    + cbn. intros name' [= <-] _. destruct Hr as [_ Hl]. by eexists.
    + destruct Hr as [-> Hbad]. cbn. intros name' [= <-]. congruence.
Qed.

(** Whether a request makes the broker create the topics it names. *)
Definition creates_topics (s : BrokerState) (request : MetadataRequest) (version : Z) : bool :=
  auto_create_topics s && (mr_allow_auto_topic_creation request || force_auto_create_topics s) &&
  negb (bool_decide (12 ≤ version) && has_non_zero_topic_id (default [] (mr_topics request))).

Definition requested_answered (s : BrokerState) (request : MetadataRequest) (version : Z)
    (rs : list MetadataResponseTopic) : Prop :=
  creates_topics s request version = true →
  ∀ t name, t ∈ default [] (mr_topics request) → mrt_name t = Some name →
    Topics.validate_name name = Ok () →
    ∃ r, r ∈ rs ∧ mt_name r = Some name ∧ mt_error_code r = 0.

Lemma topics_for_request_answered request version s :
  indexable s →
  wp (topics_for_request new_v4 request version)
    (λ rs s', Forall (λ r, topic_answered r s') rs ∧ requested_answered s request version rs) s.
Proof.
  intros Hi. unfold topics_for_request, requested_answered.
  destruct (mr_topics request) as [[|t requested]|] eqn:Hreq.
  - cbn. split; [constructor|]. by intros _ t name ?%elem_of_nil.
  - remember (t :: requested) as ts eqn:Hts. clear Hts t requested. cbn [default id].
    destruct (bool_decide (12 ≤ version) && has_non_zero_topic_id ts) eqn:Huuid.
    + eapply wp_mono; [|by apply topics_by_id_answered; [|constructor|constructor]].
      intros rs s1 _ Hrs. split; [done|]. unfold creates_topics. rewrite Hreq. cbn [default id].
      rewrite Huuid. cbn. by rewrite andb_false_r.
    + apply wp_bind, wp_read. intros s1 Hwf1 Hext1. apply wp_bind.
      pose proof (indexable_extends _ _ Hext1 Hi) as Hi1.
      assert (auto_create_topics s1 && (mr_allow_auto_topic_creation request || force_auto_create_topics s1)
        = creates_topics s request version) as ->.
      { unfold creates_topics. rewrite Hreq. cbn [default id]. rewrite Huuid. cbn. rewrite andb_true_r.
        by destruct Hext1 as (_ & -> & -> & _). }
      destruct (creates_topics s request version).
      * eapply wp_mono; [|apply auto_create_requested_done]. intros us s2 Hext2 Hdone.
        cbv beta in *. clear us.
        eapply wp_mono; [|apply topics_by_name_answered; by eapply indexable_extends].
        intros rs s3 _ [Hrs Hall]. split; [done|]. intros _ t' name Ht Hn Hv.
        destruct (Hall t' Ht) as (r & Hr & Hname & Hf); [set_solver|].
        exists r. split_and!; [done|congruence|]. apply (Hf name Hn Hv).
        rewrite Forall_forall in Hdone. by apply (Hdone t' Ht).
      * cbn [wp]. eapply wp_mono; [|by apply topics_by_name_answered].
        intros rs s3 _ [Hrs _]. by split.
  - apply wp_bind, wp_read. intros s1 Hwf1 Hext1. apply wp_bind, wp_read. intros s2 Hwf2 Hext2.
    eapply wp_mono; [|apply (wp_for_each _ _ (λ _, topic_answered))].
    + intros rs s3 _ Hrs. split; [|by intros _ t name ?%elem_of_nil].
      by induction Hrs; constructor.
    + intros _. apply topic_answered_stable.
    + intros m s3 Hm Hext3. apply TopicsCorrect.elem_of_list_topics in Hm; [|apply Hwf1].
      destruct (lookup_topic_indexable s1 _ m Hwf1 (indexable_extends _ _ Hext1 Hi) Hm) as [Hc _].
      rewrite success_topic_Some by lia. cbn. apply described_answered.
      eapply TopicsCorrect.catalog_extends_lookup; [|done].
      assert (broker_extends s1 s3) as (_ & _ & _ & ? & _) by (by etrans). done.
Qed.

Lemma with_operations_answered operations r s :
  topic_answered r s → topic_answered (with_operations operations r) s.
Proof. intros Hr. unfold with_operations. by case_decide. Qed.

Lemma with_operations_fields operations r :
  mt_name (with_operations operations r) = mt_name r ∧
  mt_error_code (with_operations operations r) = mt_error_code r.
Proof. unfold with_operations. by case_decide. Qed.

Lemma metadata_answered request version host port s :
  indexable s → request_error request version = None →
  wp (metadata new_v4 request version host port)
    (λ response s', Forall (λ r, topic_answered r s') (mrs_topics response) ∧
      requested_answered s request version (mrs_topics response)) s.
Proof.
  intros Hi He. unfold metadata. rewrite He. apply wp_bind.
  eapply wp_mono; [|by apply topics_for_request_answered]. intros rs s1 Hext1 [Hrs Hall].
  apply wp_bind, wp_read. intros s2 Hwf2 Hext2. cbn. split.
  - apply Forall_fmap. eapply Forall_impl; [exact Hrs|]. intros r Hr. cbn.
    apply with_operations_answered. by eapply topic_answered_stable.
  - intros Hc t name Ht Hn Hv. destruct (Hall Hc t name Ht Hn Hv) as (r & Hr & Hname & Hz).
    eexists. split; [by apply list_elem_of_fmap_2|].
    destruct (with_operations_fields (optional_authorized_operations
      (mr_include_topic_authorized_operations request) TOPIC_AUTHORIZED_OPERATIONS) r) as [-> ->].
    done.
Qed.

End admin.

End AdminCorrect.
