(* ===== verification/Pagination.v ===== *)
(** * Pagination of DescribeTopicPartitions

    A client that follows [next_cursor] from page to page, on a catalog that
    does not change meanwhile, is described every partition of the topics it
    asked for exactly once and in order, in full pages except the last one. *)

From S2P Require Import Prelude Errors Records Partition Producers Topics TopicsCorrect.
From S2P Require Import Broker Handlers HandlersCorrect Admin AdminCorrect.
Open Scope Z_scope.

Module Pagination.
Import Broker Admin AdminCorrect.

(** ** Running a program step by step *)

Lemma run_bind {A B : Type} (p : prog A) (k : A → prog B) s :
  run (bind p k) s = match run p s with Some (a, s') => run (k a) s' | None => None end.
Proof.
  revert p s. fix IH 1. intros p s. destruct p as [a|f]; cbn; [done|].
  destruct (f s) as [[s' p']|]; [|done]. apply (IH p').
Qed.

(** ** Lists *)

Lemma filter_all {A : Type} (P : A → Prop) `{∀ x, Decision (P x)} (l : list A) :
  Forall P l → filter P l = l.
Proof. induction 1; [done|]. rewrite filter_cons_True by done. by f_equal. Qed.

Lemma elem_of_concat {A : Type} (x : A) (ls : list (list A)) :
  x ∈ concat ls ↔ ∃ l, l ∈ ls ∧ x ∈ l.
Proof. rewrite list_elem_of_In, in_concat. by setoid_rewrite list_elem_of_In. Qed.

(** ** Ranges *)

Lemma range_app first k n : 0 ≤ k ≤ n → range first n = range first k ++ range (first + k) (n - k).
Proof.
  intros Hk. unfold range. replace (Z.to_nat n) with (Z.to_nat k + Z.to_nat (n - k))%nat by lia.
  rewrite seq_app, fmap_app. f_equal. rewrite Nat.add_0_l.
  replace (Z.to_nat k) with (Z.to_nat k + 0)%nat at 1 by lia. rewrite <- fmap_add_seq.
  rewrite <- list_fmap_compose. apply list_fmap_ext. intros i x _. cbn. lia.
Qed.

Lemma length_range first n : length (range first n) = Z.to_nat n.
Proof. unfold range. by rewrite length_fmap, length_seq. Qed.

Lemma drop_range k n : 0 ≤ k → drop (Z.to_nat k) (range 0 n) = range k (n - k).
Proof.
  intros Hk. destruct (decide (k ≤ n)) as [Hle|Hgt].
  - rewrite (range_app 0 k n) by lia. by rewrite drop_app_length' by (by rewrite length_range).
  - rewrite drop_ge by (rewrite length_range; lia). unfold range.
    by replace (Z.to_nat (n - k)) with 0%nat by lia.
Qed.

(** ** What is still to be described *)

Section pages.
  Context `{Crc32c} (s : BrokerState).

Definition pairs_of (name : string) : list (string * Z) :=
  match Topics.get (topics s) name with
  | Ok (Some m) => pair name <$> range 0 (Topics.tm_partition_count m)
  | _ => []
  end.

Definition start_index (cur : option Cursor) (name : string) : Z :=
  match cur with
  | Some c => if decide (cur_topic_name c = name) then cur_partition_index c else 0
  | None => 0
  end.

Definition remaining_pairs (cur : option Cursor) (names : list string) : list (string * Z) :=
  concat ((λ name, drop (Z.to_nat (start_index cur name)) (pairs_of name)) <$> names).

Definition topic_pairs (t : DescribeTopicPartitionsResponseTopic) : list (string * Z) :=
  pair (default "" (dt_name t)) <$> (mrp_partition_index <$> dt_partitions t).

Definition page_pairs (ts : list DescribeTopicPartitionsResponseTopic) : list (string * Z) :=
  concat (topic_pairs <$> ts).

Definition cursor_ok (cur : option Cursor) : Prop :=
  match cur with Some c => 0 ≤ cur_partition_index c | None => True end.

Lemma start_of_index cur name :
  cursor_ok cur → start_of cur name = Some (start_index cur name) ∧ 0 ≤ start_index cur name.
Proof.
  destruct cur as [c|]; cbn; [|split; [done|lia]]. intros Hc. case_decide; [|split; [done|lia]].
  unfold try_unsigned. by rewrite decide_True.
Qed.

(** Only the first name can be the cursor's. *)
Definition cursor_first (cur : option Cursor) (names : list string) : Prop :=
  Forall (λ n, start_index cur n = 0) (tail names).

Lemma remaining_pairs_cursor cur cur' names :
  Forall (λ n, start_index cur n = 0) names → Forall (λ n, start_index cur' n = 0) names →
  remaining_pairs cur names = remaining_pairs cur' names.
Proof.
  intros Hc Hc'. unfold remaining_pairs. f_equal. apply Forall_fmap_ext_1.
  rewrite Forall_forall in *. intros n Hn. cbn. by rewrite (Hc n Hn), (Hc' n Hn).
Qed.

Lemma start_index_other cur names :
  (∀ c, cur = Some c → cur_topic_name c ∉ names) → Forall (λ n, start_index cur n = 0) names.
Proof.
  intros Hc. apply Forall_forall. intros n Hn. destruct cur as [c|]; [|done]. cbn.
  rewrite decide_False; [done|]. intros <-. by destruct (Hc c eq_refl).
Qed.

(** The specification of the loop: the page and what its cursor leaves make up
    what there was to describe; a page with a successor is full. *)
Definition page_ok (cur : option Cursor) (remaining : Z) (names : list string)
    (ts : list DescribeTopicPartitionsResponseTopic) (next : option Cursor) : Prop :=
  match next with
  | None => page_pairs ts = remaining_pairs cur names ∧ len (page_pairs ts) ≤ remaining
  | Some c => len (page_pairs ts) = remaining ∧ 0 ≤ cur_partition_index c ∧
      ∃ pre rest, names = pre ++ cur_topic_name c :: rest ∧
        page_pairs ts ++ remaining_pairs next (cur_topic_name c :: rest) = remaining_pairs cur names
  end.

Lemma page_pairs_cons t ts : page_pairs (t :: ts) = topic_pairs t ++ page_pairs ts.
Proof. done. Qed.

Lemma remaining_pairs_cons cur name names :
  remaining_pairs cur (name :: names) =
    drop (Z.to_nat (start_index cur name)) (pairs_of name) ++ remaining_pairs cur names.
Proof. done. Qed.

Lemma page_ok_cons cur remaining name names t ts next :
  page_ok cur (remaining - len (topic_pairs t)) names ts next →
  topic_pairs t = drop (Z.to_nat (start_index cur name)) (pairs_of name) →
  page_ok cur remaining (name :: names) (t :: ts) next.
Proof.
  intros Hok Ht. unfold page_ok in *. rewrite page_pairs_cons, remaining_pairs_cons, <- Ht, len_app.
  destruct next as [c|].
  - destruct Hok as (Hlen & Hi & pre & rest & -> & Hrest). split_and!; [lia|done|].
    exists (name :: pre), rest. split; [done|]. by rewrite <- app_assoc, Hrest.
  - destruct Hok as [-> Hlen]. split; [done|]. lia.
Qed.

Lemma topic_pairs_described m first count broker :
  topic_pairs (mkDescribedTopic 0 (Some (Topics.tm_name m)) (Topics.tm_id m)
    (partition_entry broker <$> range first count) TOPIC_AUTHORIZED_OPERATIONS)
  = pair (Topics.tm_name m) <$> range first count.
Proof. unfold topic_pairs. cbn. by rewrite entries_index. Qed.

(** *** One described topic *)

Section topic.
  Context (cur : option Cursor) (name : string) (m : Topics.TopicMetadata) (remaining broker : Z).
  Context (Hget : Topics.get (topics s) name = Ok (Some m)) (Hname : Topics.tm_name m = name).
  Context (Hcount : 1 ≤ Topics.tm_partition_count m ≤ max_partitions).
  Context (Hcur : cursor_ok cur) (Hrem : 1 ≤ remaining).

Let start : Z := start_index cur name.
Let count : Z := Topics.tm_partition_count m.
Let taken : Z := Z.min (saturating_sub count start) remaining.
Let topic : DescribeTopicPartitionsResponseTopic :=
  mkDescribedTopic 0 (Some (Topics.tm_name m)) (Topics.tm_id m)
    (partition_entry broker <$> range start taken) TOPIC_AUTHORIZED_OPERATIONS.

Lemma start_nonneg : 0 ≤ start.
Proof. apply start_of_index, Hcur. Qed.

Lemma described_topic_run : described_topic m start taken broker = Some topic.
Proof.
  apply described_topic_Some. pose proof start_nonneg. unfold taken, saturating_sub.
  fold count in Hcount. lia.
Qed.

Lemma topic_pairs_eq : topic_pairs topic = pair name <$> range start taken.
Proof. unfold topic. by rewrite topic_pairs_described, Hname. Qed.

Lemma topic_pairs_len : len (topic_pairs topic) = taken.
Proof.
  rewrite topic_pairs_eq. unfold len. rewrite length_fmap, length_range.
  unfold taken, saturating_sub. lia.
Qed.

Lemma drop_pairs k : 0 ≤ k → drop (Z.to_nat k) (pairs_of name) = pair name <$> range k (count - k).
Proof.
  intros Hk. unfold pairs_of. rewrite Hget. by rewrite <- fmap_drop, drop_range by done.
Qed.

Lemma topic_done : ¬ start + taken < count → topic_pairs topic = drop (Z.to_nat start) (pairs_of name).
Proof.
  intros Hdone. pose proof start_nonneg. rewrite topic_pairs_eq, drop_pairs by done. f_equal.
  unfold taken, saturating_sub in *. destruct (decide (start ≤ count)).
  - f_equal. lia.
  - unfold range. by replace (Z.to_nat (Z.min (Z.max 0 (count - start)) remaining))
      with (Z.to_nat (count - start)) by lia.
Qed.

Lemma topic_cut names :
  start + taken < count → name ∉ names → Forall (λ n, start_index cur n = 0) names →
  page_ok cur remaining (name :: names) [topic] (Some (mkCursor name (start + taken))).
Proof.
  intros Hcut Hnew Hfirst. pose proof start_nonneg.
  assert (taken = remaining) as Htaken by (unfold taken, saturating_sub in *; lia).
  unfold page_ok. rewrite page_pairs_cons, app_nil_r, topic_pairs_len. cbn [cur_partition_index cur_topic_name].
  split_and!; [done|lia|]. exists [], names. split; [done|]. rewrite !remaining_pairs_cons, app_assoc.
  f_equal.
  - cbn [start_index cur_topic_name]. rewrite decide_True by done. cbn [cur_partition_index].
    fold start. rewrite topic_pairs_eq, !drop_pairs, <- fmap_app by lia. f_equal.
    rewrite (range_app start taken (count - start)) by lia. f_equal. f_equal. lia.
  - apply remaining_pairs_cursor; [|done]. apply start_index_other. by intros c [= <-].
Qed.

End topic.

(** A name without partitions to describe adds an error to the page of the rest. *)
Lemma error_topic_page cur remaining name names code :
  pairs_of name = [] →
  (∃ ts next, run (describe_names cur remaining names) s = Some ((ts, next), s) ∧
    page_ok cur remaining names ts next) →
  ∃ ts next, run (bind (describe_names cur remaining names)
      (λ rest, Ret (resource_error_topic name code :: rest.1, rest.2))) s = Some ((ts, next), s) ∧
    page_ok cur remaining (name :: names) ts next.
Proof.
  intros Hnone (ts & next & Hrun & Hok). rewrite run_bind, Hrun.
  exists (resource_error_topic name code :: ts), next. split; [done|].
  apply page_ok_cons; [|by rewrite Hnone, drop_nil].
  replace (remaining - _) with remaining; [done|]. unfold topic_pairs, len. cbn. lia.
Qed.

Lemma describe_names_ok cur remaining names :
  broker_wf s → indexable s → cursor_ok cur → 1 ≤ remaining → NoDup names → cursor_first cur names →
  ∃ ts next, run (describe_names cur remaining names) s = Some ((ts, next), s) ∧
    page_ok cur remaining names ts next.
Proof.
  intros Hwf Hi Hcur Hrem. revert remaining Hrem.
  induction names as [|name names IH]; intros remaining Hrem Hnd Hfirst.
  { exists [], None. split; [done|]. split; [done|]. unfold len. cbn. lia. }
  apply NoDup_cons in Hnd as [Hnew Hnd]. cbn in Hfirst.
  assert (cursor_first cur names) as Hfirst'
    by (destruct names; [done|by apply Forall_cons in Hfirst as [_ ?]]).
  cbn [describe_names]. rewrite run_bind. cbn [run read].
  destruct (TopicsCorrect.get_cases (topics s) name) as [[Hget _]|[Hget _]].
  2: { rewrite Hget. apply error_topic_page; [|by apply IH]. unfold pairs_of. by rewrite Hget. }
  rewrite Hget. destruct (Topics.lookup_topic (topics s) name) as [m|] eqn:Hl.
  2: { apply error_topic_page; [|by apply IH]. unfold pairs_of. by rewrite Hget. }
  destruct (lookup_topic_indexable s name m Hwf Hi Hl) as [Hc Hm].
  rewrite Hm, (proj1 (start_of_index cur name Hcur)). cbn [unwrap bind].
  rewrite run_bind. cbn [run read].
  rewrite (described_topic_run cur name m remaining (broker_id s) Hc Hcur). cbn [unwrap bind].
  case_decide as Hcut.
  { unfold cursor, try_i32. rewrite decide_True by (unfold max_partitions in *; lia).
    cbn [panic_bind unwrap bind run]. do 2 eexists. split; [done|].
    by apply topic_cut. }
  pose proof (topic_done cur name m remaining (broker_id s) Hget Hm Hcur Hrem Hcut) as Hdone.
  pose proof (topic_pairs_len cur name m remaining (broker_id s) Hm Hrem) as Hlen.
  destruct names as [|next_name names].
  { do 2 eexists. split; [done|]. split; rewrite page_pairs_cons, app_nil_r; [|lia].
    by rewrite remaining_pairs_cons, app_nil_r. }
  case_decide as Hfull.
  - unfold cursor, try_i32. rewrite decide_True by (unfold i32_max; lia).
    cbn [panic_bind unwrap bind run]. do 2 eexists. split; [done|].
    unfold page_ok. rewrite page_pairs_cons, app_nil_r. split_and!; [lia|done|].
    exists [name], names. split; [done|]. rewrite (remaining_pairs_cons cur), Hdone. f_equal.
    apply remaining_pairs_cursor; [|done]. constructor.
    + cbn. by rewrite decide_True.
    + apply NoDup_cons in Hnd as [Hnew' _]. apply start_index_other. by intros c [= <-].
  - rewrite run_bind.
    destruct (IH (remaining - Z.min (saturating_sub (Topics.tm_partition_count m) (start_index cur name)) remaining))
      as (ts & next & -> & Hok); [lia|done|done|].
    cbn [run]. do 2 eexists. split; [done|]. apply page_ok_cons; [|done]. by rewrite Hlen.
Qed.

(** *** Following the cursors *)

(** The names a request without a cursor selects. *)
Definition base_names (request : DescribeTopicPartitionsRequest) : list string :=
  sorted_names (if decide (dr_topics request = [])
                then Topics.tm_name <$> Topics.list_topics (topics s) else dr_topics request).

Definition with_cursor (request : DescribeTopicPartitionsRequest) (c : Cursor) :
    DescribeTopicPartitionsRequest :=
  mkDescribeTopicPartitionsRequest (dr_topics request) (dr_response_partition_limit request) (Some c).

(** The pages a client gets by following [next_cursor]. *)
Fixpoint pages (fuel : nat) (request : DescribeTopicPartitionsRequest) :
    option (list DescribeTopicPartitionsResponse) :=
  match fuel with
  | O => None
  | S fuel =>
      let! r := run (describe_topic_partitions request) s in
      match dp_next_cursor r.1 with
      | None => Some [r.1]
      | Some c => cons r.1 <$> pages fuel (with_cursor request c)
      end
  end.

Lemma sorted_names_spec names :
  NoDup (sorted_names names) ∧ StronglySorted String.le (sorted_names names) ∧
  ∀ n, n ∈ sorted_names names ↔ n ∈ names.
Proof.
  unfold sorted_names. split_and!.
  - rewrite merge_sort_Permutation. apply NoDup_remove_dups.
  - apply StronglySorted_merge_sort; apply _.
  - intros n. by rewrite merge_sort_Permutation, elem_of_remove_dups.
Qed.

Lemma filter_from c pre rest :
  NoDup (pre ++ cur_topic_name c :: rest) → StronglySorted String.le (pre ++ cur_topic_name c :: rest) →
  filter (λ n, from_cursor (Some c) n = true) (pre ++ cur_topic_name c :: rest) = cur_topic_name c :: rest.
Proof.
  induction pre as [|n pre IH]; cbn [app]; intros Hnd Hs.
  - apply filter_all, Forall_cons. cbn. split; [by apply bool_decide_true|].
    apply StronglySorted_inv in Hs as [_ Hall]. eapply Forall_impl; [exact Hall|].
    intros x Hx. by apply bool_decide_true.
  - apply NoDup_cons in Hnd as [Hn Hnd]. apply StronglySorted_inv in Hs as [Hs Hall].
    rewrite filter_cons_False; [by apply IH|]. cbn. rewrite bool_decide_eq_true. intros Hle.
    rewrite Forall_forall in Hall. specialize (Hall (cur_topic_name c) ltac:(set_solver)).
    apply Hn. replace n with (cur_topic_name c) by (by apply (anti_symm String.le)). set_solver.
Qed.

Lemma selected_names_from request :
  match dr_cursor request with
  | None => selected_names request (Topics.list_topics (topics s)) = Ok (base_names request)
  | Some c => ∀ pre rest, 0 ≤ cur_partition_index c → base_names request = pre ++ cur_topic_name c :: rest →
      selected_names request (Topics.list_topics (topics s)) = Ok (cur_topic_name c :: rest)
  end.
Proof.
  unfold selected_names, base_names.
  set (listed := Topics.tm_name <$> Topics.list_topics (topics s)).
  assert (∀ (b : list string), (if negb (bool_decide (dr_topics request = [])) then dr_topics request else b)
    = if decide (dr_topics request = []) then b else dr_topics request) as Hnames
    by (intros b; case_bool_decide; by case_decide).
  rewrite Hnames. destruct (sorted_names_spec (if decide (dr_topics request = []) then listed
    else dr_topics request)) as (Hnd & Hs & _).
  destruct (dr_cursor request) as [c|].
  - intros pre rest Hi Hbase. rewrite Hbase in *. rewrite bool_decide_false by lia.
    rewrite (bool_decide_true (_ ∈ _)) by set_solver. cbn [negb]. rewrite andb_false_r.
    f_equal. by apply filter_from.
  - rewrite andb_false_r. f_equal. by apply filter_all, Forall_true.
Qed.

Lemma describe_run request names :
  broker_wf s → indexable s → cursor_ok (dr_cursor request) →
  selected_names request (Topics.list_topics (topics s)) = Ok names →
  NoDup names → cursor_first (dr_cursor request) names →
  ∃ r, run (describe_topic_partitions request) s = Some (r, s) ∧
    page_ok (dr_cursor request) (Z.max (dr_response_partition_limit request) 1) names
      (dp_topics r) (dp_next_cursor r).
Proof.
  intros Hwf Hi Hcur Hsel Hnd Hfirst. unfold describe_topic_partitions. rewrite run_bind.
  cbn [run read]. rewrite Hsel, run_bind.
  destruct (describe_names_ok (dr_cursor request) (Z.max (dr_response_partition_limit request) 1) names)
    as (ts & next & -> & Hok); try done; [lia|].
  cbn [run]. by eexists.
Qed.

Lemma pages_from limit request names pre fuel :
  broker_wf s → indexable s → limit = Z.max (dr_response_partition_limit request) 1 →
  cursor_ok (dr_cursor request) →
  selected_names request (Topics.list_topics (topics s)) = Ok names →
  base_names request = pre ++ names → cursor_first (dr_cursor request) names →
  (length (remaining_pairs (dr_cursor request) names) < fuel)%nat →
  ∃ rs r, pages fuel request = Some (rs ++ [r]) ∧
    concat ((λ r, page_pairs (dp_topics r)) <$> (rs ++ [r])) = remaining_pairs (dr_cursor request) names ∧
    Forall (λ r, len (page_pairs (dp_topics r)) = limit) rs ∧ len (page_pairs (dp_topics r)) ≤ limit.
Proof.
  intros Hwf Hi Hlimit. revert request names pre Hlimit.
  induction fuel as [|fuel IH]; intros request names pre Hlimit Hcur Hsel Hbase Hfirst Hfuel; [lia|].
  destruct (sorted_names_spec (if decide (dr_topics request = [])
    then Topics.tm_name <$> Topics.list_topics (topics s) else dr_topics request)) as (Hnd & _ & _).
  fold (base_names request) in Hnd. rewrite Hbase in Hnd. pose proof Hnd as (_ & _ & Hnd')%NoDup_app.
  destruct (describe_run request names Hwf Hi Hcur Hsel Hnd' Hfirst) as (r & Hrun & Hok).
  cbn [pages]. rewrite Hrun. cbn [panic_bind fst]. rewrite <- Hlimit in Hok.
  destruct (dp_next_cursor r) as [c|].
  - destruct Hok as (Hlen & Hidx & pre' & rest & Hnames & Hpairs).
    assert (base_names (with_cursor request c) = (pre ++ pre') ++ cur_topic_name c :: rest) as Hbase'.
    { change (base_names (with_cursor request c)) with (base_names request).
      by rewrite Hbase, Hnames, <- app_assoc. }
    destruct (IH (with_cursor request c) (cur_topic_name c :: rest) (pre ++ pre'))
      as (rs & r' & -> & Hall & Hfull & Hlast); try done.
    + by apply (selected_names_from (with_cursor request c) (pre ++ pre')).
    + cbn. apply start_index_other. intros c' [= <-]. rewrite Hnames in Hnd'.
      apply NoDup_app in Hnd' as (_ & _ & Hnd'). by apply NoDup_cons in Hnd' as [? _].
    + rewrite <- Hpairs, length_app in Hfuel. unfold len in Hlen. cbn [dr_cursor with_cursor]. lia.
    + exists (r :: rs), r'. split_and!; [done| | |done].
      * cbn [app fmap list_fmap concat]. rewrite <- Hpairs. f_equal. exact Hall.
      * by constructor.
  - destruct Hok as [Hpairs Hlen]. exists [], r. split_and!; [done| |by constructor|done].
    cbn. by rewrite app_nil_r.
Qed.

End pages.

(** The partitions a request without a cursor asks for. *)
Definition requested_pairs (s : BrokerState) (request : DescribeTopicPartitionsRequest) :
    list (string * Z) :=
  concat (pairs_of s <$> base_names s request).

(** C21: pagination is transparent.  A client that follows the cursors of
    DescribeTopicPartitions from page to page (the catalog unchanged) ends, and
    is described every partition of the topics it asked for exactly once, in
    the order of topic names and partition indexes, in pages of exactly the
    partition limit except for the last, which is no longer than it. *)
Theorem describe_pages_complete `{Crc32c} (s : BrokerState)
    (request : DescribeTopicPartitionsRequest) :
  broker_wf s → indexable s → dr_cursor request = None →
  ∃ rs r, pages s (S (length (requested_pairs s request))) request = Some (rs ++ [r]) ∧
    concat ((λ r, page_pairs (dp_topics r)) <$> (rs ++ [r])) = requested_pairs s request ∧
    NoDup (requested_pairs s request) ∧
    Forall (λ r, len (page_pairs (dp_topics r)) = Z.max (dr_response_partition_limit request) 1) rs ∧
    len (page_pairs (dp_topics r)) ≤ Z.max (dr_response_partition_limit request) 1.
Proof.
  intros Hwf Hi Hcur. pose proof (selected_names_from s request) as Hsel. rewrite Hcur in Hsel.
  assert (remaining_pairs s (dr_cursor request) (base_names s request) = requested_pairs s request) as Hrem.
  { unfold remaining_pairs, requested_pairs. by rewrite Hcur. }
  destruct (pages_from s _ request (base_names s request) [] (S (length (requested_pairs s request)))
    Hwf Hi eq_refl) as (rs & r & Hpages & Hall & Hfull & Hlast); try (by rewrite ?Hcur); [|rewrite Hrem; lia|].
  { rewrite Hcur. apply start_index_other. done. }
  exists rs, r. rewrite Hall, Hrem. split_and!; try done.
  unfold requested_pairs. destruct (sorted_names_spec (if decide (dr_topics request = [])
    then Topics.tm_name <$> Topics.list_topics (topics s) else dr_topics request)) as (Hnd & _ & _).
  fold (base_names s request) in Hnd. clear -Hnd.
  assert (∀ n x, x ∈ pairs_of s n → x.1 = n) as Hfst.
  { intros n x. unfold pairs_of. destruct (Topics.get _ _) as [[m|]|]; try by intros ?%elem_of_nil.
    by intros (i & -> & _)%list_elem_of_fmap. }
  induction Hnd as [|n names Hn Hnd IH]; cbn; [constructor|]. apply NoDup_app. split_and!; [| |done].
  - unfold pairs_of. destruct (Topics.get _ _) as [[m|]|]; try constructor.
    apply NoDup_fmap_2; [by intros i j [=]|]. unfold range. apply NoDup_fmap_2; [intros i j; lia|].
    apply NoDup_seq.
  - intros x Hx (l & (n' & -> & Hn')%list_elem_of_fmap & Hx')%elem_of_concat.
    apply Hfst in Hx, Hx'. congruence.
Qed.

End Pagination.
