(* ===== verification/BrokerSystem.v ===== *)
(** * The broker under concurrent requests

    Any number of requests are in flight at once; their handlers' atomic steps
    interleave in any order.  [System] is the broker state, the handlers in
    flight and the answers given so far; [step] is one atomic step, a new
    request, an answer, or the end of a fetch's wait.  The theorems hold in
    every reachable system. *)

From S2P Require Import Prelude Errors Records Partition PartitionCorrect Producers Topics.
From S2P Require Import TopicsCorrect Broker Handlers HandlersCorrect Admin AdminCorrect Pagination.
Open Scope Z_scope.

Module BrokerSystem.
Import Partition PartitionCorrect Broker Handlers HandlersCorrect Admin AdminCorrect.

Inductive Request : Type :=
| ReqProduce (r : ProduceRequest)
| ReqFetch (r : FetchRequest)
| ReqListOffsets (r : list ListOffsetsTopic)
| ReqInitProducerId (transactional_id : option string)
| ReqCreateTopics (r : list CreatableTopic) (validate_only : bool)
| ReqMetadata (r : MetadataRequest) (version : Z) (host : string) (port : Z)
| ReqDescribeTopicPartitions (r : DescribeTopicPartitionsRequest).

Inductive Response : Type :=
| ResProduce (r : ProduceResponse)
| ResFetch (r : FetchResponse)
| ResListOffsets (r : list ListOffsetsTopicResponse)
| ResInitProducerId (r : InitProducerIdResponse)
| ResCreateTopics (r : list CreatableTopicResult)
| ResMetadata (r : MetadataResponse)
| ResDescribeTopicPartitions (r : DescribeTopicPartitionsResponse).

(** How a handler ends: with an answer, or, in a fetch, with a wait. *)
Inductive Outcome : Type :=
| Respond (r : Response)
| Waiting (request : FetchRequest) (seen : nat) (response : FetchResponse).

Section system.
  Context `{Crc32c}.
  Context (new_v4 : nat → Z) `{!TopicsCorrect.UniqueUuids new_v4}.

(** One pass of a fetch; [deadline_passed] is what the clock says. *)
Definition fetch_task (r : FetchRequest) (deadline_passed : bool) : prog Outcome :=
  do pass <- fetch_once r deadline_passed;
  match pass with
  | FetchReturn response => Ret (Respond (ResFetch response))
  | FetchWait seen response => Ret (Waiting r seen response)
  end.

Definition handler (q : Request) (deadline_passed : bool) : prog Outcome :=
  match q with
  | ReqProduce r => do a <- produce new_v4 r; Ret (Respond (ResProduce a))
  | ReqFetch r => fetch_task r deadline_passed
  | ReqListOffsets r => do a <- list_offsets r; Ret (Respond (ResListOffsets a))
  | ReqInitProducerId t => do a <- init_producer_id t; Ret (Respond (ResInitProducerId a))
  | ReqCreateTopics r v => do a <- create_topics new_v4 r v; Ret (Respond (ResCreateTopics a))
  | ReqMetadata r v host port =>
      do a <- metadata new_v4 r v host port; Ret (Respond (ResMetadata a))
  | ReqDescribeTopicPartitions r =>
      do a <- describe_topic_partitions r; Ret (Respond (ResDescribeTopicPartitions a))
  end.

(** The machine-width fields the handlers do arithmetic with. *)
Definition request_wf (q : Request) : Prop :=
  match q with
  | ReqFetch r => in_signed 32 (fr_max_bytes r)
  | ReqCreateTopics r _ => Forall (λ t, in_signed 32 (ct_num_partitions t)) r
  | _ => True
  end.

Record System : Type := mkSystem {
  broker : BrokerState;
  tasks : list (Request * prog Outcome);
  answered : list (Request * Response)
}.

Inductive step : System → System → Prop :=
| step_accept b ts done q deadline_passed :
    request_wf q →
    step (mkSystem b ts done) (mkSystem b (ts ++ [(q, handler q deadline_passed)]) done)
| step_run b ts1 ts2 done q f b' p :
    f b = Some (b', p) →
    step (mkSystem b (ts1 ++ (q, Step f) :: ts2) done) (mkSystem b' (ts1 ++ (q, p) :: ts2) done)
| step_respond b ts1 ts2 done q r :
    step (mkSystem b (ts1 ++ (q, Ret (Respond r)) :: ts2) done)
      (mkSystem b (ts1 ++ ts2) (done ++ [(q, r)]))
| step_wake b ts1 ts2 done q r seen response deadline_passed :
    (seen < append_notification b)%nat →
    step (mkSystem b (ts1 ++ (q, Ret (Waiting r seen response)) :: ts2) done)
      (mkSystem b (ts1 ++ (q, fetch_task r deadline_passed) :: ts2) done)
| step_timeout b ts1 ts2 done q r seen response :
    step (mkSystem b (ts1 ++ (q, Ret (Waiting r seen response)) :: ts2) done)
      (mkSystem b (ts1 ++ ts2) (done ++ [(q, ResFetch response)])).

Inductive reachable : System → Prop :=
| reachable_init id auto force n :
    1 ≤ n ≤ max_partitions → reachable (mkSystem (BrokerState_new id auto force n) [] [])
| reachable_step x y : reachable x → step x y → reachable y.

(** ** What an answer says of the broker *)

(** The size limits of a fetch answer. *)
Definition fetch_limited (request : FetchRequest) (response : FetchResponse) : Prop :=
  let answers := partition_answers (frs_responses response) in
  total_bytes answers ≤ to_usize (fr_max_bytes request) ∨ (nonempty_responses answers ≤ 1)%nat.

Definition response_ok (q : Request) (r : Response) (s : BrokerState) : Prop :=
  match q, r with
  | ReqProduce q, ResProduce r => request_produced q r s
  | ReqFetch q, ResFetch r => request_served q r s ∧ fetch_limited q r
  | ReqListOffsets q, ResListOffsets r => offsets_listed q r s
  | ReqInitProducerId _, ResInitProducerId r => producer_initialised r s
  | ReqCreateTopics q v, ResCreateTopics r => Forall2 (λ t a, topic_created t v a s) q r
  | ReqMetadata _ _ _ _, ResMetadata r => Forall (λ t, topic_answered t s) (mrs_topics r)
  | ReqDescribeTopicPartitions _, ResDescribeTopicPartitions _ => True
  | _, _ => False
  end.

Definition outcome_ok (q : Request) (o : Outcome) (s : BrokerState) : Prop :=
  match o with
  | Respond r => response_ok q r s
  | Waiting r _ response => q = ReqFetch r ∧ response_ok q (ResFetch response) s
  end.

Lemma response_ok_stable q : stable (response_ok q).
Proof.
  intros r s s' Hext. destruct q, r; cbn; try done.
  - by apply request_produced_stable.
  - intros [? ?]. split; [|done]. by eapply request_served_stable.
  - intros Hall. eapply Forall2_impl; [done|]. intros x y [? Hp]. split; [done|].
    eapply Forall2_impl; [done|]. intros p a. by apply offset_listed_stable.
  - by apply producer_initialised_stable.
  - intros Hall. eapply Forall2_impl; [done|]. intros x y. by apply topic_created_stable.
  - intros Hall. eapply Forall_impl; [exact Hall|]. intros t. by apply topic_answered_stable.
Qed.

Lemma outcome_ok_stable q : stable (outcome_ok q).
Proof.
  intros [r|r seen response] s s' Hext; cbn; [by apply response_ok_stable|].
  intros [? Hr]. split; [done|]. by apply (response_ok_stable q (ResFetch response) s s').
Qed.

(** ** The handlers *)

Lemma fetch_task_ok r deadline_passed s :
  in_signed 32 (fr_max_bytes r) → wp (fetch_task r deadline_passed) (outcome_ok (ReqFetch r)) s.
Proof.
  intros Hmax. unfold fetch_task, fetch_once. apply wp_bind, wp_bind, wp_read. intros s1 Hwf1 Hext1.
  apply wp_bind. eapply wp_mono; [|apply snapshot_served].
  - intros snap s2 _ (Hserved & _ & _ & Hlim). case_match; cbn; by split.
  - unfold in_signed, usize_max in *. simpl in Hmax. lia.
Qed.

Lemma describe_names_safe cur remaining names s :
  indexable s → Pagination.cursor_ok cur → 0 ≤ remaining →
  wp (describe_names cur remaining names) (λ _ _, True) s.
Proof.
  intros Hi Hcur. revert remaining s Hi.
  induction names as [|name names IH]; intros remaining s Hi Hrem; cbn [describe_names]; [done|].
  apply wp_bind, wp_read. intros s1 Hwf1 Hext1. pose proof (indexable_extends _ _ Hext1 Hi) as Hi1.
  assert (∀ code, wp (bind (describe_names cur remaining names)
    (λ rest, Ret (resource_error_topic name code :: rest.1, rest.2))) (λ _ _, True) s1) as Herr.
  { intros code. apply wp_bind. by eapply wp_mono; [|by apply IH]. }
  destruct (TopicsCorrect.get_cases (topics s1) name) as [[-> _]|[-> _]]; [|apply Herr].
  destruct (Topics.lookup_topic (topics s1) name) as [m|] eqn:Hl; [|apply Herr].
  destruct (lookup_topic_indexable s1 name m Hwf1 Hi1 Hl) as [Hc ->].
  destruct (Pagination.start_of_index cur name Hcur) as [-> Hs]. cbn [unwrap bind].
  set (start := Pagination.start_index cur name) in *.
  apply wp_bind, wp_read. intros s2 Hwf2 Hext2.
  rewrite described_topic_Some by (unfold saturating_sub; lia). cbn [unwrap bind].
  case_decide as Hcut.
  { unfold cursor, try_i32. by rewrite decide_True by (unfold max_partitions in *; lia). }
  destruct names as [|next_name names]; [done|]. case_decide.
  { unfold cursor, try_i32. by rewrite decide_True by (unfold i32_max; lia). }
  apply wp_bind. eapply wp_mono; [|apply IH]; [done|by eapply indexable_extends|]. lia.
Qed.

Lemma describe_topic_partitions_safe request s :
  indexable s → wp (describe_topic_partitions request) (λ _ _, True) s.
Proof.
  intros Hi. unfold describe_topic_partitions. apply wp_bind, wp_read. intros s1 Hwf1 Hext1.
  destruct (selected_names request _) as [names|e] eqn:Hsel; [|done].
  apply wp_bind. eapply wp_mono; [|apply describe_names_safe]; [done|by eapply indexable_extends| |lia].
  unfold selected_names in Hsel. destruct (dr_cursor request) as [c|]; [|done]. cbn.
  case_bool_decide; [done|]. lia.
Qed.

Lemma metadata_topics r version host port s :
  indexable s →
  wp (metadata new_v4 r version host port) (λ a s', Forall (λ t, topic_answered t s') (mrs_topics a)) s.
Proof.
  intros Hi. destruct (request_error r version) as [e|] eqn:He.
  - unfold metadata. rewrite He. cbn. apply Forall_fmap, Forall_forall. intros t _ Hz. cbn in Hz.
    exfalso. revert Hz. unfold request_error in He. by repeat case_match; simplify_eq.
  - eapply wp_mono; [|by apply metadata_answered]. by intros a s1 _ [? _].
Qed.

Lemma handler_ok q deadline_passed s :
  indexable s → request_wf q → wp (handler q deadline_passed) (outcome_ok q) s.
Proof.
  intros Hi Hq. destruct q; cbn [handler].
  - apply wp_bind. eapply wp_mono; [|by apply produce_produced]. done.
  - by apply fetch_task_ok.
  - apply wp_bind. eapply wp_mono; [|apply list_offsets_listed]. done.
  - apply wp_bind. eapply wp_mono; [|apply init_producer_id_initialised]. done.
  - apply wp_bind. eapply wp_mono; [|by apply create_topics_created]. done.
  - apply wp_bind. eapply wp_mono; [|by apply metadata_topics]. done.
  - apply wp_bind. eapply wp_mono; [|by apply describe_topic_partitions_safe]. done.
Qed.

(** ** The invariant *)

Definition system_ok (x : System) : Prop :=
  broker_wf (broker x) ∧ indexable (broker x) ∧
  Forall (λ '(q, p), request_wf q ∧ wp p (outcome_ok q) (broker x)) (tasks x) ∧
  Forall (λ '(q, r), response_ok q r (broker x)) (answered x).

Lemma tasks_extends b b' (ts : list (Request * prog Outcome)) :
  broker_extends b b' →
  Forall (λ '(q, p), request_wf q ∧ wp p (outcome_ok q) b) ts →
  Forall (λ '(q, p), request_wf q ∧ wp p (outcome_ok q) b') ts.
Proof.
  intros Hext Hts. eapply Forall_impl; [exact Hts|]. intros [q p] [? Hp]. split; [done|].
  eapply wp_extends; [apply outcome_ok_stable|done|done].
Qed.

Lemma answered_extends b b' (l : list (Request * Response)) :
  broker_extends b b' → Forall (λ '(q, r), response_ok q r b) l →
  Forall (λ '(q, r), response_ok q r b') l.
Proof.
  intros Hext Hl. eapply Forall_impl; [exact Hl|]. intros [q r]. by apply response_ok_stable.
Qed.

Lemma system_step_ok x y : system_ok x → step x y → system_ok y ∧ broker_extends (broker x) (broker y).
Proof.
  intros (Hwf & Hi & Hts & Hdone) Hstep.
  destruct Hstep as [b ts done q dp Hq|b ts1 ts2 done q f b' p Hf|b ts1 ts2 done q r
    |b ts1 ts2 done q r seen response dp Hseen|b ts1 ts2 done q r seen response]; cbn in *.
  - split; [|done]. split_and!; try done. apply Forall_app. split; [done|]. constructor; [|done].
    split; [done|]. by apply handler_ok.
  - apply Forall_app in Hts as [Hts1 [[Hq Hp] Hts2]%Forall_cons]. cbn in Hp.
    specialize (Hp b Hwf ltac:(done)). rewrite Hf in Hp. destruct Hp as (Hwf' & Hext & Hp).
    split; [|done]. split_and!; cbn; [done|by eapply indexable_extends| |by eapply answered_extends].
    apply Forall_app. split; [by eapply tasks_extends|]. constructor; [by split|by eapply tasks_extends].
  - apply Forall_app in Hts as [Hts1 [[Hq Hp] Hts2]%Forall_cons]. split; [|done].
    split_and!; try done; cbn.
    + apply Forall_app. by split.
    + apply Forall_app. split; [done|]. by constructor.
  - apply Forall_app in Hts as [Hts1 [[Hq [-> Hp]] Hts2]%Forall_cons]. split; [|done].
    split_and!; try done; cbn. apply Forall_app. split; [done|]. constructor; [|done].
    split; [done|]. by apply fetch_task_ok.
  - apply Forall_app in Hts as [Hts1 [[Hq [-> Hp]] Hts2]%Forall_cons]. split; [|done].
    split_and!; try done; cbn.
    + apply Forall_app. by split.
    + apply Forall_app. split; [done|]. by constructor.
Qed.

Lemma reachable_system_ok x : reachable x → system_ok x.
Proof.
  induction 1 as [id auto force n Hn|x y _ IH Hstep]; [|by destruct (system_step_ok x y)].
  split_and!; [|unfold indexable; cbn; lia|constructor|constructor]. cbn [broker].
  apply BrokerState_new_wf. unfold max_partitions, i32_max, u32_max in *. lia.
Qed.

(** ** Properties *)

(** Under every interleaving of produce, fetch, offset, producer-id, topic
    creation, metadata and description requests, the broker stays well-formed:
    names and identifiers of topics are in bijection, every topic has the
    partitions its metadata says, every log satisfies the log invariant and
    knows only registered producers; and no handler in flight can panic at its
    next step. *)
Theorem broker_invariant (x : System) :
  reachable x →
  broker_wf (broker x) ∧ ∀ q f, (q, Step f) ∈ tasks x → is_Some (f (broker x)).
Proof.
  intros (Hwf & _ & Hts & _)%reachable_system_ok. split; [done|]. intros q f Hin.
  rewrite Forall_forall in Hts. destruct (Hts _ Hin) as [_ Hp]. specialize (Hp _ Hwf ltac:(done)).
  by destruct (f (broker x)).
Qed.

(** Partition [index] of [topic] was sent [records] by [q], and [r] reports
    success at offset [base]. *)
Definition acknowledged (q : ProduceRequest) (r : ProduceResponse) (topic : string)
    (index base : Z) (records : list byte) : Prop :=
  ∃ j i t p tr pr, pr_topic_data q !! j = Some t ∧ prs_responses r !! j = Some tr ∧
    tpd_name t = topic ∧ tpd_partition_data t !! i = Some p ∧
    tpr_partition_responses tr !! i = Some pr ∧ ppd_index p = index ∧
    ppd_records p = Some records ∧ ppr_error_code pr = 0 ∧ ppr_base_offset pr = base.

Lemma acknowledged_holds q r topic index base records s :
  request_produced q r s → acknowledged q r topic index base records →
  holds_records s topic index base records.
Proof.
  intros Hall (j & i & t & p & tr & pr & Ht & Htr & <- & Hp & Hpr & <- & Hrec & Hz & <-).
  destruct (Forall2_lookup_lr _ _ _ _ _ _ Hall Ht Htr) as [_ Hparts].
  destruct (Forall2_lookup_lr _ _ _ _ _ _ Hparts Hp Hpr) as (_ & Hok & _).
  destruct (Hok Hz) as (records' & Hrec' & Hh). congruence.
Qed.

(** C3: acknowledged records are durable.  Once a produce request is answered
    with success for a partition, then in every later state, whatever requests
    have run since or are in flight, a fetch of that partition at the reported
    offset with room for the record set returns, first, the produced batches
    with only their base offsets rewritten, still valid under their checksums. *)
Theorem acknowledged_is_durable (x : System) (q : ProduceRequest) (r : ProduceResponse)
    (topic : string) (index base max : Z) (records : list byte) :
  reachable x → (ReqProduce q, ResProduce r) ∈ answered x →
  acknowledged q r topic index base records → len records ≤ max ≤ usize_max →
  ∃ log vs more, Topics.partition (topics (broker x)) topic index = Some log ∧
    validate_record_set records = Some (Ok vs) ∧
    fetch log base max = Some (Ok (Partition.mkFetchSnapshot
      (concat (vb_bytes <$> place base vs) ++ more) (next_offset log))) ∧
    validate_record_set (concat (vb_bytes <$> place base vs)) = Some (Ok (place base vs)).
Proof.
  intros (Hwf & _ & _ & Hans)%reachable_system_ok Hin Hack Hmax. rewrite Forall_forall in Hans.
  destruct (acknowledged_holds _ _ _ _ _ _ _ (Hans _ Hin) Hack) as (log & Hl & Hst).
  destruct Hwf as (_ & _ & _ & Hlogs). destruct (Hlogs _ _ _ Hl) as [Hlwf _].
  destruct (fetch_stored log base records max Hlwf Hst Hmax) as (vs & more & ? & ? & ?).
  by exists log, vs, more.
Qed.

(** Fetch answers.  In every reachable system, every answered fetch has one
    answer per requested partition, in order; a successful one holds a run of
    whole batches of that partition's log (still there now), starting with the
    batch that contains the requested offset, within the partition's and the
    request's byte limits unless it is a single batch; and the request's limit
    is exceeded in total only by an answer with a single non-empty partition. *)
Theorem fetch_answers_correct (x : System) (q : FetchRequest) (r : FetchResponse) :
  reachable x → (ReqFetch q, ResFetch r) ∈ answered x →
  request_served q r (broker x) ∧ fetch_limited q r.
Proof.
  intros (_ & _ & _ & Hans)%reachable_system_ok Hin. rewrite Forall_forall in Hans. exact (Hans _ Hin).
Qed.

(** C23: the broker only grows.  From a reachable system, any further steps keep
    every topic with its identifier and partition count, keep every stored
    batch of every partition in place (logs grow at the end), never lower a
    high watermark, and keep every registered producer registered. *)
Theorem broker_only_grows (x y : System) :
  reachable x → rtc step x y →
  (∀ name m, Topics.lookup_topic (topics (broker x)) name = Some m →
    Topics.lookup_topic (topics (broker y)) name = Some m) ∧
  (∀ topic index log, Topics.partition (topics (broker x)) topic index = Some log →
    ∃ log', Topics.partition (topics (broker y)) topic index = Some log' ∧
      batches log `prefix_of` batches log' ∧ next_offset log ≤ next_offset log') ∧
  (∀ id epoch, Producers.validate (producers (broker x)) id epoch = Ok () →
    Producers.validate (producers (broker y)) id epoch = Ok ()).
Proof.
  intros Hok%reachable_system_ok Hsteps.
  assert (system_ok y ∧ broker_extends (broker x) (broker y)) as [Hoky Hext].
  { induction Hsteps as [x|x y z Hstep _ IH]; [done|].
    destruct (system_step_ok x y Hok Hstep) as [Hoky Hxy]. destruct (IH Hoky) as [? ?].
    split; [done|by etrans]. }
  destruct Hext as (_ & _ & _ & Hc & Hn & _). split_and!.
  - intros name m. by apply TopicsCorrect.catalog_extends_lookup.
  - intros topic index log Hl.
    destruct (TopicsCorrect.catalog_extends_partition _ _ _ _ _ Hc Hl) as (log' & ? & ? & ?). eauto.
  - intros id epoch. destruct Hok as ((_ & Hp & _) & _), Hoky as ((_ & Hp' & _) & _).
    rewrite (Producers.validate_spec _ _ _ Hp), (Producers.validate_spec _ _ _ Hp').
    repeat case_decide; (done || lia).
Qed.

(** C36: metadata creates the topics it is asked for.  When automatic creation is
    allowed, a metadata request by name answers every valid name with success,
    and the topic exists afterwards with the answered identifier and
    partitions. *)
Theorem metadata_auto_creates (s : BrokerState) (request : MetadataRequest) (version : Z)
    (host : string) (port : Z) :
  broker_wf s → indexable s → request_error request version = None →
  creates_topics s request version = true →
  ∃ response s', run (metadata new_v4 request version host port) s = Some (response, s') ∧
    ∀ t name, t ∈ default [] (mr_topics request) → mrt_name t = Some name →
      Topics.validate_name name = Ok () →
      ∃ a m, a ∈ mrs_topics response ∧ mt_name a = Some name ∧ mt_error_code a = 0 ∧
        Topics.get (topics s') name = Ok (Some m) ∧ mt_topic_id a = Topics.tm_id m ∧
        mrp_partition_index <$> mt_partitions a = range 0 (Topics.tm_partition_count m).
Proof.
  intros Hwf Hi He Hc.
  destruct (wp_run _ _ _ Hwf (metadata_answered new_v4 request version host port s Hi He))
    as (response & s' & Hrun & _ & _ & Hall & Hreq).
  exists response, s'. split; [done|]. intros t name Ht Hn Hv.
  destruct (Hreq Hc t name Ht Hn Hv) as (a & Ha & Hname & Hz). rewrite Forall_forall in Hall.
  destruct (Hall _ Ha Hz) as (m & Hl & Hnm & Hid & Hidx). exists a, m. split_and!; try done.
  assert (Topics.tm_name m = name) as <- by congruence. unfold Topics.get. rewrite Hv. cbn. by rewrite Hl.
Qed.

(** ** Sequential runs are reachable *)

Lemma run_task_steps q p b ts done o b' :
  run p b = Some (o, b') →
  rtc step (mkSystem b (ts ++ [(q, p)]) done) (mkSystem b' (ts ++ [(q, Ret o)]) done).
Proof.
  revert p b. fix IH 1. intros p b. destruct p as [o'|f]; cbn.
  - intros [= -> ->]. apply rtc_refl.
  - destruct (f b) as [[b1 p1]|] eqn:Hf; [|done]. intros Hrun.
    eapply rtc_l; [by apply step_run|]. by apply IH.
Qed.

Lemma run_request_steps q dp b ts done r b' :
  request_wf q → run (handler q dp) b = Some (Respond r, b') →
  rtc step (mkSystem b ts done) (mkSystem b' ts (done ++ [(q, r)])).
Proof.
  intros Hq Hrun. eapply rtc_l; [by apply (step_accept _ _ _ q dp)|].
  etrans; [by apply run_task_steps|]. apply rtc_once.
  pose proof (step_respond b' ts [] done q r) as Hstep. by rewrite app_nil_r in Hstep.
Qed.

Lemma steps_reachable x y : reachable x → rtc step x y → reachable y.
Proof. intros Hx. induction 1; eauto using reachable_step. Qed.

End system.

(** ** Witnesses: a produce to a topic created on the way, then a fetch *)

#[local] Existing Instance crc32c_instance.

Definition plain_record (off : Z) : KRecord := {|
  transactional := false; control := false; delete_horizon := false;
  partition_leader_epoch := -1; producer_id := -1; producer_epoch := -1;
  timestamp_type := Creation; offset := off; sequence := off - 1; timestamp := 1000;
  key := None; value := Some [Byte.x61; Byte.x62]; headers := []
|}.

Definition plain_set : list byte := Eval vm_compute in
  match encode_record_set [plain_record 0; plain_record 1] {| opt_version := 2; opt_compression := CNone |} [] with
  | Some (Ok bytes) => bytes
  | _ => []
  end.

Definition broker_0 : BrokerState := BrokerState_new 1 true false 2.
Definition produce_req : ProduceRequest :=
  mkProduceRequest None (-1) [mkTopicProduceData "orders" [mkPartitionProduceData 1 (Some plain_set)]].
Definition produce_res : ProduceResponse :=
  mkProduceResponse [mkTopicProduceResponse "orders" [mkPartitionProduceResponse 1 0 0 (-1) 0]] 0.
Definition fetch_req : FetchRequest :=
  mkFetchRequest 0 1 1000 [mkFetchTopic "orders" [mkFetchPartition 1 0 500]].

Definition state_after {A : Type} (p : prog A) (s : BrokerState) : BrokerState :=
  from_option snd s (run p s).

Definition broker_1 : BrokerState := Eval vm_compute in
  state_after (handler TopicsCorrect.counting_uuids (ReqProduce produce_req) false) broker_0.
Definition fetch_res : FetchResponse := Eval vm_compute in
  match run (handler TopicsCorrect.counting_uuids (ReqFetch fetch_req) false) broker_1 with
  | Some (Respond (ResFetch r), _) => r
  | _ => mkFetchResponse 0 []
  end.

(** The same record set appended again, and its answer. *)
Definition produce_res_3 : ProduceResponse :=
  mkProduceResponse [mkTopicProduceResponse "orders" [mkPartitionProduceResponse 1 0 2 (-1) 0]] 0.
Definition broker_3 : BrokerState := Eval vm_compute in
  state_after (handler TopicsCorrect.counting_uuids (ReqProduce produce_req) false) broker_1.

Definition system_0 : System := mkSystem broker_0 [] [].
Definition system_1 : System := mkSystem broker_1 [] [(ReqProduce produce_req, ResProduce produce_res)].
Definition system_2 : System := mkSystem broker_1 []
  [(ReqProduce produce_req, ResProduce produce_res); (ReqFetch fetch_req, ResFetch fetch_res)].
Definition system_3 : System := mkSystem broker_3 []
  [(ReqProduce produce_req, ResProduce produce_res); (ReqProduce produce_req, ResProduce produce_res_3)].

Lemma system_0_reachable : reachable TopicsCorrect.counting_uuids system_0.
Proof. apply reachable_init. unfold max_partitions, i32_max. lia. Qed.

Lemma system_1_steps : rtc (step TopicsCorrect.counting_uuids) system_0 system_1.
Proof.
  apply (run_request_steps _ (ReqProduce produce_req) false broker_0 [] []); [done|].
  vm_compute. reflexivity.
Qed.

Lemma system_1_reachable : reachable TopicsCorrect.counting_uuids system_1.
Proof. exact (steps_reachable _ _ _ system_0_reachable system_1_steps). Qed.

Lemma system_2_reachable : reachable TopicsCorrect.counting_uuids system_2.
Proof.
  apply (steps_reachable _ _ _ system_1_reachable), (run_request_steps _ (ReqFetch fetch_req) false
    broker_1 [] (answered system_1)); [|vm_compute; reflexivity].
  cbn. unfold in_signed. lia.
Qed.

Lemma system_3_steps : rtc (step TopicsCorrect.counting_uuids) system_1 system_3.
Proof.
  apply (run_request_steps _ (ReqProduce produce_req) false broker_1 [] (answered system_1)); [done|].
  vm_compute. reflexivity.
Qed.

Lemma produce_acknowledged : acknowledged produce_req produce_res "orders" 1 0 plain_set.
Proof. exists 0%nat, 0%nat. do 4 eexists. split_and!; reflexivity. Qed.

Lemma acknowledged_is_durable_witness :
  ∃ log vs more, Topics.partition (topics broker_1) "orders" 1 = Some log ∧
    validate_record_set plain_set = Some (Ok vs) ∧
    fetch log 0 500 = Some (Ok (Partition.mkFetchSnapshot
      (concat (vb_bytes <$> place 0 vs) ++ more) (next_offset log))) ∧
    validate_record_set (concat (vb_bytes <$> place 0 vs)) = Some (Ok (place 0 vs)).
Proof.
  apply (acknowledged_is_durable TopicsCorrect.counting_uuids system_2 produce_req produce_res
    "orders" 1 0 500 plain_set).
  - exact system_2_reachable.
  - left.
  - exact produce_acknowledged.
  - vm_compute. split; discriminate.
Defined.

Lemma broker_only_grows_witness :
  ∃ log log', Topics.partition (topics broker_1) "orders" 1 = Some log ∧
    Topics.partition (topics broker_3) "orders" 1 = Some log' ∧
    batches log `prefix_of` batches log' ∧ next_offset log = 2 ∧ next_offset log' = 4.
Proof.
  destruct (broker_only_grows TopicsCorrect.counting_uuids system_1 system_3
    system_1_reachable system_3_steps) as (_ & Hlogs & _).
  destruct (Hlogs "orders" 1 _ eq_refl) as (log' & Hlog' & Hpre & _).
  eexists _, log'. split; [reflexivity|]. split; [exact Hlog'|]. split; [exact Hpre|].
  injection Hlog' as <-. split; reflexivity.
Defined.

Definition metadata_req : MetadataRequest :=
  mkMetadataRequest (Some [mkMetadataRequestTopic 0 (Some "orders")]) true false false.

Lemma metadata_auto_creates_witness :
  ∃ response s', run (metadata TopicsCorrect.counting_uuids metadata_req 9 "localhost" 9092) broker_0
    = Some (response, s').
Proof.
  destruct (metadata_auto_creates TopicsCorrect.counting_uuids broker_0 metadata_req 9 "localhost" 9092)
    as (response & s' & Hrun & _).
  - apply BrokerState_new_wf. unfold u32_max. lia.
  - unfold indexable, max_partitions, i32_max. cbn. lia.
  - reflexivity.
  - reflexivity.
  - exists response, s'. exact Hrun.
Defined.

(** Two topics described two partitions at a time. *)
Definition two_topics : list CreatableTopic :=
  [mkCreatableTopic "orders" 3 1 [] []; mkCreatableTopic "payments" 2 1 [] []].
Definition broker_two : BrokerState := Eval vm_compute in
  state_after (create_topics TopicsCorrect.counting_uuids two_topics false) broker_0.
Definition describe_req : DescribeTopicPartitionsRequest := mkDescribeTopicPartitionsRequest [] 2 None.

Lemma broker_two_wf : broker_wf broker_two.
Proof.
  destruct (wp_run _ _ broker_0 (BrokerState_new_wf 1 true false 2 ltac:(unfold u32_max; lia))
    (create_topics_created TopicsCorrect.counting_uuids two_topics false broker_0
      ltac:(repeat constructor; cbn; lia))) as (rs & s' & Hrun & Hwf & _).
  vm_compute in Hrun. injection Hrun as _ <-. exact Hwf.
Qed.

Lemma describe_pages_complete_witness :
  ∃ rs r, Pagination.pages broker_two 6 describe_req = Some (rs ++ [r]) ∧
    concat ((λ r, Pagination.page_pairs (dp_topics r)) <$> (rs ++ [r])) =
      [("orders", 0); ("orders", 1); ("orders", 2); ("payments", 0); ("payments", 1)] ∧
    Forall (λ r, len (Pagination.page_pairs (dp_topics r)) = 2) rs.
Proof.
  destruct (Pagination.describe_pages_complete broker_two describe_req) as (rs & r & Hp & Ha & _ & Hf & _).
  - exact broker_two_wf.
  - unfold indexable, max_partitions, i32_max. vm_compute. discriminate.
  - reflexivity.
  - exists rs, r. split; [exact Hp|]. split; [rewrite Ha; vm_compute; reflexivity|exact Hf].
Defined.

End BrokerSystem.
