(* ===== verification/GroupHandlers.v ===== *)
(** * The group and cluster handlers

    [src/src/kafka/join_group.rs], [sync_group.rs], [heartbeat.rs],
    [leave_group.rs], [offset_commit.rs], [offset_fetch.rs], [list_groups.rs],
    [describe_groups.rs], [group_error.rs], [find_coordinator.rs],
    [describe_cluster.rs] and [describe_configs.rs] as programs on the broker
    state, from the decoded request to the response message.

    - Every critical section of the group coordinator is one step; [time i] is
      the clock of the [i]-th section of a call.
    - A join or a sync may wait for other members.  [polls] is how often the
      call wakes up before the observation ends; the answer [None] means that
      the call is still waiting then.
    - A string of a message is its bytes; a string of the coordinator is a
      [string] ([to_str] and [of_str] are inverse).
    - What the handlers only log is left out. *)

From stdpp Require Import pretty.
From S2P Require Import Prelude Config Types Errors MessageCodec MessagesData MessagesGroups MessagesBuild.
From S2P Require Import Groups Topics Broker Admin.
Open Scope Z_scope.

Module GroupHandlers.
Import Broker.

Definition to_str (s : list byte) : string := String.string_of_list_byte s.
Definition of_str (s : string) : list byte := String.list_byte_of_string s.

Lemma to_of_str s : to_str (of_str s) = s.
Proof. apply String.string_of_list_byte_of_string. Qed.
Lemma of_to_str s : of_str (to_str s) = s.
Proof. apply String.list_byte_of_string_of_list_byte. Qed.
#[global] Instance to_str_inj : Inj (=) (=) to_str.
Proof. intros s s' Heq. by rewrite <- (of_to_str s), Heq, of_to_str. Qed.
#[global] Instance of_str_inj : Inj (=) (=) of_str.
Proof. intros s s' Heq. by rewrite <- (to_of_str s), Heq, to_of_str. Qed.

(* @ src/src/kafka/group_error.rs 5-13 response_error *)
Definition response_error (error : Groups.GroupError) : Errors.ResponseError :=
  match error with
  | Groups.UnknownMemberId => Errors.UnknownMemberId
  | Groups.IllegalGeneration => Errors.IllegalGeneration
  | Groups.RebalanceInProgress => Errors.RebalanceInProgress
  | Groups.InconsistentGroupProtocol => Errors.InconsistentGroupProtocol
  | Groups.InvalidAssignment => Errors.InvalidRequest
  end.

(** [.err().map_or(0, |error| response_error(error).code())]. *)
Definition error_code {A : Type} (r : result Groups.GroupError A) : Z :=
  match r with Ok _ => 0 | Err e => Errors.code (response_error e) end.

(** One critical section of the coordinator. *)
Definition on_groups {A : Type} (f : Groups.Coordinator → option (A * Groups.Coordinator)) : prog A :=
  atomically (λ s, let! r := f (groups s) in Some (r.1, with_groups s r.2)).

(** One critical section of a group the call has looked up before. *)
Definition on_entry {A : Type} (group_id : string) (f : Groups.Group → option (A * Groups.Group)) : prog A :=
  on_groups (λ c,
    let! g := Groups.groups c !! group_id in
    let! r := f g in
    Some (r.1, Groups.with_group c group_id r.2)).

Section handlers.
  Context (time : nat → Groups.clock).

(** ** JoinGroup *)

(* @ src/src/broker/groups.rs 396-428 GroupCoordinator::join *)
Fixpoint join_wait (polls i : nat) (group_id member_id : string) (target_epoch : Z) :
    prog (option (result Groups.GroupError Groups.JoinResult)) :=
  match polls with
  | O => Ret None
  | S polls =>
      do p <- on_entry group_id (λ g, Some (Groups.join_poll (time i) g member_id target_epoch));
      match p with
      | Groups.Ready (Ok joined) => Ret (Some (Ok (Groups.Joined joined)))
      | Groups.Ready (Err e) => Ret (Some (Err e))
      | Groups.Pending _ _ => join_wait polls (S i) group_id member_id target_epoch
      end
  end.

(* @ src/src/broker/groups.rs 254-429 GroupCoordinator::join *)
Definition join (polls : nat) (request : Groups.JoinRequest) (require_known_member_id : bool) :
    prog (option (result Groups.GroupError Groups.JoinResult)) :=
  do started <- on_groups (λ c, Some (Groups.join_start c request require_known_member_id));
  match started with
  | Groups.StartReturned r => Ret (Some r)
  | Groups.StartProceed request may_add_member =>
      do entered <- on_groups (λ c, Groups.join_locked (time 0) c request may_add_member);
      match entered with
      | Groups.JoinReturned r => Ret (Some r)
      | Groups.JoinWaiting target_epoch =>
          let group_id := Groups.jr_group_id request in
          let member_id := Groups.jr_member_id request in
          do _ <- on_groups (λ c, Some ((), Groups.join_forget_pending c group_id member_id));
          join_wait polls 1 group_id member_id target_epoch
      end
  end.

(* @ src/src/kafka/join_group.rs 97-107 effective_rebalance_timeout_ms *)
Definition effective_rebalance_timeout_ms (version session_timeout_ms rebalance_timeout_ms : Z) : Z :=
  if version =? 0 then session_timeout_ms else rebalance_timeout_ms.

(* @ src/src/kafka/join_group.rs 132-141 error_response *)
Definition join_error_response (error : Errors.ResponseError) (member_id : list byte) : JoinGroupResponse :=
  JoinGroupResponse_default
    ▷ JoinGroupResponse_with_throttle_time_ms 0
    ▷ JoinGroupResponse_with_error_code (Errors.code error)
    ▷ JoinGroupResponse_with_generation_id (-1)
    ▷ JoinGroupResponse_with_protocol_name (Some [])
    ▷ JoinGroupResponse_with_leader []
    ▷ JoinGroupResponse_with_member_id member_id
    ▷ JoinGroupResponse_with_members [].

(* @ src/src/kafka/join_group.rs 48-67 response *)
Definition join_request (request : JoinGroupRequest) (version : Z) (client_id : option (list byte)) :
    Groups.JoinRequest := {|
  Groups.jr_group_id := to_str (JoinGroupRequest_group_id request);
  Groups.jr_member_id := to_str (JoinGroupRequest_member_id request);
  Groups.jr_client_id := from_option to_str "consumer" client_id;
  Groups.jr_session_timeout_ms := JoinGroupRequest_session_timeout_ms request;
  Groups.jr_rebalance_timeout_ms := effective_rebalance_timeout_ms version
    (JoinGroupRequest_session_timeout_ms request) (JoinGroupRequest_rebalance_timeout_ms request);
  Groups.jr_protocol_type := to_str (JoinGroupRequest_protocol_type request);
  Groups.jr_protocols := map (λ protocol,
    Groups.mkJoinProtocol (to_str (JoinGroupRequestProtocol_name protocol))
      (JoinGroupRequestProtocol_metadata protocol)) (JoinGroupRequest_protocols request)
|}.

(* @ src/src/kafka/join_group.rs 69-94 response *)
Definition join_response (request : JoinGroupRequest)
    (r : result Groups.GroupError Groups.JoinResult) : JoinGroupResponse :=
  match r with
  | Ok (Groups.MemberIdRequired member_id) =>
      join_error_response Errors.MemberIdRequired (of_str member_id)
  | Ok (Groups.Joined joined) =>
      JoinGroupResponse_default
        ▷ JoinGroupResponse_with_throttle_time_ms 0
        ▷ JoinGroupResponse_with_error_code 0
        ▷ JoinGroupResponse_with_generation_id (Groups.jg_generation_id joined)
        ▷ JoinGroupResponse_with_protocol_name (Some (of_str (Groups.jg_protocol_name joined)))
        ▷ JoinGroupResponse_with_leader (of_str (Groups.jg_leader joined))
        ▷ JoinGroupResponse_with_member_id (of_str (Groups.jg_member_id joined))
        ▷ JoinGroupResponse_with_members (map (λ member,
            JoinGroupResponseMember_default
              ▷ JoinGroupResponseMember_with_member_id (of_str (Groups.jm_member_id member))
              ▷ JoinGroupResponseMember_with_group_instance_id None
              ▷ JoinGroupResponseMember_with_metadata (Groups.jm_metadata member))
            (Groups.jg_members joined))
  | Err error => join_error_response (response_error error) (JoinGroupRequest_member_id request)
  end.

(* @ src/src/kafka/join_group.rs 18-95 response *)
Definition join_group (polls : nat) (request : JoinGroupRequest) (version : Z)
    (client_id : option (list byte)) : prog (option JoinGroupResponse) :=
  if decide (is_Some (JoinGroupRequest_group_instance_id request)) then
    Ret (Some (join_error_response Errors.UnsupportedVersion (JoinGroupRequest_member_id request)))
  else
    do r <- join polls (join_request request version client_id) (4 <=? version);
    Ret (join_response request <$> r).

(** ** SyncGroup *)

(* @ src/src/broker/groups.rs 444-546 GroupCoordinator::sync *)
Fixpoint sync_wait (polls i : nat) (group_id : string) (generation_id : Z) (member_id : string)
    (assignments : option (list Groups.SyncAssignment)) (refresh_member : bool) :
    prog (option (result Groups.GroupError (list byte))) :=
  match polls with
  | O => Ret None
  | S polls =>
      do p <- on_entry group_id (λ g,
        Groups.sync_poll (time i) g generation_id member_id assignments refresh_member);
      match p with
      | Groups.Ready r => Ret (Some r)
      | Groups.Pending _ _ => sync_wait polls (S i) group_id generation_id member_id assignments false
      end
  end.

(* @ src/src/broker/groups.rs 431-547 GroupCoordinator::sync *)
Definition sync (polls : nat) (group_id : string) (generation_id : Z) (member_id : string)
    (assignments : list Groups.SyncAssignment) : prog (option (result Groups.GroupError (list byte))) :=
  do found <- read (λ s, bool_decide (is_Some (Groups.groups (groups s) !! group_id)));
  if negb found then Ret (Some (Err Groups.UnknownMemberId))
  else sync_wait polls 0 group_id generation_id member_id (Some assignments) true.

(* @ src/src/kafka/sync_group.rs 37-47 response *)
Definition sync_response (r : result Groups.GroupError (list byte)) : SyncGroupResponse :=
  match r with
  | Ok assignment =>
      SyncGroupResponse_default
        ▷ SyncGroupResponse_with_throttle_time_ms 0
        ▷ SyncGroupResponse_with_error_code 0
        ▷ SyncGroupResponse_with_assignment assignment
  | Err error =>
      SyncGroupResponse_default
        ▷ SyncGroupResponse_with_throttle_time_ms 0
        ▷ SyncGroupResponse_with_error_code (Errors.code (response_error error))
        ▷ SyncGroupResponse_with_assignment []
        ▷ SyncGroupResponse_with_protocol_type None
        ▷ SyncGroupResponse_with_protocol_name None
  end.

(* @ src/src/kafka/sync_group.rs 10-48 response *)
Definition sync_group (polls : nat) (request : SyncGroupRequest) : prog (option SyncGroupResponse) :=
  if decide (is_Some (SyncGroupRequest_group_instance_id request)) then
    Ret (Some (SyncGroupResponse_default
      ▷ SyncGroupResponse_with_error_code (Errors.code Errors.UnsupportedVersion)))
  else
    let assignments := map (λ assignment,
      Groups.mkSyncAssignment (to_str (SyncGroupRequestAssignment_member_id assignment))
        (SyncGroupRequestAssignment_assignment assignment)) (SyncGroupRequest_assignments request) in
    do r <- sync polls (to_str (SyncGroupRequest_group_id request))
      (SyncGroupRequest_generation_id request) (to_str (SyncGroupRequest_member_id request)) assignments;
    Ret (sync_response <$> r).

(** ** Heartbeat and LeaveGroup *)

(* @ src/src/kafka/heartbeat.rs 10-31 response *)
Definition heartbeat (request : HeartbeatRequest) : prog HeartbeatResponse :=
  do error_code <-
    (if decide (is_Some (HeartbeatRequest_group_instance_id request)) then
      Ret (Errors.code Errors.UnsupportedVersion)
    else
      do r <- on_groups (λ c, Some (Groups.heartbeat (time 0) c (to_str (HeartbeatRequest_group_id request))
        (HeartbeatRequest_generation_id request) (to_str (HeartbeatRequest_member_id request))));
      Ret (error_code r));
  Ret (HeartbeatResponse_default
    ▷ HeartbeatResponse_with_throttle_time_ms 0
    ▷ HeartbeatResponse_with_error_code error_code).

(** The loop over the members of a batched leave; [i] numbers the sections. *)
(* @ src/src/kafka/leave_group.rs 27-45 response *)
Fixpoint leave_members (i : nat) (group_id : string) (members : list MemberIdentity) :
    prog (list MemberResponse) :=
  match members with
  | [] => Ret []
  | member :: members =>
      do error_code <-
        (if decide (is_Some (MemberIdentity_group_instance_id member)) then
          Ret (Errors.code Errors.UnsupportedVersion)
        else
          do r <- on_groups (λ c, Some (Groups.leave (time i) c group_id
            (to_str (MemberIdentity_member_id member))));
          Ret (error_code r));
      do rest <- leave_members (S i) group_id members;
      Ret ((MemberResponse_default
        ▷ MemberResponse_with_member_id (MemberIdentity_member_id member)
        ▷ MemberResponse_with_group_instance_id None
        ▷ MemberResponse_with_error_code error_code) :: rest)
  end.

(* @ src/src/kafka/leave_group.rs 10-51 response *)
Definition leave_group (request : LeaveGroupRequest) (version : Z) : prog LeaveGroupResponse :=
  if version <=? 2 then
    do r <- on_groups (λ c, Some (Groups.leave (time 0) c (to_str (LeaveGroupRequest_group_id request))
      (to_str (LeaveGroupRequest_member_id request))));
    Ret (LeaveGroupResponse_default
      ▷ LeaveGroupResponse_with_throttle_time_ms 0
      ▷ LeaveGroupResponse_with_error_code (error_code r))
  else
    do members <- leave_members 0 (to_str (LeaveGroupRequest_group_id request))
      (LeaveGroupRequest_members request);
    Ret (LeaveGroupResponse_default
      ▷ LeaveGroupResponse_with_throttle_time_ms 0
      ▷ LeaveGroupResponse_with_error_code 0
      ▷ LeaveGroupResponse_with_members members).

(** ** OffsetCommit and OffsetFetch *)

(* @ src/src/kafka/offset_commit.rs 17-31 response *)
Definition commits (request : OffsetCommitRequest) : list Groups.OffsetCommit :=
  concat (map (λ topic, map (λ partition, {|
      Groups.oc_topic := to_str (OffsetCommitRequestTopic_name topic);
      Groups.oc_partition := OffsetCommitRequestPartition_partition_index partition;
      Groups.oc_offset := OffsetCommitRequestPartition_committed_offset partition;
      Groups.oc_metadata := to_str <$> OffsetCommitRequestPartition_committed_metadata partition |})
    (OffsetCommitRequestTopic_partitions topic)) (OffsetCommitRequest_topics request)).

(* @ src/src/kafka/offset_commit.rs 13-83 response *)
Definition offset_commit (request : OffsetCommitRequest) : prog OffsetCommitResponse :=
  do error_code <-
    (if decide (is_Some (OffsetCommitRequest_group_instance_id request)) then
      Ret (Errors.code Errors.UnsupportedVersion)
    else
      do r <- on_groups (λ c, Some (Groups.commit_offsets (time 0) c
        (to_str (OffsetCommitRequest_group_id request))
        (OffsetCommitRequest_generation_id_or_member_epoch request)
        (to_str (OffsetCommitRequest_member_id request)) (commits request)));
      Ret (error_code r));
  Ret (OffsetCommitResponse_default
    ▷ OffsetCommitResponse_with_throttle_time_ms 0
    ▷ OffsetCommitResponse_with_topics (map (λ topic,
        OffsetCommitResponseTopic_default
          ▷ OffsetCommitResponseTopic_with_name (OffsetCommitRequestTopic_name topic)
          ▷ OffsetCommitResponseTopic_with_partitions (map (λ partition,
              OffsetCommitResponsePartition_default
                ▷ OffsetCommitResponsePartition_with_partition_index
                    (OffsetCommitRequestPartition_partition_index partition)
                ▷ OffsetCommitResponsePartition_with_error_code error_code)
              (OffsetCommitRequestTopic_partitions topic)))
        (OffsetCommitRequest_topics request))).

(* @ src/src/kafka/offset_fetch.rs 45-50 group_by_topic *)
Definition fetched_partition (offset : Groups.FetchedOffset) : OffsetFetchResponsePartition :=
  OffsetFetchResponsePartition_default
    ▷ OffsetFetchResponsePartition_with_partition_index (Groups.fo_partition offset)
    ▷ OffsetFetchResponsePartition_with_committed_offset (default (-1) (Groups.fo_offset offset))
    ▷ OffsetFetchResponsePartition_with_committed_leader_epoch (-1)
    ▷ OffsetFetchResponsePartition_with_metadata (of_str <$> Groups.fo_metadata offset)
    ▷ OffsetFetchResponsePartition_with_error_code 0.

(** [topics.entry(offset.topic).or_default().push(..)]. *)
(* @ src/src/kafka/offset_fetch.rs 43-52 group_by_topic *)
Definition push_offset (topics : gmap string (list OffsetFetchResponsePartition)) (offset : Groups.FetchedOffset) :
    gmap string (list OffsetFetchResponsePartition) :=
  <[Groups.fo_topic offset := default [] (topics !! Groups.fo_topic offset) ++ [fetched_partition offset]]> topics.

Definition topic_entry_le (a b : string * list OffsetFetchResponsePartition) : Prop := String.le a.1 b.1.
#[global] Instance topic_entry_le_dec : RelDecision topic_entry_le.
Proof. intros a b. unfold topic_entry_le. apply _. Defined.

(** A [BTreeMap] is iterated in the order of its keys. *)
(* @ src/src/kafka/offset_fetch.rs 41-61 group_by_topic *)
Definition group_by_topic (offsets : list Groups.FetchedOffset) : list OffsetFetchResponseTopic :=
  let topics := fold_left push_offset offsets ∅ in
  map (λ '(name, partitions),
    OffsetFetchResponseTopic_default
      ▷ OffsetFetchResponseTopic_with_name (of_str name)
      ▷ OffsetFetchResponseTopic_with_partitions partitions)
    (merge_sort topic_entry_le (map_to_list topics)).

(* @ src/src/kafka/offset_fetch.rs 20-29 response *)
Definition requested_offsets (request : OffsetFetchRequest) : option (list Groups.TopicPartition) :=
  (λ topics, concat (map (λ topic,
    map (λ partition, Groups.mkTopicPartition (to_str (OffsetFetchRequestTopic_name topic)) partition)
      (OffsetFetchRequestTopic_partition_indexes topic)) topics)) <$> OffsetFetchRequest_topics request.

(* @ src/src/kafka/offset_fetch.rs 16-39 response *)
Definition offset_fetch (request : OffsetFetchRequest) : prog OffsetFetchResponse :=
  do fetched <- read (λ s, Groups.fetch_offsets (groups s) (to_str (OffsetFetchRequest_group_id request))
    (requested_offsets request));
  Ret (OffsetFetchResponse_default
    ▷ OffsetFetchResponse_with_throttle_time_ms 0
    ▷ OffsetFetchResponse_with_error_code 0
    ▷ OffsetFetchResponse_with_topics (group_by_topic fetched)).

(** ** ListGroups and DescribeGroups *)

(* @ src/src/kafka/list_groups.rs 8-24 response *)
Definition list_groups : prog ListGroupsResponse :=
  do listed <- read (λ s, Groups.list_groups (groups s));
  Ret (ListGroupsResponse_default
    ▷ ListGroupsResponse_with_error_code 0
    ▷ ListGroupsResponse_with_groups (map (λ group,
        ListedGroup_default
          ▷ ListedGroup_with_group_id (of_str (Groups.gs_group_id group))
          ▷ ListedGroup_with_protocol_type (of_str (Groups.gs_protocol_type group))) listed)).

(* @ src/src/kafka/describe_groups.rs 27-48 described_group *)
Definition described_group (description : Groups.GroupDescription) : DescribeGroupsResponse_DescribedGroup :=
  DescribeGroupsResponse_DescribedGroup_default
    ▷ DescribeGroupsResponse_DescribedGroup_with_error_code 0
    ▷ DescribeGroupsResponse_DescribedGroup_with_group_id (of_str (Groups.gd_group_id description))
    ▷ DescribeGroupsResponse_DescribedGroup_with_group_state (of_str (Groups.gd_state description))
    ▷ DescribeGroupsResponse_DescribedGroup_with_protocol_type (of_str (Groups.gd_protocol_type description))
    ▷ DescribeGroupsResponse_DescribedGroup_with_protocol_data (of_str (Groups.gd_protocol_name description))
    ▷ DescribeGroupsResponse_DescribedGroup_with_members (map (λ member,
        DescribedGroupMember_default
          ▷ DescribedGroupMember_with_member_id (of_str (Groups.gm_member_id member))
          ▷ DescribedGroupMember_with_client_id (of_str (Groups.gm_client_id member))
          ▷ DescribedGroupMember_with_client_host []
          ▷ DescribedGroupMember_with_member_metadata (Groups.gm_metadata member)
          ▷ DescribedGroupMember_with_member_assignment (Groups.gm_assignment member))
        (Groups.gd_members description)).

(* @ src/src/kafka/describe_groups.rs 50-58 missing_group *)
Definition missing_group (group_id : list byte) : DescribeGroupsResponse_DescribedGroup :=
  DescribeGroupsResponse_DescribedGroup_default
    ▷ DescribeGroupsResponse_DescribedGroup_with_error_code (Errors.code Errors.GroupIdNotFound)
    ▷ DescribeGroupsResponse_DescribedGroup_with_group_id group_id
    ▷ DescribeGroupsResponse_DescribedGroup_with_group_state []
    ▷ DescribeGroupsResponse_DescribedGroup_with_protocol_type []
    ▷ DescribeGroupsResponse_DescribedGroup_with_protocol_data []
    ▷ DescribeGroupsResponse_DescribedGroup_with_members [].

(* @ src/src/kafka/describe_groups.rs 16-22 response *)
Fixpoint describe_each (i : nat) (group_ids : list (list byte)) :
    prog (list DescribeGroupsResponse_DescribedGroup) :=
  match group_ids with
  | [] => Ret []
  | group_id :: group_ids =>
      do description <- on_groups (λ c, Some (Groups.describe (time i) c (to_str group_id)));
      do rest <- describe_each (S i) group_ids;
      Ret (match description with
           | Some description => described_group description
           | None => missing_group group_id
           end :: rest)
  end.

(* @ src/src/kafka/describe_groups.rs 12-25 response *)
Definition describe_groups (request : DescribeGroupsRequest) : prog DescribeGroupsResponse :=
  do groups <- describe_each 0 (DescribeGroupsRequest_groups request);
  Ret (DescribeGroupsResponse_default ▷ DescribeGroupsResponse_with_groups groups).

End handlers.

(** ** FindCoordinator *)

(* @ src/src/kafka/find_coordinator.rs 30-38 error_response *)
Definition find_coordinator_error (error : Errors.ResponseError) : FindCoordinatorResponse :=
  FindCoordinatorResponse_default
    ▷ FindCoordinatorResponse_with_throttle_time_ms 0
    ▷ FindCoordinatorResponse_with_error_code (Errors.code error)
    ▷ FindCoordinatorResponse_with_error_message (Some (of_str (Errors.to_string error)))
    ▷ FindCoordinatorResponse_with_node_id (-1)
    ▷ FindCoordinatorResponse_with_host []
    ▷ FindCoordinatorResponse_with_port (-1).

(** The identity of the broker never changes: it is not behind a lock. *)
(* @ src/src/kafka/find_coordinator.rs 9-28 response *)
Definition find_coordinator (request : FindCoordinatorRequest) (advertised_kafka : AdvertisedAddress) :
    prog FindCoordinatorResponse :=
  if decide (FindCoordinatorRequest_key request = []) then Ret (find_coordinator_error Errors.InvalidGroupId)
  else if decide (FindCoordinatorRequest_key_type request ≠ 0) then
    Ret (find_coordinator_error Errors.UnsupportedVersion)
  else
    do id <- read broker_id;
    Ret (FindCoordinatorResponse_default
      ▷ FindCoordinatorResponse_with_throttle_time_ms 0
      ▷ FindCoordinatorResponse_with_error_code 0
      ▷ FindCoordinatorResponse_with_error_message None
      ▷ FindCoordinatorResponse_with_node_id id
      ▷ FindCoordinatorResponse_with_host (of_str (host advertised_kafka))
      ▷ FindCoordinatorResponse_with_port (port advertised_kafka)).

(** ** DescribeCluster *)

(* @ src/src/kafka/describe_cluster.rs 59-63 error_response *)
Definition describe_cluster_error (error : Errors.ResponseError) (message : list byte) : DescribeClusterResponse :=
  DescribeClusterResponse_default
    ▷ DescribeClusterResponse_with_error_code (Errors.code error)
    ▷ DescribeClusterResponse_with_error_message (Some message).

(* @ src/src/kafka/describe_cluster.rs 34-57 broker_response *)
Definition broker_response (request : DescribeClusterRequest) (id : Z) (advertised_kafka : AdvertisedAddress) :
    DescribeClusterResponse :=
  DescribeClusterResponse_default
    ▷ DescribeClusterResponse_with_endpoint_type 1
    ▷ DescribeClusterResponse_with_cluster_id (of_str Admin.CLUSTER_ID)
    ▷ DescribeClusterResponse_with_controller_id id
    ▷ DescribeClusterResponse_with_brokers [
        DescribeClusterBroker_default
          ▷ DescribeClusterBroker_with_broker_id id
          ▷ DescribeClusterBroker_with_host (of_str (host advertised_kafka))
          ▷ DescribeClusterBroker_with_port (port advertised_kafka)
          ▷ DescribeClusterBroker_with_rack None
          ▷ DescribeClusterBroker_with_is_fenced false]
    ▷ DescribeClusterResponse_with_cluster_authorized_operations
        (Admin.optional_authorized_operations
          (DescribeClusterRequest_include_cluster_authorized_operations request)
          Admin.CLUSTER_AUTHORIZED_OPERATIONS).

(* @ src/src/kafka/describe_cluster.rs 14-32 response *)
Definition describe_cluster (request : DescribeClusterRequest) (advertised_kafka : AdvertisedAddress) :
    prog DescribeClusterResponse :=
  let endpoint_type := DescribeClusterRequest_endpoint_type request in
  if decide (endpoint_type = 1) then
    do id <- read broker_id;
    Ret (broker_response request id advertised_kafka)
  else if decide (endpoint_type = 2) then
    Ret (describe_cluster_error Errors.MismatchedEndpointType
      (of_str "The request was sent to an endpoint of type BROKER, but we wanted an endpoint of type CONTROLLER"))
  else
    Ret (describe_cluster_error Errors.UnsupportedEndpointType
      (of_str ("Unsupported endpoint type " +:+ pretty endpoint_type))).

(** ** DescribeConfigs *)

(* @ src/src/kafka/describe_configs.rs 31-45 response *)
Definition describe_resource (topic_names : list string) (broker_name : string)
    (resource : DescribeConfigsResource) : DescribeConfigsResult :=
  let name := to_str (DescribeConfigsResource_resource_name resource) in
  let error :=
    if decide (DescribeConfigsResource_resource_type resource = 2) then
      if decide (name ∈ topic_names) then None else Some Errors.UnknownTopicOrPartition
    else if decide (DescribeConfigsResource_resource_type resource = 4) then
      if decide (name = broker_name) then None else Some Errors.BrokerNotAvailable
    else Some Errors.InvalidRequest in
  DescribeConfigsResult_default
    ▷ DescribeConfigsResult_with_error_code (from_option Errors.code 0 error)
    ▷ DescribeConfigsResult_with_error_message None
    ▷ DescribeConfigsResult_with_resource_type (DescribeConfigsResource_resource_type resource)
    ▷ DescribeConfigsResult_with_resource_name (DescribeConfigsResource_resource_name resource)
    ▷ DescribeConfigsResult_with_configs [].

(* @ src/src/kafka/describe_configs.rs 13-48 response *)
Definition describe_configs (request : DescribeConfigsRequest) : prog DescribeConfigsResponse :=
  do topic_names <- read (λ s, Topics.tm_name <$> Topics.list_topics (topics s));
  do broker_name <- read (λ s, pretty (broker_id s));
  Ret (DescribeConfigsResponse_default
    ▷ DescribeConfigsResponse_with_throttle_time_ms 0
    ▷ DescribeConfigsResponse_with_results
        (map (describe_resource topic_names broker_name) (DescribeConfigsRequest_resources request))).

End GroupHandlers.
