(* ===== verification/GroupHandlersCorrect.v ===== *)
(** * The group handlers keep the broker's invariant

    Every handler of [GroupHandlers] runs without a panic and keeps the
    invariant, whatever other handlers do between its critical sections. *)

From S2P Require Import Prelude Types Errors MessageCodec MessagesData MessagesGroups MessagesBuild.
From S2P Require Import Records Groups GroupsCorrect GroupsSystem GroupsProperties Topics Broker GroupHandlers.
Open Scope Z_scope.

Module GroupHandlersCorrect.
Import Broker GroupHandlers.

Section correct.
  Context `{Records.Crc32c}.
  Context (time : nat → Groups.clock).

(** ** Steps on the coordinator *)

Lemma with_groups_wf s c : broker_wf s → groups_wf c → broker_wf (with_groups s c).
Proof. by intros (? & ? & _ & ?) ?. Qed.

Lemma with_groups_extends s c : groups_kept (groups s) c → broker_extends s (with_groups s c).
Proof. intros Hc. by split_and!. Qed.

Lemma with_group_wf c gid g : groups_wf c → GroupsCorrect.group_wf g → groups_wf (Groups.with_group c gid g).
Proof. intros Hc Hg. by apply map_Forall_insert_2. Qed.

Lemma with_group_kept c gid g : groups_kept c (Groups.with_group c gid g).
Proof. intros gid' Hg. cbn. apply lookup_insert_is_Some'. auto. Qed.

(** A section that returns, keeps the groups well formed and removes none. *)
Definition section_ok {A : Type} (f : Groups.Coordinator → option (A * Groups.Coordinator)) (P : A → Prop) : Prop :=
  ∀ c, groups_wf c → ∃ a c', f c = Some (a, c') ∧ groups_wf c' ∧ groups_kept c c' ∧ P a.

Lemma wp_on_groups {A : Type} (f : Groups.Coordinator → option (A * Groups.Coordinator)) (P : A → Prop) Q s :
  section_ok f P → (∀ a s', P a → broker_extends s s' → Q a s') → wp (on_groups f) Q s.
Proof.
  intros Hf HQ. apply wp_atomically. intros s1 Hwf Hext.
  destruct (Hf (groups s1)) as (a & c' & -> & Hwf' & Hk & HP); [apply Hwf|].
  exists a, (with_groups s1 c'). split_and!; [done|by apply with_groups_wf|by apply with_groups_extends|].
  apply HQ; [done|]. etrans; [done|]. by apply with_groups_extends.
Qed.

Lemma on_group_section {A : Type} gid (op : Groups.Group → result Groups.GroupError A * Groups.Group) :
  (∀ g, GroupsCorrect.group_wf g → GroupsCorrect.group_wf (op g).2) →
  section_ok (λ c, Some (Groups.on_group c gid op)) (λ _, True).
Proof.
  intros Hop c Hc. unfold Groups.on_group. destruct (Groups.groups c !! gid) as [g|] eqn:Hg.
  - specialize (Hop g (Hc _ _ Hg)). destruct (op g) as [r g'] eqn:Ho. cbn in Hop.
    eexists _, _. split_and!; [done|by apply with_group_wf|apply with_group_kept|done].
  - by eexists _, _.
Qed.

Lemma heartbeat_section i gid generation id :
  section_ok (λ c, Some (Groups.heartbeat (time i) c gid generation id)) (λ _, True).
Proof. apply on_group_section. intros g. apply GroupsCorrect.group_heartbeat_wf. Qed.

Lemma leave_section i gid id : section_ok (λ c, Some (Groups.leave (time i) c gid id)) (λ _, True).
Proof. apply on_group_section. intros g. apply GroupsCorrect.group_leave_wf. Qed.

Lemma commit_section i gid generation id offsets :
  section_ok (λ c, Some (Groups.commit_offsets (time i) c gid generation id offsets)) (λ _, True).
Proof. apply on_group_section. intros g. apply GroupsCorrect.group_commit_wf. Qed.

Lemma describe_section i gid : section_ok (λ c, Some (Groups.describe (time i) c gid)) (λ _, True).
Proof.
  intros c Hc. unfold Groups.describe. destruct (Groups.groups c !! gid) as [g|] eqn:Hg; [|by eexists _, _].
  pose proof (GroupsCorrect.group_describe_wf (time i) g gid (Hc _ _ Hg)) as Hd.
  destruct (Groups.group_describe (time i) g gid) as [d g']. cbn in Hd.
  eexists _, _. split_and!; [done|by apply with_group_wf|apply with_group_kept|done].
Qed.

Lemma start_section request known :
  section_ok (λ c, Some (Groups.join_start c request known)) (λ r,
    match r with Groups.StartProceed request' _ => GroupsCorrect.request_ok request' | _ => True end).
Proof.
  intros c Hc. destruct (Groups.join_start c request known) as [r c'] eqn:Hs.
  destruct (GroupsSystem.join_start_frame _ _ _ _ _ Hs) as [Hg Hr].
  exists r, c'. unfold groups_wf, groups_kept. rewrite Hg. by split_and!.
Qed.

Lemma locked_section i request may_add :
  GroupsCorrect.request_ok request →
  section_ok (λ c, Groups.join_locked (time i) c request may_add) (λ _, True).
Proof.
  intros Hreq c Hc. unfold Groups.join_locked, Groups.group_or_insert.
  assert (∀ g c1, groups_wf c1 → groups_kept c c1 → GroupsCorrect.group_wf g →
    ∃ a c', (let! r := Groups.join_enter (time i) g request may_add in
      Some (r.1, Groups.with_group c1 (Groups.jr_group_id request) r.2)) = Some (a, c') ∧
      groups_wf c' ∧ groups_kept c c' ∧ True) as Henter.
  { intros g c1 Hc1 Hk Hg. destruct (GroupsCorrect.join_enter_wf (time i) g request may_add Hg Hreq)
      as (r & g' & -> & Hg'). eexists _, _. cbn.
    split_and!; [done|by apply with_group_wf|etrans; [done|apply with_group_kept]|done]. }
  destruct (Groups.groups c !! Groups.jr_group_id request) as [g|] eqn:Hg.
  - apply Henter; [done|done|exact (Hc _ _ Hg)].
  - apply Henter; [|apply with_group_kept|apply GroupsCorrect.Group_new_wf].
    apply with_group_wf; [done|apply GroupsCorrect.Group_new_wf].
Qed.

Lemma forget_section gid id :
  section_ok (λ c, Some ((), Groups.join_forget_pending c gid id)) (λ _, True).
Proof. intros c Hc. eexists _, _. split_and!; [done|done|by intros gid'|done]. Qed.

(** ** Steps on a group that was looked up before *)

Definition group_exists (gid : string) (s : BrokerState) : Prop := is_Some (Groups.groups (groups s) !! gid).

Lemma group_exists_extends gid s s' : broker_extends s s' → group_exists gid s → group_exists gid s'.
Proof. intros (_ & _ & _ & _ & _ & _ & Hk). apply Hk. Qed.

Lemma wp_on_entry {A : Type} gid (f : Groups.Group → option (A * Groups.Group)) Q s :
  group_exists gid s →
  (∀ g, GroupsCorrect.group_wf g → ∃ a g', f g = Some (a, g') ∧ GroupsCorrect.group_wf g') →
  (∀ a s', broker_extends s s' → group_exists gid s' → Q a s') → wp (on_entry gid f) Q s.
Proof.
  intros Hex Hf HQ. apply wp_atomically. intros s1 Hwf Hext.
  destruct (group_exists_extends _ _ _ Hext Hex) as [g Hg]. rewrite Hg. cbn [panic_bind].
  destruct (Hf g) as (a & g' & -> & Hg'); [by eapply Hwf|]. cbn.
  pose proof (with_group_kept (groups s1) gid g') as Hk.
  assert (broker_extends s1 (with_groups s1 (Groups.with_group (groups s1) gid g'))) by by apply with_groups_extends.
  eexists _, _. split_and!; [done| |done|].
  - apply with_groups_wf; [done|]. apply with_group_wf; [apply Hwf|done].
  - apply HQ; [by etrans|]. unfold group_exists. cbn. rewrite lookup_insert_eq. by eexists.
Qed.

Lemma wp_join_wait polls i gid id target (Q : option (result Groups.GroupError Groups.JoinResult) → BrokerState → Prop) s :
  group_exists gid s → (∀ r s', broker_extends s s' → Q r s') → wp (join_wait time polls i gid id target) Q s.
Proof.
  revert i s. induction polls as [|polls IH]; intros i s Hex HQ; cbn [join_wait]; [by apply HQ|].
  apply wp_bind, wp_on_entry; [done| |].
  - intros g Hg. destruct (Groups.join_poll (time i) g id target) as [p g'] eqn:Hp.
    eexists _, _. split; [done|]. pose proof (GroupsCorrect.join_poll_wf (time i) g id target Hg) as Hg'.
    by rewrite Hp in Hg'.
  - intros [[j|e]|n d] s' Hext Hex'; cbn; [by apply HQ..|].
    apply IH; [done|]. intros r s'' Hext'. apply HQ. by etrans.
Qed.

Lemma join_locked_exists i c request may_add r c' :
  Groups.join_locked (time i) c request may_add = Some (r, c') →
  is_Some (Groups.groups c' !! Groups.jr_group_id request).
Proof.
  unfold Groups.join_locked. destruct (Groups.group_or_insert _ _) as [g c1].
  destruct (Groups.join_enter _ _ _ _); [|done]. cbn. intros [= <- <-]. cbn.
  rewrite lookup_insert_eq. by eexists.
Qed.

Lemma wp_join polls request known (Q : option (result Groups.GroupError Groups.JoinResult) → BrokerState → Prop) s :
  (∀ r s', broker_extends s s' → Q r s') → wp (join time polls request known) Q s.
Proof.
  intros HQ. apply wp_bind. eapply wp_on_groups; [apply start_section|].
  intros [r|request' may_add] s1 Hreq Hext1; cbv beta iota; [by apply HQ|].
  apply wp_bind, wp_atomically. intros s2 Hwf2 Hext2.
  destruct (locked_section 0 request' may_add Hreq (groups s2)) as (r & c' & Hl & Hwf' & Hk & _); [apply Hwf2|].
  pose proof (join_locked_exists _ _ _ _ _ _ Hl) as Hex. rewrite Hl. cbn [panic_bind fst snd].
  pose proof (with_groups_extends s2 c' Hk) as Hext3.
  eexists _, _. split_and!; [done|by apply with_groups_wf|done|].
  destruct r as [r|target]; cbv beta iota; [apply HQ; by do 2 (etrans; [done|])|].
  apply wp_bind. eapply wp_on_groups; [apply forget_section|]. intros _ s4 _ Hext4.
  apply wp_join_wait; [by eapply group_exists_extends|].
  intros r s5 Hext5. apply HQ. by do 4 (etrans; [done|]).
Qed.

Lemma wp_sync_wait polls i gid generation id given refresh
    (Q : option (result Groups.GroupError (list byte)) → BrokerState → Prop) s :
  group_exists gid s → (∀ r s', broker_extends s s' → Q r s') →
  wp (sync_wait time polls i gid generation id given refresh) Q s.
Proof.
  revert i refresh s. induction polls as [|polls IH]; intros i refresh s Hex HQ; cbn [sync_wait]; [by apply HQ|].
  apply wp_bind, wp_on_entry; [done|intros g Hg; by apply GroupsCorrect.sync_poll_wf|].
  intros [r|n d] s' Hext Hex'; cbn; [by apply HQ|].
  apply IH; [done|]. intros r s'' Hext'. apply HQ. by etrans.
Qed.

(** ** The handlers *)

(** A program that returns, whatever it returns. *)
Definition returns {A : Type} (p : prog A) : Prop := ∀ s, wp p (λ _ _, True) s.

Lemma returns_bind {A B : Type} (p : prog A) (k : A → prog B) :
  returns p → (∀ a, returns (k a)) → returns (bind p k).
Proof. intros Hp Hk s. apply wp_bind. eapply wp_mono; [|apply Hp]. intros a s' _ _. apply Hk. Qed.

Lemma returns_ret {A : Type} (a : A) : returns (Ret a).
Proof. done. Qed.

Lemma returns_read {A : Type} (f : BrokerState → A) : returns (read f).
Proof. intros s. by apply wp_read. Qed.

Lemma returns_on_groups {A : Type} (f : Groups.Coordinator → option (A * Groups.Coordinator)) P :
  section_ok f P → returns (on_groups f).
Proof. intros Hf s. by eapply wp_on_groups. Qed.

Hint Resolve returns_ret returns_read heartbeat_section leave_section commit_section describe_section : core.

Lemma join_group_returns polls request version client_id :
  returns (join_group time polls request version client_id).
Proof.
  unfold join_group. case_decide; [done|]. apply returns_bind; [|done]. intros s. by apply wp_join.
Qed.

Lemma sync_group_returns polls request : returns (sync_group time polls request).
Proof.
  unfold sync_group. case_decide; [done|]. apply returns_bind; [|done]. unfold sync. intros s.
  apply wp_bind, wp_read. intros s1 _ Hext. case_bool_decide as Hex; [|done].
  by apply wp_sync_wait.
Qed.

Lemma heartbeat_returns request : returns (heartbeat time request).
Proof.
  apply returns_bind; [|done]. case_decide; [done|].
  apply returns_bind; [by eapply returns_on_groups|done].
Qed.

Lemma leave_members_returns i gid members : returns (leave_members time i gid members).
Proof.
  revert i. induction members as [|m members IH]; intros i; [done|].
  apply returns_bind; [|intros; apply returns_bind; [apply IH|done]].
  case_decide; [done|]. apply returns_bind; [by eapply returns_on_groups|done].
Qed.

Lemma leave_group_returns request version : returns (leave_group time request version).
Proof.
  unfold leave_group. destruct (version <=? 2); (apply returns_bind; [|done]).
  - by eapply returns_on_groups.
  - apply leave_members_returns.
Qed.

Lemma offset_commit_returns request : returns (offset_commit time request).
Proof.
  apply returns_bind; [|done]. case_decide; [done|].
  apply returns_bind; [by eapply returns_on_groups|done].
Qed.

Lemma offset_fetch_returns request : returns (offset_fetch request).
Proof. by apply returns_bind. Qed.

Lemma list_groups_returns : returns list_groups.
Proof. by apply returns_bind. Qed.

Lemma describe_each_returns i ids : returns (describe_each time i ids).
Proof.
  revert i. induction ids as [|id ids IH]; intros i; [done|].
  apply returns_bind; [by eapply returns_on_groups|intros; by apply returns_bind].
Qed.

Lemma describe_groups_returns request : returns (describe_groups time request).
Proof. apply returns_bind; [apply describe_each_returns|done]. Qed.

Lemma find_coordinator_returns request address : returns (find_coordinator request address).
Proof. unfold find_coordinator. case_decide; [done|]. case_decide; [done|]. by apply returns_bind. Qed.

Lemma describe_cluster_returns request address : returns (describe_cluster request address).
Proof. unfold describe_cluster. case_decide; [by apply returns_bind|]. by case_decide. Qed.

Lemma describe_configs_returns request : returns (describe_configs request).
Proof. apply returns_bind; [done|]. intros. by apply returns_bind. Qed.

End correct.

(** ** Committed offsets *)

(** The offsets of a response, topic by topic. *)
Definition listed_offsets (topics : list OffsetFetchResponseTopic) :
    list (list byte * OffsetFetchResponsePartition) :=
  concat (map (λ t, map (λ p, (OffsetFetchResponseTopic_name t, p)) (OffsetFetchResponseTopic_partitions t)) topics).

Definition listed_offset (o : Groups.FetchedOffset) : list byte * OffsetFetchResponsePartition :=
  (of_str (Groups.fo_topic o), fetched_partition o).

Definition entry_offsets (e : string * list OffsetFetchResponsePartition) :
    list (list byte * OffsetFetchResponsePartition) := map (pair (of_str e.1)) e.2.

Lemma concat_perm {A : Type} (l k : list (list A)) : l ≡ₚ k → concat l ≡ₚ concat k.
Proof. induction 1; cbn; [done|by f_equiv|by rewrite !app_assoc, (Permutation_app_comm y)|by etrans]. Qed.

Lemma push_offset_perm m o :
  concat (entry_offsets <$> map_to_list (push_offset m o)) ≡ₚ
  concat (entry_offsets <$> map_to_list m) ++ [listed_offset o].
Proof.
  unfold push_offset. destruct (m !! Groups.fo_topic o) as [l|] eqn:Hl; cbn [default].
  - rewrite <- (insert_delete_eq m), <- (insert_delete_id m _ _ Hl) at 1.
    rewrite insert_delete_eq, insert_insert_eq.
    assert (delete (Groups.fo_topic o) m !! Groups.fo_topic o = None) as Hn by apply lookup_delete_eq.
    rewrite <- (insert_delete_id m _ _ Hl) at 2.
    rewrite (concat_perm _ _ (fmap_Permutation entry_offsets _ _ (map_to_list_insert _ _ _ Hn))).
    rewrite (concat_perm (entry_offsets <$> map_to_list (<[_:=l]> _)) _
      (fmap_Permutation entry_offsets _ _ (map_to_list_insert _ _ _ Hn))).
    cbn. unfold entry_offsets at 1. cbn. rewrite map_app. cbn.
    rewrite <- !app_assoc. f_equiv. apply Permutation_app_comm.
  - rewrite (concat_perm _ _ (fmap_Permutation entry_offsets _ _ (map_to_list_insert _ _ _ Hl))).
    apply Permutation_cons_append.
Qed.

(** Grouping by topic neither loses, invents nor duplicates an offset. *)
Lemma group_by_topic_perm offsets :
  listed_offsets (group_by_topic offsets) ≡ₚ listed_offset <$> offsets.
Proof.
  assert (∀ m, concat (entry_offsets <$> map_to_list (fold_left push_offset offsets m)) ≡ₚ
    concat (entry_offsets <$> map_to_list m) ++ (listed_offset <$> offsets)) as Hfold.
  { induction offsets as [|o offsets IH]; intros m; cbn; [by rewrite app_nil_r|].
    rewrite IH, push_offset_perm, <- app_assoc. done. }
  unfold listed_offsets, group_by_topic. rewrite map_map.
  specialize (Hfold ∅). rewrite map_to_list_empty in Hfold. cbn in Hfold.
  etrans; [|exact Hfold]. apply concat_perm.
  rewrite <- (merge_sort_Permutation topic_entry_le (map_to_list (fold_left push_offset offsets ∅))) at 2.
  apply reflexive_eq, list_fmap_ext. by intros _ [name ps] _.
Qed.

Lemma group_by_topic_single o :
  listed_offsets (group_by_topic [o]) = [listed_offset o].
Proof. apply Permutation_singleton_r, (group_by_topic_perm [o]). Qed.

(** What a client asks and is told about one partition. *)
Definition fetch_one (group topic : list byte) (partition : Z) : OffsetFetchRequest :=
  mkOffsetFetchRequest group (Some [mkOffsetFetchRequestTopic topic [partition] ∅]) [] false ∅.

Definition offsets_told (s : BrokerState) (request : OffsetFetchRequest) :
    list (list byte * OffsetFetchResponsePartition) :=
  match run (offset_fetch request) s with
  | Some (response, _) => listed_offsets (OffsetFetchResponse_topics response)
  | None => []
  end.

Lemma offsets_told_eq s request :
  offsets_told s request = listed_offsets (group_by_topic (Groups.fetch_offsets (groups s)
    (to_str (OffsetFetchRequest_group_id request)) (requested_offsets request))).
Proof. reflexivity. Qed.

(** The error codes of a commit answer. *)
Definition commit_codes (response : OffsetCommitResponse) : list Z :=
  concat (map (λ t, map OffsetCommitResponsePartition_error_code (OffsetCommitResponseTopic_partitions t))
    (OffsetCommitResponse_topics response)).

Lemma error_code_zero {A : Type} (r : result Groups.GroupError A) : error_code r = 0 ↔ ∃ a, r = Ok a.
Proof. destruct r as [a|e]; [by split; [eauto|]|]. split; [by destruct e|by intros [? [=]]]. Qed.

Lemma commit_frame clk c gid generation id offsets r c' gid' :
  Groups.commit_offsets clk c gid generation id offsets = (r, c') → gid' ≠ gid →
  Groups.groups c' !! gid' = Groups.groups c !! gid'.
Proof.
  unfold Groups.commit_offsets, Groups.on_group. intros Hc Hne.
  destruct (Groups.groups c !! gid) as [g|]; [|by injection Hc as _ <-].
  destruct (Groups.group_commit_offsets _ _ _ _ _) as [r' g']. injection Hc as _ <-.
  cbn. by rewrite lookup_insert_ne.
Qed.

(** C18: committed offsets come back.  When an [OffsetCommit] request is handled,
    all its partitions get one error code.  If that is 0, then afterwards an
    [OffsetFetch] of a partition in that group is told the offset and metadata
    of the last entry of the request for it, or what it was told before where
    the request has none; otherwise, and in any other group, every [OffsetFetch]
    is told what it was told before. *)
Theorem offsets_roundtrip (time : nat → Groups.clock) (request : OffsetCommitRequest)
    (response : OffsetCommitResponse) (s s' : BrokerState) :
  run (offset_commit time request) s = Some (response, s') →
  ∃ code, Forall (λ c, c = code) (commit_codes response) ∧
    (∀ fetch, code ≠ 0 ∨ OffsetFetchRequest_group_id fetch ≠ OffsetCommitRequest_group_id request →
      offsets_told s' fetch = offsets_told s fetch) ∧
    (code = 0 → ∀ topic partition,
      let fetch := fetch_one (OffsetCommitRequest_group_id request) topic partition in
      let last := GroupsProperties.last_commit (commits request)
        (Groups.mkTopicPartition (to_str topic) partition) in
      offsets_told s' fetch =
        match last with
        | Some o => [(topic, mkOffsetFetchResponsePartition partition (Groups.oc_offset o) (-1)
            (of_str <$> Groups.oc_metadata o) 0 ∅)]
        | None => offsets_told s fetch
        end).
Proof.
  unfold offset_commit. case_decide as Hinst.
  { intros [= <- <-]. exists (Errors.code Errors.UnsupportedVersion). split_and!; [|done|done].
    apply Forall_concat, Forall_fmap, Forall_fmap, Forall_true. intros t. cbn.
    apply Forall_fmap, Forall_fmap, Forall_true. done. }
  intros Hrun. cbn in Hrun. destruct (Groups.commit_offsets _ _ _ _ _ _) as [r c'] eqn:Hc.
  cbn in Hrun. injection Hrun as <- <-.
  pose proof (GroupsProperties.commit_fetch_offsets _ _ _ _ _ _ _ _ Hc) as Hfetch.
  exists (error_code r). split_and!.
  - apply Forall_concat, Forall_fmap, Forall_fmap, Forall_true. intros t. cbn.
    apply Forall_fmap, Forall_fmap, Forall_true. done.
  - intros fetch Hor. rewrite !offsets_told_eq. cbn [groups with_groups]. do 2 f_equal.
    destruct (decide (OffsetFetchRequest_group_id fetch = OffsetCommitRequest_group_id request)) as [Heq|Hne].
    + destruct Hor as [Hcode|?]; [|done]. rewrite Heq. destruct r as [[]|e]; [done|]. apply Hfetch.
    + unfold Groups.fetch_offsets. erewrite commit_frame; [done|exact Hc|]. by intros ?%(inj to_str).
  - intros [[] ->]%error_code_zero topic partition.
    rewrite !offsets_told_eq. cbn [OffsetFetchRequest_group_id fetch_one groups with_groups].
    change (requested_offsets (fetch_one _ topic partition))
      with (Some [Groups.mkTopicPartition (to_str topic) partition]).
    destruct Hfetch as [_ Hfetch]. rewrite Hfetch.
    destruct (GroupsProperties.last_commit _ _) as [o|]; [|done].
    rewrite group_by_topic_single. unfold listed_offset. cbn [Groups.fo_topic Groups.tp_topic].
    by rewrite of_to_str.
Qed.

(** The stable group of [GroupsProperties], whose only member commits offset 42. *)
Definition sample_state : BrokerState :=
  with_groups (BrokerState_new 1 true false 1) GroupsProperties.stable_coordinator.
Definition sample_commit_request : OffsetCommitRequest :=
  mkOffsetCommitRequest (of_str "g") 1 (of_str "a-1") None (-1)
    [mkOffsetCommitRequestTopic (of_str "t") 0
      [mkOffsetCommitRequestPartition 0 42 (-1) (Some (of_str "x")) ∅] ∅] ∅.

Lemma offsets_roundtrip_witness :
  offsets_told (from_option snd sample_state
      (run (offset_commit (λ _, GroupsProperties.at_time 7) sample_commit_request) sample_state))
    (fetch_one (of_str "g") (of_str "t") 0)
  = [(of_str "t", mkOffsetFetchResponsePartition 0 42 (-1) (Some (of_str "x")) 0 ∅)].
Proof.
  destruct (run (offset_commit (λ _, GroupsProperties.at_time 7) sample_commit_request) sample_state)
    as [[response s']|] eqn:Hrun; [|vm_compute in Hrun; discriminate].
  destruct (offsets_roundtrip _ _ _ _ _ Hrun) as (code & Hcodes & _ & Hok).
  apply (Hok ltac:(vm_compute in Hrun; injection Hrun as <- _; cbn in Hcodes;
    by apply Forall_inv in Hcodes) (of_str "t") 0).
Defined.

End GroupHandlersCorrect.
