(* ===== verification/Dispatcher.v ===== *)
(** * The dispatcher

    [src/src/kafka/dispatcher.rs]: a supported request runs the handler of its
    API on the broker state.  The handlers of [Handlers] and [Admin] work on the
    fields they use; here they get those fields from the whole request and their
    answer is put into the whole response, whose other fields have their default
    values.

    - [deadline_passed i] and [timed_out i] are what the clock says in the
      [i]-th round of a waiting fetch; [time i] is the clock of the [i]-th
      critical section of a group call.
    - [polls] bounds the rounds of a call that waits: the answer [None] says that
      it is still waiting then. *)

From S2P Require Import Prelude Config Types Errors MessageCodec MessagesData MessagesGroups MessagesTxn MessagesBuild.
From S2P Require Import ApiKeys RequestCodec Capabilities Router.
From S2P Require Import Records Topics Groups Broker Handlers Admin GroupHandlers.
Open Scope Z_scope.

Module Dispatcher.
Import ApiKeys RequestCodec Router Broker GroupHandlers.

(* @ src/src/kafka/dispatcher.rs 196-199 DispatchError *)
Inductive DispatchError : Type := BodyMismatch (api_key : ApiKey).

(* @ src/src/kafka/dispatcher.rs 14-35 DISPATCHED_API_KEYS *)
Definition DISPATCHED_API_KEYS : list ApiKey := [
  ApiKey_Produce; ApiKey_Fetch; ApiKey_ListOffsets; ApiKey_Metadata; ApiKey_OffsetCommit;
  ApiKey_OffsetFetch; ApiKey_FindCoordinator; ApiKey_JoinGroup; ApiKey_Heartbeat; ApiKey_LeaveGroup;
  ApiKey_SyncGroup; ApiKey_DescribeGroups; ApiKey_ListGroups; ApiKey_ApiVersions; ApiKey_CreateTopics;
  ApiKey_InitProducerId; ApiKey_DescribeConfigs; ApiKey_DescribeCluster; ApiKey_DescribeTopicPartitions].

(** ** Produce *)

Definition produce_fields (request : ProduceRequest) : Handlers.ProduceRequest := {|
  Handlers.pr_transactional_id := to_str <$> ProduceRequest_transactional_id request;
  Handlers.pr_acks := ProduceRequest_acks request;
  Handlers.pr_topic_data := map (λ topic, {|
      Handlers.tpd_name := to_str (TopicProduceData_name topic);
      Handlers.tpd_partition_data := map (λ partition, {|
          Handlers.ppd_index := PartitionProduceData_index partition;
          Handlers.ppd_records := PartitionProduceData_records partition |})
        (TopicProduceData_partition_data topic) |})
    (ProduceRequest_topic_data request)
|}.

(* @ src/src/kafka/produce.rs 119-147 produce_partition, error_partition *)
Definition produced_partition (p : Handlers.PartitionProduceResponse) : PartitionProduceResponse :=
  PartitionProduceResponse_default
    ▷ PartitionProduceResponse_with_index (Handlers.ppr_index p)
    ▷ PartitionProduceResponse_with_error_code (Handlers.ppr_error_code p)
    ▷ PartitionProduceResponse_with_base_offset (Handlers.ppr_base_offset p)
    ▷ PartitionProduceResponse_with_log_append_time_ms (Handlers.ppr_log_append_time_ms p)
    ▷ PartitionProduceResponse_with_log_start_offset (Handlers.ppr_log_start_offset p).

(* @ src/src/kafka/produce.rs 31-69 response, produce_topic *)
Definition produce_answer (r : Handlers.ProduceResponse) : ProduceResponse :=
  ProduceResponse_default
    ▷ ProduceResponse_with_responses (map (λ topic,
        TopicProduceResponse_default
          ▷ TopicProduceResponse_with_name (of_str (Handlers.tpr_name topic))
          ▷ TopicProduceResponse_with_partition_responses
              (map produced_partition (Handlers.tpr_partition_responses topic)))
        (Handlers.prs_responses r))
    ▷ ProduceResponse_with_throttle_time_ms (Handlers.prs_throttle_time_ms r).

(** ** Fetch *)

Definition fetch_fields (request : FetchRequest) : Handlers.FetchRequest := {|
  Handlers.fr_max_wait_ms := FetchRequest_max_wait_ms request;
  Handlers.fr_min_bytes := FetchRequest_min_bytes request;
  Handlers.fr_max_bytes := FetchRequest_max_bytes request;
  Handlers.fr_topics := map (λ topic, {|
      Handlers.ft_topic := to_str (FetchRequest_FetchTopic_topic topic);
      Handlers.ft_partitions := map (λ partition, {|
          Handlers.fp_partition := FetchRequest_FetchPartition_partition partition;
          Handlers.fp_fetch_offset := FetchRequest_FetchPartition_fetch_offset partition;
          Handlers.fp_partition_max_bytes := FetchRequest_FetchPartition_partition_max_bytes partition |})
        (FetchRequest_FetchTopic_partitions topic) |})
    (FetchRequest_topics request)
|}.

(* @ src/src/kafka/fetch.rs 119-140 partition_response, error_partition *)
Definition fetched_data (p : Handlers.PartitionData) : FetchResponse_PartitionData :=
  FetchResponse_PartitionData_default
    ▷ FetchResponse_PartitionData_with_partition_index (Handlers.pd_partition_index p)
    ▷ FetchResponse_PartitionData_with_error_code (Handlers.pd_error_code p)
    ▷ FetchResponse_PartitionData_with_high_watermark (Handlers.pd_high_watermark p)
    ▷ FetchResponse_PartitionData_with_last_stable_offset (Handlers.pd_last_stable_offset p)
    ▷ FetchResponse_PartitionData_with_aborted_transactions (Some [])
    ▷ FetchResponse_PartitionData_with_records (Handlers.pd_records p).

(* @ src/src/kafka/fetch.rs 93-106 snapshot *)
Definition fetch_answer (r : Handlers.FetchResponse) : FetchResponse :=
  FetchResponse_default
    ▷ FetchResponse_with_throttle_time_ms (Handlers.frs_throttle_time_ms r)
    ▷ FetchResponse_with_responses (map (λ topic,
        FetchableTopicResponse_default
          ▷ FetchableTopicResponse_with_topic (of_str (Handlers.ftr_topic topic))
          ▷ FetchableTopicResponse_with_partitions (map fetched_data (Handlers.ftr_partitions topic)))
        (Handlers.frs_responses r)).

(** ** ListOffsets *)

Definition list_offsets_fields (request : ListOffsetsRequest) : list Handlers.ListOffsetsTopic :=
  map (λ topic, {|
      Handlers.lot_name := to_str (ListOffsetsTopic_name topic);
      Handlers.lot_partitions := map (λ partition, {|
          Handlers.lop_partition_index := ListOffsetsPartition_partition_index partition;
          Handlers.lop_timestamp := ListOffsetsPartition_timestamp partition |})
        (ListOffsetsTopic_partitions topic) |})
    (ListOffsetsRequest_topics request).

(* @ src/src/kafka/list_offsets.rs 22-32 response *)
Definition list_offsets_answer (r : list Handlers.ListOffsetsTopicResponse) : ListOffsetsResponse :=
  ListOffsetsResponse_default
    ▷ ListOffsetsResponse_with_throttle_time_ms 0
    ▷ ListOffsetsResponse_with_topics (map (λ topic,
        ListOffsetsTopicResponse_default
          ▷ ListOffsetsTopicResponse_with_name (of_str (Handlers.lotr_name topic))
          ▷ ListOffsetsTopicResponse_with_partitions (map (λ p,
              ListOffsetsPartitionResponse_default
                ▷ ListOffsetsPartitionResponse_with_partition_index (Handlers.lor_partition_index p)
                ▷ ListOffsetsPartitionResponse_with_error_code (Handlers.lor_error_code p)
                ▷ ListOffsetsPartitionResponse_with_timestamp (Handlers.lor_timestamp p)
                ▷ ListOffsetsPartitionResponse_with_offset (Handlers.lor_offset p)
                ▷ ListOffsetsPartitionResponse_with_leader_epoch (Handlers.lor_leader_epoch p))
              (Handlers.lotr_partitions topic))) r).

(** ** InitProducerId *)

(* @ src/src/kafka/init_producer_id.rs 17-32 response, error_response *)
Definition init_producer_id_answer (r : Handlers.InitProducerIdResponse) : InitProducerIdResponse :=
  InitProducerIdResponse_default
    ▷ InitProducerIdResponse_with_throttle_time_ms (Handlers.ipr_throttle_time_ms r)
    ▷ InitProducerIdResponse_with_error_code (Handlers.ipr_error_code r)
    ▷ InitProducerIdResponse_with_producer_id (Handlers.ipr_producer_id r)
    ▷ InitProducerIdResponse_with_producer_epoch (Handlers.ipr_producer_epoch r).

(** ** CreateTopics *)

Definition create_topics_fields (request : CreateTopicsRequest) : list Admin.CreatableTopic :=
  map (λ topic, {|
      Admin.ct_name := to_str (CreatableTopic_name topic);
      Admin.ct_num_partitions := CreatableTopic_num_partitions topic;
      Admin.ct_replication_factor := CreatableTopic_replication_factor topic;
      Admin.ct_assignments := map (λ a, (CreatableReplicaAssignment_partition_index a,
        CreatableReplicaAssignment_broker_ids a)) (CreatableTopic_assignments topic);
      Admin.ct_configs := map (λ c, (to_str (CreatableTopicConfig_name c),
        to_str <$> CreatableTopicConfig_value c)) (CreatableTopic_configs topic) |})
    (CreateTopicsRequest_topics request).

(* @ src/src/kafka/create_topics.rs 23-24 response *)
Definition create_topics_answer (r : list Admin.CreatableTopicResult) : CreateTopicsResponse :=
  CreateTopicsResponse_default
    ▷ CreateTopicsResponse_with_topics (map (λ t,
        CreatableTopicResult_default
          ▷ CreatableTopicResult_with_name (of_str (Admin.ctr_name t))
          ▷ CreatableTopicResult_with_topic_id (Admin.ctr_topic_id t)
          ▷ CreatableTopicResult_with_error_code (Admin.ctr_error_code t)
          ▷ CreatableTopicResult_with_error_message (of_str <$> Admin.ctr_error_message t)
          ▷ CreatableTopicResult_with_num_partitions (Admin.ctr_num_partitions t)
          ▷ CreatableTopicResult_with_replication_factor (Admin.ctr_replication_factor t)
          ▷ CreatableTopicResult_with_configs (Some [])) r).

(** ** Metadata *)

Definition metadata_fields (request : MetadataRequest) : Admin.MetadataRequest := {|
  Admin.mr_topics := map (λ topic, {|
      Admin.mrt_topic_id := MetadataRequestTopic_topic_id topic;
      Admin.mrt_name := to_str <$> MetadataRequestTopic_name topic |}) <$> MetadataRequest_topics request;
  Admin.mr_allow_auto_topic_creation := MetadataRequest_allow_auto_topic_creation request;
  Admin.mr_include_cluster_authorized_operations := MetadataRequest_include_cluster_authorized_operations request;
  Admin.mr_include_topic_authorized_operations := MetadataRequest_include_topic_authorized_operations request
|}.

(* @ src/src/kafka/metadata.rs 214-246 success_topic, error_topic *)
Definition metadata_topic (t : Admin.MetadataResponseTopic) : MetadataResponseTopic :=
  MetadataResponseTopic_default
    ▷ MetadataResponseTopic_with_error_code (Admin.mt_error_code t)
    ▷ MetadataResponseTopic_with_name (of_str <$> Admin.mt_name t)
    ▷ MetadataResponseTopic_with_topic_id (Admin.mt_topic_id t)
    ▷ MetadataResponseTopic_with_partitions (map (λ p,
        MetadataResponsePartition_default
          ▷ MetadataResponsePartition_with_partition_index (Admin.mrp_partition_index p)
          ▷ MetadataResponsePartition_with_leader_id (Admin.mrp_leader_id p)
          ▷ MetadataResponsePartition_with_leader_epoch (Admin.mrp_leader_epoch p)
          ▷ MetadataResponsePartition_with_replica_nodes (Admin.mrp_replica_nodes p)
          ▷ MetadataResponsePartition_with_isr_nodes (Admin.mrp_isr_nodes p)
          ▷ MetadataResponsePartition_with_offline_replicas (Admin.mrp_offline_replicas p))
        (Admin.mt_partitions t))
    ▷ MetadataResponseTopic_with_topic_authorized_operations (Admin.mt_topic_authorized_operations t).

(* @ src/src/kafka/metadata.rs 48-62 response *)
Definition metadata_answer (r : Admin.MetadataResponse) : MetadataResponse :=
  MetadataResponse_default
    ▷ MetadataResponse_with_brokers (map (λ b,
        MetadataResponseBroker_default
          ▷ MetadataResponseBroker_with_node_id (Admin.mb_node_id b)
          ▷ MetadataResponseBroker_with_host (of_str (Admin.mb_host b))
          ▷ MetadataResponseBroker_with_port (Admin.mb_port b)) (Admin.mrs_brokers r))
    ▷ MetadataResponse_with_cluster_id (of_str <$> Admin.mrs_cluster_id r)
    ▷ MetadataResponse_with_controller_id (Admin.mrs_controller_id r)
    ▷ MetadataResponse_with_topics (map metadata_topic (Admin.mrs_topics r))
    ▷ MetadataResponse_with_cluster_authorized_operations (Admin.mrs_cluster_authorized_operations r)
    ▷ MetadataResponse_with_error_code (Admin.mrs_error_code r).

(** ** DescribeTopicPartitions *)

Definition describe_fields (request : DescribeTopicPartitionsRequest) : Admin.DescribeTopicPartitionsRequest := {|
  Admin.dr_topics := map (λ t, to_str (DescribeTopicPartitionsRequest_TopicRequest_name t))
    (DescribeTopicPartitionsRequest_topics request);
  Admin.dr_response_partition_limit := DescribeTopicPartitionsRequest_response_partition_limit request;
  Admin.dr_cursor := (λ c, Admin.mkCursor (to_str (DescribeTopicPartitionsRequest_Cursor_topic_name c))
    (DescribeTopicPartitionsRequest_Cursor_partition_index c)) <$> DescribeTopicPartitionsRequest_cursor request
|}.

(* @ src/src/kafka/describe_topic_partitions.rs 139-192 success_topic, error_topic, resource_error_topic *)
Definition described_answer (t : Admin.DescribeTopicPartitionsResponseTopic) : DescribeTopicPartitionsResponseTopic :=
  DescribeTopicPartitionsResponseTopic_default
    ▷ DescribeTopicPartitionsResponseTopic_with_error_code (Admin.dt_error_code t)
    ▷ DescribeTopicPartitionsResponseTopic_with_name (of_str <$> Admin.dt_name t)
    ▷ DescribeTopicPartitionsResponseTopic_with_topic_id (Admin.dt_topic_id t)
    ▷ DescribeTopicPartitionsResponseTopic_with_is_internal false
    ▷ DescribeTopicPartitionsResponseTopic_with_partitions (map (λ p,
        DescribeTopicPartitionsResponsePartition_default
          ▷ DescribeTopicPartitionsResponsePartition_with_partition_index (Admin.mrp_partition_index p)
          ▷ DescribeTopicPartitionsResponsePartition_with_leader_id (Admin.mrp_leader_id p)
          ▷ DescribeTopicPartitionsResponsePartition_with_leader_epoch (Admin.mrp_leader_epoch p)
          ▷ DescribeTopicPartitionsResponsePartition_with_replica_nodes (Admin.mrp_replica_nodes p)
          ▷ DescribeTopicPartitionsResponsePartition_with_isr_nodes (Admin.mrp_isr_nodes p)
          ▷ DescribeTopicPartitionsResponsePartition_with_eligible_leader_replicas (Some [])
          ▷ DescribeTopicPartitionsResponsePartition_with_last_known_elr (Some [])
          ▷ DescribeTopicPartitionsResponsePartition_with_offline_replicas (Admin.mrp_offline_replicas p))
        (Admin.dt_partitions t))
    ▷ DescribeTopicPartitionsResponseTopic_with_topic_authorized_operations
        (Admin.dt_topic_authorized_operations t).

(* @ src/src/kafka/describe_topic_partitions.rs 134-137 response *)
Definition describe_answer (r : Admin.DescribeTopicPartitionsResponse) : DescribeTopicPartitionsResponse :=
  DescribeTopicPartitionsResponse_default
    ▷ DescribeTopicPartitionsResponse_with_topics (map described_answer (Admin.dp_topics r))
    ▷ DescribeTopicPartitionsResponse_with_next_cursor ((λ c,
        DescribeTopicPartitionsResponse_Cursor_default
          ▷ DescribeTopicPartitionsResponse_Cursor_with_topic_name (of_str (Admin.cur_topic_name c))
          ▷ DescribeTopicPartitionsResponse_Cursor_with_partition_index (Admin.cur_partition_index c))
        <$> Admin.dp_next_cursor r).

(** ** Dispatch *)

Section dispatch.
  Context `{Records.Crc32c}.
  Context (new_v4 : nat → Z) (time : nat → Groups.clock) (deadline_passed timed_out : nat → bool).
  Context (advertised_kafka : AdvertisedAddress).

(** The loop of a fetch: a pass that waits ends with the deadline, or goes on
    with the next pass after a notification. *)
(* @ src/src/kafka/fetch.rs 16-50 response *)
Fixpoint fetch_wait (polls i : nat) (request : Handlers.FetchRequest) : prog (option Handlers.FetchResponse) :=
  match polls with
  | O => Ret None
  | S polls =>
      do pass <- Handlers.fetch_once request (deadline_passed i);
      match pass with
      | Handlers.FetchReturn response => Ret (Some response)
      | Handlers.FetchWait _ response =>
          if timed_out i then Ret (Some response) else fetch_wait polls (S i) request
      end
  end.

(** [Ok(response.into())] of a handler that returns, and of one that may wait. *)
Definition answer {A : Type} (into : A → ResponseKind) (p : prog A) : prog (option (result DispatchError ResponseKind)) :=
  do r <- p; Ret (Some (Ok (into r))).
Definition answer_waiting {A : Type} (into : A → ResponseKind) (p : prog (option A)) :
    prog (option (result DispatchError ResponseKind)) :=
  do r <- p; Ret ((λ r, Ok (into r)) <$> r).

(* @ src/src/kafka/dispatcher.rs 51-193 Dispatcher::dispatch *)
Definition dispatch (polls : nat) (request : SupportedRequest) : prog (option (result DispatchError ResponseKind)) :=
  let version := RequestHeader_request_api_version (dr_header request) in
  let mismatch := Ret (Some (Err (BodyMismatch (dr_api_key request)))) in
  match dr_api_key request with
  | ApiKey_ApiVersions =>
      match dr_body request with
      | RequestKind_ApiVersions _ => answer ResponseKind_ApiVersions (Ret Capabilities.response)
      | _ => mismatch
      end
  | ApiKey_Metadata =>
      match dr_body request with
      | RequestKind_Metadata body =>
          answer (λ r, ResponseKind_Metadata (metadata_answer r))
            (Admin.metadata new_v4 (metadata_fields body) version (host advertised_kafka) (port advertised_kafka))
      | _ => mismatch
      end
  | ApiKey_CreateTopics =>
      match dr_body request with
      | RequestKind_CreateTopics body =>
          answer (λ r, ResponseKind_CreateTopics (create_topics_answer r))
            (Admin.create_topics new_v4 (create_topics_fields body) (CreateTopicsRequest_validate_only body))
      | _ => mismatch
      end
  | ApiKey_Produce =>
      match dr_body request with
      | RequestKind_Produce body =>
          answer (λ r, ResponseKind_Produce (produce_answer r)) (Handlers.produce new_v4 (produce_fields body))
      | _ => mismatch
      end
  | ApiKey_ListOffsets =>
      match dr_body request with
      | RequestKind_ListOffsets body =>
          answer (λ r, ResponseKind_ListOffsets (list_offsets_answer r))
            (Handlers.list_offsets (list_offsets_fields body))
      | _ => mismatch
      end
  | ApiKey_Fetch =>
      match dr_body request with
      | RequestKind_Fetch body =>
          answer_waiting (λ r, ResponseKind_Fetch (fetch_answer r)) (fetch_wait polls 0 (fetch_fields body))
      | _ => mismatch
      end
  | ApiKey_FindCoordinator =>
      match dr_body request with
      | RequestKind_FindCoordinator body =>
          answer ResponseKind_FindCoordinator (find_coordinator body advertised_kafka)
      | _ => mismatch
      end
  | ApiKey_JoinGroup =>
      match dr_body request with
      | RequestKind_JoinGroup body =>
          answer_waiting ResponseKind_JoinGroup
            (join_group time polls body version (RequestHeader_client_id (dr_header request)))
      | _ => mismatch
      end
  | ApiKey_SyncGroup =>
      match dr_body request with
      | RequestKind_SyncGroup body => answer_waiting ResponseKind_SyncGroup (sync_group time polls body)
      | _ => mismatch
      end
  | ApiKey_Heartbeat =>
      match dr_body request with
      | RequestKind_Heartbeat body => answer ResponseKind_Heartbeat (heartbeat time body)
      | _ => mismatch
      end
  | ApiKey_LeaveGroup =>
      match dr_body request with
      | RequestKind_LeaveGroup body => answer ResponseKind_LeaveGroup (leave_group time body version)
      | _ => mismatch
      end
  | ApiKey_OffsetCommit =>
      match dr_body request with
      | RequestKind_OffsetCommit body => answer ResponseKind_OffsetCommit (offset_commit time body)
      | _ => mismatch
      end
  | ApiKey_OffsetFetch =>
      match dr_body request with
      | RequestKind_OffsetFetch body => answer ResponseKind_OffsetFetch (offset_fetch body)
      | _ => mismatch
      end
  | ApiKey_ListGroups =>
      match dr_body request with
      | RequestKind_ListGroups _ => answer ResponseKind_ListGroups list_groups
      | _ => mismatch
      end
  | ApiKey_DescribeGroups =>
      match dr_body request with
      | RequestKind_DescribeGroups body => answer ResponseKind_DescribeGroups (describe_groups time body)
      | _ => mismatch
      end
  | ApiKey_InitProducerId =>
      match dr_body request with
      | RequestKind_InitProducerId body =>
          answer (λ r, ResponseKind_InitProducerId (init_producer_id_answer r))
            (Handlers.init_producer_id (to_str <$> InitProducerIdRequest_transactional_id body))
      | _ => mismatch
      end
  | ApiKey_DescribeConfigs =>
      match dr_body request with
      | RequestKind_DescribeConfigs body => answer ResponseKind_DescribeConfigs (describe_configs body)
      | _ => mismatch
      end
  | ApiKey_DescribeCluster =>
      match dr_body request with
      | RequestKind_DescribeCluster body =>
          answer ResponseKind_DescribeCluster (describe_cluster body advertised_kafka)
      | _ => mismatch
      end
  | ApiKey_DescribeTopicPartitions =>
      match dr_body request with
      | RequestKind_DescribeTopicPartitions body =>
          answer (λ r, ResponseKind_DescribeTopicPartitions (describe_answer r))
            (Admin.describe_topic_partitions (describe_fields body))
      | _ => mismatch
      end
  | _ => mismatch
  end.

End dispatch.

End Dispatcher.
