(* ===== verification/AnswerSpec.v ===== *)
(** * What an answer has to say

    The specification the dispatcher is proved against: for every API the
    broker serves, which response messages are true answers to a request.  It
    is stated on the fields of the generated messages, as a client reads them,
    and not through the functions that build them.

    An answer is about the time in which its request is handled.  [s0] is the
    broker when the request is taken up, [s1] when it has been answered, or any
    later state: what an answer reports was so at a moment in between ([seen]),
    came from a critical section of the group coordinator that ran in between
    ([acted]), or is so in [s1] and stays so. *)

From stdpp Require Import pretty.
From S2P Require Import Prelude Config Types Errors MessageCodec MessagesData MessagesGroups MessagesTxn MessagesBuild.
From S2P Require Import ApiKeys Capabilities Records Partition PartitionCorrect Producers Topics TopicsCorrect.
From S2P Require Import Groups Broker HandlersCorrect GroupHandlers GroupHandlersCorrect.
Open Scope Z_scope.

Module AnswerSpec.
Import ApiKeys Broker GroupHandlers.

(** The first occurrence of every element, in order. *)
Fixpoint firsts {A : Type} `{EqDecision A} (l : list A) : list A :=
  match l with
  | [] => []
  | x :: l => x :: filter (λ y, y ≠ x) (firsts l)
  end.

(** [0 .. count - 1], counted from [first]. *)
Definition indexes (first count : Z) : list Z := (λ i, first + Z.of_nat i) <$> seq 0 (Z.to_nat count).

Section spec.
  Context `{Records.Crc32c}.

(** ** Moments *)

(** The critical section [f] ran between [s0] and [s1] and returned [r]. *)
Definition acted_between {A : Type} (s0 s1 : BrokerState)
    (f : Groups.Coordinator → option (A * Groups.Coordinator)) (r : A) : Prop :=
  ∃ s c, broker_wf s ∧ broker_extends s0 s ∧ f (groups s) = Some (r, c) ∧
    broker_extends (with_groups s c) s1.

Section moments.
  Context (s0 s1 : BrokerState).

(** [P] was so at a moment between [s0] and [s1]. *)
Definition seen (P : BrokerState → Prop) : Prop :=
  ∃ s, broker_wf s ∧ broker_extends s0 s ∧ broker_extends s s1 ∧ P s.

Definition acted {A : Type} (f : Groups.Coordinator → option (A * Groups.Coordinator)) (r : A) : Prop :=
  acted_between s0 s1 f r.

(** ** Produce *)

Definition no_partition (topic : string) (index : Z) : Prop :=
  seen (λ s, Topics.partition (topics s) topic index = None).

(** The record set is refused, by itself or by the log it was sent to. *)
Definition records_refused (topic : string) (p : PartitionProduceData) (e : Partition.AppendError) : Prop :=
  ∃ records, PartitionProduceData_records p = Some records ∧
    (Partition.validate_record_set records = Some (Err e) ∨
     seen (λ s, ∃ log, Topics.partition (topics s) topic (PartitionProduceData_index p) = Some log ∧
       Partition.append log records = Some (Err e, log))).

Definition named_producer (p : PartitionProduceData) (producer : Partition.RecordSetProducer) : Prop :=
  ∃ records, PartitionProduceData_records p = Some records ∧
    Partition.record_set_producer records = Some (Ok (Some producer)).

(** What an error of a partition means. *)
Definition produce_refused (request : ProduceRequest) (topic : string) (p : PartitionProduceData)
    (e : Errors.ResponseError) : Prop :=
  match e with
  | Errors.InvalidRequiredAcks => ¬ (-1 ≤ ProduceRequest_acks request ≤ 1)
  | Errors.InvalidTopicException => Topics.validate_name topic = Err Topics.InvalidName
  | Errors.UnknownTopicOrPartition => no_partition topic (PartitionProduceData_index p)
  | Errors.UnsupportedForMessageFormat =>
      is_Some (ProduceRequest_transactional_id request) ∨ records_refused topic p Partition.UnsupportedBatch
  | Errors.CorruptMessage => PartitionProduceData_records p = None ∨
      records_refused topic p Partition.Malformed ∨ records_refused topic p Partition.OffsetOverflow
  | Errors.OutOfOrderSequenceNumber => records_refused topic p Partition.OutOfOrderSequence
  | Errors.DuplicateSequenceNumber => records_refused topic p Partition.DuplicateSequence
  | Errors.UnknownProducerId => ∃ producer, named_producer p producer ∧
      seen (λ s, ¬ (1 ≤ Partition.rsp_producer_id producer ≤ Producers.next_id (producers s)))
  | Errors.InvalidProducerEpoch => ∃ producer, named_producer p producer ∧
      Partition.rsp_producer_epoch producer ≠ 0
  | _ => False
  end.

(** Success: the records are in the log, and will be, at the offset told. *)
Definition partition_produced (request : ProduceRequest) (topic : string) (p : PartitionProduceData)
    (q : PartitionProduceResponse) : Prop :=
  PartitionProduceResponse_index q = PartitionProduceData_index p ∧
  PartitionProduceResponse_log_append_time_ms q = -1 ∧ PartitionProduceResponse_log_start_offset q = 0 ∧
  (PartitionProduceResponse_error_code q = 0 ∧
     -1 ≤ ProduceRequest_acks request ≤ 1 ∧ ProduceRequest_transactional_id request = None ∧
     (∃ records, PartitionProduceData_records p = Some records ∧
        HandlersCorrect.producer_registered (producers s1) records ∧
        HandlersCorrect.holds_records s1 topic (PartitionProduceData_index p)
          (PartitionProduceResponse_base_offset q) records) ∨
   PartitionProduceResponse_base_offset q = -1 ∧
     ∃ e, PartitionProduceResponse_error_code q = Errors.code e ∧ produce_refused request topic p e).

Definition produced (request : ProduceRequest) (r : ProduceResponse) : Prop :=
  ProduceResponse_throttle_time_ms r = 0 ∧
  Forall2 (λ t a, TopicProduceResponse_name a = TopicProduceData_name t ∧
      Forall2 (partition_produced request (to_str (TopicProduceData_name t)))
        (TopicProduceData_partition_data t) (TopicProduceResponse_partition_responses a))
    (ProduceRequest_topic_data request) (ProduceResponse_responses r).

(** ** Fetch *)

(** Success: at a moment, [PartitionCorrect.fetched] says which batches of the
    log a read of [limit] bytes at the requested offset gives; they are the
    records of the answer, unless the answer already has [before > 0] bytes and
    they exceed the limit of the request. *)
Definition partition_fetched (topic : string) (max_bytes before : Z) (p : FetchRequest_FetchPartition)
    (q : FetchResponse_PartitionData) : Prop :=
  let index := FetchRequest_FetchPartition_partition p in
  let offset := FetchRequest_FetchPartition_fetch_offset p in
  let high_watermark := FetchResponse_PartitionData_high_watermark q in
  let limit := Z.min (Z.max 0 (FetchRequest_FetchPartition_partition_max_bytes p)) (Z.max 0 (max_bytes - before)) in
  FetchResponse_PartitionData_partition_index q = index ∧
  FetchResponse_PartitionData_last_stable_offset q = high_watermark ∧
  FetchResponse_PartitionData_aborted_transactions q = Some [] ∧
  (FetchResponse_PartitionData_error_code q = 0 ∧
     (∃ pre got post,
        seen (λ s, ∃ log, Topics.partition (topics s) topic index = Some log ∧
          0 ≤ offset ≤ Partition.next_offset log ∧ high_watermark = Partition.next_offset log ∧
          PartitionCorrect.fetched log offset limit pre got post) ∧
        FetchResponse_PartitionData_records q = Some
          (if decide (0 < before ∧ max_bytes < before + len (PartitionCorrect.bytes_of got)) then []
           else PartitionCorrect.bytes_of got)) ∨
   high_watermark = -1 ∧ FetchResponse_PartitionData_records q = Some [] ∧
     (FetchResponse_PartitionData_error_code q = Errors.code Errors.UnknownTopicOrPartition ∧
        no_partition topic index ∨
      FetchResponse_PartitionData_error_code q = Errors.code Errors.OffsetOutOfRange ∧
        seen (λ s, ∃ log, Topics.partition (topics s) topic index = Some log ∧
          ¬ (0 ≤ offset ≤ Partition.next_offset log)))).

Definition record_bytes (q : FetchResponse_PartitionData) : Z :=
  len (default [] (FetchResponse_PartitionData_records q)).

Fixpoint partitions_fetched (topic : string) (max_bytes before : Z) (ps : list FetchRequest_FetchPartition)
    (qs : list FetchResponse_PartitionData) : Prop :=
  match ps, qs with
  | [], [] => True
  | p :: ps, q :: qs => partition_fetched topic max_bytes before p q ∧
      partitions_fetched topic max_bytes (before + record_bytes q) ps qs
  | _, _ => False
  end.

Fixpoint topics_fetched (max_bytes before : Z) (ts : list FetchRequest_FetchTopic)
    (rs : list FetchableTopicResponse) : Prop :=
  match ts, rs with
  | [], [] => True
  | t :: ts, r :: rs =>
      FetchableTopicResponse_topic r = FetchRequest_FetchTopic_topic t ∧
      partitions_fetched (to_str (FetchRequest_FetchTopic_topic t)) max_bytes before
        (FetchRequest_FetchTopic_partitions t) (FetchableTopicResponse_partitions r) ∧
      topics_fetched max_bytes
        (before + foldr Z.add 0 (record_bytes <$> FetchableTopicResponse_partitions r)) ts rs
  | _, _ => False
  end.

Definition fetched (request : FetchRequest) (r : FetchResponse) : Prop :=
  FetchResponse_throttle_time_ms r = 0 ∧ FetchResponse_error_code r = 0 ∧
  topics_fetched (Z.max 0 (FetchRequest_max_bytes request)) 0 (FetchRequest_topics request)
    (FetchResponse_responses r).

(** ** ListOffsets *)

Definition offset_listed (topic : string) (p : ListOffsetsPartition) (q : ListOffsetsPartitionResponse) : Prop :=
  let index := ListOffsetsPartition_partition_index p in
  let answer code offset := q = mkListOffsetsPartitionResponse index code (-1) offset (-1) ∅ in
  let exists_with P := seen (λ s, ∃ log, Topics.partition (topics s) topic index = Some log ∧ P log) in
  answer (Errors.code Errors.UnknownTopicOrPartition) (-1) ∧ no_partition topic index ∨
  ListOffsetsPartition_timestamp p = -2 ∧ answer 0 0 ∧ exists_with (λ _, True) ∨
  ListOffsetsPartition_timestamp p = -1 ∧
    (∃ offset, answer 0 offset ∧ exists_with (λ log, offset = Partition.next_offset log)) ∨
  ListOffsetsPartition_timestamp p ≠ -1 ∧ ListOffsetsPartition_timestamp p ≠ -2 ∧
    answer (Errors.code Errors.UnsupportedForMessageFormat) (-1) ∧ exists_with (λ _, True).

Definition offsets_listed (request : ListOffsetsRequest) (r : ListOffsetsResponse) : Prop :=
  ListOffsetsResponse_throttle_time_ms r = 0 ∧
  Forall2 (λ t a, ListOffsetsTopicResponse_name a = ListOffsetsTopic_name t ∧
      Forall2 (offset_listed (to_str (ListOffsetsTopic_name t)))
        (ListOffsetsTopic_partitions t) (ListOffsetsTopicResponse_partitions a))
    (ListOffsetsRequest_topics request) (ListOffsetsResponse_topics r).

(** ** InitProducerId *)

(** A new identifier is none that was handed out before the request. *)
Definition producer_initialised (request : InitProducerIdRequest) (r : InitProducerIdResponse) : Prop :=
  let answer code id epoch := r = mkInitProducerIdResponse 0 code id epoch (-1) (-1) ∅ in
  match InitProducerIdRequest_transactional_id request with
  | Some _ => answer (Errors.code Errors.UnsupportedForMessageFormat) (-1) (-1)
  | None =>
      (∃ id, answer 0 id 0 ∧ Producers.next_id (producers s0) < id ≤ Producers.next_id (producers s1) ∧
         seen (λ s, id = Producers.next_id (producers s) + 1)) ∨
      answer (Errors.code Errors.UnknownServerError) (-1) (-1) ∧
        seen (λ s, Producers.next_id (producers s) = i64_max)
  end.

(** ** CreateTopics *)

Definition creation_code (e : Topics.TopicError) : Z :=
  match e with
  | Topics.InvalidName => 17
  | Topics.AlreadyExists => 36
  | Topics.InvalidPartitions => 37
  | Topics.InvalidReplicationFactor => 38
  end.

(** A dry run reports what the catalog would say; a created topic is found under
    its name, with its identifier and partitions, and did not exist before. *)
Definition topic_created (validate_only : bool) (t : CreatableTopic) (a : CreatableTopicResult) : Prop :=
  let name := to_str (CreatableTopic_name t) in
  let partitions := CreatableTopic_num_partitions t in
  let answer id code message count factor :=
    a = mkCreatableTopicResult (CreatableTopic_name t) id code message 0 count factor (Some []) ∅ in
  let failed code message := answer 0 code (Some (of_str message)) (-1) (-1) in
  let valid r := seen (λ s, Topics.validate_explicit (topics s) name partitions
    (CreatableTopic_replication_factor t) = r) in
  if decide (CreatableTopic_assignments t ≠ []) then
    failed (Errors.code Errors.InvalidReplicaAssignment) "manual replica assignments are not supported"
  else if decide (CreatableTopic_configs t ≠ []) then
    failed (Errors.code Errors.InvalidConfig) "custom topic configurations are not supported"
  else
    (∃ e, valid (Err e) ∧ failed (creation_code e) (Topics.topic_error_message e)) ∨
    valid (Ok ()) ∧
      if validate_only then answer 0 0 None partitions 1
      else ∃ id, answer id 0 None partitions 1 ∧
        Topics.lookup_topic (topics s0) name = None ∧
        Topics.lookup_topic (topics s1) name = Some (Topics.mkTopicMetadata id name partitions).

Definition topics_created (request : CreateTopicsRequest) (r : CreateTopicsResponse) : Prop :=
  CreateTopicsResponse_throttle_time_ms r = 0 ∧
  Forall2 (topic_created (CreateTopicsRequest_validate_only request))
    (CreateTopicsRequest_topics request) (CreateTopicsResponse_topics r).

(** ** Metadata *)

Definition operations (include : bool) (value : Z) : Z := if include then value else i32_min.

(** A request that cannot be served: topics by identifier before version 12, or
    a topic with neither a name nor an identifier. *)
Definition metadata_invalid (request : MetadataRequest) (version : Z) (e : Errors.ResponseError) : Prop :=
  match MetadataRequest_topics request with
  | None => False
  | Some ts =>
      let unnamed := Exists (λ t, MetadataRequestTopic_name t = None) ts in
      let by_id := Exists (λ t, MetadataRequestTopic_topic_id t ≠ 0) ts in
      10 ≤ version ≤ 11 ∧ (by_id ∨ unnamed) ∧ e = Errors.InvalidRequest ∨
      12 ≤ version ∧ ¬ by_id ∧ unnamed ∧ e = Errors.UnknownServerError
  end.

Definition metadata_partition (broker_id index : Z) : MetadataResponsePartition :=
  mkMetadataResponsePartition 0 index broker_id 0 [broker_id] [broker_id] [] ∅.

(** What is told of a topic: it exists as described, or did not at a moment. *)
Definition topic_described (request : MetadataRequest) (a : MetadataResponseTopic) : Prop :=
  let told := operations (MetadataRequest_include_topic_authorized_operations request) 3576 in
  let answer code name id partitions operations :=
    a = mkMetadataResponseTopic code name id false partitions operations ∅ in
  (∃ m, Topics.lookup_topic (topics s1) (Topics.tm_name m) = Some m ∧
     answer 0 (Some (of_str (Topics.tm_name m))) (Topics.tm_id m)
       (metadata_partition (broker_id s0) <$> indexes 0 (Topics.tm_partition_count m)) told) ∨
  (∃ name, answer (Errors.code Errors.UnknownTopicOrPartition) (Some name) 0 [] told ∧
     Topics.validate_name (to_str name) = Ok () ∧
     seen (λ s, Topics.lookup_topic (topics s) (to_str name) = None)) ∨
  (∃ name, answer (Errors.code Errors.InvalidTopicException) name 0 [] told ∧
     from_option (λ n, Topics.validate_name (to_str n) = Err Topics.InvalidName) True name) ∨
  (∃ id, answer (Errors.code Errors.UnknownTopicId) None id [] i32_min ∧
     seen (λ s, Topics.get_by_id (topics s) id = None)).

(** Which topics are told of: all; those named, each once, in order, and created
    if need be; or those identified, each once. *)
Definition topics_described (request : MetadataRequest) (version : Z) (ans : list MetadataResponseTopic) : Prop :=
  Forall (topic_described request) ans ∧
  match MetadataRequest_topics request with
  | None => seen (λ s, MetadataResponseTopic_name <$> ans =
      (λ m, Some (of_str (Topics.tm_name m))) <$> Topics.list_topics (topics s))
  | Some ts =>
      if decide (12 ≤ version ∧ Exists (λ t, MetadataRequestTopic_topic_id t ≠ 0) ts) then
        MetadataResponseTopic_topic_id <$> ans ≡ₚ
          firsts (filter (λ id, id ≠ 0) (MetadataRequestTopic_topic_id <$> ts))
      else
        MetadataResponseTopic_name <$> ans = firsts (MetadataRequestTopic_name <$> ts) ∧
        (auto_create_topics s0 = true →
         MetadataRequest_allow_auto_topic_creation request = true ∨ force_auto_create_topics s0 = true →
         Forall (λ a, MetadataResponseTopic_error_code a ≠ Errors.code Errors.UnknownTopicOrPartition) ans)
  end.

Definition metadata_told (address : AdvertisedAddress) (version : Z) (request : MetadataRequest)
    (r : MetadataResponse) : Prop :=
  (∃ e, metadata_invalid request version e ∧
     r = mkMetadataResponse 0 [] None (-1)
       ((λ t, mkMetadataResponseTopic (Errors.code e) (Some (default [] (MetadataRequestTopic_name t)))
          (MetadataRequestTopic_topic_id t) false [] i32_min ∅) <$> default [] (MetadataRequest_topics request))
       i32_min (if decide (13 ≤ version) then Errors.code e else 0) ∅) ∨
  (∀ e, ¬ metadata_invalid request version e) ∧
    ∃ ans, topics_described request version ans ∧
      r = mkMetadataResponse 0
        [mkMetadataResponseBroker (broker_id s0) (of_str (host address)) (port address) None ∅]
        (Some (of_str "memkafka")) (broker_id s0) ans
        (operations (MetadataRequest_include_cluster_authorized_operations request) 8096) 0 ∅.

(** ** DescribeTopicPartitions *)

Definition described_partition (broker_id index : Z) : DescribeTopicPartitionsResponsePartition :=
  mkDescribeTopicPartitionsResponsePartition 0 index broker_id 0 [broker_id] [broker_id] (Some []) (Some []) [] ∅.

Definition described_topic (code : Z) (name : string) (id : Z) (partitions : list Z) (operations : Z) :
    DescribeTopicPartitionsResponseTopic :=
  mkDescribeTopicPartitionsResponseTopic code (Some (of_str name)) id false
    (described_partition (broker_id s0) <$> partitions) operations ∅.

Definition described_cursor (name : string) (index : Z) : DescribeTopicPartitionsResponse_Cursor :=
  mkDescribeTopicPartitionsResponse_Cursor (of_str name) index ∅.

(** The page that describes [names] with room for [remaining] partitions, the
    topic of the cursor from [start] on. *)
Fixpoint page_described (start : string → Z) (remaining : Z) (names : list string)
    (ans : list DescribeTopicPartitionsResponseTopic)
    (next : option DescribeTopicPartitionsResponse_Cursor) : Prop :=
  match names, ans with
  | [], [] => next = None
  | name :: names, a :: ans =>
      let missing code := a = described_topic code name 0 [] 3576 ∧
        page_described start remaining names ans next in
      Topics.validate_name name = Err Topics.InvalidName ∧ missing (Errors.code Errors.InvalidTopicException) ∨
      Topics.validate_name name = Ok () ∧ seen (λ s, Topics.lookup_topic (topics s) name = None) ∧
        missing (Errors.code Errors.UnknownTopicOrPartition) ∨
      ∃ m, Topics.lookup_topic (topics s1) name = Some m ∧
        let count := Topics.tm_partition_count m in
        let taken := Z.min (Z.max 0 (count - start name)) remaining in
        a = described_topic 0 name (Topics.tm_id m) (indexes (start name) taken) 3576 ∧
        if decide (start name + taken < count) then
          ans = [] ∧ next = Some (described_cursor name (start name + taken))
        else
          match names with
          | next_name :: _ =>
              if decide (remaining - taken = 0) then ans = [] ∧ next = Some (described_cursor next_name 0)
              else page_described start (remaining - taken) names ans next
          | [] => ans = [] ∧ next = None
          end
  | _, _ => False
  end.

(** The names to describe, from the cursor on, when the catalog has [all]. *)
Definition names_described (request : DescribeTopicPartitionsRequest) (all : list string) : list string :=
  let asked := to_str ∘ DescribeTopicPartitionsRequest_TopicRequest_name
    <$> DescribeTopicPartitionsRequest_topics request in
  let names := merge_sort String.le (remove_dups (if decide (asked = []) then all else asked)) in
  match DescribeTopicPartitionsRequest_cursor request with
  | Some c => filter (String.le (to_str (DescribeTopicPartitionsRequest_Cursor_topic_name c))) names
  | None => names
  end.

Definition partitions_described (request : DescribeTopicPartitionsRequest)
    (r : DescribeTopicPartitionsResponse) : Prop :=
  let asked := to_str ∘ DescribeTopicPartitionsRequest_TopicRequest_name
    <$> DescribeTopicPartitionsRequest_topics request in
  let cursor := DescribeTopicPartitionsRequest_cursor request in
  let cursor_name c := to_str (DescribeTopicPartitionsRequest_Cursor_topic_name c) in
  let cursor_index := DescribeTopicPartitionsRequest_Cursor_partition_index in
  let start name := from_option (λ c, if decide (cursor_name c = name) then cursor_index c else 0) 0 cursor in
  let invalid := ∃ c, cursor = Some c ∧ (cursor_index c < 0 ∨ asked ≠ [] ∧ cursor_name c ∉ asked) in
  DescribeTopicPartitionsResponse_throttle_time_ms r = 0 ∧
  (invalid ∧ DescribeTopicPartitionsResponse_next_cursor r = None ∧
     DescribeTopicPartitionsResponse_topics r =
       (λ name, described_topic (Errors.code Errors.InvalidRequest) name 0 [] i32_min) <$> asked ∨
   ¬ invalid ∧ ∃ all, seen (λ s, all = Topics.tm_name <$> Topics.list_topics (topics s)) ∧
     page_described start (Z.max (DescribeTopicPartitionsRequest_response_partition_limit request) 1)
       (names_described request all) (DescribeTopicPartitionsResponse_topics r)
       (DescribeTopicPartitionsResponse_next_cursor r)).

(** ** Groups *)

Definition group_code {A : Type} (r : result Groups.GroupError A) : Z :=
  match r with
  | Ok _ => 0
  | Err Groups.IllegalGeneration => 22
  | Err Groups.InconsistentGroupProtocol => 23
  | Err Groups.UnknownMemberId => 25
  | Err Groups.RebalanceInProgress => 27
  | Err Groups.InvalidAssignment => 42
  end.

(** Static membership is not supported. *)
Definition static_member : Z := Errors.code Errors.UnsupportedVersion.

(** The code of a call [f] of the coordinator. *)
Definition called (instance : option (list byte))
    (f : Groups.clock → Groups.Coordinator → result Groups.GroupError () * Groups.Coordinator) (code : Z) : Prop :=
  match instance with
  | Some _ => code = static_member
  | None => ∃ clk r, acted (λ c, Some (f clk c)) r ∧ code = group_code r
  end.

Definition heartbeat_told (request : HeartbeatRequest) (r : HeartbeatResponse) : Prop :=
  HeartbeatResponse_throttle_time_ms r = 0 ∧
  called (HeartbeatRequest_group_instance_id request)
    (λ clk c, Groups.heartbeat clk c (to_str (HeartbeatRequest_group_id request))
      (HeartbeatRequest_generation_id request) (to_str (HeartbeatRequest_member_id request)))
    (HeartbeatResponse_error_code r).

Definition members_left (request : LeaveGroupRequest) (version : Z) (r : LeaveGroupResponse) : Prop :=
  let leave id clk c := Groups.leave clk c (to_str (LeaveGroupRequest_group_id request)) (to_str id) in
  LeaveGroupResponse_throttle_time_ms r = 0 ∧
  if version <=? 2 then
    LeaveGroupResponse_members r = [] ∧
    called None (leave (LeaveGroupRequest_member_id request)) (LeaveGroupResponse_error_code r)
  else
    LeaveGroupResponse_error_code r = 0 ∧
    Forall2 (λ m a, ∃ code,
        a = mkMemberResponse (MemberIdentity_member_id m) None code ∅ ∧
        called (MemberIdentity_group_instance_id m) (leave (MemberIdentity_member_id m)) code)
      (LeaveGroupRequest_members request) (LeaveGroupResponse_members r).

Definition committed (request : OffsetCommitRequest) (r : OffsetCommitResponse) : Prop :=
  let offsets := concat ((λ t, (λ p, Groups.mkOffsetCommit (to_str (OffsetCommitRequestTopic_name t))
      (OffsetCommitRequestPartition_partition_index p) (OffsetCommitRequestPartition_committed_offset p)
      (to_str <$> OffsetCommitRequestPartition_committed_metadata p))
    <$> OffsetCommitRequestTopic_partitions t) <$> OffsetCommitRequest_topics request) in
  ∃ code,
    called (OffsetCommitRequest_group_instance_id request)
      (λ clk c, Groups.commit_offsets clk c (to_str (OffsetCommitRequest_group_id request))
        (OffsetCommitRequest_generation_id_or_member_epoch request)
        (to_str (OffsetCommitRequest_member_id request)) offsets) code ∧
    r = mkOffsetCommitResponse 0
      ((λ t, mkOffsetCommitResponseTopic (OffsetCommitRequestTopic_name t) 0
        ((λ p, mkOffsetCommitResponsePartition (OffsetCommitRequestPartition_partition_index p) code ∅)
          <$> OffsetCommitRequestTopic_partitions t) ∅) <$> OffsetCommitRequest_topics request) ∅.

(** The offsets told are those the group has, grouped by topic. *)
Definition offsets_fetched (request : OffsetFetchRequest) (r : OffsetFetchResponse) : Prop :=
  let asked := (λ ts, concat ((λ t, Groups.mkTopicPartition (to_str (OffsetFetchRequestTopic_name t))
    <$> OffsetFetchRequestTopic_partition_indexes t) <$> ts)) <$> OffsetFetchRequest_topics request in
  OffsetFetchResponse_throttle_time_ms r = 0 ∧ OffsetFetchResponse_error_code r = 0 ∧
  seen (λ s, GroupHandlersCorrect.listed_offsets (OffsetFetchResponse_topics r) ≡ₚ
    (λ o, (of_str (Groups.fo_topic o), mkOffsetFetchResponsePartition (Groups.fo_partition o)
      (default (-1) (Groups.fo_offset o)) (-1) (of_str <$> Groups.fo_metadata o) 0 ∅))
    <$> Groups.fetch_offsets (groups s) (to_str (OffsetFetchRequest_group_id request)) asked).

Definition groups_listed (r : ListGroupsResponse) : Prop :=
  ListGroupsResponse_throttle_time_ms r = 0 ∧ ListGroupsResponse_error_code r = 0 ∧
  seen (λ s, ListGroupsResponse_groups r =
    (λ g, mkListedGroup (of_str (Groups.gs_group_id g)) (of_str (Groups.gs_protocol_type g)) [] [] ∅)
    <$> Groups.list_groups (groups s)).

Definition group_described (id : list byte) (a : DescribeGroupsResponse_DescribedGroup) : Prop :=
  ∃ clk d, acted (λ c, Some (Groups.describe clk c (to_str id))) d ∧
    a = match d with
        | None => mkDescribeGroupsResponse_DescribedGroup (Errors.code Errors.GroupIdNotFound) None id
            [] [] [] [] i32_min ∅
        | Some d => mkDescribeGroupsResponse_DescribedGroup 0 None (of_str (Groups.gd_group_id d))
            (of_str (Groups.gd_state d)) (of_str (Groups.gd_protocol_type d)) (of_str (Groups.gd_protocol_name d))
            ((λ m, mkDescribedGroupMember (of_str (Groups.gm_member_id m)) None (of_str (Groups.gm_client_id m)) []
              (Groups.gm_metadata m) (Groups.gm_assignment m) ∅) <$> Groups.gd_members d) i32_min ∅
        end.

Definition groups_described (request : DescribeGroupsRequest) (r : DescribeGroupsResponse) : Prop :=
  DescribeGroupsResponse_throttle_time_ms r = 0 ∧
  Forall2 group_described (DescribeGroupsRequest_groups request) (DescribeGroupsResponse_groups r).

(** *** Joins *)

(** The result of a join: of its first section, of the one that then enters the
    group, or of a later one that found the rebalance of the group completed. *)
Definition join_result (request : Groups.JoinRequest) (known : bool)
    (r : result Groups.GroupError Groups.JoinResult) : Prop :=
  acted (λ c, Some (Groups.join_start c request known)) (Groups.StartReturned r) ∨
  ∃ request' may_add s,
    acted_between s0 s (λ c, Some (Groups.join_start c request known)) (Groups.StartProceed request' may_add) ∧
    ((∃ clk, acted_between s s1 (λ c, Groups.join_locked clk c request' may_add) (Groups.JoinReturned r)) ∨
     ∃ clk clk' epoch joined s',
       acted_between s s' (λ c, Groups.join_locked clk c request' may_add) (Groups.JoinWaiting epoch) ∧
       acted_between s' s1 (λ c, let! g := Groups.groups c !! Groups.jr_group_id request' in
         let p := Groups.join_poll clk' g (Groups.jr_member_id request') epoch in
         Some (p.1, Groups.with_group c (Groups.jr_group_id request') p.2)) (Groups.Ready joined) ∧
       r = match joined with Ok j => Ok (Groups.Joined j) | Err e => Err e end).

Definition group_joined (request : JoinGroupRequest) (version : Z) (client_id : option (list byte))
    (a : JoinGroupResponse) : Prop :=
  let failed code id := a = mkJoinGroupResponse 0 code (-1) None (Some []) [] false id [] ∅ in
  match JoinGroupRequest_group_instance_id request with
  | Some _ => failed static_member (JoinGroupRequest_member_id request)
  | None => ∃ r,
      join_result (Groups.mkJoinRequest (to_str (JoinGroupRequest_group_id request))
        (to_str (JoinGroupRequest_member_id request)) (from_option to_str "consumer" client_id)
        (JoinGroupRequest_session_timeout_ms request)
        (if version =? 0 then JoinGroupRequest_session_timeout_ms request
         else JoinGroupRequest_rebalance_timeout_ms request)
        (to_str (JoinGroupRequest_protocol_type request))
        ((λ p, Groups.mkJoinProtocol (to_str (JoinGroupRequestProtocol_name p))
          (JoinGroupRequestProtocol_metadata p)) <$> JoinGroupRequest_protocols request)) (4 <=? version) r ∧
      match r with
      | Ok (Groups.MemberIdRequired id) => failed (Errors.code Errors.MemberIdRequired) (of_str id)
      | Ok (Groups.Joined j) =>
          a = mkJoinGroupResponse 0 0 (Groups.jg_generation_id j) None
            (Some (of_str (Groups.jg_protocol_name j))) (of_str (Groups.jg_leader j)) false
            (of_str (Groups.jg_member_id j))
            ((λ m, mkJoinGroupResponseMember (of_str (Groups.jm_member_id m)) None (Groups.jm_metadata m) ∅)
              <$> Groups.jg_members j) ∅
      | Err e => failed (group_code r) (JoinGroupRequest_member_id request)
      end
  end.

(** *** Syncs *)

Definition sync_result (group_id : string) (generation : Z) (member_id : string)
    (assigned : list Groups.SyncAssignment) (r : result Groups.GroupError (list byte)) : Prop :=
  seen (λ s, Groups.groups (groups s) !! group_id = None) ∧ r = Err Groups.UnknownMemberId ∨
  ∃ clk refresh,
    acted (λ c, let! g := Groups.groups c !! group_id in
      let! p := Groups.sync_poll clk g generation member_id (Some assigned) refresh in
      Some (p.1, Groups.with_group c group_id p.2)) (Groups.Ready r).

Definition group_synced (request : SyncGroupRequest) (a : SyncGroupResponse) : Prop :=
  let answer code assignment := a = mkSyncGroupResponse 0 code None None assignment ∅ in
  match SyncGroupRequest_group_instance_id request with
  | Some _ => answer static_member []
  | None => ∃ r,
      sync_result (to_str (SyncGroupRequest_group_id request)) (SyncGroupRequest_generation_id request)
        (to_str (SyncGroupRequest_member_id request))
        ((λ x, Groups.mkSyncAssignment (to_str (SyncGroupRequestAssignment_member_id x))
          (SyncGroupRequestAssignment_assignment x)) <$> SyncGroupRequest_assignments request) r ∧
      answer (group_code r) (match r with Ok bytes => bytes | Err _ => [] end)
  end.

(** ** The cluster *)

Definition versions_told (r : ApiVersionsResponse) : Prop :=
  ApiVersionsResponse_error_code r = 0 ∧ ApiVersionsResponse_throttle_time_ms r = 0 ∧
  ApiVersionsResponse_api_keys r =
    (λ c, mkApiVersion (ApiKey_code (Capabilities.api_key c)) (Capabilities.vw_min (Capabilities.supported c))
      (Capabilities.vw_max (Capabilities.supported c)) ∅) <$> Capabilities.CAPABILITIES.

(** The only broker coordinates every group. *)
Definition coordinator_found (address : AdvertisedAddress) (request : FindCoordinatorRequest)
    (r : FindCoordinatorResponse) : Prop :=
  let failed e := r = mkFindCoordinatorResponse 0 (Errors.code e) (Some (of_str (Errors.to_string e)))
    (-1) [] (-1) [] ∅ in
  if decide (FindCoordinatorRequest_key request = []) then failed Errors.InvalidGroupId
  else if decide (FindCoordinatorRequest_key_type request = 0) then
    r = mkFindCoordinatorResponse 0 0 None (broker_id s0) (of_str (host address)) (port address) [] ∅
  else failed Errors.UnsupportedVersion.

Definition cluster_described (address : AdvertisedAddress) (request : DescribeClusterRequest)
    (r : DescribeClusterResponse) : Prop :=
  let failed e message := r = mkDescribeClusterResponse 0 (Errors.code e) (Some (of_str message)) 1 [] (-1) [] i32_min ∅ in
  let endpoint := DescribeClusterRequest_endpoint_type request in
  if decide (endpoint = 1) then
    r = mkDescribeClusterResponse 0 0 None 1 (of_str "memkafka") (broker_id s0)
      [mkDescribeClusterBroker (broker_id s0) (of_str (host address)) (port address) None false ∅]
      (operations (DescribeClusterRequest_include_cluster_authorized_operations request) 8096) ∅
  else if decide (endpoint = 2) then
    failed Errors.MismatchedEndpointType
      "The request was sent to an endpoint of type BROKER, but we wanted an endpoint of type CONTROLLER"
  else failed Errors.UnsupportedEndpointType ("Unsupported endpoint type " +:+ pretty endpoint).

(** Topics and the broker have no configuration entries of their own. *)
Definition configs_described (request : DescribeConfigsRequest) (r : DescribeConfigsResponse) : Prop :=
  DescribeConfigsResponse_throttle_time_ms r = 0 ∧
  Forall2 (λ x a,
      let name := to_str (DescribeConfigsResource_resource_name x) in
      let type := DescribeConfigsResource_resource_type x in
      ∃ code, a = mkDescribeConfigsResult code None type (DescribeConfigsResource_resource_name x) [] ∅ ∧
        if decide (type = 2) then
          code = 0 ∧ is_Some (Topics.lookup_topic (topics s1) name) ∨
          code = Errors.code Errors.UnknownTopicOrPartition ∧
            seen (λ s, Topics.lookup_topic (topics s) name = None)
        else if decide (type = 4) then
          code = if decide (name = pretty (broker_id s0)) then 0 else Errors.code Errors.BrokerNotAvailable
        else code = Errors.code Errors.InvalidRequest)
    (DescribeConfigsRequest_resources request) (DescribeConfigsResponse_results r).

End moments.

(** ** All APIs *)

Definition answer_ok (address : AdvertisedAddress) (client_id : option (list byte)) (version : Z)
    (body : RequestKind) (response : ResponseKind) (s0 s1 : BrokerState) : Prop :=
  match body, response with
  | RequestKind_Produce b, ResponseKind_Produce r => produced s0 s1 b r
  | RequestKind_Fetch b, ResponseKind_Fetch r => fetched s0 s1 b r
  | RequestKind_ListOffsets b, ResponseKind_ListOffsets r => offsets_listed s0 s1 b r
  | RequestKind_Metadata b, ResponseKind_Metadata r => metadata_told s0 s1 address version b r
  | RequestKind_OffsetCommit b, ResponseKind_OffsetCommit r => committed s0 s1 b r
  | RequestKind_OffsetFetch b, ResponseKind_OffsetFetch r => offsets_fetched s0 s1 b r
  | RequestKind_FindCoordinator b, ResponseKind_FindCoordinator r => coordinator_found s0 address b r
  | RequestKind_JoinGroup b, ResponseKind_JoinGroup r => group_joined s0 s1 b version client_id r
  | RequestKind_Heartbeat b, ResponseKind_Heartbeat r => heartbeat_told s0 s1 b r
  | RequestKind_LeaveGroup b, ResponseKind_LeaveGroup r => members_left s0 s1 b version r
  | RequestKind_SyncGroup b, ResponseKind_SyncGroup r => group_synced s0 s1 b r
  | RequestKind_DescribeGroups b, ResponseKind_DescribeGroups r => groups_described s0 s1 b r
  | RequestKind_ListGroups _, ResponseKind_ListGroups r => groups_listed s0 s1 r
  | RequestKind_ApiVersions _, ResponseKind_ApiVersions r => versions_told r
  | RequestKind_CreateTopics b, ResponseKind_CreateTopics r => topics_created s0 s1 b r
  | RequestKind_InitProducerId b, ResponseKind_InitProducerId r => producer_initialised s0 s1 b r
  | RequestKind_DescribeConfigs b, ResponseKind_DescribeConfigs r => configs_described s0 s1 b r
  | RequestKind_DescribeCluster b, ResponseKind_DescribeCluster r => cluster_described s0 address b r
  | RequestKind_DescribeTopicPartitions b, ResponseKind_DescribeTopicPartitions r => partitions_described s0 s1 b r
  | _, _ => False
  end.

(** ** An answer stays true *)

Lemma acted_between_mono {A : Type} s0 s0' s1 s1' (f : Groups.Coordinator → option (A * Groups.Coordinator)) r :
  broker_extends s0' s0 → broker_extends s1 s1' → acted_between s0 s1 f r → acted_between s0' s1' f r.
Proof. intros ? ? (s & c & ? & ? & ? & ?). exists s, c. split_and!; [done|by etrans|done|by etrans]. Qed.

Section lasts.
  Context (s0 s0' s1 s1' : BrokerState).
  Context (Hbefore : broker_extends s0' s0) (Hafter : broker_extends s1 s1').

Lemma seen_lasts P : seen s0 s1 P → seen s0' s1' P.
Proof. intros (s & ? & ? & ? & ?). exists s. split_and!; [done|by etrans..|done]. Qed.

Lemma seen_impl (P P' : BrokerState → Prop) : (∀ s, P s → P' s) → seen s0 s1 P → seen s0' s1' P'.
Proof. intros HP (s & ? & ? & ? & ?%HP). apply seen_lasts. by exists s. Qed.

Lemma acted_lasts {A : Type} (f : Groups.Coordinator → option (A * Groups.Coordinator)) r :
  acted s0 s1 f r → acted s0' s1' f r.
Proof. by apply acted_between_mono. Qed.

Lemma lookup_lasts name m :
  Topics.lookup_topic (topics s1) name = Some m → Topics.lookup_topic (topics s1') name = Some m.
Proof. apply TopicsCorrect.catalog_extends_lookup, Hafter. Qed.

Lemma lookup_absent name :
  Topics.lookup_topic (topics s0) name = None → Topics.lookup_topic (topics s0') name = None.
Proof.
  intros Hn. destruct (Topics.lookup_topic (topics s0') name) as [m|] eqn:Hm; [|done].
  rewrite (TopicsCorrect.catalog_extends_lookup (topics s0') (topics s0) name m) in Hn; [done|apply Hbefore|done].
Qed.

Lemma broker_id_lasts : broker_id s0' = broker_id s0.
Proof. by destruct Hbefore as [-> _]. Qed.

Lemma Forall2_lasts {A B : Type} (P P' : A → B → Prop) l k :
  (∀ x y, P x y → P' x y) → Forall2 P l k → Forall2 P' l k.
Proof. intros HP Hl. by eapply Forall2_impl. Qed.

Local Hint Resolve seen_lasts acted_lasts lookup_lasts lookup_absent : core.

Lemma records_refused_lasts topic p e : records_refused s0 s1 topic p e → records_refused s0' s1' topic p e.
Proof. intros (records & ? & Hor). exists records. naive_solver. Qed.

Local Hint Resolve records_refused_lasts : core.

Lemma produce_refused_lasts request topic p e :
  produce_refused s0 s1 request topic p e → produce_refused s0' s1' request topic p e.
Proof. destruct e; cbn; try done; unfold no_partition in *; naive_solver. Qed.

Lemma partition_produced_lasts request topic p q :
  partition_produced s0 s1 request topic p q → partition_produced s0' s1' request topic p q.
Proof.
  intros (? & ? & ? & Hor). split_and!; [done..|].
  destruct Hor as [(? & ? & ? & records & ? & ? & ?)|(? & e & ? & He)]; [left|right].
  - do 3 (split; [done|]). exists records. split_and!; [done| |].
    + by eapply HandlersCorrect.producer_registered_extends.
    + by eapply HandlersCorrect.holds_records_extends.
  - split; [done|]. exists e. split; [done|]. by apply produce_refused_lasts.
Qed.

Lemma produced_lasts request r : produced s0 s1 request r → produced s0' s1' request r.
Proof.
  intros [? Hall]. split; [done|]. eapply Forall2_lasts; [|done]. intros t a [? Hps]. split; [done|].
  eapply Forall2_lasts; [|done]. apply partition_produced_lasts.
Qed.

Lemma partition_fetched_lasts topic max_bytes before p q :
  partition_fetched s0 s1 topic max_bytes before p q → partition_fetched s0' s1' topic max_bytes before p q.
Proof.
  intros (? & ? & ? & Hor). split_and!; [done..|].
  destruct Hor as [(? & pre & got & post & ? & ?)|(? & ? & Hor)]; [left|right].
  - split; [done|]. exists pre, got, post. eauto.
  - split_and!; [done..|]. destruct Hor as [[? ?]|[? ?]]; [left|right]; (split; [done|]); unfold no_partition in *; eauto.
Qed.

Lemma partitions_fetched_lasts topic max_bytes before ps qs :
  partitions_fetched s0 s1 topic max_bytes before ps qs → partitions_fetched s0' s1' topic max_bytes before ps qs.
Proof.
  revert before qs. induction ps as [|p ps IH]; intros before [|q qs]; try done.
  intros [? ?]. split; [by apply partition_fetched_lasts|by apply IH].
Qed.

Lemma topics_fetched_lasts max_bytes before ts rs :
  topics_fetched s0 s1 max_bytes before ts rs → topics_fetched s0' s1' max_bytes before ts rs.
Proof.
  revert before rs. induction ts as [|t ts IH]; intros before [|r rs]; try done.
  intros (? & ? & ?). split_and!; [done|by apply partitions_fetched_lasts|by apply IH].
Qed.

Lemma fetched_lasts request r : fetched s0 s1 request r → fetched s0' s1' request r.
Proof. intros (? & ? & ?). split_and!; [done..|by apply topics_fetched_lasts]. Qed.

Lemma offset_listed_lasts topic p q : offset_listed s0 s1 topic p q → offset_listed s0' s1' topic p q.
Proof. unfold offset_listed, no_partition. naive_solver eauto. Qed.

Lemma offsets_listed_lasts request r : offsets_listed s0 s1 request r → offsets_listed s0' s1' request r.
Proof.
  intros [? Hall]. split; [done|]. eapply Forall2_lasts; [|done]. intros t a [? Hps]. split; [done|].
  eapply Forall2_lasts; [|done]. apply offset_listed_lasts.
Qed.

Lemma producer_initialised_lasts request r : producer_initialised s0 s1 request r → producer_initialised s0' s1' request r.
Proof.
  unfold producer_initialised. destruct (InitProducerIdRequest_transactional_id request); [done|].
  destruct Hbefore as (_ & _ & _ & _ & ? & _), Hafter as (_ & _ & _ & _ & ? & _).
  intros [(id & ? & ? & ?)|[? ?]]; [left|right]; [|by eauto]. exists id. split_and!; [done|lia..|by eauto].
Qed.

Lemma topic_created_lasts validate_only t a :
  topic_created s0 s1 validate_only t a → topic_created s0' s1' validate_only t a.
Proof.
  unfold topic_created. case_decide; [done|]. case_decide; [done|].
  intros [(e & ? & ?)|[? Hok]]; [left; by eauto|right]. split; [by eauto|].
  destruct validate_only; [done|]. destruct Hok as (id & ? & ? & ?). exists id. eauto.
Qed.

Lemma topic_described_lasts request a : topic_described s0 s1 request a → topic_described s0' s1' request a.
Proof. unfold topic_described. rewrite broker_id_lasts. naive_solver eauto. Qed.

Lemma topics_described_lasts request version ans :
  topics_described s0 s1 request version ans → topics_described s0' s1' request version ans.
Proof.
  intros [Hall Hwhich]. split; [eapply Forall_impl; [exact Hall|]; apply topic_described_lasts|].
  destruct Hbefore as (_ & Hauto & Hforce & _). rewrite Hauto, Hforce in Hwhich. clear Hauto Hforce.
  destruct (MetadataRequest_topics request); [done|]. by apply seen_lasts.
Qed.

Lemma page_described_lasts start remaining names ans next :
  page_described s0 s1 start remaining names ans next → page_described s0' s1' start remaining names ans next.
Proof.
  revert remaining ans. induction names as [|name names IH]; intros remaining [|a ans]; try done.
  cbn [page_described]. unfold described_topic. rewrite broker_id_lasts.
  intros [(? & ? & ?)|[(? & ? & ? & ?)|(m & ? & ? & Hrest)]].
  - left. split_and!; [done..|by apply IH].
  - right. left. split_and!; [done|by eauto|done|by apply IH].
  - right. right. exists m. split_and!; [by eauto|done|]. case_decide; [done|].
    destruct names; [done|]. case_decide; [done|]. by apply IH.
Qed.

Lemma called_lasts inst f code : called s0 s1 inst f code → called s0' s1' inst f code.
Proof. unfold called. destruct inst; [done|]. naive_solver. Qed.

Lemma group_described_lasts id a : group_described s0 s1 id a → group_described s0' s1' id a.
Proof. intros (clk & d & ? & ?). exists clk, d. eauto. Qed.

Lemma join_result_lasts request known r : join_result s0 s1 request known r → join_result s0' s1' request known r.
Proof.
  intros [?|(request' & may_add & s & ? & Hor)]; [left; by eauto|right]. exists request', may_add, s.
  split; [by apply (acted_between_mono s0 s0' s s)|].
  destruct Hor as [[clk ?]|(clk & clk' & epoch & joined & s' & ? & ? & ?)].
  - left. exists clk. by apply (acted_between_mono s s s1 s1').
  - right. exists clk, clk', epoch, joined, s'. split_and!; [done| |done].
    by apply (acted_between_mono s' s' s1 s1').
Qed.

Lemma sync_result_lasts gid generation id assigned r :
  sync_result s0 s1 gid generation id assigned r → sync_result s0' s1' gid generation id assigned r.
Proof. intros [[? ?]|(clk & refresh & ?)]; [left; by eauto|right]. exists clk, refresh. eauto. Qed.

Lemma configs_described_lasts request r : configs_described s0 s1 request r → configs_described s0' s1' request r.
Proof.
  intros [? Hall]. split; [done|]. eapply Forall2_lasts; [|done]. intros x a (code & Ha & Hcode).
  exists code. split; [done|]. rewrite broker_id_lasts. case_decide; [|done].
  destruct Hcode as [[? [m ?]]|[? ?]]; [left|right]; (split; [done|]); [|by eauto]. exists m. eauto.
Qed.

Lemma answer_ok_lasts address client_id version body response :
  answer_ok address client_id version body response s0 s1 →
  answer_ok address client_id version body response s0' s1'.
Proof.
  destruct body, response; cbn [answer_ok]; try done.
  - apply produced_lasts.
  - apply fetched_lasts.
  - apply offsets_listed_lasts.
  - intros [?|(? & ans & ? & ->)]; [by left|right]. rewrite <- broker_id_lasts. split; [done|]. exists ans.
    split; [by apply topics_described_lasts|done].
  - intros (code & ? & ?). exists code. split; [by apply called_lasts|done].
  - intros (? & ? & ?). split_and!; [done..|by eauto].
  - unfold coordinator_found. by rewrite broker_id_lasts.
  - unfold group_joined. destruct (JoinGroupRequest_group_instance_id _); [done|].
    intros (r & ? & ?). exists r. split; [by apply join_result_lasts|done].
  - intros [? ?]. split; [done|by apply called_lasts].
  - intros [? Hleft]. split; [done|]. destruct (version <=? 2).
    + destruct Hleft. split; [done|by apply called_lasts].
    + destruct Hleft as [? Hall]. split; [done|]. eapply Forall2_lasts; [|done].
      intros m a (code & ? & ?). exists code. split; [done|by apply called_lasts].
  - unfold group_synced. destruct (SyncGroupRequest_group_instance_id _); [done|].
    intros (r & ? & ?). exists r. split; [by apply sync_result_lasts|done].
  - intros [? Hall]. split; [done|]. eapply Forall2_lasts; [|done]. apply group_described_lasts.
  - intros (? & ? & ?). split_and!; [done..|by eauto].
  - intros [? Hall]. split; [done|]. eapply Forall2_lasts; [|done]. apply topic_created_lasts.
  - apply producer_initialised_lasts.
  - apply configs_described_lasts.
  - unfold cluster_described. by rewrite broker_id_lasts.
  - intros (? & Hor). split; [done|]. unfold described_topic in *. rewrite broker_id_lasts.
    destruct Hor as [?|(? & all & ? & ?)]; [by left|right]. split; [done|]. exists all.
    split; [by eauto|by apply page_described_lasts].
Qed.

End lasts.

End spec.

End AnswerSpec.
