(* ===== verification/AnswerData.v ===== *)
(** * The data-path handlers answer truly

    Triples for [Handlers.produce], [fetch], [list_offsets] and
    [init_producer_id], run on the fields of a decoded request and read off the
    response message the dispatcher makes of their result: the message is one
    that [AnswerSpec] allows. *)

From S2P Require Import Prelude Types Errors MessageCodec MessagesData MessagesGroups MessagesTxn MessagesBuild.
From S2P Require Import Records Partition PartitionCorrect Producers Topics TopicsCorrect.
From S2P Require Import Broker Handlers HandlersCorrect GroupHandlers Dispatcher AnswerSpec.
Open Scope Z_scope.

Module AnswerData.
Import Partition PartitionCorrect Broker GroupHandlers HandlersCorrect Dispatcher.

Section told.
  Context `{Crc32c}.

(** ** Rules *)

Lemma seen_here s0 s1 s (P : BrokerState → Prop) :
  broker_wf s → broker_extends s0 s → broker_extends s s1 → P s → AnswerSpec.seen s0 s1 P.
Proof. intros. by exists s. Qed.

Lemma lookup_topic_name c name m :
  TopicsCorrect.catalog_wf c → Topics.lookup_topic c name = Some m → Topics.tm_name m = name.
Proof. intros (_ & Hn & _) (e & He & ->)%fmap_Some. by destruct (Hn _ _ He) as [[? _] _]. Qed.

(** A loop, each of whose rounds establishes something about its own time. *)
Lemma wp_rounds {A B : Type} (body : A → prog B) (l : list A)
    (Q : A → B → BrokerState → BrokerState → Prop) s :
  (∀ x r s0 s0' s1 s1', broker_extends s0' s0 → broker_extends s1 s1' → Q x r s0 s1 → Q x r s0' s1') →
  (∀ x s', x ∈ l → broker_extends s s' → wp (body x) (λ r, Q x r s') s') →
  wp (for_each body l) (λ rs s', Forall2 (λ x r, Q x r s s') l rs) s.
Proof.
  intros HQ Hbody. apply (wp_for_each body l (λ x r, Q x r s)).
  - intros x r s1 s2 Hext. by apply HQ.
  - intros x s' Hx Hext. eapply wp_mono; [|by apply Hbody]. intros r s1 Hext1. by apply HQ.
Qed.

Lemma for_each_map {A B C : Type} (f : A → B) (body : B → prog C) l :
  for_each body (map f l) = for_each (λ x, body (f x)) l.
Proof. induction l as [|x l IH]; [done|]. cbn [map for_each]. by rewrite IH. Qed.

(** ** Produce *)

Section produce.
  Context (request : ProduceRequest).
  Context (Hacks : -1 ≤ ProduceRequest_acks request ≤ 1).
  Context (Htxn : ProduceRequest_transactional_id request = None).
  Context (topic : string) (p : PartitionProduceData).

Let index : Z := PartitionProduceData_index p.

Lemma refused_produced e s0 s1 :
  AnswerSpec.produce_refused s0 s1 request topic p e →
  AnswerSpec.partition_produced s0 s1 request topic p (produced_partition (Handlers.produce_error index e)).
Proof. intros He. split_and!; [done..|]. right. split; [done|]. by exists e. Qed.

Lemma append_records_told records s :
  PartitionProduceData_records p = Some records →
  is_Some (Topics.partition (topics s) topic index) → producer_registered (producers s) records →
  wp (Handlers.append_records topic index records)
    (λ r s', AnswerSpec.partition_produced s s' request topic p (produced_partition r)) s.
Proof.
  intros Hrec Hpart Hprod. unfold Handlers.append_records. apply wp_bind, wp_atomically.
  intros s1 Hwf1 Hext1. destruct (partition_extends _ _ _ _ Hext1 Hpart) as [log Hl]. rewrite Hl. cbn [panic_bind].
  pose proof (producer_registered_extends _ _ _ Hext1 Hprod) as Hprod1.
  destruct (append_step s1 topic index log records Hwf1 Hl Hprod1) as (r & log' & Happ & Hwf2 & Hext2 & Hr).
  rewrite Happ. cbn [panic_bind fst snd]. do 2 eexists. split_and!; [done|exact Hwf2|exact Hext2|].
  assert (∀ e, r = Err e → AnswerSpec.records_refused s
    (with_topics s1 (Topics.with_partition (topics s1) topic index log')) topic p e) as Hrefused.
  { intros e ->. pose proof (append_error _ _ _ _ Happ) as ->. exists records. split; [done|]. right.
    apply (seen_here _ _ s1); [done..|]. by exists log. }
  destruct r as [res|[]]; try (apply refused_produced; cbn; by auto). apply wp_bind.
  assert (∀ s3, broker_extends (with_topics s1 (Topics.with_partition (topics s1) topic index log')) s3 →
    AnswerSpec.partition_produced s s3 request topic p (produced_partition
      (Handlers.mkPartitionProduceResponse index 0 (ar_base_offset res) (-1) 0))) as Hdone.
  { intros s3 Hext3. split_and!; [done..|]. left. do 3 (split; [done|]). exists records. split_and!; [done| |].
    - by do 2 (eapply producer_registered_extends; [done|]).
    - by eapply holds_records_extends. }
  destruct (ar_appended res); cbn; [|by apply Hdone].
  intros s3 Hwf3 Hext3. split_and!; [by apply notify_append_wf|apply notify_append_extends|].
  apply Hdone. etrans; [done|apply notify_append_extends].
Qed.

Lemma produce_partition_told s :
  wp (Handlers.produce_partition topic
      (Handlers.mkPartitionProduceData index (PartitionProduceData_records p)))
    (λ r s', AnswerSpec.partition_produced s s' request topic p (produced_partition r)) s.
Proof.
  unfold Handlers.produce_partition. cbn [Handlers.ppd_index Handlers.ppd_records].
  apply wp_bind, wp_read. intros s1 Hwf1 Hext1.
  case_bool_decide as Hpart; cbn [negb].
  2: { apply refused_produced, (seen_here _ _ s1); [done..|]. by apply eq_None_not_Some. }
  destruct (PartitionProduceData_records p) as [records|] eqn:Hrec; [|by apply refused_produced; left].
  assert (∀ s', broker_extends s s' → is_Some (Topics.partition (topics s') topic index) →
    producer_registered (producers s') records → wp (Handlers.append_records topic index records)
      (λ r s2, AnswerSpec.partition_produced s s2 request topic p (produced_partition r)) s') as Happend.
  { intros s' Hext' Hpart' Hprod'. eapply wp_mono; [|by apply append_records_told].
    intros r s2 _. by apply AnswerSpec.partition_produced_lasts. }
  destruct (record_set_producer_cases records) as (r & Hr & Hcases). rewrite Hr. cbn [unwrap bind].
  destruct r as [[prod|]|e].
  - apply wp_bind, wp_read. intros s2 Hwf2 Hext2.
    assert (broker_extends s s2) as Hext12 by (by etrans).
    pose proof Hwf2 as (_ & Hprod & _). rewrite (Producers.validate_spec _ _ _ Hprod).
    case_decide as Hid; [case_decide as Hep|].
    + apply Happend; [done|by apply (partition_extends s1)|].
      intros prod' Hprod'. rewrite Hr in Hprod'. by injection Hprod' as <-.
    + apply refused_produced. exists prod. split; [by exists records|done].
    + apply refused_produced. exists prod. split; [by exists records|].
      by apply (seen_here _ _ s2).
  - apply Happend; [done..|]. intros prod' Hprod'. congruence.
  - assert (validate_record_set records = Some (Err e)) as Hv.
    { revert Hr. unfold record_set_producer. destruct (validate_record_set records) as [[vs|e']|];
        cbn [outcome_bind]; [|by intros [= ->]|done].
      destruct (head vs); cbn; [|done]. intros [=]. }
    destruct Hcases as [->| ->]; apply refused_produced; [right; left|right]; exists records; auto.
Qed.

End produce.

Definition topic_fields (t : TopicProduceData) : Handlers.TopicProduceData :=
  Handlers.mkTopicProduceData (to_str (TopicProduceData_name t))
    (map (λ p, Handlers.mkPartitionProduceData (PartitionProduceData_index p) (PartitionProduceData_records p))
      (TopicProduceData_partition_data t)).

(** The errors that hit all partitions of a topic. *)
Lemma get_or_auto_create_seen new_v4 name allow s :
  TopicsCorrect.UniqueUuids new_v4 →
  wp (Handlers.get_or_auto_create new_v4 name allow) (λ r s',
    match r with
    | Err e => e = Topics.InvalidName ∧ Topics.validate_name name = Err Topics.InvalidName
    | Ok None => AnswerSpec.seen s s' (λ s, Topics.lookup_topic (topics s) name = None)
    | Ok (Some _) => True
    end) s.
Proof.
  intros Hu. unfold Handlers.get_or_auto_create. apply wp_bind, wp_read. intros s1 Hwf1 Hext1.
  pose proof (TopicsCorrect.auto_create_read_spec (topics s1) name allow) as Hread.
  destruct (Topics.auto_create_read (topics s1) name allow) as [r|].
  { destruct r as [[m|]|e]; [done| |done]. destruct Hread as (_ & _ & ?). by apply (seen_here _ _ s1). }
  destruct Hread as (Hname & _ & _). apply wp_atomically. intros s2 Hwf2 Hext2.
  destruct (TopicsCorrect.auto_create_write_spec new_v4 (topics s2) name Hu (proj1 Hwf2) Hname)
    as (m & c' & -> & Hcwf & Hcext & Hl & Hcases). cbn [panic_bind fst snd].
  do 2 eexists. split_and!; [done| |by apply with_topics_extends|done].
  destruct Hcases as [(_ & ->)|(_ & _ & d & -> & _)]; [by destruct s2|by apply new_topic_wf].
Qed.

Lemma no_topic_no_partition c topic index :
  Topics.lookup_topic c topic = None → Topics.partition c topic index = None.
Proof.
  intros Hl. apply eq_None_not_Some. intros [log (_ & e & He & _)%TopicsCorrect.partition_Some].
  unfold Topics.lookup_topic in Hl. by rewrite He in Hl.
Qed.

Lemma produce_topic_error_told new_v4 request topic s :
  TopicsCorrect.UniqueUuids new_v4 →
  wp (Handlers.produce_topic_error new_v4 topic (Handlers.produce_request_error (produce_fields request)))
    (λ r s', match r with
      | Some e => ∀ p, AnswerSpec.produce_refused s s' request (Handlers.tpd_name topic) p e
      | None => -1 ≤ ProduceRequest_acks request ≤ 1 ∧ ProduceRequest_transactional_id request = None
      end) s.
Proof.
  intros Hu. unfold Handlers.produce_request_error.
  change (Handlers.pr_acks (produce_fields request)) with (ProduceRequest_acks request).
  change (Handlers.pr_transactional_id (produce_fields request)) with (to_str <$> ProduceRequest_transactional_id request).
  case_bool_decide as Hacks; cbn [negb]; [|by intros p].
  case_bool_decide as Htxn.
  { cbn. intros p. left. by apply fmap_is_Some in Htxn. }
  cbn [Handlers.produce_topic_error]. apply wp_bind, wp_read. intros s1 Hwf1 Hext1. apply wp_bind.
  eapply wp_mono; [|by apply get_or_auto_create_seen]. intros r s2 Hext2 Hr.
  destruct r as [[m|]|e]; cbn in Hr |- *.
  - split; [done|]. destruct (ProduceRequest_transactional_id request); [|done]. destruct Htxn. by eexists.
  - intros p. eapply (AnswerSpec.seen_impl s1 s s2 s2); [done|done| |exact Hr].
    intros s'. apply no_topic_no_partition.
  - destruct Hr as [-> Hname]. cbn. done.
Qed.

Lemma produce_topic_told new_v4 request t s :
  TopicsCorrect.UniqueUuids new_v4 →
  wp (Handlers.produce_topic new_v4 (topic_fields t) (Handlers.produce_request_error (produce_fields request)))
    (λ r s', Handlers.tpr_name r = to_str (TopicProduceData_name t) ∧
      Forall2 (λ p q, AnswerSpec.partition_produced s s' request (to_str (TopicProduceData_name t)) p
          (produced_partition q))
        (TopicProduceData_partition_data t) (Handlers.tpr_partition_responses r)) s.
Proof.
  intros Hu. unfold Handlers.produce_topic. apply wp_bind.
  eapply wp_mono; [|by apply produce_topic_error_told]. intros e s1 Hext1 He. apply wp_bind.
  cbn [topic_fields Handlers.tpd_name Handlers.tpd_partition_data]. rewrite for_each_map.
  eapply wp_mono; [|apply (wp_for_each _ _ (λ p q s', AnswerSpec.partition_produced s s' request
    (to_str (TopicProduceData_name t)) p (produced_partition q)))].
  - by intros rs s2 _ Hrs.
  - intros p q s2 s2' Hext2. by apply AnswerSpec.partition_produced_lasts.
  - intros p s2 _ Hext2. cbn. destruct e as [e|].
    + apply refused_produced, (AnswerSpec.produce_refused_lasts s s s1 s2); [done..|]. exact (He p).
    + destruct He as [Hacks Htxn]. eapply wp_mono; [|by apply produce_partition_told].
      intros q s3 _. apply AnswerSpec.partition_produced_lasts; [by etrans|done].
Qed.

Lemma produce_told new_v4 request s :
  TopicsCorrect.UniqueUuids new_v4 →
  wp (Handlers.produce new_v4 (produce_fields request))
    (λ r s', AnswerSpec.produced s s' request (produce_answer r)) s.
Proof.
  intros Hu. unfold Handlers.produce. apply wp_bind.
  change (Handlers.pr_topic_data (produce_fields request)) with (map topic_fields (ProduceRequest_topic_data request)).
  rewrite for_each_map.
  eapply wp_mono; [|apply (wp_rounds _ _ (λ t r s0 s1, Handlers.tpr_name r = to_str (TopicProduceData_name t) ∧
      Forall2 (λ p q, AnswerSpec.partition_produced s0 s1 request (to_str (TopicProduceData_name t)) p
        (produced_partition q)) (TopicProduceData_partition_data t) (Handlers.tpr_partition_responses r)))].
  - intros rs s1 _ Hrs. split; [done|]. apply Forall2_fmap_r. eapply Forall2_impl; [exact Hrs|].
    intros t r [Hn Hps]. split; [cbn; by rewrite Hn, of_to_str|]. by apply Forall2_fmap_r.
  - intros t r s0 s0' s2 s2' H0 H2 [? Hps]. split; [done|]. eapply Forall2_impl; [exact Hps|]. intros p q.
    by apply AnswerSpec.partition_produced_lasts.
  - intros t s1 _ _. by apply produce_topic_told.
Qed.

(** ** Fetch *)

Lemma to_usize_max n : Handlers.to_usize n = Z.max 0 n.
Proof. unfold Handlers.to_usize, try_unsigned. case_decide; cbn; lia. Qed.

(** The records of an answer, and whether the request's limit drops them. *)
Lemma account_partition_eq max_bytes before valid response records :
  0 ≤ before ≤ usize_max → max_bytes ≤ usize_max → len records ≤ usize_max →
  Handlers.pd_records response = Some records →
  let kept := if decide (0 < before ∧ max_bytes < before + len records) then [] else records in
  ∃ valid', Handlers.account_partition max_bytes before valid response =
    (Handlers.mkPartitionData (Handlers.pd_partition_index response) (Handlers.pd_error_code response)
      (Handlers.pd_high_watermark response) (Handlers.pd_last_stable_offset response) (Some kept),
     before + len kept, valid') ∧ before + len kept ≤ usize_max.
Proof.
  intros Hb Hmax Hlen Hrec kept. unfold Handlers.account_partition. rewrite Hrec.
  set (valid' := if decide _ then valid + 1 else valid). exists valid'. pose proof (len_nonneg records).
  assert (bool_decide (0 < before) && match checked_add usize_max before (len records) with
    | None => true | Some size => bool_decide (max_bytes < size) end =
    bool_decide (0 < before ∧ max_bytes < before + len records)) as Hx.
  { apply eq_bool_prop_intro. rewrite andb_True, !bool_decide_spec.
    destruct (checked_add _ _ _) as [size|] eqn:Hsize.
    - apply checked_add_Some in Hsize as [-> _]. by rewrite bool_decide_spec.
    - unfold checked_add in Hsize. case_decide; [done|]. split; [intros [? _]|intros [? _]; done]. split; [done|lia]. }
  rewrite Hx. subst kept. destruct (decide (0 < before ∧ max_bytes < before + len records)) as [Hd|Hd].
  - rewrite bool_decide_true by done. change (len []) with 0. rewrite Z.add_0_r. split; [done|lia].
  - assert (before + len records ≤ usize_max) as Hle.
    { destruct (decide (before = 0)); [lia|]. destruct (decide (max_bytes < before + len records)); [|lia].
      destruct Hd. lia. }
    split; [|done]. rewrite bool_decide_false by done. unfold saturating_add. rewrite Z.min_r by done.
    rewrite <- Hrec. by destruct response.
Qed.

Lemma kept_nil {A : Type} (P : Prop) `{Decision P} : (if decide P then [] else ([] : list A)) = [].
Proof. by case_decide. Qed.

Lemma fetched_len log o limit pre got post :
  log_wf log → limit ≤ usize_max → PartitionCorrect.fetched log o limit pre got post →
  len (bytes_of got) ≤ usize_max.
Proof.
  intros (_ & _ & Hst & _) Hlimit (Hb & _ & _ & Hsize & _). destruct Hsize as [Hone|Hlen]; [|lia].
  rewrite Hb in Hst. apply Forall_app in Hst as [_ [Hst _]%Forall_app].
  destruct Hst as [|b got Hok _]; [done|]. destruct got; [|cbn in Hone; lia].
  rewrite bytes_of_cons, len_app. apply stored_batch_len in Hok.
  unfold i32_max, usize_max in *. change (len (bytes_of [])) with 0. lia.
Qed.

Definition fetch_partition_fields (p : FetchRequest_FetchPartition) : Handlers.FetchPartition :=
  Handlers.mkFetchPartition (FetchRequest_FetchPartition_partition p)
    (FetchRequest_FetchPartition_fetch_offset p) (FetchRequest_FetchPartition_partition_max_bytes p).

Definition fetch_topic_fields (t : FetchRequest_FetchTopic) : Handlers.FetchTopic :=
  Handlers.mkFetchTopic (to_str (FetchRequest_FetchTopic_topic t))
    (map fetch_partition_fields (FetchRequest_FetchTopic_partitions t)).

(** One partition, with the records the request's limit leaves it. *)
Lemma fetch_partition_told topic max_bytes before valid p s :
  0 ≤ before ≤ usize_max → max_bytes ≤ usize_max →
  let limit := Z.min (Z.max 0 (FetchRequest_FetchPartition_partition_max_bytes p)) (Z.max 0 (max_bytes - before)) in
  wp (Handlers.fetch_partition_response topic (fetch_partition_fields p) limit) (λ r s',
    ∃ r' before' valid', Handlers.account_partition max_bytes before valid r = (r', before', valid') ∧
      AnswerSpec.partition_fetched s s' topic max_bytes before p (fetched_data r') ∧
      before' = before + AnswerSpec.record_bytes (fetched_data r') ∧ 0 ≤ before' ≤ usize_max) s.
Proof.
  intros Hb Hmax limit. unfold Handlers.fetch_partition_response. apply wp_bind, wp_read. intros s1 Hwf1 Hext1.
  assert (∀ r records s', Handlers.pd_records r = Some records → len records ≤ usize_max →
    AnswerSpec.partition_fetched s s' topic max_bytes before p (fetched_data
      (Handlers.mkPartitionData (Handlers.pd_partition_index r) (Handlers.pd_error_code r)
        (Handlers.pd_high_watermark r) (Handlers.pd_last_stable_offset r)
        (Some (if decide (0 < before ∧ max_bytes < before + len records) then [] else records)))) →
    ∃ r' before' valid', Handlers.account_partition max_bytes before valid r = (r', before', valid') ∧
      AnswerSpec.partition_fetched s s' topic max_bytes before p (fetched_data r') ∧
      before' = before + AnswerSpec.record_bytes (fetched_data r') ∧ 0 ≤ before' ≤ usize_max) as Haccount.
  { intros r records s' Hrec Hlen Hr.
    destruct (account_partition_eq max_bytes before valid r records Hb Hmax Hlen Hrec) as (valid' & Ha & Hle).
    eexists _, _, _. split_and!; [exact Ha|exact Hr|done| |done]. pose proof (len_nonneg
      (if decide (0 < before ∧ max_bytes < before + len records) then [] else records)). lia. }
  cbn [fetch_partition_fields Handlers.fp_partition Handlers.fp_fetch_offset].
  case_bool_decide as Hpart; cbn [negb].
  2: { apply (Haccount _ []); [done..|]. rewrite kept_nil. split_and!; [done..|]. right. split; [done|].
    split; [done|]. left. split; [done|]. apply (seen_here _ _ s1); [done..|].
    by apply eq_None_not_Some. }
  apply wp_atomically. intros s2 Hwf2 Hext2.
  destruct (partition_extends _ _ _ _ Hext2 Hpart) as [log Hl]. rewrite Hl. cbn [panic_bind].
  pose proof Hwf2 as (_ & _ & _ & Hlogs). destruct (Hlogs _ _ _ Hl) as [Hlwf _].
  assert (broker_extends s s2) as Hext by (by etrans). assert (limit ≤ usize_max) as Hlimit by lia.
  destruct (decide (0 ≤ FetchRequest_FetchPartition_fetch_offset p ≤ next_offset log)) as [Ho|Ho].
  - destruct (fetch_in_range log _ limit Hlwf Ho Hlimit) as (pre & got & post & Hf & ->). cbn [panic_bind].
    do 2 eexists. split_and!; [done..|]. eapply Haccount; [done|by eapply fetched_len|].
    split_and!; [done..|]. left. split; [done|]. exists pre, got, post. split; [|done].
    apply (seen_here _ _ s2); [done..|]. by exists log.
  - unfold Partition.fetch. rewrite decide_True by lia. cbn [panic_bind raise].
    do 2 eexists. split_and!; [done..|]. apply (Haccount _ []); [done..|]. rewrite kept_nil.
    split_and!; [done..|]. right. split; [done|]. split; [done|]. right. split; [done|]. apply (seen_here _ _ s2); [done..|].
    by exists log.
Qed.

Lemma snapshot_partitions_told topic max_bytes before valid ps s :
  0 ≤ before ≤ usize_max → 0 ≤ max_bytes ≤ usize_max →
  wp (Handlers.snapshot_partitions topic max_bytes before valid (map fetch_partition_fields ps))
    (λ '(rs, before', _) s',
      AnswerSpec.partitions_fetched s s' topic max_bytes before ps (map fetched_data rs) ∧
      before' = before + foldr Z.add 0 (AnswerSpec.record_bytes <$> map fetched_data rs) ∧
      0 ≤ before' ≤ usize_max) s.
Proof.
  intros Hb Hmax. revert before valid s Hb.
  induction ps as [|p ps IH]; intros before valid s Hb; cbn [map Handlers.snapshot_partitions].
  { cbn. split; [done|]. lia. }
  apply wp_bind. rewrite to_usize_max. unfold saturating_sub.
  eapply wp_mono; [|apply (fetch_partition_told topic max_bytes before valid p); lia].
  intros r s1 Hext1 (r' & before' & valid' & -> & Hr & Hb' & Hle). cbv beta iota.
  apply wp_bind. eapply wp_mono; [|by apply IH].
  intros [[rs before2] valid2] s2 Hext2 (Hrs & Hb2 & Hle2). cbn. split; [split|].
  - by eapply AnswerSpec.partition_fetched_lasts; [..|exact Hr].
  - rewrite <- Hb'. by eapply AnswerSpec.partitions_fetched_lasts; [..|exact Hrs].
  - cbn in Hb2. lia.
Qed.

Definition fetched_topic (t : Handlers.FetchableTopicResponse) : FetchableTopicResponse :=
  FetchableTopicResponse_default
    ▷ FetchableTopicResponse_with_topic (of_str (Handlers.ftr_topic t))
    ▷ FetchableTopicResponse_with_partitions (map fetched_data (Handlers.ftr_partitions t)).

Lemma snapshot_topics_told max_bytes before valid ts s :
  0 ≤ before ≤ usize_max → 0 ≤ max_bytes ≤ usize_max →
  wp (Handlers.snapshot_topics max_bytes before valid (map fetch_topic_fields ts))
    (λ '(rs, _, _) s', AnswerSpec.topics_fetched s s' max_bytes before ts (map fetched_topic rs)) s.
Proof.
  intros Hb Hmax. revert before valid s Hb.
  induction ts as [|t ts IH]; intros before valid s Hb; cbn [map Handlers.snapshot_topics]; [done|].
  apply wp_bind. eapply wp_mono; [|by apply snapshot_partitions_told].
  intros [[rs before1] valid1] s1 Hext1 (Hrs & Hb1 & Hle). apply wp_bind. eapply wp_mono; [|by apply IH].
  intros [[rest before2] valid2] s2 Hext2 Hrest. cbn. split_and!.
  - apply of_to_str.
  - by eapply AnswerSpec.partitions_fetched_lasts; [..|exact Hrs].
  - rewrite <- Hb1. by eapply AnswerSpec.topics_fetched_lasts; [..|exact Hrest].
Qed.

Lemma snapshot_told request s :
  in_signed 32 (FetchRequest_max_bytes request) →
  wp (Handlers.snapshot (fetch_fields request))
    (λ snap s', AnswerSpec.fetched s s' request (fetch_answer (Handlers.fsn_response snap))) s.
Proof.
  intros Hmax. unfold Handlers.snapshot. apply wp_bind.
  change (Handlers.fr_max_bytes (fetch_fields request)) with (FetchRequest_max_bytes request).
  change (Handlers.fr_topics (fetch_fields request)) with (map fetch_topic_fields (FetchRequest_topics request)).
  rewrite to_usize_max. eapply wp_mono; [|apply snapshot_topics_told].
  - intros [[rs b] v] s1 _ Hrs. split_and!; [done..|]. exact Hrs.
  - unfold usize_max. lia.
  - unfold in_signed, usize_max in *. simpl in Hmax. lia.
Qed.

(** One pass of the loop of a fetch; it waits only before the deadline. *)
Lemma fetch_once_told request passed s :
  in_signed 32 (FetchRequest_max_bytes request) →
  wp (Handlers.fetch_once (fetch_fields request) passed) (λ pass s',
    match pass with
    | Handlers.FetchReturn r => AnswerSpec.fetched s s' request (fetch_answer r)
    | Handlers.FetchWait _ r => AnswerSpec.fetched s s' request (fetch_answer r) ∧ passed = false
    end) s.
Proof.
  intros Hmax. unfold Handlers.fetch_once. apply wp_bind, wp_read. intros s1 Hwf1 Hext1.
  apply wp_bind. eapply wp_mono; [|by apply snapshot_told]. intros snap s2 _ Hsnap.
  pose proof (AnswerSpec.fetched_lasts s1 s s2 s2 Hext1 ltac:(done) _ _ Hsnap).
  destruct (_ || passed) eqn:Hreturn; cbn; [done|]. by apply orb_false_iff in Hreturn as [_ ->].
Qed.

(** ** ListOffsets *)

Definition listed_partition (p : Handlers.ListOffsetsPartitionResponse) : ListOffsetsPartitionResponse :=
  mkListOffsetsPartitionResponse (Handlers.lor_partition_index p) (Handlers.lor_error_code p)
    (Handlers.lor_timestamp p) (Handlers.lor_offset p) (Handlers.lor_leader_epoch p) ∅.

Lemma list_offsets_partition_told topic p s :
  wp (Handlers.list_offsets_partition topic (Handlers.mkListOffsetsPartition
      (ListOffsetsPartition_partition_index p) (ListOffsetsPartition_timestamp p)))
    (λ r s', AnswerSpec.offset_listed s s' topic p (listed_partition r)) s.
Proof.
  unfold Handlers.list_offsets_partition. cbn [Handlers.lop_partition_index Handlers.lop_timestamp].
  apply wp_bind, wp_read. intros s1 Hwf1 Hext1. case_bool_decide as Hpart; cbn [negb].
  2: { left. split; [done|]. apply (seen_here _ _ s1); [done..|]. by apply eq_None_not_Some. }
  destruct Hpart as [log Hl]. case_decide as Hfirst; [|case_decide as Hlast].
  - right. left. split_and!; [done..|]. apply (seen_here _ _ s1); [done..|]. by exists log.
  - apply wp_bind, wp_atomically. intros s2 Hwf2 Hext2.
    destruct (partition_extends _ _ _ _ Hext2 (mk_is_Some _ _ Hl)) as [log2 Hl2]. rewrite Hl2. cbn [panic_bind].
    do 2 eexists. split_and!; [done..|]. right. right. left. split; [done|]. eexists. split; [done|].
    apply (seen_here _ _ s2); [done|by etrans|done|]. by exists log2.
  - right. right. right. split_and!; [done..|]. apply (seen_here _ _ s1); [done..|]. by exists log.
Qed.

Lemma list_offsets_told request s :
  wp (Handlers.list_offsets (list_offsets_fields request))
    (λ r s', AnswerSpec.offsets_listed s s' request (list_offsets_answer r)) s.
Proof.
  unfold Handlers.list_offsets, list_offsets_fields. rewrite for_each_map.
  eapply wp_mono; [|apply (wp_rounds _ _ (λ t r s0 s1, Handlers.lotr_name r = to_str (ListOffsetsTopic_name t) ∧
      Forall2 (λ p q, AnswerSpec.offset_listed s0 s1 (to_str (ListOffsetsTopic_name t)) p (listed_partition q))
        (ListOffsetsTopic_partitions t) (Handlers.lotr_partitions r)))].
  - intros rs s1 _ Hrs. split; [done|]. apply Forall2_fmap_r. eapply Forall2_impl; [exact Hrs|].
    intros t r [Hn Hps]. split; [cbn; by rewrite Hn, of_to_str|]. by apply Forall2_fmap_r.
  - intros t r s0 s0' s2 s2' H0 H2 [? Hps]. split; [done|]. eapply Forall2_impl; [exact Hps|]. intros p q.
    by apply AnswerSpec.offset_listed_lasts.
  - intros t s1 _ _. apply wp_bind. cbn [Handlers.lot_name Handlers.lot_partitions]. rewrite for_each_map.
    eapply wp_mono; [|apply (wp_rounds _ _ (λ p q s0 s1, AnswerSpec.offset_listed s0 s1
      (to_str (ListOffsetsTopic_name t)) p (listed_partition q)))].
    + by intros rs s2 _ Hrs.
    + intros p q s0 s0' s2 s2' ? ?. by apply AnswerSpec.offset_listed_lasts.
    + intros p s2 _ _. apply list_offsets_partition_told.
Qed.

(** ** InitProducerId *)

Lemma init_producer_id_told request s :
  wp (Handlers.init_producer_id (to_str <$> InitProducerIdRequest_transactional_id request))
    (λ r s', AnswerSpec.producer_initialised s s' request (init_producer_id_answer r)) s.
Proof.
  unfold Handlers.init_producer_id, AnswerSpec.producer_initialised.
  destruct (InitProducerIdRequest_transactional_id request) as [id|]; [by rewrite decide_True by (by eexists)|].
  rewrite decide_False by (by intros [? ?]). apply wp_bind, wp_atomically. intros s1 Hwf1 Hext1.
  pose proof (allocate_broker_wf s1 Hwf1) as Hwf2.
  pose proof (Producers.allocate_next (producers s1)) as Hnext.
  pose proof Hwf1 as (_ & [Hn _] & _). pose proof Hext1 as (_ & _ & _ & _ & Hids & _).
  destruct (Producers.allocate (producers s1)) as [r p] eqn:Ha. cbn [snd] in *.
  assert (broker_extends s1 (with_producers s1 p)) as Hext2 by (split_and!; try done; cbn; lia).
  do 2 eexists. split_and!; [done..|]. unfold Producers.allocate in Ha.
  destruct (checked_add _ _ _) as [id|] eqn:Hid.
  - apply checked_add_Some in Hid as [-> _]. injection Ha as <- <-. left. eexists. split; [done|].
    split; [cbn; lia|]. by apply (seen_here _ _ s1).
  - injection Ha as <- <-. right. split; [done|]. apply (seen_here _ _ s1); [done..|].
    unfold checked_add in Hid. case_decide; [done|]. lia.
Qed.

End told.
End AnswerData.
