(* ===== verification/AnswerGroups.v ===== *)
(** * The group and cluster handlers answer truly

    The handlers of [GroupHandlers] return response messages that [AnswerSpec]
    allows: what they say of a group comes from a critical section of the
    coordinator that ran while the request was handled. *)

From stdpp Require Import pretty.
From S2P Require Import Prelude Config Types Errors MessageCodec MessagesData MessagesGroups MessagesBuild.
From S2P Require Import Capabilities Records Topics TopicsCorrect Groups GroupsCorrect Broker.
From S2P Require Import GroupHandlers GroupHandlersCorrect AnswerSpec AnswerData.
Open Scope Z_scope.

Module AnswerGroups.
Import Broker GroupHandlers GroupHandlersCorrect.

Section told.
  Context `{Records.Crc32c}.
  Context (time : nat → Groups.clock).

(** ** Critical sections *)

Lemma wp_section {A : Type} (f : Groups.Coordinator → option (A * Groups.Coordinator)) (P : A → Prop) Q s :
  section_ok f P →
  (∀ a s', P a → broker_extends s s' → AnswerSpec.acted s s' f a → Q a s') → wp (on_groups f) Q s.
Proof.
  intros Hf HQ. apply wp_atomically. intros s1 Hwf Hext.
  destruct (Hf (groups s1)) as (a & c' & Ha & Hwf' & Hk & HP); [apply Hwf|]. rewrite Ha.
  pose proof (with_groups_extends s1 c' Hk) as Hext'.
  exists a, (with_groups s1 c'). split_and!; [done|by apply with_groups_wf|done|].
  apply HQ; [done|by etrans|]. by exists s1, c'.
Qed.

(** A section of a group that was looked up before. *)
Definition entry_section {A : Type} (gid : string) (f : Groups.Group → option (A * Groups.Group))
    (c : Groups.Coordinator) : option (A * Groups.Coordinator) :=
  let! g := Groups.groups c !! gid in let! r := f g in Some (r.1, Groups.with_group c gid r.2).

Lemma wp_entry {A : Type} gid (f : Groups.Group → option (A * Groups.Group)) Q s :
  group_exists gid s →
  (∀ g, GroupsCorrect.group_wf g → ∃ a g', f g = Some (a, g') ∧ GroupsCorrect.group_wf g') →
  (∀ a s', broker_extends s s' → group_exists gid s' → AnswerSpec.acted s s' (entry_section gid f) a → Q a s') →
  wp (on_entry gid f) Q s.
Proof.
  intros Hex Hf HQ. apply wp_atomically. intros s1 Hwf Hext.
  destruct (group_exists_extends _ _ _ Hext Hex) as [g Hg]. rewrite Hg. cbn [panic_bind].
  destruct (Hf g) as (a & g' & Ha & Hg'); [by eapply Hwf|]. rewrite Ha. cbn [panic_bind fst snd].
  pose proof (with_groups_extends s1 _ (with_group_kept (groups s1) gid g')) as Hext'.
  eexists _, _. split_and!; [done| |exact Hext'|].
  - apply with_groups_wf; [done|]. apply with_group_wf; [apply Hwf|done].
  - apply HQ; [by etrans| |].
    + unfold group_exists. cbn. rewrite lookup_insert_eq. by eexists.
    + eexists s1, _. unfold entry_section. rewrite Hg. cbn [panic_bind]. rewrite Ha. by split_and!.
Qed.

Lemma error_code_eq {A : Type} (r : result Groups.GroupError A) : error_code r = AnswerSpec.group_code r.
Proof. by destruct r as [|[]]. Qed.

(** A call that is refused to static members. *)
Lemma wp_called (instance : option (list byte))
    (f : Groups.clock → Groups.Coordinator → result Groups.GroupError () * Groups.Coordinator) i s :
  section_ok (λ c, Some (f (time i) c)) (λ _, True) →
  wp (if decide (is_Some instance) then Ret (Errors.code Errors.UnsupportedVersion)
      else do r <- on_groups (λ c, Some (f (time i) c)); Ret (error_code r))
    (λ code s', AnswerSpec.called s s' instance f code) s.
Proof.
  intros Hf. destruct instance as [id|]; [by rewrite decide_True by (by eexists)|].
  rewrite decide_False by (by intros [? ?]). apply wp_bind. eapply wp_section; [exact Hf|].
  intros r s' _ _ Hr. exists (time i), r. split; [done|apply error_code_eq].
Qed.

(** ** Heartbeat, LeaveGroup and OffsetCommit *)

Lemma heartbeat_answered request s :
  wp (heartbeat time request) (λ r s', AnswerSpec.heartbeat_told s s' request r) s.
Proof.
  apply wp_bind. eapply wp_mono; [|apply (wp_called _ (λ clk c, Groups.heartbeat clk c _ _ _)), heartbeat_section].
  intros code s' _ Hc. by split.
Qed.

Lemma leave_members_answered i gid members s :
  wp (leave_members time i gid members) (λ rs s', Forall2 (λ m a, ∃ code,
      a = mkMemberResponse (MemberIdentity_member_id m) None code ∅ ∧
      AnswerSpec.called s s' (MemberIdentity_group_instance_id m)
        (λ clk c, Groups.leave clk c gid (to_str (MemberIdentity_member_id m))) code) members rs) s.
Proof.
  revert i s. induction members as [|m members IH]; intros i s; cbn [leave_members]; [by constructor|].
  apply wp_bind. eapply wp_mono; [|apply (wp_called _ (λ clk c, Groups.leave clk c _ _)), leave_section].
  intros code s1 Hext1 Hc. apply wp_bind. eapply wp_mono; [|apply IH]. intros rs s2 Hext2 Hrs.
  constructor.
  - exists code. split; [done|]. by eapply AnswerSpec.called_lasts; [..|exact Hc].
  - eapply Forall2_impl; [exact Hrs|]. intros m' a (code' & ? & ?). exists code'. split; [done|].
    by apply (AnswerSpec.called_lasts s1 s s2 s2).
Qed.

Lemma leave_group_answered request version s :
  wp (leave_group time request version) (λ r s', AnswerSpec.members_left s s' request version r) s.
Proof.
  unfold leave_group, AnswerSpec.members_left. destruct (version <=? 2).
  - apply wp_bind. eapply wp_section; [apply leave_section|]. intros r s' _ _ Hr. split; [done|]. split; [done|].
    exists (time 0), r. split; [done|apply error_code_eq].
  - apply wp_bind. eapply wp_mono; [|apply leave_members_answered]. intros rs s' _ Hrs. by split_and!.
Qed.

Lemma offset_commit_answered request s :
  wp (offset_commit time request) (λ r s', AnswerSpec.committed s s' request r) s.
Proof.
  apply wp_bind.
  eapply wp_mono; [|apply (wp_called _ (λ clk c, Groups.commit_offsets clk c _ _ _ _)), commit_section].
  intros code s' _ Hc. exists code. split; [exact Hc|done].
Qed.

(** ** OffsetFetch, ListGroups and DescribeGroups *)

Lemma offset_fetch_answered request s :
  wp (offset_fetch request) (λ r s', AnswerSpec.offsets_fetched s s' request r) s.
Proof.
  apply wp_bind, wp_read. intros s1 Hwf1 Hext1. split_and!; [done..|].
  apply (AnswerData.seen_here _ _ s1); [done..|]. apply group_by_topic_perm.
Qed.

Lemma list_groups_answered s : wp list_groups (λ r s', AnswerSpec.groups_listed s s' r) s.
Proof.
  apply wp_bind, wp_read. intros s1 Hwf1 Hext1. split_and!; [done..|].
  by apply (AnswerData.seen_here _ _ s1).
Qed.

Lemma describe_each_answered i ids s :
  wp (describe_each time i ids) (λ rs s', Forall2 (AnswerSpec.group_described s s') ids rs) s.
Proof.
  revert i s. induction ids as [|id ids IH]; intros i s; cbn [describe_each]; [by constructor|].
  apply wp_bind. eapply wp_section; [apply describe_section|]. intros d s1 _ Hext1 Hd.
  apply wp_bind. eapply wp_mono; [|apply IH]. intros rs s2 Hext2 Hrs. constructor.
  - apply (AnswerSpec.group_described_lasts s s s1 s2); [done..|]. exists (time i), d. split; [done|by destruct d].
  - eapply Forall2_impl; [exact Hrs|]. intros id' a. by apply (AnswerSpec.group_described_lasts s1 s s2 s2).
Qed.

Lemma describe_groups_answered request s :
  wp (describe_groups time request) (λ r s', AnswerSpec.groups_described s s' request r) s.
Proof. apply wp_bind. eapply wp_mono; [|apply describe_each_answered]. by intros rs s' _ Hrs. Qed.

(** ** JoinGroup *)

Lemma join_wait_answered polls i gid id target s :
  group_exists gid s →
  wp (join_wait time polls i gid id target) (λ r s', ∀ res, r = Some res → ∃ clk joined,
      AnswerSpec.acted s s' (entry_section gid (λ g, Some (Groups.join_poll clk g id target))) (Groups.Ready joined) ∧
      res = match joined with Ok j => Ok (Groups.Joined j) | Err e => Err e end) s.
Proof.
  revert i s. induction polls as [|polls IH]; intros i s Hex; cbn [join_wait]; [done|].
  apply wp_bind, wp_entry; [done| |].
  - intros g Hg. destruct (Groups.join_poll (time i) g id target) as [p g'] eqn:Hp.
    eexists _, _. split; [done|]. pose proof (GroupsCorrect.join_poll_wf (time i) g id target Hg) as Hg'.
    by rewrite Hp in Hg'.
  - intros [[j|e]|n d] s1 Hext Hex' Hact; cbv beta iota.
    + intros res [= <-]. by exists (time i), (Ok j).
    + intros res [= <-]. by exists (time i), (Err e).
    + eapply wp_mono; [|by apply IH]. intros r s2 _ Hr res Hres. destruct (Hr res Hres) as (clk & joined & ? & ?).
      exists clk, joined. split; [|done]. by eapply AnswerSpec.acted_lasts.
Qed.

Lemma join_answered polls request known s :
  wp (join time polls request known) (λ r s', ∀ res, r = Some res → AnswerSpec.join_result s s' request known res) s.
Proof.
  apply wp_bind. eapply wp_section; [apply start_section|].
  intros [r|request' may_add] s1 Hreq Hext1 Hstart; cbv beta iota; [by intros res [= <-]; left|].
  apply wp_bind, wp_atomically. intros s2 Hwf2 Hext2.
  destruct (locked_section time 0 request' may_add Hreq (groups s2)) as (r & c' & Hl & Hwf' & Hk & _); [apply Hwf2|].
  pose proof (join_locked_exists _ _ _ _ _ _ _ Hl) as Hex. rewrite Hl. cbn [panic_bind fst snd].
  pose proof (with_groups_extends s2 c' Hk) as Hext3.
  assert (AnswerSpec.acted s1 (with_groups s2 c') (λ c, Groups.join_locked (time 0) c request' may_add) r) as Hlocked.
  { by exists s2, c'. }
  eexists _, _. split_and!; [done|by apply with_groups_wf|done|].
  destruct r as [r|target]; cbv beta iota.
  - intros res [= <-]. right. exists request', may_add, s1. split; [done|]. left. by exists (time 0).
  - apply wp_bind. eapply wp_on_groups; [apply forget_section|]. intros _ s4 _ Hext4.
    eapply wp_mono; [|apply join_wait_answered; by eapply group_exists_extends].
    intros r s5 Hext5 Hr res Hres. destruct (Hr res Hres) as (clk & joined & Hpoll & Heq).
    right. exists request', may_add, s1. split; [done|]. right.
    exists (time 0), clk, target, joined, (with_groups s2 c'). split_and!; [done| |done].
    by apply (AnswerSpec.acted_between_mono s4 (with_groups s2 c') s5 s5).
Qed.

Lemma join_group_answered polls request version client_id s :
  wp (join_group time polls request version client_id) (λ r s', ∀ a, r = Some a →
    AnswerSpec.group_joined s s' request version client_id a) s.
Proof.
  unfold join_group, AnswerSpec.group_joined. destruct (JoinGroupRequest_group_instance_id request).
  { rewrite decide_True by (by eexists). by intros a [= <-]. }
  rewrite decide_False by (by intros [? ?]). apply wp_bind. eapply wp_mono; [|apply join_answered].
  intros [r|] s' _ Hr a Ha; [|done]. injection Ha as <-. exists r. split; [by apply Hr|].
  by destruct r as [[id|j]|[]].
Qed.

(** ** SyncGroup *)

Lemma sync_wait_answered polls i gid generation id given refresh s :
  group_exists gid s →
  wp (sync_wait time polls i gid generation id (Some given) refresh) (λ r s', ∀ res, r = Some res →
      AnswerSpec.sync_result s s' gid generation id given res) s.
Proof.
  revert i refresh s. induction polls as [|polls IH]; intros i refresh s Hex; cbn [sync_wait]; [done|].
  apply wp_bind, wp_entry; [done|intros g Hg; by apply GroupsCorrect.sync_poll_wf|].
  intros [r|n d] s1 Hext Hex' Hact; cbv beta iota.
  - intros res [= <-]. right. by exists (time i), refresh.
  - eapply wp_mono; [|by apply IH]. intros r s2 _ Hr res Hres.
    by eapply AnswerSpec.sync_result_lasts; [..|by apply Hr].
Qed.

Lemma sync_group_answered polls request s :
  wp (sync_group time polls request) (λ r s', ∀ a, r = Some a → AnswerSpec.group_synced s s' request a) s.
Proof.
  unfold sync_group, AnswerSpec.group_synced. destruct (SyncGroupRequest_group_instance_id request).
  { rewrite decide_True by (by eexists). by intros a [= <-]. }
  rewrite decide_False by (by intros [? ?]). apply wp_bind.
  set (given := map _ (SyncGroupRequest_assignments request)). set (gid := to_str _).
  eapply (wp_mono _ (λ r s', ∀ res, r = Some res → AnswerSpec.sync_result s s' gid
    (SyncGroupRequest_generation_id request) (to_str (SyncGroupRequest_member_id request)) given res)).
  - intros [r|] s' _ Hr a Ha; [|done]. injection Ha as <-. exists r. split; [by apply Hr|]. by destruct r as [|[]].
  - unfold sync. apply wp_bind, wp_read. intros s1 Hwf1 Hext1. case_bool_decide as Hex; cbn [negb].
    + eapply wp_mono; [|by apply sync_wait_answered]. intros r s2 _ Hr res Hres.
      by eapply AnswerSpec.sync_result_lasts; [..|by apply Hr].
    + intros res [= <-]. left. split; [|done]. apply (AnswerData.seen_here _ _ s1); [done..|].
      by apply eq_None_not_Some.
Qed.

(** ** The cluster *)

Lemma versions_answered : AnswerSpec.versions_told Capabilities.response.
Proof. done. Qed.

Lemma find_coordinator_answered request address s :
  wp (find_coordinator request address) (λ r _, AnswerSpec.coordinator_found s address request r) s.
Proof.
  unfold find_coordinator, AnswerSpec.coordinator_found. case_decide; [done|].
  destruct (decide (FindCoordinatorRequest_key_type request = 0)) as [Heq|Hne].
  - rewrite decide_False by (by intros ?). apply wp_bind, wp_read. intros s1 _ (-> & _). done.
  - by rewrite decide_True.
Qed.

Lemma describe_cluster_answered request address s :
  wp (describe_cluster request address) (λ r _, AnswerSpec.cluster_described s address request r) s.
Proof.
  unfold describe_cluster, AnswerSpec.cluster_described. case_decide.
  - apply wp_bind, wp_read. intros s1 _ (-> & _). done.
  - by case_decide.
Qed.

Lemma describe_configs_answered request s :
  wp (describe_configs request) (λ r s', AnswerSpec.configs_described s s' request r) s.
Proof.
  apply wp_bind, wp_read. intros s1 Hwf1 Hext1. apply wp_bind, wp_read. intros s2 Hwf2 Hext2.
  split; [done|]. apply Forall2_fmap_r, Forall2_same_length_lookup_2; [done|].
  intros k x x' Hx Hx'. simplify_eq. unfold describe_resource. eexists. split; [done|].
  case_decide; [|case_decide; [|done]].
  - case_decide as Hin; [left|right]; (split; [done|]).
    + apply list_elem_of_fmap in Hin as (m & Hm & Hin). apply TopicsCorrect.elem_of_list_topics in Hin; [|apply Hwf1].
      exists m. rewrite Hm. by apply (TopicsCorrect.catalog_extends_lookup (topics s1)); [apply Hext2|].
    + apply (AnswerData.seen_here _ _ s1); [done..|]. apply eq_None_not_Some. intros [m Hm]. apply Hin.
      pose proof (AnswerData.lookup_topic_name _ _ _ (proj1 Hwf1) Hm) as Hname.
      apply list_elem_of_fmap. exists m. split; [done|]. apply TopicsCorrect.elem_of_list_topics; [apply Hwf1|].
      by rewrite Hname.
  - destruct Hext1 as (Hid1 & _), Hext2 as (Hid2 & _). rewrite Hid2, Hid1. by case_decide.
Qed.

End told.

End AnswerGroups.
