(* ===== verification/AnswerAdmin.v ===== *)
(** * The administration handlers answer truly

    [Admin.create_topics], [metadata] and [describe_topic_partitions], run on the
    fields of a decoded request: the response message the dispatcher makes of
    their result is one that [AnswerSpec] allows. *)

From S2P Require Import Prelude Config Types Errors MessageCodec MessagesData MessagesGroups MessagesBuild.
From S2P Require Import Records Topics TopicsCorrect Broker Handlers HandlersCorrect Admin AdminCorrect Pagination.
From S2P Require Import GroupHandlers Dispatcher AnswerSpec AnswerData.
Open Scope Z_scope.

Module AnswerAdmin.
Import Broker GroupHandlers AdminCorrect Dispatcher AnswerData.

Section told.
  Context `{Records.Crc32c}.
  Context (new_v4 : nat → Z) `{!TopicsCorrect.UniqueUuids new_v4}.

(** ** CreateTopics *)

Definition creatable_fields (t : CreatableTopic) : Admin.CreatableTopic :=
  Admin.mkCreatableTopic (to_str (CreatableTopic_name t)) (CreatableTopic_num_partitions t)
    (CreatableTopic_replication_factor t)
    (map (λ a, (CreatableReplicaAssignment_partition_index a, CreatableReplicaAssignment_broker_ids a))
      (CreatableTopic_assignments t))
    (map (λ c, (to_str (CreatableTopicConfig_name c), to_str <$> CreatableTopicConfig_value c))
      (CreatableTopic_configs t)).

Definition created_result (r : Admin.CreatableTopicResult) : CreatableTopicResult :=
  mkCreatableTopicResult (of_str (Admin.ctr_name r)) (Admin.ctr_topic_id r) (Admin.ctr_error_code r)
    (of_str <$> Admin.ctr_error_message r) 0 (Admin.ctr_num_partitions r) (Admin.ctr_replication_factor r)
    (Some []) ∅.

Lemma created_error_eq t e message :
  created_result (Admin.create_error (to_str (CreatableTopic_name t)) e message) =
  mkCreatableTopicResult (CreatableTopic_name t) 0 (Errors.code e) (Some (of_str message)) 0 (-1) (-1) (Some []) ∅.
Proof. unfold created_result, Admin.create_error. cbn [Admin.ctr_name]. by rewrite of_to_str. Qed.

Lemma topic_error_eq t e :
  created_result (Admin.topic_error_result (to_str (CreatableTopic_name t)) e) =
  mkCreatableTopicResult (CreatableTopic_name t) 0 (AnswerSpec.creation_code e)
    (Some (of_str (Topics.topic_error_message e))) 0 (-1) (-1) (Some []) ∅.
Proof. unfold Admin.topic_error_result. rewrite created_error_eq. by destruct e. Qed.

Lemma created_success_eq t id partitions :
  created_result (Admin.mkCreatableTopicResult (to_str (CreatableTopic_name t)) id 0 None partitions 1) =
  mkCreatableTopicResult (CreatableTopic_name t) id 0 None 0 partitions 1 (Some []) ∅.
Proof. unfold created_result. cbn [Admin.ctr_name]. by rewrite of_to_str. Qed.

Lemma create_one_told validate_only t s :
  in_signed 32 (CreatableTopic_num_partitions t) →
  wp (Admin.create_one new_v4 (creatable_fields t) validate_only)
    (λ r s', AnswerSpec.topic_created s s' validate_only t (created_result r)) s.
Proof.
  intros Hp. unfold Admin.create_one.
  cbn [creatable_fields Admin.ct_name Admin.ct_assignments Admin.ct_configs Admin.ct_num_partitions
    Admin.ct_replication_factor].
  case_bool_decide as Has; cbn [negb].
  2: { cbn [wp]. rewrite created_error_eq. unfold AnswerSpec.topic_created. rewrite decide_True; [done|].
    by intros Hnil; rewrite Hnil in Has. }
  apply fmap_nil_inv in Has. case_bool_decide as Hconf; cbn [negb].
  2: { cbn [wp]. rewrite created_error_eq. unfold AnswerSpec.topic_created.
    rewrite decide_False, decide_True; [done| |tauto]. by intros Hnil; rewrite Hnil in Hconf. }
  apply fmap_nil_inv in Hconf.
  eapply (wp_mono _ (λ r s', (λ (Q : Prop), Q) _)).
  { intros r s' _. unfold AnswerSpec.topic_created. rewrite Has, Hconf, !decide_False by tauto. exact id. }
  destruct validate_only.
  - apply wp_bind, wp_read. intros s1 Hwf1 Hext1.
    destruct (Topics.validate_explicit _ _ _ _) as [[]|e] eqn:Hv; [right|left; exists e];
      (split; [by apply (seen_here _ _ s1)|]).
    + apply created_success_eq.
    + apply topic_error_eq.
  - apply wp_bind, wp_atomically. intros s1 Hwf1 Hext1.
    destruct (TopicsCorrect.create_explicit_spec new_v4 (topics s1) (to_str (CreatableTopic_name t))
      (CreatableTopic_num_partitions t) (CreatableTopic_replication_factor t) _ (proj1 Hwf1) Hp)
      as (r & c' & -> & Hr). cbn [panic_bind fst snd]. exists r, (with_topics s1 c').
    destruct r as [m|e].
    + destruct Hr as (d & -> & Hcwf & Hcext & Hname & Hcount & _ & _ & Hnew & Hv).
      pose proof (HandlersCorrect.with_topics_extends s1 _ Hcext) as Hext2.
      split_and!; [done|by apply HandlersCorrect.new_topic_wf|done|].
      unfold Admin.success_result, try_i32.
      rewrite Hcount, decide_True; [|unfold in_signed, i32_max in *; simpl in Hp; lia].
      right. split; [by apply (seen_here _ _ s1)|]. exists (Topics.tm_id m). split_and!.
      * apply created_success_eq.
      * by apply (AnswerSpec.lookup_absent s1 s).
      * cbn. rewrite <- Hname, TopicsCorrect.lookup_with_new_topic, <- Hcount. by destruct m.
    + destruct Hr as [-> Hv].
      assert (broker_extends s1 (with_topics s1 (topics s1))) by (by apply HandlersCorrect.with_topics_extends).
      split_and!; [done|by destruct s1|done|]. left. exists e.
      split; [by apply (seen_here _ _ s1)|apply topic_error_eq].
Qed.

Lemma create_topics_told request s :
  Forall (λ t, in_signed 32 (CreatableTopic_num_partitions t)) (CreateTopicsRequest_topics request) →
  wp (Admin.create_topics new_v4 (create_topics_fields request) (CreateTopicsRequest_validate_only request))
    (λ r s', AnswerSpec.topics_created s s' request (create_topics_answer r)) s.
Proof.
  intros Hp. unfold Admin.create_topics.
  change (create_topics_fields request) with (map creatable_fields (CreateTopicsRequest_topics request)).
  rewrite for_each_map.
  eapply wp_mono; [|apply (wp_rounds _ _ (λ t r s0 s1, AnswerSpec.topic_created s0 s1
    (CreateTopicsRequest_validate_only request) t (created_result r)))].
  - intros rs s1 _ Hrs. split; [done|]. by apply Forall2_fmap_r.
  - intros t r s0 s0' s1 s1' ? ?. by apply AnswerSpec.topic_created_lasts.
  - intros t s1 Ht _. apply create_one_told. rewrite Forall_forall in Hp. by apply Hp.
Qed.

(** ** First occurrences *)

Lemma filter_ne_fmap {A B : Type} `{EqDecision A, EqDecision B} (f : A → B) `{!Inj (=) (=) f} x (l : list A) :
  filter (λ y, y ≠ f x) (f <$> l) = f <$> filter (λ y, y ≠ x) l.
Proof.
  induction l as [|y l IH]; [done|]. rewrite fmap_cons, !filter_cons, IH.
  destruct (decide (y = x)) as [->|Hne].
  - by rewrite !decide_False by tauto.
  - rewrite !decide_True; [done|done|]. by intros ?%(inj f).
Qed.

Lemma firsts_fmap {A B : Type} `{EqDecision A, EqDecision B} (f : A → B) `{!Inj (=) (=) f} (l : list A) :
  AnswerSpec.firsts (f <$> l) = f <$> AnswerSpec.firsts l.
Proof.
  induction l as [|x l IH]; [done|]. cbn. f_equal. rewrite IH. by apply filter_ne_fmap.
Qed.

Lemma filter_seen {A : Type} `{Countable A} (seen : gset A) x (l : list A) :
  filter (λ y, y ∉ seen) (AnswerSpec.firsts (x :: l)) =
  if decide (x ∈ seen) then filter (λ y, y ∉ seen) (AnswerSpec.firsts l)
  else x :: filter (λ y, y ∉ {[x]} ∪ seen) (AnswerSpec.firsts l).
Proof.
  cbn [AnswerSpec.firsts]. rewrite filter_cons. case_decide as Hx.
  - rewrite decide_False by done. f_equal. rewrite list_filter_filter. apply list_filter_iff. set_solver.
  - rewrite decide_True by tauto. rewrite list_filter_filter. apply list_filter_iff. set_solver.
Qed.

(** ** Metadata *)

Lemma by_id_Exists ts :
  Admin.has_non_zero_topic_id (map (λ t, Admin.mkMetadataRequestTopic (MetadataRequestTopic_topic_id t)
    (to_str <$> MetadataRequestTopic_name t)) ts) = true ↔
  Exists (λ t, MetadataRequestTopic_topic_id t ≠ 0) ts.
Proof.
  unfold Admin.has_non_zero_topic_id. induction ts as [|t ts IH]; cbn [map existsb]; [by rewrite Exists_nil|].
  by rewrite orb_true_iff, IH, Exists_cons, negb_true_iff, bool_decide_eq_false.
Qed.

Lemma unnamed_Exists ts :
  existsb (λ t, bool_decide (Admin.mrt_name t = None)) (map (λ t, Admin.mkMetadataRequestTopic
    (MetadataRequestTopic_topic_id t) (to_str <$> MetadataRequestTopic_name t)) ts) = true ↔
  Exists (λ t, MetadataRequestTopic_name t = None) ts.
Proof.
  induction ts as [|t ts IH]; cbn [map existsb]; [by rewrite Exists_nil|].
  rewrite orb_true_iff, IH, Exists_cons, bool_decide_eq_true. cbn. by rewrite fmap_None.
Qed.

Lemma request_error_told request version :
  match Admin.request_error (metadata_fields request) version with
  | Some e => AnswerSpec.metadata_invalid request version e
  | None => ∀ e, ¬ AnswerSpec.metadata_invalid request version e
  end.
Proof.
  unfold Admin.request_error, AnswerSpec.metadata_invalid. cbn [metadata_fields Admin.mr_topics].
  destruct (MetadataRequest_topics request) as [ts|]; cbn [fmap option_fmap option_map];
    [|intros e Hf; exact Hf].
  pose proof (by_id_Exists ts) as Hid. pose proof (unnamed_Exists ts) as Hname.
  revert Hid Hname. generalize (Exists (λ t, MetadataRequestTopic_topic_id t ≠ 0) ts) as by_id.
  generalize (Exists (λ t, MetadataRequestTopic_name t = None) ts) as unnamed. cbv zeta.
  destruct (Admin.has_non_zero_topic_id _), (existsb _ _); intros unnamed by_id Hid Hname;
    repeat case_bool_decide; cbn [andb orb negb]; intuition (done || lia).
Qed.

Section metadata.
  Context (request : MetadataRequest).

Definition topic_told (r : Admin.MetadataResponseTopic) : MetadataResponseTopic :=
  metadata_topic (Admin.with_operations (Admin.optional_authorized_operations
    (MetadataRequest_include_topic_authorized_operations request) Admin.TOPIC_AUTHORIZED_OPERATIONS) r).

Lemma topic_told_fields r :
  MetadataResponseTopic_name (topic_told r) = of_str <$> Admin.mt_name r ∧
  MetadataResponseTopic_topic_id (topic_told r) = Admin.mt_topic_id r ∧
  MetadataResponseTopic_error_code (topic_told r) = Admin.mt_error_code r.
Proof. unfold topic_told, Admin.with_operations. by case_decide. Qed.

Lemma described_told m s0 s1 id :
  id = broker_id s0 → Topics.lookup_topic (topics s1) (Topics.tm_name m) = Some m →
  AnswerSpec.topic_described s0 s1 request (topic_told (described m id)).
Proof.
  intros -> Hm. left. exists m. split; [done|]. unfold topic_told, Admin.with_operations, described, metadata_topic.
  rewrite decide_False by done. cbn [Admin.mt_error_code Admin.mt_name Admin.mt_topic_id Admin.mt_partitions
    Admin.mt_topic_authorized_operations].
  change (map ?f (partition_entry (broker_id s0) <$> ?l)) with (f <$> (partition_entry (broker_id s0) <$> l)).
  rewrite <- list_fmap_compose. reflexivity.
Qed.

Lemma topic_by_name_told name s :
  indexable s →
  wp (Admin.topic_by_name name) (λ r s',
    AnswerSpec.topic_described s s' request (topic_told r) ∧ Admin.mt_name r = Some name ∧
    (Admin.mt_error_code r = Errors.code Errors.UnknownTopicOrPartition →
     Topics.validate_name name = Ok () ∧ Topics.lookup_topic (topics s) name = None)) s.
Proof.
  intros Hi. unfold Admin.topic_by_name. apply wp_bind, wp_read. intros s1 Hwf1 Hext1.
  apply wp_bind, wp_read. intros s2 Hwf2 Hext2. pose proof Hext1 as (Hid1 & _). pose proof Hext2 as (Hid2 & _).
  destruct (TopicsCorrect.get_cases (topics s1) name) as [[-> Hname]|[-> Hname]].
  2: { split; [|done]. right. right. left. exists (Some (of_str name)). split; [done|]. cbn. by rewrite to_of_str. }
  destruct (Topics.lookup_topic (topics s1) name) as [m|] eqn:Hl.
  - destruct (lookup_topic_indexable s1 name m Hwf1 (indexable_extends _ _ Hext1 Hi) Hl) as [Hc <-].
    rewrite success_topic_Some by lia. cbn. split; [|done]. apply described_told; [congruence|].
    eapply TopicsCorrect.catalog_extends_lookup; [|done]. apply Hext2.
  - split; [|split; [done|]; intros _; split; [done|]; by apply (AnswerSpec.lookup_absent s1 s)].
    right. left. exists (of_str name). split; [done|]. rewrite to_of_str. split; [done|].
    by apply (seen_here _ _ s1).
Qed.

Lemma topics_by_name_told seen requested s :
  indexable s →
  wp (Admin.topics_by_name seen requested) (λ rs s',
    Forall (λ r, AnswerSpec.topic_described s s' request (topic_told r)) rs ∧
    Admin.mt_name <$> rs = filter (λ n, n ∉ seen) (AnswerSpec.firsts (Admin.mrt_name <$> requested)) ∧
    Forall (λ r, Admin.mt_error_code r = Errors.code Errors.UnknownTopicOrPartition →
      ∃ t name, t ∈ requested ∧ Admin.mrt_name t = Some name ∧ Topics.validate_name name = Ok () ∧
        Topics.lookup_topic (topics s) name = None) rs) s.
Proof.
  revert seen s. induction requested as [|t requested IH]; intros seen s Hi; cbn [Admin.topics_by_name].
  { cbn. by split_and!. }
  change (Admin.mrt_name <$> t :: requested) with (Admin.mrt_name t :: (Admin.mrt_name <$> requested)).
  rewrite filter_seen. case_decide as Hseen.
  { eapply wp_mono; [|by apply IH]. intros rs s1 _ (Hrs & Hn & Hu). split_and!; [done..|].
    eapply Forall_impl; [exact Hu|]. intros r Hr Hc. destruct (Hr Hc) as (t' & name & ? & ?).
    exists t', name. split; [by right|done]. }
  apply wp_bind. eapply (wp_mono _ (λ r s', AnswerSpec.topic_described s s' request (topic_told r) ∧
    Admin.mt_name r = Admin.mrt_name t ∧ (Admin.mt_error_code r = Errors.code Errors.UnknownTopicOrPartition →
     ∃ name, Admin.mrt_name t = Some name ∧ Topics.validate_name name = Ok () ∧
       Topics.lookup_topic (topics s) name = None))).
  - intros r s1 Hext1 (Hr & Hn & Hu). apply wp_bind.
    eapply wp_mono; [|apply IH; by eapply indexable_extends]. intros rs s2 Hext2 (Hrs & Hns & Hus). split_and!.
    + constructor; [by apply (AnswerSpec.topic_described_lasts s s s1 s2)|]. eapply Forall_impl; [exact Hrs|].
      intros r'. by apply (AnswerSpec.topic_described_lasts s1 s s2 s2).
    + cbn. f_equal; [done|exact Hns].
    + constructor.
      * intros Hc. destruct (Hu Hc) as (name & ?). exists t, name. split; [left|done].
      * eapply Forall_impl; [exact Hus|]. intros r' Hr' Hc. destruct (Hr' Hc) as (t' & name & ? & ? & ? & ?).
        exists t', name. split_and!; [by right|done..|]. by apply (AnswerSpec.lookup_absent s1 s).
  - destruct (Admin.mrt_name t) as [name|].
    + eapply wp_mono; [|by apply topic_by_name_told]. intros r s1 _ (? & ? & Hu). split_and!; [done..|].
      intros Hc. exists name. split; [done|]. by apply Hu.
    + split; [|done]. right. right. left. by exists None.
Qed.

Lemma topics_by_id_told seen requested unknown known s :
  indexable s →
  wp (Admin.topics_by_id seen requested unknown known) (λ rs s',
    ∃ unknown' known', rs = (unknown ++ unknown') ++ (known ++ known') ∧
    Forall (λ r, AnswerSpec.topic_described s s' request (topic_told r)) (unknown' ++ known') ∧
    Admin.mt_topic_id <$> unknown' ++ known' ≡ₚ
      filter (λ id, id ∉ seen) (AnswerSpec.firsts (filter (λ id, id ≠ 0) (Admin.mrt_topic_id <$> requested)))) s.
Proof.
  revert seen unknown known s.
  induction requested as [|t requested IH]; intros seen unknown known s Hi; cbn [Admin.topics_by_id].
  { exists [], []. rewrite !app_nil_r. by split_and!. }
  change (Admin.mrt_topic_id <$> t :: requested) with (Admin.mrt_topic_id t :: (Admin.mrt_topic_id <$> requested)).
  destruct (decide (Admin.mrt_topic_id t = 0)) as [Hz|Hz].
  { rewrite decide_True by (by left). rewrite filter_cons_False by tauto. by apply IH. }
  rewrite filter_cons_True, filter_seen by done.
  destruct (decide (Admin.mrt_topic_id t ∈ seen)) as [Hseen|Hseen];
    [rewrite decide_True by (by right); by apply IH|rewrite decide_False by tauto].
  apply wp_bind, wp_read. intros s1 Hwf1 Hext1. pose proof (indexable_extends _ _ Hext1 Hi) as Hi1.
  destruct (Topics.get_by_id (topics s1) (Admin.mrt_topic_id t)) as [m|] eqn:Hg.
  - apply TopicsCorrect.get_by_id_lookup in Hg as [Hid Hl]; [|apply Hwf1].
    destruct (lookup_topic_indexable s1 _ m Hwf1 Hi1 Hl) as [Hc _].
    apply wp_bind, wp_read. intros s2 Hwf2 Hext2. rewrite success_topic_Some by lia. cbn [unwrap bind].
    pose proof Hext1 as (Hb1 & _). pose proof Hext2 as (Hb2 & _).
    assert (broker_extends s s2) as Hext by (by etrans).
    eapply wp_mono; [|apply IH; by eapply indexable_extends].
    intros rs s3 Hext3 (unknown' & known' & -> & Hall & Hids).
    exists unknown', (described m (broker_id s2) :: known'). split_and!.
    + by rewrite <- (assoc_L (++) known).
    + rewrite Forall_app, Forall_cons. apply Forall_app in Hall as [Hu Hk].
      assert (∀ l, Forall (λ r, AnswerSpec.topic_described s2 s3 request (topic_told r)) l →
        Forall (λ r, AnswerSpec.topic_described s s3 request (topic_told r)) l) as Hlasts.
      { intros l Hf. eapply Forall_impl; [exact Hf|]. intros r. by apply (AnswerSpec.topic_described_lasts s2 s s3 s3). }
      split_and!; [by apply Hlasts| |by apply Hlasts]. apply described_told; [congruence|].
      eapply TopicsCorrect.catalog_extends_lookup; [|done].
      assert (broker_extends s1 s3) as (_ & _ & _ & ? & _) by (by etrans). done.
    + rewrite fmap_app, fmap_cons, <- Permutation_middle, <- fmap_app. cbn. by rewrite Hid, Hids.
  - eapply wp_mono; [|by apply IH]. intros rs s3 Hext3 (unknown' & known' & -> & Hall & Hids).
    exists (Admin.error_topic None (Admin.mrt_topic_id t) Errors.UnknownTopicId :: unknown'), known'. split_and!.
    + by rewrite <- (assoc_L (++) unknown).
    + constructor.
      * right. right. right. exists (Admin.mrt_topic_id t). split; [done|]. by apply (seen_here _ _ s1).
      * eapply Forall_impl; [exact Hall|]. intros r. by apply (AnswerSpec.topic_described_lasts s1 s s3 s3).
    + cbn. by constructor.
Qed.

Lemma requested_names ts :
  Admin.mrt_name <$> map (λ t, Admin.mkMetadataRequestTopic (MetadataRequestTopic_topic_id t)
    (to_str <$> MetadataRequestTopic_name t)) ts = fmap to_str <$> (MetadataRequestTopic_name <$> ts).
Proof. by rewrite <- list_fmap_compose, <- list_fmap_compose. Qed.

Lemma requested_ids ts :
  Admin.mrt_topic_id <$> map (λ t, Admin.mkMetadataRequestTopic (MetadataRequestTopic_topic_id t)
    (to_str <$> MetadataRequestTopic_name t)) ts = MetadataRequestTopic_topic_id <$> ts.
Proof. by rewrite <- list_fmap_compose. Qed.

Lemma told_names rs : MetadataResponseTopic_name <$> map topic_told rs = fmap of_str <$> (Admin.mt_name <$> rs).
Proof.
  rewrite <- !list_fmap_compose. apply list_fmap_ext. intros _ r _. cbn. apply topic_told_fields.
Qed.

Lemma told_ids rs : MetadataResponseTopic_topic_id <$> map topic_told rs = Admin.mt_topic_id <$> rs.
Proof. rewrite <- !list_fmap_compose. apply list_fmap_ext. intros _ r _. cbn. apply topic_told_fields. Qed.

Lemma all_topics_told s :
  indexable s →
  wp (do listed <- read (λ s, Topics.list_topics (topics s));
      do broker_id <- read broker_id;
      for_each (λ topic, unwrap (Admin.success_topic topic broker_id)) listed)
    (λ rs s', Forall (λ r, AnswerSpec.topic_described s s' request (topic_told r)) rs ∧
      AnswerSpec.seen s s' (λ s, Admin.mt_name <$> rs = Some ∘ Topics.tm_name <$> Topics.list_topics (topics s))) s.
Proof.
  intros Hi. apply wp_bind, wp_read. intros s1 Hwf1 Hext1. apply wp_bind, wp_read. intros s2 Hwf2 Hext2.
  pose proof Hext1 as (Hb1 & _). pose proof Hext2 as (Hb2 & _).
  eapply wp_mono; [|apply (wp_for_each _ _ (λ m r s', AnswerSpec.topic_described s s' request (topic_told r) ∧
    Admin.mt_name r = Some (Topics.tm_name m)))].
  - intros rs s3 Hext3 Hrs. split; [by induction Hrs as [|???? []]; constructor|].
    apply (seen_here _ _ s1); [done..|by etrans|].
    induction Hrs as [|m r ms rs' [_ Hn] _ IH]; [done|]. cbn. by rewrite Hn, IH.
  - intros m r s3 s3' Hext3 [Hr ?]. split; [|done]. by apply (AnswerSpec.topic_described_lasts s s s3 s3').
  - intros m s3 Hm Hext3. apply TopicsCorrect.elem_of_list_topics in Hm; [|apply Hwf1].
    destruct (lookup_topic_indexable s1 _ m Hwf1 (indexable_extends _ _ Hext1 Hi) Hm) as [Hc _].
    rewrite success_topic_Some by lia. split; [|done]. apply described_told; [congruence|].
    eapply TopicsCorrect.catalog_extends_lookup; [|done].
    assert (broker_extends s1 s3) as (_ & _ & _ & ? & _) by (by etrans). done.
Qed.

(** Topics by name, created first if that is allowed. *)
Lemma named_topics_told ts s :
  indexable s →
  let requested := map (λ t, Admin.mkMetadataRequestTopic (MetadataRequestTopic_topic_id t)
    (to_str <$> MetadataRequestTopic_name t)) ts in
  wp (do allow_auto_create <- read (λ s, auto_create_topics s &&
        (MetadataRequest_allow_auto_topic_creation request || force_auto_create_topics s));
      do _ <- (if allow_auto_create : bool then Admin.auto_create_requested new_v4 requested else Ret []);
      Admin.topics_by_name ∅ requested)
    (λ rs s', Forall (λ r, AnswerSpec.topic_described s s' request (topic_told r)) rs ∧
      Admin.mt_name <$> rs = fmap to_str <$> AnswerSpec.firsts (MetadataRequestTopic_name <$> ts) ∧
      (auto_create_topics s = true →
       MetadataRequest_allow_auto_topic_creation request = true ∨ force_auto_create_topics s = true →
       Forall (λ r, Admin.mt_error_code r ≠ Errors.code Errors.UnknownTopicOrPartition) rs)) s.
Proof.
  intros Hi requested. apply wp_bind, wp_read. intros s1 Hwf1 Hext1. apply wp_bind.
  pose proof Hext1 as (_ & -> & -> & _).
  eapply (wp_mono _ (λ _ s', auto_create_topics s && (MetadataRequest_allow_auto_topic_creation request ||
    force_auto_create_topics s) = true → Forall (λ t, ∀ name, Admin.mrt_name t = Some name →
      Topics.validate_name name = Ok () → is_Some (Topics.lookup_topic (topics s') name)) requested)).
  - intros us s2 Hext2 Hdone. clear us. assert (broker_extends s s2) as Hext by (by etrans).
    eapply wp_mono; [|apply topics_by_name_told; by eapply indexable_extends].
    intros rs s3 Hext3 (Hrs & Hn & Hu). split_and!.
    + eapply Forall_impl; [exact Hrs|]. intros r. by apply (AnswerSpec.topic_described_lasts s2 s s3 s3).
    + rewrite Hn. unfold requested. rewrite requested_names, (firsts_fmap (fmap to_str)).
      apply Pagination.filter_all, Forall_forall. intros n _. apply not_elem_of_empty.
    + intros Hauto Hallow. assert (auto_create_topics s && (MetadataRequest_allow_auto_topic_creation request ||
        force_auto_create_topics s) = true) as Hc by (rewrite Hauto; cbn; by apply orb_true_iff).
      specialize (Hdone Hc). eapply Forall_impl; [exact Hu|]. intros r Hr Hcode.
      destruct (Hr Hcode) as (t & name & Ht & Hname & Hv & Hnone). rewrite Forall_forall in Hdone.
      destruct (Hdone t Ht name Hname Hv) as [m Hm]. congruence.
  - destruct (auto_create_topics s && _); [|done]. eapply wp_mono; [|by apply auto_create_requested_done]. done.
Qed.

Lemma topics_for_request_told version s :
  indexable s →
  wp (Admin.topics_for_request new_v4 (metadata_fields request) version)
    (λ rs s', AnswerSpec.topics_described s s' request version (map topic_told rs)) s.
Proof.
  intros Hi. unfold Admin.topics_for_request, AnswerSpec.topics_described.
  cbn [metadata_fields Admin.mr_topics Admin.mr_allow_auto_topic_creation].
  destruct (MetadataRequest_topics request) as [ts|]; cbn [fmap option_fmap option_map].
  2: { eapply wp_mono; [|by apply all_topics_told]. intros rs s1 _ [Hrs Hseen]. split; [by apply Forall_fmap|].
    eapply AnswerSpec.seen_impl; [done..| |exact Hseen]. intros s' Hn. rewrite told_names, Hn.
    by rewrite <- list_fmap_compose. }
  pose proof (by_id_Exists ts) as Hby. destruct ts as [|t ts'] eqn:Hts.
  { cbn. split; [done|]. rewrite decide_False; [done|]. by intros [_ ?%Exists_nil]. }
  rewrite <- Hts in *. remember (map _ ts) as requested eqn:Hreq.
  assert (∀ (X : Type) (a b : X), match requested with [] => a | _ :: _ => b end = b) as ->
    by (by intros; rewrite Hreq, Hts). clear Hts t ts'.
  destruct (bool_decide (12 ≤ version) && Admin.has_non_zero_topic_id requested) eqn:Hid.
  - apply andb_true_iff in Hid as [Hv%bool_decide_eq_true Hid%Hby].
    eapply wp_mono; [|by apply topics_by_id_told]. cbn. intros rs s1 _ (unknown & known & -> & Hall & Hids).
    split; [by apply Forall_fmap|]. rewrite decide_True by done.
    rewrite told_ids, Hids, Hreq, requested_ids. apply reflexive_eq, Pagination.filter_all, Forall_forall.
    intros n _. apply not_elem_of_empty.
  - rewrite Hreq. eapply wp_mono; [|by apply named_topics_told]. intros rs s1 _ (Hrs & Hn & Hu).
    split; [by apply Forall_fmap|]. rewrite decide_False.
    2: { intros [Hv Hex]. apply andb_false_iff in Hid as [Hid|Hid];
      [by apply bool_decide_eq_false in Hid|]. apply Hby in Hex. congruence. }
    split.
    + rewrite told_names, Hn, <- list_fmap_compose. rewrite <- (list_fmap_id (AnswerSpec.firsts _)) at 2.
      apply list_fmap_ext. intros _ [n|] _; cbn; [by rewrite of_to_str|done].
    + intros Hauto Hallow. apply Forall_fmap. eapply Forall_impl; [by apply Hu|]. intros r Hr. unfold compose.
      by destruct (topic_told_fields r) as (_ & _ & ->).
Qed.

Lemma error_topics_told e :
  map metadata_topic ((λ t, Admin.error_topic (Some (default "" (Admin.mrt_name t))) (Admin.mrt_topic_id t) e) <$>
    default [] (Admin.mr_topics (metadata_fields request))) =
  (λ t, mkMetadataResponseTopic (Errors.code e) (Some (default [] (MetadataRequestTopic_name t)))
    (MetadataRequestTopic_topic_id t) false [] i32_min ∅) <$> default [] (MetadataRequest_topics request).
Proof.
  cbn [metadata_fields Admin.mr_topics]. destruct (MetadataRequest_topics request) as [ts|]; [|done].
  etrans; [apply (map_map _ metadata_topic)|]. etrans; [apply map_map|]. apply map_ext. intros t. unfold metadata_topic.
  cbn [Admin.mrt_name]. destruct (MetadataRequestTopic_name t) as [n|]; [|done].
  cbn [fmap option_fmap option_map default Admin.error_topic Admin.mt_name]. unfold id. by rewrite of_to_str.
Qed.

Lemma metadata_answer_told address version s :
  indexable s →
  wp (Admin.metadata new_v4 (metadata_fields request) version (host address) (port address))
    (λ r s', AnswerSpec.metadata_told s s' address version request (metadata_answer r)) s.
Proof.
  intros Hi. unfold Admin.metadata. pose proof (request_error_told request version) as He.
  destruct (Admin.request_error _ _) as [e|].
  - left. exists e. split; [done|]. rewrite <- error_topics_told. reflexivity.
  - apply wp_bind. eapply wp_mono; [|by apply topics_for_request_told]. intros rs s1 Hext1 Hrs.
    apply wp_bind, wp_read. intros s2 Hwf2 Hext2. pose proof Hext1 as (Hb1 & _). pose proof Hext2 as (Hb2 & _).
    right. split; [done|]. exists (map topic_told rs).
    split; [by apply (AnswerSpec.topics_described_lasts s s s1 s2)|]. rewrite Hb2, Hb1.
    unfold topic_told. rewrite <- (map_map (Admin.with_operations _) metadata_topic rs). reflexivity.
Qed.

End metadata.

(** ** DescribeTopicPartitions *)

Definition next_cursor (c : Admin.Cursor) : DescribeTopicPartitionsResponse_Cursor :=
  mkDescribeTopicPartitionsResponse_Cursor (of_str (Admin.cur_topic_name c)) (Admin.cur_partition_index c) ∅.

Lemma described_partitions_told s0 code name id partitions operations bid :
  bid = broker_id s0 →
  described_answer (Admin.mkDescribedTopic code (Some name) id (partition_entry bid <$> partitions) operations) =
  AnswerSpec.described_topic s0 code name id partitions operations.
Proof.
  intros ->. refine (f_equal (λ ps, mkDescribeTopicPartitionsResponseTopic code (Some (of_str name)) id false ps
    operations ∅) _).
  apply (map_map (partition_entry (broker_id s0))).
Qed.

Lemma describe_names_told cur remaining names s :
  indexable s → Pagination.cursor_ok cur → 0 ≤ remaining →
  wp (Admin.describe_names cur remaining names) (λ r s',
    AnswerSpec.page_described s s' (Pagination.start_index cur) remaining names
      (map described_answer r.1) (next_cursor <$> r.2)) s.
Proof.
  intros Hi Hcur. revert remaining s Hi.
  induction names as [|name names IH]; intros remaining s Hi Hrem; cbn [Admin.describe_names]; [done|].
  apply wp_bind, wp_read. intros s1 Hwf1 Hext1. pose proof (indexable_extends _ _ Hext1 Hi) as Hi1.
  pose proof Hext1 as (Hb1 & _).
  destruct (TopicsCorrect.get_cases (topics s1) name) as [[-> Hname]|[-> Hname]].
  2: { apply wp_bind. eapply wp_mono; [|by apply IH]. intros rest s2 Hext2 Hrest. left. split_and!; [done| |].
    - by apply (described_partitions_told s _ _ _ [] _ (broker_id s)).
    - by apply (AnswerSpec.page_described_lasts s1 s s2 s2). }
  destruct (Topics.lookup_topic (topics s1) name) as [m|] eqn:Hl.
  2: { apply wp_bind. eapply wp_mono; [|by apply IH]. intros rest s2 Hext2 Hrest. right. left. split_and!; [done| | |].
    - by apply (seen_here _ _ s1).
    - by apply (described_partitions_told s _ _ _ [] _ (broker_id s)).
    - by apply (AnswerSpec.page_described_lasts s1 s s2 s2). }
  destruct (lookup_topic_indexable s1 name m Hwf1 Hi1 Hl) as [Hc Hmn]. rewrite Hmn.
  destruct (Pagination.start_of_index cur name Hcur) as [-> Hs]. cbn [unwrap bind].
  set (start := Pagination.start_index cur name) in *.
  apply wp_bind, wp_read. intros s2 Hwf2 Hext2. pose proof Hext2 as (Hb2 & _).
  assert (broker_extends s s2) as Hext by (by etrans).
  rewrite described_topic_Some by (unfold saturating_sub; lia). cbn [unwrap bind]. rewrite Hmn.
  unfold saturating_sub. set (taken := Z.min (Z.max 0 (Topics.tm_partition_count m - start)) remaining).
  assert (∀ s', broker_extends s2 s' → Topics.lookup_topic (topics s') name = Some m) as Hkeep.
  { intros s' Hext'. eapply TopicsCorrect.catalog_extends_lookup; [|done].
    assert (broker_extends s1 s') as (_ & _ & _ & ? & _) by (by etrans). done. }
  assert (described_answer (Admin.mkDescribedTopic 0 (Some name) (Topics.tm_id m)
    (partition_entry (broker_id s2) <$> Admin.range start taken) Admin.TOPIC_AUTHORIZED_OPERATIONS) =
    AnswerSpec.described_topic s 0 name (Topics.tm_id m) (AnswerSpec.indexes start taken) 3576) as Htopic.
  { apply described_partitions_told. congruence. }
  case_decide as Hcut.
  { unfold Admin.cursor, try_i32. rewrite decide_True by (unfold max_partitions in *; lia). cbn [panic_bind unwrap bind].
    right. right. exists m. split; [by apply Hkeep|]. split; [exact Htopic|]. rewrite decide_True by done. done. }
  destruct names as [|next_name names'].
  { right. right. exists m. split; [by apply Hkeep|]. split; [exact Htopic|]. by rewrite decide_False. }
  case_decide as Hfull.
  { unfold Admin.cursor, try_i32. rewrite decide_True by (unfold i32_max; lia). cbn [panic_bind unwrap bind].
    right. right. exists m. split; [by apply Hkeep|]. split; [exact Htopic|].
    rewrite decide_False, decide_True by done. done. }
  apply wp_bind. eapply wp_mono; [|apply IH]; [|by eapply indexable_extends|lia].
  intros rest s3 Hext3 Hrest. right. right. exists m. split; [by apply Hkeep|]. split; [exact Htopic|].
  rewrite decide_False, decide_False by done. by apply (AnswerSpec.page_described_lasts s2 s s3 s3).
Qed.

Lemma elem_of_sorted_names name names : name ∈ Admin.sorted_names names ↔ name ∈ names.
Proof. unfold Admin.sorted_names. by rewrite merge_sort_Permutation, elem_of_remove_dups. Qed.

(** Which names a page is about, and which requests are refused. *)
Lemma selected_names_told request all :
  let asked := to_str ∘ DescribeTopicPartitionsRequest_TopicRequest_name
    <$> DescribeTopicPartitionsRequest_topics request in
  let invalid := ∃ c, DescribeTopicPartitionsRequest_cursor request = Some c ∧
    (DescribeTopicPartitionsRequest_Cursor_partition_index c < 0 ∨
     asked ≠ [] ∧ to_str (DescribeTopicPartitionsRequest_Cursor_topic_name c) ∉ asked) in
  match Admin.selected_names (describe_fields request) all with
  | Err e => invalid ∧ e = Errors.InvalidRequest
  | Ok names => ¬ invalid ∧ names = AnswerSpec.names_described request (Topics.tm_name <$> all)
  end.
Proof.
  intros asked invalid. unfold Admin.selected_names, AnswerSpec.names_described.
  cbn [describe_fields Admin.dr_topics Admin.dr_cursor].
  change (map ?f (DescribeTopicPartitionsRequest_topics request)) with asked.
  change (_ <$> DescribeTopicPartitionsRequest_topics request) with asked.
  assert (Admin.sorted_names (if negb (bool_decide (asked = [])) then asked else Topics.tm_name <$> all) =
    merge_sort String.le (remove_dups (if decide (asked = []) then Topics.tm_name <$> all else asked))) as Hnames.
  { case_bool_decide; case_decide; done. }
  rewrite Hnames. destruct (DescribeTopicPartitionsRequest_cursor request) as [c|] eqn:Hc;
    cbn [fmap option_fmap option_map Admin.cur_topic_name Admin.cur_partition_index].
  2: { rewrite andb_false_r. split; [by intros (c & ? & _)|]. apply Pagination.filter_all, Forall_true. done. }
  destruct (bool_decide (DescribeTopicPartitionsRequest_Cursor_partition_index c < 0)) eqn:Hneg;
    [apply bool_decide_eq_true in Hneg; split; [exists c; by auto|done]|apply bool_decide_eq_false in Hneg].
  rewrite <- Hnames. destruct (bool_decide (asked = [])) eqn:Hnil; cbn [negb andb].
  - apply bool_decide_eq_true in Hnil. split.
    + intros (c' & [= <-] & [?|[? _]]); done.
    + apply list_filter_iff. intros name. cbn. by rewrite bool_decide_eq_true.
  - apply bool_decide_eq_false in Hnil. case_bool_decide as Hin; cbn [negb]; rewrite elem_of_sorted_names in Hin.
    + split; [intros (c' & [= <-] & [?|[_ ?]]); done|].
      apply list_filter_iff. intros name. cbn. by rewrite bool_decide_eq_true.
    + split; [|done]. exists c. by auto.
Qed.

Lemma describe_topic_partitions_told request s :
  indexable s →
  wp (Admin.describe_topic_partitions (describe_fields request)) (λ r s',
    AnswerSpec.partitions_described s s' request (describe_answer r)) s.
Proof.
  intros Hi. unfold Admin.describe_topic_partitions. apply wp_bind, wp_read. intros s1 Hwf1 Hext1.
  pose proof (selected_names_told request (Topics.list_topics (topics s1))) as Hsel. cbv zeta in Hsel.
  destruct (Admin.selected_names _ _) as [names|e].
  - destruct Hsel as [Hvalid ->]. apply wp_bind.
    eapply wp_mono; [|apply describe_names_told; [by eapply indexable_extends| |lia]].
    + intros r s2 Hext2 Hpage. split; [done|]. right. split; [exact Hvalid|].
      exists (Topics.tm_name <$> Topics.list_topics (topics s1)). split; [by apply (seen_here _ _ s1)|].
      apply (AnswerSpec.page_described_lasts s1 s s2 s2); [done..|]. destruct r as [ts next]. cbn [fst snd] in Hpage.
      cbn [describe_fields Admin.dr_cursor] in Hpage. unfold describe_answer.
      destruct (DescribeTopicPartitionsRequest_cursor request); exact Hpage.
    + cbn [describe_fields Admin.dr_cursor].
      destruct (DescribeTopicPartitionsRequest_cursor request) as [c|]; [|done]. cbn.
      destruct (decide (DescribeTopicPartitionsRequest_Cursor_partition_index c < 0)); [|lia].
      destruct Hvalid. exists c. by auto.
  - destruct Hsel as [Hbad ->]. split; [done|]. left. split; [exact Hbad|]. split; [done|].
    unfold describe_answer. cbn [Admin.dp_topics]. etrans; [apply map_map|]. etrans; [apply map_map|].
    symmetry. etrans; [apply map_map|]. apply map_ext. intros t. symmetry.
    by apply (described_partitions_told s _ _ _ [] _ (broker_id s)).
Qed.

End told.

End AnswerAdmin.
