(* ===== verification/DispatcherCorrect.v ===== *)
(** * The dispatcher answers every request it is given

    A request that was decoded and whose version is served runs to an answer
    that [AnswerSpec] allows: no handler panics, whatever other handlers do
    between its steps, and the broker's invariant is kept. *)

From S2P Require Import Prelude Config Types Errors MessageCodec MessagesData MessagesGroups MessagesTxn MessagesBuild.
From S2P Require Import ApiKeys Encodability RequestCodec Capabilities ErrorResponse ErrorResponseCorrect Router.
From S2P Require Import Records Topics TopicsCorrect Groups Broker Handlers HandlersCorrect Admin AdminCorrect.
From S2P Require Import GroupsProperties BrokerSystem GroupHandlers Dispatcher.
From S2P Require Import AnswerSpec AnswerData AnswerGroups AnswerAdmin.
Open Scope Z_scope.

Module DispatcherCorrect.
Import ApiKeys RequestCodec Router Broker AdminCorrect GroupHandlers Dispatcher.
Import ErrorResponseCorrect BrokerSystem.

(** The three lists of APIs agree: what is advertised, what is dispatched and
    what has an answer for unsupported versions. *)
Lemma dispatched_keys :
  Capabilities.api_key <$> Capabilities.CAPABILITIES = DISPATCHED_API_KEYS ∧
  ErrorResponse.ERROR_RESPONSE_API_KEYS = DISPATCHED_API_KEYS.
Proof. split; reflexivity. Qed.

(** ** Fields of decoded requests *)

Lemma decoded_Int32 z : Decoded (decode Int32) z → in_signed 32 z.
Proof. intros Hz. by apply (decoded_int 4) in Hz. Qed.

Lemma fetch_max_bytes request : Decoded (decode (FetchRequest_codec 4)) request →
  in_signed 32 (FetchRequest_max_bytes request).
Proof. intros H. take_apart H. by apply decoded_Int32. Qed.

Lemma creatable_partitions version topic :
  4 ≤ version ≤ 7 → Decoded (decode (CreatableTopic_codec version)) topic →
  in_signed 32 (CreatableTopic_num_partitions topic).
Proof. intros Hv H. every_version Hv; take_apart H; by apply decoded_Int32. Qed.

Lemma decoded_Array {T : Type} (E : Codec T) l :
  Decoded (decode (Array E)) l → Forall (Decoded (decode E)) l.
Proof. by intros [_ H]%decoded_non_null%decoded_NullableArray. Qed.
Lemma decoded_CompactArray {T : Type} (E : Codec T) l :
  Decoded (decode (CompactArray E)) l → Forall (Decoded (decode E)) l.
Proof. by intros [_ H]%decoded_non_null%decoded_NullableCompactArray. Qed.

Lemma created_partitions version request :
  4 ≤ version ≤ 7 → Decoded (decode (CreateTopicsRequest_codec version)) request →
  Forall (λ t, in_signed 32 (CreatableTopic_num_partitions t)) (CreateTopicsRequest_topics request).
Proof.
  intros Hv H.
  assert (Forall (Decoded (decode (CreatableTopic_codec version))) (CreateTopicsRequest_topics request)) as Ht.
  { every_version Hv; take_apart H; cbn [CreateTopicsRequest_topics];
      first [exact (decoded_Array _ _ Hv2)|exact (decoded_CompactArray _ _ Hv2)]. }
  eapply Forall_impl; [exact Ht|]. intros t. by apply creatable_partitions.
Qed.

(** ** The waiting fetch *)

Section dispatch.
  Context `{Records.Crc32c}.
  Context (new_v4 : nat → Z) `{!TopicsCorrect.UniqueUuids new_v4}.
  Context (time : nat → Groups.clock) (deadline_passed timed_out : nat → bool).
  Context (advertised_kafka : AdvertisedAddress).

(** A fetch is answered with what the logs hold, and by the round in which its
    deadline passes at the latest. *)
Lemma fetch_wait_told polls i request s :
  in_signed 32 (FetchRequest_max_bytes request) →
  wp (fetch_wait deadline_passed timed_out polls i (fetch_fields request)) (λ r s',
    match r with
    | Some response => AnswerSpec.fetched s s' request (fetch_answer response)
    | None => ∀ j, (i ≤ j < i + polls)%nat → deadline_passed j = false ∧ timed_out j = false
    end) s.
Proof.
  intros Hmax. revert i s. induction polls as [|polls IH]; intros i s; cbn [fetch_wait].
  { intros j Hj. lia. }
  apply wp_bind. eapply wp_mono; [|by apply AnswerData.fetch_once_told].
  intros [response|seen response] s1 Hext1 Htold; [done|]. destruct Htold as [Htold Hpassed].
  destruct (timed_out i) eqn:Ht; [done|]. eapply wp_mono; [|apply IH].
  intros [r|] s2 _ Hr; [by apply (AnswerSpec.fetched_lasts s1 s s2 s2)|]. intros j Hj.
  destruct (decide (j = i)) as [->|]; [done|]. apply Hr. lia.
Qed.

(** ** Every handler *)

Definition waiting_api (key : ApiKey) : Prop :=
  key = ApiKey_Fetch ∨ key = ApiKey_JoinGroup ∨ key = ApiKey_SyncGroup.

(** What a dispatched request ends with: an answer, or, in a call that waits for
    other clients, nothing yet; a fetch has an answer once its deadline passed. *)
Definition answered_by (polls : nat) (request : DecodedRequest) (s0 : BrokerState)
    (r : option (result DispatchError ResponseKind)) (s1 : BrokerState) : Prop :=
  match r with
  | Some (Ok response) =>
      AnswerSpec.answer_ok advertised_kafka (RequestHeader_client_id (dr_header request))
        (RequestHeader_request_api_version (dr_header request)) (dr_body request) response s0 s1
  | Some (Err _) => False
  | None => waiting_api (dr_api_key request) ∧ (dr_api_key request = ApiKey_Fetch →
      ∀ i, (i < polls)%nat → deadline_passed i = false ∧ timed_out i = false)
  end.

Lemma wp_answer {A : Type} (into : A → ResponseKind) (p : prog A) P Q s :
  wp p P s → (∀ a s', P a s' → Q (Some (Ok (into a))) s') → wp (answer into p) Q s.
Proof. intros Hp HQ. apply wp_bind. eapply wp_mono; [|exact Hp]. intros a s' _. apply HQ. Qed.

Lemma wp_answer_waiting {A : Type} (into : A → ResponseKind) (p : prog (option A)) P Q s :
  wp p P s → (∀ a s', P a s' → Q ((λ r, Ok (into r)) <$> a) s') → wp (answer_waiting into p) Q s.
Proof. intros Hp HQ. apply wp_bind. eapply wp_mono; [|exact Hp]. intros a s' _. apply HQ. Qed.

Lemma dispatch_answered polls request c s :
  typed_request request → Capabilities.capability (dr_api_key request) = Some c →
  Capabilities.supports c (RequestHeader_request_api_version (dr_header request)) = true → indexable s →
  wp (dispatch new_v4 time deadline_passed timed_out advertised_kafka polls request)
    (answered_by polls request s) s.
Proof.
  destruct request as [header key body]. unfold typed_request, dispatch, answered_by.
  cbn [dr_header dr_api_key dr_body]. set (version := RequestHeader_request_api_version header).
  intros (_ & _ & Hbody & _) [Hc <-]%Capabilities.capability_Some [Hlo%Z.leb_le Hhi%Z.leb_le]%andb_true_iff Hi.
  unfold Capabilities.CAPABILITIES in Hc.
  repeat (apply elem_of_cons in Hc as [->|Hc]); [..|by apply elem_of_nil in Hc];
    cbn [Capabilities.api_key Capabilities.supported Capabilities.vw_min Capabilities.vw_max] in *;
    apply decoded_kind in Hbody as (x & -> & Hx).
  - eapply wp_answer; [by apply AnswerData.produce_told|done].
  - assert (version = 4) as Hv by lia. rewrite Hv in Hx.
    eapply wp_answer_waiting; [by apply fetch_wait_told, fetch_max_bytes|].
    intros [r|] s' Hr; [done|]. split; [by left|]. intros _ i Hlt. apply Hr. lia.
  - eapply wp_answer; [apply AnswerData.list_offsets_told|done].
  - eapply wp_answer; [by apply AnswerAdmin.metadata_answer_told|done].
  - eapply wp_answer; [apply AnswerGroups.offset_commit_answered|done].
  - eapply wp_answer; [apply AnswerGroups.offset_fetch_answered|done].
  - eapply wp_answer; [apply AnswerGroups.find_coordinator_answered|done].
  - eapply wp_answer_waiting; [apply AnswerGroups.join_group_answered|].
    intros [r|] s' Hr; [by apply Hr|]. split; [right; by left|done].
  - eapply wp_answer; [apply AnswerGroups.heartbeat_answered|done].
  - eapply wp_answer; [apply AnswerGroups.leave_group_answered|done].
  - eapply wp_answer_waiting; [apply AnswerGroups.sync_group_answered|].
    intros [r|] s' Hr; [by apply Hr|]. split; [right; by right|done].
  - eapply wp_answer; [apply AnswerGroups.describe_groups_answered|done].
  - eapply wp_answer; [apply AnswerGroups.list_groups_answered|done].
  - apply AnswerGroups.versions_answered.
  - eapply wp_answer; [apply AnswerAdmin.create_topics_told; [done|by eapply created_partitions]|done].
  - eapply wp_answer; [apply AnswerData.init_producer_id_told|done].
  - eapply wp_answer; [apply AnswerGroups.describe_configs_answered|done].
  - eapply wp_answer; [apply AnswerGroups.describe_cluster_answered|done].
  - eapply wp_answer; [by apply AnswerAdmin.describe_topic_partitions_told|done].
Qed.


End dispatch.

(** ** A produce request on the wire *)

#[local] Existing Instance Records.crc32c_instance.

Definition produce_header : RequestHeader := mkRequestHeader 0 7 5 (Some (of_str "c")) ∅.
Definition produce_body : ProduceRequest :=
  mkProduceRequest None (-1) 1000
    [mkTopicProduceData (of_str "orders") 0 [mkPartitionProduceData 1 (Some plain_set) ∅] ∅] ∅.
Definition produce_decoded : DecodedRequest :=
  mkDecodedRequest produce_header ApiKey_Produce (RequestKind_Produce produce_body).
Definition produce_frame : list byte := Eval vm_compute in
  match encode_request_header_into_buffer [] produce_header with
  | Ok bytes => match encode (ProduceRequest_codec 7) produce_body bytes with Ok bytes => bytes | Err _ => [] end
  | Err _ => []
  end.

Definition local_address : AdvertisedAddress := mkAdvertisedAddress "localhost" 9092.


End DispatcherCorrect.
