(* ===== verification/AnswersEncode.v ===== *)
(** * The answers of the handlers can be sent

    An answer that cannot be encoded closes the connection.  The variable parts
    of most answers come from the request: the names and the numbers of topics,
    partitions, members and resources.  They came out of the decoder of the
    request, in the version the answer is encoded in, so that they fit the length
    fields of the answer.  This file carries that through the handlers, on top of
    what [HandlersCorrect] and [AdminCorrect] say of their answers. *)

From S2P Require Import Prelude Config Types Errors MessageCodec MessagesData MessagesGroups MessagesTxn MessagesBuild.
From S2P Require Import ApiKeys Encodability RequestCodec Capabilities ErrorResponse ErrorResponseCorrect Router.
From S2P Require Import Records Partition PartitionCorrect Topics TopicsCorrect Groups Broker Handlers HandlersCorrect.
From S2P Require Import Admin AdminCorrect.
From S2P Require Import Pagination GroupsProperties BrokerSystem GroupHandlers GroupHandlersCorrect Dispatcher DispatcherCorrect.
From stdpp Require Import pretty.
Open Scope Z_scope.

Module AnswersEncode.
Import ApiKeys RequestCodec Router Broker GroupHandlers GroupHandlersCorrect Dispatcher.
Import ErrorResponseCorrect DispatcherCorrect BrokerSystem.

(** ** Arrays that follow a decoded array *)

Section follows.
  Context {T U V : Type} (E : Codec T) (F : Codec V) (h : U → V) (R : T → U → Prop).
  Hypothesis Hh : ∀ x r, Decoded (decode E) x → R x r → Encodes F (h r).

Lemma follows_encodes l rs :
  Forall (Decoded (decode E)) l → Forall2 R l rs → Forall (Encodes F) (map h rs).
Proof.
  intros Hl Hrs. revert Hl. induction Hrs as [|x r l rs Hxr _ IH]; intros Hl; [constructor|].
  apply Forall_cons in Hl as [Hx Hl]. constructor; [by eapply Hh|by apply IH].
Qed.

Lemma follows_len l rs : Forall2 R l rs → len (map h rs) = len l.
Proof. intros Hrs%Forall2_length. unfold len. rewrite length_map. lia. Qed.

Lemma Array_follows l rs :
  Decoded (decode (Array E)) l → Forall2 R l rs → Encodes (Array F) (map h rs).
Proof.
  intros [Hlen Hl]%decoded_non_null%decoded_NullableArray Hrs.
  apply Array_encodes; [by rewrite (follows_len l)|by eapply follows_encodes].
Qed.

Lemma CompactArray_follows l rs :
  Decoded (decode (CompactArray E)) l → Forall2 R l rs → Encodes (CompactArray F) (map h rs).
Proof.
  intros [Hlen Hl]%decoded_non_null%decoded_NullableCompactArray Hrs.
  apply CompactArray_encodes; [by rewrite (follows_len l)|by eapply follows_encodes].
Qed.
End follows.

Ltac known_field ::= assumption.

(** ** Produce *)

Lemma produced_partition_encodes p : Encodes (PartitionProduceResponse_codec 7) (produced_partition p).
Proof. encodes_message. Qed.

Definition produced_topic (topic : Handlers.TopicProduceResponse) : TopicProduceResponse :=
  TopicProduceResponse_default
    ▷ TopicProduceResponse_with_name (of_str (Handlers.tpr_name topic))
    ▷ TopicProduceResponse_with_partition_responses
        (map produced_partition (Handlers.tpr_partition_responses topic)).

Section data.
  Context {crc : Records.Crc32c}.

Lemma produced_topic_encodes request response :
  Decoded (decode (TopicProduceData_codec 7)) request →
  Handlers.tpr_name response = to_str (TopicProduceData_name request) →
  length (Handlers.tpr_partition_responses response) = length (TopicProduceData_partition_data request) →
  Encodes (TopicProduceResponse_codec 7) (produced_topic response).
Proof.
  intros H Hname Hlen. take_apart H. cbn [TopicProduceData_name TopicProduceData_partition_data] in *.
  unfold produced_topic. rewrite Hname, of_to_str.
  assert (Encodes (Array (Struct PartitionProduceResponse_codec 7))
    (map produced_partition (Handlers.tpr_partition_responses response))).
  { eapply (Array_follows _ _ _ (λ _ _, True)); [|eassumption|].
    - intros x r _ _. apply produced_partition_encodes.
    - by apply Forall2_true. }
  encodes_message.
Qed.

Lemma produce_answer_encodes request response s :
  Decoded (decode (ProduceRequest_codec 7)) request →
  HandlersCorrect.request_produced (produce_fields request) response s →
  Encodes (ProduceResponse_codec 7) (produce_answer response).
Proof.
  intros H Hr. take_apart H. unfold HandlersCorrect.request_produced, produce_fields in Hr.
  cbn [ProduceRequest_topic_data Handlers.pr_topic_data] in Hr. apply Forall2_fmap_l in Hr.
  assert (Encodes (Array (Struct TopicProduceResponse_codec 7))
    (map produced_topic (Handlers.prs_responses response))).
  { eapply Array_follows; [|eassumption|exact Hr]. intros t r Ht [Hname Hparts]. cbn in *.
    apply (produced_topic_encodes t); [done|done|].
    apply Forall2_length in Hparts. by rewrite length_map in Hparts. }
  encodes_message.
Qed.

(** ** ListOffsets *)

Definition listed_partition (p : Handlers.ListOffsetsPartitionResponse) : ListOffsetsPartitionResponse :=
  ListOffsetsPartitionResponse_default
    ▷ ListOffsetsPartitionResponse_with_partition_index (Handlers.lor_partition_index p)
    ▷ ListOffsetsPartitionResponse_with_error_code (Handlers.lor_error_code p)
    ▷ ListOffsetsPartitionResponse_with_timestamp (Handlers.lor_timestamp p)
    ▷ ListOffsetsPartitionResponse_with_offset (Handlers.lor_offset p)
    ▷ ListOffsetsPartitionResponse_with_leader_epoch (Handlers.lor_leader_epoch p).

Definition listed_topic (topic : Handlers.ListOffsetsTopicResponse) : ListOffsetsTopicResponse :=
  ListOffsetsTopicResponse_default
    ▷ ListOffsetsTopicResponse_with_name (of_str (Handlers.lotr_name topic))
    ▷ ListOffsetsTopicResponse_with_partitions (map listed_partition (Handlers.lotr_partitions topic)).

Lemma listed_topic_encodes request response :
  Decoded (decode (ListOffsetsTopic_codec 3)) request →
  Handlers.lotr_name response = to_str (ListOffsetsTopic_name request) →
  Forall2 (λ _ p, Handlers.lor_leader_epoch p = -1) (ListOffsetsTopic_partitions request)
    (Handlers.lotr_partitions response) →
  Encodes (ListOffsetsTopicResponse_codec 3) (listed_topic response).
Proof.
  intros H Hname Hparts. take_apart H. cbn [ListOffsetsTopic_name ListOffsetsTopic_partitions] in *.
  unfold listed_topic. rewrite Hname, of_to_str.
  assert (Encodes (Array (Struct ListOffsetsPartitionResponse_codec 3))
    (map listed_partition (Handlers.lotr_partitions response))).
  { eapply Array_follows; [|eassumption|exact Hparts]. intros x r _ Hr. cbv beta in Hr.
    unfold listed_partition. rewrite Hr. encodes_message. }
  encodes_message.
Qed.

Lemma list_offsets_answer_encodes request response s :
  Decoded (decode (ListOffsetsRequest_codec 3)) request →
  HandlersCorrect.offsets_listed (list_offsets_fields request) response s →
  Encodes (ListOffsetsResponse_codec 3) (list_offsets_answer response).
Proof.
  intros H Hr. take_apart H. unfold HandlersCorrect.offsets_listed, list_offsets_fields in Hr.
  cbn [ListOffsetsRequest_topics] in Hr. apply Forall2_fmap_l in Hr.
  assert (Encodes (Array (Struct ListOffsetsTopicResponse_codec 3)) (map listed_topic response)).
  { eapply Array_follows; [|eassumption|exact Hr]. intros t r Ht [Hname Hparts]. cbn in *.
    apply (listed_topic_encodes t); [done|done|]. apply Forall2_fmap_l in Hparts.
    eapply Forall2_impl; [exact Hparts|]. by intros p q [[_ ?] _]. }
  encodes_message.
Qed.

(** ** InitProducerId *)

Lemma init_producer_id_answer_encodes response :
  Encodes (InitProducerIdResponse_codec 0) (init_producer_id_answer response).
Proof. encodes_message. Qed.

(** ** Fetch *)

(** Every stored batch can be the value of a bytes field. *)
Definition batches_fit (s : BrokerState) : Prop :=
  ∀ topic index log, Topics.partition (topics s) topic index = Some log →
    Forall (λ b, len (Partition.sb_bytes b) ≤ i32_max) (Partition.batches log).

Lemma served_records_fit topic max_bytes request response s :
  batches_fit s → max_bytes ≤ i32_max →
  HandlersCorrect.partition_served topic max_bytes request response s →
  Encodes NullableBytes (Handlers.pd_records response).
Proof.
  intros Hfit Hmax (_ & records & -> & Herr & Hok). apply NullableBytes_encodes. cbn.
  destruct (decide (Handlers.pd_error_code response = 0)) as [Hz|Hz].
  2: { by rewrite (Herr Hz). }
  destruct (Hok Hz) as (log & pre & got & post & Hl & Hb & -> & _ & _ & Hlim).
  destruct Hlim as [Hone|Hlim]; [|lia]. destruct got as [|b [|b' got]]; [done| |cbn in Hone; lia].
  specialize (Hfit _ _ _ Hl). rewrite Hb, Forall_app in Hfit. destruct Hfit as [_ Hfit].
  cbn in Hfit. apply Forall_cons in Hfit as [Hfit _]. unfold PartitionCorrect.bytes_of. cbn.
  by rewrite app_nil_r.
Qed.

Definition fetched_topic (topic : Handlers.FetchableTopicResponse) : FetchableTopicResponse :=
  FetchableTopicResponse_default
    ▷ FetchableTopicResponse_with_topic (of_str (Handlers.ftr_topic topic))
    ▷ FetchableTopicResponse_with_partitions (map fetched_data (Handlers.ftr_partitions topic)).

Lemma fetched_topic_encodes request response :
  Decoded (decode (FetchRequest_FetchTopic_codec 4)) request →
  Handlers.ftr_topic response = to_str (FetchRequest_FetchTopic_topic request) →
  Forall2 (λ _ p, Encodes NullableBytes (Handlers.pd_records p))
    (FetchRequest_FetchTopic_partitions request) (Handlers.ftr_partitions response) →
  Encodes (FetchableTopicResponse_codec 4) (fetched_topic response).
Proof.
  intros H Hname Hparts. take_apart H.
  cbn [FetchRequest_FetchTopic_topic FetchRequest_FetchTopic_partitions] in *.
  unfold fetched_topic. rewrite Hname, of_to_str.
  assert (Encodes (Array (Struct FetchResponse_PartitionData_codec 4))
    (map fetched_data (Handlers.ftr_partitions response))).
  { eapply Array_follows; [|eassumption|exact Hparts]. intros x r _ Hr. cbv beta in Hr. encodes_message. }
  encodes_message.
Qed.

Lemma fetch_answer_encodes request response s :
  Decoded (decode (FetchRequest_codec 4)) request → batches_fit s →
  HandlersCorrect.request_served (fetch_fields request) response s →
  Encodes (FetchResponse_codec 4) (fetch_answer response).
Proof.
  intros H Hfit Hr. assert (Handlers.to_usize (FetchRequest_max_bytes request) ≤ i32_max) as Hmax.
  { pose proof (fetch_max_bytes request H) as Hm. unfold Handlers.to_usize, try_unsigned, in_signed in *.
    cbn in Hm. unfold i32_max. case_decide; cbn; lia. }
  take_apart H. unfold HandlersCorrect.request_served, fetch_fields in Hr.
  cbn [FetchRequest_topics FetchRequest_max_bytes Handlers.fr_topics Handlers.fr_max_bytes] in *.
  apply Forall2_fmap_l in Hr.
  assert (Encodes (Array (Struct FetchableTopicResponse_codec 4))
    (map fetched_topic (Handlers.frs_responses response))).
  { eapply Array_follows; [|eassumption|exact Hr]. intros t r Ht [Hname Hparts]. cbn in *.
    apply (fetched_topic_encodes t); [done|done|].
    apply Forall2_fmap_l in Hparts. eapply Forall2_impl; [exact Hparts|].
    intros p q Hp. by eapply served_records_fit. }
  encodes_message.
Qed.

(** ** CreateTopics *)

Definition created_topic (t : Admin.CreatableTopicResult) : CreatableTopicResult :=
  CreatableTopicResult_default
    ▷ CreatableTopicResult_with_name (of_str (Admin.ctr_name t))
    ▷ CreatableTopicResult_with_topic_id (Admin.ctr_topic_id t)
    ▷ CreatableTopicResult_with_error_code (Admin.ctr_error_code t)
    ▷ CreatableTopicResult_with_error_message (of_str <$> Admin.ctr_error_message t)
    ▷ CreatableTopicResult_with_num_partitions (Admin.ctr_num_partitions t)
    ▷ CreatableTopicResult_with_replication_factor (Admin.ctr_replication_factor t)
    ▷ CreatableTopicResult_with_configs (Some []).

Lemma of_str_len s : len (of_str s) = Z.of_nat (String.length s).
Proof.
  unfold len, of_str. f_equal. unfold String.list_byte_of_string. rewrite length_map.
  induction s as [|c s IH]; [done|]. cbn. by rewrite IH.
Qed.

Lemma short_message_len message :
  AdminCorrect.short_message message = true →
  opt_all (λ s, len s ≤ i16_max) (of_str <$> message) ∧ opt_all (λ s, len s < u32_max) (of_str <$> message).
Proof.
  unfold AdminCorrect.short_message. rewrite Nat.leb_le. destruct message as [m|]; [|done].
  cbn. rewrite of_str_len. unfold i16_max, u32_max. lia.
Qed.

Lemma created_topic_encodes version request result :
  4 ≤ version ≤ 7 → Decoded (decode (CreatableTopic_codec version)) request →
  Admin.ctr_name result = to_str (CreatableTopic_name request) →
  AdminCorrect.short_message (Admin.ctr_error_message result) = true →
  Encodes (CreatableTopicResult_codec version) (created_topic result).
Proof.
  intros Hv H Hname [Hshort Hcompact]%short_message_len.
  apply NullableString_encodes in Hshort. apply NullableCompactString_encodes in Hcompact.
  unfold created_topic.
  every_version Hv; (take_apart H; cbn [CreatableTopic_name] in Hname; rewrite Hname, of_to_str;
    encodes_message).
Qed.

Lemma create_topics_answer_encodes version request results validate_only s :
  4 ≤ version ≤ 7 → Decoded (decode (CreateTopicsRequest_codec version)) request →
  Forall2 (λ t r, AdminCorrect.topic_created t validate_only r s) (create_topics_fields request) results →
  Encodes (CreateTopicsResponse_codec version) (create_topics_answer results).
Proof.
  intros Hv H Hr. unfold create_topics_fields in Hr. apply Forall2_fmap_l in Hr.
  assert (∀ t r, Decoded (decode (CreatableTopic_codec version)) t →
    AdminCorrect.topic_created (Admin.mkCreatableTopic (to_str (CreatableTopic_name t))
      (CreatableTopic_num_partitions t) (CreatableTopic_replication_factor t)
      (map (λ a, (CreatableReplicaAssignment_partition_index a, CreatableReplicaAssignment_broker_ids a))
        (CreatableTopic_assignments t))
      (map (λ c, (to_str (CreatableTopicConfig_name c), to_str <$> CreatableTopicConfig_value c))
        (CreatableTopic_configs t))) validate_only r s →
    Encodes (CreatableTopicResult_codec version) (created_topic r)) as Hone.
  { intros t r Ht [[Hname Hshort] _]. by apply (created_topic_encodes version t). }
  every_version Hv; take_apart H; cbn [CreateTopicsRequest_topics] in Hr.
  - assert (Encodes (Array (Struct CreatableTopicResult_codec 4)) (map created_topic results))
      by (eapply Array_follows; [|eassumption|exact Hr]; exact Hone). encodes_message.
  - assert (Encodes (CompactArray (Struct CreatableTopicResult_codec 5)) (map created_topic results))
      by (eapply CompactArray_follows; [|eassumption|exact Hr]; exact Hone). encodes_message.
  - assert (Encodes (CompactArray (Struct CreatableTopicResult_codec 6)) (map created_topic results))
      by (eapply CompactArray_follows; [|eassumption|exact Hr]; exact Hone). encodes_message.
  - assert (Encodes (CompactArray (Struct CreatableTopicResult_codec 7)) (map created_topic results))
      by (eapply CompactArray_follows; [|eassumption|exact Hr]; exact Hone). encodes_message.
Qed.

(** ** Metadata *)

(** The topics of a metadata answer: those of the catalog, described, and errors
    for what was requested. *)
Definition topic_shape (requested : list Admin.MetadataRequestTopic) (r : Admin.MetadataResponseTopic)
    (s : BrokerState) : Prop :=
  Admin.mt_topic_authorized_operations r = i32_min ∧
  ((∃ m id, Topics.lookup_topic (topics s) (Topics.tm_name m) = Some m ∧
      (String.length (Topics.tm_name m) ≤ 249)%nat ∧ Admin.mt_name r = Some (Topics.tm_name m) ∧
      Admin.mt_partitions r = AdminCorrect.partition_entry id <$> Admin.range 0 (Topics.tm_partition_count m)) ∨
   (Admin.mt_partitions r = [] ∧
     (Admin.mt_name r = None ∨ Admin.mt_name r = Some "" ∨
      ∃ t, t ∈ requested ∧ Admin.mt_name r = Admin.mrt_name t))).

Lemma topic_shape_stable requested : stable (topic_shape requested).
Proof.
  intros r s s' Hext [Ho [(m & id & Hl & ?)|?]]; (split; [done|]); [left|by right].
  exists m, id. split; [|done]. eapply TopicsCorrect.catalog_extends_lookup; [|done]. apply Hext.
Qed.

Lemma topic_shape_incl requested requested' r s :
  requested ⊆ requested' → topic_shape requested r s → topic_shape requested' r s.
Proof. intros Hsub [Ho [?|[? [?|[?|(t & Ht & ?)]]]]]; (split; [done|]); [by left|right..]; naive_solver. Qed.

Lemma lookup_name_short s name m :
  broker_wf s → Topics.lookup_topic (topics s) name = Some m → (String.length name ≤ 249)%nat.
Proof.
  intros ((_ & Hn & _) & _) (e & He & ->)%fmap_Some. destruct (Hn _ _ He) as [(_ & Hv & _) _].
  unfold Topics.validate_name in Hv. destruct (negb _ && _ && _ && _ && _) eqn:Hb; [|done].
  rewrite !andb_true_iff in Hb. destruct Hb as [[[[_ Hlen%bool_decide_eq_true] _] _] _]. lia.
Qed.

Lemma described_shape requested m id s s' :
  broker_wf s → broker_extends s s' → Topics.lookup_topic (topics s) (Topics.tm_name m) = Some m →
  topic_shape requested (AdminCorrect.described m id) s'.
Proof.
  intros Hwf Hext Hl. split; [done|]. left. exists m, id. split_and!; [|by eapply lookup_name_short|done..].
  eapply TopicsCorrect.catalog_extends_lookup; [|done]. apply Hext.
Qed.

Lemma topic_by_name_shape t name s :
  AdminCorrect.indexable s → Admin.mrt_name t = Some name →
  wp (Admin.topic_by_name name) (λ r s', topic_shape [t] r s') s.
Proof.
  intros Hi Hn. unfold Admin.topic_by_name. apply wp_bind, wp_read. intros s1 Hwf1 Hext1.
  apply wp_bind, wp_read. intros s2 Hwf2 Hext2.
  assert (∀ e, topic_shape [t] (Admin.error_topic (Some name) 0 e) s2) as Herr.
  { intros e. split; [done|]. right. split; [done|]. right. right. exists t. split; [left|done]. }
  destruct (TopicsCorrect.get_cases (topics s1) name) as [[-> _]|[-> _]]; [|apply Herr].
  destruct (Topics.lookup_topic (topics s1) name) as [m|] eqn:Hl; [|apply Herr].
  destruct (AdminCorrect.lookup_topic_indexable s1 name m Hwf1
    (AdminCorrect.indexable_extends _ _ Hext1 Hi) Hl) as [Hc <-].
  rewrite AdminCorrect.success_topic_Some by lia. by apply (described_shape [t] m _ s1 s2).
Qed.

Lemma topics_by_name_shape seen requested s :
  AdminCorrect.indexable s →
  wp (Admin.topics_by_name seen requested)
    (λ rs s', Forall (λ r, topic_shape requested r s') rs ∧ (length rs ≤ length requested)%nat) s.
Proof.
  revert seen s. induction requested as [|t requested IH]; intros seen s Hi; cbn [Admin.topics_by_name].
  { by split. }
  case_decide as Hseen.
  { eapply wp_mono; [|by apply IH]. intros rs s1 _ [Hrs Hlen]. split; [|cbn; lia].
    eapply Forall_impl; [exact Hrs|]. intros r. apply topic_shape_incl. set_solver. }
  apply wp_bind. eapply (wp_mono _ (λ r s1, topic_shape [t] r s1)).
  - intros r s1 Hext1 Hr. apply wp_bind.
    eapply wp_mono; [|apply IH; by eapply AdminCorrect.indexable_extends].
    intros rs s2 Hext2 [Hrs Hlen]. split; [|cbn; lia]. constructor.
    + eapply topic_shape_stable; [exact Hext2|]. eapply topic_shape_incl; [|exact Hr]. set_solver.
    + eapply Forall_impl; [exact Hrs|]. intros r'. apply topic_shape_incl. set_solver.
  - destruct (Admin.mrt_name t) as [name|] eqn:Hn; [by apply topic_by_name_shape|].
    split; [done|]. right. split; [done|by left].
Qed.

Lemma shapes_extend requested s s' rs :
  broker_extends s s' → Forall (λ r, topic_shape requested r s) rs →
  Forall (λ r, topic_shape requested r s') rs.
Proof. intros Hext Hrs. eapply Forall_impl; [exact Hrs|]. intros r. by apply topic_shape_stable. Qed.

Lemma topics_by_id_shape all seen requested unknown known s :
  AdminCorrect.indexable s → Forall (λ r, topic_shape all r s) unknown →
  Forall (λ r, topic_shape all r s) known →
  wp (Admin.topics_by_id seen requested unknown known)
    (λ rs s', Forall (λ r, topic_shape all r s') rs ∧
      (length rs ≤ length unknown + length known + length requested)%nat) s.
Proof.
  revert seen unknown known s. induction requested as [|t requested IH];
    intros seen unknown known s Hi Hu Hk; cbn [Admin.topics_by_id].
  { split; [by apply Forall_app|]. rewrite length_app. lia. }
  case_decide.
  { eapply wp_mono; [|by apply IH]. intros rs s1 _ [Hrs Hlen]. split; [done|]. cbn. lia. }
  apply wp_bind, wp_read. intros s1 Hwf1 Hext1.
  pose proof (AdminCorrect.indexable_extends _ _ Hext1 Hi) as Hi1.
  destruct (Topics.get_by_id (topics s1) (Admin.mrt_topic_id t)) as [m|] eqn:Hg.
  - apply TopicsCorrect.get_by_id_lookup in Hg as [Hid Hl]; [|apply Hwf1].
    destruct (AdminCorrect.lookup_topic_indexable s1 _ m Hwf1 Hi1 Hl) as [Hc _].
    apply wp_bind, wp_read. intros s2 Hwf2 Hext2. rewrite AdminCorrect.success_topic_Some by lia. cbn.
    assert (broker_extends s s2) as Hext by (by etrans).
    eapply wp_mono; [|apply IH; [by eapply AdminCorrect.indexable_extends|by eapply shapes_extend|]].
    + intros rs s3 _ [Hrs Hlen]. split; [done|]. rewrite length_app in Hlen. cbn in Hlen |- *. lia.
    + apply Forall_app. split; [by eapply shapes_extend|].
      constructor; [|done]. by apply (described_shape all m _ s1 s2).
  - eapply wp_mono; [|apply IH; [done| |by eapply shapes_extend]].
    + intros rs s3 _ [Hrs Hlen]. split; [done|]. rewrite length_app in Hlen. cbn in Hlen |- *. lia.
    + apply Forall_app. split; [by eapply shapes_extend|]. constructor; [|done].
      split; [done|]. right. split; [done|by left].
Qed.

(** The catalog only grows. *)
Lemma list_topics_grows c c' :
  TopicsCorrect.catalog_extends c c' →
  (length (Topics.list_topics c) ≤ length (Topics.list_topics c'))%nat.
Proof.
  intros [_ Hext]. unfold Topics.list_topics.
  rewrite !length_fmap, !merge_sort_Permutation, !length_map_to_list, <- !size_dom.
  apply subseteq_size. intros name [e He]%elem_of_dom. apply elem_of_dom.
  destruct (Hext _ _ He) as (e' & He' & _). by exists e'.
Qed.

Section metadata.
  Context (new_v4 : nat → Z) `{!TopicsCorrect.UniqueUuids new_v4}.

Lemma auto_create_requested_returns requested s :
  wp (Admin.auto_create_requested new_v4 requested) (λ _ _, True) s.
Proof. eapply wp_mono; [|by apply AdminCorrect.auto_create_requested_done]. done. Qed.

Lemma topics_for_request_shape request version s :
  AdminCorrect.indexable s →
  wp (Admin.topics_for_request new_v4 request version)
    (λ rs s', Forall (λ r, topic_shape (default [] (Admin.mr_topics request)) r s') rs ∧
      (length rs ≤ length (default [] (Admin.mr_topics request)) ∨
       length rs ≤ length (Topics.list_topics (topics s')))%nat) s.
Proof.
  intros Hi. unfold Admin.topics_for_request.
  destruct (Admin.mr_topics request) as [[|t requested]|] eqn:Hreq.
  - split; [done|by left].
  - remember (t :: requested) as ts eqn:Hts. clear Hts t requested. cbn [default id]. case_match.
    + eapply wp_mono; [|by apply (topics_by_id_shape ts)]. intros rs s1 _ [Hrs Hlen]. split; [done|by left].
    + apply wp_bind, wp_read. intros s1 Hwf1 Hext1. apply wp_bind.
      eapply (wp_mono _ (λ _ _, True)).
      * intros _ s2 Hext2 _. eapply wp_mono; [|apply topics_by_name_shape].
        -- intros rs s3 _ [Hrs Hlen]. split; [done|by left].
        -- eapply AdminCorrect.indexable_extends; [|exact Hi]. by etrans.
      * case_match; [apply auto_create_requested_returns|done].
  - apply wp_bind, wp_read. intros s1 Hwf1 Hext1. apply wp_bind, wp_read. intros s2 Hwf2 Hext2.
    eapply wp_mono; [|apply (wp_for_each _ _ (λ _, topic_shape []))].
    + intros rs s3 Hext3 Hrs. split; [by induction Hrs; constructor|]. right.
      rewrite <- (Forall2_length _ _ _ Hrs). apply list_topics_grows.
      assert (broker_extends s1 s3) as (_ & _ & _ & ? & _) by (by etrans). done.
    + intros _. apply topic_shape_stable.
    + intros m s3 Hm Hext3. apply TopicsCorrect.elem_of_list_topics in Hm; [|apply Hwf1].
      destruct (AdminCorrect.lookup_topic_indexable s1 _ m Hwf1
        (AdminCorrect.indexable_extends _ _ Hext1 Hi) Hm) as [Hc _].
      rewrite AdminCorrect.success_topic_Some by lia. apply (described_shape [] m _ s1 s3); [done|by etrans|done].
Qed.

(** What the whole answer looks like. *)
Definition metadata_shape (request : Admin.MetadataRequest) (version : Z) (hostname : string)
    (response : Admin.MetadataResponse) (s : BrokerState) : Prop :=
  let topic_operations := Admin.optional_authorized_operations
    (Admin.mr_include_topic_authorized_operations request) Admin.TOPIC_AUTHORIZED_OPERATIONS in
  let cluster_operations := Admin.optional_authorized_operations
    (Admin.mr_include_cluster_authorized_operations request) Admin.CLUSTER_AUTHORIZED_OPERATIONS in
  let requested := default [] (Admin.mr_topics request) in
  (Admin.mrs_brokers response = [] ∨
   ∃ id port, Admin.mrs_brokers response = [Admin.mkMetadataResponseBroker id hostname port]) ∧
  (Admin.mrs_cluster_id response = None ∨ Admin.mrs_cluster_id response = Some Admin.CLUSTER_ID) ∧
  (Admin.mrs_cluster_authorized_operations response = i32_min ∨
   Admin.mrs_cluster_authorized_operations response = cluster_operations) ∧
  Forall (λ t, ∃ r, topic_shape requested r s ∧ Admin.mt_name t = Admin.mt_name r ∧
    Admin.mt_partitions t = Admin.mt_partitions r ∧
    (Admin.mt_topic_authorized_operations t = i32_min ∨
     Admin.mt_topic_authorized_operations t = topic_operations)) (Admin.mrs_topics response) ∧
  (length (Admin.mrs_topics response) ≤ length requested ∨
   length (Admin.mrs_topics response) ≤ length (Topics.list_topics (topics s)))%nat.

Lemma metadata_shaped request version hostname port s :
  AdminCorrect.indexable s →
  wp (Admin.metadata new_v4 request version hostname port) (metadata_shape request version hostname) s.
Proof.
  intros Hi. unfold Admin.metadata. destruct (Admin.request_error request version) as [e|].
  - cbn [wp]. unfold metadata_shape, Admin.request_error_response.
    cbn [Admin.mrs_brokers Admin.mrs_cluster_id Admin.mrs_cluster_authorized_operations Admin.mrs_topics].
    split_and!; [by left..| |left; by rewrite length_fmap].
    apply Forall_fmap, Forall_forall. intros t Ht. eexists. split_and!; [|reflexivity..|by left].
    split; [done|]. right. split; [done|]. right. cbn.
    destruct (Admin.mrt_name t) as [name|] eqn:Hn; [right; exists t; by rewrite Hn|by left].
  - apply wp_bind. eapply wp_mono; [|by apply topics_for_request_shape]. intros rs s1 Hext1 [Hrs Hlen].
    apply wp_bind, wp_read. intros s2 Hwf2 Hext2. cbn [wp]. unfold metadata_shape.
    cbn [Admin.mrs_brokers Admin.mrs_cluster_id Admin.mrs_cluster_authorized_operations Admin.mrs_topics].
    split_and!; [right; eauto|by right|by right| |].
    + apply Forall_fmap. eapply Forall_impl; [exact Hrs|]. intros r Hr. cbn. exists r.
      split; [by eapply topic_shape_stable|]. destruct Hr as [Ho _]. unfold Admin.with_operations.
      case_decide; cbn; auto.
    + rewrite length_fmap. destruct Hlen as [?|Hlen]; [by left|]. right. etrans; [exact Hlen|].
      apply list_topics_grows, Hext2.
Qed.
End metadata.

(** The catalog fits the answer: the number of topics, and of the partitions of
    each. *)
Definition catalog_fits (s : BrokerState) : Prop :=
  len (Topics.list_topics (topics s)) ≤ i32_max ∧
  ∀ name m, Topics.lookup_topic (topics s) name = Some m → Topics.tm_partition_count m ≤ i32_max.

Definition metadata_partition (p : Admin.MetadataResponsePartition) : MetadataResponsePartition :=
  MetadataResponsePartition_default
    ▷ MetadataResponsePartition_with_partition_index (Admin.mrp_partition_index p)
    ▷ MetadataResponsePartition_with_leader_id (Admin.mrp_leader_id p)
    ▷ MetadataResponsePartition_with_leader_epoch (Admin.mrp_leader_epoch p)
    ▷ MetadataResponsePartition_with_replica_nodes (Admin.mrp_replica_nodes p)
    ▷ MetadataResponsePartition_with_isr_nodes (Admin.mrp_isr_nodes p)
    ▷ MetadataResponsePartition_with_offline_replicas (Admin.mrp_offline_replicas p).

Lemma metadata_partition_encodes version id index :
  4 ≤ version ≤ 13 →
  Encodes (MetadataResponsePartition_codec version)
    (metadata_partition (AdminCorrect.partition_entry id index)).
Proof. intros Hv. every_version Hv; encodes_message. Qed.

(** A nullable string in the form of the version. *)
Definition name_fits (version : Z) (name : option string) : Prop :=
  if version <=? 8 then Encodes NullableString (of_str <$> name)
  else Encodes NullableCompactString (of_str <$> name).

Lemma short_name_fits version name :
  (String.length (default "" name) ≤ 249)%nat → name_fits version name.
Proof.
  intros Hn. unfold name_fits. destruct (version <=? 8);
    [apply NullableString_encodes|apply NullableCompactString_encodes]; destruct name as [n|]; cbn in *;
    rewrite ?of_str_len; unfold i16_max, u32_max; (done || lia).
Qed.

Lemma partitions_encode version t :
  4 ≤ version ≤ 13 →
  (∃ id l, Admin.mt_partitions t = AdminCorrect.partition_entry id <$> l ∧ len l ≤ i32_max) →
  Encodes (Array (Struct MetadataResponsePartition_codec version)) (map metadata_partition (Admin.mt_partitions t)) ∧
  Encodes (CompactArray (Struct MetadataResponsePartition_codec version)) (map metadata_partition (Admin.mt_partitions t)).
Proof.
  intros Hv (id & l & -> & Hlen).
  assert (len (map metadata_partition (AdminCorrect.partition_entry id <$> l)) = len l) as Hmap.
  { unfold len. by rewrite length_map, length_fmap. }
  assert (Forall (Encodes (Struct MetadataResponsePartition_codec version))
    (map metadata_partition (AdminCorrect.partition_entry id <$> l))) as Hall.
  { apply Forall_fmap, Forall_fmap, Forall_true. intros i. by apply metadata_partition_encodes. }
  split; [apply Array_encodes|apply CompactArray_encodes]; rewrite ?Hmap; try done.
  unfold i32_max, u32_max in *. lia.
Qed.

Lemma metadata_topic_encodes version t :
  4 ≤ version ≤ 13 → name_fits version (Admin.mt_name t) →
  (version <= 7 → Admin.mt_topic_authorized_operations t = i32_min) →
  (∃ id l, Admin.mt_partitions t = AdminCorrect.partition_entry id <$> l ∧ len l ≤ i32_max) →
  Encodes (MetadataResponseTopic_codec version) (metadata_topic t).
Proof.
  intros Hv Hname Hops [Harray Hcompact]%(partitions_encode version t); [|done].
  every_version Hv; unfold name_fits in Hname; cbn in Hname;
    try (specialize (Hops ltac:(lia)); unfold metadata_topic; rewrite Hops); encodes_message.
Qed.

(** What the decoder says of a metadata request. *)
Lemma metadata_request_fields version request :
  4 ≤ version ≤ 13 → Decoded (decode (MetadataRequest_codec version)) request →
  let topics := default [] (MetadataRequest_topics request) in
  Forall (Decoded (decode (MetadataRequestTopic_codec version))) topics ∧
  (version <= 8 → len topics ≤ i32_max) ∧ len topics < u32_max ∧
  (version <= 7 → MetadataRequest_include_topic_authorized_operations request = false) ∧
  (version <= 7 ∨ 11 <= version → MetadataRequest_include_cluster_authorized_operations request = false).
Proof.
  intros Hv H topics. unfold topics.
  assert (∀ (l : option (list MetadataRequestTopic)) E, Decoded (decode (NullableArray E)) l →
    Forall (Decoded (decode E)) (default [] l) ∧ len (default [] l) ≤ i32_max) as Harray.
  { intros [l|] E Hl; [|done]. by apply decoded_NullableArray in Hl as [? ?]. }
  assert (∀ (l : option (list MetadataRequestTopic)) E, Decoded (decode (NullableCompactArray E)) l →
    Forall (Decoded (decode E)) (default [] l) ∧ len (default [] l) < u32_max) as Hcompact.
  { intros [l|] E Hl; [|done]. by apply decoded_NullableCompactArray in Hl as [? ?]. }
  every_version Hv; take_apart H;
    cbn [MetadataRequest_topics MetadataRequest_include_topic_authorized_operations
      MetadataRequest_include_cluster_authorized_operations];
    first [match goal with H : Decoded (decode (NullableArray _)) _ |- _ => apply Harray in H as [? ?] end
          |match goal with H : Decoded (decode (NullableCompactArray _)) _ |- _ => apply Hcompact in H as [? ?] end];
    unfold i32_max, u32_max in *; split_and!; (done || lia).
Qed.

Lemma requested_name_fits version t :
  4 ≤ version ≤ 13 → Decoded (decode (MetadataRequestTopic_codec version)) t →
  name_fits version (to_str <$> MetadataRequestTopic_name t).
Proof.
  assert (∀ name : option (list byte), of_str <$> (to_str <$> name) = name) as Hback.
  { intros [name|]; cbn; [by rewrite of_to_str|done]. }
  intros Hv H. unfold name_fits. rewrite Hback.
  every_version Hv; take_apart H; cbn [MetadataRequestTopic_name]; reduce_versions;
    (by apply NullableString_decoded) || by apply NullableCompactString_decoded.
Qed.

Lemma shape_fits version requested r s :
  catalog_fits s → Forall (λ t, name_fits version (Admin.mrt_name t)) requested →
  topic_shape requested r s →
  name_fits version (Admin.mt_name r) ∧
  ∃ id l, Admin.mt_partitions r = AdminCorrect.partition_entry id <$> l ∧ len l ≤ i32_max.
Proof.
  intros [_ Hcount] Hreq [_ [(m & id & Hl & Hshort & -> & ->)|[-> Hname]]].
  - split; [by apply short_name_fits|]. exists id. eexists. split; [reflexivity|].
    specialize (Hcount _ _ Hl). unfold Admin.range, len. rewrite length_fmap, length_seq.
    unfold i32_max in *. lia.
  - split; [|by exists 0, []]. destruct Hname as [->|[->|(t & Ht & ->)]].
    + apply short_name_fits. cbn. lia.
    + apply short_name_fits. cbn. lia.
    + rewrite Forall_forall in Hreq. by apply Hreq.
Qed.

Lemma metadata_topics_encode version request hostname response s :
  4 ≤ version ≤ 13 → Decoded (decode (MetadataRequest_codec version)) request → catalog_fits s →
  metadata_shape (metadata_fields request) version hostname response s →
  (version <= 8 → Encodes (Array (Struct MetadataResponseTopic_codec version))
    (map metadata_topic (Admin.mrs_topics response))) ∧
  (9 <= version → Encodes (CompactArray (Struct MetadataResponseTopic_codec version))
    (map metadata_topic (Admin.mrs_topics response))).
Proof.
  intros Hv H Hfits (_ & _ & _ & Hshapes & Hlen).
  destruct (metadata_request_fields version request Hv H) as (Hdec & Hl8 & Hlu & Htopic & _).
  set (requested := default [] (Admin.mr_topics (metadata_fields request))) in *.
  assert (requested = map (λ topic, {|
      Admin.mrt_topic_id := MetadataRequestTopic_topic_id topic;
      Admin.mrt_name := to_str <$> MetadataRequestTopic_name topic |})
    (default [] (MetadataRequest_topics request))) as Hreq.
  { unfold requested, metadata_fields. cbn. by destruct (MetadataRequest_topics request). }
  assert (Forall (λ t, name_fits version (Admin.mrt_name t)) requested) as Hnames.
  { rewrite Hreq. apply Forall_fmap. eapply Forall_impl; [exact Hdec|]. intros t Ht.
    by apply requested_name_fits. }
  assert (Forall (Encodes (Struct MetadataResponseTopic_codec version))
    (map metadata_topic (Admin.mrs_topics response))) as Hall.
  { apply Forall_fmap. eapply Forall_impl; [exact Hshapes|]. intros t (r & Hr & Hn & Hp & Hops).
    destruct (shape_fits version requested r s Hfits Hnames Hr) as [Hname Hparts].
    apply metadata_topic_encodes; [done|by rewrite Hn| |by rewrite Hp]. intros H7.
    destruct Hops as [->| ->]; [done|]. unfold metadata_fields.
    cbn [Admin.mr_include_topic_authorized_operations]. by rewrite Htopic. }
  assert (len requested = len (default [] (MetadataRequest_topics request))) as Hlr.
  { unfold len. by rewrite Hreq, length_map. }
  assert (len (map metadata_topic (Admin.mrs_topics response)) ≤
    Z.max (len requested) (len (Topics.list_topics (topics s)))) as Hmax.
  { unfold len. rewrite length_map. lia. }
  destruct Hfits as [Hcat _]. unfold i32_max, u32_max in *. split; intros H8.
  - apply Array_encodes; [|done]. unfold i32_max. specialize (Hl8 H8). lia.
  - apply CompactArray_encodes; [|done]. unfold u32_max. lia.
Qed.

Definition metadata_broker (b : Admin.MetadataResponseBroker) : MetadataResponseBroker :=
  MetadataResponseBroker_default
    ▷ MetadataResponseBroker_with_node_id (Admin.mb_node_id b)
    ▷ MetadataResponseBroker_with_host (of_str (Admin.mb_host b))
    ▷ MetadataResponseBroker_with_port (Admin.mb_port b).

Lemma brokers_encode version hostname brokers :
  4 ≤ version ≤ 13 → Z.of_nat (String.length hostname) ≤ i16_max →
  (brokers = [] ∨ ∃ id port, brokers = [Admin.mkMetadataResponseBroker id hostname port]) →
  Encodes (Array (Struct MetadataResponseBroker_codec version)) (map metadata_broker brokers) ∧
  Encodes (CompactArray (Struct MetadataResponseBroker_codec version)) (map metadata_broker brokers).
Proof.
  intros Hv Hhost Hb.
  assert (Forall (Encodes (Struct MetadataResponseBroker_codec version)) (map metadata_broker brokers)
    ∧ len (map metadata_broker brokers) ≤ 1) as [Hall Hlen].
  { destruct Hb as [->|(id & port & ->)]; [split; [constructor|done]|].
    split; [|done]. constructor; [|constructor].
    assert (Encodes KafkaString (of_str hostname)) by (apply KafkaString_encodes; by rewrite of_str_len).
    assert (Encodes CompactString (of_str hostname))
      by (apply CompactString_encodes; rewrite of_str_len; unfold i16_max, u32_max in *; lia).
    every_version Hv; encodes_message. }
  split; [apply Array_encodes|apply CompactArray_encodes]; try done; unfold i32_max, u32_max; lia.
Qed.

Lemma metadata_answer_encodes version request hostname response s :
  4 ≤ version ≤ 13 → Decoded (decode (MetadataRequest_codec version)) request → catalog_fits s →
  Z.of_nat (String.length hostname) ≤ i16_max →
  metadata_shape (metadata_fields request) version hostname response s →
  Encodes (MetadataResponse_codec version) (metadata_answer response).
Proof.
  intros Hv H Hfits Hhost Hshape.
  destruct (metadata_topics_encode version request hostname response s Hv H Hfits Hshape) as [Ht8 Ht9].
  destruct (metadata_request_fields version request Hv H) as (_ & _ & _ & _ & Hcluster).
  destruct Hshape as (Hb & Hid & Hops & _).
  destruct (brokers_encode version hostname (Admin.mrs_brokers response) Hv Hhost Hb) as [Hb8 Hb9].
  assert (Encodes NullableString (of_str <$> Admin.mrs_cluster_id response)) as Hid8
    by (destruct Hid as [->| ->]; by apply NullableString_encodes).
  assert (Encodes NullableCompactString (of_str <$> Admin.mrs_cluster_id response)) as Hid9
    by (destruct Hid as [->| ->]; by apply NullableCompactString_encodes).
  assert (version <= 7 ∨ 11 <= version → Admin.mrs_cluster_authorized_operations response = i32_min) as Hnone.
  { intros Hver. destruct Hops as [->| ->]; [done|]. unfold metadata_fields.
    cbn [Admin.mr_include_cluster_authorized_operations]. by rewrite Hcluster. }
  every_version Hv;
    try specialize (Ht8 ltac:(lia)); try specialize (Ht9 ltac:(lia)); unfold metadata_answer;
    try (rewrite Hnone by lia); encodes_message.
Qed.

(** ** DescribeTopicPartitions *)

Definition described_ok (names : list string) (t : Admin.DescribeTopicPartitionsResponseTopic) : Prop :=
  ∃ name id l, name ∈ names ∧ Admin.dt_name t = Some name ∧
    Admin.dt_partitions t = AdminCorrect.partition_entry id <$> l ∧ len l ≤ AdminCorrect.max_partitions.

Definition page_shape (names : list string)
    (page : list Admin.DescribeTopicPartitionsResponseTopic * option Admin.Cursor) : Prop :=
  Forall (described_ok names) page.1 ∧ (length page.1 ≤ length names)%nat ∧
  opt_all (λ c, Admin.cur_topic_name c ∈ names) page.2.

Lemma page_shape_cons name names t page :
  described_ok [name] t → page_shape names page → page_shape (name :: names) (t :: page.1, page.2).
Proof.
  intros Ht (Hall & Hlen & Hcur). split_and!; cbn [fst snd].
  - constructor.
    + destruct Ht as (n & id & l & ->%list_elem_of_singleton & ?). exists name, id, l. split; [left|done].
    + eapply Forall_impl; [exact Hall|]. intros t' (n & id & l & ? & ?). exists n, id, l. split; [by right|done].
  - cbn. lia.
  - destruct page.2; [by right|done].
Qed.

Lemma page_shape_end name names t cursor :
  described_ok [name] t → opt_all (λ c, Admin.cur_topic_name c ∈ name :: names) cursor →
  page_shape (name :: names) ([t], cursor).
Proof.
  intros Ht Hc. destruct (page_shape_cons name names t ([], None) Ht) as (Hall & Hlen & _).
  - split_and!; [constructor|cbn; lia|done].
  - split_and!; [done|cbn; lia|done].
Qed.

Lemma describe_names_shape cur remaining names s :
  AdminCorrect.indexable s → Pagination.cursor_ok cur → 0 ≤ remaining →
  wp (Admin.describe_names cur remaining names) (λ page _, page_shape names page) s.
Proof.
  intros Hi Hcur. revert remaining s Hi.
  induction names as [|name names IH]; intros remaining s Hi Hrem; cbn [Admin.describe_names].
  { split_and!; [constructor|done|done]. }
  apply wp_bind, wp_read. intros s1 Hwf1 Hext1.
  pose proof (AdminCorrect.indexable_extends _ _ Hext1 Hi) as Hi1.
  assert (∀ code, wp (bind (Admin.describe_names cur remaining names)
    (λ rest, Ret (Admin.resource_error_topic name code :: rest.1, rest.2)))
    (λ page _, page_shape (name :: names) page) s1) as Herr.
  { intros code. apply wp_bind. eapply wp_mono; [|by apply IH]. intros page s2 _ Hpage.
    apply page_shape_cons; [|done]. exists name, 0, []. split_and!; [left|done..]. }
  destruct (TopicsCorrect.get_cases (topics s1) name) as [[-> _]|[-> _]]; [|apply Herr].
  destruct (Topics.lookup_topic (topics s1) name) as [m|] eqn:Hl; [|apply Herr].
  destruct (AdminCorrect.lookup_topic_indexable s1 name m Hwf1 Hi1 Hl) as [Hc Hname]. rewrite Hname.
  destruct (Pagination.start_of_index cur name Hcur) as [-> Hs]. cbn [unwrap bind].
  set (start := Pagination.start_index cur name) in *.
  apply wp_bind, wp_read. intros s2 Hwf2 Hext2.
  set (take := Z.min _ _).
  assert (0 ≤ take ≤ Topics.tm_partition_count m) as Htake by (unfold take, saturating_sub; lia).
  rewrite AdminCorrect.described_topic_Some by (unfold take, saturating_sub; lia). cbn [unwrap bind].
  set (topic := Admin.mkDescribedTopic _ _ _ _ _).
  assert (described_ok [name] topic) as Htopic.
  { exists name, (broker_id s2). eexists. split_and!; [left|cbn; by rewrite Hname|reflexivity|].
    unfold Admin.range, len. rewrite length_fmap, length_seq. lia. }
  case_decide as Hcut.
  { unfold Admin.cursor, try_i32. rewrite decide_True by (unfold AdminCorrect.max_partitions in *; lia).
    apply page_shape_end; [done|left]. }
  destruct names as [|next_name names]; [by apply page_shape_end|]. case_decide.
  { unfold Admin.cursor, try_i32. rewrite decide_True by (unfold i32_max; lia).
    apply page_shape_end; [done|right; left]. }
  apply wp_bind. eapply wp_mono; [|apply IH]; [|by eapply AdminCorrect.indexable_extends|lia].
  intros page s3 _ Hpage. by apply page_shape_cons.
Qed.
(** The names a page can mention: those that were asked for, or those of the
    catalog. *)
Definition page_fits (requested : list string) (r : Admin.DescribeTopicPartitionsResponse)
    (s : BrokerState) : Prop :=
  ∃ names, page_shape names (Admin.dp_topics r, Admin.dp_next_cursor r) ∧
    Forall (λ name, name ∈ requested ∨ (String.length name ≤ 249)%nat) names ∧
    (length names ≤ length requested ∨ length names ≤ length (Topics.list_topics (topics s)))%nat.

Lemma selected_names_source request catalog names :
  Admin.selected_names request catalog = Ok names →
  Pagination.cursor_ok (Admin.dr_cursor request) ∧
  ∃ source, (source = Admin.dr_topics request ∨ source = Topics.tm_name <$> catalog) ∧
    names ⊆ source ∧ (length names ≤ length source)%nat.
Proof.
  unfold Admin.selected_names. intros Hsel. split.
  { destruct (Admin.dr_cursor request) as [c|]; [|done]. cbn. case_bool_decide; [done|]. lia. }
  set (source := if negb _ then _ else _) in Hsel. exists source. split.
  { unfold source. by destruct (negb _); [left|right]. }
  destruct (match Admin.dr_cursor request with Some _ => _ | None => false end); [done|].
  destruct (_ && _); [done|]. injection Hsel as <-. unfold Admin.sorted_names. split.
  - intros name [_ Hin]%list_elem_of_filter. by rewrite merge_sort_Permutation, elem_of_remove_dups in Hin.
  - etrans; [apply length_filter|]. rewrite merge_sort_Permutation. apply submseteq_length, NoDup_submseteq;
      [apply NoDup_remove_dups|]. intros name. by rewrite elem_of_remove_dups.
Qed.

Lemma describe_shaped request s :
  AdminCorrect.indexable s →
  wp (Admin.describe_topic_partitions request) (page_fits (Admin.dr_topics request)) s.
Proof.
  intros Hi. unfold Admin.describe_topic_partitions. apply wp_bind, wp_read. intros s1 Hwf1 Hext1.
  destruct (Admin.selected_names request _) as [names|e] eqn:Hsel.
  - apply selected_names_source in Hsel as (Hcur & source & Hsource & Hin & Hlen).
    apply wp_bind. eapply wp_mono; [|apply describe_names_shape; [by eapply AdminCorrect.indexable_extends|done|lia]].
    intros [ts next] s2 Hext2 Hpage. exists names. split_and!; [done| |].
    + apply Forall_forall. intros name Hname. apply Hin in Hname.
      destruct Hsource as [->| ->]; [by left|]. right.
      apply list_elem_of_fmap in Hname as (m & -> & Hm).
      apply TopicsCorrect.elem_of_list_topics in Hm; [|apply Hwf1]. by eapply lookup_name_short.
    + destruct Hsource as [->| ->]; [by left|right]. rewrite length_fmap in Hlen.
      etrans; [exact Hlen|]. apply list_topics_grows, Hext2.
  - exists (Admin.dr_topics request). split_and!; [| |by left].
    + split_and!; cbn; [|by rewrite length_fmap|done]. apply Forall_fmap, Forall_forall. intros name Hname.
      exists name, 0, []. done.
    + apply Forall_forall. by left.
Qed.

Lemma described_answer_encodes names t :
  Forall (λ name, Encodes CompactString (of_str name)) names → described_ok names t →
  Encodes (DescribeTopicPartitionsResponseTopic_codec 0) (described_answer t).
Proof.
  intros Hnames (name & id & l & Hin & Hname & Hparts & Hlen). unfold described_answer. rewrite Hname, Hparts.
  rewrite Forall_forall in Hnames. specialize (Hnames _ Hin).
  assert (Encodes NullableCompactString (of_str <$> Some name)) by exact Hnames.
  set (partitions := map _ _).
  assert (Encodes (CompactArray (Struct DescribeTopicPartitionsResponsePartition_codec 0)) partitions).
  { apply CompactArray_encodes.
    - unfold partitions, len. rewrite length_map, length_fmap.
      unfold AdminCorrect.max_partitions, i32_max, u32_max, len in *. lia.
    - apply Forall_fmap, Forall_fmap, Forall_true. intros i. cbn. encodes_message. }
  encodes_message.
Qed.

Lemma OptionStruct_encodes {T : Type} (message : Z → Codec T) version x :
  Encodes (message version) x → Encodes (OptionStruct message version) (Some x).
Proof. intros Hx buf. apply encodes_bind; [apply Int8_encodes|exact Hx]. Qed.

Lemma cursor_encodes cursor :
  opt_all (λ c, Encodes CompactString (of_str (Admin.cur_topic_name c))) cursor →
  Encodes (OptionStruct DescribeTopicPartitionsResponse_Cursor_codec 0) ((λ c,
    DescribeTopicPartitionsResponse_Cursor_default
      ▷ DescribeTopicPartitionsResponse_Cursor_with_topic_name (of_str (Admin.cur_topic_name c))
      ▷ DescribeTopicPartitionsResponse_Cursor_with_partition_index (Admin.cur_partition_index c)) <$> cursor).
Proof.
  intros Hc. destruct cursor as [c|]; [|apply Int8_encodes]. cbn in Hc.
  apply OptionStruct_encodes. encodes_message.
Qed.

Lemma describe_answer_encodes request response s :
  Decoded (decode (DescribeTopicPartitionsRequest_codec 0)) request → catalog_fits s →
  page_fits (Admin.dr_topics (describe_fields request)) response s →
  Encodes (DescribeTopicPartitionsResponse_codec 0) (describe_answer response).
Proof.
  intros H [Hcat _] (names & (Hall & Hlen & Hcur) & Hnames & Hcount). take_apart H.
  unfold describe_fields in *. cbn [Admin.dr_topics DescribeTopicPartitionsRequest_topics] in *.
  match goal with Ht : Decoded (decode (CompactArray _)) _ |- _ =>
    apply decoded_non_null, decoded_NullableCompactArray in Ht as [Hl Hdec] end.
  cbn [fst snd] in *. rewrite length_map in Hcount.
  assert (Forall (λ name, Encodes CompactString (of_str name)) names) as Hshort.
  { eapply Forall_impl; [exact Hnames|]. cbn. intros name [Hin|Hs].
    - apply list_elem_of_fmap in Hin as (t & -> & Ht). rewrite Forall_forall in Hdec. specialize (Hdec _ Ht).
      take_apart Hdec. cbn [DescribeTopicPartitionsRequest_TopicRequest_name].
      rewrite of_to_str. by apply CompactString_decoded.
    - apply CompactString_encodes. rewrite of_str_len. unfold u32_max. lia. }
  assert (Encodes (CompactArray (Struct DescribeTopicPartitionsResponseTopic_codec 0))
    (map described_answer (Admin.dp_topics response))).
  { apply CompactArray_encodes.
    - unfold len, i32_max, u32_max in *. rewrite length_map. lia.
    - apply Forall_fmap. eapply Forall_impl; [exact Hall|]. intros t. by apply described_answer_encodes. }
  assert (opt_all (λ c, Encodes CompactString (of_str (Admin.cur_topic_name c))) (Admin.dp_next_cursor response))
    as Hnext%cursor_encodes.
  { destruct (Admin.dp_next_cursor response); [|done]. cbn in *. rewrite Forall_forall in Hshort. by apply Hshort. }
  unfold describe_answer. encodes_message.
Qed.
End data.

(** ** Groups *)

(** A program all of whose answers have a property. *)
Definition answers_with {A : Type} {crc : Records.Crc32c} (p : prog A) (P : A → Prop) : Prop :=
  ∀ s, wp p (λ a _, P a) s.

Section groups.
  Context {crc : Records.Crc32c} (time : nat → Groups.clock).

Lemma answers_bind {A B : Type} (p : prog A) (k : A → prog B) P :
  returns p → (∀ a, answers_with (k a) P) → answers_with (bind p k) P.
Proof. intros Hp Hk s. apply wp_bind. eapply wp_mono; [|apply Hp]. intros a s' _ _. apply Hk. Qed.

Lemma answers_chain {A B : Type} (p : prog A) (k : A → prog B) P Q :
  answers_with p P → (∀ a, P a → answers_with (k a) Q) → answers_with (bind p k) Q.
Proof. intros Hp Hk s. apply wp_bind. eapply wp_mono; [|apply Hp]. intros a s' _ Ha. by apply Hk. Qed.

Lemma answers_ret {A : Type} (a : A) (P : A → Prop) : P a → answers_with (Ret a) P.
Proof. by intros HP s. Qed.

Lemma heartbeat_answer_encodes request :
  answers_with (heartbeat time request) (Encodes (HeartbeatResponse_codec 3)).
Proof.
  unfold heartbeat. apply answers_bind.
  - case_decide; [done|]. apply returns_bind; [eapply returns_on_groups, heartbeat_section|done].
  - intros code. apply answers_ret. encodes_message.
Qed.

Definition left_member (member : MemberIdentity) (response : MemberResponse) : Prop :=
  ∃ code, response = (MemberResponse_default
    ▷ MemberResponse_with_member_id (MemberIdentity_member_id member)
    ▷ MemberResponse_with_group_instance_id None
    ▷ MemberResponse_with_error_code code).

Lemma leave_members_follow i gid members :
  answers_with (leave_members time i gid members) (Forall2 left_member members).
Proof.
  revert i. induction members as [|m members IH]; intros i; cbn [leave_members];
    [by apply answers_ret|].
  apply answers_bind.
  - case_decide; [done|]. apply returns_bind; [eapply returns_on_groups, leave_section|done].
  - intros code. eapply answers_chain; [apply IH|]. intros rest Hrest. apply answers_ret.
    constructor; [by exists code|done].
Qed.

Lemma left_member_encodes member response :
  Decoded (decode (MemberIdentity_codec 3)) member → left_member member response →
  Encodes (MemberResponse_codec 3) response.
Proof. intros H [code ->]. take_apart H. encodes_message. Qed.

Lemma leave_group_answer_encodes version request :
  1 ≤ version ≤ 3 → Decoded (decode (LeaveGroupRequest_codec version)) request →
  answers_with (leave_group time request version) (Encodes (LeaveGroupResponse_codec version)).
Proof.
  intros Hv H. unfold leave_group. every_version Hv; cbn [Z.leb Z.compare Pos.compare Pos.compare_cont].
  1, 2: apply answers_bind; [eapply returns_on_groups, leave_section|];
    intros r; apply answers_ret; encodes_message.
  take_apart H. cbn [LeaveGroupRequest_group_id LeaveGroupRequest_members].
  eapply answers_chain; [apply leave_members_follow|]. intros members Hm. apply answers_ret.
  assert (Encodes (Array (Struct MemberResponse_codec 3)) members).
  { rewrite <- (map_id members).
    eapply (Array_follows (Struct MemberIdentity_codec 3)); [|eassumption|exact Hm].
    intros x r. exact (left_member_encodes x r). }
  encodes_message.
Qed.

Lemma offset_commit_answer_encodes request :
  Decoded (decode (OffsetCommitRequest_codec 7)) request →
  answers_with (offset_commit time request) (Encodes (OffsetCommitResponse_codec 7)).
Proof.
  intros H. unfold offset_commit. apply answers_bind.
  - case_decide; [done|]. apply returns_bind; [eapply returns_on_groups, commit_section|done].
  - intros code. apply answers_ret. take_apart H. encodes_message.
Qed.

(** ** The cluster *)

Section cluster.
  Context (address : AdvertisedAddress).
  Hypothesis Hhost : Z.of_nat (String.length (host address)) ≤ i16_max.

Lemma host_encodes : Encodes KafkaString (of_str (host address)) ∧ Encodes CompactString (of_str (host address)).
Proof.
  split; [apply KafkaString_encodes|apply CompactString_encodes]; rewrite of_str_len;
    unfold i16_max, u32_max in *; lia.
Qed.

Lemma find_coordinator_answer_encodes request :
  answers_with (find_coordinator request address) (Encodes (FindCoordinatorResponse_codec 2)).
Proof.
  destruct host_encodes as [Hh _]. unfold find_coordinator.
  repeat case_decide; [apply answers_ret; encodes_message..|].
  apply answers_bind; [apply returns_read|]. intros id. apply answers_ret. encodes_message.
Qed.

Lemma describe_configs_answer_encodes request :
  Decoded (decode (DescribeConfigsRequest_codec 1)) request →
  answers_with (describe_configs request) (Encodes (DescribeConfigsResponse_codec 1)).
Proof.
  intros H. unfold describe_configs. do 2 (apply answers_bind; [apply returns_read|intros]).
  apply answers_ret. take_apart H. unfold describe_resource. encodes_message.
Qed.

(** The text of an 8-bit number. *)
Lemma endpoint_text_short z :
  in_signed 8 z → (String.length ("Unsupported endpoint type " +:+ pretty z) <=? 100)%nat = true.
Proof.
  intros Hz. assert (z ∈ seqZ (-128) 256) as Hin by (apply elem_of_seqZ; unfold in_signed in Hz; cbn in Hz; lia).
  clear Hz. revert z Hin. apply Forall_forall.
  apply (bool_decide_unpack (Forall (λ z, _ = true) _)). vm_compute. exact I.
Qed.

Lemma describe_cluster_answer_encodes request :
  Decoded (decode (DescribeClusterRequest_codec 2)) request →
  answers_with (describe_cluster request address) (Encodes (DescribeClusterResponse_codec 2)).
Proof.
  intros H. destruct host_encodes as [_ Hh].
  assert (in_signed 8 (DescribeClusterRequest_endpoint_type request)) as Ht.
  { take_apart H. by apply (decoded_int 1). }
  unfold describe_cluster. case_decide; [|case_decide].
  - apply answers_bind; [apply returns_read|]. intros id. apply answers_ret. encodes_message.
  - apply answers_ret. encodes_message.
  - apply answers_ret. set (text := of_str _).
    assert (Encodes NullableCompactString (Some text)).
    { apply NullableCompactString_encodes. cbn. unfold text. rewrite of_str_len.
      apply endpoint_text_short, Nat.leb_le in Ht. unfold u32_max. lia. }
    encodes_message.
Qed.
End cluster.
End groups.

(** ** ApiVersions *)

Lemma api_versions_answer_encodes version :
  3 ≤ version ≤ 4 → Encodes (ApiVersionsResponse_codec version) Capabilities.response.
Proof.
  intros Hv.
  assert (∀ c, 3 ≤ version ≤ 4 → Encodes (ApiVersion_codec version) (ApiVersion_default
      ▷ ApiVersion_with_api_key (ApiKey_code (Capabilities.api_key c))
      ▷ ApiVersion_with_min_version (Capabilities.vw_min (Capabilities.supported c))
      ▷ ApiVersion_with_max_version (Capabilities.vw_max (Capabilities.supported c)))) as Hone.
  { intros c Hv'. every_version Hv'; encodes_message. }
  assert (Encodes (CompactArray (Struct ApiVersion_codec version))
    (ApiVersionsResponse_api_keys Capabilities.response)) as Hkeys.
  { apply CompactArray_encodes; [by vm_compute|]. apply Forall_fmap, Forall_true. intros c. by apply Hone. }
  clear Hone. every_version Hv; encodes_message.
Qed.

(** ** Every dispatched request *)

(** The APIs whose answers repeat what earlier requests left in a group. *)
Definition answers_from_groups (key : ApiKey) : bool :=
  match key with
  | ApiKey_JoinGroup | ApiKey_SyncGroup | ApiKey_OffsetFetch | ApiKey_ListGroups | ApiKey_DescribeGroups => true
  | _ => false
  end.

Section dispatch.
  Context {crc : Records.Crc32c}.
  Context (new_v4 : nat → Z) `{!TopicsCorrect.UniqueUuids new_v4}.
  Context (time : nat → Groups.clock) (deadline_passed timed_out : nat → bool).
  Context (address : AdvertisedAddress).

Definition can_be_sent (version : Z) (r : option (result DispatchError ResponseKind)) (s : BrokerState) : Prop :=
  match r with
  | Some (Ok response) =>
      batches_fit s → catalog_fits s → ∀ buf, ∃ buf', ResponseKind_encode response version buf = Ok buf'
  | _ => True
  end.

Lemma sent_with {A : Type} (into : A → ResponseKind) (p : prog A) P version s :
  answers_with p P →
  (∀ a, P a → ∀ buf, ∃ buf', ResponseKind_encode (into a) version buf = Ok buf') →
  wp (answer into p) (can_be_sent version) s.
Proof. intros Hp HP. eapply wp_answer; [apply Hp|]. intros a s' Ha _ _. by apply HP. Qed.

(** What a waiting fetch answers with in the end is served by the logs. *)
Lemma fetch_wait_served polls i request s :
  in_signed 32 (Handlers.fr_max_bytes request) →
  wp (fetch_wait deadline_passed timed_out polls i request) (λ r s',
    match r with Some response => HandlersCorrect.request_served request response s' | None => True end) s.
Proof.
  intros Hmax. revert i s. induction polls as [|polls IH]; intros i s; cbn [fetch_wait]; [done|].
  unfold Handlers.fetch_once. apply wp_bind, wp_bind, wp_read. intros s1 _ _. apply wp_bind.
  eapply wp_mono; [|apply HandlersCorrect.snapshot_served; unfold in_signed, usize_max in *; simpl in Hmax; lia].
  intros snap s2 _ (Hserved & _). destruct (_ || deadline_passed i); [done|]. cbn [bind].
  destruct (timed_out i); [done|]. apply IH.
Qed.

Lemma dispatch_sendable polls request c s :
  Z.of_nat (String.length (host address)) ≤ i16_max → answers_from_groups (dr_api_key request) = false →
  typed_request request → Capabilities.capability (dr_api_key request) = Some c →
  Capabilities.supports c (RequestHeader_request_api_version (dr_header request)) = true →
  AdminCorrect.indexable s →
  wp (dispatch new_v4 time deadline_passed timed_out address polls request)
    (can_be_sent (RequestHeader_request_api_version (dr_header request))) s.
Proof.
  intros Hhost. destruct request as [header key body]. unfold typed_request, dispatch.
  cbn [dr_header dr_api_key dr_body]. set (version := RequestHeader_request_api_version header).
  intros Hkey (_ & _ & Hbody & _) [Hc <-]%Capabilities.capability_Some
    [Hlo%Z.leb_le Hhi%Z.leb_le]%andb_true_iff Hi.
  unfold Capabilities.CAPABILITIES in Hc.
  repeat (apply elem_of_cons in Hc as [->|Hc]); [..|by apply elem_of_nil in Hc];
    cbn [Capabilities.api_key Capabilities.supported Capabilities.vw_min Capabilities.vw_max] in *;
    try discriminate Hkey; apply decoded_kind in Hbody as (x & -> & Hx); clearbody version.
  - assert (version = 7) as -> by lia. eapply wp_answer; [by apply HandlersCorrect.produce_produced|].
    intros r s' Hr _ _. by eapply produce_answer_encodes.
  - assert (version = 4) as -> by lia.
    eapply wp_answer_waiting; [by apply fetch_wait_served, fetch_max_bytes|].
    intros [r|] s' Hr; [|done]. intros Hb _. by eapply fetch_answer_encodes.
  - assert (version = 3) as -> by lia. eapply wp_answer; [apply HandlersCorrect.list_offsets_listed|].
    intros r s' Hr _ _. by eapply list_offsets_answer_encodes.
  - eapply wp_answer; [by apply metadata_shaped|]. intros r s' Hr _ Hfits.
    eapply metadata_answer_encodes; [lia|done..].
  - assert (version = 7) as -> by lia. eapply sent_with; [by apply offset_commit_answer_encodes|done].
  - assert (version = 2) as -> by lia. eapply sent_with; [by apply find_coordinator_answer_encodes|done].
  - assert (version = 3) as -> by lia. eapply sent_with; [by apply heartbeat_answer_encodes|done].
  - eapply sent_with; [by apply leave_group_answer_encodes|done].
  - intros _ _. by apply api_versions_answer_encodes.
  - eapply wp_answer; [apply AdminCorrect.create_topics_created; try done|].
    + apply Forall_fmap. by eapply created_partitions.
    + intros r s' Hr _ _. eapply create_topics_answer_encodes; [lia|done|exact Hr].
  - assert (version = 0) as -> by lia.
    eapply wp_answer; [apply HandlersCorrect.init_producer_id_initialised|].
    intros r s' _ _ _. apply init_producer_id_answer_encodes.
  - assert (version = 1) as -> by lia. eapply sent_with; [by apply describe_configs_answer_encodes|done].
  - assert (version = 2) as -> by lia. eapply sent_with; [by apply describe_cluster_answer_encodes|done].
  - assert (version = 0) as -> by lia. eapply wp_answer; [by apply describe_shaped|].
    intros r s' Hr _ Hfits. by eapply describe_answer_encodes.
Qed.

(** C16: an answer can be sent.  Whatever bytes a client sends, when they are a
    request the router dispatches and whose answer does not repeat what earlier
    requests left in a group, the handler's answer can be encoded in the version
    of the request: no field is set that the version does not have, and every
    name and list fits its length field.  The state has to fit the protocol as
    well: no stored batch beyond a bytes field, no more topics or partitions than
    an array holds, and an advertised host that is a protocol string. *)
Theorem answers_can_be_sent (frame : list byte) (d : DecodedFrame) (request : SupportedRequest)
    (polls : nat) (s : BrokerState) :
  decode_frame frame = value_of d → route d = Ok (Dispatch request) →
  answers_from_groups (dr_api_key request) = false → AdminCorrect.indexable s →
  Z.of_nat (String.length (host address)) ≤ i16_max →
  wp (dispatch new_v4 time deadline_passed timed_out address polls request)
    (λ r s', ∀ response, r = Some (Ok response) → batches_fit s' → catalog_fits s' →
      ∃ bytes, encode_response (dr_api_key request) (RequestHeader_request_api_version (dr_header request))
        (RequestHeader_correlation_id (dr_header request)) response = Ok bytes) s.
Proof.
  intros Hd Hr Hkey Hi Hhost. destruct (route_cases frame d Hd) as [Hrouted _]. rewrite Hr in Hrouted.
  destruct d as [request'|]; [|done]. destruct Hrouted as (-> & c & Hc & Hs).
  eapply wp_mono; [|eapply dispatch_sendable; [done|done|by eapply decode_frame_body|done..]].
  intros r s' _ Hsent response -> Hb Hcat. apply encode_response_total. by apply Hsent.
Qed.
End dispatch.

(** ** Generated member identifiers *)

Section member_ids.
  Context {crc : Records.Crc32c} (time : nat → Groups.clock).

Lemma app_written {T A B : Type} (f : Field T (A → B)) (a : Field T A) x buf buf' :
  field_encode (f ⊛ a) x buf = Ok buf' →
  ∃ mid, field_encode f x buf = Ok mid ∧ field_encode a x mid = Ok buf'.
Proof. by intros ?%result_bind_Ok. Qed.

Lemma KafkaString_written v buf buf' : encode KafkaString v buf = Ok buf' → len v ≤ i16_max.
Proof. cbn. case_decide; [done|]. lia. Qed.

Lemma join_error_written error member_id buf buf' :
  encode (JoinGroupResponse_codec 5) (join_error_response error member_id) buf = Ok buf' →
  len member_id ≤ i16_max.
Proof.
  unfold JoinGroupResponse_codec, message. cbn [encode]. reduce_versions.
  do 2 (intros (? & Hbuf & _)%app_written; revert Hbuf).
  intros (mid & _ & Hid)%app_written. by apply KafkaString_written in Hid.
Qed.

Lemma join_error_sent error member_id correlation :
  (∃ bytes, encode_response ApiKey_JoinGroup 5 correlation
    (ResponseKind_JoinGroup (join_error_response error member_id)) = Ok bytes) ↔ len member_id ≤ i16_max.
Proof.
  split.
  - intros [bytes (mid & _ & Hbody)%result_bind_Ok]. by eapply join_error_written.
  - intros Hid%KafkaString_encodes. apply encode_response_total.
    change (Encodes (JoinGroupResponse_codec 5) (join_error_response error member_id)). encodes_message.
Qed.

Lemma join_start_new request c :
  Groups.jr_protocols request ≠ [] → Groups.jr_protocol_type request ≠ "" → Groups.jr_member_id request = "" →
  let id := Groups.member_id_for (Groups.jr_client_id request) (Groups.next_member_id c) in
  Groups.join_start c request true = (Groups.StartReturned (Ok (Groups.MemberIdRequired id)),
    Groups.mkCoordinator (Groups.groups c) ({[(Groups.jr_group_id request, id)]} ∪ Groups.pending_member_ids c)
      (wrap_unsigned 64 (Groups.next_member_id c + 1))).
Proof. intros Hp Ht Hm id. unfold Groups.join_start. by rewrite decide_False, decide_True by tauto. Qed.

Lemma run_join_start polls request s r c :
  Groups.join_start (groups s) request true = (Groups.StartReturned r, c) →
  run (join time polls request true) s = Some (Some r, with_groups s c).
Proof. intros Hstart. unfold join, on_groups, atomically. cbn [bind run mbind option_bind]. by rewrite Hstart. Qed.

(** C38: the identifier a new member is given.  A JoinGroup without a member
    identifier is answered at once with the identifier the member has to come
    back with: the client id, a dash and a counter.  The answer can be sent
    exactly when that identifier is no longer than a protocol string, so that a
    client id close to the longest one a request header can carry is never
    answered. *)
Theorem member_id_answer_bound (polls : nat) (request : JoinGroupRequest) (client_id : option (list byte))
    (correlation : Z) (s : BrokerState) :
  JoinGroupRequest_group_instance_id request = None → JoinGroupRequest_member_id request = [] →
  JoinGroupRequest_protocol_type request ≠ [] → JoinGroupRequest_protocols request ≠ [] →
  let id := Groups.member_id_for (from_option to_str "consumer" client_id) (Groups.next_member_id (groups s)) in
  ∃ s', run (join_group time polls request 5 client_id) s
      = Some (Some (join_error_response Errors.MemberIdRequired (of_str id)), s') ∧
    (to_str (JoinGroupRequest_group_id request), id) ∈ Groups.pending_member_ids (groups s') ∧
    ((∃ bytes, encode_response ApiKey_JoinGroup 5 correlation
        (ResponseKind_JoinGroup (join_error_response Errors.MemberIdRequired (of_str id))) = Ok bytes)
      ↔ Z.of_nat (String.length id) ≤ i16_max).
Proof.
  intros Hi Hm Ht Hp id. unfold join_group. rewrite decide_False by (rewrite Hi; by intros [? [=]]).
  assert (Groups.jr_protocols (join_request request 5 client_id) ≠ []) as Hps
    by (by destruct (JoinGroupRequest_protocols request) eqn:Heq; cbn; rewrite Heq).
  assert (Groups.jr_protocol_type (join_request request 5 client_id) ≠ "") as Htype
    by (cbn; intros Heq; apply Ht; by apply (inj to_str)).
  pose proof (join_start_new _ (groups s) Hps Htype ltac:(cbn; by rewrite Hm)) as Hstart.
  apply (run_join_start polls) in Hstart. rewrite Pagination.run_bind. change (4 <=? 5) with true. rewrite Hstart.
  eexists. split_and!; [reflexivity|cbn; set_solver|]. rewrite <- of_str_len. apply join_error_sent.
Qed.
End member_ids.

(** ** Concrete requests *)

#[local] Existing Instance Records.crc32c_instance.

Lemma answers_can_be_sent_witness :
  wp (dispatch TopicsCorrect.counting_uuids (λ _, GroupsProperties.at_time 0) (λ _, false) (λ _, false)
      local_address 1 produce_decoded)
    (λ r s', ∀ response, r = Some (Ok response) → batches_fit s' → catalog_fits s' →
      ∃ bytes, encode_response ApiKey_Produce 7 5 response = Ok bytes) broker_0.
Proof.
  apply (answers_can_be_sent _ _ _ _ _ produce_frame (RequestCodec.Request produce_decoded)).
  - vm_compute. reflexivity.
  - vm_compute. reflexivity.
  - reflexivity.
  - unfold AdminCorrect.indexable, AdminCorrect.max_partitions, i32_max. cbn. lia.
  - cbn. unfold i16_max. lia.
Defined.

(** A new member whose client id takes the whole length field. *)
Definition new_member : JoinGroupRequest :=
  mkJoinGroupRequest (of_str "g") 1000 1000 [] None (of_str "consumer") [JoinGroupRequestProtocol_default] None ∅.

Definition longest_client_id : list byte := replicate (Z.to_nat i16_max) Byte.x61.

Lemma member_id_answer_bound_witness :
  ∃ response s',
    run (join_group (λ _, GroupsProperties.at_time 0) 1 new_member 5 (Some longest_client_id)) broker_0
      = Some (Some response, s') ∧
    ¬ ∃ bytes, encode_response ApiKey_JoinGroup 5 9 (ResponseKind_JoinGroup response) = Ok bytes.
Proof.
  destruct (member_id_answer_bound (λ _, GroupsProperties.at_time 0) 1 new_member (Some longest_client_id) 9
    broker_0 eq_refl eq_refl ltac:(done) ltac:(done)) as (s' & Hrun & _ & Hsent).
  eexists _, s'. split; [exact Hrun|]. rewrite Hsent. apply Z.lt_nge. vm_compute. reflexivity.
Defined.

End AnswersEncode.
