(* ===== verification/GroupAnswers.v ===== *)
(** * The answers of the group handlers can be sent

    The answers of JoinGroup, SyncGroup, OffsetFetch, ListGroups and
    DescribeGroups repeat what earlier requests left in a group.  Those requests
    were decoded, so what they left fits the length fields of an answer
    ([GroupsOrigin]); and no handler puts anything else into a group.

    [keeps] is a logic for such invariants: between two steps of a program the
    state may change in any way that keeps the invariant, and every step of the
    program keeps it as well.  Handlers of all APIs run in a pool, interleaved in
    any order and with the background tasks of the groups. *)

From S2P Require Import Prelude Config Types Errors MessageCodec MessagesData MessagesGroups MessagesTxn MessagesBuild.
From S2P Require Import ApiKeys Encodability RequestCodec Capabilities ErrorResponse ErrorResponseCorrect Router.
From S2P Require Import Records Partition Topics TopicsCorrect Groups GroupsCorrect GroupsProperties GroupsOrigin.
From S2P Require Import Broker Handlers Admin BrokerSystem GroupHandlers GroupHandlersCorrect.
From S2P Require Import Dispatcher DispatcherCorrect AnswersEncode.
Open Scope Z_scope.

Module GroupAnswers.
Import ApiKeys RequestCodec Router Broker GroupHandlers Dispatcher.
Import ErrorResponseCorrect DispatcherCorrect GroupsOrigin AnswersEncode.

(** ** Programs that leave the groups alone *)

Fixpoint leaves_groups {A : Type} (p : prog A) : Prop :=
  match p with
  | Ret _ => True
  | Step f => ∀ s, match f s with Some (s', p') => groups s' = groups s ∧ leaves_groups p' | None => True end
  end.

Lemma leaves_bind {A B : Type} (p : prog A) (k : A → prog B) :
  leaves_groups p → (∀ a, leaves_groups (k a)) → leaves_groups (bind p k).
Proof.
  intros Hp Hk. revert p Hp. fix IH 1. intros p Hp. destruct p as [a|f]; [apply Hk|].
  intros s. cbn. specialize (Hp s). destruct (f s) as [[s' p']|]; [|done].
  destruct Hp as [Hg Hp]. split; [done|]. by apply (IH p').
Qed.

Lemma leaves_read {A : Type} (f : BrokerState → A) : leaves_groups (read f).
Proof. by intros s. Qed.

Lemma leaves_unwrap {A : Type} (o : option A) : leaves_groups (unwrap o).
Proof. by destruct o. Qed.

Lemma leaves_atomically {A : Type} (f : BrokerState → option (A * BrokerState)) :
  (∀ s a s', f s = Some (a, s') → groups s' = groups s) → leaves_groups (atomically f).
Proof. intros Hf s. destruct (f s) as [[a s']|] eqn:Hs; [|done]. split; [by eapply Hf|done]. Qed.

Lemma for_each_leaves {A B : Type} (body : A → prog B) l :
  (∀ x, leaves_groups (body x)) → leaves_groups (for_each body l).
Proof.
  intros Hb. induction l as [|x l IH]; cbn; [done|].
  apply leaves_bind; [apply Hb|]. intros r. by apply leaves_bind.
Qed.

Lemma leaves_panic {A : Type} : leaves_groups (panic (A := A)).
Proof. done. Qed.

Create HintDb leaves.
#[local] Hint Resolve leaves_read leaves_unwrap leaves_panic : leaves.

(** A step that puts back nothing but topics or producers. *)
Ltac leaves_step :=
  let s := fresh "s" in let a := fresh "a" in let s' := fresh "s'" in let Heq := fresh "Heq" in
  apply leaves_atomically; intros s a s' Heq; unfold panic_bind in Heq;
  simplify_eq; try done; repeat (case_match; simplify_eq; try done).

Ltac leaves :=
  repeat first
    [ progress intros
    | exact I
    | solve [eauto with leaves]
    | apply leaves_bind
    | apply for_each_leaves
    | leaves_step
    | case_match ].

Section data.
  Context {crc : Records.Crc32c} (new_v4 : nat → Z).

Lemma get_or_auto_create_leaves name allow : leaves_groups (Handlers.get_or_auto_create new_v4 name allow).
Proof. unfold Handlers.get_or_auto_create. leaves. Qed.
#[local] Hint Resolve get_or_auto_create_leaves : leaves.

Lemma append_records_leaves topic index records : leaves_groups (Handlers.append_records topic index records).
Proof. unfold Handlers.append_records. leaves. Qed.
#[local] Hint Resolve append_records_leaves : leaves.

Lemma produce_leaves request : leaves_groups (Handlers.produce new_v4 request).
Proof.
  unfold Handlers.produce, Handlers.produce_topic, Handlers.produce_topic_error, Handlers.produce_partition. leaves.
Qed.

Lemma snapshot_leaves request : leaves_groups (Handlers.snapshot request).
Proof.
  unfold Handlers.snapshot. apply leaves_bind; [|leaves]. generalize 0 at 1 as bytes. generalize 0 as n.
  induction (Handlers.fr_topics request) as [|topic topics IH]; intros n bytes; cbn [Handlers.snapshot_topics];
    [done|]. apply leaves_bind; [|leaves; apply IH].
  revert bytes n. induction (Handlers.ft_partitions topic) as [|p ps IHp]; intros bytes n;
    cbn [Handlers.snapshot_partitions]; [done|].
  apply leaves_bind; [unfold Handlers.fetch_partition_response; leaves|]. intros response.
  destruct (Handlers.account_partition _ _ _ _) as [[r b] v]. apply leaves_bind; [apply IHp|leaves].
Qed.
#[local] Hint Resolve snapshot_leaves : leaves.

Lemma list_offsets_leaves request : leaves_groups (Handlers.list_offsets request).
Proof. unfold Handlers.list_offsets, Handlers.list_offsets_partition. leaves. Qed.

Lemma init_producer_id_leaves id : leaves_groups (Handlers.init_producer_id id).
Proof. unfold Handlers.init_producer_id. leaves. Qed.

Lemma create_topics_leaves request validate : leaves_groups (Admin.create_topics new_v4 request validate).
Proof. unfold Admin.create_topics, Admin.create_one. leaves. Qed.

Lemma topics_by_name_leaves seen requested : leaves_groups (Admin.topics_by_name seen requested).
Proof.
  revert seen. induction requested as [|t ts IH]; intros seen; cbn [Admin.topics_by_name]; [done|].
  unfold Admin.topic_by_name. leaves; apply IH.
Qed.

Lemma topics_by_id_leaves seen requested unknown known :
  leaves_groups (Admin.topics_by_id seen requested unknown known).
Proof.
  revert seen unknown known. induction requested as [|t ts IH]; intros seen unknown known;
    cbn [Admin.topics_by_id]; [done|]. leaves; apply IH.
Qed.
#[local] Hint Resolve topics_by_name_leaves topics_by_id_leaves : leaves.

Lemma metadata_leaves request version host port :
  leaves_groups (Admin.metadata new_v4 request version host port).
Proof. unfold Admin.metadata, Admin.topics_for_request, Admin.auto_create_requested. leaves. Qed.

Lemma describe_names_leaves cur remaining names : leaves_groups (Admin.describe_names cur remaining names).
Proof.
  revert remaining. induction names as [|name names IH]; intros remaining; cbn [Admin.describe_names]; [done|].
  leaves; apply IH.
Qed.
#[local] Hint Resolve describe_names_leaves : leaves.

Lemma describe_topic_partitions_leaves request : leaves_groups (Admin.describe_topic_partitions request).
Proof. unfold Admin.describe_topic_partitions. leaves. Qed.

Lemma fetch_wait_leaves deadline_passed timed_out polls i request :
  leaves_groups (fetch_wait deadline_passed timed_out polls i request).
Proof.
  revert i. induction polls as [|polls IH]; intros i; cbn [fetch_wait]; [done|].
  unfold Handlers.fetch_once. leaves; apply IH.
Qed.
End data.

Lemma find_coordinator_leaves request address : leaves_groups (find_coordinator request address).
Proof. unfold find_coordinator. leaves. Qed.
Lemma describe_configs_leaves request : leaves_groups (describe_configs request).
Proof. unfold describe_configs. leaves. Qed.
Lemma describe_cluster_leaves request address : leaves_groups (describe_cluster request address).
Proof. unfold describe_cluster. leaves. Qed.


(** ** Programs that keep an invariant *)

(** A string and a byte string that fit the length fields of an answer. *)
Definition short (s : string) : Prop := Z.of_nat (String.length s) ≤ i16_max.
Definition fits (b : list byte) : Prop := len b ≤ i32_max.

Definition most : nat := Z.to_nat i32_max.

Lemma most_count : Z.of_nat most = i32_max.
Proof. unfold most. rewrite Z2Nat.id; [done|]. unfold i32_max. lia. Qed.
#[local] Opaque most.

(** What the groups of the broker hold came from decoded requests. *)
Definition groups_fit (s : BrokerState) : Prop :=
  map_Forall (λ gid g, short gid ∧ group_from short fits most g) (Groups.groups (groups s)).

(** The protocol can count the groups, their members and their offsets. *)
Definition roomy (s : BrokerState) : Prop :=
  (size (Groups.groups (groups s)) ≤ most)%nat ∧
  map_Forall (λ _ g, (size (Groups.members g) < most)%nat ∧ (size (Groups.committed_offsets g) ≤ most)%nat)
    (Groups.groups (groups s)).

Fixpoint keeps {A : Type} (p : prog A) (Q : A → Prop) : Prop :=
  match p with
  | Ret a => Q a
  | Step f => ∀ s, groups_fit s → roomy s →
      match f s with Some (s', p') => groups_fit s' ∧ keeps p' Q | None => True end
  end.

Lemma keeps_bind {A B : Type} (p : prog A) (k : A → prog B) P Q :
  keeps p P → (∀ a, P a → keeps (k a) Q) → keeps (bind p k) Q.
Proof.
  intros Hp Hk. revert p Hp. fix IH 1. intros p Hp. destruct p as [a|f]; [by apply Hk|].
  intros s Hs Hr. cbn. specialize (Hp s Hs Hr). destruct (f s) as [[s' p']|]; [|done].
  destruct Hp as [Hg Hp]. split; [done|]. by apply (IH p').
Qed.

Lemma keeps_read {A : Type} (f : BrokerState → A) (Q : A → Prop) :
  (∀ s, groups_fit s → roomy s → Q (f s)) → keeps (read f) Q.
Proof. intros HQ s Hs Hr. cbn. split; [done|]. by apply HQ. Qed.

Lemma leaves_keeps {A : Type} (p : prog A) : leaves_groups p → keeps p (λ _, True).
Proof.
  revert p. fix IH 1. intros p Hp. destruct p as [a|f]; [done|]. intros s Hs Hr.
  specialize (Hp s). destruct (f s) as [[s' p']|]; [|done]. destruct Hp as [Hg Hp].
  split; [|by apply IH]. unfold groups_fit. by rewrite Hg.
Qed.

Lemma keeps_on_groups {A : Type} (f : Groups.Coordinator → option (A * Groups.Coordinator)) (Q : A → Prop) :
  (∀ s a c, groups_fit s → roomy s → f (groups s) = Some (a, c) → groups_fit (with_groups s c) ∧ Q a) →
  keeps (on_groups f) Q.
Proof.
  intros Hf s Hs Hr. cbn. destruct (f (groups s)) as [[a c]|] eqn:Hc; [|done]. cbn. by apply Hf.
Qed.

(** A section that looks a group up and puts it back. *)
Lemma with_group_fit s c gid g :
  Groups.groups c = Groups.groups (groups s) → groups_fit s → short gid → group_from short fits most g →
  groups_fit (with_groups s (Groups.with_group c gid g)).
Proof. intros Hc Hs Hgid Hg. unfold groups_fit. cbn. rewrite Hc. by apply map_Forall_insert_2. Qed.

Lemma keeps_on_entry {A : Type} gid (f : Groups.Group → option (A * Groups.Group)) (Q : A → Prop) :
  (∀ g a g', within short fits most most g → f g = Some (a, g') → group_from short fits most g' ∧ Q a) →
  keeps (on_entry gid f) Q.
Proof.
  intros Hf. apply keeps_on_groups. intros s a c Hs [_ Hr].
  destruct (Groups.groups (groups s) !! gid) as [g|] eqn:Hg; [|done]. cbn.
  destruct (Hs _ _ Hg) as [Hgid Hgf], (Hr _ _ Hg) as [Hsize _].
  destruct (f g) as [[a' g']|] eqn:Hfg; [|done]. cbn. intros [= <- <-].
  apply Hf in Hfg as [Hg' HQ]; [|split; [done|lia]]. split; [by apply with_group_fit|done].
Qed.

Lemma keeps_on_group {A : Type} gid (op : Groups.Group → result Groups.GroupError A * Groups.Group) :
  (∀ g, within short fits most most g → group_from short fits most (op g).2) →
  keeps (on_groups (λ c, Some (Groups.on_group c gid op))) (λ _, True).
Proof.
  intros Hop. apply keeps_on_groups. intros s a c Hs [_ Hr]. unfold Groups.on_group.
  destruct (Groups.groups (groups s) !! gid) as [g|] eqn:Hg.
  - destruct (Hs _ _ Hg) as [Hgid Hgf], (Hr _ _ Hg) as [Hsize _].
    assert (group_from short fits most (op g).2) as Hg' by (apply Hop; split; [done|lia]).
    destruct (op g) as [r g']. intros [= <- <-]. split; [by apply with_group_fit|done].
  - by intros [= <- <-].
Qed.

(** ** The group handlers *)

Lemma short_empty : short "". Proof. done. Qed.
Lemma fits_empty : fits []. Proof. done. Qed.
Lemma most_le : (most ≤ most)%nat. Proof. done. Qed.
#[local] Hint Resolve short_empty fits_empty most_le : core.

Section handlers.
  Context (time : nat → Groups.clock).

Abbreviation joined_fits := (joined_from short fits most).
Abbreviation request_fits := (request_from short fits).

(** What a join may end with. *)
Definition join_fits (client : string) (r : option (result Groups.GroupError Groups.JoinResult)) : Prop :=
  match r with
  | Some (Ok (Groups.Joined j)) => joined_fits j
  | Some (Ok (Groups.MemberIdRequired id)) => ∃ sequence, id = Groups.member_id_for client sequence
  | _ => True
  end.

Lemma join_wait_keeps client polls i gid id epoch :
  keeps (join_wait time polls i gid id epoch) (join_fits client).
Proof.
  revert i. induction polls as [|polls IH]; intros i; cbn [join_wait]; [done|].
  eapply (keeps_bind _ _ (λ p, match p with Groups.Ready (Ok j) => joined_fits j | _ => True end)).
  - apply keeps_on_entry. intros g a g' Hg [= Heq].
    pose proof (join_poll_within short fits most short_empty most (time i) g id epoch most_le Hg) as [Ha Hg'].
    rewrite Heq in Ha, Hg'. split; [apply Hg'|done].
  - intros [[j|e]|seen deadline] Hp; [done|done|apply IH].
Qed.

Definition started_fits (request : Groups.JoinRequest) (st : Groups.join_started) : Prop :=
  match st with
  | Groups.StartReturned r => join_fits (Groups.jr_client_id request) (Some r)
  | Groups.StartProceed request' _ => request' = request
  end.

Lemma join_start_keeps request :
  keeps (on_groups (λ c, Some (Groups.join_start c request true))) (started_fits request).
Proof.
  apply keeps_on_groups. intros s a c Hs _. unfold Groups.join_start.
  case_decide; [by intros [= <- <-]|]. case_decide; [intros [= <- <-]; cbn; eauto|].
  case_decide; [by intros [= <- <-]|]. destruct (Groups.groups (groups s) !! _); [|by intros [= <- <-]].
  case_decide; by intros [= <- <-].
Qed.

Lemma join_locked_keeps clk request may_add :
  request_fits request →
  keeps (on_groups (λ c, Groups.join_locked clk c request may_add)) (entered_from short fits most).
Proof.
  intros Hreq. apply keeps_on_groups. intros s a c Hs [_ Hr]. unfold Groups.join_locked, Groups.group_or_insert.
  assert (∀ g c0, Groups.groups c0 = Groups.groups (groups s) ∨ (∃ g0, Groups.groups c0
      = <[Groups.jr_group_id request := g0]> (Groups.groups (groups s))) →
    group_from short fits most g → (size (Groups.members g) < most)%nat →
    (let! r := Groups.join_enter clk g request may_add in
     Some (r.1, Groups.with_group c0 (Groups.jr_group_id request) r.2)) = Some (a, c) →
    groups_fit (with_groups s c) ∧ entered_from short fits most a) as Hjoin.
  { intros g c0 Hc0 Hg Hsize. destruct (Groups.join_enter clk g request may_add) as [[e g']|] eqn:He; [|done].
    cbn. intros [= <- <-]. pose proof Hreq as (Hgid & _).
    apply (join_enter_within short fits most short_empty (pred most)) in He as [Hent [Hg' _]];
      [|lia|split; [done|lia]|done].
    split; [|done]. unfold groups_fit. cbn.
    destruct Hc0 as [->|[g0 ->]]; rewrite ?insert_insert_eq; by apply map_Forall_insert_2. }
  destruct (Groups.groups (groups s) !! Groups.jr_group_id request) as [g|] eqn:Hg.
  - apply Hjoin; [by left|apply (Hs _ _ Hg)|apply (Hr _ _ Hg)].
  - apply Hjoin; [right; by eexists|by apply Group_new_from|]. cbn. rewrite map_size_empty.
    pose proof most_count. unfold i32_max in *. lia.
Qed.

Lemma join_keeps polls request :
  request_fits request → keeps (join time polls request true) (join_fits (Groups.jr_client_id request)).
Proof.
  intros Hreq. unfold join. eapply keeps_bind; [apply join_start_keeps|].
  intros [r|request' may_add] Hst; [done|]. cbn in Hst. subst request'.
  eapply keeps_bind; [by apply join_locked_keeps|]. intros [r|epoch] Hent.
  { cbn in *. by destruct r as [[]|]. }
  eapply (keeps_bind _ _ (λ _, True)); [|intros _ _; apply join_wait_keeps].
  apply keeps_on_groups. by intros s a c Hs _ [= <- <-].
Qed.

Lemma sync_wait_keeps polls i gid generation id given refresh :
  given_from fits (default [] given) →
  keeps (sync_wait time polls i gid generation id given refresh)
    (λ r, match r with Some (Ok a) => fits a | _ => True end).
Proof.
  intros Hgiven. revert i refresh. induction polls as [|polls IH]; intros i refresh; cbn [sync_wait]; [done|].
  eapply (keeps_bind _ _ (synced_from fits)).
  - apply keeps_on_entry. intros g a g' Hg Heq.
    apply (sync_poll_within short fits most short_empty most) in Heq as [Ha Hg']; [|done|done].
    split; [apply Hg'|done].
  - intros [r|seen deadline] Hp; [exact Hp|apply IH].
Qed.

Lemma sync_keeps polls gid generation id given :
  given_from fits given →
  keeps (sync time polls gid generation id given) (λ r, match r with Some (Ok a) => fits a | _ => True end).
Proof.
  intros Hgiven. unfold sync. eapply (keeps_bind _ _ (λ _, True)); [by apply keeps_read|].
  intros found _. case_match; [done|]. by apply sync_wait_keeps.
Qed.

Lemma heartbeat_keeps request : keeps (heartbeat time request) (λ _, True).
Proof.
  unfold heartbeat. eapply (keeps_bind _ _ (λ _, True)); [|done]. case_decide; [done|].
  eapply (keeps_bind _ _ (λ _, True)); [|done]. apply keeps_on_group. intros g Hg.
  by apply (group_heartbeat_within short fits most short_empty most).
Qed.

Lemma leave_section_keeps i gid id :
  keeps (on_groups (λ c, Some (Groups.leave (time i) c gid id))) (λ _, True).
Proof. apply keeps_on_group. intros g Hg. by apply (group_leave_within short fits most short_empty most). Qed.

Lemma leave_group_keeps request version : keeps (leave_group time request version) (λ _, True).
Proof.
  unfold leave_group. case_match.
  { eapply keeps_bind; [apply leave_section_keeps|done]. }
  eapply (keeps_bind _ _ (λ _, True)); [|done]. generalize 0%nat as i.
  induction (LeaveGroupRequest_members request) as [|m ms IH]; intros i; cbn [leave_members]; [done|].
  eapply (keeps_bind _ _ (λ _, True)).
  - case_decide; [done|]. eapply keeps_bind; [apply leave_section_keeps|done].
  - intros code _. eapply keeps_bind; [apply IH|done].
Qed.

Lemma offset_commit_keeps request :
  Forall (commit_from short) (commits request) → keeps (offset_commit time request) (λ _, True).
Proof.
  intros Hc. unfold offset_commit. eapply (keeps_bind _ _ (λ _, True)); [|done]. case_decide; [done|].
  eapply (keeps_bind _ _ (λ _, True)); [|done]. apply keeps_on_group. intros g Hg.
  by apply (group_commit_within short fits most short_empty most).
Qed.
End handlers.

(** ** What decoded requests hold *)

Lemma decode_frame_header frame request :
  decode_frame frame = value_of (RequestCodec.Request request) →
  ∃ version, Decoded (decode (RequestHeader_codec version)) (dr_header request).
Proof.
  intros Hd. destruct (decode_frame_cases frame) as (r & Hr & Hfrom). rewrite Hd in Hr. injection Hr as <-.
  destruct request as [header key body]. destruct Hfrom as (_ & _ & rest & Hh & _). by eexists _, _, _.
Qed.

Lemma decoded_short v : Decoded (decode KafkaString) v → short (to_str v).
Proof.
  intros Hv%KafkaString_decoded. destruct (Hv []) as [buf' Hb%KafkaString_written].
  unfold short. by rewrite <- of_str_len, of_to_str.
Qed.

Lemma decoded_short_option v : Decoded (decode NullableString) v → opt_from short (to_str <$> v).
Proof.
  destruct v as [v|]; [|done]. intros Hv%NullableString_decoded. cbn.
  destruct (Hv []) as [buf' Hb%KafkaString_written]. unfold short. by rewrite <- of_str_len, of_to_str.
Qed.

Lemma decoded_fits v : Decoded (decode Bytes) v → fits v.
Proof.
  intros (n & Hn%(decoded_int 4) & Hl)%decoded_non_null%decoded_bind; [|done]. revert Hl.
  case_decide; [by intros ?%decoded_ret|]. case_decide; [|by intros ?%decoded_fail].
  intros (s & Hs%decoded_try_get_bytes & [= <-]%decoded_ret)%decoded_bind; [|done].
  unfold fits, in_signed, i32_max in *. cbn in Hn. lia.
Qed.

Lemma header_client_short version header :
  Decoded (decode (RequestHeader_codec version)) header →
  short (from_option to_str "consumer" (RequestHeader_client_id header)).
Proof.
  intros H. unfold RequestHeader_codec, message in H. cbn [decode] in H.
  destruct (_ || _); [by apply decoded_fail in H|]. decoded_fields H. simplify_decoded.
  cbn [RequestHeader_client_id]. destruct v0 as [client|]; [|done]. by apply decoded_short_option in Hv0.
Qed.

Lemma join_request_fits request client :
  Decoded (decode (JoinGroupRequest_codec 5)) request → short (from_option to_str "consumer" client) →
  request_from short fits (join_request request 5 client).
Proof.
  intros H Hclient. take_apart H. split_and!; cbn -[short]; try (by apply decoded_short); [done|].
  apply Forall_fmap. apply decoded_Array in Hv1. eapply Forall_impl; [exact Hv1|]. intros p Hp.
  take_apart Hp. split; cbn -[short fits]; [by apply decoded_short|by apply decoded_fits].
Qed.

Lemma given_fits request :
  Decoded (decode (SyncGroupRequest_codec 3)) request →
  given_from fits (map (λ assignment,
      Groups.mkSyncAssignment (to_str (SyncGroupRequestAssignment_member_id assignment))
        (SyncGroupRequestAssignment_assignment assignment)) (SyncGroupRequest_assignments request)).
Proof.
  intros H. take_apart H. cbn [SyncGroupRequest_assignments]. apply Forall_fmap.
  match goal with Ha : Decoded (decode (Array _)) _ |- _ =>
    apply decoded_Array in Ha; eapply Forall_impl; [exact Ha|] end.
  intros a Ha. take_apart Ha. cbn. by apply decoded_fits.
Qed.

Lemma Forall_concat_map {A B : Type} (P : B → Prop) (f : A → list B) l :
  Forall (λ x, Forall P (f x)) l → Forall P (concat (map f l)).
Proof. induction 1; cbn; [done|]. by apply Forall_app. Qed.

Lemma commits_fit request :
  Decoded (decode (OffsetCommitRequest_codec 7)) request → Forall (commit_from short) (commits request).
Proof.
  intros H. take_apart H. unfold commits. cbn [OffsetCommitRequest_topics]. apply Forall_concat_map.
  match goal with Ha : Decoded (decode (Array _)) _ |- _ =>
    apply decoded_Array in Ha; eapply Forall_impl; [exact Ha|] end.
  intros t Ht. take_apart Ht. cbn [OffsetCommitRequestTopic_name OffsetCommitRequestTopic_partitions].
  apply Forall_fmap. match goal with Ha : Decoded (decode (Array _)) _ |- _ =>
    apply decoded_Array in Ha; eapply Forall_impl; [exact Ha|] end.
  intros p Hp. take_apart Hp. split; cbn -[short]; [by apply decoded_short|by apply decoded_short_option].
Qed.

Lemma requested_short request :
  Decoded (decode (OffsetFetchRequest_codec 5)) request →
  Forall (λ tp, short (Groups.tp_topic tp)) (default [] (requested_offsets request)).
Proof.
  intros H. take_apart H. unfold requested_offsets. cbn [OffsetFetchRequest_topics].
  destruct v2 as [topics|]; [|constructor]. apply decoded_NullableArray in Hv2 as [_ Hv2].
  cbn -[short]. apply Forall_concat_map. eapply Forall_impl; [exact Hv2|].
  intros t Ht. take_apart Ht. cbn -[short]. apply Forall_fmap, Forall_true. intros p. cbn -[short].
  by apply decoded_short.
Qed.

(** ** The answers *)

Lemma short_encodes s : short s → Encodes KafkaString (of_str s).
Proof. intros Hs. apply KafkaString_encodes. by rewrite of_str_len. Qed.

Lemma short_encodes_option s : opt_from short s → Encodes NullableString (of_str <$> s).
Proof. intros Hs. apply NullableString_encodes. destruct s; [|done]. cbn. by rewrite of_str_len. Qed.

Lemma counted_encodes {T : Type} (E : Codec T) l :
  (length l ≤ most)%nat → Forall (Encodes E) l → Encodes (Array E) l.
Proof. intros Hl HE. apply Array_encodes; [|done]. unfold len. rewrite <- most_count. lia. Qed.

Lemma joined_encodes request j :
  joined_from short fits most j →
  Encodes (JoinGroupResponse_codec 5) (join_response request (Ok (Groups.Joined j))).
Proof.
  intros (_ & Hname%short_encodes & Hleader%short_encodes & Hid%short_encodes & Hms & Hlen).
  assert (Encodes NullableString (Some (of_str (Groups.jg_protocol_name j)))) by exact Hname.
  cbn [join_response]. set (members := map _ _).
  assert (Encodes (Array (Struct JoinGroupResponseMember_codec 5)) members).
  { apply counted_encodes; [unfold members; by rewrite length_map|]. apply Forall_fmap.
    eapply Forall_impl; [exact Hms|]. intros m [Hm%short_encodes Hmeta]. cbn -[fits] in *.
    assert (Encodes Bytes (Groups.jm_metadata m)) by (by apply Bytes_encodes). encodes_message. }
  encodes_message.
Qed.

Lemma sync_response_encodes r :
  (∀ a, r = Ok a → fits a) → Encodes (SyncGroupResponse_codec 3) (sync_response r).
Proof.
  intros Hr. destruct r as [a|e]; cbn [sync_response]; [|encodes_message].
  assert (Encodes Bytes a) by (by apply Bytes_encodes, Hr). encodes_message.
Qed.

Lemma described_encodes d :
  short (Groups.gd_group_id d) → short (Groups.gd_state d) → description_from short fits most d →
  Encodes (DescribeGroupsResponse_DescribedGroup_codec 0) (described_group d).
Proof.
  intros Hid%short_encodes Hstate%short_encodes (Htype%short_encodes & Hname%short_encodes & Hlen & Hms).
  unfold described_group. set (members := map _ _).
  assert (Encodes (Array (Struct DescribedGroupMember_codec 0)) members).
  { apply counted_encodes; [unfold members; by rewrite length_map|]. apply Forall_fmap.
    eapply Forall_impl; [exact Hms|]. intros m (Hm%short_encodes & Hc%short_encodes & Hmeta & Ha).
    assert (Encodes Bytes (Groups.gm_metadata m)) by (by apply Bytes_encodes).
    assert (Encodes Bytes (Groups.gm_assignment m)) by (by apply Bytes_encodes). cbv beta. cbn -[fits short]. encodes_message. }
  encodes_message.
Qed.

(** An answer with a generated member identifier that is no protocol string. *)
Definition overlong_id (client : option (list byte)) (response : JoinGroupResponse) : Prop :=
  ∃ sequence, let generated := Groups.member_id_for (from_option to_str "consumer" client) sequence in
    i16_max < Z.of_nat (String.length generated) ∧
    response = join_error_response Errors.MemberIdRequired (of_str generated).

Definition join_sent (client : option (list byte)) (response : JoinGroupResponse) : Prop :=
  Encodes (JoinGroupResponse_codec 5) response ∨ overlong_id client response.

Lemma generated_id_sent client sequence :
  join_sent client (join_error_response Errors.MemberIdRequired
    (of_str (Groups.member_id_for (from_option to_str "consumer" client) sequence))).
Proof.
  set (generated := Groups.member_id_for _ _).
  destruct (decide (Z.of_nat (String.length generated) ≤ i16_max)) as [Hle|Hgt].
  - left. rewrite <- of_str_len in Hle. apply KafkaString_encodes in Hle. encodes_message.
  - right. exists sequence. split; [by apply Z.nle_gt|done].
Qed.

Definition when_answered {A : Type} (P : A → Prop) (r : option A) : Prop :=
  match r with Some a => P a | None => True end.

Section answers.
  Context (time : nat → Groups.clock).

Lemma join_error_encodes error request :
  Decoded (decode (JoinGroupRequest_codec 5)) request →
  Encodes (JoinGroupResponse_codec 5) (join_error_response error (JoinGroupRequest_member_id request)).
Proof. intros H. take_apart H. cbn [JoinGroupRequest_member_id]. encodes_message. Qed.

Lemma join_group_keeps polls request client :
  Decoded (decode (JoinGroupRequest_codec 5)) request → short (from_option to_str "consumer" client) →
  keeps (join_group time polls request 5 client) (when_answered (join_sent client)).
Proof.
  intros H Hclient. unfold join_group. case_decide; [left; by apply join_error_encodes|].
  eapply keeps_bind; [apply join_keeps; by apply join_request_fits|].
  intros [[[id|j]|e]|] Hr; cbn in Hr |- *; [|left|left|done].
  - destruct Hr as [sequence ->]. apply generated_id_sent.
  - by apply (joined_encodes request j).
  - by apply join_error_encodes.
Qed.

Lemma sync_group_keeps polls request :
  Decoded (decode (SyncGroupRequest_codec 3)) request →
  keeps (sync_group time polls request) (when_answered (Encodes (SyncGroupResponse_codec 3))).
Proof.
  intros H. unfold sync_group. case_decide; [cbn; encodes_message|].
  eapply keeps_bind; [by apply sync_keeps, given_fits|]. intros [r|] Hr; [|done].
  apply sync_response_encodes. by intros a ->.
Qed.

Lemma list_groups_keeps : keeps list_groups (Encodes (ListGroupsResponse_codec 0)).
Proof.
  unfold list_groups. eapply (keeps_bind _ _ (λ l, (length l ≤ most)%nat ∧
    Forall (λ g, short (Groups.gs_group_id g) ∧ short (Groups.gs_protocol_type g)) l)).
  - apply keeps_read. intros s Hs [Hsize _]. unfold Groups.list_groups. split.
    + by rewrite length_fmap, merge_sort_Permutation, length_map_to_list.
    + apply Forall_fmap, Forall_forall. intros [gid g] Hin.
      rewrite merge_sort_Permutation, elem_of_map_to_list in Hin. destruct (Hs _ _ Hin) as [? []]. done.
  - intros l [Hlen Hl]. cbn [keeps]. set (listed := map _ _).
    assert (Encodes (Array (Struct ListedGroup_codec 0)) listed).
    { apply counted_encodes; [unfold listed; by rewrite length_map|]. apply Forall_fmap.
      eapply Forall_impl; [exact Hl|]. intros g [Hg%short_encodes Ht%short_encodes]. cbn -[short].
      encodes_message. }
    encodes_message.
Qed.

Lemma state_name_short st : short (Groups.state_name st).
Proof. by destruct st. Qed.

Lemma describe_section_keeps i gid :
  short gid →
  keeps (on_groups (λ c, Some (Groups.describe (time i) c gid)))
    (when_answered (λ d, Encodes (DescribeGroupsResponse_DescribedGroup_codec 0) (described_group d))).
Proof.
  intros Hgid. apply keeps_on_groups. intros s a c Hs [_ Hr]. unfold Groups.describe.
  destruct (Groups.groups (groups s) !! gid) as [g|] eqn:Hg; [|by intros [= <- <-]].
  destruct (Hs _ _ Hg) as [_ Hgf], (Hr _ _ Hg) as [Hsize _].
  destruct (group_describe_within short fits most short_empty fits_empty most (time i) g gid most_le) as [Hd [Hg' _]];
    [split; [done|lia]|]. unfold Groups.group_describe in *.
  intros [= <- <-]. split; [by apply with_group_fit|].
  apply described_encodes; [done|apply state_name_short|done].
Qed.

Lemma missing_group_encodes gid :
  Decoded (decode KafkaString) gid → Encodes (DescribeGroupsResponse_DescribedGroup_codec 0) (missing_group gid).
Proof. intros H. unfold missing_group. encodes_message. Qed.

Lemma describe_groups_keeps request :
  Decoded (decode (DescribeGroupsRequest_codec 0)) request →
  keeps (describe_groups time request) (Encodes (DescribeGroupsResponse_codec 0)).
Proof.
  intros H. unfold describe_groups. take_apart H. cbn [DescribeGroupsRequest_groups].
  match goal with Hl : Decoded (decode (Array KafkaString)) ?l |- _ => rename l into ids; rename Hl into Hids end.
  eapply (keeps_bind _ _ (λ l, length l = length ids ∧
    Forall (Encodes (Struct DescribeGroupsResponse_DescribedGroup_codec 0)) l)).
  - pose proof (decoded_Array _ _ Hids) as Hall. clear Hids. generalize 0%nat as i.
    induction Hall as [|gid ids Hgid _ IH]; intros i; cbn [describe_each]; [done|].
    eapply keeps_bind; [by apply describe_section_keeps, decoded_short|]. intros d Hd.
    eapply keeps_bind; [apply IH|]. intros rest [Hlen Hrest]. cbn. split; [by rewrite Hlen|].
    constructor; [|done]. destruct d; [exact Hd|by apply missing_group_encodes].
  - intros l [Hlen Hl]. cbn [keeps].
    apply decoded_non_null, decoded_NullableArray in Hids as [Hcount _].
    assert (Encodes (Array (Struct DescribeGroupsResponse_DescribedGroup_codec 0)) l).
    { apply Array_encodes; [|done]. unfold len in *. by rewrite Hlen. }
    encodes_message.
Qed.

(** *** OffsetFetch *)

Lemma fetched_partition_encodes o :
  fetched_from short o → Encodes (OffsetFetchResponsePartition_codec 5) (fetched_partition o).
Proof. intros [_ Hm%short_encodes_option]. unfold fetched_partition. encodes_message. Qed.

(** The topics collected so far, after [n] offsets. *)
Definition collected (n : nat) (topics : gmap string (list OffsetFetchResponsePartition)) : Prop :=
  (size topics ≤ n)%nat ∧ map_Forall (λ name ps, short name ∧ (length ps ≤ n)%nat ∧
    Forall (Encodes (Struct OffsetFetchResponsePartition_codec 5)) ps) topics.

Lemma push_collected n topics o :
  collected n topics → fetched_from short o → collected (S n) (push_offset topics o).
Proof.
  intros [Hsize Hall] Ho. pose proof (fetched_partition_encodes o Ho) as He. unfold push_offset. split.
  - rewrite map_size_insert. destruct (topics !! _); cbn; lia.
  - apply map_Forall_insert_2.
    + split; [apply Ho|]. rewrite length_app. destruct (topics !! Groups.fo_topic o) as [ps|] eqn:Hps; cbn.
      * destruct (Hall _ _ Hps) as (_ & Hlen & Hps'). split; [lia|]. apply Forall_app. by repeat constructor.
      * split; [lia|]. by repeat constructor.
    + eapply map_Forall_impl; [exact Hall|]. cbn. intros name ps (? & ? & ?). split_and!; [done|lia|done].
Qed.

Lemma pushes_collected offsets n topics :
  collected n topics → Forall (fetched_from short) offsets →
  collected (n + length offsets) (fold_left push_offset offsets topics).
Proof.
  intros Ht Ho. revert n topics Ht. induction Ho as [|o offsets Ho _ IH]; intros n topics Ht; cbn.
  - by rewrite Nat.add_0_r.
  - rewrite <- Nat.add_succ_comm. by apply IH, push_collected.
Qed.

Lemma group_by_topic_encodes offsets :
  (length offsets ≤ most)%nat → Forall (fetched_from short) offsets →
  Encodes (Array (Struct OffsetFetchResponseTopic_codec 5)) (group_by_topic offsets).
Proof.
  intros Hlen Ho. destruct (pushes_collected offsets 0 ∅) as [Hsize Hall]; [|done|].
  { split; [by rewrite map_size_empty|apply map_Forall_empty]. }
  unfold group_by_topic. apply counted_encodes.
  - rewrite length_map, merge_sort_Permutation, length_map_to_list. lia.
  - apply Forall_fmap, Forall_forall. intros [name ps] Hin.
    rewrite merge_sort_Permutation, elem_of_map_to_list in Hin.
    destruct (Hall _ _ Hin) as (Hname%short_encodes & Hps & Henc). cbn -[short].
    assert (Encodes (Array (Struct OffsetFetchResponsePartition_codec 5)) ps)
      by (apply counted_encodes; [lia|done]). encodes_message.
Qed.

(** The protocol can count the partitions that are asked for. *)
Definition countable_offsets (request : OffsetFetchRequest) : Prop :=
  (length (default [] (requested_offsets request)) ≤ most)%nat.

Lemma offset_fetch_keeps request :
  Decoded (decode (OffsetFetchRequest_codec 5)) request →
  keeps (offset_fetch request) (λ r, countable_offsets request → Encodes (OffsetFetchResponse_codec 5) r).
Proof.
  intros H. pose proof (requested_short request H) as Hreq. unfold offset_fetch.
  eapply (keeps_bind _ _ (λ l, Forall (fetched_from short) l ∧
    (countable_offsets request → length l ≤ most)%nat)).
  - apply keeps_read. intros s Hs [_ Hr]. unfold Groups.fetch_offsets, countable_offsets.
    destruct (Groups.groups (groups s) !! _) as [g|] eqn:Hg.
    + destruct (Hs _ _ Hg) as [_ Hgf], (Hr _ _ Hg) as [_ Hsize]. split; [by eapply group_fetch_from|].
      intros Hc. unfold Groups.group_fetch_offsets. rewrite merge_sort_Permutation.
      destruct (requested_offsets request); rewrite length_fmap; [done|]. by rewrite length_map_to_list.
    + split; [|by rewrite length_fmap]. apply Forall_fmap. eapply Forall_impl; [exact Hreq|]. done.
  - intros l [Hl Hc] Hcount. specialize (Hc Hcount).
    pose proof (group_by_topic_encodes l Hc Hl). encodes_message.
Qed.
End answers.

(** ** Every dispatched request *)

(** An answer that can be sent, or one that names a generated member identifier
    too long to be sent. *)
Definition group_answer_sent (request : DecodedRequest) (response : ResponseKind) : Prop :=
  let version := RequestHeader_request_api_version (dr_header request) in
  (∀ buf, ∃ buf', ResponseKind_encode response version buf = Ok buf') ∨
  ∃ r, response = ResponseKind_JoinGroup r ∧ overlong_id (RequestHeader_client_id (dr_header request)) r.

Definition countable_request (request : DecodedRequest) : Prop :=
  match dr_body request with RequestKind_OffsetFetch body => countable_offsets body | _ => True end.

Definition group_answer (request : DecodedRequest) (r : option (result DispatchError ResponseKind)) : Prop :=
  answers_from_groups (dr_api_key request) = true → countable_request request →
  ∀ response, r = Some (Ok response) → group_answer_sent request response.

Section dispatch.
  Context {crc : Records.Crc32c} (new_v4 : nat → Z).
  Context (time : nat → Groups.clock) (deadline_passed timed_out : nat → bool) (address : AdvertisedAddress).

Lemma answer_keeps {A : Type} (into : A → ResponseKind) (p : prog A) P (Q : option _ → Prop) :
  keeps p P → (∀ a, P a → Q (Some (Ok (into a)))) → keeps (answer into p) Q.
Proof. intros Hp HQ. eapply keeps_bind; [exact Hp|]. exact HQ. Qed.

Lemma answer_waiting_keeps {A : Type} (into : A → ResponseKind) (p : prog (option A)) P (Q : option _ → Prop) :
  keeps p P → (∀ a, P a → Q ((λ r, Ok (into r)) <$> a)) → keeps (answer_waiting into p) Q.
Proof. intros Hp HQ. eapply keeps_bind; [exact Hp|]. exact HQ. Qed.

Lemma dispatch_keeps polls request c :
  typed_request request → Capabilities.capability (dr_api_key request) = Some c →
  Capabilities.supports c (RequestHeader_request_api_version (dr_header request)) = true →
  short (from_option to_str "consumer" (RequestHeader_client_id (dr_header request))) →
  keeps (dispatch new_v4 time deadline_passed timed_out address polls request) (group_answer request).
Proof.
  destruct request as [header key body].
  unfold typed_request, dispatch, group_answer, group_answer_sent, countable_request.
  cbn [dr_header dr_api_key dr_body]. set (version := RequestHeader_request_api_version header).
  intros (_ & _ & Hbody & _) [Hc <-]%Capabilities.capability_Some
    [Hlo%Z.leb_le Hhi%Z.leb_le]%andb_true_iff Hclient.
  unfold Capabilities.CAPABILITIES in Hc.
  repeat (apply elem_of_cons in Hc as [->|Hc]); [..|by apply elem_of_nil in Hc];
    cbn [Capabilities.api_key Capabilities.supported Capabilities.vw_min Capabilities.vw_max answers_from_groups] in *;
    apply decoded_kind in Hbody as (x & -> & Hx); clearbody version.
  - eapply answer_keeps; [apply leaves_keeps, produce_leaves|done].
  - eapply answer_waiting_keeps; [apply leaves_keeps, fetch_wait_leaves|done].
  - eapply answer_keeps; [apply leaves_keeps, list_offsets_leaves|done].
  - eapply answer_keeps; [apply leaves_keeps, metadata_leaves|done].
  - assert (version = 7) as -> by lia. eapply answer_keeps; [by apply offset_commit_keeps, commits_fit|done].
  - assert (version = 5) as -> by lia. eapply answer_keeps; [by apply offset_fetch_keeps|].
    intros r Hr _ Hcount response [= <-]. left. by apply Hr.
  - eapply answer_keeps; [apply leaves_keeps, find_coordinator_leaves|done].
  - assert (version = 5) as -> by lia. eapply answer_waiting_keeps; [by apply join_group_keeps|].
    intros [r|] Hr _ _ response [= <-]. destruct Hr as [Hr|Hr]; [by left|right; by exists r].
  - eapply answer_keeps; [apply heartbeat_keeps|done].
  - eapply answer_keeps; [apply leave_group_keeps|done].
  - assert (version = 3) as -> by lia. eapply answer_waiting_keeps; [by apply sync_group_keeps|].
    intros [r|] Hr _ _ response [= <-]. by left.
  - assert (version = 0) as -> by lia. eapply answer_keeps; [by apply describe_groups_keeps|].
    intros r Hr _ _ response [= <-]. by left.
  - assert (version = 0) as -> by lia. eapply answer_keeps; [by apply list_groups_keeps|].
    intros r Hr _ _ response [= <-]. by left.
  - done.
  - eapply answer_keeps; [apply leaves_keeps, create_topics_leaves|done].
  - eapply answer_keeps; [apply leaves_keeps, init_producer_id_leaves|done].
  - eapply answer_keeps; [apply leaves_keeps, describe_configs_leaves|done].
  - eapply answer_keeps; [apply leaves_keeps, describe_cluster_leaves|done].
  - eapply answer_keeps; [apply leaves_keeps, describe_topic_partitions_leaves|done].
Qed.
End dispatch.

(** ** Requests of any number of connections *)

(** A request and what its handler depends on besides the broker: the clock of
    its critical sections, the rounds in which a fetch finds its deadline passed
    and the number of wake-ups that are observed. *)
Record Arrival : Type := mkArrival {
  ar_request : DecodedRequest;
  ar_time : nat → Groups.clock;
  ar_deadline_passed : nat → bool;
  ar_timed_out : nat → bool;
  ar_polls : nat
}.

Definition task : Type := prog (option (result DispatchError ResponseKind)).

(** A handler takes its next step, or the background task of a group runs; as long
    as the protocol can count what the groups hold. *)
Inductive pool_step : BrokerState * list task → BrokerState * list task → Prop :=
| pool_handler s f s' p l1 l2 :
    roomy s → f s = Some (s', p) → pool_step (s, l1 ++ Step f :: l2) (s', l1 ++ p :: l2)
| pool_background s ps clk gid g :
    roomy s → Groups.groups (groups s) !! gid = Some g →
    pool_step (s, ps) (with_groups s (Groups.with_group (groups s) gid (Groups.drive_group_deadlines clk g).2), ps).

(** The router hands the request to the dispatcher. *)
Definition dispatched (request : DecodedRequest) : Prop :=
  ∃ frame d, decode_frame frame = value_of d ∧ route d = Ok (Dispatch request).

Section pool.
  Context {crc : Records.Crc32c} (new_v4 : nat → Z) (address : AdvertisedAddress).

Definition handler_of (a : Arrival) : task :=
  dispatch new_v4 (ar_time a) (ar_deadline_passed a) (ar_timed_out a) address (ar_polls a) (ar_request a).

Lemma dispatched_keeps a :
  dispatched (ar_request a) → keeps (handler_of a) (group_answer (ar_request a)).
Proof.
  intros (frame & d & Hd & Hr). destruct (route_cases frame d Hd) as [Hrouted _]. rewrite Hr in Hrouted.
  destruct d as [request'|]; [|done]. destruct Hrouted as (Heq & c & Hc & Hs). rewrite <- Heq in *.
  apply (dispatch_keeps _ _ _ _ _ _ _ c); [by eapply decode_frame_body|done|done|].
  destruct (decode_frame_header _ _ Hd) as [version Hh]. by eapply header_client_short.
Qed.

Definition pool_ok (arrivals : list Arrival) (sp : BrokerState * list task) : Prop :=
  groups_fit sp.1 ∧ Forall2 (λ a p, keeps p (group_answer (ar_request a))) arrivals sp.2.

Lemma pool_step_ok arrivals sp sp' : pool_ok arrivals sp → pool_step sp sp' → pool_ok arrivals sp'.
Proof.
  intros [Hs Hps] Hstep. destruct Hstep as [s f s' p l1 l2 Hr Hf|s ps clk gid g Hr Hg]; cbn in *.
  - apply Forall2_app_inv_r in Hps as (a1 & a2 & H1 & H2 & ->).
    apply Forall2_cons_inv_r in H2 as (a & a2' & Ha & H2 & ->).
    specialize (Ha s Hs Hr). rewrite Hf in Ha. destruct Ha as [Hs' Hp].
    split; [done|]. apply Forall2_app; [done|]. by constructor.
  - split; [|done]. destruct (Hs _ _ Hg) as [Hgid Hgf], Hr as [_ Hr]. destruct (Hr _ _ Hg) as [Hsize _].
    apply with_group_fit; [done..|]. apply (drive_within short fits most short_empty most); [done|].
    split; [done|lia].
Qed.

Lemma pool_reachable_ok arrivals sp sp' : pool_ok arrivals sp → rtc pool_step sp sp' → pool_ok arrivals sp'.
Proof. intros Hok Hsteps. induction Hsteps as [|sp sp1 sp2 Hstep _ IH]; [done|]. by eapply IH, pool_step_ok. Qed.

(** C17: the answers of the group APIs can be sent.  Take any requests that were
    decoded from any bytes and dispatched, of all APIs and any number, and let
    their handlers run on a new broker, interleaved in any order with each other
    and with the background tasks of the groups, under any clocks.  When the
    handler of a JoinGroup, SyncGroup, OffsetFetch, ListGroups or DescribeGroups
    request has answered, the answer can be encoded in the version of the request.
    The exception is a new member whose client id makes the identifier it is
    given longer than a protocol string.  The groups, members and offsets have to
    be few enough for the counts of the protocol. *)
Theorem group_answers_can_be_sent (id : Z) (auto force : bool) (partitions : Z) (arrivals : list Arrival)
    (s : BrokerState) (ps : list task) (i : nat) (a : Arrival) (response : ResponseKind) :
  Forall (λ a, dispatched (ar_request a)) arrivals →
  rtc pool_step (BrokerState_new id auto force partitions, handler_of <$> arrivals) (s, ps) →
  arrivals !! i = Some a → ps !! i = Some (Ret (Some (Ok response))) →
  answers_from_groups (dr_api_key (ar_request a)) = true → countable_request (ar_request a) →
  let header := dr_header (ar_request a) in
  (∃ bytes, encode_response (dr_api_key (ar_request a)) (RequestHeader_request_api_version header)
    (RequestHeader_correlation_id header) response = Ok bytes) ∨
  ∃ r, response = ResponseKind_JoinGroup r ∧ overlong_id (RequestHeader_client_id header) r.
Proof.
  intros Hall Hsteps Ha Hp Hkey Hcount header.
  assert (pool_ok arrivals (s, ps)) as [_ Hps].
  { eapply pool_reachable_ok; [|exact Hsteps]. split; [apply map_Forall_empty|]. cbn.
    apply Forall2_fmap_r, Forall_Forall2_diag. eapply Forall_impl; [exact Hall|]. intros x. apply dispatched_keeps. }
  destruct (Forall2_lookup_lr _ _ _ _ _ _ Hps Ha Hp Hkey Hcount response eq_refl) as [Hsent|Hlong]; [left|by right].
  by apply encode_response_total.
Qed.
End pool.

(** ** A listing of the groups of a new broker *)

#[local] Existing Instance Records.crc32c_instance.

Definition list_decoded : DecodedRequest :=
  mkDecodedRequest (mkRequestHeader 16 0 9 None ∅) ApiKey_ListGroups
    (RequestKind_ListGroups ListGroupsRequest_default).
Definition list_frame : list byte := Eval vm_compute in
  match encode_request_header_into_buffer [] (dr_header list_decoded) with
  | Ok bytes => match encode (ListGroupsRequest_codec 0) ListGroupsRequest_default bytes with
    | Ok bytes => bytes | Err _ => [] end
  | Err _ => []
  end.
Definition list_arrival : Arrival :=
  mkArrival list_decoded (λ _, GroupsProperties.at_time 0) (λ _, false) (λ _, false) 1.
Definition nothing_listed : ListGroupsResponse :=
  ListGroupsResponse_default ▷ ListGroupsResponse_with_error_code 0 ▷ ListGroupsResponse_with_groups [].

Lemma group_answers_can_be_sent_witness :
  rtc pool_step (BrokerState_new 1 true false 2, handler_of TopicsCorrect.counting_uuids local_address <$> [list_arrival])
    (BrokerState_new 1 true false 2, [Ret (Some (Ok (ResponseKind_ListGroups nothing_listed)))]) ∧
  ∃ bytes, encode_response ApiKey_ListGroups 0 9 (ResponseKind_ListGroups nothing_listed) = Ok bytes.
Proof.
  assert (rtc pool_step
    (BrokerState_new 1 true false 2, handler_of TopicsCorrect.counting_uuids local_address <$> [list_arrival])
    (BrokerState_new 1 true false 2, [Ret (Some (Ok (ResponseKind_ListGroups nothing_listed)))])) as Hsteps.
  { apply rtc_once. apply (pool_handler (BrokerState_new 1 true false 2) _ _ _ [] []).
    - split; [cbn; rewrite map_size_empty; lia|apply map_Forall_empty].
    - reflexivity. }
  split; [exact Hsteps|].
  destruct (group_answers_can_be_sent TopicsCorrect.counting_uuids local_address 1 true false 2 [list_arrival]
    _ _ 0 list_arrival (ResponseKind_ListGroups nothing_listed)
    ltac:(constructor; [exists list_frame, (RequestCodec.Request list_decoded); split; vm_compute; reflexivity|constructor])
    Hsteps eq_refl eq_refl eq_refl I) as [Hsent|(r & [=] & _)].
  exact Hsent.
Defined.

End GroupAnswers.
