(* ===== verification/Connection.v ===== *)
(** * Connections

    [src/src/kafka/connection.rs] and the part of [src/src/server.rs] that runs
    the connections: [serve] reads frames off a connection, has them decoded,
    routed and dispatched, and writes the answers back.  Any number of
    connections run at once and share the broker; [step] is one atomic step of
    one of them.

    The shutdown channel is selected against the whole of [handle_one]: a change
    drops the request at whichever await it is, and with it the bytes it has
    read, the steps it has still to make, and the part of its answer that is not
    written yet.

    The dispatcher is known here through [DispatcherSpec] only: its answers are
    true of the time in which the request is handled, and stay true.  [session]
    is what a client is promised: its requests are answered one by one, in
    order, each while it is the one being handled. *)

From S2P Require Import Prelude Buf Types MessageCodec MessagesData MessagesBuild.
From S2P Require Import ApiKeys RequestCodec Capabilities ErrorResponse Router Frame.
From S2P Require Import Records Topics TopicsCorrect Broker AdminCorrect Dispatcher.
Open Scope Z_scope.

Module Connection.
Import ApiKeys RequestCodec Capabilities Router Broker AdminCorrect Dispatcher.

(** ** Data *)

(** The error a connection ends with: its cause and where it came up. *)
Inductive ConnectionError : Type :=
| ReadFailed (e : Frame.FrameError)
| DecodeFailed (e : RequestDecodeError)
| RouteFailed (e : RouteError)
| DispatchFailed (e : DispatchError)
| EncodeFailed (e : anyhow)
| WriteFailed (e : Frame.FrameError).

(** The two halves of a socket. *)
Record Connection : Type := mkConnection {
  reader : Frame.Reader;
  writer : Frame.Writer
}.

(** ** Serving *)

(* @ src/src/kafka/connection.rs 74-92 write_response *)
Definition write_response (envelope : ResponseEnvelope) (w : Frame.Writer) :
    option (result ConnectionError () * Frame.Writer) :=
  match encode_response (env_api_key envelope) (env_encoding_version envelope)
    (env_correlation_id envelope) (env_body envelope) with
  | Err e => Some (Err (EncodeFailed e), w)
  | Ok encoded =>
      let! (r, w) := Frame.write_frame encoded w in
      Some (map_err WriteFailed r, w)
  end.

Section serve.
  Context (dispatch : SupportedRequest → prog (option (result DispatchError ResponseKind))).

(** The result [None] is that of a request that is still waiting. *)
Definition handled : Type := option (result ConnectionError bool) * Connection.

Definition respond (envelope : ResponseEnvelope) (c : Connection) : prog handled :=
  do (r, w) <- unwrap (write_response envelope (writer c));
  Ret (Some (r ← r; Ok true), mkConnection (reader c) w).

(* @ src/src/kafka/connection.rs 34-72 handle_one *)
Definition handle_one (c : Connection) : prog handled :=
  do (frame, r) <- unwrap (Frame.read_frame (reader c));
  let c := mkConnection r (writer c) in
  match frame with
  | Err e => Ret (Some (Err (ReadFailed e)), c)
  | Ok None => Ret (Some (Ok false), c)
  | Ok (Some frame) =>
      do decoded <- unwrap (decode_frame frame);
      match decoded with
      | Err e => Ret (Some (Err (DecodeFailed e)), c)
      | Ok decoded =>
          match route decoded with
          | Err e => Ret (Some (Err (RouteFailed e)), c)
          | Ok (Dispatch request) =>
              do body <- dispatch request;
              match body with
              | None => Ret (None, c)
              | Some (Err e) => Ret (Some (Err (DispatchFailed e)), c)
              | Some (Ok body) =>
                  let envelope := {|
                    env_api_key := dr_api_key request;
                    env_encoding_version := RequestHeader_request_api_version (dr_header request);
                    env_correlation_id := RequestHeader_correlation_id (dr_header request);
                    env_body := body |} in
                  if negb (expects_response request) then Ret (Some (Ok true), c) else respond envelope c
              end
          | Ok (Respond envelope) => respond envelope c
          | Ok NoResponse => Ret (Some (Ok true), c)
          end
      end
  end.

(** The arms of the [select!]: the shutdown channel changed, where [closed] says
    that its sender is gone and [value] is what it holds now, or a request was
    handled.  [Some] is the result [serve] returns, [None] the next iteration. *)
Inductive Event : Type :=
| Changed (closed value : bool)
| Handled (r : result ConnectionError bool).

(* @ src/src/kafka/connection.rs 19-30 serve *)
Definition select_arm (event : Event) : option (result ConnectionError ()) :=
  match event with
  | Changed closed value => if closed || value then Some (Ok ()) else None
  | Handled (Err e) => Some (Err e)
  | Handled (Ok handled) => if negb handled then Some (Ok ()) else None
  end.

(** *** Cancelled requests *)

(** Where a request is dropped: after so many bytes of its frame, after so many
    steps of its handler, or after so many bytes of its answer. *)
Inductive Await : Type :=
| Reading (bytes : nat)
| Dispatching (steps : nat)
| Writing (bytes : nat).

Fixpoint run_for {A : Type} (steps : nat) (p : prog A) : prog (option A) :=
  match p, steps with
  | Ret a, _ => Ret (Some a)
  | Step _, O => Ret None
  | Step f, S steps => Step (λ s, match f s with Some (s', p') => Some (s', run_for steps p') | None => None end)
  end.

(** The stream without its first [n] bytes, which were read and are lost. *)
Definition skip (n : nat) (r : Frame.Reader) : Frame.Reader :=
  Frame.mkReader [drop n (Frame.content r)] (Frame.failure r).

(** A writer that got as far as [n] bytes of what [after] has more than it. *)
Definition cut (n : nat) (before after : Frame.Writer) : Frame.Writer :=
  let sent := take n (drop (length (Frame.written before)) (Frame.written after)) in
  Frame.mkWriter (Frame.written before ++ sent) ((λ k, (k - length sent)%nat) <$> Frame.room before)
    (Frame.broken before).

(** What is left of a connection whose request is dropped. *)
(* @ src/src/kafka/connection.rs 19-30 serve *)
Definition cancel (at_await : Await) (c : Connection) : prog Connection :=
  match at_await with
  | Reading n => Ret (mkConnection (skip n (reader c)) (writer c))
  | Dispatching n =>
      do _ <- run_for n (handle_one c);
      do (_, r) <- unwrap (Frame.read_frame (reader c));
      Ret (mkConnection r (writer c))
  | Writing n =>
      do (_, c') <- handle_one c;
      Ret (mkConnection (reader c') (cut n (writer c) (writer c')))
  end.

(** At most [rounds] iterations; [shutdown i] is what the channel says in the
    [i]-th, if it changes before the request is handled, and where the request
    is then. *)
(* @ src/src/kafka/connection.rs 13-32 serve *)
Fixpoint serve (rounds i : nat) (shutdown : nat → option (bool * bool * Await)) (c : Connection) :
    prog (option (result ConnectionError ()) * Connection) :=
  match rounds with
  | O => Ret (None, c)
  | S rounds =>
      match shutdown i with
      | Some (closed, value, at_await) =>
          do c <- cancel at_await c;
          match select_arm (Changed closed value) with
          | Some r => Ret (Some r, c)
          | None => serve rounds (S i) shutdown c
          end
      | None =>
          do (r, c) <- handle_one c;
          match r with
          | None => Ret (None, c)
          | Some r =>
              match select_arm (Handled r) with
              | Some r => Ret (Some r, c)
              | None => serve rounds (S i) shutdown c
              end
          end
      end
  end.

End serve.

(** ** The dispatcher's promise *)

(** [answers request response s0 s1]: [response] is a true answer to [request],
    taken up in [s0] and answered by [s1].  [waits] are the requests that may wait
    for other clients.  [E] is what a dispatch depends on besides the broker:
    clocks, deadlines, wakeups. *)
Class DispatcherSpec `{Records.Crc32c} {E : Type}
    (dispatch : E → SupportedRequest → prog (option (result DispatchError ResponseKind)))
    (waits : DecodedRequest → Prop)
    (answers : DecodedRequest → ResponseKind → BrokerState → BrokerState → Prop) : Prop := {
  answers_last request response s0 s1 s1' :
    broker_extends s1 s1' → answers request response s0 s1 → answers request response s0 s1';
  dispatch_answers e request c s :
    typed_request request → capability (dr_api_key request) = Some c →
    supports c (RequestHeader_request_api_version (dr_header request)) = true → indexable s →
    wp (dispatch e request) (λ r s', match r with
      | Some (Ok response) => answers request response s s'
      | Some (Err _) => False
      | None => waits request
      end) s
}.

(** ** What a client is promised *)

Section promise.
  Context (answers : DecodedRequest → ResponseKind → BrokerState → BrokerState → Prop).

(** The response to a decoded frame: that of its handler when the version is
    served, otherwise the answer for unsupported versions, and none to a produce
    request without acknowledgement. *)
Definition answer_to (d : DecodedFrame) (s0 s1 : BrokerState) (envelope : option ResponseEnvelope) : Prop :=
  match d with
  | Request request =>
      let version := RequestHeader_request_api_version (dr_header request) in
      ∃ c, capability (dr_api_key request) = Some c ∧
      if expects_response request then
        ∃ response, envelope = Some (mkResponseEnvelope (dr_api_key request) version
            (RequestHeader_correlation_id (dr_header request)) response) ∧
          if supports c version then answers request response s0 s1
          else ErrorResponse.unsupported_version request = Ok response
      else envelope = None
  | UnsupportedApiVersions header _ =>
      envelope = Some (mkResponseEnvelope ApiKey_ApiVersions 0 (RequestHeader_correlation_id header)
        ErrorResponse.unsupported_api_versions)
  end.

(** The bytes on the wire of a response, if there is one. *)
Definition reply_bytes (envelope : option ResponseEnvelope) (bytes : list byte) : Prop :=
  match envelope with
  | None => bytes = []
  | Some envelope => ∃ body, bytes = Frame.frame_bytes body ∧ len body ≤ Frame.MAX_FRAME_SIZE ∧
      encode_response (env_api_key envelope) (env_encoding_version envelope)
        (env_correlation_id envelope) (env_body envelope) = Ok body
  end.

(** [frame] was handled between [s0] and [s1], and [bytes] answer it. *)
Definition exchange (s0 s1 : BrokerState) (frame bytes : list byte) : Prop :=
  len frame ≤ Frame.MAX_FRAME_SIZE ∧
  ∃ d envelope, decode_frame frame = value_of d ∧ answer_to d s0 s1 envelope ∧ reply_bytes envelope bytes.

(** From [s0] on, the frames of the client were handled and answered one after
    the other. *)
Inductive session (s0 : BrokerState) : BrokerState → list (list byte * list byte) → Prop :=
| session_start s : broker_extends s0 s → session s0 s []
| session_exchange s1 s2 exchanges frame bytes :
    session s0 s1 exchanges → broker_extends s1 s2 → exchange s1 s2 frame bytes →
    session s0 s2 (exchanges ++ [(frame, bytes)]).

(** The bytes the client sent, and those it was sent. *)
Definition requested (exchanges : list (list byte * list byte)) : list byte :=
  concat (Frame.frame_bytes ∘ fst <$> exchanges).
Definition replied (exchanges : list (list byte * list byte)) : list byte := concat (snd <$> exchanges).

End promise.

End Connection.
