(* ===== verification/Server.v ===== *)
(** * The server: connections that share the broker

    What [handle_one] does to a connection, against the promise of the
    dispatcher, and what any number of connections running at once keep up: each
    of them follows a [session], and the broker its invariant.

    [step] is the scheduler: a listener accepts a connection, a connection takes
    up its next request, one atomic step of a handler runs, a handled request
    ends an iteration of [serve], or the shutdown of the server drops a
    connection wherever it is, in the middle of an answer too.  The shutdown
    channel only ever changes to [true] ([server.rs] 152), so a change ends
    [serve]. *)

From S2P Require Import Prelude Buf Types MessageCodec MessagesData MessagesBuild.
From S2P Require Import ApiKeys RequestCodec Capabilities ErrorResponse Router Frame.
From S2P Require Import Records Topics TopicsCorrect Broker AdminCorrect Dispatcher Connection.
Open Scope Z_scope.

Module Server.
Import ApiKeys RequestCodec Capabilities Router Broker AdminCorrect Dispatcher Connection.

(** ** Frames that were read *)

Lemma first_frame_Some bs e frame rest :
  Frame.first_frame bs e = (Ok (Some frame), rest) →
  bs = Frame.frame_bytes frame ++ rest ∧ len frame ≤ Frame.MAX_FRAME_SIZE.
Proof.
  unfold Frame.first_frame. case_decide as Hlen; [by destruct e, bs|].
  destruct (Frame.decode_frame_length _) as [n|] eqn:Hn; [|done].
  apply Frame.decode_frame_length_Ok in Hn as [-> Hn]. set (z := wrap_signed 32 _) in *.
  case_decide as Hz; [done|]. intros [= <- <-].
  assert (len (take (Z.to_nat z) (drop 4 bs)) = z) as Hl.
  { unfold len in *. rewrite length_take. lia. }
  rewrite Hl. split; [|lia]. unfold Frame.frame_bytes. rewrite Hl, <- (assoc_L (++)), take_drop.
  rewrite <- (take_drop 4 bs) at 1. f_equal.
  assert (length (take 4 bs) = 4%nat) as Ht by (rewrite length_take; lia).
  destruct (wrap_signed_congr 32 (be_val (take 4 bs))) as [k Hk]; [lia|]. fold z in Hk.
  rewrite Hk, <- be_bytes_mod, Z.mod_add, be_bytes_mod by done.
  pose proof (be_bytes_be_val (take 4 bs)) as Hb. by rewrite Ht in Hb.
Qed.

(** ** One request *)

Section handle.
  Context `{Records.Crc32c} {E : Type}.
  Context (dispatch : E → SupportedRequest → prog (option (result DispatchError ResponseKind))).
  Context (waits : DecodedRequest → Prop).
  Context (answers : DecodedRequest → ResponseKind → BrokerState → BrokerState → Prop).
  Context `{!DispatcherSpec dispatch waits answers}.

(** The next frame of [input] holds a request that is handled between [s0] and
    [s] and to which [envelope] is the answer. *)
Definition next_answer (s0 s : BrokerState) (input : list byte) (envelope : ResponseEnvelope) : Prop :=
  ∃ frame rest d, input = Frame.frame_bytes frame ++ rest ∧ decode_frame frame = value_of d ∧
    answer_to answers d s0 s (Some envelope).

Definition envelope_bytes (envelope : ResponseEnvelope) : result anyhow (list byte) :=
  encode_response (env_api_key envelope) (env_encoding_version envelope)
    (env_correlation_id envelope) (env_body envelope).

(** Why a connection ends with an error; [failure] is how its stream ends. *)
Definition error_ok (s0 s : BrokerState) (input : list byte) (failure : option Frame.io_error)
    (e : ConnectionError) : Prop :=
  match e with
  | ReadFailed e => (Frame.first_frame input failure).1 = Err e
  | DecodeFailed e => ∃ frame rest, input = Frame.frame_bytes frame ++ rest ∧ decode_frame frame = raise e
  | RouteFailed e => ∃ frame rest request, input = Frame.frame_bytes frame ++ rest ∧
      decode_frame frame = value_of (Request request) ∧ capability (dr_api_key request) = None ∧
      e = UnsupportedApi (dr_api_key request) (RequestHeader_request_api_version (dr_header request))
        (RequestHeader_correlation_id (dr_header request))
  | DispatchFailed _ => False
  | EncodeFailed e => ∃ envelope, next_answer s0 s input envelope ∧ envelope_bytes envelope = Err e
  | WriteFailed e => ∃ envelope body, next_answer s0 s input envelope ∧ envelope_bytes envelope = Ok body ∧
      (e = Frame.TooLarge (len body) ∧ Frame.MAX_FRAME_SIZE < len body ∨ ∃ io, e = Frame.Io io)
  end.

(** [sent] is the beginning of the answer to the next frame. *)
Definition cut_answer (s0 s : BrokerState) (input sent : list byte) : Prop :=
  sent = [] ∨ ∃ frame rest bytes, input = Frame.frame_bytes frame ++ rest ∧
    exchange answers s0 s frame bytes ∧ sent `prefix_of` bytes.

(** The next frame is a request that waits for other clients. *)
Definition next_waits (input : list byte) : Prop :=
  ∃ frame rest request, input = Frame.frame_bytes frame ++ rest ∧
    decode_frame frame = value_of (Request request) ∧ waits request.

(** What [handle_one] makes of [c], which it takes up in [s0]. *)
Definition handled_ok (s0 : BrokerState) (c : Connection) (h : handled) (s : BrokerState) : Prop :=
  ∃ sent, Frame.written (writer h.2) = Frame.written (writer c) ++ sent ∧
  Frame.failure (reader h.2) = Frame.failure (reader c) ∧
  cut_answer s0 s (Frame.content (reader c)) sent ∧
  match h.1 with
  | None => sent = [] ∧ next_waits (Frame.content (reader c))
  | Some (Ok true) => ∃ frame, Frame.content (reader c) = Frame.frame_bytes frame ++ Frame.content (reader h.2) ∧
      exchange answers s0 s frame sent
  | Some (Ok false) => Frame.content (reader c) = [] ∧ Frame.failure (reader c) = None ∧ sent = []
  | Some (Err e) => error_ok s0 s (Frame.content (reader c)) (Frame.failure (reader c)) e
  end.

Lemma answer_to_stable d s0 s s' envelope :
  broker_extends s s' → answer_to answers d s0 s envelope → answer_to answers d s0 s' envelope.
Proof.
  intros Hext. destruct d as [request|]; [|done]. intros (c & Hc & Ha). exists c. split; [done|].
  destruct (expects_response request); [|done]. destruct Ha as (response & He & Hr).
  exists response. split; [done|]. destruct (supports _ _); [|done]. by eapply answers_last.
Qed.

Lemma exchange_stable s0 s s' frame bytes :
  broker_extends s s' → exchange answers s0 s frame bytes → exchange answers s0 s' frame bytes.
Proof.
  intros Hext (Hf & d & envelope & Hd & Ha & Hr). split; [done|]. exists d, envelope.
  split_and!; [done| |done]. by eapply answer_to_stable.
Qed.

Lemma session_stable s0 s s' exchanges :
  broker_extends s s' → session answers s0 s exchanges → session answers s0 s' exchanges.
Proof.
  intros Hext. destruct 1 as [s ?|s1 s exchanges frame bytes Hs H1 He]; [constructor; by etrans|].
  econstructor; [exact Hs|by etrans|]. by eapply exchange_stable.
Qed.

Lemma session_extends s0 s exchanges : session answers s0 s exchanges → broker_extends s0 s.
Proof. induction 1; [done|by etrans]. Qed.

Lemma cut_answer_stable s0 s s' input sent :
  broker_extends s s' → cut_answer s0 s input sent → cut_answer s0 s' input sent.
Proof.
  intros Hext [->|(frame & rest & bytes & ? & He & ?)]; [by left|]. right. exists frame, rest, bytes.
  split_and!; [done| |done]. by eapply exchange_stable.
Qed.

Lemma cut_answer_prefix s0 s input sent sent' :
  sent' `prefix_of` sent → cut_answer s0 s input sent → cut_answer s0 s input sent'.
Proof.
  intros Hpre [->|(frame & rest & bytes & ? & ? & ?)]; [left; by apply prefix_nil_inv in Hpre|].
  right. exists frame, rest, bytes. split_and!; [done..|]. by etrans.
Qed.

Lemma error_ok_stable s0 s s' input failure e :
  broker_extends s s' → error_ok s0 s input failure e → error_ok s0 s' input failure e.
Proof.
  intros Hext. assert (∀ envelope, next_answer s0 s input envelope → next_answer s0 s' input envelope) as Hnext.
  { intros envelope (frame & rest & d & ? & ? & ?). exists frame, rest, d. split_and!; [done..|].
    by eapply answer_to_stable. }
  destruct e; cbn [error_ok]; try done.
  - intros (envelope & ? & ?). exists envelope. auto.
  - intros (envelope & body & ? & ? & ?). exists envelope, body. auto.
Qed.

Lemma handled_ok_stable s0 c : stable (handled_ok s0 c).
Proof.
  intros [r c'] s s' Hext (sent & Hw & Hf & Hcut & Hr). exists sent. do 2 (split; [done|]).
  split; [by eapply cut_answer_stable|]. cbn in *. destruct r as [[[|]|e]|]; try done.
  - destruct Hr as (frame & Hc & He). exists frame. split; [done|]. by eapply exchange_stable.
  - by eapply error_ok_stable.
Qed.

(** An answer that goes out, or breaks off. *)
Lemma write_frame_error body w e w' :
  len body ≤ Frame.MAX_FRAME_SIZE → Frame.write_frame body w = Some (Err e, w') → ∃ io, e = Frame.Io io.
Proof.
  intros Hb. unfold Frame.write_frame. rewrite decide_False by lia.
  rewrite decide_False by (unfold Frame.MAX_FRAME_SIZE, i32_max in *; lia).
  assert (∀ bs w e w', Frame.write_all bs w = (Err e, w') → ∃ io, e = Frame.Io io) as Hall.
  { intros bs v e' v'. unfold Frame.write_all. destruct (Frame.room v); [|done]. case_decide; [done|].
    intros [= <- _]. by eexists. }
  destruct (Frame.write_all (be_bytes 4 (len body)) w) as [[[]|e1] w1] eqn:H1.
  - intros [= H2]. by eapply Hall.
  - intros [= <- _]. by eapply Hall.
Qed.

Lemma respond_handled s0 c c1 d envelope frame rest s :
  Frame.content (reader c) = Frame.frame_bytes frame ++ rest → len frame ≤ Frame.MAX_FRAME_SIZE →
  decode_frame frame = value_of d → answer_to answers d s0 s (Some envelope) →
  Frame.content (reader c1) = rest → Frame.failure (reader c1) = Frame.failure (reader c) → writer c1 = writer c →
  wp (respond envelope c1) (handled_ok s0 c) s.
Proof.
  intros Hc Hlen Hd Ha Hrest Hf Hw. unfold respond, write_response. rewrite Hw.
  assert (next_answer s0 s (Frame.content (reader c)) envelope) as Hnext by (by exists frame, rest, d).
  destruct (encode_response _ _ _ _) as [body|e] eqn:He.
  2: { exists []. cbn. rewrite app_nil_r. split_and!; [done..|by left|]. by exists envelope. }
  destruct (decide (len body ≤ Frame.MAX_FRAME_SIZE)) as [Hsize|Hbig].
  - destruct (Frame.write_frame_spec body (writer c) Hsize) as (r & sent & w' & Hwrite & Hw' & Hpre & Hok).
    rewrite Hwrite.
    assert (exchange answers s0 s frame (Frame.frame_bytes body)) as Hex.
    { split; [done|]. exists d, (Some envelope). split_and!; [done..|]. exists body. done. }
    exists sent. cbn. split_and!; [done..|right; by exists frame, rest, (Frame.frame_bytes body)|].
    destruct r as [[]|e]; cbn.
    + exists frame. rewrite Hrest, Hok by done. done.
    + exists envelope, body. split_and!; [done..|]. right. by eapply write_frame_error.
  - unfold Frame.write_frame. rewrite decide_True by lia. exists []. cbn. rewrite app_nil_r.
    split_and!; [done..|by left|]. exists envelope, body. split_and!; [done..|]. left. split; [done|lia].
Qed.

Lemma no_answer_handled s0 c c1 d frame rest s :
  Frame.content (reader c) = Frame.frame_bytes frame ++ rest → len frame ≤ Frame.MAX_FRAME_SIZE →
  decode_frame frame = value_of d → answer_to answers d s0 s None →
  Frame.content (reader c1) = rest → Frame.failure (reader c1) = Frame.failure (reader c) → writer c1 = writer c →
  handled_ok s0 c (Some (Ok true), c1) s.
Proof.
  intros Hc Hlen Hd Ha Hrest Hf Hw. exists []. rewrite app_nil_r. cbn. split_and!; [by rewrite Hw|done|by left|].
  exists frame. rewrite Hrest. split; [done|]. split; [done|]. by exists d, None.
Qed.

Lemma ended_handled s0 c c1 r s :
  Frame.failure (reader c1) = Frame.failure (reader c) → writer c1 = writer c →
  match r with
  | None => next_waits (Frame.content (reader c))
  | Some (Ok true) => False
  | Some (Ok false) => Frame.content (reader c) = [] ∧ Frame.failure (reader c) = None
  | Some (Err e) => error_ok s0 s (Frame.content (reader c)) (Frame.failure (reader c)) e
  end → handled_ok s0 c (r, c1) s.
Proof.
  intros Hf Hw Hr. exists []. rewrite app_nil_r. cbn. split_and!; [by rewrite Hw|done|by left|].
  destruct r as [[[|]|e]|]; [done|by destruct Hr|done|done].
Qed.

Lemma first_frame_None bs e rest : Frame.first_frame bs e = (Ok None, rest) → bs = [] ∧ e = None.
Proof.
  unfold Frame.first_frame. case_decide; [by destruct e, bs|].
  destruct (Frame.decode_frame_length _); [|done]. by case_decide.
Qed.

Lemma dispatched_handled e c c1 request frame rest s :
  Frame.content (reader c) = Frame.frame_bytes frame ++ rest → len frame ≤ Frame.MAX_FRAME_SIZE →
  decode_frame frame = value_of (Request request) →
  (∃ cap, capability (dr_api_key request) = Some cap ∧
    supports cap (RequestHeader_request_api_version (dr_header request)) = true) →
  Frame.content (reader c1) = rest → Frame.failure (reader c1) = Frame.failure (reader c) →
  writer c1 = writer c → indexable s →
  wp (do body <- dispatch e request;
      match body with
      | None => Ret (None, c1)
      | Some (Err e) => Ret (Some (Err (DispatchFailed e)), c1)
      | Some (Ok body) =>
          if negb (expects_response request) then Ret (Some (Ok true), c1)
          else respond (mkResponseEnvelope (dr_api_key request)
            (RequestHeader_request_api_version (dr_header request))
            (RequestHeader_correlation_id (dr_header request)) body) c1
      end) (handled_ok s c) s.
Proof.
  intros Hc Hlen Hd (cap & Hcap & Hsup) Hrest Hf Hw Hi. apply wp_bind.
  eapply wp_mono; [|eapply dispatch_answers; [by eapply decode_frame_body|done..]].
  intros [[response|err]|] s1 Hext Ha; cbv beta iota in *; [|done|].
  2: { apply ended_handled; [done..|]. by exists frame, rest, request. }
  destruct (expects_response request) eqn:Hex; cbv beta iota delta [negb].
  - eapply respond_handled; [done..| |done|done|done]. exists cap. rewrite Hex. split; [done|].
    exists response. by rewrite Hsup.
  - eapply no_answer_handled; [done..| |done|done|done]. exists cap. by rewrite Hex.
Qed.

Lemma handle_one_handled e c s : indexable s → wp (handle_one (dispatch e) c) (handled_ok s c) s.
Proof.
  intros Hi. unfold handle_one.
  destruct (Frame.read_frame_spec (reader c)) as (r' & -> & Hrest & Hf). cbn [unwrap bind].
  destruct (Frame.first_frame _ _) as [[[frame|]|err] rest] eqn:Hff; cbn [fst snd] in *.
  - apply first_frame_Some in Hff as [Hc Hlen].
    destruct (decode_frame_cases frame) as (r & Hdec & _). rewrite Hdec. cbn [unwrap bind].
    destruct r as [d|err]; [|apply ended_handled; [done..|]; by exists frame, rest].
    destruct (route_cases frame d Hdec) as [Hrouted _].
    destruct d as [request|header v]; cbn [route] in *.
    2: { by eapply respond_handled. }
    destruct (capability (dr_api_key request)) as [cap|] eqn:Hcap.
    2: { apply ended_handled; [done..|]. by exists frame, rest, request. }
    destruct (supports cap _) eqn:Hsup; [eapply dispatched_handled; eauto|].
    destruct (_ && _); [|destruct (ErrorResponse.unsupported_version request) as [body|err] eqn:Hbody];
      cbn [map_err mbind result_bind] in *; cbv beta iota; [| |done].
    + eapply no_answer_handled; [done..| |done|done|done]. destruct Hrouted as [Hex _].
      exists cap. by rewrite Hex.
    + eapply respond_handled; [done..| |done|done|done]. destruct Hrouted as (_ & _ & _ & _ & Hex & _).
      exists cap. split; [done|]. rewrite Hex. exists body. by rewrite Hsup.
  - apply first_frame_None in Hff. by apply ended_handled.
  - apply ended_handled; [done..|]. cbn. by rewrite Hff.
Qed.

(** ** A whole connection *)

(** [c] is between two requests. *)
Definition in_session (s0 : BrokerState) (input : list byte) (exchanges : list (list byte * list byte))
    (c : Connection) (s : BrokerState) : Prop :=
  input = requested exchanges ++ Frame.content (reader c) ∧
  Frame.written (writer c) = replied exchanges ∧ session answers s0 s exchanges.

(** [c] has answered [exchanges], and possibly a part of the next request. *)
Definition cut_session (s0 : BrokerState) (input : list byte) (exchanges : list (list byte * list byte))
    (rest partial : list byte) (s1 : BrokerState) (c : Connection) (s : BrokerState) : Prop :=
  input = requested exchanges ++ rest ∧ Frame.written (writer c) = replied exchanges ++ partial ∧
  session answers s0 s1 exchanges ∧ broker_extends s1 s ∧ cut_answer s1 s rest partial.

(** How [serve] left the connection [c] in [s], which had [input] to read when it
    started in [s0]. *)
Definition follows (rounds : nat) (shutdown : nat → option (bool * bool * Await)) (s0 : BrokerState)
    (input : list byte) (failure : option Frame.io_error) (r : option (result ConnectionError ()))
    (c : Connection) (s : BrokerState) : Prop :=
  ∃ exchanges rest partial s1, cut_session s0 input exchanges rest partial s1 c s ∧
    match r with
    | None => partial = [] ∧ (length exchanges = rounds ∨ next_waits rest)
    | Some (Ok ()) => rest = [] ∧ partial = [] ∧ failure = None ∨ is_Some (shutdown (length exchanges))
    | Some (Err e) => error_ok s1 s rest failure e
    end.

Lemma in_session_stable s0 input exchanges c s s' :
  broker_extends s s' → in_session s0 input exchanges c s → in_session s0 input exchanges c s'.
Proof. intros Hext (? & ? & ?). split_and!; [done..|]. by eapply session_stable. Qed.

Lemma in_session_next s0 input exchanges c c' frame bytes s s' :
  in_session s0 input exchanges c s → broker_extends s s' →
  Frame.content (reader c) = Frame.frame_bytes frame ++ Frame.content (reader c') →
  Frame.written (writer c') = Frame.written (writer c) ++ bytes → exchange answers s s' frame bytes →
  in_session s0 input (exchanges ++ [(frame, bytes)]) c' s'.
Proof.
  intros (-> & Hw & Hs) Hext Hc Hw' He. unfold in_session, requested, replied in *.
  rewrite !fmap_app, !concat_app. cbn. rewrite !app_nil_r. split_and!.
  - by rewrite Hc, (assoc_L (++)).
  - by rewrite Hw', Hw.
  - by econstructor.
Qed.

Lemma in_session_cut s0 input exchanges c c' sent s s' :
  in_session s0 input exchanges c s → broker_extends s s' →
  Frame.written (writer c') = Frame.written (writer c) ++ sent →
  cut_answer s s' (Frame.content (reader c)) sent →
  cut_session s0 input exchanges (Frame.content (reader c)) sent s c' s'.
Proof. intros (? & Hw & ?) Hext Hw' Hcut. split_and!; [done|by rewrite Hw', Hw|done..]. Qed.

(** What a handled request makes of a session. *)
Lemma handled_session s0 input exchanges c r c' s s' :
  in_session s0 input exchanges c s → broker_extends s s' → handled_ok s c (Some r, c') s' →
  match select_arm (Handled r) with
  | None => ∃ frame bytes, in_session s0 input (exchanges ++ [(frame, bytes)]) c' s'
  | Some res => ∃ rest partial, cut_session s0 input exchanges rest partial s c' s' ∧
      match res with
      | Ok _ => rest = [] ∧ partial = [] ∧ Frame.failure (reader c) = None
      | Err e => error_ok s s' rest (Frame.failure (reader c)) e
      end
  end.
Proof.
  intros Hin Hext (sent & Hw & Hf & Hcut & Hr). cbn [fst snd] in *.
  pose proof (in_session_cut _ _ _ _ _ _ _ _ Hin Hext Hw Hcut) as Hses.
  destruct r as [[|]|e]; cbn [select_arm negb].
  - destruct Hr as (frame & Hc & He). exists frame, sent. by eapply in_session_next.
  - destruct Hr as (Hc & Hn & ->). exists (Frame.content (reader c)), []. by rewrite Hc in *.
  - by exists (Frame.content (reader c)), sent.
Qed.

Lemma wp_run_for {A : Type} n (p : prog A) Q s :
  wp p Q s → wp (run_for n p) (λ r s', match r with Some a => Q a s' | None => True end) s.
Proof.
  revert n p s. fix IH 2. intros n p s. destruct p as [a|f]; [by destruct n|]. destruct n as [|n]; [done|].
  intros Hp s1 Hwf Hext. specialize (Hp s1 Hwf Hext). destruct (f s1) as [[s2 p']|]; [|done].
  destruct Hp as (? & ? & Hp). split_and!; [done..|]. by apply IH.
Qed.

(** A request that is dropped leaves at most a part of its answer. *)
Lemma cancel_cut e s0 input exchanges at_await c s :
  indexable s → in_session s0 input exchanges c s →
  wp (cancel (dispatch e) at_await c) (λ c' s', ∃ partial,
    cut_session s0 input exchanges (Frame.content (reader c)) partial s c' s') s.
Proof.
  intros Hi Hin.
  assert (∀ s' r, broker_extends s s' → ∃ partial, cut_session s0 input exchanges
    (Frame.content (reader c)) partial s (mkConnection r (writer c)) s') as Hnone.
  { intros s' r Hext. exists []. eapply in_session_cut; [done..|by rewrite app_nil_r|by left]. }
  destruct at_await as [n|n|n]; cbn [cancel].
  - by apply Hnone.
  - apply wp_bind. eapply wp_mono; [|by apply wp_run_for, handle_one_handled]. intros h s1 Hext _. clear h.
    destruct (Frame.read_frame_spec (reader c)) as (r' & -> & _). cbn [unwrap bind]. by apply Hnone.
  - apply wp_bind. eapply wp_mono; [|by apply handle_one_handled].
    intros [r c'] s1 Hext (sent & Hw & _ & Hcut & _). cbn [fst snd] in *.
    exists (take n sent). eapply in_session_cut; [done..| |].
    + cbn. by rewrite Hw, drop_app_length.
    + eapply cut_answer_prefix; [|done]. apply prefix_take.
Qed.

(** A change of the channel ends [serve]: it becomes [true], or its sender is gone. *)
Definition shutdowns_end (shutdown : nat → option (bool * bool * Await)) : Prop :=
  ∀ i closed value at_await, shutdown i = Some (closed, value, at_await) → closed || value = true.

Lemma serve_follows e rounds shutdown s0 input failure exchanges c s :
  shutdowns_end shutdown → indexable s → in_session s0 input exchanges c s →
  Frame.failure (reader c) = failure →
  wp (serve (dispatch e) rounds (length exchanges) shutdown c) (λ '(r, c') s',
    follows (length exchanges + rounds) shutdown s0 input failure r c' s') s.
Proof.
  intros Hend. revert exchanges c s. induction rounds as [|rounds IH]; intros exchanges c s Hi Hin Hf; cbn [serve].
  { exists exchanges, (Frame.content (reader c)), [], s. split; [|split; [done|left; lia]].
    eapply in_session_cut; [done..|by rewrite app_nil_r|by left]. }
  destruct (shutdown (length exchanges)) as [[[closed value] at_await]|] eqn:Hdown.
  { apply wp_bind. eapply wp_mono; [|by apply cancel_cut]. intros c' s1 Hext (partial & Hcut). cbn [select_arm].
    rewrite (Hend _ _ _ _ Hdown). exists exchanges, (Frame.content (reader c)), partial, s. split; [done|].
    right. by rewrite Hdown. }
  apply wp_bind. eapply wp_mono; [|by apply handle_one_handled]. intros [r c'] s1 Hext Hh.
  pose proof Hh as (sent & Hw & Hf' & Hcut & Hr). cbn [fst snd] in *. destruct r as [r|].
  - pose proof (handled_session _ _ _ _ _ _ _ _ Hin Hext Hh) as Hsel.
    destruct (select_arm (Handled r)) as [res|].
    + destruct Hsel as (rest & partial & Hses & Hres). exists exchanges, rest, partial, s. split; [done|].
      rewrite Hf in Hres. destruct res as [[]|]; [by left|done].
    + destruct Hsel as (frame & bytes & Hin').
      replace (length exchanges + S rounds)%nat with (length (exchanges ++ [(frame, bytes)]) + rounds)%nat
        by (rewrite length_app; cbn; lia).
      replace (S (length exchanges)) with (length (exchanges ++ [(frame, bytes)])) by (rewrite length_app; cbn; lia).
      apply IH; [by eapply indexable_extends|done|congruence].
  - destruct Hr as [-> Hwaits]. exists exchanges, (Frame.content (reader c)), [], s.
    split; [by eapply in_session_cut|]. split; [done|by right].
Qed.

End handle.

(** ** All connections *)

(** A connection between two requests, in the middle of one, or closed. *)
Inductive Task : Type :=
| Idle
| Running (p : prog handled)
| Closed (r : result ConnectionError ()).

(** [cl_input] is all the client ever sends, [cl_listener] the listener that
    accepted it, whose address the dispatcher advertises. *)
Record Client (L : Type) : Type := mkClient {
  cl_listener : L;
  cl_input : list byte;
  cl_connection : Connection;
  cl_task : Task
}.
Arguments mkClient {L} _ _ _ _.
Arguments cl_listener {L} _.
Arguments cl_input {L} _.
Arguments cl_connection {L} _.
Arguments cl_task {L} _.

Record State (L : Type) : Type := mkState { broker : BrokerState; clients : list (Client L) }.
Arguments mkState {L} _ _.
Arguments broker {L} _.
Arguments clients {L} _.

(** What is written when a connection is dropped: an answer on its way out may
    be cut. *)
Definition dropped_writer (c : Connection) (t : Task) (w : Frame.Writer) : Prop :=
  match t with
  | Closed _ => False
  | Running (Ret (Some _, c')) => ∃ sent, Frame.written w = Frame.written (writer c) ++ sent ∧
      Frame.written w `prefix_of` Frame.written (writer c')
  | Idle | Running _ => Frame.written w = Frame.written (writer c)
  end.

Section server.
  Context `{Records.Crc32c} {L E : Type}.
  Context (dispatch : L → E → SupportedRequest → prog (option (result DispatchError ResponseKind))).
  Context (waits : DecodedRequest → Prop).
  Context (answers : L → DecodedRequest → ResponseKind → BrokerState → BrokerState → Prop).
  Context `{!∀ l, DispatcherSpec (dispatch l) waits (answers l)}.

(* @ src/src/server.rs 216-241 run_kafka_listener *)
Inductive step : State L → State L → Prop :=
| step_accept b cs l r w :
    Frame.written w = [] →
    step (mkState b cs) (mkState b (cs ++ [mkClient l (Frame.content r) (mkConnection r w) Idle]))
| step_take b cs1 cs2 l input c e :
    step (mkState b (cs1 ++ mkClient l input c Idle :: cs2))
      (mkState b (cs1 ++ mkClient l input c (Running (handle_one (dispatch l e) c)) :: cs2))
| step_run b cs1 cs2 l input c f b' p :
    f b = Some (b', p) →
    step (mkState b (cs1 ++ mkClient l input c (Running (Step f)) :: cs2))
      (mkState b' (cs1 ++ mkClient l input c (Running p) :: cs2))
| step_handled b cs1 cs2 l input c r c' :
    step (mkState b (cs1 ++ mkClient l input c (Running (Ret (Some r, c'))) :: cs2))
      (mkState b (cs1 ++ mkClient l input c'
        (match select_arm (Handled r) with Some r => Closed r | None => Idle end) :: cs2))
| step_shutdown b cs1 cs2 l input c t w :
    dropped_writer c t w →
    step (mkState b (cs1 ++ mkClient l input c t :: cs2))
      (mkState b (cs1 ++ mkClient l input (mkConnection (reader c) w) (Closed (Ok ())) :: cs2)).

Inductive reachable : State L → Prop :=
| reachable_init id auto force n :
    1 ≤ n ≤ max_partitions → reachable (mkState (BrokerState_new id auto force n) [])
| reachable_step x y : reachable x → step x y → reachable y.

(** The client was served up to some point, from some moment on. *)
Definition served (x : Client L) (rest partial : list byte) (s1 s : BrokerState) : Prop :=
  ∃ s0 exchanges,
    cut_session (answers (cl_listener x)) s0 (cl_input x) exchanges rest partial s1 (cl_connection x) s.

(** What holds of a client at every moment. *)
Definition client_ok (s : BrokerState) (x : Client L) : Prop :=
  let c := cl_connection x in
  let between s1 := ∃ s0 exchanges, in_session (answers (cl_listener x)) s0 (cl_input x) exchanges c s1 in
  match cl_task x with
  | Idle => between s
  | Running p => ∃ s1, between s1 ∧ broker_extends s1 s ∧
      wp p (handled_ok waits (answers (cl_listener x)) s1 c) s
  | Closed r => ∃ rest partial s1, served x rest partial s1 s ∧
      match r with
      | Ok _ => True
      | Err e => error_ok (answers (cl_listener x)) s1 s rest (Frame.failure (reader c)) e
      end
  end.

Lemma cut_session_stable l s0 input exchanges rest partial s1 c s s' :
  broker_extends s s' → cut_session (answers l) s0 input exchanges rest partial s1 c s →
  cut_session (answers l) s0 input exchanges rest partial s1 c s'.
Proof.
  intros Hext (? & ? & ? & ? & ?). split_and!; [done..|by etrans|by eapply cut_answer_stable].
Qed.

Lemma client_ok_stable s s' x : broker_extends s s' → client_ok s x → client_ok s' x.
Proof.
  intros Hext. unfold client_ok. destruct (cl_task x) as [|p|r].
  - intros (s0 & exchanges & ?). exists s0, exchanges. by eapply in_session_stable.
  - intros (s1 & ? & ? & ?). exists s1. split_and!; [done|by etrans|].
    eapply wp_extends; [by eapply handled_ok_stable|done..].
  - intros (rest & partial & s1 & (s0 & exchanges & Hcut) & He). exists rest, partial, s1. split.
    + exists s0, exchanges. by eapply cut_session_stable.
    + destruct r; [done|]. by eapply error_ok_stable.
Qed.

Definition state_ok (x : State L) : Prop :=
  broker_wf (broker x) ∧ indexable (broker x) ∧ Forall (client_ok (broker x)) (clients x).

Lemma dropped_ok s l input c t w :
  client_ok s (mkClient l input c t) → dropped_writer c t w →
  client_ok s (mkClient l input (mkConnection (reader c) w) (Closed (Ok ()))).
Proof.
  assert (∀ s1 sent, (∃ s0 exchanges, in_session (answers l) s0 input exchanges c s1) → broker_extends s1 s →
    Frame.written w = Frame.written (writer c) ++ sent →
    cut_answer (answers l) s1 s (Frame.content (reader c)) sent →
    client_ok s (mkClient l input (mkConnection (reader c) w) (Closed (Ok ())))) as Hcut.
  { intros s1 sent (s0 & exchanges & Hin) Hext Hw Hsent. exists (Frame.content (reader c)), sent, s1.
    split; [|done]. exists s0, exchanges. by eapply in_session_cut. }
  assert (∀ s1, (∃ s0 exchanges, in_session (answers l) s0 input exchanges c s1) → broker_extends s1 s →
    Frame.written w = Frame.written (writer c) →
    client_ok s (mkClient l input (mkConnection (reader c) w) (Closed (Ok ())))) as Hsame.
  { intros s1 Hin Hext Hw. eapply (Hcut s1 []); [done..|by rewrite app_nil_r|by left]. }
  destruct t as [|[[[r|] c']|f]|r]; cbn [dropped_writer]; try done.
  - intros Hin Hw. by apply (Hsame s).
  - intros (s1 & Hin & Hext & sent & Hw & _ & Hsent & _) (sent' & Hw' & Hpre).
    cbn [cl_connection cl_listener fst snd] in *. rewrite Hw', Hw in Hpre. apply prefix_app_inv in Hpre.
    apply (Hcut s1 sent'); [done..|]. by eapply cut_answer_prefix.
  - intros (s1 & Hin & Hext & _) Hw. by apply (Hsame s1).
  - intros (s1 & Hin & Hext & _) Hw. by apply (Hsame s1).
Qed.

Lemma server_step_ok x y : state_ok x → step x y → state_ok y.
Proof.
  intros (Hwf & Hi & Hcs) Hstep.
  destruct Hstep as [b cs l r w Hw|b cs1 cs2 l input c e|b cs1 cs2 l input c f b' p Hf
    |b cs1 cs2 l input c r c'|b cs1 cs2 l input c t w Hw]; cbn [broker clients] in *;
    try (apply Forall_app in Hcs as [Hcs1 [Hc Hcs2]%Forall_cons]).
  - split_and!; [done..|]. apply Forall_app. split; [done|]. constructor; [|done].
    exists b, []. split_and!; [done|exact Hw|by constructor].
  - split_and!; [done..|]. apply Forall_app. split; [done|]. constructor; [|done].
    exists b. split_and!; [exact Hc|done|]. by apply handle_one_handled.
  - destruct Hc as (s1 & Hin & Hext1 & Hp). cbn in Hp. specialize (Hp b Hwf ltac:(done)). rewrite Hf in Hp.
    destruct Hp as (Hwf' & Hext & Hp).
    assert (∀ cs, Forall (client_ok b) cs → Forall (client_ok b') cs) as Hmono.
    { intros cs Hcs. eapply Forall_impl; [exact Hcs|]. intros z. by apply client_ok_stable. }
    split_and!; [done|by eapply indexable_extends|]. apply Forall_app. split; [by apply Hmono|].
    constructor; [|by apply Hmono]. exists s1. split_and!; [done|by etrans|done].
  - split_and!; [done..|]. apply Forall_app. split; [done|]. constructor; [|done].
    destruct Hc as (s1 & (s0 & exchanges & Hin) & Hext & Hp).
    pose proof (handled_session waits (answers l) _ _ _ _ _ _ _ _ Hin Hext Hp) as Hr.
    destruct Hp as (sent & _ & Hfail & _).
    unfold client_ok. cbn [cl_task cl_connection cl_input cl_listener fst snd] in *.
    destruct (select_arm (Handled r)) as [res|].
    + destruct Hr as (rest & partial & Hses & Hres). exists rest, partial, s1. split; [by exists s0, exchanges|].
      rewrite Hfail. by destruct res.
    + destruct Hr as (frame & bytes & Hin'). by exists s0, (exchanges ++ [(frame, bytes)]).
  - split_and!; [done..|]. apply Forall_app. split; [done|]. constructor; [|done]. by eapply dropped_ok.
Qed.

Lemma server_reachable_ok x : reachable x → state_ok x.
Proof.
  induction 1 as [id auto force n Hn|x y _ IH Hstep]; [|by eapply server_step_ok].
  split_and!; [|unfold indexable; cbn; lia|constructor]. cbn [broker].
  apply BrokerState_new_wf. unfold max_partitions, i32_max, u32_max in *. lia.
Qed.

(** What is promised of every moment of the server. *)
Definition server_ok (x : State L) : Prop :=
  broker_wf (broker x) ∧
  ∀ k, k ∈ clients x → ∃ rest partial s1, served k rest partial s1 (broker x) ∧
    match cl_task k with
    | Idle => partial = []
    | Running (Step f) => partial = [] ∧ is_Some (f (broker x))
    | Running (Ret _) => partial = []
    | Closed (Ok _) => True
    | Closed (Err e) => error_ok (answers (cl_listener k)) s1 (broker x) rest
        (Frame.failure (reader (cl_connection k))) e
    end.

Lemma reachable_server_ok x : reachable x → server_ok x.
Proof.
  intros (Hwf & _ & Hcs)%server_reachable_ok. split; [done|]. intros k Hk.
  rewrite Forall_forall in Hcs. specialize (Hcs k Hk). unfold client_ok in Hcs.
  assert (∀ s1, (∃ s0 exchanges, in_session (answers (cl_listener k)) s0 (cl_input k) exchanges
      (cl_connection k) s1) → broker_extends s1 (broker x) →
    served k (Frame.content (reader (cl_connection k))) [] s1 (broker x)) as Hin.
  { intros s1 (s0 & exchanges & Hin) Hext. exists s0, exchanges.
    eapply in_session_cut; [done..|by rewrite app_nil_r|by left]. }
  destruct (cl_task k) as [|[h|f]|r].
  - eexists _, [], _. split; [by apply Hin|done].
  - destruct Hcs as (s1 & ? & ? & _). eexists _, [], _. split; [by apply (Hin s1)|done].
  - destruct Hcs as (s1 & ? & ? & Hp). eexists _, [], _. split; [by apply (Hin s1)|]. split; [done|].
    cbn in Hp. specialize (Hp _ Hwf ltac:(done)). by destruct (f (broker x)).
  - destruct Hcs as (rest & partial & s1 & ? & ?). exists rest, partial, s1. split; [done|]. by destruct r.
Qed.

End server.

End Server.
