(* ===== verification/ServerCorrect.v ===== *)
(** * The server keeps its promises

    The dispatcher of [Dispatcher] discharges the interface the connections are
    proved against, so that what [Server] shows of connections holds of the
    whole server: bytes in, bytes out. *)

From S2P Require Import Prelude Config Buf Types MessageCodec MessagesData MessagesBuild.
From S2P Require Import ApiKeys RequestCodec Capabilities ErrorResponse Router Frame.
From S2P Require Import Records Topics TopicsCorrect Groups GroupsProperties Broker AdminCorrect BrokerSystem.
From S2P Require Import GroupHandlers Dispatcher AnswerSpec DispatcherCorrect Connection Server.
Open Scope Z_scope.

Module ServerCorrect.
Import ApiKeys RequestCodec Capabilities Router Broker AdminCorrect GroupHandlers Dispatcher DispatcherCorrect.
Import Connection Server.

(** What a dispatch takes from its surroundings: the clock of every critical
    section, whether the deadline of a fetch passed in a round or its wait timed
    out, and how often a waiting call is woken up. *)
Record Surroundings : Type := mkSurroundings {
  at_section : nat → Groups.clock;
  deadline_passed : nat → bool;
  timed_out : nat → bool;
  wakeups : nat
}.

Section server.
  Context `{Records.Crc32c}.
  Context (new_v4 : nat → Z) `{!TopicsCorrect.UniqueUuids new_v4}.

Definition dispatcher (address : AdvertisedAddress) (e : Surroundings) :
    SupportedRequest → prog (option (result DispatchError ResponseKind)) :=
  dispatch new_v4 (at_section e) (deadline_passed e) (timed_out e) address (wakeups e).

(** A true answer to [request], which was taken up in [s0] and answered by [s1]. *)
Definition true_answer (address : AdvertisedAddress) (request : DecodedRequest) (response : ResponseKind)
    (s0 s1 : BrokerState) : Prop :=
  AnswerSpec.answer_ok address (RequestHeader_client_id (dr_header request))
    (RequestHeader_request_api_version (dr_header request)) (dr_body request) response s0 s1.

(** The requests that may wait for other clients. *)
Definition may_wait (request : DecodedRequest) : Prop := waiting_api (dr_api_key request).

#[export] Instance dispatcher_spec address : DispatcherSpec (dispatcher address) may_wait (true_answer address).
Proof.
  split.
  - intros request response s0 s1 s1' Hext. by apply AnswerSpec.answer_ok_lasts.
  - intros e request c s Htyped Hc Hs Hi. eapply wp_mono; [|by eapply dispatch_answered].
    intros [[response|err]|] s' _ Ha; [done..|]. apply Ha.
Qed.



(** A request that runs without interference. *)
Lemma run_steps b cs l input c p h b' :
  run p b = Some (h, b') →
  rtc (step dispatcher) (mkState b (cs ++ [mkClient l input c (Running p)]))
    (mkState b' (cs ++ [mkClient l input c (Running (Ret h))])).
Proof.
  revert p b. fix IH 1. intros p b. destruct p as [h'|f]; cbn.
  - intros [= -> ->]. apply rtc_refl.
  - destruct (f b) as [[b1 p1]|] eqn:Hf; [|done]. intros Hrun.
    eapply rtc_l; [by apply step_run|]. by apply IH.
Qed.

Lemma rtc_reachable x y : reachable dispatcher x → rtc (step dispatcher) x y → reachable dispatcher y.
Proof. intros Hx. induction 1 as [|x y z Hxy _ IH]; [done|]. apply IH. by eapply reachable_step. Qed.

End server.

(** ** A client that produces *)

#[local] Existing Instance Records.crc32c_instance.

Definition calm : Surroundings := mkSurroundings (λ _, GroupsProperties.at_time 0) (λ _, false) (λ _, false) 1.

(** The produce request of [DispatcherCorrect], twice, in three segments. *)
Definition produce_bytes : list byte := Eval vm_compute in Frame.frame_bytes produce_frame.
Definition sample_connection : Connection :=
  mkConnection (Frame.mkReader [take 7 produce_bytes; drop 7 produce_bytes; produce_bytes] None)
    (Frame.mkWriter [] None Frame.UnexpectedEof).

Local Abbreviation sample_dispatcher := (dispatcher TopicsCorrect.counting_uuids local_address calm).

(** A server that is shut down during the second request, five bytes into the
    answer to it. *)
Definition shut_down (i : nat) : option (bool * bool * Await) :=
  if decide (i = 1)%nat then Some (false, true, Writing 5) else None.


(** The state in which the request has been handled. *)
Definition sample_run : handled * BrokerState := Eval vm_compute in
  default ((None, sample_connection), BrokerSystem.broker_0)
    (run (handle_one sample_dispatcher sample_connection) BrokerSystem.broker_0).
Definition sample_state : State AdvertisedAddress :=
  mkState sample_run.2 [mkClient local_address (Frame.content (reader sample_connection)) sample_connection
    (Running (Ret sample_run.1))].

Lemma sample_state_reachable : reachable (dispatcher TopicsCorrect.counting_uuids) sample_state.
Proof.
  eapply rtc_reachable; [apply (reachable_init _ 1 true false 2); unfold max_partitions, i32_max; lia|].
  eapply rtc_l; [apply (step_accept _ _ [] local_address (reader sample_connection)
    (writer sample_connection)); reflexivity|].
  eapply rtc_l; [apply (step_take _ _ [] [] local_address _ _ calm)|].
  apply (run_steps _ _ [] _ _ _ (handle_one sample_dispatcher sample_connection)).
  vm_compute. reflexivity.
Qed.


End ServerCorrect.
